(* ===== verification/_CoqProject ===== *)
-Q . S2P
Prelude.v
Common.v
MuSpec.v
MuBase.v
MuBaseOk.v
MuStruct.v
MuStructOk.v
MuTpm2b.v
MuTpm2bOk.v
MuUnion.v
MuPcr.v
TpmTypes.v
MuTypes.v
MuTypesOk.v
MuRegistry.v
MuProps.v
SysCodes.v
Sys.v
SysOk.v
SysCmds.v
SysCompletes.v
SysOneCalls.v
SysCmdsOk.v
SysAuth.v
SysExec.v
SysSafe.v
SysOutOk.v
SysCompletesOk.v
SysReach.v
SysOneCallOk.v
SysParam.v
SysProps.v
SysCallProps.v
Rc.v
RcProps.v
EsysBase.v
EsysCrypto.v
EsysCtx.v
EsysUtil.v
EsysMu.v
EsysExec.v
EsysTr.v
EsysAsyncs.v
EsysFinishes.v
EsysOneCalls.v
EsysRegistry.v
EsysLogic.v
EsysCryptoOk.v
EsysMuOk.v
EsysUtilOk.v
EsysMachine.v
EsysTable.v
EsysTrMeta.v
EsysFrame.v
EsysNamesOk.v
EsysAuthOk.v
EsysCmdsOk.v
EsysObjects.v
EsysObjectsCmds.v
EsysExamples.v
EsysProps.v
EsysObjectProps.v
JsonCodes.v
JsonC.v
JsonBase.v
JsonNum.v
JsonSer.v
JsonDe.v
JsonOk.v
JsonNumOk.v
JsonListOk.v
JsonTypesOk.v
JsonTame.v
JsonRegistry.v
JsonProps.v
Tcti.v
TctiProps.v
Policy.v
PolicyOk.v
PolicyProps.v
