(* ===== verification/Prelude.v ===== *)
(** * A model of the TPM2 software stack of tpm2-tss.

    The repository is the TCG software stack for TPM 2.0. An application calls
    FAPI (src/tss2-fapi) or ESYS (src/tss2-esys); ESYS keeps object and session
    metadata, computes the authorizations and calls SAPI (src/tss2-sys), which
    turns each command into bytes and each response back into values with the
    marshaling library (src/tss2-mu) and hands the bytes to a transport module
    (src/tss2-tcti). Return codes of all layers are made readable by
    src/tss2-rc.

    ** Files and what they model

    - [Prelude]: outcomes with undefined behaviour, bounded memory, images of
      integers, tactics. [Common]: return codes (include/tss2/tss2_common.h)
      and the byte order macros (src/util/tss2_endian.h), for hosts of either
      byte order (class [Host]).
    - Marshaling library. [MuSpec] says what a codec promises ([codec_ok],
      against an abstract [spec] of a type: well-formed objects, wire image,
      what of an object is on the wire). [MuBase], [MuTpm2b] (lists too),
      [MuStruct], [MuUnion], [MuPcr] translate the macros of base-types.c,
      tpm2b-types.c, tpms-types.c and tpmt-types.c, tpml-types.c,
      tpmu-types.c; the [...Ok] files prove each macro against its spec.
      [TpmTypes] holds the structures of include/tss2/tss2_tpm2_types.h,
      [MuTypes] one definition per generated function, [MuTypesOk] that each
      meets its spec, [MuRegistry] the list of all 154 types. [MuProps] are the
      properties: round trip across hosts and no access out of bounds for every
      type of the list, the exact success condition of marshaling for the
      objects it can read ([s_dom]), canonicity for the strict types (all but
      the six TPM2B that hold a structure), errors that leave the offset; and
      departures from the contract.
    - System API. [SysCodes]: command codes and the table of handle counts.
      [Sys]: the context ([TSS2_SYS_CONTEXT_BLOB], sysapi_util.h), the helpers
      of sysapi_util.c and the functions of api/ that are not commands.
      [SysCmds], [SysCompletes], [SysOneCalls]: the three functions of each of
      the 130 commands, in the order of the C files, over combinators for
      output parameters at the end of [Sys]. A context is [option blob], [None]
      for NULL; a pointer into the buffer is an offset. The transport is a
      record of functions over a state of its own ([TSS2_TCTI_CONTEXT]); what
      the theorems ask of it is the class [Tpm2Transport] and the record
      [answers], met by the transports of the witnesses.
      [SysOk], [SysCmdsOk], [SysAuth], [SysExec], [SysOutOk], [SysCompletesOk],
      [SysOneCallOk], [SysParam] prove the contracts of the parts;
      [prepare_of], [complete_of] and [one_call_of] relate the functions of a
      command to its code, handles and parameters. [SysSafe] and [SysReach] are
      the invariant of the context and its sequences of calls as a step
      relation. [SysProps] and [SysCallProps] are the properties: what is
      prepared, sent and received, reissue after errors, the order of stages,
      parameter encryption buffers, whole one-call functions with and without
      sessions, and departures from the contract. Responses are those of 128
      commands: SignSequenceStart and VerifySequenceStart misread theirs
      ([SequenceStart_misreads]). The sequences of calls are those of
      [sys_call], which leave out [Tss2_Sys_GetRspAuths]
      ([GetRspAuths_overread]).
    - Return codes. [Rc] is tss2_rc.c; [RcProps] shows that decoding is the
      concatenation of the texts of the fields, that building and taking apart
      codes are inverse, and what registering a handler changes.
    - Enhanced System API. [EsysBase]: the constants and the monad of a C
      function that changes a context and returns a code ([M], [bind],
      [on_error] for goto). [EsysCrypto] is esys_crypto.c over a record of
      callbacks; what a back end computes is a [crypto_model] with the laws of
      the class [CryptoLaws] (digests depend on the algorithm, the key and the
      bytes that were given). [EsysCtx]: the context ([ESYS_CONTEXT],
      esys_int.h, esys_types.h); the list of objects is a heap of nodes and a
      list of addresses. [EsysUtil] is esys_iutil.c, [EsysMu]
      esys_mu.c and the names of esys_iutil.c, [EsysTr] and [EsysTrMeta]
      esys_tr.c, esys_cp_rp_hash.c and part of esys_context.c in [EsysTr]. [EsysExec] holds the two
      programs that every [_Async] and [_Finish] function is an instance of,
      [EsysTr] also what only some of them do; [EsysAsyncs], [EsysFinishes], [EsysOneCalls] the
      functions of the 130 commands of api/, [EsysRegistry] their list
      ([is_async], [is_finish]).
      [EsysLogic] has the rules of the monad ([goes] for success, [Keeps] for a
      relation that every run respects). [EsysCryptoOk], [EsysUtilOk],
      [EsysAuthOk], [EsysMuOk], [EsysNamesOk] are the contracts
      of the parts; [EsysMachine] the abstract machine of a command and
      [EsysCmdsOk] that all commands follow it; [EsysTable] the map of handles
      that the list of objects stands for; [EsysFrame],
      [EsysObjects] what each part leaves alone; [EsysObjectsCmds] the objects
      of all commands;
      [EsysTrMeta] also objects as bytes. [EsysExamples] has a back end, a
      transport and contexts for the witnesses. [EsysProps] and
      [EsysObjectProps] are the properties: authorizations of commands and
      responses, key derivation, parameter obfuscation, the protocol of calls,
      the map of handles along every sequence of calls, names of keys,
      serialization. Where the code departs from its contract (a password
      after a slot that is left out, response codes that look like TRY_AGAIN,
      StartAuthSession that fails late) the statements exclude the case, and
      their comments say so.
    - TPM types as JSON (tpm_json_serialize.c and tpm_json_deserialize.c of
      src/tss2-fapi). [JsonC] is the interface of json-c, with its laws
      ([JsonLaws]) and the assumption that it finds memory ([Reliable]);
      [JsonProps] has an implementation of it. [JsonBase] and [JsonNum] are the
      statements the functions consist of, [JsonSer] and [JsonDe] the functions
      and their tables of names, [JsonCodes] the constants they name. [JsonOk],
      [JsonNumOk], [JsonListOk] and [JsonTypesOk] build a [codec] for each type
      from the codecs of its parts; [JsonTame] shows that serializers do not go
      wrong; [JsonRegistry] lists the types. [JsonProps] are the properties:
      what is written of the domain of a codec is read back with the same wire
      image, serializers of values with the format of their type return success
      or BAD_VALUE, enumerations are written exactly for their values, hex
      digits stay inside their array; and two kinds of types that fail.
    - Transport. [Tcti]: what the modules of src/tss2-tcti share
      (tcti-common.c), configuration strings (src/util/key-value-parse.c) and
      the loader (tctildr.c), and tcti-spi-helper.c over the functions of a
      platform. [TctiProps]: configuration strings are taken apart as they
      were put together, the loader is transparent, and over a register file
      ([RegisterFile]) with a TPM behind it ([TisDevice], the TIS protocol, and
      a timer that may expire) the SPI transport of a little-endian host
      delivers commands and responses, or gives up with TRY_AGAIN where the
      timer has expired; it is a transport as the theorems of the System API ask
      for one ([spi_answers] gives [answers]).
    - Policy digests. [Policy] is ifapi_policy_calculate.c of src/tss2-fapi with
      the functions of fapi_crypto.c, ifapi_helpers.c, ifapi_policy_execute.c
      and ifapi_policy.c that it needs; OpenSSL is the class [Evp]. [PolicyOk]
      has its laws ([EvpLaws]), a logic for computations that fail only as the
      library does ([runs]), and the commands of TPM 2.0 Part 3 that change the
      digest of a session (module [Tpm]). [PolicyProps]: the digest of a policy
      is that of a TPM session after its commands, for the policies of
      [policy_ok], where the elements that a TPM resets the digest for come
      first; and what the code does elsewhere.

    ** How effects are modelled

    A body that may run into undefined behaviour returns an [outcome];
    [Undef] is an access outside an object, a NULL dereference or the read of
    an inactive union member. Return codes are values; out parameters and the
    objects that are changed in place are returned beside the code, also on
    failure. [size_t] has 64 bits ([wrap64]); the w-bit integers wrap where
    the code can. In the System API and the marshaling library no definition
    needs fuel: the loops run over the counts of the C code. In ESYS the loop of
    a one-call function has fuel; six calls are enough because a command is
    submitted at most five times and no result has the base number of
    TRY_AGAIN ([EsysProps.esys_one_call_ends]). The loops of
    the key derivations have as much fuel as the bytes they fill, and end
    before it ([EsysProps.esys_KDFa]). The loops of the SPI transport that
    wait for the TPM have no bound in the code; they take fuel, and are [Undef]
    without it. A number above the lag of the TPM and the length of the message
    is enough ([TctiProps.spi_delivers]). [calloc] may fail at any call (class
    [Memory]); what a variable of the stack holds before it is set is a
    parameter of the same class.

    ** Not modelled, and why

    - The cryptographic back ends call OpenSSL or mbedTLS; sockets, devices,
      USB, processes, files, logging and dynamic loading are input and output:
      the other modules of src/tss2-tcti, src/util-io, the logger of src/util,
      and how the loader finds a library.
    - The rest of src/tss2-fapi rests on the file system, TLS and the parser of
      json-c, and consists of state machines above ESYS, the execution of
      policies among them; of the JSON form, the
      warnings about unknown members are left out. src/tss2-policy is a wrapper
      of its policy engine; src/tss2-dlopen only forwards calls.
    - The checks compiled in with DISABLE_WEAK_CRYPTO. *)

(** ** Shared prelude *)

(** Bytes, bounded memory, machine integers, tactics:
    - [outcome], the result of a C function body that may run into undefined
      behaviour (an access outside an object, a NULL dereference, the read of
      a union member that is not the active one);
    - byte sequences, with bounded [mem_read] and [mem_write] (the [memcpy]s
      of the sources);
    - little-endian and big-endian images of unsigned integers;
    - wrap-around of [size_t] and of the w-bit unsigned types;
    - the tactics and the hint database the components use. *)

From stdpp Require Export base list option.
From Stdlib Require Export ZArith Lia.
From stdpp Require Import tactics numbers.

#[global] Open Scope Z_scope.

(** ** Outcomes *)

Inductive outcome (A : Type) : Type :=
| Ret (a : A)
| Undef.
Arguments Ret {A} a.
Arguments Undef {A}.

Declare Scope tss_scope.
Delimit Scope tss_scope with tss.

Definition obind {A B} (m : outcome A) (k : A -> outcome B) : outcome B :=
  match m with Ret a => k a | Undef => Undef end.

Notation "'let*' p ':=' c 'in' k" :=
  (match c with Ret p => k | Undef => Undef end)
  (at level 10, p pattern, c at level 100, k at level 200) : tss_scope.

(** Turns a partial memory access into an outcome. *)
Definition access {A} (o : option A) : outcome A :=
  match o with Some a => Ret a | None => Undef end.

(** ** Bytes and memory *)

Abbreviation bytes := (list Z).

Definition is_byte (z : Z) : Prop := 0 <= z < 256.
Abbreviation bytes_ok := (Forall is_byte).

#[export] Instance is_byte_dec z : Decision (is_byte z).
Proof. unfold is_byte. apply _. Defined.

Definition Zlen {A} (l : list A) : Z := Z.of_nat (length l).

Definition mem_read (b : bytes) (off n : Z) : option bytes :=
  if (0 <=? off) && (0 <=? n) && (off + n <=? Zlen b)
  then Some (take (Z.to_nat n) (drop (Z.to_nat off) b))
  else None.

Definition mem_write (b : bytes) (off : Z) (w : bytes) : option bytes :=
  if (0 <=? off) && (off + Zlen w <=? Zlen b)
  then Some (take (Z.to_nat off) b ++ w ++ drop (Z.to_nat (off + Zlen w)) b)
  else None.

(** [same_outside b b' lo hi]: every read that stays clear of [lo, hi) sees
    the same bytes in [b] and in [b'], and [b'] holds bytes if [b] does. *)
Definition same_outside (b b' : bytes) (lo hi : Z) : Prop :=
  Zlen b' = Zlen b /\ (bytes_ok b -> bytes_ok b') /\
  forall off n, off + n <= lo \/ hi <= off -> mem_read b' off n = mem_read b off n.

(** ** Tactics *)

(** Turns boolean comparisons in the context and the goal into propositions. *)
Ltac bool2prop :=
  repeat match goal with
  | H : negb _ = true |- _ => apply negb_true_iff in H
  | H : negb _ = false |- _ => apply negb_false_iff in H
  | H : (_ && _)%bool = true |- _ => apply andb_true_iff in H; destruct H
  | H : (_ || _)%bool = false |- _ => apply orb_false_iff in H; destruct H
  | H : (_ && _)%bool = false |- _ => apply andb_false_iff in H
  | H : (_ || _)%bool = true |- _ => apply orb_true_iff in H
  | H : (_ <? _) = true |- _ => apply Z.ltb_lt in H
  | H : (_ <? _) = false |- _ => apply Z.ltb_ge in H
  | H : (_ <=? _) = true |- _ => apply Z.leb_le in H
  | H : (_ <=? _) = false |- _ => apply Z.leb_gt in H
  | H : (_ =? _) = true |- _ => apply Z.eqb_eq in H
  | H : (_ =? _) = false |- _ => apply Z.eqb_neq in H
  end.

(** Case analysis on the boolean tests of an [if]. *)
Ltac case_test :=
  match goal with
  | |- context [if ?c then _ else _] => destruct c eqn:?; bool2prop
  | H : context [if ?c then _ else _] |- _ => destruct c eqn:?; bool2prop
  end.

(** Breaks conjunctions and existentials of the context. *)
Ltac unpack :=
  repeat match goal with
  | H : _ /\ _ |- _ => destruct H
  | H : exists _, _ |- _ => destruct H
  end.

(** Injectivity of [Some] without reduction of the arguments. *)
Ltac some_inv :=
  repeat match goal with
  | H : Some _ = None |- _ => discriminate H
  | H : None = Some _ |- _ => discriminate H
  | H : Some ?a = Some ?b |- _ => apply (inj Some) in H; first [subst a|subst b|idtac]
  end.

Create HintDb tss.
Create Rewrite HintDb zlen.

(** ** Lengths *)

Lemma Zlen_nonneg {A} (l : list A) : 0 <= Zlen l.
Proof. unfold Zlen. lia. Qed.

Lemma Zlen_nil {A} : Zlen (@nil A) = 0.
Proof. reflexivity. Qed.

Lemma Zlen_cons {A} (x : A) l : Zlen (x :: l) = 1 + Zlen l.
Proof. unfold Zlen. simpl. lia. Qed.

Lemma Zlen_app {A} (l k : list A) : Zlen (l ++ k) = Zlen l + Zlen k.
Proof. unfold Zlen. rewrite length_app. lia. Qed.

Lemma Zlen_replicate {A} n (x : A) : Zlen (replicate n x) = Z.of_nat n.
Proof. unfold Zlen. by rewrite length_replicate. Qed.

Lemma Zlen_0_nil {A} (l : list A) : Zlen l = 0 -> l = [].
Proof. destruct l; [done|]. rewrite Zlen_cons. pose proof (Zlen_nonneg l). lia. Qed.

#[export] Hint Rewrite @Zlen_nil @Zlen_cons @Zlen_app @Zlen_replicate : zlen.
#[export] Hint Resolve Zlen_nonneg : tss.

(** [lia] with the lengths of the context known to be non-negative. *)
Ltac zlia :=
  autorewrite with zlen in *;
  repeat match goal with
  | |- context [Zlen ?l] =>
      lazymatch goal with H : 0 <= Zlen l |- _ => fail | _ => pose proof (Zlen_nonneg l) end
  | H : context [Zlen ?l] |- _ =>
      lazymatch goal with H : 0 <= Zlen l |- _ => fail | _ => pose proof (Zlen_nonneg l) end
  end; lia.

(** ** Reads and writes *)

Lemma mem_read_Some b off n w :
  mem_read b off n = Some w <->
  0 <= off /\ 0 <= n /\ off + n <= Zlen b /\
  w = take (Z.to_nat n) (drop (Z.to_nat off) b).
Proof.
  unfold mem_read. case_test; split; intros E; simplify_eq; try done;
    destruct_and?; subst; try done; lia.
Qed.

Lemma mem_read_len b off n w : mem_read b off n = Some w -> Zlen w = n.
Proof.
  rewrite mem_read_Some. intros (?&?&Hn&->). unfold Zlen in *.
  rewrite length_take, length_drop. lia.
Qed.

Lemma mem_read_is_Some b off n :
  0 <= off -> 0 <= n -> off + n <= Zlen b -> exists w, mem_read b off n = Some w.
Proof. intros. eexists. apply mem_read_Some. naive_solver. Qed.

Lemma mem_read_0 b off : 0 <= off <= Zlen b -> mem_read b off 0 = Some [].
Proof. intros. apply mem_read_Some. split_and!; (lia || done). Qed.

Lemma mem_read_all b : mem_read b 0 (Zlen b) = Some b.
Proof.
  apply mem_read_Some. pose proof (Zlen_nonneg b). split_and!; [lia..|].
  rewrite drop_0, firstn_all2; [done|]. unfold Zlen. lia.
Qed.

Lemma mem_read_bytes b off n w :
  bytes_ok b -> mem_read b off n = Some w -> bytes_ok w.
Proof.
  rewrite mem_read_Some. intros Hb (?&?&?&->).
  by apply Forall_take, Forall_drop.
Qed.

(** A read of [n1 + n2] bytes is a read of [n1] bytes followed by one of
    [n2] bytes. *)
Lemma mem_read_app b off n1 n2 w1 w2 :
  mem_read b off n1 = Some w1 -> mem_read b (off + n1) n2 = Some w2 ->
  mem_read b off (n1 + n2) = Some (w1 ++ w2).
Proof.
  rewrite !mem_read_Some. intros (?&?&?&->) (?&?&?&->).
  repeat split; try lia.
  rewrite !Z2Nat.inj_add by lia.
  rewrite <-(drop_drop b).
  by rewrite take_take_drop.
Qed.

Lemma mem_read_split b off w1 w2 :
  mem_read b off (Zlen (w1 ++ w2)) = Some (w1 ++ w2) ->
  mem_read b off (Zlen w1) = Some w1 /\ mem_read b (off + Zlen w1) (Zlen w2) = Some w2.
Proof.
  rewrite Zlen_app. intros Hr.
  pose proof (Zlen_nonneg w1). pose proof (Zlen_nonneg w2).
  apply mem_read_Some in Hr as (?&?&?&Hw).
  destruct (mem_read_is_Some b off (Zlen w1)) as [v1 Hv1]; [lia..|].
  destruct (mem_read_is_Some b (off + Zlen w1) (Zlen w2)) as [v2 Hv2]; [lia..|].
  pose proof (mem_read_app _ _ _ _ _ _ Hv1 Hv2) as Hv.
  apply mem_read_Some in Hv as (_&_&_&Hv).
  rewrite <-Hw in Hv. apply mem_read_len in Hv1 as L1.
  apply app_inj_1 in Hv as [-> ->]; [done|]. unfold Zlen in L1. lia.
Qed.

(** A read inside a region sees the bytes of the region. *)
Lemma mem_read_sub b o n w o' n' :
  mem_read b o n = Some w -> o <= o' -> 0 <= n' -> o' + n' <= o + n ->
  mem_read b o' n' = mem_read w (o' - o) n'.
Proof.
  intros R ???. pose proof (mem_read_len _ _ _ _ R) as L.
  apply mem_read_Some in R as (?&?&?&E). unfold mem_read. rewrite L.
  replace ((0 <=? o') && (0 <=? n') && (o' + n' <=? Zlen b)) with true
    by (symmetry; repeat (apply andb_true_iff; split); apply Z.leb_le; lia).
  replace ((0 <=? o' - o) && (0 <=? n') && (o' - o + n' <=? n)) with true
    by (symmetry; repeat (apply andb_true_iff; split); apply Z.leb_le; lia).
  f_equal. subst w. rewrite skipn_firstn_comm, drop_drop, take_take. f_equal; [lia|].
  f_equal. lia.
Qed.

Lemma mem_write_Some b off w b' :
  mem_write b off w = Some b' <->
  0 <= off /\ off + Zlen w <= Zlen b /\
  b' = take (Z.to_nat off) b ++ w ++ drop (Z.to_nat (off + Zlen w)) b.
Proof.
  unfold mem_write. case_test; split; intros E; simplify_eq; try done;
    destruct_and?; subst; try done; lia.
Qed.

Lemma mem_write_is_Some b off w :
  0 <= off -> off + Zlen w <= Zlen b -> exists b', mem_write b off w = Some b'.
Proof. intros. eexists. apply mem_write_Some. naive_solver. Qed.

Lemma mem_write_len b off w b' : mem_write b off w = Some b' -> Zlen b' = Zlen b.
Proof.
  rewrite mem_write_Some. intros (?&?&->). unfold Zlen in *.
  rewrite !length_app, length_take, length_drop. lia.
Qed.

Lemma mem_write_bytes b off w b' :
  bytes_ok b -> bytes_ok w -> mem_write b off w = Some b' -> bytes_ok b'.
Proof.
  rewrite mem_write_Some. intros Hb Hw (?&?&->).
  rewrite !Forall_app. auto using Forall_take, Forall_drop.
Qed.

Lemma mem_write_nil b off : 0 <= off <= Zlen b -> mem_write b off [] = Some b.
Proof.
  intros. apply mem_write_Some. rewrite (Zlen_nil (A:=Z)), Z.add_0_r. simpl.
  rewrite take_drop. split_and!; (lia || done).
Qed.

(** Two adjacent writes are one write. *)
Lemma mem_write_app b off w1 w2 b1 b2 :
  mem_write b off w1 = Some b1 -> mem_write b1 (off + Zlen w1) w2 = Some b2 ->
  mem_write b off (w1 ++ w2) = Some b2.
Proof.
  intros E1 E2. apply mem_write_len in E1 as L1.
  apply mem_write_Some in E1 as (?&?&->). apply mem_write_Some in E2 as (?&?&->).
  apply mem_write_Some. rewrite Zlen_app in *. split_and!; [lia..|].
  set (p := take (Z.to_nat off) b).
  assert (Lp : length p = Z.to_nat off).
  { unfold p. rewrite length_take. unfold Zlen in *. lia. }
  assert (E : Z.to_nat (off + Zlen w1) = length (p ++ w1)).
  { rewrite length_app, Lp. unfold Zlen. lia. }
  rewrite !app_assoc. rewrite take_app_le by lia. rewrite E, take_ge by lia.
  rewrite <-!app_assoc. do 2 f_equal. f_equal.
  rewrite (app_assoc p), drop_app_ge by (rewrite length_app, Lp; unfold Zlen; lia).
  rewrite drop_drop. f_equal. rewrite length_app, Lp. unfold Zlen. lia.
Qed.

(** A write over the first bytes of an earlier write. *)
Lemma mem_write_prefix b off x y w b2 b3 :
  Zlen y = Zlen x -> mem_write b off (x ++ w) = Some b2 -> mem_write b2 off y = Some b3 ->
  mem_write b off (y ++ w) = Some b3.
Proof.
  intros L E2 E3. apply mem_write_Some in E2 as (?&?&->).
  apply mem_write_Some in E3 as (?&?&->). apply mem_write_Some.
  rewrite !Zlen_app in *. split_and!; [lia..|].
  set (p := take (Z.to_nat off) b). set (q := drop (Z.to_nat (off + (Zlen x + Zlen w))) b).
  assert (Lp : length p = Z.to_nat off).
  { unfold p. rewrite length_take. unfold Zlen in *. lia. }
  rewrite <-Lp at 1. rewrite take_app_length.
  rewrite (drop_app_ge p) by (rewrite Lp; unfold Zlen; lia).
  replace (_ - length p)%nat with (length x) by (rewrite Lp; unfold Zlen in *; lia).
  rewrite <-!app_assoc, drop_app_length. unfold q. by rewrite L.
Qed.

(** Writing back what is there changes nothing. *)
Lemma mem_write_same b off n w : mem_read b off n = Some w -> mem_write b off w = Some b.
Proof.
  intros R. pose proof (mem_read_len _ _ _ _ R) as L. apply mem_read_Some in R as (?&?&?&E).
  apply mem_write_Some. split_and!; [done|lia|]. rewrite L, E, Z2Nat.inj_add by lia.
  by rewrite <-drop_drop, take_drop, take_drop.
Qed.

(** A region that is overwritten and then restored. *)
Lemma mem_write_restore b off w h b1 b2 :
  mem_read b off (Zlen w) = Some h -> mem_write b off w = Some b1 ->
  mem_write b1 off h = Some b2 -> b2 = b.
Proof.
  intros R W1 W2. pose proof (mem_read_len _ _ _ _ R) as L.
  assert (W : mem_write b off (h ++ []) = Some b2).
  { apply (mem_write_prefix b off w h [] b1 b2); by rewrite ?app_nil_r. }
  rewrite app_nil_r, (mem_write_same _ _ _ _ R) in W. congruence.
Qed.

Lemma lookup_mem_write b off w b' i :
  mem_write b off w = Some b' ->
  b' !! i = if decide (Z.to_nat off <= i < Z.to_nat off + length w)%nat
            then w !! (i - Z.to_nat off)%nat else b !! i.
Proof.
  intros E. apply mem_write_Some in E as (?&?&->). unfold Zlen in *.
  assert (L : length (take (Z.to_nat off) b) = Z.to_nat off) by (rewrite length_take; lia).
  case_decide.
  - rewrite lookup_app_r, L by lia. rewrite lookup_app_l by lia. done.
  - destruct (decide (i < Z.to_nat off)%nat).
    + rewrite lookup_app_l by lia. by rewrite lookup_take_lt.
    + rewrite lookup_app_r, L by lia. rewrite lookup_app_r by lia.
      rewrite lookup_drop. f_equal. lia.
Qed.

Lemma mem_read_ext b b' off n :
  Zlen b' = Zlen b ->
  (forall i, off <= Z.of_nat i < off + n -> b' !! i = b !! i) ->
  mem_read b' off n = mem_read b off n.
Proof.
  intros L E. unfold mem_read. rewrite L. case_test; [|done]. f_equal.
  apply list_eq. intros i. destruct (decide (i < Z.to_nat n)%nat).
  - rewrite !lookup_take_lt, !lookup_drop by lia. apply E. lia.
  - by rewrite !lookup_take_ge by lia.
Qed.

(** A read that stays clear of a write. *)
Lemma mem_read_write_out b off w b' o n :
  mem_write b off w = Some b' -> o + n <= off \/ off + Zlen w <= o ->
  mem_read b' o n = mem_read b o n.
Proof.
  intros E Hout. apply mem_read_ext; [by eapply mem_write_len|]. intros i Hi.
  apply mem_write_Some in E as E'. destruct E' as (?&?&_).
  rewrite (lookup_mem_write _ _ _ _ _ E). rewrite decide_False; [done|].
  unfold Zlen in *. lia.
Qed.

Lemma mem_write_outside b off w b' :
  bytes_ok w -> mem_write b off w = Some b' -> same_outside b b' off (off + Zlen w).
Proof.
  intros Bw E. split; [by eapply mem_write_len|]. split; [by eauto using mem_write_bytes|].
  intros o n Hout. by apply (mem_read_write_out b off w).
Qed.

(** What was written is what a read of the region returns. *)
Lemma mem_read_write b off w b' :
  mem_write b off w = Some b' -> mem_read b' off (Zlen w) = Some w.
Proof.
  intros E. apply mem_write_len in E as L. apply mem_write_Some in E as E'.
  destruct E' as (?&?&_). destruct (mem_read_is_Some b' off (Zlen w)) as [v Hv];
    [zlia..|]. rewrite Hv. f_equal. apply mem_read_len in Hv as Lv.
  apply mem_read_Some in Hv as (_&_&_&->). apply list_eq. intros i.
  unfold Zlen in *. destruct (decide (i < length w)%nat).
  - rewrite lookup_take_lt, lookup_drop by lia.
    rewrite (lookup_mem_write _ _ _ _ _ E), decide_True by lia. f_equal. lia.
  - rewrite lookup_take_ge by lia. symmetry. apply lookup_ge_None. lia.
Qed.

Lemma same_outside_refl b lo hi : same_outside b b lo hi.
Proof. done. Qed.

Lemma same_outside_trans b1 b2 b3 lo lo' hi :
  lo <= lo' -> same_outside b1 b2 lo hi -> same_outside b2 b3 lo' hi ->
  same_outside b1 b3 lo hi.
Proof.
  intros ? (L1&B1&E1) (L2&B2&E2). split; [lia|]. split; [auto|]. intros off n ?.
  rewrite E2, E1 by lia. done.
Qed.

Lemma same_outside_weaken b b' lo hi lo' hi' :
  lo' <= lo -> hi <= hi' -> same_outside b b' lo hi -> same_outside b b' lo' hi'.
Proof. intros ?? (L&B&E). split; [done|]. split; [done|]. intros. apply E. lia. Qed.

(** ** Integers *)

Definition size_max : Z := 2 ^ 64.
Definition wrap64 (z : Z) : Z := z mod size_max.
Definition wrap (w z : Z) : Z := z mod 2 ^ w.

Lemma wrap64_small z : 0 <= z < size_max -> wrap64 z = z.
Proof. intros. by apply Z.mod_small. Qed.

Lemma wrap_small w z : 0 <= z < 2 ^ w -> wrap w z = z.
Proof. intros. by apply Z.mod_small. Qed.

(** A sum whose steps wrap is the sum wrapped at the end. *)
Lemma wrap_add_l w a b : wrap w (wrap w a + b) = wrap w (a + b).
Proof. apply Zplus_mod_idemp_l. Qed.

(** Images of an unsigned integer in memory, lowest or highest byte first. *)
Fixpoint le_bytes (n : nat) (v : Z) : bytes :=
  match n with
  | O => []
  | S n => v mod 256 :: le_bytes n (v / 256)
  end.

Fixpoint le_value (l : bytes) : Z :=
  match l with
  | [] => 0
  | b :: l => b + 256 * le_value l
  end.

Definition be_bytes (n : nat) (v : Z) : bytes := rev (le_bytes n v).
Definition be_value (l : bytes) : Z := le_value (rev l).

Lemma length_le_bytes n v : length (le_bytes n v) = n.
Proof. revert v; induction n; intros; simpl; auto. Qed.

Lemma Zlen_be_bytes n v : Zlen (be_bytes n v) = Z.of_nat n.
Proof. unfold Zlen, be_bytes. by rewrite length_rev, length_le_bytes. Qed.
#[export] Hint Rewrite Zlen_be_bytes : zlen.

Lemma le_bytes_ok n v : bytes_ok (le_bytes n v).
Proof.
  revert v; induction n; intros; simpl; constructor; auto.
  apply Z.mod_pos_bound. lia.
Qed.

Lemma rev_bytes_ok l : bytes_ok l -> bytes_ok (rev l).
Proof. rewrite !List.Forall_forall. intros H x Hx. apply H. by apply in_rev. Qed.

Lemma be_bytes_ok n v : bytes_ok (be_bytes n v).
Proof. apply rev_bytes_ok, le_bytes_ok. Qed.
#[export] Hint Resolve be_bytes_ok le_bytes_ok : tss.

Lemma pow256_succ n : 256 ^ Z.of_nat (S n) = 256 * 256 ^ Z.of_nat n.
Proof. rewrite Nat2Z.inj_succ, Z.pow_succ_r; lia. Qed.

Lemma le_value_le_bytes n v : 0 <= v < 256 ^ Z.of_nat n -> le_value (le_bytes n v) = v.
Proof.
  revert v; induction n; intros v Hv.
  - simpl in *. lia.
  - rewrite pow256_succ in Hv. simpl.
    rewrite IHn; [pose proof (Z.div_mod v 256); lia|].
    split; [apply Z.div_pos; lia|apply Z.div_lt_upper_bound; lia].
Qed.

Lemma le_bytes_le_value l : bytes_ok l -> le_bytes (length l) (le_value l) = l.
Proof.
  induction 1 as [|x l Hx Hl IH]; simpl; [done|]. unfold is_byte in Hx.
  rewrite (Z.mul_comm 256), Z_mod_plus_full, Z.mod_small by lia.
  rewrite Z.div_add, (Z.div_small x 256) by lia. by rewrite Z.add_0_l, IH.
Qed.

Lemma le_value_bound l : bytes_ok l -> 0 <= le_value l < 256 ^ Zlen l.
Proof.
  induction 1 as [|x l Hx Hl IH]; simpl; [done|]. unfold Zlen in *. simpl length.
  rewrite pow256_succ. unfold is_byte in Hx. lia.
Qed.

Lemma be_value_be_bytes n v : 0 <= v < 256 ^ Z.of_nat n -> be_value (be_bytes n v) = v.
Proof. intros. unfold be_value, be_bytes. rewrite rev_involutive. by apply le_value_le_bytes. Qed.

Lemma be_bytes_be_value l : bytes_ok l -> be_bytes (length l) (be_value l) = l.
Proof.
  intros H. unfold be_value, be_bytes.
  rewrite <-(length_rev l), le_bytes_le_value by by apply rev_bytes_ok.
  apply rev_involutive.
Qed.

Lemma be_value_bound l : bytes_ok l -> 0 <= be_value l < 256 ^ Zlen l.
Proof.
  intros H. pose proof (le_value_bound (rev l) (rev_bytes_ok _ H)).
  unfold Zlen in *. by rewrite length_rev in *.
Qed.

(** An image has the bytes of its width only. *)
Lemma le_bytes_mod n v : le_bytes n (v mod 256 ^ Z.of_nat n) = le_bytes n v.
Proof.
  revert v. induction n as [|n IH]; intros v; [done|]. cbn [le_bytes]. rewrite pow256_succ.
  pose proof (Z.pow_pos_nonneg 256 (Z.of_nat n)).
  f_equal.
  - rewrite Z.rem_mul_r by lia. rewrite (Z.mul_comm 256), Z.mod_add, Z.mod_mod by lia. done.
  - rewrite Z.rem_mul_r, (Z.mul_comm 256), Z.div_add by lia.
    rewrite Z.div_small, Z.add_0_l by (apply Z.mod_pos_bound; lia). apply IH.
Qed.

Lemma be_bytes_wrap n v : be_bytes n (wrap (8 * Z.of_nat n) v) = be_bytes n v.
Proof.
  unfold be_bytes, wrap. rewrite Z.pow_mul_r by lia. change (2 ^ 8) with 256. by rewrite le_bytes_mod.
Qed.

(** Proofs go through the lemmas above; evaluation is not affected. *)
#[global] Opaque be_bytes be_value.
