(* ===== verification/Common.v ===== *)
(** * Return codes and byte order.

    [include/tss2/tss2_common.h]: the layered return codes.
    [src/util/tss2_endian.h]: conversion between host and big-endian order.
    The byte order of the host is the class [Host]; every theorem about the
    wire format holds for both values of it. *)

From S2P Require Import Prelude.

(** ** Return codes *)

Abbreviation TSS2_RC := Z.

Definition TSS2_RC_LAYER (level : Z) : Z := Z.shiftl level 16.
Definition TSS2_ESAPI_RC_LAYER := TSS2_RC_LAYER 7.
Definition TSS2_SYS_RC_LAYER := TSS2_RC_LAYER 8.
Definition TSS2_MU_RC_LAYER := TSS2_RC_LAYER 9.
Definition TSS2_TCTI_RC_LAYER := TSS2_RC_LAYER 10.

Definition TSS2_BASE_RC_GENERAL_FAILURE := 1.
Definition TSS2_BASE_RC_NOT_IMPLEMENTED := 2.
Definition TSS2_BASE_RC_ABI_MISMATCH := 4.
Definition TSS2_BASE_RC_BAD_REFERENCE := 5.
Definition TSS2_BASE_RC_INSUFFICIENT_BUFFER := 6.
Definition TSS2_BASE_RC_BAD_SEQUENCE := 7.
Definition TSS2_BASE_RC_BAD_VALUE := 11.
Definition TSS2_BASE_RC_INVALID_SESSIONS := 13.
Definition TSS2_BASE_RC_NO_DECRYPT_PARAM := 14.
Definition TSS2_BASE_RC_NO_ENCRYPT_PARAM := 15.
Definition TSS2_BASE_RC_BAD_SIZE := 16.
Definition TSS2_BASE_RC_MALFORMED_RESPONSE := 17.
Definition TSS2_BASE_RC_INSUFFICIENT_CONTEXT := 18.
Definition TSS2_BASE_RC_INSUFFICIENT_RESPONSE := 19.
Definition TSS2_BASE_RC_BAD_TCTI_STRUCTURE := 22.

Definition TSS2_RC_SUCCESS : TSS2_RC := 0.

Definition TSS2_MU_RC_GENERAL_FAILURE := Z.lor TSS2_MU_RC_LAYER TSS2_BASE_RC_GENERAL_FAILURE.
Definition TSS2_MU_RC_BAD_REFERENCE := Z.lor TSS2_MU_RC_LAYER TSS2_BASE_RC_BAD_REFERENCE.
Definition TSS2_MU_RC_BAD_SIZE := Z.lor TSS2_MU_RC_LAYER TSS2_BASE_RC_BAD_SIZE.
Definition TSS2_MU_RC_BAD_VALUE := Z.lor TSS2_MU_RC_LAYER TSS2_BASE_RC_BAD_VALUE.
Definition TSS2_MU_RC_INSUFFICIENT_BUFFER :=
  Z.lor TSS2_MU_RC_LAYER TSS2_BASE_RC_INSUFFICIENT_BUFFER.

Definition TSS2_SYS_RC_GENERAL_FAILURE := Z.lor TSS2_SYS_RC_LAYER TSS2_BASE_RC_GENERAL_FAILURE.
Definition TSS2_SYS_RC_ABI_MISMATCH := Z.lor TSS2_SYS_RC_LAYER TSS2_BASE_RC_ABI_MISMATCH.
Definition TSS2_SYS_RC_BAD_REFERENCE := Z.lor TSS2_SYS_RC_LAYER TSS2_BASE_RC_BAD_REFERENCE.
Definition TSS2_SYS_RC_BAD_SEQUENCE := Z.lor TSS2_SYS_RC_LAYER TSS2_BASE_RC_BAD_SEQUENCE.
Definition TSS2_SYS_RC_BAD_VALUE := Z.lor TSS2_SYS_RC_LAYER TSS2_BASE_RC_BAD_VALUE.
Definition TSS2_SYS_RC_INVALID_SESSIONS :=
  Z.lor TSS2_SYS_RC_LAYER TSS2_BASE_RC_INVALID_SESSIONS.
Definition TSS2_SYS_RC_NO_DECRYPT_PARAM :=
  Z.lor TSS2_SYS_RC_LAYER TSS2_BASE_RC_NO_DECRYPT_PARAM.
Definition TSS2_SYS_RC_NO_ENCRYPT_PARAM :=
  Z.lor TSS2_SYS_RC_LAYER TSS2_BASE_RC_NO_ENCRYPT_PARAM.
Definition TSS2_SYS_RC_BAD_SIZE := Z.lor TSS2_SYS_RC_LAYER TSS2_BASE_RC_BAD_SIZE.
Definition TSS2_SYS_RC_MALFORMED_RESPONSE :=
  Z.lor TSS2_SYS_RC_LAYER TSS2_BASE_RC_MALFORMED_RESPONSE.
Definition TSS2_SYS_RC_INSUFFICIENT_CONTEXT :=
  Z.lor TSS2_SYS_RC_LAYER TSS2_BASE_RC_INSUFFICIENT_CONTEXT.
Definition TSS2_SYS_RC_INSUFFICIENT_RESPONSE :=
  Z.lor TSS2_SYS_RC_LAYER TSS2_BASE_RC_INSUFFICIENT_RESPONSE.
Definition TSS2_SYS_RC_BAD_TCTI_STRUCTURE :=
  Z.lor TSS2_SYS_RC_LAYER TSS2_BASE_RC_BAD_TCTI_STRUCTURE.

Definition TSS2_TCTI_RC_NOT_IMPLEMENTED :=
  Z.lor TSS2_TCTI_RC_LAYER TSS2_BASE_RC_NOT_IMPLEMENTED.
Definition TSS2_TCTI_RC_ABI_MISMATCH := Z.lor TSS2_TCTI_RC_LAYER TSS2_BASE_RC_ABI_MISMATCH.
Definition TSS2_TCTI_RC_BAD_REFERENCE := Z.lor TSS2_TCTI_RC_LAYER TSS2_BASE_RC_BAD_REFERENCE.
Definition TSS2_TCTI_RC_INSUFFICIENT_BUFFER :=
  Z.lor TSS2_TCTI_RC_LAYER TSS2_BASE_RC_INSUFFICIENT_BUFFER.

(** ** Byte order of the host *)

Class Host := words_bigendian : bool.

Definition little_endian_host : Host := false.
Definition big_endian_host : Host := true.

Definition endian_conv_16 (value : Z) : Z :=
  Z.lor (Z.shiftl (Z.land value 255) 8)
        (Z.shiftr (Z.land value (Z.shiftl 255 8)) 8).

Definition endian_conv_32 (value : Z) : Z :=
  Z.lor (Z.lor (Z.lor
    (Z.shiftl (Z.land value 255) 24)
    (Z.shiftl (Z.land value (Z.shiftl 255 8)) 8))
    (Z.shiftr (Z.land value (Z.shiftl 255 16)) 8))
    (Z.shiftr (Z.land value (Z.shiftl 255 24)) 24).

Definition endian_conv_64 (value : Z) : Z :=
  Z.lor (Z.lor (Z.lor (Z.lor (Z.lor (Z.lor (Z.lor
    (Z.shiftl (Z.land value 255) 56)
    (Z.shiftl (Z.land value (Z.shiftl 255 8)) 40))
    (Z.shiftl (Z.land value (Z.shiftl 255 16)) 24))
    (Z.shiftl (Z.land value (Z.shiftl 255 24)) 8))
    (Z.shiftr (Z.land value (Z.shiftl 255 32)) 8))
    (Z.shiftr (Z.land value (Z.shiftl 255 40)) 24))
    (Z.shiftr (Z.land value (Z.shiftl 255 48)) 40))
    (Z.shiftr (Z.land value (Z.shiftl 255 56)) 56).

Section Endian.
Context {H : Host}.

Definition HOST_TO_BE_16 (v : Z) : Z := if words_bigendian then v else endian_conv_16 v.
Definition HOST_TO_BE_32 (v : Z) : Z := if words_bigendian then v else endian_conv_32 v.
Definition HOST_TO_BE_64 (v : Z) : Z := if words_bigendian then v else endian_conv_64 v.
Definition BE_TO_HOST_16 (v : Z) : Z := HOST_TO_BE_16 v.
Definition BE_TO_HOST_32 (v : Z) : Z := HOST_TO_BE_32 v.
Definition BE_TO_HOST_64 (v : Z) : Z := HOST_TO_BE_64 v.

(** The object representation of an [n]-byte unsigned integer, and the value
    an [n]-byte representation stands for. *)
Definition host_image (n : nat) (v : Z) : bytes :=
  if words_bigendian then be_bytes n v else le_bytes n v.
Definition host_value (l : bytes) : Z :=
  if words_bigendian then be_value l else le_value l.

End Endian.

(** ** Byte swapping *)

#[local] Transparent be_bytes be_value.

Lemma land_byte_shift v k :
  0 <= k -> Z.land v (Z.shiftl 255 k) = (v / 2 ^ k) mod 256 * 2 ^ k.
Proof.
  intros. rewrite <-Z.shiftl_mul_pow2 by lia.
  change 256 with (2 ^ 8). rewrite <-Z.land_ones by lia. change (Z.ones 8) with 255.
  rewrite Z.shiftl_land, <-Z.shiftr_div_pow2 by lia.
  apply Z.bits_inj'. intros i Hi. rewrite !Z.land_spec.
  destruct (Z.lt_ge_cases i k).
  - rewrite !(Z.shiftl_spec_low _ _ _) by lia. by rewrite !andb_false_r.
  - rewrite !Z.shiftl_spec_high, Z.shiftr_spec by lia.
    by replace (i - k + k) with i by lia.
Qed.

Lemma land_byte v : Z.land v 255 = v mod 256.
Proof. change 255 with (Z.ones 8). by rewrite Z.land_ones. Qed.

Lemma lor_add a b k : 0 <= k -> 0 <= b < 2 ^ k -> Z.lor (a * 2 ^ k) b = a * 2 ^ k + b.
Proof.
  intros Hk Hb. rewrite <-Z.shiftl_mul_pow2 by lia.
  symmetry. apply Z.add_nocarry_lor.
  apply Z.bits_inj'. intros i Hi. rewrite Z.land_spec, Z.bits_0.
  destruct (Z.lt_ge_cases i k); [by rewrite Z.shiftl_spec_low|].
  rewrite <-(Z.mod_small b (2 ^ k)), Z.mod_pow2_bits_high by lia.
  apply andb_false_r.
Qed.

Lemma byte_mod v : 0 <= v mod 256 < 256.
Proof. apply Z.mod_pos_bound. lia. Qed.

Lemma shiftr_mul_pow2 a k j :
  0 <= j <= k -> Z.shiftr (a * 2 ^ k) j = a * 2 ^ (k - j).
Proof.
  intros. rewrite Z.shiftr_div_pow2 by lia.
  replace k with (k - j + j) at 1 by lia.
  rewrite Z.pow_add_r, Z.mul_assoc by lia. apply Z.div_mul. lia.
Qed.

Lemma lor_byte_lo a b k j :
  0 <= j -> k = j + 8 -> 0 <= b < 256 -> Z.lor (a * 2 ^ k) (b * 2 ^ j) = (a * 256 + b) * 2 ^ j.
Proof.
  intros ? -> Hb. rewrite lor_add; rewrite ?Z.pow_add_r by lia;
    change (2 ^ 8) with 256; nia.
Qed.

(** Replaces the masks and shifts of a byte swap by the bytes of the value. *)
Ltac swap_bytes :=
  rewrite ?land_byte_shift, ?land_byte by lia;
  rewrite ?shiftr_mul_pow2, ?Z.shiftl_mul_pow2 by lia;
  rewrite <-?Z.mul_assoc, <-?Z.pow_add_r by lia; simpl (_ + _); simpl (_ - _).

(** Closes an equation between two polynomials in the bytes of a value. *)
Ltac sum_bytes :=
  repeat match goal with
  | |- context [2 ^ Zpos ?k] => let c := eval vm_compute in (2 ^ Zpos k) in
      change (2 ^ Zpos k) with c
  | |- context [256 * Zpos ?k] => let c := eval vm_compute in (256 * Zpos k) in
      change (256 * Zpos k) with c
  end;
  repeat match goal with |- context [?x mod 256] => generalize (x mod 256); intros end; lia.

Lemma endian_conv_16_rev v : endian_conv_16 v = le_value (rev (le_bytes 2 v)).
Proof.
  unfold endian_conv_16. swap_bytes.
  rewrite (lor_byte_lo _ _ 8 0) by (lia || apply byte_mod). simpl.
  change (2 ^ 8) with 256. lia.
Qed.

Lemma endian_conv_32_rev v : endian_conv_32 v = le_value (rev (le_bytes 4 v)).
Proof.
  unfold endian_conv_32. swap_bytes.
  rewrite (lor_byte_lo _ _ 24 16), (lor_byte_lo _ _ 16 8), (lor_byte_lo _ _ 8 0)
    by (lia || apply byte_mod).
  simpl. rewrite !Z.div_div by lia. sum_bytes.
Qed.

Lemma endian_conv_64_rev v : endian_conv_64 v = le_value (rev (le_bytes 8 v)).
Proof.
  unfold endian_conv_64. swap_bytes.
  rewrite (lor_byte_lo _ _ 56 48), (lor_byte_lo _ _ 48 40), (lor_byte_lo _ _ 40 32),
    (lor_byte_lo _ _ 32 24), (lor_byte_lo _ _ 24 16), (lor_byte_lo _ _ 16 8),
    (lor_byte_lo _ _ 8 0) by (lia || apply byte_mod).
  simpl. rewrite !Z.div_div by lia. sum_bytes.
Qed.

(** The image of a byte-swapped value is the reversed image of the value. *)
Lemma le_bytes_swap n v :
  le_bytes n (le_value (rev (le_bytes n v))) = be_bytes n v.
Proof.
  unfold be_bytes.
  pose proof (le_bytes_le_value (rev (le_bytes n v)) (be_bytes_ok n v)) as E.
  by rewrite length_rev, length_le_bytes in E.
Qed.

Lemma le_value_swap l :
  bytes_ok l -> le_value (rev (le_bytes (length l) (le_value l))) = be_value l.
Proof. intros. by rewrite le_bytes_le_value. Qed.
