(* ===== verification/MuSpec.v ===== *)
(** * What it means for a marshal / unmarshal pair to implement a wire format.

    Shapes of the functions of [src/tss2-mu]:
    - [mstep]: a marshal call with its source applied, a function of
      [buffer], [buffer_size] and [*offset] ([None] is the NULL pointer);
    - [ufn T]: an unmarshal function, with the object behind [dest];
    - [ustep T]: one member of a structure being unmarshaled, with the flag
      "[dest] is not NULL" and the structure (or the local [tmp]).

    A wire format for [T] is a [spec T].  [marshal_ok], [parse_ok] and
    [skip_ok] are the contracts the macros of [src/tss2-mu] are proved
    against; [spec_unit], [spec_app], [spec_on] build formats of structures
    from formats of members. *)

From S2P Require Import Prelude Common.

Abbreviation mresult := (outcome (TSS2_RC * (option bytes * option Z))).
Abbreviation mstep := (option bytes -> Z -> option Z -> mresult).

Abbreviation uresult T := (outcome (TSS2_RC * (option Z * option T))).
Abbreviation ufn T := (option bytes -> Z -> option Z -> option T -> uresult T).

Abbreviation ustep T :=
  (option bytes -> Z -> option Z -> bool -> T -> outcome (TSS2_RC * (option Z * T))).

(** ** Wire formats *)

Record spec (T : Type) := Spec {
  s_wf : T -> Prop;            (** the object has the storage of its C type *)
  s_dom : T -> Prop;           (** marshaling it reads initialised storage only *)
  s_wire : T -> option bytes;  (** its wire image, [None] if it has none *)
  s_eqv : T -> T -> Prop;      (** equal in everything that is on the wire *)
  s_max : Z                    (** longest wire image *)
}.
Arguments Spec {T}.
Arguments s_wf {T} s x.
Arguments s_dom {T} s x.
Arguments s_wire {T} s x.
Arguments s_eqv {T} s x y.
Arguments s_max {T} s.

Class SpecOk {T} (s : spec T) : Prop := {
  so_bytes : forall x w, s_wf s x -> s_wire s x = Some w -> bytes_ok w;
  so_max : forall x w, s_wf s x -> s_wire s x = Some w -> Zlen w <= s_max s;
  so_dom : forall x w, s_wf s x -> s_wire s x = Some w -> s_dom s x;
  so_refl : forall x, s_eqv s x x;
  so_sym : forall x y, s_eqv s x y -> s_eqv s y x;
  so_trans : forall x y z, s_eqv s x y -> s_eqv s y z -> s_eqv s x z;
  so_wire : forall x y, s_eqv s x y -> s_wire s x = s_wire s y
}.

#[export] Instance spec_equivalence {T} (s : spec T) `{!SpecOk s} : Equivalence (s_eqv s).
Proof.
  split; red; [apply so_refl|apply so_sym|apply so_trans].
Qed.

#[export] Instance s_wire_proper {T} (s : spec T) `{!SpecOk s} :
  Proper (s_eqv s ==> eq) (s_wire s).
Proof. intros x y E. by apply so_wire. Qed.

(** [w] fits at [lo] in a buffer of [size] bytes.  The empty image fits
    anywhere: nothing is written for it and no bound is checked. *)
Definition fits (lo : Z) (w : bytes) (size : Z) : Prop := w = [] \/ lo + Zlen w <= size.

Definition written (b : bytes) (lo : Z) (w b' : bytes) : Prop :=
  (w = [] /\ b' = b) \/ mem_write b lo w = Some b'.

Definition reads (b : bytes) (lo : Z) (w : bytes) : Prop :=
  w = [] \/ mem_read b lo (Zlen w) = Some w.

(** ** Contracts *)

(** Outcome of marshaling an object whose wire image is [ow].  [commit] says
    that a failing call leaves [*offset] alone. *)
Definition marshal_post (commit : bool) (ow : option bytes) (b : bytes) (size lo : Z)
    (rc : TSS2_RC) (b' : bytes) (lo' : Z) : Prop :=
  (exists w, ow = Some w /\ fits lo w size /\ rc = TSS2_RC_SUCCESS /\
     lo' = lo + Zlen w /\ written b lo w b') \/
  (rc <> TSS2_RC_SUCCESS /\ (commit = true -> lo' = lo) /\ same_outside b b' lo size /\
     (ow = None \/
      exists w, ow = Some w /\ ~ fits lo w size /\ rc = TSS2_MU_RC_INSUFFICIENT_BUFFER)).

Definition marshal_ok_gen (commit : bool) {T} (m : T -> mstep) (s : spec T) : Prop :=
  forall x, s_wf s x -> s_dom s x ->
  (forall b size lo, 0 <= lo -> 0 <= size <= Zlen b ->
     exists rc b' lo', m x (Some b) size (Some lo) = Ret (rc, (Some b', Some lo')) /\
       marshal_post commit (s_wire s x) b size lo rc b' lo') /\
  (forall w size lo, s_wire s x = Some w -> 0 <= lo -> fits lo w size ->
     lo + Zlen w < size_max ->
     m x None size (Some lo) = Ret (TSS2_RC_SUCCESS, (None, Some (lo + Zlen w)))).

Abbreviation marshal_ok := (marshal_ok_gen true).

(** Outcome of unmarshaling at [lo] into [*dest]: the object [d'] is well
    formed; a success means that the bytes read are the image of [d'] and
    [*offset] is past them; a failure leaves [*offset] alone (when [commit]);
    and the image of any [x] with [pre x] is recognised. *)
Definition parse_post (commit : bool) {T} (pre : T -> Prop) (s : spec T) (b : bytes)
    (size lo : Z) (rc : TSS2_RC) (lo' : Z) (d' : T) : Prop :=
  s_wf s d' /\
  (rc = TSS2_RC_SUCCESS -> exists w, s_wire s d' = Some w /\ fits lo w size /\
     lo' = lo + Zlen w /\ reads b lo w) /\
  (rc <> TSS2_RC_SUCCESS -> commit = true -> lo' = lo) /\
  (forall x w, s_wf s x -> pre x -> s_wire s x = Some w -> fits lo w size ->
     reads b lo w -> rc = TSS2_RC_SUCCESS /\ s_eqv s d' x).

(** A whole unmarshal function, [dest] not NULL. *)
Definition parse_ok_gen (commit : bool) {T} (u : ufn T) (s : spec T) : Prop :=
  forall b size lo d, bytes_ok b -> 0 <= size <= Zlen b -> 0 <= lo -> s_wf s d ->
  exists rc lo' d',
    u (Some b) size (Some lo) (Some d) = Ret (rc, (Some lo', Some d')) /\
    parse_post commit (fun _ => True) s b size lo rc lo' d'.

Abbreviation parse_ok := (parse_ok_gen true).

(** Every image is recognised; nothing is said about other inputs. *)
Definition recognise_ok {T} (u : ufn T) (s : spec T) : Prop :=
  forall b size lo d x w, bytes_ok b -> 0 <= size <= Zlen b -> 0 <= lo -> s_wf s d ->
  s_wf s x -> s_wire s x = Some w -> fits lo w size -> reads b lo w ->
  exists d', u (Some b) size (Some lo) (Some d)
             = Ret (TSS2_RC_SUCCESS, (Some (lo + Zlen w), Some d')) /\
             s_wf s d' /\ s_eqv s d' x.

(** No undefined behaviour, whatever the bytes. *)
Definition unmarshal_safe {T} (u : ufn T) (s : spec T) : Prop :=
  forall b size lo d, bytes_ok b -> 0 <= size <= Zlen b -> 0 <= lo -> s_wf s d ->
  exists rc lo' d', u (Some b) size (Some lo) (Some d) = Ret (rc, (Some lo', Some d')) /\
    lo <= lo' /\ s_wf s d'.

(** One member of a structure, [dest] not NULL.  [pre d x] is what the members
    unmarshaled before must have established for the image of [x] to be
    recognised, [md d d'] bounds what the step changes. *)
Definition ustep_ok {T} (u : ustep T) (pre md : T -> T -> Prop) (s : spec T) : Prop :=
  forall b size lo d, bytes_ok b -> 0 <= size <= Zlen b -> 0 <= lo -> s_wf s d ->
  exists rc lo' d',
    u (Some b) size (Some lo) true d = Ret (rc, (Some lo', d')) /\
    md d d' /\ parse_post false (pre d) s b size lo rc lo' d'.

(** A whole unmarshal function, [dest] NULL. *)
Definition skip_ok {T} (u : ufn T) (s : spec T) : Prop :=
  forall b size lo, bytes_ok b -> 0 <= size <= Zlen b -> size < size_max ->
  0 <= lo < size_max ->
  exists rc lo',
    u (Some b) size (Some lo) None = Ret (rc, (Some lo', None)) /\
    0 <= lo' < size_max /\
    (forall x w, s_wf s x -> s_wire s x = Some w -> fits lo w size -> reads b lo w ->
       rc = TSS2_RC_SUCCESS /\ lo' = lo + Zlen w).

(** A marshal / unmarshal pair that implements a wire format. *)
Record codec_ok {T} (m : T -> mstep) (u : ufn T) (s : spec T) : Prop := CodecOk {
  co_spec : SpecOk s;
  co_marshal : marshal_ok m s;
  co_parse : parse_ok u s
}.

(** A pair whose unmarshal function accepts more than the images of the
    format: it recognises every image, and is safe on any input. *)
Record lax_codec_ok {T} (m : T -> mstep) (u : ufn T) (s : spec T) : Prop := LaxCodecOk {
  lo_spec : SpecOk s;
  lo_marshal : marshal_ok m s;
  lo_recognise : recognise_ok u s;
  lo_safe : unmarshal_safe u s
}.

(** [ADDR] of the macros: the member is passed by reference. *)
Definition ADDR {T R} (fn : option T -> R) : T -> R := fun x => fn (Some x).
(** [VAL] of the macros: the member is passed by value. *)
Definition VAL {T R} (fn : T -> R) : T -> R := fn.

(** ** Formats of structures *)

Definition wire_app (a b : option bytes) : option bytes :=
  match a, b with Some x, Some y => Some (x ++ y) | _, _ => None end.

Definition spec_unit {T} : spec T :=
  {| s_wf := fun _ => True; s_dom := fun _ => True; s_wire := fun _ => Some [];
     s_eqv := fun _ _ => True; s_max := 0 |}.

Definition spec_app {T} (s1 s2 : spec T) : spec T :=
  {| s_wf := fun x => s_wf s1 x /\ s_wf s2 x;
     s_dom := fun x => s_dom s1 x /\ s_dom s2 x;
     s_wire := fun x => wire_app (s_wire s1 x) (s_wire s2 x);
     s_eqv := fun x y => s_eqv s1 x y /\ s_eqv s2 x y;
     s_max := s_max s1 + s_max s2 |}.

(** The format of a member, seen on the structure. *)
Definition spec_on {T F} (get : T -> F) (s : spec F) : spec T :=
  {| s_wf := fun x => s_wf s (get x);
     s_dom := fun x => s_dom s (get x);
     s_wire := fun x => s_wire s (get x);
     s_eqv := fun x y => s_eqv s (get x) (get y);
     s_max := s_max s |}.

(** The format of a union member [get], selected by the member [sel]. *)
Definition spec_sel {T U} (sel : T -> Z) (get : T -> U) (wf : U -> Prop)
    (su : Z -> spec U) (mx : Z) : spec T :=
  {| s_wf := fun x => wf (get x);
     s_dom := fun x => s_dom (su (sel x)) (get x);
     s_wire := fun x => s_wire (su (sel x)) (get x);
     s_eqv := fun x y => sel x = sel y /\ s_eqv (su (sel x)) (get x) (get y);
     s_max := mx |}.

Declare Scope spec_scope.
Delimit Scope spec_scope with spec.
Infix "⊗" := spec_app (at level 60, right associativity) : spec_scope.
Bind Scope spec_scope with spec.

Lemma wire_app_Some a b w :
  wire_app a b = Some w <-> exists x y, a = Some x /\ b = Some y /\ w = x ++ y.
Proof.
  destruct a, b; simpl; split; intros E; unpack; simplify_eq; try done. by repeat eexists.
Qed.

#[export] Instance spec_unit_ok {T} : SpecOk (@spec_unit T).
Proof. split; simpl; intros; simplify_eq; auto; by rewrite ?Zlen_nil. Qed.

#[export] Instance spec_app_ok {T} (s1 s2 : spec T) :
  SpecOk s1 -> SpecOk s2 -> SpecOk (spec_app s1 s2).
Proof.
  intros O1 O2. split; simpl.
  - intros x w [W1 W2] (x1&x2&E1&E2&->)%wire_app_Some. apply Forall_app.
    exact (conj (so_bytes _ _ W1 E1) (so_bytes _ _ W2 E2)).
  - intros x w [W1 W2] (x1&x2&E1&E2&->)%wire_app_Some. rewrite Zlen_app.
    pose proof (so_max _ _ W1 E1). pose proof (so_max _ _ W2 E2). lia.
  - intros x w [W1 W2] (x1&x2&E1&E2&->)%wire_app_Some. exact (conj (so_dom _ _ W1 E1) (so_dom _ _ W2 E2)).
  - intros x. split; apply so_refl.
  - intros x y []. split; by apply so_sym.
  - intros x y z [] []. split; by eapply so_trans.
  - intros x y [A B]. by rewrite (so_wire _ _ A), (so_wire _ _ B).
Qed.

#[export] Instance spec_on_ok {T F} (get : T -> F) (s : spec F) :
  SpecOk s -> SpecOk (spec_on get s).
Proof.
  intros O. split; simpl; intros; eauto using so_bytes, so_max, so_dom, so_refl, so_sym,
    so_trans, so_wire.
Qed.

Lemma spec_sel_ok {T U} (sel : T -> Z) (get : T -> U) wf su mx :
  (forall z, SpecOk (su z)) -> (forall z u, wf u -> s_wf (su z) u) ->
  (forall z, s_max (su z) <= mx) -> SpecOk (spec_sel sel get wf su mx).
Proof.
  intros O W M. split; simpl.
  - intros. eapply so_bytes; eauto.
  - intros x w ? E. apply so_max in E; eauto. specialize (M (sel x)). lia.
  - intros. eapply so_dom; eauto.
  - intros. split; [done|apply so_refl].
  - intros x y [-> ?]. split; [done|by apply so_sym].
  - intros x y z [E ?] [E' ?]. rewrite <-E' in *. rewrite E in *. split; [done|].
    by eapply so_trans.
  - intros x y [E ?]. rewrite <-E. by apply so_wire.
Qed.

(** ** Consequences of the contracts *)

Lemma fits_app lo w1 w2 size :
  fits lo w1 size -> fits (lo + Zlen w1) w2 size -> fits lo (w1 ++ w2) size.
Proof.
  intros [->|E1] [->|E2]; simpl; rewrite ?app_nil_r; unfold fits in *;
    rewrite ?Zlen_app, ?(Zlen_nil (A:=Z)) in *; auto; right; lia.
Qed.

Lemma fits_app_l lo w1 w2 size : fits lo (w1 ++ w2) size -> fits lo w1 size.
Proof.
  intros [E|E]; [apply app_eq_nil in E as [-> _]; by left|]. right. zlia.
Qed.

Lemma fits_app_r lo w1 w2 size : fits lo (w1 ++ w2) size -> fits (lo + Zlen w1) w2 size.
Proof.
  intros [E|E]; [apply app_eq_nil in E as [_ ->]; by left|]. right. zlia.
Qed.

Lemma written_app b lo w1 b1 w2 b2 :
  written b lo w1 b1 -> written b1 (lo + Zlen w1) w2 b2 -> written b lo (w1 ++ w2) b2.
Proof.
  intros [[-> ->]|E1] [[-> ->]|E2]; simpl; rewrite ?app_nil_r.
  - by left.
  - rewrite (Zlen_nil (A:=Z)), Z.add_0_r in E2. by right.
  - by right.
  - right. by eapply mem_write_app.
Qed.

Lemma written_outside b lo w b' size :
  0 <= lo -> bytes_ok w -> fits lo w size -> written b lo w b' ->
  same_outside b b' lo size.
Proof.
  intros ? Bw F [[-> ->]|E]; [apply same_outside_refl|].
  destruct (decide (w = [])) as [->|N].
  - apply mem_write_Some in E as (?&L&->). rewrite (Zlen_nil (A:=Z)), Z.add_0_r in *.
    simpl. rewrite take_drop. apply same_outside_refl.
  - destruct F as [?|F]; [done|].
    eapply same_outside_weaken; [done|exact F|by apply mem_write_outside].
Qed.

Lemma written_len b lo w b' : written b lo w b' -> Zlen b' = Zlen b.
Proof. intros [[_ ->]|E]; [done|exact (mem_write_len _ _ _ _ E)]. Qed.

Lemma written_reads b lo w b' : written b lo w b' -> reads b' lo w.
Proof. intros [[-> ->]|E]; [by left|right; exact (mem_read_write _ _ _ _ E)]. Qed.

Lemma written_bytes b lo w b' : bytes_ok b -> bytes_ok w -> written b lo w b' -> bytes_ok b'.
Proof. intros Hb Hw [[-> ->]|E]; [done|exact (mem_write_bytes _ _ _ _ Hb Hw E)]. Qed.

Lemma reads_app b lo w1 w2 :
  reads b lo w1 -> reads b (lo + Zlen w1) w2 -> reads b lo (w1 ++ w2).
Proof.
  intros [->|E1] [->|E2]; simpl; rewrite ?app_nil_r.
  - by left.
  - right. by rewrite (Zlen_nil (A:=Z)), Z.add_0_r in E2.
  - by right.
  - right. rewrite Zlen_app. by apply mem_read_app.
Qed.

Lemma reads_split b lo w1 w2 :
  reads b lo (w1 ++ w2) -> reads b lo w1 /\ reads b (lo + Zlen w1) w2.
Proof.
  intros [E|E].
  - apply app_eq_nil in E as [-> ->]. by split; left.
  - apply mem_read_split in E as [E1 E2]. by split; right.
Qed.

(** Nothing is recognised, nothing is consumed. *)
Lemma parse_fail {T} c pre (s : spec T) b size lo rc d :
  s_wf s d -> rc <> TSS2_RC_SUCCESS ->
  (forall x w, s_wf s x -> pre x -> s_wire s x = Some w -> fits lo w size ->
     reads b lo w -> False) ->
  parse_post c pre s b size lo rc lo d.
Proof.
  intros Hd Hrc No. split_and!; [done|done|done|]. intros x w W P E F R.
  destruct (No x w W P E F R).
Qed.

(** A failing marshal call that leaves the buffer alone. *)
Lemma marshal_fail c ow b size lo rc :
  rc <> TSS2_RC_SUCCESS ->
  (forall w, ow = Some w -> ~ fits lo w size /\ rc = TSS2_MU_RC_INSUFFICIENT_BUFFER) ->
  marshal_post c ow b size lo rc b lo.
Proof.
  intros Hrc No. right. split_and!; [done|done|apply same_outside_refl|].
  destruct ow as [w|]; [right|by left]. exists w. destruct (No w eq_refl). done.
Qed.

Lemma marshal_ok_weaken {T} (m : T -> mstep) (s : spec T) :
  marshal_ok m s -> marshal_ok_gen false m s.
Proof.
  intros O x W D. destruct (O x W D) as [P Q]. split; [|done].
  intros b size lo ??. destruct (P b size lo) as (rc&b'&lo'&E&Po); [done..|].
  exists rc, b', lo'. split; [done|]. destruct Po as [?|(?&?&?&?)]; [by left|right].
  by split_and!.
Qed.

(** A call whose image fits writes it and advances [*offset]. *)
Lemma marshal_ok_fits {c T} (m : T -> mstep) (s : spec T) x w b size lo :
  marshal_ok_gen c m s -> s_wf s x -> s_dom s x -> s_wire s x = Some w ->
  0 <= lo -> 0 <= size <= Zlen b -> lo + Zlen w <= size ->
  exists b', m x (Some b) size (Some lo)
             = Ret (TSS2_RC_SUCCESS, (Some b', Some (lo + Zlen w))) /\
             mem_write b lo w = Some b'.
Proof.
  intros O W D E ? Hs Hf. destruct (O x W D) as [P _].
  destruct (P b size lo) as (rc&b'&lo'&Er&[Po|Po]); [done..| |].
  - destruct Po as (w'&E'&_&->&->&Wr). rewrite E in E'. some_inv. exists b'. split; [done|].
    destruct Wr as [[-> ->]|?]; [|done]. apply mem_write_nil. zlia.
  - destruct Po as (_&_&_&[?|(w'&E'&Nf&_)]); [by rewrite E in *|].
    rewrite E in E'. some_inv. destruct Nf. by right.
Qed.

(** An image in the buffer is recognised: the call succeeds, advances
    [*offset] past it and leaves an object with that image in [*dest]. *)
Lemma parse_ok_recognise {T} (u : ufn T) (s : spec T) `{!SpecOk s} :
  parse_ok u s -> recognise_ok u s.
Proof.
  intros O b size lo d x w Hb Hs Hlo Wd Wx E F R.
  destruct (O b size lo d) as (rc&lo'&d'&Er&Wd'&P1&_&P2); [done..|].
  destruct (P2 x w) as [-> Q]; [done..|]. destruct P1 as (w'&E'&_&->&_); [done|].
  rewrite (so_wire _ _ Q), E in E'. some_inv. by exists d'.
Qed.

Lemma parse_ok_safe {T} (u : ufn T) (s : spec T) : parse_ok u s -> unmarshal_safe u s.
Proof.
  intros O b size lo d Hb Hs Hlo Wd.
  destruct (O b size lo d) as (rc&lo'&d'&Er&Wd'&P1&P2&_); [done..|].
  exists rc, lo', d'. split_and!; [done| |done].
  destruct (decide (rc = TSS2_RC_SUCCESS)) as [->|N].
  - destruct P1 as (w&_&_&->&_); [done|]. zlia.
  - rewrite P2; [lia|done..].
Qed.

(** Marshal, then unmarshal: the object comes back. *)
Lemma roundtrip_generic {c T} (m : T -> mstep) (u : ufn T) (s : spec T) `{!SpecOk s} :
  marshal_ok_gen c m s -> recognise_ok u s ->
  forall x w b size lo d, s_wf s x -> s_wire s x = Some w -> s_wf s d ->
  bytes_ok b -> 0 <= size <= Zlen b -> 0 <= lo -> lo + Zlen w <= size ->
  exists b' d',
    m x (Some b) size (Some lo) = Ret (TSS2_RC_SUCCESS, (Some b', Some (lo + Zlen w))) /\
    u (Some b') size (Some lo) (Some d)
      = Ret (TSS2_RC_SUCCESS, (Some (lo + Zlen w), Some d')) /\
    s_wf s d' /\ s_eqv s d' x.
Proof.
  intros Om Ou x w b size lo d Wx E Wd Hb Hs Hlo Hf.
  destruct (marshal_ok_fits (c:=c) m s x w b size lo) as (b'&Em&Ew);
    [done|done|exact (so_dom _ _ Wx E)|done..|].
  apply mem_write_len in Ew as L.
  destruct (Ou b' size lo d x w) as (d'&Eu&W'&Q); try done.
  - exact (mem_write_bytes _ _ _ _ Hb (so_bytes _ _ Wx E) Ew).
  - lia.
  - by right.
  - right. exact (mem_read_write _ _ _ _ Ew).
  - by exists b', d'.
Qed.

(** Unmarshal, then marshal: the bytes come back. *)
Lemma canonical_generic {c T} (m : T -> mstep) (u : ufn T) (s : spec T) `{!SpecOk s} :
  marshal_ok_gen c m s -> parse_ok u s ->
  forall b size lo d lo' d', bytes_ok b -> 0 <= size <= Zlen b -> 0 <= lo -> lo <= size ->
  s_wf s d ->
  u (Some b) size (Some lo) (Some d) = Ret (TSS2_RC_SUCCESS, (Some lo', Some d')) ->
  lo <= lo' <= size /\
  forall b2, 0 <= size <= Zlen b2 ->
  exists b2', m d' (Some b2) size (Some lo) = Ret (TSS2_RC_SUCCESS, (Some b2', Some lo')) /\
    mem_read b2' lo (lo' - lo) = mem_read b lo (lo' - lo).
Proof.
  intros Om Ou b size lo d lo' d' Hb Hs Hlo Hl Wd Eu.
  destruct (Ou b size lo d) as (rc&l&e&Er&We&P1&_&_); [done..|].
  rewrite Er in Eu. simplify_eq. destruct P1 as (w&E&F&->&R); [done|].
  assert (lo + Zlen w <= size) by (destruct F as [->|F]; [rewrite (Zlen_nil (A:=Z))|]; lia).
  split; [zlia|]. intros b2 Hb2.
  destruct (marshal_ok_fits (c:=c) m s d' w b2 size lo) as (b2'&Em&Ew);
    [done|done|exact (so_dom _ _ We E)|done..|].
  exists b2'. split; [done|]. replace (lo + Zlen w - lo) with (Zlen w) by lia.
  rewrite (mem_read_write _ _ _ _ Ew). destruct R as [->|R]; [|done].
  symmetry. apply mem_read_0. lia.
Qed.
