(* ===== verification/MuBase.v ===== *)
(** * Scalar types of the marshaling library.

    [src/tss2-mu/base-types.c]: the macros [BASE_MARSHAL] / [BASE_UNMARSHAL]
    and their instances for the base types.
    [src/tss2-mu/tpma-types.c]: [TPMA_MARSHAL] / [TPMA_UNMARSHAL] for the
    attribute words.
    A C integer type is a [ctype]: its size in bytes and its signedness. *)

From S2P Require Import Prelude Common MuSpec.
Open Scope tss_scope.

Record ctype := CType { csize : nat; csigned : bool }.

Definition ctype_ok (ty : ctype) : Prop :=
  (csize ty = 1 \/ csize ty = 2 \/ csize ty = 4 \/ csize ty = 8)%nat.

Definition csizeof (ty : ctype) : Z := Z.of_nat (csize ty).
Definition cbits (ty : ctype) : Z := 8 * csizeof ty.

(** Values of the type. *)
Definition in_range (ty : ctype) (v : Z) : Prop :=
  if csigned ty then - 2 ^ (cbits ty - 1) <= v < 2 ^ (cbits ty - 1)
  else 0 <= v < 2 ^ cbits ty.

#[export] Instance in_range_dec ty v : Decision (in_range ty v).
Proof. unfold in_range. destruct (csigned ty); apply _. Defined.

(** The conversions [(UINTn)v] and [(type)v]. *)
Definition to_unsigned (ty : ctype) (v : Z) : Z := wrap (cbits ty) v.
Definition of_unsigned (ty : ctype) (v : Z) : Z :=
  if csigned ty && (2 ^ (cbits ty - 1) <=? v) then v - 2 ^ cbits ty else v.

Definition BYTE := CType 1 false.
Definition UINT8 := CType 1 false.
Definition UINT16 := CType 2 false.
Definition UINT32 := CType 4 false.
Definition UINT64 := CType 8 false.
Definition INT8 := CType 1 true.
Definition INT16 := CType 2 true.
Definition INT32 := CType 4 true.
Definition INT64 := CType 8 true.

Section Base.
Context {H : Host}.

(** [switch (sizeof(type))] of the two macros. *)
Definition switch_to_be (n : nat) (v : Z) : option Z :=
  match n with
  | 1%nat => Some v
  | 2%nat => Some (HOST_TO_BE_16 v)
  | 4%nat => Some (HOST_TO_BE_32 v)
  | 8%nat => Some (HOST_TO_BE_64 v)
  | _ => None
  end.

Definition switch_to_host (n : nat) (v : Z) : option Z :=
  match n with
  | 1%nat => Some v
  | 2%nat => Some (BE_TO_HOST_16 v)
  | 4%nat => Some (BE_TO_HOST_32 v)
  | 8%nat => Some (BE_TO_HOST_64 v)
  | _ => None
  end.

Definition BASE_MARSHAL (ty : ctype) (src : Z) : mstep :=
  fun buffer buffer_size offset =>
  let local_offset := default 0 offset in
  match buffer, offset with
  | None, None => Ret (TSS2_MU_RC_BAD_REFERENCE, (buffer, offset))
  | None, Some o => Ret (TSS2_RC_SUCCESS, (buffer, Some (wrap64 (o + csizeof ty))))
  | Some b, _ =>
      if (buffer_size <? local_offset) || (buffer_size - local_offset <? csizeof ty)
      then Ret (TSS2_MU_RC_INSUFFICIENT_BUFFER, (buffer, offset))
      else match switch_to_be (csize ty) (to_unsigned ty src) with
           | None => Ret (TSS2_MU_RC_BAD_SIZE, (buffer, offset))
           | Some v =>
               let* b' := access (mem_write b local_offset (host_image (csize ty) v)) in
               Ret (TSS2_RC_SUCCESS,
                    (Some b', match offset with
                              | Some _ => Some (local_offset + csizeof ty)
                              | None => None
                              end))
           end
  end.

Definition BASE_UNMARSHAL (ty : ctype) : ufn Z :=
  fun buffer buffer_size offset dest =>
  let local_offset := default 0 offset in
  match buffer, dest, offset with
  | None, _, _ | _, None, None => Ret (TSS2_MU_RC_BAD_REFERENCE, (offset, dest))
  | Some b, _, _ =>
      if (buffer_size <? local_offset) || (buffer_size - local_offset <? csizeof ty)
      then Ret (TSS2_MU_RC_INSUFFICIENT_BUFFER, (offset, dest))
      else match dest, offset with
           | None, Some o => Ret (TSS2_RC_SUCCESS, (Some (wrap64 (o + csizeof ty)), dest))
           | _, _ =>
               let* tmp := access (mem_read b local_offset (csizeof ty)) in
               match switch_to_host (csize ty) (host_value tmp) with
               | None => Ret (TSS2_MU_RC_BAD_SIZE, (offset, dest))
               | Some v =>
                   Ret (TSS2_RC_SUCCESS,
                        (match offset with
                         | Some _ => Some (local_offset + csizeof ty)
                         | None => None
                         end, Some (of_unsigned ty v)))
               end
           end
  end.

(** The attribute types: the same as the base types, but for the code of the
    [default] case and the order of the checks of the unmarshal function,
    which skips the bounds check when [dest] is NULL. *)
Definition TPMA_MARSHAL (ty : ctype) (src : Z) : mstep :=
  fun buffer buffer_size offset =>
  let local_offset := default 0 offset in
  match buffer, offset with
  | None, None => Ret (TSS2_MU_RC_BAD_REFERENCE, (buffer, offset))
  | None, Some o => Ret (TSS2_RC_SUCCESS, (buffer, Some (wrap64 (o + csizeof ty))))
  | Some b, _ =>
      if (buffer_size <? local_offset) || (buffer_size - local_offset <? csizeof ty)
      then Ret (TSS2_MU_RC_INSUFFICIENT_BUFFER, (buffer, offset))
      else match switch_to_be (csize ty) (to_unsigned ty src) with
           | None => Ret (TSS2_MU_RC_GENERAL_FAILURE, (buffer, offset))
           | Some v =>
               let* b' := access (mem_write b local_offset (host_image (csize ty) v)) in
               Ret (TSS2_RC_SUCCESS,
                    (Some b', match offset with
                              | Some _ => Some (local_offset + csizeof ty)
                              | None => None
                              end))
           end
  end.

Definition TPMA_UNMARSHAL (ty : ctype) : ufn Z :=
  fun buffer buffer_size offset dest =>
  let local_offset := default 0 offset in
  match buffer, dest, offset with
  | None, _, _ | _, None, None => Ret (TSS2_MU_RC_BAD_REFERENCE, (offset, dest))
  | Some b, None, Some o =>
      Ret (TSS2_RC_SUCCESS, (Some (wrap64 (o + csizeof ty)), dest))
  | Some b, Some _, _ =>
      if (buffer_size <? local_offset) || (buffer_size - local_offset <? csizeof ty)
      then Ret (TSS2_MU_RC_INSUFFICIENT_BUFFER, (offset, dest))
      else let* tmp := access (mem_read b local_offset (csizeof ty)) in
           match switch_to_host (csize ty) (host_value tmp) with
           | None => Ret (TSS2_MU_RC_GENERAL_FAILURE, (offset, dest))
           | Some v =>
               Ret (TSS2_RC_SUCCESS,
                    (match offset with
                     | Some _ => Some (local_offset + csizeof ty)
                     | None => None
                     end, Some (of_unsigned ty v)))
           end
  end.

(** ** Instances *)

Definition Tss2_MU_BYTE_Marshal := BASE_MARSHAL BYTE.
Definition Tss2_MU_BYTE_Unmarshal := BASE_UNMARSHAL BYTE.
Definition Tss2_MU_INT8_Marshal := BASE_MARSHAL INT8.
Definition Tss2_MU_INT8_Unmarshal := BASE_UNMARSHAL INT8.
Definition Tss2_MU_INT16_Marshal := BASE_MARSHAL INT16.
Definition Tss2_MU_INT16_Unmarshal := BASE_UNMARSHAL INT16.
Definition Tss2_MU_INT32_Marshal := BASE_MARSHAL INT32.
Definition Tss2_MU_INT32_Unmarshal := BASE_UNMARSHAL INT32.
Definition Tss2_MU_INT64_Marshal := BASE_MARSHAL INT64.
Definition Tss2_MU_INT64_Unmarshal := BASE_UNMARSHAL INT64.
Definition Tss2_MU_UINT8_Marshal := BASE_MARSHAL UINT8.
Definition Tss2_MU_UINT8_Unmarshal := BASE_UNMARSHAL UINT8.
Definition Tss2_MU_UINT16_Marshal := BASE_MARSHAL UINT16.
Definition Tss2_MU_UINT16_Unmarshal := BASE_UNMARSHAL UINT16.
Definition Tss2_MU_UINT32_Marshal := BASE_MARSHAL UINT32.
Definition Tss2_MU_UINT32_Unmarshal := BASE_UNMARSHAL UINT32.
Definition Tss2_MU_UINT64_Marshal := BASE_MARSHAL UINT64.
Definition Tss2_MU_UINT64_Unmarshal := BASE_UNMARSHAL UINT64.
Definition Tss2_MU_TPM2_CC_Marshal := BASE_MARSHAL UINT32.
Definition Tss2_MU_TPM2_CC_Unmarshal := BASE_UNMARSHAL UINT32.
Definition Tss2_MU_TPM2_ST_Marshal := BASE_MARSHAL UINT16.
Definition Tss2_MU_TPM2_ST_Unmarshal := BASE_UNMARSHAL UINT16.
Definition Tss2_MU_TPM2_SE_Marshal := BASE_MARSHAL UINT8.
Definition Tss2_MU_TPM2_SE_Unmarshal := BASE_UNMARSHAL UINT8.
Definition Tss2_MU_TPM2_NT_Marshal := BASE_MARSHAL UINT8.
Definition Tss2_MU_TPM2_NT_Unmarshal := BASE_UNMARSHAL UINT8.
Definition Tss2_MU_TPM2_HANDLE_Marshal := BASE_MARSHAL UINT32.
Definition Tss2_MU_TPM2_HANDLE_Unmarshal := BASE_UNMARSHAL UINT32.
Definition Tss2_MU_TPMI_ALG_HASH_Marshal := BASE_MARSHAL UINT16.
Definition Tss2_MU_TPMI_ALG_HASH_Unmarshal := BASE_UNMARSHAL UINT16.

Definition Tss2_MU_TPMA_ALGORITHM_Marshal := TPMA_MARSHAL UINT32.
Definition Tss2_MU_TPMA_ALGORITHM_Unmarshal := TPMA_UNMARSHAL UINT32.
Definition Tss2_MU_TPMA_CC_Marshal := TPMA_MARSHAL UINT32.
Definition Tss2_MU_TPMA_CC_Unmarshal := TPMA_UNMARSHAL UINT32.
Definition Tss2_MU_TPMA_LOCALITY_Marshal := TPMA_MARSHAL UINT8.
Definition Tss2_MU_TPMA_LOCALITY_Unmarshal := TPMA_UNMARSHAL UINT8.
Definition Tss2_MU_TPMA_NV_Marshal := TPMA_MARSHAL UINT32.
Definition Tss2_MU_TPMA_NV_Unmarshal := TPMA_UNMARSHAL UINT32.
Definition Tss2_MU_TPMA_OBJECT_Marshal := TPMA_MARSHAL UINT32.
Definition Tss2_MU_TPMA_OBJECT_Unmarshal := TPMA_UNMARSHAL UINT32.
Definition Tss2_MU_TPMA_PERMANENT_Marshal := TPMA_MARSHAL UINT32.
Definition Tss2_MU_TPMA_PERMANENT_Unmarshal := TPMA_UNMARSHAL UINT32.
Definition Tss2_MU_TPMA_SESSION_Marshal := TPMA_MARSHAL UINT8.
Definition Tss2_MU_TPMA_SESSION_Unmarshal := TPMA_UNMARSHAL UINT8.
Definition Tss2_MU_TPMA_STARTUP_CLEAR_Marshal := TPMA_MARSHAL UINT32.
Definition Tss2_MU_TPMA_STARTUP_CLEAR_Unmarshal := TPMA_UNMARSHAL UINT32.

End Base.
