(* ===== verification/MuBaseOk.v ===== *)
(** * Correctness of the scalar marshaling functions.

    The two macros of [base-types.c] and [tpma-types.c] implement the wire
    format [spec_int]: [sizeof(type)] bytes, most significant first, on a host
    of either byte order. *)

From S2P Require Import Prelude Common MuSpec MuBase.
Open Scope tss_scope.

(** The wire format of an integer type. *)
Definition spec_int (ty : ctype) : spec Z :=
  {| s_wf := in_range ty;
     s_dom := fun _ => True;
     s_wire := fun x => Some (be_bytes (csize ty) (to_unsigned ty x));
     s_eqv := eq;
     s_max := csizeof ty |}.

Lemma csizeof_pos ty : ctype_ok ty -> 0 < csizeof ty.
Proof. unfold ctype_ok, csizeof. lia. Qed.

Lemma pow_cbits ty : 2 ^ cbits ty = 256 ^ Z.of_nat (csize ty).
Proof. unfold cbits, csizeof. by rewrite Z.pow_mul_r by lia. Qed.

Lemma to_unsigned_bound ty v : 0 <= to_unsigned ty v < 256 ^ Z.of_nat (csize ty).
Proof. unfold to_unsigned, wrap. rewrite pow_cbits. apply Z.mod_pos_bound. lia. Qed.

Lemma to_unsigned_small ty v : 0 <= v < 2 ^ cbits ty -> to_unsigned ty v = v.
Proof. intros. by apply wrap_small. Qed.

Lemma pow_half ty : ctype_ok ty -> 2 ^ cbits ty = 2 * 2 ^ (cbits ty - 1).
Proof.
  intros O. apply csizeof_pos in O. unfold cbits.
  rewrite <-Z.pow_succ_r by lia. f_equal. lia.
Qed.

Lemma of_to_unsigned ty v :
  ctype_ok ty -> in_range ty v -> of_unsigned ty (to_unsigned ty v) = v.
Proof.
  intros O R. pose proof (pow_half ty O) as P.
  assert (0 < 2 ^ (cbits ty - 1)) by (apply Z.pow_pos_nonneg; apply csizeof_pos in O; unfold cbits; lia).
  unfold of_unsigned, to_unsigned, wrap, in_range in *. destruct (csigned ty); simpl.
  - destruct (Z.lt_ge_cases v 0).
    + rewrite <-(Z.mod_unique v (2 ^ cbits ty) (-1) (v + 2 ^ cbits ty)) by lia.
      case_test; lia.
    + rewrite Z.mod_small by lia. case_test; lia.
  - by rewrite Z.mod_small.
Qed.

Lemma to_of_unsigned ty v :
  ctype_ok ty -> 0 <= v < 2 ^ cbits ty -> to_unsigned ty (of_unsigned ty v) = v.
Proof.
  intros O R. pose proof (pow_half ty O) as P.
  unfold of_unsigned, to_unsigned, wrap. case_test; [|by apply Z.mod_small].
  symmetry. apply (Z.mod_unique _ _ (-1)); lia.
Qed.

Lemma of_unsigned_range ty v :
  ctype_ok ty -> 0 <= v < 2 ^ cbits ty -> in_range ty (of_unsigned ty v).
Proof.
  intros O R. pose proof (pow_half ty O) as P.
  unfold of_unsigned, in_range. destruct (csigned ty); simpl; [|done]. case_test; lia.
Qed.

Lemma spec_int_ok ty : SpecOk (spec_int ty).
Proof.
  split; simpl; intros; simplify_eq; auto using be_bytes_ok.
  unfold csizeof. zlia.
Qed.
#[export] Existing Instance spec_int_ok.

(** Side conditions on the sizes of the C integer types. *)
Ltac ctype := unfold ctype_ok; simpl; tauto.

Section BaseOk.
Context {H : Host}.

#[local] Transparent be_bytes be_value.

(** Conversion to big-endian order followed by the store of the object
    representation stores the most significant byte first, on any host. *)
Lemma host_image_be n v r :
  0 <= v < 256 ^ Z.of_nat n -> switch_to_be n v = Some r -> host_image n r = be_bytes n v.
Proof.
  unfold switch_to_be, host_image, HOST_TO_BE_16, HOST_TO_BE_32, HOST_TO_BE_64.
  intros Hv E. destruct words_bigendian;
    destruct n as [|[|[|[|[|[|[|[|[|]]]]]]]]]; simplify_eq; try done.
  - rewrite endian_conv_16_rev. apply le_bytes_swap.
  - rewrite endian_conv_32_rev. apply le_bytes_swap.
  - rewrite endian_conv_64_rev. apply le_bytes_swap.
Qed.

Lemma switch_host_be l r :
  bytes_ok l -> switch_to_host (length l) (host_value l) = Some r -> r = be_value l.
Proof.
  unfold switch_to_host, host_value, BE_TO_HOST_16, BE_TO_HOST_32, BE_TO_HOST_64,
    HOST_TO_BE_16, HOST_TO_BE_32, HOST_TO_BE_64.
  intros Hl E. pose proof (le_value_swap l Hl) as S. revert E S.
  destruct words_bigendian; destruct (length l) as [|[|[|[|[|[|[|[|[|]]]]]]]]] eqn:L;
    intros E S; simplify_eq; try done.
  - destruct l as [|? []]; done.
  - by rewrite endian_conv_16_rev.
  - by rewrite endian_conv_32_rev.
  - by rewrite endian_conv_64_rev.
Qed.

#[local] Opaque be_bytes be_value.

Lemma switch_to_be_ok ty v : ctype_ok ty -> exists r, switch_to_be (csize ty) v = Some r.
Proof. intros [->|[->|[->| ->]]]; simpl; eauto. Qed.

Lemma switch_to_host_ok ty v : ctype_ok ty -> exists r, switch_to_host (csize ty) v = Some r.
Proof. intros [->|[->|[->| ->]]]; simpl; eauto. Qed.

(** The store of the macros: what is written for [src]. *)
Lemma store_be ty src b lo :
  ctype_ok ty -> 0 <= lo -> lo + csizeof ty <= Zlen b ->
  exists r b', switch_to_be (csize ty) (to_unsigned ty src) = Some r /\
    mem_write b lo (host_image (csize ty) r) = Some b' /\
    mem_write b lo (be_bytes (csize ty) (to_unsigned ty src)) = Some b'.
Proof.
  intros O Hlo Hb. destruct (switch_to_be_ok ty (to_unsigned ty src) O) as [r Hr].
  pose proof (host_image_be _ _ _ (to_unsigned_bound ty src) Hr) as E.
  destruct (mem_write_is_Some b lo (be_bytes (csize ty) (to_unsigned ty src))) as [b' W];
    [lia|unfold csizeof in *; zlia|]. exists r, b'. by rewrite E.
Qed.

(** The load of the macros: the value found in the buffer. *)
Lemma load_be ty b lo :
  ctype_ok ty -> bytes_ok b -> 0 <= lo -> lo + csizeof ty <= Zlen b ->
  exists tmp v, mem_read b lo (csizeof ty) = Some tmp /\
    switch_to_host (csize ty) (host_value tmp) = Some v /\
    be_bytes (csize ty) v = tmp /\ 0 <= v < 2 ^ cbits ty.
Proof.
  intros O Hb Hlo Hl. pose proof (csizeof_pos ty O).
  destruct (mem_read_is_Some b lo (csizeof ty)) as [tmp R]; [lia..|].
  pose proof (mem_read_bytes _ _ _ _ Hb R) as Ht. apply mem_read_len in R as L.
  assert (length tmp = csize ty) as L' by (unfold Zlen, csizeof in L; lia).
  destruct (switch_to_host_ok ty (host_value tmp) O) as [v Hv].
  rewrite <-L' in Hv. pose proof (switch_host_be _ _ Ht Hv) as ->.
  pose proof (be_value_bound tmp Ht) as B. unfold Zlen in B. rewrite L', <-pow_cbits in B.
  exists tmp, (be_value tmp). rewrite <-L' at 1 2. split_and!; try done; try apply B.
  by apply be_bytes_be_value.
Qed.

Lemma be_bytes_ne ty v : ctype_ok ty -> be_bytes (csize ty) v <> [].
Proof.
  intros O E. apply (f_equal Zlen) in E. rewrite Zlen_be_bytes in E.
  apply csizeof_pos in O. unfold csizeof in O. rewrite Zlen_nil in E. lia.
Qed.

Lemma fits_int ty v lo size :
  ctype_ok ty -> fits lo (be_bytes (csize ty) v) size <-> lo + csizeof ty <= size.
Proof.
  intros O. unfold fits. rewrite Zlen_be_bytes. pose proof (be_bytes_ne ty v O).
  unfold csizeof. tauto.
Qed.

(** Success and failure of a scalar marshal call. *)
Lemma int_marshal_post ty src b size lo :
  ctype_ok ty -> 0 <= lo -> 0 <= size <= Zlen b ->
  (size <? lo) || (size - lo <? csizeof ty) = true ->
  marshal_post true (s_wire (spec_int ty) src) b size lo
    TSS2_MU_RC_INSUFFICIENT_BUFFER b lo.
Proof.
  intros O ?? Hc. right. split_and!; [done|done|apply same_outside_refl|].
  right. eexists. split_and!; [done| |done]. rewrite (fits_int ty) by done.
  pose proof (csizeof_pos ty O). bool2prop. lia.
Qed.

Lemma BASE_MARSHAL_ok ty : ctype_ok ty -> marshal_ok (BASE_MARSHAL ty) (spec_int ty).
Proof.
  intros O x _ _. split.
  - intros b size lo Hlo Hs. unfold BASE_MARSHAL. simpl. case_test.
    + do 3 eexists. split; [done|]. apply int_marshal_post; [done..|].
      apply orb_true_iff. rewrite !Z.ltb_lt. lia.
    + destruct (store_be ty x b lo) as (r&b'&->&->&W); [done|lia|lia|].
      do 3 eexists. split; [done|]. left. eexists.
      rewrite (fits_int ty), Zlen_be_bytes by done. split_and!; try done; [lia|by right].
  - intros w size lo E ?? Hm. simpl in *. simplify_eq. rewrite Zlen_be_bytes in *.
    fold (csizeof ty) in *. rewrite wrap64_small; [done|]. unfold csizeof in *. lia.
Qed.

Lemma TPMA_MARSHAL_ok ty : ctype_ok ty -> marshal_ok (TPMA_MARSHAL ty) (spec_int ty).
Proof.
  intros O x _ _. split.
  - intros b size lo Hlo Hs. unfold TPMA_MARSHAL. simpl. case_test.
    + do 3 eexists. split; [done|]. apply int_marshal_post; [done..|].
      apply orb_true_iff. rewrite !Z.ltb_lt. lia.
    + destruct (store_be ty x b lo) as (r&b'&->&->&W); [done|lia|lia|].
      do 3 eexists. split; [done|]. left. eexists.
      rewrite (fits_int ty), Zlen_be_bytes by done. split_and!; try done; [lia|by right].
  - intros w size lo E ?? Hm. simpl in *. simplify_eq. rewrite Zlen_be_bytes in *.
    fold (csizeof ty) in *. rewrite wrap64_small; [done|]. unfold csizeof in *. lia.
Qed.

(** What a scalar unmarshal call returns when the bytes are there. *)
Lemma int_parse_post ty b size lo d :
  ctype_ok ty -> bytes_ok b -> 0 <= size <= Zlen b -> 0 <= lo -> in_range ty d ->
  exists rc lo' d',
    (if (size <? lo) || (size - lo <? csizeof ty)
     then Ret (TSS2_MU_RC_INSUFFICIENT_BUFFER, (Some lo, Some d))
     else let* tmp := access (mem_read b lo (csizeof ty)) in
          match switch_to_host (csize ty) (host_value tmp) with
          | None => Undef
          | Some v => Ret (TSS2_RC_SUCCESS, (Some (lo + csizeof ty), Some (of_unsigned ty v)))
          end) = Ret (rc, (Some lo', Some d')) /\
    parse_post true (fun _ => True) (spec_int ty) b size lo rc lo' d'.
Proof.
  intros O Hb Hs Hlo Hd. case_test.
  - do 3 eexists. split; [done|]. apply parse_fail; [done|done|].
    intros x w _ _ E F _. simpl in E. simplify_eq. rewrite (fits_int ty) in F by done.
    pose proof (csizeof_pos ty O). lia.
  - destruct (load_be ty b lo) as (tmp&v&R&Sw&Et&Hv); [done|done|lia|lia|].
    rewrite R. simpl. rewrite Sw. do 3 eexists. split; [done|]. simpl.
    split_and!; [by apply of_unsigned_range| |done|]; simpl; rewrite ?to_of_unsigned by done.
    + intros _. eexists. split; [done|]. rewrite (fits_int ty), Zlen_be_bytes by done.
      split_and!; [lia|done|]. right. rewrite Zlen_be_bytes. fold (csizeof ty). by rewrite Et.
    + intros x w Hx _ E _ [E'|E']; injection E as <-; [by apply be_bytes_ne in E'|].
      rewrite Zlen_be_bytes in E'. fold (csizeof ty) in E'. rewrite R in E'.
      injection E' as E'. rewrite <-Et in E'. split; [done|]. rewrite <-(of_to_unsigned ty x) by done. f_equal.
      apply (f_equal be_value) in E'. revert E'.
      rewrite !be_value_be_bytes; [done|apply to_unsigned_bound|by rewrite <-pow_cbits].
Qed.

Lemma BASE_UNMARSHAL_ok ty : ctype_ok ty -> parse_ok (BASE_UNMARSHAL ty) (spec_int ty).
Proof.
  intros O b size lo d Hb Hs Hlo Hd.
  destruct (int_parse_post ty b size lo d) as (rc&lo'&d'&E&P); [done..|].
  exists rc, lo', d'. split; [|done]. rewrite <-E. unfold BASE_UNMARSHAL. simpl.
  case_test; [done|]. destruct (load_be ty b lo) as (tmp&v&->&Sw&_); [done|done|lia|lia|].
  simpl. by rewrite Sw.
Qed.

Lemma TPMA_UNMARSHAL_ok ty : ctype_ok ty -> parse_ok (TPMA_UNMARSHAL ty) (spec_int ty).
Proof.
  intros O b size lo d Hb Hs Hlo Hd.
  destruct (int_parse_post ty b size lo d) as (rc&lo'&d'&E&P); [done..|].
  exists rc, lo', d'. split; [|done]. rewrite <-E. unfold TPMA_UNMARSHAL. simpl.
  case_test; [done|]. destruct (load_be ty b lo) as (tmp&v&->&Sw&_); [done|done|lia|lia|].
  simpl. by rewrite Sw.
Qed.

Lemma wrap64_bound z : 0 <= wrap64 z < size_max.
Proof. apply Z.mod_pos_bound. done. Qed.

Lemma BASE_UNMARSHAL_skip ty : ctype_ok ty -> skip_ok (BASE_UNMARSHAL ty) (spec_int ty).
Proof.
  intros O b size lo Hb Hs Hm Hlo. unfold BASE_UNMARSHAL. simpl. case_test.
  - do 2 eexists. split; [done|]. split; [done|]. intros x w _ E F _. simpl in E.
    simplify_eq. rewrite (fits_int ty) in F by done. pose proof (csizeof_pos ty O). lia.
  - do 2 eexists. split; [done|]. split; [apply wrap64_bound|]. intros x w _ E F _.
    simpl in E. simplify_eq. rewrite (fits_int ty) in F by done.
    rewrite Zlen_be_bytes. fold (csizeof ty). pose proof (csizeof_pos ty O).
    rewrite wrap64_small by lia. done.
Qed.

Lemma TPMA_UNMARSHAL_skip ty : ctype_ok ty -> skip_ok (TPMA_UNMARSHAL ty) (spec_int ty).
Proof.
  intros O b size lo Hb Hs Hm Hlo. unfold TPMA_UNMARSHAL. simpl.
  do 2 eexists. split; [done|]. split; [apply wrap64_bound|]. intros x w _ E F _.
  simpl in E. simplify_eq. rewrite (fits_int ty) in F by done.
  rewrite Zlen_be_bytes. fold (csizeof ty). pose proof (csizeof_pos ty O).
  rewrite wrap64_small by lia. done.
Qed.

(** ** One statement per type *)

Lemma base_codec_ok ty :
  ctype_ok ty -> codec_ok (BASE_MARSHAL ty) (BASE_UNMARSHAL ty) (spec_int ty).
Proof.
  intros. split; [apply _|by apply BASE_MARSHAL_ok|by apply BASE_UNMARSHAL_ok].
Qed.

Lemma tpma_codec_ok ty :
  ctype_ok ty -> codec_ok (TPMA_MARSHAL ty) (TPMA_UNMARSHAL ty) (spec_int ty).
Proof.
  intros. split; [apply _|by apply TPMA_MARSHAL_ok|by apply TPMA_UNMARSHAL_ok].
Qed.

Lemma Tss2_MU_BYTE_ok : codec_ok (VAL Tss2_MU_BYTE_Marshal) Tss2_MU_BYTE_Unmarshal (spec_int BYTE).
Proof. apply base_codec_ok; ctype. Qed.
Lemma Tss2_MU_INT8_ok : codec_ok (VAL Tss2_MU_INT8_Marshal) Tss2_MU_INT8_Unmarshal (spec_int INT8).
Proof. apply base_codec_ok; ctype. Qed.
Lemma Tss2_MU_INT16_ok : codec_ok (VAL Tss2_MU_INT16_Marshal) Tss2_MU_INT16_Unmarshal (spec_int INT16).
Proof. apply base_codec_ok; ctype. Qed.
Lemma Tss2_MU_INT32_ok : codec_ok (VAL Tss2_MU_INT32_Marshal) Tss2_MU_INT32_Unmarshal (spec_int INT32).
Proof. apply base_codec_ok; ctype. Qed.
Lemma Tss2_MU_INT64_ok : codec_ok (VAL Tss2_MU_INT64_Marshal) Tss2_MU_INT64_Unmarshal (spec_int INT64).
Proof. apply base_codec_ok; ctype. Qed.
Lemma Tss2_MU_UINT8_ok : codec_ok (VAL Tss2_MU_UINT8_Marshal) Tss2_MU_UINT8_Unmarshal (spec_int UINT8).
Proof. apply base_codec_ok; ctype. Qed.
Lemma Tss2_MU_UINT16_ok : codec_ok (VAL Tss2_MU_UINT16_Marshal) Tss2_MU_UINT16_Unmarshal (spec_int UINT16).
Proof. apply base_codec_ok; ctype. Qed.
Lemma Tss2_MU_UINT32_ok : codec_ok (VAL Tss2_MU_UINT32_Marshal) Tss2_MU_UINT32_Unmarshal (spec_int UINT32).
Proof. apply base_codec_ok; ctype. Qed.
Lemma Tss2_MU_UINT64_ok : codec_ok (VAL Tss2_MU_UINT64_Marshal) Tss2_MU_UINT64_Unmarshal (spec_int UINT64).
Proof. apply base_codec_ok; ctype. Qed.
Lemma Tss2_MU_TPM2_CC_ok : codec_ok (VAL Tss2_MU_TPM2_CC_Marshal) Tss2_MU_TPM2_CC_Unmarshal (spec_int UINT32).
Proof. apply base_codec_ok; ctype. Qed.
Lemma Tss2_MU_TPM2_ST_ok : codec_ok (VAL Tss2_MU_TPM2_ST_Marshal) Tss2_MU_TPM2_ST_Unmarshal (spec_int UINT16).
Proof. apply base_codec_ok; ctype. Qed.
Lemma Tss2_MU_TPM2_SE_ok : codec_ok (VAL Tss2_MU_TPM2_SE_Marshal) Tss2_MU_TPM2_SE_Unmarshal (spec_int UINT8).
Proof. apply base_codec_ok; ctype. Qed.
Lemma Tss2_MU_TPM2_NT_ok : codec_ok (VAL Tss2_MU_TPM2_NT_Marshal) Tss2_MU_TPM2_NT_Unmarshal (spec_int UINT8).
Proof. apply base_codec_ok; ctype. Qed.
Lemma Tss2_MU_TPM2_HANDLE_ok : codec_ok (VAL Tss2_MU_TPM2_HANDLE_Marshal) Tss2_MU_TPM2_HANDLE_Unmarshal (spec_int UINT32).
Proof. apply base_codec_ok; ctype. Qed.
Lemma Tss2_MU_TPMI_ALG_HASH_ok : codec_ok (VAL Tss2_MU_TPMI_ALG_HASH_Marshal) Tss2_MU_TPMI_ALG_HASH_Unmarshal (spec_int UINT16).
Proof. apply base_codec_ok; ctype. Qed.
Lemma Tss2_MU_TPMA_ALGORITHM_ok :
  codec_ok (VAL Tss2_MU_TPMA_ALGORITHM_Marshal) Tss2_MU_TPMA_ALGORITHM_Unmarshal (spec_int UINT32).
Proof. apply tpma_codec_ok; ctype. Qed.
Lemma Tss2_MU_TPMA_CC_ok :
  codec_ok (VAL Tss2_MU_TPMA_CC_Marshal) Tss2_MU_TPMA_CC_Unmarshal (spec_int UINT32).
Proof. apply tpma_codec_ok; ctype. Qed.
Lemma Tss2_MU_TPMA_LOCALITY_ok :
  codec_ok (VAL Tss2_MU_TPMA_LOCALITY_Marshal) Tss2_MU_TPMA_LOCALITY_Unmarshal (spec_int UINT8).
Proof. apply tpma_codec_ok; ctype. Qed.
Lemma Tss2_MU_TPMA_NV_ok :
  codec_ok (VAL Tss2_MU_TPMA_NV_Marshal) Tss2_MU_TPMA_NV_Unmarshal (spec_int UINT32).
Proof. apply tpma_codec_ok; ctype. Qed.
Lemma Tss2_MU_TPMA_OBJECT_ok :
  codec_ok (VAL Tss2_MU_TPMA_OBJECT_Marshal) Tss2_MU_TPMA_OBJECT_Unmarshal (spec_int UINT32).
Proof. apply tpma_codec_ok; ctype. Qed.
Lemma Tss2_MU_TPMA_PERMANENT_ok :
  codec_ok (VAL Tss2_MU_TPMA_PERMANENT_Marshal) Tss2_MU_TPMA_PERMANENT_Unmarshal (spec_int UINT32).
Proof. apply tpma_codec_ok; ctype. Qed.
Lemma Tss2_MU_TPMA_SESSION_ok :
  codec_ok (VAL Tss2_MU_TPMA_SESSION_Marshal) Tss2_MU_TPMA_SESSION_Unmarshal (spec_int UINT8).
Proof. apply tpma_codec_ok; ctype. Qed.
Lemma Tss2_MU_TPMA_STARTUP_CLEAR_ok :
  codec_ok (VAL Tss2_MU_TPMA_STARTUP_CLEAR_Marshal) Tss2_MU_TPMA_STARTUP_CLEAR_Unmarshal (spec_int UINT32).
Proof. apply tpma_codec_ok; ctype. Qed.

End BaseOk.

(** [mu] collects the per-type statements the structure proofs chain. *)
Create HintDb mu.
#[export] Hint Resolve Tss2_MU_BYTE_ok Tss2_MU_INT8_ok Tss2_MU_INT16_ok Tss2_MU_INT32_ok Tss2_MU_INT64_ok Tss2_MU_UINT8_ok Tss2_MU_UINT16_ok Tss2_MU_UINT32_ok Tss2_MU_UINT64_ok Tss2_MU_TPM2_CC_ok Tss2_MU_TPM2_ST_ok Tss2_MU_TPM2_SE_ok Tss2_MU_TPM2_NT_ok Tss2_MU_TPM2_HANDLE_ok Tss2_MU_TPMI_ALG_HASH_ok Tss2_MU_TPMA_ALGORITHM_ok Tss2_MU_TPMA_CC_ok Tss2_MU_TPMA_LOCALITY_ok Tss2_MU_TPMA_NV_ok Tss2_MU_TPMA_OBJECT_ok Tss2_MU_TPMA_PERMANENT_ok Tss2_MU_TPMA_SESSION_ok Tss2_MU_TPMA_STARTUP_CLEAR_ok : mu.
