(* ===== verification/MuStruct.v ===== *)
(** * Structures: the macros of [src/tss2-mu/tpms-types.c] and [tpmt-types.c].

    Every [TPMS_MARSHAL_n] / [TPMT_MARSHAL_n] macro generates the same body:
    NULL checks, a local copy of [*offset], one call per member with an early
    return on failure, and the store of the local offset on success.
    [struct_marshal] and [struct_unmarshal] are that body, over the list of
    member calls; the macros are its instances, with the arguments of the C
    macros.  A member of a structure [T] is a [member T F]: how to read it
    and how to store into it. *)

From S2P Require Import Prelude Common MuSpec MuBase.
Open Scope tss_scope.

Record member (T F : Type) := Member { mget : T -> F; mset : F -> T -> T }.
Arguments Member {T F}.
Arguments mget {T F} m d : rename.
Arguments mset {T F} m v d : rename.

(** ** Member calls *)

(** [fn(op src->m, buffer, buffer_size, &local_offset)]. *)
Definition mfield {T F} (m : member T F) (fn : F -> mstep) : T -> mstep :=
  fun src => fn (mget m src).

(** [fn(op src->m, src->sel, buffer, buffer_size, &local_offset)]. *)
Definition mfield_sel {T U} (m : member T U) (sel : member T Z)
    (fn : U -> Z -> mstep) : T -> mstep :=
  fun src => fn (mget m src) (mget sel src).

Definition store {T F} (m : member T F) (d : T) (r : option F) : T :=
  match r with Some v => mset m v d | None => d end.

(** [fn(buffer, buffer_size, &local_offset, dest ? &dest->m : NULL)]. *)
Definition ufield {T F} (m : member T F) (fn : ufn F) : ustep T :=
  fun buffer buffer_size offset dest_given d =>
  let* (ret, (offset, r)) :=
    fn buffer buffer_size offset (if dest_given then Some (mget m d) else None) in
  Ret (ret, (offset, store m d r)).

(** [fn(buffer, buffer_size, &local_offset, dest ? &dest->m : &tmp.m)]. *)
Definition ufield_tmp {T F} (m : member T F) (fn : ufn F) : ustep T :=
  fun buffer buffer_size offset dest_given d =>
  let* (ret, (offset, r)) := fn buffer buffer_size offset (Some (mget m d)) in
  Ret (ret, (offset, store m d r)).

Abbreviation ufn_sel U := (option bytes -> Z -> option Z -> Z -> option U -> uresult U).

(** [fn(.., dest ? dest->sel : tmp.sel, dest ? &dest->m : NULL)]. *)
Definition ufield_sel {T U} (m : member T U) (sel : member T Z) (fn : ufn_sel U) : ustep T :=
  fun buffer buffer_size offset dest_given d =>
  let* (ret, (offset, r)) :=
    fn buffer buffer_size offset (mget sel d) (if dest_given then Some (mget m d) else None) in
  Ret (ret, (offset, store m d r)).

(** [fn(.., dest ? dest->sel : 0, dest ? &dest->m : NULL)]. *)
Definition ufield_sel0 {T U} (m : member T U) (sel : member T Z) (fn : ufn_sel U) : ustep T :=
  fun buffer buffer_size offset dest_given d =>
  let* (ret, (offset, r)) :=
    fn buffer buffer_size offset (if dest_given then mget sel d else 0)
      (if dest_given then Some (mget m d) else None) in
  Ret (ret, (offset, store m d r)).

(** ** Bodies *)

Fixpoint marshal_seq {T} (fs : list (T -> mstep)) (src : T) : mstep :=
  fun buffer buffer_size offset =>
  match fs with
  | [] => Ret (TSS2_RC_SUCCESS, (buffer, offset))
  | f :: fs =>
      let* (ret, (buffer, offset)) := f src buffer buffer_size offset in
      if negb (ret =? TSS2_RC_SUCCESS) then Ret (ret, (buffer, offset))
      else marshal_seq fs src buffer buffer_size offset
  end.

Definition struct_marshal {T} (null_rc : TSS2_RC) (fs : list (T -> mstep))
    (src : option T) : mstep :=
  fun buffer buffer_size offset =>
  match src with
  | None => Ret (null_rc, (buffer, offset))
  | Some src =>
      match offset, buffer with
      | None, None => Ret (TSS2_MU_RC_BAD_REFERENCE, (buffer, offset))
      | _, _ =>
          let local_offset := default 0 offset in
          let* (ret, (buffer, local_offset)) :=
            marshal_seq fs src buffer buffer_size (Some local_offset) in
          Ret (ret, (buffer,
            match offset with
            | Some _ => if ret =? TSS2_RC_SUCCESS then local_offset else offset
            | None => None
            end))
      end
  end.

Fixpoint unmarshal_seq {T} (us : list (ustep T)) : ustep T :=
  fun buffer buffer_size offset dest_given d =>
  match us with
  | [] => Ret (TSS2_RC_SUCCESS, (offset, d))
  | u :: us =>
      let* (ret, (offset, d)) := u buffer buffer_size offset dest_given d in
      if negb (ret =? TSS2_RC_SUCCESS) then Ret (ret, (offset, d))
      else unmarshal_seq us buffer buffer_size offset dest_given d
  end.

(** [zero] is the all-zero structure: what [memset] leaves in [*dest] (when
    [clear]), and in [tmp]. *)
Definition struct_unmarshal {T} (zero : T) (clear : bool) (us : list (ustep T)) : ufn T :=
  fun buffer buffer_size offset dest =>
  match offset, dest with
  | None, None => Ret (TSS2_MU_RC_BAD_REFERENCE, (offset, dest))
  | _, _ =>
      let local_offset := default 0 offset in
      let '(dest_given, d) :=
        match dest with
        | Some d => (true, if clear then zero else d)
        | None => (false, zero)
        end in
      let* (ret, (local_offset, d)) :=
        unmarshal_seq us buffer buffer_size (Some local_offset) dest_given d in
      Ret (ret,
           (match offset with
            | Some _ => if ret =? TSS2_RC_SUCCESS then local_offset else offset
            | None => None
            end,
            match dest with Some _ => Some d | None => None end))
  end.

(** ** The macros of tpms-types.c *)

(** [LOG_DEBUG] reads [*offset] without a check. *)
Definition TPMS_MARSHAL_0 {T} (src : option T) : mstep :=
  fun buffer buffer_size offset =>
  match src, offset with
  | None, _ => Ret (TSS2_MU_RC_BAD_REFERENCE, (buffer, offset))
  | Some _, None => Undef
  | Some _, Some _ => Ret (TSS2_RC_SUCCESS, (buffer, offset))
  end.

Definition TPMS_UNMARSHAL_0 {T} : ufn T :=
  fun buffer buffer_size offset dest =>
  match dest, offset with
  | None, _ => Ret (TSS2_MU_RC_BAD_REFERENCE, (offset, dest))
  | Some _, None => Undef
  | Some _, Some _ => Ret (TSS2_RC_SUCCESS, (offset, dest))
  end.

Definition TPMS_MARSHAL_1 {T F} (m : member T F) (fn : F -> mstep) (src : option T) : mstep :=
  fun buffer buffer_size offset =>
  match src with
  | None => Ret (TSS2_MU_RC_BAD_REFERENCE, (buffer, offset))
  | Some src => mfield m fn src buffer buffer_size offset
  end.

Definition TPMS_UNMARSHAL_1 {T F} (m : member T F) (fn : ufn F) : ufn T :=
  fun buffer buffer_size offset dest =>
  let* (ret, (offset, r)) :=
    fn buffer buffer_size offset
      (match dest with Some d => Some (mget m d) | None => None end) in
  Ret (ret, (offset, match dest with Some d => Some (store m d r) | None => None end)).

Definition TPMS_MARSHAL_2_U {T U2} (m1 : member T Z) (fn1 : Z -> mstep)
    (m2 : member T U2) (fn2 : U2 -> Z -> mstep)
    : option T -> mstep :=
  struct_marshal TSS2_MU_RC_BAD_REFERENCE [mfield m1 fn1; mfield_sel m2 m1 fn2].

Definition TPMS_UNMARSHAL_2_U {T U2} (zero : T) (m1 : member T Z) (fn1 : ufn Z)
    (m2 : member T U2) (fn2 : ufn_sel U2)
    : ufn T :=
  struct_unmarshal zero true [ufield_tmp m1 fn1; ufield_sel m2 m1 fn2].

Definition TPMS_MARSHAL_2 {T F1 F2} (m1 : member T F1) (fn1 : F1 -> mstep)
    (m2 : member T F2) (fn2 : F2 -> mstep)
    : option T -> mstep :=
  struct_marshal TSS2_MU_RC_BAD_REFERENCE [mfield m1 fn1; mfield m2 fn2].

Definition TPMS_UNMARSHAL_2 {T F1 F2} (zero : T) (m1 : member T F1) (fn1 : ufn F1)
    (m2 : member T F2) (fn2 : ufn F2)
    : ufn T :=
  struct_unmarshal zero true [ufield m1 fn1; ufield m2 fn2].

Definition TPMS_MARSHAL_3 {T F1 F2 F3} (m1 : member T F1) (fn1 : F1 -> mstep)
    (m2 : member T F2) (fn2 : F2 -> mstep) (m3 : member T F3) (fn3 : F3 -> mstep)
    : option T -> mstep :=
  struct_marshal TSS2_MU_RC_BAD_REFERENCE [mfield m1 fn1; mfield m2 fn2; mfield m3 fn3].

Definition TPMS_UNMARSHAL_3 {T F1 F2 F3} (zero : T) (m1 : member T F1) (fn1 : ufn F1)
    (m2 : member T F2) (fn2 : ufn F2) (m3 : member T F3) (fn3 : ufn F3)
    : ufn T :=
  struct_unmarshal zero true [ufield m1 fn1; ufield m2 fn2; ufield m3 fn3].

Definition TPMS_MARSHAL_4 {T F1 F2 F3 F4} (m1 : member T F1) (fn1 : F1 -> mstep)
    (m2 : member T F2) (fn2 : F2 -> mstep) (m3 : member T F3) (fn3 : F3 -> mstep)
    (m4 : member T F4) (fn4 : F4 -> mstep)
    : option T -> mstep :=
  struct_marshal TSS2_MU_RC_BAD_REFERENCE [mfield m1 fn1; mfield m2 fn2; mfield m3 fn3;
    mfield m4 fn4].

Definition TPMS_UNMARSHAL_4 {T F1 F2 F3 F4} (zero : T) (m1 : member T F1) (fn1 : ufn F1)
    (m2 : member T F2) (fn2 : ufn F2) (m3 : member T F3) (fn3 : ufn F3)
    (m4 : member T F4) (fn4 : ufn F4)
    : ufn T :=
  struct_unmarshal zero true [ufield m1 fn1; ufield m2 fn2; ufield m3 fn3; ufield m4 fn4].

Definition TPMS_MARSHAL_5 {T F1 F2 F3 F4 F5} (m1 : member T F1) (fn1 : F1 -> mstep)
    (m2 : member T F2) (fn2 : F2 -> mstep) (m3 : member T F3) (fn3 : F3 -> mstep)
    (m4 : member T F4) (fn4 : F4 -> mstep) (m5 : member T F5) (fn5 : F5 -> mstep)
    : option T -> mstep :=
  struct_marshal TSS2_MU_RC_BAD_REFERENCE [mfield m1 fn1; mfield m2 fn2; mfield m3 fn3;
    mfield m4 fn4; mfield m5 fn5].

Definition TPMS_UNMARSHAL_5 {T F1 F2 F3 F4 F5} (zero : T) (m1 : member T F1) (fn1 : ufn F1)
    (m2 : member T F2) (fn2 : ufn F2) (m3 : member T F3) (fn3 : ufn F3)
    (m4 : member T F4) (fn4 : ufn F4) (m5 : member T F5) (fn5 : ufn F5)
    : ufn T :=
  struct_unmarshal zero true [ufield m1 fn1; ufield m2 fn2; ufield m3 fn3; ufield m4 fn4;
    ufield m5 fn5].

Definition TPMS_MARSHAL_7 {T F1 F2 F3 F4 F5 F6 F7} (m1 : member T F1) (fn1 : F1 -> mstep)
    (m2 : member T F2) (fn2 : F2 -> mstep) (m3 : member T F3) (fn3 : F3 -> mstep)
    (m4 : member T F4) (fn4 : F4 -> mstep) (m5 : member T F5) (fn5 : F5 -> mstep)
    (m6 : member T F6) (fn6 : F6 -> mstep) (m7 : member T F7) (fn7 : F7 -> mstep)
    : option T -> mstep :=
  struct_marshal TSS2_MU_RC_BAD_REFERENCE [mfield m1 fn1; mfield m2 fn2; mfield m3 fn3;
    mfield m4 fn4; mfield m5 fn5; mfield m6 fn6; mfield m7 fn7].

Definition TPMS_UNMARSHAL_7 {T F1 F2 F3 F4 F5 F6 F7} (zero : T)
    (m1 : member T F1) (fn1 : ufn F1) (m2 : member T F2) (fn2 : ufn F2)
    (m3 : member T F3) (fn3 : ufn F3) (m4 : member T F4) (fn4 : ufn F4)
    (m5 : member T F5) (fn5 : ufn F5) (m6 : member T F6) (fn6 : ufn F6)
    (m7 : member T F7) (fn7 : ufn F7)
    : ufn T :=
  struct_unmarshal zero true [ufield m1 fn1; ufield m2 fn2; ufield m3 fn3; ufield m4 fn4;
    ufield m5 fn5; ufield m6 fn6; ufield m7 fn7].

Definition TPMS_MARSHAL_7_U {T F1 F3 F4 F5 F6 U7} (m1 : member T F1) (fn1 : F1 -> mstep)
    (m2 : member T Z) (fn2 : Z -> mstep) (m3 : member T F3) (fn3 : F3 -> mstep)
    (m4 : member T F4) (fn4 : F4 -> mstep) (m5 : member T F5) (fn5 : F5 -> mstep)
    (m6 : member T F6) (fn6 : F6 -> mstep)
    (m7 : member T U7) (fn7 : U7 -> Z -> mstep)
    : option T -> mstep :=
  struct_marshal TSS2_MU_RC_BAD_REFERENCE [mfield m1 fn1; mfield m2 fn2; mfield m3 fn3;
    mfield m4 fn4; mfield m5 fn5; mfield m6 fn6; mfield_sel m7 m2 fn7].

Definition TPMS_UNMARSHAL_7_U {T F1 F3 F4 F5 F6 U7} (zero : T)
    (m1 : member T F1) (fn1 : ufn F1) (m2 : member T Z) (fn2 : ufn Z)
    (m3 : member T F3) (fn3 : ufn F3) (m4 : member T F4) (fn4 : ufn F4)
    (m5 : member T F5) (fn5 : ufn F5) (m6 : member T F6) (fn6 : ufn F6)
    (m7 : member T U7) (fn7 : ufn_sel U7)
    : ufn T :=
  struct_unmarshal zero true [ufield m1 fn1; ufield m2 fn2; ufield m3 fn3; ufield m4 fn4;
    ufield m5 fn5; ufield m6 fn6; ufield_sel0 m7 m2 fn7].

Definition TPMS_MARSHAL_11 {T F1 F2 F3 F4 F5 F6 F7 F8 F9 F10 F11}
    (m1 : member T F1) (fn1 : F1 -> mstep) (m2 : member T F2) (fn2 : F2 -> mstep)
    (m3 : member T F3) (fn3 : F3 -> mstep) (m4 : member T F4) (fn4 : F4 -> mstep)
    (m5 : member T F5) (fn5 : F5 -> mstep) (m6 : member T F6) (fn6 : F6 -> mstep)
    (m7 : member T F7) (fn7 : F7 -> mstep) (m8 : member T F8) (fn8 : F8 -> mstep)
    (m9 : member T F9) (fn9 : F9 -> mstep) (m10 : member T F10) (fn10 : F10 -> mstep)
    (m11 : member T F11) (fn11 : F11 -> mstep)
    : option T -> mstep :=
  struct_marshal TSS2_MU_RC_BAD_REFERENCE [mfield m1 fn1; mfield m2 fn2; mfield m3 fn3;
    mfield m4 fn4; mfield m5 fn5; mfield m6 fn6; mfield m7 fn7; mfield m8 fn8; mfield m9 fn9;
    mfield m10 fn10; mfield m11 fn11].

Definition TPMS_UNMARSHAL_11 {T F1 F2 F3 F4 F5 F6 F7 F8 F9 F10 F11} (zero : T)
    (m1 : member T F1) (fn1 : ufn F1) (m2 : member T F2) (fn2 : ufn F2)
    (m3 : member T F3) (fn3 : ufn F3) (m4 : member T F4) (fn4 : ufn F4)
    (m5 : member T F5) (fn5 : ufn F5) (m6 : member T F6) (fn6 : ufn F6)
    (m7 : member T F7) (fn7 : ufn F7) (m8 : member T F8) (fn8 : ufn F8)
    (m9 : member T F9) (fn9 : ufn F9) (m10 : member T F10) (fn10 : ufn F10)
    (m11 : member T F11) (fn11 : ufn F11)
    : ufn T :=
  struct_unmarshal zero true [ufield m1 fn1; ufield m2 fn2; ufield m3 fn3; ufield m4 fn4;
    ufield m5 fn5; ufield m6 fn6; ufield m7 fn7; ufield m8 fn8; ufield m9 fn9; ufield m10 fn10;
    ufield m11 fn11].

(** ** The macros of tpmt-types.c *)

Definition TPMT_MARSHAL_2 {T F1 U2} (m1 : member T F1) (fn1 : F1 -> mstep)
    (m2 : member T U2) (sel2 : member T Z) (fn2 : U2 -> Z -> mstep)
    : option T -> mstep :=
  struct_marshal TSS2_SYS_RC_BAD_REFERENCE [mfield m1 fn1; mfield_sel m2 sel2 fn2].

Definition TPMT_UNMARSHAL_2 {T F1 U2} (zero : T) (m1 : member T F1) (fn1 : ufn F1)
    (m2 : member T U2) (sel2 : member T Z) (fn2 : ufn_sel U2)
    : ufn T :=
  struct_unmarshal zero false [ufield_tmp m1 fn1; ufield_sel m2 sel2 fn2].

Definition TPMT_MARSHAL_3 {T F1 U2 U3} (m1 : member T F1) (fn1 : F1 -> mstep)
    (m2 : member T U2) (sel2 : member T Z) (fn2 : U2 -> Z -> mstep)
    (m3 : member T U3) (sel3 : member T Z) (fn3 : U3 -> Z -> mstep)
    : option T -> mstep :=
  struct_marshal TSS2_SYS_RC_BAD_REFERENCE [mfield m1 fn1; mfield_sel m2 sel2 fn2;
    mfield_sel m3 sel3 fn3].

Definition TPMT_UNMARSHAL_3 {T F1 U2 U3} (zero : T) (m1 : member T F1) (fn1 : ufn F1)
    (m2 : member T U2) (sel2 : member T Z) (fn2 : ufn_sel U2)
    (m3 : member T U3) (sel3 : member T Z) (fn3 : ufn_sel U3)
    : ufn T :=
  struct_unmarshal zero false [ufield_tmp m1 fn1; ufield_sel m2 sel2 fn2;
    ufield_sel m3 sel3 fn3].

Definition TPMT_MARSHAL_TK {T F1 F2 F3} (m1 : member T F1) (fn1 : F1 -> mstep)
    (m2 : member T F2) (fn2 : F2 -> mstep) (m3 : member T F3) (fn3 : F3 -> mstep)
    : option T -> mstep :=
  struct_marshal TSS2_SYS_RC_BAD_REFERENCE [mfield m1 fn1; mfield m2 fn2; mfield m3 fn3].

Definition TPMT_UNMARSHAL_TK {T F1 F2 F3} (zero : T) (m1 : member T F1) (fn1 : ufn F1)
    (m2 : member T F2) (fn2 : ufn F2) (m3 : member T F3) (fn3 : ufn F3)
    : ufn T :=
  struct_unmarshal zero false [ufield m1 fn1; ufield m2 fn2; ufield m3 fn3].

Definition TPMT_MARSHAL_4 {T F1 F2 F3 U4} (m1 : member T F1) (fn1 : F1 -> mstep)
    (m2 : member T F2) (fn2 : F2 -> mstep) (m3 : member T F3) (fn3 : F3 -> mstep)
    (m4 : member T U4) (sel4 : member T Z) (fn4 : U4 -> Z -> mstep)
    : option T -> mstep :=
  struct_marshal TSS2_SYS_RC_BAD_REFERENCE [mfield m1 fn1; mfield m2 fn2; mfield m3 fn3;
    mfield_sel m4 sel4 fn4].

Definition TPMT_UNMARSHAL_4 {T F1 F2 F3 U4} (zero : T) (m1 : member T F1) (fn1 : ufn F1)
    (m2 : member T F2) (fn2 : ufn F2) (m3 : member T F3) (fn3 : ufn F3)
    (m4 : member T U4) (sel4 : member T Z) (fn4 : ufn_sel U4)
    : ufn T :=
  struct_unmarshal zero false [ufield_tmp m1 fn1; ufield_tmp m2 fn2; ufield_tmp m3 fn3;
    ufield_sel m4 sel4 fn4].

Definition TPMT_MARSHAL_5 {T F1 F2 F3 F4 F5} (m1 : member T F1) (fn1 : F1 -> mstep)
    (m2 : member T F2) (fn2 : F2 -> mstep) (m3 : member T F3) (fn3 : F3 -> mstep)
    (m4 : member T F4) (fn4 : F4 -> mstep) (m5 : member T F5) (fn5 : F5 -> mstep)
    : option T -> mstep :=
  struct_marshal TSS2_SYS_RC_BAD_REFERENCE [mfield m1 fn1; mfield m2 fn2; mfield m3 fn3;
    mfield m4 fn4; mfield m5 fn5].

Definition TPMT_UNMARSHAL_5 {T F1 F2 F3 F4 F5} (zero : T) (m1 : member T F1) (fn1 : ufn F1)
    (m2 : member T F2) (fn2 : ufn F2) (m3 : member T F3) (fn3 : ufn F3)
    (m4 : member T F4) (fn4 : ufn F4) (m5 : member T F5) (fn5 : ufn F5)
    : ufn T :=
  struct_unmarshal zero false [ufield m1 fn1; ufield m2 fn2; ufield m3 fn3; ufield m4 fn4;
    ufield m5 fn5].

Definition TPMT_MARSHAL_6 {T F1 F2 F3 F4 U5 U6} (m1 : member T F1) (fn1 : F1 -> mstep)
    (m2 : member T F2) (fn2 : F2 -> mstep) (m3 : member T F3) (fn3 : F3 -> mstep)
    (m4 : member T F4) (fn4 : F4 -> mstep)
    (m5 : member T U5) (sel5 : member T Z) (fn5 : U5 -> Z -> mstep)
    (m6 : member T U6) (sel6 : member T Z) (fn6 : U6 -> Z -> mstep)
    : option T -> mstep :=
  struct_marshal TSS2_SYS_RC_BAD_REFERENCE [mfield m1 fn1; mfield m2 fn2; mfield m3 fn3;
    mfield m4 fn4; mfield_sel m5 sel5 fn5; mfield_sel m6 sel6 fn6].

Definition TPMT_UNMARSHAL_6 {T F1 F2 F3 F4 U5 U6} (zero : T) (m1 : member T F1) (fn1 : ufn F1)
    (m2 : member T F2) (fn2 : ufn F2) (m3 : member T F3) (fn3 : ufn F3)
    (m4 : member T F4) (fn4 : ufn F4) (m5 : member T U5) (sel5 : member T Z) (fn5 : ufn_sel U5)
    (m6 : member T U6) (sel6 : member T Z) (fn6 : ufn_sel U6)
    : ufn T :=
  struct_unmarshal zero false [ufield_tmp m1 fn1; ufield_tmp m2 fn2; ufield_tmp m3 fn3;
    ufield_tmp m4 fn4; ufield_sel m5 sel5 fn5; ufield_sel m6 sel6 fn6].
