(* ===== verification/MuStructOk.v ===== *)
(** * Correctness of the structure macros.

    A structure whose members implement their formats implements the
    concatenation of these formats.  [steps_ok] relates a list of unmarshal
    calls to the format of the structure; the side conditions "a later call
    does not touch the member" are instances of [Stable], found by instance
    search. *)

From S2P Require Import Prelude Common MuSpec MuBase MuBaseOk MuStruct.
Open Scope tss_scope.

(** ** What a call leaves alone *)

(** A step that changes objects as [md] says keeps what [s] says of them. *)
Class Stable {T} (md : T -> T -> Prop) (s : spec T) : Prop := {
  stable_wf : forall d d', md d d' -> s_wf s d -> s_wf s d';
  stable_eqv : forall d d', md d d' -> s_eqv s d d'
}.

(** It keeps the well-formedness only: a step that stores the selector of a
    union changes what the union stands for, not its storage. *)
Class Keeps {T} (md : T -> T -> Prop) (s : spec T) : Prop :=
  keeps_wf : forall d d', md d d' -> s_wf s d -> s_wf s d'.

(** Stores into one member. *)
Definition upd {T F} (m : member T F) (d d' : T) : Prop := d' = d \/ exists v, d' = mset m v d.

(** One step after the other; the second may not run. *)
Definition rcomp {T} (md1 md2 : T -> T -> Prop) (d d' : T) : Prop :=
  exists d1, md1 d d1 /\ (d' = d1 \/ md2 d1 d').

(** Disjoint members. *)
Class Apart {T F G} (m : member T F) (get : T -> G) : Prop :=
  apart : forall v d, get (mset m v d) = get d.
#[export] Hint Extern 0 (Apart _ _) => (intros ??; reflexivity) : typeclass_instances.

Class MemberOk {T F} (m : member T F) : Prop :=
  get_set : forall v d, mget m (mset m v d) = v.
#[export] Hint Extern 0 (MemberOk _) => (intros ??; reflexivity) : typeclass_instances.

Section Stable.
Context {T : Type}.
Implicit Types (s : spec T) (md : T -> T -> Prop).

#[export] Instance stable_eq s `{!SpecOk s} : Stable eq s.
Proof. split; intros ?? ->; [done|apply so_refl]. Qed.

#[export] Instance stable_unit md : Stable md spec_unit.
Proof. done. Qed.

#[export] Instance stable_app md s1 s2 : Stable md s1 -> Stable md s2 -> Stable md (spec_app s1 s2).
Proof.
  intros A B. split; simpl; [intros ?? E [? ?]|intros ?? E]; split;
    eauto using stable_wf, stable_eqv.
Qed.

#[export] Instance stable_rcomp md1 md2 s `{!SpecOk s} :
  Stable md1 s -> Stable md2 s -> Stable (rcomp md1 md2) s.
Proof.
  intros A B. split; intros d d' (d1&E1&[->|E2]); eauto using stable_wf, stable_eqv, so_trans.
Qed.

#[export] Instance stable_on {F G} (m : member T F) (get : T -> G) (s : spec G) `{!SpecOk s} :
  Apart m get -> Stable (upd m) (spec_on get s).
Proof.
  intros A. split; intros d d' [->|[v ->]]; simpl; rewrite ?A; auto using so_refl.
Qed.

#[export] Instance stable_sel {F U} (m : member T F) sel (get : T -> U) wf su mx
    `{!forall z, SpecOk (su z)} :
  Apart m sel -> Apart m get -> Stable (upd m) (spec_sel sel get wf su mx).
Proof.
  intros A B. split; intros d d' [->|[v ->]]; simpl; rewrite ?A, ?B; auto using so_refl.
Qed.

#[export] Instance keeps_unit md : Keeps md spec_unit.
Proof. done. Qed.

#[export] Instance keeps_app md s1 s2 : Keeps md s1 -> Keeps md s2 -> Keeps md (spec_app s1 s2).
Proof. intros A B d d' E [? ?]. split; eauto using keeps_wf. Qed.

#[export] Instance keeps_rcomp md1 md2 s : Keeps md1 s -> Keeps md2 s -> Keeps (rcomp md1 md2) s.
Proof. intros A B d d' (d1&E1&[->|E2]); eauto using keeps_wf. Qed.

#[export] Instance keeps_on {F G} (m : member T F) (get : T -> G) (s : spec G) :
  Apart m get -> Keeps (upd m) (spec_on get s).
Proof. intros A d d' [->|[v ->]]; simpl; rewrite ?A; auto. Qed.

#[export] Instance keeps_sel {F U} (m : member T F) sel (get : T -> U) wf su mx :
  Apart m get -> Keeps (upd m) (spec_sel sel get wf su mx).
Proof. intros A d d' [->|[v ->]]; simpl; rewrite ?A; auto. Qed.

#[export] Instance keeps_stable md s : Stable md s -> Keeps md s | 100.
Proof. intros S d d'. apply stable_wf. Qed.

(** ** Sequences of calls *)

(** [acc] is the format of the members already read. *)
Inductive steps_ok : spec T -> list (ustep T) -> (T -> T -> Prop) -> spec T -> Prop :=
| steps_nil acc : steps_ok acc [] eq spec_unit
| steps_cons acc u us pre md1 md2 s1 s2 :
    ustep_ok u pre md1 s1 ->
    steps_ok (spec_app acc s1) us md2 s2 ->
    (forall d x, s_eqv acc d x -> pre d x) ->
    Stable md1 acc -> Keeps md1 s2 -> Stable md2 s1 ->
    SpecOk acc -> SpecOk s1 -> SpecOk s2 ->
    steps_ok acc (u :: us) (rcomp md1 md2) (spec_app s1 s2).

Lemma unmarshal_seq_ok acc us md s :
  steps_ok acc us md s -> ustep_ok (unmarshal_seq us) (s_eqv acc) md s.
Proof.
  induction 1 as [acc|acc u us pre md1 md2 s1 s2 Hu Hs IH Hpre Sa S2 S1 Oa O1 O2].
  - intros b size lo d ? ? ? _. simpl. do 3 eexists. split; [done|]. split; [done|].
    split; [done|]. split; [|split; [done|]].
    + intros _. exists []. rewrite (Zlen_nil (A:=Z)), Z.add_0_r.
      split_and!; try done; by left.
    + done.
  - intros b size lo d Hb Hsz Hlo [W1 W2].
    destruct (Hu b size lo d) as (rc&lo1&d1&E1&M1&Wd1&P1&_&R1); [done..|].
    simpl. rewrite E1. destruct (decide (rc = TSS2_RC_SUCCESS)) as [->|N].
    + destruct P1 as (w1&Ew1&F1&->&Rd1); [done|]. simpl negb. cbv iota.
      destruct (IH b size (lo + Zlen w1) d1) as (rc2&lo2&d2&E2&M2&Wd2&P2&_&R2);
        [done|done|zlia| |].
      { exact (keeps_wf _ _ M1 W2). }
      rewrite E2. do 3 eexists. split; [done|].
      assert (rcomp md1 md2 d d2) as M by (exists d1; eauto). split; [done|].
      assert (Q1 : s_eqv s1 d1 d2) by exact (stable_eqv _ _ M2).
      split; [split; [exact (stable_wf _ _ M2 Wd1)|done]|]. split; [|split; [done|]].
      * intros Hrc. destruct (P2 Hrc) as (w2&Ew2&F2&->&Rd2). exists (w1 ++ w2). simpl.
        rewrite <-(so_wire _ _ Q1), Ew1, Ew2. simpl. rewrite Zlen_app.
        split_and!; [done|by apply fits_app|lia|by apply reads_app].
      * intros x w [Wx1 Wx2] Ha (v1&v2&Ev1&Ev2&->)%wire_app_Some F R.
        apply reads_split in R as [Rv1 Rv2].
        destruct (R1 x v1 Wx1 (Hpre _ _ Ha) Ev1 (fits_app_l _ _ _ _ F) Rv1) as [_ Q].
        assert (v1 = w1) as -> by (pose proof (so_wire _ _ Q); congruence).
        destruct (R2 x v2 Wx2) as [-> Q2]; [|done|by apply fits_app_r|done|].
        { split; [|done]. eapply so_trans; [|exact Ha].
          apply so_sym. exact (stable_eqv _ _ M1). }
        split; [done|]. split; [|done]. eapply so_trans; [apply so_sym; exact Q1|done].
    + rewrite (proj2 (Z.eqb_neq _ _) N). simpl negb. cbv iota. do 3 eexists. split; [done|].
      split; [exists d1; auto|]. split; [split; [done|exact (keeps_wf _ _ M1 W2)]|].
      split; [done|split; [done|]].
      intros x w [Wx1 Wx2] Ha (v1&v2&Ev1&Ev2&->)%wire_app_Some F R.
      apply reads_split in R as [Rv1 Rv2].
      destruct (R1 x v1 Wx1 (Hpre _ _ Ha) Ev1 (fits_app_l _ _ _ _ F) Rv1). done.
Qed.

Lemma struct_unmarshal_ok zero clear us md s :
  steps_ok spec_unit us md s -> s_wf s zero -> parse_ok (struct_unmarshal zero clear us) s.
Proof.
  intros Hs Hz b size lo d Hb Hsz Hlo Wd. apply unmarshal_seq_ok in Hs.
  destruct (Hs b size lo (if clear then zero else d)) as (rc&lo'&d'&E&_&W&P1&_&R);
    [done|done|done|by destruct clear|].
  unfold struct_unmarshal. simpl default. rewrite E.
  destruct (decide (rc = TSS2_RC_SUCCESS)) as [->|N].
  - do 3 eexists. split; [done|]. split_and!; [done|auto|done|].
    intros x w Wx _ Ew F Rd. by apply (R x w).
  - rewrite (proj2 (Z.eqb_neq _ _) N). do 3 eexists. split; [done|].
    split_and!; [done|done|done|]. intros x w Wx _ Ew F Rd. by apply (R x w).
Qed.

Inductive msteps_ok : list (T -> mstep) -> spec T -> Prop :=
| msteps_nil : msteps_ok [] spec_unit
| msteps_cons c m ms s1 s2 :
    (forall x w, s_wf s1 x -> s_wire s1 x = Some w -> bytes_ok w) ->
    marshal_ok_gen c m s1 -> msteps_ok ms s2 -> msteps_ok (m :: ms) (spec_app s1 s2).

Lemma marshal_seq_ok ms s : msteps_ok ms s -> marshal_ok_gen false (marshal_seq ms) s.
Proof.
  induction 1 as [|c m ms s1 s2 Bs Hm Hs IH].
  - intros x _ _. split.
    + intros b size lo ? ?. do 3 eexists. split; [done|]. left. exists [].
      rewrite (Zlen_nil (A:=Z)), Z.add_0_r. split_and!; try done; by left.
    + intros w size lo E ? ? ?. simpl in *. some_inv.
      by rewrite (Zlen_nil (A:=Z)), Z.add_0_r.
  - intros x [W1 W2] [D1 D2]. destruct (Hm x W1 D1) as [P1 N1].
    destruct (IH x W2 D2) as [P2 N2]. split.
    + intros b size lo Hlo Hsz.
      destruct (P1 b size lo) as (rc&b1&lo1&E1&[Po|Po]); [done..| |]; simpl; rewrite E1.
      * destruct Po as (w1&Ew1&F1&->&->&Wr1). simpl negb. cbv iota.
        destruct (P2 b1 size (lo + Zlen w1)) as (rc2&b2&lo2&E2&Po);
          [zlia|by rewrite (written_len _ _ _ _ Wr1)|].
        rewrite E2. do 3 eexists. split; [done|]. rewrite Ew1.
        destruct Po as [(w2&Ew2&F2&->&->&Wr2)|(Hrc&_&So&Nw)].
        -- left. exists (w1 ++ w2). rewrite Ew2, Zlen_app.
           split_and!; [done|by apply fits_app|done|lia|by eapply written_app].
        -- right. split_and!; [done|done| |].
           ++ apply (same_outside_trans b b1 b2 lo (lo + Zlen w1)); [zlia| |done].
              apply (written_outside b lo w1); eauto.
           ++ destruct Nw as [->|(w2&->&Nf&->)]; [by left|right]. eexists.
              split_and!; [done| |done]. intros F. by apply Nf, fits_app_r.
      * destruct Po as (Hrc&_&So&Nw). rewrite (proj2 (Z.eqb_neq _ _) Hrc).
        simpl negb. cbv iota. do 3 eexists. split; [done|]. right.
        split_and!; [done|done|done|].
        destruct Nw as [->|(w1&->&Nf&->)]; [by left|].
        destruct (s_wire s2 x) as [w2|]; [right|by left]. eexists. split_and!; [done| |done].
        intros F. by eapply Nf, fits_app_l.
    + intros w size lo (v1&v2&Ev1&Ev2&->)%wire_app_Some Hlo F Hl. rewrite Zlen_app in *.
      pose proof (Zlen_nonneg v1). pose proof (Zlen_nonneg v2). simpl.
      rewrite (N1 v1); [|done|done|exact (fits_app_l _ _ _ _ F)|lia]. simpl negb. cbv iota.
      rewrite (N2 v2); [|done|lia|exact (fits_app_r _ _ _ _ F)|lia]. by rewrite Z.add_assoc.
Qed.

Lemma struct_marshal_ok rc0 ms s :
  msteps_ok ms s -> marshal_ok (ADDR (struct_marshal rc0 ms)) s.
Proof.
  intros Hs x W D. destruct (marshal_seq_ok ms s Hs x W D) as [P N].
  unfold ADDR, struct_marshal. split.
  - intros b size lo Hlo Hsz. destruct (P b size lo) as (rc&b'&lo'&E&Po); [done..|].
    simpl default. rewrite E. destruct Po as [Po|(Hrc&_&Po)].
    + pose proof Po as (?&_&_&->&_). do 3 eexists. split; [done|]. by left.
    + rewrite (proj2 (Z.eqb_neq _ _) Hrc). do 3 eexists. split; [done|]. by right.
  - intros w size lo E ? ? ?. simpl default. by rewrite (N w).
Qed.

Lemma struct_codec_ok rc0 ms us zero clear md s :
  SpecOk s -> msteps_ok ms s -> steps_ok spec_unit us md s -> s_wf s zero ->
  codec_ok (ADDR (struct_marshal rc0 ms)) (struct_unmarshal zero clear us) s.
Proof.
  intros. split; [done|by apply struct_marshal_ok|by eapply struct_unmarshal_ok].
Qed.

End Stable.

(** ** Member calls *)

Lemma mfield_ok {T F} c (m : member T F) fn (s : spec F) :
  marshal_ok_gen c fn s -> marshal_ok_gen c (mfield m fn) (spec_on (mget m) s).
Proof. intros O x W D. exact (O (mget m x) W D). Qed.

Lemma ufield_gen_ok {T F} c (m : member T F) (u : ustep T) fn (s : spec F) `{!MemberOk m} :
  (forall b n o d, u b n o true d =
     let* (ret, (o, r)) := fn b n o (Some (mget m d)) in Ret (ret, (o, store m d r))) ->
  parse_ok_gen c fn s -> ustep_ok u (fun _ _ => True) (upd m) (spec_on (mget m) s).
Proof.
  intros E O b size lo d Hb Hs Hlo Wd.
  destruct (O b size lo (mget m d)) as (rc&lo'&v&Er&Wv&P&Q&R); [done..|].
  rewrite E, Er. do 3 eexists. split; [done|]. split; [right; by eexists|].
  split; [|split; [|split; [done|]]]; simpl; rewrite get_set; [done..|].
  intros x w Wx _ Ex Fi Rd. exact (R (mget m x) w Wx I Ex Fi Rd).
Qed.

Lemma ufield_ok {T F} c (m : member T F) fn (s : spec F) `{!MemberOk m} :
  parse_ok_gen c fn s -> ustep_ok (ufield m fn) (fun _ _ => True) (upd m) (spec_on (mget m) s).
Proof. by apply ufield_gen_ok. Qed.

Lemma ufield_tmp_ok {T F} c (m : member T F) fn (s : spec F) `{!MemberOk m} :
  parse_ok_gen c fn s -> ustep_ok (ufield_tmp m fn) (fun _ _ => True) (upd m) (spec_on (mget m) s).
Proof. by apply ufield_gen_ok. Qed.

(** A union: for each selector a format, over the same storage [wf]. *)
Record union_ok {U} (m : U -> Z -> mstep) (u : ufn_sel U) (wf : U -> Prop)
    (su : Z -> spec U) (mx : Z) : Prop := UnionOk {
  uo_wf : forall z x, s_wf (su z) x <-> wf x;
  uo_max : forall z, s_max (su z) <= mx;
  uo_codec : forall z, codec_ok (fun x => m x z) (fun b n o => u b n o z) (su z)
}.

Section UnionMember.
Context {T U : Type} (l : member T U) (sel : member T Z).
Context (m : U -> Z -> mstep) (u : ufn_sel U) (wf : U -> Prop) (su : Z -> spec U) (mx : Z).
Context (O : union_ok m u wf su mx).

Lemma union_spec_ok z : SpecOk (su z).
Proof. apply (uo_codec _ _ _ _ _ O). Qed.

Lemma union_sel_ok : SpecOk (spec_sel (mget sel) (mget l) wf su mx).
Proof.
  apply spec_sel_ok; [apply union_spec_ok| |apply O]. intros. by apply (uo_wf _ _ _ _ _ O).
Qed.

Lemma mfield_sel_ok :
  marshal_ok (mfield_sel l sel m) (spec_sel (mget sel) (mget l) wf su mx).
Proof.
  intros x W D. apply (co_marshal _ _ _ (uo_codec _ _ _ _ _ O (mget sel x))); [|done].
  by apply (uo_wf _ _ _ _ _ O).
Qed.

Lemma ufield_sel_gen_ok (us : ustep T) `{!MemberOk l, !Apart l (mget sel)} :
  (forall b n o d, us b n o true d =
     let* (ret, (o, r)) := u b n o (mget sel d) (Some (mget l d)) in
     Ret (ret, (o, store l d r))) ->
  ustep_ok us (fun d x => mget sel d = mget sel x) (upd l)
    (spec_sel (mget sel) (mget l) wf su mx).
Proof.
  intros E b size lo d Hb Hs Hlo Wd.
  destruct (co_parse _ _ _ (uo_codec _ _ _ _ _ O (mget sel d)) b size lo (mget l d))
    as (rc&lo'&v&Er&Wv&P&Q&R); [done..|by apply (uo_wf _ _ _ _ _ O)|].
  rewrite E, Er. do 3 eexists. split; [done|]. split; [right; by eexists|].
  split; [|split; [|split; [done|]]]; simpl; rewrite get_set, ?apart.
  - by apply (uo_wf _ _ _ _ _ O) in Wv.
  - done.
  - intros x w Wx Es Ex F Rd. rewrite <-Es in Ex.
    destruct (R (mget l x) w) as [-> Q']; try done. by apply (uo_wf _ _ _ _ _ O).
Qed.

Lemma ufield_sel_ok `{!MemberOk l, !Apart l (mget sel)} :
  ustep_ok (ufield_sel l sel u) (fun d x => mget sel d = mget sel x) (upd l)
    (spec_sel (mget sel) (mget l) wf su mx).
Proof. by apply ufield_sel_gen_ok. Qed.

Lemma ufield_sel0_ok `{!MemberOk l, !Apart l (mget sel)} :
  ustep_ok (ufield_sel0 l sel u) (fun d x => mget sel d = mget sel x) (upd l)
    (spec_sel (mget sel) (mget l) wf su mx).
Proof. by apply ufield_sel_gen_ok. Qed.

End UnionMember.

(** ** Structures with no or one member *)

Lemma TPMS_0_codec_ok {T} :
  codec_ok (ADDR TPMS_MARSHAL_0) TPMS_UNMARSHAL_0 (@spec_unit T).
Proof.
  split; [apply _| |].
  - intros x _ _. split.
    + intros b size lo ? ?. do 3 eexists. split; [done|]. left. exists [].
      rewrite (Zlen_nil (A:=Z)), Z.add_0_r. split_and!; try done; by left.
    + intros w size lo E ? ? ?. simpl in *. some_inv. by rewrite (Zlen_nil (A:=Z)), Z.add_0_r.
  - intros b size lo d ? ? ? _. do 3 eexists. split; [done|]. split; [done|].
    split; [|done]. intros _. exists []. rewrite (Zlen_nil (A:=Z)), Z.add_0_r.
    split_and!; try done; by left.
Qed.

Lemma TPMS_1_codec_ok {T F} (m : member T F) fm fu (s : spec F) `{!MemberOk m} :
  codec_ok fm fu s ->
  codec_ok (ADDR (TPMS_MARSHAL_1 m fm)) (TPMS_UNMARSHAL_1 m fu) (spec_on (mget m) s).
Proof.
  intros [O M P]. split; [apply _|exact (mfield_ok true m fm s M)|].
  intros b size lo d Hb Hs Hlo Wd.
  destruct (P b size lo (mget m d)) as (rc&lo'&v&Er&Wv&P1&Q&R); [done..|].
  unfold TPMS_UNMARSHAL_1. rewrite Er. do 3 eexists. split; [done|]. simpl.
  split; [|split; [|split; [done|]]]; simpl; rewrite get_set; [done..|].
  intros x w Wx _ Ex F' Rd. exact (R (mget m x) w Wx I Ex F' Rd).
Qed.

(** ** Automation *)

(** A member call implements the format of the member. *)
Ltac mu_leaf :=
  first [ eapply mfield_ok, co_marshal; solve [eauto 2 with mu]
        | eapply mfield_ok; solve [eauto 2 with mu]
        | eapply ufield_ok; [apply _|solve [eauto 2 with mu]]
        | eapply mfield_sel_ok; solve [eauto 2 with mu]
        | eapply ufield_ok; [apply _|eapply co_parse; solve [eauto 2 with mu]]
        | eapply ufield_tmp_ok; [apply _|eapply co_parse; solve [eauto 2 with mu]]
        | eapply ufield_sel_ok; [solve [eauto 2 with mu]|apply _|apply _]
        | eapply ufield_sel0_ok; [solve [eauto 2 with mu]|apply _|apply _] ].

(** The calls of a structure, last one first: the side conditions of a call
    mention what the later ones change. *)
Ltac mu_steps :=
  first [ apply steps_nil
        | eapply steps_cons;
          [ mu_leaf
          | mu_steps
          | intros ?? E; cbn [s_eqv spec_app spec_on spec_unit spec_int] in E; unpack; solve [done]
          | apply _.. ] ].

(** Closes [codec_ok] goals for an instance of a structure macro, given
    that every member function is in the hint database [mu]. *)
Ltac mu_struct :=
  eapply struct_codec_ok;
  [ apply _ | repeat (eapply msteps_cons; [|mu_leaf|]; [apply so_bytes|]); apply msteps_nil | mu_steps | ].
