(* ===== verification/MuTpm2b.v ===== *)
(** * Sized buffers: [src/tss2-mu/tpm2b-types.c].

    [TPM2B] ([src/util/tpm2b.h]) is the shape all simple sized buffers share:
    a 16-bit [size] and a byte array of a fixed capacity.  The capacity of a
    particular type is an argument of the macros; [buffer] is the whole array,
    so the bytes past [size] are kept.  [TPM2B_SUB] is the shape of the sized
    buffers that hold a structure. *)

From S2P Require Import Prelude Common MuSpec MuBase MuBaseOk MuStruct MuStructOk.
Open Scope tss_scope.

Record TPM2B := MkTPM2B { size : Z; buffer : bytes }.

Record TPM2B_SUB (M : Type) := MkTPM2B_SUB { ssize : Z; smember : M }.
Arguments MkTPM2B_SUB {M}.
Arguments ssize {M}.
Arguments smember {M}.

(** [sizeof] of a sized buffer of capacity [cap]: the alignment of [UINT16]
    pads an odd capacity. *)
Definition sizeof_2b (cap : Z) : Z := (2 + cap + 1) / 2 * 2.

Definition zero_2b (cap : Z) : TPM2B := MkTPM2B 0 (replicate (Z.to_nat cap) 0).

(** [memcpy] into the buffer of a marshal call. *)
Definition buf_write (buf : option bytes) (off : Z) (w : bytes) : outcome (option bytes) :=
  match buf with
  | Some b => let* b' := access (mem_write b off w) in Ret (Some b')
  | None => Undef
  end.

Section Tpm2b.
Context {H : Host}.

Definition TPM2B_MARSHAL (cap : Z) (src : option TPM2B) : mstep :=
  fun buf buffer_size offset =>
  match src with
  | None => Ret (TSS2_MU_RC_BAD_REFERENCE, (buf, offset))
  | Some src =>
    let local_offset := default 0 offset in
    match buf, offset with
    | None, None => Ret (TSS2_MU_RC_BAD_REFERENCE, (buf, offset))
    | None, Some o => Ret (TSS2_RC_SUCCESS, (buf, Some (wrap64 (o + (2 + size src)))))
    | Some _, _ =>
      if (buffer_size <? local_offset) || (buffer_size - local_offset <? 2 + size src)
      then Ret (TSS2_MU_RC_INSUFFICIENT_BUFFER, (buf, offset))
      else if sizeof_2b cap - 2 <? size src
      then Ret (TSS2_MU_RC_BAD_SIZE, (buf, offset))
      else
      let* (rc, (buf, lo)) :=
        Tss2_MU_UINT16_Marshal (size src) buf buffer_size (Some local_offset) in
      if negb (rc =? TSS2_RC_SUCCESS) then Ret (rc, (buf, offset)) else
      let local_offset := default 0 lo in
      let* (buf, local_offset) :=
        (if negb (size src =? 0)
         then let* data := access (mem_read (buffer src) 0 (size src)) in
              let* buf := buf_write buf local_offset data in
              Ret (buf, local_offset + size src)
         else Ret (buf, local_offset)) in
      Ret (TSS2_RC_SUCCESS,
           (buf, match offset with Some _ => Some local_offset | None => None end))
    end
  end.

Definition TPM2B_UNMARSHAL (cap : Z) : ufn TPM2B :=
  fun buf buffer_size offset dest =>
  let local_offset := default 0 offset in
  match buf, dest, offset with
  | None, _, _ | _, None, None => Ret (TSS2_MU_RC_BAD_REFERENCE, (offset, dest))
  | Some b, _, _ =>
    if (buffer_size <? local_offset) || (buffer_size - local_offset <? 2)
    then Ret (TSS2_MU_RC_INSUFFICIENT_BUFFER, (offset, dest))
    else
    let* (rc, (lo, sz)) :=
      Tss2_MU_UINT16_Unmarshal buf buffer_size (Some local_offset) (Some 0) in
    if negb (rc =? TSS2_RC_SUCCESS) then Ret (rc, (offset, dest)) else
    let local_offset := default 0 lo in
    let sz := default 0 sz in
    if buffer_size - local_offset <? sz
    then Ret (TSS2_MU_RC_INSUFFICIENT_BUFFER, (offset, dest))
    else if cap <? sz
    then Ret (TSS2_MU_RC_INSUFFICIENT_BUFFER, (offset, dest))
    else
    let* dest' :=
      (match dest with
       | None => Ret None
       | Some d =>
           let* data := access (mem_read b local_offset sz) in
           let* arr := access (mem_write (buffer d) 0 data) in
           Ret (Some (MkTPM2B sz arr))
       end) in
    let local_offset := local_offset + sz in
    Ret (TSS2_RC_SUCCESS,
         (match offset with Some _ => Some local_offset | None => None end, dest'))
  end.

Definition TPM2B_MARSHAL_SUBTYPE {M} (subtype_Marshal : option M -> mstep)
    (src : option (TPM2B_SUB M)) : mstep :=
  fun buf buffer_size offset =>
  match src with
  | None => Ret (TSS2_MU_RC_BAD_REFERENCE, (buf, offset))
  | Some src =>
    let local_offset := default 0 offset in
    match buf, offset with
    | None, None => Ret (TSS2_MU_RC_BAD_REFERENCE, (buf, offset))
    | _, _ =>
      if (buffer_size <? local_offset) || (buffer_size - local_offset <? 2)
      then Ret (TSS2_MU_RC_INSUFFICIENT_BUFFER, (buf, offset))
      else
      let ptr := local_offset in
      let* (rc, (buf, lo)) :=
        Tss2_MU_UINT16_Marshal (ssize src) buf buffer_size (Some local_offset) in
      if negb (rc =? TSS2_RC_SUCCESS) then Ret (rc, (buf, offset)) else
      let* (rc, (buf, lo)) :=
        subtype_Marshal (Some (smember src)) buf buffer_size lo in
      if negb (rc =? TSS2_RC_SUCCESS) then Ret (rc, (buf, offset)) else
      let local_offset := default 0 lo in
      let* buf :=
        (match buf with
         | Some _ =>
             let t := HOST_TO_BE_16 (wrap 16 (local_offset - ptr - 2)) in
             buf_write buf ptr (host_image 2 t)
         | None => Ret None
         end) in
      Ret (TSS2_RC_SUCCESS,
           (buf, match offset with Some _ => Some local_offset | None => None end))
    end
  end.

(** The return code of the inner unmarshal call is not stored. *)
Definition TPM2B_UNMARSHAL_SUBTYPE {M} (sizeof_member : Z) (subtype_Unmarshal : ufn M)
    : ufn (TPM2B_SUB M) :=
  fun buf buffer_size offset dest =>
  let local_offset := default 0 offset in
  match buf, dest, offset with
  | None, _, _ | _, None, None => Ret (TSS2_MU_RC_BAD_REFERENCE, (offset, dest))
  | Some _, _, _ =>
    if (buffer_size <? local_offset) || (buffer_size - local_offset <? 2)
    then Ret (TSS2_MU_RC_INSUFFICIENT_BUFFER, (offset, dest))
    else
    let* (rc, (lo, sz)) :=
      Tss2_MU_UINT16_Unmarshal buf buffer_size (Some local_offset) (Some 0) in
    if negb (rc =? TSS2_RC_SUCCESS) then Ret (rc, (offset, dest)) else
    let local_offset := default 0 lo in
    let sz := default 0 sz in
    if buffer_size - local_offset <? sz
    then Ret (TSS2_MU_RC_INSUFFICIENT_BUFFER, (offset, dest))
    else if sizeof_member <? sz
    then Ret (TSS2_MU_RC_INSUFFICIENT_BUFFER, (offset, dest))
    else
    let* (local_offset, dest') :=
      (match dest with
       | Some d =>
           let* (_, (lo, m)) :=
             subtype_Unmarshal buf buffer_size (Some local_offset) (Some (smember d)) in
           Ret (default 0 lo, Some (MkTPM2B_SUB sz (default (smember d) m)))
       | None => Ret (local_offset + sz, None)
       end) in
    Ret (TSS2_RC_SUCCESS,
         (match offset with Some _ => Some local_offset | None => None end, dest'))
  end.

End Tpm2b.

(** ** The wire format: 16-bit length, then that many bytes. *)

Definition spec_2b (cap : Z) : spec TPM2B :=
  {| s_wf := fun x => Zlen (buffer x) = cap /\ bytes_ok (buffer x) /\ in_range UINT16 (size x);
     s_dom := fun x => size x <= cap \/ sizeof_2b cap - 2 < size x;
     s_wire := fun x => if size x <=? cap
       then Some (be_bytes 2 (size x) ++ take (Z.to_nat (size x)) (buffer x)) else None;
     s_eqv := fun x y => size x = size y /\
       take (Z.to_nat (size x)) (buffer x) = take (Z.to_nat (size y)) (buffer y);
     s_max := 2 + cap |}.

(** A structure preceded by its length. *)
Definition spec_sub {M} (s : spec M) : spec (TPM2B_SUB M) :=
  {| s_wf := fun x => in_range UINT16 (ssize x) /\ s_wf s (smember x);
     s_dom := fun x => s_dom s (smember x);
     s_wire := fun x => match s_wire s (smember x) with
       | Some w => Some (be_bytes 2 (Zlen w) ++ w) | None => None end;
     s_eqv := fun x y => s_eqv s (smember x) (smember y);
     s_max := 2 + s_max s |}.

Lemma sizeof_2b_bound cap : 0 <= cap -> cap <= sizeof_2b cap - 2 <= cap + 1.
Proof.
  intros. unfold sizeof_2b.
  pose proof (Z.div_mod (2 + cap + 1) 2). pose proof (Z.mod_pos_bound (2 + cap + 1) 2). lia.
Qed.

Lemma Zlen_take {A} (l : list A) n : 0 <= n <= Zlen l -> Zlen (take (Z.to_nat n) l) = n.
Proof. unfold Zlen. rewrite length_take. lia. Qed.

Lemma u16_bound z : in_range UINT16 z -> 0 <= z < 65536.
Proof. done. Qed.

Lemma to_unsigned_u16 z : 0 <= z < 65536 -> to_unsigned UINT16 z = z.
Proof. intros. by apply wrap_small. Qed.

#[export] Instance spec_2b_ok cap : SpecOk (spec_2b cap).
Proof.
  split; simpl.
  - intros x w (?&?&?) E. case_test; some_inv.
    apply Forall_app. split; [apply be_bytes_ok|by apply Forall_take].
  - intros x w (?&?&R%u16_bound) E. case_test; some_inv.
    rewrite Zlen_app, Zlen_be_bytes, Zlen_take by lia. lia.
  - intros x w _ E. case_test; some_inv. by left.
  - done.
  - intros x y [E1 E2]. by split.
  - intros x y z [-> ->] [-> ->]. done.
  - intros x y [-> ->]. done.
Qed.

#[export] Instance spec_sub_ok {M} (s : spec M) : SpecOk s -> SpecOk (spec_sub s).
Proof.
  intros O. split; simpl.
  - intros x w [? Hw] E. destruct (s_wire s (smember x)) eqn:E'; some_inv.
    apply Forall_app. split; [apply be_bytes_ok|]. exact (so_bytes _ _ Hw E').
  - intros x w [? Hw] E. destruct (s_wire s (smember x)) eqn:E'; some_inv.
    rewrite Zlen_app, Zlen_be_bytes. pose proof (so_max _ _ Hw E'). lia.
  - intros x w [? Hw] E. destruct (s_wire s (smember x)) eqn:E'; some_inv.
    exact (so_dom _ _ Hw E').
  - intros. apply so_refl.
  - intros. by apply so_sym.
  - intros ???. apply so_trans.
  - intros x y E. by rewrite (so_wire _ _ E).
Qed.

(** ** Lists: [src/tss2-mu/tpml-types.c].

    A [TPML] is a 32-bit [count] and an array of fixed capacity [cap];
    the elements past [count] are kept.  The element functions are arguments
    of the macros. *)

Record TPML (E : Type) := MkTPML { count : Z; elems : list E }.
Arguments MkTPML {E}.
Arguments count {E}.
Arguments elems {E}.

Definition zero_tpml {E} (cap : Z) (zero : E) : TPML E :=
  MkTPML 0 (replicate (Z.to_nat cap) zero).

(** [for (i = 0; i < n; i++)] over the array; running off the end of the
    array is undefined. *)
Fixpoint marshal_elems {E} (fn : E -> mstep) (n : nat) (es : list E) : mstep :=
  fun buffer buffer_size offset =>
  match n, es with
  | O, _ => Ret (TSS2_RC_SUCCESS, (buffer, offset))
  | S n, e :: es =>
      let* (ret, (buffer, offset)) := fn e buffer buffer_size offset in
      if negb (ret =? TSS2_RC_SUCCESS) then Ret (ret, (buffer, offset))
      else marshal_elems fn n es buffer buffer_size offset
  | S _, [] => Undef
  end.

Fixpoint unmarshal_elems {E} (fn : ufn E) (n : nat) (buffer : option bytes)
    (buffer_size : Z) (offset : option Z) (es : list E)
    : outcome (TSS2_RC * (option Z * list E)) :=
  match n, es with
  | O, _ => Ret (TSS2_RC_SUCCESS, (offset, es))
  | S n, e :: es =>
      let* (ret, (offset, r)) := fn buffer buffer_size offset (Some e) in
      let e := default e r in
      if negb (ret =? TSS2_RC_SUCCESS) then Ret (ret, (offset, e :: es))
      else
      let* (ret, (offset, es)) := unmarshal_elems fn n buffer buffer_size offset es in
      Ret (ret, (offset, e :: es))
  | S _, [] => Undef
  end.

(** The same loop with [dest] NULL. *)
Fixpoint skip_elems {E} (fn : ufn E) (n : nat) (buffer : option bytes)
    (buffer_size : Z) (offset : option Z) : outcome (TSS2_RC * option Z) :=
  match n with
  | O => Ret (TSS2_RC_SUCCESS, offset)
  | S n =>
      let* (ret, (offset, _)) := fn buffer buffer_size offset None in
      if negb (ret =? TSS2_RC_SUCCESS) then Ret (ret, offset)
      else skip_elems fn n buffer buffer_size offset
  end.

Section Tpml.
Context {H : Host}.

Definition TPML_MARSHAL {E} (cap : Z) (marshal_func : E -> mstep)
    (src : option (TPML E)) : mstep :=
  fun buffer buffer_size offset =>
  let local_offset := default 0 offset in
  match src with
  | None => Ret (TSS2_MU_RC_BAD_REFERENCE, (buffer, offset))
  | Some src =>
    match buffer, offset with
    | None, None => Ret (TSS2_MU_RC_BAD_REFERENCE, (buffer, offset))
    | _, _ =>
      if (buffer_size <? local_offset) || (buffer_size - local_offset <? 4)
      then Ret (TSS2_MU_RC_INSUFFICIENT_BUFFER, (buffer, offset))
      else if cap <? count src
      then Ret (TSS2_SYS_RC_BAD_VALUE, (buffer, offset))
      else
      let* (ret, (buffer, lo)) :=
        Tss2_MU_UINT32_Marshal (count src) buffer buffer_size (Some local_offset) in
      if negb (ret =? TSS2_RC_SUCCESS) then Ret (ret, (buffer, offset)) else
      let* (ret, (buffer, lo)) :=
        marshal_elems marshal_func (Z.to_nat (count src)) (elems src) buffer buffer_size lo in
      if negb (ret =? TSS2_RC_SUCCESS) then Ret (ret, (buffer, offset)) else
      Ret (TSS2_RC_SUCCESS, (buffer, match offset with Some _ => lo | None => None end))
    end
  end.

(** [zero] is the all-zero element. *)
Definition TPML_UNMARSHAL {E} (cap : Z) (zero : E) (unmarshal_func : ufn E) : ufn (TPML E) :=
  fun buffer buffer_size offset dest =>
  let local_offset := default 0 offset in
  match buffer, dest, offset with
  | None, _, _ | _, None, None => Ret (TSS2_MU_RC_BAD_REFERENCE, (offset, dest))
  | Some _, _, _ =>
    if (buffer_size <? local_offset) || (buffer_size - local_offset <? 4)
    then Ret (TSS2_MU_RC_INSUFFICIENT_BUFFER, (offset, dest))
    else
    let* (ret, (lo, c)) :=
      Tss2_MU_UINT32_Unmarshal buffer buffer_size (Some local_offset) (Some 0) in
    if negb (ret =? TSS2_RC_SUCCESS) then Ret (ret, (offset, dest)) else
    let c := default 0 c in
    if cap <? c then Ret (TSS2_SYS_RC_MALFORMED_RESPONSE, (offset, dest)) else
    let* (ret, (lo, dest)) :=
      (match dest with
       | Some _ =>
           let* (ret, (lo, es)) :=
             unmarshal_elems unmarshal_func (Z.to_nat c) buffer buffer_size lo
               (replicate (Z.to_nat cap) zero) in
           Ret (ret, (lo, Some (MkTPML c es)))
       | None =>
           let* (ret, lo) := skip_elems unmarshal_func (Z.to_nat c) buffer buffer_size lo in
           Ret (ret, (lo, None))
       end) in
    if negb (ret =? TSS2_RC_SUCCESS) then Ret (ret, (offset, dest)) else
    Ret (TSS2_RC_SUCCESS, (match offset with Some _ => lo | None => None end, dest))
  end.

End Tpml.

(** ** The wire format: 32-bit count, then the elements *)

Fixpoint wires {E} (s : spec E) (es : list E) : option bytes :=
  match es with
  | [] => Some []
  | e :: es => wire_app (s_wire s e) (wires s es)
  end.

Definition active {E} (x : TPML E) : list E := take (Z.to_nat (count x)) (elems x).

Definition spec_list {E} (cap : Z) (s : spec E) : spec (TPML E) :=
  {| s_wf := fun x => in_range UINT32 (count x) /\ Zlen (elems x) = cap /\
       Forall (s_wf s) (elems x);
     s_dom := fun x => count x <= cap -> Forall (s_dom s) (active x);
     s_wire := fun x => if count x <=? cap
       then wire_app (Some (be_bytes 4 (count x))) (wires s (active x)) else None;
     s_eqv := fun x y => count x = count y /\ Forall2 (s_eqv s) (active x) (active y);
     s_max := 4 + cap * s_max s |}.

Section Wires.
Context {E : Type} (s : spec E) `{!SpecOk s}.

Lemma wires_bytes es w : Forall (s_wf s) es -> wires s es = Some w -> bytes_ok w.
Proof.
  intros W. revert w. induction W; simpl; intros w Ew; [by some_inv|].
  apply wire_app_Some in Ew as (a&b&Ea&Eb&->). apply Forall_app.
  split; [by eapply so_bytes|auto].
Qed.

Lemma wires_max es w :
  Forall (s_wf s) es -> wires s es = Some w -> Zlen w <= Zlen es * s_max s.
Proof.
  intros W. revert w. induction W as [|e es We W IH]; simpl; intros w Ew; [by some_inv|].
  apply wire_app_Some in Ew as (a&b&Ea&Eb&->). specialize (IH b Eb).
  pose proof (so_max _ _ We Ea). rewrite Zlen_app, Zlen_cons. lia.
Qed.

Lemma wires_dom es w : Forall (s_wf s) es -> wires s es = Some w -> Forall (s_dom s) es.
Proof.
  intros W. revert w. induction W; simpl; intros w Ew; [constructor|].
  apply wire_app_Some in Ew as (a&b&Ea&Eb&->). constructor; [by eapply so_dom|eauto].
Qed.

Lemma wires_eqv es es' : Forall2 (s_eqv s) es es' -> wires s es = wires s es'.
Proof. induction 1 as [|?? ?? Q _ IH]; simpl; [done|]. by rewrite (so_wire _ _ Q), IH. Qed.

Lemma wire_list cap x w :
  s_wire (spec_list cap s) x = Some w ->
  count x <= cap /\ exists w', wires s (active x) = Some w' /\ w = be_bytes 4 (count x) ++ w'.
Proof.
  cbn [s_wire spec_list]. case_test; [|done]. intros (a&b&Ea&Eb&->)%wire_app_Some.
  some_inv. split; [done|]. by exists b.
Qed.

#[export] Instance spec_list_ok cap : 0 <= s_max s -> SpecOk (spec_list cap s).
Proof.
  intros Hm. split.
  - intros x w (_&_&W) (_&b&Eb&->)%wire_list. apply Forall_app. split; [apply be_bytes_ok|].
    apply wires_bytes in Eb; [done|by apply Forall_take].
  - intros x w ([C0 _]&L&W) (Hc&b&Eb&->)%wire_list.
    rewrite Zlen_app, Zlen_be_bytes. apply wires_max in Eb; [|by apply Forall_take].
    unfold active in Eb. assert (Zlen (take (Z.to_nat (count x)) (elems x)) = count x) as E'.
    { unfold Zlen in *. rewrite length_take. lia. }
    rewrite E' in Eb. simpl. nia.
  - intros x w (_&_&W) (_&b&Eb&->)%wire_list _. eapply wires_dom; [by apply Forall_take|done].
  - intros x. split; [done|]. induction (active x); constructor; auto using so_refl.
  - intros x y [Ec Q]. split; [done|]. induction Q; constructor; auto using so_sym.
  - intros x y z [Ec Q] [Ec' Q']. split; [congruence|]. revert Q'. generalize (active z).
    induction Q; intros es' Q'; inversion Q'; subst; constructor; eauto using so_trans.
  - intros x y [Ec Q]. simpl. by rewrite Ec, (wires_eqv _ _ Q).
Qed.

End Wires.
