(* ===== verification/MuTpm2bOk.v ===== *)
(** * Correctness of the sized buffers.

    [TPM2B_MARSHAL] / [TPM2B_UNMARSHAL] implement [spec_2b];
    [TPM2B_MARSHAL_SUBTYPE] implements [spec_sub] (it writes the real length
    of the structure, whatever the [size] smember holds), and
    [TPM2B_UNMARSHAL_SUBTYPE] recognises every image of [spec_sub]. *)

From S2P Require Import Prelude Common MuSpec MuBase MuBaseOk MuStruct MuStructOk MuTpm2b.
Open Scope tss_scope.

Section Tpm2bOk.
Context {H : Host}.

(** ** The calls on the length field *)

Lemma u16_marshal v b size lo :
  0 <= v < 65536 -> 0 <= lo -> 0 <= size <= Zlen b -> lo + 2 <= size ->
  exists b', Tss2_MU_UINT16_Marshal v (Some b) size (Some lo)
             = Ret (TSS2_RC_SUCCESS, (Some b', Some (lo + 2))) /\
             mem_write b lo (be_bytes 2 v) = Some b'.
Proof.
  intros. destruct (marshal_ok_fits (c:=true) (BASE_MARSHAL UINT16) (spec_int UINT16) v
    (be_bytes 2 v) b size lo) as (b'&E&W); try done.
  - apply BASE_MARSHAL_ok; ctype.
  - cbn [s_wire spec_int]. by rewrite to_unsigned_u16.
  - rewrite Zlen_be_bytes in E. by exists b'.
Qed.

Lemma u16_unmarshal b size lo :
  bytes_ok b -> 0 <= size <= Zlen b -> 0 <= lo -> lo + 2 <= size ->
  exists v, Tss2_MU_UINT16_Unmarshal (Some b) size (Some lo) (Some 0)
            = Ret (TSS2_RC_SUCCESS, (Some (lo + 2), Some v)) /\
            0 <= v < 65536 /\ mem_read b lo 2 = Some (be_bytes 2 v).
Proof.
  intros Hb Hs Hlo Hf. destruct (mem_read_is_Some b lo 2) as [w R]; [lia..|].
  pose proof (mem_read_bytes _ _ _ _ Hb R) as Bw. apply mem_read_len in R as L.
  assert (length w = 2%nat) as L' by (unfold Zlen in L; lia).
  pose proof (be_bytes_be_value w Bw) as E. rewrite L' in E.
  pose proof (be_value_bound w Bw) as V. rewrite L in V. change (256 ^ 2) with 65536 in V.
  assert (Ew : s_wire (spec_int UINT16) (be_value w) = Some w).
  { cbn [s_wire spec_int]. rewrite to_unsigned_u16 by done.
    change (csize UINT16) with 2%nat. by rewrite E. }
  destruct (parse_ok_recognise (BASE_UNMARSHAL UINT16) (spec_int UINT16)
    (BASE_UNMARSHAL_ok UINT16 ltac:(ctype)) b size lo 0 (be_value w) w)
    as (d'&Eu&_&Q); try done.
  - right. lia.
  - right. by rewrite L.
  - simpl in Q. subst d'. exists (be_value w). rewrite L in Eu. rewrite E. done.
Qed.

(** ** Plain sized buffers *)

Lemma wire_2b cap x w :
  s_wf (spec_2b cap) x -> s_wire (spec_2b cap) x = Some w ->
  0 <= size x <= cap /\ size x < 65536 /\
  mem_read (buffer x) 0 (size x) = Some (take (Z.to_nat (size x)) (buffer x)) /\
  w = be_bytes 2 (size x) ++ take (Z.to_nat (size x)) (buffer x) /\ Zlen w = 2 + size x.
Proof.
  simpl. intros (?&?&R%u16_bound) E. case_test; some_inv.
  split_and!; try lia; try done.
  - apply mem_read_Some. split_and!; (lia || done).
  - rewrite Zlen_app, Zlen_be_bytes, Zlen_take by lia. lia.
Qed.

Lemma fits_2b lo w size n : Zlen w = 2 + n -> 0 <= n -> fits lo w size <-> lo + (2 + n) <= size.
Proof.
  intros L ?. unfold fits. rewrite L. split; [|by right].
  intros [->|?]; [rewrite (Zlen_nil (A:=Z)) in L|]; lia.
Qed.

Lemma TPM2B_MARSHAL_ok cap :
  0 <= cap -> marshal_ok (fun x => TPM2B_MARSHAL cap (Some x)) (spec_2b cap).
Proof.
  intros Hc x W D. pose proof W as W'. destruct W' as (Wl&Wb&Ws%u16_bound).
  pose proof (sizeof_2b_bound cap Hc) as Sz. split.
  - intros b bs lo Hlo Hs. unfold TPM2B_MARSHAL. simpl default.
    case_test; [|case_test].
    + do 3 eexists. split; [done|]. apply marshal_fail; [done|]. intros w E. split; [|done].
      destruct (wire_2b cap x w W E) as (?&?&?&?&L). rewrite (fits_2b _ _ _ _ L) by lia. lia.
    + do 3 eexists. split; [done|]. apply marshal_fail; [done|]. intros w E.
      destruct (wire_2b cap x w W E). lia.
    + assert (Hsz : size x <= cap) by (simpl in D; lia).
      assert (E : s_wire (spec_2b cap) x =
        Some (be_bytes 2 (size x) ++ take (Z.to_nat (size x)) (buffer x))).
      { simpl. by rewrite (proj2 (Z.leb_le _ _)). }
      destruct (wire_2b cap x _ W E) as (?&?&Rd&_&L). rewrite E.
      destruct (u16_marshal (size x) b bs lo) as (b1&->&W1); [lia..|].
      apply mem_write_len in W1 as L1. simpl negb. cbv iota. case_test; simpl.
      * rewrite Rd. simpl.
        destruct (mem_write_is_Some b1 (lo + 2) (take (Z.to_nat (size x)) (buffer x)))
          as [b2 W2]; [lia|rewrite Zlen_take; lia|]. rewrite W2.
        do 3 eexists. split; [done|]. left. eexists.
        split_and!; [done|by rewrite (fits_2b _ _ _ _ L) by lia; lia|done|lia|].
        right. eapply mem_write_app; [done|]. by rewrite Zlen_be_bytes.
      * assert (Z0 : size x = 0) by lia.
        do 3 eexists. split; [done|]. left. eexists.
        split_and!; [done|by rewrite (fits_2b _ _ _ _ L) by lia; lia|done|lia|].
        right. rewrite Z0. simpl. by rewrite app_nil_r, <-Z0.
  - intros w bs lo E ? F Hm. destruct (wire_2b cap x w W E) as (?&?&?&?&L).
    rewrite (fits_2b _ _ _ _ L) in F by lia. simpl. rewrite wrap64_small by lia. by rewrite L.
Qed.

(** What [TPM2B_UNMARSHAL] does once the bounds checks have passed. *)
Lemma TPM2B_UNMARSHAL_stored cap b bs lo d n data :
  bytes_ok b -> 0 <= bs <= Zlen b -> 0 <= lo -> s_wf (spec_2b cap) d ->
  0 <= n < 65536 -> n <= cap -> mem_read b (lo + 2) n = Some data ->
  exists arr, mem_write (buffer d) 0 data = Some arr /\
    s_wf (spec_2b cap) (MkTPM2B n arr) /\
    s_wire (spec_2b cap) (MkTPM2B n arr) = Some (be_bytes 2 n ++ data).
Proof.
  intros Hb Hs Hlo (Wl&Wb&_) Hn Hc R. apply mem_read_len in R as L.
  destruct (mem_write_is_Some (buffer d) 0 data) as [arr W]; [lia..|].
  exists arr. split; [done|]. split.
  - split; [|split; [|done]]; simpl.
    + by rewrite (mem_write_len _ _ _ _ W).
    + exact (mem_write_bytes _ _ _ _ Wb (mem_read_bytes _ _ _ _ Hb R) W).
  - simpl. rewrite (proj2 (Z.leb_le _ _)) by done. apply mem_read_write in W.
    rewrite L in W. apply mem_read_Some in W as (_&_&_&W).
    change (drop (Z.to_nat 0) arr) with arr in W. by rewrite <-W.
Qed.

(** An image in the buffer shows its length field. *)
Lemma reads_size b lo v n w :
  0 <= v < 65536 -> 0 <= n < 65536 -> mem_read b lo 2 = Some (be_bytes 2 v) ->
  reads b lo (be_bytes 2 n ++ w) -> v = n.
Proof.
  intros Hv Hn R1 R2. apply reads_split in R2 as [[R2|R2] _].
  - apply (f_equal Zlen) in R2. rewrite Zlen_be_bytes in R2. done.
  - rewrite Zlen_be_bytes in R2. change (Z.of_nat 2) with 2 in R2. rewrite R1 in R2.
    apply (inj Some), (f_equal be_value) in R2.
    by rewrite !be_value_be_bytes in R2 by done.
Qed.

Lemma TPM2B_UNMARSHAL_ok cap : 0 <= cap -> parse_ok (TPM2B_UNMARSHAL cap) (spec_2b cap).
Proof.
  intros Hc b bs lo d Hb Hs Hlo Hd. unfold TPM2B_UNMARSHAL. simpl default. case_test.
  { do 3 eexists. split; [done|]. apply parse_fail; [done|done|].
    intros x w W _ E F _. destruct (wire_2b cap x w W E) as (?&?&?&?&L).
    rewrite (fits_2b _ _ _ _ L) in F by lia. lia. }
  destruct (u16_unmarshal b bs lo) as (n&->&Hn&Rn); [done|lia..|].
  simpl default. simpl negb. cbv iota.
  assert (No : bs - (lo + 2) < n \/ cap < n -> forall x w, s_wf (spec_2b cap) x -> True ->
    s_wire (spec_2b cap) x = Some w -> fits lo w bs -> reads b lo w -> False).
  { intros Bad x w W _ E F R. destruct (wire_2b cap x w W E) as (?&?&?&->&L).
    rewrite (fits_2b _ _ _ _ L) in F by lia. apply (reads_size _ _ n) in R; [lia|done|lia|done]. }
  case_test; [|case_test].
  - do 3 eexists. split; [done|]. apply parse_fail; [done|done|]. apply No. by left.
  - do 3 eexists. split; [done|]. apply parse_fail; [done|done|]. apply No. by right.
  - destruct (mem_read_is_Some b (lo + 2) n) as [data R]; [lia..|]. rewrite R. simpl access.
    destruct (TPM2B_UNMARSHAL_stored cap b bs lo d n data) as (arr&->&Wd&E); [done..|lia|done|].
    do 3 eexists. split; [done|]. apply mem_read_len in R as L. split; [done|]. rewrite E.
    split_and!; [|done|].
    + intros _. eexists. split; [done|]. rewrite Zlen_app, Zlen_be_bytes, L.
      split_and!; [|lia|].
      * right. rewrite Zlen_app, Zlen_be_bytes. lia.
      * apply reads_app; right; rewrite Zlen_be_bytes; [done|]. by rewrite L.
    + intros x w W _ Ex F Rx. split; [done|].
      destruct (wire_2b cap x w W Ex) as (?&?&Rd&->&_).
      assert (Hx : 0 <= size x < 65536) by lia.
      pose proof (reads_size _ _ _ _ _ Hn Hx Rn Rx) as ->.
      apply reads_split in Rx as [_ Rx]. rewrite Zlen_be_bytes in Rx.
      cbn [s_wire spec_2b] in E. simpl size in E. simpl buffer in E.
      rewrite (proj2 (Z.leb_le _ _)) in E by done. apply (inj Some), app_inv_head in E.
      split; [done|]. simpl size. simpl buffer. rewrite E.
      assert (Zlen (take (Z.to_nat (size x)) (buffer x)) = size x) as Lx by
        (apply mem_read_len in Rd; done).
      destruct Rx as [Rx|Rx].
      * rewrite Rx in *. apply Zlen_0_nil. rewrite (Zlen_nil (A:=Z)) in Lx. lia.
      * rewrite Lx in Rx. change (Z.of_nat 2) with 2 in Rx. congruence.
Qed.

Lemma tpm2b_codec_ok cap :
  0 <= cap -> codec_ok (ADDR (TPM2B_MARSHAL cap)) (TPM2B_UNMARSHAL cap) (spec_2b cap).
Proof.
  intros. split; [apply _|by apply TPM2B_MARSHAL_ok|by apply TPM2B_UNMARSHAL_ok].
Qed.

(** ** Sized buffers that hold a structure *)

Lemma host_image_16 v : 0 <= v < 65536 -> host_image 2 (HOST_TO_BE_16 v) = be_bytes 2 v.
Proof. intros. by apply host_image_be. Qed.

Lemma wire_sub {M} (s : spec M) `{!SpecOk s} x w :
  s_wf (spec_sub s) x -> s_wire (spec_sub s) x = Some w ->
  exists w', s_wire s (smember x) = Some w' /\ w = be_bytes 2 (Zlen w') ++ w' /\
    Zlen w = 2 + Zlen w' /\ Zlen w' <= s_max s.
Proof.
  simpl. intros [_ W] E. destruct (s_wire s (smember x)) as [w'|] eqn:E'; some_inv.
  exists w'. split_and!; [done|done| |exact (so_max _ _ W E')].
  by rewrite Zlen_app, Zlen_be_bytes.
Qed.

(** The length field is back-patched with the length of what was written. *)
Lemma patch_size b lo v b1 w b2 size :
  0 <= lo -> mem_write b lo (be_bytes 2 v) = Some b1 -> written b1 (lo + 2) w b2 ->
  Zlen w < 65536 -> 0 <= size <= Zlen b -> lo + 2 <= size ->
  exists b3, buf_write (Some b2) lo
      (host_image 2 (HOST_TO_BE_16 (wrap 16 (lo + 2 + Zlen w - lo - 2)))) = Ret (Some b3) /\
    mem_write b lo (be_bytes 2 (Zlen w) ++ w) = Some b3.
Proof.
  intros Hlo E1 E2 Hw Hs Hl. pose proof (Zlen_nonneg w).
  replace (lo + 2 + Zlen w - lo - 2) with (Zlen w) by lia.
  rewrite wrap_small, host_image_16 by (change (2 ^ 16) with 65536; lia).
  pose proof (mem_write_len _ _ _ _ E1) as L1. pose proof (written_len _ _ _ _ E2) as L2.
  destruct (mem_write_is_Some b2 lo (be_bytes 2 (Zlen w))) as [b3 E3];
    [lia|rewrite Zlen_be_bytes; lia|].
  exists b3. simpl. rewrite E3. split; [done|]. destruct E2 as [[-> ->]|E2].
  - eapply (mem_write_prefix b lo (be_bytes 2 v)); [by rewrite !Zlen_be_bytes| |done].
    by rewrite app_nil_r.
  - eapply (mem_write_prefix b lo (be_bytes 2 v)); [by rewrite !Zlen_be_bytes| |done].
    eapply mem_write_app; [done|]. by rewrite Zlen_be_bytes.
Qed.

Lemma fits_sub lo w size : fits lo (be_bytes 2 (Zlen w) ++ w) size -> lo + 2 + Zlen w <= size.
Proof.
  intros [E|E].
  - apply (f_equal Zlen) in E. zlia.
  - zlia.
Qed.

Lemma TPM2B_MARSHAL_SUBTYPE_ok {M} (m : option M -> mstep) (s : spec M) `{!SpecOk s} c :
  marshal_ok_gen c (ADDR m) s -> s_max s < 65536 ->
  marshal_ok (ADDR (TPM2B_MARSHAL_SUBTYPE m)) (spec_sub s).
Proof.
  intros O Hm x W D. pose proof W as [Ws%u16_bound Wm]. destruct (O (smember x) Wm D) as [Om On].
  unfold ADDR, TPM2B_MARSHAL_SUBTYPE in *. split.
  - intros b size lo Hlo Hs. simpl default. case_test.
    { do 3 eexists. split; [done|]. apply marshal_fail; [done|]. intros w E. split; [|done].
      destruct (wire_sub s x w W E) as (w'&_&->&_). intros F%fits_sub. zlia. }
    destruct (u16_marshal (ssize x) b size lo) as (b1&->&W1); [lia..|].
    pose proof (mem_write_len _ _ _ _ W1) as L1. simpl negb. cbv iota.
    destruct (Om b1 size (lo + 2)) as (rc&b2&lo2&->&[Po|Po]); [lia..| |].
    + destruct Po as (w&E&F&->&->&Wr). simpl negb. cbv iota. simpl default.
      pose proof (so_max _ _ Wm E).
      destruct (patch_size b lo (ssize x) b1 w b2 size) as (b3&->&W3); [done|done|done|lia..|].
      do 3 eexists. split; [done|]. left. exists (be_bytes 2 (Zlen w) ++ w). simpl.
      rewrite E, Zlen_app, Zlen_be_bytes. split_and!; [done| |done|lia|by right].
      apply fits_app; rewrite ?Zlen_be_bytes; [right; rewrite Zlen_be_bytes; lia|done].
    + destruct Po as (Hrc&_&So&Nw). rewrite (proj2 (Z.eqb_neq _ _) Hrc). simpl negb. cbv iota.
      do 3 eexists. split; [done|]. right. split_and!; [done|done| |].
      * apply (same_outside_trans b b1 b2 lo (lo + 2)); [lia| |done].
        apply (written_outside b lo (be_bytes 2 (ssize x)));
          [done|apply be_bytes_ok| |by right].
        right. rewrite Zlen_be_bytes. lia.
      * simpl. destruct Nw as [->|(w&->&Nf&->)]; [by left|right]. eexists. split_and!; [done| |done].
        intros F. apply Nf. apply fits_app_r in F. by rewrite Zlen_be_bytes in F.
  - intros w size lo E Hlo F Hl. destruct (wire_sub s x w W E) as (w'&E'&->&L&?).
    pose proof (fits_sub _ _ _ F) as F'. pose proof (Zlen_nonneg w'). simpl default.
    rewrite (proj2 (Z.ltb_ge size lo)), (proj2 (Z.ltb_ge (size - lo) 2)) by lia. simpl orb.
    cbv iota. unfold Tss2_MU_UINT16_Marshal, BASE_MARSHAL. simpl negb. cbv iota.
    change (csizeof UINT16) with 2. rewrite wrap64_small by lia.
    rewrite (On w'); [|done|lia|right; lia|lia]. simpl. do 4 f_equal. lia.
Qed.

(** Whatever the inner unmarshal call returns, the outer call succeeds once
    the length field has passed its checks. *)
Lemma TPM2B_UNMARSHAL_SUBTYPE_safe {M} n (u : ufn M) (s : spec M) :
  unmarshal_safe u s -> unmarshal_safe (TPM2B_UNMARSHAL_SUBTYPE n u) (spec_sub s).
Proof.
  intros O b size lo d Hb Hs Hlo Wd. pose proof Wd as [Ws Wm].
  unfold TPM2B_UNMARSHAL_SUBTYPE. simpl default. case_test.
  { do 3 eexists. split; [done|]. split; [lia|done]. }
  destruct (u16_unmarshal b size lo) as (v&->&Hv&_); [done|lia..|].
  simpl negb. cbv iota. simpl default.
  case_test; [do 3 eexists; split; [done|]; split; [lia|done]|].
  case_test; [do 3 eexists; split; [done|]; split; [lia|done]|].
  destruct (O b size (lo + 2) (smember d)) as (rc&lo'&m&->&?&Wm'); [done|lia..|done|].
  do 3 eexists. split; [done|]. split; [simpl; lia|]. done.
Qed.

Lemma TPM2B_UNMARSHAL_SUBTYPE_recognise {M} n (u : ufn M) (s : spec M) `{!SpecOk s} :
  recognise_ok u s -> s_max s <= n -> s_max s < 65536 ->
  recognise_ok (TPM2B_UNMARSHAL_SUBTYPE n u) (spec_sub s).
Proof.
  intros O Hn Hm b size lo d x w Hb Hs Hlo [_ Wd] Wx E F R.
  destruct (wire_sub s x w Wx E) as (w'&E'&->&L&?). pose proof (fits_sub _ _ _ F) as F'.
  pose proof (Zlen_nonneg w'). unfold TPM2B_UNMARSHAL_SUBTYPE. simpl default.
  rewrite (proj2 (Z.ltb_ge size lo)), (proj2 (Z.ltb_ge (size - lo) 2)) by lia. simpl orb.
  cbv iota. destruct (u16_unmarshal b size lo) as (v&->&Hv&Rv); [done|lia..|].
  assert (v = Zlen w') as -> by (apply (reads_size b lo v (Zlen w') w'); try done; lia).
  simpl negb. cbv iota. simpl default.
  rewrite (proj2 (Z.ltb_ge (size - (lo + 2)) (Zlen w'))), (proj2 (Z.ltb_ge n (Zlen w'))) by lia.
  apply reads_split in R as [_ R]. rewrite Zlen_be_bytes in R.
  destruct (O b size (lo + 2) (smember d) (smember x) w') as (m&->&Wm&Q); try done.
  - lia.
  - apply Wx.
  - right. lia.
  - exists (MkTPM2B_SUB (Zlen w') m). simpl. split; [|done].
    rewrite Zlen_app, Zlen_be_bytes. do 3 f_equal. f_equal. lia.
Qed.

Lemma tpm2b_sub_codec_ok {M} n (fm : option M -> mstep) fu (s : spec M) :
  codec_ok (ADDR fm) fu s -> s_max s <= n -> s_max s < 65536 ->
  lax_codec_ok (ADDR (TPM2B_MARSHAL_SUBTYPE fm)) (TPM2B_UNMARSHAL_SUBTYPE n fu) (spec_sub s).
Proof.
  intros [O M0 P] ? ?. split; [apply _| | |].
  - by eapply TPM2B_MARSHAL_SUBTYPE_ok.
  - apply TPM2B_UNMARSHAL_SUBTYPE_recognise; [done|by apply parse_ok_recognise|done|done].
  - by apply TPM2B_UNMARSHAL_SUBTYPE_safe, parse_ok_safe.
Qed.

End Tpm2bOk.

Lemma zero_2b_wf cap : 0 <= cap -> s_wf (spec_2b cap) (zero_2b cap).
Proof.
  intros. split; [|split; [|done]]; simpl.
  - rewrite Zlen_replicate. lia.
  - by apply Forall_replicate.
Qed.

Lemma zero_int_wf n : s_wf (spec_int (CType n false)) 0.
Proof.
  split; [done|]. apply Z.pow_pos_nonneg; [done|]. unfold cbits, csizeof. lia.
Qed.

(** ** Correctness of the list macros: [TPML_MARSHAL] / [TPML_UNMARSHAL]
    implement [spec_list], for any element functions that implement the
    format of the elements. *)

Section Loops.
Context {E : Type} (s : spec E) `{!SpecOk s}.

(** The format of a list of given elements. *)
Definition spec_elems (es : list E) : spec unit :=
  foldr (fun e acc => spec_app (spec_on (fun _ => e) s) acc) spec_unit es.

Lemma spec_elems_wire es : s_wire (spec_elems es) tt = wires s es.
Proof. induction es as [|e es IH]; simpl; [done|]. by rewrite IH. Qed.

Lemma spec_elems_wf es : Forall (s_wf s) es -> s_wf (spec_elems es) tt.
Proof. induction 1; simpl; done. Qed.

Lemma spec_elems_dom es : Forall (s_dom s) es -> s_dom (spec_elems es) tt.
Proof. induction 1; simpl; done. Qed.

(** The marshal loop is a sequence of calls, one per element. *)
Definition elem_calls (fn : E -> mstep) (es : list E) : list (unit -> mstep) :=
  map (fun e _ => fn e) es.

Lemma marshal_elems_seq fn n es buffer size offset :
  (n <= length es)%nat ->
  marshal_elems fn n es buffer size offset
  = marshal_seq (elem_calls fn (take n es)) tt buffer size offset.
Proof.
  revert es buffer offset. induction n as [|n IH]; intros [|e es] buffer offset Hn;
    simpl in *; try done; [lia|].
  destruct (fn e buffer size offset) as [[ret [buf' off']]|]; [|done].
  case_test; [done|]. apply IH. lia.
Qed.

Lemma elem_calls_ok c fn es :
  marshal_ok_gen c fn s -> msteps_ok (elem_calls fn es) (spec_elems es).
Proof.
  intros O. induction es as [|e es IH]; [constructor|].
  apply (msteps_cons c (fun _ => fn e)); [intros ?; apply so_bytes| |done]. intros x W D. exact (O e W D).
Qed.

(** The unmarshal loop. *)
Lemma unmarshal_elems_ok fn n es b size lo :
  parse_ok fn s -> bytes_ok b -> 0 <= size <= Zlen b -> 0 <= lo ->
  Forall (s_wf s) es -> (n <= length es)%nat ->
  exists rc lo' es',
    unmarshal_elems fn n (Some b) size (Some lo) es = Ret (rc, (Some lo', es')) /\
    Forall (s_wf s) es' /\ length es' = length es /\
    (rc = TSS2_RC_SUCCESS -> exists w, wires s (take n es') = Some w /\ fits lo w size /\
       lo' = lo + Zlen w /\ reads b lo w) /\
    (forall xs w, length xs = n -> Forall (s_wf s) xs -> wires s xs = Some w ->
       fits lo w size -> reads b lo w ->
       rc = TSS2_RC_SUCCESS /\ Forall2 (s_eqv s) (take n es') xs).
Proof.
  intros O Hb Hs Hlo W. revert lo n Hlo. induction W as [|e es We W IH]; intros lo n Hlo Hn.
  - destruct n; [|simpl in Hn; lia]. do 3 eexists. split; [done|]. split_and!; [done|done| |].
    + intros _. exists []. rewrite (Zlen_nil (A:=Z)), Z.add_0_r. split_and!; try done; by left.
    + intros [] w Lx _ _ _ _; [|done]. by split; [|constructor].
  - destruct n as [|n].
    { do 3 eexists. split; [done|]. split_and!; [by constructor|done| |].
      + intros _. exists []. rewrite (Zlen_nil (A:=Z)), Z.add_0_r.
        split_and!; try done; by left.
      + intros [] w Lx _ _ _ _; [|done]. by split; [|constructor]. }
    simpl in Hn. simpl unmarshal_elems.
    destruct (O b size lo e) as (rc&lo1&e'&->&We'&P1&_&R1); [done..|]. simpl default.
    destruct (decide (rc = TSS2_RC_SUCCESS)) as [->|N].
    + destruct P1 as (w1&Ew1&F1&->&Rd1); [done|]. simpl negb. cbv iota.
      destruct (IH (lo + Zlen w1) n) as (rc2&lo2&es'&->&Wes&Les&P2&R2); [zlia|lia|].
      do 3 eexists. split; [done|]. split_and!; [by constructor|simpl; lia| |].
      * intros Hrc. destruct (P2 Hrc) as (w2&Ew2&F2&->&Rd2). exists (w1 ++ w2).
        simpl. rewrite Ew1, Ew2. simpl. rewrite Zlen_app.
        split_and!; [done|by apply fits_app|lia|by apply reads_app].
      * intros [|x xs] w Lx Wx Ex F R; [done|]. simpl in Lx, Ex.
        inversion_clear Wx as [|? ? Wx1 Wx2].
        apply wire_app_Some in Ex as (v1&v2&Ev1&Ev2&->). apply reads_split in R as [Rv1 Rv2].
        destruct (R1 x v1 Wx1 I Ev1 (fits_app_l _ _ _ _ F) Rv1) as [_ Q].
        assert (v1 = w1) as -> by (pose proof (so_wire _ _ Q); congruence).
        destruct (R2 xs v2) as [-> Q2]; [lia|done|done|by apply fits_app_r|done|].
        split; [done|]. by constructor.
    + rewrite (proj2 (Z.eqb_neq _ _) N). simpl negb. cbv iota.
      do 3 eexists. split; [done|]. split_and!; [by constructor|done|done|].
      intros [|x xs] w Lx Wx Ex F R; [done|]. simpl in Ex.
      inversion_clear Wx as [|? ? Wx1 Wx2].
      apply wire_app_Some in Ex as (v1&v2&Ev1&Ev2&->). apply reads_split in R as [Rv1 Rv2].
      destruct (R1 x v1 Wx1 I Ev1 (fits_app_l _ _ _ _ F) Rv1) as [-> _]. done.
Qed.

End Loops.

Section TpmlOk.
Context {H : Host} {E : Type} (s : spec E) `{!SpecOk s}.
Context (cap : Z) (zero : E) (fm : E -> mstep) (fu : ufn E).

Lemma fits_list lo v w size : fits lo (be_bytes 4 v ++ w) size -> lo + 4 + Zlen w <= size.
Proof.
  intros [Ew|Ew].
  - apply (f_equal Zlen) in Ew. zlia.
  - zlia.
Qed.

Lemma u32_bound z : in_range UINT32 z -> 0 <= z < 4294967296.
Proof. done. Qed.

Lemma TPML_MARSHAL_ok c :
  marshal_ok_gen c fm s -> marshal_ok (ADDR (TPML_MARSHAL cap fm)) (spec_list cap s).
Proof.
  intros O x W D. pose proof W as (Wc%u32_bound&L&We).
  set (n := Z.to_nat (count x)).
  pose (fs := (fun _ : unit => Tss2_MU_UINT32_Marshal (count x)) ::
    elem_calls fm (take n (elems x))).
  pose (S := spec_app (spec_on (fun _ : unit => count x) (spec_int UINT32))
    (spec_elems s (take n (elems x)))).
  assert (Sw : count x <= cap -> s_wire S tt = s_wire (spec_list cap s) x).
  { intros Hc. simpl. rewrite (proj2 (Z.leb_le _ _) Hc), spec_elems_wire.
    rewrite to_unsigned_small by done. done. }
  assert (Sok : count x <= cap -> s_wf S tt /\ s_dom S tt).
  { intros Hc. split; split; [done| |done|].
    - apply spec_elems_wf. by apply Forall_take.
    - apply spec_elems_dom. by apply D. }
  assert (Fok : marshal_ok_gen false (marshal_seq fs) S).
  { apply marshal_seq_ok. apply (msteps_cons true); [apply so_bytes| |by apply (elem_calls_ok s c)].
    intros y Wy Dy. by apply BASE_MARSHAL_ok; [ctype|..]. }
  assert (Body : count x <= cap -> forall buf size lo,
    (let* (ret, (b1, lo1)) := Tss2_MU_UINT32_Marshal (count x) buf size (Some lo) in
     if negb (ret =? TSS2_RC_SUCCESS) then Ret (ret, (b1, Some lo)) else
     let* (ret, (b2, lo2)) := marshal_elems fm n (elems x) b1 size lo1 in
     if negb (ret =? TSS2_RC_SUCCESS) then Ret (ret, (b2, Some lo)) else
     Ret (TSS2_RC_SUCCESS, (b2, lo2)))
    = let* (ret, (b2, lo2)) := marshal_seq fs tt buf size (Some lo) in
      Ret (ret, (b2, if ret =? TSS2_RC_SUCCESS then lo2 else Some lo))).
  { intros Hc buf size lo. simpl.
    destruct (Tss2_MU_UINT32_Marshal (count x) buf size (Some lo)) as [[ret [b1 lo1]]|]; [|done].
    case_test; [by rewrite (proj2 (Z.eqb_neq _ _))|].
    rewrite marshal_elems_seq by (unfold Zlen in L; unfold n; lia).
    destruct (marshal_seq _ tt b1 size lo1) as [[ret2 [b2 lo2]]|]; [|done].
    destruct (ret2 =? TSS2_RC_SUCCESS) eqn:E2; bool2prop; [by subst|done]. }
  unfold ADDR, TPML_MARSHAL. split.
  - intros b size lo Hlo Hs. simpl default. case_test; [|case_test].
    + do 3 eexists. split; [done|]. apply marshal_fail; [done|].
      intros w (_&w'&_&->)%wire_list. split; [|done]. intros F%fits_list. zlia.
    + do 3 eexists. split; [done|]. apply marshal_fail; [done|].
      intros w (?&_)%wire_list. lia.
    + assert (Hc : count x <= cap) by lia. fold n. rewrite Body by done.
      destruct (Sok Hc) as [Wt Dt]. destruct (Fok tt Wt Dt) as [P _]. rewrite (Sw Hc) in P.
      destruct (P b size lo) as (rc&b'&lo'&->&[Po|Po]); [done..| |].
      * pose proof Po as (?&_&_&->&_). do 3 eexists. split; [done|]. by left.
      * destruct Po as (Hrc&_&Po). rewrite (proj2 (Z.eqb_neq _ _) Hrc).
        do 3 eexists. split; [done|]. by right.
  - intros w size lo Ew Hlo F Hl. destruct (wire_list s cap x w Ew) as (Hc&w'&Ew'&->).
    pose proof (fits_list _ _ _ _ F). pose proof (Zlen_nonneg w'). simpl default.
    rewrite (proj2 (Z.ltb_ge size lo)), (proj2 (Z.ltb_ge (size - lo) 4)),
      (proj2 (Z.ltb_ge cap (count x))) by lia. simpl orb. cbv iota. fold n.
    rewrite Body by done. destruct (Sok Hc) as [Wt Dt]. destruct (Fok tt Wt Dt) as [_ N].
    rewrite (N (be_bytes 4 (count x) ++ w')); [done|by rewrite Sw|done|done|done].
Qed.

Lemma u32_unmarshal b size lo :
  bytes_ok b -> 0 <= size <= Zlen b -> 0 <= lo -> lo + 4 <= size ->
  exists v, Tss2_MU_UINT32_Unmarshal (Some b) size (Some lo) (Some 0)
            = Ret (TSS2_RC_SUCCESS, (Some (lo + 4), Some v)) /\
            in_range UINT32 v /\ mem_read b lo 4 = Some (be_bytes 4 v).
Proof.
  intros Hb Hs Hlo Hf.
  destruct (BASE_UNMARSHAL_ok UINT32 ltac:(ctype) b size lo 0) as (rc&lo'&v&Eu&Wv&P1&_&R);
    [done..|]. destruct (mem_read_is_Some b lo 4) as [w Rd]; [lia..|].
  destruct (decide (rc = TSS2_RC_SUCCESS)) as [->|N].
  - destruct P1 as (w'&Ew&_&->&Rw); [done|]. cbn [s_wire spec_int] in Ew.
    apply u32_bound in Wv as Wv'. rewrite to_unsigned_small in Ew by done. some_inv.
    rewrite Zlen_be_bytes in *. exists v. split_and!; [done|apply Wv..|].
    destruct Rw as [Rw|Rw]; [by apply be_bytes_ne in Rw; [|ctype]|]. by rewrite Zlen_be_bytes in Rw.
  - unfold BASE_UNMARSHAL in Eu. simpl default in Eu.
    change (csizeof UINT32) with 4 in Eu.
    rewrite (proj2 (Z.ltb_ge size lo)), (proj2 (Z.ltb_ge (size - lo) 4)), Rd in Eu by lia.
    simpl in Eu. congruence.
Qed.

(** An image in the buffer shows its count. *)
Lemma reads_count b lo v n w :
  in_range UINT32 v -> in_range UINT32 n -> mem_read b lo 4 = Some (be_bytes 4 v) ->
  reads b lo (be_bytes 4 n ++ w) -> v = n.
Proof.
  intros Hv Hn R1 R2. apply reads_split in R2 as [[R2|R2] _].
  - apply (f_equal Zlen) in R2. rewrite Zlen_be_bytes in R2. done.
  - rewrite Zlen_be_bytes in R2. change (Z.of_nat 4) with 4 in R2. rewrite R1 in R2.
    apply (inj Some), (f_equal be_value) in R2.
    by rewrite !be_value_be_bytes in R2 by done.
Qed.

Lemma TPML_UNMARSHAL_ok :
  0 <= cap -> s_wf s zero -> parse_ok fu s ->
  parse_ok (TPML_UNMARSHAL cap zero fu) (spec_list cap s).
Proof.
  intros Hcap Wz O b size lo d Hb Hs Hlo Hd. unfold TPML_UNMARSHAL. simpl default.
  case_test.
  { do 3 eexists. split; [done|]. apply parse_fail; [done|done|].
    intros x w W _ (_&w'&_&->)%wire_list F%fits_list _. zlia. }
  destruct (u32_unmarshal b size lo) as (v&->&Hv&Rv); [done|lia..|].
  simpl negb. cbv iota. simpl default. case_test.
  { do 3 eexists. split; [done|]. apply parse_fail; [done|done|].
    intros x w W _ (?&w'&_&->)%wire_list F R. apply (reads_count b lo v) in R; [lia|done|apply W|done]. }
  set (es0 := replicate (Z.to_nat cap) zero).
  assert (L0 : Zlen es0 = cap) by (unfold es0; rewrite Zlen_replicate; lia).
  apply u32_bound in Hv as Hv'.
  destruct (unmarshal_elems_ok s fu (Z.to_nat v) es0 b size (lo + 4))
    as (rc&lo'&es&->&Wes&Les&P&R); [done|done|done|lia|by apply Forall_replicate|
      unfold Zlen in L0; lia|].
  assert (Wl : s_wf (spec_list cap s) (MkTPML v es)).
  { split; [done|]. split; [|done]. unfold Zlen in *. simpl. lia. }
  assert (Ew : s_wire (spec_list cap s) (MkTPML v es)
    = wire_app (Some (be_bytes 4 v)) (wires s (take (Z.to_nat v) es))).
  { cbn [s_wire spec_list]. unfold active. simpl count. simpl elems.
    by rewrite (proj2 (Z.leb_le _ _)). }
  assert (Rec : forall x w, s_wf (spec_list cap s) x -> True ->
    s_wire (spec_list cap s) x = Some w -> fits lo w size -> reads b lo w ->
    rc = TSS2_RC_SUCCESS /\ s_eqv (spec_list cap s) (MkTPML v es) x).
  { intros x w (Wc&Lx&Wx) _ (Hc&w'&Ew'&->)%wire_list F Rd.
    pose proof (reads_count _ _ _ _ _ Hv Wc Rv Rd) as ->.
    apply reads_split in Rd as [_ Rd]. apply fits_app_r in F. rewrite Zlen_be_bytes in *.
    destruct (R (active x) w') as [-> Q]; try done; [|by apply Forall_take].
    unfold active. rewrite length_take. unfold Zlen in Lx. lia. }
  destruct (decide (rc = TSS2_RC_SUCCESS)) as [->|N].
  - do 3 eexists. split; [done|]. split_and!; [done| |done|done].
    intros _. destruct P as (w&Ew2&F2&->&Rd2); [done|]. exists (be_bytes 4 v ++ w).
    rewrite Ew, Ew2, Zlen_app, Zlen_be_bytes. split_and!; [done| |lia|].
    + apply fits_app; rewrite ?Zlen_be_bytes; [right; rewrite Zlen_be_bytes; lia|done].
    + apply reads_app; rewrite ?Zlen_be_bytes; [right; by rewrite Zlen_be_bytes|done].
  - rewrite (proj2 (Z.eqb_neq _ _) N). simpl negb. cbv iota. do 3 eexists. split; [done|].
    by split_and!.
Qed.

End TpmlOk.

Lemma tpml_codec_ok `{Host} {E} cap (zero : E) fm fu (s : spec E) :
  0 <= cap -> 0 <= s_max s -> s_wf s zero -> codec_ok fm fu s ->
  codec_ok (ADDR (TPML_MARSHAL cap fm)) (TPML_UNMARSHAL cap zero fu) (spec_list cap s).
Proof.
  intros ? ? ? [O M P]. split; [by apply spec_list_ok| |by apply TPML_UNMARSHAL_ok].
  by apply (TPML_MARSHAL_ok s cap fm true).
Qed.

Lemma zero_tpml_wf {E} cap (zero : E) (s : spec E) :
  0 <= cap -> s_wf s zero -> s_wf (spec_list cap s) (zero_tpml cap zero).
Proof.
  intros. split; [done|]. split; simpl; [rewrite Zlen_replicate; lia|by apply Forall_replicate].
Qed.
