(* ===== verification/MuUnion.v ===== *)
(** * Unions: [src/tss2-mu/tpmu-types.c].

    [marshal_tab] / [unmarshal_tab] copy byte arrays; [TPMU_MARSHAL] and
    [TPMU_UNMARSHAL] dispatch on a selector.

    Unions of byte arrays, and unions whose members start with the same
    scalar, are modelled by their storage.  The others are inductive types
    with a constructor per member type; [umember] gives access to a member.
    Marshaling a member of another type than the one stored last is outside
    the model ([Undef]: C reinterprets the bytes); unmarshaling into it starts
    from the zero value of the member, and no theorem depends on the bytes it
    leaves alone. *)

From S2P Require Import Prelude Common MuSpec MuBase MuStruct MuStructOk.
Open Scope tss_scope.

Definition TPM2_ALG_NULL := 16.

(** ** Byte arrays *)

Definition marshal_tab (src : option bytes) (size : Z) : mstep :=
  fun buffer buffer_size offset =>
  match src with
  | None => Ret (TSS2_MU_RC_BAD_REFERENCE, (buffer, offset))
  | Some src =>
    let local_offset := default 0 offset in
    match buffer, offset with
    | None, None => Ret (TSS2_MU_RC_BAD_REFERENCE, (buffer, offset))
    | None, Some o => Ret (TSS2_RC_SUCCESS, (buffer, Some (wrap64 (o + size))))
    | Some b, _ =>
      if (buffer_size <? local_offset) || (buffer_size - local_offset <? size)
      then Ret (TSS2_MU_RC_INSUFFICIENT_BUFFER, (buffer, offset))
      else
      let* data := access (mem_read src 0 size) in
      let* b' := access (mem_write b local_offset data) in
      Ret (TSS2_RC_SUCCESS,
           (Some b', match offset with Some _ => Some (local_offset + size) | None => None end))
    end
  end.

Definition unmarshal_tab (size : Z) : ufn bytes :=
  fun buffer buffer_size offset dest =>
  let local_offset := default 0 offset in
  match buffer, dest, offset with
  | None, _, _ | _, None, None => Ret (TSS2_MU_RC_BAD_REFERENCE, (offset, dest))
  | Some _, None, Some o => Ret (TSS2_RC_SUCCESS, (Some (wrap64 (o + size)), dest))
  | Some b, Some d, _ =>
      if (buffer_size <? local_offset) || (buffer_size - local_offset <? size)
      then Ret (TSS2_MU_RC_INSUFFICIENT_BUFFER, (offset, dest))
      else
      let* data := access (mem_read b local_offset size) in
      let* d' := access (mem_write d 0 data) in
      Ret (TSS2_RC_SUCCESS,
           (match offset with Some _ => Some (local_offset + size) | None => None end, Some d'))
  end.

Definition marshal_null {U} (src : U) : mstep :=
  fun buffer buffer_size offset => Ret (TSS2_RC_SUCCESS, (buffer, offset)).

Definition unmarshal_null {U} : ufn U :=
  fun buffer buffer_size offset dest => Ret (TSS2_RC_SUCCESS, (offset, dest)).

(** ** Members of a union *)

Record umember (U M : Type) := UMember {
  uget : U -> option M;
  uset : M -> U -> U;
  uzero : M
}.
Arguments UMember {U M}.
Arguments uget {U M} u x : rename.
Arguments uset {U M} u v x : rename.
Arguments uzero {U M} u : rename.

(** [fn(op src->m, buffer, buffer_size, offset)]. *)
Definition mcase {U M} (m : umember U M) (fn : M -> mstep) : U -> mstep :=
  fun src buffer buffer_size offset =>
  match uget m src with
  | Some v => fn v buffer buffer_size offset
  | None => Undef
  end.

(** [fn(buffer, buffer_size, offset, dest ? &dest->m : NULL)]. *)
Definition ucase {U M} (m : umember U M) (fn : ufn M) : ufn U :=
  fun buffer buffer_size offset dest =>
  let* (ret, (offset, r)) :=
    fn buffer buffer_size offset
      (match dest with Some u => Some (default (uzero m) (uget m u)) | None => None end) in
  Ret (ret, (offset,
    match dest, r with Some u, Some v => Some (uset m v u) | _, _ => dest end)).

(** ** The dispatch *)

(** [switch (selector)]; the labels of a C switch are distinct. *)
Fixpoint switch {A} (selector : Z) (cases : list (Z * A)) : option A :=
  match cases with
  | [] => None
  | (label, a) :: cases => if label =? selector then Some a else switch selector cases
  end.

Definition TPMU_MARSHAL {U} (cases : list (Z * (U -> mstep))) (src : option U)
    (selector : Z) : mstep :=
  fun buffer buffer_size offset =>
  match src with
  | None => Ret (TSS2_MU_RC_BAD_REFERENCE, (buffer, offset))
  | Some src =>
      match switch selector cases with
      | Some fn => fn src buffer buffer_size offset
      | None => Ret (if selector =? TPM2_ALG_NULL then TSS2_RC_SUCCESS
                     else TSS2_MU_RC_BAD_VALUE, (buffer, offset))
      end
  end.

Definition TPMU_UNMARSHAL {U} (cases : list (Z * ufn U)) : ufn_sel U :=
  fun buffer buffer_size offset selector dest =>
  match switch selector cases with
  | Some fn => fn buffer buffer_size offset dest
  | None => Ret (if selector =? TPM2_ALG_NULL then TSS2_RC_SUCCESS
                 else TSS2_MU_RC_BAD_VALUE, (offset, dest))
  end.

(** The labels [-1] .. [-10] of the padding tuples, as [uint32_t]. *)
Definition pad_labels : list Z := map (fun k => 2 ^ 32 - Z.of_nat k) (seq 1 10).

(** 12 tuples are used; the padding fills up the table. *)
Definition pad {A} (a : A) (cases : list (Z * A)) : list (Z * A) :=
  take 12 (cases ++ map (fun label => (label, a)) pad_labels).

Definition TPMU_MARSHAL2 {U} (cases : list (Z * (U -> mstep))) : option U -> Z -> mstep :=
  TPMU_MARSHAL (pad marshal_null cases).

Definition TPMU_UNMARSHAL2 {U} (cases : list (Z * ufn U)) : ufn_sel U :=
  TPMU_UNMARSHAL (pad unmarshal_null cases).

(** ** Wire formats *)

(** [n] bytes of an array of [cap] bytes. *)
Definition spec_tab (cap n : Z) : spec bytes :=
  {| s_wf := fun x => Zlen x = cap /\ bytes_ok x;
     s_dom := fun _ => True;
     s_wire := fun x => Some (take (Z.to_nat n) x);
     s_eqv := fun x y => take (Z.to_nat n) x = take (Z.to_nat n) y;
     s_max := n |}.

Definition spec_case {U M} (wf : U -> Prop) (m : umember U M) (s : spec M) : spec U :=
  {| s_wf := wf;
     s_dom := fun u => exists v, uget m u = Some v /\ s_dom s v;
     s_wire := fun u => match uget m u with Some v => s_wire s v | None => None end;
     s_eqv := fun u u' => match uget m u, uget m u' with
       | Some v, Some v' => s_eqv s v v' | None, None => True | _, _ => False end;
     s_max := s_max s |}.

(** Nothing on the wire; no image. *)
Definition spec_empty {U} (wf : U -> Prop) : spec U :=
  {| s_wf := wf; s_dom := fun _ => True; s_wire := fun _ => Some [];
     s_eqv := fun _ _ => True; s_max := 0 |}.
Definition spec_none {U} (wf : U -> Prop) : spec U :=
  {| s_wf := wf; s_dom := fun _ => True; s_wire := fun _ => None;
     s_eqv := fun _ _ => True; s_max := 0 |}.

Definition spec_union {U} (wf : U -> Prop) (cases : list (Z * spec U)) (selector : Z) : spec U :=
  match switch selector (pad (spec_empty wf) cases) with
  | Some s => s
  | None => if selector =? TPM2_ALG_NULL then spec_empty wf else spec_none wf
  end.

(** ** Correctness *)

#[export] Instance spec_tab_ok cap n : 0 <= n <= cap -> SpecOk (spec_tab cap n).
Proof.
  intros Hn. split; simpl.
  - intros x w [L B] E. some_inv. by apply Forall_take.
  - intros x w [L B] E. some_inv. unfold Zlen in *. rewrite length_take. lia.
  - done.
  - done.
  - done.
  - intros x y z -> ->. done.
  - intros x y ->. done.
Qed.

#[export] Instance spec_empty_ok {U} (wf : U -> Prop) : SpecOk (spec_empty wf).
Proof. split; simpl; intros; some_inv; try done; constructor. Qed.

#[export] Instance spec_none_ok {U} (wf : U -> Prop) : SpecOk (spec_none wf).
Proof. split; simpl; intros; some_inv; done. Qed.

Lemma spec_case_ok {U M} (wf : U -> Prop) (m : umember U M) (s : spec M) :
  SpecOk s -> (forall u v, wf u -> uget m u = Some v -> s_wf s v) -> SpecOk (spec_case wf m s).
Proof.
  intros O W. split; simpl.
  - intros u w Wu E. destruct (uget m u) eqn:Eu; [|done]. eapply so_bytes; eauto.
  - intros u w Wu E. destruct (uget m u) eqn:Eu; [|done]. eapply so_max; eauto.
  - intros u w Wu E. destruct (uget m u) as [v|] eqn:Eu; [|done].
    exists v. split; [done|]. eapply so_dom; eauto.
  - intros u. destruct (uget m u); [apply so_refl|done].
  - intros u u'. destruct (uget m u), (uget m u'); first [done|apply so_sym].
  - intros u u' u''. destruct (uget m u), (uget m u'), (uget m u''); first [done|apply so_trans].
  - intros u u'. destruct (uget m u), (uget m u'); first [done|apply so_wire].
Qed.

Lemma fits_tab lo w size n : Zlen w = n -> 0 < n -> fits lo w size <-> lo + n <= size.
Proof.
  intros L ?. unfold fits. rewrite L. split; [|by right].
  intros [->|?]; [rewrite (Zlen_nil (A:=Z)) in L|]; lia.
Qed.

Lemma tab_read cap n x :
  0 <= n <= cap -> s_wf (spec_tab cap n) x ->
  mem_read x 0 n = Some (take (Z.to_nat n) x) /\ Zlen (take (Z.to_nat n) x) = n.
Proof.
  intros Hn [L B]. split.
  - apply mem_read_Some. split_and!; (lia || done).
  - unfold Zlen in *. rewrite length_take. lia.
Qed.

Lemma marshal_tab_ok cap n :
  0 < n <= cap -> marshal_ok (fun x => marshal_tab (Some x) n) (spec_tab cap n).
Proof.
  intros Hn x W _. destruct (tab_read cap n x) as [R L]; [lia|done|]. split.
  - intros b size lo Hlo Hs. unfold marshal_tab. simpl default. case_test.
    + do 3 eexists. split; [done|]. apply marshal_fail; [done|]. intros w E. simpl in E.
      some_inv. rewrite (fits_tab _ _ _ _ L) by lia. split; [lia|done].
    + rewrite R. simpl access. destruct (mem_write_is_Some b lo (take (Z.to_nat n) x))
        as [b' Wr]; [lia..|]. rewrite Wr. do 3 eexists. split; [done|]. left. eexists.
      rewrite (fits_tab _ _ _ _ L), L by lia. split_and!; try done; [lia|by right].
  - intros w size lo E ? F Hl. simpl in E. some_inv. rewrite L in *. unfold marshal_tab.
    rewrite wrap64_small by lia. done.
Qed.

Lemma unmarshal_tab_ok cap n : 0 < n <= cap -> parse_ok (unmarshal_tab n) (spec_tab cap n).
Proof.
  intros Hn b size lo d Hb Hs Hlo Wd. unfold unmarshal_tab. simpl default. case_test.
  - do 3 eexists. split; [done|]. apply parse_fail; [done|done|].
    intros x w Wx _ E F _. simpl in E. some_inv.
    destruct (tab_read cap n x) as [_ L]; [lia|done|].
    rewrite (fits_tab _ _ _ _ L) in F by lia. lia.
  - destruct (mem_read_is_Some b lo n) as [data R]; [lia..|]. rewrite R. simpl access.
    apply mem_read_len in R as L. destruct Wd as [Ld Bd].
    destruct (mem_write_is_Some d 0 data) as [d' Wr]; [lia..|]. rewrite Wr.
    assert (Wd' : s_wf (spec_tab cap n) d').
    { split; [by rewrite (mem_write_len _ _ _ _ Wr)|].
      exact (mem_write_bytes _ _ _ _ Bd (mem_read_bytes _ _ _ _ Hb R) Wr). }
    assert (E : take (Z.to_nat n) d' = data).
    { apply mem_read_write in Wr. rewrite L in Wr. apply mem_read_Some in Wr as (_&_&_&Wr).
      by change (drop (Z.to_nat 0) d') with d' in Wr. }
    do 3 eexists. split; [done|]. split; [done|]. simpl. rewrite E. split_and!; [|done|].
    + intros _. exists data. rewrite L. split_and!; try done; [right; lia|right; by rewrite L].
    + intros x w Wx _ Ex _ Rx. some_inv. split; [done|].
      destruct (tab_read cap n x) as [_ Lx]; [lia|done|].
      destruct Rx as [Rx|Rx]; [rewrite Rx in Lx; rewrite (Zlen_nil (A:=Z)) in Lx; lia|].
      rewrite Lx in Rx. congruence.
Qed.

Lemma tab_codec_ok cap n :
  0 < n <= cap ->
  codec_ok (fun x => marshal_tab (Some x) n) (unmarshal_tab n) (spec_tab cap n).
Proof.
  intros. split; [apply spec_tab_ok; lia|by apply marshal_tab_ok|by apply unmarshal_tab_ok].
Qed.

Lemma empty_codec_ok {U} (wf : U -> Prop) :
  codec_ok marshal_null unmarshal_null (spec_empty wf).
Proof.
  split; [apply _| |].
  - intros x _ _. split.
    + intros b size lo ? ?. do 3 eexists. split; [done|]. left. exists [].
      rewrite (Zlen_nil (A:=Z)), Z.add_0_r. split_and!; try done; by left.
    + intros w size lo E ? ? ?. simpl in *. some_inv. by rewrite (Zlen_nil (A:=Z)), Z.add_0_r.
  - intros b size lo d ? ? ? Wd. do 3 eexists. split; [done|]. split; [done|].
    split; [|done]. intros _. exists []. rewrite (Zlen_nil (A:=Z)), Z.add_0_r.
    split_and!; try done; by left.
Qed.

(** What a member accessor must satisfy with respect to the storage [wf]. *)
Record umember_ok {U M} (wf : U -> Prop) (m : umember U M) (s : spec M) : Prop := UMemberOk {
  um_wf : forall u v, wf u -> uget m u = Some v -> s_wf s v;
  um_zero : s_wf s (uzero m);
  um_set : forall u v, wf u -> s_wf s v -> wf (uset m v u);
  um_get : forall u v, wf u -> s_wf s v -> uget m (uset m v u) = Some v
}.

Lemma case_codec_ok {U M} (wf : U -> Prop) (m : umember U M) fm fu (s : spec M) :
  umember_ok wf m s -> codec_ok fm fu s ->
  codec_ok (mcase m fm) (ucase m fu) (spec_case wf m s).
Proof.
  intros [Wg Wz Ws Gs] [O M0 P]. split; [by apply spec_case_ok| |].
  - intros u Wu (v&Eu&Dv). simpl. destruct (M0 v (Wg _ _ Wu Eu) Dv) as [A B].
    split; unfold mcase; simpl; rewrite Eu; done.
  - intros b size lo d Hb Hs Hlo Wd.
    set (v0 := default (uzero m) (uget m d)).
    assert (W0 : s_wf s v0) by (unfold v0; destruct (uget m d) eqn:Ed; simpl; eauto).
    destruct (P b size lo v0) as (rc&lo'&v&Er&Wv&P1&Q&R); [done..|].
    unfold ucase. fold v0. rewrite Er. do 3 eexists. split; [done|].
    split; [by apply Ws|]. simpl. rewrite Gs by done. split_and!; [done|done|].
    intros x w Wx _ Ex F Rd. destruct (uget m x) as [vx|] eqn:Ev; [|done].
    exact (R vx w (Wg _ _ Wx Ev) I Ex F Rd).
Qed.

(** ** Tables of cases *)

(** The three tables list the same labels, with functions that implement the
    formats over the storage [wf], none longer than [mx]. *)
Inductive cases_ok {U} (wf : U -> Prop) (mx : Z) :
    list (Z * (U -> mstep)) -> list (Z * ufn U) -> list (Z * spec U) -> Prop :=
| cases_nil : cases_ok wf mx [] [] []
| cases_cons label m u s ms us ss :
    codec_ok m u s -> s_wf s = wf -> s_max s <= mx -> cases_ok wf mx ms us ss ->
    cases_ok wf mx ((label, m) :: ms) ((label, u) :: us) ((label, s) :: ss).

Lemma cases_app {U} (wf : U -> Prop) mx ms us ss ms' us' ss' :
  cases_ok wf mx ms us ss -> cases_ok wf mx ms' us' ss' ->
  cases_ok wf mx (ms ++ ms') (us ++ us') (ss ++ ss').
Proof. induction 1; simpl; [done|]. intros. constructor; auto. Qed.

Lemma cases_take {U} (wf : U -> Prop) mx n ms us ss :
  cases_ok wf mx ms us ss -> cases_ok wf mx (take n ms) (take n us) (take n ss).
Proof. intros C. revert n. induction C; intros [|n]; simpl; constructor; auto. Qed.

Lemma cases_pad {U} (wf : U -> Prop) mx ms us ss :
  0 <= mx -> cases_ok wf mx ms us ss ->
  cases_ok wf mx (pad marshal_null ms) (pad unmarshal_null us) (pad (spec_empty wf) ss).
Proof.
  intros Hm C. apply cases_take, cases_app; [done|].
  induction pad_labels; simpl; constructor; auto using empty_codec_ok.
Qed.

(** The case a selector picks is the same in the three tables. *)
Lemma cases_switch {U} (wf : U -> Prop) mx ms us ss z :
  cases_ok wf mx ms us ss ->
  match switch z ms, switch z us, switch z ss with
  | Some m, Some u, Some s => codec_ok m u s /\ s_wf s = wf /\ s_max s <= mx
  | None, None, None => True
  | _, _, _ => False
  end.
Proof. induction 1; simpl; [done|]. by destruct (label =? z). Qed.

Lemma none_codec_ok {U} (wf : U -> Prop) rc :
  rc <> TSS2_RC_SUCCESS ->
  codec_ok (fun _ buffer _ offset => Ret (rc, (buffer, offset)))
           (fun _ _ offset dest => Ret (rc, (offset, dest))) (spec_none wf).
Proof.
  intros Hrc. split; [apply _| |].
  - intros x _ _. split; [|done]. intros b size lo ? ?. do 3 eexists. split; [done|].
    by apply marshal_fail.
  - intros b size lo d ? ? ? Wd. do 3 eexists. split; [done|]. by apply parse_fail.
Qed.

Lemma TPMU_ok {U} (wf : U -> Prop) mx ms us ss :
  0 <= mx -> cases_ok wf mx ms us ss ->
  union_ok (ADDR (TPMU_MARSHAL2 ms)) (TPMU_UNMARSHAL2 us) wf (spec_union wf ss) mx.
Proof.
  intros Hm C. apply cases_pad in C; [|done].
  assert (Z : forall z, (s_wf (spec_union wf ss z) = wf /\ s_max (spec_union wf ss z) <= mx) /\
    codec_ok (fun x => ADDR (TPMU_MARSHAL2 ms) x z) (fun b n o => TPMU_UNMARSHAL2 us b n o z)
      (spec_union wf ss z)).
  { intros z. pose proof (cases_switch _ _ _ _ _ z C) as Hz.
    unfold ADDR, TPMU_MARSHAL2, TPMU_UNMARSHAL2, TPMU_MARSHAL, TPMU_UNMARSHAL, spec_union.
    destruct (switch z (pad marshal_null ms)), (switch z (pad unmarshal_null us)),
      (switch z (pad (spec_empty wf) ss)); try done; [by destruct Hz as (?&?&?)|].
    case_test; split; try done; [apply empty_codec_ok|by apply none_codec_ok]. }
  split; intros z; [|apply Z..]. intros x. by rewrite (proj1 (proj1 (Z z))).
Qed.

(** The longest image of a table. *)
Definition cases_max {U} (cases : list (Z * spec U)) : Z :=
  foldr (fun '(_, s) m => Z.max (s_max s) m) 0 cases.

Section UnionSpec.
Context {U : Type} {m : U -> Z -> mstep} {u : ufn_sel U} {wf : U -> Prop}.
Context {su : Z -> spec U} {mx : Z} (O : union_ok m u wf su mx).

Lemma union_ok_spec z : SpecOk (su z).
Proof. apply (uo_codec _ _ _ _ _ O). Qed.

Lemma union_ok_sel {T} (sel : T -> Z) get : SpecOk (spec_sel sel get wf su mx).
Proof.
  apply spec_sel_ok; [apply union_ok_spec| |apply O]. intros. by apply (uo_wf _ _ _ _ _ O).
Qed.
End UnionSpec.

Lemma zero_tab_wf cap n : 0 <= cap -> s_wf (spec_tab cap n) (replicate (Z.to_nat cap) 0).
Proof. intros. split; [rewrite Zlen_replicate; lia|by apply Forall_replicate]. Qed.
