(* ===== verification/MuPcr.v ===== *)
(** * PCR selections: [TPMS_PCR_MARSHAL] / [TPMS_PCR_UNMARSHAL] of
    [src/tss2-mu/tpms-types.c].

    The three types that use the macros end with [sizeofSelect] and the array
    [pcrSelect] of [TPM2_PCR_SELECT_MAX] bytes, of which the first
    [sizeofSelect] are on the wire; they differ in what precedes. *)

From S2P Require Import Prelude Common MuSpec MuBase MuBaseOk MuStruct MuStructOk MuTpm2b MuTpm2bOk.
Open Scope tss_scope.

Definition TPM2_MAX_PCRS := 32.
Definition TPM2_PCR_SELECT_MAX := (TPM2_MAX_PCRS + 7) / 8.

Section Pcr.
Context {H : Host} {T : Type} (sizeofSelect : member T Z) (pcrSelect : member T bytes).

Definition pcr_check : T -> mstep :=
  fun src buffer buffer_size offset =>
  if TPM2_PCR_SELECT_MAX <? mget sizeofSelect src
  then Ret (TSS2_SYS_RC_BAD_VALUE, (buffer, offset))
  else Ret (TSS2_RC_SUCCESS, (buffer, offset)).

Definition pcr_bytes : T -> mstep :=
  fun src => marshal_elems Tss2_MU_BYTE_Marshal (Z.to_nat (mget sizeofSelect src))
               (mget pcrSelect src).

Definition TPMS_PCR_MARSHAL (firstFieldMarshal : T -> mstep) : option T -> mstep :=
  struct_marshal TSS2_MU_RC_BAD_REFERENCE
    [pcr_check; firstFieldMarshal; mfield sizeofSelect Tss2_MU_UINT8_Marshal; pcr_bytes].

Definition pcr_select : ustep T :=
  fun buffer buffer_size offset dest_given d =>
  let* (ret, (offset, d)) :=
    ufield_tmp sizeofSelect Tss2_MU_UINT8_Unmarshal buffer buffer_size offset dest_given d in
  if negb (ret =? TSS2_RC_SUCCESS) then Ret (ret, (offset, d))
  else if TPM2_PCR_SELECT_MAX <? mget sizeofSelect d
  then Ret (TSS2_SYS_RC_MALFORMED_RESPONSE, (offset, d))
  else
  let n := Z.to_nat (mget sizeofSelect d) in
  if dest_given then
    let* (ret, (offset, es)) :=
      unmarshal_elems Tss2_MU_UINT8_Unmarshal n buffer buffer_size offset (mget pcrSelect d) in
    Ret (ret, (offset, mset pcrSelect es d))
  else
    let* (ret, offset) := skip_elems Tss2_MU_UINT8_Unmarshal n buffer buffer_size offset in
    Ret (ret, (offset, d)).

Definition TPMS_PCR_UNMARSHAL (zero : T) (firstFieldUnmarshal : ustep T) : ufn T :=
  struct_unmarshal zero true [firstFieldUnmarshal; pcr_select].

(** [TSS2_RC_SUCCESS] in place of a first member. *)
Definition no_field : T -> mstep :=
  fun _ buffer _ offset => Ret (TSS2_RC_SUCCESS, (buffer, offset)).
Definition no_ufield : ustep T :=
  fun _ _ offset _ d => Ret (TSS2_RC_SUCCESS, (offset, d)).

(** ** The wire format *)

Definition spec_pcr : spec T :=
  {| s_wf := fun x => in_range UINT8 (mget sizeofSelect x) /\
       Zlen (mget pcrSelect x) = TPM2_PCR_SELECT_MAX /\ bytes_ok (mget pcrSelect x);
     s_dom := fun _ => True;
     s_wire := fun x => if mget sizeofSelect x <=? TPM2_PCR_SELECT_MAX
       then Some (be_bytes 1 (mget sizeofSelect x) ++
                  take (Z.to_nat (mget sizeofSelect x)) (mget pcrSelect x)) else None;
     s_eqv := fun x y => mget sizeofSelect x = mget sizeofSelect y /\
       take (Z.to_nat (mget sizeofSelect x)) (mget pcrSelect x) =
       take (Z.to_nat (mget sizeofSelect y)) (mget pcrSelect y);
     s_max := 1 + TPM2_PCR_SELECT_MAX |}.

Lemma u8_bound z : in_range UINT8 z -> 0 <= z < 256.
Proof. done. Qed.

#[export] Instance spec_pcr_ok : SpecOk spec_pcr.
Proof.
  split; simpl.
  - intros x w (_&_&B) E. case_test; some_inv.
    apply Forall_app. split; [apply be_bytes_ok|by apply Forall_take].
  - intros x w (R%u8_bound&L&B) E. case_test; some_inv. rewrite Zlen_app, Zlen_be_bytes.
    unfold Zlen in *. rewrite length_take. lia.
  - done.
  - done.
  - intros x y [E1 E2]. by split.
  - intros x y z [-> ->] [-> ->]. done.
  - intros x y [-> ->]. done.
Qed.

#[export] Instance stable_pcr {F} (m : member T F) :
  Apart m (mget sizeofSelect) -> Apart m (mget pcrSelect) -> Stable (upd m) spec_pcr.
Proof.
  intros A B. split; intros d d' [->|[v ->]]; simpl; rewrite ?A, ?B; auto.
Qed.

(** The image of bytes is the bytes. *)
#[local] Transparent be_bytes.
Lemma be_bytes_1 v : is_byte v -> be_bytes 1 v = [v].
Proof. intros. unfold be_bytes. simpl. by rewrite Z.mod_small. Qed.
#[local] Opaque be_bytes.

Lemma wires_byte l : bytes_ok l -> wires (spec_int UINT8) l = Some l.
Proof.
  induction 1 as [|v l Hv _ IH]; [done|]. cbn [wires s_wire spec_int].
  rewrite to_unsigned_small by done. change (csize UINT8) with 1%nat.
  by rewrite be_bytes_1, IH.
Qed.

Lemma byte_wf l : bytes_ok l -> Forall (s_wf (spec_int UINT8)) l.
Proof. by intros. Qed.

(** ** Marshal *)

Section Marshal.
Context (first : T -> mstep) (s1 : spec T) `{!SpecOk s1} (c : bool).
Context (Hfirst : marshal_ok_gen c first s1).

Definition spec_body : spec T :=
  spec_app s1 (spec_app (spec_on (mget sizeofSelect) (spec_int UINT8))
    (spec_app (Spec (s_wf spec_pcr) (fun x => mget sizeofSelect x <= TPM2_PCR_SELECT_MAX)
       (fun x => Some (take (Z.to_nat (mget sizeofSelect x)) (mget pcrSelect x)))
       (s_eqv spec_pcr) 4) spec_unit)).

Lemma pcr_body_ok :
  marshal_ok_gen false
    (marshal_seq [first; mfield sizeofSelect Tss2_MU_UINT8_Marshal; pcr_bytes]) spec_body.
Proof.
  apply marshal_seq_ok. eapply msteps_cons; [apply so_bytes|exact Hfirst|].
  eapply msteps_cons; [apply so_bytes|apply mfield_ok, BASE_MARSHAL_ok; ctype|].
  apply (msteps_cons false); [| |apply msteps_nil].
  { intros x w (_&_&B) E. simpl in E. some_inv. by apply Forall_take. }
  intros x (R%u8_bound&L&B) D.
  simpl in D. set (n := Z.to_nat (mget sizeofSelect x)).
  assert (Hn : (n <= length (mget pcrSelect x))%nat) by (unfold Zlen in L; lia).
  assert (Bn : bytes_ok (take n (mget pcrSelect x))) by by apply Forall_take.
  pose proof (marshal_seq_ok _ _ (elem_calls_ok (spec_int UINT8) true Tss2_MU_BYTE_Marshal
    (take n (mget pcrSelect x)) (BASE_MARSHAL_ok BYTE ltac:(ctype)))) as O.
  destruct (O tt) as [P N]; [by apply spec_elems_wf, byte_wf| |].
  { apply spec_elems_dom. by apply Forall_true. }
  rewrite spec_elems_wire, wires_byte in P, N by done. simpl s_wire. split.
  - intros b size lo ? ?. unfold pcr_bytes. fold n. rewrite marshal_elems_seq by done.
    by apply P.
  - intros w size lo E ? ? ?. unfold pcr_bytes. fold n. rewrite marshal_elems_seq by done.
    by apply N.
Qed.

Lemma TPMS_PCR_MARSHAL_ok :
  marshal_ok (ADDR (TPMS_PCR_MARSHAL first)) (spec_app s1 (spec_app spec_pcr spec_unit)).
Proof.
  intros x [W1 [W2 _]] [D1 _]. pose proof W2 as (R%u8_bound&L&B).
  unfold ADDR, TPMS_PCR_MARSHAL, struct_marshal. cbn [marshal_seq].
  unfold pcr_check at 1 2. destruct (TPM2_PCR_SELECT_MAX <? _) eqn:E; bool2prop.
  - assert (Ew : s_wire (spec_app s1 (spec_app spec_pcr spec_unit)) x = None).
    { simpl. rewrite (proj2 (Z.leb_gt _ _)) by done. by destruct (s_wire s1 x). }
    rewrite Ew. split; [|done]. intros b size lo ? ?. do 3 eexists. split; [done|].
    by apply marshal_fail.
  - assert (Ew : s_wire spec_body x = s_wire (spec_app s1 (spec_app spec_pcr spec_unit)) x).
    { cbn [s_wire spec_body spec_app spec_on spec_int spec_unit spec_pcr].
      rewrite to_unsigned_small by done. rewrite (proj2 (Z.leb_le _ _)) by done.
      destruct (s_wire s1 x); simpl; [|done]. by rewrite !app_nil_r. }
    destruct (pcr_body_ok x) as [P N]; [done|done|]. rewrite <-Ew. simpl negb. cbv iota.
    cbn [marshal_seq] in P, N. split.
    + intros b size lo ? ?. simpl default.
      destruct (P b size lo) as (rc&b'&lo'&->&[Po|Po]); [done..| |].
      * pose proof Po as (?&_&_&->&_). do 3 eexists. split; [done|]. by left.
      * destruct Po as (Hrc&_&Po). rewrite (proj2 (Z.eqb_neq _ _) Hrc).
        do 3 eexists. split; [done|]. by right.
    + intros w size lo E' ? ? ?. simpl default. by rewrite (N w).
Qed.
End Marshal.

(** ** Unmarshal *)

Definition upd_pcr : T -> T -> Prop := rcomp (upd sizeofSelect) (upd pcrSelect).

Context `{!MemberOk sizeofSelect, !MemberOk pcrSelect}.
Context `{!Apart sizeofSelect (mget pcrSelect), !Apart pcrSelect (mget sizeofSelect)}.

Lemma reads_u8 b lo v n w :
  in_range UINT8 v -> in_range UINT8 n -> reads b lo (be_bytes 1 v) ->
  reads b lo (be_bytes 1 n ++ w) -> v = n.
Proof.
  intros Hv Hn R1 R2. apply reads_split in R2 as [R2 _].
  assert (Ne : forall z, be_bytes 1 z <> []) by (intros z; apply (be_bytes_ne UINT8); ctype).
  destruct R1 as [R1|R1]; [by apply Ne in R1|]. destruct R2 as [R2|R2]; [by apply Ne in R2|].
  rewrite !Zlen_be_bytes in *. rewrite R1 in R2.
  apply (inj Some), (f_equal be_value) in R2. by rewrite !be_value_be_bytes in R2 by done.
Qed.

Lemma pcr_select_ok : ustep_ok pcr_select (fun _ _ => True) upd_pcr spec_pcr.
Proof.
  intros b size lo d Hb Hs Hlo (Ws&L&B).
  pose proof (ufield_tmp_ok true sizeofSelect Tss2_MU_UINT8_Unmarshal (spec_int UINT8)
    (BASE_UNMARSHAL_ok UINT8 ltac:(ctype))) as U8.
  destruct (U8 b size lo d) as (rc&lo1&d1&E1&M1&W1&P1&_&R1); [done..|].
  cbn [s_wf spec_on spec_int] in W1.
  assert (A1 : mget pcrSelect d1 = mget pcrSelect d).
  { destruct M1 as [->|[v ->]]; [done|]. apply apart. }
  assert (Wd1 : s_wf spec_pcr d1) by (simpl; by rewrite A1).
  unfold pcr_select. rewrite E1. destruct (decide (rc = TSS2_RC_SUCCESS)) as [->|N].
  2: { rewrite (proj2 (Z.eqb_neq _ _) N). simpl negb. cbv iota. do 3 eexists. split; [done|].
    split; [exists d1; auto|]. split_and!; [done..|].
    intros x w (Wx&_&_) _ Ex F R. simpl in Ex. case_test; some_inv. apply reads_split in R as [R _].
    destruct (R1 x (be_bytes 1 (mget sizeofSelect x))) as [-> _]; try done.
    - simpl. by rewrite to_unsigned_small.
    - by eapply fits_app_l. }
  simpl negb. cbv iota. destruct P1 as (w1&Ew1&F1&->&Rd1); [done|].
  cbn [s_wire spec_on spec_int] in Ew1. rewrite to_unsigned_small in Ew1 by done. some_inv.
  change (csize UINT8) with 1%nat in *. rewrite Zlen_be_bytes in *. set (v := mget sizeofSelect d1) in *.
  case_test.
  { do 3 eexists. split; [done|]. split; [exists d1; auto|]. split_and!; [done..|].
    intros x w (Wx&_&_) _ Ex F R. simpl in Ex. case_test; some_inv.
    pose proof (reads_u8 _ _ _ _ _ W1 Wx Rd1 R). lia. }
  apply u8_bound in W1 as Hv. rewrite A1.
  destruct (unmarshal_elems_ok (spec_int UINT8) Tss2_MU_UINT8_Unmarshal (Z.to_nat v)
    (mget pcrSelect d) b size (lo + 1)) as (rc&lo'&es&E2&Wes&Les&P2&R2);
    [apply BASE_UNMARSHAL_ok; ctype|done|done|lia|by apply byte_wf|unfold Zlen in L; lia|].
  change (Z.of_nat 1) with 1. rewrite E2. do 3 eexists. split; [done|].
  split; [exists d1; split; [done|right; right; by eexists]|].
  assert (Bes : bytes_ok es) by done.
  assert (Gs : mget sizeofSelect (mset pcrSelect es d1) = v) by apply apart.
  assert (Gp : mget pcrSelect (mset pcrSelect es d1) = es) by apply get_set.
  split; [|split; [|split; [done|]]]; cbn [s_wf s_wire s_eqv spec_pcr]; rewrite Gs, Gp.
  - split; [done|]. split; [|done]. unfold Zlen in *. lia.
  - intros Hrc. destruct (P2 Hrc) as (w2&Ew2&F2&->&Rd2).
    rewrite wires_byte in Ew2 by by apply Forall_take. some_inv.
    rewrite (proj2 (Z.leb_le _ _)) by done. eexists. split; [done|].
    rewrite Zlen_app, Zlen_be_bytes. split_and!; [|lia|].
    + apply fits_app; [done|by rewrite Zlen_be_bytes].
    + apply reads_app; [done|by rewrite Zlen_be_bytes].
  - intros x w (Wx&Lx&Bx) _ Ex F R. case_test; some_inv.
    pose proof (reads_u8 _ _ _ _ _ W1 Wx Rd1 R) as Ev. apply u8_bound in Wx.
    apply reads_split in R as [_ R]. apply fits_app_r in F. rewrite Zlen_be_bytes in *.
    destruct (R2 (take (Z.to_nat (mget sizeofSelect x)) (mget pcrSelect x))
      (take (Z.to_nat (mget sizeofSelect x)) (mget pcrSelect x))) as [-> Q]; try done.
    + rewrite length_take. unfold Zlen in Lx. lia.
    + by apply byte_wf, Forall_take.
    + by apply wires_byte, Forall_take.
    + split; [done|]. split; [done|]. by apply list_eq_Forall2 in Q.
Qed.

Lemma pcr_codec_ok zero first ufirst (s1 : spec T) md1 `{!SpecOk s1} c :
  marshal_ok_gen c first s1 -> ustep_ok ufirst (fun _ _ => True) md1 s1 ->
  Stable md1 spec_pcr -> Stable upd_pcr s1 -> s_wf s1 zero -> s_wf spec_pcr zero ->
  codec_ok (ADDR (TPMS_PCR_MARSHAL first)) (TPMS_PCR_UNMARSHAL zero ufirst)
    (spec_app s1 (spec_app spec_pcr spec_unit)).
Proof.
  intros Hm Hu S1 S2 Z1 Z2. split; [apply _|by eapply TPMS_PCR_MARSHAL_ok|].
  apply (struct_unmarshal_ok zero true _ (rcomp md1 (rcomp upd_pcr eq))); [|done].
  eapply steps_cons; [done| |done|apply _..].
  eapply steps_cons; [apply pcr_select_ok|apply steps_nil|done|apply _..].
Qed.

Lemma no_field_ok : marshal_ok no_field (@spec_unit T).
Proof.
  intros x _ _. split.
  - intros b size lo ? ?. do 3 eexists. split; [done|]. left. exists [].
    rewrite (Zlen_nil (A:=Z)), Z.add_0_r. split_and!; try done; by left.
  - intros w size lo E ? ? ?. simpl in *. some_inv. by rewrite (Zlen_nil (A:=Z)), Z.add_0_r.
Qed.

Lemma no_ufield_ok : ustep_ok no_ufield (fun _ _ => True) eq (@spec_unit T).
Proof.
  intros b size lo d ? ? ? _. do 3 eexists. split; [done|]. split; [done|].
  split; [done|]. split; [|done]. intros _. exists [].
  rewrite (Zlen_nil (A:=Z)), Z.add_0_r. split_and!; try done; by left.
Qed.
End Pcr.
