(* ===== verification/TpmTypes.v ===== *)
(** * The TPM 2.0 data types: [include/tss2/tss2_tpm2_types.h].

    Structures are records, with a [member] per field; unions are modelled as
    [MuUnion] says.  [layout] computes the [sizeof] the header's array bounds
    refer to, with the alignment rules of the usual C ABIs.  [cap_T] is the
    number of elements of the array of [T], [zero_T] the all-zero object. *)

From S2P Require Import Prelude Common MuSpec MuBase MuStruct MuTpm2b MuUnion MuPcr.

(** ** sizeof *)

Record layout := Layout { lsize : Z; lalign : Z }.

Definition round_up (n a : Z) : Z := (n + a - 1) / a * a.
Definition lay_int (n : Z) : layout := Layout n n.
Definition lay_array (n : Z) (l : layout) : layout := Layout (n * lsize l) (lalign l).
Definition lay_struct (ls : list layout) : layout :=
  let '(sz, al) := foldl (fun '(sz, al) l =>
    (round_up sz (lalign l) + lsize l, Z.max al (lalign l))) (0, 1) ls in
  Layout (round_up sz al) al.
Definition lay_union (ls : list layout) : layout :=
  let '(sz, al) := foldl (fun '(sz, al) l =>
    (Z.max sz (lsize l), Z.max al (lalign l))) (0, 1) ls in
  Layout (round_up sz al) al.

(** ** Types *)

Record TPMS_PCR_SELECT := Mk_TPMS_PCR_SELECT {
  TPMS_PCR_SELECT_sizeofSelect : Z;
  TPMS_PCR_SELECT_pcrSelect : bytes }.
Definition TPMS_PCR_SELECT'sizeofSelect :=
  Member TPMS_PCR_SELECT_sizeofSelect (fun v d => Mk_TPMS_PCR_SELECT v
    (TPMS_PCR_SELECT_pcrSelect d)).
Definition TPMS_PCR_SELECT'pcrSelect :=
  Member TPMS_PCR_SELECT_pcrSelect (fun v d => Mk_TPMS_PCR_SELECT (TPMS_PCR_SELECT_sizeofSelect d)
    v).
Definition zero_TPMS_PCR_SELECT := Mk_TPMS_PCR_SELECT 0
    (replicate (Z.to_nat TPM2_PCR_SELECT_MAX) 0).

Record TPMS_PCR_SELECTION := Mk_TPMS_PCR_SELECTION {
  TPMS_PCR_SELECTION_hash : Z;
  TPMS_PCR_SELECTION_sizeofSelect : Z;
  TPMS_PCR_SELECTION_pcrSelect : bytes }.
Definition TPMS_PCR_SELECTION'hash :=
  Member TPMS_PCR_SELECTION_hash (fun v d => Mk_TPMS_PCR_SELECTION v
    (TPMS_PCR_SELECTION_sizeofSelect d) (TPMS_PCR_SELECTION_pcrSelect d)).
Definition TPMS_PCR_SELECTION'sizeofSelect :=
  Member TPMS_PCR_SELECTION_sizeofSelect (fun v d => Mk_TPMS_PCR_SELECTION (TPMS_PCR_SELECTION_hash d)
    v (TPMS_PCR_SELECTION_pcrSelect d)).
Definition TPMS_PCR_SELECTION'pcrSelect :=
  Member TPMS_PCR_SELECTION_pcrSelect (fun v d => Mk_TPMS_PCR_SELECTION (TPMS_PCR_SELECTION_hash d)
    (TPMS_PCR_SELECTION_sizeofSelect d) v).
Definition zero_TPMS_PCR_SELECTION := Mk_TPMS_PCR_SELECTION 0 0
    (replicate (Z.to_nat TPM2_PCR_SELECT_MAX) 0).

Record TPMS_TAGGED_PCR_SELECT := Mk_TPMS_TAGGED_PCR_SELECT {
  TPMS_TAGGED_PCR_SELECT_tag : Z;
  TPMS_TAGGED_PCR_SELECT_sizeofSelect : Z;
  TPMS_TAGGED_PCR_SELECT_pcrSelect : bytes }.
Definition TPMS_TAGGED_PCR_SELECT'tag :=
  Member TPMS_TAGGED_PCR_SELECT_tag (fun v d => Mk_TPMS_TAGGED_PCR_SELECT v
    (TPMS_TAGGED_PCR_SELECT_sizeofSelect d) (TPMS_TAGGED_PCR_SELECT_pcrSelect d)).
Definition TPMS_TAGGED_PCR_SELECT'sizeofSelect :=
  Member TPMS_TAGGED_PCR_SELECT_sizeofSelect (fun v d => Mk_TPMS_TAGGED_PCR_SELECT (TPMS_TAGGED_PCR_SELECT_tag d)
    v (TPMS_TAGGED_PCR_SELECT_pcrSelect d)).
Definition TPMS_TAGGED_PCR_SELECT'pcrSelect :=
  Member TPMS_TAGGED_PCR_SELECT_pcrSelect (fun v d => Mk_TPMS_TAGGED_PCR_SELECT (TPMS_TAGGED_PCR_SELECT_tag d)
    (TPMS_TAGGED_PCR_SELECT_sizeofSelect d) v).
Definition zero_TPMS_TAGGED_PCR_SELECT := Mk_TPMS_TAGGED_PCR_SELECT 0 0
    (replicate (Z.to_nat TPM2_PCR_SELECT_MAX) 0).

Record TPMS_ALG_PROPERTY := Mk_TPMS_ALG_PROPERTY {
  TPMS_ALG_PROPERTY_alg : Z;
  TPMS_ALG_PROPERTY_algProperties : Z }.
Definition TPMS_ALG_PROPERTY'alg :=
  Member TPMS_ALG_PROPERTY_alg (fun v d => Mk_TPMS_ALG_PROPERTY v
    (TPMS_ALG_PROPERTY_algProperties d)).
Definition TPMS_ALG_PROPERTY'algProperties :=
  Member TPMS_ALG_PROPERTY_algProperties (fun v d => Mk_TPMS_ALG_PROPERTY (TPMS_ALG_PROPERTY_alg d)
    v).
Definition zero_TPMS_ALG_PROPERTY := Mk_TPMS_ALG_PROPERTY 0 0.

Record TPMS_TAGGED_PROPERTY := Mk_TPMS_TAGGED_PROPERTY {
  TPMS_TAGGED_PROPERTY_property : Z;
  TPMS_TAGGED_PROPERTY_value : Z }.
Definition TPMS_TAGGED_PROPERTY'property :=
  Member TPMS_TAGGED_PROPERTY_property (fun v d => Mk_TPMS_TAGGED_PROPERTY v
    (TPMS_TAGGED_PROPERTY_value d)).
Definition TPMS_TAGGED_PROPERTY'value :=
  Member TPMS_TAGGED_PROPERTY_value (fun v d => Mk_TPMS_TAGGED_PROPERTY (TPMS_TAGGED_PROPERTY_property d)
    v).
Definition zero_TPMS_TAGGED_PROPERTY := Mk_TPMS_TAGGED_PROPERTY 0 0.
Definition TPM2_SHA_DIGEST_SIZE := 20.
Definition TPM2_SHA1_DIGEST_SIZE := 20.
Definition TPM2_SHA256_DIGEST_SIZE := 32.
Definition TPM2_SHA384_DIGEST_SIZE := 48.
Definition TPM2_SHA512_DIGEST_SIZE := 64.
Definition TPM2_SM3_256_DIGEST_SIZE := 32.
Definition lay_TPMU_HA := lay_union [lay_array TPM2_SHA_DIGEST_SIZE (lay_int 1);
    lay_array TPM2_SHA1_DIGEST_SIZE (lay_int 1); lay_array TPM2_SHA256_DIGEST_SIZE (lay_int 1);
    lay_array TPM2_SHA384_DIGEST_SIZE (lay_int 1);
    lay_array TPM2_SHA512_DIGEST_SIZE (lay_int 1);
    lay_array TPM2_SM3_256_DIGEST_SIZE (lay_int 1)].

Record TPMT_HA := Mk_TPMT_HA {
  TPMT_HA_hashAlg : Z;
  TPMT_HA_digest : bytes }.
Definition TPMT_HA'hashAlg :=
  Member TPMT_HA_hashAlg (fun v d => Mk_TPMT_HA v (TPMT_HA_digest d)).
Definition TPMT_HA'digest :=
  Member TPMT_HA_digest (fun v d => Mk_TPMT_HA (TPMT_HA_hashAlg d) v).
Definition zero_TPMT_HA := Mk_TPMT_HA 0 (replicate (Z.to_nat (lsize lay_TPMU_HA)) 0).

Record TPMS_TAGGED_POLICY := Mk_TPMS_TAGGED_POLICY {
  TPMS_TAGGED_POLICY_handle : Z;
  TPMS_TAGGED_POLICY_policyHash : TPMT_HA }.
Definition TPMS_TAGGED_POLICY'handle :=
  Member TPMS_TAGGED_POLICY_handle (fun v d => Mk_TPMS_TAGGED_POLICY v
    (TPMS_TAGGED_POLICY_policyHash d)).
Definition TPMS_TAGGED_POLICY'policyHash :=
  Member TPMS_TAGGED_POLICY_policyHash (fun v d => Mk_TPMS_TAGGED_POLICY (TPMS_TAGGED_POLICY_handle d)
    v).
Definition zero_TPMS_TAGGED_POLICY := Mk_TPMS_TAGGED_POLICY 0 zero_TPMT_HA.

Record TPMS_CLOCK_INFO := Mk_TPMS_CLOCK_INFO {
  TPMS_CLOCK_INFO_clock : Z;
  TPMS_CLOCK_INFO_resetCount : Z;
  TPMS_CLOCK_INFO_restartCount : Z;
  TPMS_CLOCK_INFO_safe : Z }.
Definition TPMS_CLOCK_INFO'clock :=
  Member TPMS_CLOCK_INFO_clock (fun v d => Mk_TPMS_CLOCK_INFO v (TPMS_CLOCK_INFO_resetCount d)
    (TPMS_CLOCK_INFO_restartCount d) (TPMS_CLOCK_INFO_safe d)).
Definition TPMS_CLOCK_INFO'resetCount :=
  Member TPMS_CLOCK_INFO_resetCount (fun v d => Mk_TPMS_CLOCK_INFO (TPMS_CLOCK_INFO_clock d) v
    (TPMS_CLOCK_INFO_restartCount d) (TPMS_CLOCK_INFO_safe d)).
Definition TPMS_CLOCK_INFO'restartCount :=
  Member TPMS_CLOCK_INFO_restartCount (fun v d => Mk_TPMS_CLOCK_INFO (TPMS_CLOCK_INFO_clock d)
    (TPMS_CLOCK_INFO_resetCount d) v (TPMS_CLOCK_INFO_safe d)).
Definition TPMS_CLOCK_INFO'safe :=
  Member TPMS_CLOCK_INFO_safe (fun v d => Mk_TPMS_CLOCK_INFO (TPMS_CLOCK_INFO_clock d)
    (TPMS_CLOCK_INFO_resetCount d) (TPMS_CLOCK_INFO_restartCount d) v).
Definition zero_TPMS_CLOCK_INFO := Mk_TPMS_CLOCK_INFO 0 0 0 0.

Record TPMS_TIME_INFO := Mk_TPMS_TIME_INFO {
  TPMS_TIME_INFO_time : Z;
  TPMS_TIME_INFO_clockInfo : TPMS_CLOCK_INFO }.
Definition TPMS_TIME_INFO'time :=
  Member TPMS_TIME_INFO_time (fun v d => Mk_TPMS_TIME_INFO v (TPMS_TIME_INFO_clockInfo d)).
Definition TPMS_TIME_INFO'clockInfo :=
  Member TPMS_TIME_INFO_clockInfo (fun v d => Mk_TPMS_TIME_INFO (TPMS_TIME_INFO_time d) v).
Definition zero_TPMS_TIME_INFO := Mk_TPMS_TIME_INFO 0 zero_TPMS_CLOCK_INFO.

Record TPMS_TIME_ATTEST_INFO := Mk_TPMS_TIME_ATTEST_INFO {
  TPMS_TIME_ATTEST_INFO_time : TPMS_TIME_INFO;
  TPMS_TIME_ATTEST_INFO_firmwareVersion : Z }.
Definition TPMS_TIME_ATTEST_INFO'time :=
  Member TPMS_TIME_ATTEST_INFO_time (fun v d => Mk_TPMS_TIME_ATTEST_INFO v
    (TPMS_TIME_ATTEST_INFO_firmwareVersion d)).
Definition TPMS_TIME_ATTEST_INFO'firmwareVersion :=
  Member TPMS_TIME_ATTEST_INFO_firmwareVersion (fun v d => Mk_TPMS_TIME_ATTEST_INFO (TPMS_TIME_ATTEST_INFO_time d)
    v).
Definition zero_TPMS_TIME_ATTEST_INFO := Mk_TPMS_TIME_ATTEST_INFO zero_TPMS_TIME_INFO 0.
Definition lay_TPMT_HA := lay_struct [lay_int 2; lay_TPMU_HA].
Definition lay_TPMU_NAME := lay_union [lay_TPMT_HA; lay_int 4].
Definition cap_TPM2B_NAME := (lsize lay_TPMU_NAME).

Record TPMS_CERTIFY_INFO := Mk_TPMS_CERTIFY_INFO {
  TPMS_CERTIFY_INFO_name : TPM2B;
  TPMS_CERTIFY_INFO_qualifiedName : TPM2B }.
Definition TPMS_CERTIFY_INFO'name :=
  Member TPMS_CERTIFY_INFO_name (fun v d => Mk_TPMS_CERTIFY_INFO v
    (TPMS_CERTIFY_INFO_qualifiedName d)).
Definition TPMS_CERTIFY_INFO'qualifiedName :=
  Member TPMS_CERTIFY_INFO_qualifiedName (fun v d => Mk_TPMS_CERTIFY_INFO (TPMS_CERTIFY_INFO_name d)
    v).
Definition zero_TPMS_CERTIFY_INFO := Mk_TPMS_CERTIFY_INFO (zero_2b cap_TPM2B_NAME)
    (zero_2b cap_TPM2B_NAME).
Definition cap_TPM2B_DIGEST := (lsize lay_TPMU_HA).

Record TPMS_COMMAND_AUDIT_INFO := Mk_TPMS_COMMAND_AUDIT_INFO {
  TPMS_COMMAND_AUDIT_INFO_auditCounter : Z;
  TPMS_COMMAND_AUDIT_INFO_digestAlg : Z;
  TPMS_COMMAND_AUDIT_INFO_auditDigest : TPM2B;
  TPMS_COMMAND_AUDIT_INFO_commandDigest : TPM2B }.
Definition TPMS_COMMAND_AUDIT_INFO'auditCounter :=
  Member TPMS_COMMAND_AUDIT_INFO_auditCounter (fun v d => Mk_TPMS_COMMAND_AUDIT_INFO v
    (TPMS_COMMAND_AUDIT_INFO_digestAlg d) (TPMS_COMMAND_AUDIT_INFO_auditDigest d)
    (TPMS_COMMAND_AUDIT_INFO_commandDigest d)).
Definition TPMS_COMMAND_AUDIT_INFO'digestAlg :=
  Member TPMS_COMMAND_AUDIT_INFO_digestAlg (fun v d => Mk_TPMS_COMMAND_AUDIT_INFO (TPMS_COMMAND_AUDIT_INFO_auditCounter d)
    v (TPMS_COMMAND_AUDIT_INFO_auditDigest d) (TPMS_COMMAND_AUDIT_INFO_commandDigest d)).
Definition TPMS_COMMAND_AUDIT_INFO'auditDigest :=
  Member TPMS_COMMAND_AUDIT_INFO_auditDigest (fun v d => Mk_TPMS_COMMAND_AUDIT_INFO (TPMS_COMMAND_AUDIT_INFO_auditCounter d)
    (TPMS_COMMAND_AUDIT_INFO_digestAlg d) v (TPMS_COMMAND_AUDIT_INFO_commandDigest d)).
Definition TPMS_COMMAND_AUDIT_INFO'commandDigest :=
  Member TPMS_COMMAND_AUDIT_INFO_commandDigest (fun v d => Mk_TPMS_COMMAND_AUDIT_INFO (TPMS_COMMAND_AUDIT_INFO_auditCounter d)
    (TPMS_COMMAND_AUDIT_INFO_digestAlg d) (TPMS_COMMAND_AUDIT_INFO_auditDigest d) v).
Definition zero_TPMS_COMMAND_AUDIT_INFO := Mk_TPMS_COMMAND_AUDIT_INFO 0 0
    (zero_2b cap_TPM2B_DIGEST) (zero_2b cap_TPM2B_DIGEST).

Record TPMS_SESSION_AUDIT_INFO := Mk_TPMS_SESSION_AUDIT_INFO {
  TPMS_SESSION_AUDIT_INFO_exclusiveSession : Z;
  TPMS_SESSION_AUDIT_INFO_sessionDigest : TPM2B }.
Definition TPMS_SESSION_AUDIT_INFO'exclusiveSession :=
  Member TPMS_SESSION_AUDIT_INFO_exclusiveSession (fun v d => Mk_TPMS_SESSION_AUDIT_INFO v
    (TPMS_SESSION_AUDIT_INFO_sessionDigest d)).
Definition TPMS_SESSION_AUDIT_INFO'sessionDigest :=
  Member TPMS_SESSION_AUDIT_INFO_sessionDigest (fun v d => Mk_TPMS_SESSION_AUDIT_INFO (TPMS_SESSION_AUDIT_INFO_exclusiveSession d)
    v).
Definition zero_TPMS_SESSION_AUDIT_INFO := Mk_TPMS_SESSION_AUDIT_INFO 0
    (zero_2b cap_TPM2B_DIGEST).

Record TPMS_CREATION_INFO := Mk_TPMS_CREATION_INFO {
  TPMS_CREATION_INFO_objectName : TPM2B;
  TPMS_CREATION_INFO_creationHash : TPM2B }.
Definition TPMS_CREATION_INFO'objectName :=
  Member TPMS_CREATION_INFO_objectName (fun v d => Mk_TPMS_CREATION_INFO v
    (TPMS_CREATION_INFO_creationHash d)).
Definition TPMS_CREATION_INFO'creationHash :=
  Member TPMS_CREATION_INFO_creationHash (fun v d => Mk_TPMS_CREATION_INFO (TPMS_CREATION_INFO_objectName d)
    v).
Definition zero_TPMS_CREATION_INFO := Mk_TPMS_CREATION_INFO (zero_2b cap_TPM2B_NAME)
    (zero_2b cap_TPM2B_DIGEST).
Definition TPM2_MAX_NV_BUFFER_SIZE := 2048.
Definition cap_TPM2B_MAX_NV_BUFFER := TPM2_MAX_NV_BUFFER_SIZE.

Record TPMS_NV_CERTIFY_INFO := Mk_TPMS_NV_CERTIFY_INFO {
  TPMS_NV_CERTIFY_INFO_indexName : TPM2B;
  TPMS_NV_CERTIFY_INFO_offset : Z;
  TPMS_NV_CERTIFY_INFO_nvContents : TPM2B }.
Definition TPMS_NV_CERTIFY_INFO'indexName :=
  Member TPMS_NV_CERTIFY_INFO_indexName (fun v d => Mk_TPMS_NV_CERTIFY_INFO v
    (TPMS_NV_CERTIFY_INFO_offset d) (TPMS_NV_CERTIFY_INFO_nvContents d)).
Definition TPMS_NV_CERTIFY_INFO'offset :=
  Member TPMS_NV_CERTIFY_INFO_offset (fun v d => Mk_TPMS_NV_CERTIFY_INFO (TPMS_NV_CERTIFY_INFO_indexName d)
    v (TPMS_NV_CERTIFY_INFO_nvContents d)).
Definition TPMS_NV_CERTIFY_INFO'nvContents :=
  Member TPMS_NV_CERTIFY_INFO_nvContents (fun v d => Mk_TPMS_NV_CERTIFY_INFO (TPMS_NV_CERTIFY_INFO_indexName d)
    (TPMS_NV_CERTIFY_INFO_offset d) v).
Definition zero_TPMS_NV_CERTIFY_INFO := Mk_TPMS_NV_CERTIFY_INFO (zero_2b cap_TPM2B_NAME) 0
    (zero_2b cap_TPM2B_MAX_NV_BUFFER).

Record TPMS_AUTH_COMMAND := Mk_TPMS_AUTH_COMMAND {
  TPMS_AUTH_COMMAND_sessionHandle : Z;
  TPMS_AUTH_COMMAND_nonce : TPM2B;
  TPMS_AUTH_COMMAND_sessionAttributes : Z;
  TPMS_AUTH_COMMAND_hmac : TPM2B }.
Definition TPMS_AUTH_COMMAND'sessionHandle :=
  Member TPMS_AUTH_COMMAND_sessionHandle (fun v d => Mk_TPMS_AUTH_COMMAND v
    (TPMS_AUTH_COMMAND_nonce d) (TPMS_AUTH_COMMAND_sessionAttributes d)
    (TPMS_AUTH_COMMAND_hmac d)).
Definition TPMS_AUTH_COMMAND'nonce :=
  Member TPMS_AUTH_COMMAND_nonce (fun v d => Mk_TPMS_AUTH_COMMAND (TPMS_AUTH_COMMAND_sessionHandle d)
    v (TPMS_AUTH_COMMAND_sessionAttributes d) (TPMS_AUTH_COMMAND_hmac d)).
Definition TPMS_AUTH_COMMAND'sessionAttributes :=
  Member TPMS_AUTH_COMMAND_sessionAttributes (fun v d => Mk_TPMS_AUTH_COMMAND (TPMS_AUTH_COMMAND_sessionHandle d)
    (TPMS_AUTH_COMMAND_nonce d) v (TPMS_AUTH_COMMAND_hmac d)).
Definition TPMS_AUTH_COMMAND'hmac :=
  Member TPMS_AUTH_COMMAND_hmac (fun v d => Mk_TPMS_AUTH_COMMAND (TPMS_AUTH_COMMAND_sessionHandle d)
    (TPMS_AUTH_COMMAND_nonce d) (TPMS_AUTH_COMMAND_sessionAttributes d) v).
Definition zero_TPMS_AUTH_COMMAND := Mk_TPMS_AUTH_COMMAND 0 (zero_2b cap_TPM2B_DIGEST) 0
    (zero_2b cap_TPM2B_DIGEST).

Record TPMS_AUTH_RESPONSE := Mk_TPMS_AUTH_RESPONSE {
  TPMS_AUTH_RESPONSE_nonce : TPM2B;
  TPMS_AUTH_RESPONSE_sessionAttributes : Z;
  TPMS_AUTH_RESPONSE_hmac : TPM2B }.
Definition TPMS_AUTH_RESPONSE'nonce :=
  Member TPMS_AUTH_RESPONSE_nonce (fun v d => Mk_TPMS_AUTH_RESPONSE v
    (TPMS_AUTH_RESPONSE_sessionAttributes d) (TPMS_AUTH_RESPONSE_hmac d)).
Definition TPMS_AUTH_RESPONSE'sessionAttributes :=
  Member TPMS_AUTH_RESPONSE_sessionAttributes (fun v d => Mk_TPMS_AUTH_RESPONSE (TPMS_AUTH_RESPONSE_nonce d)
    v (TPMS_AUTH_RESPONSE_hmac d)).
Definition TPMS_AUTH_RESPONSE'hmac :=
  Member TPMS_AUTH_RESPONSE_hmac (fun v d => Mk_TPMS_AUTH_RESPONSE (TPMS_AUTH_RESPONSE_nonce d)
    (TPMS_AUTH_RESPONSE_sessionAttributes d) v).
Definition zero_TPMS_AUTH_RESPONSE := Mk_TPMS_AUTH_RESPONSE (zero_2b cap_TPM2B_DIGEST) 0
    (zero_2b cap_TPM2B_DIGEST).
Definition TPM2_MAX_SYM_DATA := 256.
Definition TPM2_LABEL_MAX_BUFFER := 32.
Definition lay_TPM2B_LABEL := lay_struct [lay_int 2; lay_array TPM2_LABEL_MAX_BUFFER (lay_int 1)].
Definition lay_TPMS_DERIVE := lay_struct [lay_TPM2B_LABEL; lay_TPM2B_LABEL].
Definition lay_TPMU_SENSITIVE_CREATE := lay_union [lay_array TPM2_MAX_SYM_DATA (lay_int 1);
    lay_TPMS_DERIVE].
Definition cap_TPM2B_SENSITIVE_DATA := (lsize lay_TPMU_SENSITIVE_CREATE).

Record TPMS_SENSITIVE_CREATE := Mk_TPMS_SENSITIVE_CREATE {
  TPMS_SENSITIVE_CREATE_userAuth : TPM2B;
  TPMS_SENSITIVE_CREATE_data : TPM2B }.
Definition TPMS_SENSITIVE_CREATE'userAuth :=
  Member TPMS_SENSITIVE_CREATE_userAuth (fun v d => Mk_TPMS_SENSITIVE_CREATE v
    (TPMS_SENSITIVE_CREATE_data d)).
Definition TPMS_SENSITIVE_CREATE'data :=
  Member TPMS_SENSITIVE_CREATE_data (fun v d => Mk_TPMS_SENSITIVE_CREATE (TPMS_SENSITIVE_CREATE_userAuth d)
    v).
Definition zero_TPMS_SENSITIVE_CREATE := Mk_TPMS_SENSITIVE_CREATE (zero_2b cap_TPM2B_DIGEST)
    (zero_2b cap_TPM2B_SENSITIVE_DATA).

Record TPMS_SCHEME_HASH := Mk_TPMS_SCHEME_HASH {
  TPMS_SCHEME_HASH_hashAlg : Z }.
Definition TPMS_SCHEME_HASH'hashAlg :=
  Member TPMS_SCHEME_HASH_hashAlg (fun v d => Mk_TPMS_SCHEME_HASH v).
Definition zero_TPMS_SCHEME_HASH := Mk_TPMS_SCHEME_HASH 0.

Record TPMS_SCHEME_ECDAA := Mk_TPMS_SCHEME_ECDAA {
  TPMS_SCHEME_ECDAA_hashAlg : Z;
  TPMS_SCHEME_ECDAA_count : Z }.
Definition TPMS_SCHEME_ECDAA'hashAlg :=
  Member TPMS_SCHEME_ECDAA_hashAlg (fun v d => Mk_TPMS_SCHEME_ECDAA v
    (TPMS_SCHEME_ECDAA_count d)).
Definition TPMS_SCHEME_ECDAA'count :=
  Member TPMS_SCHEME_ECDAA_count (fun v d => Mk_TPMS_SCHEME_ECDAA (TPMS_SCHEME_ECDAA_hashAlg d)
    v).
Definition zero_TPMS_SCHEME_ECDAA := Mk_TPMS_SCHEME_ECDAA 0 0.

Record TPMS_SCHEME_XOR := Mk_TPMS_SCHEME_XOR {
  TPMS_SCHEME_XOR_hashAlg : Z;
  TPMS_SCHEME_XOR_kdf : Z }.
Definition TPMS_SCHEME_XOR'hashAlg :=
  Member TPMS_SCHEME_XOR_hashAlg (fun v d => Mk_TPMS_SCHEME_XOR v (TPMS_SCHEME_XOR_kdf d)).
Definition TPMS_SCHEME_XOR'kdf :=
  Member TPMS_SCHEME_XOR_kdf (fun v d => Mk_TPMS_SCHEME_XOR (TPMS_SCHEME_XOR_hashAlg d) v).
Definition zero_TPMS_SCHEME_XOR := Mk_TPMS_SCHEME_XOR 0 0.
Definition TPM2_MAX_ECC_KEY_BYTES := 128.
Definition cap_TPM2B_ECC_PARAMETER := TPM2_MAX_ECC_KEY_BYTES.

Record TPMS_ECC_POINT := Mk_TPMS_ECC_POINT {
  TPMS_ECC_POINT_x : TPM2B;
  TPMS_ECC_POINT_y : TPM2B }.
Definition TPMS_ECC_POINT'x :=
  Member TPMS_ECC_POINT_x (fun v d => Mk_TPMS_ECC_POINT v (TPMS_ECC_POINT_y d)).
Definition TPMS_ECC_POINT'y :=
  Member TPMS_ECC_POINT_y (fun v d => Mk_TPMS_ECC_POINT (TPMS_ECC_POINT_x d) v).
Definition zero_TPMS_ECC_POINT := Mk_TPMS_ECC_POINT (zero_2b cap_TPM2B_ECC_PARAMETER)
    (zero_2b cap_TPM2B_ECC_PARAMETER).
Definition TPM2_MAX_RSA_KEY_BYTES := 512.
Definition cap_TPM2B_PUBLIC_KEY_RSA := TPM2_MAX_RSA_KEY_BYTES.

Record TPMS_SIGNATURE_RSA := Mk_TPMS_SIGNATURE_RSA {
  TPMS_SIGNATURE_RSA_hash : Z;
  TPMS_SIGNATURE_RSA_sig : TPM2B }.
Definition TPMS_SIGNATURE_RSA'hash :=
  Member TPMS_SIGNATURE_RSA_hash (fun v d => Mk_TPMS_SIGNATURE_RSA v (TPMS_SIGNATURE_RSA_sig d)).
Definition TPMS_SIGNATURE_RSA'sig :=
  Member TPMS_SIGNATURE_RSA_sig (fun v d => Mk_TPMS_SIGNATURE_RSA (TPMS_SIGNATURE_RSA_hash d) v).
Definition zero_TPMS_SIGNATURE_RSA := Mk_TPMS_SIGNATURE_RSA 0 (zero_2b cap_TPM2B_PUBLIC_KEY_RSA).

Record TPMS_SIGNATURE_ECC := Mk_TPMS_SIGNATURE_ECC {
  TPMS_SIGNATURE_ECC_hash : Z;
  TPMS_SIGNATURE_ECC_signatureR : TPM2B;
  TPMS_SIGNATURE_ECC_signatureS : TPM2B }.
Definition TPMS_SIGNATURE_ECC'hash :=
  Member TPMS_SIGNATURE_ECC_hash (fun v d => Mk_TPMS_SIGNATURE_ECC v
    (TPMS_SIGNATURE_ECC_signatureR d) (TPMS_SIGNATURE_ECC_signatureS d)).
Definition TPMS_SIGNATURE_ECC'signatureR :=
  Member TPMS_SIGNATURE_ECC_signatureR (fun v d => Mk_TPMS_SIGNATURE_ECC (TPMS_SIGNATURE_ECC_hash d)
    v (TPMS_SIGNATURE_ECC_signatureS d)).
Definition TPMS_SIGNATURE_ECC'signatureS :=
  Member TPMS_SIGNATURE_ECC_signatureS (fun v d => Mk_TPMS_SIGNATURE_ECC (TPMS_SIGNATURE_ECC_hash d)
    (TPMS_SIGNATURE_ECC_signatureR d) v).
Definition zero_TPMS_SIGNATURE_ECC := Mk_TPMS_SIGNATURE_ECC 0 (zero_2b cap_TPM2B_ECC_PARAMETER)
    (zero_2b cap_TPM2B_ECC_PARAMETER).

Record TPMS_NV_PIN_COUNTER_PARAMETERS := Mk_TPMS_NV_PIN_COUNTER_PARAMETERS {
  TPMS_NV_PIN_COUNTER_PARAMETERS_pinCount : Z;
  TPMS_NV_PIN_COUNTER_PARAMETERS_pinLimit : Z }.
Definition TPMS_NV_PIN_COUNTER_PARAMETERS'pinCount :=
  Member TPMS_NV_PIN_COUNTER_PARAMETERS_pinCount (fun v d => Mk_TPMS_NV_PIN_COUNTER_PARAMETERS v
    (TPMS_NV_PIN_COUNTER_PARAMETERS_pinLimit d)).
Definition TPMS_NV_PIN_COUNTER_PARAMETERS'pinLimit :=
  Member TPMS_NV_PIN_COUNTER_PARAMETERS_pinLimit (fun v d => Mk_TPMS_NV_PIN_COUNTER_PARAMETERS (TPMS_NV_PIN_COUNTER_PARAMETERS_pinCount d)
    v).
Definition zero_TPMS_NV_PIN_COUNTER_PARAMETERS := Mk_TPMS_NV_PIN_COUNTER_PARAMETERS 0 0.

Record TPMS_NV_PUBLIC := Mk_TPMS_NV_PUBLIC {
  TPMS_NV_PUBLIC_nvIndex : Z;
  TPMS_NV_PUBLIC_nameAlg : Z;
  TPMS_NV_PUBLIC_attributes : Z;
  TPMS_NV_PUBLIC_authPolicy : TPM2B;
  TPMS_NV_PUBLIC_dataSize : Z }.
Definition TPMS_NV_PUBLIC'nvIndex :=
  Member TPMS_NV_PUBLIC_nvIndex (fun v d => Mk_TPMS_NV_PUBLIC v (TPMS_NV_PUBLIC_nameAlg d)
    (TPMS_NV_PUBLIC_attributes d) (TPMS_NV_PUBLIC_authPolicy d) (TPMS_NV_PUBLIC_dataSize d)).
Definition TPMS_NV_PUBLIC'nameAlg :=
  Member TPMS_NV_PUBLIC_nameAlg (fun v d => Mk_TPMS_NV_PUBLIC (TPMS_NV_PUBLIC_nvIndex d) v
    (TPMS_NV_PUBLIC_attributes d) (TPMS_NV_PUBLIC_authPolicy d) (TPMS_NV_PUBLIC_dataSize d)).
Definition TPMS_NV_PUBLIC'attributes :=
  Member TPMS_NV_PUBLIC_attributes (fun v d => Mk_TPMS_NV_PUBLIC (TPMS_NV_PUBLIC_nvIndex d)
    (TPMS_NV_PUBLIC_nameAlg d) v (TPMS_NV_PUBLIC_authPolicy d) (TPMS_NV_PUBLIC_dataSize d)).
Definition TPMS_NV_PUBLIC'authPolicy :=
  Member TPMS_NV_PUBLIC_authPolicy (fun v d => Mk_TPMS_NV_PUBLIC (TPMS_NV_PUBLIC_nvIndex d)
    (TPMS_NV_PUBLIC_nameAlg d) (TPMS_NV_PUBLIC_attributes d) v (TPMS_NV_PUBLIC_dataSize d)).
Definition TPMS_NV_PUBLIC'dataSize :=
  Member TPMS_NV_PUBLIC_dataSize (fun v d => Mk_TPMS_NV_PUBLIC (TPMS_NV_PUBLIC_nvIndex d)
    (TPMS_NV_PUBLIC_nameAlg d) (TPMS_NV_PUBLIC_attributes d) (TPMS_NV_PUBLIC_authPolicy d) v).
Definition zero_TPMS_NV_PUBLIC := Mk_TPMS_NV_PUBLIC 0 0 0 (zero_2b cap_TPM2B_DIGEST) 0.
Definition TPM2_MAX_CONTEXT_SIZE := 5120.
Definition cap_TPM2B_CONTEXT_SENSITIVE := TPM2_MAX_CONTEXT_SIZE.

Record TPMS_CONTEXT_DATA := Mk_TPMS_CONTEXT_DATA {
  TPMS_CONTEXT_DATA_integrity : TPM2B;
  TPMS_CONTEXT_DATA_encrypted : TPM2B }.
Definition TPMS_CONTEXT_DATA'integrity :=
  Member TPMS_CONTEXT_DATA_integrity (fun v d => Mk_TPMS_CONTEXT_DATA v
    (TPMS_CONTEXT_DATA_encrypted d)).
Definition TPMS_CONTEXT_DATA'encrypted :=
  Member TPMS_CONTEXT_DATA_encrypted (fun v d => Mk_TPMS_CONTEXT_DATA (TPMS_CONTEXT_DATA_integrity d)
    v).
Definition zero_TPMS_CONTEXT_DATA := Mk_TPMS_CONTEXT_DATA (zero_2b cap_TPM2B_DIGEST)
    (zero_2b cap_TPM2B_CONTEXT_SENSITIVE).
Definition lay_TPM2B_DIGEST := lay_struct [lay_int 2; lay_array (lsize lay_TPMU_HA) (lay_int 1)].
Definition lay_TPM2B_CONTEXT_SENSITIVE := lay_struct [lay_int 2;
    lay_array TPM2_MAX_CONTEXT_SIZE (lay_int 1)].
Definition lay_TPMS_CONTEXT_DATA := lay_struct [lay_TPM2B_DIGEST; lay_TPM2B_CONTEXT_SENSITIVE].
Definition cap_TPM2B_CONTEXT_DATA := (lsize lay_TPMS_CONTEXT_DATA).

Record TPMS_CONTEXT := Mk_TPMS_CONTEXT {
  TPMS_CONTEXT_sequence : Z;
  TPMS_CONTEXT_savedHandle : Z;
  TPMS_CONTEXT_hierarchy : Z;
  TPMS_CONTEXT_contextBlob : TPM2B }.
Definition TPMS_CONTEXT'sequence :=
  Member TPMS_CONTEXT_sequence (fun v d => Mk_TPMS_CONTEXT v (TPMS_CONTEXT_savedHandle d)
    (TPMS_CONTEXT_hierarchy d) (TPMS_CONTEXT_contextBlob d)).
Definition TPMS_CONTEXT'savedHandle :=
  Member TPMS_CONTEXT_savedHandle (fun v d => Mk_TPMS_CONTEXT (TPMS_CONTEXT_sequence d) v
    (TPMS_CONTEXT_hierarchy d) (TPMS_CONTEXT_contextBlob d)).
Definition TPMS_CONTEXT'hierarchy :=
  Member TPMS_CONTEXT_hierarchy (fun v d => Mk_TPMS_CONTEXT (TPMS_CONTEXT_sequence d)
    (TPMS_CONTEXT_savedHandle d) v (TPMS_CONTEXT_contextBlob d)).
Definition TPMS_CONTEXT'contextBlob :=
  Member TPMS_CONTEXT_contextBlob (fun v d => Mk_TPMS_CONTEXT (TPMS_CONTEXT_sequence d)
    (TPMS_CONTEXT_savedHandle d) (TPMS_CONTEXT_hierarchy d) v).
Definition zero_TPMS_CONTEXT := Mk_TPMS_CONTEXT 0 0 0 (zero_2b cap_TPM2B_CONTEXT_DATA).
Definition TPM2_NUM_PCR_BANKS := 16.
Definition cap_TPML_PCR_SELECTION := TPM2_NUM_PCR_BANKS.

Record TPMS_QUOTE_INFO := Mk_TPMS_QUOTE_INFO {
  TPMS_QUOTE_INFO_pcrSelect : TPML TPMS_PCR_SELECTION;
  TPMS_QUOTE_INFO_pcrDigest : TPM2B }.
Definition TPMS_QUOTE_INFO'pcrSelect :=
  Member TPMS_QUOTE_INFO_pcrSelect (fun v d => Mk_TPMS_QUOTE_INFO v
    (TPMS_QUOTE_INFO_pcrDigest d)).
Definition TPMS_QUOTE_INFO'pcrDigest :=
  Member TPMS_QUOTE_INFO_pcrDigest (fun v d => Mk_TPMS_QUOTE_INFO (TPMS_QUOTE_INFO_pcrSelect d)
    v).
Definition zero_TPMS_QUOTE_INFO := Mk_TPMS_QUOTE_INFO (zero_tpml cap_TPML_PCR_SELECTION zero_TPMS_PCR_SELECTION)
    (zero_2b cap_TPM2B_DIGEST).
Definition cap_TPM2B_DATA := (lsize lay_TPMU_HA).

Record TPMS_CREATION_DATA := Mk_TPMS_CREATION_DATA {
  TPMS_CREATION_DATA_pcrSelect : TPML TPMS_PCR_SELECTION;
  TPMS_CREATION_DATA_pcrDigest : TPM2B;
  TPMS_CREATION_DATA_locality : Z;
  TPMS_CREATION_DATA_parentNameAlg : Z;
  TPMS_CREATION_DATA_parentName : TPM2B;
  TPMS_CREATION_DATA_parentQualifiedName : TPM2B;
  TPMS_CREATION_DATA_outsideInfo : TPM2B }.
Definition TPMS_CREATION_DATA'pcrSelect :=
  Member TPMS_CREATION_DATA_pcrSelect (fun v d => Mk_TPMS_CREATION_DATA v
    (TPMS_CREATION_DATA_pcrDigest d) (TPMS_CREATION_DATA_locality d)
    (TPMS_CREATION_DATA_parentNameAlg d) (TPMS_CREATION_DATA_parentName d)
    (TPMS_CREATION_DATA_parentQualifiedName d) (TPMS_CREATION_DATA_outsideInfo d)).
Definition TPMS_CREATION_DATA'pcrDigest :=
  Member TPMS_CREATION_DATA_pcrDigest (fun v d => Mk_TPMS_CREATION_DATA (TPMS_CREATION_DATA_pcrSelect d)
    v (TPMS_CREATION_DATA_locality d) (TPMS_CREATION_DATA_parentNameAlg d)
    (TPMS_CREATION_DATA_parentName d) (TPMS_CREATION_DATA_parentQualifiedName d)
    (TPMS_CREATION_DATA_outsideInfo d)).
Definition TPMS_CREATION_DATA'locality :=
  Member TPMS_CREATION_DATA_locality (fun v d => Mk_TPMS_CREATION_DATA (TPMS_CREATION_DATA_pcrSelect d)
    (TPMS_CREATION_DATA_pcrDigest d) v (TPMS_CREATION_DATA_parentNameAlg d)
    (TPMS_CREATION_DATA_parentName d) (TPMS_CREATION_DATA_parentQualifiedName d)
    (TPMS_CREATION_DATA_outsideInfo d)).
Definition TPMS_CREATION_DATA'parentNameAlg :=
  Member TPMS_CREATION_DATA_parentNameAlg (fun v d => Mk_TPMS_CREATION_DATA (TPMS_CREATION_DATA_pcrSelect d)
    (TPMS_CREATION_DATA_pcrDigest d) (TPMS_CREATION_DATA_locality d) v
    (TPMS_CREATION_DATA_parentName d) (TPMS_CREATION_DATA_parentQualifiedName d)
    (TPMS_CREATION_DATA_outsideInfo d)).
Definition TPMS_CREATION_DATA'parentName :=
  Member TPMS_CREATION_DATA_parentName (fun v d => Mk_TPMS_CREATION_DATA (TPMS_CREATION_DATA_pcrSelect d)
    (TPMS_CREATION_DATA_pcrDigest d) (TPMS_CREATION_DATA_locality d)
    (TPMS_CREATION_DATA_parentNameAlg d) v (TPMS_CREATION_DATA_parentQualifiedName d)
    (TPMS_CREATION_DATA_outsideInfo d)).
Definition TPMS_CREATION_DATA'parentQualifiedName :=
  Member TPMS_CREATION_DATA_parentQualifiedName (fun v d => Mk_TPMS_CREATION_DATA (TPMS_CREATION_DATA_pcrSelect d)
    (TPMS_CREATION_DATA_pcrDigest d) (TPMS_CREATION_DATA_locality d)
    (TPMS_CREATION_DATA_parentNameAlg d) (TPMS_CREATION_DATA_parentName d) v
    (TPMS_CREATION_DATA_outsideInfo d)).
Definition TPMS_CREATION_DATA'outsideInfo :=
  Member TPMS_CREATION_DATA_outsideInfo (fun v d => Mk_TPMS_CREATION_DATA (TPMS_CREATION_DATA_pcrSelect d)
    (TPMS_CREATION_DATA_pcrDigest d) (TPMS_CREATION_DATA_locality d)
    (TPMS_CREATION_DATA_parentNameAlg d) (TPMS_CREATION_DATA_parentName d)
    (TPMS_CREATION_DATA_parentQualifiedName d) v).
Definition zero_TPMS_CREATION_DATA := Mk_TPMS_CREATION_DATA (zero_tpml cap_TPML_PCR_SELECTION zero_TPMS_PCR_SELECTION)
    (zero_2b cap_TPM2B_DIGEST) 0 0 (zero_2b cap_TPM2B_NAME) (zero_2b cap_TPM2B_NAME)
    (zero_2b cap_TPM2B_DATA).

Record TPMT_SYM_DEF_OBJECT := Mk_TPMT_SYM_DEF_OBJECT {
  TPMT_SYM_DEF_OBJECT_algorithm : Z;
  TPMT_SYM_DEF_OBJECT_keyBits : Z;
  TPMT_SYM_DEF_OBJECT_mode : Z }.
Definition TPMT_SYM_DEF_OBJECT'algorithm :=
  Member TPMT_SYM_DEF_OBJECT_algorithm (fun v d => Mk_TPMT_SYM_DEF_OBJECT v
    (TPMT_SYM_DEF_OBJECT_keyBits d) (TPMT_SYM_DEF_OBJECT_mode d)).
Definition TPMT_SYM_DEF_OBJECT'keyBits :=
  Member TPMT_SYM_DEF_OBJECT_keyBits (fun v d => Mk_TPMT_SYM_DEF_OBJECT (TPMT_SYM_DEF_OBJECT_algorithm d)
    v (TPMT_SYM_DEF_OBJECT_mode d)).
Definition TPMT_SYM_DEF_OBJECT'mode :=
  Member TPMT_SYM_DEF_OBJECT_mode (fun v d => Mk_TPMT_SYM_DEF_OBJECT (TPMT_SYM_DEF_OBJECT_algorithm d)
    (TPMT_SYM_DEF_OBJECT_keyBits d) v).
Definition zero_TPMT_SYM_DEF_OBJECT := Mk_TPMT_SYM_DEF_OBJECT 0 0 0.

Record TPMT_ECC_SCHEME := Mk_TPMT_ECC_SCHEME {
  TPMT_ECC_SCHEME_scheme : Z;
  TPMT_ECC_SCHEME_details : TPMS_SCHEME_ECDAA }.
Definition TPMT_ECC_SCHEME'scheme :=
  Member TPMT_ECC_SCHEME_scheme (fun v d => Mk_TPMT_ECC_SCHEME v (TPMT_ECC_SCHEME_details d)).
Definition TPMT_ECC_SCHEME'details :=
  Member TPMT_ECC_SCHEME_details (fun v d => Mk_TPMT_ECC_SCHEME (TPMT_ECC_SCHEME_scheme d) v).
Definition zero_TPMT_ECC_SCHEME := Mk_TPMT_ECC_SCHEME 0 zero_TPMS_SCHEME_ECDAA.

Record TPMT_KDF_SCHEME := Mk_TPMT_KDF_SCHEME {
  TPMT_KDF_SCHEME_scheme : Z;
  TPMT_KDF_SCHEME_details : TPMS_SCHEME_HASH }.
Definition TPMT_KDF_SCHEME'scheme :=
  Member TPMT_KDF_SCHEME_scheme (fun v d => Mk_TPMT_KDF_SCHEME v (TPMT_KDF_SCHEME_details d)).
Definition TPMT_KDF_SCHEME'details :=
  Member TPMT_KDF_SCHEME_details (fun v d => Mk_TPMT_KDF_SCHEME (TPMT_KDF_SCHEME_scheme d) v).
Definition zero_TPMT_KDF_SCHEME := Mk_TPMT_KDF_SCHEME 0 zero_TPMS_SCHEME_HASH.

Record TPMS_ECC_PARMS := Mk_TPMS_ECC_PARMS {
  TPMS_ECC_PARMS_symmetric : TPMT_SYM_DEF_OBJECT;
  TPMS_ECC_PARMS_scheme : TPMT_ECC_SCHEME;
  TPMS_ECC_PARMS_curveID : Z;
  TPMS_ECC_PARMS_kdf : TPMT_KDF_SCHEME }.
Definition TPMS_ECC_PARMS'symmetric :=
  Member TPMS_ECC_PARMS_symmetric (fun v d => Mk_TPMS_ECC_PARMS v (TPMS_ECC_PARMS_scheme d)
    (TPMS_ECC_PARMS_curveID d) (TPMS_ECC_PARMS_kdf d)).
Definition TPMS_ECC_PARMS'scheme :=
  Member TPMS_ECC_PARMS_scheme (fun v d => Mk_TPMS_ECC_PARMS (TPMS_ECC_PARMS_symmetric d) v
    (TPMS_ECC_PARMS_curveID d) (TPMS_ECC_PARMS_kdf d)).
Definition TPMS_ECC_PARMS'curveID :=
  Member TPMS_ECC_PARMS_curveID (fun v d => Mk_TPMS_ECC_PARMS (TPMS_ECC_PARMS_symmetric d)
    (TPMS_ECC_PARMS_scheme d) v (TPMS_ECC_PARMS_kdf d)).
Definition TPMS_ECC_PARMS'kdf :=
  Member TPMS_ECC_PARMS_kdf (fun v d => Mk_TPMS_ECC_PARMS (TPMS_ECC_PARMS_symmetric d)
    (TPMS_ECC_PARMS_scheme d) (TPMS_ECC_PARMS_curveID d) v).
Definition zero_TPMS_ECC_PARMS := Mk_TPMS_ECC_PARMS zero_TPMT_SYM_DEF_OBJECT
    zero_TPMT_ECC_SCHEME 0 zero_TPMT_KDF_SCHEME.

Record TPMS_ML_PARAMETER_SET := Mk_TPMS_ML_PARAMETER_SET {
  TPMS_ML_PARAMETER_SET_identifier : Z }.
Definition TPMS_ML_PARAMETER_SET'identifier :=
  Member TPMS_ML_PARAMETER_SET_identifier (fun v d => Mk_TPMS_ML_PARAMETER_SET v).
Definition zero_TPMS_ML_PARAMETER_SET := Mk_TPMS_ML_PARAMETER_SET 0.

Record TPMS_MLKEM_PARMS := Mk_TPMS_MLKEM_PARMS {
  TPMS_MLKEM_PARMS_nameAlg : Z;
  TPMS_MLKEM_PARMS_parameterSet : TPMS_ML_PARAMETER_SET }.
Definition TPMS_MLKEM_PARMS'nameAlg :=
  Member TPMS_MLKEM_PARMS_nameAlg (fun v d => Mk_TPMS_MLKEM_PARMS v
    (TPMS_MLKEM_PARMS_parameterSet d)).
Definition TPMS_MLKEM_PARMS'parameterSet :=
  Member TPMS_MLKEM_PARMS_parameterSet (fun v d => Mk_TPMS_MLKEM_PARMS (TPMS_MLKEM_PARMS_nameAlg d)
    v).
Definition zero_TPMS_MLKEM_PARMS := Mk_TPMS_MLKEM_PARMS 0 zero_TPMS_ML_PARAMETER_SET.

Record TPMS_MLDSA_PARMS := Mk_TPMS_MLDSA_PARMS {
  TPMS_MLDSA_PARMS_nameAlg : Z;
  TPMS_MLDSA_PARMS_parameterSet : TPMS_ML_PARAMETER_SET }.
Definition TPMS_MLDSA_PARMS'nameAlg :=
  Member TPMS_MLDSA_PARMS_nameAlg (fun v d => Mk_TPMS_MLDSA_PARMS v
    (TPMS_MLDSA_PARMS_parameterSet d)).
Definition TPMS_MLDSA_PARMS'parameterSet :=
  Member TPMS_MLDSA_PARMS_parameterSet (fun v d => Mk_TPMS_MLDSA_PARMS (TPMS_MLDSA_PARMS_nameAlg d)
    v).
Definition zero_TPMS_MLDSA_PARMS := Mk_TPMS_MLDSA_PARMS 0 zero_TPMS_ML_PARAMETER_SET.
Definition TPM2_MAX_MLDSA_SIGNATURE_SIZE := 4627.
Definition cap_TPM2B_MLDSA_SIGNATURE := TPM2_MAX_MLDSA_SIGNATURE_SIZE.

Record TPMS_SIGNATURE_MLDSA := Mk_TPMS_SIGNATURE_MLDSA {
  TPMS_SIGNATURE_MLDSA_hash : Z;
  TPMS_SIGNATURE_MLDSA_sig : TPM2B }.
Definition TPMS_SIGNATURE_MLDSA'hash :=
  Member TPMS_SIGNATURE_MLDSA_hash (fun v d => Mk_TPMS_SIGNATURE_MLDSA v
    (TPMS_SIGNATURE_MLDSA_sig d)).
Definition TPMS_SIGNATURE_MLDSA'sig :=
  Member TPMS_SIGNATURE_MLDSA_sig (fun v d => Mk_TPMS_SIGNATURE_MLDSA (TPMS_SIGNATURE_MLDSA_hash d)
    v).
Definition zero_TPMS_SIGNATURE_MLDSA := Mk_TPMS_SIGNATURE_MLDSA 0
    (zero_2b cap_TPM2B_MLDSA_SIGNATURE).

Inductive TPMU_ATTEST :=
| TPMU_ATTEST_of_TPMS_CERTIFY_INFO (v : TPMS_CERTIFY_INFO)
| TPMU_ATTEST_of_TPMS_CREATION_INFO (v : TPMS_CREATION_INFO)
| TPMU_ATTEST_of_TPMS_QUOTE_INFO (v : TPMS_QUOTE_INFO)
| TPMU_ATTEST_of_TPMS_COMMAND_AUDIT_INFO (v : TPMS_COMMAND_AUDIT_INFO)
| TPMU_ATTEST_of_TPMS_SESSION_AUDIT_INFO (v : TPMS_SESSION_AUDIT_INFO)
| TPMU_ATTEST_of_TPMS_TIME_ATTEST_INFO (v : TPMS_TIME_ATTEST_INFO)
| TPMU_ATTEST_of_TPMS_NV_CERTIFY_INFO (v : TPMS_NV_CERTIFY_INFO).
Definition TPMU_ATTEST'TPMS_CERTIFY_INFO := UMember
  (fun u => match u with TPMU_ATTEST_of_TPMS_CERTIFY_INFO v => Some v | _ => None end)
  (fun v _ => TPMU_ATTEST_of_TPMS_CERTIFY_INFO v) zero_TPMS_CERTIFY_INFO.
Definition TPMU_ATTEST'TPMS_CREATION_INFO := UMember
  (fun u => match u with TPMU_ATTEST_of_TPMS_CREATION_INFO v => Some v | _ => None end)
  (fun v _ => TPMU_ATTEST_of_TPMS_CREATION_INFO v) zero_TPMS_CREATION_INFO.
Definition TPMU_ATTEST'TPMS_QUOTE_INFO := UMember
  (fun u => match u with TPMU_ATTEST_of_TPMS_QUOTE_INFO v => Some v | _ => None end)
  (fun v _ => TPMU_ATTEST_of_TPMS_QUOTE_INFO v) zero_TPMS_QUOTE_INFO.
Definition TPMU_ATTEST'TPMS_COMMAND_AUDIT_INFO := UMember
  (fun u => match u with TPMU_ATTEST_of_TPMS_COMMAND_AUDIT_INFO v => Some v | _ => None end)
  (fun v _ => TPMU_ATTEST_of_TPMS_COMMAND_AUDIT_INFO v) zero_TPMS_COMMAND_AUDIT_INFO.
Definition TPMU_ATTEST'TPMS_SESSION_AUDIT_INFO := UMember
  (fun u => match u with TPMU_ATTEST_of_TPMS_SESSION_AUDIT_INFO v => Some v | _ => None end)
  (fun v _ => TPMU_ATTEST_of_TPMS_SESSION_AUDIT_INFO v) zero_TPMS_SESSION_AUDIT_INFO.
Definition TPMU_ATTEST'TPMS_TIME_ATTEST_INFO := UMember
  (fun u => match u with TPMU_ATTEST_of_TPMS_TIME_ATTEST_INFO v => Some v | _ => None end)
  (fun v _ => TPMU_ATTEST_of_TPMS_TIME_ATTEST_INFO v) zero_TPMS_TIME_ATTEST_INFO.
Definition TPMU_ATTEST'TPMS_NV_CERTIFY_INFO := UMember
  (fun u => match u with TPMU_ATTEST_of_TPMS_NV_CERTIFY_INFO v => Some v | _ => None end)
  (fun v _ => TPMU_ATTEST_of_TPMS_NV_CERTIFY_INFO v) zero_TPMS_NV_CERTIFY_INFO.
Definition zero_TPMU_ATTEST := TPMU_ATTEST_of_TPMS_CERTIFY_INFO zero_TPMS_CERTIFY_INFO.

Record TPMS_ATTEST := Mk_TPMS_ATTEST {
  TPMS_ATTEST_magic : Z;
  TPMS_ATTEST_type : Z;
  TPMS_ATTEST_qualifiedSigner : TPM2B;
  TPMS_ATTEST_extraData : TPM2B;
  TPMS_ATTEST_clockInfo : TPMS_CLOCK_INFO;
  TPMS_ATTEST_firmwareVersion : Z;
  TPMS_ATTEST_attested : TPMU_ATTEST }.
Definition TPMS_ATTEST'magic :=
  Member TPMS_ATTEST_magic (fun v d => Mk_TPMS_ATTEST v (TPMS_ATTEST_type d)
    (TPMS_ATTEST_qualifiedSigner d) (TPMS_ATTEST_extraData d) (TPMS_ATTEST_clockInfo d)
    (TPMS_ATTEST_firmwareVersion d) (TPMS_ATTEST_attested d)).
Definition TPMS_ATTEST'type :=
  Member TPMS_ATTEST_type (fun v d => Mk_TPMS_ATTEST (TPMS_ATTEST_magic d) v
    (TPMS_ATTEST_qualifiedSigner d) (TPMS_ATTEST_extraData d) (TPMS_ATTEST_clockInfo d)
    (TPMS_ATTEST_firmwareVersion d) (TPMS_ATTEST_attested d)).
Definition TPMS_ATTEST'qualifiedSigner :=
  Member TPMS_ATTEST_qualifiedSigner (fun v d => Mk_TPMS_ATTEST (TPMS_ATTEST_magic d)
    (TPMS_ATTEST_type d) v (TPMS_ATTEST_extraData d) (TPMS_ATTEST_clockInfo d)
    (TPMS_ATTEST_firmwareVersion d) (TPMS_ATTEST_attested d)).
Definition TPMS_ATTEST'extraData :=
  Member TPMS_ATTEST_extraData (fun v d => Mk_TPMS_ATTEST (TPMS_ATTEST_magic d)
    (TPMS_ATTEST_type d) (TPMS_ATTEST_qualifiedSigner d) v (TPMS_ATTEST_clockInfo d)
    (TPMS_ATTEST_firmwareVersion d) (TPMS_ATTEST_attested d)).
Definition TPMS_ATTEST'clockInfo :=
  Member TPMS_ATTEST_clockInfo (fun v d => Mk_TPMS_ATTEST (TPMS_ATTEST_magic d)
    (TPMS_ATTEST_type d) (TPMS_ATTEST_qualifiedSigner d) (TPMS_ATTEST_extraData d) v
    (TPMS_ATTEST_firmwareVersion d) (TPMS_ATTEST_attested d)).
Definition TPMS_ATTEST'firmwareVersion :=
  Member TPMS_ATTEST_firmwareVersion (fun v d => Mk_TPMS_ATTEST (TPMS_ATTEST_magic d)
    (TPMS_ATTEST_type d) (TPMS_ATTEST_qualifiedSigner d) (TPMS_ATTEST_extraData d)
    (TPMS_ATTEST_clockInfo d) v (TPMS_ATTEST_attested d)).
Definition TPMS_ATTEST'attested :=
  Member TPMS_ATTEST_attested (fun v d => Mk_TPMS_ATTEST (TPMS_ATTEST_magic d)
    (TPMS_ATTEST_type d) (TPMS_ATTEST_qualifiedSigner d) (TPMS_ATTEST_extraData d)
    (TPMS_ATTEST_clockInfo d) (TPMS_ATTEST_firmwareVersion d) v).
Definition zero_TPMS_ATTEST := Mk_TPMS_ATTEST 0 0 (zero_2b cap_TPM2B_NAME)
    (zero_2b cap_TPM2B_DATA) zero_TPMS_CLOCK_INFO 0 zero_TPMU_ATTEST.

Record TPMS_ALGORITHM_DETAIL_ECC := Mk_TPMS_ALGORITHM_DETAIL_ECC {
  TPMS_ALGORITHM_DETAIL_ECC_curveID : Z;
  TPMS_ALGORITHM_DETAIL_ECC_keySize : Z;
  TPMS_ALGORITHM_DETAIL_ECC_kdf : TPMT_KDF_SCHEME;
  TPMS_ALGORITHM_DETAIL_ECC_sign : TPMT_ECC_SCHEME;
  TPMS_ALGORITHM_DETAIL_ECC_p : TPM2B;
  TPMS_ALGORITHM_DETAIL_ECC_a : TPM2B;
  TPMS_ALGORITHM_DETAIL_ECC_b : TPM2B;
  TPMS_ALGORITHM_DETAIL_ECC_gX : TPM2B;
  TPMS_ALGORITHM_DETAIL_ECC_gY : TPM2B;
  TPMS_ALGORITHM_DETAIL_ECC_n : TPM2B;
  TPMS_ALGORITHM_DETAIL_ECC_h : TPM2B }.
Definition TPMS_ALGORITHM_DETAIL_ECC'curveID :=
  Member TPMS_ALGORITHM_DETAIL_ECC_curveID (fun v d => Mk_TPMS_ALGORITHM_DETAIL_ECC v
    (TPMS_ALGORITHM_DETAIL_ECC_keySize d) (TPMS_ALGORITHM_DETAIL_ECC_kdf d)
    (TPMS_ALGORITHM_DETAIL_ECC_sign d) (TPMS_ALGORITHM_DETAIL_ECC_p d)
    (TPMS_ALGORITHM_DETAIL_ECC_a d) (TPMS_ALGORITHM_DETAIL_ECC_b d)
    (TPMS_ALGORITHM_DETAIL_ECC_gX d) (TPMS_ALGORITHM_DETAIL_ECC_gY d)
    (TPMS_ALGORITHM_DETAIL_ECC_n d) (TPMS_ALGORITHM_DETAIL_ECC_h d)).
Definition TPMS_ALGORITHM_DETAIL_ECC'keySize :=
  Member TPMS_ALGORITHM_DETAIL_ECC_keySize (fun v d => Mk_TPMS_ALGORITHM_DETAIL_ECC (TPMS_ALGORITHM_DETAIL_ECC_curveID d)
    v (TPMS_ALGORITHM_DETAIL_ECC_kdf d) (TPMS_ALGORITHM_DETAIL_ECC_sign d)
    (TPMS_ALGORITHM_DETAIL_ECC_p d) (TPMS_ALGORITHM_DETAIL_ECC_a d)
    (TPMS_ALGORITHM_DETAIL_ECC_b d) (TPMS_ALGORITHM_DETAIL_ECC_gX d)
    (TPMS_ALGORITHM_DETAIL_ECC_gY d) (TPMS_ALGORITHM_DETAIL_ECC_n d)
    (TPMS_ALGORITHM_DETAIL_ECC_h d)).
Definition TPMS_ALGORITHM_DETAIL_ECC'kdf :=
  Member TPMS_ALGORITHM_DETAIL_ECC_kdf (fun v d => Mk_TPMS_ALGORITHM_DETAIL_ECC (TPMS_ALGORITHM_DETAIL_ECC_curveID d)
    (TPMS_ALGORITHM_DETAIL_ECC_keySize d) v (TPMS_ALGORITHM_DETAIL_ECC_sign d)
    (TPMS_ALGORITHM_DETAIL_ECC_p d) (TPMS_ALGORITHM_DETAIL_ECC_a d)
    (TPMS_ALGORITHM_DETAIL_ECC_b d) (TPMS_ALGORITHM_DETAIL_ECC_gX d)
    (TPMS_ALGORITHM_DETAIL_ECC_gY d) (TPMS_ALGORITHM_DETAIL_ECC_n d)
    (TPMS_ALGORITHM_DETAIL_ECC_h d)).
Definition TPMS_ALGORITHM_DETAIL_ECC'sign :=
  Member TPMS_ALGORITHM_DETAIL_ECC_sign (fun v d => Mk_TPMS_ALGORITHM_DETAIL_ECC (TPMS_ALGORITHM_DETAIL_ECC_curveID d)
    (TPMS_ALGORITHM_DETAIL_ECC_keySize d) (TPMS_ALGORITHM_DETAIL_ECC_kdf d) v
    (TPMS_ALGORITHM_DETAIL_ECC_p d) (TPMS_ALGORITHM_DETAIL_ECC_a d)
    (TPMS_ALGORITHM_DETAIL_ECC_b d) (TPMS_ALGORITHM_DETAIL_ECC_gX d)
    (TPMS_ALGORITHM_DETAIL_ECC_gY d) (TPMS_ALGORITHM_DETAIL_ECC_n d)
    (TPMS_ALGORITHM_DETAIL_ECC_h d)).
Definition TPMS_ALGORITHM_DETAIL_ECC'p :=
  Member TPMS_ALGORITHM_DETAIL_ECC_p (fun v d => Mk_TPMS_ALGORITHM_DETAIL_ECC (TPMS_ALGORITHM_DETAIL_ECC_curveID d)
    (TPMS_ALGORITHM_DETAIL_ECC_keySize d) (TPMS_ALGORITHM_DETAIL_ECC_kdf d)
    (TPMS_ALGORITHM_DETAIL_ECC_sign d) v (TPMS_ALGORITHM_DETAIL_ECC_a d)
    (TPMS_ALGORITHM_DETAIL_ECC_b d) (TPMS_ALGORITHM_DETAIL_ECC_gX d)
    (TPMS_ALGORITHM_DETAIL_ECC_gY d) (TPMS_ALGORITHM_DETAIL_ECC_n d)
    (TPMS_ALGORITHM_DETAIL_ECC_h d)).
Definition TPMS_ALGORITHM_DETAIL_ECC'a :=
  Member TPMS_ALGORITHM_DETAIL_ECC_a (fun v d => Mk_TPMS_ALGORITHM_DETAIL_ECC (TPMS_ALGORITHM_DETAIL_ECC_curveID d)
    (TPMS_ALGORITHM_DETAIL_ECC_keySize d) (TPMS_ALGORITHM_DETAIL_ECC_kdf d)
    (TPMS_ALGORITHM_DETAIL_ECC_sign d) (TPMS_ALGORITHM_DETAIL_ECC_p d) v
    (TPMS_ALGORITHM_DETAIL_ECC_b d) (TPMS_ALGORITHM_DETAIL_ECC_gX d)
    (TPMS_ALGORITHM_DETAIL_ECC_gY d) (TPMS_ALGORITHM_DETAIL_ECC_n d)
    (TPMS_ALGORITHM_DETAIL_ECC_h d)).
Definition TPMS_ALGORITHM_DETAIL_ECC'b :=
  Member TPMS_ALGORITHM_DETAIL_ECC_b (fun v d => Mk_TPMS_ALGORITHM_DETAIL_ECC (TPMS_ALGORITHM_DETAIL_ECC_curveID d)
    (TPMS_ALGORITHM_DETAIL_ECC_keySize d) (TPMS_ALGORITHM_DETAIL_ECC_kdf d)
    (TPMS_ALGORITHM_DETAIL_ECC_sign d) (TPMS_ALGORITHM_DETAIL_ECC_p d)
    (TPMS_ALGORITHM_DETAIL_ECC_a d) v (TPMS_ALGORITHM_DETAIL_ECC_gX d)
    (TPMS_ALGORITHM_DETAIL_ECC_gY d) (TPMS_ALGORITHM_DETAIL_ECC_n d)
    (TPMS_ALGORITHM_DETAIL_ECC_h d)).
Definition TPMS_ALGORITHM_DETAIL_ECC'gX :=
  Member TPMS_ALGORITHM_DETAIL_ECC_gX (fun v d => Mk_TPMS_ALGORITHM_DETAIL_ECC (TPMS_ALGORITHM_DETAIL_ECC_curveID d)
    (TPMS_ALGORITHM_DETAIL_ECC_keySize d) (TPMS_ALGORITHM_DETAIL_ECC_kdf d)
    (TPMS_ALGORITHM_DETAIL_ECC_sign d) (TPMS_ALGORITHM_DETAIL_ECC_p d)
    (TPMS_ALGORITHM_DETAIL_ECC_a d) (TPMS_ALGORITHM_DETAIL_ECC_b d) v
    (TPMS_ALGORITHM_DETAIL_ECC_gY d) (TPMS_ALGORITHM_DETAIL_ECC_n d)
    (TPMS_ALGORITHM_DETAIL_ECC_h d)).
Definition TPMS_ALGORITHM_DETAIL_ECC'gY :=
  Member TPMS_ALGORITHM_DETAIL_ECC_gY (fun v d => Mk_TPMS_ALGORITHM_DETAIL_ECC (TPMS_ALGORITHM_DETAIL_ECC_curveID d)
    (TPMS_ALGORITHM_DETAIL_ECC_keySize d) (TPMS_ALGORITHM_DETAIL_ECC_kdf d)
    (TPMS_ALGORITHM_DETAIL_ECC_sign d) (TPMS_ALGORITHM_DETAIL_ECC_p d)
    (TPMS_ALGORITHM_DETAIL_ECC_a d) (TPMS_ALGORITHM_DETAIL_ECC_b d)
    (TPMS_ALGORITHM_DETAIL_ECC_gX d) v (TPMS_ALGORITHM_DETAIL_ECC_n d)
    (TPMS_ALGORITHM_DETAIL_ECC_h d)).
Definition TPMS_ALGORITHM_DETAIL_ECC'n :=
  Member TPMS_ALGORITHM_DETAIL_ECC_n (fun v d => Mk_TPMS_ALGORITHM_DETAIL_ECC (TPMS_ALGORITHM_DETAIL_ECC_curveID d)
    (TPMS_ALGORITHM_DETAIL_ECC_keySize d) (TPMS_ALGORITHM_DETAIL_ECC_kdf d)
    (TPMS_ALGORITHM_DETAIL_ECC_sign d) (TPMS_ALGORITHM_DETAIL_ECC_p d)
    (TPMS_ALGORITHM_DETAIL_ECC_a d) (TPMS_ALGORITHM_DETAIL_ECC_b d)
    (TPMS_ALGORITHM_DETAIL_ECC_gX d) (TPMS_ALGORITHM_DETAIL_ECC_gY d) v
    (TPMS_ALGORITHM_DETAIL_ECC_h d)).
Definition TPMS_ALGORITHM_DETAIL_ECC'h :=
  Member TPMS_ALGORITHM_DETAIL_ECC_h (fun v d => Mk_TPMS_ALGORITHM_DETAIL_ECC (TPMS_ALGORITHM_DETAIL_ECC_curveID d)
    (TPMS_ALGORITHM_DETAIL_ECC_keySize d) (TPMS_ALGORITHM_DETAIL_ECC_kdf d)
    (TPMS_ALGORITHM_DETAIL_ECC_sign d) (TPMS_ALGORITHM_DETAIL_ECC_p d)
    (TPMS_ALGORITHM_DETAIL_ECC_a d) (TPMS_ALGORITHM_DETAIL_ECC_b d)
    (TPMS_ALGORITHM_DETAIL_ECC_gX d) (TPMS_ALGORITHM_DETAIL_ECC_gY d)
    (TPMS_ALGORITHM_DETAIL_ECC_n d) v).
Definition zero_TPMS_ALGORITHM_DETAIL_ECC := Mk_TPMS_ALGORITHM_DETAIL_ECC 0 0
    zero_TPMT_KDF_SCHEME zero_TPMT_ECC_SCHEME (zero_2b cap_TPM2B_ECC_PARAMETER)
    (zero_2b cap_TPM2B_ECC_PARAMETER) (zero_2b cap_TPM2B_ECC_PARAMETER)
    (zero_2b cap_TPM2B_ECC_PARAMETER) (zero_2b cap_TPM2B_ECC_PARAMETER)
    (zero_2b cap_TPM2B_ECC_PARAMETER) (zero_2b cap_TPM2B_ECC_PARAMETER).
Definition lay_TPMS_ALG_PROPERTY := lay_struct [lay_int 2; lay_int 4].
Definition TPM2_MAX_CAP_BUFFER := 1024.
Definition TPM2_MAX_CAP_ALGS := ((TPM2_MAX_CAP_BUFFER - 4 - 4) / (lsize lay_TPMS_ALG_PROPERTY)).
Definition cap_TPML_ALG_PROPERTY := TPM2_MAX_CAP_ALGS.
Definition TPM2_MAX_CAP_HANDLES := ((TPM2_MAX_CAP_BUFFER - 4 - 4) / 4).
Definition cap_TPML_HANDLE := TPM2_MAX_CAP_HANDLES.
Definition TPM2_MAX_CAP_CC := 256.
Definition cap_TPML_CCA := TPM2_MAX_CAP_CC.
Definition cap_TPML_CC := TPM2_MAX_CAP_CC.
Definition lay_TPMS_TAGGED_PROPERTY := lay_struct [lay_int 4; lay_int 4].
Definition TPM2_MAX_TPM_PROPERTIES := ((TPM2_MAX_CAP_BUFFER - 4 - 4) / (lsize lay_TPMS_TAGGED_PROPERTY)).
Definition cap_TPML_TAGGED_TPM_PROPERTY := TPM2_MAX_TPM_PROPERTIES.
Definition lay_TPMS_TAGGED_PCR_SELECT := lay_struct [lay_int 4; lay_int 1;
    lay_array TPM2_PCR_SELECT_MAX (lay_int 1)].
Definition TPM2_MAX_PCR_PROPERTIES := ((TPM2_MAX_CAP_BUFFER - 4 - 4) / (lsize lay_TPMS_TAGGED_PCR_SELECT)).
Definition cap_TPML_TAGGED_PCR_PROPERTY := TPM2_MAX_PCR_PROPERTIES.
Definition TPM2_MAX_ECC_CURVES := ((TPM2_MAX_CAP_BUFFER - 4 - 4) / 2).
Definition cap_TPML_ECC_CURVE := TPM2_MAX_ECC_CURVES.
Definition lay_TPMS_TAGGED_POLICY := lay_struct [lay_int 4; lay_TPMT_HA].
Definition TPM2_MAX_TAGGED_POLICIES := ((TPM2_MAX_CAP_BUFFER - 4 - 4) / (lsize lay_TPMS_TAGGED_POLICY)).
Definition cap_TPML_TAGGED_POLICY := TPM2_MAX_TAGGED_POLICIES.

Record TPMS_ACT_DATA := Mk_TPMS_ACT_DATA {
  TPMS_ACT_DATA_handle : Z;
  TPMS_ACT_DATA_timeout : Z;
  TPMS_ACT_DATA_attributes : Z }.
Definition TPMS_ACT_DATA'handle :=
  Member TPMS_ACT_DATA_handle (fun v d => Mk_TPMS_ACT_DATA v (TPMS_ACT_DATA_timeout d)
    (TPMS_ACT_DATA_attributes d)).
Definition TPMS_ACT_DATA'timeout :=
  Member TPMS_ACT_DATA_timeout (fun v d => Mk_TPMS_ACT_DATA (TPMS_ACT_DATA_handle d) v
    (TPMS_ACT_DATA_attributes d)).
Definition TPMS_ACT_DATA'attributes :=
  Member TPMS_ACT_DATA_attributes (fun v d => Mk_TPMS_ACT_DATA (TPMS_ACT_DATA_handle d)
    (TPMS_ACT_DATA_timeout d) v).
Definition zero_TPMS_ACT_DATA := Mk_TPMS_ACT_DATA 0 0 0.
Definition lay_TPMS_ACT_DATA := lay_struct [lay_int 4; lay_int 4; lay_int 4].
Definition TPM2_MAX_ACT_DATA := ((TPM2_MAX_CAP_BUFFER - 4 - 4) / (lsize lay_TPMS_ACT_DATA)).
Definition cap_TPML_ACT_DATA := TPM2_MAX_ACT_DATA.
Definition cap_TPM2B_MAX_CAP_BUFFER := TPM2_MAX_CAP_BUFFER.

Inductive TPMU_CAPABILITIES :=
| TPMU_CAPABILITIES_of_TPML_ALG_PROPERTY (v : TPML TPMS_ALG_PROPERTY)
| TPMU_CAPABILITIES_of_TPML_HANDLE (v : TPML Z)
| TPMU_CAPABILITIES_of_TPML_CCA (v : TPML Z)
| TPMU_CAPABILITIES_of_TPML_CC (v : TPML Z)
| TPMU_CAPABILITIES_of_TPML_PCR_SELECTION (v : TPML TPMS_PCR_SELECTION)
| TPMU_CAPABILITIES_of_TPML_TAGGED_TPM_PROPERTY (v : TPML TPMS_TAGGED_PROPERTY)
| TPMU_CAPABILITIES_of_TPML_TAGGED_PCR_PROPERTY (v : TPML TPMS_TAGGED_PCR_SELECT)
| TPMU_CAPABILITIES_of_TPML_ECC_CURVE (v : TPML Z)
| TPMU_CAPABILITIES_of_TPML_TAGGED_POLICY (v : TPML TPMS_TAGGED_POLICY)
| TPMU_CAPABILITIES_of_TPML_ACT_DATA (v : TPML TPMS_ACT_DATA)
| TPMU_CAPABILITIES_of_TPM2B_MAX_CAP_BUFFER (v : TPM2B).
Definition TPMU_CAPABILITIES'TPML_ALG_PROPERTY := UMember
  (fun u => match u with TPMU_CAPABILITIES_of_TPML_ALG_PROPERTY v => Some v | _ => None end)
  (fun v _ => TPMU_CAPABILITIES_of_TPML_ALG_PROPERTY v) (zero_tpml cap_TPML_ALG_PROPERTY zero_TPMS_ALG_PROPERTY).
Definition TPMU_CAPABILITIES'TPML_HANDLE := UMember
  (fun u => match u with TPMU_CAPABILITIES_of_TPML_HANDLE v => Some v | _ => None end)
  (fun v _ => TPMU_CAPABILITIES_of_TPML_HANDLE v) (zero_tpml cap_TPML_HANDLE 0).
Definition TPMU_CAPABILITIES'TPML_CCA := UMember
  (fun u => match u with TPMU_CAPABILITIES_of_TPML_CCA v => Some v | _ => None end)
  (fun v _ => TPMU_CAPABILITIES_of_TPML_CCA v) (zero_tpml cap_TPML_CCA 0).
Definition TPMU_CAPABILITIES'TPML_CC := UMember
  (fun u => match u with TPMU_CAPABILITIES_of_TPML_CC v => Some v | _ => None end)
  (fun v _ => TPMU_CAPABILITIES_of_TPML_CC v) (zero_tpml cap_TPML_CC 0).
Definition TPMU_CAPABILITIES'TPML_PCR_SELECTION := UMember
  (fun u => match u with TPMU_CAPABILITIES_of_TPML_PCR_SELECTION v => Some v | _ => None end)
  (fun v _ => TPMU_CAPABILITIES_of_TPML_PCR_SELECTION v) (zero_tpml cap_TPML_PCR_SELECTION zero_TPMS_PCR_SELECTION).
Definition TPMU_CAPABILITIES'TPML_TAGGED_TPM_PROPERTY := UMember
  (fun u => match u with TPMU_CAPABILITIES_of_TPML_TAGGED_TPM_PROPERTY v => Some v | _ => None end)
  (fun v _ => TPMU_CAPABILITIES_of_TPML_TAGGED_TPM_PROPERTY v) (zero_tpml cap_TPML_TAGGED_TPM_PROPERTY zero_TPMS_TAGGED_PROPERTY).
Definition TPMU_CAPABILITIES'TPML_TAGGED_PCR_PROPERTY := UMember
  (fun u => match u with TPMU_CAPABILITIES_of_TPML_TAGGED_PCR_PROPERTY v => Some v | _ => None end)
  (fun v _ => TPMU_CAPABILITIES_of_TPML_TAGGED_PCR_PROPERTY v) (zero_tpml cap_TPML_TAGGED_PCR_PROPERTY zero_TPMS_TAGGED_PCR_SELECT).
Definition TPMU_CAPABILITIES'TPML_ECC_CURVE := UMember
  (fun u => match u with TPMU_CAPABILITIES_of_TPML_ECC_CURVE v => Some v | _ => None end)
  (fun v _ => TPMU_CAPABILITIES_of_TPML_ECC_CURVE v) (zero_tpml cap_TPML_ECC_CURVE 0).
Definition TPMU_CAPABILITIES'TPML_TAGGED_POLICY := UMember
  (fun u => match u with TPMU_CAPABILITIES_of_TPML_TAGGED_POLICY v => Some v | _ => None end)
  (fun v _ => TPMU_CAPABILITIES_of_TPML_TAGGED_POLICY v) (zero_tpml cap_TPML_TAGGED_POLICY zero_TPMS_TAGGED_POLICY).
Definition TPMU_CAPABILITIES'TPML_ACT_DATA := UMember
  (fun u => match u with TPMU_CAPABILITIES_of_TPML_ACT_DATA v => Some v | _ => None end)
  (fun v _ => TPMU_CAPABILITIES_of_TPML_ACT_DATA v) (zero_tpml cap_TPML_ACT_DATA zero_TPMS_ACT_DATA).
Definition TPMU_CAPABILITIES'TPM2B_MAX_CAP_BUFFER := UMember
  (fun u => match u with TPMU_CAPABILITIES_of_TPM2B_MAX_CAP_BUFFER v => Some v | _ => None end)
  (fun v _ => TPMU_CAPABILITIES_of_TPM2B_MAX_CAP_BUFFER v) (zero_2b cap_TPM2B_MAX_CAP_BUFFER).
Definition zero_TPMU_CAPABILITIES := TPMU_CAPABILITIES_of_TPML_ALG_PROPERTY (zero_tpml cap_TPML_ALG_PROPERTY zero_TPMS_ALG_PROPERTY).

Record TPMS_CAPABILITY_DATA := Mk_TPMS_CAPABILITY_DATA {
  TPMS_CAPABILITY_DATA_capability : Z;
  TPMS_CAPABILITY_DATA_data : TPMU_CAPABILITIES }.
Definition TPMS_CAPABILITY_DATA'capability :=
  Member TPMS_CAPABILITY_DATA_capability (fun v d => Mk_TPMS_CAPABILITY_DATA v
    (TPMS_CAPABILITY_DATA_data d)).
Definition TPMS_CAPABILITY_DATA'data :=
  Member TPMS_CAPABILITY_DATA_data (fun v d => Mk_TPMS_CAPABILITY_DATA (TPMS_CAPABILITY_DATA_capability d)
    v).
Definition zero_TPMS_CAPABILITY_DATA := Mk_TPMS_CAPABILITY_DATA 0 zero_TPMU_CAPABILITIES.

Record TPMT_KEYEDHASH_SCHEME := Mk_TPMT_KEYEDHASH_SCHEME {
  TPMT_KEYEDHASH_SCHEME_scheme : Z;
  TPMT_KEYEDHASH_SCHEME_details : TPMS_SCHEME_XOR }.
Definition TPMT_KEYEDHASH_SCHEME'scheme :=
  Member TPMT_KEYEDHASH_SCHEME_scheme (fun v d => Mk_TPMT_KEYEDHASH_SCHEME v
    (TPMT_KEYEDHASH_SCHEME_details d)).
Definition TPMT_KEYEDHASH_SCHEME'details :=
  Member TPMT_KEYEDHASH_SCHEME_details (fun v d => Mk_TPMT_KEYEDHASH_SCHEME (TPMT_KEYEDHASH_SCHEME_scheme d)
    v).
Definition zero_TPMT_KEYEDHASH_SCHEME := Mk_TPMT_KEYEDHASH_SCHEME 0 zero_TPMS_SCHEME_XOR.

Record TPMS_KEYEDHASH_PARMS := Mk_TPMS_KEYEDHASH_PARMS {
  TPMS_KEYEDHASH_PARMS_scheme : TPMT_KEYEDHASH_SCHEME }.
Definition TPMS_KEYEDHASH_PARMS'scheme :=
  Member TPMS_KEYEDHASH_PARMS_scheme (fun v d => Mk_TPMS_KEYEDHASH_PARMS v).
Definition zero_TPMS_KEYEDHASH_PARMS := Mk_TPMS_KEYEDHASH_PARMS zero_TPMT_KEYEDHASH_SCHEME.

Record TPMT_RSA_SCHEME := Mk_TPMT_RSA_SCHEME {
  TPMT_RSA_SCHEME_scheme : Z;
  TPMT_RSA_SCHEME_details : TPMS_SCHEME_ECDAA }.
Definition TPMT_RSA_SCHEME'scheme :=
  Member TPMT_RSA_SCHEME_scheme (fun v d => Mk_TPMT_RSA_SCHEME v (TPMT_RSA_SCHEME_details d)).
Definition TPMT_RSA_SCHEME'details :=
  Member TPMT_RSA_SCHEME_details (fun v d => Mk_TPMT_RSA_SCHEME (TPMT_RSA_SCHEME_scheme d) v).
Definition zero_TPMT_RSA_SCHEME := Mk_TPMT_RSA_SCHEME 0 zero_TPMS_SCHEME_ECDAA.

Record TPMS_RSA_PARMS := Mk_TPMS_RSA_PARMS {
  TPMS_RSA_PARMS_symmetric : TPMT_SYM_DEF_OBJECT;
  TPMS_RSA_PARMS_scheme : TPMT_RSA_SCHEME;
  TPMS_RSA_PARMS_keyBits : Z;
  TPMS_RSA_PARMS_exponent : Z }.
Definition TPMS_RSA_PARMS'symmetric :=
  Member TPMS_RSA_PARMS_symmetric (fun v d => Mk_TPMS_RSA_PARMS v (TPMS_RSA_PARMS_scheme d)
    (TPMS_RSA_PARMS_keyBits d) (TPMS_RSA_PARMS_exponent d)).
Definition TPMS_RSA_PARMS'scheme :=
  Member TPMS_RSA_PARMS_scheme (fun v d => Mk_TPMS_RSA_PARMS (TPMS_RSA_PARMS_symmetric d) v
    (TPMS_RSA_PARMS_keyBits d) (TPMS_RSA_PARMS_exponent d)).
Definition TPMS_RSA_PARMS'keyBits :=
  Member TPMS_RSA_PARMS_keyBits (fun v d => Mk_TPMS_RSA_PARMS (TPMS_RSA_PARMS_symmetric d)
    (TPMS_RSA_PARMS_scheme d) v (TPMS_RSA_PARMS_exponent d)).
Definition TPMS_RSA_PARMS'exponent :=
  Member TPMS_RSA_PARMS_exponent (fun v d => Mk_TPMS_RSA_PARMS (TPMS_RSA_PARMS_symmetric d)
    (TPMS_RSA_PARMS_scheme d) (TPMS_RSA_PARMS_keyBits d) v).
Definition zero_TPMS_RSA_PARMS := Mk_TPMS_RSA_PARMS zero_TPMT_SYM_DEF_OBJECT
    zero_TPMT_RSA_SCHEME 0 0.

Record TPMS_SYMCIPHER_PARMS := Mk_TPMS_SYMCIPHER_PARMS {
  TPMS_SYMCIPHER_PARMS_sym : TPMT_SYM_DEF_OBJECT }.
Definition TPMS_SYMCIPHER_PARMS'sym :=
  Member TPMS_SYMCIPHER_PARMS_sym (fun v d => Mk_TPMS_SYMCIPHER_PARMS v).
Definition zero_TPMS_SYMCIPHER_PARMS := Mk_TPMS_SYMCIPHER_PARMS zero_TPMT_SYM_DEF_OBJECT.

Record TPMS_EMPTY := Mk_TPMS_EMPTY {
  TPMS_EMPTY_empty : bytes }.
Definition TPMS_EMPTY'empty :=
  Member TPMS_EMPTY_empty (fun v d => Mk_TPMS_EMPTY v).
Definition zero_TPMS_EMPTY := Mk_TPMS_EMPTY (replicate (Z.to_nat 1) 0).

Record TPMS_AC_OUTPUT := Mk_TPMS_AC_OUTPUT {
  TPMS_AC_OUTPUT_tag : Z;
  TPMS_AC_OUTPUT_data : Z }.
Definition TPMS_AC_OUTPUT'tag :=
  Member TPMS_AC_OUTPUT_tag (fun v d => Mk_TPMS_AC_OUTPUT v (TPMS_AC_OUTPUT_data d)).
Definition TPMS_AC_OUTPUT'data :=
  Member TPMS_AC_OUTPUT_data (fun v d => Mk_TPMS_AC_OUTPUT (TPMS_AC_OUTPUT_tag d) v).
Definition zero_TPMS_AC_OUTPUT := Mk_TPMS_AC_OUTPUT 0 0.

Record TPMS_ID_OBJECT := Mk_TPMS_ID_OBJECT {
  TPMS_ID_OBJECT_integrityHMAC : TPM2B;
  TPMS_ID_OBJECT_encIdentity : TPM2B }.
Definition TPMS_ID_OBJECT'integrityHMAC :=
  Member TPMS_ID_OBJECT_integrityHMAC (fun v d => Mk_TPMS_ID_OBJECT v
    (TPMS_ID_OBJECT_encIdentity d)).
Definition TPMS_ID_OBJECT'encIdentity :=
  Member TPMS_ID_OBJECT_encIdentity (fun v d => Mk_TPMS_ID_OBJECT (TPMS_ID_OBJECT_integrityHMAC d)
    v).
Definition zero_TPMS_ID_OBJECT := Mk_TPMS_ID_OBJECT (zero_2b cap_TPM2B_DIGEST)
    (zero_2b cap_TPM2B_DIGEST).

Record TPMS_NV_DIGEST_CERTIFY_INFO := Mk_TPMS_NV_DIGEST_CERTIFY_INFO {
  TPMS_NV_DIGEST_CERTIFY_INFO_indexName : TPM2B;
  TPMS_NV_DIGEST_CERTIFY_INFO_nvDigest : TPM2B }.
Definition TPMS_NV_DIGEST_CERTIFY_INFO'indexName :=
  Member TPMS_NV_DIGEST_CERTIFY_INFO_indexName (fun v d => Mk_TPMS_NV_DIGEST_CERTIFY_INFO v
    (TPMS_NV_DIGEST_CERTIFY_INFO_nvDigest d)).
Definition TPMS_NV_DIGEST_CERTIFY_INFO'nvDigest :=
  Member TPMS_NV_DIGEST_CERTIFY_INFO_nvDigest (fun v d => Mk_TPMS_NV_DIGEST_CERTIFY_INFO (TPMS_NV_DIGEST_CERTIFY_INFO_indexName d)
    v).
Definition zero_TPMS_NV_DIGEST_CERTIFY_INFO := Mk_TPMS_NV_DIGEST_CERTIFY_INFO (zero_2b cap_TPM2B_NAME)
    (zero_2b cap_TPM2B_DIGEST).

Record TPMT_SYM_DEF := Mk_TPMT_SYM_DEF {
  TPMT_SYM_DEF_algorithm : Z;
  TPMT_SYM_DEF_keyBits : Z;
  TPMT_SYM_DEF_mode : Z }.
Definition TPMT_SYM_DEF'algorithm :=
  Member TPMT_SYM_DEF_algorithm (fun v d => Mk_TPMT_SYM_DEF v (TPMT_SYM_DEF_keyBits d)
    (TPMT_SYM_DEF_mode d)).
Definition TPMT_SYM_DEF'keyBits :=
  Member TPMT_SYM_DEF_keyBits (fun v d => Mk_TPMT_SYM_DEF (TPMT_SYM_DEF_algorithm d) v
    (TPMT_SYM_DEF_mode d)).
Definition TPMT_SYM_DEF'mode :=
  Member TPMT_SYM_DEF_mode (fun v d => Mk_TPMT_SYM_DEF (TPMT_SYM_DEF_algorithm d)
    (TPMT_SYM_DEF_keyBits d) v).
Definition zero_TPMT_SYM_DEF := Mk_TPMT_SYM_DEF 0 0 0.

Record TPMT_SIG_SCHEME := Mk_TPMT_SIG_SCHEME {
  TPMT_SIG_SCHEME_scheme : Z;
  TPMT_SIG_SCHEME_details : TPMS_SCHEME_ECDAA }.
Definition TPMT_SIG_SCHEME'scheme :=
  Member TPMT_SIG_SCHEME_scheme (fun v d => Mk_TPMT_SIG_SCHEME v (TPMT_SIG_SCHEME_details d)).
Definition TPMT_SIG_SCHEME'details :=
  Member TPMT_SIG_SCHEME_details (fun v d => Mk_TPMT_SIG_SCHEME (TPMT_SIG_SCHEME_scheme d) v).
Definition zero_TPMT_SIG_SCHEME := Mk_TPMT_SIG_SCHEME 0 zero_TPMS_SCHEME_ECDAA.

Record TPMT_ASYM_SCHEME := Mk_TPMT_ASYM_SCHEME {
  TPMT_ASYM_SCHEME_scheme : Z;
  TPMT_ASYM_SCHEME_details : TPMS_SCHEME_ECDAA }.
Definition TPMT_ASYM_SCHEME'scheme :=
  Member TPMT_ASYM_SCHEME_scheme (fun v d => Mk_TPMT_ASYM_SCHEME v (TPMT_ASYM_SCHEME_details d)).
Definition TPMT_ASYM_SCHEME'details :=
  Member TPMT_ASYM_SCHEME_details (fun v d => Mk_TPMT_ASYM_SCHEME (TPMT_ASYM_SCHEME_scheme d) v).
Definition zero_TPMT_ASYM_SCHEME := Mk_TPMT_ASYM_SCHEME 0 zero_TPMS_SCHEME_ECDAA.

Record TPMT_RSA_DECRYPT := Mk_TPMT_RSA_DECRYPT {
  TPMT_RSA_DECRYPT_scheme : Z;
  TPMT_RSA_DECRYPT_details : TPMS_SCHEME_ECDAA }.
Definition TPMT_RSA_DECRYPT'scheme :=
  Member TPMT_RSA_DECRYPT_scheme (fun v d => Mk_TPMT_RSA_DECRYPT v (TPMT_RSA_DECRYPT_details d)).
Definition TPMT_RSA_DECRYPT'details :=
  Member TPMT_RSA_DECRYPT_details (fun v d => Mk_TPMT_RSA_DECRYPT (TPMT_RSA_DECRYPT_scheme d) v).
Definition zero_TPMT_RSA_DECRYPT := Mk_TPMT_RSA_DECRYPT 0 zero_TPMS_SCHEME_ECDAA.

Inductive TPMU_SIGNATURE :=
| TPMU_SIGNATURE_of_TPMS_SIGNATURE_RSA (v : TPMS_SIGNATURE_RSA)
| TPMU_SIGNATURE_of_TPMS_SIGNATURE_ECC (v : TPMS_SIGNATURE_ECC)
| TPMU_SIGNATURE_of_TPMT_HA (v : TPMT_HA)
| TPMU_SIGNATURE_of_TPMS_SIGNATURE_MLDSA (v : TPMS_SIGNATURE_MLDSA).
Definition TPMU_SIGNATURE'TPMS_SIGNATURE_RSA := UMember
  (fun u => match u with TPMU_SIGNATURE_of_TPMS_SIGNATURE_RSA v => Some v | _ => None end)
  (fun v _ => TPMU_SIGNATURE_of_TPMS_SIGNATURE_RSA v) zero_TPMS_SIGNATURE_RSA.
Definition TPMU_SIGNATURE'TPMS_SIGNATURE_ECC := UMember
  (fun u => match u with TPMU_SIGNATURE_of_TPMS_SIGNATURE_ECC v => Some v | _ => None end)
  (fun v _ => TPMU_SIGNATURE_of_TPMS_SIGNATURE_ECC v) zero_TPMS_SIGNATURE_ECC.
Definition TPMU_SIGNATURE'TPMT_HA := UMember
  (fun u => match u with TPMU_SIGNATURE_of_TPMT_HA v => Some v | _ => None end)
  (fun v _ => TPMU_SIGNATURE_of_TPMT_HA v) zero_TPMT_HA.
Definition TPMU_SIGNATURE'TPMS_SIGNATURE_MLDSA := UMember
  (fun u => match u with TPMU_SIGNATURE_of_TPMS_SIGNATURE_MLDSA v => Some v | _ => None end)
  (fun v _ => TPMU_SIGNATURE_of_TPMS_SIGNATURE_MLDSA v) zero_TPMS_SIGNATURE_MLDSA.
Definition zero_TPMU_SIGNATURE := TPMU_SIGNATURE_of_TPMS_SIGNATURE_RSA zero_TPMS_SIGNATURE_RSA.

Record TPMT_SIGNATURE := Mk_TPMT_SIGNATURE {
  TPMT_SIGNATURE_sigAlg : Z;
  TPMT_SIGNATURE_signature : TPMU_SIGNATURE }.
Definition TPMT_SIGNATURE'sigAlg :=
  Member TPMT_SIGNATURE_sigAlg (fun v d => Mk_TPMT_SIGNATURE v (TPMT_SIGNATURE_signature d)).
Definition TPMT_SIGNATURE'signature :=
  Member TPMT_SIGNATURE_signature (fun v d => Mk_TPMT_SIGNATURE (TPMT_SIGNATURE_sigAlg d) v).
Definition zero_TPMT_SIGNATURE := Mk_TPMT_SIGNATURE 0 zero_TPMU_SIGNATURE.
Definition TPM2_PRIVATE_VENDOR_SPECIFIC_BYTES := ((TPM2_MAX_RSA_KEY_BYTES / 2) * (3 + 2)).
Definition cap_TPM2B_PRIVATE_VENDOR_SPECIFIC := TPM2_PRIVATE_VENDOR_SPECIFIC_BYTES.

Record TPMT_SENSITIVE := Mk_TPMT_SENSITIVE {
  TPMT_SENSITIVE_sensitiveType : Z;
  TPMT_SENSITIVE_authValue : TPM2B;
  TPMT_SENSITIVE_seedValue : TPM2B;
  TPMT_SENSITIVE_sensitive : TPM2B }.
Definition TPMT_SENSITIVE'sensitiveType :=
  Member TPMT_SENSITIVE_sensitiveType (fun v d => Mk_TPMT_SENSITIVE v
    (TPMT_SENSITIVE_authValue d) (TPMT_SENSITIVE_seedValue d) (TPMT_SENSITIVE_sensitive d)).
Definition TPMT_SENSITIVE'authValue :=
  Member TPMT_SENSITIVE_authValue (fun v d => Mk_TPMT_SENSITIVE (TPMT_SENSITIVE_sensitiveType d)
    v (TPMT_SENSITIVE_seedValue d) (TPMT_SENSITIVE_sensitive d)).
Definition TPMT_SENSITIVE'seedValue :=
  Member TPMT_SENSITIVE_seedValue (fun v d => Mk_TPMT_SENSITIVE (TPMT_SENSITIVE_sensitiveType d)
    (TPMT_SENSITIVE_authValue d) v (TPMT_SENSITIVE_sensitive d)).
Definition TPMT_SENSITIVE'sensitive :=
  Member TPMT_SENSITIVE_sensitive (fun v d => Mk_TPMT_SENSITIVE (TPMT_SENSITIVE_sensitiveType d)
    (TPMT_SENSITIVE_authValue d) (TPMT_SENSITIVE_seedValue d) v).
Definition zero_TPMT_SENSITIVE := Mk_TPMT_SENSITIVE 0 (zero_2b cap_TPM2B_DIGEST)
    (zero_2b cap_TPM2B_DIGEST) (zero_2b cap_TPM2B_PRIVATE_VENDOR_SPECIFIC).

Inductive TPMU_PUBLIC_PARMS :=
| TPMU_PUBLIC_PARMS_of_TPMS_KEYEDHASH_PARMS (v : TPMS_KEYEDHASH_PARMS)
| TPMU_PUBLIC_PARMS_of_TPMS_SYMCIPHER_PARMS (v : TPMS_SYMCIPHER_PARMS)
| TPMU_PUBLIC_PARMS_of_TPMS_RSA_PARMS (v : TPMS_RSA_PARMS)
| TPMU_PUBLIC_PARMS_of_TPMS_ECC_PARMS (v : TPMS_ECC_PARMS)
| TPMU_PUBLIC_PARMS_of_TPMS_MLKEM_PARMS (v : TPMS_MLKEM_PARMS)
| TPMU_PUBLIC_PARMS_of_TPMS_MLDSA_PARMS (v : TPMS_MLDSA_PARMS).
Definition TPMU_PUBLIC_PARMS'TPMS_KEYEDHASH_PARMS := UMember
  (fun u => match u with TPMU_PUBLIC_PARMS_of_TPMS_KEYEDHASH_PARMS v => Some v | _ => None end)
  (fun v _ => TPMU_PUBLIC_PARMS_of_TPMS_KEYEDHASH_PARMS v) zero_TPMS_KEYEDHASH_PARMS.
Definition TPMU_PUBLIC_PARMS'TPMS_SYMCIPHER_PARMS := UMember
  (fun u => match u with TPMU_PUBLIC_PARMS_of_TPMS_SYMCIPHER_PARMS v => Some v | _ => None end)
  (fun v _ => TPMU_PUBLIC_PARMS_of_TPMS_SYMCIPHER_PARMS v) zero_TPMS_SYMCIPHER_PARMS.
Definition TPMU_PUBLIC_PARMS'TPMS_RSA_PARMS := UMember
  (fun u => match u with TPMU_PUBLIC_PARMS_of_TPMS_RSA_PARMS v => Some v | _ => None end)
  (fun v _ => TPMU_PUBLIC_PARMS_of_TPMS_RSA_PARMS v) zero_TPMS_RSA_PARMS.
Definition TPMU_PUBLIC_PARMS'TPMS_ECC_PARMS := UMember
  (fun u => match u with TPMU_PUBLIC_PARMS_of_TPMS_ECC_PARMS v => Some v | _ => None end)
  (fun v _ => TPMU_PUBLIC_PARMS_of_TPMS_ECC_PARMS v) zero_TPMS_ECC_PARMS.
Definition TPMU_PUBLIC_PARMS'TPMS_MLKEM_PARMS := UMember
  (fun u => match u with TPMU_PUBLIC_PARMS_of_TPMS_MLKEM_PARMS v => Some v | _ => None end)
  (fun v _ => TPMU_PUBLIC_PARMS_of_TPMS_MLKEM_PARMS v) zero_TPMS_MLKEM_PARMS.
Definition TPMU_PUBLIC_PARMS'TPMS_MLDSA_PARMS := UMember
  (fun u => match u with TPMU_PUBLIC_PARMS_of_TPMS_MLDSA_PARMS v => Some v | _ => None end)
  (fun v _ => TPMU_PUBLIC_PARMS_of_TPMS_MLDSA_PARMS v) zero_TPMS_MLDSA_PARMS.
Definition zero_TPMU_PUBLIC_PARMS := TPMU_PUBLIC_PARMS_of_TPMS_KEYEDHASH_PARMS zero_TPMS_KEYEDHASH_PARMS.
Definition TPM2_MAX_MLKEM_PUBLIC_KEY_SIZE := 1568.
Definition cap_TPM2B_MLKEM_PUBLIC_KEY := TPM2_MAX_MLKEM_PUBLIC_KEY_SIZE.
Definition TPM2_MAX_MLDSA_PUBLIC_KEY_SIZE := 2592.
Definition cap_TPM2B_MLDSA_PUBLIC_KEY := TPM2_MAX_MLDSA_PUBLIC_KEY_SIZE.

Inductive TPMU_PUBLIC_ID :=
| TPMU_PUBLIC_ID_of_TPM2B_DIGEST (v : TPM2B)
| TPMU_PUBLIC_ID_of_TPM2B_PUBLIC_KEY_RSA (v : TPM2B)
| TPMU_PUBLIC_ID_of_TPMS_ECC_POINT (v : TPMS_ECC_POINT)
| TPMU_PUBLIC_ID_of_TPM2B_MLKEM_PUBLIC_KEY (v : TPM2B)
| TPMU_PUBLIC_ID_of_TPM2B_MLDSA_PUBLIC_KEY (v : TPM2B).
Definition TPMU_PUBLIC_ID'TPM2B_DIGEST := UMember
  (fun u => match u with TPMU_PUBLIC_ID_of_TPM2B_DIGEST v => Some v | _ => None end)
  (fun v _ => TPMU_PUBLIC_ID_of_TPM2B_DIGEST v) (zero_2b cap_TPM2B_DIGEST).
Definition TPMU_PUBLIC_ID'TPM2B_PUBLIC_KEY_RSA := UMember
  (fun u => match u with TPMU_PUBLIC_ID_of_TPM2B_PUBLIC_KEY_RSA v => Some v | _ => None end)
  (fun v _ => TPMU_PUBLIC_ID_of_TPM2B_PUBLIC_KEY_RSA v) (zero_2b cap_TPM2B_PUBLIC_KEY_RSA).
Definition TPMU_PUBLIC_ID'TPMS_ECC_POINT := UMember
  (fun u => match u with TPMU_PUBLIC_ID_of_TPMS_ECC_POINT v => Some v | _ => None end)
  (fun v _ => TPMU_PUBLIC_ID_of_TPMS_ECC_POINT v) zero_TPMS_ECC_POINT.
Definition TPMU_PUBLIC_ID'TPM2B_MLKEM_PUBLIC_KEY := UMember
  (fun u => match u with TPMU_PUBLIC_ID_of_TPM2B_MLKEM_PUBLIC_KEY v => Some v | _ => None end)
  (fun v _ => TPMU_PUBLIC_ID_of_TPM2B_MLKEM_PUBLIC_KEY v) (zero_2b cap_TPM2B_MLKEM_PUBLIC_KEY).
Definition TPMU_PUBLIC_ID'TPM2B_MLDSA_PUBLIC_KEY := UMember
  (fun u => match u with TPMU_PUBLIC_ID_of_TPM2B_MLDSA_PUBLIC_KEY v => Some v | _ => None end)
  (fun v _ => TPMU_PUBLIC_ID_of_TPM2B_MLDSA_PUBLIC_KEY v) (zero_2b cap_TPM2B_MLDSA_PUBLIC_KEY).
Definition zero_TPMU_PUBLIC_ID := TPMU_PUBLIC_ID_of_TPM2B_DIGEST (zero_2b cap_TPM2B_DIGEST).

Record TPMT_PUBLIC := Mk_TPMT_PUBLIC {
  TPMT_PUBLIC_type : Z;
  TPMT_PUBLIC_nameAlg : Z;
  TPMT_PUBLIC_objectAttributes : Z;
  TPMT_PUBLIC_authPolicy : TPM2B;
  TPMT_PUBLIC_parameters : TPMU_PUBLIC_PARMS;
  TPMT_PUBLIC_unique : TPMU_PUBLIC_ID }.
Definition TPMT_PUBLIC'type :=
  Member TPMT_PUBLIC_type (fun v d => Mk_TPMT_PUBLIC v (TPMT_PUBLIC_nameAlg d)
    (TPMT_PUBLIC_objectAttributes d) (TPMT_PUBLIC_authPolicy d) (TPMT_PUBLIC_parameters d)
    (TPMT_PUBLIC_unique d)).
Definition TPMT_PUBLIC'nameAlg :=
  Member TPMT_PUBLIC_nameAlg (fun v d => Mk_TPMT_PUBLIC (TPMT_PUBLIC_type d) v
    (TPMT_PUBLIC_objectAttributes d) (TPMT_PUBLIC_authPolicy d) (TPMT_PUBLIC_parameters d)
    (TPMT_PUBLIC_unique d)).
Definition TPMT_PUBLIC'objectAttributes :=
  Member TPMT_PUBLIC_objectAttributes (fun v d => Mk_TPMT_PUBLIC (TPMT_PUBLIC_type d)
    (TPMT_PUBLIC_nameAlg d) v (TPMT_PUBLIC_authPolicy d) (TPMT_PUBLIC_parameters d)
    (TPMT_PUBLIC_unique d)).
Definition TPMT_PUBLIC'authPolicy :=
  Member TPMT_PUBLIC_authPolicy (fun v d => Mk_TPMT_PUBLIC (TPMT_PUBLIC_type d)
    (TPMT_PUBLIC_nameAlg d) (TPMT_PUBLIC_objectAttributes d) v (TPMT_PUBLIC_parameters d)
    (TPMT_PUBLIC_unique d)).
Definition TPMT_PUBLIC'parameters :=
  Member TPMT_PUBLIC_parameters (fun v d => Mk_TPMT_PUBLIC (TPMT_PUBLIC_type d)
    (TPMT_PUBLIC_nameAlg d) (TPMT_PUBLIC_objectAttributes d) (TPMT_PUBLIC_authPolicy d) v
    (TPMT_PUBLIC_unique d)).
Definition TPMT_PUBLIC'unique :=
  Member TPMT_PUBLIC_unique (fun v d => Mk_TPMT_PUBLIC (TPMT_PUBLIC_type d)
    (TPMT_PUBLIC_nameAlg d) (TPMT_PUBLIC_objectAttributes d) (TPMT_PUBLIC_authPolicy d)
    (TPMT_PUBLIC_parameters d) v).
Definition zero_TPMT_PUBLIC := Mk_TPMT_PUBLIC 0 0 0 (zero_2b cap_TPM2B_DIGEST)
    zero_TPMU_PUBLIC_PARMS zero_TPMU_PUBLIC_ID.

Record TPMT_PUBLIC_PARMS := Mk_TPMT_PUBLIC_PARMS {
  TPMT_PUBLIC_PARMS_type : Z;
  TPMT_PUBLIC_PARMS_parameters : TPMU_PUBLIC_PARMS }.
Definition TPMT_PUBLIC_PARMS'type :=
  Member TPMT_PUBLIC_PARMS_type (fun v d => Mk_TPMT_PUBLIC_PARMS v
    (TPMT_PUBLIC_PARMS_parameters d)).
Definition TPMT_PUBLIC_PARMS'parameters :=
  Member TPMT_PUBLIC_PARMS_parameters (fun v d => Mk_TPMT_PUBLIC_PARMS (TPMT_PUBLIC_PARMS_type d)
    v).
Definition zero_TPMT_PUBLIC_PARMS := Mk_TPMT_PUBLIC_PARMS 0 zero_TPMU_PUBLIC_PARMS.

Record TPMT_TK_CREATION := Mk_TPMT_TK_CREATION {
  TPMT_TK_CREATION_tag : Z;
  TPMT_TK_CREATION_hierarchy : Z;
  TPMT_TK_CREATION_digest : TPM2B }.
Definition TPMT_TK_CREATION'tag :=
  Member TPMT_TK_CREATION_tag (fun v d => Mk_TPMT_TK_CREATION v (TPMT_TK_CREATION_hierarchy d)
    (TPMT_TK_CREATION_digest d)).
Definition TPMT_TK_CREATION'hierarchy :=
  Member TPMT_TK_CREATION_hierarchy (fun v d => Mk_TPMT_TK_CREATION (TPMT_TK_CREATION_tag d) v
    (TPMT_TK_CREATION_digest d)).
Definition TPMT_TK_CREATION'digest :=
  Member TPMT_TK_CREATION_digest (fun v d => Mk_TPMT_TK_CREATION (TPMT_TK_CREATION_tag d)
    (TPMT_TK_CREATION_hierarchy d) v).
Definition zero_TPMT_TK_CREATION := Mk_TPMT_TK_CREATION 0 0 (zero_2b cap_TPM2B_DIGEST).

Record TPMT_TK_VERIFIED := Mk_TPMT_TK_VERIFIED {
  TPMT_TK_VERIFIED_tag : Z;
  TPMT_TK_VERIFIED_hierarchy : Z;
  TPMT_TK_VERIFIED_digest : TPM2B }.
Definition TPMT_TK_VERIFIED'tag :=
  Member TPMT_TK_VERIFIED_tag (fun v d => Mk_TPMT_TK_VERIFIED v (TPMT_TK_VERIFIED_hierarchy d)
    (TPMT_TK_VERIFIED_digest d)).
Definition TPMT_TK_VERIFIED'hierarchy :=
  Member TPMT_TK_VERIFIED_hierarchy (fun v d => Mk_TPMT_TK_VERIFIED (TPMT_TK_VERIFIED_tag d) v
    (TPMT_TK_VERIFIED_digest d)).
Definition TPMT_TK_VERIFIED'digest :=
  Member TPMT_TK_VERIFIED_digest (fun v d => Mk_TPMT_TK_VERIFIED (TPMT_TK_VERIFIED_tag d)
    (TPMT_TK_VERIFIED_hierarchy d) v).
Definition zero_TPMT_TK_VERIFIED := Mk_TPMT_TK_VERIFIED 0 0 (zero_2b cap_TPM2B_DIGEST).

Record TPMT_TK_AUTH := Mk_TPMT_TK_AUTH {
  TPMT_TK_AUTH_tag : Z;
  TPMT_TK_AUTH_hierarchy : Z;
  TPMT_TK_AUTH_digest : TPM2B }.
Definition TPMT_TK_AUTH'tag :=
  Member TPMT_TK_AUTH_tag (fun v d => Mk_TPMT_TK_AUTH v (TPMT_TK_AUTH_hierarchy d)
    (TPMT_TK_AUTH_digest d)).
Definition TPMT_TK_AUTH'hierarchy :=
  Member TPMT_TK_AUTH_hierarchy (fun v d => Mk_TPMT_TK_AUTH (TPMT_TK_AUTH_tag d) v
    (TPMT_TK_AUTH_digest d)).
Definition TPMT_TK_AUTH'digest :=
  Member TPMT_TK_AUTH_digest (fun v d => Mk_TPMT_TK_AUTH (TPMT_TK_AUTH_tag d)
    (TPMT_TK_AUTH_hierarchy d) v).
Definition zero_TPMT_TK_AUTH := Mk_TPMT_TK_AUTH 0 0 (zero_2b cap_TPM2B_DIGEST).

Record TPMT_TK_HASHCHECK := Mk_TPMT_TK_HASHCHECK {
  TPMT_TK_HASHCHECK_tag : Z;
  TPMT_TK_HASHCHECK_hierarchy : Z;
  TPMT_TK_HASHCHECK_digest : TPM2B }.
Definition TPMT_TK_HASHCHECK'tag :=
  Member TPMT_TK_HASHCHECK_tag (fun v d => Mk_TPMT_TK_HASHCHECK v
    (TPMT_TK_HASHCHECK_hierarchy d) (TPMT_TK_HASHCHECK_digest d)).
Definition TPMT_TK_HASHCHECK'hierarchy :=
  Member TPMT_TK_HASHCHECK_hierarchy (fun v d => Mk_TPMT_TK_HASHCHECK (TPMT_TK_HASHCHECK_tag d)
    v (TPMT_TK_HASHCHECK_digest d)).
Definition TPMT_TK_HASHCHECK'digest :=
  Member TPMT_TK_HASHCHECK_digest (fun v d => Mk_TPMT_TK_HASHCHECK (TPMT_TK_HASHCHECK_tag d)
    (TPMT_TK_HASHCHECK_hierarchy d) v).
Definition zero_TPMT_TK_HASHCHECK := Mk_TPMT_TK_HASHCHECK 0 0 (zero_2b cap_TPM2B_DIGEST).
Definition TPM2_MAX_ALG_LIST_SIZE := 128.
Definition cap_TPML_ALG := TPM2_MAX_ALG_LIST_SIZE.
Definition cap_TPML_DIGEST := 8.
Definition cap_TPML_DIGEST_VALUES := TPM2_NUM_PCR_BANKS.
Definition TPM2_MAX_PTT_PROPERTIES := (TPM2_MAX_CAP_BUFFER / 4).
Definition cap_TPML_INTEL_PTT_PROPERTY := TPM2_MAX_PTT_PROPERTIES.
Definition lay_TPMS_AC_OUTPUT := lay_struct [lay_int 4; lay_int 4].
Definition TPM2_MAX_AC_CAPABILITIES := (TPM2_MAX_CAP_BUFFER / (lsize lay_TPMS_AC_OUTPUT)).
Definition cap_TPML_AC_CAPABILITIES := TPM2_MAX_AC_CAPABILITIES.
Definition cap_TPML_ML_PARAMETER_SET := 6.
Definition cap_TPM2B_EVENT := 1024.
Definition TPM2_MAX_DIGEST_BUFFER := 1024.
Definition cap_TPM2B_MAX_BUFFER := TPM2_MAX_DIGEST_BUFFER.
Definition TPM2_MAX_SYM_BLOCK_SIZE := 16.
Definition cap_TPM2B_IV := TPM2_MAX_SYM_BLOCK_SIZE.
Definition lay_TPM2B_NAME := lay_struct [lay_int 2; lay_array (lsize lay_TPMU_NAME) (lay_int 1)].
Definition lay_TPM2B_DATA := lay_struct [lay_int 2; lay_array (lsize lay_TPMU_HA) (lay_int 1)].
Definition lay_TPMS_CLOCK_INFO := lay_struct [lay_int 8; lay_int 4; lay_int 4; lay_int 1].
Definition lay_TPMS_CERTIFY_INFO := lay_struct [lay_TPM2B_NAME; lay_TPM2B_NAME].
Definition lay_TPMS_CREATION_INFO := lay_struct [lay_TPM2B_NAME; lay_TPM2B_DIGEST].
Definition lay_TPMS_PCR_SELECTION := lay_struct [lay_int 2; lay_int 1;
    lay_array TPM2_PCR_SELECT_MAX (lay_int 1)].
Definition lay_TPML_PCR_SELECTION := lay_struct [lay_int 4;
    lay_array TPM2_NUM_PCR_BANKS lay_TPMS_PCR_SELECTION].
Definition lay_TPMS_QUOTE_INFO := lay_struct [lay_TPML_PCR_SELECTION; lay_TPM2B_DIGEST].
Definition lay_TPMS_COMMAND_AUDIT_INFO := lay_struct [lay_int 8; lay_int 2; lay_TPM2B_DIGEST;
    lay_TPM2B_DIGEST].
Definition lay_TPMS_SESSION_AUDIT_INFO := lay_struct [lay_int 1; lay_TPM2B_DIGEST].
Definition lay_TPMS_TIME_INFO := lay_struct [lay_int 8; lay_TPMS_CLOCK_INFO].
Definition lay_TPMS_TIME_ATTEST_INFO := lay_struct [lay_TPMS_TIME_INFO; lay_int 8].
Definition lay_TPM2B_MAX_NV_BUFFER := lay_struct [lay_int 2;
    lay_array TPM2_MAX_NV_BUFFER_SIZE (lay_int 1)].
Definition lay_TPMS_NV_CERTIFY_INFO := lay_struct [lay_TPM2B_NAME; lay_int 2;
    lay_TPM2B_MAX_NV_BUFFER].
Definition lay_TPMU_ATTEST := lay_union [lay_TPMS_CERTIFY_INFO; lay_TPMS_CREATION_INFO;
    lay_TPMS_QUOTE_INFO; lay_TPMS_COMMAND_AUDIT_INFO; lay_TPMS_SESSION_AUDIT_INFO;
    lay_TPMS_TIME_ATTEST_INFO; lay_TPMS_NV_CERTIFY_INFO].
Definition lay_TPMS_ATTEST := lay_struct [lay_int 4; lay_int 2; lay_TPM2B_NAME; lay_TPM2B_DATA;
    lay_TPMS_CLOCK_INFO; lay_int 8; lay_TPMU_ATTEST].
Definition cap_TPM2B_ATTEST := (lsize lay_TPMS_ATTEST).
Definition TPM2_MAX_SYM_KEY_BYTES := 32.
Definition cap_TPM2B_SYM_KEY := TPM2_MAX_SYM_KEY_BYTES.
Definition cap_TPM2B_PRIVATE_KEY_RSA := TPM2_MAX_RSA_KEY_BYTES / 2 * 5.
Definition lay_TPM2B_ECC_PARAMETER := lay_struct [lay_int 2;
    lay_array TPM2_MAX_ECC_KEY_BYTES (lay_int 1)].
Definition lay_TPMS_ECC_POINT := lay_struct [lay_TPM2B_ECC_PARAMETER; lay_TPM2B_ECC_PARAMETER].
Definition TPM2_MAX_MLKEM_CIPHERTEXT_SIZE := 1568.
Definition lay_TPMU_ENCRYPTED_SECRET := lay_union [lay_array (lsize lay_TPMS_ECC_POINT) (lay_int 1);
    lay_array TPM2_MAX_RSA_KEY_BYTES (lay_int 1);
    lay_array (lsize lay_TPM2B_DIGEST) (lay_int 1);
    lay_array (lsize lay_TPM2B_DIGEST) (lay_int 1);
    lay_array TPM2_MAX_MLKEM_CIPHERTEXT_SIZE (lay_int 1)].
Definition cap_TPM2B_ENCRYPTED_SECRET := (lsize lay_TPMU_ENCRYPTED_SECRET).
Definition lay_TPM2B_PRIVATE_KEY_RSA := lay_struct [lay_int 2;
    lay_array (TPM2_MAX_RSA_KEY_BYTES / 2 * 5) (lay_int 1)].
Definition lay_TPM2B_SENSITIVE_DATA := lay_struct [lay_int 2;
    lay_array (lsize lay_TPMU_SENSITIVE_CREATE) (lay_int 1)].
Definition lay_TPM2B_SYM_KEY := lay_struct [lay_int 2;
    lay_array TPM2_MAX_SYM_KEY_BYTES (lay_int 1)].
Definition lay_TPM2B_PRIVATE_VENDOR_SPECIFIC := lay_struct [lay_int 2;
    lay_array TPM2_PRIVATE_VENDOR_SPECIFIC_BYTES (lay_int 1)].
Definition TPM2_MLKEM_PRIVATE_KEY_SIZE := 64.
Definition lay_TPM2B_MLKEM_PRIVATE_KEY := lay_struct [lay_int 2;
    lay_array TPM2_MLKEM_PRIVATE_KEY_SIZE (lay_int 1)].
Definition TPM2_MLDSA_PRIVATE_KEY_SIZE := 32.
Definition lay_TPM2B_MLDSA_PRIVATE_KEY := lay_struct [lay_int 2;
    lay_array TPM2_MLDSA_PRIVATE_KEY_SIZE (lay_int 1)].
Definition lay_TPMU_SENSITIVE_COMPOSITE := lay_union [lay_TPM2B_PRIVATE_KEY_RSA;
    lay_TPM2B_ECC_PARAMETER; lay_TPM2B_SENSITIVE_DATA; lay_TPM2B_SYM_KEY;
    lay_TPM2B_PRIVATE_VENDOR_SPECIFIC; lay_TPM2B_MLKEM_PRIVATE_KEY; lay_TPM2B_MLDSA_PRIVATE_KEY].
Definition lay_TPMT_SENSITIVE := lay_struct [lay_int 2; lay_TPM2B_DIGEST; lay_TPM2B_DIGEST;
    lay_TPMU_SENSITIVE_COMPOSITE].
Definition lay_TPM2B_SENSITIVE := lay_struct [lay_int 2; lay_TPMT_SENSITIVE].
Definition lay__PRIVATE := lay_struct [lay_TPM2B_DIGEST; lay_TPM2B_DIGEST; lay_TPM2B_SENSITIVE].
Definition cap_TPM2B_PRIVATE := (lsize lay__PRIVATE).
Definition lay_TPMS_ID_OBJECT := lay_struct [lay_TPM2B_DIGEST; lay_TPM2B_DIGEST].
Definition cap_TPM2B_ID_OBJECT := (lsize lay_TPMS_ID_OBJECT).
Definition lay_TPMS_SCHEME_HASH := lay_struct [lay_int 2].
Definition lay_TPMS_SCHEME_XOR := lay_struct [lay_int 2; lay_int 2].
Definition lay_TPMS_EMPTY := lay_struct [lay_array 1 (lay_int 1)].
Definition lay_TPMU_SCHEME_KEYEDHASH := lay_union [lay_TPMS_SCHEME_HASH; lay_TPMS_SCHEME_XOR;
    lay_TPMS_EMPTY].
Definition lay_TPMT_KEYEDHASH_SCHEME := lay_struct [lay_int 2; lay_TPMU_SCHEME_KEYEDHASH].
Definition lay_TPMS_KEYEDHASH_PARMS := lay_struct [lay_TPMT_KEYEDHASH_SCHEME].
Definition lay_TPMU_SYM_KEY_BITS := lay_union [lay_int 2; lay_int 2; lay_int 2; lay_int 2;
    lay_int 2; lay_TPMS_EMPTY].
Definition lay_TPMU_SYM_MODE := lay_union [lay_int 2; lay_int 2; lay_int 2; lay_int 2;
    lay_TPMS_EMPTY; lay_TPMS_EMPTY].
Definition lay_TPMT_SYM_DEF_OBJECT := lay_struct [lay_int 2; lay_TPMU_SYM_KEY_BITS;
    lay_TPMU_SYM_MODE].
Definition lay_TPMS_SYMCIPHER_PARMS := lay_struct [lay_TPMT_SYM_DEF_OBJECT].
Definition lay_TPMS_SCHEME_ECDAA := lay_struct [lay_int 2; lay_int 2].
Definition lay_TPMU_ASYM_SCHEME := lay_union [lay_TPMS_SCHEME_HASH; lay_TPMS_SCHEME_HASH;
    lay_TPMS_SCHEME_HASH; lay_TPMS_SCHEME_HASH; lay_TPMS_SCHEME_HASH; lay_TPMS_SCHEME_ECDAA;
    lay_TPMS_SCHEME_HASH; lay_TPMS_SCHEME_HASH; lay_TPMS_EMPTY; lay_TPMS_SCHEME_HASH;
    lay_TPMS_SCHEME_HASH; lay_TPMS_SCHEME_HASH; lay_TPMS_EMPTY].
Definition lay_TPMT_RSA_SCHEME := lay_struct [lay_int 2; lay_TPMU_ASYM_SCHEME].
Definition lay_TPMS_RSA_PARMS := lay_struct [lay_TPMT_SYM_DEF_OBJECT; lay_TPMT_RSA_SCHEME;
    lay_int 2; lay_int 4].
Definition lay_TPMT_ECC_SCHEME := lay_struct [lay_int 2; lay_TPMU_ASYM_SCHEME].
Definition lay_TPMU_KDF_SCHEME := lay_union [lay_TPMS_SCHEME_HASH; lay_TPMS_SCHEME_HASH;
    lay_TPMS_SCHEME_HASH; lay_TPMS_SCHEME_HASH; lay_TPMS_EMPTY].
Definition lay_TPMT_KDF_SCHEME := lay_struct [lay_int 2; lay_TPMU_KDF_SCHEME].
Definition lay_TPMS_ECC_PARMS := lay_struct [lay_TPMT_SYM_DEF_OBJECT; lay_TPMT_ECC_SCHEME;
    lay_int 2; lay_TPMT_KDF_SCHEME].
Definition lay_TPMS_ML_PARAMETER_SET := lay_struct [lay_int 4].
Definition lay_TPMS_MLKEM_PARMS := lay_struct [lay_int 2; lay_TPMS_ML_PARAMETER_SET].
Definition lay_TPMS_MLDSA_PARMS := lay_struct [lay_int 2; lay_TPMS_ML_PARAMETER_SET].
Definition lay_TPMS_HASH_MLDSA_PARMS := lay_struct [lay_int 2; lay_TPMS_ML_PARAMETER_SET].
Definition lay_TPMT_ASYM_SCHEME := lay_struct [lay_int 2; lay_TPMU_ASYM_SCHEME].
Definition lay_TPMS_ASYM_PARMS := lay_struct [lay_TPMT_SYM_DEF_OBJECT; lay_TPMT_ASYM_SCHEME].
Definition lay_TPMU_PUBLIC_PARMS := lay_union [lay_TPMS_KEYEDHASH_PARMS;
    lay_TPMS_SYMCIPHER_PARMS; lay_TPMS_RSA_PARMS; lay_TPMS_ECC_PARMS; lay_TPMS_MLKEM_PARMS;
    lay_TPMS_MLDSA_PARMS; lay_TPMS_HASH_MLDSA_PARMS; lay_TPMS_ASYM_PARMS].
Definition lay_TPM2B_PUBLIC_KEY_RSA := lay_struct [lay_int 2;
    lay_array TPM2_MAX_RSA_KEY_BYTES (lay_int 1)].
Definition lay_TPM2B_MLKEM_PUBLIC_KEY := lay_struct [lay_int 2;
    lay_array TPM2_MAX_MLKEM_PUBLIC_KEY_SIZE (lay_int 1)].
Definition lay_TPM2B_MLDSA_PUBLIC_KEY := lay_struct [lay_int 2;
    lay_array TPM2_MAX_MLDSA_PUBLIC_KEY_SIZE (lay_int 1)].
Definition lay_TPMU_PUBLIC_ID := lay_union [lay_TPM2B_DIGEST; lay_TPM2B_DIGEST;
    lay_TPM2B_PUBLIC_KEY_RSA; lay_TPMS_ECC_POINT; lay_TPMS_DERIVE; lay_TPM2B_MLKEM_PUBLIC_KEY;
    lay_TPM2B_MLDSA_PUBLIC_KEY].
Definition lay_TPMT_PUBLIC := lay_struct [lay_int 2; lay_int 2; lay_int 4; lay_TPM2B_DIGEST;
    lay_TPMU_PUBLIC_PARMS; lay_TPMU_PUBLIC_ID].
Definition cap_TPM2B_TEMPLATE := (lsize lay_TPMT_PUBLIC).
Definition lay_TPMS_NV_PUBLIC := lay_struct [lay_int 4; lay_int 2; lay_int 4; lay_TPM2B_DIGEST;
    lay_int 2].
Definition lay_TPMS_SENSITIVE_CREATE := lay_struct [lay_TPM2B_DIGEST; lay_TPM2B_SENSITIVE_DATA].
Definition lay_TPMS_CREATION_DATA := lay_struct [lay_TPML_PCR_SELECTION; lay_TPM2B_DIGEST;
    lay_int 1; lay_int 2; lay_TPM2B_NAME; lay_TPM2B_NAME; lay_TPM2B_DATA].
Definition cap_TPM2B_MLKEM_PRIVATE_KEY := TPM2_MLKEM_PRIVATE_KEY_SIZE.
Definition cap_TPM2B_MLKEM_CIPHERTEXT := TPM2_MAX_MLKEM_CIPHERTEXT_SIZE.
Definition cap_TPM2B_MLDSA_PRIVATE_KEY := TPM2_MLDSA_PRIVATE_KEY_SIZE.
Definition zero_TPMU_HA : bytes := replicate (Z.to_nat (lsize lay_TPMU_HA)) 0.
Definition zero_TPMU_ENCRYPTED_SECRET : bytes := replicate (Z.to_nat (lsize lay_TPMU_ENCRYPTED_SECRET)) 0.

Inductive TPMU_NAME :=
| TPMU_NAME_of_UINT32 (v : Z)
| TPMU_NAME_of_TPMT_HA (v : TPMT_HA).
Definition TPMU_NAME'UINT32 := UMember
  (fun u => match u with TPMU_NAME_of_UINT32 v => Some v | _ => None end)
  (fun v _ => TPMU_NAME_of_UINT32 v) 0.
Definition TPMU_NAME'TPMT_HA := UMember
  (fun u => match u with TPMU_NAME_of_TPMT_HA v => Some v | _ => None end)
  (fun v _ => TPMU_NAME_of_TPMT_HA v) zero_TPMT_HA.
Definition zero_TPMU_NAME := TPMU_NAME_of_UINT32 0.
Definition TPM2_ALG_SHA1 := 4.
Definition TPM2_ALG_SHA256 := 11.
Definition TPM2_ALG_SHA384 := 12.
Definition TPM2_ALG_SHA512 := 13.
Definition TPM2_ALG_SM3_256 := 18.
Definition TPM2_CAP_ALGS := 0.
Definition TPM2_CAP_HANDLES := 1.
Definition TPM2_CAP_COMMANDS := 2.
Definition TPM2_CAP_PP_COMMANDS := 3.
Definition TPM2_CAP_AUDIT_COMMANDS := 4.
Definition TPM2_CAP_PCRS := 5.
Definition TPM2_CAP_TPM_PROPERTIES := 6.
Definition TPM2_CAP_PCR_PROPERTIES := 7.
Definition TPM2_CAP_ECC_CURVES := 8.
Definition TPM2_CAP_AUTH_POLICIES := 9.
Definition TPM2_CAP_ACT := 10.
Definition TPM2_CAP_VENDOR_PROPERTY := 256.
Definition TPM2_ST_ATTEST_CERTIFY := 32791.
Definition TPM2_ST_ATTEST_CREATION := 32794.
Definition TPM2_ST_ATTEST_QUOTE := 32792.
Definition TPM2_ST_ATTEST_COMMAND_AUDIT := 32789.
Definition TPM2_ST_ATTEST_SESSION_AUDIT := 32790.
Definition TPM2_ST_ATTEST_TIME := 32793.
Definition TPM2_ST_ATTEST_NV := 32788.
Definition TPM2_ALG_AES := 6.
Definition TPM2_ALG_SM4 := 19.
Definition TPM2_ALG_CAMELLIA := 38.
Definition TPM2_ALG_XOR := 10.
Definition TPM2_ALG_SYMCIPHER := 37.
Definition TPM2_ALG_RSASSA := 20.
Definition TPM2_ALG_RSAPSS := 22.
Definition TPM2_ALG_ECDSA := 24.
Definition TPM2_ALG_ECDAA := 26.
Definition TPM2_ALG_SM2 := 27.
Definition TPM2_ALG_ECSCHNORR := 28.
Definition TPM2_ALG_HMAC := 5.
Definition TPM2_ALG_MGF1 := 7.
Definition TPM2_ALG_KDF1_SP800_56A := 32.
Definition TPM2_ALG_KDF1_SP800_108 := 34.
Definition TPM2_ALG_KDF2 := 33.
Definition TPM2_ALG_ECDH := 25.
Definition TPM2_ALG_ECMQV := 29.
Definition TPM2_ALG_RSAES := 21.
Definition TPM2_ALG_OAEP := 23.
Definition TPM2_ALG_MLDSA := 161.
Definition TPM2_ALG_RSA := 1.
Definition TPM2_ALG_ECC := 35.
Definition TPM2_ALG_KEYEDHASH := 8.
Definition TPM2_ALG_MLKEM := 160.
Definition TPM2_GENERATED_VALUE := 4283712327.
Definition TPM2_ALG_HASH_MLDSA := 162.

(** ** Members of the unions modelled by their storage *)

(** All members at the same place, with the same type. *)
Definition whole {U} (zero : U) : umember U U := UMember Some (fun v _ => v) zero.

(** A [TPMS_SCHEME_HASH] over the first member of a larger structure. *)
Definition hash_of_ecdaa : umember TPMS_SCHEME_ECDAA TPMS_SCHEME_HASH := UMember
  (fun u => Some (Mk_TPMS_SCHEME_HASH (TPMS_SCHEME_ECDAA_hashAlg u)))
  (fun v u => Mk_TPMS_SCHEME_ECDAA (TPMS_SCHEME_HASH_hashAlg v) (TPMS_SCHEME_ECDAA_count u))
  zero_TPMS_SCHEME_HASH.
Definition hash_of_xor : umember TPMS_SCHEME_XOR TPMS_SCHEME_HASH := UMember
  (fun u => Some (Mk_TPMS_SCHEME_HASH (TPMS_SCHEME_XOR_hashAlg u)))
  (fun v u => Mk_TPMS_SCHEME_XOR (TPMS_SCHEME_HASH_hashAlg v) (TPMS_SCHEME_XOR_kdf u))
  zero_TPMS_SCHEME_HASH.

(** A sized buffer of capacity [cap] at the start of a larger one. *)
Definition sub_2b (cap : Z) : umember TPM2B TPM2B := UMember
  (fun u => Some (MkTPM2B (size u) (take (Z.to_nat cap) (buffer u))))
  (fun v u => MkTPM2B (size v) (buffer v ++ drop (Z.to_nat cap) (buffer u)))
  (zero_2b cap).
