(* ===== verification/MuTypes.v ===== *)
(** * The marshaling functions of [src/tss2-mu], one pair per type.

    Each definition is the instance of its macro in [tpm2b-types.c],
    [tpml-types.c], [tpms-types.c], [tpmt-types.c] or [tpmu-types.c], with the
    members and member functions listed there. *)

From S2P Require Import Prelude Common MuSpec MuBase MuStruct MuTpm2b MuUnion MuPcr TpmTypes.
Open Scope tss_scope.

(** ** Byte arrays of the unions *)

Definition marshal_hash_sha (src : option bytes) : mstep := marshal_tab src TPM2_SHA1_DIGEST_SIZE.
Definition marshal_hash_sha256 (src : option bytes) : mstep := marshal_tab src TPM2_SHA256_DIGEST_SIZE.
Definition marshal_hash_sha384 (src : option bytes) : mstep := marshal_tab src TPM2_SHA384_DIGEST_SIZE.
Definition marshal_hash_sha512 (src : option bytes) : mstep := marshal_tab src TPM2_SHA512_DIGEST_SIZE.
Definition marshal_sm3_256 (src : option bytes) : mstep := marshal_tab src TPM2_SM3_256_DIGEST_SIZE.
Definition marshal_ecc (src : option bytes) : mstep := marshal_tab src (lsize lay_TPMS_ECC_POINT).
Definition marshal_rsa (src : option bytes) : mstep := marshal_tab src TPM2_MAX_RSA_KEY_BYTES.
Definition marshal_symmetric (src : option bytes) : mstep := marshal_tab src (lsize lay_TPM2B_DIGEST).
Definition marshal_keyedhash (src : option bytes) : mstep := marshal_tab src (lsize lay_TPM2B_DIGEST).
Definition unmarshal_hash_sha : ufn bytes := unmarshal_tab TPM2_SHA1_DIGEST_SIZE.
Definition unmarshal_hash_sha256 : ufn bytes := unmarshal_tab TPM2_SHA256_DIGEST_SIZE.
Definition unmarshal_hash_sha384 : ufn bytes := unmarshal_tab TPM2_SHA384_DIGEST_SIZE.
Definition unmarshal_hash_sha512 : ufn bytes := unmarshal_tab TPM2_SHA512_DIGEST_SIZE.
Definition unmarshal_sm3_256 : ufn bytes := unmarshal_tab TPM2_SM3_256_DIGEST_SIZE.
Definition unmarshal_ecc : ufn bytes := unmarshal_tab (lsize lay_TPMS_ECC_POINT).
Definition unmarshal_rsa : ufn bytes := unmarshal_tab TPM2_MAX_RSA_KEY_BYTES.
Definition unmarshal_symmetric : ufn bytes := unmarshal_tab (lsize lay_TPM2B_DIGEST).
Definition unmarshal_keyedhash : ufn bytes := unmarshal_tab (lsize lay_TPM2B_DIGEST).

Section Types.
Context {H : Host}.

Definition TPM2_GENERATED_Unmarshal : ufn Z :=
  fun buffer buffer_size offset magic =>
  let* (rc, (offset, mymagic)) :=
    Tss2_MU_UINT32_Unmarshal buffer buffer_size offset (Some 0) in
  if negb (rc =? TSS2_RC_SUCCESS) then Ret (rc, (offset, magic))
  else if negb (default 0 mymagic =? TPM2_GENERATED_VALUE)
  then Ret (TSS2_SYS_RC_BAD_VALUE, (offset, magic))
  else Ret (TSS2_RC_SUCCESS, (offset, match magic with Some _ => mymagic | None => None end)).

Definition Tss2_MU_TPMS_PCR_SELECT_Marshal : option TPMS_PCR_SELECT -> mstep :=
  TPMS_PCR_MARSHAL TPMS_PCR_SELECT'sizeofSelect TPMS_PCR_SELECT'pcrSelect no_field.
Definition Tss2_MU_TPMS_PCR_SELECT_Unmarshal : ufn TPMS_PCR_SELECT :=
  TPMS_PCR_UNMARSHAL TPMS_PCR_SELECT'sizeofSelect TPMS_PCR_SELECT'pcrSelect zero_TPMS_PCR_SELECT no_ufield.

Definition Tss2_MU_TPMS_PCR_SELECTION_Marshal : option TPMS_PCR_SELECTION -> mstep :=
  TPMS_PCR_MARSHAL TPMS_PCR_SELECTION'sizeofSelect TPMS_PCR_SELECTION'pcrSelect (mfield TPMS_PCR_SELECTION'hash Tss2_MU_TPMI_ALG_HASH_Marshal).
Definition Tss2_MU_TPMS_PCR_SELECTION_Unmarshal : ufn TPMS_PCR_SELECTION :=
  TPMS_PCR_UNMARSHAL TPMS_PCR_SELECTION'sizeofSelect TPMS_PCR_SELECTION'pcrSelect zero_TPMS_PCR_SELECTION (ufield TPMS_PCR_SELECTION'hash Tss2_MU_TPMI_ALG_HASH_Unmarshal).

Definition Tss2_MU_TPMS_TAGGED_PCR_SELECT_Marshal : option TPMS_TAGGED_PCR_SELECT -> mstep :=
  TPMS_PCR_MARSHAL TPMS_TAGGED_PCR_SELECT'sizeofSelect TPMS_TAGGED_PCR_SELECT'pcrSelect (mfield TPMS_TAGGED_PCR_SELECT'tag Tss2_MU_UINT32_Marshal).
Definition Tss2_MU_TPMS_TAGGED_PCR_SELECT_Unmarshal : ufn TPMS_TAGGED_PCR_SELECT :=
  TPMS_PCR_UNMARSHAL TPMS_TAGGED_PCR_SELECT'sizeofSelect TPMS_TAGGED_PCR_SELECT'pcrSelect zero_TPMS_TAGGED_PCR_SELECT (ufield TPMS_TAGGED_PCR_SELECT'tag Tss2_MU_UINT32_Unmarshal).

Definition Tss2_MU_TPM2B_DIGEST_Marshal : option TPM2B -> mstep :=
  TPM2B_MARSHAL cap_TPM2B_DIGEST.
Definition Tss2_MU_TPM2B_DIGEST_Unmarshal : ufn TPM2B :=
  TPM2B_UNMARSHAL cap_TPM2B_DIGEST.

Definition Tss2_MU_TPM2B_DATA_Marshal : option TPM2B -> mstep :=
  TPM2B_MARSHAL cap_TPM2B_DATA.
Definition Tss2_MU_TPM2B_DATA_Unmarshal : ufn TPM2B :=
  TPM2B_UNMARSHAL cap_TPM2B_DATA.

Definition Tss2_MU_TPM2B_EVENT_Marshal : option TPM2B -> mstep :=
  TPM2B_MARSHAL cap_TPM2B_EVENT.
Definition Tss2_MU_TPM2B_EVENT_Unmarshal : ufn TPM2B :=
  TPM2B_UNMARSHAL cap_TPM2B_EVENT.

Definition Tss2_MU_TPM2B_MAX_BUFFER_Marshal : option TPM2B -> mstep :=
  TPM2B_MARSHAL cap_TPM2B_MAX_BUFFER.
Definition Tss2_MU_TPM2B_MAX_BUFFER_Unmarshal : ufn TPM2B :=
  TPM2B_UNMARSHAL cap_TPM2B_MAX_BUFFER.

Definition Tss2_MU_TPM2B_MAX_NV_BUFFER_Marshal : option TPM2B -> mstep :=
  TPM2B_MARSHAL cap_TPM2B_MAX_NV_BUFFER.
Definition Tss2_MU_TPM2B_MAX_NV_BUFFER_Unmarshal : ufn TPM2B :=
  TPM2B_UNMARSHAL cap_TPM2B_MAX_NV_BUFFER.

Definition Tss2_MU_TPM2B_IV_Marshal : option TPM2B -> mstep :=
  TPM2B_MARSHAL cap_TPM2B_IV.
Definition Tss2_MU_TPM2B_IV_Unmarshal : ufn TPM2B :=
  TPM2B_UNMARSHAL cap_TPM2B_IV.

Definition Tss2_MU_TPM2B_NAME_Marshal : option TPM2B -> mstep :=
  TPM2B_MARSHAL cap_TPM2B_NAME.
Definition Tss2_MU_TPM2B_NAME_Unmarshal : ufn TPM2B :=
  TPM2B_UNMARSHAL cap_TPM2B_NAME.

Definition Tss2_MU_TPM2B_ATTEST_Marshal : option TPM2B -> mstep :=
  TPM2B_MARSHAL cap_TPM2B_ATTEST.
Definition Tss2_MU_TPM2B_ATTEST_Unmarshal : ufn TPM2B :=
  TPM2B_UNMARSHAL cap_TPM2B_ATTEST.

Definition Tss2_MU_TPM2B_SYM_KEY_Marshal : option TPM2B -> mstep :=
  TPM2B_MARSHAL cap_TPM2B_SYM_KEY.
Definition Tss2_MU_TPM2B_SYM_KEY_Unmarshal : ufn TPM2B :=
  TPM2B_UNMARSHAL cap_TPM2B_SYM_KEY.

Definition Tss2_MU_TPM2B_SENSITIVE_DATA_Marshal : option TPM2B -> mstep :=
  TPM2B_MARSHAL cap_TPM2B_SENSITIVE_DATA.
Definition Tss2_MU_TPM2B_SENSITIVE_DATA_Unmarshal : ufn TPM2B :=
  TPM2B_UNMARSHAL cap_TPM2B_SENSITIVE_DATA.

Definition Tss2_MU_TPM2B_PUBLIC_KEY_RSA_Marshal : option TPM2B -> mstep :=
  TPM2B_MARSHAL cap_TPM2B_PUBLIC_KEY_RSA.
Definition Tss2_MU_TPM2B_PUBLIC_KEY_RSA_Unmarshal : ufn TPM2B :=
  TPM2B_UNMARSHAL cap_TPM2B_PUBLIC_KEY_RSA.

Definition Tss2_MU_TPM2B_PRIVATE_KEY_RSA_Marshal : option TPM2B -> mstep :=
  TPM2B_MARSHAL cap_TPM2B_PRIVATE_KEY_RSA.
Definition Tss2_MU_TPM2B_PRIVATE_KEY_RSA_Unmarshal : ufn TPM2B :=
  TPM2B_UNMARSHAL cap_TPM2B_PRIVATE_KEY_RSA.

Definition Tss2_MU_TPM2B_ECC_PARAMETER_Marshal : option TPM2B -> mstep :=
  TPM2B_MARSHAL cap_TPM2B_ECC_PARAMETER.
Definition Tss2_MU_TPM2B_ECC_PARAMETER_Unmarshal : ufn TPM2B :=
  TPM2B_UNMARSHAL cap_TPM2B_ECC_PARAMETER.

Definition Tss2_MU_TPM2B_ENCRYPTED_SECRET_Marshal : option TPM2B -> mstep :=
  TPM2B_MARSHAL cap_TPM2B_ENCRYPTED_SECRET.
Definition Tss2_MU_TPM2B_ENCRYPTED_SECRET_Unmarshal : ufn TPM2B :=
  TPM2B_UNMARSHAL cap_TPM2B_ENCRYPTED_SECRET.

Definition Tss2_MU_TPM2B_PRIVATE_VENDOR_SPECIFIC_Marshal : option TPM2B -> mstep :=
  TPM2B_MARSHAL cap_TPM2B_PRIVATE_VENDOR_SPECIFIC.
Definition Tss2_MU_TPM2B_PRIVATE_VENDOR_SPECIFIC_Unmarshal : ufn TPM2B :=
  TPM2B_UNMARSHAL cap_TPM2B_PRIVATE_VENDOR_SPECIFIC.

Definition Tss2_MU_TPM2B_PRIVATE_Marshal : option TPM2B -> mstep :=
  TPM2B_MARSHAL cap_TPM2B_PRIVATE.
Definition Tss2_MU_TPM2B_PRIVATE_Unmarshal : ufn TPM2B :=
  TPM2B_UNMARSHAL cap_TPM2B_PRIVATE.

Definition Tss2_MU_TPM2B_ID_OBJECT_Marshal : option TPM2B -> mstep :=
  TPM2B_MARSHAL cap_TPM2B_ID_OBJECT.
Definition Tss2_MU_TPM2B_ID_OBJECT_Unmarshal : ufn TPM2B :=
  TPM2B_UNMARSHAL cap_TPM2B_ID_OBJECT.

Definition Tss2_MU_TPM2B_CONTEXT_SENSITIVE_Marshal : option TPM2B -> mstep :=
  TPM2B_MARSHAL cap_TPM2B_CONTEXT_SENSITIVE.
Definition Tss2_MU_TPM2B_CONTEXT_SENSITIVE_Unmarshal : ufn TPM2B :=
  TPM2B_UNMARSHAL cap_TPM2B_CONTEXT_SENSITIVE.

Definition Tss2_MU_TPM2B_CONTEXT_DATA_Marshal : option TPM2B -> mstep :=
  TPM2B_MARSHAL cap_TPM2B_CONTEXT_DATA.
Definition Tss2_MU_TPM2B_CONTEXT_DATA_Unmarshal : ufn TPM2B :=
  TPM2B_UNMARSHAL cap_TPM2B_CONTEXT_DATA.

Definition Tss2_MU_TPM2B_NONCE_Marshal : option TPM2B -> mstep :=
  TPM2B_MARSHAL cap_TPM2B_DIGEST.
Definition Tss2_MU_TPM2B_NONCE_Unmarshal : ufn TPM2B :=
  TPM2B_UNMARSHAL cap_TPM2B_DIGEST.

Definition Tss2_MU_TPM2B_TIMEOUT_Marshal : option TPM2B -> mstep :=
  TPM2B_MARSHAL cap_TPM2B_DIGEST.
Definition Tss2_MU_TPM2B_TIMEOUT_Unmarshal : ufn TPM2B :=
  TPM2B_UNMARSHAL cap_TPM2B_DIGEST.

Definition Tss2_MU_TPM2B_AUTH_Marshal : option TPM2B -> mstep :=
  TPM2B_MARSHAL cap_TPM2B_DIGEST.
Definition Tss2_MU_TPM2B_AUTH_Unmarshal : ufn TPM2B :=
  TPM2B_UNMARSHAL cap_TPM2B_DIGEST.

Definition Tss2_MU_TPM2B_OPERAND_Marshal : option TPM2B -> mstep :=
  TPM2B_MARSHAL cap_TPM2B_DIGEST.
Definition Tss2_MU_TPM2B_OPERAND_Unmarshal : ufn TPM2B :=
  TPM2B_UNMARSHAL cap_TPM2B_DIGEST.

Definition Tss2_MU_TPM2B_TEMPLATE_Marshal : option TPM2B -> mstep :=
  TPM2B_MARSHAL cap_TPM2B_TEMPLATE.
Definition Tss2_MU_TPM2B_TEMPLATE_Unmarshal : ufn TPM2B :=
  TPM2B_UNMARSHAL cap_TPM2B_TEMPLATE.

Definition Tss2_MU_TPM2B_MAX_CAP_BUFFER_Marshal : option TPM2B -> mstep :=
  TPM2B_MARSHAL cap_TPM2B_MAX_CAP_BUFFER.
Definition Tss2_MU_TPM2B_MAX_CAP_BUFFER_Unmarshal : ufn TPM2B :=
  TPM2B_UNMARSHAL cap_TPM2B_MAX_CAP_BUFFER.

Definition Tss2_MU_TPM2B_MLKEM_PUBLIC_KEY_Marshal : option TPM2B -> mstep :=
  TPM2B_MARSHAL cap_TPM2B_MLKEM_PUBLIC_KEY.
Definition Tss2_MU_TPM2B_MLKEM_PUBLIC_KEY_Unmarshal : ufn TPM2B :=
  TPM2B_UNMARSHAL cap_TPM2B_MLKEM_PUBLIC_KEY.

Definition Tss2_MU_TPM2B_MLKEM_PRIVATE_KEY_Marshal : option TPM2B -> mstep :=
  TPM2B_MARSHAL cap_TPM2B_MLKEM_PRIVATE_KEY.
Definition Tss2_MU_TPM2B_MLKEM_PRIVATE_KEY_Unmarshal : ufn TPM2B :=
  TPM2B_UNMARSHAL cap_TPM2B_MLKEM_PRIVATE_KEY.

Definition Tss2_MU_TPM2B_MLKEM_CIPHERTEXT_Marshal : option TPM2B -> mstep :=
  TPM2B_MARSHAL cap_TPM2B_MLKEM_CIPHERTEXT.
Definition Tss2_MU_TPM2B_MLKEM_CIPHERTEXT_Unmarshal : ufn TPM2B :=
  TPM2B_UNMARSHAL cap_TPM2B_MLKEM_CIPHERTEXT.

Definition Tss2_MU_TPM2B_MLDSA_PUBLIC_KEY_Marshal : option TPM2B -> mstep :=
  TPM2B_MARSHAL cap_TPM2B_MLDSA_PUBLIC_KEY.
Definition Tss2_MU_TPM2B_MLDSA_PUBLIC_KEY_Unmarshal : ufn TPM2B :=
  TPM2B_UNMARSHAL cap_TPM2B_MLDSA_PUBLIC_KEY.

Definition Tss2_MU_TPM2B_MLDSA_PRIVATE_KEY_Marshal : option TPM2B -> mstep :=
  TPM2B_MARSHAL cap_TPM2B_MLDSA_PRIVATE_KEY.
Definition Tss2_MU_TPM2B_MLDSA_PRIVATE_KEY_Unmarshal : ufn TPM2B :=
  TPM2B_UNMARSHAL cap_TPM2B_MLDSA_PRIVATE_KEY.

Definition Tss2_MU_TPM2B_MLDSA_SIGNATURE_Marshal : option TPM2B -> mstep :=
  TPM2B_MARSHAL cap_TPM2B_MLDSA_SIGNATURE.
Definition Tss2_MU_TPM2B_MLDSA_SIGNATURE_Unmarshal : ufn TPM2B :=
  TPM2B_UNMARSHAL cap_TPM2B_MLDSA_SIGNATURE.

Definition Tss2_MU_TPMS_ECC_POINT_Marshal : option TPMS_ECC_POINT -> mstep :=
  TPMS_MARSHAL_2 TPMS_ECC_POINT'x (ADDR Tss2_MU_TPM2B_ECC_PARAMETER_Marshal)
    TPMS_ECC_POINT'y (ADDR Tss2_MU_TPM2B_ECC_PARAMETER_Marshal).
Definition Tss2_MU_TPMS_ECC_POINT_Unmarshal : ufn TPMS_ECC_POINT :=
  TPMS_UNMARSHAL_2 zero_TPMS_ECC_POINT TPMS_ECC_POINT'x Tss2_MU_TPM2B_ECC_PARAMETER_Unmarshal
    TPMS_ECC_POINT'y Tss2_MU_TPM2B_ECC_PARAMETER_Unmarshal.

Definition Tss2_MU_TPM2B_ECC_POINT_Marshal : option (TPM2B_SUB TPMS_ECC_POINT) -> mstep :=
  TPM2B_MARSHAL_SUBTYPE Tss2_MU_TPMS_ECC_POINT_Marshal.
Definition Tss2_MU_TPM2B_ECC_POINT_Unmarshal : ufn (TPM2B_SUB TPMS_ECC_POINT) :=
  TPM2B_UNMARSHAL_SUBTYPE (lsize lay_TPMS_ECC_POINT) Tss2_MU_TPMS_ECC_POINT_Unmarshal.

Definition Tss2_MU_TPMS_NV_PUBLIC_Marshal : option TPMS_NV_PUBLIC -> mstep :=
  TPMS_MARSHAL_5 TPMS_NV_PUBLIC'nvIndex (VAL Tss2_MU_UINT32_Marshal)
    TPMS_NV_PUBLIC'nameAlg (VAL Tss2_MU_UINT16_Marshal)
    TPMS_NV_PUBLIC'attributes (VAL Tss2_MU_TPMA_NV_Marshal)
    TPMS_NV_PUBLIC'authPolicy (ADDR Tss2_MU_TPM2B_DIGEST_Marshal)
    TPMS_NV_PUBLIC'dataSize (VAL Tss2_MU_UINT16_Marshal).
Definition Tss2_MU_TPMS_NV_PUBLIC_Unmarshal : ufn TPMS_NV_PUBLIC :=
  TPMS_UNMARSHAL_5 zero_TPMS_NV_PUBLIC TPMS_NV_PUBLIC'nvIndex Tss2_MU_UINT32_Unmarshal
    TPMS_NV_PUBLIC'nameAlg Tss2_MU_UINT16_Unmarshal
    TPMS_NV_PUBLIC'attributes Tss2_MU_TPMA_NV_Unmarshal
    TPMS_NV_PUBLIC'authPolicy Tss2_MU_TPM2B_DIGEST_Unmarshal
    TPMS_NV_PUBLIC'dataSize Tss2_MU_UINT16_Unmarshal.

Definition Tss2_MU_TPM2B_NV_PUBLIC_Marshal : option (TPM2B_SUB TPMS_NV_PUBLIC) -> mstep :=
  TPM2B_MARSHAL_SUBTYPE Tss2_MU_TPMS_NV_PUBLIC_Marshal.
Definition Tss2_MU_TPM2B_NV_PUBLIC_Unmarshal : ufn (TPM2B_SUB TPMS_NV_PUBLIC) :=
  TPM2B_UNMARSHAL_SUBTYPE (lsize lay_TPMS_NV_PUBLIC) Tss2_MU_TPMS_NV_PUBLIC_Unmarshal.

Definition Tss2_MU_TPMU_SENSITIVE_COMPOSITE_Marshal : option TPM2B -> Z -> mstep :=
  TPMU_MARSHAL2 [
    (TPM2_ALG_RSA, mcase (sub_2b cap_TPM2B_PRIVATE_KEY_RSA) (ADDR Tss2_MU_TPM2B_PRIVATE_KEY_RSA_Marshal));
    (TPM2_ALG_ECC, mcase (sub_2b cap_TPM2B_ECC_PARAMETER) (ADDR Tss2_MU_TPM2B_ECC_PARAMETER_Marshal));
    (TPM2_ALG_KEYEDHASH, mcase (sub_2b cap_TPM2B_SENSITIVE_DATA) (ADDR Tss2_MU_TPM2B_SENSITIVE_DATA_Marshal));
    (TPM2_ALG_SYMCIPHER, mcase (sub_2b cap_TPM2B_SYM_KEY) (ADDR Tss2_MU_TPM2B_SYM_KEY_Marshal));
    (TPM2_ALG_MLKEM, mcase (sub_2b cap_TPM2B_MLKEM_PRIVATE_KEY) (ADDR Tss2_MU_TPM2B_MLKEM_PRIVATE_KEY_Marshal));
    (TPM2_ALG_MLDSA, mcase (sub_2b cap_TPM2B_MLDSA_PRIVATE_KEY) (ADDR Tss2_MU_TPM2B_MLDSA_PRIVATE_KEY_Marshal))].
Definition Tss2_MU_TPMU_SENSITIVE_COMPOSITE_Unmarshal : ufn_sel TPM2B :=
  TPMU_UNMARSHAL2 [
    (TPM2_ALG_RSA, ucase (sub_2b cap_TPM2B_PRIVATE_KEY_RSA) Tss2_MU_TPM2B_PRIVATE_KEY_RSA_Unmarshal);
    (TPM2_ALG_ECC, ucase (sub_2b cap_TPM2B_ECC_PARAMETER) Tss2_MU_TPM2B_ECC_PARAMETER_Unmarshal);
    (TPM2_ALG_KEYEDHASH, ucase (sub_2b cap_TPM2B_SENSITIVE_DATA) Tss2_MU_TPM2B_SENSITIVE_DATA_Unmarshal);
    (TPM2_ALG_SYMCIPHER, ucase (sub_2b cap_TPM2B_SYM_KEY) Tss2_MU_TPM2B_SYM_KEY_Unmarshal);
    (TPM2_ALG_MLKEM, ucase (sub_2b cap_TPM2B_MLKEM_PRIVATE_KEY) Tss2_MU_TPM2B_MLKEM_PRIVATE_KEY_Unmarshal);
    (TPM2_ALG_MLDSA, ucase (sub_2b cap_TPM2B_MLDSA_PRIVATE_KEY) Tss2_MU_TPM2B_MLDSA_PRIVATE_KEY_Unmarshal)].

Definition Tss2_MU_TPMT_SENSITIVE_Marshal : option TPMT_SENSITIVE -> mstep :=
  TPMT_MARSHAL_4 TPMT_SENSITIVE'sensitiveType (VAL Tss2_MU_UINT16_Marshal)
    TPMT_SENSITIVE'authValue (ADDR Tss2_MU_TPM2B_DIGEST_Marshal)
    TPMT_SENSITIVE'seedValue (ADDR Tss2_MU_TPM2B_DIGEST_Marshal)
    TPMT_SENSITIVE'sensitive TPMT_SENSITIVE'sensitiveType (ADDR Tss2_MU_TPMU_SENSITIVE_COMPOSITE_Marshal).
Definition Tss2_MU_TPMT_SENSITIVE_Unmarshal : ufn TPMT_SENSITIVE :=
  TPMT_UNMARSHAL_4 zero_TPMT_SENSITIVE TPMT_SENSITIVE'sensitiveType Tss2_MU_UINT16_Unmarshal
    TPMT_SENSITIVE'authValue Tss2_MU_TPM2B_DIGEST_Unmarshal
    TPMT_SENSITIVE'seedValue Tss2_MU_TPM2B_DIGEST_Unmarshal
    TPMT_SENSITIVE'sensitive TPMT_SENSITIVE'sensitiveType Tss2_MU_TPMU_SENSITIVE_COMPOSITE_Unmarshal.

Definition Tss2_MU_TPM2B_SENSITIVE_Marshal : option (TPM2B_SUB TPMT_SENSITIVE) -> mstep :=
  TPM2B_MARSHAL_SUBTYPE Tss2_MU_TPMT_SENSITIVE_Marshal.
Definition Tss2_MU_TPM2B_SENSITIVE_Unmarshal : ufn (TPM2B_SUB TPMT_SENSITIVE) :=
  TPM2B_UNMARSHAL_SUBTYPE (lsize lay_TPMT_SENSITIVE) Tss2_MU_TPMT_SENSITIVE_Unmarshal.

Definition Tss2_MU_TPMS_SENSITIVE_CREATE_Marshal : option TPMS_SENSITIVE_CREATE -> mstep :=
  TPMS_MARSHAL_2 TPMS_SENSITIVE_CREATE'userAuth (ADDR Tss2_MU_TPM2B_DIGEST_Marshal)
    TPMS_SENSITIVE_CREATE'data (ADDR Tss2_MU_TPM2B_SENSITIVE_DATA_Marshal).
Definition Tss2_MU_TPMS_SENSITIVE_CREATE_Unmarshal : ufn TPMS_SENSITIVE_CREATE :=
  TPMS_UNMARSHAL_2 zero_TPMS_SENSITIVE_CREATE TPMS_SENSITIVE_CREATE'userAuth Tss2_MU_TPM2B_DIGEST_Unmarshal
    TPMS_SENSITIVE_CREATE'data Tss2_MU_TPM2B_SENSITIVE_DATA_Unmarshal.

Definition Tss2_MU_TPM2B_SENSITIVE_CREATE_Marshal : option (TPM2B_SUB TPMS_SENSITIVE_CREATE) -> mstep :=
  TPM2B_MARSHAL_SUBTYPE Tss2_MU_TPMS_SENSITIVE_CREATE_Marshal.
Definition Tss2_MU_TPM2B_SENSITIVE_CREATE_Unmarshal : ufn (TPM2B_SUB TPMS_SENSITIVE_CREATE) :=
  TPM2B_UNMARSHAL_SUBTYPE (lsize lay_TPMS_SENSITIVE_CREATE) Tss2_MU_TPMS_SENSITIVE_CREATE_Unmarshal.

Definition Tss2_MU_TPML_PCR_SELECTION_Marshal : option (TPML TPMS_PCR_SELECTION) -> mstep :=
  TPML_MARSHAL cap_TPML_PCR_SELECTION (ADDR Tss2_MU_TPMS_PCR_SELECTION_Marshal).
Definition Tss2_MU_TPML_PCR_SELECTION_Unmarshal : ufn (TPML TPMS_PCR_SELECTION) :=
  TPML_UNMARSHAL cap_TPML_PCR_SELECTION zero_TPMS_PCR_SELECTION Tss2_MU_TPMS_PCR_SELECTION_Unmarshal.

Definition Tss2_MU_TPMS_CREATION_DATA_Marshal : option TPMS_CREATION_DATA -> mstep :=
  TPMS_MARSHAL_7 TPMS_CREATION_DATA'pcrSelect (ADDR Tss2_MU_TPML_PCR_SELECTION_Marshal)
    TPMS_CREATION_DATA'pcrDigest (ADDR Tss2_MU_TPM2B_DIGEST_Marshal)
    TPMS_CREATION_DATA'locality (VAL Tss2_MU_TPMA_LOCALITY_Marshal)
    TPMS_CREATION_DATA'parentNameAlg (VAL Tss2_MU_UINT16_Marshal)
    TPMS_CREATION_DATA'parentName (ADDR Tss2_MU_TPM2B_NAME_Marshal)
    TPMS_CREATION_DATA'parentQualifiedName (ADDR Tss2_MU_TPM2B_NAME_Marshal)
    TPMS_CREATION_DATA'outsideInfo (ADDR Tss2_MU_TPM2B_DATA_Marshal).
Definition Tss2_MU_TPMS_CREATION_DATA_Unmarshal : ufn TPMS_CREATION_DATA :=
  TPMS_UNMARSHAL_7 zero_TPMS_CREATION_DATA TPMS_CREATION_DATA'pcrSelect Tss2_MU_TPML_PCR_SELECTION_Unmarshal
    TPMS_CREATION_DATA'pcrDigest Tss2_MU_TPM2B_DIGEST_Unmarshal
    TPMS_CREATION_DATA'locality Tss2_MU_TPMA_LOCALITY_Unmarshal
    TPMS_CREATION_DATA'parentNameAlg Tss2_MU_UINT16_Unmarshal
    TPMS_CREATION_DATA'parentName Tss2_MU_TPM2B_NAME_Unmarshal
    TPMS_CREATION_DATA'parentQualifiedName Tss2_MU_TPM2B_NAME_Unmarshal
    TPMS_CREATION_DATA'outsideInfo Tss2_MU_TPM2B_DATA_Unmarshal.

Definition Tss2_MU_TPM2B_CREATION_DATA_Marshal : option (TPM2B_SUB TPMS_CREATION_DATA) -> mstep :=
  TPM2B_MARSHAL_SUBTYPE Tss2_MU_TPMS_CREATION_DATA_Marshal.
Definition Tss2_MU_TPM2B_CREATION_DATA_Unmarshal : ufn (TPM2B_SUB TPMS_CREATION_DATA) :=
  TPM2B_UNMARSHAL_SUBTYPE (lsize lay_TPMS_CREATION_DATA) Tss2_MU_TPMS_CREATION_DATA_Unmarshal.

Definition Tss2_MU_TPMS_SCHEME_HASH_Marshal : option TPMS_SCHEME_HASH -> mstep :=
  TPMS_MARSHAL_1 TPMS_SCHEME_HASH'hashAlg (VAL Tss2_MU_UINT16_Marshal).
Definition Tss2_MU_TPMS_SCHEME_HASH_Unmarshal : ufn TPMS_SCHEME_HASH :=
  TPMS_UNMARSHAL_1 TPMS_SCHEME_HASH'hashAlg Tss2_MU_UINT16_Unmarshal.

Definition Tss2_MU_TPMS_SCHEME_XOR_Marshal : option TPMS_SCHEME_XOR -> mstep :=
  TPMS_MARSHAL_2 TPMS_SCHEME_XOR'hashAlg (VAL Tss2_MU_UINT16_Marshal)
    TPMS_SCHEME_XOR'kdf (VAL Tss2_MU_UINT16_Marshal).
Definition Tss2_MU_TPMS_SCHEME_XOR_Unmarshal : ufn TPMS_SCHEME_XOR :=
  TPMS_UNMARSHAL_2 zero_TPMS_SCHEME_XOR TPMS_SCHEME_XOR'hashAlg Tss2_MU_UINT16_Unmarshal
    TPMS_SCHEME_XOR'kdf Tss2_MU_UINT16_Unmarshal.

Definition Tss2_MU_TPMU_SCHEME_KEYEDHASH_Marshal : option TPMS_SCHEME_XOR -> Z -> mstep :=
  TPMU_MARSHAL2 [
    (TPM2_ALG_HMAC, mcase hash_of_xor (ADDR Tss2_MU_TPMS_SCHEME_HASH_Marshal));
    (TPM2_ALG_XOR, mcase (whole zero_TPMS_SCHEME_XOR) (ADDR Tss2_MU_TPMS_SCHEME_XOR_Marshal))].
Definition Tss2_MU_TPMU_SCHEME_KEYEDHASH_Unmarshal : ufn_sel TPMS_SCHEME_XOR :=
  TPMU_UNMARSHAL2 [
    (TPM2_ALG_HMAC, ucase hash_of_xor Tss2_MU_TPMS_SCHEME_HASH_Unmarshal);
    (TPM2_ALG_XOR, ucase (whole zero_TPMS_SCHEME_XOR) Tss2_MU_TPMS_SCHEME_XOR_Unmarshal)].

Definition Tss2_MU_TPMT_KEYEDHASH_SCHEME_Marshal : option TPMT_KEYEDHASH_SCHEME -> mstep :=
  TPMT_MARSHAL_2 TPMT_KEYEDHASH_SCHEME'scheme (VAL Tss2_MU_UINT16_Marshal)
    TPMT_KEYEDHASH_SCHEME'details TPMT_KEYEDHASH_SCHEME'scheme (ADDR Tss2_MU_TPMU_SCHEME_KEYEDHASH_Marshal).
Definition Tss2_MU_TPMT_KEYEDHASH_SCHEME_Unmarshal : ufn TPMT_KEYEDHASH_SCHEME :=
  TPMT_UNMARSHAL_2 zero_TPMT_KEYEDHASH_SCHEME TPMT_KEYEDHASH_SCHEME'scheme Tss2_MU_UINT16_Unmarshal
    TPMT_KEYEDHASH_SCHEME'details TPMT_KEYEDHASH_SCHEME'scheme Tss2_MU_TPMU_SCHEME_KEYEDHASH_Unmarshal.

Definition Tss2_MU_TPMS_KEYEDHASH_PARMS_Marshal : option TPMS_KEYEDHASH_PARMS -> mstep :=
  TPMS_MARSHAL_1 TPMS_KEYEDHASH_PARMS'scheme (ADDR Tss2_MU_TPMT_KEYEDHASH_SCHEME_Marshal).
Definition Tss2_MU_TPMS_KEYEDHASH_PARMS_Unmarshal : ufn TPMS_KEYEDHASH_PARMS :=
  TPMS_UNMARSHAL_1 TPMS_KEYEDHASH_PARMS'scheme Tss2_MU_TPMT_KEYEDHASH_SCHEME_Unmarshal.

Definition Tss2_MU_TPMU_SYM_KEY_BITS_Marshal : option Z -> Z -> mstep :=
  TPMU_MARSHAL2 [
    (TPM2_ALG_AES, mcase (whole 0) (VAL Tss2_MU_UINT16_Marshal));
    (TPM2_ALG_SM4, mcase (whole 0) (VAL Tss2_MU_UINT16_Marshal));
    (TPM2_ALG_CAMELLIA, mcase (whole 0) (VAL Tss2_MU_UINT16_Marshal));
    (TPM2_ALG_XOR, mcase (whole 0) (VAL Tss2_MU_UINT16_Marshal));
    (TPM2_ALG_SYMCIPHER, mcase (whole 0) (VAL Tss2_MU_UINT16_Marshal))].
Definition Tss2_MU_TPMU_SYM_KEY_BITS_Unmarshal : ufn_sel Z :=
  TPMU_UNMARSHAL2 [
    (TPM2_ALG_AES, ucase (whole 0) Tss2_MU_UINT16_Unmarshal);
    (TPM2_ALG_SM4, ucase (whole 0) Tss2_MU_UINT16_Unmarshal);
    (TPM2_ALG_CAMELLIA, ucase (whole 0) Tss2_MU_UINT16_Unmarshal);
    (TPM2_ALG_XOR, ucase (whole 0) Tss2_MU_UINT16_Unmarshal);
    (TPM2_ALG_SYMCIPHER, ucase (whole 0) Tss2_MU_UINT16_Unmarshal)].

Definition Tss2_MU_TPMU_SYM_MODE_Marshal : option Z -> Z -> mstep :=
  TPMU_MARSHAL2 [
    (TPM2_ALG_AES, mcase (whole 0) (VAL Tss2_MU_UINT16_Marshal));
    (TPM2_ALG_SM4, mcase (whole 0) (VAL Tss2_MU_UINT16_Marshal));
    (TPM2_ALG_CAMELLIA, mcase (whole 0) (VAL Tss2_MU_UINT16_Marshal));
    (TPM2_ALG_XOR, marshal_null);
    (TPM2_ALG_SYMCIPHER, mcase (whole 0) (VAL Tss2_MU_UINT16_Marshal))].
Definition Tss2_MU_TPMU_SYM_MODE_Unmarshal : ufn_sel Z :=
  TPMU_UNMARSHAL2 [
    (TPM2_ALG_AES, ucase (whole 0) Tss2_MU_UINT16_Unmarshal);
    (TPM2_ALG_SM4, ucase (whole 0) Tss2_MU_UINT16_Unmarshal);
    (TPM2_ALG_CAMELLIA, ucase (whole 0) Tss2_MU_UINT16_Unmarshal);
    (TPM2_ALG_XOR, unmarshal_null);
    (TPM2_ALG_SYMCIPHER, ucase (whole 0) Tss2_MU_UINT16_Unmarshal)].

Definition Tss2_MU_TPMT_SYM_DEF_OBJECT_Marshal : option TPMT_SYM_DEF_OBJECT -> mstep :=
  TPMT_MARSHAL_3 TPMT_SYM_DEF_OBJECT'algorithm (VAL Tss2_MU_UINT16_Marshal)
    TPMT_SYM_DEF_OBJECT'keyBits TPMT_SYM_DEF_OBJECT'algorithm (ADDR Tss2_MU_TPMU_SYM_KEY_BITS_Marshal)
    TPMT_SYM_DEF_OBJECT'mode TPMT_SYM_DEF_OBJECT'algorithm (ADDR Tss2_MU_TPMU_SYM_MODE_Marshal).
Definition Tss2_MU_TPMT_SYM_DEF_OBJECT_Unmarshal : ufn TPMT_SYM_DEF_OBJECT :=
  TPMT_UNMARSHAL_3 zero_TPMT_SYM_DEF_OBJECT TPMT_SYM_DEF_OBJECT'algorithm Tss2_MU_UINT16_Unmarshal
    TPMT_SYM_DEF_OBJECT'keyBits TPMT_SYM_DEF_OBJECT'algorithm Tss2_MU_TPMU_SYM_KEY_BITS_Unmarshal
    TPMT_SYM_DEF_OBJECT'mode TPMT_SYM_DEF_OBJECT'algorithm Tss2_MU_TPMU_SYM_MODE_Unmarshal.

Definition Tss2_MU_TPMS_SYMCIPHER_PARMS_Marshal : option TPMS_SYMCIPHER_PARMS -> mstep :=
  TPMS_MARSHAL_1 TPMS_SYMCIPHER_PARMS'sym (ADDR Tss2_MU_TPMT_SYM_DEF_OBJECT_Marshal).
Definition Tss2_MU_TPMS_SYMCIPHER_PARMS_Unmarshal : ufn TPMS_SYMCIPHER_PARMS :=
  TPMS_UNMARSHAL_1 TPMS_SYMCIPHER_PARMS'sym Tss2_MU_TPMT_SYM_DEF_OBJECT_Unmarshal.

Definition Tss2_MU_TPMS_SCHEME_ECDAA_Marshal : option TPMS_SCHEME_ECDAA -> mstep :=
  TPMS_MARSHAL_2 TPMS_SCHEME_ECDAA'hashAlg (VAL Tss2_MU_UINT16_Marshal)
    TPMS_SCHEME_ECDAA'count (VAL Tss2_MU_UINT16_Marshal).
Definition Tss2_MU_TPMS_SCHEME_ECDAA_Unmarshal : ufn TPMS_SCHEME_ECDAA :=
  TPMS_UNMARSHAL_2 zero_TPMS_SCHEME_ECDAA TPMS_SCHEME_ECDAA'hashAlg Tss2_MU_UINT16_Unmarshal
    TPMS_SCHEME_ECDAA'count Tss2_MU_UINT16_Unmarshal.

Definition Tss2_MU_TPMU_ASYM_SCHEME_Marshal : option TPMS_SCHEME_ECDAA -> Z -> mstep :=
  TPMU_MARSHAL2 [
    (TPM2_ALG_ECDH, mcase hash_of_ecdaa (ADDR Tss2_MU_TPMS_SCHEME_HASH_Marshal));
    (TPM2_ALG_ECMQV, mcase hash_of_ecdaa (ADDR Tss2_MU_TPMS_SCHEME_HASH_Marshal));
    (TPM2_ALG_RSASSA, mcase hash_of_ecdaa (ADDR Tss2_MU_TPMS_SCHEME_HASH_Marshal));
    (TPM2_ALG_RSAPSS, mcase hash_of_ecdaa (ADDR Tss2_MU_TPMS_SCHEME_HASH_Marshal));
    (TPM2_ALG_ECDSA, mcase hash_of_ecdaa (ADDR Tss2_MU_TPMS_SCHEME_HASH_Marshal));
    (TPM2_ALG_ECDAA, mcase (whole zero_TPMS_SCHEME_ECDAA) (ADDR Tss2_MU_TPMS_SCHEME_ECDAA_Marshal));
    (TPM2_ALG_SM2, mcase hash_of_ecdaa (ADDR Tss2_MU_TPMS_SCHEME_HASH_Marshal));
    (TPM2_ALG_ECSCHNORR, mcase hash_of_ecdaa (ADDR Tss2_MU_TPMS_SCHEME_HASH_Marshal));
    (TPM2_ALG_RSAES, marshal_null);
    (TPM2_ALG_OAEP, mcase hash_of_ecdaa (ADDR Tss2_MU_TPMS_SCHEME_HASH_Marshal));
    (TPM2_ALG_MLDSA, mcase hash_of_ecdaa (ADDR Tss2_MU_TPMS_SCHEME_HASH_Marshal))].
Definition Tss2_MU_TPMU_ASYM_SCHEME_Unmarshal : ufn_sel TPMS_SCHEME_ECDAA :=
  TPMU_UNMARSHAL2 [
    (TPM2_ALG_ECDH, ucase hash_of_ecdaa Tss2_MU_TPMS_SCHEME_HASH_Unmarshal);
    (TPM2_ALG_ECMQV, ucase hash_of_ecdaa Tss2_MU_TPMS_SCHEME_HASH_Unmarshal);
    (TPM2_ALG_RSASSA, ucase hash_of_ecdaa Tss2_MU_TPMS_SCHEME_HASH_Unmarshal);
    (TPM2_ALG_RSAPSS, ucase hash_of_ecdaa Tss2_MU_TPMS_SCHEME_HASH_Unmarshal);
    (TPM2_ALG_ECDSA, ucase hash_of_ecdaa Tss2_MU_TPMS_SCHEME_HASH_Unmarshal);
    (TPM2_ALG_ECDAA, ucase (whole zero_TPMS_SCHEME_ECDAA) Tss2_MU_TPMS_SCHEME_ECDAA_Unmarshal);
    (TPM2_ALG_SM2, ucase hash_of_ecdaa Tss2_MU_TPMS_SCHEME_HASH_Unmarshal);
    (TPM2_ALG_ECSCHNORR, ucase hash_of_ecdaa Tss2_MU_TPMS_SCHEME_HASH_Unmarshal);
    (TPM2_ALG_RSAES, unmarshal_null);
    (TPM2_ALG_OAEP, ucase hash_of_ecdaa Tss2_MU_TPMS_SCHEME_HASH_Unmarshal);
    (TPM2_ALG_MLDSA, ucase hash_of_ecdaa Tss2_MU_TPMS_SCHEME_HASH_Unmarshal)].

Definition Tss2_MU_TPMT_RSA_SCHEME_Marshal : option TPMT_RSA_SCHEME -> mstep :=
  TPMT_MARSHAL_2 TPMT_RSA_SCHEME'scheme (VAL Tss2_MU_UINT16_Marshal)
    TPMT_RSA_SCHEME'details TPMT_RSA_SCHEME'scheme (ADDR Tss2_MU_TPMU_ASYM_SCHEME_Marshal).
Definition Tss2_MU_TPMT_RSA_SCHEME_Unmarshal : ufn TPMT_RSA_SCHEME :=
  TPMT_UNMARSHAL_2 zero_TPMT_RSA_SCHEME TPMT_RSA_SCHEME'scheme Tss2_MU_UINT16_Unmarshal
    TPMT_RSA_SCHEME'details TPMT_RSA_SCHEME'scheme Tss2_MU_TPMU_ASYM_SCHEME_Unmarshal.

Definition Tss2_MU_TPMS_RSA_PARMS_Marshal : option TPMS_RSA_PARMS -> mstep :=
  TPMS_MARSHAL_4 TPMS_RSA_PARMS'symmetric (ADDR Tss2_MU_TPMT_SYM_DEF_OBJECT_Marshal)
    TPMS_RSA_PARMS'scheme (ADDR Tss2_MU_TPMT_RSA_SCHEME_Marshal)
    TPMS_RSA_PARMS'keyBits (VAL Tss2_MU_UINT16_Marshal)
    TPMS_RSA_PARMS'exponent (VAL Tss2_MU_UINT32_Marshal).
Definition Tss2_MU_TPMS_RSA_PARMS_Unmarshal : ufn TPMS_RSA_PARMS :=
  TPMS_UNMARSHAL_4 zero_TPMS_RSA_PARMS TPMS_RSA_PARMS'symmetric Tss2_MU_TPMT_SYM_DEF_OBJECT_Unmarshal
    TPMS_RSA_PARMS'scheme Tss2_MU_TPMT_RSA_SCHEME_Unmarshal
    TPMS_RSA_PARMS'keyBits Tss2_MU_UINT16_Unmarshal
    TPMS_RSA_PARMS'exponent Tss2_MU_UINT32_Unmarshal.

Definition Tss2_MU_TPMT_ECC_SCHEME_Marshal : option TPMT_ECC_SCHEME -> mstep :=
  TPMT_MARSHAL_2 TPMT_ECC_SCHEME'scheme (VAL Tss2_MU_UINT16_Marshal)
    TPMT_ECC_SCHEME'details TPMT_ECC_SCHEME'scheme (ADDR Tss2_MU_TPMU_ASYM_SCHEME_Marshal).
Definition Tss2_MU_TPMT_ECC_SCHEME_Unmarshal : ufn TPMT_ECC_SCHEME :=
  TPMT_UNMARSHAL_2 zero_TPMT_ECC_SCHEME TPMT_ECC_SCHEME'scheme Tss2_MU_UINT16_Unmarshal
    TPMT_ECC_SCHEME'details TPMT_ECC_SCHEME'scheme Tss2_MU_TPMU_ASYM_SCHEME_Unmarshal.

Definition Tss2_MU_TPMU_KDF_SCHEME_Marshal : option TPMS_SCHEME_HASH -> Z -> mstep :=
  TPMU_MARSHAL2 [
    (TPM2_ALG_MGF1, mcase (whole zero_TPMS_SCHEME_HASH) (ADDR Tss2_MU_TPMS_SCHEME_HASH_Marshal));
    (TPM2_ALG_KDF1_SP800_56A, mcase (whole zero_TPMS_SCHEME_HASH) (ADDR Tss2_MU_TPMS_SCHEME_HASH_Marshal));
    (TPM2_ALG_KDF1_SP800_108, mcase (whole zero_TPMS_SCHEME_HASH) (ADDR Tss2_MU_TPMS_SCHEME_HASH_Marshal));
    (TPM2_ALG_KDF2, mcase (whole zero_TPMS_SCHEME_HASH) (ADDR Tss2_MU_TPMS_SCHEME_HASH_Marshal))].
Definition Tss2_MU_TPMU_KDF_SCHEME_Unmarshal : ufn_sel TPMS_SCHEME_HASH :=
  TPMU_UNMARSHAL2 [
    (TPM2_ALG_MGF1, ucase (whole zero_TPMS_SCHEME_HASH) Tss2_MU_TPMS_SCHEME_HASH_Unmarshal);
    (TPM2_ALG_KDF1_SP800_56A, ucase (whole zero_TPMS_SCHEME_HASH) Tss2_MU_TPMS_SCHEME_HASH_Unmarshal);
    (TPM2_ALG_KDF1_SP800_108, ucase (whole zero_TPMS_SCHEME_HASH) Tss2_MU_TPMS_SCHEME_HASH_Unmarshal);
    (TPM2_ALG_KDF2, ucase (whole zero_TPMS_SCHEME_HASH) Tss2_MU_TPMS_SCHEME_HASH_Unmarshal)].

Definition Tss2_MU_TPMT_KDF_SCHEME_Marshal : option TPMT_KDF_SCHEME -> mstep :=
  TPMT_MARSHAL_2 TPMT_KDF_SCHEME'scheme (VAL Tss2_MU_UINT16_Marshal)
    TPMT_KDF_SCHEME'details TPMT_KDF_SCHEME'scheme (ADDR Tss2_MU_TPMU_KDF_SCHEME_Marshal).
Definition Tss2_MU_TPMT_KDF_SCHEME_Unmarshal : ufn TPMT_KDF_SCHEME :=
  TPMT_UNMARSHAL_2 zero_TPMT_KDF_SCHEME TPMT_KDF_SCHEME'scheme Tss2_MU_UINT16_Unmarshal
    TPMT_KDF_SCHEME'details TPMT_KDF_SCHEME'scheme Tss2_MU_TPMU_KDF_SCHEME_Unmarshal.

Definition Tss2_MU_TPMS_ECC_PARMS_Marshal : option TPMS_ECC_PARMS -> mstep :=
  TPMS_MARSHAL_4 TPMS_ECC_PARMS'symmetric (ADDR Tss2_MU_TPMT_SYM_DEF_OBJECT_Marshal)
    TPMS_ECC_PARMS'scheme (ADDR Tss2_MU_TPMT_ECC_SCHEME_Marshal)
    TPMS_ECC_PARMS'curveID (VAL Tss2_MU_UINT16_Marshal)
    TPMS_ECC_PARMS'kdf (ADDR Tss2_MU_TPMT_KDF_SCHEME_Marshal).
Definition Tss2_MU_TPMS_ECC_PARMS_Unmarshal : ufn TPMS_ECC_PARMS :=
  TPMS_UNMARSHAL_4 zero_TPMS_ECC_PARMS TPMS_ECC_PARMS'symmetric Tss2_MU_TPMT_SYM_DEF_OBJECT_Unmarshal
    TPMS_ECC_PARMS'scheme Tss2_MU_TPMT_ECC_SCHEME_Unmarshal
    TPMS_ECC_PARMS'curveID Tss2_MU_UINT16_Unmarshal
    TPMS_ECC_PARMS'kdf Tss2_MU_TPMT_KDF_SCHEME_Unmarshal.

Definition Tss2_MU_TPMS_ML_PARAMETER_SET_Marshal : option TPMS_ML_PARAMETER_SET -> mstep :=
  TPMS_MARSHAL_1 TPMS_ML_PARAMETER_SET'identifier (VAL Tss2_MU_UINT32_Marshal).
Definition Tss2_MU_TPMS_ML_PARAMETER_SET_Unmarshal : ufn TPMS_ML_PARAMETER_SET :=
  TPMS_UNMARSHAL_1 TPMS_ML_PARAMETER_SET'identifier Tss2_MU_UINT32_Unmarshal.

Definition Tss2_MU_TPMS_MLKEM_PARMS_Marshal : option TPMS_MLKEM_PARMS -> mstep :=
  TPMS_MARSHAL_2 TPMS_MLKEM_PARMS'nameAlg (VAL Tss2_MU_UINT16_Marshal)
    TPMS_MLKEM_PARMS'parameterSet (ADDR Tss2_MU_TPMS_ML_PARAMETER_SET_Marshal).
Definition Tss2_MU_TPMS_MLKEM_PARMS_Unmarshal : ufn TPMS_MLKEM_PARMS :=
  TPMS_UNMARSHAL_2 zero_TPMS_MLKEM_PARMS TPMS_MLKEM_PARMS'nameAlg Tss2_MU_UINT16_Unmarshal
    TPMS_MLKEM_PARMS'parameterSet Tss2_MU_TPMS_ML_PARAMETER_SET_Unmarshal.

Definition Tss2_MU_TPMS_MLDSA_PARMS_Marshal : option TPMS_MLDSA_PARMS -> mstep :=
  TPMS_MARSHAL_2 TPMS_MLDSA_PARMS'nameAlg (VAL Tss2_MU_UINT16_Marshal)
    TPMS_MLDSA_PARMS'parameterSet (ADDR Tss2_MU_TPMS_ML_PARAMETER_SET_Marshal).
Definition Tss2_MU_TPMS_MLDSA_PARMS_Unmarshal : ufn TPMS_MLDSA_PARMS :=
  TPMS_UNMARSHAL_2 zero_TPMS_MLDSA_PARMS TPMS_MLDSA_PARMS'nameAlg Tss2_MU_UINT16_Unmarshal
    TPMS_MLDSA_PARMS'parameterSet Tss2_MU_TPMS_ML_PARAMETER_SET_Unmarshal.

Definition Tss2_MU_TPMU_PUBLIC_PARMS_Marshal : option TPMU_PUBLIC_PARMS -> Z -> mstep :=
  TPMU_MARSHAL2 [
    (TPM2_ALG_KEYEDHASH, mcase TPMU_PUBLIC_PARMS'TPMS_KEYEDHASH_PARMS (ADDR Tss2_MU_TPMS_KEYEDHASH_PARMS_Marshal));
    (TPM2_ALG_SYMCIPHER, mcase TPMU_PUBLIC_PARMS'TPMS_SYMCIPHER_PARMS (ADDR Tss2_MU_TPMS_SYMCIPHER_PARMS_Marshal));
    (TPM2_ALG_RSA, mcase TPMU_PUBLIC_PARMS'TPMS_RSA_PARMS (ADDR Tss2_MU_TPMS_RSA_PARMS_Marshal));
    (TPM2_ALG_ECC, mcase TPMU_PUBLIC_PARMS'TPMS_ECC_PARMS (ADDR Tss2_MU_TPMS_ECC_PARMS_Marshal));
    (TPM2_ALG_MLKEM, mcase TPMU_PUBLIC_PARMS'TPMS_MLKEM_PARMS (ADDR Tss2_MU_TPMS_MLKEM_PARMS_Marshal));
    (TPM2_ALG_MLDSA, mcase TPMU_PUBLIC_PARMS'TPMS_MLDSA_PARMS (ADDR Tss2_MU_TPMS_MLDSA_PARMS_Marshal))].
Definition Tss2_MU_TPMU_PUBLIC_PARMS_Unmarshal : ufn_sel TPMU_PUBLIC_PARMS :=
  TPMU_UNMARSHAL2 [
    (TPM2_ALG_KEYEDHASH, ucase TPMU_PUBLIC_PARMS'TPMS_KEYEDHASH_PARMS Tss2_MU_TPMS_KEYEDHASH_PARMS_Unmarshal);
    (TPM2_ALG_SYMCIPHER, ucase TPMU_PUBLIC_PARMS'TPMS_SYMCIPHER_PARMS Tss2_MU_TPMS_SYMCIPHER_PARMS_Unmarshal);
    (TPM2_ALG_RSA, ucase TPMU_PUBLIC_PARMS'TPMS_RSA_PARMS Tss2_MU_TPMS_RSA_PARMS_Unmarshal);
    (TPM2_ALG_ECC, ucase TPMU_PUBLIC_PARMS'TPMS_ECC_PARMS Tss2_MU_TPMS_ECC_PARMS_Unmarshal);
    (TPM2_ALG_MLKEM, ucase TPMU_PUBLIC_PARMS'TPMS_MLKEM_PARMS Tss2_MU_TPMS_MLKEM_PARMS_Unmarshal);
    (TPM2_ALG_MLDSA, ucase TPMU_PUBLIC_PARMS'TPMS_MLDSA_PARMS Tss2_MU_TPMS_MLDSA_PARMS_Unmarshal)].

Definition Tss2_MU_TPMU_PUBLIC_ID_Marshal : option TPMU_PUBLIC_ID -> Z -> mstep :=
  TPMU_MARSHAL2 [
    (TPM2_ALG_KEYEDHASH, mcase TPMU_PUBLIC_ID'TPM2B_DIGEST (ADDR Tss2_MU_TPM2B_DIGEST_Marshal));
    (TPM2_ALG_SYMCIPHER, mcase TPMU_PUBLIC_ID'TPM2B_DIGEST (ADDR Tss2_MU_TPM2B_DIGEST_Marshal));
    (TPM2_ALG_RSA, mcase TPMU_PUBLIC_ID'TPM2B_PUBLIC_KEY_RSA (ADDR Tss2_MU_TPM2B_PUBLIC_KEY_RSA_Marshal));
    (TPM2_ALG_ECC, mcase TPMU_PUBLIC_ID'TPMS_ECC_POINT (ADDR Tss2_MU_TPMS_ECC_POINT_Marshal));
    (TPM2_ALG_MLKEM, mcase TPMU_PUBLIC_ID'TPM2B_MLKEM_PUBLIC_KEY (ADDR Tss2_MU_TPM2B_MLKEM_PUBLIC_KEY_Marshal));
    (TPM2_ALG_MLDSA, mcase TPMU_PUBLIC_ID'TPM2B_MLDSA_PUBLIC_KEY (ADDR Tss2_MU_TPM2B_MLDSA_PUBLIC_KEY_Marshal))].
Definition Tss2_MU_TPMU_PUBLIC_ID_Unmarshal : ufn_sel TPMU_PUBLIC_ID :=
  TPMU_UNMARSHAL2 [
    (TPM2_ALG_KEYEDHASH, ucase TPMU_PUBLIC_ID'TPM2B_DIGEST Tss2_MU_TPM2B_DIGEST_Unmarshal);
    (TPM2_ALG_SYMCIPHER, ucase TPMU_PUBLIC_ID'TPM2B_DIGEST Tss2_MU_TPM2B_DIGEST_Unmarshal);
    (TPM2_ALG_RSA, ucase TPMU_PUBLIC_ID'TPM2B_PUBLIC_KEY_RSA Tss2_MU_TPM2B_PUBLIC_KEY_RSA_Unmarshal);
    (TPM2_ALG_ECC, ucase TPMU_PUBLIC_ID'TPMS_ECC_POINT Tss2_MU_TPMS_ECC_POINT_Unmarshal);
    (TPM2_ALG_MLKEM, ucase TPMU_PUBLIC_ID'TPM2B_MLKEM_PUBLIC_KEY Tss2_MU_TPM2B_MLKEM_PUBLIC_KEY_Unmarshal);
    (TPM2_ALG_MLDSA, ucase TPMU_PUBLIC_ID'TPM2B_MLDSA_PUBLIC_KEY Tss2_MU_TPM2B_MLDSA_PUBLIC_KEY_Unmarshal)].

Definition Tss2_MU_TPMT_PUBLIC_Marshal : option TPMT_PUBLIC -> mstep :=
  TPMT_MARSHAL_6 TPMT_PUBLIC'type (VAL Tss2_MU_UINT16_Marshal)
    TPMT_PUBLIC'nameAlg (VAL Tss2_MU_UINT16_Marshal)
    TPMT_PUBLIC'objectAttributes (VAL Tss2_MU_TPMA_OBJECT_Marshal)
    TPMT_PUBLIC'authPolicy (ADDR Tss2_MU_TPM2B_DIGEST_Marshal)
    TPMT_PUBLIC'parameters TPMT_PUBLIC'type (ADDR Tss2_MU_TPMU_PUBLIC_PARMS_Marshal)
    TPMT_PUBLIC'unique TPMT_PUBLIC'type (ADDR Tss2_MU_TPMU_PUBLIC_ID_Marshal).
Definition Tss2_MU_TPMT_PUBLIC_Unmarshal : ufn TPMT_PUBLIC :=
  TPMT_UNMARSHAL_6 zero_TPMT_PUBLIC TPMT_PUBLIC'type Tss2_MU_UINT16_Unmarshal
    TPMT_PUBLIC'nameAlg Tss2_MU_UINT16_Unmarshal
    TPMT_PUBLIC'objectAttributes Tss2_MU_TPMA_OBJECT_Unmarshal
    TPMT_PUBLIC'authPolicy Tss2_MU_TPM2B_DIGEST_Unmarshal
    TPMT_PUBLIC'parameters TPMT_PUBLIC'type Tss2_MU_TPMU_PUBLIC_PARMS_Unmarshal
    TPMT_PUBLIC'unique TPMT_PUBLIC'type Tss2_MU_TPMU_PUBLIC_ID_Unmarshal.

Definition Tss2_MU_TPM2B_PUBLIC_Marshal : option (TPM2B_SUB TPMT_PUBLIC) -> mstep :=
  TPM2B_MARSHAL_SUBTYPE Tss2_MU_TPMT_PUBLIC_Marshal.
Definition Tss2_MU_TPM2B_PUBLIC_Unmarshal : ufn (TPM2B_SUB TPMT_PUBLIC) :=
  TPM2B_UNMARSHAL_SUBTYPE (lsize lay_TPMT_PUBLIC) Tss2_MU_TPMT_PUBLIC_Unmarshal.

Definition Tss2_MU_TPML_CC_Marshal : option (TPML Z) -> mstep :=
  TPML_MARSHAL cap_TPML_CC (VAL Tss2_MU_TPM2_CC_Marshal).
Definition Tss2_MU_TPML_CC_Unmarshal : ufn (TPML Z) :=
  TPML_UNMARSHAL cap_TPML_CC 0 Tss2_MU_TPM2_CC_Unmarshal.

Definition Tss2_MU_TPML_CCA_Marshal : option (TPML Z) -> mstep :=
  TPML_MARSHAL cap_TPML_CCA (VAL Tss2_MU_TPMA_CC_Marshal).
Definition Tss2_MU_TPML_CCA_Unmarshal : ufn (TPML Z) :=
  TPML_UNMARSHAL cap_TPML_CCA 0 Tss2_MU_TPMA_CC_Unmarshal.

Definition Tss2_MU_TPML_ALG_Marshal : option (TPML Z) -> mstep :=
  TPML_MARSHAL cap_TPML_ALG (VAL Tss2_MU_UINT16_Marshal).
Definition Tss2_MU_TPML_ALG_Unmarshal : ufn (TPML Z) :=
  TPML_UNMARSHAL cap_TPML_ALG 0 Tss2_MU_UINT16_Unmarshal.

Definition Tss2_MU_TPML_HANDLE_Marshal : option (TPML Z) -> mstep :=
  TPML_MARSHAL cap_TPML_HANDLE (VAL Tss2_MU_UINT32_Marshal).
Definition Tss2_MU_TPML_HANDLE_Unmarshal : ufn (TPML Z) :=
  TPML_UNMARSHAL cap_TPML_HANDLE 0 Tss2_MU_UINT32_Unmarshal.

Definition Tss2_MU_TPML_DIGEST_Marshal : option (TPML TPM2B) -> mstep :=
  TPML_MARSHAL cap_TPML_DIGEST (ADDR Tss2_MU_TPM2B_DIGEST_Marshal).
Definition Tss2_MU_TPML_DIGEST_Unmarshal : ufn (TPML TPM2B) :=
  TPML_UNMARSHAL cap_TPML_DIGEST (zero_2b cap_TPM2B_DIGEST) Tss2_MU_TPM2B_DIGEST_Unmarshal.

Definition Tss2_MU_TPMS_ALG_PROPERTY_Marshal : option TPMS_ALG_PROPERTY -> mstep :=
  TPMS_MARSHAL_2 TPMS_ALG_PROPERTY'alg (VAL Tss2_MU_UINT16_Marshal)
    TPMS_ALG_PROPERTY'algProperties (VAL Tss2_MU_TPMA_ALGORITHM_Marshal).
Definition Tss2_MU_TPMS_ALG_PROPERTY_Unmarshal : ufn TPMS_ALG_PROPERTY :=
  TPMS_UNMARSHAL_2 zero_TPMS_ALG_PROPERTY TPMS_ALG_PROPERTY'alg Tss2_MU_UINT16_Unmarshal
    TPMS_ALG_PROPERTY'algProperties Tss2_MU_TPMA_ALGORITHM_Unmarshal.

Definition Tss2_MU_TPML_ALG_PROPERTY_Marshal : option (TPML TPMS_ALG_PROPERTY) -> mstep :=
  TPML_MARSHAL cap_TPML_ALG_PROPERTY (ADDR Tss2_MU_TPMS_ALG_PROPERTY_Marshal).
Definition Tss2_MU_TPML_ALG_PROPERTY_Unmarshal : ufn (TPML TPMS_ALG_PROPERTY) :=
  TPML_UNMARSHAL cap_TPML_ALG_PROPERTY zero_TPMS_ALG_PROPERTY Tss2_MU_TPMS_ALG_PROPERTY_Unmarshal.

Definition Tss2_MU_TPML_ECC_CURVE_Marshal : option (TPML Z) -> mstep :=
  TPML_MARSHAL cap_TPML_ECC_CURVE (VAL Tss2_MU_UINT16_Marshal).
Definition Tss2_MU_TPML_ECC_CURVE_Unmarshal : ufn (TPML Z) :=
  TPML_UNMARSHAL cap_TPML_ECC_CURVE 0 Tss2_MU_UINT16_Unmarshal.

Definition Tss2_MU_TPMS_TAGGED_PROPERTY_Marshal : option TPMS_TAGGED_PROPERTY -> mstep :=
  TPMS_MARSHAL_2 TPMS_TAGGED_PROPERTY'property (VAL Tss2_MU_UINT32_Marshal)
    TPMS_TAGGED_PROPERTY'value (VAL Tss2_MU_UINT32_Marshal).
Definition Tss2_MU_TPMS_TAGGED_PROPERTY_Unmarshal : ufn TPMS_TAGGED_PROPERTY :=
  TPMS_UNMARSHAL_2 zero_TPMS_TAGGED_PROPERTY TPMS_TAGGED_PROPERTY'property Tss2_MU_UINT32_Unmarshal
    TPMS_TAGGED_PROPERTY'value Tss2_MU_UINT32_Unmarshal.

Definition Tss2_MU_TPML_TAGGED_TPM_PROPERTY_Marshal : option (TPML TPMS_TAGGED_PROPERTY) -> mstep :=
  TPML_MARSHAL cap_TPML_TAGGED_TPM_PROPERTY (ADDR Tss2_MU_TPMS_TAGGED_PROPERTY_Marshal).
Definition Tss2_MU_TPML_TAGGED_TPM_PROPERTY_Unmarshal : ufn (TPML TPMS_TAGGED_PROPERTY) :=
  TPML_UNMARSHAL cap_TPML_TAGGED_TPM_PROPERTY zero_TPMS_TAGGED_PROPERTY Tss2_MU_TPMS_TAGGED_PROPERTY_Unmarshal.

Definition Tss2_MU_TPML_TAGGED_PCR_PROPERTY_Marshal : option (TPML TPMS_TAGGED_PCR_SELECT) -> mstep :=
  TPML_MARSHAL cap_TPML_TAGGED_PCR_PROPERTY (ADDR Tss2_MU_TPMS_TAGGED_PCR_SELECT_Marshal).
Definition Tss2_MU_TPML_TAGGED_PCR_PROPERTY_Unmarshal : ufn (TPML TPMS_TAGGED_PCR_SELECT) :=
  TPML_UNMARSHAL cap_TPML_TAGGED_PCR_PROPERTY zero_TPMS_TAGGED_PCR_SELECT Tss2_MU_TPMS_TAGGED_PCR_SELECT_Unmarshal.

Definition Tss2_MU_TPMU_HA_Marshal : option bytes -> Z -> mstep :=
  TPMU_MARSHAL2 [
    (TPM2_ALG_SHA1, mcase (whole zero_TPMU_HA) (ADDR marshal_hash_sha));
    (TPM2_ALG_SHA256, mcase (whole zero_TPMU_HA) (ADDR marshal_hash_sha256));
    (TPM2_ALG_SHA384, mcase (whole zero_TPMU_HA) (ADDR marshal_hash_sha384));
    (TPM2_ALG_SHA512, mcase (whole zero_TPMU_HA) (ADDR marshal_hash_sha512));
    (TPM2_ALG_SM3_256, mcase (whole zero_TPMU_HA) (ADDR marshal_sm3_256))].
Definition Tss2_MU_TPMU_HA_Unmarshal : ufn_sel bytes :=
  TPMU_UNMARSHAL2 [
    (TPM2_ALG_SHA1, ucase (whole zero_TPMU_HA) unmarshal_hash_sha);
    (TPM2_ALG_SHA256, ucase (whole zero_TPMU_HA) unmarshal_hash_sha256);
    (TPM2_ALG_SHA384, ucase (whole zero_TPMU_HA) unmarshal_hash_sha384);
    (TPM2_ALG_SHA512, ucase (whole zero_TPMU_HA) unmarshal_hash_sha512);
    (TPM2_ALG_SM3_256, ucase (whole zero_TPMU_HA) unmarshal_sm3_256)].

Definition Tss2_MU_TPMT_HA_Marshal : option TPMT_HA -> mstep :=
  TPMT_MARSHAL_2 TPMT_HA'hashAlg (VAL Tss2_MU_UINT16_Marshal)
    TPMT_HA'digest TPMT_HA'hashAlg (ADDR Tss2_MU_TPMU_HA_Marshal).
Definition Tss2_MU_TPMT_HA_Unmarshal : ufn TPMT_HA :=
  TPMT_UNMARSHAL_2 zero_TPMT_HA TPMT_HA'hashAlg Tss2_MU_UINT16_Unmarshal
    TPMT_HA'digest TPMT_HA'hashAlg Tss2_MU_TPMU_HA_Unmarshal.

Definition Tss2_MU_TPML_DIGEST_VALUES_Marshal : option (TPML TPMT_HA) -> mstep :=
  TPML_MARSHAL cap_TPML_DIGEST_VALUES (ADDR Tss2_MU_TPMT_HA_Marshal).
Definition Tss2_MU_TPML_DIGEST_VALUES_Unmarshal : ufn (TPML TPMT_HA) :=
  TPML_UNMARSHAL cap_TPML_DIGEST_VALUES zero_TPMT_HA Tss2_MU_TPMT_HA_Unmarshal.

Definition Tss2_MU_TPML_INTEL_PTT_PROPERTY_Marshal : option (TPML Z) -> mstep :=
  TPML_MARSHAL cap_TPML_INTEL_PTT_PROPERTY (VAL Tss2_MU_UINT32_Marshal).
Definition Tss2_MU_TPML_INTEL_PTT_PROPERTY_Unmarshal : ufn (TPML Z) :=
  TPML_UNMARSHAL cap_TPML_INTEL_PTT_PROPERTY 0 Tss2_MU_UINT32_Unmarshal.

Definition Tss2_MU_TPMS_AC_OUTPUT_Marshal : option TPMS_AC_OUTPUT -> mstep :=
  TPMS_MARSHAL_2 TPMS_AC_OUTPUT'tag (VAL Tss2_MU_UINT32_Marshal)
    TPMS_AC_OUTPUT'data (VAL Tss2_MU_UINT32_Marshal).
Definition Tss2_MU_TPMS_AC_OUTPUT_Unmarshal : ufn TPMS_AC_OUTPUT :=
  TPMS_UNMARSHAL_2 zero_TPMS_AC_OUTPUT TPMS_AC_OUTPUT'tag Tss2_MU_UINT32_Unmarshal
    TPMS_AC_OUTPUT'data Tss2_MU_UINT32_Unmarshal.

Definition Tss2_MU_TPML_AC_CAPABILITIES_Marshal : option (TPML TPMS_AC_OUTPUT) -> mstep :=
  TPML_MARSHAL cap_TPML_AC_CAPABILITIES (ADDR Tss2_MU_TPMS_AC_OUTPUT_Marshal).
Definition Tss2_MU_TPML_AC_CAPABILITIES_Unmarshal : ufn (TPML TPMS_AC_OUTPUT) :=
  TPML_UNMARSHAL cap_TPML_AC_CAPABILITIES zero_TPMS_AC_OUTPUT Tss2_MU_TPMS_AC_OUTPUT_Unmarshal.

Definition Tss2_MU_TPMS_TAGGED_POLICY_Marshal : option TPMS_TAGGED_POLICY -> mstep :=
  TPMS_MARSHAL_2 TPMS_TAGGED_POLICY'handle (VAL Tss2_MU_UINT32_Marshal)
    TPMS_TAGGED_POLICY'policyHash (ADDR Tss2_MU_TPMT_HA_Marshal).
Definition Tss2_MU_TPMS_TAGGED_POLICY_Unmarshal : ufn TPMS_TAGGED_POLICY :=
  TPMS_UNMARSHAL_2 zero_TPMS_TAGGED_POLICY TPMS_TAGGED_POLICY'handle Tss2_MU_UINT32_Unmarshal
    TPMS_TAGGED_POLICY'policyHash Tss2_MU_TPMT_HA_Unmarshal.

Definition Tss2_MU_TPML_TAGGED_POLICY_Marshal : option (TPML TPMS_TAGGED_POLICY) -> mstep :=
  TPML_MARSHAL cap_TPML_TAGGED_POLICY (ADDR Tss2_MU_TPMS_TAGGED_POLICY_Marshal).
Definition Tss2_MU_TPML_TAGGED_POLICY_Unmarshal : ufn (TPML TPMS_TAGGED_POLICY) :=
  TPML_UNMARSHAL cap_TPML_TAGGED_POLICY zero_TPMS_TAGGED_POLICY Tss2_MU_TPMS_TAGGED_POLICY_Unmarshal.

Definition Tss2_MU_TPMS_ACT_DATA_Marshal : option TPMS_ACT_DATA -> mstep :=
  TPMS_MARSHAL_3 TPMS_ACT_DATA'handle (VAL Tss2_MU_TPM2_HANDLE_Marshal)
    TPMS_ACT_DATA'timeout (VAL Tss2_MU_UINT32_Marshal)
    TPMS_ACT_DATA'attributes (VAL Tss2_MU_UINT32_Marshal).
Definition Tss2_MU_TPMS_ACT_DATA_Unmarshal : ufn TPMS_ACT_DATA :=
  TPMS_UNMARSHAL_3 zero_TPMS_ACT_DATA TPMS_ACT_DATA'handle Tss2_MU_TPM2_HANDLE_Unmarshal
    TPMS_ACT_DATA'timeout Tss2_MU_UINT32_Unmarshal
    TPMS_ACT_DATA'attributes Tss2_MU_UINT32_Unmarshal.

Definition Tss2_MU_TPML_ACT_DATA_Marshal : option (TPML TPMS_ACT_DATA) -> mstep :=
  TPML_MARSHAL cap_TPML_ACT_DATA (ADDR Tss2_MU_TPMS_ACT_DATA_Marshal).
Definition Tss2_MU_TPML_ACT_DATA_Unmarshal : ufn (TPML TPMS_ACT_DATA) :=
  TPML_UNMARSHAL cap_TPML_ACT_DATA zero_TPMS_ACT_DATA Tss2_MU_TPMS_ACT_DATA_Unmarshal.

Definition Tss2_MU_TPML_ML_PARAMETER_SET_Marshal : option (TPML TPMS_ML_PARAMETER_SET) -> mstep :=
  TPML_MARSHAL cap_TPML_ML_PARAMETER_SET (ADDR Tss2_MU_TPMS_ML_PARAMETER_SET_Marshal).
Definition Tss2_MU_TPML_ML_PARAMETER_SET_Unmarshal : ufn (TPML TPMS_ML_PARAMETER_SET) :=
  TPML_UNMARSHAL cap_TPML_ML_PARAMETER_SET zero_TPMS_ML_PARAMETER_SET Tss2_MU_TPMS_ML_PARAMETER_SET_Unmarshal.

Definition Tss2_MU_TPMS_CLOCK_INFO_Marshal : option TPMS_CLOCK_INFO -> mstep :=
  TPMS_MARSHAL_4 TPMS_CLOCK_INFO'clock (VAL Tss2_MU_UINT64_Marshal)
    TPMS_CLOCK_INFO'resetCount (VAL Tss2_MU_UINT32_Marshal)
    TPMS_CLOCK_INFO'restartCount (VAL Tss2_MU_UINT32_Marshal)
    TPMS_CLOCK_INFO'safe (VAL Tss2_MU_UINT8_Marshal).
Definition Tss2_MU_TPMS_CLOCK_INFO_Unmarshal : ufn TPMS_CLOCK_INFO :=
  TPMS_UNMARSHAL_4 zero_TPMS_CLOCK_INFO TPMS_CLOCK_INFO'clock Tss2_MU_UINT64_Unmarshal
    TPMS_CLOCK_INFO'resetCount Tss2_MU_UINT32_Unmarshal
    TPMS_CLOCK_INFO'restartCount Tss2_MU_UINT32_Unmarshal
    TPMS_CLOCK_INFO'safe Tss2_MU_UINT8_Unmarshal.

Definition Tss2_MU_TPMS_TIME_INFO_Marshal : option TPMS_TIME_INFO -> mstep :=
  TPMS_MARSHAL_2 TPMS_TIME_INFO'time (VAL Tss2_MU_UINT64_Marshal)
    TPMS_TIME_INFO'clockInfo (ADDR Tss2_MU_TPMS_CLOCK_INFO_Marshal).
Definition Tss2_MU_TPMS_TIME_INFO_Unmarshal : ufn TPMS_TIME_INFO :=
  TPMS_UNMARSHAL_2 zero_TPMS_TIME_INFO TPMS_TIME_INFO'time Tss2_MU_UINT64_Unmarshal
    TPMS_TIME_INFO'clockInfo Tss2_MU_TPMS_CLOCK_INFO_Unmarshal.

Definition Tss2_MU_TPMS_TIME_ATTEST_INFO_Marshal : option TPMS_TIME_ATTEST_INFO -> mstep :=
  TPMS_MARSHAL_2 TPMS_TIME_ATTEST_INFO'time (ADDR Tss2_MU_TPMS_TIME_INFO_Marshal)
    TPMS_TIME_ATTEST_INFO'firmwareVersion (VAL Tss2_MU_UINT64_Marshal).
Definition Tss2_MU_TPMS_TIME_ATTEST_INFO_Unmarshal : ufn TPMS_TIME_ATTEST_INFO :=
  TPMS_UNMARSHAL_2 zero_TPMS_TIME_ATTEST_INFO TPMS_TIME_ATTEST_INFO'time Tss2_MU_TPMS_TIME_INFO_Unmarshal
    TPMS_TIME_ATTEST_INFO'firmwareVersion Tss2_MU_UINT64_Unmarshal.

Definition Tss2_MU_TPMS_CERTIFY_INFO_Marshal : option TPMS_CERTIFY_INFO -> mstep :=
  TPMS_MARSHAL_2 TPMS_CERTIFY_INFO'name (ADDR Tss2_MU_TPM2B_NAME_Marshal)
    TPMS_CERTIFY_INFO'qualifiedName (ADDR Tss2_MU_TPM2B_NAME_Marshal).
Definition Tss2_MU_TPMS_CERTIFY_INFO_Unmarshal : ufn TPMS_CERTIFY_INFO :=
  TPMS_UNMARSHAL_2 zero_TPMS_CERTIFY_INFO TPMS_CERTIFY_INFO'name Tss2_MU_TPM2B_NAME_Unmarshal
    TPMS_CERTIFY_INFO'qualifiedName Tss2_MU_TPM2B_NAME_Unmarshal.

Definition Tss2_MU_TPMS_COMMAND_AUDIT_INFO_Marshal : option TPMS_COMMAND_AUDIT_INFO -> mstep :=
  TPMS_MARSHAL_4 TPMS_COMMAND_AUDIT_INFO'auditCounter (VAL Tss2_MU_UINT64_Marshal)
    TPMS_COMMAND_AUDIT_INFO'digestAlg (VAL Tss2_MU_UINT16_Marshal)
    TPMS_COMMAND_AUDIT_INFO'auditDigest (ADDR Tss2_MU_TPM2B_DIGEST_Marshal)
    TPMS_COMMAND_AUDIT_INFO'commandDigest (ADDR Tss2_MU_TPM2B_DIGEST_Marshal).
Definition Tss2_MU_TPMS_COMMAND_AUDIT_INFO_Unmarshal : ufn TPMS_COMMAND_AUDIT_INFO :=
  TPMS_UNMARSHAL_4 zero_TPMS_COMMAND_AUDIT_INFO TPMS_COMMAND_AUDIT_INFO'auditCounter Tss2_MU_UINT64_Unmarshal
    TPMS_COMMAND_AUDIT_INFO'digestAlg Tss2_MU_UINT16_Unmarshal
    TPMS_COMMAND_AUDIT_INFO'auditDigest Tss2_MU_TPM2B_DIGEST_Unmarshal
    TPMS_COMMAND_AUDIT_INFO'commandDigest Tss2_MU_TPM2B_DIGEST_Unmarshal.

Definition Tss2_MU_TPMS_SESSION_AUDIT_INFO_Marshal : option TPMS_SESSION_AUDIT_INFO -> mstep :=
  TPMS_MARSHAL_2 TPMS_SESSION_AUDIT_INFO'exclusiveSession (VAL Tss2_MU_UINT8_Marshal)
    TPMS_SESSION_AUDIT_INFO'sessionDigest (ADDR Tss2_MU_TPM2B_DIGEST_Marshal).
Definition Tss2_MU_TPMS_SESSION_AUDIT_INFO_Unmarshal : ufn TPMS_SESSION_AUDIT_INFO :=
  TPMS_UNMARSHAL_2 zero_TPMS_SESSION_AUDIT_INFO TPMS_SESSION_AUDIT_INFO'exclusiveSession Tss2_MU_UINT8_Unmarshal
    TPMS_SESSION_AUDIT_INFO'sessionDigest Tss2_MU_TPM2B_DIGEST_Unmarshal.

Definition Tss2_MU_TPMS_CREATION_INFO_Marshal : option TPMS_CREATION_INFO -> mstep :=
  TPMS_MARSHAL_2 TPMS_CREATION_INFO'objectName (ADDR Tss2_MU_TPM2B_NAME_Marshal)
    TPMS_CREATION_INFO'creationHash (ADDR Tss2_MU_TPM2B_DIGEST_Marshal).
Definition Tss2_MU_TPMS_CREATION_INFO_Unmarshal : ufn TPMS_CREATION_INFO :=
  TPMS_UNMARSHAL_2 zero_TPMS_CREATION_INFO TPMS_CREATION_INFO'objectName Tss2_MU_TPM2B_NAME_Unmarshal
    TPMS_CREATION_INFO'creationHash Tss2_MU_TPM2B_DIGEST_Unmarshal.

Definition Tss2_MU_TPMS_NV_CERTIFY_INFO_Marshal : option TPMS_NV_CERTIFY_INFO -> mstep :=
  TPMS_MARSHAL_3 TPMS_NV_CERTIFY_INFO'indexName (ADDR Tss2_MU_TPM2B_NAME_Marshal)
    TPMS_NV_CERTIFY_INFO'offset (VAL Tss2_MU_UINT16_Marshal)
    TPMS_NV_CERTIFY_INFO'nvContents (ADDR Tss2_MU_TPM2B_MAX_NV_BUFFER_Marshal).
Definition Tss2_MU_TPMS_NV_CERTIFY_INFO_Unmarshal : ufn TPMS_NV_CERTIFY_INFO :=
  TPMS_UNMARSHAL_3 zero_TPMS_NV_CERTIFY_INFO TPMS_NV_CERTIFY_INFO'indexName Tss2_MU_TPM2B_NAME_Unmarshal
    TPMS_NV_CERTIFY_INFO'offset Tss2_MU_UINT16_Unmarshal
    TPMS_NV_CERTIFY_INFO'nvContents Tss2_MU_TPM2B_MAX_NV_BUFFER_Unmarshal.

Definition Tss2_MU_TPMS_AUTH_COMMAND_Marshal : option TPMS_AUTH_COMMAND -> mstep :=
  TPMS_MARSHAL_4 TPMS_AUTH_COMMAND'sessionHandle (VAL Tss2_MU_UINT32_Marshal)
    TPMS_AUTH_COMMAND'nonce (ADDR Tss2_MU_TPM2B_DIGEST_Marshal)
    TPMS_AUTH_COMMAND'sessionAttributes (VAL Tss2_MU_TPMA_SESSION_Marshal)
    TPMS_AUTH_COMMAND'hmac (ADDR Tss2_MU_TPM2B_DIGEST_Marshal).
Definition Tss2_MU_TPMS_AUTH_COMMAND_Unmarshal : ufn TPMS_AUTH_COMMAND :=
  TPMS_UNMARSHAL_4 zero_TPMS_AUTH_COMMAND TPMS_AUTH_COMMAND'sessionHandle Tss2_MU_UINT32_Unmarshal
    TPMS_AUTH_COMMAND'nonce Tss2_MU_TPM2B_DIGEST_Unmarshal
    TPMS_AUTH_COMMAND'sessionAttributes Tss2_MU_TPMA_SESSION_Unmarshal
    TPMS_AUTH_COMMAND'hmac Tss2_MU_TPM2B_DIGEST_Unmarshal.

Definition Tss2_MU_TPMS_AUTH_RESPONSE_Marshal : option TPMS_AUTH_RESPONSE -> mstep :=
  TPMS_MARSHAL_3 TPMS_AUTH_RESPONSE'nonce (ADDR Tss2_MU_TPM2B_DIGEST_Marshal)
    TPMS_AUTH_RESPONSE'sessionAttributes (VAL Tss2_MU_TPMA_SESSION_Marshal)
    TPMS_AUTH_RESPONSE'hmac (ADDR Tss2_MU_TPM2B_DIGEST_Marshal).
Definition Tss2_MU_TPMS_AUTH_RESPONSE_Unmarshal : ufn TPMS_AUTH_RESPONSE :=
  TPMS_UNMARSHAL_3 zero_TPMS_AUTH_RESPONSE TPMS_AUTH_RESPONSE'nonce Tss2_MU_TPM2B_DIGEST_Unmarshal
    TPMS_AUTH_RESPONSE'sessionAttributes Tss2_MU_TPMA_SESSION_Unmarshal
    TPMS_AUTH_RESPONSE'hmac Tss2_MU_TPM2B_DIGEST_Unmarshal.

Definition Tss2_MU_TPMS_SIGNATURE_RSA_Marshal : option TPMS_SIGNATURE_RSA -> mstep :=
  TPMS_MARSHAL_2 TPMS_SIGNATURE_RSA'hash (VAL Tss2_MU_UINT16_Marshal)
    TPMS_SIGNATURE_RSA'sig (ADDR Tss2_MU_TPM2B_PUBLIC_KEY_RSA_Marshal).
Definition Tss2_MU_TPMS_SIGNATURE_RSA_Unmarshal : ufn TPMS_SIGNATURE_RSA :=
  TPMS_UNMARSHAL_2 zero_TPMS_SIGNATURE_RSA TPMS_SIGNATURE_RSA'hash Tss2_MU_UINT16_Unmarshal
    TPMS_SIGNATURE_RSA'sig Tss2_MU_TPM2B_PUBLIC_KEY_RSA_Unmarshal.

Definition Tss2_MU_TPMS_SIGNATURE_ECC_Marshal : option TPMS_SIGNATURE_ECC -> mstep :=
  TPMS_MARSHAL_3 TPMS_SIGNATURE_ECC'hash (VAL Tss2_MU_UINT16_Marshal)
    TPMS_SIGNATURE_ECC'signatureR (ADDR Tss2_MU_TPM2B_ECC_PARAMETER_Marshal)
    TPMS_SIGNATURE_ECC'signatureS (ADDR Tss2_MU_TPM2B_ECC_PARAMETER_Marshal).
Definition Tss2_MU_TPMS_SIGNATURE_ECC_Unmarshal : ufn TPMS_SIGNATURE_ECC :=
  TPMS_UNMARSHAL_3 zero_TPMS_SIGNATURE_ECC TPMS_SIGNATURE_ECC'hash Tss2_MU_UINT16_Unmarshal
    TPMS_SIGNATURE_ECC'signatureR Tss2_MU_TPM2B_ECC_PARAMETER_Unmarshal
    TPMS_SIGNATURE_ECC'signatureS Tss2_MU_TPM2B_ECC_PARAMETER_Unmarshal.

Definition Tss2_MU_TPMS_NV_PIN_COUNTER_PARAMETERS_Marshal : option TPMS_NV_PIN_COUNTER_PARAMETERS -> mstep :=
  TPMS_MARSHAL_2 TPMS_NV_PIN_COUNTER_PARAMETERS'pinCount (VAL Tss2_MU_UINT32_Marshal)
    TPMS_NV_PIN_COUNTER_PARAMETERS'pinLimit (VAL Tss2_MU_UINT32_Marshal).
Definition Tss2_MU_TPMS_NV_PIN_COUNTER_PARAMETERS_Unmarshal : ufn TPMS_NV_PIN_COUNTER_PARAMETERS :=
  TPMS_UNMARSHAL_2 zero_TPMS_NV_PIN_COUNTER_PARAMETERS TPMS_NV_PIN_COUNTER_PARAMETERS'pinCount Tss2_MU_UINT32_Unmarshal
    TPMS_NV_PIN_COUNTER_PARAMETERS'pinLimit Tss2_MU_UINT32_Unmarshal.

Definition Tss2_MU_TPMS_CONTEXT_DATA_Marshal : option TPMS_CONTEXT_DATA -> mstep :=
  TPMS_MARSHAL_2 TPMS_CONTEXT_DATA'integrity (ADDR Tss2_MU_TPM2B_DIGEST_Marshal)
    TPMS_CONTEXT_DATA'encrypted (ADDR Tss2_MU_TPM2B_CONTEXT_SENSITIVE_Marshal).
Definition Tss2_MU_TPMS_CONTEXT_DATA_Unmarshal : ufn TPMS_CONTEXT_DATA :=
  TPMS_UNMARSHAL_2 zero_TPMS_CONTEXT_DATA TPMS_CONTEXT_DATA'integrity Tss2_MU_TPM2B_DIGEST_Unmarshal
    TPMS_CONTEXT_DATA'encrypted Tss2_MU_TPM2B_CONTEXT_SENSITIVE_Unmarshal.

Definition Tss2_MU_TPMS_CONTEXT_Marshal : option TPMS_CONTEXT -> mstep :=
  TPMS_MARSHAL_4 TPMS_CONTEXT'sequence (VAL Tss2_MU_UINT64_Marshal)
    TPMS_CONTEXT'savedHandle (VAL Tss2_MU_UINT32_Marshal)
    TPMS_CONTEXT'hierarchy (VAL Tss2_MU_UINT32_Marshal)
    TPMS_CONTEXT'contextBlob (ADDR Tss2_MU_TPM2B_CONTEXT_DATA_Marshal).
Definition Tss2_MU_TPMS_CONTEXT_Unmarshal : ufn TPMS_CONTEXT :=
  TPMS_UNMARSHAL_4 zero_TPMS_CONTEXT TPMS_CONTEXT'sequence Tss2_MU_UINT64_Unmarshal
    TPMS_CONTEXT'savedHandle Tss2_MU_UINT32_Unmarshal
    TPMS_CONTEXT'hierarchy Tss2_MU_UINT32_Unmarshal
    TPMS_CONTEXT'contextBlob Tss2_MU_TPM2B_CONTEXT_DATA_Unmarshal.

Definition Tss2_MU_TPMS_QUOTE_INFO_Marshal : option TPMS_QUOTE_INFO -> mstep :=
  TPMS_MARSHAL_2 TPMS_QUOTE_INFO'pcrSelect (ADDR Tss2_MU_TPML_PCR_SELECTION_Marshal)
    TPMS_QUOTE_INFO'pcrDigest (ADDR Tss2_MU_TPM2B_DIGEST_Marshal).
Definition Tss2_MU_TPMS_QUOTE_INFO_Unmarshal : ufn TPMS_QUOTE_INFO :=
  TPMS_UNMARSHAL_2 zero_TPMS_QUOTE_INFO TPMS_QUOTE_INFO'pcrSelect Tss2_MU_TPML_PCR_SELECTION_Unmarshal
    TPMS_QUOTE_INFO'pcrDigest Tss2_MU_TPM2B_DIGEST_Unmarshal.

Definition Tss2_MU_TPMS_SIGNATURE_MLDSA_Marshal : option TPMS_SIGNATURE_MLDSA -> mstep :=
  TPMS_MARSHAL_2 TPMS_SIGNATURE_MLDSA'hash (VAL Tss2_MU_UINT16_Marshal)
    TPMS_SIGNATURE_MLDSA'sig (ADDR Tss2_MU_TPM2B_MLDSA_SIGNATURE_Marshal).
Definition Tss2_MU_TPMS_SIGNATURE_MLDSA_Unmarshal : ufn TPMS_SIGNATURE_MLDSA :=
  TPMS_UNMARSHAL_2 zero_TPMS_SIGNATURE_MLDSA TPMS_SIGNATURE_MLDSA'hash Tss2_MU_UINT16_Unmarshal
    TPMS_SIGNATURE_MLDSA'sig Tss2_MU_TPM2B_MLDSA_SIGNATURE_Unmarshal.

Definition Tss2_MU_TPMU_ATTEST_Marshal : option TPMU_ATTEST -> Z -> mstep :=
  TPMU_MARSHAL2 [
    (TPM2_ST_ATTEST_CERTIFY, mcase TPMU_ATTEST'TPMS_CERTIFY_INFO (ADDR Tss2_MU_TPMS_CERTIFY_INFO_Marshal));
    (TPM2_ST_ATTEST_CREATION, mcase TPMU_ATTEST'TPMS_CREATION_INFO (ADDR Tss2_MU_TPMS_CREATION_INFO_Marshal));
    (TPM2_ST_ATTEST_QUOTE, mcase TPMU_ATTEST'TPMS_QUOTE_INFO (ADDR Tss2_MU_TPMS_QUOTE_INFO_Marshal));
    (TPM2_ST_ATTEST_COMMAND_AUDIT, mcase TPMU_ATTEST'TPMS_COMMAND_AUDIT_INFO (ADDR Tss2_MU_TPMS_COMMAND_AUDIT_INFO_Marshal));
    (TPM2_ST_ATTEST_SESSION_AUDIT, mcase TPMU_ATTEST'TPMS_SESSION_AUDIT_INFO (ADDR Tss2_MU_TPMS_SESSION_AUDIT_INFO_Marshal));
    (TPM2_ST_ATTEST_TIME, mcase TPMU_ATTEST'TPMS_TIME_ATTEST_INFO (ADDR Tss2_MU_TPMS_TIME_ATTEST_INFO_Marshal));
    (TPM2_ST_ATTEST_NV, mcase TPMU_ATTEST'TPMS_NV_CERTIFY_INFO (ADDR Tss2_MU_TPMS_NV_CERTIFY_INFO_Marshal))].
Definition Tss2_MU_TPMU_ATTEST_Unmarshal : ufn_sel TPMU_ATTEST :=
  TPMU_UNMARSHAL2 [
    (TPM2_ST_ATTEST_CERTIFY, ucase TPMU_ATTEST'TPMS_CERTIFY_INFO Tss2_MU_TPMS_CERTIFY_INFO_Unmarshal);
    (TPM2_ST_ATTEST_CREATION, ucase TPMU_ATTEST'TPMS_CREATION_INFO Tss2_MU_TPMS_CREATION_INFO_Unmarshal);
    (TPM2_ST_ATTEST_QUOTE, ucase TPMU_ATTEST'TPMS_QUOTE_INFO Tss2_MU_TPMS_QUOTE_INFO_Unmarshal);
    (TPM2_ST_ATTEST_COMMAND_AUDIT, ucase TPMU_ATTEST'TPMS_COMMAND_AUDIT_INFO Tss2_MU_TPMS_COMMAND_AUDIT_INFO_Unmarshal);
    (TPM2_ST_ATTEST_SESSION_AUDIT, ucase TPMU_ATTEST'TPMS_SESSION_AUDIT_INFO Tss2_MU_TPMS_SESSION_AUDIT_INFO_Unmarshal);
    (TPM2_ST_ATTEST_TIME, ucase TPMU_ATTEST'TPMS_TIME_ATTEST_INFO Tss2_MU_TPMS_TIME_ATTEST_INFO_Unmarshal);
    (TPM2_ST_ATTEST_NV, ucase TPMU_ATTEST'TPMS_NV_CERTIFY_INFO Tss2_MU_TPMS_NV_CERTIFY_INFO_Unmarshal)].

Definition Tss2_MU_TPMS_ATTEST_Marshal : option TPMS_ATTEST -> mstep :=
  TPMS_MARSHAL_7_U TPMS_ATTEST'magic (VAL Tss2_MU_UINT32_Marshal)
    TPMS_ATTEST'type (VAL Tss2_MU_TPM2_ST_Marshal)
    TPMS_ATTEST'qualifiedSigner (ADDR Tss2_MU_TPM2B_NAME_Marshal)
    TPMS_ATTEST'extraData (ADDR Tss2_MU_TPM2B_DATA_Marshal)
    TPMS_ATTEST'clockInfo (ADDR Tss2_MU_TPMS_CLOCK_INFO_Marshal)
    TPMS_ATTEST'firmwareVersion (VAL Tss2_MU_UINT64_Marshal)
    TPMS_ATTEST'attested (ADDR Tss2_MU_TPMU_ATTEST_Marshal).
Definition Tss2_MU_TPMS_ATTEST_Unmarshal : ufn TPMS_ATTEST :=
  TPMS_UNMARSHAL_7_U zero_TPMS_ATTEST TPMS_ATTEST'magic TPM2_GENERATED_Unmarshal
    TPMS_ATTEST'type Tss2_MU_TPM2_ST_Unmarshal
    TPMS_ATTEST'qualifiedSigner Tss2_MU_TPM2B_NAME_Unmarshal
    TPMS_ATTEST'extraData Tss2_MU_TPM2B_DATA_Unmarshal
    TPMS_ATTEST'clockInfo Tss2_MU_TPMS_CLOCK_INFO_Unmarshal
    TPMS_ATTEST'firmwareVersion Tss2_MU_UINT64_Unmarshal
    TPMS_ATTEST'attested Tss2_MU_TPMU_ATTEST_Unmarshal.

Definition Tss2_MU_TPMS_ALGORITHM_DETAIL_ECC_Marshal : option TPMS_ALGORITHM_DETAIL_ECC -> mstep :=
  TPMS_MARSHAL_11 TPMS_ALGORITHM_DETAIL_ECC'curveID (VAL Tss2_MU_UINT16_Marshal)
    TPMS_ALGORITHM_DETAIL_ECC'keySize (VAL Tss2_MU_UINT16_Marshal)
    TPMS_ALGORITHM_DETAIL_ECC'kdf (ADDR Tss2_MU_TPMT_KDF_SCHEME_Marshal)
    TPMS_ALGORITHM_DETAIL_ECC'sign (ADDR Tss2_MU_TPMT_ECC_SCHEME_Marshal)
    TPMS_ALGORITHM_DETAIL_ECC'p (ADDR Tss2_MU_TPM2B_ECC_PARAMETER_Marshal)
    TPMS_ALGORITHM_DETAIL_ECC'a (ADDR Tss2_MU_TPM2B_ECC_PARAMETER_Marshal)
    TPMS_ALGORITHM_DETAIL_ECC'b (ADDR Tss2_MU_TPM2B_ECC_PARAMETER_Marshal)
    TPMS_ALGORITHM_DETAIL_ECC'gX (ADDR Tss2_MU_TPM2B_ECC_PARAMETER_Marshal)
    TPMS_ALGORITHM_DETAIL_ECC'gY (ADDR Tss2_MU_TPM2B_ECC_PARAMETER_Marshal)
    TPMS_ALGORITHM_DETAIL_ECC'n (ADDR Tss2_MU_TPM2B_ECC_PARAMETER_Marshal)
    TPMS_ALGORITHM_DETAIL_ECC'h (ADDR Tss2_MU_TPM2B_ECC_PARAMETER_Marshal).
Definition Tss2_MU_TPMS_ALGORITHM_DETAIL_ECC_Unmarshal : ufn TPMS_ALGORITHM_DETAIL_ECC :=
  TPMS_UNMARSHAL_11 zero_TPMS_ALGORITHM_DETAIL_ECC TPMS_ALGORITHM_DETAIL_ECC'curveID Tss2_MU_UINT16_Unmarshal
    TPMS_ALGORITHM_DETAIL_ECC'keySize Tss2_MU_UINT16_Unmarshal
    TPMS_ALGORITHM_DETAIL_ECC'kdf Tss2_MU_TPMT_KDF_SCHEME_Unmarshal
    TPMS_ALGORITHM_DETAIL_ECC'sign Tss2_MU_TPMT_ECC_SCHEME_Unmarshal
    TPMS_ALGORITHM_DETAIL_ECC'p Tss2_MU_TPM2B_ECC_PARAMETER_Unmarshal
    TPMS_ALGORITHM_DETAIL_ECC'a Tss2_MU_TPM2B_ECC_PARAMETER_Unmarshal
    TPMS_ALGORITHM_DETAIL_ECC'b Tss2_MU_TPM2B_ECC_PARAMETER_Unmarshal
    TPMS_ALGORITHM_DETAIL_ECC'gX Tss2_MU_TPM2B_ECC_PARAMETER_Unmarshal
    TPMS_ALGORITHM_DETAIL_ECC'gY Tss2_MU_TPM2B_ECC_PARAMETER_Unmarshal
    TPMS_ALGORITHM_DETAIL_ECC'n Tss2_MU_TPM2B_ECC_PARAMETER_Unmarshal
    TPMS_ALGORITHM_DETAIL_ECC'h Tss2_MU_TPM2B_ECC_PARAMETER_Unmarshal.

Definition Tss2_MU_TPMU_CAPABILITIES_Marshal : option TPMU_CAPABILITIES -> Z -> mstep :=
  TPMU_MARSHAL2 [
    (TPM2_CAP_ALGS, mcase TPMU_CAPABILITIES'TPML_ALG_PROPERTY (ADDR Tss2_MU_TPML_ALG_PROPERTY_Marshal));
    (TPM2_CAP_HANDLES, mcase TPMU_CAPABILITIES'TPML_HANDLE (ADDR Tss2_MU_TPML_HANDLE_Marshal));
    (TPM2_CAP_COMMANDS, mcase TPMU_CAPABILITIES'TPML_CCA (ADDR Tss2_MU_TPML_CCA_Marshal));
    (TPM2_CAP_PP_COMMANDS, mcase TPMU_CAPABILITIES'TPML_CC (ADDR Tss2_MU_TPML_CC_Marshal));
    (TPM2_CAP_AUDIT_COMMANDS, mcase TPMU_CAPABILITIES'TPML_CC (ADDR Tss2_MU_TPML_CC_Marshal));
    (TPM2_CAP_PCRS, mcase TPMU_CAPABILITIES'TPML_PCR_SELECTION (ADDR Tss2_MU_TPML_PCR_SELECTION_Marshal));
    (TPM2_CAP_TPM_PROPERTIES, mcase TPMU_CAPABILITIES'TPML_TAGGED_TPM_PROPERTY (ADDR Tss2_MU_TPML_TAGGED_TPM_PROPERTY_Marshal));
    (TPM2_CAP_PCR_PROPERTIES, mcase TPMU_CAPABILITIES'TPML_TAGGED_PCR_PROPERTY (ADDR Tss2_MU_TPML_TAGGED_PCR_PROPERTY_Marshal));
    (TPM2_CAP_ECC_CURVES, mcase TPMU_CAPABILITIES'TPML_ECC_CURVE (ADDR Tss2_MU_TPML_ECC_CURVE_Marshal));
    (TPM2_CAP_AUTH_POLICIES, mcase TPMU_CAPABILITIES'TPML_TAGGED_POLICY (ADDR Tss2_MU_TPML_TAGGED_POLICY_Marshal));
    (TPM2_CAP_ACT, mcase TPMU_CAPABILITIES'TPML_ACT_DATA (ADDR Tss2_MU_TPML_ACT_DATA_Marshal));
    (TPM2_CAP_VENDOR_PROPERTY, mcase TPMU_CAPABILITIES'TPM2B_MAX_CAP_BUFFER (ADDR Tss2_MU_TPM2B_MAX_CAP_BUFFER_Marshal))].
Definition Tss2_MU_TPMU_CAPABILITIES_Unmarshal : ufn_sel TPMU_CAPABILITIES :=
  TPMU_UNMARSHAL2 [
    (TPM2_CAP_ALGS, ucase TPMU_CAPABILITIES'TPML_ALG_PROPERTY Tss2_MU_TPML_ALG_PROPERTY_Unmarshal);
    (TPM2_CAP_HANDLES, ucase TPMU_CAPABILITIES'TPML_HANDLE Tss2_MU_TPML_HANDLE_Unmarshal);
    (TPM2_CAP_COMMANDS, ucase TPMU_CAPABILITIES'TPML_CCA Tss2_MU_TPML_CCA_Unmarshal);
    (TPM2_CAP_PP_COMMANDS, ucase TPMU_CAPABILITIES'TPML_CC Tss2_MU_TPML_CC_Unmarshal);
    (TPM2_CAP_AUDIT_COMMANDS, ucase TPMU_CAPABILITIES'TPML_CC Tss2_MU_TPML_CC_Unmarshal);
    (TPM2_CAP_PCRS, ucase TPMU_CAPABILITIES'TPML_PCR_SELECTION Tss2_MU_TPML_PCR_SELECTION_Unmarshal);
    (TPM2_CAP_TPM_PROPERTIES, ucase TPMU_CAPABILITIES'TPML_TAGGED_TPM_PROPERTY Tss2_MU_TPML_TAGGED_TPM_PROPERTY_Unmarshal);
    (TPM2_CAP_PCR_PROPERTIES, ucase TPMU_CAPABILITIES'TPML_TAGGED_PCR_PROPERTY Tss2_MU_TPML_TAGGED_PCR_PROPERTY_Unmarshal);
    (TPM2_CAP_ECC_CURVES, ucase TPMU_CAPABILITIES'TPML_ECC_CURVE Tss2_MU_TPML_ECC_CURVE_Unmarshal);
    (TPM2_CAP_AUTH_POLICIES, ucase TPMU_CAPABILITIES'TPML_TAGGED_POLICY Tss2_MU_TPML_TAGGED_POLICY_Unmarshal);
    (TPM2_CAP_ACT, ucase TPMU_CAPABILITIES'TPML_ACT_DATA Tss2_MU_TPML_ACT_DATA_Unmarshal);
    (TPM2_CAP_VENDOR_PROPERTY, ucase TPMU_CAPABILITIES'TPM2B_MAX_CAP_BUFFER Tss2_MU_TPM2B_MAX_CAP_BUFFER_Unmarshal)].

Definition Tss2_MU_TPMS_CAPABILITY_DATA_Marshal : option TPMS_CAPABILITY_DATA -> mstep :=
  TPMS_MARSHAL_2_U TPMS_CAPABILITY_DATA'capability (VAL Tss2_MU_UINT32_Marshal)
    TPMS_CAPABILITY_DATA'data (ADDR Tss2_MU_TPMU_CAPABILITIES_Marshal).
Definition Tss2_MU_TPMS_CAPABILITY_DATA_Unmarshal : ufn TPMS_CAPABILITY_DATA :=
  TPMS_UNMARSHAL_2_U zero_TPMS_CAPABILITY_DATA TPMS_CAPABILITY_DATA'capability Tss2_MU_UINT32_Unmarshal
    TPMS_CAPABILITY_DATA'data Tss2_MU_TPMU_CAPABILITIES_Unmarshal.

Definition Tss2_MU_TPMS_EMPTY_Marshal : option TPMS_EMPTY -> mstep :=
  TPMS_MARSHAL_0.
Definition Tss2_MU_TPMS_EMPTY_Unmarshal : ufn TPMS_EMPTY :=
  TPMS_UNMARSHAL_0.

Definition Tss2_MU_TPMS_ID_OBJECT_Marshal : option TPMS_ID_OBJECT -> mstep :=
  TPMS_MARSHAL_2 TPMS_ID_OBJECT'integrityHMAC (ADDR Tss2_MU_TPM2B_DIGEST_Marshal)
    TPMS_ID_OBJECT'encIdentity (ADDR Tss2_MU_TPM2B_DIGEST_Marshal).
Definition Tss2_MU_TPMS_ID_OBJECT_Unmarshal : ufn TPMS_ID_OBJECT :=
  TPMS_UNMARSHAL_2 zero_TPMS_ID_OBJECT TPMS_ID_OBJECT'integrityHMAC Tss2_MU_TPM2B_DIGEST_Unmarshal
    TPMS_ID_OBJECT'encIdentity Tss2_MU_TPM2B_DIGEST_Unmarshal.

Definition Tss2_MU_TPMS_NV_DIGEST_CERTIFY_INFO_Marshal : option TPMS_NV_DIGEST_CERTIFY_INFO -> mstep :=
  TPMS_MARSHAL_2 TPMS_NV_DIGEST_CERTIFY_INFO'indexName (ADDR Tss2_MU_TPM2B_NAME_Marshal)
    TPMS_NV_DIGEST_CERTIFY_INFO'nvDigest (ADDR Tss2_MU_TPM2B_DIGEST_Marshal).
Definition Tss2_MU_TPMS_NV_DIGEST_CERTIFY_INFO_Unmarshal : ufn TPMS_NV_DIGEST_CERTIFY_INFO :=
  TPMS_UNMARSHAL_2 zero_TPMS_NV_DIGEST_CERTIFY_INFO TPMS_NV_DIGEST_CERTIFY_INFO'indexName Tss2_MU_TPM2B_NAME_Unmarshal
    TPMS_NV_DIGEST_CERTIFY_INFO'nvDigest Tss2_MU_TPM2B_DIGEST_Unmarshal.

Definition Tss2_MU_TPMT_SYM_DEF_Marshal : option TPMT_SYM_DEF -> mstep :=
  TPMT_MARSHAL_3 TPMT_SYM_DEF'algorithm (VAL Tss2_MU_UINT16_Marshal)
    TPMT_SYM_DEF'keyBits TPMT_SYM_DEF'algorithm (ADDR Tss2_MU_TPMU_SYM_KEY_BITS_Marshal)
    TPMT_SYM_DEF'mode TPMT_SYM_DEF'algorithm (ADDR Tss2_MU_TPMU_SYM_MODE_Marshal).
Definition Tss2_MU_TPMT_SYM_DEF_Unmarshal : ufn TPMT_SYM_DEF :=
  TPMT_UNMARSHAL_3 zero_TPMT_SYM_DEF TPMT_SYM_DEF'algorithm Tss2_MU_UINT16_Unmarshal
    TPMT_SYM_DEF'keyBits TPMT_SYM_DEF'algorithm Tss2_MU_TPMU_SYM_KEY_BITS_Unmarshal
    TPMT_SYM_DEF'mode TPMT_SYM_DEF'algorithm Tss2_MU_TPMU_SYM_MODE_Unmarshal.

Definition Tss2_MU_TPMU_SIG_SCHEME_Marshal : option TPMS_SCHEME_ECDAA -> Z -> mstep :=
  TPMU_MARSHAL2 [
    (TPM2_ALG_RSASSA, mcase hash_of_ecdaa (ADDR Tss2_MU_TPMS_SCHEME_HASH_Marshal));
    (TPM2_ALG_RSAPSS, mcase hash_of_ecdaa (ADDR Tss2_MU_TPMS_SCHEME_HASH_Marshal));
    (TPM2_ALG_ECDSA, mcase hash_of_ecdaa (ADDR Tss2_MU_TPMS_SCHEME_HASH_Marshal));
    (TPM2_ALG_ECDAA, mcase (whole zero_TPMS_SCHEME_ECDAA) (ADDR Tss2_MU_TPMS_SCHEME_ECDAA_Marshal));
    (TPM2_ALG_SM2, mcase hash_of_ecdaa (ADDR Tss2_MU_TPMS_SCHEME_HASH_Marshal));
    (TPM2_ALG_ECSCHNORR, mcase hash_of_ecdaa (ADDR Tss2_MU_TPMS_SCHEME_HASH_Marshal));
    (TPM2_ALG_HMAC, mcase hash_of_ecdaa (ADDR Tss2_MU_TPMS_SCHEME_HASH_Marshal))].
Definition Tss2_MU_TPMU_SIG_SCHEME_Unmarshal : ufn_sel TPMS_SCHEME_ECDAA :=
  TPMU_UNMARSHAL2 [
    (TPM2_ALG_RSASSA, ucase hash_of_ecdaa Tss2_MU_TPMS_SCHEME_HASH_Unmarshal);
    (TPM2_ALG_RSAPSS, ucase hash_of_ecdaa Tss2_MU_TPMS_SCHEME_HASH_Unmarshal);
    (TPM2_ALG_ECDSA, ucase hash_of_ecdaa Tss2_MU_TPMS_SCHEME_HASH_Unmarshal);
    (TPM2_ALG_ECDAA, ucase (whole zero_TPMS_SCHEME_ECDAA) Tss2_MU_TPMS_SCHEME_ECDAA_Unmarshal);
    (TPM2_ALG_SM2, ucase hash_of_ecdaa Tss2_MU_TPMS_SCHEME_HASH_Unmarshal);
    (TPM2_ALG_ECSCHNORR, ucase hash_of_ecdaa Tss2_MU_TPMS_SCHEME_HASH_Unmarshal);
    (TPM2_ALG_HMAC, ucase hash_of_ecdaa Tss2_MU_TPMS_SCHEME_HASH_Unmarshal)].

Definition Tss2_MU_TPMT_SIG_SCHEME_Marshal : option TPMT_SIG_SCHEME -> mstep :=
  TPMT_MARSHAL_2 TPMT_SIG_SCHEME'scheme (VAL Tss2_MU_UINT16_Marshal)
    TPMT_SIG_SCHEME'details TPMT_SIG_SCHEME'scheme (ADDR Tss2_MU_TPMU_SIG_SCHEME_Marshal).
Definition Tss2_MU_TPMT_SIG_SCHEME_Unmarshal : ufn TPMT_SIG_SCHEME :=
  TPMT_UNMARSHAL_2 zero_TPMT_SIG_SCHEME TPMT_SIG_SCHEME'scheme Tss2_MU_UINT16_Unmarshal
    TPMT_SIG_SCHEME'details TPMT_SIG_SCHEME'scheme Tss2_MU_TPMU_SIG_SCHEME_Unmarshal.

Definition Tss2_MU_TPMT_ASYM_SCHEME_Marshal : option TPMT_ASYM_SCHEME -> mstep :=
  TPMT_MARSHAL_2 TPMT_ASYM_SCHEME'scheme (VAL Tss2_MU_UINT16_Marshal)
    TPMT_ASYM_SCHEME'details TPMT_ASYM_SCHEME'scheme (ADDR Tss2_MU_TPMU_ASYM_SCHEME_Marshal).
Definition Tss2_MU_TPMT_ASYM_SCHEME_Unmarshal : ufn TPMT_ASYM_SCHEME :=
  TPMT_UNMARSHAL_2 zero_TPMT_ASYM_SCHEME TPMT_ASYM_SCHEME'scheme Tss2_MU_UINT16_Unmarshal
    TPMT_ASYM_SCHEME'details TPMT_ASYM_SCHEME'scheme Tss2_MU_TPMU_ASYM_SCHEME_Unmarshal.

Definition Tss2_MU_TPMT_RSA_DECRYPT_Marshal : option TPMT_RSA_DECRYPT -> mstep :=
  TPMT_MARSHAL_2 TPMT_RSA_DECRYPT'scheme (VAL Tss2_MU_UINT16_Marshal)
    TPMT_RSA_DECRYPT'details TPMT_RSA_DECRYPT'scheme (ADDR Tss2_MU_TPMU_ASYM_SCHEME_Marshal).
Definition Tss2_MU_TPMT_RSA_DECRYPT_Unmarshal : ufn TPMT_RSA_DECRYPT :=
  TPMT_UNMARSHAL_2 zero_TPMT_RSA_DECRYPT TPMT_RSA_DECRYPT'scheme Tss2_MU_UINT16_Unmarshal
    TPMT_RSA_DECRYPT'details TPMT_RSA_DECRYPT'scheme Tss2_MU_TPMU_ASYM_SCHEME_Unmarshal.

Definition Tss2_MU_TPMU_SIGNATURE_Marshal : option TPMU_SIGNATURE -> Z -> mstep :=
  TPMU_MARSHAL2 [
    (TPM2_ALG_RSASSA, mcase TPMU_SIGNATURE'TPMS_SIGNATURE_RSA (ADDR Tss2_MU_TPMS_SIGNATURE_RSA_Marshal));
    (TPM2_ALG_RSAPSS, mcase TPMU_SIGNATURE'TPMS_SIGNATURE_RSA (ADDR Tss2_MU_TPMS_SIGNATURE_RSA_Marshal));
    (TPM2_ALG_ECDSA, mcase TPMU_SIGNATURE'TPMS_SIGNATURE_ECC (ADDR Tss2_MU_TPMS_SIGNATURE_ECC_Marshal));
    (TPM2_ALG_ECDAA, mcase TPMU_SIGNATURE'TPMS_SIGNATURE_ECC (ADDR Tss2_MU_TPMS_SIGNATURE_ECC_Marshal));
    (TPM2_ALG_SM2, mcase TPMU_SIGNATURE'TPMS_SIGNATURE_ECC (ADDR Tss2_MU_TPMS_SIGNATURE_ECC_Marshal));
    (TPM2_ALG_ECSCHNORR, mcase TPMU_SIGNATURE'TPMS_SIGNATURE_ECC (ADDR Tss2_MU_TPMS_SIGNATURE_ECC_Marshal));
    (TPM2_ALG_HMAC, mcase TPMU_SIGNATURE'TPMT_HA (ADDR Tss2_MU_TPMT_HA_Marshal));
    (TPM2_ALG_MLDSA, mcase TPMU_SIGNATURE'TPMS_SIGNATURE_MLDSA (ADDR Tss2_MU_TPMS_SIGNATURE_MLDSA_Marshal))].
Definition Tss2_MU_TPMU_SIGNATURE_Unmarshal : ufn_sel TPMU_SIGNATURE :=
  TPMU_UNMARSHAL2 [
    (TPM2_ALG_RSASSA, ucase TPMU_SIGNATURE'TPMS_SIGNATURE_RSA Tss2_MU_TPMS_SIGNATURE_RSA_Unmarshal);
    (TPM2_ALG_RSAPSS, ucase TPMU_SIGNATURE'TPMS_SIGNATURE_RSA Tss2_MU_TPMS_SIGNATURE_RSA_Unmarshal);
    (TPM2_ALG_ECDSA, ucase TPMU_SIGNATURE'TPMS_SIGNATURE_ECC Tss2_MU_TPMS_SIGNATURE_ECC_Unmarshal);
    (TPM2_ALG_ECDAA, ucase TPMU_SIGNATURE'TPMS_SIGNATURE_ECC Tss2_MU_TPMS_SIGNATURE_ECC_Unmarshal);
    (TPM2_ALG_SM2, ucase TPMU_SIGNATURE'TPMS_SIGNATURE_ECC Tss2_MU_TPMS_SIGNATURE_ECC_Unmarshal);
    (TPM2_ALG_ECSCHNORR, ucase TPMU_SIGNATURE'TPMS_SIGNATURE_ECC Tss2_MU_TPMS_SIGNATURE_ECC_Unmarshal);
    (TPM2_ALG_HMAC, ucase TPMU_SIGNATURE'TPMT_HA Tss2_MU_TPMT_HA_Unmarshal);
    (TPM2_ALG_MLDSA, ucase TPMU_SIGNATURE'TPMS_SIGNATURE_MLDSA Tss2_MU_TPMS_SIGNATURE_MLDSA_Unmarshal)].

Definition Tss2_MU_TPMT_SIGNATURE_Marshal : option TPMT_SIGNATURE -> mstep :=
  TPMT_MARSHAL_2 TPMT_SIGNATURE'sigAlg (VAL Tss2_MU_UINT16_Marshal)
    TPMT_SIGNATURE'signature TPMT_SIGNATURE'sigAlg (ADDR Tss2_MU_TPMU_SIGNATURE_Marshal).
Definition Tss2_MU_TPMT_SIGNATURE_Unmarshal : ufn TPMT_SIGNATURE :=
  TPMT_UNMARSHAL_2 zero_TPMT_SIGNATURE TPMT_SIGNATURE'sigAlg Tss2_MU_UINT16_Unmarshal
    TPMT_SIGNATURE'signature TPMT_SIGNATURE'sigAlg Tss2_MU_TPMU_SIGNATURE_Unmarshal.

Definition Tss2_MU_TPMT_PUBLIC_PARMS_Marshal : option TPMT_PUBLIC_PARMS -> mstep :=
  TPMT_MARSHAL_2 TPMT_PUBLIC_PARMS'type (VAL Tss2_MU_UINT16_Marshal)
    TPMT_PUBLIC_PARMS'parameters TPMT_PUBLIC_PARMS'type (ADDR Tss2_MU_TPMU_PUBLIC_PARMS_Marshal).
Definition Tss2_MU_TPMT_PUBLIC_PARMS_Unmarshal : ufn TPMT_PUBLIC_PARMS :=
  TPMT_UNMARSHAL_2 zero_TPMT_PUBLIC_PARMS TPMT_PUBLIC_PARMS'type Tss2_MU_UINT16_Unmarshal
    TPMT_PUBLIC_PARMS'parameters TPMT_PUBLIC_PARMS'type Tss2_MU_TPMU_PUBLIC_PARMS_Unmarshal.

Definition Tss2_MU_TPMT_TK_CREATION_Marshal : option TPMT_TK_CREATION -> mstep :=
  TPMT_MARSHAL_TK TPMT_TK_CREATION'tag (VAL Tss2_MU_UINT16_Marshal)
    TPMT_TK_CREATION'hierarchy (VAL Tss2_MU_UINT32_Marshal)
    TPMT_TK_CREATION'digest (ADDR Tss2_MU_TPM2B_DIGEST_Marshal).
Definition Tss2_MU_TPMT_TK_CREATION_Unmarshal : ufn TPMT_TK_CREATION :=
  TPMT_UNMARSHAL_TK zero_TPMT_TK_CREATION TPMT_TK_CREATION'tag Tss2_MU_UINT16_Unmarshal
    TPMT_TK_CREATION'hierarchy Tss2_MU_UINT32_Unmarshal
    TPMT_TK_CREATION'digest Tss2_MU_TPM2B_DIGEST_Unmarshal.

Definition Tss2_MU_TPMT_TK_VERIFIED_Marshal : option TPMT_TK_VERIFIED -> mstep :=
  TPMT_MARSHAL_TK TPMT_TK_VERIFIED'tag (VAL Tss2_MU_UINT16_Marshal)
    TPMT_TK_VERIFIED'hierarchy (VAL Tss2_MU_UINT32_Marshal)
    TPMT_TK_VERIFIED'digest (ADDR Tss2_MU_TPM2B_DIGEST_Marshal).
Definition Tss2_MU_TPMT_TK_VERIFIED_Unmarshal : ufn TPMT_TK_VERIFIED :=
  TPMT_UNMARSHAL_TK zero_TPMT_TK_VERIFIED TPMT_TK_VERIFIED'tag Tss2_MU_UINT16_Unmarshal
    TPMT_TK_VERIFIED'hierarchy Tss2_MU_UINT32_Unmarshal
    TPMT_TK_VERIFIED'digest Tss2_MU_TPM2B_DIGEST_Unmarshal.

Definition Tss2_MU_TPMT_TK_AUTH_Marshal : option TPMT_TK_AUTH -> mstep :=
  TPMT_MARSHAL_TK TPMT_TK_AUTH'tag (VAL Tss2_MU_UINT16_Marshal)
    TPMT_TK_AUTH'hierarchy (VAL Tss2_MU_UINT32_Marshal)
    TPMT_TK_AUTH'digest (ADDR Tss2_MU_TPM2B_DIGEST_Marshal).
Definition Tss2_MU_TPMT_TK_AUTH_Unmarshal : ufn TPMT_TK_AUTH :=
  TPMT_UNMARSHAL_TK zero_TPMT_TK_AUTH TPMT_TK_AUTH'tag Tss2_MU_UINT16_Unmarshal
    TPMT_TK_AUTH'hierarchy Tss2_MU_UINT32_Unmarshal
    TPMT_TK_AUTH'digest Tss2_MU_TPM2B_DIGEST_Unmarshal.

Definition Tss2_MU_TPMT_TK_HASHCHECK_Marshal : option TPMT_TK_HASHCHECK -> mstep :=
  TPMT_MARSHAL_TK TPMT_TK_HASHCHECK'tag (VAL Tss2_MU_UINT16_Marshal)
    TPMT_TK_HASHCHECK'hierarchy (VAL Tss2_MU_UINT32_Marshal)
    TPMT_TK_HASHCHECK'digest (ADDR Tss2_MU_TPM2B_DIGEST_Marshal).
Definition Tss2_MU_TPMT_TK_HASHCHECK_Unmarshal : ufn TPMT_TK_HASHCHECK :=
  TPMT_UNMARSHAL_TK zero_TPMT_TK_HASHCHECK TPMT_TK_HASHCHECK'tag Tss2_MU_UINT16_Unmarshal
    TPMT_TK_HASHCHECK'hierarchy Tss2_MU_UINT32_Unmarshal
    TPMT_TK_HASHCHECK'digest Tss2_MU_TPM2B_DIGEST_Unmarshal.

Definition Tss2_MU_TPMU_ENCRYPTED_SECRET_Marshal : option bytes -> Z -> mstep :=
  TPMU_MARSHAL2 [
    (TPM2_ALG_ECC, mcase (whole zero_TPMU_ENCRYPTED_SECRET) (ADDR marshal_ecc));
    (TPM2_ALG_RSA, mcase (whole zero_TPMU_ENCRYPTED_SECRET) (ADDR marshal_rsa));
    (TPM2_ALG_SYMCIPHER, mcase (whole zero_TPMU_ENCRYPTED_SECRET) (ADDR marshal_symmetric));
    (TPM2_ALG_KEYEDHASH, mcase (whole zero_TPMU_ENCRYPTED_SECRET) (ADDR marshal_keyedhash))].
Definition Tss2_MU_TPMU_ENCRYPTED_SECRET_Unmarshal : ufn_sel bytes :=
  TPMU_UNMARSHAL2 [
    (TPM2_ALG_ECC, ucase (whole zero_TPMU_ENCRYPTED_SECRET) unmarshal_ecc);
    (TPM2_ALG_RSA, ucase (whole zero_TPMU_ENCRYPTED_SECRET) unmarshal_rsa);
    (TPM2_ALG_SYMCIPHER, ucase (whole zero_TPMU_ENCRYPTED_SECRET) unmarshal_symmetric);
    (TPM2_ALG_KEYEDHASH, ucase (whole zero_TPMU_ENCRYPTED_SECRET) unmarshal_keyedhash)].

Definition Tss2_MU_TPMU_NAME_Marshal : option TPMU_NAME -> Z -> mstep :=
  TPMU_MARSHAL2 [
    (4, mcase TPMU_NAME'UINT32 (VAL Tss2_MU_UINT32_Marshal));
    (2 + TPM2_SHA1_DIGEST_SIZE, mcase TPMU_NAME'TPMT_HA (ADDR Tss2_MU_TPMT_HA_Marshal));
    (2 + TPM2_SHA256_DIGEST_SIZE, mcase TPMU_NAME'TPMT_HA (ADDR Tss2_MU_TPMT_HA_Marshal));
    (2 + TPM2_SHA384_DIGEST_SIZE, mcase TPMU_NAME'TPMT_HA (ADDR Tss2_MU_TPMT_HA_Marshal));
    (2 + TPM2_SHA512_DIGEST_SIZE, mcase TPMU_NAME'TPMT_HA (ADDR Tss2_MU_TPMT_HA_Marshal))].
Definition Tss2_MU_TPMU_NAME_Unmarshal : ufn_sel TPMU_NAME :=
  TPMU_UNMARSHAL2 [
    (4, ucase TPMU_NAME'UINT32 Tss2_MU_UINT32_Unmarshal);
    (2 + TPM2_SHA1_DIGEST_SIZE, ucase TPMU_NAME'TPMT_HA Tss2_MU_TPMT_HA_Unmarshal);
    (2 + TPM2_SHA256_DIGEST_SIZE, ucase TPMU_NAME'TPMT_HA Tss2_MU_TPMT_HA_Unmarshal);
    (2 + TPM2_SHA384_DIGEST_SIZE, ucase TPMU_NAME'TPMT_HA Tss2_MU_TPMT_HA_Unmarshal);
    (2 + TPM2_SHA512_DIGEST_SIZE, ucase TPMU_NAME'TPMT_HA Tss2_MU_TPMT_HA_Unmarshal)].

End Types.
