(* ===== verification/MuTypesOk.v ===== *)
(** * Every marshaling function implements the wire format of its type.

    [spec_T] is the wire format of [T], put together from the formats of its
    members the way Part 2 of the TPM specification describes it;
    [Tss2_MU_T_ok] says that the pair of functions of [T] implements it. *)

From S2P Require Import Prelude Common MuSpec MuBase MuBaseOk MuStruct MuStructOk MuTpm2b MuTpm2bOk MuUnion MuPcr TpmTypes MuTypes.

(** Bounds on closed sizes. *)
Ltac cap_ok := vm_compute; first [congruence|split; congruence].

(** ** Accessors of the unions *)

Lemma whole_ok {U} (s s' : spec U) zero :
  s_wf s = s_wf s' -> s_wf s zero -> umember_ok (s_wf s) (whole zero) s'.
Proof. intros E Wz. rewrite E in *. split; simpl; intros; by simplify_eq. Qed.

Lemma sub_2b_ok cap big :
  0 <= cap <= big -> umember_ok (s_wf (spec_2b big)) (sub_2b cap) (spec_2b cap).
Proof.
  intros Hc. split.
  - intros u v (L&B&S) E. simpl in E. some_inv. split; [|split]; simpl.
    + unfold Zlen in *. rewrite length_take. lia.
    + by apply Forall_take.
    + done.
  - apply zero_2b_wf. lia.
  - intros u v (L&B&S) (L'&B'&S'). split; [|split]; simpl.
    + unfold Zlen in *. rewrite length_app, length_drop. lia.
    + apply Forall_app. auto using Forall_drop.
    + done.
  - intros u [sz arr] (L&B&S) (L'&B'&S'). simpl in *. do 2 f_equal.
    rewrite take_app_le, take_ge by (unfold Zlen in *; lia). done.
Qed.

Lemma whole_codec_ok {U} wf (zero : U) fm fu (s : spec U) :
  s_wf s = wf -> wf zero -> codec_ok fm fu s ->
  codec_ok (mcase (whole zero) fm) (ucase (whole zero) fu) (spec_case wf (whole zero) s).
Proof. intros <- Wz O. apply case_codec_ok; [by apply whole_ok|done]. Qed.

Lemma sub_2b_codec_ok big cap fm fu :
  0 <= cap <= big -> codec_ok fm fu (spec_2b cap) ->
  codec_ok (mcase (sub_2b cap) fm) (ucase (sub_2b cap) fu)
    (spec_case (s_wf (spec_2b big)) (sub_2b cap) (spec_2b cap)).
Proof. intros. apply case_codec_ok; [by apply sub_2b_ok|done]. Qed.

(** ** The magic number of attestation structures *)

Definition spec_generated : spec Z :=
  {| s_wf := in_range UINT32;
     s_dom := fun v => v = TPM2_GENERATED_VALUE;
     s_wire := fun v => if v =? TPM2_GENERATED_VALUE then Some (be_bytes 4 v) else None;
     s_eqv := eq;
     s_max := 4 |}.

#[export] Instance spec_generated_ok : SpecOk spec_generated.
Proof.
  split; simpl.
  - intros x w _ E. case_test; some_inv. apply be_bytes_ok.
  - intros x w _ E. case_test; some_inv. by rewrite Zlen_be_bytes.
  - intros x w _ E. by case_test.
  - done.
  - done.
  - by intros x y z -> ->.
  - by intros x y ->.
Qed.

Lemma spec_generated_wire v w :
  s_wire spec_generated v = Some w -> v = TPM2_GENERATED_VALUE /\ s_wire (spec_int UINT32) v = Some w.
Proof.
  cbn [s_wire spec_generated spec_int]. intros E. case_test; [|done]. subst v. done.
Qed.

Lemma generated_marshal_ok {H : Host} : marshal_ok (VAL Tss2_MU_UINT32_Marshal) spec_generated.
Proof.
  intros x Wx D. simpl in D. subst x.
  exact (BASE_MARSHAL_ok UINT32 ltac:(ctype) TPM2_GENERATED_VALUE Wx I).
Qed.

Lemma TPM2_GENERATED_Unmarshal_ok {H : Host} :
  parse_ok_gen false TPM2_GENERATED_Unmarshal spec_generated.
Proof.
  intros b size lo d Hb Hs Hlo Wd.
  destruct (BASE_UNMARSHAL_ok UINT32 ltac:(ctype) b size lo 0) as (rc&lo'&v&E&Wv&P&Q&R); [done..|].
  unfold TPM2_GENERATED_Unmarshal, Tss2_MU_UINT32_Unmarshal. rewrite E. simpl default.
  assert (Rec : forall x w, s_wf spec_generated x -> s_wire spec_generated x = Some w ->
    fits lo w size -> reads b lo w ->
    rc = TSS2_RC_SUCCESS /\ v = x /\ x = TPM2_GENERATED_VALUE).
  { intros x w Wx [-> Ex]%spec_generated_wire F Rd.
    destruct (R TPM2_GENERATED_VALUE w Wx I Ex F Rd). done. }
  destruct (decide (rc = TSS2_RC_SUCCESS)) as [->|N].
  - simpl negb. cbv iota. destruct (v =? TPM2_GENERATED_VALUE) eqn:Ev; bool2prop; simpl negb; cbv iota.
    + do 3 eexists. split; [done|]. split; [exact Wv|]. split; [|split; [done|]].
      * intros _. destruct P as (w&Ew&P); [done|]. exists w. split; [|done]. by subst v.
      * intros x w Wx _ Ex F Rd. destruct (Rec x w) as (_&->&_); done.
    + do 3 eexists. split; [done|]. split_and!; [apply Wd..|done|done|].
      intros x w Wx _ Ex F Rd. destruct (Rec x w) as (_&->&?); done.
  - rewrite (proj2 (Z.eqb_neq _ _) N). simpl negb. cbv iota. do 3 eexists. split; [done|].
    split_and!; [apply Wd..|done|done|]. intros x w Wx _ Ex F Rd.
    destruct (Rec x w) as (->&_); done.
Qed.
#[export] Hint Resolve generated_marshal_ok TPM2_GENERATED_Unmarshal_ok : mu.

(** ** Automation for the unions *)

Ltac tagged_member :=
  split; [ intros u v W E; destruct u; simpl in E; try discriminate; injection E as <-; exact W
         | solve [eauto 2 with mu] | intros u v _ W; exact W | intros u v _ _; reflexivity ].

(** Byte arrays. *)
Ltac mu_tab := apply tab_codec_ok; cap_ok.

Ltac mu_case :=
  first [ apply empty_codec_ok
        | apply whole_codec_ok; [reflexivity|solve [eauto 2 with mu]|solve [eauto 2 with mu|mu_tab]]
        | apply sub_2b_codec_ok; [cap_ok|solve [eauto 2 with mu]]
        | apply case_codec_ok; [solve [eauto 2 with mu|tagged_member]|solve [eauto 2 with mu]] ].

Ltac mu_union :=
  apply TPMU_ok; [cap_ok|];
  repeat (apply cases_cons; [mu_case|reflexivity|cap_ok|]); apply cases_nil.

(** ** Types *)

Definition spec_TPMS_PCR_SELECT : spec TPMS_PCR_SELECT :=
  (spec_unit ⊗ spec_pcr TPMS_PCR_SELECT'sizeofSelect TPMS_PCR_SELECT'pcrSelect ⊗ spec_unit)%spec.
Lemma zero_TPMS_PCR_SELECT_wf : s_wf spec_TPMS_PCR_SELECT zero_TPMS_PCR_SELECT.
Proof.
  split; [exact I|]. split; [|exact I]. split; [exact (zero_int_wf 1)|].
  split; [reflexivity|by apply Forall_replicate].
Qed.
Lemma Tss2_MU_TPMS_PCR_SELECT_ok {H : Host} :
  codec_ok (ADDR Tss2_MU_TPMS_PCR_SELECT_Marshal) Tss2_MU_TPMS_PCR_SELECT_Unmarshal spec_TPMS_PCR_SELECT.
Proof. eapply (pcr_codec_ok _ _ _ _ _ _ _ true); [apply no_field_ok|apply no_ufield_ok|apply _..|
  apply zero_TPMS_PCR_SELECT_wf|apply zero_TPMS_PCR_SELECT_wf]. Qed.
#[export] Hint Resolve Tss2_MU_TPMS_PCR_SELECT_ok : mu.
#[export] Instance spec_TPMS_PCR_SELECT_ok : SpecOk spec_TPMS_PCR_SELECT.
Proof. exact (co_spec _ _ _ (Tss2_MU_TPMS_PCR_SELECT_ok (H:=little_endian_host))). Qed.

#[export] Hint Resolve zero_TPMS_PCR_SELECT_wf : mu.

Definition spec_TPMS_PCR_SELECTION : spec TPMS_PCR_SELECTION :=
  (spec_on (mget TPMS_PCR_SELECTION'hash) (spec_int UINT16) ⊗ spec_pcr TPMS_PCR_SELECTION'sizeofSelect TPMS_PCR_SELECTION'pcrSelect ⊗ spec_unit)%spec.
Lemma zero_TPMS_PCR_SELECTION_wf : s_wf spec_TPMS_PCR_SELECTION zero_TPMS_PCR_SELECTION.
Proof.
  split; [exact (zero_int_wf 2)|]. split; [|exact I]. split; [exact (zero_int_wf 1)|].
  split; [reflexivity|by apply Forall_replicate].
Qed.
Lemma Tss2_MU_TPMS_PCR_SELECTION_ok {H : Host} :
  codec_ok (ADDR Tss2_MU_TPMS_PCR_SELECTION_Marshal) Tss2_MU_TPMS_PCR_SELECTION_Unmarshal spec_TPMS_PCR_SELECTION.
Proof. eapply (pcr_codec_ok _ _ _ _ _ _ _ true); [eapply mfield_ok, co_marshal; eauto 2 with mu|
  eapply ufield_ok; [apply _|eapply co_parse; eauto 2 with mu]|apply _..|apply zero_TPMS_PCR_SELECTION_wf|apply zero_TPMS_PCR_SELECTION_wf]. Qed.
#[export] Hint Resolve Tss2_MU_TPMS_PCR_SELECTION_ok : mu.
#[export] Instance spec_TPMS_PCR_SELECTION_ok : SpecOk spec_TPMS_PCR_SELECTION.
Proof. exact (co_spec _ _ _ (Tss2_MU_TPMS_PCR_SELECTION_ok (H:=little_endian_host))). Qed.

#[export] Hint Resolve zero_TPMS_PCR_SELECTION_wf : mu.

Definition spec_TPMS_TAGGED_PCR_SELECT : spec TPMS_TAGGED_PCR_SELECT :=
  (spec_on (mget TPMS_TAGGED_PCR_SELECT'tag) (spec_int UINT32) ⊗ spec_pcr TPMS_TAGGED_PCR_SELECT'sizeofSelect TPMS_TAGGED_PCR_SELECT'pcrSelect ⊗ spec_unit)%spec.
Lemma zero_TPMS_TAGGED_PCR_SELECT_wf : s_wf spec_TPMS_TAGGED_PCR_SELECT zero_TPMS_TAGGED_PCR_SELECT.
Proof.
  split; [exact (zero_int_wf 4)|]. split; [|exact I]. split; [exact (zero_int_wf 1)|].
  split; [reflexivity|by apply Forall_replicate].
Qed.
Lemma Tss2_MU_TPMS_TAGGED_PCR_SELECT_ok {H : Host} :
  codec_ok (ADDR Tss2_MU_TPMS_TAGGED_PCR_SELECT_Marshal) Tss2_MU_TPMS_TAGGED_PCR_SELECT_Unmarshal spec_TPMS_TAGGED_PCR_SELECT.
Proof. eapply (pcr_codec_ok _ _ _ _ _ _ _ true); [eapply mfield_ok, co_marshal; eauto 2 with mu|
  eapply ufield_ok; [apply _|eapply co_parse; eauto 2 with mu]|apply _..|apply zero_TPMS_TAGGED_PCR_SELECT_wf|apply zero_TPMS_TAGGED_PCR_SELECT_wf]. Qed.
#[export] Hint Resolve Tss2_MU_TPMS_TAGGED_PCR_SELECT_ok : mu.
#[export] Instance spec_TPMS_TAGGED_PCR_SELECT_ok : SpecOk spec_TPMS_TAGGED_PCR_SELECT.
Proof. exact (co_spec _ _ _ (Tss2_MU_TPMS_TAGGED_PCR_SELECT_ok (H:=little_endian_host))). Qed.

#[export] Hint Resolve zero_TPMS_TAGGED_PCR_SELECT_wf : mu.

Definition spec_TPM2B_DIGEST := spec_2b cap_TPM2B_DIGEST.
Lemma Tss2_MU_TPM2B_DIGEST_ok {H : Host} :
  codec_ok (ADDR Tss2_MU_TPM2B_DIGEST_Marshal) Tss2_MU_TPM2B_DIGEST_Unmarshal spec_TPM2B_DIGEST.
Proof. apply tpm2b_codec_ok; cap_ok. Qed.
#[export] Hint Resolve Tss2_MU_TPM2B_DIGEST_ok : mu.
#[export] Instance spec_TPM2B_DIGEST_ok : SpecOk spec_TPM2B_DIGEST.
Proof. exact (co_spec _ _ _ (Tss2_MU_TPM2B_DIGEST_ok (H:=little_endian_host))). Qed.

Lemma zero_TPM2B_DIGEST_wf : s_wf spec_TPM2B_DIGEST (zero_2b cap_TPM2B_DIGEST).
Proof. apply zero_2b_wf; cap_ok. Qed.
#[export] Hint Resolve zero_TPM2B_DIGEST_wf : mu.

Definition spec_TPM2B_DATA := spec_2b cap_TPM2B_DATA.
Lemma Tss2_MU_TPM2B_DATA_ok {H : Host} :
  codec_ok (ADDR Tss2_MU_TPM2B_DATA_Marshal) Tss2_MU_TPM2B_DATA_Unmarshal spec_TPM2B_DATA.
Proof. apply tpm2b_codec_ok; cap_ok. Qed.
#[export] Hint Resolve Tss2_MU_TPM2B_DATA_ok : mu.
#[export] Instance spec_TPM2B_DATA_ok : SpecOk spec_TPM2B_DATA.
Proof. exact (co_spec _ _ _ (Tss2_MU_TPM2B_DATA_ok (H:=little_endian_host))). Qed.

Lemma zero_TPM2B_DATA_wf : s_wf spec_TPM2B_DATA (zero_2b cap_TPM2B_DATA).
Proof. apply zero_2b_wf; cap_ok. Qed.
#[export] Hint Resolve zero_TPM2B_DATA_wf : mu.

Definition spec_TPM2B_EVENT := spec_2b cap_TPM2B_EVENT.
Lemma Tss2_MU_TPM2B_EVENT_ok {H : Host} :
  codec_ok (ADDR Tss2_MU_TPM2B_EVENT_Marshal) Tss2_MU_TPM2B_EVENT_Unmarshal spec_TPM2B_EVENT.
Proof. apply tpm2b_codec_ok; cap_ok. Qed.
#[export] Hint Resolve Tss2_MU_TPM2B_EVENT_ok : mu.
#[export] Instance spec_TPM2B_EVENT_ok : SpecOk spec_TPM2B_EVENT.
Proof. exact (co_spec _ _ _ (Tss2_MU_TPM2B_EVENT_ok (H:=little_endian_host))). Qed.

Lemma zero_TPM2B_EVENT_wf : s_wf spec_TPM2B_EVENT (zero_2b cap_TPM2B_EVENT).
Proof. apply zero_2b_wf; cap_ok. Qed.
#[export] Hint Resolve zero_TPM2B_EVENT_wf : mu.

Definition spec_TPM2B_MAX_BUFFER := spec_2b cap_TPM2B_MAX_BUFFER.
Lemma Tss2_MU_TPM2B_MAX_BUFFER_ok {H : Host} :
  codec_ok (ADDR Tss2_MU_TPM2B_MAX_BUFFER_Marshal) Tss2_MU_TPM2B_MAX_BUFFER_Unmarshal spec_TPM2B_MAX_BUFFER.
Proof. apply tpm2b_codec_ok; cap_ok. Qed.
#[export] Hint Resolve Tss2_MU_TPM2B_MAX_BUFFER_ok : mu.
#[export] Instance spec_TPM2B_MAX_BUFFER_ok : SpecOk spec_TPM2B_MAX_BUFFER.
Proof. exact (co_spec _ _ _ (Tss2_MU_TPM2B_MAX_BUFFER_ok (H:=little_endian_host))). Qed.

Lemma zero_TPM2B_MAX_BUFFER_wf : s_wf spec_TPM2B_MAX_BUFFER (zero_2b cap_TPM2B_MAX_BUFFER).
Proof. apply zero_2b_wf; cap_ok. Qed.
#[export] Hint Resolve zero_TPM2B_MAX_BUFFER_wf : mu.

Definition spec_TPM2B_MAX_NV_BUFFER := spec_2b cap_TPM2B_MAX_NV_BUFFER.
Lemma Tss2_MU_TPM2B_MAX_NV_BUFFER_ok {H : Host} :
  codec_ok (ADDR Tss2_MU_TPM2B_MAX_NV_BUFFER_Marshal) Tss2_MU_TPM2B_MAX_NV_BUFFER_Unmarshal spec_TPM2B_MAX_NV_BUFFER.
Proof. apply tpm2b_codec_ok; cap_ok. Qed.
#[export] Hint Resolve Tss2_MU_TPM2B_MAX_NV_BUFFER_ok : mu.
#[export] Instance spec_TPM2B_MAX_NV_BUFFER_ok : SpecOk spec_TPM2B_MAX_NV_BUFFER.
Proof. exact (co_spec _ _ _ (Tss2_MU_TPM2B_MAX_NV_BUFFER_ok (H:=little_endian_host))). Qed.

Lemma zero_TPM2B_MAX_NV_BUFFER_wf : s_wf spec_TPM2B_MAX_NV_BUFFER (zero_2b cap_TPM2B_MAX_NV_BUFFER).
Proof. apply zero_2b_wf; cap_ok. Qed.
#[export] Hint Resolve zero_TPM2B_MAX_NV_BUFFER_wf : mu.

Definition spec_TPM2B_IV := spec_2b cap_TPM2B_IV.
Lemma Tss2_MU_TPM2B_IV_ok {H : Host} :
  codec_ok (ADDR Tss2_MU_TPM2B_IV_Marshal) Tss2_MU_TPM2B_IV_Unmarshal spec_TPM2B_IV.
Proof. apply tpm2b_codec_ok; cap_ok. Qed.
#[export] Hint Resolve Tss2_MU_TPM2B_IV_ok : mu.
#[export] Instance spec_TPM2B_IV_ok : SpecOk spec_TPM2B_IV.
Proof. exact (co_spec _ _ _ (Tss2_MU_TPM2B_IV_ok (H:=little_endian_host))). Qed.

Lemma zero_TPM2B_IV_wf : s_wf spec_TPM2B_IV (zero_2b cap_TPM2B_IV).
Proof. apply zero_2b_wf; cap_ok. Qed.
#[export] Hint Resolve zero_TPM2B_IV_wf : mu.

Definition spec_TPM2B_NAME := spec_2b cap_TPM2B_NAME.
Lemma Tss2_MU_TPM2B_NAME_ok {H : Host} :
  codec_ok (ADDR Tss2_MU_TPM2B_NAME_Marshal) Tss2_MU_TPM2B_NAME_Unmarshal spec_TPM2B_NAME.
Proof. apply tpm2b_codec_ok; cap_ok. Qed.
#[export] Hint Resolve Tss2_MU_TPM2B_NAME_ok : mu.
#[export] Instance spec_TPM2B_NAME_ok : SpecOk spec_TPM2B_NAME.
Proof. exact (co_spec _ _ _ (Tss2_MU_TPM2B_NAME_ok (H:=little_endian_host))). Qed.

Lemma zero_TPM2B_NAME_wf : s_wf spec_TPM2B_NAME (zero_2b cap_TPM2B_NAME).
Proof. apply zero_2b_wf; cap_ok. Qed.
#[export] Hint Resolve zero_TPM2B_NAME_wf : mu.

Definition spec_TPM2B_ATTEST := spec_2b cap_TPM2B_ATTEST.
Lemma Tss2_MU_TPM2B_ATTEST_ok {H : Host} :
  codec_ok (ADDR Tss2_MU_TPM2B_ATTEST_Marshal) Tss2_MU_TPM2B_ATTEST_Unmarshal spec_TPM2B_ATTEST.
Proof. apply tpm2b_codec_ok; cap_ok. Qed.
#[export] Hint Resolve Tss2_MU_TPM2B_ATTEST_ok : mu.
#[export] Instance spec_TPM2B_ATTEST_ok : SpecOk spec_TPM2B_ATTEST.
Proof. exact (co_spec _ _ _ (Tss2_MU_TPM2B_ATTEST_ok (H:=little_endian_host))). Qed.

Lemma zero_TPM2B_ATTEST_wf : s_wf spec_TPM2B_ATTEST (zero_2b cap_TPM2B_ATTEST).
Proof. apply zero_2b_wf; cap_ok. Qed.
#[export] Hint Resolve zero_TPM2B_ATTEST_wf : mu.

Definition spec_TPM2B_SYM_KEY := spec_2b cap_TPM2B_SYM_KEY.
Lemma Tss2_MU_TPM2B_SYM_KEY_ok {H : Host} :
  codec_ok (ADDR Tss2_MU_TPM2B_SYM_KEY_Marshal) Tss2_MU_TPM2B_SYM_KEY_Unmarshal spec_TPM2B_SYM_KEY.
Proof. apply tpm2b_codec_ok; cap_ok. Qed.
#[export] Hint Resolve Tss2_MU_TPM2B_SYM_KEY_ok : mu.
#[export] Instance spec_TPM2B_SYM_KEY_ok : SpecOk spec_TPM2B_SYM_KEY.
Proof. exact (co_spec _ _ _ (Tss2_MU_TPM2B_SYM_KEY_ok (H:=little_endian_host))). Qed.

Lemma zero_TPM2B_SYM_KEY_wf : s_wf spec_TPM2B_SYM_KEY (zero_2b cap_TPM2B_SYM_KEY).
Proof. apply zero_2b_wf; cap_ok. Qed.
#[export] Hint Resolve zero_TPM2B_SYM_KEY_wf : mu.

Definition spec_TPM2B_SENSITIVE_DATA := spec_2b cap_TPM2B_SENSITIVE_DATA.
Lemma Tss2_MU_TPM2B_SENSITIVE_DATA_ok {H : Host} :
  codec_ok (ADDR Tss2_MU_TPM2B_SENSITIVE_DATA_Marshal) Tss2_MU_TPM2B_SENSITIVE_DATA_Unmarshal spec_TPM2B_SENSITIVE_DATA.
Proof. apply tpm2b_codec_ok; cap_ok. Qed.
#[export] Hint Resolve Tss2_MU_TPM2B_SENSITIVE_DATA_ok : mu.
#[export] Instance spec_TPM2B_SENSITIVE_DATA_ok : SpecOk spec_TPM2B_SENSITIVE_DATA.
Proof. exact (co_spec _ _ _ (Tss2_MU_TPM2B_SENSITIVE_DATA_ok (H:=little_endian_host))). Qed.

Lemma zero_TPM2B_SENSITIVE_DATA_wf : s_wf spec_TPM2B_SENSITIVE_DATA (zero_2b cap_TPM2B_SENSITIVE_DATA).
Proof. apply zero_2b_wf; cap_ok. Qed.
#[export] Hint Resolve zero_TPM2B_SENSITIVE_DATA_wf : mu.

Definition spec_TPM2B_PUBLIC_KEY_RSA := spec_2b cap_TPM2B_PUBLIC_KEY_RSA.
Lemma Tss2_MU_TPM2B_PUBLIC_KEY_RSA_ok {H : Host} :
  codec_ok (ADDR Tss2_MU_TPM2B_PUBLIC_KEY_RSA_Marshal) Tss2_MU_TPM2B_PUBLIC_KEY_RSA_Unmarshal spec_TPM2B_PUBLIC_KEY_RSA.
Proof. apply tpm2b_codec_ok; cap_ok. Qed.
#[export] Hint Resolve Tss2_MU_TPM2B_PUBLIC_KEY_RSA_ok : mu.
#[export] Instance spec_TPM2B_PUBLIC_KEY_RSA_ok : SpecOk spec_TPM2B_PUBLIC_KEY_RSA.
Proof. exact (co_spec _ _ _ (Tss2_MU_TPM2B_PUBLIC_KEY_RSA_ok (H:=little_endian_host))). Qed.

Lemma zero_TPM2B_PUBLIC_KEY_RSA_wf : s_wf spec_TPM2B_PUBLIC_KEY_RSA (zero_2b cap_TPM2B_PUBLIC_KEY_RSA).
Proof. apply zero_2b_wf; cap_ok. Qed.
#[export] Hint Resolve zero_TPM2B_PUBLIC_KEY_RSA_wf : mu.

Definition spec_TPM2B_PRIVATE_KEY_RSA := spec_2b cap_TPM2B_PRIVATE_KEY_RSA.
Lemma Tss2_MU_TPM2B_PRIVATE_KEY_RSA_ok {H : Host} :
  codec_ok (ADDR Tss2_MU_TPM2B_PRIVATE_KEY_RSA_Marshal) Tss2_MU_TPM2B_PRIVATE_KEY_RSA_Unmarshal spec_TPM2B_PRIVATE_KEY_RSA.
Proof. apply tpm2b_codec_ok; cap_ok. Qed.
#[export] Hint Resolve Tss2_MU_TPM2B_PRIVATE_KEY_RSA_ok : mu.
#[export] Instance spec_TPM2B_PRIVATE_KEY_RSA_ok : SpecOk spec_TPM2B_PRIVATE_KEY_RSA.
Proof. exact (co_spec _ _ _ (Tss2_MU_TPM2B_PRIVATE_KEY_RSA_ok (H:=little_endian_host))). Qed.

Lemma zero_TPM2B_PRIVATE_KEY_RSA_wf : s_wf spec_TPM2B_PRIVATE_KEY_RSA (zero_2b cap_TPM2B_PRIVATE_KEY_RSA).
Proof. apply zero_2b_wf; cap_ok. Qed.
#[export] Hint Resolve zero_TPM2B_PRIVATE_KEY_RSA_wf : mu.

Definition spec_TPM2B_ECC_PARAMETER := spec_2b cap_TPM2B_ECC_PARAMETER.
Lemma Tss2_MU_TPM2B_ECC_PARAMETER_ok {H : Host} :
  codec_ok (ADDR Tss2_MU_TPM2B_ECC_PARAMETER_Marshal) Tss2_MU_TPM2B_ECC_PARAMETER_Unmarshal spec_TPM2B_ECC_PARAMETER.
Proof. apply tpm2b_codec_ok; cap_ok. Qed.
#[export] Hint Resolve Tss2_MU_TPM2B_ECC_PARAMETER_ok : mu.
#[export] Instance spec_TPM2B_ECC_PARAMETER_ok : SpecOk spec_TPM2B_ECC_PARAMETER.
Proof. exact (co_spec _ _ _ (Tss2_MU_TPM2B_ECC_PARAMETER_ok (H:=little_endian_host))). Qed.

Lemma zero_TPM2B_ECC_PARAMETER_wf : s_wf spec_TPM2B_ECC_PARAMETER (zero_2b cap_TPM2B_ECC_PARAMETER).
Proof. apply zero_2b_wf; cap_ok. Qed.
#[export] Hint Resolve zero_TPM2B_ECC_PARAMETER_wf : mu.

Definition spec_TPM2B_ENCRYPTED_SECRET := spec_2b cap_TPM2B_ENCRYPTED_SECRET.
Lemma Tss2_MU_TPM2B_ENCRYPTED_SECRET_ok {H : Host} :
  codec_ok (ADDR Tss2_MU_TPM2B_ENCRYPTED_SECRET_Marshal) Tss2_MU_TPM2B_ENCRYPTED_SECRET_Unmarshal spec_TPM2B_ENCRYPTED_SECRET.
Proof. apply tpm2b_codec_ok; cap_ok. Qed.
#[export] Hint Resolve Tss2_MU_TPM2B_ENCRYPTED_SECRET_ok : mu.
#[export] Instance spec_TPM2B_ENCRYPTED_SECRET_ok : SpecOk spec_TPM2B_ENCRYPTED_SECRET.
Proof. exact (co_spec _ _ _ (Tss2_MU_TPM2B_ENCRYPTED_SECRET_ok (H:=little_endian_host))). Qed.

Lemma zero_TPM2B_ENCRYPTED_SECRET_wf : s_wf spec_TPM2B_ENCRYPTED_SECRET (zero_2b cap_TPM2B_ENCRYPTED_SECRET).
Proof. apply zero_2b_wf; cap_ok. Qed.
#[export] Hint Resolve zero_TPM2B_ENCRYPTED_SECRET_wf : mu.

Definition spec_TPM2B_PRIVATE_VENDOR_SPECIFIC := spec_2b cap_TPM2B_PRIVATE_VENDOR_SPECIFIC.
Lemma Tss2_MU_TPM2B_PRIVATE_VENDOR_SPECIFIC_ok {H : Host} :
  codec_ok (ADDR Tss2_MU_TPM2B_PRIVATE_VENDOR_SPECIFIC_Marshal) Tss2_MU_TPM2B_PRIVATE_VENDOR_SPECIFIC_Unmarshal spec_TPM2B_PRIVATE_VENDOR_SPECIFIC.
Proof. apply tpm2b_codec_ok; cap_ok. Qed.
#[export] Hint Resolve Tss2_MU_TPM2B_PRIVATE_VENDOR_SPECIFIC_ok : mu.
#[export] Instance spec_TPM2B_PRIVATE_VENDOR_SPECIFIC_ok : SpecOk spec_TPM2B_PRIVATE_VENDOR_SPECIFIC.
Proof. exact (co_spec _ _ _ (Tss2_MU_TPM2B_PRIVATE_VENDOR_SPECIFIC_ok (H:=little_endian_host))). Qed.

Lemma zero_TPM2B_PRIVATE_VENDOR_SPECIFIC_wf : s_wf spec_TPM2B_PRIVATE_VENDOR_SPECIFIC (zero_2b cap_TPM2B_PRIVATE_VENDOR_SPECIFIC).
Proof. apply zero_2b_wf; cap_ok. Qed.
#[export] Hint Resolve zero_TPM2B_PRIVATE_VENDOR_SPECIFIC_wf : mu.

Definition spec_TPM2B_PRIVATE := spec_2b cap_TPM2B_PRIVATE.
Lemma Tss2_MU_TPM2B_PRIVATE_ok {H : Host} :
  codec_ok (ADDR Tss2_MU_TPM2B_PRIVATE_Marshal) Tss2_MU_TPM2B_PRIVATE_Unmarshal spec_TPM2B_PRIVATE.
Proof. apply tpm2b_codec_ok; cap_ok. Qed.
#[export] Hint Resolve Tss2_MU_TPM2B_PRIVATE_ok : mu.
#[export] Instance spec_TPM2B_PRIVATE_ok : SpecOk spec_TPM2B_PRIVATE.
Proof. exact (co_spec _ _ _ (Tss2_MU_TPM2B_PRIVATE_ok (H:=little_endian_host))). Qed.

Lemma zero_TPM2B_PRIVATE_wf : s_wf spec_TPM2B_PRIVATE (zero_2b cap_TPM2B_PRIVATE).
Proof. apply zero_2b_wf; cap_ok. Qed.
#[export] Hint Resolve zero_TPM2B_PRIVATE_wf : mu.

Definition spec_TPM2B_ID_OBJECT := spec_2b cap_TPM2B_ID_OBJECT.
Lemma Tss2_MU_TPM2B_ID_OBJECT_ok {H : Host} :
  codec_ok (ADDR Tss2_MU_TPM2B_ID_OBJECT_Marshal) Tss2_MU_TPM2B_ID_OBJECT_Unmarshal spec_TPM2B_ID_OBJECT.
Proof. apply tpm2b_codec_ok; cap_ok. Qed.
#[export] Hint Resolve Tss2_MU_TPM2B_ID_OBJECT_ok : mu.
#[export] Instance spec_TPM2B_ID_OBJECT_ok : SpecOk spec_TPM2B_ID_OBJECT.
Proof. exact (co_spec _ _ _ (Tss2_MU_TPM2B_ID_OBJECT_ok (H:=little_endian_host))). Qed.

Lemma zero_TPM2B_ID_OBJECT_wf : s_wf spec_TPM2B_ID_OBJECT (zero_2b cap_TPM2B_ID_OBJECT).
Proof. apply zero_2b_wf; cap_ok. Qed.
#[export] Hint Resolve zero_TPM2B_ID_OBJECT_wf : mu.

Definition spec_TPM2B_CONTEXT_SENSITIVE := spec_2b cap_TPM2B_CONTEXT_SENSITIVE.
Lemma Tss2_MU_TPM2B_CONTEXT_SENSITIVE_ok {H : Host} :
  codec_ok (ADDR Tss2_MU_TPM2B_CONTEXT_SENSITIVE_Marshal) Tss2_MU_TPM2B_CONTEXT_SENSITIVE_Unmarshal spec_TPM2B_CONTEXT_SENSITIVE.
Proof. apply tpm2b_codec_ok; cap_ok. Qed.
#[export] Hint Resolve Tss2_MU_TPM2B_CONTEXT_SENSITIVE_ok : mu.
#[export] Instance spec_TPM2B_CONTEXT_SENSITIVE_ok : SpecOk spec_TPM2B_CONTEXT_SENSITIVE.
Proof. exact (co_spec _ _ _ (Tss2_MU_TPM2B_CONTEXT_SENSITIVE_ok (H:=little_endian_host))). Qed.

Lemma zero_TPM2B_CONTEXT_SENSITIVE_wf : s_wf spec_TPM2B_CONTEXT_SENSITIVE (zero_2b cap_TPM2B_CONTEXT_SENSITIVE).
Proof. apply zero_2b_wf; cap_ok. Qed.
#[export] Hint Resolve zero_TPM2B_CONTEXT_SENSITIVE_wf : mu.

Definition spec_TPM2B_CONTEXT_DATA := spec_2b cap_TPM2B_CONTEXT_DATA.
Lemma Tss2_MU_TPM2B_CONTEXT_DATA_ok {H : Host} :
  codec_ok (ADDR Tss2_MU_TPM2B_CONTEXT_DATA_Marshal) Tss2_MU_TPM2B_CONTEXT_DATA_Unmarshal spec_TPM2B_CONTEXT_DATA.
Proof. apply tpm2b_codec_ok; cap_ok. Qed.
#[export] Hint Resolve Tss2_MU_TPM2B_CONTEXT_DATA_ok : mu.
#[export] Instance spec_TPM2B_CONTEXT_DATA_ok : SpecOk spec_TPM2B_CONTEXT_DATA.
Proof. exact (co_spec _ _ _ (Tss2_MU_TPM2B_CONTEXT_DATA_ok (H:=little_endian_host))). Qed.

Lemma zero_TPM2B_CONTEXT_DATA_wf : s_wf spec_TPM2B_CONTEXT_DATA (zero_2b cap_TPM2B_CONTEXT_DATA).
Proof. apply zero_2b_wf; cap_ok. Qed.
#[export] Hint Resolve zero_TPM2B_CONTEXT_DATA_wf : mu.

Definition spec_TPM2B_NONCE := spec_2b cap_TPM2B_DIGEST.
Lemma Tss2_MU_TPM2B_NONCE_ok {H : Host} :
  codec_ok (ADDR Tss2_MU_TPM2B_NONCE_Marshal) Tss2_MU_TPM2B_NONCE_Unmarshal spec_TPM2B_NONCE.
Proof. apply tpm2b_codec_ok; cap_ok. Qed.
#[export] Hint Resolve Tss2_MU_TPM2B_NONCE_ok : mu.
#[export] Instance spec_TPM2B_NONCE_ok : SpecOk spec_TPM2B_NONCE.
Proof. exact (co_spec _ _ _ (Tss2_MU_TPM2B_NONCE_ok (H:=little_endian_host))). Qed.

Lemma zero_TPM2B_NONCE_wf : s_wf spec_TPM2B_NONCE (zero_2b cap_TPM2B_DIGEST).
Proof. apply zero_2b_wf; cap_ok. Qed.
#[export] Hint Resolve zero_TPM2B_NONCE_wf : mu.

Definition spec_TPM2B_TIMEOUT := spec_2b cap_TPM2B_DIGEST.
Lemma Tss2_MU_TPM2B_TIMEOUT_ok {H : Host} :
  codec_ok (ADDR Tss2_MU_TPM2B_TIMEOUT_Marshal) Tss2_MU_TPM2B_TIMEOUT_Unmarshal spec_TPM2B_TIMEOUT.
Proof. apply tpm2b_codec_ok; cap_ok. Qed.
#[export] Hint Resolve Tss2_MU_TPM2B_TIMEOUT_ok : mu.
#[export] Instance spec_TPM2B_TIMEOUT_ok : SpecOk spec_TPM2B_TIMEOUT.
Proof. exact (co_spec _ _ _ (Tss2_MU_TPM2B_TIMEOUT_ok (H:=little_endian_host))). Qed.

Lemma zero_TPM2B_TIMEOUT_wf : s_wf spec_TPM2B_TIMEOUT (zero_2b cap_TPM2B_DIGEST).
Proof. apply zero_2b_wf; cap_ok. Qed.
#[export] Hint Resolve zero_TPM2B_TIMEOUT_wf : mu.

Definition spec_TPM2B_AUTH := spec_2b cap_TPM2B_DIGEST.
Lemma Tss2_MU_TPM2B_AUTH_ok {H : Host} :
  codec_ok (ADDR Tss2_MU_TPM2B_AUTH_Marshal) Tss2_MU_TPM2B_AUTH_Unmarshal spec_TPM2B_AUTH.
Proof. apply tpm2b_codec_ok; cap_ok. Qed.
#[export] Hint Resolve Tss2_MU_TPM2B_AUTH_ok : mu.
#[export] Instance spec_TPM2B_AUTH_ok : SpecOk spec_TPM2B_AUTH.
Proof. exact (co_spec _ _ _ (Tss2_MU_TPM2B_AUTH_ok (H:=little_endian_host))). Qed.

Lemma zero_TPM2B_AUTH_wf : s_wf spec_TPM2B_AUTH (zero_2b cap_TPM2B_DIGEST).
Proof. apply zero_2b_wf; cap_ok. Qed.
#[export] Hint Resolve zero_TPM2B_AUTH_wf : mu.

Definition spec_TPM2B_OPERAND := spec_2b cap_TPM2B_DIGEST.
Lemma Tss2_MU_TPM2B_OPERAND_ok {H : Host} :
  codec_ok (ADDR Tss2_MU_TPM2B_OPERAND_Marshal) Tss2_MU_TPM2B_OPERAND_Unmarshal spec_TPM2B_OPERAND.
Proof. apply tpm2b_codec_ok; cap_ok. Qed.
#[export] Hint Resolve Tss2_MU_TPM2B_OPERAND_ok : mu.
#[export] Instance spec_TPM2B_OPERAND_ok : SpecOk spec_TPM2B_OPERAND.
Proof. exact (co_spec _ _ _ (Tss2_MU_TPM2B_OPERAND_ok (H:=little_endian_host))). Qed.

Lemma zero_TPM2B_OPERAND_wf : s_wf spec_TPM2B_OPERAND (zero_2b cap_TPM2B_DIGEST).
Proof. apply zero_2b_wf; cap_ok. Qed.
#[export] Hint Resolve zero_TPM2B_OPERAND_wf : mu.

Definition spec_TPM2B_TEMPLATE := spec_2b cap_TPM2B_TEMPLATE.
Lemma Tss2_MU_TPM2B_TEMPLATE_ok {H : Host} :
  codec_ok (ADDR Tss2_MU_TPM2B_TEMPLATE_Marshal) Tss2_MU_TPM2B_TEMPLATE_Unmarshal spec_TPM2B_TEMPLATE.
Proof. apply tpm2b_codec_ok; cap_ok. Qed.
#[export] Hint Resolve Tss2_MU_TPM2B_TEMPLATE_ok : mu.
#[export] Instance spec_TPM2B_TEMPLATE_ok : SpecOk spec_TPM2B_TEMPLATE.
Proof. exact (co_spec _ _ _ (Tss2_MU_TPM2B_TEMPLATE_ok (H:=little_endian_host))). Qed.

Lemma zero_TPM2B_TEMPLATE_wf : s_wf spec_TPM2B_TEMPLATE (zero_2b cap_TPM2B_TEMPLATE).
Proof. apply zero_2b_wf; cap_ok. Qed.
#[export] Hint Resolve zero_TPM2B_TEMPLATE_wf : mu.

Definition spec_TPM2B_MAX_CAP_BUFFER := spec_2b cap_TPM2B_MAX_CAP_BUFFER.
Lemma Tss2_MU_TPM2B_MAX_CAP_BUFFER_ok {H : Host} :
  codec_ok (ADDR Tss2_MU_TPM2B_MAX_CAP_BUFFER_Marshal) Tss2_MU_TPM2B_MAX_CAP_BUFFER_Unmarshal spec_TPM2B_MAX_CAP_BUFFER.
Proof. apply tpm2b_codec_ok; cap_ok. Qed.
#[export] Hint Resolve Tss2_MU_TPM2B_MAX_CAP_BUFFER_ok : mu.
#[export] Instance spec_TPM2B_MAX_CAP_BUFFER_ok : SpecOk spec_TPM2B_MAX_CAP_BUFFER.
Proof. exact (co_spec _ _ _ (Tss2_MU_TPM2B_MAX_CAP_BUFFER_ok (H:=little_endian_host))). Qed.

Lemma zero_TPM2B_MAX_CAP_BUFFER_wf : s_wf spec_TPM2B_MAX_CAP_BUFFER (zero_2b cap_TPM2B_MAX_CAP_BUFFER).
Proof. apply zero_2b_wf; cap_ok. Qed.
#[export] Hint Resolve zero_TPM2B_MAX_CAP_BUFFER_wf : mu.

Definition spec_TPM2B_MLKEM_PUBLIC_KEY := spec_2b cap_TPM2B_MLKEM_PUBLIC_KEY.
Lemma Tss2_MU_TPM2B_MLKEM_PUBLIC_KEY_ok {H : Host} :
  codec_ok (ADDR Tss2_MU_TPM2B_MLKEM_PUBLIC_KEY_Marshal) Tss2_MU_TPM2B_MLKEM_PUBLIC_KEY_Unmarshal spec_TPM2B_MLKEM_PUBLIC_KEY.
Proof. apply tpm2b_codec_ok; cap_ok. Qed.
#[export] Hint Resolve Tss2_MU_TPM2B_MLKEM_PUBLIC_KEY_ok : mu.
#[export] Instance spec_TPM2B_MLKEM_PUBLIC_KEY_ok : SpecOk spec_TPM2B_MLKEM_PUBLIC_KEY.
Proof. exact (co_spec _ _ _ (Tss2_MU_TPM2B_MLKEM_PUBLIC_KEY_ok (H:=little_endian_host))). Qed.

Lemma zero_TPM2B_MLKEM_PUBLIC_KEY_wf : s_wf spec_TPM2B_MLKEM_PUBLIC_KEY (zero_2b cap_TPM2B_MLKEM_PUBLIC_KEY).
Proof. apply zero_2b_wf; cap_ok. Qed.
#[export] Hint Resolve zero_TPM2B_MLKEM_PUBLIC_KEY_wf : mu.

Definition spec_TPM2B_MLKEM_PRIVATE_KEY := spec_2b cap_TPM2B_MLKEM_PRIVATE_KEY.
Lemma Tss2_MU_TPM2B_MLKEM_PRIVATE_KEY_ok {H : Host} :
  codec_ok (ADDR Tss2_MU_TPM2B_MLKEM_PRIVATE_KEY_Marshal) Tss2_MU_TPM2B_MLKEM_PRIVATE_KEY_Unmarshal spec_TPM2B_MLKEM_PRIVATE_KEY.
Proof. apply tpm2b_codec_ok; cap_ok. Qed.
#[export] Hint Resolve Tss2_MU_TPM2B_MLKEM_PRIVATE_KEY_ok : mu.
#[export] Instance spec_TPM2B_MLKEM_PRIVATE_KEY_ok : SpecOk spec_TPM2B_MLKEM_PRIVATE_KEY.
Proof. exact (co_spec _ _ _ (Tss2_MU_TPM2B_MLKEM_PRIVATE_KEY_ok (H:=little_endian_host))). Qed.

Lemma zero_TPM2B_MLKEM_PRIVATE_KEY_wf : s_wf spec_TPM2B_MLKEM_PRIVATE_KEY (zero_2b cap_TPM2B_MLKEM_PRIVATE_KEY).
Proof. apply zero_2b_wf; cap_ok. Qed.
#[export] Hint Resolve zero_TPM2B_MLKEM_PRIVATE_KEY_wf : mu.

Definition spec_TPM2B_MLKEM_CIPHERTEXT := spec_2b cap_TPM2B_MLKEM_CIPHERTEXT.
Lemma Tss2_MU_TPM2B_MLKEM_CIPHERTEXT_ok {H : Host} :
  codec_ok (ADDR Tss2_MU_TPM2B_MLKEM_CIPHERTEXT_Marshal) Tss2_MU_TPM2B_MLKEM_CIPHERTEXT_Unmarshal spec_TPM2B_MLKEM_CIPHERTEXT.
Proof. apply tpm2b_codec_ok; cap_ok. Qed.
#[export] Hint Resolve Tss2_MU_TPM2B_MLKEM_CIPHERTEXT_ok : mu.
#[export] Instance spec_TPM2B_MLKEM_CIPHERTEXT_ok : SpecOk spec_TPM2B_MLKEM_CIPHERTEXT.
Proof. exact (co_spec _ _ _ (Tss2_MU_TPM2B_MLKEM_CIPHERTEXT_ok (H:=little_endian_host))). Qed.

Lemma zero_TPM2B_MLKEM_CIPHERTEXT_wf : s_wf spec_TPM2B_MLKEM_CIPHERTEXT (zero_2b cap_TPM2B_MLKEM_CIPHERTEXT).
Proof. apply zero_2b_wf; cap_ok. Qed.
#[export] Hint Resolve zero_TPM2B_MLKEM_CIPHERTEXT_wf : mu.

Definition spec_TPM2B_MLDSA_PUBLIC_KEY := spec_2b cap_TPM2B_MLDSA_PUBLIC_KEY.
Lemma Tss2_MU_TPM2B_MLDSA_PUBLIC_KEY_ok {H : Host} :
  codec_ok (ADDR Tss2_MU_TPM2B_MLDSA_PUBLIC_KEY_Marshal) Tss2_MU_TPM2B_MLDSA_PUBLIC_KEY_Unmarshal spec_TPM2B_MLDSA_PUBLIC_KEY.
Proof. apply tpm2b_codec_ok; cap_ok. Qed.
#[export] Hint Resolve Tss2_MU_TPM2B_MLDSA_PUBLIC_KEY_ok : mu.
#[export] Instance spec_TPM2B_MLDSA_PUBLIC_KEY_ok : SpecOk spec_TPM2B_MLDSA_PUBLIC_KEY.
Proof. exact (co_spec _ _ _ (Tss2_MU_TPM2B_MLDSA_PUBLIC_KEY_ok (H:=little_endian_host))). Qed.

Lemma zero_TPM2B_MLDSA_PUBLIC_KEY_wf : s_wf spec_TPM2B_MLDSA_PUBLIC_KEY (zero_2b cap_TPM2B_MLDSA_PUBLIC_KEY).
Proof. apply zero_2b_wf; cap_ok. Qed.
#[export] Hint Resolve zero_TPM2B_MLDSA_PUBLIC_KEY_wf : mu.

Definition spec_TPM2B_MLDSA_PRIVATE_KEY := spec_2b cap_TPM2B_MLDSA_PRIVATE_KEY.
Lemma Tss2_MU_TPM2B_MLDSA_PRIVATE_KEY_ok {H : Host} :
  codec_ok (ADDR Tss2_MU_TPM2B_MLDSA_PRIVATE_KEY_Marshal) Tss2_MU_TPM2B_MLDSA_PRIVATE_KEY_Unmarshal spec_TPM2B_MLDSA_PRIVATE_KEY.
Proof. apply tpm2b_codec_ok; cap_ok. Qed.
#[export] Hint Resolve Tss2_MU_TPM2B_MLDSA_PRIVATE_KEY_ok : mu.
#[export] Instance spec_TPM2B_MLDSA_PRIVATE_KEY_ok : SpecOk spec_TPM2B_MLDSA_PRIVATE_KEY.
Proof. exact (co_spec _ _ _ (Tss2_MU_TPM2B_MLDSA_PRIVATE_KEY_ok (H:=little_endian_host))). Qed.

Lemma zero_TPM2B_MLDSA_PRIVATE_KEY_wf : s_wf spec_TPM2B_MLDSA_PRIVATE_KEY (zero_2b cap_TPM2B_MLDSA_PRIVATE_KEY).
Proof. apply zero_2b_wf; cap_ok. Qed.
#[export] Hint Resolve zero_TPM2B_MLDSA_PRIVATE_KEY_wf : mu.

Definition spec_TPM2B_MLDSA_SIGNATURE := spec_2b cap_TPM2B_MLDSA_SIGNATURE.
Lemma Tss2_MU_TPM2B_MLDSA_SIGNATURE_ok {H : Host} :
  codec_ok (ADDR Tss2_MU_TPM2B_MLDSA_SIGNATURE_Marshal) Tss2_MU_TPM2B_MLDSA_SIGNATURE_Unmarshal spec_TPM2B_MLDSA_SIGNATURE.
Proof. apply tpm2b_codec_ok; cap_ok. Qed.
#[export] Hint Resolve Tss2_MU_TPM2B_MLDSA_SIGNATURE_ok : mu.
#[export] Instance spec_TPM2B_MLDSA_SIGNATURE_ok : SpecOk spec_TPM2B_MLDSA_SIGNATURE.
Proof. exact (co_spec _ _ _ (Tss2_MU_TPM2B_MLDSA_SIGNATURE_ok (H:=little_endian_host))). Qed.

Lemma zero_TPM2B_MLDSA_SIGNATURE_wf : s_wf spec_TPM2B_MLDSA_SIGNATURE (zero_2b cap_TPM2B_MLDSA_SIGNATURE).
Proof. apply zero_2b_wf; cap_ok. Qed.
#[export] Hint Resolve zero_TPM2B_MLDSA_SIGNATURE_wf : mu.

Definition spec_TPMS_ECC_POINT : spec TPMS_ECC_POINT :=
  (spec_on (mget TPMS_ECC_POINT'x) spec_TPM2B_ECC_PARAMETER ⊗
    spec_on (mget TPMS_ECC_POINT'y) spec_TPM2B_ECC_PARAMETER ⊗ spec_unit)%spec.
Lemma zero_TPMS_ECC_POINT_wf : s_wf spec_TPMS_ECC_POINT zero_TPMS_ECC_POINT.
Proof. exact (conj zero_TPM2B_ECC_PARAMETER_wf
    (conj zero_TPM2B_ECC_PARAMETER_wf I)). Qed.
Lemma Tss2_MU_TPMS_ECC_POINT_ok {H : Host} :
  codec_ok (ADDR Tss2_MU_TPMS_ECC_POINT_Marshal) Tss2_MU_TPMS_ECC_POINT_Unmarshal spec_TPMS_ECC_POINT.
Proof. unfold Tss2_MU_TPMS_ECC_POINT_Marshal, Tss2_MU_TPMS_ECC_POINT_Unmarshal. mu_struct. exact zero_TPMS_ECC_POINT_wf. Qed.
#[export] Hint Resolve Tss2_MU_TPMS_ECC_POINT_ok : mu.
#[export] Instance spec_TPMS_ECC_POINT_ok : SpecOk spec_TPMS_ECC_POINT.
Proof. exact (co_spec _ _ _ (Tss2_MU_TPMS_ECC_POINT_ok (H:=little_endian_host))). Qed.

#[export] Hint Resolve zero_TPMS_ECC_POINT_wf : mu.

Definition spec_TPM2B_ECC_POINT := spec_sub spec_TPMS_ECC_POINT.
Lemma Tss2_MU_TPM2B_ECC_POINT_ok {H : Host} :
  lax_codec_ok (ADDR Tss2_MU_TPM2B_ECC_POINT_Marshal) Tss2_MU_TPM2B_ECC_POINT_Unmarshal spec_TPM2B_ECC_POINT.
Proof. apply tpm2b_sub_codec_ok; [eauto 2 with mu|cap_ok|cap_ok]. Qed.
#[export] Hint Resolve Tss2_MU_TPM2B_ECC_POINT_ok : mu.

Definition spec_TPMS_NV_PUBLIC : spec TPMS_NV_PUBLIC :=
  (spec_on (mget TPMS_NV_PUBLIC'nvIndex) (spec_int UINT32) ⊗
    spec_on (mget TPMS_NV_PUBLIC'nameAlg) (spec_int UINT16) ⊗
    spec_on (mget TPMS_NV_PUBLIC'attributes) (spec_int UINT32) ⊗
    spec_on (mget TPMS_NV_PUBLIC'authPolicy) spec_TPM2B_DIGEST ⊗
    spec_on (mget TPMS_NV_PUBLIC'dataSize) (spec_int UINT16) ⊗ spec_unit)%spec.
Lemma zero_TPMS_NV_PUBLIC_wf : s_wf spec_TPMS_NV_PUBLIC zero_TPMS_NV_PUBLIC.
Proof. exact (conj (zero_int_wf 4)
    (conj (zero_int_wf 2) (conj (zero_int_wf 4) (conj zero_TPM2B_DIGEST_wf (conj (zero_int_wf 2)
    I))))). Qed.
Lemma Tss2_MU_TPMS_NV_PUBLIC_ok {H : Host} :
  codec_ok (ADDR Tss2_MU_TPMS_NV_PUBLIC_Marshal) Tss2_MU_TPMS_NV_PUBLIC_Unmarshal spec_TPMS_NV_PUBLIC.
Proof. unfold Tss2_MU_TPMS_NV_PUBLIC_Marshal, Tss2_MU_TPMS_NV_PUBLIC_Unmarshal. mu_struct. exact zero_TPMS_NV_PUBLIC_wf. Qed.
#[export] Hint Resolve Tss2_MU_TPMS_NV_PUBLIC_ok : mu.
#[export] Instance spec_TPMS_NV_PUBLIC_ok : SpecOk spec_TPMS_NV_PUBLIC.
Proof. exact (co_spec _ _ _ (Tss2_MU_TPMS_NV_PUBLIC_ok (H:=little_endian_host))). Qed.

#[export] Hint Resolve zero_TPMS_NV_PUBLIC_wf : mu.

Definition spec_TPM2B_NV_PUBLIC := spec_sub spec_TPMS_NV_PUBLIC.
Lemma Tss2_MU_TPM2B_NV_PUBLIC_ok {H : Host} :
  lax_codec_ok (ADDR Tss2_MU_TPM2B_NV_PUBLIC_Marshal) Tss2_MU_TPM2B_NV_PUBLIC_Unmarshal spec_TPM2B_NV_PUBLIC.
Proof. apply tpm2b_sub_codec_ok; [eauto 2 with mu|cap_ok|cap_ok]. Qed.
#[export] Hint Resolve Tss2_MU_TPM2B_NV_PUBLIC_ok : mu.

Definition wf_TPMU_SENSITIVE_COMPOSITE : TPM2B -> Prop :=
  s_wf (spec_2b cap_TPM2B_PRIVATE_VENDOR_SPECIFIC).
Definition cases_TPMU_SENSITIVE_COMPOSITE := [
    (TPM2_ALG_RSA, spec_case wf_TPMU_SENSITIVE_COMPOSITE (sub_2b cap_TPM2B_PRIVATE_KEY_RSA) spec_TPM2B_PRIVATE_KEY_RSA);
    (TPM2_ALG_ECC, spec_case wf_TPMU_SENSITIVE_COMPOSITE (sub_2b cap_TPM2B_ECC_PARAMETER) spec_TPM2B_ECC_PARAMETER);
    (TPM2_ALG_KEYEDHASH, spec_case wf_TPMU_SENSITIVE_COMPOSITE (sub_2b cap_TPM2B_SENSITIVE_DATA) spec_TPM2B_SENSITIVE_DATA);
    (TPM2_ALG_SYMCIPHER, spec_case wf_TPMU_SENSITIVE_COMPOSITE (sub_2b cap_TPM2B_SYM_KEY) spec_TPM2B_SYM_KEY);
    (TPM2_ALG_MLKEM, spec_case wf_TPMU_SENSITIVE_COMPOSITE (sub_2b cap_TPM2B_MLKEM_PRIVATE_KEY) spec_TPM2B_MLKEM_PRIVATE_KEY);
    (TPM2_ALG_MLDSA, spec_case wf_TPMU_SENSITIVE_COMPOSITE (sub_2b cap_TPM2B_MLDSA_PRIVATE_KEY) spec_TPM2B_MLDSA_PRIVATE_KEY)].
Definition spec_TPMU_SENSITIVE_COMPOSITE := spec_union wf_TPMU_SENSITIVE_COMPOSITE cases_TPMU_SENSITIVE_COMPOSITE.
Definition max_TPMU_SENSITIVE_COMPOSITE := cases_max cases_TPMU_SENSITIVE_COMPOSITE.
Lemma zero_TPMU_SENSITIVE_COMPOSITE_wf : wf_TPMU_SENSITIVE_COMPOSITE (zero_2b cap_TPM2B_PRIVATE_VENDOR_SPECIFIC).
Proof. apply zero_2b_wf; cap_ok. Qed.
#[export] Hint Resolve zero_TPMU_SENSITIVE_COMPOSITE_wf : mu.
Lemma Tss2_MU_TPMU_SENSITIVE_COMPOSITE_ok {H : Host} :
  union_ok (ADDR Tss2_MU_TPMU_SENSITIVE_COMPOSITE_Marshal) Tss2_MU_TPMU_SENSITIVE_COMPOSITE_Unmarshal
    wf_TPMU_SENSITIVE_COMPOSITE spec_TPMU_SENSITIVE_COMPOSITE max_TPMU_SENSITIVE_COMPOSITE.
Proof. mu_union. Qed.
#[export] Hint Resolve Tss2_MU_TPMU_SENSITIVE_COMPOSITE_ok : mu.
#[export] Instance spec_TPMU_SENSITIVE_COMPOSITE_ok z : SpecOk (spec_TPMU_SENSITIVE_COMPOSITE z).
Proof. exact (union_ok_spec (Tss2_MU_TPMU_SENSITIVE_COMPOSITE_ok (H:=little_endian_host)) z). Qed.
#[export] Instance sel_TPMU_SENSITIVE_COMPOSITE_ok {T} (sel : T -> Z) get :
  SpecOk (spec_sel sel get wf_TPMU_SENSITIVE_COMPOSITE spec_TPMU_SENSITIVE_COMPOSITE max_TPMU_SENSITIVE_COMPOSITE).
Proof. exact (union_ok_sel (Tss2_MU_TPMU_SENSITIVE_COMPOSITE_ok (H:=little_endian_host)) sel get). Qed.

Definition spec_TPMT_SENSITIVE : spec TPMT_SENSITIVE :=
  (spec_on (mget TPMT_SENSITIVE'sensitiveType) (spec_int UINT16) ⊗
    spec_on (mget TPMT_SENSITIVE'authValue) spec_TPM2B_DIGEST ⊗
    spec_on (mget TPMT_SENSITIVE'seedValue) spec_TPM2B_DIGEST ⊗
    spec_sel (mget TPMT_SENSITIVE'sensitiveType) (mget TPMT_SENSITIVE'sensitive) wf_TPMU_SENSITIVE_COMPOSITE spec_TPMU_SENSITIVE_COMPOSITE max_TPMU_SENSITIVE_COMPOSITE ⊗
    spec_unit)%spec.
Lemma zero_TPMT_SENSITIVE_wf : s_wf spec_TPMT_SENSITIVE zero_TPMT_SENSITIVE.
Proof. exact (conj (zero_int_wf 2)
    (conj zero_TPM2B_DIGEST_wf (conj zero_TPM2B_DIGEST_wf (conj zero_TPMU_SENSITIVE_COMPOSITE_wf
    I)))). Qed.
Lemma Tss2_MU_TPMT_SENSITIVE_ok {H : Host} :
  codec_ok (ADDR Tss2_MU_TPMT_SENSITIVE_Marshal) Tss2_MU_TPMT_SENSITIVE_Unmarshal spec_TPMT_SENSITIVE.
Proof. unfold Tss2_MU_TPMT_SENSITIVE_Marshal, Tss2_MU_TPMT_SENSITIVE_Unmarshal. mu_struct. exact zero_TPMT_SENSITIVE_wf. Qed.
#[export] Hint Resolve Tss2_MU_TPMT_SENSITIVE_ok : mu.
#[export] Instance spec_TPMT_SENSITIVE_ok : SpecOk spec_TPMT_SENSITIVE.
Proof. exact (co_spec _ _ _ (Tss2_MU_TPMT_SENSITIVE_ok (H:=little_endian_host))). Qed.

#[export] Hint Resolve zero_TPMT_SENSITIVE_wf : mu.

Definition spec_TPM2B_SENSITIVE := spec_sub spec_TPMT_SENSITIVE.
Lemma Tss2_MU_TPM2B_SENSITIVE_ok {H : Host} :
  lax_codec_ok (ADDR Tss2_MU_TPM2B_SENSITIVE_Marshal) Tss2_MU_TPM2B_SENSITIVE_Unmarshal spec_TPM2B_SENSITIVE.
Proof. apply tpm2b_sub_codec_ok; [eauto 2 with mu|cap_ok|cap_ok]. Qed.
#[export] Hint Resolve Tss2_MU_TPM2B_SENSITIVE_ok : mu.

Definition spec_TPMS_SENSITIVE_CREATE : spec TPMS_SENSITIVE_CREATE :=
  (spec_on (mget TPMS_SENSITIVE_CREATE'userAuth) spec_TPM2B_DIGEST ⊗
    spec_on (mget TPMS_SENSITIVE_CREATE'data) spec_TPM2B_SENSITIVE_DATA ⊗ spec_unit)%spec.
Lemma zero_TPMS_SENSITIVE_CREATE_wf : s_wf spec_TPMS_SENSITIVE_CREATE zero_TPMS_SENSITIVE_CREATE.
Proof. exact (conj zero_TPM2B_DIGEST_wf
    (conj zero_TPM2B_SENSITIVE_DATA_wf I)). Qed.
Lemma Tss2_MU_TPMS_SENSITIVE_CREATE_ok {H : Host} :
  codec_ok (ADDR Tss2_MU_TPMS_SENSITIVE_CREATE_Marshal) Tss2_MU_TPMS_SENSITIVE_CREATE_Unmarshal spec_TPMS_SENSITIVE_CREATE.
Proof. unfold Tss2_MU_TPMS_SENSITIVE_CREATE_Marshal, Tss2_MU_TPMS_SENSITIVE_CREATE_Unmarshal. mu_struct. exact zero_TPMS_SENSITIVE_CREATE_wf. Qed.
#[export] Hint Resolve Tss2_MU_TPMS_SENSITIVE_CREATE_ok : mu.
#[export] Instance spec_TPMS_SENSITIVE_CREATE_ok : SpecOk spec_TPMS_SENSITIVE_CREATE.
Proof. exact (co_spec _ _ _ (Tss2_MU_TPMS_SENSITIVE_CREATE_ok (H:=little_endian_host))). Qed.

#[export] Hint Resolve zero_TPMS_SENSITIVE_CREATE_wf : mu.

Definition spec_TPM2B_SENSITIVE_CREATE := spec_sub spec_TPMS_SENSITIVE_CREATE.
Lemma Tss2_MU_TPM2B_SENSITIVE_CREATE_ok {H : Host} :
  lax_codec_ok (ADDR Tss2_MU_TPM2B_SENSITIVE_CREATE_Marshal) Tss2_MU_TPM2B_SENSITIVE_CREATE_Unmarshal spec_TPM2B_SENSITIVE_CREATE.
Proof. apply tpm2b_sub_codec_ok; [eauto 2 with mu|cap_ok|cap_ok]. Qed.
#[export] Hint Resolve Tss2_MU_TPM2B_SENSITIVE_CREATE_ok : mu.

Definition spec_TPML_PCR_SELECTION := spec_list cap_TPML_PCR_SELECTION spec_TPMS_PCR_SELECTION.
Lemma Tss2_MU_TPML_PCR_SELECTION_ok {H : Host} :
  codec_ok (ADDR Tss2_MU_TPML_PCR_SELECTION_Marshal) Tss2_MU_TPML_PCR_SELECTION_Unmarshal spec_TPML_PCR_SELECTION.
Proof. apply tpml_codec_ok; [cap_ok|cap_ok|exact zero_TPMS_PCR_SELECTION_wf|eauto 2 with mu]. Qed.
#[export] Hint Resolve Tss2_MU_TPML_PCR_SELECTION_ok : mu.
#[export] Instance spec_TPML_PCR_SELECTION_ok : SpecOk spec_TPML_PCR_SELECTION.
Proof. exact (co_spec _ _ _ (Tss2_MU_TPML_PCR_SELECTION_ok (H:=little_endian_host))). Qed.

Lemma zero_TPML_PCR_SELECTION_wf : s_wf spec_TPML_PCR_SELECTION (zero_tpml cap_TPML_PCR_SELECTION zero_TPMS_PCR_SELECTION).
Proof. apply zero_tpml_wf; [cap_ok|exact zero_TPMS_PCR_SELECTION_wf]. Qed.
#[export] Hint Resolve zero_TPML_PCR_SELECTION_wf : mu.

Definition spec_TPMS_CREATION_DATA : spec TPMS_CREATION_DATA :=
  (spec_on (mget TPMS_CREATION_DATA'pcrSelect) spec_TPML_PCR_SELECTION ⊗
    spec_on (mget TPMS_CREATION_DATA'pcrDigest) spec_TPM2B_DIGEST ⊗
    spec_on (mget TPMS_CREATION_DATA'locality) (spec_int UINT8) ⊗
    spec_on (mget TPMS_CREATION_DATA'parentNameAlg) (spec_int UINT16) ⊗
    spec_on (mget TPMS_CREATION_DATA'parentName) spec_TPM2B_NAME ⊗
    spec_on (mget TPMS_CREATION_DATA'parentQualifiedName) spec_TPM2B_NAME ⊗
    spec_on (mget TPMS_CREATION_DATA'outsideInfo) spec_TPM2B_DATA ⊗ spec_unit)%spec.
Lemma zero_TPMS_CREATION_DATA_wf : s_wf spec_TPMS_CREATION_DATA zero_TPMS_CREATION_DATA.
Proof. exact (conj zero_TPML_PCR_SELECTION_wf
    (conj zero_TPM2B_DIGEST_wf (conj (zero_int_wf 1) (conj (zero_int_wf 2)
    (conj zero_TPM2B_NAME_wf (conj zero_TPM2B_NAME_wf (conj zero_TPM2B_DATA_wf I))))))). Qed.
Lemma Tss2_MU_TPMS_CREATION_DATA_ok {H : Host} :
  codec_ok (ADDR Tss2_MU_TPMS_CREATION_DATA_Marshal) Tss2_MU_TPMS_CREATION_DATA_Unmarshal spec_TPMS_CREATION_DATA.
Proof. unfold Tss2_MU_TPMS_CREATION_DATA_Marshal, Tss2_MU_TPMS_CREATION_DATA_Unmarshal. mu_struct. exact zero_TPMS_CREATION_DATA_wf. Qed.
#[export] Hint Resolve Tss2_MU_TPMS_CREATION_DATA_ok : mu.
#[export] Instance spec_TPMS_CREATION_DATA_ok : SpecOk spec_TPMS_CREATION_DATA.
Proof. exact (co_spec _ _ _ (Tss2_MU_TPMS_CREATION_DATA_ok (H:=little_endian_host))). Qed.

#[export] Hint Resolve zero_TPMS_CREATION_DATA_wf : mu.

Definition spec_TPM2B_CREATION_DATA := spec_sub spec_TPMS_CREATION_DATA.
Lemma Tss2_MU_TPM2B_CREATION_DATA_ok {H : Host} :
  lax_codec_ok (ADDR Tss2_MU_TPM2B_CREATION_DATA_Marshal) Tss2_MU_TPM2B_CREATION_DATA_Unmarshal spec_TPM2B_CREATION_DATA.
Proof. apply tpm2b_sub_codec_ok; [eauto 2 with mu|cap_ok|cap_ok]. Qed.
#[export] Hint Resolve Tss2_MU_TPM2B_CREATION_DATA_ok : mu.

Definition spec_TPMS_SCHEME_HASH := spec_on (mget TPMS_SCHEME_HASH'hashAlg) (spec_int UINT16).
Lemma Tss2_MU_TPMS_SCHEME_HASH_ok {H : Host} :
  codec_ok (ADDR Tss2_MU_TPMS_SCHEME_HASH_Marshal) Tss2_MU_TPMS_SCHEME_HASH_Unmarshal spec_TPMS_SCHEME_HASH.
Proof. apply TPMS_1_codec_ok; [apply _|eauto 2 with mu]. Qed.
#[export] Hint Resolve Tss2_MU_TPMS_SCHEME_HASH_ok : mu.
#[export] Instance spec_TPMS_SCHEME_HASH_ok : SpecOk spec_TPMS_SCHEME_HASH.
Proof. exact (co_spec _ _ _ (Tss2_MU_TPMS_SCHEME_HASH_ok (H:=little_endian_host))). Qed.

Lemma zero_TPMS_SCHEME_HASH_wf : s_wf spec_TPMS_SCHEME_HASH zero_TPMS_SCHEME_HASH.
Proof. exact (zero_int_wf 2). Qed.

#[export] Hint Resolve zero_TPMS_SCHEME_HASH_wf : mu.

Definition spec_TPMS_SCHEME_XOR : spec TPMS_SCHEME_XOR :=
  (spec_on (mget TPMS_SCHEME_XOR'hashAlg) (spec_int UINT16) ⊗
    spec_on (mget TPMS_SCHEME_XOR'kdf) (spec_int UINT16) ⊗ spec_unit)%spec.
Lemma zero_TPMS_SCHEME_XOR_wf : s_wf spec_TPMS_SCHEME_XOR zero_TPMS_SCHEME_XOR.
Proof. exact (conj (zero_int_wf 2)
    (conj (zero_int_wf 2) I)). Qed.
Lemma Tss2_MU_TPMS_SCHEME_XOR_ok {H : Host} :
  codec_ok (ADDR Tss2_MU_TPMS_SCHEME_XOR_Marshal) Tss2_MU_TPMS_SCHEME_XOR_Unmarshal spec_TPMS_SCHEME_XOR.
Proof. unfold Tss2_MU_TPMS_SCHEME_XOR_Marshal, Tss2_MU_TPMS_SCHEME_XOR_Unmarshal. mu_struct. exact zero_TPMS_SCHEME_XOR_wf. Qed.
#[export] Hint Resolve Tss2_MU_TPMS_SCHEME_XOR_ok : mu.
#[export] Instance spec_TPMS_SCHEME_XOR_ok : SpecOk spec_TPMS_SCHEME_XOR.
Proof. exact (co_spec _ _ _ (Tss2_MU_TPMS_SCHEME_XOR_ok (H:=little_endian_host))). Qed.

#[export] Hint Resolve zero_TPMS_SCHEME_XOR_wf : mu.

Definition wf_TPMU_SCHEME_KEYEDHASH : TPMS_SCHEME_XOR -> Prop :=
  s_wf spec_TPMS_SCHEME_XOR.
Definition cases_TPMU_SCHEME_KEYEDHASH := [
    (TPM2_ALG_HMAC, spec_case wf_TPMU_SCHEME_KEYEDHASH hash_of_xor spec_TPMS_SCHEME_HASH);
    (TPM2_ALG_XOR, spec_case wf_TPMU_SCHEME_KEYEDHASH (whole zero_TPMS_SCHEME_XOR) spec_TPMS_SCHEME_XOR)].
Definition spec_TPMU_SCHEME_KEYEDHASH := spec_union wf_TPMU_SCHEME_KEYEDHASH cases_TPMU_SCHEME_KEYEDHASH.
Definition max_TPMU_SCHEME_KEYEDHASH := cases_max cases_TPMU_SCHEME_KEYEDHASH.
Lemma zero_TPMU_SCHEME_KEYEDHASH_wf : wf_TPMU_SCHEME_KEYEDHASH zero_TPMS_SCHEME_XOR.
Proof. exact zero_TPMS_SCHEME_XOR_wf. Qed.
#[export] Hint Resolve zero_TPMU_SCHEME_KEYEDHASH_wf : mu.
Lemma hash_of_xor_TPMU_SCHEME_KEYEDHASH_ok :
  umember_ok wf_TPMU_SCHEME_KEYEDHASH hash_of_xor spec_TPMS_SCHEME_HASH.
Proof.
  split.
  - intros u v W E. injection E as <-. exact (proj1 W).
  - exact zero_TPMS_SCHEME_HASH_wf.
  - intros u v W Wv. exact (conj Wv (proj2 W)).
  - intros u [v] _ _. reflexivity.
Qed.
#[export] Hint Resolve hash_of_xor_TPMU_SCHEME_KEYEDHASH_ok : mu.
Lemma Tss2_MU_TPMU_SCHEME_KEYEDHASH_ok {H : Host} :
  union_ok (ADDR Tss2_MU_TPMU_SCHEME_KEYEDHASH_Marshal) Tss2_MU_TPMU_SCHEME_KEYEDHASH_Unmarshal
    wf_TPMU_SCHEME_KEYEDHASH spec_TPMU_SCHEME_KEYEDHASH max_TPMU_SCHEME_KEYEDHASH.
Proof. mu_union. Qed.
#[export] Hint Resolve Tss2_MU_TPMU_SCHEME_KEYEDHASH_ok : mu.
#[export] Instance spec_TPMU_SCHEME_KEYEDHASH_ok z : SpecOk (spec_TPMU_SCHEME_KEYEDHASH z).
Proof. exact (union_ok_spec (Tss2_MU_TPMU_SCHEME_KEYEDHASH_ok (H:=little_endian_host)) z). Qed.
#[export] Instance sel_TPMU_SCHEME_KEYEDHASH_ok {T} (sel : T -> Z) get :
  SpecOk (spec_sel sel get wf_TPMU_SCHEME_KEYEDHASH spec_TPMU_SCHEME_KEYEDHASH max_TPMU_SCHEME_KEYEDHASH).
Proof. exact (union_ok_sel (Tss2_MU_TPMU_SCHEME_KEYEDHASH_ok (H:=little_endian_host)) sel get). Qed.

Definition spec_TPMT_KEYEDHASH_SCHEME : spec TPMT_KEYEDHASH_SCHEME :=
  (spec_on (mget TPMT_KEYEDHASH_SCHEME'scheme) (spec_int UINT16) ⊗
    spec_sel (mget TPMT_KEYEDHASH_SCHEME'scheme) (mget TPMT_KEYEDHASH_SCHEME'details) wf_TPMU_SCHEME_KEYEDHASH spec_TPMU_SCHEME_KEYEDHASH max_TPMU_SCHEME_KEYEDHASH ⊗
    spec_unit)%spec.
Lemma zero_TPMT_KEYEDHASH_SCHEME_wf : s_wf spec_TPMT_KEYEDHASH_SCHEME zero_TPMT_KEYEDHASH_SCHEME.
Proof. exact (conj (zero_int_wf 2)
    (conj zero_TPMU_SCHEME_KEYEDHASH_wf I)). Qed.
Lemma Tss2_MU_TPMT_KEYEDHASH_SCHEME_ok {H : Host} :
  codec_ok (ADDR Tss2_MU_TPMT_KEYEDHASH_SCHEME_Marshal) Tss2_MU_TPMT_KEYEDHASH_SCHEME_Unmarshal spec_TPMT_KEYEDHASH_SCHEME.
Proof. unfold Tss2_MU_TPMT_KEYEDHASH_SCHEME_Marshal, Tss2_MU_TPMT_KEYEDHASH_SCHEME_Unmarshal. mu_struct. exact zero_TPMT_KEYEDHASH_SCHEME_wf. Qed.
#[export] Hint Resolve Tss2_MU_TPMT_KEYEDHASH_SCHEME_ok : mu.
#[export] Instance spec_TPMT_KEYEDHASH_SCHEME_ok : SpecOk spec_TPMT_KEYEDHASH_SCHEME.
Proof. exact (co_spec _ _ _ (Tss2_MU_TPMT_KEYEDHASH_SCHEME_ok (H:=little_endian_host))). Qed.

#[export] Hint Resolve zero_TPMT_KEYEDHASH_SCHEME_wf : mu.

Definition spec_TPMS_KEYEDHASH_PARMS := spec_on (mget TPMS_KEYEDHASH_PARMS'scheme) spec_TPMT_KEYEDHASH_SCHEME.
Lemma Tss2_MU_TPMS_KEYEDHASH_PARMS_ok {H : Host} :
  codec_ok (ADDR Tss2_MU_TPMS_KEYEDHASH_PARMS_Marshal) Tss2_MU_TPMS_KEYEDHASH_PARMS_Unmarshal spec_TPMS_KEYEDHASH_PARMS.
Proof. apply TPMS_1_codec_ok; [apply _|eauto 2 with mu]. Qed.
#[export] Hint Resolve Tss2_MU_TPMS_KEYEDHASH_PARMS_ok : mu.
#[export] Instance spec_TPMS_KEYEDHASH_PARMS_ok : SpecOk spec_TPMS_KEYEDHASH_PARMS.
Proof. exact (co_spec _ _ _ (Tss2_MU_TPMS_KEYEDHASH_PARMS_ok (H:=little_endian_host))). Qed.

Lemma zero_TPMS_KEYEDHASH_PARMS_wf : s_wf spec_TPMS_KEYEDHASH_PARMS zero_TPMS_KEYEDHASH_PARMS.
Proof. exact zero_TPMT_KEYEDHASH_SCHEME_wf. Qed.

#[export] Hint Resolve zero_TPMS_KEYEDHASH_PARMS_wf : mu.

Definition wf_TPMU_SYM_KEY_BITS : Z -> Prop :=
  s_wf (spec_int UINT16).
Definition cases_TPMU_SYM_KEY_BITS := [
    (TPM2_ALG_AES, spec_case wf_TPMU_SYM_KEY_BITS (whole 0) (spec_int UINT16));
    (TPM2_ALG_SM4, spec_case wf_TPMU_SYM_KEY_BITS (whole 0) (spec_int UINT16));
    (TPM2_ALG_CAMELLIA, spec_case wf_TPMU_SYM_KEY_BITS (whole 0) (spec_int UINT16));
    (TPM2_ALG_XOR, spec_case wf_TPMU_SYM_KEY_BITS (whole 0) (spec_int UINT16));
    (TPM2_ALG_SYMCIPHER, spec_case wf_TPMU_SYM_KEY_BITS (whole 0) (spec_int UINT16))].
Definition spec_TPMU_SYM_KEY_BITS := spec_union wf_TPMU_SYM_KEY_BITS cases_TPMU_SYM_KEY_BITS.
Definition max_TPMU_SYM_KEY_BITS := cases_max cases_TPMU_SYM_KEY_BITS.
Lemma zero_TPMU_SYM_KEY_BITS_wf : wf_TPMU_SYM_KEY_BITS 0.
Proof. exact (zero_int_wf 2). Qed.
#[export] Hint Resolve zero_TPMU_SYM_KEY_BITS_wf : mu.
Lemma Tss2_MU_TPMU_SYM_KEY_BITS_ok {H : Host} :
  union_ok (ADDR Tss2_MU_TPMU_SYM_KEY_BITS_Marshal) Tss2_MU_TPMU_SYM_KEY_BITS_Unmarshal
    wf_TPMU_SYM_KEY_BITS spec_TPMU_SYM_KEY_BITS max_TPMU_SYM_KEY_BITS.
Proof. mu_union. Qed.
#[export] Hint Resolve Tss2_MU_TPMU_SYM_KEY_BITS_ok : mu.
#[export] Instance spec_TPMU_SYM_KEY_BITS_ok z : SpecOk (spec_TPMU_SYM_KEY_BITS z).
Proof. exact (union_ok_spec (Tss2_MU_TPMU_SYM_KEY_BITS_ok (H:=little_endian_host)) z). Qed.
#[export] Instance sel_TPMU_SYM_KEY_BITS_ok {T} (sel : T -> Z) get :
  SpecOk (spec_sel sel get wf_TPMU_SYM_KEY_BITS spec_TPMU_SYM_KEY_BITS max_TPMU_SYM_KEY_BITS).
Proof. exact (union_ok_sel (Tss2_MU_TPMU_SYM_KEY_BITS_ok (H:=little_endian_host)) sel get). Qed.

Definition wf_TPMU_SYM_MODE : Z -> Prop :=
  s_wf (spec_int UINT16).
Definition cases_TPMU_SYM_MODE := [
    (TPM2_ALG_AES, spec_case wf_TPMU_SYM_MODE (whole 0) (spec_int UINT16));
    (TPM2_ALG_SM4, spec_case wf_TPMU_SYM_MODE (whole 0) (spec_int UINT16));
    (TPM2_ALG_CAMELLIA, spec_case wf_TPMU_SYM_MODE (whole 0) (spec_int UINT16));
    (TPM2_ALG_XOR, spec_empty wf_TPMU_SYM_MODE);
    (TPM2_ALG_SYMCIPHER, spec_case wf_TPMU_SYM_MODE (whole 0) (spec_int UINT16))].
Definition spec_TPMU_SYM_MODE := spec_union wf_TPMU_SYM_MODE cases_TPMU_SYM_MODE.
Definition max_TPMU_SYM_MODE := cases_max cases_TPMU_SYM_MODE.
Lemma zero_TPMU_SYM_MODE_wf : wf_TPMU_SYM_MODE 0.
Proof. exact (zero_int_wf 2). Qed.
#[export] Hint Resolve zero_TPMU_SYM_MODE_wf : mu.
Lemma Tss2_MU_TPMU_SYM_MODE_ok {H : Host} :
  union_ok (ADDR Tss2_MU_TPMU_SYM_MODE_Marshal) Tss2_MU_TPMU_SYM_MODE_Unmarshal
    wf_TPMU_SYM_MODE spec_TPMU_SYM_MODE max_TPMU_SYM_MODE.
Proof. mu_union. Qed.
#[export] Hint Resolve Tss2_MU_TPMU_SYM_MODE_ok : mu.
#[export] Instance spec_TPMU_SYM_MODE_ok z : SpecOk (spec_TPMU_SYM_MODE z).
Proof. exact (union_ok_spec (Tss2_MU_TPMU_SYM_MODE_ok (H:=little_endian_host)) z). Qed.
#[export] Instance sel_TPMU_SYM_MODE_ok {T} (sel : T -> Z) get :
  SpecOk (spec_sel sel get wf_TPMU_SYM_MODE spec_TPMU_SYM_MODE max_TPMU_SYM_MODE).
Proof. exact (union_ok_sel (Tss2_MU_TPMU_SYM_MODE_ok (H:=little_endian_host)) sel get). Qed.

Definition spec_TPMT_SYM_DEF_OBJECT : spec TPMT_SYM_DEF_OBJECT :=
  (spec_on (mget TPMT_SYM_DEF_OBJECT'algorithm) (spec_int UINT16) ⊗
    spec_sel (mget TPMT_SYM_DEF_OBJECT'algorithm) (mget TPMT_SYM_DEF_OBJECT'keyBits) wf_TPMU_SYM_KEY_BITS spec_TPMU_SYM_KEY_BITS max_TPMU_SYM_KEY_BITS ⊗
    spec_sel (mget TPMT_SYM_DEF_OBJECT'algorithm) (mget TPMT_SYM_DEF_OBJECT'mode) wf_TPMU_SYM_MODE spec_TPMU_SYM_MODE max_TPMU_SYM_MODE ⊗
    spec_unit)%spec.
Lemma zero_TPMT_SYM_DEF_OBJECT_wf : s_wf spec_TPMT_SYM_DEF_OBJECT zero_TPMT_SYM_DEF_OBJECT.
Proof. exact (conj (zero_int_wf 2)
    (conj zero_TPMU_SYM_KEY_BITS_wf (conj zero_TPMU_SYM_MODE_wf I))). Qed.
Lemma Tss2_MU_TPMT_SYM_DEF_OBJECT_ok {H : Host} :
  codec_ok (ADDR Tss2_MU_TPMT_SYM_DEF_OBJECT_Marshal) Tss2_MU_TPMT_SYM_DEF_OBJECT_Unmarshal spec_TPMT_SYM_DEF_OBJECT.
Proof. unfold Tss2_MU_TPMT_SYM_DEF_OBJECT_Marshal, Tss2_MU_TPMT_SYM_DEF_OBJECT_Unmarshal. mu_struct. exact zero_TPMT_SYM_DEF_OBJECT_wf. Qed.
#[export] Hint Resolve Tss2_MU_TPMT_SYM_DEF_OBJECT_ok : mu.
#[export] Instance spec_TPMT_SYM_DEF_OBJECT_ok : SpecOk spec_TPMT_SYM_DEF_OBJECT.
Proof. exact (co_spec _ _ _ (Tss2_MU_TPMT_SYM_DEF_OBJECT_ok (H:=little_endian_host))). Qed.

#[export] Hint Resolve zero_TPMT_SYM_DEF_OBJECT_wf : mu.

Definition spec_TPMS_SYMCIPHER_PARMS := spec_on (mget TPMS_SYMCIPHER_PARMS'sym) spec_TPMT_SYM_DEF_OBJECT.
Lemma Tss2_MU_TPMS_SYMCIPHER_PARMS_ok {H : Host} :
  codec_ok (ADDR Tss2_MU_TPMS_SYMCIPHER_PARMS_Marshal) Tss2_MU_TPMS_SYMCIPHER_PARMS_Unmarshal spec_TPMS_SYMCIPHER_PARMS.
Proof. apply TPMS_1_codec_ok; [apply _|eauto 2 with mu]. Qed.
#[export] Hint Resolve Tss2_MU_TPMS_SYMCIPHER_PARMS_ok : mu.
#[export] Instance spec_TPMS_SYMCIPHER_PARMS_ok : SpecOk spec_TPMS_SYMCIPHER_PARMS.
Proof. exact (co_spec _ _ _ (Tss2_MU_TPMS_SYMCIPHER_PARMS_ok (H:=little_endian_host))). Qed.

Lemma zero_TPMS_SYMCIPHER_PARMS_wf : s_wf spec_TPMS_SYMCIPHER_PARMS zero_TPMS_SYMCIPHER_PARMS.
Proof. exact zero_TPMT_SYM_DEF_OBJECT_wf. Qed.

#[export] Hint Resolve zero_TPMS_SYMCIPHER_PARMS_wf : mu.

Definition spec_TPMS_SCHEME_ECDAA : spec TPMS_SCHEME_ECDAA :=
  (spec_on (mget TPMS_SCHEME_ECDAA'hashAlg) (spec_int UINT16) ⊗
    spec_on (mget TPMS_SCHEME_ECDAA'count) (spec_int UINT16) ⊗ spec_unit)%spec.
Lemma zero_TPMS_SCHEME_ECDAA_wf : s_wf spec_TPMS_SCHEME_ECDAA zero_TPMS_SCHEME_ECDAA.
Proof. exact (conj (zero_int_wf 2)
    (conj (zero_int_wf 2) I)). Qed.
Lemma Tss2_MU_TPMS_SCHEME_ECDAA_ok {H : Host} :
  codec_ok (ADDR Tss2_MU_TPMS_SCHEME_ECDAA_Marshal) Tss2_MU_TPMS_SCHEME_ECDAA_Unmarshal spec_TPMS_SCHEME_ECDAA.
Proof. unfold Tss2_MU_TPMS_SCHEME_ECDAA_Marshal, Tss2_MU_TPMS_SCHEME_ECDAA_Unmarshal. mu_struct. exact zero_TPMS_SCHEME_ECDAA_wf. Qed.
#[export] Hint Resolve Tss2_MU_TPMS_SCHEME_ECDAA_ok : mu.
#[export] Instance spec_TPMS_SCHEME_ECDAA_ok : SpecOk spec_TPMS_SCHEME_ECDAA.
Proof. exact (co_spec _ _ _ (Tss2_MU_TPMS_SCHEME_ECDAA_ok (H:=little_endian_host))). Qed.

#[export] Hint Resolve zero_TPMS_SCHEME_ECDAA_wf : mu.

Definition wf_TPMU_ASYM_SCHEME : TPMS_SCHEME_ECDAA -> Prop :=
  s_wf spec_TPMS_SCHEME_ECDAA.
Definition cases_TPMU_ASYM_SCHEME := [
    (TPM2_ALG_ECDH, spec_case wf_TPMU_ASYM_SCHEME hash_of_ecdaa spec_TPMS_SCHEME_HASH);
    (TPM2_ALG_ECMQV, spec_case wf_TPMU_ASYM_SCHEME hash_of_ecdaa spec_TPMS_SCHEME_HASH);
    (TPM2_ALG_RSASSA, spec_case wf_TPMU_ASYM_SCHEME hash_of_ecdaa spec_TPMS_SCHEME_HASH);
    (TPM2_ALG_RSAPSS, spec_case wf_TPMU_ASYM_SCHEME hash_of_ecdaa spec_TPMS_SCHEME_HASH);
    (TPM2_ALG_ECDSA, spec_case wf_TPMU_ASYM_SCHEME hash_of_ecdaa spec_TPMS_SCHEME_HASH);
    (TPM2_ALG_ECDAA, spec_case wf_TPMU_ASYM_SCHEME (whole zero_TPMS_SCHEME_ECDAA) spec_TPMS_SCHEME_ECDAA);
    (TPM2_ALG_SM2, spec_case wf_TPMU_ASYM_SCHEME hash_of_ecdaa spec_TPMS_SCHEME_HASH);
    (TPM2_ALG_ECSCHNORR, spec_case wf_TPMU_ASYM_SCHEME hash_of_ecdaa spec_TPMS_SCHEME_HASH);
    (TPM2_ALG_RSAES, spec_empty wf_TPMU_ASYM_SCHEME);
    (TPM2_ALG_OAEP, spec_case wf_TPMU_ASYM_SCHEME hash_of_ecdaa spec_TPMS_SCHEME_HASH);
    (TPM2_ALG_MLDSA, spec_case wf_TPMU_ASYM_SCHEME hash_of_ecdaa spec_TPMS_SCHEME_HASH)].
Definition spec_TPMU_ASYM_SCHEME := spec_union wf_TPMU_ASYM_SCHEME cases_TPMU_ASYM_SCHEME.
Definition max_TPMU_ASYM_SCHEME := cases_max cases_TPMU_ASYM_SCHEME.
Lemma zero_TPMU_ASYM_SCHEME_wf : wf_TPMU_ASYM_SCHEME zero_TPMS_SCHEME_ECDAA.
Proof. exact zero_TPMS_SCHEME_ECDAA_wf. Qed.
#[export] Hint Resolve zero_TPMU_ASYM_SCHEME_wf : mu.
Lemma hash_of_ecdaa_TPMU_ASYM_SCHEME_ok :
  umember_ok wf_TPMU_ASYM_SCHEME hash_of_ecdaa spec_TPMS_SCHEME_HASH.
Proof.
  split.
  - intros u v W E. injection E as <-. exact (proj1 W).
  - exact zero_TPMS_SCHEME_HASH_wf.
  - intros u v W Wv. exact (conj Wv (proj2 W)).
  - intros u [v] _ _. reflexivity.
Qed.
#[export] Hint Resolve hash_of_ecdaa_TPMU_ASYM_SCHEME_ok : mu.
Lemma Tss2_MU_TPMU_ASYM_SCHEME_ok {H : Host} :
  union_ok (ADDR Tss2_MU_TPMU_ASYM_SCHEME_Marshal) Tss2_MU_TPMU_ASYM_SCHEME_Unmarshal
    wf_TPMU_ASYM_SCHEME spec_TPMU_ASYM_SCHEME max_TPMU_ASYM_SCHEME.
Proof. mu_union. Qed.
#[export] Hint Resolve Tss2_MU_TPMU_ASYM_SCHEME_ok : mu.
#[export] Instance spec_TPMU_ASYM_SCHEME_ok z : SpecOk (spec_TPMU_ASYM_SCHEME z).
Proof. exact (union_ok_spec (Tss2_MU_TPMU_ASYM_SCHEME_ok (H:=little_endian_host)) z). Qed.
#[export] Instance sel_TPMU_ASYM_SCHEME_ok {T} (sel : T -> Z) get :
  SpecOk (spec_sel sel get wf_TPMU_ASYM_SCHEME spec_TPMU_ASYM_SCHEME max_TPMU_ASYM_SCHEME).
Proof. exact (union_ok_sel (Tss2_MU_TPMU_ASYM_SCHEME_ok (H:=little_endian_host)) sel get). Qed.

Definition spec_TPMT_RSA_SCHEME : spec TPMT_RSA_SCHEME :=
  (spec_on (mget TPMT_RSA_SCHEME'scheme) (spec_int UINT16) ⊗
    spec_sel (mget TPMT_RSA_SCHEME'scheme) (mget TPMT_RSA_SCHEME'details) wf_TPMU_ASYM_SCHEME spec_TPMU_ASYM_SCHEME max_TPMU_ASYM_SCHEME ⊗
    spec_unit)%spec.
Lemma zero_TPMT_RSA_SCHEME_wf : s_wf spec_TPMT_RSA_SCHEME zero_TPMT_RSA_SCHEME.
Proof. exact (conj (zero_int_wf 2)
    (conj zero_TPMU_ASYM_SCHEME_wf I)). Qed.
Lemma Tss2_MU_TPMT_RSA_SCHEME_ok {H : Host} :
  codec_ok (ADDR Tss2_MU_TPMT_RSA_SCHEME_Marshal) Tss2_MU_TPMT_RSA_SCHEME_Unmarshal spec_TPMT_RSA_SCHEME.
Proof. unfold Tss2_MU_TPMT_RSA_SCHEME_Marshal, Tss2_MU_TPMT_RSA_SCHEME_Unmarshal. mu_struct. exact zero_TPMT_RSA_SCHEME_wf. Qed.
#[export] Hint Resolve Tss2_MU_TPMT_RSA_SCHEME_ok : mu.
#[export] Instance spec_TPMT_RSA_SCHEME_ok : SpecOk spec_TPMT_RSA_SCHEME.
Proof. exact (co_spec _ _ _ (Tss2_MU_TPMT_RSA_SCHEME_ok (H:=little_endian_host))). Qed.

#[export] Hint Resolve zero_TPMT_RSA_SCHEME_wf : mu.

Definition spec_TPMS_RSA_PARMS : spec TPMS_RSA_PARMS :=
  (spec_on (mget TPMS_RSA_PARMS'symmetric) spec_TPMT_SYM_DEF_OBJECT ⊗
    spec_on (mget TPMS_RSA_PARMS'scheme) spec_TPMT_RSA_SCHEME ⊗
    spec_on (mget TPMS_RSA_PARMS'keyBits) (spec_int UINT16) ⊗
    spec_on (mget TPMS_RSA_PARMS'exponent) (spec_int UINT32) ⊗ spec_unit)%spec.
Lemma zero_TPMS_RSA_PARMS_wf : s_wf spec_TPMS_RSA_PARMS zero_TPMS_RSA_PARMS.
Proof. exact (conj zero_TPMT_SYM_DEF_OBJECT_wf
    (conj zero_TPMT_RSA_SCHEME_wf (conj (zero_int_wf 2) (conj (zero_int_wf 4) I)))). Qed.
Lemma Tss2_MU_TPMS_RSA_PARMS_ok {H : Host} :
  codec_ok (ADDR Tss2_MU_TPMS_RSA_PARMS_Marshal) Tss2_MU_TPMS_RSA_PARMS_Unmarshal spec_TPMS_RSA_PARMS.
Proof. unfold Tss2_MU_TPMS_RSA_PARMS_Marshal, Tss2_MU_TPMS_RSA_PARMS_Unmarshal. mu_struct. exact zero_TPMS_RSA_PARMS_wf. Qed.
#[export] Hint Resolve Tss2_MU_TPMS_RSA_PARMS_ok : mu.
#[export] Instance spec_TPMS_RSA_PARMS_ok : SpecOk spec_TPMS_RSA_PARMS.
Proof. exact (co_spec _ _ _ (Tss2_MU_TPMS_RSA_PARMS_ok (H:=little_endian_host))). Qed.

#[export] Hint Resolve zero_TPMS_RSA_PARMS_wf : mu.

Definition spec_TPMT_ECC_SCHEME : spec TPMT_ECC_SCHEME :=
  (spec_on (mget TPMT_ECC_SCHEME'scheme) (spec_int UINT16) ⊗
    spec_sel (mget TPMT_ECC_SCHEME'scheme) (mget TPMT_ECC_SCHEME'details) wf_TPMU_ASYM_SCHEME spec_TPMU_ASYM_SCHEME max_TPMU_ASYM_SCHEME ⊗
    spec_unit)%spec.
Lemma zero_TPMT_ECC_SCHEME_wf : s_wf spec_TPMT_ECC_SCHEME zero_TPMT_ECC_SCHEME.
Proof. exact (conj (zero_int_wf 2)
    (conj zero_TPMU_ASYM_SCHEME_wf I)). Qed.
Lemma Tss2_MU_TPMT_ECC_SCHEME_ok {H : Host} :
  codec_ok (ADDR Tss2_MU_TPMT_ECC_SCHEME_Marshal) Tss2_MU_TPMT_ECC_SCHEME_Unmarshal spec_TPMT_ECC_SCHEME.
Proof. unfold Tss2_MU_TPMT_ECC_SCHEME_Marshal, Tss2_MU_TPMT_ECC_SCHEME_Unmarshal. mu_struct. exact zero_TPMT_ECC_SCHEME_wf. Qed.
#[export] Hint Resolve Tss2_MU_TPMT_ECC_SCHEME_ok : mu.
#[export] Instance spec_TPMT_ECC_SCHEME_ok : SpecOk spec_TPMT_ECC_SCHEME.
Proof. exact (co_spec _ _ _ (Tss2_MU_TPMT_ECC_SCHEME_ok (H:=little_endian_host))). Qed.

#[export] Hint Resolve zero_TPMT_ECC_SCHEME_wf : mu.

Definition wf_TPMU_KDF_SCHEME : TPMS_SCHEME_HASH -> Prop :=
  s_wf spec_TPMS_SCHEME_HASH.
Definition cases_TPMU_KDF_SCHEME := [
    (TPM2_ALG_MGF1, spec_case wf_TPMU_KDF_SCHEME (whole zero_TPMS_SCHEME_HASH) spec_TPMS_SCHEME_HASH);
    (TPM2_ALG_KDF1_SP800_56A, spec_case wf_TPMU_KDF_SCHEME (whole zero_TPMS_SCHEME_HASH) spec_TPMS_SCHEME_HASH);
    (TPM2_ALG_KDF1_SP800_108, spec_case wf_TPMU_KDF_SCHEME (whole zero_TPMS_SCHEME_HASH) spec_TPMS_SCHEME_HASH);
    (TPM2_ALG_KDF2, spec_case wf_TPMU_KDF_SCHEME (whole zero_TPMS_SCHEME_HASH) spec_TPMS_SCHEME_HASH)].
Definition spec_TPMU_KDF_SCHEME := spec_union wf_TPMU_KDF_SCHEME cases_TPMU_KDF_SCHEME.
Definition max_TPMU_KDF_SCHEME := cases_max cases_TPMU_KDF_SCHEME.
Lemma zero_TPMU_KDF_SCHEME_wf : wf_TPMU_KDF_SCHEME zero_TPMS_SCHEME_HASH.
Proof. exact zero_TPMS_SCHEME_HASH_wf. Qed.
#[export] Hint Resolve zero_TPMU_KDF_SCHEME_wf : mu.
Lemma Tss2_MU_TPMU_KDF_SCHEME_ok {H : Host} :
  union_ok (ADDR Tss2_MU_TPMU_KDF_SCHEME_Marshal) Tss2_MU_TPMU_KDF_SCHEME_Unmarshal
    wf_TPMU_KDF_SCHEME spec_TPMU_KDF_SCHEME max_TPMU_KDF_SCHEME.
Proof. mu_union. Qed.
#[export] Hint Resolve Tss2_MU_TPMU_KDF_SCHEME_ok : mu.
#[export] Instance spec_TPMU_KDF_SCHEME_ok z : SpecOk (spec_TPMU_KDF_SCHEME z).
Proof. exact (union_ok_spec (Tss2_MU_TPMU_KDF_SCHEME_ok (H:=little_endian_host)) z). Qed.
#[export] Instance sel_TPMU_KDF_SCHEME_ok {T} (sel : T -> Z) get :
  SpecOk (spec_sel sel get wf_TPMU_KDF_SCHEME spec_TPMU_KDF_SCHEME max_TPMU_KDF_SCHEME).
Proof. exact (union_ok_sel (Tss2_MU_TPMU_KDF_SCHEME_ok (H:=little_endian_host)) sel get). Qed.

Definition spec_TPMT_KDF_SCHEME : spec TPMT_KDF_SCHEME :=
  (spec_on (mget TPMT_KDF_SCHEME'scheme) (spec_int UINT16) ⊗
    spec_sel (mget TPMT_KDF_SCHEME'scheme) (mget TPMT_KDF_SCHEME'details) wf_TPMU_KDF_SCHEME spec_TPMU_KDF_SCHEME max_TPMU_KDF_SCHEME ⊗
    spec_unit)%spec.
Lemma zero_TPMT_KDF_SCHEME_wf : s_wf spec_TPMT_KDF_SCHEME zero_TPMT_KDF_SCHEME.
Proof. exact (conj (zero_int_wf 2)
    (conj zero_TPMU_KDF_SCHEME_wf I)). Qed.
Lemma Tss2_MU_TPMT_KDF_SCHEME_ok {H : Host} :
  codec_ok (ADDR Tss2_MU_TPMT_KDF_SCHEME_Marshal) Tss2_MU_TPMT_KDF_SCHEME_Unmarshal spec_TPMT_KDF_SCHEME.
Proof. unfold Tss2_MU_TPMT_KDF_SCHEME_Marshal, Tss2_MU_TPMT_KDF_SCHEME_Unmarshal. mu_struct. exact zero_TPMT_KDF_SCHEME_wf. Qed.
#[export] Hint Resolve Tss2_MU_TPMT_KDF_SCHEME_ok : mu.
#[export] Instance spec_TPMT_KDF_SCHEME_ok : SpecOk spec_TPMT_KDF_SCHEME.
Proof. exact (co_spec _ _ _ (Tss2_MU_TPMT_KDF_SCHEME_ok (H:=little_endian_host))). Qed.

#[export] Hint Resolve zero_TPMT_KDF_SCHEME_wf : mu.

Definition spec_TPMS_ECC_PARMS : spec TPMS_ECC_PARMS :=
  (spec_on (mget TPMS_ECC_PARMS'symmetric) spec_TPMT_SYM_DEF_OBJECT ⊗
    spec_on (mget TPMS_ECC_PARMS'scheme) spec_TPMT_ECC_SCHEME ⊗
    spec_on (mget TPMS_ECC_PARMS'curveID) (spec_int UINT16) ⊗
    spec_on (mget TPMS_ECC_PARMS'kdf) spec_TPMT_KDF_SCHEME ⊗ spec_unit)%spec.
Lemma zero_TPMS_ECC_PARMS_wf : s_wf spec_TPMS_ECC_PARMS zero_TPMS_ECC_PARMS.
Proof. exact (conj zero_TPMT_SYM_DEF_OBJECT_wf
    (conj zero_TPMT_ECC_SCHEME_wf (conj (zero_int_wf 2) (conj zero_TPMT_KDF_SCHEME_wf I)))). Qed.
Lemma Tss2_MU_TPMS_ECC_PARMS_ok {H : Host} :
  codec_ok (ADDR Tss2_MU_TPMS_ECC_PARMS_Marshal) Tss2_MU_TPMS_ECC_PARMS_Unmarshal spec_TPMS_ECC_PARMS.
Proof. unfold Tss2_MU_TPMS_ECC_PARMS_Marshal, Tss2_MU_TPMS_ECC_PARMS_Unmarshal. mu_struct. exact zero_TPMS_ECC_PARMS_wf. Qed.
#[export] Hint Resolve Tss2_MU_TPMS_ECC_PARMS_ok : mu.
#[export] Instance spec_TPMS_ECC_PARMS_ok : SpecOk spec_TPMS_ECC_PARMS.
Proof. exact (co_spec _ _ _ (Tss2_MU_TPMS_ECC_PARMS_ok (H:=little_endian_host))). Qed.

#[export] Hint Resolve zero_TPMS_ECC_PARMS_wf : mu.

Definition spec_TPMS_ML_PARAMETER_SET := spec_on (mget TPMS_ML_PARAMETER_SET'identifier) (spec_int UINT32).
Lemma Tss2_MU_TPMS_ML_PARAMETER_SET_ok {H : Host} :
  codec_ok (ADDR Tss2_MU_TPMS_ML_PARAMETER_SET_Marshal) Tss2_MU_TPMS_ML_PARAMETER_SET_Unmarshal spec_TPMS_ML_PARAMETER_SET.
Proof. apply TPMS_1_codec_ok; [apply _|eauto 2 with mu]. Qed.
#[export] Hint Resolve Tss2_MU_TPMS_ML_PARAMETER_SET_ok : mu.
#[export] Instance spec_TPMS_ML_PARAMETER_SET_ok : SpecOk spec_TPMS_ML_PARAMETER_SET.
Proof. exact (co_spec _ _ _ (Tss2_MU_TPMS_ML_PARAMETER_SET_ok (H:=little_endian_host))). Qed.

Lemma zero_TPMS_ML_PARAMETER_SET_wf : s_wf spec_TPMS_ML_PARAMETER_SET zero_TPMS_ML_PARAMETER_SET.
Proof. exact (zero_int_wf 4). Qed.

#[export] Hint Resolve zero_TPMS_ML_PARAMETER_SET_wf : mu.

Definition spec_TPMS_MLKEM_PARMS : spec TPMS_MLKEM_PARMS :=
  (spec_on (mget TPMS_MLKEM_PARMS'nameAlg) (spec_int UINT16) ⊗
    spec_on (mget TPMS_MLKEM_PARMS'parameterSet) spec_TPMS_ML_PARAMETER_SET ⊗ spec_unit)%spec.
Lemma zero_TPMS_MLKEM_PARMS_wf : s_wf spec_TPMS_MLKEM_PARMS zero_TPMS_MLKEM_PARMS.
Proof. exact (conj (zero_int_wf 2)
    (conj zero_TPMS_ML_PARAMETER_SET_wf I)). Qed.
Lemma Tss2_MU_TPMS_MLKEM_PARMS_ok {H : Host} :
  codec_ok (ADDR Tss2_MU_TPMS_MLKEM_PARMS_Marshal) Tss2_MU_TPMS_MLKEM_PARMS_Unmarshal spec_TPMS_MLKEM_PARMS.
Proof. unfold Tss2_MU_TPMS_MLKEM_PARMS_Marshal, Tss2_MU_TPMS_MLKEM_PARMS_Unmarshal. mu_struct. exact zero_TPMS_MLKEM_PARMS_wf. Qed.
#[export] Hint Resolve Tss2_MU_TPMS_MLKEM_PARMS_ok : mu.
#[export] Instance spec_TPMS_MLKEM_PARMS_ok : SpecOk spec_TPMS_MLKEM_PARMS.
Proof. exact (co_spec _ _ _ (Tss2_MU_TPMS_MLKEM_PARMS_ok (H:=little_endian_host))). Qed.

#[export] Hint Resolve zero_TPMS_MLKEM_PARMS_wf : mu.

Definition spec_TPMS_MLDSA_PARMS : spec TPMS_MLDSA_PARMS :=
  (spec_on (mget TPMS_MLDSA_PARMS'nameAlg) (spec_int UINT16) ⊗
    spec_on (mget TPMS_MLDSA_PARMS'parameterSet) spec_TPMS_ML_PARAMETER_SET ⊗ spec_unit)%spec.
Lemma zero_TPMS_MLDSA_PARMS_wf : s_wf spec_TPMS_MLDSA_PARMS zero_TPMS_MLDSA_PARMS.
Proof. exact (conj (zero_int_wf 2)
    (conj zero_TPMS_ML_PARAMETER_SET_wf I)). Qed.
Lemma Tss2_MU_TPMS_MLDSA_PARMS_ok {H : Host} :
  codec_ok (ADDR Tss2_MU_TPMS_MLDSA_PARMS_Marshal) Tss2_MU_TPMS_MLDSA_PARMS_Unmarshal spec_TPMS_MLDSA_PARMS.
Proof. unfold Tss2_MU_TPMS_MLDSA_PARMS_Marshal, Tss2_MU_TPMS_MLDSA_PARMS_Unmarshal. mu_struct. exact zero_TPMS_MLDSA_PARMS_wf. Qed.
#[export] Hint Resolve Tss2_MU_TPMS_MLDSA_PARMS_ok : mu.
#[export] Instance spec_TPMS_MLDSA_PARMS_ok : SpecOk spec_TPMS_MLDSA_PARMS.
Proof. exact (co_spec _ _ _ (Tss2_MU_TPMS_MLDSA_PARMS_ok (H:=little_endian_host))). Qed.

#[export] Hint Resolve zero_TPMS_MLDSA_PARMS_wf : mu.

Definition wf_TPMU_PUBLIC_PARMS : TPMU_PUBLIC_PARMS -> Prop :=
  fun u => match u with
  | TPMU_PUBLIC_PARMS_of_TPMS_KEYEDHASH_PARMS v => s_wf spec_TPMS_KEYEDHASH_PARMS v
  | TPMU_PUBLIC_PARMS_of_TPMS_SYMCIPHER_PARMS v => s_wf spec_TPMS_SYMCIPHER_PARMS v
  | TPMU_PUBLIC_PARMS_of_TPMS_RSA_PARMS v => s_wf spec_TPMS_RSA_PARMS v
  | TPMU_PUBLIC_PARMS_of_TPMS_ECC_PARMS v => s_wf spec_TPMS_ECC_PARMS v
  | TPMU_PUBLIC_PARMS_of_TPMS_MLKEM_PARMS v => s_wf spec_TPMS_MLKEM_PARMS v
  | TPMU_PUBLIC_PARMS_of_TPMS_MLDSA_PARMS v => s_wf spec_TPMS_MLDSA_PARMS v
  end.
Definition cases_TPMU_PUBLIC_PARMS := [
    (TPM2_ALG_KEYEDHASH, spec_case wf_TPMU_PUBLIC_PARMS TPMU_PUBLIC_PARMS'TPMS_KEYEDHASH_PARMS spec_TPMS_KEYEDHASH_PARMS);
    (TPM2_ALG_SYMCIPHER, spec_case wf_TPMU_PUBLIC_PARMS TPMU_PUBLIC_PARMS'TPMS_SYMCIPHER_PARMS spec_TPMS_SYMCIPHER_PARMS);
    (TPM2_ALG_RSA, spec_case wf_TPMU_PUBLIC_PARMS TPMU_PUBLIC_PARMS'TPMS_RSA_PARMS spec_TPMS_RSA_PARMS);
    (TPM2_ALG_ECC, spec_case wf_TPMU_PUBLIC_PARMS TPMU_PUBLIC_PARMS'TPMS_ECC_PARMS spec_TPMS_ECC_PARMS);
    (TPM2_ALG_MLKEM, spec_case wf_TPMU_PUBLIC_PARMS TPMU_PUBLIC_PARMS'TPMS_MLKEM_PARMS spec_TPMS_MLKEM_PARMS);
    (TPM2_ALG_MLDSA, spec_case wf_TPMU_PUBLIC_PARMS TPMU_PUBLIC_PARMS'TPMS_MLDSA_PARMS spec_TPMS_MLDSA_PARMS)].
Definition spec_TPMU_PUBLIC_PARMS := spec_union wf_TPMU_PUBLIC_PARMS cases_TPMU_PUBLIC_PARMS.
Definition max_TPMU_PUBLIC_PARMS := cases_max cases_TPMU_PUBLIC_PARMS.
Lemma zero_TPMU_PUBLIC_PARMS_wf : wf_TPMU_PUBLIC_PARMS zero_TPMU_PUBLIC_PARMS.
Proof. exact zero_TPMS_KEYEDHASH_PARMS_wf. Qed.
#[export] Hint Resolve zero_TPMU_PUBLIC_PARMS_wf : mu.
Lemma Tss2_MU_TPMU_PUBLIC_PARMS_ok {H : Host} :
  union_ok (ADDR Tss2_MU_TPMU_PUBLIC_PARMS_Marshal) Tss2_MU_TPMU_PUBLIC_PARMS_Unmarshal
    wf_TPMU_PUBLIC_PARMS spec_TPMU_PUBLIC_PARMS max_TPMU_PUBLIC_PARMS.
Proof. mu_union. Qed.
#[export] Hint Resolve Tss2_MU_TPMU_PUBLIC_PARMS_ok : mu.
#[export] Instance spec_TPMU_PUBLIC_PARMS_ok z : SpecOk (spec_TPMU_PUBLIC_PARMS z).
Proof. exact (union_ok_spec (Tss2_MU_TPMU_PUBLIC_PARMS_ok (H:=little_endian_host)) z). Qed.
#[export] Instance sel_TPMU_PUBLIC_PARMS_ok {T} (sel : T -> Z) get :
  SpecOk (spec_sel sel get wf_TPMU_PUBLIC_PARMS spec_TPMU_PUBLIC_PARMS max_TPMU_PUBLIC_PARMS).
Proof. exact (union_ok_sel (Tss2_MU_TPMU_PUBLIC_PARMS_ok (H:=little_endian_host)) sel get). Qed.

Definition wf_TPMU_PUBLIC_ID : TPMU_PUBLIC_ID -> Prop :=
  fun u => match u with
  | TPMU_PUBLIC_ID_of_TPM2B_DIGEST v => s_wf spec_TPM2B_DIGEST v
  | TPMU_PUBLIC_ID_of_TPM2B_PUBLIC_KEY_RSA v => s_wf spec_TPM2B_PUBLIC_KEY_RSA v
  | TPMU_PUBLIC_ID_of_TPMS_ECC_POINT v => s_wf spec_TPMS_ECC_POINT v
  | TPMU_PUBLIC_ID_of_TPM2B_MLKEM_PUBLIC_KEY v => s_wf spec_TPM2B_MLKEM_PUBLIC_KEY v
  | TPMU_PUBLIC_ID_of_TPM2B_MLDSA_PUBLIC_KEY v => s_wf spec_TPM2B_MLDSA_PUBLIC_KEY v
  end.
Definition cases_TPMU_PUBLIC_ID := [
    (TPM2_ALG_KEYEDHASH, spec_case wf_TPMU_PUBLIC_ID TPMU_PUBLIC_ID'TPM2B_DIGEST spec_TPM2B_DIGEST);
    (TPM2_ALG_SYMCIPHER, spec_case wf_TPMU_PUBLIC_ID TPMU_PUBLIC_ID'TPM2B_DIGEST spec_TPM2B_DIGEST);
    (TPM2_ALG_RSA, spec_case wf_TPMU_PUBLIC_ID TPMU_PUBLIC_ID'TPM2B_PUBLIC_KEY_RSA spec_TPM2B_PUBLIC_KEY_RSA);
    (TPM2_ALG_ECC, spec_case wf_TPMU_PUBLIC_ID TPMU_PUBLIC_ID'TPMS_ECC_POINT spec_TPMS_ECC_POINT);
    (TPM2_ALG_MLKEM, spec_case wf_TPMU_PUBLIC_ID TPMU_PUBLIC_ID'TPM2B_MLKEM_PUBLIC_KEY spec_TPM2B_MLKEM_PUBLIC_KEY);
    (TPM2_ALG_MLDSA, spec_case wf_TPMU_PUBLIC_ID TPMU_PUBLIC_ID'TPM2B_MLDSA_PUBLIC_KEY spec_TPM2B_MLDSA_PUBLIC_KEY)].
Definition spec_TPMU_PUBLIC_ID := spec_union wf_TPMU_PUBLIC_ID cases_TPMU_PUBLIC_ID.
Definition max_TPMU_PUBLIC_ID := cases_max cases_TPMU_PUBLIC_ID.
Lemma zero_TPMU_PUBLIC_ID_wf : wf_TPMU_PUBLIC_ID zero_TPMU_PUBLIC_ID.
Proof. exact zero_TPM2B_DIGEST_wf. Qed.
#[export] Hint Resolve zero_TPMU_PUBLIC_ID_wf : mu.
Lemma Tss2_MU_TPMU_PUBLIC_ID_ok {H : Host} :
  union_ok (ADDR Tss2_MU_TPMU_PUBLIC_ID_Marshal) Tss2_MU_TPMU_PUBLIC_ID_Unmarshal
    wf_TPMU_PUBLIC_ID spec_TPMU_PUBLIC_ID max_TPMU_PUBLIC_ID.
Proof. mu_union. Qed.
#[export] Hint Resolve Tss2_MU_TPMU_PUBLIC_ID_ok : mu.
#[export] Instance spec_TPMU_PUBLIC_ID_ok z : SpecOk (spec_TPMU_PUBLIC_ID z).
Proof. exact (union_ok_spec (Tss2_MU_TPMU_PUBLIC_ID_ok (H:=little_endian_host)) z). Qed.
#[export] Instance sel_TPMU_PUBLIC_ID_ok {T} (sel : T -> Z) get :
  SpecOk (spec_sel sel get wf_TPMU_PUBLIC_ID spec_TPMU_PUBLIC_ID max_TPMU_PUBLIC_ID).
Proof. exact (union_ok_sel (Tss2_MU_TPMU_PUBLIC_ID_ok (H:=little_endian_host)) sel get). Qed.

Definition spec_TPMT_PUBLIC : spec TPMT_PUBLIC :=
  (spec_on (mget TPMT_PUBLIC'type) (spec_int UINT16) ⊗
    spec_on (mget TPMT_PUBLIC'nameAlg) (spec_int UINT16) ⊗
    spec_on (mget TPMT_PUBLIC'objectAttributes) (spec_int UINT32) ⊗
    spec_on (mget TPMT_PUBLIC'authPolicy) spec_TPM2B_DIGEST ⊗
    spec_sel (mget TPMT_PUBLIC'type) (mget TPMT_PUBLIC'parameters) wf_TPMU_PUBLIC_PARMS spec_TPMU_PUBLIC_PARMS max_TPMU_PUBLIC_PARMS ⊗
    spec_sel (mget TPMT_PUBLIC'type) (mget TPMT_PUBLIC'unique) wf_TPMU_PUBLIC_ID spec_TPMU_PUBLIC_ID max_TPMU_PUBLIC_ID ⊗
    spec_unit)%spec.
Lemma zero_TPMT_PUBLIC_wf : s_wf spec_TPMT_PUBLIC zero_TPMT_PUBLIC.
Proof. exact (conj (zero_int_wf 2)
    (conj (zero_int_wf 2) (conj (zero_int_wf 4) (conj zero_TPM2B_DIGEST_wf
    (conj zero_TPMU_PUBLIC_PARMS_wf (conj zero_TPMU_PUBLIC_ID_wf I)))))). Qed.
Lemma Tss2_MU_TPMT_PUBLIC_ok {H : Host} :
  codec_ok (ADDR Tss2_MU_TPMT_PUBLIC_Marshal) Tss2_MU_TPMT_PUBLIC_Unmarshal spec_TPMT_PUBLIC.
Proof. unfold Tss2_MU_TPMT_PUBLIC_Marshal, Tss2_MU_TPMT_PUBLIC_Unmarshal. mu_struct. exact zero_TPMT_PUBLIC_wf. Qed.
#[export] Hint Resolve Tss2_MU_TPMT_PUBLIC_ok : mu.
#[export] Instance spec_TPMT_PUBLIC_ok : SpecOk spec_TPMT_PUBLIC.
Proof. exact (co_spec _ _ _ (Tss2_MU_TPMT_PUBLIC_ok (H:=little_endian_host))). Qed.

#[export] Hint Resolve zero_TPMT_PUBLIC_wf : mu.

Definition spec_TPM2B_PUBLIC := spec_sub spec_TPMT_PUBLIC.
Lemma Tss2_MU_TPM2B_PUBLIC_ok {H : Host} :
  lax_codec_ok (ADDR Tss2_MU_TPM2B_PUBLIC_Marshal) Tss2_MU_TPM2B_PUBLIC_Unmarshal spec_TPM2B_PUBLIC.
Proof. apply tpm2b_sub_codec_ok; [eauto 2 with mu|cap_ok|cap_ok]. Qed.
#[export] Hint Resolve Tss2_MU_TPM2B_PUBLIC_ok : mu.

Definition spec_TPML_CC := spec_list cap_TPML_CC (spec_int UINT32).
Lemma Tss2_MU_TPML_CC_ok {H : Host} :
  codec_ok (ADDR Tss2_MU_TPML_CC_Marshal) Tss2_MU_TPML_CC_Unmarshal spec_TPML_CC.
Proof. apply tpml_codec_ok; [cap_ok|cap_ok|exact (zero_int_wf 4)|eauto 2 with mu]. Qed.
#[export] Hint Resolve Tss2_MU_TPML_CC_ok : mu.
#[export] Instance spec_TPML_CC_ok : SpecOk spec_TPML_CC.
Proof. exact (co_spec _ _ _ (Tss2_MU_TPML_CC_ok (H:=little_endian_host))). Qed.

Lemma zero_TPML_CC_wf : s_wf spec_TPML_CC (zero_tpml cap_TPML_CC 0).
Proof. apply zero_tpml_wf; [cap_ok|exact (zero_int_wf 4)]. Qed.
#[export] Hint Resolve zero_TPML_CC_wf : mu.

Definition spec_TPML_CCA := spec_list cap_TPML_CCA (spec_int UINT32).
Lemma Tss2_MU_TPML_CCA_ok {H : Host} :
  codec_ok (ADDR Tss2_MU_TPML_CCA_Marshal) Tss2_MU_TPML_CCA_Unmarshal spec_TPML_CCA.
Proof. apply tpml_codec_ok; [cap_ok|cap_ok|exact (zero_int_wf 4)|eauto 2 with mu]. Qed.
#[export] Hint Resolve Tss2_MU_TPML_CCA_ok : mu.
#[export] Instance spec_TPML_CCA_ok : SpecOk spec_TPML_CCA.
Proof. exact (co_spec _ _ _ (Tss2_MU_TPML_CCA_ok (H:=little_endian_host))). Qed.

Lemma zero_TPML_CCA_wf : s_wf spec_TPML_CCA (zero_tpml cap_TPML_CCA 0).
Proof. apply zero_tpml_wf; [cap_ok|exact (zero_int_wf 4)]. Qed.
#[export] Hint Resolve zero_TPML_CCA_wf : mu.

Definition spec_TPML_ALG := spec_list cap_TPML_ALG (spec_int UINT16).
Lemma Tss2_MU_TPML_ALG_ok {H : Host} :
  codec_ok (ADDR Tss2_MU_TPML_ALG_Marshal) Tss2_MU_TPML_ALG_Unmarshal spec_TPML_ALG.
Proof. apply tpml_codec_ok; [cap_ok|cap_ok|exact (zero_int_wf 2)|eauto 2 with mu]. Qed.
#[export] Hint Resolve Tss2_MU_TPML_ALG_ok : mu.
#[export] Instance spec_TPML_ALG_ok : SpecOk spec_TPML_ALG.
Proof. exact (co_spec _ _ _ (Tss2_MU_TPML_ALG_ok (H:=little_endian_host))). Qed.

Lemma zero_TPML_ALG_wf : s_wf spec_TPML_ALG (zero_tpml cap_TPML_ALG 0).
Proof. apply zero_tpml_wf; [cap_ok|exact (zero_int_wf 2)]. Qed.
#[export] Hint Resolve zero_TPML_ALG_wf : mu.

Definition spec_TPML_HANDLE := spec_list cap_TPML_HANDLE (spec_int UINT32).
Lemma Tss2_MU_TPML_HANDLE_ok {H : Host} :
  codec_ok (ADDR Tss2_MU_TPML_HANDLE_Marshal) Tss2_MU_TPML_HANDLE_Unmarshal spec_TPML_HANDLE.
Proof. apply tpml_codec_ok; [cap_ok|cap_ok|exact (zero_int_wf 4)|eauto 2 with mu]. Qed.
#[export] Hint Resolve Tss2_MU_TPML_HANDLE_ok : mu.
#[export] Instance spec_TPML_HANDLE_ok : SpecOk spec_TPML_HANDLE.
Proof. exact (co_spec _ _ _ (Tss2_MU_TPML_HANDLE_ok (H:=little_endian_host))). Qed.

Lemma zero_TPML_HANDLE_wf : s_wf spec_TPML_HANDLE (zero_tpml cap_TPML_HANDLE 0).
Proof. apply zero_tpml_wf; [cap_ok|exact (zero_int_wf 4)]. Qed.
#[export] Hint Resolve zero_TPML_HANDLE_wf : mu.

Definition spec_TPML_DIGEST := spec_list cap_TPML_DIGEST spec_TPM2B_DIGEST.
Lemma Tss2_MU_TPML_DIGEST_ok {H : Host} :
  codec_ok (ADDR Tss2_MU_TPML_DIGEST_Marshal) Tss2_MU_TPML_DIGEST_Unmarshal spec_TPML_DIGEST.
Proof. apply tpml_codec_ok; [cap_ok|cap_ok|exact zero_TPM2B_DIGEST_wf|eauto 2 with mu]. Qed.
#[export] Hint Resolve Tss2_MU_TPML_DIGEST_ok : mu.
#[export] Instance spec_TPML_DIGEST_ok : SpecOk spec_TPML_DIGEST.
Proof. exact (co_spec _ _ _ (Tss2_MU_TPML_DIGEST_ok (H:=little_endian_host))). Qed.

Lemma zero_TPML_DIGEST_wf : s_wf spec_TPML_DIGEST (zero_tpml cap_TPML_DIGEST (zero_2b cap_TPM2B_DIGEST)).
Proof. apply zero_tpml_wf; [cap_ok|exact zero_TPM2B_DIGEST_wf]. Qed.
#[export] Hint Resolve zero_TPML_DIGEST_wf : mu.

Definition spec_TPMS_ALG_PROPERTY : spec TPMS_ALG_PROPERTY :=
  (spec_on (mget TPMS_ALG_PROPERTY'alg) (spec_int UINT16) ⊗
    spec_on (mget TPMS_ALG_PROPERTY'algProperties) (spec_int UINT32) ⊗ spec_unit)%spec.
Lemma zero_TPMS_ALG_PROPERTY_wf : s_wf spec_TPMS_ALG_PROPERTY zero_TPMS_ALG_PROPERTY.
Proof. exact (conj (zero_int_wf 2)
    (conj (zero_int_wf 4) I)). Qed.
Lemma Tss2_MU_TPMS_ALG_PROPERTY_ok {H : Host} :
  codec_ok (ADDR Tss2_MU_TPMS_ALG_PROPERTY_Marshal) Tss2_MU_TPMS_ALG_PROPERTY_Unmarshal spec_TPMS_ALG_PROPERTY.
Proof. unfold Tss2_MU_TPMS_ALG_PROPERTY_Marshal, Tss2_MU_TPMS_ALG_PROPERTY_Unmarshal. mu_struct. exact zero_TPMS_ALG_PROPERTY_wf. Qed.
#[export] Hint Resolve Tss2_MU_TPMS_ALG_PROPERTY_ok : mu.
#[export] Instance spec_TPMS_ALG_PROPERTY_ok : SpecOk spec_TPMS_ALG_PROPERTY.
Proof. exact (co_spec _ _ _ (Tss2_MU_TPMS_ALG_PROPERTY_ok (H:=little_endian_host))). Qed.

#[export] Hint Resolve zero_TPMS_ALG_PROPERTY_wf : mu.

Definition spec_TPML_ALG_PROPERTY := spec_list cap_TPML_ALG_PROPERTY spec_TPMS_ALG_PROPERTY.
Lemma Tss2_MU_TPML_ALG_PROPERTY_ok {H : Host} :
  codec_ok (ADDR Tss2_MU_TPML_ALG_PROPERTY_Marshal) Tss2_MU_TPML_ALG_PROPERTY_Unmarshal spec_TPML_ALG_PROPERTY.
Proof. apply tpml_codec_ok; [cap_ok|cap_ok|exact zero_TPMS_ALG_PROPERTY_wf|eauto 2 with mu]. Qed.
#[export] Hint Resolve Tss2_MU_TPML_ALG_PROPERTY_ok : mu.
#[export] Instance spec_TPML_ALG_PROPERTY_ok : SpecOk spec_TPML_ALG_PROPERTY.
Proof. exact (co_spec _ _ _ (Tss2_MU_TPML_ALG_PROPERTY_ok (H:=little_endian_host))). Qed.

Lemma zero_TPML_ALG_PROPERTY_wf : s_wf spec_TPML_ALG_PROPERTY (zero_tpml cap_TPML_ALG_PROPERTY zero_TPMS_ALG_PROPERTY).
Proof. apply zero_tpml_wf; [cap_ok|exact zero_TPMS_ALG_PROPERTY_wf]. Qed.
#[export] Hint Resolve zero_TPML_ALG_PROPERTY_wf : mu.

Definition spec_TPML_ECC_CURVE := spec_list cap_TPML_ECC_CURVE (spec_int UINT16).
Lemma Tss2_MU_TPML_ECC_CURVE_ok {H : Host} :
  codec_ok (ADDR Tss2_MU_TPML_ECC_CURVE_Marshal) Tss2_MU_TPML_ECC_CURVE_Unmarshal spec_TPML_ECC_CURVE.
Proof. apply tpml_codec_ok; [cap_ok|cap_ok|exact (zero_int_wf 2)|eauto 2 with mu]. Qed.
#[export] Hint Resolve Tss2_MU_TPML_ECC_CURVE_ok : mu.
#[export] Instance spec_TPML_ECC_CURVE_ok : SpecOk spec_TPML_ECC_CURVE.
Proof. exact (co_spec _ _ _ (Tss2_MU_TPML_ECC_CURVE_ok (H:=little_endian_host))). Qed.

Lemma zero_TPML_ECC_CURVE_wf : s_wf spec_TPML_ECC_CURVE (zero_tpml cap_TPML_ECC_CURVE 0).
Proof. apply zero_tpml_wf; [cap_ok|exact (zero_int_wf 2)]. Qed.
#[export] Hint Resolve zero_TPML_ECC_CURVE_wf : mu.

Definition spec_TPMS_TAGGED_PROPERTY : spec TPMS_TAGGED_PROPERTY :=
  (spec_on (mget TPMS_TAGGED_PROPERTY'property) (spec_int UINT32) ⊗
    spec_on (mget TPMS_TAGGED_PROPERTY'value) (spec_int UINT32) ⊗ spec_unit)%spec.
Lemma zero_TPMS_TAGGED_PROPERTY_wf : s_wf spec_TPMS_TAGGED_PROPERTY zero_TPMS_TAGGED_PROPERTY.
Proof. exact (conj (zero_int_wf 4)
    (conj (zero_int_wf 4) I)). Qed.
Lemma Tss2_MU_TPMS_TAGGED_PROPERTY_ok {H : Host} :
  codec_ok (ADDR Tss2_MU_TPMS_TAGGED_PROPERTY_Marshal) Tss2_MU_TPMS_TAGGED_PROPERTY_Unmarshal spec_TPMS_TAGGED_PROPERTY.
Proof. unfold Tss2_MU_TPMS_TAGGED_PROPERTY_Marshal, Tss2_MU_TPMS_TAGGED_PROPERTY_Unmarshal. mu_struct. exact zero_TPMS_TAGGED_PROPERTY_wf. Qed.
#[export] Hint Resolve Tss2_MU_TPMS_TAGGED_PROPERTY_ok : mu.
#[export] Instance spec_TPMS_TAGGED_PROPERTY_ok : SpecOk spec_TPMS_TAGGED_PROPERTY.
Proof. exact (co_spec _ _ _ (Tss2_MU_TPMS_TAGGED_PROPERTY_ok (H:=little_endian_host))). Qed.

#[export] Hint Resolve zero_TPMS_TAGGED_PROPERTY_wf : mu.

Definition spec_TPML_TAGGED_TPM_PROPERTY := spec_list cap_TPML_TAGGED_TPM_PROPERTY spec_TPMS_TAGGED_PROPERTY.
Lemma Tss2_MU_TPML_TAGGED_TPM_PROPERTY_ok {H : Host} :
  codec_ok (ADDR Tss2_MU_TPML_TAGGED_TPM_PROPERTY_Marshal) Tss2_MU_TPML_TAGGED_TPM_PROPERTY_Unmarshal spec_TPML_TAGGED_TPM_PROPERTY.
Proof. apply tpml_codec_ok; [cap_ok|cap_ok|exact zero_TPMS_TAGGED_PROPERTY_wf|eauto 2 with mu]. Qed.
#[export] Hint Resolve Tss2_MU_TPML_TAGGED_TPM_PROPERTY_ok : mu.
#[export] Instance spec_TPML_TAGGED_TPM_PROPERTY_ok : SpecOk spec_TPML_TAGGED_TPM_PROPERTY.
Proof. exact (co_spec _ _ _ (Tss2_MU_TPML_TAGGED_TPM_PROPERTY_ok (H:=little_endian_host))). Qed.

Lemma zero_TPML_TAGGED_TPM_PROPERTY_wf : s_wf spec_TPML_TAGGED_TPM_PROPERTY (zero_tpml cap_TPML_TAGGED_TPM_PROPERTY zero_TPMS_TAGGED_PROPERTY).
Proof. apply zero_tpml_wf; [cap_ok|exact zero_TPMS_TAGGED_PROPERTY_wf]. Qed.
#[export] Hint Resolve zero_TPML_TAGGED_TPM_PROPERTY_wf : mu.

Definition spec_TPML_TAGGED_PCR_PROPERTY := spec_list cap_TPML_TAGGED_PCR_PROPERTY spec_TPMS_TAGGED_PCR_SELECT.
Lemma Tss2_MU_TPML_TAGGED_PCR_PROPERTY_ok {H : Host} :
  codec_ok (ADDR Tss2_MU_TPML_TAGGED_PCR_PROPERTY_Marshal) Tss2_MU_TPML_TAGGED_PCR_PROPERTY_Unmarshal spec_TPML_TAGGED_PCR_PROPERTY.
Proof. apply tpml_codec_ok; [cap_ok|cap_ok|exact zero_TPMS_TAGGED_PCR_SELECT_wf|eauto 2 with mu]. Qed.
#[export] Hint Resolve Tss2_MU_TPML_TAGGED_PCR_PROPERTY_ok : mu.
#[export] Instance spec_TPML_TAGGED_PCR_PROPERTY_ok : SpecOk spec_TPML_TAGGED_PCR_PROPERTY.
Proof. exact (co_spec _ _ _ (Tss2_MU_TPML_TAGGED_PCR_PROPERTY_ok (H:=little_endian_host))). Qed.

Lemma zero_TPML_TAGGED_PCR_PROPERTY_wf : s_wf spec_TPML_TAGGED_PCR_PROPERTY (zero_tpml cap_TPML_TAGGED_PCR_PROPERTY zero_TPMS_TAGGED_PCR_SELECT).
Proof. apply zero_tpml_wf; [cap_ok|exact zero_TPMS_TAGGED_PCR_SELECT_wf]. Qed.
#[export] Hint Resolve zero_TPML_TAGGED_PCR_PROPERTY_wf : mu.

Definition wf_TPMU_HA : bytes -> Prop :=
  s_wf (spec_tab (lsize lay_TPMU_HA) 0).
Definition cases_TPMU_HA := [
    (TPM2_ALG_SHA1, spec_case wf_TPMU_HA (whole zero_TPMU_HA) (spec_tab (lsize lay_TPMU_HA) TPM2_SHA1_DIGEST_SIZE));
    (TPM2_ALG_SHA256, spec_case wf_TPMU_HA (whole zero_TPMU_HA) (spec_tab (lsize lay_TPMU_HA) TPM2_SHA256_DIGEST_SIZE));
    (TPM2_ALG_SHA384, spec_case wf_TPMU_HA (whole zero_TPMU_HA) (spec_tab (lsize lay_TPMU_HA) TPM2_SHA384_DIGEST_SIZE));
    (TPM2_ALG_SHA512, spec_case wf_TPMU_HA (whole zero_TPMU_HA) (spec_tab (lsize lay_TPMU_HA) TPM2_SHA512_DIGEST_SIZE));
    (TPM2_ALG_SM3_256, spec_case wf_TPMU_HA (whole zero_TPMU_HA) (spec_tab (lsize lay_TPMU_HA) TPM2_SM3_256_DIGEST_SIZE))].
Definition spec_TPMU_HA := spec_union wf_TPMU_HA cases_TPMU_HA.
Definition max_TPMU_HA := cases_max cases_TPMU_HA.
Lemma zero_TPMU_HA_wf : wf_TPMU_HA zero_TPMU_HA.
Proof. apply zero_tab_wf; cap_ok. Qed.
#[export] Hint Resolve zero_TPMU_HA_wf : mu.
Lemma Tss2_MU_TPMU_HA_ok {H : Host} :
  union_ok (ADDR Tss2_MU_TPMU_HA_Marshal) Tss2_MU_TPMU_HA_Unmarshal
    wf_TPMU_HA spec_TPMU_HA max_TPMU_HA.
Proof. mu_union. Qed.
#[export] Hint Resolve Tss2_MU_TPMU_HA_ok : mu.
#[export] Instance spec_TPMU_HA_ok z : SpecOk (spec_TPMU_HA z).
Proof. exact (union_ok_spec (Tss2_MU_TPMU_HA_ok (H:=little_endian_host)) z). Qed.
#[export] Instance sel_TPMU_HA_ok {T} (sel : T -> Z) get :
  SpecOk (spec_sel sel get wf_TPMU_HA spec_TPMU_HA max_TPMU_HA).
Proof. exact (union_ok_sel (Tss2_MU_TPMU_HA_ok (H:=little_endian_host)) sel get). Qed.

Definition spec_TPMT_HA : spec TPMT_HA :=
  (spec_on (mget TPMT_HA'hashAlg) (spec_int UINT16) ⊗
    spec_sel (mget TPMT_HA'hashAlg) (mget TPMT_HA'digest) wf_TPMU_HA spec_TPMU_HA max_TPMU_HA ⊗
    spec_unit)%spec.
Lemma zero_TPMT_HA_wf : s_wf spec_TPMT_HA zero_TPMT_HA.
Proof. exact (conj (zero_int_wf 2)
    (conj zero_TPMU_HA_wf I)). Qed.
Lemma Tss2_MU_TPMT_HA_ok {H : Host} :
  codec_ok (ADDR Tss2_MU_TPMT_HA_Marshal) Tss2_MU_TPMT_HA_Unmarshal spec_TPMT_HA.
Proof. unfold Tss2_MU_TPMT_HA_Marshal, Tss2_MU_TPMT_HA_Unmarshal. mu_struct. exact zero_TPMT_HA_wf. Qed.
#[export] Hint Resolve Tss2_MU_TPMT_HA_ok : mu.
#[export] Instance spec_TPMT_HA_ok : SpecOk spec_TPMT_HA.
Proof. exact (co_spec _ _ _ (Tss2_MU_TPMT_HA_ok (H:=little_endian_host))). Qed.

#[export] Hint Resolve zero_TPMT_HA_wf : mu.

Definition spec_TPML_DIGEST_VALUES := spec_list cap_TPML_DIGEST_VALUES spec_TPMT_HA.
Lemma Tss2_MU_TPML_DIGEST_VALUES_ok {H : Host} :
  codec_ok (ADDR Tss2_MU_TPML_DIGEST_VALUES_Marshal) Tss2_MU_TPML_DIGEST_VALUES_Unmarshal spec_TPML_DIGEST_VALUES.
Proof. apply tpml_codec_ok; [cap_ok|cap_ok|exact zero_TPMT_HA_wf|eauto 2 with mu]. Qed.
#[export] Hint Resolve Tss2_MU_TPML_DIGEST_VALUES_ok : mu.
#[export] Instance spec_TPML_DIGEST_VALUES_ok : SpecOk spec_TPML_DIGEST_VALUES.
Proof. exact (co_spec _ _ _ (Tss2_MU_TPML_DIGEST_VALUES_ok (H:=little_endian_host))). Qed.

Lemma zero_TPML_DIGEST_VALUES_wf : s_wf spec_TPML_DIGEST_VALUES (zero_tpml cap_TPML_DIGEST_VALUES zero_TPMT_HA).
Proof. apply zero_tpml_wf; [cap_ok|exact zero_TPMT_HA_wf]. Qed.
#[export] Hint Resolve zero_TPML_DIGEST_VALUES_wf : mu.

Definition spec_TPML_INTEL_PTT_PROPERTY := spec_list cap_TPML_INTEL_PTT_PROPERTY (spec_int UINT32).
Lemma Tss2_MU_TPML_INTEL_PTT_PROPERTY_ok {H : Host} :
  codec_ok (ADDR Tss2_MU_TPML_INTEL_PTT_PROPERTY_Marshal) Tss2_MU_TPML_INTEL_PTT_PROPERTY_Unmarshal spec_TPML_INTEL_PTT_PROPERTY.
Proof. apply tpml_codec_ok; [cap_ok|cap_ok|exact (zero_int_wf 4)|eauto 2 with mu]. Qed.
#[export] Hint Resolve Tss2_MU_TPML_INTEL_PTT_PROPERTY_ok : mu.
#[export] Instance spec_TPML_INTEL_PTT_PROPERTY_ok : SpecOk spec_TPML_INTEL_PTT_PROPERTY.
Proof. exact (co_spec _ _ _ (Tss2_MU_TPML_INTEL_PTT_PROPERTY_ok (H:=little_endian_host))). Qed.

Lemma zero_TPML_INTEL_PTT_PROPERTY_wf : s_wf spec_TPML_INTEL_PTT_PROPERTY (zero_tpml cap_TPML_INTEL_PTT_PROPERTY 0).
Proof. apply zero_tpml_wf; [cap_ok|exact (zero_int_wf 4)]. Qed.
#[export] Hint Resolve zero_TPML_INTEL_PTT_PROPERTY_wf : mu.

Definition spec_TPMS_AC_OUTPUT : spec TPMS_AC_OUTPUT :=
  (spec_on (mget TPMS_AC_OUTPUT'tag) (spec_int UINT32) ⊗
    spec_on (mget TPMS_AC_OUTPUT'data) (spec_int UINT32) ⊗ spec_unit)%spec.
Lemma zero_TPMS_AC_OUTPUT_wf : s_wf spec_TPMS_AC_OUTPUT zero_TPMS_AC_OUTPUT.
Proof. exact (conj (zero_int_wf 4)
    (conj (zero_int_wf 4) I)). Qed.
Lemma Tss2_MU_TPMS_AC_OUTPUT_ok {H : Host} :
  codec_ok (ADDR Tss2_MU_TPMS_AC_OUTPUT_Marshal) Tss2_MU_TPMS_AC_OUTPUT_Unmarshal spec_TPMS_AC_OUTPUT.
Proof. unfold Tss2_MU_TPMS_AC_OUTPUT_Marshal, Tss2_MU_TPMS_AC_OUTPUT_Unmarshal. mu_struct. exact zero_TPMS_AC_OUTPUT_wf. Qed.
#[export] Hint Resolve Tss2_MU_TPMS_AC_OUTPUT_ok : mu.
#[export] Instance spec_TPMS_AC_OUTPUT_ok : SpecOk spec_TPMS_AC_OUTPUT.
Proof. exact (co_spec _ _ _ (Tss2_MU_TPMS_AC_OUTPUT_ok (H:=little_endian_host))). Qed.

#[export] Hint Resolve zero_TPMS_AC_OUTPUT_wf : mu.

Definition spec_TPML_AC_CAPABILITIES := spec_list cap_TPML_AC_CAPABILITIES spec_TPMS_AC_OUTPUT.
Lemma Tss2_MU_TPML_AC_CAPABILITIES_ok {H : Host} :
  codec_ok (ADDR Tss2_MU_TPML_AC_CAPABILITIES_Marshal) Tss2_MU_TPML_AC_CAPABILITIES_Unmarshal spec_TPML_AC_CAPABILITIES.
Proof. apply tpml_codec_ok; [cap_ok|cap_ok|exact zero_TPMS_AC_OUTPUT_wf|eauto 2 with mu]. Qed.
#[export] Hint Resolve Tss2_MU_TPML_AC_CAPABILITIES_ok : mu.
#[export] Instance spec_TPML_AC_CAPABILITIES_ok : SpecOk spec_TPML_AC_CAPABILITIES.
Proof. exact (co_spec _ _ _ (Tss2_MU_TPML_AC_CAPABILITIES_ok (H:=little_endian_host))). Qed.

Lemma zero_TPML_AC_CAPABILITIES_wf : s_wf spec_TPML_AC_CAPABILITIES (zero_tpml cap_TPML_AC_CAPABILITIES zero_TPMS_AC_OUTPUT).
Proof. apply zero_tpml_wf; [cap_ok|exact zero_TPMS_AC_OUTPUT_wf]. Qed.
#[export] Hint Resolve zero_TPML_AC_CAPABILITIES_wf : mu.

Definition spec_TPMS_TAGGED_POLICY : spec TPMS_TAGGED_POLICY :=
  (spec_on (mget TPMS_TAGGED_POLICY'handle) (spec_int UINT32) ⊗
    spec_on (mget TPMS_TAGGED_POLICY'policyHash) spec_TPMT_HA ⊗ spec_unit)%spec.
Lemma zero_TPMS_TAGGED_POLICY_wf : s_wf spec_TPMS_TAGGED_POLICY zero_TPMS_TAGGED_POLICY.
Proof. exact (conj (zero_int_wf 4)
    (conj zero_TPMT_HA_wf I)). Qed.
Lemma Tss2_MU_TPMS_TAGGED_POLICY_ok {H : Host} :
  codec_ok (ADDR Tss2_MU_TPMS_TAGGED_POLICY_Marshal) Tss2_MU_TPMS_TAGGED_POLICY_Unmarshal spec_TPMS_TAGGED_POLICY.
Proof. unfold Tss2_MU_TPMS_TAGGED_POLICY_Marshal, Tss2_MU_TPMS_TAGGED_POLICY_Unmarshal. mu_struct. exact zero_TPMS_TAGGED_POLICY_wf. Qed.
#[export] Hint Resolve Tss2_MU_TPMS_TAGGED_POLICY_ok : mu.
#[export] Instance spec_TPMS_TAGGED_POLICY_ok : SpecOk spec_TPMS_TAGGED_POLICY.
Proof. exact (co_spec _ _ _ (Tss2_MU_TPMS_TAGGED_POLICY_ok (H:=little_endian_host))). Qed.

#[export] Hint Resolve zero_TPMS_TAGGED_POLICY_wf : mu.

Definition spec_TPML_TAGGED_POLICY := spec_list cap_TPML_TAGGED_POLICY spec_TPMS_TAGGED_POLICY.
Lemma Tss2_MU_TPML_TAGGED_POLICY_ok {H : Host} :
  codec_ok (ADDR Tss2_MU_TPML_TAGGED_POLICY_Marshal) Tss2_MU_TPML_TAGGED_POLICY_Unmarshal spec_TPML_TAGGED_POLICY.
Proof. apply tpml_codec_ok; [cap_ok|cap_ok|exact zero_TPMS_TAGGED_POLICY_wf|eauto 2 with mu]. Qed.
#[export] Hint Resolve Tss2_MU_TPML_TAGGED_POLICY_ok : mu.
#[export] Instance spec_TPML_TAGGED_POLICY_ok : SpecOk spec_TPML_TAGGED_POLICY.
Proof. exact (co_spec _ _ _ (Tss2_MU_TPML_TAGGED_POLICY_ok (H:=little_endian_host))). Qed.

Lemma zero_TPML_TAGGED_POLICY_wf : s_wf spec_TPML_TAGGED_POLICY (zero_tpml cap_TPML_TAGGED_POLICY zero_TPMS_TAGGED_POLICY).
Proof. apply zero_tpml_wf; [cap_ok|exact zero_TPMS_TAGGED_POLICY_wf]. Qed.
#[export] Hint Resolve zero_TPML_TAGGED_POLICY_wf : mu.

Definition spec_TPMS_ACT_DATA : spec TPMS_ACT_DATA :=
  (spec_on (mget TPMS_ACT_DATA'handle) (spec_int UINT32) ⊗
    spec_on (mget TPMS_ACT_DATA'timeout) (spec_int UINT32) ⊗
    spec_on (mget TPMS_ACT_DATA'attributes) (spec_int UINT32) ⊗ spec_unit)%spec.
Lemma zero_TPMS_ACT_DATA_wf : s_wf spec_TPMS_ACT_DATA zero_TPMS_ACT_DATA.
Proof. exact (conj (zero_int_wf 4)
    (conj (zero_int_wf 4) (conj (zero_int_wf 4) I))). Qed.
Lemma Tss2_MU_TPMS_ACT_DATA_ok {H : Host} :
  codec_ok (ADDR Tss2_MU_TPMS_ACT_DATA_Marshal) Tss2_MU_TPMS_ACT_DATA_Unmarshal spec_TPMS_ACT_DATA.
Proof. unfold Tss2_MU_TPMS_ACT_DATA_Marshal, Tss2_MU_TPMS_ACT_DATA_Unmarshal. mu_struct. exact zero_TPMS_ACT_DATA_wf. Qed.
#[export] Hint Resolve Tss2_MU_TPMS_ACT_DATA_ok : mu.
#[export] Instance spec_TPMS_ACT_DATA_ok : SpecOk spec_TPMS_ACT_DATA.
Proof. exact (co_spec _ _ _ (Tss2_MU_TPMS_ACT_DATA_ok (H:=little_endian_host))). Qed.

#[export] Hint Resolve zero_TPMS_ACT_DATA_wf : mu.

Definition spec_TPML_ACT_DATA := spec_list cap_TPML_ACT_DATA spec_TPMS_ACT_DATA.
Lemma Tss2_MU_TPML_ACT_DATA_ok {H : Host} :
  codec_ok (ADDR Tss2_MU_TPML_ACT_DATA_Marshal) Tss2_MU_TPML_ACT_DATA_Unmarshal spec_TPML_ACT_DATA.
Proof. apply tpml_codec_ok; [cap_ok|cap_ok|exact zero_TPMS_ACT_DATA_wf|eauto 2 with mu]. Qed.
#[export] Hint Resolve Tss2_MU_TPML_ACT_DATA_ok : mu.
#[export] Instance spec_TPML_ACT_DATA_ok : SpecOk spec_TPML_ACT_DATA.
Proof. exact (co_spec _ _ _ (Tss2_MU_TPML_ACT_DATA_ok (H:=little_endian_host))). Qed.

Lemma zero_TPML_ACT_DATA_wf : s_wf spec_TPML_ACT_DATA (zero_tpml cap_TPML_ACT_DATA zero_TPMS_ACT_DATA).
Proof. apply zero_tpml_wf; [cap_ok|exact zero_TPMS_ACT_DATA_wf]. Qed.
#[export] Hint Resolve zero_TPML_ACT_DATA_wf : mu.

Definition spec_TPML_ML_PARAMETER_SET := spec_list cap_TPML_ML_PARAMETER_SET spec_TPMS_ML_PARAMETER_SET.
Lemma Tss2_MU_TPML_ML_PARAMETER_SET_ok {H : Host} :
  codec_ok (ADDR Tss2_MU_TPML_ML_PARAMETER_SET_Marshal) Tss2_MU_TPML_ML_PARAMETER_SET_Unmarshal spec_TPML_ML_PARAMETER_SET.
Proof. apply tpml_codec_ok; [cap_ok|cap_ok|exact zero_TPMS_ML_PARAMETER_SET_wf|eauto 2 with mu]. Qed.
#[export] Hint Resolve Tss2_MU_TPML_ML_PARAMETER_SET_ok : mu.
#[export] Instance spec_TPML_ML_PARAMETER_SET_ok : SpecOk spec_TPML_ML_PARAMETER_SET.
Proof. exact (co_spec _ _ _ (Tss2_MU_TPML_ML_PARAMETER_SET_ok (H:=little_endian_host))). Qed.

Lemma zero_TPML_ML_PARAMETER_SET_wf : s_wf spec_TPML_ML_PARAMETER_SET (zero_tpml cap_TPML_ML_PARAMETER_SET zero_TPMS_ML_PARAMETER_SET).
Proof. apply zero_tpml_wf; [cap_ok|exact zero_TPMS_ML_PARAMETER_SET_wf]. Qed.
#[export] Hint Resolve zero_TPML_ML_PARAMETER_SET_wf : mu.

Definition spec_TPMS_CLOCK_INFO : spec TPMS_CLOCK_INFO :=
  (spec_on (mget TPMS_CLOCK_INFO'clock) (spec_int UINT64) ⊗
    spec_on (mget TPMS_CLOCK_INFO'resetCount) (spec_int UINT32) ⊗
    spec_on (mget TPMS_CLOCK_INFO'restartCount) (spec_int UINT32) ⊗
    spec_on (mget TPMS_CLOCK_INFO'safe) (spec_int UINT8) ⊗ spec_unit)%spec.
Lemma zero_TPMS_CLOCK_INFO_wf : s_wf spec_TPMS_CLOCK_INFO zero_TPMS_CLOCK_INFO.
Proof. exact (conj (zero_int_wf 8)
    (conj (zero_int_wf 4) (conj (zero_int_wf 4) (conj (zero_int_wf 1) I)))). Qed.
Lemma Tss2_MU_TPMS_CLOCK_INFO_ok {H : Host} :
  codec_ok (ADDR Tss2_MU_TPMS_CLOCK_INFO_Marshal) Tss2_MU_TPMS_CLOCK_INFO_Unmarshal spec_TPMS_CLOCK_INFO.
Proof. unfold Tss2_MU_TPMS_CLOCK_INFO_Marshal, Tss2_MU_TPMS_CLOCK_INFO_Unmarshal. mu_struct. exact zero_TPMS_CLOCK_INFO_wf. Qed.
#[export] Hint Resolve Tss2_MU_TPMS_CLOCK_INFO_ok : mu.
#[export] Instance spec_TPMS_CLOCK_INFO_ok : SpecOk spec_TPMS_CLOCK_INFO.
Proof. exact (co_spec _ _ _ (Tss2_MU_TPMS_CLOCK_INFO_ok (H:=little_endian_host))). Qed.

#[export] Hint Resolve zero_TPMS_CLOCK_INFO_wf : mu.

Definition spec_TPMS_TIME_INFO : spec TPMS_TIME_INFO :=
  (spec_on (mget TPMS_TIME_INFO'time) (spec_int UINT64) ⊗
    spec_on (mget TPMS_TIME_INFO'clockInfo) spec_TPMS_CLOCK_INFO ⊗ spec_unit)%spec.
Lemma zero_TPMS_TIME_INFO_wf : s_wf spec_TPMS_TIME_INFO zero_TPMS_TIME_INFO.
Proof. exact (conj (zero_int_wf 8)
    (conj zero_TPMS_CLOCK_INFO_wf I)). Qed.
Lemma Tss2_MU_TPMS_TIME_INFO_ok {H : Host} :
  codec_ok (ADDR Tss2_MU_TPMS_TIME_INFO_Marshal) Tss2_MU_TPMS_TIME_INFO_Unmarshal spec_TPMS_TIME_INFO.
Proof. unfold Tss2_MU_TPMS_TIME_INFO_Marshal, Tss2_MU_TPMS_TIME_INFO_Unmarshal. mu_struct. exact zero_TPMS_TIME_INFO_wf. Qed.
#[export] Hint Resolve Tss2_MU_TPMS_TIME_INFO_ok : mu.
#[export] Instance spec_TPMS_TIME_INFO_ok : SpecOk spec_TPMS_TIME_INFO.
Proof. exact (co_spec _ _ _ (Tss2_MU_TPMS_TIME_INFO_ok (H:=little_endian_host))). Qed.

#[export] Hint Resolve zero_TPMS_TIME_INFO_wf : mu.

Definition spec_TPMS_TIME_ATTEST_INFO : spec TPMS_TIME_ATTEST_INFO :=
  (spec_on (mget TPMS_TIME_ATTEST_INFO'time) spec_TPMS_TIME_INFO ⊗
    spec_on (mget TPMS_TIME_ATTEST_INFO'firmwareVersion) (spec_int UINT64) ⊗ spec_unit)%spec.
Lemma zero_TPMS_TIME_ATTEST_INFO_wf : s_wf spec_TPMS_TIME_ATTEST_INFO zero_TPMS_TIME_ATTEST_INFO.
Proof. exact (conj zero_TPMS_TIME_INFO_wf
    (conj (zero_int_wf 8) I)). Qed.
Lemma Tss2_MU_TPMS_TIME_ATTEST_INFO_ok {H : Host} :
  codec_ok (ADDR Tss2_MU_TPMS_TIME_ATTEST_INFO_Marshal) Tss2_MU_TPMS_TIME_ATTEST_INFO_Unmarshal spec_TPMS_TIME_ATTEST_INFO.
Proof. unfold Tss2_MU_TPMS_TIME_ATTEST_INFO_Marshal, Tss2_MU_TPMS_TIME_ATTEST_INFO_Unmarshal. mu_struct. exact zero_TPMS_TIME_ATTEST_INFO_wf. Qed.
#[export] Hint Resolve Tss2_MU_TPMS_TIME_ATTEST_INFO_ok : mu.
#[export] Instance spec_TPMS_TIME_ATTEST_INFO_ok : SpecOk spec_TPMS_TIME_ATTEST_INFO.
Proof. exact (co_spec _ _ _ (Tss2_MU_TPMS_TIME_ATTEST_INFO_ok (H:=little_endian_host))). Qed.

#[export] Hint Resolve zero_TPMS_TIME_ATTEST_INFO_wf : mu.

Definition spec_TPMS_CERTIFY_INFO : spec TPMS_CERTIFY_INFO :=
  (spec_on (mget TPMS_CERTIFY_INFO'name) spec_TPM2B_NAME ⊗
    spec_on (mget TPMS_CERTIFY_INFO'qualifiedName) spec_TPM2B_NAME ⊗ spec_unit)%spec.
Lemma zero_TPMS_CERTIFY_INFO_wf : s_wf spec_TPMS_CERTIFY_INFO zero_TPMS_CERTIFY_INFO.
Proof. exact (conj zero_TPM2B_NAME_wf
    (conj zero_TPM2B_NAME_wf I)). Qed.
Lemma Tss2_MU_TPMS_CERTIFY_INFO_ok {H : Host} :
  codec_ok (ADDR Tss2_MU_TPMS_CERTIFY_INFO_Marshal) Tss2_MU_TPMS_CERTIFY_INFO_Unmarshal spec_TPMS_CERTIFY_INFO.
Proof. unfold Tss2_MU_TPMS_CERTIFY_INFO_Marshal, Tss2_MU_TPMS_CERTIFY_INFO_Unmarshal. mu_struct. exact zero_TPMS_CERTIFY_INFO_wf. Qed.
#[export] Hint Resolve Tss2_MU_TPMS_CERTIFY_INFO_ok : mu.
#[export] Instance spec_TPMS_CERTIFY_INFO_ok : SpecOk spec_TPMS_CERTIFY_INFO.
Proof. exact (co_spec _ _ _ (Tss2_MU_TPMS_CERTIFY_INFO_ok (H:=little_endian_host))). Qed.

#[export] Hint Resolve zero_TPMS_CERTIFY_INFO_wf : mu.

Definition spec_TPMS_COMMAND_AUDIT_INFO : spec TPMS_COMMAND_AUDIT_INFO :=
  (spec_on (mget TPMS_COMMAND_AUDIT_INFO'auditCounter) (spec_int UINT64) ⊗
    spec_on (mget TPMS_COMMAND_AUDIT_INFO'digestAlg) (spec_int UINT16) ⊗
    spec_on (mget TPMS_COMMAND_AUDIT_INFO'auditDigest) spec_TPM2B_DIGEST ⊗
    spec_on (mget TPMS_COMMAND_AUDIT_INFO'commandDigest) spec_TPM2B_DIGEST ⊗ spec_unit)%spec.
Lemma zero_TPMS_COMMAND_AUDIT_INFO_wf : s_wf spec_TPMS_COMMAND_AUDIT_INFO zero_TPMS_COMMAND_AUDIT_INFO.
Proof. exact (conj (zero_int_wf 8)
    (conj (zero_int_wf 2) (conj zero_TPM2B_DIGEST_wf (conj zero_TPM2B_DIGEST_wf I)))). Qed.
Lemma Tss2_MU_TPMS_COMMAND_AUDIT_INFO_ok {H : Host} :
  codec_ok (ADDR Tss2_MU_TPMS_COMMAND_AUDIT_INFO_Marshal) Tss2_MU_TPMS_COMMAND_AUDIT_INFO_Unmarshal spec_TPMS_COMMAND_AUDIT_INFO.
Proof. unfold Tss2_MU_TPMS_COMMAND_AUDIT_INFO_Marshal, Tss2_MU_TPMS_COMMAND_AUDIT_INFO_Unmarshal. mu_struct. exact zero_TPMS_COMMAND_AUDIT_INFO_wf. Qed.
#[export] Hint Resolve Tss2_MU_TPMS_COMMAND_AUDIT_INFO_ok : mu.
#[export] Instance spec_TPMS_COMMAND_AUDIT_INFO_ok : SpecOk spec_TPMS_COMMAND_AUDIT_INFO.
Proof. exact (co_spec _ _ _ (Tss2_MU_TPMS_COMMAND_AUDIT_INFO_ok (H:=little_endian_host))). Qed.

#[export] Hint Resolve zero_TPMS_COMMAND_AUDIT_INFO_wf : mu.

Definition spec_TPMS_SESSION_AUDIT_INFO : spec TPMS_SESSION_AUDIT_INFO :=
  (spec_on (mget TPMS_SESSION_AUDIT_INFO'exclusiveSession) (spec_int UINT8) ⊗
    spec_on (mget TPMS_SESSION_AUDIT_INFO'sessionDigest) spec_TPM2B_DIGEST ⊗ spec_unit)%spec.
Lemma zero_TPMS_SESSION_AUDIT_INFO_wf : s_wf spec_TPMS_SESSION_AUDIT_INFO zero_TPMS_SESSION_AUDIT_INFO.
Proof. exact (conj (zero_int_wf 1)
    (conj zero_TPM2B_DIGEST_wf I)). Qed.
Lemma Tss2_MU_TPMS_SESSION_AUDIT_INFO_ok {H : Host} :
  codec_ok (ADDR Tss2_MU_TPMS_SESSION_AUDIT_INFO_Marshal) Tss2_MU_TPMS_SESSION_AUDIT_INFO_Unmarshal spec_TPMS_SESSION_AUDIT_INFO.
Proof. unfold Tss2_MU_TPMS_SESSION_AUDIT_INFO_Marshal, Tss2_MU_TPMS_SESSION_AUDIT_INFO_Unmarshal. mu_struct. exact zero_TPMS_SESSION_AUDIT_INFO_wf. Qed.
#[export] Hint Resolve Tss2_MU_TPMS_SESSION_AUDIT_INFO_ok : mu.
#[export] Instance spec_TPMS_SESSION_AUDIT_INFO_ok : SpecOk spec_TPMS_SESSION_AUDIT_INFO.
Proof. exact (co_spec _ _ _ (Tss2_MU_TPMS_SESSION_AUDIT_INFO_ok (H:=little_endian_host))). Qed.

#[export] Hint Resolve zero_TPMS_SESSION_AUDIT_INFO_wf : mu.

Definition spec_TPMS_CREATION_INFO : spec TPMS_CREATION_INFO :=
  (spec_on (mget TPMS_CREATION_INFO'objectName) spec_TPM2B_NAME ⊗
    spec_on (mget TPMS_CREATION_INFO'creationHash) spec_TPM2B_DIGEST ⊗ spec_unit)%spec.
Lemma zero_TPMS_CREATION_INFO_wf : s_wf spec_TPMS_CREATION_INFO zero_TPMS_CREATION_INFO.
Proof. exact (conj zero_TPM2B_NAME_wf
    (conj zero_TPM2B_DIGEST_wf I)). Qed.
Lemma Tss2_MU_TPMS_CREATION_INFO_ok {H : Host} :
  codec_ok (ADDR Tss2_MU_TPMS_CREATION_INFO_Marshal) Tss2_MU_TPMS_CREATION_INFO_Unmarshal spec_TPMS_CREATION_INFO.
Proof. unfold Tss2_MU_TPMS_CREATION_INFO_Marshal, Tss2_MU_TPMS_CREATION_INFO_Unmarshal. mu_struct. exact zero_TPMS_CREATION_INFO_wf. Qed.
#[export] Hint Resolve Tss2_MU_TPMS_CREATION_INFO_ok : mu.
#[export] Instance spec_TPMS_CREATION_INFO_ok : SpecOk spec_TPMS_CREATION_INFO.
Proof. exact (co_spec _ _ _ (Tss2_MU_TPMS_CREATION_INFO_ok (H:=little_endian_host))). Qed.

#[export] Hint Resolve zero_TPMS_CREATION_INFO_wf : mu.

Definition spec_TPMS_NV_CERTIFY_INFO : spec TPMS_NV_CERTIFY_INFO :=
  (spec_on (mget TPMS_NV_CERTIFY_INFO'indexName) spec_TPM2B_NAME ⊗
    spec_on (mget TPMS_NV_CERTIFY_INFO'offset) (spec_int UINT16) ⊗
    spec_on (mget TPMS_NV_CERTIFY_INFO'nvContents) spec_TPM2B_MAX_NV_BUFFER ⊗ spec_unit)%spec.
Lemma zero_TPMS_NV_CERTIFY_INFO_wf : s_wf spec_TPMS_NV_CERTIFY_INFO zero_TPMS_NV_CERTIFY_INFO.
Proof. exact (conj zero_TPM2B_NAME_wf
    (conj (zero_int_wf 2) (conj zero_TPM2B_MAX_NV_BUFFER_wf I))). Qed.
Lemma Tss2_MU_TPMS_NV_CERTIFY_INFO_ok {H : Host} :
  codec_ok (ADDR Tss2_MU_TPMS_NV_CERTIFY_INFO_Marshal) Tss2_MU_TPMS_NV_CERTIFY_INFO_Unmarshal spec_TPMS_NV_CERTIFY_INFO.
Proof. unfold Tss2_MU_TPMS_NV_CERTIFY_INFO_Marshal, Tss2_MU_TPMS_NV_CERTIFY_INFO_Unmarshal. mu_struct. exact zero_TPMS_NV_CERTIFY_INFO_wf. Qed.
#[export] Hint Resolve Tss2_MU_TPMS_NV_CERTIFY_INFO_ok : mu.
#[export] Instance spec_TPMS_NV_CERTIFY_INFO_ok : SpecOk spec_TPMS_NV_CERTIFY_INFO.
Proof. exact (co_spec _ _ _ (Tss2_MU_TPMS_NV_CERTIFY_INFO_ok (H:=little_endian_host))). Qed.

#[export] Hint Resolve zero_TPMS_NV_CERTIFY_INFO_wf : mu.

Definition spec_TPMS_AUTH_COMMAND : spec TPMS_AUTH_COMMAND :=
  (spec_on (mget TPMS_AUTH_COMMAND'sessionHandle) (spec_int UINT32) ⊗
    spec_on (mget TPMS_AUTH_COMMAND'nonce) spec_TPM2B_DIGEST ⊗
    spec_on (mget TPMS_AUTH_COMMAND'sessionAttributes) (spec_int UINT8) ⊗
    spec_on (mget TPMS_AUTH_COMMAND'hmac) spec_TPM2B_DIGEST ⊗ spec_unit)%spec.
Lemma zero_TPMS_AUTH_COMMAND_wf : s_wf spec_TPMS_AUTH_COMMAND zero_TPMS_AUTH_COMMAND.
Proof. exact (conj (zero_int_wf 4)
    (conj zero_TPM2B_DIGEST_wf (conj (zero_int_wf 1) (conj zero_TPM2B_DIGEST_wf I)))). Qed.
Lemma Tss2_MU_TPMS_AUTH_COMMAND_ok {H : Host} :
  codec_ok (ADDR Tss2_MU_TPMS_AUTH_COMMAND_Marshal) Tss2_MU_TPMS_AUTH_COMMAND_Unmarshal spec_TPMS_AUTH_COMMAND.
Proof. unfold Tss2_MU_TPMS_AUTH_COMMAND_Marshal, Tss2_MU_TPMS_AUTH_COMMAND_Unmarshal. mu_struct. exact zero_TPMS_AUTH_COMMAND_wf. Qed.
#[export] Hint Resolve Tss2_MU_TPMS_AUTH_COMMAND_ok : mu.
#[export] Instance spec_TPMS_AUTH_COMMAND_ok : SpecOk spec_TPMS_AUTH_COMMAND.
Proof. exact (co_spec _ _ _ (Tss2_MU_TPMS_AUTH_COMMAND_ok (H:=little_endian_host))). Qed.

#[export] Hint Resolve zero_TPMS_AUTH_COMMAND_wf : mu.

Definition spec_TPMS_AUTH_RESPONSE : spec TPMS_AUTH_RESPONSE :=
  (spec_on (mget TPMS_AUTH_RESPONSE'nonce) spec_TPM2B_DIGEST ⊗
    spec_on (mget TPMS_AUTH_RESPONSE'sessionAttributes) (spec_int UINT8) ⊗
    spec_on (mget TPMS_AUTH_RESPONSE'hmac) spec_TPM2B_DIGEST ⊗ spec_unit)%spec.
Lemma zero_TPMS_AUTH_RESPONSE_wf : s_wf spec_TPMS_AUTH_RESPONSE zero_TPMS_AUTH_RESPONSE.
Proof. exact (conj zero_TPM2B_DIGEST_wf
    (conj (zero_int_wf 1) (conj zero_TPM2B_DIGEST_wf I))). Qed.
Lemma Tss2_MU_TPMS_AUTH_RESPONSE_ok {H : Host} :
  codec_ok (ADDR Tss2_MU_TPMS_AUTH_RESPONSE_Marshal) Tss2_MU_TPMS_AUTH_RESPONSE_Unmarshal spec_TPMS_AUTH_RESPONSE.
Proof. unfold Tss2_MU_TPMS_AUTH_RESPONSE_Marshal, Tss2_MU_TPMS_AUTH_RESPONSE_Unmarshal. mu_struct. exact zero_TPMS_AUTH_RESPONSE_wf. Qed.
#[export] Hint Resolve Tss2_MU_TPMS_AUTH_RESPONSE_ok : mu.
#[export] Instance spec_TPMS_AUTH_RESPONSE_ok : SpecOk spec_TPMS_AUTH_RESPONSE.
Proof. exact (co_spec _ _ _ (Tss2_MU_TPMS_AUTH_RESPONSE_ok (H:=little_endian_host))). Qed.

#[export] Hint Resolve zero_TPMS_AUTH_RESPONSE_wf : mu.

Definition spec_TPMS_SIGNATURE_RSA : spec TPMS_SIGNATURE_RSA :=
  (spec_on (mget TPMS_SIGNATURE_RSA'hash) (spec_int UINT16) ⊗
    spec_on (mget TPMS_SIGNATURE_RSA'sig) spec_TPM2B_PUBLIC_KEY_RSA ⊗ spec_unit)%spec.
Lemma zero_TPMS_SIGNATURE_RSA_wf : s_wf spec_TPMS_SIGNATURE_RSA zero_TPMS_SIGNATURE_RSA.
Proof. exact (conj (zero_int_wf 2)
    (conj zero_TPM2B_PUBLIC_KEY_RSA_wf I)). Qed.
Lemma Tss2_MU_TPMS_SIGNATURE_RSA_ok {H : Host} :
  codec_ok (ADDR Tss2_MU_TPMS_SIGNATURE_RSA_Marshal) Tss2_MU_TPMS_SIGNATURE_RSA_Unmarshal spec_TPMS_SIGNATURE_RSA.
Proof. unfold Tss2_MU_TPMS_SIGNATURE_RSA_Marshal, Tss2_MU_TPMS_SIGNATURE_RSA_Unmarshal. mu_struct. exact zero_TPMS_SIGNATURE_RSA_wf. Qed.
#[export] Hint Resolve Tss2_MU_TPMS_SIGNATURE_RSA_ok : mu.
#[export] Instance spec_TPMS_SIGNATURE_RSA_ok : SpecOk spec_TPMS_SIGNATURE_RSA.
Proof. exact (co_spec _ _ _ (Tss2_MU_TPMS_SIGNATURE_RSA_ok (H:=little_endian_host))). Qed.

#[export] Hint Resolve zero_TPMS_SIGNATURE_RSA_wf : mu.

Definition spec_TPMS_SIGNATURE_ECC : spec TPMS_SIGNATURE_ECC :=
  (spec_on (mget TPMS_SIGNATURE_ECC'hash) (spec_int UINT16) ⊗
    spec_on (mget TPMS_SIGNATURE_ECC'signatureR) spec_TPM2B_ECC_PARAMETER ⊗
    spec_on (mget TPMS_SIGNATURE_ECC'signatureS) spec_TPM2B_ECC_PARAMETER ⊗ spec_unit)%spec.
Lemma zero_TPMS_SIGNATURE_ECC_wf : s_wf spec_TPMS_SIGNATURE_ECC zero_TPMS_SIGNATURE_ECC.
Proof. exact (conj (zero_int_wf 2)
    (conj zero_TPM2B_ECC_PARAMETER_wf (conj zero_TPM2B_ECC_PARAMETER_wf I))). Qed.
Lemma Tss2_MU_TPMS_SIGNATURE_ECC_ok {H : Host} :
  codec_ok (ADDR Tss2_MU_TPMS_SIGNATURE_ECC_Marshal) Tss2_MU_TPMS_SIGNATURE_ECC_Unmarshal spec_TPMS_SIGNATURE_ECC.
Proof. unfold Tss2_MU_TPMS_SIGNATURE_ECC_Marshal, Tss2_MU_TPMS_SIGNATURE_ECC_Unmarshal. mu_struct. exact zero_TPMS_SIGNATURE_ECC_wf. Qed.
#[export] Hint Resolve Tss2_MU_TPMS_SIGNATURE_ECC_ok : mu.
#[export] Instance spec_TPMS_SIGNATURE_ECC_ok : SpecOk spec_TPMS_SIGNATURE_ECC.
Proof. exact (co_spec _ _ _ (Tss2_MU_TPMS_SIGNATURE_ECC_ok (H:=little_endian_host))). Qed.

#[export] Hint Resolve zero_TPMS_SIGNATURE_ECC_wf : mu.

Definition spec_TPMS_NV_PIN_COUNTER_PARAMETERS : spec TPMS_NV_PIN_COUNTER_PARAMETERS :=
  (spec_on (mget TPMS_NV_PIN_COUNTER_PARAMETERS'pinCount) (spec_int UINT32) ⊗
    spec_on (mget TPMS_NV_PIN_COUNTER_PARAMETERS'pinLimit) (spec_int UINT32) ⊗ spec_unit)%spec.
Lemma zero_TPMS_NV_PIN_COUNTER_PARAMETERS_wf : s_wf spec_TPMS_NV_PIN_COUNTER_PARAMETERS zero_TPMS_NV_PIN_COUNTER_PARAMETERS.
Proof. exact (conj (zero_int_wf 4)
    (conj (zero_int_wf 4) I)). Qed.
Lemma Tss2_MU_TPMS_NV_PIN_COUNTER_PARAMETERS_ok {H : Host} :
  codec_ok (ADDR Tss2_MU_TPMS_NV_PIN_COUNTER_PARAMETERS_Marshal) Tss2_MU_TPMS_NV_PIN_COUNTER_PARAMETERS_Unmarshal spec_TPMS_NV_PIN_COUNTER_PARAMETERS.
Proof. unfold Tss2_MU_TPMS_NV_PIN_COUNTER_PARAMETERS_Marshal, Tss2_MU_TPMS_NV_PIN_COUNTER_PARAMETERS_Unmarshal. mu_struct. exact zero_TPMS_NV_PIN_COUNTER_PARAMETERS_wf. Qed.
#[export] Hint Resolve Tss2_MU_TPMS_NV_PIN_COUNTER_PARAMETERS_ok : mu.
#[export] Instance spec_TPMS_NV_PIN_COUNTER_PARAMETERS_ok : SpecOk spec_TPMS_NV_PIN_COUNTER_PARAMETERS.
Proof. exact (co_spec _ _ _ (Tss2_MU_TPMS_NV_PIN_COUNTER_PARAMETERS_ok (H:=little_endian_host))). Qed.

#[export] Hint Resolve zero_TPMS_NV_PIN_COUNTER_PARAMETERS_wf : mu.

Definition spec_TPMS_CONTEXT_DATA : spec TPMS_CONTEXT_DATA :=
  (spec_on (mget TPMS_CONTEXT_DATA'integrity) spec_TPM2B_DIGEST ⊗
    spec_on (mget TPMS_CONTEXT_DATA'encrypted) spec_TPM2B_CONTEXT_SENSITIVE ⊗ spec_unit)%spec.
Lemma zero_TPMS_CONTEXT_DATA_wf : s_wf spec_TPMS_CONTEXT_DATA zero_TPMS_CONTEXT_DATA.
Proof. exact (conj zero_TPM2B_DIGEST_wf
    (conj zero_TPM2B_CONTEXT_SENSITIVE_wf I)). Qed.
Lemma Tss2_MU_TPMS_CONTEXT_DATA_ok {H : Host} :
  codec_ok (ADDR Tss2_MU_TPMS_CONTEXT_DATA_Marshal) Tss2_MU_TPMS_CONTEXT_DATA_Unmarshal spec_TPMS_CONTEXT_DATA.
Proof. unfold Tss2_MU_TPMS_CONTEXT_DATA_Marshal, Tss2_MU_TPMS_CONTEXT_DATA_Unmarshal. mu_struct. exact zero_TPMS_CONTEXT_DATA_wf. Qed.
#[export] Hint Resolve Tss2_MU_TPMS_CONTEXT_DATA_ok : mu.
#[export] Instance spec_TPMS_CONTEXT_DATA_ok : SpecOk spec_TPMS_CONTEXT_DATA.
Proof. exact (co_spec _ _ _ (Tss2_MU_TPMS_CONTEXT_DATA_ok (H:=little_endian_host))). Qed.

#[export] Hint Resolve zero_TPMS_CONTEXT_DATA_wf : mu.

Definition spec_TPMS_CONTEXT : spec TPMS_CONTEXT :=
  (spec_on (mget TPMS_CONTEXT'sequence) (spec_int UINT64) ⊗
    spec_on (mget TPMS_CONTEXT'savedHandle) (spec_int UINT32) ⊗
    spec_on (mget TPMS_CONTEXT'hierarchy) (spec_int UINT32) ⊗
    spec_on (mget TPMS_CONTEXT'contextBlob) spec_TPM2B_CONTEXT_DATA ⊗ spec_unit)%spec.
Lemma zero_TPMS_CONTEXT_wf : s_wf spec_TPMS_CONTEXT zero_TPMS_CONTEXT.
Proof. exact (conj (zero_int_wf 8)
    (conj (zero_int_wf 4) (conj (zero_int_wf 4) (conj zero_TPM2B_CONTEXT_DATA_wf I)))). Qed.
Lemma Tss2_MU_TPMS_CONTEXT_ok {H : Host} :
  codec_ok (ADDR Tss2_MU_TPMS_CONTEXT_Marshal) Tss2_MU_TPMS_CONTEXT_Unmarshal spec_TPMS_CONTEXT.
Proof. unfold Tss2_MU_TPMS_CONTEXT_Marshal, Tss2_MU_TPMS_CONTEXT_Unmarshal. mu_struct. exact zero_TPMS_CONTEXT_wf. Qed.
#[export] Hint Resolve Tss2_MU_TPMS_CONTEXT_ok : mu.
#[export] Instance spec_TPMS_CONTEXT_ok : SpecOk spec_TPMS_CONTEXT.
Proof. exact (co_spec _ _ _ (Tss2_MU_TPMS_CONTEXT_ok (H:=little_endian_host))). Qed.

#[export] Hint Resolve zero_TPMS_CONTEXT_wf : mu.

Definition spec_TPMS_QUOTE_INFO : spec TPMS_QUOTE_INFO :=
  (spec_on (mget TPMS_QUOTE_INFO'pcrSelect) spec_TPML_PCR_SELECTION ⊗
    spec_on (mget TPMS_QUOTE_INFO'pcrDigest) spec_TPM2B_DIGEST ⊗ spec_unit)%spec.
Lemma zero_TPMS_QUOTE_INFO_wf : s_wf spec_TPMS_QUOTE_INFO zero_TPMS_QUOTE_INFO.
Proof. exact (conj zero_TPML_PCR_SELECTION_wf
    (conj zero_TPM2B_DIGEST_wf I)). Qed.
Lemma Tss2_MU_TPMS_QUOTE_INFO_ok {H : Host} :
  codec_ok (ADDR Tss2_MU_TPMS_QUOTE_INFO_Marshal) Tss2_MU_TPMS_QUOTE_INFO_Unmarshal spec_TPMS_QUOTE_INFO.
Proof. unfold Tss2_MU_TPMS_QUOTE_INFO_Marshal, Tss2_MU_TPMS_QUOTE_INFO_Unmarshal. mu_struct. exact zero_TPMS_QUOTE_INFO_wf. Qed.
#[export] Hint Resolve Tss2_MU_TPMS_QUOTE_INFO_ok : mu.
#[export] Instance spec_TPMS_QUOTE_INFO_ok : SpecOk spec_TPMS_QUOTE_INFO.
Proof. exact (co_spec _ _ _ (Tss2_MU_TPMS_QUOTE_INFO_ok (H:=little_endian_host))). Qed.

#[export] Hint Resolve zero_TPMS_QUOTE_INFO_wf : mu.

Definition spec_TPMS_SIGNATURE_MLDSA : spec TPMS_SIGNATURE_MLDSA :=
  (spec_on (mget TPMS_SIGNATURE_MLDSA'hash) (spec_int UINT16) ⊗
    spec_on (mget TPMS_SIGNATURE_MLDSA'sig) spec_TPM2B_MLDSA_SIGNATURE ⊗ spec_unit)%spec.
Lemma zero_TPMS_SIGNATURE_MLDSA_wf : s_wf spec_TPMS_SIGNATURE_MLDSA zero_TPMS_SIGNATURE_MLDSA.
Proof. exact (conj (zero_int_wf 2)
    (conj zero_TPM2B_MLDSA_SIGNATURE_wf I)). Qed.
Lemma Tss2_MU_TPMS_SIGNATURE_MLDSA_ok {H : Host} :
  codec_ok (ADDR Tss2_MU_TPMS_SIGNATURE_MLDSA_Marshal) Tss2_MU_TPMS_SIGNATURE_MLDSA_Unmarshal spec_TPMS_SIGNATURE_MLDSA.
Proof. unfold Tss2_MU_TPMS_SIGNATURE_MLDSA_Marshal, Tss2_MU_TPMS_SIGNATURE_MLDSA_Unmarshal. mu_struct. exact zero_TPMS_SIGNATURE_MLDSA_wf. Qed.
#[export] Hint Resolve Tss2_MU_TPMS_SIGNATURE_MLDSA_ok : mu.
#[export] Instance spec_TPMS_SIGNATURE_MLDSA_ok : SpecOk spec_TPMS_SIGNATURE_MLDSA.
Proof. exact (co_spec _ _ _ (Tss2_MU_TPMS_SIGNATURE_MLDSA_ok (H:=little_endian_host))). Qed.

#[export] Hint Resolve zero_TPMS_SIGNATURE_MLDSA_wf : mu.

Definition wf_TPMU_ATTEST : TPMU_ATTEST -> Prop :=
  fun u => match u with
  | TPMU_ATTEST_of_TPMS_CERTIFY_INFO v => s_wf spec_TPMS_CERTIFY_INFO v
  | TPMU_ATTEST_of_TPMS_CREATION_INFO v => s_wf spec_TPMS_CREATION_INFO v
  | TPMU_ATTEST_of_TPMS_QUOTE_INFO v => s_wf spec_TPMS_QUOTE_INFO v
  | TPMU_ATTEST_of_TPMS_COMMAND_AUDIT_INFO v => s_wf spec_TPMS_COMMAND_AUDIT_INFO v
  | TPMU_ATTEST_of_TPMS_SESSION_AUDIT_INFO v => s_wf spec_TPMS_SESSION_AUDIT_INFO v
  | TPMU_ATTEST_of_TPMS_TIME_ATTEST_INFO v => s_wf spec_TPMS_TIME_ATTEST_INFO v
  | TPMU_ATTEST_of_TPMS_NV_CERTIFY_INFO v => s_wf spec_TPMS_NV_CERTIFY_INFO v
  end.
Definition cases_TPMU_ATTEST := [
    (TPM2_ST_ATTEST_CERTIFY, spec_case wf_TPMU_ATTEST TPMU_ATTEST'TPMS_CERTIFY_INFO spec_TPMS_CERTIFY_INFO);
    (TPM2_ST_ATTEST_CREATION, spec_case wf_TPMU_ATTEST TPMU_ATTEST'TPMS_CREATION_INFO spec_TPMS_CREATION_INFO);
    (TPM2_ST_ATTEST_QUOTE, spec_case wf_TPMU_ATTEST TPMU_ATTEST'TPMS_QUOTE_INFO spec_TPMS_QUOTE_INFO);
    (TPM2_ST_ATTEST_COMMAND_AUDIT, spec_case wf_TPMU_ATTEST TPMU_ATTEST'TPMS_COMMAND_AUDIT_INFO spec_TPMS_COMMAND_AUDIT_INFO);
    (TPM2_ST_ATTEST_SESSION_AUDIT, spec_case wf_TPMU_ATTEST TPMU_ATTEST'TPMS_SESSION_AUDIT_INFO spec_TPMS_SESSION_AUDIT_INFO);
    (TPM2_ST_ATTEST_TIME, spec_case wf_TPMU_ATTEST TPMU_ATTEST'TPMS_TIME_ATTEST_INFO spec_TPMS_TIME_ATTEST_INFO);
    (TPM2_ST_ATTEST_NV, spec_case wf_TPMU_ATTEST TPMU_ATTEST'TPMS_NV_CERTIFY_INFO spec_TPMS_NV_CERTIFY_INFO)].
Definition spec_TPMU_ATTEST := spec_union wf_TPMU_ATTEST cases_TPMU_ATTEST.
Definition max_TPMU_ATTEST := cases_max cases_TPMU_ATTEST.
Lemma zero_TPMU_ATTEST_wf : wf_TPMU_ATTEST zero_TPMU_ATTEST.
Proof. exact zero_TPMS_CERTIFY_INFO_wf. Qed.
#[export] Hint Resolve zero_TPMU_ATTEST_wf : mu.
Lemma Tss2_MU_TPMU_ATTEST_ok {H : Host} :
  union_ok (ADDR Tss2_MU_TPMU_ATTEST_Marshal) Tss2_MU_TPMU_ATTEST_Unmarshal
    wf_TPMU_ATTEST spec_TPMU_ATTEST max_TPMU_ATTEST.
Proof. mu_union. Qed.
#[export] Hint Resolve Tss2_MU_TPMU_ATTEST_ok : mu.
#[export] Instance spec_TPMU_ATTEST_ok z : SpecOk (spec_TPMU_ATTEST z).
Proof. exact (union_ok_spec (Tss2_MU_TPMU_ATTEST_ok (H:=little_endian_host)) z). Qed.
#[export] Instance sel_TPMU_ATTEST_ok {T} (sel : T -> Z) get :
  SpecOk (spec_sel sel get wf_TPMU_ATTEST spec_TPMU_ATTEST max_TPMU_ATTEST).
Proof. exact (union_ok_sel (Tss2_MU_TPMU_ATTEST_ok (H:=little_endian_host)) sel get). Qed.

Definition spec_TPMS_ATTEST : spec TPMS_ATTEST :=
  (spec_on (mget TPMS_ATTEST'magic) spec_generated ⊗
    spec_on (mget TPMS_ATTEST'type) (spec_int UINT16) ⊗
    spec_on (mget TPMS_ATTEST'qualifiedSigner) spec_TPM2B_NAME ⊗
    spec_on (mget TPMS_ATTEST'extraData) spec_TPM2B_DATA ⊗
    spec_on (mget TPMS_ATTEST'clockInfo) spec_TPMS_CLOCK_INFO ⊗
    spec_on (mget TPMS_ATTEST'firmwareVersion) (spec_int UINT64) ⊗
    spec_sel (mget TPMS_ATTEST'type) (mget TPMS_ATTEST'attested) wf_TPMU_ATTEST spec_TPMU_ATTEST max_TPMU_ATTEST ⊗
    spec_unit)%spec.
Lemma zero_TPMS_ATTEST_wf : s_wf spec_TPMS_ATTEST zero_TPMS_ATTEST.
Proof. exact (conj (zero_int_wf 4)
    (conj (zero_int_wf 2) (conj zero_TPM2B_NAME_wf (conj zero_TPM2B_DATA_wf
    (conj zero_TPMS_CLOCK_INFO_wf (conj (zero_int_wf 8) (conj zero_TPMU_ATTEST_wf I))))))). Qed.
Lemma Tss2_MU_TPMS_ATTEST_ok {H : Host} :
  codec_ok (ADDR Tss2_MU_TPMS_ATTEST_Marshal) Tss2_MU_TPMS_ATTEST_Unmarshal spec_TPMS_ATTEST.
Proof. unfold Tss2_MU_TPMS_ATTEST_Marshal, Tss2_MU_TPMS_ATTEST_Unmarshal. mu_struct. exact zero_TPMS_ATTEST_wf. Qed.
#[export] Hint Resolve Tss2_MU_TPMS_ATTEST_ok : mu.
#[export] Instance spec_TPMS_ATTEST_ok : SpecOk spec_TPMS_ATTEST.
Proof. exact (co_spec _ _ _ (Tss2_MU_TPMS_ATTEST_ok (H:=little_endian_host))). Qed.

#[export] Hint Resolve zero_TPMS_ATTEST_wf : mu.

Definition spec_TPMS_ALGORITHM_DETAIL_ECC : spec TPMS_ALGORITHM_DETAIL_ECC :=
  (spec_on (mget TPMS_ALGORITHM_DETAIL_ECC'curveID) (spec_int UINT16) ⊗
    spec_on (mget TPMS_ALGORITHM_DETAIL_ECC'keySize) (spec_int UINT16) ⊗
    spec_on (mget TPMS_ALGORITHM_DETAIL_ECC'kdf) spec_TPMT_KDF_SCHEME ⊗
    spec_on (mget TPMS_ALGORITHM_DETAIL_ECC'sign) spec_TPMT_ECC_SCHEME ⊗
    spec_on (mget TPMS_ALGORITHM_DETAIL_ECC'p) spec_TPM2B_ECC_PARAMETER ⊗
    spec_on (mget TPMS_ALGORITHM_DETAIL_ECC'a) spec_TPM2B_ECC_PARAMETER ⊗
    spec_on (mget TPMS_ALGORITHM_DETAIL_ECC'b) spec_TPM2B_ECC_PARAMETER ⊗
    spec_on (mget TPMS_ALGORITHM_DETAIL_ECC'gX) spec_TPM2B_ECC_PARAMETER ⊗
    spec_on (mget TPMS_ALGORITHM_DETAIL_ECC'gY) spec_TPM2B_ECC_PARAMETER ⊗
    spec_on (mget TPMS_ALGORITHM_DETAIL_ECC'n) spec_TPM2B_ECC_PARAMETER ⊗
    spec_on (mget TPMS_ALGORITHM_DETAIL_ECC'h) spec_TPM2B_ECC_PARAMETER ⊗ spec_unit)%spec.
Lemma zero_TPMS_ALGORITHM_DETAIL_ECC_wf : s_wf spec_TPMS_ALGORITHM_DETAIL_ECC zero_TPMS_ALGORITHM_DETAIL_ECC.
Proof. exact (conj (zero_int_wf 2)
    (conj (zero_int_wf 2) (conj zero_TPMT_KDF_SCHEME_wf (conj zero_TPMT_ECC_SCHEME_wf
    (conj zero_TPM2B_ECC_PARAMETER_wf (conj zero_TPM2B_ECC_PARAMETER_wf
    (conj zero_TPM2B_ECC_PARAMETER_wf (conj zero_TPM2B_ECC_PARAMETER_wf
    (conj zero_TPM2B_ECC_PARAMETER_wf (conj zero_TPM2B_ECC_PARAMETER_wf
    (conj zero_TPM2B_ECC_PARAMETER_wf I))))))))))). Qed.
Lemma Tss2_MU_TPMS_ALGORITHM_DETAIL_ECC_ok {H : Host} :
  codec_ok (ADDR Tss2_MU_TPMS_ALGORITHM_DETAIL_ECC_Marshal) Tss2_MU_TPMS_ALGORITHM_DETAIL_ECC_Unmarshal spec_TPMS_ALGORITHM_DETAIL_ECC.
Proof. unfold Tss2_MU_TPMS_ALGORITHM_DETAIL_ECC_Marshal, Tss2_MU_TPMS_ALGORITHM_DETAIL_ECC_Unmarshal. mu_struct. exact zero_TPMS_ALGORITHM_DETAIL_ECC_wf. Qed.
#[export] Hint Resolve Tss2_MU_TPMS_ALGORITHM_DETAIL_ECC_ok : mu.
#[export] Instance spec_TPMS_ALGORITHM_DETAIL_ECC_ok : SpecOk spec_TPMS_ALGORITHM_DETAIL_ECC.
Proof. exact (co_spec _ _ _ (Tss2_MU_TPMS_ALGORITHM_DETAIL_ECC_ok (H:=little_endian_host))). Qed.

#[export] Hint Resolve zero_TPMS_ALGORITHM_DETAIL_ECC_wf : mu.

Definition wf_TPMU_CAPABILITIES : TPMU_CAPABILITIES -> Prop :=
  fun u => match u with
  | TPMU_CAPABILITIES_of_TPML_ALG_PROPERTY v => s_wf spec_TPML_ALG_PROPERTY v
  | TPMU_CAPABILITIES_of_TPML_HANDLE v => s_wf spec_TPML_HANDLE v
  | TPMU_CAPABILITIES_of_TPML_CCA v => s_wf spec_TPML_CCA v
  | TPMU_CAPABILITIES_of_TPML_CC v => s_wf spec_TPML_CC v
  | TPMU_CAPABILITIES_of_TPML_PCR_SELECTION v => s_wf spec_TPML_PCR_SELECTION v
  | TPMU_CAPABILITIES_of_TPML_TAGGED_TPM_PROPERTY v => s_wf spec_TPML_TAGGED_TPM_PROPERTY v
  | TPMU_CAPABILITIES_of_TPML_TAGGED_PCR_PROPERTY v => s_wf spec_TPML_TAGGED_PCR_PROPERTY v
  | TPMU_CAPABILITIES_of_TPML_ECC_CURVE v => s_wf spec_TPML_ECC_CURVE v
  | TPMU_CAPABILITIES_of_TPML_TAGGED_POLICY v => s_wf spec_TPML_TAGGED_POLICY v
  | TPMU_CAPABILITIES_of_TPML_ACT_DATA v => s_wf spec_TPML_ACT_DATA v
  | TPMU_CAPABILITIES_of_TPM2B_MAX_CAP_BUFFER v => s_wf spec_TPM2B_MAX_CAP_BUFFER v
  end.
Definition cases_TPMU_CAPABILITIES := [
    (TPM2_CAP_ALGS, spec_case wf_TPMU_CAPABILITIES TPMU_CAPABILITIES'TPML_ALG_PROPERTY spec_TPML_ALG_PROPERTY);
    (TPM2_CAP_HANDLES, spec_case wf_TPMU_CAPABILITIES TPMU_CAPABILITIES'TPML_HANDLE spec_TPML_HANDLE);
    (TPM2_CAP_COMMANDS, spec_case wf_TPMU_CAPABILITIES TPMU_CAPABILITIES'TPML_CCA spec_TPML_CCA);
    (TPM2_CAP_PP_COMMANDS, spec_case wf_TPMU_CAPABILITIES TPMU_CAPABILITIES'TPML_CC spec_TPML_CC);
    (TPM2_CAP_AUDIT_COMMANDS, spec_case wf_TPMU_CAPABILITIES TPMU_CAPABILITIES'TPML_CC spec_TPML_CC);
    (TPM2_CAP_PCRS, spec_case wf_TPMU_CAPABILITIES TPMU_CAPABILITIES'TPML_PCR_SELECTION spec_TPML_PCR_SELECTION);
    (TPM2_CAP_TPM_PROPERTIES, spec_case wf_TPMU_CAPABILITIES TPMU_CAPABILITIES'TPML_TAGGED_TPM_PROPERTY spec_TPML_TAGGED_TPM_PROPERTY);
    (TPM2_CAP_PCR_PROPERTIES, spec_case wf_TPMU_CAPABILITIES TPMU_CAPABILITIES'TPML_TAGGED_PCR_PROPERTY spec_TPML_TAGGED_PCR_PROPERTY);
    (TPM2_CAP_ECC_CURVES, spec_case wf_TPMU_CAPABILITIES TPMU_CAPABILITIES'TPML_ECC_CURVE spec_TPML_ECC_CURVE);
    (TPM2_CAP_AUTH_POLICIES, spec_case wf_TPMU_CAPABILITIES TPMU_CAPABILITIES'TPML_TAGGED_POLICY spec_TPML_TAGGED_POLICY);
    (TPM2_CAP_ACT, spec_case wf_TPMU_CAPABILITIES TPMU_CAPABILITIES'TPML_ACT_DATA spec_TPML_ACT_DATA);
    (TPM2_CAP_VENDOR_PROPERTY, spec_case wf_TPMU_CAPABILITIES TPMU_CAPABILITIES'TPM2B_MAX_CAP_BUFFER spec_TPM2B_MAX_CAP_BUFFER)].
Definition spec_TPMU_CAPABILITIES := spec_union wf_TPMU_CAPABILITIES cases_TPMU_CAPABILITIES.
Definition max_TPMU_CAPABILITIES := cases_max cases_TPMU_CAPABILITIES.
Lemma zero_TPMU_CAPABILITIES_wf : wf_TPMU_CAPABILITIES zero_TPMU_CAPABILITIES.
Proof. exact zero_TPML_ALG_PROPERTY_wf. Qed.
#[export] Hint Resolve zero_TPMU_CAPABILITIES_wf : mu.
Lemma Tss2_MU_TPMU_CAPABILITIES_ok {H : Host} :
  union_ok (ADDR Tss2_MU_TPMU_CAPABILITIES_Marshal) Tss2_MU_TPMU_CAPABILITIES_Unmarshal
    wf_TPMU_CAPABILITIES spec_TPMU_CAPABILITIES max_TPMU_CAPABILITIES.
Proof. mu_union. Qed.
#[export] Hint Resolve Tss2_MU_TPMU_CAPABILITIES_ok : mu.
#[export] Instance spec_TPMU_CAPABILITIES_ok z : SpecOk (spec_TPMU_CAPABILITIES z).
Proof. exact (union_ok_spec (Tss2_MU_TPMU_CAPABILITIES_ok (H:=little_endian_host)) z). Qed.
#[export] Instance sel_TPMU_CAPABILITIES_ok {T} (sel : T -> Z) get :
  SpecOk (spec_sel sel get wf_TPMU_CAPABILITIES spec_TPMU_CAPABILITIES max_TPMU_CAPABILITIES).
Proof. exact (union_ok_sel (Tss2_MU_TPMU_CAPABILITIES_ok (H:=little_endian_host)) sel get). Qed.

Definition spec_TPMS_CAPABILITY_DATA : spec TPMS_CAPABILITY_DATA :=
  (spec_on (mget TPMS_CAPABILITY_DATA'capability) (spec_int UINT32) ⊗
    spec_sel (mget TPMS_CAPABILITY_DATA'capability) (mget TPMS_CAPABILITY_DATA'data) wf_TPMU_CAPABILITIES spec_TPMU_CAPABILITIES max_TPMU_CAPABILITIES ⊗
    spec_unit)%spec.
Lemma zero_TPMS_CAPABILITY_DATA_wf : s_wf spec_TPMS_CAPABILITY_DATA zero_TPMS_CAPABILITY_DATA.
Proof. exact (conj (zero_int_wf 4)
    (conj zero_TPMU_CAPABILITIES_wf I)). Qed.
Lemma Tss2_MU_TPMS_CAPABILITY_DATA_ok {H : Host} :
  codec_ok (ADDR Tss2_MU_TPMS_CAPABILITY_DATA_Marshal) Tss2_MU_TPMS_CAPABILITY_DATA_Unmarshal spec_TPMS_CAPABILITY_DATA.
Proof. unfold Tss2_MU_TPMS_CAPABILITY_DATA_Marshal, Tss2_MU_TPMS_CAPABILITY_DATA_Unmarshal. mu_struct. exact zero_TPMS_CAPABILITY_DATA_wf. Qed.
#[export] Hint Resolve Tss2_MU_TPMS_CAPABILITY_DATA_ok : mu.
#[export] Instance spec_TPMS_CAPABILITY_DATA_ok : SpecOk spec_TPMS_CAPABILITY_DATA.
Proof. exact (co_spec _ _ _ (Tss2_MU_TPMS_CAPABILITY_DATA_ok (H:=little_endian_host))). Qed.

#[export] Hint Resolve zero_TPMS_CAPABILITY_DATA_wf : mu.

Definition spec_TPMS_EMPTY : spec TPMS_EMPTY := spec_unit.
Lemma Tss2_MU_TPMS_EMPTY_ok {H : Host} :
  codec_ok (ADDR Tss2_MU_TPMS_EMPTY_Marshal) Tss2_MU_TPMS_EMPTY_Unmarshal spec_TPMS_EMPTY.
Proof. apply TPMS_0_codec_ok. Qed.
#[export] Hint Resolve Tss2_MU_TPMS_EMPTY_ok : mu.

Definition spec_TPMS_ID_OBJECT : spec TPMS_ID_OBJECT :=
  (spec_on (mget TPMS_ID_OBJECT'integrityHMAC) spec_TPM2B_DIGEST ⊗
    spec_on (mget TPMS_ID_OBJECT'encIdentity) spec_TPM2B_DIGEST ⊗ spec_unit)%spec.
Lemma zero_TPMS_ID_OBJECT_wf : s_wf spec_TPMS_ID_OBJECT zero_TPMS_ID_OBJECT.
Proof. exact (conj zero_TPM2B_DIGEST_wf
    (conj zero_TPM2B_DIGEST_wf I)). Qed.
Lemma Tss2_MU_TPMS_ID_OBJECT_ok {H : Host} :
  codec_ok (ADDR Tss2_MU_TPMS_ID_OBJECT_Marshal) Tss2_MU_TPMS_ID_OBJECT_Unmarshal spec_TPMS_ID_OBJECT.
Proof. unfold Tss2_MU_TPMS_ID_OBJECT_Marshal, Tss2_MU_TPMS_ID_OBJECT_Unmarshal. mu_struct. exact zero_TPMS_ID_OBJECT_wf. Qed.
#[export] Hint Resolve Tss2_MU_TPMS_ID_OBJECT_ok : mu.
#[export] Instance spec_TPMS_ID_OBJECT_ok : SpecOk spec_TPMS_ID_OBJECT.
Proof. exact (co_spec _ _ _ (Tss2_MU_TPMS_ID_OBJECT_ok (H:=little_endian_host))). Qed.

#[export] Hint Resolve zero_TPMS_ID_OBJECT_wf : mu.

Definition spec_TPMS_NV_DIGEST_CERTIFY_INFO : spec TPMS_NV_DIGEST_CERTIFY_INFO :=
  (spec_on (mget TPMS_NV_DIGEST_CERTIFY_INFO'indexName) spec_TPM2B_NAME ⊗
    spec_on (mget TPMS_NV_DIGEST_CERTIFY_INFO'nvDigest) spec_TPM2B_DIGEST ⊗ spec_unit)%spec.
Lemma zero_TPMS_NV_DIGEST_CERTIFY_INFO_wf : s_wf spec_TPMS_NV_DIGEST_CERTIFY_INFO zero_TPMS_NV_DIGEST_CERTIFY_INFO.
Proof. exact (conj zero_TPM2B_NAME_wf
    (conj zero_TPM2B_DIGEST_wf I)). Qed.
Lemma Tss2_MU_TPMS_NV_DIGEST_CERTIFY_INFO_ok {H : Host} :
  codec_ok (ADDR Tss2_MU_TPMS_NV_DIGEST_CERTIFY_INFO_Marshal) Tss2_MU_TPMS_NV_DIGEST_CERTIFY_INFO_Unmarshal spec_TPMS_NV_DIGEST_CERTIFY_INFO.
Proof. unfold Tss2_MU_TPMS_NV_DIGEST_CERTIFY_INFO_Marshal, Tss2_MU_TPMS_NV_DIGEST_CERTIFY_INFO_Unmarshal. mu_struct. exact zero_TPMS_NV_DIGEST_CERTIFY_INFO_wf. Qed.
#[export] Hint Resolve Tss2_MU_TPMS_NV_DIGEST_CERTIFY_INFO_ok : mu.
#[export] Instance spec_TPMS_NV_DIGEST_CERTIFY_INFO_ok : SpecOk spec_TPMS_NV_DIGEST_CERTIFY_INFO.
Proof. exact (co_spec _ _ _ (Tss2_MU_TPMS_NV_DIGEST_CERTIFY_INFO_ok (H:=little_endian_host))). Qed.

#[export] Hint Resolve zero_TPMS_NV_DIGEST_CERTIFY_INFO_wf : mu.

Definition spec_TPMT_SYM_DEF : spec TPMT_SYM_DEF :=
  (spec_on (mget TPMT_SYM_DEF'algorithm) (spec_int UINT16) ⊗
    spec_sel (mget TPMT_SYM_DEF'algorithm) (mget TPMT_SYM_DEF'keyBits) wf_TPMU_SYM_KEY_BITS spec_TPMU_SYM_KEY_BITS max_TPMU_SYM_KEY_BITS ⊗
    spec_sel (mget TPMT_SYM_DEF'algorithm) (mget TPMT_SYM_DEF'mode) wf_TPMU_SYM_MODE spec_TPMU_SYM_MODE max_TPMU_SYM_MODE ⊗
    spec_unit)%spec.
Lemma zero_TPMT_SYM_DEF_wf : s_wf spec_TPMT_SYM_DEF zero_TPMT_SYM_DEF.
Proof. exact (conj (zero_int_wf 2)
    (conj zero_TPMU_SYM_KEY_BITS_wf (conj zero_TPMU_SYM_MODE_wf I))). Qed.
Lemma Tss2_MU_TPMT_SYM_DEF_ok {H : Host} :
  codec_ok (ADDR Tss2_MU_TPMT_SYM_DEF_Marshal) Tss2_MU_TPMT_SYM_DEF_Unmarshal spec_TPMT_SYM_DEF.
Proof. unfold Tss2_MU_TPMT_SYM_DEF_Marshal, Tss2_MU_TPMT_SYM_DEF_Unmarshal. mu_struct. exact zero_TPMT_SYM_DEF_wf. Qed.
#[export] Hint Resolve Tss2_MU_TPMT_SYM_DEF_ok : mu.
#[export] Instance spec_TPMT_SYM_DEF_ok : SpecOk spec_TPMT_SYM_DEF.
Proof. exact (co_spec _ _ _ (Tss2_MU_TPMT_SYM_DEF_ok (H:=little_endian_host))). Qed.

#[export] Hint Resolve zero_TPMT_SYM_DEF_wf : mu.

Definition wf_TPMU_SIG_SCHEME : TPMS_SCHEME_ECDAA -> Prop :=
  s_wf spec_TPMS_SCHEME_ECDAA.
Definition cases_TPMU_SIG_SCHEME := [
    (TPM2_ALG_RSASSA, spec_case wf_TPMU_SIG_SCHEME hash_of_ecdaa spec_TPMS_SCHEME_HASH);
    (TPM2_ALG_RSAPSS, spec_case wf_TPMU_SIG_SCHEME hash_of_ecdaa spec_TPMS_SCHEME_HASH);
    (TPM2_ALG_ECDSA, spec_case wf_TPMU_SIG_SCHEME hash_of_ecdaa spec_TPMS_SCHEME_HASH);
    (TPM2_ALG_ECDAA, spec_case wf_TPMU_SIG_SCHEME (whole zero_TPMS_SCHEME_ECDAA) spec_TPMS_SCHEME_ECDAA);
    (TPM2_ALG_SM2, spec_case wf_TPMU_SIG_SCHEME hash_of_ecdaa spec_TPMS_SCHEME_HASH);
    (TPM2_ALG_ECSCHNORR, spec_case wf_TPMU_SIG_SCHEME hash_of_ecdaa spec_TPMS_SCHEME_HASH);
    (TPM2_ALG_HMAC, spec_case wf_TPMU_SIG_SCHEME hash_of_ecdaa spec_TPMS_SCHEME_HASH)].
Definition spec_TPMU_SIG_SCHEME := spec_union wf_TPMU_SIG_SCHEME cases_TPMU_SIG_SCHEME.
Definition max_TPMU_SIG_SCHEME := cases_max cases_TPMU_SIG_SCHEME.
Lemma zero_TPMU_SIG_SCHEME_wf : wf_TPMU_SIG_SCHEME zero_TPMS_SCHEME_ECDAA.
Proof. exact zero_TPMS_SCHEME_ECDAA_wf. Qed.
#[export] Hint Resolve zero_TPMU_SIG_SCHEME_wf : mu.
Lemma hash_of_ecdaa_TPMU_SIG_SCHEME_ok :
  umember_ok wf_TPMU_SIG_SCHEME hash_of_ecdaa spec_TPMS_SCHEME_HASH.
Proof.
  split.
  - intros u v W E. injection E as <-. exact (proj1 W).
  - exact zero_TPMS_SCHEME_HASH_wf.
  - intros u v W Wv. exact (conj Wv (proj2 W)).
  - intros u [v] _ _. reflexivity.
Qed.
#[export] Hint Resolve hash_of_ecdaa_TPMU_SIG_SCHEME_ok : mu.
Lemma Tss2_MU_TPMU_SIG_SCHEME_ok {H : Host} :
  union_ok (ADDR Tss2_MU_TPMU_SIG_SCHEME_Marshal) Tss2_MU_TPMU_SIG_SCHEME_Unmarshal
    wf_TPMU_SIG_SCHEME spec_TPMU_SIG_SCHEME max_TPMU_SIG_SCHEME.
Proof. mu_union. Qed.
#[export] Hint Resolve Tss2_MU_TPMU_SIG_SCHEME_ok : mu.
#[export] Instance spec_TPMU_SIG_SCHEME_ok z : SpecOk (spec_TPMU_SIG_SCHEME z).
Proof. exact (union_ok_spec (Tss2_MU_TPMU_SIG_SCHEME_ok (H:=little_endian_host)) z). Qed.
#[export] Instance sel_TPMU_SIG_SCHEME_ok {T} (sel : T -> Z) get :
  SpecOk (spec_sel sel get wf_TPMU_SIG_SCHEME spec_TPMU_SIG_SCHEME max_TPMU_SIG_SCHEME).
Proof. exact (union_ok_sel (Tss2_MU_TPMU_SIG_SCHEME_ok (H:=little_endian_host)) sel get). Qed.

Definition spec_TPMT_SIG_SCHEME : spec TPMT_SIG_SCHEME :=
  (spec_on (mget TPMT_SIG_SCHEME'scheme) (spec_int UINT16) ⊗
    spec_sel (mget TPMT_SIG_SCHEME'scheme) (mget TPMT_SIG_SCHEME'details) wf_TPMU_SIG_SCHEME spec_TPMU_SIG_SCHEME max_TPMU_SIG_SCHEME ⊗
    spec_unit)%spec.
Lemma zero_TPMT_SIG_SCHEME_wf : s_wf spec_TPMT_SIG_SCHEME zero_TPMT_SIG_SCHEME.
Proof. exact (conj (zero_int_wf 2)
    (conj zero_TPMU_SIG_SCHEME_wf I)). Qed.
Lemma Tss2_MU_TPMT_SIG_SCHEME_ok {H : Host} :
  codec_ok (ADDR Tss2_MU_TPMT_SIG_SCHEME_Marshal) Tss2_MU_TPMT_SIG_SCHEME_Unmarshal spec_TPMT_SIG_SCHEME.
Proof. unfold Tss2_MU_TPMT_SIG_SCHEME_Marshal, Tss2_MU_TPMT_SIG_SCHEME_Unmarshal. mu_struct. exact zero_TPMT_SIG_SCHEME_wf. Qed.
#[export] Hint Resolve Tss2_MU_TPMT_SIG_SCHEME_ok : mu.
#[export] Instance spec_TPMT_SIG_SCHEME_ok : SpecOk spec_TPMT_SIG_SCHEME.
Proof. exact (co_spec _ _ _ (Tss2_MU_TPMT_SIG_SCHEME_ok (H:=little_endian_host))). Qed.

#[export] Hint Resolve zero_TPMT_SIG_SCHEME_wf : mu.

Definition spec_TPMT_ASYM_SCHEME : spec TPMT_ASYM_SCHEME :=
  (spec_on (mget TPMT_ASYM_SCHEME'scheme) (spec_int UINT16) ⊗
    spec_sel (mget TPMT_ASYM_SCHEME'scheme) (mget TPMT_ASYM_SCHEME'details) wf_TPMU_ASYM_SCHEME spec_TPMU_ASYM_SCHEME max_TPMU_ASYM_SCHEME ⊗
    spec_unit)%spec.
Lemma zero_TPMT_ASYM_SCHEME_wf : s_wf spec_TPMT_ASYM_SCHEME zero_TPMT_ASYM_SCHEME.
Proof. exact (conj (zero_int_wf 2)
    (conj zero_TPMU_ASYM_SCHEME_wf I)). Qed.
Lemma Tss2_MU_TPMT_ASYM_SCHEME_ok {H : Host} :
  codec_ok (ADDR Tss2_MU_TPMT_ASYM_SCHEME_Marshal) Tss2_MU_TPMT_ASYM_SCHEME_Unmarshal spec_TPMT_ASYM_SCHEME.
Proof. unfold Tss2_MU_TPMT_ASYM_SCHEME_Marshal, Tss2_MU_TPMT_ASYM_SCHEME_Unmarshal. mu_struct. exact zero_TPMT_ASYM_SCHEME_wf. Qed.
#[export] Hint Resolve Tss2_MU_TPMT_ASYM_SCHEME_ok : mu.
#[export] Instance spec_TPMT_ASYM_SCHEME_ok : SpecOk spec_TPMT_ASYM_SCHEME.
Proof. exact (co_spec _ _ _ (Tss2_MU_TPMT_ASYM_SCHEME_ok (H:=little_endian_host))). Qed.

#[export] Hint Resolve zero_TPMT_ASYM_SCHEME_wf : mu.

Definition spec_TPMT_RSA_DECRYPT : spec TPMT_RSA_DECRYPT :=
  (spec_on (mget TPMT_RSA_DECRYPT'scheme) (spec_int UINT16) ⊗
    spec_sel (mget TPMT_RSA_DECRYPT'scheme) (mget TPMT_RSA_DECRYPT'details) wf_TPMU_ASYM_SCHEME spec_TPMU_ASYM_SCHEME max_TPMU_ASYM_SCHEME ⊗
    spec_unit)%spec.
Lemma zero_TPMT_RSA_DECRYPT_wf : s_wf spec_TPMT_RSA_DECRYPT zero_TPMT_RSA_DECRYPT.
Proof. exact (conj (zero_int_wf 2)
    (conj zero_TPMU_ASYM_SCHEME_wf I)). Qed.
Lemma Tss2_MU_TPMT_RSA_DECRYPT_ok {H : Host} :
  codec_ok (ADDR Tss2_MU_TPMT_RSA_DECRYPT_Marshal) Tss2_MU_TPMT_RSA_DECRYPT_Unmarshal spec_TPMT_RSA_DECRYPT.
Proof. unfold Tss2_MU_TPMT_RSA_DECRYPT_Marshal, Tss2_MU_TPMT_RSA_DECRYPT_Unmarshal. mu_struct. exact zero_TPMT_RSA_DECRYPT_wf. Qed.
#[export] Hint Resolve Tss2_MU_TPMT_RSA_DECRYPT_ok : mu.
#[export] Instance spec_TPMT_RSA_DECRYPT_ok : SpecOk spec_TPMT_RSA_DECRYPT.
Proof. exact (co_spec _ _ _ (Tss2_MU_TPMT_RSA_DECRYPT_ok (H:=little_endian_host))). Qed.

#[export] Hint Resolve zero_TPMT_RSA_DECRYPT_wf : mu.

Definition wf_TPMU_SIGNATURE : TPMU_SIGNATURE -> Prop :=
  fun u => match u with
  | TPMU_SIGNATURE_of_TPMS_SIGNATURE_RSA v => s_wf spec_TPMS_SIGNATURE_RSA v
  | TPMU_SIGNATURE_of_TPMS_SIGNATURE_ECC v => s_wf spec_TPMS_SIGNATURE_ECC v
  | TPMU_SIGNATURE_of_TPMT_HA v => s_wf spec_TPMT_HA v
  | TPMU_SIGNATURE_of_TPMS_SIGNATURE_MLDSA v => s_wf spec_TPMS_SIGNATURE_MLDSA v
  end.
Definition cases_TPMU_SIGNATURE := [
    (TPM2_ALG_RSASSA, spec_case wf_TPMU_SIGNATURE TPMU_SIGNATURE'TPMS_SIGNATURE_RSA spec_TPMS_SIGNATURE_RSA);
    (TPM2_ALG_RSAPSS, spec_case wf_TPMU_SIGNATURE TPMU_SIGNATURE'TPMS_SIGNATURE_RSA spec_TPMS_SIGNATURE_RSA);
    (TPM2_ALG_ECDSA, spec_case wf_TPMU_SIGNATURE TPMU_SIGNATURE'TPMS_SIGNATURE_ECC spec_TPMS_SIGNATURE_ECC);
    (TPM2_ALG_ECDAA, spec_case wf_TPMU_SIGNATURE TPMU_SIGNATURE'TPMS_SIGNATURE_ECC spec_TPMS_SIGNATURE_ECC);
    (TPM2_ALG_SM2, spec_case wf_TPMU_SIGNATURE TPMU_SIGNATURE'TPMS_SIGNATURE_ECC spec_TPMS_SIGNATURE_ECC);
    (TPM2_ALG_ECSCHNORR, spec_case wf_TPMU_SIGNATURE TPMU_SIGNATURE'TPMS_SIGNATURE_ECC spec_TPMS_SIGNATURE_ECC);
    (TPM2_ALG_HMAC, spec_case wf_TPMU_SIGNATURE TPMU_SIGNATURE'TPMT_HA spec_TPMT_HA);
    (TPM2_ALG_MLDSA, spec_case wf_TPMU_SIGNATURE TPMU_SIGNATURE'TPMS_SIGNATURE_MLDSA spec_TPMS_SIGNATURE_MLDSA)].
Definition spec_TPMU_SIGNATURE := spec_union wf_TPMU_SIGNATURE cases_TPMU_SIGNATURE.
Definition max_TPMU_SIGNATURE := cases_max cases_TPMU_SIGNATURE.
Lemma zero_TPMU_SIGNATURE_wf : wf_TPMU_SIGNATURE zero_TPMU_SIGNATURE.
Proof. exact zero_TPMS_SIGNATURE_RSA_wf. Qed.
#[export] Hint Resolve zero_TPMU_SIGNATURE_wf : mu.
Lemma Tss2_MU_TPMU_SIGNATURE_ok {H : Host} :
  union_ok (ADDR Tss2_MU_TPMU_SIGNATURE_Marshal) Tss2_MU_TPMU_SIGNATURE_Unmarshal
    wf_TPMU_SIGNATURE spec_TPMU_SIGNATURE max_TPMU_SIGNATURE.
Proof. mu_union. Qed.
#[export] Hint Resolve Tss2_MU_TPMU_SIGNATURE_ok : mu.
#[export] Instance spec_TPMU_SIGNATURE_ok z : SpecOk (spec_TPMU_SIGNATURE z).
Proof. exact (union_ok_spec (Tss2_MU_TPMU_SIGNATURE_ok (H:=little_endian_host)) z). Qed.
#[export] Instance sel_TPMU_SIGNATURE_ok {T} (sel : T -> Z) get :
  SpecOk (spec_sel sel get wf_TPMU_SIGNATURE spec_TPMU_SIGNATURE max_TPMU_SIGNATURE).
Proof. exact (union_ok_sel (Tss2_MU_TPMU_SIGNATURE_ok (H:=little_endian_host)) sel get). Qed.

Definition spec_TPMT_SIGNATURE : spec TPMT_SIGNATURE :=
  (spec_on (mget TPMT_SIGNATURE'sigAlg) (spec_int UINT16) ⊗
    spec_sel (mget TPMT_SIGNATURE'sigAlg) (mget TPMT_SIGNATURE'signature) wf_TPMU_SIGNATURE spec_TPMU_SIGNATURE max_TPMU_SIGNATURE ⊗
    spec_unit)%spec.
Lemma zero_TPMT_SIGNATURE_wf : s_wf spec_TPMT_SIGNATURE zero_TPMT_SIGNATURE.
Proof. exact (conj (zero_int_wf 2)
    (conj zero_TPMU_SIGNATURE_wf I)). Qed.
Lemma Tss2_MU_TPMT_SIGNATURE_ok {H : Host} :
  codec_ok (ADDR Tss2_MU_TPMT_SIGNATURE_Marshal) Tss2_MU_TPMT_SIGNATURE_Unmarshal spec_TPMT_SIGNATURE.
Proof. unfold Tss2_MU_TPMT_SIGNATURE_Marshal, Tss2_MU_TPMT_SIGNATURE_Unmarshal. mu_struct. exact zero_TPMT_SIGNATURE_wf. Qed.
#[export] Hint Resolve Tss2_MU_TPMT_SIGNATURE_ok : mu.
#[export] Instance spec_TPMT_SIGNATURE_ok : SpecOk spec_TPMT_SIGNATURE.
Proof. exact (co_spec _ _ _ (Tss2_MU_TPMT_SIGNATURE_ok (H:=little_endian_host))). Qed.

#[export] Hint Resolve zero_TPMT_SIGNATURE_wf : mu.

Definition spec_TPMT_PUBLIC_PARMS : spec TPMT_PUBLIC_PARMS :=
  (spec_on (mget TPMT_PUBLIC_PARMS'type) (spec_int UINT16) ⊗
    spec_sel (mget TPMT_PUBLIC_PARMS'type) (mget TPMT_PUBLIC_PARMS'parameters) wf_TPMU_PUBLIC_PARMS spec_TPMU_PUBLIC_PARMS max_TPMU_PUBLIC_PARMS ⊗
    spec_unit)%spec.
Lemma zero_TPMT_PUBLIC_PARMS_wf : s_wf spec_TPMT_PUBLIC_PARMS zero_TPMT_PUBLIC_PARMS.
Proof. exact (conj (zero_int_wf 2)
    (conj zero_TPMU_PUBLIC_PARMS_wf I)). Qed.
Lemma Tss2_MU_TPMT_PUBLIC_PARMS_ok {H : Host} :
  codec_ok (ADDR Tss2_MU_TPMT_PUBLIC_PARMS_Marshal) Tss2_MU_TPMT_PUBLIC_PARMS_Unmarshal spec_TPMT_PUBLIC_PARMS.
Proof. unfold Tss2_MU_TPMT_PUBLIC_PARMS_Marshal, Tss2_MU_TPMT_PUBLIC_PARMS_Unmarshal. mu_struct. exact zero_TPMT_PUBLIC_PARMS_wf. Qed.
#[export] Hint Resolve Tss2_MU_TPMT_PUBLIC_PARMS_ok : mu.
#[export] Instance spec_TPMT_PUBLIC_PARMS_ok : SpecOk spec_TPMT_PUBLIC_PARMS.
Proof. exact (co_spec _ _ _ (Tss2_MU_TPMT_PUBLIC_PARMS_ok (H:=little_endian_host))). Qed.

#[export] Hint Resolve zero_TPMT_PUBLIC_PARMS_wf : mu.

Definition spec_TPMT_TK_CREATION : spec TPMT_TK_CREATION :=
  (spec_on (mget TPMT_TK_CREATION'tag) (spec_int UINT16) ⊗
    spec_on (mget TPMT_TK_CREATION'hierarchy) (spec_int UINT32) ⊗
    spec_on (mget TPMT_TK_CREATION'digest) spec_TPM2B_DIGEST ⊗ spec_unit)%spec.
Lemma zero_TPMT_TK_CREATION_wf : s_wf spec_TPMT_TK_CREATION zero_TPMT_TK_CREATION.
Proof. exact (conj (zero_int_wf 2)
    (conj (zero_int_wf 4) (conj zero_TPM2B_DIGEST_wf I))). Qed.
Lemma Tss2_MU_TPMT_TK_CREATION_ok {H : Host} :
  codec_ok (ADDR Tss2_MU_TPMT_TK_CREATION_Marshal) Tss2_MU_TPMT_TK_CREATION_Unmarshal spec_TPMT_TK_CREATION.
Proof. unfold Tss2_MU_TPMT_TK_CREATION_Marshal, Tss2_MU_TPMT_TK_CREATION_Unmarshal. mu_struct. exact zero_TPMT_TK_CREATION_wf. Qed.
#[export] Hint Resolve Tss2_MU_TPMT_TK_CREATION_ok : mu.
#[export] Instance spec_TPMT_TK_CREATION_ok : SpecOk spec_TPMT_TK_CREATION.
Proof. exact (co_spec _ _ _ (Tss2_MU_TPMT_TK_CREATION_ok (H:=little_endian_host))). Qed.

#[export] Hint Resolve zero_TPMT_TK_CREATION_wf : mu.

Definition spec_TPMT_TK_VERIFIED : spec TPMT_TK_VERIFIED :=
  (spec_on (mget TPMT_TK_VERIFIED'tag) (spec_int UINT16) ⊗
    spec_on (mget TPMT_TK_VERIFIED'hierarchy) (spec_int UINT32) ⊗
    spec_on (mget TPMT_TK_VERIFIED'digest) spec_TPM2B_DIGEST ⊗ spec_unit)%spec.
Lemma zero_TPMT_TK_VERIFIED_wf : s_wf spec_TPMT_TK_VERIFIED zero_TPMT_TK_VERIFIED.
Proof. exact (conj (zero_int_wf 2)
    (conj (zero_int_wf 4) (conj zero_TPM2B_DIGEST_wf I))). Qed.
Lemma Tss2_MU_TPMT_TK_VERIFIED_ok {H : Host} :
  codec_ok (ADDR Tss2_MU_TPMT_TK_VERIFIED_Marshal) Tss2_MU_TPMT_TK_VERIFIED_Unmarshal spec_TPMT_TK_VERIFIED.
Proof. unfold Tss2_MU_TPMT_TK_VERIFIED_Marshal, Tss2_MU_TPMT_TK_VERIFIED_Unmarshal. mu_struct. exact zero_TPMT_TK_VERIFIED_wf. Qed.
#[export] Hint Resolve Tss2_MU_TPMT_TK_VERIFIED_ok : mu.
#[export] Instance spec_TPMT_TK_VERIFIED_ok : SpecOk spec_TPMT_TK_VERIFIED.
Proof. exact (co_spec _ _ _ (Tss2_MU_TPMT_TK_VERIFIED_ok (H:=little_endian_host))). Qed.

#[export] Hint Resolve zero_TPMT_TK_VERIFIED_wf : mu.

Definition spec_TPMT_TK_AUTH : spec TPMT_TK_AUTH :=
  (spec_on (mget TPMT_TK_AUTH'tag) (spec_int UINT16) ⊗
    spec_on (mget TPMT_TK_AUTH'hierarchy) (spec_int UINT32) ⊗
    spec_on (mget TPMT_TK_AUTH'digest) spec_TPM2B_DIGEST ⊗ spec_unit)%spec.
Lemma zero_TPMT_TK_AUTH_wf : s_wf spec_TPMT_TK_AUTH zero_TPMT_TK_AUTH.
Proof. exact (conj (zero_int_wf 2)
    (conj (zero_int_wf 4) (conj zero_TPM2B_DIGEST_wf I))). Qed.
Lemma Tss2_MU_TPMT_TK_AUTH_ok {H : Host} :
  codec_ok (ADDR Tss2_MU_TPMT_TK_AUTH_Marshal) Tss2_MU_TPMT_TK_AUTH_Unmarshal spec_TPMT_TK_AUTH.
Proof. unfold Tss2_MU_TPMT_TK_AUTH_Marshal, Tss2_MU_TPMT_TK_AUTH_Unmarshal. mu_struct. exact zero_TPMT_TK_AUTH_wf. Qed.
#[export] Hint Resolve Tss2_MU_TPMT_TK_AUTH_ok : mu.
#[export] Instance spec_TPMT_TK_AUTH_ok : SpecOk spec_TPMT_TK_AUTH.
Proof. exact (co_spec _ _ _ (Tss2_MU_TPMT_TK_AUTH_ok (H:=little_endian_host))). Qed.

#[export] Hint Resolve zero_TPMT_TK_AUTH_wf : mu.

Definition spec_TPMT_TK_HASHCHECK : spec TPMT_TK_HASHCHECK :=
  (spec_on (mget TPMT_TK_HASHCHECK'tag) (spec_int UINT16) ⊗
    spec_on (mget TPMT_TK_HASHCHECK'hierarchy) (spec_int UINT32) ⊗
    spec_on (mget TPMT_TK_HASHCHECK'digest) spec_TPM2B_DIGEST ⊗ spec_unit)%spec.
Lemma zero_TPMT_TK_HASHCHECK_wf : s_wf spec_TPMT_TK_HASHCHECK zero_TPMT_TK_HASHCHECK.
Proof. exact (conj (zero_int_wf 2)
    (conj (zero_int_wf 4) (conj zero_TPM2B_DIGEST_wf I))). Qed.
Lemma Tss2_MU_TPMT_TK_HASHCHECK_ok {H : Host} :
  codec_ok (ADDR Tss2_MU_TPMT_TK_HASHCHECK_Marshal) Tss2_MU_TPMT_TK_HASHCHECK_Unmarshal spec_TPMT_TK_HASHCHECK.
Proof. unfold Tss2_MU_TPMT_TK_HASHCHECK_Marshal, Tss2_MU_TPMT_TK_HASHCHECK_Unmarshal. mu_struct. exact zero_TPMT_TK_HASHCHECK_wf. Qed.
#[export] Hint Resolve Tss2_MU_TPMT_TK_HASHCHECK_ok : mu.
#[export] Instance spec_TPMT_TK_HASHCHECK_ok : SpecOk spec_TPMT_TK_HASHCHECK.
Proof. exact (co_spec _ _ _ (Tss2_MU_TPMT_TK_HASHCHECK_ok (H:=little_endian_host))). Qed.

#[export] Hint Resolve zero_TPMT_TK_HASHCHECK_wf : mu.

Definition wf_TPMU_ENCRYPTED_SECRET : bytes -> Prop :=
  s_wf (spec_tab (lsize lay_TPMU_ENCRYPTED_SECRET) 0).
Definition cases_TPMU_ENCRYPTED_SECRET := [
    (TPM2_ALG_ECC, spec_case wf_TPMU_ENCRYPTED_SECRET (whole zero_TPMU_ENCRYPTED_SECRET) (spec_tab (lsize lay_TPMU_ENCRYPTED_SECRET) (lsize lay_TPMS_ECC_POINT)));
    (TPM2_ALG_RSA, spec_case wf_TPMU_ENCRYPTED_SECRET (whole zero_TPMU_ENCRYPTED_SECRET) (spec_tab (lsize lay_TPMU_ENCRYPTED_SECRET) TPM2_MAX_RSA_KEY_BYTES));
    (TPM2_ALG_SYMCIPHER, spec_case wf_TPMU_ENCRYPTED_SECRET (whole zero_TPMU_ENCRYPTED_SECRET) (spec_tab (lsize lay_TPMU_ENCRYPTED_SECRET) (lsize lay_TPM2B_DIGEST)));
    (TPM2_ALG_KEYEDHASH, spec_case wf_TPMU_ENCRYPTED_SECRET (whole zero_TPMU_ENCRYPTED_SECRET) (spec_tab (lsize lay_TPMU_ENCRYPTED_SECRET) (lsize lay_TPM2B_DIGEST)))].
Definition spec_TPMU_ENCRYPTED_SECRET := spec_union wf_TPMU_ENCRYPTED_SECRET cases_TPMU_ENCRYPTED_SECRET.
Definition max_TPMU_ENCRYPTED_SECRET := cases_max cases_TPMU_ENCRYPTED_SECRET.
Lemma zero_TPMU_ENCRYPTED_SECRET_wf : wf_TPMU_ENCRYPTED_SECRET zero_TPMU_ENCRYPTED_SECRET.
Proof. apply zero_tab_wf; cap_ok. Qed.
#[export] Hint Resolve zero_TPMU_ENCRYPTED_SECRET_wf : mu.
Lemma Tss2_MU_TPMU_ENCRYPTED_SECRET_ok {H : Host} :
  union_ok (ADDR Tss2_MU_TPMU_ENCRYPTED_SECRET_Marshal) Tss2_MU_TPMU_ENCRYPTED_SECRET_Unmarshal
    wf_TPMU_ENCRYPTED_SECRET spec_TPMU_ENCRYPTED_SECRET max_TPMU_ENCRYPTED_SECRET.
Proof. mu_union. Qed.
#[export] Hint Resolve Tss2_MU_TPMU_ENCRYPTED_SECRET_ok : mu.
#[export] Instance spec_TPMU_ENCRYPTED_SECRET_ok z : SpecOk (spec_TPMU_ENCRYPTED_SECRET z).
Proof. exact (union_ok_spec (Tss2_MU_TPMU_ENCRYPTED_SECRET_ok (H:=little_endian_host)) z). Qed.
#[export] Instance sel_TPMU_ENCRYPTED_SECRET_ok {T} (sel : T -> Z) get :
  SpecOk (spec_sel sel get wf_TPMU_ENCRYPTED_SECRET spec_TPMU_ENCRYPTED_SECRET max_TPMU_ENCRYPTED_SECRET).
Proof. exact (union_ok_sel (Tss2_MU_TPMU_ENCRYPTED_SECRET_ok (H:=little_endian_host)) sel get). Qed.

Definition wf_TPMU_NAME : TPMU_NAME -> Prop :=
  fun u => match u with
  | TPMU_NAME_of_UINT32 v => s_wf (spec_int UINT32) v
  | TPMU_NAME_of_TPMT_HA v => s_wf spec_TPMT_HA v
  end.
Definition cases_TPMU_NAME := [
    (4, spec_case wf_TPMU_NAME TPMU_NAME'UINT32 (spec_int UINT32));
    (2 + TPM2_SHA1_DIGEST_SIZE, spec_case wf_TPMU_NAME TPMU_NAME'TPMT_HA spec_TPMT_HA);
    (2 + TPM2_SHA256_DIGEST_SIZE, spec_case wf_TPMU_NAME TPMU_NAME'TPMT_HA spec_TPMT_HA);
    (2 + TPM2_SHA384_DIGEST_SIZE, spec_case wf_TPMU_NAME TPMU_NAME'TPMT_HA spec_TPMT_HA);
    (2 + TPM2_SHA512_DIGEST_SIZE, spec_case wf_TPMU_NAME TPMU_NAME'TPMT_HA spec_TPMT_HA)].
Definition spec_TPMU_NAME := spec_union wf_TPMU_NAME cases_TPMU_NAME.
Definition max_TPMU_NAME := cases_max cases_TPMU_NAME.
Lemma zero_TPMU_NAME_wf : wf_TPMU_NAME zero_TPMU_NAME.
Proof. exact (zero_int_wf 4). Qed.
#[export] Hint Resolve zero_TPMU_NAME_wf : mu.
Lemma Tss2_MU_TPMU_NAME_ok {H : Host} :
  union_ok (ADDR Tss2_MU_TPMU_NAME_Marshal) Tss2_MU_TPMU_NAME_Unmarshal
    wf_TPMU_NAME spec_TPMU_NAME max_TPMU_NAME.
Proof. mu_union. Qed.
#[export] Hint Resolve Tss2_MU_TPMU_NAME_ok : mu.
#[export] Instance spec_TPMU_NAME_ok z : SpecOk (spec_TPMU_NAME z).
Proof. exact (union_ok_spec (Tss2_MU_TPMU_NAME_ok (H:=little_endian_host)) z). Qed.
#[export] Instance sel_TPMU_NAME_ok {T} (sel : T -> Z) get :
  SpecOk (spec_sel sel get wf_TPMU_NAME spec_TPMU_NAME max_TPMU_NAME).
Proof. exact (union_ok_sel (Tss2_MU_TPMU_NAME_ok (H:=little_endian_host)) sel get). Qed.

