(* ===== verification/MuRegistry.v ===== *)
(** * The types of the marshaling library.

    [mu_codec m u s]: [m] and [u] are the marshal and unmarshal functions of
    a type, [s] its wire format; [mu_lax_codec] lists the sized buffers that
    hold a structure, [mu_union_codec] the unions.  The functions are indexed
    by the host they run on. *)

From S2P Require Import Prelude Common MuSpec MuBase MuBaseOk MuStruct MuStructOk MuTpm2b MuTpm2bOk MuUnion TpmTypes MuTypes MuTypesOk.

Inductive mu_codec :
    forall {T : Type}, (Host -> T -> mstep) -> (Host -> ufn T) -> spec T -> Prop :=
| mu_BYTE : mu_codec (fun H => VAL Tss2_MU_BYTE_Marshal) (fun H => Tss2_MU_BYTE_Unmarshal) (spec_int BYTE)
| mu_INT8 : mu_codec (fun H => VAL Tss2_MU_INT8_Marshal) (fun H => Tss2_MU_INT8_Unmarshal) (spec_int INT8)
| mu_INT16 : mu_codec (fun H => VAL Tss2_MU_INT16_Marshal) (fun H => Tss2_MU_INT16_Unmarshal) (spec_int INT16)
| mu_INT32 : mu_codec (fun H => VAL Tss2_MU_INT32_Marshal) (fun H => Tss2_MU_INT32_Unmarshal) (spec_int INT32)
| mu_INT64 : mu_codec (fun H => VAL Tss2_MU_INT64_Marshal) (fun H => Tss2_MU_INT64_Unmarshal) (spec_int INT64)
| mu_UINT8 : mu_codec (fun H => VAL Tss2_MU_UINT8_Marshal) (fun H => Tss2_MU_UINT8_Unmarshal) (spec_int UINT8)
| mu_UINT16 : mu_codec (fun H => VAL Tss2_MU_UINT16_Marshal) (fun H => Tss2_MU_UINT16_Unmarshal) (spec_int UINT16)
| mu_UINT32 : mu_codec (fun H => VAL Tss2_MU_UINT32_Marshal) (fun H => Tss2_MU_UINT32_Unmarshal) (spec_int UINT32)
| mu_UINT64 : mu_codec (fun H => VAL Tss2_MU_UINT64_Marshal) (fun H => Tss2_MU_UINT64_Unmarshal) (spec_int UINT64)
| mu_TPM2_CC : mu_codec (fun H => VAL Tss2_MU_TPM2_CC_Marshal) (fun H => Tss2_MU_TPM2_CC_Unmarshal) (spec_int UINT32)
| mu_TPM2_ST : mu_codec (fun H => VAL Tss2_MU_TPM2_ST_Marshal) (fun H => Tss2_MU_TPM2_ST_Unmarshal) (spec_int UINT16)
| mu_TPM2_SE : mu_codec (fun H => VAL Tss2_MU_TPM2_SE_Marshal) (fun H => Tss2_MU_TPM2_SE_Unmarshal) (spec_int UINT8)
| mu_TPM2_NT : mu_codec (fun H => VAL Tss2_MU_TPM2_NT_Marshal) (fun H => Tss2_MU_TPM2_NT_Unmarshal) (spec_int UINT8)
| mu_TPM2_HANDLE : mu_codec (fun H => VAL Tss2_MU_TPM2_HANDLE_Marshal) (fun H => Tss2_MU_TPM2_HANDLE_Unmarshal) (spec_int UINT32)
| mu_TPMI_ALG_HASH : mu_codec (fun H => VAL Tss2_MU_TPMI_ALG_HASH_Marshal) (fun H => Tss2_MU_TPMI_ALG_HASH_Unmarshal) (spec_int UINT16)
| mu_TPMA_ALGORITHM : mu_codec (fun H => VAL Tss2_MU_TPMA_ALGORITHM_Marshal) (fun H => Tss2_MU_TPMA_ALGORITHM_Unmarshal) (spec_int UINT32)
| mu_TPMA_CC : mu_codec (fun H => VAL Tss2_MU_TPMA_CC_Marshal) (fun H => Tss2_MU_TPMA_CC_Unmarshal) (spec_int UINT32)
| mu_TPMA_LOCALITY : mu_codec (fun H => VAL Tss2_MU_TPMA_LOCALITY_Marshal) (fun H => Tss2_MU_TPMA_LOCALITY_Unmarshal) (spec_int UINT8)
| mu_TPMA_NV : mu_codec (fun H => VAL Tss2_MU_TPMA_NV_Marshal) (fun H => Tss2_MU_TPMA_NV_Unmarshal) (spec_int UINT32)
| mu_TPMA_OBJECT : mu_codec (fun H => VAL Tss2_MU_TPMA_OBJECT_Marshal) (fun H => Tss2_MU_TPMA_OBJECT_Unmarshal) (spec_int UINT32)
| mu_TPMA_PERMANENT : mu_codec (fun H => VAL Tss2_MU_TPMA_PERMANENT_Marshal) (fun H => Tss2_MU_TPMA_PERMANENT_Unmarshal) (spec_int UINT32)
| mu_TPMA_SESSION : mu_codec (fun H => VAL Tss2_MU_TPMA_SESSION_Marshal) (fun H => Tss2_MU_TPMA_SESSION_Unmarshal) (spec_int UINT8)
| mu_TPMA_STARTUP_CLEAR : mu_codec (fun H => VAL Tss2_MU_TPMA_STARTUP_CLEAR_Marshal) (fun H => Tss2_MU_TPMA_STARTUP_CLEAR_Unmarshal) (spec_int UINT32)
| mu_TPMS_PCR_SELECT : mu_codec (fun H => ADDR Tss2_MU_TPMS_PCR_SELECT_Marshal) (fun H => Tss2_MU_TPMS_PCR_SELECT_Unmarshal) spec_TPMS_PCR_SELECT
| mu_TPMS_PCR_SELECTION : mu_codec (fun H => ADDR Tss2_MU_TPMS_PCR_SELECTION_Marshal) (fun H => Tss2_MU_TPMS_PCR_SELECTION_Unmarshal) spec_TPMS_PCR_SELECTION
| mu_TPMS_TAGGED_PCR_SELECT : mu_codec (fun H => ADDR Tss2_MU_TPMS_TAGGED_PCR_SELECT_Marshal) (fun H => Tss2_MU_TPMS_TAGGED_PCR_SELECT_Unmarshal) spec_TPMS_TAGGED_PCR_SELECT
| mu_TPM2B_DIGEST : mu_codec (fun H => ADDR Tss2_MU_TPM2B_DIGEST_Marshal) (fun H => Tss2_MU_TPM2B_DIGEST_Unmarshal) spec_TPM2B_DIGEST
| mu_TPM2B_DATA : mu_codec (fun H => ADDR Tss2_MU_TPM2B_DATA_Marshal) (fun H => Tss2_MU_TPM2B_DATA_Unmarshal) spec_TPM2B_DATA
| mu_TPM2B_EVENT : mu_codec (fun H => ADDR Tss2_MU_TPM2B_EVENT_Marshal) (fun H => Tss2_MU_TPM2B_EVENT_Unmarshal) spec_TPM2B_EVENT
| mu_TPM2B_MAX_BUFFER : mu_codec (fun H => ADDR Tss2_MU_TPM2B_MAX_BUFFER_Marshal) (fun H => Tss2_MU_TPM2B_MAX_BUFFER_Unmarshal) spec_TPM2B_MAX_BUFFER
| mu_TPM2B_MAX_NV_BUFFER : mu_codec (fun H => ADDR Tss2_MU_TPM2B_MAX_NV_BUFFER_Marshal) (fun H => Tss2_MU_TPM2B_MAX_NV_BUFFER_Unmarshal) spec_TPM2B_MAX_NV_BUFFER
| mu_TPM2B_IV : mu_codec (fun H => ADDR Tss2_MU_TPM2B_IV_Marshal) (fun H => Tss2_MU_TPM2B_IV_Unmarshal) spec_TPM2B_IV
| mu_TPM2B_NAME : mu_codec (fun H => ADDR Tss2_MU_TPM2B_NAME_Marshal) (fun H => Tss2_MU_TPM2B_NAME_Unmarshal) spec_TPM2B_NAME
| mu_TPM2B_ATTEST : mu_codec (fun H => ADDR Tss2_MU_TPM2B_ATTEST_Marshal) (fun H => Tss2_MU_TPM2B_ATTEST_Unmarshal) spec_TPM2B_ATTEST
| mu_TPM2B_SYM_KEY : mu_codec (fun H => ADDR Tss2_MU_TPM2B_SYM_KEY_Marshal) (fun H => Tss2_MU_TPM2B_SYM_KEY_Unmarshal) spec_TPM2B_SYM_KEY
| mu_TPM2B_SENSITIVE_DATA : mu_codec (fun H => ADDR Tss2_MU_TPM2B_SENSITIVE_DATA_Marshal) (fun H => Tss2_MU_TPM2B_SENSITIVE_DATA_Unmarshal) spec_TPM2B_SENSITIVE_DATA
| mu_TPM2B_PUBLIC_KEY_RSA : mu_codec (fun H => ADDR Tss2_MU_TPM2B_PUBLIC_KEY_RSA_Marshal) (fun H => Tss2_MU_TPM2B_PUBLIC_KEY_RSA_Unmarshal) spec_TPM2B_PUBLIC_KEY_RSA
| mu_TPM2B_PRIVATE_KEY_RSA : mu_codec (fun H => ADDR Tss2_MU_TPM2B_PRIVATE_KEY_RSA_Marshal) (fun H => Tss2_MU_TPM2B_PRIVATE_KEY_RSA_Unmarshal) spec_TPM2B_PRIVATE_KEY_RSA
| mu_TPM2B_ECC_PARAMETER : mu_codec (fun H => ADDR Tss2_MU_TPM2B_ECC_PARAMETER_Marshal) (fun H => Tss2_MU_TPM2B_ECC_PARAMETER_Unmarshal) spec_TPM2B_ECC_PARAMETER
| mu_TPM2B_ENCRYPTED_SECRET : mu_codec (fun H => ADDR Tss2_MU_TPM2B_ENCRYPTED_SECRET_Marshal) (fun H => Tss2_MU_TPM2B_ENCRYPTED_SECRET_Unmarshal) spec_TPM2B_ENCRYPTED_SECRET
| mu_TPM2B_PRIVATE_VENDOR_SPECIFIC : mu_codec (fun H => ADDR Tss2_MU_TPM2B_PRIVATE_VENDOR_SPECIFIC_Marshal) (fun H => Tss2_MU_TPM2B_PRIVATE_VENDOR_SPECIFIC_Unmarshal) spec_TPM2B_PRIVATE_VENDOR_SPECIFIC
| mu_TPM2B_PRIVATE : mu_codec (fun H => ADDR Tss2_MU_TPM2B_PRIVATE_Marshal) (fun H => Tss2_MU_TPM2B_PRIVATE_Unmarshal) spec_TPM2B_PRIVATE
| mu_TPM2B_ID_OBJECT : mu_codec (fun H => ADDR Tss2_MU_TPM2B_ID_OBJECT_Marshal) (fun H => Tss2_MU_TPM2B_ID_OBJECT_Unmarshal) spec_TPM2B_ID_OBJECT
| mu_TPM2B_CONTEXT_SENSITIVE : mu_codec (fun H => ADDR Tss2_MU_TPM2B_CONTEXT_SENSITIVE_Marshal) (fun H => Tss2_MU_TPM2B_CONTEXT_SENSITIVE_Unmarshal) spec_TPM2B_CONTEXT_SENSITIVE
| mu_TPM2B_CONTEXT_DATA : mu_codec (fun H => ADDR Tss2_MU_TPM2B_CONTEXT_DATA_Marshal) (fun H => Tss2_MU_TPM2B_CONTEXT_DATA_Unmarshal) spec_TPM2B_CONTEXT_DATA
| mu_TPM2B_NONCE : mu_codec (fun H => ADDR Tss2_MU_TPM2B_NONCE_Marshal) (fun H => Tss2_MU_TPM2B_NONCE_Unmarshal) spec_TPM2B_NONCE
| mu_TPM2B_TIMEOUT : mu_codec (fun H => ADDR Tss2_MU_TPM2B_TIMEOUT_Marshal) (fun H => Tss2_MU_TPM2B_TIMEOUT_Unmarshal) spec_TPM2B_TIMEOUT
| mu_TPM2B_AUTH : mu_codec (fun H => ADDR Tss2_MU_TPM2B_AUTH_Marshal) (fun H => Tss2_MU_TPM2B_AUTH_Unmarshal) spec_TPM2B_AUTH
| mu_TPM2B_OPERAND : mu_codec (fun H => ADDR Tss2_MU_TPM2B_OPERAND_Marshal) (fun H => Tss2_MU_TPM2B_OPERAND_Unmarshal) spec_TPM2B_OPERAND
| mu_TPM2B_TEMPLATE : mu_codec (fun H => ADDR Tss2_MU_TPM2B_TEMPLATE_Marshal) (fun H => Tss2_MU_TPM2B_TEMPLATE_Unmarshal) spec_TPM2B_TEMPLATE
| mu_TPM2B_MAX_CAP_BUFFER : mu_codec (fun H => ADDR Tss2_MU_TPM2B_MAX_CAP_BUFFER_Marshal) (fun H => Tss2_MU_TPM2B_MAX_CAP_BUFFER_Unmarshal) spec_TPM2B_MAX_CAP_BUFFER
| mu_TPM2B_MLKEM_PUBLIC_KEY : mu_codec (fun H => ADDR Tss2_MU_TPM2B_MLKEM_PUBLIC_KEY_Marshal) (fun H => Tss2_MU_TPM2B_MLKEM_PUBLIC_KEY_Unmarshal) spec_TPM2B_MLKEM_PUBLIC_KEY
| mu_TPM2B_MLKEM_PRIVATE_KEY : mu_codec (fun H => ADDR Tss2_MU_TPM2B_MLKEM_PRIVATE_KEY_Marshal) (fun H => Tss2_MU_TPM2B_MLKEM_PRIVATE_KEY_Unmarshal) spec_TPM2B_MLKEM_PRIVATE_KEY
| mu_TPM2B_MLKEM_CIPHERTEXT : mu_codec (fun H => ADDR Tss2_MU_TPM2B_MLKEM_CIPHERTEXT_Marshal) (fun H => Tss2_MU_TPM2B_MLKEM_CIPHERTEXT_Unmarshal) spec_TPM2B_MLKEM_CIPHERTEXT
| mu_TPM2B_MLDSA_PUBLIC_KEY : mu_codec (fun H => ADDR Tss2_MU_TPM2B_MLDSA_PUBLIC_KEY_Marshal) (fun H => Tss2_MU_TPM2B_MLDSA_PUBLIC_KEY_Unmarshal) spec_TPM2B_MLDSA_PUBLIC_KEY
| mu_TPM2B_MLDSA_PRIVATE_KEY : mu_codec (fun H => ADDR Tss2_MU_TPM2B_MLDSA_PRIVATE_KEY_Marshal) (fun H => Tss2_MU_TPM2B_MLDSA_PRIVATE_KEY_Unmarshal) spec_TPM2B_MLDSA_PRIVATE_KEY
| mu_TPM2B_MLDSA_SIGNATURE : mu_codec (fun H => ADDR Tss2_MU_TPM2B_MLDSA_SIGNATURE_Marshal) (fun H => Tss2_MU_TPM2B_MLDSA_SIGNATURE_Unmarshal) spec_TPM2B_MLDSA_SIGNATURE
| mu_TPML_CC : mu_codec (fun H => ADDR Tss2_MU_TPML_CC_Marshal) (fun H => Tss2_MU_TPML_CC_Unmarshal) spec_TPML_CC
| mu_TPML_CCA : mu_codec (fun H => ADDR Tss2_MU_TPML_CCA_Marshal) (fun H => Tss2_MU_TPML_CCA_Unmarshal) spec_TPML_CCA
| mu_TPML_ALG : mu_codec (fun H => ADDR Tss2_MU_TPML_ALG_Marshal) (fun H => Tss2_MU_TPML_ALG_Unmarshal) spec_TPML_ALG
| mu_TPML_HANDLE : mu_codec (fun H => ADDR Tss2_MU_TPML_HANDLE_Marshal) (fun H => Tss2_MU_TPML_HANDLE_Unmarshal) spec_TPML_HANDLE
| mu_TPML_DIGEST : mu_codec (fun H => ADDR Tss2_MU_TPML_DIGEST_Marshal) (fun H => Tss2_MU_TPML_DIGEST_Unmarshal) spec_TPML_DIGEST
| mu_TPML_ALG_PROPERTY : mu_codec (fun H => ADDR Tss2_MU_TPML_ALG_PROPERTY_Marshal) (fun H => Tss2_MU_TPML_ALG_PROPERTY_Unmarshal) spec_TPML_ALG_PROPERTY
| mu_TPML_ECC_CURVE : mu_codec (fun H => ADDR Tss2_MU_TPML_ECC_CURVE_Marshal) (fun H => Tss2_MU_TPML_ECC_CURVE_Unmarshal) spec_TPML_ECC_CURVE
| mu_TPML_TAGGED_TPM_PROPERTY : mu_codec (fun H => ADDR Tss2_MU_TPML_TAGGED_TPM_PROPERTY_Marshal) (fun H => Tss2_MU_TPML_TAGGED_TPM_PROPERTY_Unmarshal) spec_TPML_TAGGED_TPM_PROPERTY
| mu_TPML_TAGGED_PCR_PROPERTY : mu_codec (fun H => ADDR Tss2_MU_TPML_TAGGED_PCR_PROPERTY_Marshal) (fun H => Tss2_MU_TPML_TAGGED_PCR_PROPERTY_Unmarshal) spec_TPML_TAGGED_PCR_PROPERTY
| mu_TPML_PCR_SELECTION : mu_codec (fun H => ADDR Tss2_MU_TPML_PCR_SELECTION_Marshal) (fun H => Tss2_MU_TPML_PCR_SELECTION_Unmarshal) spec_TPML_PCR_SELECTION
| mu_TPML_DIGEST_VALUES : mu_codec (fun H => ADDR Tss2_MU_TPML_DIGEST_VALUES_Marshal) (fun H => Tss2_MU_TPML_DIGEST_VALUES_Unmarshal) spec_TPML_DIGEST_VALUES
| mu_TPML_INTEL_PTT_PROPERTY : mu_codec (fun H => ADDR Tss2_MU_TPML_INTEL_PTT_PROPERTY_Marshal) (fun H => Tss2_MU_TPML_INTEL_PTT_PROPERTY_Unmarshal) spec_TPML_INTEL_PTT_PROPERTY
| mu_TPML_AC_CAPABILITIES : mu_codec (fun H => ADDR Tss2_MU_TPML_AC_CAPABILITIES_Marshal) (fun H => Tss2_MU_TPML_AC_CAPABILITIES_Unmarshal) spec_TPML_AC_CAPABILITIES
| mu_TPML_TAGGED_POLICY : mu_codec (fun H => ADDR Tss2_MU_TPML_TAGGED_POLICY_Marshal) (fun H => Tss2_MU_TPML_TAGGED_POLICY_Unmarshal) spec_TPML_TAGGED_POLICY
| mu_TPML_ACT_DATA : mu_codec (fun H => ADDR Tss2_MU_TPML_ACT_DATA_Marshal) (fun H => Tss2_MU_TPML_ACT_DATA_Unmarshal) spec_TPML_ACT_DATA
| mu_TPML_ML_PARAMETER_SET : mu_codec (fun H => ADDR Tss2_MU_TPML_ML_PARAMETER_SET_Marshal) (fun H => Tss2_MU_TPML_ML_PARAMETER_SET_Unmarshal) spec_TPML_ML_PARAMETER_SET
| mu_TPMS_ALG_PROPERTY : mu_codec (fun H => ADDR Tss2_MU_TPMS_ALG_PROPERTY_Marshal) (fun H => Tss2_MU_TPMS_ALG_PROPERTY_Unmarshal) spec_TPMS_ALG_PROPERTY
| mu_TPMS_TAGGED_PROPERTY : mu_codec (fun H => ADDR Tss2_MU_TPMS_TAGGED_PROPERTY_Marshal) (fun H => Tss2_MU_TPMS_TAGGED_PROPERTY_Unmarshal) spec_TPMS_TAGGED_PROPERTY
| mu_TPMS_TAGGED_POLICY : mu_codec (fun H => ADDR Tss2_MU_TPMS_TAGGED_POLICY_Marshal) (fun H => Tss2_MU_TPMS_TAGGED_POLICY_Unmarshal) spec_TPMS_TAGGED_POLICY
| mu_TPMS_CLOCK_INFO : mu_codec (fun H => ADDR Tss2_MU_TPMS_CLOCK_INFO_Marshal) (fun H => Tss2_MU_TPMS_CLOCK_INFO_Unmarshal) spec_TPMS_CLOCK_INFO
| mu_TPMS_TIME_INFO : mu_codec (fun H => ADDR Tss2_MU_TPMS_TIME_INFO_Marshal) (fun H => Tss2_MU_TPMS_TIME_INFO_Unmarshal) spec_TPMS_TIME_INFO
| mu_TPMS_TIME_ATTEST_INFO : mu_codec (fun H => ADDR Tss2_MU_TPMS_TIME_ATTEST_INFO_Marshal) (fun H => Tss2_MU_TPMS_TIME_ATTEST_INFO_Unmarshal) spec_TPMS_TIME_ATTEST_INFO
| mu_TPMS_CERTIFY_INFO : mu_codec (fun H => ADDR Tss2_MU_TPMS_CERTIFY_INFO_Marshal) (fun H => Tss2_MU_TPMS_CERTIFY_INFO_Unmarshal) spec_TPMS_CERTIFY_INFO
| mu_TPMS_COMMAND_AUDIT_INFO : mu_codec (fun H => ADDR Tss2_MU_TPMS_COMMAND_AUDIT_INFO_Marshal) (fun H => Tss2_MU_TPMS_COMMAND_AUDIT_INFO_Unmarshal) spec_TPMS_COMMAND_AUDIT_INFO
| mu_TPMS_SESSION_AUDIT_INFO : mu_codec (fun H => ADDR Tss2_MU_TPMS_SESSION_AUDIT_INFO_Marshal) (fun H => Tss2_MU_TPMS_SESSION_AUDIT_INFO_Unmarshal) spec_TPMS_SESSION_AUDIT_INFO
| mu_TPMS_CREATION_INFO : mu_codec (fun H => ADDR Tss2_MU_TPMS_CREATION_INFO_Marshal) (fun H => Tss2_MU_TPMS_CREATION_INFO_Unmarshal) spec_TPMS_CREATION_INFO
| mu_TPMS_NV_CERTIFY_INFO : mu_codec (fun H => ADDR Tss2_MU_TPMS_NV_CERTIFY_INFO_Marshal) (fun H => Tss2_MU_TPMS_NV_CERTIFY_INFO_Unmarshal) spec_TPMS_NV_CERTIFY_INFO
| mu_TPMS_AUTH_COMMAND : mu_codec (fun H => ADDR Tss2_MU_TPMS_AUTH_COMMAND_Marshal) (fun H => Tss2_MU_TPMS_AUTH_COMMAND_Unmarshal) spec_TPMS_AUTH_COMMAND
| mu_TPMS_AUTH_RESPONSE : mu_codec (fun H => ADDR Tss2_MU_TPMS_AUTH_RESPONSE_Marshal) (fun H => Tss2_MU_TPMS_AUTH_RESPONSE_Unmarshal) spec_TPMS_AUTH_RESPONSE
| mu_TPMS_SENSITIVE_CREATE : mu_codec (fun H => ADDR Tss2_MU_TPMS_SENSITIVE_CREATE_Marshal) (fun H => Tss2_MU_TPMS_SENSITIVE_CREATE_Unmarshal) spec_TPMS_SENSITIVE_CREATE
| mu_TPMS_SCHEME_HASH : mu_codec (fun H => ADDR Tss2_MU_TPMS_SCHEME_HASH_Marshal) (fun H => Tss2_MU_TPMS_SCHEME_HASH_Unmarshal) spec_TPMS_SCHEME_HASH
| mu_TPMS_SCHEME_ECDAA : mu_codec (fun H => ADDR Tss2_MU_TPMS_SCHEME_ECDAA_Marshal) (fun H => Tss2_MU_TPMS_SCHEME_ECDAA_Unmarshal) spec_TPMS_SCHEME_ECDAA
| mu_TPMS_SCHEME_XOR : mu_codec (fun H => ADDR Tss2_MU_TPMS_SCHEME_XOR_Marshal) (fun H => Tss2_MU_TPMS_SCHEME_XOR_Unmarshal) spec_TPMS_SCHEME_XOR
| mu_TPMS_ECC_POINT : mu_codec (fun H => ADDR Tss2_MU_TPMS_ECC_POINT_Marshal) (fun H => Tss2_MU_TPMS_ECC_POINT_Unmarshal) spec_TPMS_ECC_POINT
| mu_TPMS_SIGNATURE_RSA : mu_codec (fun H => ADDR Tss2_MU_TPMS_SIGNATURE_RSA_Marshal) (fun H => Tss2_MU_TPMS_SIGNATURE_RSA_Unmarshal) spec_TPMS_SIGNATURE_RSA
| mu_TPMS_SIGNATURE_ECC : mu_codec (fun H => ADDR Tss2_MU_TPMS_SIGNATURE_ECC_Marshal) (fun H => Tss2_MU_TPMS_SIGNATURE_ECC_Unmarshal) spec_TPMS_SIGNATURE_ECC
| mu_TPMS_NV_PIN_COUNTER_PARAMETERS : mu_codec (fun H => ADDR Tss2_MU_TPMS_NV_PIN_COUNTER_PARAMETERS_Marshal) (fun H => Tss2_MU_TPMS_NV_PIN_COUNTER_PARAMETERS_Unmarshal) spec_TPMS_NV_PIN_COUNTER_PARAMETERS
| mu_TPMS_NV_PUBLIC : mu_codec (fun H => ADDR Tss2_MU_TPMS_NV_PUBLIC_Marshal) (fun H => Tss2_MU_TPMS_NV_PUBLIC_Unmarshal) spec_TPMS_NV_PUBLIC
| mu_TPMS_CONTEXT_DATA : mu_codec (fun H => ADDR Tss2_MU_TPMS_CONTEXT_DATA_Marshal) (fun H => Tss2_MU_TPMS_CONTEXT_DATA_Unmarshal) spec_TPMS_CONTEXT_DATA
| mu_TPMS_CONTEXT : mu_codec (fun H => ADDR Tss2_MU_TPMS_CONTEXT_Marshal) (fun H => Tss2_MU_TPMS_CONTEXT_Unmarshal) spec_TPMS_CONTEXT
| mu_TPMS_QUOTE_INFO : mu_codec (fun H => ADDR Tss2_MU_TPMS_QUOTE_INFO_Marshal) (fun H => Tss2_MU_TPMS_QUOTE_INFO_Unmarshal) spec_TPMS_QUOTE_INFO
| mu_TPMS_CREATION_DATA : mu_codec (fun H => ADDR Tss2_MU_TPMS_CREATION_DATA_Marshal) (fun H => Tss2_MU_TPMS_CREATION_DATA_Unmarshal) spec_TPMS_CREATION_DATA
| mu_TPMS_ECC_PARMS : mu_codec (fun H => ADDR Tss2_MU_TPMS_ECC_PARMS_Marshal) (fun H => Tss2_MU_TPMS_ECC_PARMS_Unmarshal) spec_TPMS_ECC_PARMS
| mu_TPMS_ML_PARAMETER_SET : mu_codec (fun H => ADDR Tss2_MU_TPMS_ML_PARAMETER_SET_Marshal) (fun H => Tss2_MU_TPMS_ML_PARAMETER_SET_Unmarshal) spec_TPMS_ML_PARAMETER_SET
| mu_TPMS_MLKEM_PARMS : mu_codec (fun H => ADDR Tss2_MU_TPMS_MLKEM_PARMS_Marshal) (fun H => Tss2_MU_TPMS_MLKEM_PARMS_Unmarshal) spec_TPMS_MLKEM_PARMS
| mu_TPMS_MLDSA_PARMS : mu_codec (fun H => ADDR Tss2_MU_TPMS_MLDSA_PARMS_Marshal) (fun H => Tss2_MU_TPMS_MLDSA_PARMS_Unmarshal) spec_TPMS_MLDSA_PARMS
| mu_TPMS_SIGNATURE_MLDSA : mu_codec (fun H => ADDR Tss2_MU_TPMS_SIGNATURE_MLDSA_Marshal) (fun H => Tss2_MU_TPMS_SIGNATURE_MLDSA_Unmarshal) spec_TPMS_SIGNATURE_MLDSA
| mu_TPMS_ATTEST : mu_codec (fun H => ADDR Tss2_MU_TPMS_ATTEST_Marshal) (fun H => Tss2_MU_TPMS_ATTEST_Unmarshal) spec_TPMS_ATTEST
| mu_TPMS_ALGORITHM_DETAIL_ECC : mu_codec (fun H => ADDR Tss2_MU_TPMS_ALGORITHM_DETAIL_ECC_Marshal) (fun H => Tss2_MU_TPMS_ALGORITHM_DETAIL_ECC_Unmarshal) spec_TPMS_ALGORITHM_DETAIL_ECC
| mu_TPMS_CAPABILITY_DATA : mu_codec (fun H => ADDR Tss2_MU_TPMS_CAPABILITY_DATA_Marshal) (fun H => Tss2_MU_TPMS_CAPABILITY_DATA_Unmarshal) spec_TPMS_CAPABILITY_DATA
| mu_TPMS_KEYEDHASH_PARMS : mu_codec (fun H => ADDR Tss2_MU_TPMS_KEYEDHASH_PARMS_Marshal) (fun H => Tss2_MU_TPMS_KEYEDHASH_PARMS_Unmarshal) spec_TPMS_KEYEDHASH_PARMS
| mu_TPMS_RSA_PARMS : mu_codec (fun H => ADDR Tss2_MU_TPMS_RSA_PARMS_Marshal) (fun H => Tss2_MU_TPMS_RSA_PARMS_Unmarshal) spec_TPMS_RSA_PARMS
| mu_TPMS_SYMCIPHER_PARMS : mu_codec (fun H => ADDR Tss2_MU_TPMS_SYMCIPHER_PARMS_Marshal) (fun H => Tss2_MU_TPMS_SYMCIPHER_PARMS_Unmarshal) spec_TPMS_SYMCIPHER_PARMS
| mu_TPMS_EMPTY : mu_codec (fun H => ADDR Tss2_MU_TPMS_EMPTY_Marshal) (fun H => Tss2_MU_TPMS_EMPTY_Unmarshal) spec_TPMS_EMPTY
| mu_TPMS_AC_OUTPUT : mu_codec (fun H => ADDR Tss2_MU_TPMS_AC_OUTPUT_Marshal) (fun H => Tss2_MU_TPMS_AC_OUTPUT_Unmarshal) spec_TPMS_AC_OUTPUT
| mu_TPMS_ID_OBJECT : mu_codec (fun H => ADDR Tss2_MU_TPMS_ID_OBJECT_Marshal) (fun H => Tss2_MU_TPMS_ID_OBJECT_Unmarshal) spec_TPMS_ID_OBJECT
| mu_TPMS_NV_DIGEST_CERTIFY_INFO : mu_codec (fun H => ADDR Tss2_MU_TPMS_NV_DIGEST_CERTIFY_INFO_Marshal) (fun H => Tss2_MU_TPMS_NV_DIGEST_CERTIFY_INFO_Unmarshal) spec_TPMS_NV_DIGEST_CERTIFY_INFO
| mu_TPMS_ACT_DATA : mu_codec (fun H => ADDR Tss2_MU_TPMS_ACT_DATA_Marshal) (fun H => Tss2_MU_TPMS_ACT_DATA_Unmarshal) spec_TPMS_ACT_DATA
| mu_TPMT_HA : mu_codec (fun H => ADDR Tss2_MU_TPMT_HA_Marshal) (fun H => Tss2_MU_TPMT_HA_Unmarshal) spec_TPMT_HA
| mu_TPMT_SYM_DEF : mu_codec (fun H => ADDR Tss2_MU_TPMT_SYM_DEF_Marshal) (fun H => Tss2_MU_TPMT_SYM_DEF_Unmarshal) spec_TPMT_SYM_DEF
| mu_TPMT_SYM_DEF_OBJECT : mu_codec (fun H => ADDR Tss2_MU_TPMT_SYM_DEF_OBJECT_Marshal) (fun H => Tss2_MU_TPMT_SYM_DEF_OBJECT_Unmarshal) spec_TPMT_SYM_DEF_OBJECT
| mu_TPMT_KEYEDHASH_SCHEME : mu_codec (fun H => ADDR Tss2_MU_TPMT_KEYEDHASH_SCHEME_Marshal) (fun H => Tss2_MU_TPMT_KEYEDHASH_SCHEME_Unmarshal) spec_TPMT_KEYEDHASH_SCHEME
| mu_TPMT_SIG_SCHEME : mu_codec (fun H => ADDR Tss2_MU_TPMT_SIG_SCHEME_Marshal) (fun H => Tss2_MU_TPMT_SIG_SCHEME_Unmarshal) spec_TPMT_SIG_SCHEME
| mu_TPMT_KDF_SCHEME : mu_codec (fun H => ADDR Tss2_MU_TPMT_KDF_SCHEME_Marshal) (fun H => Tss2_MU_TPMT_KDF_SCHEME_Unmarshal) spec_TPMT_KDF_SCHEME
| mu_TPMT_ASYM_SCHEME : mu_codec (fun H => ADDR Tss2_MU_TPMT_ASYM_SCHEME_Marshal) (fun H => Tss2_MU_TPMT_ASYM_SCHEME_Unmarshal) spec_TPMT_ASYM_SCHEME
| mu_TPMT_RSA_SCHEME : mu_codec (fun H => ADDR Tss2_MU_TPMT_RSA_SCHEME_Marshal) (fun H => Tss2_MU_TPMT_RSA_SCHEME_Unmarshal) spec_TPMT_RSA_SCHEME
| mu_TPMT_RSA_DECRYPT : mu_codec (fun H => ADDR Tss2_MU_TPMT_RSA_DECRYPT_Marshal) (fun H => Tss2_MU_TPMT_RSA_DECRYPT_Unmarshal) spec_TPMT_RSA_DECRYPT
| mu_TPMT_ECC_SCHEME : mu_codec (fun H => ADDR Tss2_MU_TPMT_ECC_SCHEME_Marshal) (fun H => Tss2_MU_TPMT_ECC_SCHEME_Unmarshal) spec_TPMT_ECC_SCHEME
| mu_TPMT_SIGNATURE : mu_codec (fun H => ADDR Tss2_MU_TPMT_SIGNATURE_Marshal) (fun H => Tss2_MU_TPMT_SIGNATURE_Unmarshal) spec_TPMT_SIGNATURE
| mu_TPMT_SENSITIVE : mu_codec (fun H => ADDR Tss2_MU_TPMT_SENSITIVE_Marshal) (fun H => Tss2_MU_TPMT_SENSITIVE_Unmarshal) spec_TPMT_SENSITIVE
| mu_TPMT_PUBLIC : mu_codec (fun H => ADDR Tss2_MU_TPMT_PUBLIC_Marshal) (fun H => Tss2_MU_TPMT_PUBLIC_Unmarshal) spec_TPMT_PUBLIC
| mu_TPMT_PUBLIC_PARMS : mu_codec (fun H => ADDR Tss2_MU_TPMT_PUBLIC_PARMS_Marshal) (fun H => Tss2_MU_TPMT_PUBLIC_PARMS_Unmarshal) spec_TPMT_PUBLIC_PARMS
| mu_TPMT_TK_CREATION : mu_codec (fun H => ADDR Tss2_MU_TPMT_TK_CREATION_Marshal) (fun H => Tss2_MU_TPMT_TK_CREATION_Unmarshal) spec_TPMT_TK_CREATION
| mu_TPMT_TK_VERIFIED : mu_codec (fun H => ADDR Tss2_MU_TPMT_TK_VERIFIED_Marshal) (fun H => Tss2_MU_TPMT_TK_VERIFIED_Unmarshal) spec_TPMT_TK_VERIFIED
| mu_TPMT_TK_AUTH : mu_codec (fun H => ADDR Tss2_MU_TPMT_TK_AUTH_Marshal) (fun H => Tss2_MU_TPMT_TK_AUTH_Unmarshal) spec_TPMT_TK_AUTH
| mu_TPMT_TK_HASHCHECK : mu_codec (fun H => ADDR Tss2_MU_TPMT_TK_HASHCHECK_Marshal) (fun H => Tss2_MU_TPMT_TK_HASHCHECK_Unmarshal) spec_TPMT_TK_HASHCHECK.

Inductive mu_lax_codec :
    forall {T : Type}, (Host -> T -> mstep) -> (Host -> ufn T) -> spec T -> Prop :=
| mu_TPM2B_ECC_POINT : mu_lax_codec (fun H => ADDR Tss2_MU_TPM2B_ECC_POINT_Marshal) (fun H => Tss2_MU_TPM2B_ECC_POINT_Unmarshal) spec_TPM2B_ECC_POINT
| mu_TPM2B_NV_PUBLIC : mu_lax_codec (fun H => ADDR Tss2_MU_TPM2B_NV_PUBLIC_Marshal) (fun H => Tss2_MU_TPM2B_NV_PUBLIC_Unmarshal) spec_TPM2B_NV_PUBLIC
| mu_TPM2B_SENSITIVE : mu_lax_codec (fun H => ADDR Tss2_MU_TPM2B_SENSITIVE_Marshal) (fun H => Tss2_MU_TPM2B_SENSITIVE_Unmarshal) spec_TPM2B_SENSITIVE
| mu_TPM2B_SENSITIVE_CREATE : mu_lax_codec (fun H => ADDR Tss2_MU_TPM2B_SENSITIVE_CREATE_Marshal) (fun H => Tss2_MU_TPM2B_SENSITIVE_CREATE_Unmarshal) spec_TPM2B_SENSITIVE_CREATE
| mu_TPM2B_CREATION_DATA : mu_lax_codec (fun H => ADDR Tss2_MU_TPM2B_CREATION_DATA_Marshal) (fun H => Tss2_MU_TPM2B_CREATION_DATA_Unmarshal) spec_TPM2B_CREATION_DATA
| mu_TPM2B_PUBLIC : mu_lax_codec (fun H => ADDR Tss2_MU_TPM2B_PUBLIC_Marshal) (fun H => Tss2_MU_TPM2B_PUBLIC_Unmarshal) spec_TPM2B_PUBLIC.

Inductive mu_union_codec :
    forall {U : Type}, (Host -> U -> Z -> mstep) -> (Host -> ufn_sel U) ->
      (U -> Prop) -> (Z -> spec U) -> Z -> Prop :=
| mu_TPMU_HA : mu_union_codec (fun H => ADDR Tss2_MU_TPMU_HA_Marshal) (fun H => Tss2_MU_TPMU_HA_Unmarshal) wf_TPMU_HA spec_TPMU_HA max_TPMU_HA
| mu_TPMU_CAPABILITIES : mu_union_codec (fun H => ADDR Tss2_MU_TPMU_CAPABILITIES_Marshal) (fun H => Tss2_MU_TPMU_CAPABILITIES_Unmarshal) wf_TPMU_CAPABILITIES spec_TPMU_CAPABILITIES max_TPMU_CAPABILITIES
| mu_TPMU_ATTEST : mu_union_codec (fun H => ADDR Tss2_MU_TPMU_ATTEST_Marshal) (fun H => Tss2_MU_TPMU_ATTEST_Unmarshal) wf_TPMU_ATTEST spec_TPMU_ATTEST max_TPMU_ATTEST
| mu_TPMU_SYM_KEY_BITS : mu_union_codec (fun H => ADDR Tss2_MU_TPMU_SYM_KEY_BITS_Marshal) (fun H => Tss2_MU_TPMU_SYM_KEY_BITS_Unmarshal) wf_TPMU_SYM_KEY_BITS spec_TPMU_SYM_KEY_BITS max_TPMU_SYM_KEY_BITS
| mu_TPMU_SYM_MODE : mu_union_codec (fun H => ADDR Tss2_MU_TPMU_SYM_MODE_Marshal) (fun H => Tss2_MU_TPMU_SYM_MODE_Unmarshal) wf_TPMU_SYM_MODE spec_TPMU_SYM_MODE max_TPMU_SYM_MODE
| mu_TPMU_SIG_SCHEME : mu_union_codec (fun H => ADDR Tss2_MU_TPMU_SIG_SCHEME_Marshal) (fun H => Tss2_MU_TPMU_SIG_SCHEME_Unmarshal) wf_TPMU_SIG_SCHEME spec_TPMU_SIG_SCHEME max_TPMU_SIG_SCHEME
| mu_TPMU_KDF_SCHEME : mu_union_codec (fun H => ADDR Tss2_MU_TPMU_KDF_SCHEME_Marshal) (fun H => Tss2_MU_TPMU_KDF_SCHEME_Unmarshal) wf_TPMU_KDF_SCHEME spec_TPMU_KDF_SCHEME max_TPMU_KDF_SCHEME
| mu_TPMU_ASYM_SCHEME : mu_union_codec (fun H => ADDR Tss2_MU_TPMU_ASYM_SCHEME_Marshal) (fun H => Tss2_MU_TPMU_ASYM_SCHEME_Unmarshal) wf_TPMU_ASYM_SCHEME spec_TPMU_ASYM_SCHEME max_TPMU_ASYM_SCHEME
| mu_TPMU_SCHEME_KEYEDHASH : mu_union_codec (fun H => ADDR Tss2_MU_TPMU_SCHEME_KEYEDHASH_Marshal) (fun H => Tss2_MU_TPMU_SCHEME_KEYEDHASH_Unmarshal) wf_TPMU_SCHEME_KEYEDHASH spec_TPMU_SCHEME_KEYEDHASH max_TPMU_SCHEME_KEYEDHASH
| mu_TPMU_SIGNATURE : mu_union_codec (fun H => ADDR Tss2_MU_TPMU_SIGNATURE_Marshal) (fun H => Tss2_MU_TPMU_SIGNATURE_Unmarshal) wf_TPMU_SIGNATURE spec_TPMU_SIGNATURE max_TPMU_SIGNATURE
| mu_TPMU_SENSITIVE_COMPOSITE : mu_union_codec (fun H => ADDR Tss2_MU_TPMU_SENSITIVE_COMPOSITE_Marshal) (fun H => Tss2_MU_TPMU_SENSITIVE_COMPOSITE_Unmarshal) wf_TPMU_SENSITIVE_COMPOSITE spec_TPMU_SENSITIVE_COMPOSITE max_TPMU_SENSITIVE_COMPOSITE
| mu_TPMU_ENCRYPTED_SECRET : mu_union_codec (fun H => ADDR Tss2_MU_TPMU_ENCRYPTED_SECRET_Marshal) (fun H => Tss2_MU_TPMU_ENCRYPTED_SECRET_Unmarshal) wf_TPMU_ENCRYPTED_SECRET spec_TPMU_ENCRYPTED_SECRET max_TPMU_ENCRYPTED_SECRET
| mu_TPMU_PUBLIC_ID : mu_union_codec (fun H => ADDR Tss2_MU_TPMU_PUBLIC_ID_Marshal) (fun H => Tss2_MU_TPMU_PUBLIC_ID_Unmarshal) wf_TPMU_PUBLIC_ID spec_TPMU_PUBLIC_ID max_TPMU_PUBLIC_ID
| mu_TPMU_PUBLIC_PARMS : mu_union_codec (fun H => ADDR Tss2_MU_TPMU_PUBLIC_PARMS_Marshal) (fun H => Tss2_MU_TPMU_PUBLIC_PARMS_Unmarshal) wf_TPMU_PUBLIC_PARMS spec_TPMU_PUBLIC_PARMS max_TPMU_PUBLIC_PARMS
| mu_TPMU_NAME : mu_union_codec (fun H => ADDR Tss2_MU_TPMU_NAME_Marshal) (fun H => Tss2_MU_TPMU_NAME_Unmarshal) wf_TPMU_NAME spec_TPMU_NAME max_TPMU_NAME.

Lemma mu_codec_ok {T} (m : Host -> T -> mstep) u s :
  mu_codec m u s -> forall H, codec_ok (m H) (u H) s.
Proof. intros []; intros; eauto 2 with mu. Qed.

Lemma mu_lax_codec_ok {T} (m : Host -> T -> mstep) u s :
  mu_lax_codec m u s -> forall H, lax_codec_ok (m H) (u H) s.
Proof. intros []; intros; eauto 2 with mu. Qed.

Lemma mu_union_codec_ok {U} (m : Host -> U -> Z -> mstep) u wf su mx :
  mu_union_codec m u wf su mx -> forall H, union_ok (m H) (u H) wf su mx.
Proof. intros []; intros; eauto 2 with mu. Qed.

(** Any of the types: strict, lax, or a union with its selector. *)
Inductive mu_type :
    forall {T : Type}, (Host -> T -> mstep) -> (Host -> ufn T) -> spec T -> Prop :=
| mu_strict {T} (m : Host -> T -> mstep) u s : mu_codec m u s -> mu_type m u s
| mu_lax {T} (m : Host -> T -> mstep) u s : mu_lax_codec m u s -> mu_type m u s
| mu_union {U} (m : Host -> U -> Z -> mstep) u wf su mx z :
    mu_union_codec m u wf su mx ->
    mu_type (fun H x => m H x z) (fun H b n o => u H b n o z) (su z).

(** Strict types and unions. *)
Inductive mu_strict_type :
    forall {T : Type}, (Host -> T -> mstep) -> (Host -> ufn T) -> spec T -> Prop :=
| mus_strict {T} (m : Host -> T -> mstep) u s : mu_codec m u s -> mu_strict_type m u s
| mus_union {U} (m : Host -> U -> Z -> mstep) u wf su mx z :
    mu_union_codec m u wf su mx ->
    mu_strict_type (fun H x => m H x z) (fun H b n o => u H b n o z) (su z).

Lemma mu_strict_type_ok {T} (m : Host -> T -> mstep) u s :
  mu_strict_type m u s -> forall H, codec_ok (m H) (u H) s.
Proof.
  intros [? ? ? ? R|? ? ? ? ? mx z R] host; [exact (mu_codec_ok _ _ _ R host)|].
  exact (uo_codec _ _ _ _ _ (mu_union_codec_ok _ _ _ _ _ R host) z).
Qed.

Lemma codec_lax {T} (m : T -> mstep) u s : codec_ok m u s -> lax_codec_ok m u s.
Proof.
  intros [O M P]. split; [done|done|by apply parse_ok_recognise|by apply parse_ok_safe].
Qed.

Lemma mu_type_ok {T} (m : Host -> T -> mstep) u s :
  mu_type m u s -> forall H, lax_codec_ok (m H) (u H) s.
Proof.
  intros [? ? ? ? R|? ? ? ? R|? ? ? ? ? mx z R] host.
  - exact (codec_lax _ _ _ (mu_codec_ok _ _ _ R host)).
  - exact (mu_lax_codec_ok _ _ _ R host).
  - exact (codec_lax _ _ _ (uo_codec _ _ _ _ _ (mu_union_codec_ok _ _ _ _ _ R host) z)).
Qed.
