(* ===== verification/MuProps.v ===== *)
(** * Properties of the marshaling library.

    The statements quantify over the types listed in [MuRegistry] and over
    the byte order of the hosts. *)

From S2P Require Import Prelude Common MuSpec MuBase MuBaseOk MuStruct MuStructOk MuTpm2b MuTpm2bOk MuUnion TpmTypes MuTypes MuTypesOk MuRegistry.
Open Scope tss_scope.

(** ** Shared facts *)

Section Facts.
Context {T : Type} (m : Host -> T -> mstep) (u : Host -> ufn T) (s : spec T).
Context (R : mu_type m u s).

Lemma mu_spec_ok : SpecOk s.
Proof. exact (lo_spec _ _ _ (mu_type_ok m u s R little_endian_host)). Qed.

(** Where the image fits, marshaling writes it, on any host. *)
Lemma mu_marshal_fits H x w b size lo :
  s_wf s x -> s_wire s x = Some w -> 0 <= lo -> 0 <= size <= Zlen b -> lo + Zlen w <= size ->
  exists b', m H x (Some b) size (Some lo)
             = Ret (TSS2_RC_SUCCESS, (Some b', Some (lo + Zlen w))) /\
             mem_write b lo w = Some b'.
Proof.
  intros W E ? ? ?. pose proof mu_spec_ok.
  eapply marshal_ok_fits; [exact (lo_marshal _ _ _ (mu_type_ok m u s R H))|done| |done..].
  exact (so_dom _ _ W E).
Qed.

(** A marshal call that succeeds has written the image of the object. *)
Lemma mu_marshal_image H x b size lo b' lo' :
  s_wf s x -> s_dom s x -> 0 <= lo -> 0 <= size <= Zlen b ->
  m H x (Some b) size (Some lo) = Ret (TSS2_RC_SUCCESS, (Some b', Some lo')) ->
  exists w, s_wire s x = Some w /\ fits lo w size /\ lo' = lo + Zlen w /\ written b lo w b'.
Proof.
  intros W D ? ? E. destruct (lo_marshal _ _ _ (mu_type_ok m u s R H) x W D) as [P _].
  destruct (P b size lo) as (rc&b1&lo1&E1&Po); [done..|]. rewrite E in E1. simplify_eq.
  destruct Po as [(w&?&?&_&->&?)|[? _]]; [|done]. by exists w.
Qed.

End Facts.

(** The image of a PCR-less example: AES-128 in CFB mode. *)
Definition aes_128_cfb : TPMT_SYM_DEF_OBJECT := Mk_TPMT_SYM_DEF_OBJECT TPM2_ALG_AES 128 67.

(** ** Properties *)

(** C1: marshaling an object of any type of the library on one host and
    unmarshaling the bytes on another host gives the object back, with both
    offsets advanced by the length of its wire image. *)
Theorem mu_roundtrip {T} (m : Host -> T -> mstep) (u : Host -> ufn T) (s : spec T)
    (H1 H2 : Host) x w b size lo d :
  mu_type m u s ->
  s_wf s x -> s_wire s x = Some w -> s_wf s d -> bytes_ok b ->
  0 <= size <= Zlen b -> 0 <= lo -> lo + Zlen w <= size ->
  exists b' d',
    m H1 x (Some b) size (Some lo) = Ret (TSS2_RC_SUCCESS, (Some b', Some (lo + Zlen w))) /\
    u H2 (Some b') size (Some lo) (Some d)
      = Ret (TSS2_RC_SUCCESS, (Some (lo + Zlen w), Some d')) /\
    s_wf s d' /\ s_eqv s d' x.
Proof.
  intros R. pose proof (mu_spec_ok m u s R).
  destruct (mu_type_ok m u s R H1) as [_ M _ _]. destruct (mu_type_ok m u s R H2) as [_ _ U _].
  by apply (roundtrip_generic (c:=true)).
Qed.

(** [mu_roundtrip] on a symmetric algorithm definition, from a big-endian to
    a little-endian host. *)
Lemma mu_roundtrip_witness :
  exists b' d',
    Tss2_MU_TPMT_SYM_DEF_OBJECT_Marshal (H:=big_endian_host) (Some aes_128_cfb)
      (Some (replicate 8 0)) 8 (Some 1) = Ret (TSS2_RC_SUCCESS, (Some b', Some 7)) /\
    Tss2_MU_TPMT_SYM_DEF_OBJECT_Unmarshal (H:=little_endian_host) (Some b') 8 (Some 1)
      (Some zero_TPMT_SYM_DEF_OBJECT) = Ret (TSS2_RC_SUCCESS, (Some 7, Some d')) /\
    s_wf spec_TPMT_SYM_DEF_OBJECT d' /\ s_eqv spec_TPMT_SYM_DEF_OBJECT d' aes_128_cfb.
Proof.
  apply (mu_roundtrip _ _ _ big_endian_host little_endian_host aes_128_cfb [0; 6; 0; 128; 0; 67]
    (replicate 8 0) 8 1 zero_TPMT_SYM_DEF_OBJECT (mu_strict _ _ _ mu_TPMT_SYM_DEF_OBJECT)).
  - vm_compute. repeat split; congruence.
  - vm_compute. reflexivity.
  - exact zero_TPMT_SYM_DEF_OBJECT_wf.
  - repeat constructor; vm_compute; congruence.
  - vm_compute. split; congruence.
  - vm_compute. congruence.
  - vm_compute. congruence.
Defined.

(** C2: a marshal call on an object of any type whose storage is what marshaling
    reads ([s_dom]) has no undefined behaviour, whatever the buffer; it never
    changes a byte outside [offset, size), does not move [*offset] when it
    fails, and succeeds exactly when the object has a wire image and the image
    fits, in which case the image is what the buffer holds at [*offset]. When
    only room is missing the code is [TSS2_MU_RC_INSUFFICIENT_BUFFER]. [s_dom]
    leaves out three kinds of objects: a union that does not hold the member its
    selector names; a TPM2B of odd capacity whose size is one above it, where
    the code reads behind the array ([TPM2B_MARSHAL_odd_capacity]); an
    attestation whose magic number is not TPM2_GENERATED_VALUE, which is written
    and cannot be read. *)
Theorem mu_marshal_total {T} (m : Host -> T -> mstep) (u : Host -> ufn T) (s : spec T)
    (H : Host) x b size lo :
  mu_type m u s -> s_wf s x -> s_dom s x -> 0 <= lo -> 0 <= size <= Zlen b ->
  exists rc b' lo',
    m H x (Some b) size (Some lo) = Ret (rc, (Some b', Some lo')) /\
    same_outside b b' lo size /\
    (rc = TSS2_RC_SUCCESS <-> exists w, s_wire s x = Some w /\ fits lo w size) /\
    (forall w, s_wire s x = Some w ->
       (fits lo w size -> lo' = lo + Zlen w /\ reads b' lo w) /\
       (~ fits lo w size -> rc = TSS2_MU_RC_INSUFFICIENT_BUFFER)) /\
    (rc <> TSS2_RC_SUCCESS -> lo' = lo).
Proof.
  intros R W D Hlo Hs. pose proof (lo_spec _ _ _ (mu_type_ok m u s R H)) as Os.
  destruct (lo_marshal _ _ _ (mu_type_ok m u s R H) x W D) as [P _].
  destruct (P b size lo) as (rc&b'&lo'&E&Po); [done..|]. exists rc, b', lo'.
  split; [done|]. destruct Po as [(w&Ew&F&->&->&Wr)|(Hrc&Hl&So&Nw)].
  - split_and!; [by eauto using written_outside, so_bytes|by split; eauto| |done].
    intros w' Ew'. rewrite Ew in Ew'. some_inv. split; [|done].
    intros _. split; [done|by eapply written_reads].
  - split_and!; [done| | |by auto].
    + split; [done|]. intros (w&Ew&F). destruct Nw as [?|(w'&Ew'&Nf&_)]; congruence.
    + intros w Ew. destruct Nw as [?|(w'&Ew'&Nf&->)]; [congruence|].
      split; [|done]. intros F. congruence.
Qed.

Lemma mu_marshal_total_witness :
  exists rc b' lo',
    Tss2_MU_TPMT_SYM_DEF_OBJECT_Marshal (H:=little_endian_host) (Some aes_128_cfb)
      (Some (replicate 8 0)) 8 (Some 3) = Ret (rc, (Some b', Some lo')) /\
    same_outside (replicate 8 0) b' 3 8 /\
    (rc = TSS2_RC_SUCCESS <-> exists w, s_wire spec_TPMT_SYM_DEF_OBJECT aes_128_cfb = Some w /\ fits 3 w 8) /\
    (forall w, s_wire spec_TPMT_SYM_DEF_OBJECT aes_128_cfb = Some w ->
       (fits 3 w 8 -> lo' = 3 + Zlen w /\ reads b' 3 w) /\
       (~ fits 3 w 8 -> rc = TSS2_MU_RC_INSUFFICIENT_BUFFER)) /\
    (rc <> TSS2_RC_SUCCESS -> lo' = 3).
Proof.
  apply (mu_marshal_total _ _ _ little_endian_host aes_128_cfb (replicate 8 0) 8 3
    (mu_strict _ _ _ mu_TPMT_SYM_DEF_OBJECT)).
  - vm_compute. repeat split; congruence.
  - split; [exact I|]. split; [eexists; split; [reflexivity|exact I]|].
    split; [eexists; split; [reflexivity|exact I]|exact I].
  - vm_compute. congruence.
  - vm_compute. split; congruence.
Defined.

(** C3: an unmarshal call on any type, whatever bytes the buffer holds, has
    no undefined behaviour, leaves a well-formed object behind [dest] and
    never moves [*offset] backwards. *)
Theorem mu_unmarshal_total {T} (m : Host -> T -> mstep) (u : Host -> ufn T) (s : spec T)
    (H : Host) b size lo d :
  mu_type m u s -> bytes_ok b -> 0 <= size <= Zlen b -> 0 <= lo -> s_wf s d ->
  exists rc lo' d',
    u H (Some b) size (Some lo) (Some d) = Ret (rc, (Some lo', Some d')) /\
    lo <= lo' /\ s_wf s d'.
Proof. intros R. apply (lo_safe _ _ _ (mu_type_ok m u s R H)). Qed.

Lemma mu_unmarshal_total_witness :
  exists rc lo' d',
    Tss2_MU_TPM2B_PUBLIC_Unmarshal (H:=little_endian_host) (Some [255; 255; 0; 1]) 4 (Some 0)
      (Some (MkTPM2B_SUB 0 zero_TPMT_PUBLIC)) = Ret (rc, (Some lo', Some d')) /\
    0 <= lo' /\ s_wf spec_TPM2B_PUBLIC d'.
Proof.
  apply (mu_unmarshal_total _ _ _ little_endian_host [255; 255; 0; 1] 4 0
    (MkTPM2B_SUB 0 zero_TPMT_PUBLIC) (mu_lax _ _ _ mu_TPM2B_PUBLIC)).
  - repeat constructor; vm_compute; congruence.
  - vm_compute. split; congruence.
  - vm_compute. congruence.
  - split; [exact (zero_int_wf 2)|exact zero_TPMT_PUBLIC_wf].
Defined.

(** C4: the encoding of a strict type is canonical: when an unmarshal call of
    one of the 148 strict types (133 types and 15 unions) succeeds, the bytes it
    consumed lie inside the buffer and are exactly the bytes marshaling the
    result writes, on any host. The six other types are the TPM2B that hold a
    structure (ECC_POINT, NV_PUBLIC, SENSITIVE, SENSITIVE_CREATE, CREATION_DATA,
    PUBLIC), whose unmarshal function ignores what that of the structure returns
    ([TPM2B_UNMARSHAL_SUBTYPE_ignores_rc]). *)
Theorem mu_canonical {T} (m : Host -> T -> mstep) (u : Host -> ufn T) (s : spec T)
    (H1 H2 : Host) b size lo d lo' d' :
  mu_strict_type m u s -> bytes_ok b -> 0 <= size <= Zlen b -> 0 <= lo <= size -> s_wf s d ->
  u H1 (Some b) size (Some lo) (Some d) = Ret (TSS2_RC_SUCCESS, (Some lo', Some d')) ->
  lo <= lo' <= size /\
  forall b2, 0 <= size <= Zlen b2 ->
  exists b2', m H2 d' (Some b2) size (Some lo) = Ret (TSS2_RC_SUCCESS, (Some b2', Some lo')) /\
    mem_read b2' lo (lo' - lo) = mem_read b lo (lo' - lo).
Proof.
  intros R. destruct (mu_strict_type_ok m u s R H1) as [O _ P].
  destruct (mu_strict_type_ok m u s R H2) as [_ M _].
  intros ? ? [? ?] ? E. eapply (canonical_generic (c:=true) (m H2) (u H1)); done.
Qed.

Lemma mu_canonical_witness :
  0 <= 6 <= 8 /\
  forall b2, 0 <= 8 <= Zlen b2 ->
  exists b2', Tss2_MU_TPMT_SYM_DEF_OBJECT_Marshal (H:=big_endian_host) (Some aes_128_cfb)
      (Some b2) 8 (Some 0) = Ret (TSS2_RC_SUCCESS, (Some b2', Some 6)) /\
    mem_read b2' 0 (6 - 0) = mem_read [0; 6; 0; 128; 0; 67; 9; 9] 0 (6 - 0).
Proof.
  apply (mu_canonical _ _ _ little_endian_host big_endian_host [0; 6; 0; 128; 0; 67; 9; 9] 8 0
    zero_TPMT_SYM_DEF_OBJECT 6 aes_128_cfb (mus_strict _ _ _ mu_TPMT_SYM_DEF_OBJECT)).
  - repeat constructor; vm_compute; congruence.
  - vm_compute. split; congruence.
  - vm_compute. split; congruence.
  - exact zero_TPMT_SYM_DEF_OBJECT_wf.
  - vm_compute. reflexivity.
Defined.

(** A failing unmarshal call of a strict type does not move [*offset]. *)
Theorem mu_unmarshal_failure {T} (m : Host -> T -> mstep) (u : Host -> ufn T) (s : spec T)
    (H : Host) b size lo d rc lo' d' :
  mu_strict_type m u s -> bytes_ok b -> 0 <= size <= Zlen b -> 0 <= lo -> s_wf s d ->
  u H (Some b) size (Some lo) (Some d) = Ret (rc, (Some lo', Some d')) ->
  rc <> TSS2_RC_SUCCESS -> lo' = lo.
Proof.
  intros R ? ? ? ? E N. destruct (mu_strict_type_ok m u s R H) as [_ _ P].
  destruct (P b size lo d) as (rc1&lo1&d1&E1&_&_&Q&_); [done..|]. rewrite E in E1. simplify_eq.
  by apply Q.
Qed.

Lemma mu_unmarshal_failure_witness : 1 = 1.
Proof.
  apply (mu_unmarshal_failure _ _ _ little_endian_host [0; 0; 6; 0; 128; 0] 6 1
    zero_TPMT_SYM_DEF_OBJECT TSS2_MU_RC_INSUFFICIENT_BUFFER 1
    (Mk_TPMT_SYM_DEF_OBJECT TPM2_ALG_AES 128 0) (mus_strict _ _ _ mu_TPMT_SYM_DEF_OBJECT)).
  - repeat constructor; vm_compute; congruence.
  - vm_compute. split; congruence.
  - vm_compute. congruence.
  - exact zero_TPMT_SYM_DEF_OBJECT_wf.
  - vm_compute. reflexivity.
  - vm_compute. congruence.
Defined.

(** With a NULL buffer a marshal call advances [*offset] by exactly the
    number of bytes the call with a buffer writes. *)
Theorem mu_size_query {T} (m : Host -> T -> mstep) (u : Host -> ufn T) (s : spec T)
    (H : Host) x b b' size lo lo' :
  mu_type m u s -> s_wf s x -> s_dom s x -> 0 <= lo -> 0 <= size <= Zlen b ->
  lo' < size_max ->
  m H x (Some b) size (Some lo) = Ret (TSS2_RC_SUCCESS, (Some b', Some lo')) ->
  m H x None size (Some lo) = Ret (TSS2_RC_SUCCESS, (None, Some lo')).
Proof.
  intros R W D ? ? ? E. destruct (lo_marshal _ _ _ (mu_type_ok m u s R H) x W D) as [_ N].
  destruct (mu_marshal_image m u s R H x b size lo b' lo') as (w&Ew&F&->&_); [done..|].
  by apply N.
Qed.

Lemma mu_size_query_witness :
  Tss2_MU_TPMT_SYM_DEF_OBJECT_Marshal (H:=little_endian_host) (Some aes_128_cfb) None 8 (Some 1)
  = Ret (TSS2_RC_SUCCESS, (None, Some 7)).
Proof.
  apply (mu_size_query _ _ _ little_endian_host aes_128_cfb (replicate 8 0)
    [0; 0; 6; 0; 128; 0; 67; 0] 8 1 7 (mu_strict _ _ _ mu_TPMT_SYM_DEF_OBJECT)).
  - vm_compute. repeat split; congruence.
  - split; [exact I|]. split; [eexists; split; [reflexivity|exact I]|].
    split; [eexists; split; [reflexivity|exact I]|exact I].
  - vm_compute. congruence.
  - vm_compute. split; congruence.
  - vm_compute. congruence.
  - vm_compute. reflexivity.
Defined.

(** C5: the wire format does not depend on the host: a call that succeeds
    on one host does the same on a host of the other byte order. *)
Theorem mu_host_independent {T} (m : Host -> T -> mstep) (u : Host -> ufn T) (s : spec T)
    (H1 H2 : Host) x b size lo b' lo' :
  mu_type m u s -> s_wf s x -> s_dom s x -> 0 <= lo <= size -> 0 <= size <= Zlen b ->
  m H1 x (Some b) size (Some lo) = Ret (TSS2_RC_SUCCESS, (Some b', Some lo')) ->
  m H2 x (Some b) size (Some lo) = Ret (TSS2_RC_SUCCESS, (Some b', Some lo')).
Proof.
  intros R W D ? ? E.
  destruct (mu_marshal_image m u s R H1 x b size lo b' lo') as (w&Ew&F&->&Wr); [done..|lia|done|done|].
  assert (lo + Zlen w <= size) by (destruct F as [->|F]; [rewrite (Zlen_nil (A:=Z))|]; lia).
  destruct (mu_marshal_fits m u s R H2 x w b size lo) as (b2&->&W2); [done..|lia|done|done|].
  destruct Wr as [[-> ->]|Wr]; [|congruence]. rewrite mem_write_nil in W2 by lia. congruence.
Qed.

Lemma mu_host_independent_witness :
  Tss2_MU_TPMT_SYM_DEF_OBJECT_Marshal (H:=big_endian_host) (Some aes_128_cfb)
    (Some (replicate 8 0)) 8 (Some 1)
  = Ret (TSS2_RC_SUCCESS, (Some [0; 0; 6; 0; 128; 0; 67; 0], Some 7)).
Proof.
  apply (mu_host_independent _ _ _ little_endian_host big_endian_host aes_128_cfb (replicate 8 0)
    8 1 [0; 0; 6; 0; 128; 0; 67; 0] 7 (mu_strict _ _ _ mu_TPMT_SYM_DEF_OBJECT)).
  - vm_compute. repeat split; congruence.
  - split; [exact I|]. split; [eexists; split; [reflexivity|exact I]|].
    split; [eexists; split; [reflexivity|exact I]|exact I].
  - vm_compute. split; congruence.
  - vm_compute. split; congruence.
  - vm_compute. reflexivity.
Defined.

(** the encoding is unambiguous: if two objects of a type marshal into
    buffers with the same content, they agree in everything that is on the
    wire. *)
Theorem mu_unambiguous {T} (m : Host -> T -> mstep) (u : Host -> ufn T) (s : spec T)
    (H : Host) x y b b' size lo lo1 lo2 d :
  mu_type m u s -> s_wf s x -> s_dom s x -> s_wf s y -> s_dom s y -> s_wf s d ->
  bytes_ok b -> 0 <= lo -> 0 <= size <= Zlen b ->
  m H x (Some b) size (Some lo) = Ret (TSS2_RC_SUCCESS, (Some b', Some lo1)) ->
  m H y (Some b) size (Some lo) = Ret (TSS2_RC_SUCCESS, (Some b', Some lo2)) ->
  lo1 = lo2 /\ s_eqv s x y.
Proof.
  intros R Wx Dx Wy Dy Wd Hb ? ? Ex Ey. pose proof (mu_spec_ok m u s R).
  destruct (mu_marshal_image m u s R H x b size lo b' lo1) as (w&Ew&F&->&Wr); [done..|].
  destruct (mu_marshal_image m u s R H y b size lo b' lo2) as (w'&Ew'&F'&->&Wr'); [done..|].
  pose proof (lo_recognise _ _ _ (mu_type_ok m u s R H)) as U.
  assert (Hb' : bytes_ok b') by exact (written_bytes _ _ _ _ Hb (so_bytes _ _ Wx Ew) Wr).
  pose proof (written_len _ _ _ _ Wr) as L.
  destruct (U b' size lo d x w) as (d1&E1&_&Q1); try done; [lia|by eapply written_reads|].
  destruct (U b' size lo d y w') as (d2&E2&_&Q2); try done; [lia|by eapply written_reads|].
  rewrite E1 in E2. simplify_eq. split; [done|].
  eapply so_trans; [apply so_sym; exact Q1|exact Q2].
Qed.

Lemma mu_unambiguous_witness :
  7 = 7 /\ s_eqv spec_TPM2B_DIGEST (MkTPM2B 3 (replicate 64 5)) (MkTPM2B 3 (replicate 32 5 ++ replicate 32 0)).
Proof.
  apply (mu_unambiguous _ _ _ little_endian_host (MkTPM2B 3 (replicate 64 5))
    (MkTPM2B 3 (replicate 32 5 ++ replicate 32 0)) (replicate 8 0)
    [0; 0; 0; 3; 5; 5; 5; 0] 8 2 7 7 (zero_2b cap_TPM2B_DIGEST) (mu_strict _ _ _ mu_TPM2B_DIGEST)).
  - split; [reflexivity|]. split; [repeat constructor; vm_compute; congruence|].
    vm_compute. split; congruence.
  - left. vm_compute. congruence.
  - split; [reflexivity|]. split; [repeat constructor; vm_compute; congruence|].
    vm_compute. split; congruence.
  - left. vm_compute. congruence.
  - exact zero_TPM2B_DIGEST_wf.
  - repeat constructor; vm_compute; congruence.
  - vm_compute. congruence.
  - vm_compute. split; congruence.
  - vm_compute. reflexivity.
  - vm_compute. reflexivity.
Defined.

(** ** Where the marshaling code departs from its contract.

    Sized buffers of odd capacity, sized buffers that hold a structure,
    the hash-then-sign ML-DSA type, and attestation structures skipped with a
    NULL destination. *)

(** A public area whose [type] is not in the selector tables. *)
Definition hash_mldsa_public : TPMT_PUBLIC :=
  mset TPMT_PUBLIC'type TPM2_ALG_HASH_MLDSA zero_TPMT_PUBLIC.

(** Unmarshaling a sized buffer that holds a structure returns
    [TSS2_RC_SUCCESS] whatever the unmarshal function of the structure
    returned, and leaves [*offset] where that function left it. *)
Theorem TPM2B_UNMARSHAL_SUBTYPE_ignores_rc {H : Host} {M} n (u : ufn M) b size lo d v rc o m :
  bytes_ok b -> 0 <= size <= Zlen b -> 0 <= lo -> 0 <= v < 65536 ->
  mem_read b lo 2 = Some (be_bytes 2 v) -> lo + 2 + v <= size -> v <= n ->
  u (Some b) size (Some (lo + 2)) (Some (smember d)) = Ret (rc, (Some o, Some m)) ->
  TPM2B_UNMARSHAL_SUBTYPE n u (Some b) size (Some lo) (Some d)
  = Ret (TSS2_RC_SUCCESS, (Some o, Some (MkTPM2B_SUB v m))).
Proof.
  intros Hb Hs Hlo Hv Rv Hf Hn E. unfold TPM2B_UNMARSHAL_SUBTYPE. simpl default.
  rewrite (proj2 (Z.ltb_ge size lo)), (proj2 (Z.ltb_ge (size - lo) 2)) by lia. simpl orb.
  cbv iota. destruct (u16_unmarshal b size lo) as (v'&->&Hv'&Rv'); [done|lia..|].
  assert (v' = v) as ->.
  { rewrite Rv in Rv'. apply (inj Some), (f_equal be_value) in Rv'.
    by rewrite !be_value_be_bytes in Rv' by done. }
  simpl negb. cbv iota. simpl default.
  rewrite (proj2 (Z.ltb_ge (size - (lo + 2)) v)), (proj2 (Z.ltb_ge n v)) by lia.
  by rewrite E.
Qed.

(** A [TPM2B_PUBLIC] whose public area has an unknown algorithm. *)
Lemma TPM2B_UNMARSHAL_SUBTYPE_ignores_rc_witness :
  exists m,
  Tss2_MU_TPMT_PUBLIC_Unmarshal (H:=little_endian_host)
    (Some [0; 10; 255; 255; 0; 11; 0; 0; 0; 0; 0; 0]) 12 (Some 2) (Some zero_TPMT_PUBLIC)
    = Ret (TSS2_MU_RC_BAD_VALUE, (Some 2, Some m)) /\
  Tss2_MU_TPM2B_PUBLIC_Unmarshal (H:=little_endian_host)
    (Some [0; 10; 255; 255; 0; 11; 0; 0; 0; 0; 0; 0]) 12 (Some 0)
    (Some (MkTPM2B_SUB 0 zero_TPMT_PUBLIC))
    = Ret (TSS2_RC_SUCCESS, (Some 2, Some (MkTPM2B_SUB 10 m))).
Proof.
  exists (mset TPMT_PUBLIC'type 65535 (mset TPMT_PUBLIC'nameAlg 11 zero_TPMT_PUBLIC)).
  split; [vm_compute; reflexivity|].
  apply (TPM2B_UNMARSHAL_SUBTYPE_ignores_rc (H:=little_endian_host) (lsize lay_TPMT_PUBLIC)
    (Tss2_MU_TPMT_PUBLIC_Unmarshal (H:=little_endian_host))
    [0; 10; 255; 255; 0; 11; 0; 0; 0; 0; 0; 0] 12 0 (MkTPM2B_SUB 0 zero_TPMT_PUBLIC) 10
    TSS2_MU_RC_BAD_VALUE 2).
  - repeat constructor; vm_compute; congruence.
  - vm_compute. split; congruence.
  - vm_compute. congruence.
  - vm_compute. split; congruence.
  - vm_compute. reflexivity.
  - vm_compute. congruence.
  - vm_compute. congruence.
  - vm_compute. reflexivity.
Defined.

(** The size limit of [TPM2B_MARSHAL] is [sizeof(type) - 2], which
    counts the padding of an odd capacity: marshaling such a buffer with
    [size] one above the capacity passes the check and reads past the array. *)
Theorem TPM2B_MARSHAL_odd_capacity {H : Host} cap src b size lo :
  0 <= cap < 65535 -> Z.odd cap = true -> MuTpm2b.size src = cap + 1 ->
  Zlen (buffer src) = cap -> 0 <= lo -> 0 <= size <= Zlen b -> lo + 2 + (cap + 1) <= size ->
  TPM2B_MARSHAL cap (Some src) (Some b) size (Some lo) = Undef.
Proof.
  intros Hc Odd Es Lb Hlo Hs Hf. unfold TPM2B_MARSHAL. simpl default. rewrite Es.
  rewrite (proj2 (Z.ltb_ge size lo)), (proj2 (Z.ltb_ge (size - lo) (2 + (cap + 1)))) by lia.
  simpl orb. cbv iota. apply Zodd_bool_iff, Zodd_ex in Odd as [k ->].
  assert (sizeof_2b (2 * k + 1) = 2 * k + 4) as ->.
  { unfold sizeof_2b. replace (2 + (2 * k + 1) + 1) with ((k + 2) * 2) by lia.
    rewrite Z.div_mul by lia. lia. }
  rewrite (proj2 (Z.ltb_ge (2 * k + 4 - 2) (2 * k + 1 + 1))) by lia. cbv iota.
  destruct (u16_marshal (2 * k + 1 + 1) b size lo) as (b1&->&_); [lia..|].
  simpl negb. cbv iota. rewrite (proj2 (Z.eqb_neq (2 * k + 1 + 1) 0)) by lia. simpl negb. cbv iota.
  unfold mem_read. rewrite (proj2 (Z.leb_gt (0 + (2 * k + 1 + 1)) (Zlen (buffer src)))) by lia.
  by rewrite andb_false_r.
Qed.

(** ML-DSA signatures have the odd capacity 4627. *)
Lemma TPM2B_MARSHAL_odd_capacity_witness :
  Tss2_MU_TPM2B_MLDSA_SIGNATURE_Marshal (H:=little_endian_host)
    (Some (MkTPM2B 4628 (replicate (Z.to_nat 4627) 7))) (Some (replicate (Z.to_nat 5000) 0)) 5000
    (Some 0) = Undef.
Proof.
  apply (TPM2B_MARSHAL_odd_capacity (H:=little_endian_host) cap_TPM2B_MLDSA_SIGNATURE).
  - vm_compute. split; congruence.
  - reflexivity.
  - reflexivity.
  - reflexivity.
  - vm_compute. congruence.
  - vm_compute. split; congruence.
  - vm_compute. congruence.
Defined.

(** A public area of type [TPM2_ALG_HASH_MLDSA] is never marshaled: the
    selector tables of its parameters and of its unique identifier have no
    entry for that type. *)
Theorem TPMT_PUBLIC_hash_mldsa {H : Host} x b size lo :
  s_wf spec_TPMT_PUBLIC x -> mget TPMT_PUBLIC'type x = TPM2_ALG_HASH_MLDSA ->
  s_dom spec_TPM2B_DIGEST (mget TPMT_PUBLIC'authPolicy x) -> 0 <= lo -> 0 <= size <= Zlen b ->
  exists rc b', Tss2_MU_TPMT_PUBLIC_Marshal (Some x) (Some b) size (Some lo)
                = Ret (rc, (Some b', Some lo)) /\ rc <> TSS2_RC_SUCCESS.
Proof.
  intros W Et D Hlo Hs. destruct (Tss2_MU_TPMT_PUBLIC_ok (H:=H)) as [_ M _].
  assert (Ew : s_wire spec_TPMT_PUBLIC x = None).
  { unfold spec_TPMT_PUBLIC. cbn [s_wire spec_app spec_on spec_sel spec_unit]. rewrite Et.
    change (s_wire (spec_TPMU_PUBLIC_PARMS TPM2_ALG_HASH_MLDSA)
      (mget TPMT_PUBLIC'parameters x)) with (@None bytes).
    destruct (s_wire spec_TPM2B_DIGEST (mget TPMT_PUBLIC'authPolicy x)); reflexivity. }
  destruct (M x W) as [P _].
  { split; [exact I|]. split; [exact I|]. split; [exact I|]. split; [exact D|].
    cbn [s_dom spec_sel spec_app spec_unit]. rewrite Et.
    split; [exact I|]. split; exact I. }
  destruct (P b size lo) as (rc&b'&lo'&E&[(w&?&_)|(N&Hl&_)]); [done..|congruence|].
  exists rc, b'. unfold ADDR in E. rewrite Hl in E by done. done.
Qed.

Lemma TPMT_PUBLIC_hash_mldsa_witness :
  exists rc b', Tss2_MU_TPMT_PUBLIC_Marshal (H:=little_endian_host) (Some hash_mldsa_public)
    (Some (replicate 64 0)) 64 (Some 0) = Ret (rc, (Some b', Some 0)) /\ rc <> TSS2_RC_SUCCESS.
Proof.
  apply (TPMT_PUBLIC_hash_mldsa (H:=little_endian_host)).
  - destruct zero_TPMT_PUBLIC_wf as [_ W]. split; [|exact W]. vm_compute. split; congruence.
  - reflexivity.
  - left. vm_compute. congruence.
  - vm_compute. congruence.
  - vm_compute. split; congruence.
Defined.

(** The last call of a sequence decides, when the others succeed. *)
Lemma unmarshal_seq_last {T} (us : list (ustep T)) (u : ustep T) buffer size g :
  (forall o d, exists r, u buffer size o g d = Ret r /\ fst r <> TSS2_RC_SUCCESS) ->
  forall o d rc r, unmarshal_seq (us ++ [u]) buffer size o g d = Ret (rc, r) ->
  rc <> TSS2_RC_SUCCESS.
Proof.
  intros Hu. induction us as [|v us IH]; simpl; intros o d rc r.
  - destruct (Hu o d) as ([rc' [o' d']]&->&Hr). simpl in Hr.
    rewrite (proj2 (Z.eqb_neq _ _) Hr). simpl. congruence.
  - destruct (v buffer size o g d) as [[rc' [o' d']]|]; [|done].
    case_test; [congruence|apply IH].
Qed.

(** an attestation structure cannot be skipped: with a NULL [dest] the
    selector of the attested union is taken to be 0, which no type has, so
    the call never returns [TSS2_RC_SUCCESS]. *)
Theorem TPMS_ATTEST_skip_fails {H : Host} buffer size offset r :
  Tss2_MU_TPMS_ATTEST_Unmarshal buffer size offset None <> Ret (TSS2_RC_SUCCESS, r).
Proof.
  unfold Tss2_MU_TPMS_ATTEST_Unmarshal, TPMS_UNMARSHAL_7_U, struct_unmarshal.
  destruct offset as [lo|]; [|done]. simpl default.
  match goal with |- context [unmarshal_seq ?us _ _ _ _ _] =>
    destruct (unmarshal_seq us buffer size (Some lo) false zero_TPMS_ATTEST) as [[rc [o d]]|] eqn:E
  end; [|done].
  intros Er. simplify_eq.
  refine (unmarshal_seq_last [_; _; _; _; _; _] _ buffer size false _ _ _ _ _ E eq_refl).
  intros o' d'. eexists. split; [reflexivity|done].
Qed.
