(* ===== verification/SysCodes.v ===== *)
(** * Command codes and handle counts.

    [include/tss2/tss2_tpm2_types.h]: the command codes [TPM2_CC_*].
    [src/tss2-sys/sysapi_util.c]: the table of the number of handles in the
    handle area of each command and of its response, and its look-up. *)

From S2P Require Import Prelude.

Definition TPM2_CC_NV_UndefineSpaceSpecial : Z := 287.
Definition TPM2_CC_FIRST : Z := TPM2_CC_NV_UndefineSpaceSpecial.
Definition TPM2_CC_EvictControl : Z := 288.
Definition TPM2_CC_HierarchyControl : Z := 289.
Definition TPM2_CC_NV_UndefineSpace : Z := 290.
Definition TPM2_CC_ChangeEPS : Z := 292.
Definition TPM2_CC_ChangePPS : Z := 293.
Definition TPM2_CC_Clear : Z := 294.
Definition TPM2_CC_ClearControl : Z := 295.
Definition TPM2_CC_ClockSet : Z := 296.
Definition TPM2_CC_HierarchyChangeAuth : Z := 297.
Definition TPM2_CC_NV_DefineSpace : Z := 298.
Definition TPM2_CC_PCR_Allocate : Z := 299.
Definition TPM2_CC_PCR_SetAuthPolicy : Z := 300.
Definition TPM2_CC_PP_Commands : Z := 301.
Definition TPM2_CC_SetPrimaryPolicy : Z := 302.
Definition TPM2_CC_FieldUpgradeStart : Z := 303.
Definition TPM2_CC_ClockRateAdjust : Z := 304.
Definition TPM2_CC_CreatePrimary : Z := 305.
Definition TPM2_CC_NV_GlobalWriteLock : Z := 306.
Definition TPM2_CC_GetCommandAuditDigest : Z := 307.
Definition TPM2_CC_NV_Increment : Z := 308.
Definition TPM2_CC_NV_SetBits : Z := 309.
Definition TPM2_CC_NV_Extend : Z := 310.
Definition TPM2_CC_NV_Write : Z := 311.
Definition TPM2_CC_NV_WriteLock : Z := 312.
Definition TPM2_CC_DictionaryAttackLockReset : Z := 313.
Definition TPM2_CC_DictionaryAttackParameters : Z := 314.
Definition TPM2_CC_NV_ChangeAuth : Z := 315.
Definition TPM2_CC_PCR_Event : Z := 316.
Definition TPM2_CC_PCR_Reset : Z := 317.
Definition TPM2_CC_SequenceComplete : Z := 318.
Definition TPM2_CC_SetAlgorithmSet : Z := 319.
Definition TPM2_CC_SetCommandCodeAuditStatus : Z := 320.
Definition TPM2_CC_FieldUpgradeData : Z := 321.
Definition TPM2_CC_IncrementalSelfTest : Z := 322.
Definition TPM2_CC_SelfTest : Z := 323.
Definition TPM2_CC_Startup : Z := 324.
Definition TPM2_CC_Shutdown : Z := 325.
Definition TPM2_CC_StirRandom : Z := 326.
Definition TPM2_CC_ActivateCredential : Z := 327.
Definition TPM2_CC_Certify : Z := 328.
Definition TPM2_CC_PolicyNV : Z := 329.
Definition TPM2_CC_CertifyCreation : Z := 330.
Definition TPM2_CC_Duplicate : Z := 331.
Definition TPM2_CC_GetTime : Z := 332.
Definition TPM2_CC_GetSessionAuditDigest : Z := 333.
Definition TPM2_CC_NV_Read : Z := 334.
Definition TPM2_CC_NV_ReadLock : Z := 335.
Definition TPM2_CC_ObjectChangeAuth : Z := 336.
Definition TPM2_CC_PolicySecret : Z := 337.
Definition TPM2_CC_Rewrap : Z := 338.
Definition TPM2_CC_Create : Z := 339.
Definition TPM2_CC_ECDH_ZGen : Z := 340.
Definition TPM2_CC_HMAC : Z := 341.
Definition TPM2_CC_MAC : Z := 341.
Definition TPM2_CC_Import : Z := 342.
Definition TPM2_CC_Load : Z := 343.
Definition TPM2_CC_Quote : Z := 344.
Definition TPM2_CC_RSA_Decrypt : Z := 345.
Definition TPM2_CC_HMAC_Start : Z := 347.
Definition TPM2_CC_MAC_Start : Z := 347.
Definition TPM2_CC_SequenceUpdate : Z := 348.
Definition TPM2_CC_Sign : Z := 349.
Definition TPM2_CC_Unseal : Z := 350.
Definition TPM2_CC_PolicySigned : Z := 352.
Definition TPM2_CC_ContextLoad : Z := 353.
Definition TPM2_CC_ContextSave : Z := 354.
Definition TPM2_CC_ECDH_KeyGen : Z := 355.
Definition TPM2_CC_EncryptDecrypt : Z := 356.
Definition TPM2_CC_FlushContext : Z := 357.
Definition TPM2_CC_LoadExternal : Z := 359.
Definition TPM2_CC_MakeCredential : Z := 360.
Definition TPM2_CC_NV_ReadPublic : Z := 361.
Definition TPM2_CC_PolicyAuthorize : Z := 362.
Definition TPM2_CC_PolicyAuthValue : Z := 363.
Definition TPM2_CC_PolicyCommandCode : Z := 364.
Definition TPM2_CC_PolicyCounterTimer : Z := 365.
Definition TPM2_CC_PolicyCpHash : Z := 366.
Definition TPM2_CC_PolicyLocality : Z := 367.
Definition TPM2_CC_PolicyNameHash : Z := 368.
Definition TPM2_CC_PolicyOR : Z := 369.
Definition TPM2_CC_PolicyTicket : Z := 370.
Definition TPM2_CC_ReadPublic : Z := 371.
Definition TPM2_CC_RSA_Encrypt : Z := 372.
Definition TPM2_CC_StartAuthSession : Z := 374.
Definition TPM2_CC_VerifySignature : Z := 375.
Definition TPM2_CC_ECC_Parameters : Z := 376.
Definition TPM2_CC_FirmwareRead : Z := 377.
Definition TPM2_CC_GetCapability : Z := 378.
Definition TPM2_CC_GetRandom : Z := 379.
Definition TPM2_CC_GetTestResult : Z := 380.
Definition TPM2_CC_Hash : Z := 381.
Definition TPM2_CC_PCR_Read : Z := 382.
Definition TPM2_CC_PolicyPCR : Z := 383.
Definition TPM2_CC_PolicyRestart : Z := 384.
Definition TPM2_CC_ReadClock : Z := 385.
Definition TPM2_CC_PCR_Extend : Z := 386.
Definition TPM2_CC_PCR_SetAuthValue : Z := 387.
Definition TPM2_CC_NV_Certify : Z := 388.
Definition TPM2_CC_EventSequenceComplete : Z := 389.
Definition TPM2_CC_HashSequenceStart : Z := 390.
Definition TPM2_CC_PolicyPhysicalPresence : Z := 391.
Definition TPM2_CC_PolicyDuplicationSelect : Z := 392.
Definition TPM2_CC_PolicyGetDigest : Z := 393.
Definition TPM2_CC_TestParms : Z := 394.
Definition TPM2_CC_Commit : Z := 395.
Definition TPM2_CC_PolicyPassword : Z := 396.
Definition TPM2_CC_ZGen_2Phase : Z := 397.
Definition TPM2_CC_EC_Ephemeral : Z := 398.
Definition TPM2_CC_PolicyNvWritten : Z := 399.
Definition TPM2_CC_PolicyTemplate : Z := 400.
Definition TPM2_CC_CreateLoaded : Z := 401.
Definition TPM2_CC_PolicyAuthorizeNV : Z := 402.
Definition TPM2_CC_EncryptDecrypt2 : Z := 403.
Definition TPM2_CC_AC_GetCapability : Z := 404.
Definition TPM2_CC_AC_Send : Z := 405.
Definition TPM2_CC_Policy_AC_SendSelect : Z := 406.
Definition TPM2_CC_CertifyX509 : Z := 407.
Definition TPM2_CC_ACT_SetTimeout : Z := 408.
Definition TPM2_CC_ECC_Encrypt : Z := 409.
Definition TPM2_CC_ECC_Decrypt : Z := 410.
Definition TPM2_CC_SetCapability : Z := 415.
Definition TPM2_CC_ReadOnlyControl : Z := 416.
Definition TPM2_CC_PolicyTransportSPDM : Z := 417.
Definition TPM2_CC_VerifySequenceComplete : Z := 419.
Definition TPM2_CC_SignSequenceComplete : Z := 420.
Definition TPM2_CC_VerifyDigestSignature : Z := 421.
Definition TPM2_CC_SignDigest : Z := 422.
Definition TPM2_CC_Encapsulate : Z := 423.
Definition TPM2_CC_Decapsulate : Z := 424.
Definition TPM2_CC_VerifySequenceStart : Z := 425.
Definition TPM2_CC_SignSequenceStart : Z := 426.
Definition TPM2_CC_LAST : Z := 426.
Definition TPM2_CC_Vendor_TCG_Test : Z := 536870912.

Record COMMAND_HANDLES := CH {
  ch_commandCode : Z; numCommandHandles : Z; ch_numResponseHandles : Z }.

Definition commandArray : list COMMAND_HANDLES := [
  CH TPM2_CC_Startup 0 0;
  CH TPM2_CC_Shutdown 0 0;
  CH TPM2_CC_SelfTest 0 0;
  CH TPM2_CC_IncrementalSelfTest 0 0;
  CH TPM2_CC_GetTestResult 0 0;
  CH TPM2_CC_StartAuthSession 2 1;
  CH TPM2_CC_PolicyRestart 1 0;
  CH TPM2_CC_Create 1 0;
  CH TPM2_CC_Load 1 1;
  CH TPM2_CC_LoadExternal 0 1;
  CH TPM2_CC_ReadPublic 1 0;
  CH TPM2_CC_ActivateCredential 2 0;
  CH TPM2_CC_MakeCredential 1 0;
  CH TPM2_CC_Unseal 1 0;
  CH TPM2_CC_ObjectChangeAuth 2 0;
  CH TPM2_CC_Duplicate 2 0;
  CH TPM2_CC_Rewrap 2 0;
  CH TPM2_CC_Import 1 0;
  CH TPM2_CC_RSA_Encrypt 1 0;
  CH TPM2_CC_RSA_Decrypt 1 0;
  CH TPM2_CC_ECDH_KeyGen 1 0;
  CH TPM2_CC_ECDH_ZGen 1 0;
  CH TPM2_CC_ECC_Parameters 0 0;
  CH TPM2_CC_ZGen_2Phase 1 0;
  CH TPM2_CC_EncryptDecrypt 1 0;
  CH TPM2_CC_EncryptDecrypt2 1 0;
  CH TPM2_CC_Hash 0 0;
  CH TPM2_CC_HMAC 1 0;
  CH TPM2_CC_GetRandom 0 0;
  CH TPM2_CC_StirRandom 0 0;
  CH TPM2_CC_HMAC_Start 1 1;
  CH TPM2_CC_HashSequenceStart 0 1;
  CH TPM2_CC_SequenceUpdate 1 0;
  CH TPM2_CC_SequenceComplete 1 0;
  CH TPM2_CC_EventSequenceComplete 2 0;
  CH TPM2_CC_Certify 2 0;
  CH TPM2_CC_CertifyCreation 2 0;
  CH TPM2_CC_Quote 1 0;
  CH TPM2_CC_GetSessionAuditDigest 3 0;
  CH TPM2_CC_GetCommandAuditDigest 2 0;
  CH TPM2_CC_GetTime 2 0;
  CH TPM2_CC_Commit 1 0;
  CH TPM2_CC_EC_Ephemeral 0 0;
  CH TPM2_CC_VerifySignature 1 0;
  CH TPM2_CC_Sign 1 0;
  CH TPM2_CC_SetCommandCodeAuditStatus 1 0;
  CH TPM2_CC_PCR_Extend 1 0;
  CH TPM2_CC_PCR_Event 1 0;
  CH TPM2_CC_PCR_Read 0 0;
  CH TPM2_CC_PCR_Allocate 1 0;
  CH TPM2_CC_PCR_SetAuthPolicy 1 0;
  CH TPM2_CC_PCR_SetAuthValue 1 0;
  CH TPM2_CC_PCR_Reset 1 0;
  CH TPM2_CC_PolicySigned 2 0;
  CH TPM2_CC_PolicySecret 2 0;
  CH TPM2_CC_PolicyTicket 1 0;
  CH TPM2_CC_PolicyOR 1 0;
  CH TPM2_CC_PolicyPCR 1 0;
  CH TPM2_CC_PolicyLocality 1 0;
  CH TPM2_CC_PolicyNV 3 0;
  CH TPM2_CC_PolicyNvWritten 1 0;
  CH TPM2_CC_PolicyCounterTimer 1 0;
  CH TPM2_CC_PolicyCommandCode 1 0;
  CH TPM2_CC_PolicyPhysicalPresence 1 0;
  CH TPM2_CC_PolicyCpHash 1 0;
  CH TPM2_CC_PolicyNameHash 1 0;
  CH TPM2_CC_PolicyDuplicationSelect 1 0;
  CH TPM2_CC_PolicyAuthorize 1 0;
  CH TPM2_CC_PolicyAuthValue 1 0;
  CH TPM2_CC_PolicyPassword 1 0;
  CH TPM2_CC_PolicyGetDigest 1 0;
  CH TPM2_CC_PolicyTemplate 1 0;
  CH TPM2_CC_CreatePrimary 1 1;
  CH TPM2_CC_HierarchyControl 1 0;
  CH TPM2_CC_SetPrimaryPolicy 1 0;
  CH TPM2_CC_ChangePPS 1 0;
  CH TPM2_CC_ChangeEPS 1 0;
  CH TPM2_CC_Clear 1 0;
  CH TPM2_CC_ClearControl 1 0;
  CH TPM2_CC_HierarchyChangeAuth 1 0;
  CH TPM2_CC_DictionaryAttackLockReset 1 0;
  CH TPM2_CC_DictionaryAttackParameters 1 0;
  CH TPM2_CC_PP_Commands 1 0;
  CH TPM2_CC_SetAlgorithmSet 1 0;
  CH TPM2_CC_FieldUpgradeStart 2 0;
  CH TPM2_CC_FieldUpgradeData 0 0;
  CH TPM2_CC_FirmwareRead 0 0;
  CH TPM2_CC_ContextSave 1 0;
  CH TPM2_CC_ContextLoad 0 1;
  CH TPM2_CC_FlushContext 0 0;
  CH TPM2_CC_EvictControl 2 0;
  CH TPM2_CC_ReadClock 0 0;
  CH TPM2_CC_ClockSet 1 0;
  CH TPM2_CC_ClockRateAdjust 1 0;
  CH TPM2_CC_GetCapability 0 0;
  CH TPM2_CC_TestParms 0 0;
  CH TPM2_CC_NV_DefineSpace 1 0;
  CH TPM2_CC_NV_UndefineSpace 2 0;
  CH TPM2_CC_NV_UndefineSpaceSpecial 2 0;
  CH TPM2_CC_NV_ReadPublic 1 0;
  CH TPM2_CC_NV_Write 2 0;
  CH TPM2_CC_NV_Increment 2 0;
  CH TPM2_CC_NV_Extend 2 0;
  CH TPM2_CC_NV_SetBits 2 0;
  CH TPM2_CC_NV_WriteLock 2 0;
  CH TPM2_CC_NV_GlobalWriteLock 1 0;
  CH TPM2_CC_NV_Read 2 0;
  CH TPM2_CC_NV_ReadLock 2 0;
  CH TPM2_CC_NV_ChangeAuth 1 0;
  CH TPM2_CC_NV_Certify 3 0;
  CH TPM2_CC_CreateLoaded 1 1;
  CH TPM2_CC_PolicyAuthorizeNV 3 0;
  CH TPM2_CC_AC_GetCapability 1 0;
  CH TPM2_CC_AC_Send 3 0;
  CH TPM2_CC_Policy_AC_SendSelect 1 0;
  CH TPM2_CC_ACT_SetTimeout 1 0;
  CH TPM2_CC_CertifyX509 2 0;
  CH TPM2_CC_ECC_Encrypt 1 0;
  CH TPM2_CC_ECC_Decrypt 1 0;
  CH TPM2_CC_Encapsulate 1 0;
  CH TPM2_CC_Decapsulate 1 0;
  CH TPM2_CC_SignDigest 1 0;
  CH TPM2_CC_VerifyDigestSignature 1 0;
  CH TPM2_CC_SignSequenceStart 1 1;
  CH TPM2_CC_VerifySequenceStart 1 1;
  CH TPM2_CC_SignSequenceComplete 1 0;
  CH TPM2_CC_VerifySequenceComplete 1 0
].

(** The loop of [GetNumHandles]: the first row of the command, 0 if none. *)
Fixpoint GetNumHandles_loop (rows : list COMMAND_HANDLES) (commandCode : Z) (req : bool) : Z :=
  match rows with
  | [] => 0
  | r :: rows =>
      if commandCode =? ch_commandCode r
      then if req then numCommandHandles r else ch_numResponseHandles r
      else GetNumHandles_loop rows commandCode req
  end.

Definition GetNumHandles (commandCode : Z) (req : bool) : Z :=
  GetNumHandles_loop commandArray commandCode req.
Definition GetNumCommandHandles (commandCode : Z) : Z := GetNumHandles commandCode true.
Definition GetNumResponseHandles (commandCode : Z) : Z := GetNumHandles commandCode false.

(** ** Lookup in the table *)

Definition handles_row_ok (r : COMMAND_HANDLES) : bool :=
  (0 <=? numCommandHandles r) && (numCommandHandles r <=? 3) &&
  (0 <=? ch_numResponseHandles r) && (ch_numResponseHandles r <=? 1).

Lemma GetNumHandles_loop_bound rows cc :
  Forall (fun r => handles_row_ok r = true) rows ->
  0 <= GetNumHandles_loop rows cc true <= 3 /\ 0 <= GetNumHandles_loop rows cc false <= 1.
Proof.
  unfold handles_row_ok. induction 1; simpl; [lia|]. case_test; bool2prop; lia.
Qed.

Lemma commandArray_ok : Forall (fun r => handles_row_ok r = true) commandArray.
Proof. repeat constructor. Qed.

Lemma GetNumCommandHandles_bound cc : 0 <= GetNumCommandHandles cc <= 3.
Proof. apply (GetNumHandles_loop_bound _ cc commandArray_ok). Qed.

Lemma GetNumResponseHandles_bound cc : 0 <= GetNumResponseHandles cc <= 1.
Proof. apply (GetNumHandles_loop_bound _ cc commandArray_ok). Qed.
