(* ===== verification/Sys.v ===== *)
(** * The System API context and its operations.

    [src/tss2-sys/sysapi_util.h], [src/tss2-sys/sysapi_util.c] and the
    context functions of [src/tss2-sys/api]: initialisation, the prologue and
    epilogue of every command, authorization areas, execution, access to the
    parameter areas.

    A context is the object behind [TSS2_SYS_CONTEXT *]; NULL is [None].  The
    memory that follows the structure is its field [cmdBuffer]; the pointers
    into that memory ([cpBuffer], [rspParamsSize]) are offsets.  A function
    that returns a [TSS2_RC] and changes the context is a [sysF]:
    [m ;;; k] is [rval = m; if (rval) return rval; k].

    The transport behind a context is a [TSS2_TCTI_CONTEXT]: a record of the
    two function pointers the System API calls and the state they share. *)

From S2P Require Import Prelude Common MuSpec MuBase MuStruct MuTpm2b TpmTypes MuTypes SysCodes.
Open Scope tss_scope.

(** ** Constants *)

Definition TPM2_ST_RSP_COMMAND : Z := 0x00C4.
Definition TPM2_ST_NO_SESSIONS : Z := 0x8001.
Definition TPM2_ST_SESSIONS : Z := 0x8002.
Definition TPM2_RC_INITIALIZE : Z := 0x100.
Definition TPM2_MAX_COMMAND_SIZE : Z := 8192.
Definition TSS2_SYS_MAX_SESSIONS : Z := 3.
Definition TSS2_TCTI_TIMEOUT_BLOCK : Z := -1.

(** [sizeof(TPM20_Header_In)] and [sizeof(TPM20_Header_Out)], both packed. *)
Definition sizeof_TPM20_Header_In : Z := 10.
Definition sizeof_TPM20_Header_Out : Z := 10.
(** [sizeof(TSS2_SYS_CONTEXT_BLOB)] on a host with 64-bit pointers. *)
Definition sizeof_TSS2_SYS_CONTEXT_BLOB : Z := 80.

(** ** Data *)

Inductive cmdStates :=
| CMD_STAGE_INITIALIZE
| CMD_STAGE_PREPARE
| CMD_STAGE_SEND_COMMAND
| CMD_STAGE_RECEIVE_RESPONSE
| CMD_STAGE_ALL.

#[export] Instance cmdStates_eq_dec : EqDecision cmdStates.
Proof. solve_decision. Defined.

Record TPM20_Header_Out := Header_Out { tag : Z; responseSize : Z; responseCode : Z }.

(** The members of [TSS2_TCTI_CONTEXT_COMMON_V1] that are used: [transmit] is
    given the [size] bytes of the command; [receive] is given [*size], whether
    [response] is not NULL and the timeout, and returns the new [*size] and the
    bytes it stores at [response]. *)
Record TSS2_TCTI_CONTEXT {S : Type} := Tcti {
  tcti_version : Z;
  tcti_transmit : option (S -> Z -> bytes -> TSS2_RC * S);
  tcti_receive : option (S -> Z -> bool -> Z -> TSS2_RC * (Z * (bytes * S)));
  tcti_state : S
}.
Arguments TSS2_TCTI_CONTEXT : clear implicits.
Arguments Tcti {S}.

Record TSS2L_SYS_AUTH_COMMAND := Auth_Command {
  cmd_count : Z; cmd_auths : list TPMS_AUTH_COMMAND }.
Record TSS2L_SYS_AUTH_RESPONSE := Auth_Response {
  rsp_count : Z; rsp_auths : list TPMS_AUTH_RESPONSE }.

Record TSS2_ABI_VERSION := Abi {
  tssCreator : Z; tssFamily : Z; tssLevel : Z; tssVersion : Z }.
Definition TSS2_ABI_VERSION_CURRENT : TSS2_ABI_VERSION := Abi 1 2 1 108.

Record TSS2_SYS_CONTEXT_BLOB {S : Type} := Blob {
  tctiContext : option (TSS2_TCTI_CONTEXT S);
  cmdBuffer : bytes;
  maxCmdSize : Z;
  cmd_header : bytes;
  rsp_header : TPM20_Header_Out;
  commandCode : Z;
  cpBufferUsedSize : Z;
  cpBuffer : Z;
  rspParamsSize : Z;
  previousStage : cmdStates;
  authsCount : Z;
  numResponseHandles : Z;
  decryptAllowed : bool;
  encryptAllowed : bool;
  decryptNull : bool;
  authAllowed : bool;
  nextData : Z
}.
Arguments TSS2_SYS_CONTEXT_BLOB : clear implicits.
Arguments Blob {S}.

Section Setters.
Context {S : Type}.
Definition set_tctiContext v (c : TSS2_SYS_CONTEXT_BLOB S) : TSS2_SYS_CONTEXT_BLOB S :=
  Blob v (cmdBuffer c) (maxCmdSize c) (cmd_header c) (rsp_header c) (commandCode c)
    (cpBufferUsedSize c) (cpBuffer c) (rspParamsSize c) (previousStage c) (authsCount c)
    (numResponseHandles c) (decryptAllowed c) (encryptAllowed c) (decryptNull c)
    (authAllowed c) (nextData c).
Definition set_cmdBuffer v (c : TSS2_SYS_CONTEXT_BLOB S) : TSS2_SYS_CONTEXT_BLOB S :=
  Blob (tctiContext c) v (maxCmdSize c) (cmd_header c) (rsp_header c) (commandCode c)
    (cpBufferUsedSize c) (cpBuffer c) (rspParamsSize c) (previousStage c) (authsCount c)
    (numResponseHandles c) (decryptAllowed c) (encryptAllowed c) (decryptNull c)
    (authAllowed c) (nextData c).
Definition set_maxCmdSize v (c : TSS2_SYS_CONTEXT_BLOB S) : TSS2_SYS_CONTEXT_BLOB S :=
  Blob (tctiContext c) (cmdBuffer c) v (cmd_header c) (rsp_header c) (commandCode c)
    (cpBufferUsedSize c) (cpBuffer c) (rspParamsSize c) (previousStage c) (authsCount c)
    (numResponseHandles c) (decryptAllowed c) (encryptAllowed c) (decryptNull c)
    (authAllowed c) (nextData c).
Definition set_cmd_header v (c : TSS2_SYS_CONTEXT_BLOB S) : TSS2_SYS_CONTEXT_BLOB S :=
  Blob (tctiContext c) (cmdBuffer c) (maxCmdSize c) v (rsp_header c) (commandCode c)
    (cpBufferUsedSize c) (cpBuffer c) (rspParamsSize c) (previousStage c) (authsCount c)
    (numResponseHandles c) (decryptAllowed c) (encryptAllowed c) (decryptNull c)
    (authAllowed c) (nextData c).
Definition set_rsp_header v (c : TSS2_SYS_CONTEXT_BLOB S) : TSS2_SYS_CONTEXT_BLOB S :=
  Blob (tctiContext c) (cmdBuffer c) (maxCmdSize c) (cmd_header c) v (commandCode c)
    (cpBufferUsedSize c) (cpBuffer c) (rspParamsSize c) (previousStage c) (authsCount c)
    (numResponseHandles c) (decryptAllowed c) (encryptAllowed c) (decryptNull c)
    (authAllowed c) (nextData c).
Definition set_commandCode v (c : TSS2_SYS_CONTEXT_BLOB S) : TSS2_SYS_CONTEXT_BLOB S :=
  Blob (tctiContext c) (cmdBuffer c) (maxCmdSize c) (cmd_header c) (rsp_header c) v
    (cpBufferUsedSize c) (cpBuffer c) (rspParamsSize c) (previousStage c) (authsCount c)
    (numResponseHandles c) (decryptAllowed c) (encryptAllowed c) (decryptNull c)
    (authAllowed c) (nextData c).
Definition set_cpBufferUsedSize v (c : TSS2_SYS_CONTEXT_BLOB S) : TSS2_SYS_CONTEXT_BLOB S :=
  Blob (tctiContext c) (cmdBuffer c) (maxCmdSize c) (cmd_header c) (rsp_header c)
    (commandCode c) v (cpBuffer c) (rspParamsSize c) (previousStage c) (authsCount c)
    (numResponseHandles c) (decryptAllowed c) (encryptAllowed c) (decryptNull c)
    (authAllowed c) (nextData c).
Definition set_cpBuffer v (c : TSS2_SYS_CONTEXT_BLOB S) : TSS2_SYS_CONTEXT_BLOB S :=
  Blob (tctiContext c) (cmdBuffer c) (maxCmdSize c) (cmd_header c) (rsp_header c)
    (commandCode c) (cpBufferUsedSize c) v (rspParamsSize c) (previousStage c)
    (authsCount c) (numResponseHandles c) (decryptAllowed c) (encryptAllowed c)
    (decryptNull c) (authAllowed c) (nextData c).
Definition set_rspParamsSize v (c : TSS2_SYS_CONTEXT_BLOB S) : TSS2_SYS_CONTEXT_BLOB S :=
  Blob (tctiContext c) (cmdBuffer c) (maxCmdSize c) (cmd_header c) (rsp_header c)
    (commandCode c) (cpBufferUsedSize c) (cpBuffer c) v (previousStage c) (authsCount c)
    (numResponseHandles c) (decryptAllowed c) (encryptAllowed c) (decryptNull c)
    (authAllowed c) (nextData c).
Definition set_previousStage v (c : TSS2_SYS_CONTEXT_BLOB S) : TSS2_SYS_CONTEXT_BLOB S :=
  Blob (tctiContext c) (cmdBuffer c) (maxCmdSize c) (cmd_header c) (rsp_header c)
    (commandCode c) (cpBufferUsedSize c) (cpBuffer c) (rspParamsSize c) v (authsCount c)
    (numResponseHandles c) (decryptAllowed c) (encryptAllowed c) (decryptNull c)
    (authAllowed c) (nextData c).
Definition set_authsCount v (c : TSS2_SYS_CONTEXT_BLOB S) : TSS2_SYS_CONTEXT_BLOB S :=
  Blob (tctiContext c) (cmdBuffer c) (maxCmdSize c) (cmd_header c) (rsp_header c)
    (commandCode c) (cpBufferUsedSize c) (cpBuffer c) (rspParamsSize c)
    (previousStage c) v (numResponseHandles c) (decryptAllowed c) (encryptAllowed c)
    (decryptNull c) (authAllowed c) (nextData c).
Definition set_numResponseHandles v (c : TSS2_SYS_CONTEXT_BLOB S) : TSS2_SYS_CONTEXT_BLOB S :=
  Blob (tctiContext c) (cmdBuffer c) (maxCmdSize c) (cmd_header c) (rsp_header c)
    (commandCode c) (cpBufferUsedSize c) (cpBuffer c) (rspParamsSize c)
    (previousStage c) (authsCount c) v (decryptAllowed c) (encryptAllowed c)
    (decryptNull c) (authAllowed c) (nextData c).
Definition set_decryptAllowed v (c : TSS2_SYS_CONTEXT_BLOB S) : TSS2_SYS_CONTEXT_BLOB S :=
  Blob (tctiContext c) (cmdBuffer c) (maxCmdSize c) (cmd_header c) (rsp_header c)
    (commandCode c) (cpBufferUsedSize c) (cpBuffer c) (rspParamsSize c)
    (previousStage c) (authsCount c) (numResponseHandles c) v (encryptAllowed c)
    (decryptNull c) (authAllowed c) (nextData c).
Definition set_encryptAllowed v (c : TSS2_SYS_CONTEXT_BLOB S) : TSS2_SYS_CONTEXT_BLOB S :=
  Blob (tctiContext c) (cmdBuffer c) (maxCmdSize c) (cmd_header c) (rsp_header c)
    (commandCode c) (cpBufferUsedSize c) (cpBuffer c) (rspParamsSize c)
    (previousStage c) (authsCount c) (numResponseHandles c) (decryptAllowed c) v
    (decryptNull c) (authAllowed c) (nextData c).
Definition set_decryptNull v (c : TSS2_SYS_CONTEXT_BLOB S) : TSS2_SYS_CONTEXT_BLOB S :=
  Blob (tctiContext c) (cmdBuffer c) (maxCmdSize c) (cmd_header c) (rsp_header c)
    (commandCode c) (cpBufferUsedSize c) (cpBuffer c) (rspParamsSize c)
    (previousStage c) (authsCount c) (numResponseHandles c) (decryptAllowed c)
    (encryptAllowed c) v (authAllowed c) (nextData c).
Definition set_authAllowed v (c : TSS2_SYS_CONTEXT_BLOB S) : TSS2_SYS_CONTEXT_BLOB S :=
  Blob (tctiContext c) (cmdBuffer c) (maxCmdSize c) (cmd_header c) (rsp_header c)
    (commandCode c) (cpBufferUsedSize c) (cpBuffer c) (rspParamsSize c)
    (previousStage c) (authsCount c) (numResponseHandles c) (decryptAllowed c)
    (encryptAllowed c) (decryptNull c) v (nextData c).
Definition set_nextData v (c : TSS2_SYS_CONTEXT_BLOB S) : TSS2_SYS_CONTEXT_BLOB S :=
  Blob (tctiContext c) (cmdBuffer c) (maxCmdSize c) (cmd_header c) (rsp_header c)
    (commandCode c) (cpBufferUsedSize c) (cpBuffer c) (rspParamsSize c)
    (previousStage c) (authsCount c) (numResponseHandles c) (decryptAllowed c)
    (encryptAllowed c) (decryptNull c) (authAllowed c) v.
End Setters.

(** ** Access to the context *)

Section Access.
Context {H : Host} {S : Type}.
Abbreviation blob := (TSS2_SYS_CONTEXT_BLOB S).
Abbreviation sysF := (option blob -> outcome (TSS2_RC * option blob)).

Definition is_null {A} (p : option A) : bool := match p with None => true | Some _ => false end.
Definition stage_is (c : blob) (s : cmdStates) : bool := bool_decide (previousStage c = s).

(** Dereferences [ctx]. *)
Definition deref {A} (ctx : option blob) (k : blob -> outcome A) : outcome A :=
  match ctx with Some c => k c | None => Undef end.

(** [if (!ctx) return TSS2_SYS_RC_BAD_REFERENCE;] *)
Definition check_ctx (k : sysF) : sysF := fun ctx =>
  match ctx with
  | None => Ret (TSS2_SYS_RC_BAD_REFERENCE, ctx)
  | Some _ => k ctx
  end.

Definition sys_seq (m k : sysF) : sysF := fun ctx =>
  let* (rval, ctx) := m ctx in
  if rval =? TSS2_RC_SUCCESS then k ctx else Ret (rval, ctx).

Definition sys_return (rval : TSS2_RC) : sysF := fun ctx => Ret (rval, ctx).

(** An assignment to members of the context. *)
Definition ctx_set (f : blob -> blob) : sysF := fun ctx =>
  deref ctx (fun c => Ret (TSS2_RC_SUCCESS, Some (f c))).

(** [Tss2_MU_X_Marshal(x, ctx->cmdBuffer, ctx->maxCmdSize, &ctx->nextData)] *)
Definition ctx_marshal (m : mstep) : sysF := fun ctx =>
  deref ctx (fun c =>
  let* (rval, (b, off)) := m (Some (cmdBuffer c)) (maxCmdSize c) (Some (nextData c)) in
  Ret (rval, Some (set_nextData (default (nextData c) off)
                    (set_cmdBuffer (default (cmdBuffer c) b) c)))).

(** [Tss2_MU_X_Unmarshal(ctx->cmdBuffer, ctx->maxCmdSize, &ctx->nextData, dest)] *)
Definition ctx_unmarshal {T} (u : ufn T) (ctx : option blob) (dest : option T) :
    outcome (TSS2_RC * (option blob * option T)) :=
  deref ctx (fun c =>
  let* (rval, (off, dest)) := u (Some (cmdBuffer c)) (maxCmdSize c) (Some (nextData c)) dest in
  Ret (rval, (Some (set_nextData (default (nextData c) off) c), dest))).

(** Members of the packed headers at the start of [cmdBuffer]. *)
Definition hdr_read (n : nat) (off : Z) (c : blob) : outcome Z :=
  let* w := access (mem_read (cmdBuffer c) off (Z.of_nat n)) in Ret (host_value w).
Definition hdr_write (n : nat) (off v : Z) (c : blob) : outcome blob :=
  let* b := access (mem_write (cmdBuffer c) off (host_image n v)) in
  Ret (set_cmdBuffer b c).

Definition hdr_tag : blob -> outcome Z := hdr_read 2 0.
Definition hdr_commandSize : blob -> outcome Z := hdr_read 4 2.
Definition hdr_responseSize : blob -> outcome Z := hdr_read 4 2.
Definition set_hdr_tag : Z -> blob -> outcome blob := hdr_write 2 0.
Definition set_hdr_commandSize : Z -> blob -> outcome blob := hdr_write 4 2.
Definition set_hdr_commandCode : Z -> blob -> outcome blob := hdr_write 4 6.

(** [memmove(ctx->cmdBuffer + dst, ctx->cmdBuffer + src, len)] *)
Definition buf_move (dst src len : Z) (c : blob) : outcome blob :=
  let* w := access (mem_read (cmdBuffer c) src len) in
  let* b := access (mem_write (cmdBuffer c) dst w) in
  Ret (set_cmdBuffer b c).
(** [memmove(ctx->cmdBuffer + dst, src, len)] from another object. *)
Definition buf_store (dst : Z) (w : bytes) (c : blob) : outcome blob :=
  let* b := access (mem_write (cmdBuffer c) dst w) in
  Ret (set_cmdBuffer b c).

End Access.

Abbreviation blob S := (TSS2_SYS_CONTEXT_BLOB S).
Abbreviation sysF S := (option (TSS2_SYS_CONTEXT_BLOB S) ->
  outcome (TSS2_RC * option (TSS2_SYS_CONTEXT_BLOB S))).

Notation "m ;;; k" := (sys_seq m k) (at level 60, right associativity) : tss_scope.

(** [rval = c; if (rval) return rval; k], where the objects [p] are passed
    to [c] and the objects the caller sees after the early return are [d]. *)
Notation "'check*' p ':=' c 'or' d 'in' k" :=
  (match c with
   | Ret (rval, p) => if rval =? TSS2_RC_SUCCESS then k else Ret (rval, d)
   | Undef => Undef
   end)
  (at level 10, p pattern, c at level 100, d at level 100, k at level 200) : tss_scope.

(** ** [sysapi_util.c] *)

Section Util.
Context {H : Host} {S : Type}.

Definition InitSysContextFields (ctx : blob S) : blob S :=
  set_nextData 0 (set_authAllowed false (set_decryptNull false
    (set_encryptAllowed false (set_decryptAllowed false ctx)))).

(** [maxCmdSize] is an [UINT32]. *)
Definition InitSysContextPtrs (contextSize : Z) (ctx : blob S) : blob S :=
  set_maxCmdSize (wrap 32 (contextSize - sizeof_TSS2_SYS_CONTEXT_BLOB)) ctx.

Definition GetCommandSize (ctx : blob S) : outcome Z :=
  let* v := hdr_commandSize ctx in Ret (BE_TO_HOST_32 v).

Definition CopyCommandHeader (commandCode : Z) : sysF S :=
  check_ctx (
  ctx_set (set_nextData 0) ;;;
  ctx_marshal (Tss2_MU_TPM2_ST_Marshal TPM2_ST_NO_SESSIONS) ;;;
  (fun ctx => deref ctx (fun c =>
     let* c := set_hdr_commandCode (HOST_TO_BE_32 commandCode) c in
     Ret (TSS2_RC_SUCCESS, Some (set_nextData sizeof_TPM20_Header_In c))))).

Definition CommonPreparePrologue (cc : Z) : sysF S :=
  check_ctx (
  ctx_set InitSysContextFields ;;;
  (fun ctx => deref ctx (fun c =>
     if negb (stage_is c CMD_STAGE_INITIALIZE)
        && negb (stage_is c CMD_STAGE_RECEIVE_RESPONSE)
        && negb (stage_is c CMD_STAGE_PREPARE)
     then Ret (TSS2_SYS_RC_BAD_SEQUENCE, ctx)
     else Ret (TSS2_RC_SUCCESS, ctx))) ;;;
  CopyCommandHeader cc ;;;
  ctx_set (fun c =>
    let c := set_commandCode cc c in
    let c := set_numResponseHandles (GetNumResponseHandles cc) c in
    let c := set_rspParamsSize
      (sizeof_TPM20_Header_Out + GetNumResponseHandles cc * 4) c in
    set_cpBuffer (nextData c + GetNumCommandHandles cc * 4) c)).

Definition CommonPrepareEpilogue : sysF S := fun ctx =>
  deref ctx (fun c =>
  let c := set_cpBufferUsedSize (wrap 32 (nextData c - cpBuffer c)) c in
  let* c := set_hdr_commandSize (HOST_TO_BE_32 (wrap 32 (nextData c))) c in
  Ret (TSS2_RC_SUCCESS, Some (set_previousStage CMD_STAGE_PREPARE c))).

Definition CommonComplete : sysF S :=
  check_ctx (fun ctx => deref ctx (fun c =>
  let* v := hdr_responseSize c in
  if maxCmdSize c <? BE_TO_HOST_32 v then Ret (TSS2_SYS_RC_MALFORMED_RESPONSE, ctx)
  else if negb (stage_is c CMD_STAGE_RECEIVE_RESPONSE)
  then Ret (TSS2_SYS_RC_BAD_SEQUENCE, ctx)
  else
    let c := set_nextData (rspParamsSize c) c in
    let* (rval, (_, tag)) :=
      Tss2_MU_TPM2_ST_Unmarshal (Some (cmdBuffer c)) (maxCmdSize c) (Some 0) (Some 0) in
    if negb (rval =? TSS2_RC_SUCCESS) then Ret (rval, Some c)
    else if default 0 tag =? TPM2_ST_SESSIONS then
      let* (rval, (ctx, _)) := ctx_unmarshal Tss2_MU_UINT32_Unmarshal (Some c) None in
      Ret (rval, ctx)
    else Ret (rval, Some c))).

End Util.

(** ** Context functions of [api/] *)

Section Api.
Context {H : Host} {S : Type}.

Definition Tss2_Sys_GetContextSize (maxCommandSize : Z) : Z :=
  if maxCommandSize =? 0 then sizeof_TSS2_SYS_CONTEXT_BLOB + TPM2_MAX_COMMAND_SIZE
  else wrap64 (sizeof_TSS2_SYS_CONTEXT_BLOB +
    (if sizeof_TPM20_Header_In <? maxCommandSize then maxCommandSize
     else sizeof_TPM20_Header_In)).

Definition Tss2_Sys_Initialize (contextSize : Z) (tcti : option (TSS2_TCTI_CONTEXT S))
    (abiVersion : option TSS2_ABI_VERSION) : sysF S := fun ctx =>
  match ctx, tcti with
  | None, _ | _, None => Ret (TSS2_SYS_RC_BAD_REFERENCE, ctx)
  | Some c, Some t =>
      if contextSize <? sizeof_TSS2_SYS_CONTEXT_BLOB
      then Ret (TSS2_SYS_RC_INSUFFICIENT_CONTEXT, ctx)
      else if is_null (tcti_transmit t) || is_null (tcti_receive t)
      then Ret (TSS2_SYS_RC_BAD_TCTI_STRUCTURE, ctx)
      else if match abiVersion with
              | None => false
              | Some v =>
                  negb (tssCreator v =? tssCreator TSS2_ABI_VERSION_CURRENT)
                  || negb (tssFamily v =? tssFamily TSS2_ABI_VERSION_CURRENT)
                  || negb (tssLevel v =? tssLevel TSS2_ABI_VERSION_CURRENT)
                  || negb (tssVersion v =? tssVersion TSS2_ABI_VERSION_CURRENT)
              end
      then Ret (TSS2_SYS_RC_ABI_MISMATCH, ctx)
      else
        let c := set_tctiContext (Some t) c in
        let c := InitSysContextPtrs contextSize c in
        let c := InitSysContextFields c in
        Ret (TSS2_RC_SUCCESS, Some (set_previousStage CMD_STAGE_INITIALIZE c))
  end.

Definition Tss2_Sys_Abort : sysF S :=
  check_ctx (ctx_set (set_previousStage CMD_STAGE_INITIALIZE)).

(** [*tctiContext] is written when the pointer is not NULL. *)
Definition Tss2_Sys_GetTctiContext (ctx : option (blob S))
    (out : option (option (TSS2_TCTI_CONTEXT S))) :
    outcome (TSS2_RC * option (option (TSS2_TCTI_CONTEXT S))) :=
  match ctx, out with
  | None, _ | _, None => Ret (TSS2_SYS_RC_BAD_REFERENCE, out)
  | Some c, Some _ => Ret (TSS2_RC_SUCCESS, Some (tctiContext c))
  end.

(** [commandCode] points to four bytes. *)
Definition Tss2_Sys_GetCommandCode (ctx : option (blob S)) (out : option bytes) :
    outcome (TSS2_RC * option bytes) :=
  match ctx, out with
  | None, _ | _, None => Ret (TSS2_SYS_RC_BAD_REFERENCE, out)
  | Some c, Some b =>
      if stage_is c CMD_STAGE_INITIALIZE
      then Ret (TSS2_SYS_RC_BAD_SEQUENCE, out)
      else
        let* b := access (mem_write b 0 (host_image 4 (HOST_TO_BE_32 (commandCode c)))) in
        Ret (TSS2_RC_SUCCESS, Some b)
  end.

(** The out parameters of the four functions below are a size and a pointer
    into [cmdBuffer], as an offset; [None] is a NULL argument. *)
Definition Tss2_Sys_GetCpBuffer (ctx : option (blob S)) (size buf : option Z) :
    outcome (TSS2_RC * (option Z * option Z)) :=
  match ctx, size, buf with
  | Some c, Some _, Some _ =>
      if negb (stage_is c CMD_STAGE_PREPARE)
         && negb (stage_is c CMD_STAGE_SEND_COMMAND)
      then Ret (TSS2_SYS_RC_BAD_SEQUENCE, (size, buf))
      else Ret (TSS2_RC_SUCCESS, (Some (cpBufferUsedSize c), Some (cpBuffer c)))
  | _, _, _ => Ret (TSS2_SYS_RC_BAD_REFERENCE, (size, buf))
  end.

Definition Tss2_Sys_GetRpBuffer (ctx : option (blob S)) (size buf : option Z) :
    outcome (TSS2_RC * (option Z * option Z)) :=
  match ctx, size, buf with
  | Some c, Some _, Some _ =>
      if negb (stage_is c CMD_STAGE_RECEIVE_RESPONSE)
      then Ret (TSS2_SYS_RC_BAD_SEQUENCE, (size, buf))
      else
        let offset := sizeof_TPM20_Header_Out in
        let offset := offset + numResponseHandles c * 4 in
        if tag (rsp_header c) =? TPM2_ST_SESSIONS then
          let* (rval, (off, parameterSize)) :=
            Tss2_MU_UINT32_Unmarshal (Some (cmdBuffer c)) (responseSize (rsp_header c))
              (Some offset) (Some 0) in
          if negb (rval =? TSS2_RC_SUCCESS) then Ret (rval, (size, buf))
          else Ret (TSS2_RC_SUCCESS, (parameterSize, off))
        else Ret (TSS2_RC_SUCCESS,
                  (Some (wrap64 (responseSize (rsp_header c) - offset)), Some offset))
  | _, _, _ => Ret (TSS2_SYS_RC_BAD_REFERENCE, (size, buf))
  end.

Definition Tss2_Sys_GetDecryptParam (ctx : option (blob S)) (size buf : option Z) :
    outcome (TSS2_RC * (option Z * option Z)) :=
  match ctx, size, buf with
  | Some c, Some _, Some _ =>
      if negb (stage_is c CMD_STAGE_PREPARE)
      then Ret (TSS2_SYS_RC_BAD_SEQUENCE, (size, buf))
      else if negb (decryptAllowed c)
      then Ret (TSS2_SYS_RC_NO_DECRYPT_PARAM, (size, buf))
      else
        let* v := hdr_read 2 (cpBuffer c) c in
        Ret (TSS2_RC_SUCCESS, (Some (BE_TO_HOST_16 v), Some (cpBuffer c + 2)))
  | _, _, _ => Ret (TSS2_SYS_RC_BAD_REFERENCE, (size, buf))
  end.

Definition Tss2_Sys_GetEncryptParam (ctx : option (blob S)) (size buf : option Z) :
    outcome (TSS2_RC * (option Z * option Z)) :=
  match ctx, size, buf with
  | Some c, Some _, Some _ =>
      if negb (encryptAllowed c) then Ret (TSS2_SYS_RC_NO_ENCRYPT_PARAM, (size, buf))
      else if negb (stage_is c CMD_STAGE_RECEIVE_RESPONSE)
      then Ret (TSS2_SYS_RC_BAD_SEQUENCE, (size, buf))
      else
        let* t := hdr_tag c in
        if BE_TO_HOST_16 t =? TPM2_ST_NO_SESSIONS
        then Ret (TSS2_SYS_RC_NO_ENCRYPT_PARAM, (size, buf))
        else
          let offset := sizeof_TPM20_Header_Out + numResponseHandles c * 4 + 4 in
          let* v := hdr_read 2 offset c in
          Ret (TSS2_RC_SUCCESS, (Some (BE_TO_HOST_16 v), Some (offset + 2)))
  | _, _, _ => Ret (TSS2_SYS_RC_BAD_REFERENCE, (size, buf))
  end.

(** [param_buffer] is an object of its own, outside the context. *)
Definition Tss2_Sys_SetEncryptParam (encryptParamSize : Z)
    (encryptParamBuffer : option bytes) : sysF S := fun ctx =>
  match encryptParamBuffer, ctx with
  | None, _ | _, None => Ret (TSS2_SYS_RC_BAD_REFERENCE, ctx)
  | Some src, Some c =>
      let* (rval, (size, buf)) := Tss2_Sys_GetEncryptParam ctx (Some 0) (Some 0) in
      if negb (rval =? TSS2_RC_SUCCESS) then Ret (rval, ctx)
      else if negb (encryptParamSize =? default 0 size)
      then Ret (TSS2_SYS_RC_BAD_SIZE, ctx)
      else if maxCmdSize c <? default 0 buf + encryptParamSize
      then Ret (TSS2_SYS_RC_INSUFFICIENT_CONTEXT, ctx)
      else
        let* w := access (mem_read src 0 encryptParamSize) in
        let* c := buf_store (default 0 buf) w c in
        Ret (TSS2_RC_SUCCESS, Some c)
  end.

Definition Tss2_Sys_SetDecryptParam (param_size : Z) (param_buffer : option bytes) :
    sysF S := fun ctx =>
  match param_buffer, ctx with
  | None, _ | _, None => Ret (TSS2_SYS_RC_BAD_REFERENCE, ctx)
  | Some src, Some c =>
      if negb (stage_is c CMD_STAGE_PREPARE)
      then Ret (TSS2_SYS_RC_BAD_SEQUENCE, ctx)
      else if negb (decryptAllowed c) then Ret (TSS2_SYS_RC_NO_DECRYPT_PARAM, ctx)
      else if param_size <? 1 then Ret (TSS2_SYS_RC_BAD_VALUE, ctx)
      else
      let* command_size := hdr_commandSize c in
      if maxCmdSize c <? wrap64 (BE_TO_HOST_32 command_size + param_size)
      then Ret (TSS2_SYS_RC_INSUFFICIENT_CONTEXT, ctx)
      else
      let* (rval, (size, buf)) := Tss2_Sys_GetDecryptParam ctx (Some 0) (Some 0) in
      if negb (rval =? TSS2_RC_SUCCESS) then Ret (rval, ctx)
      else
      let curr_param_size := default 0 size in
      let curr_param_buffer := default 0 buf in
      (* the parameter goes to the end of the size field of [cpBuffer] *)
      let store c :=
        let len := wrap 32 param_size in
        let* c := hdr_write 2 (cpBuffer c) (HOST_TO_BE_16 (wrap 16 param_size)) c in
        if maxCmdSize c <? curr_param_buffer + len
        then Ret (TSS2_SYS_RC_INSUFFICIENT_CONTEXT, Some c)
        else
          let* w := access (mem_read src 0 len) in
          let* c := buf_store curr_param_buffer w c in
          Ret (rval, Some c) in
      if (curr_param_size =? 0) && decryptNull c then
        let dst := cpBuffer c + cpBufferUsedSize c + 2 in
        let len := wrap 32 (cpBufferUsedSize c - 2) in
        if maxCmdSize c <? dst + len then Ret (TSS2_SYS_RC_INSUFFICIENT_CONTEXT, ctx)
        else
          let* c := buf_move dst (cpBuffer c + 2) len c in
          let c := set_cpBufferUsedSize (wrap 32 (cpBufferUsedSize c + param_size)) c in
          let* c := hdr_write 2 (cpBuffer c) (HOST_TO_BE_16 (wrap 16 param_size)) c in
          let* command_size := hdr_commandSize c in
          let command_size := wrap 32 (BE_TO_HOST_32 command_size + param_size) in
          let* c := set_hdr_commandSize (HOST_TO_BE_32 command_size) c in
          store c
      else if negb (curr_param_size =? param_size) then Ret (TSS2_SYS_RC_BAD_SIZE, ctx)
      else store c
  end.

End Api.

(** ** Authorization areas *)

Section Auths.
Context {H : Host} {S : Type}.

(** The first loop of [Tss2_Sys_SetCmdAuths] over the [n] auths left;
    [authSize] is an [UINT32]. *)
Fixpoint auths_size (auths : list TPMS_AUTH_COMMAND) (n : nat) (authSize : Z) : outcome Z :=
  match n, auths with
  | O, _ => Ret authSize
  | _, [] => Undef
  | Datatypes.S n, a :: auths =>
      let authSize := wrap 32 (authSize + 4) in
      let authSize := wrap 32 (authSize + (2 + size (TPMS_AUTH_COMMAND_nonce a))) in
      let authSize := wrap 32 (authSize + 1) in
      let authSize := wrap 32 (authSize + (2 + size (TPMS_AUTH_COMMAND_hmac a))) in
      auths_size auths n authSize
  end.

(** Its second loop, which a failing marshal call leaves. *)
Fixpoint auths_marshal (auths : list TPMS_AUTH_COMMAND) (n : nat) (b : bytes)
    (newCmdSize authOffset : Z) : outcome (TSS2_RC * (bytes * Z)) :=
  match n, auths with
  | O, _ => Ret (TSS2_RC_SUCCESS, (b, authOffset))
  | _, [] => Undef
  | Datatypes.S n, a :: auths =>
      let* (rval, (b', off)) :=
        Tss2_MU_TPMS_AUTH_COMMAND_Marshal (Some a) (Some b) newCmdSize (Some authOffset) in
      let b := default b b' in
      let authOffset := default authOffset off in
      if negb (rval =? TSS2_RC_SUCCESS) then Ret (rval, (b, authOffset))
      else auths_marshal auths n b newCmdSize authOffset
  end.

(** From the first [memmove] of [Tss2_Sys_SetCmdAuths] to its end: the
    parameters are moved and the authorization area is stored. *)
Definition insert_auths (arr : TSS2L_SYS_AUTH_COMMAND) (authSize newCmdSize : Z)
    (c : blob S) : outcome (TSS2_RC * option (blob S)) :=
  let* c := buf_move (cpBuffer c + authSize + 4) (cpBuffer c) (cpBufferUsedSize c) c in
  let* c := buf_store (cpBuffer c) (replicate 4 0) c in
  let authOffset := cpBuffer c in
  let* (rval, (b, off)) :=
    Tss2_MU_UINT32_Marshal authSize (Some (cmdBuffer c)) newCmdSize (Some authOffset) in
  let c := set_cmdBuffer (default (cmdBuffer c) b) c in
  if negb (rval =? TSS2_RC_SUCCESS) then Ret (rval, Some c)
  else
  let* (rval, (b, _)) := auths_marshal (cmd_auths arr) (Z.to_nat (cmd_count arr))
                           (cmdBuffer c) newCmdSize (default authOffset off) in
  let c := set_cmdBuffer b c in
  let c := set_cpBuffer (cpBuffer c + (authSize + 4)) c in
  let* c := set_hdr_commandSize (HOST_TO_BE_32 newCmdSize) c in
  Ret (rval, Some (set_authsCount (cmd_count arr) c)).

Definition Tss2_Sys_SetCmdAuths (cmdAuthsArray : option TSS2L_SYS_AUTH_COMMAND) :
    sysF S := fun ctx =>
  match ctx, cmdAuthsArray with
  | None, _ | _, None => Ret (TSS2_SYS_RC_BAD_REFERENCE, ctx)
  | Some c, Some arr =>
      if (TSS2_SYS_MAX_SESSIONS <? cmd_count arr) || (cmd_count arr =? 0)
      then Ret (TSS2_SYS_RC_BAD_SIZE, ctx)
      else if negb (stage_is c CMD_STAGE_PREPARE) then Ret (TSS2_SYS_RC_BAD_SEQUENCE, ctx)
      else if negb (authAllowed c) then Ret (TSS2_RC_SUCCESS, ctx)
      else
      let count := Z.to_nat (cmd_count arr) in
      let c := set_authsCount 0 c in
      let* c := set_hdr_tag (HOST_TO_BE_16 TPM2_ST_SESSIONS) c in
      let* authSize := auths_size (cmd_auths arr) count 0 in
      let* commandSize := hdr_commandSize c in
      let newCmdSize := authSize in
      let newCmdSize := wrap 32 (newCmdSize + 4) in
      let newCmdSize := wrap 32 (newCmdSize + BE_TO_HOST_32 commandSize) in
      if maxCmdSize c <? newCmdSize then Ret (TSS2_SYS_RC_INSUFFICIENT_CONTEXT, Some c)
      else if maxCmdSize c <? cpBufferUsedSize c
      then Ret (TSS2_SYS_RC_INSUFFICIENT_CONTEXT, Some c)
      else
      insert_auths arr authSize newCmdSize c
  end.

(** The validation loop of [Tss2_Sys_GetRspAuths] from index [i] on, with
    [n] iterations left; [Some rval] is an early return. *)
Fixpoint auths_validate (c : blob S) (n : nat) (i offset_tmp : Z) :
    outcome (option TSS2_RC) :=
  match n with
  | O => Ret None
  | Datatypes.S n =>
      let rspSize := responseSize (rsp_header c) in
      if rspSize <? offset_tmp then Ret (Some TSS2_SYS_RC_MALFORMED_RESPONSE)
      else
      let* tmp := hdr_read 2 offset_tmp c in
      let offset_tmp := offset_tmp + 2 + BE_TO_HOST_16 tmp in
      if rspSize <? offset_tmp then Ret (Some TSS2_SYS_RC_MALFORMED_RESPONSE)
      else
      let offset_tmp := offset_tmp + 1 in
      if rspSize <? offset_tmp then Ret (Some TSS2_SYS_RC_MALFORMED_RESPONSE)
      else
      let* tmp := hdr_read 2 offset_tmp c in
      let offset_tmp := offset_tmp + 2 + BE_TO_HOST_16 tmp in
      if rspSize <? offset_tmp then Ret (Some TSS2_SYS_RC_MALFORMED_RESPONSE)
      else if authsCount c <? i + 1 then Ret (Some TSS2_SYS_RC_INVALID_SESSIONS)
      else auths_validate c n (i + 1) offset_tmp
  end.

(** The unmarshaling loop: the [n] auths from the head of [auths] on. *)
Fixpoint auths_unmarshal (c : blob S) (n : nat) (auths : list TPMS_AUTH_RESPONSE)
    (offset : Z) : outcome (TSS2_RC * list TPMS_AUTH_RESPONSE) :=
  match n, auths with
  | O, _ => Ret (TSS2_RC_SUCCESS, auths)
  | _, [] => Undef
  | Datatypes.S n, a :: auths =>
      let* (rval, (off, a')) :=
        Tss2_MU_TPMS_AUTH_RESPONSE_Unmarshal (Some (cmdBuffer c)) (maxCmdSize c)
          (Some offset) (Some a) in
      let a := default a a' in
      if negb (rval =? TSS2_RC_SUCCESS) then Ret (rval, a :: auths)
      else
        let* (rval, auths) := auths_unmarshal c n auths (default offset off) in
        Ret (rval, a :: auths)
  end.

Definition Tss2_Sys_GetRspAuths (ctx : option (blob S))
    (rspAuthsArray : option TSS2L_SYS_AUTH_RESPONSE) :
    outcome (TSS2_RC * option TSS2L_SYS_AUTH_RESPONSE) :=
  match ctx, rspAuthsArray with
  | None, _ | _, None => Ret (TSS2_SYS_RC_BAD_REFERENCE, rspAuthsArray)
  | Some c, Some arr =>
      if negb (stage_is c CMD_STAGE_RECEIVE_RESPONSE)
         || negb (responseCode (rsp_header c) =? TSS2_RC_SUCCESS)
         || negb (authAllowed c)
      then Ret (TSS2_SYS_RC_BAD_SEQUENCE, rspAuthsArray)
      else if negb (TPM2_ST_SESSIONS =? tag (rsp_header c))
      then Ret (TSS2_SYS_RC_BAD_SEQUENCE, rspAuthsArray)
      else
      let offset := sizeof_TPM20_Header_Out in
      let offset := offset + numResponseHandles c * 4 in
      let* paramsSize := hdr_read 4 (rspParamsSize c) c in
      let offset := offset + BE_TO_HOST_32 paramsSize in
      let offset := offset + 4 in
      let count := Z.to_nat (authsCount c) in
      let* bad := auths_validate c count 0 offset in
      match bad with
      | Some rval => Ret (rval, rspAuthsArray)
      | None =>
          let* (rval, auths) := auths_unmarshal c count (rsp_auths arr) offset in
          Ret (rval, Some (Auth_Response (authsCount c) auths))
      end
  end.

End Auths.

(** ** Execution *)

Section Execute.
Context {H : Host} {S : Type}.

(** The macros [Tss2_Tcti_Transmit] and [Tss2_Tcti_Receive] of
    [include/tss2/tss2_tcti.h], with the context after the call. *)
Definition set_tcti_state (s : S) (t : TSS2_TCTI_CONTEXT S) : TSS2_TCTI_CONTEXT S :=
  Tcti (tcti_version t) (tcti_transmit t) (tcti_receive t) s.

Definition Tss2_Tcti_Transmit (t : option (TSS2_TCTI_CONTEXT S)) (size : Z)
    (command : bytes) : TSS2_RC * option (TSS2_TCTI_CONTEXT S) :=
  match t with
  | None => (TSS2_TCTI_RC_BAD_REFERENCE, t)
  | Some x =>
      if tcti_version x <? 1 then (TSS2_TCTI_RC_ABI_MISMATCH, t)
      else match tcti_transmit x with
           | None => (TSS2_TCTI_RC_NOT_IMPLEMENTED, t)
           | Some transmit =>
               let '(rval, s) := transmit (tcti_state x) size command in
               (rval, Some (set_tcti_state s x))
           end
  end.

Definition Tss2_Tcti_Receive (t : option (TSS2_TCTI_CONTEXT S)) (size : Z)
    (response : bool) (timeout : Z) :
    TSS2_RC * (Z * (bytes * option (TSS2_TCTI_CONTEXT S))) :=
  match t with
  | None => (TSS2_TCTI_RC_BAD_REFERENCE, (size, ([], t)))
  | Some x =>
      if tcti_version x <? 1 then (TSS2_TCTI_RC_ABI_MISMATCH, (size, ([], t)))
      else match tcti_receive x with
           | None => (TSS2_TCTI_RC_NOT_IMPLEMENTED, (size, ([], t)))
           | Some receive =>
               let '(rval, (size, (w, s))) := receive (tcti_state x) size response timeout in
               (rval, (size, (w, Some (set_tcti_state s x))))
           end
  end.

Definition Tss2_Sys_ExecuteAsync : sysF S :=
  check_ctx (fun ctx => deref ctx (fun c =>
  if negb (stage_is c CMD_STAGE_PREPARE) then Ret (TSS2_SYS_RC_BAD_SEQUENCE, ctx)
  else
  let* v := hdr_commandSize c in
  let* command := access (mem_read (cmdBuffer c) 0 (HOST_TO_BE_32 v)) in
  let '(rval, t) := Tss2_Tcti_Transmit (tctiContext c) (HOST_TO_BE_32 v) command in
  let c := set_tctiContext t c in
  if negb (rval =? TSS2_RC_SUCCESS) then Ret (rval, Some c)
  else
  let* h := access (mem_read (cmdBuffer c) 0 sizeof_TPM20_Header_In) in
  let c := set_cmd_header h c in
  Ret (rval, Some (set_previousStage CMD_STAGE_SEND_COMMAND c)))).

(** [Tss2_MU_X_Unmarshal] into a member of [ctx->rsp_header]. *)
Definition rsp_unmarshal (u : ufn Z) (get : TPM20_Header_Out -> Z)
    (set : Z -> TPM20_Header_Out -> TPM20_Header_Out) : sysF S := fun ctx =>
  let* (rval, (ctx, d)) :=
    ctx_unmarshal u ctx (option_map (fun c => get (rsp_header c)) ctx) in
  deref ctx (fun c =>
  Ret (rval, Some (set_rsp_header
    (set (default (get (rsp_header c)) d) (rsp_header c)) c))).

Definition set_tag v h := Header_Out v (responseSize h) (responseCode h).
Definition set_responseSize v h := Header_Out (tag h) v (responseCode h).
Definition set_responseCode v h := Header_Out (tag h) (responseSize h) v.

(** What [Tss2_Sys_ExecuteFinish] does once the response is in [cmdBuffer]. *)
Definition finish_tag : sysF S := fun ctx => deref ctx (fun c =>
  let t := tag (rsp_header c) in
  if negb (t =? TPM2_ST_SESSIONS) && negb (t =? TPM2_ST_NO_SESSIONS) then
    if t =? TPM2_ST_RSP_COMMAND then Ret (TSS2_SYS_RC_GENERAL_FAILURE, ctx)
    else Ret (TSS2_SYS_RC_MALFORMED_RESPONSE, ctx)
  else Ret (TSS2_RC_SUCCESS, ctx)).

Definition finish_size : sysF S := fun ctx => deref ctx (fun c =>
  if maxCmdSize c <? responseSize (rsp_header c)
  then Ret (TSS2_SYS_RC_MALFORMED_RESPONSE, ctx)
  else Ret (TSS2_RC_SUCCESS, ctx)).

Definition finish_code : sysF S := fun ctx => deref ctx (fun c =>
  let rval := responseCode (rsp_header c) in
  if responseSize (rsp_header c) <? sizeof_TPM20_Header_Out
  then Ret (TSS2_SYS_RC_INSUFFICIENT_RESPONSE,
            Some (set_previousStage CMD_STAGE_PREPARE c))
  else if negb (rval =? TSS2_RC_SUCCESS) && negb (rval =? TPM2_RC_INITIALIZE) then
    let c := set_previousStage CMD_STAGE_PREPARE c in
    let* c := buf_store 0 (cmd_header c) c in
    Ret (rval, Some c)
  else Ret (rval, Some (set_previousStage CMD_STAGE_RECEIVE_RESPONSE c))).

Definition finish_response : sysF S :=
  ctx_set (set_nextData 0) ;;;
  rsp_unmarshal Tss2_MU_TPM2_ST_Unmarshal tag set_tag ;;;
  finish_tag ;;;
  rsp_unmarshal Tss2_MU_UINT32_Unmarshal responseSize set_responseSize ;;;
  finish_size ;;;
  rsp_unmarshal Tss2_MU_UINT32_Unmarshal responseCode set_responseCode ;;;
  finish_code.

Definition Tss2_Sys_ExecuteFinish (timeout : Z) : sysF S :=
  check_ctx (fun ctx => deref ctx (fun c =>
  if negb (stage_is c CMD_STAGE_SEND_COMMAND) then Ret (TSS2_SYS_RC_BAD_SEQUENCE, ctx)
  else
  let '(rval, (response_size, (_, t))) := Tss2_Tcti_Receive (tctiContext c) 0 false timeout in
  let c := set_tctiContext t c in
  if negb (rval =? TSS2_RC_SUCCESS) then Ret (rval, Some c)
  else if response_size <? sizeof_TPM20_Header_Out
  then Ret (TSS2_SYS_RC_INSUFFICIENT_RESPONSE,
            Some (set_previousStage CMD_STAGE_PREPARE c))
  else if maxCmdSize c <? response_size
  then Ret (TSS2_SYS_RC_INSUFFICIENT_CONTEXT,
            Some (set_previousStage CMD_STAGE_PREPARE c))
  else
  let '(rval, (_, (w, t))) :=
    Tss2_Tcti_Receive (tctiContext c) response_size true timeout in
  let c := set_tctiContext t c in
  let* c := buf_store 0 w c in
  if rval =? TSS2_TCTI_RC_INSUFFICIENT_BUFFER
  then Ret (TSS2_SYS_RC_INSUFFICIENT_CONTEXT, Some c)
  else if negb (rval =? TSS2_RC_SUCCESS) then Ret (rval, Some c)
  else finish_response (Some c))).

Definition Tss2_Sys_Execute : sysF S :=
  check_ctx (
  Tss2_Sys_ExecuteAsync ;;;
  Tss2_Sys_ExecuteFinish TSS2_TCTI_TIMEOUT_BLOCK).

Definition CommonOneCall (cmdAuthsArray : option TSS2L_SYS_AUTH_COMMAND)
    (ctx : option (blob S)) (rspAuthsArray : option TSS2L_SYS_AUTH_RESPONSE) :
    outcome (TSS2_RC * (option (blob S) * option TSS2L_SYS_AUTH_RESPONSE)) :=
  check* ctx := match cmdAuthsArray with
                | Some _ => Tss2_Sys_SetCmdAuths cmdAuthsArray ctx
                | None => Ret (TSS2_RC_SUCCESS, ctx)
                end
    or (ctx, rspAuthsArray) in
  check* ctx := Tss2_Sys_Execute ctx or (ctx, rspAuthsArray) in
  deref ctx (fun c =>
  if negb (responseCode (rsp_header c) =? TSS2_RC_SUCCESS)
  then Ret (responseCode (rsp_header c), (ctx, rspAuthsArray))
  else
  let* t := hdr_tag c in
  if (BE_TO_HOST_16 t =? TPM2_ST_SESSIONS) && negb (is_null rspAuthsArray) then
    let* (rval, rspAuthsArray) := Tss2_Sys_GetRspAuths ctx rspAuthsArray in
    Ret (rval, (ctx, rspAuthsArray))
  else Ret (TSS2_RC_SUCCESS, (ctx, rspAuthsArray))).

End Execute.

(** ** Output parameters of the System API.

    The [Tss2_Sys_X_Complete] functions store the handles and parameters of a
    response into objects of the caller; the one-call functions
    [Tss2_Sys_X] prepare, execute and complete a command.  [out_prog R] is
    such a function body, for the output parameters [R]: what they point to
    (NULL is [None]) before the call, and the run of the body. *)

Section Out.
Context {H : Host} {S : Type}.

Record out_prog (R : Type) := OutProg {
  untouched : R;
  run : option (blob S) -> outcome (TSS2_RC * (option (blob S) * R))
}.

(** [return TSS2_RC_SUCCESS;] *)
Definition out_end : out_prog unit :=
  OutProg unit tt (fun ctx => Ret (TSS2_RC_SUCCESS, (ctx, tt))).

(** [rval = Tss2_MU_X_Unmarshal(ctx->cmdBuffer, ctx->maxCmdSize,
    &ctx->nextData, dest); if (rval) return rval;] *)
Definition out_unmarshal {T R} (u : ufn T) (dest : option T) (k : out_prog R) :
    out_prog (option T * R) :=
  OutProg _ (dest, untouched R k) (fun ctx =>
    check* (ctx, dest) := ctx_unmarshal u ctx dest or (ctx, (dest, untouched R k)) in
    let* (rval, (ctx, r)) := run R k ctx in
    Ret (rval, (ctx, (dest, r)))).

(** [rval = m(ctx); if (rval) return rval;] *)
Definition out_call {R} (m : sysF S) (k : out_prog R) : out_prog R :=
  OutProg _ (untouched R k) (fun ctx =>
    check* ctx := m ctx or (ctx, untouched R k) in run R k ctx).

(** [if (!ctx) return TSS2_SYS_RC_BAD_REFERENCE;] *)
Definition out_check_ctx {R} (k : out_prog R) : out_prog R :=
  OutProg _ (untouched R k) (fun ctx =>
    if is_null ctx then Ret (TSS2_SYS_RC_BAD_REFERENCE, (ctx, untouched R k))
    else run R k ctx).

(** [if (!p) return TSS2_SYS_RC_BAD_REFERENCE;] *)
Definition out_check {T R} (p : option T) (k : out_prog R) : out_prog R :=
  OutProg _ (untouched R k) (fun ctx =>
    if is_null p then Ret (TSS2_SYS_RC_BAD_REFERENCE, (ctx, untouched R k))
    else run R k ctx).

(** The body of the one-call functions; the array for the response sessions
    is one more output parameter. *)
Definition one_call {R} (prepare : sysF S) (cmdAuthsArray : option TSS2L_SYS_AUTH_COMMAND)
    (rspAuthsArray : option TSS2L_SYS_AUTH_RESPONSE) (complete : out_prog R) :
    out_prog (R * option TSS2L_SYS_AUTH_RESPONSE) :=
  OutProg _ (untouched R complete, rspAuthsArray) (fun ctx =>
    let outs := untouched R complete in
    check* ctx := prepare ctx or (ctx, (outs, rspAuthsArray)) in
    check* (ctx, rspAuthsArray) := CommonOneCall cmdAuthsArray ctx rspAuthsArray
      or (ctx, (outs, rspAuthsArray)) in
    let* (rval, (ctx, outs)) := run R complete ctx in
    Ret (rval, (ctx, (outs, rspAuthsArray)))).

End Out.

Arguments OutProg {S R}.
Arguments untouched {S R}.
Arguments run {S R}.

Notation "d '<~' u ';;' k" := (out_unmarshal u d k)
  (at level 60, u at level 59, right associativity) : tss_scope.
