(* ===== verification/SysOk.v ===== *)
(** * Preparing a command.

    What the prologue, the marshal calls and the epilogue of a
    [Tss2_Sys_X_Prepare] function do to a context: [appends] is the contract
    of the calls in the middle, [prepares] the contract of the whole function,
    with the command on the wire given by [cmd_image]. *)

From S2P Require Import Prelude Common MuSpec MuBase MuBaseOk MuStruct MuTpm2b MuTpm2bOk SysCodes Sys.
Open Scope tss_scope.

(** Computes the members of updated contexts. *)
Ltac ctx_cbn :=
  cbn [
    tctiContext cmdBuffer maxCmdSize cmd_header rsp_header commandCode cpBufferUsedSize
    cpBuffer rspParamsSize previousStage authsCount numResponseHandles decryptAllowed
    encryptAllowed decryptNull authAllowed nextData set_tctiContext set_cmdBuffer
    set_maxCmdSize set_cmd_header set_rsp_header set_commandCode set_cpBufferUsedSize
    set_cpBuffer set_rspParamsSize set_previousStage set_authsCount
    set_numResponseHandles set_decryptAllowed set_encryptAllowed set_decryptNull
    set_authAllowed set_nextData access default deref id from_option InitSysContextFields].

(** ** Headers *)

Section Headers.
Context {H : Host}.

Lemma image_be_16 v : 0 <= v < 2 ^ 16 -> host_image 2 (HOST_TO_BE_16 v) = be_bytes 2 v.
Proof. intros. by apply host_image_be. Qed.

Lemma image_be_32 v : 0 <= v < 2 ^ 32 -> host_image 4 (HOST_TO_BE_32 v) = be_bytes 4 v.
Proof. intros. by apply host_image_be. Qed.

Lemma value_be_16 v : 0 <= v < 2 ^ 16 -> BE_TO_HOST_16 (host_value (be_bytes 2 v)) = v.
Proof.
  intros. pose proof (Zlen_be_bytes 2 v) as L. unfold Zlen in L.
  rewrite (switch_host_be (be_bytes 2 v) (BE_TO_HOST_16 (host_value (be_bytes 2 v)))).
  - by apply be_value_be_bytes.
  - apply be_bytes_ok.
  - by replace (length (be_bytes 2 v)) with 2%nat by lia.
Qed.

Lemma value_be_32 v : 0 <= v < 2 ^ 32 -> BE_TO_HOST_32 (host_value (be_bytes 4 v)) = v.
Proof.
  intros. pose proof (Zlen_be_bytes 4 v) as L. unfold Zlen in L.
  rewrite (switch_host_be (be_bytes 4 v) (BE_TO_HOST_32 (host_value (be_bytes 4 v)))).
  - by apply be_value_be_bytes.
  - apply be_bytes_ok.
  - by replace (length (be_bytes 4 v)) with 4%nat by lia.
Qed.

(** Any [n] bytes are the image of a number below [256 ^ n]. *)
Lemma bytes_image (n : nat) w :
  bytes_ok w -> Zlen w = Z.of_nat n -> exists v, w = be_bytes n v /\ 0 <= v < 256 ^ Z.of_nat n.
Proof.
  intros B L. exists (be_value w). pose proof (be_value_bound w B). rewrite L in *.
  split; [|done]. unfold Zlen in L. replace n with (length w) by lia.
  symmetry. by apply be_bytes_be_value.
Qed.

(** A load of a big-endian field inside the buffer. *)
Lemma load_be_32 b off :
  bytes_ok b -> 0 <= off -> off + 4 <= Zlen b ->
  exists v, mem_read b off 4 = Some (be_bytes 4 v) /\ 0 <= v < 2 ^ 32.
Proof.
  intros B ??. destruct (mem_read_is_Some b off 4) as [w R]; [lia..|].
  destruct (bytes_image 4 w) as (v&->&?);
    [exact (mem_read_bytes _ _ _ _ B R)|exact (mem_read_len _ _ _ _ R)|eauto].
Qed.

Lemma load_be_16 b off :
  bytes_ok b -> 0 <= off -> off + 2 <= Zlen b ->
  exists v, mem_read b off 2 = Some (be_bytes 2 v) /\ 0 <= v < 2 ^ 16.
Proof.
  intros B ??. destruct (mem_read_is_Some b off 2) as [w R]; [lia..|].
  destruct (bytes_image 2 w) as (v&->&?);
    [exact (mem_read_bytes _ _ _ _ B R)|exact (mem_read_len _ _ _ _ R)|eauto].
Qed.

Lemma u32_marshal v b size lo :
  0 <= v < 2 ^ 32 -> 0 <= lo -> 0 <= size <= Zlen b -> lo + 4 <= size ->
  exists b', Tss2_MU_UINT32_Marshal v (Some b) size (Some lo)
             = Ret (TSS2_RC_SUCCESS, (Some b', Some (lo + 4))) /\
             mem_write b lo (be_bytes 4 v) = Some b'.
Proof.
  intros. destruct (marshal_ok_fits (c:=true) (BASE_MARSHAL UINT32) (spec_int UINT32) v
    (be_bytes 4 v) b size lo) as (b'&Em&W); try done.
  - apply BASE_MARSHAL_ok; ctype.
  - cbn [s_wire spec_int]. by rewrite to_unsigned_small.
  - rewrite Zlen_be_bytes in Em. by exists b'.
Qed.

End Headers.

(** ** Contexts *)

Section Prepare.
Context {H : Host} {S : Type}.
Implicit Types (c : blob S) (k m : sysF S).

(** The storage of a context: room for a header, and [maxCmdSize] bytes. *)
Record sys_mem c : Prop := SysMem {
  sm_bytes : bytes_ok (cmdBuffer c);
  sm_hdr : sizeof_TPM20_Header_In <= maxCmdSize c;
  sm_max : maxCmdSize c <= Zlen (cmdBuffer c);
  sm_u32 : maxCmdSize c < 2 ^ 32
}.

Lemma sys_mem_ext c c' :
  sys_mem c -> bytes_ok (cmdBuffer c') -> Zlen (cmdBuffer c') = Zlen (cmdBuffer c) ->
  maxCmdSize c' = maxCmdSize c -> sys_mem c'.
Proof. intros [????] ? L E. split; rewrite ?L, ?E; done. Qed.

Lemma sys_mem_same c c' :
  sys_mem c -> cmdBuffer c' = cmdBuffer c -> maxCmdSize c' = maxCmdSize c -> sys_mem c'.
Proof. intros [????] E1 E2. split; by rewrite ?E1, ?E2. Qed.

(** The command as it is sent: no sessions, then the handles and the
    parameters [w]. *)
Definition cmd_image (cc : Z) (w : bytes) : bytes :=
  be_bytes 2 TPM2_ST_NO_SESSIONS ++ be_bytes 4 (sizeof_TPM20_Header_In + Zlen w)
  ++ be_bytes 4 cc ++ w.

(** [c'] is [c] but for the buffer, [nextData] and [decryptNull]. *)
Definition body_frame c c' : Prop :=
  c' = set_decryptNull (decryptNull c') (set_nextData (nextData c')
         (set_cmdBuffer (cmdBuffer c') c)).

Lemma body_frame_refl c : body_frame c c.
Proof. by destruct c. Qed.

Lemma body_frame_trans c1 c2 c3 : body_frame c1 c2 -> body_frame c2 c3 -> body_frame c1 c3.
Proof. unfold body_frame. intros -> ->. by destruct c1. Qed.

Lemma body_frame_proj c c' :
  body_frame c c' ->
  maxCmdSize c' = maxCmdSize c /\ cpBuffer c' = cpBuffer c /\ commandCode c' = commandCode c /\
  numResponseHandles c' = numResponseHandles c /\ rspParamsSize c' = rspParamsSize c.
Proof. unfold body_frame. by intros ->. Qed.

(** [k] appends the bytes [ow] to the command. *)
Definition appends (ow : option bytes) k : Prop :=
  forall c, sys_mem c -> 0 <= nextData c ->
  exists rc c', k (Some c) = Ret (rc, Some c') /\ body_frame c c' /\
    bytes_ok (cmdBuffer c') /\
    marshal_post false ow (cmdBuffer c) (maxCmdSize c) (nextData c) rc
      (cmdBuffer c') (nextData c') /\ nextData c <= nextData c'.

Lemma appends_len ow b size lo rc b' lo' :
  marshal_post false ow b size lo rc b' lo' -> Zlen b' = Zlen b.
Proof. intros [(?&?&?&?&?&?%written_len)|(?&?&[]&?)]; done. Qed.

Lemma appends_mem ow c c' rc :
  sys_mem c -> body_frame c c' -> bytes_ok (cmdBuffer c') ->
  marshal_post false ow (cmdBuffer c) (maxCmdSize c) (nextData c) rc
    (cmdBuffer c') (nextData c') -> sys_mem c'.
Proof.
  intros M F B P%appends_len. apply (sys_mem_ext c); [done..|]. by rewrite F.
Qed.

Lemma appends_marshal {T} (m : T -> mstep) (s : spec T) x :
  SpecOk s -> marshal_ok m s -> s_wf s x -> s_dom s x ->
  appends (s_wire s x) (ctx_marshal (m x)).
Proof.
  intros O Om W D c M Hn. destruct (Om x W D) as [P _].
  destruct (P (cmdBuffer c) (maxCmdSize c) (nextData c)) as (rc&b'&lo'&E&Po);
    [done|destruct M; unfold sizeof_TPM20_Header_In in *; lia|].
  unfold ctx_marshal. simpl. rewrite E. do 2 eexists. split; [done|]. simpl.
  split; [by destruct c|]. split_and!.
  - destruct Po as [(w&Ew&_&_&_&Wr)|(_&_&So&_)]; [|apply So, M].
    apply (written_bytes _ _ _ _ (sm_bytes _ M) (so_bytes _ _ W Ew) Wr).
  - destruct Po as [Po|(Hr&_&Po)]; [by left|by right].
  - destruct Po as [(w&_&_&_&->&_)|(_&Lo&_)]; [pose proof (Zlen_nonneg w); lia|].
    rewrite Lo by done. lia.
Qed.

Lemma appends_decryptNull v : appends (Some []) (ctx_set (set_decryptNull v)).
Proof.
  intros c M Hn. do 2 eexists. split; [done|]. split; [by destruct c|]. split; [apply M|].
  split; [|simpl; lia]. left. exists []. simpl. rewrite (Zlen_nil (A:=Z)). split_and!; [done|by left|done|lia|by left].
Qed.

Lemma appends_seq o1 o2 m k : appends o1 m -> appends o2 k -> appends (wire_app o1 o2) (m ;;; k).
Proof.
  intros A1 A2 c M Hn. destruct (A1 c M Hn) as (rc&c1&E1&F1&B1&P1&Le1).
  pose proof (appends_mem _ _ _ _ M F1 B1 P1) as M1. unfold sys_seq. rewrite E1.
  assert (Ex : maxCmdSize c1 = maxCmdSize c) by by rewrite F1.
  destruct P1 as [(w1&->&Fi1&->&N1&Wr1)|(Hr&_&So&Why)]; simpl.
  - destruct (A2 c1 M1) as (rc2&c2&E2&F2&B2&P2&Le2); [zlia|]. rewrite E2.
    exists rc2, c2. split; [done|]. split; [by eapply body_frame_trans|]. split; [done|].
    split; [|lia]. rewrite N1, Ex in P2. destruct P2 as [(w2&->&Fi2&->&N2&Wr2)|(Hr&_&So&Why)].
    + left. exists (w1 ++ w2). rewrite Zlen_app.
      split_and!; [done|by apply fits_app|done|lia|by eapply written_app].
    + right. split_and!; [done|done| |].
      * apply (same_outside_trans _ (cmdBuffer c1) _ _ (nextData c + Zlen w1)); [zlia| |done].
        apply (written_outside _ _ w1); [done| |done|done].
        destruct Wr1 as [[-> _]|Wr]; [done|]. apply mem_read_write in Wr.
        exact (mem_read_bytes _ _ _ _ B1 Wr).
      * destruct Why as [->|(w2&->&Nf&->)]; [by left|right]. eexists.
        split_and!; [done| |done]. intros Fi. by apply Nf, fits_app_r.
  - rewrite (proj2 (Z.eqb_neq _ _) Hr). exists rc, c1. do 3 (split; [done|]). split; [|lia]. right.
    split_and!; [done|done|done|]. destruct Why as [->|(w1&->&Nf&->)]; [by left|].
    destruct o2 as [w2|]; [right|by left]. eexists. split_and!; [done| |done].
    intros Fi. by eapply Nf, fits_app_l.
Qed.

(** ** Prologue and epilogue *)

#[local] Arguments Tss2_MU_TPM2_ST_Marshal : simpl never.

Definition can_prepare (st : cmdStates) : bool :=
  match st with
  | CMD_STAGE_INITIALIZE | CMD_STAGE_PREPARE | CMD_STAGE_RECEIVE_RESPONSE => true
  | _ => false
  end.

(** The context after the prologue, with the buffer [b]. *)
Definition prologue_ctx (cc : Z) (b : bytes) c : blob S :=
  set_cpBuffer (sizeof_TPM20_Header_In + GetNumCommandHandles cc * 4)
    (set_rspParamsSize (sizeof_TPM20_Header_Out + GetNumResponseHandles cc * 4)
      (set_numResponseHandles (GetNumResponseHandles cc)
        (set_commandCode cc (set_nextData sizeof_TPM20_Header_In
          (set_cmdBuffer b (InitSysContextFields c)))))).

Lemma st_marshal c b :
  sys_mem c -> b = cmdBuffer c ->
  exists b', Tss2_MU_TPM2_ST_Marshal TPM2_ST_NO_SESSIONS (Some b) (maxCmdSize c) (Some 0)
             = Ret (TSS2_RC_SUCCESS, (Some b', Some 2)) /\
             mem_write b 0 (be_bytes 2 TPM2_ST_NO_SESSIONS) = Some b'.
Proof.
  intros M ->. destruct M as [? Hh ? ?]. unfold sizeof_TPM20_Header_In in Hh.
  apply u16_marshal; [done|lia..].
Qed.

Lemma prologue_stage c :
  negb (stage_is c CMD_STAGE_INITIALIZE) && negb (stage_is c CMD_STAGE_RECEIVE_RESPONSE)
    && negb (stage_is c CMD_STAGE_PREPARE) = negb (can_prepare (previousStage c)).
Proof. unfold stage_is. by destruct (previousStage c). Qed.

Lemma prologue_ok cc c :
  sys_mem c -> 0 <= cc < 2 ^ 32 -> can_prepare (previousStage c) = true ->
  exists b, CommonPreparePrologue cc (Some c) = Ret (TSS2_RC_SUCCESS, Some (prologue_ctx cc b c)) /\
    bytes_ok b /\ Zlen b = Zlen (cmdBuffer c) /\
    mem_read b 0 2 = Some (be_bytes 2 TPM2_ST_NO_SESSIONS) /\
    mem_read b 6 4 = Some (be_bytes 4 cc) /\
    mem_read b 2 4 = mem_read (cmdBuffer c) 2 4.
Proof.
  intros M Hc St. destruct (st_marshal c _ M eq_refl) as (b1&E1&W1).
  pose proof M as [B Hh Hx _]. unfold sizeof_TPM20_Header_In in Hh.
  apply mem_write_len in W1 as L1.
  destruct (mem_write_is_Some b1 6 (be_bytes 4 cc)) as [b W]; [done|zlia|].
  exists b. split.
  - unfold CommonPreparePrologue, CopyCommandHeader, sys_seq, check_ctx, ctx_set, deref.
    pose proof (prologue_stage c) as Ps. unfold stage_is in *. simpl.
    rewrite Ps, St. simpl. unfold ctx_marshal. simpl. rewrite E1. simpl.
    unfold set_hdr_commandCode, hdr_write. simpl. rewrite image_be_32, W by done. done.
  - apply mem_write_len in W as L. split_and!; [|lia| | |].
    + eapply mem_write_bytes; [|apply be_bytes_ok|exact W].
      eapply mem_write_bytes; [done|apply be_bytes_ok|exact W1].
    + destruct (mem_write_outside _ _ _ _ (be_bytes_ok 4 cc) W) as (_&_&->); [|lia].
      exact (mem_read_write _ _ _ _ W1).
    + exact (mem_read_write _ _ _ _ W).
    + destruct (mem_write_outside _ _ _ _ (be_bytes_ok 4 cc) W) as (_&_&->); [|lia].
      destruct (mem_write_outside _ _ _ _ (be_bytes_ok 2 _) W1) as (_&_&->); [done|].
      rewrite Zlen_be_bytes. lia.
Qed.

Lemma prologue_bad cc c :
  can_prepare (previousStage c) = false ->
  CommonPreparePrologue cc (Some c) = Ret (TSS2_SYS_RC_BAD_SEQUENCE, Some (InitSysContextFields c)).
Proof.
  intros St. unfold CommonPreparePrologue, sys_seq, check_ctx, ctx_set, deref.
  pose proof (prologue_stage c) as Ps. unfold stage_is in *. simpl. by rewrite Ps, St.
Qed.

(** Flag assignments and the epilogue end every [Prepare] function. *)
Definition set_flags (d e a : bool) c : blob S :=
  set_decryptAllowed d (set_encryptAllowed e (set_authAllowed a c)).

Definition no_flags c : Prop :=
  decryptAllowed c = false /\ encryptAllowed c = false /\ authAllowed c = false.

Definition tail_ok (d e a : bool) k : Prop :=
  forall c, no_flags c -> k (Some c) = CommonPrepareEpilogue (Some (set_flags d e a c)).

Lemma epilogue_ok c :
  sys_mem c -> sizeof_TPM20_Header_In <= nextData c <= maxCmdSize c ->
  0 <= cpBuffer c <= nextData c ->
  exists b, CommonPrepareEpilogue (Some c) = Ret (TSS2_RC_SUCCESS,
      Some (set_previousStage CMD_STAGE_PREPARE (set_cmdBuffer b
        (set_cpBufferUsedSize (nextData c - cpBuffer c) c)))) /\
    mem_write (cmdBuffer c) 2 (be_bytes 4 (nextData c)) = Some b.
Proof.
  intros [? Hh Hx Hu] Hn Hc. unfold sizeof_TPM20_Header_In in *.
  destruct (mem_write_is_Some (cmdBuffer c) 2 (be_bytes 4 (nextData c))) as [b W];
    [done|zlia|]. exists b. split; [|done].
  unfold CommonPrepareEpilogue, set_hdr_commandSize, hdr_write. simpl.
  rewrite !wrap_small by lia. rewrite image_be_32, W by lia. done.
Qed.

(** ** Whole functions *)

(** The handles [hs] and the images [ps] of the parameters, in order. *)
Definition handle_wire (h : Z) : option bytes := Some (be_bytes 4 h).
Definition wires (ps : list (option bytes)) : option bytes := foldr wire_app (Some []) ps.

(** The context [c'] holds the command [cc] with handles and parameters [w]. *)
Record prepared (cc : Z) (nh : Z) (w : bytes) (d e a : bool) c c' : Prop := Prepared {
  pd_image : mem_read (cmdBuffer c') 0 (sizeof_TPM20_Header_In + Zlen w)
             = Some (cmd_image cc w);
  pd_fits : sizeof_TPM20_Header_In + Zlen w <= maxCmdSize c';
  pd_next : nextData c' = sizeof_TPM20_Header_In + Zlen w;
  pd_cp : cpBuffer c' = sizeof_TPM20_Header_In + nh * 4;
  pd_used : cpBufferUsedSize c' = Zlen w - nh * 4;
  pd_used_nonneg : 0 <= cpBufferUsedSize c';
  pd_stage : previousStage c' = CMD_STAGE_PREPARE;
  pd_cc : commandCode c' = cc;
  pd_nrh : numResponseHandles c' = GetNumResponseHandles cc;
  pd_rsp : rspParamsSize c' = sizeof_TPM20_Header_Out + GetNumResponseHandles cc * 4;
  pd_flags : decryptAllowed c' = d /\ encryptAllowed c' = e /\ authAllowed c' = a
}.

(** What no [Prepare] function touches. *)
Definition prepare_frame c c' : Prop :=
  tctiContext c' = tctiContext c /\ maxCmdSize c' = maxCmdSize c /\
  cmd_header c' = cmd_header c /\ rsp_header c' = rsp_header c /\
  authsCount c' = authsCount c.

Definition prepare_post (cc : Z) (nh : Z) (ow : option bytes) (d e a : bool) c
    (rc : TSS2_RC) c' : Prop :=
  (exists w, ow = Some w /\ sizeof_TPM20_Header_In + Zlen w <= maxCmdSize c /\
     rc = TSS2_RC_SUCCESS /\ prepared cc nh w d e a c c') \/
  (rc <> TSS2_RC_SUCCESS /\ previousStage c' = previousStage c /\ no_flags c' /\
     mem_read (cmdBuffer c') 2 4 = mem_read (cmdBuffer c) 2 4 /\ 0 <= nextData c' /\
     cpBuffer c' = sizeof_TPM20_Header_In + nh * 4 /\
     rspParamsSize c' = sizeof_TPM20_Header_Out + GetNumResponseHandles cc * 4 /\
     numResponseHandles c' = GetNumResponseHandles cc /\
     (ow = None \/ exists w, ow = Some w /\ rc = TSS2_MU_RC_INSUFFICIENT_BUFFER /\
        maxCmdSize c < sizeof_TPM20_Header_In + Zlen w)).

(** The contract of a [Prepare] function. *)
Definition prepares (cc : Z) (hs : list Z) (ps : list (option bytes)) (d e a : bool)
    (P : sysF S) : Prop :=
  P None = Ret (TSS2_SYS_RC_BAD_REFERENCE, None) /\
  forall c, sys_mem c ->
  exists rc c', P (Some c) = Ret (rc, Some c') /\ sys_mem c' /\ prepare_frame c c' /\
    (can_prepare (previousStage c) = false ->
       rc = TSS2_SYS_RC_BAD_SEQUENCE /\ c' = InitSysContextFields c) /\
    (can_prepare (previousStage c) = true ->
       prepare_post cc (Zlen hs) (wires (map handle_wire hs ++ ps)) d e a c rc c').

(** The rest of a [Prepare] function: appends the images [ows], then ends. *)
Inductive rest_ok (d e a : bool) : list (option bytes) -> sysF S -> Prop :=
| rest_tail k : tail_ok d e a k -> rest_ok d e a [] k
| rest_cons ow ows m k :
    appends ow m -> rest_ok d e a ows k -> rest_ok d e a (ow :: ows) (m ;;; k).

Definition rest_post (ow : option bytes) (d e a : bool) c (rc : TSS2_RC) c' : Prop :=
  (exists w c1 b, ow = Some w /\ fits (nextData c) w (maxCmdSize c) /\
     rc = TSS2_RC_SUCCESS /\ body_frame c c1 /\ bytes_ok (cmdBuffer c1) /\
     written (cmdBuffer c) (nextData c) w (cmdBuffer c1) /\
     nextData c1 = nextData c + Zlen w /\
     mem_write (cmdBuffer c1) 2 (be_bytes 4 (nextData c1)) = Some b /\
     c' = set_previousStage CMD_STAGE_PREPARE (set_cmdBuffer b
        (set_cpBufferUsedSize (nextData c1 - cpBuffer c) (set_flags d e a c1)))) \/
  (rc <> TSS2_RC_SUCCESS /\ body_frame c c' /\ bytes_ok (cmdBuffer c') /\
     nextData c <= nextData c' /\ same_outside (cmdBuffer c) (cmdBuffer c') (nextData c) (maxCmdSize c) /\
     (ow = None \/ exists w, ow = Some w /\ ~ fits (nextData c) w (maxCmdSize c) /\
                     rc = TSS2_MU_RC_INSUFFICIENT_BUFFER)).


Lemma rest_ok_post d e a ows k c :
  rest_ok d e a ows k -> sys_mem c -> no_flags c ->
  sizeof_TPM20_Header_In <= nextData c <= maxCmdSize c ->
  0 <= cpBuffer c -> (forall w, wires ows = Some w -> cpBuffer c <= nextData c + Zlen w) ->
  exists rc c', k (Some c) = Ret (rc, Some c') /\ rest_post (wires ows) d e a c rc c'.
Proof.
  intros R. revert c. induction R as [k T|ow ows m k A R IH]; intros c M Nf Hn Hc Hw.
  - rewrite (T c Nf). pose proof (Hw [] eq_refl). rewrite (Zlen_nil (A:=Z)) in *.
    destruct (epilogue_ok (set_flags d e a c)) as (b&E&W); [|simpl; lia..|].
    { apply (sys_mem_ext c); [done|apply M|done|done]. }
    rewrite E. do 2 eexists. split; [done|]. left. exists [], c, b. simpl in *.
    split_and!; try done; [by left|apply body_frame_refl|apply M|by left|].
    rewrite (Zlen_nil (A:=Z)). lia.
  - destruct (A c M) as (rc&c1&E1&F1&B1&P1&Le1); [unfold sizeof_TPM20_Header_In in *; lia|].
    pose proof (appends_mem _ _ _ _ M F1 B1 P1) as M1. unfold sys_seq. rewrite E1.
    assert (Ex : maxCmdSize c1 = maxCmdSize c) by by rewrite F1.
    assert (Ec : cpBuffer c1 = cpBuffer c) by by rewrite F1.
    destruct P1 as [(w1&->&Fi1&->&N1&Wr1)|(Hr&_&So&Why)]; simpl.
    + destruct (IH c1) as (rc2&c2&E2&P2); [done|by rewrite F1| |lia| |].
      { destruct Fi1 as [->|Fi1]; rewrite N1, Ex; [rewrite (Zlen_nil (A:=Z)); lia|zlia]. }
      { intros w Ew. rewrite Ec, N1. specialize (Hw (w1 ++ w)). simpl in Hw.
        rewrite Ew, Zlen_app in Hw. specialize (Hw eq_refl). lia. }
      rewrite E2. do 2 eexists. split; [done|].
      destruct P2 as [(w2&c3&b&Ew2&Fi2&->&F2&B2&Wr2&N2&Wb&->)|(Hr&F2&B2&Le2&So&Why)].
      * left. exists (w1 ++ w2), c3, b. rewrite Zlen_app, Ew2, Ec. rewrite N1, Ex in *.
        split_and!; [done|by apply fits_app|done|by eapply body_frame_trans|done
          |by eapply written_app|lia|done|done].
      * right. split; [done|]. split; [by eapply body_frame_trans|]. split; [done|].
        split; [lia|]. rewrite N1, Ex in *. split.
        -- apply (same_outside_trans _ (cmdBuffer c1) _ _ (nextData c + Zlen w1)); [zlia| |done].
           apply (written_outside _ _ w1); [unfold sizeof_TPM20_Header_In in *; lia| |done|done].
           destruct Wr1 as [[-> _]|Wr]; [done|]. apply mem_read_write in Wr.
           exact (mem_read_bytes _ _ _ _ B1 Wr).
        -- destruct Why as [->|(w2&->&Nfi&->)]; [by left|right]. eexists.
           split_and!; [done| |done]. intros Fi. by apply Nfi, fits_app_r.
    + rewrite (proj2 (Z.eqb_neq _ _) Hr). do 2 eexists. split; [done|].
      right. split_and!; [done..|]. destruct Why as [->|(w1&->&Nfi&->)]; [by left|].
      destruct (wires ows) as [w2|]; [right|by left]. eexists. split_and!; [done| |done].
      intros Fi. by eapply Nfi, fits_app_l.
Qed.

(** ** The image of the whole command *)

Lemma wires_handles hs ps w :
  wires (map handle_wire hs ++ ps) = Some w -> Zlen hs * 4 <= Zlen w.
Proof.
  revert w. induction hs as [|h hs IH]; simpl; intros w E.
  - rewrite (Zlen_nil (A:=Z)). zlia.
  - destruct (wires (map handle_wire hs ++ ps)) as [w2|]; [|done]. some_inv.
    specialize (IH w2 eq_refl). rewrite Zlen_app, Zlen_cons, Zlen_be_bytes. lia.
Qed.

Lemma command_image cc w b0 b1 b :
  sizeof_TPM20_Header_In <= Zlen b0 ->
  mem_read b0 0 2 = Some (be_bytes 2 TPM2_ST_NO_SESSIONS) ->
  mem_read b0 6 4 = Some (be_bytes 4 cc) ->
  written b0 sizeof_TPM20_Header_In w b1 -> bytes_ok w ->
  mem_write b1 2 (be_bytes 4 (sizeof_TPM20_Header_In + Zlen w)) = Some b ->
  mem_read b 0 (sizeof_TPM20_Header_In + Zlen w) = Some (cmd_image cc w).
Proof.
  intros L0 R0 R6 Wr Bw W. unfold sizeof_TPM20_Header_In in *.
  set (sz := be_bytes 4 (10 + Zlen w)) in *.
  assert (Keep : forall o n, o + n <= 10 -> mem_read b1 o n = mem_read b0 o n).
  { intros o n ?. destruct Wr as [[_ ->]|Wr]; [done|].
    destruct (mem_write_outside _ _ _ _ Bw Wr) as (_&_&->); [done|lia]. }
  destruct (mem_write_outside _ _ _ _ (be_bytes_ok _ _) W) as (Lb&_&Out).
  fold sz in Out. replace (Zlen sz) with 4 in * by (unfold sz; by rewrite Zlen_be_bytes).
  assert (R : mem_read b 10 (Zlen w) = Some w).
  { rewrite Out by lia. destruct (written_reads _ _ _ _ Wr) as [->|R]; [|done].
    rewrite (Zlen_nil (A:=Z)). apply mem_read_0. rewrite (written_len _ _ _ _ Wr). lia. }
  unfold cmd_image. replace (10 + Zlen w) with (2 + (4 + (4 + Zlen w))) at 1 by lia.
  repeat apply mem_read_app; simpl (_ + _).
  - rewrite Out by lia. by rewrite Keep by lia.
  - apply mem_read_write in W. unfold sz in *. by rewrite Zlen_be_bytes in W.
  - rewrite Out by lia. by rewrite Keep by lia.
  - exact R.
Qed.

(** A [Prepare] function is the prologue followed by the rest. *)
Lemma prepares_intro cc hs ps d e a k :
  0 <= cc < 2 ^ 32 -> GetNumCommandHandles cc = Zlen hs ->
  rest_ok d e a (map handle_wire hs ++ ps) k ->
  prepares cc hs ps d e a (check_ctx (CommonPreparePrologue cc ;;; k)).
Proof.
  intros Hcc Hh R. split; [done|]. intros c M. unfold check_ctx, sys_seq.
  destruct (can_prepare (previousStage c)) eqn:St.
  2:{ rewrite (prologue_bad cc c St). do 2 eexists. split; [done|].
      split; [by apply (sys_mem_ext c); try apply M|]. by split. }
  destruct (prologue_ok cc c M Hcc St) as (b&E&B&L&R0&R6&R2). rewrite E. simpl.
  pose proof (Zlen_nonneg hs) as Hl. pose proof (sm_hdr _ M) as Hm.
  assert (M0 : sys_mem (prologue_ctx cc b c)) by by apply (sys_mem_ext c).
  destruct (rest_ok_post d e a _ k _ R M0) as (rc&c'&E'&P); [done|simpl; lia| | |].
  { simpl. unfold sizeof_TPM20_Header_In. lia. }
  { intros w Ew%wires_handles. simpl. lia. }
  rewrite E'. do 2 eexists. split; [done|].
  destruct P as [(w&c1&b'&Ew&Fi&->&F&B1&Wr&N&Wb&->)|(Hr&F&B1&Le&So&Why)]; simpl in *.
  - pose proof (written_len _ _ _ _ Wr) as L1. pose proof (mem_write_len _ _ _ _ Wb) as L2.
    assert (Bw : bytes_ok w).
    { destruct (written_reads _ _ _ _ Wr) as [->|Rd]; [done|].
      exact (mem_read_bytes _ _ _ _ B1 Rd). }
    assert (Sz : sizeof_TPM20_Header_In + Zlen w <= maxCmdSize c).
    { destruct Fi as [->|]; [rewrite (Zlen_nil (A:=Z)); lia|done]. }
    pose proof (wires_handles _ _ _ Ew). split; [|split].
    + apply (sys_mem_ext c); [done| |simpl; lia|by simpl; rewrite F].
      exact (mem_write_bytes _ _ _ _ B1 (be_bytes_ok _ _) Wb).
    + unfold prepare_frame. simpl. by rewrite F.
    + split; [done|]. intros _. left. exists w. rewrite N, Hh. split_and!; try done.
      rewrite N in Wb. destruct (body_frame_proj _ _ F) as (?&?&?&?&?). simpl in *.
      split; simpl; try done; try lia.
      eapply command_image; [|done..|exact Wb].
      rewrite L. by transitivity (maxCmdSize c); [|apply M].
  - assert (Em : maxCmdSize c' = maxCmdSize c) by by rewrite F.
    split; [|split; [|split; [done|]]].
    + apply (sys_mem_ext c); [done|done| |done]. destruct So as [Ls _]. lia.
    + unfold prepare_frame. by rewrite F.
    + intros _. right. destruct (body_frame_proj _ _ F) as (?&Fc&?&Fn&Fr). simpl in *.
      split_and!; [done|by rewrite F|by rewrite F| |unfold sizeof_TPM20_Header_In in Le; lia
        |by rewrite Fc, Hh|done|done|].
      { destruct So as (_&_&->); [done|left; unfold sizeof_TPM20_Header_In; lia]. }
      destruct Why as [?|(w&Ew&Nf&->)]; [by left|right]. exists w. split_and!; [done|done|].
      destruct (Z.lt_ge_cases (maxCmdSize c) (sizeof_TPM20_Header_In + Zlen w)); [done|].
      destruct Nf. by right.
Qed.

End Prepare.
