(* ===== verification/SysCmds.v ===== *)
(** * The [Prepare] functions of the System API commands.

    [src/tss2-sys/api]: every [Tss2_Sys_X_Prepare], statement by statement.
    The [Validate] macros and [IsAlgorithmWeak] are those of the default
    configuration, in which [DISABLE_WEAK_CRYPTO] is not defined. *)

From S2P Require Import Prelude Common MuSpec MuBase MuStruct MuTpm2b MuUnion MuPcr TpmTypes MuTypes SysCodes Sys.
Open Scope tss_scope.

Section Prepare.
Context {H : Host} {S : Type}.

(** [if (!p) return TSS2_SYS_RC_BAD_REFERENCE;] *)
Definition check_ptr {T} (p : option T) (k : sysF S) : sysF S :=
  if is_null p then sys_return TSS2_SYS_RC_BAD_REFERENCE else k.

(** [if (!p) a else b] *)
Definition null_or {T} (p : option T) (a b : sysF S) : sysF S :=
  if is_null p then a else b.

(** [if (p->size > 0) return TSS2_SYS_RC_BAD_VALUE;] *)
Definition check_empty (p : option TPM2B) (k : sysF S) : sysF S :=
  match p with
  | None => fun _ => Undef
  | Some x => if 0 <? size x then sys_return TSS2_SYS_RC_BAD_VALUE else k
  end.

(** The variadic macros of the default configuration, which drop their
    arguments. *)
Definition IsAlgorithmWeak : Z := TSS2_RC_SUCCESS.
Definition ValidatePublicTemplate : sysF S := sys_return TSS2_RC_SUCCESS.
Definition ValidateNV_Public : sysF S := sys_return TSS2_RC_SUCCESS.
Definition ValidateTPML_PCR_SELECTION : sysF S := sys_return TSS2_RC_SUCCESS.

(** [if (IsAlgorithmWeak(alg, 0)) return TSS2_SYS_RC_BAD_VALUE;] *)
Definition check_weak (k : sysF S) : sysF S :=
  if IsAlgorithmWeak =? 0 then k else sys_return TSS2_SYS_RC_BAD_VALUE.

Definition Tss2_Sys_ACT_SetTimeout_Prepare (actHandle : Z) (startTimeout : Z) : sysF S :=
  check_ctx (
  CommonPreparePrologue TPM2_CC_ACT_SetTimeout ;;;
  ctx_marshal (Tss2_MU_UINT32_Marshal actHandle) ;;;
  ctx_marshal (Tss2_MU_UINT32_Marshal startTimeout) ;;;
  ctx_set (set_decryptAllowed false) ;;;
  ctx_set (set_encryptAllowed false) ;;;
  ctx_set (set_authAllowed true) ;;;
  CommonPrepareEpilogue).

Definition Tss2_Sys_AC_GetCapability_Prepare (ac : Z) (capability : Z) (count : Z) : sysF S :=
  check_ctx (
  CommonPreparePrologue TPM2_CC_AC_GetCapability ;;;
  ctx_marshal (Tss2_MU_TPM2_HANDLE_Marshal ac) ;;;
  ctx_marshal (Tss2_MU_UINT32_Marshal capability) ;;;
  ctx_marshal (Tss2_MU_UINT32_Marshal count) ;;;
  ctx_set (set_decryptAllowed false) ;;;
  ctx_set (set_encryptAllowed false) ;;;
  ctx_set (set_authAllowed true) ;;;
  CommonPrepareEpilogue).

Definition Tss2_Sys_AC_Send_Prepare (sendObject : Z) (authHandle : Z) (ac : Z)
    (acDataIn : option TPM2B) : sysF S :=
  check_ctx (
  CommonPreparePrologue TPM2_CC_AC_Send ;;;
  ctx_marshal (Tss2_MU_TPM2_HANDLE_Marshal sendObject) ;;;
  ctx_marshal (Tss2_MU_TPM2_HANDLE_Marshal authHandle) ;;;
  ctx_marshal (Tss2_MU_TPM2_HANDLE_Marshal ac) ;;;
  null_or acDataIn
    (ctx_set (set_decryptNull true) ;;; ctx_marshal (Tss2_MU_UINT16_Marshal 0))
    (ctx_marshal (Tss2_MU_TPM2B_MAX_BUFFER_Marshal acDataIn)) ;;;
  ctx_set (set_decryptAllowed true) ;;;
  ctx_set (set_encryptAllowed false) ;;;
  ctx_set (set_authAllowed true) ;;;
  CommonPrepareEpilogue).

Definition Tss2_Sys_ActivateCredential_Prepare (activateHandle : Z) (keyHandle : Z)
    (credentialBlob : option TPM2B) (secret : option TPM2B) : sysF S :=
  check_ctx (
  CommonPreparePrologue TPM2_CC_ActivateCredential ;;;
  ctx_marshal (Tss2_MU_UINT32_Marshal activateHandle) ;;;
  ctx_marshal (Tss2_MU_UINT32_Marshal keyHandle) ;;;
  null_or credentialBlob
    (ctx_set (set_decryptNull true) ;;; ctx_marshal (Tss2_MU_UINT16_Marshal 0))
    (ctx_marshal (Tss2_MU_TPM2B_ID_OBJECT_Marshal credentialBlob)) ;;;
  null_or secret
    (ctx_marshal (Tss2_MU_UINT16_Marshal 0))
    (ctx_marshal (Tss2_MU_TPM2B_ENCRYPTED_SECRET_Marshal secret)) ;;;
  ctx_set (set_decryptAllowed true) ;;;
  ctx_set (set_encryptAllowed true) ;;;
  ctx_set (set_authAllowed true) ;;;
  CommonPrepareEpilogue).

Definition Tss2_Sys_Certify_Prepare (objectHandle : Z) (signHandle : Z)
    (qualifyingData : option TPM2B) (inScheme : option TPMT_SIG_SCHEME) : sysF S :=
  check_ctx (
  check_ptr inScheme (
  CommonPreparePrologue TPM2_CC_Certify ;;;
  ctx_marshal (Tss2_MU_UINT32_Marshal objectHandle) ;;;
  ctx_marshal (Tss2_MU_UINT32_Marshal signHandle) ;;;
  null_or qualifyingData
    (ctx_set (set_decryptNull true) ;;; ctx_marshal (Tss2_MU_UINT16_Marshal 0))
    (ctx_marshal (Tss2_MU_TPM2B_DATA_Marshal qualifyingData)) ;;;
  ctx_marshal (Tss2_MU_TPMT_SIG_SCHEME_Marshal inScheme) ;;;
  ctx_set (set_decryptAllowed true) ;;;
  ctx_set (set_encryptAllowed true) ;;;
  ctx_set (set_authAllowed true) ;;;
  CommonPrepareEpilogue)).

Definition Tss2_Sys_CertifyCreation_Prepare (signHandle : Z) (objectHandle : Z)
    (qualifyingData : option TPM2B) (creationHash : option TPM2B)
    (inScheme : option TPMT_SIG_SCHEME) (creationTicket : option TPMT_TK_CREATION) : sysF S :=
  check_ctx (
  check_ptr inScheme (
  check_ptr creationTicket (
  CommonPreparePrologue TPM2_CC_CertifyCreation ;;;
  ctx_marshal (Tss2_MU_UINT32_Marshal signHandle) ;;;
  ctx_marshal (Tss2_MU_UINT32_Marshal objectHandle) ;;;
  null_or qualifyingData
    (ctx_set (set_decryptNull true) ;;; ctx_marshal (Tss2_MU_UINT16_Marshal 0))
    (ctx_marshal (Tss2_MU_TPM2B_DATA_Marshal qualifyingData)) ;;;
  ctx_marshal (Tss2_MU_TPM2B_DIGEST_Marshal creationHash) ;;;
  ctx_marshal (Tss2_MU_TPMT_SIG_SCHEME_Marshal inScheme) ;;;
  ctx_marshal (Tss2_MU_TPMT_TK_CREATION_Marshal creationTicket) ;;;
  ctx_set (set_decryptAllowed true) ;;;
  ctx_set (set_encryptAllowed true) ;;;
  ctx_set (set_authAllowed true) ;;;
  CommonPrepareEpilogue))).

Definition Tss2_Sys_CertifyX509_Prepare (objectHandle : Z) (signHandle : Z)
    (reserved : option TPM2B) (inScheme : option TPMT_SIG_SCHEME)
    (partialCertificate : option TPM2B) : sysF S :=
  check_ctx (
  check_ptr reserved (
  check_ptr inScheme (
  check_ptr partialCertificate (
  check_empty reserved (
  CommonPreparePrologue TPM2_CC_CertifyX509 ;;;
  ctx_marshal (Tss2_MU_UINT32_Marshal objectHandle) ;;;
  ctx_marshal (Tss2_MU_UINT32_Marshal signHandle) ;;;
  ctx_marshal (Tss2_MU_TPM2B_DATA_Marshal reserved) ;;;
  ctx_marshal (Tss2_MU_TPMT_SIG_SCHEME_Marshal inScheme) ;;;
  ctx_marshal (Tss2_MU_TPM2B_MAX_BUFFER_Marshal partialCertificate) ;;;
  ctx_set (set_decryptAllowed true) ;;;
  ctx_set (set_encryptAllowed true) ;;;
  ctx_set (set_authAllowed true) ;;;
  CommonPrepareEpilogue))))).

Definition Tss2_Sys_ChangeEPS_Prepare (authHandle : Z) : sysF S :=
  check_ctx (
  CommonPreparePrologue TPM2_CC_ChangeEPS ;;;
  ctx_marshal (Tss2_MU_UINT32_Marshal authHandle) ;;;
  ctx_set (set_decryptAllowed false) ;;;
  ctx_set (set_encryptAllowed false) ;;;
  ctx_set (set_authAllowed true) ;;;
  CommonPrepareEpilogue).

Definition Tss2_Sys_ChangePPS_Prepare (authHandle : Z) : sysF S :=
  check_ctx (
  CommonPreparePrologue TPM2_CC_ChangePPS ;;;
  ctx_marshal (Tss2_MU_UINT32_Marshal authHandle) ;;;
  ctx_set (set_decryptAllowed false) ;;;
  ctx_set (set_encryptAllowed false) ;;;
  ctx_set (set_authAllowed true) ;;;
  CommonPrepareEpilogue).

Definition Tss2_Sys_Clear_Prepare (authHandle : Z) : sysF S :=
  check_ctx (
  CommonPreparePrologue TPM2_CC_Clear ;;;
  ctx_marshal (Tss2_MU_UINT32_Marshal authHandle) ;;;
  ctx_set (set_decryptAllowed false) ;;;
  ctx_set (set_encryptAllowed false) ;;;
  ctx_set (set_authAllowed true) ;;;
  CommonPrepareEpilogue).

Definition Tss2_Sys_ClearControl_Prepare (auth : Z) (disable : Z) : sysF S :=
  check_ctx (
  CommonPreparePrologue TPM2_CC_ClearControl ;;;
  ctx_marshal (Tss2_MU_UINT32_Marshal auth) ;;;
  ctx_marshal (Tss2_MU_UINT8_Marshal disable) ;;;
  ctx_set (set_decryptAllowed false) ;;;
  ctx_set (set_encryptAllowed false) ;;;
  ctx_set (set_authAllowed true) ;;;
  CommonPrepareEpilogue).

Definition Tss2_Sys_ClockRateAdjust_Prepare (auth : Z) (rateAdjust : Z) : sysF S :=
  check_ctx (
  CommonPreparePrologue TPM2_CC_ClockRateAdjust ;;;
  ctx_marshal (Tss2_MU_UINT32_Marshal auth) ;;;
  ctx_marshal (Tss2_MU_UINT8_Marshal rateAdjust) ;;;
  ctx_set (set_decryptAllowed false) ;;;
  ctx_set (set_encryptAllowed false) ;;;
  ctx_set (set_authAllowed true) ;;;
  CommonPrepareEpilogue).

Definition Tss2_Sys_ClockSet_Prepare (auth : Z) (newTime : Z) : sysF S :=
  check_ctx (
  CommonPreparePrologue TPM2_CC_ClockSet ;;;
  ctx_marshal (Tss2_MU_UINT32_Marshal auth) ;;;
  ctx_marshal (Tss2_MU_UINT64_Marshal newTime) ;;;
  ctx_set (set_decryptAllowed false) ;;;
  ctx_set (set_encryptAllowed false) ;;;
  ctx_set (set_authAllowed true) ;;;
  CommonPrepareEpilogue).

Definition Tss2_Sys_Commit_Prepare (signHandle : Z) (P1 : option (TPM2B_SUB TPMS_ECC_POINT))
    (s2 : option TPM2B) (y2 : option TPM2B) : sysF S :=
  check_ctx (
  CommonPreparePrologue TPM2_CC_Commit ;;;
  ctx_marshal (Tss2_MU_UINT32_Marshal signHandle) ;;;
  null_or P1
    (ctx_set (set_decryptNull true) ;;; ctx_marshal (Tss2_MU_UINT16_Marshal 0))
    (ctx_marshal (Tss2_MU_TPM2B_ECC_POINT_Marshal P1)) ;;;
  null_or s2
    (ctx_marshal (Tss2_MU_UINT16_Marshal 0))
    (ctx_marshal (Tss2_MU_TPM2B_SENSITIVE_DATA_Marshal s2)) ;;;
  null_or y2
    (ctx_marshal (Tss2_MU_UINT16_Marshal 0))
    (ctx_marshal (Tss2_MU_TPM2B_ECC_PARAMETER_Marshal y2)) ;;;
  ctx_set (set_decryptAllowed true) ;;;
  ctx_set (set_encryptAllowed true) ;;;
  ctx_set (set_authAllowed true) ;;;
  CommonPrepareEpilogue).

Definition Tss2_Sys_ContextLoad_Prepare (context : option TPMS_CONTEXT) : sysF S :=
  check_ctx (
  check_ptr context (
  CommonPreparePrologue TPM2_CC_ContextLoad ;;;
  ctx_marshal (Tss2_MU_TPMS_CONTEXT_Marshal context) ;;;
  ctx_set (set_decryptAllowed false) ;;;
  ctx_set (set_encryptAllowed false) ;;;
  ctx_set (set_authAllowed false) ;;;
  CommonPrepareEpilogue)).

Definition Tss2_Sys_ContextSave_Prepare (saveHandle : Z) : sysF S :=
  check_ctx (
  CommonPreparePrologue TPM2_CC_ContextSave ;;;
  ctx_marshal (Tss2_MU_UINT32_Marshal saveHandle) ;;;
  ctx_set (set_decryptAllowed false) ;;;
  ctx_set (set_encryptAllowed false) ;;;
  ctx_set (set_authAllowed false) ;;;
  CommonPrepareEpilogue).

Definition Tss2_Sys_Create_Prepare (parentHandle : Z)
    (inSensitive : option (TPM2B_SUB TPMS_SENSITIVE_CREATE))
    (inPublic : option (TPM2B_SUB TPMT_PUBLIC)) (outsideInfo : option TPM2B)
    (creationPCR : option (TPML TPMS_PCR_SELECTION)) : sysF S :=
  check_ctx (
  check_ptr creationPCR (
  ValidateTPML_PCR_SELECTION ;;;
  CommonPreparePrologue TPM2_CC_Create ;;;
  ctx_marshal (Tss2_MU_UINT32_Marshal parentHandle) ;;;
  null_or inSensitive
    (ctx_set (set_decryptNull true) ;;; ctx_marshal (Tss2_MU_UINT16_Marshal 0))
    (ctx_marshal (Tss2_MU_TPM2B_SENSITIVE_CREATE_Marshal inSensitive)) ;;;
  null_or inPublic
    (ctx_marshal (Tss2_MU_UINT16_Marshal 0))
    (ValidatePublicTemplate ;;; ctx_marshal (Tss2_MU_TPM2B_PUBLIC_Marshal inPublic)) ;;;
  null_or outsideInfo
    (ctx_marshal (Tss2_MU_UINT16_Marshal 0))
    (ctx_marshal (Tss2_MU_TPM2B_DATA_Marshal outsideInfo)) ;;;
  ctx_marshal (Tss2_MU_TPML_PCR_SELECTION_Marshal creationPCR) ;;;
  ctx_set (set_decryptAllowed true) ;;;
  ctx_set (set_encryptAllowed true) ;;;
  ctx_set (set_authAllowed true) ;;;
  CommonPrepareEpilogue)).

Definition Tss2_Sys_CreateLoaded_Prepare (parentHandle : Z)
    (inSensitive : option (TPM2B_SUB TPMS_SENSITIVE_CREATE)) (inPublic : option TPM2B) : sysF S :=
  check_ctx (
  check_ptr inPublic (
  CommonPreparePrologue TPM2_CC_CreateLoaded ;;;
  ctx_marshal (Tss2_MU_UINT32_Marshal parentHandle) ;;;
  null_or inSensitive
    (ctx_set (set_decryptNull true) ;;; ctx_marshal (Tss2_MU_UINT16_Marshal 0))
    (ctx_marshal (Tss2_MU_TPM2B_SENSITIVE_CREATE_Marshal inSensitive)) ;;;
  ctx_marshal (Tss2_MU_TPM2B_TEMPLATE_Marshal inPublic) ;;;
  ctx_set (set_decryptAllowed true) ;;;
  ctx_set (set_encryptAllowed true) ;;;
  ctx_set (set_authAllowed true) ;;;
  CommonPrepareEpilogue)).

Definition Tss2_Sys_CreatePrimary_Prepare (primaryHandle : Z)
    (inSensitive : option (TPM2B_SUB TPMS_SENSITIVE_CREATE))
    (inPublic : option (TPM2B_SUB TPMT_PUBLIC)) (outsideInfo : option TPM2B)
    (creationPCR : option (TPML TPMS_PCR_SELECTION)) : sysF S :=
  check_ctx (
  check_ptr creationPCR (
  CommonPreparePrologue TPM2_CC_CreatePrimary ;;;
  ctx_marshal (Tss2_MU_UINT32_Marshal primaryHandle) ;;;
  null_or inSensitive
    (ctx_set (set_decryptNull true) ;;; ctx_marshal (Tss2_MU_UINT16_Marshal 0))
    (ctx_marshal (Tss2_MU_TPM2B_SENSITIVE_CREATE_Marshal inSensitive)) ;;;
  null_or inPublic
    (ctx_marshal (Tss2_MU_UINT16_Marshal 0))
    (ValidatePublicTemplate ;;; ctx_marshal (Tss2_MU_TPM2B_PUBLIC_Marshal inPublic)) ;;;
  null_or outsideInfo
    (ctx_marshal (Tss2_MU_UINT16_Marshal 0))
    (ctx_marshal (Tss2_MU_TPM2B_DATA_Marshal outsideInfo)) ;;;
  ctx_marshal (Tss2_MU_TPML_PCR_SELECTION_Marshal creationPCR) ;;;
  ctx_set (set_decryptAllowed true) ;;;
  ctx_set (set_encryptAllowed true) ;;;
  ctx_set (set_authAllowed true) ;;;
  CommonPrepareEpilogue)).

Definition Tss2_Sys_Decapsulate_Prepare (keyHandle : Z) (cipherText : option TPM2B)
    (label : option TPM2B) : sysF S :=
  check_ctx (
  CommonPreparePrologue TPM2_CC_Decapsulate ;;;
  ctx_marshal (Tss2_MU_UINT32_Marshal keyHandle) ;;;
  null_or cipherText
    (ctx_marshal (Tss2_MU_UINT16_Marshal 0))
    (ctx_marshal (Tss2_MU_TPM2B_ENCRYPTED_SECRET_Marshal cipherText)) ;;;
  null_or label
    (ctx_marshal (Tss2_MU_UINT16_Marshal 0))
    (ctx_marshal (Tss2_MU_TPM2B_DATA_Marshal label)) ;;;
  ctx_set (set_decryptAllowed true) ;;;
  ctx_set (set_encryptAllowed true) ;;;
  ctx_set (set_authAllowed true) ;;;
  CommonPrepareEpilogue).

Definition Tss2_Sys_DictionaryAttackLockReset_Prepare (lockHandle : Z) : sysF S :=
  check_ctx (
  CommonPreparePrologue TPM2_CC_DictionaryAttackLockReset ;;;
  ctx_marshal (Tss2_MU_UINT32_Marshal lockHandle) ;;;
  ctx_set (set_decryptAllowed false) ;;;
  ctx_set (set_encryptAllowed false) ;;;
  ctx_set (set_authAllowed true) ;;;
  CommonPrepareEpilogue).

Definition Tss2_Sys_DictionaryAttackParameters_Prepare (lockHandle : Z) (newMaxTries : Z)
    (newRecoveryTime : Z) (lockoutRecovery : Z) : sysF S :=
  check_ctx (
  CommonPreparePrologue TPM2_CC_DictionaryAttackParameters ;;;
  ctx_marshal (Tss2_MU_UINT32_Marshal lockHandle) ;;;
  ctx_marshal (Tss2_MU_UINT32_Marshal newMaxTries) ;;;
  ctx_marshal (Tss2_MU_UINT32_Marshal newRecoveryTime) ;;;
  ctx_marshal (Tss2_MU_UINT32_Marshal lockoutRecovery) ;;;
  ctx_set (set_decryptAllowed false) ;;;
  ctx_set (set_encryptAllowed false) ;;;
  ctx_set (set_authAllowed true) ;;;
  CommonPrepareEpilogue).

Definition Tss2_Sys_Duplicate_Prepare (objectHandle : Z) (newParentHandle : Z)
    (encryptionKeyIn : option TPM2B) (symmetricAlg : option TPMT_SYM_DEF_OBJECT) : sysF S :=
  check_ctx (
  check_ptr symmetricAlg (
  CommonPreparePrologue TPM2_CC_Duplicate ;;;
  ctx_marshal (Tss2_MU_UINT32_Marshal objectHandle) ;;;
  ctx_marshal (Tss2_MU_UINT32_Marshal newParentHandle) ;;;
  null_or encryptionKeyIn
    (ctx_set (set_decryptNull true) ;;; ctx_marshal (Tss2_MU_UINT16_Marshal 0))
    (ctx_marshal (Tss2_MU_TPM2B_DATA_Marshal encryptionKeyIn)) ;;;
  ctx_marshal (Tss2_MU_TPMT_SYM_DEF_OBJECT_Marshal symmetricAlg) ;;;
  ctx_set (set_decryptAllowed true) ;;;
  ctx_set (set_encryptAllowed true) ;;;
  ctx_set (set_authAllowed true) ;;;
  CommonPrepareEpilogue)).

Definition Tss2_Sys_ECC_Decrypt_Prepare (keyHandle : Z)
    (c1 : option (TPM2B_SUB TPMS_ECC_POINT)) (c2 : option TPM2B) (c3 : option TPM2B)
    (inScheme : option TPMT_KDF_SCHEME) : sysF S :=
  check_ctx (
  check_ptr inScheme (
  CommonPreparePrologue TPM2_CC_ECC_Decrypt ;;;
  ctx_marshal (Tss2_MU_UINT32_Marshal keyHandle) ;;;
  null_or c1
    (ctx_marshal (Tss2_MU_UINT16_Marshal 0))
    (ctx_marshal (Tss2_MU_TPM2B_ECC_POINT_Marshal c1)) ;;;
  null_or c2
    (ctx_marshal (Tss2_MU_UINT16_Marshal 0))
    (ctx_marshal (Tss2_MU_TPM2B_MAX_BUFFER_Marshal c2)) ;;;
  null_or c3
    (ctx_marshal (Tss2_MU_UINT16_Marshal 0))
    (ctx_marshal (Tss2_MU_TPM2B_DIGEST_Marshal c3)) ;;;
  ctx_marshal (Tss2_MU_TPMT_KDF_SCHEME_Marshal inScheme) ;;;
  ctx_set (set_decryptAllowed true) ;;;
  ctx_set (set_encryptAllowed true) ;;;
  ctx_set (set_authAllowed true) ;;;
  CommonPrepareEpilogue)).

Definition Tss2_Sys_ECC_Encrypt_Prepare (keyHandle : Z) (platinText : option TPM2B)
    (inScheme : option TPMT_KDF_SCHEME) : sysF S :=
  check_ctx (
  check_ptr inScheme (
  CommonPreparePrologue TPM2_CC_ECC_Encrypt ;;;
  ctx_marshal (Tss2_MU_UINT32_Marshal keyHandle) ;;;
  null_or platinText
    (ctx_set (set_decryptNull true) ;;; ctx_marshal (Tss2_MU_UINT16_Marshal 0))
    (ctx_marshal (Tss2_MU_TPM2B_MAX_BUFFER_Marshal platinText)) ;;;
  ctx_marshal (Tss2_MU_TPMT_KDF_SCHEME_Marshal inScheme) ;;;
  ctx_set (set_decryptAllowed true) ;;;
  ctx_set (set_encryptAllowed true) ;;;
  ctx_set (set_authAllowed true) ;;;
  CommonPrepareEpilogue)).

Definition Tss2_Sys_ECC_Parameters_Prepare (curveID : Z) : sysF S :=
  check_ctx (
  CommonPreparePrologue TPM2_CC_ECC_Parameters ;;;
  ctx_marshal (Tss2_MU_UINT16_Marshal curveID) ;;;
  ctx_set (set_decryptAllowed false) ;;;
  ctx_set (set_encryptAllowed false) ;;;
  ctx_set (set_authAllowed true) ;;;
  CommonPrepareEpilogue).

Definition Tss2_Sys_ECDH_KeyGen_Prepare (keyHandle : Z) : sysF S :=
  check_ctx (
  CommonPreparePrologue TPM2_CC_ECDH_KeyGen ;;;
  ctx_marshal (Tss2_MU_UINT32_Marshal keyHandle) ;;;
  ctx_set (set_decryptAllowed false) ;;;
  ctx_set (set_encryptAllowed true) ;;;
  ctx_set (set_authAllowed true) ;;;
  CommonPrepareEpilogue).

Definition Tss2_Sys_ECDH_ZGen_Prepare (keyHandle : Z)
    (inPoint : option (TPM2B_SUB TPMS_ECC_POINT)) : sysF S :=
  check_ctx (
  CommonPreparePrologue TPM2_CC_ECDH_ZGen ;;;
  ctx_marshal (Tss2_MU_UINT32_Marshal keyHandle) ;;;
  null_or inPoint
    (ctx_marshal (Tss2_MU_UINT16_Marshal 0))
    (ctx_marshal (Tss2_MU_TPM2B_ECC_POINT_Marshal inPoint)) ;;;
  ctx_set (set_decryptAllowed true) ;;;
  ctx_set (set_encryptAllowed true) ;;;
  ctx_set (set_authAllowed true) ;;;
  CommonPrepareEpilogue).

Definition Tss2_Sys_EC_Ephemeral_Prepare (curveID : Z) : sysF S :=
  check_ctx (
  CommonPreparePrologue TPM2_CC_EC_Ephemeral ;;;
  ctx_marshal (Tss2_MU_UINT16_Marshal curveID) ;;;
  ctx_set (set_decryptAllowed false) ;;;
  ctx_set (set_encryptAllowed true) ;;;
  ctx_set (set_authAllowed true) ;;;
  CommonPrepareEpilogue).

Definition Tss2_Sys_Encapsulate_Prepare (keyHandle : Z) (label : option TPM2B) : sysF S :=
  check_ctx (
  CommonPreparePrologue TPM2_CC_Encapsulate ;;;
  ctx_marshal (Tss2_MU_UINT32_Marshal keyHandle) ;;;
  null_or label
    (ctx_marshal (Tss2_MU_UINT16_Marshal 0))
    (ctx_marshal (Tss2_MU_TPM2B_DATA_Marshal label)) ;;;
  ctx_set (set_decryptAllowed true) ;;;
  ctx_set (set_encryptAllowed true) ;;;
  ctx_set (set_authAllowed true) ;;;
  CommonPrepareEpilogue).

Definition Tss2_Sys_EncryptDecrypt_Prepare (keyHandle : Z) (decrypt : Z) (mode : Z)
    (ivIn : option TPM2B) (inData : option TPM2B) : sysF S :=
  check_ctx (
  CommonPreparePrologue TPM2_CC_EncryptDecrypt ;;;
  ctx_marshal (Tss2_MU_UINT32_Marshal keyHandle) ;;;
  ctx_marshal (Tss2_MU_UINT8_Marshal decrypt) ;;;
  ctx_marshal (Tss2_MU_UINT16_Marshal mode) ;;;
  null_or ivIn
    (ctx_marshal (Tss2_MU_UINT16_Marshal 0))
    (ctx_marshal (Tss2_MU_TPM2B_IV_Marshal ivIn)) ;;;
  null_or inData
    (ctx_marshal (Tss2_MU_UINT16_Marshal 0))
    (ctx_marshal (Tss2_MU_TPM2B_MAX_BUFFER_Marshal inData)) ;;;
  ctx_set (set_decryptAllowed false) ;;;
  ctx_set (set_encryptAllowed true) ;;;
  ctx_set (set_authAllowed true) ;;;
  CommonPrepareEpilogue).

Definition Tss2_Sys_EncryptDecrypt2_Prepare (keyHandle : Z) (inData : option TPM2B)
    (decrypt : Z) (mode : Z) (ivIn : option TPM2B) : sysF S :=
  check_ctx (
  CommonPreparePrologue TPM2_CC_EncryptDecrypt2 ;;;
  ctx_marshal (Tss2_MU_UINT32_Marshal keyHandle) ;;;
  null_or inData
    (ctx_marshal (Tss2_MU_UINT16_Marshal 0))
    (ctx_marshal (Tss2_MU_TPM2B_MAX_BUFFER_Marshal inData)) ;;;
  ctx_marshal (Tss2_MU_UINT8_Marshal decrypt) ;;;
  ctx_marshal (Tss2_MU_UINT16_Marshal mode) ;;;
  null_or ivIn
    (ctx_marshal (Tss2_MU_UINT16_Marshal 0))
    (ctx_marshal (Tss2_MU_TPM2B_IV_Marshal ivIn)) ;;;
  ctx_set (set_decryptAllowed true) ;;;
  ctx_set (set_encryptAllowed true) ;;;
  ctx_set (set_authAllowed true) ;;;
  CommonPrepareEpilogue).

Definition Tss2_Sys_EventSequenceComplete_Prepare (pcrHandle : Z) (sequenceHandle : Z)
    (buffer : option TPM2B) : sysF S :=
  check_ctx (
  CommonPreparePrologue TPM2_CC_EventSequenceComplete ;;;
  ctx_marshal (Tss2_MU_UINT32_Marshal pcrHandle) ;;;
  ctx_marshal (Tss2_MU_UINT32_Marshal sequenceHandle) ;;;
  null_or buffer
    (ctx_marshal (Tss2_MU_UINT16_Marshal 0))
    (ctx_marshal (Tss2_MU_TPM2B_MAX_BUFFER_Marshal buffer)) ;;;
  ctx_set (set_decryptAllowed true) ;;;
  ctx_set (set_encryptAllowed false) ;;;
  ctx_set (set_authAllowed true) ;;;
  CommonPrepareEpilogue).

Definition Tss2_Sys_EvictControl_Prepare (auth : Z) (objectHandle : Z)
    (persistentHandle : Z) : sysF S :=
  check_ctx (
  CommonPreparePrologue TPM2_CC_EvictControl ;;;
  ctx_marshal (Tss2_MU_UINT32_Marshal auth) ;;;
  ctx_marshal (Tss2_MU_UINT32_Marshal objectHandle) ;;;
  ctx_marshal (Tss2_MU_UINT32_Marshal persistentHandle) ;;;
  ctx_set (set_decryptAllowed false) ;;;
  ctx_set (set_encryptAllowed false) ;;;
  ctx_set (set_authAllowed true) ;;;
  CommonPrepareEpilogue).

Definition Tss2_Sys_FieldUpgradeData_Prepare (fuData : option TPM2B) : sysF S :=
  check_ctx (
  CommonPreparePrologue TPM2_CC_FieldUpgradeData ;;;
  null_or fuData
    (ctx_marshal (Tss2_MU_UINT16_Marshal 0))
    (ctx_marshal (Tss2_MU_TPM2B_MAX_BUFFER_Marshal fuData)) ;;;
  ctx_set (set_decryptAllowed true) ;;;
  ctx_set (set_encryptAllowed false) ;;;
  ctx_set (set_authAllowed true) ;;;
  CommonPrepareEpilogue).

Definition Tss2_Sys_FieldUpgradeStart_Prepare (authorization : Z) (keyHandle : Z)
    (fuDigest : option TPM2B) (manifestSignature : option TPMT_SIGNATURE) : sysF S :=
  check_ctx (
  check_ptr manifestSignature (
  CommonPreparePrologue TPM2_CC_FieldUpgradeStart ;;;
  ctx_marshal (Tss2_MU_UINT32_Marshal authorization) ;;;
  ctx_marshal (Tss2_MU_UINT32_Marshal keyHandle) ;;;
  null_or fuDigest
    (ctx_set (set_decryptNull true) ;;; ctx_marshal (Tss2_MU_UINT16_Marshal 0))
    (ctx_marshal (Tss2_MU_TPM2B_DIGEST_Marshal fuDigest)) ;;;
  ctx_marshal (Tss2_MU_TPMT_SIGNATURE_Marshal manifestSignature) ;;;
  ctx_set (set_decryptAllowed true) ;;;
  ctx_set (set_encryptAllowed false) ;;;
  ctx_set (set_authAllowed true) ;;;
  CommonPrepareEpilogue)).

Definition Tss2_Sys_FirmwareRead_Prepare (sequenceNumber : Z) : sysF S :=
  check_ctx (
  CommonPreparePrologue TPM2_CC_FirmwareRead ;;;
  ctx_marshal (Tss2_MU_UINT32_Marshal sequenceNumber) ;;;
  ctx_set (set_decryptAllowed false) ;;;
  ctx_set (set_encryptAllowed true) ;;;
  ctx_set (set_authAllowed true) ;;;
  CommonPrepareEpilogue).

Definition Tss2_Sys_FlushContext_Prepare (flushHandle : Z) : sysF S :=
  check_ctx (
  CommonPreparePrologue TPM2_CC_FlushContext ;;;
  ctx_marshal (Tss2_MU_UINT32_Marshal flushHandle) ;;;
  ctx_set (set_decryptAllowed false) ;;;
  ctx_set (set_encryptAllowed false) ;;;
  ctx_set (set_authAllowed false) ;;;
  CommonPrepareEpilogue).

Definition Tss2_Sys_GetCapability_Prepare (capability : Z) (property : Z)
    (propertyCount : Z) : sysF S :=
  check_ctx (
  CommonPreparePrologue TPM2_CC_GetCapability ;;;
  ctx_marshal (Tss2_MU_UINT32_Marshal capability) ;;;
  ctx_marshal (Tss2_MU_UINT32_Marshal property) ;;;
  ctx_marshal (Tss2_MU_UINT32_Marshal propertyCount) ;;;
  ctx_set (set_decryptAllowed false) ;;;
  ctx_set (set_encryptAllowed false) ;;;
  ctx_set (set_authAllowed true) ;;;
  CommonPrepareEpilogue).

Definition Tss2_Sys_GetCommandAuditDigest_Prepare (privacyHandle : Z) (signHandle : Z)
    (qualifyingData : option TPM2B) (inScheme : option TPMT_SIG_SCHEME) : sysF S :=
  check_ctx (
  check_ptr inScheme (
  CommonPreparePrologue TPM2_CC_GetCommandAuditDigest ;;;
  ctx_marshal (Tss2_MU_UINT32_Marshal privacyHandle) ;;;
  ctx_marshal (Tss2_MU_UINT32_Marshal signHandle) ;;;
  null_or qualifyingData
    (ctx_set (set_decryptNull true) ;;; ctx_marshal (Tss2_MU_UINT16_Marshal 0))
    (ctx_marshal (Tss2_MU_TPM2B_DATA_Marshal qualifyingData)) ;;;
  ctx_marshal (Tss2_MU_TPMT_SIG_SCHEME_Marshal inScheme) ;;;
  ctx_set (set_decryptAllowed true) ;;;
  ctx_set (set_encryptAllowed true) ;;;
  ctx_set (set_authAllowed true) ;;;
  CommonPrepareEpilogue)).

Definition Tss2_Sys_GetRandom_Prepare (bytesRequested : Z) : sysF S :=
  check_ctx (
  CommonPreparePrologue TPM2_CC_GetRandom ;;;
  ctx_marshal (Tss2_MU_UINT16_Marshal bytesRequested) ;;;
  ctx_set (set_decryptAllowed false) ;;;
  ctx_set (set_encryptAllowed true) ;;;
  ctx_set (set_authAllowed true) ;;;
  CommonPrepareEpilogue).

Definition Tss2_Sys_GetSessionAuditDigest_Prepare (privacyAdminHandle : Z) (signHandle : Z)
    (sessionHandle : Z) (qualifyingData : option TPM2B) (inScheme : option TPMT_SIG_SCHEME) : sysF S :=
  check_ctx (
  check_ptr inScheme (
  CommonPreparePrologue TPM2_CC_GetSessionAuditDigest ;;;
  ctx_marshal (Tss2_MU_UINT32_Marshal privacyAdminHandle) ;;;
  ctx_marshal (Tss2_MU_UINT32_Marshal signHandle) ;;;
  ctx_marshal (Tss2_MU_UINT32_Marshal sessionHandle) ;;;
  null_or qualifyingData
    (ctx_set (set_decryptNull true) ;;; ctx_marshal (Tss2_MU_UINT16_Marshal 0))
    (ctx_marshal (Tss2_MU_TPM2B_DATA_Marshal qualifyingData)) ;;;
  ctx_marshal (Tss2_MU_TPMT_SIG_SCHEME_Marshal inScheme) ;;;
  ctx_set (set_decryptAllowed true) ;;;
  ctx_set (set_encryptAllowed true) ;;;
  ctx_set (set_authAllowed true) ;;;
  CommonPrepareEpilogue)).

Definition Tss2_Sys_GetTestResult_Prepare : sysF S :=
  check_ctx (
  CommonPreparePrologue TPM2_CC_GetTestResult ;;;
  ctx_set (set_decryptAllowed false) ;;;
  ctx_set (set_encryptAllowed true) ;;;
  ctx_set (set_authAllowed true) ;;;
  CommonPrepareEpilogue).

Definition Tss2_Sys_GetTime_Prepare (privacyAdminHandle : Z) (signHandle : Z)
    (qualifyingData : option TPM2B) (inScheme : option TPMT_SIG_SCHEME) : sysF S :=
  check_ctx (
  check_ptr inScheme (
  CommonPreparePrologue TPM2_CC_GetTime ;;;
  ctx_marshal (Tss2_MU_UINT32_Marshal privacyAdminHandle) ;;;
  ctx_marshal (Tss2_MU_UINT32_Marshal signHandle) ;;;
  null_or qualifyingData
    (ctx_set (set_decryptNull true) ;;; ctx_marshal (Tss2_MU_UINT16_Marshal 0))
    (ctx_marshal (Tss2_MU_TPM2B_DATA_Marshal qualifyingData)) ;;;
  ctx_marshal (Tss2_MU_TPMT_SIG_SCHEME_Marshal inScheme) ;;;
  ctx_set (set_decryptAllowed true) ;;;
  ctx_set (set_encryptAllowed true) ;;;
  ctx_set (set_authAllowed true) ;;;
  CommonPrepareEpilogue)).

Definition Tss2_Sys_HMAC_Prepare (handle : Z) (buffer : option TPM2B) (hashAlg : Z) : sysF S :=
  check_ctx (
  check_weak (
  CommonPreparePrologue TPM2_CC_HMAC ;;;
  ctx_marshal (Tss2_MU_UINT32_Marshal handle) ;;;
  null_or buffer
    (ctx_set (set_decryptNull true) ;;; ctx_marshal (Tss2_MU_UINT16_Marshal 0))
    (ctx_marshal (Tss2_MU_TPM2B_MAX_BUFFER_Marshal buffer)) ;;;
  ctx_marshal (Tss2_MU_UINT16_Marshal hashAlg) ;;;
  ctx_set (set_decryptAllowed true) ;;;
  ctx_set (set_encryptAllowed true) ;;;
  ctx_set (set_authAllowed true) ;;;
  CommonPrepareEpilogue)).

Definition Tss2_Sys_HMAC_Start_Prepare (handle : Z) (auth : option TPM2B) (hashAlg : Z) : sysF S :=
  check_ctx (
  check_weak (
  CommonPreparePrologue TPM2_CC_HMAC_Start ;;;
  ctx_marshal (Tss2_MU_UINT32_Marshal handle) ;;;
  null_or auth
    (ctx_set (set_decryptNull true) ;;; ctx_marshal (Tss2_MU_UINT16_Marshal 0))
    (ctx_marshal (Tss2_MU_TPM2B_AUTH_Marshal auth)) ;;;
  ctx_marshal (Tss2_MU_UINT16_Marshal hashAlg) ;;;
  ctx_set (set_decryptAllowed true) ;;;
  ctx_set (set_encryptAllowed false) ;;;
  ctx_set (set_authAllowed true) ;;;
  CommonPrepareEpilogue)).

Definition Tss2_Sys_Hash_Prepare (data : option TPM2B) (hashAlg : Z) (hierarchy : Z) : sysF S :=
  check_ctx (
  check_weak (
  CommonPreparePrologue TPM2_CC_Hash ;;;
  null_or data
    (ctx_set (set_decryptNull true) ;;; ctx_marshal (Tss2_MU_UINT16_Marshal 0))
    (ctx_marshal (Tss2_MU_TPM2B_MAX_BUFFER_Marshal data)) ;;;
  ctx_marshal (Tss2_MU_UINT16_Marshal hashAlg) ;;;
  ctx_marshal (Tss2_MU_UINT32_Marshal hierarchy) ;;;
  ctx_set (set_decryptAllowed true) ;;;
  ctx_set (set_encryptAllowed true) ;;;
  ctx_set (set_authAllowed true) ;;;
  CommonPrepareEpilogue)).

Definition Tss2_Sys_HashSequenceStart_Prepare (auth : option TPM2B) (hashAlg : Z) : sysF S :=
  check_ctx (
  check_weak (
  CommonPreparePrologue TPM2_CC_HashSequenceStart ;;;
  null_or auth
    (ctx_set (set_decryptNull true) ;;; ctx_marshal (Tss2_MU_UINT16_Marshal 0))
    (ctx_marshal (Tss2_MU_TPM2B_AUTH_Marshal auth)) ;;;
  ctx_marshal (Tss2_MU_UINT16_Marshal hashAlg) ;;;
  ctx_set (set_decryptAllowed true) ;;;
  ctx_set (set_encryptAllowed false) ;;;
  ctx_set (set_authAllowed true) ;;;
  CommonPrepareEpilogue)).

Definition Tss2_Sys_HierarchyChangeAuth_Prepare (authHandle : Z) (newAuth : option TPM2B) : sysF S :=
  check_ctx (
  CommonPreparePrologue TPM2_CC_HierarchyChangeAuth ;;;
  ctx_marshal (Tss2_MU_UINT32_Marshal authHandle) ;;;
  null_or newAuth
    (ctx_marshal (Tss2_MU_UINT16_Marshal 0))
    (ctx_marshal (Tss2_MU_TPM2B_AUTH_Marshal newAuth)) ;;;
  ctx_set (set_decryptAllowed true) ;;;
  ctx_set (set_encryptAllowed false) ;;;
  ctx_set (set_authAllowed true) ;;;
  CommonPrepareEpilogue).

Definition Tss2_Sys_HierarchyControl_Prepare (authHandle : Z) (enable : Z) (state : Z) : sysF S :=
  check_ctx (
  CommonPreparePrologue TPM2_CC_HierarchyControl ;;;
  ctx_marshal (Tss2_MU_UINT32_Marshal authHandle) ;;;
  ctx_marshal (Tss2_MU_UINT32_Marshal enable) ;;;
  ctx_marshal (Tss2_MU_UINT8_Marshal state) ;;;
  ctx_set (set_decryptAllowed false) ;;;
  ctx_set (set_encryptAllowed false) ;;;
  ctx_set (set_authAllowed true) ;;;
  CommonPrepareEpilogue).

Definition Tss2_Sys_Import_Prepare (parentHandle : Z) (encryptionKey : option TPM2B)
    (objectPublic : option (TPM2B_SUB TPMT_PUBLIC)) (duplicate : option TPM2B)
    (inSymSeed : option TPM2B) (symmetricAlg : option TPMT_SYM_DEF_OBJECT) : sysF S :=
  check_ctx (
  check_ptr symmetricAlg (
  CommonPreparePrologue TPM2_CC_Import ;;;
  ctx_marshal (Tss2_MU_UINT32_Marshal parentHandle) ;;;
  null_or encryptionKey
    (ctx_set (set_decryptNull true) ;;; ctx_marshal (Tss2_MU_UINT16_Marshal 0))
    (ctx_marshal (Tss2_MU_TPM2B_DATA_Marshal encryptionKey)) ;;;
  null_or objectPublic
    (ctx_marshal (Tss2_MU_UINT16_Marshal 0))
    (ValidatePublicTemplate ;;; ctx_marshal (Tss2_MU_TPM2B_PUBLIC_Marshal objectPublic)) ;;;
  null_or duplicate
    (ctx_marshal (Tss2_MU_UINT16_Marshal 0))
    (ctx_marshal (Tss2_MU_TPM2B_PRIVATE_Marshal duplicate)) ;;;
  null_or inSymSeed
    (ctx_marshal (Tss2_MU_UINT16_Marshal 0))
    (ctx_marshal (Tss2_MU_TPM2B_ENCRYPTED_SECRET_Marshal inSymSeed)) ;;;
  ctx_marshal (Tss2_MU_TPMT_SYM_DEF_OBJECT_Marshal symmetricAlg) ;;;
  ctx_set (set_decryptAllowed true) ;;;
  ctx_set (set_encryptAllowed true) ;;;
  ctx_set (set_authAllowed true) ;;;
  CommonPrepareEpilogue)).

Definition Tss2_Sys_IncrementalSelfTest_Prepare (toTest : option (TPML Z)) : sysF S :=
  check_ctx (
  check_ptr toTest (
  CommonPreparePrologue TPM2_CC_IncrementalSelfTest ;;;
  ctx_marshal (Tss2_MU_TPML_ALG_Marshal toTest) ;;;
  ctx_set (set_decryptAllowed false) ;;;
  ctx_set (set_encryptAllowed false) ;;;
  ctx_set (set_authAllowed true) ;;;
  CommonPrepareEpilogue)).

Definition Tss2_Sys_Load_Prepare (parentHandle : Z) (inPrivate : option TPM2B)
    (inPublic : option (TPM2B_SUB TPMT_PUBLIC)) : sysF S :=
  check_ctx (
  CommonPreparePrologue TPM2_CC_Load ;;;
  ctx_marshal (Tss2_MU_UINT32_Marshal parentHandle) ;;;
  null_or inPrivate
    (ctx_set (set_decryptNull true) ;;; ctx_marshal (Tss2_MU_UINT16_Marshal 0))
    (ctx_marshal (Tss2_MU_TPM2B_PRIVATE_Marshal inPrivate)) ;;;
  null_or inPublic
    (ctx_marshal (Tss2_MU_UINT16_Marshal 0))
    (ValidatePublicTemplate ;;; ctx_marshal (Tss2_MU_TPM2B_PUBLIC_Marshal inPublic)) ;;;
  ctx_set (set_decryptAllowed true) ;;;
  ctx_set (set_encryptAllowed true) ;;;
  ctx_set (set_authAllowed true) ;;;
  CommonPrepareEpilogue).

Definition Tss2_Sys_LoadExternal_Prepare (inPrivate : option (TPM2B_SUB TPMT_SENSITIVE))
    (inPublic : option (TPM2B_SUB TPMT_PUBLIC)) (hierarchy : Z) : sysF S :=
  check_ctx (
  CommonPreparePrologue TPM2_CC_LoadExternal ;;;
  null_or inPrivate
    (ctx_set (set_decryptNull true) ;;; ctx_marshal (Tss2_MU_UINT16_Marshal 0))
    (ctx_marshal (Tss2_MU_TPM2B_SENSITIVE_Marshal inPrivate)) ;;;
  null_or inPublic
    (ctx_marshal (Tss2_MU_UINT16_Marshal 0))
    (ValidatePublicTemplate ;;; ctx_marshal (Tss2_MU_TPM2B_PUBLIC_Marshal inPublic)) ;;;
  ctx_marshal (Tss2_MU_UINT32_Marshal hierarchy) ;;;
  ctx_set (set_decryptAllowed true) ;;;
  ctx_set (set_encryptAllowed true) ;;;
  ctx_set (set_authAllowed true) ;;;
  CommonPrepareEpilogue).

Definition Tss2_Sys_MAC_Prepare (handle : Z) (buffer : option TPM2B) (inScheme : Z) : sysF S :=
  check_ctx (
  check_weak (
  CommonPreparePrologue TPM2_CC_MAC ;;;
  ctx_marshal (Tss2_MU_UINT32_Marshal handle) ;;;
  null_or buffer
    (ctx_set (set_decryptNull true) ;;; ctx_marshal (Tss2_MU_UINT16_Marshal 0))
    (ctx_marshal (Tss2_MU_TPM2B_MAX_BUFFER_Marshal buffer)) ;;;
  ctx_marshal (Tss2_MU_UINT16_Marshal inScheme) ;;;
  ctx_set (set_decryptAllowed true) ;;;
  ctx_set (set_encryptAllowed true) ;;;
  ctx_set (set_authAllowed true) ;;;
  CommonPrepareEpilogue)).

Definition Tss2_Sys_MAC_Start_Prepare (handle : Z) (auth : option TPM2B) (inScheme : Z) : sysF S :=
  check_ctx (
  check_weak (
  CommonPreparePrologue TPM2_CC_MAC_Start ;;;
  ctx_marshal (Tss2_MU_UINT32_Marshal handle) ;;;
  null_or auth
    (ctx_set (set_decryptNull true) ;;; ctx_marshal (Tss2_MU_UINT16_Marshal 0))
    (ctx_marshal (Tss2_MU_TPM2B_AUTH_Marshal auth)) ;;;
  ctx_marshal (Tss2_MU_UINT16_Marshal inScheme) ;;;
  ctx_set (set_decryptAllowed true) ;;;
  ctx_set (set_encryptAllowed false) ;;;
  ctx_set (set_authAllowed true) ;;;
  CommonPrepareEpilogue)).

Definition Tss2_Sys_MakeCredential_Prepare (handle : Z) (credential : option TPM2B)
    (objectName : option TPM2B) : sysF S :=
  check_ctx (
  CommonPreparePrologue TPM2_CC_MakeCredential ;;;
  ctx_marshal (Tss2_MU_UINT32_Marshal handle) ;;;
  null_or credential
    (ctx_set (set_decryptNull true) ;;; ctx_marshal (Tss2_MU_UINT16_Marshal 0))
    (ctx_marshal (Tss2_MU_TPM2B_DIGEST_Marshal credential)) ;;;
  null_or objectName
    (ctx_marshal (Tss2_MU_UINT16_Marshal 0))
    (ctx_marshal (Tss2_MU_TPM2B_NAME_Marshal objectName)) ;;;
  ctx_set (set_decryptAllowed true) ;;;
  ctx_set (set_encryptAllowed true) ;;;
  ctx_set (set_authAllowed true) ;;;
  CommonPrepareEpilogue).

Definition Tss2_Sys_NV_Certify_Prepare (signHandle : Z) (authHandle : Z) (nvIndex : Z)
    (qualifyingData : option TPM2B) (inScheme : option TPMT_SIG_SCHEME) (size : Z)
    (offset : Z) : sysF S :=
  check_ctx (
  check_ptr inScheme (
  CommonPreparePrologue TPM2_CC_NV_Certify ;;;
  ctx_marshal (Tss2_MU_UINT32_Marshal signHandle) ;;;
  ctx_marshal (Tss2_MU_UINT32_Marshal authHandle) ;;;
  ctx_marshal (Tss2_MU_UINT32_Marshal nvIndex) ;;;
  null_or qualifyingData
    (ctx_set (set_decryptNull true) ;;; ctx_marshal (Tss2_MU_UINT16_Marshal 0))
    (ctx_marshal (Tss2_MU_TPM2B_DATA_Marshal qualifyingData)) ;;;
  ctx_marshal (Tss2_MU_TPMT_SIG_SCHEME_Marshal inScheme) ;;;
  ctx_marshal (Tss2_MU_UINT16_Marshal size) ;;;
  ctx_marshal (Tss2_MU_UINT16_Marshal offset) ;;;
  ctx_set (set_decryptAllowed true) ;;;
  ctx_set (set_encryptAllowed true) ;;;
  ctx_set (set_authAllowed true) ;;;
  CommonPrepareEpilogue)).

Definition Tss2_Sys_NV_ChangeAuth_Prepare (nvIndex : Z) (newAuth : option TPM2B) : sysF S :=
  check_ctx (
  CommonPreparePrologue TPM2_CC_NV_ChangeAuth ;;;
  ctx_marshal (Tss2_MU_UINT32_Marshal nvIndex) ;;;
  null_or newAuth
    (ctx_marshal (Tss2_MU_UINT16_Marshal 0))
    (ctx_marshal (Tss2_MU_TPM2B_AUTH_Marshal newAuth)) ;;;
  ctx_set (set_decryptAllowed true) ;;;
  ctx_set (set_encryptAllowed false) ;;;
  ctx_set (set_authAllowed true) ;;;
  CommonPrepareEpilogue).

Definition Tss2_Sys_NV_DefineSpace_Prepare (authHandle : Z) (auth : option TPM2B)
    (publicInfo : option (TPM2B_SUB TPMS_NV_PUBLIC)) : sysF S :=
  check_ctx (
  ValidateNV_Public ;;;
  CommonPreparePrologue TPM2_CC_NV_DefineSpace ;;;
  ctx_marshal (Tss2_MU_UINT32_Marshal authHandle) ;;;
  null_or auth
    (ctx_set (set_decryptNull true) ;;; ctx_marshal (Tss2_MU_UINT16_Marshal 0))
    (ctx_marshal (Tss2_MU_TPM2B_AUTH_Marshal auth)) ;;;
  null_or publicInfo
    (ctx_marshal (Tss2_MU_UINT16_Marshal 0))
    (ctx_marshal (Tss2_MU_TPM2B_NV_PUBLIC_Marshal publicInfo)) ;;;
  ctx_set (set_decryptAllowed true) ;;;
  ctx_set (set_encryptAllowed false) ;;;
  ctx_set (set_authAllowed true) ;;;
  CommonPrepareEpilogue).

Definition Tss2_Sys_NV_Extend_Prepare (authHandle : Z) (nvIndex : Z) (data : option TPM2B) : sysF S :=
  check_ctx (
  CommonPreparePrologue TPM2_CC_NV_Extend ;;;
  ctx_marshal (Tss2_MU_UINT32_Marshal authHandle) ;;;
  ctx_marshal (Tss2_MU_UINT32_Marshal nvIndex) ;;;
  null_or data
    (ctx_marshal (Tss2_MU_UINT16_Marshal 0))
    (ctx_marshal (Tss2_MU_TPM2B_MAX_NV_BUFFER_Marshal data)) ;;;
  ctx_set (set_decryptAllowed true) ;;;
  ctx_set (set_encryptAllowed false) ;;;
  ctx_set (set_authAllowed true) ;;;
  CommonPrepareEpilogue).

Definition Tss2_Sys_NV_GlobalWriteLock_Prepare (authHandle : Z) : sysF S :=
  check_ctx (
  CommonPreparePrologue TPM2_CC_NV_GlobalWriteLock ;;;
  ctx_marshal (Tss2_MU_UINT32_Marshal authHandle) ;;;
  ctx_set (set_decryptAllowed false) ;;;
  ctx_set (set_encryptAllowed false) ;;;
  ctx_set (set_authAllowed true) ;;;
  CommonPrepareEpilogue).

Definition Tss2_Sys_NV_Increment_Prepare (authHandle : Z) (nvIndex : Z) : sysF S :=
  check_ctx (
  CommonPreparePrologue TPM2_CC_NV_Increment ;;;
  ctx_marshal (Tss2_MU_UINT32_Marshal authHandle) ;;;
  ctx_marshal (Tss2_MU_UINT32_Marshal nvIndex) ;;;
  ctx_set (set_decryptAllowed false) ;;;
  ctx_set (set_encryptAllowed false) ;;;
  ctx_set (set_authAllowed true) ;;;
  CommonPrepareEpilogue).

Definition Tss2_Sys_NV_Read_Prepare (authHandle : Z) (nvIndex : Z) (size : Z) (offset : Z) : sysF S :=
  check_ctx (
  CommonPreparePrologue TPM2_CC_NV_Read ;;;
  ctx_marshal (Tss2_MU_UINT32_Marshal authHandle) ;;;
  ctx_marshal (Tss2_MU_UINT32_Marshal nvIndex) ;;;
  ctx_marshal (Tss2_MU_UINT16_Marshal size) ;;;
  ctx_marshal (Tss2_MU_UINT16_Marshal offset) ;;;
  ctx_set (set_decryptAllowed false) ;;;
  ctx_set (set_encryptAllowed true) ;;;
  ctx_set (set_authAllowed true) ;;;
  CommonPrepareEpilogue).

Definition Tss2_Sys_NV_ReadLock_Prepare (authHandle : Z) (nvIndex : Z) : sysF S :=
  check_ctx (
  CommonPreparePrologue TPM2_CC_NV_ReadLock ;;;
  ctx_marshal (Tss2_MU_UINT32_Marshal authHandle) ;;;
  ctx_marshal (Tss2_MU_UINT32_Marshal nvIndex) ;;;
  ctx_set (set_decryptAllowed false) ;;;
  ctx_set (set_encryptAllowed false) ;;;
  ctx_set (set_authAllowed true) ;;;
  CommonPrepareEpilogue).

Definition Tss2_Sys_NV_ReadPublic_Prepare (nvIndex : Z) : sysF S :=
  check_ctx (
  CommonPreparePrologue TPM2_CC_NV_ReadPublic ;;;
  ctx_marshal (Tss2_MU_UINT32_Marshal nvIndex) ;;;
  ctx_set (set_decryptAllowed false) ;;;
  ctx_set (set_encryptAllowed true) ;;;
  ctx_set (set_authAllowed true) ;;;
  CommonPrepareEpilogue).

Definition Tss2_Sys_NV_SetBits_Prepare (authHandle : Z) (nvIndex : Z) (bits : Z) : sysF S :=
  check_ctx (
  CommonPreparePrologue TPM2_CC_NV_SetBits ;;;
  ctx_marshal (Tss2_MU_UINT32_Marshal authHandle) ;;;
  ctx_marshal (Tss2_MU_UINT32_Marshal nvIndex) ;;;
  ctx_marshal (Tss2_MU_UINT64_Marshal bits) ;;;
  ctx_set (set_decryptAllowed false) ;;;
  ctx_set (set_encryptAllowed false) ;;;
  ctx_set (set_authAllowed true) ;;;
  CommonPrepareEpilogue).

Definition Tss2_Sys_NV_UndefineSpace_Prepare (authHandle : Z) (nvIndex : Z) : sysF S :=
  check_ctx (
  CommonPreparePrologue TPM2_CC_NV_UndefineSpace ;;;
  ctx_marshal (Tss2_MU_UINT32_Marshal authHandle) ;;;
  ctx_marshal (Tss2_MU_UINT32_Marshal nvIndex) ;;;
  ctx_set (set_decryptAllowed false) ;;;
  ctx_set (set_encryptAllowed false) ;;;
  ctx_set (set_authAllowed true) ;;;
  CommonPrepareEpilogue).

Definition Tss2_Sys_NV_UndefineSpaceSpecial_Prepare (nvIndex : Z) (platform : Z) : sysF S :=
  check_ctx (
  CommonPreparePrologue TPM2_CC_NV_UndefineSpaceSpecial ;;;
  ctx_marshal (Tss2_MU_UINT32_Marshal nvIndex) ;;;
  ctx_marshal (Tss2_MU_UINT32_Marshal platform) ;;;
  ctx_set (set_decryptAllowed false) ;;;
  ctx_set (set_encryptAllowed false) ;;;
  ctx_set (set_authAllowed true) ;;;
  CommonPrepareEpilogue).

Definition Tss2_Sys_NV_Write_Prepare (authHandle : Z) (nvIndex : Z) (data : option TPM2B)
    (offset : Z) : sysF S :=
  check_ctx (
  CommonPreparePrologue TPM2_CC_NV_Write ;;;
  ctx_marshal (Tss2_MU_UINT32_Marshal authHandle) ;;;
  ctx_marshal (Tss2_MU_UINT32_Marshal nvIndex) ;;;
  null_or data
    (ctx_set (set_decryptNull true) ;;; ctx_marshal (Tss2_MU_UINT16_Marshal 0))
    (ctx_marshal (Tss2_MU_TPM2B_MAX_NV_BUFFER_Marshal data)) ;;;
  ctx_marshal (Tss2_MU_UINT16_Marshal offset) ;;;
  ctx_set (set_decryptAllowed true) ;;;
  ctx_set (set_encryptAllowed false) ;;;
  ctx_set (set_authAllowed true) ;;;
  CommonPrepareEpilogue).

Definition Tss2_Sys_NV_WriteLock_Prepare (authHandle : Z) (nvIndex : Z) : sysF S :=
  check_ctx (
  CommonPreparePrologue TPM2_CC_NV_WriteLock ;;;
  ctx_marshal (Tss2_MU_UINT32_Marshal authHandle) ;;;
  ctx_marshal (Tss2_MU_UINT32_Marshal nvIndex) ;;;
  ctx_set (set_decryptAllowed false) ;;;
  ctx_set (set_encryptAllowed false) ;;;
  ctx_set (set_authAllowed true) ;;;
  CommonPrepareEpilogue).

Definition Tss2_Sys_ObjectChangeAuth_Prepare (objectHandle : Z) (parentHandle : Z)
    (newAuth : option TPM2B) : sysF S :=
  check_ctx (
  CommonPreparePrologue TPM2_CC_ObjectChangeAuth ;;;
  ctx_marshal (Tss2_MU_UINT32_Marshal objectHandle) ;;;
  ctx_marshal (Tss2_MU_UINT32_Marshal parentHandle) ;;;
  null_or newAuth
    (ctx_marshal (Tss2_MU_UINT16_Marshal 0))
    (ctx_marshal (Tss2_MU_TPM2B_AUTH_Marshal newAuth)) ;;;
  ctx_set (set_decryptAllowed true) ;;;
  ctx_set (set_encryptAllowed true) ;;;
  ctx_set (set_authAllowed true) ;;;
  CommonPrepareEpilogue).

Definition Tss2_Sys_PCR_Allocate_Prepare (authHandle : Z)
    (pcrAllocation : option (TPML TPMS_PCR_SELECTION)) : sysF S :=
  check_ctx (
  check_ptr pcrAllocation (
  ValidateTPML_PCR_SELECTION ;;;
  CommonPreparePrologue TPM2_CC_PCR_Allocate ;;;
  ctx_marshal (Tss2_MU_UINT32_Marshal authHandle) ;;;
  ctx_marshal (Tss2_MU_TPML_PCR_SELECTION_Marshal pcrAllocation) ;;;
  ctx_set (set_decryptAllowed false) ;;;
  ctx_set (set_encryptAllowed false) ;;;
  ctx_set (set_authAllowed true) ;;;
  CommonPrepareEpilogue)).

Definition Tss2_Sys_PCR_Event_Prepare (pcrHandle : Z) (eventData : option TPM2B) : sysF S :=
  check_ctx (
  CommonPreparePrologue TPM2_CC_PCR_Event ;;;
  ctx_marshal (Tss2_MU_UINT32_Marshal pcrHandle) ;;;
  null_or eventData
    (ctx_marshal (Tss2_MU_UINT16_Marshal 0))
    (ctx_marshal (Tss2_MU_TPM2B_EVENT_Marshal eventData)) ;;;
  ctx_set (set_decryptAllowed true) ;;;
  ctx_set (set_encryptAllowed false) ;;;
  ctx_set (set_authAllowed true) ;;;
  CommonPrepareEpilogue).

Definition Tss2_Sys_PCR_Extend_Prepare (pcrHandle : Z) (digests : option (TPML TPMT_HA)) : sysF S :=
  check_ctx (
  check_ptr digests (
  CommonPreparePrologue TPM2_CC_PCR_Extend ;;;
  ctx_marshal (Tss2_MU_UINT32_Marshal pcrHandle) ;;;
  ctx_marshal (Tss2_MU_TPML_DIGEST_VALUES_Marshal digests) ;;;
  ctx_set (set_decryptAllowed false) ;;;
  ctx_set (set_encryptAllowed false) ;;;
  ctx_set (set_authAllowed true) ;;;
  CommonPrepareEpilogue)).

Definition Tss2_Sys_PCR_Read_Prepare (pcrSelectionIn : option (TPML TPMS_PCR_SELECTION)) : sysF S :=
  check_ctx (
  check_ptr pcrSelectionIn (
  CommonPreparePrologue TPM2_CC_PCR_Read ;;;
  ctx_marshal (Tss2_MU_TPML_PCR_SELECTION_Marshal pcrSelectionIn) ;;;
  ctx_set (set_decryptAllowed false) ;;;
  ctx_set (set_encryptAllowed false) ;;;
  ctx_set (set_authAllowed true) ;;;
  CommonPrepareEpilogue)).

Definition Tss2_Sys_PCR_Reset_Prepare (pcrHandle : Z) : sysF S :=
  check_ctx (
  CommonPreparePrologue TPM2_CC_PCR_Reset ;;;
  ctx_marshal (Tss2_MU_UINT32_Marshal pcrHandle) ;;;
  ctx_set (set_decryptAllowed false) ;;;
  ctx_set (set_encryptAllowed false) ;;;
  ctx_set (set_authAllowed true) ;;;
  CommonPrepareEpilogue).

Definition Tss2_Sys_PCR_SetAuthPolicy_Prepare (authHandle : Z) (authPolicy : option TPM2B)
    (hashAlg : Z) (pcrNum : Z) : sysF S :=
  check_ctx (
  check_weak (
  CommonPreparePrologue TPM2_CC_PCR_SetAuthPolicy ;;;
  ctx_marshal (Tss2_MU_UINT32_Marshal authHandle) ;;;
  null_or authPolicy
    (ctx_set (set_decryptNull true) ;;; ctx_marshal (Tss2_MU_UINT16_Marshal 0))
    (ctx_marshal (Tss2_MU_TPM2B_DIGEST_Marshal authPolicy)) ;;;
  ctx_marshal (Tss2_MU_UINT16_Marshal hashAlg) ;;;
  ctx_marshal (Tss2_MU_UINT32_Marshal pcrNum) ;;;
  ctx_set (set_decryptAllowed true) ;;;
  ctx_set (set_encryptAllowed false) ;;;
  ctx_set (set_authAllowed true) ;;;
  CommonPrepareEpilogue)).

Definition Tss2_Sys_PCR_SetAuthValue_Prepare (pcrHandle : Z) (auth : option TPM2B) : sysF S :=
  check_ctx (
  CommonPreparePrologue TPM2_CC_PCR_SetAuthValue ;;;
  ctx_marshal (Tss2_MU_UINT32_Marshal pcrHandle) ;;;
  null_or auth
    (ctx_marshal (Tss2_MU_UINT16_Marshal 0))
    (ctx_marshal (Tss2_MU_TPM2B_DIGEST_Marshal auth)) ;;;
  ctx_set (set_decryptAllowed true) ;;;
  ctx_set (set_encryptAllowed false) ;;;
  ctx_set (set_authAllowed true) ;;;
  CommonPrepareEpilogue).

Definition Tss2_Sys_PP_Commands_Prepare (auth : Z) (setList : option (TPML Z))
    (clearList : option (TPML Z)) : sysF S :=
  check_ctx (
  check_ptr setList (
  check_ptr clearList (
  CommonPreparePrologue TPM2_CC_PP_Commands ;;;
  ctx_marshal (Tss2_MU_UINT32_Marshal auth) ;;;
  ctx_marshal (Tss2_MU_TPML_CC_Marshal setList) ;;;
  ctx_marshal (Tss2_MU_TPML_CC_Marshal clearList) ;;;
  ctx_set (set_decryptAllowed false) ;;;
  ctx_set (set_encryptAllowed false) ;;;
  ctx_set (set_authAllowed true) ;;;
  CommonPrepareEpilogue))).

Definition Tss2_Sys_PolicyAuthValue_Prepare (policySession : Z) : sysF S :=
  check_ctx (
  CommonPreparePrologue TPM2_CC_PolicyAuthValue ;;;
  ctx_marshal (Tss2_MU_UINT32_Marshal policySession) ;;;
  ctx_set (set_decryptAllowed false) ;;;
  ctx_set (set_encryptAllowed false) ;;;
  ctx_set (set_authAllowed true) ;;;
  CommonPrepareEpilogue).

Definition Tss2_Sys_PolicyAuthorize_Prepare (policySession : Z)
    (approvedPolicy : option TPM2B) (policyRef : option TPM2B) (keySign : option TPM2B)
    (checkTicket : option TPMT_TK_VERIFIED) : sysF S :=
  check_ctx (
  check_ptr checkTicket (
  CommonPreparePrologue TPM2_CC_PolicyAuthorize ;;;
  ctx_marshal (Tss2_MU_UINT32_Marshal policySession) ;;;
  null_or approvedPolicy
    (ctx_set (set_decryptNull true) ;;; ctx_marshal (Tss2_MU_UINT16_Marshal 0))
    (ctx_marshal (Tss2_MU_TPM2B_DIGEST_Marshal approvedPolicy)) ;;;
  null_or policyRef
    (ctx_marshal (Tss2_MU_UINT16_Marshal 0))
    (ctx_marshal (Tss2_MU_TPM2B_NONCE_Marshal policyRef)) ;;;
  null_or keySign
    (ctx_marshal (Tss2_MU_UINT16_Marshal 0))
    (ctx_marshal (Tss2_MU_TPM2B_NAME_Marshal keySign)) ;;;
  ctx_marshal (Tss2_MU_TPMT_TK_VERIFIED_Marshal checkTicket) ;;;
  ctx_set (set_decryptAllowed true) ;;;
  ctx_set (set_encryptAllowed false) ;;;
  ctx_set (set_authAllowed true) ;;;
  CommonPrepareEpilogue)).

Definition Tss2_Sys_PolicyAuthorizeNV_Prepare (authHandle : Z) (nvIndex : Z)
    (policySession : Z) : sysF S :=
  check_ctx (
  CommonPreparePrologue TPM2_CC_PolicyAuthorizeNV ;;;
  ctx_marshal (Tss2_MU_TPM2_HANDLE_Marshal authHandle) ;;;
  ctx_marshal (Tss2_MU_TPM2_HANDLE_Marshal nvIndex) ;;;
  ctx_marshal (Tss2_MU_TPM2_HANDLE_Marshal policySession) ;;;
  ctx_set (set_decryptAllowed false) ;;;
  ctx_set (set_encryptAllowed false) ;;;
  ctx_set (set_authAllowed true) ;;;
  CommonPrepareEpilogue).

Definition Tss2_Sys_PolicyCommandCode_Prepare (policySession : Z) (code : Z) : sysF S :=
  check_ctx (
  CommonPreparePrologue TPM2_CC_PolicyCommandCode ;;;
  ctx_marshal (Tss2_MU_UINT32_Marshal policySession) ;;;
  ctx_marshal (Tss2_MU_UINT32_Marshal code) ;;;
  ctx_set (set_decryptAllowed false) ;;;
  ctx_set (set_encryptAllowed false) ;;;
  ctx_set (set_authAllowed true) ;;;
  CommonPrepareEpilogue).

Definition Tss2_Sys_PolicyCounterTimer_Prepare (policySession : Z) (operandB : option TPM2B)
    (offset : Z) (operation : Z) : sysF S :=
  check_ctx (
  CommonPreparePrologue TPM2_CC_PolicyCounterTimer ;;;
  ctx_marshal (Tss2_MU_UINT32_Marshal policySession) ;;;
  null_or operandB
    (ctx_set (set_decryptNull true) ;;; ctx_marshal (Tss2_MU_UINT16_Marshal 0))
    (ctx_marshal (Tss2_MU_TPM2B_OPERAND_Marshal operandB)) ;;;
  ctx_marshal (Tss2_MU_UINT16_Marshal offset) ;;;
  ctx_marshal (Tss2_MU_UINT16_Marshal operation) ;;;
  ctx_set (set_decryptAllowed true) ;;;
  ctx_set (set_encryptAllowed false) ;;;
  ctx_set (set_authAllowed true) ;;;
  CommonPrepareEpilogue).

Definition Tss2_Sys_PolicyCpHash_Prepare (policySession : Z) (cpHashA : option TPM2B) : sysF S :=
  check_ctx (
  CommonPreparePrologue TPM2_CC_PolicyCpHash ;;;
  ctx_marshal (Tss2_MU_UINT32_Marshal policySession) ;;;
  null_or cpHashA
    (ctx_marshal (Tss2_MU_UINT16_Marshal 0))
    (ctx_marshal (Tss2_MU_TPM2B_DIGEST_Marshal cpHashA)) ;;;
  ctx_set (set_decryptAllowed true) ;;;
  ctx_set (set_encryptAllowed false) ;;;
  ctx_set (set_authAllowed true) ;;;
  CommonPrepareEpilogue).

Definition Tss2_Sys_PolicyDuplicationSelect_Prepare (policySession : Z)
    (objectName : option TPM2B) (newParentName : option TPM2B) (includeObject : Z) : sysF S :=
  check_ctx (
  CommonPreparePrologue TPM2_CC_PolicyDuplicationSelect ;;;
  ctx_marshal (Tss2_MU_UINT32_Marshal policySession) ;;;
  null_or objectName
    (ctx_set (set_decryptNull true) ;;; ctx_marshal (Tss2_MU_UINT16_Marshal 0))
    (ctx_marshal (Tss2_MU_TPM2B_NAME_Marshal objectName)) ;;;
  null_or newParentName
    (ctx_marshal (Tss2_MU_UINT16_Marshal 0))
    (ctx_marshal (Tss2_MU_TPM2B_NAME_Marshal newParentName)) ;;;
  ctx_marshal (Tss2_MU_UINT8_Marshal includeObject) ;;;
  ctx_set (set_decryptAllowed true) ;;;
  ctx_set (set_encryptAllowed false) ;;;
  ctx_set (set_authAllowed true) ;;;
  CommonPrepareEpilogue).

Definition Tss2_Sys_PolicyGetDigest_Prepare (policySession : Z) : sysF S :=
  check_ctx (
  CommonPreparePrologue TPM2_CC_PolicyGetDigest ;;;
  ctx_marshal (Tss2_MU_UINT32_Marshal policySession) ;;;
  ctx_set (set_decryptAllowed false) ;;;
  ctx_set (set_encryptAllowed true) ;;;
  ctx_set (set_authAllowed true) ;;;
  CommonPrepareEpilogue).

Definition Tss2_Sys_PolicyLocality_Prepare (policySession : Z) (locality : Z) : sysF S :=
  check_ctx (
  CommonPreparePrologue TPM2_CC_PolicyLocality ;;;
  ctx_marshal (Tss2_MU_UINT32_Marshal policySession) ;;;
  ctx_marshal (Tss2_MU_TPMA_LOCALITY_Marshal locality) ;;;
  ctx_set (set_decryptAllowed false) ;;;
  ctx_set (set_encryptAllowed false) ;;;
  ctx_set (set_authAllowed true) ;;;
  CommonPrepareEpilogue).

Definition Tss2_Sys_PolicyNV_Prepare (authHandle : Z) (nvIndex : Z) (policySession : Z)
    (operandB : option TPM2B) (offset : Z) (operation : Z) : sysF S :=
  check_ctx (
  CommonPreparePrologue TPM2_CC_PolicyNV ;;;
  ctx_marshal (Tss2_MU_UINT32_Marshal authHandle) ;;;
  ctx_marshal (Tss2_MU_UINT32_Marshal nvIndex) ;;;
  ctx_marshal (Tss2_MU_UINT32_Marshal policySession) ;;;
  null_or operandB
    (ctx_set (set_decryptNull true) ;;; ctx_marshal (Tss2_MU_UINT16_Marshal 0))
    (ctx_marshal (Tss2_MU_TPM2B_OPERAND_Marshal operandB)) ;;;
  ctx_marshal (Tss2_MU_UINT16_Marshal offset) ;;;
  ctx_marshal (Tss2_MU_UINT16_Marshal operation) ;;;
  ctx_set (set_decryptAllowed true) ;;;
  ctx_set (set_encryptAllowed false) ;;;
  ctx_set (set_authAllowed true) ;;;
  CommonPrepareEpilogue).

Definition Tss2_Sys_PolicyNameHash_Prepare (policySession : Z) (nameHash : option TPM2B) : sysF S :=
  check_ctx (
  CommonPreparePrologue TPM2_CC_PolicyNameHash ;;;
  ctx_marshal (Tss2_MU_UINT32_Marshal policySession) ;;;
  null_or nameHash
    (ctx_marshal (Tss2_MU_UINT16_Marshal 0))
    (ctx_marshal (Tss2_MU_TPM2B_DIGEST_Marshal nameHash)) ;;;
  ctx_set (set_decryptAllowed true) ;;;
  ctx_set (set_encryptAllowed false) ;;;
  ctx_set (set_authAllowed true) ;;;
  CommonPrepareEpilogue).

Definition Tss2_Sys_PolicyNvWritten_Prepare (policySession : Z) (writtenSet : Z) : sysF S :=
  check_ctx (
  CommonPreparePrologue TPM2_CC_PolicyNvWritten ;;;
  ctx_marshal (Tss2_MU_UINT32_Marshal policySession) ;;;
  ctx_marshal (Tss2_MU_UINT8_Marshal writtenSet) ;;;
  ctx_set (set_decryptAllowed false) ;;;
  ctx_set (set_encryptAllowed false) ;;;
  ctx_set (set_authAllowed true) ;;;
  CommonPrepareEpilogue).

Definition Tss2_Sys_PolicyOR_Prepare (policySession : Z) (pHashList : option (TPML TPM2B)) : sysF S :=
  check_ctx (
  check_ptr pHashList (
  CommonPreparePrologue TPM2_CC_PolicyOR ;;;
  ctx_marshal (Tss2_MU_UINT32_Marshal policySession) ;;;
  ctx_marshal (Tss2_MU_TPML_DIGEST_Marshal pHashList) ;;;
  ctx_set (set_decryptAllowed false) ;;;
  ctx_set (set_encryptAllowed false) ;;;
  ctx_set (set_authAllowed true) ;;;
  CommonPrepareEpilogue)).

Definition Tss2_Sys_PolicyPCR_Prepare (policySession : Z) (pcrDigest : option TPM2B)
    (pcrs : option (TPML TPMS_PCR_SELECTION)) : sysF S :=
  check_ctx (
  check_ptr pcrs (
  ValidateTPML_PCR_SELECTION ;;;
  CommonPreparePrologue TPM2_CC_PolicyPCR ;;;
  ctx_marshal (Tss2_MU_UINT32_Marshal policySession) ;;;
  null_or pcrDigest
    (ctx_set (set_decryptNull true) ;;; ctx_marshal (Tss2_MU_UINT16_Marshal 0))
    (ctx_marshal (Tss2_MU_TPM2B_DIGEST_Marshal pcrDigest)) ;;;
  ctx_marshal (Tss2_MU_TPML_PCR_SELECTION_Marshal pcrs) ;;;
  ctx_set (set_decryptAllowed true) ;;;
  ctx_set (set_encryptAllowed false) ;;;
  ctx_set (set_authAllowed true) ;;;
  CommonPrepareEpilogue)).

Definition Tss2_Sys_PolicyPassword_Prepare (policySession : Z) : sysF S :=
  check_ctx (
  CommonPreparePrologue TPM2_CC_PolicyPassword ;;;
  ctx_marshal (Tss2_MU_UINT32_Marshal policySession) ;;;
  ctx_set (set_decryptAllowed false) ;;;
  ctx_set (set_encryptAllowed false) ;;;
  ctx_set (set_authAllowed true) ;;;
  CommonPrepareEpilogue).

Definition Tss2_Sys_PolicyPhysicalPresence_Prepare (policySession : Z) : sysF S :=
  check_ctx (
  CommonPreparePrologue TPM2_CC_PolicyPhysicalPresence ;;;
  ctx_marshal (Tss2_MU_UINT32_Marshal policySession) ;;;
  ctx_set (set_decryptAllowed false) ;;;
  ctx_set (set_encryptAllowed false) ;;;
  ctx_set (set_authAllowed true) ;;;
  CommonPrepareEpilogue).

Definition Tss2_Sys_PolicyRestart_Prepare (sessionHandle : Z) : sysF S :=
  check_ctx (
  CommonPreparePrologue TPM2_CC_PolicyRestart ;;;
  ctx_marshal (Tss2_MU_UINT32_Marshal sessionHandle) ;;;
  ctx_set (set_decryptAllowed false) ;;;
  ctx_set (set_encryptAllowed false) ;;;
  ctx_set (set_authAllowed true) ;;;
  CommonPrepareEpilogue).

Definition Tss2_Sys_PolicySecret_Prepare (authHandle : Z) (policySession : Z)
    (nonceTPM : option TPM2B) (cpHashA : option TPM2B) (policyRef : option TPM2B)
    (expiration : Z) : sysF S :=
  check_ctx (
  CommonPreparePrologue TPM2_CC_PolicySecret ;;;
  ctx_marshal (Tss2_MU_UINT32_Marshal authHandle) ;;;
  ctx_marshal (Tss2_MU_UINT32_Marshal policySession) ;;;
  null_or nonceTPM
    (ctx_set (set_decryptNull true) ;;; ctx_marshal (Tss2_MU_UINT16_Marshal 0))
    (ctx_marshal (Tss2_MU_TPM2B_NONCE_Marshal nonceTPM)) ;;;
  null_or cpHashA
    (ctx_marshal (Tss2_MU_UINT16_Marshal 0))
    (ctx_marshal (Tss2_MU_TPM2B_DIGEST_Marshal cpHashA)) ;;;
  null_or policyRef
    (ctx_marshal (Tss2_MU_UINT16_Marshal 0))
    (ctx_marshal (Tss2_MU_TPM2B_NONCE_Marshal policyRef)) ;;;
  ctx_marshal (Tss2_MU_UINT32_Marshal expiration) ;;;
  ctx_set (set_decryptAllowed true) ;;;
  ctx_set (set_encryptAllowed true) ;;;
  ctx_set (set_authAllowed true) ;;;
  CommonPrepareEpilogue).

Definition Tss2_Sys_PolicySigned_Prepare (authObject : Z) (policySession : Z)
    (nonceTPM : option TPM2B) (cpHashA : option TPM2B) (policyRef : option TPM2B)
    (expiration : Z) (auth : option TPMT_SIGNATURE) : sysF S :=
  check_ctx (
  check_ptr auth (
  CommonPreparePrologue TPM2_CC_PolicySigned ;;;
  ctx_marshal (Tss2_MU_UINT32_Marshal authObject) ;;;
  ctx_marshal (Tss2_MU_UINT32_Marshal policySession) ;;;
  null_or nonceTPM
    (ctx_set (set_decryptNull true) ;;; ctx_marshal (Tss2_MU_UINT16_Marshal 0))
    (ctx_marshal (Tss2_MU_TPM2B_NONCE_Marshal nonceTPM)) ;;;
  null_or cpHashA
    (ctx_marshal (Tss2_MU_UINT16_Marshal 0))
    (ctx_marshal (Tss2_MU_TPM2B_DIGEST_Marshal cpHashA)) ;;;
  null_or policyRef
    (ctx_marshal (Tss2_MU_UINT16_Marshal 0))
    (ctx_marshal (Tss2_MU_TPM2B_NONCE_Marshal policyRef)) ;;;
  ctx_marshal (Tss2_MU_UINT32_Marshal expiration) ;;;
  ctx_marshal (Tss2_MU_TPMT_SIGNATURE_Marshal auth) ;;;
  ctx_set (set_decryptAllowed true) ;;;
  ctx_set (set_encryptAllowed true) ;;;
  ctx_set (set_authAllowed true) ;;;
  CommonPrepareEpilogue)).

Definition Tss2_Sys_PolicyTemplate_Prepare (policySession : Z) (templateHash : option TPM2B) : sysF S :=
  check_ctx (
  CommonPreparePrologue TPM2_CC_PolicyTemplate ;;;
  ctx_marshal (Tss2_MU_TPM2_HANDLE_Marshal policySession) ;;;
  null_or templateHash
    (ctx_marshal (Tss2_MU_UINT16_Marshal 0))
    (ctx_marshal (Tss2_MU_TPM2B_DIGEST_Marshal templateHash)) ;;;
  ctx_set (set_decryptAllowed true) ;;;
  ctx_set (set_encryptAllowed false) ;;;
  ctx_set (set_authAllowed true) ;;;
  CommonPrepareEpilogue).

Definition Tss2_Sys_PolicyTicket_Prepare (policySession : Z) (timeout : option TPM2B)
    (cpHashA : option TPM2B) (policyRef : option TPM2B) (authName : option TPM2B)
    (ticket : option TPMT_TK_AUTH) : sysF S :=
  check_ctx (
  check_ptr ticket (
  CommonPreparePrologue TPM2_CC_PolicyTicket ;;;
  ctx_marshal (Tss2_MU_UINT32_Marshal policySession) ;;;
  null_or timeout
    (ctx_set (set_decryptNull true) ;;; ctx_marshal (Tss2_MU_UINT16_Marshal 0))
    (ctx_marshal (Tss2_MU_TPM2B_TIMEOUT_Marshal timeout)) ;;;
  null_or cpHashA
    (ctx_marshal (Tss2_MU_UINT16_Marshal 0))
    (ctx_marshal (Tss2_MU_TPM2B_DIGEST_Marshal cpHashA)) ;;;
  null_or policyRef
    (ctx_marshal (Tss2_MU_UINT16_Marshal 0))
    (ctx_marshal (Tss2_MU_TPM2B_NONCE_Marshal policyRef)) ;;;
  null_or authName
    (ctx_marshal (Tss2_MU_UINT16_Marshal 0))
    (ctx_marshal (Tss2_MU_TPM2B_NAME_Marshal authName)) ;;;
  ctx_marshal (Tss2_MU_TPMT_TK_AUTH_Marshal ticket) ;;;
  ctx_set (set_decryptAllowed true) ;;;
  ctx_set (set_encryptAllowed false) ;;;
  ctx_set (set_authAllowed true) ;;;
  CommonPrepareEpilogue)).

Definition Tss2_Sys_Policy_AC_SendSelect_Prepare (policySession : Z)
    (objectName : option TPM2B) (authHandleName : option TPM2B) (acName : option TPM2B)
    (includeObject : Z) : sysF S :=
  check_ctx (
  CommonPreparePrologue TPM2_CC_Policy_AC_SendSelect ;;;
  ctx_marshal (Tss2_MU_TPM2_HANDLE_Marshal policySession) ;;;
  null_or objectName
    (ctx_set (set_decryptNull true) ;;; ctx_marshal (Tss2_MU_UINT16_Marshal 0))
    (ctx_marshal (Tss2_MU_TPM2B_NAME_Marshal objectName)) ;;;
  null_or authHandleName
    (ctx_marshal (Tss2_MU_UINT16_Marshal 0))
    (ctx_marshal (Tss2_MU_TPM2B_NAME_Marshal authHandleName)) ;;;
  null_or acName
    (ctx_marshal (Tss2_MU_UINT16_Marshal 0))
    (ctx_marshal (Tss2_MU_TPM2B_NAME_Marshal acName)) ;;;
  ctx_marshal (Tss2_MU_UINT8_Marshal includeObject) ;;;
  ctx_set (set_decryptAllowed true) ;;;
  ctx_set (set_encryptAllowed false) ;;;
  ctx_set (set_authAllowed true) ;;;
  CommonPrepareEpilogue).

Definition Tss2_Sys_Quote_Prepare (signHandle : Z) (qualifyingData : option TPM2B)
    (inScheme : option TPMT_SIG_SCHEME) (PCRselect : option (TPML TPMS_PCR_SELECTION)) : sysF S :=
  check_ctx (
  check_ptr inScheme (
  check_ptr PCRselect (
  ValidateTPML_PCR_SELECTION ;;;
  CommonPreparePrologue TPM2_CC_Quote ;;;
  ctx_marshal (Tss2_MU_UINT32_Marshal signHandle) ;;;
  null_or qualifyingData
    (ctx_set (set_decryptNull true) ;;; ctx_marshal (Tss2_MU_UINT16_Marshal 0))
    (ctx_marshal (Tss2_MU_TPM2B_DATA_Marshal qualifyingData)) ;;;
  ctx_marshal (Tss2_MU_TPMT_SIG_SCHEME_Marshal inScheme) ;;;
  ctx_marshal (Tss2_MU_TPML_PCR_SELECTION_Marshal PCRselect) ;;;
  ctx_set (set_decryptAllowed true) ;;;
  ctx_set (set_encryptAllowed true) ;;;
  ctx_set (set_authAllowed true) ;;;
  CommonPrepareEpilogue))).

Definition Tss2_Sys_RSA_Decrypt_Prepare (keyHandle : Z) (cipherText : option TPM2B)
    (inScheme : option TPMT_RSA_DECRYPT) (label : option TPM2B) : sysF S :=
  check_ctx (
  check_ptr inScheme (
  CommonPreparePrologue TPM2_CC_RSA_Decrypt ;;;
  ctx_marshal (Tss2_MU_UINT32_Marshal keyHandle) ;;;
  null_or cipherText
    (ctx_set (set_decryptNull true) ;;; ctx_marshal (Tss2_MU_UINT16_Marshal 0))
    (ctx_marshal (Tss2_MU_TPM2B_PUBLIC_KEY_RSA_Marshal cipherText)) ;;;
  ctx_marshal (Tss2_MU_TPMT_RSA_DECRYPT_Marshal inScheme) ;;;
  null_or label
    (ctx_marshal (Tss2_MU_UINT16_Marshal 0))
    (ctx_marshal (Tss2_MU_TPM2B_DATA_Marshal label)) ;;;
  ctx_set (set_decryptAllowed true) ;;;
  ctx_set (set_encryptAllowed true) ;;;
  ctx_set (set_authAllowed true) ;;;
  CommonPrepareEpilogue)).

Definition Tss2_Sys_RSA_Encrypt_Prepare (keyHandle : Z) (message : option TPM2B)
    (inScheme : option TPMT_RSA_DECRYPT) (label : option TPM2B) : sysF S :=
  check_ctx (
  check_ptr inScheme (
  CommonPreparePrologue TPM2_CC_RSA_Encrypt ;;;
  ctx_marshal (Tss2_MU_UINT32_Marshal keyHandle) ;;;
  null_or message
    (ctx_set (set_decryptNull true) ;;; ctx_marshal (Tss2_MU_UINT16_Marshal 0))
    (ctx_marshal (Tss2_MU_TPM2B_PUBLIC_KEY_RSA_Marshal message)) ;;;
  ctx_marshal (Tss2_MU_TPMT_RSA_DECRYPT_Marshal inScheme) ;;;
  null_or label
    (ctx_marshal (Tss2_MU_UINT16_Marshal 0))
    (ctx_marshal (Tss2_MU_TPM2B_DATA_Marshal label)) ;;;
  ctx_set (set_decryptAllowed true) ;;;
  ctx_set (set_encryptAllowed true) ;;;
  ctx_set (set_authAllowed true) ;;;
  CommonPrepareEpilogue)).

Definition Tss2_Sys_ReadClock_Prepare : sysF S :=
  check_ctx (
  CommonPreparePrologue TPM2_CC_ReadClock ;;;
  ctx_set (set_decryptAllowed false) ;;;
  ctx_set (set_encryptAllowed false) ;;;
  ctx_set (set_authAllowed true) ;;;
  CommonPrepareEpilogue).

Definition Tss2_Sys_ReadPublic_Prepare (objectHandle : Z) : sysF S :=
  check_ctx (
  CommonPreparePrologue TPM2_CC_ReadPublic ;;;
  ctx_marshal (Tss2_MU_UINT32_Marshal objectHandle) ;;;
  ctx_set (set_decryptAllowed false) ;;;
  ctx_set (set_encryptAllowed true) ;;;
  ctx_set (set_authAllowed true) ;;;
  CommonPrepareEpilogue).

Definition Tss2_Sys_Rewrap_Prepare (oldParent : Z) (newParent : Z)
    (inDuplicate : option TPM2B) (name : option TPM2B) (inSymSeed : option TPM2B) : sysF S :=
  check_ctx (
  CommonPreparePrologue TPM2_CC_Rewrap ;;;
  ctx_marshal (Tss2_MU_UINT32_Marshal oldParent) ;;;
  ctx_marshal (Tss2_MU_UINT32_Marshal newParent) ;;;
  null_or inDuplicate
    (ctx_set (set_decryptNull true) ;;; ctx_marshal (Tss2_MU_UINT16_Marshal 0))
    (ctx_marshal (Tss2_MU_TPM2B_PRIVATE_Marshal inDuplicate)) ;;;
  null_or name
    (ctx_marshal (Tss2_MU_UINT16_Marshal 0))
    (ctx_marshal (Tss2_MU_TPM2B_NAME_Marshal name)) ;;;
  null_or inSymSeed
    (ctx_marshal (Tss2_MU_UINT16_Marshal 0))
    (ctx_marshal (Tss2_MU_TPM2B_ENCRYPTED_SECRET_Marshal inSymSeed)) ;;;
  ctx_set (set_decryptAllowed true) ;;;
  ctx_set (set_encryptAllowed true) ;;;
  ctx_set (set_authAllowed true) ;;;
  CommonPrepareEpilogue).

Definition Tss2_Sys_SelfTest_Prepare (fullTest : Z) : sysF S :=
  check_ctx (
  CommonPreparePrologue TPM2_CC_SelfTest ;;;
  ctx_marshal (Tss2_MU_UINT8_Marshal fullTest) ;;;
  ctx_set (set_decryptAllowed false) ;;;
  ctx_set (set_encryptAllowed false) ;;;
  ctx_set (set_authAllowed true) ;;;
  CommonPrepareEpilogue).

Definition Tss2_Sys_SequenceComplete_Prepare (sequenceHandle : Z) (buffer : option TPM2B)
    (hierarchy : Z) : sysF S :=
  check_ctx (
  CommonPreparePrologue TPM2_CC_SequenceComplete ;;;
  ctx_marshal (Tss2_MU_UINT32_Marshal sequenceHandle) ;;;
  null_or buffer
    (ctx_set (set_decryptNull true) ;;; ctx_marshal (Tss2_MU_UINT16_Marshal 0))
    (ctx_marshal (Tss2_MU_TPM2B_MAX_BUFFER_Marshal buffer)) ;;;
  ctx_marshal (Tss2_MU_UINT32_Marshal hierarchy) ;;;
  ctx_set (set_decryptAllowed true) ;;;
  ctx_set (set_encryptAllowed true) ;;;
  ctx_set (set_authAllowed true) ;;;
  CommonPrepareEpilogue).

Definition Tss2_Sys_SequenceUpdate_Prepare (sequenceHandle : Z) (buffer : option TPM2B) : sysF S :=
  check_ctx (
  CommonPreparePrologue TPM2_CC_SequenceUpdate ;;;
  ctx_marshal (Tss2_MU_UINT32_Marshal sequenceHandle) ;;;
  null_or buffer
    (ctx_marshal (Tss2_MU_UINT16_Marshal 0))
    (ctx_marshal (Tss2_MU_TPM2B_MAX_BUFFER_Marshal buffer)) ;;;
  ctx_set (set_decryptAllowed true) ;;;
  ctx_set (set_encryptAllowed false) ;;;
  ctx_set (set_authAllowed true) ;;;
  CommonPrepareEpilogue).

Definition Tss2_Sys_SetAlgorithmSet_Prepare (authHandle : Z) (algorithmSet : Z) : sysF S :=
  check_ctx (
  CommonPreparePrologue TPM2_CC_SetAlgorithmSet ;;;
  ctx_marshal (Tss2_MU_UINT32_Marshal authHandle) ;;;
  ctx_marshal (Tss2_MU_UINT32_Marshal algorithmSet) ;;;
  ctx_set (set_decryptAllowed false) ;;;
  ctx_set (set_encryptAllowed false) ;;;
  ctx_set (set_authAllowed true) ;;;
  CommonPrepareEpilogue).

Definition Tss2_Sys_SetCommandCodeAuditStatus_Prepare (auth : Z) (auditAlg : Z)
    (setList : option (TPML Z)) (clearList : option (TPML Z)) : sysF S :=
  check_ctx (
  check_ptr setList (
  check_ptr clearList (
  check_weak (
  CommonPreparePrologue TPM2_CC_SetCommandCodeAuditStatus ;;;
  ctx_marshal (Tss2_MU_UINT32_Marshal auth) ;;;
  ctx_marshal (Tss2_MU_UINT16_Marshal auditAlg) ;;;
  ctx_marshal (Tss2_MU_TPML_CC_Marshal setList) ;;;
  ctx_marshal (Tss2_MU_TPML_CC_Marshal clearList) ;;;
  ctx_set (set_decryptAllowed false) ;;;
  ctx_set (set_encryptAllowed false) ;;;
  ctx_set (set_authAllowed true) ;;;
  CommonPrepareEpilogue)))).

Definition Tss2_Sys_SetPrimaryPolicy_Prepare (authHandle : Z) (authPolicy : option TPM2B)
    (hashAlg : Z) : sysF S :=
  check_ctx (
  check_weak (
  CommonPreparePrologue TPM2_CC_SetPrimaryPolicy ;;;
  ctx_marshal (Tss2_MU_UINT32_Marshal authHandle) ;;;
  null_or authPolicy
    (ctx_set (set_decryptNull true) ;;; ctx_marshal (Tss2_MU_UINT16_Marshal 0))
    (ctx_marshal (Tss2_MU_TPM2B_DIGEST_Marshal authPolicy)) ;;;
  ctx_marshal (Tss2_MU_UINT16_Marshal hashAlg) ;;;
  ctx_set (set_decryptAllowed true) ;;;
  ctx_set (set_encryptAllowed false) ;;;
  ctx_set (set_authAllowed true) ;;;
  CommonPrepareEpilogue)).

Definition Tss2_Sys_Shutdown_Prepare (shutdownType : Z) : sysF S :=
  check_ctx (
  CommonPreparePrologue TPM2_CC_Shutdown ;;;
  ctx_marshal (Tss2_MU_UINT16_Marshal shutdownType) ;;;
  ctx_set (set_decryptAllowed false) ;;;
  ctx_set (set_encryptAllowed false) ;;;
  ctx_set (set_authAllowed true) ;;;
  CommonPrepareEpilogue).

Definition Tss2_Sys_Sign_Prepare (keyHandle : Z) (digest : option TPM2B)
    (inScheme : option TPMT_SIG_SCHEME) (validation : option TPMT_TK_HASHCHECK) : sysF S :=
  check_ctx (
  check_ptr inScheme (
  check_ptr validation (
  CommonPreparePrologue TPM2_CC_Sign ;;;
  ctx_marshal (Tss2_MU_UINT32_Marshal keyHandle) ;;;
  null_or digest
    (ctx_set (set_decryptNull true) ;;; ctx_marshal (Tss2_MU_UINT16_Marshal 0))
    (ctx_marshal (Tss2_MU_TPM2B_DIGEST_Marshal digest)) ;;;
  ctx_marshal (Tss2_MU_TPMT_SIG_SCHEME_Marshal inScheme) ;;;
  ctx_marshal (Tss2_MU_TPMT_TK_HASHCHECK_Marshal validation) ;;;
  ctx_set (set_decryptAllowed true) ;;;
  ctx_set (set_encryptAllowed false) ;;;
  ctx_set (set_authAllowed true) ;;;
  CommonPrepareEpilogue))).

Definition Tss2_Sys_SignDigest_Prepare (keyHandle : Z) (digest : option TPM2B)
    (inScheme : option TPMT_SIG_SCHEME) (validation : option TPMT_TK_HASHCHECK) : sysF S :=
  check_ctx (
  check_ptr inScheme (
  check_ptr validation (
  CommonPreparePrologue TPM2_CC_SignDigest ;;;
  ctx_marshal (Tss2_MU_UINT32_Marshal keyHandle) ;;;
  null_or digest
    (ctx_set (set_decryptNull true) ;;; ctx_marshal (Tss2_MU_UINT16_Marshal 0))
    (ctx_marshal (Tss2_MU_TPM2B_DIGEST_Marshal digest)) ;;;
  ctx_marshal (Tss2_MU_TPMT_SIG_SCHEME_Marshal inScheme) ;;;
  ctx_marshal (Tss2_MU_TPMT_TK_HASHCHECK_Marshal validation) ;;;
  ctx_set (set_decryptAllowed true) ;;;
  ctx_set (set_encryptAllowed false) ;;;
  ctx_set (set_authAllowed true) ;;;
  CommonPrepareEpilogue))).

Definition Tss2_Sys_SignSequenceComplete_Prepare (sequenceHandle : Z)
    (buffer : option TPM2B) : sysF S :=
  check_ctx (
  CommonPreparePrologue TPM2_CC_SignSequenceComplete ;;;
  ctx_marshal (Tss2_MU_UINT32_Marshal sequenceHandle) ;;;
  null_or buffer
    (ctx_set (set_decryptNull true) ;;; ctx_marshal (Tss2_MU_UINT16_Marshal 0))
    (ctx_marshal (Tss2_MU_TPM2B_MAX_BUFFER_Marshal buffer)) ;;;
  ctx_set (set_decryptAllowed true) ;;;
  ctx_set (set_encryptAllowed false) ;;;
  ctx_set (set_authAllowed true) ;;;
  CommonPrepareEpilogue).

Definition Tss2_Sys_SignSequenceStart_Prepare (keyHandle : Z)
    (inScheme : option TPMT_SIG_SCHEME) (keyB : Z) : sysF S :=
  check_ctx (
  check_ptr inScheme (
  CommonPreparePrologue TPM2_CC_SignSequenceStart ;;;
  ctx_marshal (Tss2_MU_UINT32_Marshal keyHandle) ;;;
  ctx_marshal (Tss2_MU_TPMT_SIG_SCHEME_Marshal inScheme) ;;;
  ctx_marshal (Tss2_MU_UINT32_Marshal keyB) ;;;
  ctx_set (set_decryptAllowed false) ;;;
  ctx_set (set_encryptAllowed false) ;;;
  ctx_set (set_authAllowed true) ;;;
  CommonPrepareEpilogue)).

Definition Tss2_Sys_StartAuthSession_Prepare (tpmKey : Z) (bind : Z)
    (nonceCaller : option TPM2B) (encryptedSalt : option TPM2B) (sessionType : Z)
    (symmetric : option TPMT_SYM_DEF) (authHash : Z) : sysF S :=
  check_ctx (
  check_ptr symmetric (
  check_weak (
  CommonPreparePrologue TPM2_CC_StartAuthSession ;;;
  ctx_marshal (Tss2_MU_UINT32_Marshal tpmKey) ;;;
  ctx_marshal (Tss2_MU_UINT32_Marshal bind) ;;;
  null_or nonceCaller
    (ctx_set (set_decryptNull true) ;;; ctx_marshal (Tss2_MU_UINT16_Marshal 0))
    (ctx_marshal (Tss2_MU_TPM2B_NONCE_Marshal nonceCaller)) ;;;
  null_or encryptedSalt
    (ctx_marshal (Tss2_MU_UINT16_Marshal 0))
    (ctx_marshal (Tss2_MU_TPM2B_ENCRYPTED_SECRET_Marshal encryptedSalt)) ;;;
  ctx_marshal (Tss2_MU_UINT8_Marshal sessionType) ;;;
  ctx_marshal (Tss2_MU_TPMT_SYM_DEF_Marshal symmetric) ;;;
  ctx_marshal (Tss2_MU_UINT16_Marshal authHash) ;;;
  ctx_set (set_decryptAllowed true) ;;;
  ctx_set (set_encryptAllowed true) ;;;
  ctx_set (set_authAllowed true) ;;;
  CommonPrepareEpilogue))).

Definition Tss2_Sys_Startup_Prepare (startupType : Z) : sysF S :=
  check_ctx (
  CommonPreparePrologue TPM2_CC_Startup ;;;
  ctx_marshal (Tss2_MU_UINT16_Marshal startupType) ;;;
  ctx_set (set_decryptAllowed false) ;;;
  ctx_set (set_encryptAllowed false) ;;;
  ctx_set (set_authAllowed false) ;;;
  CommonPrepareEpilogue).

Definition Tss2_Sys_StirRandom_Prepare (inData : option TPM2B) : sysF S :=
  check_ctx (
  CommonPreparePrologue TPM2_CC_StirRandom ;;;
  null_or inData
    (ctx_marshal (Tss2_MU_UINT16_Marshal 0))
    (ctx_marshal (Tss2_MU_TPM2B_SENSITIVE_DATA_Marshal inData)) ;;;
  ctx_set (set_decryptAllowed true) ;;;
  ctx_set (set_encryptAllowed false) ;;;
  ctx_set (set_authAllowed true) ;;;
  CommonPrepareEpilogue).

Definition Tss2_Sys_TestParms_Prepare (parameters : option TPMT_PUBLIC_PARMS) : sysF S :=
  check_ctx (
  check_ptr parameters (
  CommonPreparePrologue TPM2_CC_TestParms ;;;
  ctx_marshal (Tss2_MU_TPMT_PUBLIC_PARMS_Marshal parameters) ;;;
  ctx_set (set_decryptAllowed false) ;;;
  ctx_set (set_encryptAllowed false) ;;;
  ctx_set (set_authAllowed true) ;;;
  CommonPrepareEpilogue)).

Definition Tss2_Sys_Unseal_Prepare (itemHandle : Z) : sysF S :=
  check_ctx (
  CommonPreparePrologue TPM2_CC_Unseal ;;;
  ctx_marshal (Tss2_MU_UINT32_Marshal itemHandle) ;;;
  ctx_set (set_decryptAllowed false) ;;;
  ctx_set (set_encryptAllowed true) ;;;
  ctx_set (set_authAllowed true) ;;;
  CommonPrepareEpilogue).

Definition Tss2_Sys_Vendor_TCG_Test_Prepare (inputData : option TPM2B) : sysF S :=
  check_ctx (
  CommonPreparePrologue TPM2_CC_Vendor_TCG_Test ;;;
  null_or inputData
    (ctx_marshal (Tss2_MU_UINT16_Marshal 0))
    (ctx_marshal (Tss2_MU_TPM2B_DATA_Marshal inputData)) ;;;
  ctx_set (set_decryptAllowed true) ;;;
  ctx_set (set_encryptAllowed true) ;;;
  ctx_set (set_authAllowed true) ;;;
  CommonPrepareEpilogue).

Definition Tss2_Sys_VerifyDigestSignature_Prepare (keyHandle : Z) (digest : option TPM2B)
    (signature : option TPMT_SIGNATURE) : sysF S :=
  check_ctx (
  check_ptr signature (
  CommonPreparePrologue TPM2_CC_VerifyDigestSignature ;;;
  ctx_marshal (Tss2_MU_UINT32_Marshal keyHandle) ;;;
  null_or digest
    (ctx_set (set_decryptNull true) ;;; ctx_marshal (Tss2_MU_UINT16_Marshal 0))
    (ctx_marshal (Tss2_MU_TPM2B_DIGEST_Marshal digest)) ;;;
  ctx_marshal (Tss2_MU_TPMT_SIGNATURE_Marshal signature) ;;;
  ctx_set (set_decryptAllowed true) ;;;
  ctx_set (set_encryptAllowed false) ;;;
  ctx_set (set_authAllowed true) ;;;
  CommonPrepareEpilogue)).

Definition Tss2_Sys_VerifySequenceComplete_Prepare (sequenceHandle : Z)
    (buffer : option TPM2B) : sysF S :=
  check_ctx (
  CommonPreparePrologue TPM2_CC_VerifySequenceComplete ;;;
  ctx_marshal (Tss2_MU_UINT32_Marshal sequenceHandle) ;;;
  null_or buffer
    (ctx_set (set_decryptNull true) ;;; ctx_marshal (Tss2_MU_UINT16_Marshal 0))
    (ctx_marshal (Tss2_MU_TPM2B_MAX_BUFFER_Marshal buffer)) ;;;
  ctx_set (set_decryptAllowed true) ;;;
  ctx_set (set_encryptAllowed false) ;;;
  ctx_set (set_authAllowed true) ;;;
  CommonPrepareEpilogue).

Definition Tss2_Sys_VerifySequenceStart_Prepare (keyHandle : Z)
    (signature : option TPMT_SIGNATURE) : sysF S :=
  check_ctx (
  check_ptr signature (
  CommonPreparePrologue TPM2_CC_VerifySequenceStart ;;;
  ctx_marshal (Tss2_MU_UINT32_Marshal keyHandle) ;;;
  ctx_marshal (Tss2_MU_TPMT_SIGNATURE_Marshal signature) ;;;
  ctx_set (set_decryptAllowed false) ;;;
  ctx_set (set_encryptAllowed false) ;;;
  ctx_set (set_authAllowed true) ;;;
  CommonPrepareEpilogue)).

Definition Tss2_Sys_VerifySignature_Prepare (keyHandle : Z) (digest : option TPM2B)
    (signature : option TPMT_SIGNATURE) : sysF S :=
  check_ctx (
  check_ptr signature (
  CommonPreparePrologue TPM2_CC_VerifySignature ;;;
  ctx_marshal (Tss2_MU_UINT32_Marshal keyHandle) ;;;
  null_or digest
    (ctx_set (set_decryptNull true) ;;; ctx_marshal (Tss2_MU_UINT16_Marshal 0))
    (ctx_marshal (Tss2_MU_TPM2B_DIGEST_Marshal digest)) ;;;
  ctx_marshal (Tss2_MU_TPMT_SIGNATURE_Marshal signature) ;;;
  ctx_set (set_decryptAllowed true) ;;;
  ctx_set (set_encryptAllowed false) ;;;
  ctx_set (set_authAllowed true) ;;;
  CommonPrepareEpilogue)).

Definition Tss2_Sys_ZGen_2Phase_Prepare (keyA : Z)
    (inQsB : option (TPM2B_SUB TPMS_ECC_POINT)) (inQeB : option (TPM2B_SUB TPMS_ECC_POINT))
    (inScheme : Z) (counter : Z) : sysF S :=
  check_ctx (
  CommonPreparePrologue TPM2_CC_ZGen_2Phase ;;;
  ctx_marshal (Tss2_MU_UINT32_Marshal keyA) ;;;
  null_or inQsB
    (ctx_set (set_decryptNull true) ;;; ctx_marshal (Tss2_MU_UINT16_Marshal 0))
    (ctx_marshal (Tss2_MU_TPM2B_ECC_POINT_Marshal inQsB)) ;;;
  null_or inQeB
    (ctx_marshal (Tss2_MU_UINT16_Marshal 0))
    (ctx_marshal (Tss2_MU_TPM2B_ECC_POINT_Marshal inQeB)) ;;;
  ctx_marshal (Tss2_MU_UINT16_Marshal inScheme) ;;;
  ctx_marshal (Tss2_MU_UINT16_Marshal counter) ;;;
  ctx_set (set_decryptAllowed true) ;;;
  ctx_set (set_encryptAllowed true) ;;;
  ctx_set (set_authAllowed true) ;;;
  CommonPrepareEpilogue).

End Prepare.
