(* ===== verification/SysCompletes.v ===== *)
(** * The [Complete] functions of the System API commands.

    [src/tss2-sys/api]: every [Tss2_Sys_X_Complete], statement by statement;
    their arguments are what the output parameters point to. *)

From S2P Require Import Prelude Common MuSpec MuBase MuStruct MuTpm2b MuUnion MuPcr TpmTypes MuTypes SysCodes Sys.
Open Scope tss_scope.

Section Complete.
Context {H : Host} {S : Type}.
Definition Tss2_Sys_ACT_SetTimeout_Complete : out_prog (S:=S) _ :=
  out_check_ctx (
  out_call CommonComplete (
  out_end)).

Definition Tss2_Sys_AC_GetCapability_Complete (moreData : option Z)
    (capabilityData : option (TPML TPMS_AC_OUTPUT)) : out_prog (S:=S) _ :=
  out_check_ctx (
  out_call CommonComplete (
  moreData <~ Tss2_MU_UINT8_Unmarshal ;;
  capabilityData <~ Tss2_MU_TPML_AC_CAPABILITIES_Unmarshal ;;
  out_end)).

Definition Tss2_Sys_AC_Send_Complete (acDataOut : option TPMS_AC_OUTPUT) : out_prog (S:=S) _ :=
  out_check_ctx (
  out_call CommonComplete (
  acDataOut <~ Tss2_MU_TPMS_AC_OUTPUT_Unmarshal ;;
  out_end)).

Definition Tss2_Sys_ActivateCredential_Complete (certInfo : option TPM2B) : out_prog (S:=S) _ :=
  out_check_ctx (
  out_call CommonComplete (
  certInfo <~ Tss2_MU_TPM2B_DIGEST_Unmarshal ;;
  out_end)).

Definition Tss2_Sys_Certify_Complete (certifyInfo : option TPM2B)
    (signature : option TPMT_SIGNATURE) : out_prog (S:=S) _ :=
  out_check_ctx (
  out_call CommonComplete (
  certifyInfo <~ Tss2_MU_TPM2B_ATTEST_Unmarshal ;;
  signature <~ Tss2_MU_TPMT_SIGNATURE_Unmarshal ;;
  out_end)).

Definition Tss2_Sys_CertifyCreation_Complete (certifyInfo : option TPM2B)
    (signature : option TPMT_SIGNATURE) : out_prog (S:=S) _ :=
  out_check_ctx (
  out_call CommonComplete (
  certifyInfo <~ Tss2_MU_TPM2B_ATTEST_Unmarshal ;;
  signature <~ Tss2_MU_TPMT_SIGNATURE_Unmarshal ;;
  out_end)).

Definition Tss2_Sys_CertifyX509_Complete (addedToCertificate : option TPM2B)
    (tbsDigest : option TPM2B) (signature : option TPMT_SIGNATURE) : out_prog (S:=S) _ :=
  out_check_ctx (
  out_call CommonComplete (
  addedToCertificate <~ Tss2_MU_TPM2B_MAX_BUFFER_Unmarshal ;;
  tbsDigest <~ Tss2_MU_TPM2B_DIGEST_Unmarshal ;;
  signature <~ Tss2_MU_TPMT_SIGNATURE_Unmarshal ;;
  out_end)).

Definition Tss2_Sys_ChangeEPS_Complete : out_prog (S:=S) _ :=
  out_check_ctx (
  out_call CommonComplete (
  out_end)).

Definition Tss2_Sys_ChangePPS_Complete : out_prog (S:=S) _ :=
  out_check_ctx (
  out_call CommonComplete (
  out_end)).

Definition Tss2_Sys_Clear_Complete : out_prog (S:=S) _ :=
  out_check_ctx (
  out_call CommonComplete (
  out_end)).

Definition Tss2_Sys_ClearControl_Complete : out_prog (S:=S) _ :=
  out_check_ctx (
  out_call CommonComplete (
  out_end)).

Definition Tss2_Sys_ClockRateAdjust_Complete : out_prog (S:=S) _ :=
  out_check_ctx (
  out_call CommonComplete (
  out_end)).

Definition Tss2_Sys_ClockSet_Complete : out_prog (S:=S) _ :=
  out_check_ctx (
  out_call CommonComplete (
  out_end)).

Definition Tss2_Sys_Commit_Complete (K : option (TPM2B_SUB TPMS_ECC_POINT))
    (L : option (TPM2B_SUB TPMS_ECC_POINT)) (E : option (TPM2B_SUB TPMS_ECC_POINT))
    (counter : option Z) : out_prog (S:=S) _ :=
  out_check_ctx (
  out_call CommonComplete (
  K <~ Tss2_MU_TPM2B_ECC_POINT_Unmarshal ;;
  L <~ Tss2_MU_TPM2B_ECC_POINT_Unmarshal ;;
  E <~ Tss2_MU_TPM2B_ECC_POINT_Unmarshal ;;
  counter <~ Tss2_MU_UINT16_Unmarshal ;;
  out_end)).

Definition Tss2_Sys_ContextLoad_Complete (loadedHandle : option Z) : out_prog (S:=S) _ :=
  out_check_ctx (
  loadedHandle <~ Tss2_MU_UINT32_Unmarshal ;;
  out_call CommonComplete (
  out_end)).

Definition Tss2_Sys_ContextSave_Complete (context : option TPMS_CONTEXT) : out_prog (S:=S) _ :=
  out_check_ctx (
  out_call CommonComplete (
  context <~ Tss2_MU_TPMS_CONTEXT_Unmarshal ;;
  out_end)).

Definition Tss2_Sys_Create_Complete (outPrivate : option TPM2B)
    (outPublic : option (TPM2B_SUB TPMT_PUBLIC))
    (creationData : option (TPM2B_SUB TPMS_CREATION_DATA)) (creationHash : option TPM2B)
    (creationTicket : option TPMT_TK_CREATION) : out_prog (S:=S) _ :=
  out_check_ctx (
  out_call CommonComplete (
  outPrivate <~ Tss2_MU_TPM2B_PRIVATE_Unmarshal ;;
  outPublic <~ Tss2_MU_TPM2B_PUBLIC_Unmarshal ;;
  creationData <~ Tss2_MU_TPM2B_CREATION_DATA_Unmarshal ;;
  creationHash <~ Tss2_MU_TPM2B_DIGEST_Unmarshal ;;
  creationTicket <~ Tss2_MU_TPMT_TK_CREATION_Unmarshal ;;
  out_end)).

Definition Tss2_Sys_CreateLoaded_Complete (objectHandle : option Z)
    (outPrivate : option TPM2B) (outPublic : option (TPM2B_SUB TPMT_PUBLIC))
    (name : option TPM2B) : out_prog (S:=S) _ :=
  out_check_ctx (
  objectHandle <~ Tss2_MU_UINT32_Unmarshal ;;
  out_call CommonComplete (
  outPrivate <~ Tss2_MU_TPM2B_PRIVATE_Unmarshal ;;
  outPublic <~ Tss2_MU_TPM2B_PUBLIC_Unmarshal ;;
  name <~ Tss2_MU_TPM2B_NAME_Unmarshal ;;
  out_end)).

Definition Tss2_Sys_CreatePrimary_Complete (objectHandle : option Z)
    (outPublic : option (TPM2B_SUB TPMT_PUBLIC))
    (creationData : option (TPM2B_SUB TPMS_CREATION_DATA)) (creationHash : option TPM2B)
    (creationTicket : option TPMT_TK_CREATION) (name : option TPM2B) : out_prog (S:=S) _ :=
  out_check_ctx (
  objectHandle <~ Tss2_MU_UINT32_Unmarshal ;;
  out_call CommonComplete (
  outPublic <~ Tss2_MU_TPM2B_PUBLIC_Unmarshal ;;
  creationData <~ Tss2_MU_TPM2B_CREATION_DATA_Unmarshal ;;
  creationHash <~ Tss2_MU_TPM2B_DIGEST_Unmarshal ;;
  creationTicket <~ Tss2_MU_TPMT_TK_CREATION_Unmarshal ;;
  name <~ Tss2_MU_TPM2B_NAME_Unmarshal ;;
  out_end)).

Definition Tss2_Sys_Decapsulate_Complete (outSymSeed : option TPM2B) : out_prog (S:=S) _ :=
  out_check_ctx (
  out_call CommonComplete (
  outSymSeed <~ Tss2_MU_TPM2B_DATA_Unmarshal ;;
  out_end)).

Definition Tss2_Sys_DictionaryAttackLockReset_Complete : out_prog (S:=S) _ :=
  out_check_ctx (
  out_call CommonComplete (
  out_end)).

Definition Tss2_Sys_DictionaryAttackParameters_Complete : out_prog (S:=S) _ :=
  out_check_ctx (
  out_call CommonComplete (
  out_end)).

Definition Tss2_Sys_Duplicate_Complete (encryptionKeyOut : option TPM2B)
    (duplicate : option TPM2B) (outSymSeed : option TPM2B) : out_prog (S:=S) _ :=
  out_check_ctx (
  out_call CommonComplete (
  encryptionKeyOut <~ Tss2_MU_TPM2B_DATA_Unmarshal ;;
  duplicate <~ Tss2_MU_TPM2B_PRIVATE_Unmarshal ;;
  outSymSeed <~ Tss2_MU_TPM2B_ENCRYPTED_SECRET_Unmarshal ;;
  out_end)).

Definition Tss2_Sys_ECC_Decrypt_Complete (plaintText : option TPM2B) : out_prog (S:=S) _ :=
  out_check_ctx (
  out_call CommonComplete (
  plaintText <~ Tss2_MU_TPM2B_MAX_BUFFER_Unmarshal ;;
  out_end)).

Definition Tss2_Sys_ECC_Encrypt_Complete (c1 : option (TPM2B_SUB TPMS_ECC_POINT))
    (c2 : option TPM2B) (c3 : option TPM2B) : out_prog (S:=S) _ :=
  out_check_ctx (
  out_call CommonComplete (
  c1 <~ Tss2_MU_TPM2B_ECC_POINT_Unmarshal ;;
  c2 <~ Tss2_MU_TPM2B_MAX_BUFFER_Unmarshal ;;
  c3 <~ Tss2_MU_TPM2B_DIGEST_Unmarshal ;;
  out_end)).

Definition Tss2_Sys_ECC_Parameters_Complete (parameters : option TPMS_ALGORITHM_DETAIL_ECC)
    : out_prog (S:=S) _ :=
  out_check_ctx (
  out_call CommonComplete (
  parameters <~ Tss2_MU_TPMS_ALGORITHM_DETAIL_ECC_Unmarshal ;;
  out_end)).

Definition Tss2_Sys_ECDH_KeyGen_Complete (zPoint : option (TPM2B_SUB TPMS_ECC_POINT))
    (pubPoint : option (TPM2B_SUB TPMS_ECC_POINT)) : out_prog (S:=S) _ :=
  out_check_ctx (
  out_call CommonComplete (
  zPoint <~ Tss2_MU_TPM2B_ECC_POINT_Unmarshal ;;
  pubPoint <~ Tss2_MU_TPM2B_ECC_POINT_Unmarshal ;;
  out_end)).

Definition Tss2_Sys_ECDH_ZGen_Complete (outPoint : option (TPM2B_SUB TPMS_ECC_POINT))
    : out_prog (S:=S) _ :=
  out_check_ctx (
  out_call CommonComplete (
  outPoint <~ Tss2_MU_TPM2B_ECC_POINT_Unmarshal ;;
  out_end)).

Definition Tss2_Sys_EC_Ephemeral_Complete (Q : option (TPM2B_SUB TPMS_ECC_POINT))
    (counter : option Z) : out_prog (S:=S) _ :=
  out_check_ctx (
  out_call CommonComplete (
  Q <~ Tss2_MU_TPM2B_ECC_POINT_Unmarshal ;;
  counter <~ Tss2_MU_UINT16_Unmarshal ;;
  out_end)).

Definition Tss2_Sys_Encapsulate_Complete (outSymSeed : option TPM2B)
    (cipherText : option TPM2B) : out_prog (S:=S) _ :=
  out_check_ctx (
  out_call CommonComplete (
  outSymSeed <~ Tss2_MU_TPM2B_DATA_Unmarshal ;;
  cipherText <~ Tss2_MU_TPM2B_ENCRYPTED_SECRET_Unmarshal ;;
  out_end)).

Definition Tss2_Sys_EncryptDecrypt_Complete (outData : option TPM2B) (ivOut : option TPM2B)
    : out_prog (S:=S) _ :=
  out_check_ctx (
  out_call CommonComplete (
  outData <~ Tss2_MU_TPM2B_MAX_BUFFER_Unmarshal ;;
  ivOut <~ Tss2_MU_TPM2B_IV_Unmarshal ;;
  out_end)).

Definition Tss2_Sys_EncryptDecrypt2_Complete (outData : option TPM2B) (ivOut : option TPM2B)
    : out_prog (S:=S) _ :=
  out_check_ctx (
  out_call CommonComplete (
  outData <~ Tss2_MU_TPM2B_MAX_BUFFER_Unmarshal ;;
  ivOut <~ Tss2_MU_TPM2B_IV_Unmarshal ;;
  out_end)).

Definition Tss2_Sys_EventSequenceComplete_Complete (results : option (TPML TPMT_HA))
    : out_prog (S:=S) _ :=
  out_check_ctx (
  out_call CommonComplete (
  results <~ Tss2_MU_TPML_DIGEST_VALUES_Unmarshal ;;
  out_end)).

Definition Tss2_Sys_EvictControl_Complete : out_prog (S:=S) _ :=
  out_check_ctx (
  out_call CommonComplete (
  out_end)).

Definition Tss2_Sys_FieldUpgradeData_Complete (nextDigest : option TPMT_HA)
    (firstDigest : option TPMT_HA) : out_prog (S:=S) _ :=
  out_check_ctx (
  out_call CommonComplete (
  nextDigest <~ Tss2_MU_TPMT_HA_Unmarshal ;;
  firstDigest <~ Tss2_MU_TPMT_HA_Unmarshal ;;
  out_end)).

Definition Tss2_Sys_FieldUpgradeStart_Complete : out_prog (S:=S) _ :=
  out_check_ctx (
  out_call CommonComplete (
  out_end)).

Definition Tss2_Sys_FirmwareRead_Complete (fuData : option TPM2B) : out_prog (S:=S) _ :=
  out_check_ctx (
  out_call CommonComplete (
  fuData <~ Tss2_MU_TPM2B_MAX_BUFFER_Unmarshal ;;
  out_end)).

Definition Tss2_Sys_FlushContext_Complete : out_prog (S:=S) _ :=
  out_check_ctx (
  out_call CommonComplete (
  out_end)).

(** The part of [Tss2_Sys_GetCapability_Complete] after [moreData]: the
    capability is read ahead; the data of a vendor capability is the rest of
    the response. *)
Definition GetCapability_data (capabilityData : option TPMS_CAPABILITY_DATA) :
    out_prog (S:=S) (option TPMS_CAPABILITY_DATA * unit) :=
  OutProg (capabilityData, tt) (fun ctx => deref ctx (fun c =>
    let* (rval, (next_data_vendor, cap)) :=
      Tss2_MU_UINT32_Unmarshal (Some (cmdBuffer c)) (maxCmdSize c) (Some (nextData c)) (Some 0) in
    if negb (rval =? TSS2_RC_SUCCESS) then Ret (rval, (ctx, (capabilityData, tt)))
    else
    let cap := default 0 cap in
    if negb (cap =? TPM2_CAP_VENDOR_PROPERTY) then
      let* (rval, (ctx, capabilityData)) :=
        ctx_unmarshal Tss2_MU_TPMS_CAPABILITY_DATA_Unmarshal ctx capabilityData in
      Ret (rval, (ctx, (capabilityData, tt)))
    else
    let c := set_nextData (default 0 next_data_vendor) c in
    let left := wrap64 (responseSize (rsp_header c) - nextData c) in
    if cap_TPM2B_MAX_CAP_BUFFER <? left
    then Ret (TSS2_MU_RC_BAD_SIZE, (Some c, (capabilityData, tt)))
    else
    let* capabilityData :=
      (match capabilityData with
       | None => Ret None
       | Some d =>
           let v := default (zero_2b cap_TPM2B_MAX_CAP_BUFFER)
                      (uget TPMU_CAPABILITIES'TPM2B_MAX_CAP_BUFFER (TPMS_CAPABILITY_DATA_data d)) in
           let* w := access (mem_read (cmdBuffer c) (nextData c) left) in
           let* arr := access (mem_write (buffer v) 0 w) in
           Ret (Some (Mk_TPMS_CAPABILITY_DATA cap
             (uset TPMU_CAPABILITIES'TPM2B_MAX_CAP_BUFFER (MkTPM2B left arr)
                (TPMS_CAPABILITY_DATA_data d))))
       end) in
    Ret (TSS2_RC_SUCCESS, (Some (set_nextData (nextData c + left) c), (capabilityData, tt))))).

Definition Tss2_Sys_GetCapability_Complete (moreData : option Z)
    (capabilityData : option TPMS_CAPABILITY_DATA) : out_prog (S:=S) _ :=
  out_check_ctx (
  out_call CommonComplete (
  moreData <~ Tss2_MU_UINT8_Unmarshal ;;
  GetCapability_data capabilityData)).

Definition Tss2_Sys_GetCommandAuditDigest_Complete (auditInfo : option TPM2B)
    (signature : option TPMT_SIGNATURE) : out_prog (S:=S) _ :=
  out_check_ctx (
  out_call CommonComplete (
  auditInfo <~ Tss2_MU_TPM2B_ATTEST_Unmarshal ;;
  signature <~ Tss2_MU_TPMT_SIGNATURE_Unmarshal ;;
  out_end)).

Definition Tss2_Sys_GetRandom_Complete (randomBytes : option TPM2B) : out_prog (S:=S) _ :=
  out_check_ctx (
  out_call CommonComplete (
  randomBytes <~ Tss2_MU_TPM2B_DIGEST_Unmarshal ;;
  out_end)).

Definition Tss2_Sys_GetSessionAuditDigest_Complete (auditInfo : option TPM2B)
    (signature : option TPMT_SIGNATURE) : out_prog (S:=S) _ :=
  out_check_ctx (
  out_call CommonComplete (
  auditInfo <~ Tss2_MU_TPM2B_ATTEST_Unmarshal ;;
  signature <~ Tss2_MU_TPMT_SIGNATURE_Unmarshal ;;
  out_end)).

Definition Tss2_Sys_GetTestResult_Complete (outData : option TPM2B) (testResult : option Z)
    : out_prog (S:=S) _ :=
  out_check_ctx (
  out_call CommonComplete (
  outData <~ Tss2_MU_TPM2B_MAX_BUFFER_Unmarshal ;;
  testResult <~ Tss2_MU_UINT32_Unmarshal ;;
  out_end)).

Definition Tss2_Sys_GetTime_Complete (timeInfo : option TPM2B)
    (signature : option TPMT_SIGNATURE) : out_prog (S:=S) _ :=
  out_check_ctx (
  out_call CommonComplete (
  timeInfo <~ Tss2_MU_TPM2B_ATTEST_Unmarshal ;;
  signature <~ Tss2_MU_TPMT_SIGNATURE_Unmarshal ;;
  out_end)).

Definition Tss2_Sys_HMAC_Complete (outHMAC : option TPM2B) : out_prog (S:=S) _ :=
  out_check_ctx (
  out_call CommonComplete (
  outHMAC <~ Tss2_MU_TPM2B_DIGEST_Unmarshal ;;
  out_end)).

Definition Tss2_Sys_HMAC_Start_Complete (sequenceHandle : option Z) : out_prog (S:=S) _ :=
  out_check_ctx (
  sequenceHandle <~ Tss2_MU_UINT32_Unmarshal ;;
  out_call CommonComplete (
  out_end)).

Definition Tss2_Sys_Hash_Complete (outHash : option TPM2B)
    (validation : option TPMT_TK_HASHCHECK) : out_prog (S:=S) _ :=
  out_check_ctx (
  out_call CommonComplete (
  outHash <~ Tss2_MU_TPM2B_DIGEST_Unmarshal ;;
  validation <~ Tss2_MU_TPMT_TK_HASHCHECK_Unmarshal ;;
  out_end)).

Definition Tss2_Sys_HashSequenceStart_Complete (sequenceHandle : option Z)
    : out_prog (S:=S) _ :=
  out_check_ctx (
  sequenceHandle <~ Tss2_MU_UINT32_Unmarshal ;;
  out_call CommonComplete (
  out_end)).

Definition Tss2_Sys_HierarchyChangeAuth_Complete : out_prog (S:=S) _ :=
  out_check_ctx (
  out_call CommonComplete (
  out_end)).

Definition Tss2_Sys_HierarchyControl_Complete : out_prog (S:=S) _ :=
  out_check_ctx (
  out_call CommonComplete (
  out_end)).

Definition Tss2_Sys_Import_Complete (outPrivate : option TPM2B) : out_prog (S:=S) _ :=
  out_check_ctx (
  out_call CommonComplete (
  outPrivate <~ Tss2_MU_TPM2B_PRIVATE_Unmarshal ;;
  out_end)).

Definition Tss2_Sys_IncrementalSelfTest_Complete (toDoList : option (TPML Z))
    : out_prog (S:=S) _ :=
  out_check_ctx (
  out_call CommonComplete (
  toDoList <~ Tss2_MU_TPML_ALG_Unmarshal ;;
  out_end)).

Definition Tss2_Sys_Load_Complete (objectHandle : option Z) (name : option TPM2B)
    : out_prog (S:=S) _ :=
  out_check_ctx (
  objectHandle <~ Tss2_MU_UINT32_Unmarshal ;;
  out_call CommonComplete (
  name <~ Tss2_MU_TPM2B_NAME_Unmarshal ;;
  out_end)).

Definition Tss2_Sys_LoadExternal_Complete (objectHandle : option Z) (name : option TPM2B)
    : out_prog (S:=S) _ :=
  out_check_ctx (
  objectHandle <~ Tss2_MU_UINT32_Unmarshal ;;
  out_call CommonComplete (
  name <~ Tss2_MU_TPM2B_NAME_Unmarshal ;;
  out_end)).

Definition Tss2_Sys_MAC_Complete (outMAC : option TPM2B) : out_prog (S:=S) _ :=
  out_check_ctx (
  out_call CommonComplete (
  outMAC <~ Tss2_MU_TPM2B_DIGEST_Unmarshal ;;
  out_end)).

Definition Tss2_Sys_MAC_Start_Complete (sequenceHandle : option Z) : out_prog (S:=S) _ :=
  out_check_ctx (
  sequenceHandle <~ Tss2_MU_UINT32_Unmarshal ;;
  out_call CommonComplete (
  out_end)).

Definition Tss2_Sys_MakeCredential_Complete (credentialBlob : option TPM2B)
    (secret : option TPM2B) : out_prog (S:=S) _ :=
  out_check_ctx (
  out_call CommonComplete (
  credentialBlob <~ Tss2_MU_TPM2B_ID_OBJECT_Unmarshal ;;
  secret <~ Tss2_MU_TPM2B_ENCRYPTED_SECRET_Unmarshal ;;
  out_end)).

Definition Tss2_Sys_NV_Certify_Complete (certifyInfo : option TPM2B)
    (signature : option TPMT_SIGNATURE) : out_prog (S:=S) _ :=
  out_check_ctx (
  out_call CommonComplete (
  certifyInfo <~ Tss2_MU_TPM2B_ATTEST_Unmarshal ;;
  signature <~ Tss2_MU_TPMT_SIGNATURE_Unmarshal ;;
  out_end)).

Definition Tss2_Sys_NV_ChangeAuth_Complete : out_prog (S:=S) _ :=
  out_check_ctx (
  out_call CommonComplete (
  out_end)).

Definition Tss2_Sys_NV_DefineSpace_Complete : out_prog (S:=S) _ :=
  out_check_ctx (
  out_call CommonComplete (
  out_end)).

Definition Tss2_Sys_NV_Extend_Complete : out_prog (S:=S) _ :=
  out_check_ctx (
  out_call CommonComplete (
  out_end)).

Definition Tss2_Sys_NV_GlobalWriteLock_Complete : out_prog (S:=S) _ :=
  out_check_ctx (
  out_call CommonComplete (
  out_end)).

Definition Tss2_Sys_NV_Increment_Complete : out_prog (S:=S) _ :=
  out_check_ctx (
  out_call CommonComplete (
  out_end)).

Definition Tss2_Sys_NV_Read_Complete (data : option TPM2B) : out_prog (S:=S) _ :=
  out_check_ctx (
  out_call CommonComplete (
  data <~ Tss2_MU_TPM2B_MAX_NV_BUFFER_Unmarshal ;;
  out_end)).

Definition Tss2_Sys_NV_ReadLock_Complete : out_prog (S:=S) _ :=
  out_check_ctx (
  out_call CommonComplete (
  out_end)).

Definition Tss2_Sys_NV_ReadPublic_Complete (nvPublic : option (TPM2B_SUB TPMS_NV_PUBLIC))
    (nvName : option TPM2B) : out_prog (S:=S) _ :=
  out_check_ctx (
  out_call CommonComplete (
  nvPublic <~ Tss2_MU_TPM2B_NV_PUBLIC_Unmarshal ;;
  nvName <~ Tss2_MU_TPM2B_NAME_Unmarshal ;;
  out_end)).

Definition Tss2_Sys_NV_SetBits_Complete : out_prog (S:=S) _ :=
  out_check_ctx (
  out_call CommonComplete (
  out_end)).

Definition Tss2_Sys_NV_UndefineSpace_Complete : out_prog (S:=S) _ :=
  out_check_ctx (
  out_call CommonComplete (
  out_end)).

Definition Tss2_Sys_NV_UndefineSpaceSpecial_Complete : out_prog (S:=S) _ :=
  out_check_ctx (
  out_call CommonComplete (
  out_end)).

Definition Tss2_Sys_NV_Write_Complete : out_prog (S:=S) _ :=
  out_check_ctx (
  out_call CommonComplete (
  out_end)).

Definition Tss2_Sys_NV_WriteLock_Complete : out_prog (S:=S) _ :=
  out_check_ctx (
  out_call CommonComplete (
  out_end)).

Definition Tss2_Sys_ObjectChangeAuth_Complete (outPrivate : option TPM2B) : out_prog (S:=S) _ :=
  out_check_ctx (
  out_call CommonComplete (
  outPrivate <~ Tss2_MU_TPM2B_PRIVATE_Unmarshal ;;
  out_end)).

Definition Tss2_Sys_PCR_Allocate_Complete (allocationSuccess : option Z) (maxPCR : option Z)
    (sizeNeeded : option Z) (sizeAvailable : option Z) : out_prog (S:=S) _ :=
  out_check_ctx (
  out_call CommonComplete (
  allocationSuccess <~ Tss2_MU_UINT8_Unmarshal ;;
  maxPCR <~ Tss2_MU_UINT32_Unmarshal ;;
  sizeNeeded <~ Tss2_MU_UINT32_Unmarshal ;;
  sizeAvailable <~ Tss2_MU_UINT32_Unmarshal ;;
  out_end)).

Definition Tss2_Sys_PCR_Event_Complete (digests : option (TPML TPMT_HA)) : out_prog (S:=S) _ :=
  out_check_ctx (
  out_call CommonComplete (
  digests <~ Tss2_MU_TPML_DIGEST_VALUES_Unmarshal ;;
  out_end)).

Definition Tss2_Sys_PCR_Extend_Complete : out_prog (S:=S) _ :=
  out_check_ctx (
  out_call CommonComplete (
  out_end)).

Definition Tss2_Sys_PCR_Read_Complete (pcrUpdateCounter : option Z)
    (pcrSelectionOut : option (TPML TPMS_PCR_SELECTION)) (pcrValues : option (TPML TPM2B))
    : out_prog (S:=S) _ :=
  out_check_ctx (
  out_call CommonComplete (
  pcrUpdateCounter <~ Tss2_MU_UINT32_Unmarshal ;;
  pcrSelectionOut <~ Tss2_MU_TPML_PCR_SELECTION_Unmarshal ;;
  pcrValues <~ Tss2_MU_TPML_DIGEST_Unmarshal ;;
  out_end)).

Definition Tss2_Sys_PCR_Reset_Complete : out_prog (S:=S) _ :=
  out_check_ctx (
  out_call CommonComplete (
  out_end)).

Definition Tss2_Sys_PCR_SetAuthPolicy_Complete : out_prog (S:=S) _ :=
  out_check_ctx (
  out_call CommonComplete (
  out_end)).

Definition Tss2_Sys_PCR_SetAuthValue_Complete : out_prog (S:=S) _ :=
  out_check_ctx (
  out_call CommonComplete (
  out_end)).

Definition Tss2_Sys_PP_Commands_Complete : out_prog (S:=S) _ :=
  out_check_ctx (
  out_call CommonComplete (
  out_end)).

Definition Tss2_Sys_PolicyAuthValue_Complete : out_prog (S:=S) _ :=
  out_check_ctx (
  out_call CommonComplete (
  out_end)).

Definition Tss2_Sys_PolicyAuthorize_Complete : out_prog (S:=S) _ :=
  out_check_ctx (
  out_call CommonComplete (
  out_end)).

Definition Tss2_Sys_PolicyAuthorizeNV_Complete : out_prog (S:=S) _ :=
  out_check_ctx (
  out_call CommonComplete (
  out_end)).

Definition Tss2_Sys_PolicyCommandCode_Complete : out_prog (S:=S) _ :=
  out_check_ctx (
  out_call CommonComplete (
  out_end)).

Definition Tss2_Sys_PolicyCounterTimer_Complete : out_prog (S:=S) _ :=
  out_check_ctx (
  out_call CommonComplete (
  out_end)).

Definition Tss2_Sys_PolicyCpHash_Complete : out_prog (S:=S) _ :=
  out_check_ctx (
  out_call CommonComplete (
  out_end)).

Definition Tss2_Sys_PolicyDuplicationSelect_Complete : out_prog (S:=S) _ :=
  out_check_ctx (
  out_call CommonComplete (
  out_end)).

Definition Tss2_Sys_PolicyGetDigest_Complete (policyDigest : option TPM2B)
    : out_prog (S:=S) _ :=
  out_check_ctx (
  out_call CommonComplete (
  policyDigest <~ Tss2_MU_TPM2B_DIGEST_Unmarshal ;;
  out_end)).

Definition Tss2_Sys_PolicyLocality_Complete : out_prog (S:=S) _ :=
  out_check_ctx (
  out_call CommonComplete (
  out_end)).

Definition Tss2_Sys_PolicyNV_Complete : out_prog (S:=S) _ :=
  out_check_ctx (
  out_call CommonComplete (
  out_end)).

Definition Tss2_Sys_PolicyNameHash_Complete : out_prog (S:=S) _ :=
  out_check_ctx (
  out_call CommonComplete (
  out_end)).

Definition Tss2_Sys_PolicyNvWritten_Complete : out_prog (S:=S) _ :=
  out_check_ctx (
  out_call CommonComplete (
  out_end)).

Definition Tss2_Sys_PolicyOR_Complete : out_prog (S:=S) _ :=
  out_check_ctx (
  out_call CommonComplete (
  out_end)).

Definition Tss2_Sys_PolicyPCR_Complete : out_prog (S:=S) _ :=
  out_check_ctx (
  out_call CommonComplete (
  out_end)).

Definition Tss2_Sys_PolicyPassword_Complete : out_prog (S:=S) _ :=
  out_check_ctx (
  out_call CommonComplete (
  out_end)).

Definition Tss2_Sys_PolicyPhysicalPresence_Complete : out_prog (S:=S) _ :=
  out_check_ctx (
  out_call CommonComplete (
  out_end)).

Definition Tss2_Sys_PolicyRestart_Complete : out_prog (S:=S) _ :=
  out_check_ctx (
  out_call CommonComplete (
  out_end)).

Definition Tss2_Sys_PolicySecret_Complete (timeout : option TPM2B)
    (policyTicket : option TPMT_TK_AUTH) : out_prog (S:=S) _ :=
  out_check_ctx (
  out_call CommonComplete (
  timeout <~ Tss2_MU_TPM2B_TIMEOUT_Unmarshal ;;
  policyTicket <~ Tss2_MU_TPMT_TK_AUTH_Unmarshal ;;
  out_end)).

Definition Tss2_Sys_PolicySigned_Complete (timeout : option TPM2B)
    (policyTicket : option TPMT_TK_AUTH) : out_prog (S:=S) _ :=
  out_check_ctx (
  out_call CommonComplete (
  timeout <~ Tss2_MU_TPM2B_TIMEOUT_Unmarshal ;;
  policyTicket <~ Tss2_MU_TPMT_TK_AUTH_Unmarshal ;;
  out_end)).

Definition Tss2_Sys_PolicyTemplate_Complete : out_prog (S:=S) _ :=
  out_check_ctx (
  out_call CommonComplete (
  out_end)).

Definition Tss2_Sys_PolicyTicket_Complete : out_prog (S:=S) _ :=
  out_check_ctx (
  out_call CommonComplete (
  out_end)).

Definition Tss2_Sys_Policy_AC_SendSelect_Complete : out_prog (S:=S) _ :=
  out_check_ctx (
  out_call CommonComplete (
  out_end)).

Definition Tss2_Sys_Quote_Complete (quoted : option TPM2B)
    (signature : option TPMT_SIGNATURE) : out_prog (S:=S) _ :=
  out_check_ctx (
  out_call CommonComplete (
  quoted <~ Tss2_MU_TPM2B_ATTEST_Unmarshal ;;
  signature <~ Tss2_MU_TPMT_SIGNATURE_Unmarshal ;;
  out_end)).

Definition Tss2_Sys_RSA_Decrypt_Complete (message : option TPM2B) : out_prog (S:=S) _ :=
  out_check_ctx (
  out_call CommonComplete (
  message <~ Tss2_MU_TPM2B_PUBLIC_KEY_RSA_Unmarshal ;;
  out_end)).

Definition Tss2_Sys_RSA_Encrypt_Complete (outData : option TPM2B) : out_prog (S:=S) _ :=
  out_check_ctx (
  out_call CommonComplete (
  outData <~ Tss2_MU_TPM2B_PUBLIC_KEY_RSA_Unmarshal ;;
  out_end)).

Definition Tss2_Sys_ReadClock_Complete (currentTime : option TPMS_TIME_INFO)
    : out_prog (S:=S) _ :=
  out_check_ctx (
  out_call CommonComplete (
  currentTime <~ Tss2_MU_TPMS_TIME_INFO_Unmarshal ;;
  out_end)).

Definition Tss2_Sys_ReadPublic_Complete (outPublic : option (TPM2B_SUB TPMT_PUBLIC))
    (name : option TPM2B) (qualifiedName : option TPM2B) : out_prog (S:=S) _ :=
  out_check_ctx (
  out_call CommonComplete (
  outPublic <~ Tss2_MU_TPM2B_PUBLIC_Unmarshal ;;
  name <~ Tss2_MU_TPM2B_NAME_Unmarshal ;;
  qualifiedName <~ Tss2_MU_TPM2B_NAME_Unmarshal ;;
  out_end)).

Definition Tss2_Sys_Rewrap_Complete (outDuplicate : option TPM2B)
    (outSymSeed : option TPM2B) : out_prog (S:=S) _ :=
  out_check_ctx (
  out_call CommonComplete (
  outDuplicate <~ Tss2_MU_TPM2B_PRIVATE_Unmarshal ;;
  outSymSeed <~ Tss2_MU_TPM2B_ENCRYPTED_SECRET_Unmarshal ;;
  out_end)).

Definition Tss2_Sys_SelfTest_Complete : out_prog (S:=S) _ :=
  out_check_ctx (
  out_call CommonComplete (
  out_end)).

Definition Tss2_Sys_SequenceComplete_Complete (result : option TPM2B)
    (validation : option TPMT_TK_HASHCHECK) : out_prog (S:=S) _ :=
  out_check_ctx (
  out_call CommonComplete (
  result <~ Tss2_MU_TPM2B_DIGEST_Unmarshal ;;
  validation <~ Tss2_MU_TPMT_TK_HASHCHECK_Unmarshal ;;
  out_end)).

Definition Tss2_Sys_SequenceUpdate_Complete : out_prog (S:=S) _ :=
  out_check_ctx (
  out_call CommonComplete (
  out_end)).

Definition Tss2_Sys_SetAlgorithmSet_Complete : out_prog (S:=S) _ :=
  out_check_ctx (
  out_call CommonComplete (
  out_end)).

Definition Tss2_Sys_SetCommandCodeAuditStatus_Complete : out_prog (S:=S) _ :=
  out_check_ctx (
  out_call CommonComplete (
  out_end)).

Definition Tss2_Sys_SetPrimaryPolicy_Complete : out_prog (S:=S) _ :=
  out_check_ctx (
  out_call CommonComplete (
  out_end)).

Definition Tss2_Sys_Shutdown_Complete : out_prog (S:=S) _ :=
  out_check_ctx (
  out_call CommonComplete (
  out_end)).

Definition Tss2_Sys_Sign_Complete (signature : option TPMT_SIGNATURE) : out_prog (S:=S) _ :=
  out_check_ctx (
  out_call CommonComplete (
  signature <~ Tss2_MU_TPMT_SIGNATURE_Unmarshal ;;
  out_end)).

Definition Tss2_Sys_SignDigest_Complete (signature : option TPMT_SIGNATURE)
    : out_prog (S:=S) _ :=
  out_check_ctx (
  out_call CommonComplete (
  signature <~ Tss2_MU_TPMT_SIGNATURE_Unmarshal ;;
  out_end)).

Definition Tss2_Sys_SignSequenceComplete_Complete (signature : option TPMT_SIGNATURE)
    : out_prog (S:=S) _ :=
  out_check_ctx (
  out_call CommonComplete (
  signature <~ Tss2_MU_TPMT_SIGNATURE_Unmarshal ;;
  out_end)).

Definition Tss2_Sys_SignSequenceStart_Complete (sequenceHandle : option Z)
    : out_prog (S:=S) _ :=
  out_check_ctx (
  out_call CommonComplete (
  sequenceHandle <~ Tss2_MU_UINT32_Unmarshal ;;
  out_end)).

Definition Tss2_Sys_StartAuthSession_Complete (sessionHandle : option Z)
    (nonceTPM : option TPM2B) : out_prog (S:=S) _ :=
  out_check_ctx (
  sessionHandle <~ Tss2_MU_UINT32_Unmarshal ;;
  out_call CommonComplete (
  nonceTPM <~ Tss2_MU_TPM2B_NONCE_Unmarshal ;;
  out_end)).

Definition Tss2_Sys_Startup_Complete : out_prog (S:=S) _ :=
  out_check_ctx (
  out_call CommonComplete (
  out_end)).

Definition Tss2_Sys_StirRandom_Complete : out_prog (S:=S) _ :=
  out_check_ctx (
  out_call CommonComplete (
  out_end)).

Definition Tss2_Sys_TestParms_Complete : out_prog (S:=S) _ :=
  out_check_ctx (
  out_call CommonComplete (
  out_end)).

Definition Tss2_Sys_Unseal_Complete (outData : option TPM2B) : out_prog (S:=S) _ :=
  out_check_ctx (
  out_call CommonComplete (
  outData <~ Tss2_MU_TPM2B_SENSITIVE_DATA_Unmarshal ;;
  out_end)).

Definition Tss2_Sys_Vendor_TCG_Test_Complete (outputData : option TPM2B) : out_prog (S:=S) _ :=
  out_check_ctx (
  out_call CommonComplete (
  outputData <~ Tss2_MU_TPM2B_DATA_Unmarshal ;;
  out_end)).

Definition Tss2_Sys_VerifyDigestSignature_Complete (validation : option TPMT_TK_VERIFIED)
    : out_prog (S:=S) _ :=
  out_check_ctx (
  out_call CommonComplete (
  validation <~ Tss2_MU_TPMT_TK_VERIFIED_Unmarshal ;;
  out_end)).

Definition Tss2_Sys_VerifySequenceComplete_Complete (validation : option TPMT_TK_VERIFIED)
    : out_prog (S:=S) _ :=
  out_check_ctx (
  out_call CommonComplete (
  validation <~ Tss2_MU_TPMT_TK_VERIFIED_Unmarshal ;;
  out_end)).

Definition Tss2_Sys_VerifySequenceStart_Complete (sequenceHandle : option Z)
    : out_prog (S:=S) _ :=
  out_check_ctx (
  out_call CommonComplete (
  sequenceHandle <~ Tss2_MU_UINT32_Unmarshal ;;
  out_end)).

Definition Tss2_Sys_VerifySignature_Complete (validation : option TPMT_TK_VERIFIED)
    : out_prog (S:=S) _ :=
  out_check_ctx (
  out_call CommonComplete (
  validation <~ Tss2_MU_TPMT_TK_VERIFIED_Unmarshal ;;
  out_end)).

Definition Tss2_Sys_ZGen_2Phase_Complete (outZ1 : option (TPM2B_SUB TPMS_ECC_POINT))
    (outZ2 : option (TPM2B_SUB TPMS_ECC_POINT)) : out_prog (S:=S) _ :=
  out_check_ctx (
  out_call CommonComplete (
  outZ1 <~ Tss2_MU_TPM2B_ECC_POINT_Unmarshal ;;
  outZ2 <~ Tss2_MU_TPM2B_ECC_POINT_Unmarshal ;;
  out_end)).

End Complete.
