(* ===== verification/SysOneCalls.v ===== *)
(** * The one-call functions of the System API commands.

    [src/tss2-sys/api]: every [Tss2_Sys_X], which prepares a command, attaches
    sessions, executes it and stores what the response holds. *)

From S2P Require Import Prelude Common MuSpec MuBase MuStruct MuTpm2b MuUnion MuPcr TpmTypes MuTypes SysCodes Sys SysCmds SysCompletes.
Open Scope tss_scope.

Section OneCall.
Context {H : Host} {S : Type}.

Definition Tss2_Sys_ACT_SetTimeout (actHandle : Z)
    (cmdAuthsArray : option TSS2L_SYS_AUTH_COMMAND) (startTimeout : Z)
    (rspAuthsArray : option TSS2L_SYS_AUTH_RESPONSE) : out_prog (S:=S) _ :=
  one_call (Tss2_Sys_ACT_SetTimeout_Prepare actHandle startTimeout) cmdAuthsArray
    rspAuthsArray Tss2_Sys_ACT_SetTimeout_Complete.

Definition Tss2_Sys_AC_GetCapability (ac : Z)
    (cmdAuthsArray : option TSS2L_SYS_AUTH_COMMAND) (capability : Z) (count : Z)
    (moreData : option Z) (capabilityData : option (TPML TPMS_AC_OUTPUT))
    (rspAuthsArray : option TSS2L_SYS_AUTH_RESPONSE) : out_prog (S:=S) _ :=
  one_call (Tss2_Sys_AC_GetCapability_Prepare ac capability count) cmdAuthsArray rspAuthsArray
    (Tss2_Sys_AC_GetCapability_Complete moreData capabilityData).

Definition Tss2_Sys_AC_Send (sendObject : Z) (authHandle : Z) (ac : Z)
    (cmdAuthsArray : option TSS2L_SYS_AUTH_COMMAND) (acDataIn : option TPM2B)
    (acDataOut : option TPMS_AC_OUTPUT) (rspAuthsArray : option TSS2L_SYS_AUTH_RESPONSE)
    : out_prog (S:=S) _ :=
  one_call (Tss2_Sys_AC_Send_Prepare sendObject authHandle ac acDataIn) cmdAuthsArray
    rspAuthsArray (Tss2_Sys_AC_Send_Complete acDataOut).

Definition Tss2_Sys_ActivateCredential (activateHandle : Z) (keyHandle : Z)
    (cmdAuthsArray : option TSS2L_SYS_AUTH_COMMAND) (credentialBlob : option TPM2B)
    (secret : option TPM2B) (certInfo : option TPM2B)
    (rspAuthsArray : option TSS2L_SYS_AUTH_RESPONSE) : out_prog (S:=S) _ :=
  one_call
    (Tss2_Sys_ActivateCredential_Prepare activateHandle keyHandle credentialBlob secret)
    cmdAuthsArray rspAuthsArray (Tss2_Sys_ActivateCredential_Complete certInfo).

Definition Tss2_Sys_Certify (objectHandle : Z) (signHandle : Z)
    (cmdAuthsArray : option TSS2L_SYS_AUTH_COMMAND) (qualifyingData : option TPM2B)
    (inScheme : option TPMT_SIG_SCHEME) (certifyInfo : option TPM2B)
    (signature : option TPMT_SIGNATURE) (rspAuthsArray : option TSS2L_SYS_AUTH_RESPONSE)
    : out_prog (S:=S) _ :=
  out_check inScheme (
  one_call (Tss2_Sys_Certify_Prepare objectHandle signHandle qualifyingData inScheme)
    cmdAuthsArray rspAuthsArray (Tss2_Sys_Certify_Complete certifyInfo signature)).

Definition Tss2_Sys_CertifyCreation (signHandle : Z) (objectHandle : Z)
    (cmdAuthsArray : option TSS2L_SYS_AUTH_COMMAND) (qualifyingData : option TPM2B)
    (creationHash : option TPM2B) (inScheme : option TPMT_SIG_SCHEME)
    (creationTicket : option TPMT_TK_CREATION) (certifyInfo : option TPM2B)
    (signature : option TPMT_SIGNATURE) (rspAuthsArray : option TSS2L_SYS_AUTH_RESPONSE)
    : out_prog (S:=S) _ :=
  out_check inScheme (
  out_check creationTicket (
  one_call
    (Tss2_Sys_CertifyCreation_Prepare signHandle objectHandle qualifyingData creationHash inScheme creationTicket)
    cmdAuthsArray rspAuthsArray (Tss2_Sys_CertifyCreation_Complete certifyInfo signature))).

Definition Tss2_Sys_CertifyX509 (objectHandle : Z) (signHandle : Z)
    (cmdAuthsArray : option TSS2L_SYS_AUTH_COMMAND) (reserved : option TPM2B)
    (inScheme : option TPMT_SIG_SCHEME) (partialCertificate : option TPM2B)
    (addedToCertificate : option TPM2B) (tbsDigest : option TPM2B)
    (signature : option TPMT_SIGNATURE) (rspAuthsArray : option TSS2L_SYS_AUTH_RESPONSE)
    : out_prog (S:=S) _ :=
  one_call
    (Tss2_Sys_CertifyX509_Prepare objectHandle signHandle reserved inScheme partialCertificate)
    cmdAuthsArray rspAuthsArray
    (Tss2_Sys_CertifyX509_Complete addedToCertificate tbsDigest signature).

Definition Tss2_Sys_ChangeEPS (authHandle : Z)
    (cmdAuthsArray : option TSS2L_SYS_AUTH_COMMAND)
    (rspAuthsArray : option TSS2L_SYS_AUTH_RESPONSE) : out_prog (S:=S) _ :=
  one_call (Tss2_Sys_ChangeEPS_Prepare authHandle) cmdAuthsArray rspAuthsArray
    Tss2_Sys_ChangeEPS_Complete.

Definition Tss2_Sys_ChangePPS (authHandle : Z)
    (cmdAuthsArray : option TSS2L_SYS_AUTH_COMMAND)
    (rspAuthsArray : option TSS2L_SYS_AUTH_RESPONSE) : out_prog (S:=S) _ :=
  one_call (Tss2_Sys_ChangePPS_Prepare authHandle) cmdAuthsArray rspAuthsArray
    Tss2_Sys_ChangePPS_Complete.

Definition Tss2_Sys_Clear (authHandle : Z) (cmdAuthsArray : option TSS2L_SYS_AUTH_COMMAND)
    (rspAuthsArray : option TSS2L_SYS_AUTH_RESPONSE) : out_prog (S:=S) _ :=
  one_call (Tss2_Sys_Clear_Prepare authHandle) cmdAuthsArray rspAuthsArray
    Tss2_Sys_Clear_Complete.

Definition Tss2_Sys_ClearControl (auth : Z) (cmdAuthsArray : option TSS2L_SYS_AUTH_COMMAND)
    (disable : Z) (rspAuthsArray : option TSS2L_SYS_AUTH_RESPONSE) : out_prog (S:=S) _ :=
  one_call (Tss2_Sys_ClearControl_Prepare auth disable) cmdAuthsArray rspAuthsArray
    Tss2_Sys_ClearControl_Complete.

Definition Tss2_Sys_ClockRateAdjust (auth : Z)
    (cmdAuthsArray : option TSS2L_SYS_AUTH_COMMAND) (rateAdjust : Z)
    (rspAuthsArray : option TSS2L_SYS_AUTH_RESPONSE) : out_prog (S:=S) _ :=
  one_call (Tss2_Sys_ClockRateAdjust_Prepare auth rateAdjust) cmdAuthsArray rspAuthsArray
    Tss2_Sys_ClockRateAdjust_Complete.

Definition Tss2_Sys_ClockSet (auth : Z) (cmdAuthsArray : option TSS2L_SYS_AUTH_COMMAND)
    (newTime : Z) (rspAuthsArray : option TSS2L_SYS_AUTH_RESPONSE) : out_prog (S:=S) _ :=
  one_call (Tss2_Sys_ClockSet_Prepare auth newTime) cmdAuthsArray rspAuthsArray
    Tss2_Sys_ClockSet_Complete.

Definition Tss2_Sys_Commit (signHandle : Z) (cmdAuthsArray : option TSS2L_SYS_AUTH_COMMAND)
    (P1 : option (TPM2B_SUB TPMS_ECC_POINT)) (s2 : option TPM2B) (y2 : option TPM2B)
    (K : option (TPM2B_SUB TPMS_ECC_POINT)) (L : option (TPM2B_SUB TPMS_ECC_POINT))
    (E : option (TPM2B_SUB TPMS_ECC_POINT)) (counter : option Z)
    (rspAuthsArray : option TSS2L_SYS_AUTH_RESPONSE) : out_prog (S:=S) _ :=
  one_call (Tss2_Sys_Commit_Prepare signHandle P1 s2 y2) cmdAuthsArray rspAuthsArray
    (Tss2_Sys_Commit_Complete K L E counter).

Definition Tss2_Sys_ContextLoad (context : option TPMS_CONTEXT) (loadedHandle : option Z)
    : out_prog (S:=S) _ :=
  out_check context (
  one_call (Tss2_Sys_ContextLoad_Prepare context) None None
    (Tss2_Sys_ContextLoad_Complete loadedHandle)).

Definition Tss2_Sys_ContextSave (saveHandle : Z) (context : option TPMS_CONTEXT)
    : out_prog (S:=S) _ :=
  one_call (Tss2_Sys_ContextSave_Prepare saveHandle) None None
    (Tss2_Sys_ContextSave_Complete context).

Definition Tss2_Sys_Create (parentHandle : Z)
    (cmdAuthsArray : option TSS2L_SYS_AUTH_COMMAND)
    (inSensitive : option (TPM2B_SUB TPMS_SENSITIVE_CREATE))
    (inPublic : option (TPM2B_SUB TPMT_PUBLIC)) (outsideInfo : option TPM2B)
    (creationPCR : option (TPML TPMS_PCR_SELECTION)) (outPrivate : option TPM2B)
    (outPublic : option (TPM2B_SUB TPMT_PUBLIC))
    (creationData : option (TPM2B_SUB TPMS_CREATION_DATA)) (creationHash : option TPM2B)
    (creationTicket : option TPMT_TK_CREATION)
    (rspAuthsArray : option TSS2L_SYS_AUTH_RESPONSE) : out_prog (S:=S) _ :=
  out_check creationPCR (
  one_call (Tss2_Sys_Create_Prepare parentHandle inSensitive inPublic outsideInfo creationPCR)
    cmdAuthsArray rspAuthsArray
    (Tss2_Sys_Create_Complete outPrivate outPublic creationData creationHash creationTicket)).

Definition Tss2_Sys_CreateLoaded (parentHandle : Z)
    (cmdAuthsArray : option TSS2L_SYS_AUTH_COMMAND)
    (inSensitive : option (TPM2B_SUB TPMS_SENSITIVE_CREATE)) (inPublic : option TPM2B)
    (objectHandle : option Z) (outPrivate : option TPM2B)
    (outPublic : option (TPM2B_SUB TPMT_PUBLIC)) (name : option TPM2B)
    (rspAuthsArray : option TSS2L_SYS_AUTH_RESPONSE) : out_prog (S:=S) _ :=
  out_check_ctx (
  out_check objectHandle (
  out_check outPrivate (
  out_check outPublic (
  out_check name (
  one_call (Tss2_Sys_CreateLoaded_Prepare parentHandle inSensitive inPublic) cmdAuthsArray
    rspAuthsArray (Tss2_Sys_CreateLoaded_Complete objectHandle outPrivate outPublic name)))))).

Definition Tss2_Sys_CreatePrimary (primaryHandle : Z)
    (cmdAuthsArray : option TSS2L_SYS_AUTH_COMMAND)
    (inSensitive : option (TPM2B_SUB TPMS_SENSITIVE_CREATE))
    (inPublic : option (TPM2B_SUB TPMT_PUBLIC)) (outsideInfo : option TPM2B)
    (creationPCR : option (TPML TPMS_PCR_SELECTION)) (objectHandle : option Z)
    (outPublic : option (TPM2B_SUB TPMT_PUBLIC))
    (creationData : option (TPM2B_SUB TPMS_CREATION_DATA)) (creationHash : option TPM2B)
    (creationTicket : option TPMT_TK_CREATION) (name : option TPM2B)
    (rspAuthsArray : option TSS2L_SYS_AUTH_RESPONSE) : out_prog (S:=S) _ :=
  out_check_ctx (
  out_check creationPCR (
  one_call
    (Tss2_Sys_CreatePrimary_Prepare primaryHandle inSensitive inPublic outsideInfo creationPCR)
    cmdAuthsArray rspAuthsArray
    (Tss2_Sys_CreatePrimary_Complete objectHandle outPublic creationData creationHash creationTicket name))).

Definition Tss2_Sys_Decapsulate (keyHandle : Z)
    (cmdAuthsArray : option TSS2L_SYS_AUTH_COMMAND) (cipherText : option TPM2B)
    (label : option TPM2B) (outSymSeed : option TPM2B)
    (rspAuthsArray : option TSS2L_SYS_AUTH_RESPONSE) : out_prog (S:=S) _ :=
  one_call (Tss2_Sys_Decapsulate_Prepare keyHandle cipherText label) cmdAuthsArray
    rspAuthsArray (Tss2_Sys_Decapsulate_Complete outSymSeed).

Definition Tss2_Sys_DictionaryAttackLockReset (lockHandle : Z)
    (cmdAuthsArray : option TSS2L_SYS_AUTH_COMMAND)
    (rspAuthsArray : option TSS2L_SYS_AUTH_RESPONSE) : out_prog (S:=S) _ :=
  one_call (Tss2_Sys_DictionaryAttackLockReset_Prepare lockHandle) cmdAuthsArray rspAuthsArray
    Tss2_Sys_DictionaryAttackLockReset_Complete.

Definition Tss2_Sys_DictionaryAttackParameters (lockHandle : Z)
    (cmdAuthsArray : option TSS2L_SYS_AUTH_COMMAND) (newMaxTries : Z) (newRecoveryTime : Z)
    (lockoutRecovery : Z) (rspAuthsArray : option TSS2L_SYS_AUTH_RESPONSE)
    : out_prog (S:=S) _ :=
  one_call
    (Tss2_Sys_DictionaryAttackParameters_Prepare lockHandle newMaxTries newRecoveryTime lockoutRecovery)
    cmdAuthsArray rspAuthsArray Tss2_Sys_DictionaryAttackParameters_Complete.

Definition Tss2_Sys_Duplicate (objectHandle : Z) (newParentHandle : Z)
    (cmdAuthsArray : option TSS2L_SYS_AUTH_COMMAND) (encryptionKeyIn : option TPM2B)
    (symmetricAlg : option TPMT_SYM_DEF_OBJECT) (encryptionKeyOut : option TPM2B)
    (duplicate : option TPM2B) (outSymSeed : option TPM2B)
    (rspAuthsArray : option TSS2L_SYS_AUTH_RESPONSE) : out_prog (S:=S) _ :=
  out_check symmetricAlg (
  one_call
    (Tss2_Sys_Duplicate_Prepare objectHandle newParentHandle encryptionKeyIn symmetricAlg)
    cmdAuthsArray rspAuthsArray
    (Tss2_Sys_Duplicate_Complete encryptionKeyOut duplicate outSymSeed)).

Definition Tss2_Sys_ECC_Decrypt (keyHandle : Z)
    (cmdAuthsArray : option TSS2L_SYS_AUTH_COMMAND) (c1 : option (TPM2B_SUB TPMS_ECC_POINT))
    (c2 : option TPM2B) (c3 : option TPM2B) (inScheme : option TPMT_KDF_SCHEME)
    (plaintText : option TPM2B) (rspAuthsArray : option TSS2L_SYS_AUTH_RESPONSE)
    : out_prog (S:=S) _ :=
  out_check inScheme (
  one_call (Tss2_Sys_ECC_Decrypt_Prepare keyHandle c1 c2 c3 inScheme) cmdAuthsArray
    rspAuthsArray (Tss2_Sys_ECC_Decrypt_Complete plaintText)).

Definition Tss2_Sys_ECC_Encrypt (keyHandle : Z)
    (cmdAuthsArray : option TSS2L_SYS_AUTH_COMMAND) (plainText : option TPM2B)
    (inScheme : option TPMT_KDF_SCHEME) (c1 : option (TPM2B_SUB TPMS_ECC_POINT))
    (c2 : option TPM2B) (c3 : option TPM2B) (rspAuthsArray : option TSS2L_SYS_AUTH_RESPONSE)
    : out_prog (S:=S) _ :=
  out_check inScheme (
  one_call (Tss2_Sys_ECC_Encrypt_Prepare keyHandle plainText inScheme) cmdAuthsArray
    rspAuthsArray (Tss2_Sys_ECC_Encrypt_Complete c1 c2 c3)).

Definition Tss2_Sys_ECC_Parameters (cmdAuthsArray : option TSS2L_SYS_AUTH_COMMAND)
    (curveID : Z) (parameters : option TPMS_ALGORITHM_DETAIL_ECC)
    (rspAuthsArray : option TSS2L_SYS_AUTH_RESPONSE) : out_prog (S:=S) _ :=
  one_call (Tss2_Sys_ECC_Parameters_Prepare curveID) cmdAuthsArray rspAuthsArray
    (Tss2_Sys_ECC_Parameters_Complete parameters).

Definition Tss2_Sys_ECDH_KeyGen (keyHandle : Z)
    (cmdAuthsArray : option TSS2L_SYS_AUTH_COMMAND)
    (zPoint : option (TPM2B_SUB TPMS_ECC_POINT))
    (pubPoint : option (TPM2B_SUB TPMS_ECC_POINT))
    (rspAuthsArray : option TSS2L_SYS_AUTH_RESPONSE) : out_prog (S:=S) _ :=
  one_call (Tss2_Sys_ECDH_KeyGen_Prepare keyHandle) cmdAuthsArray rspAuthsArray
    (Tss2_Sys_ECDH_KeyGen_Complete zPoint pubPoint).

Definition Tss2_Sys_ECDH_ZGen (keyHandle : Z)
    (cmdAuthsArray : option TSS2L_SYS_AUTH_COMMAND)
    (inPoint : option (TPM2B_SUB TPMS_ECC_POINT))
    (outPoint : option (TPM2B_SUB TPMS_ECC_POINT))
    (rspAuthsArray : option TSS2L_SYS_AUTH_RESPONSE) : out_prog (S:=S) _ :=
  one_call (Tss2_Sys_ECDH_ZGen_Prepare keyHandle inPoint) cmdAuthsArray rspAuthsArray
    (Tss2_Sys_ECDH_ZGen_Complete outPoint).

Definition Tss2_Sys_EC_Ephemeral (cmdAuthsArray : option TSS2L_SYS_AUTH_COMMAND)
    (curveID : Z) (Q : option (TPM2B_SUB TPMS_ECC_POINT)) (counter : option Z)
    (rspAuthsArray : option TSS2L_SYS_AUTH_RESPONSE) : out_prog (S:=S) _ :=
  one_call (Tss2_Sys_EC_Ephemeral_Prepare curveID) cmdAuthsArray rspAuthsArray
    (Tss2_Sys_EC_Ephemeral_Complete Q counter).

Definition Tss2_Sys_Encapsulate (keyHandle : Z)
    (cmdAuthsArray : option TSS2L_SYS_AUTH_COMMAND) (label : option TPM2B)
    (outSymSeed : option TPM2B) (cipherText : option TPM2B)
    (rspAuthsArray : option TSS2L_SYS_AUTH_RESPONSE) : out_prog (S:=S) _ :=
  one_call (Tss2_Sys_Encapsulate_Prepare keyHandle label) cmdAuthsArray rspAuthsArray
    (Tss2_Sys_Encapsulate_Complete outSymSeed cipherText).

Definition Tss2_Sys_EncryptDecrypt (keyHandle : Z)
    (cmdAuthsArray : option TSS2L_SYS_AUTH_COMMAND) (decrypt : Z) (mode : Z)
    (ivIn : option TPM2B) (inData : option TPM2B) (outData : option TPM2B)
    (ivOut : option TPM2B) (rspAuthsArray : option TSS2L_SYS_AUTH_RESPONSE)
    : out_prog (S:=S) _ :=
  one_call (Tss2_Sys_EncryptDecrypt_Prepare keyHandle decrypt mode ivIn inData) cmdAuthsArray
    rspAuthsArray (Tss2_Sys_EncryptDecrypt_Complete outData ivOut).

Definition Tss2_Sys_EncryptDecrypt2 (keyHandle : Z)
    (cmdAuthsArray : option TSS2L_SYS_AUTH_COMMAND) (inData : option TPM2B) (decrypt : Z)
    (mode : Z) (ivIn : option TPM2B) (outData : option TPM2B) (ivOut : option TPM2B)
    (rspAuthsArray : option TSS2L_SYS_AUTH_RESPONSE) : out_prog (S:=S) _ :=
  one_call (Tss2_Sys_EncryptDecrypt2_Prepare keyHandle inData decrypt mode ivIn) cmdAuthsArray
    rspAuthsArray (Tss2_Sys_EncryptDecrypt2_Complete outData ivOut).

Definition Tss2_Sys_EventSequenceComplete (pcrHandle : Z) (sequenceHandle : Z)
    (cmdAuthsArray : option TSS2L_SYS_AUTH_COMMAND) (buffer : option TPM2B)
    (results : option (TPML TPMT_HA)) (rspAuthsArray : option TSS2L_SYS_AUTH_RESPONSE)
    : out_prog (S:=S) _ :=
  one_call (Tss2_Sys_EventSequenceComplete_Prepare pcrHandle sequenceHandle buffer)
    cmdAuthsArray rspAuthsArray (Tss2_Sys_EventSequenceComplete_Complete results).

Definition Tss2_Sys_EvictControl (auth : Z) (objectHandle : Z)
    (cmdAuthsArray : option TSS2L_SYS_AUTH_COMMAND) (persistentHandle : Z)
    (rspAuthsArray : option TSS2L_SYS_AUTH_RESPONSE) : out_prog (S:=S) _ :=
  one_call (Tss2_Sys_EvictControl_Prepare auth objectHandle persistentHandle) cmdAuthsArray
    rspAuthsArray Tss2_Sys_EvictControl_Complete.

Definition Tss2_Sys_FieldUpgradeData (cmdAuthsArray : option TSS2L_SYS_AUTH_COMMAND)
    (fuData : option TPM2B) (nextDigest : option TPMT_HA) (firstDigest : option TPMT_HA)
    (rspAuthsArray : option TSS2L_SYS_AUTH_RESPONSE) : out_prog (S:=S) _ :=
  one_call (Tss2_Sys_FieldUpgradeData_Prepare fuData) cmdAuthsArray rspAuthsArray
    (Tss2_Sys_FieldUpgradeData_Complete nextDigest firstDigest).

Definition Tss2_Sys_FieldUpgradeStart (authorization : Z) (keyHandle : Z)
    (cmdAuthsArray : option TSS2L_SYS_AUTH_COMMAND) (fuDigest : option TPM2B)
    (manifestSignature : option TPMT_SIGNATURE)
    (rspAuthsArray : option TSS2L_SYS_AUTH_RESPONSE) : out_prog (S:=S) _ :=
  out_check manifestSignature (
  one_call
    (Tss2_Sys_FieldUpgradeStart_Prepare authorization keyHandle fuDigest manifestSignature)
    cmdAuthsArray rspAuthsArray Tss2_Sys_FieldUpgradeStart_Complete).

Definition Tss2_Sys_FirmwareRead (cmdAuthsArray : option TSS2L_SYS_AUTH_COMMAND)
    (sequenceNumber : Z) (fuData : option TPM2B)
    (rspAuthsArray : option TSS2L_SYS_AUTH_RESPONSE) : out_prog (S:=S) _ :=
  one_call (Tss2_Sys_FirmwareRead_Prepare sequenceNumber) cmdAuthsArray rspAuthsArray
    (Tss2_Sys_FirmwareRead_Complete fuData).

Definition Tss2_Sys_FlushContext (flushHandle : Z) : out_prog (S:=S) _ :=
  one_call (Tss2_Sys_FlushContext_Prepare flushHandle) None None
    Tss2_Sys_FlushContext_Complete.

Definition Tss2_Sys_GetCapability (cmdAuthsArray : option TSS2L_SYS_AUTH_COMMAND)
    (capability : Z) (property : Z) (propertyCount : Z) (moreData : option Z)
    (capabilityData : option TPMS_CAPABILITY_DATA)
    (rspAuthsArray : option TSS2L_SYS_AUTH_RESPONSE) : out_prog (S:=S) _ :=
  one_call (Tss2_Sys_GetCapability_Prepare capability property propertyCount) cmdAuthsArray
    rspAuthsArray (Tss2_Sys_GetCapability_Complete moreData capabilityData).

Definition Tss2_Sys_GetCommandAuditDigest (privacyHandle : Z) (signHandle : Z)
    (cmdAuthsArray : option TSS2L_SYS_AUTH_COMMAND) (qualifyingData : option TPM2B)
    (inScheme : option TPMT_SIG_SCHEME) (auditInfo : option TPM2B)
    (signature : option TPMT_SIGNATURE) (rspAuthsArray : option TSS2L_SYS_AUTH_RESPONSE)
    : out_prog (S:=S) _ :=
  out_check inScheme (
  one_call
    (Tss2_Sys_GetCommandAuditDigest_Prepare privacyHandle signHandle qualifyingData inScheme)
    cmdAuthsArray rspAuthsArray (Tss2_Sys_GetCommandAuditDigest_Complete auditInfo signature)).

Definition Tss2_Sys_GetRandom (cmdAuthsArray : option TSS2L_SYS_AUTH_COMMAND)
    (bytesRequested : Z) (randomBytes : option TPM2B)
    (rspAuthsArray : option TSS2L_SYS_AUTH_RESPONSE) : out_prog (S:=S) _ :=
  one_call (Tss2_Sys_GetRandom_Prepare bytesRequested) cmdAuthsArray rspAuthsArray
    (Tss2_Sys_GetRandom_Complete randomBytes).

Definition Tss2_Sys_GetSessionAuditDigest (privacyAdminHandle : Z) (signHandle : Z)
    (sessionHandle : Z) (cmdAuthsArray : option TSS2L_SYS_AUTH_COMMAND)
    (qualifyingData : option TPM2B) (inScheme : option TPMT_SIG_SCHEME)
    (auditInfo : option TPM2B) (signature : option TPMT_SIGNATURE)
    (rspAuthsArray : option TSS2L_SYS_AUTH_RESPONSE) : out_prog (S:=S) _ :=
  out_check inScheme (
  one_call
    (Tss2_Sys_GetSessionAuditDigest_Prepare privacyAdminHandle signHandle sessionHandle qualifyingData inScheme)
    cmdAuthsArray rspAuthsArray (Tss2_Sys_GetSessionAuditDigest_Complete auditInfo signature)).

Definition Tss2_Sys_GetTestResult (cmdAuthsArray : option TSS2L_SYS_AUTH_COMMAND)
    (outData : option TPM2B) (testResult : option Z)
    (rspAuthsArray : option TSS2L_SYS_AUTH_RESPONSE) : out_prog (S:=S) _ :=
  one_call (Tss2_Sys_GetTestResult_Prepare) cmdAuthsArray rspAuthsArray
    (Tss2_Sys_GetTestResult_Complete outData testResult).

Definition Tss2_Sys_GetTime (privacyAdminHandle : Z) (signHandle : Z)
    (cmdAuthsArray : option TSS2L_SYS_AUTH_COMMAND) (qualifyingData : option TPM2B)
    (inScheme : option TPMT_SIG_SCHEME) (timeInfo : option TPM2B)
    (signature : option TPMT_SIGNATURE) (rspAuthsArray : option TSS2L_SYS_AUTH_RESPONSE)
    : out_prog (S:=S) _ :=
  out_check inScheme (
  one_call (Tss2_Sys_GetTime_Prepare privacyAdminHandle signHandle qualifyingData inScheme)
    cmdAuthsArray rspAuthsArray (Tss2_Sys_GetTime_Complete timeInfo signature)).

Definition Tss2_Sys_HMAC (handle : Z) (cmdAuthsArray : option TSS2L_SYS_AUTH_COMMAND)
    (buffer : option TPM2B) (hashAlg : Z) (outHMAC : option TPM2B)
    (rspAuthsArray : option TSS2L_SYS_AUTH_RESPONSE) : out_prog (S:=S) _ :=
  one_call (Tss2_Sys_HMAC_Prepare handle buffer hashAlg) cmdAuthsArray rspAuthsArray
    (Tss2_Sys_HMAC_Complete outHMAC).

Definition Tss2_Sys_HMAC_Start (handle : Z) (cmdAuthsArray : option TSS2L_SYS_AUTH_COMMAND)
    (auth : option TPM2B) (hashAlg : Z) (sequenceHandle : option Z)
    (rspAuthsArray : option TSS2L_SYS_AUTH_RESPONSE) : out_prog (S:=S) _ :=
  one_call (Tss2_Sys_HMAC_Start_Prepare handle auth hashAlg) cmdAuthsArray rspAuthsArray
    (Tss2_Sys_HMAC_Start_Complete sequenceHandle).

Definition Tss2_Sys_Hash (cmdAuthsArray : option TSS2L_SYS_AUTH_COMMAND)
    (data : option TPM2B) (hashAlg : Z) (hierarchy : Z) (outHash : option TPM2B)
    (validation : option TPMT_TK_HASHCHECK) (rspAuthsArray : option TSS2L_SYS_AUTH_RESPONSE)
    : out_prog (S:=S) _ :=
  one_call (Tss2_Sys_Hash_Prepare data hashAlg hierarchy) cmdAuthsArray rspAuthsArray
    (Tss2_Sys_Hash_Complete outHash validation).

Definition Tss2_Sys_HashSequenceStart (cmdAuthsArray : option TSS2L_SYS_AUTH_COMMAND)
    (auth : option TPM2B) (hashAlg : Z) (sequenceHandle : option Z)
    (rspAuthsArray : option TSS2L_SYS_AUTH_RESPONSE) : out_prog (S:=S) _ :=
  one_call (Tss2_Sys_HashSequenceStart_Prepare auth hashAlg) cmdAuthsArray rspAuthsArray
    (Tss2_Sys_HashSequenceStart_Complete sequenceHandle).

Definition Tss2_Sys_HierarchyChangeAuth (authHandle : Z)
    (cmdAuthsArray : option TSS2L_SYS_AUTH_COMMAND) (newAuth : option TPM2B)
    (rspAuthsArray : option TSS2L_SYS_AUTH_RESPONSE) : out_prog (S:=S) _ :=
  one_call (Tss2_Sys_HierarchyChangeAuth_Prepare authHandle newAuth) cmdAuthsArray
    rspAuthsArray Tss2_Sys_HierarchyChangeAuth_Complete.

Definition Tss2_Sys_HierarchyControl (authHandle : Z)
    (cmdAuthsArray : option TSS2L_SYS_AUTH_COMMAND) (enable : Z) (state : Z)
    (rspAuthsArray : option TSS2L_SYS_AUTH_RESPONSE) : out_prog (S:=S) _ :=
  one_call (Tss2_Sys_HierarchyControl_Prepare authHandle enable state) cmdAuthsArray
    rspAuthsArray Tss2_Sys_HierarchyControl_Complete.

Definition Tss2_Sys_Import (parentHandle : Z)
    (cmdAuthsArray : option TSS2L_SYS_AUTH_COMMAND) (encryptionKey : option TPM2B)
    (objectPublic : option (TPM2B_SUB TPMT_PUBLIC)) (duplicate : option TPM2B)
    (inSymSeed : option TPM2B) (symmetricAlg : option TPMT_SYM_DEF_OBJECT)
    (outPrivate : option TPM2B) (rspAuthsArray : option TSS2L_SYS_AUTH_RESPONSE)
    : out_prog (S:=S) _ :=
  out_check symmetricAlg (
  one_call
    (Tss2_Sys_Import_Prepare parentHandle encryptionKey objectPublic duplicate inSymSeed symmetricAlg)
    cmdAuthsArray rspAuthsArray (Tss2_Sys_Import_Complete outPrivate)).

Definition Tss2_Sys_IncrementalSelfTest (cmdAuthsArray : option TSS2L_SYS_AUTH_COMMAND)
    (toTest : option (TPML Z)) (toDoList : option (TPML Z))
    (rspAuthsArray : option TSS2L_SYS_AUTH_RESPONSE) : out_prog (S:=S) _ :=
  out_check toTest (
  one_call (Tss2_Sys_IncrementalSelfTest_Prepare toTest) cmdAuthsArray rspAuthsArray
    (Tss2_Sys_IncrementalSelfTest_Complete toDoList)).

Definition Tss2_Sys_Load (parentHandle : Z) (cmdAuthsArray : option TSS2L_SYS_AUTH_COMMAND)
    (inPrivate : option TPM2B) (inPublic : option (TPM2B_SUB TPMT_PUBLIC))
    (objectHandle : option Z) (name : option TPM2B)
    (rspAuthsArray : option TSS2L_SYS_AUTH_RESPONSE) : out_prog (S:=S) _ :=
  one_call (Tss2_Sys_Load_Prepare parentHandle inPrivate inPublic) cmdAuthsArray rspAuthsArray
    (Tss2_Sys_Load_Complete objectHandle name).

Definition Tss2_Sys_LoadExternal (cmdAuthsArray : option TSS2L_SYS_AUTH_COMMAND)
    (inPrivate : option (TPM2B_SUB TPMT_SENSITIVE))
    (inPublic : option (TPM2B_SUB TPMT_PUBLIC)) (hierarchy : Z) (objectHandle : option Z)
    (name : option TPM2B) (rspAuthsArray : option TSS2L_SYS_AUTH_RESPONSE)
    : out_prog (S:=S) _ :=
  one_call (Tss2_Sys_LoadExternal_Prepare inPrivate inPublic hierarchy) cmdAuthsArray
    rspAuthsArray (Tss2_Sys_LoadExternal_Complete objectHandle name).

Definition Tss2_Sys_MAC (handle : Z) (cmdAuths : option TSS2L_SYS_AUTH_COMMAND)
    (buffer : option TPM2B) (inScheme : Z) (outMAC : option TPM2B)
    (rspAuths : option TSS2L_SYS_AUTH_RESPONSE) : out_prog (S:=S) _ :=
  one_call (Tss2_Sys_MAC_Prepare handle buffer inScheme) cmdAuths rspAuths
    (Tss2_Sys_MAC_Complete outMAC).

Definition Tss2_Sys_MAC_Start (handle : Z) (cmdAuthsArray : option TSS2L_SYS_AUTH_COMMAND)
    (auth : option TPM2B) (inScheme : Z) (sequenceHandle : option Z)
    (rspAuthsArray : option TSS2L_SYS_AUTH_RESPONSE) : out_prog (S:=S) _ :=
  one_call (Tss2_Sys_MAC_Start_Prepare handle auth inScheme) cmdAuthsArray rspAuthsArray
    (Tss2_Sys_MAC_Start_Complete sequenceHandle).

Definition Tss2_Sys_MakeCredential (handle : Z)
    (cmdAuthsArray : option TSS2L_SYS_AUTH_COMMAND) (credential : option TPM2B)
    (objectName : option TPM2B) (credentialBlob : option TPM2B) (secret : option TPM2B)
    (rspAuthsArray : option TSS2L_SYS_AUTH_RESPONSE) : out_prog (S:=S) _ :=
  one_call (Tss2_Sys_MakeCredential_Prepare handle credential objectName) cmdAuthsArray
    rspAuthsArray (Tss2_Sys_MakeCredential_Complete credentialBlob secret).

Definition Tss2_Sys_NV_Certify (signHandle : Z) (authHandle : Z) (nvIndex : Z)
    (cmdAuthsArray : option TSS2L_SYS_AUTH_COMMAND) (qualifyingData : option TPM2B)
    (inScheme : option TPMT_SIG_SCHEME) (size : Z) (offset : Z) (certifyInfo : option TPM2B)
    (signature : option TPMT_SIGNATURE) (rspAuthsArray : option TSS2L_SYS_AUTH_RESPONSE)
    : out_prog (S:=S) _ :=
  out_check inScheme (
  one_call
    (Tss2_Sys_NV_Certify_Prepare signHandle authHandle nvIndex qualifyingData inScheme size offset)
    cmdAuthsArray rspAuthsArray (Tss2_Sys_NV_Certify_Complete certifyInfo signature)).

Definition Tss2_Sys_NV_ChangeAuth (nvIndex : Z)
    (cmdAuthsArray : option TSS2L_SYS_AUTH_COMMAND) (newAuth : option TPM2B)
    (rspAuthsArray : option TSS2L_SYS_AUTH_RESPONSE) : out_prog (S:=S) _ :=
  one_call (Tss2_Sys_NV_ChangeAuth_Prepare nvIndex newAuth) cmdAuthsArray rspAuthsArray
    Tss2_Sys_NV_ChangeAuth_Complete.

Definition Tss2_Sys_NV_DefineSpace (authHandle : Z)
    (cmdAuthsArray : option TSS2L_SYS_AUTH_COMMAND) (auth : option TPM2B)
    (publicInfo : option (TPM2B_SUB TPMS_NV_PUBLIC))
    (rspAuthsArray : option TSS2L_SYS_AUTH_RESPONSE) : out_prog (S:=S) _ :=
  one_call (Tss2_Sys_NV_DefineSpace_Prepare authHandle auth publicInfo) cmdAuthsArray
    rspAuthsArray Tss2_Sys_NV_DefineSpace_Complete.

Definition Tss2_Sys_NV_Extend (authHandle : Z) (nvIndex : Z)
    (cmdAuthsArray : option TSS2L_SYS_AUTH_COMMAND) (data : option TPM2B)
    (rspAuthsArray : option TSS2L_SYS_AUTH_RESPONSE) : out_prog (S:=S) _ :=
  one_call (Tss2_Sys_NV_Extend_Prepare authHandle nvIndex data) cmdAuthsArray rspAuthsArray
    Tss2_Sys_NV_Extend_Complete.

Definition Tss2_Sys_NV_GlobalWriteLock (authHandle : Z)
    (cmdAuthsArray : option TSS2L_SYS_AUTH_COMMAND)
    (rspAuthsArray : option TSS2L_SYS_AUTH_RESPONSE) : out_prog (S:=S) _ :=
  one_call (Tss2_Sys_NV_GlobalWriteLock_Prepare authHandle) cmdAuthsArray rspAuthsArray
    Tss2_Sys_NV_GlobalWriteLock_Complete.

Definition Tss2_Sys_NV_Increment (authHandle : Z) (nvIndex : Z)
    (cmdAuthsArray : option TSS2L_SYS_AUTH_COMMAND)
    (rspAuthsArray : option TSS2L_SYS_AUTH_RESPONSE) : out_prog (S:=S) _ :=
  one_call (Tss2_Sys_NV_Increment_Prepare authHandle nvIndex) cmdAuthsArray rspAuthsArray
    Tss2_Sys_NV_Increment_Complete.

Definition Tss2_Sys_NV_Read (authHandle : Z) (nvIndex : Z)
    (cmdAuthsArray : option TSS2L_SYS_AUTH_COMMAND) (size : Z) (offset : Z)
    (data : option TPM2B) (rspAuthsArray : option TSS2L_SYS_AUTH_RESPONSE)
    : out_prog (S:=S) _ :=
  one_call (Tss2_Sys_NV_Read_Prepare authHandle nvIndex size offset) cmdAuthsArray
    rspAuthsArray (Tss2_Sys_NV_Read_Complete data).

Definition Tss2_Sys_NV_ReadLock (authHandle : Z) (nvIndex : Z)
    (cmdAuthsArray : option TSS2L_SYS_AUTH_COMMAND)
    (rspAuthsArray : option TSS2L_SYS_AUTH_RESPONSE) : out_prog (S:=S) _ :=
  one_call (Tss2_Sys_NV_ReadLock_Prepare authHandle nvIndex) cmdAuthsArray rspAuthsArray
    Tss2_Sys_NV_ReadLock_Complete.

Definition Tss2_Sys_NV_ReadPublic (nvIndex : Z)
    (cmdAuthsArray : option TSS2L_SYS_AUTH_COMMAND)
    (nvPublic : option (TPM2B_SUB TPMS_NV_PUBLIC)) (nvName : option TPM2B)
    (rspAuthsArray : option TSS2L_SYS_AUTH_RESPONSE) : out_prog (S:=S) _ :=
  one_call (Tss2_Sys_NV_ReadPublic_Prepare nvIndex) cmdAuthsArray rspAuthsArray
    (Tss2_Sys_NV_ReadPublic_Complete nvPublic nvName).

Definition Tss2_Sys_NV_SetBits (authHandle : Z) (nvIndex : Z)
    (cmdAuthsArray : option TSS2L_SYS_AUTH_COMMAND) (bits : Z)
    (rspAuthsArray : option TSS2L_SYS_AUTH_RESPONSE) : out_prog (S:=S) _ :=
  one_call (Tss2_Sys_NV_SetBits_Prepare authHandle nvIndex bits) cmdAuthsArray rspAuthsArray
    Tss2_Sys_NV_SetBits_Complete.

Definition Tss2_Sys_NV_UndefineSpace (authHandle : Z) (nvIndex : Z)
    (cmdAuthsArray : option TSS2L_SYS_AUTH_COMMAND)
    (rspAuthsArray : option TSS2L_SYS_AUTH_RESPONSE) : out_prog (S:=S) _ :=
  one_call (Tss2_Sys_NV_UndefineSpace_Prepare authHandle nvIndex) cmdAuthsArray rspAuthsArray
    Tss2_Sys_NV_UndefineSpace_Complete.

Definition Tss2_Sys_NV_UndefineSpaceSpecial (nvIndex : Z) (platform : Z)
    (cmdAuthsArray : option TSS2L_SYS_AUTH_COMMAND)
    (rspAuthsArray : option TSS2L_SYS_AUTH_RESPONSE) : out_prog (S:=S) _ :=
  one_call (Tss2_Sys_NV_UndefineSpaceSpecial_Prepare nvIndex platform) cmdAuthsArray
    rspAuthsArray Tss2_Sys_NV_UndefineSpaceSpecial_Complete.

Definition Tss2_Sys_NV_Write (authHandle : Z) (nvIndex : Z)
    (cmdAuthsArray : option TSS2L_SYS_AUTH_COMMAND) (data : option TPM2B) (offset : Z)
    (rspAuthsArray : option TSS2L_SYS_AUTH_RESPONSE) : out_prog (S:=S) _ :=
  one_call (Tss2_Sys_NV_Write_Prepare authHandle nvIndex data offset) cmdAuthsArray
    rspAuthsArray Tss2_Sys_NV_Write_Complete.

Definition Tss2_Sys_NV_WriteLock (authHandle : Z) (nvIndex : Z)
    (cmdAuthsArray : option TSS2L_SYS_AUTH_COMMAND)
    (rspAuthsArray : option TSS2L_SYS_AUTH_RESPONSE) : out_prog (S:=S) _ :=
  one_call (Tss2_Sys_NV_WriteLock_Prepare authHandle nvIndex) cmdAuthsArray rspAuthsArray
    Tss2_Sys_NV_WriteLock_Complete.

Definition Tss2_Sys_ObjectChangeAuth (objectHandle : Z) (parentHandle : Z)
    (cmdAuthsArray : option TSS2L_SYS_AUTH_COMMAND) (newAuth : option TPM2B)
    (outPrivate : option TPM2B) (rspAuthsArray : option TSS2L_SYS_AUTH_RESPONSE)
    : out_prog (S:=S) _ :=
  one_call (Tss2_Sys_ObjectChangeAuth_Prepare objectHandle parentHandle newAuth) cmdAuthsArray
    rspAuthsArray (Tss2_Sys_ObjectChangeAuth_Complete outPrivate).

Definition Tss2_Sys_PCR_Allocate (authHandle : Z)
    (cmdAuthsArray : option TSS2L_SYS_AUTH_COMMAND)
    (pcrAllocation : option (TPML TPMS_PCR_SELECTION)) (allocationSuccess : option Z)
    (maxPCR : option Z) (sizeNeeded : option Z) (sizeAvailable : option Z)
    (rspAuthsArray : option TSS2L_SYS_AUTH_RESPONSE) : out_prog (S:=S) _ :=
  out_check pcrAllocation (
  one_call (Tss2_Sys_PCR_Allocate_Prepare authHandle pcrAllocation) cmdAuthsArray
    rspAuthsArray
    (Tss2_Sys_PCR_Allocate_Complete allocationSuccess maxPCR sizeNeeded sizeAvailable)).

Definition Tss2_Sys_PCR_Event (pcrHandle : Z)
    (cmdAuthsArray : option TSS2L_SYS_AUTH_COMMAND) (eventData : option TPM2B)
    (digests : option (TPML TPMT_HA)) (rspAuthsArray : option TSS2L_SYS_AUTH_RESPONSE)
    : out_prog (S:=S) _ :=
  one_call (Tss2_Sys_PCR_Event_Prepare pcrHandle eventData) cmdAuthsArray rspAuthsArray
    (Tss2_Sys_PCR_Event_Complete digests).

Definition Tss2_Sys_PCR_Extend (pcrHandle : Z)
    (cmdAuthsArray : option TSS2L_SYS_AUTH_COMMAND) (digests : option (TPML TPMT_HA))
    (rspAuthsArray : option TSS2L_SYS_AUTH_RESPONSE) : out_prog (S:=S) _ :=
  out_check digests (
  one_call (Tss2_Sys_PCR_Extend_Prepare pcrHandle digests) cmdAuthsArray rspAuthsArray
    Tss2_Sys_PCR_Extend_Complete).

Definition Tss2_Sys_PCR_Read (cmdAuthsArray : option TSS2L_SYS_AUTH_COMMAND)
    (pcrSelectionIn : option (TPML TPMS_PCR_SELECTION)) (pcrUpdateCounter : option Z)
    (pcrSelectionOut : option (TPML TPMS_PCR_SELECTION)) (pcrValues : option (TPML TPM2B))
    (rspAuthsArray : option TSS2L_SYS_AUTH_RESPONSE) : out_prog (S:=S) _ :=
  out_check pcrSelectionIn (
  one_call (Tss2_Sys_PCR_Read_Prepare pcrSelectionIn) cmdAuthsArray rspAuthsArray
    (Tss2_Sys_PCR_Read_Complete pcrUpdateCounter pcrSelectionOut pcrValues)).

Definition Tss2_Sys_PCR_Reset (pcrHandle : Z)
    (cmdAuthsArray : option TSS2L_SYS_AUTH_COMMAND)
    (rspAuthsArray : option TSS2L_SYS_AUTH_RESPONSE) : out_prog (S:=S) _ :=
  one_call (Tss2_Sys_PCR_Reset_Prepare pcrHandle) cmdAuthsArray rspAuthsArray
    Tss2_Sys_PCR_Reset_Complete.

Definition Tss2_Sys_PCR_SetAuthPolicy (authHandle : Z)
    (cmdAuthsArray : option TSS2L_SYS_AUTH_COMMAND) (authPolicy : option TPM2B)
    (hashAlg : Z) (pcrNum : Z) (rspAuthsArray : option TSS2L_SYS_AUTH_RESPONSE)
    : out_prog (S:=S) _ :=
  one_call (Tss2_Sys_PCR_SetAuthPolicy_Prepare authHandle authPolicy hashAlg pcrNum)
    cmdAuthsArray rspAuthsArray Tss2_Sys_PCR_SetAuthPolicy_Complete.

Definition Tss2_Sys_PCR_SetAuthValue (pcrHandle : Z)
    (cmdAuthsArray : option TSS2L_SYS_AUTH_COMMAND) (auth : option TPM2B)
    (rspAuthsArray : option TSS2L_SYS_AUTH_RESPONSE) : out_prog (S:=S) _ :=
  one_call (Tss2_Sys_PCR_SetAuthValue_Prepare pcrHandle auth) cmdAuthsArray rspAuthsArray
    Tss2_Sys_PCR_SetAuthValue_Complete.

Definition Tss2_Sys_PP_Commands (auth : Z) (cmdAuthsArray : option TSS2L_SYS_AUTH_COMMAND)
    (setList : option (TPML Z)) (clearList : option (TPML Z))
    (rspAuthsArray : option TSS2L_SYS_AUTH_RESPONSE) : out_prog (S:=S) _ :=
  out_check setList (
  out_check clearList (
  one_call (Tss2_Sys_PP_Commands_Prepare auth setList clearList) cmdAuthsArray rspAuthsArray
    Tss2_Sys_PP_Commands_Complete)).

Definition Tss2_Sys_PolicyAuthValue (policySession : Z)
    (cmdAuthsArray : option TSS2L_SYS_AUTH_COMMAND)
    (rspAuthsArray : option TSS2L_SYS_AUTH_RESPONSE) : out_prog (S:=S) _ :=
  one_call (Tss2_Sys_PolicyAuthValue_Prepare policySession) cmdAuthsArray rspAuthsArray
    Tss2_Sys_PolicyAuthValue_Complete.

Definition Tss2_Sys_PolicyAuthorize (policySession : Z)
    (cmdAuthsArray : option TSS2L_SYS_AUTH_COMMAND) (approvedPolicy : option TPM2B)
    (policyRef : option TPM2B) (keySign : option TPM2B)
    (checkTicket : option TPMT_TK_VERIFIED) (rspAuthsArray : option TSS2L_SYS_AUTH_RESPONSE)
    : out_prog (S:=S) _ :=
  out_check checkTicket (
  one_call
    (Tss2_Sys_PolicyAuthorize_Prepare policySession approvedPolicy policyRef keySign checkTicket)
    cmdAuthsArray rspAuthsArray Tss2_Sys_PolicyAuthorize_Complete).

Definition Tss2_Sys_PolicyAuthorizeNV (authHandle : Z) (nvIndex : Z) (policySession : Z)
    (cmdAuthsArray : option TSS2L_SYS_AUTH_COMMAND)
    (rspAuthsArray : option TSS2L_SYS_AUTH_RESPONSE) : out_prog (S:=S) _ :=
  one_call (Tss2_Sys_PolicyAuthorizeNV_Prepare authHandle nvIndex policySession) cmdAuthsArray
    rspAuthsArray Tss2_Sys_PolicyAuthorizeNV_Complete.

Definition Tss2_Sys_PolicyCommandCode (policySession : Z)
    (cmdAuthsArray : option TSS2L_SYS_AUTH_COMMAND) (code : Z)
    (rspAuthsArray : option TSS2L_SYS_AUTH_RESPONSE) : out_prog (S:=S) _ :=
  one_call (Tss2_Sys_PolicyCommandCode_Prepare policySession code) cmdAuthsArray rspAuthsArray
    Tss2_Sys_PolicyCommandCode_Complete.

Definition Tss2_Sys_PolicyCounterTimer (policySession : Z)
    (cmdAuthsArray : option TSS2L_SYS_AUTH_COMMAND) (operandB : option TPM2B) (offset : Z)
    (operation : Z) (rspAuthsArray : option TSS2L_SYS_AUTH_RESPONSE) : out_prog (S:=S) _ :=
  one_call (Tss2_Sys_PolicyCounterTimer_Prepare policySession operandB offset operation)
    cmdAuthsArray rspAuthsArray Tss2_Sys_PolicyCounterTimer_Complete.

Definition Tss2_Sys_PolicyCpHash (policySession : Z)
    (cmdAuthsArray : option TSS2L_SYS_AUTH_COMMAND) (cpHashA : option TPM2B)
    (rspAuthsArray : option TSS2L_SYS_AUTH_RESPONSE) : out_prog (S:=S) _ :=
  one_call (Tss2_Sys_PolicyCpHash_Prepare policySession cpHashA) cmdAuthsArray rspAuthsArray
    Tss2_Sys_PolicyCpHash_Complete.

Definition Tss2_Sys_PolicyDuplicationSelect (policySession : Z)
    (cmdAuthsArray : option TSS2L_SYS_AUTH_COMMAND) (objectName : option TPM2B)
    (newParentName : option TPM2B) (includeObject : Z)
    (rspAuthsArray : option TSS2L_SYS_AUTH_RESPONSE) : out_prog (S:=S) _ :=
  one_call
    (Tss2_Sys_PolicyDuplicationSelect_Prepare policySession objectName newParentName includeObject)
    cmdAuthsArray rspAuthsArray Tss2_Sys_PolicyDuplicationSelect_Complete.

Definition Tss2_Sys_PolicyGetDigest (policySession : Z)
    (cmdAuthsArray : option TSS2L_SYS_AUTH_COMMAND) (policyDigest : option TPM2B)
    (rspAuthsArray : option TSS2L_SYS_AUTH_RESPONSE) : out_prog (S:=S) _ :=
  one_call (Tss2_Sys_PolicyGetDigest_Prepare policySession) cmdAuthsArray rspAuthsArray
    (Tss2_Sys_PolicyGetDigest_Complete policyDigest).

Definition Tss2_Sys_PolicyLocality (policySession : Z)
    (cmdAuthsArray : option TSS2L_SYS_AUTH_COMMAND) (locality : Z)
    (rspAuthsArray : option TSS2L_SYS_AUTH_RESPONSE) : out_prog (S:=S) _ :=
  one_call (Tss2_Sys_PolicyLocality_Prepare policySession locality) cmdAuthsArray
    rspAuthsArray Tss2_Sys_PolicyLocality_Complete.

Definition Tss2_Sys_PolicyNV (authHandle : Z) (nvIndex : Z) (policySession : Z)
    (cmdAuthsArray : option TSS2L_SYS_AUTH_COMMAND) (operandB : option TPM2B) (offset : Z)
    (operation : Z) (rspAuthsArray : option TSS2L_SYS_AUTH_RESPONSE) : out_prog (S:=S) _ :=
  one_call
    (Tss2_Sys_PolicyNV_Prepare authHandle nvIndex policySession operandB offset operation)
    cmdAuthsArray rspAuthsArray Tss2_Sys_PolicyNV_Complete.

Definition Tss2_Sys_PolicyNameHash (policySession : Z)
    (cmdAuthsArray : option TSS2L_SYS_AUTH_COMMAND) (nameHash : option TPM2B)
    (rspAuthsArray : option TSS2L_SYS_AUTH_RESPONSE) : out_prog (S:=S) _ :=
  one_call (Tss2_Sys_PolicyNameHash_Prepare policySession nameHash) cmdAuthsArray
    rspAuthsArray Tss2_Sys_PolicyNameHash_Complete.

Definition Tss2_Sys_PolicyNvWritten (policySession : Z)
    (cmdAuthsArray : option TSS2L_SYS_AUTH_COMMAND) (writtenSet : Z)
    (rspAuthsArray : option TSS2L_SYS_AUTH_RESPONSE) : out_prog (S:=S) _ :=
  one_call (Tss2_Sys_PolicyNvWritten_Prepare policySession writtenSet) cmdAuthsArray
    rspAuthsArray Tss2_Sys_PolicyNvWritten_Complete.

Definition Tss2_Sys_PolicyOR (policySession : Z)
    (cmdAuthsArray : option TSS2L_SYS_AUTH_COMMAND) (pHashList : option (TPML TPM2B))
    (rspAuthsArray : option TSS2L_SYS_AUTH_RESPONSE) : out_prog (S:=S) _ :=
  out_check pHashList (
  one_call (Tss2_Sys_PolicyOR_Prepare policySession pHashList) cmdAuthsArray rspAuthsArray
    Tss2_Sys_PolicyOR_Complete).

Definition Tss2_Sys_PolicyPCR (policySession : Z)
    (cmdAuthsArray : option TSS2L_SYS_AUTH_COMMAND) (pcrDigest : option TPM2B)
    (pcrs : option (TPML TPMS_PCR_SELECTION))
    (rspAuthsArray : option TSS2L_SYS_AUTH_RESPONSE) : out_prog (S:=S) _ :=
  out_check pcrs (
  one_call (Tss2_Sys_PolicyPCR_Prepare policySession pcrDigest pcrs) cmdAuthsArray
    rspAuthsArray Tss2_Sys_PolicyPCR_Complete).

Definition Tss2_Sys_PolicyPassword (policySession : Z)
    (cmdAuthsArray : option TSS2L_SYS_AUTH_COMMAND)
    (rspAuthsArray : option TSS2L_SYS_AUTH_RESPONSE) : out_prog (S:=S) _ :=
  one_call (Tss2_Sys_PolicyPassword_Prepare policySession) cmdAuthsArray rspAuthsArray
    Tss2_Sys_PolicyPassword_Complete.

Definition Tss2_Sys_PolicyPhysicalPresence (policySession : Z)
    (cmdAuthsArray : option TSS2L_SYS_AUTH_COMMAND)
    (rspAuthsArray : option TSS2L_SYS_AUTH_RESPONSE) : out_prog (S:=S) _ :=
  one_call (Tss2_Sys_PolicyPhysicalPresence_Prepare policySession) cmdAuthsArray rspAuthsArray
    Tss2_Sys_PolicyPhysicalPresence_Complete.

Definition Tss2_Sys_PolicyRestart (sessionHandle : Z)
    (cmdAuthsArray : option TSS2L_SYS_AUTH_COMMAND)
    (rspAuthsArray : option TSS2L_SYS_AUTH_RESPONSE) : out_prog (S:=S) _ :=
  one_call (Tss2_Sys_PolicyRestart_Prepare sessionHandle) cmdAuthsArray rspAuthsArray
    Tss2_Sys_PolicyRestart_Complete.

Definition Tss2_Sys_PolicySecret (authHandle : Z) (policySession : Z)
    (cmdAuthsArray : option TSS2L_SYS_AUTH_COMMAND) (nonceTPM : option TPM2B)
    (cpHashA : option TPM2B) (policyRef : option TPM2B) (expiration : Z)
    (timeout : option TPM2B) (policyTicket : option TPMT_TK_AUTH)
    (rspAuthsArray : option TSS2L_SYS_AUTH_RESPONSE) : out_prog (S:=S) _ :=
  one_call
    (Tss2_Sys_PolicySecret_Prepare authHandle policySession nonceTPM cpHashA policyRef expiration)
    cmdAuthsArray rspAuthsArray (Tss2_Sys_PolicySecret_Complete timeout policyTicket).

Definition Tss2_Sys_PolicySigned (authObject : Z) (policySession : Z)
    (cmdAuthsArray : option TSS2L_SYS_AUTH_COMMAND) (nonceTPM : option TPM2B)
    (cpHashA : option TPM2B) (policyRef : option TPM2B) (expiration : Z)
    (auth : option TPMT_SIGNATURE) (timeout : option TPM2B)
    (policyTicket : option TPMT_TK_AUTH) (rspAuthsArray : option TSS2L_SYS_AUTH_RESPONSE)
    : out_prog (S:=S) _ :=
  out_check auth (
  one_call
    (Tss2_Sys_PolicySigned_Prepare authObject policySession nonceTPM cpHashA policyRef expiration auth)
    cmdAuthsArray rspAuthsArray (Tss2_Sys_PolicySigned_Complete timeout policyTicket)).

Definition Tss2_Sys_PolicyTemplate (policySession : Z)
    (cmdAuthsArray : option TSS2L_SYS_AUTH_COMMAND) (templateHash : option TPM2B)
    (rspAuthsArray : option TSS2L_SYS_AUTH_RESPONSE) : out_prog (S:=S) _ :=
  one_call (Tss2_Sys_PolicyTemplate_Prepare policySession templateHash) cmdAuthsArray
    rspAuthsArray Tss2_Sys_PolicyTemplate_Complete.

Definition Tss2_Sys_PolicyTicket (policySession : Z)
    (cmdAuthsArray : option TSS2L_SYS_AUTH_COMMAND) (timeout : option TPM2B)
    (cpHashA : option TPM2B) (policyRef : option TPM2B) (authName : option TPM2B)
    (ticket : option TPMT_TK_AUTH) (rspAuthsArray : option TSS2L_SYS_AUTH_RESPONSE)
    : out_prog (S:=S) _ :=
  out_check ticket (
  one_call
    (Tss2_Sys_PolicyTicket_Prepare policySession timeout cpHashA policyRef authName ticket)
    cmdAuthsArray rspAuthsArray Tss2_Sys_PolicyTicket_Complete).

Definition Tss2_Sys_Policy_AC_SendSelect (policySession : Z)
    (cmdAuthsArray : option TSS2L_SYS_AUTH_COMMAND) (objectName : option TPM2B)
    (authHandleName : option TPM2B) (acName : option TPM2B) (includeObject : Z)
    (rspAuthsArray : option TSS2L_SYS_AUTH_RESPONSE) : out_prog (S:=S) _ :=
  one_call
    (Tss2_Sys_Policy_AC_SendSelect_Prepare policySession objectName authHandleName acName includeObject)
    cmdAuthsArray rspAuthsArray Tss2_Sys_Policy_AC_SendSelect_Complete.

Definition Tss2_Sys_Quote (signHandle : Z) (cmdAuthsArray : option TSS2L_SYS_AUTH_COMMAND)
    (qualifyingData : option TPM2B) (inScheme : option TPMT_SIG_SCHEME)
    (PCRselect : option (TPML TPMS_PCR_SELECTION)) (quoted : option TPM2B)
    (signature : option TPMT_SIGNATURE) (rspAuthsArray : option TSS2L_SYS_AUTH_RESPONSE)
    : out_prog (S:=S) _ :=
  out_check inScheme (
  out_check PCRselect (
  one_call (Tss2_Sys_Quote_Prepare signHandle qualifyingData inScheme PCRselect) cmdAuthsArray
    rspAuthsArray (Tss2_Sys_Quote_Complete quoted signature))).

Definition Tss2_Sys_RSA_Decrypt (keyHandle : Z)
    (cmdAuthsArray : option TSS2L_SYS_AUTH_COMMAND) (cipherText : option TPM2B)
    (inScheme : option TPMT_RSA_DECRYPT) (label : option TPM2B) (message : option TPM2B)
    (rspAuthsArray : option TSS2L_SYS_AUTH_RESPONSE) : out_prog (S:=S) _ :=
  out_check inScheme (
  one_call (Tss2_Sys_RSA_Decrypt_Prepare keyHandle cipherText inScheme label) cmdAuthsArray
    rspAuthsArray (Tss2_Sys_RSA_Decrypt_Complete message)).

Definition Tss2_Sys_RSA_Encrypt (keyHandle : Z)
    (cmdAuthsArray : option TSS2L_SYS_AUTH_COMMAND) (message : option TPM2B)
    (inScheme : option TPMT_RSA_DECRYPT) (label : option TPM2B) (outData : option TPM2B)
    (rspAuthsArray : option TSS2L_SYS_AUTH_RESPONSE) : out_prog (S:=S) _ :=
  out_check inScheme (
  one_call (Tss2_Sys_RSA_Encrypt_Prepare keyHandle message inScheme label) cmdAuthsArray
    rspAuthsArray (Tss2_Sys_RSA_Encrypt_Complete outData)).

Definition Tss2_Sys_ReadClock (cmdAuthsArray : option TSS2L_SYS_AUTH_COMMAND)
    (currentTime : option TPMS_TIME_INFO) (rspAuthsArray : option TSS2L_SYS_AUTH_RESPONSE)
    : out_prog (S:=S) _ :=
  one_call (Tss2_Sys_ReadClock_Prepare) cmdAuthsArray rspAuthsArray
    (Tss2_Sys_ReadClock_Complete currentTime).

Definition Tss2_Sys_ReadPublic (objectHandle : Z)
    (cmdAuthsArray : option TSS2L_SYS_AUTH_COMMAND)
    (outPublic : option (TPM2B_SUB TPMT_PUBLIC)) (name : option TPM2B)
    (qualifiedName : option TPM2B) (rspAuthsArray : option TSS2L_SYS_AUTH_RESPONSE)
    : out_prog (S:=S) _ :=
  one_call (Tss2_Sys_ReadPublic_Prepare objectHandle) cmdAuthsArray rspAuthsArray
    (Tss2_Sys_ReadPublic_Complete outPublic name qualifiedName).

Definition Tss2_Sys_Rewrap (oldParent : Z) (newParent : Z)
    (cmdAuthsArray : option TSS2L_SYS_AUTH_COMMAND) (inDuplicate : option TPM2B)
    (name : option TPM2B) (inSymSeed : option TPM2B) (outDuplicate : option TPM2B)
    (outSymSeed : option TPM2B) (rspAuthsArray : option TSS2L_SYS_AUTH_RESPONSE)
    : out_prog (S:=S) _ :=
  one_call (Tss2_Sys_Rewrap_Prepare oldParent newParent inDuplicate name inSymSeed)
    cmdAuthsArray rspAuthsArray (Tss2_Sys_Rewrap_Complete outDuplicate outSymSeed).

Definition Tss2_Sys_SelfTest (cmdAuthsArray : option TSS2L_SYS_AUTH_COMMAND) (fullTest : Z)
    (rspAuthsArray : option TSS2L_SYS_AUTH_RESPONSE) : out_prog (S:=S) _ :=
  one_call (Tss2_Sys_SelfTest_Prepare fullTest) cmdAuthsArray rspAuthsArray
    Tss2_Sys_SelfTest_Complete.

Definition Tss2_Sys_SequenceComplete (sequenceHandle : Z)
    (cmdAuthsArray : option TSS2L_SYS_AUTH_COMMAND) (buffer : option TPM2B) (hierarchy : Z)
    (result : option TPM2B) (validation : option TPMT_TK_HASHCHECK)
    (rspAuthsArray : option TSS2L_SYS_AUTH_RESPONSE) : out_prog (S:=S) _ :=
  one_call (Tss2_Sys_SequenceComplete_Prepare sequenceHandle buffer hierarchy) cmdAuthsArray
    rspAuthsArray (Tss2_Sys_SequenceComplete_Complete result validation).

Definition Tss2_Sys_SequenceUpdate (sequenceHandle : Z)
    (cmdAuthsArray : option TSS2L_SYS_AUTH_COMMAND) (buffer : option TPM2B)
    (rspAuthsArray : option TSS2L_SYS_AUTH_RESPONSE) : out_prog (S:=S) _ :=
  one_call (Tss2_Sys_SequenceUpdate_Prepare sequenceHandle buffer) cmdAuthsArray rspAuthsArray
    Tss2_Sys_SequenceUpdate_Complete.

Definition Tss2_Sys_SetAlgorithmSet (authHandle : Z)
    (cmdAuthsArray : option TSS2L_SYS_AUTH_COMMAND) (algorithmSet : Z)
    (rspAuthsArray : option TSS2L_SYS_AUTH_RESPONSE) : out_prog (S:=S) _ :=
  one_call (Tss2_Sys_SetAlgorithmSet_Prepare authHandle algorithmSet) cmdAuthsArray
    rspAuthsArray Tss2_Sys_SetAlgorithmSet_Complete.

Definition Tss2_Sys_SetCommandCodeAuditStatus (auth : Z)
    (cmdAuthsArray : option TSS2L_SYS_AUTH_COMMAND) (auditAlg : Z)
    (setList : option (TPML Z)) (clearList : option (TPML Z))
    (rspAuthsArray : option TSS2L_SYS_AUTH_RESPONSE) : out_prog (S:=S) _ :=
  out_check setList (
  out_check clearList (
  one_call (Tss2_Sys_SetCommandCodeAuditStatus_Prepare auth auditAlg setList clearList)
    cmdAuthsArray rspAuthsArray Tss2_Sys_SetCommandCodeAuditStatus_Complete)).

Definition Tss2_Sys_SetPrimaryPolicy (authHandle : Z)
    (cmdAuthsArray : option TSS2L_SYS_AUTH_COMMAND) (authPolicy : option TPM2B)
    (hashAlg : Z) (rspAuthsArray : option TSS2L_SYS_AUTH_RESPONSE) : out_prog (S:=S) _ :=
  one_call (Tss2_Sys_SetPrimaryPolicy_Prepare authHandle authPolicy hashAlg) cmdAuthsArray
    rspAuthsArray Tss2_Sys_SetPrimaryPolicy_Complete.

Definition Tss2_Sys_Shutdown (cmdAuthsArray : option TSS2L_SYS_AUTH_COMMAND)
    (shutdownType : Z) (rspAuthsArray : option TSS2L_SYS_AUTH_RESPONSE) : out_prog (S:=S) _ :=
  one_call (Tss2_Sys_Shutdown_Prepare shutdownType) cmdAuthsArray rspAuthsArray
    Tss2_Sys_Shutdown_Complete.

Definition Tss2_Sys_Sign (keyHandle : Z) (cmdAuthsArray : option TSS2L_SYS_AUTH_COMMAND)
    (digest : option TPM2B) (inScheme : option TPMT_SIG_SCHEME)
    (validation : option TPMT_TK_HASHCHECK) (signature : option TPMT_SIGNATURE)
    (rspAuthsArray : option TSS2L_SYS_AUTH_RESPONSE) : out_prog (S:=S) _ :=
  out_check inScheme (
  out_check validation (
  one_call (Tss2_Sys_Sign_Prepare keyHandle digest inScheme validation) cmdAuthsArray
    rspAuthsArray (Tss2_Sys_Sign_Complete signature))).

Definition Tss2_Sys_SignDigest (keyHandle : Z)
    (cmdAuthsArray : option TSS2L_SYS_AUTH_COMMAND) (digest : option TPM2B)
    (inScheme : option TPMT_SIG_SCHEME) (validation : option TPMT_TK_HASHCHECK)
    (signature : option TPMT_SIGNATURE) (rspAuthsArray : option TSS2L_SYS_AUTH_RESPONSE)
    : out_prog (S:=S) _ :=
  out_check inScheme (
  out_check validation (
  one_call (Tss2_Sys_SignDigest_Prepare keyHandle digest inScheme validation) cmdAuthsArray
    rspAuthsArray (Tss2_Sys_SignDigest_Complete signature))).

Definition Tss2_Sys_SignSequenceComplete (sequenceHandle : Z)
    (cmdAuthsArray : option TSS2L_SYS_AUTH_COMMAND) (buffer : option TPM2B)
    (signature : option TPMT_SIGNATURE) (rspAuthsArray : option TSS2L_SYS_AUTH_RESPONSE)
    : out_prog (S:=S) _ :=
  one_call (Tss2_Sys_SignSequenceComplete_Prepare sequenceHandle buffer) cmdAuthsArray
    rspAuthsArray (Tss2_Sys_SignSequenceComplete_Complete signature).

Definition Tss2_Sys_SignSequenceStart (keyHandle : Z)
    (cmdAuthsArray : option TSS2L_SYS_AUTH_COMMAND) (inScheme : option TPMT_SIG_SCHEME)
    (keyB : Z) (sequenceHandle : option Z) (rspAuthsArray : option TSS2L_SYS_AUTH_RESPONSE)
    : out_prog (S:=S) _ :=
  one_call (Tss2_Sys_SignSequenceStart_Prepare keyHandle inScheme keyB) cmdAuthsArray
    rspAuthsArray (Tss2_Sys_SignSequenceStart_Complete sequenceHandle).

Definition Tss2_Sys_StartAuthSession (tpmKey : Z) (bind : Z)
    (cmdAuthsArray : option TSS2L_SYS_AUTH_COMMAND) (nonceCaller : option TPM2B)
    (encryptedSalt : option TPM2B) (sessionType : Z) (symmetric : option TPMT_SYM_DEF)
    (authHash : Z) (sessionHandle : option Z) (nonceTPM : option TPM2B)
    (rspAuthsArray : option TSS2L_SYS_AUTH_RESPONSE) : out_prog (S:=S) _ :=
  out_check symmetric (
  one_call
    (Tss2_Sys_StartAuthSession_Prepare tpmKey bind nonceCaller encryptedSalt sessionType symmetric authHash)
    cmdAuthsArray rspAuthsArray (Tss2_Sys_StartAuthSession_Complete sessionHandle nonceTPM)).

Definition Tss2_Sys_Startup (startupType : Z) : out_prog (S:=S) _ :=
  one_call (Tss2_Sys_Startup_Prepare startupType) None None Tss2_Sys_Startup_Complete.

Definition Tss2_Sys_StirRandom (cmdAuthsArray : option TSS2L_SYS_AUTH_COMMAND)
    (inData : option TPM2B) (rspAuthsArray : option TSS2L_SYS_AUTH_RESPONSE)
    : out_prog (S:=S) _ :=
  one_call (Tss2_Sys_StirRandom_Prepare inData) cmdAuthsArray rspAuthsArray
    Tss2_Sys_StirRandom_Complete.

Definition Tss2_Sys_TestParms (cmdAuthsArray : option TSS2L_SYS_AUTH_COMMAND)
    (parameters : option TPMT_PUBLIC_PARMS) (rspAuthsArray : option TSS2L_SYS_AUTH_RESPONSE)
    : out_prog (S:=S) _ :=
  out_check parameters (
  one_call (Tss2_Sys_TestParms_Prepare parameters) cmdAuthsArray rspAuthsArray
    Tss2_Sys_TestParms_Complete).

Definition Tss2_Sys_Unseal (itemHandle : Z) (cmdAuthsArray : option TSS2L_SYS_AUTH_COMMAND)
    (outData : option TPM2B) (rspAuthsArray : option TSS2L_SYS_AUTH_RESPONSE)
    : out_prog (S:=S) _ :=
  one_call (Tss2_Sys_Unseal_Prepare itemHandle) cmdAuthsArray rspAuthsArray
    (Tss2_Sys_Unseal_Complete outData).

Definition Tss2_Sys_Vendor_TCG_Test (cmdAuthsArray : option TSS2L_SYS_AUTH_COMMAND)
    (inputData : option TPM2B) (outputData : option TPM2B)
    (rspAuthsArray : option TSS2L_SYS_AUTH_RESPONSE) : out_prog (S:=S) _ :=
  one_call (Tss2_Sys_Vendor_TCG_Test_Prepare inputData) cmdAuthsArray rspAuthsArray
    (Tss2_Sys_Vendor_TCG_Test_Complete outputData).

Definition Tss2_Sys_VerifyDigestSignature (keyHandle : Z)
    (cmdAuthsArray : option TSS2L_SYS_AUTH_COMMAND) (digest : option TPM2B)
    (signature : option TPMT_SIGNATURE) (validation : option TPMT_TK_VERIFIED)
    (rspAuthsArray : option TSS2L_SYS_AUTH_RESPONSE) : out_prog (S:=S) _ :=
  out_check signature (
  one_call (Tss2_Sys_VerifyDigestSignature_Prepare keyHandle digest signature) cmdAuthsArray
    rspAuthsArray (Tss2_Sys_VerifyDigestSignature_Complete validation)).

Definition Tss2_Sys_VerifySequenceComplete (sequenceHandle : Z)
    (cmdAuthsArray : option TSS2L_SYS_AUTH_COMMAND) (buffer : option TPM2B)
    (validation : option TPMT_TK_VERIFIED) (rspAuthsArray : option TSS2L_SYS_AUTH_RESPONSE)
    : out_prog (S:=S) _ :=
  one_call (Tss2_Sys_VerifySequenceComplete_Prepare sequenceHandle buffer) cmdAuthsArray
    rspAuthsArray (Tss2_Sys_VerifySequenceComplete_Complete validation).

Definition Tss2_Sys_VerifySequenceStart (keyHandle : Z)
    (cmdAuthsArray : option TSS2L_SYS_AUTH_COMMAND) (signature : option TPMT_SIGNATURE)
    (sequenceHandle : option Z) (rspAuthsArray : option TSS2L_SYS_AUTH_RESPONSE)
    : out_prog (S:=S) _ :=
  one_call (Tss2_Sys_VerifySequenceStart_Prepare keyHandle signature) cmdAuthsArray
    rspAuthsArray (Tss2_Sys_VerifySequenceStart_Complete sequenceHandle).

Definition Tss2_Sys_VerifySignature (keyHandle : Z)
    (cmdAuthsArray : option TSS2L_SYS_AUTH_COMMAND) (digest : option TPM2B)
    (signature : option TPMT_SIGNATURE) (validation : option TPMT_TK_VERIFIED)
    (rspAuthsArray : option TSS2L_SYS_AUTH_RESPONSE) : out_prog (S:=S) _ :=
  out_check signature (
  one_call (Tss2_Sys_VerifySignature_Prepare keyHandle digest signature) cmdAuthsArray
    rspAuthsArray (Tss2_Sys_VerifySignature_Complete validation)).

Definition Tss2_Sys_ZGen_2Phase (keyA : Z) (cmdAuthsArray : option TSS2L_SYS_AUTH_COMMAND)
    (inQsB : option (TPM2B_SUB TPMS_ECC_POINT)) (inQeB : option (TPM2B_SUB TPMS_ECC_POINT))
    (inScheme : Z) (counter : Z) (outZ1 : option (TPM2B_SUB TPMS_ECC_POINT))
    (outZ2 : option (TPM2B_SUB TPMS_ECC_POINT))
    (rspAuthsArray : option TSS2L_SYS_AUTH_RESPONSE) : out_prog (S:=S) _ :=
  one_call (Tss2_Sys_ZGen_2Phase_Prepare keyA inQsB inQeB inScheme counter) cmdAuthsArray
    rspAuthsArray (Tss2_Sys_ZGen_2Phase_Complete outZ1 outZ2).

End OneCall.
