(* ===== verification/SysCmdsOk.v ===== *)
(** * Every [Prepare] function builds the command it is named after.

    [prepare_of cc hs ps d e a P]: [P] prepares the command [cc] with the
    handle area [hs] and the parameters whose images are [ps]; [d], [e] and
    [a] say whether its first parameter may be decrypted by the TPM, the first
    response parameter encrypted, and sessions attached. *)

From S2P Require Import Prelude Common MuSpec MuBase MuBaseOk MuStruct MuTpm2b MuTpm2bOk MuUnion MuPcr TpmTypes MuTypes MuTypesOk SysCodes Sys SysOk SysCmds.
Open Scope tss_scope.

(** Arguments of the commands: objects that can be marshaled, and optional
    sized buffers, for which NULL stands for the empty buffer. *)
Definition src_ok {T} (s : spec T) (x : T) : Prop := s_wf s x /\ s_dom s x.
Definition opt_ok {T} (s : spec T) (x : option T) : Prop :=
  match x with None => True | Some v => src_ok s v end.
Definition opt_wire {T} (s : spec T) (x : option T) : option bytes :=
  match x with None => Some (be_bytes 2 0) | Some v => s_wire s v end.

Section Calls.
Context {H : Host} {S : Type}.

Lemma appends_val {T} (f : T -> mstep) (s : spec T) x :
  SpecOk s -> marshal_ok f s -> src_ok s x ->
  appends (S:=S) (s_wire s x) (ctx_marshal (f x)).
Proof. intros O M [W D]. by apply appends_marshal. Qed.

Lemma appends_addr {T} (f : option T -> mstep) (s : spec T) x :
  SpecOk s -> marshal_ok (ADDR f) s -> src_ok s x ->
  appends (S:=S) (s_wire s x) (ctx_marshal (f (Some x))).
Proof. intros O M [W D]. exact (appends_marshal (ADDR f) s x O M W D). Qed.

Lemma appends_handle h :
  src_ok (spec_int UINT32) h ->
  appends (S:=S) (handle_wire h) (ctx_marshal (Tss2_MU_UINT32_Marshal h)).
Proof.
  intros A. destruct A as [W D]. pose proof (u32_bound _ W) as B.
  assert (E : handle_wire h = s_wire (spec_int UINT32) h).
  { unfold handle_wire. cbn [s_wire spec_int]. by rewrite to_unsigned_small. }
  rewrite E. apply appends_val; [apply _|apply BASE_MARSHAL_ok; ctype|done].
Qed.

Lemma appends_empty : appends (S:=S) (Some (be_bytes 2 0)) (ctx_marshal (Tss2_MU_UINT16_Marshal 0)).
Proof.
  apply (appends_val (BASE_MARSHAL UINT16) (spec_int UINT16) 0);
    [apply _|apply BASE_MARSHAL_ok; ctype|done].
Qed.

Lemma appends_null : appends (S:=S) (Some (be_bytes 2 0))
  (ctx_set (set_decryptNull true) ;;; ctx_marshal (Tss2_MU_UINT16_Marshal 0)).
Proof. exact (appends_seq _ _ _ _ (appends_decryptNull true) appends_empty). Qed.

Lemma appends_null_or {T} (s : spec T) x (m k : sysF S) :
  appends (Some (be_bytes 2 0)) m -> (forall v, x = Some v -> appends (s_wire s v) k) ->
  appends (opt_wire s x) (null_or x m k).
Proof. intros A B. destruct x as [v|]; [by apply B|done]. Qed.

Lemma rest_skip d e a ows (k : sysF S) :
  rest_ok d e a ows k -> rest_ok d e a ows (sys_return TSS2_RC_SUCCESS ;;; k).
Proof. done. Qed.

Lemma appends_skip ow (k : sysF S) : appends ow k -> appends ow (sys_return TSS2_RC_SUCCESS ;;; k).
Proof. done. Qed.

End Calls.

(** ** Automation *)

Ltac head_of t := match t with ?f _ => head_of f | _ => t end.

(** The marshal function of the call implements a format. *)
Ltac sys_codec :=
  first [ eapply co_marshal; solve [eauto 2 with mu]
        | eapply lo_marshal; solve [eauto 2 with mu] ].

Ltac sys_append :=
  lazymatch goal with
  | |- appends (handle_wire _) _ => apply appends_handle; assumption
  | |- appends _ (null_or _ _ _) =>
      apply appends_null_or;
      [ sys_append
      | let v := fresh in let E := fresh in intros v E; subst; sys_append ]
  | |- appends _ (sys_return _ ;;; _) => apply appends_skip; sys_append
  | |- appends _ (_ ;;; _) => apply appends_null
  | |- appends _ (ctx_marshal (Tss2_MU_UINT16_Marshal 0)) => apply appends_empty
  | _ => first [ eapply appends_addr; [apply _|sys_codec|assumption]
               | eapply appends_val; [apply _|sys_codec|assumption] ]
  end.

Ltac sys_tail :=
  apply rest_tail; let c := fresh in intros c (?&?&?); destruct c; simpl in *; subst; reflexivity.

Ltac sys_prepare :=
  cbv beta;
  match goal with |- prepares _ _ _ _ _ _ ?P => let h := head_of P in unfold h end;
  unfold check_ptr, check_empty, check_weak, IsAlgorithmWeak, ValidatePublicTemplate, ValidateNV_Public,
    ValidateTPML_PCR_SELECTION; cbn [is_null];
  try match goal with E : size _ = 0 |- _ => rewrite E; change (0 <? 0) with false end;
  change (TSS2_RC_SUCCESS =? 0) with true; cbv iota;
  apply prepares_intro; [vm_compute; split; congruence|reflexivity|cbn [map app]];
  repeat lazymatch goal with
  | |- rest_ok _ _ _ _ (sys_return _ ;;; _) => apply rest_skip
  | |- rest_ok _ _ _ (_ :: _) _ => eapply rest_cons; [sys_append|]
  | |- rest_ok _ _ _ [] _ => sys_tail
  end.

(** ** The commands *)

Section Registry.
Context {S : Type}.

Inductive prepare_of :
    Z -> list Z -> list (option bytes) -> bool -> bool -> bool -> (Host -> sysF S) -> Prop :=
| sys_ACT_SetTimeout (actHandle : Z) (startTimeout : Z) :
    src_ok (spec_int UINT32) actHandle ->
    src_ok (spec_int UINT32) startTimeout ->
    prepare_of TPM2_CC_ACT_SetTimeout
      [actHandle]
      [s_wire (spec_int UINT32) startTimeout]
      false false true (fun H => Tss2_Sys_ACT_SetTimeout_Prepare actHandle startTimeout)
| sys_AC_GetCapability (ac : Z) (capability : Z) (count : Z) :
    src_ok (spec_int UINT32) ac ->
    src_ok (spec_int UINT32) capability ->
    src_ok (spec_int UINT32) count ->
    prepare_of TPM2_CC_AC_GetCapability
      [ac]
      [s_wire (spec_int UINT32) capability; s_wire (spec_int UINT32) count]
      false false true (fun H => Tss2_Sys_AC_GetCapability_Prepare ac capability count)
| sys_AC_Send (sendObject : Z) (authHandle : Z) (ac : Z) (acDataIn : option TPM2B) :
    src_ok (spec_int UINT32) sendObject ->
    src_ok (spec_int UINT32) authHandle ->
    src_ok (spec_int UINT32) ac ->
    opt_ok spec_TPM2B_MAX_BUFFER acDataIn ->
    prepare_of TPM2_CC_AC_Send
      [sendObject; authHandle; ac]
      [opt_wire spec_TPM2B_MAX_BUFFER acDataIn]
      true false true (fun H => Tss2_Sys_AC_Send_Prepare sendObject authHandle ac acDataIn)
| sys_ActivateCredential (activateHandle : Z) (keyHandle : Z) (credentialBlob : option TPM2B)
    (secret : option TPM2B) :
    src_ok (spec_int UINT32) activateHandle ->
    src_ok (spec_int UINT32) keyHandle ->
    opt_ok spec_TPM2B_ID_OBJECT credentialBlob ->
    opt_ok spec_TPM2B_ENCRYPTED_SECRET secret ->
    prepare_of TPM2_CC_ActivateCredential
      [activateHandle; keyHandle]
      [opt_wire spec_TPM2B_ID_OBJECT credentialBlob;
       opt_wire spec_TPM2B_ENCRYPTED_SECRET secret]
      true true true (fun H => Tss2_Sys_ActivateCredential_Prepare activateHandle keyHandle
          credentialBlob secret)
| sys_Certify (objectHandle : Z) (signHandle : Z) (qualifyingData : option TPM2B) (inScheme :
    TPMT_SIG_SCHEME) :
    src_ok (spec_int UINT32) objectHandle ->
    src_ok (spec_int UINT32) signHandle ->
    opt_ok spec_TPM2B_DATA qualifyingData ->
    src_ok spec_TPMT_SIG_SCHEME inScheme ->
    prepare_of TPM2_CC_Certify
      [objectHandle; signHandle]
      [opt_wire spec_TPM2B_DATA qualifyingData; s_wire spec_TPMT_SIG_SCHEME inScheme]
      true true true (fun H => Tss2_Sys_Certify_Prepare objectHandle signHandle qualifyingData
          (Some inScheme))
| sys_CertifyCreation (signHandle : Z) (objectHandle : Z) (qualifyingData : option TPM2B)
    (creationHash : TPM2B) (inScheme : TPMT_SIG_SCHEME) (creationTicket : TPMT_TK_CREATION) :
    src_ok (spec_int UINT32) signHandle ->
    src_ok (spec_int UINT32) objectHandle ->
    opt_ok spec_TPM2B_DATA qualifyingData ->
    src_ok spec_TPM2B_DIGEST creationHash ->
    src_ok spec_TPMT_SIG_SCHEME inScheme ->
    src_ok spec_TPMT_TK_CREATION creationTicket ->
    prepare_of TPM2_CC_CertifyCreation
      [signHandle; objectHandle]
      [opt_wire spec_TPM2B_DATA qualifyingData;
       s_wire spec_TPM2B_DIGEST creationHash;
       s_wire spec_TPMT_SIG_SCHEME inScheme;
       s_wire spec_TPMT_TK_CREATION creationTicket]
      true true true (fun H => Tss2_Sys_CertifyCreation_Prepare signHandle objectHandle
          qualifyingData (Some creationHash) (Some inScheme) (Some creationTicket))
| sys_CertifyX509 (objectHandle : Z) (signHandle : Z) (reserved : TPM2B) (inScheme :
    TPMT_SIG_SCHEME) (partialCertificate : TPM2B) :
    src_ok (spec_int UINT32) objectHandle ->
    src_ok (spec_int UINT32) signHandle ->
    src_ok spec_TPM2B_DATA reserved ->
    src_ok spec_TPMT_SIG_SCHEME inScheme ->
    src_ok spec_TPM2B_MAX_BUFFER partialCertificate ->
    size reserved = 0 ->
    prepare_of TPM2_CC_CertifyX509
      [objectHandle; signHandle]
      [s_wire spec_TPM2B_DATA reserved;
       s_wire spec_TPMT_SIG_SCHEME inScheme;
       s_wire spec_TPM2B_MAX_BUFFER partialCertificate]
      true true true (fun H => Tss2_Sys_CertifyX509_Prepare objectHandle signHandle (Some
          reserved) (Some inScheme) (Some partialCertificate))
| sys_ChangeEPS (authHandle : Z) :
    src_ok (spec_int UINT32) authHandle ->
    prepare_of TPM2_CC_ChangeEPS
      [authHandle]
      []
      false false true (fun H => Tss2_Sys_ChangeEPS_Prepare authHandle)
| sys_ChangePPS (authHandle : Z) :
    src_ok (spec_int UINT32) authHandle ->
    prepare_of TPM2_CC_ChangePPS
      [authHandle]
      []
      false false true (fun H => Tss2_Sys_ChangePPS_Prepare authHandle)
| sys_Clear (authHandle : Z) :
    src_ok (spec_int UINT32) authHandle ->
    prepare_of TPM2_CC_Clear
      [authHandle]
      []
      false false true (fun H => Tss2_Sys_Clear_Prepare authHandle)
| sys_ClearControl (auth : Z) (disable : Z) :
    src_ok (spec_int UINT32) auth ->
    src_ok (spec_int UINT8) disable ->
    prepare_of TPM2_CC_ClearControl
      [auth]
      [s_wire (spec_int UINT8) disable]
      false false true (fun H => Tss2_Sys_ClearControl_Prepare auth disable)
| sys_ClockRateAdjust (auth : Z) (rateAdjust : Z) :
    src_ok (spec_int UINT32) auth ->
    src_ok (spec_int UINT8) rateAdjust ->
    prepare_of TPM2_CC_ClockRateAdjust
      [auth]
      [s_wire (spec_int UINT8) rateAdjust]
      false false true (fun H => Tss2_Sys_ClockRateAdjust_Prepare auth rateAdjust)
| sys_ClockSet (auth : Z) (newTime : Z) :
    src_ok (spec_int UINT32) auth ->
    src_ok (spec_int UINT64) newTime ->
    prepare_of TPM2_CC_ClockSet
      [auth]
      [s_wire (spec_int UINT64) newTime]
      false false true (fun H => Tss2_Sys_ClockSet_Prepare auth newTime)
| sys_Commit (signHandle : Z) (P1 : option (TPM2B_SUB TPMS_ECC_POINT)) (s2 : option TPM2B) (y2
    : option TPM2B) :
    src_ok (spec_int UINT32) signHandle ->
    opt_ok spec_TPM2B_ECC_POINT P1 ->
    opt_ok spec_TPM2B_SENSITIVE_DATA s2 ->
    opt_ok spec_TPM2B_ECC_PARAMETER y2 ->
    prepare_of TPM2_CC_Commit
      [signHandle]
      [opt_wire spec_TPM2B_ECC_POINT P1;
       opt_wire spec_TPM2B_SENSITIVE_DATA s2;
       opt_wire spec_TPM2B_ECC_PARAMETER y2]
      true true true (fun H => Tss2_Sys_Commit_Prepare signHandle P1 s2 y2)
| sys_ContextLoad (context : TPMS_CONTEXT) :
    src_ok spec_TPMS_CONTEXT context ->
    prepare_of TPM2_CC_ContextLoad
      []
      [s_wire spec_TPMS_CONTEXT context]
      false false false (fun H => Tss2_Sys_ContextLoad_Prepare (Some context))
| sys_ContextSave (saveHandle : Z) :
    src_ok (spec_int UINT32) saveHandle ->
    prepare_of TPM2_CC_ContextSave
      [saveHandle]
      []
      false false false (fun H => Tss2_Sys_ContextSave_Prepare saveHandle)
| sys_Create (parentHandle : Z) (inSensitive : option (TPM2B_SUB TPMS_SENSITIVE_CREATE))
    (inPublic : option (TPM2B_SUB TPMT_PUBLIC)) (outsideInfo : option TPM2B) (creationPCR :
        (TPML TPMS_PCR_SELECTION)) :
    src_ok (spec_int UINT32) parentHandle ->
    opt_ok spec_TPM2B_SENSITIVE_CREATE inSensitive ->
    opt_ok spec_TPM2B_PUBLIC inPublic ->
    opt_ok spec_TPM2B_DATA outsideInfo ->
    src_ok spec_TPML_PCR_SELECTION creationPCR ->
    prepare_of TPM2_CC_Create
      [parentHandle]
      [opt_wire spec_TPM2B_SENSITIVE_CREATE inSensitive;
       opt_wire spec_TPM2B_PUBLIC inPublic;
       opt_wire spec_TPM2B_DATA outsideInfo;
       s_wire spec_TPML_PCR_SELECTION creationPCR]
      true true true (fun H => Tss2_Sys_Create_Prepare parentHandle inSensitive inPublic
          outsideInfo (Some creationPCR))
| sys_CreateLoaded (parentHandle : Z) (inSensitive : option (TPM2B_SUB TPMS_SENSITIVE_CREATE))
    (inPublic : TPM2B) :
    src_ok (spec_int UINT32) parentHandle ->
    opt_ok spec_TPM2B_SENSITIVE_CREATE inSensitive ->
    src_ok spec_TPM2B_TEMPLATE inPublic ->
    prepare_of TPM2_CC_CreateLoaded
      [parentHandle]
      [opt_wire spec_TPM2B_SENSITIVE_CREATE inSensitive;
       s_wire spec_TPM2B_TEMPLATE inPublic]
      true true true (fun H => Tss2_Sys_CreateLoaded_Prepare parentHandle inSensitive (Some
          inPublic))
| sys_CreatePrimary (primaryHandle : Z) (inSensitive : option (TPM2B_SUB
    TPMS_SENSITIVE_CREATE)) (inPublic : option (TPM2B_SUB TPMT_PUBLIC)) (outsideInfo : option
        TPM2B) (creationPCR : (TPML TPMS_PCR_SELECTION)) :
    src_ok (spec_int UINT32) primaryHandle ->
    opt_ok spec_TPM2B_SENSITIVE_CREATE inSensitive ->
    opt_ok spec_TPM2B_PUBLIC inPublic ->
    opt_ok spec_TPM2B_DATA outsideInfo ->
    src_ok spec_TPML_PCR_SELECTION creationPCR ->
    prepare_of TPM2_CC_CreatePrimary
      [primaryHandle]
      [opt_wire spec_TPM2B_SENSITIVE_CREATE inSensitive;
       opt_wire spec_TPM2B_PUBLIC inPublic;
       opt_wire spec_TPM2B_DATA outsideInfo;
       s_wire spec_TPML_PCR_SELECTION creationPCR]
      true true true (fun H => Tss2_Sys_CreatePrimary_Prepare primaryHandle inSensitive
          inPublic outsideInfo (Some creationPCR))
| sys_Decapsulate (keyHandle : Z) (cipherText : option TPM2B) (label : option TPM2B) :
    src_ok (spec_int UINT32) keyHandle ->
    opt_ok spec_TPM2B_ENCRYPTED_SECRET cipherText ->
    opt_ok spec_TPM2B_DATA label ->
    prepare_of TPM2_CC_Decapsulate
      [keyHandle]
      [opt_wire spec_TPM2B_ENCRYPTED_SECRET cipherText; opt_wire spec_TPM2B_DATA label]
      true true true (fun H => Tss2_Sys_Decapsulate_Prepare keyHandle cipherText label)
| sys_DictionaryAttackLockReset (lockHandle : Z) :
    src_ok (spec_int UINT32) lockHandle ->
    prepare_of TPM2_CC_DictionaryAttackLockReset
      [lockHandle]
      []
      false false true (fun H => Tss2_Sys_DictionaryAttackLockReset_Prepare lockHandle)
| sys_DictionaryAttackParameters (lockHandle : Z) (newMaxTries : Z) (newRecoveryTime : Z)
    (lockoutRecovery : Z) :
    src_ok (spec_int UINT32) lockHandle ->
    src_ok (spec_int UINT32) newMaxTries ->
    src_ok (spec_int UINT32) newRecoveryTime ->
    src_ok (spec_int UINT32) lockoutRecovery ->
    prepare_of TPM2_CC_DictionaryAttackParameters
      [lockHandle]
      [s_wire (spec_int UINT32) newMaxTries;
       s_wire (spec_int UINT32) newRecoveryTime;
       s_wire (spec_int UINT32) lockoutRecovery]
      false false true (fun H => Tss2_Sys_DictionaryAttackParameters_Prepare lockHandle
          newMaxTries newRecoveryTime lockoutRecovery)
| sys_Duplicate (objectHandle : Z) (newParentHandle : Z) (encryptionKeyIn : option TPM2B)
    (symmetricAlg : TPMT_SYM_DEF_OBJECT) :
    src_ok (spec_int UINT32) objectHandle ->
    src_ok (spec_int UINT32) newParentHandle ->
    opt_ok spec_TPM2B_DATA encryptionKeyIn ->
    src_ok spec_TPMT_SYM_DEF_OBJECT symmetricAlg ->
    prepare_of TPM2_CC_Duplicate
      [objectHandle; newParentHandle]
      [opt_wire spec_TPM2B_DATA encryptionKeyIn;
       s_wire spec_TPMT_SYM_DEF_OBJECT symmetricAlg]
      true true true (fun H => Tss2_Sys_Duplicate_Prepare objectHandle newParentHandle
          encryptionKeyIn (Some symmetricAlg))
| sys_ECC_Decrypt (keyHandle : Z) (c1 : option (TPM2B_SUB TPMS_ECC_POINT)) (c2 : option TPM2B)
    (c3 : option TPM2B) (inScheme : TPMT_KDF_SCHEME) :
    src_ok (spec_int UINT32) keyHandle ->
    opt_ok spec_TPM2B_ECC_POINT c1 ->
    opt_ok spec_TPM2B_MAX_BUFFER c2 ->
    opt_ok spec_TPM2B_DIGEST c3 ->
    src_ok spec_TPMT_KDF_SCHEME inScheme ->
    prepare_of TPM2_CC_ECC_Decrypt
      [keyHandle]
      [opt_wire spec_TPM2B_ECC_POINT c1;
       opt_wire spec_TPM2B_MAX_BUFFER c2;
       opt_wire spec_TPM2B_DIGEST c3;
       s_wire spec_TPMT_KDF_SCHEME inScheme]
      true true true (fun H => Tss2_Sys_ECC_Decrypt_Prepare keyHandle c1 c2 c3 (Some inScheme))
| sys_ECC_Encrypt (keyHandle : Z) (platinText : option TPM2B) (inScheme : TPMT_KDF_SCHEME) :
    src_ok (spec_int UINT32) keyHandle ->
    opt_ok spec_TPM2B_MAX_BUFFER platinText ->
    src_ok spec_TPMT_KDF_SCHEME inScheme ->
    prepare_of TPM2_CC_ECC_Encrypt
      [keyHandle]
      [opt_wire spec_TPM2B_MAX_BUFFER platinText; s_wire spec_TPMT_KDF_SCHEME inScheme]
      true true true (fun H => Tss2_Sys_ECC_Encrypt_Prepare keyHandle platinText (Some
          inScheme))
| sys_ECC_Parameters (curveID : Z) :
    src_ok (spec_int UINT16) curveID ->
    prepare_of TPM2_CC_ECC_Parameters
      []
      [s_wire (spec_int UINT16) curveID]
      false false true (fun H => Tss2_Sys_ECC_Parameters_Prepare curveID)
| sys_ECDH_KeyGen (keyHandle : Z) :
    src_ok (spec_int UINT32) keyHandle ->
    prepare_of TPM2_CC_ECDH_KeyGen
      [keyHandle]
      []
      false true true (fun H => Tss2_Sys_ECDH_KeyGen_Prepare keyHandle)
| sys_ECDH_ZGen (keyHandle : Z) (inPoint : option (TPM2B_SUB TPMS_ECC_POINT)) :
    src_ok (spec_int UINT32) keyHandle ->
    opt_ok spec_TPM2B_ECC_POINT inPoint ->
    prepare_of TPM2_CC_ECDH_ZGen
      [keyHandle]
      [opt_wire spec_TPM2B_ECC_POINT inPoint]
      true true true (fun H => Tss2_Sys_ECDH_ZGen_Prepare keyHandle inPoint)
| sys_EC_Ephemeral (curveID : Z) :
    src_ok (spec_int UINT16) curveID ->
    prepare_of TPM2_CC_EC_Ephemeral
      []
      [s_wire (spec_int UINT16) curveID]
      false true true (fun H => Tss2_Sys_EC_Ephemeral_Prepare curveID)
| sys_Encapsulate (keyHandle : Z) (label : option TPM2B) :
    src_ok (spec_int UINT32) keyHandle ->
    opt_ok spec_TPM2B_DATA label ->
    prepare_of TPM2_CC_Encapsulate
      [keyHandle]
      [opt_wire spec_TPM2B_DATA label]
      true true true (fun H => Tss2_Sys_Encapsulate_Prepare keyHandle label)
| sys_EncryptDecrypt (keyHandle : Z) (decrypt : Z) (mode : Z) (ivIn : option TPM2B) (inData :
    option TPM2B) :
    src_ok (spec_int UINT32) keyHandle ->
    src_ok (spec_int UINT8) decrypt ->
    src_ok (spec_int UINT16) mode ->
    opt_ok spec_TPM2B_IV ivIn ->
    opt_ok spec_TPM2B_MAX_BUFFER inData ->
    prepare_of TPM2_CC_EncryptDecrypt
      [keyHandle]
      [s_wire (spec_int UINT8) decrypt;
       s_wire (spec_int UINT16) mode;
       opt_wire spec_TPM2B_IV ivIn;
       opt_wire spec_TPM2B_MAX_BUFFER inData]
      false true true (fun H => Tss2_Sys_EncryptDecrypt_Prepare keyHandle decrypt mode ivIn
          inData)
| sys_EncryptDecrypt2 (keyHandle : Z) (inData : option TPM2B) (decrypt : Z) (mode : Z) (ivIn :
    option TPM2B) :
    src_ok (spec_int UINT32) keyHandle ->
    opt_ok spec_TPM2B_MAX_BUFFER inData ->
    src_ok (spec_int UINT8) decrypt ->
    src_ok (spec_int UINT16) mode ->
    opt_ok spec_TPM2B_IV ivIn ->
    prepare_of TPM2_CC_EncryptDecrypt2
      [keyHandle]
      [opt_wire spec_TPM2B_MAX_BUFFER inData;
       s_wire (spec_int UINT8) decrypt;
       s_wire (spec_int UINT16) mode;
       opt_wire spec_TPM2B_IV ivIn]
      true true true (fun H => Tss2_Sys_EncryptDecrypt2_Prepare keyHandle inData decrypt mode
          ivIn)
| sys_EventSequenceComplete (pcrHandle : Z) (sequenceHandle : Z) (buffer : option TPM2B) :
    src_ok (spec_int UINT32) pcrHandle ->
    src_ok (spec_int UINT32) sequenceHandle ->
    opt_ok spec_TPM2B_MAX_BUFFER buffer ->
    prepare_of TPM2_CC_EventSequenceComplete
      [pcrHandle; sequenceHandle]
      [opt_wire spec_TPM2B_MAX_BUFFER buffer]
      true false true (fun H => Tss2_Sys_EventSequenceComplete_Prepare pcrHandle sequenceHandle
          buffer)
| sys_EvictControl (auth : Z) (objectHandle : Z) (persistentHandle : Z) :
    src_ok (spec_int UINT32) auth ->
    src_ok (spec_int UINT32) objectHandle ->
    src_ok (spec_int UINT32) persistentHandle ->
    prepare_of TPM2_CC_EvictControl
      [auth; objectHandle]
      [s_wire (spec_int UINT32) persistentHandle]
      false false true (fun H => Tss2_Sys_EvictControl_Prepare auth objectHandle
          persistentHandle)
| sys_FieldUpgradeData (fuData : option TPM2B) :
    opt_ok spec_TPM2B_MAX_BUFFER fuData ->
    prepare_of TPM2_CC_FieldUpgradeData
      []
      [opt_wire spec_TPM2B_MAX_BUFFER fuData]
      true false true (fun H => Tss2_Sys_FieldUpgradeData_Prepare fuData)
| sys_FieldUpgradeStart (authorization : Z) (keyHandle : Z) (fuDigest : option TPM2B)
    (manifestSignature : TPMT_SIGNATURE) :
    src_ok (spec_int UINT32) authorization ->
    src_ok (spec_int UINT32) keyHandle ->
    opt_ok spec_TPM2B_DIGEST fuDigest ->
    src_ok spec_TPMT_SIGNATURE manifestSignature ->
    prepare_of TPM2_CC_FieldUpgradeStart
      [authorization; keyHandle]
      [opt_wire spec_TPM2B_DIGEST fuDigest;
       s_wire spec_TPMT_SIGNATURE manifestSignature]
      true false true (fun H => Tss2_Sys_FieldUpgradeStart_Prepare authorization keyHandle
          fuDigest (Some manifestSignature))
| sys_FirmwareRead (sequenceNumber : Z) :
    src_ok (spec_int UINT32) sequenceNumber ->
    prepare_of TPM2_CC_FirmwareRead
      []
      [s_wire (spec_int UINT32) sequenceNumber]
      false true true (fun H => Tss2_Sys_FirmwareRead_Prepare sequenceNumber)
| sys_FlushContext (flushHandle : Z) :
    src_ok (spec_int UINT32) flushHandle ->
    prepare_of TPM2_CC_FlushContext
      []
      [s_wire (spec_int UINT32) flushHandle]
      false false false (fun H => Tss2_Sys_FlushContext_Prepare flushHandle)
| sys_GetCapability (capability : Z) (property : Z) (propertyCount : Z) :
    src_ok (spec_int UINT32) capability ->
    src_ok (spec_int UINT32) property ->
    src_ok (spec_int UINT32) propertyCount ->
    prepare_of TPM2_CC_GetCapability
      []
      [s_wire (spec_int UINT32) capability;
       s_wire (spec_int UINT32) property;
       s_wire (spec_int UINT32) propertyCount]
      false false true (fun H => Tss2_Sys_GetCapability_Prepare capability property
          propertyCount)
| sys_GetCommandAuditDigest (privacyHandle : Z) (signHandle : Z) (qualifyingData : option
    TPM2B) (inScheme : TPMT_SIG_SCHEME) :
    src_ok (spec_int UINT32) privacyHandle ->
    src_ok (spec_int UINT32) signHandle ->
    opt_ok spec_TPM2B_DATA qualifyingData ->
    src_ok spec_TPMT_SIG_SCHEME inScheme ->
    prepare_of TPM2_CC_GetCommandAuditDigest
      [privacyHandle; signHandle]
      [opt_wire spec_TPM2B_DATA qualifyingData; s_wire spec_TPMT_SIG_SCHEME inScheme]
      true true true (fun H => Tss2_Sys_GetCommandAuditDigest_Prepare privacyHandle signHandle
          qualifyingData (Some inScheme))
| sys_GetRandom (bytesRequested : Z) :
    src_ok (spec_int UINT16) bytesRequested ->
    prepare_of TPM2_CC_GetRandom
      []
      [s_wire (spec_int UINT16) bytesRequested]
      false true true (fun H => Tss2_Sys_GetRandom_Prepare bytesRequested)
| sys_GetSessionAuditDigest (privacyAdminHandle : Z) (signHandle : Z) (sessionHandle : Z)
    (qualifyingData : option TPM2B) (inScheme : TPMT_SIG_SCHEME) :
    src_ok (spec_int UINT32) privacyAdminHandle ->
    src_ok (spec_int UINT32) signHandle ->
    src_ok (spec_int UINT32) sessionHandle ->
    opt_ok spec_TPM2B_DATA qualifyingData ->
    src_ok spec_TPMT_SIG_SCHEME inScheme ->
    prepare_of TPM2_CC_GetSessionAuditDigest
      [privacyAdminHandle; signHandle; sessionHandle]
      [opt_wire spec_TPM2B_DATA qualifyingData; s_wire spec_TPMT_SIG_SCHEME inScheme]
      true true true (fun H => Tss2_Sys_GetSessionAuditDigest_Prepare privacyAdminHandle
          signHandle sessionHandle qualifyingData (Some inScheme))
| sys_GetTestResult  :
    prepare_of TPM2_CC_GetTestResult
      []
      []
      false true true (fun H => Tss2_Sys_GetTestResult_Prepare)
| sys_GetTime (privacyAdminHandle : Z) (signHandle : Z) (qualifyingData : option TPM2B)
    (inScheme : TPMT_SIG_SCHEME) :
    src_ok (spec_int UINT32) privacyAdminHandle ->
    src_ok (spec_int UINT32) signHandle ->
    opt_ok spec_TPM2B_DATA qualifyingData ->
    src_ok spec_TPMT_SIG_SCHEME inScheme ->
    prepare_of TPM2_CC_GetTime
      [privacyAdminHandle; signHandle]
      [opt_wire spec_TPM2B_DATA qualifyingData; s_wire spec_TPMT_SIG_SCHEME inScheme]
      true true true (fun H => Tss2_Sys_GetTime_Prepare privacyAdminHandle signHandle
          qualifyingData (Some inScheme))
| sys_HMAC (handle : Z) (buffer : option TPM2B) (hashAlg : Z) :
    src_ok (spec_int UINT32) handle ->
    opt_ok spec_TPM2B_MAX_BUFFER buffer ->
    src_ok (spec_int UINT16) hashAlg ->
    prepare_of TPM2_CC_HMAC
      [handle]
      [opt_wire spec_TPM2B_MAX_BUFFER buffer; s_wire (spec_int UINT16) hashAlg]
      true true true (fun H => Tss2_Sys_HMAC_Prepare handle buffer hashAlg)
| sys_HMAC_Start (handle : Z) (auth : option TPM2B) (hashAlg : Z) :
    src_ok (spec_int UINT32) handle ->
    opt_ok spec_TPM2B_AUTH auth ->
    src_ok (spec_int UINT16) hashAlg ->
    prepare_of TPM2_CC_HMAC_Start
      [handle]
      [opt_wire spec_TPM2B_AUTH auth; s_wire (spec_int UINT16) hashAlg]
      true false true (fun H => Tss2_Sys_HMAC_Start_Prepare handle auth hashAlg)
| sys_Hash (data : option TPM2B) (hashAlg : Z) (hierarchy : Z) :
    opt_ok spec_TPM2B_MAX_BUFFER data ->
    src_ok (spec_int UINT16) hashAlg ->
    src_ok (spec_int UINT32) hierarchy ->
    prepare_of TPM2_CC_Hash
      []
      [opt_wire spec_TPM2B_MAX_BUFFER data;
       s_wire (spec_int UINT16) hashAlg;
       s_wire (spec_int UINT32) hierarchy]
      true true true (fun H => Tss2_Sys_Hash_Prepare data hashAlg hierarchy)
| sys_HashSequenceStart (auth : option TPM2B) (hashAlg : Z) :
    opt_ok spec_TPM2B_AUTH auth ->
    src_ok (spec_int UINT16) hashAlg ->
    prepare_of TPM2_CC_HashSequenceStart
      []
      [opt_wire spec_TPM2B_AUTH auth; s_wire (spec_int UINT16) hashAlg]
      true false true (fun H => Tss2_Sys_HashSequenceStart_Prepare auth hashAlg)
| sys_HierarchyChangeAuth (authHandle : Z) (newAuth : option TPM2B) :
    src_ok (spec_int UINT32) authHandle ->
    opt_ok spec_TPM2B_AUTH newAuth ->
    prepare_of TPM2_CC_HierarchyChangeAuth
      [authHandle]
      [opt_wire spec_TPM2B_AUTH newAuth]
      true false true (fun H => Tss2_Sys_HierarchyChangeAuth_Prepare authHandle newAuth)
| sys_HierarchyControl (authHandle : Z) (enable : Z) (state : Z) :
    src_ok (spec_int UINT32) authHandle ->
    src_ok (spec_int UINT32) enable ->
    src_ok (spec_int UINT8) state ->
    prepare_of TPM2_CC_HierarchyControl
      [authHandle]
      [s_wire (spec_int UINT32) enable; s_wire (spec_int UINT8) state]
      false false true (fun H => Tss2_Sys_HierarchyControl_Prepare authHandle enable state)
| sys_Import (parentHandle : Z) (encryptionKey : option TPM2B) (objectPublic : option
    (TPM2B_SUB TPMT_PUBLIC)) (duplicate : option TPM2B) (inSymSeed : option TPM2B)
        (symmetricAlg : TPMT_SYM_DEF_OBJECT) :
    src_ok (spec_int UINT32) parentHandle ->
    opt_ok spec_TPM2B_DATA encryptionKey ->
    opt_ok spec_TPM2B_PUBLIC objectPublic ->
    opt_ok spec_TPM2B_PRIVATE duplicate ->
    opt_ok spec_TPM2B_ENCRYPTED_SECRET inSymSeed ->
    src_ok spec_TPMT_SYM_DEF_OBJECT symmetricAlg ->
    prepare_of TPM2_CC_Import
      [parentHandle]
      [opt_wire spec_TPM2B_DATA encryptionKey;
       opt_wire spec_TPM2B_PUBLIC objectPublic;
       opt_wire spec_TPM2B_PRIVATE duplicate;
       opt_wire spec_TPM2B_ENCRYPTED_SECRET inSymSeed;
       s_wire spec_TPMT_SYM_DEF_OBJECT symmetricAlg]
      true true true (fun H => Tss2_Sys_Import_Prepare parentHandle encryptionKey objectPublic
          duplicate inSymSeed (Some symmetricAlg))
| sys_IncrementalSelfTest (toTest : (TPML Z)) :
    src_ok spec_TPML_ALG toTest ->
    prepare_of TPM2_CC_IncrementalSelfTest
      []
      [s_wire spec_TPML_ALG toTest]
      false false true (fun H => Tss2_Sys_IncrementalSelfTest_Prepare (Some toTest))
| sys_Load (parentHandle : Z) (inPrivate : option TPM2B) (inPublic : option (TPM2B_SUB
    TPMT_PUBLIC)) :
    src_ok (spec_int UINT32) parentHandle ->
    opt_ok spec_TPM2B_PRIVATE inPrivate ->
    opt_ok spec_TPM2B_PUBLIC inPublic ->
    prepare_of TPM2_CC_Load
      [parentHandle]
      [opt_wire spec_TPM2B_PRIVATE inPrivate; opt_wire spec_TPM2B_PUBLIC inPublic]
      true true true (fun H => Tss2_Sys_Load_Prepare parentHandle inPrivate inPublic)
| sys_LoadExternal (inPrivate : option (TPM2B_SUB TPMT_SENSITIVE)) (inPublic : option
    (TPM2B_SUB TPMT_PUBLIC)) (hierarchy : Z) :
    opt_ok spec_TPM2B_SENSITIVE inPrivate ->
    opt_ok spec_TPM2B_PUBLIC inPublic ->
    src_ok (spec_int UINT32) hierarchy ->
    prepare_of TPM2_CC_LoadExternal
      []
      [opt_wire spec_TPM2B_SENSITIVE inPrivate;
       opt_wire spec_TPM2B_PUBLIC inPublic;
       s_wire (spec_int UINT32) hierarchy]
      true true true (fun H => Tss2_Sys_LoadExternal_Prepare inPrivate inPublic hierarchy)
| sys_MAC (handle : Z) (buffer : option TPM2B) (inScheme : Z) :
    src_ok (spec_int UINT32) handle ->
    opt_ok spec_TPM2B_MAX_BUFFER buffer ->
    src_ok (spec_int UINT16) inScheme ->
    prepare_of TPM2_CC_MAC
      [handle]
      [opt_wire spec_TPM2B_MAX_BUFFER buffer; s_wire (spec_int UINT16) inScheme]
      true true true (fun H => Tss2_Sys_MAC_Prepare handle buffer inScheme)
| sys_MAC_Start (handle : Z) (auth : option TPM2B) (inScheme : Z) :
    src_ok (spec_int UINT32) handle ->
    opt_ok spec_TPM2B_AUTH auth ->
    src_ok (spec_int UINT16) inScheme ->
    prepare_of TPM2_CC_MAC_Start
      [handle]
      [opt_wire spec_TPM2B_AUTH auth; s_wire (spec_int UINT16) inScheme]
      true false true (fun H => Tss2_Sys_MAC_Start_Prepare handle auth inScheme)
| sys_MakeCredential (handle : Z) (credential : option TPM2B) (objectName : option TPM2B) :
    src_ok (spec_int UINT32) handle ->
    opt_ok spec_TPM2B_DIGEST credential ->
    opt_ok spec_TPM2B_NAME objectName ->
    prepare_of TPM2_CC_MakeCredential
      [handle]
      [opt_wire spec_TPM2B_DIGEST credential; opt_wire spec_TPM2B_NAME objectName]
      true true true (fun H => Tss2_Sys_MakeCredential_Prepare handle credential objectName)
| sys_NV_Certify (signHandle : Z) (authHandle : Z) (nvIndex : Z) (qualifyingData : option
    TPM2B) (inScheme : TPMT_SIG_SCHEME) (size : Z) (offset : Z) :
    src_ok (spec_int UINT32) signHandle ->
    src_ok (spec_int UINT32) authHandle ->
    src_ok (spec_int UINT32) nvIndex ->
    opt_ok spec_TPM2B_DATA qualifyingData ->
    src_ok spec_TPMT_SIG_SCHEME inScheme ->
    src_ok (spec_int UINT16) size ->
    src_ok (spec_int UINT16) offset ->
    prepare_of TPM2_CC_NV_Certify
      [signHandle; authHandle; nvIndex]
      [opt_wire spec_TPM2B_DATA qualifyingData;
       s_wire spec_TPMT_SIG_SCHEME inScheme;
       s_wire (spec_int UINT16) size;
       s_wire (spec_int UINT16) offset]
      true true true (fun H => Tss2_Sys_NV_Certify_Prepare signHandle authHandle nvIndex
          qualifyingData (Some inScheme) size offset)
| sys_NV_ChangeAuth (nvIndex : Z) (newAuth : option TPM2B) :
    src_ok (spec_int UINT32) nvIndex ->
    opt_ok spec_TPM2B_AUTH newAuth ->
    prepare_of TPM2_CC_NV_ChangeAuth
      [nvIndex]
      [opt_wire spec_TPM2B_AUTH newAuth]
      true false true (fun H => Tss2_Sys_NV_ChangeAuth_Prepare nvIndex newAuth)
| sys_NV_DefineSpace (authHandle : Z) (auth : option TPM2B) (publicInfo : option (TPM2B_SUB
    TPMS_NV_PUBLIC)) :
    src_ok (spec_int UINT32) authHandle ->
    opt_ok spec_TPM2B_AUTH auth ->
    opt_ok spec_TPM2B_NV_PUBLIC publicInfo ->
    prepare_of TPM2_CC_NV_DefineSpace
      [authHandle]
      [opt_wire spec_TPM2B_AUTH auth; opt_wire spec_TPM2B_NV_PUBLIC publicInfo]
      true false true (fun H => Tss2_Sys_NV_DefineSpace_Prepare authHandle auth publicInfo)
| sys_NV_Extend (authHandle : Z) (nvIndex : Z) (data : option TPM2B) :
    src_ok (spec_int UINT32) authHandle ->
    src_ok (spec_int UINT32) nvIndex ->
    opt_ok spec_TPM2B_MAX_NV_BUFFER data ->
    prepare_of TPM2_CC_NV_Extend
      [authHandle; nvIndex]
      [opt_wire spec_TPM2B_MAX_NV_BUFFER data]
      true false true (fun H => Tss2_Sys_NV_Extend_Prepare authHandle nvIndex data)
| sys_NV_GlobalWriteLock (authHandle : Z) :
    src_ok (spec_int UINT32) authHandle ->
    prepare_of TPM2_CC_NV_GlobalWriteLock
      [authHandle]
      []
      false false true (fun H => Tss2_Sys_NV_GlobalWriteLock_Prepare authHandle)
| sys_NV_Increment (authHandle : Z) (nvIndex : Z) :
    src_ok (spec_int UINT32) authHandle ->
    src_ok (spec_int UINT32) nvIndex ->
    prepare_of TPM2_CC_NV_Increment
      [authHandle; nvIndex]
      []
      false false true (fun H => Tss2_Sys_NV_Increment_Prepare authHandle nvIndex)
| sys_NV_Read (authHandle : Z) (nvIndex : Z) (size : Z) (offset : Z) :
    src_ok (spec_int UINT32) authHandle ->
    src_ok (spec_int UINT32) nvIndex ->
    src_ok (spec_int UINT16) size ->
    src_ok (spec_int UINT16) offset ->
    prepare_of TPM2_CC_NV_Read
      [authHandle; nvIndex]
      [s_wire (spec_int UINT16) size; s_wire (spec_int UINT16) offset]
      false true true (fun H => Tss2_Sys_NV_Read_Prepare authHandle nvIndex size offset)
| sys_NV_ReadLock (authHandle : Z) (nvIndex : Z) :
    src_ok (spec_int UINT32) authHandle ->
    src_ok (spec_int UINT32) nvIndex ->
    prepare_of TPM2_CC_NV_ReadLock
      [authHandle; nvIndex]
      []
      false false true (fun H => Tss2_Sys_NV_ReadLock_Prepare authHandle nvIndex)
| sys_NV_ReadPublic (nvIndex : Z) :
    src_ok (spec_int UINT32) nvIndex ->
    prepare_of TPM2_CC_NV_ReadPublic
      [nvIndex]
      []
      false true true (fun H => Tss2_Sys_NV_ReadPublic_Prepare nvIndex)
| sys_NV_SetBits (authHandle : Z) (nvIndex : Z) (bits : Z) :
    src_ok (spec_int UINT32) authHandle ->
    src_ok (spec_int UINT32) nvIndex ->
    src_ok (spec_int UINT64) bits ->
    prepare_of TPM2_CC_NV_SetBits
      [authHandle; nvIndex]
      [s_wire (spec_int UINT64) bits]
      false false true (fun H => Tss2_Sys_NV_SetBits_Prepare authHandle nvIndex bits)
| sys_NV_UndefineSpace (authHandle : Z) (nvIndex : Z) :
    src_ok (spec_int UINT32) authHandle ->
    src_ok (spec_int UINT32) nvIndex ->
    prepare_of TPM2_CC_NV_UndefineSpace
      [authHandle; nvIndex]
      []
      false false true (fun H => Tss2_Sys_NV_UndefineSpace_Prepare authHandle nvIndex)
| sys_NV_UndefineSpaceSpecial (nvIndex : Z) (platform : Z) :
    src_ok (spec_int UINT32) nvIndex ->
    src_ok (spec_int UINT32) platform ->
    prepare_of TPM2_CC_NV_UndefineSpaceSpecial
      [nvIndex; platform]
      []
      false false true (fun H => Tss2_Sys_NV_UndefineSpaceSpecial_Prepare nvIndex platform)
| sys_NV_Write (authHandle : Z) (nvIndex : Z) (data : option TPM2B) (offset : Z) :
    src_ok (spec_int UINT32) authHandle ->
    src_ok (spec_int UINT32) nvIndex ->
    opt_ok spec_TPM2B_MAX_NV_BUFFER data ->
    src_ok (spec_int UINT16) offset ->
    prepare_of TPM2_CC_NV_Write
      [authHandle; nvIndex]
      [opt_wire spec_TPM2B_MAX_NV_BUFFER data; s_wire (spec_int UINT16) offset]
      true false true (fun H => Tss2_Sys_NV_Write_Prepare authHandle nvIndex data offset)
| sys_NV_WriteLock (authHandle : Z) (nvIndex : Z) :
    src_ok (spec_int UINT32) authHandle ->
    src_ok (spec_int UINT32) nvIndex ->
    prepare_of TPM2_CC_NV_WriteLock
      [authHandle; nvIndex]
      []
      false false true (fun H => Tss2_Sys_NV_WriteLock_Prepare authHandle nvIndex)
| sys_ObjectChangeAuth (objectHandle : Z) (parentHandle : Z) (newAuth : option TPM2B) :
    src_ok (spec_int UINT32) objectHandle ->
    src_ok (spec_int UINT32) parentHandle ->
    opt_ok spec_TPM2B_AUTH newAuth ->
    prepare_of TPM2_CC_ObjectChangeAuth
      [objectHandle; parentHandle]
      [opt_wire spec_TPM2B_AUTH newAuth]
      true true true (fun H => Tss2_Sys_ObjectChangeAuth_Prepare objectHandle parentHandle
          newAuth)
| sys_PCR_Allocate (authHandle : Z) (pcrAllocation : (TPML TPMS_PCR_SELECTION)) :
    src_ok (spec_int UINT32) authHandle ->
    src_ok spec_TPML_PCR_SELECTION pcrAllocation ->
    prepare_of TPM2_CC_PCR_Allocate
      [authHandle]
      [s_wire spec_TPML_PCR_SELECTION pcrAllocation]
      false false true (fun H => Tss2_Sys_PCR_Allocate_Prepare authHandle (Some pcrAllocation))
| sys_PCR_Event (pcrHandle : Z) (eventData : option TPM2B) :
    src_ok (spec_int UINT32) pcrHandle ->
    opt_ok spec_TPM2B_EVENT eventData ->
    prepare_of TPM2_CC_PCR_Event
      [pcrHandle]
      [opt_wire spec_TPM2B_EVENT eventData]
      true false true (fun H => Tss2_Sys_PCR_Event_Prepare pcrHandle eventData)
| sys_PCR_Extend (pcrHandle : Z) (digests : (TPML TPMT_HA)) :
    src_ok (spec_int UINT32) pcrHandle ->
    src_ok spec_TPML_DIGEST_VALUES digests ->
    prepare_of TPM2_CC_PCR_Extend
      [pcrHandle]
      [s_wire spec_TPML_DIGEST_VALUES digests]
      false false true (fun H => Tss2_Sys_PCR_Extend_Prepare pcrHandle (Some digests))
| sys_PCR_Read (pcrSelectionIn : (TPML TPMS_PCR_SELECTION)) :
    src_ok spec_TPML_PCR_SELECTION pcrSelectionIn ->
    prepare_of TPM2_CC_PCR_Read
      []
      [s_wire spec_TPML_PCR_SELECTION pcrSelectionIn]
      false false true (fun H => Tss2_Sys_PCR_Read_Prepare (Some pcrSelectionIn))
| sys_PCR_Reset (pcrHandle : Z) :
    src_ok (spec_int UINT32) pcrHandle ->
    prepare_of TPM2_CC_PCR_Reset
      [pcrHandle]
      []
      false false true (fun H => Tss2_Sys_PCR_Reset_Prepare pcrHandle)
| sys_PCR_SetAuthPolicy (authHandle : Z) (authPolicy : option TPM2B) (hashAlg : Z) (pcrNum : Z)
    :
    src_ok (spec_int UINT32) authHandle ->
    opt_ok spec_TPM2B_DIGEST authPolicy ->
    src_ok (spec_int UINT16) hashAlg ->
    src_ok (spec_int UINT32) pcrNum ->
    prepare_of TPM2_CC_PCR_SetAuthPolicy
      [authHandle]
      [opt_wire spec_TPM2B_DIGEST authPolicy;
       s_wire (spec_int UINT16) hashAlg;
       s_wire (spec_int UINT32) pcrNum]
      true false true (fun H => Tss2_Sys_PCR_SetAuthPolicy_Prepare authHandle authPolicy
          hashAlg pcrNum)
| sys_PCR_SetAuthValue (pcrHandle : Z) (auth : option TPM2B) :
    src_ok (spec_int UINT32) pcrHandle ->
    opt_ok spec_TPM2B_DIGEST auth ->
    prepare_of TPM2_CC_PCR_SetAuthValue
      [pcrHandle]
      [opt_wire spec_TPM2B_DIGEST auth]
      true false true (fun H => Tss2_Sys_PCR_SetAuthValue_Prepare pcrHandle auth)
| sys_PP_Commands (auth : Z) (setList : (TPML Z)) (clearList : (TPML Z)) :
    src_ok (spec_int UINT32) auth ->
    src_ok spec_TPML_CC setList ->
    src_ok spec_TPML_CC clearList ->
    prepare_of TPM2_CC_PP_Commands
      [auth]
      [s_wire spec_TPML_CC setList; s_wire spec_TPML_CC clearList]
      false false true (fun H => Tss2_Sys_PP_Commands_Prepare auth (Some setList) (Some
          clearList))
| sys_PolicyAuthValue (policySession : Z) :
    src_ok (spec_int UINT32) policySession ->
    prepare_of TPM2_CC_PolicyAuthValue
      [policySession]
      []
      false false true (fun H => Tss2_Sys_PolicyAuthValue_Prepare policySession)
| sys_PolicyAuthorize (policySession : Z) (approvedPolicy : option TPM2B) (policyRef : option
    TPM2B) (keySign : option TPM2B) (checkTicket : TPMT_TK_VERIFIED) :
    src_ok (spec_int UINT32) policySession ->
    opt_ok spec_TPM2B_DIGEST approvedPolicy ->
    opt_ok spec_TPM2B_NONCE policyRef ->
    opt_ok spec_TPM2B_NAME keySign ->
    src_ok spec_TPMT_TK_VERIFIED checkTicket ->
    prepare_of TPM2_CC_PolicyAuthorize
      [policySession]
      [opt_wire spec_TPM2B_DIGEST approvedPolicy;
       opt_wire spec_TPM2B_NONCE policyRef;
       opt_wire spec_TPM2B_NAME keySign;
       s_wire spec_TPMT_TK_VERIFIED checkTicket]
      true false true (fun H => Tss2_Sys_PolicyAuthorize_Prepare policySession approvedPolicy
          policyRef keySign (Some checkTicket))
| sys_PolicyAuthorizeNV (authHandle : Z) (nvIndex : Z) (policySession : Z) :
    src_ok (spec_int UINT32) authHandle ->
    src_ok (spec_int UINT32) nvIndex ->
    src_ok (spec_int UINT32) policySession ->
    prepare_of TPM2_CC_PolicyAuthorizeNV
      [authHandle; nvIndex; policySession]
      []
      false false true (fun H => Tss2_Sys_PolicyAuthorizeNV_Prepare authHandle nvIndex
          policySession)
| sys_PolicyCommandCode (policySession : Z) (code : Z) :
    src_ok (spec_int UINT32) policySession ->
    src_ok (spec_int UINT32) code ->
    prepare_of TPM2_CC_PolicyCommandCode
      [policySession]
      [s_wire (spec_int UINT32) code]
      false false true (fun H => Tss2_Sys_PolicyCommandCode_Prepare policySession code)
| sys_PolicyCounterTimer (policySession : Z) (operandB : option TPM2B) (offset : Z) (operation
    : Z) :
    src_ok (spec_int UINT32) policySession ->
    opt_ok spec_TPM2B_OPERAND operandB ->
    src_ok (spec_int UINT16) offset ->
    src_ok (spec_int UINT16) operation ->
    prepare_of TPM2_CC_PolicyCounterTimer
      [policySession]
      [opt_wire spec_TPM2B_OPERAND operandB;
       s_wire (spec_int UINT16) offset;
       s_wire (spec_int UINT16) operation]
      true false true (fun H => Tss2_Sys_PolicyCounterTimer_Prepare policySession operandB
          offset operation)
| sys_PolicyCpHash (policySession : Z) (cpHashA : option TPM2B) :
    src_ok (spec_int UINT32) policySession ->
    opt_ok spec_TPM2B_DIGEST cpHashA ->
    prepare_of TPM2_CC_PolicyCpHash
      [policySession]
      [opt_wire spec_TPM2B_DIGEST cpHashA]
      true false true (fun H => Tss2_Sys_PolicyCpHash_Prepare policySession cpHashA)
| sys_PolicyDuplicationSelect (policySession : Z) (objectName : option TPM2B) (newParentName :
    option TPM2B) (includeObject : Z) :
    src_ok (spec_int UINT32) policySession ->
    opt_ok spec_TPM2B_NAME objectName ->
    opt_ok spec_TPM2B_NAME newParentName ->
    src_ok (spec_int UINT8) includeObject ->
    prepare_of TPM2_CC_PolicyDuplicationSelect
      [policySession]
      [opt_wire spec_TPM2B_NAME objectName;
       opt_wire spec_TPM2B_NAME newParentName;
       s_wire (spec_int UINT8) includeObject]
      true false true (fun H => Tss2_Sys_PolicyDuplicationSelect_Prepare policySession
          objectName newParentName includeObject)
| sys_PolicyGetDigest (policySession : Z) :
    src_ok (spec_int UINT32) policySession ->
    prepare_of TPM2_CC_PolicyGetDigest
      [policySession]
      []
      false true true (fun H => Tss2_Sys_PolicyGetDigest_Prepare policySession)
| sys_PolicyLocality (policySession : Z) (locality : Z) :
    src_ok (spec_int UINT32) policySession ->
    src_ok (spec_int UINT8) locality ->
    prepare_of TPM2_CC_PolicyLocality
      [policySession]
      [s_wire (spec_int UINT8) locality]
      false false true (fun H => Tss2_Sys_PolicyLocality_Prepare policySession locality)
| sys_PolicyNV (authHandle : Z) (nvIndex : Z) (policySession : Z) (operandB : option TPM2B)
    (offset : Z) (operation : Z) :
    src_ok (spec_int UINT32) authHandle ->
    src_ok (spec_int UINT32) nvIndex ->
    src_ok (spec_int UINT32) policySession ->
    opt_ok spec_TPM2B_OPERAND operandB ->
    src_ok (spec_int UINT16) offset ->
    src_ok (spec_int UINT16) operation ->
    prepare_of TPM2_CC_PolicyNV
      [authHandle; nvIndex; policySession]
      [opt_wire spec_TPM2B_OPERAND operandB;
       s_wire (spec_int UINT16) offset;
       s_wire (spec_int UINT16) operation]
      true false true (fun H => Tss2_Sys_PolicyNV_Prepare authHandle nvIndex policySession
          operandB offset operation)
| sys_PolicyNameHash (policySession : Z) (nameHash : option TPM2B) :
    src_ok (spec_int UINT32) policySession ->
    opt_ok spec_TPM2B_DIGEST nameHash ->
    prepare_of TPM2_CC_PolicyNameHash
      [policySession]
      [opt_wire spec_TPM2B_DIGEST nameHash]
      true false true (fun H => Tss2_Sys_PolicyNameHash_Prepare policySession nameHash)
| sys_PolicyNvWritten (policySession : Z) (writtenSet : Z) :
    src_ok (spec_int UINT32) policySession ->
    src_ok (spec_int UINT8) writtenSet ->
    prepare_of TPM2_CC_PolicyNvWritten
      [policySession]
      [s_wire (spec_int UINT8) writtenSet]
      false false true (fun H => Tss2_Sys_PolicyNvWritten_Prepare policySession writtenSet)
| sys_PolicyOR (policySession : Z) (pHashList : (TPML TPM2B)) :
    src_ok (spec_int UINT32) policySession ->
    src_ok spec_TPML_DIGEST pHashList ->
    prepare_of TPM2_CC_PolicyOR
      [policySession]
      [s_wire spec_TPML_DIGEST pHashList]
      false false true (fun H => Tss2_Sys_PolicyOR_Prepare policySession (Some pHashList))
| sys_PolicyPCR (policySession : Z) (pcrDigest : option TPM2B) (pcrs : (TPML
    TPMS_PCR_SELECTION)) :
    src_ok (spec_int UINT32) policySession ->
    opt_ok spec_TPM2B_DIGEST pcrDigest ->
    src_ok spec_TPML_PCR_SELECTION pcrs ->
    prepare_of TPM2_CC_PolicyPCR
      [policySession]
      [opt_wire spec_TPM2B_DIGEST pcrDigest; s_wire spec_TPML_PCR_SELECTION pcrs]
      true false true (fun H => Tss2_Sys_PolicyPCR_Prepare policySession pcrDigest (Some pcrs))
| sys_PolicyPassword (policySession : Z) :
    src_ok (spec_int UINT32) policySession ->
    prepare_of TPM2_CC_PolicyPassword
      [policySession]
      []
      false false true (fun H => Tss2_Sys_PolicyPassword_Prepare policySession)
| sys_PolicyPhysicalPresence (policySession : Z) :
    src_ok (spec_int UINT32) policySession ->
    prepare_of TPM2_CC_PolicyPhysicalPresence
      [policySession]
      []
      false false true (fun H => Tss2_Sys_PolicyPhysicalPresence_Prepare policySession)
| sys_PolicyRestart (sessionHandle : Z) :
    src_ok (spec_int UINT32) sessionHandle ->
    prepare_of TPM2_CC_PolicyRestart
      [sessionHandle]
      []
      false false true (fun H => Tss2_Sys_PolicyRestart_Prepare sessionHandle)
| sys_PolicySecret (authHandle : Z) (policySession : Z) (nonceTPM : option TPM2B) (cpHashA :
    option TPM2B) (policyRef : option TPM2B) (expiration : Z) :
    src_ok (spec_int UINT32) authHandle ->
    src_ok (spec_int UINT32) policySession ->
    opt_ok spec_TPM2B_NONCE nonceTPM ->
    opt_ok spec_TPM2B_DIGEST cpHashA ->
    opt_ok spec_TPM2B_NONCE policyRef ->
    src_ok (spec_int UINT32) expiration ->
    prepare_of TPM2_CC_PolicySecret
      [authHandle; policySession]
      [opt_wire spec_TPM2B_NONCE nonceTPM;
       opt_wire spec_TPM2B_DIGEST cpHashA;
       opt_wire spec_TPM2B_NONCE policyRef;
       s_wire (spec_int UINT32) expiration]
      true true true (fun H => Tss2_Sys_PolicySecret_Prepare authHandle policySession nonceTPM
          cpHashA policyRef expiration)
| sys_PolicySigned (authObject : Z) (policySession : Z) (nonceTPM : option TPM2B) (cpHashA :
    option TPM2B) (policyRef : option TPM2B) (expiration : Z) (auth : TPMT_SIGNATURE) :
    src_ok (spec_int UINT32) authObject ->
    src_ok (spec_int UINT32) policySession ->
    opt_ok spec_TPM2B_NONCE nonceTPM ->
    opt_ok spec_TPM2B_DIGEST cpHashA ->
    opt_ok spec_TPM2B_NONCE policyRef ->
    src_ok (spec_int UINT32) expiration ->
    src_ok spec_TPMT_SIGNATURE auth ->
    prepare_of TPM2_CC_PolicySigned
      [authObject; policySession]
      [opt_wire spec_TPM2B_NONCE nonceTPM;
       opt_wire spec_TPM2B_DIGEST cpHashA;
       opt_wire spec_TPM2B_NONCE policyRef;
       s_wire (spec_int UINT32) expiration;
       s_wire spec_TPMT_SIGNATURE auth]
      true true true (fun H => Tss2_Sys_PolicySigned_Prepare authObject policySession nonceTPM
          cpHashA policyRef expiration (Some auth))
| sys_PolicyTemplate (policySession : Z) (templateHash : option TPM2B) :
    src_ok (spec_int UINT32) policySession ->
    opt_ok spec_TPM2B_DIGEST templateHash ->
    prepare_of TPM2_CC_PolicyTemplate
      [policySession]
      [opt_wire spec_TPM2B_DIGEST templateHash]
      true false true (fun H => Tss2_Sys_PolicyTemplate_Prepare policySession templateHash)
| sys_PolicyTicket (policySession : Z) (timeout : option TPM2B) (cpHashA : option TPM2B)
    (policyRef : option TPM2B) (authName : option TPM2B) (ticket : TPMT_TK_AUTH) :
    src_ok (spec_int UINT32) policySession ->
    opt_ok spec_TPM2B_TIMEOUT timeout ->
    opt_ok spec_TPM2B_DIGEST cpHashA ->
    opt_ok spec_TPM2B_NONCE policyRef ->
    opt_ok spec_TPM2B_NAME authName ->
    src_ok spec_TPMT_TK_AUTH ticket ->
    prepare_of TPM2_CC_PolicyTicket
      [policySession]
      [opt_wire spec_TPM2B_TIMEOUT timeout;
       opt_wire spec_TPM2B_DIGEST cpHashA;
       opt_wire spec_TPM2B_NONCE policyRef;
       opt_wire spec_TPM2B_NAME authName;
       s_wire spec_TPMT_TK_AUTH ticket]
      true false true (fun H => Tss2_Sys_PolicyTicket_Prepare policySession timeout cpHashA
          policyRef authName (Some ticket))
| sys_Policy_AC_SendSelect (policySession : Z) (objectName : option TPM2B) (authHandleName :
    option TPM2B) (acName : option TPM2B) (includeObject : Z) :
    src_ok (spec_int UINT32) policySession ->
    opt_ok spec_TPM2B_NAME objectName ->
    opt_ok spec_TPM2B_NAME authHandleName ->
    opt_ok spec_TPM2B_NAME acName ->
    src_ok (spec_int UINT8) includeObject ->
    prepare_of TPM2_CC_Policy_AC_SendSelect
      [policySession]
      [opt_wire spec_TPM2B_NAME objectName;
       opt_wire spec_TPM2B_NAME authHandleName;
       opt_wire spec_TPM2B_NAME acName;
       s_wire (spec_int UINT8) includeObject]
      true false true (fun H => Tss2_Sys_Policy_AC_SendSelect_Prepare policySession objectName
          authHandleName acName includeObject)
| sys_Quote (signHandle : Z) (qualifyingData : option TPM2B) (inScheme : TPMT_SIG_SCHEME)
    (PCRselect : (TPML TPMS_PCR_SELECTION)) :
    src_ok (spec_int UINT32) signHandle ->
    opt_ok spec_TPM2B_DATA qualifyingData ->
    src_ok spec_TPMT_SIG_SCHEME inScheme ->
    src_ok spec_TPML_PCR_SELECTION PCRselect ->
    prepare_of TPM2_CC_Quote
      [signHandle]
      [opt_wire spec_TPM2B_DATA qualifyingData;
       s_wire spec_TPMT_SIG_SCHEME inScheme;
       s_wire spec_TPML_PCR_SELECTION PCRselect]
      true true true (fun H => Tss2_Sys_Quote_Prepare signHandle qualifyingData (Some inScheme)
          (Some PCRselect))
| sys_RSA_Decrypt (keyHandle : Z) (cipherText : option TPM2B) (inScheme : TPMT_RSA_DECRYPT)
    (label : option TPM2B) :
    src_ok (spec_int UINT32) keyHandle ->
    opt_ok spec_TPM2B_PUBLIC_KEY_RSA cipherText ->
    src_ok spec_TPMT_RSA_DECRYPT inScheme ->
    opt_ok spec_TPM2B_DATA label ->
    prepare_of TPM2_CC_RSA_Decrypt
      [keyHandle]
      [opt_wire spec_TPM2B_PUBLIC_KEY_RSA cipherText;
       s_wire spec_TPMT_RSA_DECRYPT inScheme;
       opt_wire spec_TPM2B_DATA label]
      true true true (fun H => Tss2_Sys_RSA_Decrypt_Prepare keyHandle cipherText (Some
          inScheme) label)
| sys_RSA_Encrypt (keyHandle : Z) (message : option TPM2B) (inScheme : TPMT_RSA_DECRYPT) (label
    : option TPM2B) :
    src_ok (spec_int UINT32) keyHandle ->
    opt_ok spec_TPM2B_PUBLIC_KEY_RSA message ->
    src_ok spec_TPMT_RSA_DECRYPT inScheme ->
    opt_ok spec_TPM2B_DATA label ->
    prepare_of TPM2_CC_RSA_Encrypt
      [keyHandle]
      [opt_wire spec_TPM2B_PUBLIC_KEY_RSA message;
       s_wire spec_TPMT_RSA_DECRYPT inScheme;
       opt_wire spec_TPM2B_DATA label]
      true true true (fun H => Tss2_Sys_RSA_Encrypt_Prepare keyHandle message (Some inScheme)
          label)
| sys_ReadClock  :
    prepare_of TPM2_CC_ReadClock
      []
      []
      false false true (fun H => Tss2_Sys_ReadClock_Prepare)
| sys_ReadPublic (objectHandle : Z) :
    src_ok (spec_int UINT32) objectHandle ->
    prepare_of TPM2_CC_ReadPublic
      [objectHandle]
      []
      false true true (fun H => Tss2_Sys_ReadPublic_Prepare objectHandle)
| sys_Rewrap (oldParent : Z) (newParent : Z) (inDuplicate : option TPM2B) (name : option TPM2B)
    (inSymSeed : option TPM2B) :
    src_ok (spec_int UINT32) oldParent ->
    src_ok (spec_int UINT32) newParent ->
    opt_ok spec_TPM2B_PRIVATE inDuplicate ->
    opt_ok spec_TPM2B_NAME name ->
    opt_ok spec_TPM2B_ENCRYPTED_SECRET inSymSeed ->
    prepare_of TPM2_CC_Rewrap
      [oldParent; newParent]
      [opt_wire spec_TPM2B_PRIVATE inDuplicate;
       opt_wire spec_TPM2B_NAME name;
       opt_wire spec_TPM2B_ENCRYPTED_SECRET inSymSeed]
      true true true (fun H => Tss2_Sys_Rewrap_Prepare oldParent newParent inDuplicate name
          inSymSeed)
| sys_SelfTest (fullTest : Z) :
    src_ok (spec_int UINT8) fullTest ->
    prepare_of TPM2_CC_SelfTest
      []
      [s_wire (spec_int UINT8) fullTest]
      false false true (fun H => Tss2_Sys_SelfTest_Prepare fullTest)
| sys_SequenceComplete (sequenceHandle : Z) (buffer : option TPM2B) (hierarchy : Z) :
    src_ok (spec_int UINT32) sequenceHandle ->
    opt_ok spec_TPM2B_MAX_BUFFER buffer ->
    src_ok (spec_int UINT32) hierarchy ->
    prepare_of TPM2_CC_SequenceComplete
      [sequenceHandle]
      [opt_wire spec_TPM2B_MAX_BUFFER buffer; s_wire (spec_int UINT32) hierarchy]
      true true true (fun H => Tss2_Sys_SequenceComplete_Prepare sequenceHandle buffer
          hierarchy)
| sys_SequenceUpdate (sequenceHandle : Z) (buffer : option TPM2B) :
    src_ok (spec_int UINT32) sequenceHandle ->
    opt_ok spec_TPM2B_MAX_BUFFER buffer ->
    prepare_of TPM2_CC_SequenceUpdate
      [sequenceHandle]
      [opt_wire spec_TPM2B_MAX_BUFFER buffer]
      true false true (fun H => Tss2_Sys_SequenceUpdate_Prepare sequenceHandle buffer)
| sys_SetAlgorithmSet (authHandle : Z) (algorithmSet : Z) :
    src_ok (spec_int UINT32) authHandle ->
    src_ok (spec_int UINT32) algorithmSet ->
    prepare_of TPM2_CC_SetAlgorithmSet
      [authHandle]
      [s_wire (spec_int UINT32) algorithmSet]
      false false true (fun H => Tss2_Sys_SetAlgorithmSet_Prepare authHandle algorithmSet)
| sys_SetCommandCodeAuditStatus (auth : Z) (auditAlg : Z) (setList : (TPML Z)) (clearList :
    (TPML Z)) :
    src_ok (spec_int UINT32) auth ->
    src_ok (spec_int UINT16) auditAlg ->
    src_ok spec_TPML_CC setList ->
    src_ok spec_TPML_CC clearList ->
    prepare_of TPM2_CC_SetCommandCodeAuditStatus
      [auth]
      [s_wire (spec_int UINT16) auditAlg;
       s_wire spec_TPML_CC setList;
       s_wire spec_TPML_CC clearList]
      false false true (fun H => Tss2_Sys_SetCommandCodeAuditStatus_Prepare auth auditAlg (Some
          setList) (Some clearList))
| sys_SetPrimaryPolicy (authHandle : Z) (authPolicy : option TPM2B) (hashAlg : Z) :
    src_ok (spec_int UINT32) authHandle ->
    opt_ok spec_TPM2B_DIGEST authPolicy ->
    src_ok (spec_int UINT16) hashAlg ->
    prepare_of TPM2_CC_SetPrimaryPolicy
      [authHandle]
      [opt_wire spec_TPM2B_DIGEST authPolicy; s_wire (spec_int UINT16) hashAlg]
      true false true (fun H => Tss2_Sys_SetPrimaryPolicy_Prepare authHandle authPolicy hashAlg)
| sys_Shutdown (shutdownType : Z) :
    src_ok (spec_int UINT16) shutdownType ->
    prepare_of TPM2_CC_Shutdown
      []
      [s_wire (spec_int UINT16) shutdownType]
      false false true (fun H => Tss2_Sys_Shutdown_Prepare shutdownType)
| sys_Sign (keyHandle : Z) (digest : option TPM2B) (inScheme : TPMT_SIG_SCHEME) (validation :
    TPMT_TK_HASHCHECK) :
    src_ok (spec_int UINT32) keyHandle ->
    opt_ok spec_TPM2B_DIGEST digest ->
    src_ok spec_TPMT_SIG_SCHEME inScheme ->
    src_ok spec_TPMT_TK_HASHCHECK validation ->
    prepare_of TPM2_CC_Sign
      [keyHandle]
      [opt_wire spec_TPM2B_DIGEST digest;
       s_wire spec_TPMT_SIG_SCHEME inScheme;
       s_wire spec_TPMT_TK_HASHCHECK validation]
      true false true (fun H => Tss2_Sys_Sign_Prepare keyHandle digest (Some inScheme) (Some
          validation))
| sys_SignDigest (keyHandle : Z) (digest : option TPM2B) (inScheme : TPMT_SIG_SCHEME)
    (validation : TPMT_TK_HASHCHECK) :
    src_ok (spec_int UINT32) keyHandle ->
    opt_ok spec_TPM2B_DIGEST digest ->
    src_ok spec_TPMT_SIG_SCHEME inScheme ->
    src_ok spec_TPMT_TK_HASHCHECK validation ->
    prepare_of TPM2_CC_SignDigest
      [keyHandle]
      [opt_wire spec_TPM2B_DIGEST digest;
       s_wire spec_TPMT_SIG_SCHEME inScheme;
       s_wire spec_TPMT_TK_HASHCHECK validation]
      true false true (fun H => Tss2_Sys_SignDigest_Prepare keyHandle digest (Some inScheme)
          (Some validation))
| sys_SignSequenceComplete (sequenceHandle : Z) (buffer : option TPM2B) :
    src_ok (spec_int UINT32) sequenceHandle ->
    opt_ok spec_TPM2B_MAX_BUFFER buffer ->
    prepare_of TPM2_CC_SignSequenceComplete
      [sequenceHandle]
      [opt_wire spec_TPM2B_MAX_BUFFER buffer]
      true false true (fun H => Tss2_Sys_SignSequenceComplete_Prepare sequenceHandle buffer)
| sys_SignSequenceStart (keyHandle : Z) (inScheme : TPMT_SIG_SCHEME) (keyB : Z) :
    src_ok (spec_int UINT32) keyHandle ->
    src_ok spec_TPMT_SIG_SCHEME inScheme ->
    src_ok (spec_int UINT32) keyB ->
    prepare_of TPM2_CC_SignSequenceStart
      [keyHandle]
      [s_wire spec_TPMT_SIG_SCHEME inScheme; s_wire (spec_int UINT32) keyB]
      false false true (fun H => Tss2_Sys_SignSequenceStart_Prepare keyHandle (Some inScheme)
          keyB)
| sys_StartAuthSession (tpmKey : Z) (bind : Z) (nonceCaller : option TPM2B) (encryptedSalt :
    option TPM2B) (sessionType : Z) (symmetric : TPMT_SYM_DEF) (authHash : Z) :
    src_ok (spec_int UINT32) tpmKey ->
    src_ok (spec_int UINT32) bind ->
    opt_ok spec_TPM2B_NONCE nonceCaller ->
    opt_ok spec_TPM2B_ENCRYPTED_SECRET encryptedSalt ->
    src_ok (spec_int UINT8) sessionType ->
    src_ok spec_TPMT_SYM_DEF symmetric ->
    src_ok (spec_int UINT16) authHash ->
    prepare_of TPM2_CC_StartAuthSession
      [tpmKey; bind]
      [opt_wire spec_TPM2B_NONCE nonceCaller;
       opt_wire spec_TPM2B_ENCRYPTED_SECRET encryptedSalt;
       s_wire (spec_int UINT8) sessionType;
       s_wire spec_TPMT_SYM_DEF symmetric;
       s_wire (spec_int UINT16) authHash]
      true true true (fun H => Tss2_Sys_StartAuthSession_Prepare tpmKey bind nonceCaller
          encryptedSalt sessionType (Some symmetric) authHash)
| sys_Startup (startupType : Z) :
    src_ok (spec_int UINT16) startupType ->
    prepare_of TPM2_CC_Startup
      []
      [s_wire (spec_int UINT16) startupType]
      false false false (fun H => Tss2_Sys_Startup_Prepare startupType)
| sys_StirRandom (inData : option TPM2B) :
    opt_ok spec_TPM2B_SENSITIVE_DATA inData ->
    prepare_of TPM2_CC_StirRandom
      []
      [opt_wire spec_TPM2B_SENSITIVE_DATA inData]
      true false true (fun H => Tss2_Sys_StirRandom_Prepare inData)
| sys_TestParms (parameters : TPMT_PUBLIC_PARMS) :
    src_ok spec_TPMT_PUBLIC_PARMS parameters ->
    prepare_of TPM2_CC_TestParms
      []
      [s_wire spec_TPMT_PUBLIC_PARMS parameters]
      false false true (fun H => Tss2_Sys_TestParms_Prepare (Some parameters))
| sys_Unseal (itemHandle : Z) :
    src_ok (spec_int UINT32) itemHandle ->
    prepare_of TPM2_CC_Unseal
      [itemHandle]
      []
      false true true (fun H => Tss2_Sys_Unseal_Prepare itemHandle)
| sys_Vendor_TCG_Test (inputData : option TPM2B) :
    opt_ok spec_TPM2B_DATA inputData ->
    prepare_of TPM2_CC_Vendor_TCG_Test
      []
      [opt_wire spec_TPM2B_DATA inputData]
      true true true (fun H => Tss2_Sys_Vendor_TCG_Test_Prepare inputData)
| sys_VerifyDigestSignature (keyHandle : Z) (digest : option TPM2B) (signature :
    TPMT_SIGNATURE) :
    src_ok (spec_int UINT32) keyHandle ->
    opt_ok spec_TPM2B_DIGEST digest ->
    src_ok spec_TPMT_SIGNATURE signature ->
    prepare_of TPM2_CC_VerifyDigestSignature
      [keyHandle]
      [opt_wire spec_TPM2B_DIGEST digest; s_wire spec_TPMT_SIGNATURE signature]
      true false true (fun H => Tss2_Sys_VerifyDigestSignature_Prepare keyHandle digest (Some
          signature))
| sys_VerifySequenceComplete (sequenceHandle : Z) (buffer : option TPM2B) :
    src_ok (spec_int UINT32) sequenceHandle ->
    opt_ok spec_TPM2B_MAX_BUFFER buffer ->
    prepare_of TPM2_CC_VerifySequenceComplete
      [sequenceHandle]
      [opt_wire spec_TPM2B_MAX_BUFFER buffer]
      true false true (fun H => Tss2_Sys_VerifySequenceComplete_Prepare sequenceHandle buffer)
| sys_VerifySequenceStart (keyHandle : Z) (signature : TPMT_SIGNATURE) :
    src_ok (spec_int UINT32) keyHandle ->
    src_ok spec_TPMT_SIGNATURE signature ->
    prepare_of TPM2_CC_VerifySequenceStart
      [keyHandle]
      [s_wire spec_TPMT_SIGNATURE signature]
      false false true (fun H => Tss2_Sys_VerifySequenceStart_Prepare keyHandle (Some
          signature))
| sys_VerifySignature (keyHandle : Z) (digest : option TPM2B) (signature : TPMT_SIGNATURE) :
    src_ok (spec_int UINT32) keyHandle ->
    opt_ok spec_TPM2B_DIGEST digest ->
    src_ok spec_TPMT_SIGNATURE signature ->
    prepare_of TPM2_CC_VerifySignature
      [keyHandle]
      [opt_wire spec_TPM2B_DIGEST digest; s_wire spec_TPMT_SIGNATURE signature]
      true false true (fun H => Tss2_Sys_VerifySignature_Prepare keyHandle digest (Some
          signature))
| sys_ZGen_2Phase (keyA : Z) (inQsB : option (TPM2B_SUB TPMS_ECC_POINT)) (inQeB : option
    (TPM2B_SUB TPMS_ECC_POINT)) (inScheme : Z) (counter : Z) :
    src_ok (spec_int UINT32) keyA ->
    opt_ok spec_TPM2B_ECC_POINT inQsB ->
    opt_ok spec_TPM2B_ECC_POINT inQeB ->
    src_ok (spec_int UINT16) inScheme ->
    src_ok (spec_int UINT16) counter ->
    prepare_of TPM2_CC_ZGen_2Phase
      [keyA]
      [opt_wire spec_TPM2B_ECC_POINT inQsB;
       opt_wire spec_TPM2B_ECC_POINT inQeB;
       s_wire (spec_int UINT16) inScheme;
       s_wire (spec_int UINT16) counter]
      true true true (fun H => Tss2_Sys_ZGen_2Phase_Prepare keyA inQsB inQeB inScheme counter).

Lemma prepare_of_ok cc hs ps d e a P :
  prepare_of cc hs ps d e a P -> forall H, prepares cc hs ps d e a (P H).
Proof.
  intros R Ho; destruct R; sys_prepare.
Qed.

End Registry.
