(* ===== verification/SysAuth.v ===== *)
(** * Authorization areas of commands.

    [Tss2_Sys_SetCmdAuths] turns a prepared command without sessions into
    the command with an authorization area between the handles and the
    parameters. *)

From S2P Require Import Prelude Common MuSpec MuBase MuBaseOk MuStruct MuStructOk MuTpm2b MuTpm2bOk TpmTypes MuTypes MuTypesOk SysCodes Sys SysOk.
Open Scope tss_scope.

Section Auth.
Context {H : Host} {S : Type}.
Implicit Types (c : blob S).

Definition auth_wire (a : TPMS_AUTH_COMMAND) : option bytes := s_wire spec_TPMS_AUTH_COMMAND a.
Definition auth_size (a : TPMS_AUTH_COMMAND) : Z :=
  9 + size (TPMS_AUTH_COMMAND_nonce a) + size (TPMS_AUTH_COMMAND_hmac a).
Definition auths_total (auths : list TPMS_AUTH_COMMAND) : Z :=
  foldr (fun a z => auth_size a + z) 0 auths.

Lemma auth_size_bound a : s_wf spec_TPMS_AUTH_COMMAND a -> 9 <= auth_size a <= 9 + 2 * 65535.
Proof.
  intros (_&(_&_&N)&_&(_&_&M)&_). apply u16_bound in N, M. unfold auth_size.
  simpl in *. lia.
Qed.

Lemma auth_wire_len a w :
  s_wf spec_TPMS_AUTH_COMMAND a -> auth_wire a = Some w -> Zlen w = auth_size a.
Proof.
  intros (_&Wn&_&Wh&_) E. unfold auth_wire, spec_TPMS_AUTH_COMMAND in E.
  cbn [s_wire spec_app spec_on spec_int spec_unit] in E.
  apply wire_app_Some in E as (w1&r1&E1&(w2&r2&E2&(w3&r3&E3&(w4&r4&E4&E5&->)%wire_app_Some&->)%wire_app_Some&->)%wire_app_Some&->).
  some_inv. apply wire_2b in E2 as (?&?&?&->&L2); [|done].
  apply wire_2b in E4 as (?&?&?&->&L4); [|done].
  rewrite !Zlen_app in *. rewrite !Zlen_be_bytes in *. unfold auth_size.
  rewrite (Zlen_nil (A:=Z)). simpl in *. lia.
Qed.

(** ** The loops *)

Abbreviation auths_wf := (Forall (s_wf spec_TPMS_AUTH_COMMAND)).

Lemma auths_total_bound auths :
  auths_wf auths -> 0 <= auths_total auths <= Zlen auths * (9 + 2 * 65535).
Proof.
  induction 1 as [|a auths W _ IH]; cbn [auths_total foldr]; [done|].
  apply auth_size_bound in W. rewrite Zlen_cons. unfold auths_total in IH. lia.
Qed.

Lemma auths_size_ok n : forall auths acc,
  auths_wf auths -> (n <= length auths)%nat -> 0 <= acc ->
  acc + auths_total (take n auths) < 2 ^ 32 ->
  auths_size auths n acc = Ret (acc + auths_total (take n auths)).
Proof.
  induction n as [|n IH]; intros auths acc W L Ha Hb.
  - destruct auths; cbn; by rewrite Z.add_0_r.
  - destruct auths as [|a auths]; [simpl in L; lia|]. inversion W as [|?? Wa Wr]; subst.
    pose proof (auth_size_bound _ Wa) as Ba. unfold auth_size in Ba.
    pose proof (auths_total_bound (take n auths) (Forall_take _ _ _ Wr)) as Bt.
    destruct Wa as (_&(_&_&N)&_&(_&_&M)&_). apply u16_bound in N, M.
    cbn [take auths_total foldr auths_size] in *. unfold auths_total, auth_size in *.
    simpl in N, M. rewrite !wrap_add_l, <-!Z.add_assoc, !wrap_add_l, wrap_small by lia.
    rewrite IH; [|done|simpl in L; lia|lia..].
    f_equal. unfold auths_total, auth_size. lia.
Qed.

Lemma wires_auths_len auths w :
  auths_wf auths -> wires (map auth_wire auths) = Some w -> Zlen w = auths_total auths.
Proof.
  intros W. revert w. induction W as [|a auths Wa _ IH]; intros w E.
  - simpl in E. by some_inv.
  - cbn [map wires foldr] in E. apply wire_app_Some in E as (w1&w2&E1&E2&->).
    rewrite Zlen_app, (auth_wire_len _ _ Wa E1), (IH w2 E2). done.
Qed.

Lemma auth_wire_bytes a w :
  s_wf spec_TPMS_AUTH_COMMAND a -> auth_wire a = Some w -> bytes_ok w.
Proof. intros W E. exact (so_bytes _ _ W E). Qed.

Lemma auths_marshal_ok n : forall auths b size lo w,
  auths_wf auths -> (n <= length auths)%nat -> wires (map auth_wire (take n auths)) = Some w ->
  0 <= lo -> size <= Zlen b -> lo + Zlen w <= size ->
  exists b', auths_marshal auths n b size lo = Ret (TSS2_RC_SUCCESS, (b', lo + Zlen w)) /\
    mem_write b lo w = Some b' /\ bytes_ok w.
Proof.
  induction n as [|n IH]; intros auths b size lo w W L E Hlo Hs Hf.
  - simpl in E. some_inv. rewrite (Zlen_nil (A:=Z)) in *. exists b.
    rewrite Z.add_0_r. split_and!; [by destruct auths|apply mem_write_nil; lia|done].
  - destruct auths as [|a auths]; [simpl in L; lia|]. inversion W as [|?? Wa Wr]; subst.
    cbn [take map wires foldr] in E. apply wire_app_Some in E as (w1&w2&E1&E2&->).
    rewrite Zlen_app in *. pose proof (Zlen_nonneg w1). pose proof (Zlen_nonneg w2).
    destruct (marshal_ok_fits (c:=true) (ADDR Tss2_MU_TPMS_AUTH_COMMAND_Marshal) spec_TPMS_AUTH_COMMAND
      a w1 b size lo) as (b1&Eb&Wb); [apply Tss2_MU_TPMS_AUTH_COMMAND_ok|done|
      exact (so_dom _ _ Wa E1)|done|done|lia..|]. unfold ADDR in Eb.
    cbn [auths_marshal]. rewrite Eb. simpl. apply mem_write_len in Wb as Lb.
    destruct (IH auths b1 size (lo + Zlen w1) w2) as (b2&E'&W2&B2);
      [done|simpl in L; lia|done|lia..|]. rewrite E'. exists b2.
    split_and!; [f_equal; f_equal; f_equal; lia|by eapply mem_write_app|].
    apply Forall_app. split; [by eapply auth_wire_bytes|done].
Qed.

(** ** The whole function *)

(** The command with the authorization area [aw] between the handles [hw]
    and the parameters [pw]. *)
Definition cmd_image_auth (cc : Z) (hw aw pw : bytes) : bytes :=
  be_bytes 2 TPM2_ST_SESSIONS
  ++ be_bytes 4 (sizeof_TPM20_Header_In + Zlen hw + 4 + Zlen aw + Zlen pw)
  ++ be_bytes 4 cc ++ hw ++ be_bytes 4 (Zlen aw) ++ aw ++ pw.

Lemma auth_image_size cc hw aw pw b :
  let n := sizeof_TPM20_Header_In + Zlen hw + 4 + Zlen aw + Zlen pw in
  mem_read b 0 n = Some (cmd_image_auth cc hw aw pw) ->
  Zlen (cmd_image_auth cc hw aw pw) = n /\
  mem_read b 2 4 = Some (be_bytes 4 n) /\ sizeof_TPM20_Header_In <= n <= Zlen b.
Proof.
  intros n R. pose proof (mem_read_len _ _ _ _ R) as L.
  pose proof (Zlen_nonneg hw). pose proof (Zlen_nonneg pw). pose proof (Zlen_nonneg aw).
  pose proof R as R'. apply mem_read_Some in R' as (_&_&Hn&_). rewrite <-L in R.
  unfold cmd_image_auth in R. apply mem_read_split in R as [_ R].
  apply mem_read_split in R as [R2 _]. rewrite !Zlen_be_bytes in R2.
  split_and!; [done|exact R2|unfold n; lia|lia].
Qed.

(** The parts of a command in the buffer. *)
Lemma cmd_image_parts cc hw pw b :
  mem_read b 0 (sizeof_TPM20_Header_In + Zlen (hw ++ pw)) = Some (cmd_image cc (hw ++ pw)) ->
  let cp := sizeof_TPM20_Header_In + Zlen hw in
  mem_read b 2 4 = Some (be_bytes 4 (cp + Zlen pw)) /\
  mem_read b 6 4 = Some (be_bytes 4 cc) /\
  mem_read b sizeof_TPM20_Header_In (Zlen hw) = Some hw /\ mem_read b cp (Zlen pw) = Some pw.
Proof.
  intros R cp. unfold cmd_image in R. set (sz := sizeof_TPM20_Header_In + Zlen (hw ++ pw)) in *.
  assert (Es : sz = cp + Zlen pw) by (unfold sz, cp; rewrite Zlen_app; lia).
  replace sz with (Zlen (be_bytes 2 TPM2_ST_NO_SESSIONS ++ be_bytes 4 sz ++ be_bytes 4 cc
    ++ hw ++ pw)) in R at 1
    by (rewrite !Zlen_app, !Zlen_be_bytes, Es; unfold cp, sizeof_TPM20_Header_In; lia).
  apply mem_read_split in R as [_ R]. apply mem_read_split in R as [R2 R].
  apply mem_read_split in R as [R6 R]. apply mem_read_split in R as [Rh Rp].
  rewrite !Zlen_be_bytes in *. rewrite Es in R2. by split_and!.
Qed.

(** The moves and stores of the function, on the buffer. *)
Lemma insert_area cc hw aw pw b :
  Zlen aw < 2 ^ 32 - 4 ->
  mem_read b 0 (sizeof_TPM20_Header_In + Zlen (hw ++ pw)) = Some (cmd_image cc (hw ++ pw)) ->
  sizeof_TPM20_Header_In + Zlen hw + 4 + Zlen aw + Zlen pw <= Zlen b ->
  let cp := sizeof_TPM20_Header_In + Zlen hw in
  exists b1 b2 b3 b4,
    mem_write b 0 (be_bytes 2 TPM2_ST_SESSIONS) = Some b1 /\
    mem_read b1 2 4 = Some (be_bytes 4 (cp + Zlen pw)) /\
    mem_read b1 cp (Zlen pw) = Some pw /\
    mem_write b1 (cp + Zlen aw + 4) pw = Some b2 /\
    mem_write b2 cp (replicate 4 0) = Some b3 /\
    mem_write b3 cp (be_bytes 4 (Zlen aw)) = Some b4 /\
    forall b5 b6, mem_write b4 (cp + 4) aw = Some b5 ->
      mem_write b5 2 (be_bytes 4 (cp + 4 + Zlen aw + Zlen pw)) = Some b6 ->
      mem_read b6 0 (cp + 4 + Zlen aw + Zlen pw) = Some (cmd_image_auth cc hw aw pw).
Proof.
  intros Ha (R2&R6&Rh&Rp)%cmd_image_parts Hs. unfold sizeof_TPM20_Header_In in *. cbv zeta.
  set (cp := 10 + Zlen hw) in *.
  pose proof (Zlen_nonneg hw). pose proof (Zlen_nonneg pw). pose proof (Zlen_nonneg aw).
  destruct (mem_write_is_Some b 0 (be_bytes 2 TPM2_ST_SESSIONS)) as [b1 W1]; [done|zlia|].
  apply mem_write_len in W1 as L1.
  destruct (mem_write_is_Some b1 (cp + Zlen aw + 4) pw) as [b2 W2]; [lia..|].
  apply mem_write_len in W2 as L2.
  destruct (mem_write_is_Some b2 cp (replicate 4 0)) as [b3 W3]; [lia|zlia|].
  apply mem_write_len in W3 as L3.
  destruct (mem_write_is_Some b3 cp (be_bytes 4 (Zlen aw))) as [b4 W4]; [lia|zlia|].
  assert (K1 : forall o n, 2 <= o -> mem_read b1 o n = mem_read b o n).
  { intros. apply (mem_read_write_out _ _ _ _ _ _ W1). rewrite Zlen_be_bytes. lia. }
  exists b1, b2, b3, b4. rewrite !K1 by lia. split_and!; [done..|].
  intros b5 b6 W5 W6.
  assert (K6 : forall o n, 6 <= o \/ o + n <= 2 -> mem_read b6 o n = mem_read b5 o n).
  { intros. apply (mem_read_write_out _ _ _ _ _ _ W6). rewrite Zlen_be_bytes. lia. }
  assert (K5 : forall o n, o + n <= cp -> mem_read b5 o n = mem_read b1 o n).
  { intros. rewrite (mem_read_write_out _ _ _ _ _ _ W5) by lia.
    rewrite (mem_read_write_out _ _ _ _ _ _ W4) by lia.
    rewrite (mem_read_write_out _ _ _ _ _ _ W3) by lia.
    rewrite (mem_read_write_out _ _ _ _ _ _ W2) by lia. done. }
  unfold cmd_image_auth, sizeof_TPM20_Header_In.
  replace (cp + 4 + Zlen aw + Zlen pw)
    with (2 + (4 + (4 + (Zlen hw + (4 + (Zlen aw + Zlen pw)))))) at 1 by (unfold cp; lia).
  repeat apply mem_read_app; simpl (_ + _).
  - rewrite K6, K5 by lia. apply mem_read_write in W1. by rewrite Zlen_be_bytes in W1.
  - apply mem_read_write in W6. by rewrite Zlen_be_bytes in W6.
  - by rewrite K6, K5, K1 by lia.
  - by rewrite K6, K5, K1 by lia.
  - rewrite K6, (mem_read_write_out _ _ _ _ _ _ W5) by lia.
    apply mem_read_write in W4. by rewrite Zlen_be_bytes in W4.
  - rewrite K6 by lia. exact (mem_read_write _ _ _ _ W5).
  - fold cp. rewrite K6 by lia. rewrite (mem_read_write_out _ _ _ _ _ _ W5) by lia.
    rewrite (mem_read_write_out _ _ _ _ _ _ W4) by (rewrite Zlen_be_bytes; lia).
    rewrite (mem_read_write_out _ _ _ _ _ _ W3) by (rewrite Zlen_replicate; lia).
    apply mem_read_write in W2. rewrite <-W2. f_equal. unfold cp. lia.
Qed.

(** A prepared command [cc] without sessions, handles [hw], parameters [pw]. *)
Record holds_cmd (cc : Z) (hw pw : bytes) c : Prop := HoldsCmd {
  hc_mem : sys_mem c;
  hc_image : mem_read (cmdBuffer c) 0 (sizeof_TPM20_Header_In + Zlen (hw ++ pw))
             = Some (cmd_image cc (hw ++ pw));
  hc_fits : sizeof_TPM20_Header_In + Zlen (hw ++ pw) <= maxCmdSize c;
  hc_cp : cpBuffer c = sizeof_TPM20_Header_In + Zlen hw;
  hc_used : cpBufferUsedSize c = Zlen pw;
  hc_stage : previousStage c = CMD_STAGE_PREPARE
}.

(** The array of a caller, and the authorization area it stands for. *)
Record auths_arg (arr : TSS2L_SYS_AUTH_COMMAND) (aw : bytes) : Prop := AuthsArg {
  aa_count : 1 <= cmd_count arr <= TSS2_SYS_MAX_SESSIONS;
  aa_len : Zlen (cmd_auths arr) = TSS2_SYS_MAX_SESSIONS;
  aa_wf : auths_wf (cmd_auths arr);
  aa_wire : wires (map auth_wire (take (Z.to_nat (cmd_count arr)) (cmd_auths arr))) = Some aw
}.

Lemma auths_arg_size arr aw :
  auths_arg arr aw ->
  auths_size (cmd_auths arr) (Z.to_nat (cmd_count arr)) 0 = Ret (Zlen aw) /\
  Zlen aw <= 393237.
Proof.
  intros [Hc Hl Hw E]. unfold TSS2_SYS_MAX_SESSIONS in *.
  set (n := Z.to_nat (cmd_count arr)) in *.
  assert (Wt : auths_wf (take n (cmd_auths arr))) by by apply Forall_take.
  pose proof (auths_total_bound _ Wt) as B. rewrite (wires_auths_len _ _ Wt E).
  assert (Zlen (take n (cmd_auths arr)) <= 3).
  { unfold Zlen in *. rewrite length_take. lia. }
  split; [|lia]. rewrite auths_size_ok; [done|done|unfold Zlen in *; lia|lia|lia].
Qed.

Definition set_auths_area (arr : TSS2L_SYS_AUTH_COMMAND) (aw b : bytes) c : blob S :=
  set_authsCount (cmd_count arr) (set_cmdBuffer b
    (set_cpBuffer (cpBuffer c + (Zlen aw + 4)) c)).

#[local] Arguments Tss2_MU_UINT32_Marshal : simpl never.

Lemma SetCmdAuths_guards arr aw c :
  auths_arg arr aw -> previousStage c = CMD_STAGE_PREPARE -> authAllowed c = true ->
  (TSS2_SYS_MAX_SESSIONS <? cmd_count arr) || (cmd_count arr =? 0) = false /\
  negb (stage_is c CMD_STAGE_PREPARE) = false /\ negb (authAllowed c) = false.
Proof.
  intros [Hc _ _ _] St Au. unfold stage_is. rewrite St, Au. split; [|done].
  apply orb_false_intro; [apply Z.ltb_ge; lia|apply Z.eqb_neq; lia].
Qed.

(** What the first part of the function computes. *)
Lemma SetCmdAuths_start cc hw pw arr aw c b1 :
  holds_cmd cc hw pw c -> auths_arg arr aw -> authAllowed c = true ->
  maxCmdSize c <= 2 ^ 31 ->
  mem_write (cmdBuffer c) 0 (be_bytes 2 TPM2_ST_SESSIONS) = Some b1 ->
  let c1 := set_cmdBuffer b1 (set_authsCount 0 c) in
  let n := sizeof_TPM20_Header_In + Zlen hw + 4 + Zlen aw + Zlen pw in
  Tss2_Sys_SetCmdAuths (Some arr) (Some c) =
    if maxCmdSize c <? n then Ret (TSS2_SYS_RC_INSUFFICIENT_CONTEXT, Some c1)
    else insert_auths arr (Zlen aw) n c1.
Proof.
  intros [M Im Fi Cp Us St] A Au Hm W1 c1 n. pose proof (Zlen_nonneg hw).
  pose proof (Zlen_nonneg pw). pose proof (Zlen_nonneg aw).
  destruct (SetCmdAuths_guards arr aw c A St Au) as (G1&G2&G3).
  destruct (auths_arg_size arr aw A) as [Es Ba]. destruct (cmd_image_parts _ _ _ _ Im) as (R2&_).
  rewrite Zlen_app in Fi. unfold sizeof_TPM20_Header_In in *.
  rewrite <-(mem_read_write_out _ _ _ _ 2 4 W1) in R2 by (rewrite Zlen_be_bytes; lia).
  unfold Tss2_Sys_SetCmdAuths. rewrite G1, G2, G3. unfold set_hdr_tag, hdr_write.
  cbn [cmdBuffer set_authsCount]. rewrite image_be_16 by done. rewrite W1. cbn [access].
  rewrite Es. fold c1. unfold hdr_commandSize, hdr_read. change (Z.of_nat 4) with 4.
  change (cmdBuffer c1) with b1. rewrite R2. cbn [access]. rewrite value_be_32 by lia.
  change (maxCmdSize c1) with (maxCmdSize c).
  change (cpBufferUsedSize c1) with (cpBufferUsedSize c).
  rewrite (wrap_small 32 (Zlen aw + 4)), wrap_small by lia.
  replace (Zlen aw + 4 + (10 + Zlen hw + Zlen pw)) with n by (unfold n; lia).
  case_test; [done|]. rewrite (proj2 (Z.ltb_ge (maxCmdSize c) (cpBufferUsedSize c))) by lia.
  done.
Qed.

Lemma SetCmdAuths_fits cc hw pw arr aw c :
  holds_cmd cc hw pw c -> auths_arg arr aw -> authAllowed c = true ->
  maxCmdSize c <= 2 ^ 31 ->
  sizeof_TPM20_Header_In + Zlen hw + 4 + Zlen aw + Zlen pw <= maxCmdSize c ->
  exists b, Tss2_Sys_SetCmdAuths (Some arr) (Some c)
      = Ret (TSS2_RC_SUCCESS, Some (set_auths_area arr aw b c)) /\
    bytes_ok b /\ Zlen b = Zlen (cmdBuffer c) /\
    mem_read b 0 (sizeof_TPM20_Header_In + Zlen hw + 4 + Zlen aw + Zlen pw)
      = Some (cmd_image_auth cc hw aw pw).
Proof.
  intros Hh A Au Hm Hs. pose proof Hh as [M Im Fi Cp Us St]. pose proof A as [Hc Hl Hw Ea].
  destruct (auths_arg_size arr aw A) as [_ Ba]. pose proof M as [B _ Hx _].
  pose proof (Zlen_nonneg hw). pose proof (Zlen_nonneg pw). pose proof (Zlen_nonneg aw).
  destruct (insert_area cc hw aw pw (cmdBuffer c)) as (b1&b2&b3&b4&W1&R2&Rp&W2&W3&W4&Fin);
    [lia|done|lia|]. rewrite (SetCmdAuths_start cc hw pw arr aw c b1) by done.
  rewrite (proj2 (Z.ltb_ge (maxCmdSize c) _) Hs). unfold sizeof_TPM20_Header_In in *.
  set (n := 10 + Zlen hw + 4 + Zlen aw + Zlen pw) in *.
  apply mem_write_len in W1 as L1. apply mem_write_len in W2 as L2.
  apply mem_write_len in W3 as L3. apply mem_write_len in W4 as L4.
  unfold insert_auths, buf_move, buf_store. ctx_cbn.
  rewrite Cp, Us, Rp. ctx_cbn. rewrite W2. ctx_cbn. rewrite Cp, W3. ctx_cbn. rewrite Cp.
  destruct (u32_marshal (Zlen aw) b3 n (10 + Zlen hw)) as (b4'&Em&W4'); [lia..|].
  rewrite Em. rewrite W4 in W4'. some_inv. ctx_cbn. cbn [negb Z.eqb TSS2_RC_SUCCESS].
  destruct (auths_marshal_ok (Z.to_nat (cmd_count arr)) (cmd_auths arr) b4' n
    (10 + Zlen hw + 4) aw) as (b5&E5&W5&Bw);
    [done|unfold Zlen, TSS2_SYS_MAX_SESSIONS in *; lia|done|lia..|].
  rewrite E5. ctx_cbn. unfold set_hdr_commandSize, hdr_write. ctx_cbn.
  apply mem_write_len in W5 as L5.
  destruct (mem_write_is_Some b5 2 (be_bytes 4 n)) as [b6 W6]; [done|zlia|].
  rewrite image_be_32, W6 by lia. exists b6. split_and!.
  - unfold set_auths_area. ctx_cbn. rewrite Cp. done.
  - assert (Bp : bytes_ok pw).
    { eapply mem_read_bytes; [|exact Rp]. exact (mem_write_bytes _ _ _ _ B (be_bytes_ok _ _) W1). }
    assert (Bz : bytes_ok (replicate 4 0)) by (by repeat constructor).
    pose proof (mem_write_bytes _ _ _ _ B (be_bytes_ok _ _) W1) as B1.
    pose proof (mem_write_bytes _ _ _ _ B1 Bp W2) as B2.
    pose proof (mem_write_bytes _ _ _ _ B2 Bz W3) as B3.
    pose proof (mem_write_bytes _ _ _ _ B3 (be_bytes_ok _ _) W4) as B4.
    pose proof (mem_write_bytes _ _ _ _ B4 Bw W5) as B5.
    exact (mem_write_bytes _ _ _ _ B5 (be_bytes_ok _ _) W6).
  - apply mem_write_len in W6. lia.
  - by apply (Fin b5 b6).
Qed.

(** ** Any array of sessions *)

(** The size field of the header agrees with the position of the parameters. *)
Record laid_out c : Prop := LaidOut {
  lo_size : mem_read (cmdBuffer c) 2 4 = Some (be_bytes 4 (cpBuffer c + cpBufferUsedSize c));
  lo_cp : sizeof_TPM20_Header_In <= cpBuffer c;
  lo_used : 0 <= cpBufferUsedSize c;
  lo_end : cpBuffer c + cpBufferUsedSize c <= maxCmdSize c
}.

Definition auth_ok (a : TPMS_AUTH_COMMAND) : Prop :=
  s_wf spec_TPMS_AUTH_COMMAND a /\ s_dom spec_TPMS_AUTH_COMMAND a.

Record auths_array (arr : TSS2L_SYS_AUTH_COMMAND) : Prop := AuthsArray {
  ar_count : 0 <= cmd_count arr;
  ar_len : Zlen (cmd_auths arr) = TSS2_SYS_MAX_SESSIONS;
  ar_ok : Forall auth_ok (cmd_auths arr)
}.

Lemma auths_ok_wf auths : Forall auth_ok auths -> auths_wf auths.
Proof. apply Forall_impl. by intros a []. Qed.

Lemma auths_marshal_safe n : forall auths b size lo,
  Forall auth_ok auths -> (n <= length auths)%nat -> 0 <= lo -> 0 <= size <= Zlen b ->
  exists rc b' lo', auths_marshal auths n b size lo = Ret (rc, (b', lo')) /\
    same_outside b b' lo size.
Proof.
  induction n as [|n IH]; intros auths b size lo W L Hlo Hs.
  - exists TSS2_RC_SUCCESS, b, lo. split; [by destruct auths|apply same_outside_refl].
  - destruct auths as [|a auths]; [simpl in L; lia|]. inversion W as [|?? [Wa Da] Wr]; subst.
    destruct (co_marshal _ _ _ Tss2_MU_TPMS_AUTH_COMMAND_ok a Wa Da) as [P _].
    destruct (P b size lo) as (rc&b1&lo1&E&Po); [done..|]. unfold ADDR in E.
    cbn [auths_marshal]. rewrite E. cbn [default id from_option].
    destruct Po as [(w&Ew&F&->&->&Wr1)|(Hr&Hl&So&_)]; cbn [negb Z.eqb TSS2_RC_SUCCESS].
    + pose proof (auth_wire_bytes a w Wa Ew) as Bw. pose proof (written_len _ _ _ _ Wr1).
      destruct (IH auths b1 size (lo + Zlen w)) as (rc2&b2&lo2&E2&So2);
        [done|simpl in L; lia|zlia|lia|]. do 3 eexists. split; [exact E2|].
      apply (same_outside_trans b b1 b2 lo (lo + Zlen w)); [zlia| |done].
      by apply (written_outside b lo w).
    + rewrite (proj2 (Z.eqb_neq _ _) Hr). do 3 eexists. split; [done|]. done.
Qed.

(** The buffer after the area of [A] bytes was inserted. *)
Lemma insert_auths_safe arr A n c :
  auths_array arr -> sys_mem c -> laid_out c -> 1 <= cmd_count arr <= TSS2_SYS_MAX_SESSIONS ->
  0 <= A -> n = A + 4 + (cpBuffer c + cpBufferUsedSize c) -> n <= maxCmdSize c ->
  exists rc b, insert_auths arr A n c = Ret (rc, Some (set_authsCount (cmd_count arr)
      (set_cmdBuffer b (set_cpBuffer (cpBuffer c + (A + 4)) c)))) /\
    bytes_ok b /\ Zlen b = Zlen (cmdBuffer c) /\ mem_read b 2 4 = Some (be_bytes 4 n).
Proof.
  intros [_ Hl Ho] [B _ Hx Hu] [_ Hc Hus He] Hn HA -> Hm.
  set (cp := cpBuffer c) in *. set (us := cpBufferUsedSize c) in *.
  set (n := A + 4 + (cp + us)) in *. unfold sizeof_TPM20_Header_In in Hc.
  destruct (mem_read_is_Some (cmdBuffer c) cp us) as [pw Rp]; [lia..|].
  pose proof (mem_read_len _ _ _ _ Rp) as Lp. pose proof (mem_read_bytes _ _ _ _ B Rp) as Bp.
  destruct (mem_write_is_Some (cmdBuffer c) (cp + A + 4) pw) as [b2 W2]; [lia..|].
  pose proof (mem_write_bytes _ _ _ _ B Bp W2) as B2. apply mem_write_len in W2 as L2.
  destruct (mem_write_is_Some b2 cp (replicate 4 0)) as [b3 W3]; [lia|zlia|].
  assert (Bz : bytes_ok (replicate 4 0)) by (by repeat constructor).
  pose proof (mem_write_bytes _ _ _ _ B2 Bz W3) as B3. apply mem_write_len in W3 as L3.
  destruct (u32_marshal A b3 n cp) as (b4&E4&W4); [lia..|].
  pose proof (mem_write_bytes _ _ _ _ B3 (be_bytes_ok _ _) W4) as B4.
  apply mem_write_len in W4 as L4.
  destruct (auths_marshal_safe (Z.to_nat (cmd_count arr)) (cmd_auths arr) b4 n (cp + 4))
    as (rc&b5&lo5&E5&L5&K5&_); [done|unfold Zlen, TSS2_SYS_MAX_SESSIONS in *; lia|lia..|].
  destruct (mem_write_is_Some b5 2 (be_bytes 4 n)) as [b6 W6]; [done|zlia|].
  exists rc, b6. unfold insert_auths, buf_move, buf_store. ctx_cbn. fold cp us.
  rewrite Rp. ctx_cbn. rewrite W2. ctx_cbn. fold cp. rewrite W3. ctx_cbn. fold cp.
  rewrite E4. ctx_cbn. cbn [negb Z.eqb TSS2_RC_SUCCESS]. rewrite E5. ctx_cbn.
  unfold set_hdr_commandSize, hdr_write. ctx_cbn. rewrite image_be_32, W6 by lia.
  split_and!; [done| | |].
  - exact (mem_write_bytes _ _ _ _ (K5 B4) (be_bytes_ok _ _) W6).
  - apply mem_write_len in W6. lia.
  - apply mem_read_write in W6. by rewrite Zlen_be_bytes in W6.
Qed.

(** What [Tss2_Sys_SetCmdAuths] may change, and what it keeps. *)
Record auths_post c c' : Prop := AuthsPost {
  ap_frame : c' = set_authsCount (authsCount c') (set_cmdBuffer (cmdBuffer c')
                    (set_cpBuffer (cpBuffer c') c));
  ap_bytes : bytes_ok (cmdBuffer c');
  ap_len : Zlen (cmdBuffer c') = Zlen (cmdBuffer c);
  ap_count : 0 <= authsCount c' <= TSS2_SYS_MAX_SESSIONS;
  ap_same : previousStage c <> CMD_STAGE_PREPARE \/ authAllowed c = false -> c' = c;
  ap_layout : laid_out c -> laid_out c'
}.

Lemma auths_post_refl c :
  sys_mem c -> 0 <= authsCount c <= TSS2_SYS_MAX_SESSIONS -> auths_post c c.
Proof. intros M ?. split; try done; [by destruct c|apply M]. Qed.

(** For any array, and a context whose layout is consistent when it has to be. *)
Lemma SetCmdAuths_safe arr c :
  auths_array arr -> sys_mem c -> maxCmdSize c <= 2 ^ 31 ->
  (previousStage c = CMD_STAGE_PREPARE -> authAllowed c = true -> laid_out c) ->
  0 <= authsCount c <= TSS2_SYS_MAX_SESSIONS ->
  exists rc c', Tss2_Sys_SetCmdAuths (Some arr) (Some c) = Ret (rc, Some c') /\ auths_post c c'.
Proof.
  intros Ar M Hm Hlay Hn. pose proof Ar as [Hc Hl Ho]. pose proof M as [B Hh Hx Hu].
  pose proof (auths_post_refl c M Hn) as Rf. unfold sizeof_TPM20_Header_In in Hh.
  unfold Tss2_Sys_SetCmdAuths, stage_is. case_test; [by eauto|].
  destruct (bool_decide (previousStage c = CMD_STAGE_PREPARE)) eqn:St; [|by eauto].
  apply bool_decide_eq_true in St. destruct (authAllowed c) eqn:Au; [|by eauto].
  cbn [negb]. pose proof (Hlay St eq_refl) as La. pose proof La as [R2 Lc Lu Le].
  destruct (mem_write_is_Some (cmdBuffer c) 0 (be_bytes 2 TPM2_ST_SESSIONS)) as [b1 W1];
    [done|zlia|]. pose proof (mem_write_bytes _ _ _ _ B (be_bytes_ok _ _) W1) as B1.
  apply mem_write_len in W1 as L1.
  rewrite <-(mem_read_write_out _ _ _ _ 2 4 W1) in R2 by (rewrite Zlen_be_bytes; lia).
  unfold set_hdr_tag, hdr_write. ctx_cbn. rewrite image_be_16, W1 by done. ctx_cbn.
  set (k := Z.to_nat (cmd_count arr)). unfold TSS2_SYS_MAX_SESSIONS in *.
  assert (Wt : auths_wf (take k (cmd_auths arr))) by by apply Forall_take, auths_ok_wf.
  pose proof (auths_total_bound _ Wt) as Bt.
  assert (Zlen (take k (cmd_auths arr)) <= 3).
  { unfold Zlen. rewrite length_take. unfold k. lia. }
  rewrite auths_size_ok; [|by apply auths_ok_wf|unfold k, Zlen in *; lia|lia..].
  set (A := 0 + auths_total (take k (cmd_auths arr))). unfold hdr_commandSize, hdr_read. ctx_cbn.
  change (Z.of_nat 4) with 4. rewrite R2. ctx_cbn.
  unfold sizeof_TPM20_Header_In in Lc. rewrite value_be_32 by lia.
  set (c1 := set_cmdBuffer b1 (set_authsCount 0 c)).
  assert (M1 : sys_mem c1) by by apply (sys_mem_ext c).
  assert (P1 : auths_post c c1).
  { split; [by destruct c|done..|intros []; congruence|intros _; by split]. }
  rewrite (wrap_small 32 (A + 4)), wrap_small by (unfold A; lia).
  case_test; [by eauto|]. case_test; [by eauto|].
  destruct (insert_auths_safe arr A (A + 4 + (cpBuffer c1 + cpBufferUsedSize c1)) c1)
    as (rc&b&E&Bb&Lb&Rb); [done|done|by split|unfold TSS2_SYS_MAX_SESSIONS; lia|unfold A; lia
    |done|done|]. change (cpBuffer c1) with (cpBuffer c) in *.
  change (cpBufferUsedSize c1) with (cpBufferUsedSize c) in *. rewrite E.
  do 2 eexists. split; [done|]. split.
  - by destruct c.
  - done.
  - simpl in *. lia.
  - simpl. unfold TSS2_SYS_MAX_SESSIONS. lia.
  - intros []; congruence.
  - intros _. split; unfold sizeof_TPM20_Header_In, A in *; simpl in *; try lia.
    rewrite Rb. do 2 f_equal. lia.
Qed.

End Auth.
