(* ===== verification/SysExec.v ===== *)
(** * Sending a command and receiving the response.

    The effect of [Tss2_Sys_ExecuteAsync] and [Tss2_Sys_ExecuteFinish] on a
    context, for any transport and any response. *)

From S2P Require Import Prelude Common MuSpec MuBase MuBaseOk MuStruct MuTpm2b MuTpm2bOk TpmTypes MuTypes SysCodes Sys SysOk.
Open Scope tss_scope.

Section Exec.
Context {H : Host} {S : Type}.
Implicit Types (c : blob S).

(** ** The response header *)

Definition rsp_image (t sz rc : Z) : bytes := be_bytes 2 t ++ be_bytes 4 sz ++ be_bytes 4 rc.

Lemma unmarshal_at ty b size lo d v :
  ctype_ok ty -> csigned ty = false -> bytes_ok b -> 0 <= size <= Zlen b -> 0 <= lo ->
  lo + csizeof ty <= size -> in_range ty v ->
  mem_read b lo (csizeof ty) = Some (be_bytes (csize ty) v) -> in_range ty d ->
  BASE_UNMARSHAL ty (Some b) size (Some lo) (Some d)
  = Ret (TSS2_RC_SUCCESS, (Some (lo + csizeof ty), Some v)).
Proof.
  intros O Sg B Hs Hlo Hf Rv R Rd.
  assert (E : s_wire (spec_int ty) v = Some (be_bytes (csize ty) v)).
  { cbn [s_wire spec_int]. rewrite to_unsigned_small; [done|].
    unfold in_range in Rv. by rewrite Sg in Rv. }
  destruct (parse_ok_recognise (BASE_UNMARSHAL ty) (spec_int ty) (BASE_UNMARSHAL_ok ty O)
    b size lo d v (be_bytes (csize ty) v)) as (d'&Eu&_&Q); try done.
  - by apply fits_int.
  - right. by rewrite Zlen_be_bytes.
  - rewrite Eu, Zlen_be_bytes. simpl in Q. by subst.
Qed.

(** The members of [rsp_header] are initialised storage. *)
Definition rsp_ok (h : TPM20_Header_Out) : Prop :=
  in_range UINT16 (tag h) /\ in_range UINT32 (responseSize h) /\ in_range UINT32 (responseCode h).

Lemma rsp_unmarshal_at ty get set c v :
  ctype_ok ty -> csigned ty = false -> sys_mem c -> 0 <= nextData c ->
  nextData c + csizeof ty <= maxCmdSize c -> in_range ty v ->
  mem_read (cmdBuffer c) (nextData c) (csizeof ty) = Some (be_bytes (csize ty) v) ->
  in_range ty (get (rsp_header c)) ->
  rsp_unmarshal (BASE_UNMARSHAL ty) get set (Some c)
  = Ret (TSS2_RC_SUCCESS, Some (set_rsp_header (set v (rsp_header c))
      (set_nextData (nextData c + csizeof ty) c))).
Proof.
  intros O Sg M Hn Hf Rv R Rd. unfold rsp_unmarshal, ctx_unmarshal. cbn [deref option_map].
  destruct M. rewrite (unmarshal_at ty _ _ _ _ v); try done.
  unfold sizeof_TPM20_Header_In in *. lia.
Qed.

Lemma rsp_image_parts b t sz rc :
  mem_read b 0 sizeof_TPM20_Header_Out = Some (rsp_image t sz rc) ->
  mem_read b 0 2 = Some (be_bytes 2 t) /\ mem_read b 2 4 = Some (be_bytes 4 sz) /\
  mem_read b 6 4 = Some (be_bytes 4 rc).
Proof.
  unfold rsp_image. intros R.
  replace sizeof_TPM20_Header_Out with (Zlen (be_bytes 2 t ++ be_bytes 4 sz ++ be_bytes 4 rc))
    in R by (rewrite !Zlen_app, !Zlen_be_bytes; done).
  apply mem_read_split in R as [R0 R]. apply mem_read_split in R as [R2 R6].
  by rewrite !Zlen_be_bytes in *.
Qed.

(** The first ten bytes of any buffer are a header. *)
Lemma rsp_image_exists b :
  bytes_ok b -> sizeof_TPM20_Header_Out <= Zlen b ->
  exists t sz rc, mem_read b 0 sizeof_TPM20_Header_Out = Some (rsp_image t sz rc) /\
    in_range UINT16 t /\ in_range UINT32 sz /\ in_range UINT32 rc.
Proof.
  unfold sizeof_TPM20_Header_Out. intros B L.
  destruct (load_be_16 b 0) as (t&R0&?); [done|lia..|].
  destruct (load_be_32 b 2) as (sz&R2&?); [done|lia..|].
  destruct (load_be_32 b 6) as (rc&R6&?); [done|lia..|].
  exists t, sz, rc. split; [|done]. change 10 with (2 + (4 + 4)). by repeat apply mem_read_app.
Qed.

Definition good_tag (t : Z) : bool := (t =? TPM2_ST_SESSIONS) || (t =? TPM2_ST_NO_SESSIONS).

Lemma good_tag_range tg : good_tag tg = true -> 0 <= tg < 2 ^ 16.
Proof. unfold good_tag, TPM2_ST_SESSIONS, TPM2_ST_NO_SESSIONS. lia. Qed.

(** What is done with the response in the buffer, by its header. *)
Lemma finish_response_eq c t sz rc :
  sys_mem c -> rsp_ok (rsp_header c) -> in_range UINT16 t -> in_range UINT32 sz ->
  in_range UINT32 rc ->
  mem_read (cmdBuffer c) 0 sizeof_TPM20_Header_Out = Some (rsp_image t sz rc) ->
  finish_response (Some c) =
    if good_tag t then
      if maxCmdSize c <? sz
      then Ret (TSS2_SYS_RC_MALFORMED_RESPONSE, Some (set_rsp_header
             (Header_Out t sz (responseCode (rsp_header c))) (set_nextData 6 c)))
      else finish_code (Some (set_rsp_header (Header_Out t sz rc)
             (set_nextData sizeof_TPM20_Header_Out c)))
    else Ret (if t =? TPM2_ST_RSP_COMMAND then TSS2_SYS_RC_GENERAL_FAILURE
              else TSS2_SYS_RC_MALFORMED_RESPONSE,
              Some (set_rsp_header (set_tag t (rsp_header c)) (set_nextData 2 c))).
Proof.
  intros M (Rt&Rs&Rc) It Is Ic (R0&R2&R6)%rsp_image_parts. pose proof (sm_hdr _ M) as Hm.
  unfold sizeof_TPM20_Header_In in Hm. unfold finish_response, sys_seq.
  unfold Tss2_MU_TPM2_ST_Unmarshal, Tss2_MU_UINT32_Unmarshal. cbn [ctx_set deref].
  cbn [Z.eqb TSS2_RC_SUCCESS].
  rewrite (rsp_unmarshal_at UINT16 _ _ _ t);
    [|ctype|done|by apply (sys_mem_ext c); try apply M|done|unfold csizeof; simpl; lia|done..].
  ctx_cbn. cbn [Z.eqb TSS2_RC_SUCCESS]. unfold finish_tag at 1. ctx_cbn.
  change (tag (set_tag t (rsp_header c))) with t. rewrite <-negb_orb. fold (good_tag t).
  destruct (good_tag t); cbn [negb]; [|by destruct (t =? TPM2_ST_RSP_COMMAND)].
  cbn [Z.eqb TSS2_RC_SUCCESS].
  rewrite (rsp_unmarshal_at UINT32 _ _ _ sz);
    [|ctype|done|by apply (sys_mem_ext c); try apply M|done|unfold csizeof; simpl; lia|done..].
  ctx_cbn. cbn [Z.eqb TSS2_RC_SUCCESS]. unfold finish_size at 1. ctx_cbn.
  change (responseSize (set_responseSize sz (set_tag t (rsp_header c)))) with sz.
  case_test; [done|].
  cbn [Z.eqb TSS2_RC_SUCCESS].
  rewrite (rsp_unmarshal_at UINT32 _ _ _ rc);
    [|ctype|done|by apply (sys_mem_ext c); try apply M|done|unfold csizeof; simpl; lia|done..].
  done.
Qed.

(** [finish_code] on each kind of response. *)
Lemma finish_code_eq c b :
  mem_write (cmdBuffer c) 0 (cmd_header c) = Some b ->
  let h := rsp_header c in
  finish_code (Some c) =
    if responseSize h <? sizeof_TPM20_Header_Out
    then Ret (TSS2_SYS_RC_INSUFFICIENT_RESPONSE, Some (set_previousStage CMD_STAGE_PREPARE c))
    else if (responseCode h =? TSS2_RC_SUCCESS) || (responseCode h =? TPM2_RC_INITIALIZE)
    then Ret (responseCode h, Some (set_previousStage CMD_STAGE_RECEIVE_RESPONSE c))
    else Ret (responseCode h, Some (set_cmdBuffer b (set_previousStage CMD_STAGE_PREPARE c))).
Proof.
  intros W h. unfold finish_code. cbn [deref]. fold h. case_test; [done|].
  destruct (responseCode h =? TSS2_RC_SUCCESS), (responseCode h =? TPM2_RC_INITIALIZE);
    cbn [negb andb orb]; try done. unfold buf_store. ctx_cbn. by rewrite W.
Qed.

(** ** Sending *)

Lemma ExecuteAsync_eq c n cmd h :
  previousStage c = CMD_STAGE_PREPARE -> 0 <= n < 2 ^ 32 ->
  mem_read (cmdBuffer c) 2 4 = Some (be_bytes 4 n) ->
  mem_read (cmdBuffer c) 0 n = Some cmd ->
  mem_read (cmdBuffer c) 0 sizeof_TPM20_Header_In = Some h ->
  Tss2_Sys_ExecuteAsync (Some c) =
    let '(rval, t) := Tss2_Tcti_Transmit (tctiContext c) n cmd in
    if rval =? TSS2_RC_SUCCESS
    then Ret (TSS2_RC_SUCCESS, Some (set_previousStage CMD_STAGE_SEND_COMMAND
           (set_cmd_header h (set_tctiContext t c))))
    else Ret (rval, Some (set_tctiContext t c)).
Proof.
  intros St Hn R2 R Rh. unfold Tss2_Sys_ExecuteAsync, check_ctx. cbn [deref].
  unfold stage_is. rewrite St. cbn [negb bool_decide decide cmdStates_eq_dec].
  rewrite bool_decide_true by done. cbn [negb].
  unfold hdr_commandSize, hdr_read. change (Z.of_nat 4) with 4. rewrite R2. cbn [access].
  change (HOST_TO_BE_32 (host_value (be_bytes 4 n)))
    with (BE_TO_HOST_32 (host_value (be_bytes 4 n))). rewrite value_be_32, R by done.
  cbn [access]. destruct (Tss2_Tcti_Transmit (tctiContext c) n cmd) as [rval t].
  destruct (rval =? TSS2_RC_SUCCESS) eqn:E; cbn [negb]; [|done]. bool2prop. subst.
  ctx_cbn. by rewrite Rh.
Qed.

(** ** The transport *)

(** What the System API relies on in a transport: a call without a buffer
    only reports a size, a call with a buffer stores at most [*size] bytes. *)
Class TransportOk (t : TSS2_TCTI_CONTEXT S) : Prop := {
  tr_size : forall f s n r tmo rc n' w s', tcti_receive t = Some f ->
    f s n r tmo = (rc, (n', (w, s'))) -> 0 <= n';
  tr_null : forall f s n tmo rc n' w s', tcti_receive t = Some f ->
    f s n false tmo = (rc, (n', (w, s'))) -> w = [];
  tr_store : forall f s n tmo rc n' w s', tcti_receive t = Some f -> 0 <= n ->
    f s n true tmo = (rc, (n', (w, s'))) -> bytes_ok w /\ Zlen w <= n
}.

#[export] Instance set_tcti_state_ok s t : TransportOk t -> TransportOk (set_tcti_state s t).
Proof. intros []. by split. Qed.

Definition transport_ok (t : option (TSS2_TCTI_CONTEXT S)) : Prop :=
  match t with Some x => TransportOk x | None => True end.

Lemma Transmit_transport t n cmd :
  transport_ok t -> transport_ok (Tss2_Tcti_Transmit t n cmd).2.
Proof.
  destruct t as [x|]; [|done]. simpl. intros O. case_test; [done|].
  destruct (tcti_transmit x) as [f|]; [|done]. destruct (f _ _ _). simpl. by apply _.
Qed.

Lemma Receive_transport t n r tmo rc n' w t' :
  transport_ok t -> Tss2_Tcti_Receive t n r tmo = (rc, (n', (w, t'))) ->
  transport_ok t' /\ (rc = TSS2_RC_SUCCESS -> 0 <= n') /\
  (r = true -> 0 <= n -> bytes_ok w /\ Zlen w <= n).
Proof.
  assert (N : forall n : Z, r = true -> 0 <= n -> bytes_ok [] /\ Zlen (@nil Z) <= n).
  { intros. split; [done|]. by rewrite Zlen_nil. }
  destruct t as [x|]; simpl; [|intros _ E; by simplify_eq].
  intros O. case_test; [intros E; by simplify_eq|].
  destruct (tcti_receive x) as [f|] eqn:Ef; [|intros E; by simplify_eq].
  destruct (f _ _ _ _) as [rv [sz [v s']]] eqn:Er. intros E. simplify_eq. split_and!.
  - simpl. by apply _.
  - intros _. by eapply tr_size.
  - intros -> Hn. by eapply tr_store.
Qed.

(** ** Receiving *)

(** The context after [w] was received. *)
Definition received (t : option (TSS2_TCTI_CONTEXT S)) (b : bytes) (h : TPM20_Header_Out)
    (n : Z) (st : cmdStates) c : blob S :=
  set_previousStage st (set_rsp_header h (set_nextData n (set_cmdBuffer b (set_tctiContext t c)))).

(** [w] is what a receive call may store. *)
Definition stored c (w : bytes) : Prop := bytes_ok w /\ Zlen w <= maxCmdSize c.

(** The transitions of [Tss2_Sys_ExecuteFinish], for a transport that stays in
    [G] and whose calls that return [rc] store bytes in [Q rc]. *)
Inductive finish_step (G : option (TSS2_TCTI_CONTEXT S) -> Prop) (Q : TSS2_RC -> bytes -> Prop)
    c : TSS2_RC -> blob S -> Prop :=
| fs_sequence :
    previousStage c <> CMD_STAGE_SEND_COMMAND -> finish_step G Q c TSS2_SYS_RC_BAD_SEQUENCE c
| fs_no_response rc t :
    G t -> rc <> TSS2_RC_SUCCESS -> finish_step G Q c rc (set_tctiContext t c)
| fs_short t :
    G t -> finish_step G Q c TSS2_SYS_RC_INSUFFICIENT_RESPONSE
      (set_previousStage CMD_STAGE_PREPARE (set_tctiContext t c))
| fs_big t :
    G t -> finish_step G Q c TSS2_SYS_RC_INSUFFICIENT_CONTEXT
      (set_previousStage CMD_STAGE_PREPARE (set_tctiContext t c))
| fs_receive_failed rc rc0 t w b :
    G t -> Q rc0 w -> rc0 <> TSS2_RC_SUCCESS -> rc <> TSS2_RC_SUCCESS -> mem_write (cmdBuffer c) 0 w = Some b -> stored c w ->
    finish_step G Q c rc (set_cmdBuffer b (set_tctiContext t c))
| fs_bad_tag rc t w b tg :
    G t -> Q TSS2_RC_SUCCESS w ->
    mem_write (cmdBuffer c) 0 w = Some b -> stored c w -> mem_read b 0 2 = Some (be_bytes 2 tg) ->
    good_tag tg = false -> rc <> TSS2_RC_SUCCESS -> in_range UINT16 tg ->
    finish_step G Q c rc (received t b (set_tag tg (rsp_header c)) 2 (previousStage c) c)
| fs_malformed t w b tg sz :
    G t -> Q TSS2_RC_SUCCESS w ->
    mem_write (cmdBuffer c) 0 w = Some b -> stored c w ->
    mem_read b 2 4 = Some (be_bytes 4 sz) ->
    in_range UINT16 tg -> in_range UINT32 sz -> maxCmdSize c < sz ->
    finish_step G Q c TSS2_SYS_RC_MALFORMED_RESPONSE
      (received t b (Header_Out tg sz (responseCode (rsp_header c))) 6 (previousStage c) c)
| fs_insufficient t w b tg sz rc :
    G t -> Q TSS2_RC_SUCCESS w ->
    mem_write (cmdBuffer c) 0 w = Some b -> stored c w ->
    mem_read b 0 sizeof_TPM20_Header_Out = Some (rsp_image tg sz rc) ->
    in_range UINT16 tg -> in_range UINT32 sz -> in_range UINT32 rc ->
    sz < sizeof_TPM20_Header_Out ->
    finish_step G Q c TSS2_SYS_RC_INSUFFICIENT_RESPONSE
      (received t b (Header_Out tg sz rc) sizeof_TPM20_Header_Out CMD_STAGE_PREPARE c)
| fs_tpm_error t w b b' tg sz rc :
    G t -> Q TSS2_RC_SUCCESS w ->
    mem_write (cmdBuffer c) 0 w = Some b -> stored c w ->
    mem_read b 0 sizeof_TPM20_Header_Out = Some (rsp_image tg sz rc) ->
    in_range UINT16 tg -> in_range UINT32 sz -> in_range UINT32 rc ->
    sizeof_TPM20_Header_Out <= sz <= maxCmdSize c ->
    rc <> TSS2_RC_SUCCESS -> rc <> TPM2_RC_INITIALIZE ->
    mem_write b 0 (cmd_header c) = Some b' ->
    finish_step G Q c rc
      (received t b' (Header_Out tg sz rc) sizeof_TPM20_Header_Out CMD_STAGE_PREPARE c)
| fs_response t w b tg sz rc :
    G t -> Q TSS2_RC_SUCCESS w ->
    mem_write (cmdBuffer c) 0 w = Some b -> stored c w ->
    mem_read b 0 sizeof_TPM20_Header_Out = Some (rsp_image tg sz rc) ->
    good_tag tg = true -> in_range UINT16 tg -> in_range UINT32 sz -> in_range UINT32 rc ->
    sizeof_TPM20_Header_Out <= sz <= maxCmdSize c ->
    rc = TSS2_RC_SUCCESS \/ rc = TPM2_RC_INITIALIZE ->
    finish_step G Q c rc
      (received t b (Header_Out tg sz rc) sizeof_TPM20_Header_Out CMD_STAGE_RECEIVE_RESPONSE c).

(** A context whose command was sent. *)
Record sent_ok c : Prop := SentOk {
  se_mem : sys_mem c;
  se_rsp : rsp_ok (rsp_header c);
  se_header : Zlen (cmd_header c) = sizeof_TPM20_Header_In;
  se_transport : transport_ok (tctiContext c)
}.

Section Finish.
Context (G : option (TSS2_TCTI_CONTEXT S) -> Prop) (Q : TSS2_RC -> bytes -> Prop).

Lemma finish_response_step c t w b :
  sent_ok c -> G t -> Q TSS2_RC_SUCCESS w ->
  mem_write (cmdBuffer c) 0 w = Some b -> stored c w ->
  exists rc c', finish_response (Some (set_cmdBuffer b (set_tctiContext t c))) = Ret (rc, Some c') /\
    finish_step G Q c rc c'.
Proof.
  intros [M Ro Lh _] Gt Qw W St. pose proof St as [Bw _]. pose proof (sm_max _ M) as Hx. pose proof (sm_hdr _ M) as Hm.
  pose proof (mem_write_bytes _ _ _ _ (sm_bytes _ M) Bw W) as Bb.
  apply mem_write_len in W as Lb. unfold sizeof_TPM20_Header_In in *.
  destruct (rsp_image_exists b Bb) as (tg&sz&rc&R&Rt&Rs&Rc);
    [unfold sizeof_TPM20_Header_Out; lia|].
  destruct (rsp_image_parts _ _ _ _ R) as (R0&R2&_).
  destruct (mem_write_is_Some b 0 (cmd_header c)) as [b' Wh]; [done|lia|].
  rewrite (finish_response_eq _ tg sz rc);
    [|by apply (sys_mem_ext c)|done..]. ctx_cbn. destruct (good_tag tg) eqn:Gd.
  2:{ do 2 eexists. split; [done|]. apply (fs_bad_tag G Q c _ t w b); try done.
      by destruct (tg =? TPM2_ST_RSP_COMMAND). }
  case_test; [do 2 eexists; split; [done|]; by apply (fs_malformed G Q c t w b)|].
  rewrite (finish_code_eq _ b') by done. ctx_cbn. cbn [responseSize responseCode].
  case_test; [do 2 eexists; split; [done|]; by apply (fs_insufficient G Q c t w b)|].
  destruct (rc =? TSS2_RC_SUCCESS) eqn:E0; cbn [orb]; bool2prop.
  { do 2 eexists. split; [done|]. apply (fs_response G Q c t w b); try done. by left. }
  destruct (rc =? TPM2_RC_INITIALIZE) eqn:E1; bool2prop.
  { do 2 eexists. split; [done|]. apply (fs_response G Q c t w b); try done. by right. }
  do 2 eexists. split; [done|]. by apply (fs_tpm_error G Q c t w b b' tg sz rc).
Qed.

(** Both calls of [Tss2_Tcti_Receive] are of a transport in [G]. *)
Lemma ExecuteFinish_step c tmo :
  sent_ok c -> G (tctiContext c) -> (forall t, G t -> transport_ok t) ->
  (forall t n r rc n' w t', G t -> Tss2_Tcti_Receive t n r tmo = (rc, (n', (w, t'))) ->
     G t' /\ (r = true -> Q rc w)) ->
  exists rc c', Tss2_Sys_ExecuteFinish tmo (Some c) = Ret (rc, Some c') /\
    finish_step G Q c rc c'.
Proof.
  intros O Gc Gt Gr. pose proof O as [M Ro Lh To].
  unfold Tss2_Sys_ExecuteFinish, check_ctx. cbn [deref].
  destruct (stage_is c CMD_STAGE_SEND_COMMAND) eqn:St; cbn [negb]; unfold stage_is in St;
    [apply bool_decide_eq_true in St|apply bool_decide_eq_false in St].
  2:{ do 2 eexists. split; [done|]. by apply fs_sequence. }
  destruct (Tss2_Tcti_Receive (tctiContext c) 0 false tmo) as [rc [n [w t]]] eqn:E1.
  destruct (Receive_transport _ _ _ _ _ _ _ _ To E1) as (_&N1&_).
  destruct (Gr _ _ _ _ _ _ _ Gc E1) as [G1 _].
  destruct (rc =? TSS2_RC_SUCCESS) eqn:Er; cbn [negb]; bool2prop.
  2:{ do 2 eexists. split; [done|]. by apply fs_no_response. }
  case_test; [do 2 eexists; split; [done|]; by apply fs_short|]. ctx_cbn.
  case_test; [do 2 eexists; split; [done|]; by apply fs_big|].
  destruct (Tss2_Tcti_Receive t n true tmo) as [rc2 [n2 [w2 t2]]] eqn:E2.
  destruct (Receive_transport _ _ _ _ _ _ _ _ (Gt _ G1) E2) as (_&_&S2).
  destruct (Gr _ _ _ _ _ _ _ G1 E2) as [G2 Q2]. specialize (Q2 eq_refl).
  destruct S2 as [Bw Lw]; [done|by apply N1|]. pose proof (sm_max _ M).
  assert (Sw : stored c w2) by (split; [done|lia]).
  destruct (mem_write_is_Some (cmdBuffer c) 0 w2) as [b W]; [done|lia|].
  unfold buf_store. ctx_cbn. rewrite W. ctx_cbn.
  destruct (rc2 =? TSS2_TCTI_RC_INSUFFICIENT_BUFFER) eqn:Ei; bool2prop.
  { do 2 eexists. split; [done|]. apply (fs_receive_failed G Q c _ rc2 t2 w2 b); try done.
    by rewrite Ei. }
  destruct (rc2 =? TSS2_RC_SUCCESS) eqn:Er2; cbn [negb]; bool2prop.
  2:{ do 2 eexists. split; [done|]. by apply (fs_receive_failed G Q c _ rc2 t2 w2 b). }
  subst rc2. exact (finish_response_step c t2 w2 b O G2 Q2 W Sw).
Qed.

End Finish.

(** ** Reissuing *)

(** The transport of [c] takes the command [cmd] and answers with [w]. *)
Record answers c (n : Z) (cmd w : bytes) (x : TSS2_TCTI_CONTEXT S)
    (f : S -> Z -> bytes -> TSS2_RC * S) (s' : S) : Prop := Answers {
  an_context : tctiContext c = Some x;
  an_version : 1 <= tcti_version x;
  an_transmit : tcti_transmit x = Some f;
  an_receive : exists g s1 s2 k, tcti_receive x = Some g /\
    f (tcti_state x) n cmd = (TSS2_RC_SUCCESS, s1) /\
    g s1 0 false TSS2_TCTI_TIMEOUT_BLOCK = (TSS2_RC_SUCCESS, (Zlen w, ([], s2))) /\
    g s2 (Zlen w) true TSS2_TCTI_TIMEOUT_BLOCK = (TSS2_RC_SUCCESS, (k, (w, s')))
}.

(** A command that is ready to be sent. *)
Record ready c (n : Z) (cmd : bytes) : Prop := Ready {
  rd_mem : sys_mem c;
  rd_rsp : rsp_ok (rsp_header c);
  rd_stage : previousStage c = CMD_STAGE_PREPARE;
  rd_size : mem_read (cmdBuffer c) 2 4 = Some (be_bytes 4 n);
  rd_range : 0 <= n <= maxCmdSize c;
  rd_cmd : mem_read (cmdBuffer c) 0 n = Some cmd
}.

(** The calls of the transport in [Tss2_Sys_ExecuteFinish]. *)
Lemma ExecuteFinish_receives c x g s1 s2 k w b :
  previousStage c = CMD_STAGE_SEND_COMMAND -> tctiContext c = Some x -> 1 <= tcti_version x ->
  tcti_receive x = Some g -> tcti_state x = s1 -> forall s',
  g s1 0 false TSS2_TCTI_TIMEOUT_BLOCK = (TSS2_RC_SUCCESS, (Zlen w, ([], s2))) ->
  g s2 (Zlen w) true TSS2_TCTI_TIMEOUT_BLOCK = (TSS2_RC_SUCCESS, (k, (w, s'))) ->
  sizeof_TPM20_Header_Out <= Zlen w <= maxCmdSize c -> mem_write (cmdBuffer c) 0 w = Some b ->
  Tss2_Sys_ExecuteFinish TSS2_TCTI_TIMEOUT_BLOCK (Some c) =
    finish_response (Some (set_cmdBuffer b (set_tctiContext (Some (set_tcti_state s' x)) c))).
Proof.
  intros St Ex Hv Eg Es s' E2 E3 Hw W. unfold Tss2_Sys_ExecuteFinish, check_ctx, stage_is.
  ctx_cbn. rewrite bool_decide_true by done. cbn [negb]. rewrite Ex.
  unfold Tss2_Tcti_Receive at 1. rewrite (proj2 (Z.ltb_ge _ _) Hv), Eg, Es, E2.
  cbn [negb Z.eqb TSS2_RC_SUCCESS]. ctx_cbn.
  rewrite (proj2 (Z.ltb_ge (Zlen w) _)), (proj2 (Z.ltb_ge (maxCmdSize c) _)) by lia.
  unfold Tss2_Tcti_Receive. cbn [set_tcti_state tcti_version tcti_receive tcti_state].
  rewrite (proj2 (Z.ltb_ge _ _) Hv), Eg, E3. unfold buf_store. ctx_cbn. rewrite W. done.
Qed.

Lemma rsp_image_ok tg sz rc :
  Zlen (rsp_image tg sz rc) = sizeof_TPM20_Header_Out /\ bytes_ok (rsp_image tg sz rc).
Proof.
  unfold rsp_image. rewrite !Zlen_app, !Zlen_be_bytes, !Forall_app. auto using be_bytes_ok.
Qed.

Lemma Execute_tpm_error c n cmd tg rc x f s' :
  ready c n cmd -> answers c n cmd (rsp_image tg 10 rc) x f s' ->
  good_tag tg = true -> in_range UINT32 rc -> rc <> TSS2_RC_SUCCESS -> rc <> TPM2_RC_INITIALIZE ->
  exists c', Tss2_Sys_Execute (Some c) = Ret (rc, Some c') /\
    tctiContext c' = Some (set_tcti_state s' x) /\
    cmdBuffer c' = cmdBuffer c /\ cpBuffer c' = cpBuffer c /\
    cpBufferUsedSize c' = cpBufferUsedSize c /\ ready c' n cmd.
Proof.
  intros [M Ro St R2 Hn Rc] [Ex Hv Ef (g&s1&s2&k&Eg&E1&E2&E3)] Gd Ic N0 N1.
  pose proof M as [B Hh Hx Hu]. unfold sizeof_TPM20_Header_In in Hh.
  destruct (rsp_image_ok tg 10 rc) as [Lw Bw]. set (w := rsp_image tg 10 rc) in *.
  unfold sizeof_TPM20_Header_Out in Lw.
  destruct (mem_read_is_Some (cmdBuffer c) 0 10) as [h Rh]; [lia..|].
  destruct (mem_write_is_Some (cmdBuffer c) 0 w) as [b1 W1]; [done|lia|].
  pose proof (mem_write_bytes _ _ _ _ B Bw W1) as B1. pose proof (mem_write_len _ _ _ _ W1) as L1.
  pose proof (mem_read_len _ _ _ _ Rh) as Lh.
  destruct (mem_write_is_Some b1 0 h) as [b2 W2]; [done|lia|].
  assert (b2 = cmdBuffer c) as -> by (apply (mem_write_restore _ 0 w h b1); by rewrite ?Lw).
  unfold Tss2_Sys_Execute, check_ctx, sys_seq.
  rewrite (ExecuteAsync_eq c n cmd h) by (done || lia). rewrite Ex. unfold Tss2_Tcti_Transmit.
  rewrite (proj2 (Z.ltb_ge _ _) Hv), Ef, E1. cbn [Z.eqb TSS2_RC_SUCCESS].
  rewrite (ExecuteFinish_receives _ (set_tcti_state s1 x) g s1 s2 k w b1) with (s':=s');
    [|done..|rewrite Lw; unfold sizeof_TPM20_Header_Out; simpl; lia|done].
  rewrite (finish_response_eq _ tg 10 rc);
    [|by apply (sys_mem_ext c)|done|exact (good_tag_range tg Gd)|done|done|].
  2:{ apply mem_read_write in W1. by rewrite Lw in W1. }
  rewrite Gd. ctx_cbn. rewrite (proj2 (Z.ltb_ge (maxCmdSize c) 10)) by lia.
  rewrite (finish_code_eq _ (cmdBuffer c)) by done. ctx_cbn. cbn [responseSize responseCode].
  change (10 <? sizeof_TPM20_Header_Out) with false. cbv iota.
  rewrite (proj2 (Z.eqb_neq _ _) N0), (proj2 (Z.eqb_neq _ _) N1). cbn [orb].
  eexists. split; [done|]. do 4 (split; [done|]). split; try done.
  split; [exact (good_tag_range tg Gd)|]. by split.
Qed.

End Exec.
