(* ===== verification/SysSafe.v ===== *)
(** * The invariant of a System API context.

    [sys_inv] is what holds of a context over a transport that talks to a TPM
    2.0 between calls; every function of the context keeps it.  [SysReach]
    draws the conclusions for sequences of calls. *)

From S2P Require Import Prelude Common MuSpec MuBase MuBaseOk MuStruct MuTpm2b MuTpm2bOk TpmTypes MuTypes MuTypesOk SysCodes Sys SysOk SysCmds SysCmdsOk SysAuth SysExec.
Open Scope tss_scope.

Section Safe.
Context {H : Host} {S : Type}.
Implicit Types (c : blob S).

(** ** Completing *)

Lemma uint_skip_eq ty b size lo :
  BASE_UNMARSHAL ty (Some b) size (Some lo) None =
    if (size <? lo) || (size - lo <? csizeof ty)
    then Ret (TSS2_MU_RC_INSUFFICIENT_BUFFER, (Some lo, None))
    else Ret (TSS2_RC_SUCCESS, (Some (wrap64 (lo + csizeof ty)), None)).
Proof. done. Qed.

(** Where [CommonComplete] leaves [nextData]. *)
Definition params_offset (t : Z) c : Z :=
  rspParamsSize c + (if t =? TPM2_ST_SESSIONS then 4 else 0).

Lemma CommonComplete_eq c t sz rc :
  sys_mem c ->
  (previousStage c = CMD_STAGE_RECEIVE_RESPONSE -> 0 <= rspParamsSize c < size_max - 4) ->
  in_range UINT16 t -> in_range UINT32 sz -> in_range UINT32 rc ->
  mem_read (cmdBuffer c) 0 sizeof_TPM20_Header_Out = Some (rsp_image t sz rc) ->
  CommonComplete (Some c) =
    if maxCmdSize c <? sz then Ret (TSS2_SYS_RC_MALFORMED_RESPONSE, Some c)
    else if negb (stage_is c CMD_STAGE_RECEIVE_RESPONSE)
    then Ret (TSS2_SYS_RC_BAD_SEQUENCE, Some c)
    else if (t =? TPM2_ST_SESSIONS) && (maxCmdSize c <? rspParamsSize c + 4)
    then Ret (TSS2_MU_RC_INSUFFICIENT_BUFFER, Some (set_nextData (rspParamsSize c) c))
    else Ret (TSS2_RC_SUCCESS, Some (set_nextData (params_offset t c) c)).
Proof.
  intros M Hp It Is Ic (R0&R2&R6)%rsp_image_parts. pose proof M as [B Hh Hx _].
  unfold sizeof_TPM20_Header_In in Hh. apply u32_bound in Is.
  unfold CommonComplete, check_ctx. ctx_cbn. unfold hdr_responseSize, hdr_read.
  change (Z.of_nat 4) with 4. rewrite R2. ctx_cbn. rewrite value_be_32 by done.
  case_test; [done|].
  destruct (stage_is c CMD_STAGE_RECEIVE_RESPONSE) eqn:St; cbn [negb]; [|done].
  unfold stage_is in St. apply bool_decide_eq_true in St. specialize (Hp St).
  ctx_cbn. unfold Tss2_MU_TPM2_ST_Unmarshal. rewrite (unmarshal_at UINT16 _ _ _ _ t);
    [|ctype|done|done|lia|lia|unfold csizeof; simpl; lia|done|done|done].
  cbn [negb Z.eqb TSS2_RC_SUCCESS]. ctx_cbn. unfold params_offset.
  destruct (t =? TPM2_ST_SESSIONS) eqn:Et; cbn [andb].
  2:{ by rewrite Z.add_0_r. }
  unfold ctx_unmarshal, Tss2_MU_UINT32_Unmarshal. ctx_cbn. rewrite uint_skip_eq.
  change (csizeof UINT32) with 4. destruct (maxCmdSize c <? rspParamsSize c + 4) eqn:Em; bool2prop.
  - replace ((maxCmdSize c <? rspParamsSize c) || (maxCmdSize c - rspParamsSize c <? 4)) with true;
      [by destruct c|]. symmetry. apply orb_true_iff. right. apply Z.ltb_lt. lia.
  - replace ((maxCmdSize c <? rspParamsSize c) || (maxCmdSize c - rspParamsSize c <? 4)) with false.
    + ctx_cbn. rewrite wrap64_small by lia. done.
    + symmetry. apply orb_false_intro; apply Z.ltb_ge; lia.
Qed.

(** ** The transport of a TPM 2.0 *)

(** A call that fails stores nothing; a call that succeeds stores a response:
    a header with one of the two tags of TPM 2.0, its size, and the rest. *)
Class Tpm2Transport (t : TSS2_TCTI_CONTEXT S) : Prop := {
  tp_ok :: TransportOk t;
  tp_fail : forall f s n r tmo rc n' w s', tcti_receive t = Some f ->
    f s n r tmo = (rc, (n', (w, s'))) -> rc <> TSS2_RC_SUCCESS -> w = [];
  tp_response : forall f s n tmo n' w s', tcti_receive t = Some f ->
    f s n true tmo = (TSS2_RC_SUCCESS, (n', (w, s'))) ->
    exists tg rc rest, w = rsp_image tg (Zlen w) rc ++ rest /\ good_tag tg = true /\
      in_range UINT32 rc
}.

#[export] Instance set_tcti_state_tpm2 s t : Tpm2Transport t -> Tpm2Transport (set_tcti_state s t).
Proof. intros []. split; [by apply set_tcti_state_ok|done..]. Qed.

Definition tpm2_transport (t : option (TSS2_TCTI_CONTEXT S)) : Prop :=
  match t with Some x => Tpm2Transport x | None => True end.

(** What a call that returns [rc] stores. *)
Definition tpm2_stores (rc : TSS2_RC) (w : bytes) : Prop :=
  if rc =? TSS2_RC_SUCCESS
  then exists tg rc0 rest, w = rsp_image tg (Zlen w) rc0 ++ rest /\ good_tag tg = true /\
         in_range UINT32 rc0
  else w = [].

Lemma tpm2_transport_ok t : tpm2_transport t -> transport_ok t.
Proof. destruct t as [x|]; [|done]. intros O. exact (@tp_ok x O). Qed.

Lemma Transmit_tpm2 t n cmd : tpm2_transport t -> tpm2_transport (Tss2_Tcti_Transmit t n cmd).2.
Proof.
  destruct t as [x|]; [|done]. simpl. intros O. case_test; [done|].
  destruct (tcti_transmit x) as [f|]; [|done]. destruct (f _ _ _). simpl. by apply _.
Qed.

Lemma Receive_tpm2 t n r tmo rc n' w t' :
  tpm2_transport t -> Tss2_Tcti_Receive t n r tmo = (rc, (n', (w, t'))) ->
  tpm2_transport t' /\ (r = true -> tpm2_stores rc w).
Proof.
  destruct t as [x|]; simpl; [|intros _ E; by simplify_eq].
  intros O. case_test; [intros E; by simplify_eq|].
  destruct (tcti_receive x) as [f|] eqn:Ef; [|intros E; by simplify_eq].
  destruct (f _ _ _ _) as [rv [sz [v s']]] eqn:Er. intros E. simplify_eq. split.
  - simpl. by apply _.
  - intros ->. unfold tpm2_stores. case_test; [subst; by eapply tp_response|by eapply tp_fail].
Qed.

(** ** The invariant *)

(** The size in the command header is inside the buffer. *)
Definition sendable c : Prop :=
  exists n, mem_read (cmdBuffer c) 2 4 = Some (be_bytes 4 n) /\ 0 <= n <= maxCmdSize c.

(** What holds from a successful [Prepare] on until the response arrives. *)
Definition cmd_ok c : Prop := sendable c /\ (authAllowed c = true -> laid_out c).

(** The header of a response that was accepted. *)
Definition response_ok (h : TPM20_Header_Out) (max : Z) : Prop :=
  good_tag (tag h) = true /\ sizeof_TPM20_Header_Out <= responseSize h <= max /\
  (responseCode h = TSS2_RC_SUCCESS \/ responseCode h = TPM2_RC_INITIALIZE).

Record sys_inv c : Prop := SysInv {
  si_mem : sys_mem c;
  si_small : maxCmdSize c <= 2 ^ 31;
  si_rsp : rsp_ok (rsp_header c);
  si_transport : tpm2_transport (tctiContext c);
  si_auths : 0 <= authsCount c <= TSS2_SYS_MAX_SESSIONS;
  si_prepare : previousStage c = CMD_STAGE_PREPARE -> cmd_ok c;
  si_send : previousStage c = CMD_STAGE_SEND_COMMAND -> cmd_ok c /\
    mem_read (cmdBuffer c) 0 sizeof_TPM20_Header_In = Some (cmd_header c);
  si_params : previousStage c <> CMD_STAGE_INITIALIZE ->
    0 <= rspParamsSize c <= sizeof_TPM20_Header_Out + 4;
  si_response : previousStage c = CMD_STAGE_RECEIVE_RESPONSE ->
    response_ok (rsp_header c) (maxCmdSize c);
  si_next : 0 <= nextData c
}.

(** Tss2_Sys_Initialize establishes it. *)
Lemma Initialize_inv contextSize t abi c rc c' :
  Tss2_Sys_Initialize contextSize (Some t) abi (Some c) = Ret (rc, Some c') ->
  rc = TSS2_RC_SUCCESS ->
  sizeof_TSS2_SYS_CONTEXT_BLOB + sizeof_TPM20_Header_In <= contextSize
    <= sizeof_TSS2_SYS_CONTEXT_BLOB + 2 ^ 31 ->
  Zlen (cmdBuffer c) = contextSize - sizeof_TSS2_SYS_CONTEXT_BLOB ->
  bytes_ok (cmdBuffer c) -> rsp_ok (rsp_header c) ->
  0 <= authsCount c <= TSS2_SYS_MAX_SESSIONS -> Tpm2Transport t -> sys_inv c'.
Proof.
  unfold Tss2_Sys_Initialize. intros E Hr Hs Hl B Ro Ha Ht.
  repeat (case_test; [simplify_eq|]). simplify_eq.
  unfold sizeof_TSS2_SYS_CONTEXT_BLOB, sizeof_TPM20_Header_In in *.
  assert (Ew : wrap 32 (contextSize - 80) = contextSize - 80) by (apply wrap_small; lia).
  split; simpl; try done.
  - split; simpl; unfold sizeof_TPM20_Header_In, sizeof_TSS2_SYS_CONTEXT_BLOB;
      rewrite ?Ew; (lia || done).
  - unfold sizeof_TSS2_SYS_CONTEXT_BLOB. rewrite Ew. lia.
Qed.

(** ** Every call keeps it *)

Lemma Abort_inv c : sys_inv c ->
  exists c', Tss2_Sys_Abort (Some c) = Ret (TSS2_RC_SUCCESS, Some c') /\ sys_inv c' /\
    previousStage c' = CMD_STAGE_INITIALIZE.
Proof.
  intros [M ? ? ? ? _ _ _ _ ?]. eexists. split; [done|]. split; [|done]. split; try done.
  by apply (sys_mem_ext c); try apply M.
Qed.

Lemma Prepare_inv cc hs ps d e a P c :
  prepare_of cc hs ps d e a P -> sys_inv c ->
  exists rc c', P H (Some c) = Ret (rc, Some c') /\ sys_inv c' /\
    (previousStage c' = previousStage c \/
     can_prepare (previousStage c) = true /\ previousStage c' = CMD_STAGE_PREPARE).
Proof.
  intros Pr [M Sm Ro Tr Au Ip Is Ir Id Nx].
  destruct (prepare_of_ok _ _ _ _ _ _ _ Pr H) as [_ O].
  destruct (O c M) as (rc&c'&E&M'&(F1&F2&F3&F4&F5)&Bad&Good). exists rc, c'. split; [done|].
  pose proof (GetNumResponseHandles_bound cc) as Nr. unfold sizeof_TPM20_Header_Out in *.
  destruct (can_prepare (previousStage c)) eqn:Cp.
  2:{ destruct Bad as [_ ->]; [done|]. split; [|by left].
      split; simpl; try done; intros St; rewrite St in Cp; try done.
      destruct (Is St) as [[Sd La] Hd]. split; [|done]. by split. }
  destruct (Good eq_refl) as [(w&Ew&Fi&_&Pd)|(_&St&(_&_&Na)&R2&Le&_&Rp&_)].
  - destruct Pd as [Im Fi' Nd Pc Pu Pn Ps Pcc Pnr Pr' Pf]. split; [|by right].
    assert (La : laid_out c').
    { pose proof (Zlen_nonneg hs). pose proof (wires_handles _ _ _ Ew).
      unfold sizeof_TPM20_Header_In in *. split; unfold sizeof_TPM20_Header_In; try lia.
      destruct (cmd_image_parts cc [] w (cmdBuffer c')) as (R2&_); [done|].
      rewrite R2. do 2 f_equal. unfold sizeof_TPM20_Header_In.
      rewrite (Zlen_nil (A:=Z)), Pc, Pu. lia. }
    split; try congruence; [|rewrite Pr'; unfold sizeof_TPM20_Header_Out; lia
      |rewrite Nd; unfold sizeof_TPM20_Header_In; pose proof (Zlen_nonneg w); lia].
    intros _. split; [|done]. destruct La as [R2 Lc Lu Le]. eexists. split; [exact R2|].
    unfold sizeof_TPM20_Header_In in *. lia.
  - split; [|by left]. split; try congruence;
      [| |rewrite Rp; unfold sizeof_TPM20_Header_Out; lia|by rewrite St, F4, F2].
    + rewrite St. intros Sp. destruct (Ip Sp) as [(n&Rn&Hn) _]. split; [|congruence].
      exists n. by rewrite R2, F2.
    + rewrite St. intros Sp. by rewrite Sp in Cp.
Qed.

Lemma SetCmdAuths_inv arr c :
  auths_array arr -> sys_inv c ->
  exists rc c', Tss2_Sys_SetCmdAuths (Some arr) (Some c) = Ret (rc, Some c') /\ sys_inv c' /\
    previousStage c' = previousStage c.
Proof.
  intros Ar I. pose proof I as [M Sm Ro Tr Au Ip Is Ir Id Nx].
  destruct (SetCmdAuths_safe arr c Ar M Sm) as (rc&c'&E&P); [|done|].
  { intros St. apply (Ip St). }
  exists rc, c'. split; [done|]. destruct P as [F B L C Sa La].
  destruct (decide (previousStage c = CMD_STAGE_PREPARE)) as [St|St];
    [|rewrite Sa by (by left); by split].
  destruct (authAllowed c) eqn:Ea; [|rewrite Sa by (by right); by split].
  assert (Es : previousStage c' = previousStage c) by by rewrite F.
  split; [|done]. assert (L' : laid_out c') by (apply La, (Ip St); done).
  assert (Em : maxCmdSize c' = maxCmdSize c) by by rewrite F.
  assert (Er : rsp_header c' = rsp_header c) by by rewrite F.
  assert (Et : tctiContext c' = tctiContext c) by by rewrite F.
  assert (Ep : rspParamsSize c' = rspParamsSize c) by by rewrite F.
  split; rewrite ?Em, ?Er, ?Et, ?Ep, ?Es, ?St; try done.
  - by apply (sys_mem_ext c).
  - intros _. split; [|done]. destruct L' as [R2 Lc Lu Le]. eexists. split; [exact R2|].
    unfold sizeof_TPM20_Header_In in *. lia.
  - intros _. apply Ir. by rewrite St.
  - by rewrite F.
Qed.

Lemma ExecuteAsync_inv c :
  sys_inv c ->
  exists rc c', Tss2_Sys_ExecuteAsync (Some c) = Ret (rc, Some c') /\ sys_inv c' /\
    (previousStage c' = previousStage c \/
     previousStage c = CMD_STAGE_PREPARE /\ previousStage c' = CMD_STAGE_SEND_COMMAND).
Proof.
  intros I. pose proof I as [M Sm Ro Tr Au Ip Is Ir Id Nx].
  destruct (decide (previousStage c = CMD_STAGE_PREPARE)) as [St|St].
  2:{ exists TSS2_SYS_RC_BAD_SEQUENCE, c. unfold Tss2_Sys_ExecuteAsync, check_ctx, stage_is.
      ctx_cbn. rewrite bool_decide_false by done. auto. }
  destruct (Ip St) as [(n&R2&Hn) La]. pose proof (sm_hdr _ M) as Hh.
  pose proof (sm_max _ M) as Hx. pose proof (sm_u32 _ M) as Hu.
  destruct (mem_read_is_Some (cmdBuffer c) 0 n) as [cmd Rc]; [lia..|].
  unfold sizeof_TPM20_Header_In in Hh.
  destruct (mem_read_is_Some (cmdBuffer c) 0 10) as [h Rh]; [lia..|].
  rewrite (ExecuteAsync_eq c n cmd h) by (done || lia).
  pose proof (Transmit_tpm2 (tctiContext c) n cmd Tr) as Tt.
  destruct (Tss2_Tcti_Transmit (tctiContext c) n cmd) as [rc t]. simpl in Tt.
  assert (Sd : sendable c) by by exists n.
  case_test; do 2 eexists; (split; [done|]).
  - split; [|by right]. split; try done; [by apply (sys_mem_same c)| |].
    + intros _. split; [|done]. split; [done|]. intros Ha. by destruct (La Ha).
    + intros _. apply Ir. by rewrite St.
  - split; [|by left]. split; try done; [by apply (sys_mem_same c)| |].
    + intros _. split; [done|]. intros Ha. by destruct (La Ha).
    + intros E. simpl in E. congruence.
Qed.

(** A read of the header sees the same size field. *)
Lemma same_header b b' h :
  mem_read b 0 sizeof_TPM20_Header_In = Some h -> mem_read b' 0 sizeof_TPM20_Header_In = Some h ->
  mem_read b' 2 4 = mem_read b 2 4.
Proof.
  unfold sizeof_TPM20_Header_In. intros R R'.
  rewrite (mem_read_sub _ _ _ _ 2 4 R), (mem_read_sub _ _ _ _ 2 4 R') by lia. done.
Qed.

(** The response of a TPM 2.0 is seen as such in the buffer. *)
Lemma tpm2_response b w b' :
  tpm2_stores TSS2_RC_SUCCESS w -> mem_write b 0 w = Some b' -> Zlen w < 2 ^ 32 ->
  exists tg, good_tag tg = true /\ mem_read b' 0 2 = Some (be_bytes 2 tg) /\
    mem_read b' 2 4 = Some (be_bytes 4 (Zlen w)) /\ sizeof_TPM20_Header_Out <= Zlen w.
Proof.
  intros (tg&rc&rest&E&G&_) W Hw. exists tg.
  assert (L : Zlen (rsp_image tg (Zlen w) rc) = sizeof_TPM20_Header_Out).
  { unfold rsp_image. by rewrite !Zlen_app, !Zlen_be_bytes. }
  assert (R : mem_read b' 0 sizeof_TPM20_Header_Out = Some (rsp_image tg (Zlen w) rc)).
  { apply mem_read_write in W. rewrite E in W at 1 2. apply mem_read_split in W as [W _].
    by rewrite L in W. }
  apply rsp_image_parts in R as (R0&R2&_). split_and!; [done..|].
  apply (f_equal Zlen) in E. rewrite Zlen_app, L in E. zlia.
Qed.

Lemma be_bytes_inj n v v' :
  0 <= v < 256 ^ Z.of_nat n -> 0 <= v' < 256 ^ Z.of_nat n -> be_bytes n v = be_bytes n v' -> v = v'.
Proof. intros ?? E%(f_equal be_value). by rewrite !be_value_be_bytes in E. Qed.

Lemma received_inv t b h n st c :
  sys_inv c -> tpm2_transport t -> bytes_ok b -> Zlen b = Zlen (cmdBuffer c) -> rsp_ok h ->
  previousStage c = CMD_STAGE_SEND_COMMAND ->
  0 <= n ->
  (st = CMD_STAGE_RECEIVE_RESPONSE /\ response_ok h (maxCmdSize c) \/
   st = CMD_STAGE_PREPARE /\ mem_read b 2 4 = mem_read (cmdBuffer c) 2 4) ->
  sys_inv (received t b h n st c).
Proof.
  intros [M Sm Ro Tr Au Ip Is Ir Id Nx] Tt B L Rh St Hn Cs. destruct (Is St) as [[(k&Rk&Hk) La] _].
  split; try done; simpl.
  - by apply (sys_mem_ext c).
  - intros ->. destruct Cs as [[??]|[_ R2]]; [done|]. split.
    + exists k. simpl. by rewrite R2.
    + intros Ha. destruct (La Ha). by split; simpl; rewrite ?R2.
  - intros ->. by destruct Cs as [[??]|[??]].
  - intros _. apply Ir. by rewrite St.
  - intros ->. by destruct Cs as [[??]|[??]].
Qed.

Lemma tcti_inv t c : sys_inv c -> tpm2_transport t -> sys_inv (set_tctiContext t c).
Proof.
  intros [M Sm Ro Tr Au Ip Is Ir Id Nx] Tt. split; try done; [by apply (sys_mem_same c)|..].
  - intros St. destruct (Ip St) as [Sd La]. split; [done|]. intros Ha. by destruct (La Ha).
  - intros St. destruct (Is St) as [[Sd La] Hd]. split; [|done]. split; [done|].
    intros Ha. by destruct (La Ha).
Qed.

Lemma back_inv c :
  sys_inv c -> previousStage c = CMD_STAGE_SEND_COMMAND ->
  sys_inv (set_previousStage CMD_STAGE_PREPARE c).
Proof.
  intros [M Sm Ro Tr Au Ip Is Ir Id Nx] St. destruct (Is St) as [[Sd La] _].
  split; try done; [by apply (sys_mem_same c)|..].
  - intros _. split; [done|]. intros Ha. by destruct (La Ha).
  - intros _. apply Ir. by rewrite St.
Qed.

Lemma finish_step_inv c rc c' :
  sys_inv c -> previousStage c = CMD_STAGE_SEND_COMMAND ->
  finish_step tpm2_transport tpm2_stores c rc c' ->
  sys_inv c' /\ (previousStage c' = CMD_STAGE_SEND_COMMAND \/
    previousStage c' = CMD_STAGE_PREPARE \/ previousStage c' = CMD_STAGE_RECEIVE_RESPONSE).
Proof.
  intros I St F. pose proof (si_mem _ I) as M. destruct (si_send _ I St) as [_ Hd].
  pose proof (sm_bytes _ M) as B. pose proof (sm_u32 _ M) as Hu.
  destruct F as [N|rc t Gt Hr|t Gt|t Gt|rc rc0 t w b Gt Qw Hr0 Hr W Sw
    |rc t w b tg Gt Qw W Sw R Bad Hr It|t w b tg sz Gt Qw W Sw R It Is Hs
    |t w b tg sz rc Gt Qw W Sw R It Is Ic Hs
    |t w b b' tg sz rc Gt Qw W Sw R It Is Ic Hs H0 H1 W'
    |t w b tg sz rc Gt Qw W Sw R G It Is Ic Hs Hc].
  - done.
  - split; [by apply tcti_inv|by left].
  - split; [by apply back_inv; [apply tcti_inv|]|auto].
  - split; [by apply back_inv; [apply tcti_inv|]|auto].
  - unfold tpm2_stores in Qw. rewrite (proj2 (Z.eqb_neq _ _) Hr0) in Qw. subst w.
    rewrite mem_write_nil in W by zlia. some_inv. split; [|by left].
    replace (set_cmdBuffer (cmdBuffer c) (set_tctiContext t c)) with (set_tctiContext t c)
      by by destruct c. by apply tcti_inv.
  - destruct Sw as [_ Lw]. destruct (tpm2_response _ _ _ Qw W) as (tg'&G&R'&_); [lia|].
    rewrite R in R'. apply (inj Some), be_bytes_inj in R'; [congruence|..].
    + by apply u16_bound.
    + by apply good_tag_range.
  - destruct Sw as [_ Lw]. destruct (tpm2_response _ _ _ Qw W) as (tg'&G&_&R'&_); [lia|].
    rewrite R in R'. apply (inj Some), be_bytes_inj in R'; [lia|by apply u32_bound|].
    pose proof (Zlen_nonneg w). simpl. lia.
  - destruct Sw as [_ Lw]. destruct (tpm2_response _ _ _ Qw W) as (tg'&G&_&R'&L'); [lia|].
    apply rsp_image_parts in R as (_&R&_). rewrite R in R'.
    apply (inj Some), be_bytes_inj in R'; [lia|by apply u32_bound|].
    pose proof (Zlen_nonneg w). simpl. lia.
  - split; [|auto]. pose proof (mem_read_bytes _ _ _ _ B Hd) as Bh.
    pose proof (mem_write_bytes _ _ _ _ B (proj1 Sw) W) as Bb.
    apply received_inv; try done.
    + exact (mem_write_bytes _ _ _ _ Bb Bh W').
    + apply mem_write_len in W, W'. lia.
    + right. split; [done|]. apply (same_header _ _ (cmd_header c)); [done|].
      apply mem_read_write in W'. apply mem_read_len in Hd. by rewrite Hd in W'.
  - split; [|auto]. apply received_inv; try done; [|by apply mem_write_len in W|by left; split].
    exact (mem_write_bytes _ _ _ _ B (proj1 Sw) W).
Qed.

Lemma sys_inv_sent c :
  sys_inv c -> previousStage c = CMD_STAGE_SEND_COMMAND -> sent_ok c.
Proof.
  intros [M Sm Ro Tr Au Ip Is Ir Id Nx] St. destruct (Is St) as [_ Hd].
  split; [done|done|by apply mem_read_len in Hd|by apply tpm2_transport_ok].
Qed.

Lemma ExecuteFinish_inv tmo c :
  sys_inv c ->
  exists rc c', Tss2_Sys_ExecuteFinish tmo (Some c) = Ret (rc, Some c') /\ sys_inv c' /\
    (previousStage c' = previousStage c \/
     previousStage c = CMD_STAGE_SEND_COMMAND /\
       (previousStage c' = CMD_STAGE_PREPARE \/ previousStage c' = CMD_STAGE_RECEIVE_RESPONSE)).
Proof.
  intros I. destruct (decide (previousStage c = CMD_STAGE_SEND_COMMAND)) as [St|St].
  2:{ exists TSS2_SYS_RC_BAD_SEQUENCE, c. unfold Tss2_Sys_ExecuteFinish, check_ctx, stage_is.
      ctx_cbn. rewrite bool_decide_false by done. auto. }
  destruct (ExecuteFinish_step tpm2_transport tpm2_stores c tmo) as (rc&c'&E&F).
  - by apply sys_inv_sent.
  - apply I.
  - apply tpm2_transport_ok.
  - intros. by eapply Receive_tpm2.
  - exists rc, c'. split; [done|]. destruct (finish_step_inv c rc c' I St F) as [I' Cs].
    split; [done|]. rewrite St. destruct Cs as [->|[->| ->]]; auto.
Qed.

Lemma next_inv c n : sys_inv c -> 0 <= n -> sys_inv (set_nextData n c).
Proof.
  intros [M Sm Ro Tr Au Ip Is Ir Id Nx] Hn. split; try done; [by apply (sys_mem_same c)|..].
  - intros St. destruct (Ip St) as [Sd La]. split; [done|]. intros Ha. by destruct (La Ha).
  - intros St. destruct (Is St) as [[Sd La] Hd]. split; [|done]. split; [done|].
    intros Ha. by destruct (La Ha).
Qed.

Lemma CommonComplete_inv c :
  sys_inv c ->
  exists rc n, CommonComplete (Some c) = Ret (rc, Some (set_nextData n c)) /\
    sys_inv (set_nextData n c) /\
    (rc = TSS2_RC_SUCCESS -> previousStage c = CMD_STAGE_RECEIVE_RESPONSE).
Proof.
  intros I. pose proof I as [M Sm Ro Tr Au Ip Is Ir Id Nx].
  pose proof (fun n => next_inv c n I) as All.
  assert (Same : c = set_nextData (nextData c) c) by by destruct c.
  pose proof (sm_hdr _ M) as Hh. unfold sizeof_TPM20_Header_In, sizeof_TPM20_Header_Out in *.
  destruct (rsp_image_exists (cmdBuffer c) (sm_bytes _ M)) as (t&sz&rc&R&It&Iz&Ic).
  { unfold sizeof_TPM20_Header_Out. pose proof (sm_max _ M). lia. }
  rewrite (CommonComplete_eq c t sz rc); [|done| |done..].
  2:{ intros St. rewrite St in Ir. specialize (Ir ltac:(done)). unfold size_max. lia. }
  case_test; [exists TSS2_SYS_RC_MALFORMED_RESPONSE, (nextData c); by rewrite <-Same|].
  case_test; [exists TSS2_SYS_RC_BAD_SEQUENCE, (nextData c); by rewrite <-Same|].
  match goal with E : stage_is _ _ = true |- _ => apply bool_decide_eq_true in E as Es end.
  rewrite Es in Ir. destruct (Ir ltac:(done)) as [Hp _].
  case_test; do 2 eexists; (split; [done|split; [apply All|done]]); [lia|].
  unfold params_offset. case_match; lia.
Qed.

End Safe.
