(* ===== verification/SysOutOk.v ===== *)
(** * Completing a command.

    What the [Tss2_Sys_X_Complete] functions do to a context and to the
    objects of the caller: [reads] is the contract of the unmarshal calls that
    follow [CommonComplete], [completes] the contract of a whole function,
    with the response on the wire given by [rsp_msg]. *)

From S2P Require Import Prelude Common MuSpec MuBase MuBaseOk MuStruct MuTpm2b MuTpm2bOk MuUnion TpmTypes MuTypes MuTypesOk SysCodes Sys SysOk SysCmdsOk SysExec SysSafe.
Open Scope tss_scope.

(** ** Output parameters and what a response holds for them *)

(** One format and one value for each output parameter. *)
Inductive outs_spec : Type -> Type :=
| ONil : outs_spec unit
| OCons {T R} (s : spec T) (x : T) (o : outs_spec R) : outs_spec (option T * R).

Fixpoint images {R} (o : outs_spec R) : list (option bytes) :=
  match o with
  | ONil => []
  | OCons s x o => s_wire s x :: images o
  end.

Fixpoint outs_ok {R} (o : outs_spec R) : Prop :=
  match o with
  | ONil => True
  | OCons s x o => src_ok s x /\ outs_ok o
  end.

(** No output parameter is NULL, and all are well formed. *)
Fixpoint outs_wf {R} (o : outs_spec R) : R -> Prop :=
  match o with
  | ONil => fun _ => True
  | OCons s x o => fun p =>
      match p.1 with Some v => s_wf s v | None => False end /\ outs_wf o p.2
  end.

(** The output parameters are the values of the response, as far as they are
    on the wire. *)
Fixpoint received {R} (o : outs_spec R) : R -> Prop :=
  match o with
  | ONil => fun _ => True
  | OCons s x o => fun p =>
      match p.1 with Some v => s_wf s v /\ s_eqv s v x | None => False end /\ received o p.2
  end.

Lemma received_wf {R} (o : outs_spec R) r : received o r -> outs_wf o r.
Proof.
  induction o as [|T R s x o IH]; [done|]. simpl. intros [Hd Hr]. split; [|by apply IH].
  destruct r.1; [apply Hd|done].
Qed.

Section OutOk.
Context {H : Host} {S : Type}.
Implicit Types (c : blob S).

(** The size in the response header is inside the buffer. *)
Definition rsp_bounded c : Prop := 0 <= responseSize (rsp_header c) <= maxCmdSize c.

(** [u] implements the format [s]. *)
Definition decodes {T} (u : ufn T) (s : spec T) : Prop := recognise_ok u s /\ unmarshal_safe u s.

Lemma decodes_codec {T} m u (s : spec T) : codec_ok m u s -> decodes u s.
Proof.
  intros [O _ P]. split; [by apply parse_ok_recognise|by apply parse_ok_safe].
Qed.

Lemma decodes_lax {T} m u (s : spec T) : lax_codec_ok m u s -> decodes u s.
Proof. intros [_ _ R Sf]. by split. Qed.

(** The values [o] are read, one after the other, at [nextData]; nothing
    else of the context changes. *)
Definition reads_outs {R} (o : outs_spec R) (k : out_prog (S:=S) R) : Prop :=
  outs_wf o (untouched k) -> forall c, sys_mem c -> 0 <= nextData c -> rsp_bounded c ->
  (exists rc n r, run k (Some c) = Ret (rc, (Some (set_nextData n c), r)) /\ 0 <= n /\
     outs_wf o r) /\
  (forall w, outs_ok o -> wires (images o) = Some w ->
     mem_read (cmdBuffer c) (nextData c) (Zlen w) = Some w ->
     nextData c + Zlen w <= maxCmdSize c ->
     exists r, run k (Some c)
       = Ret (TSS2_RC_SUCCESS, (Some (set_nextData (nextData c + Zlen w) c), r)) /\
     received o r).

Lemma set_next_same c : set_nextData (nextData c) c = c.
Proof. by destruct c. Qed.

Lemma set_next_next m n c : set_nextData n (set_nextData m c) = set_nextData n c.
Proof. done. Qed.

Lemma next_mem c n : sys_mem c -> sys_mem (set_nextData n c).
Proof. intros M. by apply (sys_mem_same c). Qed.

Lemma reads_end : reads_outs ONil (out_end (S:=S)).
Proof.
  intros _ c M Hn _. split.
  - exists TSS2_RC_SUCCESS, (nextData c), tt. by rewrite set_next_same.
  - intros w _ E R _. simpl in E. some_inv. exists tt. rewrite (Zlen_nil (A:=Z)), Z.add_0_r.
    by rewrite set_next_same.
Qed.

(** One unmarshal call into a destination that is not NULL. *)
Lemma unmarshal_call {T} (u : ufn T) (s : spec T) d c :
  decodes u s -> s_wf s d -> sys_mem c -> 0 <= nextData c ->
  (exists rc n d', ctx_unmarshal u (Some c) (Some d)
     = Ret (rc, (Some (set_nextData n c), Some d')) /\ 0 <= n /\ s_wf s d') /\
  (forall x w, src_ok s x -> s_wire s x = Some w ->
     mem_read (cmdBuffer c) (nextData c) (Zlen w) = Some w ->
     nextData c + Zlen w <= maxCmdSize c ->
     exists d', ctx_unmarshal u (Some c) (Some d)
       = Ret (TSS2_RC_SUCCESS, (Some (set_nextData (nextData c + Zlen w) c), Some d')) /\
     s_wf s d' /\ s_eqv s d' x).
Proof.
  intros [Re Sf] Wd [B Hh Hx Hu] Hn. unfold sizeof_TPM20_Header_In in Hh.
  unfold ctx_unmarshal. ctx_cbn. split.
  - destruct (Sf (cmdBuffer c) (maxCmdSize c) (nextData c) d) as (rc&n&d'&E&Le&W); [done|lia|done|done|].
    rewrite E. ctx_cbn. exists rc, n, d'. split; [done|]. split; [lia|done].
  - intros x w [Wx _] Ew R Fi.
    destruct (Re (cmdBuffer c) (maxCmdSize c) (nextData c) d x w) as (d'&E&W&Q);
      [done|lia|done|done|done|done|by right|by right|].
    rewrite E. ctx_cbn. eauto.
Qed.

Lemma reads_unmarshal {T R} (u : ufn T) (s : spec T) x d (o : outs_spec R) k :
  decodes u s -> reads_outs o k -> reads_outs (OCons s x o) (out_unmarshal u d k).
Proof.
  intros De Rk [Wd Wk] c M Hn Rb. cbn [untouched out_unmarshal fst snd] in Wd, Wk.
  destruct d as [d|]; [|done]. destruct (unmarshal_call u s d c De Wd M Hn) as [Sf Re].
  specialize (Rk Wk). split.
  - destruct Sf as (rc&n&d'&E&Hm&Wd'). cbn [run out_unmarshal]. rewrite E. case_test; subst.
    + destruct (Rk (set_nextData n c) (next_mem c n M) Hm Rb) as [(rc2&n2&r&E2&Hm2&Wr) _].
      rewrite E2. cbn [obind]. do 3 eexists. split; [done|]. by split.
    + do 3 eexists. split; [done|]. by split.
  - intros w [Ox Ok] Ew Rw Fi. cbn [images wires foldr] in Ew.
    apply wire_app_Some in Ew as (w1&w2&E1&E2&->). rewrite Zlen_app in Fi.
    pose proof (Zlen_nonneg w1). pose proof (Zlen_nonneg w2).
    apply mem_read_split in Rw as [R1 R2].
    destruct (Re x w1 Ox E1 R1 ltac:(lia)) as (d'&E&Wd'&Q). cbn [run out_unmarshal]. rewrite E.
    cbn [Z.eqb TSS2_RC_SUCCESS].
    destruct (Rk (set_nextData (nextData c + Zlen w1) c) (next_mem c _ M)) as [_ Rg];
      [simpl; lia|done|].
    destruct (Rg w2 Ok E2) as (r&Er&Rr); [done|simpl; lia|]. rewrite Er. cbn [obind].
    exists (Some d', r). split; [|split; [by split|exact Rr]]. ctx_cbn. rewrite Zlen_app, Z.add_assoc. done.
Qed.

(** ** Responses *)

(** The response to a command: header, handles and parameters; with
    sessions, also the size of the parameters before them and the sessions
    [aw] after them. *)
Definition rsp_body (tg : Z) (hw pw aw : bytes) : bytes :=
  hw ++ (if tg =? TPM2_ST_SESSIONS then be_bytes 4 (Zlen pw) ++ pw ++ aw else pw).
Definition rsp_msg (tg : Z) (hw pw aw : bytes) : bytes :=
  rsp_image tg (sizeof_TPM20_Header_Out + Zlen (rsp_body tg hw pw aw)) TSS2_RC_SUCCESS
  ++ rsp_body tg hw pw aw.

Lemma Zlen_rsp_msg tg hw pw aw :
  Zlen (rsp_msg tg hw pw aw) = sizeof_TPM20_Header_Out + Zlen (rsp_body tg hw pw aw).
Proof.
  unfold rsp_msg. by rewrite Zlen_app, (proj1 (rsp_image_ok _ _ _)).
Qed.

(** The context holds a response that [Tss2_Sys_ExecuteFinish] accepted. *)
Record holds_rsp (tg : Z) (hw pw aw : bytes) c : Prop := HoldsRsp {
  hr_mem : sys_mem c;
  hr_stage : previousStage c = CMD_STAGE_RECEIVE_RESPONSE;
  hr_tag : good_tag tg = true;
  hr_read : mem_read (cmdBuffer c) 0 (Zlen (rsp_msg tg hw pw aw)) = Some (rsp_msg tg hw pw aw);
  hr_fits : Zlen (rsp_msg tg hw pw aw) <= maxCmdSize c;
  hr_header : rsp_header c = Header_Out tg (Zlen (rsp_msg tg hw pw aw)) TSS2_RC_SUCCESS;
  hr_next : nextData c = sizeof_TPM20_Header_Out;
  hr_params : rspParamsSize c = sizeof_TPM20_Header_Out + Zlen hw
}.

(** Where the parts of the response are. *)
Lemma rsp_parts tg hw pw aw c :
  holds_rsp tg hw pw aw c ->
  let p := sizeof_TPM20_Header_Out + Zlen hw + (if tg =? TPM2_ST_SESSIONS then 4 else 0) in
  mem_read (cmdBuffer c) 0 sizeof_TPM20_Header_Out
    = Some (rsp_image tg (Zlen (rsp_msg tg hw pw aw)) TSS2_RC_SUCCESS) /\
  mem_read (cmdBuffer c) sizeof_TPM20_Header_Out (Zlen hw) = Some hw /\
  mem_read (cmdBuffer c) p (Zlen pw) = Some pw /\ p + Zlen pw <= Zlen (rsp_msg tg hw pw aw) /\
  (tg = TPM2_ST_SESSIONS ->
     mem_read (cmdBuffer c) (sizeof_TPM20_Header_Out + Zlen hw) 4 = Some (be_bytes 4 (Zlen pw)) /\
     mem_read (cmdBuffer c) (p + Zlen pw) (Zlen aw) = Some aw /\
     Zlen (rsp_msg tg hw pw aw) = p + Zlen pw + Zlen aw).
Proof.
  intros [_ _ _ R _ _ _ _] p. rewrite Zlen_rsp_msg in *.
  set (n := sizeof_TPM20_Header_Out + Zlen (rsp_body tg hw pw aw)) in *.
  assert (Li : Zlen (rsp_image tg n TSS2_RC_SUCCESS) = sizeof_TPM20_Header_Out) by apply rsp_image_ok.
  assert (Ln : n = Zlen (rsp_msg tg hw pw aw)) by by rewrite Zlen_rsp_msg.
  rewrite Ln in R. unfold rsp_msg in R at 1 2. fold n in R. apply mem_read_split in R as [R1 R2].
  rewrite Li in R1, R2. unfold rsp_body in R2. apply mem_read_split in R2 as [R2 R3].
  pose proof (Zlen_nonneg aw). unfold p, n, rsp_body in *. rewrite Zlen_app.
  destruct (tg =? TPM2_ST_SESSIONS) eqn:Et; bool2prop; change (0 + sizeof_TPM20_Header_Out) with sizeof_TPM20_Header_Out in *.
  - apply mem_read_split in R3 as [R3 R4]. apply mem_read_split in R4 as [R4 R5].
    rewrite Zlen_be_bytes in *. rewrite !Zlen_app, Zlen_be_bytes in *.
    split_and!; try done; [lia|]. intros _. split_and!; [done..|lia].
  - rewrite !Zlen_app in *. split_and!; [done|done|by rewrite Z.add_0_r|lia|done].
Qed.

(** ** Whole functions *)

(** The contract of a [Complete] function for a command with [n] response
    handles: it is safe in every stage, and on a response to the command it
    returns what the response holds. *)
Definition completes (n : Z) {R} (o : outs_spec R) (P : out_prog (S:=S) R) : Prop :=
  outs_wf o (untouched P) ->
  (forall c, sys_inv c -> exists rc m r,
     run P (Some c) = Ret (rc, (Some (set_nextData m c), r)) /\ 0 <= m /\ outs_wf o r) /\
  (forall c tg hw pw aw, holds_rsp tg hw pw aw c -> Zlen hw = n * 4 -> outs_ok o ->
     wires (images o) = Some (hw ++ pw) -> exists m r,
     run P (Some c) = Ret (TSS2_RC_SUCCESS, (Some (set_nextData m c), r)) /\ received o r).

Lemma inv_bounded c :
  sys_inv c -> previousStage c = CMD_STAGE_RECEIVE_RESPONSE -> rsp_bounded c.
Proof.
  intros I St. destruct (si_response _ I St) as (_&?&_). unfold rsp_bounded, sizeof_TPM20_Header_Out in *.
  lia.
Qed.

(** [CommonComplete] on a response: to the start of the parameters, from
    wherever [nextData] is. *)
Lemma CommonComplete_rsp tg hw pw aw c m :
  holds_rsp tg hw pw aw c ->
  CommonComplete (Some (set_nextData m c)) = Ret (TSS2_RC_SUCCESS, Some (set_nextData
    (sizeof_TPM20_Header_Out + Zlen hw + (if tg =? TPM2_ST_SESSIONS then 4 else 0)) c)).
Proof.
  intros Hr. destruct (rsp_parts _ _ _ _ _ Hr) as (Rh&_&_&Hp&_).
  destruct Hr as [M St Gt _ Hf Hd _ Rp].
  set (sz := Zlen (rsp_msg tg hw pw aw)) in *. pose proof (sm_u32 _ M). pose proof (Zlen_nonneg hw).
  pose proof (Zlen_nonneg pw). pose proof (Zlen_nonneg (rsp_msg tg hw pw aw)).
  unfold sizeof_TPM20_Header_Out in *.
  rewrite (CommonComplete_eq _ tg sz TSS2_RC_SUCCESS); [|by apply next_mem| |
    exact (good_tag_range _ Gt)|change (0 <= sz < 2 ^ 32); lia|done|done].
  2:{ intros _. simpl. unfold size_max. case_match; lia. }
  simpl. rewrite (proj2 (Z.ltb_ge _ _)) by lia. unfold stage_is. simpl. rewrite St.
  rewrite bool_decide_true by done. cbn [negb]. rewrite Rp. unfold params_offset. simpl. rewrite Rp.
  destruct (tg =? TPM2_ST_SESSIONS); cbn [andb]; [|done].
  rewrite (proj2 (Z.ltb_ge _ _)) by lia. done.
Qed.

(** [rval = CommonComplete(ctx); if (rval) return rval;] and the parameters. *)
Lemma call_reads {R} (o : outs_spec R) k :
  reads_outs o k -> outs_wf o (untouched k) ->
  (forall c, sys_inv c -> exists rc m r, run (out_call CommonComplete k) (Some c)
     = Ret (rc, (Some (set_nextData m c), r)) /\ 0 <= m /\ outs_wf o r) /\
  (forall c tg hw pw aw j, holds_rsp tg hw pw aw c -> outs_ok o -> wires (images o) = Some pw ->
     exists m r, run (out_call CommonComplete k) (Some (set_nextData j c))
       = Ret (TSS2_RC_SUCCESS, (Some (set_nextData m c), r)) /\ received o r).
Proof.
  intros Rk Wk. specialize (Rk Wk). split.
  - intros c I. destruct (CommonComplete_inv c I) as (rc&n&E&I'&St). cbn [run out_call]. rewrite E.
    case_test; [|exists rc, n, (untouched k); split_and!; [done|apply (si_next _ I')|done]].
    destruct (Rk (set_nextData n c)) as [(rc2&n2&r&E2&Hn&Wr) _];
      [apply I'|apply (si_next _ I')|apply inv_bounded; auto|].
    rewrite E2. by exists rc2, n2, r.
  - intros c tg hw pw aw j Hr Ok Ew. pose proof (CommonComplete_rsp _ _ _ _ _ j Hr) as E.
    destruct (rsp_parts _ _ _ _ _ Hr) as (_&_&Rp&Hp&_). destruct Hr as [M St Gt _ Hf Hd _ _].
    cbn [run out_call]. rewrite E. cbn [Z.eqb TSS2_RC_SUCCESS].
    set (p := sizeof_TPM20_Header_Out + Zlen hw + _) in *.
    pose proof (Zlen_nonneg hw). pose proof (Zlen_nonneg (rsp_msg tg hw pw aw)).
    destruct (Rk (set_nextData p c) (next_mem _ _ M)) as [_ Rg].
    { unfold p, sizeof_TPM20_Header_Out. simpl. case_match; lia. }
    { unfold rsp_bounded. simpl. rewrite Hd. simpl. lia. }
    destruct (Rg pw Ok Ew) as (r&E2&Rr); [done|simpl; lia|]. rewrite E2. eauto.
Qed.

Lemma completes_params {R} (o : outs_spec R) k :
  reads_outs o k -> completes 0 o (out_check_ctx (out_call CommonComplete k)).
Proof.
  intros Rk Wk. destruct (call_reads o k Rk Wk) as [Sf Re]. split; [exact Sf|].
  intros c tg hw pw aw Hr L Ok Ew. apply Zlen_0_nil in L as ->.
  destruct (Re c tg [] pw aw (nextData c) Hr Ok Ew) as (m&r&E&Rr).
  rewrite set_next_same in E. by exists m, r.
Qed.

(** A function that reads a handle first. *)
Lemma completes_handle {R} h d (o : outs_spec R) k :
  reads_outs o k ->
  completes 1 (OCons (spec_int UINT32) h o)
    (out_check_ctx (out_unmarshal Tss2_MU_UINT32_Unmarshal d (out_call CommonComplete k))).
Proof.
  intros Rk [Wd Wk]. cbn [untouched out_check_ctx out_unmarshal out_call fst snd] in Wd, Wk.
  destruct d as [d|]; [|done].
  destruct (call_reads o k Rk Wk) as [Sf Re].
  assert (De : decodes Tss2_MU_UINT32_Unmarshal (spec_int UINT32)).
  { split; [apply parse_ok_recognise; [apply _|]|apply parse_ok_safe]; apply BASE_UNMARSHAL_ok; ctype. }
  split.
  - intros c I. destruct (unmarshal_call _ _ d c De Wd (si_mem _ I) (si_next _ I))
      as [(rc&n&d'&E&Hn&Wd') _]. cbn [run out_check_ctx out_unmarshal is_null]. rewrite E.
    case_test; subst.
    + destruct (Sf _ (next_inv c n I Hn)) as (rc2&m&r&E2&Hm&Wr). rewrite E2. cbn [obind].
      do 3 eexists. split; [done|]. by split.
    + do 3 eexists. split; [done|]. by split.
  - intros c tg hw pw aw Hr L [Oh Ok] Ew. cbn [images wires foldr] in Ew.
    apply wire_app_Some in Ew as (w1&w2&E1&E2&E).
    assert (L1 : Zlen w1 = 4).
    { cbn [s_wire spec_int] in E1. some_inv. apply Zlen_be_bytes. }
    assert (hw = w1 /\ pw = w2) as [-> ->].
    { apply app_inj_1 in E; [done|]. unfold Zlen in *. lia. }
    destruct (rsp_parts _ _ _ _ _ Hr) as (_&Rw&_&Hp&_).
    pose proof (hr_mem _ _ _ _ _ Hr) as M. pose proof (hr_next _ _ _ _ _ Hr) as Nx.
    pose proof (hr_fits _ _ _ _ _ Hr). pose proof (Zlen_nonneg w2).
    destruct (unmarshal_call _ _ d c De Wd M) as [_ Rh]; [rewrite Nx; done|].
    rewrite Nx in Rh. destruct (Rh h w1 Oh E1 Rw) as (d'&E3&Wd'&Q).
    { unfold sizeof_TPM20_Header_Out in *. destruct (tg =? TPM2_ST_SESSIONS); lia. }
    cbn [run out_check_ctx out_unmarshal is_null]. rewrite E3. cbn [Z.eqb TSS2_RC_SUCCESS].
    destruct (Re c tg w1 w2 aw (sizeof_TPM20_Header_Out + Zlen w1) Hr Ok E2) as (m&r&E4&Rr).
    rewrite E4. cbn [obind]. do 2 eexists. split; [done|]. by split.
Qed.

End OutOk.
