(* ===== verification/SysCompletesOk.v ===== *)
(** * Every [Complete] function returns what the response holds.

    [complete_of cc n o C]: [C] completes the command [cc], whose response has
    [n] handles, and stores the values [o] of the response.
    [one_call_of P C s F]: [F] is the one-call function of the command with
    the [Prepare] function [P] and the [Complete] function [C]; [s] says
    whether it takes sessions.

    The two functions that read a response handle at the place of the
    parameters are not listed: see [SysCallProps]. *)

From S2P Require Import Prelude Common MuSpec MuBase MuBaseOk MuStruct MuTpm2b MuTpm2bOk MuUnion MuPcr TpmTypes MuTypes MuTypesOk SysCodes Sys SysOk SysCmds SysCompletes SysOneCalls SysCmdsOk SysExec SysSafe SysOutOk.
Open Scope tss_scope.

Section Capability.
Context {H : Host} {S : Type}.
Implicit Types (c : blob S).

Lemma decodes_int ty : ctype_ok ty -> decodes (BASE_UNMARSHAL ty) (spec_int ty).
Proof.
  intros Ty. split; [apply parse_ok_recognise; [apply _|]|apply parse_ok_safe];
    by apply BASE_UNMARSHAL_ok.
Qed.

(** Reading a number ahead. *)
Lemma peek_u32 c :
  sys_mem c -> 0 <= nextData c ->
  let peek := Tss2_MU_UINT32_Unmarshal (Some (cmdBuffer c)) (maxCmdSize c) (Some (nextData c))
                (Some 0) in
  (exists v, peek = Ret (TSS2_RC_SUCCESS, (Some (nextData c + 4), Some v)) /\ 0 <= v < 2 ^ 32 /\
     nextData c + 4 <= maxCmdSize c /\ mem_read (cmdBuffer c) (nextData c) 4 = Some (be_bytes 4 v)) \/
  peek = Ret (TSS2_MU_RC_INSUFFICIENT_BUFFER, (Some (nextData c), Some 0)) /\
    maxCmdSize c < nextData c + 4.
Proof.
  intros [B Hh Hx Hu] Hn peek. unfold sizeof_TPM20_Header_In in Hh.
  destruct (Z.le_gt_cases (nextData c + 4) (maxCmdSize c)) as [Hf|Hf]; [left|right].
  - destruct (load_be_32 (cmdBuffer c) (nextData c) B Hn) as (v&R&Hv); [lia|].
    exists v. split; [|by split; [|split]]. unfold peek, Tss2_MU_UINT32_Unmarshal.
    rewrite (unmarshal_at UINT32 _ _ _ _ v);
      [done|ctype|done|done|lia|lia|change (csizeof UINT32) with 4; lia|done|done|done].
  - unfold peek, Tss2_MU_UINT32_Unmarshal, BASE_UNMARSHAL. cbn [default from_option id].
    change (csizeof UINT32) with 4.
    replace ((maxCmdSize c <? nextData c) || (maxCmdSize c - nextData c <? 4)) with true; [split; [done|lia]|].
    symmetry. apply orb_true_iff. right. apply Z.ltb_lt. lia.
Qed.

(** What is left of a response of the given size. *)
Lemma left_bound c n :
  rsp_bounded c -> sys_mem c -> 0 <= n <= maxCmdSize c ->
  let left := wrap64 (responseSize (rsp_header c) - n) in
  left <= cap_TPM2B_MAX_CAP_BUFFER -> left = responseSize (rsp_header c) - n /\ 0 <= left.
Proof.
  intros [Hr0 Hr] M Hn left Hl. pose proof (sm_u32 _ M). unfold left in *.
  destruct (Z.le_gt_cases n (responseSize (rsp_header c))) as [Le|Gt].
  - rewrite wrap64_small by (unfold size_max; lia). lia.
  - unfold wrap64, size_max in *.
    assert (E : responseSize (rsp_header c) - n + 2 ^ 64 = (responseSize (rsp_header c) - n) mod 2 ^ 64).
    { apply (Z.mod_unique_pos _ _ (-1)); lia. }
    rewrite <-E in Hl. unfold cap_TPM2B_MAX_CAP_BUFFER, TPM2_MAX_CAP_BUFFER in Hl. lia.
Qed.

Lemma vendor_wf (d : TPMS_CAPABILITY_DATA) :
  s_wf spec_TPMS_CAPABILITY_DATA d ->
  s_wf spec_TPM2B_MAX_CAP_BUFFER (default (zero_2b cap_TPM2B_MAX_CAP_BUFFER)
    (uget TPMU_CAPABILITIES'TPM2B_MAX_CAP_BUFFER (TPMS_CAPABILITY_DATA_data d))).
Proof.
  intros (_&W&_). cbn in W. destruct d as [cap [| | | | | | | | | |v]]; cbn in *;
    try exact zero_TPM2B_MAX_CAP_BUFFER_wf. exact W.
Qed.

Lemma reads_capability x d :
  TPMS_CAPABILITY_DATA_capability x <> TPM2_CAP_VENDOR_PROPERTY ->
  reads_outs (OCons spec_TPMS_CAPABILITY_DATA x ONil) (GetCapability_data (S:=S) d).
Proof.
  intros Nv [Wd _] c M Hn Rb. cbn [untouched GetCapability_data fst] in Wd.
  destruct d as [d|]; [|done]. pose proof (peek_u32 c M Hn) as Pk. cbv zeta in Pk.
  pose proof (unmarshal_call _ _ d c (decodes_codec _ _ _ Tss2_MU_TPMS_CAPABILITY_DATA_ok) Wd M Hn)
    as [Sf Re].
  cbn [run GetCapability_data]. ctx_cbn. split.
  - destruct Pk as [(v&->&Hv&Hf&_)|[-> _]].
    2:{ exists TSS2_MU_RC_INSUFFICIENT_BUFFER, (nextData c), (Some d, tt).
        rewrite set_next_same. by split_and!. }
    cbn [obind negb Z.eqb TSS2_RC_SUCCESS]. ctx_cbn. case_test.
    { destruct Sf as (rc&n&d'&->&Hm&W). cbn [obind]. by exists rc, n, (Some d', tt). }
    pose proof (left_bound c (nextData c + 4) Rb M ltac:(lia)) as Lb. cbv zeta in Lb.
    set (left := wrap64 _) in *. case_test.
    { exists TSS2_MU_RC_BAD_SIZE, (nextData c + 4), (Some d, tt).
      split; [done|]. split; [lia|by split]. }
    destruct Lb as [El L0]; [done|]. destruct Rb as [_ Hr]. pose proof (sm_max _ M).
    pose proof (vendor_wf d Wd) as (Lv&Bv&_). destruct Wd as (Wc&_).
    destruct (mem_read_is_Some (cmdBuffer c) (nextData c + 4) left) as [w Rw]; [lia..|].
    rewrite Rw. cbn [access obind]. apply mem_read_len in Rw as Lw.
    destruct (mem_write_is_Some (buffer (default (zero_2b cap_TPM2B_MAX_CAP_BUFFER)
      (uget TPMU_CAPABILITIES'TPM2B_MAX_CAP_BUFFER (TPMS_CAPABILITY_DATA_data d)))) 0 w)
      as [arr Wr]; [done|lia|]. rewrite Wr. cbn [access obind].
    exists TSS2_RC_SUCCESS, (nextData c + 4 + left), (Some (Mk_TPMS_CAPABILITY_DATA v
      (TPMU_CAPABILITIES_of_TPM2B_MAX_CAP_BUFFER (MkTPM2B left arr))), tt).
    split; [done|]. split; [lia|]. split; [|done].
    split; [exact Hv|]. split; [|done]. pose proof (mem_read_bytes _ _ _ _ (sm_bytes _ M) Rw) as Bw.
    split; [exact (eq_trans (mem_write_len _ _ _ _ Wr) Lv)|].
    split; [exact (mem_write_bytes _ _ _ _ Bv Bw Wr)|].
    unfold cap_TPM2B_MAX_CAP_BUFFER, TPM2_MAX_CAP_BUFFER in *. change (0 <= left < 2 ^ 16). lia.
  - intros w [Ox _] Ew Rw Fi. cbn [images wires foldr] in Ew.
    apply wire_app_Some in Ew as (w1&w2&E1&E2&->). some_inv. rewrite app_nil_r in *.
    pose proof E1 as E3. unfold spec_TPMS_CAPABILITY_DATA in E3.
    cbn [s_wire spec_app spec_on] in E3. apply wire_app_Some in E3 as (wc&wr&Ec&_&->).
    cbn [s_wire spec_int] in Ec. some_inv. destruct Ox as [[Wc Ws] Dx].
    pose proof (u32_bound _ Wc) as Bc. rewrite to_unsigned_small in * by exact Bc.
    pose proof Rw as Rw'. apply mem_read_split in Rw' as [Rc _]. rewrite Zlen_be_bytes in Rc.
    destruct Pk as [(v&->&Hv&Hf&Rv)|[_ Hx]].
    2:{ exfalso. rewrite Zlen_app, Zlen_be_bytes in Fi.
        change (Z.of_nat (csize UINT32)) with 4 in Fi. pose proof (Zlen_nonneg wr). lia. }
    change (Z.of_nat (csize UINT32)) with 4 in Rc. rewrite Rc in Rv. apply (inj Some), be_bytes_inj in Rv as <-;
      [|done..].
    cbn [obind negb Z.eqb TSS2_RC_SUCCESS]. ctx_cbn. rewrite (proj2 (Z.eqb_neq _ _)) by exact Nv.
    cbn [negb].
    destruct (Re x _ (conj (conj Wc Ws) Dx) E1 Rw Fi) as (d'&E&W&Q).
    rewrite E. cbn [obind]. exists (Some d', tt). split; [done|]. by split; [split|].
Qed.

End Capability.

(** ** The commands *)

Section Registry.
Context {S : Type}.

Inductive complete_of :
    Z -> Z -> forall {R : Type}, outs_spec R -> (Host -> out_prog (S:=S) R) -> Prop :=
| rsp_ACT_SetTimeout :
    complete_of TPM2_CC_ACT_SetTimeout 0 ONil
      (fun H => Tss2_Sys_ACT_SetTimeout_Complete)
| rsp_AC_GetCapability (moreData : Z) (capabilityData : (TPML TPMS_AC_OUTPUT)) (moreData' :
    option Z) (capabilityData' : option (TPML TPMS_AC_OUTPUT)) :
    complete_of TPM2_CC_AC_GetCapability 0 (OCons (spec_int UINT8) moreData (OCons
      spec_TPML_AC_CAPABILITIES capabilityData ONil))
      (fun H => Tss2_Sys_AC_GetCapability_Complete moreData' capabilityData')
| rsp_AC_Send (acDataOut : TPMS_AC_OUTPUT) (acDataOut' : option TPMS_AC_OUTPUT) :
    complete_of TPM2_CC_AC_Send 0 (OCons spec_TPMS_AC_OUTPUT acDataOut ONil)
      (fun H => Tss2_Sys_AC_Send_Complete acDataOut')
| rsp_ActivateCredential (certInfo : TPM2B) (certInfo' : option TPM2B) :
    complete_of TPM2_CC_ActivateCredential 0 (OCons spec_TPM2B_DIGEST certInfo ONil)
      (fun H => Tss2_Sys_ActivateCredential_Complete certInfo')
| rsp_Certify (certifyInfo : TPM2B) (signature : TPMT_SIGNATURE) (certifyInfo' : option TPM2B)
    (signature' : option TPMT_SIGNATURE) :
    complete_of TPM2_CC_Certify 0 (OCons spec_TPM2B_ATTEST certifyInfo (OCons
      spec_TPMT_SIGNATURE signature ONil))
      (fun H => Tss2_Sys_Certify_Complete certifyInfo' signature')
| rsp_CertifyCreation (certifyInfo : TPM2B) (signature : TPMT_SIGNATURE) (certifyInfo' : option
    TPM2B) (signature' : option TPMT_SIGNATURE) :
    complete_of TPM2_CC_CertifyCreation 0 (OCons spec_TPM2B_ATTEST certifyInfo (OCons
      spec_TPMT_SIGNATURE signature ONil))
      (fun H => Tss2_Sys_CertifyCreation_Complete certifyInfo' signature')
| rsp_CertifyX509 (addedToCertificate : TPM2B) (tbsDigest : TPM2B) (signature : TPMT_SIGNATURE)
    (addedToCertificate' : option TPM2B) (tbsDigest' : option TPM2B) (signature' : option
    TPMT_SIGNATURE) :
    complete_of TPM2_CC_CertifyX509 0 (OCons spec_TPM2B_MAX_BUFFER addedToCertificate (OCons
      spec_TPM2B_DIGEST tbsDigest (OCons spec_TPMT_SIGNATURE signature ONil)))
      (fun H => Tss2_Sys_CertifyX509_Complete addedToCertificate' tbsDigest' signature')
| rsp_ChangeEPS :
    complete_of TPM2_CC_ChangeEPS 0 ONil
      (fun H => Tss2_Sys_ChangeEPS_Complete)
| rsp_ChangePPS :
    complete_of TPM2_CC_ChangePPS 0 ONil
      (fun H => Tss2_Sys_ChangePPS_Complete)
| rsp_Clear :
    complete_of TPM2_CC_Clear 0 ONil
      (fun H => Tss2_Sys_Clear_Complete)
| rsp_ClearControl :
    complete_of TPM2_CC_ClearControl 0 ONil
      (fun H => Tss2_Sys_ClearControl_Complete)
| rsp_ClockRateAdjust :
    complete_of TPM2_CC_ClockRateAdjust 0 ONil
      (fun H => Tss2_Sys_ClockRateAdjust_Complete)
| rsp_ClockSet :
    complete_of TPM2_CC_ClockSet 0 ONil
      (fun H => Tss2_Sys_ClockSet_Complete)
| rsp_Commit (K : (TPM2B_SUB TPMS_ECC_POINT)) (L : (TPM2B_SUB TPMS_ECC_POINT)) (E : (TPM2B_SUB
    TPMS_ECC_POINT)) (counter : Z) (K' : option (TPM2B_SUB TPMS_ECC_POINT)) (L' : option
    (TPM2B_SUB TPMS_ECC_POINT)) (E' : option (TPM2B_SUB TPMS_ECC_POINT)) (counter' : option Z) :
    complete_of TPM2_CC_Commit 0 (OCons spec_TPM2B_ECC_POINT K (OCons spec_TPM2B_ECC_POINT L
      (OCons spec_TPM2B_ECC_POINT E (OCons (spec_int UINT16) counter ONil))))
      (fun H => Tss2_Sys_Commit_Complete K' L' E' counter')
| rsp_ContextLoad (loadedHandle : Z) (loadedHandle' : option Z) :
    complete_of TPM2_CC_ContextLoad 1 (OCons (spec_int UINT32) loadedHandle ONil)
      (fun H => Tss2_Sys_ContextLoad_Complete loadedHandle')
| rsp_ContextSave (context : TPMS_CONTEXT) (context' : option TPMS_CONTEXT) :
    complete_of TPM2_CC_ContextSave 0 (OCons spec_TPMS_CONTEXT context ONil)
      (fun H => Tss2_Sys_ContextSave_Complete context')
| rsp_Create (outPrivate : TPM2B) (outPublic : (TPM2B_SUB TPMT_PUBLIC)) (creationData :
    (TPM2B_SUB TPMS_CREATION_DATA)) (creationHash : TPM2B) (creationTicket : TPMT_TK_CREATION)
    (outPrivate' : option TPM2B) (outPublic' : option (TPM2B_SUB TPMT_PUBLIC)) (creationData' :
    option (TPM2B_SUB TPMS_CREATION_DATA)) (creationHash' : option TPM2B) (creationTicket' :
    option TPMT_TK_CREATION) :
    complete_of TPM2_CC_Create 0 (OCons spec_TPM2B_PRIVATE outPrivate (OCons spec_TPM2B_PUBLIC
      outPublic (OCons spec_TPM2B_CREATION_DATA creationData (OCons spec_TPM2B_DIGEST
      creationHash (OCons spec_TPMT_TK_CREATION creationTicket ONil)))))
      (fun H => Tss2_Sys_Create_Complete outPrivate' outPublic' creationData' creationHash'
        creationTicket')
| rsp_CreateLoaded (objectHandle : Z) (outPrivate : TPM2B) (outPublic : (TPM2B_SUB
    TPMT_PUBLIC)) (name : TPM2B) (objectHandle' : option Z) (outPrivate' : option TPM2B)
    (outPublic' : option (TPM2B_SUB TPMT_PUBLIC)) (name' : option TPM2B) :
    complete_of TPM2_CC_CreateLoaded 1 (OCons (spec_int UINT32) objectHandle (OCons
      spec_TPM2B_PRIVATE outPrivate (OCons spec_TPM2B_PUBLIC outPublic (OCons spec_TPM2B_NAME
      name ONil))))
      (fun H => Tss2_Sys_CreateLoaded_Complete objectHandle' outPrivate' outPublic' name')
| rsp_CreatePrimary (objectHandle : Z) (outPublic : (TPM2B_SUB TPMT_PUBLIC)) (creationData :
    (TPM2B_SUB TPMS_CREATION_DATA)) (creationHash : TPM2B) (creationTicket : TPMT_TK_CREATION)
    (name : TPM2B) (objectHandle' : option Z) (outPublic' : option (TPM2B_SUB TPMT_PUBLIC))
    (creationData' : option (TPM2B_SUB TPMS_CREATION_DATA)) (creationHash' : option TPM2B)
    (creationTicket' : option TPMT_TK_CREATION) (name' : option TPM2B) :
    complete_of TPM2_CC_CreatePrimary 1 (OCons (spec_int UINT32) objectHandle (OCons
      spec_TPM2B_PUBLIC outPublic (OCons spec_TPM2B_CREATION_DATA creationData (OCons
      spec_TPM2B_DIGEST creationHash (OCons spec_TPMT_TK_CREATION creationTicket (OCons
      spec_TPM2B_NAME name ONil))))))
      (fun H => Tss2_Sys_CreatePrimary_Complete objectHandle' outPublic' creationData'
        creationHash' creationTicket' name')
| rsp_Decapsulate (outSymSeed : TPM2B) (outSymSeed' : option TPM2B) :
    complete_of TPM2_CC_Decapsulate 0 (OCons spec_TPM2B_DATA outSymSeed ONil)
      (fun H => Tss2_Sys_Decapsulate_Complete outSymSeed')
| rsp_DictionaryAttackLockReset :
    complete_of TPM2_CC_DictionaryAttackLockReset 0 ONil
      (fun H => Tss2_Sys_DictionaryAttackLockReset_Complete)
| rsp_DictionaryAttackParameters :
    complete_of TPM2_CC_DictionaryAttackParameters 0 ONil
      (fun H => Tss2_Sys_DictionaryAttackParameters_Complete)
| rsp_Duplicate (encryptionKeyOut : TPM2B) (duplicate : TPM2B) (outSymSeed : TPM2B)
    (encryptionKeyOut' : option TPM2B) (duplicate' : option TPM2B) (outSymSeed' : option TPM2B)
    :
    complete_of TPM2_CC_Duplicate 0 (OCons spec_TPM2B_DATA encryptionKeyOut (OCons
      spec_TPM2B_PRIVATE duplicate (OCons spec_TPM2B_ENCRYPTED_SECRET outSymSeed ONil)))
      (fun H => Tss2_Sys_Duplicate_Complete encryptionKeyOut' duplicate' outSymSeed')
| rsp_ECC_Decrypt (plaintText : TPM2B) (plaintText' : option TPM2B) :
    complete_of TPM2_CC_ECC_Decrypt 0 (OCons spec_TPM2B_MAX_BUFFER plaintText ONil)
      (fun H => Tss2_Sys_ECC_Decrypt_Complete plaintText')
| rsp_ECC_Encrypt (c1 : (TPM2B_SUB TPMS_ECC_POINT)) (c2 : TPM2B) (c3 : TPM2B) (c1' : option
    (TPM2B_SUB TPMS_ECC_POINT)) (c2' : option TPM2B) (c3' : option TPM2B) :
    complete_of TPM2_CC_ECC_Encrypt 0 (OCons spec_TPM2B_ECC_POINT c1 (OCons
      spec_TPM2B_MAX_BUFFER c2 (OCons spec_TPM2B_DIGEST c3 ONil)))
      (fun H => Tss2_Sys_ECC_Encrypt_Complete c1' c2' c3')
| rsp_ECC_Parameters (parameters : TPMS_ALGORITHM_DETAIL_ECC) (parameters' : option
    TPMS_ALGORITHM_DETAIL_ECC) :
    complete_of TPM2_CC_ECC_Parameters 0 (OCons spec_TPMS_ALGORITHM_DETAIL_ECC parameters ONil)
      (fun H => Tss2_Sys_ECC_Parameters_Complete parameters')
| rsp_ECDH_KeyGen (zPoint : (TPM2B_SUB TPMS_ECC_POINT)) (pubPoint : (TPM2B_SUB TPMS_ECC_POINT))
    (zPoint' : option (TPM2B_SUB TPMS_ECC_POINT)) (pubPoint' : option (TPM2B_SUB
    TPMS_ECC_POINT)) :
    complete_of TPM2_CC_ECDH_KeyGen 0 (OCons spec_TPM2B_ECC_POINT zPoint (OCons
      spec_TPM2B_ECC_POINT pubPoint ONil))
      (fun H => Tss2_Sys_ECDH_KeyGen_Complete zPoint' pubPoint')
| rsp_ECDH_ZGen (outPoint : (TPM2B_SUB TPMS_ECC_POINT)) (outPoint' : option (TPM2B_SUB
    TPMS_ECC_POINT)) :
    complete_of TPM2_CC_ECDH_ZGen 0 (OCons spec_TPM2B_ECC_POINT outPoint ONil)
      (fun H => Tss2_Sys_ECDH_ZGen_Complete outPoint')
| rsp_EC_Ephemeral (Q : (TPM2B_SUB TPMS_ECC_POINT)) (counter : Z) (Q' : option (TPM2B_SUB
    TPMS_ECC_POINT)) (counter' : option Z) :
    complete_of TPM2_CC_EC_Ephemeral 0 (OCons spec_TPM2B_ECC_POINT Q (OCons (spec_int UINT16)
      counter ONil))
      (fun H => Tss2_Sys_EC_Ephemeral_Complete Q' counter')
| rsp_Encapsulate (outSymSeed : TPM2B) (cipherText : TPM2B) (outSymSeed' : option TPM2B)
    (cipherText' : option TPM2B) :
    complete_of TPM2_CC_Encapsulate 0 (OCons spec_TPM2B_DATA outSymSeed (OCons
      spec_TPM2B_ENCRYPTED_SECRET cipherText ONil))
      (fun H => Tss2_Sys_Encapsulate_Complete outSymSeed' cipherText')
| rsp_EncryptDecrypt (outData : TPM2B) (ivOut : TPM2B) (outData' : option TPM2B) (ivOut' :
    option TPM2B) :
    complete_of TPM2_CC_EncryptDecrypt 0 (OCons spec_TPM2B_MAX_BUFFER outData (OCons
      spec_TPM2B_IV ivOut ONil))
      (fun H => Tss2_Sys_EncryptDecrypt_Complete outData' ivOut')
| rsp_EncryptDecrypt2 (outData : TPM2B) (ivOut : TPM2B) (outData' : option TPM2B) (ivOut' :
    option TPM2B) :
    complete_of TPM2_CC_EncryptDecrypt2 0 (OCons spec_TPM2B_MAX_BUFFER outData (OCons
      spec_TPM2B_IV ivOut ONil))
      (fun H => Tss2_Sys_EncryptDecrypt2_Complete outData' ivOut')
| rsp_EventSequenceComplete (results : (TPML TPMT_HA)) (results' : option (TPML TPMT_HA)) :
    complete_of TPM2_CC_EventSequenceComplete 0 (OCons spec_TPML_DIGEST_VALUES results ONil)
      (fun H => Tss2_Sys_EventSequenceComplete_Complete results')
| rsp_EvictControl :
    complete_of TPM2_CC_EvictControl 0 ONil
      (fun H => Tss2_Sys_EvictControl_Complete)
| rsp_FieldUpgradeData (nextDigest : TPMT_HA) (firstDigest : TPMT_HA) (nextDigest' : option
    TPMT_HA) (firstDigest' : option TPMT_HA) :
    complete_of TPM2_CC_FieldUpgradeData 0 (OCons spec_TPMT_HA nextDigest (OCons spec_TPMT_HA
      firstDigest ONil))
      (fun H => Tss2_Sys_FieldUpgradeData_Complete nextDigest' firstDigest')
| rsp_FieldUpgradeStart :
    complete_of TPM2_CC_FieldUpgradeStart 0 ONil
      (fun H => Tss2_Sys_FieldUpgradeStart_Complete)
| rsp_FirmwareRead (fuData : TPM2B) (fuData' : option TPM2B) :
    complete_of TPM2_CC_FirmwareRead 0 (OCons spec_TPM2B_MAX_BUFFER fuData ONil)
      (fun H => Tss2_Sys_FirmwareRead_Complete fuData')
| rsp_FlushContext :
    complete_of TPM2_CC_FlushContext 0 ONil
      (fun H => Tss2_Sys_FlushContext_Complete)
| rsp_GetCapability (moreData : Z) (capabilityData : TPMS_CAPABILITY_DATA) (moreData' : option
    Z) (capabilityData' : option TPMS_CAPABILITY_DATA) :
    TPMS_CAPABILITY_DATA_capability capabilityData <> TPM2_CAP_VENDOR_PROPERTY ->
    complete_of TPM2_CC_GetCapability 0 (OCons (spec_int UINT8) moreData (OCons
      spec_TPMS_CAPABILITY_DATA capabilityData ONil))
      (fun H => Tss2_Sys_GetCapability_Complete moreData' capabilityData')
| rsp_GetCommandAuditDigest (auditInfo : TPM2B) (signature : TPMT_SIGNATURE) (auditInfo' :
    option TPM2B) (signature' : option TPMT_SIGNATURE) :
    complete_of TPM2_CC_GetCommandAuditDigest 0 (OCons spec_TPM2B_ATTEST auditInfo (OCons
      spec_TPMT_SIGNATURE signature ONil))
      (fun H => Tss2_Sys_GetCommandAuditDigest_Complete auditInfo' signature')
| rsp_GetRandom (randomBytes : TPM2B) (randomBytes' : option TPM2B) :
    complete_of TPM2_CC_GetRandom 0 (OCons spec_TPM2B_DIGEST randomBytes ONil)
      (fun H => Tss2_Sys_GetRandom_Complete randomBytes')
| rsp_GetSessionAuditDigest (auditInfo : TPM2B) (signature : TPMT_SIGNATURE) (auditInfo' :
    option TPM2B) (signature' : option TPMT_SIGNATURE) :
    complete_of TPM2_CC_GetSessionAuditDigest 0 (OCons spec_TPM2B_ATTEST auditInfo (OCons
      spec_TPMT_SIGNATURE signature ONil))
      (fun H => Tss2_Sys_GetSessionAuditDigest_Complete auditInfo' signature')
| rsp_GetTestResult (outData : TPM2B) (testResult : Z) (outData' : option TPM2B) (testResult' :
    option Z) :
    complete_of TPM2_CC_GetTestResult 0 (OCons spec_TPM2B_MAX_BUFFER outData (OCons (spec_int
      UINT32) testResult ONil))
      (fun H => Tss2_Sys_GetTestResult_Complete outData' testResult')
| rsp_GetTime (timeInfo : TPM2B) (signature : TPMT_SIGNATURE) (timeInfo' : option TPM2B)
    (signature' : option TPMT_SIGNATURE) :
    complete_of TPM2_CC_GetTime 0 (OCons spec_TPM2B_ATTEST timeInfo (OCons spec_TPMT_SIGNATURE
      signature ONil))
      (fun H => Tss2_Sys_GetTime_Complete timeInfo' signature')
| rsp_HMAC (outHMAC : TPM2B) (outHMAC' : option TPM2B) :
    complete_of TPM2_CC_HMAC 0 (OCons spec_TPM2B_DIGEST outHMAC ONil)
      (fun H => Tss2_Sys_HMAC_Complete outHMAC')
| rsp_HMAC_Start (sequenceHandle : Z) (sequenceHandle' : option Z) :
    complete_of TPM2_CC_HMAC_Start 1 (OCons (spec_int UINT32) sequenceHandle ONil)
      (fun H => Tss2_Sys_HMAC_Start_Complete sequenceHandle')
| rsp_Hash (outHash : TPM2B) (validation : TPMT_TK_HASHCHECK) (outHash' : option TPM2B)
    (validation' : option TPMT_TK_HASHCHECK) :
    complete_of TPM2_CC_Hash 0 (OCons spec_TPM2B_DIGEST outHash (OCons spec_TPMT_TK_HASHCHECK
      validation ONil))
      (fun H => Tss2_Sys_Hash_Complete outHash' validation')
| rsp_HashSequenceStart (sequenceHandle : Z) (sequenceHandle' : option Z) :
    complete_of TPM2_CC_HashSequenceStart 1 (OCons (spec_int UINT32) sequenceHandle ONil)
      (fun H => Tss2_Sys_HashSequenceStart_Complete sequenceHandle')
| rsp_HierarchyChangeAuth :
    complete_of TPM2_CC_HierarchyChangeAuth 0 ONil
      (fun H => Tss2_Sys_HierarchyChangeAuth_Complete)
| rsp_HierarchyControl :
    complete_of TPM2_CC_HierarchyControl 0 ONil
      (fun H => Tss2_Sys_HierarchyControl_Complete)
| rsp_Import (outPrivate : TPM2B) (outPrivate' : option TPM2B) :
    complete_of TPM2_CC_Import 0 (OCons spec_TPM2B_PRIVATE outPrivate ONil)
      (fun H => Tss2_Sys_Import_Complete outPrivate')
| rsp_IncrementalSelfTest (toDoList : (TPML Z)) (toDoList' : option (TPML Z)) :
    complete_of TPM2_CC_IncrementalSelfTest 0 (OCons spec_TPML_ALG toDoList ONil)
      (fun H => Tss2_Sys_IncrementalSelfTest_Complete toDoList')
| rsp_Load (objectHandle : Z) (name : TPM2B) (objectHandle' : option Z) (name' : option TPM2B) :
    complete_of TPM2_CC_Load 1 (OCons (spec_int UINT32) objectHandle (OCons spec_TPM2B_NAME
      name ONil))
      (fun H => Tss2_Sys_Load_Complete objectHandle' name')
| rsp_LoadExternal (objectHandle : Z) (name : TPM2B) (objectHandle' : option Z) (name' : option
    TPM2B) :
    complete_of TPM2_CC_LoadExternal 1 (OCons (spec_int UINT32) objectHandle (OCons
      spec_TPM2B_NAME name ONil))
      (fun H => Tss2_Sys_LoadExternal_Complete objectHandle' name')
| rsp_MAC (outMAC : TPM2B) (outMAC' : option TPM2B) :
    complete_of TPM2_CC_MAC 0 (OCons spec_TPM2B_DIGEST outMAC ONil)
      (fun H => Tss2_Sys_MAC_Complete outMAC')
| rsp_MAC_Start (sequenceHandle : Z) (sequenceHandle' : option Z) :
    complete_of TPM2_CC_MAC_Start 1 (OCons (spec_int UINT32) sequenceHandle ONil)
      (fun H => Tss2_Sys_MAC_Start_Complete sequenceHandle')
| rsp_MakeCredential (credentialBlob : TPM2B) (secret : TPM2B) (credentialBlob' : option TPM2B)
    (secret' : option TPM2B) :
    complete_of TPM2_CC_MakeCredential 0 (OCons spec_TPM2B_ID_OBJECT credentialBlob (OCons
      spec_TPM2B_ENCRYPTED_SECRET secret ONil))
      (fun H => Tss2_Sys_MakeCredential_Complete credentialBlob' secret')
| rsp_NV_Certify (certifyInfo : TPM2B) (signature : TPMT_SIGNATURE) (certifyInfo' : option
    TPM2B) (signature' : option TPMT_SIGNATURE) :
    complete_of TPM2_CC_NV_Certify 0 (OCons spec_TPM2B_ATTEST certifyInfo (OCons
      spec_TPMT_SIGNATURE signature ONil))
      (fun H => Tss2_Sys_NV_Certify_Complete certifyInfo' signature')
| rsp_NV_ChangeAuth :
    complete_of TPM2_CC_NV_ChangeAuth 0 ONil
      (fun H => Tss2_Sys_NV_ChangeAuth_Complete)
| rsp_NV_DefineSpace :
    complete_of TPM2_CC_NV_DefineSpace 0 ONil
      (fun H => Tss2_Sys_NV_DefineSpace_Complete)
| rsp_NV_Extend :
    complete_of TPM2_CC_NV_Extend 0 ONil
      (fun H => Tss2_Sys_NV_Extend_Complete)
| rsp_NV_GlobalWriteLock :
    complete_of TPM2_CC_NV_GlobalWriteLock 0 ONil
      (fun H => Tss2_Sys_NV_GlobalWriteLock_Complete)
| rsp_NV_Increment :
    complete_of TPM2_CC_NV_Increment 0 ONil
      (fun H => Tss2_Sys_NV_Increment_Complete)
| rsp_NV_Read (data : TPM2B) (data' : option TPM2B) :
    complete_of TPM2_CC_NV_Read 0 (OCons spec_TPM2B_MAX_NV_BUFFER data ONil)
      (fun H => Tss2_Sys_NV_Read_Complete data')
| rsp_NV_ReadLock :
    complete_of TPM2_CC_NV_ReadLock 0 ONil
      (fun H => Tss2_Sys_NV_ReadLock_Complete)
| rsp_NV_ReadPublic (nvPublic : (TPM2B_SUB TPMS_NV_PUBLIC)) (nvName : TPM2B) (nvPublic' :
    option (TPM2B_SUB TPMS_NV_PUBLIC)) (nvName' : option TPM2B) :
    complete_of TPM2_CC_NV_ReadPublic 0 (OCons spec_TPM2B_NV_PUBLIC nvPublic (OCons
      spec_TPM2B_NAME nvName ONil))
      (fun H => Tss2_Sys_NV_ReadPublic_Complete nvPublic' nvName')
| rsp_NV_SetBits :
    complete_of TPM2_CC_NV_SetBits 0 ONil
      (fun H => Tss2_Sys_NV_SetBits_Complete)
| rsp_NV_UndefineSpace :
    complete_of TPM2_CC_NV_UndefineSpace 0 ONil
      (fun H => Tss2_Sys_NV_UndefineSpace_Complete)
| rsp_NV_UndefineSpaceSpecial :
    complete_of TPM2_CC_NV_UndefineSpaceSpecial 0 ONil
      (fun H => Tss2_Sys_NV_UndefineSpaceSpecial_Complete)
| rsp_NV_Write :
    complete_of TPM2_CC_NV_Write 0 ONil
      (fun H => Tss2_Sys_NV_Write_Complete)
| rsp_NV_WriteLock :
    complete_of TPM2_CC_NV_WriteLock 0 ONil
      (fun H => Tss2_Sys_NV_WriteLock_Complete)
| rsp_ObjectChangeAuth (outPrivate : TPM2B) (outPrivate' : option TPM2B) :
    complete_of TPM2_CC_ObjectChangeAuth 0 (OCons spec_TPM2B_PRIVATE outPrivate ONil)
      (fun H => Tss2_Sys_ObjectChangeAuth_Complete outPrivate')
| rsp_PCR_Allocate (allocationSuccess : Z) (maxPCR : Z) (sizeNeeded : Z) (sizeAvailable : Z)
    (allocationSuccess' : option Z) (maxPCR' : option Z) (sizeNeeded' : option Z)
    (sizeAvailable' : option Z) :
    complete_of TPM2_CC_PCR_Allocate 0 (OCons (spec_int UINT8) allocationSuccess (OCons
      (spec_int UINT32) maxPCR (OCons (spec_int UINT32) sizeNeeded (OCons (spec_int UINT32)
      sizeAvailable ONil))))
      (fun H => Tss2_Sys_PCR_Allocate_Complete allocationSuccess' maxPCR' sizeNeeded'
        sizeAvailable')
| rsp_PCR_Event (digests : (TPML TPMT_HA)) (digests' : option (TPML TPMT_HA)) :
    complete_of TPM2_CC_PCR_Event 0 (OCons spec_TPML_DIGEST_VALUES digests ONil)
      (fun H => Tss2_Sys_PCR_Event_Complete digests')
| rsp_PCR_Extend :
    complete_of TPM2_CC_PCR_Extend 0 ONil
      (fun H => Tss2_Sys_PCR_Extend_Complete)
| rsp_PCR_Read (pcrUpdateCounter : Z) (pcrSelectionOut : (TPML TPMS_PCR_SELECTION)) (pcrValues
    : (TPML TPM2B)) (pcrUpdateCounter' : option Z) (pcrSelectionOut' : option (TPML
    TPMS_PCR_SELECTION)) (pcrValues' : option (TPML TPM2B)) :
    complete_of TPM2_CC_PCR_Read 0 (OCons (spec_int UINT32) pcrUpdateCounter (OCons
      spec_TPML_PCR_SELECTION pcrSelectionOut (OCons spec_TPML_DIGEST pcrValues ONil)))
      (fun H => Tss2_Sys_PCR_Read_Complete pcrUpdateCounter' pcrSelectionOut' pcrValues')
| rsp_PCR_Reset :
    complete_of TPM2_CC_PCR_Reset 0 ONil
      (fun H => Tss2_Sys_PCR_Reset_Complete)
| rsp_PCR_SetAuthPolicy :
    complete_of TPM2_CC_PCR_SetAuthPolicy 0 ONil
      (fun H => Tss2_Sys_PCR_SetAuthPolicy_Complete)
| rsp_PCR_SetAuthValue :
    complete_of TPM2_CC_PCR_SetAuthValue 0 ONil
      (fun H => Tss2_Sys_PCR_SetAuthValue_Complete)
| rsp_PP_Commands :
    complete_of TPM2_CC_PP_Commands 0 ONil
      (fun H => Tss2_Sys_PP_Commands_Complete)
| rsp_PolicyAuthValue :
    complete_of TPM2_CC_PolicyAuthValue 0 ONil
      (fun H => Tss2_Sys_PolicyAuthValue_Complete)
| rsp_PolicyAuthorize :
    complete_of TPM2_CC_PolicyAuthorize 0 ONil
      (fun H => Tss2_Sys_PolicyAuthorize_Complete)
| rsp_PolicyAuthorizeNV :
    complete_of TPM2_CC_PolicyAuthorizeNV 0 ONil
      (fun H => Tss2_Sys_PolicyAuthorizeNV_Complete)
| rsp_PolicyCommandCode :
    complete_of TPM2_CC_PolicyCommandCode 0 ONil
      (fun H => Tss2_Sys_PolicyCommandCode_Complete)
| rsp_PolicyCounterTimer :
    complete_of TPM2_CC_PolicyCounterTimer 0 ONil
      (fun H => Tss2_Sys_PolicyCounterTimer_Complete)
| rsp_PolicyCpHash :
    complete_of TPM2_CC_PolicyCpHash 0 ONil
      (fun H => Tss2_Sys_PolicyCpHash_Complete)
| rsp_PolicyDuplicationSelect :
    complete_of TPM2_CC_PolicyDuplicationSelect 0 ONil
      (fun H => Tss2_Sys_PolicyDuplicationSelect_Complete)
| rsp_PolicyGetDigest (policyDigest : TPM2B) (policyDigest' : option TPM2B) :
    complete_of TPM2_CC_PolicyGetDigest 0 (OCons spec_TPM2B_DIGEST policyDigest ONil)
      (fun H => Tss2_Sys_PolicyGetDigest_Complete policyDigest')
| rsp_PolicyLocality :
    complete_of TPM2_CC_PolicyLocality 0 ONil
      (fun H => Tss2_Sys_PolicyLocality_Complete)
| rsp_PolicyNV :
    complete_of TPM2_CC_PolicyNV 0 ONil
      (fun H => Tss2_Sys_PolicyNV_Complete)
| rsp_PolicyNameHash :
    complete_of TPM2_CC_PolicyNameHash 0 ONil
      (fun H => Tss2_Sys_PolicyNameHash_Complete)
| rsp_PolicyNvWritten :
    complete_of TPM2_CC_PolicyNvWritten 0 ONil
      (fun H => Tss2_Sys_PolicyNvWritten_Complete)
| rsp_PolicyOR :
    complete_of TPM2_CC_PolicyOR 0 ONil
      (fun H => Tss2_Sys_PolicyOR_Complete)
| rsp_PolicyPCR :
    complete_of TPM2_CC_PolicyPCR 0 ONil
      (fun H => Tss2_Sys_PolicyPCR_Complete)
| rsp_PolicyPassword :
    complete_of TPM2_CC_PolicyPassword 0 ONil
      (fun H => Tss2_Sys_PolicyPassword_Complete)
| rsp_PolicyPhysicalPresence :
    complete_of TPM2_CC_PolicyPhysicalPresence 0 ONil
      (fun H => Tss2_Sys_PolicyPhysicalPresence_Complete)
| rsp_PolicyRestart :
    complete_of TPM2_CC_PolicyRestart 0 ONil
      (fun H => Tss2_Sys_PolicyRestart_Complete)
| rsp_PolicySecret (timeout : TPM2B) (policyTicket : TPMT_TK_AUTH) (timeout' : option TPM2B)
    (policyTicket' : option TPMT_TK_AUTH) :
    complete_of TPM2_CC_PolicySecret 0 (OCons spec_TPM2B_TIMEOUT timeout (OCons
      spec_TPMT_TK_AUTH policyTicket ONil))
      (fun H => Tss2_Sys_PolicySecret_Complete timeout' policyTicket')
| rsp_PolicySigned (timeout : TPM2B) (policyTicket : TPMT_TK_AUTH) (timeout' : option TPM2B)
    (policyTicket' : option TPMT_TK_AUTH) :
    complete_of TPM2_CC_PolicySigned 0 (OCons spec_TPM2B_TIMEOUT timeout (OCons
      spec_TPMT_TK_AUTH policyTicket ONil))
      (fun H => Tss2_Sys_PolicySigned_Complete timeout' policyTicket')
| rsp_PolicyTemplate :
    complete_of TPM2_CC_PolicyTemplate 0 ONil
      (fun H => Tss2_Sys_PolicyTemplate_Complete)
| rsp_PolicyTicket :
    complete_of TPM2_CC_PolicyTicket 0 ONil
      (fun H => Tss2_Sys_PolicyTicket_Complete)
| rsp_Policy_AC_SendSelect :
    complete_of TPM2_CC_Policy_AC_SendSelect 0 ONil
      (fun H => Tss2_Sys_Policy_AC_SendSelect_Complete)
| rsp_Quote (quoted : TPM2B) (signature : TPMT_SIGNATURE) (quoted' : option TPM2B) (signature'
    : option TPMT_SIGNATURE) :
    complete_of TPM2_CC_Quote 0 (OCons spec_TPM2B_ATTEST quoted (OCons spec_TPMT_SIGNATURE
      signature ONil))
      (fun H => Tss2_Sys_Quote_Complete quoted' signature')
| rsp_RSA_Decrypt (message : TPM2B) (message' : option TPM2B) :
    complete_of TPM2_CC_RSA_Decrypt 0 (OCons spec_TPM2B_PUBLIC_KEY_RSA message ONil)
      (fun H => Tss2_Sys_RSA_Decrypt_Complete message')
| rsp_RSA_Encrypt (outData : TPM2B) (outData' : option TPM2B) :
    complete_of TPM2_CC_RSA_Encrypt 0 (OCons spec_TPM2B_PUBLIC_KEY_RSA outData ONil)
      (fun H => Tss2_Sys_RSA_Encrypt_Complete outData')
| rsp_ReadClock (currentTime : TPMS_TIME_INFO) (currentTime' : option TPMS_TIME_INFO) :
    complete_of TPM2_CC_ReadClock 0 (OCons spec_TPMS_TIME_INFO currentTime ONil)
      (fun H => Tss2_Sys_ReadClock_Complete currentTime')
| rsp_ReadPublic (outPublic : (TPM2B_SUB TPMT_PUBLIC)) (name : TPM2B) (qualifiedName : TPM2B)
    (outPublic' : option (TPM2B_SUB TPMT_PUBLIC)) (name' : option TPM2B) (qualifiedName' :
    option TPM2B) :
    complete_of TPM2_CC_ReadPublic 0 (OCons spec_TPM2B_PUBLIC outPublic (OCons spec_TPM2B_NAME
      name (OCons spec_TPM2B_NAME qualifiedName ONil)))
      (fun H => Tss2_Sys_ReadPublic_Complete outPublic' name' qualifiedName')
| rsp_Rewrap (outDuplicate : TPM2B) (outSymSeed : TPM2B) (outDuplicate' : option TPM2B)
    (outSymSeed' : option TPM2B) :
    complete_of TPM2_CC_Rewrap 0 (OCons spec_TPM2B_PRIVATE outDuplicate (OCons
      spec_TPM2B_ENCRYPTED_SECRET outSymSeed ONil))
      (fun H => Tss2_Sys_Rewrap_Complete outDuplicate' outSymSeed')
| rsp_SelfTest :
    complete_of TPM2_CC_SelfTest 0 ONil
      (fun H => Tss2_Sys_SelfTest_Complete)
| rsp_SequenceComplete (result : TPM2B) (validation : TPMT_TK_HASHCHECK) (result' : option
    TPM2B) (validation' : option TPMT_TK_HASHCHECK) :
    complete_of TPM2_CC_SequenceComplete 0 (OCons spec_TPM2B_DIGEST result (OCons
      spec_TPMT_TK_HASHCHECK validation ONil))
      (fun H => Tss2_Sys_SequenceComplete_Complete result' validation')
| rsp_SequenceUpdate :
    complete_of TPM2_CC_SequenceUpdate 0 ONil
      (fun H => Tss2_Sys_SequenceUpdate_Complete)
| rsp_SetAlgorithmSet :
    complete_of TPM2_CC_SetAlgorithmSet 0 ONil
      (fun H => Tss2_Sys_SetAlgorithmSet_Complete)
| rsp_SetCommandCodeAuditStatus :
    complete_of TPM2_CC_SetCommandCodeAuditStatus 0 ONil
      (fun H => Tss2_Sys_SetCommandCodeAuditStatus_Complete)
| rsp_SetPrimaryPolicy :
    complete_of TPM2_CC_SetPrimaryPolicy 0 ONil
      (fun H => Tss2_Sys_SetPrimaryPolicy_Complete)
| rsp_Shutdown :
    complete_of TPM2_CC_Shutdown 0 ONil
      (fun H => Tss2_Sys_Shutdown_Complete)
| rsp_Sign (signature : TPMT_SIGNATURE) (signature' : option TPMT_SIGNATURE) :
    complete_of TPM2_CC_Sign 0 (OCons spec_TPMT_SIGNATURE signature ONil)
      (fun H => Tss2_Sys_Sign_Complete signature')
| rsp_SignDigest (signature : TPMT_SIGNATURE) (signature' : option TPMT_SIGNATURE) :
    complete_of TPM2_CC_SignDigest 0 (OCons spec_TPMT_SIGNATURE signature ONil)
      (fun H => Tss2_Sys_SignDigest_Complete signature')
| rsp_SignSequenceComplete (signature : TPMT_SIGNATURE) (signature' : option TPMT_SIGNATURE) :
    complete_of TPM2_CC_SignSequenceComplete 0 (OCons spec_TPMT_SIGNATURE signature ONil)
      (fun H => Tss2_Sys_SignSequenceComplete_Complete signature')
| rsp_StartAuthSession (sessionHandle : Z) (nonceTPM : TPM2B) (sessionHandle' : option Z)
    (nonceTPM' : option TPM2B) :
    complete_of TPM2_CC_StartAuthSession 1 (OCons (spec_int UINT32) sessionHandle (OCons
      spec_TPM2B_NONCE nonceTPM ONil))
      (fun H => Tss2_Sys_StartAuthSession_Complete sessionHandle' nonceTPM')
| rsp_Startup :
    complete_of TPM2_CC_Startup 0 ONil
      (fun H => Tss2_Sys_Startup_Complete)
| rsp_StirRandom :
    complete_of TPM2_CC_StirRandom 0 ONil
      (fun H => Tss2_Sys_StirRandom_Complete)
| rsp_TestParms :
    complete_of TPM2_CC_TestParms 0 ONil
      (fun H => Tss2_Sys_TestParms_Complete)
| rsp_Unseal (outData : TPM2B) (outData' : option TPM2B) :
    complete_of TPM2_CC_Unseal 0 (OCons spec_TPM2B_SENSITIVE_DATA outData ONil)
      (fun H => Tss2_Sys_Unseal_Complete outData')
| rsp_Vendor_TCG_Test (outputData : TPM2B) (outputData' : option TPM2B) :
    complete_of TPM2_CC_Vendor_TCG_Test 0 (OCons spec_TPM2B_DATA outputData ONil)
      (fun H => Tss2_Sys_Vendor_TCG_Test_Complete outputData')
| rsp_VerifyDigestSignature (validation : TPMT_TK_VERIFIED) (validation' : option
    TPMT_TK_VERIFIED) :
    complete_of TPM2_CC_VerifyDigestSignature 0 (OCons spec_TPMT_TK_VERIFIED validation ONil)
      (fun H => Tss2_Sys_VerifyDigestSignature_Complete validation')
| rsp_VerifySequenceComplete (validation : TPMT_TK_VERIFIED) (validation' : option
    TPMT_TK_VERIFIED) :
    complete_of TPM2_CC_VerifySequenceComplete 0 (OCons spec_TPMT_TK_VERIFIED validation ONil)
      (fun H => Tss2_Sys_VerifySequenceComplete_Complete validation')
| rsp_VerifySignature (validation : TPMT_TK_VERIFIED) (validation' : option TPMT_TK_VERIFIED) :
    complete_of TPM2_CC_VerifySignature 0 (OCons spec_TPMT_TK_VERIFIED validation ONil)
      (fun H => Tss2_Sys_VerifySignature_Complete validation')
| rsp_ZGen_2Phase (outZ1 : (TPM2B_SUB TPMS_ECC_POINT)) (outZ2 : (TPM2B_SUB TPMS_ECC_POINT))
    (outZ1' : option (TPM2B_SUB TPMS_ECC_POINT)) (outZ2' : option (TPM2B_SUB TPMS_ECC_POINT)) :
    complete_of TPM2_CC_ZGen_2Phase 0 (OCons spec_TPM2B_ECC_POINT outZ1 (OCons
      spec_TPM2B_ECC_POINT outZ2 ONil))
      (fun H => Tss2_Sys_ZGen_2Phase_Complete outZ1' outZ2').

Ltac sys_decodes :=
  first [ eapply decodes_codec; solve [eauto 2 with mu]
        | eapply decodes_lax; solve [eauto 2 with mu]
        | apply decodes_int; ctype ].

Ltac sys_reads :=
  repeat first [ apply reads_end
               | apply reads_unmarshal; [sys_decodes|] ].

Lemma complete_of_ok cc n {R} (o : outs_spec R) C :
  complete_of cc n o C -> forall H : Host, completes n o (C H) /\ GetNumResponseHandles cc = n.
Proof.
  intros Cf Ho. destruct Cf; (split; [|reflexivity]); cbv beta;
    lazymatch goal with
    | |- completes _ _ (Tss2_Sys_GetCapability_Complete _ _) =>
        apply completes_params, reads_unmarshal; [sys_decodes|by apply reads_capability]
    | |- completes _ _ ?C => let h := head_of C in unfold h;
        first [apply completes_handle | apply completes_params]; sys_reads
    end.
Qed.

Inductive one_call_of : (Host -> sysF S) -> forall {R : Type}, (Host -> out_prog (S:=S) R) -> bool ->
    (Host -> option TSS2L_SYS_AUTH_COMMAND -> option TSS2L_SYS_AUTH_RESPONSE ->
       out_prog (S:=S) (R * option TSS2L_SYS_AUTH_RESPONSE)) -> Prop :=
| call_ACT_SetTimeout (actHandle : Z) (startTimeout : Z) :
    one_call_of (fun H => Tss2_Sys_ACT_SetTimeout_Prepare actHandle startTimeout)
      (fun H => Tss2_Sys_ACT_SetTimeout_Complete) true
      (fun H arr rsp => Tss2_Sys_ACT_SetTimeout actHandle arr startTimeout rsp)
| call_AC_GetCapability (ac : Z) (capability : Z) (count : Z) (moreData : option Z)
    (capabilityData : option (TPML TPMS_AC_OUTPUT)) :
    one_call_of (fun H => Tss2_Sys_AC_GetCapability_Prepare ac capability count)
      (fun H => Tss2_Sys_AC_GetCapability_Complete moreData capabilityData) true
      (fun H arr rsp => Tss2_Sys_AC_GetCapability ac arr capability count moreData
        capabilityData rsp)
| call_AC_Send (sendObject : Z) (authHandle : Z) (ac : Z) (acDataIn : option TPM2B) (acDataOut
    : option TPMS_AC_OUTPUT) :
    one_call_of (fun H => Tss2_Sys_AC_Send_Prepare sendObject authHandle ac acDataIn)
      (fun H => Tss2_Sys_AC_Send_Complete acDataOut) true
      (fun H arr rsp => Tss2_Sys_AC_Send sendObject authHandle ac arr acDataIn acDataOut rsp)
| call_ActivateCredential (activateHandle : Z) (keyHandle : Z) (credentialBlob : option TPM2B)
    (secret : option TPM2B) (certInfo : option TPM2B) :
    one_call_of (fun H => Tss2_Sys_ActivateCredential_Prepare activateHandle keyHandle
        credentialBlob secret)
      (fun H => Tss2_Sys_ActivateCredential_Complete certInfo) true
      (fun H arr rsp => Tss2_Sys_ActivateCredential activateHandle keyHandle arr credentialBlob
        secret certInfo rsp)
| call_Certify (objectHandle : Z) (signHandle : Z) (qualifyingData : option TPM2B) (inScheme :
    TPMT_SIG_SCHEME) (certifyInfo : option TPM2B) (signature : option TPMT_SIGNATURE) :
    one_call_of (fun H => Tss2_Sys_Certify_Prepare objectHandle signHandle qualifyingData (Some
        inScheme))
      (fun H => Tss2_Sys_Certify_Complete certifyInfo signature) true
      (fun H arr rsp => Tss2_Sys_Certify objectHandle signHandle arr qualifyingData (Some
        inScheme) certifyInfo signature rsp)
| call_CertifyCreation (signHandle : Z) (objectHandle : Z) (qualifyingData : option TPM2B)
    (creationHash : option TPM2B) (inScheme : TPMT_SIG_SCHEME) (creationTicket :
    TPMT_TK_CREATION) (certifyInfo : option TPM2B) (signature : option TPMT_SIGNATURE) :
    one_call_of (fun H => Tss2_Sys_CertifyCreation_Prepare signHandle objectHandle
        qualifyingData creationHash (Some inScheme) (Some creationTicket))
      (fun H => Tss2_Sys_CertifyCreation_Complete certifyInfo signature) true
      (fun H arr rsp => Tss2_Sys_CertifyCreation signHandle objectHandle arr qualifyingData
        creationHash (Some inScheme) (Some creationTicket) certifyInfo signature rsp)
| call_CertifyX509 (objectHandle : Z) (signHandle : Z) (reserved : option TPM2B) (inScheme :
    option TPMT_SIG_SCHEME) (partialCertificate : option TPM2B) (addedToCertificate : option
    TPM2B) (tbsDigest : option TPM2B) (signature : option TPMT_SIGNATURE) :
    one_call_of (fun H => Tss2_Sys_CertifyX509_Prepare objectHandle signHandle reserved
        inScheme partialCertificate)
      (fun H => Tss2_Sys_CertifyX509_Complete addedToCertificate tbsDigest signature) true
      (fun H arr rsp => Tss2_Sys_CertifyX509 objectHandle signHandle arr reserved inScheme
        partialCertificate addedToCertificate tbsDigest signature rsp)
| call_ChangeEPS (authHandle : Z) :
    one_call_of (fun H => Tss2_Sys_ChangeEPS_Prepare authHandle)
      (fun H => Tss2_Sys_ChangeEPS_Complete) true
      (fun H arr rsp => Tss2_Sys_ChangeEPS authHandle arr rsp)
| call_ChangePPS (authHandle : Z) :
    one_call_of (fun H => Tss2_Sys_ChangePPS_Prepare authHandle)
      (fun H => Tss2_Sys_ChangePPS_Complete) true
      (fun H arr rsp => Tss2_Sys_ChangePPS authHandle arr rsp)
| call_Clear (authHandle : Z) :
    one_call_of (fun H => Tss2_Sys_Clear_Prepare authHandle)
      (fun H => Tss2_Sys_Clear_Complete) true
      (fun H arr rsp => Tss2_Sys_Clear authHandle arr rsp)
| call_ClearControl (auth : Z) (disable : Z) :
    one_call_of (fun H => Tss2_Sys_ClearControl_Prepare auth disable)
      (fun H => Tss2_Sys_ClearControl_Complete) true
      (fun H arr rsp => Tss2_Sys_ClearControl auth arr disable rsp)
| call_ClockRateAdjust (auth : Z) (rateAdjust : Z) :
    one_call_of (fun H => Tss2_Sys_ClockRateAdjust_Prepare auth rateAdjust)
      (fun H => Tss2_Sys_ClockRateAdjust_Complete) true
      (fun H arr rsp => Tss2_Sys_ClockRateAdjust auth arr rateAdjust rsp)
| call_ClockSet (auth : Z) (newTime : Z) :
    one_call_of (fun H => Tss2_Sys_ClockSet_Prepare auth newTime)
      (fun H => Tss2_Sys_ClockSet_Complete) true
      (fun H arr rsp => Tss2_Sys_ClockSet auth arr newTime rsp)
| call_Commit (signHandle : Z) (P1 : option (TPM2B_SUB TPMS_ECC_POINT)) (s2 : option TPM2B) (y2
    : option TPM2B) (K : option (TPM2B_SUB TPMS_ECC_POINT)) (L : option (TPM2B_SUB
    TPMS_ECC_POINT)) (E : option (TPM2B_SUB TPMS_ECC_POINT)) (counter : option Z) :
    one_call_of (fun H => Tss2_Sys_Commit_Prepare signHandle P1 s2 y2)
      (fun H => Tss2_Sys_Commit_Complete K L E counter) true
      (fun H arr rsp => Tss2_Sys_Commit signHandle arr P1 s2 y2 K L E counter rsp)
| call_ContextLoad (context : TPMS_CONTEXT) (loadedHandle : option Z) :
    one_call_of (fun H => Tss2_Sys_ContextLoad_Prepare (Some context))
      (fun H => Tss2_Sys_ContextLoad_Complete loadedHandle) false
      (fun H _ _ => Tss2_Sys_ContextLoad (Some context) loadedHandle)
| call_ContextSave (saveHandle : Z) (context : option TPMS_CONTEXT) :
    one_call_of (fun H => Tss2_Sys_ContextSave_Prepare saveHandle)
      (fun H => Tss2_Sys_ContextSave_Complete context) false
      (fun H _ _ => Tss2_Sys_ContextSave saveHandle context)
| call_Create (parentHandle : Z) (inSensitive : option (TPM2B_SUB TPMS_SENSITIVE_CREATE))
    (inPublic : option (TPM2B_SUB TPMT_PUBLIC)) (outsideInfo : option TPM2B) (creationPCR :
    (TPML TPMS_PCR_SELECTION)) (outPrivate : option TPM2B) (outPublic : option (TPM2B_SUB
    TPMT_PUBLIC)) (creationData : option (TPM2B_SUB TPMS_CREATION_DATA)) (creationHash : option
    TPM2B) (creationTicket : option TPMT_TK_CREATION) :
    one_call_of (fun H => Tss2_Sys_Create_Prepare parentHandle inSensitive inPublic outsideInfo
        (Some creationPCR))
      (fun H => Tss2_Sys_Create_Complete outPrivate outPublic creationData creationHash
        creationTicket) true
      (fun H arr rsp => Tss2_Sys_Create parentHandle arr inSensitive inPublic outsideInfo (Some
        creationPCR) outPrivate outPublic creationData creationHash creationTicket rsp)
| call_CreateLoaded (parentHandle : Z) (inSensitive : option (TPM2B_SUB TPMS_SENSITIVE_CREATE))
    (inPublic : option TPM2B) (objectHandle : Z) (outPrivate : TPM2B) (outPublic : (TPM2B_SUB
    TPMT_PUBLIC)) (name : TPM2B) :
    one_call_of (fun H => Tss2_Sys_CreateLoaded_Prepare parentHandle inSensitive inPublic)
      (fun H => Tss2_Sys_CreateLoaded_Complete (Some objectHandle) (Some outPrivate) (Some
        outPublic) (Some name)) true
      (fun H arr rsp => Tss2_Sys_CreateLoaded parentHandle arr inSensitive inPublic (Some
        objectHandle) (Some outPrivate) (Some outPublic) (Some name) rsp)
| call_CreatePrimary (primaryHandle : Z) (inSensitive : option (TPM2B_SUB
    TPMS_SENSITIVE_CREATE)) (inPublic : option (TPM2B_SUB TPMT_PUBLIC)) (outsideInfo : option
    TPM2B) (creationPCR : (TPML TPMS_PCR_SELECTION)) (objectHandle : option Z) (outPublic :
    option (TPM2B_SUB TPMT_PUBLIC)) (creationData : option (TPM2B_SUB TPMS_CREATION_DATA))
    (creationHash : option TPM2B) (creationTicket : option TPMT_TK_CREATION) (name : option
    TPM2B) :
    one_call_of (fun H => Tss2_Sys_CreatePrimary_Prepare primaryHandle inSensitive inPublic
        outsideInfo (Some creationPCR))
      (fun H => Tss2_Sys_CreatePrimary_Complete objectHandle outPublic creationData
        creationHash creationTicket name) true
      (fun H arr rsp => Tss2_Sys_CreatePrimary primaryHandle arr inSensitive inPublic
        outsideInfo (Some creationPCR) objectHandle outPublic creationData creationHash
        creationTicket name rsp)
| call_Decapsulate (keyHandle : Z) (cipherText : option TPM2B) (label : option TPM2B)
    (outSymSeed : option TPM2B) :
    one_call_of (fun H => Tss2_Sys_Decapsulate_Prepare keyHandle cipherText label)
      (fun H => Tss2_Sys_Decapsulate_Complete outSymSeed) true
      (fun H arr rsp => Tss2_Sys_Decapsulate keyHandle arr cipherText label outSymSeed rsp)
| call_DictionaryAttackLockReset (lockHandle : Z) :
    one_call_of (fun H => Tss2_Sys_DictionaryAttackLockReset_Prepare lockHandle)
      (fun H => Tss2_Sys_DictionaryAttackLockReset_Complete) true
      (fun H arr rsp => Tss2_Sys_DictionaryAttackLockReset lockHandle arr rsp)
| call_DictionaryAttackParameters (lockHandle : Z) (newMaxTries : Z) (newRecoveryTime : Z)
    (lockoutRecovery : Z) :
    one_call_of (fun H => Tss2_Sys_DictionaryAttackParameters_Prepare lockHandle newMaxTries
        newRecoveryTime lockoutRecovery)
      (fun H => Tss2_Sys_DictionaryAttackParameters_Complete) true
      (fun H arr rsp => Tss2_Sys_DictionaryAttackParameters lockHandle arr newMaxTries
        newRecoveryTime lockoutRecovery rsp)
| call_Duplicate (objectHandle : Z) (newParentHandle : Z) (encryptionKeyIn : option TPM2B)
    (symmetricAlg : TPMT_SYM_DEF_OBJECT) (encryptionKeyOut : option TPM2B) (duplicate : option
    TPM2B) (outSymSeed : option TPM2B) :
    one_call_of (fun H => Tss2_Sys_Duplicate_Prepare objectHandle newParentHandle
        encryptionKeyIn (Some symmetricAlg))
      (fun H => Tss2_Sys_Duplicate_Complete encryptionKeyOut duplicate outSymSeed) true
      (fun H arr rsp => Tss2_Sys_Duplicate objectHandle newParentHandle arr encryptionKeyIn
        (Some symmetricAlg) encryptionKeyOut duplicate outSymSeed rsp)
| call_ECC_Decrypt (keyHandle : Z) (c1 : option (TPM2B_SUB TPMS_ECC_POINT)) (c2 : option TPM2B)
    (c3 : option TPM2B) (inScheme : TPMT_KDF_SCHEME) (plaintText : option TPM2B) :
    one_call_of (fun H => Tss2_Sys_ECC_Decrypt_Prepare keyHandle c1 c2 c3 (Some inScheme))
      (fun H => Tss2_Sys_ECC_Decrypt_Complete plaintText) true
      (fun H arr rsp => Tss2_Sys_ECC_Decrypt keyHandle arr c1 c2 c3 (Some inScheme) plaintText
        rsp)
| call_ECC_Encrypt (keyHandle : Z) (plainText : option TPM2B) (inScheme : TPMT_KDF_SCHEME) (c1
    : option (TPM2B_SUB TPMS_ECC_POINT)) (c2 : option TPM2B) (c3 : option TPM2B) :
    one_call_of (fun H => Tss2_Sys_ECC_Encrypt_Prepare keyHandle plainText (Some inScheme))
      (fun H => Tss2_Sys_ECC_Encrypt_Complete c1 c2 c3) true
      (fun H arr rsp => Tss2_Sys_ECC_Encrypt keyHandle arr plainText (Some inScheme) c1 c2 c3
        rsp)
| call_ECC_Parameters (curveID : Z) (parameters : option TPMS_ALGORITHM_DETAIL_ECC) :
    one_call_of (fun H => Tss2_Sys_ECC_Parameters_Prepare curveID)
      (fun H => Tss2_Sys_ECC_Parameters_Complete parameters) true
      (fun H arr rsp => Tss2_Sys_ECC_Parameters arr curveID parameters rsp)
| call_ECDH_KeyGen (keyHandle : Z) (zPoint : option (TPM2B_SUB TPMS_ECC_POINT)) (pubPoint :
    option (TPM2B_SUB TPMS_ECC_POINT)) :
    one_call_of (fun H => Tss2_Sys_ECDH_KeyGen_Prepare keyHandle)
      (fun H => Tss2_Sys_ECDH_KeyGen_Complete zPoint pubPoint) true
      (fun H arr rsp => Tss2_Sys_ECDH_KeyGen keyHandle arr zPoint pubPoint rsp)
| call_ECDH_ZGen (keyHandle : Z) (inPoint : option (TPM2B_SUB TPMS_ECC_POINT)) (outPoint :
    option (TPM2B_SUB TPMS_ECC_POINT)) :
    one_call_of (fun H => Tss2_Sys_ECDH_ZGen_Prepare keyHandle inPoint)
      (fun H => Tss2_Sys_ECDH_ZGen_Complete outPoint) true
      (fun H arr rsp => Tss2_Sys_ECDH_ZGen keyHandle arr inPoint outPoint rsp)
| call_EC_Ephemeral (curveID : Z) (Q : option (TPM2B_SUB TPMS_ECC_POINT)) (counter : option Z) :
    one_call_of (fun H => Tss2_Sys_EC_Ephemeral_Prepare curveID)
      (fun H => Tss2_Sys_EC_Ephemeral_Complete Q counter) true
      (fun H arr rsp => Tss2_Sys_EC_Ephemeral arr curveID Q counter rsp)
| call_Encapsulate (keyHandle : Z) (label : option TPM2B) (outSymSeed : option TPM2B)
    (cipherText : option TPM2B) :
    one_call_of (fun H => Tss2_Sys_Encapsulate_Prepare keyHandle label)
      (fun H => Tss2_Sys_Encapsulate_Complete outSymSeed cipherText) true
      (fun H arr rsp => Tss2_Sys_Encapsulate keyHandle arr label outSymSeed cipherText rsp)
| call_EncryptDecrypt (keyHandle : Z) (decrypt : Z) (mode : Z) (ivIn : option TPM2B) (inData :
    option TPM2B) (outData : option TPM2B) (ivOut : option TPM2B) :
    one_call_of (fun H => Tss2_Sys_EncryptDecrypt_Prepare keyHandle decrypt mode ivIn inData)
      (fun H => Tss2_Sys_EncryptDecrypt_Complete outData ivOut) true
      (fun H arr rsp => Tss2_Sys_EncryptDecrypt keyHandle arr decrypt mode ivIn inData outData
        ivOut rsp)
| call_EncryptDecrypt2 (keyHandle : Z) (inData : option TPM2B) (decrypt : Z) (mode : Z) (ivIn :
    option TPM2B) (outData : option TPM2B) (ivOut : option TPM2B) :
    one_call_of (fun H => Tss2_Sys_EncryptDecrypt2_Prepare keyHandle inData decrypt mode ivIn)
      (fun H => Tss2_Sys_EncryptDecrypt2_Complete outData ivOut) true
      (fun H arr rsp => Tss2_Sys_EncryptDecrypt2 keyHandle arr inData decrypt mode ivIn outData
        ivOut rsp)
| call_EventSequenceComplete (pcrHandle : Z) (sequenceHandle : Z) (buffer : option TPM2B)
    (results : option (TPML TPMT_HA)) :
    one_call_of (fun H => Tss2_Sys_EventSequenceComplete_Prepare pcrHandle sequenceHandle
        buffer)
      (fun H => Tss2_Sys_EventSequenceComplete_Complete results) true
      (fun H arr rsp => Tss2_Sys_EventSequenceComplete pcrHandle sequenceHandle arr buffer
        results rsp)
| call_EvictControl (auth : Z) (objectHandle : Z) (persistentHandle : Z) :
    one_call_of (fun H => Tss2_Sys_EvictControl_Prepare auth objectHandle persistentHandle)
      (fun H => Tss2_Sys_EvictControl_Complete) true
      (fun H arr rsp => Tss2_Sys_EvictControl auth objectHandle arr persistentHandle rsp)
| call_FieldUpgradeData (fuData : option TPM2B) (nextDigest : option TPMT_HA) (firstDigest :
    option TPMT_HA) :
    one_call_of (fun H => Tss2_Sys_FieldUpgradeData_Prepare fuData)
      (fun H => Tss2_Sys_FieldUpgradeData_Complete nextDigest firstDigest) true
      (fun H arr rsp => Tss2_Sys_FieldUpgradeData arr fuData nextDigest firstDigest rsp)
| call_FieldUpgradeStart (authorization : Z) (keyHandle : Z) (fuDigest : option TPM2B)
    (manifestSignature : TPMT_SIGNATURE) :
    one_call_of (fun H => Tss2_Sys_FieldUpgradeStart_Prepare authorization keyHandle fuDigest
        (Some manifestSignature))
      (fun H => Tss2_Sys_FieldUpgradeStart_Complete) true
      (fun H arr rsp => Tss2_Sys_FieldUpgradeStart authorization keyHandle arr fuDigest (Some
        manifestSignature) rsp)
| call_FirmwareRead (sequenceNumber : Z) (fuData : option TPM2B) :
    one_call_of (fun H => Tss2_Sys_FirmwareRead_Prepare sequenceNumber)
      (fun H => Tss2_Sys_FirmwareRead_Complete fuData) true
      (fun H arr rsp => Tss2_Sys_FirmwareRead arr sequenceNumber fuData rsp)
| call_FlushContext (flushHandle : Z) :
    one_call_of (fun H => Tss2_Sys_FlushContext_Prepare flushHandle)
      (fun H => Tss2_Sys_FlushContext_Complete) false
      (fun H _ _ => Tss2_Sys_FlushContext flushHandle)
| call_GetCapability (capability : Z) (property : Z) (propertyCount : Z) (moreData : option Z)
    (capabilityData : option TPMS_CAPABILITY_DATA) :
    one_call_of (fun H => Tss2_Sys_GetCapability_Prepare capability property propertyCount)
      (fun H => Tss2_Sys_GetCapability_Complete moreData capabilityData) true
      (fun H arr rsp => Tss2_Sys_GetCapability arr capability property propertyCount moreData
        capabilityData rsp)
| call_GetCommandAuditDigest (privacyHandle : Z) (signHandle : Z) (qualifyingData : option
    TPM2B) (inScheme : TPMT_SIG_SCHEME) (auditInfo : option TPM2B) (signature : option
    TPMT_SIGNATURE) :
    one_call_of (fun H => Tss2_Sys_GetCommandAuditDigest_Prepare privacyHandle signHandle
        qualifyingData (Some inScheme))
      (fun H => Tss2_Sys_GetCommandAuditDigest_Complete auditInfo signature) true
      (fun H arr rsp => Tss2_Sys_GetCommandAuditDigest privacyHandle signHandle arr
        qualifyingData (Some inScheme) auditInfo signature rsp)
| call_GetRandom (bytesRequested : Z) (randomBytes : option TPM2B) :
    one_call_of (fun H => Tss2_Sys_GetRandom_Prepare bytesRequested)
      (fun H => Tss2_Sys_GetRandom_Complete randomBytes) true
      (fun H arr rsp => Tss2_Sys_GetRandom arr bytesRequested randomBytes rsp)
| call_GetSessionAuditDigest (privacyAdminHandle : Z) (signHandle : Z) (sessionHandle : Z)
    (qualifyingData : option TPM2B) (inScheme : TPMT_SIG_SCHEME) (auditInfo : option TPM2B)
    (signature : option TPMT_SIGNATURE) :
    one_call_of (fun H => Tss2_Sys_GetSessionAuditDigest_Prepare privacyAdminHandle signHandle
        sessionHandle qualifyingData (Some inScheme))
      (fun H => Tss2_Sys_GetSessionAuditDigest_Complete auditInfo signature) true
      (fun H arr rsp => Tss2_Sys_GetSessionAuditDigest privacyAdminHandle signHandle
        sessionHandle arr qualifyingData (Some inScheme) auditInfo signature rsp)
| call_GetTestResult (outData : option TPM2B) (testResult : option Z) :
    one_call_of (fun H => Tss2_Sys_GetTestResult_Prepare)
      (fun H => Tss2_Sys_GetTestResult_Complete outData testResult) true
      (fun H arr rsp => Tss2_Sys_GetTestResult arr outData testResult rsp)
| call_GetTime (privacyAdminHandle : Z) (signHandle : Z) (qualifyingData : option TPM2B)
    (inScheme : TPMT_SIG_SCHEME) (timeInfo : option TPM2B) (signature : option TPMT_SIGNATURE) :
    one_call_of (fun H => Tss2_Sys_GetTime_Prepare privacyAdminHandle signHandle qualifyingData
        (Some inScheme))
      (fun H => Tss2_Sys_GetTime_Complete timeInfo signature) true
      (fun H arr rsp => Tss2_Sys_GetTime privacyAdminHandle signHandle arr qualifyingData (Some
        inScheme) timeInfo signature rsp)
| call_HMAC (handle : Z) (buffer : option TPM2B) (hashAlg : Z) (outHMAC : option TPM2B) :
    one_call_of (fun H => Tss2_Sys_HMAC_Prepare handle buffer hashAlg)
      (fun H => Tss2_Sys_HMAC_Complete outHMAC) true
      (fun H arr rsp => Tss2_Sys_HMAC handle arr buffer hashAlg outHMAC rsp)
| call_HMAC_Start (handle : Z) (auth : option TPM2B) (hashAlg : Z) (sequenceHandle : option Z) :
    one_call_of (fun H => Tss2_Sys_HMAC_Start_Prepare handle auth hashAlg)
      (fun H => Tss2_Sys_HMAC_Start_Complete sequenceHandle) true
      (fun H arr rsp => Tss2_Sys_HMAC_Start handle arr auth hashAlg sequenceHandle rsp)
| call_Hash (data : option TPM2B) (hashAlg : Z) (hierarchy : Z) (outHash : option TPM2B)
    (validation : option TPMT_TK_HASHCHECK) :
    one_call_of (fun H => Tss2_Sys_Hash_Prepare data hashAlg hierarchy)
      (fun H => Tss2_Sys_Hash_Complete outHash validation) true
      (fun H arr rsp => Tss2_Sys_Hash arr data hashAlg hierarchy outHash validation rsp)
| call_HashSequenceStart (auth : option TPM2B) (hashAlg : Z) (sequenceHandle : option Z) :
    one_call_of (fun H => Tss2_Sys_HashSequenceStart_Prepare auth hashAlg)
      (fun H => Tss2_Sys_HashSequenceStart_Complete sequenceHandle) true
      (fun H arr rsp => Tss2_Sys_HashSequenceStart arr auth hashAlg sequenceHandle rsp)
| call_HierarchyChangeAuth (authHandle : Z) (newAuth : option TPM2B) :
    one_call_of (fun H => Tss2_Sys_HierarchyChangeAuth_Prepare authHandle newAuth)
      (fun H => Tss2_Sys_HierarchyChangeAuth_Complete) true
      (fun H arr rsp => Tss2_Sys_HierarchyChangeAuth authHandle arr newAuth rsp)
| call_HierarchyControl (authHandle : Z) (enable : Z) (state : Z) :
    one_call_of (fun H => Tss2_Sys_HierarchyControl_Prepare authHandle enable state)
      (fun H => Tss2_Sys_HierarchyControl_Complete) true
      (fun H arr rsp => Tss2_Sys_HierarchyControl authHandle arr enable state rsp)
| call_Import (parentHandle : Z) (encryptionKey : option TPM2B) (objectPublic : option
    (TPM2B_SUB TPMT_PUBLIC)) (duplicate : option TPM2B) (inSymSeed : option TPM2B)
    (symmetricAlg : TPMT_SYM_DEF_OBJECT) (outPrivate : option TPM2B) :
    one_call_of (fun H => Tss2_Sys_Import_Prepare parentHandle encryptionKey objectPublic
        duplicate inSymSeed (Some symmetricAlg))
      (fun H => Tss2_Sys_Import_Complete outPrivate) true
      (fun H arr rsp => Tss2_Sys_Import parentHandle arr encryptionKey objectPublic duplicate
        inSymSeed (Some symmetricAlg) outPrivate rsp)
| call_IncrementalSelfTest (toTest : (TPML Z)) (toDoList : option (TPML Z)) :
    one_call_of (fun H => Tss2_Sys_IncrementalSelfTest_Prepare (Some toTest))
      (fun H => Tss2_Sys_IncrementalSelfTest_Complete toDoList) true
      (fun H arr rsp => Tss2_Sys_IncrementalSelfTest arr (Some toTest) toDoList rsp)
| call_Load (parentHandle : Z) (inPrivate : option TPM2B) (inPublic : option (TPM2B_SUB
    TPMT_PUBLIC)) (objectHandle : option Z) (name : option TPM2B) :
    one_call_of (fun H => Tss2_Sys_Load_Prepare parentHandle inPrivate inPublic)
      (fun H => Tss2_Sys_Load_Complete objectHandle name) true
      (fun H arr rsp => Tss2_Sys_Load parentHandle arr inPrivate inPublic objectHandle name rsp)
| call_LoadExternal (inPrivate : option (TPM2B_SUB TPMT_SENSITIVE)) (inPublic : option
    (TPM2B_SUB TPMT_PUBLIC)) (hierarchy : Z) (objectHandle : option Z) (name : option TPM2B) :
    one_call_of (fun H => Tss2_Sys_LoadExternal_Prepare inPrivate inPublic hierarchy)
      (fun H => Tss2_Sys_LoadExternal_Complete objectHandle name) true
      (fun H arr rsp => Tss2_Sys_LoadExternal arr inPrivate inPublic hierarchy objectHandle
        name rsp)
| call_MAC (handle : Z) (buffer : option TPM2B) (inScheme : Z) (outMAC : option TPM2B) :
    one_call_of (fun H => Tss2_Sys_MAC_Prepare handle buffer inScheme)
      (fun H => Tss2_Sys_MAC_Complete outMAC) true
      (fun H arr rsp => Tss2_Sys_MAC handle arr buffer inScheme outMAC rsp)
| call_MAC_Start (handle : Z) (auth : option TPM2B) (inScheme : Z) (sequenceHandle : option Z) :
    one_call_of (fun H => Tss2_Sys_MAC_Start_Prepare handle auth inScheme)
      (fun H => Tss2_Sys_MAC_Start_Complete sequenceHandle) true
      (fun H arr rsp => Tss2_Sys_MAC_Start handle arr auth inScheme sequenceHandle rsp)
| call_MakeCredential (handle : Z) (credential : option TPM2B) (objectName : option TPM2B)
    (credentialBlob : option TPM2B) (secret : option TPM2B) :
    one_call_of (fun H => Tss2_Sys_MakeCredential_Prepare handle credential objectName)
      (fun H => Tss2_Sys_MakeCredential_Complete credentialBlob secret) true
      (fun H arr rsp => Tss2_Sys_MakeCredential handle arr credential objectName credentialBlob
        secret rsp)
| call_NV_Certify (signHandle : Z) (authHandle : Z) (nvIndex : Z) (qualifyingData : option
    TPM2B) (inScheme : TPMT_SIG_SCHEME) (size : Z) (offset : Z) (certifyInfo : option TPM2B)
    (signature : option TPMT_SIGNATURE) :
    one_call_of (fun H => Tss2_Sys_NV_Certify_Prepare signHandle authHandle nvIndex
        qualifyingData (Some inScheme) size offset)
      (fun H => Tss2_Sys_NV_Certify_Complete certifyInfo signature) true
      (fun H arr rsp => Tss2_Sys_NV_Certify signHandle authHandle nvIndex arr qualifyingData
        (Some inScheme) size offset certifyInfo signature rsp)
| call_NV_ChangeAuth (nvIndex : Z) (newAuth : option TPM2B) :
    one_call_of (fun H => Tss2_Sys_NV_ChangeAuth_Prepare nvIndex newAuth)
      (fun H => Tss2_Sys_NV_ChangeAuth_Complete) true
      (fun H arr rsp => Tss2_Sys_NV_ChangeAuth nvIndex arr newAuth rsp)
| call_NV_DefineSpace (authHandle : Z) (auth : option TPM2B) (publicInfo : option (TPM2B_SUB
    TPMS_NV_PUBLIC)) :
    one_call_of (fun H => Tss2_Sys_NV_DefineSpace_Prepare authHandle auth publicInfo)
      (fun H => Tss2_Sys_NV_DefineSpace_Complete) true
      (fun H arr rsp => Tss2_Sys_NV_DefineSpace authHandle arr auth publicInfo rsp)
| call_NV_Extend (authHandle : Z) (nvIndex : Z) (data : option TPM2B) :
    one_call_of (fun H => Tss2_Sys_NV_Extend_Prepare authHandle nvIndex data)
      (fun H => Tss2_Sys_NV_Extend_Complete) true
      (fun H arr rsp => Tss2_Sys_NV_Extend authHandle nvIndex arr data rsp)
| call_NV_GlobalWriteLock (authHandle : Z) :
    one_call_of (fun H => Tss2_Sys_NV_GlobalWriteLock_Prepare authHandle)
      (fun H => Tss2_Sys_NV_GlobalWriteLock_Complete) true
      (fun H arr rsp => Tss2_Sys_NV_GlobalWriteLock authHandle arr rsp)
| call_NV_Increment (authHandle : Z) (nvIndex : Z) :
    one_call_of (fun H => Tss2_Sys_NV_Increment_Prepare authHandle nvIndex)
      (fun H => Tss2_Sys_NV_Increment_Complete) true
      (fun H arr rsp => Tss2_Sys_NV_Increment authHandle nvIndex arr rsp)
| call_NV_Read (authHandle : Z) (nvIndex : Z) (size : Z) (offset : Z) (data : option TPM2B) :
    one_call_of (fun H => Tss2_Sys_NV_Read_Prepare authHandle nvIndex size offset)
      (fun H => Tss2_Sys_NV_Read_Complete data) true
      (fun H arr rsp => Tss2_Sys_NV_Read authHandle nvIndex arr size offset data rsp)
| call_NV_ReadLock (authHandle : Z) (nvIndex : Z) :
    one_call_of (fun H => Tss2_Sys_NV_ReadLock_Prepare authHandle nvIndex)
      (fun H => Tss2_Sys_NV_ReadLock_Complete) true
      (fun H arr rsp => Tss2_Sys_NV_ReadLock authHandle nvIndex arr rsp)
| call_NV_ReadPublic (nvIndex : Z) (nvPublic : option (TPM2B_SUB TPMS_NV_PUBLIC)) (nvName :
    option TPM2B) :
    one_call_of (fun H => Tss2_Sys_NV_ReadPublic_Prepare nvIndex)
      (fun H => Tss2_Sys_NV_ReadPublic_Complete nvPublic nvName) true
      (fun H arr rsp => Tss2_Sys_NV_ReadPublic nvIndex arr nvPublic nvName rsp)
| call_NV_SetBits (authHandle : Z) (nvIndex : Z) (bits : Z) :
    one_call_of (fun H => Tss2_Sys_NV_SetBits_Prepare authHandle nvIndex bits)
      (fun H => Tss2_Sys_NV_SetBits_Complete) true
      (fun H arr rsp => Tss2_Sys_NV_SetBits authHandle nvIndex arr bits rsp)
| call_NV_UndefineSpace (authHandle : Z) (nvIndex : Z) :
    one_call_of (fun H => Tss2_Sys_NV_UndefineSpace_Prepare authHandle nvIndex)
      (fun H => Tss2_Sys_NV_UndefineSpace_Complete) true
      (fun H arr rsp => Tss2_Sys_NV_UndefineSpace authHandle nvIndex arr rsp)
| call_NV_UndefineSpaceSpecial (nvIndex : Z) (platform : Z) :
    one_call_of (fun H => Tss2_Sys_NV_UndefineSpaceSpecial_Prepare nvIndex platform)
      (fun H => Tss2_Sys_NV_UndefineSpaceSpecial_Complete) true
      (fun H arr rsp => Tss2_Sys_NV_UndefineSpaceSpecial nvIndex platform arr rsp)
| call_NV_Write (authHandle : Z) (nvIndex : Z) (data : option TPM2B) (offset : Z) :
    one_call_of (fun H => Tss2_Sys_NV_Write_Prepare authHandle nvIndex data offset)
      (fun H => Tss2_Sys_NV_Write_Complete) true
      (fun H arr rsp => Tss2_Sys_NV_Write authHandle nvIndex arr data offset rsp)
| call_NV_WriteLock (authHandle : Z) (nvIndex : Z) :
    one_call_of (fun H => Tss2_Sys_NV_WriteLock_Prepare authHandle nvIndex)
      (fun H => Tss2_Sys_NV_WriteLock_Complete) true
      (fun H arr rsp => Tss2_Sys_NV_WriteLock authHandle nvIndex arr rsp)
| call_ObjectChangeAuth (objectHandle : Z) (parentHandle : Z) (newAuth : option TPM2B)
    (outPrivate : option TPM2B) :
    one_call_of (fun H => Tss2_Sys_ObjectChangeAuth_Prepare objectHandle parentHandle newAuth)
      (fun H => Tss2_Sys_ObjectChangeAuth_Complete outPrivate) true
      (fun H arr rsp => Tss2_Sys_ObjectChangeAuth objectHandle parentHandle arr newAuth
        outPrivate rsp)
| call_PCR_Allocate (authHandle : Z) (pcrAllocation : (TPML TPMS_PCR_SELECTION))
    (allocationSuccess : option Z) (maxPCR : option Z) (sizeNeeded : option Z) (sizeAvailable :
    option Z) :
    one_call_of (fun H => Tss2_Sys_PCR_Allocate_Prepare authHandle (Some pcrAllocation))
      (fun H => Tss2_Sys_PCR_Allocate_Complete allocationSuccess maxPCR sizeNeeded
        sizeAvailable) true
      (fun H arr rsp => Tss2_Sys_PCR_Allocate authHandle arr (Some pcrAllocation)
        allocationSuccess maxPCR sizeNeeded sizeAvailable rsp)
| call_PCR_Event (pcrHandle : Z) (eventData : option TPM2B) (digests : option (TPML TPMT_HA)) :
    one_call_of (fun H => Tss2_Sys_PCR_Event_Prepare pcrHandle eventData)
      (fun H => Tss2_Sys_PCR_Event_Complete digests) true
      (fun H arr rsp => Tss2_Sys_PCR_Event pcrHandle arr eventData digests rsp)
| call_PCR_Extend (pcrHandle : Z) (digests : (TPML TPMT_HA)) :
    one_call_of (fun H => Tss2_Sys_PCR_Extend_Prepare pcrHandle (Some digests))
      (fun H => Tss2_Sys_PCR_Extend_Complete) true
      (fun H arr rsp => Tss2_Sys_PCR_Extend pcrHandle arr (Some digests) rsp)
| call_PCR_Read (pcrSelectionIn : (TPML TPMS_PCR_SELECTION)) (pcrUpdateCounter : option Z)
    (pcrSelectionOut : option (TPML TPMS_PCR_SELECTION)) (pcrValues : option (TPML TPM2B)) :
    one_call_of (fun H => Tss2_Sys_PCR_Read_Prepare (Some pcrSelectionIn))
      (fun H => Tss2_Sys_PCR_Read_Complete pcrUpdateCounter pcrSelectionOut pcrValues) true
      (fun H arr rsp => Tss2_Sys_PCR_Read arr (Some pcrSelectionIn) pcrUpdateCounter
        pcrSelectionOut pcrValues rsp)
| call_PCR_Reset (pcrHandle : Z) :
    one_call_of (fun H => Tss2_Sys_PCR_Reset_Prepare pcrHandle)
      (fun H => Tss2_Sys_PCR_Reset_Complete) true
      (fun H arr rsp => Tss2_Sys_PCR_Reset pcrHandle arr rsp)
| call_PCR_SetAuthPolicy (authHandle : Z) (authPolicy : option TPM2B) (hashAlg : Z) (pcrNum :
    Z) :
    one_call_of (fun H => Tss2_Sys_PCR_SetAuthPolicy_Prepare authHandle authPolicy hashAlg
        pcrNum)
      (fun H => Tss2_Sys_PCR_SetAuthPolicy_Complete) true
      (fun H arr rsp => Tss2_Sys_PCR_SetAuthPolicy authHandle arr authPolicy hashAlg pcrNum rsp)
| call_PCR_SetAuthValue (pcrHandle : Z) (auth : option TPM2B) :
    one_call_of (fun H => Tss2_Sys_PCR_SetAuthValue_Prepare pcrHandle auth)
      (fun H => Tss2_Sys_PCR_SetAuthValue_Complete) true
      (fun H arr rsp => Tss2_Sys_PCR_SetAuthValue pcrHandle arr auth rsp)
| call_PP_Commands (auth : Z) (setList : (TPML Z)) (clearList : (TPML Z)) :
    one_call_of (fun H => Tss2_Sys_PP_Commands_Prepare auth (Some setList) (Some clearList))
      (fun H => Tss2_Sys_PP_Commands_Complete) true
      (fun H arr rsp => Tss2_Sys_PP_Commands auth arr (Some setList) (Some clearList) rsp)
| call_PolicyAuthValue (policySession : Z) :
    one_call_of (fun H => Tss2_Sys_PolicyAuthValue_Prepare policySession)
      (fun H => Tss2_Sys_PolicyAuthValue_Complete) true
      (fun H arr rsp => Tss2_Sys_PolicyAuthValue policySession arr rsp)
| call_PolicyAuthorize (policySession : Z) (approvedPolicy : option TPM2B) (policyRef : option
    TPM2B) (keySign : option TPM2B) (checkTicket : TPMT_TK_VERIFIED) :
    one_call_of (fun H => Tss2_Sys_PolicyAuthorize_Prepare policySession approvedPolicy
        policyRef keySign (Some checkTicket))
      (fun H => Tss2_Sys_PolicyAuthorize_Complete) true
      (fun H arr rsp => Tss2_Sys_PolicyAuthorize policySession arr approvedPolicy policyRef
        keySign (Some checkTicket) rsp)
| call_PolicyAuthorizeNV (authHandle : Z) (nvIndex : Z) (policySession : Z) :
    one_call_of (fun H => Tss2_Sys_PolicyAuthorizeNV_Prepare authHandle nvIndex policySession)
      (fun H => Tss2_Sys_PolicyAuthorizeNV_Complete) true
      (fun H arr rsp => Tss2_Sys_PolicyAuthorizeNV authHandle nvIndex policySession arr rsp)
| call_PolicyCommandCode (policySession : Z) (code : Z) :
    one_call_of (fun H => Tss2_Sys_PolicyCommandCode_Prepare policySession code)
      (fun H => Tss2_Sys_PolicyCommandCode_Complete) true
      (fun H arr rsp => Tss2_Sys_PolicyCommandCode policySession arr code rsp)
| call_PolicyCounterTimer (policySession : Z) (operandB : option TPM2B) (offset : Z) (operation
    : Z) :
    one_call_of (fun H => Tss2_Sys_PolicyCounterTimer_Prepare policySession operandB offset
        operation)
      (fun H => Tss2_Sys_PolicyCounterTimer_Complete) true
      (fun H arr rsp => Tss2_Sys_PolicyCounterTimer policySession arr operandB offset operation
        rsp)
| call_PolicyCpHash (policySession : Z) (cpHashA : option TPM2B) :
    one_call_of (fun H => Tss2_Sys_PolicyCpHash_Prepare policySession cpHashA)
      (fun H => Tss2_Sys_PolicyCpHash_Complete) true
      (fun H arr rsp => Tss2_Sys_PolicyCpHash policySession arr cpHashA rsp)
| call_PolicyDuplicationSelect (policySession : Z) (objectName : option TPM2B) (newParentName :
    option TPM2B) (includeObject : Z) :
    one_call_of (fun H => Tss2_Sys_PolicyDuplicationSelect_Prepare policySession objectName
        newParentName includeObject)
      (fun H => Tss2_Sys_PolicyDuplicationSelect_Complete) true
      (fun H arr rsp => Tss2_Sys_PolicyDuplicationSelect policySession arr objectName
        newParentName includeObject rsp)
| call_PolicyGetDigest (policySession : Z) (policyDigest : option TPM2B) :
    one_call_of (fun H => Tss2_Sys_PolicyGetDigest_Prepare policySession)
      (fun H => Tss2_Sys_PolicyGetDigest_Complete policyDigest) true
      (fun H arr rsp => Tss2_Sys_PolicyGetDigest policySession arr policyDigest rsp)
| call_PolicyLocality (policySession : Z) (locality : Z) :
    one_call_of (fun H => Tss2_Sys_PolicyLocality_Prepare policySession locality)
      (fun H => Tss2_Sys_PolicyLocality_Complete) true
      (fun H arr rsp => Tss2_Sys_PolicyLocality policySession arr locality rsp)
| call_PolicyNV (authHandle : Z) (nvIndex : Z) (policySession : Z) (operandB : option TPM2B)
    (offset : Z) (operation : Z) :
    one_call_of (fun H => Tss2_Sys_PolicyNV_Prepare authHandle nvIndex policySession operandB
        offset operation)
      (fun H => Tss2_Sys_PolicyNV_Complete) true
      (fun H arr rsp => Tss2_Sys_PolicyNV authHandle nvIndex policySession arr operandB offset
        operation rsp)
| call_PolicyNameHash (policySession : Z) (nameHash : option TPM2B) :
    one_call_of (fun H => Tss2_Sys_PolicyNameHash_Prepare policySession nameHash)
      (fun H => Tss2_Sys_PolicyNameHash_Complete) true
      (fun H arr rsp => Tss2_Sys_PolicyNameHash policySession arr nameHash rsp)
| call_PolicyNvWritten (policySession : Z) (writtenSet : Z) :
    one_call_of (fun H => Tss2_Sys_PolicyNvWritten_Prepare policySession writtenSet)
      (fun H => Tss2_Sys_PolicyNvWritten_Complete) true
      (fun H arr rsp => Tss2_Sys_PolicyNvWritten policySession arr writtenSet rsp)
| call_PolicyOR (policySession : Z) (pHashList : (TPML TPM2B)) :
    one_call_of (fun H => Tss2_Sys_PolicyOR_Prepare policySession (Some pHashList))
      (fun H => Tss2_Sys_PolicyOR_Complete) true
      (fun H arr rsp => Tss2_Sys_PolicyOR policySession arr (Some pHashList) rsp)
| call_PolicyPCR (policySession : Z) (pcrDigest : option TPM2B) (pcrs : (TPML
    TPMS_PCR_SELECTION)) :
    one_call_of (fun H => Tss2_Sys_PolicyPCR_Prepare policySession pcrDigest (Some pcrs))
      (fun H => Tss2_Sys_PolicyPCR_Complete) true
      (fun H arr rsp => Tss2_Sys_PolicyPCR policySession arr pcrDigest (Some pcrs) rsp)
| call_PolicyPassword (policySession : Z) :
    one_call_of (fun H => Tss2_Sys_PolicyPassword_Prepare policySession)
      (fun H => Tss2_Sys_PolicyPassword_Complete) true
      (fun H arr rsp => Tss2_Sys_PolicyPassword policySession arr rsp)
| call_PolicyPhysicalPresence (policySession : Z) :
    one_call_of (fun H => Tss2_Sys_PolicyPhysicalPresence_Prepare policySession)
      (fun H => Tss2_Sys_PolicyPhysicalPresence_Complete) true
      (fun H arr rsp => Tss2_Sys_PolicyPhysicalPresence policySession arr rsp)
| call_PolicyRestart (sessionHandle : Z) :
    one_call_of (fun H => Tss2_Sys_PolicyRestart_Prepare sessionHandle)
      (fun H => Tss2_Sys_PolicyRestart_Complete) true
      (fun H arr rsp => Tss2_Sys_PolicyRestart sessionHandle arr rsp)
| call_PolicySecret (authHandle : Z) (policySession : Z) (nonceTPM : option TPM2B) (cpHashA :
    option TPM2B) (policyRef : option TPM2B) (expiration : Z) (timeout : option TPM2B)
    (policyTicket : option TPMT_TK_AUTH) :
    one_call_of (fun H => Tss2_Sys_PolicySecret_Prepare authHandle policySession nonceTPM
        cpHashA policyRef expiration)
      (fun H => Tss2_Sys_PolicySecret_Complete timeout policyTicket) true
      (fun H arr rsp => Tss2_Sys_PolicySecret authHandle policySession arr nonceTPM cpHashA
        policyRef expiration timeout policyTicket rsp)
| call_PolicySigned (authObject : Z) (policySession : Z) (nonceTPM : option TPM2B) (cpHashA :
    option TPM2B) (policyRef : option TPM2B) (expiration : Z) (auth : TPMT_SIGNATURE) (timeout
    : option TPM2B) (policyTicket : option TPMT_TK_AUTH) :
    one_call_of (fun H => Tss2_Sys_PolicySigned_Prepare authObject policySession nonceTPM
        cpHashA policyRef expiration (Some auth))
      (fun H => Tss2_Sys_PolicySigned_Complete timeout policyTicket) true
      (fun H arr rsp => Tss2_Sys_PolicySigned authObject policySession arr nonceTPM cpHashA
        policyRef expiration (Some auth) timeout policyTicket rsp)
| call_PolicyTemplate (policySession : Z) (templateHash : option TPM2B) :
    one_call_of (fun H => Tss2_Sys_PolicyTemplate_Prepare policySession templateHash)
      (fun H => Tss2_Sys_PolicyTemplate_Complete) true
      (fun H arr rsp => Tss2_Sys_PolicyTemplate policySession arr templateHash rsp)
| call_PolicyTicket (policySession : Z) (timeout : option TPM2B) (cpHashA : option TPM2B)
    (policyRef : option TPM2B) (authName : option TPM2B) (ticket : TPMT_TK_AUTH) :
    one_call_of (fun H => Tss2_Sys_PolicyTicket_Prepare policySession timeout cpHashA policyRef
        authName (Some ticket))
      (fun H => Tss2_Sys_PolicyTicket_Complete) true
      (fun H arr rsp => Tss2_Sys_PolicyTicket policySession arr timeout cpHashA policyRef
        authName (Some ticket) rsp)
| call_Policy_AC_SendSelect (policySession : Z) (objectName : option TPM2B) (authHandleName :
    option TPM2B) (acName : option TPM2B) (includeObject : Z) :
    one_call_of (fun H => Tss2_Sys_Policy_AC_SendSelect_Prepare policySession objectName
        authHandleName acName includeObject)
      (fun H => Tss2_Sys_Policy_AC_SendSelect_Complete) true
      (fun H arr rsp => Tss2_Sys_Policy_AC_SendSelect policySession arr objectName
        authHandleName acName includeObject rsp)
| call_Quote (signHandle : Z) (qualifyingData : option TPM2B) (inScheme : TPMT_SIG_SCHEME)
    (PCRselect : (TPML TPMS_PCR_SELECTION)) (quoted : option TPM2B) (signature : option
    TPMT_SIGNATURE) :
    one_call_of (fun H => Tss2_Sys_Quote_Prepare signHandle qualifyingData (Some inScheme)
        (Some PCRselect))
      (fun H => Tss2_Sys_Quote_Complete quoted signature) true
      (fun H arr rsp => Tss2_Sys_Quote signHandle arr qualifyingData (Some inScheme) (Some
        PCRselect) quoted signature rsp)
| call_RSA_Decrypt (keyHandle : Z) (cipherText : option TPM2B) (inScheme : TPMT_RSA_DECRYPT)
    (label : option TPM2B) (message : option TPM2B) :
    one_call_of (fun H => Tss2_Sys_RSA_Decrypt_Prepare keyHandle cipherText (Some inScheme)
        label)
      (fun H => Tss2_Sys_RSA_Decrypt_Complete message) true
      (fun H arr rsp => Tss2_Sys_RSA_Decrypt keyHandle arr cipherText (Some inScheme) label
        message rsp)
| call_RSA_Encrypt (keyHandle : Z) (message : option TPM2B) (inScheme : TPMT_RSA_DECRYPT)
    (label : option TPM2B) (outData : option TPM2B) :
    one_call_of (fun H => Tss2_Sys_RSA_Encrypt_Prepare keyHandle message (Some inScheme) label)
      (fun H => Tss2_Sys_RSA_Encrypt_Complete outData) true
      (fun H arr rsp => Tss2_Sys_RSA_Encrypt keyHandle arr message (Some inScheme) label
        outData rsp)
| call_ReadClock (currentTime : option TPMS_TIME_INFO) :
    one_call_of (fun H => Tss2_Sys_ReadClock_Prepare)
      (fun H => Tss2_Sys_ReadClock_Complete currentTime) true
      (fun H arr rsp => Tss2_Sys_ReadClock arr currentTime rsp)
| call_ReadPublic (objectHandle : Z) (outPublic : option (TPM2B_SUB TPMT_PUBLIC)) (name :
    option TPM2B) (qualifiedName : option TPM2B) :
    one_call_of (fun H => Tss2_Sys_ReadPublic_Prepare objectHandle)
      (fun H => Tss2_Sys_ReadPublic_Complete outPublic name qualifiedName) true
      (fun H arr rsp => Tss2_Sys_ReadPublic objectHandle arr outPublic name qualifiedName rsp)
| call_Rewrap (oldParent : Z) (newParent : Z) (inDuplicate : option TPM2B) (name : option
    TPM2B) (inSymSeed : option TPM2B) (outDuplicate : option TPM2B) (outSymSeed : option TPM2B)
    :
    one_call_of (fun H => Tss2_Sys_Rewrap_Prepare oldParent newParent inDuplicate name
        inSymSeed)
      (fun H => Tss2_Sys_Rewrap_Complete outDuplicate outSymSeed) true
      (fun H arr rsp => Tss2_Sys_Rewrap oldParent newParent arr inDuplicate name inSymSeed
        outDuplicate outSymSeed rsp)
| call_SelfTest (fullTest : Z) :
    one_call_of (fun H => Tss2_Sys_SelfTest_Prepare fullTest)
      (fun H => Tss2_Sys_SelfTest_Complete) true
      (fun H arr rsp => Tss2_Sys_SelfTest arr fullTest rsp)
| call_SequenceComplete (sequenceHandle : Z) (buffer : option TPM2B) (hierarchy : Z) (result :
    option TPM2B) (validation : option TPMT_TK_HASHCHECK) :
    one_call_of (fun H => Tss2_Sys_SequenceComplete_Prepare sequenceHandle buffer hierarchy)
      (fun H => Tss2_Sys_SequenceComplete_Complete result validation) true
      (fun H arr rsp => Tss2_Sys_SequenceComplete sequenceHandle arr buffer hierarchy result
        validation rsp)
| call_SequenceUpdate (sequenceHandle : Z) (buffer : option TPM2B) :
    one_call_of (fun H => Tss2_Sys_SequenceUpdate_Prepare sequenceHandle buffer)
      (fun H => Tss2_Sys_SequenceUpdate_Complete) true
      (fun H arr rsp => Tss2_Sys_SequenceUpdate sequenceHandle arr buffer rsp)
| call_SetAlgorithmSet (authHandle : Z) (algorithmSet : Z) :
    one_call_of (fun H => Tss2_Sys_SetAlgorithmSet_Prepare authHandle algorithmSet)
      (fun H => Tss2_Sys_SetAlgorithmSet_Complete) true
      (fun H arr rsp => Tss2_Sys_SetAlgorithmSet authHandle arr algorithmSet rsp)
| call_SetCommandCodeAuditStatus (auth : Z) (auditAlg : Z) (setList : (TPML Z)) (clearList :
    (TPML Z)) :
    one_call_of (fun H => Tss2_Sys_SetCommandCodeAuditStatus_Prepare auth auditAlg (Some
        setList) (Some clearList))
      (fun H => Tss2_Sys_SetCommandCodeAuditStatus_Complete) true
      (fun H arr rsp => Tss2_Sys_SetCommandCodeAuditStatus auth arr auditAlg (Some setList)
        (Some clearList) rsp)
| call_SetPrimaryPolicy (authHandle : Z) (authPolicy : option TPM2B) (hashAlg : Z) :
    one_call_of (fun H => Tss2_Sys_SetPrimaryPolicy_Prepare authHandle authPolicy hashAlg)
      (fun H => Tss2_Sys_SetPrimaryPolicy_Complete) true
      (fun H arr rsp => Tss2_Sys_SetPrimaryPolicy authHandle arr authPolicy hashAlg rsp)
| call_Shutdown (shutdownType : Z) :
    one_call_of (fun H => Tss2_Sys_Shutdown_Prepare shutdownType)
      (fun H => Tss2_Sys_Shutdown_Complete) true
      (fun H arr rsp => Tss2_Sys_Shutdown arr shutdownType rsp)
| call_Sign (keyHandle : Z) (digest : option TPM2B) (inScheme : TPMT_SIG_SCHEME) (validation :
    TPMT_TK_HASHCHECK) (signature : option TPMT_SIGNATURE) :
    one_call_of (fun H => Tss2_Sys_Sign_Prepare keyHandle digest (Some inScheme) (Some
        validation))
      (fun H => Tss2_Sys_Sign_Complete signature) true
      (fun H arr rsp => Tss2_Sys_Sign keyHandle arr digest (Some inScheme) (Some validation)
        signature rsp)
| call_SignDigest (keyHandle : Z) (digest : option TPM2B) (inScheme : TPMT_SIG_SCHEME)
    (validation : TPMT_TK_HASHCHECK) (signature : option TPMT_SIGNATURE) :
    one_call_of (fun H => Tss2_Sys_SignDigest_Prepare keyHandle digest (Some inScheme) (Some
        validation))
      (fun H => Tss2_Sys_SignDigest_Complete signature) true
      (fun H arr rsp => Tss2_Sys_SignDigest keyHandle arr digest (Some inScheme) (Some
        validation) signature rsp)
| call_SignSequenceComplete (sequenceHandle : Z) (buffer : option TPM2B) (signature : option
    TPMT_SIGNATURE) :
    one_call_of (fun H => Tss2_Sys_SignSequenceComplete_Prepare sequenceHandle buffer)
      (fun H => Tss2_Sys_SignSequenceComplete_Complete signature) true
      (fun H arr rsp => Tss2_Sys_SignSequenceComplete sequenceHandle arr buffer signature rsp)
| call_SignSequenceStart (keyHandle : Z) (inScheme : option TPMT_SIG_SCHEME) (keyB : Z)
    (sequenceHandle : option Z) :
    one_call_of (fun H => Tss2_Sys_SignSequenceStart_Prepare keyHandle inScheme keyB)
      (fun H => Tss2_Sys_SignSequenceStart_Complete sequenceHandle) true
      (fun H arr rsp => Tss2_Sys_SignSequenceStart keyHandle arr inScheme keyB sequenceHandle
        rsp)
| call_StartAuthSession (tpmKey : Z) (bind : Z) (nonceCaller : option TPM2B) (encryptedSalt :
    option TPM2B) (sessionType : Z) (symmetric : TPMT_SYM_DEF) (authHash : Z) (sessionHandle :
    option Z) (nonceTPM : option TPM2B) :
    one_call_of (fun H => Tss2_Sys_StartAuthSession_Prepare tpmKey bind nonceCaller
        encryptedSalt sessionType (Some symmetric) authHash)
      (fun H => Tss2_Sys_StartAuthSession_Complete sessionHandle nonceTPM) true
      (fun H arr rsp => Tss2_Sys_StartAuthSession tpmKey bind arr nonceCaller encryptedSalt
        sessionType (Some symmetric) authHash sessionHandle nonceTPM rsp)
| call_Startup (startupType : Z) :
    one_call_of (fun H => Tss2_Sys_Startup_Prepare startupType)
      (fun H => Tss2_Sys_Startup_Complete) false
      (fun H _ _ => Tss2_Sys_Startup startupType)
| call_StirRandom (inData : option TPM2B) :
    one_call_of (fun H => Tss2_Sys_StirRandom_Prepare inData)
      (fun H => Tss2_Sys_StirRandom_Complete) true
      (fun H arr rsp => Tss2_Sys_StirRandom arr inData rsp)
| call_TestParms (parameters : TPMT_PUBLIC_PARMS) :
    one_call_of (fun H => Tss2_Sys_TestParms_Prepare (Some parameters))
      (fun H => Tss2_Sys_TestParms_Complete) true
      (fun H arr rsp => Tss2_Sys_TestParms arr (Some parameters) rsp)
| call_Unseal (itemHandle : Z) (outData : option TPM2B) :
    one_call_of (fun H => Tss2_Sys_Unseal_Prepare itemHandle)
      (fun H => Tss2_Sys_Unseal_Complete outData) true
      (fun H arr rsp => Tss2_Sys_Unseal itemHandle arr outData rsp)
| call_Vendor_TCG_Test (inputData : option TPM2B) (outputData : option TPM2B) :
    one_call_of (fun H => Tss2_Sys_Vendor_TCG_Test_Prepare inputData)
      (fun H => Tss2_Sys_Vendor_TCG_Test_Complete outputData) true
      (fun H arr rsp => Tss2_Sys_Vendor_TCG_Test arr inputData outputData rsp)
| call_VerifyDigestSignature (keyHandle : Z) (digest : option TPM2B) (signature :
    TPMT_SIGNATURE) (validation : option TPMT_TK_VERIFIED) :
    one_call_of (fun H => Tss2_Sys_VerifyDigestSignature_Prepare keyHandle digest (Some
        signature))
      (fun H => Tss2_Sys_VerifyDigestSignature_Complete validation) true
      (fun H arr rsp => Tss2_Sys_VerifyDigestSignature keyHandle arr digest (Some signature)
        validation rsp)
| call_VerifySequenceComplete (sequenceHandle : Z) (buffer : option TPM2B) (validation : option
    TPMT_TK_VERIFIED) :
    one_call_of (fun H => Tss2_Sys_VerifySequenceComplete_Prepare sequenceHandle buffer)
      (fun H => Tss2_Sys_VerifySequenceComplete_Complete validation) true
      (fun H arr rsp => Tss2_Sys_VerifySequenceComplete sequenceHandle arr buffer validation
        rsp)
| call_VerifySequenceStart (keyHandle : Z) (signature : option TPMT_SIGNATURE) (sequenceHandle
    : option Z) :
    one_call_of (fun H => Tss2_Sys_VerifySequenceStart_Prepare keyHandle signature)
      (fun H => Tss2_Sys_VerifySequenceStart_Complete sequenceHandle) true
      (fun H arr rsp => Tss2_Sys_VerifySequenceStart keyHandle arr signature sequenceHandle rsp)
| call_VerifySignature (keyHandle : Z) (digest : option TPM2B) (signature : TPMT_SIGNATURE)
    (validation : option TPMT_TK_VERIFIED) :
    one_call_of (fun H => Tss2_Sys_VerifySignature_Prepare keyHandle digest (Some signature))
      (fun H => Tss2_Sys_VerifySignature_Complete validation) true
      (fun H arr rsp => Tss2_Sys_VerifySignature keyHandle arr digest (Some signature)
        validation rsp)
| call_ZGen_2Phase (keyA : Z) (inQsB : option (TPM2B_SUB TPMS_ECC_POINT)) (inQeB : option
    (TPM2B_SUB TPMS_ECC_POINT)) (inScheme : Z) (counter : Z) (outZ1 : option (TPM2B_SUB
    TPMS_ECC_POINT)) (outZ2 : option (TPM2B_SUB TPMS_ECC_POINT)) :
    one_call_of (fun H => Tss2_Sys_ZGen_2Phase_Prepare keyA inQsB inQeB inScheme counter)
      (fun H => Tss2_Sys_ZGen_2Phase_Complete outZ1 outZ2) true
      (fun H arr rsp => Tss2_Sys_ZGen_2Phase keyA arr inQsB inQeB inScheme counter outZ1 outZ2
        rsp).

Lemma one_call_of_run P {R} (C : Host -> out_prog (S:=S) R) s F (H : Host) arr rsp c :
  one_call_of P C s F -> (s = false -> arr = None /\ rsp = None) ->
  run (F H arr rsp) (Some c) = run (one_call (P H) arr rsp (C H)) (Some c).
Proof.
  destruct 1; intros Ns; try done; destruct (Ns eq_refl) as [-> ->]; reflexivity.
Qed.

Lemma one_call_of_untouched P {R} (C : Host -> out_prog (S:=S) R) s F (H : Host) arr rsp :
  one_call_of P C s F -> (s = false -> arr = None /\ rsp = None) ->
  untouched (F H arr rsp) = (untouched (C H), rsp).
Proof.
  destruct 1; intros Ns; try done; destruct (Ns eq_refl) as [-> ->]; reflexivity.
Qed.

End Registry.
