(* ===== verification/SysReach.v ===== *)
(** * Sequences of calls of the System API.

    Any sequence of calls an application makes on one context, over a
    transport that talks to a TPM 2.0, keeps the invariant and follows the
    protocol of the stages. *)

From S2P Require Import Prelude Common MuSpec MuBase MuBaseOk MuStruct MuTpm2b MuTpm2bOk TpmTypes MuTypes MuTypesOk SysCodes Sys SysOk SysCmds SysCompletes SysOneCalls SysCmdsOk SysAuth SysExec SysSafe SysOutOk SysCompletesOk.
Open Scope tss_scope.

Section Reach.
Context {H : Host} {S : Type}.
Implicit Types (c : blob S).

(** ** Sequences of calls *)

(** A [Complete] function, seen as a call that changes the context. *)
Definition drop_outs {R} (P : out_prog (S:=S) R) : sysF S := fun ctx =>
  let* (rval, (ctx, _)) := run P ctx in Ret (rval, ctx).

(** The calls that change a context. *)
Inductive sys_call : sysF S -> Prop :=
| call_abort : sys_call Tss2_Sys_Abort
| call_prepare cc hs ps d e a P : prepare_of cc hs ps d e a P -> sys_call (P H)
| call_auths arr : auths_array arr -> sys_call (Tss2_Sys_SetCmdAuths (Some arr))
| call_async : sys_call Tss2_Sys_ExecuteAsync
| call_finish tmo : sys_call (Tss2_Sys_ExecuteFinish tmo)
| call_complete cc n R (o : outs_spec R) C :
    complete_of cc n o C -> outs_wf o (untouched (C H)) -> sys_call (drop_outs (C H)).

Inductive reachable c : blob S -> Prop :=
| reach_refl : reachable c c
| reach_step f c1 rc c2 :
    reachable c c1 -> sys_call f -> f (Some c1) = Ret (rc, Some c2) -> reachable c c2.

(** The order of the stages. *)
Inductive stage_edge : cmdStates -> cmdStates -> Prop :=
| edge_stay s : stage_edge s s
| edge_abort s : stage_edge s CMD_STAGE_INITIALIZE
| edge_prepare s : can_prepare s = true -> stage_edge s CMD_STAGE_PREPARE
| edge_send : stage_edge CMD_STAGE_PREPARE CMD_STAGE_SEND_COMMAND
| edge_reissue : stage_edge CMD_STAGE_SEND_COMMAND CMD_STAGE_PREPARE
| edge_receive : stage_edge CMD_STAGE_SEND_COMMAND CMD_STAGE_RECEIVE_RESPONSE.

Lemma sys_call_ok f c :
  sys_call f -> sys_inv c ->
  exists rc c', f (Some c) = Ret (rc, Some c') /\ sys_inv c' /\
    stage_edge (previousStage c) (previousStage c').
Proof.
  intros Hf I. destruct Hf as [|cc hs ps d e a P Pr|arr Ar| |tmo|cc n R o C Cf Wo].
  - destruct (Abort_inv c I) as (c'&E&I'&St). do 2 eexists. split; [done|].
    split; [done|rewrite St; constructor].
  - destruct (Prepare_inv _ _ _ _ _ _ _ c Pr I) as (rc&c'&E&I'&Cs). exists rc, c'.
    split_and!; [done|done|]. destruct Cs as [->|[? ->]]; by constructor.
  - destruct (SetCmdAuths_inv arr c Ar I) as (rc&c'&E&I'&St). exists rc, c'.
    split_and!; [done|done|rewrite St; constructor].
  - destruct (ExecuteAsync_inv c I) as (rc&c'&E&I'&Cs). exists rc, c'.
    split_and!; [done|done|]. destruct Cs as [->|[-> ->]]; constructor.
  - destruct (ExecuteFinish_inv tmo c I) as (rc&c'&E&I'&Cs). exists rc, c'.
    split_and!; [done|done|]. destruct Cs as [->|[-> [->| ->]]];
      [apply edge_stay|apply edge_reissue|apply edge_receive].
  - destruct (complete_of_ok _ _ _ _ Cf H) as [Ok _]. destruct (Ok Wo) as [Sf _].
    destruct (Sf c I) as (rc&m&r&E&Hm&_). exists rc, (set_nextData m c). unfold drop_outs.
    rewrite E. split; [done|]. split; [by apply next_inv|constructor].
Qed.

Lemma reachable_inv c c' : sys_inv c -> reachable c c' -> sys_inv c'.
Proof.
  intros I. induction 1 as [|f c1 rc c2 _ IH Hf E]; [done|].
  destruct (sys_call_ok f c1 Hf IH) as (rc'&c''&E'&I'&_). rewrite E in E'. by simplify_eq.
Qed.

End Reach.
