(* ===== verification/SysOneCallOk.v ===== *)
(** * Executing a command that the TPM accepts, and the one-call functions.

    [Execute_success]: the context after a successful response;
    [CommonOneCall] with and without sessions; what the unmarshaling of the
    sessions of a response returns. *)

From S2P Require Import Prelude Common MuSpec MuBase MuBaseOk MuStruct MuTpm2b MuTpm2bOk TpmTypes MuTypes MuTypesOk SysCodes Sys SysOk SysCmds SysCompletes SysOneCalls SysCmdsOk SysAuth SysExec SysSafe SysOutOk SysCompletesOk.
Open Scope tss_scope.

Section Execute.
Context {H : Host} {S : Type}.
Implicit Types (c : blob S).

(** What an accepted response leaves alone. *)
Definition execute_frame c c' : Prop :=
  maxCmdSize c' = maxCmdSize c /\ authsCount c' = authsCount c /\
  authAllowed c' = authAllowed c /\ numResponseHandles c' = numResponseHandles c /\
  rspParamsSize c' = rspParamsSize c.

Lemma Execute_success c n cmd tg hw pw aw x f s' :
  ready c n cmd -> answers c n cmd (rsp_msg tg hw pw aw) x f s' -> good_tag tg = true ->
  bytes_ok hw -> bytes_ok pw -> bytes_ok aw ->
  Zlen (rsp_msg tg hw pw aw) <= maxCmdSize c ->
  rspParamsSize c = sizeof_TPM20_Header_Out + Zlen hw ->
  exists c', Tss2_Sys_Execute (Some c) = Ret (TSS2_RC_SUCCESS, Some c') /\
    tctiContext c' = Some (set_tcti_state s' x) /\ holds_rsp tg hw pw aw c' /\
    execute_frame c c'.
Proof.
  intros [M Ro St R2 Hn Rc] [Ex Hv Ef (g&s1&s2&k&Eg&E1&E2&E3)] Gt Bh Bp Ba Hw Rp.
  set (w := rsp_msg tg hw pw aw) in *.
  set (i := rsp_image tg (Zlen w) TSS2_RC_SUCCESS).
  destruct (rsp_image_ok tg (Zlen w) TSS2_RC_SUCCESS) as [Li Bi]. fold i in Li, Bi.
  pose proof M as [B Hh Hx Hu]. unfold sizeof_TPM20_Header_In in Hh.
  assert (Ew : w = i ++ rsp_body tg hw pw aw).
  { unfold i, w. by rewrite Zlen_rsp_msg. }
  pose proof (Zlen_nonneg (rsp_body tg hw pw aw)).
  assert (Lw : sizeof_TPM20_Header_Out <= Zlen w) by (rewrite Ew, Zlen_app, Li; lia).
  assert (Bw : bytes_ok w).
  { rewrite Ew. apply Forall_app. split; [done|]. unfold rsp_body. case_match;
      rewrite !Forall_app; auto using be_bytes_ok. }
  unfold sizeof_TPM20_Header_Out in *.
  destruct (mem_read_is_Some (cmdBuffer c) 0 10) as [h Rh]; [lia..|].
  destruct (mem_write_is_Some (cmdBuffer c) 0 w) as [b W]; [done|lia|].
  pose proof (mem_write_bytes _ _ _ _ B Bw W) as Bb. pose proof (mem_write_len _ _ _ _ W) as Lb.
  pose proof (mem_read_write _ _ _ _ W) as Rw.
  assert (Ri : mem_read b 0 10 = Some i).
  { rewrite Ew in Rw. apply mem_read_split in Rw as [Rw _]. by rewrite Li in Rw. }
  pose proof (mem_read_len _ _ _ _ Rh) as Lh.
  destruct (mem_write_is_Some b 0 h) as [b2 W2]; [done|lia|].
  unfold Tss2_Sys_Execute, check_ctx, sys_seq.
  rewrite (ExecuteAsync_eq c n cmd h) by (done || lia). rewrite Ex. unfold Tss2_Tcti_Transmit.
  rewrite (proj2 (Z.ltb_ge _ _) Hv), Ef, E1. cbn [Z.eqb TSS2_RC_SUCCESS].
  rewrite (ExecuteFinish_receives _ (set_tcti_state s1 x) g s1 s2 k w b) with (s' := s');
    [|done..|unfold sizeof_TPM20_Header_Out; simpl; lia|done].
  rewrite (finish_response_eq _ tg (Zlen w) TSS2_RC_SUCCESS);
    [|by apply (sys_mem_ext c)|done|exact (good_tag_range tg Gt)
     |change (0 <= Zlen w < 2 ^ 32); lia|done|exact Ri].
  rewrite Gt. ctx_cbn. rewrite (proj2 (Z.ltb_ge (maxCmdSize c) _)) by lia.
  rewrite (finish_code_eq _ b2) by done. ctx_cbn. cbn [responseSize responseCode].
  rewrite (proj2 (Z.ltb_ge (Zlen w) _)) by (unfold sizeof_TPM20_Header_Out; lia).
  cbn [Z.eqb TSS2_RC_SUCCESS orb]. eexists. split; [done|]. split; [done|]. split; [|done].
  split; try done. by apply (sys_mem_ext c).
Qed.

(** The tag of the response in the buffer. *)
Lemma holds_rsp_tag tg hw pw aw c :
  holds_rsp tg hw pw aw c -> exists t, hdr_tag c = Ret t /\ BE_TO_HOST_16 t = tg.
Proof.
  intros Hr. destruct (rsp_parts _ _ _ _ _ Hr) as (R&_). apply rsp_image_parts in R as (R0&_).
  unfold hdr_tag, hdr_read. change (Z.of_nat 2) with 2. rewrite R0. eexists. split; [done|].
  apply value_be_16, good_tag_range, Hr.
Qed.

(** [CommonOneCall] without sessions. *)
Lemma CommonOneCall_plain c n cmd hw pw x f s' :
  ready c n cmd -> answers c n cmd (rsp_msg TPM2_ST_NO_SESSIONS hw pw []) x f s' ->
  bytes_ok hw -> bytes_ok pw ->
  Zlen (rsp_msg TPM2_ST_NO_SESSIONS hw pw []) <= maxCmdSize c ->
  rspParamsSize c = sizeof_TPM20_Header_Out + Zlen hw ->
  exists c', CommonOneCall None (Some c) None = Ret (TSS2_RC_SUCCESS, (Some c', None)) /\
    tctiContext c' = Some (set_tcti_state s' x) /\ holds_rsp TPM2_ST_NO_SESSIONS hw pw [] c'.
Proof.
  intros Rd An Bh Bp Hw Rp.
  destruct (Execute_success c n cmd TPM2_ST_NO_SESSIONS hw pw [] x f s') as (c'&E&Et&Hr&_);
    [done..|]. exists c'. split; [|done]. unfold CommonOneCall. cbn [Z.eqb TSS2_RC_SUCCESS].
  rewrite E. cbn [Z.eqb TSS2_RC_SUCCESS deref]. rewrite (hr_header _ _ _ _ _ Hr).
  cbn [responseCode Z.eqb TSS2_RC_SUCCESS negb]. destruct (holds_rsp_tag _ _ _ _ _ Hr) as (t&->&->).
  reflexivity.
Qed.

End Execute.

(** ** The sessions of a response *)

Definition rsp_auth_wire (a : TPMS_AUTH_RESPONSE) : option bytes :=
  s_wire spec_TPMS_AUTH_RESPONSE a.

(** A session is two sized buffers with a byte between them. *)
Lemma rsp_auth_shape a w :
  s_wf spec_TPMS_AUTH_RESPONSE a -> rsp_auth_wire a = Some w ->
  exists nonce attr hmac, w = be_bytes 2 (Zlen nonce) ++ nonce ++ be_bytes 1 attr
      ++ be_bytes 2 (Zlen hmac) ++ hmac /\ Zlen nonce < 65536 /\ Zlen hmac < 65536.
Proof.
  intros (Wn&_&Wh&_) E. unfold rsp_auth_wire, spec_TPMS_AUTH_RESPONSE in E.
  cbn [s_wire spec_app spec_on spec_int spec_unit] in E.
  apply wire_app_Some in E as (w1&r1&E1&(w2&r2&E2&(w3&r3&E3&E4&->)%wire_app_Some&->)%wire_app_Some&->).
  some_inv. apply wire_2b in E1 as (?&?&?&->&L1); [|done].
  apply wire_2b in E3 as (?&?&?&->&L3); [|done]. rewrite Zlen_app, Zlen_be_bytes in L1, L3.
  set (p1 := take _ _) in *. set (p3 := take _ (buffer (mget TPMS_AUTH_RESPONSE'hmac a))) in *.
  exists p1. eexists. exists p3. rewrite app_nil_r, <-!app_assoc.
  replace (Zlen p1) with (size (mget TPMS_AUTH_RESPONSE'nonce a)) by lia.
  replace (Zlen p3) with (size (mget TPMS_AUTH_RESPONSE'hmac a)) by lia.
  split_and!; [done|lia|lia].
Qed.

Section Auths.
Context {H : Host} {S : Type}.
Implicit Types (c : blob S).

Lemma auths_validate_ok xs : forall c w off i,
  Forall (s_wf spec_TPMS_AUTH_RESPONSE) xs -> wires (map rsp_auth_wire xs) = Some w ->
  mem_read (cmdBuffer c) off (Zlen w) = Some w ->
  off + Zlen w <= responseSize (rsp_header c) -> i + Zlen xs <= authsCount c ->
  auths_validate c (length xs) i off = Ret None.
Proof.
  induction xs as [|x xs IH]; intros c w off i Wf Ew R Hr Hi; [done|].
  inversion Wf as [|?? Wx Wr]; subst. cbn [map wires foldr] in Ew.
  apply wire_app_Some in Ew as (w1&w2&E1&E2&->).
  apply rsp_auth_shape in E1 as (nonce&attr&hmac&->&Ln&Lh); [|done].
  rewrite <-!app_assoc in R. rewrite !Zlen_app, !Zlen_be_bytes in Hr. rewrite Zlen_cons in Hi.
  pose proof (Zlen_nonneg nonce). pose proof (Zlen_nonneg hmac). pose proof (Zlen_nonneg w2).
  pose proof (Zlen_nonneg xs).
  apply mem_read_split in R as [R1 R]. apply mem_read_split in R as [_ R].
  apply mem_read_split in R as [_ R]. apply mem_read_split in R as [R3 R].
  apply mem_read_split in R as [_ R]. rewrite !Zlen_be_bytes in *.
  change (Z.of_nat 2) with 2 in *. change (Z.of_nat 1) with 1 in *.
  cbn [length auths_validate]. unfold hdr_read. change (Z.of_nat 2) with 2.
  rewrite (proj2 (Z.ltb_ge _ _)) by lia. rewrite R1. cbn [access obind].
  rewrite value_be_16 by lia. rewrite !(proj2 (Z.ltb_ge _ _)) by lia.
  rewrite R3. cbn [access obind]. rewrite value_be_16 by lia.
  rewrite (proj2 (Z.ltb_ge _ _)) by lia.
  eapply IH; [done|exact E2|exact R|lia|lia].
Qed.

(** The sessions are stored in the first elements of the array. *)
Lemma auths_unmarshal_ok xs : forall c w off ds,
  sys_mem c -> 0 <= off -> Forall (s_wf spec_TPMS_AUTH_RESPONSE) ds ->
  (length xs <= length ds)%nat ->
  Forall (s_wf spec_TPMS_AUTH_RESPONSE) xs -> wires (map rsp_auth_wire xs) = Some w ->
  mem_read (cmdBuffer c) off (Zlen w) = Some w -> off + Zlen w <= maxCmdSize c ->
  exists ys, auths_unmarshal c (length xs) ds off
      = Ret (TSS2_RC_SUCCESS, ys ++ drop (length xs) ds) /\
    Forall2 (s_eqv spec_TPMS_AUTH_RESPONSE) ys xs.
Proof.
  induction xs as [|x xs IH]; intros c w off ds M Ho Wd L Wf Ew R Hf.
  { exists []. split; [by destruct ds|constructor]. }
  destruct ds as [|d ds]; [simpl in L; lia|]. inversion Wf as [|?? Wx Wr]; subst.
  inversion Wd as [|?? Wd1 Wds]; subst. cbn [map wires foldr] in Ew.
  apply wire_app_Some in Ew as (w1&w2&E1&E2&->). rewrite Zlen_app in Hf.
  apply mem_read_split in R as [R1 R2]. pose proof (Zlen_nonneg w1). pose proof (Zlen_nonneg w2).
  destruct (decodes_codec _ _ _ Tss2_MU_TPMS_AUTH_RESPONSE_ok) as [Re _].
  destruct (Re (cmdBuffer c) (maxCmdSize c) off d x w1) as (d'&E&Wd'&Q);
    [apply M|destruct M; unfold sizeof_TPM20_Header_In in *; lia|done|done|done|done|right; lia
    |by right|].
  destruct (IH c w2 (off + Zlen w1) ds) as (ys&Ey&F); [done|lia|done|simpl in L; lia|done..|lia|].
  exists (d' :: ys). split; [|by constructor]. cbn [length auths_unmarshal]. rewrite E.
  cbn [obind negb Z.eqb TSS2_RC_SUCCESS default from_option id]. by rewrite Ey.
Qed.

(** [Tss2_Sys_GetRspAuths] on a response with the sessions [xs]. *)
Lemma GetRspAuths_ok tg hw pw aw c xs arr :
  holds_rsp tg hw pw aw c -> tg = TPM2_ST_SESSIONS -> authAllowed c = true ->
  Zlen xs = authsCount c -> numResponseHandles c * 4 = Zlen hw ->
  Forall (s_wf spec_TPMS_AUTH_RESPONSE) xs -> wires (map rsp_auth_wire xs) = Some aw ->
  Forall (s_wf spec_TPMS_AUTH_RESPONSE) (rsp_auths arr) ->
  (length xs <= length (rsp_auths arr))%nat ->
  exists ys, Tss2_Sys_GetRspAuths (Some c) (Some arr)
      = Ret (TSS2_RC_SUCCESS, Some (Auth_Response (Zlen xs)
               (ys ++ drop (length xs) (rsp_auths arr)))) /\
    Forall2 (s_eqv spec_TPMS_AUTH_RESPONSE) ys xs.
Proof.
  intros Hr Tg Al Na Nh Wx Ew Wd Ld. destruct (rsp_parts _ _ _ _ _ Hr) as (_&_&_&Hp&Hs).
  destruct (Hs Tg) as (Rs&Ra&Lm). destruct Hr as [M St Gt _ Hf Hd _ Rp].
  subst tg. rewrite Z.eqb_refl in *. pose proof (Zlen_nonneg hw). pose proof (Zlen_nonneg pw).
  pose proof (Zlen_nonneg aw). pose proof (sm_u32 _ M). unfold sizeof_TPM20_Header_Out in *.
  unfold Tss2_Sys_GetRspAuths, stage_is, hdr_read. rewrite St, Al, Hd, Rp.
  cbn [tag responseCode negb Z.eqb TSS2_RC_SUCCESS]. rewrite bool_decide_true by done.
  cbn [negb orb]. rewrite Z.eqb_refl. cbn [negb]. change (Z.of_nat 4) with 4. rewrite Rs.
  cbn [access obind]. rewrite value_be_32 by lia. unfold sizeof_TPM20_Header_Out. rewrite Nh.
  replace (10 + Zlen hw + Zlen pw + 4) with (10 + Zlen hw + 4 + Zlen pw) by lia.
  rewrite <-Na. replace (Z.to_nat (Zlen xs)) with (length xs) by (unfold Zlen; lia).
  rewrite (auths_validate_ok xs c aw) by (done || rewrite ?Hd; simpl; lia). cbn [obind].
  destruct (auths_unmarshal_ok xs c aw (10 + Zlen hw + 4 + Zlen pw) (rsp_auths arr))
    as (ys&->&F); [done|lia|done..|lia|]. cbn [obind]. eauto.
Qed.

End Auths.
