(* ===== verification/SysParam.v ===== *)
(** * Parameter encryption.

    [Tss2_Sys_GetDecryptParam], [Tss2_Sys_SetDecryptParam],
    [Tss2_Sys_GetEncryptParam] and [Tss2_Sys_SetEncryptParam] on a context
    whose first parameter is a sized buffer, and the fact that every command
    that allows the decryption of its first parameter has such a one. *)

From S2P Require Import Prelude Common MuSpec MuBase MuBaseOk MuStruct MuTpm2b MuTpm2bOk TpmTypes MuTypes MuTypesOk SysCodes Sys SysOk SysCmds SysCmdsOk SysAuth.
Open Scope tss_scope.

(** The image of a sized buffer with the contents [p]. *)
Definition sized (p : bytes) : bytes := be_bytes 2 (Zlen p) ++ p.

Lemma Zlen_sized p : Zlen (sized p) = 2 + Zlen p.
Proof. unfold sized. by rewrite Zlen_app, Zlen_be_bytes. Qed.

(** Formats whose images are sized buffers. *)
Class Sized {T} (s : spec T) : Prop :=
  sized_wire : forall x w, s_wf s x -> s_wire s x = Some w ->
    exists p, w = sized p /\ Zlen p < 65536.

#[export] Instance sized_2b cap : Sized (spec_2b cap).
Proof.
  intros x w W E. destruct (wire_2b cap x w W E) as (?&?&?&->&L).
  rewrite Zlen_app, Zlen_be_bytes in L.
  exists (take (Z.to_nat (size x)) (buffer x)). split; [|lia].
  unfold sized. do 2 f_equal. lia.
Qed.

Lemma sized_sub {M} (s : spec M) : SpecOk s -> s_max s < 65536 -> Sized (spec_sub s).
Proof.
  intros O Hm x w [_ W] E. cbn [s_wire spec_sub] in E.
  destruct (s_wire s (smember x)) as [v|] eqn:Ev; [|done]. some_inv.
  exists v. split; [done|]. pose proof (so_max _ _ W Ev). lia.
Qed.

#[export] Instance sized_ECC_POINT : Sized spec_TPM2B_ECC_POINT.
Proof. apply sized_sub; [apply _|by vm_compute]. Qed.
#[export] Instance sized_SENSITIVE : Sized spec_TPM2B_SENSITIVE.
Proof. apply sized_sub; [apply _|by vm_compute]. Qed.
#[export] Instance sized_SENSITIVE_CREATE : Sized spec_TPM2B_SENSITIVE_CREATE.
Proof. apply sized_sub; [apply _|by vm_compute]. Qed.

(** The first parameter of a command is a sized buffer. *)
Definition sized_first (ps : list (option bytes)) : Prop :=
  forall pw, wires ps = Some pw ->
  exists p rest, pw = sized p ++ rest /\ Zlen p < 65536.

Lemma sized_first_wire {T} (s : spec T) x ps :
  Sized s -> src_ok s x -> sized_first (s_wire s x :: ps).
Proof.
  intros Sz [W D] pw E. cbn [wires foldr] in E.
  apply wire_app_Some in E as (w1&w2&E1&E2&->).
  destruct (Sz x w1 W E1) as (p&->&L). eauto.
Qed.

Lemma sized_first_opt {T} (s : spec T) x ps :
  Sized s -> opt_ok s x -> sized_first (opt_wire s x :: ps).
Proof.
  intros Sz O. destruct x as [v|]; [by apply sized_first_wire|]. intros pw E.
  cbn [wires foldr opt_wire] in E. apply wire_app_Some in E as (w1&w2&E1&E2&->). some_inv.
  exists [], w2. unfold sized. rewrite (Zlen_nil (A:=Z)), app_nil_r. done.
Qed.

(** Every command whose first parameter may be decrypted starts with one. *)
Lemma prepare_of_sized {S} cc hs ps e a (P : Host -> sysF S) :
  prepare_of cc hs ps true e a P -> sized_first ps.
Proof.
  remember true as d eqn:Ed. intros Pr.
  destruct Pr; try discriminate Ed;
    first [ apply sized_first_opt; [apply _|assumption]
          | apply sized_first_wire; [apply _|assumption] ].
Qed.

(** A command whose parameters are replaced by as many bytes. *)
Lemma cmd_image_replace cc hw pw pw' b0 b :
  let cp := sizeof_TPM20_Header_In + Zlen hw in
  mem_read b0 0 (sizeof_TPM20_Header_In + Zlen (hw ++ pw)) = Some (cmd_image cc (hw ++ pw)) ->
  Zlen pw' = Zlen pw -> mem_read b 0 cp = mem_read b0 0 cp ->
  mem_read b cp (Zlen pw') = Some pw' ->
  mem_read b 0 (sizeof_TPM20_Header_In + Zlen (hw ++ pw')) = Some (cmd_image cc (hw ++ pw')).
Proof.
  intros cp R E Rh Rp.
  set (h := be_bytes 2 TPM2_ST_NO_SESSIONS ++ be_bytes 4 (cp + Zlen pw) ++ be_bytes 4 cc ++ hw).
  assert (Eq : forall x, Zlen x = Zlen pw -> cmd_image cc (hw ++ x) = h ++ x).
  { intros x Ex. unfold cmd_image, h, cp. rewrite Zlen_app, Ex, Z.add_assoc, !app_assoc. done. }
  assert (Lh : Zlen h = cp).
  { unfold h, cp. rewrite !Zlen_app, !Zlen_be_bytes. unfold sizeof_TPM20_Header_In. lia. }
  rewrite (Eq pw) in R by done. rewrite (Eq pw') by done.
  rewrite !Zlen_app, Z.add_assoc in *. fold cp in R |- *. rewrite <-Lh in R. rewrite <-Zlen_app in R.
  apply mem_read_split in R as [R _]. rewrite Lh in R. apply mem_read_app; [|done].
  by rewrite Rh.
Qed.

Section Param.
Context {H : Host} {S : Type}.
Implicit Types (c : blob S).

(** The command in the context has the parameters [pw], at [cpBuffer]. *)
Record params_at (pw : bytes) c : Prop := ParamsAt {
  pa_mem : sys_mem c;
  pa_layout : laid_out c;
  pa_read : mem_read (cmdBuffer c) (cpBuffer c) (cpBufferUsedSize c) = Some pw;
  pa_stage : previousStage c = CMD_STAGE_PREPARE
}.

Lemma holds_params cc hw pw c : holds_cmd cc hw pw c -> params_at pw c.
Proof.
  intros [M I F Cp Us St]. destruct (cmd_image_parts _ _ _ _ I) as (R2&_&_&Rp).
  rewrite Zlen_app in F. pose proof (Zlen_nonneg hw). pose proof (Zlen_nonneg pw).
  split; [done| |by rewrite Cp, Us|done].
  split; rewrite ?Cp, ?Us; [done|lia..].
Qed.

Lemma GetDecryptParam_sized p rest c s0 b0 :
  params_at (sized p ++ rest) c -> Zlen p < 65536 -> decryptAllowed c = true ->
  Tss2_Sys_GetDecryptParam (Some c) (Some s0) (Some b0)
    = Ret (TSS2_RC_SUCCESS, (Some (Zlen p), Some (cpBuffer c + 2))) /\
  mem_read (cmdBuffer c) (cpBuffer c + 2) (Zlen p) = Some p.
Proof.
  intros [M Lo R St] Lp Da. pose proof (mem_read_len _ _ _ _ R) as L. rewrite <-L in R.
  apply mem_read_split in R as [R _]. unfold sized in R. apply mem_read_split in R as [R1 R2].
  rewrite Zlen_be_bytes in R1, R2. split; [|done].
  unfold Tss2_Sys_GetDecryptParam, stage_is, hdr_read. rewrite St, Da. cbn [negb bool_decide].
  rewrite R1. cbn [access obind].
  rewrite value_be_16 by (pose proof (Zlen_nonneg p); lia). done.
Qed.

(** Replacing the first parameter by one of the same size. *)
Lemma SetDecryptParam_same p q rest c :
  params_at (sized p ++ rest) c -> Zlen p < 65536 -> decryptAllowed c = true ->
  p <> [] -> Zlen q = Zlen p -> bytes_ok q ->
  cpBuffer c + cpBufferUsedSize c + Zlen q <= maxCmdSize c ->
  exists b, Tss2_Sys_SetDecryptParam (Zlen q) (Some q) (Some c)
      = Ret (TSS2_RC_SUCCESS, Some (set_cmdBuffer b c)) /\
    mem_write (cmdBuffer c) (cpBuffer c) (sized q) = Some b.
Proof.
  intros Pa Lp Da Np Lq Bq Hf.
  destruct (GetDecryptParam_sized p rest c 0 0 Pa Lp Da) as [G _].
  destruct Pa as [[B Hh Hm Hu] [Rs Hc Hus He] R St].
  assert (0 < Zlen p).
  { destruct p; [done|]. rewrite Zlen_cons. zlia. }
  apply mem_read_len in R as L. rewrite Zlen_app, Zlen_sized in L.
  pose proof (Zlen_nonneg rest). unfold sizeof_TPM20_Header_In in *.
  destruct (mem_write_is_Some (cmdBuffer c) (cpBuffer c) (be_bytes 2 (Zlen q))) as [b1 W1];
    [lia|rewrite Zlen_be_bytes; lia|].
  apply mem_write_len in W1 as L1.
  destruct (mem_write_is_Some b1 (cpBuffer c + 2) q) as [b2 W2]; [lia..|].
  exists b2. split.
  - unfold Tss2_Sys_SetDecryptParam, stage_is. rewrite St, Da. cbn [negb bool_decide].
    rewrite (proj2 (Z.ltb_ge _ _)) by lia. unfold hdr_commandSize, hdr_read.
    change (Z.of_nat 4) with 4. rewrite Rs.
    cbn [access obind]. rewrite value_be_32 by lia.
    rewrite wrap64_small by (unfold size_max; lia). rewrite (proj2 (Z.ltb_ge _ _)) by lia.
    rewrite G. cbn [obind negb Z.eqb TSS2_RC_SUCCESS default].
    cbn [from_option id]. rewrite (proj2 (Z.eqb_neq (Zlen p) 0)) by lia. cbn [andb].
    rewrite Lq, Z.eqb_refl. cbn [negb]. rewrite !wrap_small by lia.
    unfold hdr_write. rewrite image_be_16 by lia. rewrite <-Lq, W1. cbn [access obind]. ctx_cbn.
    rewrite (proj2 (Z.ltb_ge _ _)) by lia.
    rewrite mem_read_all. cbn [access obind]. unfold buf_store. ctx_cbn. rewrite W2. cbn [access obind].
    by destruct c.
  - unfold sized. eapply mem_write_app; [done|]. by rewrite Zlen_be_bytes.
Qed.

(** The writes of [Tss2_Sys_SetDecryptParam] when NULL was passed for the
    parameter. *)
Lemma insert_param b cp used q rest :
  bytes_ok b -> 10 <= cp -> used = 2 + Zlen rest -> 0 < Zlen q -> bytes_ok q ->
  mem_read b (cp + 2) (Zlen rest) = Some rest ->
  cp + used + Zlen q <= Zlen b -> cp + used + 2 + Zlen rest <= Zlen b ->
  let n := be_bytes 2 (Zlen q) in
  exists b1 b2 b3 b4 b5,
    mem_write b (cp + used + 2) rest = Some b1 /\ mem_write b1 cp n = Some b2 /\
    mem_read b2 2 4 = mem_read b 2 4 /\
    mem_write b2 2 (be_bytes 4 (cp + used + Zlen q)) = Some b3 /\
    mem_write b3 cp n = Some b4 /\ mem_write b4 (cp + 2) q = Some b5 /\
    bytes_ok b5 /\ Zlen b5 = Zlen b /\
    mem_read b5 2 4 = Some (be_bytes 4 (cp + used + Zlen q)) /\
    mem_read b5 cp (2 + Zlen q) = Some (sized q) /\
    (Zlen q <= used -> mem_read b5 (cp + used + 2) (Zlen rest) = Some rest).
Proof.
  intros B Hc -> Hq Bq Rr Hf Hr n. pose proof (Zlen_nonneg rest).
  assert (Ln : Zlen n = 2) by apply Zlen_be_bytes.
  set (z := be_bytes 4 _). assert (Lz : Zlen z = 4) by apply Zlen_be_bytes.
  assert (Br : bytes_ok rest) by exact (mem_read_bytes _ _ _ _ B Rr).
  destruct (mem_write_is_Some b (cp + (2 + Zlen rest) + 2) rest) as [b1 W1]; [lia..|].
  apply mem_write_len in W1 as L1.
  destruct (mem_write_is_Some b1 cp n) as [b2 W2]; [lia..|]. apply mem_write_len in W2 as L2.
  destruct (mem_write_is_Some b2 2 z) as [b3 W3]; [lia..|]. apply mem_write_len in W3 as L3.
  destruct (mem_write_is_Some b3 cp n) as [b4 W4]; [lia..|]. apply mem_write_len in W4 as L4.
  destruct (mem_write_is_Some b4 (cp + 2) q) as [b5 W5]; [lia..|].
  apply mem_write_len in W5 as L5.
  exists b1, b2, b3, b4, b5. split_and!; try done; try lia.
  - by rewrite (mem_read_write_out _ _ _ _ _ _ W2), (mem_read_write_out _ _ _ _ _ _ W1) by lia.
  - eapply mem_write_bytes, W5; [|done]. eapply mem_write_bytes, W4; [|apply be_bytes_ok].
    eapply mem_write_bytes, W3; [|apply be_bytes_ok].
    eapply mem_write_bytes, W2; [|apply be_bytes_ok]. by eapply mem_write_bytes, W1.
  - rewrite (mem_read_write_out _ _ _ _ _ _ W5), (mem_read_write_out _ _ _ _ _ _ W4) by lia.
    rewrite <-Lz. exact (mem_read_write _ _ _ _ W3).
  - rewrite <-Zlen_sized. apply (mem_read_write b3). unfold sized.
    eapply mem_write_app; [exact W4|]. by rewrite Zlen_be_bytes.
  - intros Hu. rewrite (mem_read_write_out _ _ _ _ _ _ W5), (mem_read_write_out _ _ _ _ _ _ W4),
      (mem_read_write_out _ _ _ _ _ _ W3), (mem_read_write_out _ _ _ _ _ _ W2) by lia.
    exact (mem_read_write _ _ _ _ W1).
Qed.

(** Storing a parameter where NULL was passed: the size field and the
    parameter are written at [cpBuffer], the other parameters are moved
    [cpBufferUsedSize] bytes up, and the command grows by the size of the new
    parameter. *)
Lemma SetDecryptParam_null q rest c :
  params_at (sized [] ++ rest) c -> decryptAllowed c = true -> decryptNull c = true ->
  q <> [] -> Zlen q < 65536 -> bytes_ok q ->
  let cp := cpBuffer c in let used := cpBufferUsedSize c in
  cp + used + Zlen q <= maxCmdSize c -> cp + used + 2 + Zlen rest <= maxCmdSize c ->
  exists b, Tss2_Sys_SetDecryptParam (Zlen q) (Some q) (Some c)
      = Ret (TSS2_RC_SUCCESS, Some (set_cmdBuffer b (set_cpBufferUsedSize (used + Zlen q) c))) /\
    bytes_ok b /\ Zlen b = Zlen (cmdBuffer c) /\
    mem_read b 2 4 = Some (be_bytes 4 (cp + used + Zlen q)) /\
    mem_read b cp (2 + Zlen q) = Some (sized q) /\
    (Zlen q <= used -> mem_read b (cp + used + 2) (Zlen rest) = Some rest).
Proof.
  intros Pa Da Dn Nq Lq Bq cp used Hf Hr.
  destruct (GetDecryptParam_sized [] rest c 0 0 Pa ltac:(done) Da) as [G _].
  destruct Pa as [[B Hh Hm Hu] [Rs Hc Hus He] R St]. fold cp used in R, Rs, Hc, Hus, He, G.
  apply mem_read_len in R as L. rewrite <-L in R. apply mem_read_split in R as [_ Rr].
  rewrite Zlen_app, Zlen_sized in L. rewrite Zlen_sized, (Zlen_nil (A:=Z)) in *.
  change (2 + 0) with 2 in *.
  assert (0 < Zlen q). { destruct q; [done|]. rewrite Zlen_cons. zlia. }
  pose proof (Zlen_nonneg rest). unfold sizeof_TPM20_Header_In in *.
  destruct (insert_param (cmdBuffer c) cp used q rest) as
    (b1&b2&b3&b4&b5&W1&W2&E2&W3&W4&W5&B5&L5&Rz&Rp&Rt); [done|lia|lia|lia|done|done|lia|lia|].
  exists b5. split_and!; try done.
  unfold Tss2_Sys_SetDecryptParam, stage_is. rewrite St, Da. cbn [negb bool_decide].
  rewrite (proj2 (Z.ltb_ge (Zlen q) 1)) by lia. unfold hdr_commandSize, hdr_read.
  change (Z.of_nat 4) with 4. rewrite Rs. cbn [access obind]. rewrite value_be_32 by lia.
  rewrite wrap64_small by (unfold size_max; lia). rewrite (proj2 (Z.ltb_ge _ _)) by lia.
  rewrite G. cbn [obind negb Z.eqb TSS2_RC_SUCCESS default from_option id]. rewrite Dn.
  cbn [andb]. fold cp used. rewrite wrap_small by lia.
  replace (used - 2) with (Zlen rest) by lia.
  rewrite (proj2 (Z.ltb_ge _ _)) by lia. unfold buf_move. rewrite Rr. cbn [access obind].
  rewrite W1. cbn [access obind]. ctx_cbn. rewrite !wrap_small by lia.
  unfold hdr_write. ctx_cbn. rewrite image_be_16 by lia. fold cp. rewrite W2.
  cbn [access obind]. ctx_cbn. rewrite E2, Rs. cbn [access obind]. rewrite value_be_32 by lia.
  rewrite wrap_small by lia. unfold set_hdr_commandSize, hdr_write. rewrite image_be_32 by lia.
  ctx_cbn. rewrite W3. cbn [access obind]. ctx_cbn. fold cp. rewrite W4. cbn [access obind].
  ctx_cbn. rewrite (proj2 (Z.ltb_ge _ _)) by lia. rewrite mem_read_all. cbn [access obind].
  unfold buf_store. ctx_cbn. rewrite W5. by destruct c.
Qed.

(** ** The first response parameter *)

Definition rsp_param_offset c : Z := sizeof_TPM20_Header_Out + numResponseHandles c * 4 + 4.

(** The response in the context has sessions and the first parameter [p]. *)
Record rsp_param (p : bytes) c : Prop := RspParam {
  rp_mem : sys_mem c;
  rp_allowed : encryptAllowed c = true;
  rp_stage : previousStage c = CMD_STAGE_RECEIVE_RESPONSE;
  rp_tag : mem_read (cmdBuffer c) 0 2 = Some (be_bytes 2 TPM2_ST_SESSIONS);
  rp_handles : 0 <= numResponseHandles c;
  rp_read : mem_read (cmdBuffer c) (rsp_param_offset c) (2 + Zlen p) = Some (sized p);
  rp_len : Zlen p < 65536;
  rp_end : rsp_param_offset c + 2 + Zlen p <= maxCmdSize c
}.

Lemma GetEncryptParam_sized p c s0 b0 :
  rsp_param p c ->
  Tss2_Sys_GetEncryptParam (Some c) (Some s0) (Some b0)
    = Ret (TSS2_RC_SUCCESS, (Some (Zlen p), Some (rsp_param_offset c + 2))) /\
  mem_read (cmdBuffer c) (rsp_param_offset c + 2) (Zlen p) = Some p.
Proof.
  intros [M Al St Tg Hn R Lp He]. rewrite <-Zlen_sized in R. unfold sized in R.
  apply mem_read_split in R as [R1 R2]. rewrite Zlen_be_bytes in R1, R2. split; [|done].
  unfold Tss2_Sys_GetEncryptParam, stage_is, hdr_tag, hdr_read. rewrite Al, St.
  cbn [negb bool_decide]. change (Z.of_nat 2) with 2 in *. rewrite Tg. cbn [access obind].
  rewrite value_be_16 by done. cbn [Z.eqb TPM2_ST_SESSIONS TPM2_ST_NO_SESSIONS Pos.eqb].
  fold (rsp_param_offset c). rewrite R1. cbn [access obind].
  rewrite value_be_16 by (pose proof (Zlen_nonneg p); lia). done.
Qed.

(** Only a parameter of the same size is accepted, and it replaces the one
    in the response. *)
Lemma SetEncryptParam_eq p q c :
  rsp_param p c -> bytes_ok q ->
  (Zlen q <> Zlen p ->
     Tss2_Sys_SetEncryptParam (Zlen q) (Some q) (Some c) = Ret (TSS2_SYS_RC_BAD_SIZE, Some c)) /\
  (Zlen q = Zlen p -> exists b,
     Tss2_Sys_SetEncryptParam (Zlen q) (Some q) (Some c)
       = Ret (TSS2_RC_SUCCESS, Some (set_cmdBuffer b c)) /\
     mem_write (cmdBuffer c) (rsp_param_offset c + 2) q = Some b).
Proof.
  intros Rp Bq. destruct (GetEncryptParam_sized p c 0 0 Rp) as [G _].
  unfold Tss2_Sys_SetEncryptParam. rewrite G.
  cbn [obind negb Z.eqb TSS2_RC_SUCCESS default from_option id].
  destruct Rp as [[B Hh Hm Hu] _ _ _ Hn _ Lp He]. unfold rsp_param_offset in He.
  unfold sizeof_TPM20_Header_Out in *. pose proof (Zlen_nonneg p). split; intros E.
  - by rewrite (proj2 (Z.eqb_neq _ _)).
  - rewrite E, Z.eqb_refl. cbn [negb]. rewrite (proj2 (Z.ltb_ge _ _)) by (unfold rsp_param_offset, sizeof_TPM20_Header_Out; lia).
    rewrite <-E, mem_read_all. cbn [access obind].
    destruct (mem_write_is_Some (cmdBuffer c) (rsp_param_offset c + 2) q) as [b W];
      [unfold rsp_param_offset, sizeof_TPM20_Header_Out; lia..|].
    exists b. split; [|done]. unfold buf_store. by rewrite W.
Qed.

Lemma rsp_param_write p q c b :
  rsp_param p c -> bytes_ok q -> Zlen q = Zlen p ->
  mem_write (cmdBuffer c) (rsp_param_offset c + 2) q = Some b -> rsp_param q (set_cmdBuffer b c).
Proof.
  intros [M Al St Tg Hn R Lp He] Bq E W. apply mem_write_len in W as L.
  assert (10 <= rsp_param_offset c) by (unfold rsp_param_offset, sizeof_TPM20_Header_Out; lia).
  split; try done; rewrite ?E; try done.
  - apply (sys_mem_ext c); try done. exact (mem_write_bytes _ _ _ _ (sm_bytes _ M) Bq W).
  - ctx_cbn. rewrite (mem_read_write_out _ _ _ _ _ _ W) by lia. done.
  - ctx_cbn. unfold sized in *. rewrite <-E. apply mem_read_app.
    + rewrite <-Zlen_sized in R. unfold sized in R. apply mem_read_split in R as [R _].
      rewrite Zlen_be_bytes in R. change (rsp_param_offset (set_cmdBuffer b c)) with (rsp_param_offset c).
      rewrite (mem_read_write_out _ _ _ _ _ _ W), E by (simpl; lia). exact R.
    + exact (mem_read_write _ _ _ _ W).
Qed.

(** [params_at] after a parameter of the same size was stored. *)
Lemma params_at_replace p q rest c b :
  params_at (sized p ++ rest) c -> Zlen q = Zlen p -> bytes_ok q ->
  mem_write (cmdBuffer c) (cpBuffer c) (sized q) = Some b ->
  mem_read b (cpBuffer c) (cpBufferUsedSize c) = Some (sized q ++ rest) /\
  mem_read b 0 (cpBuffer c) = mem_read (cmdBuffer c) 0 (cpBuffer c).
Proof.
  intros [M Lo R St] E Bq W. apply mem_read_len in R as L. rewrite <-L in R |- *.
  apply mem_read_split in R as [R1 R2]. rewrite Zlen_app, !Zlen_sized, <-E in *.
  rewrite <-Zlen_sized in *. split.
  - apply mem_read_app; [exact (mem_read_write _ _ _ _ W)|].
    rewrite (mem_read_write_out _ _ _ _ _ _ W) by lia. done.
  - apply (mem_read_write_out _ _ _ _ _ _ W). lia.
Qed.

End Param.
