(* ===== verification/SysProps.v ===== *)
(** * Properties of the System API.

    The statements quantify over the commands listed in [prepare_of], over
    the transport behind the context and over the byte order of the host. *)

From S2P Require Import Prelude Common MuSpec MuBase MuBaseOk MuStruct MuTpm2b MuTpm2bOk TpmTypes MuTypes MuTypesOk SysCodes Sys SysOk SysCmds SysCompletes SysOneCalls SysCmdsOk SysAuth SysExec SysSafe SysOutOk SysCompletesOk SysReach SysParam.
Open Scope tss_scope.

(** ** Shared facts *)

(** The handle area. *)
Definition handles_image (hs : list Z) : bytes := concat (map (be_bytes 4) hs).

Lemma Zlen_handles hs : Zlen (handles_image hs) = Zlen hs * 4.
Proof.
  unfold handles_image. induction hs as [|h hs IH]; [done|].
  cbn [map concat]. rewrite Zlen_app, IH, Zlen_be_bytes, Zlen_cons. lia.
Qed.

Lemma wires_handles_app hs ps :
  wires (map handle_wire hs ++ ps) = wire_app (Some (handles_image hs)) (wires ps).
Proof.
  induction hs as [|h hs IH].
  - simpl. by destruct (wires ps).
  - cbn [map app wires foldr]. unfold wires in IH. rewrite IH. unfold handles_image, wires.
    cbn [map concat]. destruct (foldr wire_app (Some []) ps); [|done]. simpl.
    by rewrite app_assoc.
Qed.

Lemma prepared_holds {S} cc hs ps d e a w pw (c c' : blob S) :
  prepared cc (Zlen hs) w d e a c c' -> sys_mem c' -> wires ps = Some pw ->
  wires (map handle_wire hs ++ ps) = Some w -> holds_cmd cc (handles_image hs) pw c'.
Proof.
  intros [Im Fi Nx Pc Pu Pn Ps Pcc Pnr Pr Pf] M Ep. rewrite wires_handles_app, Ep. simpl.
  intros E. some_inv. split; try done; rewrite ?Zlen_handles; [done|].
  rewrite Pu, Zlen_app, Zlen_handles. lia.
Qed.

(** A small context, for the examples. *)
Definition fresh_context {S} (t : TSS2_TCTI_CONTEXT S) (n : nat) : blob S :=
  Blob (Some t) (replicate n 0) (Z.of_nat n) [] (Header_Out 0 0 0) 0 0 0 0
    CMD_STAGE_INITIALIZE 0 0 false false false false 0.

(** A transport that records what it is given and answers every command
    with the response code [rc]. *)
Definition answer (rc : Z) : TSS2_TCTI_CONTEXT (list bytes) :=
  Tcti 1 (Some (fun (s : list bytes) _ command => (TSS2_RC_SUCCESS, command :: s)))
    (Some (fun (s : list bytes) n (response : bool) _ =>
       if response then
         if n <? 10 then (TSS2_TCTI_RC_INSUFFICIENT_BUFFER, (10, ([], s)))
         else (TSS2_RC_SUCCESS, (10, (rsp_image TPM2_ST_NO_SESSIONS 10 rc, s)))
       else (TSS2_RC_SUCCESS, (10, ([], s)))))
    [].

Lemma answer_ok rc : in_range UINT32 rc -> Tpm2Transport (answer rc).
Proof.
  intros Ic.
  assert (L : Zlen (rsp_image TPM2_ST_NO_SESSIONS 10 rc) = 10).
  { unfold rsp_image. by rewrite !Zlen_app, !Zlen_be_bytes. }
  split; [split|..]; cbn [answer tcti_receive]; intros f s n; intros; some_inv; simpl in *;
    repeat case_test; simplify_eq; try done.
  - split; [|lia]. unfold rsp_image. rewrite !Forall_app. auto using be_bytes_ok.
  - exists TPM2_ST_NO_SESSIONS, rc, []. rewrite L, app_nil_r. done.
Qed.

(** Closes the conditions on closed contexts and arguments. *)
Ltac sys_closed :=
  match goal with
  | |- sys_mem _ => split; [by repeat constructor|vm_compute; congruence..]
  | |- src_ok (spec_int _) _ => by repeat split
  | _ => first [reflexivity | vm_compute; congruence | vm_compute; split; congruence]
  end.

(** ** Preparing *)

(** C7: every [Tss2_Sys_X_Prepare] function, called in a stage that allows
    it, returns success exactly when its arguments have a wire image that
    fits in the context; the buffer then starts with the command: tag without
    sessions, total size, command code, handles and parameters in this order;
    [cpBuffer] points to the parameters, just after the handles, and the
    context is ready to be sent.  When only room is missing the code is
    [TSS2_MU_RC_INSUFFICIENT_BUFFER]; a failing call leaves the stage. *)
Theorem sys_prepare {S} (H : Host) cc hs ps d e a P (c : blob S) :
  prepare_of cc hs ps d e a P -> sys_mem c -> can_prepare (previousStage c) = true ->
  exists rc c', P H (Some c) = Ret (rc, Some c') /\
    (forall w, wires (map handle_wire hs ++ ps) = Some w ->
       sizeof_TPM20_Header_In + Zlen w <= maxCmdSize c ->
       rc = TSS2_RC_SUCCESS /\
       mem_read (cmdBuffer c') 0 (sizeof_TPM20_Header_In + Zlen w) = Some (cmd_image cc w) /\
       cpBuffer c' = sizeof_TPM20_Header_In + Zlen hs * 4 /\
       cpBufferUsedSize c' = Zlen w - Zlen hs * 4 /\
       previousStage c' = CMD_STAGE_PREPARE /\
       decryptAllowed c' = d /\ encryptAllowed c' = e /\ authAllowed c' = a) /\
    (forall w, wires (map handle_wire hs ++ ps) = Some w ->
       maxCmdSize c < sizeof_TPM20_Header_In + Zlen w ->
       rc = TSS2_MU_RC_INSUFFICIENT_BUFFER /\ previousStage c' = previousStage c) /\
    (wires (map handle_wire hs ++ ps) = None ->
       rc <> TSS2_RC_SUCCESS /\ previousStage c' = previousStage c).
Proof.
  intros Pr M St. destruct (prepare_of_ok _ _ _ _ _ _ _ Pr H) as [_ O].
  destruct (O c M) as (rc&c'&E&_&_&_&Good). exists rc, c'. split; [done|].
  destruct (Good St) as [(w&Ew&Fi&->&[])|(Hr&Es&_&_&_&_&_&_&Why)].
  - rewrite Ew. split_and!; [|intros w' E' ?; some_inv; lia|done].
    intros w' E' _. some_inv. unpack. by split_and!.
  - split_and!; [| |done].
    + intros w Ew Fi. destruct Why as [?|(w'&Ew'&_&?)]; [congruence|].
      rewrite Ew in Ew'. some_inv. lia.
    + intros w Ew Fi. destruct Why as [?|(w'&Ew'&->&?)]; [congruence|done].
Qed.

(** [sys_prepare] on [Tss2_Sys_NV_Read_Prepare], with two handles. *)
Lemma sys_prepare_witness :
  exists rc c', Tss2_Sys_NV_Read_Prepare (H:=little_endian_host) 0x40000001 0x01500015 32 0
                  (Some (fresh_context (answer 0) 64)) = Ret (rc, Some c') /\
    (forall w, wires [handle_wire 0x40000001; handle_wire 0x01500015;
                      s_wire (spec_int UINT16) 32; s_wire (spec_int UINT16) 0] = Some w ->
       10 + Zlen w <= 64 ->
       rc = TSS2_RC_SUCCESS /\
       mem_read (cmdBuffer c') 0 (10 + Zlen w) = Some (cmd_image TPM2_CC_NV_Read w) /\
       cpBuffer c' = 18 /\ cpBufferUsedSize c' = Zlen w - 8 /\
       previousStage c' = CMD_STAGE_PREPARE /\
       decryptAllowed c' = false /\ encryptAllowed c' = true /\ authAllowed c' = true).
Proof.
  destruct (sys_prepare little_endian_host _ _ _ _ _ _ _ (fresh_context (answer 0) 64)
    (sys_NV_Read 0x40000001 0x01500015 32 0 ltac:(sys_closed) ltac:(sys_closed)
       ltac:(sys_closed) ltac:(sys_closed))) as (rc&c'&E&Ok&_); [sys_closed|reflexivity|].
  exists rc, c'. split; [exact E|]. intros w Ew Fi. destruct (Ok w Ew Fi) as (?&?&?&?&?).
  unpack. by split_and!.
Defined.

(** A [Prepare] function called with a NULL context, or while a command
    is with the TPM, returns the documented code and does not touch the
    buffer, the header of the command that was sent or the stage. *)
Theorem sys_prepare_guards {S} (H : Host) cc hs ps d e a P (c : blob S) :
  prepare_of cc hs ps d e a P -> sys_mem c -> previousStage c = CMD_STAGE_SEND_COMMAND ->
  P H None = Ret (TSS2_SYS_RC_BAD_REFERENCE, None) /\
  exists c', P H (Some c) = Ret (TSS2_SYS_RC_BAD_SEQUENCE, Some c') /\
    cmdBuffer c' = cmdBuffer c /\ cmd_header c' = cmd_header c /\
    previousStage c' = CMD_STAGE_SEND_COMMAND /\ tctiContext c' = tctiContext c.
Proof.
  intros Pr M St. destruct (prepare_of_ok _ _ _ _ _ _ _ Pr H) as [N O]. split; [done|].
  destruct (O c M) as (rc&c'&E&_&_&Bad&_). destruct Bad as [-> ->]; [by rewrite St|].
  eexists. split; [done|]. by rewrite <-St.
Qed.

Lemma sys_prepare_guards_witness :
  let c := set_previousStage CMD_STAGE_SEND_COMMAND (fresh_context (answer 0) 64) in
  Tss2_Sys_Clear_Prepare (H:=big_endian_host) 0x4000000C None
    = Ret (TSS2_SYS_RC_BAD_REFERENCE, @None (blob (list bytes))) /\
  exists c', Tss2_Sys_Clear_Prepare (H:=big_endian_host) 0x4000000C (Some c)
    = Ret (TSS2_SYS_RC_BAD_SEQUENCE, Some c') /\
    cmdBuffer c' = cmdBuffer c /\ cmd_header c' = cmd_header c /\
    previousStage c' = CMD_STAGE_SEND_COMMAND /\ tctiContext c' = tctiContext c.
Proof.
  intros c. apply (sys_prepare_guards big_endian_host _ _ _ _ _ _ _ c
    (sys_Clear 0x4000000C ltac:(sys_closed))); [sys_closed|reflexivity].
Defined.

(** ** Sessions *)

(** on a prepared command, [Tss2_Sys_SetCmdAuths] inserts the size and
    the images of the sessions between the handles and the parameters, sets
    the tag and the total size, and moves [cpBuffer] along; the parameters are
    not changed.  When the result does not fit, it returns
    [TSS2_SYS_RC_INSUFFICIENT_CONTEXT] and only the tag in the buffer and the
    number of sessions have changed. *)
Theorem sys_set_cmd_auths {S} {H : Host} cc hw pw arr aw (c : blob S) :
  holds_cmd cc hw pw c -> auths_arg arr aw -> authAllowed c = true ->
  maxCmdSize c <= 2 ^ 31 ->
  exists rc c', Tss2_Sys_SetCmdAuths (Some arr) (Some c) = Ret (rc, Some c') /\
    let n := sizeof_TPM20_Header_In + Zlen hw + 4 + Zlen aw + Zlen pw in
    (n <= maxCmdSize c ->
       rc = TSS2_RC_SUCCESS /\
       mem_read (cmdBuffer c') 0 n = Some (cmd_image_auth cc hw aw pw) /\
       cpBuffer c' = sizeof_TPM20_Header_In + Zlen hw + 4 + Zlen aw /\
       cpBufferUsedSize c' = Zlen pw /\ authsCount c' = cmd_count arr /\
       previousStage c' = CMD_STAGE_PREPARE) /\
    (maxCmdSize c < n ->
       rc = TSS2_SYS_RC_INSUFFICIENT_CONTEXT /\
       exists b, mem_write (cmdBuffer c) 0 (be_bytes 2 TPM2_ST_SESSIONS) = Some b /\
         c' = set_cmdBuffer b (set_authsCount 0 c)).
Proof.
  intros Hc A Au Hm. pose proof Hc as [M Im Fi Cp Us St]. destruct M as [B Hh Hx Hu].
  destruct (mem_write_is_Some (cmdBuffer c) 0 (be_bytes 2 TPM2_ST_SESSIONS)) as [b W];
    [done|unfold sizeof_TPM20_Header_In in Hh; zlia|].
  pose proof (SetCmdAuths_start cc hw pw arr aw c b Hc A Au Hm W) as Eq. cbv zeta in *.
  destruct (Z.lt_ge_cases (maxCmdSize c)
    (sizeof_TPM20_Header_In + Zlen hw + 4 + Zlen aw + Zlen pw)) as [L|L].
  - rewrite Eq, (proj2 (Z.ltb_lt _ _) L). do 2 eexists. split; [done|]. split; [lia|]. eauto.
  - destruct (SetCmdAuths_fits cc hw pw arr aw c) as (b'&E&_&_&R); [done..|].
    rewrite E. do 2 eexists. split; [done|]. split; [|lia]. intros _. simpl.
    split_and!; try done. rewrite Cp. lia.
Qed.

(** One password session: handle [TPM2_RS_PW], no nonce, password "a". *)
Definition password_auth : TPMS_AUTH_COMMAND :=
  Mk_TPMS_AUTH_COMMAND 0x40000009 (zero_2b 64) 1 (MkTPM2B 1 (97 :: replicate 63 0)).
Definition password_array : TSS2L_SYS_AUTH_COMMAND :=
  Auth_Command 1 [password_auth; zero_TPMS_AUTH_COMMAND; zero_TPMS_AUTH_COMMAND].
Definition password_area : bytes := [64; 0; 0; 9; 0; 0; 1; 0; 1; 97].

Lemma password_wf : s_wf spec_TPMS_AUTH_COMMAND password_auth.
Proof.
  split; [by vm_compute|]. split; [split; [reflexivity|split; [by apply Forall_replicate|done]]|].
  split; [done|]. split; [|done]. split; [reflexivity|]. split; [|done].
  constructor; [done|by apply Forall_replicate].
Qed.

Lemma password_array_ok : auths_arg password_array password_area.
Proof.
  split; [done|done| |by vm_compute].
  constructor; [exact password_wf|].
  do 2 (constructor; [exact zero_TPMS_AUTH_COMMAND_wf|]). constructor.
Qed.

(** The context that holds the prepared command [TPM2_Clear]. *)
Definition clear_prepared : blob (list bytes) :=
  match Tss2_Sys_Clear_Prepare (H:=little_endian_host) 0x4000000C
          (Some (fresh_context (answer 0x922) 64)) with
  | Ret (_, Some c) => c
  | _ => fresh_context (answer 0x922) 64
  end.

Lemma clear_prepared_holds :
  holds_cmd TPM2_CC_Clear [64; 0; 0; 12] [] clear_prepared.
Proof.
  split; try by vm_compute. split; [|by vm_compute..].
  apply (bool_decide_unpack _). by vm_compute.
Qed.

Lemma sys_set_cmd_auths_witness :
  exists rc c', Tss2_Sys_SetCmdAuths (H:=little_endian_host) (Some password_array)
                  (Some clear_prepared) = Ret (rc, Some c') /\
    (28 <= maxCmdSize clear_prepared ->
       rc = TSS2_RC_SUCCESS /\
       mem_read (cmdBuffer c') 0 28
         = Some (cmd_image_auth TPM2_CC_Clear [64; 0; 0; 12] password_area []) /\
       cpBuffer c' = 28 /\ cpBufferUsedSize c' = 0 /\ authsCount c' = 1 /\
       previousStage c' = CMD_STAGE_PREPARE).
Proof.
  destruct (sys_set_cmd_auths (H:=little_endian_host) TPM2_CC_Clear [64; 0; 0; 12] []
    password_array password_area clear_prepared clear_prepared_holds password_array_ok)
    as (rc&c'&E&Ok&_); [by vm_compute|by vm_compute|].
  exists rc, c'. split; [exact E|exact Ok].
Defined.

(** ** Parameter encryption *)

(** after preparing any command that allows its first parameter to be
    decrypted, [Tss2_Sys_GetDecryptParam] returns the size and the address of
    the contents of that parameter, and [Tss2_Sys_SetDecryptParam] with as many
    bytes, given the room it asks for, makes the buffer hold the command with
    these bytes in place of the contents. *)
Theorem sys_decrypt_param {S} (H : Host) cc hs ps e a P pw s0 b0 (c : blob S) :
  prepare_of cc hs ps true e a P -> wires ps = Some pw ->
  sys_mem c -> can_prepare (previousStage c) = true ->
  sizeof_TPM20_Header_In + Zlen hs * 4 + Zlen pw <= maxCmdSize c ->
  exists c1 p rest o, P H (Some c) = Ret (TSS2_RC_SUCCESS, Some c1) /\
    pw = be_bytes 2 (Zlen p) ++ p ++ rest /\
    Tss2_Sys_GetDecryptParam (Some c1) (Some s0) (Some b0)
      = Ret (TSS2_RC_SUCCESS, (Some (Zlen p), Some o)) /\
    mem_read (cmdBuffer c1) o (Zlen p) = Some p /\
    forall q, bytes_ok q -> Zlen q = Zlen p -> p <> [] ->
      sizeof_TPM20_Header_In + Zlen hs * 4 + Zlen pw + Zlen q <= maxCmdSize c ->
      let w := handles_image hs ++ be_bytes 2 (Zlen q) ++ q ++ rest in
      exists c2, Tss2_Sys_SetDecryptParam (Zlen q) (Some q) (Some c1)
          = Ret (TSS2_RC_SUCCESS, Some c2) /\
        mem_read (cmdBuffer c2) 0 (sizeof_TPM20_Header_In + Zlen w) = Some (cmd_image cc w).
Proof.
  intros Pr Ep M St Hf. destruct (prepare_of_ok _ _ _ _ _ _ _ Pr H) as [_ O].
  destruct (O c M) as (rc&c1&E1&M1&(_&Fm&_)&_&Good).
  assert (Ew : wires (map handle_wire hs ++ ps) = Some (handles_image hs ++ pw)).
  { by rewrite wires_handles_app, Ep. }
  destruct (Good St) as [(w&Ew'&_&->&Pd)|(_&_&_&_&_&_&_&_&[?|(w&Ew'&_&?)])]; [|congruence|].
  2:{ rewrite Ew in Ew'. some_inv. rewrite Zlen_app, Zlen_handles in *. lia. }
  rewrite Ew in Ew'. some_inv. destruct (pd_flags _ _ _ _ _ _ _ _ Pd) as (Da&_&_).
  pose proof (prepared_holds _ _ _ _ _ _ _ _ _ _ Pd M1 Ep Ew) as Hc.
  destruct (prepare_of_sized _ _ _ _ _ _ Pr _ Ep) as (p&rest&->&Lp).
  pose proof (holds_params _ _ _ _ Hc) as Pa.
  destruct (GetDecryptParam_sized (H:=H) p rest c1 s0 b0 Pa Lp Da) as [G R].
  exists c1, p, rest, (cpBuffer c1 + 2).
  split; [done|]. split; [unfold sized; by rewrite <-app_assoc|]. split; [done|]. split; [done|].
  intros q Bq Eq Np Hr. cbv zeta.
  pose proof Hc as [_ I _ Cp Us _]. rewrite Zlen_handles in Cp.
  destruct (SetDecryptParam_same (H:=H) p q rest c1) as (b&E&W); [done..|lia|].
  destruct (params_at_replace p q rest c1 b) as [Rp Rh]; [done..|].
  exists (set_cmdBuffer b c1). split; [done|]. ctx_cbn. rewrite (app_assoc (be_bytes _ _)).
  fold (sized q). rewrite <-Zlen_handles in Cp. rewrite Cp, Us in *.
  assert (El : Zlen (sized q ++ rest) = Zlen (sized p ++ rest)).
  { rewrite !Zlen_app, !Zlen_sized. lia. }
  apply (cmd_image_replace _ _ (sized p ++ rest) _ (cmdBuffer c1)); [done..|by rewrite El].
Qed.

(** Three bytes of data in a [TPM2B_MAX_BUFFER]. *)
Definition buffer3 : TPM2B := MkTPM2B 3 ([1; 2; 3] ++ replicate 1021 0).

Lemma buffer3_ok : opt_ok spec_TPM2B_MAX_BUFFER (Some buffer3).
Proof.
  split; [split_and!|by left].
  - by vm_compute.
  - by repeat constructor.
  - by vm_compute.
Qed.

(** [TPM2_HMAC] over [buffer3]. *)
Definition hmac_handles : list Z := [0x80000001].

Lemma sys_decrypt_param_witness :
  exists c1 p rest o,
    Tss2_Sys_HMAC_Prepare (H:=little_endian_host) 0x80000001 (Some buffer3) 11
      (Some (fresh_context (answer 0) 64)) = Ret (TSS2_RC_SUCCESS, Some c1) /\
    [0; 3; 1; 2; 3; 0; 11] = be_bytes 2 (Zlen p) ++ p ++ rest /\
    Tss2_Sys_GetDecryptParam (H:=little_endian_host) (Some c1) (Some 0) (Some 0)
      = Ret (TSS2_RC_SUCCESS, (Some (Zlen p), Some o)) /\
    mem_read (cmdBuffer c1) o (Zlen p) = Some p /\
    forall q, bytes_ok q -> Zlen q = Zlen p -> p <> [] ->
      sizeof_TPM20_Header_In + Zlen hmac_handles * 4 + Zlen [0; 3; 1; 2; 3; 0; 11] + Zlen q
        <= maxCmdSize (fresh_context (answer 0) 64) ->
      let w := handles_image hmac_handles ++ be_bytes 2 (Zlen q) ++ q ++ rest in
      exists c2, Tss2_Sys_SetDecryptParam (H:=little_endian_host) (Zlen q) (Some q) (Some c1)
          = Ret (TSS2_RC_SUCCESS, Some c2) /\
        mem_read (cmdBuffer c2) 0 (sizeof_TPM20_Header_In + Zlen w)
          = Some (cmd_image TPM2_CC_HMAC w).
Proof.
  apply (sys_decrypt_param little_endian_host TPM2_CC_HMAC hmac_handles _ _ _ _
    [0; 3; 1; 2; 3; 0; 11] 0 0 (fresh_context (answer 0) 64)
    (sys_HMAC 0x80000001 (Some buffer3) 11 ltac:(sys_closed) buffer3_ok ltac:(sys_closed))).
  - vm_compute. reflexivity.
  - sys_closed.
  - reflexivity.
  - vm_compute. congruence.
Defined.

(** When NULL was passed for the parameter, [Tss2_Sys_SetDecryptParam]
    inserts the given bytes: if no parameter follows, or the new one is as long
    as the parameters were, the parameter area becomes the sized buffer
    followed by the other parameters, and the size in the header grows with
    it. *)
Theorem sys_decrypt_insert {S} {H : Host} q rest (c : blob S) :
  params_at (be_bytes 2 0 ++ rest) c -> decryptAllowed c = true -> decryptNull c = true ->
  q <> [] -> Zlen q < 65536 -> bytes_ok q ->
  cpBuffer c + cpBufferUsedSize c + Zlen q <= maxCmdSize c ->
  cpBuffer c + cpBufferUsedSize c + 2 + Zlen rest <= maxCmdSize c ->
  rest = [] \/ Zlen q = cpBufferUsedSize c ->
  exists c', Tss2_Sys_SetDecryptParam (Zlen q) (Some q) (Some c)
      = Ret (TSS2_RC_SUCCESS, Some c') /\
    params_at (be_bytes 2 (Zlen q) ++ q ++ rest) c'.
Proof.
  intros Pa Da Dn Nq Lq Bq Hf Hr Hc.
  destruct (SetDecryptParam_null q rest c) as (b&E&Bb&Lb&Rz&Rp&Rt); [done..|].
  eexists. split; [exact E|]. pose proof Pa as [M [_ Hcp Hu He] R St].
  apply mem_read_len in R as L. rewrite Zlen_app, Zlen_be_bytes in L.
  split; [by apply (sys_mem_ext c)| |ctx_cbn|done].
  - split; ctx_cbn; [by rewrite Z.add_assoc|done|pose proof (Zlen_nonneg q); lia|lia].
  - rewrite app_assoc. fold (sized q).
    replace (cpBufferUsedSize c + Zlen q) with ((2 + Zlen q) + Zlen rest) by lia.
    apply mem_read_app; [done|]. destruct Hc as [->|Hc].
    + rewrite (Zlen_nil (A:=Z)) in *. apply mem_read_0. rewrite Lb.
      pose proof (sm_max _ M). unfold sizeof_TPM20_Header_In in *. pose proof (Zlen_nonneg q). lia.
    + replace (cpBuffer c + (2 + Zlen q)) with (cpBuffer c + cpBufferUsedSize c + 2) by lia.
      apply Rt. lia.
Qed.

(** [TPM2_HMAC] prepared with NULL for its buffer. *)
Definition hmac_null : blob (list bytes) :=
  match Tss2_Sys_HMAC_Prepare (H:=little_endian_host) 0x80000001 None 11
          (Some (fresh_context (answer 0) 64)) with
  | Ret (_, Some c) => c
  | _ => fresh_context (answer 0) 64
  end.

Lemma hmac_null_params : params_at (be_bytes 2 0 ++ [0; 11]) hmac_null.
Proof.
  split; [split|split|..]; try by vm_compute. apply (bool_decide_unpack _). by vm_compute.
Qed.

Lemma sys_decrypt_insert_witness :
  exists c', Tss2_Sys_SetDecryptParam (H:=little_endian_host) 4 (Some [5; 6; 7; 8])
      (Some hmac_null) = Ret (TSS2_RC_SUCCESS, Some c') /\
    params_at (be_bytes 2 4 ++ [5; 6; 7; 8] ++ [0; 11]) c'.
Proof.
  apply (sys_decrypt_insert (H:=little_endian_host) [5; 6; 7; 8] [0; 11] hmac_null
    hmac_null_params); try by vm_compute.
  - by repeat constructor.
  - by right.
Defined.

(** On a response with sessions, [Tss2_Sys_SetEncryptParam] accepts only
    as many bytes as [Tss2_Sys_GetEncryptParam] reports; they replace the
    contents of the first response parameter, a further
    [Tss2_Sys_GetEncryptParam] reports them, and nothing else of the context
    changes. *)
Theorem sys_encrypt_param {S} {H : Host} p q s0 b0 (c : blob S) :
  rsp_param p c -> bytes_ok q ->
  exists o, Tss2_Sys_GetEncryptParam (Some c) (Some s0) (Some b0)
      = Ret (TSS2_RC_SUCCESS, (Some (Zlen p), Some o)) /\
    mem_read (cmdBuffer c) o (Zlen p) = Some p /\
    (Zlen q <> Zlen p ->
       Tss2_Sys_SetEncryptParam (Zlen q) (Some q) (Some c) = Ret (TSS2_SYS_RC_BAD_SIZE, Some c)) /\
    (Zlen q = Zlen p -> exists c',
       Tss2_Sys_SetEncryptParam (Zlen q) (Some q) (Some c) = Ret (TSS2_RC_SUCCESS, Some c') /\
       Tss2_Sys_GetEncryptParam (Some c') (Some s0) (Some b0)
         = Ret (TSS2_RC_SUCCESS, (Some (Zlen q), Some o)) /\
       mem_read (cmdBuffer c') o (Zlen q) = Some q /\
       c' = set_cmdBuffer (cmdBuffer c') c /\
       forall o' n, o' + n <= o \/ o + Zlen q <= o' ->
         mem_read (cmdBuffer c') o' n = mem_read (cmdBuffer c) o' n).
Proof.
  intros Rp Bq. destruct (GetEncryptParam_sized p c s0 b0 Rp) as [G R].
  destruct (SetEncryptParam_eq p q c Rp Bq) as [Ne Eq].
  exists (rsp_param_offset c + 2). split_and!; [done..|]. intros E.
  destruct (Eq E) as (b&Es&W). exists (set_cmdBuffer b c). split; [done|].
  destruct (GetEncryptParam_sized q _ s0 b0 (rsp_param_write p q c b Rp Bq E W)) as [G' R'].
  split; [exact G'|]. split; [exact R'|]. split; [done|]. intros o' n Ho. ctx_cbn.
  exact (mem_read_write_out _ _ _ _ _ _ W Ho).
Qed.

(** A response to [TPM2_GetRandom] with a session, in a context. *)
Definition random_received : blob (list bytes) :=
  Blob (Some (answer 0)) (rsp_image TPM2_ST_SESSIONS 23 0 ++ be_bytes 4 4 ++
      be_bytes 2 2 ++ [170; 187] ++ [0; 0; 1; 0; 0] ++ replicate 9 0) 32 []
    (Header_Out TPM2_ST_SESSIONS 23 0) TPM2_CC_GetRandom 2 10 10
    CMD_STAGE_RECEIVE_RESPONSE 1 0 false true false true 10.

Lemma random_received_param : rsp_param [170; 187] random_received.
Proof.
  split; [split|..]; try by vm_compute. apply (bool_decide_unpack _). by vm_compute.
Qed.

Lemma sys_encrypt_param_witness :
  exists o, Tss2_Sys_GetEncryptParam (H:=big_endian_host) (Some random_received) (Some 0) (Some 0)
      = Ret (TSS2_RC_SUCCESS, (Some 2, Some o)) /\
    mem_read (cmdBuffer random_received) o 2 = Some [170; 187].
Proof.
  destruct (sys_encrypt_param (H:=big_endian_host) [170; 187] [1; 2] 0 0 random_received
    random_received_param ltac:(by repeat constructor)) as (o&G&R&_).
  exists o. exact (conj G R).
Defined.

(** ** On the wire *)

(** The context after preparing a command and attaching sessions. *)
Lemma prepare_with_auths {S} (H : Host) cc hs ps d e P pw arr aw (c : blob S) :
  prepare_of cc hs ps d e true P -> wires ps = Some pw -> auths_arg arr aw ->
  sys_mem c -> can_prepare (previousStage c) = true -> maxCmdSize c <= 2 ^ 31 ->
  sizeof_TPM20_Header_In + Zlen hs * 4 + 4 + Zlen aw + Zlen pw <= maxCmdSize c ->
  exists c', (P H ;;; Tss2_Sys_SetCmdAuths (Some arr)) (Some c) = Ret (TSS2_RC_SUCCESS, Some c') /\
    previousStage c' = CMD_STAGE_PREPARE /\ tctiContext c' = tctiContext c /\
    mem_read (cmdBuffer c') 0 (sizeof_TPM20_Header_In + Zlen (handles_image hs) + 4
      + Zlen aw + Zlen pw) = Some (cmd_image_auth cc (handles_image hs) aw pw).
Proof.
  intros Pr Ep A M St Hm Hf. destruct (prepare_of_ok _ _ _ _ _ _ _ Pr H) as [_ O].
  destruct (O c M) as (rc&c1&E1&M1&(Ft&Fm&_)&_&Good).
  assert (Ew : wires (map handle_wire hs ++ ps) = Some (handles_image hs ++ pw)).
  { by rewrite wires_handles_app, Ep. }
  pose proof (Zlen_nonneg aw).
  destruct (Good St) as [(w&Ew'&Fi&->&Pd)|(Hr&_&_&_&_&_&_&_&[?|(w&Ew'&_&?)])]; [|congruence|].
  2:{ rewrite Ew in Ew'. some_inv. rewrite Zlen_app, Zlen_handles in *. lia. }
  rewrite Ew in Ew'. some_inv. destruct (pd_flags _ _ _ _ _ _ _ _ Pd) as (_&_&Au).
  pose proof (prepared_holds _ _ _ _ _ _ _ _ _ _ Pd M1 Ep Ew) as Hc.
  destruct (SetCmdAuths_fits cc (handles_image hs) pw arr aw c1) as (b&E2&Bb&Lb&R);
    [done..|lia|rewrite Zlen_handles; lia|].
  unfold sys_seq. rewrite E1. cbn [Z.eqb TSS2_RC_SUCCESS]. rewrite E2.
  eexists. split; [done|]. split; [apply Pd|]. by split.
Qed.

(** Sequencing is associative. *)
Lemma sys_seq_assoc {S} (m k l : sysF S) ctx : (m ;;; k ;;; l) ctx = ((m ;;; k) ;;; l) ctx.
Proof.
  unfold sys_seq. destruct (m ctx) as [[rc c]|]; [|done].
  destruct (rc =? TSS2_RC_SUCCESS) eqn:E; [done|]. by rewrite E.
Qed.

(** C10: preparing any command that allows sessions, attaching sessions and
    sending it hands the transport exactly one message: the command in the
    format of TPM 2.0 Part 1, that is the tag for sessions, the total size, the
    command code, the handles, the size of the authorization area, the
    sessions and the parameters. *)
Theorem sys_command_on_wire {S} (H : Host) cc hs ps d e P pw arr aw x f s (c : blob S) :
  prepare_of cc hs ps d e true P -> wires ps = Some pw -> auths_arg arr aw ->
  sys_mem c -> can_prepare (previousStage c) = true -> maxCmdSize c <= 2 ^ 31 ->
  sizeof_TPM20_Header_In + Zlen hs * 4 + 4 + Zlen aw + Zlen pw <= maxCmdSize c ->
  tctiContext c = Some x -> 1 <= tcti_version x -> tcti_transmit x = Some f ->
  let message := cmd_image_auth cc (handles_image hs) aw pw in
  f (tcti_state x) (Zlen message) message = (TSS2_RC_SUCCESS, s) ->
  exists c', (P H ;;; Tss2_Sys_SetCmdAuths (Some arr) ;;; Tss2_Sys_ExecuteAsync) (Some c)
      = Ret (TSS2_RC_SUCCESS, Some c') /\
    tctiContext c' = Some (set_tcti_state s x) /\
    previousStage c' = CMD_STAGE_SEND_COMMAND.
Proof.
  intros Pr Ep A M St Hm Hf Ex Hv Ef message Es. rewrite sys_seq_assoc.
  destruct (prepare_with_auths H cc hs ps d e P pw arr aw c) as (c1&E1&St1&T1&R); [done..|].
  destruct (auth_image_size _ _ _ _ _ R) as (L&R2&Hn). fold message in L, R.
  rewrite <-L in *. rewrite Ex in T1. unfold sizeof_TPM20_Header_In in *.
  destruct (mem_read_is_Some (cmdBuffer c1) 0 10) as [h Rh]; [lia..|].
  unfold sys_seq at 1. rewrite E1. cbn [Z.eqb TSS2_RC_SUCCESS].
  pose proof (sm_u32 _ M) as Hu. rewrite Zlen_handles in L.
  rewrite (ExecuteAsync_eq _ (Zlen message) message h) by (done || lia).
  rewrite T1. unfold Tss2_Tcti_Transmit. rewrite (proj2 (Z.ltb_ge _ _) Hv), Ef, Es.
  simpl. by eexists.
Qed.

(** The message of [TPM2_NV_Read] with a password session. *)
Definition nv_read_message : bytes :=
  cmd_image_auth TPM2_CC_NV_Read (handles_image [0x40000001; 0x01500015]) password_area
    [0; 32; 0; 0].

Lemma sys_command_on_wire_witness :
  exists c', (Tss2_Sys_NV_Read_Prepare (H:=big_endian_host) 0x40000001 0x01500015 32 0 ;;;
              Tss2_Sys_SetCmdAuths (H:=big_endian_host) (Some password_array) ;;;
              Tss2_Sys_ExecuteAsync (H:=big_endian_host))
               (Some (fresh_context (answer 0) 64)) = Ret (TSS2_RC_SUCCESS, Some c') /\
    tctiContext c' = Some (set_tcti_state [nv_read_message] (answer 0)) /\
    previousStage c' = CMD_STAGE_SEND_COMMAND.
Proof.
  apply (sys_command_on_wire big_endian_host TPM2_CC_NV_Read [0x40000001; 0x01500015]
    _ _ _ _ [0; 32; 0; 0] password_array password_area (answer 0)
    (fun (s : list bytes) _ command => (TSS2_RC_SUCCESS, command :: s)) _
    (fresh_context (answer 0) 64)
    (sys_NV_Read 0x40000001 0x01500015 32 0 ltac:(sys_closed) ltac:(sys_closed)
       ltac:(sys_closed) ltac:(sys_closed))).
  - vm_compute. reflexivity.
  - exact password_array_ok.
  - sys_closed.
  - reflexivity.
  - vm_compute. congruence.
  - vm_compute. congruence.
  - reflexivity.
  - vm_compute. congruence.
  - reflexivity.
  - reflexivity.
Defined.

(** C13: when the TPM answers a command with an error response other than
    TPM_RC_INITIALIZE, [Tss2_Sys_Execute] returns the response code and restores
    the context: the buffer is the one before the call, byte for byte, and a
    further [Tss2_Sys_ExecuteAsync] sends the same command again. (After
    TPM_RC_INITIALIZE the code does not restore it and leaves the context in the
    stage of a received response.) *)
Theorem sys_reissue {S} {H : Host} (c : blob S) n cmd tg rc x f s1 s2 :
  ready c n cmd -> answers c n cmd (rsp_image tg 10 rc) x f s1 ->
  good_tag tg = true -> in_range UINT32 rc -> rc <> TSS2_RC_SUCCESS -> rc <> TPM2_RC_INITIALIZE ->
  f s1 n cmd = (TSS2_RC_SUCCESS, s2) ->
  exists c1 c2, Tss2_Sys_Execute (Some c) = Ret (rc, Some c1) /\
    cmdBuffer c1 = cmdBuffer c /\ cpBuffer c1 = cpBuffer c /\
    cpBufferUsedSize c1 = cpBufferUsedSize c /\ previousStage c1 = CMD_STAGE_PREPARE /\
    Tss2_Sys_ExecuteAsync (Some c1) = Ret (TSS2_RC_SUCCESS, Some c2) /\
    tctiContext c2 = Some (set_tcti_state s2 x).
Proof.
  intros Rd An Gd Ic N0 N1 Es. pose proof An as [_ Hv Ef _].
  destruct (Execute_tpm_error c n cmd tg rc x f s1) as (c1&E&Et&Eb&Ec&Eu&Rd1); [done..|].
  pose proof Rd1 as [M1 Ro1 St1 R1 Hn1 Rc1]. pose proof (sm_hdr _ M1). pose proof (sm_max _ M1).
  pose proof (sm_u32 _ M1). unfold sizeof_TPM20_Header_In in *.
  destruct (mem_read_is_Some (cmdBuffer c1) 0 10) as [h Rh]; [lia..|].
  exists c1. rewrite (ExecuteAsync_eq c1 n cmd h) by (done || lia). rewrite Et.
  unfold Tss2_Tcti_Transmit. cbn [set_tcti_state tcti_version tcti_transmit tcti_state].
  rewrite (proj2 (Z.ltb_ge _ _) Hv), Ef, Es. eexists. by split_and!.
Qed.

Lemma sys_reissue_witness :
  exists c1 c2, Tss2_Sys_Execute (H:=little_endian_host) (Some clear_prepared) = Ret (0x922, Some c1) /\
    cmdBuffer c1 = cmdBuffer clear_prepared /\ cpBuffer c1 = cpBuffer clear_prepared /\
    cpBufferUsedSize c1 = cpBufferUsedSize clear_prepared /\
    previousStage c1 = CMD_STAGE_PREPARE /\
    Tss2_Sys_ExecuteAsync (H:=little_endian_host) (Some c1) = Ret (TSS2_RC_SUCCESS, Some c2) /\
    tctiContext c2 = Some (set_tcti_state [cmd_image TPM2_CC_Clear [64; 0; 0; 12];
                                           cmd_image TPM2_CC_Clear [64; 0; 0; 12]] (answer 0x922)).
Proof.
  apply (sys_reissue clear_prepared 14 (cmd_image TPM2_CC_Clear [64; 0; 0; 12])
    TPM2_ST_NO_SESSIONS 0x922 (answer 0x922)
    (fun (s : list bytes) _ command => (TSS2_RC_SUCCESS, command :: s))
    [cmd_image TPM2_CC_Clear [64; 0; 0; 12]]).
  - split; try by vm_compute. exact (hc_mem _ _ _ _ clear_prepared_holds).
  - split; [reflexivity|vm_compute; congruence|reflexivity|].
    do 4 eexists. split; [reflexivity|]. split_and!; reflexivity.
  - reflexivity.
  - by vm_compute.
  - vm_compute. congruence.
  - vm_compute. congruence.
  - reflexivity.
Defined.

(** ** Sequences of calls *)

(** C11: whatever sequence of the calls of [sys_call] (preparing any command,
    attaching any sessions with SetCmdAuths, sending, receiving, completing one
    of the 128 commands of [complete_of], aborting) an application makes on an
    initialised context, over a transport that talks to a TPM 2.0, every further
    such call has a defined outcome: no access outside the buffer.
    [Tss2_Sys_GetRspAuths], which can read outside it ([GetRspAuths_overread]),
    and the functions that get and set the encrypted parameters are not among
    these calls. *)
Theorem sys_reachable_safe {S} {H : Host} (c c' : blob S) f :
  sys_inv c -> reachable c c' -> sys_call f ->
  exists rc c'', f (Some c') = Ret (rc, Some c'') /\ sys_inv c''.
Proof.
  intros I R Hf. destruct (sys_call_ok f c' Hf (reachable_inv c c' I R)) as (rc&c''&E&I'&_).
  eauto.
Qed.

Lemma fresh_inv rc : in_range UINT32 rc -> sys_inv (fresh_context (answer rc) 64).
Proof.
  intros Ic. split; try done; [sys_closed|]. exact (answer_ok rc Ic).
Qed.

Lemma sys_reachable_safe_witness :
  exists rc c'', Tss2_Sys_ExecuteAsync (H:=little_endian_host) (Some clear_prepared)
                 = Ret (rc, Some c'') /\ sys_inv c''.
Proof.
  apply (sys_reachable_safe (H:=little_endian_host) (fresh_context (answer 0x922) 64)).
  - apply fresh_inv. by vm_compute.
  - eapply (reach_step _ (Tss2_Sys_Clear_Prepare (H:=little_endian_host) 0x4000000C) _ TSS2_RC_SUCCESS);
      [apply reach_refl| |vm_compute; reflexivity].
    eapply (call_prepare _ _ _ _ _ _ (fun H => Tss2_Sys_Clear_Prepare (H:=H) 0x4000000C)).
    apply sys_Clear. sys_closed.
  - apply call_async.
Defined.

(** C12: in any sequence of the calls of [sys_call], over a transport that talks
    to a TPM 2.0, the stages follow the protocol: a command is sent only after
    it was prepared, a response is accepted only after the command was sent, and
    a rejected or failed call leaves the stage, moves it back to the prepared
    command or, for an abort, to the initial stage. *)
Theorem sys_stage_order {S} {H : Host} (c c1 : blob S) f rc c2 :
  sys_inv c -> reachable c c1 -> sys_call f -> f (Some c1) = Ret (rc, Some c2) ->
  stage_edge (previousStage c1) (previousStage c2) /\
  (previousStage c2 = CMD_STAGE_RECEIVE_RESPONSE -> response_ok (rsp_header c2) (maxCmdSize c2)).
Proof.
  intros I R Hf E. destruct (sys_call_ok f c1 Hf (reachable_inv c c1 I R)) as (rc'&c'&E'&I'&Ed).
  rewrite E in E'. simplify_eq. split; [done|]. apply I'.
Qed.

Lemma sys_stage_order_witness :
  stage_edge CMD_STAGE_INITIALIZE (previousStage clear_prepared) /\
  (previousStage clear_prepared = CMD_STAGE_RECEIVE_RESPONSE ->
     response_ok (rsp_header clear_prepared) (maxCmdSize clear_prepared)).
Proof.
  apply (sys_stage_order (H:=little_endian_host) (fresh_context (answer 0x922) 64)
    (fresh_context (answer 0x922) 64) (Tss2_Sys_Clear_Prepare (H:=little_endian_host) 0x4000000C)
    TSS2_RC_SUCCESS).
  - apply fresh_inv. by vm_compute.
  - apply reach_refl.
  - eapply (call_prepare _ _ _ _ _ _ (fun H => Tss2_Sys_Clear_Prepare (H:=H) 0x4000000C)).
    apply sys_Clear. sys_closed.
  - vm_compute. reflexivity.
Defined.
