(* ===== verification/SysCallProps.v ===== *)
(** * Properties of whole commands.

    From the arguments of a one-call function to the message the transport is
    given, and from the response it returns to the output parameters. *)

From S2P Require Import Prelude Common MuSpec MuBase MuBaseOk MuStruct MuTpm2b MuTpm2bOk TpmTypes MuTypes MuTypesOk SysCodes Sys SysOk SysCmds SysCompletes SysOneCalls SysCmdsOk SysAuth SysExec SysSafe SysOutOk SysCompletesOk SysOneCallOk SysParam SysProps.
Open Scope tss_scope.


Section Helpers.
Context {S : Type}.
Implicit Types (c : blob S).




End Helpers.




(** ** Examples *)














(** ** Where the System API departs from its contract.

    Each theorem states exactly what the code does in a case in which it does
    not do what its interface promises. *)

Section Findings.
Context {H : Host} {S : Type}.

Lemma Zlen_host_image n v : Zlen (host_image n v) = Z.of_nat n.
Proof.
  unfold host_image, Zlen. destruct words_bigendian; [apply Zlen_be_bytes|].
  by rewrite length_le_bytes.
Qed.
Implicit Types (c : blob S).

(** [Tss2_Sys_SetDecryptParam] with fewer bytes than the parameters take
    up, where NULL was passed for the first of several parameters, returns
    success but leaves the command malformed: the other parameters are moved
    by the length of the parameter area instead of the length of the new
    parameter, so they end after the end of the command that the size in the
    header gives. *)
Theorem SetDecryptParam_misplaces q rest c :
  params_at (be_bytes 2 0 ++ rest) c -> decryptAllowed c = true -> decryptNull c = true ->
  q <> [] -> bytes_ok q -> Zlen q < cpBufferUsedSize c -> cpBufferUsedSize c < 65536 ->
  cpBuffer c + cpBufferUsedSize c + 2 + Zlen rest <= maxCmdSize c ->
  exists c', Tss2_Sys_SetDecryptParam (Zlen q) (Some q) (Some c)
      = Ret (TSS2_RC_SUCCESS, Some c') /\
    let rest_at := cpBuffer c + 2 + cpBufferUsedSize c in
    let command_end := cpBuffer c' + cpBufferUsedSize c' in
    mem_read (cmdBuffer c') 2 4 = Some (be_bytes 4 command_end) /\
    mem_read (cmdBuffer c') rest_at (Zlen rest) = Some rest /\
    cpBuffer c' + 2 + Zlen q < rest_at /\ command_end < rest_at + Zlen rest.
Proof.
  intros Pa Da Dn Nq Bq Lq Lu Hr. pose proof Pa as [_ _ R _].
  apply mem_read_len in R as L. rewrite Zlen_app, Zlen_be_bytes in L.
  destruct (SetDecryptParam_null q rest c) as (b&E&_&_&Rz&_&Rt); [done..|lia|done|lia|lia|].
  eexists. split; [exact E|]. cbv zeta. ctx_cbn. rewrite Z.add_assoc. split_and!; [done| |lia|lia].
  replace (cpBuffer c + 2 + cpBufferUsedSize c) with (cpBuffer c + cpBufferUsedSize c + 2) by lia.
  apply Rt. lia.
Qed.

(** [Tss2_Sys_Initialize] accepts a context with room for less than a
    command header; the first step of every [Prepare] function on it then
    writes the command code outside the context. *)
Theorem Initialize_too_small n t cc c :
  2 <= n < sizeof_TPM20_Header_In -> Zlen (cmdBuffer c) = n ->
  tcti_transmit t <> None -> tcti_receive t <> None ->
  exists c', Tss2_Sys_Initialize (sizeof_TSS2_SYS_CONTEXT_BLOB + n) (Some t) None (Some c)
      = Ret (TSS2_RC_SUCCESS, Some c') /\ CommonPreparePrologue cc (Some c') = Undef.
Proof.
  intros Hn L Nt Nr. unfold Tss2_Sys_Initialize. rewrite (proj2 (Z.ltb_ge _ _)) by lia.
  destruct (tcti_transmit t); [|done]. destruct (tcti_receive t); [|done]. cbn [is_null orb].
  eexists. split; [done|]. unfold CommonPreparePrologue, CopyCommandHeader, check_ctx, ctx_set, sys_seq.
  unfold InitSysContextPtrs. ctx_cbn. unfold stage_is. ctx_cbn. cbn [obind Z.eqb TSS2_RC_SUCCESS].
  rewrite bool_decide_true by done. cbn [negb andb]. unfold ctx_marshal. ctx_cbn.
  replace (sizeof_TSS2_SYS_CONTEXT_BLOB + n - sizeof_TSS2_SYS_CONTEXT_BLOB) with n by lia.
  unfold sizeof_TPM20_Header_In in Hn. rewrite wrap_small by lia.
  destruct (u16_marshal TPM2_ST_NO_SESSIONS (cmdBuffer c) n 0) as (b&E&W); [done|lia..|].
  change Tss2_MU_TPM2_ST_Marshal with Tss2_MU_UINT16_Marshal. rewrite E.
  cbn [obind Z.eqb TSS2_RC_SUCCESS]. ctx_cbn. unfold set_hdr_commandCode, hdr_write. ctx_cbn.
  apply mem_write_len in W.
  destruct (mem_write b 6 _) as [b'|] eqn:W'; [|done].
  apply mem_write_Some in W' as (_&?&_). rewrite Zlen_host_image in *. lia.
Qed.

(** [Tss2_Sys_GetRspAuths] reads past the end of the response: when the
    parameters end where the buffer ends, the check before the read of the
    first session's size still passes. *)
Theorem GetRspAuths_overread ps arr c :
  previousStage c = CMD_STAGE_RECEIVE_RESPONSE -> authAllowed c = true ->
  responseCode (rsp_header c) = TSS2_RC_SUCCESS -> tag (rsp_header c) = TPM2_ST_SESSIONS ->
  1 <= authsCount c -> 0 <= ps < 2 ^ 32 ->
  mem_read (cmdBuffer c) (rspParamsSize c) 4 = Some (be_bytes 4 ps) ->
  sizeof_TPM20_Header_Out + numResponseHandles c * 4 + 4 + ps = Zlen (cmdBuffer c) ->
  responseSize (rsp_header c) = Zlen (cmdBuffer c) ->
  Tss2_Sys_GetRspAuths (Some c) (Some arr) = Undef.
Proof.
  intros St Al Rc Tg Na Hp R Ho Hs. unfold Tss2_Sys_GetRspAuths, stage_is, hdr_read.
  rewrite St, Al, Rc, Tg. cbn [negb bool_decide orb Z.eqb TSS2_RC_SUCCESS].
  rewrite bool_decide_true by done. cbn [negb orb]. rewrite Z.eqb_refl. cbn [negb].
  change (Z.of_nat 4) with 4. rewrite R. cbn [access obind]. rewrite value_be_32 by done.
  destruct (Z.to_nat (authsCount c)) as [|n] eqn:En; [lia|]. cbn [auths_validate].
  rewrite (proj2 (Z.ltb_ge _ _)) by lia. unfold hdr_read.
  destruct (mem_read (cmdBuffer c) _ (Z.of_nat 2)) eqn:E; [|done].
  apply mem_read_Some in E as (?&?&?&_). lia.
Qed.

(** On a response without sessions that is shorter than its header and
    handles, [Tss2_Sys_GetRpBuffer] returns success and a size that has wrapped
    around. *)
Theorem GetRpBuffer_wraps s0 b0 c :
  previousStage c = CMD_STAGE_RECEIVE_RESPONSE -> tag (rsp_header c) = TPM2_ST_NO_SESSIONS ->
  0 <= responseSize (rsp_header c) -> numResponseHandles c <= 2 ->
  let offset := sizeof_TPM20_Header_Out + numResponseHandles c * 4 in
  responseSize (rsp_header c) < offset ->
  exists size, Tss2_Sys_GetRpBuffer (Some c) (Some s0) (Some b0)
      = Ret (TSS2_RC_SUCCESS, (Some size, Some offset)) /\
    size = 2 ^ 64 - (offset - responseSize (rsp_header c)) /\ 2 ^ 64 - 18 <= size.
Proof.
  intros St Tg Hs Hn offset Ho. unfold Tss2_Sys_GetRpBuffer, stage_is. rewrite St, Tg.
  cbn [negb bool_decide]. rewrite bool_decide_true by done. cbn [negb]. eexists. split; [done|].
  fold offset. unfold offset, sizeof_TPM20_Header_Out in *. unfold wrap64, size_max.
  assert (E : forall x, - 18 <= x < 0 -> x mod 2 ^ 64 = 2 ^ 64 + x).
  { intros x Hx. symmetry. apply (Z.mod_unique_pos _ _ (-1)); lia. }
  rewrite E by lia. lia.
Qed.

(** when the authorization area does not fit, [Tss2_Sys_SetCmdAuths] fails
    but the command in the buffer is no longer the one prepared: its tag says
    that it has sessions. *)
Theorem SetCmdAuths_leaves_tag cc hw pw arr aw c :
  holds_cmd cc hw pw c -> auths_arg arr aw -> authAllowed c = true -> maxCmdSize c <= 2 ^ 31 ->
  maxCmdSize c < sizeof_TPM20_Header_In + Zlen hw + 4 + Zlen aw + Zlen pw ->
  exists c', Tss2_Sys_SetCmdAuths (Some arr) (Some c)
      = Ret (TSS2_SYS_RC_INSUFFICIENT_CONTEXT, Some c') /\
    previousStage c' = CMD_STAGE_PREPARE /\
    mem_read (cmdBuffer c') 0 2 = Some (be_bytes 2 TPM2_ST_SESSIONS) /\
    mem_read (cmdBuffer c') 2 (8 + Zlen (hw ++ pw)) = mem_read (cmdBuffer c) 2 (8 + Zlen (hw ++ pw)).
Proof.
  intros Hc A Al Hm Big. pose proof Hc as [[B Hh Hx _] _ _ _ _ St].
  unfold sizeof_TPM20_Header_In in Hh.
  destruct (mem_write_is_Some (cmdBuffer c) 0 (be_bytes 2 TPM2_ST_SESSIONS)) as [b W];
    [done|rewrite Zlen_be_bytes; lia|].
  rewrite (SetCmdAuths_start cc hw pw arr aw c b) by done.
  rewrite (proj2 (Z.ltb_lt _ _)) by lia. eexists. split; [done|]. ctx_cbn. split_and!; [done| |].
  - exact (mem_read_write _ _ _ _ W).
  - apply (mem_read_write_out _ _ _ _ _ _ W). rewrite Zlen_be_bytes. lia.
Qed.

(** A response whose header gives a size below that of a header moves the
    context back to the stage in which the command can be reissued, but the
    header of the command is not restored: what a further
    [Tss2_Sys_ExecuteAsync] sends is the first bytes of the response. *)
Theorem ExecuteFinish_short_response c x g s2 k f s' s3 tg sz rc more :
  let w := rsp_image tg sz rc ++ more in
  sys_mem c -> rsp_ok (rsp_header c) -> Zlen (cmd_header c) = sizeof_TPM20_Header_In ->
  previousStage c = CMD_STAGE_SEND_COMMAND -> tctiContext c = Some x -> 1 <= tcti_version x ->
  tcti_receive x = Some g -> tcti_transmit x = Some f ->
  g (tcti_state x) 0 false TSS2_TCTI_TIMEOUT_BLOCK = (TSS2_RC_SUCCESS, (Zlen w, ([], s2))) ->
  g s2 (Zlen w) true TSS2_TCTI_TIMEOUT_BLOCK = (TSS2_RC_SUCCESS, (k, (w, s'))) ->
  good_tag tg = true -> 0 <= sz < sizeof_TPM20_Header_Out -> in_range UINT32 rc ->
  bytes_ok more -> Zlen w <= maxCmdSize c ->
  f s' sz (take (Z.to_nat sz) w) = (TSS2_RC_SUCCESS, s3) ->
  exists c1 c2, Tss2_Sys_ExecuteFinish TSS2_TCTI_TIMEOUT_BLOCK (Some c)
      = Ret (TSS2_SYS_RC_INSUFFICIENT_RESPONSE, Some c1) /\
    previousStage c1 = CMD_STAGE_PREPARE /\
    Tss2_Sys_ExecuteAsync (Some c1) = Ret (TSS2_RC_SUCCESS, Some c2) /\
    tctiContext c2 = Some (set_tcti_state s3 x).
Proof.
  intros w M Ro Lh St Ex Hv Eg Ef G1 G2 Gd Hs Ic Bm Hw Es.
  destruct (rsp_image_ok tg sz rc) as [Li Bi]. pose proof (Zlen_nonneg more).
  assert (Lw : Zlen w = 10 + Zlen more) by (unfold w; rewrite Zlen_app, Li; done).
  assert (Bw : bytes_ok w) by by apply Forall_app.
  pose proof M as [B Hh Hx Hu]. unfold sizeof_TPM20_Header_Out, sizeof_TPM20_Header_In in *.
  destruct (mem_write_is_Some (cmdBuffer c) 0 w) as [b W]; [lia..|].
  apply mem_write_len in W as Lb. pose proof (mem_read_write _ _ _ _ W) as Rw.
  pose proof (good_tag_range _ Gd) as Ht.
  assert (Rh : mem_read b 0 10 = Some (rsp_image tg sz rc)).
  { unfold w in Rw. apply mem_read_split in Rw as [Rw _]. by rewrite Li in Rw. }
  assert (Rs : mem_read b 0 sz = Some (take (Z.to_nat sz) w)).
  { rewrite (mem_read_sub _ _ _ _ 0 sz Rw) by lia. apply mem_read_Some. split_and!; lia || done. }
  destruct (rsp_image_parts _ _ _ _ Rh) as (_&R2&_).
  rewrite (ExecuteFinish_receives c x g _ s2 k w b) with (s' := s')
    by (done || unfold sizeof_TPM20_Header_Out; lia).
  pose proof (mem_write_bytes _ _ _ _ B Bw W) as Bb.
  assert (Is : 0 <= sz < 2 ^ 32) by lia.
  rewrite (finish_response_eq _ tg sz rc); [|by apply (sys_mem_ext c)|done..].
  rewrite Gd. ctx_cbn. rewrite (proj2 (Z.ltb_ge _ _)) by lia.
  destruct (mem_write_is_Some b 0 (cmd_header c)) as [b' Wb]; [lia..|].
  rewrite (finish_code_eq _ b') by done. ctx_cbn. cbn [responseSize].
  rewrite (proj2 (Z.ltb_lt _ _)) by (unfold sizeof_TPM20_Header_Out; lia). do 2 eexists. split; [done|]. split; [done|].
  rewrite (ExecuteAsync_eq _ sz (take (Z.to_nat sz) w) (rsp_image tg sz rc)) by (done || lia).
  ctx_cbn. unfold Tss2_Tcti_Transmit. cbn [set_tcti_state tcti_version tcti_transmit tcti_state].
  rewrite (proj2 (Z.ltb_ge _ _) Hv), Ef, Es. by split.
Qed.

End Findings.

(** ** Concrete cases *)

Lemma SetDecryptParam_misplaces_witness :
  exists c', Tss2_Sys_SetDecryptParam (H:=little_endian_host) 2 (Some [5; 6]) (Some hmac_null)
      = Ret (TSS2_RC_SUCCESS, Some c') /\
    let rest_at := cpBuffer hmac_null + 2 + cpBufferUsedSize hmac_null in
    let command_end := cpBuffer c' + cpBufferUsedSize c' in
    mem_read (cmdBuffer c') 2 4 = Some (be_bytes 4 command_end) /\
    mem_read (cmdBuffer c') rest_at 2 = Some [0; 11] /\
    cpBuffer c' + 2 + 2 < rest_at /\ command_end < rest_at + 2.
Proof.
  apply (SetDecryptParam_misplaces (H:=little_endian_host) [5; 6] [0; 11] hmac_null
    hmac_null_params); try by vm_compute.
  by repeat constructor.
Defined.

Lemma Initialize_too_small_witness :
  exists c', Tss2_Sys_Initialize (sizeof_TSS2_SYS_CONTEXT_BLOB + 4) (Some (answer 0)) None
      (Some (fresh_context (answer 0) 4)) = Ret (TSS2_RC_SUCCESS, Some c') /\
    CommonPreparePrologue (H:=little_endian_host) TPM2_CC_Clear (Some c') = Undef.
Proof.
  apply (Initialize_too_small (H:=little_endian_host)); by vm_compute.
Defined.

(** A response whose parameters end with it. *)
Definition ends_with_params : blob (list bytes) :=
  Blob (Some (answer 0)) (rsp_image TPM2_ST_SESSIONS 18 0 ++ be_bytes 4 4 ++ [0; 2; 1; 2]) 18 []
    (Header_Out TPM2_ST_SESSIONS 18 0) TPM2_CC_GetRandom 2 10 10
    CMD_STAGE_RECEIVE_RESPONSE 1 0 false true false true 10.

Lemma GetRspAuths_overread_witness :
  Tss2_Sys_GetRspAuths (H:=big_endian_host) (Some ends_with_params)
    (Some (Auth_Response 0 [])) = Undef.
Proof.
  apply (GetRspAuths_overread (H:=big_endian_host) 4); by vm_compute.
Defined.

(** A response to a command with a response handle, which it lacks. *)
Definition lacks_handle : blob (list bytes) :=
  Blob (Some (answer 0)) (rsp_image TPM2_ST_NO_SESSIONS 12 0 ++ replicate 10 0) 20 []
    (Header_Out TPM2_ST_NO_SESSIONS 12 0) TPM2_CC_LoadExternal 2 10 14
    CMD_STAGE_RECEIVE_RESPONSE 0 1 true true false true 10.

Lemma GetRpBuffer_wraps_witness :
  exists size, Tss2_Sys_GetRpBuffer (H:=little_endian_host) (Some lacks_handle) (Some 0) (Some 0)
      = Ret (TSS2_RC_SUCCESS, (Some size, Some 14)) /\
    size = 2 ^ 64 - (14 - 12) /\ 2 ^ 64 - 18 <= size.
Proof.
  apply (GetRpBuffer_wraps (H:=little_endian_host) 0 0 lacks_handle); by vm_compute.
Defined.

(** [TPM2_Clear] prepared in a context that has no room for a session. *)
Definition clear_small : blob (list bytes) :=
  match Tss2_Sys_Clear_Prepare (H:=little_endian_host) 0x4000000C
          (Some (fresh_context (answer 0) 20)) with
  | Ret (_, Some c) => c
  | _ => fresh_context (answer 0) 20
  end.

Lemma clear_small_holds : holds_cmd TPM2_CC_Clear [64; 0; 0; 12] [] clear_small.
Proof.
  split; try by vm_compute. split; [|by vm_compute..].
  apply (bool_decide_unpack _). by vm_compute.
Qed.

Lemma SetCmdAuths_leaves_tag_witness :
  exists c', Tss2_Sys_SetCmdAuths (H:=little_endian_host) (Some password_array) (Some clear_small)
      = Ret (TSS2_SYS_RC_INSUFFICIENT_CONTEXT, Some c') /\
    previousStage c' = CMD_STAGE_PREPARE /\
    mem_read (cmdBuffer c') 0 2 = Some (be_bytes 2 TPM2_ST_SESSIONS) /\
    mem_read (cmdBuffer c') 2 12 = mem_read (cmdBuffer clear_small) 2 12.
Proof.
  apply (SetCmdAuths_leaves_tag (H:=little_endian_host) TPM2_CC_Clear [64; 0; 0; 12] []
    password_array password_area clear_small clear_small_holds password_array_ok);
    by vm_compute.
Defined.

(** A transport whose responses claim to be three bytes long. *)
Definition short_transport : TSS2_TCTI_CONTEXT (list bytes) :=
  Tcti 1 (Some (fun (s : list bytes) _ command => (TSS2_RC_SUCCESS, command :: s)))
    (Some (fun (s : list bytes) _ (response : bool) _ =>
       (TSS2_RC_SUCCESS, (10, (if response then rsp_image TPM2_ST_NO_SESSIONS 3 0 else [], s)))))
    [].

Definition clear_sent : blob (list bytes) :=
  set_previousStage CMD_STAGE_SEND_COMMAND
    (set_cmd_header (take 10 (cmdBuffer clear_prepared))
      (set_tctiContext (Some short_transport) clear_prepared)).

Lemma clear_sent_mem : sys_mem clear_sent.
Proof. split; [|by vm_compute..]. apply (bool_decide_unpack _). by vm_compute. Qed.

Lemma ExecuteFinish_short_response_witness :
  exists c1 c2,
    Tss2_Sys_ExecuteFinish (H:=little_endian_host) TSS2_TCTI_TIMEOUT_BLOCK (Some clear_sent)
      = Ret (TSS2_SYS_RC_INSUFFICIENT_RESPONSE, Some c1) /\
    previousStage c1 = CMD_STAGE_PREPARE /\
    Tss2_Sys_ExecuteAsync (H:=little_endian_host) (Some c1) = Ret (TSS2_RC_SUCCESS, Some c2) /\
    tctiContext c2 = Some (set_tcti_state [[0x80; 1; 0]] short_transport).
Proof.
  apply (ExecuteFinish_short_response (H:=little_endian_host) clear_sent short_transport
    (fun (s : list bytes) _ (response : bool) _ =>
       (TSS2_RC_SUCCESS, (10, (if response then rsp_image TPM2_ST_NO_SESSIONS 3 0 else [], s))))
    [] 10 (fun (s : list bytes) _ command => (TSS2_RC_SUCCESS, command :: s)) []
    [[0x80; 1; 0]] TPM2_ST_NO_SESSIONS 3 0 []);
    [exact clear_sent_mem|vm_compute..]; repeat split; congruence || constructor.
Defined.

(** ** Starting a signature sequence *)

Lemma wires_u32 v :
  in_range UINT32 v -> wires (images (OCons (spec_int UINT32) v ONil)) = Some (be_bytes 4 v).
Proof.
  intros Iv. cbn [images wires foldr spec_int s_wire]. rewrite to_unsigned_small by done.
  cbn [wire_app]. by rewrite app_nil_r.
Qed.

(** Reading one 32-bit integer at [nextData], at the end of a function. *)
Lemma read_u32 (H : Host) {S} v d (c : blob S) :
  sys_mem c -> rsp_bounded c -> 0 <= nextData c -> in_range UINT32 v -> in_range UINT32 d ->
  mem_read (cmdBuffer c) (nextData c) 4 = Some (be_bytes 4 v) -> nextData c + 4 <= maxCmdSize c ->
  run (out_unmarshal Tss2_MU_UINT32_Unmarshal (Some d) out_end) (Some c)
    = Ret (TSS2_RC_SUCCESS, (Some (set_nextData (nextData c + 4) c), (Some v, tt))).
Proof.
  intros M Rb Hn Iv Id R Fi. assert (Ct : ctype_ok UINT32) by ctype.
  assert (Rd : reads_outs (S:=S) (OCons (spec_int UINT32) v ONil)
      (out_unmarshal Tss2_MU_UINT32_Unmarshal (Some d) out_end))
    by (apply reads_unmarshal; [by apply decodes_int|apply reads_end]).
  destruct (Rd ltac:(done) c M Hn Rb) as [_ Rg].
  assert (L : Zlen (be_bytes 4 v) = 4) by apply Zlen_be_bytes.
  rewrite <-L in R, Fi |- * at 1.
  destruct (Rg (be_bytes 4 v) ltac:(done) (wires_u32 v Iv) R Fi) as ([[v'|] []]&E&Rr).
  - rewrite E. destruct Rr as [[_ Eq] _]. simpl in Eq. by subst.
  - by destruct Rr.
Qed.

(** The [Complete] functions of the two commands that start a signature
    sequence skip the handle area before they read: on a response that carries
    the handle [h] they return success and store the four bytes after the
    handle (and the parameter size, with sessions), whatever [h] is.
    [Tss2_Sys_HashSequenceStart_Complete], on the same response, stores [h]. *)
Theorem SequenceStart_misreads (H : Host) {S} tg h aw v d (c : blob S) :
  holds_rsp tg (be_bytes 4 h) [] aw c -> in_range UINT32 h -> in_range UINT32 v ->
  in_range UINT32 d ->
  let next := if tg =? TPM2_ST_SESSIONS then 18 else 14 in
  mem_read (cmdBuffer c) next 4 = Some (be_bytes 4 v) -> next + 4 <= maxCmdSize c ->
  run (Tss2_Sys_SignSequenceStart_Complete (Some d)) (Some c)
    = Ret (TSS2_RC_SUCCESS, (Some (set_nextData (next + 4) c), (Some v, tt))) /\
  run (Tss2_Sys_VerifySequenceStart_Complete (Some d)) (Some c)
    = Ret (TSS2_RC_SUCCESS, (Some (set_nextData (next + 4) c), (Some v, tt))) /\
  exists m, run (Tss2_Sys_HashSequenceStart_Complete (Some d)) (Some c)
    = Ret (TSS2_RC_SUCCESS, (Some (set_nextData m c), (Some h, tt))).
Proof.
  intros Hr Ih Iv Id next R Fi. pose proof Hr as [M _ _ _ Hf Hd _ _].
  assert (Next : CommonComplete (Some c) = Ret (TSS2_RC_SUCCESS, Some (set_nextData next c))).
  { pose proof (CommonComplete_rsp _ _ _ _ _ (nextData c) Hr) as E. rewrite set_next_same in E.
    rewrite E, Zlen_be_bytes. unfold next. by case_match. }
  assert (Rb : rsp_bounded c).
  { unfold rsp_bounded. rewrite Hd. cbn [responseSize]. split; [apply Zlen_nonneg|done]. }
  assert (Hn : 0 <= next) by (unfold next; case_match; lia).
  pose proof (read_u32 H v d (set_nextData next c) (next_mem _ _ M) Rb Hn Iv Id R Fi) as E.
  split_and!; [unfold Tss2_Sys_SignSequenceStart_Complete|unfold Tss2_Sys_VerifySequenceStart_Complete|].
  1-2: cbn [run out_check_ctx out_call is_null]; rewrite Next; exact E.
  destruct (complete_of_ok (S:=S) _ _ _ _ (rsp_HashSequenceStart h (Some d)) H) as [Co _].
  destruct (proj2 (Co ltac:(done)) c tg (be_bytes 4 h) [] aw Hr) as (m&[[h'|] []]&Er&Rr);
    [by rewrite Zlen_be_bytes|done|by rewrite wires_u32, app_nil_r| |by destruct Rr].
  exists m. rewrite Er. destruct Rr as [[_ Eq] _]. simpl in Eq. by subst.
Qed.

(** A response to [TPM2_SignSequenceStart] with the handle 0x80000001. *)
Definition sequence_received : blob (list bytes) :=
  Blob (Some (answer 0)) (rsp_image TPM2_ST_NO_SESSIONS 14 0 ++ be_bytes 4 0x80000001 ++
      replicate 18 0) 32 []
    (Header_Out TPM2_ST_NO_SESSIONS 14 0) TPM2_CC_SignSequenceStart 0 14 14
    CMD_STAGE_RECEIVE_RESPONSE 0 1 false false true false 10.

Lemma SequenceStart_misreads_witness :
  run (Tss2_Sys_SignSequenceStart_Complete (H:=little_endian_host) (Some 7))
      (Some sequence_received)
    = Ret (TSS2_RC_SUCCESS, (Some (set_nextData 18 sequence_received), (Some 0, tt))) /\
  run (Tss2_Sys_VerifySequenceStart_Complete (H:=little_endian_host) (Some 7))
      (Some sequence_received)
    = Ret (TSS2_RC_SUCCESS, (Some (set_nextData 18 sequence_received), (Some 0, tt))) /\
  exists m, run (Tss2_Sys_HashSequenceStart_Complete (H:=little_endian_host) (Some 7))
      (Some sequence_received)
    = Ret (TSS2_RC_SUCCESS, (Some (set_nextData m sequence_received), (Some 0x80000001, tt))).
Proof.
  refine (SequenceStart_misreads little_endian_host TPM2_ST_NO_SESSIONS 0x80000001 [] 0 7
    sequence_received _ _ _ _ _ _); [|by vm_compute..].
  split; try by vm_compute. split; [|by vm_compute..].
  apply (bool_decide_unpack _). by vm_compute.
Defined.
