(* ===== verification/Rc.v ===== *)
(** * Decoding of return codes (src/tss2-rc).

    The fields of a return code, the tables of error texts, the handlers of
    the layers, and the functions of the interface: [Tss2_RC_Decode],
    [Tss2_RC_SetHandler], [Tss2_RC_DecodeInfo], [Tss2_RC_DecodeInfoError].

    A C string is the sequence of its characters up to the terminating zero; a
    function that returns a static buffer returns the string it leaves there.
    The array [layer_handler] is passed as an argument and returned. *)

From stdpp Require Import strings.
From S2P Require Import Prelude Common.

Open Scope tss_scope.
Open Scope string_scope.
Open Scope Z_scope.

(** ** Formatted output *)

Definition digit (d : Z) : Ascii.ascii :=
  Ascii.ascii_of_N (Z.to_N (if d <? 10 then 48 + d else 55 + d)).

(** The digits of [z], the last [n] ones, before [acc]. *)
Fixpoint digits (n : nat) (base z : Z) (acc : string) : string :=
  match n with
  | O => acc
  | S n => let acc := String (digit (z mod base)) acc in
      if z / base =? 0 then acc else digits n base (z / base) acc
  end.

(** [%X] and [%u] of an unsigned int, with at most 8 and 10 digits. *)
Definition fmt_X (z : Z) : string := digits 8 16 z "".
Definition fmt_u (z : Z) : string := digits 10 10 z "".

(** [catbuf(b, fmt, ...)]: the formatted text [s] is appended and cut off at
    the end of the buffer, whose size [cap] counts the terminating zero. *)
Definition catbuf (cap : nat) (b s : string) : string :=
  b +:+ String.substring 0 (cap - String.length b - 1) s.

Definition TSS2_ERR_LAYER_NAME_MAX : nat := 17.
Definition TSS2_ERR_LAYER_ERROR_STR_MAX : nat := 512.
Definition TPM2_ERROR_TSS2_RC_LAYER_COUNT : nat := 255.

(** ** Fields of a return code *)

Definition TSS2_RC_LAYER_SHIFT : Z := 16.
Definition TSS2_RC_LAYER_MASK : Z := Z.shiftl 0xff TSS2_RC_LAYER_SHIFT.
Definition TPM2_ERROR_TSS2_RC_ERROR_MASK : Z := 0xFFFF.
Definition TPM2_RC_VER1 : Z := 0x100.
Definition TPM2_RC_FMT1 : Z := 0x080.

Definition tpm2_error_get (rc : TSS2_RC) : Z := wrap 16 (Z.land rc TPM2_ERROR_TSS2_RC_ERROR_MASK).
Definition tss2_rc_layer_number_get (rc : TSS2_RC) : Z :=
  wrap 8 (Z.shiftr (Z.land rc TSS2_RC_LAYER_MASK) TSS2_RC_LAYER_SHIFT).
Definition tpm2_rc_fmt1_N_get (rc : Z) : Z := wrap 8 (Z.shiftr (Z.land rc (Z.shiftl 0xF 8)) 8).
Definition tpm2_rc_fmt1_N_index_get (rc : Z) : Z := wrap 8 (Z.land (tpm2_rc_fmt1_N_get rc) 0x7).
Definition tpm2_rc_fmt1_N_is_handle (rc : Z) : bool := Z.land (tpm2_rc_fmt1_N_get rc) 0x8 =? 0.
Definition tpm2_rc_fmt1_P_get (rc : Z) : Z := wrap 8 (Z.shiftr (Z.land rc (Z.shiftl 1 6)) 6).
Definition tpm2_rc_fmt1_error_get (rc : Z) : Z := wrap 8 (Z.land rc 0x3F).
Definition tpm2_rc_fmt0_error_get (rc : Z) : Z := wrap 8 (Z.land rc 0x7F).
Definition tpm2_rc_tpm_fmt0_V_get (rc : Z) : Z := wrap 8 (Z.shiftr (Z.land rc (Z.shiftl 1 8)) 8).
Definition tpm2_rc_fmt0_T_get (rc : Z) : Z := wrap 8 (Z.shiftr (Z.land rc (Z.shiftl 1 10)) 8).
Definition tpm2_rc_fmt0_S_get (rc : TSS2_RC) : Z := wrap 8 (Z.shiftr (Z.land rc (Z.shiftl 1 11)) 8).
Definition tss2_rc_layer_format_get (rc : TSS2_RC) : Z :=
  wrap 8 (Z.shiftr (Z.land rc (Z.shiftl 1 7)) 7).

(** The truth value of a C integer. *)
Definition truth (z : Z) : bool := negb (z =? 0).

(** ** Error texts *)

Definition fmt1_err_strs : list (option string) :=
  [None;
   Some "asymmetric algorithm not supported or not correct";
   Some "inconsistent attributes";
   Some "hash algorithm not supported or not appropriate";
   Some "value is out of range or is not correct for the context";
   Some "hierarchy is not enabled or is not correct for the use";
   None;
   Some "key size is not supported";
   Some "mask generation function not supported";
   Some "mode of operation not supported";
   Some "the type of the value is not appropriate for the use";
   Some "the handle is not correct for the use";
   Some "unsupported key derivation function or function not appropriate for use";
   Some "value was out of allowed range";
   Some "the authorization HMAC check failed and DA counter incremented";
   Some "invalid nonce size or nonce value mismatch";
   Some "authorization requires assertion of PP";
   None;
   Some "unsupported or incompatible scheme";
   None; None;
   Some "structure is the wrong size";
   Some "unsupported symmetric algorithm or key size or not appropriate for instance";
   Some "incorrect structure tag";
   Some "union selector is incorrect";
   None;
   Some ("the TPM was unable to unmarshal a value because there were not enough octets in " +:+
      "the input buffer");
   Some "the signature is not valid";
   Some "key fields are not compatible with the selected use";
   Some "a policy check failed";
   None;
   Some "integrity check failed";
   Some "invalid ticket";
   Some "reserved bits not set to zero as required";
   Some "authorization failure without DA implications";
   Some "the policy has expired";
   Some ("the commandCode in the policy is not the commandCode of the command or the " +:+
      "command code in a policy command references a command that is not implemented");
   Some "public and sensitive portions of an object are not cryptographically bound";
   Some "curve not supported";
   Some "point is not on the required curve";
   Some "the command requires the firmware secret but the firmware secret is unavailable";
   Some ("the command requires the firmware SVN secret but the firmware SVN secret is " +:+
      "unavailable")].

Definition fmt0_warn_strs : list (option string) :=
  [None;
   Some "gap for context ID is too large";
   Some "out of memory for object contexts";
   Some "out of memory for session contexts";
   Some "out of shared objectsession memory or need space for internal operations";
   Some "out of session handles";
   Some "out of object handles";
   Some "bad locality";
   Some ("the TPM has suspended operation on the command forward progress was made and " +:+
      "the command may be retried");
   Some "the command was canceled";
   Some "TPM is performing selftests";
   None; None; None; None; None;
   Some ("the 1st handle in the handle area references a transient object or session that " +:+
      "is not loaded");
   Some ("the 2nd handle in the handle area references a transient object or session that " +:+
      "is not loaded");
   Some ("the 3rd handle in the handle area references a transient object or session that " +:+
      "is not loaded");
   Some ("the 4th handle in the handle area references a transient object or session that " +:+
      "is not loaded");
   Some ("the 5th handle in the handle area references a transient object or session that " +:+
      "is not loaded");
   Some ("the 6th handle in the handle area references a transient object or session that " +:+
      "is not loaded");
   Some ("the 7th handle in the handle area references a transient object or session that " +:+
      "is not loaded");
   None;
   Some "the 1st authorization session handle references a session that is not loaded";
   Some "the 2nd authorization session handle references a session that is not loaded";
   Some "the 3rd authorization session handle references a session that is not loaded";
   Some "the 4th authorization session handle references a session that is not loaded";
   Some "the 5th session handle references a session that is not loaded";
   Some "the 6th session handle references a session that is not loaded";
   Some "the 7th authorization session handle references a session that is not loaded";
   None;
   Some "the TPM is rate limiting accesses to prevent wearout of NV";
   Some ("authorizations for objects subject to DA protection are not allowed at this " +:+
      "time because the TPM is in DA lockout mode");
   Some "the TPM was not able to start the command";
   Some "the command may require writing of NV and NV is not current accessible"].

Definition fmt0_err_strs : list (option string) :=
  [Some "TPM not initialized by TPM2_Startup or already initialized";
   Some "commands not being accepted because of a TPM failure";
   None;
   Some "improper use of a sequence handle";
   None; None; None; None; None; None; None;
   Some "not currently used";
   None; None; None; None; None; None; None; None; None; None; None; None; None;
   Some "not currently used";
   None; None; None; None; None; None;
   Some "the command is disabled";
   Some "command failed because audit sequence required exclusivity";
   None; None;
   Some "authorization handle is not correct for command";
   Some "command requires an authorization session for handle and it is not present";
   Some "policy failure in math operation or an invalid authPolicy value";
   Some "PCR check fail";
   Some "PCR have changed since checked";
   None; None; None; None;
   Some ("For all commands, other than TPM2_FieldUpgradeData, this code indicates that " +:+
      "the TPM is in field upgrade mode. For TPM2_FieldUpgradeData, this code " +:+
      "indicates that the TPM is not in field upgrade mode");
   Some "context ID counter is at maximum";
   Some "authValue or authPolicy is not available for selected entity";
   Some "a _TPM_Init and StartupCLEAR is required before the TPM can resume operation";
   Some ("the protection algorithms hash and symmetric are not reasonably balanced. The " +:+
      "digest size of the hash must be larger than the key size of the symmetric " +:+
      "algorithm.");
   None; None; None; None; None; None; None; None; None; None; None; None; None; None; None; None;
   Some ("command commandSize value is inconsistent with contents of the command buffer. " +:+
      "Either the size is not the same as the octets loaded by the hardware interface " +:+
      "layer or the value is not large enough to hold a command header");
   Some "command code not supported";
   Some ("the value of authorizationSize is out of range or the number of octets in the " +:+
      "Authorization Area is greater than required");
   Some ("use of an authorization session with a context command or another command that " +:+
      "cannot have an authorization session");
   Some "NV offset+size is out of range";
   Some "Requested allocation size is larger than allowed";
   Some "NV access locked";
   Some "NV access authorization fails in command actions";
   Some ("an NV Index is used before being initialized or the state saved by " +:+
      "TPM2_ShutdownSTATE could not be restored");
   Some "insufficient space for NV allocation";
   Some "NV Index or persistent object already defined";
   None; None; None;
   Some "context in TPM2_ContextLoad is not valid";
   Some "cpHash value already set or not correct for use";
   Some "handle for parent is not a valid parent";
   Some "some function needs testing";
   Some ("returned when an internal function cannot process a request due to an " +:+
      "unspecified problem. This code is usually related to invalid parameters that " +:+
      "are not properly filtered by the input unmarshaling code");
   Some "the sensitive area did not unmarshal correctly after decryption"].

Definition errors : list (option string) :=
  [Some "Catch all for all errors not otherwise specified";
   Some "If called functionality isn't implemented";
   Some "A context structure is bad";
   Some "Passed in ABI version doesn't match called module's ABI version";
   Some "A pointer is NULL that isn't allowed to be NULL.";
   Some "A buffer isn't large enough";
   Some "Function called in the wrong order";
   Some "Fails to connect to next lower layer";
   Some "Operation timed out; function must be called again to be completed";
   Some "IO failure";
   Some "A parameter has a bad value";
   Some "Operation not permitted.";
   Some ("Session structures were sent, but command doesn't use them or doesn't use the " +:+
      "specified number of them");
   Some ("If function called that uses decrypt parameter, but command doesn't support " +:+
      "decrypt parameter.");
   Some ("If function called that uses encrypt parameter, but command doesn't support " +:+
      "decrypt parameter.");
   Some "If size of a parameter is incorrect";
   Some "Response is malformed";
   Some "Context not large enough";
   Some "Response is not long enough";
   Some "Unknown or unusable TCTI version";
   Some "Functionality not supported";
   Some "TCTI context is bad";
   Some "Failed to allocate memory";
   Some "The ESYS_TR resource object is bad";
   Some "Multiple sessions were marked with attribute decrypt";
   Some "Multiple sessions were marked with attribute encrypt";
   Some "Authorizing the TPM response failed";
   Some "No config is available";
   Some "The provided path is bad";
   Some "The object is not deletable";
   Some "The provided path already exists";
   Some "The key was not found";
   Some "Signature verification failed";
   Some "Hashes mismatch";
   Some "Key is not duplicatable";
   Some "The path was not found";
   Some "No certificate";
   Some "No PCR";
   Some "PCR not resettable";
   Some "The template is bad";
   Some "Authorization failed";
   Some "Authorization is unknown";
   Some "NV is not readable";
   Some "NV is too small";
   Some "NV is not writable";
   Some "The policy is unknown";
   Some "The NV type is wrong";
   Some "The name already exists";
   Some "No TPM available";
   Some "The key is bad";
   Some "No handle provided";
   Some "Provisioning was not executed.";
   Some "Already provisioned"].

(** The pointer at an index of a table, [None] for NULL. *)
Definition str_at (tab : list (option string)) (i : Z) : option string :=
  match tab !! Z.to_nat i with Some (Some s) => Some s | _ => None end.

Definition tss2_fmt1_err_strs_get (error : Z) : option string :=
  if error <? Zlen fmt1_err_strs then str_at fmt1_err_strs error else None.

Definition tss2_fmt0_err_strs_get (rc : Z) : option string :=
  let errnum := tpm2_rc_fmt0_error_get rc in
  let len := if truth (tpm2_rc_fmt0_S_get rc) then Zlen fmt0_warn_strs else Zlen fmt0_err_strs in
  let selection := if truth (tpm2_rc_fmt0_S_get rc) then fmt0_warn_strs else fmt0_err_strs in
  if len <=? errnum then None else str_at selection errnum.

(** ** Handlers of the layers *)

(** [const char *handler(TSS2_RC rc)]; the result may be NULL. *)
Definition TSS2_RC_HANDLER : Type := TSS2_RC -> option string.

Definition err_buf : nat := TSS2_ERR_LAYER_ERROR_STR_MAX + 1.

Definition tpm2_err_handler_fmt1 (rc : Z) : option string :=
  let buf := "" in
  let index := tpm2_rc_fmt1_N_index_get rc in
  let is_handle := tpm2_rc_fmt1_N_is_handle rc in
  let m := if truth (tpm2_rc_fmt1_P_get rc) then "parameter"
           else if is_handle then "handle" else "session" in
  let buf := catbuf err_buf buf m in
  let buf := if truth index then catbuf err_buf buf ("(" +:+ fmt_u index +:+ "):")
             else catbuf err_buf buf "(unk):" in
  let errnum := tpm2_rc_fmt1_error_get rc in
  match tss2_fmt1_err_strs_get errnum with
  | Some m => Some (catbuf err_buf buf m)
  | None => Some (catbuf err_buf buf ("unknown error num: 0x" +:+ fmt_X errnum))
  end.

Definition tpm2_err_handler_fmt0 (rc : TSS2_RC) : option string :=
  let buf := "" in
  let e := if truth (tpm2_rc_fmt0_S_get rc) then "warn" else "error" in
  let v := if truth (tpm2_rc_tpm_fmt0_V_get rc) then "2.0" else "1.2" in
  let buf := catbuf err_buf buf (e +:+ "(" +:+ v +:+ "): ") in
  let errnum := tpm2_rc_fmt0_error_get rc in
  if truth (tpm2_rc_tpm_fmt0_V_get rc) then
    if truth (tpm2_rc_fmt0_T_get rc)
    then Some (catbuf err_buf buf ("Vendor specific error: 0x" +:+ fmt_X errnum))
    else
      match tss2_fmt0_err_strs_get rc with
      | None => None
      | Some m => Some (catbuf err_buf buf m)
      end
  else Some (catbuf err_buf buf "unknown version 1.2 error code").

Definition tpm2_ehandler : TSS2_RC_HANDLER := fun rc =>
  let is_fmt_1 := truth (tss2_rc_layer_format_get rc) in
  if is_fmt_1 then tpm2_err_handler_fmt1 rc else tpm2_err_handler_fmt0 rc.

Definition tss_err_handler : TSS2_RC_HANDLER := fun rc =>
  if wrap 32 (rc - 1) <? Zlen errors then str_at errors (wrap 32 (rc - 1)) else None.

(** An element of the array [layer_handler]. *)
Record layer_entry : Type := Layer {
  layer_name : string;
  layer_function : option TSS2_RC_HANDLER
}.

Definition ADD_HANDLER (name : string) (handler : TSS2_RC_HANDLER) : layer_entry :=
  Layer name (Some handler).
Definition ADD_NULL_HANDLER : layer_entry := Layer "" None.

(** The initial contents; elements without an initialiser are zero. *)
Definition layer_handler : list layer_entry :=
  [ADD_HANDLER "tpm" tpm2_ehandler; ADD_NULL_HANDLER; ADD_NULL_HANDLER; ADD_NULL_HANDLER;
   ADD_NULL_HANDLER; ADD_NULL_HANDLER;
   ADD_HANDLER "fapi" tss_err_handler; ADD_HANDLER "esapi" tss_err_handler;
   ADD_HANDLER "sys" tss_err_handler; ADD_HANDLER "mu" tss_err_handler;
   ADD_HANDLER "tcti" tss_err_handler; ADD_HANDLER "rmt" tpm2_ehandler;
   Layer "rm" None; ADD_HANDLER "policy" tss_err_handler]
  ++ replicate (TPM2_ERROR_TSS2_RC_LAYER_COUNT + 1 - 14) (Layer "" None).

Definition unknown_layer_handler (rc : TSS2_RC) : string := catbuf 32 "" ("0x" +:+ fmt_X rc).

(** ** The interface *)

(** Returns the old handler; [None] is an index out of the array. *)
Definition Tss2_RC_SetHandler (layers : list layer_entry) (layer : Z) (name : option string)
    (handler : option TSS2_RC_HANDLER) :
    outcome (option TSS2_RC_HANDLER * list layer_entry) :=
  let* old := access (layers !! Z.to_nat layer) in
  let new_name := match handler, name with
    | Some _, Some name => String.substring 0 (TSS2_ERR_LAYER_NAME_MAX - 1) name
    | _, _ => ""
    end in
  Ret (layer_function old, <[Z.to_nat layer := Layer new_name handler]> layers).

Definition decode_buf : nat := TSS2_ERR_LAYER_NAME_MAX + TSS2_ERR_LAYER_ERROR_STR_MAX + 1.

Definition Tss2_RC_Decode (layers : list layer_entry) (rc : TSS2_RC) : outcome string :=
  let buf := "" in
  let layer := tss2_rc_layer_number_get rc in
  let* entry := access (layers !! Z.to_nat layer) in
  let lname := layer_name entry in
  let buf := match lname with
    | String _ _ => catbuf decode_buf buf (lname +:+ ":")
    | EmptyString => catbuf decode_buf buf (fmt_u layer +:+ ":")
    end in
  match layer_function entry with
  | Some handler =>
      let err_bits := tpm2_error_get rc in
      let e := if truth err_bits then handler err_bits else Some "success" in
      match e with
      | Some e => Ret (catbuf decode_buf buf e)
      | None => Ret (catbuf decode_buf buf ("0x" +:+ fmt_X err_bits))
      end
  | None => Ret (catbuf decode_buf buf (unknown_layer_handler rc))
  end.

Record TSS2_RC_INFO : Type := RcInfo {
  info_layer : Z;
  info_format : Z;
  info_error : TSS2_RC;
  info_parameter : Z;
  info_session : Z;
  info_handle : Z
}.

Definition Tss2_RC_DecodeInfo (rc : TSS2_RC) (info : option TSS2_RC_INFO) :
    TSS2_RC * option TSS2_RC_INFO :=
  match info with
  | None => (TSS2_BASE_RC_BAD_REFERENCE, None)
  | Some _ =>
      let layer := tss2_rc_layer_number_get rc in
      let format := tss2_rc_layer_format_get rc in
      if truth format then
        let error := Z.lor (tpm2_rc_fmt1_error_get rc) TPM2_RC_FMT1 in
        let n := tpm2_rc_fmt1_N_index_get rc in
        if truth (tpm2_rc_fmt1_P_get rc)
        then (TSS2_RC_SUCCESS, Some (RcInfo layer format error n 0 0))
        else if tpm2_rc_fmt1_N_is_handle rc
        then (TSS2_RC_SUCCESS, Some (RcInfo layer format error 0 0 n))
        else (TSS2_RC_SUCCESS, Some (RcInfo layer format error 0 n 0))
      else (TSS2_RC_SUCCESS, Some (RcInfo layer format (tpm2_error_get rc) 0 0 0))
  end.

Definition Tss2_RC_DecodeInfoError (info : option TSS2_RC_INFO) : option string :=
  match info with
  | None => None
  | Some info =>
      let m := if truth (info_format info)
               then tss2_fmt1_err_strs_get (Z.lxor (info_error info) TPM2_RC_FMT1)
               else tss2_fmt0_err_strs_get (Z.lxor (info_error info) TPM2_RC_VER1) in
      Some (match m with
        | Some m => catbuf err_buf "" m
        | None => catbuf err_buf "" ("0x" +:+ fmt_X (info_error info))
        end)
  end.
