(* ===== verification/RcProps.v ===== *)
(** * Properties of the decoding of return codes.

    The fields of a code as arithmetic, the texts without cut-offs, and the
    registration of handlers. *)

From stdpp Require Import strings.
From S2P Require Import Prelude Common Rc.

Open Scope tss_scope.
Open Scope string_scope.
Open Scope Z_scope.

(** ** Strings *)

Lemma append_cons a s t : String a s +:+ t = String a (s +:+ t).
Proof. done. Qed.

Lemma length_append s t : String.length (s +:+ t) = (String.length s + String.length t)%nat.
Proof. induction s as [|a s IH]; [done|]. rewrite append_cons. simpl. by rewrite IH. Qed.

Lemma append_nil_r s : s +:+ "" = s.
Proof. induction s as [|a s IH]; [done|]. by rewrite append_cons, IH. Qed.

Lemma append_assoc s t u : (s +:+ t) +:+ u = s +:+ (t +:+ u).
Proof. induction s as [|a s IH]; [done|]. by rewrite !append_cons, IH. Qed.

Lemma length_substring0 n s : (String.length (String.substring 0 n s) <= n)%nat.
Proof. revert n. induction s; destruct n; simpl; [lia..|]. specialize (IHs n). lia. Qed.

Lemma substring0_all n s : (String.length s <= n)%nat -> String.substring 0 n s = s.
Proof.
  revert n. induction s; destruct n; simpl; intros; [done..|lia|]. rewrite IHs; [done|lia].
Qed.

(** Appending to a buffer with room. *)
Lemma catbuf_fits cap b s :
  (String.length b + String.length s < cap)%nat -> catbuf cap b s = b +:+ s.
Proof. intros. unfold catbuf. rewrite substring0_all; [done|lia]. Qed.

Lemma catbuf_bound cap b s :
  (String.length b < cap)%nat -> (String.length (catbuf cap b s) < cap)%nat.
Proof.
  intros. unfold catbuf. rewrite length_append.
  pose proof (length_substring0 (cap - String.length b - 1) s). lia.
Qed.

Lemma length_digits n base z acc :
  (String.length (digits n base z acc) <= n + String.length acc)%nat.
Proof.
  revert z acc. induction n; intros; simpl; [lia|]. case_match; simpl; [lia|].
  etrans; [apply IHn|]. simpl. lia.
Qed.

Lemma length_fmt_X z : (String.length (fmt_X z) <= 8)%nat.
Proof. apply (length_digits 8 16 z ""). Qed.

Lemma length_fmt_u z : (String.length (fmt_u z) <= 10)%nat.
Proof. apply (length_digits 10 10 z ""). Qed.

(** ** Fields *)

Lemma field_get rc k n :
  0 <= k -> 0 <= n ->
  Z.shiftr (Z.land rc (Z.shiftl (Z.ones k) n)) n = rc / 2 ^ n mod 2 ^ k.
Proof.
  intros. rewrite Z.shiftr_land, Z.shiftr_shiftl_l, Z.sub_diag, Z.shiftl_0_r by lia.
  by rewrite Z.land_ones, Z.shiftr_div_pow2.
Qed.

Lemma wrap_field w z k : 0 <= k <= w -> wrap w (z mod 2 ^ k) = z mod 2 ^ k.
Proof.
  intros. apply wrap_small. pose proof (Z.mod_pos_bound z (2 ^ k) ltac:(lia)).
  pose proof (Z.pow_le_mono_r 2 k w ltac:(lia) ltac:(lia)). lia.
Qed.

Lemma bit_get rc n : 0 <= n -> wrap 8 (rc / 2 ^ n mod 2 ^ 1) = Z.b2z (Z.testbit rc n).
Proof. intros. rewrite wrap_field by lia. by rewrite Z.testbit_spec'. Qed.

Lemma truth_b2z b : truth (Z.b2z b) = b.
Proof. by destruct b. Qed.

Lemma layer_number_eq rc : tss2_rc_layer_number_get rc = rc / 65536 mod 256.
Proof.
  unfold tss2_rc_layer_number_get, TSS2_RC_LAYER_MASK, TSS2_RC_LAYER_SHIFT.
  change 0xff with (Z.ones 8). rewrite field_get by lia. by apply wrap_field.
Qed.

Lemma error_eq rc : tpm2_error_get rc = rc mod 65536.
Proof.
  unfold tpm2_error_get, TPM2_ERROR_TSS2_RC_ERROR_MASK. change 0xFFFF with (Z.ones 16).
  rewrite Z.land_ones by lia. by apply wrap_field.
Qed.

Lemma fmt1_error_eq rc : tpm2_rc_fmt1_error_get rc = rc mod 64.
Proof.
  unfold tpm2_rc_fmt1_error_get. change 0x3F with (Z.ones 6).
  rewrite Z.land_ones by lia. by apply wrap_field.
Qed.

Lemma fmt0_error_eq rc : tpm2_rc_fmt0_error_get rc = rc mod 128.
Proof.
  unfold tpm2_rc_fmt0_error_get. change 0x7F with (Z.ones 7).
  rewrite Z.land_ones by lia. by apply wrap_field.
Qed.

Lemma format_eq rc : tss2_rc_layer_format_get rc = Z.b2z (Z.testbit rc 7).
Proof. unfold tss2_rc_layer_format_get. change 1 with (Z.ones 1) at 1. rewrite field_get by lia. by apply bit_get. Qed.

Lemma P_eq rc : tpm2_rc_fmt1_P_get rc = Z.b2z (Z.testbit rc 6).
Proof. unfold tpm2_rc_fmt1_P_get. change 1 with (Z.ones 1) at 1. rewrite field_get by lia. by apply bit_get. Qed.

Lemma V_eq rc : tpm2_rc_tpm_fmt0_V_get rc = Z.b2z (Z.testbit rc 8).
Proof. unfold tpm2_rc_tpm_fmt0_V_get. change 1 with (Z.ones 1) at 1. rewrite field_get by lia. by apply bit_get. Qed.

Lemma N_eq rc : tpm2_rc_fmt1_N_get rc = rc / 256 mod 16.
Proof.
  unfold tpm2_rc_fmt1_N_get. change 0xF with (Z.ones 4). rewrite field_get by lia.
  by apply wrap_field.
Qed.

Lemma land_bit rc n :
  0 <= n -> Z.land rc (Z.shiftl 1 n) = Z.shiftl (Z.b2z (Z.testbit rc n)) n.
Proof.
  intros Hn. apply Z.bits_inj'. intros m Hm. rewrite Z.land_spec, !Z.shiftl_spec by lia.
  destruct (Z.eq_dec m n) as [->|Ne].
  - rewrite Z.sub_diag, !Z.b2z_bit0. apply andb_true_r.
  - destruct (Z.lt_ge_cases m n); [rewrite !(Z.testbit_neg_r _ (m - n)) by lia; apply andb_false_r|].
    rewrite (Z.bits_above_log2 1) by (simpl; lia). rewrite andb_false_r. symmetry.
    destruct (Z.testbit rc n); [|apply Z.bits_0]. by rewrite Z.bits_above_log2 by (simpl; lia).
Qed.

Lemma S_eq rc : truth (tpm2_rc_fmt0_S_get rc) = Z.testbit rc 11.
Proof. unfold tpm2_rc_fmt0_S_get. rewrite land_bit by lia. by destruct (Z.testbit rc 11). Qed.

Lemma T_eq rc : truth (tpm2_rc_fmt0_T_get rc) = Z.testbit rc 10.
Proof. unfold tpm2_rc_fmt0_T_get. rewrite land_bit by lia. by destruct (Z.testbit rc 10). Qed.

Lemma N_is_handle_eq rc : tpm2_rc_fmt1_N_is_handle rc = negb (Z.testbit rc 11).
Proof.
  unfold tpm2_rc_fmt1_N_is_handle. change 0x8 with (Z.shiftl 1 3). rewrite land_bit, N_eq by lia.
  change 256 with (2 ^ 8). change 16 with (2 ^ 4).
  rewrite Z.mod_pow2_bits_low, Z.div_pow2_bits by lia. change (3 + 8) with 11.
  by destruct (Z.testbit rc 11).
Qed.

Lemma N_index_eq rc : tpm2_rc_fmt1_N_index_get rc = rc / 256 mod 8.
Proof.
  unfold tpm2_rc_fmt1_N_index_get. rewrite N_eq. change 0x7 with (Z.ones 3).
  rewrite Z.land_ones by lia. rewrite wrap_field by lia. change (2 ^ 3) with 8.
  apply Z.mod_mod_divide. by exists 2.
Qed.

Create Rewrite HintDb rc.
#[export] Hint Rewrite layer_number_eq error_eq fmt1_error_eq fmt0_error_eq format_eq P_eq V_eq
  T_eq S_eq N_is_handle_eq N_index_eq truth_b2z : rc.

(** ** The texts without cut-offs *)

(** The rows of the tables that are texts, with their longest length. *)
Definition texts_below (n : nat) (tab : list (option string)) : bool :=
  forallb (fun e => match e with Some s => Nat.ltb (String.length s) n | None => true end) tab.

Lemma str_at_below n tab i s :
  texts_below n tab = true -> str_at tab i = Some s -> (String.length s < n)%nat.
Proof.
  unfold texts_below, str_at. rewrite forallb_forall. intros F E.
  destruct (tab !! Z.to_nat i) as [[t|]|] eqn:El; simplify_eq.
  apply list_elem_of_lookup_2, list_elem_of_In, F in El. by apply Nat.ltb_lt.
Qed.

Lemma fmt1_text_short e s : tss2_fmt1_err_strs_get e = Some s -> (String.length s < 200)%nat.
Proof.
  unfold tss2_fmt1_err_strs_get. case_match; [|done]. by apply str_at_below; vm_compute.
Qed.

Lemma fmt0_text_short rc s : tss2_fmt0_err_strs_get rc = Some s -> (String.length s < 240)%nat.
Proof.
  unfold tss2_fmt0_err_strs_get. case_match; [done|].
  case_match; by apply str_at_below; vm_compute.
Qed.

Lemma tss_text_short rc s : tss_err_handler rc = Some s -> (String.length s < 200)%nat.
Proof. unfold tss_err_handler. case_match; [|done]. by apply str_at_below; vm_compute. Qed.

(** What a format 1 code is about. *)
Inductive subject := SParameter | SHandle | SSession.
Definition subject_name (w : subject) : string :=
  match w with SParameter => "parameter" | SHandle => "handle" | SSession => "session" end.

Definition fmt1_prefix (w : subject) (index : Z) : string :=
  subject_name w +:+ (if index =? 0 then "(unk):" else "(" +:+ fmt_u index +:+ "):").
Definition fmt1_message (n : Z) : string :=
  match tss2_fmt1_err_strs_get n with
  | Some m => m
  | None => "unknown error num: 0x" +:+ fmt_X n
  end.

Definition subject_of (e : Z) : subject :=
  if Z.testbit e 6 then SParameter else if Z.testbit e 11 then SSession else SHandle.

Definition fmt0_prefix (e : Z) : string :=
  (if Z.testbit e 11 then "warn" else "error") +:+
  (if Z.testbit e 8 then "(2.0): " else "(1.2): ").

(** The text of a code of the TPM. *)
Definition tpm_text (e : Z) : option string :=
  if Z.testbit e 7 then Some (fmt1_prefix (subject_of e) (e / 256 mod 8) +:+ fmt1_message (e mod 64))
  else if negb (Z.testbit e 8) then Some (fmt0_prefix e +:+ "unknown version 1.2 error code")
  else if Z.testbit e 10
  then Some (fmt0_prefix e +:+ "Vendor specific error: 0x" +:+ fmt_X (e mod 128))
  else option_map (fun m => fmt0_prefix e +:+ m) (tss2_fmt0_err_strs_get e).

Lemma fmt1_prefix_short w i : (String.length (fmt1_prefix w i) <= 30)%nat.
Proof.
  unfold fmt1_prefix. rewrite length_append. pose proof (length_fmt_u i).
  assert (String.length (subject_name w) <= 9)%nat by (destruct w; simpl; lia).
  case_match; [simpl; lia|]. rewrite !length_append. simpl. lia.
Qed.

Lemma fmt1_message_short n : (String.length (fmt1_message n) < 200)%nat.
Proof.
  unfold fmt1_message. case_match eqn:E; [by apply fmt1_text_short in E|].
  pose proof (length_fmt_X n). rewrite length_append. simpl. lia.
Qed.

Lemma fmt0_prefix_short e : (String.length (fmt0_prefix e) <= 12)%nat.
Proof. unfold fmt0_prefix. repeat case_match; simpl; lia. Qed.

Lemma tpm_text_short e s : tpm_text e = Some s -> (String.length s < 300)%nat.
Proof.
  pose proof (fmt1_prefix_short (subject_of e) (e / 256 mod 8)).
  pose proof (fmt1_message_short (e mod 64)). pose proof (fmt0_prefix_short e).
  pose proof (length_fmt_X (e mod 128)). unfold tpm_text. intros Et.
  repeat case_match; simplify_eq; rewrite ?length_append; simpl; try lia.
  destruct (tss2_fmt0_err_strs_get e) eqn:E; simplify_eq/=. apply fmt0_text_short in E.
  rewrite length_append. lia.
Qed.

Lemma fmt1_buffer w i s :
  (String.length s < 200)%nat ->
  catbuf err_buf (if truth i then catbuf err_buf (subject_name w) ("(" +:+ fmt_u i +:+ "):")
                  else catbuf err_buf (subject_name w) "(unk):") s
  = fmt1_prefix w i +:+ s.
Proof.
  intros Hs. pose proof (fmt1_prefix_short w i) as Ls. unfold fmt1_prefix, truth in *.
  change err_buf with 513%nat. rewrite length_append in Ls.
  destruct (i =? 0); cbn [negb]; rewrite (catbuf_fits _ (subject_name _)) by lia;
    apply catbuf_fits; rewrite !length_append in *; lia.
Qed.

Lemma fmt1_handler_text e :
  tpm2_err_handler_fmt1 e
  = Some (fmt1_prefix (subject_of e) (e / 256 mod 8) +:+ fmt1_message (e mod 64)).
Proof.
  pose proof (fmt1_message_short (e mod 64)) as Lm.
  unfold tpm2_err_handler_fmt1, fmt1_message in *. autorewrite with rc.
  replace (if Z.testbit e 6 then _ else _) with (subject_name (subject_of e))
    by (unfold subject_of; by repeat case_match).
  rewrite (catbuf_fits err_buf "" (subject_name _))
    by (change err_buf with 513%nat; destruct (subject_of e); simpl; lia).
  change ("" +:+ ?s) with s.
  destruct (tss2_fmt1_err_strs_get (e mod 64)); by rewrite fmt1_buffer.
Qed.

Lemma tpm_ehandler_text e : tpm2_ehandler e = tpm_text e.
Proof.
  unfold tpm2_ehandler, tpm_text. autorewrite with rc. case_match; [apply fmt1_handler_text|].
  pose proof (fmt0_prefix_short e) as Lp. unfold tpm2_err_handler_fmt0. autorewrite with rc.
  replace (catbuf err_buf "" _) with (fmt0_prefix e)
    by (unfold fmt0_prefix; by repeat case_match).
  pose proof (length_fmt_X (e mod 128)). change err_buf with 513%nat.
  destruct (Z.testbit e 8); cbn [negb]; [|rewrite catbuf_fits; [done|simpl; lia]].
  destruct (Z.testbit e 10); [rewrite catbuf_fits; [done|rewrite length_append; simpl; lia]|].
  destruct (tss2_fmt0_err_strs_get e) eqn:E; [|done]. apply fmt0_text_short in E.
  rewrite catbuf_fits; [done|lia].
Qed.

(** ** Whole codes *)

(** A name from the table, or the number of the layer. *)
Definition entry_prefix (layer : Z) (name : string) : string :=
  (if String.eqb name "" then fmt_u layer else name) +:+ ":".

Definition entry_message (h : option TSS2_RC_HANDLER) (rc : TSS2_RC) : string :=
  let e := rc mod 65536 in
  match h with
  | None => "0x" +:+ fmt_X rc
  | Some h => if e =? 0 then "success" else default ("0x" +:+ fmt_X e) (h e)
  end.

Lemma entry_prefix_short layer name :
  (String.length name <= 16)%nat -> (String.length (entry_prefix layer name) <= 17)%nat.
Proof.
  intros. unfold entry_prefix. rewrite length_append. pose proof (length_fmt_u layer).
  simpl. case_match; lia.
Qed.

(** What [Tss2_RC_Decode] returns, for any table. *)
Lemma decode_entry layers rc name h :
  layers !! Z.to_nat (rc / 65536 mod 256) = Some (Layer name h) ->
  (String.length name <= 16)%nat ->
  Tss2_RC_Decode layers rc
  = Ret (catbuf decode_buf (entry_prefix (rc / 65536 mod 256) name) (entry_message h rc)).
Proof.
  intros El Ln. unfold Tss2_RC_Decode. autorewrite with rc. rewrite El. cbn [access layer_name layer_function].
  pose proof (entry_prefix_short (rc / 65536 mod 256) name Ln) as Lp.
  replace (match name with EmptyString => _ | String _ _ => _ end)
    with (entry_prefix (rc / 65536 mod 256) name).
  2:{ unfold entry_prefix in *. destruct name; cbn [String.eqb] in *;
        (rewrite catbuf_fits; [done|change decode_buf with 530%nat; simpl in *; lia]). }
  unfold entry_message, truth. destruct h as [h|].
  - destruct (_ =? 0); cbn [negb]; [done|]. by destruct (h _).
  - unfold unknown_layer_handler. pose proof (length_fmt_X rc).
    rewrite (catbuf_fits 32); [done|rewrite length_append; simpl; lia].
Qed.

(** The names and handlers at the start, by layer. *)
Definition default_entry (layer : Z) : string * option TSS2_RC_HANDLER :=
  match layer with
  | 0 => ("tpm", Some tpm_text)
  | 6 => ("fapi", Some tss_err_handler)
  | 7 => ("esapi", Some tss_err_handler)
  | 8 => ("sys", Some tss_err_handler)
  | 9 => ("mu", Some tss_err_handler)
  | 10 => ("tcti", Some tss_err_handler)
  | 11 => ("rmt", Some tpm_text)
  | 12 => ("rm", None)
  | 13 => ("policy", Some tss_err_handler)
  | _ => ("", None)
  end.

(** The text of a code, in the default configuration. *)
Definition decode_text (rc : TSS2_RC) : string :=
  let layer := rc / 65536 mod 256 in
  let (name, h) := default_entry layer in
  entry_prefix layer name +:+ entry_message h rc.

Definition entry_like (layer : Z) (e : layer_entry) : Prop :=
  layer_name e = (default_entry layer).1 /\
  match layer_function e, (default_entry layer).2 with
  | None, None => True
  | Some f, Some g => forall x, f x = g x
  | _, _ => False
  end.

Lemma layer_handler_default layer :
  0 <= layer < 256 ->
  exists e, layer_handler !! Z.to_nat layer = Some e /\ entry_like layer e.
Proof.
  intros Hl. destruct (Z.lt_ge_cases layer 14) as [Hs|Hb].
  - assert (C : Forall (fun n => exists e, layer_handler !! Z.to_nat n = Some e /\ entry_like n e)
      (seqZ 0 14)).
    { repeat constructor; eexists; (split; [reflexivity|]); split; try reflexivity; simpl;
        auto using tpm_ehandler_text. }
    rewrite list.Forall_forall in C. apply C, elem_of_seqZ. lia.
  - exists (Layer "" None). split.
    + unfold layer_handler. rewrite lookup_app_r by (simpl; lia). apply lookup_replicate. simpl.
      split; [done|lia].
    + assert (E : default_entry layer = ("", None)); [|by unfold entry_like; rewrite E].
      unfold default_entry. repeat case_match; done || lia.
Qed.

Lemma default_name_short layer : (String.length (default_entry layer).1 <= 6)%nat.
Proof. unfold default_entry. repeat case_match; simpl; lia. Qed.

Lemma default_message_short layer rc :
  (String.length (entry_message (default_entry layer).2 rc) < 300)%nat.
Proof.
  pose proof (length_fmt_X rc). pose proof (length_fmt_X (rc mod 65536)).
  assert (Hh : match (default_entry layer).2 with
      | Some h => forall e s, h e = Some s -> (String.length s < 300)%nat
      | None => True end).
  { unfold default_entry. repeat case_match; simplify_eq/=; try done; intros e s E;
      first [apply tpm_text_short in E | apply tss_text_short in E]; lia. }
  unfold entry_message. destruct (default_entry layer).2 as [h|]; [|rewrite length_append; simpl; lia].
  case_match; [simpl; lia|]. destruct (h (rc mod 65536)) eqn:E; simpl; [by eapply Hh|rewrite length_append; simpl; lia].
Qed.

Lemma decode_default (rc : TSS2_RC) :
  Tss2_RC_Decode layer_handler rc = Ret (decode_text rc) /\
  (String.length (decode_text rc) < 330)%nat.
Proof.
  set (layer := rc / 65536 mod 256).
  destruct (layer_handler_default layer) as ([name f]&El&En&Ef);
    [apply Z.mod_pos_bound; lia|]. cbn [layer_name layer_function] in *.
  pose proof (default_name_short layer) as Ln. rewrite <-En in Ln.
  rewrite (decode_entry _ _ name f) by (done || lia). fold layer. unfold decode_text. fold layer.
  pose proof (default_message_short layer rc) as Lm.
  destruct (default_entry layer) as [name' g]. simpl in En, Ef, Lm. subst name'.
  pose proof (entry_prefix_short layer name ltac:(lia)).
  replace (entry_message f rc) with (entry_message g rc).
  { rewrite length_append. split; [|lia].
    rewrite catbuf_fits; [done|change decode_buf with 530%nat; lia]. }
  unfold entry_message. destruct f, g; try done. by rewrite Ef.
Qed.

(** C39: with the handlers of the library, [Tss2_RC_Decode] returns, for every
    code, the name or the number of its layer, a colon and the text of the
    error: nothing is cut off by the buffers, and the fields are those of the
    specification (the format in bit 7, parameter, session and handle in bits
    6 and 11, the version and vendor bits, the number of the error). *)
Theorem rc_decode (rc : TSS2_RC) :
  Tss2_RC_Decode layer_handler rc = Ret (decode_text rc) /\
  (String.length (decode_text rc) < decode_buf)%nat.
Proof.
  destruct (decode_default rc) as [E L]. split; [exact E|].
  change decode_buf with 530%nat. lia.
Qed.

(** ** Format 1 codes *)

(** The code of layer [layer] for error [n] of parameter, handle or session
    [index]. *)
Definition fmt1_code (layer : Z) (w : subject) (index n : Z) : TSS2_RC :=
  layer * 65536 + index * 256 + 128 + n +
  match w with SParameter => 64 | SHandle => 0 | SSession => 2048 end.

Lemma bit_value x n b : 0 <= n -> x / 2 ^ n mod 2 = Z.b2z b -> Z.testbit x n = b.
Proof. intros Hn E. apply Z.b2z_inj. by rewrite Z.testbit_spec'. Qed.

Ltac div_lia := Z.to_euclidean_division_equations; lia.

Lemma fmt1_code_fields layer w index n :
  0 <= layer < 256 -> 0 <= index < 8 -> 0 <= n < 64 ->
  let rc := fmt1_code layer w index n in
  rc / 65536 mod 256 = layer /\ rc / 256 mod 8 = index /\ rc mod 64 = n /\
  Z.testbit rc 7 = true /\ subject_of rc = w.
Proof.
  intros Hl Hi Hn rc.
  assert (B7 : Z.testbit rc 7 = true)
    by (apply bit_value; [done|]; unfold rc, fmt1_code; cbn [Z.b2z]; change (2 ^ 7) with 128;
        destruct w; div_lia).
  assert (B6 : Z.testbit rc 6 = match w with SParameter => true | _ => false end)
    by (apply bit_value; [done|]; unfold rc, fmt1_code; change (2 ^ 6) with 64;
        destruct w; cbn [Z.b2z]; div_lia).
  assert (B11 : Z.testbit rc 11 = match w with SSession => true | _ => false end)
    by (apply bit_value; [done|]; unfold rc, fmt1_code; change (2 ^ 11) with 2048;
        destruct w; cbn [Z.b2z]; div_lia).
  split_and!; [unfold rc, fmt1_code; destruct w; div_lia..|done|].
  unfold subject_of. rewrite B6, B11. by destruct w.
Qed.

(** The format bit as the C functions set and clear it. *)
Lemma fmt1_bit n : 0 <= n < 64 ->
  Z.lor n TPM2_RC_FMT1 = 128 + n /\ Z.lxor (128 + n) TPM2_RC_FMT1 = n.
Proof.
  intros Hn. assert (C : Forall (fun n => Z.lor n TPM2_RC_FMT1 = 128 + n /\
    Z.lxor (128 + n) TPM2_RC_FMT1 = n) (seqZ 0 64)) by (by repeat constructor).
  rewrite list.Forall_forall in C. apply C, elem_of_seqZ. lia.
Qed.

Definition fmt1_info (layer : Z) (w : subject) (index n : Z) : TSS2_RC_INFO :=
  match w with
  | SParameter => RcInfo layer 1 (128 + n) index 0 0
  | SSession => RcInfo layer 1 (128 + n) 0 index 0
  | SHandle => RcInfo layer 1 (128 + n) 0 0 index
  end.

(** C40: a format 1 code built from a layer, a parameter, session or handle with
    its index, and an error number is taken apart into exactly these by
    [Tss2_RC_DecodeInfo]. For an error number that has a text,
    [Tss2_RC_DecodeInfoError] gives this text, and for the layers of the TPM and
    of the resource manager (0 and 11) [Tss2_RC_Decode] gives the same text
    after the name of the layer and of what the code is about. For a number
    without a text the two differ: the one gives the number with bit 7 set, the
    other "unknown error num" with the number. For the other layers
    [Tss2_RC_Decode] does not take format 1 codes apart. *)
Theorem rc_fmt1_roundtrip layer w index n info :
  0 <= layer < 256 -> 0 <= index < 8 -> 0 <= n < 64 ->
  let rc := fmt1_code layer w index n in
  let known := fmt1_info layer w index n in
  Tss2_RC_DecodeInfo rc (Some info) = (TSS2_RC_SUCCESS, Some known) /\
  match tss2_fmt1_err_strs_get n with
  | Some t =>
      Tss2_RC_DecodeInfoError (Some known) = Some t /\
      (layer = 0 \/ layer = 11 -> Tss2_RC_Decode layer_handler rc
        = Ret ((if layer =? 0 then "tpm:" else "rmt:") +:+ fmt1_prefix w index +:+ t))
  | None =>
      Tss2_RC_DecodeInfoError (Some known) = Some ("0x" +:+ fmt_X (128 + n)) /\
      (layer = 0 \/ layer = 11 -> Tss2_RC_Decode layer_handler rc
        = Ret ((if layer =? 0 then "tpm:" else "rmt:") +:+ fmt1_prefix w index +:+
               "unknown error num: 0x" +:+ fmt_X n))
  end.
Proof.
  intros Hl Hi Hn rc known.
  destruct (fmt1_code_fields layer w index n Hl Hi Hn) as (El&Ei&En&B7&Ew). fold rc in El, Ei, En, B7, Ew.
  destruct (fmt1_bit n Hn) as [Or Xor].
  enough (Tss2_RC_DecodeInfo rc (Some info) = (TSS2_RC_SUCCESS, Some known) /\
    Tss2_RC_DecodeInfoError (Some known)
      = Some (default ("0x" +:+ fmt_X (128 + n)) (tss2_fmt1_err_strs_get n)) /\
    (layer = 0 \/ layer = 11 -> Tss2_RC_Decode layer_handler rc
      = Ret ((if layer =? 0 then "tpm:" else "rmt:") +:+ fmt1_prefix w index +:+ fmt1_message n)))
    as (E1 & E2 & E3).
  { split; [exact E1|]. unfold fmt1_message in E3. by destruct (tss2_fmt1_err_strs_get n). }
  split_and!.
  - unfold Tss2_RC_DecodeInfo, known, fmt1_info. autorewrite with rc.
    rewrite B7, El, Ei, En, Or. cbn [Z.b2z truth Z.eqb negb]. rewrite <-Ew.
    unfold subject_of. destruct (Z.testbit rc 6), (Z.testbit rc 11); reflexivity.
  - unfold Tss2_RC_DecodeInfoError.
    assert (Ef : info_format known = 1 /\ info_error known = 128 + n) by (by destruct w).
    destruct Ef as [-> ->]. cbn [truth Z.eqb negb]. rewrite Xor. change err_buf with 513%nat.
    pose proof (length_fmt_X (128 + n)).
    destruct (tss2_fmt1_err_strs_get n) eqn:E; [apply fmt1_text_short in E|];
      rewrite catbuf_fits; try reflexivity; rewrite ?length_append; simpl; lia.
  - intros Lt. rewrite (proj1 (decode_default rc)). unfold decode_text. rewrite El.
    destruct (fmt1_code_fields 0 w index n) as (_&Ei'&En'&B7'&Ew'); [lia..|].
    replace (fmt1_code 0 w index n) with (rc mod 65536) in *
      by (unfold rc, fmt1_code; destruct w; div_lia).
    assert (Ne : (rc mod 65536 =? 0) = false) by (unfold rc, fmt1_code; destruct w; div_lia).
    assert (Et : tpm_text (rc mod 65536) = Some (fmt1_prefix w index +:+ fmt1_message n))
      by (unfold tpm_text; by rewrite B7', Ei', En', Ew').
    destruct Lt as [-> | ->]; unfold entry_message, entry_prefix; cbn [default_entry Z.eqb];
      by rewrite Ne, Et.
Qed.

(** ** Registering handlers *)

(** The table has an element for every value of the layer byte, and no name
    is longer than its buffer. *)
Definition layers_ok (layers : list layer_entry) : Prop :=
  length layers = 256%nat /\ Forall (fun e => (String.length (layer_name e) <= 16)%nat) layers.

Lemma layer_handler_ok : layers_ok layer_handler.
Proof.
  split; [done|]. apply list.Forall_forall. intros e He.
  unfold layer_handler in He. apply elem_of_app in He as [He|He].
  - repeat (apply elem_of_cons in He as [->|He]; [simpl; lia|]). by apply elem_of_nil in He.
  - apply elem_of_replicate in He as [-> _]. simpl. lia.
Qed.

Lemma layers_lookup layers rc :
  layers_ok layers ->
  exists name h, layers !! Z.to_nat (rc / 65536 mod 256) = Some (Layer name h) /\
    (String.length name <= 16)%nat.
Proof.
  intros [L F]. pose proof (Z.mod_pos_bound (rc / 65536) 256 ltac:(lia)).
  destruct (lookup_lt_is_Some_2 layers (Z.to_nat (rc / 65536 mod 256))) as [[name h] E]; [lia|].
  exists name, h. split; [done|]. by apply (Forall_lookup_1 _ _ _ _ F) in E.
Qed.

Lemma decode_bounded layers rc :
  layers_ok layers ->
  exists s, Tss2_RC_Decode layers rc = Ret s /\ (String.length s < decode_buf)%nat.
Proof.
  intros Ok. destruct (layers_lookup layers rc Ok) as (name&h&E&L).
  rewrite (decode_entry _ _ name h) by done. eexists. split; [done|]. apply catbuf_bound.
  pose proof (entry_prefix_short (rc / 65536 mod 256) name L). change decode_buf with 530%nat. lia.
Qed.

(** The name an element gets. *)
Definition registered_name (name : option string) (h : option TSS2_RC_HANDLER) : string :=
  match h, name with Some _, Some name => String.substring 0 16 name | _, _ => "" end.

(** [Tss2_RC_SetHandler] returns the old handler of the layer and changes
    how the codes of that layer alone are decoded: to the registered name, cut
    off after 16 characters, or the number of the layer, followed by what the
    handler returns, or by the whole code once the handler is unregistered.
    Whatever handlers are registered, decoding never runs out of a buffer. *)
Theorem rc_set_handler layers layer name h :
  layers_ok layers -> 0 <= layer < 256 ->
  exists old layers',
    Tss2_RC_SetHandler layers layer name h = Ret (old, layers') /\ layers_ok layers' /\
    layer_function <$> layers !! Z.to_nat layer = Some old /\
    (forall rc, rc / 65536 mod 256 <> layer ->
       Tss2_RC_Decode layers' rc = Tss2_RC_Decode layers rc) /\
    (forall rc, rc / 65536 mod 256 = layer ->
       Tss2_RC_Decode layers' rc = Ret (catbuf decode_buf
         (entry_prefix layer (registered_name name h)) (entry_message h rc))) /\
    forall rc, exists s, Tss2_RC_Decode layers' rc = Ret s /\
      (String.length s < decode_buf)%nat.
Proof.
  intros Ok Hl. pose proof Ok as [L F].
  destruct (lookup_lt_is_Some_2 layers (Z.to_nat layer)) as [[n f] E]; [lia|].
  set (layers' := <[Z.to_nat layer := Layer (registered_name name h) h]> layers).
  assert (Ln : (String.length (registered_name name h) <= 16)%nat).
  { unfold registered_name. destruct h, name; simpl; try lia. apply length_substring0. }
  assert (Ok' : layers_ok layers').
  { unfold layers'. split; [by rewrite length_insert|]. by apply Forall_insert. }
  exists f, layers'. split_and!.
  - unfold Tss2_RC_SetHandler. by rewrite E.
  - done.
  - by rewrite E.
  - intros rc Ne. unfold Tss2_RC_Decode. autorewrite with rc. unfold layers'.
    pose proof (Z.mod_pos_bound (rc / 65536) 256 ltac:(lia)).
    by rewrite list_lookup_insert_ne by lia.
  - intros rc El. rewrite (decode_entry _ _ (registered_name name h) h); rewrite ?El; [done| |done].
    apply list_lookup_insert_eq. lia.
  - intros rc. by apply decode_bounded.
Qed.

(** ** Examples *)

Lemma rc_fmt1_roundtrip_witness :
  let known := RcInfo 0 1 0x84 2 0 0 in
  Tss2_RC_DecodeInfo 0x2C4 (Some (RcInfo 0 0 0 0 0 0)) = (TSS2_RC_SUCCESS, Some known) /\
  Tss2_RC_DecodeInfoError (Some known)
    = Some "value is out of range or is not correct for the context" /\
  (0 = 0 \/ 0 = 11 -> Tss2_RC_Decode layer_handler 0x2C4
    = Ret "tpm:parameter(2):value is out of range or is not correct for the context").
Proof.
  destruct (rc_fmt1_roundtrip 0 SParameter 2 4 (RcInfo 0 0 0 0 0 0)) as (A & B & C); [lia..|].
  split; [exact A|]. split; [exact B|exact C].
Defined.

(** A handler for the layer of the policy library. *)
Lemma rc_set_handler_witness :
  exists old layers',
    Tss2_RC_SetHandler layer_handler 13 (Some "a name that is too long") (Some (fun _ => Some "e"))
      = Ret (old, layers') /\ layers_ok layers' /\
    layer_function <$> layer_handler !! Z.to_nat 13 = Some old /\
    (forall rc, rc / 65536 mod 256 <> 13 ->
       Tss2_RC_Decode layers' rc = Tss2_RC_Decode layer_handler rc) /\
    (forall rc, rc / 65536 mod 256 = 13 ->
       Tss2_RC_Decode layers' rc = Ret (catbuf decode_buf
         (entry_prefix 13 (registered_name (Some "a name that is too long") (Some (fun _ => Some "e"))))
         (entry_message (Some (fun _ => Some "e")) rc))) /\
    forall rc, exists s, Tss2_RC_Decode layers' rc = Ret s /\
      (String.length s < decode_buf)%nat.
Proof. apply (rc_set_handler layer_handler 13 _ _ layer_handler_ok). lia. Defined.

(** The text of [Tss2_RC_DecodeInfoError] is that of a code of the TPM
    whatever the layer is: here a code of the ESYS layer. *)
Example DecodeInfoError_layer :
  Tss2_RC_DecodeInfoError (Tss2_RC_DecodeInfo 0x70001 (Some (RcInfo 0 0 0 0 0 0))).2
    = Some "commands not being accepted because of a TPM failure" /\
  Tss2_RC_Decode layer_handler 0x70001
    = Ret "esapi:Catch all for all errors not otherwise specified".
Proof. by vm_compute. Qed.

(** A code of a layer without a handler is printed with its layer. *)
Example Decode_unknown_layer : Tss2_RC_Decode layer_handler 0x150003 = Ret "21:0x150003".
Proof. by vm_compute. Qed.

(** Three codes that the type definitions declare have no text. *)
Example Decode_missing_texts :
  map tss2_fmt1_err_strs_get [0x2B; 0x2C; 0x2D] = [None; None; None].
Proof. by vm_compute. Qed.
