(* ===== verification/EsysBase.v ===== *)
(** * Enhanced System API: the monad, constants, and data.

    A function of src/tss2-esys that returns a code is a computation [M]: it
    changes a state, and either returns a code other than success or goes on
    with the values of its output parameters. A function that returns nothing
    is a computation that cannot fail. *)

From stdpp Require Import gmap.
From S2P Require Import Prelude Common MuSpec MuBase MuStruct MuTpm2b MuUnion TpmTypes MuTypes SysCodes Sys.

Open Scope tss_scope.

(** ** Computations *)

Definition M (St A : Type) : Type := St -> outcome (St * (TSS2_RC + A)).

Section Monad.
Context {St : Type}.

Definition ret {A} (a : A) : M St A := fun s => Ret (s, inr a).
(** [return r;] with a code other than success *)
Definition fail {A} (r : TSS2_RC) : M St A := fun s => Ret (s, inl r).
Definition undef {A} : M St A := fun _ => Undef.

Definition bind {A B} (m : M St A) (k : A -> M St B) : M St B := fun s =>
  match m s with
  | Ret (s, inr a) => k a s
  | Ret (s, inl r) => Ret (s, inl r)
  | Undef => Undef
  end.

Definition get : M St St := fun s => Ret (s, inr s).
Definition gets {A} (f : St -> A) : M St A := fun s => Ret (s, inr (f s)).
Definition modify (f : St -> St) : M St unit := fun s => Ret (f s, inr tt).
Definition lift {A} (o : outcome A) : M St A := fun s =>
  match o with Ret a => Ret (s, inr a) | Undef => Undef end.

(** [return_if_error(r, msg);] *)
Definition return_if_error (r : TSS2_RC) : M St unit :=
  if r =? TSS2_RC_SUCCESS then ret tt else fail r.

(** [goto_if_error(r, msg, label);] where the code at the label runs [h r] and
    returns the code [h] gives. *)
Definition on_error {A} (m : M St A) (h : TSS2_RC -> M St TSS2_RC) : M St A := fun s =>
  match m s with
  | Ret (s, inl r) =>
      match h r s with
      | Ret (s, inr r) => Ret (s, inl r)
      | Ret (s, inl r) => Ret (s, inl r)
      | Undef => Undef
      end
  | o => o
  end.

(** The code itself: [r = m(); if (r == ...)]. *)
Definition code {A} (m : M St A) : M St (TSS2_RC + A) := fun s =>
  match m s with
  | Ret (s, x) => Ret (s, inr x)
  | Undef => Undef
  end.

Fixpoint for_each {A} (l : list A) (f : A -> M St unit) : M St unit :=
  match l with
  | [] => ret tt
  | a :: l => bind (f a) (fun _ => for_each l f)
  end.

End Monad.

Declare Scope esys_scope.
Delimit Scope esys_scope with esys.
Notation "'let!' p ':=' m 'in' k" := (bind m (fun p => k))
  (at level 10, p pattern, m at level 100, k at level 200) : esys_scope.
Notation "m ;! k" := (bind m (fun _ => k)) (at level 100, right associativity) : esys_scope.

(** A computation on a part of the state. *)
Definition zoom {St T A} (g : St -> T) (s : T -> St -> St) (m : M T A) : M St A := fun st =>
  match m (g st) with
  | Ret (t, x) => Ret (s t st, x)
  | Undef => Undef
  end.

(** ** Return codes *)

Definition TSS2_RESMGR_RC_LAYER := TSS2_RC_LAYER 11.
Definition TSS2_RESMGR_TPM_RC_LAYER := TSS2_RC_LAYER 12.
Definition TSS2_BASE_RC_TRY_AGAIN := 9.
Definition TSS2_BASE_RC_MEMORY := 23.
Definition TSS2_BASE_RC_BAD_TR := 24.
Definition TSS2_BASE_RC_MULTIPLE_DECRYPT_SESSIONS := 25.
Definition TSS2_BASE_RC_MULTIPLE_ENCRYPT_SESSIONS := 26.
Definition TSS2_BASE_RC_RSP_AUTH_FAILED := 27.
Definition TSS2_BASE_RC_CALLBACK_NULL := 54.

Definition TSS2_ESYS_RC_GENERAL_FAILURE := Z.lor TSS2_ESAPI_RC_LAYER TSS2_BASE_RC_GENERAL_FAILURE.
Definition TSS2_ESYS_RC_NOT_IMPLEMENTED := Z.lor TSS2_ESAPI_RC_LAYER TSS2_BASE_RC_NOT_IMPLEMENTED.
Definition TSS2_ESYS_RC_BAD_REFERENCE := Z.lor TSS2_ESAPI_RC_LAYER TSS2_BASE_RC_BAD_REFERENCE.
Definition TSS2_ESYS_RC_BAD_SEQUENCE := Z.lor TSS2_ESAPI_RC_LAYER TSS2_BASE_RC_BAD_SEQUENCE.
Definition TSS2_ESYS_RC_TRY_AGAIN := Z.lor TSS2_ESAPI_RC_LAYER TSS2_BASE_RC_TRY_AGAIN.
Definition TSS2_ESYS_RC_BAD_VALUE := Z.lor TSS2_ESAPI_RC_LAYER TSS2_BASE_RC_BAD_VALUE.
Definition TSS2_ESYS_RC_BAD_SIZE := Z.lor TSS2_ESAPI_RC_LAYER TSS2_BASE_RC_BAD_SIZE.
Definition TSS2_ESYS_RC_MEMORY := Z.lor TSS2_ESAPI_RC_LAYER TSS2_BASE_RC_MEMORY.
Definition TSS2_ESYS_RC_BAD_TR := Z.lor TSS2_ESAPI_RC_LAYER TSS2_BASE_RC_BAD_TR.
Definition TSS2_ESYS_RC_MULTIPLE_DECRYPT_SESSIONS :=
  Z.lor TSS2_ESAPI_RC_LAYER TSS2_BASE_RC_MULTIPLE_DECRYPT_SESSIONS.
Definition TSS2_ESYS_RC_MULTIPLE_ENCRYPT_SESSIONS :=
  Z.lor TSS2_ESAPI_RC_LAYER TSS2_BASE_RC_MULTIPLE_ENCRYPT_SESSIONS.
Definition TSS2_ESYS_RC_RSP_AUTH_FAILED := Z.lor TSS2_ESAPI_RC_LAYER TSS2_BASE_RC_RSP_AUTH_FAILED.
Definition TSS2_ESYS_RC_CALLBACK_NULL := Z.lor TSS2_ESAPI_RC_LAYER TSS2_BASE_RC_CALLBACK_NULL.

Definition TPM2_RC_WARN := 0x900.
Definition TPM2_RC_YIELDED := TPM2_RC_WARN + 0x008.
Definition TPM2_RC_TESTING := TPM2_RC_WARN + 0x00A.
Definition TPM2_RC_RETRY := TPM2_RC_WARN + 0x022.

(** [base_rc(r)] of src/util/aux_util.h *)
Definition base_rc (r : TSS2_RC) : Z := Z.land r (Z.lxor 0xFFFFFFFF (TSS2_RC_LAYER 0xff)).

(** ** Constants of the TPM *)

Definition AES_BLOCK_SIZE_IN_BYTES := 16.
Definition SM4_BLOCK_SIZE_IN_BYTES := 16.
Definition TPM2_ALG_CFB := 0x43.
Definition TPM2_SE_HMAC := 0x00.
Definition TPM2_SE_POLICY := 0x01.
Definition TPMA_SESSION_DECRYPT := 0x20.
Definition TPMA_SESSION_ENCRYPT := 0x40.
Definition TPMA_SESSION_AUDIT := 0x80.
Definition TPMA_NV_WRITTEN := 0x20000000.

Definition TPM2_RH_OWNER := 0x40000001.
Definition TPM2_RH_NULL := 0x40000007.
Definition TPM2_RH_PW := 0x40000009.
Definition TPM2_RH_LOCKOUT := 0x4000000A.
Definition TPM2_RH_ENDORSEMENT := 0x4000000B.
Definition TPM2_RH_PLATFORM := 0x4000000C.
Definition TPM2_RH_PLATFORM_NV := 0x4000000D.
Definition TPM2_RH_ACT_0 := 0x40000110.
Definition TPM2_RH_FW_OWNER := 0x40000140.
Definition TPM2_RH_FW_ENDORSEMENT := 0x40000141.
Definition TPM2_RH_FW_PLATFORM := 0x40000142.
Definition TPM2_RH_FW_NULL := 0x40000143.
Definition TPM2_RH_SVN_OWNER_BASE := 0x40010000.
Definition TPM2_RH_SVN_ENDORSEMENT_BASE := 0x40020000.
Definition TPM2_RH_SVN_PLATFORM_BASE := 0x40030000.
Definition TPM2_RH_SVN_NULL_BASE := 0x40040000.
Definition TPM2_RH_LAST := 0x4004FFFF.
Definition TPM2_HT_NV_INDEX := 0x01.
Definition TPM2_HT_LOADED_SESSION := 0x02.
Definition TPM2_HT_SAVED_SESSION := 0x03.
Definition TPM2_HR_RANGE_MASK := 0xFF000000.
Definition TPM2_HR_SHIFT := 24.
Definition TPM2_NV_INDEX_FIRST := Z.shiftl TPM2_HT_NV_INDEX TPM2_HR_SHIFT.
Definition TPM2_NV_INDEX_LAST := TPM2_NV_INDEX_FIRST + 0x00FFFFFF.
Definition TPM2_NV_AC_FIRST := Z.shiftl TPM2_HT_NV_INDEX TPM2_HR_SHIFT + 0xD00000.

(** ** Handles of the ESYS layer (include/tss2/tss2_esys.h) *)

Definition ESYS_TR_NONE := 0xfff.
Definition ESYS_TR_PASSWORD := 0x0ff.
Definition ESYS_TR_PCR31 := 31.
Definition ESYS_TR_RH_OWNER := 0x101.
Definition ESYS_TR_RH_NULL := 0x107.
Definition ESYS_TR_RH_LOCKOUT := 0x10A.
Definition ESYS_TR_RH_ENDORSEMENT := 0x10B.
Definition ESYS_TR_RH_PLATFORM := 0x10C.
Definition ESYS_TR_RH_PLATFORM_NV := 0x10D.
Definition ESYS_TR_RH_FW_OWNER := 0x10E.
Definition ESYS_TR_RH_FW_ENDORSEMENT := 0x10F.
Definition ESYS_TR_RH_FW_PLATFORM := 0x110.
Definition ESYS_TR_RH_FW_NULL := 0x111.
Definition ESYS_TR_RH_SVN_OWNER_BASE := 0x1010000.
Definition ESYS_TR_RH_SVN_ENDORSEMENT_BASE := 0x1020000.
Definition ESYS_TR_RH_SVN_PLATFORM_BASE := 0x1030000.
Definition ESYS_TR_RH_SVN_NULL_BASE := 0x1040000.
Definition ESYS_TR_RH_ACT_FIRST := 0x120.
Definition ESYS_TR_RH_ACT_LAST := 0x12F.
Definition ESYS_TR_RH_AC_FIRST := 0x140.
Definition ESYS_TR_RH_AC_LAST := ESYS_TR_RH_AC_FIRST + 0xFFFF.
Definition ESYS_TR_MIN_OBJECT := TPM2_RH_LAST + 1 + 0x1000.
Definition ESYS_MAX_SUBMISSIONS := 5.

Definition sizeof_TPMU_HA := lsize lay_TPMU_HA.
