(* ===== verification/EsysCrypto.v ===== *)
(** * Enhanced System API: the cryptographic layer (esys_crypto.c).

    The back end is a record of functions over its user data, as in
    [ESYS_CRYPTO_CALLBACKS]; what they compute is not modelled. [K] is the type
    of the opaque pointers to hash and HMAC contexts, whose contents are part
    of the user data. *)

From stdpp Require Import strings.
From S2P Require Import Prelude Common MuSpec MuBase MuStruct MuTpm2b MuUnion TpmTypes MuTypes SysCodes Sys EsysBase.

Open Scope tss_scope.
Open Scope esys_scope.
Open Scope Z_scope.

(** A null pointer is [None] in the callbacks; the callbacks return their code
    with the values of their output parameters. [finish] is given the size of
    the buffer and returns the digest it writes and the new size; the pointer
    to the context that it sets is returned too. *)
Record ESYS_CRYPTO_CALLBACKS {U K : Type} : Type := CryptoCallbacks {
  rsa_pk_encrypt : option (TPM2B_SUB TPMT_PUBLIC -> bytes -> Z -> bytes -> U -> TSS2_RC * bytes * U);
  hash_start : option (Z -> U -> TSS2_RC * option K * U);
  hash_update : option (option K -> bytes -> U -> TSS2_RC * U);
  hash_finish : option (option K -> Z -> U -> TSS2_RC * (bytes * Z * option K) * U);
  hash_abort : option (option K -> U -> U);
  hmac_start : option (Z -> bytes -> U -> TSS2_RC * option K * U);
  hmac_update : option (option K -> bytes -> U -> TSS2_RC * U);
  hmac_finish : option (option K -> Z -> U -> TSS2_RC * (bytes * Z * option K) * U);
  hmac_abort : option (option K -> U -> U);
  get_random2b : option (TPM2B -> Z -> U -> TSS2_RC * TPM2B * U);
  get_ecdh_point : option (TPM2B_SUB TPMT_PUBLIC -> Z -> U ->
    TSS2_RC * (TPM2B * TPMS_ECC_POINT * bytes) * U);
  aes_encrypt : option (bytes -> Z -> Z -> Z -> bytes -> bytes -> U -> TSS2_RC * bytes * U);
  aes_decrypt : option (bytes -> Z -> Z -> Z -> bytes -> bytes -> U -> TSS2_RC * bytes * U);
  sm4_encrypt : option (bytes -> Z -> Z -> Z -> bytes -> bytes -> U -> TSS2_RC * bytes * U);
  sm4_decrypt : option (bytes -> Z -> Z -> Z -> bytes -> bytes -> U -> TSS2_RC * bytes * U);
  crypto_init : option (U -> TSS2_RC * U);
  userdata : U
}.
Arguments ESYS_CRYPTO_CALLBACKS : clear implicits.

Definition set_userdata {U K} (u : U) (cb : ESYS_CRYPTO_CALLBACKS U K) : ESYS_CRYPTO_CALLBACKS U K :=
  CryptoCallbacks _ _ (rsa_pk_encrypt cb) (hash_start cb) (hash_update cb) (hash_finish cb)
    (hash_abort cb) (hmac_start cb) (hmac_update cb) (hmac_finish cb) (hmac_abort cb)
    (get_random2b cb) (get_ecdh_point cb) (aes_encrypt cb) (aes_decrypt cb) (sm4_encrypt cb)
    (sm4_decrypt cb) (crypto_init cb) u.

(** [*size] of the digests of the hash algorithms *)
Definition iesys_crypto_hash_get_digest_size {St} (hashAlg : Z) : M St Z :=
  if hashAlg =? TPM2_ALG_SHA1 then ret TPM2_SHA1_DIGEST_SIZE
  else if hashAlg =? TPM2_ALG_SHA256 then ret TPM2_SHA256_DIGEST_SIZE
  else if hashAlg =? TPM2_ALG_SHA384 then ret TPM2_SHA384_DIGEST_SIZE
  else if hashAlg =? TPM2_ALG_SHA512 then ret TPM2_SHA512_DIGEST_SIZE
  else if hashAlg =? TPM2_ALG_SM3_256 then ret TPM2_SM3_256_DIGEST_SIZE
  else fail TSS2_ESYS_RC_BAD_VALUE.

(** The bytes a marshal call writes to the start of a buffer of [n] bytes. *)
Definition mu_image {H : Host} {St} (n : Z) (step : mstep) : M St bytes := fun s =>
  match step (Some (replicate (Z.to_nat n) 0)) n (Some 0) with
  | Ret (rc, (Some b, Some o)) =>
      if rc =? TSS2_RC_SUCCESS then Ret (s, inr (take (Z.to_nat o) b)) else Ret (s, inl rc)
  | _ => Undef
  end.

Section Crypto.
Context {H : Host} {U K : Type}.

Abbreviation CB := (ESYS_CRYPTO_CALLBACKS U K).

(** [DO_CALLBACK]: the code, and the output parameters as the callback leaves
    them, [out] when there is no callback. *)
Definition OUT_CALLBACK {F A} (callback : CB -> option F) (out : A) (run : F -> U -> TSS2_RC * A * U) :
    M CB (TSS2_RC * A) := fun cb =>
  match callback cb with
  | None => Ret (cb, inr (TSS2_ESYS_RC_CALLBACK_NULL, out))
  | Some f => let '(rc, a, u) := run f (userdata cb) in Ret (set_userdata u cb, inr (rc, a))
  end.

(** The output parameters where nothing reads them after a failure. *)
Definition DO_CALLBACK {F A} (callback : CB -> option F) (run : F -> U -> TSS2_RC * A * U) : M CB A :=
  fun cb =>
  match callback cb with
  | None => Ret (cb, inl TSS2_ESYS_RC_CALLBACK_NULL)
  | Some f =>
      let '(rc, a, u) := run f (userdata cb) in
      Ret (set_userdata u cb, if rc =? TSS2_RC_SUCCESS then inr a else inl rc)
  end.

Definition no_out (r : TSS2_RC * U) : TSS2_RC * unit * U := (r.1, tt, r.2).

Definition iesys_crypto_hash_start (hashAlg : Z) : M CB (option K) :=
  DO_CALLBACK hash_start (fun f => f hashAlg).
Definition iesys_crypto_hash_update (context : option K) (buffer : bytes) : M CB unit :=
  DO_CALLBACK hash_update (fun f u => no_out (f context buffer u)).
(** The code is returned with the digest, its size and the pointer to the
    context, which the callers pass on to the abort functions. *)
Definition iesys_crypto_hash_finish (context : option K) (size : Z) :
    M CB (TSS2_RC * (bytes * Z * option K)) :=
  OUT_CALLBACK hash_finish ([], size, context) (fun f => f context size).
Definition iesys_crypto_hash_abort (context : option K) : M CB unit := fun cb =>
  match hash_abort cb with
  | None => Ret (cb, inl TSS2_ESYS_RC_CALLBACK_NULL)
  | Some f => Ret (set_userdata (f context (userdata cb)) cb, inr tt)
  end.
Definition iesys_crypto_hmac_start (hashAlg : Z) (key : bytes) : M CB (option K) :=
  DO_CALLBACK hmac_start (fun f => f hashAlg key).
Definition iesys_crypto_hmac_update (context : option K) (buffer : bytes) : M CB unit :=
  DO_CALLBACK hmac_update (fun f u => no_out (f context buffer u)).
Definition iesys_crypto_hmac_finish (context : option K) (size : Z) :
    M CB (TSS2_RC * (bytes * Z * option K)) :=
  OUT_CALLBACK hmac_finish ([], size, context) (fun f => f context size).
Definition iesys_crypto_hmac_abort (context : option K) : M CB unit := fun cb =>
  match hmac_abort cb with
  | None => Ret (cb, inl TSS2_ESYS_RC_CALLBACK_NULL)
  | Some f => Ret (set_userdata (f context (userdata cb)) cb, inr tt)
  end.
Definition iesys_crypto_get_random2b (nonce : TPM2B) (num_bytes : Z) : M CB (TSS2_RC * TPM2B) :=
  OUT_CALLBACK get_random2b nonce (fun f => f nonce num_bytes).
Definition iesys_crypto_rsa_pk_encrypt (pub_tpm_key : TPM2B_SUB TPMT_PUBLIC) (in_buffer : bytes)
    (max_out_size : Z) (label : bytes) : M CB bytes :=
  DO_CALLBACK rsa_pk_encrypt (fun f => f pub_tpm_key in_buffer max_out_size label).
Definition iesys_crypto_get_ecdh_point (key : TPM2B_SUB TPMT_PUBLIC) (max_out_size : Z) :
    M CB (TPM2B * TPMS_ECC_POINT * bytes) :=
  DO_CALLBACK get_ecdh_point (fun f => f key max_out_size).
Definition iesys_crypto_aes_encrypt (key : bytes) (alg key_bits mode : Z) (buffer iv : bytes) :
    M CB bytes :=
  DO_CALLBACK aes_encrypt (fun f => f key alg key_bits mode buffer iv).
Definition iesys_crypto_aes_decrypt (key : bytes) (alg key_bits mode : Z) (buffer iv : bytes) :
    M CB bytes :=
  DO_CALLBACK aes_decrypt (fun f => f key alg key_bits mode buffer iv).
Definition iesys_crypto_sm4_encrypt (key : bytes) (alg key_bits mode : Z) (buffer iv : bytes) :
    M CB bytes :=
  DO_CALLBACK sm4_encrypt (fun f => f key alg key_bits mode buffer iv).
Definition iesys_crypto_sm4_decrypt (key : bytes) (alg key_bits mode : Z) (buffer iv : bytes) :
    M CB bytes :=
  DO_CALLBACK sm4_decrypt (fun f => f key alg key_bits mode buffer iv).

(** The contents of a sized buffer; a size above the capacity reads outside. *)
Definition read2b {St} (b : TPM2B) : M St bytes := lift (access (mem_read (buffer b) 0 (size b))).

Definition iesys_crypto_hash_update2b (context : option K) (tpm2b : TPM2B) : M CB unit :=
  let! b := read2b tpm2b in iesys_crypto_hash_update context b.
Definition iesys_crypto_hmac_update2b (context : option K) (tpm2b : TPM2B) : M CB unit :=
  let! b := read2b tpm2b in iesys_crypto_hmac_update context b.
(** [tpm2b->size] is set to the size that comes back, whatever the code. *)
Definition iesys_crypto_hmac_finish2b (context : option K) (tpm2b : TPM2B) :
    M CB (TSS2_RC * (TPM2B * option K)) :=
  let! (r, (digest, sz, context)) := iesys_crypto_hmac_finish context (size tpm2b) in
  let! b := lift (access (mem_write (buffer tpm2b) 0 digest)) in
  ret (r, (MkTPM2B (wrap 16 sz) b, context)).

(** [error: iesys_crypto_hash_abort(crypto_cb, &cryptoContext); return r;] *)
Definition aborting {A} (abort : M CB unit) (m : M CB A) : M CB A :=
  on_error m (fun r => let! _ := code abort in ret r).
(** The same after the call that finishes the context. *)
Definition finished {A} (abort : option K -> M CB unit) (m : M CB (TSS2_RC * (A * option K))) :
    M CB A :=
  let! (r, (a, context)) := m in aborting (abort context) (return_if_error r ;! ret a).

Definition when_some {A} (o : option A) (f : A -> M CB unit) : M CB unit :=
  match o with Some a => f a | None => ret tt end.

(** Returns the digest and [*pHash_size]. The error path aborts the context
    as a hash context. *)
Definition iesys_crypto_pHash (alg : Z) (rcBuffer : option bytes) (ccBuffer : bytes)
    (name1 name2 name3 : option TPM2B) (pBuffer : bytes) (pHash_size : Z) : M CB (bytes * Z) :=
  let! cryptoContext := iesys_crypto_hash_start alg in
  aborting (iesys_crypto_hash_abort cryptoContext) (
    when_some rcBuffer (iesys_crypto_hash_update cryptoContext) ;!
    iesys_crypto_hash_update cryptoContext ccBuffer ;!
    when_some name1 (iesys_crypto_hash_update2b cryptoContext) ;!
    when_some name2 (iesys_crypto_hash_update2b cryptoContext) ;!
    when_some name3 (iesys_crypto_hash_update2b cryptoContext) ;!
    iesys_crypto_hash_update cryptoContext pBuffer) ;!
  finished iesys_crypto_hash_abort (iesys_crypto_hash_finish cryptoContext pHash_size).

Definition iesys_crypto_cpHash (alg : Z) (ccBuffer : bytes) (name1 name2 name3 : option TPM2B)
    (cpBuffer : bytes) (size : Z) : M CB (bytes * Z) :=
  iesys_crypto_pHash alg None ccBuffer name1 name2 name3 cpBuffer size.
Definition iesys_crypto_rpHash (alg : Z) (rcBuffer ccBuffer : bytes) (rpBuffer : bytes) (size : Z) :
    M CB (bytes * Z) :=
  iesys_crypto_pHash alg (Some rcBuffer) ccBuffer None None None rpBuffer size.

(** The error path aborts the HMAC context as a hash context. *)
Definition iesys_crypto_authHmac (alg : Z) (hmacKey pHash : bytes) (nonceNewer nonceOlder : TPM2B)
    (nonceDecrypt nonceEncrypt : option TPM2B) (sessionAttributes : Z) (hmac : TPM2B) : M CB TPM2B :=
  let! cryptoContext := iesys_crypto_hmac_start alg hmacKey in
  aborting (iesys_crypto_hash_abort cryptoContext) (
    iesys_crypto_hmac_update cryptoContext pHash ;!
    iesys_crypto_hmac_update2b cryptoContext nonceNewer ;!
    iesys_crypto_hmac_update2b cryptoContext nonceOlder ;!
    when_some nonceDecrypt (iesys_crypto_hmac_update2b cryptoContext) ;!
    when_some nonceEncrypt (iesys_crypto_hmac_update2b cryptoContext) ;!
    let! sessionAttribs := mu_image 1 (Tss2_MU_TPMA_SESSION_Marshal sessionAttributes) in
    iesys_crypto_hmac_update cryptoContext sessionAttribs) ;!
  finished iesys_crypto_hash_abort (iesys_crypto_hmac_finish2b cryptoContext hmac).

(** A string with its terminating zero. *)
Definition c_string (s : string) : bytes :=
  map (fun c => Z.of_N (Ascii.N_of_ascii c)) (String.list_ascii_of_string s) ++ [0].

Definition iesys_crypto_KDFaHmac (alg : Z) (hmacKey : bytes) (counter : Z) (label : option string)
    (contextU contextV : TPM2B) (bitlength hmacSize : Z) : M CB (bytes * Z) :=
  let! cryptoContext := iesys_crypto_hmac_start alg hmacKey in
  aborting (iesys_crypto_hmac_abort cryptoContext) (
    let! buffer32 := mu_image 4 (Tss2_MU_UINT32_Marshal counter) in
    iesys_crypto_hmac_update cryptoContext buffer32 ;!
    when_some label (fun label => iesys_crypto_hmac_update cryptoContext (c_string label)) ;!
    iesys_crypto_hmac_update2b cryptoContext contextU ;!
    iesys_crypto_hmac_update2b cryptoContext contextV ;!
    let! buffer32 := mu_image 4 (Tss2_MU_UINT32_Marshal bitlength) in
    iesys_crypto_hmac_update cryptoContext buffer32) ;!
  finished iesys_crypto_hmac_abort (iesys_crypto_hmac_finish cryptoContext hmacSize).

(** The loop of [iesys_crypto_KDFa]: [n] bounds the number of rounds, [sub] is
    the offset of [subKey] in [outKey]. A loop that does not end is undefined. *)
Fixpoint KDFa_loop (n : nat) (hashAlg : Z) (hmacKey : bytes) (label : option string)
    (contextU contextV : TPM2B) (bitLength counter sub nbytes hlen : Z) (outKey : bytes) :
    M CB (bytes * Z) :=
  match n with
  | O => undef
  | Datatypes.S n =>
      let counter := wrap 32 (counter + 1) in
      let! (digest, hlen) := iesys_crypto_KDFaHmac hashAlg hmacKey counter label contextU contextV
        bitLength hlen in
      let! outKey := lift (access (mem_write outKey sub digest)) in
      if nbytes <=? hlen then ret (outKey, counter)
      else KDFa_loop n hashAlg hmacKey label contextU contextV bitLength counter (sub + hlen)
             (wrap64 (nbytes - hlen)) hlen outKey
  end.

(** [outKey[0] &= (1 << (bitLength % 8)) - 1] *)
Definition mask_first (bitLength : Z) (key : bytes) : outcome bytes :=
  if bitLength mod 8 =? 0 then Ret key
  else
    let* b := access (mem_read key 0 1) in
    access (mem_write key 0 [Z.land (default 0 (head b)) (2 ^ (bitLength mod 8) - 1)]).

(** Returns [outKey] and the new value of [*counterInOut]. *)
Definition iesys_crypto_KDFa (hashAlg : Z) (hmacKey : bytes) (label : option string)
    (contextU contextV : TPM2B) (bitLength : Z) (counterInOut : option Z) (outKey : bytes)
    (use_digest_size : bool) : M CB (bytes * option Z) :=
  let! hlen := iesys_crypto_hash_get_digest_size hashAlg in
  let counter := default 0 counterInOut in
  let nbytes := if use_digest_size then hlen else wrap 32 (bitLength + 7) / 8 in
  let! (outKey, counter) := KDFa_loop (Z.to_nat nbytes + 1) hashAlg hmacKey label contextU contextV
    bitLength counter 0 nbytes hlen outKey in
  let! outKey := lift (mask_first bitLength outKey) in
  ret (outKey, match counterInOut with Some _ => Some counter | None => None end).

(** [Z], [label], [partyUInfo] and [partyVInfo] may be NULL; the error path
    aborts the hash context as an HMAC context. *)
Definition KDFe_round (hashAlg counter : Z) (Z_ : option TPM2B) (label : option string)
    (partyUInfo partyVInfo : option TPM2B) (hash_len : Z) : M CB (bytes * Z) :=
  let! cryptoContext := iesys_crypto_hash_start hashAlg in
  aborting (iesys_crypto_hmac_abort cryptoContext) (
    let! counter_buffer := mu_image 4 (Tss2_MU_UINT32_Marshal counter) in
    iesys_crypto_hash_update cryptoContext counter_buffer ;!
    when_some Z_ (iesys_crypto_hash_update2b cryptoContext) ;!
    when_some label (fun label => iesys_crypto_hash_update cryptoContext (c_string label)) ;!
    when_some partyUInfo (iesys_crypto_hash_update2b cryptoContext) ;!
    when_some partyVInfo (iesys_crypto_hash_update2b cryptoContext)) ;!
  finished iesys_crypto_hmac_abort (iesys_crypto_hash_finish cryptoContext hash_len).

Fixpoint KDFe_loop (n : nat) (hashAlg : Z) (Z_ : option TPM2B) (label : option string)
    (partyUInfo partyVInfo : option TPM2B) (counter stream byte_size hash_len : Z) (key : bytes) :
    M CB bytes :=
  match n with
  | O => undef
  | Datatypes.S n =>
      let counter := wrap 32 (counter + 1) in
      let! (digest, hash_len) := KDFe_round hashAlg counter Z_ label partyUInfo partyVInfo hash_len in
      let! key := lift (access (mem_write key stream digest)) in
      if byte_size <=? hash_len then ret key
      else KDFe_loop n hashAlg Z_ label partyUInfo partyVInfo counter (stream + hash_len)
             (wrap64 (byte_size - hash_len)) hash_len key
  end.

Definition iesys_crypto_KDFe (hashAlg : Z) (Z_ : option TPM2B) (label : option string)
    (partyUInfo partyVInfo : option TPM2B) (bit_size : Z) (key : bytes) : M CB bytes :=
  let byte_size := wrap 32 (bit_size + 7) / 8 in
  let! hash_len := iesys_crypto_hash_get_digest_size hashAlg in
  if (hashAlg =? TPM2_ALG_NULL) || (byte_size =? 0) then fail TSS2_ESYS_RC_BAD_VALUE
  else
    let! key := KDFe_loop (Z.to_nat byte_size + 1) hashAlg Z_ label partyUInfo partyVInfo
      0 0 byte_size hash_len key in
    lift (mask_first bit_size key).

Definition xor_bytes (a b : bytes) : bytes := zip_with Z.lxor a b.

(** The loop over the blocks of the data: [rest] is the part that [data]
    points to, what is before it is done. *)
Fixpoint xor_loop (n : nat) (hash_alg : Z) (key : bytes) (contextU contextV : TPM2B)
    (data_size_bits counter digest_size : Z) (rest : bytes) : M CB bytes :=
  match n, rest with
  | _, [] => ret []
  | O, _ => undef
  | Datatypes.S n, _ =>
      let! (kdfa_result, counter) := iesys_crypto_KDFa hash_alg key (Some "XOR"%string) contextU contextV
        (wrap 32 data_size_bits) (Some counter) (replicate (Z.to_nat TPM2_MAX_DIGEST_BUFFER) 0) true in
      let i := Z.to_nat (Z.min digest_size (Zlen rest)) in
      let! rest' := xor_loop n hash_alg key contextU contextV data_size_bits (default 0 counter)
        digest_size (drop i rest) in
      ret (xor_bytes (take i rest) (take i kdfa_result) ++ rest')
  end.

(** [key] is never NULL at the calls. *)
Definition iesys_xor_parameter_obfuscation (hash_alg : Z) (key : bytes) (contextU contextV : TPM2B)
    (data : bytes) : M CB bytes :=
  let! digest_size := iesys_crypto_hash_get_digest_size hash_alg in
  xor_loop (length data) hash_alg key contextU contextV (wrap64 (Zlen data * 8)) 0 digest_size data.

End Crypto.

(** ** The choice of the back end *)

Section Backend.
Context {U K : Type}.

Abbreviation CB := (ESYS_CRYPTO_CALLBACKS U K).

Definition set_rsa_pk_encrypt (v : _) (cb : CB) : CB := CryptoCallbacks U K v (hash_start cb)
  (hash_update cb) (hash_finish cb) (hash_abort cb) (hmac_start cb) (hmac_update cb) (hmac_finish
  cb) (hmac_abort cb) (get_random2b cb) (get_ecdh_point cb) (aes_encrypt cb) (aes_decrypt cb)
  (sm4_encrypt cb) (sm4_decrypt cb) (crypto_init cb) (userdata cb).
Definition set_hash_start (v : _) (cb : CB) : CB := CryptoCallbacks U K (rsa_pk_encrypt cb) v
  (hash_update cb) (hash_finish cb) (hash_abort cb) (hmac_start cb) (hmac_update cb) (hmac_finish
  cb) (hmac_abort cb) (get_random2b cb) (get_ecdh_point cb) (aes_encrypt cb) (aes_decrypt cb)
  (sm4_encrypt cb) (sm4_decrypt cb) (crypto_init cb) (userdata cb).
Definition set_hash_update (v : _) (cb : CB) : CB := CryptoCallbacks U K (rsa_pk_encrypt cb)
  (hash_start cb) v (hash_finish cb) (hash_abort cb) (hmac_start cb) (hmac_update cb) (hmac_finish
  cb) (hmac_abort cb) (get_random2b cb) (get_ecdh_point cb) (aes_encrypt cb) (aes_decrypt cb)
  (sm4_encrypt cb) (sm4_decrypt cb) (crypto_init cb) (userdata cb).
Definition set_hash_finish (v : _) (cb : CB) : CB := CryptoCallbacks U K (rsa_pk_encrypt cb)
  (hash_start cb) (hash_update cb) v (hash_abort cb) (hmac_start cb) (hmac_update cb) (hmac_finish
  cb) (hmac_abort cb) (get_random2b cb) (get_ecdh_point cb) (aes_encrypt cb) (aes_decrypt cb)
  (sm4_encrypt cb) (sm4_decrypt cb) (crypto_init cb) (userdata cb).
Definition set_hash_abort (v : _) (cb : CB) : CB := CryptoCallbacks U K (rsa_pk_encrypt cb)
  (hash_start cb) (hash_update cb) (hash_finish cb) v (hmac_start cb) (hmac_update cb)
  (hmac_finish cb) (hmac_abort cb) (get_random2b cb) (get_ecdh_point cb) (aes_encrypt cb)
  (aes_decrypt cb) (sm4_encrypt cb) (sm4_decrypt cb) (crypto_init cb) (userdata cb).
Definition set_hmac_start (v : _) (cb : CB) : CB := CryptoCallbacks U K (rsa_pk_encrypt cb)
  (hash_start cb) (hash_update cb) (hash_finish cb) (hash_abort cb) v (hmac_update cb)
  (hmac_finish cb) (hmac_abort cb) (get_random2b cb) (get_ecdh_point cb) (aes_encrypt cb)
  (aes_decrypt cb) (sm4_encrypt cb) (sm4_decrypt cb) (crypto_init cb) (userdata cb).
Definition set_hmac_update (v : _) (cb : CB) : CB := CryptoCallbacks U K (rsa_pk_encrypt cb)
  (hash_start cb) (hash_update cb) (hash_finish cb) (hash_abort cb) (hmac_start cb) v (hmac_finish
  cb) (hmac_abort cb) (get_random2b cb) (get_ecdh_point cb) (aes_encrypt cb) (aes_decrypt cb)
  (sm4_encrypt cb) (sm4_decrypt cb) (crypto_init cb) (userdata cb).
Definition set_hmac_finish (v : _) (cb : CB) : CB := CryptoCallbacks U K (rsa_pk_encrypt cb)
  (hash_start cb) (hash_update cb) (hash_finish cb) (hash_abort cb) (hmac_start cb) (hmac_update
  cb) v (hmac_abort cb) (get_random2b cb) (get_ecdh_point cb) (aes_encrypt cb) (aes_decrypt cb)
  (sm4_encrypt cb) (sm4_decrypt cb) (crypto_init cb) (userdata cb).
Definition set_hmac_abort (v : _) (cb : CB) : CB := CryptoCallbacks U K (rsa_pk_encrypt cb)
  (hash_start cb) (hash_update cb) (hash_finish cb) (hash_abort cb) (hmac_start cb) (hmac_update
  cb) (hmac_finish cb) v (get_random2b cb) (get_ecdh_point cb) (aes_encrypt cb) (aes_decrypt cb)
  (sm4_encrypt cb) (sm4_decrypt cb) (crypto_init cb) (userdata cb).
Definition set_get_random2b (v : _) (cb : CB) : CB := CryptoCallbacks U K (rsa_pk_encrypt cb)
  (hash_start cb) (hash_update cb) (hash_finish cb) (hash_abort cb) (hmac_start cb) (hmac_update
  cb) (hmac_finish cb) (hmac_abort cb) v (get_ecdh_point cb) (aes_encrypt cb) (aes_decrypt cb)
  (sm4_encrypt cb) (sm4_decrypt cb) (crypto_init cb) (userdata cb).
Definition set_get_ecdh_point (v : _) (cb : CB) : CB := CryptoCallbacks U K (rsa_pk_encrypt cb)
  (hash_start cb) (hash_update cb) (hash_finish cb) (hash_abort cb) (hmac_start cb) (hmac_update
  cb) (hmac_finish cb) (hmac_abort cb) (get_random2b cb) v (aes_encrypt cb) (aes_decrypt cb)
  (sm4_encrypt cb) (sm4_decrypt cb) (crypto_init cb) (userdata cb).
Definition set_aes_encrypt (v : _) (cb : CB) : CB := CryptoCallbacks U K (rsa_pk_encrypt cb)
  (hash_start cb) (hash_update cb) (hash_finish cb) (hash_abort cb) (hmac_start cb) (hmac_update
  cb) (hmac_finish cb) (hmac_abort cb) (get_random2b cb) (get_ecdh_point cb) v (aes_decrypt cb)
  (sm4_encrypt cb) (sm4_decrypt cb) (crypto_init cb) (userdata cb).
Definition set_aes_decrypt (v : _) (cb : CB) : CB := CryptoCallbacks U K (rsa_pk_encrypt cb)
  (hash_start cb) (hash_update cb) (hash_finish cb) (hash_abort cb) (hmac_start cb) (hmac_update
  cb) (hmac_finish cb) (hmac_abort cb) (get_random2b cb) (get_ecdh_point cb) (aes_encrypt cb) v
  (sm4_encrypt cb) (sm4_decrypt cb) (crypto_init cb) (userdata cb).
Definition set_sm4_encrypt (v : _) (cb : CB) : CB := CryptoCallbacks U K (rsa_pk_encrypt cb)
  (hash_start cb) (hash_update cb) (hash_finish cb) (hash_abort cb) (hmac_start cb) (hmac_update
  cb) (hmac_finish cb) (hmac_abort cb) (get_random2b cb) (get_ecdh_point cb) (aes_encrypt cb)
  (aes_decrypt cb) v (sm4_decrypt cb) (crypto_init cb) (userdata cb).
Definition set_sm4_decrypt (v : _) (cb : CB) : CB := CryptoCallbacks U K (rsa_pk_encrypt cb)
  (hash_start cb) (hash_update cb) (hash_finish cb) (hash_abort cb) (hmac_start cb) (hmac_update
  cb) (hmac_finish cb) (hmac_abort cb) (get_random2b cb) (get_ecdh_point cb) (aes_encrypt cb)
  (aes_decrypt cb) (sm4_encrypt cb) v (crypto_init cb) (userdata cb).
Definition set_crypto_init (v : _) (cb : CB) : CB := CryptoCallbacks U K (rsa_pk_encrypt cb)
  (hash_start cb) (hash_update cb) (hash_finish cb) (hash_abort cb) (hmac_start cb) (hmac_update
  cb) (hmac_finish cb) (hmac_abort cb) (get_random2b cb) (get_ecdh_point cb) (aes_encrypt cb)
  (aes_decrypt cb) (sm4_encrypt cb) (sm4_decrypt cb) v (userdata cb).

(** [TEST_AND_SET_CALLBACK] *)
Definition TEST_AND_SET_CALLBACK {F} (fn : CB -> option F) (set : option F -> CB -> CB)
    (callbacks : CB) : M CB unit :=
  match fn callbacks with
  | Some f => modify (set (Some f))
  | None => fail TSS2_ESYS_RC_CALLBACK_NULL
  end.

(** [internal] is the back end chosen when the library is built. *)
Definition ieys_set_crypto_callbacks (internal : CB) (user_cb : option CB) : M CB unit :=
  match user_cb with
  | None => modify (fun _ => internal)
  | Some user_cb =>
      TEST_AND_SET_CALLBACK aes_decrypt set_aes_decrypt user_cb ;!
      TEST_AND_SET_CALLBACK aes_encrypt set_aes_encrypt user_cb ;!
      modify (set_sm4_encrypt
        (match sm4_encrypt user_cb with Some f => Some f | None => sm4_encrypt internal end)) ;!
      modify (set_sm4_decrypt
        (match sm4_decrypt user_cb with Some f => Some f | None => sm4_decrypt internal end)) ;!
      TEST_AND_SET_CALLBACK get_ecdh_point set_get_ecdh_point user_cb ;!
      TEST_AND_SET_CALLBACK get_random2b set_get_random2b user_cb ;!
      TEST_AND_SET_CALLBACK rsa_pk_encrypt set_rsa_pk_encrypt user_cb ;!
      TEST_AND_SET_CALLBACK hash_abort set_hash_abort user_cb ;!
      TEST_AND_SET_CALLBACK hash_finish set_hash_finish user_cb ;!
      TEST_AND_SET_CALLBACK hash_start set_hash_start user_cb ;!
      TEST_AND_SET_CALLBACK hash_update set_hash_update user_cb ;!
      TEST_AND_SET_CALLBACK hmac_abort set_hmac_abort user_cb ;!
      TEST_AND_SET_CALLBACK hmac_finish set_hmac_finish user_cb ;!
      TEST_AND_SET_CALLBACK hmac_start set_hmac_start user_cb ;!
      TEST_AND_SET_CALLBACK hmac_update set_hmac_update user_cb ;!
      modify (set_crypto_init (crypto_init user_cb)) ;!
      modify (set_userdata (userdata user_cb))
  end.

(** [init] is called with the user data; its result is the code. *)
Definition iesys_initialize_crypto_backend (internal : CB) (user_cb : option CB) : M CB unit :=
  ieys_set_crypto_callbacks internal user_cb ;!
  let! cb := get in
  match crypto_init cb with
  | None => ret tt
  | Some init => DO_CALLBACK (fun _ => Some init) (fun f u => no_out (f u))
  end.

End Backend.
