(* ===== verification/EsysCtx.v ===== *)
(** * Enhanced System API: objects, sessions and the context.

    [esys_types.h] and [esys_int.h]. Nodes of the list of objects are allocated
    objects that several pointers refer to, so they live in a heap, and a
    pointer to a node is its address; a pointer to the nonce or the session of
    a node is the address of the node. *)

From stdpp Require Import gmap.
From S2P Require Import Prelude Common MuSpec MuBase MuStruct MuTpm2b MuUnion TpmTypes MuTypes SysCodes Sys EsysBase EsysCrypto.

Open Scope tss_scope.
Open Scope esys_scope.

(** ** Sessions and objects *)

Definition IESYSC_WITHOUT_MISC_RSRC := 0.
Definition IESYSC_KEY_RSRC := 1.
Definition IESYSC_NV_RSRC := 2.
Definition IESYSC_SESSION_RSRC := 3.
Definition IESYSC_DEGRADED_SESSION_RSRC := 4.
Definition POLICY_PASSWORD := 2.
Definition POLICY_AUTH := 1.
Definition NO_POLICY_AUTH := 0.

Record IESYS_SESSION : Type := Session {
  bound_entity : TPM2B;
  encryptedSalt : TPM2B;
  session_salt : TPM2B;
  symmetric : TPMT_SYM_DEF;
  authHash : Z;
  sessionKey : TPM2B;
  sessionType : Z;
  sessionAttributes : Z;
  origSessionAttributes : Z;
  nonceCaller : TPM2B;
  nonceTPM : TPM2B;
  encrypt : Z;
  decrypt : Z;
  type_policy_session : Z;
  sizeSessionValue : Z;
  sessionValue : bytes;
  sizeHmacValue : Z
}.

Definition zero_IESYS_SESSION : IESYS_SESSION :=
  Session (zero_2b cap_TPM2B_NAME) (zero_2b cap_TPM2B_ENCRYPTED_SECRET) (zero_2b cap_TPM2B_DATA)
    zero_TPMT_SYM_DEF 0 (zero_2b cap_TPM2B_DIGEST) 0 0 0 (zero_2b cap_TPM2B_DIGEST)
    (zero_2b cap_TPM2B_DIGEST) 0 0 0 0 (replicate (Z.to_nat (2 * sizeof_TPMU_HA)) 0) 0.

Definition set_bound_entity (v : TPM2B) (c : IESYS_SESSION) : IESYS_SESSION := Session v
  (encryptedSalt c) (session_salt c) (symmetric c) (authHash c) (sessionKey c) (sessionType c)
  (sessionAttributes c) (origSessionAttributes c) (nonceCaller c) (nonceTPM c) (encrypt c)
  (decrypt c) (type_policy_session c) (sizeSessionValue c) (sessionValue c) (sizeHmacValue c).
Definition set_encryptedSalt (v : TPM2B) (c : IESYS_SESSION) : IESYS_SESSION := Session
  (bound_entity c) v (session_salt c) (symmetric c) (authHash c) (sessionKey c) (sessionType c)
  (sessionAttributes c) (origSessionAttributes c) (nonceCaller c) (nonceTPM c) (encrypt c)
  (decrypt c) (type_policy_session c) (sizeSessionValue c) (sessionValue c) (sizeHmacValue c).
Definition set_session_salt (v : TPM2B) (c : IESYS_SESSION) : IESYS_SESSION := Session
  (bound_entity c) (encryptedSalt c) v (symmetric c) (authHash c) (sessionKey c) (sessionType c)
  (sessionAttributes c) (origSessionAttributes c) (nonceCaller c) (nonceTPM c) (encrypt c)
  (decrypt c) (type_policy_session c) (sizeSessionValue c) (sessionValue c) (sizeHmacValue c).
Definition set_symmetric (v : TPMT_SYM_DEF) (c : IESYS_SESSION) : IESYS_SESSION := Session
  (bound_entity c) (encryptedSalt c) (session_salt c) v (authHash c) (sessionKey c) (sessionType
  c) (sessionAttributes c) (origSessionAttributes c) (nonceCaller c) (nonceTPM c) (encrypt c)
  (decrypt c) (type_policy_session c) (sizeSessionValue c) (sessionValue c) (sizeHmacValue c).
Definition set_authHash (v : Z) (c : IESYS_SESSION) : IESYS_SESSION := Session (bound_entity c)
  (encryptedSalt c) (session_salt c) (symmetric c) v (sessionKey c) (sessionType c)
  (sessionAttributes c) (origSessionAttributes c) (nonceCaller c) (nonceTPM c) (encrypt c)
  (decrypt c) (type_policy_session c) (sizeSessionValue c) (sessionValue c) (sizeHmacValue c).
Definition set_sessionKey (v : TPM2B) (c : IESYS_SESSION) : IESYS_SESSION := Session (bound_entity
  c) (encryptedSalt c) (session_salt c) (symmetric c) (authHash c) v (sessionType c)
  (sessionAttributes c) (origSessionAttributes c) (nonceCaller c) (nonceTPM c) (encrypt c)
  (decrypt c) (type_policy_session c) (sizeSessionValue c) (sessionValue c) (sizeHmacValue c).
Definition set_sessionType (v : Z) (c : IESYS_SESSION) : IESYS_SESSION := Session (bound_entity c)
  (encryptedSalt c) (session_salt c) (symmetric c) (authHash c) (sessionKey c) v
  (sessionAttributes c) (origSessionAttributes c) (nonceCaller c) (nonceTPM c) (encrypt c)
  (decrypt c) (type_policy_session c) (sizeSessionValue c) (sessionValue c) (sizeHmacValue c).
Definition set_sessionAttributes (v : Z) (c : IESYS_SESSION) : IESYS_SESSION := Session
  (bound_entity c) (encryptedSalt c) (session_salt c) (symmetric c) (authHash c) (sessionKey c)
  (sessionType c) v (origSessionAttributes c) (nonceCaller c) (nonceTPM c) (encrypt c) (decrypt c)
  (type_policy_session c) (sizeSessionValue c) (sessionValue c) (sizeHmacValue c).
Definition set_origSessionAttributes (v : Z) (c : IESYS_SESSION) : IESYS_SESSION := Session
  (bound_entity c) (encryptedSalt c) (session_salt c) (symmetric c) (authHash c) (sessionKey c)
  (sessionType c) (sessionAttributes c) v (nonceCaller c) (nonceTPM c) (encrypt c) (decrypt c)
  (type_policy_session c) (sizeSessionValue c) (sessionValue c) (sizeHmacValue c).
Definition set_nonceCaller (v : TPM2B) (c : IESYS_SESSION) : IESYS_SESSION := Session
  (bound_entity c) (encryptedSalt c) (session_salt c) (symmetric c) (authHash c) (sessionKey c)
  (sessionType c) (sessionAttributes c) (origSessionAttributes c) v (nonceTPM c) (encrypt c)
  (decrypt c) (type_policy_session c) (sizeSessionValue c) (sessionValue c) (sizeHmacValue c).
Definition set_nonceTPM (v : TPM2B) (c : IESYS_SESSION) : IESYS_SESSION := Session (bound_entity
  c) (encryptedSalt c) (session_salt c) (symmetric c) (authHash c) (sessionKey c) (sessionType c)
  (sessionAttributes c) (origSessionAttributes c) (nonceCaller c) v (encrypt c) (decrypt c)
  (type_policy_session c) (sizeSessionValue c) (sessionValue c) (sizeHmacValue c).
Definition set_encrypt (v : Z) (c : IESYS_SESSION) : IESYS_SESSION := Session (bound_entity c)
  (encryptedSalt c) (session_salt c) (symmetric c) (authHash c) (sessionKey c) (sessionType c)
  (sessionAttributes c) (origSessionAttributes c) (nonceCaller c) (nonceTPM c) v (decrypt c)
  (type_policy_session c) (sizeSessionValue c) (sessionValue c) (sizeHmacValue c).
Definition set_decrypt (v : Z) (c : IESYS_SESSION) : IESYS_SESSION := Session (bound_entity c)
  (encryptedSalt c) (session_salt c) (symmetric c) (authHash c) (sessionKey c) (sessionType c)
  (sessionAttributes c) (origSessionAttributes c) (nonceCaller c) (nonceTPM c) (encrypt c) v
  (type_policy_session c) (sizeSessionValue c) (sessionValue c) (sizeHmacValue c).
Definition set_type_policy_session (v : Z) (c : IESYS_SESSION) : IESYS_SESSION := Session
  (bound_entity c) (encryptedSalt c) (session_salt c) (symmetric c) (authHash c) (sessionKey c)
  (sessionType c) (sessionAttributes c) (origSessionAttributes c) (nonceCaller c) (nonceTPM c)
  (encrypt c) (decrypt c) v (sizeSessionValue c) (sessionValue c) (sizeHmacValue c).
Definition set_sizeSessionValue (v : Z) (c : IESYS_SESSION) : IESYS_SESSION := Session
  (bound_entity c) (encryptedSalt c) (session_salt c) (symmetric c) (authHash c) (sessionKey c)
  (sessionType c) (sessionAttributes c) (origSessionAttributes c) (nonceCaller c) (nonceTPM c)
  (encrypt c) (decrypt c) (type_policy_session c) v (sessionValue c) (sizeHmacValue c).
Definition set_sessionValue (v : bytes) (c : IESYS_SESSION) : IESYS_SESSION := Session
  (bound_entity c) (encryptedSalt c) (session_salt c) (symmetric c) (authHash c) (sessionKey c)
  (sessionType c) (sessionAttributes c) (origSessionAttributes c) (nonceCaller c) (nonceTPM c)
  (encrypt c) (decrypt c) (type_policy_session c) (sizeSessionValue c) v (sizeHmacValue c).
Definition set_sizeHmacValue (v : Z) (c : IESYS_SESSION) : IESYS_SESSION := Session (bound_entity
  c) (encryptedSalt c) (session_salt c) (symmetric c) (authHash c) (sessionKey c) (sessionType c)
  (sessionAttributes c) (origSessionAttributes c) (nonceCaller c) (nonceTPM c) (encrypt c)
  (decrypt c) (type_policy_session c) (sizeSessionValue c) (sessionValue c) v.

(** The member of the union that was written last; [Misc_zero] is the zeroed
    memory of [calloc], in which every member is zero. *)
Inductive IESYS_RSRC_UNION : Type :=
| Misc_zero
| Misc_key_pub (v : TPM2B_SUB TPMT_PUBLIC)
| Misc_nv_pub (v : TPM2B_SUB TPMS_NV_PUBLIC)
| Misc_session (v : IESYS_SESSION).

Definition rsrc_key_pub (u : IESYS_RSRC_UNION) : outcome (TPM2B_SUB TPMT_PUBLIC) :=
  match u with
  | Misc_key_pub v => Ret v
  | Misc_zero => Ret (MkTPM2B_SUB 0 zero_TPMT_PUBLIC)
  | _ => Undef
  end.
Definition rsrc_nv_pub (u : IESYS_RSRC_UNION) : outcome (TPM2B_SUB TPMS_NV_PUBLIC) :=
  match u with
  | Misc_nv_pub v => Ret v
  | Misc_zero => Ret (MkTPM2B_SUB 0 zero_TPMS_NV_PUBLIC)
  | _ => Undef
  end.
Definition rsrc_session (u : IESYS_RSRC_UNION) : outcome IESYS_SESSION :=
  match u with Misc_session v => Ret v | Misc_zero => Ret zero_IESYS_SESSION | _ => Undef end.

Record IESYS_RESOURCE : Type := Resource {
  handle : Z;
  name : TPM2B;
  rsrcType : Z;
  misc : IESYS_RSRC_UNION
}.

Definition set_handle (v : Z) (c : IESYS_RESOURCE) : IESYS_RESOURCE := Resource v (name c)
  (rsrcType c) (misc c).
Definition set_name (v : TPM2B) (c : IESYS_RESOURCE) : IESYS_RESOURCE := Resource (handle c) v
  (rsrcType c) (misc c).
Definition set_rsrcType (v : Z) (c : IESYS_RESOURCE) : IESYS_RESOURCE := Resource (handle c) (name
  c) v (misc c).
Definition set_misc (v : IESYS_RSRC_UNION) (c : IESYS_RESOURCE) : IESYS_RESOURCE := Resource
  (handle c) (name c) (rsrcType c) v.

Record RSRC_NODE_T : Type := Node {
  esys_handle : Z;
  auth : TPM2B;
  rsrc : IESYS_RESOURCE;
  reference_count : Z
}.

Definition set_esys_handle (v : Z) (c : RSRC_NODE_T) : RSRC_NODE_T := Node v (auth c) (rsrc c)
  (reference_count c).
Definition set_auth (v : TPM2B) (c : RSRC_NODE_T) : RSRC_NODE_T := Node (esys_handle c) v (rsrc c)
  (reference_count c).
Definition set_rsrc (v : IESYS_RESOURCE) (c : RSRC_NODE_T) : RSRC_NODE_T := Node (esys_handle c)
  (auth c) v (reference_count c).
Definition set_reference_count (v : Z) (c : RSRC_NODE_T) : RSRC_NODE_T := Node (esys_handle c)
  (auth c) (rsrc c) v.

(** [calloc(1, sizeof(RSRC_NODE_T))]; the member [next] is the order of the
    list in the context. *)
Definition zero_RSRC_NODE_T : RSRC_NODE_T :=
  Node 0 (zero_2b cap_TPM2B_DIGEST) (Resource 0 (zero_2b cap_TPM2B_NAME) 0 Misc_zero) 0.

(** ** The context *)

(** The parameters a command stores for its [Finish] function: the member of
    the union that was written last. A pointer to the copy of a structure
    beside it is the copy, or [None] for NULL. The members of [in.NV] are set one
    by one; one that was not set since another member of the union was written
    is [Undef]. *)
Inductive IESYS_CMD_IN_PARAM : Type :=
| In_zero
| In_StartAuthSession (tpmKey bind sessionType authHash : Z) (nonceCaller : option TPM2B)
    (in_symmetric : option TPMT_SYM_DEF)
| In_CreatePrimary (inSensitive : option (TPM2B_SUB TPMS_SENSITIVE_CREATE))
| In_Create (inSensitive : option (TPM2B_SUB TPMS_SENSITIVE_CREATE))
| In_ContextSave (saveHandle : Z)
| In_ContextLoad (context : option TPMS_CONTEXT)
| In_Load (inPublic : option (TPM2B_SUB TPMT_PUBLIC))
| In_LoadExternal (inPublic : option (TPM2B_SUB TPMT_PUBLIC))
| In_CreateLoaded (inSensitive : option (TPM2B_SUB TPMS_SENSITIVE_CREATE)) (inTemplate : option TPM2B)
| In_EvictControl (objectHandle persistentHandle : Z)
| In_HMAC_Start (authData : TPM2B)
| In_MAC_Start (authData : TPM2B)
| In_HierarchyChangeAuth (authHandle : Z) (newAuth : TPM2B)
| In_SequenceComplete (sequenceHandle : Z)
| In_Policy (policySession : Z)
| In_NV (nvIndex : outcome Z) (authData : outcome TPM2B)
    (publicInfo : outcome (option (TPM2B_SUB TPMS_NV_PUBLIC)))
| In_FlushContext (flushHandle : Z)
| In_PCR (pcrHandle : Z) (authData : TPM2B).

Inductive ESYS_STATE : Type :=
| ESYS_STATE_INIT
| ESYS_STATE_SENT
| ESYS_STATE_RESUBMISSION
| ESYS_STATE_INTERNALERROR.

#[export] Instance ESYS_STATE_eq_dec : EqDecision ESYS_STATE.
Proof. solve_decision. Defined.

(** [S] is the state of the transport, [U] and [K] are the user data and the
    context pointers of the cryptographic back end. [heap] holds the
    nodes, [rsrc_list] their addresses in the order of the list, [next_node] is
    the next address [calloc] returns; [callocs] counts the calls of [calloc]
    and [malloc]. *)
Record ESYS_CONTEXT {S U K : Type} : Type := Esys {
  state : ESYS_STATE;
  sys : blob S;
  esys_handle_cnt : Z;
  heap : gmap nat RSRC_NODE_T;
  rsrc_list : list nat;
  next_node : nat;
  timeout : Z;
  session_type : list Z;
  session_tab : list (option nat);
  auth_objects : list (option nat);
  encryptNonceIdx : Z;
  encryptNonce : option nat;
  authsCount_esys : Z;
  submissionCount : Z;
  salt : TPM2B;
  cmd_in : IESYS_CMD_IN_PARAM;
  esys_handle_tmp : Z;
  enc_session : option nat;
  sav_session1 : Z;
  sav_session2 : Z;
  sav_session3 : Z;
  crypto_backend : ESYS_CRYPTO_CALLBACKS U K;
  callocs : nat
}.
Arguments ESYS_CONTEXT : clear implicits.

Section Context_.
Context {S U K : Type}.
Abbreviation CTX := (ESYS_CONTEXT S U K).

Definition set_state (v : ESYS_STATE) (c : CTX) : CTX := Esys S U K v (sys c) (esys_handle_cnt c)
  (heap c) (rsrc_list c) (next_node c) (timeout c) (session_type c) (session_tab c) (auth_objects
  c) (encryptNonceIdx c) (encryptNonce c) (authsCount_esys c) (submissionCount c) (salt c) (cmd_in
  c) (esys_handle_tmp c) (enc_session c) (sav_session1 c) (sav_session2 c) (sav_session3 c)
  (crypto_backend c) (callocs c).
Definition set_sys (v : blob S) (c : CTX) : CTX := Esys S U K (state c) v (esys_handle_cnt c)
  (heap c) (rsrc_list c) (next_node c) (timeout c) (session_type c) (session_tab c) (auth_objects
  c) (encryptNonceIdx c) (encryptNonce c) (authsCount_esys c) (submissionCount c) (salt c) (cmd_in
  c) (esys_handle_tmp c) (enc_session c) (sav_session1 c) (sav_session2 c) (sav_session3 c)
  (crypto_backend c) (callocs c).
Definition set_esys_handle_cnt (v : Z) (c : CTX) : CTX := Esys S U K (state c) (sys c) v (heap c)
  (rsrc_list c) (next_node c) (timeout c) (session_type c) (session_tab c) (auth_objects c)
  (encryptNonceIdx c) (encryptNonce c) (authsCount_esys c) (submissionCount c) (salt c) (cmd_in c)
  (esys_handle_tmp c) (enc_session c) (sav_session1 c) (sav_session2 c) (sav_session3 c)
  (crypto_backend c) (callocs c).
Definition set_heap (v : gmap nat RSRC_NODE_T) (c : CTX) : CTX := Esys S U K (state c) (sys c)
  (esys_handle_cnt c) v (rsrc_list c) (next_node c) (timeout c) (session_type c) (session_tab c)
  (auth_objects c) (encryptNonceIdx c) (encryptNonce c) (authsCount_esys c) (submissionCount c)
  (salt c) (cmd_in c) (esys_handle_tmp c) (enc_session c) (sav_session1 c) (sav_session2 c)
  (sav_session3 c) (crypto_backend c) (callocs c).
Definition set_rsrc_list (v : list nat) (c : CTX) : CTX := Esys S U K (state c) (sys c)
  (esys_handle_cnt c) (heap c) v (next_node c) (timeout c) (session_type c) (session_tab c)
  (auth_objects c) (encryptNonceIdx c) (encryptNonce c) (authsCount_esys c) (submissionCount c)
  (salt c) (cmd_in c) (esys_handle_tmp c) (enc_session c) (sav_session1 c) (sav_session2 c)
  (sav_session3 c) (crypto_backend c) (callocs c).
Definition set_next_node (v : nat) (c : CTX) : CTX := Esys S U K (state c) (sys c)
  (esys_handle_cnt c) (heap c) (rsrc_list c) v (timeout c) (session_type c) (session_tab c)
  (auth_objects c) (encryptNonceIdx c) (encryptNonce c) (authsCount_esys c) (submissionCount c)
  (salt c) (cmd_in c) (esys_handle_tmp c) (enc_session c) (sav_session1 c) (sav_session2 c)
  (sav_session3 c) (crypto_backend c) (callocs c).
Definition set_timeout (v : Z) (c : CTX) : CTX := Esys S U K (state c) (sys c) (esys_handle_cnt c)
  (heap c) (rsrc_list c) (next_node c) v (session_type c) (session_tab c) (auth_objects c)
  (encryptNonceIdx c) (encryptNonce c) (authsCount_esys c) (submissionCount c) (salt c) (cmd_in c)
  (esys_handle_tmp c) (enc_session c) (sav_session1 c) (sav_session2 c) (sav_session3 c)
  (crypto_backend c) (callocs c).
Definition set_session_type (v : list Z) (c : CTX) : CTX := Esys S U K (state c) (sys c)
  (esys_handle_cnt c) (heap c) (rsrc_list c) (next_node c) (timeout c) v (session_tab c)
  (auth_objects c) (encryptNonceIdx c) (encryptNonce c) (authsCount_esys c) (submissionCount c)
  (salt c) (cmd_in c) (esys_handle_tmp c) (enc_session c) (sav_session1 c) (sav_session2 c)
  (sav_session3 c) (crypto_backend c) (callocs c).
Definition set_session_tab (v : list (option nat)) (c : CTX) : CTX := Esys S U K (state c) (sys c)
  (esys_handle_cnt c) (heap c) (rsrc_list c) (next_node c) (timeout c) (session_type c) v
  (auth_objects c) (encryptNonceIdx c) (encryptNonce c) (authsCount_esys c) (submissionCount c)
  (salt c) (cmd_in c) (esys_handle_tmp c) (enc_session c) (sav_session1 c) (sav_session2 c)
  (sav_session3 c) (crypto_backend c) (callocs c).
Definition set_auth_objects (v : list (option nat)) (c : CTX) : CTX := Esys S U K (state c) (sys
  c) (esys_handle_cnt c) (heap c) (rsrc_list c) (next_node c) (timeout c) (session_type c)
  (session_tab c) v (encryptNonceIdx c) (encryptNonce c) (authsCount_esys c) (submissionCount c)
  (salt c) (cmd_in c) (esys_handle_tmp c) (enc_session c) (sav_session1 c) (sav_session2 c)
  (sav_session3 c) (crypto_backend c) (callocs c).
Definition set_encryptNonceIdx (v : Z) (c : CTX) : CTX := Esys S U K (state c) (sys c)
  (esys_handle_cnt c) (heap c) (rsrc_list c) (next_node c) (timeout c) (session_type c)
  (session_tab c) (auth_objects c) v (encryptNonce c) (authsCount_esys c) (submissionCount c)
  (salt c) (cmd_in c) (esys_handle_tmp c) (enc_session c) (sav_session1 c) (sav_session2 c)
  (sav_session3 c) (crypto_backend c) (callocs c).
Definition set_encryptNonce (v : option nat) (c : CTX) : CTX := Esys S U K (state c) (sys c)
  (esys_handle_cnt c) (heap c) (rsrc_list c) (next_node c) (timeout c) (session_type c)
  (session_tab c) (auth_objects c) (encryptNonceIdx c) v (authsCount_esys c) (submissionCount c)
  (salt c) (cmd_in c) (esys_handle_tmp c) (enc_session c) (sav_session1 c) (sav_session2 c)
  (sav_session3 c) (crypto_backend c) (callocs c).
Definition set_authsCount_esys (v : Z) (c : CTX) : CTX := Esys S U K (state c) (sys c)
  (esys_handle_cnt c) (heap c) (rsrc_list c) (next_node c) (timeout c) (session_type c)
  (session_tab c) (auth_objects c) (encryptNonceIdx c) (encryptNonce c) v (submissionCount c)
  (salt c) (cmd_in c) (esys_handle_tmp c) (enc_session c) (sav_session1 c) (sav_session2 c)
  (sav_session3 c) (crypto_backend c) (callocs c).
Definition set_submissionCount (v : Z) (c : CTX) : CTX := Esys S U K (state c) (sys c)
  (esys_handle_cnt c) (heap c) (rsrc_list c) (next_node c) (timeout c) (session_type c)
  (session_tab c) (auth_objects c) (encryptNonceIdx c) (encryptNonce c) (authsCount_esys c) v
  (salt c) (cmd_in c) (esys_handle_tmp c) (enc_session c) (sav_session1 c) (sav_session2 c)
  (sav_session3 c) (crypto_backend c) (callocs c).
Definition set_salt (v : TPM2B) (c : CTX) : CTX := Esys S U K (state c) (sys c) (esys_handle_cnt
  c) (heap c) (rsrc_list c) (next_node c) (timeout c) (session_type c) (session_tab c)
  (auth_objects c) (encryptNonceIdx c) (encryptNonce c) (authsCount_esys c) (submissionCount c) v
  (cmd_in c) (esys_handle_tmp c) (enc_session c) (sav_session1 c) (sav_session2 c) (sav_session3
  c) (crypto_backend c) (callocs c).
Definition set_cmd_in (v : IESYS_CMD_IN_PARAM) (c : CTX) : CTX := Esys S U K (state c) (sys c)
  (esys_handle_cnt c) (heap c) (rsrc_list c) (next_node c) (timeout c) (session_type c)
  (session_tab c) (auth_objects c) (encryptNonceIdx c) (encryptNonce c) (authsCount_esys c)
  (submissionCount c) (salt c) v (esys_handle_tmp c) (enc_session c) (sav_session1 c)
  (sav_session2 c) (sav_session3 c) (crypto_backend c) (callocs c).
Definition set_esys_handle_tmp (v : Z) (c : CTX) : CTX := Esys S U K (state c) (sys c)
  (esys_handle_cnt c) (heap c) (rsrc_list c) (next_node c) (timeout c) (session_type c)
  (session_tab c) (auth_objects c) (encryptNonceIdx c) (encryptNonce c) (authsCount_esys c)
  (submissionCount c) (salt c) (cmd_in c) v (enc_session c) (sav_session1 c) (sav_session2 c)
  (sav_session3 c) (crypto_backend c) (callocs c).
Definition set_enc_session (v : option nat) (c : CTX) : CTX := Esys S U K (state c) (sys c)
  (esys_handle_cnt c) (heap c) (rsrc_list c) (next_node c) (timeout c) (session_type c)
  (session_tab c) (auth_objects c) (encryptNonceIdx c) (encryptNonce c) (authsCount_esys c)
  (submissionCount c) (salt c) (cmd_in c) (esys_handle_tmp c) v (sav_session1 c) (sav_session2 c)
  (sav_session3 c) (crypto_backend c) (callocs c).
Definition set_sav_session1 (v : Z) (c : CTX) : CTX := Esys S U K (state c) (sys c)
  (esys_handle_cnt c) (heap c) (rsrc_list c) (next_node c) (timeout c) (session_type c)
  (session_tab c) (auth_objects c) (encryptNonceIdx c) (encryptNonce c) (authsCount_esys c)
  (submissionCount c) (salt c) (cmd_in c) (esys_handle_tmp c) (enc_session c) v (sav_session2 c)
  (sav_session3 c) (crypto_backend c) (callocs c).
Definition set_sav_session2 (v : Z) (c : CTX) : CTX := Esys S U K (state c) (sys c)
  (esys_handle_cnt c) (heap c) (rsrc_list c) (next_node c) (timeout c) (session_type c)
  (session_tab c) (auth_objects c) (encryptNonceIdx c) (encryptNonce c) (authsCount_esys c)
  (submissionCount c) (salt c) (cmd_in c) (esys_handle_tmp c) (enc_session c) (sav_session1 c) v
  (sav_session3 c) (crypto_backend c) (callocs c).
Definition set_sav_session3 (v : Z) (c : CTX) : CTX := Esys S U K (state c) (sys c)
  (esys_handle_cnt c) (heap c) (rsrc_list c) (next_node c) (timeout c) (session_type c)
  (session_tab c) (auth_objects c) (encryptNonceIdx c) (encryptNonce c) (authsCount_esys c)
  (submissionCount c) (salt c) (cmd_in c) (esys_handle_tmp c) (enc_session c) (sav_session1 c)
  (sav_session2 c) v (crypto_backend c) (callocs c).
Definition set_crypto_backend (v : ESYS_CRYPTO_CALLBACKS U K) (c : CTX) : CTX := Esys S U K (state
  c) (sys c) (esys_handle_cnt c) (heap c) (rsrc_list c) (next_node c) (timeout c) (session_type c)
  (session_tab c) (auth_objects c) (encryptNonceIdx c) (encryptNonce c) (authsCount_esys c)
  (submissionCount c) (salt c) (cmd_in c) (esys_handle_tmp c) (enc_session c) (sav_session1 c)
  (sav_session2 c) (sav_session3 c) v (callocs c).
Definition set_callocs (v : nat) (c : CTX) : CTX := Esys S U K (state c) (sys c) (esys_handle_cnt
  c) (heap c) (rsrc_list c) (next_node c) (timeout c) (session_type c) (session_tab c)
  (auth_objects c) (encryptNonceIdx c) (encryptNonce c) (authsCount_esys c) (submissionCount c)
  (salt c) (cmd_in c) (esys_handle_tmp c) (enc_session c) (sav_session1 c) (sav_session2 c)
  (sav_session3 c) (crypto_backend c) v.

End Context_.
