(* ===== verification/EsysUtil.v ===== *)
(** * Enhanced System API: the functions shared by the commands (esys_iutil.c).

    Handles and the list of objects, sessions and their values, encryption of
    parameters, the authorizations of a command and the check of those of its
    response. *)

From stdpp Require Import gmap strings.
From S2P Require Import Prelude Common MuSpec MuBase MuStruct MuTpm2b MuUnion TpmTypes MuTypes SysCodes Sys EsysBase EsysCrypto EsysCtx.

Open Scope tss_scope.
Open Scope esys_scope.
Open Scope Z_scope.

(** Whether the [n]-th call of [calloc] or [malloc] returns NULL, what the
    member [sessionHandle] of the [i]-th element of an array of authorizations
    on the stack holds before it is set, and what a TPM2B there holds. *)
Class Memory := {
  calloc_fails : nat -> bool;
  stack_handle : nat -> Z;
  stack_size : Z;
  stack_bytes : bytes
}.
Definition calloc_succeeds : Memory :=
  {| calloc_fails _ := false; stack_handle _ := 0; stack_size := 0; stack_bytes := [] |}.

(** A local variable before it is set: its buffer has [cap] bytes. *)
Definition stack_2b {HM : Memory} (cap : Z) : TPM2B :=
  MkTPM2B (wrap 16 stack_size) (map (wrap 8) (resize (Z.to_nat cap) 0 stack_bytes)).

(** ** Comparisons *)

Definition cmp_UINT16 (in1 in2 : Z) : bool := in1 =? in2.

Definition cmp_BYTE_array (in1 : bytes) (count1 : Z) (in2 : bytes) (count2 : Z) : outcome bool :=
  if negb (count1 =? count2) then Ret false
  else
    let* a := access (mem_read in1 0 count2) in
    let* b := access (mem_read in2 0 count2) in
    Ret (bool_decide (a = b)).

Definition cmp_TPM2B_DIGEST (in1 in2 : TPM2B) : outcome bool :=
  if negb (cmp_UINT16 (size in1) (size in2)) then Ret false
  else cmp_BYTE_array (buffer in1) (size in1) (buffer in2) (size in2).
Definition cmp_TPM2B_NAME (in1 in2 : TPM2B) : outcome bool :=
  if negb (cmp_UINT16 (size in1) (size in2)) then Ret false
  else cmp_BYTE_array (buffer in1) (size in1) (buffer in2) (size in2).
Definition cmp_TPM2B_AUTH (in1 in2 : TPM2B) : outcome bool := cmp_TPM2B_DIGEST in1 in2.

(** ** Handles *)

Definition iesys_handle_to_tpm_handle (esys_handle : Z) : TSS2_RC + Z :=
  if esys_handle <=? ESYS_TR_PCR31 then inr esys_handle
  else if esys_handle =? ESYS_TR_RH_OWNER then inr TPM2_RH_OWNER
  else if esys_handle =? ESYS_TR_RH_NULL then inr TPM2_RH_NULL
  else if esys_handle =? ESYS_TR_RH_LOCKOUT then inr TPM2_RH_LOCKOUT
  else if esys_handle =? ESYS_TR_RH_ENDORSEMENT then inr TPM2_RH_ENDORSEMENT
  else if esys_handle =? ESYS_TR_RH_PLATFORM then inr TPM2_RH_PLATFORM
  else if esys_handle =? ESYS_TR_RH_PLATFORM_NV then inr TPM2_RH_PLATFORM_NV
  else if esys_handle =? ESYS_TR_RH_FW_OWNER then inr TPM2_RH_FW_OWNER
  else if esys_handle =? ESYS_TR_RH_FW_ENDORSEMENT then inr TPM2_RH_FW_ENDORSEMENT
  else if esys_handle =? ESYS_TR_RH_FW_PLATFORM then inr TPM2_RH_FW_PLATFORM
  else if esys_handle =? ESYS_TR_RH_FW_NULL then inr TPM2_RH_FW_NULL
  else if Z.land esys_handle 0xFFFF0000 =? ESYS_TR_RH_SVN_OWNER_BASE
  then inr (TPM2_RH_SVN_OWNER_BASE + Z.land esys_handle 0x0000FFFF)
  else if Z.land esys_handle 0xFFFF0000 =? ESYS_TR_RH_SVN_ENDORSEMENT_BASE
  then inr (TPM2_RH_SVN_ENDORSEMENT_BASE + Z.land esys_handle 0x0000FFFF)
  else if Z.land esys_handle 0xFFFF0000 =? ESYS_TR_RH_SVN_PLATFORM_BASE
  then inr (TPM2_RH_SVN_PLATFORM_BASE + Z.land esys_handle 0x0000FFFF)
  else if Z.land esys_handle 0xFFFF0000 =? ESYS_TR_RH_SVN_NULL_BASE
  then inr (TPM2_RH_SVN_NULL_BASE + Z.land esys_handle 0x0000FFFF)
  else if (ESYS_TR_RH_ACT_FIRST <=? esys_handle) && (esys_handle <=? ESYS_TR_RH_ACT_LAST)
  then inr (TPM2_RH_ACT_0 + (esys_handle - ESYS_TR_RH_ACT_FIRST))
  else if (ESYS_TR_RH_AC_FIRST <=? esys_handle) && (esys_handle <=? ESYS_TR_RH_AC_LAST)
  then inr (TPM2_NV_AC_FIRST + (esys_handle - ESYS_TR_RH_AC_FIRST))
  else inl TSS2_ESYS_RC_BAD_VALUE.

Definition iesys_is_platform_handle (handle : Z) : bool :=
  (handle =? TPM2_RH_OWNER) || (handle =? TPM2_RH_PLATFORM) || (handle =? TPM2_RH_PLATFORM_NV)
  || (handle =? TPM2_RH_ENDORSEMENT) || (handle =? TPM2_RH_NULL).

(** [TPM2_HT] is an [UINT8]. *)
Definition iesys_get_handle_type (handle : Z) : Z :=
  wrap 8 (Z.shiftr (Z.land handle TPM2_HR_RANGE_MASK) TPM2_HR_SHIFT).

(** ** Return codes *)

Definition iesys_tpm_error (r : TSS2_RC) : bool :=
  negb (r =? TSS2_RC_SUCCESS)
  && ((Z.land r (TSS2_RC_LAYER 0xff) =? 0)
      || (Z.land r (TSS2_RC_LAYER 0xff) =? TSS2_RESMGR_TPM_RC_LAYER)
      || (Z.land r (TSS2_RC_LAYER 0xff) =? TSS2_RESMGR_RC_LAYER)).

(** ** Sessions of a call *)

(** The loop over the three handles, from the last one on: [Some r] is an early
    return. *)
Fixpoint feasibility_loop (handle_tab : list Z) (mandatory : Z) (check_none : bool) :
    TSS2_RC + Z :=
  match handle_tab with
  | [] => inr mandatory
  | h :: handle_tab =>
      let mandatory := if negb (h =? ESYS_TR_NONE) then mandatory - 1 else mandatory in
      if negb (h =? ESYS_TR_NONE) && negb (h =? ESYS_TR_PASSWORD)
      then feasibility_loop handle_tab mandatory true
      else if check_none && (h =? ESYS_TR_NONE) then inl TSS2_ESYS_RC_BAD_VALUE
      else feasibility_loop handle_tab mandatory check_none
  end.

Definition check_session_feasibility (shandle1 shandle2 shandle3 : Z) (mandatory : Z) : TSS2_RC :=
  match feasibility_loop [shandle3; shandle2; shandle1] mandatory false with
  | inl r => r
  | inr mandatory => if 0 <? mandatory then TSS2_ESYS_RC_BAD_VALUE else TSS2_RC_SUCCESS
  end.

(** ** The bind value *)

(** [name->size] and [auth->size] above the size of [bound_entity->name] make
    the loops run out of the buffers. *)
Definition iesys_compute_bound_entity (name auth : TPM2B) : outcome TPM2B :=
  let* nm := access (mem_read (buffer name) 0 (size name)) in
  let* au := access (mem_read (buffer auth) 0 (size auth)) in
  if (cap_TPM2B_NAME <? size name) || (cap_TPM2B_NAME <? size auth) then Undef
  else
    let padded := nm ++ replicate (Z.to_nat (cap_TPM2B_NAME - size name)) 0 in
    let i := Z.to_nat (cap_TPM2B_NAME - size auth) in
    Ret (MkTPM2B cap_TPM2B_NAME (take i padded ++ xor_bytes (drop i padded) au)).

Definition iesys_is_object_bound (name auth : TPM2B) (session : IESYS_SESSION) : outcome bool :=
  if size (bound_entity session) =? 0 then Ret false
  else
    let* tmp := iesys_compute_bound_entity name auth in
    cmp_TPM2B_NAME (bound_entity session) tmp.

(** The session after [iesys_compute_session_value]; [name_auth] is [None]
    when [name] or [auth_value] is NULL. *)
Definition compute_session_value (s : IESYS_SESSION) (name_auth : option (TPM2B * TPM2B)) :
    outcome IESYS_SESSION :=
  let s := set_sizeSessionValue (size (sessionKey s)) s in
  let* key := access (mem_read (buffer (sessionKey s)) 0 (size (sessionKey s))) in
  let* v := access (mem_write (sessionValue s) 0 key) in
  let s := set_sessionValue v s in
  if negb (sessionType s =? TPM2_SE_HMAC) && negb (sessionType s =? TPM2_SE_POLICY) then Ret s
  else
  let s := set_sizeHmacValue (sizeSessionValue s) s in
  match name_auth with
  | None => Ret s
  | Some (name, auth_value) =>
      let* au := access (mem_read (buffer auth_value) 0 (size auth_value)) in
      let* v := access (mem_write (sessionValue s) (size (sessionKey s)) au) in
      let s := set_sessionValue v s in
      let s := set_sizeSessionValue (wrap 16 (sizeSessionValue s + size auth_value)) s in
      let* bound := iesys_is_object_bound name auth_value s in
      if bound then Ret s
      else if (sessionType s =? TPM2_SE_POLICY) && negb (type_policy_session s =? POLICY_AUTH)
      then Ret s
      else Ret (set_sizeHmacValue (wrap 16 (sizeHmacValue s + size auth_value)) s)
  end.

(** ** Authorization values *)

(** [iesys_strip_trailing_zeros]: the new size *)
Fixpoint strip_size (b : bytes) (n : nat) : Z :=
  match n with
  | O => 0
  | Datatypes.S m => if default 0 (b !! m) =? 0 then strip_size b m else Z.of_nat n
  end.
Definition iesys_strip_trailing_zeros (digest : TPM2B) : outcome TPM2B :=
  let* _ := access (mem_read (buffer digest) 0 (size digest)) in
  Ret (MkTPM2B (strip_size (buffer digest) (Z.to_nat (size digest))) (buffer digest)).

(** ** Access to the context *)

Section Util.
Context {H : Host} {HM : Memory} {S U K : Type}.
Abbreviation CTX := (ESYS_CONTEXT S U K).
Abbreviation EM A := (M CTX A).
Abbreviation CB := (ESYS_CRYPTO_CALLBACKS U K).

(** [r = iesys_handle_to_tpm_handle(h, &t);] and the return of its error *)
Definition tpm_handle (h : Z) : EM Z :=
  match iesys_handle_to_tpm_handle h with inl r => fail r | inr t => ret t end.
(** The same where the handle of a hierarchy of the TPM stands for itself *)
Definition hierarchy_handle (h : Z) : EM Z :=
  match iesys_handle_to_tpm_handle h with
  | inl r => if negb (iesys_is_platform_handle h) then fail r else ret h
  | inr t => ret t
  end.

Definition crypto {A} (m : M CB A) : EM A := zoom crypto_backend set_crypto_backend m.

(** A call of a function of the System API on [esys_context->sys]. *)
Definition sys_m (f : sysF S) : EM unit := fun c =>
  match f (Some (sys c)) with
  | Ret (rval, Some b) => Ret (set_sys b c, if rval =? TSS2_RC_SUCCESS then inr tt else inl rval)
  | _ => Undef
  end.
(** The same for a function that only reads it, with its output parameters. *)
Definition sys_get {A} (f : option (blob S) -> outcome (TSS2_RC * A)) : EM A := fun c =>
  match f (Some (sys c)) with
  | Ret (rval, a) => Ret (c, if rval =? TSS2_RC_SUCCESS then inr a else inl rval)
  | Undef => Undef
  end.

(** A size and a pointer into the command buffer that a function has set, and
    the bytes there. *)
Definition sys_area (f : option (blob S) -> option Z -> option Z ->
    outcome (TSS2_RC * (option Z * option Z))) : EM (Z * Z) :=
  let! (size, buf) := sys_get (fun b => f b (Some 0) (Some 0)) in
  ret (default 0 size, default 0 buf).
Definition sys_bytes (size buf : Z) : EM bytes := fun c =>
  match mem_read (cmdBuffer (sys c)) buf size with
  | Some w => Ret (c, inr w)
  | None => Undef
  end.

Definition node_at (p : nat) : EM RSRC_NODE_T := fun c =>
  match heap c !! p with Some n => Ret (c, inr n) | None => Undef end.
Definition upd_node (p : nat) (f : RSRC_NODE_T -> RSRC_NODE_T) : EM unit :=
  let! n := node_at p in modify (fun c => set_heap (<[p := f n]> (heap c)) c).
(** [node->rsrc.misc.rsrc_session] *)
Definition session_at (p : nat) : EM IESYS_SESSION :=
  let! n := node_at p in lift (rsrc_session (misc (rsrc n))).
Definition put_session (p : nat) (s : IESYS_SESSION) : EM unit :=
  upd_node p (fun n => set_rsrc (set_misc (Misc_session s) (rsrc n)) n).
Definition upd_session (p : nat) (f : IESYS_SESSION -> IESYS_SESSION) : EM unit :=
  let! s := session_at p in put_session p (f s).
(** [&node->rsrc.misc.rsrc_session.nonceTPM], where the pointer may be NULL. *)
Definition nonce_at (p : option nat) : EM (option TPM2B) :=
  match p with
  | None => ret None
  | Some p => let! s := session_at p in ret (Some (nonceTPM s))
  end.

(** An element of one of the tables of three elements. *)
Definition at3 {A} (l : list A) (i : nat) : EM A := lift (access (l !! i)).
Definition session_tab_at (i : nat) : EM (option nat) :=
  let! c := get in at3 (session_tab c) i.
Definition auth_objects_at (i : nat) : EM (option nat) :=
  let! c := get in at3 (auth_objects c) i.

(** [for (i = 0; i < 3; i++)] over the sessions that are not NULL. *)
Definition for_sessions (f : nat -> nat -> EM unit) : EM unit :=
  for_each (seq 0 3) (fun i =>
    let! session := session_tab_at i in
    match session with None => ret tt | Some p => f i p end).

(** [return_if_notnull] *)
Definition return_if_notnull {A} (p : option A) (r : TSS2_RC) : EM unit :=
  match p with Some _ => fail r | None => ret tt end.
Definition has (attribute : Z) (s : IESYS_SESSION) : bool :=
  negb (Z.land (sessionAttributes s) attribute =? 0).

(** The digest a call has stored in a buffer of [sizeof(TPMU_HA)] bytes. *)
Definition digest_bytes (digest : bytes) (size : Z) : EM bytes :=
  let! b := lift (access (mem_write (replicate (Z.to_nat sizeof_TPMU_HA) 0) 0 digest)) in
  lift (access (mem_read b 0 size)).

(** ** The list of objects *)

Definition calloc : EM bool :=
  let! c := get in
  modify (set_callocs (Datatypes.S (callocs c))) ;!
  ret (negb (calloc_fails (callocs c))).

Definition esys_CreateResourceObject (esys_handle : Z) : EM nat :=
  let! ok := calloc in
  if negb ok then fail TSS2_ESYS_RC_MEMORY
  else
    let! c := get in
    let p := next_node c in
    modify (set_next_node (Datatypes.S p)) ;!
    modify (fun c => set_heap (<[p := set_esys_handle esys_handle zero_RSRC_NODE_T]> (heap c)) c) ;!
    modify (fun c => set_rsrc_list (p :: rsrc_list c) c) ;!
    ret p.

Definition iesys_DeleteAllResourceObjects : EM unit :=
  let! c := get in
  modify (set_heap (foldr delete (heap c) (rsrc_list c))) ;!
  modify (set_rsrc_list []).

(** The search through the list. *)
Fixpoint find_object (l : list nat) (esys_handle_ : Z) : EM (option nat) :=
  match l with
  | [] => ret None
  | p :: l =>
      let! n := node_at p in
      if esys_handle n =? esys_handle_ then ret (Some p) else find_object l esys_handle_
  end.

Definition esys_GetResourceObject (esys_handle : Z) : EM (option nat) :=
  if esys_handle =? ESYS_TR_NONE then ret None
  else
    let! c := get in
    let! found := find_object (rsrc_list c) esys_handle in
    match found with
    | Some p => ret (Some p)
    | None =>
        if ESYS_TR_MIN_OBJECT <=? esys_handle then fail TSS2_ESYS_RC_BAD_TR
        else
          match iesys_handle_to_tpm_handle esys_handle with
          | inl r => fail r
          | inr tpm_handle =>
              let! p := esys_CreateResourceObject esys_handle in
              upd_node p (fun n => set_rsrc (set_rsrcType IESYSC_WITHOUT_MISC_RSRC
                (set_handle tpm_handle (rsrc n))) n) ;!
              let! image := mu_image cap_TPM2B_NAME (Tss2_MU_TPM2_HANDLE_Marshal tpm_handle) in
              let! n := node_at p in
              let! b := lift (access (mem_write (buffer (name (rsrc n))) 0 image)) in
              upd_node p (fun n => set_rsrc (set_name (MkTPM2B (Zlen image) b) (rsrc n)) n) ;!
              ret (Some p)
          end
    end.

(** ** Sessions *)

Definition init_session_tab (shandle1 shandle2 shandle3 : Z) : EM unit :=
  for_each (zip (seq 0 3) [shandle1; shandle2; shandle3]) (fun '(i, h) =>
    modify (fun c => set_session_type (<[i := h]> (session_type c)) c) ;!
    if (h =? ESYS_TR_NONE) || (h =? ESYS_TR_PASSWORD)
    then modify (fun c => set_session_tab (<[i := None]> (session_tab c)) c)
    else
      let! p := esys_GetResourceObject h in
      modify (fun c => set_session_tab (<[i := p]> (session_tab c)) c) ;!
      match p with
      | None => undef
      | Some p =>
          let! n := node_at p in
          if negb (rsrcType (rsrc n) =? IESYSC_SESSION_RSRC) then fail TSS2_ESYS_RC_BAD_TR
          else ret tt
      end).

(** [*encryptNonceIdx] and [*encryptNonce] before and after. *)
Fixpoint compute_encrypt_nonce_loop (l : list nat) (encryptNonceIdx : Z) (encryptNonce : option nat) :
    EM (Z * option nat) :=
  match l with
  | [] => ret (encryptNonceIdx, encryptNonce)
  | i :: l =>
      let! session := session_tab_at i in
      match session with
      | None => compute_encrypt_nonce_loop l encryptNonceIdx encryptNonce
      | Some p =>
          let! s := session_at p in
          if has TPMA_SESSION_ENCRYPT s then
            return_if_notnull encryptNonce TSS2_ESYS_RC_MULTIPLE_ENCRYPT_SESSIONS ;!
            compute_encrypt_nonce_loop l (Z.of_nat i) (Some p)
          else compute_encrypt_nonce_loop l encryptNonceIdx encryptNonce
      end
  end.
Definition iesys_compute_encrypt_nonce (encryptNonceIdx : Z) (encryptNonce : option nat) :
    EM (Z * option nat) :=
  compute_encrypt_nonce_loop (seq 0 3) encryptNonceIdx encryptNonce.

Definition iesys_gen_caller_nonces : EM unit :=
  for_sessions (fun _ p =>
    let! s := session_at p in
    let! (r, nonce) := crypto (iesys_crypto_get_random2b (nonceCaller s) (size (nonceCaller s))) in
    upd_session p (set_nonceCaller nonce) ;!
    return_if_error r).

Definition clear_attribute (attribute : Z) (s : IESYS_SESSION) : IESYS_SESSION :=
  set_sessionAttributes (Z.ldiff (sessionAttributes s) attribute) s.

Definition is_code {A} (r : TSS2_RC) (x : TSS2_RC + A) : bool :=
  match x with inl r' => r' =? r | inr _ => false end.

Definition iesys_update_session_flags (p : nat) : EM unit :=
  upd_session p (fun s => set_origSessionAttributes (sessionAttributes s) s) ;!
  let! r := code (sys_area Tss2_Sys_GetDecryptParam) in
  (if is_code TSS2_SYS_RC_NO_DECRYPT_PARAM r
   then upd_session p (clear_attribute TPMA_SESSION_DECRYPT) else ret tt) ;!
  let! r := code (sys_area Tss2_Sys_GetEncryptParam) in
  if is_code TSS2_SYS_RC_NO_ENCRYPT_PARAM r
  then upd_session p (clear_attribute TPMA_SESSION_ENCRYPT) else ret tt.

Definition iesys_restore_session_flags : EM unit :=
  for_sessions (fun _ p =>
    upd_session p (fun s => set_sessionAttributes (origSessionAttributes s) s)).

Definition iesys_compute_session_value (session : option nat) (name_auth : option (TPM2B * TPM2B)) :
    EM unit :=
  match session with
  | None => ret tt
  | Some p =>
      let! s := session_at p in
      let! s := lift (compute_session_value s name_auth) in
      put_session p s
  end.

Definition iesys_check_sequence_async : EM unit :=
  let! c := get in
  if negb (bool_decide (state c = ESYS_STATE_INIT))
     && negb (bool_decide (state c = ESYS_STATE_RESUBMISSION))
  then fail TSS2_ESYS_RC_BAD_SEQUENCE
  else modify (set_submissionCount 1).

(** ** Encryption of parameters *)

Definition key_size (hlen : Z) : Z :=
  let key_len := TPM2_MAX_SYM_KEY_BYTES + TPM2_MAX_SYM_BLOCK_SIZE in
  if 0 <? key_len mod hlen then key_len + hlen - key_len mod hlen else key_len.

(** The key and the initialisation vector of a block cipher of [bits] bits. *)
Definition derive_key (s : IESYS_SESSION) (key_len bits : Z) (contextU contextV : TPM2B) :
    EM bytes :=
  let! value := lift (access (mem_read (sessionValue s) 0 (sizeSessionValue s))) in
  let! (symKey, _) := crypto (iesys_crypto_KDFa (authHash s) value (Some "CFB"%string)
    contextU contextV bits None (replicate (Z.to_nat key_len) 0) false) in
  ret symKey.

Definition xor_parameter (s : IESYS_SESSION) (contextU contextV : TPM2B) (data : bytes) : EM bytes :=
  let! value := lift (access (mem_read (sessionValue s) 0 (sizeSessionValue s))) in
  crypto (iesys_xor_parameter_obfuscation (authHash s) value contextU contextV data).

(** The branches on [symDef->algorithm] for a parameter to encrypt. *)
Definition encrypt_bytes (s : IESYS_SESSION) (key_len : Z) (encrypt_buffer : bytes) : EM bytes :=
  let symDef := symmetric s in
  let bits := TPMT_SYM_DEF_keyBits symDef in
  if TPMT_SYM_DEF_algorithm symDef =? TPM2_ALG_AES then
    if negb (TPMT_SYM_DEF_mode symDef =? TPM2_ALG_CFB) then fail TSS2_ESYS_RC_BAD_VALUE
    else
      let! symKey := derive_key s key_len (bits + AES_BLOCK_SIZE_IN_BYTES * 8)
        (nonceCaller s) (nonceTPM s) in
      crypto (iesys_crypto_aes_encrypt symKey (TPMT_SYM_DEF_algorithm symDef) bits
        (TPMT_SYM_DEF_mode symDef) encrypt_buffer (drop (Z.to_nat ((bits + 7) / 8)) symKey))
  else if TPMT_SYM_DEF_algorithm symDef =? TPM2_ALG_SM4 then
    if negb (TPMT_SYM_DEF_mode symDef =? TPM2_ALG_CFB) then fail TSS2_ESYS_RC_BAD_VALUE
    else
      let! symKey := derive_key s key_len (bits + SM4_BLOCK_SIZE_IN_BYTES * 8)
        (nonceCaller s) (nonceTPM s) in
      crypto (iesys_crypto_sm4_encrypt symKey (TPMT_SYM_DEF_algorithm symDef) bits
        (TPMT_SYM_DEF_mode symDef) encrypt_buffer (drop (Z.to_nat ((bits + 7) / 8)) symKey))
  else if TPMT_SYM_DEF_algorithm symDef =? TPM2_ALG_XOR then
    xor_parameter s (nonceCaller s) (nonceTPM s) encrypt_buffer
  else fail TSS2_ESYS_RC_BAD_VALUE.

(** The second loop: [*decryptNonce] and [*decryptNonceIdx] before and after. *)
Fixpoint encrypt_param_loop (l : list nat) (decryptNonce : option nat) (decryptNonceIdx : Z) :
    EM (option nat * Z) :=
  match l with
  | [] => ret (decryptNonce, decryptNonceIdx)
  | i :: l =>
      let! session := session_tab_at i in
      match session with
      | None => encrypt_param_loop l decryptNonce decryptNonceIdx
      | Some p =>
          let! s := session_at p in
          (if has TPMA_SESSION_ENCRYPT s then
             modify (set_encryptNonceIdx (Z.of_nat i)) ;!
             modify (set_encryptNonce (Some p)) ;!
             modify (set_enc_session (Some p))
           else ret tt) ;!
          if has TPMA_SESSION_DECRYPT s then
            let! hlen := crypto (iesys_crypto_hash_get_digest_size (authHash s)) in
            let! (paramSize, paramBuffer) := sys_area Tss2_Sys_GetDecryptParam in
            (if paramSize =? 0 then ret tt
             else
               let! encrypt_buffer := sys_bytes paramSize paramBuffer in
               let! encrypt_buffer := encrypt_bytes s (key_size hlen) encrypt_buffer in
               sys_m (Tss2_Sys_SetDecryptParam paramSize (Some encrypt_buffer))) ;!
            encrypt_param_loop l (Some p) (Z.of_nat i)
          else encrypt_param_loop l decryptNonce decryptNonceIdx
      end
  end.

(** The first loop tests two pointers that are NULL all the time. *)
Definition iesys_encrypt_param : EM (option nat * Z) :=
  let encryptNonce : option nat := None in
  let decryptNonce : option nat := None in
  let decryptNonceIdx := 0 in
  modify (set_enc_session None) ;!
  for_sessions (fun _ p =>
    let! s := session_at p in
    (if has TPMA_SESSION_ENCRYPT s
     then return_if_notnull encryptNonce TSS2_ESYS_RC_MULTIPLE_ENCRYPT_SESSIONS else ret tt) ;!
    (if has TPMA_SESSION_DECRYPT s
     then return_if_notnull decryptNonce TSS2_ESYS_RC_MULTIPLE_DECRYPT_SESSIONS else ret tt) ;!
    iesys_update_session_flags p) ;!
  encrypt_param_loop (seq 0 3) decryptNonce decryptNonceIdx.

(** The branches on [symDef->algorithm] for a parameter of a response; each
    ends with [Tss2_Sys_SetEncryptParam]. *)
Definition decrypt_bytes (s : IESYS_SESSION) (key_len : Z) (plaintext : bytes) : EM bytes :=
  let symDef := symmetric s in
  let bits := TPMT_SYM_DEF_keyBits symDef in
  if TPMT_SYM_DEF_algorithm symDef =? TPM2_ALG_AES then
    if negb (TPMT_SYM_DEF_mode symDef =? TPM2_ALG_CFB) then fail TSS2_ESYS_RC_BAD_VALUE
    else
      let! symKey := derive_key s key_len (bits + AES_BLOCK_SIZE_IN_BYTES * 8)
        (nonceTPM s) (nonceCaller s) in
      crypto (iesys_crypto_aes_decrypt symKey (TPMT_SYM_DEF_algorithm symDef) bits
        (TPMT_SYM_DEF_mode symDef) plaintext (drop (Z.to_nat ((bits + 7) / 8)) symKey))
  else if TPMT_SYM_DEF_algorithm symDef =? TPM2_ALG_SM4 then
    if negb (TPMT_SYM_DEF_mode symDef =? TPM2_ALG_CFB) then fail TSS2_ESYS_RC_BAD_VALUE
    else
      let! symKey := derive_key s key_len (bits + SM4_BLOCK_SIZE_IN_BYTES * 8)
        (nonceTPM s) (nonceCaller s) in
      crypto (iesys_crypto_sm4_decrypt symKey (TPMT_SYM_DEF_algorithm symDef) bits
        (TPMT_SYM_DEF_mode symDef) plaintext (drop (Z.to_nat ((bits + 7) / 8)) symKey))
  else if TPMT_SYM_DEF_algorithm symDef =? TPM2_ALG_XOR then
    xor_parameter s (nonceTPM s) (nonceCaller s) plaintext
  else fail TSS2_ESYS_RC_BAD_VALUE.

Definition iesys_decrypt_param : EM unit :=
  let! c := get in
  let! session := session_tab_at (Z.to_nat (encryptNonceIdx c)) in
  match session with
  | None => undef
  | Some p =>
      let! s := session_at p in
      let! hlen := crypto (iesys_crypto_hash_get_digest_size (authHash s)) in
      let! (p2BSize, ciphertext) := sys_area Tss2_Sys_GetEncryptParam in
      let! plaintext := sys_bytes p2BSize ciphertext in
      let! plaintext := decrypt_bytes s (key_size hlen) plaintext in
      sys_m (Tss2_Sys_SetEncryptParam p2BSize (Some plaintext))
  end.

(** ** Authorizations *)

Definition zero4 : bytes := [0; 0; 0; 0].

(** [ccBuffer] *)
Definition command_code_bytes : EM bytes :=
  let! b := sys_get (fun b => Tss2_Sys_GetCommandCode b (Some zero4)) in
  ret (default [] b).

(** Returns [rp_hash] and [*rp_hash_size]. *)
Definition iesys_compute_rp_hash (hash_alg : Z) : EM (bytes * Z) :=
  let! ccBuffer := command_code_bytes in
  let! (rpBuffer_size, rpBuffer) := sys_area Tss2_Sys_GetRpBuffer in
  let! rp := sys_bytes rpBuffer_size rpBuffer in
  crypto (iesys_crypto_rpHash hash_alg zero4 ccBuffer rp sizeof_TPMU_HA).

(** [&node->rsrc.name], where the pointer to the node may be NULL. *)
Definition name_at (p : option nat) : EM (option TPM2B) :=
  match p with
  | None => ret None
  | Some p => let! n := node_at p in ret (Some (name (rsrc n)))
  end.

Definition iesys_compute_cp_hash (hash_alg : Z) : EM (bytes * Z) :=
  let! ccBuffer := command_code_bytes in
  let! (cpBuffer_size, cpBuffer) := sys_area Tss2_Sys_GetCpBuffer in
  let! o1 := auth_objects_at 0 in
  let! name1 := name_at o1 in
  let! o2 := auth_objects_at 1 in
  let! name2 := name_at o2 in
  let! o3 := auth_objects_at 2 in
  let! name3 := name_at o3 in
  let! cp := sys_bytes cpBuffer_size cpBuffer in
  crypto (iesys_crypto_cpHash hash_alg ccBuffer name1 name2 name3 cp sizeof_TPMU_HA).

(** A sized buffer of which only the size is set: [rp_hmac], [auth->hmac]. *)
Definition hmac_buffer (b : bytes) : TPM2B := MkTPM2B sizeof_TPMU_HA b.

Definition hmac_key (s : IESYS_SESSION) : EM bytes :=
  lift (access (mem_read (sessionValue s) 0 (sizeHmacValue s))).

(** [auth] with the members that are set. *)
Definition iesys_compute_hmac (session decryptNonce encryptNonce : option nat)
    (auth : TPMS_AUTH_COMMAND) : EM TPMS_AUTH_COMMAND :=
  match session with
  | None => ret auth
  | Some p =>
      let! s := session_at p in
      let! _ := crypto (iesys_crypto_hash_get_digest_size (authHash s)) in
      let! (cp_hash, cp_hash_size) := iesys_compute_cp_hash (authHash s) in
      let! cp_hash := digest_bytes cp_hash cp_hash_size in
      let! key := hmac_key s in
      let! dn := nonce_at decryptNonce in
      let! en := nonce_at encryptNonce in
      let! hmac := crypto (iesys_crypto_authHmac (authHash s) key cp_hash (nonceCaller s)
        (nonceTPM s) dn en (sessionAttributes s)
        (hmac_buffer (buffer (TPMS_AUTH_COMMAND_hmac auth)))) in
      let! n := node_at p in
      ret (Mk_TPMS_AUTH_COMMAND (handle (rsrc n)) (nonceCaller s) (sessionAttributes s) hmac)
  end.

(** An assignment to members of [auths->auths[i]]. *)
Definition upd_auth (i : Z) (f : TPMS_AUTH_COMMAND -> TPMS_AUTH_COMMAND)
    (auths : TSS2L_SYS_AUTH_COMMAND) : EM TSS2L_SYS_AUTH_COMMAND :=
  let! a := lift (access (cmd_auths auths !! Z.to_nat i)) in
  ret (Auth_Command (cmd_count auths) (<[Z.to_nat i := f a]> (cmd_auths auths))).
Definition count_auth (auths : TSS2L_SYS_AUTH_COMMAND) : TSS2L_SYS_AUTH_COMMAND :=
  Auth_Command (cmd_count auths + 1) (cmd_auths auths).
Definition set_size0 (b : TPM2B) : TPM2B := MkTPM2B 0 (buffer b).

(** The authorization value of [auth_objects[session_idx]], or the empty one
    when that is NULL. *)
Definition put_object_auth (o : option nat) (a : TPMS_AUTH_COMMAND) : EM TPMS_AUTH_COMMAND :=
  match o with
  | None => ret (mset TPMS_AUTH_COMMAND'hmac (set_size0 (TPMS_AUTH_COMMAND_hmac a)) a)
  | Some q => let! n := node_at q in ret (mset TPMS_AUTH_COMMAND'hmac (auth n) a)
  end.

Definition POLICY_PASSWORD_session (session : option nat) : EM bool :=
  match session with
  | None => ret false
  | Some p => let! s := session_at p in ret (type_policy_session s =? POLICY_PASSWORD)
  end.

(** One iteration of the loop over [session_idx]. *)
Definition gen_auth (decryptNonceIdx encryptNonceIdx : Z) (decryptNonce encryptNonce : option nat)
    (session_idx : nat) (auths : TSS2L_SYS_AUTH_COMMAND) : EM TSS2L_SYS_AUTH_COMMAND :=
  let! auths := upd_auth (cmd_count auths) (fun a =>
    mset TPMS_AUTH_COMMAND'sessionAttributes 0
      (mset TPMS_AUTH_COMMAND'nonce (set_size0 (TPMS_AUTH_COMMAND_nonce a)) a)) auths in
  let! c := get in
  let! session_type_ := at3 (session_type c) session_idx in
  let! object := auth_objects_at session_idx in
  let! session := session_tab_at session_idx in
  if session_type_ =? ESYS_TR_PASSWORD then
    let! a := lift (access (cmd_auths auths !! Z.to_nat (cmd_count auths))) in
    let! a := put_object_auth object
      (match object with None => a | Some _ => mset TPMS_AUTH_COMMAND'sessionHandle TPM2_RH_PW a end) in
    let! auths := upd_auth (cmd_count auths) (fun _ => a) auths in
    ret (count_auth auths)
  else
    let! policy_password := POLICY_PASSWORD_session session in
    match session with
    | Some p =>
        let! n := node_at p in
        if policy_password then
          let! s := session_at p in
          let! a := lift (access (cmd_auths auths !! Z.to_nat (cmd_count auths))) in
          let! a := put_object_auth object (mset TPMS_AUTH_COMMAND'sessionHandle (handle (rsrc n)) a) in
          let! auths := upd_auth (cmd_count auths)
            (fun _ => mset TPMS_AUTH_COMMAND'sessionAttributes (sessionAttributes s) a) auths in
          ret (count_auth auths)
        else
          let! a := lift (access (cmd_auths auths !! session_idx)) in
          let! a := iesys_compute_hmac session
            (if (session_idx =? 0)%nat && (0 <? decryptNonceIdx) then decryptNonce else None)
            (if (session_idx =? 0)%nat && (0 <? encryptNonceIdx) then encryptNonce else None) a in
          let! auths := upd_auth (Z.of_nat session_idx) (fun _ => a) auths in
          let! auths := upd_auth (cmd_count auths)
            (mset TPMS_AUTH_COMMAND'sessionHandle (handle (rsrc n))) auths in
          ret (count_auth auths)
    | None => ret auths
    end.

Fixpoint gen_auths_loop (l : list nat) (decryptNonceIdx encryptNonceIdx : Z)
    (decryptNonce encryptNonce : option nat) (auths : TSS2L_SYS_AUTH_COMMAND) :
    EM TSS2L_SYS_AUTH_COMMAND :=
  match l with
  | [] => ret auths
  | i :: l =>
      let! auths := gen_auth decryptNonceIdx encryptNonceIdx decryptNonce encryptNonce i auths in
      gen_auths_loop l decryptNonceIdx encryptNonceIdx decryptNonce encryptNonce auths
  end.

Definition iesys_gen_auths (h1 h2 h3 : option nat) (auths : TSS2L_SYS_AUTH_COMMAND) :
    EM TSS2L_SYS_AUTH_COMMAND :=
  modify (set_auth_objects [h1; h2; h3]) ;!
  let auths := Auth_Command 0 (cmd_auths auths) in
  iesys_gen_caller_nonces ;!
  let! (decryptNonce, decryptNonceIdx) := iesys_encrypt_param in
  let! (encryptNonceIdx, encryptNonce) := iesys_compute_encrypt_nonce 0 None in
  let decryptNonceIdx :=
    if negb (decryptNonceIdx =? 0) && (decryptNonceIdx =? encryptNonceIdx) then 0
    else decryptNonceIdx in
  let! auths := gen_auths_loop (seq 0 3) decryptNonceIdx encryptNonceIdx decryptNonce
    encryptNonce auths in
  modify (set_encryptNonceIdx encryptNonceIdx) ;!
  modify (set_encryptNonce encryptNonce) ;!
  ret auths.

(** ** The response *)

(** One iteration of the loop of [iesys_check_rp_hmacs]. *)
Definition check_rp_hmac (i : nat) (a : TPMS_AUTH_RESPONSE) : EM unit :=
  let! session := session_tab_at i in
  match session with
  | None => ret tt
  | Some p =>
      let! s := session_at p in
      if type_policy_session s =? POLICY_PASSWORD then
        if negb (size (TPMS_AUTH_RESPONSE_hmac a) =? 0) then fail TSS2_ESYS_RC_RSP_AUTH_FAILED
        else ret tt
      else
        let! (rp_digest, rp_digest_size) := iesys_compute_rp_hash (authHash s) in
        let! rp_digest := digest_bytes rp_digest rp_digest_size in
        upd_session p (set_nonceTPM (TPMS_AUTH_RESPONSE_nonce a)) ;!
        upd_session p (set_sessionAttributes (TPMS_AUTH_RESPONSE_sessionAttributes a)) ;!
        let! s := session_at p in
        let! key := hmac_key s in
        let! rp_hmac := crypto (iesys_crypto_authHmac (authHash s) key rp_digest (nonceTPM s)
          (nonceCaller s) None None (TPMS_AUTH_RESPONSE_sessionAttributes a)
          (hmac_buffer (replicate (Z.to_nat sizeof_TPMU_HA) 0))) in
        let! equal := lift (cmp_TPM2B_AUTH (TPMS_AUTH_RESPONSE_hmac a) rp_hmac) in
        if negb equal then fail TSS2_ESYS_RC_RSP_AUTH_FAILED else ret tt
  end.

Definition iesys_check_rp_hmacs (rspAuths : TSS2L_SYS_AUTH_RESPONSE) : EM unit :=
  for_each (seq 0 (Z.to_nat (rsp_count rspAuths))) (fun i =>
    let! a := lift (access (rsp_auths rspAuths !! i)) in
    check_rp_hmac i a).

Definition iesys_check_response : EM unit :=
  let! c := get in
  if authsCount_esys c =? 0 then ret tt
  else
    let! rspAuths := sys_get (fun b => Tss2_Sys_GetRspAuths b
      (Some (Auth_Response 0 (replicate 3 zero_TPMS_AUTH_RESPONSE)))) in
    match rspAuths with
    | None => undef
    | Some rspAuths =>
        if negb (rsp_count rspAuths =? authsCount_esys c) then fail TSS2_ESYS_RC_GENERAL_FAILURE
        else if existsb (fun h => ESYS_TR_MIN_OBJECT <=? h) (session_type c) then
          let! _ := sys_area Tss2_Sys_GetRpBuffer in
          iesys_check_rp_hmacs rspAuths ;!
          let! c := get in
          match encryptNonce c with
          | None => iesys_restore_session_flags
          | Some _ => iesys_decrypt_param ;! iesys_restore_session_flags
          end
        else ret tt
    end.

End Util.
