(* ===== verification/EsysMu.v ===== *)
(** * Enhanced System API: marshaling of the metadata of objects (esys_mu.c).

    The functions have the shape of those of the marshaling library: an
    unmarshal function reads members one after the other into a structure that
    it has cleared, and stores the offset at its end. *)

From stdpp Require Import gmap.
From stdpp Require Import gmap strings.
From S2P Require Import Prelude Common MuSpec MuBase MuStruct MuTpm2b MuUnion TpmTypes MuTypes SysCodes Sys EsysBase EsysCrypto EsysCtx EsysUtil.

Open Scope tss_scope.
Open Scope Z_scope.

Definition TSS2_ESYS_RC_INSUFFICIENT_BUFFER :=
  Z.lor TSS2_ESAPI_RC_LAYER TSS2_BASE_RC_INSUFFICIENT_BUFFER.

(** ** The structures *)

Definition SESSION'bound_entity := Member bound_entity set_bound_entity.
Definition SESSION'encryptedSalt := Member encryptedSalt set_encryptedSalt.
Definition SESSION'salt := Member session_salt set_session_salt.
Definition SESSION'symmetric := Member symmetric set_symmetric.
Definition SESSION'authHash := Member authHash set_authHash.
Definition SESSION'sessionKey := Member sessionKey set_sessionKey.
Definition SESSION'sessionType := Member sessionType set_sessionType.
Definition SESSION'sessionAttributes := Member sessionAttributes set_sessionAttributes.
Definition SESSION'nonceCaller := Member nonceCaller set_nonceCaller.
Definition SESSION'nonceTPM := Member nonceTPM set_nonceTPM.
Definition SESSION'encrypt := Member encrypt set_encrypt.
Definition SESSION'decrypt := Member decrypt set_decrypt.
Definition SESSION'type_policy_session := Member type_policy_session set_type_policy_session.
Definition SESSION'sizeSessionValue := Member sizeSessionValue set_sizeSessionValue.
Definition SESSION'sessionValue := Member sessionValue set_sessionValue.
Definition SESSION'sizeHmacValue := Member sizeHmacValue set_sizeHmacValue.
Definition RESOURCE'handle := Member handle set_handle.
Definition RESOURCE'name := Member name set_name.
Definition RESOURCE'rsrcType := Member rsrcType set_rsrcType.
Definition RESOURCE'misc := Member misc set_misc.

Record IESYS_METADATA : Type := Metadata { metadata_size : Z; metadata_data : IESYS_RESOURCE }.
Definition METADATA'size :=
  Member metadata_size (fun v d => Metadata v (metadata_data d)).
Definition METADATA'data :=
  Member metadata_data (fun v d => Metadata (metadata_size d) v).

Record IESYS_CONTEXT_DATA : Type := Context_Data {
  reserved : Z;
  tpmContext : TPM2B;
  esysMetadata : IESYS_METADATA
}.
Definition CONTEXT_DATA'reserved :=
  Member reserved (fun v d => Context_Data v (tpmContext d) (esysMetadata d)).
Definition CONTEXT_DATA'tpmContext :=
  Member tpmContext (fun v d => Context_Data (reserved d) v (esysMetadata d)).
Definition CONTEXT_DATA'esysMetadata :=
  Member esysMetadata (fun v d => Context_Data (reserved d) (tpmContext d) v).

Definition zero_IESYS_RESOURCE : IESYS_RESOURCE :=
  Resource 0 (zero_2b cap_TPM2B_NAME) 0 Misc_zero.
Definition zero_IESYS_METADATA : IESYS_METADATA := Metadata 0 zero_IESYS_RESOURCE.
Definition zero_IESYS_CONTEXT_DATA : IESYS_CONTEXT_DATA :=
  Context_Data 0 (zero_2b cap_TPM2B_CONTEXT_DATA) zero_IESYS_METADATA.

(** [sizeof(IESYS_CONTEXT_DATA)] *)
Definition lay_TPM2B_ENCRYPTED_SECRET :=
  lay_struct [lay_int 2; lay_array (lsize lay_TPMU_ENCRYPTED_SECRET) (lay_int 1)].
Definition lay_TPM2B_CONTEXT_DATA :=
  lay_struct [lay_int 2; lay_array (lsize lay_TPMS_CONTEXT_DATA) (lay_int 1)].
Definition lay_TPM2B_PUBLIC := lay_struct [lay_int 2; lay_TPMT_PUBLIC].
Definition lay_TPM2B_NV_PUBLIC := lay_struct [lay_int 2; lay_TPMS_NV_PUBLIC].
Definition lay_TPMT_SYM_DEF := lay_struct [lay_int 2; lay_TPMU_SYM_KEY_BITS; lay_TPMU_SYM_MODE].
Definition lay_IESYS_SESSION := lay_struct [lay_TPM2B_NAME; lay_TPM2B_ENCRYPTED_SECRET;
  lay_TPM2B_DATA; lay_TPMT_SYM_DEF; lay_int 2; lay_TPM2B_DIGEST; lay_int 1; lay_int 1; lay_int 1;
  lay_TPM2B_DIGEST; lay_TPM2B_DIGEST; lay_int 4; lay_int 4; lay_int 4; lay_int 2;
  lay_array (2 * lsize lay_TPMU_HA) (lay_int 1); lay_int 2].
Definition lay_IESYS_RSRC_UNION := lay_union [lay_TPM2B_PUBLIC; lay_TPM2B_NV_PUBLIC;
  lay_IESYS_SESSION; lay_TPMS_EMPTY].
Definition lay_IESYS_RESOURCE := lay_struct [lay_int 4; lay_TPM2B_NAME; lay_int 4;
  lay_IESYS_RSRC_UNION].
Definition lay_IESYS_METADATA := lay_struct [lay_int 2; lay_IESYS_RESOURCE].
Definition lay_IESYS_CONTEXT_DATA := lay_struct [lay_int 4; lay_TPM2B_CONTEXT_DATA;
  lay_IESYS_METADATA].
Definition sizeof_TPMS_CONTEXT_DATA := lsize lay_TPMS_CONTEXT_DATA.
Definition sizeof_IESYS_CONTEXT_DATA := lsize lay_IESYS_CONTEXT_DATA.

Section Mu.
Context {H : Host}.

(** ** The bodies of the functions on structures *)

Definition iesys_marshal {T} (null_rc : TSS2_RC) (fs : list (T -> mstep)) (src : option T) : mstep :=
  fun buffer size offset =>
  match src with
  | None => Ret (null_rc, (buffer, offset))
  | Some src =>
      let* (r, (buffer, offset_loc)) :=
        marshal_seq fs src buffer size (Some (default 0 offset)) in
      Ret (r, (buffer,
        match offset with
        | Some _ => if r =? TSS2_RC_SUCCESS then offset_loc else offset
        | None => None
        end))
  end.

(** [zero] is what [memset] leaves in [*dst], and stands for the locals that
    are used when [dst] is NULL. *)
Definition iesys_unmarshal {T} (zero : T) (us : list (ustep T)) : ufn T :=
  fun buffer size offset dst =>
  match buffer with
  | None => Ret (TSS2_ESYS_RC_BAD_REFERENCE, (offset, dst))
  | Some _ =>
      let* (r, (offset_loc, d)) :=
        unmarshal_seq us buffer size (Some (default 0 offset)) (bool_decide (is_Some dst)) zero in
      Ret (r,
        (match offset with
         | Some _ => if r =? TSS2_RC_SUCCESS then offset_loc else offset
         | None => None
         end, match dst with Some _ => Some d | None => None end))
  end.

(** ** Constants *)

(** [IESYSC_PARAM_ENCRYPT], [IESYSC_PARAM_DECRYPT], [IESYSC_TYPE_POLICY_AUTH]
    and [IESYSC_RESOURCE_TYPE] are words of 32 bits of which the unmarshal
    functions accept some values; [in_] is never NULL at the calls. *)
Definition ENCRYPT := 1.
Definition NO_ENCRYPT := 0.
Definition DECRYPT := 1.
Definition NO_DECRYPT := 0.

Definition iesys_MU_IESYSC_PARAM_ENCRYPT_check (in_ : Z) : TSS2_RC :=
  if (in_ =? ENCRYPT) || (in_ =? NO_ENCRYPT) then TSS2_RC_SUCCESS else TSS2_SYS_RC_BAD_VALUE.
Definition iesys_MU_IESYSC_PARAM_DECRYPT_check (in_ : Z) : TSS2_RC :=
  if (in_ =? DECRYPT) || (in_ =? NO_DECRYPT) then TSS2_RC_SUCCESS else TSS2_SYS_RC_BAD_VALUE.
Definition iesys_MU_IESYSC_TYPE_POLICY_AUTH_check (in_ : Z) : TSS2_RC :=
  if (in_ =? POLICY_PASSWORD) || (in_ =? POLICY_AUTH) || (in_ =? NO_POLICY_AUTH)
  then TSS2_RC_SUCCESS else TSS2_SYS_RC_BAD_VALUE.
Definition iesys_MU_IESYSC_RESOURCE_TYPE_check (in_ : Z) : TSS2_RC :=
  if (in_ =? IESYSC_KEY_RSRC) || (in_ =? IESYSC_NV_RSRC) || (in_ =? IESYSC_SESSION_RSRC)
     || (in_ =? IESYSC_WITHOUT_MISC_RSRC)
  then TSS2_RC_SUCCESS else TSS2_SYS_RC_BAD_VALUE.

(** The body of the three functions for the members of a session: [*dst] is
    cleared, and the offset is stored after the check. *)
Definition checked_unmarshal (check : Z -> TSS2_RC) : ufn Z :=
  fun buffer size offset dst =>
  let dst := match dst with Some _ => Some 0 | None => None end in
  let* (r, (offset_loc, dst_loc)) :=
    Tss2_MU_UINT32_Unmarshal buffer size (Some (default 0 offset)) (Some 0) in
  if negb (r =? TSS2_RC_SUCCESS) then Ret (r, (offset, dst))
  else
    let r := check (default 0 dst_loc) in
    if negb (r =? TSS2_RC_SUCCESS) then Ret (r, (offset, dst))
    else Ret (TSS2_RC_SUCCESS,
      (match offset with Some _ => offset_loc | None => None end,
       match dst with Some _ => dst_loc | None => None end)).

Definition iesys_MU_IESYSC_PARAM_ENCRYPT_Marshal : Z -> mstep := Tss2_MU_UINT32_Marshal.
Definition iesys_MU_IESYSC_PARAM_ENCRYPT_Unmarshal : ufn Z :=
  checked_unmarshal iesys_MU_IESYSC_PARAM_ENCRYPT_check.
Definition iesys_MU_IESYSC_PARAM_DECRYPT_Marshal : Z -> mstep := Tss2_MU_UINT32_Marshal.
Definition iesys_MU_IESYSC_PARAM_DECRYPT_Unmarshal : ufn Z :=
  checked_unmarshal iesys_MU_IESYSC_PARAM_DECRYPT_check.
Definition iesys_MU_IESYSC_TYPE_POLICY_AUTH_Marshal : Z -> mstep := Tss2_MU_UINT32_Marshal.
Definition iesys_MU_IESYSC_TYPE_POLICY_AUTH_Unmarshal : ufn Z :=
  checked_unmarshal iesys_MU_IESYSC_TYPE_POLICY_AUTH_check.

Definition iesys_MU_IESYSC_RESOURCE_TYPE_Marshal : Z -> mstep := Tss2_MU_UINT32_Marshal.
(** Works on the offset of the caller, so that a value that is refused has
    been consumed. *)
Definition iesys_MU_IESYSC_RESOURCE_TYPE_Unmarshal : ufn Z :=
  fun buffer size offset dst =>
  let* (r, (offset, dst_loc)) := Tss2_MU_UINT32_Unmarshal buffer size offset (Some 0) in
  if negb (r =? TSS2_RC_SUCCESS) then Ret (r, (offset, dst))
  else
    let r := iesys_MU_IESYSC_RESOURCE_TYPE_check (default 0 dst_loc) in
    if negb (r =? TSS2_RC_SUCCESS) then Ret (r, (offset, dst))
    else Ret (TSS2_RC_SUCCESS, (offset, match dst with Some _ => dst_loc | None => None end)).

(** ** Bytes *)

(** [src] is the array that the pointer points to. *)
Definition iesys_MU_BYTE_array_Marshal (src : option bytes) (count : Z) : mstep :=
  fun buffer size offset =>
  match src with
  | None => Ret (TSS2_ESYS_RC_BAD_REFERENCE, (buffer, offset))
  | Some src =>
      let offset_loc := default 0 offset in
      if (size <? count) || (size - count <? offset_loc)
      then Ret (TSS2_ESYS_RC_INSUFFICIENT_BUFFER, (buffer, offset))
      else
        let* buffer :=
          match buffer with
          | None => Ret None
          | Some b =>
              let* w := access (mem_read src 0 count) in
              let* b := access (mem_write b offset_loc w) in
              Ret (Some b)
          end in
        Ret (TSS2_RC_SUCCESS,
          (buffer, match offset with Some _ => Some (wrap64 (offset_loc + count)) | None => None end))
  end.

(** Clears the first byte of [*dst] only, and writes [count] bytes into it. *)
Definition iesys_MU_BYTE_array_Unmarshal (buffer : option bytes) (size : Z) (offset : option Z)
    (count : Z) (dst : option bytes) : uresult bytes :=
  match buffer with
  | None => Ret (TSS2_ESYS_RC_BAD_REFERENCE, (offset, dst))
  | Some b =>
      let offset_loc := default 0 offset in
      let* dst :=
        match dst with
        | Some d => let* d := access (mem_write d 0 [0]) in Ret (Some d)
        | None => Ret None
        end in
      if (size <? count) || (size - count <? offset_loc)
      then Ret (TSS2_ESYS_RC_INSUFFICIENT_BUFFER, (offset, dst))
      else
        let* dst :=
          match dst with
          | Some d =>
              let* w := access (mem_read b offset_loc count) in
              let* d := access (mem_write d 0 w) in
              Ret (Some d)
          | None => Ret None
          end in
        Ret (TSS2_RC_SUCCESS,
          (match offset with Some _ => Some (wrap64 (offset_loc + count)) | None => None end, dst))
  end.

(** ** Sessions *)

Definition iesys_MU_IESYS_SESSION_Marshal : option IESYS_SESSION -> mstep :=
  iesys_marshal TSS2_SYS_RC_BAD_REFERENCE [
    mfield SESSION'bound_entity (ADDR Tss2_MU_TPM2B_NAME_Marshal);
    mfield SESSION'encryptedSalt (ADDR Tss2_MU_TPM2B_ENCRYPTED_SECRET_Marshal);
    mfield SESSION'salt (ADDR Tss2_MU_TPM2B_DATA_Marshal);
    mfield SESSION'symmetric (ADDR Tss2_MU_TPMT_SYM_DEF_Marshal);
    mfield SESSION'authHash (VAL Tss2_MU_TPMI_ALG_HASH_Marshal);
    mfield SESSION'sessionKey (ADDR Tss2_MU_TPM2B_DIGEST_Marshal);
    mfield SESSION'sessionType (VAL Tss2_MU_TPM2_SE_Marshal);
    mfield SESSION'sessionAttributes (VAL Tss2_MU_TPMA_SESSION_Marshal);
    mfield SESSION'nonceCaller (ADDR Tss2_MU_TPM2B_NONCE_Marshal);
    mfield SESSION'nonceTPM (ADDR Tss2_MU_TPM2B_NONCE_Marshal);
    mfield SESSION'encrypt (VAL iesys_MU_IESYSC_PARAM_ENCRYPT_Marshal);
    mfield SESSION'decrypt (VAL iesys_MU_IESYSC_PARAM_DECRYPT_Marshal);
    mfield SESSION'type_policy_session (VAL iesys_MU_IESYSC_TYPE_POLICY_AUTH_Marshal);
    mfield SESSION'sizeSessionValue (VAL Tss2_MU_UINT16_Marshal);
    mfield_sel SESSION'sessionValue SESSION'sizeSessionValue
      (fun v n => iesys_MU_BYTE_array_Marshal (Some v) n);
    mfield SESSION'sizeHmacValue (VAL Tss2_MU_UINT16_Marshal)].

Definition iesys_MU_IESYS_SESSION_Unmarshal : ufn IESYS_SESSION :=
  iesys_unmarshal zero_IESYS_SESSION [
    ufield SESSION'bound_entity Tss2_MU_TPM2B_NAME_Unmarshal;
    ufield SESSION'encryptedSalt Tss2_MU_TPM2B_ENCRYPTED_SECRET_Unmarshal;
    ufield SESSION'salt Tss2_MU_TPM2B_DATA_Unmarshal;
    ufield SESSION'symmetric Tss2_MU_TPMT_SYM_DEF_Unmarshal;
    ufield_tmp SESSION'authHash Tss2_MU_TPMI_ALG_HASH_Unmarshal;
    ufield SESSION'sessionKey Tss2_MU_TPM2B_DIGEST_Unmarshal;
    ufield_tmp SESSION'sessionType Tss2_MU_TPM2_SE_Unmarshal;
    ufield_tmp SESSION'sessionAttributes Tss2_MU_TPMA_SESSION_Unmarshal;
    ufield SESSION'nonceCaller Tss2_MU_TPM2B_NONCE_Unmarshal;
    ufield SESSION'nonceTPM Tss2_MU_TPM2B_NONCE_Unmarshal;
    ufield_tmp SESSION'encrypt iesys_MU_IESYSC_PARAM_ENCRYPT_Unmarshal;
    ufield_tmp SESSION'decrypt iesys_MU_IESYSC_PARAM_DECRYPT_Unmarshal;
    ufield_tmp SESSION'type_policy_session iesys_MU_IESYSC_TYPE_POLICY_AUTH_Unmarshal;
    ufield_tmp SESSION'sizeSessionValue Tss2_MU_UINT16_Unmarshal;
    ufield_sel SESSION'sessionValue SESSION'sizeSessionValue iesys_MU_BYTE_array_Unmarshal;
    ufield_tmp SESSION'sizeHmacValue Tss2_MU_UINT16_Unmarshal].

(** ** Objects *)

Definition iesys_MU_IESYS_RSRC_UNION_Marshal (src : option IESYS_RSRC_UNION) (selector : Z) : mstep :=
  fun buffer size offset =>
  match src with
  | None => Ret (TSS2_ESYS_RC_BAD_REFERENCE, (buffer, offset))
  | Some src =>
      if selector =? IESYSC_KEY_RSRC then
        let* v := rsrc_key_pub src in Tss2_MU_TPM2B_PUBLIC_Marshal (Some v) buffer size offset
      else if selector =? IESYSC_NV_RSRC then
        let* v := rsrc_nv_pub src in Tss2_MU_TPM2B_NV_PUBLIC_Marshal (Some v) buffer size offset
      else if selector =? IESYSC_SESSION_RSRC then
        let* v := rsrc_session src in iesys_MU_IESYS_SESSION_Marshal (Some v) buffer size offset
      else if selector =? IESYSC_WITHOUT_MISC_RSRC then
        (* the member [rsrc_empty] is not read *)
        Tss2_MU_TPMS_EMPTY_Marshal (Some zero_TPMS_EMPTY) buffer size offset
      else Ret (TSS2_SYS_RC_BAD_VALUE, (buffer, offset))
  end.

(** A member of the union, written through a pointer that may be NULL. *)
Definition union_member {T} (get : IESYS_RSRC_UNION -> outcome T) (put : T -> IESYS_RSRC_UNION)
    (fn : ufn T) : ufn IESYS_RSRC_UNION :=
  fun buffer size offset dst =>
  match dst with
  | None => let* (r, (offset, _)) := fn buffer size offset None in Ret (r, (offset, None))
  | Some d =>
      let* v := get d in
      let* (r, (offset, v')) := fn buffer size offset (Some v) in
      Ret (r, (offset, Some (put (default v v'))))
  end.

Definition iesys_MU_IESYS_RSRC_UNION_Unmarshal (buffer : option bytes) (size : Z) (offset : option Z)
    (selector : Z) (dst : option IESYS_RSRC_UNION) : uresult IESYS_RSRC_UNION :=
  match buffer with
  | None => Ret (TSS2_ESYS_RC_BAD_REFERENCE, (offset, dst))
  | Some _ =>
      if selector =? IESYSC_KEY_RSRC then
        union_member rsrc_key_pub Misc_key_pub Tss2_MU_TPM2B_PUBLIC_Unmarshal buffer size offset dst
      else if selector =? IESYSC_NV_RSRC then
        union_member rsrc_nv_pub Misc_nv_pub Tss2_MU_TPM2B_NV_PUBLIC_Unmarshal buffer size offset dst
      else if selector =? IESYSC_SESSION_RSRC then
        union_member rsrc_session Misc_session iesys_MU_IESYS_SESSION_Unmarshal buffer size offset dst
      else if selector =? IESYSC_WITHOUT_MISC_RSRC then
        (* nothing is stored *)
        let* (r, (offset, _)) := Tss2_MU_TPMS_EMPTY_Unmarshal buffer size offset
          (match dst with Some _ => Some zero_TPMS_EMPTY | None => None end) in
        Ret (r, (offset, dst))
      else Ret (TSS2_SYS_RC_BAD_VALUE, (offset, dst))
  end.

Definition iesys_MU_IESYS_RESOURCE_Marshal : option IESYS_RESOURCE -> mstep :=
  iesys_marshal TSS2_SYS_RC_BAD_REFERENCE [
    mfield RESOURCE'handle (VAL Tss2_MU_TPM2_HANDLE_Marshal);
    mfield RESOURCE'name (ADDR Tss2_MU_TPM2B_NAME_Marshal);
    mfield RESOURCE'rsrcType (VAL iesys_MU_IESYSC_RESOURCE_TYPE_Marshal);
    mfield_sel RESOURCE'misc RESOURCE'rsrcType (ADDR iesys_MU_IESYS_RSRC_UNION_Marshal)].

Definition iesys_MU_IESYS_RESOURCE_Unmarshal : ufn IESYS_RESOURCE :=
  iesys_unmarshal zero_IESYS_RESOURCE [
    ufield_tmp RESOURCE'handle Tss2_MU_TPM2_HANDLE_Unmarshal;
    ufield RESOURCE'name Tss2_MU_TPM2B_NAME_Unmarshal;
    ufield_tmp RESOURCE'rsrcType iesys_MU_IESYSC_RESOURCE_TYPE_Unmarshal;
    ufield_sel RESOURCE'misc RESOURCE'rsrcType iesys_MU_IESYS_RSRC_UNION_Unmarshal].

Definition iesys_MU_IESYS_METADATA_Marshal : option IESYS_METADATA -> mstep :=
  iesys_marshal TSS2_SYS_RC_BAD_REFERENCE [
    mfield METADATA'size (VAL Tss2_MU_UINT16_Marshal);
    mfield METADATA'data (ADDR iesys_MU_IESYS_RESOURCE_Marshal)].

Definition iesys_MU_IESYS_METADATA_Unmarshal : ufn IESYS_METADATA :=
  iesys_unmarshal zero_IESYS_METADATA [
    ufield_tmp METADATA'size Tss2_MU_UINT16_Unmarshal;
    ufield_tmp METADATA'data iesys_MU_IESYS_RESOURCE_Unmarshal].

Definition iesys_MU_IESYS_CONTEXT_DATA_Marshal : option IESYS_CONTEXT_DATA -> mstep :=
  iesys_marshal TSS2_SYS_RC_BAD_REFERENCE [
    mfield CONTEXT_DATA'reserved (VAL Tss2_MU_UINT32_Marshal);
    mfield CONTEXT_DATA'tpmContext (ADDR Tss2_MU_TPM2B_CONTEXT_DATA_Marshal);
    mfield CONTEXT_DATA'esysMetadata (ADDR iesys_MU_IESYS_METADATA_Marshal)].

Definition iesys_MU_IESYS_CONTEXT_DATA_Unmarshal : ufn IESYS_CONTEXT_DATA :=
  iesys_unmarshal zero_IESYS_CONTEXT_DATA [
    ufield_tmp CONTEXT_DATA'reserved Tss2_MU_UINT32_Unmarshal;
    ufield CONTEXT_DATA'tpmContext Tss2_MU_TPM2B_CONTEXT_DATA_Unmarshal;
    ufield_tmp CONTEXT_DATA'esysMetadata iesys_MU_IESYS_METADATA_Unmarshal].

End Mu.

(** ** Enhanced System API: names, authorization values and salts (esys_iutil.c). *)

Open Scope tss_scope.
Open Scope esys_scope.
Open Scope Z_scope.

Section Names.
Context {H : Host} {U K : Type}.
Abbreviation CB := (ESYS_CRYPTO_CALLBACKS U K).

(** [error_cleanup:] of the functions below *)
Definition error_cleanup {A} (cryptoContext : option K) (m : M CB A) : M CB A :=
  on_error m (fun r =>
    match cryptoContext with
    | None => ret r
    | Some _ =>
        let! tmp_rc := code (iesys_crypto_hash_abort cryptoContext) in
        ret (match tmp_rc with inl tmp_rc => tmp_rc | inr _ => r end)
    end).

Definition sizeof_TPMI_ALG_HASH := 2.

(** [nameAlg || Hash(nameAlg, area)]; [image] is the marshaling of the area. *)
Definition hash_name (nameAlg : Z) (image : M CB bytes) (name : TPM2B) : M CB TPM2B :=
  if nameAlg =? TPM2_ALG_NULL then ret (MkTPM2B 0 (buffer name))
  else
    let! cryptoContext := iesys_crypto_hash_start nameAlg in
    error_cleanup cryptoContext (
      let! buffer := image in
      iesys_crypto_hash_update cryptoContext buffer) ;!
    let! (r, (digest, size, cryptoContext)) :=
      iesys_crypto_hash_finish cryptoContext (cap_TPM2B_NAME - sizeof_TPMI_ALG_HASH) in
    error_cleanup cryptoContext (
      let! b := lift (access (mem_write (buffer name) sizeof_TPMI_ALG_HASH digest)) in
      return_if_error r ;!
      let! alg := mu_image sizeof_TPMI_ALG_HASH (Tss2_MU_TPMI_ALG_HASH_Marshal nameAlg) in
      let! b := lift (access (mem_write b 0 alg)) in
      ret (MkTPM2B (wrap 16 (size + sizeof_TPMI_ALG_HASH)) b)).

Definition iesys_nv_get_name (publicInfo : TPM2B_SUB TPMS_NV_PUBLIC) (name : TPM2B) : M CB TPM2B :=
  hash_name (TPMS_NV_PUBLIC_nameAlg (smember publicInfo))
    (mu_image (lsize lay_TPMS_NV_PUBLIC) (Tss2_MU_TPMS_NV_PUBLIC_Marshal (Some (smember publicInfo))))
    name.

Definition iesys_get_name (publicInfo : TPM2B_SUB TPMT_PUBLIC) (name : TPM2B) : M CB TPM2B :=
  hash_name (TPMT_PUBLIC_nameAlg (smember publicInfo))
    (mu_image (lsize lay_TPMT_PUBLIC) (Tss2_MU_TPMT_PUBLIC_Marshal (Some (smember publicInfo))))
    name.

(** The result is [false] when the name cannot be computed. *)
Definition iesys_compare_name (publicInfo : option (TPM2B_SUB TPMT_PUBLIC)) (name : option TPM2B) :
    M CB bool :=
  match publicInfo, name with
  | Some publicInfo, Some name =>
      let! public_info_name := code (iesys_get_name publicInfo (zero_2b cap_TPM2B_NAME)) in
      match public_info_name with
      | inl _ => ret false
      | inr public_info_name => lift (cmp_TPM2B_NAME public_info_name name)
      end
  | _, _ => ret false
  end.

(** [auth_value] is never NULL at the calls. *)
Definition iesys_adapt_auth_value (auth_value : TPM2B) (hash_alg : Z) : M CB TPM2B :=
  let! auth_value := lift (iesys_strip_trailing_zeros auth_value) in
  if hash_alg =? 0 then ret auth_value
  else
    let! hash_size := iesys_crypto_hash_get_digest_size hash_alg in
    if hash_size <? size auth_value then
      let! cryptoContext := iesys_crypto_hash_start hash_alg in
      error_cleanup cryptoContext (
        let! b := read2b auth_value in
        iesys_crypto_hash_update cryptoContext b) ;!
      let! (r, (digest, hash_size, cryptoContext)) :=
        iesys_crypto_hash_finish cryptoContext hash_size in
      error_cleanup cryptoContext (return_if_error r) ;!
      let! hash2b := lift (access (mem_write (replicate (Z.to_nat cap_TPM2B_DIGEST) 0) 0 digest)) in
      let! w := lift (access (mem_read hash2b 0 hash_size)) in
      let! b := lift (access (mem_write (buffer auth_value) 0 w)) in
      lift (iesys_strip_trailing_zeros (MkTPM2B (wrap 16 hash_size) b))
    else ret auth_value.

End Names.

(** ** The salt of a session *)

Section Salt.
Context {H : Host} {S U K : Type}.
Abbreviation CTX := (ESYS_CONTEXT S U K).
Abbreviation EM A := (M CTX A).

(** [pub.publicArea.parameters.rsaDetail.scheme.scheme = TPM2_ALG_OAEP;] *)
Definition set_rsa_oaep (pub : TPM2B_SUB TPMT_PUBLIC) : outcome (TPM2B_SUB TPMT_PUBLIC) :=
  match TPMT_PUBLIC_parameters (smember pub) with
  | TPMU_PUBLIC_PARMS_of_TPMS_RSA_PARMS p =>
      let p := mset TPMS_RSA_PARMS'scheme
        (mset TPMT_RSA_SCHEME'scheme TPM2_ALG_OAEP (TPMS_RSA_PARMS_scheme p)) p in
      Ret (MkTPM2B_SUB (ssize pub)
        (mset TPMT_PUBLIC'parameters (TPMU_PUBLIC_PARMS_of_TPMS_RSA_PARMS p) (smember pub)))
  | _ => Undef
  end.

(** [pub.publicArea.unique.ecc.x] *)
Definition ecc_x (pub : TPM2B_SUB TPMT_PUBLIC) : outcome TPM2B :=
  match TPMT_PUBLIC_unique (smember pub) with
  | TPMU_PUBLIC_ID_of_TPMS_ECC_POINT p => Ret (TPMS_ECC_POINT_x p)
  | _ => Undef
  end.

(** The new [*encryptedSalt]; the code reads the public area before it tests
    the type of the resource. What a failing key derivation leaves in the salt
    of the context is not modelled. *)
Definition iesys_compute_encrypted_salt (tpmKeyNode : option nat) (encryptedSalt : TPM2B) :
    EM TPM2B :=
  match tpmKeyNode with
  | None => ret (MkTPM2B 0 (buffer encryptedSalt))
  | Some p =>
      let! n := node_at p in
      if negb (rsrcType (rsrc n) =? IESYSC_KEY_RSRC) then fail TSS2_ESYS_RC_BAD_VALUE
      else
      let! pub := lift (rsrc_key_pub (misc (rsrc n))) in
      let nameAlg := TPMT_PUBLIC_nameAlg (smember pub) in
      let! keyHash_size := crypto (iesys_crypto_hash_get_digest_size nameAlg) in
      let type := TPMT_PUBLIC_type (smember pub) in
      if type =? TPM2_ALG_RSA then
        let! c := get in
        let! (r, salt_) := crypto (iesys_crypto_get_random2b (salt c) keyHash_size) in
        modify (set_salt salt_) ;!
        return_if_error r ;!
        let! pub := lift (set_rsa_oaep pub) in
        let! in_buffer := lift (access (mem_read (buffer salt_) 0 keyHash_size)) in
        let! secret := crypto (iesys_crypto_rsa_pk_encrypt pub in_buffer cap_TPM2B_ENCRYPTED_SECRET
          (c_string "SECRET")) in
        let! b := lift (access (mem_write (buffer encryptedSalt) 0 secret)) in
        ret (MkTPM2B (wrap 16 (Zlen secret)) b)
      else if type =? TPM2_ALG_ECC then
        let! (z, q, point) := crypto (iesys_crypto_get_ecdh_point pub cap_TPM2B_ENCRYPTED_SECRET) in
        let! b := lift (access (mem_write (buffer encryptedSalt) 0 point)) in
        let! x := lift (ecc_x pub) in
        let! c := get in
        let! key := crypto (iesys_crypto_KDFe nameAlg (Some z) (Some "SECRET"%string)
          (Some (TPMS_ECC_POINT_x q)) (Some x) (keyHash_size * 8) (buffer (salt c))) in
        modify (set_salt (MkTPM2B (wrap 16 keyHash_size) key)) ;!
        ret (MkTPM2B (wrap 16 (Zlen point)) b)
      else if type =? TPM2_ALG_MLKEM then fail TSS2_ESYS_RC_NOT_IMPLEMENTED
      else fail TSS2_ESYS_RC_GENERAL_FAILURE
  end.

End Salt.
