(* ===== verification/EsysExec.v ===== *)
(** * Enhanced System API: the course of a command.

    The functions of src/tss2-esys/api have the same structure: [_Async] checks
    the state, prepares the command, computes the authorizations and sends it;
    [_Finish] receives the response, sends the command again when the TPM
    asks for it, checks the response and stores the results; the
    function without a suffix calls the two. *)

From stdpp Require Import gmap.
From S2P Require Import Prelude Common MuSpec MuBase MuStruct MuTpm2b MuUnion TpmTypes MuTypes SysCodes Sys EsysBase EsysCrypto EsysCtx EsysUtil.

Open Scope tss_scope.
Open Scope esys_scope.
Open Scope Z_scope.

Section Exec.
Context {H : Host} {HM : Memory} {S U K : Type}.
Abbreviation CTX := (ESYS_CONTEXT S U K).
Abbreviation EM A := (M CTX A).

(** [if (esysContext == NULL) return TSS2_ESYS_RC_BAD_REFERENCE;] around a
    function. *)
Definition with_context {A} (m : EM A) (esysContext : option CTX) :
    outcome (option CTX * (TSS2_RC + A)) :=
  match esysContext with
  | None => Ret (None, inl TSS2_ESYS_RC_BAD_REFERENCE)
  | Some c =>
      match m c with
      | Ret (c, x) => Ret (Some c, x)
      | Undef => Undef
      end
  end.

(** [return_state_if_error(r, s, msg)] after [m]. *)
Definition return_state {A} (m : EM A) (s : ESYS_STATE) : EM A :=
  on_error m (fun r => modify (set_state s) ;! ret r).

(** A program that stores output parameters, called on [esys_context->sys]. *)
Definition sys_out {R} (p : out_prog (S:=S) R) : EM R := fun c =>
  match run p (Some (sys c)) with
  | Ret (rval, (Some b, r)) =>
      Ret (set_sys b c, if rval =? TSS2_RC_SUCCESS then inr r else inl rval)
  | _ => Undef
  end.

(** ** [_Async] *)

(** [(node == NULL) ? TPM2_RH_NULL : node->rsrc.handle] *)
Definition node_handle (p : option nat) : EM Z :=
  match p with
  | None => ret TPM2_RH_NULL
  | Some p => let! n := node_at p in ret (handle (rsrc n))
  end.

(** The calls of [esys_GetResourceObject] for the handles of a command. *)
Fixpoint get_objects (handles : list Z) : EM (list (option nat)) :=
  match handles with
  | [] => ret []
  | h :: handles =>
      let! p := return_state (esys_GetResourceObject h) ESYS_STATE_INIT in
      let! l := get_objects handles in
      ret (p :: l)
  end.
Fixpoint node_handles (nodes : list (option nat)) : EM (list Z) :=
  match nodes with
  | [] => ret []
  | p :: nodes => let! h := node_handle p in let! l := node_handles nodes in ret (h :: l)
  end.

(** [iesys_compute_session_value] for [session_tab[i]] with the name and the
    authorization value of a node that may be NULL. *)
Definition session_value (i : nat) (object : option nat) : EM unit :=
  let! session := session_tab_at i in
  let! name_auth :=
    match object with
    | None => ret None
    | Some p => let! n := node_at p in ret (Some (name (rsrc n), auth n))
    end in
  iesys_compute_session_value session name_auth.

(** The same where the code does not test the node for NULL *)
Definition session_value_deref (i : nat) (object : option nat) : EM unit :=
  let! session := session_tab_at i in
  match session, object with
  | None, _ => ret tt
  | Some _, None => undef
  | Some _, Some _ => session_value i object
  end.

(** [TSS2L_SYS_AUTH_COMMAND auths;] of the stack: the other members are set
    before they are read. *)
Definition stack_auths : TSS2L_SYS_AUTH_COMMAND :=
  Auth_Command 0 (map (fun i => Mk_TPMS_AUTH_COMMAND (stack_handle i) (zero_2b cap_TPM2B_DIGEST)
    0 (zero_2b cap_TPM2B_DIGEST)) (seq 0 3)).

(** From [init_session_tab] on: [values] computes the values of the sessions,
    [nodes] are the arguments of [iesys_gen_auths], [after] comes between the
    sending of the command and the change of the state. *)
Definition esys_transmit (shandle1 shandle2 shandle3 : Z) (values : EM unit)
    (nodes : option nat * option nat * option nat) (after : EM unit) : EM unit :=
  return_state (init_session_tab shandle1 shandle2 shandle3) ESYS_STATE_INIT ;!
  values ;!
  let! auths := return_state (iesys_gen_auths nodes.1.1 nodes.1.2 nodes.2 stack_auths)
    ESYS_STATE_INIT in
  modify (set_authsCount_esys (cmd_count auths)) ;!
  (if 0 <? cmd_count auths
   then return_state (sys_m (Tss2_Sys_SetCmdAuths (Some auths))) ESYS_STATE_INIT else ret tt) ;!
  return_state (sys_m Tss2_Sys_ExecuteAsync) ESYS_STATE_INTERNALERROR ;!
  after ;!
  modify (set_state ESYS_STATE_SENT).

(** The three calls of [iesys_compute_session_value]: [authed] are the objects
    that the sessions authorize. *)
Definition session_values (authed : option nat * option nat * option nat) : EM unit :=
  session_value 0 authed.1.1 ;!
  session_value 1 authed.1.2 ;!
  session_value 2 authed.2.

Definition esys_send (shandle1 shandle2 shandle3 : Z) (authed nodes : option nat * option nat * option nat) :
    EM unit :=
  esys_transmit shandle1 shandle2 shandle3 (session_values authed) nodes (ret tt).

(** The start of an [_Async] function *)
Definition esys_feasible (shandle1 shandle2 shandle3 mandatory : Z) : EM unit :=
  return_state (return_if_error (check_session_feasibility shandle1 shandle2 shandle3 mandatory))
    ESYS_STATE_INIT.
Definition esys_begin (shandle1 shandle2 shandle3 mandatory : Z) : EM unit :=
  iesys_check_sequence_async ;!
  modify (set_state ESYS_STATE_INTERNALERROR) ;!
  esys_feasible shandle1 shandle2 shandle3 mandatory.

(** The objects that come first in the list of the objects of a command:
    the first [n] of them, NULL for the others. *)
Definition first_objects (n : nat) (nodes : list (option nat)) :
    option nat * option nat * option nat :=
  let at_ i := if (i <? n)%nat then default None (nodes !! i) else None in
  (at_ 0%nat, at_ 1%nat, at_ 2%nat).

(** What follows the start of the functions *)
Definition esys_command (handles : list Z) (n_auth : nat) (shandle1 shandle2 shandle3 : Z)
    (store : EM unit) (prepare : list (option nat) -> EM unit) : EM unit :=
  store ;!
  let! nodes := get_objects handles in
  prepare nodes ;!
  esys_send shandle1 shandle2 shandle3 (first_objects n_auth nodes) (first_objects 3 nodes).

(** A command with [handles], of which the first [n_auth] need an
    authorization; [store] is [store_input_parameters], [prepare] is what comes
    between the objects and the sessions. *)
Definition esys_async_with (handles : list Z) (n_auth : nat) (shandle1 shandle2 shandle3 mandatory : Z)
    (store : EM unit) (prepare : list (option nat) -> EM unit) : EM unit :=
  esys_begin shandle1 shandle2 shandle3 mandatory ;!
  esys_command handles n_auth shandle1 shandle2 shandle3 store prepare.

(** [Tss2_Sys_X_Prepare] with the TPM handles of the objects *)
Definition prepare_with (prepare : list Z -> sysF S) (nodes : list (option nat)) : EM unit :=
  let! hs := node_handles nodes in
  return_state (sys_m (prepare hs)) ESYS_STATE_INIT.

Definition esys_async (handles : list Z) (n_auth : nat) (shandle1 shandle2 shandle3 mandatory : Z)
    (store : EM unit) (prepare : list Z -> sysF S) : EM unit :=
  esys_async_with handles n_auth shandle1 shandle2 shandle3 mandatory store (prepare_with prepare).

(** A command without sessions *)
Definition esys_async_plain (handles : list Z) (store : EM unit) (prepare : list Z -> sysF S) :
    EM unit :=
  iesys_check_sequence_async ;!
  modify (set_state ESYS_STATE_INTERNALERROR) ;!
  store ;!
  let! nodes := get_objects handles in
  prepare_with prepare nodes ;!
  return_state (sys_m Tss2_Sys_ExecuteAsync) ESYS_STATE_INTERNALERROR ;!
  modify (set_state ESYS_STATE_SENT).

(** ** [_Finish] *)

Definition code_of {A} (x : TSS2_RC + A) : TSS2_RC :=
  match x with inl r => r | inr _ => TSS2_RC_SUCCESS end.

Definition resubmits (r : TSS2_RC) : bool :=
  (r =? TPM2_RC_RETRY) || (r =? TPM2_RC_TESTING) || (r =? TPM2_RC_YIELDED).

(** From [Tss2_Sys_ExecuteFinish] to the handling of its errors: [resubmitted]
    is the state of a command that was submitted again, [accepts] are the codes
    after which the response is read. *)
Definition esys_receive_with (resubmitted : ESYS_STATE) (accepts : TSS2_RC -> bool) : EM unit :=
  let! c := get in
  let! x := code (sys_m (Tss2_Sys_ExecuteFinish (timeout c))) in
  let r := code_of x in
  if base_rc r =? TSS2_BASE_RC_TRY_AGAIN then modify (set_state ESYS_STATE_SENT) ;! fail r
  else if resubmits r then
    let! c := get in
    modify (set_submissionCount (submissionCount c + 1)) ;!
    if ESYS_MAX_SUBMISSIONS <=? submissionCount c then modify (set_state ESYS_STATE_INIT) ;! fail r
    else
      modify (set_state resubmitted) ;!
      sys_m Tss2_Sys_ExecuteAsync ;!
      fail TSS2_ESYS_RC_TRY_AGAIN
  else if accepts r then ret tt
  else if iesys_tpm_error r then modify (set_state ESYS_STATE_INIT) ;! fail r
  else modify (set_state ESYS_STATE_INTERNALERROR) ;! fail r.

Definition esys_receive : EM unit :=
  esys_receive_with ESYS_STATE_RESUBMISSION (fun r => r =? TSS2_RC_SUCCESS).

(** The one of [Esys_Startup_Finish]; TPM2_RC_UPGRADE, which the code tests for
    first, is one of the errors of the TPM. *)
Definition esys_receive_startup : EM unit :=
  esys_receive_with ESYS_STATE_SENT (fun r => (r =? TSS2_RC_SUCCESS) || (r =? TPM2_RC_INITIALIZE)).

(** [allocate] is the block that allocates the response parameters, [receive]
    the receipt of the response, [respond] what follows, and [handler] the code
    at [error_cleanup], which gives the code that is returned. *)
Definition esys_finish_with {A B} (allocate : EM A) (receive : EM unit)
    (handler : A -> TSS2_RC -> EM TSS2_RC) (respond : A -> EM B) : EM B :=
  let! c := get in
  if negb (bool_decide (state c = ESYS_STATE_SENT))
     && negb (bool_decide (state c = ESYS_STATE_RESUBMISSION))
  then fail TSS2_ESYS_RC_BAD_SEQUENCE
  else
    modify (set_state ESYS_STATE_INTERNALERROR) ;!
    let! a := allocate in
    on_error (receive ;! respond a) (handler a).

(** Runs [m] and keeps the code. *)
Definition then_return (m : EM unit) (r : TSS2_RC) : EM TSS2_RC := let! _ := code m in ret r.

(** The results are stored and the command is over. *)
Definition completed {B} (m : EM B) : EM B :=
  let! b := m in
  modify (set_state ESYS_STATE_INIT) ;!
  ret b.

(** [complete] follows the check of the response; the codes of [cleanup] are
    ignored. *)
Definition esys_finish {A B} (allocate : EM A) (cleanup : A -> EM unit) (complete : A -> EM B) :
    EM B :=
  esys_finish_with allocate esys_receive (fun a => then_return (cleanup a))
    (fun a => return_state iesys_check_response ESYS_STATE_INTERNALERROR ;! completed (complete a)).

(** The allocation of output parameters: whether each pointer is not NULL.
    Memory that is freed again on an error is not modelled. *)
Fixpoint allocate (wanted : list bool) : EM unit :=
  match wanted with
  | [] => ret tt
  | true :: wanted =>
      let! ok := calloc in
      if negb ok then fail TSS2_ESYS_RC_MEMORY else allocate wanted
  | false :: wanted => allocate wanted
  end.

(** [Tss2_Sys_X_Complete] *)
Definition esys_complete {R} (p : out_prog (S:=S) R) : EM R :=
  return_state (sys_out p) ESYS_STATE_INTERNALERROR.

(** ** The function without a suffix *)

(** [do r = finish(); while (base_rc(r) == TSS2_BASE_RC_TRY_AGAIN);] for at most
    [fuel] iterations; a loop that goes on is undefined. *)
Fixpoint finish_loop {B} (fuel : nat) (finish : EM B) : EM B :=
  match fuel with
  | O => undef
  | Datatypes.S fuel =>
      let! x := code finish in
      match x with
      | inl r => if base_rc r =? TSS2_BASE_RC_TRY_AGAIN then finish_loop fuel finish else fail r
      | inr b => ret b
      end
  end.

Definition esys_one_call {B} (fuel : nat) (async : EM unit) (finish : EM B) : EM B :=
  async ;!
  let! c := get in
  let timeouttmp := timeout c in
  modify (set_timeout (-1)) ;!
  let! x := code (finish_loop fuel finish) in
  modify (set_timeout timeouttmp) ;!
  match x with inl r => fail r | inr b => ret b end.

End Exec.
