(* ===== verification/EsysTr.v ===== *)
(** * Enhanced System API: operations on objects and on the context (esys_tr.c,
    esys_context.c), and the hashes of a command (esys_cp_rp_hash.c).

    The output parameters are the results. [Esys_TR_Close] takes and returns
    [*object]. *)

From stdpp Require Import gmap.
From S2P Require Import Prelude Common MuSpec MuBase MuStruct MuTpm2b MuUnion TpmTypes MuTypes SysCodes Sys EsysBase EsysCrypto EsysCtx EsysUtil EsysMu EsysExec.

Open Scope tss_scope.
Open Scope esys_scope.
Open Scope Z_scope.

Section Tr.
Context {H : Host} {HM : Memory} {S U K : Type}.
Abbreviation CTX := (ESYS_CONTEXT S U K).
Abbreviation EM A := (M CTX A).
Abbreviation CB := (ESYS_CRYPTO_CALLBACKS U K).

(** The loop through the list; the result is the list after it and [*object],
    or [None] when no node has the handle. *)
Fixpoint close_object (l : list nat) (object : Z) : EM (option (list nat * Z)) :=
  match l with
  | [] => ret None
  | p :: l =>
      let! node := node_at p in
      if esys_handle node =? object then
        if 1 <? reference_count node then
          upd_node p (set_reference_count (reference_count node - 1)) ;!
          ret (Some (p :: l, object))
        else
          modify (fun c => set_heap (delete p (heap c)) c) ;!
          ret (Some (l, ESYS_TR_NONE))
      else
        let! r := close_object l object in
        ret (match r with Some (l, object) => Some (p :: l, object) | None => None end)
  end.

Definition Esys_TR_Close (object : Z) : EM Z :=
  let! c := get in
  let! r := close_object (rsrc_list c) object in
  match r with
  | None => fail TSS2_ESYS_RC_BAD_TR
  | Some (l, object) => modify (set_rsrc_list l) ;! ret object
  end.

(** A node that cannot be NULL because the handle is not [ESYS_TR_NONE]. *)
Definition object_of (esys_handle : Z) : EM nat :=
  let! p := esys_GetResourceObject esys_handle in
  match p with Some p => ret p | None => undef end.

(** [authValue] is [None] for NULL. *)
Definition Esys_TR_SetAuth (esys_handle : Z) (authValue : option TPM2B) : EM unit :=
  if esys_handle =? ESYS_TR_NONE then fail TSS2_ESYS_RC_BAD_TR
  else
    let! p := object_of esys_handle in
    match authValue with
    | None => upd_node p (fun n => set_auth (set_size0 (auth n)) n)
    | Some authValue =>
        if sizeof_TPMU_HA <? size authValue then fail TSS2_ESYS_RC_BAD_SIZE
        else
          let! n := node_at p in
          let! name_alg :=
            (if rsrcType (rsrc n) =? IESYSC_KEY_RSRC then
               let! pub := lift (rsrc_key_pub (misc (rsrc n))) in
               ret (TPMT_PUBLIC_nameAlg (smember pub))
             else if rsrcType (rsrc n) =? IESYSC_NV_RSRC then
               let! pub := lift (rsrc_nv_pub (misc (rsrc n))) in
               ret (TPMS_NV_PUBLIC_nameAlg (smember pub))
             else ret TPM2_ALG_NULL) in
          (* both branches start with the removal of the zeros in place *)
          let! stripped := lift (iesys_strip_trailing_zeros authValue) in
          upd_node p (set_auth stripped) ;!
          if negb (name_alg =? TPM2_ALG_NULL) then
            let! a := crypto (iesys_adapt_auth_value stripped name_alg) in
            upd_node p (set_auth a)
          else ret tt
    end.

Definition Esys_TR_GetName (esys_handle : Z) : EM TPM2B :=
  if esys_handle =? ESYS_TR_NONE then fail TSS2_ESYS_RC_BAD_TR
  else
    let! p := object_of esys_handle in
    let! ok := calloc in
    if negb ok then fail TSS2_ESYS_RC_MEMORY
    else
      let! n := node_at p in
      if rsrcType (rsrc n) =? IESYSC_KEY_RSRC then
        let! pub := lift (rsrc_key_pub (misc (rsrc n))) in
        crypto (iesys_get_name pub (zero_2b cap_TPM2B_NAME))
      else if rsrcType (rsrc n) =? IESYSC_NV_RSRC then
        let! pub := lift (rsrc_nv_pub (misc (rsrc n))) in
        crypto (iesys_nv_get_name pub (zero_2b cap_TPM2B_NAME))
      else
        let! image := mu_image 4 (Tss2_MU_TPM2_HANDLE_Marshal (handle (rsrc n))) in
        let! b := lift (access (mem_write (buffer (zero_2b cap_TPM2B_NAME)) 0 image)) in
        ret (MkTPM2B (Zlen image) b).

(** The session of a handle for the functions below, which do not test for
    NULL when the handle is [ESYS_TR_NONE]. *)
Definition session_of (esys_handle : Z) : EM (nat * IESYS_SESSION) :=
  let! p := object_of esys_handle in
  let! n := node_at p in
  if negb (rsrcType (rsrc n) =? IESYSC_SESSION_RSRC) then fail TSS2_ESYS_RC_BAD_TR
  else let! s := session_at p in ret (p, s).

Definition Esys_TRSess_GetAttributes (esys_handle : Z) : EM Z :=
  let! (_, s) := session_of esys_handle in ret (sessionAttributes s).

Definition Esys_TRSess_SetAttributes (esys_handle flags mask : Z) : EM unit :=
  if esys_handle =? ESYS_TR_NONE then fail TSS2_ESYS_RC_BAD_VALUE
  else
    let! (p, s) := session_of esys_handle in
    let s := set_sessionAttributes
      (Z.lor (Z.ldiff (sessionAttributes s) mask) (Z.land flags mask)) s in
    put_session p (if has TPMA_SESSION_AUDIT s
                   then set_bound_entity (set_size0 (bound_entity s)) s else s).

Definition Esys_TRSess_GetNonceTPM (esys_handle : Z) : EM TPM2B :=
  let! p := esys_GetResourceObject esys_handle in
  let! ok := calloc in
  if negb ok then fail TSS2_ESYS_RC_MEMORY
  else
    match p with
    | None => undef
    | Some p =>
        let! n := node_at p in
        if negb (rsrcType (rsrc n) =? IESYSC_SESSION_RSRC) then fail TSS2_ESYS_RC_BAD_TR
        else let! s := session_at p in ret (nonceTPM s)
    end.

Definition Esys_TR_GetTpmHandle (esys_handle : Z) : EM Z :=
  if esys_handle =? ESYS_TR_NONE then fail TSS2_ESYS_RC_BAD_TR
  else
    let! p := object_of esys_handle in
    let! n := node_at p in
    ret (handle (rsrc n)).

Definition Esys_TRSess_GetAuthRequired (esys_handle : Z) : EM bool :=
  let! (_, s) := session_of esys_handle in
  ret ((type_policy_session s =? POLICY_AUTH) || (type_policy_session s =? POLICY_PASSWORD)).

(** ** The context *)

Definition Esys_SetTimeout (timeout : Z) : EM unit := modify (set_timeout timeout).

(** [internal] is the back end the library is built with. *)
Definition Esys_SetCryptoCallbacks (internal : CB) (callbacks : option CB) : EM unit :=
  crypto (iesys_initialize_crypto_backend internal callbacks).

Definition Esys_GetCryptoCallbacks : EM CB := gets crypto_backend.

(** [calloc(1, syssize)] for the context of the System API *)
Definition zero_sys (syssize : Z) : blob S :=
  Blob None (replicate (Z.to_nat (syssize - sizeof_TSS2_SYS_CONTEXT_BLOB)) 0) 0
    (replicate 10 0) (Header_Out 0 0 0) 0 0 0 0 CMD_STAGE_INITIALIZE 0 0 false false false false 0.

(** [calloc(1, sizeof(ESYS_CONTEXT))] with the context of the System API *)
Definition zero_context (b : blob S) (cb : CB) : CTX :=
  Esys S U K ESYS_STATE_INIT b 0 ∅ [] 0%nat 0 [0; 0; 0] [None; None; None] [None; None; None] 0 None
    0 0 (zero_2b cap_TPM2B_DATA) In_zero 0 None 0 0 0 cb 0.

(** With a transport of the application; [rand_] is what [rand()] returns and
    [cb] the callbacks of a zeroed context, which the code sets before it
    reads them. *)
Definition Esys_Initialize (internal cb : CB) (tcti : TSS2_TCTI_CONTEXT S)
    (abiVersion : option TSS2_ABI_VERSION) (rand_ : Z) : outcome (TSS2_RC + CTX) :=
  if calloc_fails 0 || calloc_fails 1 then Ret (inl TSS2_ESYS_RC_MEMORY)
  else
    let syssize := Tss2_Sys_GetContextSize 0 in
    let init :=
      sys_m (Tss2_Sys_Initialize syssize (Some tcti) abiVersion) ;!
      modify (set_esys_handle_cnt (ESYS_TR_MIN_OBJECT + rand_ mod 6000000)) ;!
      crypto (iesys_initialize_crypto_backend internal None) ;!
      modify (set_callocs 2) in
    match init (zero_context (zero_sys syssize) cb) with
    | Ret (c, inr _) => Ret (inr c)
    | Ret (_, inl r) => Ret (inl r)
    | Undef => Undef
    end.

(** ** Hashes of the application (esys_cp_rp_hash.c) *)

(** The copy that the caller is given, and [*cpHash_size]. *)
Definition copy_hash (hash : bytes) (size : Z) : EM (bytes * Z) :=
  let! ok := calloc in
  if negb ok then fail TSS2_ESYS_RC_MEMORY else
  let! h := digest_bytes hash size in
  ret (h, size).

Definition Esys_GetCpHash (hashAlg : Z) : EM (bytes * Z) :=
  let! (cp_hash, cpHash_size) := iesys_compute_cp_hash hashAlg in
  copy_hash cp_hash cpHash_size.

Definition Esys_GetRpHash (hashAlg : Z) : EM (bytes * Z) :=
  let! (rp_hash, rpHash_size) := iesys_compute_rp_hash hashAlg in
  copy_hash rp_hash rpHash_size.

Definition Esys_Abort : EM unit :=
  sys_m Tss2_Sys_Abort ;!
  modify (set_state ESYS_STATE_INIT).

End Tr.

(** ** Enhanced System API: what the commands store, and the objects they make.

    [store_input_parameters] of the commands and the members of [in] their
    [_Finish] functions read; the handle and the object that a [_Finish]
    function creates, changes or closes. *)

Definition TPM2_HT_PERSISTENT := 0x81.
Definition TPMA_NV_POLICY_DELETE := 0x400.
Definition TPMA_NV_READLOCKED := 0x10000000.
Definition TPMA_NV_WRITELOCKED := 0x800.
Definition TPMA_SESSION_CONTINUESESSION := 0x1.
Definition TSS2_FEATURE_RC_LAYER := TSS2_RC_LAYER 6.
Definition TSS2_FAPI_RC_BAD_VALUE := Z.lor TSS2_FEATURE_RC_LAYER TSS2_BASE_RC_BAD_VALUE.
Definition TSS2_ESYS_RC_MALFORMED_RESPONSE :=
  Z.lor TSS2_ESAPI_RC_LAYER TSS2_BASE_RC_MALFORMED_RESPONSE.

(** ** The stored parameters *)

(** [None] for NULL, [zero] for a member of a union of zeros *)
Definition in_ContextSave (u : IESYS_CMD_IN_PARAM) : outcome Z :=
  match u with In_ContextSave h => Ret h | In_zero => Ret 0 | _ => Undef end.
Definition in_ContextLoad (u : IESYS_CMD_IN_PARAM) : outcome (option TPMS_CONTEXT) :=
  match u with In_ContextLoad p => Ret p | In_zero => Ret None | _ => Undef end.
Definition in_Load (u : IESYS_CMD_IN_PARAM) : outcome (option (TPM2B_SUB TPMT_PUBLIC)) :=
  match u with In_Load p => Ret p | In_zero => Ret None | _ => Undef end.
Definition in_LoadExternal (u : IESYS_CMD_IN_PARAM) : outcome (option (TPM2B_SUB TPMT_PUBLIC)) :=
  match u with In_LoadExternal p => Ret p | In_zero => Ret None | _ => Undef end.
Definition in_Create (u : IESYS_CMD_IN_PARAM) : outcome (option (TPM2B_SUB TPMS_SENSITIVE_CREATE)) :=
  match u with In_Create p => Ret p | In_zero => Ret None | _ => Undef end.
Definition in_CreatePrimary (u : IESYS_CMD_IN_PARAM) :
    outcome (option (TPM2B_SUB TPMS_SENSITIVE_CREATE)) :=
  match u with In_CreatePrimary p => Ret p | In_zero => Ret None | _ => Undef end.
Definition in_CreateLoaded (u : IESYS_CMD_IN_PARAM) :
    outcome (option (TPM2B_SUB TPMS_SENSITIVE_CREATE) * option TPM2B) :=
  match u with In_CreateLoaded p t => Ret (p, t) | In_zero => Ret (None, None) | _ => Undef end.
Definition in_EvictControl (u : IESYS_CMD_IN_PARAM) : outcome (Z * Z) :=
  match u with In_EvictControl h p => Ret (h, p) | In_zero => Ret (0, 0) | _ => Undef end.
(** [MAC_Start_IN] is [HMAC_Start_IN]. *)
Definition in_HMAC_Start (u : IESYS_CMD_IN_PARAM) : outcome TPM2B :=
  match u with
  | In_HMAC_Start a => Ret a
  | In_MAC_Start a => Ret a
  | In_zero => Ret (zero_2b cap_TPM2B_DIGEST)
  | _ => Undef
  end.
Definition in_HierarchyChangeAuth (u : IESYS_CMD_IN_PARAM) : outcome (Z * TPM2B) :=
  match u with
  | In_HierarchyChangeAuth h a => Ret (h, a)
  | In_zero => Ret (0, zero_2b cap_TPM2B_DIGEST)
  | _ => Undef
  end.
Definition in_SequenceComplete (u : IESYS_CMD_IN_PARAM) : outcome Z :=
  match u with In_SequenceComplete h => Ret h | In_zero => Ret 0 | _ => Undef end.
Definition in_Policy (u : IESYS_CMD_IN_PARAM) : outcome Z :=
  match u with In_Policy h => Ret h | In_zero => Ret 0 | _ => Undef end.
Definition in_FlushContext (u : IESYS_CMD_IN_PARAM) : outcome Z :=
  match u with In_FlushContext h => Ret h | In_zero => Ret 0 | _ => Undef end.
Definition in_PCR (u : IESYS_CMD_IN_PARAM) : outcome (Z * TPM2B) :=
  match u with
  | In_PCR h a => Ret (h, a)
  | In_zero => Ret (0, zero_2b cap_TPM2B_DIGEST)
  | _ => Undef
  end.

(** [bind], [tpmKey], [authHash] and [nonceCaller], which is not NULL once the
    command is sent *)
Definition in_StartAuthSession (u : IESYS_CMD_IN_PARAM) : outcome (Z * Z * Z * TPM2B) :=
  match u with
  | In_StartAuthSession tpmKey bind_ _ authHash (Some nonce) _ => Ret (bind_, tpmKey, authHash, nonce)
  | _ => Undef
  end.
(** What the new session takes over: [sessionType], [authHash], [*symmetric] and
    [nonceCallerData] *)
Definition in_session (u : IESYS_CMD_IN_PARAM) : outcome (Z * Z * TPMT_SYM_DEF * TPM2B) :=
  match u with
  | In_StartAuthSession _ _ sessionType authHash (Some nonce) (Some symmetric) =>
      Ret (sessionType, authHash, symmetric, nonce)
  | _ => Undef
  end.

Definition in_NV_nvIndex (u : IESYS_CMD_IN_PARAM) : outcome Z :=
  match u with In_NV i _ _ => i | In_zero => Ret 0 | _ => Undef end.
Definition in_NV_authData (u : IESYS_CMD_IN_PARAM) : outcome TPM2B :=
  match u with In_NV _ a _ => a | In_zero => Ret (zero_2b cap_TPM2B_DIGEST) | _ => Undef end.
Definition in_NV_publicInfo (u : IESYS_CMD_IN_PARAM) : outcome (option (TPM2B_SUB TPMS_NV_PUBLIC)) :=
  match u with In_NV _ _ p => p | In_zero => Ret None | _ => Undef end.
Definition set_NV_nvIndex (h : Z) (u : IESYS_CMD_IN_PARAM) : IESYS_CMD_IN_PARAM :=
  In_NV (Ret h) (in_NV_authData u) (in_NV_publicInfo u).
Definition set_NV_authData (a : TPM2B) (u : IESYS_CMD_IN_PARAM) : IESYS_CMD_IN_PARAM :=
  In_NV (in_NV_nvIndex u) (Ret a) (in_NV_publicInfo u).
Definition set_NV_publicInfo (p : option (TPM2B_SUB TPMS_NV_PUBLIC)) (u : IESYS_CMD_IN_PARAM) :
    IESYS_CMD_IN_PARAM :=
  In_NV (in_NV_nvIndex u) (in_NV_authData u) (Ret p).

Definition set_userAuth (a : TPM2B) (s : TPM2B_SUB TPMS_SENSITIVE_CREATE) :
    TPM2B_SUB TPMS_SENSITIVE_CREATE :=
  MkTPM2B_SUB (ssize s) (mset TPMS_SENSITIVE_CREATE'userAuth a (smember s)).
Definition userAuth (s : TPM2B_SUB TPMS_SENSITIVE_CREATE) : TPM2B :=
  TPMS_SENSITIVE_CREATE_userAuth (smember s).

(** The object that a call allocates when its pointer is not NULL *)
Definition wanted {T} (p : bool) (zero : T) : option T := if p then Some zero else None.

Section Parts.
Context {H : Host} {HM : Memory} {S U K : Type}.
Abbreviation CTX := (ESYS_CONTEXT S U K).
Abbreviation EM A := (M CTX A).

Definition stored {A} (f : IESYS_CMD_IN_PARAM -> outcome A) : EM A :=
  let! c := get in lift (f (cmd_in c)).
Definition store (f : IESYS_CMD_IN_PARAM -> IESYS_CMD_IN_PARAM) : EM unit :=
  modify (fun c => set_cmd_in (f (cmd_in c)) c).

(** [*auth], or zeros for NULL *)
Definition auth_or_zero (a : option TPM2B) : TPM2B := default (zero_2b cap_TPM2B_DIGEST) a.

(** [store_input_parameters] of the commands that store the index *)
Definition store_nvIndex (nvIndex : Z) : EM unit := store (set_NV_nvIndex nvIndex).

Definition store_NV_ChangeAuth (nvIndex : Z) (newAuth : option TPM2B) : EM unit :=
  store (set_NV_nvIndex nvIndex) ;! store (set_NV_authData (auth_or_zero newAuth)).
Definition store_NV_DefineSpace (auth : option TPM2B)
    (publicInfo : option (TPM2B_SUB TPMS_NV_PUBLIC)) : EM unit :=
  store (set_NV_authData (auth_or_zero auth)) ;! store (set_NV_publicInfo publicInfo).
Definition store_HierarchyChangeAuth (authHandle : Z) (newAuth : option TPM2B) : EM unit :=
  let! newAuth :=
    match newAuth with
    | None => ret (zero_2b cap_TPM2B_DIGEST)
    | Some a => lift (iesys_strip_trailing_zeros a)
    end in
  store (fun _ => In_HierarchyChangeAuth authHandle newAuth).

(** [iesys_adapt_auth_value] for [in.X.inSensitive->sensitive.userAuth] *)
Definition adapt_userAuth (s : option (TPM2B_SUB TPMS_SENSITIVE_CREATE)) (nameAlg : Z)
    (put : TPM2B_SUB TPMS_SENSITIVE_CREATE -> IESYS_CMD_IN_PARAM) : EM unit :=
  match s with
  | None => undef
  | Some s =>
      let! a := return_state (crypto (iesys_adapt_auth_value (userAuth s) nameAlg)) ESYS_STATE_INIT in
      store (fun _ => put (set_userAuth a s))
  end.

(** ** Objects *)

(** [*p = esysContext->esys_handle_cnt++; r = esys_CreateResourceObject(...);]:
    the handle and the node *)
Definition new_handle : EM (Z * nat) :=
  let! c := get in
  let h := esys_handle_cnt c in
  modify (set_esys_handle_cnt (wrap 32 (h + 1))) ;!
  let! p := esys_CreateResourceObject h in
  ret (h, p).
(** The same after the check of the pointer to the handle *)
Definition new_object (pointer : bool) : EM (Z * nat) :=
  if negb pointer then fail TSS2_ESYS_RC_BAD_REFERENCE else new_handle.

Definition upd_rsrc (p : nat) (f : IESYS_RESOURCE -> IESYS_RESOURCE) : EM unit :=
  upd_node p (fun n => set_rsrc (f (rsrc n)) n).

(** [Esys_TR_Close(esysContext, &h);] at [error_cleanup] *)
Definition close_new (new : Z * nat) : EM unit := let! _ := Esys_TR_Close new.1 in ret tt.

(** [node->rsrc.handle] of an object whose node the code does not test for NULL *)
Definition object_handle (h : Z) : EM Z :=
  let! p := object_of h in let! n := node_at p in ret (handle (rsrc n)).

(** The functions that set an attribute of an index and compute its name again *)
Definition mark_nv (attribute : Z) : EM unit :=
  let! nvIndex := stored in_NV_nvIndex in
  let! p := esys_GetResourceObject nvIndex in
  match p with
  | None => ret tt
  | Some p =>
      let! n := node_at p in
      let! pub := lift (rsrc_nv_pub (misc (rsrc n))) in
      let pub := MkTPM2B_SUB (ssize pub) (mset TPMS_NV_PUBLIC'attributes
        (Z.lor (TPMS_NV_PUBLIC_attributes (smember pub)) attribute) (smember pub)) in
      upd_rsrc p (set_misc (Misc_nv_pub pub)) ;!
      let! nm := crypto (iesys_nv_get_name pub (name (rsrc n))) in
      upd_rsrc p (set_name nm)
  end.

(** [Esys_TR_Close(esysContext, &esysContext->in.NV.nvIndex)] *)
Definition close_nv : EM unit :=
  let! h := stored in_NV_nvIndex in
  let! h := Esys_TR_Close h in
  store (set_NV_nvIndex h).

(** [PolicyAuthValue] and [PolicyPassword] *)
Definition mark_policy (type : Z) : EM unit :=
  let! h := stored in_Policy in
  let! p := esys_GetResourceObject h in
  match p with
  | None => ret tt
  | Some p => upd_session p (set_type_policy_session type)
  end.

(** A new authorization value of an object, before the check of the response *)
Definition change_auth (h : Z) (newAuth : TPM2B) : EM unit :=
  let! p := object_of h in
  upd_node p (set_auth newAuth) ;!
  session_value 0 (Some p).

(** The public area of a key that is loaded: [None] for NULL *)
Definition set_key_public (p : nat) (pub : option (TPM2B_SUB TPMT_PUBLIC)) : EM unit :=
  match pub with
  | Some pub => upd_rsrc p (fun r => set_misc (Misc_key_pub pub) (set_rsrcType IESYSC_KEY_RSRC r))
  | None =>
      let! n := node_at p in
      let! pub := lift (rsrc_key_pub (misc (rsrc n))) in
      upd_rsrc p (set_misc (Misc_key_pub (MkTPM2B_SUB 0 (smember pub))))
  end.

(** [if (!iesys_compare_name(...)) goto_error(r, TSS2_ESYS_RC_MALFORMED_RESPONSE, ...);] *)
Definition check_name (pub : option (TPM2B_SUB TPMT_PUBLIC)) (nm : TPM2B) : EM unit :=
  let! equal := crypto (iesys_compare_name pub (Some nm)) in
  if equal then ret tt else fail TSS2_ESYS_RC_MALFORMED_RESPONSE.

(** A node on the stack that exists while [m] runs *)
Definition with_stack_node {A} (n : RSRC_NODE_T) (m : nat -> EM A) : EM A :=
  let! c := get in
  let p := next_node c in
  modify (set_next_node (Datatypes.S p)) ;!
  modify (fun c => set_heap (<[p := n]> (heap c)) c) ;!
  let! x := code (m p) in
  modify (fun c => set_heap (delete p (heap c)) c) ;!
  match x with inl r => fail r | inr a => ret a end.

(** [return r;] in the part of a [_Finish] function that has a cleanup: the
    result is [inl r] and the cleanup is left out. *)
Definition direct {B} (m : EM (TSS2_RC + B)) : EM B :=
  let! x := m in
  match x with inl r => fail r | inr b => ret b end.

End Parts.
