(* ===== verification/EsysAsyncs.v ===== *)
(** * Enhanced System API: the [_Async] functions.

    One definition for each command of src/tss2-esys/api, made of the parts of
    EsysExec.v. [None] is a NULL pointer; the check that the context is not
    NULL is [with_context]. *)

From stdpp Require Import gmap strings.
From S2P Require Import Prelude Common MuSpec MuBase MuStruct MuTpm2b MuUnion MuPcr TpmTypes MuTypes SysCodes Sys SysCmds EsysBase EsysCrypto EsysCtx EsysUtil EsysMu EsysExec EsysTr.

Open Scope tss_scope.
Open Scope esys_scope.
Open Scope Z_scope.

Section Asyncs.
Context {H : Host} {HM : Memory} {S U KC : Type}.
Abbreviation CTX := (ESYS_CONTEXT S U KC).
Abbreviation EM A := (M CTX A).

Definition Esys_ACT_SetTimeout_Async (actHandle shandle1 shandle2 shandle3 startTimeout : Z)
    : EM unit :=
  esys_async [actHandle] 1 shandle1 shandle2 shandle3 1 (ret tt) (fun hs =>
    Tss2_Sys_ACT_SetTimeout_Prepare (nth 0 hs 0) startTimeout).

(** The error of the conversion leaves the state as it is. *)
Definition Esys_AC_GetCapability_Async (optionalSession1 optionalSession2 optionalSession3 ac
    capability count : Z) : EM unit :=
  esys_async_with [] 0 optionalSession1 optionalSession2 optionalSession3 0 (ret tt) (fun _ =>
    let! ac_id := tpm_handle ac in
    return_state (sys_m (Tss2_Sys_AC_GetCapability_Prepare ac_id capability count)) ESYS_STATE_INIT).

(** The errors of the lookups leave the state as it is. *)
Definition Esys_AC_Send_Async (sendObject nvAuthHandle optionalSession1 optionalSession2
    optionalSession3 ac : Z) (acDataIn : option TPM2B) : EM unit :=
  esys_async_with [] 0 optionalSession1 optionalSession2 optionalSession3 0 (ret tt) (fun _ =>
    let! tpmi_ac := object_handle ac in
    let! tpmi_sendObject := object_handle sendObject in
    let! tpmi_nvAuthHandle := object_handle nvAuthHandle in
    return_state (sys_m (Tss2_Sys_AC_Send_Prepare tpmi_sendObject tpmi_nvAuthHandle tpmi_ac acDataIn))
      ESYS_STATE_INIT).

Definition Esys_ActivateCredential_Async (activateHandle keyHandle shandle1 shandle2 shandle3 : Z)
    (credentialBlob secret : option TPM2B) : EM unit :=
  esys_async [activateHandle; keyHandle] 2 shandle1 shandle2 shandle3 1 (ret tt) (fun hs =>
    Tss2_Sys_ActivateCredential_Prepare (nth 0 hs 0) (nth 1 hs 0) credentialBlob secret).

Definition Esys_Certify_Async (objectHandle signHandle shandle1 shandle2 shandle3 : Z)
    (qualifyingData : option TPM2B) (inScheme : option TPMT_SIG_SCHEME) : EM unit :=
  esys_async [objectHandle; signHandle] 2 shandle1 shandle2 shandle3 1 (ret tt) (fun hs =>
    Tss2_Sys_Certify_Prepare (nth 0 hs 0) (nth 1 hs 0) qualifyingData inScheme).

Definition Esys_CertifyCreation_Async (signHandle objectHandle shandle1 shandle2 shandle3 : Z)
    (qualifyingData creationHash : option TPM2B) (inScheme : option TPMT_SIG_SCHEME)
    (creationTicket : option TPMT_TK_CREATION) : EM unit :=
  esys_async [signHandle; objectHandle] 1 shandle1 shandle2 shandle3 1 (ret tt) (fun hs =>
    Tss2_Sys_CertifyCreation_Prepare (nth 0 hs 0) (nth 1 hs 0) qualifyingData creationHash
    inScheme creationTicket).

Definition Esys_CertifyX509_Async (objectHandle signHandle shandle1 shandle2 shandle3 : Z)
    (reserved : option TPM2B) (inScheme : option TPMT_SIG_SCHEME)
    (partialCertificate : option TPM2B) : EM unit :=
  esys_async [objectHandle; signHandle] 2 shandle1 shandle2 shandle3 1 (ret tt) (fun hs =>
    Tss2_Sys_CertifyX509_Prepare (nth 0 hs 0) (nth 1 hs 0) reserved inScheme partialCertificate).

Definition Esys_ChangeEPS_Async (authHandle shandle1 shandle2 shandle3 : Z) : EM unit :=
  esys_async [authHandle] 1 shandle1 shandle2 shandle3 1 (ret tt) (fun hs =>
    Tss2_Sys_ChangeEPS_Prepare (nth 0 hs 0)).

Definition Esys_ChangePPS_Async (authHandle shandle1 shandle2 shandle3 : Z) : EM unit :=
  esys_async [authHandle] 1 shandle1 shandle2 shandle3 1 (ret tt) (fun hs =>
    Tss2_Sys_ChangePPS_Prepare (nth 0 hs 0)).

(** The authorization value of the lockout hierarchy is that of the response. *)
Definition Esys_Clear_Async (authHandle shandle1 shandle2 shandle3 : Z) : EM unit :=
  esys_begin shandle1 shandle2 shandle3 1 ;!
  let! nodes := get_objects [authHandle] in
  prepare_with (fun hs => Tss2_Sys_Clear_Prepare (nth 0 hs 0)) nodes ;!
  esys_transmit shandle1 shandle2 shandle3 (session_values (first_objects 1 nodes))
    (first_objects 3 nodes)
    (if authHandle =? ESYS_TR_RH_LOCKOUT then session_value 0 None else ret tt).

Definition Esys_ClearControl_Async (auth shandle1 shandle2 shandle3 disable : Z) : EM unit :=
  esys_async [auth] 1 shandle1 shandle2 shandle3 1 (ret tt) (fun hs =>
    Tss2_Sys_ClearControl_Prepare (nth 0 hs 0) disable).

Definition Esys_ClockRateAdjust_Async (auth shandle1 shandle2 shandle3 rateAdjust : Z)
    : EM unit :=
  esys_async [auth] 1 shandle1 shandle2 shandle3 1 (ret tt) (fun hs =>
    Tss2_Sys_ClockRateAdjust_Prepare (nth 0 hs 0) rateAdjust).

Definition Esys_ClockSet_Async (auth shandle1 shandle2 shandle3 newTime : Z) : EM unit :=
  esys_async [auth] 1 shandle1 shandle2 shandle3 1 (ret tt) (fun hs => Tss2_Sys_ClockSet_Prepare
    (nth 0 hs 0) newTime).

Definition Esys_Commit_Async (signHandle shandle1 shandle2 shandle3 : Z)
    (P1 : option (TPM2B_SUB TPMS_ECC_POINT)) (s2 y2 : option TPM2B) : EM unit :=
  esys_async [signHandle] 1 shandle1 shandle2 shandle3 1 (ret tt) (fun hs =>
    Tss2_Sys_Commit_Prepare (nth 0 hs 0) P1 s2 y2).

(** The context of the TPM inside the blob that [ContextSave] made; its errors
    leave the state as it is. *)
Definition context_data (blob : TPM2B) (size : Z) : EM IESYS_CONTEXT_DATA := fun c =>
  match iesys_MU_IESYS_CONTEXT_DATA_Unmarshal (Some (buffer blob)) size (Some 0)
          (Some zero_IESYS_CONTEXT_DATA) with
  | Ret (r, (_, Some d)) => Ret (c, if r =? TSS2_RC_SUCCESS then inr d else inl r)
  | _ => Undef
  end.

Definition Esys_ContextLoad_Async (context : option TPMS_CONTEXT) : EM unit :=
  iesys_check_sequence_async ;!
  modify (set_state ESYS_STATE_INTERNALERROR) ;!
  store (fun _ => In_ContextLoad context) ;!
  match context with
  | None => fail TSS2_ESYS_RC_BAD_REFERENCE
  | Some context =>
      let blob := TPMS_CONTEXT_contextBlob context in
      let! d := context_data blob (size blob) in
      let context := mset TPMS_CONTEXT'contextBlob (tpmContext d) context in
      return_state (sys_m (Tss2_Sys_ContextLoad_Prepare (Some context))) ESYS_STATE_INIT ;!
      return_state (sys_m Tss2_Sys_ExecuteAsync) ESYS_STATE_INTERNALERROR ;!
      modify (set_state ESYS_STATE_SENT)
  end.

Definition Esys_ContextSave_Async (saveHandle : Z) : EM unit :=
  esys_async_plain [saveHandle] (store (fun _ => In_ContextSave saveHandle))
    (fun hs => Tss2_Sys_ContextSave_Prepare (nth 0 hs 0)).

Definition Esys_Create_Async (parentHandle shandle1 shandle2 shandle3 : Z)
    (inSensitive : option (TPM2B_SUB TPMS_SENSITIVE_CREATE))
    (inPublic : option (TPM2B_SUB TPMT_PUBLIC)) (outsideInfo : option TPM2B)
    (creationPCR : option (TPML TPMS_PCR_SELECTION)) : EM unit :=
  esys_async_with [parentHandle] 1 shandle1 shandle2 shandle3 1
    (store (fun _ => In_Create inSensitive) ;!
     match inPublic with
     | Some pub => adapt_userAuth inSensitive (TPMT_PUBLIC_nameAlg (smember pub))
         (fun s => In_Create (Some s))
     | None => ret tt
     end)
    (fun nodes =>
      let! inSensitive := stored in_Create in
      prepare_with (fun hs => Tss2_Sys_Create_Prepare (nth 0 hs 0) inSensitive inPublic outsideInfo
        creationPCR) nodes).

(** The name algorithm is that of the template, read as a public area. *)
Definition template_nameAlg (inPublic : TPM2B) : EM Z := fun c =>
  match Tss2_MU_TPMT_PUBLIC_Unmarshal (Some (buffer inPublic)) (size inPublic) (Some 0)
          (Some zero_TPMT_PUBLIC) with
  | Ret (r, (_, Some publicArea)) =>
      Ret (c, if r =? TSS2_RC_SUCCESS then inr (TPMT_PUBLIC_nameAlg publicArea) else inl r)
  | _ => Undef
  end.

Definition Esys_CreateLoaded_Async (parentHandle shandle1 shandle2 shandle3 : Z)
    (inSensitive : option (TPM2B_SUB TPMS_SENSITIVE_CREATE)) (inPublic : option TPM2B) : EM unit :=
  esys_async_with [parentHandle] 1 shandle1 shandle2 shandle3 1
    (store (fun _ => In_CreateLoaded inSensitive inPublic) ;!
     match inPublic with
     | Some template =>
         let! nameAlg := template_nameAlg template in
         adapt_userAuth inSensitive nameAlg (fun s => In_CreateLoaded (Some s) inPublic)
     | None => ret tt
     end)
    (fun nodes =>
      let! (inSensitive, _) := stored in_CreateLoaded in
      prepare_with (fun hs => Tss2_Sys_CreateLoaded_Prepare (nth 0 hs 0) inSensitive inPublic) nodes).

Definition Esys_CreatePrimary_Async (primaryHandle shandle1 shandle2 shandle3 : Z)
    (inSensitive : option (TPM2B_SUB TPMS_SENSITIVE_CREATE))
    (inPublic : option (TPM2B_SUB TPMT_PUBLIC)) (outsideInfo : option TPM2B)
    (creationPCR : option (TPML TPMS_PCR_SELECTION)) : EM unit :=
  esys_async_with [primaryHandle] 1 shandle1 shandle2 shandle3 1
    (store (fun _ => In_CreatePrimary inSensitive) ;!
     match inPublic with
     | Some pub => adapt_userAuth inSensitive (TPMT_PUBLIC_nameAlg (smember pub))
         (fun s => In_CreatePrimary (Some s))
     | None => ret tt
     end)
    (fun nodes =>
      let! inSensitive := stored in_CreatePrimary in
      prepare_with (fun hs => Tss2_Sys_CreatePrimary_Prepare (nth 0 hs 0) inSensitive inPublic outsideInfo
        creationPCR) nodes).

Definition Esys_Decapsulate_Async (keyHandle shandle1 shandle2 shandle3 : Z) (cipherText label :
    option TPM2B) : EM unit :=
  esys_async [keyHandle] 0 shandle1 shandle2 shandle3 0 (ret tt) (fun hs =>
    Tss2_Sys_Decapsulate_Prepare (nth 0 hs 0) cipherText label).

Definition Esys_DictionaryAttackLockReset_Async (lockHandle shandle1 shandle2 shandle3 : Z)
    : EM unit :=
  esys_async [lockHandle] 1 shandle1 shandle2 shandle3 1 (ret tt) (fun hs =>
    Tss2_Sys_DictionaryAttackLockReset_Prepare (nth 0 hs 0)).

Definition Esys_DictionaryAttackParameters_Async (lockHandle shandle1 shandle2 shandle3
    newMaxTries newRecoveryTime lockoutRecovery : Z) : EM unit :=
  esys_async [lockHandle] 1 shandle1 shandle2 shandle3 1 (ret tt) (fun hs =>
    Tss2_Sys_DictionaryAttackParameters_Prepare (nth 0 hs 0) newMaxTries newRecoveryTime
    lockoutRecovery).

Definition Esys_Duplicate_Async (objectHandle newParentHandle shandle1 shandle2 shandle3 : Z)
    (encryptionKeyIn : option TPM2B) (symmetricAlg : option TPMT_SYM_DEF_OBJECT) : EM unit :=
  esys_async [objectHandle; newParentHandle] 1 shandle1 shandle2 shandle3 1 (ret tt) (fun hs =>
    Tss2_Sys_Duplicate_Prepare (nth 0 hs 0) (nth 1 hs 0) encryptionKeyIn symmetricAlg).

Definition Esys_ECC_Decrypt_Async (keyHandle shandle1 shandle2 shandle3 : Z)
    (c1 : option (TPM2B_SUB TPMS_ECC_POINT)) (c2 c3 : option TPM2B)
    (inScheme : option TPMT_KDF_SCHEME) : EM unit :=
  esys_async [keyHandle] 1 shandle1 shandle2 shandle3 1 (ret tt) (fun hs =>
    Tss2_Sys_ECC_Decrypt_Prepare (nth 0 hs 0) c1 c2 c3 inScheme).

Definition Esys_ECC_Encrypt_Async (keyHandle shandle1 shandle2 shandle3 : Z)
    (plainText : option TPM2B) (inScheme : option TPMT_KDF_SCHEME) : EM unit :=
  esys_async [keyHandle] 0 shandle1 shandle2 shandle3 0 (ret tt) (fun hs =>
    Tss2_Sys_ECC_Encrypt_Prepare (nth 0 hs 0) plainText inScheme).

Definition Esys_ECC_Parameters_Async (shandle1 shandle2 shandle3 curveID : Z) : EM unit :=
  esys_async [] 0 shandle1 shandle2 shandle3 0 (ret tt) (fun _ => Tss2_Sys_ECC_Parameters_Prepare
    curveID).

Definition Esys_ECDH_KeyGen_Async (keyHandle shandle1 shandle2 shandle3 : Z) : EM unit :=
  esys_async [keyHandle] 0 shandle1 shandle2 shandle3 0 (ret tt) (fun hs =>
    Tss2_Sys_ECDH_KeyGen_Prepare (nth 0 hs 0)).

Definition Esys_ECDH_ZGen_Async (keyHandle shandle1 shandle2 shandle3 : Z)
    (inPoint : option (TPM2B_SUB TPMS_ECC_POINT)) : EM unit :=
  esys_async [keyHandle] 1 shandle1 shandle2 shandle3 1 (ret tt) (fun hs =>
    Tss2_Sys_ECDH_ZGen_Prepare (nth 0 hs 0) inPoint).

Definition Esys_EC_Ephemeral_Async (shandle1 shandle2 shandle3 curveID : Z) : EM unit :=
  esys_async [] 0 shandle1 shandle2 shandle3 0 (ret tt) (fun _ => Tss2_Sys_EC_Ephemeral_Prepare
    curveID).

Definition Esys_Encapsulate_Async (keyHandle shandle1 shandle2 shandle3 : Z)
    (label : option TPM2B) : EM unit :=
  esys_async [keyHandle] 0 shandle1 shandle2 shandle3 0 (ret tt) (fun hs =>
    Tss2_Sys_Encapsulate_Prepare (nth 0 hs 0) label).

Definition Esys_EncryptDecrypt_Async (keyHandle shandle1 shandle2 shandle3 decrypt mode : Z) (ivIn
    inData : option TPM2B) : EM unit :=
  esys_async [keyHandle] 1 shandle1 shandle2 shandle3 1 (ret tt) (fun hs =>
    Tss2_Sys_EncryptDecrypt_Prepare (nth 0 hs 0) decrypt mode ivIn inData).

Definition Esys_EncryptDecrypt2_Async (keyHandle shandle1 shandle2 shandle3 : Z)
    (inData : option TPM2B) (decrypt mode : Z) (ivIn : option TPM2B) : EM unit :=
  esys_async [keyHandle] 1 shandle1 shandle2 shandle3 1 (ret tt) (fun hs =>
    Tss2_Sys_EncryptDecrypt2_Prepare (nth 0 hs 0) inData decrypt mode ivIn).

Definition Esys_EventSequenceComplete_Async (pcrHandle sequenceHandle shandle1 shandle2 shandle3 :
    Z) (buffer : option TPM2B) : EM unit :=
  esys_async [pcrHandle; sequenceHandle] 2 shandle1 shandle2 shandle3 1 (ret tt) (fun hs =>
    Tss2_Sys_EventSequenceComplete_Prepare (nth 0 hs 0) (nth 1 hs 0) buffer).

(** An object that is persistent already keeps its handle. *)
Definition persistent_handle (objectHandleNode : option nat) (persistentHandle : Z) : EM Z :=
  match objectHandleNode with
  | None => ret persistentHandle
  | Some p =>
      let! n := node_at p in
      ret (if iesys_get_handle_type (handle (rsrc n)) =? TPM2_HT_PERSISTENT
           then handle (rsrc n) else persistentHandle)
  end.

Definition Esys_EvictControl_Async (auth objectHandle shandle1 shandle2 shandle3
    persistentHandle : Z) : EM unit :=
  esys_async_with [auth; objectHandle] 1 shandle1 shandle2 shandle3 1
    (store (fun _ => In_EvictControl objectHandle persistentHandle))
    (fun nodes =>
      let! persistentHandle := persistent_handle (nth 1 nodes None) persistentHandle in
      prepare_with (fun hs => Tss2_Sys_EvictControl_Prepare (nth 0 hs 0) (nth 1 hs 0)
        persistentHandle) nodes).

Definition Esys_FieldUpgradeData_Async (shandle1 shandle2 shandle3 : Z) (fuData : option TPM2B)
    : EM unit :=
  esys_async [] 0 shandle1 shandle2 shandle3 0 (ret tt) (fun _ =>
    Tss2_Sys_FieldUpgradeData_Prepare fuData).

Definition Esys_FieldUpgradeStart_Async (authorization keyHandle shandle1 shandle2 shandle3 : Z)
    (fuDigest : option TPM2B) (manifestSignature : option TPMT_SIGNATURE) : EM unit :=
  esys_async [authorization; keyHandle] 1 shandle1 shandle2 shandle3 1 (ret tt) (fun hs =>
    Tss2_Sys_FieldUpgradeStart_Prepare (nth 0 hs 0) (nth 1 hs 0) fuDigest manifestSignature).

Definition Esys_FirmwareRead_Async (shandle1 shandle2 shandle3 sequenceNumber : Z) : EM unit :=
  esys_async [] 0 shandle1 shandle2 shandle3 0 (ret tt) (fun _ => Tss2_Sys_FirmwareRead_Prepare
    sequenceNumber).

Definition Esys_FlushContext_Async (flushHandle : Z) : EM unit :=
  esys_async_plain [flushHandle] (store (fun _ => In_FlushContext flushHandle))
    (fun hs => Tss2_Sys_FlushContext_Prepare (nth 0 hs 0)).

Definition Esys_GetCapability_Async (shandle1 shandle2 shandle3 capability property propertyCount
    : Z) : EM unit :=
  esys_async [] 0 shandle1 shandle2 shandle3 0 (ret tt) (fun _ => Tss2_Sys_GetCapability_Prepare
    capability property propertyCount).

(** The second node is not tested for NULL. *)
Definition Esys_GetCommandAuditDigest_Async (privacyHandle signHandle shandle1 shandle2 shandle3 : Z)
    (qualifyingData : option TPM2B) (inScheme : option TPMT_SIG_SCHEME) : EM unit :=
  esys_begin shandle1 shandle2 shandle3 1 ;!
  let! nodes := get_objects [privacyHandle; signHandle] in
  prepare_with (fun hs => Tss2_Sys_GetCommandAuditDigest_Prepare (nth 0 hs 0) (nth 1 hs 0) qualifyingData inScheme) nodes ;!
  esys_transmit shandle1 shandle2 shandle3
    (session_value 0 (nth 0 nodes None) ;!
     session_value_deref 1 (nth 1 nodes None) ;!
     session_value 2 None)
    (first_objects 3 nodes) (ret tt).

Definition Esys_GetRandom_Async (shandle1 shandle2 shandle3 bytesRequested : Z) : EM unit :=
  esys_async [] 0 shandle1 shandle2 shandle3 0 (ret tt) (fun _ => Tss2_Sys_GetRandom_Prepare
    bytesRequested).

(** The second node is not tested for NULL. *)
Definition Esys_GetSessionAuditDigest_Async (privacyAdminHandle signHandle sessionHandle shandle1 shandle2 shandle3 : Z)
    (qualifyingData : option TPM2B) (inScheme : option TPMT_SIG_SCHEME) : EM unit :=
  esys_begin shandle1 shandle2 shandle3 1 ;!
  let! nodes := get_objects [privacyAdminHandle; signHandle; sessionHandle] in
  prepare_with (fun hs => Tss2_Sys_GetSessionAuditDigest_Prepare (nth 0 hs 0) (nth 1 hs 0) (nth 2 hs 0) qualifyingData inScheme) nodes ;!
  esys_transmit shandle1 shandle2 shandle3
    (session_value 0 (nth 0 nodes None) ;!
     session_value_deref 1 (nth 1 nodes None) ;!
     session_value 2 None)
    (first_objects 3 nodes) (ret tt).

Definition Esys_GetTestResult_Async (shandle1 shandle2 shandle3 : Z) : EM unit :=
  esys_async [] 0 shandle1 shandle2 shandle3 0 (ret tt) (fun _ => Tss2_Sys_GetTestResult_Prepare).

(** The second node is not tested for NULL. *)
Definition Esys_GetTime_Async (privacyAdminHandle signHandle shandle1 shandle2 shandle3 : Z)
    (qualifyingData : option TPM2B) (inScheme : option TPMT_SIG_SCHEME) : EM unit :=
  esys_begin shandle1 shandle2 shandle3 1 ;!
  let! nodes := get_objects [privacyAdminHandle; signHandle] in
  prepare_with (fun hs => Tss2_Sys_GetTime_Prepare (nth 0 hs 0) (nth 1 hs 0) qualifyingData inScheme) nodes ;!
  esys_transmit shandle1 shandle2 shandle3
    (session_value 0 (nth 0 nodes None) ;!
     session_value_deref 1 (nth 1 nodes None) ;!
     session_value 2 None)
    (first_objects 3 nodes) (ret tt).

Definition Esys_HMAC_Async (handle shandle1 shandle2 shandle3 : Z) (buffer : option TPM2B)
    (hashAlg : Z) : EM unit :=
  esys_async [handle] 1 shandle1 shandle2 shandle3 1 (ret tt) (fun hs => Tss2_Sys_HMAC_Prepare
    (nth 0 hs 0) buffer hashAlg).

Definition Esys_HMAC_Start_Async (handle shandle1 shandle2 shandle3 : Z) (auth : option TPM2B)
    (hashAlg : Z) : EM unit :=
  esys_async [handle] 1 shandle1 shandle2 shandle3 1 (store (fun _ => In_HMAC_Start (auth_or_zero
    auth))) (fun hs => Tss2_Sys_HMAC_Start_Prepare (nth 0 hs 0) auth hashAlg).

Definition Esys_Hash_Async (shandle1 shandle2 shandle3 : Z) (data : option TPM2B) (hashAlg
    hierarchy : Z) : EM unit :=
  let! tpm_hierarchy := hierarchy_handle hierarchy in
  esys_async [] 0 shandle1 shandle2 shandle3 0 (ret tt) (fun _ => Tss2_Sys_Hash_Prepare data
    hashAlg tpm_hierarchy).

Definition Esys_HashSequenceStart_Async (shandle1 shandle2 shandle3 : Z) (auth : option TPM2B)
    (hashAlg : Z) : EM unit :=
  esys_async [] 0 shandle1 shandle2 shandle3 0 (ret tt) (fun _ =>
    Tss2_Sys_HashSequenceStart_Prepare auth hashAlg).

Definition Esys_HierarchyChangeAuth_Async (authHandle shandle1 shandle2 shandle3 : Z)
    (newAuth : option TPM2B) : EM unit :=
  esys_async_with [authHandle] 1 shandle1 shandle2 shandle3 1
    (store_HierarchyChangeAuth authHandle newAuth ;!
     let! (h, a) := stored in_HierarchyChangeAuth in
     let! a := lift (iesys_strip_trailing_zeros a) in
     store (fun _ => In_HierarchyChangeAuth h a))
    (fun nodes =>
      let! (_, newAuth) := stored in_HierarchyChangeAuth in
      prepare_with (fun hs => Tss2_Sys_HierarchyChangeAuth_Prepare (nth 0 hs 0) (Some newAuth)) nodes).

Definition Esys_HierarchyControl_Async (authHandle shandle1 shandle2 shandle3 enable state : Z)
    : EM unit :=
  let! tpm_enable := hierarchy_handle enable in
  esys_async [authHandle] 1 shandle1 shandle2 shandle3 1 (ret tt) (fun hs =>
    Tss2_Sys_HierarchyControl_Prepare (nth 0 hs 0) tpm_enable state).

Definition Esys_Import_Async (parentHandle shandle1 shandle2 shandle3 : Z)
    (encryptionKey : option TPM2B) (objectPublic : option (TPM2B_SUB TPMT_PUBLIC)) (duplicate
    inSymSeed : option TPM2B) (symmetricAlg : option TPMT_SYM_DEF_OBJECT) : EM unit :=
  esys_async [parentHandle] 1 shandle1 shandle2 shandle3 1 (ret tt) (fun hs =>
    Tss2_Sys_Import_Prepare (nth 0 hs 0) encryptionKey objectPublic duplicate inSymSeed
    symmetricAlg).

Definition Esys_IncrementalSelfTest_Async (shandle1 shandle2 shandle3 : Z)
    (toTest : option (TPML Z)) : EM unit :=
  esys_async [] 0 shandle1 shandle2 shandle3 0 (ret tt) (fun _ =>
    Tss2_Sys_IncrementalSelfTest_Prepare toTest).

Definition Esys_Load_Async (parentHandle shandle1 shandle2 shandle3 : Z)
    (inPrivate : option TPM2B) (inPublic : option (TPM2B_SUB TPMT_PUBLIC)) : EM unit :=
  esys_async [parentHandle] 1 shandle1 shandle2 shandle3 1 (store (fun _ => In_Load inPublic))
    (fun hs => Tss2_Sys_Load_Prepare (nth 0 hs 0) inPrivate inPublic).

Definition Esys_LoadExternal_Async (shandle1 shandle2 shandle3 : Z)
    (inPrivate : option (TPM2B_SUB TPMT_SENSITIVE)) (inPublic : option (TPM2B_SUB TPMT_PUBLIC))
    (hierarchy : Z) : EM unit :=
  let! tpm_hierarchy := hierarchy_handle hierarchy in
  esys_async [] 0 shandle1 shandle2 shandle3 0 (store (fun _ => In_LoadExternal inPublic))
    (fun _ => Tss2_Sys_LoadExternal_Prepare inPrivate inPublic tpm_hierarchy).

Definition Esys_MAC_Async (handle handleSession1 optionalSession2 optionalSession3 : Z)
    (buffer : option TPM2B) (inScheme : Z) : EM unit :=
  esys_async [handle] 1 handleSession1 optionalSession2 optionalSession3 1 (ret tt) (fun hs =>
    Tss2_Sys_MAC_Prepare (nth 0 hs 0) buffer inScheme).

Definition Esys_MAC_Start_Async (handle handleSession1 optionalSession2 optionalSession3 : Z)
    (auth : option TPM2B) (inScheme : Z) : EM unit :=
  esys_async [handle] 1 handleSession1 optionalSession2 optionalSession3 1 (store (fun _ =>
    In_MAC_Start (auth_or_zero auth))) (fun hs => Tss2_Sys_MAC_Start_Prepare (nth 0 hs 0) auth
    inScheme).

Definition Esys_MakeCredential_Async (handle shandle1 shandle2 shandle3 : Z) (credential
    objectName : option TPM2B) : EM unit :=
  esys_async [handle] 0 shandle1 shandle2 shandle3 0 (ret tt) (fun hs =>
    Tss2_Sys_MakeCredential_Prepare (nth 0 hs 0) credential objectName).

Definition Esys_NV_Certify_Async (signHandle authHandle nvIndex shandle1 shandle2 shandle3 : Z)
    (qualifyingData : option TPM2B) (inScheme : option TPMT_SIG_SCHEME) (size offset : Z)
    : EM unit :=
  esys_async [signHandle; authHandle; nvIndex] 2 shandle1 shandle2 shandle3 1 (ret tt) (fun hs =>
    Tss2_Sys_NV_Certify_Prepare (nth 0 hs 0) (nth 1 hs 0) (nth 2 hs 0) qualifyingData inScheme
    size offset).

(** [authCopy] points to [in.HierarchyChangeAuth.newAuth], which is in the same
    place as [in.NV.authData]; the command is sent with [newAuth] itself. *)
Definition Esys_NV_ChangeAuth_Async (nvIndex shandle1 shandle2 shandle3 : Z)
    (newAuth : option TPM2B) : EM unit :=
  esys_async_with [nvIndex] 1 shandle1 shandle2 shandle3 1 (store_NV_ChangeAuth nvIndex newAuth)
    (fun nodes =>
      match nth 0 nodes None with
      | None => modify (set_state ESYS_STATE_INIT) ;! fail TSS2_FAPI_RC_BAD_VALUE
      | Some p =>
          let! n := node_at p in
          let! pub := lift (rsrc_nv_pub (misc (rsrc n))) in
          let! authCopy := stored in_NV_authData in
          let! a := return_state (crypto (iesys_adapt_auth_value authCopy
            (TPMS_NV_PUBLIC_nameAlg (smember pub)))) ESYS_STATE_INIT in
          store (set_NV_authData a) ;!
          return_state (sys_m (Tss2_Sys_NV_ChangeAuth_Prepare (handle (rsrc n)) newAuth)) ESYS_STATE_INIT
      end).

Definition deletes_without_policy (publicInfo : option (TPM2B_SUB TPMS_NV_PUBLIC)) : bool :=
  match publicInfo with
  | None => false
  | Some p =>
      negb (Z.land (TPMS_NV_PUBLIC_attributes (smember p)) TPMA_NV_POLICY_DELETE =? 0)
      && (size (TPMS_NV_PUBLIC_authPolicy (smember p)) =? 0)
  end.

Definition Esys_NV_DefineSpace_Async (authHandle shandle1 shandle2 shandle3 : Z)
    (auth : option TPM2B) (publicInfo : option (TPM2B_SUB TPMS_NV_PUBLIC)) : EM unit :=
  iesys_check_sequence_async ;!
  modify (set_state ESYS_STATE_INTERNALERROR) ;!
  if deletes_without_policy publicInfo
  then modify (set_state ESYS_STATE_INIT) ;! fail TSS2_ESYS_RC_BAD_VALUE
  else
    esys_feasible shandle1 shandle2 shandle3 1 ;!
    esys_command [authHandle] 1 shandle1 shandle2 shandle3
      (store_NV_DefineSpace auth publicInfo ;!
       match publicInfo with
       | None => ret tt
       | Some p =>
           let! authData := stored in_NV_authData in
           let! a := return_state (crypto (iesys_adapt_auth_value authData
             (TPMS_NV_PUBLIC_nameAlg (smember p)))) ESYS_STATE_INIT in
           store (set_NV_authData a)
       end)
      (fun nodes =>
        let! authData := stored in_NV_authData in
        prepare_with (fun hs => Tss2_Sys_NV_DefineSpace_Prepare (nth 0 hs 0) (Some authData)
          publicInfo) nodes).

Definition Esys_NV_Extend_Async (authHandle nvIndex shandle1 shandle2 shandle3 : Z)
    (data : option TPM2B) : EM unit :=
  esys_async [authHandle; nvIndex] 1 shandle1 shandle2 shandle3 1 (store_nvIndex nvIndex)
    (fun hs => Tss2_Sys_NV_Extend_Prepare (nth 0 hs 0) (nth 1 hs 0) data).

Definition Esys_NV_GlobalWriteLock_Async (authHandle shandle1 shandle2 shandle3 : Z) : EM unit :=
  esys_async [authHandle] 1 shandle1 shandle2 shandle3 1 (ret tt) (fun hs =>
    Tss2_Sys_NV_GlobalWriteLock_Prepare (nth 0 hs 0)).

Definition Esys_NV_Increment_Async (authHandle nvIndex shandle1 shandle2 shandle3 : Z)
    : EM unit :=
  esys_async [authHandle; nvIndex] 1 shandle1 shandle2 shandle3 1 (store_nvIndex nvIndex)
    (fun hs => Tss2_Sys_NV_Increment_Prepare (nth 0 hs 0) (nth 1 hs 0)).

Definition Esys_NV_Read_Async (authHandle nvIndex shandle1 shandle2 shandle3 size offset : Z)
    : EM unit :=
  esys_async [authHandle; nvIndex] 1 shandle1 shandle2 shandle3 1 (ret tt) (fun hs =>
    Tss2_Sys_NV_Read_Prepare (nth 0 hs 0) (nth 1 hs 0) size offset).

Definition Esys_NV_ReadLock_Async (authHandle nvIndex shandle1 shandle2 shandle3 : Z) : EM unit :=
  esys_async [authHandle; nvIndex] 1 shandle1 shandle2 shandle3 1 (store_nvIndex nvIndex)
    (fun hs => Tss2_Sys_NV_ReadLock_Prepare (nth 0 hs 0) (nth 1 hs 0)).

Definition Esys_NV_ReadPublic_Async (nvIndex shandle1 shandle2 shandle3 : Z) : EM unit :=
  esys_async [nvIndex] 0 shandle1 shandle2 shandle3 0 (store_nvIndex nvIndex) (fun hs =>
    Tss2_Sys_NV_ReadPublic_Prepare (nth 0 hs 0)).

Definition Esys_NV_SetBits_Async (authHandle nvIndex shandle1 shandle2 shandle3 bits : Z)
    : EM unit :=
  esys_async [authHandle; nvIndex] 1 shandle1 shandle2 shandle3 1 (store_nvIndex nvIndex)
    (fun hs => Tss2_Sys_NV_SetBits_Prepare (nth 0 hs 0) (nth 1 hs 0) bits).

Definition Esys_NV_UndefineSpace_Async (authHandle nvIndex shandle1 shandle2 shandle3 : Z)
    : EM unit :=
  esys_async [authHandle; nvIndex] 1 shandle1 shandle2 shandle3 1 (store_nvIndex nvIndex)
    (fun hs => Tss2_Sys_NV_UndefineSpace_Prepare (nth 0 hs 0) (nth 1 hs 0)).

Definition Esys_NV_UndefineSpaceSpecial_Async (nvIndex platform shandle1 shandle2 shandle3 : Z)
    : EM unit :=
  esys_async [nvIndex; platform] 2 shandle1 shandle2 shandle3 1 (store_nvIndex nvIndex) (fun hs =>
    Tss2_Sys_NV_UndefineSpaceSpecial_Prepare (nth 0 hs 0) (nth 1 hs 0)).

Definition Esys_NV_Write_Async (authHandle nvIndex shandle1 shandle2 shandle3 : Z)
    (data : option TPM2B) (offset : Z) : EM unit :=
  esys_async [authHandle; nvIndex] 1 shandle1 shandle2 shandle3 1 (store_nvIndex nvIndex)
    (fun hs => Tss2_Sys_NV_Write_Prepare (nth 0 hs 0) (nth 1 hs 0) data offset).

Definition Esys_NV_WriteLock_Async (authHandle nvIndex shandle1 shandle2 shandle3 : Z)
    : EM unit :=
  esys_async [authHandle; nvIndex] 1 shandle1 shandle2 shandle3 1 (store_nvIndex nvIndex)
    (fun hs => Tss2_Sys_NV_WriteLock_Prepare (nth 0 hs 0) (nth 1 hs 0)).

(** The object is tested for NULL before its parent is looked up. *)
Definition Esys_ObjectChangeAuth_Async (objectHandle parentHandle shandle1 shandle2 shandle3 : Z)
    (newAuth : option TPM2B) : EM unit :=
  esys_begin shandle1 shandle2 shandle3 1 ;!
  let! objectHandleNode := return_state (esys_GetResourceObject objectHandle) ESYS_STATE_INIT in
  match objectHandleNode with
  | None => modify (set_state ESYS_STATE_INIT) ;! fail TSS2_FAPI_RC_BAD_VALUE
  | Some p =>
      let! parentHandleNode := return_state (esys_GetResourceObject parentHandle) ESYS_STATE_INIT in
      let! n := node_at p in
      let! hashAlg :=
        (if rsrcType (rsrc n) =? IESYSC_KEY_RSRC then
           let! pub := lift (rsrc_key_pub (misc (rsrc n))) in
           ret (TPMT_PUBLIC_nameAlg (smember pub))
         else ret 0) in
      let! authCopy := return_state (crypto (iesys_adapt_auth_value (auth_or_zero newAuth) hashAlg))
        ESYS_STATE_INIT in
      let! parent := node_handle parentHandleNode in
      return_state (sys_m (Tss2_Sys_ObjectChangeAuth_Prepare (handle (rsrc n)) parent (Some authCopy)))
        ESYS_STATE_INIT ;!
      esys_send shandle1 shandle2 shandle3 (Some p, None, None) (Some p, parentHandleNode, None)
  end.

Definition Esys_PCR_Allocate_Async (authHandle shandle1 shandle2 shandle3 : Z)
    (pcrAllocation : option (TPML TPMS_PCR_SELECTION)) : EM unit :=
  esys_async [authHandle] 1 shandle1 shandle2 shandle3 1 (ret tt) (fun hs =>
    Tss2_Sys_PCR_Allocate_Prepare (nth 0 hs 0) pcrAllocation).

Definition Esys_PCR_Event_Async (pcrHandle shandle1 shandle2 shandle3 : Z)
    (eventData : option TPM2B) : EM unit :=
  esys_async [pcrHandle] 1 shandle1 shandle2 shandle3 1 (ret tt) (fun hs =>
    Tss2_Sys_PCR_Event_Prepare (nth 0 hs 0) eventData).

Definition Esys_PCR_Extend_Async (pcrHandle shandle1 shandle2 shandle3 : Z)
    (digests : option (TPML TPMT_HA)) : EM unit :=
  esys_async [pcrHandle] 1 shandle1 shandle2 shandle3 1 (ret tt) (fun hs =>
    Tss2_Sys_PCR_Extend_Prepare (nth 0 hs 0) digests).

Definition Esys_PCR_Read_Async (shandle1 shandle2 shandle3 : Z)
    (pcrSelectionIn : option (TPML TPMS_PCR_SELECTION)) : EM unit :=
  esys_async [] 0 shandle1 shandle2 shandle3 0 (ret tt) (fun _ => Tss2_Sys_PCR_Read_Prepare
    pcrSelectionIn).

Definition Esys_PCR_Reset_Async (pcrHandle shandle1 shandle2 shandle3 : Z) : EM unit :=
  esys_async [pcrHandle] 1 shandle1 shandle2 shandle3 1 (ret tt) (fun hs =>
    Tss2_Sys_PCR_Reset_Prepare (nth 0 hs 0)).

Definition Esys_PCR_SetAuthPolicy_Async (authHandle shandle1 shandle2 shandle3 : Z)
    (authPolicy : option TPM2B) (hashAlg pcrNum : Z) : EM unit :=
  esys_async [authHandle] 1 shandle1 shandle2 shandle3 1 (ret tt) (fun hs =>
    Tss2_Sys_PCR_SetAuthPolicy_Prepare (nth 0 hs 0) authPolicy hashAlg pcrNum).

Definition Esys_PCR_SetAuthValue_Async (pcrHandle shandle1 shandle2 shandle3 : Z)
    (auth : option TPM2B) : EM unit :=
  esys_async [pcrHandle] 1 shandle1 shandle2 shandle3 1 (store (fun _ => In_PCR pcrHandle
    (auth_or_zero auth))) (fun hs => Tss2_Sys_PCR_SetAuthValue_Prepare (nth 0 hs 0) auth).

Definition Esys_PP_Commands_Async (auth shandle1 shandle2 shandle3 : Z) (setList clearList :
    option (TPML Z)) : EM unit :=
  esys_async [auth] 1 shandle1 shandle2 shandle3 1 (ret tt) (fun hs =>
    Tss2_Sys_PP_Commands_Prepare (nth 0 hs 0) setList clearList).

Definition Esys_PolicyAuthValue_Async (policySession shandle1 shandle2 shandle3 : Z) : EM unit :=
  esys_async [policySession] 0 shandle1 shandle2 shandle3 0 (store (fun _ => In_Policy
    policySession)) (fun hs => Tss2_Sys_PolicyAuthValue_Prepare (nth 0 hs 0)).

Definition Esys_PolicyAuthorize_Async (policySession shandle1 shandle2 shandle3 : Z)
    (approvedPolicy policyRef keySign : option TPM2B) (checkTicket : option TPMT_TK_VERIFIED)
    : EM unit :=
  esys_async [policySession] 0 shandle1 shandle2 shandle3 0 (ret tt) (fun hs =>
    Tss2_Sys_PolicyAuthorize_Prepare (nth 0 hs 0) approvedPolicy policyRef keySign checkTicket).

Definition Esys_PolicyAuthorizeNV_Async (authHandle nvIndex policySession shandle1 shandle2
    shandle3 : Z) : EM unit :=
  esys_async [authHandle; nvIndex; policySession] 1 shandle1 shandle2 shandle3 1 (ret tt)
    (fun hs => Tss2_Sys_PolicyAuthorizeNV_Prepare (nth 0 hs 0) (nth 1 hs 0) (nth 2 hs 0)).

Definition Esys_PolicyCommandCode_Async (policySession shandle1 shandle2 shandle3 code : Z)
    : EM unit :=
  esys_async [policySession] 0 shandle1 shandle2 shandle3 0 (ret tt) (fun hs =>
    Tss2_Sys_PolicyCommandCode_Prepare (nth 0 hs 0) code).

Definition Esys_PolicyCounterTimer_Async (policySession shandle1 shandle2 shandle3 : Z)
    (operandB : option TPM2B) (offset operation : Z) : EM unit :=
  esys_async [policySession] 0 shandle1 shandle2 shandle3 0 (ret tt) (fun hs =>
    Tss2_Sys_PolicyCounterTimer_Prepare (nth 0 hs 0) operandB offset operation).

Definition Esys_PolicyCpHash_Async (policySession shandle1 shandle2 shandle3 : Z)
    (cpHashA : option TPM2B) : EM unit :=
  esys_async [policySession] 0 shandle1 shandle2 shandle3 0 (ret tt) (fun hs =>
    Tss2_Sys_PolicyCpHash_Prepare (nth 0 hs 0) cpHashA).

Definition Esys_PolicyDuplicationSelect_Async (policySession shandle1 shandle2 shandle3 : Z)
    (objectName newParentName : option TPM2B) (includeObject : Z) : EM unit :=
  esys_async [policySession] 0 shandle1 shandle2 shandle3 0 (ret tt) (fun hs =>
    Tss2_Sys_PolicyDuplicationSelect_Prepare (nth 0 hs 0) objectName newParentName includeObject).

Definition Esys_PolicyGetDigest_Async (policySession shandle1 shandle2 shandle3 : Z) : EM unit :=
  esys_async [policySession] 0 shandle1 shandle2 shandle3 0 (ret tt) (fun hs =>
    Tss2_Sys_PolicyGetDigest_Prepare (nth 0 hs 0)).

Definition Esys_PolicyLocality_Async (policySession shandle1 shandle2 shandle3 locality : Z)
    : EM unit :=
  esys_async [policySession] 0 shandle1 shandle2 shandle3 0 (ret tt) (fun hs =>
    Tss2_Sys_PolicyLocality_Prepare (nth 0 hs 0) locality).

Definition Esys_PolicyNV_Async (authHandle nvIndex policySession shandle1 shandle2 shandle3 : Z)
    (operandB : option TPM2B) (offset operation : Z) : EM unit :=
  esys_async [authHandle; nvIndex; policySession] 1 shandle1 shandle2 shandle3 1 (ret tt)
    (fun hs => Tss2_Sys_PolicyNV_Prepare (nth 0 hs 0) (nth 1 hs 0) (nth 2 hs 0) operandB offset
    operation).

Definition Esys_PolicyNameHash_Async (policySession shandle1 shandle2 shandle3 : Z)
    (nameHash : option TPM2B) : EM unit :=
  esys_async [policySession] 0 shandle1 shandle2 shandle3 0 (ret tt) (fun hs =>
    Tss2_Sys_PolicyNameHash_Prepare (nth 0 hs 0) nameHash).

Definition Esys_PolicyNvWritten_Async (policySession shandle1 shandle2 shandle3 writtenSet : Z)
    : EM unit :=
  esys_async [policySession] 0 shandle1 shandle2 shandle3 0 (ret tt) (fun hs =>
    Tss2_Sys_PolicyNvWritten_Prepare (nth 0 hs 0) writtenSet).

Definition Esys_PolicyOR_Async (policySession shandle1 shandle2 shandle3 : Z)
    (pHashList : option (TPML TPM2B)) : EM unit :=
  esys_async [policySession] 0 shandle1 shandle2 shandle3 0 (ret tt) (fun hs =>
    Tss2_Sys_PolicyOR_Prepare (nth 0 hs 0) pHashList).

Definition Esys_PolicyPCR_Async (policySession shandle1 shandle2 shandle3 : Z)
    (pcrDigest : option TPM2B) (pcrs : option (TPML TPMS_PCR_SELECTION)) : EM unit :=
  esys_async [policySession] 0 shandle1 shandle2 shandle3 0 (ret tt) (fun hs =>
    Tss2_Sys_PolicyPCR_Prepare (nth 0 hs 0) pcrDigest pcrs).

Definition Esys_PolicyPassword_Async (policySession shandle1 shandle2 shandle3 : Z) : EM unit :=
  esys_async [policySession] 0 shandle1 shandle2 shandle3 0 (store (fun _ => In_Policy
    policySession)) (fun hs => Tss2_Sys_PolicyPassword_Prepare (nth 0 hs 0)).

Definition Esys_PolicyPhysicalPresence_Async (policySession shandle1 shandle2 shandle3 : Z)
    : EM unit :=
  esys_async [policySession] 0 shandle1 shandle2 shandle3 0 (ret tt) (fun hs =>
    Tss2_Sys_PolicyPhysicalPresence_Prepare (nth 0 hs 0)).

Definition Esys_PolicyRestart_Async (sessionHandle shandle1 shandle2 shandle3 : Z) : EM unit :=
  esys_async [sessionHandle] 0 shandle1 shandle2 shandle3 0 (ret tt) (fun hs =>
    Tss2_Sys_PolicyRestart_Prepare (nth 0 hs 0)).

Definition Esys_PolicySecret_Async (authHandle policySession shandle1 shandle2 shandle3 : Z)
    (nonceTPM cpHashA policyRef : option TPM2B) (expiration : Z) : EM unit :=
  esys_async [authHandle; policySession] 1 shandle1 shandle2 shandle3 1 (ret tt) (fun hs =>
    Tss2_Sys_PolicySecret_Prepare (nth 0 hs 0) (nth 1 hs 0) nonceTPM cpHashA policyRef expiration).

Definition Esys_PolicySigned_Async (authObject policySession shandle1 shandle2 shandle3 : Z)
    (nonceTPM cpHashA policyRef : option TPM2B) (expiration : Z) (auth : option TPMT_SIGNATURE)
    : EM unit :=
  esys_async [authObject; policySession] 0 shandle1 shandle2 shandle3 0 (ret tt) (fun hs =>
    Tss2_Sys_PolicySigned_Prepare (nth 0 hs 0) (nth 1 hs 0) nonceTPM cpHashA policyRef expiration
    auth).

Definition Esys_PolicyTemplate_Async (policySession shandle1 shandle2 shandle3 : Z)
    (templateHash : option TPM2B) : EM unit :=
  esys_async [policySession] 0 shandle1 shandle2 shandle3 0 (ret tt) (fun hs =>
    Tss2_Sys_PolicyTemplate_Prepare (nth 0 hs 0) templateHash).

Definition Esys_PolicyTicket_Async (policySession shandle1 shandle2 shandle3 : Z) (timeout cpHashA
    policyRef authName : option TPM2B) (ticket : option TPMT_TK_AUTH) : EM unit :=
  esys_async [policySession] 0 shandle1 shandle2 shandle3 0 (ret tt) (fun hs =>
    Tss2_Sys_PolicyTicket_Prepare (nth 0 hs 0) timeout cpHashA policyRef authName ticket).

Definition Esys_Policy_AC_SendSelect_Async (policySession1 optionalSession2 optionalSession3 : Z)
    (objectName authHandleName acName : option TPM2B) (includeObject : Z) : EM unit :=
  esys_async [policySession1] 0 policySession1 optionalSession2 optionalSession3 0 (ret tt)
    (fun hs => Tss2_Sys_Policy_AC_SendSelect_Prepare (nth 0 hs 0) objectName authHandleName acName
      includeObject).

Definition Esys_Quote_Async (signHandle shandle1 shandle2 shandle3 : Z)
    (qualifyingData : option TPM2B) (inScheme : option TPMT_SIG_SCHEME)
    (PCRselect : option (TPML TPMS_PCR_SELECTION)) : EM unit :=
  esys_async [signHandle] 1 shandle1 shandle2 shandle3 1 (ret tt) (fun hs =>
    Tss2_Sys_Quote_Prepare (nth 0 hs 0) qualifyingData inScheme PCRselect).

Definition Esys_RSA_Decrypt_Async (keyHandle shandle1 shandle2 shandle3 : Z)
    (cipherText : option TPM2B) (inScheme : option TPMT_RSA_DECRYPT) (label : option TPM2B)
    : EM unit :=
  esys_async [keyHandle] 1 shandle1 shandle2 shandle3 1 (ret tt) (fun hs =>
    Tss2_Sys_RSA_Decrypt_Prepare (nth 0 hs 0) cipherText inScheme label).

Definition Esys_RSA_Encrypt_Async (keyHandle shandle1 shandle2 shandle3 : Z)
    (message : option TPM2B) (inScheme : option TPMT_RSA_DECRYPT) (label : option TPM2B)
    : EM unit :=
  esys_async [keyHandle] 0 shandle1 shandle2 shandle3 0 (ret tt) (fun hs =>
    Tss2_Sys_RSA_Encrypt_Prepare (nth 0 hs 0) message inScheme label).

Definition Esys_ReadClock_Async (shandle1 shandle2 shandle3 : Z) : EM unit :=
  esys_async [] 0 shandle1 shandle2 shandle3 0 (ret tt) (fun _ => Tss2_Sys_ReadClock_Prepare).

Definition Esys_ReadPublic_Async (objectHandle shandle1 shandle2 shandle3 : Z) : EM unit :=
  esys_async [objectHandle] 0 shandle1 shandle2 shandle3 0 (ret tt) (fun hs =>
    Tss2_Sys_ReadPublic_Prepare (nth 0 hs 0)).

Definition Esys_Rewrap_Async (oldParent newParent shandle1 shandle2 shandle3 : Z) (inDuplicate
    name inSymSeed : option TPM2B) : EM unit :=
  esys_async [oldParent; newParent] 1 shandle1 shandle2 shandle3 1 (ret tt) (fun hs =>
    Tss2_Sys_Rewrap_Prepare (nth 0 hs 0) (nth 1 hs 0) inDuplicate name inSymSeed).

Definition Esys_SelfTest_Async (shandle1 shandle2 shandle3 fullTest : Z) : EM unit :=
  esys_async [] 0 shandle1 shandle2 shandle3 0 (ret tt) (fun _ => Tss2_Sys_SelfTest_Prepare
    fullTest).

Definition Esys_SequenceComplete_Async (sequenceHandle shandle1 shandle2 shandle3 : Z)
    (buffer : option TPM2B) (hierarchy : Z) : EM unit :=
  let! tpm_hierarchy := hierarchy_handle hierarchy in
  esys_async [sequenceHandle] 1 shandle1 shandle2 shandle3 1 (store (fun _ => In_SequenceComplete
    sequenceHandle)) (fun hs => Tss2_Sys_SequenceComplete_Prepare (nth 0 hs 0) buffer
    tpm_hierarchy).

Definition Esys_SequenceUpdate_Async (sequenceHandle shandle1 shandle2 shandle3 : Z)
    (buffer : option TPM2B) : EM unit :=
  esys_async [sequenceHandle] 1 shandle1 shandle2 shandle3 1 (ret tt) (fun hs =>
    Tss2_Sys_SequenceUpdate_Prepare (nth 0 hs 0) buffer).

Definition Esys_SetAlgorithmSet_Async (authHandle shandle1 shandle2 shandle3 algorithmSet : Z)
    : EM unit :=
  esys_async [authHandle] 1 shandle1 shandle2 shandle3 1 (ret tt) (fun hs =>
    Tss2_Sys_SetAlgorithmSet_Prepare (nth 0 hs 0) algorithmSet).

Definition Esys_SetCommandCodeAuditStatus_Async (auth shandle1 shandle2 shandle3 auditAlg : Z)
    (setList clearList : option (TPML Z)) : EM unit :=
  esys_async [auth] 1 shandle1 shandle2 shandle3 1 (ret tt) (fun hs =>
    Tss2_Sys_SetCommandCodeAuditStatus_Prepare (nth 0 hs 0) auditAlg setList clearList).

Definition Esys_SetPrimaryPolicy_Async (authHandle shandle1 shandle2 shandle3 : Z)
    (authPolicy : option TPM2B) (hashAlg : Z) : EM unit :=
  esys_async [authHandle] 1 shandle1 shandle2 shandle3 1 (ret tt) (fun hs =>
    Tss2_Sys_SetPrimaryPolicy_Prepare (nth 0 hs 0) authPolicy hashAlg).

Definition Esys_Shutdown_Async (shandle1 shandle2 shandle3 shutdownType : Z) : EM unit :=
  esys_async [] 0 shandle1 shandle2 shandle3 0 (ret tt) (fun _ => Tss2_Sys_Shutdown_Prepare
    shutdownType).

Definition Esys_Sign_Async (keyHandle shandle1 shandle2 shandle3 : Z) (digest : option TPM2B)
    (inScheme : option TPMT_SIG_SCHEME) (validation : option TPMT_TK_HASHCHECK) : EM unit :=
  esys_async [keyHandle] 1 shandle1 shandle2 shandle3 1 (ret tt) (fun hs => Tss2_Sys_Sign_Prepare
    (nth 0 hs 0) digest inScheme validation).

Definition Esys_SignDigest_Async (keyHandle shandle1 shandle2 shandle3 : Z)
    (digest : option TPM2B) (inScheme : option TPMT_SIG_SCHEME)
    (validation : option TPMT_TK_HASHCHECK) : EM unit :=
  esys_async [keyHandle] 0 shandle1 shandle2 shandle3 0 (ret tt) (fun hs =>
    Tss2_Sys_SignDigest_Prepare (nth 0 hs 0) digest inScheme validation).

Definition Esys_SignSequenceComplete_Async (sequenceHandle shandle1 shandle2 shandle3 : Z)
    (buffer : option TPM2B) : EM unit :=
  esys_async [sequenceHandle] 0 shandle1 shandle2 shandle3 0 (ret tt) (fun hs =>
    Tss2_Sys_SignSequenceComplete_Prepare (nth 0 hs 0) buffer).

Definition Esys_SignSequenceStart_Async (keyHandle shandle1 shandle2 shandle3 : Z)
    (inScheme : option TPMT_SIG_SCHEME) (keyB : Z) : EM unit :=
  esys_async [keyHandle; keyB] 0 shandle1 shandle2 shandle3 0 (ret tt) (fun hs =>
    Tss2_Sys_SignSequenceStart_Prepare (nth 0 hs 0) inScheme (nth 1 hs 0)).

(** The node [none] stands for a key or an object that is not given; its
    authorization value is never set. *)
Definition none_node : RSRC_NODE_T :=
  Node 0 (stack_2b cap_TPM2B_DIGEST)
    (Resource TPM2_RH_NULL (stack_2b cap_TPM2B_NAME) IESYSC_WITHOUT_MISC_RSRC Misc_zero) 0.

Definition with_none_node (m : nat -> EM unit) : EM unit :=
  with_stack_node none_node (fun none =>
    let! image := return_state (mu_image cap_TPM2B_NAME (Tss2_MU_TPM2_HANDLE_Marshal TPM2_RH_NULL))
      ESYS_STATE_INIT in
    let! n := node_at none in
    let! b := lift (access (mem_write (buffer (name (rsrc n))) 0 image)) in
    upd_rsrc none (set_name (MkTPM2B (Zlen image) b)) ;!
    m none).

(** The nonce of the caller, which is made when it is not given *)
Definition session_nonce (nonceCaller : option TPM2B) (authHash : Z)
    (put : option TPM2B -> IESYS_CMD_IN_PARAM) : EM TPM2B :=
  match nonceCaller with
  | Some nonce => ret nonce
  | None =>
      let! authHash_size := return_state (crypto (iesys_crypto_hash_get_digest_size authHash))
        ESYS_STATE_INIT in
      let! nonce := return_state (
        let! (r, nonce) := crypto (iesys_crypto_get_random2b (zero_2b cap_TPM2B_DIGEST) authHash_size) in
        return_if_error r ;! ret nonce) ESYS_STATE_INIT in
      store (fun _ => put (Some nonce)) ;!
      ret nonce
  end.

(** [in.StartAuthSession.nonceCallerData] is taken to be zero before the nonce
    is written into it. *)
Definition Esys_StartAuthSession_Async (tpmKey bind_ shandle1 shandle2 shandle3 : Z)
    (nonceCaller : option TPM2B) (sessionType : Z) (symmetric : option TPMT_SYM_DEF)
    (authHash : Z) : EM unit :=
  let stored_ nonce := In_StartAuthSession tpmKey bind_ sessionType authHash nonce symmetric in
  esys_begin shandle1 shandle2 shandle3 0 ;!
  store (fun _ => stored_ nonceCaller) ;!
  let! nodes := get_objects [tpmKey; bind_] in
  let tpmKeyNode := nth 0 nodes None in
  let bindNode := nth 1 nodes None in
  let! encryptedSalt := return_state
    (iesys_compute_encrypted_salt tpmKeyNode (stack_2b cap_TPM2B_ENCRYPTED_SECRET)) ESYS_STATE_INIT in
  let! nonceCaller := session_nonce nonceCaller authHash stored_ in
  prepare_with (fun hs => Tss2_Sys_StartAuthSession_Prepare (nth 0 hs 0) (nth 1 hs 0)
    (Some nonceCaller) (Some encryptedSalt) sessionType symmetric authHash) nodes ;!
  with_none_node (fun none =>
    esys_transmit shandle1 shandle2 shandle3 (session_values (None, None, None))
      (Some (default none tpmKeyNode), Some (default none bindNode), None) (ret tt)).

Definition Esys_Startup_Async (startupType : Z) : EM unit :=
  esys_async_plain [] (ret tt) (fun _ => Tss2_Sys_Startup_Prepare startupType).

Definition Esys_StirRandom_Async (shandle1 shandle2 shandle3 : Z) (inData : option TPM2B)
    : EM unit :=
  esys_async [] 0 shandle1 shandle2 shandle3 0 (ret tt) (fun _ => Tss2_Sys_StirRandom_Prepare
    inData).

Definition Esys_TestParms_Async (shandle1 shandle2 shandle3 : Z)
    (parameters : option TPMT_PUBLIC_PARMS) : EM unit :=
  esys_async [] 0 shandle1 shandle2 shandle3 0 (ret tt) (fun _ => Tss2_Sys_TestParms_Prepare
    parameters).

Definition Esys_Unseal_Async (itemHandle shandle1 shandle2 shandle3 : Z) : EM unit :=
  esys_async [itemHandle] 1 shandle1 shandle2 shandle3 1 (ret tt) (fun hs =>
    Tss2_Sys_Unseal_Prepare (nth 0 hs 0)).

Definition Esys_Vendor_TCG_Test_Async (shandle1 shandle2 shandle3 : Z) (inputData : option TPM2B)
    : EM unit :=
  esys_async [] 0 shandle1 shandle2 shandle3 0 (ret tt) (fun _ => Tss2_Sys_Vendor_TCG_Test_Prepare
    inputData).

Definition Esys_VerifyDigestSignature_Async (keyHandle shandle1 shandle2 shandle3 : Z)
    (digest : option TPM2B) (signature : option TPMT_SIGNATURE) : EM unit :=
  esys_async [keyHandle] 0 shandle1 shandle2 shandle3 0 (ret tt) (fun hs =>
    Tss2_Sys_VerifyDigestSignature_Prepare (nth 0 hs 0) digest signature).

Definition Esys_VerifySequenceComplete_Async (sequenceHandle shandle1 shandle2 shandle3 : Z)
    (buffer : option TPM2B) : EM unit :=
  esys_async [sequenceHandle] 0 shandle1 shandle2 shandle3 0 (ret tt) (fun hs =>
    Tss2_Sys_VerifySequenceComplete_Prepare (nth 0 hs 0) buffer).

Definition Esys_VerifySequenceStart_Async (keyHandle shandle1 shandle2 shandle3 : Z)
    (signature : option TPMT_SIGNATURE) : EM unit :=
  esys_async [keyHandle] 0 shandle1 shandle2 shandle3 0 (ret tt) (fun hs =>
    Tss2_Sys_VerifySequenceStart_Prepare (nth 0 hs 0) signature).

Definition Esys_VerifySignature_Async (keyHandle shandle1 shandle2 shandle3 : Z)
    (digest : option TPM2B) (signature : option TPMT_SIGNATURE) : EM unit :=
  esys_async [keyHandle] 0 shandle1 shandle2 shandle3 0 (ret tt) (fun hs =>
    Tss2_Sys_VerifySignature_Prepare (nth 0 hs 0) digest signature).

Definition Esys_ZGen_2Phase_Async (keyA shandle1 shandle2 shandle3 : Z) (inQsB inQeB :
    option (TPM2B_SUB TPMS_ECC_POINT)) (inScheme counter : Z) : EM unit :=
  esys_async [keyA] 1 shandle1 shandle2 shandle3 1 (ret tt) (fun hs =>
    Tss2_Sys_ZGen_2Phase_Prepare (nth 0 hs 0) inQsB inQeB inScheme counter).

End Asyncs.
