(* ===== verification/EsysFinishes.v ===== *)
(** * Enhanced System API: the [_Finish] functions.

    One definition for each command. A pointer to a pointer is given as whether
    it is not NULL, and the result is what the allocated object is filled with;
    a pointer to a number is given with the number it points to. The result for
    an [ESYS_TR] pointer is the handle of the new object. *)

From stdpp Require Import gmap strings.
From S2P Require Import Prelude Common MuSpec MuBase MuStruct MuTpm2b MuUnion MuPcr TpmTypes MuTypes SysCodes Sys SysCmds SysCompletes EsysBase EsysCrypto EsysCtx EsysUtil EsysMu EsysExec EsysTr EsysAsyncs.

Open Scope tss_scope.
Open Scope esys_scope.
Open Scope Z_scope.

Section Finishes.
Context {H : Host} {HM : Memory} {S U KC : Type}.
Abbreviation CTX := (ESYS_CONTEXT S U KC).
Abbreviation EM A := (M CTX A).

Definition Esys_ACT_SetTimeout_Finish : EM unit :=
  esys_finish (ret tt) (fun _ => ret tt) (fun _ => esys_complete Tss2_Sys_ACT_SetTimeout_Complete).

Definition Esys_AC_GetCapability_Finish (moreData : option Z) (capabilityData : bool) : EM
    (option Z * (option (TPML TPMS_AC_OUTPUT) * unit)) :=
  esys_finish (allocate [capabilityData]) (fun _ => ret tt) (fun _ => esys_complete
    (Tss2_Sys_AC_GetCapability_Complete moreData (wanted capabilityData (zero_tpml
    cap_TPML_AC_CAPABILITIES zero_TPMS_AC_OUTPUT)))).

Definition Esys_AC_Send_Finish (acDataOut : bool) : EM (option TPMS_AC_OUTPUT * unit) :=
  esys_finish (allocate [acDataOut]) (fun _ => ret tt) (fun _ => esys_complete
    (Tss2_Sys_AC_Send_Complete (wanted acDataOut zero_TPMS_AC_OUTPUT))).

Definition Esys_ActivateCredential_Finish (certInfo : bool) : EM (option TPM2B * unit) :=
  esys_finish (allocate [certInfo]) (fun _ => ret tt) (fun _ => esys_complete
    (Tss2_Sys_ActivateCredential_Complete (wanted certInfo (zero_2b cap_TPM2B_DIGEST)))).

Definition Esys_Certify_Finish (certifyInfo signature : bool) : EM (option TPM2B *
    (option TPMT_SIGNATURE * unit)) :=
  esys_finish (allocate [certifyInfo; signature]) (fun _ => ret tt) (fun _ => esys_complete
    (Tss2_Sys_Certify_Complete (wanted certifyInfo (zero_2b cap_TPM2B_ATTEST))
    (wanted signature zero_TPMT_SIGNATURE))).

Definition Esys_CertifyCreation_Finish (certifyInfo signature : bool) : EM (option TPM2B *
    (option TPMT_SIGNATURE * unit)) :=
  esys_finish (allocate [certifyInfo; signature]) (fun _ => ret tt) (fun _ => esys_complete
    (Tss2_Sys_CertifyCreation_Complete (wanted certifyInfo (zero_2b cap_TPM2B_ATTEST))
    (wanted signature zero_TPMT_SIGNATURE))).

Definition Esys_CertifyX509_Finish (addedToCertificate tbsDigest signature : bool) : EM
    (option TPM2B * (option TPM2B * (option TPMT_SIGNATURE * unit))) :=
  esys_finish (allocate [addedToCertificate; tbsDigest; signature]) (fun _ => ret tt)
    (fun _ => esys_complete (Tss2_Sys_CertifyX509_Complete (wanted addedToCertificate
    (zero_2b cap_TPM2B_MAX_BUFFER)) (wanted tbsDigest (zero_2b cap_TPM2B_DIGEST))
    (wanted signature zero_TPMT_SIGNATURE))).

Definition Esys_ChangeEPS_Finish : EM unit :=
  esys_finish (ret tt) (fun _ => ret tt) (fun _ => esys_complete Tss2_Sys_ChangeEPS_Complete).

Definition Esys_ChangePPS_Finish : EM unit :=
  esys_finish (ret tt) (fun _ => ret tt) (fun _ => esys_complete Tss2_Sys_ChangePPS_Complete).

Definition Esys_Clear_Finish : EM unit :=
  esys_finish (ret tt) (fun _ => ret tt) (fun _ => esys_complete Tss2_Sys_Clear_Complete).

Definition Esys_ClearControl_Finish : EM unit :=
  esys_finish (ret tt) (fun _ => ret tt) (fun _ => esys_complete Tss2_Sys_ClearControl_Complete).

Definition Esys_ClockRateAdjust_Finish : EM unit :=
  esys_finish (ret tt) (fun _ => ret tt) (fun _ => esys_complete
    Tss2_Sys_ClockRateAdjust_Complete).

Definition Esys_ClockSet_Finish : EM unit :=
  esys_finish (ret tt) (fun _ => ret tt) (fun _ => esys_complete Tss2_Sys_ClockSet_Complete).

Definition Esys_Commit_Finish (K L E : bool) (counter : option Z) : EM
    (option (TPM2B_SUB TPMS_ECC_POINT) * (option (TPM2B_SUB TPMS_ECC_POINT) *
    (option (TPM2B_SUB TPMS_ECC_POINT) * (option Z * unit)))) :=
  esys_finish (allocate [K; L; E]) (fun _ => ret tt) (fun _ => esys_complete
    (Tss2_Sys_Commit_Complete (wanted K (MkTPM2B_SUB 0 zero_TPMS_ECC_POINT)) (wanted L
    (MkTPM2B_SUB 0 zero_TPMS_ECC_POINT)) (wanted E (MkTPM2B_SUB 0 zero_TPMS_ECC_POINT)) counter)).

(** The blob is read with the size of another structure. *)
Definition Esys_ContextLoad_Finish (loadedHandle : bool) : EM Z :=
  esys_finish_with
    (let! new := new_object loadedHandle in
     on_error (
       let! context := stored in_ContextLoad in
       match context with
       | None => undef
       | Some context =>
           let! d := context_data (TPMS_CONTEXT_contextBlob context) sizeof_IESYS_CONTEXT_DATA in
           upd_rsrc new.2 (fun _ => metadata_data (esysMetadata d))
       end) (then_return (close_new new)) ;!
     ret new)
    esys_receive (fun new => then_return (close_new new))
    (fun new => completed (
      let '(h, p) := new in
      let! n := node_at p in
      let! (tpm, _) := esys_complete (Tss2_Sys_ContextLoad_Complete (Some (handle (rsrc n)))) in
      upd_rsrc p (set_handle (default 0 tpm)) ;!
      ret h)).

(** The metadata of the object joins the blob of the TPM. *)
Definition wrap_context (context : TPMS_CONTEXT) (r : IESYS_RESOURCE) : EM TPMS_CONTEXT := fun c =>
  let blob := TPMS_CONTEXT_contextBlob context in
  match mem_read (buffer blob) 0 (size blob) with
  | None => Undef
  | Some w =>
      let* b := access (mem_write (buffer (stack_2b cap_TPM2B_CONTEXT_DATA)) 0 w) in
      let d := Context_Data 0 (MkTPM2B (size blob) b) (Metadata 0 r) in
      match iesys_MU_IESYS_CONTEXT_DATA_Marshal (Some d) (Some (buffer blob)) sizeof_TPMS_CONTEXT_DATA
              (Some 0) with
      | Ret (rc, (Some b, Some offset)) =>
          Ret (c, if rc =? TSS2_RC_SUCCESS
                  then inr (mset TPMS_CONTEXT'contextBlob (MkTPM2B (wrap 16 offset) b) context)
                  else inl rc)
      | _ => Undef
      end
  end.

(** The response has no authorizations and is not checked. *)
Definition Esys_ContextSave_Finish (context : bool) : EM (option TPMS_CONTEXT) :=
  esys_finish_with (allocate [true]) esys_receive (fun _ r => ret r) (fun _ =>
    completed (
      let! (lcontext, _) := esys_complete (Tss2_Sys_ContextSave_Complete (Some zero_TPMS_CONTEXT)) in
      let! saveHandle := stored in_ContextSave in
      let! p := object_of saveHandle in
      let! n := node_at p in
      let! lcontext := wrap_context (default zero_TPMS_CONTEXT lcontext) (rsrc n) in
      (if rsrcType (rsrc n) =? IESYSC_SESSION_RSRC then
         let! h := Esys_TR_Close saveHandle in store (fun _ => In_ContextSave h)
       else ret tt) ;!
      ret (if context then Some lcontext else None))).

Definition Esys_Create_Finish (outPrivate outPublic creationData creationHash creationTicket :
    bool) : EM (option TPM2B * (option (TPM2B_SUB TPMT_PUBLIC) *
    (option (TPM2B_SUB TPMS_CREATION_DATA) * (option TPM2B * (option TPMT_TK_CREATION * unit)))))
    :=
  esys_finish (allocate [outPrivate; outPublic; creationData; creationHash; creationTicket])
    (fun _ => ret tt) (fun _ => esys_complete (Tss2_Sys_Create_Complete (wanted outPrivate
    (zero_2b cap_TPM2B_PRIVATE)) (wanted outPublic (MkTPM2B_SUB 0 zero_TPMT_PUBLIC)) (wanted
    creationData (MkTPM2B_SUB 0 zero_TPMS_CREATION_DATA)) (wanted creationHash
    (zero_2b cap_TPM2B_DIGEST)) (wanted creationTicket zero_TPMT_TK_CREATION))).

(** [in.X.inSensitive->sensitive.userAuth] *)
Definition stored_userAuth (s : option (TPM2B_SUB TPMS_SENSITIVE_CREATE)) : EM TPM2B :=
  match s with None => undef | Some s => ret (userAuth s) end.

Definition Esys_CreateLoaded_Finish (objectHandle outPrivate outPublic : bool) :
    EM (Z * (option TPM2B * option (TPM2B_SUB TPMT_PUBLIC))) :=
  esys_finish
    (let! new := new_object objectHandle in
     on_error (allocate [outPrivate; true]) (then_return (close_new new)) ;!
     ret new)
    close_new
    (fun '(h, p) =>
      let! n := node_at p in
      let! (tpm, (private, (pub, (nm, _)))) :=
        esys_complete (Tss2_Sys_CreateLoaded_Complete (Some (handle (rsrc n)))
          (wanted outPrivate (zero_2b cap_TPM2B_PRIVATE)) (Some (MkTPM2B_SUB 0 zero_TPMT_PUBLIC))
          (Some (stack_2b cap_TPM2B_NAME))) in
      upd_rsrc p (set_handle (default 0 tpm)) ;!
      let nm := default (stack_2b cap_TPM2B_NAME) nm in
      set_key_public p pub ;!
      check_name pub nm ;!
      upd_rsrc p (set_name nm) ;!
      let! (inSensitive, _) := stored in_CreateLoaded in
      let! auth_ := stored_userAuth inSensitive in
      upd_node p (set_auth auth_) ;!
      ret (h, (private, if outPublic then pub else None))).

Definition Esys_CreatePrimary_Finish (objectHandle outPublic creationData creationHash
    creationTicket : bool) :
    EM (Z * (option (TPM2B_SUB TPMT_PUBLIC) * (option (TPM2B_SUB TPMS_CREATION_DATA) *
      (option TPM2B * option TPMT_TK_CREATION)))) :=
  esys_finish
    (let! new := new_object objectHandle in
     on_error (allocate [true; creationData; creationHash; creationTicket])
       (then_return (close_new new)) ;!
     ret new)
    close_new
    (fun '(h, p) =>
      let! n := node_at p in
      let! (tpm, (pub, (data, (hash, (ticket, (nm, _)))))) :=
        esys_complete (Tss2_Sys_CreatePrimary_Complete (Some (handle (rsrc n)))
          (Some (MkTPM2B_SUB 0 zero_TPMT_PUBLIC))
          (wanted creationData (MkTPM2B_SUB 0 zero_TPMS_CREATION_DATA))
          (wanted creationHash (zero_2b cap_TPM2B_DIGEST))
          (wanted creationTicket zero_TPMT_TK_CREATION) (Some (stack_2b cap_TPM2B_NAME))) in
      upd_rsrc p (set_handle (default 0 tpm)) ;!
      let nm := default (stack_2b cap_TPM2B_NAME) nm in
      check_name pub nm ;!
      let! inSensitive := stored in_CreatePrimary in
      let! auth_ := stored_userAuth inSensitive in
      upd_node p (set_auth auth_) ;!
      upd_rsrc p (set_name nm) ;!
      set_key_public p pub ;!
      ret (h, (if outPublic then pub else None, (data, (hash, ticket))))).

Definition Esys_Decapsulate_Finish (outSymSeed : bool) : EM (option TPM2B * unit) :=
  esys_finish (allocate [outSymSeed]) (fun _ => ret tt) (fun _ => esys_complete
    (Tss2_Sys_Decapsulate_Complete (wanted outSymSeed (zero_2b cap_TPM2B_DATA)))).

Definition Esys_DictionaryAttackLockReset_Finish : EM unit :=
  esys_finish (ret tt) (fun _ => ret tt) (fun _ => esys_complete
    Tss2_Sys_DictionaryAttackLockReset_Complete).

Definition Esys_DictionaryAttackParameters_Finish : EM unit :=
  esys_finish (ret tt) (fun _ => ret tt) (fun _ => esys_complete
    Tss2_Sys_DictionaryAttackParameters_Complete).

Definition Esys_Duplicate_Finish (encryptionKeyOut duplicate outSymSeed : bool) : EM (option TPM2B
    * (option TPM2B * (option TPM2B * unit))) :=
  esys_finish (allocate [encryptionKeyOut; duplicate; outSymSeed]) (fun _ => ret tt)
    (fun _ => esys_complete (Tss2_Sys_Duplicate_Complete (wanted encryptionKeyOut
    (zero_2b cap_TPM2B_DATA)) (wanted duplicate (zero_2b cap_TPM2B_PRIVATE)) (wanted outSymSeed
    (zero_2b cap_TPM2B_ENCRYPTED_SECRET)))).

Definition Esys_ECC_Decrypt_Finish (plainText : bool) : EM (option TPM2B * unit) :=
  esys_finish (allocate [plainText]) (fun _ => ret tt) (fun _ => esys_complete
    (Tss2_Sys_ECC_Decrypt_Complete (wanted plainText (zero_2b cap_TPM2B_MAX_BUFFER)))).

Definition Esys_ECC_Encrypt_Finish (c1 c2 c3 : bool) : EM (option (TPM2B_SUB TPMS_ECC_POINT) *
    (option TPM2B * (option TPM2B * unit))) :=
  esys_finish (allocate [c1; c2; c3]) (fun _ => ret tt) (fun _ => esys_complete
    (Tss2_Sys_ECC_Encrypt_Complete (wanted c1 (MkTPM2B_SUB 0 zero_TPMS_ECC_POINT)) (wanted c2
    (zero_2b cap_TPM2B_MAX_BUFFER)) (wanted c3 (zero_2b cap_TPM2B_DIGEST)))).

Definition Esys_ECC_Parameters_Finish (parameters : bool) : EM (option TPMS_ALGORITHM_DETAIL_ECC *
    unit) :=
  esys_finish (allocate [parameters]) (fun _ => ret tt) (fun _ => esys_complete
    (Tss2_Sys_ECC_Parameters_Complete (wanted parameters zero_TPMS_ALGORITHM_DETAIL_ECC))).

Definition Esys_ECDH_KeyGen_Finish (zPoint pubPoint : bool) : EM
    (option (TPM2B_SUB TPMS_ECC_POINT) * (option (TPM2B_SUB TPMS_ECC_POINT) * unit)) :=
  esys_finish (allocate [zPoint; pubPoint]) (fun _ => ret tt) (fun _ => esys_complete
    (Tss2_Sys_ECDH_KeyGen_Complete (wanted zPoint (MkTPM2B_SUB 0 zero_TPMS_ECC_POINT)) (wanted
    pubPoint (MkTPM2B_SUB 0 zero_TPMS_ECC_POINT)))).

Definition Esys_ECDH_ZGen_Finish (outPoint : bool) : EM (option (TPM2B_SUB TPMS_ECC_POINT) * unit)
    :=
  esys_finish (allocate [outPoint]) (fun _ => ret tt) (fun _ => esys_complete
    (Tss2_Sys_ECDH_ZGen_Complete (wanted outPoint (MkTPM2B_SUB 0 zero_TPMS_ECC_POINT)))).

Definition Esys_EC_Ephemeral_Finish (Q : bool) (counter : option Z) : EM
    (option (TPM2B_SUB TPMS_ECC_POINT) * (option Z * unit)) :=
  esys_finish (allocate [Q]) (fun _ => ret tt) (fun _ => esys_complete
    (Tss2_Sys_EC_Ephemeral_Complete (wanted Q (MkTPM2B_SUB 0 zero_TPMS_ECC_POINT)) counter)).

Definition Esys_Encapsulate_Finish (outSymSeed cipherText : bool) : EM (option TPM2B *
    (option TPM2B * unit)) :=
  esys_finish (allocate [outSymSeed; cipherText]) (fun _ => ret tt) (fun _ => esys_complete
    (Tss2_Sys_Encapsulate_Complete (wanted outSymSeed (zero_2b cap_TPM2B_DATA)) (wanted cipherText
    (zero_2b cap_TPM2B_ENCRYPTED_SECRET)))).

Definition Esys_EncryptDecrypt_Finish (outData ivOut : bool) : EM (option TPM2B * (option TPM2B *
    unit)) :=
  esys_finish (allocate [outData; ivOut]) (fun _ => ret tt) (fun _ => esys_complete
    (Tss2_Sys_EncryptDecrypt_Complete (wanted outData (zero_2b cap_TPM2B_MAX_BUFFER)) (wanted
    ivOut (zero_2b cap_TPM2B_IV)))).

Definition Esys_EncryptDecrypt2_Finish (outData ivOut : bool) : EM (option TPM2B * (option TPM2B *
    unit)) :=
  esys_finish (allocate [outData; ivOut]) (fun _ => ret tt) (fun _ => esys_complete
    (Tss2_Sys_EncryptDecrypt2_Complete (wanted outData (zero_2b cap_TPM2B_MAX_BUFFER)) (wanted
    ivOut (zero_2b cap_TPM2B_IV)))).

Definition Esys_EventSequenceComplete_Finish (results : bool) : EM (option (TPML TPMT_HA) * unit)
    :=
  esys_finish (allocate [results]) (fun _ => ret tt) (fun _ => esys_complete
    (Tss2_Sys_EventSequenceComplete_Complete (wanted results (zero_tpml cap_TPML_DIGEST_VALUES
    zero_TPMT_HA)))).

(** The check of the response and what follows it *)
Definition checked_completed {B} (m : EM B) : EM B :=
  return_state iesys_check_response ESYS_STATE_INTERNALERROR ;! completed m.

(** The handle of the new object, [ESYS_TR_NONE] for one that is deleted; the
    errors after the first lookup are returned directly. *)
Definition Esys_EvictControl_Finish (newObjectHandle : bool) : EM Z :=
  esys_finish_with
    (if negb newObjectHandle then fail TSS2_ESYS_RC_BAD_REFERENCE else ret tt)
    esys_receive (fun _ r => ret r)
    (fun _ => checked_completed (
      esys_complete Tss2_Sys_EvictControl_Complete ;!
      let! (objectHandle, persistentHandle) := stored in_EvictControl in
      let! p := object_of objectHandle in
      let! n := node_at p in
      if iesys_get_handle_type (handle (rsrc n)) =? TPM2_HT_PERSISTENT then
        Esys_TR_Close objectHandle ;! ret ESYS_TR_NONE
      else
        let! (h, q) := new_handle in
        let! n := node_at p in
        upd_rsrc q (fun _ => set_handle persistentHandle (rsrc n)) ;!
        ret h)).

Definition Esys_FieldUpgradeData_Finish (nextDigest firstDigest : bool) : EM (option TPMT_HA *
    (option TPMT_HA * unit)) :=
  esys_finish (allocate [nextDigest; firstDigest]) (fun _ => ret tt) (fun _ => esys_complete
    (Tss2_Sys_FieldUpgradeData_Complete (wanted nextDigest zero_TPMT_HA)
    (wanted firstDigest zero_TPMT_HA))).

Definition Esys_FieldUpgradeStart_Finish : EM unit :=
  esys_finish (ret tt) (fun _ => ret tt) (fun _ => esys_complete
    Tss2_Sys_FieldUpgradeStart_Complete).

Definition Esys_FirmwareRead_Finish (fuData : bool) : EM (option TPM2B * unit) :=
  esys_finish (allocate [fuData]) (fun _ => ret tt) (fun _ => esys_complete
    (Tss2_Sys_FirmwareRead_Complete (wanted fuData (zero_2b cap_TPM2B_MAX_BUFFER)))).

Definition Esys_FlushContext_Finish : EM unit :=
  esys_finish_with (ret tt) esys_receive (fun _ r => ret r) (fun _ =>
    esys_complete Tss2_Sys_FlushContext_Complete ;!
    let! flushHandle := stored in_FlushContext in
    let! flushHandleNode := return_state (esys_GetResourceObject flushHandle) ESYS_STATE_INIT in
    match flushHandleNode with
    | None => undef
    | Some p =>
        completed (
          upd_node p (set_reference_count 0) ;!
          let! h := Esys_TR_Close flushHandle in
          store (fun _ => In_FlushContext h))
    end).

Definition Esys_FlushContext (fuel : nat) (flushHandle : Z) : EM unit :=
  esys_one_call fuel (Esys_FlushContext_Async flushHandle) Esys_FlushContext_Finish.

Definition Esys_GetCapability_Finish (moreData : option Z) (capabilityData : bool) : EM (option Z
    * (option TPMS_CAPABILITY_DATA * unit)) :=
  esys_finish (allocate [capabilityData]) (fun _ => ret tt) (fun _ => esys_complete
    (Tss2_Sys_GetCapability_Complete moreData (wanted capabilityData zero_TPMS_CAPABILITY_DATA))).

Definition Esys_GetCommandAuditDigest_Finish (auditInfo signature : bool) : EM (option TPM2B *
    (option TPMT_SIGNATURE * unit)) :=
  esys_finish (allocate [auditInfo; signature]) (fun _ => ret tt) (fun _ => esys_complete
    (Tss2_Sys_GetCommandAuditDigest_Complete (wanted auditInfo (zero_2b cap_TPM2B_ATTEST))
    (wanted signature zero_TPMT_SIGNATURE))).

Definition Esys_GetRandom_Finish (randomBytes : bool) : EM (option TPM2B * unit) :=
  esys_finish (allocate [randomBytes]) (fun _ => ret tt) (fun _ => esys_complete
    (Tss2_Sys_GetRandom_Complete (wanted randomBytes (zero_2b cap_TPM2B_DIGEST)))).

Definition Esys_GetSessionAuditDigest_Finish (auditInfo signature : bool) : EM (option TPM2B *
    (option TPMT_SIGNATURE * unit)) :=
  esys_finish (allocate [auditInfo; signature]) (fun _ => ret tt) (fun _ => esys_complete
    (Tss2_Sys_GetSessionAuditDigest_Complete (wanted auditInfo (zero_2b cap_TPM2B_ATTEST))
    (wanted signature zero_TPMT_SIGNATURE))).

Definition Esys_GetTestResult_Finish (outData : bool) (testResult : option Z) : EM (option TPM2B *
    (option Z * unit)) :=
  esys_finish (allocate [outData]) (fun _ => ret tt) (fun _ => esys_complete
    (Tss2_Sys_GetTestResult_Complete (wanted outData (zero_2b cap_TPM2B_MAX_BUFFER)) testResult)).

Definition Esys_GetTime_Finish (timeInfo signature : bool) : EM (option TPM2B *
    (option TPMT_SIGNATURE * unit)) :=
  esys_finish (allocate [timeInfo; signature]) (fun _ => ret tt) (fun _ => esys_complete
    (Tss2_Sys_GetTime_Complete (wanted timeInfo (zero_2b cap_TPM2B_ATTEST))
    (wanted signature zero_TPMT_SIGNATURE))).

Definition Esys_HMAC_Finish (outHMAC : bool) : EM (option TPM2B * unit) :=
  esys_finish (allocate [outHMAC]) (fun _ => ret tt) (fun _ => esys_complete
    (Tss2_Sys_HMAC_Complete (wanted outHMAC (zero_2b cap_TPM2B_DIGEST)))).

Definition Esys_HMAC_Start_Finish (sequenceHandle : bool) : EM Z :=
  esys_finish (new_object sequenceHandle) close_new (fun '(h, p) =>
    let! n := node_at p in
    let! (tpm, _) := esys_complete (Tss2_Sys_HMAC_Start_Complete (Some (handle (rsrc n)))) in
    upd_rsrc p (set_handle (default 0 tpm)) ;!
    upd_rsrc p (fun r => set_name (set_size0 (name r)) r) ;!
    let! authData := stored in_HMAC_Start in
    upd_node p (set_auth authData) ;!
    ret h).

Definition Esys_Hash_Finish (outHash validation : bool) : EM (option TPM2B *
    (option TPMT_TK_HASHCHECK * unit)) :=
  esys_finish (allocate [outHash; validation]) (fun _ => ret tt) (fun _ => esys_complete
    (Tss2_Sys_Hash_Complete (wanted outHash (zero_2b cap_TPM2B_DIGEST))
    (wanted validation zero_TPMT_TK_HASHCHECK))).

Definition Esys_HashSequenceStart_Finish (sequenceHandle : bool) : EM Z :=
  esys_finish (new_object sequenceHandle) close_new (fun '(h, p) =>
    let! n := node_at p in
    let! (tpm, _) := esys_complete (Tss2_Sys_HashSequenceStart_Complete (Some (handle (rsrc n)))) in
    upd_rsrc p (set_handle (default 0 tpm)) ;!
    upd_rsrc p (fun r => set_name (set_size0 (name r)) r) ;!
    ret h).

Definition Esys_HierarchyChangeAuth_Finish : EM unit :=
  esys_finish_with (ret tt) esys_receive (fun _ r => ret r) (fun _ =>
    let! (h, newAuth) := stored in_HierarchyChangeAuth in
    change_auth h newAuth ;!
    checked_completed (esys_complete Tss2_Sys_HierarchyChangeAuth_Complete ;! ret tt)).

Definition Esys_HierarchyControl_Finish : EM unit :=
  esys_finish (ret tt) (fun _ => ret tt) (fun _ => esys_complete
    Tss2_Sys_HierarchyControl_Complete).

Definition Esys_Import_Finish (outPrivate : bool) : EM (option TPM2B * unit) :=
  esys_finish (allocate [outPrivate]) (fun _ => ret tt) (fun _ => esys_complete
    (Tss2_Sys_Import_Complete (wanted outPrivate (zero_2b cap_TPM2B_PRIVATE)))).

Definition Esys_IncrementalSelfTest_Finish (toDoList : bool) : EM (option (TPML Z) * unit) :=
  esys_finish (allocate [toDoList]) (fun _ => ret tt) (fun _ => esys_complete
    (Tss2_Sys_IncrementalSelfTest_Complete (wanted toDoList (zero_tpml cap_TPML_ALG 0)))).

Definition Esys_Load_Finish (objectHandle : bool) : EM Z :=
  esys_finish
    (let! (h, p) := new_object objectHandle in
     let! inPublic := stored in_Load in
     set_key_public p inPublic ;!
     ret (h, p))
    close_new
    (fun '(h, p) =>
      let! n := node_at p in
      let! (tpm, (nm, _)) := esys_complete (Tss2_Sys_Load_Complete (Some (handle (rsrc n)))
        (Some (stack_2b cap_TPM2B_NAME))) in
      upd_rsrc p (set_handle (default 0 tpm)) ;!
      let nm := default (stack_2b cap_TPM2B_NAME) nm in
      let! inPublic := stored in_Load in
      check_name inPublic nm ;!
      upd_rsrc p (set_name nm) ;!
      ret h).

Definition Esys_LoadExternal_Finish (objectHandle : bool) : EM Z :=
  esys_finish
    (let! (h, p) := new_object objectHandle in
     let! inPublic := stored in_LoadExternal in
     set_key_public p inPublic ;!
     ret (h, p))
    close_new
    (fun '(h, p) =>
      let! n := node_at p in
      let! (tpm, (nm, _)) := esys_complete (Tss2_Sys_LoadExternal_Complete (Some (handle (rsrc n)))
        (Some (stack_2b cap_TPM2B_NAME))) in
      upd_rsrc p (set_handle (default 0 tpm)) ;!
      let nm := default (stack_2b cap_TPM2B_NAME) nm in
      let! inPublic := stored in_LoadExternal in
      check_name inPublic nm ;!
      upd_rsrc p (set_name nm) ;!
      ret h).

Definition Esys_MAC_Finish (outMAC : bool) : EM (option TPM2B * unit) :=
  esys_finish (allocate [outMAC]) (fun _ => ret tt) (fun _ => esys_complete (Tss2_Sys_MAC_Complete
    (wanted outMAC (zero_2b cap_TPM2B_DIGEST)))).

Definition Esys_MAC_Start_Finish (sequenceHandle : bool) : EM Z :=
  esys_finish (new_object sequenceHandle) close_new (fun '(h, p) =>
    let! n := node_at p in
    let! (tpm, _) := esys_complete (Tss2_Sys_MAC_Start_Complete (Some (handle (rsrc n)))) in
    upd_rsrc p (set_handle (default 0 tpm)) ;!
    upd_rsrc p (fun r => set_name (set_size0 (name r)) r) ;!
    let! authData := stored in_HMAC_Start in
    upd_node p (set_auth authData) ;!
    ret h).

Definition Esys_MakeCredential_Finish (credentialBlob secret : bool) : EM (option TPM2B *
    (option TPM2B * unit)) :=
  esys_finish (allocate [credentialBlob; secret]) (fun _ => ret tt) (fun _ => esys_complete
    (Tss2_Sys_MakeCredential_Complete (wanted credentialBlob (zero_2b cap_TPM2B_ID_OBJECT))
    (wanted secret (zero_2b cap_TPM2B_ENCRYPTED_SECRET)))).

Definition Esys_NV_Certify_Finish (certifyInfo signature : bool) : EM (option TPM2B *
    (option TPMT_SIGNATURE * unit)) :=
  esys_finish (allocate [certifyInfo; signature]) (fun _ => ret tt) (fun _ => esys_complete
    (Tss2_Sys_NV_Certify_Complete (wanted certifyInfo (zero_2b cap_TPM2B_ATTEST))
    (wanted signature zero_TPMT_SIGNATURE))).

Definition Esys_NV_ChangeAuth_Finish : EM unit :=
  esys_finish_with (ret tt) esys_receive (fun _ r => ret r) (fun _ =>
    let! nvIndex := stored in_NV_nvIndex in
    let! p := object_of nvIndex in
    let! newAuth := stored in_NV_authData in
    upd_node p (set_auth newAuth) ;!
    session_value 0 (Some p) ;!
    checked_completed (esys_complete Tss2_Sys_NV_ChangeAuth_Complete ;! ret tt)).

Definition Esys_NV_DefineSpace_Finish (nvHandle : bool) : EM Z :=
  esys_finish (new_object nvHandle) close_new (fun '(h, p) =>
    esys_complete Tss2_Sys_NV_DefineSpace_Complete ;!
    upd_rsrc p (set_rsrcType IESYSC_NV_RSRC) ;!
    let! publicInfo := stored in_NV_publicInfo in
    match publicInfo with
    | None => undef
    | Some pub =>
        let! n := node_at p in
        let! nm := crypto (iesys_nv_get_name pub (name (rsrc n))) in
        upd_rsrc p (set_name nm) ;!
        upd_rsrc p (set_handle (TPMS_NV_PUBLIC_nvIndex (smember pub))) ;!
        upd_rsrc p (set_misc (Misc_nv_pub pub)) ;!
        let! authData := stored in_NV_authData in
        upd_node p (set_auth authData) ;!
        ret h
    end).

Definition Esys_NV_Extend_Finish : EM unit :=
  esys_finish (ret tt) (fun _ => ret tt) (fun _ =>
    esys_complete Tss2_Sys_NV_Extend_Complete ;! mark_nv TPMA_NV_WRITTEN).

Definition Esys_NV_GlobalWriteLock_Finish : EM unit :=
  esys_finish (ret tt) (fun _ => ret tt) (fun _ => esys_complete
    Tss2_Sys_NV_GlobalWriteLock_Complete).

Definition Esys_NV_Increment_Finish : EM unit :=
  esys_finish (ret tt) (fun _ => ret tt) (fun _ =>
    esys_complete Tss2_Sys_NV_Increment_Complete ;! mark_nv TPMA_NV_WRITTEN).

Definition Esys_NV_Read_Finish (data : bool) : EM (option TPM2B * unit) :=
  esys_finish (allocate [data]) (fun _ => ret tt) (fun _ => esys_complete
    (Tss2_Sys_NV_Read_Complete (wanted data (zero_2b cap_TPM2B_MAX_NV_BUFFER)))).

Definition Esys_NV_ReadLock_Finish : EM unit :=
  esys_finish (ret tt) (fun _ => ret tt) (fun _ =>
    esys_complete Tss2_Sys_NV_ReadLock_Complete ;! mark_nv TPMA_NV_READLOCKED).

Definition Esys_NV_ReadPublic_Finish (nvPublic nvName : bool) :
    EM (option (TPM2B_SUB TPMS_NV_PUBLIC) * option TPM2B) :=
  esys_finish (allocate [true; true]) (fun _ => ret tt) (fun _ =>
    let! (pub, (nm, _)) := esys_complete (Tss2_Sys_NV_ReadPublic_Complete
      (Some (MkTPM2B_SUB 0 zero_TPMS_NV_PUBLIC)) (Some (zero_2b cap_TPM2B_NAME))) in
    let! nvIndex := stored in_NV_nvIndex in
    let! nvIndexNode := esys_GetResourceObject nvIndex in
    match nvIndexNode, pub, nm with
    | Some p, Some pub, Some nm =>
        upd_rsrc p (fun r => set_misc (Misc_nv_pub pub) (set_name nm (set_rsrcType IESYSC_NV_RSRC r)))
    | _, _, _ => ret tt
    end ;!
    ret (if nvPublic then pub else None, if nvName then nm else None)).

Definition Esys_NV_SetBits_Finish : EM unit :=
  esys_finish (ret tt) (fun _ => ret tt) (fun _ =>
    esys_complete Tss2_Sys_NV_SetBits_Complete ;! mark_nv TPMA_NV_WRITTEN).

Definition Esys_NV_UndefineSpace_Finish : EM unit :=
  esys_finish (ret tt) (fun _ => ret tt) (fun _ =>
    esys_complete Tss2_Sys_NV_UndefineSpace_Complete ;! close_nv).

Definition Esys_NV_UndefineSpaceSpecial_Finish : EM unit :=
  esys_finish_with (ret tt) esys_receive (fun _ r => ret r) (fun _ =>
    let! nvIndex := stored in_NV_nvIndex in
    let! p := esys_GetResourceObject nvIndex in
    let! c := get in
    let! session_type_ := at3 (session_type c) 0 in
    let! session := object_of session_type_ in
    match p with
    | None => undef
    | Some p =>
        let! n := node_at p in
        upd_session session (fun s =>
          set_sizeHmacValue (wrap 16 (sizeHmacValue s - size (auth n))) s)
    end ;!
    close_nv ;!
    checked_completed (esys_complete Tss2_Sys_NV_UndefineSpaceSpecial_Complete ;! ret tt)).

Definition Esys_NV_Write_Finish : EM unit :=
  esys_finish (ret tt) (fun _ => ret tt) (fun _ =>
    esys_complete Tss2_Sys_NV_Write_Complete ;! mark_nv TPMA_NV_WRITTEN).

Definition Esys_NV_WriteLock_Finish : EM unit :=
  esys_finish (ret tt) (fun _ => ret tt) (fun _ =>
    esys_complete Tss2_Sys_NV_WriteLock_Complete ;! mark_nv TPMA_NV_WRITELOCKED).

Definition Esys_ObjectChangeAuth_Finish (outPrivate : bool) : EM (option TPM2B * unit) :=
  esys_finish (allocate [outPrivate]) (fun _ => ret tt) (fun _ => esys_complete
    (Tss2_Sys_ObjectChangeAuth_Complete (wanted outPrivate (zero_2b cap_TPM2B_PRIVATE)))).

Definition Esys_PCR_Allocate_Finish (allocationSuccess maxPCR sizeNeeded sizeAvailable : option Z)
    : EM (option Z * (option Z * (option Z * (option Z * unit)))) :=
  esys_finish (ret tt) (fun _ => ret tt) (fun _ => esys_complete (Tss2_Sys_PCR_Allocate_Complete
    allocationSuccess maxPCR sizeNeeded sizeAvailable)).

Definition Esys_PCR_Event_Finish (digests : bool) : EM (option (TPML TPMT_HA) * unit) :=
  esys_finish (allocate [digests]) (fun _ => ret tt) (fun _ => esys_complete
    (Tss2_Sys_PCR_Event_Complete (wanted digests (zero_tpml cap_TPML_DIGEST_VALUES
    zero_TPMT_HA)))).

Definition Esys_PCR_Extend_Finish : EM unit :=
  esys_finish (ret tt) (fun _ => ret tt) (fun _ => esys_complete Tss2_Sys_PCR_Extend_Complete).

Definition Esys_PCR_Read_Finish (pcrUpdateCounter : option Z) (pcrSelectionOut pcrValues : bool) :
    EM (option Z * (option (TPML TPMS_PCR_SELECTION) * (option (TPML TPM2B) * unit))) :=
  esys_finish (allocate [pcrSelectionOut; pcrValues]) (fun _ => ret tt) (fun _ => esys_complete
    (Tss2_Sys_PCR_Read_Complete pcrUpdateCounter (wanted pcrSelectionOut (zero_tpml
    cap_TPML_PCR_SELECTION zero_TPMS_PCR_SELECTION)) (wanted pcrValues (zero_tpml cap_TPML_DIGEST
    (zero_2b cap_TPM2B_DIGEST))))).

Definition Esys_PCR_Reset_Finish : EM unit :=
  esys_finish (ret tt) (fun _ => ret tt) (fun _ => esys_complete Tss2_Sys_PCR_Reset_Complete).

Definition Esys_PCR_SetAuthPolicy_Finish : EM unit :=
  esys_finish (ret tt) (fun _ => ret tt) (fun _ => esys_complete
    Tss2_Sys_PCR_SetAuthPolicy_Complete).

Definition Esys_PCR_SetAuthValue_Finish : EM unit :=
  esys_finish_with (ret tt) esys_receive (fun _ r => ret r) (fun _ =>
    let! (h, authData) := stored in_PCR in
    change_auth h authData ;!
    checked_completed (esys_complete Tss2_Sys_PCR_SetAuthValue_Complete ;! ret tt)).

Definition Esys_PP_Commands_Finish : EM unit :=
  esys_finish (ret tt) (fun _ => ret tt) (fun _ => esys_complete Tss2_Sys_PP_Commands_Complete).

Definition Esys_PolicyAuthValue_Finish : EM unit :=
  esys_finish (ret tt) (fun _ => ret tt) (fun _ =>
    esys_complete Tss2_Sys_PolicyAuthValue_Complete ;! mark_policy POLICY_AUTH).

Definition Esys_PolicyAuthorize_Finish : EM unit :=
  esys_finish (ret tt) (fun _ => ret tt) (fun _ => esys_complete
    Tss2_Sys_PolicyAuthorize_Complete).

Definition Esys_PolicyAuthorizeNV_Finish : EM unit :=
  esys_finish (ret tt) (fun _ => ret tt) (fun _ => esys_complete
    Tss2_Sys_PolicyAuthorizeNV_Complete).

Definition Esys_PolicyCommandCode_Finish : EM unit :=
  esys_finish (ret tt) (fun _ => ret tt) (fun _ => esys_complete
    Tss2_Sys_PolicyCommandCode_Complete).

Definition Esys_PolicyCounterTimer_Finish : EM unit :=
  esys_finish (ret tt) (fun _ => ret tt) (fun _ => esys_complete
    Tss2_Sys_PolicyCounterTimer_Complete).

Definition Esys_PolicyCpHash_Finish : EM unit :=
  esys_finish (ret tt) (fun _ => ret tt) (fun _ => esys_complete Tss2_Sys_PolicyCpHash_Complete).

Definition Esys_PolicyDuplicationSelect_Finish : EM unit :=
  esys_finish (ret tt) (fun _ => ret tt) (fun _ => esys_complete
    Tss2_Sys_PolicyDuplicationSelect_Complete).

Definition Esys_PolicyGetDigest_Finish (policyDigest : bool) : EM (option TPM2B * unit) :=
  esys_finish (allocate [policyDigest]) (fun _ => ret tt) (fun _ => esys_complete
    (Tss2_Sys_PolicyGetDigest_Complete (wanted policyDigest (zero_2b cap_TPM2B_DIGEST)))).

Definition Esys_PolicyLocality_Finish : EM unit :=
  esys_finish (ret tt) (fun _ => ret tt) (fun _ => esys_complete Tss2_Sys_PolicyLocality_Complete).

Definition Esys_PolicyNV_Finish : EM unit :=
  esys_finish (ret tt) (fun _ => ret tt) (fun _ => esys_complete Tss2_Sys_PolicyNV_Complete).

Definition Esys_PolicyNameHash_Finish : EM unit :=
  esys_finish (ret tt) (fun _ => ret tt) (fun _ => esys_complete Tss2_Sys_PolicyNameHash_Complete).

Definition Esys_PolicyNvWritten_Finish : EM unit :=
  esys_finish (ret tt) (fun _ => ret tt) (fun _ => esys_complete
    Tss2_Sys_PolicyNvWritten_Complete).

Definition Esys_PolicyOR_Finish : EM unit :=
  esys_finish (ret tt) (fun _ => ret tt) (fun _ => esys_complete Tss2_Sys_PolicyOR_Complete).

Definition Esys_PolicyPCR_Finish : EM unit :=
  esys_finish (ret tt) (fun _ => ret tt) (fun _ => esys_complete Tss2_Sys_PolicyPCR_Complete).

Definition Esys_PolicyPassword_Finish : EM unit :=
  esys_finish (ret tt) (fun _ => ret tt) (fun _ =>
    esys_complete Tss2_Sys_PolicyPassword_Complete ;! mark_policy POLICY_PASSWORD).

Definition Esys_PolicyPhysicalPresence_Finish : EM unit :=
  esys_finish (ret tt) (fun _ => ret tt) (fun _ => esys_complete
    Tss2_Sys_PolicyPhysicalPresence_Complete).

Definition Esys_PolicyRestart_Finish : EM unit :=
  esys_finish (ret tt) (fun _ => ret tt) (fun _ => esys_complete Tss2_Sys_PolicyRestart_Complete).

Definition Esys_PolicySecret_Finish (timeout policyTicket : bool) : EM (option TPM2B *
    (option TPMT_TK_AUTH * unit)) :=
  esys_finish (allocate [timeout; policyTicket]) (fun _ => ret tt) (fun _ => esys_complete
    (Tss2_Sys_PolicySecret_Complete (wanted timeout (zero_2b cap_TPM2B_DIGEST))
    (wanted policyTicket zero_TPMT_TK_AUTH))).

Definition Esys_PolicySigned_Finish (timeout policyTicket : bool) : EM (option TPM2B *
    (option TPMT_TK_AUTH * unit)) :=
  esys_finish (allocate [timeout; policyTicket]) (fun _ => ret tt) (fun _ => esys_complete
    (Tss2_Sys_PolicySigned_Complete (wanted timeout (zero_2b cap_TPM2B_DIGEST))
    (wanted policyTicket zero_TPMT_TK_AUTH))).

Definition Esys_PolicyTemplate_Finish : EM unit :=
  esys_finish (ret tt) (fun _ => ret tt) (fun _ => esys_complete Tss2_Sys_PolicyTemplate_Complete).

Definition Esys_PolicyTicket_Finish : EM unit :=
  esys_finish (ret tt) (fun _ => ret tt) (fun _ => esys_complete Tss2_Sys_PolicyTicket_Complete).

Definition Esys_Policy_AC_SendSelect_Finish : EM unit :=
  esys_finish (ret tt) (fun _ => ret tt) (fun _ => esys_complete
    Tss2_Sys_Policy_AC_SendSelect_Complete).

Definition Esys_Quote_Finish (quoted signature : bool) : EM (option TPM2B * (option TPMT_SIGNATURE
    * unit)) :=
  esys_finish (allocate [quoted; signature]) (fun _ => ret tt) (fun _ => esys_complete
    (Tss2_Sys_Quote_Complete (wanted quoted (zero_2b cap_TPM2B_ATTEST))
    (wanted signature zero_TPMT_SIGNATURE))).

Definition Esys_RSA_Decrypt_Finish (message : bool) : EM (option TPM2B * unit) :=
  esys_finish (allocate [message]) (fun _ => ret tt) (fun _ => esys_complete
    (Tss2_Sys_RSA_Decrypt_Complete (wanted message (zero_2b cap_TPM2B_PUBLIC_KEY_RSA)))).

Definition Esys_RSA_Encrypt_Finish (outData : bool) : EM (option TPM2B * unit) :=
  esys_finish (allocate [outData]) (fun _ => ret tt) (fun _ => esys_complete
    (Tss2_Sys_RSA_Encrypt_Complete (wanted outData (zero_2b cap_TPM2B_PUBLIC_KEY_RSA)))).

Definition Esys_ReadClock_Finish (currentTime : bool) : EM (option TPMS_TIME_INFO * unit) :=
  esys_finish (allocate [currentTime]) (fun _ => ret tt) (fun _ => esys_complete
    (Tss2_Sys_ReadClock_Complete (wanted currentTime zero_TPMS_TIME_INFO))).

Definition Esys_ReadPublic_Finish (outPublic name qualifiedName : bool) : EM
    (option (TPM2B_SUB TPMT_PUBLIC) * (option TPM2B * (option TPM2B * unit))) :=
  esys_finish (allocate [outPublic; name; qualifiedName]) (fun _ => ret tt)
    (fun _ => esys_complete (Tss2_Sys_ReadPublic_Complete (wanted outPublic
    (MkTPM2B_SUB 0 zero_TPMT_PUBLIC)) (wanted name (zero_2b cap_TPM2B_NAME)) (wanted qualifiedName
    (zero_2b cap_TPM2B_NAME)))).

Definition Esys_Rewrap_Finish (outDuplicate outSymSeed : bool) : EM (option TPM2B * (option TPM2B
    * unit)) :=
  esys_finish (allocate [outDuplicate; outSymSeed]) (fun _ => ret tt) (fun _ => esys_complete
    (Tss2_Sys_Rewrap_Complete (wanted outDuplicate (zero_2b cap_TPM2B_PRIVATE)) (wanted outSymSeed
    (zero_2b cap_TPM2B_ENCRYPTED_SECRET)))).

Definition Esys_SelfTest_Finish : EM unit :=
  esys_finish (ret tt) (fun _ => ret tt) (fun _ => esys_complete Tss2_Sys_SelfTest_Complete).

Definition Esys_SequenceComplete_Finish (result validation : bool) :
    EM (option TPM2B * (option TPMT_TK_HASHCHECK * unit)) :=
  esys_finish (allocate [result; validation]) (fun _ => ret tt) (fun _ =>
    let! r := esys_complete (Tss2_Sys_SequenceComplete_Complete
      (wanted result (zero_2b cap_TPM2B_DIGEST)) (wanted validation zero_TPMT_TK_HASHCHECK)) in
    let! h := stored in_SequenceComplete in
    let! h := Esys_TR_Close h in
    store (fun _ => In_SequenceComplete h) ;!
    ret r).

Definition Esys_SequenceUpdate_Finish : EM unit :=
  esys_finish (ret tt) (fun _ => ret tt) (fun _ => esys_complete Tss2_Sys_SequenceUpdate_Complete).

Definition Esys_SetAlgorithmSet_Finish : EM unit :=
  esys_finish (ret tt) (fun _ => ret tt) (fun _ => esys_complete
    Tss2_Sys_SetAlgorithmSet_Complete).

Definition Esys_SetCommandCodeAuditStatus_Finish : EM unit :=
  esys_finish (ret tt) (fun _ => ret tt) (fun _ => esys_complete
    Tss2_Sys_SetCommandCodeAuditStatus_Complete).

Definition Esys_SetPrimaryPolicy_Finish : EM unit :=
  esys_finish (ret tt) (fun _ => ret tt) (fun _ => esys_complete
    Tss2_Sys_SetPrimaryPolicy_Complete).

Definition Esys_Shutdown_Finish : EM unit :=
  esys_finish (ret tt) (fun _ => ret tt) (fun _ => esys_complete Tss2_Sys_Shutdown_Complete).

Definition Esys_Sign_Finish (signature : bool) : EM (option TPMT_SIGNATURE * unit) :=
  esys_finish (allocate [signature]) (fun _ => ret tt) (fun _ => esys_complete
    (Tss2_Sys_Sign_Complete (wanted signature zero_TPMT_SIGNATURE))).

Definition Esys_SignDigest_Finish (signature : bool) : EM (option TPMT_SIGNATURE * unit) :=
  esys_finish (allocate [signature]) (fun _ => ret tt) (fun _ => esys_complete
    (Tss2_Sys_SignDigest_Complete (wanted signature zero_TPMT_SIGNATURE))).

Definition Esys_SignSequenceComplete_Finish (signature : bool) : EM (option TPMT_SIGNATURE * unit)
    :=
  esys_finish (allocate [signature]) (fun _ => ret tt) (fun _ => esys_complete
    (Tss2_Sys_SignSequenceComplete_Complete (wanted signature zero_TPMT_SIGNATURE))).

Definition Esys_SignSequenceStart_Finish (sequenceHandle : bool) : EM Z :=
  esys_finish (new_object sequenceHandle) close_new (fun '(h, p) =>
    let! n := node_at p in
    let! (tpm, _) := esys_complete (Tss2_Sys_SignSequenceStart_Complete (Some (handle (rsrc n)))) in
    upd_rsrc p (set_handle (default 0 tpm)) ;!
    upd_rsrc p (fun r => set_name (set_size0 (name r)) r) ;!
    ret h).

(** [Tss2_Sys_StartAuthSession_Complete]; what it has written stays when it fails. *)
Definition session_complete (p : nat) : EM TPM2B := fun c =>
  match node_at p c with
  | Ret (_, inr n) =>
      match run (Tss2_Sys_StartAuthSession_Complete (Some (handle (rsrc n)))
                   (Some (stack_2b cap_TPM2B_DIGEST))) (Some (sys c)) with
      | Ret (rval, (Some b, (Some h, (Some nonce, _)))) =>
          (upd_rsrc p (set_handle h) ;!
           return_if_error rval ;!
           ret nonce) (set_sys b c)
      | _ => Undef
      end
  | _ => Undef
  end.

(** The secret the key of the session is derived from, in a buffer of
    [malloc], and the entity the session is bound to *)
Definition session_secret (p : nat) (bind_ tpmKey : Z) (bindNode : option nat)
    (keyHash_size : Z) : EM (TSS2_RC + bytes) :=
  let! ok := calloc in
  if negb ok then ret (inl TSS2_ESYS_RC_MEMORY)
  else
    let! c := get in
    let! auth_ :=
      match bindNode with
      | Some q => let! n := node_at q in
          let! b := lift (access (mem_read (buffer (auth n)) 0 (size (auth n)))) in
          let! e := lift (iesys_compute_bound_entity (name (rsrc n)) (auth n)) in
          upd_session p (set_bound_entity e) ;!
          ret b
      | None => ret []
      end in
    let! salt_ :=
      (if negb (tpmKey =? ESYS_TR_NONE)
       then lift (access (mem_read (buffer (salt c)) 0 keyHash_size)) else ret []) in
    ret (inr (auth_ ++ salt_)).

(** The derivation of the key of the session; a result [inl r] is returned
    without the cleanup. *)
Definition session_key (p : nat) (lnonceTPM : TPM2B) : EM (TSS2_RC + unit) :=
  let! (bind_, tpmKey, authHash_, nonce) := stored in_StartAuthSession in
  let! bindNode := esys_GetResourceObject bind_ in
  let! tpmKeyNode := esys_GetResourceObject tpmKey in
  let! keyHash_size :=
    match tpmKeyNode with
    | None => ret (inr 0)
    | Some q =>
        let! n := node_at q in
        let! pub := lift (rsrc_key_pub (misc (rsrc n))) in
        code (crypto (iesys_crypto_hash_get_digest_size (TPMT_PUBLIC_nameAlg (smember pub))))
    end in
  match keyHash_size with
  | inl r => ret (inl r)
  | inr keyHash_size =>
      let! authHash_size := code (crypto (iesys_crypto_hash_get_digest_size authHash_)) in
      match authHash_size with
      | inl r => ret (inl r)
      | inr authHash_size =>
          if (bind_ =? ESYS_TR_RH_NULL) && (tpmKey =? ESYS_TR_NONE) then ret (inr tt)
          else
            let! secret := session_secret p bind_ tpmKey bindNode keyHash_size in
            match secret with
            | inl r => ret (inl r)
            | inr secret =>
                let! s := session_at p in
                let! key := code (crypto (iesys_crypto_KDFa authHash_ secret (Some "ATH"%string)
                  lnonceTPM nonce (authHash_size * 8) None (buffer (sessionKey s)) false)) in
                match key with
                | inl r => ret (inl r)
                | inr (key, _) =>
                    upd_session p (set_sessionKey (MkTPM2B (wrap 16 authHash_size) key)) ;!
                    ret (inr tt)
                end
            end
      end
  end.

(** [error_cleanup] gives the handle of the TPM to [Esys_FlushContext] and
    returns its code. *)
Definition session_cleanup (fuel : nat) (new : Z * nat) (r : TSS2_RC) : EM TSS2_RC :=
  let! n := node_at new.2 in
  let! r :=
    (if negb (handle (rsrc n) =? ESYS_TR_NONE) then
       let! x := code (Esys_FlushContext fuel (handle (rsrc n))) in ret (code_of x)
     else ret r) in
  then_return (close_new new) r.

Definition Esys_StartAuthSession_Finish (fuel : nat) (sessionHandle : bool) : EM Z :=
  direct (esys_finish_with
    (let! (h, p) := new_object sessionHandle in
     let! (sessionType_, authHash_, symmetric_, nonce) := stored in_session in
     upd_rsrc p (set_handle ESYS_TR_NONE) ;!
     upd_session p (fun s => set_nonceCaller nonce (set_symmetric symmetric_
       (set_authHash authHash_ (set_sessionType sessionType_
       (set_sessionAttributes TPMA_SESSION_CONTINUESESSION s))))) ;!
     ret (h, p))
    esys_receive (session_cleanup fuel)
    (fun '(h, p) =>
      return_state iesys_check_response ESYS_STATE_INTERNALERROR ;!
      let! lnonceTPM := return_state (session_complete p) ESYS_STATE_INTERNALERROR in
      upd_session p (set_nonceTPM lnonceTPM) ;!
      upd_rsrc p (set_rsrcType IESYSC_SESSION_RSRC) ;!
      let! (bind_, _, _, _) := stored in_StartAuthSession in
      let! c := get in
      let! key :=
        (if negb (bind_ =? ESYS_TR_NONE) || (0 <? size (salt c))
         then session_key p lnonceTPM else ret (inr tt)) in
      match key with
      | inl r => ret (inl r)
      | inr _ =>
          completed (
            let! n := node_at p in
            let! image := mu_image cap_TPM2B_NAME (Tss2_MU_TPM2_HANDLE_Marshal (handle (rsrc n))) in
            let! b := lift (access (mem_write (buffer (name (rsrc n))) 0 image)) in
            upd_rsrc p (set_name (MkTPM2B (Zlen image) b)) ;!
            modify (set_salt (zero_2b cap_TPM2B_DATA)) ;!
            ret (inr h))
      end)).

Definition Esys_Startup_Finish : EM unit :=
  esys_finish_with (ret tt) esys_receive_startup (fun _ r => ret r) (fun _ =>
    completed (esys_complete Tss2_Sys_Startup_Complete)).

Definition Esys_StirRandom_Finish : EM unit :=
  esys_finish (ret tt) (fun _ => ret tt) (fun _ => esys_complete Tss2_Sys_StirRandom_Complete).

Definition Esys_TestParms_Finish : EM unit :=
  esys_finish (ret tt) (fun _ => ret tt) (fun _ => esys_complete Tss2_Sys_TestParms_Complete).

Definition Esys_Unseal_Finish (outData : bool) : EM (option TPM2B * unit) :=
  esys_finish (allocate [outData]) (fun _ => ret tt) (fun _ => esys_complete
    (Tss2_Sys_Unseal_Complete (wanted outData (zero_2b cap_TPM2B_SENSITIVE_DATA)))).

Definition Esys_Vendor_TCG_Test_Finish (outputData : bool) : EM (option TPM2B * unit) :=
  esys_finish (allocate [outputData]) (fun _ => ret tt) (fun _ => esys_complete
    (Tss2_Sys_Vendor_TCG_Test_Complete (wanted outputData (zero_2b cap_TPM2B_DATA)))).

Definition Esys_VerifyDigestSignature_Finish (validation : bool) : EM (option TPMT_TK_VERIFIED *
    unit) :=
  esys_finish (allocate [validation]) (fun _ => ret tt) (fun _ => esys_complete
    (Tss2_Sys_VerifyDigestSignature_Complete (wanted validation zero_TPMT_TK_VERIFIED))).

Definition Esys_VerifySequenceComplete_Finish (validation : bool) : EM (option TPMT_TK_VERIFIED *
    unit) :=
  esys_finish (allocate [validation]) (fun _ => ret tt) (fun _ => esys_complete
    (Tss2_Sys_VerifySequenceComplete_Complete (wanted validation zero_TPMT_TK_VERIFIED))).

Definition Esys_VerifySequenceStart_Finish (sequenceHandle : bool) : EM Z :=
  esys_finish (new_object sequenceHandle) close_new (fun '(h, p) =>
    let! n := node_at p in
    let! (tpm, _) := esys_complete (Tss2_Sys_VerifySequenceStart_Complete (Some (handle (rsrc n)))) in
    upd_rsrc p (set_handle (default 0 tpm)) ;!
    upd_rsrc p (fun r => set_name (set_size0 (name r)) r) ;!
    ret h).

Definition Esys_VerifySignature_Finish (validation : bool) : EM (option TPMT_TK_VERIFIED * unit)
    :=
  esys_finish (allocate [validation]) (fun _ => ret tt) (fun _ => esys_complete
    (Tss2_Sys_VerifySignature_Complete (wanted validation zero_TPMT_TK_VERIFIED))).

Definition Esys_ZGen_2Phase_Finish (outZ1 outZ2 : bool) : EM (option (TPM2B_SUB TPMS_ECC_POINT) *
    (option (TPM2B_SUB TPMS_ECC_POINT) * unit)) :=
  esys_finish (allocate [outZ1; outZ2]) (fun _ => ret tt) (fun _ => esys_complete
    (Tss2_Sys_ZGen_2Phase_Complete (wanted outZ1 (MkTPM2B_SUB 0 zero_TPMS_ECC_POINT)) (wanted
    outZ2 (MkTPM2B_SUB 0 zero_TPMS_ECC_POINT)))).

End Finishes.
