(* ===== verification/EsysOneCalls.v ===== *)
(** * Enhanced System API: the functions without a suffix.

    [fuel] bounds the iterations of the loop, see [finish_loop];
    [Esys_FlushContext] is in EsysFinishes.v. *)

From stdpp Require Import gmap strings.
From S2P Require Import Prelude Common MuSpec MuBase MuStruct MuTpm2b MuUnion MuPcr TpmTypes MuTypes SysCodes Sys SysCmds SysCompletes EsysBase EsysCrypto EsysCtx EsysUtil EsysMu EsysExec EsysTr EsysAsyncs EsysFinishes.

Open Scope tss_scope.
Open Scope esys_scope.
Open Scope Z_scope.

Section OneCalls.
Context {H : Host} {HM : Memory} {S U KC : Type}.
Abbreviation CTX := (ESYS_CONTEXT S U KC).
Abbreviation EM A := (M CTX A).

Definition Esys_ACT_SetTimeout (fuel : nat) (actHandle shandle1 shandle2 shandle3 startTimeout :
    Z) : EM unit :=
  esys_one_call fuel (Esys_ACT_SetTimeout_Async actHandle shandle1 shandle2 shandle3 startTimeout)
    Esys_ACT_SetTimeout_Finish.

Definition Esys_AC_GetCapability (fuel : nat) (optionalSession1 optionalSession2 optionalSession3
    ac capability count : Z) (moreData : option Z) (capabilityData : bool) : EM (option Z *
    (option (TPML TPMS_AC_OUTPUT) * unit)) :=
  esys_one_call fuel (Esys_AC_GetCapability_Async optionalSession1 optionalSession2
    optionalSession3 ac capability count) (Esys_AC_GetCapability_Finish moreData capabilityData).

Definition Esys_AC_Send (fuel : nat) (sendObject nvAuthHandle optionalSession1 optionalSession2
    optionalSession3 ac : Z) (acDataIn : option TPM2B) (acDataOut : bool) : EM
    (option TPMS_AC_OUTPUT * unit) :=
  esys_one_call fuel (Esys_AC_Send_Async sendObject nvAuthHandle optionalSession1 optionalSession2
    optionalSession3 ac acDataIn) (Esys_AC_Send_Finish acDataOut).

Definition Esys_ActivateCredential (fuel : nat) (activateHandle keyHandle shandle1 shandle2
    shandle3 : Z) (credentialBlob secret : option TPM2B) (certInfo : bool) : EM (option TPM2B *
    unit) :=
  esys_one_call fuel (Esys_ActivateCredential_Async activateHandle keyHandle shandle1 shandle2
    shandle3 credentialBlob secret) (Esys_ActivateCredential_Finish certInfo).

Definition Esys_Certify (fuel : nat) (objectHandle signHandle shandle1 shandle2 shandle3 : Z)
    (qualifyingData : option TPM2B) (inScheme : option TPMT_SIG_SCHEME) (certifyInfo signature :
    bool) : EM (option TPM2B * (option TPMT_SIGNATURE * unit)) :=
  esys_one_call fuel (Esys_Certify_Async objectHandle signHandle shandle1 shandle2 shandle3
    qualifyingData inScheme) (Esys_Certify_Finish certifyInfo signature).

Definition Esys_CertifyCreation (fuel : nat) (signHandle objectHandle shandle1 shandle2 shandle3 :
    Z) (qualifyingData creationHash : option TPM2B) (inScheme : option TPMT_SIG_SCHEME)
    (creationTicket : option TPMT_TK_CREATION) (certifyInfo signature : bool) : EM (option TPM2B *
    (option TPMT_SIGNATURE * unit)) :=
  esys_one_call fuel (Esys_CertifyCreation_Async signHandle objectHandle shandle1 shandle2
    shandle3 qualifyingData creationHash inScheme creationTicket) (Esys_CertifyCreation_Finish
    certifyInfo signature).

Definition Esys_CertifyX509 (fuel : nat) (objectHandle signHandle shandle1 shandle2 shandle3 : Z)
    (reserved : option TPM2B) (inScheme : option TPMT_SIG_SCHEME)
    (partialCertificate : option TPM2B) (addedToCertificate tbsDigest signature : bool) : EM
    (option TPM2B * (option TPM2B * (option TPMT_SIGNATURE * unit))) :=
  esys_one_call fuel (Esys_CertifyX509_Async objectHandle signHandle shandle1 shandle2 shandle3
    reserved inScheme partialCertificate) (Esys_CertifyX509_Finish addedToCertificate tbsDigest
    signature).

Definition Esys_ChangeEPS (fuel : nat) (authHandle shandle1 shandle2 shandle3 : Z) : EM unit :=
  esys_one_call fuel (Esys_ChangeEPS_Async authHandle shandle1 shandle2 shandle3)
    Esys_ChangeEPS_Finish.

Definition Esys_ChangePPS (fuel : nat) (authHandle shandle1 shandle2 shandle3 : Z) : EM unit :=
  esys_one_call fuel (Esys_ChangePPS_Async authHandle shandle1 shandle2 shandle3)
    Esys_ChangePPS_Finish.

Definition Esys_Clear (fuel : nat) (authHandle shandle1 shandle2 shandle3 : Z) : EM unit :=
  esys_one_call fuel (Esys_Clear_Async authHandle shandle1 shandle2 shandle3) Esys_Clear_Finish.

Definition Esys_ClearControl (fuel : nat) (auth shandle1 shandle2 shandle3 disable : Z)
    : EM unit :=
  esys_one_call fuel (Esys_ClearControl_Async auth shandle1 shandle2 shandle3 disable)
    Esys_ClearControl_Finish.

Definition Esys_ClockRateAdjust (fuel : nat) (auth shandle1 shandle2 shandle3 rateAdjust : Z)
    : EM unit :=
  esys_one_call fuel (Esys_ClockRateAdjust_Async auth shandle1 shandle2 shandle3 rateAdjust)
    Esys_ClockRateAdjust_Finish.

Definition Esys_ClockSet (fuel : nat) (auth shandle1 shandle2 shandle3 newTime : Z) : EM unit :=
  esys_one_call fuel (Esys_ClockSet_Async auth shandle1 shandle2 shandle3 newTime)
    Esys_ClockSet_Finish.

Definition Esys_Commit (fuel : nat) (signHandle shandle1 shandle2 shandle3 : Z)
    (P1 : option (TPM2B_SUB TPMS_ECC_POINT)) (s2 y2 : option TPM2B) (K L E : bool)
    (counter : option Z) : EM (option (TPM2B_SUB TPMS_ECC_POINT) *
    (option (TPM2B_SUB TPMS_ECC_POINT) * (option (TPM2B_SUB TPMS_ECC_POINT) * (option Z * unit))))
    :=
  esys_one_call fuel (Esys_Commit_Async signHandle shandle1 shandle2 shandle3 P1 s2 y2)
    (Esys_Commit_Finish K L E counter).

Definition Esys_ContextLoad (fuel : nat) (context : option TPMS_CONTEXT) (loadedHandle : bool)
    : EM Z :=
  esys_one_call fuel (Esys_ContextLoad_Async context) (Esys_ContextLoad_Finish loadedHandle).

Definition Esys_ContextSave (fuel : nat) (saveHandle : Z) (context : bool) : EM
    (option TPMS_CONTEXT) :=
  esys_one_call fuel (Esys_ContextSave_Async saveHandle) (Esys_ContextSave_Finish context).

Definition Esys_Create (fuel : nat) (parentHandle shandle1 shandle2 shandle3 : Z)
    (inSensitive : option (TPM2B_SUB TPMS_SENSITIVE_CREATE))
    (inPublic : option (TPM2B_SUB TPMT_PUBLIC)) (outsideInfo : option TPM2B)
    (creationPCR : option (TPML TPMS_PCR_SELECTION)) (outPrivate outPublic creationData
    creationHash creationTicket : bool) : EM (option TPM2B * (option (TPM2B_SUB TPMT_PUBLIC) *
    (option (TPM2B_SUB TPMS_CREATION_DATA) * (option TPM2B * (option TPMT_TK_CREATION * unit)))))
    :=
  esys_one_call fuel (Esys_Create_Async parentHandle shandle1 shandle2 shandle3 inSensitive
    inPublic outsideInfo creationPCR) (Esys_Create_Finish outPrivate outPublic creationData
    creationHash creationTicket).

Definition Esys_CreateLoaded (fuel : nat) (parentHandle shandle1 shandle2 shandle3 : Z)
    (inSensitive : option (TPM2B_SUB TPMS_SENSITIVE_CREATE)) (inPublic : option TPM2B)
    (objectHandle outPrivate outPublic : bool) : EM (Z * (option TPM2B *
    option (TPM2B_SUB TPMT_PUBLIC))) :=
  esys_one_call fuel (Esys_CreateLoaded_Async parentHandle shandle1 shandle2 shandle3 inSensitive
    inPublic) (Esys_CreateLoaded_Finish objectHandle outPrivate outPublic).

Definition Esys_CreatePrimary (fuel : nat) (primaryHandle shandle1 shandle2 shandle3 : Z)
    (inSensitive : option (TPM2B_SUB TPMS_SENSITIVE_CREATE))
    (inPublic : option (TPM2B_SUB TPMT_PUBLIC)) (outsideInfo : option TPM2B)
    (creationPCR : option (TPML TPMS_PCR_SELECTION)) (objectHandle outPublic creationData
    creationHash creationTicket : bool) : EM (Z * (option (TPM2B_SUB TPMT_PUBLIC) *
    (option (TPM2B_SUB TPMS_CREATION_DATA) * (option TPM2B * option TPMT_TK_CREATION)))) :=
  esys_one_call fuel (Esys_CreatePrimary_Async primaryHandle shandle1 shandle2 shandle3
    inSensitive inPublic outsideInfo creationPCR) (Esys_CreatePrimary_Finish objectHandle
    outPublic creationData creationHash creationTicket).

Definition Esys_Decapsulate (fuel : nat) (keyHandle shandle1 shandle2 shandle3 : Z) (cipherText
    label : option TPM2B) (outSymSeed : bool) : EM (option TPM2B * unit) :=
  esys_one_call fuel (Esys_Decapsulate_Async keyHandle shandle1 shandle2 shandle3 cipherText
    label) (Esys_Decapsulate_Finish outSymSeed).

Definition Esys_DictionaryAttackLockReset (fuel : nat) (lockHandle shandle1 shandle2 shandle3 : Z)
    : EM unit :=
  esys_one_call fuel (Esys_DictionaryAttackLockReset_Async lockHandle shandle1 shandle2 shandle3)
    Esys_DictionaryAttackLockReset_Finish.

Definition Esys_DictionaryAttackParameters (fuel : nat) (lockHandle shandle1 shandle2 shandle3
    newMaxTries newRecoveryTime lockoutRecovery : Z) : EM unit :=
  esys_one_call fuel (Esys_DictionaryAttackParameters_Async lockHandle shandle1 shandle2 shandle3
    newMaxTries newRecoveryTime lockoutRecovery) Esys_DictionaryAttackParameters_Finish.

Definition Esys_Duplicate (fuel : nat) (objectHandle newParentHandle shandle1 shandle2 shandle3 :
    Z) (encryptionKeyIn : option TPM2B) (symmetricAlg : option TPMT_SYM_DEF_OBJECT)
    (encryptionKeyOut duplicate outSymSeed : bool) : EM (option TPM2B * (option TPM2B *
    (option TPM2B * unit))) :=
  esys_one_call fuel (Esys_Duplicate_Async objectHandle newParentHandle shandle1 shandle2 shandle3
    encryptionKeyIn symmetricAlg) (Esys_Duplicate_Finish encryptionKeyOut duplicate outSymSeed).

Definition Esys_ECC_Decrypt (fuel : nat) (keyHandle shandle1 shandle2 shandle3 : Z)
    (c1 : option (TPM2B_SUB TPMS_ECC_POINT)) (c2 c3 : option TPM2B)
    (inScheme : option TPMT_KDF_SCHEME) (plainText : bool) : EM (option TPM2B * unit) :=
  esys_one_call fuel (Esys_ECC_Decrypt_Async keyHandle shandle1 shandle2 shandle3 c1 c2 c3
    inScheme) (Esys_ECC_Decrypt_Finish plainText).

Definition Esys_ECC_Encrypt (fuel : nat) (keyHandle shandle1 shandle2 shandle3 : Z)
    (plainText : option TPM2B) (inScheme : option TPMT_KDF_SCHEME) (c1 c2 c3 : bool) : EM
    (option (TPM2B_SUB TPMS_ECC_POINT) * (option TPM2B * (option TPM2B * unit))) :=
  esys_one_call fuel (Esys_ECC_Encrypt_Async keyHandle shandle1 shandle2 shandle3 plainText
    inScheme) (Esys_ECC_Encrypt_Finish c1 c2 c3).

Definition Esys_ECC_Parameters (fuel : nat) (shandle1 shandle2 shandle3 curveID : Z) (parameters :
    bool) : EM (option TPMS_ALGORITHM_DETAIL_ECC * unit) :=
  esys_one_call fuel (Esys_ECC_Parameters_Async shandle1 shandle2 shandle3 curveID)
    (Esys_ECC_Parameters_Finish parameters).

Definition Esys_ECDH_KeyGen (fuel : nat) (keyHandle shandle1 shandle2 shandle3 : Z) (zPoint
    pubPoint : bool) : EM (option (TPM2B_SUB TPMS_ECC_POINT) * (option (TPM2B_SUB TPMS_ECC_POINT)
    * unit)) :=
  esys_one_call fuel (Esys_ECDH_KeyGen_Async keyHandle shandle1 shandle2 shandle3)
    (Esys_ECDH_KeyGen_Finish zPoint pubPoint).

Definition Esys_ECDH_ZGen (fuel : nat) (keyHandle shandle1 shandle2 shandle3 : Z)
    (inPoint : option (TPM2B_SUB TPMS_ECC_POINT)) (outPoint : bool) : EM
    (option (TPM2B_SUB TPMS_ECC_POINT) * unit) :=
  esys_one_call fuel (Esys_ECDH_ZGen_Async keyHandle shandle1 shandle2 shandle3 inPoint)
    (Esys_ECDH_ZGen_Finish outPoint).

Definition Esys_EC_Ephemeral (fuel : nat) (shandle1 shandle2 shandle3 curveID : Z) (Q : bool)
    (counter : option Z) : EM (option (TPM2B_SUB TPMS_ECC_POINT) * (option Z * unit)) :=
  esys_one_call fuel (Esys_EC_Ephemeral_Async shandle1 shandle2 shandle3 curveID)
    (Esys_EC_Ephemeral_Finish Q counter).

Definition Esys_Encapsulate (fuel : nat) (keyHandle shandle1 shandle2 shandle3 : Z)
    (label : option TPM2B) (outSymSeed cipherText : bool) : EM (option TPM2B * (option TPM2B *
    unit)) :=
  esys_one_call fuel (Esys_Encapsulate_Async keyHandle shandle1 shandle2 shandle3 label)
    (Esys_Encapsulate_Finish outSymSeed cipherText).

Definition Esys_EncryptDecrypt (fuel : nat) (keyHandle shandle1 shandle2 shandle3 decrypt mode :
    Z) (ivIn inData : option TPM2B) (outData ivOut : bool) : EM (option TPM2B * (option TPM2B *
    unit)) :=
  esys_one_call fuel (Esys_EncryptDecrypt_Async keyHandle shandle1 shandle2 shandle3 decrypt mode
    ivIn inData) (Esys_EncryptDecrypt_Finish outData ivOut).

Definition Esys_EncryptDecrypt2 (fuel : nat) (keyHandle shandle1 shandle2 shandle3 : Z)
    (inData : option TPM2B) (decrypt mode : Z) (ivIn : option TPM2B) (outData ivOut : bool) : EM
    (option TPM2B * (option TPM2B * unit)) :=
  esys_one_call fuel (Esys_EncryptDecrypt2_Async keyHandle shandle1 shandle2 shandle3 inData
    decrypt mode ivIn) (Esys_EncryptDecrypt2_Finish outData ivOut).

Definition Esys_EventSequenceComplete (fuel : nat) (pcrHandle sequenceHandle shandle1 shandle2
    shandle3 : Z) (buffer : option TPM2B) (results : bool) : EM (option (TPML TPMT_HA) * unit) :=
  esys_one_call fuel (Esys_EventSequenceComplete_Async pcrHandle sequenceHandle shandle1 shandle2
    shandle3 buffer) (Esys_EventSequenceComplete_Finish results).

Definition Esys_EvictControl (fuel : nat) (auth objectHandle shandle1 shandle2 shandle3
    persistentHandle : Z) (newObjectHandle : bool) : EM Z :=
  esys_one_call fuel (Esys_EvictControl_Async auth objectHandle shandle1 shandle2 shandle3
    persistentHandle) (Esys_EvictControl_Finish newObjectHandle).

Definition Esys_FieldUpgradeData (fuel : nat) (shandle1 shandle2 shandle3 : Z)
    (fuData : option TPM2B) (nextDigest firstDigest : bool) : EM (option TPMT_HA * (option TPMT_HA
    * unit)) :=
  esys_one_call fuel (Esys_FieldUpgradeData_Async shandle1 shandle2 shandle3 fuData)
    (Esys_FieldUpgradeData_Finish nextDigest firstDigest).

Definition Esys_FieldUpgradeStart (fuel : nat) (authorization keyHandle shandle1 shandle2 shandle3
    : Z) (fuDigest : option TPM2B) (manifestSignature : option TPMT_SIGNATURE) : EM unit :=
  esys_one_call fuel (Esys_FieldUpgradeStart_Async authorization keyHandle shandle1 shandle2
    shandle3 fuDigest manifestSignature) Esys_FieldUpgradeStart_Finish.

Definition Esys_FirmwareRead (fuel : nat) (shandle1 shandle2 shandle3 sequenceNumber : Z) (fuData
    : bool) : EM (option TPM2B * unit) :=
  esys_one_call fuel (Esys_FirmwareRead_Async shandle1 shandle2 shandle3 sequenceNumber)
    (Esys_FirmwareRead_Finish fuData).

Definition Esys_GetCapability (fuel : nat) (shandle1 shandle2 shandle3 capability property
    propertyCount : Z) (moreData : option Z) (capabilityData : bool) : EM (option Z *
    (option TPMS_CAPABILITY_DATA * unit)) :=
  esys_one_call fuel (Esys_GetCapability_Async shandle1 shandle2 shandle3 capability property
    propertyCount) (Esys_GetCapability_Finish moreData capabilityData).

Definition Esys_GetCommandAuditDigest (fuel : nat) (privacyHandle signHandle shandle1 shandle2
    shandle3 : Z) (qualifyingData : option TPM2B) (inScheme : option TPMT_SIG_SCHEME) (auditInfo
    signature : bool) : EM (option TPM2B * (option TPMT_SIGNATURE * unit)) :=
  esys_one_call fuel (Esys_GetCommandAuditDigest_Async privacyHandle signHandle shandle1 shandle2
    shandle3 qualifyingData inScheme) (Esys_GetCommandAuditDigest_Finish auditInfo signature).

Definition Esys_GetRandom (fuel : nat) (shandle1 shandle2 shandle3 bytesRequested : Z)
    (randomBytes : bool) : EM (option TPM2B * unit) :=
  esys_one_call fuel (Esys_GetRandom_Async shandle1 shandle2 shandle3 bytesRequested)
    (Esys_GetRandom_Finish randomBytes).

Definition Esys_GetSessionAuditDigest (fuel : nat) (privacyAdminHandle signHandle sessionHandle
    shandle1 shandle2 shandle3 : Z) (qualifyingData : option TPM2B)
    (inScheme : option TPMT_SIG_SCHEME) (auditInfo signature : bool) : EM (option TPM2B *
    (option TPMT_SIGNATURE * unit)) :=
  esys_one_call fuel (Esys_GetSessionAuditDigest_Async privacyAdminHandle signHandle sessionHandle
    shandle1 shandle2 shandle3 qualifyingData inScheme) (Esys_GetSessionAuditDigest_Finish
    auditInfo signature).

Definition Esys_GetTestResult (fuel : nat) (shandle1 shandle2 shandle3 : Z) (outData : bool)
    (testResult : option Z) : EM (option TPM2B * (option Z * unit)) :=
  esys_one_call fuel (Esys_GetTestResult_Async shandle1 shandle2 shandle3)
    (Esys_GetTestResult_Finish outData testResult).

Definition Esys_GetTime (fuel : nat) (privacyAdminHandle signHandle shandle1 shandle2 shandle3 :
    Z) (qualifyingData : option TPM2B) (inScheme : option TPMT_SIG_SCHEME) (timeInfo signature :
    bool) : EM (option TPM2B * (option TPMT_SIGNATURE * unit)) :=
  esys_one_call fuel (Esys_GetTime_Async privacyAdminHandle signHandle shandle1 shandle2 shandle3
    qualifyingData inScheme) (Esys_GetTime_Finish timeInfo signature).

Definition Esys_HMAC (fuel : nat) (handle shandle1 shandle2 shandle3 : Z) (buffer : option TPM2B)
    (hashAlg : Z) (outHMAC : bool) : EM (option TPM2B * unit) :=
  esys_one_call fuel (Esys_HMAC_Async handle shandle1 shandle2 shandle3 buffer hashAlg)
    (Esys_HMAC_Finish outHMAC).

Definition Esys_HMAC_Start (fuel : nat) (handle shandle1 shandle2 shandle3 : Z)
    (auth : option TPM2B) (hashAlg : Z) (sequenceHandle : bool) : EM Z :=
  esys_one_call fuel (Esys_HMAC_Start_Async handle shandle1 shandle2 shandle3 auth hashAlg)
    (Esys_HMAC_Start_Finish sequenceHandle).

Definition Esys_Hash (fuel : nat) (shandle1 shandle2 shandle3 : Z) (data : option TPM2B) (hashAlg
    hierarchy : Z) (outHash validation : bool) : EM (option TPM2B * (option TPMT_TK_HASHCHECK *
    unit)) :=
  esys_one_call fuel (Esys_Hash_Async shandle1 shandle2 shandle3 data hashAlg hierarchy)
    (Esys_Hash_Finish outHash validation).

Definition Esys_HashSequenceStart (fuel : nat) (shandle1 shandle2 shandle3 : Z)
    (auth : option TPM2B) (hashAlg : Z) (sequenceHandle : bool) : EM Z :=
  esys_one_call fuel (Esys_HashSequenceStart_Async shandle1 shandle2 shandle3 auth hashAlg)
    (Esys_HashSequenceStart_Finish sequenceHandle).

Definition Esys_HierarchyChangeAuth (fuel : nat) (authHandle shandle1 shandle2 shandle3 : Z)
    (newAuth : option TPM2B) : EM unit :=
  esys_one_call fuel (Esys_HierarchyChangeAuth_Async authHandle shandle1 shandle2 shandle3
    newAuth) Esys_HierarchyChangeAuth_Finish.

Definition Esys_HierarchyControl (fuel : nat) (authHandle shandle1 shandle2 shandle3 enable state
    : Z) : EM unit :=
  esys_one_call fuel (Esys_HierarchyControl_Async authHandle shandle1 shandle2 shandle3 enable
    state) Esys_HierarchyControl_Finish.

Definition Esys_Import (fuel : nat) (parentHandle shandle1 shandle2 shandle3 : Z)
    (encryptionKey : option TPM2B) (objectPublic : option (TPM2B_SUB TPMT_PUBLIC)) (duplicate
    inSymSeed : option TPM2B) (symmetricAlg : option TPMT_SYM_DEF_OBJECT) (outPrivate : bool) : EM
    (option TPM2B * unit) :=
  esys_one_call fuel (Esys_Import_Async parentHandle shandle1 shandle2 shandle3 encryptionKey
    objectPublic duplicate inSymSeed symmetricAlg) (Esys_Import_Finish outPrivate).

Definition Esys_IncrementalSelfTest (fuel : nat) (shandle1 shandle2 shandle3 : Z)
    (toTest : option (TPML Z)) (toDoList : bool) : EM (option (TPML Z) * unit) :=
  esys_one_call fuel (Esys_IncrementalSelfTest_Async shandle1 shandle2 shandle3 toTest)
    (Esys_IncrementalSelfTest_Finish toDoList).

Definition Esys_Load (fuel : nat) (parentHandle shandle1 shandle2 shandle3 : Z)
    (inPrivate : option TPM2B) (inPublic : option (TPM2B_SUB TPMT_PUBLIC)) (objectHandle : bool)
    : EM Z :=
  esys_one_call fuel (Esys_Load_Async parentHandle shandle1 shandle2 shandle3 inPrivate inPublic)
    (Esys_Load_Finish objectHandle).

Definition Esys_LoadExternal (fuel : nat) (shandle1 shandle2 shandle3 : Z)
    (inPrivate : option (TPM2B_SUB TPMT_SENSITIVE)) (inPublic : option (TPM2B_SUB TPMT_PUBLIC))
    (hierarchy : Z) (objectHandle : bool) : EM Z :=
  esys_one_call fuel (Esys_LoadExternal_Async shandle1 shandle2 shandle3 inPrivate inPublic
    hierarchy) (Esys_LoadExternal_Finish objectHandle).

Definition Esys_MAC (fuel : nat) (handle handleSession1 optionalSession2 optionalSession3 : Z)
    (buffer : option TPM2B) (inScheme : Z) (outMAC : bool) : EM (option TPM2B * unit) :=
  esys_one_call fuel (Esys_MAC_Async handle handleSession1 optionalSession2 optionalSession3
    buffer inScheme) (Esys_MAC_Finish outMAC).

Definition Esys_MAC_Start (fuel : nat) (handle handleSession1 optionalSession2 optionalSession3 :
    Z) (auth : option TPM2B) (inScheme : Z) (sequenceHandle : bool) : EM Z :=
  esys_one_call fuel (Esys_MAC_Start_Async handle handleSession1 optionalSession2 optionalSession3
    auth inScheme) (Esys_MAC_Start_Finish sequenceHandle).

Definition Esys_MakeCredential (fuel : nat) (handle shandle1 shandle2 shandle3 : Z) (credential
    objectName : option TPM2B) (credentialBlob secret : bool) : EM (option TPM2B * (option TPM2B *
    unit)) :=
  esys_one_call fuel (Esys_MakeCredential_Async handle shandle1 shandle2 shandle3 credential
    objectName) (Esys_MakeCredential_Finish credentialBlob secret).

Definition Esys_NV_Certify (fuel : nat) (signHandle authHandle nvIndex shandle1 shandle2 shandle3
    : Z) (qualifyingData : option TPM2B) (inScheme : option TPMT_SIG_SCHEME) (size offset : Z)
    (certifyInfo signature : bool) : EM (option TPM2B * (option TPMT_SIGNATURE * unit)) :=
  esys_one_call fuel (Esys_NV_Certify_Async signHandle authHandle nvIndex shandle1 shandle2
    shandle3 qualifyingData inScheme size offset) (Esys_NV_Certify_Finish certifyInfo signature).

Definition Esys_NV_ChangeAuth (fuel : nat) (nvIndex shandle1 shandle2 shandle3 : Z)
    (newAuth : option TPM2B) : EM unit :=
  esys_one_call fuel (Esys_NV_ChangeAuth_Async nvIndex shandle1 shandle2 shandle3 newAuth)
    Esys_NV_ChangeAuth_Finish.

Definition Esys_NV_DefineSpace (fuel : nat) (authHandle shandle1 shandle2 shandle3 : Z)
    (auth : option TPM2B) (publicInfo : option (TPM2B_SUB TPMS_NV_PUBLIC)) (nvHandle : bool)
    : EM Z :=
  esys_one_call fuel (Esys_NV_DefineSpace_Async authHandle shandle1 shandle2 shandle3 auth
    publicInfo) (Esys_NV_DefineSpace_Finish nvHandle).

Definition Esys_NV_Extend (fuel : nat) (authHandle nvIndex shandle1 shandle2 shandle3 : Z)
    (data : option TPM2B) : EM unit :=
  esys_one_call fuel (Esys_NV_Extend_Async authHandle nvIndex shandle1 shandle2 shandle3 data)
    Esys_NV_Extend_Finish.

Definition Esys_NV_GlobalWriteLock (fuel : nat) (authHandle shandle1 shandle2 shandle3 : Z)
    : EM unit :=
  esys_one_call fuel (Esys_NV_GlobalWriteLock_Async authHandle shandle1 shandle2 shandle3)
    Esys_NV_GlobalWriteLock_Finish.

Definition Esys_NV_Increment (fuel : nat) (authHandle nvIndex shandle1 shandle2 shandle3 : Z)
    : EM unit :=
  esys_one_call fuel (Esys_NV_Increment_Async authHandle nvIndex shandle1 shandle2 shandle3)
    Esys_NV_Increment_Finish.

Definition Esys_NV_Read (fuel : nat) (authHandle nvIndex shandle1 shandle2 shandle3 size offset :
    Z) (data : bool) : EM (option TPM2B * unit) :=
  esys_one_call fuel (Esys_NV_Read_Async authHandle nvIndex shandle1 shandle2 shandle3 size
    offset) (Esys_NV_Read_Finish data).

Definition Esys_NV_ReadLock (fuel : nat) (authHandle nvIndex shandle1 shandle2 shandle3 : Z)
    : EM unit :=
  esys_one_call fuel (Esys_NV_ReadLock_Async authHandle nvIndex shandle1 shandle2 shandle3)
    Esys_NV_ReadLock_Finish.

Definition Esys_NV_ReadPublic (fuel : nat) (nvIndex shandle1 shandle2 shandle3 : Z) (nvPublic
    nvName : bool) : EM (option (TPM2B_SUB TPMS_NV_PUBLIC) * option TPM2B) :=
  esys_one_call fuel (Esys_NV_ReadPublic_Async nvIndex shandle1 shandle2 shandle3)
    (Esys_NV_ReadPublic_Finish nvPublic nvName).

Definition Esys_NV_SetBits (fuel : nat) (authHandle nvIndex shandle1 shandle2 shandle3 bits : Z)
    : EM unit :=
  esys_one_call fuel (Esys_NV_SetBits_Async authHandle nvIndex shandle1 shandle2 shandle3 bits)
    Esys_NV_SetBits_Finish.

Definition Esys_NV_UndefineSpace (fuel : nat) (authHandle nvIndex shandle1 shandle2 shandle3 : Z)
    : EM unit :=
  esys_one_call fuel (Esys_NV_UndefineSpace_Async authHandle nvIndex shandle1 shandle2 shandle3)
    Esys_NV_UndefineSpace_Finish.

Definition Esys_NV_UndefineSpaceSpecial (fuel : nat) (nvIndex platform shandle1 shandle2 shandle3
    : Z) : EM unit :=
  esys_one_call fuel (Esys_NV_UndefineSpaceSpecial_Async nvIndex platform shandle1 shandle2
    shandle3) Esys_NV_UndefineSpaceSpecial_Finish.

Definition Esys_NV_Write (fuel : nat) (authHandle nvIndex shandle1 shandle2 shandle3 : Z)
    (data : option TPM2B) (offset : Z) : EM unit :=
  esys_one_call fuel (Esys_NV_Write_Async authHandle nvIndex shandle1 shandle2 shandle3 data
    offset) Esys_NV_Write_Finish.

Definition Esys_NV_WriteLock (fuel : nat) (authHandle nvIndex shandle1 shandle2 shandle3 : Z)
    : EM unit :=
  esys_one_call fuel (Esys_NV_WriteLock_Async authHandle nvIndex shandle1 shandle2 shandle3)
    Esys_NV_WriteLock_Finish.

Definition Esys_ObjectChangeAuth (fuel : nat) (objectHandle parentHandle shandle1 shandle2
    shandle3 : Z) (newAuth : option TPM2B) (outPrivate : bool) : EM (option TPM2B * unit) :=
  esys_one_call fuel (Esys_ObjectChangeAuth_Async objectHandle parentHandle shandle1 shandle2
    shandle3 newAuth) (Esys_ObjectChangeAuth_Finish outPrivate).

Definition Esys_PCR_Allocate (fuel : nat) (authHandle shandle1 shandle2 shandle3 : Z)
    (pcrAllocation : option (TPML TPMS_PCR_SELECTION)) (allocationSuccess maxPCR sizeNeeded
    sizeAvailable : option Z) : EM (option Z * (option Z * (option Z * (option Z * unit)))) :=
  esys_one_call fuel (Esys_PCR_Allocate_Async authHandle shandle1 shandle2 shandle3 pcrAllocation)
    (Esys_PCR_Allocate_Finish allocationSuccess maxPCR sizeNeeded sizeAvailable).

Definition Esys_PCR_Event (fuel : nat) (pcrHandle shandle1 shandle2 shandle3 : Z)
    (eventData : option TPM2B) (digests : bool) : EM (option (TPML TPMT_HA) * unit) :=
  esys_one_call fuel (Esys_PCR_Event_Async pcrHandle shandle1 shandle2 shandle3 eventData)
    (Esys_PCR_Event_Finish digests).

Definition Esys_PCR_Extend (fuel : nat) (pcrHandle shandle1 shandle2 shandle3 : Z)
    (digests : option (TPML TPMT_HA)) : EM unit :=
  esys_one_call fuel (Esys_PCR_Extend_Async pcrHandle shandle1 shandle2 shandle3 digests)
    Esys_PCR_Extend_Finish.

Definition Esys_PCR_Read (fuel : nat) (shandle1 shandle2 shandle3 : Z)
    (pcrSelectionIn : option (TPML TPMS_PCR_SELECTION)) (pcrUpdateCounter : option Z)
    (pcrSelectionOut pcrValues : bool) : EM (option Z * (option (TPML TPMS_PCR_SELECTION) *
    (option (TPML TPM2B) * unit))) :=
  esys_one_call fuel (Esys_PCR_Read_Async shandle1 shandle2 shandle3 pcrSelectionIn)
    (Esys_PCR_Read_Finish pcrUpdateCounter pcrSelectionOut pcrValues).

Definition Esys_PCR_Reset (fuel : nat) (pcrHandle shandle1 shandle2 shandle3 : Z) : EM unit :=
  esys_one_call fuel (Esys_PCR_Reset_Async pcrHandle shandle1 shandle2 shandle3)
    Esys_PCR_Reset_Finish.

Definition Esys_PCR_SetAuthPolicy (fuel : nat) (authHandle shandle1 shandle2 shandle3 : Z)
    (authPolicy : option TPM2B) (hashAlg pcrNum : Z) : EM unit :=
  esys_one_call fuel (Esys_PCR_SetAuthPolicy_Async authHandle shandle1 shandle2 shandle3
    authPolicy hashAlg pcrNum) Esys_PCR_SetAuthPolicy_Finish.

Definition Esys_PCR_SetAuthValue (fuel : nat) (pcrHandle shandle1 shandle2 shandle3 : Z)
    (auth : option TPM2B) : EM unit :=
  esys_one_call fuel (Esys_PCR_SetAuthValue_Async pcrHandle shandle1 shandle2 shandle3 auth)
    Esys_PCR_SetAuthValue_Finish.

Definition Esys_PP_Commands (fuel : nat) (auth shandle1 shandle2 shandle3 : Z) (setList clearList
    : option (TPML Z)) : EM unit :=
  esys_one_call fuel (Esys_PP_Commands_Async auth shandle1 shandle2 shandle3 setList clearList)
    Esys_PP_Commands_Finish.

Definition Esys_PolicyAuthValue (fuel : nat) (policySession shandle1 shandle2 shandle3 : Z)
    : EM unit :=
  esys_one_call fuel (Esys_PolicyAuthValue_Async policySession shandle1 shandle2 shandle3)
    Esys_PolicyAuthValue_Finish.

Definition Esys_PolicyAuthorize (fuel : nat) (policySession shandle1 shandle2 shandle3 : Z)
    (approvedPolicy policyRef keySign : option TPM2B) (checkTicket : option TPMT_TK_VERIFIED)
    : EM unit :=
  esys_one_call fuel (Esys_PolicyAuthorize_Async policySession shandle1 shandle2 shandle3
    approvedPolicy policyRef keySign checkTicket) Esys_PolicyAuthorize_Finish.

Definition Esys_PolicyAuthorizeNV (fuel : nat) (authHandle nvIndex policySession shandle1 shandle2
    shandle3 : Z) : EM unit :=
  esys_one_call fuel (Esys_PolicyAuthorizeNV_Async authHandle nvIndex policySession shandle1
    shandle2 shandle3) Esys_PolicyAuthorizeNV_Finish.

Definition Esys_PolicyCommandCode (fuel : nat) (policySession shandle1 shandle2 shandle3 code : Z)
    : EM unit :=
  esys_one_call fuel (Esys_PolicyCommandCode_Async policySession shandle1 shandle2 shandle3 code)
    Esys_PolicyCommandCode_Finish.

Definition Esys_PolicyCounterTimer (fuel : nat) (policySession shandle1 shandle2 shandle3 : Z)
    (operandB : option TPM2B) (offset operation : Z) : EM unit :=
  esys_one_call fuel (Esys_PolicyCounterTimer_Async policySession shandle1 shandle2 shandle3
    operandB offset operation) Esys_PolicyCounterTimer_Finish.

Definition Esys_PolicyCpHash (fuel : nat) (policySession shandle1 shandle2 shandle3 : Z)
    (cpHashA : option TPM2B) : EM unit :=
  esys_one_call fuel (Esys_PolicyCpHash_Async policySession shandle1 shandle2 shandle3 cpHashA)
    Esys_PolicyCpHash_Finish.

Definition Esys_PolicyDuplicationSelect (fuel : nat) (policySession shandle1 shandle2 shandle3 :
    Z) (objectName newParentName : option TPM2B) (includeObject : Z) : EM unit :=
  esys_one_call fuel (Esys_PolicyDuplicationSelect_Async policySession shandle1 shandle2 shandle3
    objectName newParentName includeObject) Esys_PolicyDuplicationSelect_Finish.

Definition Esys_PolicyGetDigest (fuel : nat) (policySession shandle1 shandle2 shandle3 : Z)
    (policyDigest : bool) : EM (option TPM2B * unit) :=
  esys_one_call fuel (Esys_PolicyGetDigest_Async policySession shandle1 shandle2 shandle3)
    (Esys_PolicyGetDigest_Finish policyDigest).

Definition Esys_PolicyLocality (fuel : nat) (policySession shandle1 shandle2 shandle3 locality :
    Z) : EM unit :=
  esys_one_call fuel (Esys_PolicyLocality_Async policySession shandle1 shandle2 shandle3 locality)
    Esys_PolicyLocality_Finish.

Definition Esys_PolicyNV (fuel : nat) (authHandle nvIndex policySession shandle1 shandle2 shandle3
    : Z) (operandB : option TPM2B) (offset operation : Z) : EM unit :=
  esys_one_call fuel (Esys_PolicyNV_Async authHandle nvIndex policySession shandle1 shandle2
    shandle3 operandB offset operation) Esys_PolicyNV_Finish.

Definition Esys_PolicyNameHash (fuel : nat) (policySession shandle1 shandle2 shandle3 : Z)
    (nameHash : option TPM2B) : EM unit :=
  esys_one_call fuel (Esys_PolicyNameHash_Async policySession shandle1 shandle2 shandle3 nameHash)
    Esys_PolicyNameHash_Finish.

Definition Esys_PolicyNvWritten (fuel : nat) (policySession shandle1 shandle2 shandle3 writtenSet
    : Z) : EM unit :=
  esys_one_call fuel (Esys_PolicyNvWritten_Async policySession shandle1 shandle2 shandle3
    writtenSet) Esys_PolicyNvWritten_Finish.

Definition Esys_PolicyOR (fuel : nat) (policySession shandle1 shandle2 shandle3 : Z)
    (pHashList : option (TPML TPM2B)) : EM unit :=
  esys_one_call fuel (Esys_PolicyOR_Async policySession shandle1 shandle2 shandle3 pHashList)
    Esys_PolicyOR_Finish.

Definition Esys_PolicyPCR (fuel : nat) (policySession shandle1 shandle2 shandle3 : Z)
    (pcrDigest : option TPM2B) (pcrs : option (TPML TPMS_PCR_SELECTION)) : EM unit :=
  esys_one_call fuel (Esys_PolicyPCR_Async policySession shandle1 shandle2 shandle3 pcrDigest
    pcrs) Esys_PolicyPCR_Finish.

Definition Esys_PolicyPassword (fuel : nat) (policySession shandle1 shandle2 shandle3 : Z)
    : EM unit :=
  esys_one_call fuel (Esys_PolicyPassword_Async policySession shandle1 shandle2 shandle3)
    Esys_PolicyPassword_Finish.

Definition Esys_PolicyPhysicalPresence (fuel : nat) (policySession shandle1 shandle2 shandle3 : Z)
    : EM unit :=
  esys_one_call fuel (Esys_PolicyPhysicalPresence_Async policySession shandle1 shandle2 shandle3)
    Esys_PolicyPhysicalPresence_Finish.

Definition Esys_PolicyRestart (fuel : nat) (sessionHandle shandle1 shandle2 shandle3 : Z)
    : EM unit :=
  esys_one_call fuel (Esys_PolicyRestart_Async sessionHandle shandle1 shandle2 shandle3)
    Esys_PolicyRestart_Finish.

Definition Esys_PolicySecret (fuel : nat) (authHandle policySession shandle1 shandle2 shandle3 :
    Z) (nonceTPM cpHashA policyRef : option TPM2B) (expiration : Z) (timeout policyTicket : bool)
    : EM (option TPM2B * (option TPMT_TK_AUTH * unit)) :=
  esys_one_call fuel (Esys_PolicySecret_Async authHandle policySession shandle1 shandle2 shandle3
    nonceTPM cpHashA policyRef expiration) (Esys_PolicySecret_Finish timeout policyTicket).

Definition Esys_PolicySigned (fuel : nat) (authObject policySession shandle1 shandle2 shandle3 :
    Z) (nonceTPM cpHashA policyRef : option TPM2B) (expiration : Z) (auth : option TPMT_SIGNATURE)
    (timeout policyTicket : bool) : EM (option TPM2B * (option TPMT_TK_AUTH * unit)) :=
  esys_one_call fuel (Esys_PolicySigned_Async authObject policySession shandle1 shandle2 shandle3
    nonceTPM cpHashA policyRef expiration auth) (Esys_PolicySigned_Finish timeout policyTicket).

Definition Esys_PolicyTemplate (fuel : nat) (policySession shandle1 shandle2 shandle3 : Z)
    (templateHash : option TPM2B) : EM unit :=
  esys_one_call fuel (Esys_PolicyTemplate_Async policySession shandle1 shandle2 shandle3
    templateHash) Esys_PolicyTemplate_Finish.

Definition Esys_PolicyTicket (fuel : nat) (policySession shandle1 shandle2 shandle3 : Z) (timeout
    cpHashA policyRef authName : option TPM2B) (ticket : option TPMT_TK_AUTH) : EM unit :=
  esys_one_call fuel (Esys_PolicyTicket_Async policySession shandle1 shandle2 shandle3 timeout
    cpHashA policyRef authName ticket) Esys_PolicyTicket_Finish.

Definition Esys_Policy_AC_SendSelect (fuel : nat) (policySession1 optionalSession2
    optionalSession3 : Z) (objectName authHandleName acName : option TPM2B) (includeObject : Z)
    : EM unit :=
  esys_one_call fuel (Esys_Policy_AC_SendSelect_Async policySession1 optionalSession2
    optionalSession3 objectName authHandleName acName includeObject)
    Esys_Policy_AC_SendSelect_Finish.

Definition Esys_Quote (fuel : nat) (signHandle shandle1 shandle2 shandle3 : Z)
    (qualifyingData : option TPM2B) (inScheme : option TPMT_SIG_SCHEME)
    (PCRselect : option (TPML TPMS_PCR_SELECTION)) (quoted signature : bool) : EM (option TPM2B *
    (option TPMT_SIGNATURE * unit)) :=
  esys_one_call fuel (Esys_Quote_Async signHandle shandle1 shandle2 shandle3 qualifyingData
    inScheme PCRselect) (Esys_Quote_Finish quoted signature).

Definition Esys_RSA_Decrypt (fuel : nat) (keyHandle shandle1 shandle2 shandle3 : Z)
    (cipherText : option TPM2B) (inScheme : option TPMT_RSA_DECRYPT) (label : option TPM2B)
    (message : bool) : EM (option TPM2B * unit) :=
  esys_one_call fuel (Esys_RSA_Decrypt_Async keyHandle shandle1 shandle2 shandle3 cipherText
    inScheme label) (Esys_RSA_Decrypt_Finish message).

Definition Esys_RSA_Encrypt (fuel : nat) (keyHandle shandle1 shandle2 shandle3 : Z)
    (message : option TPM2B) (inScheme : option TPMT_RSA_DECRYPT) (label : option TPM2B) (outData
    : bool) : EM (option TPM2B * unit) :=
  esys_one_call fuel (Esys_RSA_Encrypt_Async keyHandle shandle1 shandle2 shandle3 message inScheme
    label) (Esys_RSA_Encrypt_Finish outData).

Definition Esys_ReadClock (fuel : nat) (shandle1 shandle2 shandle3 : Z) (currentTime : bool) : EM
    (option TPMS_TIME_INFO * unit) :=
  esys_one_call fuel (Esys_ReadClock_Async shandle1 shandle2 shandle3) (Esys_ReadClock_Finish
    currentTime).

Definition Esys_ReadPublic (fuel : nat) (objectHandle shandle1 shandle2 shandle3 : Z) (outPublic
    name qualifiedName : bool) : EM (option (TPM2B_SUB TPMT_PUBLIC) * (option TPM2B *
    (option TPM2B * unit))) :=
  esys_one_call fuel (Esys_ReadPublic_Async objectHandle shandle1 shandle2 shandle3)
    (Esys_ReadPublic_Finish outPublic name qualifiedName).

Definition Esys_Rewrap (fuel : nat) (oldParent newParent shandle1 shandle2 shandle3 : Z)
    (inDuplicate name inSymSeed : option TPM2B) (outDuplicate outSymSeed : bool) : EM
    (option TPM2B * (option TPM2B * unit)) :=
  esys_one_call fuel (Esys_Rewrap_Async oldParent newParent shandle1 shandle2 shandle3 inDuplicate
    name inSymSeed) (Esys_Rewrap_Finish outDuplicate outSymSeed).

Definition Esys_SelfTest (fuel : nat) (shandle1 shandle2 shandle3 fullTest : Z) : EM unit :=
  esys_one_call fuel (Esys_SelfTest_Async shandle1 shandle2 shandle3 fullTest)
    Esys_SelfTest_Finish.

Definition Esys_SequenceComplete (fuel : nat) (sequenceHandle shandle1 shandle2 shandle3 : Z)
    (buffer : option TPM2B) (hierarchy : Z) (result validation : bool) : EM (option TPM2B *
    (option TPMT_TK_HASHCHECK * unit)) :=
  esys_one_call fuel (Esys_SequenceComplete_Async sequenceHandle shandle1 shandle2 shandle3 buffer
    hierarchy) (Esys_SequenceComplete_Finish result validation).

Definition Esys_SequenceUpdate (fuel : nat) (sequenceHandle shandle1 shandle2 shandle3 : Z)
    (buffer : option TPM2B) : EM unit :=
  esys_one_call fuel (Esys_SequenceUpdate_Async sequenceHandle shandle1 shandle2 shandle3 buffer)
    Esys_SequenceUpdate_Finish.

Definition Esys_SetAlgorithmSet (fuel : nat) (authHandle shandle1 shandle2 shandle3 algorithmSet :
    Z) : EM unit :=
  esys_one_call fuel (Esys_SetAlgorithmSet_Async authHandle shandle1 shandle2 shandle3
    algorithmSet) Esys_SetAlgorithmSet_Finish.

Definition Esys_SetCommandCodeAuditStatus (fuel : nat) (auth shandle1 shandle2 shandle3 auditAlg :
    Z) (setList clearList : option (TPML Z)) : EM unit :=
  esys_one_call fuel (Esys_SetCommandCodeAuditStatus_Async auth shandle1 shandle2 shandle3
    auditAlg setList clearList) Esys_SetCommandCodeAuditStatus_Finish.

Definition Esys_SetPrimaryPolicy (fuel : nat) (authHandle shandle1 shandle2 shandle3 : Z)
    (authPolicy : option TPM2B) (hashAlg : Z) : EM unit :=
  esys_one_call fuel (Esys_SetPrimaryPolicy_Async authHandle shandle1 shandle2 shandle3 authPolicy
    hashAlg) Esys_SetPrimaryPolicy_Finish.

Definition Esys_Shutdown (fuel : nat) (shandle1 shandle2 shandle3 shutdownType : Z) : EM unit :=
  esys_one_call fuel (Esys_Shutdown_Async shandle1 shandle2 shandle3 shutdownType)
    Esys_Shutdown_Finish.

Definition Esys_Sign (fuel : nat) (keyHandle shandle1 shandle2 shandle3 : Z)
    (digest : option TPM2B) (inScheme : option TPMT_SIG_SCHEME)
    (validation : option TPMT_TK_HASHCHECK) (signature : bool) : EM (option TPMT_SIGNATURE * unit)
    :=
  esys_one_call fuel (Esys_Sign_Async keyHandle shandle1 shandle2 shandle3 digest inScheme
    validation) (Esys_Sign_Finish signature).

Definition Esys_SignDigest (fuel : nat) (keyHandle shandle1 shandle2 shandle3 : Z)
    (digest : option TPM2B) (inScheme : option TPMT_SIG_SCHEME)
    (validation : option TPMT_TK_HASHCHECK) (signature : bool) : EM (option TPMT_SIGNATURE * unit)
    :=
  esys_one_call fuel (Esys_SignDigest_Async keyHandle shandle1 shandle2 shandle3 digest inScheme
    validation) (Esys_SignDigest_Finish signature).

Definition Esys_SignSequenceComplete (fuel : nat) (sequenceHandle shandle1 shandle2 shandle3 : Z)
    (buffer : option TPM2B) (signature : bool) : EM (option TPMT_SIGNATURE * unit) :=
  esys_one_call fuel (Esys_SignSequenceComplete_Async sequenceHandle shandle1 shandle2 shandle3
    buffer) (Esys_SignSequenceComplete_Finish signature).

Definition Esys_SignSequenceStart (fuel : nat) (keyHandle shandle1 shandle2 shandle3 : Z)
    (inScheme : option TPMT_SIG_SCHEME) (keyB : Z) (sequenceHandle : bool) : EM Z :=
  esys_one_call fuel (Esys_SignSequenceStart_Async keyHandle shandle1 shandle2 shandle3 inScheme
    keyB) (Esys_SignSequenceStart_Finish sequenceHandle).

Definition Esys_StartAuthSession (fuel : nat) (tpmKey bind shandle1 shandle2 shandle3 : Z)
    (nonceCaller : option TPM2B) (sessionType : Z) (symmetric : option TPMT_SYM_DEF) (authHash :
    Z) (sessionHandle : bool) : EM Z :=
  esys_one_call fuel (Esys_StartAuthSession_Async tpmKey bind shandle1 shandle2 shandle3
    nonceCaller sessionType symmetric authHash) (Esys_StartAuthSession_Finish fuel sessionHandle).

Definition Esys_Startup (fuel : nat) (startupType : Z) : EM unit :=
  esys_one_call fuel (Esys_Startup_Async startupType) Esys_Startup_Finish.

Definition Esys_StirRandom (fuel : nat) (shandle1 shandle2 shandle3 : Z) (inData : option TPM2B)
    : EM unit :=
  esys_one_call fuel (Esys_StirRandom_Async shandle1 shandle2 shandle3 inData)
    Esys_StirRandom_Finish.

Definition Esys_TestParms (fuel : nat) (shandle1 shandle2 shandle3 : Z)
    (parameters : option TPMT_PUBLIC_PARMS) : EM unit :=
  esys_one_call fuel (Esys_TestParms_Async shandle1 shandle2 shandle3 parameters)
    Esys_TestParms_Finish.

Definition Esys_Unseal (fuel : nat) (itemHandle shandle1 shandle2 shandle3 : Z) (outData : bool) :
    EM (option TPM2B * unit) :=
  esys_one_call fuel (Esys_Unseal_Async itemHandle shandle1 shandle2 shandle3) (Esys_Unseal_Finish
    outData).

Definition Esys_Vendor_TCG_Test (fuel : nat) (shandle1 shandle2 shandle3 : Z)
    (inputData : option TPM2B) (outputData : bool) : EM (option TPM2B * unit) :=
  esys_one_call fuel (Esys_Vendor_TCG_Test_Async shandle1 shandle2 shandle3 inputData)
    (Esys_Vendor_TCG_Test_Finish outputData).

Definition Esys_VerifyDigestSignature (fuel : nat) (keyHandle shandle1 shandle2 shandle3 : Z)
    (digest : option TPM2B) (signature : option TPMT_SIGNATURE) (validation : bool) : EM
    (option TPMT_TK_VERIFIED * unit) :=
  esys_one_call fuel (Esys_VerifyDigestSignature_Async keyHandle shandle1 shandle2 shandle3 digest
    signature) (Esys_VerifyDigestSignature_Finish validation).

Definition Esys_VerifySequenceComplete (fuel : nat) (sequenceHandle shandle1 shandle2 shandle3 :
    Z) (buffer : option TPM2B) (validation : bool) : EM (option TPMT_TK_VERIFIED * unit) :=
  esys_one_call fuel (Esys_VerifySequenceComplete_Async sequenceHandle shandle1 shandle2 shandle3
    buffer) (Esys_VerifySequenceComplete_Finish validation).

Definition Esys_VerifySequenceStart (fuel : nat) (keyHandle shandle1 shandle2 shandle3 : Z)
    (signature : option TPMT_SIGNATURE) (sequenceHandle : bool) : EM Z :=
  esys_one_call fuel (Esys_VerifySequenceStart_Async keyHandle shandle1 shandle2 shandle3
    signature) (Esys_VerifySequenceStart_Finish sequenceHandle).

Definition Esys_VerifySignature (fuel : nat) (keyHandle shandle1 shandle2 shandle3 : Z)
    (digest : option TPM2B) (signature : option TPMT_SIGNATURE) (validation : bool) : EM
    (option TPMT_TK_VERIFIED * unit) :=
  esys_one_call fuel (Esys_VerifySignature_Async keyHandle shandle1 shandle2 shandle3 digest
    signature) (Esys_VerifySignature_Finish validation).

Definition Esys_ZGen_2Phase (fuel : nat) (keyA shandle1 shandle2 shandle3 : Z) (inQsB inQeB :
    option (TPM2B_SUB TPMS_ECC_POINT)) (inScheme counter : Z) (outZ1 outZ2 : bool) : EM
    (option (TPM2B_SUB TPMS_ECC_POINT) * (option (TPM2B_SUB TPMS_ECC_POINT) * unit)) :=
  esys_one_call fuel (Esys_ZGen_2Phase_Async keyA shandle1 shandle2 shandle3 inQsB inQeB inScheme
    counter) (Esys_ZGen_2Phase_Finish outZ1 outZ2).

End OneCalls.
