(* ===== verification/EsysRegistry.v ===== *)
(** * Enhanced System API: the functions of all commands.

    [is_async] and [is_finish] list the [_Async] and [_Finish] functions of
    src/tss2-esys/api, so that a theorem can speak of all of them. *)

From stdpp Require Import gmap strings.
From S2P Require Import Prelude Common MuSpec MuBase MuStruct MuTpm2b MuUnion MuPcr TpmTypes MuTypes SysCodes Sys SysCmds SysCompletes EsysBase EsysCrypto EsysCtx EsysUtil EsysMu EsysExec EsysTr EsysAsyncs EsysFinishes.

Open Scope tss_scope.
Open Scope esys_scope.
Open Scope Z_scope.

Section Registry.
Context {H : Host} {HM : Memory} {S U KC : Type}.
Abbreviation CTX := (ESYS_CONTEXT S U KC).
Abbreviation EM A := (M CTX A).

(** The [_Async] functions with their arguments *)
Inductive is_async : EM unit -> Prop :=
| Async_ACT_SetTimeout actHandle shandle1 shandle2 shandle3 startTimeout : is_async
    (Esys_ACT_SetTimeout_Async actHandle shandle1 shandle2 shandle3 startTimeout)
| Async_AC_GetCapability optionalSession1 optionalSession2 optionalSession3 ac capability count :
    is_async (Esys_AC_GetCapability_Async optionalSession1 optionalSession2 optionalSession3 ac
    capability count)
| Async_AC_Send sendObject nvAuthHandle optionalSession1 optionalSession2 optionalSession3 ac
    acDataIn : is_async (Esys_AC_Send_Async sendObject nvAuthHandle optionalSession1
    optionalSession2 optionalSession3 ac acDataIn)
| Async_ActivateCredential activateHandle keyHandle shandle1 shandle2 shandle3 credentialBlob
    secret : is_async (Esys_ActivateCredential_Async activateHandle keyHandle shandle1 shandle2
    shandle3 credentialBlob secret)
| Async_Certify objectHandle signHandle shandle1 shandle2 shandle3 qualifyingData inScheme :
    is_async (Esys_Certify_Async objectHandle signHandle shandle1 shandle2 shandle3 qualifyingData
    inScheme)
| Async_CertifyCreation signHandle objectHandle shandle1 shandle2 shandle3 qualifyingData
    creationHash inScheme creationTicket : is_async (Esys_CertifyCreation_Async signHandle
    objectHandle shandle1 shandle2 shandle3 qualifyingData creationHash inScheme creationTicket)
| Async_CertifyX509 objectHandle signHandle shandle1 shandle2 shandle3 reserved inScheme
    partialCertificate : is_async (Esys_CertifyX509_Async objectHandle signHandle shandle1
    shandle2 shandle3 reserved inScheme partialCertificate)
| Async_ChangeEPS authHandle shandle1 shandle2 shandle3 : is_async (Esys_ChangeEPS_Async
    authHandle shandle1 shandle2 shandle3)
| Async_ChangePPS authHandle shandle1 shandle2 shandle3 : is_async (Esys_ChangePPS_Async
    authHandle shandle1 shandle2 shandle3)
| Async_Clear authHandle shandle1 shandle2 shandle3 : is_async (Esys_Clear_Async authHandle
    shandle1 shandle2 shandle3)
| Async_ClearControl auth_ shandle1 shandle2 shandle3 disable : is_async (Esys_ClearControl_Async
    auth_ shandle1 shandle2 shandle3 disable)
| Async_ClockRateAdjust auth_ shandle1 shandle2 shandle3 rateAdjust : is_async
    (Esys_ClockRateAdjust_Async auth_ shandle1 shandle2 shandle3 rateAdjust)
| Async_ClockSet auth_ shandle1 shandle2 shandle3 newTime : is_async (Esys_ClockSet_Async auth_
    shandle1 shandle2 shandle3 newTime)
| Async_Commit signHandle shandle1 shandle2 shandle3 P1 s2 y2 : is_async (Esys_Commit_Async
    signHandle shandle1 shandle2 shandle3 P1 s2 y2)
| Async_ContextLoad context : is_async (Esys_ContextLoad_Async context)
| Async_ContextSave saveHandle : is_async (Esys_ContextSave_Async saveHandle)
| Async_Create parentHandle shandle1 shandle2 shandle3 inSensitive inPublic outsideInfo
    creationPCR : is_async (Esys_Create_Async parentHandle shandle1 shandle2 shandle3 inSensitive
    inPublic outsideInfo creationPCR)
| Async_CreateLoaded parentHandle shandle1 shandle2 shandle3 inSensitive inPublic : is_async
    (Esys_CreateLoaded_Async parentHandle shandle1 shandle2 shandle3 inSensitive inPublic)
| Async_CreatePrimary primaryHandle shandle1 shandle2 shandle3 inSensitive inPublic outsideInfo
    creationPCR : is_async (Esys_CreatePrimary_Async primaryHandle shandle1 shandle2 shandle3
    inSensitive inPublic outsideInfo creationPCR)
| Async_Decapsulate keyHandle shandle1 shandle2 shandle3 cipherText label : is_async
    (Esys_Decapsulate_Async keyHandle shandle1 shandle2 shandle3 cipherText label)
| Async_DictionaryAttackLockReset lockHandle shandle1 shandle2 shandle3 : is_async
    (Esys_DictionaryAttackLockReset_Async lockHandle shandle1 shandle2 shandle3)
| Async_DictionaryAttackParameters lockHandle shandle1 shandle2 shandle3 newMaxTries
    newRecoveryTime lockoutRecovery : is_async (Esys_DictionaryAttackParameters_Async lockHandle
    shandle1 shandle2 shandle3 newMaxTries newRecoveryTime lockoutRecovery)
| Async_Duplicate objectHandle newParentHandle shandle1 shandle2 shandle3 encryptionKeyIn
    symmetricAlg : is_async (Esys_Duplicate_Async objectHandle newParentHandle shandle1 shandle2
    shandle3 encryptionKeyIn symmetricAlg)
| Async_ECC_Decrypt keyHandle shandle1 shandle2 shandle3 c1 c2 c3 inScheme : is_async
    (Esys_ECC_Decrypt_Async keyHandle shandle1 shandle2 shandle3 c1 c2 c3 inScheme)
| Async_ECC_Encrypt keyHandle shandle1 shandle2 shandle3 plainText inScheme : is_async
    (Esys_ECC_Encrypt_Async keyHandle shandle1 shandle2 shandle3 plainText inScheme)
| Async_ECC_Parameters shandle1 shandle2 shandle3 curveID : is_async (Esys_ECC_Parameters_Async
    shandle1 shandle2 shandle3 curveID)
| Async_ECDH_KeyGen keyHandle shandle1 shandle2 shandle3 : is_async (Esys_ECDH_KeyGen_Async
    keyHandle shandle1 shandle2 shandle3)
| Async_ECDH_ZGen keyHandle shandle1 shandle2 shandle3 inPoint : is_async (Esys_ECDH_ZGen_Async
    keyHandle shandle1 shandle2 shandle3 inPoint)
| Async_EC_Ephemeral shandle1 shandle2 shandle3 curveID : is_async (Esys_EC_Ephemeral_Async
    shandle1 shandle2 shandle3 curveID)
| Async_Encapsulate keyHandle shandle1 shandle2 shandle3 label : is_async (Esys_Encapsulate_Async
    keyHandle shandle1 shandle2 shandle3 label)
| Async_EncryptDecrypt keyHandle shandle1 shandle2 shandle3 decrypt mode ivIn inData : is_async
    (Esys_EncryptDecrypt_Async keyHandle shandle1 shandle2 shandle3 decrypt mode ivIn inData)
| Async_EncryptDecrypt2 keyHandle shandle1 shandle2 shandle3 inData decrypt mode ivIn : is_async
    (Esys_EncryptDecrypt2_Async keyHandle shandle1 shandle2 shandle3 inData decrypt mode ivIn)
| Async_EventSequenceComplete pcrHandle sequenceHandle shandle1 shandle2 shandle3 buffer :
    is_async (Esys_EventSequenceComplete_Async pcrHandle sequenceHandle shandle1 shandle2 shandle3
    buffer)
| Async_EvictControl auth_ objectHandle shandle1 shandle2 shandle3 persistentHandle : is_async
    (Esys_EvictControl_Async auth_ objectHandle shandle1 shandle2 shandle3 persistentHandle)
| Async_FieldUpgradeData shandle1 shandle2 shandle3 fuData : is_async (Esys_FieldUpgradeData_Async
    shandle1 shandle2 shandle3 fuData)
| Async_FieldUpgradeStart authorization keyHandle shandle1 shandle2 shandle3 fuDigest
    manifestSignature : is_async (Esys_FieldUpgradeStart_Async authorization keyHandle shandle1
    shandle2 shandle3 fuDigest manifestSignature)
| Async_FirmwareRead shandle1 shandle2 shandle3 sequenceNumber : is_async (Esys_FirmwareRead_Async
    shandle1 shandle2 shandle3 sequenceNumber)
| Async_FlushContext flushHandle : is_async (Esys_FlushContext_Async flushHandle)
| Async_GetCapability shandle1 shandle2 shandle3 capability property propertyCount : is_async
    (Esys_GetCapability_Async shandle1 shandle2 shandle3 capability property propertyCount)
| Async_GetCommandAuditDigest privacyHandle signHandle shandle1 shandle2 shandle3 qualifyingData
    inScheme : is_async (Esys_GetCommandAuditDigest_Async privacyHandle signHandle shandle1
    shandle2 shandle3 qualifyingData inScheme)
| Async_GetRandom shandle1 shandle2 shandle3 bytesRequested : is_async (Esys_GetRandom_Async
    shandle1 shandle2 shandle3 bytesRequested)
| Async_GetSessionAuditDigest privacyAdminHandle signHandle sessionHandle shandle1 shandle2
    shandle3 qualifyingData inScheme : is_async (Esys_GetSessionAuditDigest_Async
    privacyAdminHandle signHandle sessionHandle shandle1 shandle2 shandle3 qualifyingData
    inScheme)
| Async_GetTestResult shandle1 shandle2 shandle3 : is_async (Esys_GetTestResult_Async shandle1
    shandle2 shandle3)
| Async_GetTime privacyAdminHandle signHandle shandle1 shandle2 shandle3 qualifyingData inScheme :
    is_async (Esys_GetTime_Async privacyAdminHandle signHandle shandle1 shandle2 shandle3
    qualifyingData inScheme)
| Async_HMAC handle_ shandle1 shandle2 shandle3 buffer hashAlg : is_async (Esys_HMAC_Async handle_
    shandle1 shandle2 shandle3 buffer hashAlg)
| Async_HMAC_Start handle_ shandle1 shandle2 shandle3 auth_ hashAlg : is_async
    (Esys_HMAC_Start_Async handle_ shandle1 shandle2 shandle3 auth_ hashAlg)
| Async_Hash shandle1 shandle2 shandle3 data hashAlg hierarchy : is_async (Esys_Hash_Async
    shandle1 shandle2 shandle3 data hashAlg hierarchy)
| Async_HashSequenceStart shandle1 shandle2 shandle3 auth_ hashAlg : is_async
    (Esys_HashSequenceStart_Async shandle1 shandle2 shandle3 auth_ hashAlg)
| Async_HierarchyChangeAuth authHandle shandle1 shandle2 shandle3 newAuth : is_async
    (Esys_HierarchyChangeAuth_Async authHandle shandle1 shandle2 shandle3 newAuth)
| Async_HierarchyControl authHandle shandle1 shandle2 shandle3 enable state_ : is_async
    (Esys_HierarchyControl_Async authHandle shandle1 shandle2 shandle3 enable state_)
| Async_Import parentHandle shandle1 shandle2 shandle3 encryptionKey objectPublic duplicate
    inSymSeed symmetricAlg : is_async (Esys_Import_Async parentHandle shandle1 shandle2 shandle3
    encryptionKey objectPublic duplicate inSymSeed symmetricAlg)
| Async_IncrementalSelfTest shandle1 shandle2 shandle3 toTest : is_async
    (Esys_IncrementalSelfTest_Async shandle1 shandle2 shandle3 toTest)
| Async_Load parentHandle shandle1 shandle2 shandle3 inPrivate inPublic : is_async
    (Esys_Load_Async parentHandle shandle1 shandle2 shandle3 inPrivate inPublic)
| Async_LoadExternal shandle1 shandle2 shandle3 inPrivate inPublic hierarchy : is_async
    (Esys_LoadExternal_Async shandle1 shandle2 shandle3 inPrivate inPublic hierarchy)
| Async_MAC handle_ handleSession1 optionalSession2 optionalSession3 buffer inScheme : is_async
    (Esys_MAC_Async handle_ handleSession1 optionalSession2 optionalSession3 buffer inScheme)
| Async_MAC_Start handle_ handleSession1 optionalSession2 optionalSession3 auth_ inScheme :
    is_async (Esys_MAC_Start_Async handle_ handleSession1 optionalSession2 optionalSession3 auth_
    inScheme)
| Async_MakeCredential handle_ shandle1 shandle2 shandle3 credential objectName : is_async
    (Esys_MakeCredential_Async handle_ shandle1 shandle2 shandle3 credential objectName)
| Async_NV_Certify signHandle authHandle nvIndex shandle1 shandle2 shandle3 qualifyingData
    inScheme size offset : is_async (Esys_NV_Certify_Async signHandle authHandle nvIndex shandle1
    shandle2 shandle3 qualifyingData inScheme size offset)
| Async_NV_ChangeAuth nvIndex shandle1 shandle2 shandle3 newAuth : is_async
    (Esys_NV_ChangeAuth_Async nvIndex shandle1 shandle2 shandle3 newAuth)
| Async_NV_DefineSpace authHandle shandle1 shandle2 shandle3 auth_ publicInfo : is_async
    (Esys_NV_DefineSpace_Async authHandle shandle1 shandle2 shandle3 auth_ publicInfo)
| Async_NV_Extend authHandle nvIndex shandle1 shandle2 shandle3 data : is_async
    (Esys_NV_Extend_Async authHandle nvIndex shandle1 shandle2 shandle3 data)
| Async_NV_GlobalWriteLock authHandle shandle1 shandle2 shandle3 : is_async
    (Esys_NV_GlobalWriteLock_Async authHandle shandle1 shandle2 shandle3)
| Async_NV_Increment authHandle nvIndex shandle1 shandle2 shandle3 : is_async
    (Esys_NV_Increment_Async authHandle nvIndex shandle1 shandle2 shandle3)
| Async_NV_Read authHandle nvIndex shandle1 shandle2 shandle3 size offset : is_async
    (Esys_NV_Read_Async authHandle nvIndex shandle1 shandle2 shandle3 size offset)
| Async_NV_ReadLock authHandle nvIndex shandle1 shandle2 shandle3 : is_async
    (Esys_NV_ReadLock_Async authHandle nvIndex shandle1 shandle2 shandle3)
| Async_NV_ReadPublic nvIndex shandle1 shandle2 shandle3 : is_async (Esys_NV_ReadPublic_Async
    nvIndex shandle1 shandle2 shandle3)
| Async_NV_SetBits authHandle nvIndex shandle1 shandle2 shandle3 bits : is_async
    (Esys_NV_SetBits_Async authHandle nvIndex shandle1 shandle2 shandle3 bits)
| Async_NV_UndefineSpace authHandle nvIndex shandle1 shandle2 shandle3 : is_async
    (Esys_NV_UndefineSpace_Async authHandle nvIndex shandle1 shandle2 shandle3)
| Async_NV_UndefineSpaceSpecial nvIndex platform shandle1 shandle2 shandle3 : is_async
    (Esys_NV_UndefineSpaceSpecial_Async nvIndex platform shandle1 shandle2 shandle3)
| Async_NV_Write authHandle nvIndex shandle1 shandle2 shandle3 data offset : is_async
    (Esys_NV_Write_Async authHandle nvIndex shandle1 shandle2 shandle3 data offset)
| Async_NV_WriteLock authHandle nvIndex shandle1 shandle2 shandle3 : is_async
    (Esys_NV_WriteLock_Async authHandle nvIndex shandle1 shandle2 shandle3)
| Async_ObjectChangeAuth objectHandle parentHandle shandle1 shandle2 shandle3 newAuth : is_async
    (Esys_ObjectChangeAuth_Async objectHandle parentHandle shandle1 shandle2 shandle3 newAuth)
| Async_PCR_Allocate authHandle shandle1 shandle2 shandle3 pcrAllocation : is_async
    (Esys_PCR_Allocate_Async authHandle shandle1 shandle2 shandle3 pcrAllocation)
| Async_PCR_Event pcrHandle shandle1 shandle2 shandle3 eventData : is_async (Esys_PCR_Event_Async
    pcrHandle shandle1 shandle2 shandle3 eventData)
| Async_PCR_Extend pcrHandle shandle1 shandle2 shandle3 digests : is_async (Esys_PCR_Extend_Async
    pcrHandle shandle1 shandle2 shandle3 digests)
| Async_PCR_Read shandle1 shandle2 shandle3 pcrSelectionIn : is_async (Esys_PCR_Read_Async
    shandle1 shandle2 shandle3 pcrSelectionIn)
| Async_PCR_Reset pcrHandle shandle1 shandle2 shandle3 : is_async (Esys_PCR_Reset_Async pcrHandle
    shandle1 shandle2 shandle3)
| Async_PCR_SetAuthPolicy authHandle shandle1 shandle2 shandle3 authPolicy hashAlg pcrNum :
    is_async (Esys_PCR_SetAuthPolicy_Async authHandle shandle1 shandle2 shandle3 authPolicy
    hashAlg pcrNum)
| Async_PCR_SetAuthValue pcrHandle shandle1 shandle2 shandle3 auth_ : is_async
    (Esys_PCR_SetAuthValue_Async pcrHandle shandle1 shandle2 shandle3 auth_)
| Async_PP_Commands auth_ shandle1 shandle2 shandle3 setList clearList : is_async
    (Esys_PP_Commands_Async auth_ shandle1 shandle2 shandle3 setList clearList)
| Async_PolicyAuthValue policySession shandle1 shandle2 shandle3 : is_async
    (Esys_PolicyAuthValue_Async policySession shandle1 shandle2 shandle3)
| Async_PolicyAuthorize policySession shandle1 shandle2 shandle3 approvedPolicy policyRef keySign
    checkTicket : is_async (Esys_PolicyAuthorize_Async policySession shandle1 shandle2 shandle3
    approvedPolicy policyRef keySign checkTicket)
| Async_PolicyAuthorizeNV authHandle nvIndex policySession shandle1 shandle2 shandle3 : is_async
    (Esys_PolicyAuthorizeNV_Async authHandle nvIndex policySession shandle1 shandle2 shandle3)
| Async_PolicyCommandCode policySession shandle1 shandle2 shandle3 code : is_async
    (Esys_PolicyCommandCode_Async policySession shandle1 shandle2 shandle3 code)
| Async_PolicyCounterTimer policySession shandle1 shandle2 shandle3 operandB offset operation :
    is_async (Esys_PolicyCounterTimer_Async policySession shandle1 shandle2 shandle3 operandB
    offset operation)
| Async_PolicyCpHash policySession shandle1 shandle2 shandle3 cpHashA : is_async
    (Esys_PolicyCpHash_Async policySession shandle1 shandle2 shandle3 cpHashA)
| Async_PolicyDuplicationSelect policySession shandle1 shandle2 shandle3 objectName newParentName
    includeObject : is_async (Esys_PolicyDuplicationSelect_Async policySession shandle1 shandle2
    shandle3 objectName newParentName includeObject)
| Async_PolicyGetDigest policySession shandle1 shandle2 shandle3 : is_async
    (Esys_PolicyGetDigest_Async policySession shandle1 shandle2 shandle3)
| Async_PolicyLocality policySession shandle1 shandle2 shandle3 locality : is_async
    (Esys_PolicyLocality_Async policySession shandle1 shandle2 shandle3 locality)
| Async_PolicyNV authHandle nvIndex policySession shandle1 shandle2 shandle3 operandB offset
    operation : is_async (Esys_PolicyNV_Async authHandle nvIndex policySession shandle1 shandle2
    shandle3 operandB offset operation)
| Async_PolicyNameHash policySession shandle1 shandle2 shandle3 nameHash : is_async
    (Esys_PolicyNameHash_Async policySession shandle1 shandle2 shandle3 nameHash)
| Async_PolicyNvWritten policySession shandle1 shandle2 shandle3 writtenSet : is_async
    (Esys_PolicyNvWritten_Async policySession shandle1 shandle2 shandle3 writtenSet)
| Async_PolicyOR policySession shandle1 shandle2 shandle3 pHashList : is_async
    (Esys_PolicyOR_Async policySession shandle1 shandle2 shandle3 pHashList)
| Async_PolicyPCR policySession shandle1 shandle2 shandle3 pcrDigest pcrs : is_async
    (Esys_PolicyPCR_Async policySession shandle1 shandle2 shandle3 pcrDigest pcrs)
| Async_PolicyPassword policySession shandle1 shandle2 shandle3 : is_async
    (Esys_PolicyPassword_Async policySession shandle1 shandle2 shandle3)
| Async_PolicyPhysicalPresence policySession shandle1 shandle2 shandle3 : is_async
    (Esys_PolicyPhysicalPresence_Async policySession shandle1 shandle2 shandle3)
| Async_PolicyRestart sessionHandle shandle1 shandle2 shandle3 : is_async
    (Esys_PolicyRestart_Async sessionHandle shandle1 shandle2 shandle3)
| Async_PolicySecret authHandle policySession shandle1 shandle2 shandle3 nonceTPM cpHashA
    policyRef expiration : is_async (Esys_PolicySecret_Async authHandle policySession shandle1
    shandle2 shandle3 nonceTPM cpHashA policyRef expiration)
| Async_PolicySigned authObject policySession shandle1 shandle2 shandle3 nonceTPM cpHashA
    policyRef expiration auth_ : is_async (Esys_PolicySigned_Async authObject policySession
    shandle1 shandle2 shandle3 nonceTPM cpHashA policyRef expiration auth_)
| Async_PolicyTemplate policySession shandle1 shandle2 shandle3 templateHash : is_async
    (Esys_PolicyTemplate_Async policySession shandle1 shandle2 shandle3 templateHash)
| Async_PolicyTicket policySession shandle1 shandle2 shandle3 timeout_ cpHashA policyRef authName
    ticket : is_async (Esys_PolicyTicket_Async policySession shandle1 shandle2 shandle3 timeout_
    cpHashA policyRef authName ticket)
| Async_Policy_AC_SendSelect policySession1 optionalSession2 optionalSession3 objectName
    authHandleName acName includeObject : is_async (Esys_Policy_AC_SendSelect_Async policySession1
    optionalSession2 optionalSession3 objectName authHandleName acName includeObject)
| Async_Quote signHandle shandle1 shandle2 shandle3 qualifyingData inScheme PCRselect : is_async
    (Esys_Quote_Async signHandle shandle1 shandle2 shandle3 qualifyingData inScheme PCRselect)
| Async_RSA_Decrypt keyHandle shandle1 shandle2 shandle3 cipherText inScheme label : is_async
    (Esys_RSA_Decrypt_Async keyHandle shandle1 shandle2 shandle3 cipherText inScheme label)
| Async_RSA_Encrypt keyHandle shandle1 shandle2 shandle3 message inScheme label : is_async
    (Esys_RSA_Encrypt_Async keyHandle shandle1 shandle2 shandle3 message inScheme label)
| Async_ReadClock shandle1 shandle2 shandle3 : is_async (Esys_ReadClock_Async shandle1 shandle2
    shandle3)
| Async_ReadPublic objectHandle shandle1 shandle2 shandle3 : is_async (Esys_ReadPublic_Async
    objectHandle shandle1 shandle2 shandle3)
| Async_Rewrap oldParent newParent shandle1 shandle2 shandle3 inDuplicate name_ inSymSeed :
    is_async (Esys_Rewrap_Async oldParent newParent shandle1 shandle2 shandle3 inDuplicate name_
    inSymSeed)
| Async_SelfTest shandle1 shandle2 shandle3 fullTest : is_async (Esys_SelfTest_Async shandle1
    shandle2 shandle3 fullTest)
| Async_SequenceComplete sequenceHandle shandle1 shandle2 shandle3 buffer hierarchy : is_async
    (Esys_SequenceComplete_Async sequenceHandle shandle1 shandle2 shandle3 buffer hierarchy)
| Async_SequenceUpdate sequenceHandle shandle1 shandle2 shandle3 buffer : is_async
    (Esys_SequenceUpdate_Async sequenceHandle shandle1 shandle2 shandle3 buffer)
| Async_SetAlgorithmSet authHandle shandle1 shandle2 shandle3 algorithmSet : is_async
    (Esys_SetAlgorithmSet_Async authHandle shandle1 shandle2 shandle3 algorithmSet)
| Async_SetCommandCodeAuditStatus auth_ shandle1 shandle2 shandle3 auditAlg setList clearList :
    is_async (Esys_SetCommandCodeAuditStatus_Async auth_ shandle1 shandle2 shandle3 auditAlg
    setList clearList)
| Async_SetPrimaryPolicy authHandle shandle1 shandle2 shandle3 authPolicy hashAlg : is_async
    (Esys_SetPrimaryPolicy_Async authHandle shandle1 shandle2 shandle3 authPolicy hashAlg)
| Async_Shutdown shandle1 shandle2 shandle3 shutdownType : is_async (Esys_Shutdown_Async shandle1
    shandle2 shandle3 shutdownType)
| Async_Sign keyHandle shandle1 shandle2 shandle3 digest inScheme validation : is_async
    (Esys_Sign_Async keyHandle shandle1 shandle2 shandle3 digest inScheme validation)
| Async_SignDigest keyHandle shandle1 shandle2 shandle3 digest inScheme validation : is_async
    (Esys_SignDigest_Async keyHandle shandle1 shandle2 shandle3 digest inScheme validation)
| Async_SignSequenceComplete sequenceHandle shandle1 shandle2 shandle3 buffer : is_async
    (Esys_SignSequenceComplete_Async sequenceHandle shandle1 shandle2 shandle3 buffer)
| Async_SignSequenceStart keyHandle shandle1 shandle2 shandle3 inScheme keyB : is_async
    (Esys_SignSequenceStart_Async keyHandle shandle1 shandle2 shandle3 inScheme keyB)
| Async_StartAuthSession tpmKey bind_ shandle1 shandle2 shandle3 nonceCaller sessionType symmetric
    authHash : is_async (Esys_StartAuthSession_Async tpmKey bind_ shandle1 shandle2 shandle3
    nonceCaller sessionType symmetric authHash)
| Async_Startup startupType : is_async (Esys_Startup_Async startupType)
| Async_StirRandom shandle1 shandle2 shandle3 inData : is_async (Esys_StirRandom_Async shandle1
    shandle2 shandle3 inData)
| Async_TestParms shandle1 shandle2 shandle3 parameters : is_async (Esys_TestParms_Async shandle1
    shandle2 shandle3 parameters)
| Async_Unseal itemHandle shandle1 shandle2 shandle3 : is_async (Esys_Unseal_Async itemHandle
    shandle1 shandle2 shandle3)
| Async_Vendor_TCG_Test shandle1 shandle2 shandle3 inputData : is_async
    (Esys_Vendor_TCG_Test_Async shandle1 shandle2 shandle3 inputData)
| Async_VerifyDigestSignature keyHandle shandle1 shandle2 shandle3 digest signature : is_async
    (Esys_VerifyDigestSignature_Async keyHandle shandle1 shandle2 shandle3 digest signature)
| Async_VerifySequenceComplete sequenceHandle shandle1 shandle2 shandle3 buffer : is_async
    (Esys_VerifySequenceComplete_Async sequenceHandle shandle1 shandle2 shandle3 buffer)
| Async_VerifySequenceStart keyHandle shandle1 shandle2 shandle3 signature : is_async
    (Esys_VerifySequenceStart_Async keyHandle shandle1 shandle2 shandle3 signature)
| Async_VerifySignature keyHandle shandle1 shandle2 shandle3 digest signature : is_async
    (Esys_VerifySignature_Async keyHandle shandle1 shandle2 shandle3 digest signature)
| Async_ZGen_2Phase keyA shandle1 shandle2 shandle3 inQsB inQeB inScheme counter : is_async
    (Esys_ZGen_2Phase_Async keyA shandle1 shandle2 shandle3 inQsB inQeB inScheme counter).

(** The [_Finish] functions with their arguments *)
Inductive is_finish : forall {B}, EM B -> Prop :=
| Finish_ACT_SetTimeout : is_finish Esys_ACT_SetTimeout_Finish
| Finish_AC_GetCapability moreData capabilityData : is_finish (Esys_AC_GetCapability_Finish
    moreData capabilityData)
| Finish_AC_Send acDataOut : is_finish (Esys_AC_Send_Finish acDataOut)
| Finish_ActivateCredential certInfo : is_finish (Esys_ActivateCredential_Finish certInfo)
| Finish_Certify certifyInfo signature : is_finish (Esys_Certify_Finish certifyInfo signature)
| Finish_CertifyCreation certifyInfo signature : is_finish (Esys_CertifyCreation_Finish
    certifyInfo signature)
| Finish_CertifyX509 addedToCertificate tbsDigest signature : is_finish (Esys_CertifyX509_Finish
    addedToCertificate tbsDigest signature)
| Finish_ChangeEPS : is_finish Esys_ChangeEPS_Finish
| Finish_ChangePPS : is_finish Esys_ChangePPS_Finish
| Finish_Clear : is_finish Esys_Clear_Finish
| Finish_ClearControl : is_finish Esys_ClearControl_Finish
| Finish_ClockRateAdjust : is_finish Esys_ClockRateAdjust_Finish
| Finish_ClockSet : is_finish Esys_ClockSet_Finish
| Finish_Commit K L E counter : is_finish (Esys_Commit_Finish K L E counter)
| Finish_ContextLoad loadedHandle : is_finish (Esys_ContextLoad_Finish loadedHandle)
| Finish_ContextSave context : is_finish (Esys_ContextSave_Finish context)
| Finish_Create outPrivate outPublic creationData creationHash creationTicket : is_finish
    (Esys_Create_Finish outPrivate outPublic creationData creationHash creationTicket)
| Finish_CreateLoaded objectHandle outPrivate outPublic : is_finish (Esys_CreateLoaded_Finish
    objectHandle outPrivate outPublic)
| Finish_CreatePrimary objectHandle outPublic creationData creationHash creationTicket : is_finish
    (Esys_CreatePrimary_Finish objectHandle outPublic creationData creationHash creationTicket)
| Finish_Decapsulate outSymSeed : is_finish (Esys_Decapsulate_Finish outSymSeed)
| Finish_DictionaryAttackLockReset : is_finish Esys_DictionaryAttackLockReset_Finish
| Finish_DictionaryAttackParameters : is_finish Esys_DictionaryAttackParameters_Finish
| Finish_Duplicate encryptionKeyOut duplicate outSymSeed : is_finish (Esys_Duplicate_Finish
    encryptionKeyOut duplicate outSymSeed)
| Finish_ECC_Decrypt plainText : is_finish (Esys_ECC_Decrypt_Finish plainText)
| Finish_ECC_Encrypt c1 c2 c3 : is_finish (Esys_ECC_Encrypt_Finish c1 c2 c3)
| Finish_ECC_Parameters parameters : is_finish (Esys_ECC_Parameters_Finish parameters)
| Finish_ECDH_KeyGen zPoint pubPoint : is_finish (Esys_ECDH_KeyGen_Finish zPoint pubPoint)
| Finish_ECDH_ZGen outPoint : is_finish (Esys_ECDH_ZGen_Finish outPoint)
| Finish_EC_Ephemeral Q counter : is_finish (Esys_EC_Ephemeral_Finish Q counter)
| Finish_Encapsulate outSymSeed cipherText : is_finish (Esys_Encapsulate_Finish outSymSeed
    cipherText)
| Finish_EncryptDecrypt outData ivOut : is_finish (Esys_EncryptDecrypt_Finish outData ivOut)
| Finish_EncryptDecrypt2 outData ivOut : is_finish (Esys_EncryptDecrypt2_Finish outData ivOut)
| Finish_EventSequenceComplete results : is_finish (Esys_EventSequenceComplete_Finish results)
| Finish_EvictControl newObjectHandle : is_finish (Esys_EvictControl_Finish newObjectHandle)
| Finish_FieldUpgradeData nextDigest firstDigest : is_finish (Esys_FieldUpgradeData_Finish
    nextDigest firstDigest)
| Finish_FieldUpgradeStart : is_finish Esys_FieldUpgradeStart_Finish
| Finish_FirmwareRead fuData : is_finish (Esys_FirmwareRead_Finish fuData)
| Finish_FlushContext : is_finish Esys_FlushContext_Finish
| Finish_GetCapability moreData capabilityData : is_finish (Esys_GetCapability_Finish moreData
    capabilityData)
| Finish_GetCommandAuditDigest auditInfo signature : is_finish (Esys_GetCommandAuditDigest_Finish
    auditInfo signature)
| Finish_GetRandom randomBytes : is_finish (Esys_GetRandom_Finish randomBytes)
| Finish_GetSessionAuditDigest auditInfo signature : is_finish (Esys_GetSessionAuditDigest_Finish
    auditInfo signature)
| Finish_GetTestResult outData testResult : is_finish (Esys_GetTestResult_Finish outData
    testResult)
| Finish_GetTime timeInfo signature : is_finish (Esys_GetTime_Finish timeInfo signature)
| Finish_HMAC outHMAC : is_finish (Esys_HMAC_Finish outHMAC)
| Finish_HMAC_Start sequenceHandle : is_finish (Esys_HMAC_Start_Finish sequenceHandle)
| Finish_Hash outHash validation : is_finish (Esys_Hash_Finish outHash validation)
| Finish_HashSequenceStart sequenceHandle : is_finish (Esys_HashSequenceStart_Finish
    sequenceHandle)
| Finish_HierarchyChangeAuth : is_finish Esys_HierarchyChangeAuth_Finish
| Finish_HierarchyControl : is_finish Esys_HierarchyControl_Finish
| Finish_Import outPrivate : is_finish (Esys_Import_Finish outPrivate)
| Finish_IncrementalSelfTest toDoList : is_finish (Esys_IncrementalSelfTest_Finish toDoList)
| Finish_Load objectHandle : is_finish (Esys_Load_Finish objectHandle)
| Finish_LoadExternal objectHandle : is_finish (Esys_LoadExternal_Finish objectHandle)
| Finish_MAC outMAC : is_finish (Esys_MAC_Finish outMAC)
| Finish_MAC_Start sequenceHandle : is_finish (Esys_MAC_Start_Finish sequenceHandle)
| Finish_MakeCredential credentialBlob secret : is_finish (Esys_MakeCredential_Finish
    credentialBlob secret)
| Finish_NV_Certify certifyInfo signature : is_finish (Esys_NV_Certify_Finish certifyInfo
    signature)
| Finish_NV_ChangeAuth : is_finish Esys_NV_ChangeAuth_Finish
| Finish_NV_DefineSpace nvHandle : is_finish (Esys_NV_DefineSpace_Finish nvHandle)
| Finish_NV_Extend : is_finish Esys_NV_Extend_Finish
| Finish_NV_GlobalWriteLock : is_finish Esys_NV_GlobalWriteLock_Finish
| Finish_NV_Increment : is_finish Esys_NV_Increment_Finish
| Finish_NV_Read data : is_finish (Esys_NV_Read_Finish data)
| Finish_NV_ReadLock : is_finish Esys_NV_ReadLock_Finish
| Finish_NV_ReadPublic nvPublic nvName : is_finish (Esys_NV_ReadPublic_Finish nvPublic nvName)
| Finish_NV_SetBits : is_finish Esys_NV_SetBits_Finish
| Finish_NV_UndefineSpace : is_finish Esys_NV_UndefineSpace_Finish
| Finish_NV_UndefineSpaceSpecial : is_finish Esys_NV_UndefineSpaceSpecial_Finish
| Finish_NV_Write : is_finish Esys_NV_Write_Finish
| Finish_NV_WriteLock : is_finish Esys_NV_WriteLock_Finish
| Finish_ObjectChangeAuth outPrivate : is_finish (Esys_ObjectChangeAuth_Finish outPrivate)
| Finish_PCR_Allocate allocationSuccess maxPCR sizeNeeded sizeAvailable : is_finish
    (Esys_PCR_Allocate_Finish allocationSuccess maxPCR sizeNeeded sizeAvailable)
| Finish_PCR_Event digests : is_finish (Esys_PCR_Event_Finish digests)
| Finish_PCR_Extend : is_finish Esys_PCR_Extend_Finish
| Finish_PCR_Read pcrUpdateCounter pcrSelectionOut pcrValues : is_finish (Esys_PCR_Read_Finish
    pcrUpdateCounter pcrSelectionOut pcrValues)
| Finish_PCR_Reset : is_finish Esys_PCR_Reset_Finish
| Finish_PCR_SetAuthPolicy : is_finish Esys_PCR_SetAuthPolicy_Finish
| Finish_PCR_SetAuthValue : is_finish Esys_PCR_SetAuthValue_Finish
| Finish_PP_Commands : is_finish Esys_PP_Commands_Finish
| Finish_PolicyAuthValue : is_finish Esys_PolicyAuthValue_Finish
| Finish_PolicyAuthorize : is_finish Esys_PolicyAuthorize_Finish
| Finish_PolicyAuthorizeNV : is_finish Esys_PolicyAuthorizeNV_Finish
| Finish_PolicyCommandCode : is_finish Esys_PolicyCommandCode_Finish
| Finish_PolicyCounterTimer : is_finish Esys_PolicyCounterTimer_Finish
| Finish_PolicyCpHash : is_finish Esys_PolicyCpHash_Finish
| Finish_PolicyDuplicationSelect : is_finish Esys_PolicyDuplicationSelect_Finish
| Finish_PolicyGetDigest policyDigest : is_finish (Esys_PolicyGetDigest_Finish policyDigest)
| Finish_PolicyLocality : is_finish Esys_PolicyLocality_Finish
| Finish_PolicyNV : is_finish Esys_PolicyNV_Finish
| Finish_PolicyNameHash : is_finish Esys_PolicyNameHash_Finish
| Finish_PolicyNvWritten : is_finish Esys_PolicyNvWritten_Finish
| Finish_PolicyOR : is_finish Esys_PolicyOR_Finish
| Finish_PolicyPCR : is_finish Esys_PolicyPCR_Finish
| Finish_PolicyPassword : is_finish Esys_PolicyPassword_Finish
| Finish_PolicyPhysicalPresence : is_finish Esys_PolicyPhysicalPresence_Finish
| Finish_PolicyRestart : is_finish Esys_PolicyRestart_Finish
| Finish_PolicySecret timeout_ policyTicket : is_finish (Esys_PolicySecret_Finish timeout_
    policyTicket)
| Finish_PolicySigned timeout_ policyTicket : is_finish (Esys_PolicySigned_Finish timeout_
    policyTicket)
| Finish_PolicyTemplate : is_finish Esys_PolicyTemplate_Finish
| Finish_PolicyTicket : is_finish Esys_PolicyTicket_Finish
| Finish_Policy_AC_SendSelect : is_finish Esys_Policy_AC_SendSelect_Finish
| Finish_Quote quoted signature : is_finish (Esys_Quote_Finish quoted signature)
| Finish_RSA_Decrypt message : is_finish (Esys_RSA_Decrypt_Finish message)
| Finish_RSA_Encrypt outData : is_finish (Esys_RSA_Encrypt_Finish outData)
| Finish_ReadClock currentTime : is_finish (Esys_ReadClock_Finish currentTime)
| Finish_ReadPublic outPublic name_ qualifiedName : is_finish (Esys_ReadPublic_Finish outPublic
    name_ qualifiedName)
| Finish_Rewrap outDuplicate outSymSeed : is_finish (Esys_Rewrap_Finish outDuplicate outSymSeed)
| Finish_SelfTest : is_finish Esys_SelfTest_Finish
| Finish_SequenceComplete result validation : is_finish (Esys_SequenceComplete_Finish result
    validation)
| Finish_SequenceUpdate : is_finish Esys_SequenceUpdate_Finish
| Finish_SetAlgorithmSet : is_finish Esys_SetAlgorithmSet_Finish
| Finish_SetCommandCodeAuditStatus : is_finish Esys_SetCommandCodeAuditStatus_Finish
| Finish_SetPrimaryPolicy : is_finish Esys_SetPrimaryPolicy_Finish
| Finish_Shutdown : is_finish Esys_Shutdown_Finish
| Finish_Sign signature : is_finish (Esys_Sign_Finish signature)
| Finish_SignDigest signature : is_finish (Esys_SignDigest_Finish signature)
| Finish_SignSequenceComplete signature : is_finish (Esys_SignSequenceComplete_Finish signature)
| Finish_SignSequenceStart sequenceHandle : is_finish (Esys_SignSequenceStart_Finish
    sequenceHandle)
| Finish_StartAuthSession fuel sessionHandle : is_finish (Esys_StartAuthSession_Finish fuel
    sessionHandle)
| Finish_Startup : is_finish Esys_Startup_Finish
| Finish_StirRandom : is_finish Esys_StirRandom_Finish
| Finish_TestParms : is_finish Esys_TestParms_Finish
| Finish_Unseal outData : is_finish (Esys_Unseal_Finish outData)
| Finish_Vendor_TCG_Test outputData : is_finish (Esys_Vendor_TCG_Test_Finish outputData)
| Finish_VerifyDigestSignature validation : is_finish (Esys_VerifyDigestSignature_Finish
    validation)
| Finish_VerifySequenceComplete validation : is_finish (Esys_VerifySequenceComplete_Finish
    validation)
| Finish_VerifySequenceStart sequenceHandle : is_finish (Esys_VerifySequenceStart_Finish
    sequenceHandle)
| Finish_VerifySignature validation : is_finish (Esys_VerifySignature_Finish validation)
| Finish_ZGen_2Phase outZ1 outZ2 : is_finish (Esys_ZGen_2Phase_Finish outZ1 outZ2).

End Registry.
