(* ===== verification/EsysLogic.v ===== *)
(** * Enhanced System API: reasoning about computations.

    Equations for computations that succeed, and a tactic that takes a run
    that succeeded apart. *)

From S2P Require Import Prelude Common MuSpec MuBase EsysBase.

Open Scope tss_scope.
Open Scope esys_scope.
Open Scope Z_scope.

(** [m] runs from [s] to [s'] and goes on with [a]. *)
Abbreviation goes m s s' a := (m s = Ret (s', inr a)).

Section Goes.
Context {St : Type}.

Lemma ret_goes {A} (a a' : A) (s s' : St) : goes (ret a) s s' a' <-> s' = s /\ a' = a.
Proof. unfold ret. split; [intros [= -> ->]|intros [-> ->]]; done. Qed.

Lemma fail_goes {A} r (a : A) (s s' : St) : ~ goes (fail r) s s' a.
Proof. done. Qed.

Lemma undef_goes {A} (a : A) (s s' : St) : ~ goes undef s s' a.
Proof. done. Qed.

Lemma get_goes (a s s' : St) : goes get s s' a <-> s' = s /\ a = s.
Proof. unfold get. split; [intros [= -> ->]|intros [-> ->]]; done. Qed.

Lemma modify_goes f a (s s' : St) : goes (modify f) s s' a <-> s' = f s.
Proof. destruct a. unfold modify. split; [intros [= ->]|intros ->]; done. Qed.

Lemma lift_goes {A} o (a : A) (s s' : St) : goes (lift o) s s' a <-> s' = s /\ o = Ret a.
Proof.
  unfold lift. destruct o; split; [intros [= -> ->]|intros [-> [= ->]]| |intros [? ?]]; done.
Qed.

Lemma bind_goes {A B} (m : M St A) (k : A -> M St B) s s' b :
  goes (bind m k) s s' b <-> exists s1 a, goes m s s1 a /\ goes (k a) s1 s' b.
Proof.
  unfold bind. split.
  - destruct (m s) as [[s1 [r|a]]|]; [done|intros E; by exists s1, a|done].
  - by intros (s1 & a & -> & E).
Qed.

Lemma on_error_goes {A} (m : M St A) h s s' a : goes (on_error m h) s s' a <-> goes m s s' a.
Proof.
  unfold on_error. destruct (m s) as [[s1 [r|b]]|]; [|done..].
  destruct (h r s1) as [[s2 [q|q]]|]; done.
Qed.

Lemma code_goes {A} (m : M St A) s s' x : goes (code m) s s' x <-> m s = Ret (s', x).
Proof.
  unfold code. destruct (m s) as [[s1 y]|]; [|done].
  split; intros [= -> ->]; done.
Qed.

Lemma return_if_error_goes r a (s s' : St) :
  goes (return_if_error r) s s' a <-> r = TSS2_RC_SUCCESS /\ s' = s.
Proof.
  unfold return_if_error. destruct (Z.eqb_spec r TSS2_RC_SUCCESS) as [->|N].
  - rewrite ret_goes. split; [by intros [-> _]|intros [_ ->]; by destruct a].
  - split; [done|]. by intros [? _].
Qed.

Lemma zoom_goes {T A} (g : St -> T) (p : T -> St -> St) (m : M T A) s s' a :
  goes (zoom g p m) s s' a <-> exists t, goes m (g s) t a /\ s' = p t s.
Proof.
  unfold zoom. split.
  - destruct (m (g s)) as [[t x]|]; [|done]. intros [= <- ->]. by exists t.
  - by intros (t & -> & ->).
Qed.

(** Every iteration of a loop succeeds. *)
Lemma for_each_app {A} (l1 l2 : list A) f (s s' : St) u :
  goes (for_each (l1 ++ l2) f) s s' u <->
  exists s1, goes (for_each l1 f) s s1 tt /\ goes (for_each l2 f) s1 s' u.
Proof.
  revert s. induction l1 as [|a l1 IH]; intros s; cbn [app for_each].
  - split; [intros E; by exists s|]. intros (s1 & E & E'). by apply ret_goes in E as [-> _].
  - rewrite bind_goes. split.
    + intros (s1 & [] & E1 & E2). apply IH in E2 as (s2 & E2 & E3).
      exists s2. split; [|done]. apply bind_goes. by exists s1, tt.
    + intros (s2 & E2 & E3). apply bind_goes in E2 as (s1 & [] & E1 & E2).
      exists s1, tt. split; [done|]. apply IH. by exists s2.
Qed.

(** A property of states that every iteration keeps. *)
Lemma for_each_invariant {A} (P : St -> Prop) (l : list A) f (s s' : St) u :
  (forall a s s', a ∈ l -> goes (f a) s s' tt -> P s -> P s') ->
  goes (for_each l f) s s' u -> P s -> P s'.
Proof.
  revert s. induction l as [|a l IH]; intros s Hf E Hs; cbn [for_each] in E.
  - by apply ret_goes in E as [-> _].
  - apply bind_goes in E as (s1 & [] & E1 & E2).
    apply (IH s1); [|done|].
    + intros b t t' Hb. apply Hf. by right.
    + eapply Hf; [by left|done|done].
Qed.

(** What one iteration establishes and the later ones keep. *)
Lemma for_each_all {A} (P : A -> St -> Prop) (l : list A) f (s s' : St) u :
  NoDup l ->
  (forall a s s', a ∈ l -> goes (f a) s s' tt -> P a s') ->
  (forall a b s s', a ∈ l -> b ∈ l -> a <> b -> goes (f b) s s' tt -> P a s -> P a s') ->
  goes (for_each l f) s s' u -> forall a, a ∈ l -> P a s'.
Proof.
  revert s. induction l as [|a l IH]; intros s ND Hf Hk E b Hb; [by apply elem_of_nil in Hb|].
  apply list.NoDup_cons in ND as [Ha ND]. cbn [for_each] in E.
  apply bind_goes in E as (s1 & [] & E1 & E2).
  apply elem_of_cons in Hb as [->|Hb].
  - apply (for_each_invariant (P a) l f s1 s' u); [|done|].
    + intros b t t' Hb Et Pt. apply (Hk a b t t'); [by left|by right|congruence|done|done].
    + by apply (Hf a s); [left|].
  - apply (IH s1 ND); [| |done|done].
    + intros c t t' Hc. apply Hf. by right.
    + intros c d t t' Hc Hd. apply Hk; by right.
Qed.

End Goes.

(** Takes the hypotheses on runs that succeeded apart, one step at a time. *)
Ltac goes_step :=
  match goal with
  | E : goes (ret _) _ _ _ |- _ => apply ret_goes in E as [? ?]
  | E : goes (fail _) _ _ _ |- _ => destruct (fail_goes _ _ _ _ E)
  | E : goes undef _ _ _ |- _ => destruct (undef_goes _ _ _ E)
  | E : goes get _ _ _ |- _ => apply get_goes in E as [? ?]
  | E : goes (modify _) _ _ _ |- _ => apply modify_goes in E
  | E : goes (lift _) _ _ _ |- _ => apply lift_goes in E as [? E]
  | E : goes (bind _ _) _ _ _ |- _ =>
      let s := fresh "s" in let a := fresh "a" in let E1 := fresh "E" in
      apply bind_goes in E as (s & a & E1 & E)
  | E : goes (on_error _ _) _ _ _ |- _ => apply on_error_goes in E
  | E : goes (return_if_error _) _ _ _ |- _ => apply return_if_error_goes in E as [? ?]
  | a : unit |- _ => destruct a
  end; subst.
Ltac goes_inv := repeat goes_step.

(** ** Frames *)

(** Whatever the result, [m] keeps the relation [R] between the states. *)
Definition Keeps {St A} (R : St -> St -> Prop) (m : M St A) : Prop :=
  forall s s' x, m s = Ret (s', x) -> R s s'.

Section Keeps.
Context {St : Type} (R : St -> St -> Prop) {P : PreOrder R}.

Lemma keeps_ret {A} (a : A) : Keeps R (ret a).
Proof. by intros s s' x [= -> _]. Qed.
Lemma keeps_fail {A} r : Keeps R (fail (A:=A) r).
Proof. by intros s s' x [= -> _]. Qed.
Lemma keeps_undef {A} : Keeps R (undef (A:=A)).
Proof. done. Qed.
Lemma keeps_get : Keeps R get.
Proof. by intros s s' x [= -> _]. Qed.
Lemma keeps_lift {A} (o : outcome A) : Keeps R (lift o).
Proof. intros s s' x. unfold lift. destruct o; [by intros [= -> _]|done]. Qed.
Lemma keeps_modify f : (forall s, R s (f s)) -> Keeps R (modify f).
Proof. by intros Hf s s' x [= <- _]. Qed.

Lemma keeps_bind {A B} (m : M St A) (k : A -> M St B) :
  Keeps R m -> (forall a, Keeps R (k a)) -> Keeps R (bind m k).
Proof.
  intros Hm Hk s s' x. unfold bind. destruct (m s) as [[s1 [r|a]]|] eqn:E; [| |done].
  - intros [= <- _]. by apply Hm in E.
  - intros E'. apply Hm in E. apply Hk in E'. by etrans.
Qed.

Lemma keeps_on_error {A} (m : M St A) h :
  Keeps R m -> (forall r, Keeps R (h r)) -> Keeps R (on_error m h).
Proof.
  intros Hm Hh s s' x. unfold on_error.
  destruct (m s) as [[s1 [r|a]]|] eqn:E; [| |done]; apply Hm in E.
  - destruct (h r s1) as [[s2 [q|q]]|] eqn:E'; [| |done]; apply Hh in E';
      intros [= <- _]; by etrans.
  - by intros [= <- _].
Qed.

Lemma keeps_code {A} (m : M St A) : Keeps R m -> Keeps R (code m).
Proof.
  intros Hm s s' x. unfold code. destruct (m s) as [[s1 y]|] eqn:E; [|done].
  apply Hm in E. by intros [= <- _].
Qed.

Lemma keeps_return_if_error r : Keeps R (return_if_error r).
Proof. unfold return_if_error. case_match; [apply keeps_ret|apply keeps_fail]. Qed.

Lemma keeps_for_each {A} (l : list A) f : (forall a, Keeps R (f a)) -> Keeps R (for_each l f).
Proof.
  intros Hf. induction l as [|a l IH]; [apply keeps_ret|]. by apply keeps_bind.
Qed.

Lemma keeps_zoom {T A} (g : St -> T) (p : T -> St -> St) (m : M T A) :
  (forall t s, R s (p t s)) -> Keeps R (zoom g p m).
Proof.
  intros Hp s s' x. unfold zoom. destruct (m (g s)) as [[t y]|]; [|done]. by intros [= <- _].
Qed.

End Keeps.

(** Lemmas on the programs that keep a frame *)
Create HintDb keeps.

Ltac keeps_step :=
  match goal with
  | |- Keeps _ (bind _ _) => apply keeps_bind; [typeclasses eauto| |intros ?]
  | |- Keeps _ (on_error _ _) => apply keeps_on_error; [typeclasses eauto| |intros ?]
  | |- Keeps _ (modify _) => apply keeps_modify; intros ?; try done
  | |- Keeps _ (for_each _ _) => apply keeps_for_each; [typeclasses eauto|intros ?]
  | |- Keeps _ (match ?x with _ => _ end) => destruct x
  | |- Keeps _ (ret _) => apply keeps_ret; typeclasses eauto
  | |- Keeps _ (fail _) => apply keeps_fail; typeclasses eauto
  | |- Keeps _ undef => apply keeps_undef
  | |- Keeps _ get => apply keeps_get; typeclasses eauto
  | |- Keeps _ (lift _) => apply keeps_lift; typeclasses eauto
  | |- Keeps _ (return_if_error _) => apply keeps_return_if_error; typeclasses eauto
  | |- Keeps _ (code _) => apply keeps_code
  | |- Keeps _ _ => solve [eauto 4 with keeps typeclass_instances]
  end.
Ltac keeps := repeat keeps_step.
