(* ===== verification/EsysCryptoOk.v ===== *)
(** * Enhanced System API: what the cryptographic layer computes.

    The documented behaviour of a back end is [CryptoLaws]: a context that was
    started and given some bytes holds their concatenation, and the call that
    finishes it returns the digest of what it holds. Against these laws the
    functions of esys_crypto.c compute the hashes, the authorization HMACs,
    the key derivation and the obfuscation of TPM 2.0 Part 1. *)

From stdpp Require Import strings.
From S2P Require Import Prelude Common MuSpec MuBase MuBaseOk MuStruct MuTpm2b MuUnion TpmTypes MuTypes SysCodes Sys EsysBase EsysCrypto EsysLogic.

Open Scope tss_scope.
Open Scope esys_scope.
Open Scope Z_scope.

(** ** Sized buffers and images *)

(** The contents of a sized buffer *)
Definition contents (b : TPM2B) : bytes := take (Z.to_nat (size b)) (buffer b).
Definition contents_opt (b : option TPM2B) : bytes :=
  match b with Some b => contents b | None => [] end.

Lemma read2b_goes {St} (b : TPM2B) (s s' : St) w :
  goes (read2b b) s s' w <->
  s' = s /\ 0 <= size b <= Zlen (buffer b) /\ w = contents b.
Proof.
  unfold read2b. rewrite lift_goes. unfold access.
  destruct (mem_read (buffer b) 0 (size b)) as [v|] eqn:R.
  - apply mem_read_Some in R as (_ & ? & ? & ->). rewrite drop_0.
    split; [intros [-> [= <-]]|intros (-> & _ & ->)]; split_and!; (done || lia).
  - split; [by intros [_ ?]|]. intros (_ & ? & _).
    destruct (mem_read_is_Some (buffer b) 0 (size b)) as [v E]; [lia..|]. congruence.
Qed.

(** The image of an object of [sizeof] [n] bytes that fits. *)
Lemma mu_image_goes {H : Host} {St T} (m : T -> mstep) (sp : spec T) x n (s s' : St) w :
  0 <= n -> marshal_ok m sp -> s_wf sp x -> s_dom sp x ->
  goes (mu_image n (m x)) s s' w -> s' = s /\ s_wire sp x = Some w.
Proof.
  intros L Hm Hw Hd. unfold mu_image. destruct (Hm x Hw Hd) as [Hb _].
  destruct (Hb (replicate (Z.to_nat n) 0) n 0) as (rc & b & o & -> & P).
  { lia. }
  { rewrite Zlen_replicate. lia. }
  destruct P as [(v & -> & _ & -> & -> & W)|(N & _)].
  - cbn [Z.eqb TSS2_RC_SUCCESS]. intros [= -> <-]. split; [done|]. f_equal.
    rewrite Z.add_0_l. destruct W as [[-> ->]|W]; [done|].
    apply mem_write_Some in W as (_ & _ & ->). rewrite take_0. cbn [app].
    unfold Zlen. by rewrite Nat2Z.id, take_app_length.
  - by rewrite (proj2 (Z.eqb_neq _ _) N).
Qed.

(** An integer is marshaled whatever its value: high bits are lost. *)
Lemma mu_int_run {H : Host} {St} ty v n (s : St) (step : mstep) :
  ctype_ok ty -> csizeof ty <= n -> step = BASE_MARSHAL ty v \/ step = TPMA_MARSHAL ty v ->
  mu_image n step s = Ret (s, inr (be_bytes (csize ty) (to_unsigned ty v))).
Proof.
  intros O Hn E. pose proof (csizeof_pos ty O) as P. unfold mu_image.
  destruct (store_be ty v (replicate (Z.to_nat n) 0) 0 O) as (r & b & Sw & W & W').
  { lia. }
  { rewrite Zlen_replicate. lia. }
  assert (step (Some (replicate (Z.to_nat n) 0)) n (Some 0)
          = Ret (TSS2_RC_SUCCESS, (Some b, Some (csizeof ty)))) as ->.
  { destruct E as [-> | ->]; [unfold BASE_MARSHAL|unfold TPMA_MARSHAL];
      cbn -[csizeof]; rewrite Z.sub_0_r, !(proj2 (Z.ltb_ge n _)) by lia;
      cbn [orb]; rewrite Sw, W; done. }
  cbn [Z.eqb TSS2_RC_SUCCESS]. do 3 f_equal.
  apply mem_write_Some in W' as (_ & _ & ->). change (Z.to_nat 0) with 0%nat. rewrite take_0.
  cbn [app]. pose proof (Zlen_be_bytes (csize ty) (to_unsigned ty v)) as L. unfold Zlen in L.
  rewrite take_app_le by (unfold csizeof; lia). apply take_ge. unfold csizeof. lia.
Qed.

Lemma mu_int_goes {H : Host} {St} ty v (s s' : St) w (step : mstep) :
  ctype_ok ty -> step = BASE_MARSHAL ty v \/ step = TPMA_MARSHAL ty v ->
  goes (mu_image (csizeof ty) step) s s' w ->
  s' = s /\ w = be_bytes (csize ty) (to_unsigned ty v).
Proof. intros O E. rewrite (mu_int_run ty v) by done. by intros [= -> ->]. Qed.

(** ** The laws of a back end *)

(** [digest alg None m] is the hash of [m], [digest alg (Some key) m] its HMAC;
    [absorbs u x alg key m]: in the user data [u], the context [x] has been
    given the bytes [m]. *)
Record crypto_model {U K : Type} : Type := CryptoModel {
  digest : Z -> option bytes -> bytes -> bytes;
  absorbs : U -> K -> Z -> option bytes -> bytes -> Prop
}.
Arguments crypto_model : clear implicits.

(** The sizes of [iesys_crypto_hash_get_digest_size] *)
Definition digest_size (alg : Z) : option Z :=
  match iesys_crypto_hash_get_digest_size alg tt with Ret (_, inr n) => Some n | _ => None end.

Lemma digest_size_goes {St} alg (s s' : St) n :
  goes (iesys_crypto_hash_get_digest_size alg) s s' n <-> s' = s /\ digest_size alg = Some n.
Proof.
  unfold digest_size, iesys_crypto_hash_get_digest_size, ret, fail.
  repeat case_match; simplify_eq;
    (split; [by intros [= -> ->]|by intros [-> [= ->]]]) || (split; [done|by intros [_ ?]]).
Qed.

Lemma digest_size_pos alg n : digest_size alg = Some n -> 20 <= n <= 64.
Proof.
  unfold digest_size, iesys_crypto_hash_get_digest_size, ret, fail.
  repeat case_match; intros; simplify_eq; by vm_compute.
Qed.

(** What a call that returns success has done. *)
Class CryptoLaws {U K} (D : crypto_model U K) (cb : ESYS_CRYPTO_CALLBACKS U K) : Prop := {
  law_hash_start f alg u k u' : hash_start cb = Some f -> f alg u = (TSS2_RC_SUCCESS, k, u') ->
    exists x, k = Some x /\ absorbs D u' x alg None [];
  law_hash_update f x b u u' alg m : hash_update cb = Some f ->
    f (Some x) b u = (TSS2_RC_SUCCESS, u') -> absorbs D u x alg None m ->
    absorbs D u' x alg None (m ++ b);
  law_hash_finish f x n u d n' k u' alg m : hash_finish cb = Some f ->
    f (Some x) n u = (TSS2_RC_SUCCESS, (d, n', k), u') -> absorbs D u x alg None m ->
    d = digest D alg None m /\ n' = Zlen d;
  law_hmac_start f alg key u k u' : hmac_start cb = Some f ->
    f alg key u = (TSS2_RC_SUCCESS, k, u') ->
    exists x, k = Some x /\ absorbs D u' x alg (Some key) [];
  law_hmac_update f x b u u' alg key m : hmac_update cb = Some f ->
    f (Some x) b u = (TSS2_RC_SUCCESS, u') -> absorbs D u x alg (Some key) m ->
    absorbs D u' x alg (Some key) (m ++ b);
  law_hmac_finish f x n u d n' k u' alg key m : hmac_finish cb = Some f ->
    f (Some x) n u = (TSS2_RC_SUCCESS, (d, n', k), u') -> absorbs D u x alg (Some key) m ->
    d = digest D alg (Some key) m /\ n' = Zlen d;
  law_digest_size alg key m n : digest_size alg = Some n -> Zlen (digest D alg key m) = n
}.

Section Ok.
Context {H : Host} {U K : Type} (D : crypto_model U K).
Abbreviation CB := (ESYS_CRYPTO_CALLBACKS U K).

(** The same callbacks, with other user data *)
Definition same_backend (cb cb' : CB) : Prop := exists u, cb' = set_userdata u cb.

#[global] Instance same_backend_preorder : PreOrder same_backend.
Proof.
  split.
  - intros cb. exists (userdata cb). by destruct cb.
  - intros cb1 cb2 cb3 [u ->] [u' ->]. by exists u'.
Qed.

#[global] Instance laws_proper : Proper (same_backend ==> iff) (CryptoLaws D).
Proof.
  intros cb cb' [u ->]. split; intros [].
  all: constructor; first [eassumption|done].
Qed.

(** [cb] comes from [cb0], and the context [k] of [cb] holds [m]. *)
Definition holds (cb0 cb : CB) (k : option K) (alg : Z) (key : option bytes) (m : bytes) : Prop :=
  same_backend cb0 cb /\ exists x, k = Some x /\ absorbs D (userdata cb) x alg key m.

Context (cb0 : CB) {L : CryptoLaws D cb0}.

Lemma callback_goes {F A} (callback : CB -> option F) (run : F -> U -> TSS2_RC * A * U) cb cb' a :
  goes (DO_CALLBACK callback run) cb cb' a ->
  exists f u, callback cb = Some f /\ run f (userdata cb) = (TSS2_RC_SUCCESS, a, u) /\
    cb' = set_userdata u cb.
Proof.
  unfold DO_CALLBACK. destruct (callback cb) as [f|]; [|done].
  destruct (run f (userdata cb)) as [[rc b] u] eqn:R.
  destruct (Z.eqb_spec rc TSS2_RC_SUCCESS) as [->|]; [|done]. intros [= <- ->]. eauto.
Qed.

Lemma out_callback_goes {F A} (callback : CB -> option F) a0 (run : F -> U -> TSS2_RC * A * U)
    cb cb' a :
  goes (OUT_CALLBACK callback a0 run) cb cb' (TSS2_RC_SUCCESS, a) ->
  exists f u, callback cb = Some f /\ run f (userdata cb) = (TSS2_RC_SUCCESS, a, u) /\
    cb' = set_userdata u cb.
Proof.
  unfold OUT_CALLBACK. destruct (callback cb) as [f|]; [|by intros [= _ E]].
  destruct (run f (userdata cb)) as [[rc b] u] eqn:R. intros [= <- -> ->]. eauto.
Qed.

Lemma no_out_inv (r : TSS2_RC * U) rc a u : no_out r = (rc, a, u) -> r = (rc, u).
Proof. destruct r. by intros [= -> _ ->]. Qed.

Lemma backend_laws cb : same_backend cb0 cb -> CryptoLaws D cb.
Proof. intros B. by apply (laws_proper cb0 cb B). Qed.

Lemma hash_start_holds alg cb cb' k :
  same_backend cb0 cb -> goes (iesys_crypto_hash_start alg) cb cb' k ->
  holds cb0 cb' k alg None [].
Proof.
  intros B E. apply callback_goes in E as (f & u & F & R & ->).
  pose proof (backend_laws cb B) as Lc. apply (law_hash_start (cb:=cb)) with (1:=F) in R as (x & -> & R).
  split; [by etrans; [|eexists]|]. by exists x.
Qed.

Lemma hmac_start_holds alg key cb cb' k :
  same_backend cb0 cb -> goes (iesys_crypto_hmac_start alg key) cb cb' k ->
  holds cb0 cb' k alg (Some key) [].
Proof.
  intros B E. apply callback_goes in E as (f & u & F & R & ->).
  pose proof (backend_laws cb B) as Lc. apply (law_hmac_start (cb:=cb)) with (1:=F) in R as (x & -> & R).
  split; [by etrans; [|eexists]|]. by exists x.
Qed.

Lemma hash_update_holds cb cb' k alg m b u :
  holds cb0 cb k alg None m -> goes (iesys_crypto_hash_update k b) cb cb' u ->
  holds cb0 cb' k alg None (m ++ b).
Proof.
  intros (B & x & -> & A) E. apply callback_goes in E as (f & u' & F & R & ->).
  pose proof (backend_laws cb B) as Lc. apply no_out_inv in R.
  split; [by etrans; [|eexists]|]. exists x. split; [done|].
  by apply (law_hash_update (cb:=cb) f x b (userdata cb) u').
Qed.

Lemma hash_update2b_holds cb cb' k alg m b u :
  holds cb0 cb k alg None m -> goes (iesys_crypto_hash_update2b k b) cb cb' u ->
  holds cb0 cb' k alg None (m ++ contents b).
Proof.
  intros Hh E. unfold iesys_crypto_hash_update2b in E.
  apply bind_goes in E as (s & w & E1 & E). apply read2b_goes in E1 as (-> & _ & ->).
  by apply hash_update_holds with (1:=Hh) in E.
Qed.

Lemma hash_finish_holds cb cb' k alg m n d n' k' :
  holds cb0 cb k alg None m ->
  goes (iesys_crypto_hash_finish k n) cb cb' (TSS2_RC_SUCCESS, (d, n', k')) ->
  same_backend cb0 cb' /\ d = digest D alg None m /\ n' = Zlen d.
Proof.
  intros (B & x & -> & A) E. apply out_callback_goes in E as (f & u & F & R & ->).
  pose proof (backend_laws cb B) as Lc. split; [by etrans; [|eexists]|].
  by apply (law_hash_finish (cb:=cb) f x n (userdata cb) d n' k' u).
Qed.

Lemma hmac_update_holds key cb cb' k alg m b u :
  holds cb0 cb k alg (Some key) m -> goes (iesys_crypto_hmac_update k b) cb cb' u ->
  holds cb0 cb' k alg (Some key) (m ++ b).
Proof.
  intros (B & x & -> & A) E. apply callback_goes in E as (f & u' & F & R & ->).
  pose proof (backend_laws cb B) as Lc. apply no_out_inv in R.
  split; [by etrans; [|eexists]|]. exists x. split; [done|].
  by apply (law_hmac_update (cb:=cb) f x b (userdata cb) u').
Qed.

Lemma hmac_update2b_holds key cb cb' k alg m b u :
  holds cb0 cb k alg (Some key) m -> goes (iesys_crypto_hmac_update2b k b) cb cb' u ->
  holds cb0 cb' k alg (Some key) (m ++ contents b).
Proof.
  intros Hh E. unfold iesys_crypto_hmac_update2b in E.
  apply bind_goes in E as (s & w & E1 & E). apply read2b_goes in E1 as (-> & _ & ->).
  by apply hmac_update_holds with (1:=Hh) in E.
Qed.

Lemma hmac_finish_holds key cb cb' k alg m n d n' k' :
  holds cb0 cb k alg (Some key) m ->
  goes (iesys_crypto_hmac_finish k n) cb cb' (TSS2_RC_SUCCESS, (d, n', k')) ->
  same_backend cb0 cb' /\ d = digest D alg (Some key) m /\ n' = Zlen d.
Proof.
  intros (B & x & -> & A) E. apply out_callback_goes in E as (f & u & F & R & ->).
  pose proof (backend_laws cb B) as Lc. split; [by etrans; [|eexists]|].
  by apply (law_hmac_finish (cb:=cb) f x n (userdata cb) d n' k' u).
Qed.

Lemma when_some_holds {A} (o : option A) f (image : A -> bytes) alg key cb cb' k m u :
  (forall a cb cb' m u, holds cb0 cb k alg key m -> goes (f a) cb cb' u ->
     holds cb0 cb' k alg key (m ++ image a)) ->
  holds cb0 cb k alg key m -> goes (when_some o f) cb cb' u ->
  holds cb0 cb' k alg key (m ++ from_option image [] o).
Proof.
  intros Hf Hh E. destruct o as [a|]; cbn [when_some from_option] in *.
  - by apply Hf with (1:=Hh) in E.
  - apply ret_goes in E as [-> _]. by rewrite app_nil_r.
Qed.

Lemma finished_goes {A} (abort : option K -> M CB unit) (m : M CB (TSS2_RC * (A * option K))) cb cb' a :
  goes (finished abort m) cb cb' a ->
  exists k, goes m cb cb' (TSS2_RC_SUCCESS, (a, k)).
Proof.
  unfold finished, aborting. intros E. apply bind_goes in E as (s & [r [b k]] & E1 & E).
  apply on_error_goes, bind_goes in E as (s1 & [] & E2 & E).
  apply return_if_error_goes in E2 as [-> ->]. apply ret_goes in E as [-> ->]. eauto.
Qed.

(** ** The functions of esys_crypto.c *)

(** The updates between the start and the end of a computation: each hypothesis
    on an update extends what the context holds. *)
Ltac holds_step :=
  match goal with
  | Hh : holds _ ?cb _ _ _ _, E : goes (iesys_crypto_hash_update _ _) ?cb _ _ |- _ =>
      apply (hash_update_holds _ _ _ _ _ _ _ Hh) in E; clear Hh
  | Hh : holds _ ?cb _ _ _ _, E : goes (iesys_crypto_hash_update2b _ _) ?cb _ _ |- _ =>
      apply (hash_update2b_holds _ _ _ _ _ _ _ Hh) in E; clear Hh
  | Hh : holds _ ?cb _ _ _ _, E : goes (iesys_crypto_hmac_update _ _) ?cb _ _ |- _ =>
      apply (hmac_update_holds _ _ _ _ _ _ _ _ Hh) in E; clear Hh
  | Hh : holds _ ?cb _ _ _ _, E : goes (iesys_crypto_hmac_update2b _ _) ?cb _ _ |- _ =>
      apply (hmac_update2b_holds _ _ _ _ _ _ _ _ Hh) in E; clear Hh
  | Hh : holds _ ?cb _ _ _ _, E : goes (when_some ?o (iesys_crypto_hash_update _)) ?cb _ _ |- _ =>
      apply (when_some_holds o _ id _ _ _ _ _ _ _
        (fun a cb cb' m u => hash_update_holds cb cb' _ _ m a u) Hh) in E; clear Hh
  | Hh : holds _ ?cb _ _ _ _, E : goes (when_some ?o (iesys_crypto_hash_update2b _)) ?cb _ _ |- _ =>
      apply (when_some_holds o _ contents _ _ _ _ _ _ _
        (fun a cb cb' m u => hash_update2b_holds cb cb' _ _ m a u) Hh) in E; clear Hh
  | Hh : holds _ ?cb _ _ _ _, E : goes (when_some ?o (iesys_crypto_hmac_update2b _)) ?cb _ _ |- _ =>
      apply (when_some_holds o _ contents _ _ _ _ _ _ _
        (fun a cb cb' m u => hmac_update2b_holds _ cb cb' _ _ m a u) Hh) in E; clear Hh
  | Hh : holds _ ?cb _ _ _ _,
    E : goes (when_some ?o (fun l => iesys_crypto_hmac_update _ (c_string l))) ?cb _ _ |- _ =>
      apply (when_some_holds o _ c_string _ _ _ _ _ _ _
        (fun a cb cb' m u => hmac_update_holds _ cb cb' _ _ m (c_string a) u) Hh) in E; clear Hh
  end.

Lemma pHash_goes alg rc cc n1 n2 n3 p n cb cb' d n' :
  same_backend cb0 cb ->
  goes (iesys_crypto_pHash alg rc cc n1 n2 n3 p n) cb cb' (d, n') ->
  same_backend cb0 cb' /\ n' = Zlen d /\
  d = digest D alg None (from_option id [] rc ++ cc ++ contents_opt n1 ++ contents_opt n2 ++
        contents_opt n3 ++ p).
Proof.
  intros B E. unfold iesys_crypto_pHash, aborting in E. goes_inv.
  match goal with E : goes (iesys_crypto_hash_start _) _ _ _ |- _ =>
    apply (hash_start_holds _ _ _ _ B) in E end.
  repeat holds_step. apply finished_goes in E as (k & E).
  match goal with Hh : holds _ _ _ _ _ _ |- _ =>
    apply (hash_finish_holds _ _ _ _ _ _ _ _ _ Hh) in E as (B' & -> & ->) end.
  split; [done|]. split; [done|]. f_equal. by rewrite <-!app_assoc.
Qed.

Lemma hmac_finish2b_goes key cb cb' k alg m b b' k' :
  Zlen (buffer b) < 2 ^ 16 -> holds cb0 cb k alg (Some key) m ->
  goes (iesys_crypto_hmac_finish2b k b) cb cb' (TSS2_RC_SUCCESS, (b', k')) ->
  same_backend cb0 cb' /\ contents b' = digest D alg (Some key) m /\
  size b' = Zlen (digest D alg (Some key) m) /\ Zlen (buffer b') = Zlen (buffer b).
Proof.
  intros Hb Hh E. unfold iesys_crypto_hmac_finish2b in E.
  apply bind_goes in E as (s & [r [[d n'] k'']] & E1 & E). goes_inv.
  match goal with E : (_, _) = (_, _) |- _ => injection E as <- -> <- end.
  apply (hmac_finish_holds _ _ _ _ _ _ _ _ _ _ Hh) in E1 as (B & -> & ->).
  destruct (mem_write (buffer b) 0 _) as [w|] eqn:W; [|done].
  match goal with E : access _ = Ret _ |- _ => injection E as -> end.
  pose proof (mem_write_len _ _ _ _ W) as Lw. apply mem_write_Some in W as (_ & F & ->).
  pose proof (Zlen_nonneg (digest D alg (Some key) m)) as Ln.
  split; [done|]. unfold contents. cbn [size buffer].
  rewrite Z.add_0_l in F. unfold wrap. rewrite Z.mod_small by lia.
  split; [|done]. change (Z.to_nat 0) with 0%nat. rewrite take_0. cbn [app]. unfold Zlen.
  by rewrite Nat2Z.id, take_app_length.
Qed.

(** The authorization HMAC of Part 1, 19.6.5 (command) and 19.6.6 (response) *)
Definition auth_hmac (alg : Z) (key pHash : bytes) (nonceNewer nonceOlder : TPM2B)
    (nonceDecrypt nonceEncrypt : option TPM2B) (sessionAttributes : Z) : bytes :=
  digest D alg (Some key)
    (pHash ++ contents nonceNewer ++ contents nonceOlder ++ contents_opt nonceDecrypt
     ++ contents_opt nonceEncrypt ++ be_bytes 1 (wrap 8 sessionAttributes)).

Lemma authHmac_goes alg key pHash nN nO nD nE attrs b cb cb' b' :
  Zlen (buffer b) < 2 ^ 16 -> same_backend cb0 cb ->
  goes (iesys_crypto_authHmac alg key pHash nN nO nD nE attrs b) cb cb' b' ->
  same_backend cb0 cb' /\ contents b' = auth_hmac alg key pHash nN nO nD nE attrs /\
  size b' = Zlen (auth_hmac alg key pHash nN nO nD nE attrs) /\
  Zlen (buffer b') = Zlen (buffer b).
Proof.
  intros Hb B E. unfold iesys_crypto_authHmac, aborting in E. goes_inv.
  match goal with E : goes (mu_image _ _) _ _ _ |- _ =>
    apply (mu_int_goes UINT8 attrs) in E as [-> ->]; [|ctype|by right] end.
  match goal with E : goes (iesys_crypto_hmac_start _ _) _ _ _ |- _ =>
    apply (hmac_start_holds _ _ _ _ _ B) in E end.
  repeat holds_step. apply finished_goes in E as (k & E).
  match goal with Hh : holds _ _ _ _ _ _ |- _ =>
    apply (hmac_finish2b_goes _ _ _ _ _ _ _ _ _ Hb Hh) in E end.
  unfold auth_hmac. rewrite <-!app_assoc in E. exact E.
Qed.

(** ** Key derivation *)

(** One block of KDFa, Part 1, 11.4.10.2 *)
Definition kdfa_block (alg : Z) (key : bytes) (label : option string) (u v : TPM2B)
    (bits counter : Z) : bytes :=
  digest D alg (Some key)
    (be_bytes 4 (wrap 32 counter) ++ from_option c_string [] label ++ contents u ++ contents v
     ++ be_bytes 4 (wrap 32 bits)).

Lemma KDFaHmac_goes alg key counter label u v bits n cb cb' d n' :
  same_backend cb0 cb ->
  goes (iesys_crypto_KDFaHmac alg key counter label u v bits n) cb cb' (d, n') ->
  same_backend cb0 cb' /\ d = kdfa_block alg key label u v bits counter /\ n' = Zlen d.
Proof.
  intros B E. unfold iesys_crypto_KDFaHmac, aborting in E. goes_inv.
  repeat match goal with E : goes (mu_image _ (Tss2_MU_UINT32_Marshal ?v)) _ _ _ |- _ =>
    apply (mu_int_goes UINT32 v) in E as [-> ->]; [|ctype|by left] end.
  match goal with E : goes (iesys_crypto_hmac_start _ _) _ _ _ |- _ =>
    apply (hmac_start_holds _ _ _ _ _ B) in E end.
  repeat holds_step. apply finished_goes in E as (k & E).
  match goal with Hh : holds _ _ _ _ _ _ |- _ =>
    apply (hmac_finish_holds _ _ _ _ _ _ _ _ _ _ Hh) in E as (B' & -> & ->) end.
  split; [done|]. split; [|done]. unfold kdfa_block. f_equal. by rewrite <-!app_assoc.
Qed.

(** [n] blocks from the one after [counter] on *)
Fixpoint kdfa_blocks (n : nat) (alg : Z) (key : bytes) (label : option string) (u v : TPM2B)
    (bits counter : Z) : bytes :=
  match n with
  | O => []
  | Datatypes.S n => kdfa_block alg key label u v bits (wrap 32 (counter + 1))
           ++ kdfa_blocks n alg key label u v bits (wrap 32 (counter + 1))
  end.

Lemma wrap32_add c r : wrap 32 (wrap 32 c + r) = wrap 32 (c + r).
Proof. unfold wrap. by rewrite Z.add_mod_idemp_l. Qed.

Lemma Zlen_kdfa_blocks n alg key label u v bits counter h :
  digest_size alg = Some h ->
  Zlen (kdfa_blocks n alg key label u v bits counter) = Z.of_nat n * h.
Proof.
  intros Hh. revert counter. induction n as [|n IH]; intros counter; [done|].
  cbn [kdfa_blocks]. rewrite Zlen_app, IH. unfold kdfa_block.
  rewrite (law_digest_size (cb:=cb0) _ _ _ _ Hh). lia.
Qed.

(** The number of blocks for [nbytes] bytes; one block when [nbytes] is 0 *)
Definition blocks_for (nbytes h : Z) (r : nat) : Prop :=
  (1 <= r)%nat /\ nbytes <= Z.of_nat r * h /\ ((r = 1)%nat \/ (Z.of_nat r - 1) * h < nbytes).

Lemma KDFa_loop_goes n alg key label u v bits counter sub nbytes h out cb cb' out' c' :
  same_backend cb0 cb -> digest_size alg = Some h -> 0 <= nbytes < size_max -> 0 <= sub ->
  goes (KDFa_loop n alg key label u v bits counter sub nbytes h out) cb cb' (out', c') ->
  exists r, blocks_for nbytes h r /\ same_backend cb0 cb' /\
    c' = wrap 32 (counter + Z.of_nat r) /\
    mem_write out sub (kdfa_blocks r alg key label u v bits counter) = Some out'.
Proof.
  intros B Hh. pose proof (digest_size_pos _ _ Hh) as P.
  revert counter sub nbytes out cb B. induction n as [|n IH]; intros counter sub nbytes out cb B Hn Hs E;
    [by apply undef_goes in E|].
  cbn [KDFa_loop] in E. apply bind_goes in E as (cb1 & [d h'] & E1 & E).
  apply (KDFaHmac_goes _ _ _ _ _ _ _ _ _ _ _ _ B) in E1 as (B1 & Ed & Eh).
  assert (h' = h) as ->.
  { rewrite Eh, Ed. unfold kdfa_block. by apply (law_digest_size (cb:=cb0)). }
  apply bind_goes in E as (cb2 & out1 & E1 & E). apply lift_goes in E1 as [-> W].
  destruct (mem_write out sub d) as [w|] eqn:W'; [|done]. injection W as ->.
  destruct (Z.leb_spec nbytes h) as [Lb|Lb].
  - apply ret_goes in E as [-> E]. injection E as -> ->. exists 1%nat.
    split; [unfold blocks_for; split_and!; [lia|lia|by left]|]. split; [done|].
    split; [done|]. cbn [kdfa_blocks]. by rewrite app_nil_r, <-Ed.
  - unfold wrap64 in E. rewrite Z.mod_small in E by lia.
    apply IH in E as (r & (R1 & R2 & R3) & B' & -> & W2); [|done|lia|lia].
    exists (Datatypes.S r). split.
    { unfold blocks_for. split_and!; [lia|lia|right]. destruct R3 as [-> | R3]; lia. }
    split; [done|]. split.
    { rewrite wrap32_add. f_equal. lia. }
    cbn [kdfa_blocks]. rewrite <-Ed. apply (mem_write_app _ _ _ _ out1); [done|].
    by rewrite <-Eh.
Qed.

Lemma KDFa_goes alg key label u v bits cin out use_digest_size cb cb' out' cout h :
  same_backend cb0 cb -> digest_size alg = Some h -> 0 <= bits < 2 ^ 32 - 7 ->
  goes (iesys_crypto_KDFa alg key label u v bits cin out use_digest_size) cb cb' (out', cout) ->
  exists r w, blocks_for (if use_digest_size then h else (bits + 7) / 8) h r /\
    same_backend cb0 cb' /\
    cout = (if cin is Some _ then Some (wrap 32 (default 0 cin + Z.of_nat r)) else None) /\
    mem_write out 0 (kdfa_blocks r alg key label u v bits (default 0 cin)) = Some w /\
    mask_first bits w = Ret out'.
Proof.
  intros B Hh Hb E. pose proof (digest_size_pos _ _ Hh) as P. unfold iesys_crypto_KDFa in E.
  apply bind_goes in E as (s & h' & E1 & E). apply digest_size_goes in E1 as [-> E1].
  assert (h' = h) as -> by congruence.
  apply bind_goes in E as (s1 & [w c'] & E2 & E).
  assert (wrap 32 (bits + 7) / 8 = (bits + 7) / 8) as Ew.
  { unfold wrap. by rewrite Z.mod_small by lia. }
  rewrite Ew in E2. apply (KDFa_loop_goes _ _ _ _ _ _ _ _ _ _ h) in E2
    as (r & R & B' & -> & W); [|done..| |lia].
  - apply bind_goes in E as (s2 & k & E3 & E). apply lift_goes in E3 as [-> M].
    apply ret_goes in E as [-> E]. injection E as -> ->. exists r, w.
    by split_and!.
  - assert (0 <= (bits + 7) / 8 < 2 ^ 32) by (Z.to_euclidean_division_equations; lia).
    unfold size_max in *. destruct use_digest_size; lia.
Qed.

(** ** Obfuscation *)

Lemma mask_first_bytes bits key : bits mod 8 = 0 -> mask_first bits key = Ret key.
Proof. intros E. unfold mask_first. by rewrite E. Qed.

(** One block of the mask *)
Lemma KDFa_block_goes alg key u v bits counter cb cb' out cout h :
  same_backend cb0 cb -> digest_size alg = Some h -> 0 <= bits < 2 ^ 32 - 7 -> bits mod 8 = 0 ->
  goes (iesys_crypto_KDFa alg key (Some "XOR"%string) u v bits (Some counter)
    (replicate (Z.to_nat TPM2_MAX_DIGEST_BUFFER) 0) true) cb cb' (out, cout) ->
  same_backend cb0 cb' /\ cout = Some (wrap 32 (counter + 1)) /\
  take (Z.to_nat h) out = kdfa_block alg key (Some "XOR"%string) u v bits (wrap 32 (counter + 1)).
Proof.
  intros B Hh Hb Hm E. pose proof (digest_size_pos _ _ Hh) as P.
  apply (KDFa_goes _ _ _ _ _ _ _ _ _ _ _ _ _ h) in E as (r & w & (R1 & R2 & R3) & B' & -> & W & M);
    [|done..].
  cbv iota in R2, R3. assert (r = 1%nat) as -> by (destruct R3 as [|]; [done|nia]).
  rewrite mask_first_bytes in M by done. injection M as <-.
  split; [done|]. split; [done|]. cbn [kdfa_blocks default] in W. rewrite app_nil_r in W.
  apply mem_write_Some in W as (_ & _ & ->). change (Z.to_nat 0) with 0%nat.
  rewrite take_0. cbn [app]. change (id counter) with counter.
  assert (Zlen (kdfa_block alg key (Some "XOR"%string) u v bits (wrap 32 (counter + 1))) = h) as Eh
    by by apply (law_digest_size (cb:=cb0)).
  rewrite take_app_le by (unfold Zlen in Eh; lia). apply take_ge. unfold Zlen in Eh. lia.
Qed.

Lemma xor_bytes_app d m1 m2 :
  xor_bytes d (m1 ++ m2) =
  xor_bytes (take (length m1) d) m1 ++ xor_bytes (drop (length m1) d) m2.
Proof.
  unfold xor_bytes. revert d. induction m1 as [|a m1 IH]; intros d; [done|].
  destruct d as [|b d]; [done|]. cbn [app zip_with length take drop]. by rewrite IH.
Qed.

Lemma xor_bytes_take d m : xor_bytes d m = xor_bytes d (take (length d) m).
Proof.
  unfold xor_bytes. revert m. induction d as [|a d IH]; intros m; [done|].
  destruct m as [|b m]; [done|]. cbn. by rewrite IH.
Qed.

Lemma xor_bytes_nil_r d : xor_bytes d [] = [].
Proof. by destruct d. Qed.

Lemma xor_loop_goes n alg key u v bits counter h rest cb cb' out :
  same_backend cb0 cb -> digest_size alg = Some h -> bits mod 8 = 0 -> (length rest <= n)%nat ->
  goes (xor_loop n alg key u v bits counter h rest) cb cb' out ->
  same_backend cb0 cb' /\
  out = xor_bytes rest (kdfa_blocks n alg key (Some "XOR"%string) u v (wrap 32 bits) counter).
Proof.
  intros B Hh Hm. pose proof (digest_size_pos _ _ Hh) as P.
  revert counter rest cb cb' out B.
  induction n as [|n IH]; intros counter [|a rest] cb cb' out B Hn E;
    [by apply ret_goes in E as [-> ->]|by cbn in Hn; lia|by apply ret_goes in E as [-> ->]|].
  cbn [xor_loop] in E. set (data := a :: rest) in *.
  apply bind_goes in E as (cb1 & [blk c] & E1 & E).
  assert (0 <= wrap 32 bits < 2 ^ 32 - 7 /\ wrap 32 bits mod 8 = 0) as [Hw Hw8].
  { unfold wrap. Z.to_euclidean_division_equations; lia. }
  apply (KDFa_block_goes _ _ _ _ _ _ _ _ _ _ h) in E1 as (B1 & -> & Eb); [|done..].
  apply bind_goes in E as (cb2 & rest' & E1 & E). apply ret_goes in E as [-> ->].
  cbn [default from_option] in E1. cbn [kdfa_blocks]. rewrite <-Eb.
  set (b := take (Z.to_nat h) blk) in *.
  assert (length b = Z.to_nat h) as Lb.
  { pose proof (law_digest_size (cb:=cb0) _ (Some key) (be_bytes 4 (wrap 32 (wrap 32 (counter + 1))) ++
      from_option c_string [] (Some "XOR"%string) ++ contents u ++ contents v ++
      be_bytes 4 (wrap 32 (wrap 32 bits))) _ Hh) as Lk.
    rewrite Eb. unfold kdfa_block. unfold Zlen in Lk. lia. }
  apply IH in E1 as [B2 ->]; [|done|].
  - split; [done|]. rewrite xor_bytes_app, Lb.
    destruct (Z.le_gt_cases h (Zlen data)) as [Ld|Ld].
    + by rewrite Z.min_l by lia.
    + rewrite Z.min_r by lia. unfold Zlen in *. rewrite Nat2Z.id.
      rewrite !take_ge, !drop_ge by lia. f_equal. subst b.
      rewrite (take_ge data (Z.to_nat h)) by lia.
      by rewrite (xor_bytes_take data (take (Z.to_nat h) blk)), take_take, Nat.min_l by lia.
  - rewrite length_drop. unfold Zlen. subst data. cbn [length] in *. lia.
Qed.

Lemma obfuscation_goes alg key u v data cb cb' out :
  same_backend cb0 cb ->
  goes (iesys_xor_parameter_obfuscation alg key u v data) cb cb' out ->
  same_backend cb0 cb' /\
  out = xor_bytes data (kdfa_blocks (length data) alg key (Some "XOR"%string) u v
          (wrap 32 (8 * Zlen data)) 0).
Proof.
  intros B E. unfold iesys_xor_parameter_obfuscation in E.
  apply bind_goes in E as (cb1 & h & E1 & E). apply digest_size_goes in E1 as [-> Hh].
  assert (wrap64 (Zlen data * 8) mod 8 = 0 /\
          wrap 32 (wrap64 (Zlen data * 8)) = wrap 32 (8 * Zlen data)) as [M8 W].
  { unfold wrap64, wrap, size_max. split; Z.to_euclidean_division_equations; lia. }
  apply xor_loop_goes in E as [B' ->]; [|done..]. by rewrite W.
Qed.

End Ok.
