(* ===== verification/EsysMuOk.v ===== *)
(** * Enhanced System API: the metadata of an object survives being stored.

    The functions of esys_mu.c do not promise all that those of the marshaling
    library promise: an unmarshal function may run out of a buffer. [writes]
    and [reads_back] are the half of the contract that holds: the image of an
    object is written, and an image is read back. *)

From stdpp Require Import gmap.
From S2P Require Import Prelude Common MuSpec MuBase MuBaseOk MuStruct MuStructOk MuTpm2b MuTpm2bOk MuUnion TpmTypes MuTypes MuTypesOk SysCodes Sys EsysBase EsysCrypto EsysCtx EsysUtil EsysMu.

Open Scope tss_scope.
Open Scope Z_scope.

(** ** The contracts *)

Definition writes {T} (m : T -> mstep) (s : spec T) : Prop :=
  forall x w size lo, s_wf s x -> s_wire s x = Some w ->
  0 <= lo -> lo + Zlen w <= size -> size < size_max ->
  (forall b, size <= Zlen b ->
     exists b', m x (Some b) size (Some lo) = Ret (TSS2_RC_SUCCESS, (Some b', Some (lo + Zlen w))) /\
       mem_write b lo w = Some b') /\
  m x None size (Some lo) = Ret (TSS2_RC_SUCCESS, (None, Some (lo + Zlen w))).

(** [read_at b size lo w]: the buffer holds [w] at [lo]. *)
Definition read_at (b : bytes) (size lo : Z) (w : bytes) : Prop :=
  bytes_ok b /\ 0 <= lo /\ lo + Zlen w <= size /\ size <= Zlen b /\ size < size_max /\
  mem_read b lo (Zlen w) = Some w.

Definition reads_back {T} (u : ufn T) (s : spec T) : Prop :=
  forall b size lo d x w, read_at b size lo w -> s_wf s d -> s_wf s x -> s_wire s x = Some w ->
  exists d', u (Some b) size (Some lo) (Some d)
             = Ret (TSS2_RC_SUCCESS, (Some (lo + Zlen w), Some d')) /\
             s_wf s d' /\ s_eqv s d' x.

(** One member, as [ustep_ok] *)
Definition ustep_reads {T} (u : ustep T) (pre md : T -> T -> Prop) (s : spec T) : Prop :=
  forall b size lo d x w, read_at b size lo w -> s_wf s d -> s_wf s x -> pre d x ->
  s_wire s x = Some w ->
  exists d', u (Some b) size (Some lo) true d
             = Ret (TSS2_RC_SUCCESS, (Some (lo + Zlen w), d')) /\
             md d d' /\ s_wf s d' /\ s_eqv s d' x.

Lemma read_at_app b size lo w1 w2 :
  read_at b size lo (w1 ++ w2) -> read_at b size lo w1 /\ read_at b size (lo + Zlen w1) w2.
Proof.
  intros (Hb & Hlo & Hf & Hs & Hm & R). rewrite Zlen_app in Hf.
  pose proof (Zlen_nonneg w1). pose proof (Zlen_nonneg w2).
  apply mem_read_split in R as [R1 R2]. unfold read_at. split_and!; (done || lia).
Qed.

Lemma read_at_fits b size lo w :
  read_at b size lo w -> fits lo w size /\ reads b lo w /\ 0 <= size <= Zlen b.
Proof.
  intros (Hb & Hlo & Hf & Hs & Hm & R). pose proof (Zlen_nonneg w).
  split_and!; [by right|by right|lia|done].
Qed.

Lemma marshal_ok_writes {c T} (m : T -> mstep) (s : spec T) `{!SpecOk s} :
  marshal_ok_gen c m s -> writes m s.
Proof.
  intros O x w size lo Wx E Hlo Hf Hm. pose proof (so_dom _ _ Wx E) as Dx. split.
  - intros b Hs. pose proof (Zlen_nonneg w). apply (marshal_ok_fits (c:=c) m s x w b size lo); done || lia.
  - destruct (O x Wx Dx) as [_ Q]. apply Q; [done..|by right|lia].
Qed.

Lemma recognise_reads_back {T} (u : ufn T) (s : spec T) : recognise_ok u s -> reads_back u s.
Proof.
  intros O b size lo d x w R Wd Wx E. pose proof R as (Hb & Hlo & _).
  apply read_at_fits in R as (F & R & Hs). by apply (O b size lo d x w).
Qed.

Lemma codec_writes {T} (m : T -> mstep) u (s : spec T) : codec_ok m u s -> writes m s.
Proof. intros [O M _]. exact (marshal_ok_writes m s M). Qed.
Lemma codec_reads {T} (m : T -> mstep) u (s : spec T) : codec_ok m u s -> reads_back u s.
Proof. intros [O _ P]. by apply recognise_reads_back, parse_ok_recognise. Qed.
Lemma lax_writes {T} (m : T -> mstep) u (s : spec T) : lax_codec_ok m u s -> writes m s.
Proof. intros [O M _ _]. exact (marshal_ok_writes m s M). Qed.
Lemma lax_reads {T} (m : T -> mstep) u (s : spec T) : lax_codec_ok m u s -> reads_back u s.
Proof. intros [_ _ R _]. by apply recognise_reads_back. Qed.

(** ** Structures *)

Section Struct.
Context {T : Type}.

Inductive wsteps : list (T -> mstep) -> spec T -> Prop :=
| wsteps_nil : wsteps [] spec_unit
| wsteps_cons m ms s1 s2 : writes m s1 -> wsteps ms s2 -> wsteps (m :: ms) (spec_app s1 s2).

Lemma marshal_seq_writes ms s : wsteps ms s -> writes (marshal_seq ms) s.
Proof.
  induction 1 as [|m ms s1 s2 Hm _ IH]; intros x w size lo Wx E Hlo Hf Hx.
  - cbn in E. injection E as <-. rewrite (Zlen_nil (A:=Z)), Z.add_0_r in *. split; [|done].
    intros b Hs. exists b. split; [done|]. apply mem_write_nil. lia.
  - destruct Wx as [W1 W2]. apply wire_app_Some in E as (w1 & w2 & E1 & E2 & ->).
    rewrite Zlen_app in *. pose proof (Zlen_nonneg w1). pose proof (Zlen_nonneg w2).
    destruct (Hm x w1 size lo) as [P1 Q1]; [done..|lia|done|].
    destruct (IH x w2 size (lo + Zlen w1)) as [P2 Q2]; [done..|lia|lia|done|].
    cbn [marshal_seq]. split.
    + intros b Hs. destruct (P1 b Hs) as (b1 & -> & Wr1). cbn.
      destruct (P2 b1) as (b2 & -> & Wr2); [by rewrite (mem_write_len _ _ _ _ Wr1)|].
      exists b2. rewrite Z.add_assoc. split; [done|]. by eapply mem_write_app.
    + rewrite Q1. cbn. by rewrite Q2, Z.add_assoc.
Qed.

(** As [steps_ok] *)
Inductive rsteps : spec T -> list (ustep T) -> (T -> T -> Prop) -> spec T -> Prop :=
| rsteps_nil acc : rsteps acc [] eq spec_unit
| rsteps_cons acc u us pre md1 md2 s1 s2 :
    ustep_reads u pre md1 s1 ->
    rsteps (spec_app acc s1) us md2 s2 ->
    (forall d x, s_eqv acc d x -> pre d x) ->
    Stable md1 acc -> Keeps md1 s2 -> Stable md2 s1 ->
    SpecOk acc -> SpecOk s1 ->
    rsteps acc (u :: us) (rcomp md1 md2) (spec_app s1 s2).

Lemma unmarshal_seq_reads acc us md s :
  rsteps acc us md s -> ustep_reads (unmarshal_seq us) (s_eqv acc) md s.
Proof.
  induction 1 as [acc|acc u us pre md1 md2 s1 s2 Hu Hs IH Hpre Sa S2 S1 Oa O1];
    intros b size lo d x w R Wd Wx Q E.
  - cbn in E. injection E as <-. exists d. by rewrite (Zlen_nil (A:=Z)), Z.add_0_r.
  - apply wire_app_Some in E as (w1 & w2 & E1 & E2 & ->).
    apply read_at_app in R as [R1 R2]. destruct Wd as [Wd1 Wd2], Wx as [Wx1 Wx2].
    destruct (Hu b size lo d x w1) as (d1 & Eu & M1 & Wd1' & Q1); [done..|by apply Hpre|done|].
    cbn [unmarshal_seq]. rewrite Eu. cbn.
    destruct (IH b size (lo + Zlen w1) d1 x w2) as (d2 & -> & M2 & Wd2' & Q2); [done| |done| |done|].
    { exact (keeps_wf _ _ M1 Wd2). }
    { split; [|done]. eapply so_trans; [|exact Q]. apply so_sym. exact (stable_eqv _ _ M1). }
    exists d2. rewrite Zlen_app, Z.add_assoc. split; [done|].
    split; [by exists d1; auto|]. split; [split; [exact (stable_wf _ _ M2 Wd1')|done]|].
    split; [|done]. eapply so_trans; [|exact Q1]. apply so_sym. exact (stable_eqv _ _ M2).
Qed.

Context {H : Host}.

Lemma iesys_marshal_writes null_rc ms s :
  wsteps ms s -> writes (ADDR (iesys_marshal null_rc ms)) s.
Proof.
  intros Hs x w size lo Wx E Hlo Hf Hm.
  destruct (marshal_seq_writes ms s Hs x w size lo) as [P Q]; [done..|].
  unfold ADDR, iesys_marshal. simpl default. split.
  - intros b Hb. destruct (P b Hb) as (b' & -> & W). by exists b'.
  - by rewrite Q.
Qed.

Lemma iesys_unmarshal_reads zero us md s :
  rsteps spec_unit us md s -> s_wf s zero -> reads_back (iesys_unmarshal zero us) s.
Proof.
  intros Hs Hz b size lo d x w R _ Wx E.
  destruct (unmarshal_seq_reads _ us md s Hs b size lo zero x w) as (d' & Eu & _ & W & Q); [done..|].
  unfold iesys_unmarshal. simpl default. rewrite (bool_decide_eq_true_2 (is_Some (Some d))) by by eexists.
  rewrite Eu. by exists d'.
Qed.

End Struct.

Lemma mfield_writes {T F} (m : member T F) fn (s : spec F) :
  writes fn s -> writes (mfield m fn) (spec_on (mget m) s).
Proof. intros O x. exact (O (mget m x)). Qed.

Lemma ufield_gen_reads {T F} (m : member T F) (u : ustep T) fn (s : spec F) `{!MemberOk m} :
  (forall b n o d, u b n o true d =
     let* (ret, (o, r)) := fn b n o (Some (mget m d)) in Ret (ret, (o, store m d r))) ->
  reads_back fn s -> ustep_reads u (fun _ _ => True) (upd m) (spec_on (mget m) s).
Proof.
  intros E O b size lo d x w R Wd Wx _ Ew.
  destruct (O b size lo (mget m d) (mget m x) w) as (v & Eu & Wv & Q); [done..|].
  rewrite E, Eu. eexists. split; [done|]. split; [right; by eexists|].
  cbn [store]. cbn [s_wf s_eqv spec_on]. by rewrite get_set.
Qed.

Lemma ufield_reads {T F} (m : member T F) fn (s : spec F) `{!MemberOk m} :
  reads_back fn s -> ustep_reads (ufield m fn) (fun _ _ => True) (upd m) (spec_on (mget m) s).
Proof. by apply ufield_gen_reads. Qed.
Lemma ufield_tmp_reads {T F} (m : member T F) fn (s : spec F) `{!MemberOk m} :
  reads_back fn s -> ustep_reads (ufield_tmp m fn) (fun _ _ => True) (upd m) (spec_on (mget m) s).
Proof. by apply ufield_gen_reads. Qed.

(** Members selected by another one *)
Lemma mfield_sel_writes {T U} (l : member T U) (sel : member T Z) (m : U -> Z -> mstep) wf su mx :
  (forall z x, wf x -> s_wf (su z) x) ->
  (forall z, writes (fun x => m x z) (su z)) ->
  writes (mfield_sel l sel m) (spec_sel (mget sel) (mget l) wf su mx).
Proof. intros Hw O x w size lo Wx. apply (O (mget sel x) (mget l x)). by apply Hw. Qed.

Lemma ufield_sel_reads {T U} (l : member T U) (sel : member T Z) (u : ufn_sel U) wf su mx
    `{!MemberOk l, !Apart l (mget sel)} :
  (forall z x, s_wf (su z) x <-> wf x) ->
  (forall z, reads_back (fun b n o => u b n o z) (su z)) ->
  ustep_reads (ufield_sel l sel u) (fun d x => mget sel d = mget sel x) (upd l)
    (spec_sel (mget sel) (mget l) wf su mx).
Proof.
  intros Hw O b size lo d x w R Wd Wx Es Ew. cbn in Wd, Wx, Ew. rewrite <-Es in Ew.
  destruct (O (mget sel d) b size lo (mget l d) (mget l x) w) as (v & Eu & Wv & Q);
    [done|by apply Hw..|done|].
  unfold ufield_sel. rewrite Eu. eexists. split; [done|]. split; [right; by eexists|].
  cbn [store]. cbn [s_wf s_eqv spec_sel]. rewrite get_set, apart. split; [by apply (Hw (mget sel d))|].
  split; done.
Qed.

(** ** Constants *)

(** A word of 32 bits that the check accepts *)
Definition spec_checked (check : Z -> TSS2_RC) : spec Z :=
  {| s_wf v := s_wf (spec_int UINT32) v /\ check v = TSS2_RC_SUCCESS;
     s_dom := s_dom (spec_int UINT32);
     s_wire := s_wire (spec_int UINT32);
     s_eqv := eq;
     s_max := s_max (spec_int UINT32) |}.

#[export] Instance spec_checked_ok check : SpecOk (spec_checked check).
Proof.
  destruct (spec_int_ok UINT32). split; cbn -[spec_int]; intros; simplify_eq; eauto; naive_solver.
Qed.

Section Constants.
Context {H : Host} (check : Z -> TSS2_RC).

Lemma checked_writes : writes (VAL Tss2_MU_UINT32_Marshal) (spec_checked check).
Proof.
  intros x w size lo [Wx _]. by apply (codec_writes _ _ _ Tss2_MU_UINT32_ok x w size lo).
Qed.

Lemma word_reads b size lo x w :
  read_at b size lo w -> s_wf (spec_int UINT32) x -> s_wire (spec_int UINT32) x = Some w ->
  Tss2_MU_UINT32_Unmarshal (Some b) size (Some lo) (Some 0)
  = Ret (TSS2_RC_SUCCESS, (Some (lo + Zlen w), Some x)).
Proof.
  intros R Wx E. destruct (codec_reads _ _ _ Tss2_MU_UINT32_ok b size lo 0 x w) as (d & -> & _ & Q);
    [done|by apply (zero_int_wf 4)|done..|]. by rewrite Q.
Qed.

Lemma checked_reads : reads_back (checked_unmarshal check) (spec_checked check).
Proof.
  intros b size lo d x w R _ [Wx Cx] E. unfold checked_unmarshal. simpl default.
  rewrite (word_reads b size lo x w R Wx E). simpl. rewrite Cx. by exists x.
Qed.

End Constants.

Lemma resource_type_reads {H : Host} :
  reads_back iesys_MU_IESYSC_RESOURCE_TYPE_Unmarshal (spec_checked iesys_MU_IESYSC_RESOURCE_TYPE_check).
Proof.
  intros b size lo d x w R _ [Wx Cx] E. unfold iesys_MU_IESYSC_RESOURCE_TYPE_Unmarshal.
  rewrite (word_reads b size lo x w R Wx E). simpl. rewrite Cx. by exists x.
Qed.

(** ** Bytes *)

Definition cap_sessionValue := 2 * sizeof_TPMU_HA.

(** The first [n] bytes of the array *)
Definition session_value_wf (v : bytes) : Prop := Zlen v = cap_sessionValue /\ bytes_ok v.
Definition spec_bytes (n : Z) : spec bytes :=
  {| s_wf := session_value_wf;
     s_dom _ := 0 <= n <= cap_sessionValue;
     s_wire v := if decide (0 <= n <= cap_sessionValue) then mem_read v 0 n else None;
     s_eqv v v' := mem_read v 0 n = mem_read v' 0 n;
     s_max := cap_sessionValue |}.

#[export] Instance spec_bytes_ok n : SpecOk (spec_bytes n).
Proof.
  split; cbn; intros *; try (by intros ->); try done; try (by intros -> ->).
  - intros [_ B]. case_decide; [|done]. eauto using mem_read_bytes.
  - intros _. case_decide; [|done]. intros E%mem_read_len. lia.
  - intros _. by case_decide.
Qed.

Lemma bytes_writes {H : Host} n : writes (fun v => iesys_MU_BYTE_array_Marshal (Some v) n) (spec_bytes n).
Proof.
  intros v w size lo _ E Hlo Hf Hm. cbn in E. case_decide as D; [|done].
  pose proof (mem_read_len _ _ _ _ E) as L. unfold iesys_MU_BYTE_array_Marshal. simpl default.
  rewrite (proj2 (Z.ltb_ge size n)), (proj2 (Z.ltb_ge (size - n) lo)) by lia. cbn [orb].
  rewrite wrap64_small by lia. rewrite <-L. split; [|done].
  intros b Hb. rewrite L, E. simpl. destruct (mem_write_is_Some b lo w) as [b' ->]; [lia..|].
  by exists b'.
Qed.

Lemma mem_read_prefix b w b' : mem_write b 0 w = Some b' -> mem_read b' 0 (Zlen w) = Some w.
Proof. apply mem_read_write. Qed.

Lemma bytes_reads {H : Host} n : reads_back (fun b s o => iesys_MU_BYTE_array_Unmarshal b s o n) (spec_bytes n).
Proof.
  intros b size lo d x w (Hb & Hlo & Hf & Hs & Hm & R) [Ld Bd] [Lx Bx] E. cbn in E.
  case_decide as D; [|done]. pose proof (mem_read_len _ _ _ _ E) as L.
  unfold iesys_MU_BYTE_array_Unmarshal. simpl default.
  destruct (mem_write_is_Some d 0 [0]) as [d1 E1]; [done|by rewrite Ld|]. rewrite E1. simpl.
  rewrite (proj2 (Z.ltb_ge size n)), (proj2 (Z.ltb_ge (size - n) lo)) by lia. simpl.
  rewrite <-L in *. rewrite R. simpl.
  pose proof (mem_write_len _ _ _ _ E1) as L1.
  destruct (mem_write_is_Some d1 0 w) as [d2 E2]; [done|lia|]. rewrite E2. simpl.
  rewrite wrap64_small by lia. exists d2. split; [done|].
  pose proof (mem_write_len _ _ _ _ E2). split.
  - split; [congruence|]. apply (mem_write_bytes d1 0 w); [|by eapply mem_read_bytes|done].
    apply (mem_write_bytes d 0 [0]); [done| |done]. by apply list.Forall_singleton.
  - cbn. rewrite E. by apply mem_read_write in E2.
Qed.

(** ** Sessions *)

Definition spec_IESYS_SESSION : spec IESYS_SESSION :=
  (spec_on (mget SESSION'bound_entity) spec_TPM2B_NAME ⊗
   spec_on (mget SESSION'encryptedSalt) spec_TPM2B_ENCRYPTED_SECRET ⊗
   spec_on (mget SESSION'salt) spec_TPM2B_DATA ⊗
   spec_on (mget SESSION'symmetric) spec_TPMT_SYM_DEF ⊗
   spec_on (mget SESSION'authHash) (spec_int UINT16) ⊗
   spec_on (mget SESSION'sessionKey) spec_TPM2B_DIGEST ⊗
   spec_on (mget SESSION'sessionType) (spec_int UINT8) ⊗
   spec_on (mget SESSION'sessionAttributes) (spec_int UINT8) ⊗
   spec_on (mget SESSION'nonceCaller) spec_TPM2B_NONCE ⊗
   spec_on (mget SESSION'nonceTPM) spec_TPM2B_NONCE ⊗
   spec_on (mget SESSION'encrypt) (spec_checked iesys_MU_IESYSC_PARAM_ENCRYPT_check) ⊗
   spec_on (mget SESSION'decrypt) (spec_checked iesys_MU_IESYSC_PARAM_DECRYPT_check) ⊗
   spec_on (mget SESSION'type_policy_session) (spec_checked iesys_MU_IESYSC_TYPE_POLICY_AUTH_check) ⊗
   spec_on (mget SESSION'sizeSessionValue) (spec_int UINT16) ⊗
   spec_sel (mget SESSION'sizeSessionValue) (mget SESSION'sessionValue) session_value_wf
     spec_bytes cap_sessionValue ⊗
   spec_on (mget SESSION'sizeHmacValue) (spec_int UINT16) ⊗ spec_unit)%spec.

#[export] Instance spec_session_value_ok {T} (sel : T -> Z) (get : T -> bytes) :
  SpecOk (spec_sel sel get session_value_wf spec_bytes cap_sessionValue).
Proof. apply spec_sel_ok; [apply _|done..]. Qed.

#[export] Instance spec_IESYS_SESSION_ok : SpecOk spec_IESYS_SESSION.
Proof. unfold spec_IESYS_SESSION. apply _. Qed.

Create HintDb esys_mu.
#[export] Hint Resolve checked_writes checked_reads bytes_writes bytes_reads : esys_mu.
#[export] Hint Extern 2 (writes _ _) => eapply codec_writes; solve [eauto 2 with mu] : esys_mu.
#[export] Hint Extern 2 (writes _ _) => eapply lax_writes; solve [eauto 2 with mu] : esys_mu.
#[export] Hint Extern 2 (reads_back _ _) => eapply codec_reads; solve [eauto 2 with mu] : esys_mu.
#[export] Hint Extern 2 (reads_back _ _) => eapply lax_reads; solve [eauto 2 with mu] : esys_mu.

(** A member call reads the image of the member. *)
Ltac iesys_leaf :=
  first [ eapply ufield_reads; [apply _|solve [eauto 3 with esys_mu]]
        | eapply ufield_tmp_reads; [apply _|solve [eauto 3 with esys_mu]]
        | eapply ufield_sel_reads; [apply _|apply _|done|solve [eauto 3 with esys_mu]] ].
Ltac iesys_steps :=
  first [ apply rsteps_nil
        | eapply rsteps_cons;
          [ iesys_leaf
          | iesys_steps
          | intros ?? E; cbn [s_eqv spec_app spec_on spec_unit spec_int] in E; unpack; solve [done]
          | apply _.. ] ].
Ltac iesys_writes :=
  repeat first [ apply wsteps_nil
               | eapply wsteps_cons;
                 [first [eapply mfield_writes; solve [eauto 3 with esys_mu]
                        |eapply mfield_sel_writes; [done|solve [eauto 3 with esys_mu]]]|] ].

Section Session.
Context {H : Host}.

Lemma IESYS_SESSION_writes : writes (ADDR iesys_MU_IESYS_SESSION_Marshal) spec_IESYS_SESSION.
Proof. apply iesys_marshal_writes. iesys_writes. Qed.

Lemma zero_IESYS_SESSION_wf : s_wf spec_IESYS_SESSION zero_IESYS_SESSION.
Proof.
  assert (s_wf (spec_int UINT32) 0) by apply (zero_int_wf 4).
  assert (s_wf (spec_int UINT16) 0) by apply (zero_int_wf 2).
  assert (s_wf (spec_int UINT8) 0) by apply (zero_int_wf 1).
  unfold spec_IESYS_SESSION.
  repeat match goal with |- s_wf (spec_app _ _) _ => split end; try done; auto with mu.
  split; [by vm_compute|by apply Forall_replicate].
Qed.

Lemma IESYS_SESSION_reads : reads_back iesys_MU_IESYS_SESSION_Unmarshal spec_IESYS_SESSION.
Proof. eapply iesys_unmarshal_reads; [iesys_steps|apply zero_IESYS_SESSION_wf]. Qed.

End Session.
#[export] Hint Resolve IESYS_SESSION_writes IESYS_SESSION_reads : esys_mu.

(** ** Objects *)

(** The format [s] of a member of a union that [get] reads *)
Definition spec_get {U T} (wf : U -> Prop) (get : U -> outcome T) (s : spec T) : spec U :=
  {| s_wf := wf;
     s_dom u := exists v, get u = Ret v /\ s_dom s v;
     s_wire u := match get u with Ret v => s_wire s v | Undef => None end;
     s_eqv u u' := match get u, get u' with
                   | Ret v, Ret v' => s_eqv s v v'
                   | Undef, Undef => True
                   | _, _ => False
                   end;
     s_max := s_max s |}.

Lemma spec_get_ok {U T} wf (get : U -> outcome T) (s : spec T) `{O : !SpecOk s} :
  (forall u v, wf u -> get u = Ret v -> s_wf s v) -> SpecOk (spec_get wf get s).
Proof.
  intros W. split; cbn.
  - intros u w Wu. destruct (get u) eqn:E; [|done]. eauto using so_bytes.
  - intros u w Wu. destruct (get u) eqn:E; [|done]. eauto using so_max.
  - intros u w Wu. destruct (get u) as [v|] eqn:E; [|done]. intros Ew. exists v. split; [done|].
    apply (so_dom v w); [by apply (W u)|done].
  - intros u. destruct (get u); [apply so_refl|done].
  - intros u v. destruct (get u), (get v); first [done|apply so_sym].
  - intros u v x. destruct (get u), (get v), (get x); try done. apply so_trans.
  - intros u v. destruct (get u), (get v); try done. apply so_wire.
Qed.

Definition rsrc_wf (u : IESYS_RSRC_UNION) : Prop :=
  match u with
  | Misc_zero => True
  | Misc_key_pub v => s_wf spec_TPM2B_PUBLIC v
  | Misc_nv_pub v => s_wf spec_TPM2B_NV_PUBLIC v
  | Misc_session v => s_wf spec_IESYS_SESSION v
  end.

Definition spec_RSRC_UNION (selector : Z) : spec IESYS_RSRC_UNION :=
  if selector =? IESYSC_KEY_RSRC then spec_get rsrc_wf rsrc_key_pub spec_TPM2B_PUBLIC
  else if selector =? IESYSC_NV_RSRC then spec_get rsrc_wf rsrc_nv_pub spec_TPM2B_NV_PUBLIC
  else if selector =? IESYSC_SESSION_RSRC then spec_get rsrc_wf rsrc_session spec_IESYS_SESSION
  else if selector =? IESYSC_WITHOUT_MISC_RSRC then spec_get rsrc_wf (fun _ => Ret zero_TPMS_EMPTY) spec_TPMS_EMPTY
  else spec_get rsrc_wf (fun _ => @Undef TPMS_EMPTY) spec_TPMS_EMPTY.

Lemma zero_key_pub_wf : s_wf spec_TPM2B_PUBLIC (MkTPM2B_SUB 0 zero_TPMT_PUBLIC).
Proof. split; [apply (zero_int_wf 2)|apply zero_TPMT_PUBLIC_wf]. Qed.
Lemma zero_nv_pub_wf : s_wf spec_TPM2B_NV_PUBLIC (MkTPM2B_SUB 0 zero_TPMS_NV_PUBLIC).
Proof. split; [apply (zero_int_wf 2)|apply zero_TPMS_NV_PUBLIC_wf]. Qed.
#[local] Hint Resolve zero_key_pub_wf zero_nv_pub_wf zero_IESYS_SESSION_wf : mu.

Lemma rsrc_key_pub_wf u v : rsrc_wf u -> rsrc_key_pub u = Ret v -> s_wf spec_TPM2B_PUBLIC v.
Proof. destruct u; cbn [rsrc_key_pub]; intros W [= <-]; [|done]. auto with mu. Qed.
Lemma rsrc_nv_pub_wf u v : rsrc_wf u -> rsrc_nv_pub u = Ret v -> s_wf spec_TPM2B_NV_PUBLIC v.
Proof. destruct u; cbn [rsrc_nv_pub]; intros W [= <-]; [|done]. auto with mu. Qed.
Lemma rsrc_session_wf u v : rsrc_wf u -> rsrc_session u = Ret v -> s_wf spec_IESYS_SESSION v.
Proof. destruct u; cbn [rsrc_session]; intros W [= <-]; [|done]. apply zero_IESYS_SESSION_wf. Qed.

#[export] Instance spec_RSRC_UNION_ok z : SpecOk (spec_RSRC_UNION z).
Proof.
  unfold spec_RSRC_UNION. repeat case_match; apply spec_get_ok; try apply _; try done.
  - apply rsrc_key_pub_wf.
  - apply rsrc_nv_pub_wf.
  - apply rsrc_session_wf.
Qed.

Definition max_RSRC_UNION :=
  Z.max (s_max spec_TPM2B_PUBLIC) (Z.max (s_max spec_TPM2B_NV_PUBLIC) (Z.max (s_max spec_IESYS_SESSION) 0)).

Definition spec_IESYS_RESOURCE : spec IESYS_RESOURCE :=
  (spec_on (mget RESOURCE'handle) (spec_int UINT32) ⊗
   spec_on (mget RESOURCE'name) spec_TPM2B_NAME ⊗
   spec_on (mget RESOURCE'rsrcType) (spec_checked iesys_MU_IESYSC_RESOURCE_TYPE_check) ⊗
   spec_sel (mget RESOURCE'rsrcType) (mget RESOURCE'misc) rsrc_wf spec_RSRC_UNION max_RSRC_UNION ⊗
   spec_unit)%spec.

Lemma spec_RSRC_UNION_wf z u : s_wf (spec_RSRC_UNION z) u <-> rsrc_wf u.
Proof. unfold spec_RSRC_UNION. repeat case_match; done. Qed.

#[export] Instance spec_rsrc_sel_ok {T} (sel : T -> Z) (get : T -> IESYS_RSRC_UNION) :
  SpecOk (spec_sel sel get rsrc_wf spec_RSRC_UNION max_RSRC_UNION).
Proof.
  apply spec_sel_ok; [apply _|by intros; apply spec_RSRC_UNION_wf|]. intros z.
  unfold spec_RSRC_UNION, max_RSRC_UNION. repeat case_match; cbn [s_max spec_get]; [lia..| |];
    change (s_max spec_TPMS_EMPTY) with 0; lia.
Qed.
#[export] Instance spec_IESYS_RESOURCE_ok : SpecOk spec_IESYS_RESOURCE.
Proof. unfold spec_IESYS_RESOURCE. apply _. Qed.

Section Resource.
Context {H : Host}.

Lemma get_writes {U T} wf (get : U -> outcome T) (fn : T -> mstep) (m : U -> mstep) (s : spec T) :
  (forall u v, wf u -> get u = Ret v -> s_wf s v) ->
  (forall u v b n o, get u = Ret v -> m u b n o = fn v b n o) ->
  writes fn s -> writes m (spec_get wf get s).
Proof.
  intros W E O u w size lo Wu Ew Hlo Hf Hm. cbn in Ew. destruct (get u) as [v|] eqn:G; [|done].
  destruct (O v w size lo (W _ _ Wu G) Ew Hlo Hf Hm) as [P Q]. split; [|by rewrite (E u v)].
  intros b Hb. rewrite (E u v) by done. by apply P.
Qed.

Lemma RSRC_UNION_writes z :
  writes (fun u => ADDR iesys_MU_IESYS_RSRC_UNION_Marshal u z) (spec_RSRC_UNION z).
Proof.
  unfold spec_RSRC_UNION, ADDR, iesys_MU_IESYS_RSRC_UNION_Marshal.
  destruct (z =? IESYSC_KEY_RSRC); [|destruct (z =? IESYSC_NV_RSRC); [|
    destruct (z =? IESYSC_SESSION_RSRC); [|destruct (z =? IESYSC_WITHOUT_MISC_RSRC)]]].
  - apply (get_writes _ _ (ADDR Tss2_MU_TPM2B_PUBLIC_Marshal)); [exact rsrc_key_pub_wf| |eauto 3 with esys_mu].
    by intros u v b n o ->.
  - apply (get_writes _ _ (ADDR Tss2_MU_TPM2B_NV_PUBLIC_Marshal)); [exact rsrc_nv_pub_wf| |eauto 3 with esys_mu].
    by intros u v b n o ->.
  - apply (get_writes _ _ (ADDR iesys_MU_IESYS_SESSION_Marshal)); [exact rsrc_session_wf| |eauto 3 with esys_mu].
    by intros u v b n o ->.
  - apply (get_writes _ _ (ADDR Tss2_MU_TPMS_EMPTY_Marshal)); [done| |eauto 3 with esys_mu].
    by intros u v b n o [= <-].
  - intros u w size lo _ E. done.
Qed.
#[local] Hint Resolve RSRC_UNION_writes resource_type_reads : esys_mu.

Lemma IESYS_RESOURCE_writes : writes (ADDR iesys_MU_IESYS_RESOURCE_Marshal) spec_IESYS_RESOURCE.
Proof.
  apply iesys_marshal_writes. eapply wsteps_cons; [eapply mfield_writes; eauto 3 with esys_mu|].
  eapply wsteps_cons; [eapply mfield_writes; eauto 3 with esys_mu|].
  eapply wsteps_cons; [apply mfield_writes, checked_writes|].
  eapply wsteps_cons; [|apply wsteps_nil].
  apply mfield_sel_writes; [by intros; apply spec_RSRC_UNION_wf|apply RSRC_UNION_writes].
Qed.

(** The union of a cleared structure is filled. *)
Lemma member_reads {T} (get : IESYS_RSRC_UNION -> outcome T) put (fn : ufn T) (s : spec T) zero :
  get Misc_zero = Ret zero -> (forall v, get (put v) = Ret v) -> s_wf s zero ->
  (forall u v, rsrc_wf u -> get u = Ret v -> s_wf s v) -> (forall v, rsrc_wf (put v) <-> s_wf s v) ->
  reads_back fn s ->
  forall b size lo x w, read_at b size lo w -> rsrc_wf x -> s_wire (spec_get rsrc_wf get s) x = Some w ->
  exists u, union_member get put fn (Some b) size (Some lo) (Some Misc_zero)
            = Ret (TSS2_RC_SUCCESS, (Some (lo + Zlen w), Some u)) /\
            rsrc_wf u /\ s_eqv (spec_get rsrc_wf get s) u x.
Proof.
  intros Gz Gp Wz Wg Wp O b size lo x w R Wx E. cbn in E. destruct (get x) as [v|] eqn:G; [|done].
  destruct (O b size lo zero v w R Wz (Wg _ _ Wx G) E) as (d & Eu & Wd & Q).
  unfold union_member. rewrite Gz, Eu. simpl. eexists. split; [done|]. split; [by apply Wp|].
  by rewrite Gp, G.
Qed.

Lemma RSRC_UNION_reads b size lo z x w :
  read_at b size lo w -> rsrc_wf x -> s_wire (spec_RSRC_UNION z) x = Some w ->
  exists u, iesys_MU_IESYS_RSRC_UNION_Unmarshal (Some b) size (Some lo) z (Some Misc_zero)
            = Ret (TSS2_RC_SUCCESS, (Some (lo + Zlen w), Some u)) /\
            rsrc_wf u /\ s_eqv (spec_RSRC_UNION z) u x.
Proof.
  unfold spec_RSRC_UNION, iesys_MU_IESYS_RSRC_UNION_Unmarshal. intros R Wx.
  destruct (z =? IESYSC_KEY_RSRC); [|destruct (z =? IESYSC_NV_RSRC); [|
    destruct (z =? IESYSC_SESSION_RSRC); [|destruct (z =? IESYSC_WITHOUT_MISC_RSRC)]]]; intros E.
  - eapply member_reads; try done; [auto with mu|exact rsrc_key_pub_wf|eauto 3 with esys_mu].
  - eapply member_reads; try done; [auto with mu|exact rsrc_nv_pub_wf|eauto 3 with esys_mu].
  - eapply member_reads; try done; [apply zero_IESYS_SESSION_wf|exact rsrc_session_wf|eauto 3 with esys_mu].
  - destruct (codec_reads _ _ _ Tss2_MU_TPMS_EMPTY_ok b size lo zero_TPMS_EMPTY zero_TPMS_EMPTY w)
      as (d & -> & _); [done..|]. simpl. by exists Misc_zero.
  - done.
Qed.

(** A call after the others *)
Lemma unmarshal_seq_snoc {T} (us : list (ustep T)) u b n o given (d d1 : T) o1 :
  unmarshal_seq us b n o given d = Ret (TSS2_RC_SUCCESS, (o1, d1)) ->
  unmarshal_seq (us ++ [u]) b n o given d = u b n o1 given d1.
Proof.
  revert o d. induction us as [|u' us IH]; intros o d E; cbn [unmarshal_seq app] in *.
  - injection E as -> ->. destruct (u b n o1 given d1) as [[r [o2 d2]]|]; [|done]. cbn.
    destruct (Z.eqb_spec r TSS2_RC_SUCCESS) as [->|]; done.
  - destruct (u' b n o given d) as [[r [o2 d2]]|]; [|done]. cbn in *.
    destruct (Z.eqb_spec r TSS2_RC_SUCCESS) as [->|N]; cbn in *; [by apply IH|by injection E as -> _ _].
Qed.

Lemma zero_IESYS_RESOURCE_wf : s_wf spec_IESYS_RESOURCE zero_IESYS_RESOURCE.
Proof.
  assert (s_wf (spec_int UINT32) 0) by apply (zero_int_wf 4). unfold spec_IESYS_RESOURCE.
  repeat match goal with |- s_wf (spec_app _ _) _ => split end; try done; auto with mu.
Qed.

Lemma IESYS_RESOURCE_reads : reads_back iesys_MU_IESYS_RESOURCE_Unmarshal spec_IESYS_RESOURCE.
Proof.
  intros b size lo d x w R _ Wx E. pose proof zero_IESYS_RESOURCE_wf as Wz.
  set (us := [ufield_tmp RESOURCE'handle Tss2_MU_TPM2_HANDLE_Unmarshal;
    ufield RESOURCE'name Tss2_MU_TPM2B_NAME_Unmarshal;
    ufield_tmp RESOURCE'rsrcType iesys_MU_IESYSC_RESOURCE_TYPE_Unmarshal]).
  set (s3 := (spec_on (mget RESOURCE'handle) (spec_int UINT32) ⊗
    spec_on (mget RESOURCE'name) spec_TPM2B_NAME ⊗
    spec_on (mget RESOURCE'rsrcType) (spec_checked iesys_MU_IESYSC_RESOURCE_TYPE_check) ⊗
    spec_unit)%spec).
  assert (exists md, rsteps spec_unit us md s3 /\ forall d d', md d d' -> misc d' = misc d) as (md & Hs & Hmd).
  { eexists. split.
    - unfold us, s3. eapply rsteps_cons; [iesys_leaf|eapply rsteps_cons; [iesys_leaf|eapply rsteps_cons; [eapply ufield_tmp_reads; [apply _|apply resource_type_reads]|iesys_steps|done|apply _..]|done|apply _..]|done|apply _..].

    - intros d1 d2 M. repeat match goal with
        | M : rcomp _ _ _ _ |- _ => destruct M as (? & M & ?)
        | M : _ \/ _ |- _ => destruct M
        | M : upd _ _ _ |- _ => destruct M as [->|[? ->]]
        end; by subst. }
  unfold spec_IESYS_RESOURCE in E. cbn [spec_app s_wire] in E.
  apply wire_app_Some in E as (w1 & wr & E1 & E & ->).
  apply wire_app_Some in E as (w2 & wr' & E2 & E & ->).
  apply wire_app_Some in E as (w3 & wr'' & E3 & E & ->).
  apply wire_app_Some in E as (w4 & w5 & E4 & E & ->). cbn in E. injection E as <-.
  rewrite app_nil_r in *. rewrite !app_assoc in R. rewrite !app_assoc.
  apply read_at_app in R as [R1 R2]. destruct Wx as (Wx1 & Wx2 & Wx3 & Wx4 & _).
  destruct Wz as (Wz1 & Wz2 & Wz3 & Wz4 & _).
  destruct (unmarshal_seq_reads _ _ _ _ Hs b size lo zero_IESYS_RESOURCE x ((w1 ++ w2) ++ w3))
    as (d1 & Eu & M & Wd1 & Q); [done|by split_and!|by split_and!|done| |].
  { unfold s3. cbn [spec_app s_wire]. rewrite E1, E2, E3. cbn. by rewrite app_nil_r, app_assoc. }
  destruct (RSRC_UNION_reads b size (lo + Zlen ((w1 ++ w2) ++ w3)) (rsrcType d1) (misc x) w4)
    as (u & Eu' & Wu & Qu); [done|done| |].
  { destruct Q as (_ & _ & Q & _). cbn in Q. by rewrite Q. }
  unfold iesys_MU_IESYS_RESOURCE_Unmarshal, iesys_unmarshal. simpl default.
  rewrite (bool_decide_eq_true_2 (is_Some (Some d))) by by eexists.
  change [ufield_tmp RESOURCE'handle Tss2_MU_TPM2_HANDLE_Unmarshal; _; _; _] with
    (us ++ [ufield_sel RESOURCE'misc RESOURCE'rsrcType iesys_MU_IESYS_RSRC_UNION_Unmarshal]).
  rewrite (unmarshal_seq_snoc _ _ _ _ _ _ _ _ _ Eu). unfold ufield_sel.
  cbn [mget RESOURCE'rsrcType RESOURCE'misc]. rewrite (Hmd _ _ M). cbn [misc zero_IESYS_RESOURCE].
  rewrite Eu'. cbn. eexists. rewrite (Zlen_app ((w1 ++ w2) ++ w3)), Z.add_assoc. split; [done|].
  destruct Wd1 as (Wd1 & Wd2 & Wd3 & _), Q as (Q1 & Q2 & Q3 & _).
  exact (conj (conj Wd1 (conj Wd2 (conj Wd3 (conj Wu I))))
    (conj Q1 (conj Q2 (conj Q3 (conj (conj Q3 Qu) I))))).
Qed.

End Resource.
#[export] Hint Resolve IESYS_RESOURCE_writes IESYS_RESOURCE_reads : esys_mu.

(** ** The context of an object *)

Definition spec_IESYS_METADATA : spec IESYS_METADATA :=
  (spec_on (mget METADATA'size) (spec_int UINT16) ⊗
   spec_on (mget METADATA'data) spec_IESYS_RESOURCE ⊗ spec_unit)%spec.
#[export] Instance spec_IESYS_METADATA_ok : SpecOk spec_IESYS_METADATA.
Proof. unfold spec_IESYS_METADATA. apply _. Qed.

Definition spec_IESYS_CONTEXT_DATA : spec IESYS_CONTEXT_DATA :=
  (spec_on (mget CONTEXT_DATA'reserved) (spec_int UINT32) ⊗
   spec_on (mget CONTEXT_DATA'tpmContext) spec_TPM2B_CONTEXT_DATA ⊗
   spec_on (mget CONTEXT_DATA'esysMetadata) spec_IESYS_METADATA ⊗ spec_unit)%spec.
#[export] Instance spec_IESYS_CONTEXT_DATA_ok : SpecOk spec_IESYS_CONTEXT_DATA.
Proof. unfold spec_IESYS_CONTEXT_DATA. apply _. Qed.

Section ContextData.
Context {H : Host}.

Lemma zero_IESYS_METADATA_wf : s_wf spec_IESYS_METADATA zero_IESYS_METADATA.
Proof. exact (conj (zero_int_wf 2) (conj zero_IESYS_RESOURCE_wf I)). Qed.
Lemma zero_IESYS_CONTEXT_DATA_wf : s_wf spec_IESYS_CONTEXT_DATA zero_IESYS_CONTEXT_DATA.
Proof.
  exact (conj (zero_int_wf 4) (conj zero_TPM2B_CONTEXT_DATA_wf (conj zero_IESYS_METADATA_wf I))).
Qed.

Lemma IESYS_METADATA_writes : writes (ADDR iesys_MU_IESYS_METADATA_Marshal) spec_IESYS_METADATA.
Proof. apply iesys_marshal_writes. iesys_writes. Qed.
Lemma IESYS_METADATA_reads : reads_back iesys_MU_IESYS_METADATA_Unmarshal spec_IESYS_METADATA.
Proof. eapply iesys_unmarshal_reads; [iesys_steps|apply zero_IESYS_METADATA_wf]. Qed.
#[local] Hint Resolve IESYS_METADATA_writes IESYS_METADATA_reads : esys_mu.

Lemma IESYS_CONTEXT_DATA_writes :
  writes (ADDR iesys_MU_IESYS_CONTEXT_DATA_Marshal) spec_IESYS_CONTEXT_DATA.
Proof. apply iesys_marshal_writes. iesys_writes. Qed.
Lemma IESYS_CONTEXT_DATA_reads :
  reads_back iesys_MU_IESYS_CONTEXT_DATA_Unmarshal spec_IESYS_CONTEXT_DATA.
Proof. eapply iesys_unmarshal_reads; [iesys_steps|apply zero_IESYS_CONTEXT_DATA_wf]. Qed.

End ContextData.
