(* ===== verification/EsysUtilOk.v ===== *)
(** * Enhanced System API: sessions, and the authorizations of a response.

    Equations for the accesses to the context, what the loop over the sessions
    of a response changes, and what it has checked when it succeeds. *)

From stdpp Require Import gmap strings.
From stdpp Require Import gmap.
From S2P Require Import Prelude Common MuSpec MuBase MuBaseOk MuStruct MuTpm2b MuUnion TpmTypes MuTypes SysCodes Sys EsysBase EsysCrypto EsysCtx EsysUtil EsysExec EsysLogic EsysCryptoOk.

Open Scope tss_scope.
Open Scope esys_scope.
Open Scope Z_scope.

(** The session of the node at an address *)
Definition session_in (h : gmap nat RSRC_NODE_T) (p : nat) : option IESYS_SESSION :=
  n ← h !! p; match rsrc_session (misc (rsrc n)) with Ret s => Some s | Undef => None end.

Section Access.
Context {H : Host} {HM : Memory} {S U K : Type}.
Abbreviation CTX := (ESYS_CONTEXT S U K).
Abbreviation EM A := (M CTX A).

Lemma crypto_goes {A} (m : M (ESYS_CRYPTO_CALLBACKS U K) A) (c c' : CTX) a :
  goes (crypto m) c c' a <->
  exists cb, goes m (crypto_backend c) cb a /\ c' = set_crypto_backend cb c.
Proof. unfold crypto. by rewrite zoom_goes. Qed.

Lemma sys_m_goes f (c c' : CTX) u :
  goes (sys_m f) c c' u <->
  exists b, f (Some (sys c)) = Ret (TSS2_RC_SUCCESS, Some b) /\ c' = set_sys b c.
Proof.
  unfold sys_m. destruct (f (Some (sys c))) as [[rv [b|]]|];
    [|by split; [|intros (? & [=] & _)]..].
  destruct (Z.eqb_spec rv TSS2_RC_SUCCESS) as [->|N].
  - split; [intros [= <- _]; eauto|intros (? & [= ->] & ->)]; by destruct u.
  - split; [done|]. by intros (? & [= -> _] & _).
Qed.

Lemma sys_get_goes {A} (f : option (blob S) -> outcome (TSS2_RC * A)) (c c' : CTX) a :
  goes (sys_get f) c c' a <-> c' = c /\ f (Some (sys c)) = Ret (TSS2_RC_SUCCESS, a).
Proof.
  unfold sys_get. destruct (f (Some (sys c))) as [[rv b]|]; [|by split; [|intros [_ ?]]].
  destruct (Z.eqb_spec rv TSS2_RC_SUCCESS) as [->|N].
  - split; [by intros [= -> ->]|by intros [-> [= ->]]].
  - split; [done|]. by intros [_ [= -> _]].
Qed.

Lemma sys_bytes_goes n off (c c' : CTX) w :
  goes (sys_bytes n off) c c' w <-> c' = c /\ mem_read (cmdBuffer (sys c)) off n = Some w.
Proof.
  unfold sys_bytes. destruct (mem_read _ off n) as [v|]; [|by split; [|intros [_ ?]]].
  split; [by intros [= -> ->]|by intros [-> [= ->]]].
Qed.

Lemma node_at_goes p (c c' : CTX) n :
  goes (node_at p) c c' n <-> c' = c /\ heap c !! p = Some n.
Proof.
  unfold node_at. destruct (heap c !! p) as [m|]; [|by split; [|intros [_ ?]]].
  split; [by intros [= -> ->]|by intros [-> [= ->]]].
Qed.

Lemma session_at_goes p (c c' : CTX) s :
  goes (session_at p) c c' s <-> c' = c /\ session_in (heap c) p = Some s.
Proof.
  unfold session_at, session_in. rewrite bind_goes. split.
  - intros (s1 & n & E1 & E). apply node_at_goes in E1 as [-> ->].
    apply lift_goes in E as [-> E]. cbn. by rewrite E.
  - intros [-> E]. destruct (heap c !! p) as [n|] eqn:N; [|done]. cbn in E.
    exists c, n. split; [by apply node_at_goes|]. apply lift_goes. split; [done|].
    destruct (rsrc_session _); congruence.
Qed.

(** The heap with another session at [p] *)
Definition with_session (p : nat) (n : RSRC_NODE_T) (s : IESYS_SESSION)
    (h : gmap nat RSRC_NODE_T) : gmap nat RSRC_NODE_T :=
  <[p := set_rsrc (set_misc (Misc_session s) (rsrc n)) n]> h.

Lemma session_in_with p n s h q :
  session_in (with_session p n s h) q = if decide (q = p) then Some s else session_in h q.
Proof.
  unfold session_in, with_session. destruct (decide (q = p)) as [->|N].
  - by rewrite lookup_insert_eq.
  - by rewrite lookup_insert_ne.
Qed.

Lemma put_session_goes p s (c c' : CTX) u :
  goes (put_session p s) c c' u <->
  exists n, heap c !! p = Some n /\ c' = set_heap (with_session p n s (heap c)) c.
Proof.
  unfold put_session, upd_node. rewrite bind_goes. split.
  - intros (c1 & n & E1 & E). apply node_at_goes in E1 as [-> N].
    apply modify_goes in E as ->. eauto.
  - intros (n & N & ->). exists c, n. split; [by apply node_at_goes|]. by apply modify_goes.
Qed.

Lemma upd_session_goes p f (c c' : CTX) u :
  goes (upd_session p f) c c' u <->
  exists s n, session_in (heap c) p = Some s /\ heap c !! p = Some n /\
    c' = set_heap (with_session p n (f s) (heap c)) c.
Proof.
  unfold upd_session. rewrite bind_goes. split.
  - intros (c1 & s & E1 & E). apply session_at_goes in E1 as [-> E1].
    apply put_session_goes in E as (n & N & ->). eauto.
  - intros (s & n & E1 & N & ->). exists c, s. split; [by apply session_at_goes|].
    apply put_session_goes. eauto.
Qed.

Lemma at3_goes {A} (l : list A) i (c c' : CTX) a :
  goes (at3 l i) c c' a <-> c' = c /\ l !! i = Some a.
Proof.
  unfold at3. rewrite lift_goes. unfold access. destruct (l !! i); [|by split; intros [? ?]].
  split; [by intros [-> [= ->]]|by intros [-> [= ->]]].
Qed.

Lemma session_tab_at_goes i (c c' : CTX) p :
  goes (session_tab_at i) c c' p <-> c' = c /\ session_tab c !! i = Some p.
Proof.
  unfold session_tab_at. rewrite bind_goes. split.
  - intros (c1 & c2 & E1 & E). apply get_goes in E1 as [-> ->]. by apply at3_goes in E.
  - intros [-> E]. exists c, c. split; [done|]. by apply at3_goes.
Qed.

Lemma auth_objects_at_goes i (c c' : CTX) p :
  goes (auth_objects_at i) c c' p <-> c' = c /\ auth_objects c !! i = Some p.
Proof.
  unfold auth_objects_at. rewrite bind_goes. split.
  - intros (c1 & c2 & E1 & E). apply get_goes in E1 as [-> ->]. by apply at3_goes in E.
  - intros [-> E]. exists c, c. split; [done|]. by apply at3_goes.
Qed.

(** [f] gives the area of [size] bytes at [off] of the command buffer. *)
Lemma sys_area_goes (f : option (blob S) -> option Z -> option Z ->
    outcome (TSS2_RC * (option Z * option Z))) (c c' : CTX) size off :
  goes (sys_area f) c c' (size, off) <->
  c' = c /\ exists so oo, f (Some (sys c)) (Some 0) (Some 0) = Ret (TSS2_RC_SUCCESS, (so, oo)) /\
    size = default 0 so /\ off = default 0 oo.
Proof.
  unfold sys_area. rewrite bind_goes. split.
  - intros (c1 & [so oo] & E1 & E). apply sys_get_goes in E1 as [-> E1].
    apply ret_goes in E as [-> E]. injection E as -> ->. eauto 6.
  - intros (-> & so & oo & E & -> & ->). exists c, (so, oo). split; [by apply sys_get_goes|done].
Qed.

End Access.

(** More steps for [goes_inv]. *)
Ltac access_step :=
  match goal with
  | E : goes (crypto _) _ _ _ |- _ =>
      let cb := fresh "cb" in apply crypto_goes in E as (cb & E & ?)
  | E : goes (sys_get _) _ _ _ |- _ => apply sys_get_goes in E as [? E]
  | E : goes (sys_bytes _ _) _ _ _ |- _ => apply sys_bytes_goes in E as [? E]
  | E : goes (node_at _) _ _ _ |- _ => apply node_at_goes in E as [? E]
  | E : goes (session_at _) _ _ _ |- _ => apply session_at_goes in E as [? E]
  | E : goes (upd_session _ _) _ _ _ |- _ =>
      let s := fresh "s" in let n := fresh "n" in let E1 := fresh "E" in let E2 := fresh "E" in
      apply upd_session_goes in E as (s & n & E1 & E2 & ?)
  | E : goes (at3 _ _) _ _ _ |- _ => apply at3_goes in E as [? E]
  | E : goes (session_tab_at _) _ _ _ |- _ => apply session_tab_at_goes in E as [? E]
  | E : goes (auth_objects_at _) _ _ _ |- _ => apply auth_objects_at_goes in E as [? E]
  end; subst.
Ltac esys_inv := repeat first [goes_step | access_step].

(** ** The check of the response *)

Section Response.
Context {H : Host} {HM : Memory} {S U K : Type} (D : crypto_model U K).
Abbreviation CTX := (ESYS_CONTEXT S U K).

Lemma digest_bytes_goes d (c c' : CTX) w :
  goes (digest_bytes d (Zlen d)) c c' w -> c' = c /\ w = d.
Proof.
  unfold digest_bytes. intros E. goes_inv. unfold access in *.
  destruct (mem_write _ 0 d) as [b|] eqn:W; simplify_eq.
  destruct (mem_read a 0 (Zlen d)) as [v|] eqn:R; simplify_eq. split; [done|].
  apply mem_write_Some in W as (_ & _ & ->). apply mem_read_Some in R as (_ & _ & _ & ->).
  rewrite drop_0. change (Z.to_nat 0) with 0%nat. rewrite take_0. cbn [app]. unfold Zlen.
  by rewrite Nat2Z.id, take_app_length.
Qed.

(** The two sessions agree on everything the key of an HMAC comes from. *)
Definition same_key (s s' : IESYS_SESSION) : Prop :=
  authHash s' = authHash s /\ sessionValue s' = sessionValue s /\
  sizeHmacValue s' = sizeHmacValue s /\ nonceCaller s' = nonceCaller s /\
  type_policy_session s' = type_policy_session s.

#[global] Instance same_key_preorder : PreOrder same_key.
Proof.
  split; unfold same_key; [by intros ?|].
  intros s1 s2 s3 ? ?. destruct_and!. split_and!; congruence.
Qed.

(** Only nonces and attributes of sessions and the data of the back end change. *)
Definition check_frame (c c' : CTX) : Prop :=
  exists h cb, c' = set_heap h (set_crypto_backend cb c) /\
    same_backend (crypto_backend c) cb /\
    forall p s', session_in h p = Some s' ->
      exists s, session_in (heap c) p = Some s /\ same_key s s'.

#[global] Instance check_frame_preorder : PreOrder check_frame.
Proof.
  split.
  - intros c. exists (heap c), (crypto_backend c). split_and!; [by destruct c|done|].
    intros p s E. by exists s.
  - intros c c1 c2 (h & cb & -> & B & F) (h' & cb' & -> & B' & F'). cbn in *.
    exists h', cb'. split_and!; [done|by etrans|]. intros p s E.
    apply F' in E as (s1 & E & ?). apply F in E as (s2 & E & ?). exists s2. split; [done|by etrans].
Qed.

Lemma check_frame_crypto cb (c : CTX) :
  same_backend (crypto_backend c) cb -> check_frame c (set_crypto_backend cb c).
Proof. intros B. exists (heap c), cb. split_and!; [by destruct c|done|]. intros p s E. by exists s. Qed.

Lemma check_frame_session p n s s' (c : CTX) :
  session_in (heap c) p = Some s -> same_key s s' ->
  check_frame c (set_heap (with_session p n s' (heap c)) c).
Proof.
  intros E F. eexists _, (crypto_backend c). split_and!; [by destruct c|done|].
  intros q t Et. rewrite session_in_with in Et. case_decide; simplify_eq; eauto.
  by exists t.
Qed.

Lemma check_frame_backend (c c' : CTX) :
  check_frame c c' -> same_backend (crypto_backend c) (crypto_backend c').
Proof. by intros (h & cb & -> & B & _). Qed.

Lemma check_frame_laws (c c' : CTX) :
  check_frame c c' -> CryptoLaws D (crypto_backend c) -> CryptoLaws D (crypto_backend c').
Proof. intros F L. by apply (laws_proper D _ _ (check_frame_backend _ _ F)). Qed.

(** The bytes the response hash covers after the codes *)
Definition response_params (c : CTX) (w : bytes) : Prop :=
  exists so oo, Tss2_Sys_GetRpBuffer (Some (sys c)) (Some 0) (Some 0)
                = Ret (TSS2_RC_SUCCESS, (so, oo)) /\
    mem_read (cmdBuffer (sys c)) (default 0 oo) (default 0 so) = Some w.

(** The response hash of Part 1, 16.8 *)
Definition rp_hash (alg : Z) (c : CTX) (params : bytes) : bytes :=
  digest D alg None (be_bytes 4 0 ++ be_bytes 4 (commandCode (sys c)) ++ params).

Definition command_code_ok (c : CTX) : Prop := 0 <= commandCode (sys c) < 2 ^ 32.

Lemma command_code_goes (c c' : CTX) w :
  command_code_ok c -> goes command_code_bytes c c' w ->
  c' = c /\ w = be_bytes 4 (commandCode (sys c)).
Proof.
  intros Hc E. unfold command_code_bytes in E. esys_inv. split; [done|].
  unfold Tss2_Sys_GetCommandCode in *. case_match; [done|].
  destruct (mem_write _ _ _) as [b|] eqn:W; cbn [access] in *; simplify_eq.
  cbn [default from_option id].
  rewrite (host_image_be 4 (commandCode (sys c))) in W; [|done|done].
  apply mem_write_Some in W as (_ & _ & ->).
  rewrite drop_ge; [by rewrite app_nil_r|].
  pose proof (Zlen_be_bytes 4 (commandCode (sys c))) as L. rewrite L. done.
Qed.

Lemma rp_hash_goes alg (c c' : CTX) d n {L : CryptoLaws D (crypto_backend c)} :
  command_code_ok c -> goes (iesys_compute_rp_hash alg) c c' (d, n) ->
  check_frame c c' /\ sys c' = sys c /\ heap c' = heap c /\ n = Zlen d /\
  exists w, response_params c w /\ d = rp_hash alg c w.
Proof.
  intros Hc E. unfold iesys_compute_rp_hash in E.
  apply bind_goes in E as (c1 & cc & E1 & E). apply command_code_goes in E1 as [-> ->]; [|done].
  apply bind_goes in E as (c1 & [sz off] & E1 & E).
  apply sys_area_goes in E1 as (-> & so & oo & G & -> & ->). esys_inv.
  apply (pHash_goes D (crypto_backend c)) in E as (B & -> & ->); [|done].
  split_and!; [by apply check_frame_crypto|done|done|done|].
  eexists. split; [by exists so, oo|]. unfold rp_hash. f_equal.
Qed.

Definition hmac_key_of (s : IESYS_SESSION) : bytes :=
  take (Z.to_nat (sizeHmacValue s)) (sessionValue s).

Lemma hmac_key_goes s (c c' : CTX) w : goes (hmac_key s) c c' w -> c' = c /\ w = hmac_key_of s.
Proof.
  unfold hmac_key. intros E. goes_inv. split; [done|]. unfold access in *.
  destruct (mem_read _ _ _) as [v|] eqn:R; simplify_eq.
  apply mem_read_Some in R as (_ & _ & _ & ->). by rewrite drop_0.
Qed.

Lemma cmp_TPM2B_contents (a b : TPM2B) : cmp_TPM2B_AUTH a b = Ret true -> contents a = contents b.
Proof.
  unfold cmp_TPM2B_AUTH, cmp_TPM2B_DIGEST, cmp_UINT16, cmp_BYTE_array.
  destruct (Z.eqb_spec (size a) (size b)) as [E|]; [|done]. cbn [negb].
  unfold access.
  destruct (mem_read (buffer a) 0 (size b)) as [v|] eqn:Ra; [|done].
  destruct (mem_read (buffer b) 0 (size b)) as [w|] eqn:Rb; [|done].
  intros [= Eb]. apply bool_decide_eq_true in Eb as ->.
  apply mem_read_Some in Ra as (_ & _ & _ & Ra). apply mem_read_Some in Rb as (_ & _ & _ & Rb).
  rewrite drop_0 in Ra, Rb. unfold contents. congruence.
Qed.

(** The authorization [a] of the response is what session [s] expects. *)
Definition authentic (c : CTX) (s : IESYS_SESSION) (a : TPMS_AUTH_RESPONSE) : Prop :=
  if type_policy_session s =? POLICY_PASSWORD then size (TPMS_AUTH_RESPONSE_hmac a) = 0
  else exists w, response_params c w /\
    contents (TPMS_AUTH_RESPONSE_hmac a) =
      auth_hmac D (authHash s) (hmac_key_of s) (rp_hash (authHash s) c w)
        (TPMS_AUTH_RESPONSE_nonce a) (nonceCaller s) None None
        (TPMS_AUTH_RESPONSE_sessionAttributes a).

Lemma authentic_key c s s' a : same_key s s' -> authentic c s' a -> authentic c s a.
Proof.
  unfold authentic, hmac_key_of. intros (-> & -> & -> & -> & ->). done.
Qed.

Lemma sizeof_TPMU_HA_bound : Zlen (replicate (Z.to_nat sizeof_TPMU_HA) 0) < 2 ^ 16.
Proof. by vm_compute. Qed.

Lemma check_rp_hmac_goes i a (c c' : CTX) {L : CryptoLaws D (crypto_backend c)} :
  command_code_ok c -> goes (check_rp_hmac i a) c c' tt ->
  check_frame c c' /\
  forall p, session_tab c !! i = Some (Some p) ->
    exists s, session_in (heap c) p = Some s /\ authentic c s a.
Proof.
  intros Hc E. unfold check_rp_hmac in E. apply bind_goes in E as (c1 & o & E1 & E).
  apply session_tab_at_goes in E1 as [-> T].
  destruct o as [p|]; [|apply ret_goes in E as [-> _]; split; [done|]; intros p T'; congruence].
  apply bind_goes in E as (c1 & s & E1 & E). apply session_at_goes in E1 as [-> Es].
  unfold authentic.
  destruct (type_policy_session s =? POLICY_PASSWORD) eqn:P.
  - destruct (Z.eqb_spec (size (TPMS_AUTH_RESPONSE_hmac a)) 0) as [Z0|]; cbn [negb] in E;
      [|by apply fail_goes in E].
    apply ret_goes in E as [-> _]. split; [done|]. intros q T'. simplify_eq.
    exists s. by rewrite P.
  - apply bind_goes in E as (c1 & [d n] & E1 & E).
    apply rp_hash_goes in E1 as (F1 & Sy & He & -> & w & R & ->); [|done..].
    apply bind_goes in E as (c2 & d & E1 & E). apply digest_bytes_goes in E1 as [-> ->].
    apply bind_goes in E as (c3 & [] & E1 & E).
    apply upd_session_goes in E1 as (s1 & n1 & E1 & N1 & ->).
    assert (s1 = s) as -> by congruence.
    apply bind_goes in E as (c4 & [] & E2 & E).
    apply upd_session_goes in E2 as (s2 & n2 & E2 & N2 & ->).
    cbn [heap set_heap] in E2, N2, E. rewrite session_in_with, decide_True in E2 by done.
    injection E2 as <-. esys_inv. cbn [heap set_heap] in *.
    rewrite session_in_with, decide_True in * by done. simplify_eq.
    match goal with E : goes (hmac_key _) _ _ _ |- _ => apply hmac_key_goes in E as [-> ->] end.
    pose proof (check_frame_laws _ _ F1 L) as L1.
    match goal with E : goes (iesys_crypto_authHmac _ _ _ _ _ _ _ _ _) _ _ _ |- _ =>
      apply (authHmac_goes D (crypto_backend c1)) in E as (B & Ec & _);
      [|exact sizeof_TPMU_HA_bound|done] end.
    match goal with Eq : cmp_TPM2B_AUTH _ _ = Ret ?b |- _ =>
      destruct b; [|by apply fail_goes in E]; apply cmp_TPM2B_contents in Eq as C end.
    cbn [negb] in E.
    apply ret_goes in E as [-> _]. split.
    + etrans; [exact F1|].
      etrans; [by apply (check_frame_session p n1 s (set_nonceTPM (TPMS_AUTH_RESPONSE_nonce a) s))|].
      etrans; [apply (check_frame_session p n2 (set_nonceTPM (TPMS_AUTH_RESPONSE_nonce a) s)
                 (set_sessionAttributes (TPMS_AUTH_RESPONSE_sessionAttributes a)
                   (set_nonceTPM (TPMS_AUTH_RESPONSE_nonce a) s))); [|done];
               cbn [heap set_heap]; by rewrite session_in_with, decide_True|].
      by apply check_frame_crypto.
    + intros q T'. simplify_eq. exists s. split; [done|]. rewrite P. exists w. split; [done|].
      by rewrite C.
Qed.

Lemma authentic_frame (c c' : CTX) s a : check_frame c c' -> authentic c' s a -> authentic c s a.
Proof. by intros (h & cb & -> & _). Qed.

Lemma command_code_frame (c c' : CTX) : check_frame c c' -> command_code_ok c -> command_code_ok c'.
Proof. by intros (h & cb & -> & _). Qed.

Lemma check_loop_goes (rsp : list TPMS_AUTH_RESPONSE) l (c c' : CTX) {L : CryptoLaws D (crypto_backend c)} :
  command_code_ok c ->
  goes (for_each l (fun i => let! a := lift (access (rsp !! i)) in check_rp_hmac i a)) c c' tt ->
  check_frame c c' /\
  forall i p, i ∈ l -> session_tab c !! i = Some (Some p) ->
    exists s a, session_in (heap c) p = Some s /\ rsp !! i = Some a /\ authentic c s a.
Proof.
  revert c L. induction l as [|i l IH]; intros c L Hc E; cbn [for_each] in E.
  { apply ret_goes in E as [-> _]. split; [done|]. by intros ?? ?%elem_of_nil. }
  apply bind_goes in E as (c1 & [] & E1 & E).
  apply bind_goes in E1 as (c2 & a & E2 & E1). apply lift_goes in E2 as [-> Ea].
  apply (check_rp_hmac_goes i a) in E1 as [F A]; [|done..].
  apply IH in E as [F' A']; [|by apply (check_frame_laws c)|by apply (command_code_frame c)].
  split; [by etrans|]. intros j p [->|Hj]%elem_of_cons T.
  - destruct (A p T) as (s & Es & Au). exists s, a. split_and!; [done| |done].
    unfold access in Ea. by destruct (rsp !! i); simplify_eq.
  - destruct F as (h & cb & -> & B & F). cbn in *.
    destruct (A' j p Hj T) as (s1 & a1 & Es & Ea1 & Au).
    apply F in Es as (s & Es & K'). exists s, a1. split_and!; [done..|].
    by apply (authentic_key _ _ _ _ K').
Qed.

(** Every authorization of the response that belongs to a session is the one the
    session expects; [rsp] is what [Tss2_Sys_GetRspAuths] has found. *)
Definition response_authentic (c : CTX) (rsp : TSS2L_SYS_AUTH_RESPONSE) : Prop :=
  rsp_count rsp = authsCount_esys c /\
  forall i p, Z.of_nat i < rsp_count rsp -> session_tab c !! i = Some (Some p) ->
    exists s a, session_in (heap c) p = Some s /\ rsp_auths rsp !! i = Some a /\ authentic c s a.

Definition response_auths (c : CTX) (rsp : TSS2L_SYS_AUTH_RESPONSE) : Prop :=
  Tss2_Sys_GetRspAuths (Some (sys c)) (Some (Auth_Response 0 (replicate 3 zero_TPMS_AUTH_RESPONSE)))
  = Ret (TSS2_RC_SUCCESS, Some rsp).

Definition has_session (c : CTX) : bool :=
  existsb (fun h => ESYS_TR_MIN_OBJECT <=? h) (session_type c).

Lemma check_response_goes (c c' : CTX) {L : CryptoLaws D (crypto_backend c)} :
  command_code_ok c -> authsCount_esys c <> 0 -> has_session c = true ->
  goes iesys_check_response c c' tt ->
  exists rsp, response_auths c rsp /\ response_authentic c rsp.
Proof.
  intros Hc Hn Hs E. unfold iesys_check_response in E.
  apply bind_goes in E as (c1 & c2 & E1 & E). apply get_goes in E1 as [-> ->].
  rewrite (proj2 (Z.eqb_neq _ _) Hn) in E.
  apply bind_goes in E as (c1 & rsp & E1 & E). apply sys_get_goes in E1 as [-> G].
  destruct rsp as [rsp|]; [|by apply undef_goes in E]. exists rsp. split; [done|].
  destruct (Z.eqb_spec (rsp_count rsp) (authsCount_esys c)) as [Ec|]; cbn [negb] in E;
    [|by apply fail_goes in E].
  unfold has_session in Hs. rewrite Hs in E.
  apply bind_goes in E as (c1 & [sz off] & E1 & E). apply sys_area_goes in E1 as (-> & _).
  apply bind_goes in E as (c1 & [] & E1 & _). unfold iesys_check_rp_hmacs in E1.
  apply check_loop_goes in E1 as [_ A]; [|done..]. split; [done|]. intros i p Hi.
  apply A. apply elem_of_seq. lia.
Qed.

End Response.

(** ** Enhanced System API: the course of a command, its states, and its end. *)

Section Frame.
Context {H : Host} {HM : Memory} {S U K : Type}.
Abbreviation CTX := (ESYS_CONTEXT S U K).

(** What the course of a command depends on *)
Definition same_progress (c c' : CTX) : Prop :=
  state c' = state c /\ submissionCount c' = submissionCount c /\ timeout c' = timeout c.
(** The same, and the command and its transport *)
Definition same_command (c c' : CTX) : Prop := same_progress c c' /\ sys c' = sys c.

#[global] Instance same_progress_preorder : PreOrder same_progress.
Proof.
  split; unfold same_progress; [by intros c|]. intros c1 c2 c3 ? ?.
  destruct_and!. split_and!; congruence.
Qed.
#[global] Instance same_command_preorder : PreOrder same_command.
Proof.
  split; unfold same_command; [by intros c|]. intros c1 c2 c3 [? ?] [? ?].
  split; [by etrans|congruence].
Qed.

Lemma keeps_weaken {A} (m : M CTX A) : Keeps same_command m -> Keeps same_progress m.
Proof. intros Hm c c' x E. by apply Hm in E as [? _]. Qed.

Section Any.
Context (R : CTX -> CTX -> Prop) {P : PreOrder R}.

Lemma keeps_node_at p : Keeps R (node_at p).
Proof. intros c c' x. unfold node_at. case_match; intros ?; by simplify_eq. Qed.
Lemma keeps_sys_get {A} (f : option (blob S) -> outcome (TSS2_RC * A)) : Keeps R (sys_get f).
Proof. intros c c' x. unfold sys_get. repeat case_match; intros ?; by simplify_eq. Qed.
Lemma keeps_sys_bytes n o : Keeps R (sys_bytes n o).
Proof. intros c c' x. unfold sys_bytes. case_match; intros ?; by simplify_eq. Qed.
Lemma keeps_mu_image n step : Keeps R (mu_image n step).
Proof. intros c c' x. unfold mu_image. repeat case_match; intros ?; by simplify_eq. Qed.

(** A relation that does not look at the heap *)
Lemma keeps_upd_node p f : (forall h c, R c (set_heap h c)) -> Keeps R (upd_node p f).
Proof. intros Hh. unfold upd_node. apply keeps_bind; [done|apply keeps_node_at|intros n]. by apply keeps_modify. Qed.

End Any.
#[local] Hint Resolve keeps_node_at keeps_sys_get keeps_sys_bytes keeps_mu_image : keeps.

Lemma keeps_crypto {A} (m : M (ESYS_CRYPTO_CALLBACKS U K) A) : Keeps same_command (crypto (S:=S) m).
Proof. apply keeps_zoom. done. Qed.

Lemma keeps_command_node p f : Keeps same_command (upd_node (S:=S) (U:=U) (K:=K) p f).
Proof. apply keeps_upd_node; [apply _|done]. Qed.

Lemma keeps_session_at p : Keeps same_command (session_at (S:=S) (U:=U) (K:=K) p).
Proof. unfold session_at. keeps. Qed.

Lemma keeps_put_session p s : Keeps same_command (put_session (S:=S) (U:=U) (K:=K) p s).
Proof. apply keeps_command_node. Qed.

Lemma keeps_upd_session p f : Keeps same_command (upd_session (S:=S) (U:=U) (K:=K) p f).
Proof.
  unfold upd_session. apply keeps_bind; [apply _|apply keeps_session_at|intros ?].
  apply keeps_put_session.
Qed.

Lemma keeps_at3 {A} (l : list A) i : Keeps same_command (at3 (S:=S) (U:=U) (K:=K) l i).
Proof. unfold at3. keeps. Qed.

Lemma keeps_session_tab_at i : Keeps same_command (session_tab_at (S:=S) (U:=U) (K:=K) i).
Proof. unfold session_tab_at, at3. keeps. Qed.

Lemma keeps_calloc : Keeps same_command (calloc (S:=S) (U:=U) (K:=K)).
Proof. unfold calloc. keeps. Qed.

Lemma keeps_allocate l : Keeps same_command (allocate (S:=S) (U:=U) (K:=K) l).
Proof.
  induction l as [|[] l IH]; cbn [allocate]; [keeps| |done].
  apply keeps_bind; [apply _|apply keeps_calloc|intros []]; cbn [negb]; [done|keeps].
Qed.

Lemma keeps_sys_area f : Keeps same_command (sys_area (S:=S) (U:=U) (K:=K) f).
Proof. unfold sys_area. keeps. Qed.

Lemma keeps_sys_m (f : sysF S) : Keeps same_progress (sys_m (U:=U) (K:=K) f).
Proof. intros c c' x. unfold sys_m. repeat case_match; intros ?; by simplify_eq. Qed.

Lemma keeps_sys_out {A} (p : out_prog (S:=S) A) : Keeps same_progress (sys_out (U:=U) (K:=K) p).
Proof. intros c c' x. unfold sys_out. repeat case_match; intros ?; by simplify_eq. Qed.

End Frame.
#[export] Hint Resolve keeps_node_at keeps_sys_get keeps_sys_bytes keeps_mu_image : keeps.
#[export] Hint Resolve keeps_crypto keeps_command_node keeps_session_at keeps_put_session
  keeps_upd_session keeps_at3 keeps_session_tab_at keeps_calloc keeps_allocate keeps_sys_area
  keeps_sys_m keeps_sys_out : keeps.
#[export] Hint Extern 9 (Keeps same_progress _) => apply keeps_weaken : keeps.

Section Response.
Context {H : Host} {HM : Memory} {S U K : Type}.
Abbreviation CTX := (ESYS_CONTEXT S U K).

Lemma keeps_command_code : Keeps same_command (command_code_bytes (S:=S) (U:=U) (K:=K)).
Proof. unfold command_code_bytes. keeps. Qed.
Lemma keeps_rp_hash alg : Keeps same_command (iesys_compute_rp_hash (S:=S) (U:=U) (K:=K) alg).
Proof.
  unfold iesys_compute_rp_hash. apply keeps_bind; [apply _|apply keeps_command_code|intros ?].
  keeps.
Qed.
#[local] Hint Resolve keeps_command_code keeps_rp_hash : keeps.

Lemma keeps_check_rp_hmac i a : Keeps same_command (check_rp_hmac (S:=S) (U:=U) (K:=K) i a).
Proof. unfold check_rp_hmac, digest_bytes, hmac_key. keeps. Qed.
#[local] Hint Resolve keeps_check_rp_hmac : keeps.

Lemma keeps_restore_flags : Keeps same_command (iesys_restore_session_flags (S:=S) (U:=U) (K:=K)).
Proof. unfold iesys_restore_session_flags, for_sessions. keeps. Qed.
#[local] Hint Resolve keeps_restore_flags : keeps.

Lemma keeps_decrypt_bytes s n w : Keeps same_command (decrypt_bytes (S:=S) (U:=U) (K:=K) s n w).
Proof. unfold decrypt_bytes, derive_key, xor_parameter. keeps. Qed.
#[local] Hint Resolve keeps_decrypt_bytes : keeps.

Lemma keeps_decrypt_param : Keeps same_progress (iesys_decrypt_param (S:=S) (U:=U) (K:=K)).
Proof. unfold iesys_decrypt_param. keeps. Qed.
#[local] Hint Resolve keeps_decrypt_param : keeps.

Lemma keeps_check_response : Keeps same_progress (iesys_check_response (S:=S) (U:=U) (K:=K)).
Proof. unfold iesys_check_response, iesys_check_rp_hmacs. keeps. Qed.

End Response.
#[export] Hint Resolve keeps_check_response : keeps.

(** ** The authorizations of a command *)

Section Auths.
Context {H : Host} {HM : Memory} {S U K : Type}.
Abbreviation CTX := (ESYS_CONTEXT S U K).

Lemma keeps_create h : Keeps same_command (esys_CreateResourceObject (S:=S) (U:=U) (K:=K) h).
Proof. unfold esys_CreateResourceObject. keeps. Qed.

Lemma keeps_find l h : Keeps same_command (find_object (S:=S) (U:=U) (K:=K) l h).
Proof. induction l as [|p l IH]; cbn [find_object]; [keeps|]. keeps. Qed.
#[local] Hint Resolve keeps_create keeps_find : keeps.

Lemma keeps_get_object h : Keeps same_command (esys_GetResourceObject (S:=S) (U:=U) (K:=K) h).
Proof. unfold esys_GetResourceObject. keeps. Qed.
#[local] Hint Resolve keeps_get_object : keeps.

Lemma keeps_init_session_tab s1 s2 s3 :
  Keeps same_command (init_session_tab (S:=S) (U:=U) (K:=K) s1 s2 s3).
Proof. unfold init_session_tab. keeps. Qed.

Lemma keeps_session_value s o :
  Keeps same_command (iesys_compute_session_value (S:=S) (U:=U) (K:=K) s o).
Proof. unfold iesys_compute_session_value. keeps. Qed.

Lemma keeps_return_if_notnull {A} (p : option A) r :
  Keeps same_command (return_if_notnull (S:=S) (U:=U) (K:=K) p r).
Proof. unfold return_if_notnull. keeps. Qed.
#[local] Hint Resolve keeps_return_if_notnull : keeps.

Lemma keeps_encrypt_nonce l i n :
  Keeps same_command (compute_encrypt_nonce_loop (S:=S) (U:=U) (K:=K) l i n).
Proof. revert i n. induction l as [|j l IH]; intros; cbn [compute_encrypt_nonce_loop]; keeps. Qed.
#[local] Hint Resolve keeps_encrypt_nonce : keeps.

Lemma keeps_caller_nonces : Keeps same_command (iesys_gen_caller_nonces (S:=S) (U:=U) (K:=K)).
Proof. unfold iesys_gen_caller_nonces, for_sessions. keeps. Qed.
#[local] Hint Resolve keeps_caller_nonces : keeps.

Lemma keeps_update_flags p : Keeps same_command (iesys_update_session_flags (S:=S) (U:=U) (K:=K) p).
Proof. unfold iesys_update_session_flags. keeps. Qed.
#[local] Hint Resolve keeps_update_flags : keeps.

Lemma keeps_encrypt_bytes s n w : Keeps same_command (encrypt_bytes (S:=S) (U:=U) (K:=K) s n w).
Proof. unfold encrypt_bytes, derive_key, xor_parameter. keeps. Qed.
#[local] Hint Resolve keeps_encrypt_bytes : keeps.

Lemma keeps_encrypt_loop l d i :
  Keeps same_progress (encrypt_param_loop (S:=S) (U:=U) (K:=K) l d i).
Proof. revert d i. induction l as [|j l IH]; intros; cbn [encrypt_param_loop]; keeps. Qed.
#[local] Hint Resolve keeps_encrypt_loop : keeps.

Lemma keeps_encrypt_param : Keeps same_progress (iesys_encrypt_param (S:=S) (U:=U) (K:=K)).
Proof. unfold iesys_encrypt_param, for_sessions. keeps. Qed.
#[local] Hint Resolve keeps_encrypt_param : keeps.

Lemma keeps_auth_objects_at i : Keeps same_command (auth_objects_at (S:=S) (U:=U) (K:=K) i).
Proof. unfold auth_objects_at, at3. keeps. Qed.
Lemma keeps_name_at p : Keeps same_command (name_at (S:=S) (U:=U) (K:=K) p).
Proof. unfold name_at. keeps. Qed.
Lemma keeps_nonce_at p : Keeps same_command (nonce_at (S:=S) (U:=U) (K:=K) p).
Proof. unfold nonce_at. keeps. Qed.
#[local] Hint Resolve keeps_auth_objects_at keeps_name_at keeps_nonce_at : keeps.

Lemma keeps_cp_hash alg : Keeps same_command (iesys_compute_cp_hash (S:=S) (U:=U) (K:=K) alg).
Proof. unfold iesys_compute_cp_hash, command_code_bytes. keeps. Qed.
#[local] Hint Resolve keeps_cp_hash : keeps.

Lemma keeps_compute_hmac s d e a :
  Keeps same_command (iesys_compute_hmac (S:=S) (U:=U) (K:=K) s d e a).
Proof. unfold iesys_compute_hmac, digest_bytes, hmac_key. keeps. Qed.
#[local] Hint Resolve keeps_compute_hmac : keeps.

Lemma keeps_gen_auth di ei d e i l :
  Keeps same_command (gen_auth (S:=S) (U:=U) (K:=K) di ei d e i l).
Proof. unfold gen_auth, upd_auth, put_object_auth, POLICY_PASSWORD_session. keeps. Qed.
#[local] Hint Resolve keeps_gen_auth : keeps.

Lemma keeps_gen_auths_loop l di ei d e a :
  Keeps same_command (gen_auths_loop (S:=S) (U:=U) (K:=K) l di ei d e a).
Proof. revert a. induction l as [|i l IH]; intros; cbn [gen_auths_loop]; keeps. Qed.
#[local] Hint Resolve keeps_gen_auths_loop : keeps.

Lemma keeps_gen_auths h1 h2 h3 a :
  Keeps same_progress (iesys_gen_auths (S:=S) (U:=U) (K:=K) h1 h2 h3 a).
Proof. unfold iesys_gen_auths, iesys_compute_encrypt_nonce. keeps. Qed.

End Auths.
#[export] Hint Resolve keeps_get_object keeps_create keeps_find keeps_init_session_tab
  keeps_session_value keeps_gen_auths keeps_caller_nonces keeps_encrypt_param
  keeps_gen_auths_loop keeps_gen_auth : keeps.
