(* ===== verification/EsysMachine.v ===== *)
(** * Enhanced System API: the protocol of [_Async] and [_Finish].

    The states of a context and the number of submissions of its command form
    an abstract machine, [proto_step]. Every [_Async] and every [_Finish]
    function is a step of it, whatever the command and the transport do. *)

From stdpp Require Import gmap.
From S2P Require Import Prelude Common MuSpec MuBase MuStruct MuTpm2b MuUnion TpmTypes MuTypes SysCodes Sys EsysBase EsysCrypto EsysCtx EsysUtil EsysExec EsysTr EsysLogic EsysUtilOk.

Open Scope tss_scope.
Open Scope esys_scope.
Open Scope Z_scope.

(** ** The abstract machine *)

Record proto : Type := Proto { phase : ESYS_STATE; submissions : Z }.

(** [try_again]: the result that makes the caller call [_Finish] again *)
Definition try_again {A} (x : TSS2_RC + A) : bool :=
  match x with inl r => base_rc r =? TSS2_BASE_RC_TRY_AGAIN | inr _ => false end.

Definition waiting (s : ESYS_STATE) : bool :=
  bool_decide (s = ESYS_STATE_SENT) || bool_decide (s = ESYS_STATE_RESUBMISSION).
Definition ready (s : ESYS_STATE) : bool :=
  bool_decide (s = ESYS_STATE_INIT) || bool_decide (s = ESYS_STATE_RESUBMISSION).

(** A call returns a code other than success, or goes through. *)
Abbreviation label := (TSS2_RC + unit)%type.
Definition label_of {A} (x : TSS2_RC + A) : label :=
  match x with inl r => inl r | inr _ => inr tt end.

(** [async_step m x m']: an [_Async] function. Four of them look at a
    handle of their arguments before they check the state, [async_bad_value]. *)
Inductive async_step (m : proto) : label -> proto -> Prop :=
| async_bad_value : async_step m (inl TSS2_ESYS_RC_BAD_VALUE) m
| async_refused : ready (phase m) = false -> async_step m (inl TSS2_ESYS_RC_BAD_SEQUENCE) m
| async_sent : ready (phase m) = true -> async_step m (inr tt) (Proto ESYS_STATE_SENT 1)
| async_failed r : ready (phase m) = true -> async_step m (inl r) (Proto ESYS_STATE_INIT 1)
| async_broken r : ready (phase m) = true ->
    async_step m (inl r) (Proto ESYS_STATE_INTERNALERROR 1).

(** What the lookup of an object returns *)
Definition lookup_error (r : TSS2_RC) : bool :=
  existsb (Z.eqb r) [TSS2_ESYS_RC_BAD_TR; TSS2_ESYS_RC_BAD_VALUE; TSS2_ESYS_RC_MEMORY].

(** [finish_step m x m']: a [_Finish] function. [Esys_Startup_Finish] submits
    the command again as a first one, [finish_resent]; [Esys_FlushContext_Finish]
    ends the command when its object is gone, [finish_lost]. *)
Inductive finish_step (m : proto) : label -> proto -> Prop :=
| finish_refused : waiting (phase m) = false -> finish_step m (inl TSS2_ESYS_RC_BAD_SEQUENCE) m
| finish_done : waiting (phase m) = true ->
    finish_step m (inr tt) (Proto ESYS_STATE_INIT (submissions m))
| finish_wait r : waiting (phase m) = true -> base_rc r = TSS2_BASE_RC_TRY_AGAIN ->
    finish_step m (inl r) (Proto ESYS_STATE_SENT (submissions m))
| finish_resubmitted r : waiting (phase m) = true -> submissions m < ESYS_MAX_SUBMISSIONS ->
    finish_step m (inl r) (Proto ESYS_STATE_RESUBMISSION (submissions m + 1))
| finish_resent r : waiting (phase m) = true -> submissions m < ESYS_MAX_SUBMISSIONS ->
    finish_step m (inl r) (Proto ESYS_STATE_SENT (submissions m + 1))
| finish_exhausted r : waiting (phase m) = true -> ESYS_MAX_SUBMISSIONS <= submissions m ->
    resubmits r = true -> finish_step m (inl r) (Proto ESYS_STATE_INIT (submissions m + 1))
| finish_tpm_error r : waiting (phase m) = true -> iesys_tpm_error r = true ->
    finish_step m (inl r) (Proto ESYS_STATE_INIT (submissions m))
| finish_lost r : waiting (phase m) = true -> lookup_error r = true ->
    finish_step m (inl r) (Proto ESYS_STATE_INIT (submissions m))
| finish_broken r : waiting (phase m) = true ->
    finish_step m (inl r) (Proto ESYS_STATE_INTERNALERROR (submissions m)).

Section Machine.
Context {H : Host} {HM : Memory} {S U K : Type}.
Abbreviation CTX := (ESYS_CONTEXT S U K).

Definition proto_of (c : CTX) : proto := Proto (state c) (submissionCount c).

(** ** [esys_receive] *)

Inductive receive_run (c : CTX) : CTX -> TSS2_RC + unit -> Prop :=
| receive_ok r b :
    Tss2_Sys_ExecuteFinish (timeout c) (Some (sys c)) = Ret (r, Some b) ->
    r = TSS2_RC_SUCCESS \/ r = TPM2_RC_INITIALIZE ->
    receive_run c (set_sys b c) (inr tt)
| receive_wait r b :
    Tss2_Sys_ExecuteFinish (timeout c) (Some (sys c)) = Ret (r, Some b) ->
    base_rc r = TSS2_BASE_RC_TRY_AGAIN -> r <> TSS2_RC_SUCCESS ->
    receive_run c (set_state ESYS_STATE_SENT (set_sys b c)) (inl r)
| receive_exhausted r b :
    Tss2_Sys_ExecuteFinish (timeout c) (Some (sys c)) = Ret (r, Some b) ->
    resubmits r = true -> ESYS_MAX_SUBMISSIONS <= submissionCount c ->
    receive_run c (set_state ESYS_STATE_INIT
      (set_submissionCount (submissionCount c + 1) (set_sys b c))) (inl r)
| receive_resubmit s r b q b' :
    s = ESYS_STATE_RESUBMISSION \/ s = ESYS_STATE_SENT ->
    Tss2_Sys_ExecuteFinish (timeout c) (Some (sys c)) = Ret (r, Some b) ->
    resubmits r = true -> submissionCount c < ESYS_MAX_SUBMISSIONS ->
    Tss2_Sys_ExecuteAsync (Some b) = Ret (q, Some b') ->
    receive_run c (set_sys b' (set_state s
      (set_submissionCount (submissionCount c + 1) (set_sys b c))))
      (inl (if q =? TSS2_RC_SUCCESS then TSS2_ESYS_RC_TRY_AGAIN else q))
| receive_tpm_error r b :
    Tss2_Sys_ExecuteFinish (timeout c) (Some (sys c)) = Ret (r, Some b) ->
    iesys_tpm_error r = true -> base_rc r <> TSS2_BASE_RC_TRY_AGAIN ->
    receive_run c (set_state ESYS_STATE_INIT (set_sys b c)) (inl r)
| receive_error r b :
    Tss2_Sys_ExecuteFinish (timeout c) (Some (sys c)) = Ret (r, Some b) ->
    r <> TSS2_RC_SUCCESS -> base_rc r <> TSS2_BASE_RC_TRY_AGAIN ->
    receive_run c (set_state ESYS_STATE_INTERNALERROR (set_sys b c)) (inl r).

Lemma code_sys_m f (c c' : CTX) x :
  goes (code (sys_m f)) c c' x ->
  exists r b, f (Some (sys c)) = Ret (r, Some b) /\ c' = set_sys b c /\ code_of x = r.
Proof.
  rewrite code_goes. unfold sys_m. destruct (f (Some (sys c))) as [[r [b|]]|]; [|done..].
  intros [= <- <-]. exists r, b. split_and!; [done..|]. case_match eqn:E; [|done].
  by apply Z.eqb_eq in E as ->.
Qed.

(** A program that receives the response *)
Definition receives (m : M CTX unit) : Prop :=
  forall c c' x, m c = Ret (c', x) -> receive_run c c' x.

Lemma receive_with_runs s accepts :
  s = ESYS_STATE_RESUBMISSION \/ s = ESYS_STATE_SENT ->
  (forall r, accepts r = true -> r = TSS2_RC_SUCCESS \/ r = TPM2_RC_INITIALIZE) ->
  accepts TSS2_RC_SUCCESS = true ->
  receives (esys_receive_with s accepts).
Proof.
  intros Hs Hacc Hsucc c c' x.
  unfold esys_receive_with, bind at 1, get at 1. unfold bind at 1.
  destruct (code _ c) as [[c1 [r|y]]|] eqn:E; [|..|done].
  { unfold code in E. destruct (sys_m _ c) as [[? ?]|]; done. }
  apply code_sys_m in E as (r & b & E & -> & Ey). rewrite Ey.
  destruct (Z.eqb_spec (base_rc r) TSS2_BASE_RC_TRY_AGAIN) as [T|T].
  { intros [= <- <-]. apply receive_wait; [done..|]. by intros ->. }
  destruct (resubmits r) eqn:Rs.
  - unfold bind, get, modify. cbn [submissionCount set_sys].
    destruct (Z.leb_spec ESYS_MAX_SUBMISSIONS (submissionCount c)) as [M|M].
    { intros [= <- <-]. by apply receive_exhausted. }
    unfold sys_m. cbn [sys set_state set_submissionCount set_sys].
    destruct (Tss2_Sys_ExecuteAsync (Some b)) as [[q [b'|]]|] eqn:Ea; [|done..].
    assert (c' = set_sys b' (set_state s
              (set_submissionCount (submissionCount c + 1) (set_sys b c))) /\
            x = inl (if q =? TSS2_RC_SUCCESS then TSS2_ESYS_RC_TRY_AGAIN else q) ->
            receive_run c c' x) as W by (intros [-> ->]; by eapply receive_resubmit).
    intros E'. apply W. destruct (q =? TSS2_RC_SUCCESS); by injection E' as <- <-.
  - destruct (accepts r) eqn:Ac.
    { intros [= <- <-]. apply (receive_ok c r); [done|by apply Hacc]. }
    assert (r <> TSS2_RC_SUCCESS) as N by (intros ->; congruence).
    destruct (iesys_tpm_error r) eqn:Te; intros [= <- <-];
      [by apply receive_tpm_error|by apply receive_error].
Qed.

Lemma receive_runs : receives esys_receive.
Proof.
  apply receive_with_runs; [by left|intros r ->%Z.eqb_eq; by left|done].
Qed.

Lemma receive_startup_runs : receives esys_receive_startup.
Proof.
  apply receive_with_runs; [by right| |done].
  intros r [->%Z.eqb_eq| ->%Z.eqb_eq]%orb_true_iff; auto.
Qed.

(** ** [_Finish] *)

(** What a program may do that does not end the command: it does not leave the
    error state. *)
Definition stays_broken (c c' : CTX) : Prop :=
  submissionCount c' = submissionCount c /\
  (state c = ESYS_STATE_INTERNALERROR -> state c' = ESYS_STATE_INTERNALERROR).

#[global] Instance stays_broken_preorder : PreOrder stays_broken.
Proof.
  split; unfold stays_broken; [by intros c|]. intros c1 c2 c3 [? ?] [? ?].
  split; [congruence|auto].
Qed.

Lemma keeps_progress_broken {A} (m : M CTX A) : Keeps same_progress m -> Keeps stays_broken m.
Proof.
  intros Hm c c' x E. apply Hm in E as (? & ? & _). split; [done|congruence].
Qed.

Lemma keeps_return_state {A} (m : M CTX A) :
  Keeps stays_broken m -> Keeps stays_broken (return_state m ESYS_STATE_INTERNALERROR).
Proof.
  intros Hm. unfold return_state. apply keeps_on_error; [apply _|done|intros r].
  apply keeps_bind; [apply _|by apply keeps_modify|intros _; apply keeps_ret, _].
Qed.

Lemma refused (c : CTX) :
  waiting (state c) = negb (negb (bool_decide (state c = ESYS_STATE_SENT))
                            && negb (bool_decide (state c = ESYS_STATE_RESUBMISSION))).
Proof. unfold waiting. by destruct (bool_decide _), (bool_decide _). Qed.

(** How a [_Finish] function that was not refused ends. *)
Inductive finish_run {B} (c : CTX) : CTX -> TSS2_RC + B -> Prop :=
| finish_run_broken c' r : state c' = ESYS_STATE_INTERNALERROR ->
    submissionCount c' = submissionCount c -> finish_run c c' (inl r)
| finish_run_done c' b : state c' = ESYS_STATE_INIT ->
    submissionCount c' = submissionCount c -> finish_run c c' (inr b)
| finish_run_lost c' r : state c' = ESYS_STATE_INIT ->
    submissionCount c' = submissionCount c -> lookup_error r = true -> finish_run c c' (inl r)
| finish_run_receive c1 c2 c' r :
    sys c1 = sys c -> timeout c1 = timeout c -> submissionCount c1 = submissionCount c ->
    state c1 = ESYS_STATE_INTERNALERROR -> receive_run c1 c2 (inl r) ->
    same_command c2 c' -> finish_run c c' (inl r).

(** What makes a program a [_Finish] function *)
Definition finishes {B} (m : M CTX B) : Prop :=
  (forall c, waiting (state c) = false -> m c = Ret (c, inl TSS2_ESYS_RC_BAD_SEQUENCE)) /\
  (forall c c' x, waiting (state c) = true -> m c = Ret (c', x) -> finish_run c c' x).

(** The property of every [_Finish] function *)
Lemma finish_refines {B} (m : M CTX B) (c c' : CTX) x :
  finishes m -> m c = Ret (c', x) -> finish_step (proto_of c) (label_of x) (proto_of c').
Proof.
  intros [Hr Hf] E. destruct (waiting (state c)) eqn:W.
  - apply Hf in E; [|done]. unfold proto_of at 2.
    destruct E as [c' r S1 N1|c' b S1 N1|c' r S1 N1 L|c1 c2 c' r Y T N S1 E [(S2 & N2 & _) _]].
    + rewrite S1, N1. by apply finish_broken.
    + rewrite S1, N1. by apply finish_done.
    + rewrite S1, N1. by apply finish_lost.
    + rewrite S2, N2. inversion E as [|? b Ef|? b Ef Rs|s ? b q b' Hs Ef Rs M Ea|? b Ef|? b Ef]; subst;
        cbn [state submissionCount set_sys set_state set_submissionCount label_of];
        rewrite ?N; cbn [submissions phase].
      * by apply (finish_wait (proto_of c)).
      * apply (finish_exhausted (proto_of c)); [done|cbn; lia|done].
      * destruct Hs as [-> | ->]; [apply (finish_resubmitted (proto_of c))|
          apply (finish_resent (proto_of c))]; [done|cbn; lia|done|cbn; lia].
      * by apply (finish_tpm_error (proto_of c)).
      * by apply (finish_broken (proto_of c)).
  - rewrite Hr in E by done. injection E as <- <-. by apply finish_refused.
Qed.

(** ** The parts of a [_Finish] function *)

Section Parts.
Context {A B C : Type} (quiet : A -> gmap nat RSRC_NODE_T -> Prop) (post : B -> TSS2_RC + C).

(** [quiet a h] says that with the objects [h] the cleanup does not change the
    code; the allocation makes it so. *)
Definition allocates (m : M CTX A) : Prop := forall c c' x, m c = Ret (c', x) ->
  same_command c c' /\ match x with inl _ => True | inr a => quiet a (heap c') end.

Definition cleans (h : A -> TSS2_RC -> M CTX TSS2_RC) : Prop := forall a r c c' x,
  quiet a (heap c) \/ state c = ESYS_STATE_INTERNALERROR -> h a r c = Ret (c', x) ->
  same_command c c' /\ exists r', x = inr r' /\ (quiet a (heap c) -> r' = r).

(** The part after the response has come; [post] says which results are codes
    that are returned without the cleanup. *)
Definition responds (a : A) (m : M CTX B) : Prop := forall c c' x,
  state c = ESYS_STATE_INTERNALERROR -> m c = Ret (c', x) ->
  submissionCount c' = submissionCount c /\
  match x with
  | inr b => state c' = match post b with
                        | inr _ => ESYS_STATE_INIT
                        | inl _ => ESYS_STATE_INTERNALERROR
                        end
  | inl r => state c' = ESYS_STATE_INTERNALERROR \/
             state c' = ESYS_STATE_INIT /\ lookup_error r = true /\ quiet a (heap c')
  end.

Lemma receive_run_heap c c' x : receive_run c c' x -> heap c' = heap c.
Proof. by destruct 1. Qed.

Definition posted (b : B) : M CTX C := match post b with inl r => fail r | inr b => ret b end.

Lemma finishes_posted (al : M CTX A) rcv h (k : A -> M CTX B) :
  allocates al -> receives rcv -> cleans h -> (forall a, responds a (k a)) ->
  finishes (bind (esys_finish_with al rcv h k) posted).
Proof.
  intros Ha Hrcv Hh Hk. split.
  { intros c W. unfold bind, esys_finish_with, bind, get. rewrite refused in W.
    apply negb_false_iff in W. by rewrite W. }
  intros c c' x W. unfold bind at 1, esys_finish_with, bind at 1, get at 1. rewrite refused in W.
  destruct (_ && _); [done|]. clear W. unfold bind at 1, modify at 1.
  set (c0 := set_state ESYS_STATE_INTERNALERROR c). unfold bind at 1.
  destruct (al c0) as [[c1 [r|a]]|] eqn:E1; [| |done];
    apply Ha in E1 as [[(S1 & N1 & T1) Y1] Q1]; subst c0; cbn in S1, N1, T1, Y1.
  { intros [= <- <-]. by apply finish_run_broken. }
  unfold on_error, bind.
  destruct (rcv c1) as [[c2 [r|[]]]|] eqn:E2; [| |done]; apply Hrcv in E2;
    pose proof (receive_run_heap _ _ _ E2) as G2.
  - assert (quiet a (heap c2)) as Q2 by (by rewrite G2).
    destruct (h a r c2) as [[c3 y]|] eqn:E3; [|done].
    apply Hh in E3 as (E3 & r' & -> & Er); [|by left]. rewrite Er by done. intros [= <- <-].
    by apply (finish_run_receive c c1 c2).
  - inversion E2 as [? b Ef Hr| | | | |]; subst.
    destruct (k a _) as [[c3 [r'|b']]|] eqn:E3; [| |done];
      apply Hk in E3 as [N3 S3]; cbn [state submissionCount set_sys] in *; try done.
    + destruct (h a r' c3) as [[c4 y]|] eqn:E4; [|done].
      assert (quiet a (heap c3) \/ state c3 = ESYS_STATE_INTERNALERROR) as Q3
        by (destruct S3 as [S3|(_ & _ & Q)]; auto).
      apply Hh in E4 as ([(S4 & N4 & _) _] & r'' & -> & Er); [|done]. intros [= <- <-].
      destruct S3 as [S3|(S3 & L & Q)].
      * apply finish_run_broken; congruence.
      * rewrite Er by done. apply finish_run_lost; congruence.
    + unfold posted. destruct (post b'); intros [= <- <-];
        [apply finish_run_broken|apply finish_run_done]; congruence.
Qed.

End Parts.

Lemma finishes_ext {B} (m m' : M CTX B) : (forall c, m c = m' c) -> finishes m -> finishes m'.
Proof.
  intros E [H1 H2]. split; intros c; [|intros c' x]; rewrite <-E; [apply H1|apply H2].
Qed.

Lemma finishes_with {A B} quiet (al : M CTX A) rcv h (k : A -> M CTX B) :
  allocates quiet al -> receives rcv -> cleans quiet h ->
  (forall a, responds quiet inr a (k a)) ->
  finishes (esys_finish_with al rcv h k).
Proof.
  intros Ha Hrcv Hh Hk. eapply finishes_ext; [|by apply (finishes_posted quiet inr al rcv h k)].
  intros c. unfold bind, posted, ret. by destruct (esys_finish_with _ _ _ _ c) as [[? [?|?]]|].
Qed.

Lemma finishes_direct {A B} quiet (al : M CTX A) rcv h (k : A -> M CTX (TSS2_RC + B)) :
  allocates quiet al -> receives rcv -> cleans quiet h ->
  (forall a, responds quiet id a (k a)) ->
  finishes (direct (esys_finish_with al rcv h k)).
Proof. apply finishes_posted. Qed.

(** Most functions: the cleanup gives the code back whatever the objects are. *)
Section Plain.
Context {A : Type}.
Definition always (_ : A) (_ : gmap nat RSRC_NODE_T) : Prop := True.

Lemma allocates_plain (m : M CTX A) : Keeps same_command m -> allocates always m.
Proof. intros Hm c c' x E. apply Hm in E. by destruct x. Qed.

Lemma cleans_return (f : A -> M CTX unit) :
  (forall a, Keeps same_command (f a)) -> cleans always (fun a => then_return (f a)).
Proof.
  intros Hf a r c c' x _. unfold then_return, bind, code, ret.
  destruct (f a c) as [[c1 y]|] eqn:E; [|done]. apply Hf in E. intros [= <- <-]. eauto.
Qed.

Lemma cleans_nothing : cleans always (fun (_ : A) r => ret r).
Proof. intros a r c c' x _ [= <- <-]. split; [done|eauto]. Qed.

Lemma responds_completed {B} quiet (a : A) (m : M CTX B) :
  Keeps stays_broken m -> responds quiet inr a (completed m).
Proof.
  intros Hm c c' x Hs. unfold completed, bind, modify, ret.
  destruct (m c) as [[c1 [r|b]]|] eqn:E; [| |done]; apply Hm in E as [N1 S1];
    intros [= <- <-]; cbn; split; (done || auto).
Qed.

Lemma responds_bind {B C D} quiet (post : B -> TSS2_RC + D) (a : A) (m : M CTX C) (k : C -> M CTX B) :
  Keeps stays_broken m -> (forall v, responds quiet post a (k v)) ->
  responds quiet post a (bind m k).
Proof.
  intros Hm Hk c c' x Hs. unfold bind.
  destruct (m c) as [[c1 [r|v]]|] eqn:E; [| |done]; apply Hm in E as [N1 S1].
  - intros [= <- <-]. auto.
  - intros E. apply Hk in E as [N2 S2]; [|auto]. split; [congruence|done].
Qed.

End Plain.

Lemma keeps_checked_response :
  Keeps stays_broken (return_state (iesys_check_response (S:=S) (U:=U) (K:=K))
    ESYS_STATE_INTERNALERROR).
Proof. apply keeps_return_state, keeps_progress_broken, keeps_check_response. Qed.

Lemma finishes_esys {A B} (al : M CTX A) (cleanup : A -> M CTX unit) (complete : A -> M CTX B) :
  Keeps same_command al -> (forall a, Keeps same_command (cleanup a)) ->
  (forall a, Keeps stays_broken (complete a)) -> finishes (esys_finish al cleanup complete).
Proof.
  intros Ha Hcl Hco. apply (finishes_with always);
    [by apply allocates_plain|apply receive_runs|by apply cleans_return|].
  intros a. apply responds_bind; [apply keeps_checked_response|intros _]. by apply responds_completed.
Qed.

End Machine.

(** ** [_Async] *)

Section Async.
Context {H : Host} {HM : Memory} {S U K : Type}.
Abbreviation CTX := (ESYS_CONTEXT S U K).

(** A state in which no response is awaited *)
Definition idle (s : ESYS_STATE) : Prop := s = ESYS_STATE_INIT \/ s = ESYS_STATE_INTERNALERROR.

Definition stays_idle (c c' : CTX) : Prop :=
  submissionCount c' = submissionCount c /\ (idle (state c) -> idle (state c')).

#[global] Instance stays_idle_preorder : PreOrder stays_idle.
Proof.
  split; unfold stays_idle; [by intros c|]. intros c1 c2 c3 [? ?] [? ?].
  split; [congruence|auto].
Qed.

Lemma keeps_progress_idle {A} (m : M CTX A) : Keeps same_progress m -> Keeps stays_idle m.
Proof. intros Hm c c' x E. apply Hm in E as (E & ? & _). split; [done|]. by rewrite E. Qed.

Lemma keeps_return_idle {A} (m : M CTX A) s :
  idle s -> Keeps stays_idle m -> Keeps stays_idle (return_state m s).
Proof.
  intros Hs Hm. unfold return_state. apply keeps_on_error; [apply _|done|intros r].
  apply keeps_bind; [apply _|by apply keeps_modify|intros _; apply keeps_ret, _].
Qed.
#[local] Hint Resolve keeps_return_idle : keeps.
#[local] Hint Extern 8 (Keeps stays_idle _) => apply keeps_progress_idle : keeps.

Lemma idle_init : idle ESYS_STATE_INIT.
Proof. by left. Qed.
Lemma idle_error : idle ESYS_STATE_INTERNALERROR.
Proof. by right. Qed.
#[local] Hint Resolve idle_init idle_error : keeps.

Lemma keeps_get_objects l : Keeps stays_idle (get_objects (S:=S) (U:=U) (K:=K) l).
Proof. induction l as [|h l IH]; cbn [get_objects]; keeps. Qed.

Lemma keeps_node_handles l : Keeps same_command (node_handles (S:=S) (U:=U) (K:=K) l).
Proof. induction l as [|h l IH]; cbn [node_handles]; unfold node_handle; keeps. Qed.
#[local] Hint Resolve keeps_get_objects keeps_node_handles : keeps.

Lemma keeps_session_value_at i o : Keeps same_command (session_value (S:=S) (U:=U) (K:=K) i o).
Proof. unfold session_value. keeps. Qed.
#[local] Hint Resolve keeps_session_value_at : keeps.

(** A program that sends the command at its end *)
Definition sends (m : M CTX unit) : Prop := forall c c' x,
  idle (state c) -> m c = Ret (c', x) ->
  submissionCount c' = submissionCount c /\
  match x with inl _ => idle (state c') | inr _ => state c' = ESYS_STATE_SENT end.

Lemma sends_bind {A} (m : M CTX A) k :
  Keeps stays_idle m -> (forall a, sends (k a)) -> sends (bind m k).
Proof.
  intros Hm Hk c c' x Hs. unfold bind. destruct (m c) as [[c1 [r|a]]|] eqn:E; [| |done];
    apply Hm in E as [N1 S1].
  - intros [= <- <-]. auto.
  - intros E. apply Hk in E as [N2 S2]; [|auto]. split; [congruence|done].
Qed.

Lemma sends_sent : sends (modify (set_state ESYS_STATE_SENT)).
Proof. by intros c c' x _ [= <- <-]. Qed.

Lemma sends_transmit s1 s2 s3 values n after :
  Keeps stays_idle values -> Keeps stays_idle after ->
  sends (esys_transmit s1 s2 s3 values n after).
Proof.
  intros Hv Ha. unfold esys_transmit. repeat (apply sends_bind; [keeps|intros ?]).
  apply sends_sent.
Qed.

Lemma keeps_session_values a : Keeps same_command (session_values (S:=S) (U:=U) (K:=K) a).
Proof. unfold session_values. keeps. Qed.
#[local] Hint Resolve keeps_session_values : keeps.

Lemma sends_esys_send s1 s2 s3 a n : sends (esys_send s1 s2 s3 a n).
Proof. apply sends_transmit; keeps. Qed.

Lemma sends_execute :
  sends (return_state (sys_m Tss2_Sys_ExecuteAsync) ESYS_STATE_INTERNALERROR ;!
         modify (set_state ESYS_STATE_SENT)).
Proof. apply sends_bind; [keeps|intros _]. apply sends_sent. Qed.

Lemma esys_begin_runs s1 s2 s3 mandatory (c c' : CTX) x :
  esys_begin s1 s2 s3 mandatory c = Ret (c', x) ->
  (ready (state c) = false /\ c' = c /\ x = inl TSS2_ESYS_RC_BAD_SEQUENCE) \/
  (ready (state c) = true /\ submissionCount c' = 1 /\ idle (state c')).
Proof.
  unfold esys_begin, esys_feasible, iesys_check_sequence_async, ready, return_state, on_error, bind, get, fail,
    modify.
  destruct (bool_decide (state c = ESYS_STATE_INIT)), (bool_decide (state c = ESYS_STATE_RESUBMISSION));
    cbn [negb andb orb]; try (intros [= <- <-]; by left).
  all: unfold return_if_error, ret, fail;
    destruct (check_session_feasibility s1 s2 s3 mandatory =? TSS2_RC_SUCCESS).
  all: intros E; injection E as <- <-; right.
  all: split; [done|]; split; [done|].
  all: first [by left|by right].
Qed.

Lemma check_sequence_runs (c c' : CTX) x :
  (iesys_check_sequence_async ;! modify (set_state ESYS_STATE_INTERNALERROR)) c = Ret (c', x) ->
  (ready (state c) = false /\ c' = c /\ x = inl TSS2_ESYS_RC_BAD_SEQUENCE) \/
  (ready (state c) = true /\ submissionCount c' = 1 /\ idle (state c') /\ x = inr tt).
Proof.
  unfold iesys_check_sequence_async, ready, bind, get, fail, modify.
  destruct (bool_decide (state c = ESYS_STATE_INIT)), (bool_decide (state c = ESYS_STATE_RESUBMISSION));
    cbn [negb andb orb]; intros [= <- <-]; [right..|by left]; split_and!; (done || by right).
Qed.

(** The property of every [_Async] function *)
Definition begins (m : M CTX unit) : Prop := forall c c' x,
  m c = Ret (c', x) -> async_step (proto_of c) (label_of x) (proto_of c').

(** What follows the check of the state *)
Lemma async_sends (c c1 c' : CTX) (body : M CTX unit) x :
  sends body -> ready (state c) = true -> submissionCount c1 = 1 -> idle (state c1) ->
  body c1 = Ret (c', x) -> async_step (proto_of c) (label_of x) (proto_of c').
Proof.
  intros Hb R N I E. apply Hb in E as [N2 S2]; [|done]. rewrite N in N2. unfold proto_of at 2.
  rewrite N2. destruct x as [r|[]].
  - destruct S2 as [->| ->];
      [by apply (async_failed (proto_of c))|by apply (async_broken (proto_of c))].
  - rewrite S2. by apply (async_sent (proto_of c)).
Qed.

Lemma begins_feasible s1 s2 s3 mandatory body :
  sends body -> begins (bind (esys_begin s1 s2 s3 mandatory) (fun _ => body)).
Proof.
  intros Hb c c' x. unfold bind. destruct (esys_begin s1 s2 s3 mandatory c) as [[c1 y]|] eqn:E; [|done].
  apply esys_begin_runs in E as [(R & -> & ->)|(R & N & I)].
  - intros [= <- <-]. by apply async_refused.
  - destruct y as [r|[]].
    + intros [= <- <-]. apply (async_sends c c1 c1 (fail r)); [|done..]. by intros ? ? ? ? [= <- <-].
    + by apply async_sends.
Qed.

Lemma begins_plain body :
  sends body ->
  begins (iesys_check_sequence_async ;! modify (set_state ESYS_STATE_INTERNALERROR) ;! body).
Proof.
  intros Hb c c' x E. assert (bind (iesys_check_sequence_async ;!
    modify (set_state ESYS_STATE_INTERNALERROR)) (fun _ => body) c = Ret (c', x)) as E'.
  { revert E. unfold bind. by destruct (iesys_check_sequence_async c) as [[? [?|?]]|]. }
  clear E. revert E'. unfold bind at 1.
  destruct ((iesys_check_sequence_async ;! _) c) as [[c1 y]|] eqn:E; [|done].
  apply check_sequence_runs in E as [(R & -> & ->)|(R & N & I & ->)].
  - intros [= <- <-]. by apply async_refused.
  - by apply async_sends.
Qed.

(** The conversion of a handle before the check *)
Lemma begins_handle h (k : Z -> M CTX unit) :
  (forall t, begins (k t)) ->
  begins (let! t := hierarchy_handle h in k t).
Proof.
  intros Hk c c' x. unfold hierarchy_handle, bind.
  destruct (iesys_handle_to_tpm_handle h) as [r|t] eqn:E; [|apply Hk].
  destruct (iesys_is_platform_handle h); cbn [negb]; [apply Hk|].
  intros [= <- <-]. assert (r = TSS2_ESYS_RC_BAD_VALUE) as ->; [|apply async_bad_value].
  unfold iesys_handle_to_tpm_handle in E. repeat case_match; congruence.
Qed.

Lemma sends_get_objects handles k : (forall nodes, sends (k nodes)) ->
  sends (let! nodes := get_objects handles in k nodes).
Proof. intros Hk. apply sends_bind; [keeps|done]. Qed.

Lemma keeps_prepare (prepare : list Z -> sysF S) nodes :
  Keeps stays_idle (prepare_with (U:=U) (K:=K) prepare nodes).
Proof. unfold prepare_with. keeps. Qed.
#[local] Hint Resolve keeps_prepare : keeps.

Lemma begins_with handles n_auth s1 s2 s3 mandatory store prepare :
  Keeps stays_idle store -> (forall nodes, Keeps stays_idle (prepare nodes)) ->
  begins (esys_async_with handles n_auth s1 s2 s3 mandatory store prepare).
Proof.
  intros Hst Hp. apply begins_feasible. apply sends_bind; [done|intros _].
  apply sends_get_objects. intros nodes. apply sends_bind; [done|intros _]. apply sends_esys_send.
Qed.

Lemma begins_async handles n_auth s1 s2 s3 mandatory store prepare :
  Keeps stays_idle store -> begins (esys_async handles n_auth s1 s2 s3 mandatory store prepare).
Proof. intros Hst. apply begins_with; [done|intros nodes; keeps]. Qed.

Lemma begins_without_sessions handles store prepare :
  Keeps stays_idle store -> begins (esys_async_plain handles store prepare).
Proof.
  intros Hst. apply begins_plain. apply sends_bind; [done|intros _].
  apply sends_get_objects. intros nodes. apply sends_bind; [keeps|intros _]. apply sends_execute.
Qed.

End Async.
#[export] Hint Resolve keeps_get_objects keeps_node_handles keeps_session_value_at
  keeps_session_values keeps_return_idle keeps_prepare idle_init idle_error : keeps.
#[export] Hint Extern 8 (Keeps stays_idle _) => apply keeps_progress_idle : keeps.

(** ** The end of the loop *)

Section Loop.
Context {H : Host} {HM : Memory} {S U K : Type} {B : Type}.
Abbreviation CTX := (ESYS_CONTEXT S U K).

(** [loop_run finish n c o]: the loop that calls [finish] while it returns a
    code to try again ends with [o] after [n] calls. *)
Inductive loop_run (finish : M CTX B) : nat -> CTX -> outcome (CTX * (TSS2_RC + B)) -> Prop :=
| loop_undef c : finish c = Undef -> loop_run finish 1 c Undef
| loop_end c c' x : finish c = Ret (c', x) -> try_again x = false ->
    loop_run finish 1 c (Ret (c', x))
| loop_again c c' x n o : finish c = Ret (c', x) -> try_again x = true ->
    loop_run finish n c' o -> loop_run finish (Datatypes.S n) c o.

Lemma loop_run_finish finish n c o fuel :
  loop_run finish n c o -> (n <= fuel)%nat -> finish_loop fuel finish c = o.
Proof.
  intros R. revert fuel. induction R as [c E|c c' x E T|c c' x n o E T R IH];
    intros [|fuel] L; try lia; cbn [finish_loop]; unfold bind, code; rewrite E; [done| |].
  - destruct x as [r|b]; [|done]. cbn [try_again] in T. by rewrite T.
  - destruct x as [r|b]; [|done]. cbn [try_again] in T. rewrite T. apply IH. lia.
Qed.

(** A transport that never asks to try again when it is told to wait, nor does
    the TPM behind it; [Inv] describes the contexts of the System API that occur. *)
Record answers (Inv : blob S -> Prop) : Prop := {
  answers_finish b r b' : Inv b -> Tss2_Sys_ExecuteFinish (-1) (Some b) = Ret (r, Some b') ->
    base_rc r <> TSS2_BASE_RC_TRY_AGAIN /\ Inv b';
  answers_async b r b' : Inv b -> Tss2_Sys_ExecuteAsync (Some b) = Ret (r, Some b') -> Inv b'
}.

Context (finish : M CTX B) (Hf : finishes finish).

Lemma finish_refused_loop c : waiting (state c) = false -> exists o, loop_run finish 1 c o.
Proof. intros W. eexists. eapply loop_end; [by apply Hf|done]. Qed.

Lemma resubmits_base r : resubmits r = true -> base_rc r <> TSS2_BASE_RC_TRY_AGAIN.
Proof.
  unfold resubmits. intros [[->%Z.eqb_eq| ->%Z.eqb_eq]%orb_true_iff| ->%Z.eqb_eq]%orb_true_iff; done.
Qed.

Lemma finish_ends Inv (Hi : answers Inv) k c :
  Inv (sys c) -> timeout c = -1 -> ESYS_MAX_SUBMISSIONS - submissionCount c <= Z.of_nat k ->
  exists n o, (n <= k + 2)%nat /\ loop_run finish n c o.
Proof.
  revert c. induction k as [|k IH]; intros c I Tm N.
  all: destruct (waiting (state c)) eqn:W;
    [|destruct (finish_refused_loop c W) as [o R]; exists 1%nat, o; split; [lia|done]].
  all: destruct (finish c) as [[c' x]|] eqn:E;
    [|exists 1%nat, Undef; split; [lia|by apply loop_undef]].
  all: destruct (try_again x) eqn:T;
    [|exists 1%nat, (Ret (c', x)); split; [lia|by apply loop_end]].
  all: pose proof E as E'; apply Hf in E'; [|done].
  all: destruct E' as [c' r S1 N1|c' b S1 N1|c' r S1 N1 L|c1 c2 c' r Y T1 N1 S1 R [(S2 & N2 & T2) Y2]];
    [|..|]; try done;
    try (assert (waiting (state c') = false) as W' by (by rewrite S1);
         destruct (finish_refused_loop c' W') as [o R];
         exists 2%nat, o; split; [lia|by eapply loop_again]).
  all: cbn [try_again] in T; apply Z.eqb_eq in T; inversion R as [|? b Ef|? b Ef Rs|s ? b q b' Hs Ef Rs M Ea|? b Ef|? b Ef]; subst;
    cbn [sys set_sys set_state set_submissionCount submissionCount state timeout] in *;
    try (rewrite Y, T1, Tm in Ef; apply (answers_finish _ Hi) in Ef as [Bf I']; [|done]); try done;
    try (by apply resubmits_base in Rs).
  - lia.
  - apply (answers_async _ Hi) in Ea; [|done].
    destruct (IH c') as (n & o & L & Rn); [by rewrite Y2|congruence|lia|].
    exists (Datatypes.S n), o. split; [lia|].
    apply (loop_again _ _ _ _ _ _ E); [cbn [try_again]; by rewrite T|done].
Qed.

(** A transport that takes the command again when the TPM has asked for it *)
Definition takes (Inv : blob S -> Prop) : Prop := forall b r b1 q b2, Inv b ->
  Tss2_Sys_ExecuteFinish (-1) (Some b) = Ret (r, Some b1) -> resubmits r = true ->
  Tss2_Sys_ExecuteAsync (Some b1) = Ret (q, Some b2) -> q = TSS2_RC_SUCCESS.

Section Over.
Context (Inv : blob S -> Prop) (Hi : answers Inv) (Ht : takes Inv).

(** A command that the transport has *)
Definition under_way (c : CTX) : Prop := waiting (state c) = true /\ Inv (sys c) /\ timeout c = -1.

(** A command is over, or was submitted again. *)
Lemma finish_once c c' x :
  finish c = Ret (c', x) -> under_way c ->
  idle (state c') /\ (forall b, x = inr b -> state c' = ESYS_STATE_INIT) \/
  try_again x = true /\ (forall b, x <> inr b) /\ under_way c'.
Proof.
  intros E (W & I & Tm). apply Hf in E; [|done].
  destruct E as [c' r S1 N1|c' b S1 N1|c' r S1 N1 L|c1 c2 c' r Y T1 N1 S1 Er [(S2 & N2 & T2) Y2]];
    try (left; split; [by (left + right)|done]).
  inversion Er as [|? b Ef|? b Ef Rs|s ? b q b' Hs Ef Rs M Ea|? b Ef|? b Ef]; subst;
    cbn [state timeout set_sys set_state set_submissionCount sys] in *;
    try (left; split; [by (left + right)|done]);
    rewrite Y, T1, Tm in Ef; pose proof Ef as Ef'; apply (answers_finish _ Hi) in Ef as [Bf I']; try done.
  rewrite (Ht _ _ _ _ _ I Ef' Rs Ea) in *. right. split; [done|]. split; [done|].
  split_and!; [rewrite S2; by destruct Hs as [-> | ->]|rewrite Y2; by apply (answers_async _ Hi) in Ea|].
  by rewrite T2, T1.
Qed.

Lemma finish_over n c c' x :
  loop_run finish n c (Ret (c', x)) -> under_way c \/ idle (state c) ->
  idle (state c') /\ (forall b, x = inr b -> state c' = ESYS_STATE_INIT).
Proof.
  intros R. remember (Ret (c', x)) as o eqn:Eo.
  assert (forall c, idle (state c) -> finish c = Ret (c, inl TSS2_ESYS_RC_BAD_SEQUENCE)) as Id.
  { intros d [E|E]; apply Hf; by rewrite E. }
  induction R as [c E|c c1 y E T|c c1 y n o E T R IH]; [done| |].
  - injection Eo as -> ->. intros [Uw|Hid]; [|rewrite Id in E by done; by injection E as <- <-].
    apply finish_once in E as [?|(T' & _)]; [done|congruence|done].
  - intros [Uw|Hid]; [|rewrite Id in E by done; by injection E as <- <-].
    apply finish_once in E as [[? _]|(_ & _ & ?)]; [apply IH; auto..|done].
Qed.

End Over.
End Loop.

(** ** Sequences of calls *)

(** Which function was called, and how the call went *)
Inductive call : Type := Async (x : label) | Finish (x : label).

Definition proto_step (m : proto) (l : call) (m' : proto) : Prop :=
  match l with Async x => async_step m x m' | Finish x => finish_step m x m' end.

Inductive proto_run : proto -> list call -> proto -> Prop :=
| proto_done m : proto_run m [] m
| proto_next m l m1 tr m' : proto_step m l m1 -> proto_run m1 tr m' -> proto_run m (l :: tr) m'.
