(* ===== verification/EsysTable.v ===== *)
(** * Enhanced System API: the list of objects as a finite map.

    [table c] maps the handles of the application to the nodes of the list. On
    a well-formed list, looking an object up, creating one and closing one are
    the operations of the map. *)

From stdpp Require Import gmap.
From S2P Require Import Prelude Common MuSpec MuBase MuBaseOk MuStruct MuTpm2b MuUnion TpmTypes MuTypes SysCodes Sys EsysBase EsysCrypto EsysCtx EsysUtil EsysExec EsysTr EsysLogic EsysCryptoOk EsysUtilOk.

Open Scope tss_scope.
Open Scope esys_scope.
Open Scope Z_scope.

Section Table.
Context {H : Host} {HM : Memory} {S U K : Type}.
Abbreviation CTX := (ESYS_CONTEXT S U K).

(** The handles of the nodes of a list, with their addresses *)
Fixpoint entries (h : gmap nat RSRC_NODE_T) (l : list nat) : list (Z * nat) :=
  match l with
  | [] => []
  | p :: l =>
      match h !! p with
      | Some n => (esys_handle n, p) :: entries h l
      | None => entries h l
      end
  end.
Definition table_of (h : gmap nat RSRC_NODE_T) (l : list nat) : gmap Z nat :=
  list_to_map (entries h l).
Definition table (c : CTX) : gmap Z nat := table_of (heap c) (rsrc_list c).

Record table_ok (c : CTX) : Prop := TableOk {
  ok_nodes : Forall (fun p => is_Some (heap c !! p)) (rsrc_list c);
  ok_handles : NoDup (entries (heap c) (rsrc_list c)).*1;
  ok_fresh : forall p, is_Some (heap c !! p) -> (p < next_node c)%nat
}.

(** ** Lookup *)

Lemma find_object_run l h (c : CTX) :
  Forall (fun p => is_Some (heap c !! p)) l ->
  find_object l h c = Ret (c, inr (table_of (heap c) l !! h)).
Proof.
  unfold table_of. induction l as [|p l IH]; intros F; [done|]. apply list.Forall_cons in F as [[n N] F].
  cbn [find_object entries]. unfold bind, node_at. rewrite N. cbn [list_to_map foldr].
  destruct (Z.eqb_spec (esys_handle n) h) as [<-|Nh].
  - unfold ret. by rewrite lookup_insert_eq.
  - rewrite lookup_insert_ne by done. by apply IH.
Qed.

(** A node outside the list does not matter. *)
Lemma entries_insert h l p n : p ∉ l -> entries (<[p := n]> h) l = entries h l.
Proof.
  induction l as [|q l IH]; [done|]. intros [Nq Nl]%list.not_elem_of_cons. cbn [entries].
  by rewrite lookup_insert_ne, IH.
Qed.
Lemma entries_delete h l p : p ∉ l -> entries (delete p h) l = entries h l.
Proof.
  induction l as [|q l IH]; [done|]. intros [Nq Nl]%list.not_elem_of_cons. cbn [entries].
  by rewrite lookup_delete_ne, IH.
Qed.

(** Nor does a change that keeps the handle of a node. *)
Lemma entries_update h l p n n' :
  h !! p = Some n -> esys_handle n' = esys_handle n ->
  entries (<[p := n']> h) l = entries h l.
Proof.
  intros N E. induction l as [|q l IH]; [done|]. cbn [entries].
  destruct (decide (q = p)) as [->|Nq].
  - by rewrite lookup_insert_eq, N, E, IH.
  - by rewrite lookup_insert_ne, IH.
Qed.

Lemma table_lookup (c : CTX) h p :
  table_ok c -> table c !! h = Some p <->
  p ∈ rsrc_list c /\ exists n, heap c !! p = Some n /\ esys_handle n = h.
Proof.
  intros [F ND _]. unfold table, table_of. rewrite <-elem_of_list_to_map by done.
  clear ND. induction (rsrc_list c) as [|q l IH]; cbn [entries].
  - rewrite !elem_of_nil. split; [done|by intros [? _]].
  - apply list.Forall_cons in F as [[n N] F]. rewrite N, !elem_of_cons, IH by done.
    split.
    + intros [[= -> ->]|(Hp & m & E & Eh)]; [split; [by left|eauto]|split; [by right|eauto]].
    + intros ([->|Hp] & m & E & Eh); [left; by simplify_eq|right; eauto].
Qed.

(** ** Creation *)

(** The node [p] is new, with contents [n]; nothing else of the table changes. *)
Record created (c c' : CTX) (h : Z) (p : nat) (n : RSRC_NODE_T) : Prop := Created {
  created_table : table c' = <[h := p]> (table c);
  created_node : heap c' !! p = Some n;
  created_new : heap c !! p = None;
  created_others : forall q, q <> p -> heap c' !! q = heap c !! q;
  created_ok : table_ok c'
}.

Lemma fresh_address (c : CTX) : table_ok c -> heap c !! next_node c = None.
Proof.
  intros [_ _ F]. destruct (heap c !! next_node c) eqn:E; [|done].
  specialize (F (next_node c)). rewrite E in F. specialize (F (ltac:(by eexists))). lia.
Qed.

Lemma fresh_not_in (c : CTX) p : table_ok c -> heap c !! p = None -> p ∉ rsrc_list c.
Proof.
  intros [F _ _] N Hp. rewrite list.Forall_forall in F. apply F in Hp as [n E]. congruence.
Qed.

Lemma handle_not_in (c : CTX) h :
  table_ok c -> table c !! h = None -> h ∉ (entries (heap c) (rsrc_list c)).*1.
Proof. intros _ E. by apply not_elem_of_list_to_map_2. Qed.

(** A context with one more node *)
Lemma add_node_created (c c' : CTX) h p n :
  table_ok c -> table c !! h = None -> heap c !! p = None -> esys_handle n = h ->
  heap c' = <[p := n]> (heap c) -> rsrc_list c' = p :: rsrc_list c ->
  (next_node c <= next_node c')%nat -> (p < next_node c')%nat ->
  created c c' h p n.
Proof.
  intros O E N Eh Hh Hl Hn Hp. pose proof (fresh_not_in c p O N) as Np.
  pose proof (handle_not_in c h O E) as Nh. destruct O as [F ND Fr].
  assert (entries (heap c') (rsrc_list c') = (h, p) :: entries (heap c) (rsrc_list c)) as En.
  { rewrite Hh, Hl. cbn [entries]. by rewrite lookup_insert_eq, Eh, entries_insert. }
  split.
  - unfold table, table_of. by rewrite En.
  - by rewrite Hh, lookup_insert_eq.
  - done.
  - intros q Nq. by rewrite Hh, lookup_insert_ne.
  - split.
    + rewrite Hl, Hh. apply list.Forall_cons. split; [by rewrite lookup_insert_eq|].
      eapply list.Forall_impl; [exact F|]. intros q Hq. cbn.
      destruct (decide (q = p)) as [->|]; [by rewrite lookup_insert_eq|by rewrite lookup_insert_ne].
    + rewrite En. cbn. by apply list.NoDup_cons.
    + intros q. rewrite Hh. destruct (decide (q = p)) as [->|]; [done|].
      rewrite lookup_insert_ne by done. intros Hq%Fr. lia.
Qed.

Lemma create_run h (c : CTX) :
  esys_CreateResourceObject h c =
  if calloc_fails (callocs c)
  then Ret (set_callocs (Datatypes.S (callocs c)) c, inl TSS2_ESYS_RC_MEMORY)
  else
    let p := next_node c in
    Ret (set_rsrc_list (p :: rsrc_list c)
          (set_heap (<[p := set_esys_handle h zero_RSRC_NODE_T]> (heap c))
            (set_next_node (Datatypes.S p) (set_callocs (Datatypes.S (callocs c)) c))), inr p).
Proof.
  unfold esys_CreateResourceObject, calloc, bind, get, modify, ret.
  by destruct (calloc_fails (callocs c)).
Qed.

Lemma create_created h (c c' : CTX) p :
  table_ok c -> table c !! h = None -> goes (esys_CreateResourceObject h) c c' p ->
  created c c' h p (set_esys_handle h zero_RSRC_NODE_T).
Proof.
  intros O E. rewrite create_run. destruct (calloc_fails _); [done|]. intros [= <- <-].
  apply add_node_created; [done|done|by apply fresh_address|done|done|done|cbn; lia|cbn; lia].
Qed.

(** The node of a handle that the application need not create *)
Definition standard_node (h tpm_handle : Z) : RSRC_NODE_T :=
  Node h (zero_2b cap_TPM2B_DIGEST)
    (Resource tpm_handle
      (MkTPM2B 4 (be_bytes 4 (wrap 32 tpm_handle) ++ replicate (Z.to_nat (cap_TPM2B_NAME - 4)) 0))
      IESYSC_WITHOUT_MISC_RSRC Misc_zero) 0.

Lemma standard_name t :
  contents (MkTPM2B 4 (be_bytes 4 (wrap 32 t) ++ replicate (Z.to_nat (cap_TPM2B_NAME - 4)) 0))
  = be_bytes 4 (wrap 32 t).
Proof.
  unfold contents. cbn [size buffer]. pose proof (Zlen_be_bytes 4 (wrap 32 t)) as L.
  unfold Zlen in L. rewrite take_app_le by lia. apply take_ge. lia.
Qed.

Lemma upd_node_run p f (c : CTX) n :
  heap c !! p = Some n -> upd_node p f c = Ret (set_heap (<[p := f n]> (heap c)) c, inr tt).
Proof. intros N. unfold upd_node, bind, node_at. by rewrite N. Qed.

Lemma name_write t :
  mem_write (buffer (zero_2b cap_TPM2B_NAME)) 0 (be_bytes 4 (wrap 32 t))
  = Some (be_bytes 4 (wrap 32 t) ++ replicate (Z.to_nat (cap_TPM2B_NAME - 4)) 0).
Proof.
  pose proof (Zlen_be_bytes 4 (wrap 32 t)) as L. apply mem_write_Some. rewrite L.
  split; [done|]. split; [by vm_compute|]. change (Z.to_nat 0) with 0%nat.
  by rewrite take_0.
Qed.

(** [esys_GetResourceObject] on every branch *)
Lemma get_object_run h (c : CTX) :
  table_ok c -> h <> ESYS_TR_NONE ->
  esys_GetResourceObject h c =
  match table c !! h with
  | Some p => Ret (c, inr (Some p))
  | None =>
      if ESYS_TR_MIN_OBJECT <=? h then Ret (c, inl TSS2_ESYS_RC_BAD_TR)
      else
        match iesys_handle_to_tpm_handle h with
        | inl r => Ret (c, inl r)
        | inr t =>
            let c1 := set_callocs (Datatypes.S (callocs c)) c in
            if calloc_fails (callocs c) then Ret (c1, inl TSS2_ESYS_RC_MEMORY)
            else
              let p := next_node c in
              Ret (set_heap (<[p := standard_node h t]> (heap c))
                    (set_rsrc_list (p :: rsrc_list c) (set_next_node (Datatypes.S p) c1)),
                   inr (Some p))
        end
  end.
Proof.
  intros O N. unfold esys_GetResourceObject. rewrite (proj2 (Z.eqb_neq _ _) N).
  unfold bind at 1, get at 1. unfold bind at 1. rewrite find_object_run by apply O.
  fold (table c). destruct (table c !! h) as [p|]; [done|].
  destruct (ESYS_TR_MIN_OBJECT <=? h); [done|].
  destruct (iesys_handle_to_tpm_handle h) as [r|t]; [done|].
  unfold bind at 1. rewrite create_run. destruct (calloc_fails (callocs c)); [done|].
  cbv zeta. set (p := next_node c). unfold bind at 1. erewrite upd_node_run by apply lookup_insert_eq.
  unfold bind at 1. rewrite (mu_int_run UINT32 t) by (done || ctype || by left).
  unfold bind at 1, node_at at 1. cbn [heap set_heap set_rsrc_list]. rewrite lookup_insert_eq.
  unfold bind at 1. cbn [rsrc set_rsrc name set_rsrcType set_handle set_esys_handle zero_RSRC_NODE_T].
  change (be_bytes (csize UINT32) (to_unsigned UINT32 t)) with (be_bytes 4 (wrap 32 t)).
  rewrite name_write. unfold lift, access. unfold bind at 1.
  erewrite upd_node_run by (cbn [heap set_heap]; apply lookup_insert_eq).
  unfold ret. rewrite Zlen_be_bytes. cbn [heap set_heap set_rsrc_list].
  by rewrite !insert_insert_eq.
Qed.

(** The standard object is a new entry of the table. *)
Lemma get_object_created h t (c : CTX) :
  table_ok c -> table c !! h = None ->
  let p := next_node c in
  let c' := set_heap (<[p := standard_node h t]> (heap c))
              (set_rsrc_list (p :: rsrc_list c)
                (set_next_node (Datatypes.S p) (set_callocs (Datatypes.S (callocs c)) c))) in
  created c c' h p (standard_node h t).
Proof.
  intros O E p c'. apply add_node_created;
    [done|done|by apply fresh_address|done|done|done|cbn; lia|cbn; lia].
Qed.

(** ** Closing *)

Lemma entries_app h l1 l2 : entries h (l1 ++ l2) = entries h l1 ++ entries h l2.
Proof. induction l1 as [|p l1 IH]; [done|]. cbn [app entries]. destruct (h !! p); by rewrite IH. Qed.

Lemma entries_address h l p k : (k, p) ∈ entries h l -> p ∈ l.
Proof.
  induction l as [|q l IH]; cbn [entries]; [by intros ?%elem_of_nil|].
  destruct (h !! q) as [n|]; [|intros Hp; right; auto].
  intros [[= -> ->]|Hp]%elem_of_cons; [by left|right; auto].
Qed.

Lemma entries_in h l p n : p ∈ l -> h !! p = Some n -> (esys_handle n, p) ∈ entries h l.
Proof.
  induction l as [|q l IH]; [by intros ?%elem_of_nil|]. cbn [entries].
  intros [->|Hp]%elem_of_cons N; [rewrite N; by left|].
  destruct (h !! q); [right|]; auto.
Qed.

(** A node is in the list once. *)
Lemma entries_once h l1 p l2 n :
  h !! p = Some n -> NoDup (entries h (l1 ++ p :: l2)).*1 -> p ∉ l1 ++ l2.
Proof.
  intros N ND Hp. assert ((esys_handle n, p) ∈ entries h (l1 ++ l2)) as Hi by by apply entries_in.
  revert ND. rewrite entries_app. cbn [entries]. rewrite N, fmap_app. cbn [fmap list_fmap fst].
  rewrite list.NoDup_app, list.NoDup_cons. intros (_ & N1 & N2 & _).
  rewrite entries_app in Hi. apply elem_of_app in Hi as [Hi|Hi].
  - apply (N1 (esys_handle n)); [by apply (list_elem_of_fmap_2 fst) in Hi|by left].
  - apply N2. by apply (list_elem_of_fmap_2 fst) in Hi.
Qed.

Lemma close_object_run l h (c : CTX) :
  Forall (fun p => is_Some (heap c !! p)) l ->
  match table_of (heap c) l !! h with
  | None => close_object l h c = Ret (c, inr None)
  | Some p => exists l1 l2 n, l = l1 ++ p :: l2 /\ heap c !! p = Some n /\ esys_handle n = h /\
      close_object l h c =
      if 1 <? reference_count n
      then Ret (set_heap (<[p := set_reference_count (reference_count n - 1) n]> (heap c)) c,
                inr (Some (l, h)))
      else Ret (set_heap (delete p (heap c)) c, inr (Some (l1 ++ l2, ESYS_TR_NONE)))
  end.
Proof.
  unfold table_of. induction l as [|q l IH]; intros F; [done|].
  apply list.Forall_cons in F as [[n N] F]. cbn [entries close_object]. rewrite N.
  cbn [list_to_map foldr]. destruct (Z.eqb_spec (esys_handle n) h) as [<-|Nh].
  - rewrite lookup_insert_eq. exists [], l, n. split_and!; [done..|].
    unfold bind at 1, node_at. rewrite N, Z.eqb_refl. destruct (1 <? reference_count n); [|done].
    unfold bind. by erewrite upd_node_run by done.
  - rewrite lookup_insert_ne by done. specialize (IH F). apply Z.eqb_neq in Nh.
    destruct (list_to_map _ !! h) as [p|].
    + destruct IH as (l1 & l2 & m & -> & M & Eh & E). exists (q :: l1), l2, m.
      split_and!; [done..|]. unfold bind, node_at. rewrite N, Nh, E.
      by destruct (1 <? reference_count m).
    + unfold bind, node_at. by rewrite N, Nh, IH.
Qed.

(** The context without the node [p] *)
Lemma remove_node (c c' : CTX) h p n l1 l2 :
  table_ok c -> heap c !! p = Some n -> esys_handle n = h -> rsrc_list c = l1 ++ p :: l2 ->
  heap c' = delete p (heap c) -> rsrc_list c' = l1 ++ l2 -> next_node c' = next_node c ->
  table c' = delete h (table c) /\ table_ok c'.
Proof.
  intros [F ND Fr] N Eh El Hh Hl Hn. rewrite El in F, ND.
  pose proof (entries_once _ _ _ _ _ N ND) as Np.
  assert (entries (heap c') (rsrc_list c') = entries (heap c) (l1 ++ l2)) as En.
  { by rewrite Hh, Hl, entries_delete. }
  assert (entries (heap c) (l1 ++ p :: l2) ≡ₚ (h, p) :: entries (heap c) (l1 ++ l2)) as Pe.
  { rewrite !entries_app. cbn [entries]. rewrite N, Eh. symmetry. apply Permutation_middle. }
  pose proof ND as ND'. rewrite Pe in ND'. cbn in ND'. apply list.NoDup_cons in ND' as [Nh ND'].
  split.
  - unfold table, table_of. rewrite En, El, (list_to_map_proper _ _ ND Pe). cbn [list_to_map foldr].
    rewrite delete_insert_id; [done|]. by apply not_elem_of_list_to_map_1.
  - split.
    + rewrite Hh, Hl. apply list.Forall_app in F as [F1 [_ F2]%list.Forall_cons].
      apply list.Forall_forall. intros q Hq. rewrite lookup_delete_ne by congruence.
      apply elem_of_app in Hq as [Hq|Hq];
        [by apply (proj1 (list.Forall_forall _ _) F1)|by apply (proj1 (list.Forall_forall _ _) F2)].
    + by rewrite En.
    + intros q. rewrite Hh, Hn. intros [m Hq]. apply lookup_delete_Some in Hq as [_ Hq].
      apply Fr. by eexists.
Qed.

End Table.
