(* ===== verification/EsysTrMeta.v ===== *)
(** * Enhanced System API: objects from and to the outside (esys_tr.c).

    The metadata of an object as bytes, and an object made for what the TPM
    has: its metadata are read with the commands of the TPM, twice when there
    are sessions. What is stored of an object is what is loaded: the functions
    over the contracts of EsysMuOk.v and the map of handles of EsysTable.v. *)

From stdpp Require Import gmap.
From S2P Require Import Prelude Common MuSpec MuBase MuStruct MuTpm2b MuUnion TpmTypes MuTypes SysCodes Sys EsysBase EsysCrypto EsysCtx EsysUtil EsysMu EsysExec EsysTr EsysAsyncs EsysFinishes MuBaseOk EsysLogic EsysMuOk EsysTable.

Open Scope tss_scope.
Open Scope esys_scope.
Open Scope Z_scope.

Section TrMeta.
Context {H : Host} {HM : Memory} {S U K : Type}.
Abbreviation CTX := (ESYS_CONTEXT S U K).
Abbreviation EM A := (M CTX A).

(** ** Metadata as bytes *)

(** [malloc(size)]: what it holds is that of a variable of the stack. *)
Definition malloc (size : Z) : EM bytes :=
  let! ok := calloc in
  if negb ok then fail TSS2_ESYS_RC_MEMORY
  else ret (map (wrap 8) (resize (Z.to_nat size) 0 stack_bytes)).

(** The buffer and the offset after a marshal call *)
Definition marshal_into (step : mstep) (buffer : option bytes) (size : Z) : EM (option bytes * Z) :=
  fun c =>
  match step buffer size (Some 0) with
  | Ret (r, (b, Some o)) => Ret (c, if r =? TSS2_RC_SUCCESS then inr (b, o) else inl r)
  | _ => Undef
  end.

(** [*buffer], of which [*buffer_size] is the size; a buffer that an error
    leaves in [*buffer] is not part of the result. *)
Definition Esys_TR_Serialize (esys_handle : Z) : EM bytes :=
  let! p := object_of esys_handle in
  let! n := node_at p in
  let marshal := iesys_MU_IESYS_RESOURCE_Marshal (Some (rsrc n)) in
  let! (_, buffer_size) := marshal_into marshal None (size_max - 1) in
  let! buffer := malloc buffer_size in
  let! (buffer, _) := marshal_into marshal (Some buffer) buffer_size in
  lift (access buffer).

(** [buffer_size] is what the application says. The node stays in the list
    when the bytes are refused, with what was read of them. *)
Definition Esys_TR_Deserialize (buffer : option bytes) (buffer_size : Z) : EM Z :=
  let! (h, p) := new_handle in
  let! n := node_at p in
  match iesys_MU_IESYS_RESOURCE_Unmarshal buffer buffer_size (Some 0) (Some (rsrc n)) with
  | Ret (r, (_, Some d)) =>
      upd_rsrc p (fun _ => d) ;!
      return_if_error r ;!
      ret h
  | _ => undef
  end.

(** ** Objects of the TPM *)

Definition is_nv_index (tpm_handle : Z) : bool :=
  (TPM2_NV_INDEX_FIRST <=? tpm_handle) && (tpm_handle <=? TPM2_NV_INDEX_LAST).
Definition is_session_handle (tpm_handle : Z) : bool :=
  (Z.shiftr tpm_handle TPM2_HR_SHIFT =? TPM2_HT_LOADED_SESSION)
  || (Z.shiftr tpm_handle TPM2_HR_SHIFT =? TPM2_HT_SAVED_SESSION).

(** The loop through the list for the TPM handle *)
Fixpoint find_tpm_handle (l : list nat) (tpm_handle : Z) : EM (option nat) :=
  match l with
  | [] => ret None
  | p :: l =>
      let! node := node_at p in
      if handle (rsrc node) =? tpm_handle then ret (Some p) else find_tpm_handle l tpm_handle
  end.

(** [next_handle] is [esys_context->esys_handle_cnt++]. *)
Definition next_handle : EM Z :=
  let! c := get in
  modify (set_esys_handle_cnt (wrap 32 (esys_handle_cnt c + 1))) ;!
  ret (esys_handle_cnt c).

(** [Esys_TR_Close(esys_context, &esys_handle); return r;] *)
Definition closes (esys_handle : Z) (r : TSS2_RC) : EM TSS2_RC :=
  let! _ := code (Esys_TR_Close esys_handle) in ret r.

Definition Esys_TR_FromTPMPublic_Async (tpm_handle shandle1 shandle2 shandle3 : Z) : EM unit :=
  let! _ := next_handle in
  let! c := get in
  let! found := find_tpm_handle (rsrc_list c) tpm_handle in
  let! (esys_handle, (shandle1, shandle2, shandle3)) :=
    match found with
    | None =>
        let! esys_handle := next_handle in
        let! p := on_error (esys_CreateResourceObject esys_handle) (closes esys_handle) in
        (* the first trial has no session *)
        modify (set_sav_session1 shandle1) ;!
        modify (set_sav_session2 shandle2) ;!
        modify (set_sav_session3 shandle3) ;!
        modify (set_session_tab [None; None; None]) ;!
        upd_rsrc p (set_handle tpm_handle) ;!
        modify (set_esys_handle_tmp esys_handle) ;!
        ret (esys_handle, (ESYS_TR_NONE, ESYS_TR_NONE, ESYS_TR_NONE))
    | Some p =>
        let! n := node_at p in
        modify (set_esys_handle_tmp (esys_handle n)) ;!
        ret (esys_handle n, (shandle1, shandle2, shandle3))
    end in
  if is_nv_index tpm_handle then
    on_error (Esys_NV_ReadPublic_Async esys_handle shandle1 shandle2 shandle3) (closes esys_handle)
  else if is_session_handle tpm_handle then ret tt
  else on_error (Esys_ReadPublic_Async esys_handle shandle1 shandle2 shandle3) (closes esys_handle).

(** The name of the first call is the name of the second. *)
Definition same_name (p : nat) (nm : TPM2B) : EM unit :=
  let! n := node_at p in
  let! equal :=
    lift (if size (name (rsrc n)) =? size nm
          then cmp_BYTE_array (buffer (name (rsrc n))) (size nm) (buffer nm) (size nm)
          else Ret false) in
  if equal then ret tt else fail TSS2_ESYS_RC_GENERAL_FAILURE.

(** [if (base_rc(r) == TSS2_BASE_RC_TRY_AGAIN) return r; goto_if_error(r, ..., error_cleanup);] *)
Definition unless_try_again (cleanup : TSS2_RC -> EM TSS2_RC) (r : TSS2_RC) : EM TSS2_RC :=
  if base_rc r =? TSS2_BASE_RC_TRY_AGAIN then ret r else cleanup r.

(** What the TPM says of the object is stored in the first call, and compared
    in the second. *)
Definition nv_metadata (p : nat) (first_call : bool) (cleanup : TSS2_RC -> EM TSS2_RC) : EM unit :=
  let! (pub, nm) :=
    on_error (Esys_NV_ReadPublic_Finish true true) (unless_try_again cleanup) in
  match pub, nm with
  | Some pub, Some nm =>
      if first_call then
        upd_rsrc p (fun r => set_misc (Misc_nv_pub pub) (set_name nm (set_rsrcType IESYSC_NV_RSRC r)))
      else on_error (same_name p nm) cleanup
  | _, _ => undef
  end.
Definition key_metadata (p : nat) (first_call : bool) (cleanup : TSS2_RC -> EM TSS2_RC) : EM unit :=
  let! (pub, (nm, _)) :=
    on_error (Esys_ReadPublic_Finish true true true) (unless_try_again cleanup) in
  match pub, nm with
  | Some pub, Some nm =>
      if first_call then
        upd_rsrc p (fun r => set_misc (Misc_key_pub pub) (set_name nm (set_rsrcType IESYSC_KEY_RSRC r)))
      else on_error (same_name p nm) cleanup
  | _, _ => undef
  end.

(** [session ? session->esys_handle : ESYS_TR_NONE] *)
Definition tab_handle (i : nat) : EM Z :=
  let! s := session_tab_at i in
  match s with
  | None => ret ESYS_TR_NONE
  | Some p => let! n := node_at p in ret (esys_handle n)
  end.

(** The second call, with the sessions that were saved; the code does not test
    [session_tab[0]] for NULL. *)
Definition second_call (p : nat) : EM unit :=
  let! c := get in
  init_session_tab (sav_session1 c) (sav_session2 c) (sav_session3 c) ;!
  let! s0 := session_tab_at 0 in
  (* the authorization value is NULL *)
  iesys_compute_session_value s0 None ;!
  let! s1 := session_tab_at 1 in iesys_compute_session_value s1 None ;!
  let! s2 := session_tab_at 2 in iesys_compute_session_value s2 None ;!
  let! n := node_at p in
  match s0 with
  | None => undef
  | Some _ =>
      let! h1 := tab_handle 0 in
      let! h2 := tab_handle 1 in
      let! h3 := tab_handle 2 in
      Esys_TR_FromTPMPublic_Async (handle (rsrc n)) h1 h2 h3
  end.

(** The result is [*object]. *)
Definition Esys_TR_FromTPMPublic_Finish : EM Z :=
  let! c := get in
  let objectHandle := esys_handle_tmp c in
  let cleanup := closes objectHandle in
  let! p := on_error (object_of objectHandle) cleanup in
  let! n := node_at p in
  let first_call := rsrcType (rsrc n) =? IESYSC_WITHOUT_MISC_RSRC in
  (if is_nv_index (handle (rsrc n)) then nv_metadata p first_call cleanup
   else if is_session_handle (handle (rsrc n)) then
     upd_rsrc p (set_rsrcType IESYSC_DEGRADED_SESSION_RSRC)
   else key_metadata p first_call cleanup) ;!
  let! c := get in
  if negb (sav_session1 c =? ESYS_TR_NONE) && first_call then
    second_call p ;!
    fail TSS2_ESYS_RC_TRY_AGAIN
  else
    upd_node p (fun n => set_reference_count (wrap 64 (reference_count n + 1)) n) ;!
    ret objectHandle.

(** The timeout is that of the application again when the loop is over. *)
Definition Esys_TR_FromTPMPublic (fuel : nat) (tpm_handle shandle1 shandle2 shandle3 : Z) : EM Z :=
  esys_one_call fuel (Esys_TR_FromTPMPublic_Async tpm_handle shandle1 shandle2 shandle3)
    Esys_TR_FromTPMPublic_Finish.

End TrMeta.

(** ** What is stored is what is loaded *)


Section TrMetaOk.
Context {H : Host} {HM : Memory} {S U K : Type}.
Abbreviation CTX := (ESYS_CONTEXT S U K).

(** [stored_object c h r]: the application knows the object [r] as [h]. *)
Definition known_object (c : CTX) (h : Z) (r : IESYS_RESOURCE) : Prop :=
  h <> ESYS_TR_NONE /\ exists p n, table c !! h = Some p /\ heap c !! p = Some n /\ rsrc n = r.

Lemma object_of_run (c : CTX) h p :
  table_ok c -> h <> ESYS_TR_NONE -> table c !! h = Some p -> object_of h c = Ret (c, inr p).
Proof.
  intros O N E. unfold object_of, bind. rewrite get_object_run by done. by rewrite E.
Qed.

Lemma serialize_run (c : CTX) h r w :
  table_ok c -> known_object c h r ->
  s_wf spec_IESYS_RESOURCE r -> s_wire spec_IESYS_RESOURCE r = Some w -> Zlen w < size_max - 1 ->
  Esys_TR_Serialize h c =
    Ret (set_callocs (Datatypes.S (callocs c)) c,
         if calloc_fails (callocs c) then inl TSS2_ESYS_RC_MEMORY else inr w).
Proof.
  intros O (N & p & n & E & En & <-) Wr Ew Hm. pose proof (Zlen_nonneg w).
  assert (forall lo size, 0 <= lo -> lo + Zlen w <= size -> size < size_max -> _) as Wm
    by exact (fun lo size => IESYS_RESOURCE_writes (rsrc n) w size lo Wr Ew).
  unfold ADDR in Wm.
  unfold Esys_TR_Serialize. unfold bind at 1. rewrite (object_of_run c h p) by done.
  unfold bind at 1, node_at. rewrite En. cbv zeta.
  unfold bind at 1, marshal_into at 1.
  destruct (Wm 0 (size_max - 1)) as [_ ->]; [lia..|]. cbn [Z.eqb].
  rewrite Z.add_0_l. change (TSS2_RC_SUCCESS =? TSS2_RC_SUCCESS) with true. cbv iota.
  unfold malloc, calloc, bind, get, modify, ret. cbv beta iota.
  destruct (calloc_fails (callocs c)); [done|]. cbn [negb].
  set (b := map _ _). assert (Zlen b = Zlen w) as Lb.
  { unfold b, Zlen. rewrite length_map, length_resize. unfold Zlen in *. lia. }
  unfold marshal_into. destruct (Wm 0 (Zlen w)) as [Wb _]; [lia..|].
  destruct (Wb b) as (b' & -> & Eb); [lia|]. change (TSS2_RC_SUCCESS =? TSS2_RC_SUCCESS) with true.
  cbv iota. unfold lift, access. f_equal. f_equal. f_equal.
  apply mem_write_Some in Eb as (_ & _ & Eb). rewrite Eb. change (Z.to_nat 0) with 0%nat.
  rewrite take_0. cbn [app]. rewrite drop_ge; [by rewrite app_nil_r|]. unfold Zlen in *. lia.
Qed.

(** A new node whose contents are set afterwards is a new node. *)
Lemma created_set (c c' : CTX) h p n f :
  created c c' h p n -> esys_handle (f n) = esys_handle n ->
  created c (set_heap (<[p := f n]> (heap c')) c') h p (f n).
Proof.
  intros [T N Fr Oth [O1 O2 O3]] Eh. split; cbn [heap set_heap rsrc_list next_node].
  - unfold table, table_of in *. cbn [heap set_heap rsrc_list]. by rewrite (entries_update _ _ _ n).
  - apply lookup_insert_eq.
  - done.
  - intros q Nq. rewrite lookup_insert_ne by done. by apply Oth.
  - split; cbn [heap set_heap rsrc_list next_node].
    + eapply list.Forall_impl; [exact O1|]. intros q Hq. destruct (decide (q = p)) as [->|];
        [by rewrite lookup_insert_eq|by rewrite lookup_insert_ne].
    + by rewrite (entries_update _ _ _ n).
    + intros q. destruct (decide (q = p)) as [->|];
        [intros _; apply O3; by eexists|rewrite lookup_insert_ne by done; apply O3].
Qed.

Lemma new_handle_run (c : CTX) :
  table_ok c -> table c !! esys_handle_cnt c = None ->
  if calloc_fails (callocs c) then exists c', new_handle c = Ret (c', inl TSS2_ESYS_RC_MEMORY)
  else exists c' p, new_handle c = Ret (c', inr (esys_handle_cnt c, p)) /\
    created c c' (esys_handle_cnt c) p (set_esys_handle (esys_handle_cnt c) zero_RSRC_NODE_T) /\
    esys_handle_cnt c' = wrap 32 (esys_handle_cnt c + 1).
Proof.
  intros O E. unfold new_handle, bind, get, modify.
  set (c1 := set_esys_handle_cnt _ c).
  pose proof (create_run (esys_handle_cnt c) c1) as R. cbn [callocs set_esys_handle_cnt c1] in R.
  destruct (calloc_fails (callocs c)); rewrite R; [by eexists|].
  eexists _, _. split; [done|]. split; [|done].
  assert (table_ok c1) as O1 by (destruct O; by split).
  destruct (create_created (esys_handle_cnt c) c1 _ _ O1 E R). by split.
Qed.

(** The bytes may be followed by others. *)
Lemma deserialize_run (c : CTX) r w rest :
  table_ok c -> table c !! esys_handle_cnt c = None ->
  s_wf spec_IESYS_RESOURCE r -> s_wire spec_IESYS_RESOURCE r = Some w ->
  bytes_ok rest -> Zlen (w ++ rest) < size_max -> calloc_fails (callocs c) = false ->
  exists c' p n, Esys_TR_Deserialize (Some (w ++ rest)) (Zlen (w ++ rest)) c
                 = Ret (c', inr (esys_handle_cnt c)) /\
    created c c' (esys_handle_cnt c) p n /\ s_eqv spec_IESYS_RESOURCE (rsrc n) r /\
    auth n = zero_2b cap_TPM2B_DIGEST.
Proof.
  intros O E Wr Ew Hr Hm Hc. pose proof (Zlen_nonneg w). pose proof (Zlen_nonneg rest).
  assert (read_at (w ++ rest) (Zlen (w ++ rest)) 0 w) as R.
  { rewrite Zlen_app in *. split_and!; try lia.
    - apply list.Forall_app. split; [|done]. by apply (so_bytes r).
    - rewrite Zlen_app. lia.
    - apply mem_read_Some. rewrite Zlen_app. split_and!; try lia. unfold Zlen. change (Z.to_nat 0) with 0%nat. rewrite drop_0.
      by rewrite Nat2Z.id, take_app_length. }
  pose proof (new_handle_run c O E) as Run. rewrite Hc in Run. destruct Run as (c1 & p & Rn & Cr & _).
  pose proof Cr as [_ N _ _ _].
  destruct (IESYS_RESOURCE_reads _ _ 0 zero_IESYS_RESOURCE r w R zero_IESYS_RESOURCE_wf Wr Ew)
    as (d & Eu & _ & Q).
  unfold Esys_TR_Deserialize. unfold bind at 1. rewrite Rn. unfold bind at 1, node_at. rewrite N.
  change (rsrc (set_esys_handle _ zero_RSRC_NODE_T)) with zero_IESYS_RESOURCE. rewrite Eu.
  unfold upd_rsrc. unfold bind at 1. erewrite upd_node_run by exact N.
  unfold bind, return_if_error, ret. change (TSS2_RC_SUCCESS =? TSS2_RC_SUCCESS) with true. cbv iota beta.
  eexists _, p, _. split; [done|]. split; [|split].
  - exact (created_set _ _ _ _ _ (fun n => set_rsrc d n) Cr eq_refl).
  - done.
  - done.
Qed.

End TrMetaOk.
