(* ===== verification/EsysFrame.v ===== *)
(** * Enhanced System API: what the authorizations of a command leave alone.

    The functions of the back end change its user data only, and nothing that
    [iesys_gen_auths] calls changes the tables of sessions, the handles of the
    call or the code of the command. *)

From stdpp Require Import gmap strings.
From stdpp Require Import strings.
From S2P Require Import Prelude Common MuSpec MuBase MuBaseOk MuStruct MuTpm2b MuUnion TpmTypes MuTypes SysCodes Sys EsysBase EsysCrypto EsysCtx EsysUtil EsysExec EsysLogic EsysCryptoOk EsysUtilOk.

Open Scope tss_scope.
Open Scope esys_scope.
Open Scope Z_scope.

Lemma keeps_goes {St A} (R : St -> St -> Prop) (m : M St A) s s' a :
  Keeps R m -> goes m s s' a -> R s s'.
Proof. intros Hm E. by apply Hm in E. Qed.

(** ** The back end *)

Section Backend.
Context {H : Host} {U K : Type}.
Abbreviation CB := (ESYS_CRYPTO_CALLBACKS U K).
Abbreviation keeps_backend := (Keeps (same_backend (U:=U) (K:=K))).

Lemma keeps_DO_CALLBACK {F A} (callback : CB -> option F) (run : F -> U -> TSS2_RC * A * U) :
  keeps_backend (DO_CALLBACK callback run).
Proof.
  intros cb cb' x. unfold DO_CALLBACK. destruct (callback cb); [|by intros [= <- _]].
  destruct (run _ _) as [[rc a] u]. intros [= <- _]. by exists u.
Qed.

Lemma keeps_OUT_CALLBACK {F A} (callback : CB -> option F) a (run : F -> U -> TSS2_RC * A * U) :
  keeps_backend (OUT_CALLBACK callback a run).
Proof.
  intros cb cb' x. unfold OUT_CALLBACK. destruct (callback cb); [|by intros [= <- _]].
  destruct (run _ _) as [[rc b] u]. intros [= <- _]. by exists u.
Qed.

Lemma keeps_hash_abort k : keeps_backend (iesys_crypto_hash_abort k).
Proof.
  intros cb cb' x. unfold iesys_crypto_hash_abort. case_match; intros [= <- _]; [by eexists|done].
Qed.
Lemma keeps_hmac_abort k : keeps_backend (iesys_crypto_hmac_abort k).
Proof.
  intros cb cb' x. unfold iesys_crypto_hmac_abort. case_match; intros [= <- _]; [by eexists|done].
Qed.
Lemma keeps_digest_size alg : keeps_backend (iesys_crypto_hash_get_digest_size alg).
Proof. unfold iesys_crypto_hash_get_digest_size. keeps. Qed.
Lemma keeps_read2b b : keeps_backend (read2b b).
Proof. unfold read2b. keeps. Qed.
Lemma keeps_image n step : keeps_backend (mu_image n step).
Proof. intros cb cb' x. unfold mu_image. repeat case_match; intros ?; by simplify_eq. Qed.
#[local] Hint Resolve keeps_DO_CALLBACK keeps_OUT_CALLBACK keeps_hash_abort keeps_hmac_abort
  keeps_digest_size keeps_read2b keeps_image : keeps.

Lemma keeps_when_some {A} (o : option A) (f : A -> M CB unit) :
  (forall a, keeps_backend (f a)) -> keeps_backend (when_some o f).
Proof. intros Hf. destruct o; [apply Hf|apply keeps_ret, _]. Qed.
Lemma keeps_aborting {A} (abort : M CB unit) (m : M CB A) :
  keeps_backend abort -> keeps_backend m -> keeps_backend (aborting abort m).
Proof. intros Ha Hm. unfold aborting. keeps; done. Qed.
Lemma keeps_finished {A} (abort : option K -> M CB unit) (m : M CB (TSS2_RC * (A * option K))) :
  (forall k, keeps_backend (abort k)) -> keeps_backend m -> keeps_backend (finished abort m).
Proof. intros Ha Hm. unfold finished, aborting. keeps; done. Qed.

Lemma keeps_hmac_update k b : keeps_backend (iesys_crypto_hmac_update k b).
Proof. apply keeps_DO_CALLBACK. Qed.
Lemma keeps_hmac_update2b k b : keeps_backend (iesys_crypto_hmac_update2b k b).
Proof. unfold iesys_crypto_hmac_update2b, iesys_crypto_hmac_update. keeps. Qed.
Lemma keeps_hmac_finish k n : keeps_backend (iesys_crypto_hmac_finish k n).
Proof. apply keeps_OUT_CALLBACK. Qed.
Lemma keeps_hmac_start alg key : keeps_backend (iesys_crypto_hmac_start alg key).
Proof. apply keeps_DO_CALLBACK. Qed.
#[local] Hint Resolve keeps_when_some keeps_aborting keeps_finished keeps_hmac_update
  keeps_hmac_update2b keeps_hmac_finish keeps_hmac_start : keeps.

Lemma keeps_KDFaHmac alg key n label u v bits size :
  keeps_backend (iesys_crypto_KDFaHmac alg key n label u v bits size).
Proof.
  unfold iesys_crypto_KDFaHmac. apply keeps_bind; [apply _|apply keeps_hmac_start|intros k].
  apply keeps_bind; [apply _| |intros _].
  - apply keeps_aborting; [apply keeps_hmac_abort|]. keeps.
  - apply keeps_finished; [apply keeps_hmac_abort|apply keeps_hmac_finish].
Qed.
#[local] Hint Resolve keeps_KDFaHmac : keeps.

Lemma keeps_KDFa_loop n alg key label u v bits counter sub nbytes hlen out :
  keeps_backend (KDFa_loop n alg key label u v bits counter sub nbytes hlen out).
Proof.
  revert counter sub nbytes hlen out. induction n as [|n IH]; intros; cbn [KDFa_loop]; keeps.
Qed.
#[local] Hint Resolve keeps_KDFa_loop : keeps.

Lemma keeps_KDFa alg key label u v bits counter out b :
  keeps_backend (iesys_crypto_KDFa alg key label u v bits counter out b).
Proof. unfold iesys_crypto_KDFa. keeps. Qed.
#[local] Hint Resolve keeps_KDFa : keeps.

Lemma keeps_xor_loop n alg key u v bits counter size rest :
  keeps_backend (xor_loop n alg key u v bits counter size rest).
Proof.
  revert counter rest. induction n as [|n IH]; intros ? []; cbn [xor_loop]; keeps.
Qed.
#[local] Hint Resolve keeps_xor_loop : keeps.

Lemma keeps_obfuscation alg key u v data :
  keeps_backend (iesys_xor_parameter_obfuscation alg key u v data).
Proof. unfold iesys_xor_parameter_obfuscation. keeps. Qed.

Lemma keeps_random2b nonce n : keeps_backend (iesys_crypto_get_random2b nonce n).
Proof. apply keeps_OUT_CALLBACK. Qed.

Lemma keeps_cipher {F A} (callback : CB -> option F) (run : F -> U -> TSS2_RC * A * U) m :
  m = DO_CALLBACK callback run -> keeps_backend m.
Proof. intros ->. apply keeps_DO_CALLBACK. Qed.

End Backend.
#[export] Hint Resolve keeps_digest_size keeps_KDFa keeps_obfuscation keeps_random2b : keeps.
#[export] Hint Extern 3 (Keeps same_backend (iesys_crypto_aes_encrypt _ _ _ _ _ _)) =>
  eapply keeps_cipher; reflexivity : keeps.
#[export] Hint Extern 3 (Keeps same_backend (iesys_crypto_sm4_encrypt _ _ _ _ _ _)) =>
  eapply keeps_cipher; reflexivity : keeps.

(** ** The code of the command *)

Section Command.
Context {H : Host} {S : Type}.

Lemma hdr_write_command n o v (c c' : blob S) :
  hdr_write n o v c = Ret c' -> commandCode c' = commandCode c.
Proof. unfold hdr_write, access. cbv zeta. case_match; intros; by simplify_eq. Qed.

Lemma buf_store_command o w (c c' : blob S) :
  buf_store o w c = Ret c' -> commandCode c' = commandCode c.
Proof. unfold buf_store, access. case_match; intros; by simplify_eq. Qed.

Lemma buf_move_command d o n (c c' : blob S) :
  buf_move d o n c = Ret c' -> commandCode c' = commandCode c.
Proof. unfold buf_move, access. repeat case_match; intros; by simplify_eq. Qed.

Lemma decrypt_param_command n w (c : blob S) rv c' :
  Tss2_Sys_SetDecryptParam n w (Some c) = Ret (rv, Some c') -> commandCode c' = commandCode c.
Proof.
  unfold Tss2_Sys_SetDecryptParam, set_hdr_commandSize. intros E.
  repeat (case_match; simplify_eq; try done).
  all: repeat match goal with
    | E : hdr_write _ _ _ _ = Ret _ |- _ => apply hdr_write_command in E
    | E : buf_store _ _ _ = Ret _ |- _ => apply buf_store_command in E
    | E : buf_move _ _ _ _ = Ret _ |- _ => apply buf_move_command in E
    end; cbn in *; congruence.
Qed.

End Command.

(** ** The tables of a call *)

Section Tables.
Context {H : Host} {HM : Memory} {S U K : Type}.
Abbreviation CTX := (ESYS_CONTEXT S U K).

(** The back end, the sessions and objects of the call, and its command code *)
Definition same_call (c c' : CTX) : Prop :=
  same_backend (crypto_backend c) (crypto_backend c') /\
  session_tab c' = session_tab c /\ session_type c' = session_type c /\
  auth_objects c' = auth_objects c /\ commandCode (sys c') = commandCode (sys c).

#[global] Instance same_call_preorder : PreOrder same_call.
Proof.
  split; unfold same_call.
  - intros c. split_and!; done.
  - intros c1 c2 c3 ? ?. destruct_and!. split_and!; [by etrans|congruence..].
Qed.

Abbreviation keeps_call := (Keeps same_call).

Lemma keeps_call_crypto {A} (m : M (ESYS_CRYPTO_CALLBACKS U K) A) :
  Keeps same_backend m -> keeps_call (crypto (S:=S) m).
Proof.
  intros Hm c c' x. unfold crypto, zoom.
  destruct (m _) as [[cb y]|] eqn:E; [|done]. intros [= <- _]. by apply Hm in E.
Qed.

Lemma keeps_call_upd_session p f : keeps_call (upd_session (S:=S) (U:=U) (K:=K) p f).
Proof.
  unfold upd_session, put_session, session_at.
  repeat first [keeps_step | apply keeps_node_at; apply _ | apply keeps_upd_node; [apply _|done]].
Qed.

Lemma keeps_call_session_at p : keeps_call (session_at (S:=S) (U:=U) (K:=K) p).
Proof. unfold session_at. keeps. Qed.
Lemma keeps_call_session_tab_at i : keeps_call (session_tab_at (S:=S) (U:=U) (K:=K) i).
Proof. unfold session_tab_at, at3. keeps. Qed.
Lemma keeps_call_sys_area f : keeps_call (sys_area (S:=S) (U:=U) (K:=K) f).
Proof. unfold sys_area. keeps. Qed.
#[local] Hint Resolve keeps_call_crypto keeps_call_upd_session keeps_call_session_at
  keeps_call_session_tab_at keeps_call_sys_area : keeps.

Lemma keeps_call_decrypt_param n w :
  keeps_call (sys_m (S:=S) (U:=U) (K:=K) (Tss2_Sys_SetDecryptParam n w)).
Proof.
  intros c c' x. unfold sys_m.
  destruct (Tss2_Sys_SetDecryptParam _ _ _) as [[rv [b|]]|] eqn:E; [|done..].
  intros [= <- _]. split_and!; try done. cbn.
  by apply decrypt_param_command in E.
Qed.
#[local] Hint Resolve keeps_call_decrypt_param : keeps.

Lemma keeps_call_caller_nonces : keeps_call (iesys_gen_caller_nonces (S:=S) (U:=U) (K:=K)).
Proof. unfold iesys_gen_caller_nonces, for_sessions. keeps. Qed.

Lemma keeps_call_update_flags p :
  keeps_call (iesys_update_session_flags (S:=S) (U:=U) (K:=K) p).
Proof. unfold iesys_update_session_flags. keeps. Qed.
#[local] Hint Resolve keeps_call_update_flags : keeps.

Lemma keeps_call_notnull {A} (p : option A) r :
  keeps_call (return_if_notnull (S:=S) (U:=U) (K:=K) p r).
Proof. unfold return_if_notnull. keeps. Qed.
#[local] Hint Resolve keeps_call_notnull : keeps.

Lemma keeps_call_encrypt_bytes s n w :
  keeps_call (encrypt_bytes (S:=S) (U:=U) (K:=K) s n w).
Proof. unfold encrypt_bytes, derive_key, xor_parameter. keeps. Qed.
#[local] Hint Resolve keeps_call_encrypt_bytes : keeps.

Lemma keeps_call_encrypt_loop l d i :
  keeps_call (encrypt_param_loop (S:=S) (U:=U) (K:=K) l d i).
Proof. revert d i. induction l as [|j l IH]; intros; cbn [encrypt_param_loop]; keeps. Qed.
#[local] Hint Resolve keeps_call_encrypt_loop : keeps.

Lemma keeps_call_encrypt_param : keeps_call (iesys_encrypt_param (S:=S) (U:=U) (K:=K)).
Proof. unfold iesys_encrypt_param, for_sessions. keeps. Qed.

Lemma keeps_call_encrypt_nonce l i n :
  keeps_call (compute_encrypt_nonce_loop (S:=S) (U:=U) (K:=K) l i n).
Proof. revert i n. induction l as [|j l IH]; intros; cbn [compute_encrypt_nonce_loop]; keeps. Qed.

End Tables.
#[export] Hint Resolve keeps_call_caller_nonces keeps_call_encrypt_param keeps_call_encrypt_nonce : keeps.

(** ** The sessions of a call *)

Section Sessions.
Context {H : Host} {HM : Memory} {S U K : Type}.
Abbreviation CTX := (ESYS_CONTEXT S U K).

Definition same_sessions (c c' : CTX) : Prop :=
  heap c' = heap c /\ session_tab c' = session_tab c.

#[global] Instance same_sessions_preorder : PreOrder same_sessions.
Proof.
  split; unfold same_sessions; [by intros c|]. intros c1 c2 c3 [? ?] [? ?]. split; congruence.
Qed.

Abbreviation keeps_sessions := (Keeps same_sessions).

Lemma keeps_sessions_crypto {A} (m : M (ESYS_CRYPTO_CALLBACKS U K) A) :
  keeps_sessions (crypto (S:=S) m).
Proof. by apply keeps_zoom. Qed.
Lemma keeps_sessions_sys_m (f : sysF S) : keeps_sessions (sys_m (U:=U) (K:=K) f).
Proof. intros c c' x. unfold sys_m. repeat case_match; intros ?; by simplify_eq. Qed.
Lemma keeps_sessions_sys_area f : keeps_sessions (sys_area (S:=S) (U:=U) (K:=K) f).
Proof. unfold sys_area. keeps. Qed.
#[local] Hint Resolve keeps_sessions_crypto keeps_sessions_sys_m keeps_sessions_sys_area : keeps.
Lemma keeps_sessions_encrypt_bytes s n w :
  keeps_sessions (encrypt_bytes (S:=S) (U:=U) (K:=K) s n w).
Proof. unfold encrypt_bytes, derive_key, xor_parameter. keeps. Qed.
#[local] Hint Resolve keeps_sessions_encrypt_bytes : keeps.

(** The session in the slot [i], with the address of its node *)
Definition slot_session (c : CTX) (i : nat) : option (nat * IESYS_SESSION) :=
  o ← session_tab c !! i; p ← o; s ← session_in (heap c) p; Some (p, s).

(** The last of the slots [l] whose session has the attribute *)
Definition mark (c : CTX) (attribute : Z) (acc : option (nat * nat)) (i : nat) : option (nat * nat) :=
  match slot_session c i with
  | Some (p, s) => if has attribute s then Some (i, p) else acc
  | None => acc
  end.
Definition marked (c : CTX) (attribute : Z) : option (nat * nat) :=
  foldl (mark c attribute) None (seq 0 3).

Definition index_of (o : option (nat * nat)) : Z := from_option (fun x => Z.of_nat (fst x)) 0 o.

Lemma mark_same (c c' : CTX) attribute l acc :
  same_sessions c c' -> foldl (mark c' attribute) acc l = foldl (mark c attribute) acc l.
Proof.
  intros [Eh Et]. revert acc. induction l as [|i l IH]; intros acc; [done|]. cbn [foldl].
  rewrite IH. f_equal. unfold mark, slot_session. by rewrite Eh, Et.
Qed.

Lemma slot_session_goes i p s (c : CTX) :
  session_tab c !! i = Some (Some p) -> session_in (heap c) p = Some s ->
  slot_session c i = Some (p, s).
Proof. intros T E. unfold slot_session. rewrite T. cbn. by rewrite E. Qed.

Lemma encrypt_loop_goes l acc (c c' : CTX) r :
  goes (encrypt_param_loop l (snd <$> acc) (index_of acc)) c c' r ->
  same_sessions c c' /\
  let m := foldl (mark c' TPMA_SESSION_DECRYPT) acc l in r = (snd <$> m, index_of m).
Proof.
  revert acc c. induction l as [|i l IH]; intros acc c E; cbn [encrypt_param_loop] in E.
  { by apply ret_goes in E as [-> ->]. }
  apply bind_goes in E as (c1 & o & E1 & E). apply session_tab_at_goes in E1 as [-> T].
  cbn [foldl]. destruct o as [p|]; last first.
  { apply IH in E as [F ->]. split; [done|]. destruct F as [_ Et].
    assert (mark c' TPMA_SESSION_DECRYPT acc i = acc) as ->; [|done].
    unfold mark, slot_session. by rewrite Et, T. }
  apply bind_goes in E as (c1 & s & E1 & E). apply session_at_goes in E1 as [-> Es].
  apply bind_goes in E as (c1 & [] & E1 & E).
  assert (same_sessions c c1) as F1.
  { eapply keeps_goes, E1. keeps. }
  assert (forall c2, same_sessions c c2 ->
    mark c2 TPMA_SESSION_DECRYPT acc i = if has TPMA_SESSION_DECRYPT s then Some (i, p) else acc) as Hm.
  { intros c2 [Eh Et]. unfold mark. rewrite (slot_session_goes i p s); congruence. }
  destruct (has TPMA_SESSION_DECRYPT s).
  - apply bind_goes in E as (c2 & n & E2 & E). apply keeps_sessions_crypto in E2.
    apply bind_goes in E as (c3 & [sz off] & E3 & E). apply keeps_sessions_sys_area in E3.
    apply bind_goes in E as (c4 & [] & E4 & E).
    assert (same_sessions c3 c4) as F4.
    { eapply keeps_goes, E4. keeps. }
    change (Some p) with (snd <$> Some (i, p)) in E.
    change (Z.of_nat i) with (index_of (Some (i, p))) in E. apply IH in E as [F5 ->].
    assert (same_sessions c c') as F by (etrans; [exact F1|]; etrans; [exact E2|]; etrans; [exact E3|]; by etrans).
    split; [done|]. by rewrite Hm.
  - apply IH in E as [F5 ->]. assert (same_sessions c c') as F by by etrans.
    split; [done|]. by rewrite Hm.
Qed.

Lemma encrypt_nonce_goes l acc (c c' : CTX) r :
  goes (compute_encrypt_nonce_loop l (index_of acc) (snd <$> acc)) c c' r ->
  c' = c /\ let m := foldl (mark c TPMA_SESSION_ENCRYPT) acc l in r = (index_of m, snd <$> m).
Proof.
  revert acc. induction l as [|i l IH]; intros acc E; cbn [compute_encrypt_nonce_loop] in E.
  { by apply ret_goes in E as [-> ->]. }
  apply bind_goes in E as (c1 & o & E1 & E). apply session_tab_at_goes in E1 as [-> T].
  cbn [foldl]. destruct o as [p|]; last first.
  { apply IH in E as [-> ->]. split; [done|].
    assert (mark c TPMA_SESSION_ENCRYPT acc i = acc) as ->; [|done].
    unfold mark, slot_session. by rewrite T. }
  apply bind_goes in E as (c1 & s & E1 & E). apply session_at_goes in E1 as [-> Es].
  assert (mark c TPMA_SESSION_ENCRYPT acc i
          = if has TPMA_SESSION_ENCRYPT s then Some (i, p) else acc) as ->
    by (unfold mark; by rewrite (slot_session_goes i p s)).
  destruct (has TPMA_SESSION_ENCRYPT s).
  - apply bind_goes in E as (c2 & [] & E2 & E). unfold return_if_notnull in E2.
    destruct acc; [by apply fail_goes in E2|]. apply ret_goes in E2 as [-> _].
    change (Some p) with (snd <$> Some (i, p)) in E.
    change (Z.of_nat i) with (index_of (Some (i, p))) in E. by apply IH in E as [-> ->].
  - by apply IH in E as [-> ->].
Qed.

End Sessions.

(** ** Enhanced System API: the key derivation and the obfuscation always end.

    With enough room for the result, and sized buffers whose sizes fit their
    buffers, [iesys_crypto_KDFa] and [iesys_xor_parameter_obfuscation] return:
    the loops end and nothing outside the buffers is accessed. *)

(** [m] returns from every state. *)
Definition returns {St A} (m : M St A) : Prop := forall s, m s <> Undef.

Section Returns.
Context {St : Type}.

Lemma returns_ret {A} (a : A) : returns (ret (St:=St) a).
Proof. done. Qed.
Lemma returns_fail {A} r : returns (fail (St:=St) (A:=A) r).
Proof. done. Qed.
Lemma returns_lift {A} (o : outcome A) : o <> Undef -> returns (lift (St:=St) o).
Proof. intros N s. unfold lift. by destruct o. Qed.
Lemma returns_return_if_error r : returns (return_if_error (St:=St) r).
Proof. unfold return_if_error. by case_match. Qed.

(** At a state: the continuation may depend on how the first part went. *)
Lemma bind_returns_at {A B} (m : M St A) (k : A -> M St B) s :
  m s <> Undef -> (forall s' a, goes m s s' a -> k a s' <> Undef) -> bind m k s <> Undef.
Proof.
  intros Hm Hk. unfold bind. destruct (m s) as [[s1 [r|a]]|]; [done|by apply Hk|done].
Qed.
Lemma returns_bind {A B} (m : M St A) (k : A -> M St B) :
  returns m -> (forall a, returns (k a)) -> returns (bind m k).
Proof. intros Hm Hk s. apply bind_returns_at; [apply Hm|]. intros s' a _. apply Hk. Qed.
Lemma returns_code {A} (m : M St A) : returns m -> returns (code m).
Proof. intros Hm s. specialize (Hm s). unfold code. by destruct (m s) as [[? ?]|]. Qed.
Lemma returns_on_error {A} (m : M St A) h :
  returns m -> (forall r, returns (h r)) -> returns (on_error m h).
Proof.
  intros Hm Hh s. specialize (Hm s). unfold on_error. destruct (m s) as [[s1 [r|a]]|]; [|done..].
  specialize (Hh r s1). by destruct (h r s1) as [[? [?|?]]|].
Qed.

End Returns.

Create HintDb returns.
#[export] Hint Resolve returns_ret returns_fail returns_return_if_error : returns.
Ltac returns := repeat first
  [ apply returns_bind; [|intros ?]
  | apply returns_on_error; [|intros ?]
  | apply returns_code
  | match goal with |- returns (match ?x with _ => _ end) => destruct x end
  | solve [eauto 4 with returns] ].

Section Crypto.
Context {H : Host} {U K : Type}.
Abbreviation CB := (ESYS_CRYPTO_CALLBACKS U K).

(** A sized buffer whose size fits *)
Definition fits (b : TPM2B) : Prop := 0 <= size b <= Zlen (buffer b).

Lemma returns_read2b {St} b : fits b -> returns (read2b (St:=St) b).
Proof.
  intros [? ?]. unfold read2b. apply returns_lift. unfold access.
  destruct (mem_read_is_Some (buffer b) 0 (size b)) as [v ->]; [lia..|done].
Qed.

Lemma returns_DO_CALLBACK {F A} (callback : CB -> option F) (run : F -> U -> TSS2_RC * A * U) :
  returns (DO_CALLBACK callback run).
Proof.
  intros cb. unfold DO_CALLBACK. destruct (callback cb); [|done]. by destruct (run _ _) as [[? ?] ?].
Qed.
Lemma returns_OUT_CALLBACK {F A} (callback : CB -> option F) a (run : F -> U -> TSS2_RC * A * U) :
  returns (OUT_CALLBACK callback a run).
Proof.
  intros cb. unfold OUT_CALLBACK. destruct (callback cb); [|done]. by destruct (run _ _) as [[? ?] ?].
Qed.
Lemma returns_hmac_abort k : returns (iesys_crypto_hmac_abort (U:=U) (K:=K) k).
Proof. intros cb. unfold iesys_crypto_hmac_abort. by case_match. Qed.
Lemma returns_digest_size {St} alg : returns (iesys_crypto_hash_get_digest_size (St:=St) alg).
Proof. unfold iesys_crypto_hash_get_digest_size. returns. Qed.
Lemma returns_int {St} ty v n step :
  ctype_ok ty -> csizeof ty <= n -> step = BASE_MARSHAL ty v \/ step = TPMA_MARSHAL ty v ->
  returns (mu_image (St:=St) n step).
Proof. intros O L E s. by rewrite (mu_int_run ty v). Qed.
Lemma returns_uint32 {St} v : returns (mu_image (St:=St) 4 (Tss2_MU_UINT32_Marshal v)).
Proof. by apply (returns_int UINT32 v); [ctype| |left]. Qed.
#[local] Hint Resolve returns_read2b returns_DO_CALLBACK returns_OUT_CALLBACK returns_hmac_abort
  returns_digest_size returns_uint32 : returns.

Lemma returns_hmac_update k b : returns (iesys_crypto_hmac_update (U:=U) (K:=K) k b).
Proof. apply returns_DO_CALLBACK. Qed.
Lemma returns_hmac_start alg key : returns (iesys_crypto_hmac_start (U:=U) (K:=K) alg key).
Proof. apply returns_DO_CALLBACK. Qed.
Lemma returns_hmac_finish k n : returns (iesys_crypto_hmac_finish (U:=U) (K:=K) k n).
Proof. apply returns_OUT_CALLBACK. Qed.
#[local] Hint Resolve returns_hmac_update returns_hmac_start returns_hmac_finish : returns.

Lemma returns_KDFaHmac alg key n label u v bits size :
  fits u -> fits v -> returns (iesys_crypto_KDFaHmac (U:=U) (K:=K) alg key n label u v bits size).
Proof.
  intros Hu Hv.
  unfold iesys_crypto_KDFaHmac, aborting, when_some, iesys_crypto_hmac_update2b, finished. returns.
Qed.

Context (D : crypto_model U K) (cb0 : CB) {L : CryptoLaws D cb0}.

(** The room that the blocks for [nbytes] bytes take *)
Definition kdf_room (nbytes h : Z) : Z := Z.max 1 ((nbytes + h - 1) / h) * h.

Lemma kdf_room_first nbytes h : 1 <= h -> h <= kdf_room nbytes h.
Proof. unfold kdf_room. nia. Qed.
Lemma kdf_room_next nbytes h :
  1 <= h -> h < nbytes -> kdf_room (nbytes - h) h + h <= kdf_room nbytes h.
Proof.
  intros Hh Hn. unfold kdf_room.
  replace (nbytes + h - 1) with (nbytes - h + h - 1 + 1 * h) by lia.
  rewrite Z.div_add by lia.
  assert (1 <= (nbytes - h + h - 1) / h) by (apply Z.div_le_lower_bound; lia). nia.
Qed.
Lemma kdf_room_one h : 1 <= h -> kdf_room h h = h.
Proof.
  intros Hh. unfold kdf_room. replace (h + h - 1) with (h - 1 + 1 * h) by lia.
  rewrite Z.div_add, Z.div_small by lia. lia.
Qed.

Lemma KDFa_loop_returns n alg key label u v bits counter sub nbytes h out cb :
  fits u -> fits v -> same_backend cb0 cb -> digest_size alg = Some h ->
  0 <= nbytes < size_max -> 0 <= sub -> (Z.to_nat nbytes < n)%nat ->
  sub + kdf_room nbytes h <= Zlen out ->
  KDFa_loop n alg key label u v bits counter sub nbytes h out cb <> Undef.
Proof.
  intros Hu Hv B Hh. pose proof (digest_size_pos _ _ Hh) as P.
  revert counter sub nbytes out cb B. induction n as [|n IH]; intros counter sub nbytes out cb B Hn Hs Hf Ho;
    [lia|].
  pose proof (kdf_room_first nbytes h ltac:(lia)).
  cbn [KDFa_loop]. apply bind_returns_at; [by apply returns_KDFaHmac|]. intros cb1 [d h'] E1.
  apply (KDFaHmac_goes D cb0 _ _ _ _ _ _ _ _ _ _ _ _ B) in E1 as (B1 & Ed & Eh).
  assert (h' = h) as ->.
  { rewrite Eh, Ed. unfold kdfa_block. by apply (law_digest_size (cb:=cb0)). }
  destruct (mem_write_is_Some out sub d) as [w W]; [lia|lia|].
  apply bind_returns_at; [unfold lift; by rewrite W|]. intros cb2 out1 E2.
  apply lift_goes in E2 as [-> E2]. rewrite W in E2. injection E2 as <-.
  destruct (Z.leb_spec nbytes h) as [Lb|Lb]; [done|].
  unfold wrap64. rewrite Z.mod_small by lia. pose proof (mem_write_len _ _ _ _ W) as Lw.
  pose proof (kdf_room_next nbytes h ltac:(lia) ltac:(lia)).
  apply IH; [done|lia|lia|lia|]. rewrite Lw. lia.
Qed.

Lemma mask_first_returns bits key : 1 <= Zlen key -> mask_first bits key <> Undef.
Proof.
  intros Hk. unfold mask_first. case_match; [done|]. unfold access.
  destruct (mem_read_is_Some key 0 1) as [v ->]; [lia..|].
  destruct (mem_write_is_Some key 0 [Z.land (default 0 (head v)) (2 ^ (bits mod 8) - 1)]) as [w ->];
    [lia|unfold Zlen in *; cbn [length]; lia|done].
Qed.

Lemma KDFa_returns alg key label u v bits cin out (b : bool) cb :
  fits u -> fits v -> same_backend cb0 cb -> 0 <= bits < 2 ^ 32 - 7 ->
  (forall h, digest_size alg = Some h ->
     kdf_room (if b then h else (bits + 7) / 8)%Z h <= Zlen out) ->
  iesys_crypto_KDFa alg key label u v bits cin out b cb <> Undef.
Proof.
  intros Hu Hv B Hb Ho. unfold iesys_crypto_KDFa.
  apply bind_returns_at; [apply returns_digest_size|]. intros cb1 h E.
  apply digest_size_goes in E as [-> Hh]. pose proof (digest_size_pos _ _ Hh) as P.
  assert (wrap 32 (bits + 7) / 8 = (bits + 7) / 8) as -> by (unfold wrap; by rewrite Z.mod_small by lia).
  assert (0 <= (bits + 7) / 8 < 2 ^ 32) by (Z.to_euclidean_division_equations; lia).
  specialize (Ho h Hh). set (nbytes := if b then h else (bits + 7) / 8) in *.
  assert (0 <= nbytes < 2 ^ 32) as Hn by (subst nbytes; destruct b; lia).
  pose proof (kdf_room_first nbytes h ltac:(lia)).
  apply bind_returns_at; [apply KDFa_loop_returns; unfold size_max; (done || lia)|].
  intros cb1 [w c] E. apply (KDFa_loop_goes D cb0 _ _ _ _ _ _ _ _ _ _ h) in E as (r & _ & _ & _ & W);
    [|done|done|unfold size_max; lia|lia].
  apply bind_returns_at; [|done].
  pose proof (mask_first_returns bits w) as M. pose proof (mem_write_len _ _ _ _ W).
  unfold lift. destruct (mask_first bits w); [done|]. destruct M; [lia|done].
Qed.

Lemma xor_loop_returns n alg key u v bits counter h rest cb :
  fits u -> fits v -> same_backend cb0 cb -> digest_size alg = Some h -> bits mod 8 = 0 ->
  (length rest <= n)%nat ->
  xor_loop n alg key u v bits counter h rest cb <> Undef.
Proof.
  intros Hu Hv B Hh Hm. pose proof (digest_size_pos _ _ Hh) as P.
  revert counter rest cb B. induction n as [|n IH]; intros counter [|a rest] cb B Hn;
    [done|cbn in Hn; lia|done|].
  cbn [xor_loop]. set (data := a :: rest) in *.
  assert (0 <= wrap 32 bits < 2 ^ 32 - 7 /\ wrap 32 bits mod 8 = 0) as [Hw Hw8].
  { unfold wrap. Z.to_euclidean_division_equations; lia. }
  apply bind_returns_at.
  { apply KDFa_returns; [done..|]. intros h' Hh'. assert (h' = h) as -> by congruence.
    rewrite kdf_room_one by lia. rewrite Zlen_replicate. change (Z.of_nat _) with 1024. lia. }
  intros cb1 [blk c] E1. apply (KDFa_block_goes D cb0 _ _ _ _ _ _ _ _ _ _ h) in E1 as (B1 & -> & _); [|done..].
  apply bind_returns_at; [|done]. apply IH; [done|].
  rewrite length_drop. unfold Zlen. subst data. cbn [length] in *. lia.
Qed.

Lemma obfuscation_returns alg key u v data cb :
  fits u -> fits v -> same_backend cb0 cb ->
  iesys_xor_parameter_obfuscation alg key u v data cb <> Undef.
Proof.
  intros Hu Hv B. unfold iesys_xor_parameter_obfuscation.
  apply bind_returns_at; [apply returns_digest_size|]. intros cb1 h E.
  apply digest_size_goes in E as [-> Hh]. apply xor_loop_returns; [done..| |done].
  unfold wrap64, size_max. Z.to_euclidean_division_equations; lia.
Qed.

End Crypto.
