(* ===== verification/EsysNamesOk.v ===== *)
(** * Enhanced System API: names are hashes, and no computation changes the callbacks.

    [iesys_get_name] and [iesys_nv_get_name] compute the names of TPM 2.0
    Part 1, 16: the algorithm and the hash of the public area. Every function
    that calls the back end leaves its callbacks as they are. *)

From stdpp Require Import gmap strings.
From S2P Require Import Prelude Common MuSpec MuBase MuBaseOk MuStruct MuStructOk MuTpm2b MuTpm2bOk MuUnion TpmTypes MuTypes MuTypesOk SysCodes Sys EsysBase EsysCrypto EsysCtx EsysUtil EsysMu EsysExec EsysLogic EsysCryptoOk EsysUtilOk EsysFrame.

Open Scope tss_scope.
Open Scope esys_scope.
Open Scope Z_scope.

(** ** The callbacks *)

Section Backend.
Context {H : Host} {U K : Type}.
Abbreviation CB := (ESYS_CRYPTO_CALLBACKS U K).
Abbreviation keeps_backend := (Keeps (same_backend (U:=U) (K:=K))).

#[local] Hint Resolve keeps_DO_CALLBACK keeps_OUT_CALLBACK keeps_hash_abort keeps_hmac_abort
  keeps_read2b keeps_image keeps_hmac_update keeps_hmac_update2b keeps_hmac_finish
  keeps_hmac_start : keeps.

(** [keeps] for a computation of the back end *)
Ltac backend :=
  unfold finished, aborting, when_some, error_cleanup, iesys_crypto_hash_start,
    iesys_crypto_hash_update2b, iesys_crypto_hash_update, iesys_crypto_hash_finish,
    iesys_crypto_hmac_finish2b, iesys_crypto_rsa_pk_encrypt, iesys_crypto_get_ecdh_point,
    iesys_crypto_aes_decrypt, iesys_crypto_sm4_decrypt; keeps.

Lemma keeps_pHash alg rc cc n1 n2 n3 p n : keeps_backend (iesys_crypto_pHash alg rc cc n1 n2 n3 p n).
Proof. unfold iesys_crypto_pHash. backend. Qed.
#[local] Hint Resolve keeps_pHash : keeps.
Lemma keeps_cpHash alg cc n1 n2 n3 p n : keeps_backend (iesys_crypto_cpHash alg cc n1 n2 n3 p n).
Proof. apply keeps_pHash. Qed.
Lemma keeps_rpHash alg rc cc p n : keeps_backend (iesys_crypto_rpHash alg rc cc p n).
Proof. apply keeps_pHash. Qed.
Lemma keeps_authHmac alg key p nN nO nD nE a b :
  keeps_backend (iesys_crypto_authHmac alg key p nN nO nD nE a b).
Proof. unfold iesys_crypto_authHmac. backend. Qed.
Lemma keeps_KDFe_loop n alg z l u v counter stream bytes_ len key :
  keeps_backend (KDFe_loop n alg z l u v counter stream bytes_ len key).
Proof.
  revert counter stream bytes_ len key. induction n as [|n IH]; intros; cbn [KDFe_loop];
    unfold KDFe_round; backend.
Qed.
#[local] Hint Resolve keeps_KDFe_loop : keeps.
Lemma keeps_KDFe alg z l u v bits key : keeps_backend (iesys_crypto_KDFe alg z l u v bits key).
Proof. unfold iesys_crypto_KDFe. backend. Qed.
Lemma keeps_rsa pub b n l : keeps_backend (iesys_crypto_rsa_pk_encrypt pub b n l).
Proof. backend. Qed.
Lemma keeps_ecdh pub n : keeps_backend (iesys_crypto_get_ecdh_point pub n).
Proof. backend. Qed.
Lemma keeps_aes_decrypt key alg bits mode b iv :
  keeps_backend (iesys_crypto_aes_decrypt key alg bits mode b iv).
Proof. backend. Qed.
Lemma keeps_sm4_decrypt key alg bits mode b iv :
  keeps_backend (iesys_crypto_sm4_decrypt key alg bits mode b iv).
Proof. backend. Qed.
Lemma keeps_hash_name alg image b : keeps_backend image -> keeps_backend (hash_name alg image b).
Proof. intros Hi. unfold hash_name. backend. Qed.
Lemma keeps_get_name pub b : keeps_backend (iesys_get_name pub b).
Proof. apply keeps_hash_name, keeps_image. Qed.
Lemma keeps_nv_get_name pub b : keeps_backend (iesys_nv_get_name pub b).
Proof. apply keeps_hash_name, keeps_image. Qed.
#[local] Hint Resolve keeps_get_name : keeps.
Lemma keeps_compare_name pub b : keeps_backend (iesys_compare_name pub b).
Proof. unfold iesys_compare_name. backend. Qed.
Lemma keeps_adapt_auth b alg : keeps_backend (iesys_adapt_auth_value b alg).
Proof. unfold iesys_adapt_auth_value. backend. Qed.

End Backend.
#[export] Hint Resolve keeps_cpHash keeps_rpHash keeps_authHmac keeps_KDFe keeps_rsa keeps_ecdh
  keeps_aes_decrypt keeps_sm4_decrypt keeps_get_name keeps_nv_get_name keeps_compare_name
  keeps_adapt_auth : keeps.

(** ** Names *)

Section Names.
Context {H : Host} {U K : Type} (D : crypto_model U K) (cb0 : ESYS_CRYPTO_CALLBACKS U K)
  {L : CryptoLaws D cb0}.

(** The name of Part 1: [nameAlg || H_nameAlg(area)] *)
Definition name_of (nameAlg : Z) (area : bytes) : bytes :=
  be_bytes 2 (wrap 16 nameAlg) ++ digest D nameAlg None area.

Lemma hash_name_goes alg image b area cb cb' n :
  same_backend cb0 cb -> alg <> TPM2_ALG_NULL -> Zlen (buffer b) < 2 ^ 16 ->
  (forall s s' w, goes image s s' w -> s' = s /\ w = area) ->
  goes (hash_name alg image b) cb cb' n -> contents n = name_of alg area.
Proof.
  intros B Na Lb Hi E. unfold hash_name in E. rewrite (proj2 (Z.eqb_neq _ _) Na) in E.
  unfold error_cleanup in E. apply bind_goes in E as (s1 & k & E1 & E).
  apply (hash_start_holds D cb0) with (1:=B) in E1.
  apply bind_goes in E as (s2 & [] & E2 & E). apply on_error_goes, bind_goes in E2 as (s3 & w & E3 & E2).
  apply Hi in E3 as [-> ->]. apply (hash_update_holds D cb0) with (1:=E1) in E2. cbn [app] in E2.
  apply bind_goes in E as (s4 & [r [[d sz] k']] & E4 & E). apply on_error_goes in E.
  goes_inv. apply (hash_finish_holds D cb0) with (1:=E2) in E4 as (_ & -> & ->).
  apply (mu_int_goes UINT16 alg) in E5 as [-> ->]; [|ctype|by left].
  change (be_bytes _ _) with (be_bytes 2 (wrap 16 alg)) in E6.
  pose proof (Zlen_be_bytes 2 (wrap 16 alg)) as L2.
  set (d := digest D alg None area) in *. pose proof (Zlen_nonneg d).
  unfold access in E0, E6. destruct (mem_write (buffer b) _ d) as [b1|] eqn:W1; [|done].
  injection E0 as <-. destruct (mem_write b1 0 _) as [b2|] eqn:W2; [|done]. injection E6 as <-.
  apply mem_write_Some in W1 as (_ & Lw & ->). apply mem_write_Some in W2 as (_ & _ & ->).
  change sizeof_TPMI_ALG_HASH with 2 in *. unfold contents, name_of. cbn [size buffer]. fold d.
  rewrite L2. change (Z.to_nat 0) with 0%nat. rewrite take_0. cbn [app].
  change (Z.to_nat (0 + 2)) with 2%nat. change (Z.to_nat 2) with 2%nat.
  rewrite drop_app_length' by (rewrite length_take; unfold Zlen in *; lia). rewrite app_assoc. replace (wrap 16 (Zlen d + 2)) with (Zlen d + 2)
    by (unfold wrap; rewrite Z.mod_small; lia).
  apply take_app_length'. rewrite length_app. unfold Zlen in *. lia.
Qed.

(** The image of a public area, from the contract of its marshal function *)
Lemma area_image {T} (m : option T -> mstep) (sp : spec T) `{!SpecOk sp} x n w :
  0 <= n -> marshal_ok (ADDR m) sp -> s_wf sp x -> s_wire sp x = Some w ->
  forall (s s' : ESYS_CRYPTO_CALLBACKS U K) v, goes (mu_image n (m (Some x))) s s' v -> s' = s /\ v = w.
Proof.
  intros Hn O Wf Ew s s' v E.
  destruct (mu_image_goes (ADDR m) sp x n s s' v Hn O Wf (so_dom _ _ Wf Ew) E) as [-> Ev].
  split; [done|congruence].
Qed.

Lemma get_name_goes pub b cb cb' n w :
  same_backend cb0 cb -> TPMT_PUBLIC_nameAlg (smember pub) <> TPM2_ALG_NULL ->
  Zlen (buffer b) < 2 ^ 16 ->
  s_wf spec_TPMT_PUBLIC (smember pub) -> s_wire spec_TPMT_PUBLIC (smember pub) = Some w ->
  goes (iesys_get_name pub b) cb cb' n ->
  contents n = name_of (TPMT_PUBLIC_nameAlg (smember pub)) w.
Proof.
  intros B Na Lb Wf Ew E. eapply hash_name_goes; [exact B|exact Na|exact Lb| |exact E].
  apply (area_image _ spec_TPMT_PUBLIC); [by vm_compute|apply co_marshal with (1:=Tss2_MU_TPMT_PUBLIC_ok)|exact Wf|exact Ew].
Qed.
Lemma nv_get_name_goes pub b cb cb' n w :
  same_backend cb0 cb -> TPMS_NV_PUBLIC_nameAlg (smember pub) <> TPM2_ALG_NULL ->
  Zlen (buffer b) < 2 ^ 16 ->
  s_wf spec_TPMS_NV_PUBLIC (smember pub) -> s_wire spec_TPMS_NV_PUBLIC (smember pub) = Some w ->
  goes (iesys_nv_get_name pub b) cb cb' n ->
  contents n = name_of (TPMS_NV_PUBLIC_nameAlg (smember pub)) w.
Proof.
  intros B Na Lb Wf Ew E. eapply hash_name_goes; [exact B|exact Na|exact Lb| |exact E].
  apply (area_image _ spec_TPMS_NV_PUBLIC); [by vm_compute|apply co_marshal with (1:=Tss2_MU_TPMS_NV_PUBLIC_ok)|exact Wf|exact Ew].
Qed.

(** A name that [iesys_compare_name] accepts *)
Lemma compare_name_goes pub nm cb cb' w :
  same_backend cb0 cb -> TPMT_PUBLIC_nameAlg (smember pub) <> TPM2_ALG_NULL ->
  s_wf spec_TPMT_PUBLIC (smember pub) -> s_wire spec_TPMT_PUBLIC (smember pub) = Some w ->
  goes (iesys_compare_name (Some pub) (Some nm)) cb cb' true ->
  contents nm = name_of (TPMT_PUBLIC_nameAlg (smember pub)) w.
Proof.
  intros B Na Wf Ew E. unfold iesys_compare_name in E.
  apply bind_goes in E as (s & [r|n] & E0 & E); [by apply ret_goes in E as [_ ?]|].
  apply (proj1 (code_goes _ _ _ _)) in E0. apply lift_goes in E as [_ E].
  apply get_name_goes with (w:=w) in E0; [|done|done|by vm_compute|done|done].
  rewrite <-E0. symmetry. exact (cmp_TPM2B_contents n nm E).
Qed.

End Names.
