(* ===== verification/EsysAuthOk.v ===== *)
(** * Enhanced System API: the authorizations of a command.

    What [iesys_gen_auths] puts into the array of authorizations, for each
    of the three sessions of a call. *)

From stdpp Require Import gmap strings.
From S2P Require Import Prelude Common MuSpec MuBase MuBaseOk MuStruct MuTpm2b MuUnion TpmTypes MuTypes SysCodes Sys EsysBase EsysCrypto EsysCtx EsysUtil EsysExec EsysTr EsysLogic EsysCryptoOk EsysUtilOk EsysFrame.

Open Scope tss_scope.
Open Scope esys_scope.
Open Scope Z_scope.

Section Auths.
Context {H : Host} {HM : Memory} {S U K : Type} (D : crypto_model U K).
Abbreviation CTX := (ESYS_CONTEXT S U K).
Abbreviation EM A := (M CTX A).

(** The bytes the command hash covers after the names *)
Definition command_params (c : CTX) (w : bytes) : Prop :=
  exists so oo, Tss2_Sys_GetCpBuffer (Some (sys c)) (Some 0) (Some 0)
                = Ret (TSS2_RC_SUCCESS, (so, oo)) /\
    mem_read (cmdBuffer (sys c)) (default 0 oo) (default 0 so) = Some w.

Definition name_of (h : gmap nat RSRC_NODE_T) (o : option (option nat)) : bytes :=
  match o with
  | Some (Some p) => match h !! p with Some n => contents (name (rsrc n)) | None => [] end
  | _ => []
  end.

(** The command hash of Part 1, 16.7 *)
Definition cp_hash (alg : Z) (c : CTX) (params : bytes) : bytes :=
  digest D alg None (be_bytes 4 (commandCode (sys c))
    ++ name_of (heap c) (auth_objects c !! 0%nat) ++ name_of (heap c) (auth_objects c !! 1%nat)
    ++ name_of (heap c) (auth_objects c !! 2%nat) ++ params).

Lemma name_at_goes o (c c' : CTX) b i :
  auth_objects c !! i = Some o -> goes (name_at o) c c' b ->
  c' = c /\ contents_opt b = name_of (heap c) (auth_objects c !! i).
Proof.
  intros O E. rewrite O. unfold name_at in E. destruct o as [p|].
  - apply bind_goes in E as (c1 & n & E1 & E). apply node_at_goes in E1 as [-> E1].
    apply ret_goes in E as [-> ->]. split; [done|]. cbn. by rewrite E1.
  - by apply ret_goes in E as [-> ->].
Qed.

(** Only the data of the back end changes. *)
Definition crypto_frame (c c' : CTX) : Prop :=
  exists cb, c' = set_crypto_backend cb c /\ same_backend (crypto_backend c) cb.

#[global] Instance crypto_frame_preorder : PreOrder crypto_frame.
Proof.
  split.
  - intros c. exists (crypto_backend c). by destruct c.
  - intros c1 c2 c3 (cb & -> & B) (cb' & -> & B'). exists cb'. split; [done|]. by etrans.
Qed.

Lemma crypto_frame_laws (c c' : CTX) :
  crypto_frame c c' -> CryptoLaws D (crypto_backend c) -> CryptoLaws D (crypto_backend c').
Proof. intros (cb & -> & B) L. by apply (laws_proper D _ _ B). Qed.

Lemma cp_hash_goes alg (c c' : CTX) d n {L : CryptoLaws D (crypto_backend c)} :
  command_code_ok c -> goes (iesys_compute_cp_hash alg) c c' (d, n) ->
  crypto_frame c c' /\ n = Zlen d /\ exists w, command_params c w /\ d = cp_hash alg c w.
Proof.
  intros Hc E. unfold iesys_compute_cp_hash in E.
  apply bind_goes in E as (c1 & cc & E1 & E). apply command_code_goes in E1 as [-> ->]; [|done].
  apply bind_goes in E as (c1 & [sz off] & E1 & E).
  apply sys_area_goes in E1 as (-> & so & oo & G & -> & ->).
  apply bind_goes in E as (c1 & o1 & E1 & E). apply auth_objects_at_goes in E1 as [-> O1].
  apply bind_goes in E as (c1 & n1 & E1 & E). apply (name_at_goes _ _ _ _ _ O1) in E1 as [-> N1].
  apply bind_goes in E as (c1 & o2 & E1 & E). apply auth_objects_at_goes in E1 as [-> O2].
  apply bind_goes in E as (c1 & n2 & E1 & E). apply (name_at_goes _ _ _ _ _ O2) in E1 as [-> N2].
  apply bind_goes in E as (c1 & o3 & E1 & E). apply auth_objects_at_goes in E1 as [-> O3].
  apply bind_goes in E as (c1 & n3 & E1 & E). apply (name_at_goes _ _ _ _ _ O3) in E1 as [-> N3].
  esys_inv. apply (pHash_goes D (crypto_backend c)) in E as (B & -> & ->); [|done].
  split; [by eexists|]. split; [done|]. eexists. split; [by exists so, oo|].
  unfold cp_hash. by rewrite <-N1, <-N2, <-N3.
Qed.

(** What an application is given is the hash that goes into an authorization. *)
Lemma copy_hash_goes d n (c c' : CTX) h k :
  n = Zlen d -> goes (copy_hash d n) c c' (h, k) ->
  h = d /\ k = n /\ c' = set_callocs (Datatypes.S (callocs c)) c.
Proof.
  intros -> E. unfold copy_hash, calloc, digest_bytes in E. esys_inv. case_match; [by esys_inv|].
  esys_inv. simplify_eq. destruct (mem_write _ 0 d) as [b|] eqn:W; [|done]. cbn [access] in *.
  simplify_eq. rewrite (mem_read_write _ _ _ _ W) in *. cbn [access] in *. by simplify_eq.
Qed.

Lemma GetCpHash_goes alg (c c' : CTX) d n {L : CryptoLaws D (crypto_backend c)} :
  command_code_ok c -> goes (Esys_GetCpHash alg) c c' (d, n) ->
  n = Zlen d /\ exists w, command_params c w /\ d = cp_hash alg c w.
Proof.
  intros Hc E. unfold Esys_GetCpHash in E. apply bind_goes in E as (c1 & [d1 n1] & E1 & E).
  apply cp_hash_goes in E1 as (_ & N & P); [|done..].
  apply copy_hash_goes in E as (-> & -> & _); [|done]. by split.
Qed.

Lemma GetRpHash_goes alg (c c' : CTX) d n {L : CryptoLaws D (crypto_backend c)} :
  command_code_ok c -> goes (Esys_GetRpHash alg) c c' (d, n) ->
  n = Zlen d /\ exists w, response_params c w /\ d = rp_hash D alg c w.
Proof.
  intros Hc E. unfold Esys_GetRpHash in E. apply bind_goes in E as (c1 & [d1 n1] & E1 & E).
  apply (rp_hash_goes D) in E1 as (_ & _ & _ & N & P); [|done..].
  apply copy_hash_goes in E as (-> & -> & _); [|done]. by split.
Qed.

(** After [Esys_Abort] both layers take a command again. *)
Lemma Abort_goes (c : CTX) :
  goes Esys_Abort c (set_state ESYS_STATE_INIT (set_sys (set_previousStage CMD_STAGE_INITIALIZE (sys c)) c)) tt.
Proof. done. Qed.

(** The nonce behind a pointer that may be NULL *)
Definition nonce_of (h : gmap nat RSRC_NODE_T) (p : option nat) : option TPM2B :=
  match p with Some p => nonceTPM <$> session_in h p | None => None end.

Lemma nonce_at_goes p (c c' : CTX) b :
  goes (nonce_at p) c c' b -> c' = c /\ b = nonce_of (heap c) p.
Proof.
  intros E. unfold nonce_at in E. destruct p as [p|].
  - apply bind_goes in E as (c1 & s & E1 & E). apply session_at_goes in E1 as [-> E1].
    apply ret_goes in E as [-> ->]. split; [done|]. cbn. by rewrite E1.
  - by apply ret_goes in E as [-> ->].
Qed.

(** The authorization of a session: the HMAC of Part 1, 19.6.5 *)
Record session_auth (c : CTX) (p : nat) (s : IESYS_SESSION) (dn en : option nat)
    (a : TPMS_AUTH_COMMAND) : Prop := SessionAuth {
  auth_handle : exists n, heap c !! p = Some n /\
    TPMS_AUTH_COMMAND_sessionHandle a = handle (rsrc n);
  auth_nonce : TPMS_AUTH_COMMAND_nonce a = nonceCaller s;
  auth_attributes : TPMS_AUTH_COMMAND_sessionAttributes a = sessionAttributes s;
  auth_value : exists w, command_params c w /\
    contents (TPMS_AUTH_COMMAND_hmac a) =
      auth_hmac D (authHash s) (hmac_key_of s) (cp_hash (authHash s) c w) (nonceCaller s)
        (nonceTPM s) (nonce_of (heap c) dn) (nonce_of (heap c) en) (sessionAttributes s)
}.

Lemma compute_hmac_goes p dn en a (c c' : CTX) a' {L : CryptoLaws D (crypto_backend c)} :
  command_code_ok c -> Zlen (buffer (TPMS_AUTH_COMMAND_hmac a)) < 2 ^ 16 ->
  goes (iesys_compute_hmac (Some p) dn en a) c c' a' ->
  crypto_frame c c' /\ Zlen (buffer (TPMS_AUTH_COMMAND_hmac a')) = Zlen (buffer (TPMS_AUTH_COMMAND_hmac a)) /\
  exists s, session_in (heap c) p = Some s /\ session_auth c p s dn en a'.
Proof.
  intros Hc Hb E. unfold iesys_compute_hmac in E.
  apply bind_goes in E as (c1 & s & E1 & E). apply session_at_goes in E1 as [-> Es].
  apply bind_goes in E as (c1 & hl & E1 & E). apply crypto_goes in E1 as (cb & E1 & ->).
  apply digest_size_goes in E1 as [-> _].
  replace (set_crypto_backend (crypto_backend c) c) with c in E by (by destruct c).
  apply bind_goes in E as (c1 & [d n] & E1 & E).
  apply cp_hash_goes in E1 as (F1 & -> & w & P & ->); [|done..].
  apply bind_goes in E as (c2 & d & E1 & E). apply digest_bytes_goes in E1 as [-> ->].
  apply bind_goes in E as (c2 & key & E1 & E). apply hmac_key_goes in E1 as [-> ->].
  apply bind_goes in E as (c2 & b1 & E1 & E). apply nonce_at_goes in E1 as [-> ->].
  apply bind_goes in E as (c2 & b2 & E1 & E). apply nonce_at_goes in E1 as [-> ->].
  pose proof (crypto_frame_laws _ _ F1 L) as L1. esys_inv.
  match goal with Eh : goes (iesys_crypto_authHmac _ _ _ _ _ _ _ _ _) _ _ _ |- _ =>
    apply (authHmac_goes D (crypto_backend c1)) in Eh as (B & Ec & _ & Lb); [|done|done] end.
  split; [etrans; [exact F1|]; by eexists|]. split; [exact Lb|]. exists s. split; [done|].
  destruct F1 as (cb1 & -> & _). cbn [heap set_crypto_backend] in *. split; cbn.
  - eauto.
  - done.
  - done.
  - eauto.
Qed.

(** ** One authorization *)

(** The authorization value of an object of the call *)
Definition object_auth (c : CTX) (i : nat) (a : TPMS_AUTH_COMMAND) : Prop :=
  match auth_objects c !! i with
  | Some (Some q) => exists n, heap c !! q = Some n /\ TPMS_AUTH_COMMAND_hmac a = auth n
  | Some None => size (TPMS_AUTH_COMMAND_hmac a) = 0
  | None => False
  end.

(** What [iesys_gen_auths] has to put into the authorization number [i]. *)
Definition auth_ok (c : CTX) (dn en : option nat) (i : nat) (a : TPMS_AUTH_COMMAND) : Prop :=
  if bool_decide (session_type c !! i = Some ESYS_TR_PASSWORD) then
    object_auth c i a /\ size (TPMS_AUTH_COMMAND_nonce a) = 0 /\
    TPMS_AUTH_COMMAND_sessionAttributes a = 0 /\
    (auth_objects c !! i <> Some None -> TPMS_AUTH_COMMAND_sessionHandle a = TPM2_RH_PW)
  else exists p n s, session_tab c !! i = Some (Some p) /\ heap c !! p = Some n /\
    session_in (heap c) p = Some s /\
    TPMS_AUTH_COMMAND_sessionHandle a = handle (rsrc n) /\
    TPMS_AUTH_COMMAND_sessionAttributes a = sessionAttributes s /\
    if type_policy_session s =? POLICY_PASSWORD
    then object_auth c i a /\ size (TPMS_AUTH_COMMAND_nonce a) = 0
    else session_auth c p s (if (i =? 0)%nat then dn else None)
           (if (i =? 0)%nat then en else None) a.

(** The slot [i] of the call is given. *)
Definition used (c : CTX) (i : nat) : Prop :=
  session_type c !! i = Some ESYS_TR_PASSWORD \/ exists p, session_tab c !! i = Some (Some p).

(** The nonces of the other sessions that go into the first HMAC: TPM 2.0
    Part 1, 19.6.5 with its note 7 *)
Definition decrypt_nonce (c : CTX) : option nat :=
  match marked c TPMA_SESSION_DECRYPT with
  | Some (i, p) =>
      if (0 <? i)%nat && negb (Z.of_nat i =? index_of (marked c TPMA_SESSION_ENCRYPT))
      then Some p else None
  | None => None
  end.
Definition encrypt_nonce (c : CTX) : option nat :=
  match marked c TPMA_SESSION_ENCRYPT with
  | Some (i, p) => if (0 <? i)%nat then Some p else None
  | None => None
  end.

(** What an authorization depends on *)
Definition same_auths (c c' : CTX) : Prop :=
  same_sessions c c' /\ session_type c' = session_type c /\ auth_objects c' = auth_objects c /\
  sys c' = sys c.

Lemma frame_auths (c c' : CTX) : crypto_frame c c' -> same_auths c c'.
Proof. by intros (cb & -> & _). Qed.

Lemma auth_ok_same (c c' : CTX) dn en i a :
  same_auths c c' -> auth_ok c' dn en i a <-> auth_ok c dn en i a.
Proof.
  intros ([Eh Et] & Es & Eo & Ey).
  unfold auth_ok, object_auth. rewrite Eh, Et, Es, Eo. case_bool_decide; [done|].
  assert (forall p s d e, session_auth c' p s d e a <-> session_auth c p s d e a) as Sa.
  { intros p s d e. split; intros [X1 X2 X3 X4]; split; try done;
      unfold command_params, cp_hash in *; rewrite Eh in *; rewrite ?Ey, ?Eo in *; done. }
  split; intros (p & n & s & ? & ? & ? & ? & ? & A); exists p, n, s;
    (split_and!; [done..|]); destruct (type_policy_session s =? POLICY_PASSWORD); try done;
    by apply Sa.
Qed.

Lemma auth_ok_frame (c c' : CTX) dn en i a :
  crypto_frame c c' -> auth_ok c' dn en i a -> auth_ok c dn en i a.
Proof. intros F. by rewrite (auth_ok_same c c') by by apply frame_auths. Qed.

Lemma upd_auth_goes i f l (c c' : CTX) l' :
  0 <= i -> goes (upd_auth i f l) c c' l' ->
  c' = c /\ exists a, cmd_auths l !! Z.to_nat i = Some a /\
    l' = Auth_Command (cmd_count l) (<[Z.to_nat i := f a]> (cmd_auths l)).
Proof.
  intros Hi E. unfold upd_auth in E. apply bind_goes in E as (c1 & a & E1 & E).
  apply lift_goes in E1 as [-> E1]. apply ret_goes in E as [-> ->]. split; [done|].
  unfold access in E1. destruct (cmd_auths l !! Z.to_nat i) as [b|]; simplify_eq. eauto.
Qed.

Lemma put_object_auth_goes i o a (c c' : CTX) a' :
  auth_objects c !! i = Some o -> goes (put_object_auth o a) c c' a' ->
  c' = c /\ object_auth c i a' /\ exists v, a' = mset TPMS_AUTH_COMMAND'hmac v a.
Proof.
  intros O E. unfold put_object_auth, object_auth in *. rewrite O. destruct o as [q|].
  - apply bind_goes in E as (c1 & n & E1 & E). apply node_at_goes in E1 as [-> E1].
    apply ret_goes in E as [-> ->]. split; [done|]. split; [by exists n|by eexists].
  - apply ret_goes in E as [-> ->]. split; [done|]. split; [done|by eexists].
Qed.

(** The buffers of the [n] authorizations from [i] on have their C sizes. *)
Definition hmac_room (l : TSS2L_SYS_AUTH_COMMAND) (i : nat) : Prop :=
  forall j a, (i <= j)%nat -> cmd_auths l !! j = Some a ->
    Zlen (buffer (TPMS_AUTH_COMMAND_hmac a)) < 2 ^ 16.

Lemma hmac_room_insert l i n b :
  hmac_room l i -> hmac_room (Auth_Command n (<[i:=b]> (cmd_auths l))) (Datatypes.S i).
Proof.
  intros Hr j a Hj. cbn [cmd_auths]. rewrite list_lookup_insert_ne by lia. apply Hr. lia.
Qed.

(** What an iteration at [i] does when every earlier slot is used: it fills
    the authorization [i], or leaves the number of authorizations. *)
Record gen_auth_step (c : CTX) (dn en : option nat) (i : nat)
    (l : TSS2L_SYS_AUTH_COMMAND) (c' : CTX) (l' : TSS2L_SYS_AUTH_COMMAND) : Prop := GenAuthStep {
  ga_frame : crypto_frame c c';
  ga_room : hmac_room l' (Datatypes.S i);
  ga_rest : forall j, j <> i -> cmd_auths l' !! j = cmd_auths l !! j;
  ga_slot :
    used c i /\ cmd_count l' = Z.of_nat (Datatypes.S i) /\
      (exists a, cmd_auths l' !! i = Some a /\ auth_ok c dn en i a)
    \/ ~ used c i /\ cmd_count l' = Z.of_nat i
}.

Lemma gen_auth_filled (c c' : CTX) dn en i l n a :
  crypto_frame c c' -> hmac_room l i -> (i < length (cmd_auths l))%nat ->
  used c i -> n = Z.of_nat (Datatypes.S i) -> auth_ok c dn en i a ->
  gen_auth_step c dn en i l c' (Auth_Command n (<[i:=a]> (cmd_auths l))).
Proof.
  intros F Hr Li Us -> A. split.
  - done.
  - by apply hmac_room_insert.
  - intros j Hj. cbn [cmd_auths]. by rewrite list_lookup_insert_ne.
  - left. split; [done|]. split; [done|]. exists a. split; [|done].
    by apply list_lookup_insert_eq.
Qed.

(** The assignment of an authorization to the slot that the count selects *)
Lemma assign_goes i l b (c c' : CTX) l' (f : TPMS_AUTH_COMMAND -> EM TPMS_AUTH_COMMAND)
    (g : TPMS_AUTH_COMMAND -> TPMS_AUTH_COMMAND) :
  (i < length (cmd_auths l))%nat ->
  goes (let! a := lift (access (<[i:=b]> (cmd_auths l) !! Z.to_nat (Z.of_nat i))) in
        let! a := f a in
        let! auths := upd_auth (Z.of_nat i) (fun _ => g a)
          (Auth_Command (Z.of_nat i) (<[i:=b]> (cmd_auths l))) in
        ret (count_auth auths)) c c' l' ->
  exists a, goes (f b) c c' a /\
    l' = Auth_Command (Z.of_nat i + 1) (<[i := g a]> (cmd_auths l)).
Proof.
  intros Li E. apply bind_goes in E as (c1 & a2 & E1 & E). apply lift_goes in E1 as [-> A2].
  rewrite Nat2Z.id, list_lookup_insert_eq in A2 by done. injection A2 as <-.
  apply bind_goes in E as (c1 & a3 & E1 & E).
  apply bind_goes in E as (c2 & l2 & E2 & E).
  apply upd_auth_goes in E2 as (-> & a4 & _ & ->); [|lia].
  apply ret_goes in E as [-> ->]. exists a3. split; [done|]. unfold count_auth. cbn.
  by rewrite Nat2Z.id, list_insert_insert_eq.
Qed.

(** An HMAC, when the slot of the session is the one that the count selects *)
Lemma hmac_slot_goes i l b p n dn en (c c' : CTX) l' :
  (i < length (cmd_auths l))%nat ->
  goes (let! a := lift (access (<[i:=b]> (cmd_auths l) !! i)) in
        let! a := iesys_compute_hmac (Some p) dn en a in
        let! auths := upd_auth (Z.of_nat i) (fun _ => a)
          (Auth_Command (Z.of_nat i) (<[i:=b]> (cmd_auths l))) in
        let! auths := upd_auth (cmd_count auths) (mset TPMS_AUTH_COMMAND'sessionHandle n) auths in
        ret (count_auth auths)) c c' l' ->
  exists a, goes (iesys_compute_hmac (Some p) dn en b) c c' a /\
    l' = Auth_Command (Z.of_nat i + 1) (<[i := mset TPMS_AUTH_COMMAND'sessionHandle n a]> (cmd_auths l)).
Proof.
  intros Li E. apply bind_goes in E as (c1 & a2 & E1 & E). apply lift_goes in E1 as [-> A2].
  rewrite list_lookup_insert_eq in A2 by done. injection A2 as <-.
  apply bind_goes in E as (c1 & a & E1 & E). exists a.
  apply bind_goes in E as (c2 & l2 & E2 & E). apply upd_auth_goes in E2 as (-> & _ & _ & ->); [|lia].
  apply bind_goes in E as (c2 & l3 & E2 & E).
  apply upd_auth_goes in E2 as (-> & a5 & A5 & ->); [|cbn; lia].
  apply ret_goes in E as [-> ->]. split; [done|]. unfold count_auth. cbn [cmd_count cmd_auths] in *.
  rewrite !Nat2Z.id in *. rewrite list_insert_insert_eq in *.
  rewrite list_lookup_insert_eq in A5 by done. injection A5 as <-.
  by rewrite list_insert_insert_eq.
Qed.

Lemma gen_auth_goes di ei dn en i l (c c' : CTX) l' {L : CryptoLaws D (crypto_backend c)} :
  command_code_ok c -> cmd_count l = Z.of_nat i -> hmac_room l i ->
  goes (gen_auth di ei dn en i l) c c' l' ->
  gen_auth_step c (if 0 <? di then dn else None) (if 0 <? ei then en else None) i l c' l'.
Proof.
  intros Hc Hn Hr E. unfold gen_auth in E.
  apply bind_goes in E as (c1 & l1 & E1 & E).
  apply upd_auth_goes in E1 as (-> & a0 & A0 & ->); [|lia].
  rewrite Hn, ?Nat2Z.id in *. cbn [cmd_count cmd_auths] in E.
  pose proof (lookup_lt_Some _ _ _ A0) as Li.
  set (a1 := mset TPMS_AUTH_COMMAND'sessionAttributes 0 _) in *.
  apply bind_goes in E as (c1 & c2 & E1 & E). apply get_goes in E1 as [-> ->].
  apply bind_goes in E as (c1 & st & E1 & E). apply at3_goes in E1 as [-> ST].
  apply bind_goes in E as (c1 & o & E1 & E). apply auth_objects_at_goes in E1 as [-> O].
  apply bind_goes in E as (c1 & p & E1 & E). apply session_tab_at_goes in E1 as [-> T].
  destruct (Z.eqb_spec st ESYS_TR_PASSWORD) as [->|NP].
  { apply assign_goes in E as (a & E & ->); [|done].
    apply (put_object_auth_goes i) in E as (-> & Oa & v & ->); [|done].
    apply gen_auth_filled; [done..|by left|lia|]. unfold auth_ok. rewrite ST, bool_decide_true, O by done.
    split; [done|]. by destruct o. }
  assert (session_type c !! i <> Some ESYS_TR_PASSWORD) as NP' by congruence.
  destruct p as [p|]; last first.
  { apply bind_goes in E as (c1 & b & E1 & E). apply ret_goes in E1 as [-> ->].
    apply ret_goes in E as [-> ->]. split; [done|by apply hmac_room_insert| |].
    - intros j Hj. cbn [cmd_auths]. by rewrite list_lookup_insert_ne.
    - right. split; [|done]. intros [?|(q & ?)]; congruence. }
  assert (used c i) as Us by (right; eauto).
  apply bind_goes in E as (c1 & b & E1 & E). cbn [POLICY_PASSWORD_session] in E1.
  apply bind_goes in E1 as (c2 & s & Es & E1). apply session_at_goes in Es as [-> Es].
  apply ret_goes in E1 as [-> ->].
  apply bind_goes in E as (c1 & n & E1 & E). apply node_at_goes in E1 as [-> N].
  destruct (type_policy_session s =? POLICY_PASSWORD) eqn:PP.
  - apply bind_goes in E as (c1 & s1 & E1 & E). apply session_at_goes in E1 as [-> Es1].
    assert (s1 = s) as -> by congruence.
    apply assign_goes in E as (a & E & ->); [|done].
    apply (put_object_auth_goes i) in E as (-> & Oa & v & ->); [|done].
    apply gen_auth_filled; [done..|lia|]. unfold auth_ok. rewrite bool_decide_false by done.
    exists p, n, s. by rewrite PP.
  - apply hmac_slot_goes in E as (a & E & ->); [|done].
    apply compute_hmac_goes in E as (F & _ & s1 & Es1 & SA); [|done|done|by apply (Hr i a0)].
    assert (s1 = s) as -> by congruence.
    apply gen_auth_filled; [done..|lia|]. unfold auth_ok. rewrite bool_decide_false by done.
    exists p, n, s. rewrite PP. destruct SA as [(n' & N' & Eh) Enonce Eattr Ev].
    split_and!; [done..|]. split; [by exists n|done|done|].
    destruct (i =? 0)%nat, (0 <? di), (0 <? ei); exact Ev.
Qed.

(** ** All of them *)

(** A session that is given has every session before it given. *)
Definition no_gaps (c : CTX) : Prop := forall i j, (i < j < 3)%nat -> used c j -> used c i.

Lemma used_frame (c c' : CTX) i : crypto_frame c c' -> used c' i <-> used c i.
Proof. by intros (cb & -> & _). Qed.

(** Iterations over slots that are empty *)
Lemma empty_slots_goes di ei dn en js l (c c' : CTX) l' :
  (forall j, j ∈ js -> ~ used c j) -> 0 <= cmd_count l ->
  goes (gen_auths_loop js di ei dn en l) c c' l' ->
  c' = c /\ cmd_count l' = cmd_count l /\
  forall j, j <> Z.to_nat (cmd_count l) -> cmd_auths l' !! j = cmd_auths l !! j.
Proof.
  revert l. induction js as [|i js IH]; intros l He Hl E; cbn [gen_auths_loop] in E.
  { by apply ret_goes in E as [-> ->]. }
  apply bind_goes in E as (c1 & l1 & E1 & E). unfold gen_auth in E1.
  apply bind_goes in E1 as (c2 & l2 & E2 & E1).
  apply upd_auth_goes in E2 as (-> & a & A & ->); [|done].
  apply bind_goes in E1 as (c2 & c3 & E2 & E1). apply get_goes in E2 as [-> ->].
  apply bind_goes in E1 as (c2 & st & E2 & E1). apply at3_goes in E2 as [-> ST].
  apply bind_goes in E1 as (c2 & o & E2 & E1). apply auth_objects_at_goes in E2 as [-> O].
  apply bind_goes in E1 as (c2 & p & E2 & E1). apply session_tab_at_goes in E2 as [-> T].
  assert (~ used c i) as NU by (apply He; by left). unfold used in NU. rewrite ST, T in NU.
  destruct (Z.eqb_spec st ESYS_TR_PASSWORD) as [->|]; [destruct NU; by left|].
  destruct p as [p|]; [destruct NU; right; eauto|].
  apply bind_goes in E1 as (c2 & b & E2 & E1). apply ret_goes in E2 as [-> ->].
  apply ret_goes in E1 as [-> ->].
  apply IH in E as (-> & Ek & Same); [|by intros j ?; apply He; right|done].
  split_and!; [done..|]. intros j Hj. rewrite Same by done. cbn [cmd_auths].
  by rewrite list_lookup_insert_ne.
Qed.

(** Every iteration from [i] on, when the sessions before it are all used. *)
Lemma gen_auths_loop_goes di ei dn en n i l (c c' : CTX) l' {L : CryptoLaws D (crypto_backend c)} :
  command_code_ok c -> no_gaps c -> (i + n = 3)%nat ->
  cmd_count l = Z.of_nat i -> hmac_room l i ->
  goes (gen_auths_loop (seq i n) di ei dn en l) c c' l' ->
  crypto_frame c c' /\ (forall j, (j < i)%nat -> cmd_auths l' !! j = cmd_auths l !! j) /\
  exists k, (i <= k <= 3)%nat /\ cmd_count l' = Z.of_nat k /\
    (forall j, (i <= j < 3)%nat -> used c j <-> (j < k)%nat) /\
    forall j, (i <= j < k)%nat -> exists a, cmd_auths l' !! j = Some a /\
      auth_ok c (if 0 <? di then dn else None) (if 0 <? ei then en else None) j a.
Proof.
  revert i l c L. induction n as [|n IH]; intros i l c L Hc Hg Hi Hl Hr E; cbn [seq gen_auths_loop] in E.
  { apply ret_goes in E as [-> ->]. split_and!; [done..|]. exists i. split_and!; [lia|lia|done|lia|lia]. }
  apply bind_goes in E as (c1 & l1 & E1 & E).
  apply gen_auth_goes in E1 as [F Room Same Slot]; [|done..].
  pose proof (crypto_frame_laws _ _ F L) as L1.
  assert (command_code_ok c1 /\ no_gaps c1) as [Hc1 Hg1] by (by destruct F as (cb & -> & _)).
  destruct Slot as [(Us & Hl1 & a & Ha & Ok)|(NU & Hl1)].
  - apply IH in E as (F' & Same' & k & Hk & Ek & Uk & Ak); [|done|done|done|lia|done|done].
    split; [by etrans|]. split. { intros j Hj. rewrite Same', Same by lia. done. }
    exists k. split; [lia|]. split; [done|]. split.
    + intros j Hj. destruct (decide (j = i)) as [->|].
      * split; [lia|done].
      * rewrite <-(used_frame _ _ j F). apply Uk. lia.
    + intros j Hj. destruct (decide (j = i)) as [->|].
      * exists a. split; [rewrite Same' by lia; done|done].
      * destruct (Ak j) as (b & Hb & Ob); [lia|]. exists b. split; [done|].
        by apply (auth_ok_frame _ _ _ _ _ _ F).
  - (* the slot is empty, and so are the later ones *)
    assert (forall j, (i <= j < 3)%nat -> ~ used c j) as Empty.
    { intros j Hj U'. destruct (decide (j = i)) as [->|]; [done|]. apply NU, (Hg i j); [lia|done]. }
    apply empty_slots_goes in E as (-> & Ek & Same').
    + split; [done|]. split. { intros j Hj. rewrite Same', Same by lia. done. }
      exists i. split; [lia|]. split; [congruence|]. split; [|lia].
      intros j Hj. split; [by intros ?%Empty|lia].
    + intros j Hj%elem_of_seq. rewrite (used_frame _ _ _ F). apply Empty. lia.
    + lia.
Qed.

(** Every authorization of the result is the one its slot calls for. *)
Record auths_ok (c : CTX) (dn en : option nat) (l : TSS2L_SYS_AUTH_COMMAND) : Prop := AuthsOk {
  as_count : 0 <= cmd_count l <= 3;
  as_used : forall i, (i < 3)%nat -> used c i <-> Z.of_nat i < cmd_count l;
  as_auths : forall i, Z.of_nat i < cmd_count l ->
    exists a, cmd_auths l !! i = Some a /\ auth_ok c dn en i a
}.

(** The indices that [iesys_gen_auths] computes select these nonces. *)
Lemma nonces_of_call (c : CTX) :
  let d := marked c TPMA_SESSION_DECRYPT in
  let e := marked c TPMA_SESSION_ENCRYPT in
  let di := if negb (index_of d =? 0) && (index_of d =? index_of e) then 0 else index_of d in
  (if 0 <? di then snd <$> d else None) = decrypt_nonce c /\
  (if 0 <? index_of e then snd <$> e else None) = encrypt_nonce c.
Proof.
  unfold decrypt_nonce, encrypt_nonce. cbv zeta.
  destruct (marked c TPMA_SESSION_DECRYPT) as [[[|i] p]|], (marked c TPMA_SESSION_ENCRYPT) as [[[|j] q]|];
    cbn [index_of from_option fst snd fmap option_fmap option_map Nat.ltb Nat.leb];
    repeat match goal with |- context [?a =? ?b] => destruct (Z.eqb_spec a b) end; cbn [negb andb];
    repeat match goal with |- context [?a <? ?b] => destruct (Z.ltb_spec a b) end; done || lia.
Qed.

Lemma gen_auths_goes h1 h2 h3 l (c c' : CTX) l' {L : CryptoLaws D (crypto_backend c)} :
  command_code_ok c -> no_gaps c -> hmac_room l 0 ->
  goes (iesys_gen_auths h1 h2 h3 l) c c' l' ->
  same_call (set_auth_objects [h1; h2; h3] c) c' /\
  auths_ok c' (decrypt_nonce c') (encrypt_nonce c') l'.
Proof.
  intros Hc Hg Hr E. unfold iesys_gen_auths in E.
  apply bind_goes in E as (c0 & [] & E1 & E). apply modify_goes in E1 as ->.
  set (c0 := set_auth_objects _ c) in *.
  apply bind_goes in E as (c1 & [] & E1 & E). apply keeps_call_caller_nonces in E1.
  apply bind_goes in E as (c2 & [dn di] & E2 & E). pose proof (keeps_call_encrypt_param _ _ _ E2) as F2.
  apply bind_goes in E as (c3 & [ei en] & E3 & E).
  apply (encrypt_nonce_goes _ None) in E3 as [-> E3]. injection E3 as -> ->.
  unfold iesys_encrypt_param in E2. apply bind_goes in E2 as (c3 & [] & _ & E2).
  apply bind_goes in E2 as (c4 & [] & _ & E2).
  apply (encrypt_loop_goes _ None) in E2 as [_ E2]. injection E2 as -> ->.
  assert (same_call c0 c2) as F by by etrans.
  assert (CryptoLaws D (crypto_backend c2)) as L2
    by (destruct F as (B & _); by apply (laws_proper D _ _ B)).
  assert (command_code_ok c2 /\ no_gaps c2) as [Hc2 Hg2].
  { destruct F as (_ & Et & Es & _ & Ec). unfold command_code_ok, no_gaps, used in *.
    by rewrite Ec, Et, Es. }
  apply bind_goes in E as (c5 & l5 & E5 & E).
  apply (gen_auths_loop_goes _ _ _ _ 3 0) in E5 as (F5 & _ & k & Hk & Ek & Uk & Ak); [|done..].
  destruct (nonces_of_call c2) as [Ed Ee]. unfold marked in Ed, Ee. cbn [foldl seq] in Ed, Ee.
  rewrite Ed, Ee in Ak.
  goes_inv. match goal with |- context [auths_ok ?c _ _] => set (c' := c) end.
  assert (same_auths c2 c') as Fs by (by apply frame_auths in F5).
  assert (decrypt_nonce c' = decrypt_nonce c2 /\ encrypt_nonce c' = encrypt_nonce c2) as [-> ->].
  { destruct Fs as (Fs & _). unfold decrypt_nonce, encrypt_nonce, marked.
    by rewrite !(mark_same _ _ _ _ _ Fs). }
  split; [destruct F5 as (cb & -> & B); etrans; [exact F|]; by split_and!|]. split.
  - lia.
  - intros i Hi. rewrite Ek. etrans; [|etrans; [apply (Uk i); lia|lia]].
    destruct Fs as ([_ Et] & Es & _). unfold used. by rewrite Et, Es.
  - intros i Hi. destruct (Ak i) as (a & Ha & Ok); [lia|]. exists a. split; [done|].
    by apply (auth_ok_same _ _ _ _ _ _ Fs).
Qed.

End Auths.

(** ** The sessions of a call *)

Section Sessions.
Context {H : Host} {HM : Memory} {S U K : Type}.
Abbreviation CTX := (ESYS_CONTEXT S U K).

Definition same_tabs (c c' : CTX) : Prop :=
  session_type c' = session_type c /\ session_tab c' = session_tab c.

#[global] Instance same_tabs_preorder : PreOrder same_tabs.
Proof.
  split; unfold same_tabs; [by intros c|]. intros c1 c2 c3 [? ?] [? ?]. split; congruence.
Qed.

Lemma keeps_tabs_upd_node p f : Keeps same_tabs (upd_node (S:=S) (U:=U) (K:=K) p f).
Proof. apply keeps_upd_node; [apply _|done]. Qed.
Lemma keeps_tabs_find l h : Keeps same_tabs (find_object (S:=S) (U:=U) (K:=K) l h).
Proof. induction l as [|p l IH]; cbn [find_object]; keeps. Qed.
Lemma keeps_tabs_create h : Keeps same_tabs (esys_CreateResourceObject (S:=S) (U:=U) (K:=K) h).
Proof. unfold esys_CreateResourceObject, calloc. keeps. Qed.
#[local] Hint Resolve keeps_tabs_upd_node keeps_tabs_find keeps_tabs_create : keeps.
Lemma keeps_tabs_get h : Keeps same_tabs (esys_GetResourceObject (S:=S) (U:=U) (K:=K) h).
Proof. unfold esys_GetResourceObject. keeps. Qed.

(** The slot [i] after [init_session_tab] *)
Definition slot_set (i : nat) (h : Z) (c : CTX) : Prop :=
  session_type c !! i = Some h /\
  exists o, session_tab c !! i = Some o /\
    (o = None <-> h = ESYS_TR_NONE \/ h = ESYS_TR_PASSWORD).

Definition three_slots (c : CTX) : Prop :=
  length (session_type c) = 3%nat /\ length (session_tab c) = 3%nat.

Lemma session_slot_goes i h (c c' : CTX) :
  three_slots c -> (i < 3)%nat ->
  goes (modify (fun c => set_session_type (<[i := h]> (session_type c)) c) ;!
    if (h =? ESYS_TR_NONE) || (h =? ESYS_TR_PASSWORD)
    then modify (fun c => set_session_tab (<[i := None]> (session_tab c)) c)
    else
      let! p := esys_GetResourceObject h in
      modify (fun c => set_session_tab (<[i := p]> (session_tab c)) c) ;!
      match p with
      | None => undef
      | Some p =>
          let! n := node_at p in
          if negb (rsrcType (rsrc n) =? IESYSC_SESSION_RSRC) then fail TSS2_ESYS_RC_BAD_TR
          else ret tt
      end) c c' tt ->
  three_slots c' /\ slot_set i h c' /\ forall j k, j <> i -> slot_set j k c -> slot_set j k c'.
Proof.
  intros [L1 L2] Hi E. apply bind_goes in E as (c1 & [] & E1 & E). apply modify_goes in E1 as ->.
  assert (exists o, session_type c' = <[i:=h]> (session_type c) /\
    session_tab c' = <[i:=o]> (session_tab c) /\
    (o = None <-> h = ESYS_TR_NONE \/ h = ESYS_TR_PASSWORD)) as (o & Et & Es & Eo).
  { destruct (Z.eqb_spec h ESYS_TR_NONE) as [->|N1]; cbn [orb] in E.
    { apply modify_goes in E as ->. exists None. split_and!; [done..|by split; [left|]]. }
    destruct (Z.eqb_spec h ESYS_TR_PASSWORD) as [->|N2]; cbn [orb] in E.
    { apply modify_goes in E as ->. exists None. split_and!; [done..|by split; [right|]]. }
    apply bind_goes in E as (c1 & o & E1 & E). apply keeps_tabs_get in E1 as [Et Es].
    apply bind_goes in E as (c2 & [] & E2 & E). apply modify_goes in E2 as ->.
    destruct o as [p|]; [|by apply undef_goes in E].
    apply bind_goes in E as (c2 & n & E2 & E). apply node_at_goes in E2 as [-> _].
    case_match; [by apply fail_goes in E|]. apply ret_goes in E as [-> _].
    exists (Some p). cbn in *. rewrite Et, Es. split_and!; [done..|]. split; [done|]. by intros [?|?]. }
  split; [split; [by rewrite Et, length_insert|by rewrite Es, length_insert]|]. split.
  - split; [rewrite Et; apply list_lookup_insert_eq; lia|]. exists o. split; [|done].
    rewrite Es. apply list_lookup_insert_eq. lia.
  - intros j k Nj [T (o' & To & Ho)]. split; [by rewrite Et, list_lookup_insert_ne|].
    exists o'. split; [by rewrite Es, list_lookup_insert_ne|done].
Qed.

Lemma init_session_tab_goes s1 s2 s3 (c c' : CTX) :
  three_slots c -> goes (init_session_tab s1 s2 s3) c c' tt ->
  slot_set 0 s1 c' /\ slot_set 1 s2 c' /\ slot_set 2 s3 c'.
Proof.
  intros L0 E. unfold init_session_tab in E. cbn [seq zip zip_with for_each] in E.
  apply bind_goes in E as (c1 & [] & E1 & E). apply session_slot_goes in E1 as (L1 & S1 & _); [|done|lia].
  apply bind_goes in E as (c2 & [] & E2 & E). apply session_slot_goes in E2 as (L2 & S2 & K2); [|done|lia].
  apply bind_goes in E as (c3 & [] & E3 & E). apply session_slot_goes in E3 as (L3 & S3 & K3); [|done|lia].
  apply ret_goes in E as [-> _]. split_and!; [apply K3, K2; done..|apply K3; done|done].
Qed.

Lemma slot_used i h (c : CTX) : slot_set i h c -> used c i <-> h <> ESYS_TR_NONE.
Proof.
  intros [T (o & To & Ho)]. unfold used. rewrite T, To. split.
  - intros [E|(p & E)] ->; [by injection E|].
    injection E as ->. by specialize (proj2 Ho (or_introl eq_refl)).
  - intros N. destruct o as [p|]; [right; by exists p|]. left.
    by destruct (proj1 Ho eq_refl) as [->| ->].
Qed.

End Sessions.

Definition given (h : Z) : Z := if h =? ESYS_TR_NONE then 0 else 1.
Definition is_session (h : Z) : Prop := h <> ESYS_TR_NONE /\ h <> ESYS_TR_PASSWORD.

(** [check_session_feasibility] asks for two things: enough handles, and no
    handle left out before a session. *)
Lemma feasible_iff s1 s2 s3 mandatory :
  check_session_feasibility s1 s2 s3 mandatory = TSS2_RC_SUCCESS <->
  mandatory <= given s1 + given s2 + given s3 /\
  (is_session s2 \/ is_session s3 -> s1 <> ESYS_TR_NONE) /\ (is_session s3 -> s2 <> ESYS_TR_NONE).
Proof.
  unfold check_session_feasibility, given, is_session. cbn [feasibility_loop].
  assert (ESYS_TR_PASSWORD <> ESYS_TR_NONE) as N by done.
  assert (TSS2_ESYS_RC_BAD_VALUE <> TSS2_RC_SUCCESS) as B by done.
  destruct (Z.eqb_spec s1 ESYS_TR_NONE) as [E1|E1], (Z.eqb_spec s1 ESYS_TR_PASSWORD) as [F1|F1],
    (Z.eqb_spec s2 ESYS_TR_NONE) as [E2|E2], (Z.eqb_spec s2 ESYS_TR_PASSWORD) as [F2|F2],
    (Z.eqb_spec s3 ESYS_TR_NONE) as [E3|E3], (Z.eqb_spec s3 ESYS_TR_PASSWORD) as [F3|F3];
    try congruence; cbn [negb andb];
    repeat match goal with |- context [0 <? ?x] => destruct (Z.ltb_spec 0 x) end;
    (split; [intros ?; try congruence; (split; [lia|split; tauto])|
             intros (? & ? & ?); first [done|lia|exfalso; tauto]]).
Qed.
