(* ===== verification/EsysCmdsOk.v ===== *)
(** * Enhanced System API: the commands as steps of the abstract machine.

    Every [_Async] function [begins] and every [_Finish] function [finishes],
    so the lemmas of EsysMachine.v hold for each of them. *)

From stdpp Require Import gmap.
From S2P Require Import Prelude Common MuSpec MuBase MuBaseOk MuStruct MuTpm2b MuUnion TpmTypes MuTypes SysCodes Sys SysCmds SysCompletes EsysBase EsysCrypto EsysCtx EsysUtil EsysMu EsysExec EsysTr EsysAsyncs EsysFinishes EsysRegistry EsysLogic EsysCryptoOk EsysUtilOk EsysMachine EsysTable.

Open Scope tss_scope.
Open Scope esys_scope.
Open Scope Z_scope.

(** ** Frames of the parts *)

Section Frames.
Context {H : Host} {HM : Memory} {S U K : Type}.
Abbreviation CTX := (ESYS_CONTEXT S U K).

Lemma keeps_stored {A} (f : IESYS_CMD_IN_PARAM -> outcome A) :
  Keeps same_command (stored (S:=S) (U:=U) (K:=K) f).
Proof. unfold stored. keeps. Qed.
Lemma keeps_store f : Keeps same_command (store (S:=S) (U:=U) (K:=K) f).
Proof. unfold store. keeps. Qed.
Lemma keeps_tpm_handle h : Keeps same_command (tpm_handle (S:=S) (U:=U) (K:=K) h).
Proof. unfold tpm_handle. keeps. Qed.
Lemma keeps_object_of h : Keeps same_command (object_of (S:=S) (U:=U) (K:=K) h).
Proof. unfold object_of. keeps. Qed.
#[local] Hint Resolve keeps_stored keeps_store keeps_object_of : keeps.

Lemma keeps_object_handle h : Keeps same_command (object_handle (S:=S) (U:=U) (K:=K) h).
Proof. unfold object_handle. keeps. Qed.
Lemma keeps_nvIndex h : Keeps same_command (store_nvIndex (S:=S) (U:=U) (K:=K) h).
Proof. apply keeps_store. Qed.
Lemma keeps_persistent_handle p h :
  Keeps same_command (persistent_handle (S:=S) (U:=U) (KC:=K) p h).
Proof. unfold persistent_handle. keeps. Qed.
Lemma keeps_template t : Keeps same_command (template_nameAlg (S:=S) (U:=U) (KC:=K) t).
Proof. intros c c' x. unfold template_nameAlg. repeat case_match; intros ?; by simplify_eq. Qed.
Lemma keeps_context_data b n : Keeps same_command (context_data (S:=S) (U:=U) (KC:=K) b n).
Proof. intros c c' x. unfold context_data. repeat case_match; intros ?; by simplify_eq. Qed.
Lemma keeps_wrap_context t r : Keeps same_command (wrap_context (S:=S) (U:=U) (KC:=K) t r).
Proof.
  intros c c' x. unfold wrap_context. destruct (mem_read _ _ _); [|done].
  destruct (access _); cbn [obind]; [|done]. repeat case_match; intros ?; by simplify_eq.
Qed.
Lemma keeps_store_NV_ChangeAuth h a :
  Keeps same_command (store_NV_ChangeAuth (S:=S) (U:=U) (K:=K) h a).
Proof. unfold store_NV_ChangeAuth. keeps. Qed.
Lemma keeps_store_NV_DefineSpace a p :
  Keeps same_command (store_NV_DefineSpace (S:=S) (U:=U) (K:=K) a p).
Proof. unfold store_NV_DefineSpace. keeps. Qed.
Lemma keeps_store_HierarchyChangeAuth h a :
  Keeps same_command (store_HierarchyChangeAuth (S:=S) (U:=U) (K:=K) h a).
Proof. unfold store_HierarchyChangeAuth. keeps. Qed.
Lemma keeps_salt p s :
  Keeps same_command (iesys_compute_encrypted_salt (S:=S) (U:=U) (K:=K) p s).
Proof. unfold iesys_compute_encrypted_salt. keeps. Qed.

Lemma keeps_new_handle : Keeps same_command (new_handle (S:=S) (U:=U) (K:=K)).
Proof. unfold new_handle. keeps. Qed.
#[local] Hint Resolve keeps_new_handle : keeps.
Lemma keeps_new_object p : Keeps same_command (new_object (S:=S) (U:=U) (K:=K) p).
Proof. unfold new_object. keeps. Qed.
Lemma keeps_upd_rsrc p f : Keeps same_command (upd_rsrc (S:=S) (U:=U) (K:=K) p f).
Proof. apply keeps_command_node. Qed.
Lemma keeps_close_object l h : Keeps same_command (close_object (S:=S) (U:=U) (K:=K) l h).
Proof. induction l as [|p l IH]; cbn [close_object]; keeps. Qed.
#[local] Hint Resolve keeps_close_object keeps_upd_rsrc : keeps.
Lemma keeps_close h : Keeps same_command (Esys_TR_Close (S:=S) (U:=U) (K:=K) h).
Proof. unfold Esys_TR_Close. keeps. Qed.
#[local] Hint Resolve keeps_close : keeps.
Lemma keeps_close_new n : Keeps same_command (close_new (S:=S) (U:=U) (K:=K) n).
Proof. unfold close_new. keeps. Qed.
Lemma keeps_mark_nv a : Keeps same_command (mark_nv (S:=S) (U:=U) (K:=K) a).
Proof. unfold mark_nv. keeps. Qed.
Lemma keeps_close_nv : Keeps same_command (close_nv (S:=S) (U:=U) (K:=K)).
Proof. unfold close_nv. keeps. Qed.
Lemma keeps_mark_policy t : Keeps same_command (mark_policy (S:=S) (U:=U) (K:=K) t).
Proof. unfold mark_policy. keeps. Qed.
Lemma keeps_change_auth h a : Keeps same_command (change_auth (S:=S) (U:=U) (K:=K) h a).
Proof. unfold change_auth. keeps. Qed.
Lemma keeps_set_key_public p k : Keeps same_command (set_key_public (S:=S) (U:=U) (K:=K) p k).
Proof. unfold set_key_public. keeps. Qed.
Lemma keeps_check_name p k : Keeps same_command (check_name (S:=S) (U:=U) (K:=K) p k).
Proof. unfold check_name. keeps. Qed.
Lemma keeps_stored_userAuth p : Keeps same_command (stored_userAuth (S:=S) (U:=U) (KC:=K) p).
Proof. unfold stored_userAuth. keeps. Qed.
Lemma keeps_node_handle p : Keeps same_command (node_handle (S:=S) (U:=U) (K:=K) p).
Proof. unfold node_handle. keeps. Qed.
Lemma keeps_value_deref i p :
  Keeps same_command (session_value_deref (S:=S) (U:=U) (K:=K) i p).
Proof. unfold session_value_deref. keeps. Qed.
Lemma keeps_then_return (m : M CTX unit) r :
  Keeps same_command m -> Keeps same_command (then_return m r).
Proof. intros Hm. unfold then_return. keeps. Qed.

End Frames.
#[export] Hint Resolve keeps_stored keeps_store keeps_tpm_handle keeps_object_of
  keeps_object_handle keeps_nvIndex keeps_persistent_handle keeps_template keeps_context_data
  keeps_wrap_context keeps_store_NV_ChangeAuth keeps_store_NV_DefineSpace
  keeps_store_HierarchyChangeAuth keeps_salt keeps_new_handle keeps_new_object keeps_upd_rsrc
  keeps_close keeps_close_new keeps_mark_nv keeps_close_nv keeps_mark_policy keeps_change_auth
  keeps_set_key_public keeps_check_name keeps_stored_userAuth keeps_value_deref
  keeps_node_handle keeps_then_return : keeps.

(** [keeps] through [return_state] *)
Ltac keeps_idle :=
  repeat first [keeps_step | apply keeps_return_idle; [first [apply idle_init|apply idle_error]|]].

(** ** The [_Async] functions *)

Section Asyncs.
Context {H : Host} {HM : Memory} {S U K : Type}.
Abbreviation CTX := (ESYS_CONTEXT S U K).

Lemma keeps_idle_state s : idle s -> Keeps stays_idle (modify (set_state (S:=S) (U:=U) (K:=K) s)).
Proof. intros Hs. apply keeps_modify. intros c. by split. Qed.
#[local] Hint Resolve keeps_idle_state : keeps.

(** [esysContext->state = s; return r;] *)
Lemma keeps_idle_fail {A} s r (P : idle s) :
  Keeps stays_idle (modify (set_state (S:=S) (U:=U) (K:=K) s) ;! fail (A:=A) r).
Proof. apply keeps_bind; [apply _|by apply keeps_idle_state|intros _; apply keeps_fail, _]. Qed.

Lemma keeps_adapt_userAuth s n put :
  Keeps stays_idle (adapt_userAuth (S:=S) (U:=U) (K:=K) s n put).
Proof. unfold adapt_userAuth. keeps_idle. Qed.
#[local] Hint Resolve keeps_adapt_userAuth : keeps.

Lemma keeps_session_nonce n a put :
  Keeps stays_idle (session_nonce (S:=S) (U:=U) (KC:=K) n a put).
Proof. unfold session_nonce. keeps_idle. Qed.
#[local] Hint Resolve keeps_session_nonce : keeps.

Lemma sends_fail s r : idle s -> sends (modify (set_state (S:=S) (U:=U) (K:=K) s) ;! fail r).
Proof. intros Hs c c' x _ [= <- <-]. by split. Qed.

Lemma sends_command handles n s1 s2 s3 store prepare :
  Keeps stays_idle store -> (forall nodes, Keeps stays_idle (prepare nodes)) ->
  sends (esys_command (S:=S) (U:=U) (K:=K) handles n s1 s2 s3 store prepare).
Proof.
  intros Hst Hp. apply sends_bind; [done|intros _].
  apply sends_get_objects. intros nodes. apply sends_bind; [done|intros _]. apply sends_esys_send.
Qed.

Lemma sends_stack_node n (m : nat -> M CTX unit) :
  (forall p, sends (m p)) -> sends (with_stack_node n m).
Proof.
  intros Hm c c' x Hs. unfold with_stack_node, bind, get, modify, code.
  destruct (m _ _) as [[c1 y]|] eqn:E; [|done]. apply Hm in E as [N S1]; [|done].
  destruct y as [r|[]]; intros [= <- <-]; by split.
Qed.

Lemma sends_none_node (m : nat -> M CTX unit) :
  (forall p, sends (m p)) -> sends (with_none_node m).
Proof.
  intros Hm. apply sends_stack_node. intros p.
  apply sends_bind; [keeps_idle|intros ?]. apply sends_bind; [keeps_idle|intros ?].
  apply sends_bind; [keeps_idle|intros ?]. apply sends_bind; [keeps_idle|intros _]. apply Hm.
Qed.

Lemma begins_StartAuthSession tpmKey bind_ s1 s2 s3 nonce type symmetric_ hash :
  begins (Esys_StartAuthSession_Async (S:=S) (U:=U) (KC:=K) tpmKey bind_ s1 s2 s3 nonce type
    symmetric_ hash).
Proof.
  apply begins_feasible. apply sends_bind; [keeps_idle|intros _]. apply sends_get_objects. intros nodes.
  apply sends_bind; [keeps_idle|intros salt_]. apply sends_bind; [keeps_idle|intros nonce'].
  apply sends_bind; [keeps_idle|intros _]. apply sends_none_node. intros p. apply sends_transmit; keeps_idle.
Qed.

Lemma begins_ObjectChangeAuth h p s1 s2 s3 a :
  begins (Esys_ObjectChangeAuth_Async (S:=S) (U:=U) (KC:=K) h p s1 s2 s3 a).
Proof.
  apply begins_feasible. apply sends_bind; [keeps_idle|intros [q|]]; [|apply sends_fail, idle_init].
  do 6 (apply sends_bind; [keeps_idle|intros ?]). apply sends_esys_send.
Qed.

Lemma begins_NV_DefineSpace h s1 s2 s3 a p :
  begins (Esys_NV_DefineSpace_Async (S:=S) (U:=U) (KC:=K) h s1 s2 s3 a p).
Proof.
  apply begins_plain. destruct (deletes_without_policy p); [apply sends_fail, idle_init|].
  apply sends_bind; [unfold esys_feasible; keeps_idle|intros _]. apply sends_command; intros; keeps_idle.
Qed.

Lemma begins_ContextLoad p : begins (Esys_ContextLoad_Async (S:=S) (U:=U) (KC:=K) p).
Proof.
  apply begins_plain. apply sends_bind; [keeps_idle|intros _].
  destruct p as [p|]; [|by intros c c' x ? [= <- <-]].
  do 2 (apply sends_bind; [keeps_idle|intros ?]). apply sends_execute.
Qed.

(** A command whose session values are computed by [values] *)
Lemma begins_transmit handles s1 s2 s3 m (prepare : list Z -> sysF S)
    (values : list (option nat) -> M CTX unit) nodes after :
  (forall l, Keeps stays_idle (values l)) -> Keeps stays_idle after ->
  begins (esys_begin s1 s2 s3 m ;!
    let! l := get_objects handles in
    prepare_with prepare l ;!
    esys_transmit s1 s2 s3 (values l) (nodes l) after).
Proof.
  intros Hv Ha. apply begins_feasible, sends_get_objects. intros l.
  apply sends_bind; [keeps_idle|intros _]. by apply sends_transmit.
Qed.

Lemma begins_NV_ChangeAuth h s1 s2 s3 a :
  begins (Esys_NV_ChangeAuth_Async (S:=S) (U:=U) (KC:=K) h s1 s2 s3 a).
Proof.
  apply begins_with; [keeps_idle|]. intros nodes. destruct (nth 0 nodes None); [keeps_idle|].
  apply keeps_idle_fail, idle_init.
Qed.

(** Each [_Async] function refines the machine. *)
Lemma async_begins (m : M CTX unit) : is_async m -> begins m.
Proof.
  destruct 1; try (apply begins_async; keeps_idle; fail);
    try (apply begins_with; intros; keeps_idle; fail);
    try (apply begins_without_sessions; keeps_idle; fail);
    try (apply begins_handle; intros; apply begins_async; keeps_idle; fail).
  all: try (apply begins_transmit; intros; keeps_idle; fail).
  - apply begins_ContextLoad.
  - apply begins_NV_ChangeAuth.
  - apply begins_NV_DefineSpace.
  - apply begins_ObjectChangeAuth.
  - apply begins_StartAuthSession.
Qed.

End Asyncs.

(** ** The [_Finish] functions *)

(** [keeps] for what follows the response *)
Ltac keeps_broken :=
  repeat first [keeps_step | apply keeps_return_state
               | apply keeps_progress_broken; solve [keeps]].

Section Finishes.
Context {H : Host} {HM : Memory} {S U K : Type}.
Abbreviation CTX := (ESYS_CONTEXT S U K).

#[local] Hint Extern 8 (Keeps stays_broken _) => apply keeps_progress_broken : keeps.

Lemma keeps_complete {A} (p : out_prog (S:=S) A) :
  Keeps stays_broken (esys_complete (U:=U) (K:=K) p).
Proof. unfold esys_complete. keeps_broken. Qed.
#[local] Hint Resolve keeps_complete : keeps.

Lemma keeps_checked :
  Keeps stays_broken (return_state (iesys_check_response (S:=S) (U:=U) (K:=K))
    ESYS_STATE_INTERNALERROR).
Proof. apply keeps_checked_response. Qed.
#[local] Hint Resolve keeps_checked : keeps.

(** A function that has no cleanup *)
Lemma finishes_plain {A B} (al : M CTX A) rcv (k : A -> M CTX B) :
  Keeps same_command al -> receives rcv -> (forall a, responds always inr a (k a)) ->
  finishes (esys_finish_with al rcv (fun _ r => ret r) k).
Proof.
  intros Ha Hr Hk. apply (finishes_with always); [by apply allocates_plain|done| |done].
  apply cleans_nothing.
Qed.

Lemma responds_checked {A B} (a : A) (m : M CTX B) :
  Keeps stays_broken m -> responds always inr a (checked_completed m).
Proof.
  intros Hm. apply responds_bind; [apply keeps_checked|intros _]. by apply responds_completed.
Qed.

(** Which codes a lookup returns *)
Lemma get_object_error h (c c' : CTX) r :
  esys_GetResourceObject h c = Ret (c', inl r) -> lookup_error r = true.
Proof.
  assert (forall l (c c' : CTX) r, find_object l h c <> Ret (c', inl r)) as Find.
  { intros l. induction l as [|p l IH]; intros d d' q; [done|]. cbn [find_object]. unfold bind, node_at.
    destruct (heap d !! p); [|done]. destruct (_ =? _); [done|apply IH]. }
  unfold esys_GetResourceObject. destruct (h =? ESYS_TR_NONE); [done|].
  unfold bind at 1, get at 1. unfold bind at 1.
  destruct (find_object _ _ c) as [[c1 [q|[p|]]]|] eqn:E1; [by apply Find in E1|done| |done].
  destruct (ESYS_TR_MIN_OBJECT <=? h); [by intros [= _ <-]|].
  destruct (iesys_handle_to_tpm_handle h) as [q|t] eqn:Et.
  { intros [= _ <-]. unfold iesys_handle_to_tpm_handle in Et.
    assert (q = TSS2_ESYS_RC_BAD_VALUE) as ->; [|done]. repeat case_match; congruence. }
  unfold esys_CreateResourceObject, calloc, bind, get, modify, ret.
  destruct (calloc_fails _); cbn [negb]; [by intros [= _ <-]|].
  match goal with |- context [upd_node ?p ?f ?c] => destruct (upd_node p f c) as [[c2 [q|[]]]|] eqn:E2 end;
    [|..|done].
  { revert E2. unfold upd_node, bind, node_at, modify. by destruct (_ !! _). }
  rewrite (mu_int_run UINT32 t) by (done || ctype || by left).
  destruct (node_at _ _) as [[c3 [q|n]]|] eqn:E3; [|..|done].
  { revert E3. unfold node_at. by destruct (_ !! _). }
  unfold lift. destruct (access _); [|done].
  unfold upd_node, bind, node_at, modify. by destruct (_ !! _).
Qed.

Lemma responds_lookup {A B} h (a : A) (k : option nat -> M CTX B) :
  (forall p, responds always inr a (k p)) ->
  responds always inr a (let! p := return_state (esys_GetResourceObject h) ESYS_STATE_INIT in k p).
Proof.
  intros Hk c c' x Hs. unfold bind, return_state, on_error, modify, ret.
  destruct (esys_GetResourceObject h c) as [[c1 [r|p]]|] eqn:E; [| |done];
    pose proof E as F; apply keeps_get_object in F as [(S1 & N1 & _) _].
  - apply get_object_error in E. intros [= <- <-]. cbn. split; [done|]. right. by split.
  - intros E'. apply (Hk p) in E' as [N2 S2]; [|congruence]. split; [congruence|done].
Qed.

Lemma finishes_FlushContext : finishes (Esys_FlushContext_Finish (S:=S) (U:=U) (KC:=K)).
Proof.
  apply finishes_plain; [keeps|apply receive_runs|intros ?].
  do 2 (apply responds_bind; [keeps_broken|intros ?]).
  apply responds_lookup. intros [p|]; [|done]. apply responds_completed. keeps_broken.
Qed.

Lemma finishes_Startup : finishes (Esys_Startup_Finish (S:=S) (U:=U) (KC:=K)).
Proof.
  apply finishes_plain; [keeps|apply receive_startup_runs|intros ?].
  apply responds_completed. keeps_broken.
Qed.

Lemma finishes_ContextLoad b : finishes (Esys_ContextLoad_Finish (S:=S) (U:=U) (KC:=K) b).
Proof.
  apply (finishes_with always); [apply allocates_plain; keeps|apply receive_runs| |].
  - apply cleans_return. intros a. keeps.
  - intros [h p]. apply responds_completed. keeps_broken.
Qed.

(** [quiet] for a new session: its node has no handle of the TPM yet. *)
Definition no_handle (new : Z * nat) (h : gmap nat RSRC_NODE_T) : Prop :=
  exists n, h !! new.2 = Some n /\ handle (rsrc n) = ESYS_TR_NONE.

Lemma new_object_node b (c c' : CTX) h p :
  new_object b c = Ret (c', inr (h, p)) -> is_Some (heap c' !! p).
Proof.
  unfold new_object. destruct b; cbn [negb]; [|done].
  unfold new_handle, esys_CreateResourceObject, calloc, bind, get, modify, ret.
  cbn [callocs set_esys_handle_cnt]. destruct (calloc_fails _); cbn [negb]; [done|].
  intros [= <- _ <-]. cbn. rewrite lookup_insert_eq. by eexists.
Qed.

Lemma allocates_session b : allocates no_handle
  (let! (h, p) := new_object (S:=S) (U:=U) (K:=K) b in
   let! (sessionType_, authHash_, symmetric_, nonce) := stored in_session in
   upd_rsrc p (set_handle ESYS_TR_NONE) ;!
   upd_session p (fun s => set_nonceCaller nonce (set_symmetric symmetric_
     (set_authHash authHash_ (set_sessionType sessionType_
     (set_sessionAttributes TPMA_SESSION_CONTINUESESSION s))))) ;!
   ret (h, p)).
Proof.
  intros c c' x E. split.
  { revert E. apply keeps_bind; [apply _|keeps|intros [h p]]. keeps. }
  destruct x as [r|[h p]]; [done|]. unfold bind at 1 in E.
  destruct (new_object b c) as [[c1 [r|[h1 p1]]]|] eqn:E1; [done| |done].
  apply new_object_node in E1 as [n E1].
  apply bind_goes in E as (c2 & [[[ty ah] sy] nonce] & E2 & E).
  apply bind_goes in E2 as (? & ? & [-> ->]%get_goes & [-> _]%lift_goes).
  apply bind_goes in E as (c3 & [] & E3 & E). unfold upd_rsrc in E3.
  rewrite (upd_node_run _ _ _ n) in E3 by done. injection E3 as <-.
  apply bind_goes in E as (c4 & [] & E4 & [-> [= <- <-]]%ret_goes).
  apply upd_session_goes in E4 as (s & m & _ & E4 & ->). cbn [heap set_heap] in *.
  rewrite lookup_insert_eq in E4. injection E4 as <-. unfold with_session.
  eexists. cbn. by rewrite lookup_insert_eq.
Qed.

(** The code at [error_cleanup] never flushes the session. *)
Lemma flush_refused fuel h (c : CTX) :
  state c = ESYS_STATE_INTERNALERROR ->
  Esys_FlushContext fuel h c = Ret (c, inl TSS2_ESYS_RC_BAD_SEQUENCE).
Proof.
  intros Hs. unfold Esys_FlushContext, esys_one_call, Esys_FlushContext_Async, esys_async_plain,
    iesys_check_sequence_async, bind, get. by rewrite Hs.
Qed.

Lemma cleans_session fuel : cleans no_handle (session_cleanup (S:=S) (U:=U) (KC:=K) fuel).
Proof.
  intros [h p] r c c' x Q. unfold session_cleanup, bind at 1, node_at. cbn [snd].
  destruct (heap c !! p) as [n|] eqn:E; [|done].
  assert (forall r (c : CTX), then_return (close_new (h, p)) r c = Ret (c', x) ->
    same_command c c' /\ x = inr r) as Close.
  { intros q d. unfold then_return, bind, code, ret.
    destruct (close_new (h, p) d) as [[c1 y]|] eqn:E1; [|done].
    apply keeps_close_new in E1. by intros [= <- <-]. }
  destruct (Z.eqb_spec (handle (rsrc n)) ESYS_TR_NONE) as [N|N]; cbn [negb].
  - intros [? ->]%Close. split; [done|]. by exists r.
  - assert (~ no_handle (h, p) (heap c)) as NQ.
    { intros (m & Em & Nm). cbn in Em. congruence. }
    unfold bind, code. rewrite flush_refused by tauto. cbn [code_of ret].
    intros [? ->]%Close. split; [done|]. by eexists.
Qed.

Lemma keeps_session_complete p :
  Keeps same_progress (session_complete (S:=S) (U:=U) (KC:=K) p).
Proof.
  intros c c' x. unfold session_complete. destruct (node_at p c) as [[? [?|n]]|]; [done| |done].
  destruct (run _ _) as [[rval [[b|] [[h|] [[nonce|] ?]]]]|]; [|done..].
  set (m := upd_rsrc p _ ;! _). assert (Keeps same_progress m) as Hm by (subst m; keeps).
  intros E. apply Hm in E. exact E.
Qed.
#[local] Hint Resolve keeps_session_complete : keeps.

Lemma keeps_session_secret p b t n z :
  Keeps same_command (session_secret (S:=S) (U:=U) (KC:=K) p b t n z).
Proof. unfold session_secret. keeps. Qed.
#[local] Hint Resolve keeps_session_secret : keeps.

Lemma keeps_session_key p n : Keeps same_command (session_key (S:=S) (U:=U) (KC:=K) p n).
Proof. unfold session_key. keeps. Qed.
#[local] Hint Resolve keeps_session_key : keeps.

(** The end of the function, with the handle *)
Lemma responds_joined {A B} quiet (a : A) (m : M CTX (TSS2_RC + B)) :
  Keeps stays_broken m -> (forall c c' r, m c <> Ret (c', inr (inl r))) ->
  responds quiet id a (completed m).
Proof.
  intros Hm Hr c c' x Hs. unfold completed, bind, modify, ret.
  destruct (m c) as [[c1 [r|[r|b]]]|] eqn:E; [| | |done];
    pose proof E as F; apply Hm in F as [N1 S1]; [|by apply Hr in E|];
    intros [= <- <-]; cbn; split; (done || auto).
Qed.

Lemma finishes_StartAuthSession fuel b :
  finishes (Esys_StartAuthSession_Finish (S:=S) (U:=U) (KC:=K) fuel b).
Proof.
  apply (finishes_direct no_handle);
    [apply allocates_session|apply receive_runs|apply cleans_session|intros [h p]].
  do 5 (apply responds_bind; [keeps_broken|intros ?]).
  match goal with |- responds _ _ _ (let '_ := ?v in _) => destruct v as [[[bind_ ?] ?] ?] end.
  do 2 (apply responds_bind; [keeps_broken|intros ?]).
  match goal with |- responds _ _ _ (match ?v with _ => _ end) => destruct v as [r|[]] end.
  { by intros c c' x Hs [= <- <-]. }
  apply responds_joined; [keeps_broken|]. intros c c' r E. by goes_inv.
Qed.

Lemma finishes_ContextSave b : finishes (Esys_ContextSave_Finish (S:=S) (U:=U) (KC:=K) b).
Proof.
  apply finishes_plain; [keeps|apply receive_runs|intros a].
  apply responds_completed. keeps_broken.
Qed.

Lemma finishes_EvictControl b : finishes (Esys_EvictControl_Finish (S:=S) (U:=U) (KC:=K) b).
Proof.
  apply finishes_plain; [keeps|apply receive_runs|intros a]. apply responds_checked. keeps_broken.
Qed.

(** The functions that change the objects before they check the response *)
Lemma finishes_HierarchyChangeAuth :
  finishes (Esys_HierarchyChangeAuth_Finish (S:=S) (U:=U) (KC:=K)).
Proof.
  apply finishes_plain; [keeps|apply receive_runs|intros a].
  apply responds_bind; [keeps_broken|intros [h auth_]].
  apply responds_bind; [keeps_broken|intros _]. apply responds_checked. keeps_broken.
Qed.

Lemma finishes_PCR_SetAuthValue :
  finishes (Esys_PCR_SetAuthValue_Finish (S:=S) (U:=U) (KC:=K)).
Proof.
  apply finishes_plain; [keeps|apply receive_runs|intros a].
  apply responds_bind; [keeps_broken|intros [h auth_]].
  apply responds_bind; [keeps_broken|intros _]. apply responds_checked. keeps_broken.
Qed.

Lemma finishes_NV_ChangeAuth :
  finishes (Esys_NV_ChangeAuth_Finish (S:=S) (U:=U) (KC:=K)).
Proof.
  apply finishes_plain; [keeps|apply receive_runs|intros a].
  do 5 (apply responds_bind; [keeps_broken|intros ?]). apply responds_checked. keeps_broken.
Qed.

Lemma finishes_NV_UndefineSpaceSpecial :
  finishes (Esys_NV_UndefineSpaceSpecial_Finish (S:=S) (U:=U) (KC:=K)).
Proof.
  apply finishes_plain; [keeps|apply receive_runs|intros a].
  do 7 (apply responds_bind; [keeps_broken|intros ?]). apply responds_checked. keeps_broken.
Qed.

#[local] Create HintDb finishes.
#[local] Hint Resolve finishes_FlushContext finishes_Startup finishes_ContextLoad
  finishes_ContextSave finishes_EvictControl finishes_StartAuthSession
  finishes_HierarchyChangeAuth finishes_PCR_SetAuthValue finishes_NV_ChangeAuth
  finishes_NV_UndefineSpaceSpecial : finishes.

(** Each [_Finish] function refines the machine. *)
Lemma finish_finishes {B} (m : M CTX B) : is_finish m -> finishes m.
Proof.
  destruct 1; first [solve [auto 1 with finishes nocore]
    | apply finishes_esys; [keeps|intros; keeps|intros; keeps_broken]].
  all: cbv zeta; keeps_broken.
Qed.

End Finishes.

(** ** Sequences of calls *)

Section Protocol.
Context {H : Host} {HM : Memory} {S U K : Type}.
Abbreviation CTX := (ESYS_CONTEXT S U K).

(** A call of the [_Async] or the [_Finish] function of a command *)
Inductive esys_call (c : CTX) : call -> CTX -> Prop :=
| call_async m c' x : is_async m -> m c = Ret (c', x) -> esys_call c (Async (label_of x)) c'
| call_finish {B} (m : M CTX B) c' x :
    is_finish m -> m c = Ret (c', x) -> esys_call c (Finish (label_of x)) c'.

Inductive esys_run : CTX -> list call -> CTX -> Prop :=
| esys_done c : esys_run c [] c
| esys_next c l c1 tr c' : esys_call c l c1 -> esys_run c1 tr c' -> esys_run c (l :: tr) c'.

Lemma esys_call_step (c c' : CTX) l :
  esys_call c l c' -> proto_step (proto_of c) l (proto_of c').
Proof.
  intros [m d x Hm E|B m d x Hm E]; cbn [proto_step].
  - by apply (async_begins m).
  - by apply (finish_refines m); [apply finish_finishes|].
Qed.

(** What an [_Async] function leaves when it has sent the command *)
Lemma async_sent_once m (c c' : CTX) :
  is_async m -> m c = Ret (c', inr tt) -> submissionCount c' = 1.
Proof.
  intros Hm E. apply async_begins in E; [|done]. inversion E as [| |R N| |]; done.
Qed.

End Protocol.
