(* ===== verification/EsysObjects.v ===== *)
(** * Enhanced System API: the list of objects along the calls.

    Most of the code leaves the list alone and changes what the nodes hold but
    not their handles and counters: [NodeFrame] are the relations between contexts that such
    code keeps. [evolves] is one of them that also creation and closing keep:
    the list stays well-formed and every new handle is above the earlier ones,
    as long as the counter of handles does not wrap around. *)

From stdpp Require Import gmap strings.
From S2P Require Import Prelude Common MuSpec MuBase MuStruct MuTpm2b MuUnion TpmTypes MuTypes SysCodes Sys EsysBase EsysCrypto EsysCtx EsysUtil EsysMu EsysExec EsysTr EsysAsyncs EsysFinishes EsysRegistry EsysLogic EsysCryptoOk EsysUtilOk EsysTable EsysFrame EsysNamesOk EsysCmdsOk.

Open Scope tss_scope.
Open Scope esys_scope.
Open Scope Z_scope.

(** ** Relations that changes of the contents of nodes keep *)

Section NodeFrames.
Context {H : Host} {HM : Memory} {S U K : Type}.
Abbreviation CTX := (ESYS_CONTEXT S U K).

(** [SessionFrame]: changes of nodes that hold a session; [NodeFrame]: changes
    of any node. *)

(** The list of objects, what the lookup of an object depends on, and the
    callbacks *)
Definition same_list (c c' : CTX) : Prop :=
  heap c' = heap c /\ rsrc_list c' = rsrc_list c /\ next_node c' = next_node c /\
  esys_handle_cnt c' = esys_handle_cnt c /\ cmd_in c' = cmd_in c /\
  same_backend (crypto_backend c) (crypto_backend c') /\ (callocs c <= callocs c')%nat.

Class SessionFrame (R : CTX -> CTX -> Prop) := {
  frame_preorder :: PreOrder R;
  frame_quiet c c' : same_list c c' -> R c c';
  frame_session c p n s v : heap c !! p = Some n -> rsrc_session (misc (rsrc n)) = Ret v ->
    R c (set_heap (<[p := set_rsrc (set_misc (Misc_session s) (rsrc n)) n]> (heap c)) c)
}.
Class NodeFrame (R : CTX -> CTX -> Prop) := {
  node_frame_session :: SessionFrame R;
  frame_node c p n n' : heap c !! p = Some n -> esys_handle n' = esys_handle n ->
    reference_count n' = reference_count n -> R c (set_heap (<[p := n']> (heap c)) c)
}.

Lemma node_frame (R : CTX -> CTX -> Prop) {P : PreOrder R} :
  (forall c c', same_list c c' -> R c c') ->
  (forall c p n n', heap c !! p = Some n -> esys_handle n' = esys_handle n ->
    reference_count n' = reference_count n -> R c (set_heap (<[p := n']> (heap c)) c)) ->
  NodeFrame R.
Proof. intros Q N. split; [split; [done..|]|done]. intros. by apply (N c p n). Qed.

Section Sessions.
Context (R : CTX -> CTX -> Prop) {F : SessionFrame R}.

Lemma frame_crypto {A} (m : M (ESYS_CRYPTO_CALLBACKS U K) A) :
  Keeps same_backend m -> Keeps R (crypto (S:=S) m).
Proof.
  intros Hm c c' x. unfold crypto, zoom. destruct (m _) as [[cb y]|] eqn:E; [|done].
  apply Hm in E. intros [= <- _]. apply frame_quiet. by split_and!.
Qed.
Lemma frame_sys_m (f : sysF S) : Keeps R (sys_m (U:=U) (K:=K) f).
Proof. intros c c' x. unfold sys_m. repeat case_match; intros ?; simplify_eq; by apply frame_quiet. Qed.
Lemma frame_sys_out {A} (p : out_prog (S:=S) A) : Keeps R (sys_out (U:=U) (K:=K) p).
Proof. intros c c' x. unfold sys_out. repeat case_match; intros ?; simplify_eq; by apply frame_quiet. Qed.
Lemma frame_sys_get {A} (f : option (blob S) -> outcome (TSS2_RC * A)) : Keeps R (sys_get f).
Proof. apply keeps_sys_get, _. Qed.

Lemma frame_session_at p : Keeps R (session_at (S:=S) (U:=U) (K:=K) p).
Proof. unfold session_at. apply keeps_bind; [apply _|apply keeps_node_at, _|intros; apply keeps_lift, _]. Qed.
(** A session that was read is written back. *)
Lemma frame_put_session p (f : IESYS_SESSION -> outcome IESYS_SESSION) :
  Keeps R (let! s := session_at (S:=S) (U:=U) (K:=K) p in let! s := lift (f s) in put_session p s).
Proof.
  intros c c' x. unfold put_session, upd_node, session_at, bind, node_at, lift, modify.
  destruct (heap c !! p) as [n|] eqn:N; [|done].
  destruct (rsrc_session (misc (rsrc n))) as [v|] eqn:E; [|done].
  destruct (f v) as [s|]; [|done]. rewrite N. intros [= <- _]. by apply (frame_session c p n s v).
Qed.
Lemma frame_upd_session p f : Keeps R (upd_session (S:=S) (U:=U) (K:=K) p f).
Proof.
  intros c c' x E. apply (frame_put_session p (fun s => Ret (f s)) c c' x). revert E.
  unfold upd_session, bind. by destruct (session_at p c) as [[? [?|?]]|].
Qed.
Lemma frame_session_value s o : Keeps R (iesys_compute_session_value (S:=S) (U:=U) (K:=K) s o).
Proof.
  unfold iesys_compute_session_value. destruct s as [p|]; [|apply keeps_ret, _].
  apply (frame_put_session p (fun s => compute_session_value s o)).
Qed.
Lemma frame_calloc : Keeps R (calloc (S:=S) (U:=U) (K:=K)).
Proof.
  intros c c' x. unfold calloc, bind, get, modify, ret. intros [= <- _]. apply frame_quiet.
  split_and!; try done. cbn. lia.
Qed.
Lemma frame_node_at p : Keeps R (node_at p).
Proof. apply keeps_node_at, _. Qed.
Lemma frame_sys_bytes n o : Keeps R (sys_bytes n o).
Proof. apply keeps_sys_bytes, _. Qed.
Lemma frame_mu_image n step : Keeps R (mu_image n step).
Proof. apply keeps_mu_image, _. Qed.
End Sessions.

Section Nodes.
Context (R : CTX -> CTX -> Prop) {F : NodeFrame R}.

Lemma frame_upd_node p f :
  (forall n, esys_handle (f n) = esys_handle n) ->
  (forall n, reference_count (f n) = reference_count n) -> Keeps R (upd_node (S:=S) (U:=U) (K:=K) p f).
Proof.
  intros Hf Hr c c' x. unfold upd_node, bind, node_at. destruct (heap c !! p) as [n|] eqn:N; [|done].
  intros [= <- _]. by eapply frame_node.
Qed.
Lemma frame_upd_rsrc p f : Keeps R (upd_rsrc (S:=S) (U:=U) (K:=K) p f).
Proof. by apply frame_upd_node. Qed.
End Nodes.

End NodeFrames.
Arguments SessionFrame {S U K} R.
Arguments NodeFrame {S U K} R.
#[export] Hint Resolve frame_crypto frame_sys_m frame_sys_out frame_sys_get frame_session_at frame_upd_session
  frame_session_value frame_upd_rsrc frame_calloc frame_node_at frame_sys_bytes frame_mu_image : keeps.

(** [keeps] for such a relation *)
Ltac frame :=
  repeat first [keeps_step
    | apply frame_quiet; first [done | split_and!; done]
    | apply frame_upd_node; [typeclasses eauto | done | done]
    | unfold session_tab_at, auth_objects_at, at3, return_if_notnull, nonce_at,
        for_sessions, sys_area, name_at, then_return, return_state, tpm_handle, hierarchy_handle].

Section Shared.
Context {H : Host} {HM : Memory} {S U K : Type}.
Abbreviation CTX := (ESYS_CONTEXT S U K).
Context (R : CTX -> CTX -> Prop) {F : SessionFrame R}.

(** *** Responses *)

Lemma frame_rp_hash alg : Keeps R (iesys_compute_rp_hash (S:=S) (U:=U) (K:=K) alg).
Proof. unfold iesys_compute_rp_hash, command_code_bytes. frame. Qed.
#[local] Hint Resolve frame_rp_hash : keeps.
Lemma frame_check_rp_hmac i a : Keeps R (check_rp_hmac (S:=S) (U:=U) (K:=K) i a).
Proof. unfold check_rp_hmac, digest_bytes, hmac_key. frame. Qed.
#[local] Hint Resolve frame_check_rp_hmac : keeps.
Lemma frame_decrypt_bytes s n w : Keeps R (decrypt_bytes (S:=S) (U:=U) (K:=K) s n w).
Proof. unfold decrypt_bytes, derive_key, xor_parameter. frame. Qed.
#[local] Hint Resolve frame_decrypt_bytes : keeps.
Lemma frame_check_response : Keeps R (iesys_check_response (S:=S) (U:=U) (K:=K)).
Proof.
  unfold iesys_check_response, iesys_check_rp_hmacs, iesys_restore_session_flags, iesys_decrypt_param.
  frame.
Qed.

(** *** Authorizations *)

Lemma frame_encrypt_nonce l i n : Keeps R (compute_encrypt_nonce_loop (S:=S) (U:=U) (K:=K) l i n).
Proof. revert i n. induction l as [|j l IH]; intros; cbn [compute_encrypt_nonce_loop]; frame. Qed.
Lemma frame_caller_nonces : Keeps R (iesys_gen_caller_nonces (S:=S) (U:=U) (K:=K)).
Proof. unfold iesys_gen_caller_nonces. frame. Qed.
Lemma frame_encrypt_bytes s n w : Keeps R (encrypt_bytes (S:=S) (U:=U) (K:=K) s n w).
Proof. unfold encrypt_bytes, derive_key, xor_parameter. frame. Qed.
#[local] Hint Resolve frame_encrypt_nonce frame_caller_nonces frame_encrypt_bytes : keeps.
Lemma frame_encrypt_loop l d i : Keeps R (encrypt_param_loop (S:=S) (U:=U) (K:=K) l d i).
Proof.
  revert d i. induction l as [|j l IH]; intros; cbn [encrypt_param_loop];
    unfold iesys_update_session_flags; frame.
Qed.
Lemma frame_cp_hash alg : Keeps R (iesys_compute_cp_hash (S:=S) (U:=U) (K:=K) alg).
Proof. unfold iesys_compute_cp_hash, command_code_bytes. frame. Qed.
#[local] Hint Resolve frame_encrypt_loop frame_cp_hash : keeps.
Lemma frame_compute_hmac s d e a : Keeps R (iesys_compute_hmac (S:=S) (U:=U) (K:=K) s d e a).
Proof. unfold iesys_compute_hmac, digest_bytes, hmac_key. frame. Qed.
#[local] Hint Resolve frame_compute_hmac : keeps.
Lemma frame_gen_auth di ei d e i l : Keeps R (gen_auth (S:=S) (U:=U) (K:=K) di ei d e i l).
Proof. unfold gen_auth, upd_auth, put_object_auth, POLICY_PASSWORD_session. frame. Qed.
#[local] Hint Resolve frame_gen_auth : keeps.
Lemma frame_gen_auths_loop l di ei d e a :
  Keeps R (gen_auths_loop (S:=S) (U:=U) (K:=K) l di ei d e a).
Proof. revert a. induction l as [|i l IH]; intros; cbn [gen_auths_loop]; frame. Qed.
#[local] Hint Resolve frame_gen_auths_loop : keeps.
Lemma frame_gen_auths h1 h2 h3 a : Keeps R (iesys_gen_auths (S:=S) (U:=U) (K:=K) h1 h2 h3 a).
Proof. unfold iesys_gen_auths, iesys_compute_encrypt_nonce, iesys_encrypt_param,
    iesys_update_session_flags. frame. Qed.
Lemma frame_salt p s : Keeps R (iesys_compute_encrypted_salt (S:=S) (U:=U) (K:=K) p s).
Proof. unfold iesys_compute_encrypted_salt. frame. Qed.
#[local] Hint Resolve frame_gen_auths frame_check_response : keeps.

(** *** The course of a command *)

Lemma frame_find l h : Keeps R (find_object (S:=S) (U:=U) (K:=K) l h).
Proof. induction l as [|p l IH]; cbn [find_object]; frame. Qed.
Lemma frame_node_handles nodes : Keeps R (node_handles (S:=S) (U:=U) (K:=K) nodes).
Proof. induction nodes as [|p l IH]; cbn [node_handles]; unfold node_handle; frame. Qed.
Lemma frame_value_at i o : Keeps R (session_value (S:=S) (U:=U) (K:=K) i o).
Proof. unfold session_value. frame. Qed.
#[local] Hint Resolve frame_value_at frame_node_handles : keeps.
Lemma frame_value_deref i o : Keeps R (session_value_deref (S:=S) (U:=U) (K:=K) i o).
Proof. unfold session_value_deref. frame. Qed.
Lemma frame_session_values a : Keeps R (session_values (S:=S) (U:=U) (K:=K) a).
Proof. unfold session_values. frame. Qed.
Lemma frame_prepare (prepare : list Z -> sysF S) nodes :
  Keeps R (prepare_with (U:=U) (K:=K) prepare nodes).
Proof. unfold prepare_with. frame. Qed.
Lemma frame_receive_with s accepts : Keeps R (esys_receive_with (S:=S) (U:=U) (K:=K) s accepts).
Proof. unfold esys_receive_with. frame. Qed.
Lemma frame_allocate l : Keeps R (allocate (S:=S) (U:=U) (K:=K) l).
Proof. induction l as [|[] l IH]; cbn [allocate]; frame. Qed.
Lemma frame_complete {A} (p : out_prog (S:=S) A) : Keeps R (esys_complete (U:=U) (K:=K) p).
Proof. unfold esys_complete. frame. Qed.
Lemma frame_check_sequence : Keeps R (iesys_check_sequence_async (S:=S) (U:=U) (K:=K)).
Proof. unfold iesys_check_sequence_async. frame. Qed.
Lemma frame_feasible s1 s2 s3 m : Keeps R (esys_feasible (S:=S) (U:=U) (K:=K) s1 s2 s3 m).
Proof. unfold esys_feasible. frame. Qed.

End Shared.
#[export] Hint Resolve frame_check_response frame_gen_auths frame_salt frame_find
  frame_node_handles frame_value_at frame_value_deref frame_session_values frame_prepare
  frame_receive_with frame_allocate frame_complete frame_check_sequence frame_feasible : keeps.

(** ** The well-formed list *)

Section Evolves.
Context {H : Host} {HM : Memory} {S U K : Type}.
Abbreviation CTX := (ESYS_CONTEXT S U K).

(** [TableOk], and the handles that the library has made are below the
    counter, so that the next one is new. *)
Record objects_ok (c : CTX) : Prop := ObjectsOk {
  objects_table : table_ok c;
  objects_below h p : table c !! h = Some p -> h < ESYS_TR_MIN_OBJECT \/ h < esys_handle_cnt c;
  objects_count : ESYS_TR_MIN_OBJECT <= esys_handle_cnt c
}.

(** Each handle but [j] was made with an allocation; a handle that was given
    out before is not given out again, and no old address is put into the list. *)
Definition stays_closed (c c' : CTX) : Prop :=
  forall h, ESYS_TR_MIN_OBJECT <= h < esys_handle_cnt c -> table c !! h = None -> table c' !! h = None.
Definition evolves (j : Z) (c c' : CTX) : Prop :=
  (callocs c <= callocs c')%nat /\
  (objects_ok c -> esys_handle_cnt c + Z.of_nat (callocs c' - callocs c) + j < 2 ^ 32 ->
   objects_ok c' /\
   esys_handle_cnt c <= esys_handle_cnt c' <= esys_handle_cnt c + Z.of_nat (callocs c' - callocs c) + j /\
   (next_node c <= next_node c')%nat /\
   stays_closed c c' /\
   forall p, (p < next_node c)%nat -> p ∉ rsrc_list c -> p ∉ rsrc_list c').

Lemma evolves_trans i j (c1 c2 c3 : CTX) :
  0 <= i -> 0 <= j -> evolves i c1 c2 -> evolves j c2 c3 -> evolves (i + j) c1 c3.
Proof.
  intros Hi Hj [L1 E1] [L2 E2]. split; [lia|]. intros O B.
  destruct E1 as (O2 & C1 & N1 & T1 & P1); [done|lia|].
  destruct E2 as (O3 & C2 & N2 & T2 & P2); [done|lia|].
  split_and!; [done|lia..| |].
  - intros h Hh E. apply T2; [lia|auto].
  - intros p Hp Np. apply P2; [lia|auto].
Qed.

Lemma evolves_same j (c c' : CTX) :
  0 <= j -> (callocs c <= callocs c')%nat -> table c' = table c ->
  (table_ok c -> table_ok c') -> esys_handle_cnt c' = esys_handle_cnt c ->
  rsrc_list c' = rsrc_list c -> (next_node c <= next_node c')%nat -> evolves j c c'.
Proof.
  intros Hj L T O C R N. split; [done|]. intros [O1 O2 O3] B. rewrite R, C.
  split_and!; [|lia..| |done].
  - split; [auto|rewrite T, C; done|by rewrite C].
  - intros h _. by rewrite T.
Qed.

Lemma table_set_node (c : CTX) p n n' :
  heap c !! p = Some n -> esys_handle n' = esys_handle n ->
  table (set_heap (<[p := n']> (heap c)) c) = table c.
Proof. intros N E. unfold table, table_of. cbn. by rewrite (entries_update _ _ _ n). Qed.
Lemma table_ok_set_node (c : CTX) p n n' :
  heap c !! p = Some n -> esys_handle n' = esys_handle n -> table_ok c ->
  table_ok (set_heap (<[p := n']> (heap c)) c).
Proof.
  intros N E [O1 O2 O3]. split; cbn [heap set_heap rsrc_list next_node].
  - eapply list.Forall_impl; [exact O1|]. intros q Hq. destruct (decide (q = p)) as [->|];
      [by rewrite lookup_insert_eq|by rewrite lookup_insert_ne].
  - by rewrite (entries_update _ _ _ n).
  - intros q. destruct (decide (q = p)) as [->|];
      [intros _; apply O3; by eexists|rewrite lookup_insert_ne by done; apply O3].
Qed.

#[global] Instance evolves_frame : NodeFrame (evolves 0).
Proof.
  assert (PreOrder (evolves 0)).
  { split; [intros c; by apply evolves_same|intros c1 c2 c3; by apply (evolves_trans 0 0)]. }
  apply (node_frame (evolves 0)).
  - intros c c' (Hh & Hl & Hn & Hc & _ & _ & L). apply evolves_same; try done; [| |lia].
    + unfold table. by rewrite Hh, Hl.
    + intros [O1 O2 O3]. split; by rewrite ?Hh, ?Hl, ?Hn.
  - intros c p n n' N E _. apply evolves_same; try done; [by eapply table_set_node|by eapply table_ok_set_node].
Qed.

(** A counter of references may change. *)
Lemma evolves_upd_node p f :
  (forall n, esys_handle (f n) = esys_handle n) ->
  Keeps (evolves 0) (upd_node (S:=S) (U:=U) (K:=K) p f).
Proof.
  intros Hf c c' x. unfold upd_node, bind, node_at. destruct (heap c !! p) as [n|] eqn:N; [|done].
  intros [= <- _]. apply evolves_same; try done; [by eapply table_set_node|by eapply table_ok_set_node].
Qed.

(** *** Creation *)

(** A context with one more node, for a handle that the counter allows *)
Lemma evolves_created j (c c' : CTX) h p n :
  0 <= j -> (callocs c <= callocs c')%nat ->
  (objects_ok c -> created c c' h p n) -> rsrc_list c' = p :: rsrc_list c -> (next_node c <= p)%nat ->
  (p <= next_node c')%nat ->
  (h < ESYS_TR_MIN_OBJECT \/ h = esys_handle_cnt c) ->
  (objects_ok c -> esys_handle_cnt c + Z.of_nat (callocs c' - callocs c) + j < 2 ^ 32 ->
   (h < ESYS_TR_MIN_OBJECT \/ h < esys_handle_cnt c') /\
   esys_handle_cnt c <= esys_handle_cnt c' <= esys_handle_cnt c + Z.of_nat (callocs c' - callocs c) + j) ->
  evolves j c c'.
Proof.
  intros Hj L Cr R Np Np' Ho Hc. split; [done|]. intros O B. destruct (Hc O B) as [Hh Hcnt].
  destruct (Cr O) as [T _ _ _ O']. destruct O as [O1 O2 O3]. split_and!; [|lia..| |].
  - split; [done| |lia]. intros h' q. rewrite T. intros [[<- _]|[_ E]]%lookup_insert_Some; [done|].
    destruct (O2 _ _ E); [by left|right; lia].
  - intros h' Hh' E. rewrite T, lookup_insert_ne; [done|lia].
  - intros q Hq Nq. rewrite R. apply list.not_elem_of_cons. split; [lia|done].
Qed.

Lemma counter_new (c : CTX) : objects_ok c -> table c !! esys_handle_cnt c = None.
Proof.
  intros [_ B C]. destruct (table c !! esys_handle_cnt c) as [p|] eqn:E; [|done].
  destruct (B _ _ E); lia.
Qed.

Lemma evolves_get_object h :
  Keeps (evolves 0) (esys_GetResourceObject (S:=S) (U:=U) (K:=K) h).
Proof.
  intros c c' x E.
  assert ((callocs c <= callocs c')%nat) as L.
  { enough (Keeps (fun c c' : CTX => (callocs c <= callocs c')%nat)
      (esys_GetResourceObject (S:=S) (U:=U) (K:=K) h)) as Kp by by apply Kp in E.
    assert (NodeFrame (fun c c' : CTX => (callocs c <= callocs c')%nat)).
    { assert (PreOrder (fun c c' : CTX => (callocs c <= callocs c')%nat))
        by (split; [intros ?; lia|intros ???; lia]).
      apply (node_frame (fun c c' : CTX => (callocs c <= callocs c')%nat)); [by intros ?? (_&_&_&_&_&_&?)|done]. }
    unfold esys_GetResourceObject, esys_CreateResourceObject. frame. }
  split; [done|]. intros O B.
  destruct (decide (h = ESYS_TR_NONE)) as [->|N].
  { by injection E as <- _; apply (evolves_same 0). }
  revert E. rewrite get_object_run by (done || apply O).
  destruct (table c !! h) as [p|] eqn:Eh; [by intros [= <- _]; apply (evolves_same 0)|].
  destruct (Z.leb_spec ESYS_TR_MIN_OBJECT h); [by intros [= <- _]; apply (evolves_same 0)|].
  destruct (iesys_handle_to_tpm_handle h) as [r|t]; [by intros [= <- _]; apply (evolves_same 0)|].
  cbv zeta. destruct (calloc_fails (callocs c)).
  { intros [= <- _]. apply (evolves_same 0); try done. by intros []. }
  pose proof (get_object_created h t c) as Cr. cbv zeta in Cr. intros [= <- _].
  eapply (evolves_created 0); [done|cbn; lia| |reflexivity|done|cbn; lia|by left| |done|done].
  - intros _. apply Cr; [apply O|done].
  - intros _ _. split; [by left|cbn; lia].
Qed.

Lemma evolves_next j (c : CTX) :
  1 <= j -> objects_ok c -> esys_handle_cnt c + j < 2 ^ 32 ->
  wrap 32 (esys_handle_cnt c + 1) = esys_handle_cnt c + 1.
Proof.
  intros Hj [_ _ C] B. unfold wrap. apply Z.mod_small.
  assert (0 < ESYS_TR_MIN_OBJECT) by done. lia.
Qed.

Lemma evolves_new_handle : Keeps (evolves 0) (new_handle (S:=S) (U:=U) (K:=K)).
Proof.
  intros c c' x. unfold new_handle. unfold bind at 1, get, modify, bind at 1.
  set (c1 := set_esys_handle_cnt _ c). pose proof (create_run (esys_handle_cnt c) c1) as Run.
  unfold bind. rewrite Run. change (callocs c1) with (callocs c). clear Run.
  destruct (calloc_fails (callocs c)).
  - intros [= <- _]. split; [cbn; lia|]. cbn [callocs set_callocs]. intros O B.
    assert (wrap 32 (esys_handle_cnt c + 1) = esys_handle_cnt c + 1) as W by (apply (evolves_next 1); (done || lia)).
    split_and!; try done; cbn; rewrite ?W; try lia; [|by intros h _ E].
    destruct O as [[O1 O2 O3] Ob Oc]. split; [by split| |]; cbn; rewrite W; [|lia].
    intros h p E. destruct (Ob _ _ E); [by left|right; lia].
  - set (p := next_node c1). intros [= <- _].
    eapply (evolves_created 0 c _ (esys_handle_cnt c) p
      (set_esys_handle (esys_handle_cnt c) zero_RSRC_NODE_T)); [done|cbn; lia| |reflexivity|done|cbn; lia|by right|].
    + intros O. pose proof (counter_new c O) as N. destruct O as [O _ _].
      apply (add_node_created c); [done|done|exact (fresh_address c O)|reflexivity..|cbn; lia|cbn; lia].
    + cbn [callocs set_callocs set_rsrc_list set_heap set_next_node esys_handle_cnt]. intros O B.
      assert (wrap 32 (esys_handle_cnt c + 1) = esys_handle_cnt c + 1) as W by (apply (evolves_next 1); (done || lia)).
      unfold c1. cbn. rewrite W. lia.
Qed.
Lemma evolves_new_object b : Keeps (evolves 0) (new_object (S:=S) (U:=U) (K:=K) b).
Proof. unfold new_object. destruct b; [apply evolves_new_handle|apply keeps_fail, _]. Qed.

(** *** Closing *)

Lemma evolves_close h : Keeps (evolves 0) (Esys_TR_Close (S:=S) (U:=U) (K:=K) h).
Proof.
  intros c c' x E.
  assert (callocs c' = callocs c) as L.
  { enough (Keeps (fun c c' : CTX => callocs c' = callocs c)
      (Esys_TR_Close (S:=S) (U:=U) (K:=K) h)) as Kp by by apply Kp in E.
    assert (PreOrder (fun c c' : CTX => callocs c' = callocs c)) by (split; [done|intros ???; congruence]).
    assert (forall l, Keeps (fun c c' : CTX => callocs c' = callocs c)
      (close_object (S:=S) (U:=U) (K:=K) l h)) as Kl.
    { induction l as [|p l IH]; cbn [close_object]; [keeps|]. unfold upd_node, node_at.
      keeps; intros d d' y; case_match; intros ?; by simplify_eq. }
    unfold Esys_TR_Close. keeps. }
  split; [by rewrite L|]. rewrite L, Nat.sub_diag. intros O B. pose proof O as [Ot Ob Oc].
  revert E. unfold Esys_TR_Close. unfold bind at 1, get.
  pose proof (close_object_run (rsrc_list c) h c (ok_nodes _ Ot)) as Run. fold (table c) in Run.
  destruct (table c !! h) as [p|] eqn:Eh.
  2:{ unfold bind. rewrite Run. intros [= <- _]. split_and!; try done; try lia. by intros h' _. }
  destruct Run as (l1 & l2 & n & El & N & Enh & Run). unfold bind. rewrite Run.
  destruct (1 <? reference_count n); intros [= <- _]; cbn.
  - assert (table (set_heap (<[p:=set_reference_count (reference_count n - 1) n]> (heap c)) c) = table c)
      as T by by apply (table_set_node c p n).
    split_and!; try done; try lia.
    + split; [by apply (table_ok_set_node c p n)|change (table _) with (table (set_heap
        (<[p:=set_reference_count (reference_count n - 1) n]> (heap c)) c)); by rewrite T|done].
    + intros h' _ E. change (table _) with (table (set_heap
        (<[p:=set_reference_count (reference_count n - 1) n]> (heap c)) c)). by rewrite T.
  - set (c1 := set_rsrc_list _ _).
    destruct (remove_node c c1 h p n l1 l2) as [T O1]; try done.
    split_and!; try done; try lia.
    + split; [done| |done]. intros h' q. rewrite T. intros [_ E]%lookup_delete_Some. by apply (Ob _ q).
    + intros h' _ E. rewrite T. by apply lookup_delete_None; right.
    + intros q _. rewrite El, !elem_of_app, elem_of_cons. tauto.
Qed.
#[local] Hint Resolve evolves_get_object evolves_new_handle evolves_new_object evolves_close : keeps.

(** *** The parts of the commands *)

Lemma evolves_store f : Keeps (evolves 0) (store (S:=S) (U:=U) (K:=K) f).
Proof.
  apply keeps_modify. intros c. apply evolves_same; try done. by intros [].
Qed.
Lemma evolves_stored {A} (f : IESYS_CMD_IN_PARAM -> outcome A) :
  Keeps (evolves 0) (stored (S:=S) (U:=U) (K:=K) f).
Proof. unfold stored. frame. Qed.
Lemma evolves_get_objects l : Keeps (evolves 0) (get_objects (S:=S) (U:=U) (K:=K) l).
Proof. induction l as [|h l IH]; cbn [get_objects]; frame. Qed.
Lemma evolves_init_session_tab s1 s2 s3 :
  Keeps (evolves 0) (init_session_tab (S:=S) (U:=U) (K:=K) s1 s2 s3).
Proof. unfold init_session_tab. frame. Qed.
Lemma evolves_object_of h : Keeps (evolves 0) (object_of (S:=S) (U:=U) (K:=K) h).
Proof. unfold object_of. frame. Qed.
#[local] Hint Resolve evolves_store evolves_stored evolves_get_objects evolves_init_session_tab
  evolves_object_of : keeps.

Lemma evolves_transmit s1 s2 s3 values n after :
  Keeps (evolves 0) values -> Keeps (evolves 0) after ->
  Keeps (evolves 0) (esys_transmit (S:=S) (U:=U) (K:=K) s1 s2 s3 values n after).
Proof. intros Hv Ha. unfold esys_transmit. frame. Qed.

(** A node on the stack has an address of its own. *)
Lemma evolves_stack_node {A} n (m : nat -> M CTX A) :
  (forall p, Keeps (evolves 0) (m p)) -> Keeps (evolves 0) (with_stack_node n m).
Proof.
  intros Hm c c' x. unfold with_stack_node, bind at 1, get. unfold bind at 1, modify.
  unfold bind at 1. set (p := next_node c). set (c1 := set_heap _ _). unfold bind at 1, code.
  destruct (m p c1) as [[c2 y]|] eqn:E; [|done]. apply Hm in E. intros E'.
  assert (c' = set_heap (delete p (heap c2)) c2) as -> by (destruct y; by injection E').
  clear E'. destruct E as [L E]. split; [exact L|]. intros O B.
  pose proof (fresh_address c (objects_table _ O)) as Fr. fold p in Fr.
  assert (p ∉ rsrc_list c) as Np by (apply fresh_not_in; [apply O|done]).
  assert (entries (heap c1) (rsrc_list c1) = entries (heap c) (rsrc_list c)) as En by by apply entries_insert.
  assert (objects_ok c1) as O1.
  { destruct O as [[O1 O2 O3] Ob Oc]. split; [split| |done].
    - eapply list.Forall_impl; [exact O1|]. intros q Hq. cbn. destruct (decide (q = p)) as [->|];
        [by rewrite lookup_insert_eq|by rewrite lookup_insert_ne].
    - by rewrite En.
    - cbn. intros q. destruct (decide (q = p)) as [->|]; [intros; lia|].
      rewrite lookup_insert_ne by done. intros Hq%O3. unfold p. lia.
    - unfold table, table_of. by rewrite En. }
  destruct (E O1 B) as (O2 & C & N & T & P). cbn in C, N. cbn [esys_handle_cnt set_heap next_node rsrc_list].
  assert (p ∉ rsrc_list c2) as N2 by (apply P; [cbn; lia|done]).
  assert (entries (delete p (heap c2)) (rsrc_list c2) = entries (heap c2) (rsrc_list c2)) as En2
    by by apply entries_delete.
  split; [|split; [exact C|split; [lia|split]]].
  - destruct O2 as [[O2 O3 O4] Ob Oc].
    split; [split| |done].
    + cbn. apply list.Forall_forall. intros q Hq. rewrite lookup_delete_ne by congruence.
      by apply (proj1 (list.Forall_forall _ _) O2).
    + by cbn; rewrite En2.
    + cbn. intros q [u Hq]. apply lookup_delete_Some in Hq as [_ Hq]. apply O4. by eexists.
    + unfold table, table_of. cbn. by rewrite En2.
  - intros h Hh Eh. unfold table, table_of. cbn. rewrite En2. apply T; [exact Hh|].
    unfold table, table_of. by rewrite En.
  - intros q Hq Nq. apply P; [cbn; lia|done].
Qed.

Lemma evolves_finish_with {A B} (al : M CTX A) rcv h (k : A -> M CTX B) :
  Keeps (evolves 0) al -> Keeps (evolves 0) rcv -> (forall a r, Keeps (evolves 0) (h a r)) ->
  (forall a, Keeps (evolves 0) (k a)) -> Keeps (evolves 0) (esys_finish_with al rcv h k).
Proof. intros Ha Hr Hh Hk. unfold esys_finish_with. frame. Qed.
Lemma evolves_finish {A B} (al : M CTX A) (cleanup : A -> M CTX unit) (k : A -> M CTX B) :
  Keeps (evolves 0) al -> (forall a, Keeps (evolves 0) (cleanup a)) ->
  (forall a, Keeps (evolves 0) (k a)) -> Keeps (evolves 0) (esys_finish al cleanup k).
Proof.
  intros Ha Hc Hk. unfold esys_finish. apply evolves_finish_with; [done|unfold esys_receive; frame| |];
    intros; unfold completed; frame.
Qed.

End Evolves.
#[export] Hint Extern 1 (Keeps (evolves 0) (upd_node _ _)) => by apply evolves_upd_node : keeps.
#[export] Hint Resolve evolves_get_object evolves_new_handle evolves_new_object evolves_close
  evolves_store evolves_stored evolves_get_objects evolves_init_session_tab evolves_object_of : keeps.
