(* ===== verification/EsysObjectsCmds.v ===== *)
(** * Enhanced System API: every command keeps the list of objects well-formed. *)

From stdpp Require Import gmap strings.
From S2P Require Import Prelude Common MuSpec MuBase MuStruct MuTpm2b MuUnion TpmTypes MuTypes MuTypesOk SysCodes Sys SysCompletes EsysBase EsysCrypto EsysCtx EsysUtil EsysMu EsysExec EsysTr EsysAsyncs EsysFinishes EsysRegistry EsysTrMeta EsysLogic EsysCryptoOk EsysUtilOk EsysTable EsysFrame EsysNamesOk EsysCmdsOk EsysObjects.

Open Scope tss_scope.
Open Scope esys_scope.
Open Scope Z_scope.

Section Cmds.
Context {H : Host} {HM : Memory} {S U K : Type}.
Abbreviation CTX := (ESYS_CONTEXT S U K).

(** A program that reads the context only *)
Lemma evolves_context_data b n : Keeps (evolves 0) (context_data (S:=S) (U:=U) (KC:=K) b n).
Proof.
  intros c c' x. unfold context_data. repeat case_match; intros ?; simplify_eq; by apply frame_quiet.
Qed.
Lemma evolves_template t : Keeps (evolves 0) (template_nameAlg (S:=S) (U:=U) (KC:=K) t).
Proof.
  intros c c' x. unfold template_nameAlg. repeat case_match; intros ?; simplify_eq; by apply frame_quiet.
Qed.
Lemma evolves_wrap_context t r : Keeps (evolves 0) (wrap_context (S:=S) (U:=U) (KC:=K) t r).
Proof.
  intros c c' x. unfold wrap_context. destruct (mem_read _ _ _); [|done].
  destruct (access _); cbn [obind]; [|done].
  repeat case_match; intros ?; simplify_eq; by apply frame_quiet.
Qed.
#[local] Hint Resolve evolves_context_data evolves_template evolves_wrap_context : keeps.

Lemma evolves_async_with handles n s1 s2 s3 m store_ prepare :
  Keeps (evolves 0) store_ -> (forall nodes, Keeps (evolves 0) (prepare nodes)) ->
  Keeps (evolves 0) (esys_async_with (S:=S) (U:=U) (K:=K) handles n s1 s2 s3 m store_ prepare).
Proof.
  intros Hs Hp. unfold esys_async_with, esys_begin, esys_command, esys_send. frame.
  apply evolves_transmit; frame.
Qed.
Lemma evolves_async handles n s1 s2 s3 m store_ (prepare : list Z -> sysF S) :
  Keeps (evolves 0) store_ ->
  Keeps (evolves 0) (esys_async (U:=U) (K:=K) handles n s1 s2 s3 m store_ prepare).
Proof. intros Hs. apply evolves_async_with; [done|intros; frame]. Qed.
(** The parts of the commands, unfolded down to what the hints know *)
Ltac evolve_step :=
  match goal with
  | |- Keeps _ (esys_transmit _ _ _ _ _ _) => apply evolves_transmit
  | |- Keeps _ (with_stack_node _ _) => apply evolves_stack_node; intros ?
  | |- Keeps _ (esys_finish _ _ _) => apply evolves_finish; [|intros ?|intros ?]
  | |- Keeps _ (esys_finish_with _ _ _ _) => apply evolves_finish_with; [| |intros ? ?|intros ?]
  | |- _ => progress frame
  end.
Ltac evolve :=
  match goal with |- Keeps ?R ?f => let f' := eval red in f in change (Keeps R f') end;
  unfold esys_async, esys_async_with, esys_async_plain, esys_begin, esys_command, esys_send,
    adapt_userAuth, store_nvIndex, store_NV_ChangeAuth, store_NV_DefineSpace,
    store_HierarchyChangeAuth, object_handle, close_new, mark_nv, close_nv, mark_policy,
    change_auth, set_key_public, check_name, direct, checked_completed, completed, esys_receive,
    esys_receive_startup, stored_userAuth, persistent_handle, session_nonce, with_none_node,
    node_handle;
  repeat evolve_step.

Lemma async_evolves (m : M CTX unit) : is_async m -> Keeps (evolves 0) m.
Proof. destruct 1; first [apply evolves_async; solve [frame] | evolve]. Qed.

(** *** [Esys_StartAuthSession_Finish] *)

Lemma evolves_session_complete p :
  Keeps (evolves 0) (session_complete (S:=S) (U:=U) (KC:=K) p).
Proof.
  intros c c' x. unfold session_complete, node_at. destruct (heap c !! p) as [n|]; [|done].
  destruct (run _ _) as [[rval [[b|] [[h|] [[nonce|] u]]]]|]; try done. intros E.
  transitivity (set_sys b c); [by apply frame_quiet|]. revert E.
  match goal with |- ?m _ = _ -> _ => assert (Keeps (evolves 0) m) as Hm by frame end.
  apply Hm.
Qed.
Lemma evolves_session_secret p b t n z :
  Keeps (evolves 0) (session_secret (S:=S) (U:=U) (KC:=K) p b t n z).
Proof. unfold session_secret. frame. Qed.
#[local] Hint Resolve evolves_session_complete evolves_session_secret : keeps.
Lemma evolves_session_key p n : Keeps (evolves 0) (session_key (S:=S) (U:=U) (KC:=K) p n).
Proof. unfold session_key. frame. Qed.

Lemma evolves_finish_loop {B} fuel (finish : M CTX B) :
  Keeps (evolves 0) finish -> Keeps (evolves 0) (finish_loop fuel finish).
Proof. intros Hf. induction fuel as [|fuel IH]; cbn [finish_loop]; frame. Qed.
Lemma evolves_one_call {B} fuel async (finish : M CTX B) :
  Keeps (evolves 0) async -> Keeps (evolves 0) finish ->
  Keeps (evolves 0) (esys_one_call fuel async finish).
Proof. intros Ha Hf. unfold esys_one_call. frame. by apply evolves_finish_loop. Qed.

Lemma evolves_flush fuel h : Keeps (evolves 0) (Esys_FlushContext (S:=S) (U:=U) (KC:=K) fuel h).
Proof. apply evolves_one_call; evolve. Qed.
#[local] Hint Resolve evolves_session_key evolves_flush : keeps.

Lemma finish_evolves {B} (m : M CTX B) : is_finish m -> Keeps (evolves 0) m.
Proof. destruct 1; try (evolve; fail). evolve. unfold session_cleanup, close_new. frame. Qed.

(** ** The functions of the application *)

Lemma evolves_weaken i j (c c' : CTX) : 0 <= i <= j -> evolves i c c' -> evolves j c c'.
Proof.
  intros Hij [L E]. split; [done|]. intros O B. destruct E as (O' & C & N & T & P); [done|lia|].
  split_and!; (done || lia).
Qed.

(** A handle that is given out without an allocation *)
Lemma evolves_next_handle : Keeps (evolves 1) (next_handle (S:=S) (U:=U) (K:=K)).
Proof.
  intros c c' x. unfold next_handle, bind, get, modify, ret. intros [= <- _].
  split; [done|]. cbn [callocs set_esys_handle_cnt]. intros O B.
  assert (wrap 32 (esys_handle_cnt c + 1) = esys_handle_cnt c + 1) as W by (apply (evolves_next 1); (done || lia)).
  split_and!; try done; cbn; rewrite ?W; try lia; [|by intros h _ E].
  destruct O as [[O1 O2 O3] Ob Oc]. split; [by split| |]; cbn; rewrite ?W; [|lia].
  intros h p E. destruct (Ob _ _ E); [by left|right; lia].
Qed.

(** [next_handle] and the creation of the node are [new_handle]. *)
Lemma new_handle_create (c : CTX) (cleanup : Z -> TSS2_RC -> M CTX TSS2_RC) {A} (k : Z -> nat -> M CTX A) :
  (let! h := next_handle (S:=S) (U:=U) (K:=K) in
   let! p := on_error (esys_CreateResourceObject (S:=S) (U:=U) (K:=K) h) (cleanup h) in k h p) c =
  (let! (h, p) := on_error (new_handle (S:=S) (U:=U) (K:=K)) (cleanup (esys_handle_cnt c)) in k h p) c.
Proof.
  unfold next_handle, new_handle, on_error, bind, get, modify, ret. cbn.
  destruct (calloc_fails (callocs c)); cbn; [|done]. by destruct (cleanup _ _ _) as [[? [?|?]]|].
Qed.

Lemma evolves_create_next {A} (cleanup : Z -> TSS2_RC -> M CTX TSS2_RC) (k : Z -> nat -> M CTX A) :
  (forall h r, Keeps (evolves 0) (cleanup h r)) -> (forall h p, Keeps (evolves 0) (k h p)) ->
  Keeps (evolves 0)
    (let! h := next_handle (S:=S) (U:=U) (K:=K) in
   let! p := on_error (esys_CreateResourceObject (S:=S) (U:=U) (K:=K) h) (cleanup h) in k h p).
Proof.
  intros Hc Hk c c' x. rewrite new_handle_create.
  enough (Keeps (evolves 0) (let! (h, p) := on_error (new_handle (S:=S) (U:=U) (K:=K)) (cleanup (esys_handle_cnt c)) in k h p))
    as Kp by apply Kp.
  frame.
Qed.

Lemma evolves_bind i j {A B} (m : M CTX A) (k : A -> M CTX B) :
  0 <= i -> 0 <= j -> Keeps (evolves i) m -> (forall a, Keeps (evolves j) (k a)) ->
  Keeps (evolves (i + j)) (bind m k).
Proof.
  intros Hi Hj Hm Hk c c' x. unfold bind. destruct (m c) as [[c1 [r|a]]|] eqn:E; [| |done].
  - intros [= <- _]. apply Hm in E. by apply (evolves_weaken i); [lia|].
  - intros E'. apply Hm in E. apply Hk in E'. by eapply evolves_trans.
Qed.

Lemma evolves_closes h r : Keeps (evolves 0) (closes (S:=S) (U:=U) (K:=K) h r).
Proof. unfold closes. frame. Qed.
Lemma evolves_find_tpm l h : Keeps (evolves 0) (find_tpm_handle (S:=S) (U:=U) (K:=K) l h).
Proof. induction l as [|p l IH]; cbn [find_tpm_handle]; frame. Qed.
#[local] Hint Resolve evolves_closes evolves_find_tpm : keeps.

Lemma evolves_FromTPMPublic_Async h s1 s2 s3 :
  Keeps (evolves 1) (Esys_TR_FromTPMPublic_Async (S:=S) (U:=U) (K:=K) h s1 s2 s3).
Proof.
  assert (forall h s1 s2 s3, Keeps (evolves 0) (Esys_NV_ReadPublic_Async (S:=S) (U:=U) (KC:=K) h s1 s2 s3))
    as Hnv by (intros; apply async_evolves, Async_NV_ReadPublic).
  assert (forall h s1 s2 s3, Keeps (evolves 0) (Esys_ReadPublic_Async (S:=S) (U:=U) (KC:=K) h s1 s2 s3))
    as Hk by (intros; apply async_evolves, Async_ReadPublic).
  unfold Esys_TR_FromTPMPublic_Async. apply (evolves_bind 1 0); [done|done|apply evolves_next_handle|intros _].
  apply keeps_bind; [apply _|frame|intros c]. apply keeps_bind; [apply _|frame|intros found].
  apply keeps_bind; [apply _| |intros [h' [[t1 t2] t3]]; frame; auto].
  destruct found as [p|]; [frame|]. apply evolves_create_next; intros; frame.
Qed.

Lemma evolves_FromTPMPublic_Finish :
  Keeps (evolves 1) (Esys_TR_FromTPMPublic_Finish (S:=S) (U:=U) (K:=K)).
Proof.
  assert (forall a b, Keeps (evolves 0) (Esys_NV_ReadPublic_Finish (S:=S) (U:=U) (KC:=K) a b))
    as Hnv by (intros; apply finish_evolves, Finish_NV_ReadPublic).
  assert (forall a b d, Keeps (evolves 0) (Esys_ReadPublic_Finish (S:=S) (U:=U) (KC:=K) a b d))
    as Hk by (intros; apply finish_evolves, Finish_ReadPublic).
  unfold Esys_TR_FromTPMPublic_Finish.
  apply (evolves_bind 0 1); [done|done|frame|intros c]. cbv zeta.
  apply (evolves_bind 0 1); [done|done|frame|intros p].
  apply (evolves_bind 0 1); [done|done|frame|intros n].
  apply (evolves_bind 0 1); [done|done| |intros _].
  { unfold nv_metadata, key_metadata, unless_try_again, same_name. frame; auto. }
  apply (evolves_bind 0 1); [done|done|frame|intros c1].
  case_match.
  - apply (evolves_bind 1 0); [done|done| |intros; frame].
    unfold second_call, tab_handle.
    repeat first [apply evolves_FromTPMPublic_Async |
      apply (evolves_bind 0 1); [done|done|frame|intros ?]].
    case_match; [|apply keeps_undef].
    repeat first [apply evolves_FromTPMPublic_Async |
      apply (evolves_bind 0 1); [done|done|frame|intros ?]].
  - intros d d' x E. apply (evolves_weaken 0); [lia|]. revert E.
    match goal with |- ?m _ = _ -> _ => assert (Keeps (evolves 0) m) as Hm by frame end. apply Hm.
Qed.

Lemma evolves_Deserialize b n : Keeps (evolves 0) (Esys_TR_Deserialize (S:=S) (U:=U) (K:=K) b n).
Proof. unfold Esys_TR_Deserialize. frame. Qed.
Lemma evolves_Serialize h : Keeps (evolves 0) (Esys_TR_Serialize (S:=S) (U:=U) (K:=K) h).
Proof.
  assert (forall m b n, Keeps (evolves 0) (marshal_into (S:=S) (U:=U) (K:=K) m b n)) as Hm.
  { intros m b n c c' x. unfold marshal_into. repeat case_match; intros ?; simplify_eq; by apply frame_quiet. }
  unfold Esys_TR_Serialize, malloc. frame.
Qed.

(** The calls of an application: the commands, and the functions on the
    objects and the context. *)
Inductive is_application : forall {A}, M CTX A -> Prop :=
| App_async m : is_async m -> is_application m
| App_finish {B} (m : M CTX B) : is_finish m -> is_application m
| App_Close h : is_application (Esys_TR_Close h)
| App_SetAuth h a : is_application (Esys_TR_SetAuth h a)
| App_GetName h : is_application (Esys_TR_GetName h)
| App_GetAttributes h : is_application (Esys_TRSess_GetAttributes h)
| App_SetAttributes h flags mask : is_application (Esys_TRSess_SetAttributes h flags mask)
| App_GetNonceTPM h : is_application (Esys_TRSess_GetNonceTPM h)
| App_GetTpmHandle h : is_application (Esys_TR_GetTpmHandle h)
| App_GetAuthRequired h : is_application (Esys_TRSess_GetAuthRequired h)
| App_Serialize h : is_application (Esys_TR_Serialize h)
| App_Deserialize b n : is_application (Esys_TR_Deserialize b n)
| App_FromTPMPublic_Async h s1 s2 s3 : is_application (Esys_TR_FromTPMPublic_Async h s1 s2 s3)
| App_FromTPMPublic_Finish : is_application Esys_TR_FromTPMPublic_Finish
| App_SetTimeout t : is_application (Esys_SetTimeout t)
| App_SetCryptoCallbacks cb o : is_application (Esys_SetCryptoCallbacks cb o).

(** [app_run n c c']: [n] calls, whatever they return *)
Inductive app_run : nat -> CTX -> CTX -> Prop :=
| app_done c : app_run 0 c c
| app_next {A} n (m : M CTX A) c c1 x c' :
    is_application m -> m c = Ret (c1, x) -> app_run n c1 c' -> app_run (Datatypes.S n) c c'.

Lemma evolves_callbacks cb o :
  Keeps (evolves 0) (Esys_SetCryptoCallbacks (S:=S) (U:=U) (K:=K) cb o).
Proof. apply keeps_zoom. intros. apply evolves_same; try done. by intros []. Qed.

Lemma application_evolves {A} (m : M CTX A) : is_application m -> Keeps (evolves 1) m.
Proof.
  assert (forall B (m : M CTX B), Keeps (evolves 0) m -> Keeps (evolves 1) m) as Weak.
  { intros B m' Hm c c' x E. apply (evolves_weaken 0); [lia|]. by apply Hm in E. }
  destruct 1; try (by apply Weak, async_evolves || by apply Weak, finish_evolves);
    try apply evolves_FromTPMPublic_Async; try apply evolves_FromTPMPublic_Finish; apply Weak;
    try apply evolves_Serialize; try apply evolves_Deserialize; try apply evolves_close;
    try apply evolves_callbacks.
  all: try (unfold Esys_TR_SetAuth, Esys_TR_GetName, Esys_TRSess_GetAttributes,
    Esys_TRSess_SetAttributes, Esys_TRSess_GetNonceTPM, Esys_TR_GetTpmHandle,
    Esys_TRSess_GetAuthRequired, Esys_SetTimeout, session_of; frame).
Qed.

Lemma run_evolves n (c c' : CTX) : app_run n c c' -> evolves (Z.of_nat n) c c'.
Proof.
  induction 1 as [c|A n m c c1 x c' Hm E _ IH]; [by apply (evolves_same 0)|].
  apply application_evolves in E; [|done]. rewrite Nat2Z.inj_succ, <-Z.add_1_l.
  by apply (evolves_trans 1 (Z.of_nat n) c c1); [lia..| |].
Qed.

End Cmds.

(** ** Enhanced System API: the commands that make an object make it or nothing.

    [same_objects]: the map of handles and the stored parameters are as they
    were. The code between the creation of the node of an object and the end
    of its command keeps it, so closing the node undoes the creation. *)

Section New.
Context {H : Host} {HM : Memory} {S U K : Type}.
Abbreviation CTX := (ESYS_CONTEXT S U K).

Definition same_objects (c c' : CTX) : Prop :=
  table_ok c -> table_ok c' /\ table c' = table c /\ cmd_in c' = cmd_in c /\
    forall p, reference_count <$> heap c' !! p = reference_count <$> heap c !! p.

#[global] Instance same_objects_frame : NodeFrame same_objects.
Proof.
  assert (PreOrder same_objects).
  { split; [by intros c O|]. intros c1 c2 c3 E1 E2 O. destruct (E1 O) as (O2 & T2 & I2 & R2).
    destruct (E2 O2) as (O3 & T3 & I3 & R3). split_and!; [done|congruence|congruence|].
    intros p. by rewrite R3, R2. }
  apply (node_frame same_objects).
  - intros c c' (Hh & Hl & Hn & _ & Hi & _ & _) [O1 O2 O3]. split_and!; [|by unfold table; rewrite Hh, Hl|done|by rewrite Hh].
    split; by rewrite ?Hh, ?Hl, ?Hn.
  - intros c p n n' N E Er O. split_and!; [by eapply table_ok_set_node|by eapply table_set_node|done|].
    intros q. cbn. destruct (decide (q = p)) as [->|].
    + by rewrite lookup_insert_eq, N; cbn; rewrite Er.
    + by rewrite lookup_insert_ne.
Qed.

(** A new object with the handle [h], which is the next one *)
Definition adds (c c' : CTX) (h : Z) : Prop :=
  h = esys_handle_cnt c /\ table c !! h = None /\ table_ok c' /\ cmd_in c' = cmd_in c /\
  exists p n, table c' = <[h := p]> (table c) /\ heap c' !! p = Some n /\ reference_count n = 0.

Lemma adds_then (c c1 c2 : CTX) h : adds c c1 h -> same_objects c1 c2 -> adds c c2 h.
Proof.
  intros (Eh & N & O & I & p & n & T & En & R) E. destruct (E O) as (O2 & T2 & I2 & R2).
  split_and!; [done..|congruence|]. specialize (R2 p). rewrite En in R2.
  destruct (heap c2 !! p) as [n2|] eqn:En2; [|done]. injection R2 as R2.
  exists p, n2. split_and!; [congruence|done|congruence].
Qed.

(** What a failed creation leaves *)
Definition same_table (c c' : CTX) : Prop := table_ok c' /\ table c' = table c.

(** Closing the new object undoes its creation. *)
Lemma close_undoes (c c1 c2 : CTX) h p x :
  adds c c1 h -> close_new (h, p) c1 = Ret (c2, x) -> same_table c c2.
Proof.
  intros (Eh & N & O & I & q & n & T & En & R). unfold close_new, Esys_TR_Close.
  cbn [fst]. unfold bind at 1 2, get.
  pose proof (close_object_run (rsrc_list c1) h c1 (ok_nodes _ O)) as Run. fold (table c1) in Run.
  rewrite T, lookup_insert_eq in Run. destruct Run as (l1 & l2 & m & El & Em & Emh & Run).
  replace m with n in * by congruence. clear m Em. unfold bind at 1. rewrite Run, R.
  change (1 <? 0) with false. cbv iota. unfold bind, modify, ret. intros [= <- _].
  destruct (remove_node c1 (set_rsrc_list (l1 ++ l2) (set_heap (delete q (heap c1)) c1)) h q n l1 l2)
    as [T' O']; try done. split; [done|]. rewrite T', T. by apply delete_insert_id.
Qed.

(** [makes hd m]: [m] makes one object, and its result says which; when it
    fails there is none. *)
Definition makes {A} (hd : A -> Z) (al : M CTX A) : Prop := forall c c' x,
  objects_ok c -> al c = Ret (c', x) ->
  match x with inl _ => same_table c c' | inr a => adds c c' (hd a) end.

Lemma makes_new_object b : makes fst (new_object (S:=S) (U:=U) (K:=K) b).
Proof.
  intros c c' x O. unfold new_object. destruct b; cbn [negb]; [|by intros [= <- <-]; split; [apply O|]].
  intros E. pose proof (counter_new c O) as N.
  pose proof (new_handle_run c (objects_table _ O) N) as Run.
  destruct (calloc_fails (callocs c)) eqn:Ec.
  - revert E. unfold new_handle, bind, get, modify. rewrite create_run. cbn. rewrite Ec. cbn.
    intros [= <- <-]. destruct O as [[? ? ?] _ _]. by split; [split|].
  - destruct Run as (c1 & p & Rn & [T En _ _ O1] & _). rewrite Rn in E. injection E as <- <-.
    assert (cmd_in c1 = cmd_in c) as I.
    { revert Rn. unfold new_handle, bind, get, modify. rewrite create_run. cbn. rewrite Ec.
      by intros [= <- _]. }
    split_and!; try done. by exists p, (set_esys_handle (esys_handle_cnt c) zero_RSRC_NODE_T).
Qed.

(** What follows the creation of the node: its errors close the object. *)
Lemma makes_then {A X} hd (al : M CTX (Z * nat)) (k : Z * nat -> M CTX X) (r : Z * nat -> A) :
  makes fst al -> (forall a, Keeps same_objects (k a)) -> (forall a, hd (r a) = a.1) ->
  makes hd (let! new := al in on_error (k new) (then_return (close_new new)) ;! ret (r new)).
Proof.
  intros Hal Hk Hr c c' x O. unfold bind at 1. destruct (al c) as [[c1 [q|[h p]]]|] eqn:E; [| |done].
  - intros [= <- <-]. by apply (Hal _ _ _ O) in E.
  - apply (Hal _ _ _ O) in E. unfold bind, on_error.
    destruct (k (h, p) c1) as [[c2 [q|a]]|] eqn:Ek; [| |done]; apply Hk in Ek; pose proof (adds_then _ _ _ _ E Ek) as A2.
    + unfold then_return, bind, code, ret.
      destruct (close_new (h, p) c2) as [[c3 y]|] eqn:Ec; [|done]. intros [= <- <-].
      by apply (close_undoes c c2 c3 h p y).
    + intros [= <- <-]. by rewrite Hr.
Qed.

Lemma makes_with {A} hd (al : M CTX (Z * nat)) (k : Z * nat -> M CTX A) :
  makes fst al -> (forall a, Keeps same_objects (k a)) -> (forall a c c' r, k a c <> Ret (c', inl r)) ->
  (forall a c c' b, goes (k a) c c' b -> hd b = a.1) -> makes hd (let! new := al in k new).
Proof.
  intros Hal Hk Hn Hd c c' x O. unfold bind. destruct (al c) as [[c1 [q|a]]|] eqn:E; [| |done].
  - intros [= <- <-]. by apply (Hal _ _ _ O) in E.
  - apply (Hal _ _ _ O) in E. intros Ek. destruct x as [r|b]; [by apply Hn in Ek|].
    rewrite (Hd _ _ _ _ Ek). apply Hk in Ek. by apply (adds_then _ _ _ _ E).
Qed.

Lemma makes_finish {A B} (hda : A -> Z) (hd : B -> Z) new (al : M CTX A) rcv (k : A -> M CTX B) :
  makes hda al -> (forall a, (new a).1 = hda a) -> Keeps same_objects rcv ->
  (forall a, Keeps same_objects (k a)) -> (forall a c c' b, goes (k a) c c' b -> hd b = hda a) ->
  makes hd (esys_finish_with al rcv (fun a => then_return (close_new (new a))) k).
Proof.
  intros Hal Hn Hr Hk Hd c c' x O. unfold esys_finish_with. unfold bind at 1, get.
  case_match; [intros [= <- <-]; by split; [apply O|]|].
  unfold bind at 1, modify. set (c0 := set_state _ c).
  assert (objects_ok c0) as O0 by (destruct O as [[? ? ?] ? ?]; by split; [split|..]).
  unfold bind at 1. destruct (al c0) as [[c1 [q|a]]|] eqn:Ea; [| |done]; apply (Hal _ _ _ O0) in Ea.
  - by intros [= <- <-].
  - unfold on_error. set (m := rcv ;! k a).
    assert (Keeps same_objects m) as Hm by (apply keeps_bind; [apply _|done|intros; apply Hk]).
    destruct (m c1) as [[c2 [q|b]]|] eqn:Em; [| |done].
    + apply Hm in Em. pose proof (adds_then _ _ _ _ Ea Em) as A2.
      unfold then_return, bind, code, ret.
      destruct (close_new (new a) c2) as [[c3 y]|] eqn:Ec; [|done]. intros [= <- <-].
      pose proof (Hn a). destruct (new a) as [h p]. cbn in *. subst h.
      by apply (close_undoes c0 c2 c3 (hda a) p y).
    + intros [= <- <-]. pose proof Em as Em'. apply Hm in Em. unfold m in Em'.
      apply bind_goes in Em' as (c3 & [] & _ & Ek). rewrite (Hd _ _ _ _ Ek).
      exact (adds_then _ _ _ _ Ea Em).
Qed.

(** ** The commands *)

Lemma same_store {A} (f : IESYS_CMD_IN_PARAM -> outcome A) :
  Keeps same_objects (stored (S:=S) (U:=U) (K:=K) f).
Proof. unfold stored. frame. Qed.
Lemma same_context_data b n : Keeps same_objects (context_data (S:=S) (U:=U) (KC:=K) b n).
Proof.
  intros c c' x. unfold context_data. repeat case_match; intros ?; simplify_eq; by apply frame_quiet.
Qed.
#[local] Hint Resolve same_store same_context_data : keeps.

Lemma set_key_public_succeeds p pub c c' r :
  set_key_public (S:=S) (U:=U) (K:=K) p pub c <> Ret (c', inl r).
Proof.
  unfold set_key_public, upd_rsrc, upd_node, bind, node_at, modify, lift. intros E.
  repeat (case_match; simplify_eq).
Qed.

Lemma makes_load {F} (f : IESYS_CMD_IN_PARAM -> outcome F) g b :
  makes fst (let! (h, p) := new_object (S:=S) (U:=U) (K:=K) b in
             let! inPublic := stored f in set_key_public p (g inPublic) ;! ret (h, p)).
Proof.
  apply (makes_with fst (new_object b) (fun '(h, p) => let! inPublic := stored f in
    set_key_public p (g inPublic) ;! ret (h, p))); [apply makes_new_object|..].
  - intros [h p]. unfold set_key_public. frame.
  - intros [h p] c c' r E. unfold stored in E. unfold bind at 1 2, get in E. unfold lift in E.
    destruct (f (cmd_in c)) as [v|]; [|done]. unfold bind in E.
    destruct (set_key_public p (g v) c) as [[c2 [q|u]]|] eqn:Es; [|done..].
    by apply set_key_public_succeeds in Es.
  - intros [h p] c c' [h' p'] E. by goes_inv; simplify_eq.
Qed.

(** The [_Finish] functions whose result is, or starts with, a new handle *)
Inductive is_creating : forall {B}, (B -> Z) -> M CTX B -> Prop :=
| Creating_ContextLoad b : is_creating id (Esys_ContextLoad_Finish b)
| Creating_CreateLoaded b b1 b2 : is_creating fst (Esys_CreateLoaded_Finish b b1 b2)
| Creating_CreatePrimary b b1 b2 b3 b4 : is_creating fst (Esys_CreatePrimary_Finish b b1 b2 b3 b4)
| Creating_HMAC_Start b : is_creating id (Esys_HMAC_Start_Finish b)
| Creating_HashSequenceStart b : is_creating id (Esys_HashSequenceStart_Finish b)
| Creating_Load b : is_creating id (Esys_Load_Finish b)
| Creating_LoadExternal b : is_creating id (Esys_LoadExternal_Finish b)
| Creating_MAC_Start b : is_creating id (Esys_MAC_Start_Finish b)
| Creating_NV_DefineSpace b : is_creating id (Esys_NV_DefineSpace_Finish b)
| Creating_SignSequenceStart b : is_creating id (Esys_SignSequenceStart_Finish b)
| Creating_VerifySequenceStart b : is_creating id (Esys_VerifySequenceStart_Finish b).

Ltac creates :=
  unfold completed, esys_receive, check_name, set_key_public, stored_userAuth; frame.

(** A run to its end, through the patterns of the results *)
Ltac goes_through :=
  repeat first [goes_step | match goal with E : goes (match ?x with _ => _ end) _ _ _ |- _ => destruct x end].

Lemma creating_makes {B} hd (m : M CTX B) : is_creating hd m -> makes hd m.
Proof.
  destruct 1.
  all: apply (makes_finish fst _ id); [| done | creates | intros [h p]; creates
    | intros [h p] c c' r E; unfold completed in E; goes_through; done].
  all: try apply makes_new_object.
  - apply (makes_then fst _ _ id); [apply makes_new_object|intros [h p]; creates|done].
  - apply (makes_then fst _ _ id); [apply makes_new_object|intros [h p]; creates|done].
  - apply (makes_then fst _ _ id); [apply makes_new_object|intros [h p]; creates|done].
  - apply (makes_load in_Load id).
  - apply (makes_load in_LoadExternal id).
Qed.

End New.

(** ** Enhanced System API: the keys of the application have their names.

    The commands that load or create a key compare the name that the TPM
    returns with the hash of the public area before they keep the object. *)

Section Loaded.
Context {H : Host} {HM : Memory} {S U K : Type}.
Abbreviation CTX := (ESYS_CONTEXT S U K).

Definition backend_of (c c' : CTX) : Prop := same_backend (crypto_backend c) (crypto_backend c').

(** [same_objects], the same callbacks, and the node [p] as it was if it
    holds a key *)
Definition keeps_key (p : nat) (c c' : CTX) : Prop :=
  same_objects c c' /\ same_backend (crypto_backend c) (crypto_backend c') /\
  forall n v, heap c !! p = Some n -> misc (rsrc n) = Misc_key_pub v -> heap c' !! p = Some n.

#[global] Instance keeps_key_frame p : SessionFrame (keeps_key p).
Proof.
  split; [split|..].
  - intros c. by split_and!.
  - intros c1 c2 c3 (S1 & B1 & N1) (S2 & B2 & N2). split_and!; [by etrans..|].
    intros n v E Em. apply (N2 _ v); [by apply (N1 _ v)|done].
  - intros c c' Q. split_and!; [by apply frame_quiet|apply Q|].
    destruct Q as (-> & _). done.
  - intros c q n s v E Es. split_and!; [by apply (frame_session c q n s v)|done|].
    intros n' v' E' Em. cbn. destruct (decide (q = p)) as [->|].
    + simplify_eq. by rewrite Em in Es.
    + by rewrite lookup_insert_ne.
Qed.

#[global] Instance keeps_backend_frame : NodeFrame (S:=S) (U:=U) (K:=K) backend_of.
Proof.
  assert (PreOrder backend_of) by (split; [intros c|intros c1 c2 c3]; unfold backend_of; [done|by etrans]).
  apply (node_frame backend_of); [by intros c c' (_ & _ & _ & _ & _ & B & _)|].
  intros c p n n' _ _ _. by unfold backend_of.
Qed.

(** The node of the handle [h] *)
Definition at_handle (c : CTX) (h : Z) (p : nat) : Prop := table_ok c /\ table c !! h = Some p.

Lemma at_handle_same (c c' : CTX) h p : at_handle c h p -> same_objects c c' -> at_handle c' h p.
Proof. intros [O T] E. destruct (E O) as (O' & T' & _). split; [done|]. by rewrite T'. Qed.

Lemma new_object_at b (c c' : CTX) h p :
  objects_ok c -> goes (new_object b) c c' (h, p) ->
  at_handle c' h p /\ cmd_in c' = cmd_in c /\ crypto_backend c' = crypto_backend c.
Proof.
  intros O E. unfold new_object in E. destruct b; cbn [negb] in E; [|done].
  pose proof (new_handle_run c (objects_table _ O) (counter_new c O)) as Run.
  assert (cmd_in c' = cmd_in c /\ crypto_backend c' = crypto_backend c) as Same.
  { revert E. unfold new_handle, bind, get, modify. rewrite create_run. cbn.
    destruct (calloc_fails _); [done|]. by intros [= <- _]. }
  destruct (calloc_fails (callocs c)); [destruct Run as [? Run]; congruence|].
  destruct Run as (c1 & q & Run & [T _ _ _ O1] & _). rewrite Run in E. injection E as <- <- <-.
  split; [|exact Same]. split; [done|]. by rewrite T, lookup_insert_eq.
Qed.

Lemma upd_node_goes p f (c c' : CTX) u :
  goes (upd_node p f) c c' u -> exists n, heap c !! p = Some n /\ c' = set_heap (<[p := f n]> (heap c)) c.
Proof.
  unfold upd_node, bind, node_at. destruct (heap c !! p) as [n|]; [|done]. intros [= <-]. eauto.
Qed.

Lemma stored_goes {A} (f : IESYS_CMD_IN_PARAM -> outcome A) (c c' : CTX) a :
  goes (stored f) c c' a -> c' = c /\ f (cmd_in c) = Ret a.
Proof. unfold stored. intros E. by goes_inv. Qed.
Lemma stored_userAuth_goes s (c c' : CTX) a : goes (stored_userAuth (KC:=K) s) c c' a -> c' = c.
Proof. unfold stored_userAuth. destruct s; [|done]. by intros [-> _]%ret_goes. Qed.

(** ** Names *)

Context (D : crypto_model U K).

(** A key with the name of its public area *)
Definition named_key (n : RSRC_NODE_T) : Prop :=
  rsrcType (rsrc n) = IESYSC_KEY_RSRC /\ exists pub, misc (rsrc n) = Misc_key_pub pub /\
    forall w, s_wf spec_TPMT_PUBLIC (smember pub) -> s_wire spec_TPMT_PUBLIC (smember pub) = Some w ->
      TPMT_PUBLIC_nameAlg (smember pub) <> TPM2_ALG_NULL ->
      contents (name (rsrc n)) = name_of D (TPMT_PUBLIC_nameAlg (smember pub)) w.

(** What [check_name] establishes *)
Definition name_matches (pub : TPM2B_SUB TPMT_PUBLIC) (nm : TPM2B) : Prop :=
  forall w, s_wf spec_TPMT_PUBLIC (smember pub) -> s_wire spec_TPMT_PUBLIC (smember pub) = Some w ->
    TPMT_PUBLIC_nameAlg (smember pub) <> TPM2_ALG_NULL ->
    contents nm = name_of D (TPMT_PUBLIC_nameAlg (smember pub)) w.

Lemma check_name_goes pub nm (c c' : CTX) {L : CryptoLaws D (crypto_backend c)} :
  goes (check_name pub nm) c c' tt ->
  exists pub0, pub = Some pub0 /\ name_matches pub0 nm.
Proof.
  intros E. unfold check_name in E. apply bind_goes in E as (s & [] & E & E'); [|by apply fail_goes in E'].
  apply zoom_goes in E as (cb & E & _). destruct pub as [pub|]; [|done].
  exists pub. split; [done|]. intros w Wf Ew Na.
  by apply (compare_name_goes D (crypto_backend c) pub nm (crypto_backend c) cb w).
Qed.

Lemma laws_same (c c' : CTX) {L : CryptoLaws D (crypto_backend c)} :
  same_backend (crypto_backend c) (crypto_backend c') -> CryptoLaws D (crypto_backend c').
Proof. intros B. by apply (laws_proper D (crypto_backend c) _ B). Qed.

(** ** The course of the commands *)

(** A command that succeeds: its objects are made, the response is received
    and checked, and the results are stored. *)
Lemma finish_goes {A B} (al : M CTX A) cleanup (k : A -> M CTX B) (c c' : CTX) b :
  goes (esys_finish al cleanup k) c c' b ->
  exists c0 c1 c2 a, c0 = set_state ESYS_STATE_INTERNALERROR c /\ goes al c0 c1 a /\
    (forall (R : CTX -> CTX -> Prop), SessionFrame R -> R c1 c2) /\
    exists c3, goes (k a) c2 c3 b /\ c' = set_state ESYS_STATE_INIT c3.
Proof.
  unfold esys_finish, esys_finish_with. intros E. apply bind_goes in E as (s & d & E0 & E).
  apply get_goes in E0 as [-> ->]. case_match; [done|].
  apply bind_goes in E as (c0 & [] & E0 & E). apply modify_goes in E0.
  apply bind_goes in E as (c1 & a & Ea & E). apply on_error_goes in E.
  apply bind_goes in E as (c2 & [] & Er & E). apply bind_goes in E as (c3 & [] & Ec & E).
  unfold completed in E. apply bind_goes in E as (c4 & b' & Ek & E).
  apply bind_goes in E as (c5 & [] & E5 & E). apply modify_goes in E5. apply ret_goes in E as [-> ->].
  exists c0, c1, c3, a. split_and!; [done..| |].
  - intros R F. trans c2.
    + apply (keeps_goes R) in Er; [done|]. unfold esys_receive. frame.
    + apply (keeps_goes R) in Ec; [done|]. frame.
  - eauto.
Qed.

Lemma objects_set_state s (c : CTX) : objects_ok c -> objects_ok (set_state s c).
Proof. intros [[? ? ?] ? ?]. by split; [split|..]. Qed.

Section Load.
Context {F : Type} (f : IESYS_CMD_IN_PARAM -> outcome (option (TPM2B_SUB TPMT_PUBLIC)))
  (complete : Z -> out_prog (S:=S) (option Z * (option TPM2B * unit))).

Definition load_finish (b : bool) : M CTX Z :=
  esys_finish
    (let! (h, p) := new_object b in
     let! inPublic := stored f in
     set_key_public p inPublic ;!
     ret (h, p))
    close_new
    (fun '(h, p) =>
      let! n := node_at p in
      let! (tpm, (nm, _)) := esys_complete (complete (handle (rsrc n))) in
      upd_rsrc p (set_handle (default 0 tpm)) ;!
      let nm := default (stack_2b cap_TPM2B_NAME) nm in
      let! inPublic := stored f in
      check_name inPublic nm ;!
      upd_rsrc p (set_name nm) ;!
      ret h).

Lemma load_named b (c c' : CTX) h {L : CryptoLaws D (crypto_backend c)} :
  objects_ok c -> goes (load_finish b) c c' h ->
  exists p n, table c' !! h = Some p /\ heap c' !! p = Some n /\ named_key n.
Proof.
  intros O E. apply finish_goes in E as (c0 & c1 & c2 & [h' p] & -> & Ea & Hf & c3 & E & ->).
  apply bind_goes in Ea as (c4 & [h'' p''] & En & Ea).
  apply new_object_at in En as (At & I4 & B4); [|by apply objects_set_state].
  apply bind_goes in Ea as (c5 & inPublic & Es & Ea).
  unfold stored in Es. goes_inv. injection H1 as -> ->.
  unfold node_at in E0. destruct (heap c2 !! p'') as [n2|] eqn:N2; [|done]. injection E0 as <- <-.
  destruct a0 as [tpm [nm u]]. apply bind_goes in E as (c5 & [] & Eu & E).
  apply upd_node_goes in Eu as (n3 & N3 & ->). cbv zeta in E.
  apply bind_goes in E as (c6 & inPublic' & Es' & E). unfold stored in Es'. goes_inv.
  apply upd_node_goes in E3 as (n4 & N4 & ->). set (nm' := default _ nm) in *.
  (* the stored public area is the one that was checked *)
  assert (same_objects c4 s1) as S41.
  { apply (keeps_goes same_objects) in E2; [done|]. unfold set_key_public. frame. }
  assert (keeps_key p'' s1 s0) as (S10 & B10 & K10).
  { trans c2; [by apply Hf, _|]. apply (keeps_goes (keeps_key p'')) in E1; [done|]. frame. }
  set (c5 := set_heap _ s0) in *.
  assert (keeps_key p'' c5 s) as (S5 & _ & K5).
  { apply (keeps_goes (keeps_key p'')) in E0; [done|]. unfold check_name. frame. }
  assert (same_objects s0 c5) as S05 by (apply (frame_node s0 p'' n3); done).
  pose proof (frame_node (R:=same_objects) s p'' n4 (set_rsrc (set_name nm' (rsrc n4)) n4) N4
    eq_refl eq_refl) as S9.
  assert (at_handle s0 h'' p'') as At0 by (eapply at_handle_same; [|exact S10]; by eapply at_handle_same).
  assert (cmd_in c5 = cmd_in c4) as I5.
  { destruct At as [O4 _]. destruct (S41 O4) as (O1 & _ & I1 & _). destruct (S10 O1) as (_ & _ & I0 & _).
    cbn. congruence. }
  rewrite I5, Es in Es'. injection Es' as <-.
  assert (CryptoLaws D (crypto_backend c5)) as L5.
  { apply (laws_same c); [done|]. change (crypto_backend c5) with (crypto_backend s0). etrans; [|exact B10].
    apply (keeps_goes backend_of) in E2; [|unfold set_key_public; frame]. unfold backend_of in E2.
    by rewrite B4 in E2. }
  apply check_name_goes in E0 as (pub & -> & Hn); [|done].
  apply upd_node_goes in E2 as (n5 & N5 & ->).
  pose proof (K10 _ pub (lookup_insert_eq _ _ _) eq_refl) as N3'. rewrite N3 in N3'. injection N3' as ->.
  pose proof (K5 _ pub (lookup_insert_eq _ _ _) eq_refl) as N4'. rewrite N4 in N4'. injection N4' as ->.
  eexists p'', _. split; [|split; [apply lookup_insert_eq|split; [done|by exists pub]]].
  assert (at_handle s h'' p'') as At5 by (eapply at_handle_same; [|exact S5]; by eapply at_handle_same).
  exact (proj2 (at_handle_same _ _ _ _ At5 S9)).
Qed.
End Load.

Lemma Load_named b (c c' : CTX) h {L : CryptoLaws D (crypto_backend c)} :
  objects_ok c -> goes (Esys_Load_Finish b) c c' h ->
  exists p n, table c' !! h = Some p /\ heap c' !! p = Some n /\ named_key n.
Proof.
  exact (load_named in_Load (fun h => Tss2_Sys_Load_Complete (Some h)
    (Some (stack_2b cap_TPM2B_NAME))) b c c' h).
Qed.
Lemma LoadExternal_named b (c c' : CTX) h {L : CryptoLaws D (crypto_backend c)} :
  objects_ok c -> goes (Esys_LoadExternal_Finish b) c c' h ->
  exists p n, table c' !! h = Some p /\ heap c' !! p = Some n /\ named_key n.
Proof.
  exact (load_named in_LoadExternal (fun h => Tss2_Sys_LoadExternal_Complete (Some h)
    (Some (stack_2b cap_TPM2B_NAME))) b c c' h).
Qed.
(** The object and the memory for the results *)
Lemma allocated_at b l (handler : Z * nat -> TSS2_RC -> M CTX TSS2_RC) (c c' : CTX) h p :
  objects_ok c ->
  goes (let! new := new_object b in on_error (allocate l) (handler new) ;! ret new) c c' (h, p) ->
  at_handle c' h p /\ backend_of c c'.
Proof.
  intros O E. apply bind_goes in E as (c1 & [h' p'] & En & E).
  apply new_object_at in En as (At & _ & B); [|done].
  apply bind_goes in E as (c2 & [] & Ea & E). apply on_error_goes in Ea. apply ret_goes in E as [-> [= -> ->]].
  split.
  - eapply at_handle_same; [exact At|]. apply (keeps_goes same_objects) in Ea; [done|frame].
  - apply (keeps_goes backend_of) in Ea; [|frame]. unfold backend_of in *. by rewrite B in Ea.
Qed.

(** What a computation leaves alone, as hypotheses *)
Ltac kept R E :=
  let Kp := fresh "Kp" in
  match type of E with goes ?m _ _ _ =>
    assert (Keeps R m) as Kp by (unfold check_name, set_key_public, stored_userAuth, stored; frame);
    apply (keeps_goes R _ _ _ _ Kp) in E as ?; clear Kp
  end.
Ltac kept_objects E := kept constr:(same_objects (S:=S) (U:=U) (K:=K)) E.
Ltac kept_backend E := kept constr:(backend_of) E.

Lemma CreatePrimary_named b b1 b2 b3 b4 (c c' : CTX) x {L : CryptoLaws D (crypto_backend c)} :
  objects_ok c -> goes (Esys_CreatePrimary_Finish b b1 b2 b3 b4) c c' x ->
  exists p n, table c' !! x.1 = Some p /\ heap c' !! p = Some n /\ named_key n.
Proof.
  intros O E. apply finish_goes in E as (c0 & c1 & c2 & [h p] & -> & Ea & Hf & c3 & E & ->).
  apply allocated_at in Ea as [At B1]; [|by apply objects_set_state].
  pose proof (at_handle_same _ _ _ _ At (Hf same_objects _)) as At2. pose proof (Hf backend_of _) as B2.
  apply bind_goes in E as (s & n & En & E). apply node_at_goes in En as [-> Nn].
  apply bind_goes in E as (s & [tpm [pub [data [hash [ticket [nm u]]]]]] & Ec & E).
  kept_objects Ec. kept_backend Ec.
  apply bind_goes in E as (s1 & [] & Eu & E). kept_objects Eu. kept_backend Eu. cbv zeta in E.
  apply bind_goes in E as (s2 & [] & Ek & E). kept_objects Ek.
  assert (CryptoLaws D (crypto_backend s1)) as L1.
  { apply (laws_same c); [done|]. unfold backend_of in *. do 3 (etrans; [eassumption|]). done. }
  apply check_name_goes in Ek as (pub0 & -> & Hn); [|done].
  apply bind_goes in E as (s3 & sens & Es & E). kept_objects Es.
  apply bind_goes in E as (s4 & au & Ea & E). kept_objects Ea.
  apply bind_goes in E as (s5 & [] & Ex & E). kept_objects Ex.
  apply bind_goes in E as (s6 & [] & Em & E). kept_objects Em.
  apply bind_goes in E as (s7 & [] & Ey & E). kept_objects Ey. apply ret_goes in E as [-> ->].
  apply upd_node_goes in Em as (n6 & N6 & ->). apply upd_node_goes in Ey as (n7 & N7 & ->).
  cbn in N7. rewrite lookup_insert_eq in N7. injection N7 as <-.
  eexists p, _. split; [|split; [apply lookup_insert_eq|split; [done|by exists pub0]]].
  eapply (at_handle_same c2 _ h p At2). repeat (etrans; [eassumption|]). by apply frame_quiet.
Qed.

Lemma CreateLoaded_named b b1 b2 (c c' : CTX) x {L : CryptoLaws D (crypto_backend c)} :
  objects_ok c -> goes (Esys_CreateLoaded_Finish b b1 b2) c c' x ->
  exists p n, table c' !! x.1 = Some p /\ heap c' !! p = Some n /\ named_key n.
Proof.
  intros O E. apply finish_goes in E as (c0 & c1 & c2 & [h p] & -> & Ea & Hf & c3 & E & ->).
  apply allocated_at in Ea as [At B1]; [|by apply objects_set_state].
  pose proof (at_handle_same _ _ _ _ At (Hf same_objects _)) as At2. pose proof (Hf backend_of _) as B2.
  apply bind_goes in E as (s & n & En & E). apply node_at_goes in En as [-> Nn].
  apply bind_goes in E as (s & [tpm [priv [pub [nm u]]]] & Ec & E). kept_objects Ec. kept_backend Ec.
  apply bind_goes in E as (s1 & [] & Eu & E). kept_objects Eu. kept_backend Eu. cbv zeta in E.
  apply bind_goes in E as (s2 & [] & Ey & E). kept_objects Ey. kept_backend Ey.
  apply bind_goes in E as (s3 & [] & Ek & E). kept_objects Ek.
  assert (keeps_key p s2 s3) as (_ & _ & K3).
  { apply (keeps_goes (keeps_key p)) in Ek; [done|]. unfold check_name. frame. }
  assert (CryptoLaws D (crypto_backend s2)) as L2.
  { apply (laws_same c); [done|]. unfold backend_of in *. do 4 (etrans; [eassumption|]). done. }
  apply check_name_goes in Ek as (pub0 & -> & Hn); [|done].
  apply upd_node_goes in Ey as (n1 & N1 & ->).
  pose proof (K3 _ pub0 (lookup_insert_eq _ _ _) eq_refl) as N3. clear K3.
  apply bind_goes in E as (s4 & [] & Em & E). kept_objects Em.
  apply bind_goes in E as (s5 & [sens tmpl] & Es & E). kept_objects Es.
  apply bind_goes in E as (s6 & au & Ea & E). kept_objects Ea.
  apply bind_goes in E as (s7 & [] & Ex & E). kept_objects Ex. apply ret_goes in E as [-> ->].
  apply upd_node_goes in Em as (n6 & N6 & ->). rewrite N3 in N6. injection N6 as <-.
  apply stored_goes in Es as [-> _]. apply stored_userAuth_goes in Ea as ->.
  apply upd_node_goes in Ex as (n7 & N7 & ->). cbn in N7. rewrite lookup_insert_eq in N7. injection N7 as <-.
  eexists p, _. split; [|split; [apply lookup_insert_eq|split; [done|by exists pub0]]].
  eapply (at_handle_same c2 _ h p At2). repeat (etrans; [eassumption|]). by apply frame_quiet.
Qed.

(** The [_Finish] functions whose new object is a key with its public area *)
Inductive makes_key : forall {B}, (B -> Z) -> M CTX B -> Prop :=
| Key_Load b : makes_key id (Esys_Load_Finish b)
| Key_LoadExternal b : makes_key id (Esys_LoadExternal_Finish b)
| Key_CreatePrimary b b1 b2 b3 b4 : makes_key fst (Esys_CreatePrimary_Finish b b1 b2 b3 b4)
| Key_CreateLoaded b b1 b2 : makes_key fst (Esys_CreateLoaded_Finish b b1 b2).

Lemma key_named {B} hd (m : M CTX B) (c c' : CTX) x {L : CryptoLaws D (crypto_backend c)} :
  makes_key hd m -> objects_ok c -> goes m c c' x ->
  exists p n, table c' !! hd x = Some p /\ heap c' !! p = Some n /\ named_key n.
Proof.
  intros M O E. destruct M; [by apply (Load_named b c)|by apply (LoadExternal_named b c)|
    by apply (CreatePrimary_named b b1 b2 b3 b4 c)|by apply (CreateLoaded_named b b1 b2 c)].
Qed.
End Loaded.
