(* ===== verification/EsysExamples.v ===== *)
(** * Enhanced System API: a back end, a transport and a context to apply the
    theorems to.

    The digests are not those of any hash function: they are the first bytes
    of the key and the message. They have the right sizes and depend on what
    the contexts were given, which is all that [CryptoLaws] asks for. *)

From stdpp Require Import gmap strings.
From S2P Require Import Prelude Common MuSpec MuBase MuStruct MuTpm2b MuUnion TpmTypes MuTypes SysCodes Sys SysCmds SysExec SysSafe SysProps EsysBase EsysCrypto EsysCtx EsysUtil EsysExec EsysTr EsysAsyncs EsysFinishes EsysLogic EsysCryptoOk EsysUtilOk EsysTable.

Open Scope tss_scope.
Open Scope esys_scope.
Open Scope Z_scope.

(** ** The back end *)

(** The contexts: algorithm, key and the bytes given so far *)
Abbreviation toy_data := (list (Z * option bytes * bytes)).

Definition toy_digest (alg : Z) (key : option bytes) (m : bytes) : bytes :=
  take (Z.to_nat (default 0 (digest_size alg))) (default [] key ++ m ++ replicate 64 0).
Definition toy : crypto_model toy_data nat :=
  CryptoModel _ _ toy_digest (fun u x alg key m => u !! x = Some (alg, key, m)).

Definition toy_start (key : option bytes) (alg : Z) (u : toy_data) : TSS2_RC * option nat * toy_data :=
  (TSS2_RC_SUCCESS, Some (length u), u ++ [(alg, key, [])]).
Definition toy_update (k : option nat) (b : bytes) (u : toy_data) : TSS2_RC * toy_data :=
  match k with
  | Some x =>
      match u !! x with
      | Some (alg, key, m) => (TSS2_RC_SUCCESS, <[x := (alg, key, m ++ b)]> u)
      | None => (TSS2_ESYS_RC_BAD_VALUE, u)
      end
  | None => (TSS2_ESYS_RC_BAD_REFERENCE, u)
  end.
Definition toy_finish (k : option nat) (n : Z) (u : toy_data) :
    TSS2_RC * (bytes * Z * option nat) * toy_data :=
  match k with
  | Some x =>
      match u !! x with
      | Some (alg, key, m) =>
          (TSS2_RC_SUCCESS, (toy_digest alg key m, Zlen (toy_digest alg key m), None), u)
      | None => (TSS2_ESYS_RC_BAD_VALUE, ([], n, k), u)
      end
  | None => (TSS2_ESYS_RC_BAD_REFERENCE, ([], n, k), u)
  end.
Definition toy_random (nonce : TPM2B) (n : Z) (u : toy_data) : TSS2_RC * TPM2B * toy_data :=
  (TSS2_RC_SUCCESS, MkTPM2B n (replicate (Z.to_nat n) 7 ++ drop (Z.to_nat n) (buffer nonce)), u).

Definition toy_backend (u : toy_data) : ESYS_CRYPTO_CALLBACKS toy_data nat :=
  CryptoCallbacks _ _ None (Some (toy_start None)) (Some toy_update) (Some toy_finish)
    (Some (fun _ u => u)) (Some (fun alg key => toy_start (Some key) alg)) (Some toy_update)
    (Some toy_finish) (Some (fun _ u => u)) (Some toy_random) None None None None None None u.

Lemma toy_start_law key alg u k u' :
  toy_start key alg u = (TSS2_RC_SUCCESS, k, u') ->
  exists x, k = Some x /\ absorbs toy u' x alg key [].
Proof.
  intros [= <- <-]. eexists. split; [done|]. cbn. by rewrite lookup_app_r, Nat.sub_diag.
Qed.
Lemma toy_update_law x b u u' alg key m :
  toy_update (Some x) b u = (TSS2_RC_SUCCESS, u') -> absorbs toy u x alg key m ->
  absorbs toy u' x alg key (m ++ b).
Proof.
  cbn. intros E A. rewrite A in E. injection E as <-. apply list_lookup_insert_eq.
  by eapply lookup_lt_Some.
Qed.
Lemma toy_finish_law x n u d n' k u' alg key m :
  toy_finish (Some x) n u = (TSS2_RC_SUCCESS, (d, n', k), u') -> absorbs toy u x alg key m ->
  d = digest toy alg key m /\ n' = Zlen d.
Proof. cbn. intros E A. rewrite A in E. by injection E as <- <- _ _. Qed.

#[export] Instance toy_laws u : CryptoLaws toy (toy_backend u).
Proof.
  split.
  - intros f alg v k v' [= <-]. apply toy_start_law.
  - intros f x b v v' alg m [= <-]. apply toy_update_law.
  - intros f x n v d n' k v' alg m [= <-]. apply toy_finish_law.
  - intros f alg key v k v' [= <-]. apply toy_start_law.
  - intros f x b v v' alg key m [= <-]. apply toy_update_law.
  - intros f x n v d n' k v' alg key m [= <-]. apply toy_finish_law.
  - intros alg key m n Hn. pose proof (digest_size_pos _ _ Hn). unfold Zlen. cbn.
    unfold toy_digest. rewrite Hn. cbn [default]. rewrite length_take, !length_app, length_replicate.
    unfold id. lia.
Qed.

(** ** A context with a key and a session *)

Definition example_2b (cap : Z) (w : bytes) : TPM2B :=
  MkTPM2B (Zlen w) (w ++ replicate (Z.to_nat (cap - Zlen w)) 0).

(** The session uses SHA-256, obfuscates parameters and has a key of three
    bytes. *)
Definition example_session (attributes : Z) : IESYS_SESSION :=
  set_sessionAttributes attributes
    (set_authHash TPM2_ALG_SHA256
      (set_symmetric (mset TPMT_SYM_DEF'algorithm TPM2_ALG_XOR zero_TPMT_SYM_DEF)
        (set_sessionKey (example_2b cap_TPM2B_DIGEST [1; 2; 3])
          (set_nonceCaller (example_2b cap_TPM2B_DIGEST (replicate 16 5))
            (set_nonceTPM (example_2b cap_TPM2B_DIGEST (replicate 16 6)) zero_IESYS_SESSION))))).

Definition key_handle : Z := ESYS_TR_MIN_OBJECT.
Definition session_handle : Z := ESYS_TR_MIN_OBJECT + 1.

Definition example_heap (attributes : Z) : gmap nat RSRC_NODE_T :=
  <[0%nat := Node key_handle (example_2b cap_TPM2B_DIGEST [9; 9])
     (Resource 0x80000001 (example_2b cap_TPM2B_NAME [0; 11; 4]) IESYSC_KEY_RSRC Misc_zero) 2]>
  (<[1%nat := Node session_handle (zero_2b cap_TPM2B_DIGEST)
     (Resource 0x02000000 (example_2b cap_TPM2B_NAME [2; 0; 0; 0]) IESYSC_SESSION_RSRC
        (Misc_session (example_session attributes))) 1]> ∅).

Definition example_context {S} (b : blob S) (attributes : Z) : ESYS_CONTEXT S toy_data nat :=
  Esys S toy_data nat ESYS_STATE_INIT b (ESYS_TR_MIN_OBJECT + 2) (example_heap attributes) [0%nat; 1%nat]
    2%nat (-1) [0; 0; 0] [None; None; None] [None; None; None] 0 None 0 0
    (zero_2b cap_TPM2B_DATA) In_zero 0 None 0 0 0 (toy_backend []) 0.

Lemma example_table {S} (b : blob S) attributes : table_ok (example_context b attributes).
Proof.
  split.
  - repeat constructor; eexists; reflexivity.
  - apply (bool_decide_unpack _). by vm_compute.
  - intros p Hp. cbn in *. unfold example_heap in Hp. destruct p as [|[|p]]; [lia..|].
    by rewrite !lookup_insert_ne, lookup_empty in Hp by done; destruct Hp.
Qed.

(** A transport that answers every command with the bytes [w] *)
Definition replies (w : bytes) : TSS2_TCTI_CONTEXT unit :=
  Tcti 1 (Some (fun (s : unit) _ _ => (TSS2_RC_SUCCESS, s)))
    (Some (fun (s : unit) n (response : bool) _ =>
       if response then
         if n <? Zlen w then (TSS2_TCTI_RC_INSUFFICIENT_BUFFER, (Zlen w, ([], s)))
         else (TSS2_RC_SUCCESS, (Zlen w, (w, s)))
       else (TSS2_RC_SUCCESS, (Zlen w, ([], s)))))
    tt.

(** The outcome of a computation that succeeded *)
Definition succeeded {St A} (o : outcome (St * (TSS2_RC + A))) : bool :=
  match o with Ret (_, inr _) => true | _ => false end.
Definition after {St A} (m : M St A) (s : St) : St :=
  match m s with Ret (s', _) => s' | Undef => s end.

Lemma succeeded_run {St A} (m : M St A) (s : St) :
  succeeded (m s) = true -> exists s' a, m s = Ret (s', inr a).
Proof. destruct (m s) as [[s' [r|a]]|]; [done|by exists s', a|done]. Qed.
Lemma after_run {St A} (m : M St A) (s s' : St) x : m s = Ret (s', x) -> after m s = s'.
Proof. unfold after. by intros ->. Qed.

(** ** Calls *)

#[local] Existing Instance little_endian_host.
#[local] Existing Instance calloc_succeeds.

(** The authorizations of a command on the key, with its password and a
    session for the decryption of the parameter *)
Definition hmac_before : ESYS_CONTEXT unit toy_data nat :=
  after (sys_m (Tss2_Sys_HMAC_Prepare 0x80000001 (Some buffer3) 11) ;!
         init_session_tab ESYS_TR_PASSWORD session_handle ESYS_TR_NONE ;!
         session_value 0 (Some 0%nat) ;!
         session_value 1 None)
    (example_context (fresh_context (replies []) 128) 0x21).

(** A response to [TPM2_GetRandom] with the HMAC that the session expects *)
Definition random_nonce : TPM2B := example_2b cap_TPM2B_DIGEST (replicate 16 8).
Definition random_params : bytes := be_bytes 2 4 ++ [1; 2; 3; 4].
Definition random_hmac : bytes :=
  auth_hmac toy TPM2_ALG_SHA256 [1; 2; 3]
    (toy_digest TPM2_ALG_SHA256 None (be_bytes 4 0 ++ be_bytes 4 TPM2_CC_GetRandom ++ random_params))
    random_nonce (example_2b cap_TPM2B_DIGEST (replicate 16 7)) None None 1.
Definition example_response : bytes :=
  let body := be_bytes 4 (Zlen random_params) ++ random_params
    ++ be_bytes 2 16 ++ replicate 16 8 ++ [1] ++ be_bytes 2 (Zlen random_hmac) ++ random_hmac in
  rsp_image TPM2_ST_SESSIONS (10 + Zlen body) 0 ++ body.

Definition random_before : ESYS_CONTEXT unit toy_data nat :=
  example_context (fresh_context (replies example_response) 128) 1.
Definition random_async : M (ESYS_CONTEXT unit toy_data nat) unit :=
  Esys_GetRandom_Async session_handle ESYS_TR_NONE ESYS_TR_NONE 4.
Definition random_finish : M (ESYS_CONTEXT unit toy_data nat) (option TPM2B * unit) :=
  Esys_GetRandom_Finish true.

(** The same over a TPM that always asks for the command again *)
Definition busy_before : ESYS_CONTEXT unit toy_data nat :=
  example_context (fresh_context (replies (rsp_image TPM2_ST_NO_SESSIONS 10 TPM2_RC_RETRY)) 64) 1.
Definition busy_sent : ESYS_CONTEXT unit toy_data nat :=
  after (Esys_GetRandom_Async ESYS_TR_NONE ESYS_TR_NONE ESYS_TR_NONE 4) busy_before.
