(* ===== verification/EsysProps.v ===== *)
(** * Enhanced System API: its properties.

    Each theorem is stated for the functions of src/tss2-esys over any back
    end and any transport; the lemmas at the end apply it to concrete ones. *)

From stdpp Require Import gmap strings.
From S2P Require Import Prelude Common MuSpec MuBase MuBaseOk MuStruct MuStructOk MuTpm2b MuUnion TpmTypes MuTypes SysCodes Sys SysOk SysCmds SysCompletes SysExec SysSafe SysProps EsysBase EsysCrypto EsysCtx EsysUtil EsysMu EsysExec EsysTr EsysAsyncs EsysFinishes EsysOneCalls EsysRegistry EsysLogic EsysCryptoOk EsysUtilOk EsysMachine EsysTable EsysFrame EsysAuthOk EsysCmdsOk EsysExamples.

Open Scope tss_scope.
Open Scope esys_scope.
Open Scope Z_scope.

Section Props.
Context {H : Host} {HM : Memory} {S U K : Type}.
Abbreviation CTX := (ESYS_CONTEXT S U K).

(** ** Authorizations *)

(** C14: When [iesys_gen_auths] succeeds on a call none of whose slots is left
    out before one that is given ([no_gaps]), the slots that are given are
    exactly the authorizations it has filled in, in their order, and each is the
    one TPM 2.0 Part 1 asks for: for a password the authorization value of its
    object, with the handle TPM2_RH_PW, or an empty value where there is no
    object; for a session its handle, attributes and caller nonce, and the HMAC
    over the hash of the command with its parameters as they will be sent, both
    nonces, the nonces of the sessions that encrypt the parameters where they
    are other sessions, and the attributes. (A password after a slot that is
    left out is accepted by the library, but is not covered.) *)
Theorem esys_gen_auths (D : crypto_model U K) (c c' : CTX) {L : CryptoLaws D (crypto_backend c)}
    h1 h2 h3 auths :
  command_code_ok c -> no_gaps c ->
  iesys_gen_auths h1 h2 h3 stack_auths c = Ret (c', inr auths) ->
  same_call (set_auth_objects [h1; h2; h3] c) c' /\
  auths_ok D c' (decrypt_nonce c') (encrypt_nonce c') auths.
Proof.
  intros Hc Hg E. apply (gen_auths_goes D h1 h2 h3 stack_auths); try done.
  intros j a _ Ha. unfold stack_auths in Ha. cbn [cmd_auths] in Ha.
  apply list_lookup_fmap_Some in Ha as (i & -> & _). by vm_compute.
Qed.

(** C27: A call goes on exactly when as many handles of sessions are given as
    the command needs and none is left out before a session; then the slots in
    use are those of the handles that are given, and unless a password comes
    after a handle that is left out there is no gap between them. *)
Theorem esys_session_check s1 s2 s3 mandatory (c c' : CTX) :
  three_slots c -> init_session_tab s1 s2 s3 c = Ret (c', inr tt) ->
  (forall i h, [s1; s2; s3] !! i = Some h -> used c' i <-> h <> ESYS_TR_NONE) /\
  (check_session_feasibility s1 s2 s3 mandatory = TSS2_RC_SUCCESS <->
     mandatory <= given s1 + given s2 + given s3 /\
     forall i j h, (i < j)%nat -> [s1; s2; s3] !! j = Some h -> is_session h -> used c' i) /\
  (check_session_feasibility s1 s2 s3 mandatory = TSS2_RC_SUCCESS ->
   (forall i j, (i < j)%nat -> [s1; s2; s3] !! j = Some ESYS_TR_PASSWORD -> used c' i) ->
   no_gaps c').
Proof.
  intros L0 E. apply init_session_tab_goes in E as (S1 & S2 & S3); [|done].
  pose proof (slot_used _ _ _ S1) as U1. pose proof (slot_used _ _ _ S2) as U2.
  pose proof (slot_used _ _ _ S3) as U3.
  assert (forall i h, [s1; s2; s3] !! i = Some h -> used c' i <-> h <> ESYS_TR_NONE) as Us.
  { by intros [|[|[|i]]] h [= <-]. }
  assert (forall P : Z -> Prop,
    (forall i j h, (i < j)%nat -> [s1; s2; s3] !! j = Some h -> P h -> used c' i) <->
    (P s2 \/ P s3 -> s1 <> ESYS_TR_NONE) /\ (P s3 -> s2 <> ESYS_TR_NONE)) as Gap.
  { intros P. rewrite <-U1, <-U2. split.
    - intros G. split; [intros [Q|Q]|intros Q]; [by apply (G 0 1 s2)%nat; [lia|..]|
        by apply (G 0 2 s3)%nat; [lia|..]|by apply (G 1 2 s3)%nat; [lia|..]].
    - intros [G1 G2] [|[|i]] [|[|[|j]]] h Hij [= <-] Q; try lia; auto. }
  split; [done|]. rewrite feasible_iff, Gap. split; [done|].
  intros (_ & N1 & N2) Pw i j [Hij Hj] Uj.
  destruct ([s1; s2; s3] !! j) as [h|] eqn:Ej; [|apply lookup_ge_None in Ej; cbn in Ej; lia].
  destruct (decide (h = ESYS_TR_PASSWORD)) as [->|Np]; [by apply (Pw i j)|].
  apply (proj2 (Gap is_session) (conj N1 N2) i j h Hij Ej). split; [|done]. by apply (Us j).
Qed.

(** C15: When [iesys_check_response] succeeds on the response of a command that
    used a session, the response holds as many authorizations as the command,
    and the one of each session is what that session expects: the HMAC over the
    hash of the response with its parameters as they were received, keyed with
    the key of the session, with the new nonce of the TPM and the nonce of the
    caller. A response made without the key does not pass. *)
Theorem esys_response_checked (D : crypto_model U K) (c c' : CTX)
    {L : CryptoLaws D (crypto_backend c)} :
  command_code_ok c -> authsCount_esys c <> 0 -> has_session c = true ->
  iesys_check_response c = Ret (c', inr tt) ->
  exists rsp, response_auths c rsp /\ response_authentic D c rsp.
Proof. intros Hc Hn Hs E. by apply (check_response_goes D c c'). Qed.

(** ** Key derivation and obfuscation *)

(** C25: [iesys_crypto_KDFa] returns, and when it succeeds it has written the
    blocks of the counter-mode derivation of TPM 2.0 Part 1, 11.4.10.2, from
    the counter after the one it was given on, as many as the bits need, with
    the first byte masked when the number of bits is no multiple of 8; the
    counter that comes back is that of the last block. *)
Theorem esys_KDFa (D : crypto_model U K) (cb : ESYS_CRYPTO_CALLBACKS U K) {L : CryptoLaws D cb}
    alg key label u v bits cin out (use_digest_size : bool) :
  fits u -> fits v -> 0 <= bits < 2 ^ 32 - 7 ->
  (forall h, digest_size alg = Some h ->
     kdf_room (if use_digest_size then h else (bits + 7) / 8)%Z h <= Zlen out) ->
  exists cb' x, iesys_crypto_KDFa alg key label u v bits cin out use_digest_size cb = Ret (cb', x) /\
    match x with
    | inl _ => True
    | inr (out', cout) => exists h r w, digest_size alg = Some h /\
        blocks_for (if use_digest_size then h else (bits + 7) / 8)%Z h r /\
        mem_write out 0 (kdfa_blocks D r alg key label u v bits (default 0 cin)) = Some w /\
        mask_first bits w = Ret out' /\
        cout = (if cin is Some _ then Some (wrap 32 (default 0 cin + Z.of_nat r)) else None)
    end.
Proof.
  intros Hu Hv Hb Ho.
  pose proof (KDFa_returns D cb alg key label u v bits cin out use_digest_size cb Hu Hv
    (reflexivity cb) Hb Ho) as N.
  destruct (iesys_crypto_KDFa _ _ _ _ _ _ _ _ _ _) as [[cb' x]|] eqn:E; [|done].
  exists cb', x. split; [done|]. destruct x as [r|[out' cout]]; [done|].
  pose proof E as E'. unfold iesys_crypto_KDFa in E'.
  apply bind_goes in E' as (? & h & E1 & _). apply digest_size_goes in E1 as [_ Hh].
  apply (KDFa_goes D cb _ _ _ _ _ _ _ _ _ _ _ _ _ h) in E as (r & w & R & _ & -> & W & M); [|done..].
  by exists h, r, w.
Qed.

Lemma xor_bytes_twice d m : (length d <= length m)%nat -> xor_bytes (xor_bytes d m) m = d.
Proof.
  unfold xor_bytes. revert m. induction d as [|a d IH]; intros [|b m] L; cbn in *; try done; [lia|].
  f_equal; [|apply IH; lia]. by rewrite Z.lxor_assoc, Z.lxor_nilpotent, Z.lxor_0_r.
Qed.

Lemma length_xor_bytes d m : (length d <= length m)%nat -> length (xor_bytes d m) = length d.
Proof. intros L. unfold xor_bytes. rewrite length_zip_with. lia. Qed.

(** C26: The obfuscation of a parameter returns, and doing it again with the
    same key and nonces gives the parameter back: what one side obfuscates the
    other side recovers. *)
Theorem esys_xor_roundtrip (D : crypto_model U K) (cb : ESYS_CRYPTO_CALLBACKS U K)
    {L : CryptoLaws D cb} alg key u v data :
  fits u -> fits v ->
  exists cb1 x, iesys_xor_parameter_obfuscation alg key u v data cb = Ret (cb1, x) /\
    match x with
    | inl _ => True
    | inr masked => length masked = length data /\
        exists cb2 y, iesys_xor_parameter_obfuscation alg key u v masked cb1 = Ret (cb2, y) /\
          match y with inl _ => True | inr data' => data' = data end
    end.
Proof.
  intros Hu Hv.
  assert (forall d c, same_backend cb c -> exists c' x,
    iesys_xor_parameter_obfuscation alg key u v d c = Ret (c', x)) as Run.
  { intros d c B. pose proof (obfuscation_returns D cb alg key u v d c Hu Hv B) as N.
    destruct (iesys_xor_parameter_obfuscation _ _ _ _ _ _) as [[c' x]|]; [eauto|done]. }
  destruct (Run data cb) as (cb1 & x & E); [done|]. exists cb1, x. split; [done|].
  destruct x as [r|masked]; [done|].
  assert (exists h, digest_size alg = Some h) as [h Hh].
  { pose proof E as E'. unfold iesys_xor_parameter_obfuscation in E'.
    apply bind_goes in E' as (? & h & E1 & _). apply digest_size_goes in E1 as [_ Hh]. eauto. }
  pose proof (digest_size_pos _ _ Hh) as P.
  apply (obfuscation_goes D cb) in E as [B ->]; [|done].
  set (m := kdfa_blocks _ _ _ _ _ _ _ _ _).
  assert (length data <= length m)%nat as Lm.
  { pose proof (Zlen_kdfa_blocks D cb (length data) alg key (Some "XOR"%string) u v
      (wrap 32 (8 * Zlen data)) 0 h Hh) as Z1. fold m in Z1. unfold Zlen in Z1. nia. }
  split; [by apply length_xor_bytes|].
  destruct (Run (xor_bytes data m) cb1) as (cb2 & y & E); [done|]. exists cb2, y. split; [done|].
  destruct y as [r|data']; [done|]. apply (obfuscation_goes D cb) in E as [_ ->]; [|done].
  unfold Zlen. rewrite length_xor_bytes by done. fold (Zlen data). fold m. by apply xor_bytes_twice.
Qed.

(** ** The protocol of a command *)

(** The number of submissions that fits the phase *)
Definition proto_ok (m : proto) : Prop :=
  if waiting (phase m) then 1 <= submissions m <= ESYS_MAX_SUBMISSIONS
  else 0 <= submissions m <= ESYS_MAX_SUBMISSIONS + 1.

Ltac phase_cbn := cbn [phase submissions];
  repeat match goal with |- context [waiting ?s] =>
    is_constructor s; let b := eval vm_compute in (waiting s) in change (waiting s) with b end; cbv iota.

Lemma proto_step_ok m l m' : proto_step m l m' -> proto_ok m -> proto_ok m'.
Proof.
  assert (ESYS_MAX_SUBMISSIONS = 5) as EM by done. unfold proto_ok.
  destruct l as [x|x]; cbn [proto_step].
  - intros [|N|R|r R|r R] I; [done|done|phase_cbn; lia..].
  - intros [N|W|r W _|r W Hr|r W Hr|r W _ _|r W _|r W _|r W] I; [done|..]; rewrite W in I;
      phase_cbn; lia.
Qed.

(** C16: Along every sequence of calls of the [_Async] and [_Finish] functions of
    the 130 commands, with any arguments and any transport, the context moves as
    the abstract machine of EsysMachine.v: a call out of order returns BAD_SEQUENCE and changes
    nothing, [_Finish] ends the command, leaves it waiting, or submits it again
    while fewer than five submissions were made, and every error leads to the
    state that the machine gives. The number of submissions stays in bounds. *)
Theorem esys_protocol (c c' : CTX) tr :
  esys_run c tr c' ->
  proto_run (proto_of c) tr (proto_of c') /\ (proto_ok (proto_of c) -> proto_ok (proto_of c')).
Proof.
  induction 1 as [c|c l c1 tr c' St _ [IH1 IH2]]; [split; [constructor|done]|].
  apply esys_call_step in St. split.
  - by eapply proto_next.
  - intros I. by apply IH2, (proto_step_ok _ _ _ St).
Qed.

(** C17: The loop of every one-call function ends over a transport that waits
    for the response when it is told to, as long as no result of
    [Tss2_Sys_ExecuteFinish], response codes of the TPM included, has the base
    number of TRY_AGAIN: it calls [_Finish] at most six times, and six units of
    fuel give its result. (A response code with that base number makes the loop
    wait for another response.) *)
Theorem esys_one_call_ends {B} (finish : M CTX B) Inv (c : CTX) :
  is_finish finish -> answers Inv -> Inv (sys c) -> timeout c = -1 -> 1 <= submissionCount c ->
  exists n o, (n <= 6)%nat /\ loop_run finish n c o /\
    forall fuel, (6 <= fuel)%nat -> finish_loop fuel finish c = o.
Proof.
  intros Hf Hi I T N.
  destruct (finish_ends finish (finish_finishes _ Hf) Inv Hi 4 c I T) as (n & o & L & R).
  { unfold ESYS_MAX_SUBMISSIONS. lia. }
  exists n, o. split; [lia|]. split; [done|]. intros fuel Lf. apply (loop_run_finish _ n); [done|lia].
Qed.

(** C18: A command does not stay under way: over a transport that waits for the
    response when it is told to and takes the command again when the TPM asks
    for it, at most six calls of [_Finish] end it. When the last one returns,
    the context is ready for the next command, or in the state of an internal
    error; after a success it is always ready. *)
Theorem esys_command_over {B} (finish : M CTX B) Inv (c : CTX) :
  is_finish finish -> answers Inv -> takes Inv -> Inv (sys c) -> timeout c = -1 ->
  waiting (state c) = true -> 1 <= submissionCount c ->
  exists n o, (n <= 6)%nat /\ loop_run finish n c o /\
    forall c' x, o = Ret (c', x) ->
      (state c' = ESYS_STATE_INIT \/ state c' = ESYS_STATE_INTERNALERROR) /\
      (forall b, x = inr b -> state c' = ESYS_STATE_INIT).
Proof.
  intros Hf Hi Ht I T W N. pose proof (finish_finishes _ Hf) as Hfin.
  destruct (finish_ends finish Hfin Inv Hi 4 c I T) as (n & o & L & R).
  { unfold ESYS_MAX_SUBMISSIONS. lia. }
  exists n, o. split; [lia|]. split; [done|]. intros c' x ->.
  apply (finish_over finish Hfin Inv Hi Ht n c); [done|by left].
Qed.

(** ** The objects *)

(** C23: [esys_GetResourceObject] is the lookup of a finite map from handles to
    objects that makes the objects of the standard handles when they are first
    asked for: on every branch it gives the object of the handle and leaves the
    map, or adds a new object with the handle and the name of the TPM, or
    returns an error and leaves the map. *)
Theorem esys_get_object (c : CTX) h :
  table_ok c ->
  exists c' x, esys_GetResourceObject h c = Ret (c', x) /\ table_ok c' /\
    match x with
    | inr None => h = ESYS_TR_NONE /\ c' = c
    | inr (Some p) => table c' !! h = Some p /\ h <> ESYS_TR_NONE /\
        (table c !! h = Some p /\ c' = c \/
         table c !! h = None /\ h < ESYS_TR_MIN_OBJECT /\
         exists t, iesys_handle_to_tpm_handle h = inr t /\ created c c' h p (standard_node h t))
    | inl r => table c' = table c /\ heap c' = heap c /\ table c !! h = None /\
        (ESYS_TR_MIN_OBJECT <= h /\ r = TSS2_ESYS_RC_BAD_TR \/
         h < ESYS_TR_MIN_OBJECT /\ iesys_handle_to_tpm_handle h = inl r \/
         h < ESYS_TR_MIN_OBJECT /\ r = TSS2_ESYS_RC_MEMORY /\ calloc_fails (callocs c) = true)
    end.
Proof.
  intros O. destruct (decide (h = ESYS_TR_NONE)) as [->|N].
  { exists c, (inr None). unfold esys_GetResourceObject. by rewrite Z.eqb_refl. }
  rewrite get_object_run by done. destruct (table c !! h) as [p|] eqn:E.
  { exists c, (inr (Some p)). split_and!; [done..|]. by left. }
  destruct (Z.leb_spec ESYS_TR_MIN_OBJECT h) as [Hm|Hm].
  { eexists c, (inl _). split_and!; [done..|]. by left. }
  destruct (iesys_handle_to_tpm_handle h) as [r|t] eqn:Et.
  { exists c, (inl r). split_and!; [done..|]. right. by left. }
  cbv zeta. destruct (calloc_fails (callocs c)) eqn:Ec.
  { eexists (set_callocs _ c), (inl _). split_and!; [done|by destruct O|done..|]. right. by right. }
  pose proof (get_object_created h t c O E) as Cr. eexists _, (inr (Some _)). split; [done|].
  split; [apply Cr|]. split; [rewrite (created_table _ _ _ _ _ Cr); apply lookup_insert_eq|].
  split; [done|]. right. split; [done|]. split; [done|]. exists t. by split.
Qed.

(** C24: [Esys_TR_Close] of a handle that the map does not have returns BAD_TR
    and changes nothing; of an object in use several times it only counts down
    and leaves the handle; of any other it removes exactly this entry from the
    map, frees the object and gives ESYS_TR_NONE back. *)
Theorem esys_close_object (c : CTX) h :
  table_ok c ->
  exists c' x, Esys_TR_Close h c = Ret (c', x) /\ table_ok c' /\
    match table c !! h with
    | None => x = inl TSS2_ESYS_RC_BAD_TR /\ c' = c
    | Some p => exists n, heap c !! p = Some n /\ esys_handle n = h /\
        if 1 <? reference_count n then
          x = inr h /\ table c' = table c /\
          heap c' = <[p := set_reference_count (reference_count n - 1) n]> (heap c)
        else x = inr ESYS_TR_NONE /\ table c' = delete h (table c) /\ heap c' = delete p (heap c)
    end.
Proof.
  intros O. pose proof (close_object_run (rsrc_list c) h c (ok_nodes c O)) as R.
  unfold Esys_TR_Close, bind at 1, get at 1. unfold bind at 1. fold (table c) in R.
  destruct (table c !! h) as [p|] eqn:E; [|rewrite R; by eexists c, (inl _)].
  destruct R as (l1 & l2 & n & El & N & Eh & ->).
  destruct (1 <? reference_count n) eqn:Rc.
  - eexists _, (inr h). split; [done|].
    assert (forall l, entries (<[p := set_reference_count (reference_count n - 1) n]> (heap c)) l
              = entries (heap c) l) as En by (intros l; by apply (entries_update _ _ _ n)).
    split; [|exists n; rewrite Rc; split_and!; [done..| |done]; unfold table, table_of; cbn; by rewrite En].
    destruct O as [F ND Fr]. split; cbn.
    + eapply list.Forall_impl; [exact F|]. intros q Hq. cbn. destruct (decide (q = p)) as [->|];
        [by rewrite lookup_insert_eq|by rewrite lookup_insert_ne].
    + by rewrite En.
    + intros q Hq. apply Fr. destruct (decide (q = p)) as [->|]; [by eexists|].
      by rewrite lookup_insert_ne in Hq.
  - eexists _, (inr ESYS_TR_NONE). split; [done|].
    match goal with |- table_ok ?x /\ _ => destruct (remove_node c x h p n l1 l2) as [T O'] end; [done..|].
    split; [done|]. exists n. by rewrite Rc.
Qed.

End Props.

(** ** Concrete cases *)

#[local] Existing Instance little_endian_host.
#[local] Existing Instance calloc_succeeds.

Lemma hmac_before_ok :
  command_code_ok hmac_before /\ no_gaps hmac_before /\ crypto_backend hmac_before = toy_backend [].
Proof.
  split; [split; by vm_compute|]. split; [|by vm_compute].
  assert (used hmac_before 0 /\ used hmac_before 1) as [U0 U1].
  { split; [left|right; exists 1%nat]; by vm_compute. }
  intros [|[|i]] j L _; [done..|lia].
Qed.

Lemma esys_gen_auths_witness :
  exists c' auths,
    iesys_gen_auths (Some 0%nat) None None stack_auths hmac_before = Ret (c', inr auths) /\
    same_call (set_auth_objects [Some 0%nat; None; None] hmac_before) c' /\
    auths_ok toy c' (decrypt_nonce c') (encrypt_nonce c') auths.
Proof.
  destruct (succeeded_run (iesys_gen_auths (Some 0%nat) None None stack_auths) hmac_before)
    as (c' & auths & E); [by vm_compute|].
  exists c', auths. split; [exact E|]. destruct hmac_before_ok as (Hc & Hg & Eb).
  apply (esys_gen_auths toy hmac_before c' (L:=eq_rect_r (CryptoLaws toy) (toy_laws []) Eb)
    (Some 0%nat) None None auths Hc Hg E).
Defined.

Lemma esys_session_check_witness :
  let c' := after (init_session_tab session_handle ESYS_TR_PASSWORD ESYS_TR_NONE) busy_before in
  check_session_feasibility session_handle ESYS_TR_PASSWORD ESYS_TR_NONE 1 = TSS2_RC_SUCCESS /\
  no_gaps c'.
Proof.
  set (c' := after _ _). split; [by vm_compute|].
  destruct (esys_session_check session_handle ESYS_TR_PASSWORD ESYS_TR_NONE 1 busy_before c')
    as (Us & _ & G); [by split|by vm_compute|].
  apply G; [by vm_compute|]. intros [|i] j Hij Ej.
  - by apply (Us 0%nat session_handle).
  - destruct j as [|[|[|j]]]; first [lia | by vm_compute in Ej].
Defined.

(** The context between the arrival of the response and its check *)
Definition example_received : ESYS_CONTEXT unit toy_data nat :=
  after (random_async ;! esys_receive) random_before.

Lemma example_received_laws : CryptoLaws toy (crypto_backend example_received).
Proof.
  assert (crypto_backend example_received = toy_backend (userdata (crypto_backend example_received)))
    as -> by by vm_compute.
  apply toy_laws.
Qed.

Lemma esys_response_checked_witness :
  exists c' rsp, iesys_check_response example_received = Ret (c', inr tt) /\
    response_auths example_received rsp /\ response_authentic toy example_received rsp.
Proof.
  destruct (succeeded_run iesys_check_response example_received) as (c' & [] & E); [by vm_compute|].
  destruct (esys_response_checked toy example_received c' (L:=example_received_laws)) as (rsp & R & A);
    [split; by vm_compute|by vm_compute|by vm_compute|exact E|].
  exists c', rsp. exact (conj E (conj R A)).
Defined.

Lemma esys_KDFa_witness :
  exists cb' x, iesys_crypto_KDFa TPM2_ALG_SHA256 [1; 2] (Some "CFB"%string) random_nonce random_nonce
      384 None (replicate 64 0) false (toy_backend []) = Ret (cb', x) /\
    match x with
    | inl _ => True
    | inr (out', cout) => exists h r w, digest_size TPM2_ALG_SHA256 = Some h /\
        blocks_for ((384 + 7) / 8) h r /\
        mem_write (replicate 64 0) 0 (kdfa_blocks toy r TPM2_ALG_SHA256 [1; 2] (Some "CFB"%string)
          random_nonce random_nonce 384 0) = Some w /\
        mask_first 384 w = Ret out' /\ cout = None
    end.
Proof.
  apply (esys_KDFa toy (toy_backend []) TPM2_ALG_SHA256 [1; 2] (Some "CFB"%string) random_nonce
    random_nonce 384 None (replicate 64 0) false).
  - split; by vm_compute.
  - split; by vm_compute.
  - lia.
  - intros h [= <-]. by vm_compute.
Defined.

Lemma esys_xor_roundtrip_witness :
  exists cb1 x, iesys_xor_parameter_obfuscation TPM2_ALG_SHA256 [1; 2] random_nonce random_nonce
      (replicate 70 33) (toy_backend []) = Ret (cb1, x) /\
    match x with
    | inl _ => True
    | inr masked => length masked = 70%nat /\
        exists cb2 y, iesys_xor_parameter_obfuscation TPM2_ALG_SHA256 [1; 2] random_nonce
            random_nonce masked cb1 = Ret (cb2, y) /\
          match y with inl _ => True | inr data' => data' = replicate 70 33 end
    end.
Proof.
  apply (esys_xor_roundtrip toy (toy_backend []) TPM2_ALG_SHA256 [1; 2] random_nonce random_nonce
    (replicate 70 33)); split; by vm_compute.
Defined.

Lemma random_call_async (c c' : ESYS_CONTEXT unit toy_data nat) :
  random_async c = Ret (c', inr tt) -> esys_call c (Async (inr tt)) c'.
Proof. intros E. by apply (call_async c random_async c' (inr tt) (Async_GetRandom _ _ _ _)). Qed.

Lemma random_call_finish (c c' : ESYS_CONTEXT unit toy_data nat) r :
  random_finish c = Ret (c', inr r) -> esys_call c (Finish (inr tt)) c'.
Proof. intros E. by apply (call_finish c random_finish c' (inr r) (Finish_GetRandom true)). Qed.

Lemma random_run :
  exists c', esys_run random_before [Async (inr tt); Finish (inr tt)] c'.
Proof.
  destruct (succeeded_run random_async random_before) as (c1 & [] & E1); [by vm_compute|].
  destruct (succeeded_run random_finish (after random_async random_before)) as (c2 & r & E2);
    [by vm_compute|].
  rewrite (after_run _ _ _ _ E1) in E2. exists c2.
  apply (esys_next _ _ c1 _ _ (random_call_async _ _ E1)).
  apply (esys_next _ _ c2 _ _ (random_call_finish _ _ _ E2)). apply esys_done.
Qed.

Lemma esys_protocol_witness :
  exists c', esys_run random_before [Async (inr tt); Finish (inr tt)] c' /\
    proto_run (Proto ESYS_STATE_INIT 0) [Async (inr tt); Finish (inr tt)] (proto_of c') /\
    proto_ok (proto_of c').
Proof.
  destruct random_run as [c' R]. exists c'. split; [exact R|].
  destruct (esys_protocol random_before c' _ R) as [P I].
  split; [exact P|apply I]. split; by vm_compute.
Defined.

(** The System API contexts of the command that the TPM always asks for again *)
Definition busy_received : ESYS_CONTEXT unit toy_data nat :=
  after (sys_m (Tss2_Sys_ExecuteFinish (-1))) busy_sent.
Definition busy_again : ESYS_CONTEXT unit toy_data nat :=
  after (sys_m Tss2_Sys_ExecuteAsync) busy_received.
Definition busy (b : blob unit) : Prop :=
  b = sys busy_sent \/ b = sys busy_received \/ b = sys busy_again.

Lemma busy_answers : answers busy.
Proof.
  split.
  - intros b r b' [->|[->| ->]] E; vm_compute in E; injection E as <- <-;
      (split; [done|right; left; by vm_compute]).
  - intros b r b' [->|[->| ->]] E; vm_compute in E; injection E as <- <-;
      [left|right; right..]; by vm_compute.
Qed.

(** A response is received once, so the second context has none to be asked for. *)
Lemma busy_takes : takes busy.
Proof.
  intros b r b1 q b2 [->|[->| ->]] Ef Rs Ea; vm_compute in Ef; injection Ef as <- <-;
    by vm_compute in Rs, Ea; simplify_eq.
Qed.

Lemma esys_one_call_ends_witness :
  exists n o, (n <= 6)%nat /\ loop_run random_finish n busy_sent o /\
    forall fuel, (6 <= fuel)%nat -> finish_loop fuel random_finish busy_sent = o.
Proof.
  apply (esys_one_call_ends random_finish busy).
  - apply Finish_GetRandom.
  - exact busy_answers.
  - by left.
  - by vm_compute.
  - by vm_compute.
Defined.

Lemma esys_command_over_witness :
  exists n o, (n <= 6)%nat /\ loop_run random_finish n busy_sent o /\
    forall c' x, o = Ret (c', x) ->
      (state c' = ESYS_STATE_INIT \/ state c' = ESYS_STATE_INTERNALERROR) /\
      (forall b, x = inr b -> state c' = ESYS_STATE_INIT).
Proof.
  apply (esys_command_over random_finish busy).
  - apply Finish_GetRandom.
  - exact busy_answers.
  - exact busy_takes.
  - by left.
  - by vm_compute.
  - by vm_compute.
  - by vm_compute.
Defined.

Lemma esys_get_object_witness :
  exists c' x, esys_GetResourceObject ESYS_TR_RH_OWNER busy_before = Ret (c', x) /\ table_ok c' /\
    match x with
    | inr None => ESYS_TR_RH_OWNER = ESYS_TR_NONE /\ c' = busy_before
    | inr (Some p) => table c' !! ESYS_TR_RH_OWNER = Some p /\ ESYS_TR_RH_OWNER <> ESYS_TR_NONE /\
        (table busy_before !! ESYS_TR_RH_OWNER = Some p /\ c' = busy_before \/
         table busy_before !! ESYS_TR_RH_OWNER = None /\ ESYS_TR_RH_OWNER < ESYS_TR_MIN_OBJECT /\
         exists t, iesys_handle_to_tpm_handle ESYS_TR_RH_OWNER = inr t /\
           created busy_before c' ESYS_TR_RH_OWNER p (standard_node ESYS_TR_RH_OWNER t))
    | inl r => table c' = table busy_before /\ heap c' = heap busy_before /\
        table busy_before !! ESYS_TR_RH_OWNER = None /\
        (ESYS_TR_MIN_OBJECT <= ESYS_TR_RH_OWNER /\ r = TSS2_ESYS_RC_BAD_TR \/
         ESYS_TR_RH_OWNER < ESYS_TR_MIN_OBJECT /\ iesys_handle_to_tpm_handle ESYS_TR_RH_OWNER = inl r \/
         ESYS_TR_RH_OWNER < ESYS_TR_MIN_OBJECT /\ r = TSS2_ESYS_RC_MEMORY /\
           calloc_fails (callocs busy_before) = true)
    end.
Proof. apply (esys_get_object busy_before ESYS_TR_RH_OWNER), example_table. Defined.

Lemma esys_close_object_witness :
  exists c' x, Esys_TR_Close session_handle busy_before = Ret (c', x) /\ table_ok c' /\
    match table busy_before !! session_handle with
    | None => x = inl TSS2_ESYS_RC_BAD_TR /\ c' = busy_before
    | Some p => exists n, heap busy_before !! p = Some n /\ esys_handle n = session_handle /\
        if 1 <? reference_count n then
          x = inr session_handle /\ table c' = table busy_before /\
          heap c' = <[p := set_reference_count (reference_count n - 1) n]> (heap busy_before)
        else x = inr ESYS_TR_NONE /\ table c' = delete session_handle (table busy_before) /\
          heap c' = delete p (heap busy_before)
    end.
Proof. apply (esys_close_object busy_before session_handle), example_table. Defined.
