(* ===== verification/EsysObjectProps.v ===== *)
(** * Enhanced System API: the properties of its objects.

    What an application can rely on for the handles it is given: along every
    sequence of calls, in a failed call, across the bytes of an object, and
    for the names of its keys. *)

From stdpp Require Import gmap strings.
From S2P Require Import Prelude Common MuSpec MuBase MuBaseOk MuStruct MuStructOk MuTpm2b MuUnion TpmTypes MuTypes MuTypesOk SysCodes Sys SysOk SysCmds SysCompletes SysExec SysSafe SysProps EsysBase EsysCrypto EsysCtx EsysUtil EsysMu EsysExec EsysTr EsysAsyncs EsysFinishes EsysOneCalls EsysRegistry EsysTrMeta EsysLogic EsysCryptoOk EsysMuOk EsysUtilOk EsysMachine EsysTable EsysFrame EsysNamesOk EsysAuthOk EsysCmdsOk EsysObjects EsysObjectsCmds EsysExamples.

Open Scope tss_scope.
Open Scope esys_scope.
Open Scope Z_scope.

Section ObjectProps.
Context {H : Host} {HM : Memory} {S U K : Type}.
Abbreviation CTX := (ESYS_CONTEXT S U K).

(** C20: Whatever calls an application makes, in any order and with any
    arguments and any answers of the TPM, the list of objects stays
    well-formed: every node is allocated, no two have the same handle, the
    handles that the library chose are below its counter. While the counter
    does not wrap around, a handle that was closed stays closed: it is never
    given out for another object. *)
Theorem esys_objects n (c c' : CTX) :
  app_run n c c' -> objects_ok c ->
  EsysCtx.esys_handle_cnt c + Z.of_nat (callocs c' - callocs c) + Z.of_nat n < 2 ^ 32 ->
  objects_ok c' /\ stays_closed c c' /\ EsysCtx.esys_handle_cnt c <= EsysCtx.esys_handle_cnt c'.
Proof.
  intros R O B. apply run_evolves in R as [_ E]. destruct (E O B) as (O' & C & _ & T & _).
  split_and!; [done..|lia].
Qed.

(** C21: The [_Finish] functions of ContextLoad, CreateLoaded, CreatePrimary,
    HMAC_Start, HashSequenceStart, Load, LoadExternal, MAC_Start,
    NV_DefineSpace, SignSequenceStart and VerifySequenceStart make an object or
    nothing: when one of them fails, on any branch, the handles of the
    application have the objects that they had; when it succeeds there is
    exactly one more, with the next handle, which was not in use.
    StartAuthSession, some of whose errors leave the new object in the list, and
    EvictControl are not among them. *)
Theorem esys_new_object {B} (hd : B -> Z) (m : M CTX B) (c c' : CTX) x :
  is_creating hd m -> objects_ok c -> m c = Ret (c', x) ->
  table_ok c' /\
  match x with
  | inl _ => table c' = table c
  | inr a => table c !! hd a = None /\
      exists p n, table c' = <[hd a := p]> (table c) /\ heap c' !! p = Some n /\ reference_count n = 0
  end.
Proof.
  intros C O E. pose proof (creating_makes hd m C c c' x O E) as R. destruct x as [r|a].
  - exact R.
  - by destruct R as (_ & N & O' & _ & R).
Qed.

(** C19: A command that loads or creates a key succeeds only when the name that
    the TPM returns is the name of the public area: for every back end that
    computes digests, the object of the new handle has the algorithm
    identifier and the digest of the marshaled public area as its name. *)
Theorem esys_key_names (D : crypto_model U K) {B} (hd : B -> Z) (m : M CTX B) (c c' : CTX) x
    {L : CryptoLaws D (crypto_backend c)} :
  makes_key hd m -> objects_ok c -> goes m c c' x ->
  exists p n, table c' !! hd x = Some p /\ heap c' !! p = Some n /\ named_key D n.
Proof. intros M O E. by apply (key_named D hd m c). Qed.

End ObjectProps.

(** C22: What [Esys_TR_Serialize] writes of an object, [Esys_TR_Deserialize]
    reads in any other context, on another host and with other bytes after it:
    the new object has the next handle, which was not in use, the same
    metadata, and no authorization value; the other objects are as they were. *)
Theorem esys_serialize_roundtrip {HM : Memory} {S U K S' U' K' : Type} (H1 H2 : Host)
    (c c1 : ESYS_CONTEXT S U K) (d : ESYS_CONTEXT S' U' K') h r w v rest :
  table_ok c -> known_object c h r -> s_wf spec_IESYS_RESOURCE r ->
  s_wire spec_IESYS_RESOURCE r = Some w -> Zlen w + Zlen rest < size_max - 1 ->
  Esys_TR_Serialize (H:=H1) h c = Ret (c1, inr v) ->
  bytes_ok rest -> objects_ok d -> calloc_fails (callocs d) = false ->
  exists d' p n, Esys_TR_Deserialize (H:=H2) (Some (v ++ rest)) (Zlen (v ++ rest)) d
                 = Ret (d', inr (EsysCtx.esys_handle_cnt d)) /\
    created d d' (EsysCtx.esys_handle_cnt d) p n /\ s_eqv spec_IESYS_RESOURCE (rsrc n) r /\
    EsysCtx.auth n = zero_2b cap_TPM2B_DIGEST.
Proof.
  intros O Kn Wr Ew Lw Es Br Od Cd. pose proof (Zlen_nonneg rest).
  rewrite (serialize_run c h r w) in Es by (done || lia).
  destruct (calloc_fails (callocs c)); [done|]. injection Es as <- <-.
  apply deserialize_run; try done; [apply Od|by apply counter_new|rewrite Zlen_app; lia].
Qed.

(** ** Concrete cases *)

#[local] Existing Instance little_endian_host.
#[local] Existing Instance calloc_succeeds.

(** A data object without a scheme *)
Definition example_area : TPMT_PUBLIC :=
  Mk_TPMT_PUBLIC TPM2_ALG_KEYEDHASH TPM2_ALG_SHA256 0x40 (zero_2b cap_TPM2B_DIGEST)
    (TPMU_PUBLIC_PARMS_of_TPMS_KEYEDHASH_PARMS (Mk_TPMS_KEYEDHASH_PARMS
      (mset TPMT_KEYEDHASH_SCHEME'scheme TPM2_ALG_NULL zero_TPMT_KEYEDHASH_SCHEME)))
    (TPMU_PUBLIC_ID_of_TPM2B_DIGEST (zero_2b cap_TPM2B_DIGEST)).
Definition example_public : TPM2B_SUB TPMT_PUBLIC := MkTPM2B_SUB 0 example_area.
Definition example_area_wire : bytes := [0; 8; 0; 11; 0; 0; 0; 64; 0; 0; 0; 16; 0; 0].

(** The answer to the command that loads it *)
Definition loaded_response : bytes :=
  let name := EsysNamesOk.name_of toy TPM2_ALG_SHA256 example_area_wire in
  let body := be_bytes 4 0x80000002 ++ be_bytes 2 (Zlen name) ++ name in
  rsp_image TPM2_ST_NO_SESSIONS (10 + Zlen body) 0 ++ body.
Definition load_before : ESYS_CONTEXT unit toy_data nat :=
  example_context (fresh_context (replies loaded_response) 256) 1.
Definition load_sent : ESYS_CONTEXT unit toy_data nat :=
  after (Esys_LoadExternal_Async ESYS_TR_NONE ESYS_TR_NONE ESYS_TR_NONE None (Some example_public)
    ESYS_TR_RH_NULL) load_before.
Definition load_finish_example : M (ESYS_CONTEXT unit toy_data nat) Z := Esys_LoadExternal_Finish true.

Lemma example_objects {S} (b : blob S) attributes : objects_ok (example_context b attributes).
Proof.
  split; [apply example_table| |by vm_compute]. intros h p E.
  assert (table (example_context b attributes) = {[key_handle := 0%nat; session_handle := 1%nat]})
    as T by by vm_compute.
  rewrite T in E. right. apply lookup_insert_Some in E as [[<- _]|[_ E]]; [by vm_compute|].
  by apply lookup_singleton_Some in E as [<- _].
Qed.

Lemma load_sent_objects : objects_ok load_sent.
Proof.
  destruct (succeeded_run (Esys_LoadExternal_Async ESYS_TR_NONE ESYS_TR_NONE ESYS_TR_NONE None
    (Some example_public) ESYS_TR_RH_NULL) load_before) as (c' & [] & E); [by vm_compute|].
  assert (c' = load_sent) as -> by (symmetry; exact (after_run _ _ _ _ E)).
  pose proof (application_evolves _ (App_async _ (Async_LoadExternal _ _ _ _ _ _)) _ _ _ E) as [_ Ev].
  apply Ev; [apply example_objects|by vm_compute].
Qed.

Lemma load_sent_laws : CryptoLaws toy (crypto_backend load_sent).
Proof.
  assert (crypto_backend load_sent = toy_backend (userdata (crypto_backend load_sent)))
    as -> by by vm_compute.
  apply toy_laws.
Qed.

Lemma load_finish_runs :
  exists c' h, load_finish_example load_sent = Ret (c', inr h).
Proof. apply succeeded_run. by vm_compute. Qed.

Lemma esys_new_object_witness :
  exists c' h, load_finish_example load_sent = Ret (c', inr h) /\ table_ok c' /\
    table load_sent !! h = None /\
    exists p n, table c' = <[h := p]> (table load_sent) /\ heap c' !! p = Some n /\ reference_count n = 0.
Proof.
  destruct load_finish_runs as (c' & h & E). exists c', h. split; [exact E|].
  exact (esys_new_object id load_finish_example load_sent c' (inr h) (Creating_LoadExternal true)
    load_sent_objects E).
Defined.

Lemma esys_key_names_witness :
  exists c' h p n, load_finish_example load_sent = Ret (c', inr h) /\
    table c' !! h = Some p /\ heap c' !! p = Some n /\ named_key toy n.
Proof.
  destruct load_finish_runs as (c' & h & E).
  destruct (esys_key_names toy id load_finish_example load_sent c' h (L:=load_sent_laws)
    (Key_LoadExternal true) load_sent_objects E) as (p & n & R).
  exists c', h, p, n. exact (conj E R).
Defined.

(** A session is closed, bytes that are none are refused, and a key is closed. *)
Definition closed_session : ESYS_CONTEXT unit toy_data nat :=
  after (Esys_TR_Close session_handle) busy_before.
Lemma after_step {St A} (m : M St A) (s : St) :
  match m s with Ret _ => true | Undef => false end = true -> exists x, m s = Ret (after m s, x).
Proof. unfold after. destruct (m s) as [[s' x]|]; [by exists x|done]. Qed.

Definition defined {St A} (o : outcome (St * A)) : bool := if o is Ret _ then true else false.

Lemma two_calls {S U K A B} (m1 : M (ESYS_CONTEXT S U K) A) (m2 : M (ESYS_CONTEXT S U K) B) c :
  is_application m1 -> is_application m2 -> defined (m1 c) = true -> defined (m2 (after m1 c)) = true ->
  app_run 2 c (after m2 (after m1 c)).
Proof.
  intros A1 A2 D1 D2. destruct (after_step m1 c D1) as [x1 E1].
  destruct (after_step m2 (after m1 c) D2) as [x2 E2].
  exact (app_next 1 m1 c _ x1 _ A1 E1 (app_next 0 m2 _ _ x2 _ A2 E2 (app_done _))).
Qed.

Lemma example_calls :
  app_run 2 closed_session (after (Esys_TR_Close key_handle) (after (Esys_TR_Deserialize None 0) closed_session)).
Proof.
  apply two_calls; [apply App_Deserialize|apply App_Close|by vm_compute|by vm_compute].
Qed.

Lemma closed_session_objects : objects_ok closed_session.
Proof.
  destruct (after_step (Esys_TR_Close session_handle) busy_before) as [x E]; [by vm_compute|].
  pose proof (application_evolves _ (App_Close _) _ _ _ E) as [_ Ev].
  apply Ev; [apply example_objects|by vm_compute].
Qed.

Lemma esys_objects_witness :
  exists c', app_run 2 closed_session c' /\ table closed_session !! session_handle = None /\
    objects_ok c' /\ table c' !! session_handle = None.
Proof.
  pose proof example_calls as R. set (c' := after _ _) in R. exists c'. split; [exact R|].
  destruct (esys_objects 2 closed_session c' R closed_session_objects) as (O & T & _); [by vm_compute|].
  split; [by vm_compute|]. split; [exact O|]. apply T; [split; by vm_compute|by vm_compute].
Defined.

(** The object that was loaded, in the context of another application *)
Definition example_resource : IESYS_RESOURCE :=
  Resource 0x80000002 (example_2b cap_TPM2B_NAME (EsysNamesOk.name_of toy TPM2_ALG_SHA256 example_area_wire))
    IESYSC_KEY_RSRC (Misc_key_pub example_public).
Definition stored_before : ESYS_CONTEXT unit toy_data nat :=
  set_heap (<[0%nat := Node key_handle (zero_2b cap_TPM2B_DIGEST) example_resource 1]> (heap busy_before))
    busy_before.

Lemma example_area_wf : s_wf spec_TPMT_PUBLIC example_area.
Proof.
  unfold spec_TPMT_PUBLIC. repeat match goal with |- s_wf (spec_app _ _) _ => split end.
  - by vm_compute.
  - by vm_compute.
  - by vm_compute.
  - exact zero_TPM2B_DIGEST_wf.
  - by vm_compute.
  - exact zero_TPMU_PUBLIC_ID_wf.
  - done.
Qed.

Lemma example_resource_wf : s_wf spec_IESYS_RESOURCE example_resource.
Proof.
  unfold spec_IESYS_RESOURCE. repeat match goal with |- s_wf (spec_app _ _) _ => split end.
  - by vm_compute.
  - split; [by vm_compute|split; [|by vm_compute]]. apply (bool_decide_unpack _). by vm_compute.
  - by vm_compute.
  - split; [by vm_compute|exact example_area_wf].
  - done.
Qed.

Lemma esys_serialize_roundtrip_witness :
  exists v c1 d' p n, Esys_TR_Serialize key_handle stored_before = Ret (c1, inr v) /\
    Esys_TR_Deserialize (H:=big_endian_host) (Some (v ++ [1; 2])) (Zlen (v ++ [1; 2])) busy_before
      = Ret (d', inr (EsysCtx.esys_handle_cnt busy_before)) /\
    created busy_before d' (EsysCtx.esys_handle_cnt busy_before) p n /\
    s_eqv spec_IESYS_RESOURCE (rsrc n) example_resource /\ EsysCtx.auth n = zero_2b cap_TPM2B_DIGEST.
Proof.
  destruct (succeeded_run (Esys_TR_Serialize key_handle) stored_before) as (c1 & v & E); [by vm_compute|].
  destruct (s_wire spec_IESYS_RESOURCE example_resource) as [w|] eqn:Ew; [|by vm_compute in Ew].
  destruct (esys_serialize_roundtrip little_endian_host big_endian_host stored_before c1 busy_before
    key_handle example_resource w v [1; 2]) as (d' & p & n & R).
  - eapply table_ok_set_node; [reflexivity|reflexivity|apply example_table].
  - split; [done|]. eexists 0%nat, _. split; [by vm_compute|]. split; [apply lookup_insert_eq|done].
  - exact example_resource_wf.
  - exact Ew.
  - vm_compute in Ew. injection Ew as <-. by vm_compute.
  - exact E.
  - repeat constructor; vm_compute; congruence.
  - apply example_objects.
  - reflexivity.
  - exists v, c1, d', p, n. exact (conj E R).
Defined.
