(* ===== verification/JsonCodes.v ===== *)
(** * Constants of the TPM types that FAPI writes to and reads from JSON.

    [include/tss2/tss2_tpm2_types.h]: the algorithms, curves, structure tags,
    capabilities, properties and attribute bits that the tables of
    [src/tss2-fapi/tpm_json_serialize.c] and [tpm_json_deserialize.c] name and
    that no other component uses, and [include/tss2/tss2_common.h]: the
    response codes of FAPI. *)

From S2P Require Import Prelude Common MuUnion MuPcr TpmTypes SysCodes Sys EsysBase EsysTr.

(** Constants of the components below, under their own names. *)
Abbreviation TPM2_ALG_CFB := EsysBase.TPM2_ALG_CFB (only parsing).
Abbreviation TPM2_HR_SHIFT := EsysBase.TPM2_HR_SHIFT (only parsing).
Abbreviation TPM2_HT_NV_INDEX := EsysBase.TPM2_HT_NV_INDEX (only parsing).
Abbreviation TPM2_NV_INDEX_FIRST := EsysBase.TPM2_NV_INDEX_FIRST (only parsing).
Abbreviation TPM2_NV_INDEX_LAST := EsysBase.TPM2_NV_INDEX_LAST (only parsing).
Abbreviation TPM2_RH_ENDORSEMENT := EsysBase.TPM2_RH_ENDORSEMENT (only parsing).
Abbreviation TPM2_RH_NULL := EsysBase.TPM2_RH_NULL (only parsing).
Abbreviation TPM2_RH_OWNER := EsysBase.TPM2_RH_OWNER (only parsing).
Abbreviation TPM2_RH_PLATFORM := EsysBase.TPM2_RH_PLATFORM (only parsing).
Abbreviation TPM2_ST_NO_SESSIONS := Sys.TPM2_ST_NO_SESSIONS (only parsing).
Abbreviation TPM2_ST_RSP_COMMAND := Sys.TPM2_ST_RSP_COMMAND (only parsing).
Abbreviation TPM2_ST_SESSIONS := Sys.TPM2_ST_SESSIONS (only parsing).
Abbreviation TPMA_NV_POLICY_DELETE := EsysTr.TPMA_NV_POLICY_DELETE (only parsing).
Abbreviation TPMA_NV_READLOCKED := EsysTr.TPMA_NV_READLOCKED (only parsing).
Abbreviation TPMA_NV_WRITELOCKED := EsysTr.TPMA_NV_WRITELOCKED (only parsing).
Abbreviation TPMA_NV_WRITTEN := EsysBase.TPMA_NV_WRITTEN (only parsing).

(** ** Response codes *)

Abbreviation TSS2_FEATURE_RC_LAYER := EsysTr.TSS2_FEATURE_RC_LAYER (only parsing).
Definition TSS2_FAPI_RC_GENERAL_FAILURE := Z.lor TSS2_FEATURE_RC_LAYER TSS2_BASE_RC_GENERAL_FAILURE.
Definition TSS2_FAPI_RC_BAD_REFERENCE := Z.lor TSS2_FEATURE_RC_LAYER TSS2_BASE_RC_BAD_REFERENCE.
Abbreviation TSS2_FAPI_RC_BAD_VALUE := EsysTr.TSS2_FAPI_RC_BAD_VALUE.
Definition TSS2_FAPI_RC_MEMORY := Z.lor TSS2_FEATURE_RC_LAYER EsysBase.TSS2_BASE_RC_MEMORY.

(** ** Constants *)

Definition YES := 1.
Definition NO := 0.
Definition TPM2_ALG_ERROR := 0.
Definition TPM2_ALG_TDES := 3.
Definition TPM2_ALG_SHA := 4.
Definition TPM2_ALG_CMAC := 63.
Definition TPM2_ALG_CTR := 64.
Definition TPM2_ALG_SHA3_256 := 39.
Definition TPM2_ALG_SHA3_384 := 40.
Definition TPM2_ALG_SHA3_512 := 41.
Definition TPM2_ALG_OFB := 65.
Definition TPM2_ALG_CBC := 66.
Definition TPM2_ALG_ECB := 68.
Definition TPM2_ECC_NONE := 0.
Definition TPM2_ECC_NIST_P192 := 1.
Definition TPM2_ECC_NIST_P224 := 2.
Definition TPM2_ECC_NIST_P256 := 3.
Definition TPM2_ECC_NIST_P384 := 4.
Definition TPM2_ECC_NIST_P521 := 5.
Definition TPM2_ECC_BN_P256 := 16.
Definition TPM2_ECC_BN_P638 := 17.
Definition TPM2_ECC_SM2_P256 := 32.
Definition TPM2_EO_EQ := 0.
Definition TPM2_EO_NEQ := 1.
Definition TPM2_EO_SIGNED_GT := 2.
Definition TPM2_EO_UNSIGNED_GT := 3.
Definition TPM2_EO_SIGNED_LT := 4.
Definition TPM2_EO_UNSIGNED_LT := 5.
Definition TPM2_EO_SIGNED_GE := 6.
Definition TPM2_EO_UNSIGNED_GE := 7.
Definition TPM2_EO_SIGNED_LE := 8.
Definition TPM2_EO_UNSIGNED_LE := 9.
Definition TPM2_EO_BITSET := 10.
Definition TPM2_EO_BITCLEAR := 11.
Definition TPM2_ST_NULL := 32768.
Definition TPM2_ST_CREATION := 32801.
Definition TPM2_ST_VERIFIED := 32802.
Definition TPM2_ST_AUTH_SECRET := 32803.
Definition TPM2_ST_HASHCHECK := 32804.
Definition TPM2_ST_AUTH_SIGNED := 32805.
Definition TPM2_ST_FU_MANIFEST := 32809.
Definition TPM2_CAP_LAST := 10.
Definition TPM2_PT_NONE := 0.
Definition TPM2_PT_GROUP := 256.
Definition TPM2_PT_FIXED := TPM2_PT_GROUP * 1.
Definition TPM2_PT_FAMILY_INDICATOR := TPM2_PT_FIXED + 0.
Definition TPM2_PT_LEVEL := TPM2_PT_FIXED + 1.
Definition TPM2_PT_REVISION := TPM2_PT_FIXED + 2.
Definition TPM2_PT_DAY_OF_YEAR := TPM2_PT_FIXED + 3.
Definition TPM2_PT_YEAR := TPM2_PT_FIXED + 4.
Definition TPM2_PT_MANUFACTURER := TPM2_PT_FIXED + 5.
Definition TPM2_PT_VENDOR_STRING_1 := TPM2_PT_FIXED + 6.
Definition TPM2_PT_VENDOR_STRING_2 := TPM2_PT_FIXED + 7.
Definition TPM2_PT_VENDOR_STRING_3 := TPM2_PT_FIXED + 8.
Definition TPM2_PT_VENDOR_STRING_4 := TPM2_PT_FIXED + 9.
Definition TPM2_PT_VENDOR_TPM_TYPE := TPM2_PT_FIXED + 10.
Definition TPM2_PT_FIRMWARE_VERSION_1 := TPM2_PT_FIXED + 11.
Definition TPM2_PT_FIRMWARE_VERSION_2 := TPM2_PT_FIXED + 12.
Definition TPM2_PT_INPUT_BUFFER := TPM2_PT_FIXED + 13.
Definition TPM2_PT_HR_TRANSIENT_MIN := TPM2_PT_FIXED + 14.
Definition TPM2_PT_HR_PERSISTENT_MIN := TPM2_PT_FIXED + 15.
Definition TPM2_PT_HR_LOADED_MIN := TPM2_PT_FIXED + 16.
Definition TPM2_PT_ACTIVE_SESSIONS_MAX := TPM2_PT_FIXED + 17.
Definition TPM2_PT_PCR_COUNT := TPM2_PT_FIXED + 18.
Definition TPM2_PT_PCR_SELECT_MIN := TPM2_PT_FIXED + 19.
Definition TPM2_PT_CONTEXT_GAP_MAX := TPM2_PT_FIXED + 20.
Definition TPM2_PT_NV_COUNTERS_MAX := TPM2_PT_FIXED + 22.
Definition TPM2_PT_NV_INDEX_MAX := TPM2_PT_FIXED + 23.
Definition TPM2_PT_MEMORY := TPM2_PT_FIXED + 24.
Definition TPM2_PT_CLOCK_UPDATE := TPM2_PT_FIXED + 25.
Definition TPM2_PT_CONTEXT_HASH := TPM2_PT_FIXED + 26.
Definition TPM2_PT_CONTEXT_SYM := TPM2_PT_FIXED + 27.
Definition TPM2_PT_CONTEXT_SYM_SIZE := TPM2_PT_FIXED + 28.
Definition TPM2_PT_ORDERLY_COUNT := TPM2_PT_FIXED + 29.
Definition TPM2_PT_MAX_COMMAND_SIZE := TPM2_PT_FIXED + 30.
Definition TPM2_PT_MAX_RESPONSE_SIZE := TPM2_PT_FIXED + 31.
Definition TPM2_PT_MAX_DIGEST := TPM2_PT_FIXED + 32.
Definition TPM2_PT_MAX_OBJECT_CONTEXT := TPM2_PT_FIXED + 33.
Definition TPM2_PT_MAX_SESSION_CONTEXT := TPM2_PT_FIXED + 34.
Definition TPM2_PT_PS_FAMILY_INDICATOR := TPM2_PT_FIXED + 35.
Definition TPM2_PT_PS_LEVEL := TPM2_PT_FIXED + 36.
Definition TPM2_PT_PS_REVISION := TPM2_PT_FIXED + 37.
Definition TPM2_PT_PS_DAY_OF_YEAR := TPM2_PT_FIXED + 38.
Definition TPM2_PT_PS_YEAR := TPM2_PT_FIXED + 39.
Definition TPM2_PT_SPLIT_MAX := TPM2_PT_FIXED + 40.
Definition TPM2_PT_TOTAL_COMMANDS := TPM2_PT_FIXED + 41.
Definition TPM2_PT_LIBRARY_COMMANDS := TPM2_PT_FIXED + 42.
Definition TPM2_PT_VENDOR_COMMANDS := TPM2_PT_FIXED + 43.
Definition TPM2_PT_NV_BUFFER_MAX := TPM2_PT_FIXED + 44.
Definition TPM2_PT_MODES := TPM2_PT_FIXED + 45.
Definition TPM2_PT_MAX_CAP_BUFFER := TPM2_PT_FIXED + 46.
Definition TPM2_PT_VAR := TPM2_PT_GROUP * 2.
Definition TPM2_PT_PERMANENT := TPM2_PT_VAR + 0.
Definition TPM2_PT_STARTUP_CLEAR := TPM2_PT_VAR + 1.
Definition TPM2_PT_HR_NV_INDEX := TPM2_PT_VAR + 2.
Definition TPM2_PT_HR_LOADED := TPM2_PT_VAR + 3.
Definition TPM2_PT_HR_LOADED_AVAIL := TPM2_PT_VAR + 4.
Definition TPM2_PT_HR_ACTIVE := TPM2_PT_VAR + 5.
Definition TPM2_PT_HR_ACTIVE_AVAIL := TPM2_PT_VAR + 6.
Definition TPM2_PT_HR_TRANSIENT_AVAIL := TPM2_PT_VAR + 7.
Definition TPM2_PT_HR_PERSISTENT := TPM2_PT_VAR + 8.
Definition TPM2_PT_HR_PERSISTENT_AVAIL := TPM2_PT_VAR + 9.
Definition TPM2_PT_NV_COUNTERS := TPM2_PT_VAR + 10.
Definition TPM2_PT_NV_COUNTERS_AVAIL := TPM2_PT_VAR + 11.
Definition TPM2_PT_ALGORITHM_SET := TPM2_PT_VAR + 12.
Definition TPM2_PT_LOADED_CURVES := TPM2_PT_VAR + 13.
Definition TPM2_PT_LOCKOUT_COUNTER := TPM2_PT_VAR + 14.
Definition TPM2_PT_MAX_AUTH_FAIL := TPM2_PT_VAR + 15.
Definition TPM2_PT_LOCKOUT_INTERVAL := TPM2_PT_VAR + 16.
Definition TPM2_PT_LOCKOUT_RECOVERY := TPM2_PT_VAR + 17.
Definition TPM2_PT_NV_WRITE_RECOVERY := TPM2_PT_VAR + 18.
Definition TPM2_PT_AUDIT_COUNTER_0 := TPM2_PT_VAR + 19.
Definition TPM2_PT_AUDIT_COUNTER_1 := TPM2_PT_VAR + 20.
Definition TPM2_PT_TPM2_PCR_FIRST := 0.
Definition TPM2_PT_PCR_SAVE := 0.
Definition TPM2_PT_PCR_EXTEND_L0 := 1.
Definition TPM2_PT_PCR_RESET_L0 := 2.
Definition TPM2_PT_PCR_EXTEND_L1 := 3.
Definition TPM2_PT_PCR_RESET_L1 := 4.
Definition TPM2_PT_PCR_EXTEND_L2 := 5.
Definition TPM2_PT_PCR_RESET_L2 := 6.
Definition TPM2_PT_PCR_EXTEND_L3 := 7.
Definition TPM2_PT_PCR_RESET_L3 := 8.
Definition TPM2_PT_PCR_EXTEND_L4 := 9.
Definition TPM2_PT_PCR_RESET_L4 := 10.
Definition TPM2_PT_PCR_NO_INCREMENT := 17.
Definition TPM2_PT_PCR_DRTM_RESET := 18.
Definition TPM2_PT_PCR_POLICY := 19.
Definition TPM2_PT_PCR_AUTH := 20.
Definition TPM2_PT_TPM2_PCR_LAST := 20.
Definition TPM2_HT_PCR := 0.
Definition TPM2_HR_PCR := Z.shiftl TPM2_HT_PCR TPM2_HR_SHIFT.
Definition TPM2_HR_NV_INDEX := Z.shiftl TPM2_HT_NV_INDEX TPM2_HR_SHIFT.
Definition TPM2_PCR_FIRST := TPM2_HR_PCR + 0.
Definition TPM2_PCR_LAST := TPM2_PCR_FIRST + TPM2_MAX_PCRS - 1.
Definition TPMA_ALGORITHM_ASYMMETRIC := 1.
Definition TPMA_ALGORITHM_SYMMETRIC := 2.
Definition TPMA_ALGORITHM_HASH := 4.
Definition TPMA_ALGORITHM_OBJECT := 8.
Definition TPMA_ALGORITHM_SIGNING := 256.
Definition TPMA_ALGORITHM_ENCRYPTING := 512.
Definition TPMA_ALGORITHM_METHOD := 1024.
Definition TPMA_OBJECT_FIXEDTPM := 2.
Definition TPMA_OBJECT_STCLEAR := 4.
Definition TPMA_OBJECT_FIXEDPARENT := 16.
Definition TPMA_OBJECT_SENSITIVEDATAORIGIN := 32.
Definition TPMA_OBJECT_USERWITHAUTH := 64.
Definition TPMA_OBJECT_ADMINWITHPOLICY := 128.
Definition TPMA_OBJECT_NODA := 1024.
Definition TPMA_OBJECT_ENCRYPTEDDUPLICATION := 2048.
Definition TPMA_OBJECT_RESTRICTED := 65536.
Definition TPMA_OBJECT_DECRYPT := 131072.
Definition TPMA_OBJECT_SIGN_ENCRYPT := 262144.
Definition TPMA_LOCALITY_TPM2_LOC_ZERO := 1.
Definition TPMA_LOCALITY_TPM2_LOC_ONE := 2.
Definition TPMA_LOCALITY_TPM2_LOC_TWO := 4.
Definition TPMA_LOCALITY_TPM2_LOC_THREE := 8.
Definition TPMA_LOCALITY_TPM2_LOC_FOUR := 16.
Definition TPMA_LOCALITY_EXTENDED_MASK := 224.
Definition TPMA_CC_COMMANDINDEX_MASK := 65535.
Definition TPMA_CC_NV := 4194304.
Definition TPMA_CC_EXTENSIVE := 8388608.
Definition TPMA_CC_FLUSHED := 16777216.
Definition TPMA_CC_CHANDLES_MASK := 234881024.
Definition TPMA_CC_RHANDLE := 268435456.
Definition TPMA_CC_V := 536870912.
Definition TPMA_CC_RES_MASK := 3221225472.
Definition TPMA_ACT_SIGNALED := 1.
Definition TPMA_ACT_PRESERVESIGNALED := 2.
Definition TPM2_NT_ORDINARY := 0.
Definition TPM2_NT_COUNTER := 1.
Definition TPM2_NT_BITS := 2.
Definition TPM2_NT_EXTEND := 4.
Definition TPM2_NT_PIN_FAIL := 8.
Definition TPM2_NT_PIN_PASS := 9.
Definition TPMA_NV_PPWRITE := 1.
Definition TPMA_NV_OWNERWRITE := 2.
Definition TPMA_NV_AUTHWRITE := 4.
Definition TPMA_NV_POLICYWRITE := 8.
Definition TPMA_NV_TPM2_NT_MASK := 240.
Definition TPMA_NV_WRITEALL := 4096.
Definition TPMA_NV_WRITEDEFINE := 8192.
Definition TPMA_NV_WRITE_STCLEAR := 16384.
Definition TPMA_NV_GLOBALLOCK := 32768.
Definition TPMA_NV_PPREAD := 65536.
Definition TPMA_NV_OWNERREAD := 131072.
Definition TPMA_NV_AUTHREAD := 262144.
Definition TPMA_NV_POLICYREAD := 524288.
Definition TPMA_NV_NO_DA := 33554432.
Definition TPMA_NV_ORDERLY := 67108864.
Definition TPMA_NV_CLEAR_STCLEAR := 134217728.
Definition TPMA_NV_PLATFORMCREATE := 1073741824.
Definition TPMA_NV_READ_STCLEAR := 2147483648.
