(* ===== verification/JsonC.v ===== *)
(** * JSON objects, numbers and strings as the FAPI code uses them.

    json-c is not part of the repository: [JsonC] is its interface, the
    operations that [src/tss2-fapi/tpm_json_serialize.c] and
    [tpm_json_deserialize.c] call; [JsonLaws] states what its documentation
    says of them, and [Reliable] that its allocations succeed.  A JSON object
    is a value: the code builds each object once, hands it over to one
    parent, and never changes it afterwards.  [world] is the state of the
    allocator.  Giving memory back (json_object_put) is not modelled.

    The rest is the C library as the code uses it: strings without their
    terminating NUL, the case-insensitive comparisons of the C locale, decimal
    numerals, and the [sscanf] conversions of [get_number]. *)

From stdpp Require Import base strings.
From Stdlib Require Import Ascii DecimalString DecimalZ.
From S2P Require Import Prelude Common.
Open Scope Z_scope.
Open Scope tss_scope.

(** ** json-c *)

Inductive json_type :=
| json_type_null | json_type_boolean | json_type_double | json_type_int
| json_type_object | json_type_array | json_type_string.

#[export] Instance json_type_eq_dec : EqDecision json_type.
Proof. solve_decision. Defined.

Class JsonC := {
  json : Type;
  world : Type;
  json_object_new_object : world -> option json * world;
  json_object_new_array : world -> option json * world;
  json_object_new_int : Z -> world -> option json * world;
  json_object_new_int64 : Z -> world -> option json * world;
  json_object_new_string : string -> world -> option json * world;
  (* the result is 0 on success *)
  json_object_object_add : json -> string -> option json -> world -> Z * (json * world);
  json_object_array_add : json -> option json -> world -> Z * (json * world);
  json_object_get_type : option json -> json_type;
  json_object_get_string : option json -> option string;
  json_object_array_length : json -> Z;
  json_object_array_get_idx : json -> Z -> option json;
  (* [None]: no such member; a member can be the JSON value null, which is NULL *)
  json_object_object_get_ex : option json -> string -> option (option json);
  (* the members in the order in which json_object_object_foreach visits them *)
  json_object_object_members : json -> list (string * option json)
}.

(** ** The C library: characters and strings *)

Definition code (c : ascii) : Z := Z.of_nat (nat_of_ascii c).
Definition strlen (s : string) : Z := Z.of_nat (String.length s).

Definition tolower (c : ascii) : ascii :=
  if (65 <=? code c) && (code c <=? 90) then ascii_of_nat (nat_of_ascii c + 32) else c.
Definition isspace (c : ascii) : bool :=
  (code c =? 32) || ((9 <=? code c) && (code c <=? 13)).

Definition hex_value (c : ascii) : option Z :=
  let z := code c in
  if (48 <=? z) && (z <=? 57) then Some (z - 48)
  else if (65 <=? z) && (z <=? 70) then Some (z - 65 + 10)
  else if (97 <=? z) && (z <=? 102) then Some (z - 97 + 10)
  else None.
Definition dec_value (c : ascii) : option Z :=
  let z := code c in if (48 <=? z) && (z <=? 57) then Some (z - 48) else None.
(** The codes above 127 are no digits. *)
Definition isxdigit (c : ascii) : bool := bool_decide (is_Some (hex_value c)).

Fixpoint lower (s : string) : string :=
  match s with EmptyString => EmptyString | String c s => String (tolower c) (lower s) end.

(** [strcasecmp(s, t) == 0]. *)
Definition strcaseeq (s t : string) : bool := String.eqb (lower s) (lower t).

Fixpoint str_drop (n : nat) (s : string) : string :=
  match n, s with S n, String _ s => str_drop n s | _, _ => s end.

(** [strncmp(s, prefix, strlen(prefix)) == 0]. *)
Definition strprefix (prefix s : string) : bool := String.prefix prefix s.
(** [strncasecmp(s, prefix, strlen(prefix)) == 0]. *)
Definition strcaseprefix (prefix s : string) : bool := String.prefix (lower prefix) (lower s).

(** ** The C library: numbers *)

(** The decimal numeral of [z]. *)
Definition dec (z : Z) : string := NilZero.string_of_int (Z.to_int z).

(** The digits [s] begins with: their value and their number. *)
Fixpoint scan_digits (digit : ascii -> option Z) (base acc : Z) (n : Z) (s : string) : Z * Z :=
  match s with
  | String c s' =>
      match digit c with
      | Some d => scan_digits digit base (acc * base + d) (n + 1) s'
      | None => (acc, n)
      end
  | EmptyString => (acc, n)
  end.

Fixpoint skip_space (n : Z) (s : string) : Z * string :=
  match s with
  | String c s' => if isspace c then skip_space (n + 1) s' else (n, s)
  | EmptyString => (n, s)
  end.

Definition scan_sign (n : Z) (s : string) : bool * (Z * string) :=
  match s with
  | String c s' =>
      if Ascii.eqb c "-" then (true, (n + 1, s'))
      else if Ascii.eqb c "+" then (false, (n + 1, s')) else (false, (n, s))
  | EmptyString => (false, (n, s))
  end.

(** The optional [0x] of a hexadecimal number. *)
Definition scan_0x (n : Z) (s : string) : Z * string :=
  if strcaseprefix "0x" s then (n + 2, str_drop 2 s) else (n, s).

(** [sscanf(s, "%" PRId64 "%n", &num, &pos)]: [None] when the conversion
    fails, else what it stores in [num] and [pos].  A number that the type
    cannot represent is undefined behaviour. *)
Definition sscanf_d64 (s : string) : outcome (option (Z * Z)) :=
  let '(n, s) := skip_space 0 s in
  let '(neg, (n, s)) := scan_sign n s in
  let '(v, pos) := scan_digits dec_value 10 0 n s in
  if pos =? n then Ret None
  else let v := if neg then - v else v in
       if (- 2 ^ 63 <=? v) && (v <? 2 ^ 63) then Ret (Some (v, pos)) else Undef.

(** [sscanf(s, "%" PRIx64 "%n", &num, &pos)]: the unsigned number, stored in
    an [int64_t]. *)
Definition sscanf_x64 (s : string) : outcome (option (Z * Z)) :=
  let '(n, s) := skip_space 0 s in
  let '(neg, (n, s)) := scan_sign n s in
  let '(n, s) := scan_0x n s in
  let '(v, pos) := scan_digits hex_value 16 0 n s in
  if pos =? n then Ret None
  else if v <? 2 ^ 64 then
    let u := (if neg then - v else v) mod 2 ^ 64 in
    Ret (Some (if u <? 2 ^ 63 then u else u - 2 ^ 64, pos))
  else Undef.

(** The digits of a byte as [sprintf("%02x")] writes them. *)
Definition hex_char (d : Z) : ascii :=
  if d <? 10 then ascii_of_nat (Z.to_nat (48 + d)) else ascii_of_nat (Z.to_nat (87 + d)).
Definition hex_byte (b : Z) (s : string) : string :=
  String (hex_char (b / 16)) (String (hex_char (b mod 16)) s).
Fixpoint hex_string (bs : bytes) : string :=
  match bs with [] => EmptyString | b :: bs => hex_byte b (hex_string bs) end.

(** ** What json-c promises *)

Section Laws.
Context `{JC : JsonC}.

Definition is_obj (j : json) : Prop := json_object_get_type (Some j) = json_type_object.
Definition is_arr (j : json) : Prop := json_object_get_type (Some j) = json_type_array.

Definition member_of (j : json) (name : string) : option (option json) :=
  json_object_object_get_ex (Some j) name.

Class JsonLaws : Prop := {
  new_object_law w j w' : json_object_new_object w = (Some j, w') ->
    is_obj j /\ json_object_object_members j = [] /\ forall k, member_of j k = None;
  new_array_law w j w' : json_object_new_array w = (Some j, w') ->
    is_arr j /\ json_object_array_length j = 0;
  new_int_law z w j w' : - 2 ^ 31 <= z < 2 ^ 31 -> json_object_new_int z w = (Some j, w') ->
    json_object_get_type (Some j) = json_type_int /\ json_object_get_string (Some j) = Some (dec z);
  new_int64_law z w j w' : - 2 ^ 63 <= z < 2 ^ 63 -> json_object_new_int64 z w = (Some j, w') ->
    json_object_get_type (Some j) = json_type_int /\ json_object_get_string (Some j) = Some (dec z);
  new_string_law s w j w' : json_object_new_string s w = (Some j, w') ->
    json_object_get_type (Some j) = json_type_string /\ json_object_get_string (Some j) = Some s;
  object_add_law o k v w o' w' : is_obj o -> json_object_object_add o k v w = (0, (o', w')) ->
    is_obj o' /\
    (forall k', member_of o' k' = if String.eqb k' k then Some v else member_of o k') /\
    (member_of o k = None ->
     json_object_object_members o' = json_object_object_members o ++ [(k, v)]);
  array_add_law a v w a' w' : is_arr a -> json_object_array_add a v w = (0, (a', w')) ->
    is_arr a' /\ json_object_array_length a' = json_object_array_length a + 1 /\
    forall i, json_object_array_get_idx a' i =
      if i =? json_object_array_length a then v else json_object_array_get_idx a i
}.

(** Memory is never exhausted. *)
Class Reliable : Prop := {
  new_object_ok w : exists j w', json_object_new_object w = (Some j, w');
  new_array_ok w : exists j w', json_object_new_array w = (Some j, w');
  new_int_ok z w : exists j w', json_object_new_int z w = (Some j, w');
  new_int64_ok z w : exists j w', json_object_new_int64 z w = (Some j, w');
  new_string_ok s w : exists j w', json_object_new_string s w = (Some j, w');
  object_add_ok o k v w : is_obj o -> exists o' w', json_object_object_add o k v w = (0, (o', w'));
  array_add_ok a v w : is_arr a -> exists a' w', json_object_array_add a v w = (0, (a', w'))
}.

End Laws.
