(* ===== verification/JsonBase.v ===== *)
(** * The statements the JSON serializers and deserializers are made of.

    [src/tss2-fapi/tpm_json_serialize.c] and [tpm_json_deserialize.c] write
    the same few statements over and over: create the object if there is
    none, serialize a member and add it under a name, look a member up and
    deserialize it, search a table of names.  They are the definitions of
    this file; [JsonSer] and [JsonDe] compose them, one definition per
    function of the code.

    A serializer takes what [*jso] holds, [None] for NULL, and the state of
    the allocator.  A deserializer takes the JSON object and what the pointer
    [out] points to, [None] for a NULL pointer. *)

From stdpp Require Import base strings.
From S2P Require Import Prelude Common MuStruct MuUnion JsonCodes JsonC.
Open Scope Z_scope.
Open Scope tss_scope.

Section Base.
Context `{JC : JsonC}.

(** ** Serializing *)

Definition jser : Type := option json -> world -> outcome (TSS2_RC * (option json * world)).

(** [return rc;] *)
Definition jret (rc : TSS2_RC) : jser := fun jso w => Ret (rc, (jso, w)).

(** A statement that can return, and what follows it. *)
Definition jseq (s1 s2 : jser) : jser := fun jso w =>
  let* (r, (jso, w)) := s1 jso w in
  if r =? TSS2_RC_SUCCESS then s2 jso w else Ret (r, (jso, w)).

Fixpoint jbody (body : list jser) : jser :=
  match body with [] => jret TSS2_RC_SUCCESS | s :: body => jseq s (jbody body) end.

(** [return_if_null(in, .., TSS2_FAPI_RC_BAD_REFERENCE)]. *)
Definition with_in {T} (in_ : option T) (k : T -> jser) : jser :=
  match in_ with Some x => k x | None => jret TSS2_FAPI_RC_BAD_REFERENCE end.

(** A function that dereferences [in] without a check. *)
Definition deref_in {T} (in_ : option T) (k : T -> jser) : jser :=
  match in_ with Some x => k x | None => fun _ _ => Undef end.

(** [*jso = new(); return_if_null( *jso, .., rc)]. *)
Definition put_new (rc : TSS2_RC) (new : world -> option json * world) : jser := fun _ w =>
  let '(j, w) := new w in
  Ret (match j with Some _ => TSS2_RC_SUCCESS | None => rc end, (j, w)).

(** [if ( *jso == NULL) *jso = json_object_new_object();] *)
Definition fresh_object : jser := fun jso w =>
  match jso with
  | Some _ => jret TSS2_RC_SUCCESS jso w
  | None => let '(j, w) := json_object_new_object w in Ret (TSS2_RC_SUCCESS, (j, w))
  end.

(** The same with [return_if_null( *jso, .., TSS2_FAPI_RC_MEMORY)]. *)
Definition fresh_object_checked : jser := fun jso w =>
  match jso with
  | Some _ => jret TSS2_RC_SUCCESS jso w
  | None => put_new TSS2_FAPI_RC_MEMORY json_object_new_object jso w
  end.

Definition new_array_checked : jser := fun jso w =>
  match jso with
  | Some _ => jret TSS2_RC_SUCCESS jso w
  | None => put_new TSS2_FAPI_RC_MEMORY json_object_new_array jso w
  end.

(** [if (json_object_object_add( *jso, name, v)) return GENERAL_FAILURE];
    json-c asserts that [*jso] is an object. *)
Definition add_member (name : string) (v : option json) : jser := fun jso w =>
  match jso with
  | None => Undef
  | Some o =>
      let '(rc, (o, w)) := json_object_object_add o name v w in
      Ret (if rc =? 0 then TSS2_RC_SUCCESS else TSS2_FAPI_RC_GENERAL_FAILURE, (Some o, w))
  end.

Definition add_element (v : option json) : jser := fun jso w =>
  match jso with
  | None => Undef
  | Some a =>
      let '(rc, (a, w)) := json_object_array_add a v w in
      Ret (if rc =? 0 then TSS2_RC_SUCCESS else TSS2_FAPI_RC_GENERAL_FAILURE, (Some a, w))
  end.

(** [jso2 = NULL; r = ser(.., &jso2); return_if_error(r, ..);], then [k jso2]. *)
Definition with_sub (ser : jser) (k : option json -> jser) : jser := fun jso w =>
  let* (r, (jso2, w)) := ser None w in
  if r =? TSS2_RC_SUCCESS then k jso2 jso w else Ret (r, (jso, w)).

Definition field (name : string) (ser : jser) : jser := with_sub ser (add_member name).
Definition element (ser : jser) : jser := with_sub ser add_element.

(** [if (ser(.., &jso2)) return TSS2_FAPI_RC_BAD_VALUE;] *)
Definition or_bad_value (ser : jser) : jser := fun jso w =>
  let* (r, (jso, w)) := ser jso w in
  Ret (if r =? TSS2_RC_SUCCESS then r else TSS2_FAPI_RC_BAD_VALUE, (jso, w)).

(** [if (c) { s }]. *)
Definition jwhen (c : bool) (s : jser) : jser := if c then s else jret TSS2_RC_SUCCESS.

Fixpoint jfor {A} (l : list A) (s : A -> jser) : jser :=
  match l with
  | [] => jret TSS2_RC_SUCCESS
  | a :: l => jseq (s a) (jfor l s)
  end.

(** The statement [CHECK_IN_LIST]. *)
Definition CHECK_IN_LIST (needle : Z) (tab : list Z) : jser :=
  if existsb (Z.eqb needle) tab then jret TSS2_RC_SUCCESS else jret TSS2_FAPI_RC_BAD_VALUE.

(** The loop over a table of names: the string of the first row of [in_]. *)
Fixpoint name_in (tab : list (Z * string)) (in_ : Z) : option string :=
  match tab with
  | [] => None
  | (v, name) :: tab => if v =? in_ then Some name else name_in tab in_
  end.

Definition table_serialize (tab : list (Z * string)) (in_ : Z) : jser :=
  match name_in tab in_ with
  | Some name => put_new TSS2_FAPI_RC_MEMORY (json_object_new_string name)
  | None => jret TSS2_FAPI_RC_BAD_VALUE
  end.

(** The loop over a table of bits: a member 0 or 1 for each. *)
Definition bit_serialize (tab : list (Z * string)) (input : Z) : jser :=
  jfor tab (fun '(bit, name) =>
    field name (put_new TSS2_FAPI_RC_MEMORY
      (json_object_new_int (if Z.land bit input =? 0 then 0 else 1)))).

(** A member with a number. *)
Definition int64_field (name : string) (z : Z) : jser :=
  field name (put_new TSS2_FAPI_RC_MEMORY (json_object_new_int64 z)).

(** The digits of [n] bytes of [buffer]; the code reads [buffer[i]] for each. *)
Definition hex_serialize (buffer : bytes) (n : Z) : jser := fun jso w =>
  let* bs := access (mem_read buffer 0 n) in
  put_new TSS2_FAPI_RC_MEMORY (json_object_new_string (hex_string bs)) jso w.

(** The elements of a list. *)
Definition list_serialize {E} (count cap : Z) (elems : list E) (ser : E -> jser) : jser :=
  if cap <? count then jret TSS2_FAPI_RC_BAD_VALUE else
  jseq (put_new TSS2_FAPI_RC_MEMORY json_object_new_array)
  (fun jso w =>
     if count <=? Zlen elems
     then jfor (take (Z.to_nat count) elems) (fun e => element (ser e)) jso w
     else Undef).

(** [case ..: return ser(&in->m, jso);] *)
Definition jcase {U M} (m : umember U M) (ser : M -> jser) : U -> jser := fun u jso w =>
  match uget m u with Some v => ser v jso w | None => Undef end.

(** [switch (selector) { .. default: return TSS2_FAPI_RC_BAD_VALUE; }] *)
Definition union_serialize {U} (cases : list (Z * (U -> jser))) (in_ : option U)
    (selector : Z) : jser :=
  match switch selector cases with
  | Some s => deref_in in_ s
  | None => jret TSS2_FAPI_RC_BAD_VALUE
  end.

(** ** Deserializing *)

Definition jde (T : Type) : Type := option json -> option T -> outcome (TSS2_RC * option T).
Definition dstep (T : Type) : Type := option json -> T -> outcome (TSS2_RC * T).

(** [*out = v;] *)
Definition put_out {T} (v : T) (rc : TSS2_RC) (out : option T) : outcome (TSS2_RC * option T) :=
  match out with Some _ => Ret (rc, Some v) | None => Undef end.

(** [return_if_null(out, .., TSS2_FAPI_RC_BAD_REFERENCE)]. *)
Definition with_out {T} (s : dstep T) : jde T := fun jso out =>
  match out with
  | None => Ret (TSS2_FAPI_RC_BAD_REFERENCE, None)
  | Some out => let* (r, out) := s jso out in Ret (r, Some out)
  end.

(** A function that stores into [*out] without a check. *)
Definition deref_out {T} (s : dstep T) : jde T := fun jso out =>
  match out with
  | None => Undef
  | Some out => let* (r, out) := s jso out in Ret (r, Some out)
  end.

Definition dret {T} (rc : TSS2_RC) : dstep T := fun _ out => Ret (rc, out).

Definition dseq {T} (s1 s2 : dstep T) : dstep T := fun jso out =>
  let* (r, out) := s1 jso out in
  if r =? TSS2_RC_SUCCESS then s2 jso out else Ret (r, out).

Fixpoint dbody {T} (body : list (dstep T)) : dstep T :=
  match body with [] => dret TSS2_RC_SUCCESS | s :: body => dseq s (dbody body) end.

(** [memset(out, 0, sizeof( *out))]. *)
Definition dclear {T} (zero : T) : dstep T := fun _ _ => Ret (TSS2_RC_SUCCESS, zero).

Definition ifapi_get_sub_object (jso : option json) (name : string) : option json :=
  match json_object_object_get_ex jso name with
  | Some sub_jso => sub_jso
  | None =>
      match json_object_object_get_ex jso (lower name) with
      | Some sub_jso => sub_jso
      | None => None
      end
  end.

(** [if (!ifapi_get_sub_object(jso, name, &jso2)) return BAD_VALUE;
    r = de(jso2, &out->m); return_if_error(r, ..);] *)
Definition dfield {T F} (name : string) (m : member T F) (de : jde F) : dstep T :=
  fun jso out =>
  match ifapi_get_sub_object jso name with
  | None => Ret (TSS2_FAPI_RC_BAD_VALUE, out)
  | Some jso2 =>
      let* (r, v) := de (Some jso2) (Some (mget m out)) in Ret (r, store m out v)
  end.

(** The same with [de(out->sel, jso2, &out->m)]. *)
Definition dfield_sel {T U} (name : string) (m : member T U) (sel : member T Z)
    (de : Z -> jde U) : dstep T :=
  fun jso out => dfield name m (de (mget sel out)) jso out.

(** [if (out->sel != v) { s }]. *)
Definition dunless {T} (sel : member T Z) (v : Z) (s : dstep T) : dstep T :=
  fun jso out => if mget sel out =? v then Ret (TSS2_RC_SUCCESS, out) else s jso out.

(** [case ..: return de(jso, &out->m);] *)
Definition dcase {U M} (m : umember U M) (de : jde M) : jde U := fun jso out =>
  match out with
  | None => Undef
  | Some u =>
      let* (r, v) := de jso (Some (default (uzero m) (uget m u))) in
      Ret (r, Some (match v with Some v => uset m v u | None => u end))
  end.

(** [case ..: { return TSS2_RC_SUCCESS; }] *)
Definition dnothing {U} : jde U := fun _ out => Ret (TSS2_RC_SUCCESS, out).

Definition union_deserialize {U} (cases : list (Z * jde U)) (selector : Z) : jde U :=
  match switch selector cases with
  | Some de => de
  | None => fun _ out => Ret (TSS2_FAPI_RC_BAD_VALUE, out)
  end.

End Base.
