(* ===== verification/JsonNum.v ===== *)
(** * Reading numbers, byte strings and attribute words from JSON.

    The helpers of [src/tss2-fapi/tpm_json_deserialize.c]: [strip_prefix],
    [ifapi_hex_to_byte_ary], [get_number], [get_boolean_from_json], the
    readers of the base types, of PCR selections and of byte arrays, and the
    statements the readers of enumerations and of attribute words share. *)

From stdpp Require Import base strings list_numbers.
From Stdlib Require Import Ascii.
From S2P Require Import Prelude Common MuBase JsonCodes JsonC JsonBase.
Open Scope string_scope.
Open Scope Z_scope.
Open Scope tss_scope.

Section Num.
Context `{JC : JsonC}.

(** ** Strings *)

(** The prefixes are stripped one after the other, each at most once. *)
Definition strip_prefix (in_ : option string) (prefixes : list string) : option string :=
  match in_ with
  | None => None
  | Some s => Some (foldl (fun s p =>
      if strcaseprefix p s then str_drop (String.length p) s else s) s prefixes)
  end.

(** The value of a character that [isxdigit] accepts. *)
Definition hex_digit (c : ascii) : Z :=
  if code c <? 65 then code c - 48
  else if code c <? 97 then code c - 65 + 10 else code c - 97 + 10.

(** The loop of [ifapi_hex_to_byte_ary] from [j] on, [hex] being the rest of
    the string; the terminating NUL is no digit, and is passed over in the
    place of a second digit. *)
Fixpoint hex_loop (hex : string) (hexlen vlen j : Z) (val : bytes) :
    outcome (TSS2_RC * (Z * bytes)) :=
  if negb ((j <? vlen) && (2 * j <? hexlen)) then Ret (TSS2_RC_SUCCESS, (j, val)) else
  match hex with
  | EmptyString => Ret (TSS2_FAPI_RC_BAD_VALUE, (j, val))
  | String c1 hex1 =>
      if negb (isxdigit c1) then Ret (TSS2_FAPI_RC_BAD_VALUE, (j, val))
      else
        match hex1 with
        | EmptyString =>
            let* val := access (mem_write val j [hex_digit c1 * 16 mod 256]) in
            hex_loop hex1 hexlen vlen (j + 1) val
        | String c2 hex2 =>
            if negb (isxdigit c2) then Ret (TSS2_FAPI_RC_BAD_VALUE, (j, val))
            else
              let* val := access (mem_write val j
                [(hex_digit c1 * 16 mod 256 + hex_digit c2) mod 256]) in
              hex_loop hex2 hexlen vlen (j + 1) val
        end
  end.

(** [val] is the array [val] points to; [vlen] and the length of the string
    are [UINT32]s.  The products [2 * j] stay below [2 ^ 32] for a [vlen] of
    at most [2 ^ 31]. *)
Definition ifapi_hex_to_byte_ary (hex : string) (vlen : Z) (val : bytes) :
    outcome (TSS2_RC * bytes) :=
  let hexlen := strlen hex mod 2 ^ 32 in
  if vlen <? hexlen / 2 then Ret (TSS2_FAPI_RC_BAD_VALUE, val)
  else
    let* (r, (j, val)) := hex_loop hex hexlen vlen 0 val in
    if negb (r =? TSS2_RC_SUCCESS) then Ret (r, val)
    else if j <? vlen then
      let* val := access (mem_write val j (replicate (Z.to_nat (vlen - j)) 0)) in
      Ret (TSS2_RC_SUCCESS, val)
    else Ret (TSS2_RC_SUCCESS, val).

(** ** Numbers *)

(** [num] is [None] while it is not initialised. *)
Definition get_number (token : option string) (num : option Z) : outcome (bool * option Z) :=
  match token with
  | None => Undef
  | Some token =>
      let '(itoken, scanned) :=
        if strprefix "0x" token then (2, sscanf_x64 (str_drop 2 token))
        else (0, sscanf_d64 token) in
      let* o := scanned in
      let '(num, pos) := match o with Some (v, pos) => (Some v, pos) | None => (num, 0) end in
      Ret (pos =? strlen token - itoken, num)
  end.

(** [get_number(token, &i64)] with the test of its result: the number. *)
Definition number_or_bad (token : option string) : outcome (TSS2_RC + Z) :=
  let* (ok, i64) := get_number token None in
  if ok then let* i64 := access i64 in Ret (inr i64) else Ret (inl TSS2_FAPI_RC_BAD_VALUE).

(** [*out = (T)i64; if ((int64_t) *out != i64) return BAD_VALUE;] where [T] has
    [bits] bits. *)
Definition store_number (bits : Z) (i64 : Z) (out : option Z) : outcome (TSS2_RC * option Z) :=
  let v := i64 mod 2 ^ bits in
  put_out v (if v =? i64 then TSS2_RC_SUCCESS else TSS2_FAPI_RC_BAD_VALUE) out.

Definition uint_deserialize (bits : Z) : jde Z := fun jso out =>
  let* n := number_or_bad (json_object_get_string jso) in
  match n with
  | inl r => Ret (r, out)
  | inr i64 => store_number bits i64 out
  end.

Definition ifapi_json_BYTE_deserialize : jde Z := uint_deserialize 8.
Definition ifapi_json_UINT8_deserialize : jde Z := uint_deserialize 8.
Definition ifapi_json_UINT16_deserialize : jde Z := uint_deserialize 16.
Definition ifapi_json_UINT32_deserialize : jde Z := uint_deserialize 32.
Definition ifapi_json_TPM2_HANDLE_deserialize : jde Z := uint_deserialize 32.

(** [tmp * 0x100000000] is a signed product.  [( *out)] is compared as an
    [int64_t]. *)
Definition ifapi_json_UINT64_deserialize : jde Z := fun jso out =>
  match json_object_get_type jso, jso with
  | json_type_array, None => Undef
  | json_type_array, Some a =>
      if negb (json_object_array_length a =? 2) then Ret (TSS2_FAPI_RC_BAD_VALUE, out) else
      let* (r, tmp) := ifapi_json_UINT32_deserialize (json_object_array_get_idx a 0) (Some 0) in
      if negb (r =? TSS2_RC_SUCCESS) then Ret (r, out) else
      let hi := default 0 tmp * 0x100000000 in
      if 2 ^ 63 <=? hi then Undef else
      let* (r, out) := put_out hi TSS2_RC_SUCCESS out in
      let* (r, tmp) := ifapi_json_UINT32_deserialize (json_object_array_get_idx a 1) tmp in
      if negb (r =? TSS2_RC_SUCCESS) then Ret (r, out) else
      put_out ((hi + default 0 tmp) mod 2 ^ 64) TSS2_RC_SUCCESS out
  | _, _ =>
      let* n := number_or_bad (json_object_get_string jso) in
      match n with
      | inl r => Ret (r, out)
      | inr i64 => put_out (i64 mod 2 ^ 64) TSS2_RC_SUCCESS out
      end
  end.

Definition get_number_from_json (jso : option json) (num : option Z) :
    outcome (TSS2_RC * option Z) :=
  let* (ok, num) := get_number (json_object_get_string jso) num in
  Ret (if ok then TSS2_RC_SUCCESS else TSS2_FAPI_RC_BAD_VALUE, num).

(** ** Enumerations *)

(** The loop over a table of names. *)
Fixpoint value_of (tab : list (Z * string)) (str : string) : option Z :=
  match tab with
  | [] => None
  | (v, name) :: tab => if strcaseeq str name then Some v else value_of tab str
  end.

(** A reader of an enumeration: a name of the table after its prefixes, or
    what [fallback] reads. *)
Definition table_deserialize (tab : list (Z * string)) (prefixes : list string)
    (fallback : jde Z) : jde Z := fun jso out =>
  match strip_prefix (json_object_get_string jso) prefixes with
  | Some str =>
      match value_of tab str with
      | Some v => put_out v TSS2_RC_SUCCESS out
      | None => fallback jso out
      end
  | None => fallback jso out
  end.

(** The macro [SUBTYPE_FILTER]; [v] is a local variable. *)
Definition SUBTYPE_FILTER (parent : jde Z) (tab : list Z) : jde Z := fun jso out =>
  let* (r, v) := parent jso (Some 0) in
  if negb (r =? TSS2_RC_SUCCESS) then Ret (r, out)
  else match v with
       | Some v => if existsb (Z.eqb v) tab then put_out v TSS2_RC_SUCCESS out
                   else Ret (TSS2_FAPI_RC_BAD_VALUE, out)
       | None => Undef
       end.

Definition tab_TPMI_YES_NO_deserialize : list (Z * string) := [(NO, "NO"); (YES, "YES")].
Definition ifapi_json_TPMI_YES_NO_deserialize : jde Z :=
  table_deserialize tab_TPMI_YES_NO_deserialize ["TPM_"; "TPM2_"; "TPMI_"] ifapi_json_BYTE_deserialize.

(** [value] is stored into before the result is known. *)
Definition get_boolean_from_json (jso : option json) : outcome (TSS2_RC + Z) :=
  let* (r, value) := ifapi_json_TPMI_YES_NO_deserialize jso (Some 0) in
  let* value :=
    if negb (r =? TSS2_RC_SUCCESS) then
      match json_object_get_string jso with
      | None => Undef
      | Some token =>
          if negb (strcaseeq token "set") || negb (strcaseeq token "on") then Ret (inr 1)
          else if negb (strcaseeq token "off") then Ret (inr 0)
          else Ret (inl TSS2_FAPI_RC_BAD_VALUE)
      end
    else let* value := access value in Ret (inr value) in
  match value with
  | inl r => Ret (inl r)
  | inr value =>
      if negb (value =? 0) && negb (value =? 1) then Ret (inl TSS2_FAPI_RC_BAD_VALUE)
      else Ret (inr value)
  end.

(** ** Loops over arrays and objects *)

(** A [for] loop whose body can return. *)
Fixpoint dloop {A S} (l : list A) (body : A -> S -> outcome (TSS2_RC * S)) (s : S) :
    outcome (TSS2_RC * S) :=
  match l with
  | [] => Ret (TSS2_RC_SUCCESS, s)
  | a :: l =>
      let* (r, s) := body a s in
      if r =? TSS2_RC_SUCCESS then dloop l body s else Ret (r, s)
  end.

Definition array_items (a : json) : list (option json) :=
  map (json_object_array_get_idx a) (seqZ 0 (json_object_array_length a)).

(** [json_object_get_type(jso)]: an array, an object, or something else. *)
Definition on_type {A} (jso : option json) (arr obj : json -> outcome A) (other : outcome A) :
    outcome A :=
  match json_object_get_type jso, jso with
  | json_type_array, Some a => arr a
  | json_type_object, Some o => obj o
  | json_type_array, None | json_type_object, None => Undef
  | _, _ => other
  end.

(** ** Byte strings *)

(** A too long array is only reported in the log. *)
Definition ifapi_json_BYTE_array_deserialize (max : Z) (jso : option json) (out : bytes) :
    outcome (TSS2_RC * bytes) :=
  let bad := Ret (TSS2_FAPI_RC_BAD_VALUE, out) in
  on_type jso
    (fun a => dloop (imap pair (array_items a)) (fun '(i, jso2) out =>
       let* b := access (out !! i) in
       let* (r, b) := ifapi_json_BYTE_deserialize jso2 (Some b) in
       Ret (r, match b with Some b => <[i := b]> out | None => out end)) out)
    (fun _ => bad) bad.

(** [out_size] is a [UINT16]. *)
Definition ifapi_json_byte_deserialize (jso : option json) (max : Z) (out : bytes)
    (out_size : Z) : outcome (TSS2_RC * (bytes * Z)) :=
  match json_object_get_type jso, jso with
  | json_type_array, Some a =>
      let* (r, out) := ifapi_json_BYTE_array_deserialize max jso out in
      Ret (r, (out, if r =? TSS2_RC_SUCCESS
                    then json_object_array_length a mod 2 ^ 16 else out_size))
  | json_type_array, None => Undef
  | json_type_string, _ =>
      match json_object_get_string jso with
      | None => Undef
      | Some token =>
          let itoken := if strprefix "0x" token then 2%nat else 0%nat in
          let* (r, out) := ifapi_hex_to_byte_ary (str_drop itoken token) max out in
          Ret (r, (out, if r =? TSS2_RC_SUCCESS
                        then (strlen token - Z.of_nat itoken) / 2 mod 2 ^ 16 else out_size))
      end
  | _, _ => Ret (TSS2_FAPI_RC_BAD_VALUE, (out, out_size))
  end.

(** ** PCR selections *)

(** One PCR number; [n] keeps its value from one iteration to the next. *)
Definition pcr_step (jso : option json) (st : option Z * (Z * bytes)) :
    outcome (TSS2_RC * (option Z * (Z * bytes))) :=
  let '(n, (sizeofSelect, pcrSelect)) := st in
  let* (r, n) := get_number_from_json jso n in
  if negb (r =? TSS2_RC_SUCCESS) then Ret (r, (n, (sizeofSelect, pcrSelect))) else
  let* v := access n in
  let n_byte := Z.quot v 8 in
  if Z.rem v 8 <? 0 then Undef else
  if n_byte <? 0 then Undef else
  let* b := access (pcrSelect !! Z.to_nat n_byte) in
  let pcrSelect := <[Z.to_nat n_byte := Z.lor b (Z.shiftl 1 (Z.rem v 8))]> pcrSelect in
  let sizeofSelect := if sizeofSelect <? n_byte then n_byte mod 2 ^ 8 else sizeofSelect in
  Ret (TSS2_RC_SUCCESS, (n, (sizeofSelect, pcrSelect))).

Definition ifapi_json_pcr_selection_deserialize (jso : option json) (sizeofSelect : Z)
    (pcrSelect : bytes) : outcome (TSS2_RC * (Z * bytes)) :=
  let bad := Ret (TSS2_FAPI_RC_BAD_VALUE, (sizeofSelect, pcrSelect)) in
  on_type jso
    (fun a =>
       let* (r, (_, (sizeofSelect, pcrSelect))) :=
         dloop (array_items a) pcr_step (None, (sizeofSelect, pcrSelect)) in
       if r =? TSS2_RC_SUCCESS then Ret (r, (3, pcrSelect)) else Ret (r, (sizeofSelect, pcrSelect)))
    (fun _ => bad) bad.

(** ** Attribute words *)

(** A name of the table in an array of names. *)
Definition attr_name (tab : list (Z * string)) (prefixes : list string) (jso2 : option json)
    (out : Z) : outcome (TSS2_RC * Z) :=
  match strip_prefix (json_object_get_string jso2) prefixes with
  | None => Ret (TSS2_FAPI_RC_BAD_VALUE, out)
  | Some token =>
      match value_of tab token with
      | Some bit => Ret (TSS2_RC_SUCCESS, Z.lor out bit)
      | None => Ret (TSS2_FAPI_RC_BAD_VALUE, out)
      end
  end.

(** A member of an object: the name of a bit and a boolean. *)
Definition attr_flag (tab : list (Z * string)) (token : option string) (val : option json)
    (out : Z) : outcome (TSS2_RC * Z) :=
  let* flag := get_boolean_from_json val in
  match flag, token with
  | inl r, _ => Ret (r, out)
  | inr flag, Some token =>
      match value_of tab token with
      | Some bit => Ret (TSS2_RC_SUCCESS, if flag =? 0 then out else Z.lor out bit)
      | None => Ret (TSS2_FAPI_RC_BAD_VALUE, out)
      end
  | inr _, None => Undef
  end.

(** A number of [bits] bits. *)
Definition attr_number (bits : Z) (jso : option json) (out : Z) : outcome (TSS2_RC * Z) :=
  let* n := number_or_bad (json_object_get_string jso) in
  match n with
  | inl r => Ret (r, out)
  | inr i64 =>
      let v := i64 mod 2 ^ bits in
      Ret (if v =? i64 then TSS2_RC_SUCCESS else TSS2_FAPI_RC_BAD_VALUE, v)
  end.

Definition attr_deserialize (bits : Z) (element : option json -> Z -> outcome (TSS2_RC * Z))
    (member : string * option json -> Z -> outcome (TSS2_RC * Z)) : jde Z :=
  deref_out (dseq (dclear 0) (fun jso out =>
    on_type jso
      (fun a => dloop (array_items a) element out)
      (fun o => dloop (json_object_object_members o) member out)
      (attr_number bits jso out))).

End Num.
