(* ===== verification/JsonSer.v ===== *)
(** * Serializing the TPM types: [src/tss2-fapi/tpm_json_serialize.c].

    One definition per function, under the name it has in the code, and one
    per table of names ([tab_] and the name of the function that declares
    it); [in_] is the parameter [in].  The statements are those of
    [JsonBase]. *)

From stdpp Require Import base strings list_numbers.
From S2P Require Import Prelude Common MuStruct MuTpm2b MuUnion MuPcr TpmTypes MuTypes SysCodes JsonCodes JsonC JsonBase.
Open Scope string_scope.
Open Scope Z_scope.
Open Scope tss_scope.

(** The conversion to [int32_t]. *)
Definition to_int32 (z : Z) : Z := if z <? 2 ^ 31 then z else z - 2 ^ 32.

(** The members of a structure preceded by its length. *)
Definition sub_size {M} : member (TPM2B_SUB M) Z :=
  Member ssize (fun v d => MkTPM2B_SUB v (smember d)).
Definition sub_member {M} : member (TPM2B_SUB M) M :=
  Member smember (fun v d => MkTPM2B_SUB (ssize d) v).

(** The byte of a [TPMS_EMPTY] in the storage of [TPMU_ASYM_SCHEME]; nothing
    reads or writes it. *)
Definition empty_of_ecdaa : umember TPMS_SCHEME_ECDAA TPMS_EMPTY :=
  UMember (fun _ => Some zero_TPMS_EMPTY) (fun _ u => u) zero_TPMS_EMPTY.

Section Ser.
Context `{JC : JsonC}.

(** The serializers of the sized buffers: [limit] is the largest size. *)
Definition tpm2b_serialize (limit : Z) (in_ : option TPM2B) : jser :=
  with_in in_ (fun in_ => jbody [
    jwhen (limit <? size in_) (jret TSS2_FAPI_RC_BAD_VALUE);
    hex_serialize (buffer in_) (size in_)]).

Definition ifapi_json_TPMS_EMPTY_serialize (in_ : option TPMS_EMPTY) : jser :=
  jbody [
    ].

Definition ifapi_json_pcr_select_serialize (sizeofSelect : Z) (pcrSelect : bytes) : jser :=
  jbody [
    new_array_checked;
    jwhen (TPM2_PCR_SELECT_MAX <? sizeofSelect) (jret TSS2_FAPI_RC_BAD_VALUE);
    jfor (seqZ 0 (TPM2_PCR_LAST - TPM2_PCR_FIRST)) (fun i1 jso w =>
      let i2 := i1 + TPM2_PCR_FIRST in
      let* b := access (pcrSelect !! Z.to_nat (i2 / 8)) in
      jwhen (negb (Z.land b (Z.shiftl 1 (i2 mod 8)) =? 0))
        (element (put_new TSS2_FAPI_RC_MEMORY (json_object_new_int64 i2))) jso w)].

Definition ifapi_json_TPMS_PCR_SELECT_serialize (in_ : option TPMS_PCR_SELECT) : jser :=
  deref_in in_ (fun in_ => jbody [
    ifapi_json_pcr_select_serialize (mget TPMS_PCR_SELECT'sizeofSelect in_) (mget
        TPMS_PCR_SELECT'pcrSelect in_)]).

Definition tab_ifapi_json_TPM2_ALG_ID_serialize : list (Z * string) := [
  (TPM2_ALG_ERROR, "ERROR");
  (TPM2_ALG_RSA, "RSA");
  (TPM2_ALG_TDES, "TDES");
  (TPM2_ALG_SHA1, "sha1");
  (TPM2_ALG_CMAC, "CMAC");
  (TPM2_ALG_HMAC, "HMAC");
  (TPM2_ALG_AES, "AES");
  (TPM2_ALG_MGF1, "MGF1");
  (TPM2_ALG_KEYEDHASH, "KEYEDHASH");
  (TPM2_ALG_XOR, "XOR");
  (TPM2_ALG_SHA256, "sha256");
  (TPM2_ALG_SHA384, "sha384");
  (TPM2_ALG_SHA512, "sha512");
  (TPM2_ALG_NULL, "NULL");
  (TPM2_ALG_SM3_256, "sm3_256");
  (TPM2_ALG_SM4, "SM4");
  (TPM2_ALG_RSASSA, "RSASSA");
  (TPM2_ALG_RSAES, "RSAES");
  (TPM2_ALG_RSAPSS, "RSAPSS");
  (TPM2_ALG_OAEP, "OAEP");
  (TPM2_ALG_ECDSA, "ECDSA");
  (TPM2_ALG_ECDH, "ECDH");
  (TPM2_ALG_ECDAA, "ECDAA");
  (TPM2_ALG_SM2, "SM2");
  (TPM2_ALG_ECSCHNORR, "ECSCHNORR");
  (TPM2_ALG_ECMQV, "ECMQV");
  (TPM2_ALG_KDF1_SP800_56A, "KDF1_SP800_56A");
  (TPM2_ALG_KDF2, "KDF2");
  (TPM2_ALG_KDF1_SP800_108, "KDF1_SP800_108");
  (TPM2_ALG_ECC, "ECC");
  (TPM2_ALG_SYMCIPHER, "SYMCIPHER");
  (TPM2_ALG_CAMELLIA, "CAMELLIA");
  (TPM2_ALG_CTR, "CTR");
  (TPM2_ALG_OFB, "OFB");
  (TPM2_ALG_CBC, "CBC");
  (TPM2_ALG_CFB, "CFB");
  (TPM2_ALG_ECB, "ECB")].
Definition ifapi_json_TPM2_ALG_ID_serialize (in_ : Z) : jser :=
  table_serialize tab_ifapi_json_TPM2_ALG_ID_serialize in_.

Definition ifapi_json_TPMI_ALG_HASH_serialize (in_ : Z) : jser :=
  jbody [CHECK_IN_LIST in_ [TPM2_ALG_SHA1; TPM2_ALG_SHA256; TPM2_ALG_SHA384; TPM2_ALG_SHA512;
      TPM2_ALG_SM3_256; TPM2_ALG_NULL]; ifapi_json_TPM2_ALG_ID_serialize in_].

Definition ifapi_json_TPMS_PCR_SELECTION_serialize (in_ : option TPMS_PCR_SELECTION) : jser :=
  deref_in in_ (fun in_ => jbody [
    fresh_object_checked;
    field "hash" (ifapi_json_TPMI_ALG_HASH_serialize (mget TPMS_PCR_SELECTION'hash in_));
    field "pcrSelect" (ifapi_json_pcr_select_serialize (mget TPMS_PCR_SELECTION'sizeofSelect in_)
        (mget TPMS_PCR_SELECTION'pcrSelect in_))]).

Definition tab_ifapi_json_TPM2_PT_PCR_serialize : list (Z * string) := [
  (TPM2_PT_PCR_SAVE, "SAVE");
  (TPM2_PT_PCR_EXTEND_L0, "EXTEND_L0");
  (TPM2_PT_PCR_RESET_L0, "RESET_L0");
  (TPM2_PT_PCR_EXTEND_L1, "EXTEND_L1");
  (TPM2_PT_PCR_RESET_L1, "RESET_L1");
  (TPM2_PT_PCR_EXTEND_L2, "EXTEND_L2");
  (TPM2_PT_PCR_RESET_L2, "RESET_L2");
  (TPM2_PT_PCR_EXTEND_L3, "EXTEND_L3");
  (TPM2_PT_PCR_RESET_L3, "RESET_L3");
  (TPM2_PT_PCR_EXTEND_L4, "EXTEND_L4");
  (TPM2_PT_PCR_RESET_L4, "RESET_L4");
  (TPM2_PT_PCR_NO_INCREMENT, "NO_INCREMENT");
  (TPM2_PT_PCR_DRTM_RESET, "DRTM_RESET");
  (TPM2_PT_PCR_POLICY, "POLICY");
  (TPM2_PT_PCR_AUTH, "AUTH")].
Definition ifapi_json_TPM2_PT_PCR_serialize (in_ : Z) : jser :=
  table_serialize tab_ifapi_json_TPM2_PT_PCR_serialize in_.

Definition ifapi_json_TPMS_TAGGED_PCR_SELECT_serialize (in_ : option TPMS_TAGGED_PCR_SELECT) : jser
    :=
  deref_in in_ (fun in_ => jbody [
    fresh_object;
    field "tag" (ifapi_json_TPM2_PT_PCR_serialize (mget TPMS_TAGGED_PCR_SELECT'tag in_));
    field "pcrSelect" (ifapi_json_pcr_select_serialize (mget TPMS_TAGGED_PCR_SELECT'sizeofSelect
        in_) (mget TPMS_TAGGED_PCR_SELECT'pcrSelect in_))]).

Definition ifapi_json_TPM2_HANDLE_serialize (in_ : Z) : jser :=
  put_new TSS2_FAPI_RC_BAD_VALUE (json_object_new_int (to_int32 in_)).

Definition ifapi_json_TPMU_HA_serialize (in_ : option bytes) (selector : Z) : jser :=
  union_serialize [
    (TPM2_ALG_SHA1, fun in_ => hex_serialize in_ TPM2_SHA1_DIGEST_SIZE);
    (TPM2_ALG_SHA256, fun in_ => hex_serialize in_ TPM2_SHA256_DIGEST_SIZE);
    (TPM2_ALG_SHA384, fun in_ => hex_serialize in_ TPM2_SHA384_DIGEST_SIZE);
    (TPM2_ALG_SHA512, fun in_ => hex_serialize in_ TPM2_SHA512_DIGEST_SIZE);
    (TPM2_ALG_SM3_256, fun in_ => hex_serialize in_ TPM2_SM3_256_DIGEST_SIZE)] in_ selector.

Definition ifapi_json_TPMT_HA_serialize (in_ : option TPMT_HA) : jser :=
  with_in in_ (fun in_ => jbody [
    fresh_object;
    field "hashAlg" (ifapi_json_TPMI_ALG_HASH_serialize (mget TPMT_HA'hashAlg in_));
    jwhen (negb ((mget TPMT_HA'hashAlg in_) =? TPM2_ALG_NULL)) (field "digest"
        (ifapi_json_TPMU_HA_serialize (Some (mget TPMT_HA'digest in_)) (mget TPMT_HA'hashAlg
        in_)))]).

Definition ifapi_json_TPMS_TAGGED_POLICY_serialize (in_ : option TPMS_TAGGED_POLICY) : jser :=
  deref_in in_ (fun in_ => jbody [
    fresh_object;
    field "handle" (ifapi_json_TPM2_HANDLE_serialize (mget TPMS_TAGGED_POLICY'handle in_));
    field "policyHash" (ifapi_json_TPMT_HA_serialize (Some (mget TPMS_TAGGED_POLICY'policyHash
        in_)))]).

Definition ifapi_json_UINT32_serialize (in_ : Z) : jser :=
  put_new TSS2_FAPI_RC_BAD_VALUE (json_object_new_int64 in_).

Definition tab_ifapi_json_TPMA_ACT_serialize : list (Z * string) := [
  (TPMA_ACT_SIGNALED, "signaled");
  (TPMA_ACT_PRESERVESIGNALED, "preserveSignaled")].
Definition ifapi_json_TPMA_ACT_serialize (in_ : Z) : jser :=
  jbody [
    fresh_object_checked;
    bit_serialize tab_ifapi_json_TPMA_ACT_serialize in_].

Definition ifapi_json_TPMS_ACT_DATA_serialize (in_ : option TPMS_ACT_DATA) : jser :=
  deref_in in_ (fun in_ => jbody [
    fresh_object;
    field "handle" (ifapi_json_TPM2_HANDLE_serialize (mget TPMS_ACT_DATA'handle in_));
    field "timeout" (ifapi_json_UINT32_serialize (mget TPMS_ACT_DATA'timeout in_));
    field "attributes" (ifapi_json_TPMA_ACT_serialize (mget TPMS_ACT_DATA'attributes in_))]).

Definition ifapi_json_UINT16_serialize (in_ : Z) : jser :=
  put_new TSS2_FAPI_RC_BAD_VALUE (json_object_new_int64 in_).

Definition ifapi_json_INT32_serialize (in_ : Z) : jser :=
  put_new TSS2_FAPI_RC_BAD_VALUE (json_object_new_int64 in_).

Definition ifapi_json_UINT64_serialize (in_ : Z) : jser :=
  fun jso w =>
  if in_ <? 0x1000000000000
  then put_new TSS2_FAPI_RC_BAD_VALUE (json_object_new_int64 in_) jso w
  else
    let '(jso1, w) := json_object_new_int64 (in_ / 0x100000000) w in
    match jso1 with
    | None => Ret (TSS2_FAPI_RC_MEMORY, (jso, w))
    | Some _ =>
        let '(jso2, w) := json_object_new_int64 (in_ mod 0x100000000) w in
        match jso2 with
        | None => Ret (TSS2_FAPI_RC_MEMORY, (jso, w))
        | Some _ =>
            jbody [put_new TSS2_FAPI_RC_MEMORY json_object_new_array;
                   add_element jso1; add_element jso2] jso w
        end
    end.

Definition ifapi_json_TPM2_GENERATED_serialize (in_ : Z) : jser :=
  if negb (in_ =? TPM2_GENERATED_VALUE) then jret TSS2_FAPI_RC_BAD_VALUE
  else put_new TSS2_FAPI_RC_MEMORY (json_object_new_string "VALUE").

Definition tab_ifapi_json_TPM2_ECC_CURVE_serialize : list (Z * string) := [
  (TPM2_ECC_NONE, "NONE");
  (TPM2_ECC_NIST_P192, "NIST_P192");
  (TPM2_ECC_NIST_P224, "NIST_P224");
  (TPM2_ECC_NIST_P256, "NIST_P256");
  (TPM2_ECC_NIST_P384, "NIST_P384");
  (TPM2_ECC_NIST_P521, "NIST_P521");
  (TPM2_ECC_BN_P256, "BN_P256");
  (TPM2_ECC_BN_P638, "BN_P638");
  (TPM2_ECC_SM2_P256, "SM2_P256")].
Definition ifapi_json_TPM2_ECC_CURVE_serialize (in_ : Z) : jser :=
  table_serialize tab_ifapi_json_TPM2_ECC_CURVE_serialize in_.

Definition tab_ifapi_json_TPM2_CC_serialize : list (Z * string) := [
  (TPM2_CC_NV_UndefineSpaceSpecial, "NV_UndefineSpaceSpecial");
  (TPM2_CC_EvictControl, "EvictControl");
  (TPM2_CC_HierarchyControl, "HierarchyControl");
  (TPM2_CC_NV_UndefineSpace, "NV_UndefineSpace");
  (TPM2_CC_ChangeEPS, "ChangeEPS");
  (TPM2_CC_ChangePPS, "ChangePPS");
  (TPM2_CC_Clear, "Clear");
  (TPM2_CC_ClearControl, "ClearControl");
  (TPM2_CC_ClockSet, "ClockSet");
  (TPM2_CC_HierarchyChangeAuth, "HierarchyChangeAuth");
  (TPM2_CC_NV_DefineSpace, "NV_DefineSpace");
  (TPM2_CC_PCR_Allocate, "PCR_Allocate");
  (TPM2_CC_PCR_SetAuthPolicy, "PCR_SetAuthPolicy");
  (TPM2_CC_PP_Commands, "PP_Commands");
  (TPM2_CC_SetPrimaryPolicy, "SetPrimaryPolicy");
  (TPM2_CC_FieldUpgradeStart, "FieldUpgradeStart");
  (TPM2_CC_ClockRateAdjust, "ClockRateAdjust");
  (TPM2_CC_CreatePrimary, "CreatePrimary");
  (TPM2_CC_NV_GlobalWriteLock, "NV_GlobalWriteLock");
  (TPM2_CC_GetCommandAuditDigest, "GetCommandAuditDigest");
  (TPM2_CC_NV_Increment, "NV_Increment");
  (TPM2_CC_NV_SetBits, "NV_SetBits");
  (TPM2_CC_NV_Extend, "NV_Extend");
  (TPM2_CC_NV_Write, "NV_Write");
  (TPM2_CC_NV_WriteLock, "NV_WriteLock");
  (TPM2_CC_DictionaryAttackLockReset, "DictionaryAttackLockReset");
  (TPM2_CC_DictionaryAttackParameters, "DictionaryAttackParameters");
  (TPM2_CC_NV_ChangeAuth, "NV_ChangeAuth");
  (TPM2_CC_PCR_Event, "PCR_Event");
  (TPM2_CC_PCR_Reset, "PCR_Reset");
  (TPM2_CC_SequenceComplete, "SequenceComplete");
  (TPM2_CC_SetAlgorithmSet, "SetAlgorithmSet");
  (TPM2_CC_SetCommandCodeAuditStatus, "SetCommandCodeAuditStatus");
  (TPM2_CC_FieldUpgradeData, "FieldUpgradeData");
  (TPM2_CC_IncrementalSelfTest, "IncrementalSelfTest");
  (TPM2_CC_SelfTest, "SelfTest");
  (TPM2_CC_Startup, "Startup");
  (TPM2_CC_Shutdown, "Shutdown");
  (TPM2_CC_StirRandom, "StirRandom");
  (TPM2_CC_ActivateCredential, "ActivateCredential");
  (TPM2_CC_Certify, "Certify");
  (TPM2_CC_PolicyNV, "PolicyNV");
  (TPM2_CC_CertifyCreation, "CertifyCreation");
  (TPM2_CC_Duplicate, "Duplicate");
  (TPM2_CC_GetTime, "GetTime");
  (TPM2_CC_GetSessionAuditDigest, "GetSessionAuditDigest");
  (TPM2_CC_NV_Read, "NV_Read");
  (TPM2_CC_NV_ReadLock, "NV_ReadLock");
  (TPM2_CC_ObjectChangeAuth, "ObjectChangeAuth");
  (TPM2_CC_PolicySecret, "PolicySecret");
  (TPM2_CC_Rewrap, "Rewrap");
  (TPM2_CC_Create, "Create");
  (TPM2_CC_ECDH_ZGen, "ECDH_ZGen");
  (TPM2_CC_HMAC, "HMAC");
  (TPM2_CC_Import, "Import");
  (TPM2_CC_Load, "Load");
  (TPM2_CC_Quote, "Quote");
  (TPM2_CC_RSA_Decrypt, "RSA_Decrypt");
  (TPM2_CC_HMAC_Start, "HMAC_Start");
  (TPM2_CC_SequenceUpdate, "SequenceUpdate");
  (TPM2_CC_Sign, "Sign");
  (TPM2_CC_Unseal, "Unseal");
  (TPM2_CC_PolicySigned, "PolicySigned");
  (TPM2_CC_ContextLoad, "ContextLoad");
  (TPM2_CC_ContextSave, "ContextSave");
  (TPM2_CC_ECDH_KeyGen, "ECDH_KeyGen");
  (TPM2_CC_EncryptDecrypt, "EncryptDecrypt");
  (TPM2_CC_FlushContext, "FlushContext");
  (TPM2_CC_LoadExternal, "LoadExternal");
  (TPM2_CC_MakeCredential, "MakeCredential");
  (TPM2_CC_NV_ReadPublic, "NV_ReadPublic");
  (TPM2_CC_PolicyAuthorize, "PolicyAuthorize");
  (TPM2_CC_PolicyAuthValue, "PolicyAuthValue");
  (TPM2_CC_PolicyCommandCode, "PolicyCommandCode");
  (TPM2_CC_PolicyCounterTimer, "PolicyCounterTimer");
  (TPM2_CC_PolicyCpHash, "PolicyCpHash");
  (TPM2_CC_PolicyLocality, "PolicyLocality");
  (TPM2_CC_PolicyNameHash, "PolicyNameHash");
  (TPM2_CC_PolicyOR, "PolicyOR");
  (TPM2_CC_PolicyTicket, "PolicyTicket");
  (TPM2_CC_ReadPublic, "ReadPublic");
  (TPM2_CC_RSA_Encrypt, "RSA_Encrypt");
  (TPM2_CC_StartAuthSession, "StartAuthSession");
  (TPM2_CC_VerifySignature, "VerifySignature");
  (TPM2_CC_ECC_Parameters, "ECC_Parameters");
  (TPM2_CC_FirmwareRead, "FirmwareRead");
  (TPM2_CC_GetCapability, "GetCapability");
  (TPM2_CC_GetRandom, "GetRandom");
  (TPM2_CC_GetTestResult, "GetTestResult");
  (TPM2_CC_Hash, "Hash");
  (TPM2_CC_PCR_Read, "PCR_Read");
  (TPM2_CC_PolicyPCR, "PolicyPCR");
  (TPM2_CC_PolicyRestart, "PolicyRestart");
  (TPM2_CC_ReadClock, "ReadClock");
  (TPM2_CC_PCR_Extend, "PCR_Extend");
  (TPM2_CC_PCR_SetAuthValue, "PCR_SetAuthValue");
  (TPM2_CC_NV_Certify, "NV_Certify");
  (TPM2_CC_EventSequenceComplete, "EventSequenceComplete");
  (TPM2_CC_HashSequenceStart, "HashSequenceStart");
  (TPM2_CC_PolicyPhysicalPresence, "PolicyPhysicalPresence");
  (TPM2_CC_PolicyDuplicationSelect, "PolicyDuplicationSelect");
  (TPM2_CC_PolicyGetDigest, "PolicyGetDigest");
  (TPM2_CC_TestParms, "TestParms");
  (TPM2_CC_Commit, "Commit");
  (TPM2_CC_PolicyPassword, "PolicyPassword");
  (TPM2_CC_ZGen_2Phase, "ZGen_2Phase");
  (TPM2_CC_EC_Ephemeral, "EC_Ephemeral");
  (TPM2_CC_PolicyNvWritten, "PolicyNvWritten");
  (TPM2_CC_PolicyTemplate, "PolicyTemplate");
  (TPM2_CC_CreateLoaded, "CreateLoaded");
  (TPM2_CC_PolicyAuthorizeNV, "PolicyAuthorizeNV");
  (TPM2_CC_EncryptDecrypt2, "EncryptDecrypt2");
  (TPM2_CC_Vendor_TCG_Test, "Vendor_TCG_Test")].
Definition ifapi_json_TPM2_CC_serialize (in_ : Z) : jser :=
  table_serialize tab_ifapi_json_TPM2_CC_serialize in_.

Definition tab_ifapi_json_TPM2_EO_serialize : list (Z * string) := [
  (TPM2_EO_EQ, "EQ");
  (TPM2_EO_NEQ, "TPM2_EO_NEQ");
  (TPM2_EO_SIGNED_GT, "SIGNED_GT");
  (TPM2_EO_UNSIGNED_GT, "UNSIGNED_GT");
  (TPM2_EO_SIGNED_LT, "SIGNED_LT");
  (TPM2_EO_UNSIGNED_LT, "UNSIGNED_LT");
  (TPM2_EO_SIGNED_GE, "SIGNED_GE");
  (TPM2_EO_UNSIGNED_GE, "UNSIGNED_GE");
  (TPM2_EO_SIGNED_LE, "SIGNED_LE");
  (TPM2_EO_UNSIGNED_LE, "UNSIGNED_LE");
  (TPM2_EO_BITSET, "BITSET");
  (TPM2_EO_BITCLEAR, "BITCLEAR")].
Definition ifapi_json_TPM2_EO_serialize (in_ : Z) : jser :=
  table_serialize tab_ifapi_json_TPM2_EO_serialize in_.

Definition tab_ifapi_json_TPM2_ST_serialize : list (Z * string) := [
  (TPM2_ST_RSP_COMMAND, "RSP_COMMAND");
  (TPM2_ST_NULL, "NULL");
  (TPM2_ST_NO_SESSIONS, "NO_SESSIONS");
  (TPM2_ST_SESSIONS, "SESSIONS");
  (TPM2_ST_ATTEST_NV, "ATTEST_NV");
  (TPM2_ST_ATTEST_COMMAND_AUDIT, "ATTEST_COMMAND_AUDIT");
  (TPM2_ST_ATTEST_SESSION_AUDIT, "ATTEST_SESSION_AUDIT");
  (TPM2_ST_ATTEST_CERTIFY, "ATTEST_CERTIFY");
  (TPM2_ST_ATTEST_QUOTE, "ATTEST_QUOTE");
  (TPM2_ST_ATTEST_TIME, "ATTEST_TIME");
  (TPM2_ST_ATTEST_CREATION, "ATTEST_CREATION");
  (TPM2_ST_CREATION, "CREATION");
  (TPM2_ST_VERIFIED, "VERIFIED");
  (TPM2_ST_AUTH_SECRET, "AUTH_SECRET");
  (TPM2_ST_HASHCHECK, "HASHCHECK");
  (TPM2_ST_AUTH_SIGNED, "AUTH_SIGNED");
  (TPM2_ST_FU_MANIFEST, "FU_MANIFEST")].
Definition ifapi_json_TPM2_ST_serialize (in_ : Z) : jser :=
  table_serialize tab_ifapi_json_TPM2_ST_serialize in_.

Definition tab_ifapi_json_TPM2_CAP_serialize : list (Z * string) := [
  (TPM2_CAP_ALGS, "ALGS");
  (TPM2_CAP_HANDLES, "HANDLES");
  (TPM2_CAP_COMMANDS, "COMMANDS");
  (TPM2_CAP_PP_COMMANDS, "PP_COMMANDS");
  (TPM2_CAP_AUDIT_COMMANDS, "AUDIT_COMMANDS");
  (TPM2_CAP_PCRS, "PCRS");
  (TPM2_CAP_TPM_PROPERTIES, "TPM_PROPERTIES");
  (TPM2_CAP_PCR_PROPERTIES, "PCR_PROPERTIES");
  (TPM2_CAP_ECC_CURVES, "ECC_CURVES");
  (TPM2_CAP_AUTH_POLICIES, "AUTH_POLICIES");
  (TPM2_CAP_ACT, "ACT");
  (TPM2_CAP_LAST, "LAST");
  (TPM2_CAP_VENDOR_PROPERTY, "VENDOR_PROPERTY")].
Definition ifapi_json_TPM2_CAP_serialize (in_ : Z) : jser :=
  table_serialize tab_ifapi_json_TPM2_CAP_serialize in_.

Definition tab_ifapi_json_TPM2_PT_serialize : list (Z * string) := [
  (TPM2_PT_NONE, "NONE");
  (TPM2_PT_GROUP, "GROUP");
  (TPM2_PT_FAMILY_INDICATOR, "FAMILY_INDICATOR");
  (TPM2_PT_LEVEL, "LEVEL");
  (TPM2_PT_REVISION, "REVISION");
  (TPM2_PT_DAY_OF_YEAR, "DAY_OF_YEAR");
  (TPM2_PT_YEAR, "YEAR");
  (TPM2_PT_MANUFACTURER, "MANUFACTURER");
  (TPM2_PT_VENDOR_STRING_1, "VENDOR_STRING_1");
  (TPM2_PT_VENDOR_STRING_2, "VENDOR_STRING_2");
  (TPM2_PT_VENDOR_STRING_3, "VENDOR_STRING_3");
  (TPM2_PT_VENDOR_STRING_4, "VENDOR_STRING_4");
  (TPM2_PT_VENDOR_TPM_TYPE, "VENDOR_TPM_TYPE");
  (TPM2_PT_FIRMWARE_VERSION_1, "FIRMWARE_VERSION_1");
  (TPM2_PT_FIRMWARE_VERSION_2, "FIRMWARE_VERSION_2");
  (TPM2_PT_INPUT_BUFFER, "INPUT_BUFFER");
  (TPM2_PT_HR_TRANSIENT_MIN, "HR_TRANSIENT_MIN");
  (TPM2_PT_HR_PERSISTENT_MIN, "HR_PERSISTENT_MIN");
  (TPM2_PT_HR_LOADED_MIN, "HR_LOADED_MIN");
  (TPM2_PT_ACTIVE_SESSIONS_MAX, "ACTIVE_SESSIONS_MAX");
  (TPM2_PT_PCR_COUNT, "PCR_COUNT");
  (TPM2_PT_PCR_SELECT_MIN, "PCR_SELECT_MIN");
  (TPM2_PT_CONTEXT_GAP_MAX, "CONTEXT_GAP_MAX");
  (TPM2_PT_NV_COUNTERS_MAX, "NV_COUNTERS_MAX");
  (TPM2_PT_NV_INDEX_MAX, "NV_INDEX_MAX");
  (TPM2_PT_MEMORY, "MEMORY");
  (TPM2_PT_CLOCK_UPDATE, "CLOCK_UPDATE");
  (TPM2_PT_CONTEXT_HASH, "CONTEXT_HASH");
  (TPM2_PT_CONTEXT_SYM, "CONTEXT_SYM");
  (TPM2_PT_CONTEXT_SYM_SIZE, "CONTEXT_SYM_SIZE");
  (TPM2_PT_ORDERLY_COUNT, "ORDERLY_COUNT");
  (TPM2_PT_MAX_COMMAND_SIZE, "MAX_COMMAND_SIZE");
  (TPM2_PT_MAX_RESPONSE_SIZE, "MAX_RESPONSE_SIZE");
  (TPM2_PT_MAX_DIGEST, "MAX_DIGEST");
  (TPM2_PT_MAX_OBJECT_CONTEXT, "MAX_OBJECT_CONTEXT");
  (TPM2_PT_MAX_SESSION_CONTEXT, "MAX_SESSION_CONTEXT");
  (TPM2_PT_PS_FAMILY_INDICATOR, "PS_FAMILY_INDICATOR");
  (TPM2_PT_PS_LEVEL, "PS_LEVEL");
  (TPM2_PT_PS_REVISION, "PS_REVISION");
  (TPM2_PT_PS_DAY_OF_YEAR, "PS_DAY_OF_YEAR");
  (TPM2_PT_PS_YEAR, "PS_YEAR");
  (TPM2_PT_SPLIT_MAX, "SPLIT_MAX");
  (TPM2_PT_TOTAL_COMMANDS, "TOTAL_COMMANDS");
  (TPM2_PT_LIBRARY_COMMANDS, "LIBRARY_COMMANDS");
  (TPM2_PT_VENDOR_COMMANDS, "VENDOR_COMMANDS");
  (TPM2_PT_NV_BUFFER_MAX, "NV_BUFFER_MAX");
  (TPM2_PT_MODES, "MODES");
  (TPM2_PT_MAX_CAP_BUFFER, "MAX_CAP_BUFFER");
  (TPM2_PT_PERMANENT, "PERMANENT");
  (TPM2_PT_STARTUP_CLEAR, "STARTUP_CLEAR");
  (TPM2_PT_HR_NV_INDEX, "HR_NV_INDEX");
  (TPM2_PT_HR_LOADED, "HR_LOADED");
  (TPM2_PT_HR_LOADED_AVAIL, "HR_LOADED_AVAIL");
  (TPM2_PT_HR_ACTIVE, "HR_ACTIVE");
  (TPM2_PT_HR_ACTIVE_AVAIL, "HR_ACTIVE_AVAIL");
  (TPM2_PT_HR_TRANSIENT_AVAIL, "HR_TRANSIENT_AVAIL");
  (TPM2_PT_HR_PERSISTENT, "HR_PERSISTENT");
  (TPM2_PT_HR_PERSISTENT_AVAIL, "HR_PERSISTENT_AVAIL");
  (TPM2_PT_NV_COUNTERS, "NV_COUNTERS");
  (TPM2_PT_NV_COUNTERS_AVAIL, "NV_COUNTERS_AVAIL");
  (TPM2_PT_ALGORITHM_SET, "ALGORITHM_SET");
  (TPM2_PT_LOADED_CURVES, "LOADED_CURVES");
  (TPM2_PT_LOCKOUT_COUNTER, "LOCKOUT_COUNTER");
  (TPM2_PT_MAX_AUTH_FAIL, "MAX_AUTH_FAIL");
  (TPM2_PT_LOCKOUT_INTERVAL, "LOCKOUT_INTERVAL");
  (TPM2_PT_LOCKOUT_RECOVERY, "LOCKOUT_RECOVERY");
  (TPM2_PT_NV_WRITE_RECOVERY, "NV_WRITE_RECOVERY");
  (TPM2_PT_AUDIT_COUNTER_0, "AUDIT_COUNTER_0");
  (TPM2_PT_AUDIT_COUNTER_1, "AUDIT_COUNTER_1")].
Definition ifapi_json_TPM2_PT_serialize (in_ : Z) : jser :=
  table_serialize tab_ifapi_json_TPM2_PT_serialize in_.

Definition tab_ifapi_json_TPMA_ALGORITHM_serialize : list (Z * string) := [
  (TPMA_ALGORITHM_ASYMMETRIC, "asymmetric");
  (TPMA_ALGORITHM_SYMMETRIC, "symmetric");
  (TPMA_ALGORITHM_HASH, "hash");
  (TPMA_ALGORITHM_OBJECT, "object");
  (TPMA_ALGORITHM_SIGNING, "signing");
  (TPMA_ALGORITHM_ENCRYPTING, "encrypting");
  (TPMA_ALGORITHM_METHOD, "method")].
Definition ifapi_json_TPMA_ALGORITHM_serialize (in_ : Z) : jser :=
  jbody [
    fresh_object_checked;
    bit_serialize tab_ifapi_json_TPMA_ALGORITHM_serialize in_].

Definition tab_ifapi_json_TPMA_OBJECT_serialize : list (Z * string) := [
  (TPMA_OBJECT_FIXEDTPM, "fixedTPM");
  (TPMA_OBJECT_STCLEAR, "stClear");
  (TPMA_OBJECT_FIXEDPARENT, "fixedParent");
  (TPMA_OBJECT_SENSITIVEDATAORIGIN, "sensitiveDataOrigin");
  (TPMA_OBJECT_USERWITHAUTH, "userWithAuth");
  (TPMA_OBJECT_ADMINWITHPOLICY, "adminWithPolicy");
  (TPMA_OBJECT_NODA, "noDA");
  (TPMA_OBJECT_ENCRYPTEDDUPLICATION, "encryptedDuplication");
  (TPMA_OBJECT_RESTRICTED, "restricted");
  (TPMA_OBJECT_DECRYPT, "decrypt");
  (TPMA_OBJECT_SIGN_ENCRYPT, "sign")].
Definition ifapi_json_TPMA_OBJECT_serialize (in_ : Z) : jser :=
  jbody [
    fresh_object_checked;
    bit_serialize tab_ifapi_json_TPMA_OBJECT_serialize in_].

Definition tab_ifapi_json_TPMA_LOCALITY_serialize : list (Z * string) := [
  (TPMA_LOCALITY_TPM2_LOC_ZERO, "ZERO");
  (TPMA_LOCALITY_TPM2_LOC_ONE, "ONE");
  (TPMA_LOCALITY_TPM2_LOC_TWO, "TWO");
  (TPMA_LOCALITY_TPM2_LOC_THREE, "THREE");
  (TPMA_LOCALITY_TPM2_LOC_FOUR, "FOUR")].
Definition ifapi_json_TPMA_LOCALITY_serialize (in_ : Z) : jser :=
  jbody [
    fresh_object_checked;
    bit_serialize tab_ifapi_json_TPMA_LOCALITY_serialize in_;
    int64_field "Extended" (Z.shiftr (Z.land TPMA_LOCALITY_EXTENDED_MASK in_) 5)].

Definition tab_ifapi_json_TPMA_CC_serialize : list (Z * string) := [
  (TPMA_CC_NV, "nv");
  (TPMA_CC_EXTENSIVE, "extensive");
  (TPMA_CC_FLUSHED, "flushed");
  (TPMA_CC_RHANDLE, "rHandle");
  (TPMA_CC_V, "V")].
Definition ifapi_json_TPMA_CC_serialize (in_ : Z) : jser :=
  jbody [
    fresh_object_checked;
    bit_serialize tab_ifapi_json_TPMA_CC_serialize in_;
    int64_field "commandIndex" (Z.shiftr (Z.land TPMA_CC_COMMANDINDEX_MASK in_) 0);
    int64_field "cHandles" (Z.shiftr (Z.land TPMA_CC_CHANDLES_MASK in_) 25);
    int64_field "Res" (Z.shiftr (Z.land TPMA_CC_RES_MASK in_) 30)].

Definition ifapi_json_TPMI_YES_NO_serialize (in_ : Z) : jser :=
  if in_ =? YES then put_new TSS2_FAPI_RC_MEMORY (json_object_new_string "YES")
  else if in_ =? NO then put_new TSS2_FAPI_RC_MEMORY (json_object_new_string "NO")
  else jret TSS2_FAPI_RC_BAD_VALUE.

Definition tab_ifapi_json_TPMI_RH_HIERARCHY_serialize : list (Z * string) := [
  (TPM2_RH_OWNER, "OWNER");
  (TPM2_RH_PLATFORM, "PLATFORM");
  (TPM2_RH_ENDORSEMENT, "ENDORSEMENT");
  (TPM2_RH_NULL, "NULL")].
Definition ifapi_json_TPMI_RH_HIERARCHY_serialize (in_ : Z) : jser :=
  table_serialize tab_ifapi_json_TPMI_RH_HIERARCHY_serialize in_.

Definition ifapi_json_TPMI_RH_NV_INDEX_serialize (in_ : Z) : jser :=
  if (TPM2_NV_INDEX_FIRST <=? in_) && (in_ <=? TPM2_NV_INDEX_LAST)
  then put_new TSS2_FAPI_RC_MEMORY (json_object_new_int64 in_)
  else jret TSS2_FAPI_RC_BAD_VALUE.

Definition ifapi_json_TPMI_ALG_SYM_OBJECT_serialize (in_ : Z) : jser :=
  jbody [CHECK_IN_LIST in_ [TPM2_ALG_AES; TPM2_ALG_CAMELLIA; TPM2_ALG_SM4; TPM2_ALG_NULL];
      ifapi_json_TPM2_ALG_ID_serialize in_].

Definition ifapi_json_TPMI_ALG_SYM_MODE_serialize (in_ : Z) : jser :=
  jbody [CHECK_IN_LIST in_ [TPM2_ALG_CTR; TPM2_ALG_OFB; TPM2_ALG_CBC; TPM2_ALG_CFB; TPM2_ALG_ECB;
      TPM2_ALG_NULL]; ifapi_json_TPM2_ALG_ID_serialize in_].

Definition ifapi_json_TPMI_ALG_CIPHER_MODE_serialize (in_ : Z) : jser :=
  jbody [CHECK_IN_LIST in_ [TPM2_ALG_CTR; TPM2_ALG_OFB; TPM2_ALG_CBC; TPM2_ALG_CFB; TPM2_ALG_ECB;
      TPM2_ALG_NULL]; ifapi_json_TPM2_ALG_ID_serialize in_].

Definition ifapi_json_TPMI_ALG_KDF_serialize (in_ : Z) : jser :=
  jbody [CHECK_IN_LIST in_ [TPM2_ALG_MGF1; TPM2_ALG_KDF1_SP800_56A; TPM2_ALG_KDF1_SP800_108;
      TPM2_ALG_NULL]; ifapi_json_TPM2_ALG_ID_serialize in_].

Definition ifapi_json_TPMI_ALG_SIG_SCHEME_serialize (in_ : Z) : jser :=
  jbody [CHECK_IN_LIST in_ [TPM2_ALG_RSASSA; TPM2_ALG_RSAPSS; TPM2_ALG_ECDSA; TPM2_ALG_ECDAA;
      TPM2_ALG_SM2; TPM2_ALG_ECSCHNORR; TPM2_ALG_HMAC; TPM2_ALG_NULL];
      ifapi_json_TPM2_ALG_ID_serialize in_].

Definition ifapi_json_TPM2B_DIGEST_serialize (in_ : option TPM2B) : jser :=
  tpm2b_serialize (lsize lay_TPMU_HA) in_.

Definition ifapi_json_TPM2B_DATA_serialize (in_ : option TPM2B) : jser :=
  tpm2b_serialize (lsize lay_TPMU_HA) in_.

Definition ifapi_json_TPM2B_NONCE_serialize (in_ : option TPM2B) : jser :=
  ifapi_json_TPM2B_DIGEST_serialize in_.

Definition ifapi_json_TPM2B_OPERAND_serialize (in_ : option TPM2B) : jser :=
  ifapi_json_TPM2B_DIGEST_serialize in_.

Definition ifapi_json_TPM2B_EVENT_serialize (in_ : option TPM2B) : jser :=
  tpm2b_serialize 1024 in_.

Definition ifapi_json_TPM2B_MAX_NV_BUFFER_serialize (in_ : option TPM2B) : jser :=
  tpm2b_serialize TPM2_MAX_NV_BUFFER_SIZE in_.

Definition ifapi_json_TPM2B_NAME_serialize (in_ : option TPM2B) : jser :=
  tpm2b_serialize (lsize lay_TPMU_NAME) in_.

Definition ifapi_json_TPMT_TK_CREATION_serialize (in_ : option TPMT_TK_CREATION) : jser :=
  with_in in_ (fun in_ => jbody [
    fresh_object;
    jwhen (negb ((mget TPMT_TK_CREATION'tag in_) =? TPM2_ST_CREATION)) (jret
        TSS2_FAPI_RC_BAD_VALUE);
    field "tag" (ifapi_json_TPM2_ST_serialize (mget TPMT_TK_CREATION'tag in_));
    field "hierarchy" (ifapi_json_TPMI_RH_HIERARCHY_serialize (mget TPMT_TK_CREATION'hierarchy
        in_));
    field "digest" (ifapi_json_TPM2B_DIGEST_serialize (Some (mget TPMT_TK_CREATION'digest in_)))]).

Definition ifapi_json_TPMS_ALG_PROPERTY_serialize (in_ : option TPMS_ALG_PROPERTY) : jser :=
  with_in in_ (fun in_ => if ((mget TPMS_ALG_PROPERTY'alg in_) =? TPM2_ALG_SHA3_256) || ((mget
      TPMS_ALG_PROPERTY'alg in_) =? TPM2_ALG_SHA3_384) || ((mget TPMS_ALG_PROPERTY'alg in_) =?
      TPM2_ALG_SHA3_512)
    then jret TSS2_RC_SUCCESS else jbody [
    fresh_object;
    field "alg" (ifapi_json_TPM2_ALG_ID_serialize (mget TPMS_ALG_PROPERTY'alg in_));
    field "algProperties" (ifapi_json_TPMA_ALGORITHM_serialize (mget
        TPMS_ALG_PROPERTY'algProperties in_))]).

Definition ifapi_json_TPMS_TAGGED_PROPERTY_serialize (in_ : option TPMS_TAGGED_PROPERTY) : jser :=
  with_in in_ (fun in_ => jbody [
    fresh_object;
    field "property" (ifapi_json_TPM2_PT_serialize (mget TPMS_TAGGED_PROPERTY'property in_));
    field "value" (ifapi_json_UINT32_serialize (mget TPMS_TAGGED_PROPERTY'value in_))]).

Definition ifapi_json_TPML_CC_serialize (in_ : option (TPML Z)) : jser :=
  with_in in_ (fun in_ => list_serialize (count in_) TPM2_MAX_CAP_CC (elems in_)
      ifapi_json_TPM2_CC_serialize).

Definition ifapi_json_TPML_CCA_serialize (in_ : option (TPML Z)) : jser :=
  with_in in_ (fun in_ => list_serialize (count in_) TPM2_MAX_CAP_CC (elems in_)
      ifapi_json_TPMA_CC_serialize).

Definition ifapi_json_TPML_HANDLE_serialize (in_ : option (TPML Z)) : jser :=
  with_in in_ (fun in_ => list_serialize (count in_) TPM2_MAX_CAP_HANDLES (elems in_)
      ifapi_json_TPM2_HANDLE_serialize).

Definition ifapi_json_TPML_DIGEST_VALUES_serialize (in_ : option (TPML TPMT_HA)) : jser :=
  with_in in_ (fun in_ => list_serialize (count in_) TPM2_NUM_PCR_BANKS (elems in_) (fun v =>
      ifapi_json_TPMT_HA_serialize (Some v))).

Definition ifapi_json_TPML_PCR_SELECTION_serialize (in_ : option (TPML TPMS_PCR_SELECTION)) : jser
    :=
  with_in in_ (fun in_ => list_serialize (count in_) TPM2_NUM_PCR_BANKS (elems in_) (fun v =>
      ifapi_json_TPMS_PCR_SELECTION_serialize (Some v))).

Definition ifapi_json_TPML_ALG_PROPERTY_serialize (in_ : option (TPML TPMS_ALG_PROPERTY)) : jser :=
  with_in in_ (fun in_ => list_serialize (count in_) TPM2_MAX_CAP_ALGS (elems in_) (fun v =>
      ifapi_json_TPMS_ALG_PROPERTY_serialize (Some v))).

Definition ifapi_json_TPML_TAGGED_TPM_PROPERTY_serialize (in_ : option (TPML TPMS_TAGGED_PROPERTY))
    : jser :=
  with_in in_ (fun in_ => list_serialize (count in_) TPM2_MAX_TPM_PROPERTIES (elems in_) (fun v =>
      ifapi_json_TPMS_TAGGED_PROPERTY_serialize (Some v))).

Definition ifapi_json_TPML_TAGGED_PCR_PROPERTY_serialize (in_ : option (TPML
    TPMS_TAGGED_PCR_SELECT)) : jser :=
  with_in in_ (fun in_ => list_serialize (count in_) TPM2_MAX_PCR_PROPERTIES (elems in_) (fun v =>
      ifapi_json_TPMS_TAGGED_PCR_SELECT_serialize (Some v))).

Definition ifapi_json_TPML_ECC_CURVE_serialize (in_ : option (TPML Z)) : jser :=
  with_in in_ (fun in_ => list_serialize (count in_) TPM2_MAX_ECC_CURVES (elems in_)
      ifapi_json_TPM2_ECC_CURVE_serialize).

Definition ifapi_json_TPML_TAGGED_POLICY_serialize (in_ : option (TPML TPMS_TAGGED_POLICY)) : jser
    :=
  with_in in_ (fun in_ => list_serialize (count in_) TPM2_MAX_TAGGED_POLICIES (elems in_) (fun v =>
      ifapi_json_TPMS_TAGGED_POLICY_serialize (Some v))).

Definition ifapi_json_TPML_ACT_DATA_serialize (in_ : option (TPML TPMS_ACT_DATA)) : jser :=
  with_in in_ (fun in_ => list_serialize (count in_) TPM2_MAX_ACT_DATA (elems in_) (fun v =>
      ifapi_json_TPMS_ACT_DATA_serialize (Some v))).

Definition ifapi_json_TPMU_CAPABILITIES_serialize (in_ : option TPMU_CAPABILITIES) (selector : Z) :
    jser :=
  union_serialize [
    (TPM2_CAP_ALGS, jcase TPMU_CAPABILITIES'TPML_ALG_PROPERTY (fun v =>
        ifapi_json_TPML_ALG_PROPERTY_serialize (Some v)));
    (TPM2_CAP_HANDLES, jcase TPMU_CAPABILITIES'TPML_HANDLE (fun v =>
        ifapi_json_TPML_HANDLE_serialize (Some v)));
    (TPM2_CAP_COMMANDS, jcase TPMU_CAPABILITIES'TPML_CCA (fun v => ifapi_json_TPML_CCA_serialize
        (Some v)));
    (TPM2_CAP_PP_COMMANDS, jcase TPMU_CAPABILITIES'TPML_CC (fun v => ifapi_json_TPML_CC_serialize
        (Some v)));
    (TPM2_CAP_AUDIT_COMMANDS, jcase TPMU_CAPABILITIES'TPML_CC (fun v =>
        ifapi_json_TPML_CC_serialize (Some v)));
    (TPM2_CAP_PCRS, jcase TPMU_CAPABILITIES'TPML_PCR_SELECTION (fun v =>
        ifapi_json_TPML_PCR_SELECTION_serialize (Some v)));
    (TPM2_CAP_TPM_PROPERTIES, jcase TPMU_CAPABILITIES'TPML_TAGGED_TPM_PROPERTY (fun v =>
        ifapi_json_TPML_TAGGED_TPM_PROPERTY_serialize (Some v)));
    (TPM2_CAP_PCR_PROPERTIES, jcase TPMU_CAPABILITIES'TPML_TAGGED_PCR_PROPERTY (fun v =>
        ifapi_json_TPML_TAGGED_PCR_PROPERTY_serialize (Some v)));
    (TPM2_CAP_ECC_CURVES, jcase TPMU_CAPABILITIES'TPML_ECC_CURVE (fun v =>
        ifapi_json_TPML_ECC_CURVE_serialize (Some v)));
    (TPM2_CAP_AUTH_POLICIES, jcase TPMU_CAPABILITIES'TPML_TAGGED_POLICY (fun v =>
        ifapi_json_TPML_TAGGED_POLICY_serialize (Some v)));
    (TPM2_CAP_ACT, jcase TPMU_CAPABILITIES'TPML_ACT_DATA (fun v =>
        ifapi_json_TPML_ACT_DATA_serialize (Some v)))] in_ selector.

Definition ifapi_json_TPMS_CAPABILITY_DATA_serialize (in_ : option TPMS_CAPABILITY_DATA) : jser :=
  with_in in_ (fun in_ => jbody [
    fresh_object;
    field "capability" (ifapi_json_TPM2_CAP_serialize (mget TPMS_CAPABILITY_DATA'capability in_));
    field "data" (ifapi_json_TPMU_CAPABILITIES_serialize (Some (mget TPMS_CAPABILITY_DATA'data
        in_)) (mget TPMS_CAPABILITY_DATA'capability in_))]).

Definition ifapi_json_TPMS_CLOCK_INFO_serialize (in_ : option TPMS_CLOCK_INFO) : jser :=
  with_in in_ (fun in_ => jbody [
    fresh_object;
    field "clock" (ifapi_json_UINT64_serialize (mget TPMS_CLOCK_INFO'clock in_));
    field "resetCount" (ifapi_json_UINT32_serialize (mget TPMS_CLOCK_INFO'resetCount in_));
    field "restartCount" (ifapi_json_UINT32_serialize (mget TPMS_CLOCK_INFO'restartCount in_));
    field "safe" (ifapi_json_TPMI_YES_NO_serialize (mget TPMS_CLOCK_INFO'safe in_))]).

Definition ifapi_json_TPMS_TIME_INFO_serialize (in_ : option TPMS_TIME_INFO) : jser :=
  with_in in_ (fun in_ => jbody [
    fresh_object;
    field "time" (ifapi_json_UINT64_serialize (mget TPMS_TIME_INFO'time in_));
    field "clockInfo" (ifapi_json_TPMS_CLOCK_INFO_serialize (Some (mget TPMS_TIME_INFO'clockInfo
        in_)))]).

Definition ifapi_json_TPMS_TIME_ATTEST_INFO_serialize (in_ : option TPMS_TIME_ATTEST_INFO) : jser :=
  with_in in_ (fun in_ => jbody [
    fresh_object;
    field "time" (ifapi_json_TPMS_TIME_INFO_serialize (Some (mget TPMS_TIME_ATTEST_INFO'time in_)));
    field "firmwareVersion" (ifapi_json_UINT64_serialize (mget
        TPMS_TIME_ATTEST_INFO'firmwareVersion in_))]).

Definition ifapi_json_TPMS_CERTIFY_INFO_serialize (in_ : option TPMS_CERTIFY_INFO) : jser :=
  with_in in_ (fun in_ => jbody [
    fresh_object;
    field "name" (ifapi_json_TPM2B_NAME_serialize (Some (mget TPMS_CERTIFY_INFO'name in_)));
    field "qualifiedName" (ifapi_json_TPM2B_NAME_serialize (Some (mget
        TPMS_CERTIFY_INFO'qualifiedName in_)))]).

Definition ifapi_json_TPMS_QUOTE_INFO_serialize (in_ : option TPMS_QUOTE_INFO) : jser :=
  with_in in_ (fun in_ => jbody [
    fresh_object;
    field "pcrSelect" (ifapi_json_TPML_PCR_SELECTION_serialize (Some (mget
        TPMS_QUOTE_INFO'pcrSelect in_)));
    field "pcrDigest" (ifapi_json_TPM2B_DIGEST_serialize (Some (mget TPMS_QUOTE_INFO'pcrDigest
        in_)))]).

Definition ifapi_json_TPMS_COMMAND_AUDIT_INFO_serialize (in_ : option TPMS_COMMAND_AUDIT_INFO) :
    jser :=
  with_in in_ (fun in_ => jbody [
    fresh_object;
    field "auditCounter" (ifapi_json_UINT64_serialize (mget TPMS_COMMAND_AUDIT_INFO'auditCounter
        in_));
    field "digestAlg" (ifapi_json_TPM2_ALG_ID_serialize (mget TPMS_COMMAND_AUDIT_INFO'digestAlg
        in_));
    field "auditDigest" (ifapi_json_TPM2B_DIGEST_serialize (Some (mget
        TPMS_COMMAND_AUDIT_INFO'auditDigest in_)));
    field "commandDigest" (ifapi_json_TPM2B_DIGEST_serialize (Some (mget
        TPMS_COMMAND_AUDIT_INFO'commandDigest in_)))]).

Definition ifapi_json_TPMS_SESSION_AUDIT_INFO_serialize (in_ : option TPMS_SESSION_AUDIT_INFO) :
    jser :=
  with_in in_ (fun in_ => jbody [
    fresh_object;
    field "exclusiveSession" (ifapi_json_TPMI_YES_NO_serialize (mget
        TPMS_SESSION_AUDIT_INFO'exclusiveSession in_));
    field "sessionDigest" (ifapi_json_TPM2B_DIGEST_serialize (Some (mget
        TPMS_SESSION_AUDIT_INFO'sessionDigest in_)))]).

Definition ifapi_json_TPMS_CREATION_INFO_serialize (in_ : option TPMS_CREATION_INFO) : jser :=
  with_in in_ (fun in_ => jbody [
    fresh_object;
    field "objectName" (ifapi_json_TPM2B_NAME_serialize (Some (mget TPMS_CREATION_INFO'objectName
        in_)));
    field "creationHash" (ifapi_json_TPM2B_DIGEST_serialize (Some (mget
        TPMS_CREATION_INFO'creationHash in_)))]).

Definition ifapi_json_TPMS_NV_CERTIFY_INFO_serialize (in_ : option TPMS_NV_CERTIFY_INFO) : jser :=
  with_in in_ (fun in_ => jbody [
    fresh_object;
    field "indexName" (ifapi_json_TPM2B_NAME_serialize (Some (mget TPMS_NV_CERTIFY_INFO'indexName
        in_)));
    field "offset" (ifapi_json_UINT16_serialize (mget TPMS_NV_CERTIFY_INFO'offset in_));
    field "nvContents" (ifapi_json_TPM2B_MAX_NV_BUFFER_serialize (Some (mget
        TPMS_NV_CERTIFY_INFO'nvContents in_)))]).

Definition ifapi_json_TPMI_ST_ATTEST_serialize (in_ : Z) : jser :=
  jbody [CHECK_IN_LIST in_ [TPM2_ST_ATTEST_CERTIFY; TPM2_ST_ATTEST_QUOTE;
      TPM2_ST_ATTEST_SESSION_AUDIT; TPM2_ST_ATTEST_COMMAND_AUDIT; TPM2_ST_ATTEST_TIME;
      TPM2_ST_ATTEST_CREATION; TPM2_ST_ATTEST_NV]; ifapi_json_TPM2_ST_serialize in_].

Definition ifapi_json_TPMU_ATTEST_serialize (in_ : option TPMU_ATTEST) (selector : Z) : jser :=
  union_serialize [
    (TPM2_ST_ATTEST_CERTIFY, jcase TPMU_ATTEST'TPMS_CERTIFY_INFO (fun v =>
        ifapi_json_TPMS_CERTIFY_INFO_serialize (Some v)));
    (TPM2_ST_ATTEST_CREATION, jcase TPMU_ATTEST'TPMS_CREATION_INFO (fun v =>
        ifapi_json_TPMS_CREATION_INFO_serialize (Some v)));
    (TPM2_ST_ATTEST_QUOTE, jcase TPMU_ATTEST'TPMS_QUOTE_INFO (fun v =>
        ifapi_json_TPMS_QUOTE_INFO_serialize (Some v)));
    (TPM2_ST_ATTEST_COMMAND_AUDIT, jcase TPMU_ATTEST'TPMS_COMMAND_AUDIT_INFO (fun v =>
        ifapi_json_TPMS_COMMAND_AUDIT_INFO_serialize (Some v)));
    (TPM2_ST_ATTEST_SESSION_AUDIT, jcase TPMU_ATTEST'TPMS_SESSION_AUDIT_INFO (fun v =>
        ifapi_json_TPMS_SESSION_AUDIT_INFO_serialize (Some v)));
    (TPM2_ST_ATTEST_TIME, jcase TPMU_ATTEST'TPMS_TIME_ATTEST_INFO (fun v =>
        ifapi_json_TPMS_TIME_ATTEST_INFO_serialize (Some v)));
    (TPM2_ST_ATTEST_NV, jcase TPMU_ATTEST'TPMS_NV_CERTIFY_INFO (fun v =>
        ifapi_json_TPMS_NV_CERTIFY_INFO_serialize (Some v)))] in_ selector.

Definition ifapi_json_TPMS_ATTEST_serialize (in_ : option TPMS_ATTEST) : jser :=
  with_in in_ (fun in_ => jbody [
    fresh_object;
    field "magic" (ifapi_json_TPM2_GENERATED_serialize (mget TPMS_ATTEST'magic in_));
    field "type" (ifapi_json_TPMI_ST_ATTEST_serialize (mget TPMS_ATTEST'type in_));
    field "qualifiedSigner" (ifapi_json_TPM2B_NAME_serialize (Some (mget
        TPMS_ATTEST'qualifiedSigner in_)));
    field "extraData" (ifapi_json_TPM2B_DATA_serialize (Some (mget TPMS_ATTEST'extraData in_)));
    field "clockInfo" (ifapi_json_TPMS_CLOCK_INFO_serialize (Some (mget TPMS_ATTEST'clockInfo
        in_)));
    field "firmwareVersion" (ifapi_json_UINT64_serialize (mget TPMS_ATTEST'firmwareVersion in_));
    field "attested" (ifapi_json_TPMU_ATTEST_serialize (Some (mget TPMS_ATTEST'attested in_)) (mget
        TPMS_ATTEST'type in_))]).

Definition ifapi_json_TPMI_SM4_KEY_BITS_serialize (in_ : Z) : jser :=
  jbody [CHECK_IN_LIST in_ [128]; ifapi_json_UINT16_serialize in_].

Definition ifapi_json_TPMI_CAMELLIA_KEY_BITS_serialize (in_ : Z) : jser :=
  jbody [CHECK_IN_LIST in_ [128; 192; 256]; ifapi_json_UINT16_serialize in_].

Definition ifapi_json_TPMI_AES_KEY_BITS_serialize (in_ : Z) : jser :=
  jbody [CHECK_IN_LIST in_ [128; 192; 256]; ifapi_json_UINT16_serialize in_].

Definition ifapi_json_TPMU_SYM_KEY_BITS_serialize (in_ : option Z) (selector : Z) : jser :=
  union_serialize [
    (TPM2_ALG_AES, jcase (whole 0) ifapi_json_TPMI_AES_KEY_BITS_serialize);
    (TPM2_ALG_SM4, jcase (whole 0) ifapi_json_TPMI_SM4_KEY_BITS_serialize);
    (TPM2_ALG_CAMELLIA, jcase (whole 0) ifapi_json_TPMI_CAMELLIA_KEY_BITS_serialize);
    (TPM2_ALG_XOR, jcase (whole 0) ifapi_json_TPMI_ALG_HASH_serialize)] in_ selector.

Definition ifapi_json_TPMU_SYM_MODE_serialize (in_ : option Z) (selector : Z) : jser :=
  union_serialize [
    (TPM2_ALG_CAMELLIA, jcase (whole 0) ifapi_json_TPMI_ALG_SYM_MODE_serialize);
    (TPM2_ALG_SM4, jcase (whole 0) ifapi_json_TPMI_ALG_SYM_MODE_serialize);
    (TPM2_ALG_AES, jcase (whole 0) ifapi_json_TPMI_ALG_SYM_MODE_serialize)] in_ selector.

Definition ifapi_json_TPMT_SYM_DEF_OBJECT_serialize (in_ : option TPMT_SYM_DEF_OBJECT) : jser :=
  with_in in_ (fun in_ => jbody [
    fresh_object;
    field "algorithm" (ifapi_json_TPMI_ALG_SYM_OBJECT_serialize (mget TPMT_SYM_DEF_OBJECT'algorithm
        in_));
    jwhen (negb ((mget TPMT_SYM_DEF_OBJECT'algorithm in_) =? TPM2_ALG_NULL)) (field "keyBits"
        (ifapi_json_TPMU_SYM_KEY_BITS_serialize (Some (mget TPMT_SYM_DEF_OBJECT'keyBits in_)) (mget
        TPMT_SYM_DEF_OBJECT'algorithm in_)));
    jwhen (negb ((mget TPMT_SYM_DEF_OBJECT'algorithm in_) =? TPM2_ALG_NULL)) (field "mode"
        (ifapi_json_TPMU_SYM_MODE_serialize (Some (mget TPMT_SYM_DEF_OBJECT'mode in_)) (mget
        TPMT_SYM_DEF_OBJECT'algorithm in_)))]).

Definition ifapi_json_TPMS_SYMCIPHER_PARMS_serialize (in_ : option TPMS_SYMCIPHER_PARMS) : jser :=
  with_in in_ (fun in_ => jbody [
    fresh_object;
    field "sym" (ifapi_json_TPMT_SYM_DEF_OBJECT_serialize (Some (mget TPMS_SYMCIPHER_PARMS'sym
        in_)))]).

Definition ifapi_json_TPMS_SCHEME_HASH_serialize (in_ : option TPMS_SCHEME_HASH) : jser :=
  with_in in_ (fun in_ => jbody [
    fresh_object;
    field "hashAlg" (ifapi_json_TPMI_ALG_HASH_serialize (mget TPMS_SCHEME_HASH'hashAlg in_))]).

Definition ifapi_json_TPMS_SCHEME_ECDAA_serialize (in_ : option TPMS_SCHEME_ECDAA) : jser :=
  with_in in_ (fun in_ => jbody [
    fresh_object;
    field "hashAlg" (ifapi_json_TPMI_ALG_HASH_serialize (mget TPMS_SCHEME_ECDAA'hashAlg in_));
    field "count" (ifapi_json_UINT16_serialize (mget TPMS_SCHEME_ECDAA'count in_))]).

Definition ifapi_json_TPMI_ALG_KEYEDHASH_SCHEME_serialize (in_ : Z) : jser :=
  jbody [CHECK_IN_LIST in_ [TPM2_ALG_HMAC; TPM2_ALG_XOR; TPM2_ALG_NULL];
      ifapi_json_TPM2_ALG_ID_serialize in_].

Definition ifapi_json_TPMS_SCHEME_HMAC_serialize (in_ : option TPMS_SCHEME_HASH) : jser :=
  ifapi_json_TPMS_SCHEME_HASH_serialize in_.

Definition ifapi_json_TPMS_SCHEME_XOR_serialize (in_ : option TPMS_SCHEME_XOR) : jser :=
  with_in in_ (fun in_ => jbody [
    fresh_object;
    field "hashAlg" (ifapi_json_TPMI_ALG_HASH_serialize (mget TPMS_SCHEME_XOR'hashAlg in_));
    field "kdf" (ifapi_json_TPMI_ALG_KDF_serialize (mget TPMS_SCHEME_XOR'kdf in_))]).

Definition ifapi_json_TPMU_SCHEME_KEYEDHASH_serialize (in_ : option TPMS_SCHEME_XOR) (selector : Z)
    : jser :=
  union_serialize [
    (TPM2_ALG_HMAC, jcase hash_of_xor (fun v => ifapi_json_TPMS_SCHEME_HMAC_serialize (Some v)));
    (TPM2_ALG_XOR, jcase (whole zero_TPMS_SCHEME_XOR) (fun v =>
        ifapi_json_TPMS_SCHEME_XOR_serialize (Some v)))] in_ selector.

Definition ifapi_json_TPMT_KEYEDHASH_SCHEME_serialize (in_ : option TPMT_KEYEDHASH_SCHEME) : jser :=
  with_in in_ (fun in_ => jbody [
    fresh_object;
    field "scheme" (ifapi_json_TPMI_ALG_KEYEDHASH_SCHEME_serialize (mget
        TPMT_KEYEDHASH_SCHEME'scheme in_));
    jwhen (negb ((mget TPMT_KEYEDHASH_SCHEME'scheme in_) =? TPM2_ALG_NULL)) (field "details"
        (ifapi_json_TPMU_SCHEME_KEYEDHASH_serialize (Some (mget TPMT_KEYEDHASH_SCHEME'details in_))
        (mget TPMT_KEYEDHASH_SCHEME'scheme in_)))]).

Definition ifapi_json_TPMS_SIG_SCHEME_RSASSA_serialize (in_ : option TPMS_SCHEME_HASH) : jser :=
  ifapi_json_TPMS_SCHEME_HASH_serialize in_.

Definition ifapi_json_TPMS_SIG_SCHEME_RSAPSS_serialize (in_ : option TPMS_SCHEME_HASH) : jser :=
  ifapi_json_TPMS_SCHEME_HASH_serialize in_.

Definition ifapi_json_TPMS_SIG_SCHEME_ECDSA_serialize (in_ : option TPMS_SCHEME_HASH) : jser :=
  ifapi_json_TPMS_SCHEME_HASH_serialize in_.

Definition ifapi_json_TPMS_SIG_SCHEME_SM2_serialize (in_ : option TPMS_SCHEME_HASH) : jser :=
  ifapi_json_TPMS_SCHEME_HASH_serialize in_.

Definition ifapi_json_TPMS_SIG_SCHEME_ECSCHNORR_serialize (in_ : option TPMS_SCHEME_HASH) : jser :=
  ifapi_json_TPMS_SCHEME_HASH_serialize in_.

Definition ifapi_json_TPMS_SIG_SCHEME_ECDAA_serialize (in_ : option TPMS_SCHEME_ECDAA) : jser :=
  ifapi_json_TPMS_SCHEME_ECDAA_serialize in_.

Definition ifapi_json_TPMU_SIG_SCHEME_serialize (in_ : option TPMS_SCHEME_ECDAA) (selector : Z) :
    jser :=
  union_serialize [
    (TPM2_ALG_RSASSA, jcase hash_of_ecdaa (fun v => ifapi_json_TPMS_SIG_SCHEME_RSASSA_serialize
        (Some v)));
    (TPM2_ALG_RSAPSS, jcase hash_of_ecdaa (fun v => ifapi_json_TPMS_SIG_SCHEME_RSAPSS_serialize
        (Some v)));
    (TPM2_ALG_ECDSA, jcase hash_of_ecdaa (fun v => ifapi_json_TPMS_SIG_SCHEME_ECDSA_serialize (Some
        v)));
    (TPM2_ALG_ECDAA, jcase (whole zero_TPMS_SCHEME_ECDAA) (fun v =>
        ifapi_json_TPMS_SIG_SCHEME_ECDAA_serialize (Some v)));
    (TPM2_ALG_SM2, jcase hash_of_ecdaa (fun v => ifapi_json_TPMS_SIG_SCHEME_SM2_serialize (Some
        v)));
    (TPM2_ALG_ECSCHNORR, jcase hash_of_ecdaa (fun v =>
        ifapi_json_TPMS_SIG_SCHEME_ECSCHNORR_serialize (Some v)));
    (TPM2_ALG_HMAC, jcase hash_of_ecdaa (fun v => ifapi_json_TPMS_SCHEME_HMAC_serialize (Some v)))]
        in_ selector.

Definition ifapi_json_TPMT_SIG_SCHEME_serialize (in_ : option TPMT_SIG_SCHEME) : jser :=
  with_in in_ (fun in_ => jbody [
    fresh_object;
    field "scheme" (ifapi_json_TPMI_ALG_SIG_SCHEME_serialize (mget TPMT_SIG_SCHEME'scheme in_));
    jwhen (negb ((mget TPMT_SIG_SCHEME'scheme in_) =? TPM2_ALG_NULL)) (field "details"
        (ifapi_json_TPMU_SIG_SCHEME_serialize (Some (mget TPMT_SIG_SCHEME'details in_)) (mget
        TPMT_SIG_SCHEME'scheme in_)))]).

Definition ifapi_json_TPMS_ENC_SCHEME_OAEP_serialize (in_ : option TPMS_SCHEME_HASH) : jser :=
  ifapi_json_TPMS_SCHEME_HASH_serialize in_.

Definition ifapi_json_TPMS_ENC_SCHEME_RSAES_serialize (in_ : option TPMS_EMPTY) : jser :=
  ifapi_json_TPMS_EMPTY_serialize in_.

Definition ifapi_json_TPMS_KEY_SCHEME_ECDH_serialize (in_ : option TPMS_SCHEME_HASH) : jser :=
  ifapi_json_TPMS_SCHEME_HASH_serialize in_.

Definition ifapi_json_TPMS_SCHEME_MGF1_serialize (in_ : option TPMS_SCHEME_HASH) : jser :=
  ifapi_json_TPMS_SCHEME_HASH_serialize in_.

Definition ifapi_json_TPMS_SCHEME_KDF1_SP800_56A_serialize (in_ : option TPMS_SCHEME_HASH) : jser :=
  ifapi_json_TPMS_SCHEME_HASH_serialize in_.

Definition ifapi_json_TPMS_SCHEME_KDF1_SP800_108_serialize (in_ : option TPMS_SCHEME_HASH) : jser :=
  ifapi_json_TPMS_SCHEME_HASH_serialize in_.

Definition ifapi_json_TPMU_KDF_SCHEME_serialize (in_ : option TPMS_SCHEME_HASH) (selector : Z) :
    jser :=
  union_serialize [
    (TPM2_ALG_MGF1, jcase (whole zero_TPMS_SCHEME_HASH) (fun v =>
        ifapi_json_TPMS_SCHEME_MGF1_serialize (Some v)));
    (TPM2_ALG_KDF1_SP800_56A, jcase (whole zero_TPMS_SCHEME_HASH) (fun v =>
        ifapi_json_TPMS_SCHEME_KDF1_SP800_56A_serialize (Some v)));
    (TPM2_ALG_KDF1_SP800_108, jcase (whole zero_TPMS_SCHEME_HASH) (fun v =>
        ifapi_json_TPMS_SCHEME_KDF1_SP800_108_serialize (Some v)))] in_ selector.

Definition ifapi_json_TPMT_KDF_SCHEME_serialize (in_ : option TPMT_KDF_SCHEME) : jser :=
  with_in in_ (fun in_ => jbody [
    fresh_object;
    field "scheme" (ifapi_json_TPMI_ALG_KDF_serialize (mget TPMT_KDF_SCHEME'scheme in_));
    jwhen (negb ((mget TPMT_KDF_SCHEME'scheme in_) =? TPM2_ALG_NULL)) (field "details"
        (ifapi_json_TPMU_KDF_SCHEME_serialize (Some (mget TPMT_KDF_SCHEME'details in_)) (mget
        TPMT_KDF_SCHEME'scheme in_)))]).

Definition ifapi_json_TPMI_ALG_ASYM_SCHEME_serialize (in_ : Z) : jser :=
  jbody [CHECK_IN_LIST in_ [TPM2_ALG_ECDH; TPM2_ALG_RSASSA; TPM2_ALG_RSAPSS; TPM2_ALG_ECDSA;
      TPM2_ALG_ECDAA; TPM2_ALG_SM2; TPM2_ALG_ECSCHNORR; TPM2_ALG_RSAES; TPM2_ALG_OAEP;
      TPM2_ALG_NULL]; ifapi_json_TPM2_ALG_ID_serialize in_].

Definition ifapi_json_TPMU_ASYM_SCHEME_serialize (in_ : option TPMS_SCHEME_ECDAA) (selector : Z) :
    jser :=
  union_serialize [
    (TPM2_ALG_ECDH, jcase hash_of_ecdaa (fun v => ifapi_json_TPMS_KEY_SCHEME_ECDH_serialize (Some
        v)));
    (TPM2_ALG_RSASSA, jcase hash_of_ecdaa (fun v => ifapi_json_TPMS_SIG_SCHEME_RSASSA_serialize
        (Some v)));
    (TPM2_ALG_RSAPSS, jcase hash_of_ecdaa (fun v => ifapi_json_TPMS_SIG_SCHEME_RSAPSS_serialize
        (Some v)));
    (TPM2_ALG_ECDSA, jcase hash_of_ecdaa (fun v => ifapi_json_TPMS_SIG_SCHEME_ECDSA_serialize (Some
        v)));
    (TPM2_ALG_ECDAA, jcase (whole zero_TPMS_SCHEME_ECDAA) (fun v =>
        ifapi_json_TPMS_SIG_SCHEME_ECDAA_serialize (Some v)));
    (TPM2_ALG_SM2, jcase hash_of_ecdaa (fun v => ifapi_json_TPMS_SIG_SCHEME_SM2_serialize (Some
        v)));
    (TPM2_ALG_ECSCHNORR, jcase hash_of_ecdaa (fun v =>
        ifapi_json_TPMS_SIG_SCHEME_ECSCHNORR_serialize (Some v)));
    (TPM2_ALG_RSAES, jcase empty_of_ecdaa (fun v => ifapi_json_TPMS_ENC_SCHEME_RSAES_serialize
        (Some v)));
    (TPM2_ALG_OAEP, jcase hash_of_ecdaa (fun v => ifapi_json_TPMS_ENC_SCHEME_OAEP_serialize (Some
        v)));
    (TPM2_ALG_MLDSA, jcase hash_of_ecdaa (fun v => ifapi_json_TPMS_SCHEME_HASH_serialize (Some
        v)))] in_ selector.

Definition ifapi_json_TPMI_ALG_RSA_SCHEME_serialize (in_ : Z) : jser :=
  jbody [CHECK_IN_LIST in_ [TPM2_ALG_RSAES; TPM2_ALG_OAEP; TPM2_ALG_RSASSA; TPM2_ALG_RSAPSS;
      TPM2_ALG_NULL]; ifapi_json_TPM2_ALG_ID_serialize in_].

Definition ifapi_json_TPMT_RSA_SCHEME_serialize (in_ : option TPMT_RSA_SCHEME) : jser :=
  with_in in_ (fun in_ => jbody [
    fresh_object;
    field "scheme" (ifapi_json_TPMI_ALG_RSA_SCHEME_serialize (mget TPMT_RSA_SCHEME'scheme in_));
    jwhen (negb ((mget TPMT_RSA_SCHEME'scheme in_) =? TPM2_ALG_NULL)) (field "details"
        (ifapi_json_TPMU_ASYM_SCHEME_serialize (Some (mget TPMT_RSA_SCHEME'details in_)) (mget
        TPMT_RSA_SCHEME'scheme in_)))]).

Definition ifapi_json_TPM2B_PUBLIC_KEY_RSA_serialize (in_ : option TPM2B) : jser :=
  tpm2b_serialize TPM2_MAX_RSA_KEY_BYTES in_.

Definition ifapi_json_TPMI_RSA_KEY_BITS_serialize (in_ : Z) : jser :=
  jbody [CHECK_IN_LIST in_ [1024; 2048; 3072; 4096]; ifapi_json_UINT16_serialize in_].

Definition ifapi_json_TPM2B_ECC_PARAMETER_serialize (in_ : option TPM2B) : jser :=
  tpm2b_serialize TPM2_MAX_ECC_KEY_BYTES in_.

Definition ifapi_json_TPMS_ECC_POINT_serialize (in_ : option TPMS_ECC_POINT) : jser :=
  with_in in_ (fun in_ => jbody [
    fresh_object;
    field "x" (ifapi_json_TPM2B_ECC_PARAMETER_serialize (Some (mget TPMS_ECC_POINT'x in_)));
    field "y" (ifapi_json_TPM2B_ECC_PARAMETER_serialize (Some (mget TPMS_ECC_POINT'y in_)))]).

Definition ifapi_json_TPMI_ALG_ECC_SCHEME_serialize (in_ : Z) : jser :=
  jbody [CHECK_IN_LIST in_ [TPM2_ALG_ECDSA; TPM2_ALG_ECDAA; TPM2_ALG_SM2; TPM2_ALG_ECSCHNORR;
      TPM2_ALG_ECDH; TPM2_ALG_NULL]; ifapi_json_TPM2_ALG_ID_serialize in_].

Definition ifapi_json_TPMI_ECC_CURVE_serialize (in_ : Z) : jser :=
  ifapi_json_TPM2_ECC_CURVE_serialize in_.

Definition ifapi_json_TPMT_ECC_SCHEME_serialize (in_ : option TPMT_ECC_SCHEME) : jser :=
  with_in in_ (fun in_ => jbody [
    fresh_object;
    field "scheme" (ifapi_json_TPMI_ALG_ECC_SCHEME_serialize (mget TPMT_ECC_SCHEME'scheme in_));
    jwhen (negb ((mget TPMT_ECC_SCHEME'scheme in_) =? TPM2_ALG_NULL)) (field "details"
        (ifapi_json_TPMU_ASYM_SCHEME_serialize (Some (mget TPMT_ECC_SCHEME'details in_)) (mget
        TPMT_ECC_SCHEME'scheme in_)))]).

Definition ifapi_json_TPMS_SIGNATURE_RSA_serialize (in_ : option TPMS_SIGNATURE_RSA) : jser :=
  with_in in_ (fun in_ => jbody [
    fresh_object;
    field "hash" (ifapi_json_TPMI_ALG_HASH_serialize (mget TPMS_SIGNATURE_RSA'hash in_));
    field "sig" (ifapi_json_TPM2B_PUBLIC_KEY_RSA_serialize (Some (mget TPMS_SIGNATURE_RSA'sig
        in_)))]).

Definition ifapi_json_TPMS_SIGNATURE_RSASSA_serialize (in_ : option TPMS_SIGNATURE_RSA) : jser :=
  ifapi_json_TPMS_SIGNATURE_RSA_serialize in_.

Definition ifapi_json_TPMS_SIGNATURE_RSAPSS_serialize (in_ : option TPMS_SIGNATURE_RSA) : jser :=
  ifapi_json_TPMS_SIGNATURE_RSA_serialize in_.

Definition ifapi_json_TPMS_SIGNATURE_ECC_serialize (in_ : option TPMS_SIGNATURE_ECC) : jser :=
  with_in in_ (fun in_ => jbody [
    fresh_object;
    field "hash" (ifapi_json_TPMI_ALG_HASH_serialize (mget TPMS_SIGNATURE_ECC'hash in_));
    field "signatureR" (ifapi_json_TPM2B_ECC_PARAMETER_serialize (Some (mget
        TPMS_SIGNATURE_ECC'signatureR in_)));
    field "signatureS" (ifapi_json_TPM2B_ECC_PARAMETER_serialize (Some (mget
        TPMS_SIGNATURE_ECC'signatureS in_)))]).

Definition ifapi_json_TPMS_SIGNATURE_ECDSA_serialize (in_ : option TPMS_SIGNATURE_ECC) : jser :=
  ifapi_json_TPMS_SIGNATURE_ECC_serialize in_.

Definition ifapi_json_TPMS_SIGNATURE_ECDAA_serialize (in_ : option TPMS_SIGNATURE_ECC) : jser :=
  ifapi_json_TPMS_SIGNATURE_ECC_serialize in_.

Definition ifapi_json_TPMS_SIGNATURE_SM2_serialize (in_ : option TPMS_SIGNATURE_ECC) : jser :=
  ifapi_json_TPMS_SIGNATURE_ECC_serialize in_.

Definition ifapi_json_TPMS_SIGNATURE_ECSCHNORR_serialize (in_ : option TPMS_SIGNATURE_ECC) : jser :=
  ifapi_json_TPMS_SIGNATURE_ECC_serialize in_.

Definition ifapi_json_TPM2B_MLDSA_SIGNATURE_serialize (in_ : option TPM2B) : jser :=
  tpm2b_serialize TPM2_MAX_MLDSA_SIGNATURE_SIZE in_.

Definition ifapi_json_TPMS_SIGNATURE_MLDSA_serialize (in_ : option TPMS_SIGNATURE_MLDSA) : jser :=
  with_in in_ (fun in_ => jbody [
    fresh_object;
    field "hash" (ifapi_json_TPMI_ALG_HASH_serialize (mget TPMS_SIGNATURE_MLDSA'hash in_));
    field "sig" (ifapi_json_TPM2B_MLDSA_SIGNATURE_serialize (Some (mget TPMS_SIGNATURE_MLDSA'sig
        in_)))]).

Definition ifapi_json_TPM2B_MLDSA_PUBLIC_KEY_serialize (in_ : option TPM2B) : jser :=
  tpm2b_serialize TPM2_MAX_MLDSA_PUBLIC_KEY_SIZE in_.

Definition ifapi_json_TPM2B_MLKEM_PUBLIC_KEY_serialize (in_ : option TPM2B) : jser :=
  tpm2b_serialize TPM2_MAX_MLKEM_PUBLIC_KEY_SIZE in_.

Definition ifapi_json_TPMS_ML_PARAMETER_SET_serialize (in_ : option TPMS_ML_PARAMETER_SET) : jser :=
  with_in in_ (fun in_ => jbody [
    fresh_object;
    int64_field "identifier" (mget TPMS_ML_PARAMETER_SET'identifier in_)]).

Definition ifapi_json_TPMS_MLDSA_PARMS_serialize (in_ : option TPMS_MLDSA_PARMS) : jser :=
  with_in in_ (fun in_ => jbody [
    fresh_object;
    field "nameAlg" (ifapi_json_TPMI_ALG_HASH_serialize (mget TPMS_MLDSA_PARMS'nameAlg in_));
    field "parameterSet" (ifapi_json_TPMS_ML_PARAMETER_SET_serialize (Some (mget
        TPMS_MLDSA_PARMS'parameterSet in_)))]).

Definition ifapi_json_TPMS_MLKEM_PARMS_serialize (in_ : option TPMS_MLKEM_PARMS) : jser :=
  with_in in_ (fun in_ => jbody [
    fresh_object;
    field "nameAlg" (ifapi_json_TPMI_ALG_HASH_serialize (mget TPMS_MLKEM_PARMS'nameAlg in_));
    field "parameterSet" (ifapi_json_TPMS_ML_PARAMETER_SET_serialize (Some (mget
        TPMS_MLKEM_PARMS'parameterSet in_)))]).

Definition ifapi_json_TPMU_SIGNATURE_serialize (in_ : option TPMU_SIGNATURE) (selector : Z) : jser
    :=
  union_serialize [
    (TPM2_ALG_RSASSA, jcase TPMU_SIGNATURE'TPMS_SIGNATURE_RSA (fun v =>
        ifapi_json_TPMS_SIGNATURE_RSASSA_serialize (Some v)));
    (TPM2_ALG_RSAPSS, jcase TPMU_SIGNATURE'TPMS_SIGNATURE_RSA (fun v =>
        ifapi_json_TPMS_SIGNATURE_RSAPSS_serialize (Some v)));
    (TPM2_ALG_ECDSA, jcase TPMU_SIGNATURE'TPMS_SIGNATURE_ECC (fun v =>
        ifapi_json_TPMS_SIGNATURE_ECDSA_serialize (Some v)));
    (TPM2_ALG_ECDAA, jcase TPMU_SIGNATURE'TPMS_SIGNATURE_ECC (fun v =>
        ifapi_json_TPMS_SIGNATURE_ECDAA_serialize (Some v)));
    (TPM2_ALG_SM2, jcase TPMU_SIGNATURE'TPMS_SIGNATURE_ECC (fun v =>
        ifapi_json_TPMS_SIGNATURE_SM2_serialize (Some v)));
    (TPM2_ALG_ECSCHNORR, jcase TPMU_SIGNATURE'TPMS_SIGNATURE_ECC (fun v =>
        ifapi_json_TPMS_SIGNATURE_ECSCHNORR_serialize (Some v)));
    (TPM2_ALG_HMAC, jcase TPMU_SIGNATURE'TPMT_HA (fun v => ifapi_json_TPMT_HA_serialize (Some v)));
    (TPM2_ALG_MLDSA, jcase TPMU_SIGNATURE'TPMS_SIGNATURE_MLDSA (fun v =>
        ifapi_json_TPMS_SIGNATURE_MLDSA_serialize (Some v)))] in_ selector.

Definition ifapi_json_TPMT_SIGNATURE_serialize (in_ : option TPMT_SIGNATURE) : jser :=
  with_in in_ (fun in_ => jbody [
    fresh_object;
    field "sigAlg" (ifapi_json_TPMI_ALG_SIG_SCHEME_serialize (mget TPMT_SIGNATURE'sigAlg in_));
    jwhen (negb ((mget TPMT_SIGNATURE'sigAlg in_) =? TPM2_ALG_NULL)) (field "signature"
        (ifapi_json_TPMU_SIGNATURE_serialize (Some (mget TPMT_SIGNATURE'signature in_)) (mget
        TPMT_SIGNATURE'sigAlg in_)))]).

Definition ifapi_json_TPM2B_ENCRYPTED_SECRET_serialize (in_ : option TPM2B) : jser :=
  tpm2b_serialize (lsize lay_TPMU_ENCRYPTED_SECRET) in_.

Definition ifapi_json_TPMI_ALG_PUBLIC_serialize (in_ : Z) : jser :=
  jbody [CHECK_IN_LIST in_ [TPM2_ALG_RSA; TPM2_ALG_KEYEDHASH; TPM2_ALG_ECC; TPM2_ALG_SYMCIPHER;
      TPM2_ALG_NULL]; ifapi_json_TPM2_ALG_ID_serialize in_].

Definition ifapi_json_TPMU_PUBLIC_ID_serialize (in_ : option TPMU_PUBLIC_ID) (selector : Z) : jser
    :=
  union_serialize [
    (TPM2_ALG_KEYEDHASH, jcase TPMU_PUBLIC_ID'TPM2B_DIGEST (fun v =>
        ifapi_json_TPM2B_DIGEST_serialize (Some v)));
    (TPM2_ALG_SYMCIPHER, jcase TPMU_PUBLIC_ID'TPM2B_DIGEST (fun v =>
        ifapi_json_TPM2B_DIGEST_serialize (Some v)));
    (TPM2_ALG_RSA, jcase TPMU_PUBLIC_ID'TPM2B_PUBLIC_KEY_RSA (fun v =>
        ifapi_json_TPM2B_PUBLIC_KEY_RSA_serialize (Some v)));
    (TPM2_ALG_ECC, jcase TPMU_PUBLIC_ID'TPMS_ECC_POINT (fun v =>
        ifapi_json_TPMS_ECC_POINT_serialize (Some v)));
    (TPM2_ALG_MLDSA, jcase TPMU_PUBLIC_ID'TPM2B_MLDSA_PUBLIC_KEY (fun v =>
        ifapi_json_TPM2B_MLDSA_PUBLIC_KEY_serialize (Some v)));
    (TPM2_ALG_MLKEM, jcase TPMU_PUBLIC_ID'TPM2B_MLKEM_PUBLIC_KEY (fun v =>
        ifapi_json_TPM2B_MLKEM_PUBLIC_KEY_serialize (Some v)))] in_ selector.

Definition ifapi_json_TPMS_KEYEDHASH_PARMS_serialize (in_ : option TPMS_KEYEDHASH_PARMS) : jser :=
  with_in in_ (fun in_ => jbody [
    fresh_object;
    field "scheme" (ifapi_json_TPMT_KEYEDHASH_SCHEME_serialize (Some (mget
        TPMS_KEYEDHASH_PARMS'scheme in_)))]).

Definition ifapi_json_TPMS_RSA_PARMS_serialize (in_ : option TPMS_RSA_PARMS) : jser :=
  with_in in_ (fun in_ => jbody [
    fresh_object;
    field "symmetric" (ifapi_json_TPMT_SYM_DEF_OBJECT_serialize (Some (mget
        TPMS_RSA_PARMS'symmetric in_)));
    field "scheme" (ifapi_json_TPMT_RSA_SCHEME_serialize (Some (mget TPMS_RSA_PARMS'scheme in_)));
    field "keyBits" (ifapi_json_TPMI_RSA_KEY_BITS_serialize (mget TPMS_RSA_PARMS'keyBits in_));
    field "exponent" (ifapi_json_UINT32_serialize (mget TPMS_RSA_PARMS'exponent in_))]).

Definition ifapi_json_TPMS_ECC_PARMS_serialize (in_ : option TPMS_ECC_PARMS) : jser :=
  with_in in_ (fun in_ => jbody [
    fresh_object;
    field "symmetric" (ifapi_json_TPMT_SYM_DEF_OBJECT_serialize (Some (mget
        TPMS_ECC_PARMS'symmetric in_)));
    field "scheme" (ifapi_json_TPMT_ECC_SCHEME_serialize (Some (mget TPMS_ECC_PARMS'scheme in_)));
    field "curveID" (ifapi_json_TPMI_ECC_CURVE_serialize (mget TPMS_ECC_PARMS'curveID in_));
    field "kdf" (ifapi_json_TPMT_KDF_SCHEME_serialize (Some (mget TPMS_ECC_PARMS'kdf in_)))]).

Definition ifapi_json_TPMU_PUBLIC_PARMS_serialize (in_ : option TPMU_PUBLIC_PARMS) (selector : Z) :
    jser :=
  union_serialize [
    (TPM2_ALG_KEYEDHASH, jcase TPMU_PUBLIC_PARMS'TPMS_KEYEDHASH_PARMS (fun v =>
        ifapi_json_TPMS_KEYEDHASH_PARMS_serialize (Some v)));
    (TPM2_ALG_SYMCIPHER, jcase TPMU_PUBLIC_PARMS'TPMS_SYMCIPHER_PARMS (fun v =>
        ifapi_json_TPMS_SYMCIPHER_PARMS_serialize (Some v)));
    (TPM2_ALG_RSA, jcase TPMU_PUBLIC_PARMS'TPMS_RSA_PARMS (fun v =>
        ifapi_json_TPMS_RSA_PARMS_serialize (Some v)));
    (TPM2_ALG_ECC, jcase TPMU_PUBLIC_PARMS'TPMS_ECC_PARMS (fun v =>
        ifapi_json_TPMS_ECC_PARMS_serialize (Some v)));
    (TPM2_ALG_MLDSA, jcase TPMU_PUBLIC_PARMS'TPMS_MLDSA_PARMS (fun v =>
        ifapi_json_TPMS_MLDSA_PARMS_serialize (Some v)));
    (TPM2_ALG_MLKEM, jcase TPMU_PUBLIC_PARMS'TPMS_MLKEM_PARMS (fun v =>
        ifapi_json_TPMS_MLKEM_PARMS_serialize (Some v)))] in_ selector.

Definition ifapi_json_TPMT_PUBLIC_serialize (in_ : option TPMT_PUBLIC) : jser :=
  with_in in_ (fun in_ => jbody [
    fresh_object;
    field "type" (ifapi_json_TPMI_ALG_PUBLIC_serialize (mget TPMT_PUBLIC'type in_));
    field "nameAlg" (ifapi_json_TPMI_ALG_HASH_serialize (mget TPMT_PUBLIC'nameAlg in_));
    field "objectAttributes" (ifapi_json_TPMA_OBJECT_serialize (mget TPMT_PUBLIC'objectAttributes
        in_));
    field "authPolicy" (ifapi_json_TPM2B_DIGEST_serialize (Some (mget TPMT_PUBLIC'authPolicy in_)));
    field "parameters" (ifapi_json_TPMU_PUBLIC_PARMS_serialize (Some (mget TPMT_PUBLIC'parameters
        in_)) (mget TPMT_PUBLIC'type in_));
    field "unique" (ifapi_json_TPMU_PUBLIC_ID_serialize (Some (mget TPMT_PUBLIC'unique in_)) (mget
        TPMT_PUBLIC'type in_))]).

Definition ifapi_json_TPM2B_PUBLIC_serialize (in_ : option (TPM2B_SUB TPMT_PUBLIC)) : jser :=
  deref_in in_ (fun in_ => jbody [
    fresh_object_checked;
    field "size" (or_bad_value (ifapi_json_UINT16_serialize (mget sub_size in_)));
    field "publicArea" (or_bad_value (ifapi_json_TPMT_PUBLIC_serialize (Some (mget sub_member
        in_))))]).

Definition ifapi_json_TPM2B_PRIVATE_serialize (in_ : option TPM2B) : jser :=
  tpm2b_serialize (cap_TPM2B_PRIVATE) in_.

Definition tab_ifapi_json_TPM2_NT_serialize : list (Z * string) := [
  (TPM2_NT_ORDINARY, "ORDINARY");
  (TPM2_NT_COUNTER, "COUNTER");
  (TPM2_NT_BITS, "BITS");
  (TPM2_NT_EXTEND, "EXTEND");
  (TPM2_NT_PIN_FAIL, "PIN_FAIL");
  (TPM2_NT_PIN_PASS, "PIN_PASS")].
Definition ifapi_json_TPM2_NT_serialize (in_ : Z) : jser :=
  table_serialize tab_ifapi_json_TPM2_NT_serialize in_.

Definition tab_ifapi_json_TPMA_NV_serialize : list (Z * string) := [
  (TPMA_NV_PPWRITE, "PPWRITE");
  (TPMA_NV_OWNERWRITE, "OWNERWRITE");
  (TPMA_NV_AUTHWRITE, "AUTHWRITE");
  (TPMA_NV_POLICYWRITE, "POLICYWRITE");
  (TPMA_NV_POLICY_DELETE, "POLICY_DELETE");
  (TPMA_NV_WRITELOCKED, "WRITELOCKED");
  (TPMA_NV_WRITEALL, "WRITEALL");
  (TPMA_NV_WRITEDEFINE, "WRITEDEFINE");
  (TPMA_NV_WRITE_STCLEAR, "WRITE_STCLEAR");
  (TPMA_NV_GLOBALLOCK, "GLOBALLOCK");
  (TPMA_NV_PPREAD, "PPREAD");
  (TPMA_NV_OWNERREAD, "OWNERREAD");
  (TPMA_NV_AUTHREAD, "AUTHREAD");
  (TPMA_NV_POLICYREAD, "POLICYREAD");
  (TPMA_NV_NO_DA, "NO_DA");
  (TPMA_NV_ORDERLY, "ORDERLY");
  (TPMA_NV_CLEAR_STCLEAR, "CLEAR_STCLEAR");
  (TPMA_NV_READLOCKED, "READLOCKED");
  (TPMA_NV_WRITTEN, "WRITTEN");
  (TPMA_NV_PLATFORMCREATE, "PLATFORMCREATE");
  (TPMA_NV_READ_STCLEAR, "READ_STCLEAR")].
Definition ifapi_json_TPMA_NV_serialize (in_ : Z) : jser :=
  jbody [
    fresh_object_checked;
    bit_serialize tab_ifapi_json_TPMA_NV_serialize in_;
    field "TPM2_NT" (ifapi_json_TPM2_NT_serialize (Z.shiftr (Z.land TPMA_NV_TPM2_NT_MASK in_) 4))].

Definition ifapi_json_TPMS_NV_PUBLIC_serialize (in_ : option TPMS_NV_PUBLIC) : jser :=
  with_in in_ (fun in_ => jbody [
    fresh_object;
    field "nvIndex" (ifapi_json_TPMI_RH_NV_INDEX_serialize (mget TPMS_NV_PUBLIC'nvIndex in_));
    field "nameAlg" (ifapi_json_TPMI_ALG_HASH_serialize (mget TPMS_NV_PUBLIC'nameAlg in_));
    field "attributes" (ifapi_json_TPMA_NV_serialize (mget TPMS_NV_PUBLIC'attributes in_));
    field "authPolicy" (ifapi_json_TPM2B_DIGEST_serialize (Some (mget TPMS_NV_PUBLIC'authPolicy
        in_)));
    field "dataSize" (ifapi_json_UINT16_serialize (mget TPMS_NV_PUBLIC'dataSize in_))]).

Definition ifapi_json_TPM2B_NV_PUBLIC_serialize (in_ : option (TPM2B_SUB TPMS_NV_PUBLIC)) : jser :=
  deref_in in_ (fun in_ => jbody [
    fresh_object_checked;
    field "size" (or_bad_value (ifapi_json_UINT16_serialize (mget sub_size in_)));
    field "nvPublic" (or_bad_value (ifapi_json_TPMS_NV_PUBLIC_serialize (Some (mget sub_member
        in_))))]).

Definition ifapi_json_TPMS_CREATION_DATA_serialize (in_ : option TPMS_CREATION_DATA) : jser :=
  with_in in_ (fun in_ => jbody [
    fresh_object;
    field "pcrSelect" (ifapi_json_TPML_PCR_SELECTION_serialize (Some (mget
        TPMS_CREATION_DATA'pcrSelect in_)));
    field "pcrDigest" (ifapi_json_TPM2B_DIGEST_serialize (Some (mget TPMS_CREATION_DATA'pcrDigest
        in_)));
    field "locality" (ifapi_json_TPMA_LOCALITY_serialize (mget TPMS_CREATION_DATA'locality in_));
    field "parentNameAlg" (ifapi_json_TPM2_ALG_ID_serialize (mget TPMS_CREATION_DATA'parentNameAlg
        in_));
    field "parentName" (ifapi_json_TPM2B_NAME_serialize (Some (mget TPMS_CREATION_DATA'parentName
        in_)));
    field "parentQualifiedName" (ifapi_json_TPM2B_NAME_serialize (Some (mget
        TPMS_CREATION_DATA'parentQualifiedName in_)));
    field "outsideInfo" (ifapi_json_TPM2B_DATA_serialize (Some (mget TPMS_CREATION_DATA'outsideInfo
        in_)))]).

Definition ifapi_json_TPM2B_CREATION_DATA_serialize (in_ : option (TPM2B_SUB TPMS_CREATION_DATA)) :
    jser :=
  deref_in in_ (fun in_ => jbody [
    fresh_object_checked;
    field "size" (or_bad_value (ifapi_json_UINT16_serialize (mget sub_size in_)));
    field "creationData" (or_bad_value (ifapi_json_TPMS_CREATION_DATA_serialize (Some (mget
        sub_member in_))))]).

End Ser.
