(* ===== verification/JsonDe.v ===== *)
(** * Deserializing the TPM types: [src/tss2-fapi/tpm_json_deserialize.c].

    One definition per function, under the name it has in the code, and one
    per table of names.  The check of the members of an object
    (ifapi_check_json_object_fields) only writes to the log and is left out,
    and so are ifapi_parse_json, which only calls json-c, and the log. *)

From stdpp Require Import base strings list_numbers.
From S2P Require Import Prelude Common MuStruct MuTpm2b MuUnion MuPcr TpmTypes MuTypes SysCodes JsonCodes JsonC JsonBase JsonNum JsonSer.
Open Scope string_scope.
Open Scope Z_scope.
Open Scope tss_scope.

(** [src/tss2-fapi/fapi_types.h]; the buffer is [None] for NULL. *)
Record UINT8_ARY := Mk_UINT8_ARY { UINT8_ARY_size : Z; UINT8_ARY_buffer : option bytes }.

Section De.
Context `{JC : JsonC}.

(** The deserializers of the sized buffers: [max] is the size they pass on. *)
Definition tpm2b_deserialize (max : Z) : jde TPM2B := with_out (fun jso out =>
  let* (r, (buf, n)) := ifapi_json_byte_deserialize jso max (buffer out) 0 in
  Ret (r, if r =? TSS2_RC_SUCCESS then MkTPM2B n buf else MkTPM2B (size out) buf)).

(** The deserializers of the lists. *)
Definition tpml_deserialize {E} (cap : Z) (de : jde E) : jde (TPML E) := with_out (fun jso out =>
  let bad := Ret (TSS2_FAPI_RC_BAD_VALUE, out) in
  on_type jso
    (fun a =>
       let n := json_object_array_length a in
       if cap <? n then bad
       else
         let* (r, es) := dloop (imap pair (array_items a)) (fun '(i, jso3) es =>
             let* e := access (es !! i) in
             let* (r, e) := de jso3 (Some e) in
             Ret (r, match e with Some e => <[i := e]> es | None => es end)) (elems out) in
         Ret (r, MkTPML n es))
    (fun _ => bad) bad).

(** A PCR selection, read into two members. *)
Definition dpcr {T} (size : member T Z) (select : member T bytes) : dstep T := fun jso out =>
  let* (r, (n, b)) :=
    ifapi_json_pcr_selection_deserialize jso (mget size out) (mget select out) in
  Ret (r, mset select b (mset size n out)).

Definition ifapi_json_TPMS_EMPTY_deserialize : jde TPMS_EMPTY :=
  dnothing.

(** [malloc n] is the content of a new block of [n] bytes. *)
Definition ifapi_json_UINT8_ARY_deserialize (malloc : Z -> option bytes) : jde UINT8_ARY :=
  deref_out (fun jso out =>
    let* hex_string := access (json_object_get_string jso) in
    let size := strlen hex_string / 2 in
    match malloc size with
    | None => Ret (TSS2_FAPI_RC_MEMORY, Mk_UINT8_ARY size None)
    | Some block =>
        let* (r, block) := ifapi_hex_to_byte_ary hex_string (size mod 2 ^ 32) block in
        Ret (r, Mk_UINT8_ARY size (Some block))
    end).

Definition ifapi_json_TPMS_PCR_SELECT_deserialize : jde TPMS_PCR_SELECT :=
  deref_out (dbody [
    dclear zero_TPMS_PCR_SELECT;
    dpcr TPMS_PCR_SELECT'sizeofSelect TPMS_PCR_SELECT'pcrSelect]).

Definition tab_ifapi_json_TPM2_ALG_ID_deserialize : list (Z * string) := [
  (TPM2_ALG_ERROR, "ERROR");
  (TPM2_ALG_RSA, "RSA");
  (TPM2_ALG_SHA, "SHA");
  (TPM2_ALG_SHA1, "SHA1");
  (TPM2_ALG_HMAC, "HMAC");
  (TPM2_ALG_AES, "AES");
  (TPM2_ALG_MGF1, "MGF1");
  (TPM2_ALG_KEYEDHASH, "KEYEDHASH");
  (TPM2_ALG_XOR, "XOR");
  (TPM2_ALG_SHA256, "SHA256");
  (TPM2_ALG_SHA384, "SHA384");
  (TPM2_ALG_SHA512, "SHA512");
  (TPM2_ALG_NULL, "NULL");
  (TPM2_ALG_SM3_256, "SM3_256");
  (TPM2_ALG_SM4, "SM4");
  (TPM2_ALG_RSASSA, "RSASSA");
  (TPM2_ALG_RSAES, "RSAES");
  (TPM2_ALG_RSAPSS, "RSAPSS");
  (TPM2_ALG_OAEP, "OAEP");
  (TPM2_ALG_ECDSA, "ECDSA");
  (TPM2_ALG_ECDH, "ECDH");
  (TPM2_ALG_ECDAA, "ECDAA");
  (TPM2_ALG_SM2, "SM2");
  (TPM2_ALG_ECSCHNORR, "ECSCHNORR");
  (TPM2_ALG_ECMQV, "ECMQV");
  (TPM2_ALG_KDF1_SP800_56A, "KDF1_SP800_56A");
  (TPM2_ALG_KDF2, "KDF2");
  (TPM2_ALG_KDF1_SP800_108, "KDF1_SP800_108");
  (TPM2_ALG_ECC, "ECC");
  (TPM2_ALG_SYMCIPHER, "SYMCIPHER");
  (TPM2_ALG_CAMELLIA, "CAMELLIA");
  (TPM2_ALG_CTR, "CTR");
  (TPM2_ALG_OFB, "OFB");
  (TPM2_ALG_CBC, "CBC");
  (TPM2_ALG_CFB, "CFB");
  (TPM2_ALG_ECB, "ECB")].
Definition ifapi_json_TPM2_ALG_ID_deserialize : jde Z :=
  table_deserialize tab_ifapi_json_TPM2_ALG_ID_deserialize ["TPM_"; "TPM2_"; "ALG_"; "ID_"]
      ifapi_json_UINT16_deserialize.

Definition ifapi_json_TPMI_ALG_HASH_deserialize : jde Z :=
  SUBTYPE_FILTER ifapi_json_TPM2_ALG_ID_deserialize [TPM2_ALG_SHA1; TPM2_ALG_SHA256;
      TPM2_ALG_SHA384; TPM2_ALG_SHA512; TPM2_ALG_SM3_256; TPM2_ALG_NULL].

Definition ifapi_json_TPMS_PCR_SELECTION_deserialize : jde TPMS_PCR_SELECTION :=
  deref_out (dbody [
    dclear zero_TPMS_PCR_SELECTION;
    dfield "hash" TPMS_PCR_SELECTION'hash ifapi_json_TPMI_ALG_HASH_deserialize;
    fun jso out =>
      match ifapi_get_sub_object jso "pcrSelect" with
      | None => Ret (TSS2_FAPI_RC_BAD_VALUE, out)
      | Some jso2 =>
          dpcr TPMS_PCR_SELECTION'sizeofSelect TPMS_PCR_SELECTION'pcrSelect (Some jso2) out
      end]).

(** The digest is read into the member array of [hash_size] bytes. *)
Definition digest_deserialize (hash_size : Z) : jde bytes := deref_out (fun jso out =>
  let n := Z.to_nat hash_size in
  let* (r, (buf, size)) := ifapi_json_byte_deserialize jso hash_size (take n out) 0 in
  let out := (buf ++ drop n out)%list in
  if negb (r =? TSS2_RC_SUCCESS) then Ret (r, out)
  else Ret (if hash_size =? size then TSS2_RC_SUCCESS else TSS2_FAPI_RC_BAD_VALUE, out)).

Definition ifapi_json_TPMU_HA_deserialize (selector : Z) : jde bytes :=
  union_deserialize [
    (TPM2_ALG_SHA1, digest_deserialize TPM2_SHA1_DIGEST_SIZE);
    (TPM2_ALG_SHA256, digest_deserialize TPM2_SHA256_DIGEST_SIZE);
    (TPM2_ALG_SHA384, digest_deserialize TPM2_SHA384_DIGEST_SIZE);
    (TPM2_ALG_SHA512, digest_deserialize TPM2_SHA512_DIGEST_SIZE);
    (TPM2_ALG_SM3_256, digest_deserialize TPM2_SM3_256_DIGEST_SIZE);
    (TPM2_ALG_NULL, dnothing)] selector.

Definition ifapi_json_TPMT_HA_deserialize : jde TPMT_HA :=
  with_out (dbody [
    dfield "hashAlg" TPMT_HA'hashAlg ifapi_json_TPMI_ALG_HASH_deserialize;
    dunless TPMT_HA'hashAlg TPM2_ALG_NULL (dfield_sel "digest" TPMT_HA'digest TPMT_HA'hashAlg
        ifapi_json_TPMU_HA_deserialize)]).

Definition ifapi_json_TPMS_TAGGED_POLICY_deserialize : jde TPMS_TAGGED_POLICY :=
  with_out (dbody [
    dclear zero_TPMS_TAGGED_POLICY;
    dfield "handle" TPMS_TAGGED_POLICY'handle ifapi_json_TPM2_HANDLE_deserialize;
    dfield "policyHash" TPMS_TAGGED_POLICY'policyHash ifapi_json_TPMT_HA_deserialize]).

Definition tab_ifapi_json_TPMA_ACT_deserialize : list (Z * string) := [
  (TPMA_ACT_SIGNALED, "signaled");
  (TPMA_ACT_PRESERVESIGNALED, "preserveSignaled")].
Definition ifapi_json_TPMA_ACT_deserialize : jde Z :=
  attr_deserialize 32
    (attr_name tab_ifapi_json_TPMA_ACT_deserialize ["TPM_"; "TPM2_"; "TPMA_"; "ACT_"])
    (fun '(key, val) => attr_flag tab_ifapi_json_TPMA_ACT_deserialize
       (strip_prefix (Some key) ["TPM_"; "TPM2_"; "TPMA_"; "ACT_"]) val).

Definition ifapi_json_TPMS_ACT_DATA_deserialize : jde TPMS_ACT_DATA :=
  with_out (dbody [
    dclear zero_TPMS_ACT_DATA;
    dfield "handle" TPMS_ACT_DATA'handle ifapi_json_TPM2_HANDLE_deserialize;
    dfield "timeout" TPMS_ACT_DATA'timeout ifapi_json_UINT32_deserialize;
    dfield "attributes" TPMS_ACT_DATA'attributes ifapi_json_TPMA_ACT_deserialize]).

Definition tab_ifapi_json_TPM2_GENERATED_deserialize : list (Z * string) := [
  (TPM2_GENERATED_VALUE, "VALUE")].
Definition ifapi_json_TPM2_GENERATED_deserialize : jde Z := fun jso out =>
  let fallback : jde Z := fun jso out =>
    let* (r, out) := ifapi_json_UINT32_deserialize jso out in
    if negb (r =? TSS2_RC_SUCCESS) then Ret (r, out)
    else let* v := access out in
         Ret (if v =? TPM2_GENERATED_VALUE then TSS2_RC_SUCCESS else TSS2_FAPI_RC_BAD_VALUE, out) in
  table_deserialize tab_ifapi_json_TPM2_GENERATED_deserialize
    ["TPM_"; "TPM2_"; "GENERATED_"] fallback jso out.

Definition tab_ifapi_json_TPM2_ECC_CURVE_deserialize : list (Z * string) := [
  (TPM2_ECC_NONE, "NONE");
  (TPM2_ECC_NIST_P192, "NIST_P192");
  (TPM2_ECC_NIST_P224, "NIST_P224");
  (TPM2_ECC_NIST_P256, "NIST_P256");
  (TPM2_ECC_NIST_P384, "NIST_P384");
  (TPM2_ECC_NIST_P521, "NIST_P521");
  (TPM2_ECC_BN_P256, "BN_P256");
  (TPM2_ECC_BN_P638, "BN_P638");
  (TPM2_ECC_SM2_P256, "SM2_P256")].
Definition ifapi_json_TPM2_ECC_CURVE_deserialize : jde Z :=
  table_deserialize tab_ifapi_json_TPM2_ECC_CURVE_deserialize ["TPM_"; "TPM2_"; "ECC_"; "CURVE_"]
      ifapi_json_UINT16_deserialize.

Definition tab_ifapi_json_TPM2_CC_deserialize : list (Z * string) := [
  (TPM2_CC_FIRST, "FIRST");
  (TPM2_CC_NV_UndefineSpaceSpecial, "NV_UndefineSpaceSpecial");
  (TPM2_CC_EvictControl, "EvictControl");
  (TPM2_CC_HierarchyControl, "HierarchyControl");
  (TPM2_CC_NV_UndefineSpace, "NV_UndefineSpace");
  (TPM2_CC_ChangeEPS, "ChangeEPS");
  (TPM2_CC_ChangePPS, "ChangePPS");
  (TPM2_CC_Clear, "Clear");
  (TPM2_CC_ClearControl, "ClearControl");
  (TPM2_CC_ClockSet, "ClockSet");
  (TPM2_CC_HierarchyChangeAuth, "HierarchyChangeAuth");
  (TPM2_CC_NV_DefineSpace, "NV_DefineSpace");
  (TPM2_CC_PCR_Allocate, "PCR_Allocate");
  (TPM2_CC_PCR_SetAuthPolicy, "PCR_SetAuthPolicy");
  (TPM2_CC_PP_Commands, "PP_Commands");
  (TPM2_CC_SetPrimaryPolicy, "SetPrimaryPolicy");
  (TPM2_CC_FieldUpgradeStart, "FieldUpgradeStart");
  (TPM2_CC_ClockRateAdjust, "ClockRateAdjust");
  (TPM2_CC_CreatePrimary, "CreatePrimary");
  (TPM2_CC_NV_GlobalWriteLock, "NV_GlobalWriteLock");
  (TPM2_CC_GetCommandAuditDigest, "GetCommandAuditDigest");
  (TPM2_CC_NV_Increment, "NV_Increment");
  (TPM2_CC_NV_SetBits, "NV_SetBits");
  (TPM2_CC_NV_Extend, "NV_Extend");
  (TPM2_CC_NV_Write, "NV_Write");
  (TPM2_CC_NV_WriteLock, "NV_WriteLock");
  (TPM2_CC_DictionaryAttackLockReset, "DictionaryAttackLockReset");
  (TPM2_CC_DictionaryAttackParameters, "DictionaryAttackParameters");
  (TPM2_CC_NV_ChangeAuth, "NV_ChangeAuth");
  (TPM2_CC_PCR_Event, "PCR_Event");
  (TPM2_CC_PCR_Reset, "PCR_Reset");
  (TPM2_CC_SequenceComplete, "SequenceComplete");
  (TPM2_CC_SetAlgorithmSet, "SetAlgorithmSet");
  (TPM2_CC_SetCommandCodeAuditStatus, "SetCommandCodeAuditStatus");
  (TPM2_CC_FieldUpgradeData, "FieldUpgradeData");
  (TPM2_CC_IncrementalSelfTest, "IncrementalSelfTest");
  (TPM2_CC_SelfTest, "SelfTest");
  (TPM2_CC_Startup, "Startup");
  (TPM2_CC_Shutdown, "Shutdown");
  (TPM2_CC_StirRandom, "StirRandom");
  (TPM2_CC_ActivateCredential, "ActivateCredential");
  (TPM2_CC_Certify, "Certify");
  (TPM2_CC_PolicyNV, "PolicyNV");
  (TPM2_CC_CertifyCreation, "CertifyCreation");
  (TPM2_CC_Duplicate, "Duplicate");
  (TPM2_CC_GetTime, "GetTime");
  (TPM2_CC_GetSessionAuditDigest, "GetSessionAuditDigest");
  (TPM2_CC_NV_Read, "NV_Read");
  (TPM2_CC_NV_ReadLock, "NV_ReadLock");
  (TPM2_CC_ObjectChangeAuth, "ObjectChangeAuth");
  (TPM2_CC_PolicySecret, "PolicySecret");
  (TPM2_CC_Rewrap, "Rewrap");
  (TPM2_CC_Create, "Create");
  (TPM2_CC_ECDH_ZGen, "ECDH_ZGen");
  (TPM2_CC_HMAC, "HMAC");
  (TPM2_CC_Import, "Import");
  (TPM2_CC_Load, "Load");
  (TPM2_CC_Quote, "Quote");
  (TPM2_CC_RSA_Decrypt, "RSA_Decrypt");
  (TPM2_CC_HMAC_Start, "HMAC_Start");
  (TPM2_CC_SequenceUpdate, "SequenceUpdate");
  (TPM2_CC_Sign, "Sign");
  (TPM2_CC_Unseal, "Unseal");
  (TPM2_CC_PolicySigned, "PolicySigned");
  (TPM2_CC_ContextLoad, "ContextLoad");
  (TPM2_CC_ContextSave, "ContextSave");
  (TPM2_CC_ECDH_KeyGen, "ECDH_KeyGen");
  (TPM2_CC_EncryptDecrypt, "EncryptDecrypt");
  (TPM2_CC_FlushContext, "FlushContext");
  (TPM2_CC_LoadExternal, "LoadExternal");
  (TPM2_CC_MakeCredential, "MakeCredential");
  (TPM2_CC_NV_ReadPublic, "NV_ReadPublic");
  (TPM2_CC_PolicyAuthorize, "PolicyAuthorize");
  (TPM2_CC_PolicyAuthValue, "PolicyAuthValue");
  (TPM2_CC_PolicyCommandCode, "PolicyCommandCode");
  (TPM2_CC_PolicyCounterTimer, "PolicyCounterTimer");
  (TPM2_CC_PolicyCpHash, "PolicyCpHash");
  (TPM2_CC_PolicyLocality, "PolicyLocality");
  (TPM2_CC_PolicyNameHash, "PolicyNameHash");
  (TPM2_CC_PolicyOR, "PolicyOR");
  (TPM2_CC_PolicyTicket, "PolicyTicket");
  (TPM2_CC_ReadPublic, "ReadPublic");
  (TPM2_CC_RSA_Encrypt, "RSA_Encrypt");
  (TPM2_CC_StartAuthSession, "StartAuthSession");
  (TPM2_CC_VerifySignature, "VerifySignature");
  (TPM2_CC_ECC_Parameters, "ECC_Parameters");
  (TPM2_CC_FirmwareRead, "FirmwareRead");
  (TPM2_CC_GetCapability, "GetCapability");
  (TPM2_CC_GetRandom, "GetRandom");
  (TPM2_CC_GetTestResult, "GetTestResult");
  (TPM2_CC_Hash, "Hash");
  (TPM2_CC_PCR_Read, "PCR_Read");
  (TPM2_CC_PolicyPCR, "PolicyPCR");
  (TPM2_CC_PolicyRestart, "PolicyRestart");
  (TPM2_CC_ReadClock, "ReadClock");
  (TPM2_CC_PCR_Extend, "PCR_Extend");
  (TPM2_CC_PCR_SetAuthValue, "PCR_SetAuthValue");
  (TPM2_CC_NV_Certify, "NV_Certify");
  (TPM2_CC_EventSequenceComplete, "EventSequenceComplete");
  (TPM2_CC_HashSequenceStart, "HashSequenceStart");
  (TPM2_CC_PolicyPhysicalPresence, "PolicyPhysicalPresence");
  (TPM2_CC_PolicyDuplicationSelect, "PolicyDuplicationSelect");
  (TPM2_CC_PolicyGetDigest, "PolicyGetDigest");
  (TPM2_CC_TestParms, "TestParms");
  (TPM2_CC_Commit, "Commit");
  (TPM2_CC_PolicyPassword, "PolicyPassword");
  (TPM2_CC_ZGen_2Phase, "ZGen_2Phase");
  (TPM2_CC_EC_Ephemeral, "EC_Ephemeral");
  (TPM2_CC_PolicyNvWritten, "PolicyNvWritten");
  (TPM2_CC_PolicyTemplate, "PolicyTemplate");
  (TPM2_CC_CreateLoaded, "CreateLoaded");
  (TPM2_CC_PolicyAuthorizeNV, "PolicyAuthorizeNV");
  (TPM2_CC_EncryptDecrypt2, "EncryptDecrypt2");
  (TPM2_CC_LAST, "LAST");
  (TPM2_CC_Vendor_TCG_Test, "Vendor_TCG_Test")].
Definition ifapi_json_TPM2_CC_deserialize : jde Z :=
  table_deserialize tab_ifapi_json_TPM2_CC_deserialize ["TPM_"; "TPM2_"; "CC_"]
      ifapi_json_UINT32_deserialize.

Definition tab_ifapi_json_TPM2_EO_deserialize : list (Z * string) := [
  (TPM2_EO_EQ, "EQ");
  (TPM2_EO_NEQ, "NEQ");
  (TPM2_EO_SIGNED_GT, "SIGNED_GT");
  (TPM2_EO_UNSIGNED_GT, "UNSIGNED_GT");
  (TPM2_EO_SIGNED_LT, "SIGNED_LT");
  (TPM2_EO_UNSIGNED_LT, "UNSIGNED_LT");
  (TPM2_EO_SIGNED_GE, "SIGNED_GE");
  (TPM2_EO_UNSIGNED_GE, "UNSIGNED_GE");
  (TPM2_EO_SIGNED_LE, "SIGNED_LE");
  (TPM2_EO_UNSIGNED_LE, "UNSIGNED_LE");
  (TPM2_EO_BITSET, "BITSET");
  (TPM2_EO_BITCLEAR, "BITCLEAR")].
Definition ifapi_json_TPM2_EO_deserialize : jde Z :=
  table_deserialize tab_ifapi_json_TPM2_EO_deserialize ["TPM_"; "TPM2_"; "EO_"]
      ifapi_json_UINT16_deserialize.

Definition tab_ifapi_json_TPM2_ST_deserialize : list (Z * string) := [
  (TPM2_ST_RSP_COMMAND, "RSP_COMMAND");
  (TPM2_ST_NULL, "NULL");
  (TPM2_ST_NO_SESSIONS, "NO_SESSIONS");
  (TPM2_ST_SESSIONS, "SESSIONS");
  (TPM2_ST_ATTEST_NV, "ATTEST_NV");
  (TPM2_ST_ATTEST_COMMAND_AUDIT, "ATTEST_COMMAND_AUDIT");
  (TPM2_ST_ATTEST_SESSION_AUDIT, "ATTEST_SESSION_AUDIT");
  (TPM2_ST_ATTEST_CERTIFY, "ATTEST_CERTIFY");
  (TPM2_ST_ATTEST_QUOTE, "ATTEST_QUOTE");
  (TPM2_ST_ATTEST_TIME, "ATTEST_TIME");
  (TPM2_ST_ATTEST_CREATION, "ATTEST_CREATION");
  (TPM2_ST_CREATION, "CREATION");
  (TPM2_ST_VERIFIED, "VERIFIED");
  (TPM2_ST_AUTH_SECRET, "AUTH_SECRET");
  (TPM2_ST_HASHCHECK, "HASHCHECK");
  (TPM2_ST_AUTH_SIGNED, "AUTH_SIGNED");
  (TPM2_ST_FU_MANIFEST, "FU_MANIFEST")].
Definition ifapi_json_TPM2_ST_deserialize : jde Z :=
  table_deserialize tab_ifapi_json_TPM2_ST_deserialize ["TPM_"; "TPM2_"; "ST_"]
      ifapi_json_UINT16_deserialize.

Definition tab_ifapi_json_TPM2_PT_PCR_deserialize : list (Z * string) := [
  (TPM2_PT_TPM2_PCR_FIRST, "FIRST");
  (TPM2_PT_PCR_SAVE, "SAVE");
  (TPM2_PT_PCR_EXTEND_L0, "EXTEND_L0");
  (TPM2_PT_PCR_RESET_L0, "RESET_L0");
  (TPM2_PT_PCR_EXTEND_L1, "EXTEND_L1");
  (TPM2_PT_PCR_RESET_L1, "RESET_L1");
  (TPM2_PT_PCR_EXTEND_L2, "EXTEND_L2");
  (TPM2_PT_PCR_RESET_L2, "RESET_L2");
  (TPM2_PT_PCR_EXTEND_L3, "EXTEND_L3");
  (TPM2_PT_PCR_RESET_L3, "RESET_L3");
  (TPM2_PT_PCR_EXTEND_L4, "EXTEND_L4");
  (TPM2_PT_PCR_RESET_L4, "RESET_L4");
  (TPM2_PT_PCR_NO_INCREMENT, "NO_INCREMENT");
  (TPM2_PT_PCR_DRTM_RESET, "DRTM_RESET");
  (TPM2_PT_PCR_POLICY, "POLICY");
  (TPM2_PT_PCR_AUTH, "AUTH");
  (TPM2_PT_TPM2_PCR_LAST, "LAST")].
Definition ifapi_json_TPM2_PT_PCR_deserialize : jde Z :=
  table_deserialize tab_ifapi_json_TPM2_PT_PCR_deserialize ["TPM_"; "TPM2_"; "PT_"; "PCR_"]
      ifapi_json_UINT32_deserialize.

Definition tab_ifapi_json_TPMA_OBJECT_deserialize : list (Z * string) := [
  (TPMA_OBJECT_FIXEDTPM, "fixedTPM");
  (TPMA_OBJECT_STCLEAR, "stClear");
  (TPMA_OBJECT_FIXEDPARENT, "fixedParent");
  (TPMA_OBJECT_SENSITIVEDATAORIGIN, "sensitiveDataOrigin");
  (TPMA_OBJECT_USERWITHAUTH, "userWithAuth");
  (TPMA_OBJECT_ADMINWITHPOLICY, "adminWithPolicy");
  (TPMA_OBJECT_NODA, "noDA");
  (TPMA_OBJECT_ENCRYPTEDDUPLICATION, "encryptedDuplication");
  (TPMA_OBJECT_RESTRICTED, "restricted");
  (TPMA_OBJECT_DECRYPT, "decrypt");
  (TPMA_OBJECT_SIGN_ENCRYPT, "sign")].
Definition ifapi_json_TPMA_OBJECT_deserialize : jde Z :=
  attr_deserialize 32
    (attr_name tab_ifapi_json_TPMA_OBJECT_deserialize ["TPM_"; "TPM2_"; "TPMA_"; "OBJECT_"])
    (fun '(key, val) => attr_flag tab_ifapi_json_TPMA_OBJECT_deserialize
       (strip_prefix (Some key) ["TPM_"; "TPM2_"; "TPMA_"; "OBJECT_"]) val).

Definition tab_ifapi_json_TPMA_LOCALITY_deserialize : list (Z * string) := [
  (TPMA_LOCALITY_TPM2_LOC_ZERO, "ZERO");
  (TPMA_LOCALITY_TPM2_LOC_ONE, "ONE");
  (TPMA_LOCALITY_TPM2_LOC_TWO, "TWO");
  (TPMA_LOCALITY_TPM2_LOC_THREE, "THREE");
  (TPMA_LOCALITY_TPM2_LOC_FOUR, "FOUR")].
(** The member [extended]: [i64 << 5] is a signed shift. *)
Definition locality_extended (val : option json) (out : Z) : outcome (TSS2_RC * Z) :=
  let* n := number_or_bad (json_object_get_string val) in
  match n with
  | inl r => Ret (r, out)
  | inr i64 =>
      if (i64 <? 0) || (2 ^ 63 <=? i64 * 2 ^ 5) then Undef
      else
        let bits := Z.shiftl i64 5 in
        if negb (Z.land bits (Z.lnot TPMA_LOCALITY_EXTENDED_MASK) =? 0)
        then Ret (TSS2_FAPI_RC_BAD_VALUE, out)
        else Ret (TSS2_RC_SUCCESS, Z.lor out (bits mod 2 ^ 8))
  end.

Definition ifapi_json_TPMA_LOCALITY_deserialize : jde Z :=
  attr_deserialize 8
    (attr_name tab_ifapi_json_TPMA_LOCALITY_deserialize
       ["TPM_"; "TPM2_"; "TPMA_"; "LOCALITY_"; "TPM2_"; "LOC_"])
    (fun '(key, val) out =>
       let token := strip_prefix (Some key)
         ["TPM_"; "TPM2_"; "TPMA_"; "LOCALITY_"; "TPM2_"; "LOC_"] in
       if strcaseeq (default "" token) "extended" then locality_extended val out
       else attr_flag tab_ifapi_json_TPMA_LOCALITY_deserialize token val out).

Definition tab_ifapi_json_TPMI_RH_HIERARCHY_deserialize : list (Z * string) := [
  (TPM2_RH_OWNER, "OWNER");
  (TPM2_RH_PLATFORM, "PLATFORM");
  (TPM2_RH_ENDORSEMENT, "ENDORSEMENT");
  (TPM2_RH_NULL, "NULL")].
Definition ifapi_json_TPMI_RH_HIERARCHY_deserialize : jde Z :=
  table_deserialize tab_ifapi_json_TPMI_RH_HIERARCHY_deserialize ["TPM_"; "TPM2_"; "TPMI_"; "RH_";
      "HIERARCHY_"] ifapi_json_UINT32_deserialize.

Definition ifapi_json_TPMI_RH_NV_INDEX_deserialize : jde Z :=
  ifapi_json_TPM2_HANDLE_deserialize.

Definition ifapi_json_TPMI_ALG_SYM_deserialize : jde Z :=
  SUBTYPE_FILTER ifapi_json_TPM2_ALG_ID_deserialize [TPM2_ALG_AES; TPM2_ALG_CAMELLIA; TPM2_ALG_SM4;
      TPM2_ALG_XOR; TPM2_ALG_NULL].

Definition ifapi_json_TPMI_ALG_SYM_OBJECT_deserialize : jde Z :=
  SUBTYPE_FILTER ifapi_json_TPM2_ALG_ID_deserialize [TPM2_ALG_AES; TPM2_ALG_CAMELLIA; TPM2_ALG_SM4;
      TPM2_ALG_NULL].

Definition ifapi_json_TPMI_ALG_SYM_MODE_deserialize : jde Z :=
  SUBTYPE_FILTER ifapi_json_TPM2_ALG_ID_deserialize [TPM2_ALG_CTR; TPM2_ALG_OFB; TPM2_ALG_CBC;
      TPM2_ALG_CFB; TPM2_ALG_ECB; TPM2_ALG_NULL].

Definition ifapi_json_TPMI_ALG_CIPHER_MODE_deserialize : jde Z :=
  SUBTYPE_FILTER ifapi_json_TPM2_ALG_ID_deserialize [TPM2_ALG_CTR; TPM2_ALG_OFB; TPM2_ALG_CBC;
      TPM2_ALG_CFB; TPM2_ALG_ECB; TPM2_ALG_NULL].

Definition ifapi_json_TPMI_ALG_KDF_deserialize : jde Z :=
  SUBTYPE_FILTER ifapi_json_TPM2_ALG_ID_deserialize [TPM2_ALG_MGF1; TPM2_ALG_KDF1_SP800_56A;
      TPM2_ALG_KDF1_SP800_108; TPM2_ALG_NULL].

Definition ifapi_json_TPMI_ALG_SIG_SCHEME_deserialize : jde Z :=
  SUBTYPE_FILTER ifapi_json_TPM2_ALG_ID_deserialize [TPM2_ALG_RSASSA; TPM2_ALG_RSAPSS;
      TPM2_ALG_ECDSA; TPM2_ALG_ECDAA; TPM2_ALG_SM2; TPM2_ALG_ECSCHNORR; TPM2_ALG_HMAC;
      TPM2_ALG_NULL].

Definition ifapi_json_TPM2B_DIGEST_deserialize : jde TPM2B :=
  tpm2b_deserialize (lsize lay_TPMU_HA).

Definition ifapi_json_TPM2B_DATA_deserialize : jde TPM2B :=
  tpm2b_deserialize (lsize lay_TPMT_HA).

Definition ifapi_json_TPM2B_NONCE_deserialize : jde TPM2B :=
  ifapi_json_TPM2B_DIGEST_deserialize.

Definition ifapi_json_TPM2B_OPERAND_deserialize : jde TPM2B :=
  ifapi_json_TPM2B_DIGEST_deserialize.

Definition ifapi_json_TPM2B_EVENT_deserialize : jde TPM2B :=
  tpm2b_deserialize 1024.

Definition ifapi_json_TPM2B_MAX_NV_BUFFER_deserialize : jde TPM2B :=
  tpm2b_deserialize TPM2_MAX_NV_BUFFER_SIZE.

Definition ifapi_json_TPM2B_NAME_deserialize : jde TPM2B :=
  tpm2b_deserialize (lsize lay_TPMU_NAME).

Definition ifapi_json_TPMT_TK_CREATION_deserialize : jde TPMT_TK_CREATION :=
  with_out (dbody [
    dfield "tag" TPMT_TK_CREATION'tag ifapi_json_TPM2_ST_deserialize;
    dfield "hierarchy" TPMT_TK_CREATION'hierarchy ifapi_json_TPMI_RH_HIERARCHY_deserialize;
    dfield "digest" TPMT_TK_CREATION'digest ifapi_json_TPM2B_DIGEST_deserialize]).

Definition ifapi_json_TPML_DIGEST_VALUES_deserialize : jde (TPML TPMT_HA) :=
  tpml_deserialize TPM2_NUM_PCR_BANKS ifapi_json_TPMT_HA_deserialize.

Definition ifapi_json_TPML_PCR_SELECTION_deserialize : jde (TPML TPMS_PCR_SELECTION) :=
  tpml_deserialize TPM2_NUM_PCR_BANKS ifapi_json_TPMS_PCR_SELECTION_deserialize.

Definition ifapi_json_TPMS_CLOCK_INFO_deserialize : jde TPMS_CLOCK_INFO :=
  with_out (dbody [
    dfield "clock" TPMS_CLOCK_INFO'clock ifapi_json_UINT64_deserialize;
    dfield "resetCount" TPMS_CLOCK_INFO'resetCount ifapi_json_UINT32_deserialize;
    dfield "restartCount" TPMS_CLOCK_INFO'restartCount ifapi_json_UINT32_deserialize;
    dfield "safe" TPMS_CLOCK_INFO'safe ifapi_json_TPMI_YES_NO_deserialize]).

Definition ifapi_json_TPMS_TIME_INFO_deserialize : jde TPMS_TIME_INFO :=
  with_out (dbody [
    dfield "time" TPMS_TIME_INFO'time ifapi_json_UINT64_deserialize;
    dfield "clockInfo" TPMS_TIME_INFO'clockInfo ifapi_json_TPMS_CLOCK_INFO_deserialize]).

Definition ifapi_json_TPMS_TIME_ATTEST_INFO_deserialize : jde TPMS_TIME_ATTEST_INFO :=
  with_out (dbody [
    dfield "time" TPMS_TIME_ATTEST_INFO'time ifapi_json_TPMS_TIME_INFO_deserialize;
    dfield "firmwareVersion" TPMS_TIME_ATTEST_INFO'firmwareVersion ifapi_json_UINT64_deserialize]).

Definition ifapi_json_TPMS_CERTIFY_INFO_deserialize : jde TPMS_CERTIFY_INFO :=
  with_out (dbody [
    dfield "name" TPMS_CERTIFY_INFO'name ifapi_json_TPM2B_NAME_deserialize;
    dfield "qualifiedName" TPMS_CERTIFY_INFO'qualifiedName ifapi_json_TPM2B_NAME_deserialize]).

Definition ifapi_json_TPMS_QUOTE_INFO_deserialize : jde TPMS_QUOTE_INFO :=
  with_out (dbody [
    dfield "pcrSelect" TPMS_QUOTE_INFO'pcrSelect ifapi_json_TPML_PCR_SELECTION_deserialize;
    dfield "pcrDigest" TPMS_QUOTE_INFO'pcrDigest ifapi_json_TPM2B_DIGEST_deserialize]).

Definition ifapi_json_TPMS_COMMAND_AUDIT_INFO_deserialize : jde TPMS_COMMAND_AUDIT_INFO :=
  with_out (dbody [
    dfield "auditCounter" TPMS_COMMAND_AUDIT_INFO'auditCounter ifapi_json_UINT64_deserialize;
    dfield "digestAlg" TPMS_COMMAND_AUDIT_INFO'digestAlg ifapi_json_TPM2_ALG_ID_deserialize;
    dfield "auditDigest" TPMS_COMMAND_AUDIT_INFO'auditDigest ifapi_json_TPM2B_DIGEST_deserialize;
    dfield "commandDigest" TPMS_COMMAND_AUDIT_INFO'commandDigest
        ifapi_json_TPM2B_DIGEST_deserialize]).

Definition ifapi_json_TPMS_SESSION_AUDIT_INFO_deserialize : jde TPMS_SESSION_AUDIT_INFO :=
  with_out (dbody [
    dfield "exclusiveSession" TPMS_SESSION_AUDIT_INFO'exclusiveSession
        ifapi_json_TPMI_YES_NO_deserialize;
    dfield "sessionDigest" TPMS_SESSION_AUDIT_INFO'sessionDigest
        ifapi_json_TPM2B_DIGEST_deserialize]).

Definition ifapi_json_TPMS_CREATION_INFO_deserialize : jde TPMS_CREATION_INFO :=
  with_out (dbody [
    dfield "objectName" TPMS_CREATION_INFO'objectName ifapi_json_TPM2B_NAME_deserialize;
    dfield "creationHash" TPMS_CREATION_INFO'creationHash ifapi_json_TPM2B_DIGEST_deserialize]).

Definition ifapi_json_TPMS_NV_CERTIFY_INFO_deserialize : jde TPMS_NV_CERTIFY_INFO :=
  with_out (dbody [
    dfield "indexName" TPMS_NV_CERTIFY_INFO'indexName ifapi_json_TPM2B_NAME_deserialize;
    dfield "offset" TPMS_NV_CERTIFY_INFO'offset ifapi_json_UINT16_deserialize;
    dfield "nvContents" TPMS_NV_CERTIFY_INFO'nvContents
        ifapi_json_TPM2B_MAX_NV_BUFFER_deserialize]).

Definition ifapi_json_TPMI_ST_ATTEST_deserialize : jde Z :=
  SUBTYPE_FILTER ifapi_json_TPM2_ST_deserialize [TPM2_ST_ATTEST_CERTIFY; TPM2_ST_ATTEST_QUOTE;
      TPM2_ST_ATTEST_SESSION_AUDIT; TPM2_ST_ATTEST_COMMAND_AUDIT; TPM2_ST_ATTEST_TIME;
      TPM2_ST_ATTEST_CREATION; TPM2_ST_ATTEST_NV].

Definition ifapi_json_TPMU_ATTEST_deserialize (selector : Z) : jde TPMU_ATTEST :=
  union_deserialize [
    (TPM2_ST_ATTEST_CERTIFY, dcase TPMU_ATTEST'TPMS_CERTIFY_INFO
        ifapi_json_TPMS_CERTIFY_INFO_deserialize);
    (TPM2_ST_ATTEST_CREATION, dcase TPMU_ATTEST'TPMS_CREATION_INFO
        ifapi_json_TPMS_CREATION_INFO_deserialize);
    (TPM2_ST_ATTEST_QUOTE, dcase TPMU_ATTEST'TPMS_QUOTE_INFO
        ifapi_json_TPMS_QUOTE_INFO_deserialize);
    (TPM2_ST_ATTEST_COMMAND_AUDIT, dcase TPMU_ATTEST'TPMS_COMMAND_AUDIT_INFO
        ifapi_json_TPMS_COMMAND_AUDIT_INFO_deserialize);
    (TPM2_ST_ATTEST_SESSION_AUDIT, dcase TPMU_ATTEST'TPMS_SESSION_AUDIT_INFO
        ifapi_json_TPMS_SESSION_AUDIT_INFO_deserialize);
    (TPM2_ST_ATTEST_TIME, dcase TPMU_ATTEST'TPMS_TIME_ATTEST_INFO
        ifapi_json_TPMS_TIME_ATTEST_INFO_deserialize);
    (TPM2_ST_ATTEST_NV, dcase TPMU_ATTEST'TPMS_NV_CERTIFY_INFO
        ifapi_json_TPMS_NV_CERTIFY_INFO_deserialize)] selector.

Definition ifapi_json_TPMS_ATTEST_deserialize : jde TPMS_ATTEST :=
  with_out (dbody [
    dfield "magic" TPMS_ATTEST'magic ifapi_json_TPM2_GENERATED_deserialize;
    dfield "type" TPMS_ATTEST'type ifapi_json_TPMI_ST_ATTEST_deserialize;
    dfield "qualifiedSigner" TPMS_ATTEST'qualifiedSigner ifapi_json_TPM2B_NAME_deserialize;
    dfield "extraData" TPMS_ATTEST'extraData ifapi_json_TPM2B_DATA_deserialize;
    dfield "clockInfo" TPMS_ATTEST'clockInfo ifapi_json_TPMS_CLOCK_INFO_deserialize;
    dfield "firmwareVersion" TPMS_ATTEST'firmwareVersion ifapi_json_UINT64_deserialize;
    dfield_sel "attested" TPMS_ATTEST'attested TPMS_ATTEST'type
        ifapi_json_TPMU_ATTEST_deserialize]).

Definition ifapi_json_TPMI_AES_KEY_BITS_deserialize : jde Z :=
  SUBTYPE_FILTER ifapi_json_UINT16_deserialize [128; 192; 256].

Definition ifapi_json_TPMI_CAMELLIA_KEY_BITS_deserialize : jde Z :=
  SUBTYPE_FILTER ifapi_json_UINT16_deserialize [128; 192; 256].

Definition ifapi_json_TPMI_SM4_KEY_BITS_deserialize : jde Z :=
  SUBTYPE_FILTER ifapi_json_UINT16_deserialize [128].

Definition ifapi_json_TPMU_SYM_KEY_BITS_deserialize (selector : Z) : jde Z :=
  union_deserialize [
    (TPM2_ALG_AES, dcase (whole 0) ifapi_json_TPMI_AES_KEY_BITS_deserialize);
    (TPM2_ALG_XOR, dcase (whole 0) ifapi_json_TPMI_ALG_HASH_deserialize);
    (TPM2_ALG_SM4, dcase (whole 0) ifapi_json_TPMI_SM4_KEY_BITS_deserialize);
    (TPM2_ALG_CAMELLIA, dcase (whole 0) ifapi_json_TPMI_CAMELLIA_KEY_BITS_deserialize);
    (TPM2_ALG_NULL, dnothing)] selector.

Definition ifapi_json_TPMU_SYM_MODE_deserialize (selector : Z) : jde Z :=
  union_deserialize [
    (TPM2_ALG_SM4, dcase (whole 0) ifapi_json_TPMI_ALG_SYM_MODE_deserialize);
    (TPM2_ALG_AES, dcase (whole 0) ifapi_json_TPMI_ALG_SYM_MODE_deserialize);
    (TPM2_ALG_CAMELLIA, dcase (whole 0) ifapi_json_TPMI_ALG_SYM_MODE_deserialize);
    (TPM2_ALG_NULL, dnothing)] selector.

Definition ifapi_json_TPMT_SYM_DEF_deserialize : jde TPMT_SYM_DEF :=
  with_out (dbody [
    dfield "algorithm" TPMT_SYM_DEF'algorithm ifapi_json_TPMI_ALG_SYM_deserialize;
    dunless TPMT_SYM_DEF'algorithm TPM2_ALG_NULL (dfield_sel "keyBits" TPMT_SYM_DEF'keyBits
        TPMT_SYM_DEF'algorithm ifapi_json_TPMU_SYM_KEY_BITS_deserialize);
    dunless TPMT_SYM_DEF'algorithm TPM2_ALG_NULL (dfield_sel "mode" TPMT_SYM_DEF'mode
        TPMT_SYM_DEF'algorithm ifapi_json_TPMU_SYM_MODE_deserialize)]).

Definition ifapi_json_TPMT_SYM_DEF_OBJECT_deserialize : jde TPMT_SYM_DEF_OBJECT :=
  with_out (dbody [
    dfield "algorithm" TPMT_SYM_DEF_OBJECT'algorithm ifapi_json_TPMI_ALG_SYM_OBJECT_deserialize;
    dunless TPMT_SYM_DEF_OBJECT'algorithm TPM2_ALG_NULL (dfield_sel "keyBits"
        TPMT_SYM_DEF_OBJECT'keyBits TPMT_SYM_DEF_OBJECT'algorithm
        ifapi_json_TPMU_SYM_KEY_BITS_deserialize);
    dunless TPMT_SYM_DEF_OBJECT'algorithm TPM2_ALG_NULL (dfield_sel "mode" TPMT_SYM_DEF_OBJECT'mode
        TPMT_SYM_DEF_OBJECT'algorithm ifapi_json_TPMU_SYM_MODE_deserialize)]).

Definition ifapi_json_TPMS_SYMCIPHER_PARMS_deserialize : jde TPMS_SYMCIPHER_PARMS :=
  with_out (dbody [
    dfield "sym" TPMS_SYMCIPHER_PARMS'sym ifapi_json_TPMT_SYM_DEF_OBJECT_deserialize]).

Definition ifapi_json_TPMS_SCHEME_HASH_deserialize : jde TPMS_SCHEME_HASH :=
  with_out (dbody [
    dfield "hashAlg" TPMS_SCHEME_HASH'hashAlg ifapi_json_TPMI_ALG_HASH_deserialize]).

Definition ifapi_json_TPMS_SCHEME_ECDAA_deserialize : jde TPMS_SCHEME_ECDAA :=
  with_out (dbody [
    dfield "hashAlg" TPMS_SCHEME_ECDAA'hashAlg ifapi_json_TPMI_ALG_HASH_deserialize;
    dfield "count" TPMS_SCHEME_ECDAA'count ifapi_json_UINT16_deserialize]).

Definition ifapi_json_TPMI_ALG_KEYEDHASH_SCHEME_deserialize : jde Z :=
  SUBTYPE_FILTER ifapi_json_TPM2_ALG_ID_deserialize [TPM2_ALG_HMAC; TPM2_ALG_XOR; TPM2_ALG_NULL].

Definition ifapi_json_TPMS_SCHEME_HMAC_deserialize : jde TPMS_SCHEME_HASH :=
  ifapi_json_TPMS_SCHEME_HASH_deserialize.

Definition ifapi_json_TPMS_SCHEME_XOR_deserialize : jde TPMS_SCHEME_XOR :=
  with_out (dbody [
    dfield "hashAlg" TPMS_SCHEME_XOR'hashAlg ifapi_json_TPMI_ALG_HASH_deserialize;
    dfield "kdf" TPMS_SCHEME_XOR'kdf ifapi_json_TPMI_ALG_KDF_deserialize]).

Definition ifapi_json_TPMU_SCHEME_KEYEDHASH_deserialize (selector : Z) : jde TPMS_SCHEME_XOR :=
  union_deserialize [
    (TPM2_ALG_HMAC, dcase hash_of_xor ifapi_json_TPMS_SCHEME_HMAC_deserialize);
    (TPM2_ALG_XOR, dcase (whole zero_TPMS_SCHEME_XOR) ifapi_json_TPMS_SCHEME_XOR_deserialize);
    (TPM2_ALG_NULL, dnothing)] selector.

Definition ifapi_json_TPMT_KEYEDHASH_SCHEME_deserialize : jde TPMT_KEYEDHASH_SCHEME :=
  with_out (dbody [
    dfield "scheme" TPMT_KEYEDHASH_SCHEME'scheme ifapi_json_TPMI_ALG_KEYEDHASH_SCHEME_deserialize;
    dunless TPMT_KEYEDHASH_SCHEME'scheme TPM2_ALG_NULL (dfield_sel "details"
        TPMT_KEYEDHASH_SCHEME'details TPMT_KEYEDHASH_SCHEME'scheme
        ifapi_json_TPMU_SCHEME_KEYEDHASH_deserialize)]).

Definition ifapi_json_TPMS_SIG_SCHEME_RSASSA_deserialize : jde TPMS_SCHEME_HASH :=
  ifapi_json_TPMS_SCHEME_HASH_deserialize.

Definition ifapi_json_TPMS_SIG_SCHEME_RSAPSS_deserialize : jde TPMS_SCHEME_HASH :=
  ifapi_json_TPMS_SCHEME_HASH_deserialize.

Definition ifapi_json_TPMS_SIG_SCHEME_ECDSA_deserialize : jde TPMS_SCHEME_HASH :=
  ifapi_json_TPMS_SCHEME_HASH_deserialize.

Definition ifapi_json_TPMS_SIG_SCHEME_SM2_deserialize : jde TPMS_SCHEME_HASH :=
  ifapi_json_TPMS_SCHEME_HASH_deserialize.

Definition ifapi_json_TPMS_SIG_SCHEME_ECSCHNORR_deserialize : jde TPMS_SCHEME_HASH :=
  ifapi_json_TPMS_SCHEME_HASH_deserialize.

Definition ifapi_json_TPMS_SIG_SCHEME_ECDAA_deserialize : jde TPMS_SCHEME_ECDAA :=
  ifapi_json_TPMS_SCHEME_ECDAA_deserialize.

Definition ifapi_json_TPMU_SIG_SCHEME_deserialize (selector : Z) : jde TPMS_SCHEME_ECDAA :=
  union_deserialize [
    (TPM2_ALG_RSASSA, dcase hash_of_ecdaa ifapi_json_TPMS_SIG_SCHEME_RSASSA_deserialize);
    (TPM2_ALG_RSAPSS, dcase hash_of_ecdaa ifapi_json_TPMS_SIG_SCHEME_RSAPSS_deserialize);
    (TPM2_ALG_ECDSA, dcase hash_of_ecdaa ifapi_json_TPMS_SIG_SCHEME_ECDSA_deserialize);
    (TPM2_ALG_ECDAA, dcase (whole zero_TPMS_SCHEME_ECDAA)
        ifapi_json_TPMS_SIG_SCHEME_ECDAA_deserialize);
    (TPM2_ALG_SM2, dcase hash_of_ecdaa ifapi_json_TPMS_SIG_SCHEME_SM2_deserialize);
    (TPM2_ALG_ECSCHNORR, dcase hash_of_ecdaa ifapi_json_TPMS_SIG_SCHEME_ECSCHNORR_deserialize);
    (TPM2_ALG_HMAC, dcase hash_of_ecdaa ifapi_json_TPMS_SCHEME_HMAC_deserialize);
    (TPM2_ALG_NULL, dnothing)] selector.

Definition ifapi_json_TPMT_SIG_SCHEME_deserialize : jde TPMT_SIG_SCHEME :=
  with_out (dbody [
    dfield "scheme" TPMT_SIG_SCHEME'scheme ifapi_json_TPMI_ALG_SIG_SCHEME_deserialize;
    dunless TPMT_SIG_SCHEME'scheme TPM2_ALG_NULL (dfield_sel "details" TPMT_SIG_SCHEME'details
        TPMT_SIG_SCHEME'scheme ifapi_json_TPMU_SIG_SCHEME_deserialize)]).

Definition ifapi_json_TPMS_ENC_SCHEME_OAEP_deserialize : jde TPMS_SCHEME_HASH :=
  ifapi_json_TPMS_SCHEME_HASH_deserialize.

Definition ifapi_json_TPMS_ENC_SCHEME_RSAES_deserialize : jde TPMS_EMPTY :=
  ifapi_json_TPMS_EMPTY_deserialize.

Definition ifapi_json_TPMS_KEY_SCHEME_ECDH_deserialize : jde TPMS_SCHEME_HASH :=
  ifapi_json_TPMS_SCHEME_HASH_deserialize.

Definition ifapi_json_TPMS_SCHEME_MGF1_deserialize : jde TPMS_SCHEME_HASH :=
  ifapi_json_TPMS_SCHEME_HASH_deserialize.

Definition ifapi_json_TPMS_SCHEME_KDF1_SP800_56A_deserialize : jde TPMS_SCHEME_HASH :=
  ifapi_json_TPMS_SCHEME_HASH_deserialize.

Definition ifapi_json_TPMS_SCHEME_KDF1_SP800_108_deserialize : jde TPMS_SCHEME_HASH :=
  ifapi_json_TPMS_SCHEME_HASH_deserialize.

Definition ifapi_json_TPMU_KDF_SCHEME_deserialize (selector : Z) : jde TPMS_SCHEME_HASH :=
  union_deserialize [
    (TPM2_ALG_MGF1, dcase (whole zero_TPMS_SCHEME_HASH) ifapi_json_TPMS_SCHEME_MGF1_deserialize);
    (TPM2_ALG_KDF1_SP800_56A, dcase (whole zero_TPMS_SCHEME_HASH)
        ifapi_json_TPMS_SCHEME_KDF1_SP800_56A_deserialize);
    (TPM2_ALG_KDF1_SP800_108, dcase (whole zero_TPMS_SCHEME_HASH)
        ifapi_json_TPMS_SCHEME_KDF1_SP800_108_deserialize);
    (TPM2_ALG_NULL, dnothing)] selector.

Definition ifapi_json_TPMT_KDF_SCHEME_deserialize : jde TPMT_KDF_SCHEME :=
  with_out (dbody [
    dfield "scheme" TPMT_KDF_SCHEME'scheme ifapi_json_TPMI_ALG_KDF_deserialize;
    dunless TPMT_KDF_SCHEME'scheme TPM2_ALG_NULL (dfield_sel "details" TPMT_KDF_SCHEME'details
        TPMT_KDF_SCHEME'scheme ifapi_json_TPMU_KDF_SCHEME_deserialize)]).

Definition ifapi_json_TPMU_ASYM_SCHEME_deserialize (selector : Z) : jde TPMS_SCHEME_ECDAA :=
  union_deserialize [
    (TPM2_ALG_ECDH, dcase hash_of_ecdaa ifapi_json_TPMS_KEY_SCHEME_ECDH_deserialize);
    (TPM2_ALG_RSASSA, dcase hash_of_ecdaa ifapi_json_TPMS_SIG_SCHEME_RSASSA_deserialize);
    (TPM2_ALG_RSAPSS, dcase hash_of_ecdaa ifapi_json_TPMS_SIG_SCHEME_RSAPSS_deserialize);
    (TPM2_ALG_ECDSA, dcase hash_of_ecdaa ifapi_json_TPMS_SIG_SCHEME_ECDSA_deserialize);
    (TPM2_ALG_ECDAA, dcase (whole zero_TPMS_SCHEME_ECDAA)
        ifapi_json_TPMS_SIG_SCHEME_ECDAA_deserialize);
    (TPM2_ALG_SM2, dcase hash_of_ecdaa ifapi_json_TPMS_SIG_SCHEME_SM2_deserialize);
    (TPM2_ALG_ECSCHNORR, dcase hash_of_ecdaa ifapi_json_TPMS_SIG_SCHEME_ECSCHNORR_deserialize);
    (TPM2_ALG_RSAES, dcase empty_of_ecdaa ifapi_json_TPMS_ENC_SCHEME_RSAES_deserialize);
    (TPM2_ALG_OAEP, dcase hash_of_ecdaa ifapi_json_TPMS_ENC_SCHEME_OAEP_deserialize);
    (TPM2_ALG_MLDSA, dcase hash_of_ecdaa ifapi_json_TPMS_SCHEME_HASH_deserialize);
    (TPM2_ALG_NULL, dnothing)] selector.

Definition ifapi_json_TPMI_ALG_RSA_SCHEME_deserialize : jde Z :=
  SUBTYPE_FILTER ifapi_json_TPM2_ALG_ID_deserialize [TPM2_ALG_RSAES; TPM2_ALG_OAEP;
      TPM2_ALG_RSASSA; TPM2_ALG_RSAPSS; TPM2_ALG_NULL].

Definition ifapi_json_TPMT_RSA_SCHEME_deserialize : jde TPMT_RSA_SCHEME :=
  with_out (dbody [
    dfield "scheme" TPMT_RSA_SCHEME'scheme ifapi_json_TPMI_ALG_RSA_SCHEME_deserialize;
    dunless TPMT_RSA_SCHEME'scheme TPM2_ALG_NULL (dfield_sel "details" TPMT_RSA_SCHEME'details
        TPMT_RSA_SCHEME'scheme ifapi_json_TPMU_ASYM_SCHEME_deserialize)]).

Definition ifapi_json_TPMI_ALG_RSA_DECRYPT_deserialize : jde Z :=
  SUBTYPE_FILTER ifapi_json_TPM2_ALG_ID_deserialize [TPM2_ALG_RSAES; TPM2_ALG_OAEP; TPM2_ALG_NULL].

Definition ifapi_json_TPMT_RSA_DECRYPT_deserialize : jde TPMT_RSA_DECRYPT :=
  with_out (dbody [
    dfield "scheme" TPMT_RSA_DECRYPT'scheme ifapi_json_TPMI_ALG_RSA_DECRYPT_deserialize;
    dunless TPMT_RSA_DECRYPT'scheme TPM2_ALG_NULL (dfield_sel "details" TPMT_RSA_DECRYPT'details
        TPMT_RSA_DECRYPT'scheme ifapi_json_TPMU_ASYM_SCHEME_deserialize)]).

Definition ifapi_json_TPM2B_PUBLIC_KEY_RSA_deserialize : jde TPM2B :=
  tpm2b_deserialize TPM2_MAX_RSA_KEY_BYTES.

Definition ifapi_json_TPMI_RSA_KEY_BITS_deserialize : jde Z :=
  SUBTYPE_FILTER ifapi_json_UINT16_deserialize [1024; 2048; 3072; 4096].

Definition ifapi_json_TPM2B_ECC_PARAMETER_deserialize : jde TPM2B :=
  tpm2b_deserialize TPM2_MAX_ECC_KEY_BYTES.

Definition ifapi_json_TPMS_ECC_POINT_deserialize : jde TPMS_ECC_POINT :=
  with_out (dbody [
    dfield "x" TPMS_ECC_POINT'x ifapi_json_TPM2B_ECC_PARAMETER_deserialize;
    dfield "y" TPMS_ECC_POINT'y ifapi_json_TPM2B_ECC_PARAMETER_deserialize]).

Definition ifapi_json_TPMI_ALG_ECC_SCHEME_deserialize : jde Z :=
  SUBTYPE_FILTER ifapi_json_TPM2_ALG_ID_deserialize [TPM2_ALG_ECDSA; TPM2_ALG_ECDAA; TPM2_ALG_SM2;
      TPM2_ALG_ECSCHNORR; TPM2_ALG_ECDH; TPM2_ALG_NULL].

Definition ifapi_json_TPMI_ECC_CURVE_deserialize : jde Z :=
  SUBTYPE_FILTER ifapi_json_TPM2_ECC_CURVE_deserialize [TPM2_ECC_NONE; TPM2_ECC_NIST_P192;
      TPM2_ECC_NIST_P224; TPM2_ECC_NIST_P256; TPM2_ECC_NIST_P384; TPM2_ECC_NIST_P521;
      TPM2_ECC_BN_P256; TPM2_ECC_BN_P638; TPM2_ECC_SM2_P256].

Definition ifapi_json_TPMT_ECC_SCHEME_deserialize : jde TPMT_ECC_SCHEME :=
  with_out (dbody [
    dfield "scheme" TPMT_ECC_SCHEME'scheme ifapi_json_TPMI_ALG_ECC_SCHEME_deserialize;
    dunless TPMT_ECC_SCHEME'scheme TPM2_ALG_NULL (dfield_sel "details" TPMT_ECC_SCHEME'details
        TPMT_ECC_SCHEME'scheme ifapi_json_TPMU_ASYM_SCHEME_deserialize)]).

Definition ifapi_json_TPMS_SIGNATURE_RSA_deserialize : jde TPMS_SIGNATURE_RSA :=
  with_out (dbody [
    dfield "hash" TPMS_SIGNATURE_RSA'hash ifapi_json_TPMI_ALG_HASH_deserialize;
    dfield "sig" TPMS_SIGNATURE_RSA'sig ifapi_json_TPM2B_PUBLIC_KEY_RSA_deserialize]).

Definition ifapi_json_TPMS_SIGNATURE_RSASSA_deserialize : jde TPMS_SIGNATURE_RSA :=
  ifapi_json_TPMS_SIGNATURE_RSA_deserialize.

Definition ifapi_json_TPMS_SIGNATURE_RSAPSS_deserialize : jde TPMS_SIGNATURE_RSA :=
  ifapi_json_TPMS_SIGNATURE_RSA_deserialize.

Definition ifapi_json_TPMS_SIGNATURE_ECC_deserialize : jde TPMS_SIGNATURE_ECC :=
  with_out (dbody [
    dfield "hash" TPMS_SIGNATURE_ECC'hash ifapi_json_TPMI_ALG_HASH_deserialize;
    dfield "signatureR" TPMS_SIGNATURE_ECC'signatureR ifapi_json_TPM2B_ECC_PARAMETER_deserialize;
    dfield "signatureS" TPMS_SIGNATURE_ECC'signatureS ifapi_json_TPM2B_ECC_PARAMETER_deserialize]).

Definition ifapi_json_TPMS_SIGNATURE_ECDSA_deserialize : jde TPMS_SIGNATURE_ECC :=
  ifapi_json_TPMS_SIGNATURE_ECC_deserialize.

Definition ifapi_json_TPMS_SIGNATURE_ECDAA_deserialize : jde TPMS_SIGNATURE_ECC :=
  ifapi_json_TPMS_SIGNATURE_ECC_deserialize.

Definition ifapi_json_TPMS_SIGNATURE_SM2_deserialize : jde TPMS_SIGNATURE_ECC :=
  ifapi_json_TPMS_SIGNATURE_ECC_deserialize.

Definition ifapi_json_TPMS_SIGNATURE_ECSCHNORR_deserialize : jde TPMS_SIGNATURE_ECC :=
  ifapi_json_TPMS_SIGNATURE_ECC_deserialize.

Definition ifapi_json_TPM2B_MLDSA_SIGNATURE_deserialize : jde TPM2B :=
  tpm2b_deserialize TPM2_MAX_MLDSA_SIGNATURE_SIZE.

Definition ifapi_json_TPMS_SIGNATURE_MLDSA_deserialize : jde TPMS_SIGNATURE_MLDSA :=
  with_out (dbody [
    dfield "hash" TPMS_SIGNATURE_MLDSA'hash ifapi_json_TPMI_ALG_HASH_deserialize;
    dfield "sig" TPMS_SIGNATURE_MLDSA'sig ifapi_json_TPM2B_MLDSA_SIGNATURE_deserialize]).

Definition ifapi_json_TPM2B_MLDSA_PUBLIC_KEY_deserialize : jde TPM2B :=
  tpm2b_deserialize TPM2_MAX_MLDSA_PUBLIC_KEY_SIZE.

Definition ifapi_json_TPM2B_MLKEM_PUBLIC_KEY_deserialize : jde TPM2B :=
  tpm2b_deserialize TPM2_MAX_MLKEM_PUBLIC_KEY_SIZE.

Definition ifapi_json_TPMS_ML_PARAMETER_SET_deserialize : jde TPMS_ML_PARAMETER_SET :=
  with_out (dbody [
    dfield "identifier" TPMS_ML_PARAMETER_SET'identifier ifapi_json_UINT32_deserialize]).

Definition ifapi_json_TPMS_MLDSA_PARMS_deserialize : jde TPMS_MLDSA_PARMS :=
  with_out (dbody [
    dfield "nameAlg" TPMS_MLDSA_PARMS'nameAlg ifapi_json_TPMI_ALG_HASH_deserialize;
    dfield "parameterSet" TPMS_MLDSA_PARMS'parameterSet
        ifapi_json_TPMS_ML_PARAMETER_SET_deserialize]).

Definition ifapi_json_TPMS_MLKEM_PARMS_deserialize : jde TPMS_MLKEM_PARMS :=
  with_out (dbody [
    dfield "nameAlg" TPMS_MLKEM_PARMS'nameAlg ifapi_json_TPMI_ALG_HASH_deserialize;
    dfield "parameterSet" TPMS_MLKEM_PARMS'parameterSet
        ifapi_json_TPMS_ML_PARAMETER_SET_deserialize]).

Definition ifapi_json_TPMU_SIGNATURE_deserialize (selector : Z) : jde TPMU_SIGNATURE :=
  union_deserialize [
    (TPM2_ALG_RSASSA, dcase TPMU_SIGNATURE'TPMS_SIGNATURE_RSA
        ifapi_json_TPMS_SIGNATURE_RSASSA_deserialize);
    (TPM2_ALG_RSAPSS, dcase TPMU_SIGNATURE'TPMS_SIGNATURE_RSA
        ifapi_json_TPMS_SIGNATURE_RSAPSS_deserialize);
    (TPM2_ALG_ECDSA, dcase TPMU_SIGNATURE'TPMS_SIGNATURE_ECC
        ifapi_json_TPMS_SIGNATURE_ECDSA_deserialize);
    (TPM2_ALG_ECDAA, dcase TPMU_SIGNATURE'TPMS_SIGNATURE_ECC
        ifapi_json_TPMS_SIGNATURE_ECDAA_deserialize);
    (TPM2_ALG_SM2, dcase TPMU_SIGNATURE'TPMS_SIGNATURE_ECC
        ifapi_json_TPMS_SIGNATURE_SM2_deserialize);
    (TPM2_ALG_ECSCHNORR, dcase TPMU_SIGNATURE'TPMS_SIGNATURE_ECC
        ifapi_json_TPMS_SIGNATURE_ECSCHNORR_deserialize);
    (TPM2_ALG_HMAC, dcase TPMU_SIGNATURE'TPMT_HA ifapi_json_TPMT_HA_deserialize);
    (TPM2_ALG_MLDSA, dcase TPMU_SIGNATURE'TPMS_SIGNATURE_MLDSA
        ifapi_json_TPMS_SIGNATURE_MLDSA_deserialize);
    (TPM2_ALG_NULL, dnothing)] selector.

Definition ifapi_json_TPMT_SIGNATURE_deserialize : jde TPMT_SIGNATURE :=
  with_out (dbody [
    dfield "sigAlg" TPMT_SIGNATURE'sigAlg ifapi_json_TPMI_ALG_SIG_SCHEME_deserialize;
    dunless TPMT_SIGNATURE'sigAlg TPM2_ALG_NULL (dfield_sel "signature" TPMT_SIGNATURE'signature
        TPMT_SIGNATURE'sigAlg ifapi_json_TPMU_SIGNATURE_deserialize)]).

Definition ifapi_json_TPM2B_ENCRYPTED_SECRET_deserialize : jde TPM2B :=
  tpm2b_deserialize (lsize lay_TPMU_ENCRYPTED_SECRET).

Definition ifapi_json_TPMI_ALG_PUBLIC_deserialize : jde Z :=
  SUBTYPE_FILTER ifapi_json_TPM2_ALG_ID_deserialize [TPM2_ALG_RSA; TPM2_ALG_KEYEDHASH;
      TPM2_ALG_ECC; TPM2_ALG_SYMCIPHER; TPM2_ALG_NULL].

Definition ifapi_json_TPMU_PUBLIC_ID_deserialize (selector : Z) : jde TPMU_PUBLIC_ID :=
  union_deserialize [
    (TPM2_ALG_KEYEDHASH, dcase TPMU_PUBLIC_ID'TPM2B_DIGEST ifapi_json_TPM2B_DIGEST_deserialize);
    (TPM2_ALG_SYMCIPHER, dcase TPMU_PUBLIC_ID'TPM2B_DIGEST ifapi_json_TPM2B_DIGEST_deserialize);
    (TPM2_ALG_RSA, dcase TPMU_PUBLIC_ID'TPM2B_PUBLIC_KEY_RSA
        ifapi_json_TPM2B_PUBLIC_KEY_RSA_deserialize);
    (TPM2_ALG_ECC, dcase TPMU_PUBLIC_ID'TPMS_ECC_POINT ifapi_json_TPMS_ECC_POINT_deserialize);
    (TPM2_ALG_MLDSA, dcase TPMU_PUBLIC_ID'TPM2B_MLDSA_PUBLIC_KEY
        ifapi_json_TPM2B_MLDSA_PUBLIC_KEY_deserialize);
    (TPM2_ALG_MLKEM, dcase TPMU_PUBLIC_ID'TPM2B_MLKEM_PUBLIC_KEY
        ifapi_json_TPM2B_MLKEM_PUBLIC_KEY_deserialize)] selector.

Definition ifapi_json_TPMS_KEYEDHASH_PARMS_deserialize : jde TPMS_KEYEDHASH_PARMS :=
  with_out (dbody [
    dfield "scheme" TPMS_KEYEDHASH_PARMS'scheme ifapi_json_TPMT_KEYEDHASH_SCHEME_deserialize]).

Definition ifapi_json_TPMS_RSA_PARMS_deserialize : jde TPMS_RSA_PARMS :=
  with_out (dbody [
    dfield "symmetric" TPMS_RSA_PARMS'symmetric ifapi_json_TPMT_SYM_DEF_OBJECT_deserialize;
    dfield "scheme" TPMS_RSA_PARMS'scheme ifapi_json_TPMT_RSA_SCHEME_deserialize;
    dfield "keyBits" TPMS_RSA_PARMS'keyBits ifapi_json_TPMI_RSA_KEY_BITS_deserialize;
    dfield "exponent" TPMS_RSA_PARMS'exponent ifapi_json_UINT32_deserialize]).

Definition ifapi_json_TPMS_ECC_PARMS_deserialize : jde TPMS_ECC_PARMS :=
  with_out (dbody [
    dfield "symmetric" TPMS_ECC_PARMS'symmetric ifapi_json_TPMT_SYM_DEF_OBJECT_deserialize;
    dfield "scheme" TPMS_ECC_PARMS'scheme ifapi_json_TPMT_ECC_SCHEME_deserialize;
    dfield "curveID" TPMS_ECC_PARMS'curveID ifapi_json_TPMI_ECC_CURVE_deserialize;
    dfield "kdf" TPMS_ECC_PARMS'kdf ifapi_json_TPMT_KDF_SCHEME_deserialize]).

Definition ifapi_json_TPMU_PUBLIC_PARMS_deserialize (selector : Z) : jde TPMU_PUBLIC_PARMS :=
  union_deserialize [
    (TPM2_ALG_KEYEDHASH, dcase TPMU_PUBLIC_PARMS'TPMS_KEYEDHASH_PARMS
        ifapi_json_TPMS_KEYEDHASH_PARMS_deserialize);
    (TPM2_ALG_SYMCIPHER, dcase TPMU_PUBLIC_PARMS'TPMS_SYMCIPHER_PARMS
        ifapi_json_TPMS_SYMCIPHER_PARMS_deserialize);
    (TPM2_ALG_RSA, dcase TPMU_PUBLIC_PARMS'TPMS_RSA_PARMS ifapi_json_TPMS_RSA_PARMS_deserialize);
    (TPM2_ALG_ECC, dcase TPMU_PUBLIC_PARMS'TPMS_ECC_PARMS ifapi_json_TPMS_ECC_PARMS_deserialize);
    (TPM2_ALG_MLDSA, dcase TPMU_PUBLIC_PARMS'TPMS_MLDSA_PARMS
        ifapi_json_TPMS_MLDSA_PARMS_deserialize);
    (TPM2_ALG_MLKEM, dcase TPMU_PUBLIC_PARMS'TPMS_MLKEM_PARMS
        ifapi_json_TPMS_MLKEM_PARMS_deserialize)] selector.

Definition ifapi_json_TPMT_PUBLIC_deserialize : jde TPMT_PUBLIC :=
  with_out (dbody [
    dfield "type" TPMT_PUBLIC'type ifapi_json_TPMI_ALG_PUBLIC_deserialize;
    dfield "nameAlg" TPMT_PUBLIC'nameAlg ifapi_json_TPMI_ALG_HASH_deserialize;
    dfield "objectAttributes" TPMT_PUBLIC'objectAttributes ifapi_json_TPMA_OBJECT_deserialize;
    dfield "authPolicy" TPMT_PUBLIC'authPolicy ifapi_json_TPM2B_DIGEST_deserialize;
    dfield_sel "parameters" TPMT_PUBLIC'parameters TPMT_PUBLIC'type
        ifapi_json_TPMU_PUBLIC_PARMS_deserialize;
    (fun jso out => match ifapi_get_sub_object jso "unique" with
      | None => Ret (TSS2_RC_SUCCESS, mset TPMT_PUBLIC'unique zero_TPMU_PUBLIC_ID out)
      | Some _ => dfield_sel "unique" TPMT_PUBLIC'unique TPMT_PUBLIC'type
          ifapi_json_TPMU_PUBLIC_ID_deserialize jso out end)]).

Definition ifapi_json_TPM2B_PUBLIC_deserialize : jde (TPM2B_SUB TPMT_PUBLIC) :=
  deref_out (dbody [
    dfield "size" sub_size ifapi_json_UINT16_deserialize;
    dfield "publicArea" sub_member ifapi_json_TPMT_PUBLIC_deserialize]).

Definition ifapi_json_TPM2B_PRIVATE_deserialize : jde TPM2B :=
  tpm2b_deserialize (cap_TPM2B_PRIVATE).

Definition tab_ifapi_json_TPM2_NT_deserialize : list (Z * string) := [
  (TPM2_NT_ORDINARY, "ORDINARY");
  (TPM2_NT_COUNTER, "COUNTER");
  (TPM2_NT_BITS, "BITS");
  (TPM2_NT_EXTEND, "EXTEND");
  (TPM2_NT_PIN_FAIL, "PIN_FAIL");
  (TPM2_NT_PIN_PASS, "PIN_PASS")].
Definition ifapi_json_TPM2_NT_deserialize : jde Z :=
  table_deserialize tab_ifapi_json_TPM2_NT_deserialize ["TPM_"; "TPM2_"; "NT_"]
      ifapi_json_UINT8_deserialize.

Definition tab_ifapi_json_TPMA_NV_deserialize : list (Z * string) := [
  (TPMA_NV_PPWRITE, "PPWRITE");
  (TPMA_NV_OWNERWRITE, "OWNERWRITE");
  (TPMA_NV_AUTHWRITE, "AUTHWRITE");
  (TPMA_NV_POLICYWRITE, "POLICYWRITE");
  (TPMA_NV_POLICY_DELETE, "POLICY_DELETE");
  (TPMA_NV_WRITELOCKED, "WRITELOCKED");
  (TPMA_NV_WRITEALL, "WRITEALL");
  (TPMA_NV_WRITEDEFINE, "WRITEDEFINE");
  (TPMA_NV_WRITE_STCLEAR, "WRITE_STCLEAR");
  (TPMA_NV_GLOBALLOCK, "GLOBALLOCK");
  (TPMA_NV_PPREAD, "PPREAD");
  (TPMA_NV_OWNERREAD, "OWNERREAD");
  (TPMA_NV_AUTHREAD, "AUTHREAD");
  (TPMA_NV_POLICYREAD, "POLICYREAD");
  (TPMA_NV_NO_DA, "NO_DA");
  (TPMA_NV_ORDERLY, "ORDERLY");
  (TPMA_NV_CLEAR_STCLEAR, "CLEAR_STCLEAR");
  (TPMA_NV_READLOCKED, "READLOCKED");
  (TPMA_NV_WRITTEN, "WRITTEN");
  (TPMA_NV_PLATFORMCREATE, "PLATFORMCREATE");
  (TPMA_NV_READ_STCLEAR, "READ_STCLEAR");
  (Z.shiftl TPM2_NT_ORDINARY 4, "ORDINARY");
  (Z.shiftl TPM2_NT_COUNTER 4, "COUNTER");
  (Z.shiftl TPM2_NT_BITS 4, "BITS");
  (Z.shiftl TPM2_NT_EXTEND 4, "EXTEND");
  (Z.shiftl TPM2_NT_PIN_FAIL 4, "PIN_FAIL");
  (Z.shiftl TPM2_NT_PIN_PASS 4, "PIN_PASS")].
(** The type of an NV index, in its bits of the attributes. *)
Definition nv_type (jso : option json) (out : Z) : outcome (TSS2_RC * Z) :=
  let* (r, out2) := ifapi_json_TPM2_NT_deserialize jso (Some 0) in
  if r =? TSS2_RC_SUCCESS
  then let* out2 := access out2 in Ret (r, Z.lor out (Z.shiftl out2 4))
  else Ret (r, out).

Definition ifapi_json_TPMA_NV_deserialize : jde Z :=
  attr_deserialize 32
    (fun jso2 out =>
       match json_object_get_type jso2 with
       | json_type_object =>
           match json_object_object_get_ex jso2 "TPM2_NT" with
           | None => Ret (TSS2_FAPI_RC_BAD_VALUE, out)
           | Some jso2 => nv_type jso2 out
           end
       | _ => attr_name tab_ifapi_json_TPMA_NV_deserialize
                ["TPM_"; "TPM2_"; "TPMA_"; "NV_"; "TPM2_"; "NT_"] jso2 out
       end)
    (fun '(key, val) out =>
       let token := strip_prefix (Some key) ["TPM_"; "TPM2_"; "TPMA_"; "NV_"; "TPM2_"] in
       if strcaseeq (default "" token) "NT" then nv_type val out
       else attr_flag tab_ifapi_json_TPMA_NV_deserialize (strip_prefix token ["NT_"]) val out).

Definition ifapi_json_TPMS_NV_PUBLIC_deserialize : jde TPMS_NV_PUBLIC :=
  with_out (dbody [
    dfield "nvIndex" TPMS_NV_PUBLIC'nvIndex ifapi_json_TPMI_RH_NV_INDEX_deserialize;
    dfield "nameAlg" TPMS_NV_PUBLIC'nameAlg ifapi_json_TPMI_ALG_HASH_deserialize;
    dfield "attributes" TPMS_NV_PUBLIC'attributes ifapi_json_TPMA_NV_deserialize;
    dfield "authPolicy" TPMS_NV_PUBLIC'authPolicy ifapi_json_TPM2B_DIGEST_deserialize;
    dfield "dataSize" TPMS_NV_PUBLIC'dataSize ifapi_json_UINT16_deserialize]).

Definition ifapi_json_TPM2B_NV_PUBLIC_deserialize : jde (TPM2B_SUB TPMS_NV_PUBLIC) :=
  deref_out (dbody [
    dfield "size" sub_size ifapi_json_UINT16_deserialize;
    dfield "nvPublic" sub_member ifapi_json_TPMS_NV_PUBLIC_deserialize]).

Definition ifapi_json_TPMS_CREATION_DATA_deserialize : jde TPMS_CREATION_DATA :=
  with_out (dbody [
    dfield "pcrSelect" TPMS_CREATION_DATA'pcrSelect ifapi_json_TPML_PCR_SELECTION_deserialize;
    dfield "pcrDigest" TPMS_CREATION_DATA'pcrDigest ifapi_json_TPM2B_DIGEST_deserialize;
    dfield "locality" TPMS_CREATION_DATA'locality ifapi_json_TPMA_LOCALITY_deserialize;
    dfield "parentNameAlg" TPMS_CREATION_DATA'parentNameAlg ifapi_json_TPM2_ALG_ID_deserialize;
    dfield "parentName" TPMS_CREATION_DATA'parentName ifapi_json_TPM2B_NAME_deserialize;
    dfield "parentQualifiedName" TPMS_CREATION_DATA'parentQualifiedName
        ifapi_json_TPM2B_NAME_deserialize;
    dfield "outsideInfo" TPMS_CREATION_DATA'outsideInfo ifapi_json_TPM2B_DATA_deserialize]).

Definition ifapi_json_TPM2B_CREATION_DATA_deserialize : jde (TPM2B_SUB TPMS_CREATION_DATA) :=
  deref_out (dbody [
    dfield "size" sub_size ifapi_json_UINT16_deserialize;
    dfield "creationData" sub_member ifapi_json_TPMS_CREATION_DATA_deserialize]).

End De.
