(* ===== verification/JsonOk.v ===== *)
(** * JSON codecs: what a serializer promises to the deserializer.

    [codec ser de dom s]: on a value of the domain [dom] with the storage of
    its C type, the serializer succeeds, and from the JSON value it has
    written the deserializer recovers, over any destination with the storage
    of the type, a value that is equal in everything that is on the wire of
    the TPM (the equivalence of the wire format [s]).  The lemmas of this
    file build a codec for a structure, a union or a list from the codecs of
    its parts. *)

From stdpp Require Import base strings list_numbers.
From S2P Require Import Prelude Common MuSpec MuBase MuBaseOk MuStruct MuTpm2b MuUnion JsonCodes JsonC JsonBase JsonNum JsonSer JsonDe.
Open Scope list_scope.
Open Scope Z_scope.
Open Scope tss_scope.

(** The selector of a union has no part in what is well formed. *)
Class UnionWf {U} (wf : U -> Prop) (su : Z -> spec U) : Prop :=
  union_wf : forall z u, wf u <-> s_wf (su z) u.

Section Ok.
Context `{JC : JsonC} {JL : JsonLaws} {RL : Reliable}.

(** From NULL, [s] succeeds and leaves a JSON value with [P]. *)
Definition puts (s : jser) (P : json -> Prop) : Prop :=
  forall w, exists j w', s None w = Ret (TSS2_RC_SUCCESS, (Some j, w')) /\ P j.

(** From [o], [s] succeeds and leaves a JSON value with [Q]. *)
Definition adds (s : jser) (o : json) (Q : json -> Prop) : Prop :=
  forall w, exists o' w', s (Some o) w = Ret (TSS2_RC_SUCCESS, (Some o', w')) /\ Q o'.

Definition recovers {T} (de : jde T) (s : spec T) (x : T) (j : json) : Prop :=
  forall out, s_wf s out -> exists x',
    de (Some j) (Some out) = Ret (TSS2_RC_SUCCESS, Some x') /\ s_wf s x' /\ s_eqv s x x'.

Definition codec {T} (ser : T -> jser) (de : jde T) (dom : T -> Prop) (s : spec T) : Prop :=
  forall x, s_wf s x -> dom x -> puts (ser x) (recovers de s x).

(** ** Serializing *)

Lemma puts_mono s (P Q : json -> Prop) : puts s P -> (forall j, P j -> Q j) -> puts s Q.
Proof. intros W I w. destruct (W w) as (j&w'&E&H). eauto. Qed.

Lemma adds_mono s o (P Q : json -> Prop) : adds s o P -> (forall j, P j -> Q j) -> adds s o Q.
Proof. intros W I w. destruct (W w) as (j&w'&E&H). eauto. Qed.

Lemma adds_ret o (Q : json -> Prop) : Q o -> adds (jret TSS2_RC_SUCCESS) o Q.
Proof. intros H w. by exists o, w. Qed.

Lemma adds_nil o (Q : json -> Prop) : Q o -> adds (jbody []) o Q.
Proof. apply adds_ret. Qed.

Lemma adds_seq s1 s2 o Q : adds s1 o (fun o' => adds s2 o' Q) -> adds (jseq s1 s2) o Q.
Proof.
  intros A w. destruct (A w) as (o1&w1&E1&B). destruct (B w1) as (o2&w2&E2&H).
  exists o2, w2. split; [|done]. unfold jseq. by rewrite E1.
Qed.

Lemma adds_cons s l o Q : adds s o (fun o' => adds (jbody l) o' Q) -> adds (jbody (s :: l)) o Q.
Proof. apply adds_seq. Qed.

(** A statement that changes nothing. *)
Definition skips (s : jser) : Prop := forall jso w, s jso w = Ret (TSS2_RC_SUCCESS, (jso, w)).

Lemma skips_puts s l P : skips s -> puts (jbody l) P -> puts (jbody (s :: l)) P.
Proof. intros S W w. simpl. unfold jseq. rewrite S. apply W. Qed.

Lemma skips_adds s l o Q : skips s -> adds (jbody l) o Q -> adds (jbody (s :: l)) o Q.
Proof. intros S W w. simpl. unfold jseq. rewrite S. apply W. Qed.

Lemma skips_when_false s : skips (jwhen false s).
Proof. done. Qed.

Lemma skips_check x tab : In x tab -> skips (CHECK_IN_LIST x tab).
Proof.
  intros I jso w. unfold CHECK_IN_LIST. rewrite (proj2 (existsb_exists _ _)); [done|].
  exists x. by rewrite Z.eqb_refl.
Qed.

Lemma puts_last s P : puts s P -> puts (jbody [s]) P.
Proof.
  intros W w. destruct (W w) as (j&w'&E&H). exists j, w'. split; [|done].
  simpl. unfold jseq. by rewrite E.
Qed.

Lemma puts_cons s l P Q :
  puts s Q -> (forall j, Q j -> adds (jbody l) j P) -> puts (jbody (s :: l)) P.
Proof.
  intros W A w. destruct (W w) as (j&w1&E&H). destruct (A j H w1) as (j2&w2&E2&H2).
  exists j2, w2. split; [|done]. simpl. unfold jseq. by rewrite E.
Qed.

(** A new, empty object. *)
Definition fresh_obj (o : json) : Prop :=
  is_obj o /\ json_object_object_members o = [] /\ forall k, member_of o k = None.

Lemma puts_new_object : puts fresh_object fresh_obj.
Proof.
  intros w. unfold fresh_object. destruct (new_object_ok w) as (j&w'&E). rewrite E.
  exists j, w'. split; [done|]. by eapply new_object_law.
Qed.

Lemma puts_new_object_checked : puts fresh_object_checked fresh_obj.
Proof.
  intros w. unfold fresh_object_checked, put_new. destruct (new_object_ok w) as (j&w'&E).
  rewrite E. exists j, w'. split; [done|]. by eapply new_object_law.
Qed.

Lemma puts_new_array rc :
  puts (put_new rc json_object_new_array) (fun a => is_arr a /\ json_object_array_length a = 0).
Proof.
  intros w. unfold put_new. destruct (new_array_ok w) as (j&w'&E). rewrite E.
  exists j, w'. split; [done|]. by eapply new_array_law.
Qed.

Lemma puts_string rc s :
  puts (put_new rc (json_object_new_string s)) (fun j =>
    json_object_get_type (Some j) = json_type_string /\ json_object_get_string (Some j) = Some s).
Proof.
  intros w. unfold put_new. destruct (new_string_ok s w) as (j&w'&E). rewrite E.
  exists j, w'. split; [done|]. by eapply new_string_law.
Qed.

Definition shows_int (z : Z) (j : json) : Prop :=
  json_object_get_type (Some j) = json_type_int /\ json_object_get_string (Some j) = Some (dec z).

Lemma puts_int64 rc z :
  - 2 ^ 63 <= z < 2 ^ 63 -> puts (put_new rc (json_object_new_int64 z)) (shows_int z).
Proof.
  intros R w. unfold put_new. destruct (new_int64_ok z w) as (j&w'&E). rewrite E.
  exists j, w'. split; [done|]. by eapply new_int64_law.
Qed.

Lemma puts_int rc z :
  - 2 ^ 31 <= z < 2 ^ 31 -> puts (put_new rc (json_object_new_int z)) (shows_int z).
Proof.
  intros R w. unfold put_new. destruct (new_int_ok z w) as (j&w'&E). rewrite E.
  exists j, w'. split; [done|]. by eapply new_int_law.
Qed.

(** [o'] is [o] with the member [name]. *)
Definition added (o o' : json) (name : string) (v : option json) : Prop :=
  is_obj o' /\
  (forall k, member_of o' k = if String.eqb k name then Some v else member_of o k) /\
  (member_of o name = None ->
   json_object_object_members o' = json_object_object_members o ++ [(name, v)]).

Lemma adds_field name ser o P :
  is_obj o -> puts ser P ->
  adds (field name ser) o (fun o' => exists j, P j /\ added o o' name (Some j)).
Proof.
  intros O W w. unfold field, with_sub. destruct (W w) as (j&w1&->&H). simpl.
  destruct (object_add_ok o name (Some j) w1 O) as (o'&w2&E). unfold add_member. rewrite E.
  exists o', w2. split; [done|]. exists j. split; [done|]. by eapply object_add_law.
Qed.

Lemma adds_element ser a P :
  is_arr a -> puts ser P ->
  adds (element ser) a (fun a' => exists j, P j /\ is_arr a' /\
    json_object_array_length a' = json_object_array_length a + 1 /\
    forall i, json_object_array_get_idx a' i =
      if i =? json_object_array_length a then Some j else json_object_array_get_idx a i).
Proof.
  intros O W w. unfold element, with_sub. destruct (W w) as (j&w1&->&H). simpl.
  destruct (array_add_ok a (Some j) w1 O) as (o'&w2&E). unfold add_element. rewrite E.
  exists o', w2. split; [done|]. exists j. split; [done|]. by eapply array_add_law.
Qed.

Lemma puts_or_bad_value s P : puts s P -> puts (or_bad_value s) P.
Proof.
  intros W w. destruct (W w) as (j&w'&E&H). exists j, w'. unfold or_bad_value. by rewrite E.
Qed.

(** The member [name] of [o] has [P]. *)
Definition has (o : json) (name : string) (P : json -> Prop) : Prop :=
  exists j, member_of o name = Some (Some j) /\ P j.

Lemma added_has o o' name j (P : json -> Prop) : added o o' name (Some j) -> P j -> has o' name P.
Proof.
  intros (_&G&_) H. exists j. split; [|done]. by rewrite G, String.eqb_refl.
Qed.

Lemma added_keeps o o' name v k P :
  added o o' name v -> String.eqb k name = false -> has o k P -> has o' k P.
Proof. intros (_&G&_) N (j&E&H). exists j. split; [|done]. by rewrite G, N. Qed.

(** One more member: the facts about the earlier ones stay. *)
Lemma adds_field_k name ser o P Q :
  is_obj o -> puts ser P ->
  (forall o', is_obj o' -> has o' name P ->
     (forall k R, String.eqb k name = false -> has o k R -> has o' k R) ->
     (forall k, String.eqb k name = false -> member_of o k = None -> member_of o' k = None) ->
     Q o') ->
  adds (field name ser) o Q.
Proof.
  intros O W K. eapply adds_mono; [by apply adds_field|]. intros o' (j&H&A). apply K.
  - apply A.
  - by eapply added_has.
  - intros. by eapply added_keeps.
  - intros k N E. destruct A as (_&G&_). by rewrite G, N.
Qed.

(** ** Deserializing *)

(** [s] goes from [out] to a value with [Q]. *)
Definition goes {T} (s : dstep T) (j : json) (out : T) (Q : T -> Prop) : Prop :=
  exists out', s (Some j) out = Ret (TSS2_RC_SUCCESS, out') /\ Q out'.

Lemma goes_nil {T} j (out : T) (Q : T -> Prop) : Q out -> goes (dbody []) j out Q.
Proof. intros H. by exists out. Qed.

Lemma goes_cons {T} (s : dstep T) l j out Q :
  goes s j out (fun out' => goes (dbody l) j out' Q) -> goes (dbody (s :: l)) j out Q.
Proof.
  intros (out1&E1&out2&E2&H). exists out2. split; [|done]. simpl. unfold dseq. by rewrite E1.
Qed.

Lemma goes_clear {T} (zero : T) j out (Q : T -> Prop) : Q zero -> goes (dclear zero) j out Q.
Proof. intros H. by exists zero. Qed.

Lemma get_sub_object_has o name P :
  has o name P -> exists j, ifapi_get_sub_object (Some o) name = Some j /\ P j.
Proof.
  intros (j&E&H). exists j. split; [|done]. unfold ifapi_get_sub_object.
  unfold member_of in E. by rewrite E.
Qed.

Lemma goes_field {T F} name (m : member T F) de (s : spec F) x o out Q :
  has o name (recovers de s x) -> s_wf s (mget m out) ->
  (forall x', s_wf s x' -> s_eqv s x x' -> Q (mset m x' out)) ->
  goes (dfield name m de) o out Q.
Proof.
  intros H W K. apply get_sub_object_has in H as (j&E&R). destruct (R _ W) as (x'&E'&W'&V).
  exists (mset m x' out). split; [|auto]. unfold dfield. by rewrite E, E'.
Qed.

Lemma goes_field_sel {T U} name (m : member T U) (sel : member T Z) (de : Z -> jde U)
    (wf : U -> Prop) (su : Z -> spec U) `{!UnionWf wf su} x o out Q :
  has o name (recovers (de (mget sel out)) (su (mget sel out)) x) -> wf (mget m out) ->
  (forall x', wf x' -> s_eqv (su (mget sel out)) x x' -> Q (mset m x' out)) ->
  goes (dfield_sel name m sel de) o out Q.
Proof.
  intros H W K. eapply (goes_field name m (de (mget sel out))); [exact H|by apply union_wf|].
  intros x' W' V. apply K; [|done]. by apply union_wf in W'.
Qed.

Lemma goes_present {T} name (d : T -> outcome (TSS2_RC * T)) (s : dstep T) j P out Q :
  has j name P -> goes s j out Q ->
  goes (fun jso out => match ifapi_get_sub_object jso name with
    | None => d out | Some _ => s jso out end) j out Q.
Proof.
  intros H G. apply get_sub_object_has in H as (j'&E&_). unfold goes. by rewrite E.
Qed.

Lemma goes_unless_null {T} (sel : member T Z) v (s : dstep T) o out Q :
  (mget sel out = v -> Q out) -> (mget sel out <> v -> goes s o out Q) ->
  goes (dunless sel v s) o out Q.
Proof.
  intros K1 K2. unfold goes, dunless. destruct (mget sel out =? v) eqn:E; bool2prop.
  - exists out. auto.
  - apply K2; done.
Qed.

Lemma recovers_with_out {T} (st : dstep T) (s : spec T) x j :
  (forall out, s_wf s out -> goes st j out (fun x' => s_wf s x' /\ s_eqv s x x')) -> recovers (with_out st) s x j.
Proof.
  intros H out W. destruct (H out W) as (x'&E&V). exists x'. unfold with_out. by rewrite E.
Qed.

Lemma recovers_deref_out {T} (st : dstep T) (s : spec T) x j :
  (forall out, s_wf s out -> goes st j out (fun x' => s_wf s x' /\ s_eqv s x x')) -> recovers (deref_out st) s x j.
Proof.
  intros H out W. destruct (H out W) as (x'&E&V). exists x'. unfold deref_out. by rewrite E.
Qed.

(** ** Codecs *)

Lemma codec_weaken {T} (ser : T -> jser) de (d1 d2 : T -> Prop) s :
  codec ser de d1 s -> (forall x, d2 x -> d1 x) -> codec ser de d2 s.
Proof. intros C I x W D. apply C; auto. Qed.

(** The values of a subtype are read as those of its parent. *)
Lemma filter_recovers de ty (l : list Z) x :
  in_range ty 0 -> In x l -> forall j, recovers de (spec_int ty) x j ->
  recovers (SUBTYPE_FILTER de l) (spec_int ty) x j.
Proof.
  intros H0 I j R out Wo. destruct (R 0) as (x'&E&Wx&V); [exact H0|].
  simpl in V. subst x'. exists x. split; [|done]. unfold SUBTYPE_FILTER. rewrite E. simpl.
  rewrite (proj2 (existsb_exists _ _)); [done|]. exists x. by rewrite Z.eqb_refl.
Qed.

(** A subtype of an enumeration. *)
Lemma subtype_codec (ser : Z -> jser) de dom ty (l1 l2 : list Z) :
  in_range ty 0 -> codec ser de dom (spec_int ty) ->
  codec (fun in_ => jbody [CHECK_IN_LIST in_ l1; ser in_]) (SUBTYPE_FILTER de l2)
    (fun x => dom x /\ In x l1 /\ In x l2) (spec_int ty).
Proof.
  intros H0 C x W (D&I1&I2). apply skips_puts; [by apply skips_check|]. apply puts_last.
  eapply puts_mono; [by apply C|]. by apply filter_recovers.
Qed.

(** The same for a serializer that does not check. *)
Lemma filter_codec (ser : Z -> jser) de dom ty (l : list Z) :
  in_range ty 0 -> codec ser de dom (spec_int ty) ->
  codec ser (SUBTYPE_FILTER de l) (fun x => dom x /\ In x l) (spec_int ty).
Proof.
  intros H0 C x W (D&I). eapply puts_mono; [by apply C|]. by apply filter_recovers.
Qed.

(** A case of a union. *)
Lemma case_codec {U M} (wf : U -> Prop) (m : umember U M) (ser : M -> jser) de dom (s : spec M) u :
  umember_ok wf m s -> codec ser de dom s -> wf u ->
  (exists v, uget m u = Some v /\ dom v) ->
  puts (jcase m ser u) (recovers (dcase m de) (spec_case wf m s) u).
Proof.
  intros [Wg Wz Ws Gs] C W (v&E&D). unfold jcase. rewrite E.
  eapply puts_mono; [apply C; [by eapply Wg|done]|]. intros j R out Wo.
  assert (W0 : s_wf s (default (uzero m) (uget m out))).
  { destruct (uget m out) eqn:Eo; simpl; eauto. }
  destruct (R _ W0) as (x'&E'&W'&V). exists (uset m x' out). unfold dcase. rewrite E'.
  split; [done|]. split; [by apply Ws|]. simpl. by rewrite E, Gs.
Qed.
(** The values of a union that have a codec: those of the cases. *)
Definition union_dom {U} (cases : list (Z * (U -> Prop))) (sel : Z) (u : U) : Prop :=
  match switch sel cases with Some d => d u | None => False end.

Definition case_dom {U M} (m : umember U M) (dom : M -> Prop) (u : U) : Prop :=
  exists v, uget m u = Some v /\ dom v.

Definition ucodec {U} (ser : option U -> Z -> jser) (de : Z -> jde U) (dom : Z -> U -> Prop)
    (wf : U -> Prop) (su : Z -> spec U) : Prop :=
  forall sel u, wf u -> dom sel u -> puts (ser (Some u) sel) (recovers (de sel) (su sel) u).

Lemma union_case {U M} (wf : U -> Prop) sel ser_cases de_cases (su : Z -> spec U)
    (m : umember U M) (ser : M -> jser) de dom (s : spec M) u :
  switch sel ser_cases = Some (jcase m ser) -> switch sel de_cases = Some (dcase m de) ->
  su sel = spec_case wf m s ->
  umember_ok wf m s -> codec ser de dom s -> wf u -> case_dom m dom u ->
  puts (union_serialize ser_cases (Some u) sel)
       (recovers (union_deserialize de_cases sel) (su sel) u).
Proof.
  intros E1 E2 -> O C W D. unfold union_serialize, union_deserialize. rewrite E1, E2.
  by apply (case_codec _ _ _ _ dom).
Qed.

(** A structure preceded by its length. *)
Lemma sub_wf {M} (s : spec M) (x : TPM2B_SUB M) :
  s_wf (spec_sub s) x -> in_range UINT16 (ssize x) /\ s_wf s (smember x).
Proof. done. Qed.

End Ok.
