(* ===== verification/JsonNumOk.v ===== *)
(** * Numbers, names, byte strings and attribute words: the atomic codecs.

    What [JsonNum] reads back from what the serializers write: decimal
    numerals, the digits of a byte string, the names of an enumeration, the
    bits of an attribute word, the PCRs of a selection. *)

From stdpp Require Import base strings list_numbers.
From Stdlib Require Import Ascii DecimalString DecimalZ DecimalPos DecimalFacts.
From S2P Require Import Prelude Common MuSpec MuBase MuBaseOk MuStruct MuTpm2b MuUnion MuPcr TpmTypes MuTypes JsonCodes JsonC JsonBase JsonNum JsonSer JsonDe JsonOk.
Open Scope string_scope.
Open Scope list_scope.
Open Scope Z_scope.
Open Scope tss_scope.

(** ** Decimal numerals *)

Lemma strlen_cons c s : strlen (String c s) = 1 + strlen s.
Proof. unfold strlen. simpl. lia. Qed.

Lemma strlen_nonneg s : 0 <= strlen s.
Proof. unfold strlen. lia. Qed.

Lemma scan_acc d : forall acc n,
  scan_digits dec_value 10 (Z.pos acc) n (NilEmpty.string_of_uint d) =
  (Z.pos (Pos.of_uint_acc d acc), n + strlen (NilEmpty.string_of_uint d)).
Proof.
  induction d; intros acc n;
    [unfold strlen; simpl; f_equal; lia|..];
    cbn [NilEmpty.string_of_uint scan_digits];
    match goal with |- context [dec_value ?c] => set (v := dec_value c); vm_compute in v; subst v end;
    cbv iota beta;
    rewrite strlen_cons;
    match goal with |- context [Pos.of_uint_acc (_ d) acc] =>
      cbn [Pos.of_uint_acc] end;
    match goal with |- scan_digits _ _ _ ?n _ = (Z.pos (Pos.of_uint_acc _ ?a), _) =>
      match goal with |- scan_digits _ _ ?v _ _ = _ => replace v with (Z.pos a) by lia end;
      rewrite IHd; f_equal; lia end.
Qed.

Lemma scan_uint d : forall n,
  scan_digits dec_value 10 0 n (NilEmpty.string_of_uint d) =
  (Z.of_N (Pos.of_uint d), n + strlen (NilEmpty.string_of_uint d)).
Proof.
  induction d; intros n;
    [unfold strlen; simpl; f_equal; lia|..];
    cbn [NilEmpty.string_of_uint scan_digits];
    match goal with |- context [dec_value ?c] => set (v := dec_value c); vm_compute in v; subst v end;
    cbv iota beta; rewrite strlen_cons; cbn [Pos.of_uint];
    [replace (0 * 10 + 0) with 0 by lia; rewrite IHd; f_equal; lia|..];
    match goal with |- scan_digits _ _ _ ?n _ = (Z.of_N (Npos (Pos.of_uint_acc _ ?a)), _) =>
      match goal with |- scan_digits _ _ ?v _ _ = _ => change v with (Z.pos a) end;
      rewrite scan_acc; simpl Z.of_N; f_equal; lia end.
Qed.

(** A numeral begins with a digit and has no second character [x]. *)
Definition digit_first (s : string) : Prop :=
  exists c s', s = String c s' /\ isspace c = false /\ Ascii.eqb c "-" = false /\
    Ascii.eqb c "+" = false /\ strprefix "0x" s = false.

Lemma uint_first d : d <> Decimal.Nil -> digit_first (NilEmpty.string_of_uint d).
Proof.
  intros N. destruct d; [done|..];
    (eexists _, _; split; [reflexivity|]; split_and!; [reflexivity..|]);
    try reflexivity; destruct d; reflexivity.
Qed.

Lemma digit_first_scan s n :
  digit_first s -> skip_space n s = (n, s) /\ scan_sign n s = (false, (n, s)).
Proof.
  intros (c&s'&->&S&M&P&_). split; simpl; [by rewrite S|]. by rewrite M, P.
Qed.

Lemma to_uint_nonnil p : Pos.to_uint p <> Decimal.Nil.
Proof.
  intros E. pose proof (DecimalPos.Unsigned.of_to p) as H. rewrite E in H. discriminate.
Qed.

Lemma dec_pos p : dec (Z.pos p) = NilEmpty.string_of_uint (Pos.to_uint p).
Proof.
  unfold dec. simpl. pose proof (to_uint_nonnil p). by destruct (Pos.to_uint p).
Qed.

Lemma dec_neg p : dec (Z.neg p) = String "-" (NilEmpty.string_of_uint (Pos.to_uint p)).
Proof.
  unfold dec. simpl. pose proof (to_uint_nonnil p). by destruct (Pos.to_uint p).
Qed.

Lemma scan_pos p n :
  scan_digits dec_value 10 0 n (NilEmpty.string_of_uint (Pos.to_uint p)) =
  (Z.pos p, n + strlen (NilEmpty.string_of_uint (Pos.to_uint p))).
Proof. rewrite scan_uint. by rewrite DecimalPos.Unsigned.of_to. Qed.

Lemma strlen_uint_pos p : 0 < strlen (NilEmpty.string_of_uint (Pos.to_uint p)).
Proof.
  destruct (uint_first _ (to_uint_nonnil p)) as (c&s&->&_). rewrite strlen_cons.
  pose proof (strlen_nonneg s). lia.
Qed.

Lemma skip_minus s : skip_space 0 (String "-" s) = (0, String "-" s).
Proof. reflexivity. Qed.

Lemma scan_minus s : scan_sign 0 (String "-" s) = (true, (1, s)).
Proof. reflexivity. Qed.

Lemma sscanf_dec z :
  - 2 ^ 63 <= z < 2 ^ 63 -> sscanf_d64 (dec z) = Ret (Some (z, strlen (dec z))).
Proof.
  intros R. unfold sscanf_d64. destruct z as [|p|p].
  - reflexivity.
  - rewrite dec_pos. destruct (digit_first_scan _ 0 (uint_first _ (to_uint_nonnil p))) as [E1 E2].
    rewrite E1. cbv beta iota. rewrite E2. cbv beta iota. rewrite scan_pos. pose proof (strlen_uint_pos p).
    rewrite (proj2 (Z.eqb_neq _ 0)) by lia.
    rewrite (proj2 (Z.leb_le _ _)), (proj2 (Z.ltb_lt _ _)) by lia. done.
  - rewrite dec_neg, skip_minus. cbv beta iota. rewrite scan_minus. cbv beta iota.
    rewrite scan_pos. pose proof (strlen_uint_pos p). rewrite strlen_cons.
    rewrite (proj2 (Z.eqb_neq _ 1)) by lia. change (- Z.pos p) with (Z.neg p).
    rewrite (proj2 (Z.leb_le _ _)), (proj2 (Z.ltb_lt _ _)) by lia. done.
Qed.

Lemma dec_no_0x z : strprefix "0x" (dec z) = false.
Proof.
  destruct z as [|p|p]; [reflexivity|rewrite dec_pos|by rewrite dec_neg].
  by destruct (uint_first _ (to_uint_nonnil p)) as (c&s&_&_&_&_&?).
Qed.

(** A numeral is read back. *)
Lemma get_number_dec z num :
  - 2 ^ 63 <= z < 2 ^ 63 -> get_number (Some (dec z)) num = Ret (true, Some z).
Proof.
  intros R. unfold get_number. rewrite dec_no_0x, sscanf_dec by done. simpl.
  by rewrite Z.sub_0_r, Z.eqb_refl.
Qed.

Lemma number_or_bad_dec z :
  - 2 ^ 63 <= z < 2 ^ 63 -> number_or_bad (Some (dec z)) = Ret (inr z).
Proof. intros R. unfold number_or_bad. by rewrite get_number_dec. Qed.

(** ** Byte strings *)

Lemma hex_char_digit d : 0 <= d < 16 ->
  isxdigit (hex_char d) = true /\ hex_digit (hex_char d) = d /\
  Ascii.eqb "x" (hex_char d) = false.
Proof.
  intros R.
  assert (F : forallb (fun d => isxdigit (hex_char d) && (hex_digit (hex_char d) =? d) &&
    negb (Ascii.eqb "x" (hex_char d))) (seqZ 0 16) = true) by (by vm_compute).
  rewrite forallb_forall in F. specialize (F d). rewrite <-list_elem_of_In, elem_of_seqZ in F.
  specialize (F R). bool2prop. done.
Qed.

Lemma hex_byte_digits b : is_byte b -> 0 <= b / 16 < 16 /\ 0 <= b mod 16 < 16 /\
  (b / 16 * 16 mod 256 + b mod 16) mod 256 = b.
Proof.
  intros B. unfold is_byte in B. pose proof (Z.div_mod b 16). pose proof (Z.mod_pos_bound b 16).
  assert (0 <= b / 16 < 16) by lia. split_and!; [lia..|].
  rewrite (Z.mod_small (_ * 16)), Z.mod_small by lia. lia.
Qed.

Lemma strlen_hex bs : strlen (hex_string bs) = 2 * Zlen bs.
Proof.
  induction bs as [|b bs IH]; [done|]. simpl hex_string. unfold hex_byte.
  rewrite !strlen_cons, IH, Zlen_cons. lia.
Qed.

Lemma hex_no_0x bs : bytes_ok bs -> strprefix "0x" (hex_string bs) = false.
Proof.
  destruct bs as [|b bs]; [done|]. intros [B _]%list.Forall_cons.
  destruct (hex_byte_digits b B) as (R1&R2&_). destruct (hex_char_digit _ R2) as (_&_&E).
  unfold strprefix. cbn [hex_string hex_byte String.prefix].
  destruct (ascii_dec "0" (hex_char (b / 16))); [|done].
  destruct (ascii_dec "x" (hex_char (b mod 16))) as [X|]; [|done].
  rewrite <-X in E. done.
Qed.

Lemma hex_loop_bytes hexlen vlen : forall bs j val,
  bytes_ok bs -> 0 <= j -> j + Zlen bs <= vlen -> j + Zlen bs <= Zlen val -> hexlen = 2 * (j + Zlen bs) ->
  exists val', mem_write val j bs = Some val' /\
    hex_loop (hex_string bs) hexlen vlen j val = Ret (TSS2_RC_SUCCESS, (j + Zlen bs, val')).
Proof.
  induction bs as [|b bs IH]; intros j val Hb Hj Hl Hv He.
  - exists val. rewrite Zlen_nil in *. split; [apply mem_write_nil; lia|].
    simpl. rewrite (proj2 (Z.ltb_ge (2 * j) hexlen)), andb_false_r by lia. simpl.
    by rewrite Z.add_0_r.
  - apply list.Forall_cons in Hb as [B Hb]. rewrite Zlen_cons in *.
    pose proof (Zlen_nonneg bs).
    destruct (hex_byte_digits b B) as (R1&R2&Eb).
    destruct (hex_char_digit _ R1) as (X1&D1&_). destruct (hex_char_digit _ R2) as (X2&D2&_).
    destruct (mem_write_is_Some val j [b]) as [v1 E1]; [lia|rewrite Zlen_cons, Zlen_nil; lia|].
    pose proof (mem_write_len _ _ _ _ E1) as L1.
    destruct (IH (j + 1) v1) as (val'&W&E); [done|lia..|].
    exists val'. split.
    + change (b :: bs) with ([b] ++ bs). by eapply mem_write_app.
    + cbn [hex_string hex_byte hex_loop].
      rewrite (proj2 (Z.ltb_lt j vlen)), (proj2 (Z.ltb_lt (2 * j) hexlen)), X1, X2, D1, D2, Eb by lia.
      simpl. rewrite E1. simpl. rewrite E. do 2 f_equal. f_equal. lia.
Qed.

(** The digits of [bs] are read into the first bytes of [val]; the rest up to
    [vlen] becomes zero. *)
Lemma hex_to_bytes bs vlen val :
  bytes_ok bs -> Zlen bs <= vlen <= Zlen val -> Zlen bs < 2 ^ 16 ->
  ifapi_hex_to_byte_ary (hex_string bs) vlen val = Ret (TSS2_RC_SUCCESS,
    bs ++ replicate (Z.to_nat (vlen - Zlen bs)) 0 ++ drop (Z.to_nat vlen) val).
Proof.
  intros Hb [H1 H2] H3. unfold ifapi_hex_to_byte_ary. rewrite strlen_hex.
  pose proof (Zlen_nonneg bs). rewrite (Z.mod_small (2 * Zlen bs)) by lia. replace (2 * Zlen bs / 2) with (Zlen bs)
    by (rewrite Z.mul_comm, Z.div_mul; lia).
  rewrite (proj2 (Z.ltb_ge vlen (Zlen bs))) by lia.
  destruct (hex_loop_bytes (2 * Zlen bs) vlen bs 0 val) as (v1&W&->); [done|lia..|]. rewrite Z.add_0_l. simpl.
  apply mem_write_Some in W as (_&_&E1).
  change (Z.to_nat 0) with 0%nat in E1. rewrite take_0, Z.add_0_l in E1. simpl in E1.
  destruct (Zlen bs <? vlen) eqn:El; bool2prop.
  - destruct (mem_write_is_Some v1 (Zlen bs) (replicate (Z.to_nat (vlen - Zlen bs)) 0)) as [v2 E2].
    { lia. }
    { rewrite E1, Zlen_app, Zlen_replicate. unfold Zlen in *. rewrite length_drop. lia. }
    rewrite E2. simpl. do 2 f_equal. apply mem_write_Some in E2 as (_&_&->).
    rewrite Zlen_replicate, E1. unfold Zlen in *. rewrite Nat2Z.id, take_app_length.
    f_equal. f_equal. rewrite drop_app_ge by lia. rewrite drop_drop. f_equal. lia.
  - assert (vlen = Zlen bs) as -> by lia. rewrite Z.sub_diag. simpl. by rewrite E1.
Qed.

(** ** Attribute bits *)

Lemma land_pow2 k x : 0 <= k -> Z.land (2 ^ k) x = if Z.testbit x k then 2 ^ k else 0.
Proof.
  intros Hk. apply Z.bits_inj'. intros n Hn. rewrite Z.land_spec, Z.pow2_bits_eqb by done.
  destruct (Z.eqb_spec k n) as [->|Hne]; simpl.
  - destruct (Z.testbit x n); [by rewrite Z.pow2_bits_true|by rewrite Z.bits_0].
  - destruct (Z.testbit x k); [by rewrite Z.pow2_bits_false|by rewrite Z.bits_0].
Qed.

Definition is_bit (b : Z) : bool := (0 <? b) && (b =? 2 ^ Z.log2 b).

Lemma is_bit_land b x acc : is_bit b = true ->
  (if Z.land b x =? 0 then acc else Z.lor acc b) = Z.lor acc (Z.land b x).
Proof.
  unfold is_bit. intros [P E]%andb_true_iff. bool2prop. rewrite E.
  pose proof (Z.log2_nonneg b). rewrite land_pow2 by done.
  destruct (Z.testbit x (Z.log2 b)).
  - assert (0 < 2 ^ Z.log2 b) by lia. by rewrite (proj2 (Z.eqb_neq _ 0)) by lia.
  - by rewrite Z.eqb_refl, Z.lor_0_r.
Qed.

(** The bits a table names. *)
Definition mask_of (tab : list (Z * string)) : Z := foldr (fun r m => Z.lor (fst r) m) 0 tab.


Lemma in_range_u32 z : 0 <= z < 2 ^ 32 -> in_range UINT32 z.
Proof. done. Qed.

(** ** Atomic codecs *)

Section Atoms.
Context `{JC : JsonC} {JL : JsonLaws} {RL : Reliable}.

Lemma uint_recovers bits ty z j :
  shows_int z j -> 0 <= z < 2 ^ bits -> 0 <= bits <= 63 -> in_range ty z ->
  recovers (uint_deserialize bits) (spec_int ty) z j.
Proof.
  intros [_ G] R B I out _. exists z. split; [|done].
  assert (2 ^ bits <= 2 ^ 63) by (apply Z.pow_le_mono_r; lia).
  unfold uint_deserialize. rewrite G, number_or_bad_dec by lia. unfold store_number.
  rewrite Z.mod_small by done. simpl. by rewrite Z.eqb_refl.
Qed.

Lemma uint_codec rc bits ty :
  (forall z, in_range ty z -> 0 <= z < 2 ^ bits) -> 0 <= bits <= 63 ->
  codec (fun in_ => put_new rc (json_object_new_int64 in_)) (uint_deserialize bits)
    (fun _ => True) (spec_int ty).
Proof.
  intros R B z W _. assert (2 ^ bits <= 2 ^ 63) by (apply Z.pow_le_mono_r; lia).
  pose proof (R z W).
  eapply puts_mono; [apply puts_int64; lia|]. intros j S. by apply uint_recovers.
Qed.

Lemma UINT16_codec :
  codec ifapi_json_UINT16_serialize ifapi_json_UINT16_deserialize (fun _ => True) (spec_int UINT16).
Proof. by apply uint_codec. Qed.

Lemma UINT32_codec :
  codec ifapi_json_UINT32_serialize ifapi_json_UINT32_deserialize (fun _ => True) (spec_int UINT32).
Proof. by apply uint_codec. Qed.

(** Handles below [2 ^ 31]. *)
Lemma TPM2_HANDLE_codec :
  codec ifapi_json_TPM2_HANDLE_serialize ifapi_json_TPM2_HANDLE_deserialize
    (fun x => x < 2 ^ 31) (spec_int UINT32).
Proof.
  intros z W D. destruct W as [W1 W2]. unfold ifapi_json_TPM2_HANDLE_serialize, to_int32.
  rewrite (proj2 (Z.ltb_lt _ _)) by done.
  eapply puts_mono; [apply puts_int; lia|]. intros j S.
  apply uint_recovers; [done|lia|lia|]. split; [done|]. exact W2.
Qed.

Definition dom_NV_INDEX (x : Z) : Prop := TPM2_NV_INDEX_FIRST <= x <= TPM2_NV_INDEX_LAST.

Lemma TPMI_RH_NV_INDEX_codec :
  codec ifapi_json_TPMI_RH_NV_INDEX_serialize ifapi_json_TPMI_RH_NV_INDEX_deserialize
    dom_NV_INDEX (spec_int UINT32).
Proof.
  intros z W [D1 D2]. unfold ifapi_json_TPMI_RH_NV_INDEX_serialize.
  rewrite (proj2 (Z.leb_le _ _) D1), (proj2 (Z.leb_le _ _) D2). simpl.
  assert (R : 0 <= z < 2 ^ 32) by exact W.
  eapply puts_mono; [apply puts_int64; lia|]. intros j S.
  apply uint_recovers; [done|done|lia|done].
Qed.

(** Numbers of 64 bits below [2 ^ 63]; from [2 ^ 48] on an array of two. *)
Lemma UINT64_codec :
  codec ifapi_json_UINT64_serialize ifapi_json_UINT64_deserialize
    (fun x => x < 2 ^ 63) (spec_int UINT64).
Proof.
  intros z [W1 W2] D. unfold ifapi_json_UINT64_serialize. intros w.
  destruct (z <? 0x1000000000000) eqn:Ez; bool2prop.
  - destruct (puts_int64 TSS2_FAPI_RC_BAD_VALUE z) with (w := w) as (j&w'&E&S); [lia|].
    exists j, w'. split; [done|]. intros out _. exists z. split; [|split; [|done]].
    + unfold ifapi_json_UINT64_deserialize. destruct S as [T G]. rewrite T, G.
      rewrite number_or_bad_dec by lia. rewrite Z.mod_small by lia. done.
    + split; [done|exact W2].
  - pose proof (Z.div_mod z 0x100000000). pose proof (Z.mod_pos_bound z 0x100000000).
    assert (0 <= z / 0x100000000 < 2 ^ 31) by lia.
    destruct (new_int64_ok (z / 0x100000000) w) as (j1&w1&E1). rewrite E1.
    destruct (new_int64_ok (z mod 0x100000000) w1) as (j2&w2&E2). rewrite E2.
    apply new_int64_law in E1 as S1; [|lia]. apply new_int64_law in E2 as S2; [|lia].
    assert (P : puts (jbody [put_new TSS2_FAPI_RC_MEMORY json_object_new_array;
        add_element (Some j1); add_element (Some j2)])
      (fun a => is_arr a /\ json_object_array_length a = 2 /\
        json_object_array_get_idx a 0 = Some j1 /\ json_object_array_get_idx a 1 = Some j2)).
    { eapply puts_cons; [apply puts_new_array|]. intros a [A L].
      apply adds_cons. intros w3. destruct (array_add_ok a (Some j1) w3 A) as (a1&w4&E3).
      exists a1, w4. unfold add_element. rewrite E3. split; [done|].
      apply array_add_law in E3 as (A1&L1&G1); [|done].
      apply adds_cons. intros w5. destruct (array_add_ok a1 (Some j2) w5 A1) as (a2&w6&E4).
      exists a2, w6. unfold add_element. rewrite E4. split; [done|].
      apply array_add_law in E4 as (A2&L2&G2); [|done].
      apply adds_nil. rewrite L in *. rewrite L2, L1, !G2, !G1, L1. done. }
    destruct (P w2) as (a&w3&E&A&L&G0&G1). exists a, w3. split.
    { rewrite <-E. done. }
    intros out _. exists z. split; [|split; [split; [done|exact W2]|done]].
    unfold ifapi_json_UINT64_deserialize. unfold is_arr in A. rewrite A, L, G0, G1. simpl negb.
    cbv iota.
    destruct (uint_recovers 32 UINT32 (z / 0x100000000) j1 S1) with (out := 0) as (x1&D1&_&V1);
      [lia|lia|apply in_range_u32; lia|done|].
    destruct (uint_recovers 32 UINT32 (z mod 0x100000000) j2 S2) with (out := x1) as (x2&D2&_&V2);
      [lia|lia|apply in_range_u32; lia| |].
    { simpl in V1. subst x1. apply in_range_u32; lia. }
    unfold ifapi_json_UINT32_deserialize. rewrite D1. simpl negb. cbv iota. simpl default.
    simpl in V1, V2. subst x1 x2. rewrite (proj2 (Z.leb_gt (2 ^ 63) _)) by lia.
    unfold put_out at 1. rewrite D2. simpl negb. cbv iota. unfold put_out. simpl default.
    replace (z / 0x100000000 * 0x100000000 + z mod 0x100000000) with z by lia.
    by rewrite Z.mod_small by lia.
Qed.

(** ** Enumerations *)

Lemma table_recovers tab prefixes fb ty x name str j :
  json_object_get_string (Some j) = Some name -> strip_prefix (Some name) prefixes = Some str ->
  value_of tab str = Some x -> in_range ty x ->
  recovers (table_deserialize tab prefixes fb) (spec_int ty) x j.
Proof.
  intros G S V I out _. exists x. split; [|done]. unfold table_deserialize. by rewrite G, S, V.
Qed.

(** The names that [stab] gives to the values of [dom] are those that [dtab]
    gives the values back. *)
Definition names_agree (stab dtab : list (Z * string)) (prefixes : list string)
    (dom : list Z) : bool :=
  forallb (fun x =>
    match name_in stab x with
    | Some name =>
        match strip_prefix (Some name) prefixes with
        | Some str => match value_of dtab str with Some v => v =? x | None => false end
        | None => false
        end
    | None => false
    end) dom.

Lemma table_codec stab dtab prefixes fb ty dom :
  names_agree stab dtab prefixes dom = true ->
  codec (table_serialize stab) (table_deserialize dtab prefixes fb) (fun x => In x dom) (spec_int ty).
Proof.
  intros A x W I. unfold names_agree in A. rewrite forallb_forall in A. specialize (A x I).
  cbv beta in A. destruct (name_in stab x) as [name|] eqn:En; [|done].
  destruct (strip_prefix (Some name) prefixes) as [str|] eqn:Es; [|done].
  destruct (value_of dtab str) as [v|] eqn:Ev; [|done]. bool2prop. subst v.
  unfold table_serialize. rewrite En. eapply puts_mono; [apply puts_string|].
  intros j [_ G]. by eapply table_recovers.
Qed.

Lemma TPMI_YES_NO_codec ty :
  codec ifapi_json_TPMI_YES_NO_serialize ifapi_json_TPMI_YES_NO_deserialize
    (fun x => x = YES \/ x = NO) (spec_int ty).
Proof.
  intros x W D. unfold ifapi_json_TPMI_YES_NO_serialize.
  destruct D as [-> | ->]; simpl; (eapply puts_mono; [apply puts_string|]);
    intros j [_ G]; by eapply table_recovers.
Qed.

Lemma TPM2_GENERATED_codec (s : spec Z) :
  s_wf s TPM2_GENERATED_VALUE -> s_eqv s TPM2_GENERATED_VALUE TPM2_GENERATED_VALUE ->
  codec ifapi_json_TPM2_GENERATED_serialize ifapi_json_TPM2_GENERATED_deserialize
    (fun x => x = TPM2_GENERATED_VALUE) s.
Proof.
  intros Ws Es x W ->. unfold ifapi_json_TPM2_GENERATED_serialize. rewrite Z.eqb_refl. simpl.
  eapply puts_mono; [apply puts_string|]. intros j [_ G] out _.
  exists TPM2_GENERATED_VALUE. split; [|done].
  unfold ifapi_json_TPM2_GENERATED_deserialize, table_deserialize. by rewrite G.
Qed.

(** ** Byte strings *)

Lemma byte_deserialize_hex bs max val size j :
  bytes_ok bs -> Zlen bs <= max <= Zlen val -> Zlen bs < 2 ^ 16 ->
  json_object_get_type (Some j) = json_type_string ->
  json_object_get_string (Some j) = Some (hex_string bs) ->
  ifapi_json_byte_deserialize (Some j) max val size =
  Ret (TSS2_RC_SUCCESS,
       (bs ++ replicate (Z.to_nat (max - Zlen bs)) 0 ++ drop (Z.to_nat max) val, Zlen bs)).
Proof.
  intros Hb Hm Hl T G. unfold ifapi_json_byte_deserialize. rewrite T, G, hex_no_0x by done.
  simpl str_drop. rewrite hex_to_bytes by done. simpl. rewrite strlen_hex, Z.sub_0_r.
  pose proof (Zlen_nonneg bs).
  rewrite Z.mul_comm, Z.div_mul, Z.mod_small by lia. done.
Qed.

(** The sizes a buffer of [cap] bytes goes with. *)
Definition dom_2b (limit : Z) (x : TPM2B) : Prop := size x <= limit.

Lemma tpm2b_codec limit max cap :
  limit <= max -> max <= cap -> limit < 2 ^ 16 ->
  codec (fun x => tpm2b_serialize limit (Some x)) (tpm2b_deserialize max) (dom_2b limit) (spec_2b cap).
Proof.
  intros L1 L2 L3 [n b] (Lb&Bb&In) D. unfold dom_2b in D. simpl in Lb, Bb, In, D. destruct In as [In _].
  unfold tpm2b_serialize, with_in. cbn [size buffer].
  rewrite (proj2 (Z.ltb_ge _ _)) by done. apply skips_puts; [done|]. apply puts_last.
  destruct (mem_read_is_Some b 0 n) as [bs E]; [lia..|].
  pose proof (mem_read_len _ _ _ _ E) as Ls. pose proof (mem_read_bytes _ _ _ _ Bb E) as Bs.
  eapply (puts_mono _ (fun j => json_object_get_type (Some j) = json_type_string /\
    json_object_get_string (Some j) = Some (hex_string bs))).
  { intros w. unfold hex_serialize. rewrite E. simpl. by apply puts_string. }
  intros j [T G] [n' b'] (Lb'&Bb'&_). simpl in Lb', Bb'.
  eexists. split.
  { unfold tpm2b_deserialize, with_out. cbn [buffer size].
    rewrite (byte_deserialize_hex bs); [simpl; reflexivity|done|lia|lia|done|done]. }
  simpl. rewrite Ls. pose proof (Zlen_nonneg bs). split_and!.
  - rewrite !Zlen_app, Zlen_replicate. unfold Zlen in *. rewrite length_drop. lia.
  - apply Forall_app. split; [done|]. apply Forall_app. split; [by apply Forall_replicate|].
    by apply Forall_drop.
  - split; [lia|]. unfold cbits, csizeof. simpl. lia.
  - done.
  - apply mem_read_Some in E as (_&_&_&E). change (Z.to_nat 0) with 0%nat in E.
    rewrite drop_0 in E. rewrite <-E. rewrite take_app_length'; [done|].
    unfold Zlen in Ls. lia.
Qed.

(** The digest of a hash algorithm, in the storage of a union. *)
Lemma digest_codec n big :
  0 <= n <= big -> n < 2 ^ 16 ->
  codec (fun u => hex_serialize u n) (digest_deserialize n) (fun _ => True) (spec_tab big n).
Proof.
  intros Hn Hn2 u (Lu&Bu) _. destruct (mem_read_is_Some u 0 n) as [bs E]; [lia..|].
  pose proof (mem_read_len _ _ _ _ E) as Ls. pose proof (mem_read_bytes _ _ _ _ Bu E) as Bs.
  eapply (puts_mono _ (fun j => json_object_get_type (Some j) = json_type_string /\
    json_object_get_string (Some j) = Some (hex_string bs))).
  { intros w. unfold hex_serialize. rewrite E. simpl. by apply puts_string. }
  intros j [T G] out (Lo&Bo).
  assert (Lt : Zlen (take (Z.to_nat n) out) = n) by (apply Zlen_take; lia).
  exists (bs ++ drop (Z.to_nat n) out). split.
  { unfold digest_deserialize, deref_out.
    rewrite (byte_deserialize_hex bs); [|done|lia|lia|done|done]. simpl. rewrite Ls.
    rewrite Z.eqb_refl, Z.sub_diag. simpl. rewrite drop_ge by (rewrite length_take; lia).
    by rewrite app_nil_r. }
  split; [split|].
  - rewrite Zlen_app. unfold Zlen in *. rewrite length_drop. lia.
  - apply Forall_app. split; [done|]. by apply Forall_drop.
  - simpl. apply mem_read_Some in E as (_&_&_&E). change (Z.to_nat 0) with 0%nat in E.
    rewrite drop_0 in E. rewrite <-E. rewrite take_app_length'; [done|].
    unfold Zlen in Ls. lia.
Qed.

End Atoms.

(** ** Attribute words: codecs.

    An attribute word is written as an object with a member 0 or 1 for each
    bit of a table; it is read back bit by bit.  A word that has only bits of
    the table comes back as it was. *)

(** ** The tables *)

(** The names of the bits: different, read back as the bits, and [p] holds of
    each name without its prefixes. *)
Definition bits_agree (stab dtab : list (Z * string)) (strip : string -> option string)
    (p : string -> bool) : bool :=
  bool_decide (NoDup (map snd stab)) &&
  forallb (fun '(bit, name) =>
    is_bit bit &&
    match strip name with
    | Some str => p str && match value_of dtab str with Some v => v =? bit | None => false end
    | None => false
    end) stab.

Lemma bits_agree_nodup stab dtab strip p : bits_agree stab dtab strip p = true -> NoDup (map snd stab).
Proof. unfold bits_agree. intros [N _]%andb_true_iff. by apply bool_decide_eq_true in N. Qed.

Lemma bits_agree_row stab dtab strip p bit name :
  bits_agree stab dtab strip p = true -> In (bit, name) stab ->
  is_bit bit = true /\ exists str, strip name = Some str /\ p str = true /\
    value_of dtab str = Some bit.
Proof.
  unfold bits_agree. intros [_ F]%andb_true_iff I. rewrite forallb_forall in F.
  specialize (F _ I). cbv beta iota in F. apply andb_true_iff in F as [B F]. split; [done|].
  destruct (strip name) as [str|]; [|done]. apply andb_true_iff in F as [P F].
  destruct (value_of dtab str) as [v|] eqn:E; [|done]. bool2prop. subst v. eauto.
Qed.

Lemma dloop_app {A S} (l1 l2 : list A) body (s s' : S) :
  dloop l1 body s = Ret (TSS2_RC_SUCCESS, s') -> dloop (l1 ++ l2) body s = dloop l2 body s'.
Proof.
  revert s. induction l1 as [|a l1 IH]; intros s; simpl; [by intros [= ->]|].
  destruct (body a s) as [[r s1]|]; [|done].
  destruct (r =? TSS2_RC_SUCCESS) eqn:E; bool2prop; [apply IH|]. by intros [= -> _].
Qed.

#[local] Arguments strip_prefix : simpl never.

Lemma not_in_names k names : existsb (String.eqb k) names = false -> ~ In k names.
Proof.
  intros E I. assert (T : existsb (String.eqb k) names = true); [|congruence].
  apply existsb_exists. exists k. by rewrite String.eqb_refl.
Qed.

Section Attr.
Context `{JC : JsonC} {JL : JsonLaws} {RL : Reliable}.

(** The member that stands for a bit of [x]. *)
Definition bit_entry (x : Z) (row : Z * string) (e : string * option json) : Prop :=
  exists j, e = (snd row, Some j) /\ shows_int (if Z.land (fst row) x =? 0 then 0 else 1) j.

Lemma adds_bits x tab : forall o,
  is_obj o -> NoDup (map snd tab) -> (forall n, In n (map snd tab) -> member_of o n = None) ->
  adds (bit_serialize tab x) o (fun o' => is_obj o' /\
    (exists es, json_object_object_members o' = json_object_object_members o ++ es /\
       Forall2 (bit_entry x) tab es) /\
    forall k, ~ In k (map snd tab) -> member_of o' k = member_of o k).
Proof.
  induction tab as [|[bit name] tab IH]; intros o O N F.
  - apply adds_ret. split; [done|]. split; [|done]. exists []. by rewrite app_nil_r.
  - simpl in N, F. apply list.NoDup_cons in N as [N1 N2]. rewrite list_elem_of_In in N1.
    unfold bit_serialize. simpl jfor. apply adds_seq. eapply adds_mono.
    { apply adds_field; [done|]. apply puts_int. destruct (Z.land bit x =? 0); lia. }
    intros o1 (j&S&O1&G1&M1). eapply adds_mono; [apply (IH o1); [done|done|]|].
    { intros n I. rewrite G1. destruct (String.eqb_spec n name) as [->|]; [done|]. auto. }
    intros o2 (O2&(es&M2&E2)&G2). split; [done|]. split.
    + exists ((name, Some j) :: es). split.
      * rewrite M2, M1 by auto. by rewrite <-app_assoc.
      * constructor; [|done]. by exists j.
    + intros k Hk. simpl in Hk. rewrite G2 by tauto. rewrite G1.
      destruct (String.eqb_spec k name) as [->|]; [tauto|done].
Qed.

(** 0 and 1 are booleans. *)
Lemma boolean_of_bit b j :
  shows_int (if (b : bool) then 0 else 1) j ->
  get_boolean_from_json (Some j) = Ret (inr (if b then 0 else 1)).
Proof.
  intros [T G]. unfold get_boolean_from_json, ifapi_json_TPMI_YES_NO_deserialize,
    table_deserialize, ifapi_json_BYTE_deserialize, uint_deserialize.
  destruct b; rewrite G; reflexivity.
Qed.

Lemma attr_flag_bit tab str x bit name j out :
  value_of tab str = Some bit -> bit_entry x (bit, name) (name, Some j) ->
  attr_flag tab (Some str) (Some j) out =
  Ret (TSS2_RC_SUCCESS, if Z.land bit x =? 0 then out else Z.lor out bit).
Proof.
  intros V (j'&[= <-]&S). simpl in S. unfold attr_flag. rewrite (boolean_of_bit _ _ S), V.
  simpl. by destruct (Z.land bit x =? 0).
Qed.

(** Reading the members of the bits of a table. *)
Lemma dloop_bits x body tab es : forall out,
  Forall2 (bit_entry x) tab es -> (forall bit name, In (bit, name) tab -> is_bit bit = true) ->
  (forall bit name j out, In (bit, name) tab -> bit_entry x (bit, name) (name, Some j) ->
     body (name, Some j) out =
     Ret (TSS2_RC_SUCCESS, if Z.land bit x =? 0 then out else Z.lor out bit)) ->
  dloop es body out = Ret (TSS2_RC_SUCCESS, Z.lor out (Z.land (mask_of tab) x)).
Proof.
  intros out F. revert out. induction F as [|[bit name] e tab es He F IH]; intros out B R.
  - simpl. by rewrite Z.land_0_l, Z.lor_0_r.
  - pose proof He as (j&E&S). simpl in E. subst e. simpl dloop.
    rewrite (R bit name) by (done || by left). simpl.
    rewrite is_bit_land by (eapply B; by left).
    rewrite IH; [|intros; eapply B; by right|intros; eapply R; [by right|done]].
    by rewrite <-Z.lor_assoc, <-Z.land_lor_distr_l.
Qed.

(** The object of a word, before and after the members that are no bits. *)
Lemma puts_bits x stab (P : json -> Prop) l :
  NoDup (map snd stab) ->
  (forall o, is_obj o ->
     (exists es, json_object_object_members o = es /\ Forall2 (bit_entry x) stab es) ->
     (forall k, ~ In k (map snd stab) -> member_of o k = None) -> adds (jbody l) o P) ->
  puts (jbody (fresh_object_checked :: bit_serialize stab x :: l)) P.
Proof.
  intros N K. eapply puts_cons; [apply puts_new_object_checked|]. intros o (O&M&G).
  apply adds_cons. eapply adds_mono; [by apply adds_bits|].
  intros o1 (O1&(es&M1&F)&G1). apply K; [done| |].
  - exists es. by rewrite M1, M.
  - intros k Hk. by rewrite G1.
Qed.

Lemma attr_deserialize_object bits element member j out x :
  is_obj j -> dloop (json_object_object_members j) member 0 = Ret (TSS2_RC_SUCCESS, x) ->
  attr_deserialize bits element member (Some j) (Some out) = Ret (TSS2_RC_SUCCESS, Some x).
Proof.
  intros O E. unfold attr_deserialize, deref_out, dseq, dclear, on_type. simpl.
  unfold is_obj in O. by rewrite O, E.
Qed.

Lemma attr_codec ty bits stab dtab prefixes element :
  bits_agree stab dtab (fun name => strip_prefix (Some name) prefixes) (fun _ => true) = true ->
  codec (fun x => jbody [fresh_object_checked; bit_serialize stab x])
    (attr_deserialize bits element
       (fun '(key, val) => attr_flag dtab (strip_prefix (Some key) prefixes) val))
    (fun x => Z.land (mask_of stab) x = x) (spec_int ty).
Proof.
  intros A x W D. apply puts_bits; [by eapply bits_agree_nodup|].
  intros o O (es&M&F) _. apply adds_nil. intros out _. exists x. split; [|done].
  apply attr_deserialize_object; [done|].
  rewrite M, (dloop_bits x _ stab); [by rewrite Z.lor_0_l, D|done| |].
  - intros bit name I. by edestruct bits_agree_row as [? _].
  - intros bit name j out' I E. edestruct bits_agree_row as (_&str&Es&_&V); [done..|].
    rewrite Es. by eapply attr_flag_bit.
Qed.

Lemma TPMA_OBJECT_codec :
  codec ifapi_json_TPMA_OBJECT_serialize ifapi_json_TPMA_OBJECT_deserialize
    (fun x => Z.land (mask_of tab_ifapi_json_TPMA_OBJECT_serialize) x = x) (spec_int UINT32).
Proof. apply attr_codec. by vm_compute. Qed.

Lemma TPMA_ACT_codec :
  codec ifapi_json_TPMA_ACT_serialize ifapi_json_TPMA_ACT_deserialize
    (fun x => Z.land (mask_of tab_ifapi_json_TPMA_ACT_serialize) x = x) (spec_int UINT32).
Proof. apply attr_codec. by vm_compute. Qed.

(** ** Localities *)

Lemma byte_range_land x : 0 <= x < 2 ^ 8 ->
  Z.lor (Z.land 31 x) (Z.shiftl (Z.shiftr (Z.land 224 x) 5) 5 mod 2 ^ 8) = x /\
  0 <= Z.shiftr (Z.land 224 x) 5 < 8 /\
  Z.land (Z.shiftl (Z.shiftr (Z.land 224 x) 5) 5) (Z.lnot 224) = 0.
Proof.
  intros R.
  assert (F : forallb (fun x =>
    (Z.lor (Z.land 31 x) (Z.shiftl (Z.shiftr (Z.land 224 x) 5) 5 mod 2 ^ 8) =? x) &&
    (0 <=? Z.shiftr (Z.land 224 x) 5) && (Z.shiftr (Z.land 224 x) 5 <? 8) &&
    (Z.land (Z.shiftl (Z.shiftr (Z.land 224 x) 5) 5) (Z.lnot 224) =? 0)) (seqZ 0 256) = true)
    by (by vm_compute).
  rewrite forallb_forall in F. specialize (F x). rewrite <-list_elem_of_In, elem_of_seqZ in F.
  specialize (F R). bool2prop. done.
Qed.

Lemma TPMA_LOCALITY_codec :
  codec ifapi_json_TPMA_LOCALITY_serialize ifapi_json_TPMA_LOCALITY_deserialize
    (fun _ => True) (spec_int UINT8).
Proof.
  intros x W _. assert (R : 0 <= x < 2 ^ 8) by exact W.
  destruct (byte_range_land x R) as (Ex&Rx&Lx).
  assert (A : bits_agree tab_ifapi_json_TPMA_LOCALITY_serialize
    tab_ifapi_json_TPMA_LOCALITY_deserialize
    (fun name => strip_prefix (Some name) ["TPM_"; "TPM2_"; "TPMA_"; "LOCALITY_"; "TPM2_"; "LOC_"])
    (fun str => negb (strcaseeq str "extended")) = true) by (by vm_compute).
  apply puts_bits; [by eapply bits_agree_nodup|]. intros o O (es&M&F) G.
  apply adds_cons. eapply adds_mono.
  { apply adds_field; [done|]. apply puts_int64.
    change TPMA_LOCALITY_EXTENDED_MASK with 224. lia. }
  intros o1 (j&[T S]&O1&_&M1). apply adds_nil. intros out _. exists x. split; [|split; [exact W|reflexivity]].
  apply attr_deserialize_object; [done|]. rewrite M1, M.
  2: { apply G, not_in_names. by vm_compute. }
  rewrite (dloop_app _ _ _ 0 (Z.lor 0 (Z.land 31 x))).
  - simpl dloop. rewrite Z.lor_0_l. unfold locality_extended. rewrite S.
    change TPMA_LOCALITY_EXTENDED_MASK with 224 in *.
    rewrite number_or_bad_dec by lia.
    rewrite (proj2 (Z.ltb_ge _ 0)), (proj2 (Z.leb_gt (2 ^ 63) _)) by lia. simpl orb. cbv iota.
    rewrite Lx. simpl. by rewrite Ex.
  - rewrite (dloop_bits x _ tab_ifapi_json_TPMA_LOCALITY_serialize); [done|done| |].
    + intros bit name I. by edestruct bits_agree_row as [? _].
    + intros bit name j' out' I E. edestruct bits_agree_row as (_&str&Es&P&V); [done..|].
      cbv beta in Es, P. apply negb_true_iff in P. cbv beta iota zeta. rewrite Es. change (default "" (Some str)) with str.
      rewrite P. by eapply attr_flag_bit.
Qed.

(** ** NV attributes *)

Definition dom_NT : list Z := [TPM2_NT_ORDINARY; TPM2_NT_COUNTER; TPM2_NT_BITS; TPM2_NT_EXTEND;
  TPM2_NT_PIN_FAIL; TPM2_NT_PIN_PASS].

Lemma dom_NT_range z : In z dom_NT -> in_range UINT8 z.
Proof. unfold dom_NT. intros I. repeat (destruct I as [<-|I]; [done|]). destruct I. Qed.

Lemma TPM2_NT_codec ty :
  codec ifapi_json_TPM2_NT_serialize ifapi_json_TPM2_NT_deserialize
    (fun x => In x dom_NT) (spec_int ty).
Proof. apply table_codec. by vm_compute. Qed.

(** The bits of the table and a type of index. *)
Definition dom_TPMA_NV (x : Z) : Prop :=
  In (Z.shiftr (Z.land TPMA_NV_TPM2_NT_MASK x) 4) dom_NT /\
  Z.land (Z.lor (mask_of tab_ifapi_json_TPMA_NV_serialize) TPMA_NV_TPM2_NT_MASK) x = x.

Lemma TPMA_NV_codec :
  codec ifapi_json_TPMA_NV_serialize ifapi_json_TPMA_NV_deserialize dom_TPMA_NV (spec_int UINT32).
Proof.
  intros x W [DN D]. set (nt := Z.shiftr (Z.land TPMA_NV_TPM2_NT_MASK x) 4) in *.
  assert (En : Z.shiftl nt 4 = Z.land TPMA_NV_TPM2_NT_MASK x).
  { unfold nt. apply Z.bits_inj'. intros n Hn. rewrite Z.shiftl_spec by done.
    destruct (Z.ltb_spec n 4).
    - rewrite Z.testbit_neg_r by lia. rewrite Z.land_spec.
      assert (n = 0 \/ n = 1 \/ n = 2 \/ n = 3) as [-> |[-> |[-> | ->]]] by lia; done.
    - rewrite Z.shiftr_spec by lia. f_equal. lia. }
  assert (A : bits_agree tab_ifapi_json_TPMA_NV_serialize tab_ifapi_json_TPMA_NV_deserialize
    (fun name => strip_prefix (strip_prefix (Some name) ["TPM_"; "TPM2_"; "TPMA_"; "NV_"; "TPM2_"])
       ["NT_"]) (fun _ => true) = true) by (by vm_compute).
  assert (A2 : forallb (fun '(_, name) => negb (strcaseeq (default ""
      (strip_prefix (Some name) ["TPM_"; "TPM2_"; "TPMA_"; "NV_"; "TPM2_"])) "NT"))
    tab_ifapi_json_TPMA_NV_serialize = true) by (by vm_compute).
  rewrite forallb_forall in A2.
  apply puts_bits; [by eapply bits_agree_nodup|]. intros o O (es&M&F) G.
  apply adds_cons. eapply adds_mono.
  { apply adds_field; [exact O|]. apply (TPM2_NT_codec UINT8); [|done].
    by apply dom_NT_range. }
  intros o1 (j&R&O1&_&M1). apply adds_nil. intros out _. exists x. split; [|split; [exact W|reflexivity]].
  apply attr_deserialize_object; [exact O1|]. rewrite M1, M.
  2: { apply G, not_in_names. by vm_compute. }
  rewrite (dloop_app _ _ _ 0
    (Z.lor 0 (Z.land (mask_of tab_ifapi_json_TPMA_NV_serialize) x))).
  - destruct (R 0) as (nt'&E&_&V); [by apply dom_NT_range; left|]. simpl in V. subst nt'.
    clear A A2. revert D. generalize (mask_of tab_ifapi_json_TPMA_NV_serialize). intros mk D.
    rewrite Z.lor_0_l. cbn [dloop]. unfold nv_type. fold nt in E. rewrite E. cbv beta iota zeta.
    cbn [access]. rewrite Z.eqb_refl, En, <-Z.land_lor_distr_l, D. reflexivity.
  - apply dloop_bits; [exact F| |].
    + intros bit name I. by destruct (bits_agree_row _ _ _ _ _ _ A I) as [? _].
    + intros bit name j' out' I E. destruct (bits_agree_row _ _ _ _ _ _ A I) as (_&str&Es&P&V).
      specialize (A2 _ I). cbv beta iota in A2, Es. apply negb_true_iff in A2.
      cbv beta iota zeta. rewrite A2, Es.
      eapply attr_flag_bit; [exact V|exact E].
Qed.

End Attr.
