(* ===== verification/JsonListOk.v ===== *)
(** * Lists and PCR selections: codecs.

    A PCR selection is written as the numbers of its PCRs 0 to 30 and read
    back, bit by bit, into three bytes. *)

From stdpp Require Import base strings list_numbers.
From S2P Require Import Prelude Common MuSpec MuBase MuBaseOk MuStruct MuTpm2b MuPcr TpmTypes MuTypes MuTypesOk JsonCodes JsonC JsonBase JsonNum JsonSer JsonDe JsonOk JsonNumOk.
Open Scope list_scope.
Open Scope Z_scope.
Open Scope tss_scope.

Section Lists.
Context `{JC : JsonC} {JL : JsonLaws} {RL : Reliable}.

(** The elements of the array [a]. *)
Definition items_are (a : json) (js : list json) : Prop :=
  is_arr a /\ json_object_array_length a = Zlen js /\
  forall i j, js !! i = Some j -> json_object_array_get_idx a (Z.of_nat i) = Some j.

Lemma array_items_are a js : items_are a js -> array_items a = map Some js.
Proof.
  intros (_&L&G). unfold array_items. rewrite L. unfold Zlen.
  apply list_eq. intros i. change (map ?f ?l) with (f <$> l). rewrite !list_lookup_fmap.
  destruct (decide (i < length js)%nat) as [Hi|Hi].
  - rewrite lookup_seqZ_lt by lia. simpl.
    destruct (lookup_lt_is_Some_2 js i Hi) as [j E]. rewrite E. simpl. f_equal.
    rewrite Z.add_0_l. by apply G.
  - rewrite lookup_seqZ_ge by lia. by rewrite lookup_ge_None_2 by lia.
Qed.

Lemma items_snoc a a1 js j :
  items_are a js ->
  is_arr a1 /\ json_object_array_length a1 = json_object_array_length a + 1 /\
  (forall i, json_object_array_get_idx a1 i =
    if i =? json_object_array_length a then Some j else json_object_array_get_idx a i) ->
  items_are a1 (js ++ [j]).
Proof.
  intros (A&L&G) (A1&L1&G1). split; [done|].
  split; [rewrite L1, L, Zlen_app, Zlen_cons, Zlen_nil; lia|].
  intros i j' Ei. rewrite G1, L. apply lookup_app_Some in Ei as [Ei|[Hi Ei]].
  - rewrite (proj2 (Z.eqb_neq _ _)); [by apply G|].
    apply lookup_lt_Some in Ei. unfold Zlen. lia.
  - apply list_lookup_singleton_Some in Ei as [Hz <-]. unfold Zlen.
    by rewrite (proj2 (Z.eqb_eq _ _)) by lia.
Qed.

(** Adding an element for each value of a list. *)
Lemma adds_elements {E} (ser : E -> jser) (P : E -> json -> Prop) : forall l a js,
  items_are a js -> (forall e, In e l -> puts (ser e) (P e)) ->
  adds (jfor l (fun e => element (ser e))) a (fun a' =>
    exists js', items_are a' (js ++ js') /\ Forall2 P l js').
Proof.
  induction l as [|e l IH]; intros a js (A&L&G) W.
  - apply adds_ret. exists []. rewrite app_nil_r. split; [by split_and!|constructor].
  - simpl. apply adds_seq. eapply adds_mono; [apply adds_element; [done|apply W; by left]|].
    intros a1 (j&Pj&X).
    pose proof (items_snoc a a1 js j (conj A (conj L G)) X) as I1.
    eapply adds_mono; [apply (IH a1 (js ++ [j])); [done|intros; apply W; by right]|].
    intros a2 (js'&I2&F). exists (j :: js'). rewrite <-app_assoc in I2. split; [done|].
    by constructor.
Qed.

(** Reading the elements one after the other into a destination. *)
Lemma dloop_elements {E} (de : jde E) (s : spec E) : forall xs js k es,
  Forall2 (recovers de s) xs js -> Forall (s_wf s) es -> (k + length js <= length es)%nat ->
  exists es', dloop (imap (fun i a => (k + i, a)%nat) (map Some js)) (fun '(i, jso3) es =>
      let* e := access (es !! i) in
      let* (r, e) := de jso3 (Some e) in
      Ret (r, match e with Some e => <[i := e]> es | None => es end)) es =
    Ret (TSS2_RC_SUCCESS, es') /\ length es' = length es /\ Forall (s_wf s) es' /\
    take k es' = take k es /\ Forall2 (s_eqv s) xs (take (length js) (drop k es')).
Proof.
  intros xs js k es F. revert k es.
  induction F as [|x j xs js R F IH]; intros k es W H.
  - exists es. simpl. rewrite take_0. split_and!; done.
  - simpl in H. simpl map. rewrite imap_cons. cbn [dloop].
    rewrite Nat.add_0_r.
    destruct (lookup_lt_is_Some_2 es k) as [e Ee]; [lia|].
    rewrite Ee. cbn [access].
    destruct (R e) as (x'&Ex&Wx&V); [by eapply Forall_lookup_1|]. rewrite Ex. cbv beta iota.
    destruct (IH (S k) (<[k := x']> es)) as (es'&Ed&L'&W'&T'&F').
    { apply Forall_insert; done. }
    { rewrite length_insert. lia. }
    exists es'. split_and!.
    + rewrite <-Ed. f_equal. apply imap_ext. intros i a _. simpl. f_equal. lia.
    + by rewrite L', length_insert.
    + done.
    + assert (Et : take k (take (S k) es') = take k (take (S k) (<[k := x']> es))) by by rewrite T'.
      rewrite !take_take in Et. rewrite !Nat.min_l in Et by lia. rewrite Et.
      by rewrite take_insert_ge by lia.
    + assert (Ek : es' !! k = Some x').
      { transitivity (take (S k) es' !! k); [by rewrite lookup_take_lt by lia|].
        rewrite T', lookup_take_lt by lia. by rewrite list_lookup_insert_eq by lia. }
      rewrite (drop_S es' x' k Ek). simpl. constructor; done.
Qed.

Lemma imap_pair_0 {A} (l : list A) : imap pair l = imap (fun i a => (0 + i, a)%nat) l.
Proof. apply imap_ext. done. Qed.

(** The elements of a list that count. *)
Definition dom_list {E} (cap : Z) (dom : E -> Prop) (x : TPML E) : Prop :=
  count x <= cap /\ Forall dom (active x).

Lemma list_codec {E} cap (ser : E -> jser) (de : jde E) dom (s : spec E) :
  codec ser de dom s ->
  codec (fun x => with_in (Some x) (fun in_ => list_serialize (count in_) cap (elems in_) ser))
    (tpml_deserialize cap de) (dom_list cap dom) (spec_list cap s).
Proof.
  intros C [n es] ([In1 In2]&L&W) [D1 D2]. simpl in In1, L, W, D1. unfold active in D2. simpl in D2.
  unfold with_in, list_serialize. cbn [count elems].
  rewrite (proj2 (Z.ltb_ge _ _)) by done.
  assert (Wt : Forall (s_wf s) (take (Z.to_nat n) es)) by by apply Forall_take.
  assert (Lt : Zlen (take (Z.to_nat n) es) = n) by (apply Zlen_take; lia).
  eapply (puts_mono _ (fun a => exists js, items_are a js /\
    Forall2 (recovers de s) (take (Z.to_nat n) es) js)).
  { intros w. destruct (puts_new_array TSS2_FAPI_RC_MEMORY w) as (a&w1&E1&A&La).
    destruct (adds_elements ser (recovers de s) (take (Z.to_nat n) es) a []) with (w := w1)
      as (a2&w2&E2&js&I&F).
    { split; [done|]. split; [done|]. intros i j. by rewrite lookup_nil. }
    { intros e He. apply C.
      - by apply (proj1 (List.Forall_forall _ _) Wt).
      - by apply (proj1 (List.Forall_forall _ _) D2). }
    exists a2, w2. split; [|by exists js]. unfold jseq. rewrite E1. cbv beta iota. simpl.
    rewrite (proj2 (Z.leb_le _ _)) by lia. done. }
  intros a (js&I&F) [n' es'] (_&L'&W'). simpl in L', W'.
  pose proof I as (A&La&_). unfold is_arr in A.
  apply Forall2_length in F as Lj. unfold Zlen in Lt, L', La.
  destruct (dloop_elements de s _ _ 0 es' F W') as (es2&Ed&L2&W2&_&F2).
  { rewrite <-Lj. lia. }
  exists (MkTPML n es2). split; [|split; [split_and!|split]].
  - unfold tpml_deserialize, with_out, on_type. rewrite A, (array_items_are _ _ I), La.
    cbn [elems]. replace (Z.of_nat (length js)) with n by lia.
    rewrite (proj2 (Z.ltb_ge _ _)) by done. rewrite imap_pair_0.
    rewrite Ed. done.
  - exact (conj In1 In2).
  - simpl. unfold Zlen. rewrite L2. done.
  - done.
  - done.
  - unfold active. simpl. rewrite drop_0 in F2.
    replace (Z.to_nat n) with (length js) at 2 by lia. done.
Qed.

(** ** PCR selections *)

(** PCR [u] of a selection. *)
Definition pcr_bit (l : bytes) (u : Z) : bool :=
  Z.testbit (default 0 (l !! Z.to_nat (u / 8))) (u mod 8).

Definition set_pcr (l : bytes) (v : Z) : bytes :=
  <[Z.to_nat (v / 8) := Z.lor (default 0 (l !! Z.to_nat (v / 8))) (Z.shiftl 1 (v mod 8))]> l.

Lemma div_mod_8 u : u = 8 * (u / 8) + u mod 8 /\ 0 <= u mod 8 < 8.
Proof. split; [by apply Z.div_mod|by apply Z.mod_pos_bound]. Qed.

Lemma pcr_bit_set l u v : 0 <= u -> 0 <= v < 8 * Zlen l ->
  pcr_bit (set_pcr l v) u = pcr_bit l u || (u =? v).
Proof.
  intros Hu Hv. unfold pcr_bit, set_pcr.
  pose proof (div_mod_8 u). pose proof (div_mod_8 v).
  assert (0 <= u / 8) by (apply Z.div_pos; lia). assert (0 <= v / 8) by (apply Z.div_pos; lia).
  destruct (decide (u / 8 = v / 8)) as [E|N].
  - rewrite E. rewrite list_lookup_insert_eq by (unfold Zlen in Hv; lia). simpl default at 1.
    rewrite Z.lor_spec. f_equal. rewrite Z.shiftl_1_l.
    destruct (Z.eqb_spec u v) as [->|D]; [by rewrite Z.pow2_bits_true by lia|].
    apply Z.pow2_bits_false. lia.
  - rewrite list_lookup_insert_ne by lia.
    rewrite (proj2 (Z.eqb_neq u v)) by (intros ->; done). by rewrite orb_false_r.
Qed.

Lemma set_pcr_ok l v : bytes_ok l -> 0 <= v -> bytes_ok (set_pcr l v) /\ Zlen (set_pcr l v) = Zlen l.
Proof.
  intros B Hv. unfold set_pcr. split; [|by unfold Zlen; rewrite length_insert].
  apply Forall_insert; [done|].
  pose proof (div_mod_8 v).
  assert (R : 0 <= default 0 (l !! Z.to_nat (v / 8)) < 2 ^ 8).
  { destruct (l !! Z.to_nat (v / 8)) eqn:E; simpl; [by eapply (Forall_lookup_1 _ _ _ _ B)|lia]. }
  rewrite Z.shiftl_1_l. split; [apply Z.lor_nonneg; lia|].
  change 256 with (2 ^ 8). apply Z.log2_lt_cancel. rewrite Z.log2_lor by lia.
  rewrite Z.log2_pow2 by lia. change (Z.log2 (2 ^ 8)) with 8.
  assert (Z.log2 (default 0 (l !! Z.to_nat (v / 8))) < 8); [|lia].
  destruct (decide (default 0 (l !! Z.to_nat (v / 8)) = 0)) as [->|]; [done|].
  apply Z.log2_lt_pow2; lia.
Qed.

(** Setting the PCRs of a list. *)
Lemma set_pcrs vs : forall l, bytes_ok l -> Forall (fun v => 0 <= v < 8 * Zlen l) vs ->
  bytes_ok (foldl set_pcr l vs) /\ Zlen (foldl set_pcr l vs) = Zlen l /\
  forall u, 0 <= u -> pcr_bit (foldl set_pcr l vs) u = pcr_bit l u || existsb (Z.eqb u) vs.
Proof.
  induction vs as [|v vs IH]; intros l B F; simpl.
  - split; [done|]. split; [done|]. intros u _. by rewrite orb_false_r.
  - apply list.Forall_cons in F as [Hv F]. destruct (set_pcr_ok l v B) as [B' L']; [lia|].
    destruct (IH (set_pcr l v) B') as (B2&L2&G); [by rewrite L'|].
    split; [done|]. split; [by rewrite L2|]. intros u Hu.
    rewrite G, pcr_bit_set by lia. by rewrite orb_assoc.
Qed.

Lemma byte_high x k : 0 <= x < 2 ^ 8 -> 8 <= k -> Z.testbit x k = false.
Proof.
  intros R Hk. rewrite <-(Z.mod_small x (2 ^ 8)) by done. apply Z.mod_pow2_bits_high. lia.
Qed.

Lemma pcr_bits_eq l1 l2 n :
  bytes_ok l1 -> bytes_ok l2 -> Zlen l1 = Zlen l2 ->
  (forall u, 0 <= u < 8 * Z.of_nat n -> pcr_bit l1 u = pcr_bit l2 u) -> take n l1 = take n l2.
Proof.
  intros B1 B2 L E. apply list_eq. intros i.
  destruct (decide (i < n)%nat) as [Hi|Hi].
  2: { rewrite !lookup_take_ge by lia. done. }
  rewrite !lookup_take_lt by done.
  destruct (decide (i < length l1)%nat) as [H1|H1].
  2: { rewrite !lookup_ge_None_2; [done|unfold Zlen in L; lia..]. }
  destruct (lookup_lt_is_Some_2 l1 i H1) as [a Ea].
  destruct (lookup_lt_is_Some_2 l2 i) as [b Eb]; [unfold Zlen in L; lia|].
  rewrite Ea, Eb. f_equal.
  assert (Ra : 0 <= a < 2 ^ 8) by by eapply (Forall_lookup_1 _ _ _ _ B1).
  assert (Rb : 0 <= b < 2 ^ 8) by by eapply (Forall_lookup_1 _ _ _ _ B2).
  apply Z.bits_inj'. intros k Hk. destruct (decide (k < 8)) as [K|K].
  - specialize (E (8 * Z.of_nat i + k)). unfold pcr_bit in E.
    rewrite Z.mul_comm, Z.div_add_l, Z.div_small, Z.add_0_r, Nat2Z.id, Ea, Eb in E by lia.
    rewrite Z.add_comm, Z.mod_add, Z.mod_small in E by lia. apply E. lia.
  - by rewrite !byte_high by (done || lia).
Qed.

(** The numbers that are written. *)
Definition pcr_numbers (src : bytes) (us : list Z) : list Z := List.filter (pcr_bit src) us.

Lemma adds_pcrs src us : 8 * Zlen src <= 2 ^ 31 -> forall a js,
  Forall (fun u => 0 <= u < 8 * Zlen src) us -> items_are a js ->
  adds (jfor us (fun i1 jso w =>
      let i2 := i1 + TPM2_PCR_FIRST in
      let* b := access (src !! Z.to_nat (i2 / 8)) in
      jwhen (negb (Z.land b (Z.shiftl 1 (i2 mod 8)) =? 0))
        (element (put_new TSS2_FAPI_RC_MEMORY (json_object_new_int64 i2))) jso w)) a (fun a' =>
    exists js', items_are a' (js ++ js') /\ Forall2 shows_int (pcr_numbers src us) js').
Proof.
  intros Hl. induction us as [|u us IH]; intros a js F I.
  - apply adds_ret. exists []. rewrite app_nil_r. done.
  - apply list.Forall_cons in F as [Hu F]. simpl jfor. apply adds_seq.
    change TPM2_PCR_FIRST with 0. cbv beta zeta. rewrite Z.add_0_r.
    assert (0 <= u / 8) by (apply Z.div_pos; lia).
    pose proof (div_mod_8 u).
    destruct (lookup_lt_is_Some_2 src (Z.to_nat (u / 8))) as [b Eb]; [unfold Zlen in Hu; lia|].
    intros w. rewrite Eb. cbn [access].
    assert (Et : pcr_bit src u = negb (Z.land b (Z.shiftl 1 (u mod 8)) =? 0)).
    { unfold pcr_bit. rewrite Eb, Z.land_comm, Z.shiftl_1_l, land_pow2 by lia. simpl.
      destruct (Z.testbit b (u mod 8)); [|done].
      symmetry. apply negb_true_iff, Z.eqb_neq.
      apply Z.pow_nonzero; lia. }
    rewrite <-Et. unfold pcr_numbers. simpl List.filter. destruct (pcr_bit src u); simpl jwhen.
    + destruct I as (A&L&G).
      assert (W : adds (element (put_new TSS2_FAPI_RC_MEMORY (json_object_new_int64 u))) a
        (fun a1 => exists j, shows_int u j /\ items_are a1 (js ++ [j]))).
      { eapply adds_mono; [apply adds_element; [done|apply puts_int64; lia]|].
        intros a1 (j&S&X). exists j. split; [done|]. by eapply items_snoc. }
      destruct (W w) as (a1&w1&E1&j&S&I1). exists a1, w1. split; [exact E1|].
      eapply adds_mono; [by apply (IH a1 (js ++ [j]))|].
      intros a2 (js'&I2&F2). exists (j :: js'). rewrite <-app_assoc in I2. split; [done|].
      by constructor.
    + exists a, w. split; [done|]. by apply IH.
Qed.
(** Reading them. *)
Lemma dloop_pcrs vs js : Forall2 shows_int vs js -> forall n sz l,
  Zlen l <= 255 -> Forall (fun v => 0 <= v < 8 * Zlen l) vs -> exists n' sz',
  dloop (map Some js) pcr_step (n, (sz, l)) =
  Ret (TSS2_RC_SUCCESS, (n', (sz', foldl set_pcr l vs))).
Proof.
  intros F. induction F as [|v j vs js [T S] F IH]; intros n sz l Hl B; [by eexists _, _|].
  apply list.Forall_cons in B as [Hv B]. simpl map. cbn [dloop].
  assert (E : pcr_step (Some j) (n, (sz, l)) =
    Ret (TSS2_RC_SUCCESS, (Some v, (if sz <? v / 8 then (v / 8) mod 2 ^ 8 else sz, set_pcr l v)))).
  { unfold pcr_step, get_number_from_json. rewrite S, get_number_dec by lia. simpl.
    pose proof (div_mod_8 v). assert (0 <= v / 8) by (apply Z.div_pos; lia).
    rewrite Z.quot_div_nonneg, Z.rem_mod_nonneg by lia.
    rewrite (proj2 (Z.ltb_ge (v mod 8) 0)), (proj2 (Z.ltb_ge (v / 8) 0)) by lia.
    destruct (lookup_lt_is_Some_2 l (Z.to_nat (v / 8))) as [b Eb]; [unfold Zlen in Hv; lia|].
    rewrite Eb. unfold set_pcr. by rewrite Eb. }
  rewrite E. cbv beta iota. cbn [Z.eqb]. change (TSS2_RC_SUCCESS =? TSS2_RC_SUCCESS) with true.
  assert (Lk : Zlen (set_pcr l v) = Zlen l) by (unfold set_pcr, Zlen; by rewrite length_insert).
  apply IH; rewrite Lk; done.
Qed.

(** The first three bytes of a selection are read back as they were. *)
Lemma pcr_selection_recovers src vs js a sz :
  vs = pcr_numbers src (seqZ 0 (TPM2_PCR_LAST - TPM2_PCR_FIRST)) ->
  items_are a js -> Forall2 shows_int vs js -> bytes_ok src -> Zlen src = TPM2_PCR_SELECT_MAX ->
  exists l, ifapi_json_pcr_selection_deserialize (Some a) sz
              (replicate (Z.to_nat TPM2_PCR_SELECT_MAX) 0) = Ret (TSS2_RC_SUCCESS, (3, l)) /\
    bytes_ok l /\ Zlen l = TPM2_PCR_SELECT_MAX /\ take 3 l = take 3 src.
Proof.
  change TPM2_PCR_SELECT_MAX with 4. change (TPM2_PCR_LAST - TPM2_PCR_FIRST) with 31.
  intros Ev I F B L. set (z := replicate (Z.to_nat 4) 0).
  assert (Bz : bytes_ok z) by by apply Forall_replicate.
  assert (Lz : Zlen z = 4) by done.
  assert (Rv : Forall (fun v => 0 <= v < 8 * Zlen z) vs).
  { apply List.Forall_forall. intros v Hv. rewrite Ev in Hv. apply filter_In in Hv as [Hv _].
    apply list_elem_of_In, elem_of_seqZ in Hv. lia. }
  destruct (dloop_pcrs vs js F None sz z) as (n'&sz'&E); [lia|done|].
  destruct (set_pcrs vs z Bz Rv) as (B2&L2&G).
  exists (foldl set_pcr z vs). split; [|split_and!; [done|by rewrite L2|]].
  - unfold ifapi_json_pcr_selection_deserialize, on_type. destruct I as (A&I).
    pose proof A as A'. unfold is_arr in A'. rewrite A'.
    rewrite (array_items_are _ _ (conj A I)), E. done.
  - apply pcr_bits_eq; [done|done|lia|]. intros u Hu. rewrite G by lia.
    assert (Ez : pcr_bit z u = false).
    { unfold pcr_bit, z. destruct (_ !! _) eqn:El; [|by rewrite Z.testbit_0_l].
      apply lookup_replicate in El as [-> _]. by rewrite Z.testbit_0_l. }
    rewrite Ez, Ev, orb_false_l.
    destruct (pcr_bit src u) eqn:Eu.
    + apply existsb_exists. exists u. split; [|by rewrite Z.eqb_refl].
      apply filter_In. split; [|done]. apply list_elem_of_In, elem_of_seqZ. lia.
    + apply not_true_is_false. intros X. apply existsb_exists in X as (v&Hv&Ee%Z.eqb_eq). subst v.
      apply filter_In in Hv as [_ Hv]. congruence.
Qed.

Definition dom_pcr_select (sizeofSelect : Z) : Prop := sizeofSelect = 3.

Lemma puts_pcr_select sz src :
  sz = 3 -> bytes_ok src -> Zlen src = TPM2_PCR_SELECT_MAX ->
  puts (ifapi_json_pcr_select_serialize sz src) (fun a => exists js, items_are a js /\
    Forall2 shows_int (pcr_numbers src (seqZ 0 (TPM2_PCR_LAST - TPM2_PCR_FIRST))) js).
Proof.
  intros -> B L. unfold ifapi_json_pcr_select_serialize.
  eapply puts_cons; [apply puts_new_array|]. intros a (A&La).
  apply skips_adds; [done|]. apply adds_cons. eapply adds_mono.
  { apply (adds_pcrs src _) with (js := []).
    - rewrite L. by vm_compute.
    - apply List.Forall_forall. intros v Hv%list_elem_of_In%elem_of_seqZ. rewrite L.
      change (TPM2_PCR_LAST - TPM2_PCR_FIRST) with 31 in Hv.
      change TPM2_PCR_SELECT_MAX with 4. lia.
    - split; [done|]. split; [done|]. intros i j. by rewrite lookup_nil. }
  intros a' (js&I&F). apply adds_nil. by exists js.
Qed.

Lemma PCR_SELECTION_codec dom :
  codec ifapi_json_TPMI_ALG_HASH_serialize ifapi_json_TPMI_ALG_HASH_deserialize dom
    (spec_int UINT16) ->
  codec (fun x => ifapi_json_TPMS_PCR_SELECTION_serialize (Some x))
    ifapi_json_TPMS_PCR_SELECTION_deserialize
    (fun x => dom (TPMS_PCR_SELECTION_hash x) /\ TPMS_PCR_SELECTION_sizeofSelect x = 3)
    spec_TPMS_PCR_SELECTION.
Proof.
  intros C [h sz src] (Wh&(Rs&L&B)&_) [D S]. simpl in Wh, Rs, L, B, D, S.
  unfold ifapi_json_TPMS_PCR_SELECTION_serialize, deref_in. cbn [mget].
  eapply puts_cons; [apply puts_new_object_checked|]. intros o (O&M&G).
  apply adds_cons. eapply adds_field_k; [done|by apply C|]. intros o1 O1 H1 K1 N1.
  apply adds_cons. eapply adds_field_k; [done|by apply puts_pcr_select|]. intros o2 O2 H2 K2 N2.
  apply adds_nil. apply recovers_deref_out. intros out _.
  apply goes_cons, goes_clear. apply goes_cons.
  eapply goes_field; [by apply K2|by vm_compute|]. intros h' Wh' V. simpl in V. subst h'.
  apply goes_cons. apply get_sub_object_has in H2 as (j&E2&js&I&F).
  destruct (pcr_selection_recovers src _ js j 0 eq_refl I F B L) as (l&E&Bl&Ll&Tl).
  exists (Mk_TPMS_PCR_SELECTION h 3 l). split.
  - rewrite E2. unfold dpcr. cbn [mget mset]. simpl. unfold ifapi_json_pcr_selection_deserialize in E.
    exact (f_equal (fun o => match o with Ret (r, (n, b)) => Ret (r, Mk_TPMS_PCR_SELECTION h n b) | Undef => Undef end) E).
  - apply goes_nil. subst sz. split.
    + split; [exact Wh|]. split; [|exact Logic.I]. split; [exact Rs|]. split; [exact Ll|exact Bl].
    + split; [reflexivity|]. split; [|exact Logic.I]. exact (conj eq_refl (eq_sym Tl)).
Qed.

End Lists.
