(* ===== verification/JsonTypesOk.v ===== *)
(** * What is written as JSON is read back: a codec for each type.

    [dom_T] are the values of [T] that survive; [T_codec] says that the
    serializer of [T] succeeds on them and that the deserializer turns the
    result into a value with the same wire image.  The values that do not
    survive: TDES and CMAC, handles from [2 ^ 31] and numbers from [2 ^ 63]
    on, reserved bits of attribute words, selections of other than three
    bytes, the schemes without details (RSAES), sizes larger than the buffers,
    and everything with a [TPM2B_DATA] ([TPMS_ATTEST], [TPMS_CREATION_DATA]),
    for which there is no codec. *)

From stdpp Require Import base strings list_numbers.
From S2P Require Import Prelude Common MuSpec MuBase MuBaseOk MuStruct MuStructOk MuTpm2b MuTpm2bOk MuUnion MuPcr TpmTypes MuTypes MuTypesOk SysCodes JsonCodes JsonC JsonBase JsonNum JsonSer JsonDe JsonOk JsonNumOk JsonListOk.
Open Scope string_scope.
Open Scope list_scope.
Open Scope Z_scope.
Open Scope tss_scope.

#[local] Arguments strip_prefix : simpl never.

(** ** Proof steps *)

(** The facts about the members of [o] hold of the object that [K] says
    extends it. *)
Ltac keep_has o K :=
  repeat match goal with H : has o ?n ?P |- _ => apply (K n P eq_refl) in H end.

(** The first conjunct of [W], under the name [h], which is used again. *)
Tactic Notation "jnext" hyp(W) ident(h) := try clear h; destruct W as [h W].

(** The next member is added; [t] is what its serializer puts. *)
Ltac jfield t :=
  lazymatch goal with |- adds _ ?o _ =>
    apply adds_cons; eapply adds_field_k; [assumption|exact t|];
    let o' := fresh "o" in let O' := fresh "O" in let H := fresh "H" in let K := fresh "K" in
    intros o' O' H K _; keep_has o K; clear K
  end.

(** A member that is only there for a selector other than [TPM2_ALG_NULL]. *)
Ltac jskip := apply skips_adds; [exact (skips_when_false _)|].
Ltac jtrue := match goal with |- adds (jbody (jwhen _ ?f :: ?l)) ?o ?Q => change (adds (jbody (f :: l)) o Q) end.

(** The next member is read. *)
Ltac jread_one :=
  lazymatch goal with
  | |- goes (dfield_sel ?n _ _ _) ?o _ _ =>
      lazymatch goal with H : has o n (recovers _ (?su _) _) |- _ =>
        eapply (goes_field_sel n _ _ _ _ su); [exact H|eassumption|] end
  | |- goes (dfield _ _ _) _ _ _ => eapply goes_field; [eassumption|eassumption|]
  end;
  let W := fresh "W" in let V := fresh "V" in intros ? W V;
  lazymatch type of V with
  | s_eqv (spec_int _) ?a ?b => change (a = b) in V; subst b
  | _ => idtac
  end.
Ltac jread := apply goes_cons; jread_one.

Ltac jnull E := apply goes_cons, goes_unless_null; [intros _|intros N; by destruct (N E)].
Ltac jnonnull E :=
  apply goes_cons, goes_unless_null; [intros N; by destruct (E N)|intros _].

(** The value that was read. *)
Ltac jparts := repeat first [eassumption | exact eq_refl | exact Logic.I | split].
Ltac jdone := apply goes_nil; split; [jparts|jparts].
Ltac jdone_null E :=
  apply goes_nil; split; [jparts|];
  repeat first [eassumption | exact eq_refl | exact Logic.I | split | (rewrite E; exact Logic.I)].

(** The members of a union. *)
Tactic Notation "ustart" reference(ser) reference(de) reference(dom) :=
  let sel := fresh "sel" in let u := fresh "x" in let W := fresh "Wx" in let D := fresh "D" in
  intros sel u W D; unfold ser, de; unfold dom, union_dom in D; cbn [switch] in D;
  repeat lazymatch type of D with context [?a =? sel] =>
    destruct (Z.eqb_spec a sel) as [<-|_]; cbv beta iota in D end.

Ltac ucase C :=
  eapply union_case; [reflexivity|reflexivity|reflexivity|
    solve [eauto 2 with mu | tagged_member | (apply whole_ok; [reflexivity|eauto 2 with mu])]|
    exact C|assumption|assumption].

Ltac udigest n :=
  match goal with W : wf_TPMU_HA ?u |- _ =>
    exact (digest_codec n (lsize lay_TPMU_HA) ltac:(cap_ok) ltac:(cap_ok) u W Logic.I) end.

(** Closed lists of values. *)
Ltac in_list := vm_compute; repeat first [left; reflexivity | right].
Ltac by_values D := hnf in D; repeat (destruct D as [<-|D]; [in_list|]); destruct D.

Ltac subtype C :=
  eapply codec_weaken;
  [eapply subtype_codec; [first [exact (zero_int_wf 2)|exact (zero_int_wf 4)]|exact C]|
   let x := fresh "x" in let D := fresh "D" in intros x D;
   split; [first [exact Logic.I|by_values D]|split; by_values D]].

Section Types.
Context `{JC : JsonC} {JL : JsonLaws} {RL : Reliable}.
Arguments TPMI_YES_NO_codec {JC JL RL ty}.

(** The names of TDES and CMAC are not in the table of the reader. *)
Definition dom_TPM2_ALG_ID (x : Z) : Prop := In x (List.filter (fun v => negb (v =? TPM2_ALG_TDES) && negb (v =? TPM2_ALG_CMAC)) (map fst tab_ifapi_json_TPM2_ALG_ID_serialize)).
Lemma TPM2_ALG_ID_codec : codec ifapi_json_TPM2_ALG_ID_serialize ifapi_json_TPM2_ALG_ID_deserialize dom_TPM2_ALG_ID (spec_int UINT16).
Proof. apply table_codec. by vm_compute. Qed.

Definition dom_TPMI_ALG_HASH (x : Z) : Prop := In x [TPM2_ALG_SHA1; TPM2_ALG_SHA256; TPM2_ALG_SHA384; TPM2_ALG_SHA512; TPM2_ALG_SM3_256; TPM2_ALG_NULL].
Lemma TPMI_ALG_HASH_codec : codec ifapi_json_TPMI_ALG_HASH_serialize ifapi_json_TPMI_ALG_HASH_deserialize dom_TPMI_ALG_HASH (spec_int UINT16).
Proof. subtype TPM2_ALG_ID_codec. Qed.

Definition dom_TPMS_PCR_SELECTION (x : TPMS_PCR_SELECTION) : Prop :=
  dom_TPMI_ALG_HASH (TPMS_PCR_SELECTION_hash x) /\ TPMS_PCR_SELECTION_sizeofSelect x = 3.
Lemma TPMS_PCR_SELECTION_codec :
  codec (fun x => ifapi_json_TPMS_PCR_SELECTION_serialize (Some x))
    ifapi_json_TPMS_PCR_SELECTION_deserialize dom_TPMS_PCR_SELECTION spec_TPMS_PCR_SELECTION.
Proof. exact (PCR_SELECTION_codec _ TPMI_ALG_HASH_codec). Qed.

Definition dom_TPM2_PT_PCR (x : Z) : Prop := In x (map fst tab_ifapi_json_TPM2_PT_PCR_serialize).
Lemma TPM2_PT_PCR_codec : codec ifapi_json_TPM2_PT_PCR_serialize ifapi_json_TPM2_PT_PCR_deserialize dom_TPM2_PT_PCR (spec_int UINT32).
Proof. apply table_codec. by vm_compute. Qed.

Definition dom_TPM2_HANDLE (x : Z) : Prop := x < 2 ^ 31.

#[export] Instance TPMU_HA_wf : UnionWf wf_TPMU_HA spec_TPMU_HA.
Proof. intros z u. symmetry. apply (uo_wf _ _ _ _ _ (Tss2_MU_TPMU_HA_ok (H:=little_endian_host))). Qed.

Definition dom_TPMU_HA : Z -> bytes -> Prop := union_dom [
  (TPM2_ALG_SHA1, fun _ => True);
  (TPM2_ALG_SHA256, fun _ => True);
  (TPM2_ALG_SHA384, fun _ => True);
  (TPM2_ALG_SHA512, fun _ => True);
  (TPM2_ALG_SM3_256, fun _ => True)].
Lemma TPMU_HA_codec : ucodec ifapi_json_TPMU_HA_serialize ifapi_json_TPMU_HA_deserialize dom_TPMU_HA wf_TPMU_HA spec_TPMU_HA.
Proof.
  ustart ifapi_json_TPMU_HA_serialize ifapi_json_TPMU_HA_deserialize dom_TPMU_HA.
  - udigest TPM2_SHA1_DIGEST_SIZE.
  - udigest TPM2_SHA256_DIGEST_SIZE.
  - udigest TPM2_SHA384_DIGEST_SIZE.
  - udigest TPM2_SHA512_DIGEST_SIZE.
  - udigest TPM2_SM3_256_DIGEST_SIZE.
  - destruct D.
Qed.

Definition dom_TPMT_HA (x : TPMT_HA) : Prop :=
  dom_TPMI_ALG_HASH (mget TPMT_HA'hashAlg x) /\
  (mget TPMT_HA'hashAlg x <> TPM2_ALG_NULL -> dom_TPMU_HA (mget TPMT_HA'hashAlg x) (mget TPMT_HA'digest x)).
Lemma TPMT_HA_codec : codec (fun x => ifapi_json_TPMT_HA_serialize (Some x)) ifapi_json_TPMT_HA_deserialize dom_TPMT_HA spec_TPMT_HA.
Proof.
  intros x W D. unfold ifapi_json_TPMT_HA_serialize, with_in.
  eapply puts_cons; [apply puts_new_object|]. intros o (O&_&_).
  destruct (Z.eqb_spec (mget TPMT_HA'hashAlg x) TPM2_ALG_NULL) as [E|E].
  - jnext W Wh. jnext D Dh. jfield (TPMI_ALG_HASH_codec _ Wh Dh).
    jnext W Wh. jskip.
    apply adds_nil, recovers_with_out. intros out (?&?&_).
    jread.
    jnull E.
    jdone_null E.
  - jnext W Wh. jnext D Dh. jfield (TPMI_ALG_HASH_codec _ Wh Dh).
    jnext W Wh. jtrue. jfield (TPMU_HA_codec _ _ Wh (D E)).
    apply adds_nil, recovers_with_out. intros out (?&?&_).
    jread.
    jnonnull E. jread_one.
    jdone.
Qed.

Definition dom_TPMS_TAGGED_POLICY (x : TPMS_TAGGED_POLICY) : Prop :=
  dom_TPM2_HANDLE (mget TPMS_TAGGED_POLICY'handle x) /\
  dom_TPMT_HA (mget TPMS_TAGGED_POLICY'policyHash x).
Lemma TPMS_TAGGED_POLICY_codec : codec (fun x => ifapi_json_TPMS_TAGGED_POLICY_serialize (Some x)) ifapi_json_TPMS_TAGGED_POLICY_deserialize dom_TPMS_TAGGED_POLICY spec_TPMS_TAGGED_POLICY.
Proof.
  intros x W D. unfold ifapi_json_TPMS_TAGGED_POLICY_serialize, deref_in.
  eapply puts_cons; [apply puts_new_object|]. intros o (O&_&_).
  jnext W Wh. jnext D Dh. jfield (TPM2_HANDLE_codec _ Wh Dh).
  jnext W Wh. jfield (TPMT_HA_codec _ Wh D).
  apply adds_nil, recovers_with_out. intros out _. apply goes_cons, goes_clear.
  pose proof zero_TPMS_TAGGED_POLICY_wf as (?&?&_).
  jread.
  jread.
  jdone.
Qed.

Definition dom_UINT32 (_ : Z) : Prop := True.

Definition dom_TPMA_ACT (x : Z) : Prop :=
  Z.land (mask_of tab_ifapi_json_TPMA_ACT_serialize) x = x.

Definition dom_TPMS_ACT_DATA (x : TPMS_ACT_DATA) : Prop :=
  dom_TPM2_HANDLE (mget TPMS_ACT_DATA'handle x) /\
  dom_UINT32 (mget TPMS_ACT_DATA'timeout x) /\
  dom_TPMA_ACT (mget TPMS_ACT_DATA'attributes x).
Lemma TPMS_ACT_DATA_codec : codec (fun x => ifapi_json_TPMS_ACT_DATA_serialize (Some x)) ifapi_json_TPMS_ACT_DATA_deserialize dom_TPMS_ACT_DATA spec_TPMS_ACT_DATA.
Proof.
  intros x W D. unfold ifapi_json_TPMS_ACT_DATA_serialize, deref_in.
  eapply puts_cons; [apply puts_new_object|]. intros o (O&_&_).
  jnext W Wh. jnext D Dh. jfield (TPM2_HANDLE_codec _ Wh Dh).
  jnext W Wh. jnext D Dh. jfield (UINT32_codec _ Wh Dh).
  jnext W Wh. jfield (TPMA_ACT_codec _ Wh D).
  apply adds_nil, recovers_with_out. intros out _. apply goes_cons, goes_clear.
  pose proof zero_TPMS_ACT_DATA_wf as (?&?&?&_).
  jread.
  jread.
  jread.
  jdone.
Qed.

Definition dom_UINT16 (_ : Z) : Prop := True.

Definition dom_UINT64 (x : Z) : Prop := x < 2 ^ 63.



Definition dom_TPM2_ECC_CURVE (x : Z) : Prop := In x (map fst tab_ifapi_json_TPM2_ECC_CURVE_serialize).
Lemma TPM2_ECC_CURVE_codec : codec ifapi_json_TPM2_ECC_CURVE_serialize ifapi_json_TPM2_ECC_CURVE_deserialize dom_TPM2_ECC_CURVE (spec_int UINT16).
Proof. apply table_codec. by vm_compute. Qed.

Definition dom_TPM2_CC (x : Z) : Prop := In x (map fst tab_ifapi_json_TPM2_CC_serialize).
Lemma TPM2_CC_codec : codec ifapi_json_TPM2_CC_serialize ifapi_json_TPM2_CC_deserialize dom_TPM2_CC (spec_int UINT32).
Proof. apply table_codec. by vm_compute. Qed.

Definition dom_TPM2_EO (x : Z) : Prop := In x (map fst tab_ifapi_json_TPM2_EO_serialize).
Lemma TPM2_EO_codec : codec ifapi_json_TPM2_EO_serialize ifapi_json_TPM2_EO_deserialize dom_TPM2_EO (spec_int UINT16).
Proof. apply table_codec. by vm_compute. Qed.

Definition dom_TPM2_ST (x : Z) : Prop := In x (map fst tab_ifapi_json_TPM2_ST_serialize).
Lemma TPM2_ST_codec : codec ifapi_json_TPM2_ST_serialize ifapi_json_TPM2_ST_deserialize dom_TPM2_ST (spec_int UINT16).
Proof. apply table_codec. by vm_compute. Qed.

Definition dom_TPMA_OBJECT (x : Z) : Prop :=
  Z.land (mask_of tab_ifapi_json_TPMA_OBJECT_serialize) x = x.

Definition dom_TPMA_LOCALITY (_ : Z) : Prop := True.

Definition dom_TPMI_YES_NO (x : Z) : Prop := x = YES \/ x = NO.

Definition dom_TPMI_RH_HIERARCHY (x : Z) : Prop := In x (map fst tab_ifapi_json_TPMI_RH_HIERARCHY_serialize).
Lemma TPMI_RH_HIERARCHY_codec : codec ifapi_json_TPMI_RH_HIERARCHY_serialize ifapi_json_TPMI_RH_HIERARCHY_deserialize dom_TPMI_RH_HIERARCHY (spec_int UINT32).
Proof. apply table_codec. by vm_compute. Qed.

Definition dom_TPMI_RH_NV_INDEX := dom_NV_INDEX.

Definition dom_TPMI_ALG_SYM_OBJECT (x : Z) : Prop := In x [TPM2_ALG_AES; TPM2_ALG_CAMELLIA; TPM2_ALG_SM4; TPM2_ALG_NULL].
Lemma TPMI_ALG_SYM_OBJECT_codec : codec ifapi_json_TPMI_ALG_SYM_OBJECT_serialize ifapi_json_TPMI_ALG_SYM_OBJECT_deserialize dom_TPMI_ALG_SYM_OBJECT (spec_int UINT16).
Proof. subtype TPM2_ALG_ID_codec. Qed.

Definition dom_TPMI_ALG_SYM_MODE (x : Z) : Prop := In x [TPM2_ALG_CTR; TPM2_ALG_OFB; TPM2_ALG_CBC; TPM2_ALG_CFB; TPM2_ALG_ECB; TPM2_ALG_NULL].
Lemma TPMI_ALG_SYM_MODE_codec : codec ifapi_json_TPMI_ALG_SYM_MODE_serialize ifapi_json_TPMI_ALG_SYM_MODE_deserialize dom_TPMI_ALG_SYM_MODE (spec_int UINT16).
Proof. subtype TPM2_ALG_ID_codec. Qed.

Definition dom_TPMI_ALG_CIPHER_MODE (x : Z) : Prop := In x [TPM2_ALG_CTR; TPM2_ALG_OFB; TPM2_ALG_CBC; TPM2_ALG_CFB; TPM2_ALG_ECB; TPM2_ALG_NULL].
Lemma TPMI_ALG_CIPHER_MODE_codec : codec ifapi_json_TPMI_ALG_CIPHER_MODE_serialize ifapi_json_TPMI_ALG_CIPHER_MODE_deserialize dom_TPMI_ALG_CIPHER_MODE (spec_int UINT16).
Proof. subtype TPM2_ALG_ID_codec. Qed.

Definition dom_TPMI_ALG_KDF (x : Z) : Prop := In x [TPM2_ALG_MGF1; TPM2_ALG_KDF1_SP800_56A; TPM2_ALG_KDF1_SP800_108; TPM2_ALG_NULL].
Lemma TPMI_ALG_KDF_codec : codec ifapi_json_TPMI_ALG_KDF_serialize ifapi_json_TPMI_ALG_KDF_deserialize dom_TPMI_ALG_KDF (spec_int UINT16).
Proof. subtype TPM2_ALG_ID_codec. Qed.

Definition dom_TPMI_ALG_SIG_SCHEME (x : Z) : Prop := In x [TPM2_ALG_RSASSA; TPM2_ALG_RSAPSS; TPM2_ALG_ECDSA; TPM2_ALG_ECDAA; TPM2_ALG_SM2; TPM2_ALG_ECSCHNORR; TPM2_ALG_HMAC; TPM2_ALG_NULL].
Lemma TPMI_ALG_SIG_SCHEME_codec : codec ifapi_json_TPMI_ALG_SIG_SCHEME_serialize ifapi_json_TPMI_ALG_SIG_SCHEME_deserialize dom_TPMI_ALG_SIG_SCHEME (spec_int UINT16).
Proof. subtype TPM2_ALG_ID_codec. Qed.

Definition dom_TPM2B_DIGEST : TPM2B -> Prop := dom_2b (lsize lay_TPMU_HA).
Lemma TPM2B_DIGEST_codec : codec (fun x => ifapi_json_TPM2B_DIGEST_serialize (Some x)) ifapi_json_TPM2B_DIGEST_deserialize dom_TPM2B_DIGEST spec_TPM2B_DIGEST.
Proof. apply tpm2b_codec; cap_ok. Qed.

Definition dom_TPM2B_NONCE := dom_TPM2B_DIGEST.
Lemma TPM2B_NONCE_codec : codec (fun x => ifapi_json_TPM2B_NONCE_serialize (Some x)) ifapi_json_TPM2B_NONCE_deserialize dom_TPM2B_NONCE spec_TPM2B_DIGEST.
Proof. exact TPM2B_DIGEST_codec. Qed.

Definition dom_TPM2B_OPERAND := dom_TPM2B_DIGEST.
Lemma TPM2B_OPERAND_codec : codec (fun x => ifapi_json_TPM2B_OPERAND_serialize (Some x)) ifapi_json_TPM2B_OPERAND_deserialize dom_TPM2B_OPERAND spec_TPM2B_DIGEST.
Proof. exact TPM2B_DIGEST_codec. Qed.

Definition dom_TPM2B_EVENT : TPM2B -> Prop := dom_2b (1024).
Lemma TPM2B_EVENT_codec : codec (fun x => ifapi_json_TPM2B_EVENT_serialize (Some x)) ifapi_json_TPM2B_EVENT_deserialize dom_TPM2B_EVENT spec_TPM2B_EVENT.
Proof. apply tpm2b_codec; cap_ok. Qed.

Definition dom_TPM2B_MAX_NV_BUFFER : TPM2B -> Prop := dom_2b (TPM2_MAX_NV_BUFFER_SIZE).
Lemma TPM2B_MAX_NV_BUFFER_codec : codec (fun x => ifapi_json_TPM2B_MAX_NV_BUFFER_serialize (Some x)) ifapi_json_TPM2B_MAX_NV_BUFFER_deserialize dom_TPM2B_MAX_NV_BUFFER spec_TPM2B_MAX_NV_BUFFER.
Proof. apply tpm2b_codec; cap_ok. Qed.

Definition dom_TPM2B_NAME : TPM2B -> Prop := dom_2b (lsize lay_TPMU_NAME).
Lemma TPM2B_NAME_codec : codec (fun x => ifapi_json_TPM2B_NAME_serialize (Some x)) ifapi_json_TPM2B_NAME_deserialize dom_TPM2B_NAME spec_TPM2B_NAME.
Proof. apply tpm2b_codec; cap_ok. Qed.

Definition dom_TPMT_TK_CREATION (x : TPMT_TK_CREATION) : Prop :=
  mget TPMT_TK_CREATION'tag x = TPM2_ST_CREATION /\
  dom_TPMI_RH_HIERARCHY (mget TPMT_TK_CREATION'hierarchy x) /\
  dom_TPM2B_DIGEST (mget TPMT_TK_CREATION'digest x).
Lemma TPMT_TK_CREATION_codec : codec (fun x => ifapi_json_TPMT_TK_CREATION_serialize (Some x)) ifapi_json_TPMT_TK_CREATION_deserialize dom_TPMT_TK_CREATION spec_TPMT_TK_CREATION.
Proof.
  intros x W D. unfold ifapi_json_TPMT_TK_CREATION_serialize, with_in.
  eapply puts_cons; [apply puts_new_object|]. intros o (O&_&_).
  jnext W Wh. destruct D as [E D].
  apply skips_adds; [rewrite E; exact (skips_when_false _)|].
  assert (Dh : dom_TPM2_ST (mget TPMT_TK_CREATION'tag x)) by (rewrite E; in_list).
  jfield (TPM2_ST_codec _ Wh Dh). clear Wh Dh.
  jnext W Wh. jnext D Dh. jfield (TPMI_RH_HIERARCHY_codec _ Wh Dh).
  jnext W Wh. jfield (TPM2B_DIGEST_codec _ Wh D).
  apply adds_nil, recovers_with_out. intros out (?&?&?&_).
  do 3 jread.
  jdone.
Qed.

Definition dom_TPML_DIGEST_VALUES : TPML TPMT_HA -> Prop := dom_list TPM2_NUM_PCR_BANKS dom_TPMT_HA.
Lemma TPML_DIGEST_VALUES_codec : codec (fun x => ifapi_json_TPML_DIGEST_VALUES_serialize (Some x)) ifapi_json_TPML_DIGEST_VALUES_deserialize dom_TPML_DIGEST_VALUES spec_TPML_DIGEST_VALUES.
Proof. exact (list_codec _ _ _ _ _ TPMT_HA_codec). Qed.

Definition dom_TPML_PCR_SELECTION : TPML TPMS_PCR_SELECTION -> Prop := dom_list TPM2_NUM_PCR_BANKS dom_TPMS_PCR_SELECTION.
Lemma TPML_PCR_SELECTION_codec : codec (fun x => ifapi_json_TPML_PCR_SELECTION_serialize (Some x)) ifapi_json_TPML_PCR_SELECTION_deserialize dom_TPML_PCR_SELECTION spec_TPML_PCR_SELECTION.
Proof. exact (list_codec _ _ _ _ _ TPMS_PCR_SELECTION_codec). Qed.

Definition dom_TPMS_CLOCK_INFO (x : TPMS_CLOCK_INFO) : Prop :=
  dom_UINT64 (mget TPMS_CLOCK_INFO'clock x) /\
  dom_UINT32 (mget TPMS_CLOCK_INFO'resetCount x) /\
  dom_UINT32 (mget TPMS_CLOCK_INFO'restartCount x) /\
  dom_TPMI_YES_NO (mget TPMS_CLOCK_INFO'safe x).
Lemma TPMS_CLOCK_INFO_codec : codec (fun x => ifapi_json_TPMS_CLOCK_INFO_serialize (Some x)) ifapi_json_TPMS_CLOCK_INFO_deserialize dom_TPMS_CLOCK_INFO spec_TPMS_CLOCK_INFO.
Proof.
  intros x W D. unfold ifapi_json_TPMS_CLOCK_INFO_serialize, with_in.
  eapply puts_cons; [apply puts_new_object|]. intros o (O&_&_).
  jnext W Wh. jnext D Dh. jfield (UINT64_codec _ Wh Dh).
  jnext W Wh. jnext D Dh. jfield (UINT32_codec _ Wh Dh).
  jnext W Wh. jnext D Dh. jfield (UINT32_codec _ Wh Dh).
  jnext W Wh. jfield (TPMI_YES_NO_codec _ Wh D).
  apply adds_nil, recovers_with_out. intros out (?&?&?&?&_).
  jread.
  jread.
  jread.
  jread.
  jdone.
Qed.

Definition dom_TPMS_TIME_INFO (x : TPMS_TIME_INFO) : Prop :=
  dom_UINT64 (mget TPMS_TIME_INFO'time x) /\
  dom_TPMS_CLOCK_INFO (mget TPMS_TIME_INFO'clockInfo x).
Lemma TPMS_TIME_INFO_codec : codec (fun x => ifapi_json_TPMS_TIME_INFO_serialize (Some x)) ifapi_json_TPMS_TIME_INFO_deserialize dom_TPMS_TIME_INFO spec_TPMS_TIME_INFO.
Proof.
  intros x W D. unfold ifapi_json_TPMS_TIME_INFO_serialize, with_in.
  eapply puts_cons; [apply puts_new_object|]. intros o (O&_&_).
  jnext W Wh. jnext D Dh. jfield (UINT64_codec _ Wh Dh).
  jnext W Wh. jfield (TPMS_CLOCK_INFO_codec _ Wh D).
  apply adds_nil, recovers_with_out. intros out (?&?&_).
  jread.
  jread.
  jdone.
Qed.

Definition dom_TPMS_TIME_ATTEST_INFO (x : TPMS_TIME_ATTEST_INFO) : Prop :=
  dom_TPMS_TIME_INFO (mget TPMS_TIME_ATTEST_INFO'time x) /\
  dom_UINT64 (mget TPMS_TIME_ATTEST_INFO'firmwareVersion x).
Lemma TPMS_TIME_ATTEST_INFO_codec : codec (fun x => ifapi_json_TPMS_TIME_ATTEST_INFO_serialize (Some x)) ifapi_json_TPMS_TIME_ATTEST_INFO_deserialize dom_TPMS_TIME_ATTEST_INFO spec_TPMS_TIME_ATTEST_INFO.
Proof.
  intros x W D. unfold ifapi_json_TPMS_TIME_ATTEST_INFO_serialize, with_in.
  eapply puts_cons; [apply puts_new_object|]. intros o (O&_&_).
  jnext W Wh. jnext D Dh. jfield (TPMS_TIME_INFO_codec _ Wh Dh).
  jnext W Wh. jfield (UINT64_codec _ Wh D).
  apply adds_nil, recovers_with_out. intros out (?&?&_).
  jread.
  jread.
  jdone.
Qed.

Definition dom_TPMS_CERTIFY_INFO (x : TPMS_CERTIFY_INFO) : Prop :=
  dom_TPM2B_NAME (mget TPMS_CERTIFY_INFO'name x) /\
  dom_TPM2B_NAME (mget TPMS_CERTIFY_INFO'qualifiedName x).
Lemma TPMS_CERTIFY_INFO_codec : codec (fun x => ifapi_json_TPMS_CERTIFY_INFO_serialize (Some x)) ifapi_json_TPMS_CERTIFY_INFO_deserialize dom_TPMS_CERTIFY_INFO spec_TPMS_CERTIFY_INFO.
Proof.
  intros x W D. unfold ifapi_json_TPMS_CERTIFY_INFO_serialize, with_in.
  eapply puts_cons; [apply puts_new_object|]. intros o (O&_&_).
  jnext W Wh. jnext D Dh. jfield (TPM2B_NAME_codec _ Wh Dh).
  jnext W Wh. jfield (TPM2B_NAME_codec _ Wh D).
  apply adds_nil, recovers_with_out. intros out (?&?&_).
  jread.
  jread.
  jdone.
Qed.

Definition dom_TPMS_QUOTE_INFO (x : TPMS_QUOTE_INFO) : Prop :=
  dom_TPML_PCR_SELECTION (mget TPMS_QUOTE_INFO'pcrSelect x) /\
  dom_TPM2B_DIGEST (mget TPMS_QUOTE_INFO'pcrDigest x).
Lemma TPMS_QUOTE_INFO_codec : codec (fun x => ifapi_json_TPMS_QUOTE_INFO_serialize (Some x)) ifapi_json_TPMS_QUOTE_INFO_deserialize dom_TPMS_QUOTE_INFO spec_TPMS_QUOTE_INFO.
Proof.
  intros x W D. unfold ifapi_json_TPMS_QUOTE_INFO_serialize, with_in.
  eapply puts_cons; [apply puts_new_object|]. intros o (O&_&_).
  jnext W Wh. jnext D Dh. jfield (TPML_PCR_SELECTION_codec _ Wh Dh).
  jnext W Wh. jfield (TPM2B_DIGEST_codec _ Wh D).
  apply adds_nil, recovers_with_out. intros out (?&?&_).
  jread.
  jread.
  jdone.
Qed.

Definition dom_TPMS_COMMAND_AUDIT_INFO (x : TPMS_COMMAND_AUDIT_INFO) : Prop :=
  dom_UINT64 (mget TPMS_COMMAND_AUDIT_INFO'auditCounter x) /\
  dom_TPM2_ALG_ID (mget TPMS_COMMAND_AUDIT_INFO'digestAlg x) /\
  dom_TPM2B_DIGEST (mget TPMS_COMMAND_AUDIT_INFO'auditDigest x) /\
  dom_TPM2B_DIGEST (mget TPMS_COMMAND_AUDIT_INFO'commandDigest x).
Lemma TPMS_COMMAND_AUDIT_INFO_codec : codec (fun x => ifapi_json_TPMS_COMMAND_AUDIT_INFO_serialize (Some x)) ifapi_json_TPMS_COMMAND_AUDIT_INFO_deserialize dom_TPMS_COMMAND_AUDIT_INFO spec_TPMS_COMMAND_AUDIT_INFO.
Proof.
  intros x W D. unfold ifapi_json_TPMS_COMMAND_AUDIT_INFO_serialize, with_in.
  eapply puts_cons; [apply puts_new_object|]. intros o (O&_&_).
  jnext W Wh. jnext D Dh. jfield (UINT64_codec _ Wh Dh).
  jnext W Wh. jnext D Dh. jfield (TPM2_ALG_ID_codec _ Wh Dh).
  jnext W Wh. jnext D Dh. jfield (TPM2B_DIGEST_codec _ Wh Dh).
  jnext W Wh. jfield (TPM2B_DIGEST_codec _ Wh D).
  apply adds_nil, recovers_with_out. intros out (?&?&?&?&_).
  jread.
  jread.
  jread.
  jread.
  jdone.
Qed.

Definition dom_TPMS_SESSION_AUDIT_INFO (x : TPMS_SESSION_AUDIT_INFO) : Prop :=
  dom_TPMI_YES_NO (mget TPMS_SESSION_AUDIT_INFO'exclusiveSession x) /\
  dom_TPM2B_DIGEST (mget TPMS_SESSION_AUDIT_INFO'sessionDigest x).
Lemma TPMS_SESSION_AUDIT_INFO_codec : codec (fun x => ifapi_json_TPMS_SESSION_AUDIT_INFO_serialize (Some x)) ifapi_json_TPMS_SESSION_AUDIT_INFO_deserialize dom_TPMS_SESSION_AUDIT_INFO spec_TPMS_SESSION_AUDIT_INFO.
Proof.
  intros x W D. unfold ifapi_json_TPMS_SESSION_AUDIT_INFO_serialize, with_in.
  eapply puts_cons; [apply puts_new_object|]. intros o (O&_&_).
  jnext W Wh. jnext D Dh. jfield (TPMI_YES_NO_codec _ Wh Dh).
  jnext W Wh. jfield (TPM2B_DIGEST_codec _ Wh D).
  apply adds_nil, recovers_with_out. intros out (?&?&_).
  jread.
  jread.
  jdone.
Qed.

Definition dom_TPMS_CREATION_INFO (x : TPMS_CREATION_INFO) : Prop :=
  dom_TPM2B_NAME (mget TPMS_CREATION_INFO'objectName x) /\
  dom_TPM2B_DIGEST (mget TPMS_CREATION_INFO'creationHash x).
Lemma TPMS_CREATION_INFO_codec : codec (fun x => ifapi_json_TPMS_CREATION_INFO_serialize (Some x)) ifapi_json_TPMS_CREATION_INFO_deserialize dom_TPMS_CREATION_INFO spec_TPMS_CREATION_INFO.
Proof.
  intros x W D. unfold ifapi_json_TPMS_CREATION_INFO_serialize, with_in.
  eapply puts_cons; [apply puts_new_object|]. intros o (O&_&_).
  jnext W Wh. jnext D Dh. jfield (TPM2B_NAME_codec _ Wh Dh).
  jnext W Wh. jfield (TPM2B_DIGEST_codec _ Wh D).
  apply adds_nil, recovers_with_out. intros out (?&?&_).
  jread.
  jread.
  jdone.
Qed.

Definition dom_TPMS_NV_CERTIFY_INFO (x : TPMS_NV_CERTIFY_INFO) : Prop :=
  dom_TPM2B_NAME (mget TPMS_NV_CERTIFY_INFO'indexName x) /\
  dom_UINT16 (mget TPMS_NV_CERTIFY_INFO'offset x) /\
  dom_TPM2B_MAX_NV_BUFFER (mget TPMS_NV_CERTIFY_INFO'nvContents x).
Lemma TPMS_NV_CERTIFY_INFO_codec : codec (fun x => ifapi_json_TPMS_NV_CERTIFY_INFO_serialize (Some x)) ifapi_json_TPMS_NV_CERTIFY_INFO_deserialize dom_TPMS_NV_CERTIFY_INFO spec_TPMS_NV_CERTIFY_INFO.
Proof.
  intros x W D. unfold ifapi_json_TPMS_NV_CERTIFY_INFO_serialize, with_in.
  eapply puts_cons; [apply puts_new_object|]. intros o (O&_&_).
  jnext W Wh. jnext D Dh. jfield (TPM2B_NAME_codec _ Wh Dh).
  jnext W Wh. jnext D Dh. jfield (UINT16_codec _ Wh Dh).
  jnext W Wh. jfield (TPM2B_MAX_NV_BUFFER_codec _ Wh D).
  apply adds_nil, recovers_with_out. intros out (?&?&?&_).
  jread.
  jread.
  jread.
  jdone.
Qed.

Definition dom_TPMI_ST_ATTEST (x : Z) : Prop := In x [TPM2_ST_ATTEST_CERTIFY; TPM2_ST_ATTEST_QUOTE; TPM2_ST_ATTEST_SESSION_AUDIT; TPM2_ST_ATTEST_COMMAND_AUDIT; TPM2_ST_ATTEST_TIME; TPM2_ST_ATTEST_CREATION; TPM2_ST_ATTEST_NV].
Lemma TPMI_ST_ATTEST_codec : codec ifapi_json_TPMI_ST_ATTEST_serialize ifapi_json_TPMI_ST_ATTEST_deserialize dom_TPMI_ST_ATTEST (spec_int UINT16).
Proof. subtype TPM2_ST_codec. Qed.

#[export] Instance TPMU_ATTEST_wf : UnionWf wf_TPMU_ATTEST spec_TPMU_ATTEST.
Proof. intros z u. symmetry. apply (uo_wf _ _ _ _ _ (Tss2_MU_TPMU_ATTEST_ok (H:=little_endian_host))). Qed.

Definition dom_TPMU_ATTEST : Z -> TPMU_ATTEST -> Prop := union_dom [
  (TPM2_ST_ATTEST_CERTIFY, case_dom TPMU_ATTEST'TPMS_CERTIFY_INFO dom_TPMS_CERTIFY_INFO);
  (TPM2_ST_ATTEST_CREATION, case_dom TPMU_ATTEST'TPMS_CREATION_INFO dom_TPMS_CREATION_INFO);
  (TPM2_ST_ATTEST_QUOTE, case_dom TPMU_ATTEST'TPMS_QUOTE_INFO dom_TPMS_QUOTE_INFO);
  (TPM2_ST_ATTEST_COMMAND_AUDIT, case_dom TPMU_ATTEST'TPMS_COMMAND_AUDIT_INFO dom_TPMS_COMMAND_AUDIT_INFO);
  (TPM2_ST_ATTEST_SESSION_AUDIT, case_dom TPMU_ATTEST'TPMS_SESSION_AUDIT_INFO dom_TPMS_SESSION_AUDIT_INFO);
  (TPM2_ST_ATTEST_TIME, case_dom TPMU_ATTEST'TPMS_TIME_ATTEST_INFO dom_TPMS_TIME_ATTEST_INFO);
  (TPM2_ST_ATTEST_NV, case_dom TPMU_ATTEST'TPMS_NV_CERTIFY_INFO dom_TPMS_NV_CERTIFY_INFO)].
Lemma TPMU_ATTEST_codec : ucodec ifapi_json_TPMU_ATTEST_serialize ifapi_json_TPMU_ATTEST_deserialize dom_TPMU_ATTEST wf_TPMU_ATTEST spec_TPMU_ATTEST.
Proof.
  ustart ifapi_json_TPMU_ATTEST_serialize ifapi_json_TPMU_ATTEST_deserialize dom_TPMU_ATTEST.
  ucase TPMS_CERTIFY_INFO_codec.
  ucase TPMS_CREATION_INFO_codec.
  ucase TPMS_QUOTE_INFO_codec.
  ucase TPMS_COMMAND_AUDIT_INFO_codec.
  ucase TPMS_SESSION_AUDIT_INFO_codec.
  ucase TPMS_TIME_ATTEST_INFO_codec.
  ucase TPMS_NV_CERTIFY_INFO_codec.
  destruct D.
Qed.

Definition dom_TPMI_SM4_KEY_BITS (x : Z) : Prop := In x [128].
Lemma TPMI_SM4_KEY_BITS_codec : codec ifapi_json_TPMI_SM4_KEY_BITS_serialize ifapi_json_TPMI_SM4_KEY_BITS_deserialize dom_TPMI_SM4_KEY_BITS (spec_int UINT16).
Proof. subtype UINT16_codec. Qed.

Definition dom_TPMI_CAMELLIA_KEY_BITS (x : Z) : Prop := In x [128; 192; 256].
Lemma TPMI_CAMELLIA_KEY_BITS_codec : codec ifapi_json_TPMI_CAMELLIA_KEY_BITS_serialize ifapi_json_TPMI_CAMELLIA_KEY_BITS_deserialize dom_TPMI_CAMELLIA_KEY_BITS (spec_int UINT16).
Proof. subtype UINT16_codec. Qed.

Definition dom_TPMI_AES_KEY_BITS (x : Z) : Prop := In x [128; 192; 256].
Lemma TPMI_AES_KEY_BITS_codec : codec ifapi_json_TPMI_AES_KEY_BITS_serialize ifapi_json_TPMI_AES_KEY_BITS_deserialize dom_TPMI_AES_KEY_BITS (spec_int UINT16).
Proof. subtype UINT16_codec. Qed.

#[export] Instance TPMU_SYM_KEY_BITS_wf : UnionWf wf_TPMU_SYM_KEY_BITS spec_TPMU_SYM_KEY_BITS.
Proof. intros z u. symmetry. apply (uo_wf _ _ _ _ _ (Tss2_MU_TPMU_SYM_KEY_BITS_ok (H:=little_endian_host))). Qed.

Definition dom_TPMU_SYM_KEY_BITS : Z -> Z -> Prop := union_dom [
  (TPM2_ALG_AES, case_dom (whole 0) dom_TPMI_AES_KEY_BITS);
  (TPM2_ALG_SM4, case_dom (whole 0) dom_TPMI_SM4_KEY_BITS);
  (TPM2_ALG_CAMELLIA, case_dom (whole 0) dom_TPMI_CAMELLIA_KEY_BITS);
  (TPM2_ALG_XOR, case_dom (whole 0) dom_TPMI_ALG_HASH)].
Lemma TPMU_SYM_KEY_BITS_codec : ucodec ifapi_json_TPMU_SYM_KEY_BITS_serialize ifapi_json_TPMU_SYM_KEY_BITS_deserialize dom_TPMU_SYM_KEY_BITS wf_TPMU_SYM_KEY_BITS spec_TPMU_SYM_KEY_BITS.
Proof.
  ustart ifapi_json_TPMU_SYM_KEY_BITS_serialize ifapi_json_TPMU_SYM_KEY_BITS_deserialize dom_TPMU_SYM_KEY_BITS.
  ucase TPMI_AES_KEY_BITS_codec.
  ucase TPMI_SM4_KEY_BITS_codec.
  ucase TPMI_CAMELLIA_KEY_BITS_codec.
  ucase TPMI_ALG_HASH_codec.
  destruct D.
Qed.

#[export] Instance TPMU_SYM_MODE_wf : UnionWf wf_TPMU_SYM_MODE spec_TPMU_SYM_MODE.
Proof. intros z u. symmetry. apply (uo_wf _ _ _ _ _ (Tss2_MU_TPMU_SYM_MODE_ok (H:=little_endian_host))). Qed.

Definition dom_TPMU_SYM_MODE : Z -> Z -> Prop := union_dom [
  (TPM2_ALG_CAMELLIA, case_dom (whole 0) dom_TPMI_ALG_SYM_MODE);
  (TPM2_ALG_SM4, case_dom (whole 0) dom_TPMI_ALG_SYM_MODE);
  (TPM2_ALG_AES, case_dom (whole 0) dom_TPMI_ALG_SYM_MODE)].
Lemma TPMU_SYM_MODE_codec : ucodec ifapi_json_TPMU_SYM_MODE_serialize ifapi_json_TPMU_SYM_MODE_deserialize dom_TPMU_SYM_MODE wf_TPMU_SYM_MODE spec_TPMU_SYM_MODE.
Proof.
  ustart ifapi_json_TPMU_SYM_MODE_serialize ifapi_json_TPMU_SYM_MODE_deserialize dom_TPMU_SYM_MODE.
  ucase TPMI_ALG_SYM_MODE_codec.
  ucase TPMI_ALG_SYM_MODE_codec.
  ucase TPMI_ALG_SYM_MODE_codec.
  destruct D.
Qed.

Definition dom_TPMT_SYM_DEF_OBJECT (x : TPMT_SYM_DEF_OBJECT) : Prop :=
  dom_TPMI_ALG_SYM_OBJECT (mget TPMT_SYM_DEF_OBJECT'algorithm x) /\
  (mget TPMT_SYM_DEF_OBJECT'algorithm x <> TPM2_ALG_NULL -> dom_TPMU_SYM_KEY_BITS (mget TPMT_SYM_DEF_OBJECT'algorithm x) (mget TPMT_SYM_DEF_OBJECT'keyBits x)) /\
  (mget TPMT_SYM_DEF_OBJECT'algorithm x <> TPM2_ALG_NULL -> dom_TPMU_SYM_MODE (mget TPMT_SYM_DEF_OBJECT'algorithm x) (mget TPMT_SYM_DEF_OBJECT'mode x)).
Lemma TPMT_SYM_DEF_OBJECT_codec : codec (fun x => ifapi_json_TPMT_SYM_DEF_OBJECT_serialize (Some x)) ifapi_json_TPMT_SYM_DEF_OBJECT_deserialize dom_TPMT_SYM_DEF_OBJECT spec_TPMT_SYM_DEF_OBJECT.
Proof.
  intros x W D. unfold ifapi_json_TPMT_SYM_DEF_OBJECT_serialize, with_in.
  eapply puts_cons; [apply puts_new_object|]. intros o (O&_&_).
  destruct (Z.eqb_spec (mget TPMT_SYM_DEF_OBJECT'algorithm x) TPM2_ALG_NULL) as [E|E].
  - jnext W Wh. jnext D Dh. jfield (TPMI_ALG_SYM_OBJECT_codec _ Wh Dh).
    jnext W Wh. jnext D Dh. jskip.
    jnext W Wh. jskip.
    apply adds_nil, recovers_with_out. intros out (?&?&?&_).
    jread.
    jnull E.
    jnull E.
    jdone_null E.
  - jnext W Wh. jnext D Dh. jfield (TPMI_ALG_SYM_OBJECT_codec _ Wh Dh).
    jnext W Wh. jnext D Dh. jtrue. jfield (TPMU_SYM_KEY_BITS_codec _ _ Wh (Dh E)).
    jnext W Wh. jtrue. jfield (TPMU_SYM_MODE_codec _ _ Wh (D E)).
    apply adds_nil, recovers_with_out. intros out (?&?&?&_).
    jread.
    jnonnull E. jread_one.
    jnonnull E. jread_one.
    jdone.
Qed.

Definition dom_TPMS_SYMCIPHER_PARMS (x : TPMS_SYMCIPHER_PARMS) : Prop :=
  dom_TPMT_SYM_DEF_OBJECT (mget TPMS_SYMCIPHER_PARMS'sym x).
Lemma TPMS_SYMCIPHER_PARMS_codec : codec (fun x => ifapi_json_TPMS_SYMCIPHER_PARMS_serialize (Some x)) ifapi_json_TPMS_SYMCIPHER_PARMS_deserialize dom_TPMS_SYMCIPHER_PARMS spec_TPMS_SYMCIPHER_PARMS.
Proof.
  intros x W D. unfold ifapi_json_TPMS_SYMCIPHER_PARMS_serialize, with_in.
  eapply puts_cons; [apply puts_new_object|]. intros o (O&_&_).
  jfield (TPMT_SYM_DEF_OBJECT_codec _ W D).
  apply adds_nil, recovers_with_out. intros out Wo.
  jread.
  jdone.
Qed.

Definition dom_TPMS_SCHEME_HASH (x : TPMS_SCHEME_HASH) : Prop :=
  dom_TPMI_ALG_HASH (mget TPMS_SCHEME_HASH'hashAlg x).
Lemma TPMS_SCHEME_HASH_codec : codec (fun x => ifapi_json_TPMS_SCHEME_HASH_serialize (Some x)) ifapi_json_TPMS_SCHEME_HASH_deserialize dom_TPMS_SCHEME_HASH spec_TPMS_SCHEME_HASH.
Proof.
  intros x W D. unfold ifapi_json_TPMS_SCHEME_HASH_serialize, with_in.
  eapply puts_cons; [apply puts_new_object|]. intros o (O&_&_).
  jfield (TPMI_ALG_HASH_codec _ W D).
  apply adds_nil, recovers_with_out. intros out Wo.
  jread.
  jdone.
Qed.

Definition dom_TPMS_SCHEME_ECDAA (x : TPMS_SCHEME_ECDAA) : Prop :=
  dom_TPMI_ALG_HASH (mget TPMS_SCHEME_ECDAA'hashAlg x) /\
  dom_UINT16 (mget TPMS_SCHEME_ECDAA'count x).
Lemma TPMS_SCHEME_ECDAA_codec : codec (fun x => ifapi_json_TPMS_SCHEME_ECDAA_serialize (Some x)) ifapi_json_TPMS_SCHEME_ECDAA_deserialize dom_TPMS_SCHEME_ECDAA spec_TPMS_SCHEME_ECDAA.
Proof.
  intros x W D. unfold ifapi_json_TPMS_SCHEME_ECDAA_serialize, with_in.
  eapply puts_cons; [apply puts_new_object|]. intros o (O&_&_).
  jnext W Wh. jnext D Dh. jfield (TPMI_ALG_HASH_codec _ Wh Dh).
  jnext W Wh. jfield (UINT16_codec _ Wh D).
  apply adds_nil, recovers_with_out. intros out (?&?&_).
  jread.
  jread.
  jdone.
Qed.

Definition dom_TPMI_ALG_KEYEDHASH_SCHEME (x : Z) : Prop := In x [TPM2_ALG_HMAC; TPM2_ALG_XOR; TPM2_ALG_NULL].
Lemma TPMI_ALG_KEYEDHASH_SCHEME_codec : codec ifapi_json_TPMI_ALG_KEYEDHASH_SCHEME_serialize ifapi_json_TPMI_ALG_KEYEDHASH_SCHEME_deserialize dom_TPMI_ALG_KEYEDHASH_SCHEME (spec_int UINT16).
Proof. subtype TPM2_ALG_ID_codec. Qed.

Definition dom_TPMS_SCHEME_HMAC := dom_TPMS_SCHEME_HASH.
Lemma TPMS_SCHEME_HMAC_codec : codec (fun x => ifapi_json_TPMS_SCHEME_HMAC_serialize (Some x)) ifapi_json_TPMS_SCHEME_HMAC_deserialize dom_TPMS_SCHEME_HMAC spec_TPMS_SCHEME_HASH.
Proof. exact TPMS_SCHEME_HASH_codec. Qed.

Definition dom_TPMS_SCHEME_XOR (x : TPMS_SCHEME_XOR) : Prop :=
  dom_TPMI_ALG_HASH (mget TPMS_SCHEME_XOR'hashAlg x) /\
  dom_TPMI_ALG_KDF (mget TPMS_SCHEME_XOR'kdf x).
Lemma TPMS_SCHEME_XOR_codec : codec (fun x => ifapi_json_TPMS_SCHEME_XOR_serialize (Some x)) ifapi_json_TPMS_SCHEME_XOR_deserialize dom_TPMS_SCHEME_XOR spec_TPMS_SCHEME_XOR.
Proof.
  intros x W D. unfold ifapi_json_TPMS_SCHEME_XOR_serialize, with_in.
  eapply puts_cons; [apply puts_new_object|]. intros o (O&_&_).
  jnext W Wh. jnext D Dh. jfield (TPMI_ALG_HASH_codec _ Wh Dh).
  jnext W Wh. jfield (TPMI_ALG_KDF_codec _ Wh D).
  apply adds_nil, recovers_with_out. intros out (?&?&_).
  jread.
  jread.
  jdone.
Qed.

#[export] Instance TPMU_SCHEME_KEYEDHASH_wf : UnionWf wf_TPMU_SCHEME_KEYEDHASH spec_TPMU_SCHEME_KEYEDHASH.
Proof. intros z u. symmetry. apply (uo_wf _ _ _ _ _ (Tss2_MU_TPMU_SCHEME_KEYEDHASH_ok (H:=little_endian_host))). Qed.

Definition dom_TPMU_SCHEME_KEYEDHASH : Z -> TPMS_SCHEME_XOR -> Prop := union_dom [
  (TPM2_ALG_HMAC, case_dom hash_of_xor dom_TPMS_SCHEME_HMAC);
  (TPM2_ALG_XOR, case_dom (whole zero_TPMS_SCHEME_XOR) dom_TPMS_SCHEME_XOR)].
Lemma TPMU_SCHEME_KEYEDHASH_codec : ucodec ifapi_json_TPMU_SCHEME_KEYEDHASH_serialize ifapi_json_TPMU_SCHEME_KEYEDHASH_deserialize dom_TPMU_SCHEME_KEYEDHASH wf_TPMU_SCHEME_KEYEDHASH spec_TPMU_SCHEME_KEYEDHASH.
Proof.
  ustart ifapi_json_TPMU_SCHEME_KEYEDHASH_serialize ifapi_json_TPMU_SCHEME_KEYEDHASH_deserialize dom_TPMU_SCHEME_KEYEDHASH.
  ucase TPMS_SCHEME_HMAC_codec.
  ucase TPMS_SCHEME_XOR_codec.
  destruct D.
Qed.

Definition dom_TPMT_KEYEDHASH_SCHEME (x : TPMT_KEYEDHASH_SCHEME) : Prop :=
  dom_TPMI_ALG_KEYEDHASH_SCHEME (mget TPMT_KEYEDHASH_SCHEME'scheme x) /\
  (mget TPMT_KEYEDHASH_SCHEME'scheme x <> TPM2_ALG_NULL -> dom_TPMU_SCHEME_KEYEDHASH (mget TPMT_KEYEDHASH_SCHEME'scheme x) (mget TPMT_KEYEDHASH_SCHEME'details x)).
Lemma TPMT_KEYEDHASH_SCHEME_codec : codec (fun x => ifapi_json_TPMT_KEYEDHASH_SCHEME_serialize (Some x)) ifapi_json_TPMT_KEYEDHASH_SCHEME_deserialize dom_TPMT_KEYEDHASH_SCHEME spec_TPMT_KEYEDHASH_SCHEME.
Proof.
  intros x W D. unfold ifapi_json_TPMT_KEYEDHASH_SCHEME_serialize, with_in.
  eapply puts_cons; [apply puts_new_object|]. intros o (O&_&_).
  destruct (Z.eqb_spec (mget TPMT_KEYEDHASH_SCHEME'scheme x) TPM2_ALG_NULL) as [E|E].
  - jnext W Wh. jnext D Dh. jfield (TPMI_ALG_KEYEDHASH_SCHEME_codec _ Wh Dh).
    jnext W Wh. jskip.
    apply adds_nil, recovers_with_out. intros out (?&?&_).
    jread.
    jnull E.
    jdone_null E.
  - jnext W Wh. jnext D Dh. jfield (TPMI_ALG_KEYEDHASH_SCHEME_codec _ Wh Dh).
    jnext W Wh. jtrue. jfield (TPMU_SCHEME_KEYEDHASH_codec _ _ Wh (D E)).
    apply adds_nil, recovers_with_out. intros out (?&?&_).
    jread.
    jnonnull E. jread_one.
    jdone.
Qed.

Definition dom_TPMS_SIG_SCHEME_RSASSA := dom_TPMS_SCHEME_HASH.
Lemma TPMS_SIG_SCHEME_RSASSA_codec : codec (fun x => ifapi_json_TPMS_SIG_SCHEME_RSASSA_serialize (Some x)) ifapi_json_TPMS_SIG_SCHEME_RSASSA_deserialize dom_TPMS_SIG_SCHEME_RSASSA spec_TPMS_SCHEME_HASH.
Proof. exact TPMS_SCHEME_HASH_codec. Qed.

Definition dom_TPMS_SIG_SCHEME_RSAPSS := dom_TPMS_SCHEME_HASH.
Lemma TPMS_SIG_SCHEME_RSAPSS_codec : codec (fun x => ifapi_json_TPMS_SIG_SCHEME_RSAPSS_serialize (Some x)) ifapi_json_TPMS_SIG_SCHEME_RSAPSS_deserialize dom_TPMS_SIG_SCHEME_RSAPSS spec_TPMS_SCHEME_HASH.
Proof. exact TPMS_SCHEME_HASH_codec. Qed.

Definition dom_TPMS_SIG_SCHEME_ECDSA := dom_TPMS_SCHEME_HASH.
Lemma TPMS_SIG_SCHEME_ECDSA_codec : codec (fun x => ifapi_json_TPMS_SIG_SCHEME_ECDSA_serialize (Some x)) ifapi_json_TPMS_SIG_SCHEME_ECDSA_deserialize dom_TPMS_SIG_SCHEME_ECDSA spec_TPMS_SCHEME_HASH.
Proof. exact TPMS_SCHEME_HASH_codec. Qed.

Definition dom_TPMS_SIG_SCHEME_SM2 := dom_TPMS_SCHEME_HASH.
Lemma TPMS_SIG_SCHEME_SM2_codec : codec (fun x => ifapi_json_TPMS_SIG_SCHEME_SM2_serialize (Some x)) ifapi_json_TPMS_SIG_SCHEME_SM2_deserialize dom_TPMS_SIG_SCHEME_SM2 spec_TPMS_SCHEME_HASH.
Proof. exact TPMS_SCHEME_HASH_codec. Qed.

Definition dom_TPMS_SIG_SCHEME_ECSCHNORR := dom_TPMS_SCHEME_HASH.
Lemma TPMS_SIG_SCHEME_ECSCHNORR_codec : codec (fun x => ifapi_json_TPMS_SIG_SCHEME_ECSCHNORR_serialize (Some x)) ifapi_json_TPMS_SIG_SCHEME_ECSCHNORR_deserialize dom_TPMS_SIG_SCHEME_ECSCHNORR spec_TPMS_SCHEME_HASH.
Proof. exact TPMS_SCHEME_HASH_codec. Qed.

Definition dom_TPMS_SIG_SCHEME_ECDAA := dom_TPMS_SCHEME_ECDAA.
Lemma TPMS_SIG_SCHEME_ECDAA_codec : codec (fun x => ifapi_json_TPMS_SIG_SCHEME_ECDAA_serialize (Some x)) ifapi_json_TPMS_SIG_SCHEME_ECDAA_deserialize dom_TPMS_SIG_SCHEME_ECDAA spec_TPMS_SCHEME_ECDAA.
Proof. exact TPMS_SCHEME_ECDAA_codec. Qed.

#[export] Instance TPMU_SIG_SCHEME_wf : UnionWf wf_TPMU_SIG_SCHEME spec_TPMU_SIG_SCHEME.
Proof. intros z u. symmetry. apply (uo_wf _ _ _ _ _ (Tss2_MU_TPMU_SIG_SCHEME_ok (H:=little_endian_host))). Qed.

Definition dom_TPMU_SIG_SCHEME : Z -> TPMS_SCHEME_ECDAA -> Prop := union_dom [
  (TPM2_ALG_RSASSA, case_dom hash_of_ecdaa dom_TPMS_SIG_SCHEME_RSASSA);
  (TPM2_ALG_RSAPSS, case_dom hash_of_ecdaa dom_TPMS_SIG_SCHEME_RSAPSS);
  (TPM2_ALG_ECDSA, case_dom hash_of_ecdaa dom_TPMS_SIG_SCHEME_ECDSA);
  (TPM2_ALG_ECDAA, case_dom (whole zero_TPMS_SCHEME_ECDAA) dom_TPMS_SIG_SCHEME_ECDAA);
  (TPM2_ALG_SM2, case_dom hash_of_ecdaa dom_TPMS_SIG_SCHEME_SM2);
  (TPM2_ALG_ECSCHNORR, case_dom hash_of_ecdaa dom_TPMS_SIG_SCHEME_ECSCHNORR);
  (TPM2_ALG_HMAC, case_dom hash_of_ecdaa dom_TPMS_SCHEME_HMAC)].
Lemma TPMU_SIG_SCHEME_codec : ucodec ifapi_json_TPMU_SIG_SCHEME_serialize ifapi_json_TPMU_SIG_SCHEME_deserialize dom_TPMU_SIG_SCHEME wf_TPMU_SIG_SCHEME spec_TPMU_SIG_SCHEME.
Proof.
  ustart ifapi_json_TPMU_SIG_SCHEME_serialize ifapi_json_TPMU_SIG_SCHEME_deserialize dom_TPMU_SIG_SCHEME.
  ucase TPMS_SIG_SCHEME_RSASSA_codec.
  ucase TPMS_SIG_SCHEME_RSAPSS_codec.
  ucase TPMS_SIG_SCHEME_ECDSA_codec.
  ucase TPMS_SIG_SCHEME_ECDAA_codec.
  ucase TPMS_SIG_SCHEME_SM2_codec.
  ucase TPMS_SIG_SCHEME_ECSCHNORR_codec.
  ucase TPMS_SCHEME_HMAC_codec.
  destruct D.
Qed.

Definition dom_TPMT_SIG_SCHEME (x : TPMT_SIG_SCHEME) : Prop :=
  dom_TPMI_ALG_SIG_SCHEME (mget TPMT_SIG_SCHEME'scheme x) /\
  (mget TPMT_SIG_SCHEME'scheme x <> TPM2_ALG_NULL -> dom_TPMU_SIG_SCHEME (mget TPMT_SIG_SCHEME'scheme x) (mget TPMT_SIG_SCHEME'details x)).
Lemma TPMT_SIG_SCHEME_codec : codec (fun x => ifapi_json_TPMT_SIG_SCHEME_serialize (Some x)) ifapi_json_TPMT_SIG_SCHEME_deserialize dom_TPMT_SIG_SCHEME spec_TPMT_SIG_SCHEME.
Proof.
  intros x W D. unfold ifapi_json_TPMT_SIG_SCHEME_serialize, with_in.
  eapply puts_cons; [apply puts_new_object|]. intros o (O&_&_).
  destruct (Z.eqb_spec (mget TPMT_SIG_SCHEME'scheme x) TPM2_ALG_NULL) as [E|E].
  - jnext W Wh. jnext D Dh. jfield (TPMI_ALG_SIG_SCHEME_codec _ Wh Dh).
    jnext W Wh. jskip.
    apply adds_nil, recovers_with_out. intros out (?&?&_).
    jread.
    jnull E.
    jdone_null E.
  - jnext W Wh. jnext D Dh. jfield (TPMI_ALG_SIG_SCHEME_codec _ Wh Dh).
    jnext W Wh. jtrue. jfield (TPMU_SIG_SCHEME_codec _ _ Wh (D E)).
    apply adds_nil, recovers_with_out. intros out (?&?&_).
    jread.
    jnonnull E. jread_one.
    jdone.
Qed.

Definition dom_TPMS_ENC_SCHEME_OAEP := dom_TPMS_SCHEME_HASH.
Lemma TPMS_ENC_SCHEME_OAEP_codec : codec (fun x => ifapi_json_TPMS_ENC_SCHEME_OAEP_serialize (Some x)) ifapi_json_TPMS_ENC_SCHEME_OAEP_deserialize dom_TPMS_ENC_SCHEME_OAEP spec_TPMS_SCHEME_HASH.
Proof. exact TPMS_SCHEME_HASH_codec. Qed.

Definition dom_TPMS_KEY_SCHEME_ECDH := dom_TPMS_SCHEME_HASH.
Lemma TPMS_KEY_SCHEME_ECDH_codec : codec (fun x => ifapi_json_TPMS_KEY_SCHEME_ECDH_serialize (Some x)) ifapi_json_TPMS_KEY_SCHEME_ECDH_deserialize dom_TPMS_KEY_SCHEME_ECDH spec_TPMS_SCHEME_HASH.
Proof. exact TPMS_SCHEME_HASH_codec. Qed.

Definition dom_TPMS_SCHEME_MGF1 := dom_TPMS_SCHEME_HASH.
Lemma TPMS_SCHEME_MGF1_codec : codec (fun x => ifapi_json_TPMS_SCHEME_MGF1_serialize (Some x)) ifapi_json_TPMS_SCHEME_MGF1_deserialize dom_TPMS_SCHEME_MGF1 spec_TPMS_SCHEME_HASH.
Proof. exact TPMS_SCHEME_HASH_codec. Qed.

Definition dom_TPMS_SCHEME_KDF1_SP800_56A := dom_TPMS_SCHEME_HASH.
Lemma TPMS_SCHEME_KDF1_SP800_56A_codec : codec (fun x => ifapi_json_TPMS_SCHEME_KDF1_SP800_56A_serialize (Some x)) ifapi_json_TPMS_SCHEME_KDF1_SP800_56A_deserialize dom_TPMS_SCHEME_KDF1_SP800_56A spec_TPMS_SCHEME_HASH.
Proof. exact TPMS_SCHEME_HASH_codec. Qed.

Definition dom_TPMS_SCHEME_KDF1_SP800_108 := dom_TPMS_SCHEME_HASH.
Lemma TPMS_SCHEME_KDF1_SP800_108_codec : codec (fun x => ifapi_json_TPMS_SCHEME_KDF1_SP800_108_serialize (Some x)) ifapi_json_TPMS_SCHEME_KDF1_SP800_108_deserialize dom_TPMS_SCHEME_KDF1_SP800_108 spec_TPMS_SCHEME_HASH.
Proof. exact TPMS_SCHEME_HASH_codec. Qed.

#[export] Instance TPMU_KDF_SCHEME_wf : UnionWf wf_TPMU_KDF_SCHEME spec_TPMU_KDF_SCHEME.
Proof. intros z u. symmetry. apply (uo_wf _ _ _ _ _ (Tss2_MU_TPMU_KDF_SCHEME_ok (H:=little_endian_host))). Qed.

Definition dom_TPMU_KDF_SCHEME : Z -> TPMS_SCHEME_HASH -> Prop := union_dom [
  (TPM2_ALG_MGF1, case_dom (whole zero_TPMS_SCHEME_HASH) dom_TPMS_SCHEME_MGF1);
  (TPM2_ALG_KDF1_SP800_56A, case_dom (whole zero_TPMS_SCHEME_HASH) dom_TPMS_SCHEME_KDF1_SP800_56A);
  (TPM2_ALG_KDF1_SP800_108, case_dom (whole zero_TPMS_SCHEME_HASH) dom_TPMS_SCHEME_KDF1_SP800_108)].
Lemma TPMU_KDF_SCHEME_codec : ucodec ifapi_json_TPMU_KDF_SCHEME_serialize ifapi_json_TPMU_KDF_SCHEME_deserialize dom_TPMU_KDF_SCHEME wf_TPMU_KDF_SCHEME spec_TPMU_KDF_SCHEME.
Proof.
  ustart ifapi_json_TPMU_KDF_SCHEME_serialize ifapi_json_TPMU_KDF_SCHEME_deserialize dom_TPMU_KDF_SCHEME.
  ucase TPMS_SCHEME_MGF1_codec.
  ucase TPMS_SCHEME_KDF1_SP800_56A_codec.
  ucase TPMS_SCHEME_KDF1_SP800_108_codec.
  destruct D.
Qed.

Definition dom_TPMT_KDF_SCHEME (x : TPMT_KDF_SCHEME) : Prop :=
  dom_TPMI_ALG_KDF (mget TPMT_KDF_SCHEME'scheme x) /\
  (mget TPMT_KDF_SCHEME'scheme x <> TPM2_ALG_NULL -> dom_TPMU_KDF_SCHEME (mget TPMT_KDF_SCHEME'scheme x) (mget TPMT_KDF_SCHEME'details x)).
Lemma TPMT_KDF_SCHEME_codec : codec (fun x => ifapi_json_TPMT_KDF_SCHEME_serialize (Some x)) ifapi_json_TPMT_KDF_SCHEME_deserialize dom_TPMT_KDF_SCHEME spec_TPMT_KDF_SCHEME.
Proof.
  intros x W D. unfold ifapi_json_TPMT_KDF_SCHEME_serialize, with_in.
  eapply puts_cons; [apply puts_new_object|]. intros o (O&_&_).
  destruct (Z.eqb_spec (mget TPMT_KDF_SCHEME'scheme x) TPM2_ALG_NULL) as [E|E].
  - jnext W Wh. jnext D Dh. jfield (TPMI_ALG_KDF_codec _ Wh Dh).
    jnext W Wh. jskip.
    apply adds_nil, recovers_with_out. intros out (?&?&_).
    jread.
    jnull E.
    jdone_null E.
  - jnext W Wh. jnext D Dh. jfield (TPMI_ALG_KDF_codec _ Wh Dh).
    jnext W Wh. jtrue. jfield (TPMU_KDF_SCHEME_codec _ _ Wh (D E)).
    apply adds_nil, recovers_with_out. intros out (?&?&_).
    jread.
    jnonnull E. jread_one.
    jdone.
Qed.

#[export] Instance TPMU_ASYM_SCHEME_wf : UnionWf wf_TPMU_ASYM_SCHEME spec_TPMU_ASYM_SCHEME.
Proof. intros z u. symmetry. apply (uo_wf _ _ _ _ _ (Tss2_MU_TPMU_ASYM_SCHEME_ok (H:=little_endian_host))). Qed.

Definition dom_TPMU_ASYM_SCHEME : Z -> TPMS_SCHEME_ECDAA -> Prop := union_dom [
  (TPM2_ALG_ECDH, case_dom hash_of_ecdaa dom_TPMS_KEY_SCHEME_ECDH);
  (TPM2_ALG_RSASSA, case_dom hash_of_ecdaa dom_TPMS_SIG_SCHEME_RSASSA);
  (TPM2_ALG_RSAPSS, case_dom hash_of_ecdaa dom_TPMS_SIG_SCHEME_RSAPSS);
  (TPM2_ALG_ECDSA, case_dom hash_of_ecdaa dom_TPMS_SIG_SCHEME_ECDSA);
  (TPM2_ALG_ECDAA, case_dom (whole zero_TPMS_SCHEME_ECDAA) dom_TPMS_SIG_SCHEME_ECDAA);
  (TPM2_ALG_SM2, case_dom hash_of_ecdaa dom_TPMS_SIG_SCHEME_SM2);
  (TPM2_ALG_ECSCHNORR, case_dom hash_of_ecdaa dom_TPMS_SIG_SCHEME_ECSCHNORR);
  (TPM2_ALG_OAEP, case_dom hash_of_ecdaa dom_TPMS_ENC_SCHEME_OAEP);
  (TPM2_ALG_MLDSA, case_dom hash_of_ecdaa dom_TPMS_SCHEME_HASH)].
Lemma TPMU_ASYM_SCHEME_codec : ucodec ifapi_json_TPMU_ASYM_SCHEME_serialize ifapi_json_TPMU_ASYM_SCHEME_deserialize dom_TPMU_ASYM_SCHEME wf_TPMU_ASYM_SCHEME spec_TPMU_ASYM_SCHEME.
Proof.
  ustart ifapi_json_TPMU_ASYM_SCHEME_serialize ifapi_json_TPMU_ASYM_SCHEME_deserialize dom_TPMU_ASYM_SCHEME.
  ucase TPMS_KEY_SCHEME_ECDH_codec.
  ucase TPMS_SIG_SCHEME_RSASSA_codec.
  ucase TPMS_SIG_SCHEME_RSAPSS_codec.
  ucase TPMS_SIG_SCHEME_ECDSA_codec.
  ucase TPMS_SIG_SCHEME_ECDAA_codec.
  ucase TPMS_SIG_SCHEME_SM2_codec.
  ucase TPMS_SIG_SCHEME_ECSCHNORR_codec.
  ucase TPMS_ENC_SCHEME_OAEP_codec.
  ucase TPMS_SCHEME_HASH_codec.
  destruct D.
Qed.

Definition dom_TPMI_ALG_RSA_SCHEME (x : Z) : Prop := In x [TPM2_ALG_RSAES; TPM2_ALG_OAEP; TPM2_ALG_RSASSA; TPM2_ALG_RSAPSS; TPM2_ALG_NULL].
Lemma TPMI_ALG_RSA_SCHEME_codec : codec ifapi_json_TPMI_ALG_RSA_SCHEME_serialize ifapi_json_TPMI_ALG_RSA_SCHEME_deserialize dom_TPMI_ALG_RSA_SCHEME (spec_int UINT16).
Proof. subtype TPM2_ALG_ID_codec. Qed.

Definition dom_TPMT_RSA_SCHEME (x : TPMT_RSA_SCHEME) : Prop :=
  dom_TPMI_ALG_RSA_SCHEME (mget TPMT_RSA_SCHEME'scheme x) /\
  (mget TPMT_RSA_SCHEME'scheme x <> TPM2_ALG_NULL -> dom_TPMU_ASYM_SCHEME (mget TPMT_RSA_SCHEME'scheme x) (mget TPMT_RSA_SCHEME'details x)).
Lemma TPMT_RSA_SCHEME_codec : codec (fun x => ifapi_json_TPMT_RSA_SCHEME_serialize (Some x)) ifapi_json_TPMT_RSA_SCHEME_deserialize dom_TPMT_RSA_SCHEME spec_TPMT_RSA_SCHEME.
Proof.
  intros x W D. unfold ifapi_json_TPMT_RSA_SCHEME_serialize, with_in.
  eapply puts_cons; [apply puts_new_object|]. intros o (O&_&_).
  destruct (Z.eqb_spec (mget TPMT_RSA_SCHEME'scheme x) TPM2_ALG_NULL) as [E|E].
  - jnext W Wh. jnext D Dh. jfield (TPMI_ALG_RSA_SCHEME_codec _ Wh Dh).
    jnext W Wh. jskip.
    apply adds_nil, recovers_with_out. intros out (?&?&_).
    jread.
    jnull E.
    jdone_null E.
  - jnext W Wh. jnext D Dh. jfield (TPMI_ALG_RSA_SCHEME_codec _ Wh Dh).
    jnext W Wh. jtrue. jfield (TPMU_ASYM_SCHEME_codec _ _ Wh (D E)).
    apply adds_nil, recovers_with_out. intros out (?&?&_).
    jread.
    jnonnull E. jread_one.
    jdone.
Qed.

Definition dom_TPM2B_PUBLIC_KEY_RSA : TPM2B -> Prop := dom_2b (TPM2_MAX_RSA_KEY_BYTES).
Lemma TPM2B_PUBLIC_KEY_RSA_codec : codec (fun x => ifapi_json_TPM2B_PUBLIC_KEY_RSA_serialize (Some x)) ifapi_json_TPM2B_PUBLIC_KEY_RSA_deserialize dom_TPM2B_PUBLIC_KEY_RSA spec_TPM2B_PUBLIC_KEY_RSA.
Proof. apply tpm2b_codec; cap_ok. Qed.

Definition dom_TPMI_RSA_KEY_BITS (x : Z) : Prop := In x [1024; 2048; 3072; 4096].
Lemma TPMI_RSA_KEY_BITS_codec : codec ifapi_json_TPMI_RSA_KEY_BITS_serialize ifapi_json_TPMI_RSA_KEY_BITS_deserialize dom_TPMI_RSA_KEY_BITS (spec_int UINT16).
Proof. subtype UINT16_codec. Qed.

Definition dom_TPM2B_ECC_PARAMETER : TPM2B -> Prop := dom_2b (TPM2_MAX_ECC_KEY_BYTES).
Lemma TPM2B_ECC_PARAMETER_codec : codec (fun x => ifapi_json_TPM2B_ECC_PARAMETER_serialize (Some x)) ifapi_json_TPM2B_ECC_PARAMETER_deserialize dom_TPM2B_ECC_PARAMETER spec_TPM2B_ECC_PARAMETER.
Proof. apply tpm2b_codec; cap_ok. Qed.

Definition dom_TPMS_ECC_POINT (x : TPMS_ECC_POINT) : Prop :=
  dom_TPM2B_ECC_PARAMETER (mget TPMS_ECC_POINT'x x) /\
  dom_TPM2B_ECC_PARAMETER (mget TPMS_ECC_POINT'y x).
Lemma TPMS_ECC_POINT_codec : codec (fun x => ifapi_json_TPMS_ECC_POINT_serialize (Some x)) ifapi_json_TPMS_ECC_POINT_deserialize dom_TPMS_ECC_POINT spec_TPMS_ECC_POINT.
Proof.
  intros x W D. unfold ifapi_json_TPMS_ECC_POINT_serialize, with_in.
  eapply puts_cons; [apply puts_new_object|]. intros o (O&_&_).
  jnext W Wh. jnext D Dh. jfield (TPM2B_ECC_PARAMETER_codec _ Wh Dh).
  jnext W Wh. jfield (TPM2B_ECC_PARAMETER_codec _ Wh D).
  apply adds_nil, recovers_with_out. intros out (?&?&_).
  jread.
  jread.
  jdone.
Qed.

Definition dom_TPMI_ALG_ECC_SCHEME (x : Z) : Prop := In x [TPM2_ALG_ECDSA; TPM2_ALG_ECDAA; TPM2_ALG_SM2; TPM2_ALG_ECSCHNORR; TPM2_ALG_ECDH; TPM2_ALG_NULL].
Lemma TPMI_ALG_ECC_SCHEME_codec : codec ifapi_json_TPMI_ALG_ECC_SCHEME_serialize ifapi_json_TPMI_ALG_ECC_SCHEME_deserialize dom_TPMI_ALG_ECC_SCHEME (spec_int UINT16).
Proof. subtype TPM2_ALG_ID_codec. Qed.

Definition dom_TPMI_ECC_CURVE := dom_TPM2_ECC_CURVE.
Lemma TPMI_ECC_CURVE_codec :
  codec ifapi_json_TPMI_ECC_CURVE_serialize ifapi_json_TPMI_ECC_CURVE_deserialize
    dom_TPMI_ECC_CURVE (spec_int UINT16).
Proof.
  eapply codec_weaken; [apply filter_codec; [done|exact TPM2_ECC_CURVE_codec]|].
  intros x D. split; [exact D|]. by_values D.
Qed.

Definition dom_TPMT_ECC_SCHEME (x : TPMT_ECC_SCHEME) : Prop :=
  dom_TPMI_ALG_ECC_SCHEME (mget TPMT_ECC_SCHEME'scheme x) /\
  (mget TPMT_ECC_SCHEME'scheme x <> TPM2_ALG_NULL -> dom_TPMU_ASYM_SCHEME (mget TPMT_ECC_SCHEME'scheme x) (mget TPMT_ECC_SCHEME'details x)).
Lemma TPMT_ECC_SCHEME_codec : codec (fun x => ifapi_json_TPMT_ECC_SCHEME_serialize (Some x)) ifapi_json_TPMT_ECC_SCHEME_deserialize dom_TPMT_ECC_SCHEME spec_TPMT_ECC_SCHEME.
Proof.
  intros x W D. unfold ifapi_json_TPMT_ECC_SCHEME_serialize, with_in.
  eapply puts_cons; [apply puts_new_object|]. intros o (O&_&_).
  destruct (Z.eqb_spec (mget TPMT_ECC_SCHEME'scheme x) TPM2_ALG_NULL) as [E|E].
  - jnext W Wh. jnext D Dh. jfield (TPMI_ALG_ECC_SCHEME_codec _ Wh Dh).
    jnext W Wh. jskip.
    apply adds_nil, recovers_with_out. intros out (?&?&_).
    jread.
    jnull E.
    jdone_null E.
  - jnext W Wh. jnext D Dh. jfield (TPMI_ALG_ECC_SCHEME_codec _ Wh Dh).
    jnext W Wh. jtrue. jfield (TPMU_ASYM_SCHEME_codec _ _ Wh (D E)).
    apply adds_nil, recovers_with_out. intros out (?&?&_).
    jread.
    jnonnull E. jread_one.
    jdone.
Qed.

Definition dom_TPMS_SIGNATURE_RSA (x : TPMS_SIGNATURE_RSA) : Prop :=
  dom_TPMI_ALG_HASH (mget TPMS_SIGNATURE_RSA'hash x) /\
  dom_TPM2B_PUBLIC_KEY_RSA (mget TPMS_SIGNATURE_RSA'sig x).
Lemma TPMS_SIGNATURE_RSA_codec : codec (fun x => ifapi_json_TPMS_SIGNATURE_RSA_serialize (Some x)) ifapi_json_TPMS_SIGNATURE_RSA_deserialize dom_TPMS_SIGNATURE_RSA spec_TPMS_SIGNATURE_RSA.
Proof.
  intros x W D. unfold ifapi_json_TPMS_SIGNATURE_RSA_serialize, with_in.
  eapply puts_cons; [apply puts_new_object|]. intros o (O&_&_).
  jnext W Wh. jnext D Dh. jfield (TPMI_ALG_HASH_codec _ Wh Dh).
  jnext W Wh. jfield (TPM2B_PUBLIC_KEY_RSA_codec _ Wh D).
  apply adds_nil, recovers_with_out. intros out (?&?&_).
  jread.
  jread.
  jdone.
Qed.

Definition dom_TPMS_SIGNATURE_RSASSA := dom_TPMS_SIGNATURE_RSA.
Lemma TPMS_SIGNATURE_RSASSA_codec : codec (fun x => ifapi_json_TPMS_SIGNATURE_RSASSA_serialize (Some x)) ifapi_json_TPMS_SIGNATURE_RSASSA_deserialize dom_TPMS_SIGNATURE_RSASSA spec_TPMS_SIGNATURE_RSA.
Proof. exact TPMS_SIGNATURE_RSA_codec. Qed.

Definition dom_TPMS_SIGNATURE_RSAPSS := dom_TPMS_SIGNATURE_RSA.
Lemma TPMS_SIGNATURE_RSAPSS_codec : codec (fun x => ifapi_json_TPMS_SIGNATURE_RSAPSS_serialize (Some x)) ifapi_json_TPMS_SIGNATURE_RSAPSS_deserialize dom_TPMS_SIGNATURE_RSAPSS spec_TPMS_SIGNATURE_RSA.
Proof. exact TPMS_SIGNATURE_RSA_codec. Qed.

Definition dom_TPMS_SIGNATURE_ECC (x : TPMS_SIGNATURE_ECC) : Prop :=
  dom_TPMI_ALG_HASH (mget TPMS_SIGNATURE_ECC'hash x) /\
  dom_TPM2B_ECC_PARAMETER (mget TPMS_SIGNATURE_ECC'signatureR x) /\
  dom_TPM2B_ECC_PARAMETER (mget TPMS_SIGNATURE_ECC'signatureS x).
Lemma TPMS_SIGNATURE_ECC_codec : codec (fun x => ifapi_json_TPMS_SIGNATURE_ECC_serialize (Some x)) ifapi_json_TPMS_SIGNATURE_ECC_deserialize dom_TPMS_SIGNATURE_ECC spec_TPMS_SIGNATURE_ECC.
Proof.
  intros x W D. unfold ifapi_json_TPMS_SIGNATURE_ECC_serialize, with_in.
  eapply puts_cons; [apply puts_new_object|]. intros o (O&_&_).
  jnext W Wh. jnext D Dh. jfield (TPMI_ALG_HASH_codec _ Wh Dh).
  jnext W Wh. jnext D Dh. jfield (TPM2B_ECC_PARAMETER_codec _ Wh Dh).
  jnext W Wh. jfield (TPM2B_ECC_PARAMETER_codec _ Wh D).
  apply adds_nil, recovers_with_out. intros out (?&?&?&_).
  jread.
  jread.
  jread.
  jdone.
Qed.

Definition dom_TPMS_SIGNATURE_ECDSA := dom_TPMS_SIGNATURE_ECC.
Lemma TPMS_SIGNATURE_ECDSA_codec : codec (fun x => ifapi_json_TPMS_SIGNATURE_ECDSA_serialize (Some x)) ifapi_json_TPMS_SIGNATURE_ECDSA_deserialize dom_TPMS_SIGNATURE_ECDSA spec_TPMS_SIGNATURE_ECC.
Proof. exact TPMS_SIGNATURE_ECC_codec. Qed.

Definition dom_TPMS_SIGNATURE_ECDAA := dom_TPMS_SIGNATURE_ECC.
Lemma TPMS_SIGNATURE_ECDAA_codec : codec (fun x => ifapi_json_TPMS_SIGNATURE_ECDAA_serialize (Some x)) ifapi_json_TPMS_SIGNATURE_ECDAA_deserialize dom_TPMS_SIGNATURE_ECDAA spec_TPMS_SIGNATURE_ECC.
Proof. exact TPMS_SIGNATURE_ECC_codec. Qed.

Definition dom_TPMS_SIGNATURE_SM2 := dom_TPMS_SIGNATURE_ECC.
Lemma TPMS_SIGNATURE_SM2_codec : codec (fun x => ifapi_json_TPMS_SIGNATURE_SM2_serialize (Some x)) ifapi_json_TPMS_SIGNATURE_SM2_deserialize dom_TPMS_SIGNATURE_SM2 spec_TPMS_SIGNATURE_ECC.
Proof. exact TPMS_SIGNATURE_ECC_codec. Qed.

Definition dom_TPMS_SIGNATURE_ECSCHNORR := dom_TPMS_SIGNATURE_ECC.
Lemma TPMS_SIGNATURE_ECSCHNORR_codec : codec (fun x => ifapi_json_TPMS_SIGNATURE_ECSCHNORR_serialize (Some x)) ifapi_json_TPMS_SIGNATURE_ECSCHNORR_deserialize dom_TPMS_SIGNATURE_ECSCHNORR spec_TPMS_SIGNATURE_ECC.
Proof. exact TPMS_SIGNATURE_ECC_codec. Qed.

Definition dom_TPM2B_MLDSA_SIGNATURE : TPM2B -> Prop := dom_2b (TPM2_MAX_MLDSA_SIGNATURE_SIZE).
Lemma TPM2B_MLDSA_SIGNATURE_codec : codec (fun x => ifapi_json_TPM2B_MLDSA_SIGNATURE_serialize (Some x)) ifapi_json_TPM2B_MLDSA_SIGNATURE_deserialize dom_TPM2B_MLDSA_SIGNATURE spec_TPM2B_MLDSA_SIGNATURE.
Proof. apply tpm2b_codec; cap_ok. Qed.

Definition dom_TPMS_SIGNATURE_MLDSA (x : TPMS_SIGNATURE_MLDSA) : Prop :=
  dom_TPMI_ALG_HASH (mget TPMS_SIGNATURE_MLDSA'hash x) /\
  dom_TPM2B_MLDSA_SIGNATURE (mget TPMS_SIGNATURE_MLDSA'sig x).
Lemma TPMS_SIGNATURE_MLDSA_codec : codec (fun x => ifapi_json_TPMS_SIGNATURE_MLDSA_serialize (Some x)) ifapi_json_TPMS_SIGNATURE_MLDSA_deserialize dom_TPMS_SIGNATURE_MLDSA spec_TPMS_SIGNATURE_MLDSA.
Proof.
  intros x W D. unfold ifapi_json_TPMS_SIGNATURE_MLDSA_serialize, with_in.
  eapply puts_cons; [apply puts_new_object|]. intros o (O&_&_).
  jnext W Wh. jnext D Dh. jfield (TPMI_ALG_HASH_codec _ Wh Dh).
  jnext W Wh. jfield (TPM2B_MLDSA_SIGNATURE_codec _ Wh D).
  apply adds_nil, recovers_with_out. intros out (?&?&_).
  jread.
  jread.
  jdone.
Qed.

Definition dom_TPM2B_MLDSA_PUBLIC_KEY : TPM2B -> Prop := dom_2b (TPM2_MAX_MLDSA_PUBLIC_KEY_SIZE).
Lemma TPM2B_MLDSA_PUBLIC_KEY_codec : codec (fun x => ifapi_json_TPM2B_MLDSA_PUBLIC_KEY_serialize (Some x)) ifapi_json_TPM2B_MLDSA_PUBLIC_KEY_deserialize dom_TPM2B_MLDSA_PUBLIC_KEY spec_TPM2B_MLDSA_PUBLIC_KEY.
Proof. apply tpm2b_codec; cap_ok. Qed.

Definition dom_TPM2B_MLKEM_PUBLIC_KEY : TPM2B -> Prop := dom_2b (TPM2_MAX_MLKEM_PUBLIC_KEY_SIZE).
Lemma TPM2B_MLKEM_PUBLIC_KEY_codec : codec (fun x => ifapi_json_TPM2B_MLKEM_PUBLIC_KEY_serialize (Some x)) ifapi_json_TPM2B_MLKEM_PUBLIC_KEY_deserialize dom_TPM2B_MLKEM_PUBLIC_KEY spec_TPM2B_MLKEM_PUBLIC_KEY.
Proof. apply tpm2b_codec; cap_ok. Qed.

Definition dom_TPMS_ML_PARAMETER_SET (_ : TPMS_ML_PARAMETER_SET) : Prop := True.
Lemma TPMS_ML_PARAMETER_SET_codec : codec (fun x => ifapi_json_TPMS_ML_PARAMETER_SET_serialize (Some x)) ifapi_json_TPMS_ML_PARAMETER_SET_deserialize dom_TPMS_ML_PARAMETER_SET spec_TPMS_ML_PARAMETER_SET.
Proof.
  intros x W D. unfold ifapi_json_TPMS_ML_PARAMETER_SET_serialize, with_in, int64_field.
  eapply puts_cons; [apply puts_new_object|]. intros o (O&_&_).
  jfield (uint_codec TSS2_FAPI_RC_MEMORY 32 UINT32 (fun z H => H) ltac:(lia) _ W D).
  apply adds_nil, recovers_with_out. intros out Wo.
  jread.
  jdone.
Qed.

Definition dom_TPMS_MLDSA_PARMS (x : TPMS_MLDSA_PARMS) : Prop :=
  dom_TPMI_ALG_HASH (mget TPMS_MLDSA_PARMS'nameAlg x) /\
  dom_TPMS_ML_PARAMETER_SET (mget TPMS_MLDSA_PARMS'parameterSet x).
Lemma TPMS_MLDSA_PARMS_codec : codec (fun x => ifapi_json_TPMS_MLDSA_PARMS_serialize (Some x)) ifapi_json_TPMS_MLDSA_PARMS_deserialize dom_TPMS_MLDSA_PARMS spec_TPMS_MLDSA_PARMS.
Proof.
  intros x W D. unfold ifapi_json_TPMS_MLDSA_PARMS_serialize, with_in.
  eapply puts_cons; [apply puts_new_object|]. intros o (O&_&_).
  jnext W Wh. jnext D Dh. jfield (TPMI_ALG_HASH_codec _ Wh Dh).
  jnext W Wh. jfield (TPMS_ML_PARAMETER_SET_codec _ Wh D).
  apply adds_nil, recovers_with_out. intros out (?&?&_).
  jread.
  jread.
  jdone.
Qed.

Definition dom_TPMS_MLKEM_PARMS (x : TPMS_MLKEM_PARMS) : Prop :=
  dom_TPMI_ALG_HASH (mget TPMS_MLKEM_PARMS'nameAlg x) /\
  dom_TPMS_ML_PARAMETER_SET (mget TPMS_MLKEM_PARMS'parameterSet x).
Lemma TPMS_MLKEM_PARMS_codec : codec (fun x => ifapi_json_TPMS_MLKEM_PARMS_serialize (Some x)) ifapi_json_TPMS_MLKEM_PARMS_deserialize dom_TPMS_MLKEM_PARMS spec_TPMS_MLKEM_PARMS.
Proof.
  intros x W D. unfold ifapi_json_TPMS_MLKEM_PARMS_serialize, with_in.
  eapply puts_cons; [apply puts_new_object|]. intros o (O&_&_).
  jnext W Wh. jnext D Dh. jfield (TPMI_ALG_HASH_codec _ Wh Dh).
  jnext W Wh. jfield (TPMS_ML_PARAMETER_SET_codec _ Wh D).
  apply adds_nil, recovers_with_out. intros out (?&?&_).
  jread.
  jread.
  jdone.
Qed.

#[export] Instance TPMU_SIGNATURE_wf : UnionWf wf_TPMU_SIGNATURE spec_TPMU_SIGNATURE.
Proof. intros z u. symmetry. apply (uo_wf _ _ _ _ _ (Tss2_MU_TPMU_SIGNATURE_ok (H:=little_endian_host))). Qed.

Definition dom_TPMU_SIGNATURE : Z -> TPMU_SIGNATURE -> Prop := union_dom [
  (TPM2_ALG_RSASSA, case_dom TPMU_SIGNATURE'TPMS_SIGNATURE_RSA dom_TPMS_SIGNATURE_RSASSA);
  (TPM2_ALG_RSAPSS, case_dom TPMU_SIGNATURE'TPMS_SIGNATURE_RSA dom_TPMS_SIGNATURE_RSAPSS);
  (TPM2_ALG_ECDSA, case_dom TPMU_SIGNATURE'TPMS_SIGNATURE_ECC dom_TPMS_SIGNATURE_ECDSA);
  (TPM2_ALG_ECDAA, case_dom TPMU_SIGNATURE'TPMS_SIGNATURE_ECC dom_TPMS_SIGNATURE_ECDAA);
  (TPM2_ALG_SM2, case_dom TPMU_SIGNATURE'TPMS_SIGNATURE_ECC dom_TPMS_SIGNATURE_SM2);
  (TPM2_ALG_ECSCHNORR, case_dom TPMU_SIGNATURE'TPMS_SIGNATURE_ECC dom_TPMS_SIGNATURE_ECSCHNORR);
  (TPM2_ALG_HMAC, case_dom TPMU_SIGNATURE'TPMT_HA dom_TPMT_HA);
  (TPM2_ALG_MLDSA, case_dom TPMU_SIGNATURE'TPMS_SIGNATURE_MLDSA dom_TPMS_SIGNATURE_MLDSA)].
Lemma TPMU_SIGNATURE_codec : ucodec ifapi_json_TPMU_SIGNATURE_serialize ifapi_json_TPMU_SIGNATURE_deserialize dom_TPMU_SIGNATURE wf_TPMU_SIGNATURE spec_TPMU_SIGNATURE.
Proof.
  ustart ifapi_json_TPMU_SIGNATURE_serialize ifapi_json_TPMU_SIGNATURE_deserialize dom_TPMU_SIGNATURE.
  ucase TPMS_SIGNATURE_RSASSA_codec.
  ucase TPMS_SIGNATURE_RSAPSS_codec.
  ucase TPMS_SIGNATURE_ECDSA_codec.
  ucase TPMS_SIGNATURE_ECDAA_codec.
  ucase TPMS_SIGNATURE_SM2_codec.
  ucase TPMS_SIGNATURE_ECSCHNORR_codec.
  ucase TPMT_HA_codec.
  ucase TPMS_SIGNATURE_MLDSA_codec.
  destruct D.
Qed.

Definition dom_TPMT_SIGNATURE (x : TPMT_SIGNATURE) : Prop :=
  dom_TPMI_ALG_SIG_SCHEME (mget TPMT_SIGNATURE'sigAlg x) /\
  (mget TPMT_SIGNATURE'sigAlg x <> TPM2_ALG_NULL -> dom_TPMU_SIGNATURE (mget TPMT_SIGNATURE'sigAlg x) (mget TPMT_SIGNATURE'signature x)).
Lemma TPMT_SIGNATURE_codec : codec (fun x => ifapi_json_TPMT_SIGNATURE_serialize (Some x)) ifapi_json_TPMT_SIGNATURE_deserialize dom_TPMT_SIGNATURE spec_TPMT_SIGNATURE.
Proof.
  intros x W D. unfold ifapi_json_TPMT_SIGNATURE_serialize, with_in.
  eapply puts_cons; [apply puts_new_object|]. intros o (O&_&_).
  destruct (Z.eqb_spec (mget TPMT_SIGNATURE'sigAlg x) TPM2_ALG_NULL) as [E|E].
  - jnext W Wh. jnext D Dh. jfield (TPMI_ALG_SIG_SCHEME_codec _ Wh Dh).
    jnext W Wh. jskip.
    apply adds_nil, recovers_with_out. intros out (?&?&_).
    jread.
    jnull E.
    jdone_null E.
  - jnext W Wh. jnext D Dh. jfield (TPMI_ALG_SIG_SCHEME_codec _ Wh Dh).
    jnext W Wh. jtrue. jfield (TPMU_SIGNATURE_codec _ _ Wh (D E)).
    apply adds_nil, recovers_with_out. intros out (?&?&_).
    jread.
    jnonnull E. jread_one.
    jdone.
Qed.

Definition dom_TPM2B_ENCRYPTED_SECRET : TPM2B -> Prop := dom_2b (lsize lay_TPMU_ENCRYPTED_SECRET).
Lemma TPM2B_ENCRYPTED_SECRET_codec : codec (fun x => ifapi_json_TPM2B_ENCRYPTED_SECRET_serialize (Some x)) ifapi_json_TPM2B_ENCRYPTED_SECRET_deserialize dom_TPM2B_ENCRYPTED_SECRET spec_TPM2B_ENCRYPTED_SECRET.
Proof. apply tpm2b_codec; cap_ok. Qed.

Definition dom_TPMI_ALG_PUBLIC (x : Z) : Prop := In x [TPM2_ALG_RSA; TPM2_ALG_KEYEDHASH; TPM2_ALG_ECC; TPM2_ALG_SYMCIPHER; TPM2_ALG_NULL].
Lemma TPMI_ALG_PUBLIC_codec : codec ifapi_json_TPMI_ALG_PUBLIC_serialize ifapi_json_TPMI_ALG_PUBLIC_deserialize dom_TPMI_ALG_PUBLIC (spec_int UINT16).
Proof. subtype TPM2_ALG_ID_codec. Qed.

#[export] Instance TPMU_PUBLIC_ID_wf : UnionWf wf_TPMU_PUBLIC_ID spec_TPMU_PUBLIC_ID.
Proof. intros z u. symmetry. apply (uo_wf _ _ _ _ _ (Tss2_MU_TPMU_PUBLIC_ID_ok (H:=little_endian_host))). Qed.

Definition dom_TPMU_PUBLIC_ID : Z -> TPMU_PUBLIC_ID -> Prop := union_dom [
  (TPM2_ALG_KEYEDHASH, case_dom TPMU_PUBLIC_ID'TPM2B_DIGEST dom_TPM2B_DIGEST);
  (TPM2_ALG_SYMCIPHER, case_dom TPMU_PUBLIC_ID'TPM2B_DIGEST dom_TPM2B_DIGEST);
  (TPM2_ALG_RSA, case_dom TPMU_PUBLIC_ID'TPM2B_PUBLIC_KEY_RSA dom_TPM2B_PUBLIC_KEY_RSA);
  (TPM2_ALG_ECC, case_dom TPMU_PUBLIC_ID'TPMS_ECC_POINT dom_TPMS_ECC_POINT);
  (TPM2_ALG_MLDSA, case_dom TPMU_PUBLIC_ID'TPM2B_MLDSA_PUBLIC_KEY dom_TPM2B_MLDSA_PUBLIC_KEY);
  (TPM2_ALG_MLKEM, case_dom TPMU_PUBLIC_ID'TPM2B_MLKEM_PUBLIC_KEY dom_TPM2B_MLKEM_PUBLIC_KEY)].
Lemma TPMU_PUBLIC_ID_codec : ucodec ifapi_json_TPMU_PUBLIC_ID_serialize ifapi_json_TPMU_PUBLIC_ID_deserialize dom_TPMU_PUBLIC_ID wf_TPMU_PUBLIC_ID spec_TPMU_PUBLIC_ID.
Proof.
  ustart ifapi_json_TPMU_PUBLIC_ID_serialize ifapi_json_TPMU_PUBLIC_ID_deserialize dom_TPMU_PUBLIC_ID.
  ucase TPM2B_DIGEST_codec.
  ucase TPM2B_DIGEST_codec.
  ucase TPM2B_PUBLIC_KEY_RSA_codec.
  ucase TPMS_ECC_POINT_codec.
  ucase TPM2B_MLDSA_PUBLIC_KEY_codec.
  ucase TPM2B_MLKEM_PUBLIC_KEY_codec.
  destruct D.
Qed.

Definition dom_TPMS_KEYEDHASH_PARMS (x : TPMS_KEYEDHASH_PARMS) : Prop :=
  dom_TPMT_KEYEDHASH_SCHEME (mget TPMS_KEYEDHASH_PARMS'scheme x).
Lemma TPMS_KEYEDHASH_PARMS_codec : codec (fun x => ifapi_json_TPMS_KEYEDHASH_PARMS_serialize (Some x)) ifapi_json_TPMS_KEYEDHASH_PARMS_deserialize dom_TPMS_KEYEDHASH_PARMS spec_TPMS_KEYEDHASH_PARMS.
Proof.
  intros x W D. unfold ifapi_json_TPMS_KEYEDHASH_PARMS_serialize, with_in.
  eapply puts_cons; [apply puts_new_object|]. intros o (O&_&_).
  jfield (TPMT_KEYEDHASH_SCHEME_codec _ W D).
  apply adds_nil, recovers_with_out. intros out Wo.
  jread.
  jdone.
Qed.

Definition dom_TPMS_RSA_PARMS (x : TPMS_RSA_PARMS) : Prop :=
  dom_TPMT_SYM_DEF_OBJECT (mget TPMS_RSA_PARMS'symmetric x) /\
  dom_TPMT_RSA_SCHEME (mget TPMS_RSA_PARMS'scheme x) /\
  dom_TPMI_RSA_KEY_BITS (mget TPMS_RSA_PARMS'keyBits x) /\
  dom_UINT32 (mget TPMS_RSA_PARMS'exponent x).
Lemma TPMS_RSA_PARMS_codec : codec (fun x => ifapi_json_TPMS_RSA_PARMS_serialize (Some x)) ifapi_json_TPMS_RSA_PARMS_deserialize dom_TPMS_RSA_PARMS spec_TPMS_RSA_PARMS.
Proof.
  intros x W D. unfold ifapi_json_TPMS_RSA_PARMS_serialize, with_in.
  eapply puts_cons; [apply puts_new_object|]. intros o (O&_&_).
  jnext W Wh. jnext D Dh. jfield (TPMT_SYM_DEF_OBJECT_codec _ Wh Dh).
  jnext W Wh. jnext D Dh. jfield (TPMT_RSA_SCHEME_codec _ Wh Dh).
  jnext W Wh. jnext D Dh. jfield (TPMI_RSA_KEY_BITS_codec _ Wh Dh).
  jnext W Wh. jfield (UINT32_codec _ Wh D).
  apply adds_nil, recovers_with_out. intros out (?&?&?&?&_).
  jread.
  jread.
  jread.
  jread.
  jdone.
Qed.

Definition dom_TPMS_ECC_PARMS (x : TPMS_ECC_PARMS) : Prop :=
  dom_TPMT_SYM_DEF_OBJECT (mget TPMS_ECC_PARMS'symmetric x) /\
  dom_TPMT_ECC_SCHEME (mget TPMS_ECC_PARMS'scheme x) /\
  dom_TPMI_ECC_CURVE (mget TPMS_ECC_PARMS'curveID x) /\
  dom_TPMT_KDF_SCHEME (mget TPMS_ECC_PARMS'kdf x).
Lemma TPMS_ECC_PARMS_codec : codec (fun x => ifapi_json_TPMS_ECC_PARMS_serialize (Some x)) ifapi_json_TPMS_ECC_PARMS_deserialize dom_TPMS_ECC_PARMS spec_TPMS_ECC_PARMS.
Proof.
  intros x W D. unfold ifapi_json_TPMS_ECC_PARMS_serialize, with_in.
  eapply puts_cons; [apply puts_new_object|]. intros o (O&_&_).
  jnext W Wh. jnext D Dh. jfield (TPMT_SYM_DEF_OBJECT_codec _ Wh Dh).
  jnext W Wh. jnext D Dh. jfield (TPMT_ECC_SCHEME_codec _ Wh Dh).
  jnext W Wh. jnext D Dh. jfield (TPMI_ECC_CURVE_codec _ Wh Dh).
  jnext W Wh. jfield (TPMT_KDF_SCHEME_codec _ Wh D).
  apply adds_nil, recovers_with_out. intros out (?&?&?&?&_).
  jread.
  jread.
  jread.
  jread.
  jdone.
Qed.

#[export] Instance TPMU_PUBLIC_PARMS_wf : UnionWf wf_TPMU_PUBLIC_PARMS spec_TPMU_PUBLIC_PARMS.
Proof. intros z u. symmetry. apply (uo_wf _ _ _ _ _ (Tss2_MU_TPMU_PUBLIC_PARMS_ok (H:=little_endian_host))). Qed.

Definition dom_TPMU_PUBLIC_PARMS : Z -> TPMU_PUBLIC_PARMS -> Prop := union_dom [
  (TPM2_ALG_KEYEDHASH, case_dom TPMU_PUBLIC_PARMS'TPMS_KEYEDHASH_PARMS dom_TPMS_KEYEDHASH_PARMS);
  (TPM2_ALG_SYMCIPHER, case_dom TPMU_PUBLIC_PARMS'TPMS_SYMCIPHER_PARMS dom_TPMS_SYMCIPHER_PARMS);
  (TPM2_ALG_RSA, case_dom TPMU_PUBLIC_PARMS'TPMS_RSA_PARMS dom_TPMS_RSA_PARMS);
  (TPM2_ALG_ECC, case_dom TPMU_PUBLIC_PARMS'TPMS_ECC_PARMS dom_TPMS_ECC_PARMS);
  (TPM2_ALG_MLDSA, case_dom TPMU_PUBLIC_PARMS'TPMS_MLDSA_PARMS dom_TPMS_MLDSA_PARMS);
  (TPM2_ALG_MLKEM, case_dom TPMU_PUBLIC_PARMS'TPMS_MLKEM_PARMS dom_TPMS_MLKEM_PARMS)].
Lemma TPMU_PUBLIC_PARMS_codec : ucodec ifapi_json_TPMU_PUBLIC_PARMS_serialize ifapi_json_TPMU_PUBLIC_PARMS_deserialize dom_TPMU_PUBLIC_PARMS wf_TPMU_PUBLIC_PARMS spec_TPMU_PUBLIC_PARMS.
Proof.
  ustart ifapi_json_TPMU_PUBLIC_PARMS_serialize ifapi_json_TPMU_PUBLIC_PARMS_deserialize dom_TPMU_PUBLIC_PARMS.
  ucase TPMS_KEYEDHASH_PARMS_codec.
  ucase TPMS_SYMCIPHER_PARMS_codec.
  ucase TPMS_RSA_PARMS_codec.
  ucase TPMS_ECC_PARMS_codec.
  ucase TPMS_MLDSA_PARMS_codec.
  ucase TPMS_MLKEM_PARMS_codec.
  destruct D.
Qed.

Definition dom_TPMT_PUBLIC (x : TPMT_PUBLIC) : Prop :=
  dom_TPMI_ALG_PUBLIC (mget TPMT_PUBLIC'type x) /\
  dom_TPMI_ALG_HASH (mget TPMT_PUBLIC'nameAlg x) /\
  dom_TPMA_OBJECT (mget TPMT_PUBLIC'objectAttributes x) /\
  dom_TPM2B_DIGEST (mget TPMT_PUBLIC'authPolicy x) /\
  dom_TPMU_PUBLIC_PARMS (mget TPMT_PUBLIC'type x) (mget TPMT_PUBLIC'parameters x) /\
  dom_TPMU_PUBLIC_ID (mget TPMT_PUBLIC'type x) (mget TPMT_PUBLIC'unique x).
Lemma TPMT_PUBLIC_codec : codec (fun x => ifapi_json_TPMT_PUBLIC_serialize (Some x)) ifapi_json_TPMT_PUBLIC_deserialize dom_TPMT_PUBLIC spec_TPMT_PUBLIC.
Proof.
  intros x W D. unfold ifapi_json_TPMT_PUBLIC_serialize, with_in.
  eapply puts_cons; [apply puts_new_object|]. intros o (O&_&_).
  jnext W Wh. jnext D Dh. jfield (TPMI_ALG_PUBLIC_codec _ Wh Dh).
  jnext W Wh. jnext D Dh. jfield (TPMI_ALG_HASH_codec _ Wh Dh).
  jnext W Wh. jnext D Dh. jfield (TPMA_OBJECT_codec _ Wh Dh).
  jnext W Wh. jnext D Dh. jfield (TPM2B_DIGEST_codec _ Wh Dh).
  jnext W Wh. jnext D Dh. jfield (TPMU_PUBLIC_PARMS_codec _ _ Wh Dh).
  jnext W Wh. jfield (TPMU_PUBLIC_ID_codec _ _ Wh D).
  apply adds_nil, recovers_with_out. intros out (?&?&?&?&?&?&_).
  do 5 jread.
  apply goes_cons. eapply (goes_present "unique"); [eassumption|].
  jread_one.
  jdone.
Qed.

Definition dom_TPM2B_PUBLIC (x : TPM2B_SUB TPMT_PUBLIC) : Prop := dom_TPMT_PUBLIC (smember x).
Lemma TPM2B_PUBLIC_codec : codec (fun x => ifapi_json_TPM2B_PUBLIC_serialize (Some x)) ifapi_json_TPM2B_PUBLIC_deserialize dom_TPM2B_PUBLIC spec_TPM2B_PUBLIC.
Proof.
  intros x W D. unfold ifapi_json_TPM2B_PUBLIC_serialize, deref_in.
  eapply puts_cons; [apply puts_new_object_checked|]. intros o (O&_&_).
  apply sub_wf in W as [Wh W].
  jfield (puts_or_bad_value _ _ (UINT16_codec _ Wh Logic.I)).
  jfield (puts_or_bad_value _ _ (TPMT_PUBLIC_codec _ W D)).
  apply adds_nil, recovers_deref_out. intros out [? ?]%sub_wf.
  do 2 jread.
  jdone.
Qed.

Definition dom_TPM2B_PRIVATE : TPM2B -> Prop := dom_2b (cap_TPM2B_PRIVATE).
Lemma TPM2B_PRIVATE_codec : codec (fun x => ifapi_json_TPM2B_PRIVATE_serialize (Some x)) ifapi_json_TPM2B_PRIVATE_deserialize dom_TPM2B_PRIVATE spec_TPM2B_PRIVATE.
Proof. apply tpm2b_codec; cap_ok. Qed.





Definition dom_TPMS_NV_PUBLIC (x : TPMS_NV_PUBLIC) : Prop :=
  dom_TPMI_RH_NV_INDEX (mget TPMS_NV_PUBLIC'nvIndex x) /\
  dom_TPMI_ALG_HASH (mget TPMS_NV_PUBLIC'nameAlg x) /\
  dom_TPMA_NV (mget TPMS_NV_PUBLIC'attributes x) /\
  dom_TPM2B_DIGEST (mget TPMS_NV_PUBLIC'authPolicy x) /\
  dom_UINT16 (mget TPMS_NV_PUBLIC'dataSize x).
Lemma TPMS_NV_PUBLIC_codec : codec (fun x => ifapi_json_TPMS_NV_PUBLIC_serialize (Some x)) ifapi_json_TPMS_NV_PUBLIC_deserialize dom_TPMS_NV_PUBLIC spec_TPMS_NV_PUBLIC.
Proof.
  intros x W D. unfold ifapi_json_TPMS_NV_PUBLIC_serialize, with_in.
  eapply puts_cons; [apply puts_new_object|]. intros o (O&_&_).
  jnext W Wh. jnext D Dh. jfield (TPMI_RH_NV_INDEX_codec _ Wh Dh).
  jnext W Wh. jnext D Dh. jfield (TPMI_ALG_HASH_codec _ Wh Dh).
  jnext W Wh. jnext D Dh. jfield (TPMA_NV_codec _ Wh Dh).
  jnext W Wh. jnext D Dh. jfield (TPM2B_DIGEST_codec _ Wh Dh).
  jnext W Wh. jfield (UINT16_codec _ Wh D).
  apply adds_nil, recovers_with_out. intros out (?&?&?&?&?&_).
  jread.
  jread.
  jread.
  jread.
  jread.
  jdone.
Qed.

Definition dom_TPM2B_NV_PUBLIC (x : TPM2B_SUB TPMS_NV_PUBLIC) : Prop := dom_TPMS_NV_PUBLIC (smember x).
Lemma TPM2B_NV_PUBLIC_codec : codec (fun x => ifapi_json_TPM2B_NV_PUBLIC_serialize (Some x)) ifapi_json_TPM2B_NV_PUBLIC_deserialize dom_TPM2B_NV_PUBLIC spec_TPM2B_NV_PUBLIC.
Proof.
  intros x W D. unfold ifapi_json_TPM2B_NV_PUBLIC_serialize, deref_in.
  eapply puts_cons; [apply puts_new_object_checked|]. intros o (O&_&_).
  apply sub_wf in W as [Wh W].
  jfield (puts_or_bad_value _ _ (UINT16_codec _ Wh Logic.I)).
  jfield (puts_or_bad_value _ _ (TPMS_NV_PUBLIC_codec _ W D)).
  apply adds_nil, recovers_deref_out. intros out [? ?]%sub_wf.
  do 2 jread.
  jdone.
Qed.

End Types.
