(* ===== verification/JsonTame.v ===== *)
(** * Serializers that cannot go wrong.

    [tame ser]: started with NULL, [ser] has no undefined behaviour and
    returns success or TSS2_FAPI_RC_BAD_VALUE.  The statements of [JsonBase]
    keep an object an object, so their compositions are tame. *)

From stdpp Require Import base strings list_numbers.
From S2P Require Import Prelude Common MuSpec MuBase MuBaseOk MuStruct MuStructOk MuTpm2b MuTpm2bOk MuUnion MuPcr TpmTypes MuTypes MuTypesOk SysCodes JsonCodes JsonC JsonBase JsonNum JsonSer JsonOk JsonTypesOk.
Open Scope list_scope.
Open Scope Z_scope.
Open Scope tss_scope.

Section Tame.
Context `{JC : JsonC} {JL : JsonLaws} {RL : Reliable}.

Definition settled (rc : TSS2_RC) : Prop :=
  rc = TSS2_RC_SUCCESS \/ rc = TSS2_FAPI_RC_BAD_VALUE.

Definition tame (s : jser) : Prop :=
  forall w, exists rc jso w', s None w = Ret (rc, (jso, w')) /\ settled rc.

(** A statement that starts with an object with [K] and leaves one. *)
Definition tame_on (K : json -> Prop) (s : jser) : Prop :=
  forall o w, K o -> exists rc o' w', s (Some o) w = Ret (rc, (Some o', w')) /\ K o' /\ settled rc.

Lemma settled_success : settled TSS2_RC_SUCCESS.
Proof. by left. Qed.

Lemma settled_bad : settled TSS2_FAPI_RC_BAD_VALUE.
Proof. by right. Qed.

Lemma tame_ret rc : settled rc -> tame (jret rc).
Proof. intros S w. by exists rc, None, w. Qed.

Lemma tame_on_ret K rc : settled rc -> tame_on K (jret rc).
Proof. intros S o w H. by exists rc, o, w. Qed.

Lemma tame_put s P : puts s P -> tame s.
Proof.
  intros W w. destruct (W w) as (j&w'&E&_). exists TSS2_RC_SUCCESS, (Some j), w'.
  split; [done|apply settled_success].
Qed.

Lemma tame_put_int64 rc z : tame (put_new rc (json_object_new_int64 z)).
Proof.
  intros w. unfold put_new. destruct (new_int64_ok z w) as (j&w'&E). rewrite E.
  exists TSS2_RC_SUCCESS, (Some j), w'. split; [done|apply settled_success].
Qed.

Lemma tame_put_int rc z : tame (put_new rc (json_object_new_int z)).
Proof.
  intros w. unfold put_new. destruct (new_int_ok z w) as (j&w'&E). rewrite E.
  exists TSS2_RC_SUCCESS, (Some j), w'. split; [done|apply settled_success].
Qed.

Lemma tame_put_string rc s : tame (put_new rc (json_object_new_string s)).
Proof. eapply tame_put, puts_string. Qed.

Lemma tame_table tab x : tame (table_serialize tab x).
Proof.
  unfold table_serialize. destruct (name_in tab x); [apply tame_put_string|].
  apply tame_ret, settled_bad.
Qed.

Lemma tame_last s : tame s -> tame (jbody [s]).
Proof.
  intros T w. simpl. unfold jseq. destruct (T w) as (rc&j&w'&E&S). rewrite E.
  exists rc, j, w'. split; [|done]. destruct (rc =? TSS2_RC_SUCCESS) eqn:Er; bool2prop; [by subst|done].
Qed.

(** A statement that leaves NULL alone. *)
Lemma tame_checked x tab s : tame s -> tame (jbody [CHECK_IN_LIST x tab; s]).
Proof.
  intros T w. simpl. unfold jseq at 1, CHECK_IN_LIST. destruct (existsb _ tab); simpl.
  - exact (tame_last s T w).
  - exists TSS2_FAPI_RC_BAD_VALUE, None, w. split; [done|apply settled_bad].
Qed.

Lemma tame_or_bad_value s : tame s -> tame (or_bad_value s).
Proof.
  intros T w. destruct (T w) as (rc&j&w'&E&S). unfold or_bad_value. rewrite E.
  eexists _, j, w'. split; [done|]. destruct (rc =? TSS2_RC_SUCCESS); [done|apply settled_bad].
Qed.

(** ** Sequences *)

Lemma tame_on_seq K s1 s2 : tame_on K s1 -> tame_on K s2 -> tame_on K (jseq s1 s2).
Proof.
  intros T1 T2 o w H. destruct (T1 o w H) as (rc&o1&w1&E&H1&S). unfold jseq. rewrite E.
  destruct (rc =? TSS2_RC_SUCCESS); [by apply T2|]. by exists rc, o1, w1.
Qed.

Lemma tame_on_body K l : Forall (tame_on K) l -> tame_on K (jbody l).
Proof.
  intros F. induction F as [|s l T F IH]; simpl; [apply tame_on_ret, settled_success|].
  by apply tame_on_seq.
Qed.

Lemma tame_on_for {A} K (l : list A) s : (forall a, In a l -> tame_on K (s a)) -> tame_on K (jfor l s).
Proof.
  induction l as [|a l IH]; intros T; simpl; [apply tame_on_ret, settled_success|].
  apply tame_on_seq; [apply T; by left|]. apply IH. intros b I. apply T. by right.
Qed.

Lemma tame_on_when K c s : tame_on K s -> tame_on K (jwhen c s).
Proof. intros T. destruct c; [done|]. apply tame_on_ret, settled_success. Qed.

Lemma tame_start (K : json -> Prop) new l :
  (forall w, exists j w', new None w = Ret (TSS2_RC_SUCCESS, (Some j, w')) /\ K j) ->
  Forall (tame_on K) l -> tame (jbody (new :: l)).
Proof.
  intros N F w. destruct (N w) as (j&w1&E&H). simpl. unfold jseq. rewrite E. simpl.
  destruct (tame_on_body K l F j w1 H) as (rc&o'&w'&E'&_&S). by exists rc, (Some o'), w'.
Qed.

Lemma tame_object l : Forall (tame_on is_obj) l -> tame (jbody (fresh_object :: l)).
Proof.
  apply tame_start. intros w. destruct (puts_new_object w) as (j&w'&E&H).
  exists j, w'. split; [done|apply H].
Qed.

Lemma tame_object_checked l : Forall (tame_on is_obj) l -> tame (jbody (fresh_object_checked :: l)).
Proof.
  apply tame_start. intros w. destruct (puts_new_object_checked w) as (j&w'&E&H).
  exists j, w'. split; [done|apply H].
Qed.

Lemma tame_array l : Forall (tame_on is_arr) l -> tame (jbody (new_array_checked :: l)).
Proof.
  apply tame_start. intros w. destruct (puts_new_array TSS2_FAPI_RC_MEMORY w) as (j&w'&E&H).
  exists j, w'. split; [exact E|apply H].
Qed.

(** ** Members and elements *)

Lemma tame_field name s : tame s -> tame_on is_obj (field name s).
Proof.
  intros T o w O. destruct (T w) as (rc&j&w1&E&S). unfold field, with_sub. rewrite E.
  destruct (rc =? TSS2_RC_SUCCESS) eqn:Er; [|by exists rc, o, w1].
  destruct (object_add_ok o name j w1 O) as (o'&w2&Ea). unfold add_member. rewrite Ea.
  exists TSS2_RC_SUCCESS, o', w2. split; [done|]. split; [|apply settled_success].
  by eapply object_add_law.
Qed.

Lemma tame_element s : tame s -> tame_on is_arr (element s).
Proof.
  intros T a w A. destruct (T w) as (rc&j&w1&E&S). unfold element, with_sub. rewrite E.
  destruct (rc =? TSS2_RC_SUCCESS) eqn:Er; [|by exists rc, a, w1].
  destruct (array_add_ok a j w1 A) as (o'&w2&Ea). unfold add_element. rewrite Ea.
  exists TSS2_RC_SUCCESS, o', w2. split; [done|]. split; [|apply settled_success].
  by eapply array_add_law.
Qed.

Lemma tame_int64_field name z : tame_on is_obj (int64_field name z).
Proof. apply tame_field, tame_put_int64. Qed.

Lemma tame_bits tab x : tame_on is_obj (bit_serialize tab x).
Proof. apply tame_on_for. intros [bit name] _. apply tame_field, tame_put_int. Qed.

(** ** Bytes, lists and unions *)

Lemma tame_hex bs n : 0 <= n <= Zlen bs -> tame (hex_serialize bs n).
Proof.
  intros H w. destruct (mem_read_is_Some bs 0 n) as [r E]; [lia..|].
  unfold hex_serialize. rewrite E. apply tame_put_string.
Qed.

Lemma tame_2b limit cap x : limit <= cap -> s_wf (spec_2b cap) x -> tame (tpm2b_serialize limit (Some x)).
Proof.
  intros L (Lb&_&In) w. unfold tpm2b_serialize, with_in. simpl. unfold jseq at 1.
  destruct (limit <? size x) eqn:E; bool2prop; simpl.
  - exists TSS2_FAPI_RC_BAD_VALUE, None, w. split; [done|apply settled_bad].
  - destruct In as [In _]. apply (tame_last (hex_serialize (buffer x) (size x))), tame_hex. lia.
Qed.

Lemma tame_list {E} cap (ser : E -> jser) (s : spec E) x :
  s_wf (spec_list cap s) x -> s_dom (spec_list cap s) x ->
  (forall e, s_wf s e -> s_dom s e -> tame (ser e)) ->
  tame (list_serialize (count x) cap (elems x) ser).
Proof.
  intros (_&L&W) D T. unfold list_serialize. destruct (cap <? count x) eqn:En; bool2prop.
  { apply tame_ret, settled_bad. }
  rewrite L. specialize (D En). unfold active in D.
  intros w. unfold jseq. destruct (puts_new_array TSS2_FAPI_RC_MEMORY w) as (a&w1&Ea&A&_).
  rewrite Ea. cbv beta iota. simpl. rewrite (proj2 (Z.leb_le _ _)) by done.
  destruct (tame_on_for is_arr (take (Z.to_nat (count x)) (elems x)) (fun e => element (ser e)))
    with (o := a) (w := w1) as (rc&o'&w'&Ef&_&S); [|done|by exists rc, (Some o'), w'].
  intros e I. apply tame_element, T.
  - eapply List.Forall_forall; [|exact I]. by apply Forall_take.
  - by eapply List.Forall_forall; [|exact I].
Qed.

Lemma tame_case {U M} (wf : U -> Prop) (m : umember U M) (s : spec M) su ser u :
  su = spec_case wf m s -> umember_ok wf m s -> wf u -> s_dom su u ->
  (forall v, s_wf s v -> s_dom s v -> tame (ser v)) -> tame (jcase m ser u).
Proof.
  intros -> [Wg _ _ _] W (v&E&D) T w. unfold jcase. rewrite E. apply T; [by eapply Wg|done].
Qed.

End Tame.

(** ** Every serializer is tame on the values of its type.

    The values: those with a wire format ([s_wf] and [s_dom] of [spec_T]),
    whose unions hold the member that the selector names. *)

Open Scope string_scope.
Open Scope list_scope.
Open Scope Z_scope.
Open Scope tss_scope.

(** The next statement of the body. *)
Ltac tmem t := apply list.Forall_cons_2; [exact t|].

(** The rows of a union. *)
Ltac ucases sel :=
  cbn [switch];
  repeat match goal with |- context [?a =? sel] =>
    destruct (Z.eqb_spec a sel) as [<-|_]; cbv beta iota end.
Ltac utame t :=
  lazymatch goal with D : s_dom (?f ?a) ?u |- tame (deref_in (Some ?u) (jcase ?m ?ser)) =>
    change (tame (jcase m ser u));
    eapply (tame_case _ m _ (f a));
    [ reflexivity
    | solve [eauto 2 with mu | tagged_member | (apply whole_ok; [reflexivity|eauto 2 with mu])]
    | assumption | exact D | exact t ]
  end.

Section Total.
Context `{JC : JsonC} {JL : JsonLaws} {RL : Reliable}.

Lemma tame_TPMS_EMPTY x : tame (ifapi_json_TPMS_EMPTY_serialize x).
Proof. apply tame_ret, settled_success. Qed.

Lemma tame_pcr_select n l :
  Zlen l = TPM2_PCR_SELECT_MAX -> tame (ifapi_json_pcr_select_serialize n l).
Proof.
  intros L. apply tame_array. repeat apply list.Forall_cons_2; [..|by constructor].
  - apply tame_on_when, tame_on_ret, settled_bad.
  - apply tame_on_for. intros i I o w O.
    apply list_elem_of_In, elem_of_seqZ in I. change (TPM2_PCR_LAST - TPM2_PCR_FIRST) with 31 in I.
    change TPM2_PCR_SELECT_MAX with 4 in L. change TPM2_PCR_FIRST with 0. cbv zeta. rewrite Z.add_0_r.
    destruct (lookup_lt_is_Some_2 l (Z.to_nat (i / 8))) as [b Eb].
    { assert (i / 8 < 4) by (apply Z.div_lt_upper_bound; lia). unfold Zlen in L. lia. }
    rewrite Eb. cbn [access]. by apply tame_on_when; [apply tame_element, tame_put_int64|].
Qed.

Lemma tame_TPMS_PCR_SELECT x :
  s_wf spec_TPMS_PCR_SELECT x -> s_dom spec_TPMS_PCR_SELECT x ->
  tame (ifapi_json_TPMS_PCR_SELECT_serialize (Some x)).
Proof.
  intros (_&(_&L&_)&_) _. apply tame_last, (tame_pcr_select _ _ L).
Qed.

Lemma tame_TPM2_ALG_ID x : tame (ifapi_json_TPM2_ALG_ID_serialize x).
Proof. apply tame_table. Qed.

Lemma tame_TPMI_ALG_HASH x : tame (ifapi_json_TPMI_ALG_HASH_serialize x).
Proof. apply tame_checked, tame_TPM2_ALG_ID. Qed.

Lemma tame_TPMS_PCR_SELECTION x :
  s_wf spec_TPMS_PCR_SELECTION x -> s_dom spec_TPMS_PCR_SELECTION x ->
  tame (ifapi_json_TPMS_PCR_SELECTION_serialize (Some x)).
Proof.
  intros (_&(_&L&_)&_) _. apply tame_object_checked.
  tmem (tame_field "hash" _ (tame_TPMI_ALG_HASH (mget TPMS_PCR_SELECTION'hash x))).
  tmem (tame_field "pcrSelect" _ (tame_pcr_select (mget TPMS_PCR_SELECTION'sizeofSelect x) _ L)).
  constructor.
Qed.

Lemma tame_TPM2_PT_PCR x : tame (ifapi_json_TPM2_PT_PCR_serialize x).
Proof. apply tame_table. Qed.

Lemma tame_TPMS_TAGGED_PCR_SELECT x :
  s_wf spec_TPMS_TAGGED_PCR_SELECT x -> s_dom spec_TPMS_TAGGED_PCR_SELECT x ->
  tame (ifapi_json_TPMS_TAGGED_PCR_SELECT_serialize (Some x)).
Proof.
  intros (_&(_&L&_)&_) _. apply tame_object.
  tmem (tame_field "tag" _ (tame_TPM2_PT_PCR (mget TPMS_TAGGED_PCR_SELECT'tag x))).
  tmem (tame_field "pcrSelect" _ (tame_pcr_select (mget TPMS_TAGGED_PCR_SELECT'sizeofSelect x) _ L)).
  constructor.
Qed.

Lemma tame_TPM2_HANDLE x : tame (ifapi_json_TPM2_HANDLE_serialize x).
Proof. apply tame_put_int. Qed.

Lemma tame_TPMU_HA sel u :
  wf_TPMU_HA u -> s_dom (spec_TPMU_HA sel) u -> tame (ifapi_json_TPMU_HA_serialize (Some u) sel).
Proof.
  intros [L _] _. unfold ifapi_json_TPMU_HA_serialize, union_serialize.
  ucases sel; first [apply tame_hex; rewrite L; cap_ok|apply tame_ret, settled_bad].
Qed.

Lemma tame_TPMT_HA x : s_wf spec_TPMT_HA x -> s_dom spec_TPMT_HA x -> tame (ifapi_json_TPMT_HA_serialize (Some x)).
Proof.
  intros W D. apply tame_object.
  jnext W Wh. jnext D Dh.
  tmem (tame_field "hashAlg" _ (tame_TPMI_ALG_HASH (mget TPMT_HA'hashAlg x))).
  jnext W Wh. jnext D Dh.
  tmem (tame_on_when is_obj (negb (mget TPMT_HA'hashAlg x =? TPM2_ALG_NULL)) _ (tame_field "digest" _ (tame_TPMU_HA _ _ Wh Dh))).
  constructor.
Qed.

Lemma tame_TPMS_TAGGED_POLICY x : s_wf spec_TPMS_TAGGED_POLICY x -> s_dom spec_TPMS_TAGGED_POLICY x -> tame (ifapi_json_TPMS_TAGGED_POLICY_serialize (Some x)).
Proof.
  intros W D. apply tame_object.
  jnext W Wh. jnext D Dh.
  tmem (tame_field "handle" _ (tame_TPM2_HANDLE (mget TPMS_TAGGED_POLICY'handle x))).
  jnext W Wh. jnext D Dh.
  tmem (tame_field "policyHash" _ (tame_TPMT_HA _ Wh Dh)).
  constructor.
Qed.

Lemma tame_UINT32 x : tame (ifapi_json_UINT32_serialize x).
Proof. apply tame_put_int64. Qed.

Lemma tame_TPMA_ACT x : tame (ifapi_json_TPMA_ACT_serialize x).
Proof. apply tame_object_checked; repeat apply list.Forall_cons_2; [..|by constructor];
  auto using tame_bits, tame_int64_field. Qed.

Lemma tame_TPMS_ACT_DATA x : s_wf spec_TPMS_ACT_DATA x -> s_dom spec_TPMS_ACT_DATA x -> tame (ifapi_json_TPMS_ACT_DATA_serialize (Some x)).
Proof.
  intros W D. apply tame_object.
  jnext W Wh. jnext D Dh.
  tmem (tame_field "handle" _ (tame_TPM2_HANDLE (mget TPMS_ACT_DATA'handle x))).
  jnext W Wh. jnext D Dh.
  tmem (tame_field "timeout" _ (tame_UINT32 (mget TPMS_ACT_DATA'timeout x))).
  jnext W Wh. jnext D Dh.
  tmem (tame_field "attributes" _ (tame_TPMA_ACT (mget TPMS_ACT_DATA'attributes x))).
  constructor.
Qed.

Lemma tame_UINT16 x : tame (ifapi_json_UINT16_serialize x).
Proof. apply tame_put_int64. Qed.

Lemma tame_INT32 x : tame (ifapi_json_INT32_serialize x).
Proof. apply tame_put_int64. Qed.

Lemma tame_UINT64 x : tame (ifapi_json_UINT64_serialize x).
Proof.
  intros w. unfold ifapi_json_UINT64_serialize.
  destruct (x <? _); [exact (tame_put_int64 _ _ w)|].
  destruct (new_int64_ok (x / 0x100000000) w) as (j1&w1&E1). rewrite E1.
  destruct (new_int64_ok (x mod 0x100000000) w1) as (j2&w2&E2). rewrite E2.
  refine (tame_start is_arr _ [_; _] _ _ w2).
  - intros w3. destruct (puts_new_array TSS2_FAPI_RC_MEMORY w3) as (a&w4&E&A&_). eauto.
  - repeat apply list.Forall_cons_2; [..|by constructor]; intros a w3 A; unfold add_element;
      edestruct (array_add_ok a) as (a'&w4&E); try exact A; rewrite E;
      exists TSS2_RC_SUCCESS, a', w4; (split; [done|]; split; [|apply settled_success]);
      by eapply array_add_law.
Qed.

Lemma tame_TPM2_GENERATED x : tame (ifapi_json_TPM2_GENERATED_serialize x).
Proof.
  unfold ifapi_json_TPM2_GENERATED_serialize. destruct (negb _); [|apply tame_put_string].
  apply tame_ret, settled_bad.
Qed.

Lemma tame_TPM2_ECC_CURVE x : tame (ifapi_json_TPM2_ECC_CURVE_serialize x).
Proof. apply tame_table. Qed.

Lemma tame_TPM2_CC x : tame (ifapi_json_TPM2_CC_serialize x).
Proof. apply tame_table. Qed.

Lemma tame_TPM2_EO x : tame (ifapi_json_TPM2_EO_serialize x).
Proof. apply tame_table. Qed.

Lemma tame_TPM2_ST x : tame (ifapi_json_TPM2_ST_serialize x).
Proof. apply tame_table. Qed.

Lemma tame_TPM2_CAP x : tame (ifapi_json_TPM2_CAP_serialize x).
Proof. apply tame_table. Qed.

Lemma tame_TPM2_PT x : tame (ifapi_json_TPM2_PT_serialize x).
Proof. apply tame_table. Qed.

Lemma tame_TPMA_ALGORITHM x : tame (ifapi_json_TPMA_ALGORITHM_serialize x).
Proof. apply tame_object_checked; repeat apply list.Forall_cons_2; [..|by constructor];
  auto using tame_bits, tame_int64_field. Qed.

Lemma tame_TPMA_OBJECT x : tame (ifapi_json_TPMA_OBJECT_serialize x).
Proof. apply tame_object_checked; repeat apply list.Forall_cons_2; [..|by constructor];
  auto using tame_bits, tame_int64_field. Qed.

Lemma tame_TPMA_LOCALITY x : tame (ifapi_json_TPMA_LOCALITY_serialize x).
Proof. apply tame_object_checked; repeat apply list.Forall_cons_2; [..|by constructor];
  auto using tame_bits, tame_int64_field. Qed.

Lemma tame_TPMA_CC x : tame (ifapi_json_TPMA_CC_serialize x).
Proof. apply tame_object_checked; repeat apply list.Forall_cons_2; [..|by constructor];
  auto using tame_bits, tame_int64_field. Qed.

Lemma tame_TPMI_YES_NO x : tame (ifapi_json_TPMI_YES_NO_serialize x).
Proof.
  unfold ifapi_json_TPMI_YES_NO_serialize.
  destruct (x =? YES); [apply tame_put_string|]. destruct (x =? NO); [apply tame_put_string|].
  apply tame_ret, settled_bad.
Qed.

Lemma tame_TPMI_RH_HIERARCHY x : tame (ifapi_json_TPMI_RH_HIERARCHY_serialize x).
Proof. apply tame_table. Qed.

Lemma tame_TPMI_RH_NV_INDEX x : tame (ifapi_json_TPMI_RH_NV_INDEX_serialize x).
Proof.
  unfold ifapi_json_TPMI_RH_NV_INDEX_serialize. destruct (_ && _); [apply tame_put_int64|].
  apply tame_ret, settled_bad.
Qed.

Lemma tame_TPMI_ALG_SYM_OBJECT x : tame (ifapi_json_TPMI_ALG_SYM_OBJECT_serialize x).
Proof. apply tame_checked, tame_TPM2_ALG_ID. Qed.

Lemma tame_TPMI_ALG_SYM_MODE x : tame (ifapi_json_TPMI_ALG_SYM_MODE_serialize x).
Proof. apply tame_checked, tame_TPM2_ALG_ID. Qed.

Lemma tame_TPMI_ALG_CIPHER_MODE x : tame (ifapi_json_TPMI_ALG_CIPHER_MODE_serialize x).
Proof. apply tame_checked, tame_TPM2_ALG_ID. Qed.

Lemma tame_TPMI_ALG_KDF x : tame (ifapi_json_TPMI_ALG_KDF_serialize x).
Proof. apply tame_checked, tame_TPM2_ALG_ID. Qed.

Lemma tame_TPMI_ALG_SIG_SCHEME x : tame (ifapi_json_TPMI_ALG_SIG_SCHEME_serialize x).
Proof. apply tame_checked, tame_TPM2_ALG_ID. Qed.

Lemma tame_TPM2B_DIGEST x : s_wf spec_TPM2B_DIGEST x -> s_dom spec_TPM2B_DIGEST x -> tame (ifapi_json_TPM2B_DIGEST_serialize (Some x)).
Proof. intros W _. refine (tame_2b _ _ _ _ W); cap_ok. Qed.

Lemma tame_TPM2B_DATA x : s_wf spec_TPM2B_DATA x -> s_dom spec_TPM2B_DATA x -> tame (ifapi_json_TPM2B_DATA_serialize (Some x)).
Proof. intros W _. refine (tame_2b _ _ _ _ W); cap_ok. Qed.

Lemma tame_TPM2B_NONCE x : s_wf spec_TPM2B_DIGEST x -> s_dom spec_TPM2B_DIGEST x -> tame (ifapi_json_TPM2B_NONCE_serialize (Some x)).
Proof. exact (tame_TPM2B_DIGEST x). Qed.

Lemma tame_TPM2B_OPERAND x : s_wf spec_TPM2B_DIGEST x -> s_dom spec_TPM2B_DIGEST x -> tame (ifapi_json_TPM2B_OPERAND_serialize (Some x)).
Proof. exact (tame_TPM2B_DIGEST x). Qed.

Lemma tame_TPM2B_EVENT x : s_wf spec_TPM2B_EVENT x -> s_dom spec_TPM2B_EVENT x -> tame (ifapi_json_TPM2B_EVENT_serialize (Some x)).
Proof. intros W _. refine (tame_2b _ _ _ _ W); cap_ok. Qed.

Lemma tame_TPM2B_MAX_NV_BUFFER x : s_wf spec_TPM2B_MAX_NV_BUFFER x -> s_dom spec_TPM2B_MAX_NV_BUFFER x -> tame (ifapi_json_TPM2B_MAX_NV_BUFFER_serialize (Some x)).
Proof. intros W _. refine (tame_2b _ _ _ _ W); cap_ok. Qed.

Lemma tame_TPM2B_NAME x : s_wf spec_TPM2B_NAME x -> s_dom spec_TPM2B_NAME x -> tame (ifapi_json_TPM2B_NAME_serialize (Some x)).
Proof. intros W _. refine (tame_2b _ _ _ _ W); cap_ok. Qed.

Lemma tame_TPMT_TK_CREATION x :
  s_wf spec_TPMT_TK_CREATION x -> s_dom spec_TPMT_TK_CREATION x ->
  tame (ifapi_json_TPMT_TK_CREATION_serialize (Some x)).
Proof.
  intros (_&_&Wd&_) (_&_&Dd&_). apply tame_object.
  tmem (tame_on_when is_obj (negb (mget TPMT_TK_CREATION'tag x =? TPM2_ST_CREATION)) _
    (tame_on_ret is_obj _ settled_bad)).
  tmem (tame_field "tag" _ (tame_TPM2_ST (mget TPMT_TK_CREATION'tag x))).
  tmem (tame_field "hierarchy" _ (tame_TPMI_RH_HIERARCHY (mget TPMT_TK_CREATION'hierarchy x))).
  tmem (tame_field "digest" _ (tame_TPM2B_DIGEST _ Wd Dd)).
  constructor.
Qed.

Lemma tame_TPMS_ALG_PROPERTY x :
  s_wf spec_TPMS_ALG_PROPERTY x -> s_dom spec_TPMS_ALG_PROPERTY x ->
  tame (ifapi_json_TPMS_ALG_PROPERTY_serialize (Some x)).
Proof.
  intros _ _. unfold ifapi_json_TPMS_ALG_PROPERTY_serialize, with_in.
  destruct (_ || _); [apply tame_ret, settled_success|]. apply tame_object.
  tmem (tame_field "alg" _ (tame_TPM2_ALG_ID (mget TPMS_ALG_PROPERTY'alg x))).
  tmem (tame_field "algProperties" _ (tame_TPMA_ALGORITHM (mget TPMS_ALG_PROPERTY'algProperties x))).
  constructor.
Qed.

Lemma tame_TPMS_TAGGED_PROPERTY x : s_wf spec_TPMS_TAGGED_PROPERTY x -> s_dom spec_TPMS_TAGGED_PROPERTY x -> tame (ifapi_json_TPMS_TAGGED_PROPERTY_serialize (Some x)).
Proof.
  intros W D. apply tame_object.
  jnext W Wh. jnext D Dh.
  tmem (tame_field "property" _ (tame_TPM2_PT (mget TPMS_TAGGED_PROPERTY'property x))).
  jnext W Wh. jnext D Dh.
  tmem (tame_field "value" _ (tame_UINT32 (mget TPMS_TAGGED_PROPERTY'value x))).
  constructor.
Qed.

Lemma tame_TPML_CC x : s_wf spec_TPML_CC x -> s_dom spec_TPML_CC x -> tame (ifapi_json_TPML_CC_serialize (Some x)).
Proof. intros W D. exact (tame_list _ _ _ x W D (fun v _ _ => tame_TPM2_CC v)). Qed.

Lemma tame_TPML_CCA x : s_wf spec_TPML_CCA x -> s_dom spec_TPML_CCA x -> tame (ifapi_json_TPML_CCA_serialize (Some x)).
Proof. intros W D. exact (tame_list _ _ _ x W D (fun v _ _ => tame_TPMA_CC v)). Qed.

Lemma tame_TPML_HANDLE x : s_wf spec_TPML_HANDLE x -> s_dom spec_TPML_HANDLE x -> tame (ifapi_json_TPML_HANDLE_serialize (Some x)).
Proof. intros W D. exact (tame_list _ _ _ x W D (fun v _ _ => tame_TPM2_HANDLE v)). Qed.

Lemma tame_TPML_DIGEST_VALUES x : s_wf spec_TPML_DIGEST_VALUES x -> s_dom spec_TPML_DIGEST_VALUES x -> tame (ifapi_json_TPML_DIGEST_VALUES_serialize (Some x)).
Proof. intros W D. exact (tame_list _ _ _ x W D tame_TPMT_HA). Qed.

Lemma tame_TPML_PCR_SELECTION x : s_wf spec_TPML_PCR_SELECTION x -> s_dom spec_TPML_PCR_SELECTION x -> tame (ifapi_json_TPML_PCR_SELECTION_serialize (Some x)).
Proof. intros W D. exact (tame_list _ _ _ x W D tame_TPMS_PCR_SELECTION). Qed.

Lemma tame_TPML_ALG_PROPERTY x : s_wf spec_TPML_ALG_PROPERTY x -> s_dom spec_TPML_ALG_PROPERTY x -> tame (ifapi_json_TPML_ALG_PROPERTY_serialize (Some x)).
Proof. intros W D. exact (tame_list _ _ _ x W D tame_TPMS_ALG_PROPERTY). Qed.

Lemma tame_TPML_TAGGED_TPM_PROPERTY x : s_wf spec_TPML_TAGGED_TPM_PROPERTY x -> s_dom spec_TPML_TAGGED_TPM_PROPERTY x -> tame (ifapi_json_TPML_TAGGED_TPM_PROPERTY_serialize (Some x)).
Proof. intros W D. exact (tame_list _ _ _ x W D tame_TPMS_TAGGED_PROPERTY). Qed.

Lemma tame_TPML_TAGGED_PCR_PROPERTY x : s_wf spec_TPML_TAGGED_PCR_PROPERTY x -> s_dom spec_TPML_TAGGED_PCR_PROPERTY x -> tame (ifapi_json_TPML_TAGGED_PCR_PROPERTY_serialize (Some x)).
Proof. intros W D. exact (tame_list _ _ _ x W D tame_TPMS_TAGGED_PCR_SELECT). Qed.

Lemma tame_TPML_ECC_CURVE x : s_wf spec_TPML_ECC_CURVE x -> s_dom spec_TPML_ECC_CURVE x -> tame (ifapi_json_TPML_ECC_CURVE_serialize (Some x)).
Proof. intros W D. exact (tame_list _ _ _ x W D (fun v _ _ => tame_TPM2_ECC_CURVE v)). Qed.

Lemma tame_TPML_TAGGED_POLICY x : s_wf spec_TPML_TAGGED_POLICY x -> s_dom spec_TPML_TAGGED_POLICY x -> tame (ifapi_json_TPML_TAGGED_POLICY_serialize (Some x)).
Proof. intros W D. exact (tame_list _ _ _ x W D tame_TPMS_TAGGED_POLICY). Qed.

Lemma tame_TPML_ACT_DATA x : s_wf spec_TPML_ACT_DATA x -> s_dom spec_TPML_ACT_DATA x -> tame (ifapi_json_TPML_ACT_DATA_serialize (Some x)).
Proof. intros W D. exact (tame_list _ _ _ x W D tame_TPMS_ACT_DATA). Qed.

Lemma tame_TPMU_CAPABILITIES sel x : wf_TPMU_CAPABILITIES x -> s_dom (spec_TPMU_CAPABILITIES sel) x -> tame (ifapi_json_TPMU_CAPABILITIES_serialize (Some x) sel).
Proof.
  intros Wx D. unfold ifapi_json_TPMU_CAPABILITIES_serialize, union_serialize.
  ucases sel.
  - utame tame_TPML_ALG_PROPERTY.
  - utame tame_TPML_HANDLE.
  - utame tame_TPML_CCA.
  - utame tame_TPML_CC.
  - utame tame_TPML_CC.
  - utame tame_TPML_PCR_SELECTION.
  - utame tame_TPML_TAGGED_TPM_PROPERTY.
  - utame tame_TPML_TAGGED_PCR_PROPERTY.
  - utame tame_TPML_ECC_CURVE.
  - utame tame_TPML_TAGGED_POLICY.
  - utame tame_TPML_ACT_DATA.
  - apply tame_ret, settled_bad.
Qed.

Lemma tame_TPMS_CAPABILITY_DATA x : s_wf spec_TPMS_CAPABILITY_DATA x -> s_dom spec_TPMS_CAPABILITY_DATA x -> tame (ifapi_json_TPMS_CAPABILITY_DATA_serialize (Some x)).
Proof.
  intros W D. apply tame_object.
  jnext W Wh. jnext D Dh.
  tmem (tame_field "capability" _ (tame_TPM2_CAP (mget TPMS_CAPABILITY_DATA'capability x))).
  jnext W Wh. jnext D Dh.
  tmem (tame_field "data" _ (tame_TPMU_CAPABILITIES _ _ Wh Dh)).
  constructor.
Qed.

Lemma tame_TPMS_CLOCK_INFO x : s_wf spec_TPMS_CLOCK_INFO x -> s_dom spec_TPMS_CLOCK_INFO x -> tame (ifapi_json_TPMS_CLOCK_INFO_serialize (Some x)).
Proof.
  intros W D. apply tame_object.
  jnext W Wh. jnext D Dh.
  tmem (tame_field "clock" _ (tame_UINT64 (mget TPMS_CLOCK_INFO'clock x))).
  jnext W Wh. jnext D Dh.
  tmem (tame_field "resetCount" _ (tame_UINT32 (mget TPMS_CLOCK_INFO'resetCount x))).
  jnext W Wh. jnext D Dh.
  tmem (tame_field "restartCount" _ (tame_UINT32 (mget TPMS_CLOCK_INFO'restartCount x))).
  jnext W Wh. jnext D Dh.
  tmem (tame_field "safe" _ (tame_TPMI_YES_NO (mget TPMS_CLOCK_INFO'safe x))).
  constructor.
Qed.

Lemma tame_TPMS_TIME_INFO x : s_wf spec_TPMS_TIME_INFO x -> s_dom spec_TPMS_TIME_INFO x -> tame (ifapi_json_TPMS_TIME_INFO_serialize (Some x)).
Proof.
  intros W D. apply tame_object.
  jnext W Wh. jnext D Dh.
  tmem (tame_field "time" _ (tame_UINT64 (mget TPMS_TIME_INFO'time x))).
  jnext W Wh. jnext D Dh.
  tmem (tame_field "clockInfo" _ (tame_TPMS_CLOCK_INFO _ Wh Dh)).
  constructor.
Qed.

Lemma tame_TPMS_TIME_ATTEST_INFO x : s_wf spec_TPMS_TIME_ATTEST_INFO x -> s_dom spec_TPMS_TIME_ATTEST_INFO x -> tame (ifapi_json_TPMS_TIME_ATTEST_INFO_serialize (Some x)).
Proof.
  intros W D. apply tame_object.
  jnext W Wh. jnext D Dh.
  tmem (tame_field "time" _ (tame_TPMS_TIME_INFO _ Wh Dh)).
  jnext W Wh. jnext D Dh.
  tmem (tame_field "firmwareVersion" _ (tame_UINT64 (mget TPMS_TIME_ATTEST_INFO'firmwareVersion x))).
  constructor.
Qed.

Lemma tame_TPMS_CERTIFY_INFO x : s_wf spec_TPMS_CERTIFY_INFO x -> s_dom spec_TPMS_CERTIFY_INFO x -> tame (ifapi_json_TPMS_CERTIFY_INFO_serialize (Some x)).
Proof.
  intros W D. apply tame_object.
  jnext W Wh. jnext D Dh.
  tmem (tame_field "name" _ (tame_TPM2B_NAME _ Wh Dh)).
  jnext W Wh. jnext D Dh.
  tmem (tame_field "qualifiedName" _ (tame_TPM2B_NAME _ Wh Dh)).
  constructor.
Qed.

Lemma tame_TPMS_QUOTE_INFO x : s_wf spec_TPMS_QUOTE_INFO x -> s_dom spec_TPMS_QUOTE_INFO x -> tame (ifapi_json_TPMS_QUOTE_INFO_serialize (Some x)).
Proof.
  intros W D. apply tame_object.
  jnext W Wh. jnext D Dh.
  tmem (tame_field "pcrSelect" _ (tame_TPML_PCR_SELECTION _ Wh Dh)).
  jnext W Wh. jnext D Dh.
  tmem (tame_field "pcrDigest" _ (tame_TPM2B_DIGEST _ Wh Dh)).
  constructor.
Qed.

Lemma tame_TPMS_COMMAND_AUDIT_INFO x : s_wf spec_TPMS_COMMAND_AUDIT_INFO x -> s_dom spec_TPMS_COMMAND_AUDIT_INFO x -> tame (ifapi_json_TPMS_COMMAND_AUDIT_INFO_serialize (Some x)).
Proof.
  intros W D. apply tame_object.
  jnext W Wh. jnext D Dh.
  tmem (tame_field "auditCounter" _ (tame_UINT64 (mget TPMS_COMMAND_AUDIT_INFO'auditCounter x))).
  jnext W Wh. jnext D Dh.
  tmem (tame_field "digestAlg" _ (tame_TPM2_ALG_ID (mget TPMS_COMMAND_AUDIT_INFO'digestAlg x))).
  jnext W Wh. jnext D Dh.
  tmem (tame_field "auditDigest" _ (tame_TPM2B_DIGEST _ Wh Dh)).
  jnext W Wh. jnext D Dh.
  tmem (tame_field "commandDigest" _ (tame_TPM2B_DIGEST _ Wh Dh)).
  constructor.
Qed.

Lemma tame_TPMS_SESSION_AUDIT_INFO x : s_wf spec_TPMS_SESSION_AUDIT_INFO x -> s_dom spec_TPMS_SESSION_AUDIT_INFO x -> tame (ifapi_json_TPMS_SESSION_AUDIT_INFO_serialize (Some x)).
Proof.
  intros W D. apply tame_object.
  jnext W Wh. jnext D Dh.
  tmem (tame_field "exclusiveSession" _ (tame_TPMI_YES_NO (mget TPMS_SESSION_AUDIT_INFO'exclusiveSession x))).
  jnext W Wh. jnext D Dh.
  tmem (tame_field "sessionDigest" _ (tame_TPM2B_DIGEST _ Wh Dh)).
  constructor.
Qed.

Lemma tame_TPMS_CREATION_INFO x : s_wf spec_TPMS_CREATION_INFO x -> s_dom spec_TPMS_CREATION_INFO x -> tame (ifapi_json_TPMS_CREATION_INFO_serialize (Some x)).
Proof.
  intros W D. apply tame_object.
  jnext W Wh. jnext D Dh.
  tmem (tame_field "objectName" _ (tame_TPM2B_NAME _ Wh Dh)).
  jnext W Wh. jnext D Dh.
  tmem (tame_field "creationHash" _ (tame_TPM2B_DIGEST _ Wh Dh)).
  constructor.
Qed.

Lemma tame_TPMS_NV_CERTIFY_INFO x : s_wf spec_TPMS_NV_CERTIFY_INFO x -> s_dom spec_TPMS_NV_CERTIFY_INFO x -> tame (ifapi_json_TPMS_NV_CERTIFY_INFO_serialize (Some x)).
Proof.
  intros W D. apply tame_object.
  jnext W Wh. jnext D Dh.
  tmem (tame_field "indexName" _ (tame_TPM2B_NAME _ Wh Dh)).
  jnext W Wh. jnext D Dh.
  tmem (tame_field "offset" _ (tame_UINT16 (mget TPMS_NV_CERTIFY_INFO'offset x))).
  jnext W Wh. jnext D Dh.
  tmem (tame_field "nvContents" _ (tame_TPM2B_MAX_NV_BUFFER _ Wh Dh)).
  constructor.
Qed.

Lemma tame_TPMI_ST_ATTEST x : tame (ifapi_json_TPMI_ST_ATTEST_serialize x).
Proof. apply tame_checked, tame_TPM2_ST. Qed.

Lemma tame_TPMU_ATTEST sel x : wf_TPMU_ATTEST x -> s_dom (spec_TPMU_ATTEST sel) x -> tame (ifapi_json_TPMU_ATTEST_serialize (Some x) sel).
Proof.
  intros Wx D. unfold ifapi_json_TPMU_ATTEST_serialize, union_serialize.
  ucases sel.
  - utame tame_TPMS_CERTIFY_INFO.
  - utame tame_TPMS_CREATION_INFO.
  - utame tame_TPMS_QUOTE_INFO.
  - utame tame_TPMS_COMMAND_AUDIT_INFO.
  - utame tame_TPMS_SESSION_AUDIT_INFO.
  - utame tame_TPMS_TIME_ATTEST_INFO.
  - utame tame_TPMS_NV_CERTIFY_INFO.
  - apply tame_ret, settled_bad.
Qed.

Lemma tame_TPMS_ATTEST x : s_wf spec_TPMS_ATTEST x -> s_dom spec_TPMS_ATTEST x -> tame (ifapi_json_TPMS_ATTEST_serialize (Some x)).
Proof.
  intros W D. apply tame_object.
  jnext W Wh. jnext D Dh.
  tmem (tame_field "magic" _ (tame_TPM2_GENERATED (mget TPMS_ATTEST'magic x))).
  jnext W Wh. jnext D Dh.
  tmem (tame_field "type" _ (tame_TPMI_ST_ATTEST (mget TPMS_ATTEST'type x))).
  jnext W Wh. jnext D Dh.
  tmem (tame_field "qualifiedSigner" _ (tame_TPM2B_NAME _ Wh Dh)).
  jnext W Wh. jnext D Dh.
  tmem (tame_field "extraData" _ (tame_TPM2B_DATA _ Wh Dh)).
  jnext W Wh. jnext D Dh.
  tmem (tame_field "clockInfo" _ (tame_TPMS_CLOCK_INFO _ Wh Dh)).
  jnext W Wh. jnext D Dh.
  tmem (tame_field "firmwareVersion" _ (tame_UINT64 (mget TPMS_ATTEST'firmwareVersion x))).
  jnext W Wh. jnext D Dh.
  tmem (tame_field "attested" _ (tame_TPMU_ATTEST _ _ Wh Dh)).
  constructor.
Qed.

Lemma tame_TPMI_SM4_KEY_BITS x : tame (ifapi_json_TPMI_SM4_KEY_BITS_serialize x).
Proof. apply tame_checked, tame_UINT16. Qed.

Lemma tame_TPMI_CAMELLIA_KEY_BITS x : tame (ifapi_json_TPMI_CAMELLIA_KEY_BITS_serialize x).
Proof. apply tame_checked, tame_UINT16. Qed.

Lemma tame_TPMI_AES_KEY_BITS x : tame (ifapi_json_TPMI_AES_KEY_BITS_serialize x).
Proof. apply tame_checked, tame_UINT16. Qed.

Lemma tame_TPMU_SYM_KEY_BITS sel x : wf_TPMU_SYM_KEY_BITS x -> s_dom (spec_TPMU_SYM_KEY_BITS sel) x -> tame (ifapi_json_TPMU_SYM_KEY_BITS_serialize (Some x) sel).
Proof.
  intros Wx D. unfold ifapi_json_TPMU_SYM_KEY_BITS_serialize, union_serialize.
  ucases sel.
  - utame (fun v (_ : s_wf (spec_int UINT16) v) (_ : s_dom (spec_int UINT16) v) => tame_TPMI_AES_KEY_BITS v).
  - utame (fun v (_ : s_wf (spec_int UINT16) v) (_ : s_dom (spec_int UINT16) v) => tame_TPMI_SM4_KEY_BITS v).
  - utame (fun v (_ : s_wf (spec_int UINT16) v) (_ : s_dom (spec_int UINT16) v) => tame_TPMI_CAMELLIA_KEY_BITS v).
  - utame (fun v (_ : s_wf (spec_int UINT16) v) (_ : s_dom (spec_int UINT16) v) => tame_TPMI_ALG_HASH v).
  - apply tame_ret, settled_bad.
Qed.

Lemma tame_TPMU_SYM_MODE sel x : wf_TPMU_SYM_MODE x -> s_dom (spec_TPMU_SYM_MODE sel) x -> tame (ifapi_json_TPMU_SYM_MODE_serialize (Some x) sel).
Proof.
  intros Wx D. unfold ifapi_json_TPMU_SYM_MODE_serialize, union_serialize.
  ucases sel.
  - utame (fun v (_ : s_wf (spec_int UINT16) v) (_ : s_dom (spec_int UINT16) v) => tame_TPMI_ALG_SYM_MODE v).
  - utame (fun v (_ : s_wf (spec_int UINT16) v) (_ : s_dom (spec_int UINT16) v) => tame_TPMI_ALG_SYM_MODE v).
  - utame (fun v (_ : s_wf (spec_int UINT16) v) (_ : s_dom (spec_int UINT16) v) => tame_TPMI_ALG_SYM_MODE v).
  - apply tame_ret, settled_bad.
Qed.

Lemma tame_TPMT_SYM_DEF_OBJECT x : s_wf spec_TPMT_SYM_DEF_OBJECT x -> s_dom spec_TPMT_SYM_DEF_OBJECT x -> tame (ifapi_json_TPMT_SYM_DEF_OBJECT_serialize (Some x)).
Proof.
  intros W D. apply tame_object.
  jnext W Wh. jnext D Dh.
  tmem (tame_field "algorithm" _ (tame_TPMI_ALG_SYM_OBJECT (mget TPMT_SYM_DEF_OBJECT'algorithm x))).
  jnext W Wh. jnext D Dh.
  tmem (tame_on_when is_obj (negb (mget TPMT_SYM_DEF_OBJECT'algorithm x =? TPM2_ALG_NULL)) _ (tame_field "keyBits" _ (tame_TPMU_SYM_KEY_BITS _ _ Wh Dh))).
  jnext W Wh. jnext D Dh.
  tmem (tame_on_when is_obj (negb (mget TPMT_SYM_DEF_OBJECT'algorithm x =? TPM2_ALG_NULL)) _ (tame_field "mode" _ (tame_TPMU_SYM_MODE _ _ Wh Dh))).
  constructor.
Qed.

Lemma tame_TPMS_SYMCIPHER_PARMS x : s_wf spec_TPMS_SYMCIPHER_PARMS x -> s_dom spec_TPMS_SYMCIPHER_PARMS x -> tame (ifapi_json_TPMS_SYMCIPHER_PARMS_serialize (Some x)).
Proof.
  intros W D. apply tame_object.
  tmem (tame_field "sym" _ (tame_TPMT_SYM_DEF_OBJECT _ W D)).
  constructor.
Qed.

Lemma tame_TPMS_SCHEME_HASH x : s_wf spec_TPMS_SCHEME_HASH x -> s_dom spec_TPMS_SCHEME_HASH x -> tame (ifapi_json_TPMS_SCHEME_HASH_serialize (Some x)).
Proof.
  intros W D. apply tame_object.
  tmem (tame_field "hashAlg" _ (tame_TPMI_ALG_HASH (mget TPMS_SCHEME_HASH'hashAlg x))).
  constructor.
Qed.

Lemma tame_TPMS_SCHEME_ECDAA x : s_wf spec_TPMS_SCHEME_ECDAA x -> s_dom spec_TPMS_SCHEME_ECDAA x -> tame (ifapi_json_TPMS_SCHEME_ECDAA_serialize (Some x)).
Proof.
  intros W D. apply tame_object.
  jnext W Wh. jnext D Dh.
  tmem (tame_field "hashAlg" _ (tame_TPMI_ALG_HASH (mget TPMS_SCHEME_ECDAA'hashAlg x))).
  jnext W Wh. jnext D Dh.
  tmem (tame_field "count" _ (tame_UINT16 (mget TPMS_SCHEME_ECDAA'count x))).
  constructor.
Qed.

Lemma tame_TPMI_ALG_KEYEDHASH_SCHEME x : tame (ifapi_json_TPMI_ALG_KEYEDHASH_SCHEME_serialize x).
Proof. apply tame_checked, tame_TPM2_ALG_ID. Qed.

Lemma tame_TPMS_SCHEME_HMAC x : s_wf spec_TPMS_SCHEME_HASH x -> s_dom spec_TPMS_SCHEME_HASH x -> tame (ifapi_json_TPMS_SCHEME_HMAC_serialize (Some x)).
Proof. exact (tame_TPMS_SCHEME_HASH x). Qed.

Lemma tame_TPMS_SCHEME_XOR x : s_wf spec_TPMS_SCHEME_XOR x -> s_dom spec_TPMS_SCHEME_XOR x -> tame (ifapi_json_TPMS_SCHEME_XOR_serialize (Some x)).
Proof.
  intros W D. apply tame_object.
  jnext W Wh. jnext D Dh.
  tmem (tame_field "hashAlg" _ (tame_TPMI_ALG_HASH (mget TPMS_SCHEME_XOR'hashAlg x))).
  jnext W Wh. jnext D Dh.
  tmem (tame_field "kdf" _ (tame_TPMI_ALG_KDF (mget TPMS_SCHEME_XOR'kdf x))).
  constructor.
Qed.

Lemma tame_TPMU_SCHEME_KEYEDHASH sel x : wf_TPMU_SCHEME_KEYEDHASH x -> s_dom (spec_TPMU_SCHEME_KEYEDHASH sel) x -> tame (ifapi_json_TPMU_SCHEME_KEYEDHASH_serialize (Some x) sel).
Proof.
  intros Wx D. unfold ifapi_json_TPMU_SCHEME_KEYEDHASH_serialize, union_serialize.
  ucases sel.
  - utame tame_TPMS_SCHEME_HMAC.
  - utame tame_TPMS_SCHEME_XOR.
  - apply tame_ret, settled_bad.
Qed.

Lemma tame_TPMT_KEYEDHASH_SCHEME x : s_wf spec_TPMT_KEYEDHASH_SCHEME x -> s_dom spec_TPMT_KEYEDHASH_SCHEME x -> tame (ifapi_json_TPMT_KEYEDHASH_SCHEME_serialize (Some x)).
Proof.
  intros W D. apply tame_object.
  jnext W Wh. jnext D Dh.
  tmem (tame_field "scheme" _ (tame_TPMI_ALG_KEYEDHASH_SCHEME (mget TPMT_KEYEDHASH_SCHEME'scheme x))).
  jnext W Wh. jnext D Dh.
  tmem (tame_on_when is_obj (negb (mget TPMT_KEYEDHASH_SCHEME'scheme x =? TPM2_ALG_NULL)) _ (tame_field "details" _ (tame_TPMU_SCHEME_KEYEDHASH _ _ Wh Dh))).
  constructor.
Qed.

Lemma tame_TPMS_SIG_SCHEME_RSASSA x : s_wf spec_TPMS_SCHEME_HASH x -> s_dom spec_TPMS_SCHEME_HASH x -> tame (ifapi_json_TPMS_SIG_SCHEME_RSASSA_serialize (Some x)).
Proof. exact (tame_TPMS_SCHEME_HASH x). Qed.

Lemma tame_TPMS_SIG_SCHEME_RSAPSS x : s_wf spec_TPMS_SCHEME_HASH x -> s_dom spec_TPMS_SCHEME_HASH x -> tame (ifapi_json_TPMS_SIG_SCHEME_RSAPSS_serialize (Some x)).
Proof. exact (tame_TPMS_SCHEME_HASH x). Qed.

Lemma tame_TPMS_SIG_SCHEME_ECDSA x : s_wf spec_TPMS_SCHEME_HASH x -> s_dom spec_TPMS_SCHEME_HASH x -> tame (ifapi_json_TPMS_SIG_SCHEME_ECDSA_serialize (Some x)).
Proof. exact (tame_TPMS_SCHEME_HASH x). Qed.

Lemma tame_TPMS_SIG_SCHEME_SM2 x : s_wf spec_TPMS_SCHEME_HASH x -> s_dom spec_TPMS_SCHEME_HASH x -> tame (ifapi_json_TPMS_SIG_SCHEME_SM2_serialize (Some x)).
Proof. exact (tame_TPMS_SCHEME_HASH x). Qed.

Lemma tame_TPMS_SIG_SCHEME_ECSCHNORR x : s_wf spec_TPMS_SCHEME_HASH x -> s_dom spec_TPMS_SCHEME_HASH x -> tame (ifapi_json_TPMS_SIG_SCHEME_ECSCHNORR_serialize (Some x)).
Proof. exact (tame_TPMS_SCHEME_HASH x). Qed.

Lemma tame_TPMS_SIG_SCHEME_ECDAA x : s_wf spec_TPMS_SCHEME_ECDAA x -> s_dom spec_TPMS_SCHEME_ECDAA x -> tame (ifapi_json_TPMS_SIG_SCHEME_ECDAA_serialize (Some x)).
Proof. exact (tame_TPMS_SCHEME_ECDAA x). Qed.

Lemma tame_TPMU_SIG_SCHEME sel x : wf_TPMU_SIG_SCHEME x -> s_dom (spec_TPMU_SIG_SCHEME sel) x -> tame (ifapi_json_TPMU_SIG_SCHEME_serialize (Some x) sel).
Proof.
  intros Wx D. unfold ifapi_json_TPMU_SIG_SCHEME_serialize, union_serialize.
  ucases sel.
  - utame tame_TPMS_SIG_SCHEME_RSASSA.
  - utame tame_TPMS_SIG_SCHEME_RSAPSS.
  - utame tame_TPMS_SIG_SCHEME_ECDSA.
  - utame tame_TPMS_SIG_SCHEME_ECDAA.
  - utame tame_TPMS_SIG_SCHEME_SM2.
  - utame tame_TPMS_SIG_SCHEME_ECSCHNORR.
  - utame tame_TPMS_SCHEME_HMAC.
  - apply tame_ret, settled_bad.
Qed.

Lemma tame_TPMT_SIG_SCHEME x : s_wf spec_TPMT_SIG_SCHEME x -> s_dom spec_TPMT_SIG_SCHEME x -> tame (ifapi_json_TPMT_SIG_SCHEME_serialize (Some x)).
Proof.
  intros W D. apply tame_object.
  jnext W Wh. jnext D Dh.
  tmem (tame_field "scheme" _ (tame_TPMI_ALG_SIG_SCHEME (mget TPMT_SIG_SCHEME'scheme x))).
  jnext W Wh. jnext D Dh.
  tmem (tame_on_when is_obj (negb (mget TPMT_SIG_SCHEME'scheme x =? TPM2_ALG_NULL)) _ (tame_field "details" _ (tame_TPMU_SIG_SCHEME _ _ Wh Dh))).
  constructor.
Qed.

Lemma tame_TPMS_ENC_SCHEME_OAEP x : s_wf spec_TPMS_SCHEME_HASH x -> s_dom spec_TPMS_SCHEME_HASH x -> tame (ifapi_json_TPMS_ENC_SCHEME_OAEP_serialize (Some x)).
Proof. exact (tame_TPMS_SCHEME_HASH x). Qed.

Lemma tame_TPMS_ENC_SCHEME_RSAES x : tame (ifapi_json_TPMS_ENC_SCHEME_RSAES_serialize x).
Proof. exact (tame_TPMS_EMPTY x). Qed.

Lemma tame_TPMS_KEY_SCHEME_ECDH x : s_wf spec_TPMS_SCHEME_HASH x -> s_dom spec_TPMS_SCHEME_HASH x -> tame (ifapi_json_TPMS_KEY_SCHEME_ECDH_serialize (Some x)).
Proof. exact (tame_TPMS_SCHEME_HASH x). Qed.

Lemma tame_TPMS_SCHEME_MGF1 x : s_wf spec_TPMS_SCHEME_HASH x -> s_dom spec_TPMS_SCHEME_HASH x -> tame (ifapi_json_TPMS_SCHEME_MGF1_serialize (Some x)).
Proof. exact (tame_TPMS_SCHEME_HASH x). Qed.

Lemma tame_TPMS_SCHEME_KDF1_SP800_56A x : s_wf spec_TPMS_SCHEME_HASH x -> s_dom spec_TPMS_SCHEME_HASH x -> tame (ifapi_json_TPMS_SCHEME_KDF1_SP800_56A_serialize (Some x)).
Proof. exact (tame_TPMS_SCHEME_HASH x). Qed.

Lemma tame_TPMS_SCHEME_KDF1_SP800_108 x : s_wf spec_TPMS_SCHEME_HASH x -> s_dom spec_TPMS_SCHEME_HASH x -> tame (ifapi_json_TPMS_SCHEME_KDF1_SP800_108_serialize (Some x)).
Proof. exact (tame_TPMS_SCHEME_HASH x). Qed.

Lemma tame_TPMU_KDF_SCHEME sel x : wf_TPMU_KDF_SCHEME x -> s_dom (spec_TPMU_KDF_SCHEME sel) x -> tame (ifapi_json_TPMU_KDF_SCHEME_serialize (Some x) sel).
Proof.
  intros Wx D. unfold ifapi_json_TPMU_KDF_SCHEME_serialize, union_serialize.
  ucases sel.
  - utame tame_TPMS_SCHEME_MGF1.
  - utame tame_TPMS_SCHEME_KDF1_SP800_56A.
  - utame tame_TPMS_SCHEME_KDF1_SP800_108.
  - apply tame_ret, settled_bad.
Qed.

Lemma tame_TPMT_KDF_SCHEME x : s_wf spec_TPMT_KDF_SCHEME x -> s_dom spec_TPMT_KDF_SCHEME x -> tame (ifapi_json_TPMT_KDF_SCHEME_serialize (Some x)).
Proof.
  intros W D. apply tame_object.
  jnext W Wh. jnext D Dh.
  tmem (tame_field "scheme" _ (tame_TPMI_ALG_KDF (mget TPMT_KDF_SCHEME'scheme x))).
  jnext W Wh. jnext D Dh.
  tmem (tame_on_when is_obj (negb (mget TPMT_KDF_SCHEME'scheme x =? TPM2_ALG_NULL)) _ (tame_field "details" _ (tame_TPMU_KDF_SCHEME _ _ Wh Dh))).
  constructor.
Qed.

Lemma tame_TPMI_ALG_ASYM_SCHEME x : tame (ifapi_json_TPMI_ALG_ASYM_SCHEME_serialize x).
Proof. apply tame_checked, tame_TPM2_ALG_ID. Qed.

Lemma tame_TPMU_ASYM_SCHEME sel x : wf_TPMU_ASYM_SCHEME x -> s_dom (spec_TPMU_ASYM_SCHEME sel) x -> tame (ifapi_json_TPMU_ASYM_SCHEME_serialize (Some x) sel).
Proof.
  intros Wx D. unfold ifapi_json_TPMU_ASYM_SCHEME_serialize, union_serialize.
  ucases sel.
  - utame tame_TPMS_KEY_SCHEME_ECDH.
  - utame tame_TPMS_SIG_SCHEME_RSASSA.
  - utame tame_TPMS_SIG_SCHEME_RSAPSS.
  - utame tame_TPMS_SIG_SCHEME_ECDSA.
  - utame tame_TPMS_SIG_SCHEME_ECDAA.
  - utame tame_TPMS_SIG_SCHEME_SM2.
  - utame tame_TPMS_SIG_SCHEME_ECSCHNORR.
  - exact (tame_ret _ settled_success).
  - utame tame_TPMS_ENC_SCHEME_OAEP.
  - utame tame_TPMS_SCHEME_HASH.
  - apply tame_ret, settled_bad.
Qed.

Lemma tame_TPMI_ALG_RSA_SCHEME x : tame (ifapi_json_TPMI_ALG_RSA_SCHEME_serialize x).
Proof. apply tame_checked, tame_TPM2_ALG_ID. Qed.

Lemma tame_TPMT_RSA_SCHEME x : s_wf spec_TPMT_RSA_SCHEME x -> s_dom spec_TPMT_RSA_SCHEME x -> tame (ifapi_json_TPMT_RSA_SCHEME_serialize (Some x)).
Proof.
  intros W D. apply tame_object.
  jnext W Wh. jnext D Dh.
  tmem (tame_field "scheme" _ (tame_TPMI_ALG_RSA_SCHEME (mget TPMT_RSA_SCHEME'scheme x))).
  jnext W Wh. jnext D Dh.
  tmem (tame_on_when is_obj (negb (mget TPMT_RSA_SCHEME'scheme x =? TPM2_ALG_NULL)) _ (tame_field "details" _ (tame_TPMU_ASYM_SCHEME _ _ Wh Dh))).
  constructor.
Qed.

Lemma tame_TPM2B_PUBLIC_KEY_RSA x : s_wf spec_TPM2B_PUBLIC_KEY_RSA x -> s_dom spec_TPM2B_PUBLIC_KEY_RSA x -> tame (ifapi_json_TPM2B_PUBLIC_KEY_RSA_serialize (Some x)).
Proof. intros W _. refine (tame_2b _ _ _ _ W); cap_ok. Qed.

Lemma tame_TPMI_RSA_KEY_BITS x : tame (ifapi_json_TPMI_RSA_KEY_BITS_serialize x).
Proof. apply tame_checked, tame_UINT16. Qed.

Lemma tame_TPM2B_ECC_PARAMETER x : s_wf spec_TPM2B_ECC_PARAMETER x -> s_dom spec_TPM2B_ECC_PARAMETER x -> tame (ifapi_json_TPM2B_ECC_PARAMETER_serialize (Some x)).
Proof. intros W _. refine (tame_2b _ _ _ _ W); cap_ok. Qed.

Lemma tame_TPMS_ECC_POINT x : s_wf spec_TPMS_ECC_POINT x -> s_dom spec_TPMS_ECC_POINT x -> tame (ifapi_json_TPMS_ECC_POINT_serialize (Some x)).
Proof.
  intros W D. apply tame_object.
  jnext W Wh. jnext D Dh.
  tmem (tame_field "x" _ (tame_TPM2B_ECC_PARAMETER _ Wh Dh)).
  jnext W Wh. jnext D Dh.
  tmem (tame_field "y" _ (tame_TPM2B_ECC_PARAMETER _ Wh Dh)).
  constructor.
Qed.

Lemma tame_TPMI_ALG_ECC_SCHEME x : tame (ifapi_json_TPMI_ALG_ECC_SCHEME_serialize x).
Proof. apply tame_checked, tame_TPM2_ALG_ID. Qed.

Lemma tame_TPMI_ECC_CURVE x : tame (ifapi_json_TPMI_ECC_CURVE_serialize x).
Proof. apply tame_TPM2_ECC_CURVE. Qed.

Lemma tame_TPMT_ECC_SCHEME x : s_wf spec_TPMT_ECC_SCHEME x -> s_dom spec_TPMT_ECC_SCHEME x -> tame (ifapi_json_TPMT_ECC_SCHEME_serialize (Some x)).
Proof.
  intros W D. apply tame_object.
  jnext W Wh. jnext D Dh.
  tmem (tame_field "scheme" _ (tame_TPMI_ALG_ECC_SCHEME (mget TPMT_ECC_SCHEME'scheme x))).
  jnext W Wh. jnext D Dh.
  tmem (tame_on_when is_obj (negb (mget TPMT_ECC_SCHEME'scheme x =? TPM2_ALG_NULL)) _ (tame_field "details" _ (tame_TPMU_ASYM_SCHEME _ _ Wh Dh))).
  constructor.
Qed.

Lemma tame_TPMS_SIGNATURE_RSA x : s_wf spec_TPMS_SIGNATURE_RSA x -> s_dom spec_TPMS_SIGNATURE_RSA x -> tame (ifapi_json_TPMS_SIGNATURE_RSA_serialize (Some x)).
Proof.
  intros W D. apply tame_object.
  jnext W Wh. jnext D Dh.
  tmem (tame_field "hash" _ (tame_TPMI_ALG_HASH (mget TPMS_SIGNATURE_RSA'hash x))).
  jnext W Wh. jnext D Dh.
  tmem (tame_field "sig" _ (tame_TPM2B_PUBLIC_KEY_RSA _ Wh Dh)).
  constructor.
Qed.

Lemma tame_TPMS_SIGNATURE_RSASSA x : s_wf spec_TPMS_SIGNATURE_RSA x -> s_dom spec_TPMS_SIGNATURE_RSA x -> tame (ifapi_json_TPMS_SIGNATURE_RSASSA_serialize (Some x)).
Proof. exact (tame_TPMS_SIGNATURE_RSA x). Qed.

Lemma tame_TPMS_SIGNATURE_RSAPSS x : s_wf spec_TPMS_SIGNATURE_RSA x -> s_dom spec_TPMS_SIGNATURE_RSA x -> tame (ifapi_json_TPMS_SIGNATURE_RSAPSS_serialize (Some x)).
Proof. exact (tame_TPMS_SIGNATURE_RSA x). Qed.

Lemma tame_TPMS_SIGNATURE_ECC x : s_wf spec_TPMS_SIGNATURE_ECC x -> s_dom spec_TPMS_SIGNATURE_ECC x -> tame (ifapi_json_TPMS_SIGNATURE_ECC_serialize (Some x)).
Proof.
  intros W D. apply tame_object.
  jnext W Wh. jnext D Dh.
  tmem (tame_field "hash" _ (tame_TPMI_ALG_HASH (mget TPMS_SIGNATURE_ECC'hash x))).
  jnext W Wh. jnext D Dh.
  tmem (tame_field "signatureR" _ (tame_TPM2B_ECC_PARAMETER _ Wh Dh)).
  jnext W Wh. jnext D Dh.
  tmem (tame_field "signatureS" _ (tame_TPM2B_ECC_PARAMETER _ Wh Dh)).
  constructor.
Qed.

Lemma tame_TPMS_SIGNATURE_ECDSA x : s_wf spec_TPMS_SIGNATURE_ECC x -> s_dom spec_TPMS_SIGNATURE_ECC x -> tame (ifapi_json_TPMS_SIGNATURE_ECDSA_serialize (Some x)).
Proof. exact (tame_TPMS_SIGNATURE_ECC x). Qed.

Lemma tame_TPMS_SIGNATURE_ECDAA x : s_wf spec_TPMS_SIGNATURE_ECC x -> s_dom spec_TPMS_SIGNATURE_ECC x -> tame (ifapi_json_TPMS_SIGNATURE_ECDAA_serialize (Some x)).
Proof. exact (tame_TPMS_SIGNATURE_ECC x). Qed.

Lemma tame_TPMS_SIGNATURE_SM2 x : s_wf spec_TPMS_SIGNATURE_ECC x -> s_dom spec_TPMS_SIGNATURE_ECC x -> tame (ifapi_json_TPMS_SIGNATURE_SM2_serialize (Some x)).
Proof. exact (tame_TPMS_SIGNATURE_ECC x). Qed.

Lemma tame_TPMS_SIGNATURE_ECSCHNORR x : s_wf spec_TPMS_SIGNATURE_ECC x -> s_dom spec_TPMS_SIGNATURE_ECC x -> tame (ifapi_json_TPMS_SIGNATURE_ECSCHNORR_serialize (Some x)).
Proof. exact (tame_TPMS_SIGNATURE_ECC x). Qed.

Lemma tame_TPM2B_MLDSA_SIGNATURE x : s_wf spec_TPM2B_MLDSA_SIGNATURE x -> s_dom spec_TPM2B_MLDSA_SIGNATURE x -> tame (ifapi_json_TPM2B_MLDSA_SIGNATURE_serialize (Some x)).
Proof. intros W _. refine (tame_2b _ _ _ _ W); cap_ok. Qed.

Lemma tame_TPMS_SIGNATURE_MLDSA x : s_wf spec_TPMS_SIGNATURE_MLDSA x -> s_dom spec_TPMS_SIGNATURE_MLDSA x -> tame (ifapi_json_TPMS_SIGNATURE_MLDSA_serialize (Some x)).
Proof.
  intros W D. apply tame_object.
  jnext W Wh. jnext D Dh.
  tmem (tame_field "hash" _ (tame_TPMI_ALG_HASH (mget TPMS_SIGNATURE_MLDSA'hash x))).
  jnext W Wh. jnext D Dh.
  tmem (tame_field "sig" _ (tame_TPM2B_MLDSA_SIGNATURE _ Wh Dh)).
  constructor.
Qed.

Lemma tame_TPM2B_MLDSA_PUBLIC_KEY x : s_wf spec_TPM2B_MLDSA_PUBLIC_KEY x -> s_dom spec_TPM2B_MLDSA_PUBLIC_KEY x -> tame (ifapi_json_TPM2B_MLDSA_PUBLIC_KEY_serialize (Some x)).
Proof. intros W _. refine (tame_2b _ _ _ _ W); cap_ok. Qed.

Lemma tame_TPM2B_MLKEM_PUBLIC_KEY x : s_wf spec_TPM2B_MLKEM_PUBLIC_KEY x -> s_dom spec_TPM2B_MLKEM_PUBLIC_KEY x -> tame (ifapi_json_TPM2B_MLKEM_PUBLIC_KEY_serialize (Some x)).
Proof. intros W _. refine (tame_2b _ _ _ _ W); cap_ok. Qed.

Lemma tame_TPMS_ML_PARAMETER_SET x :
  s_wf spec_TPMS_ML_PARAMETER_SET x -> s_dom spec_TPMS_ML_PARAMETER_SET x ->
  tame (ifapi_json_TPMS_ML_PARAMETER_SET_serialize (Some x)).
Proof. intros _ _. apply tame_object. tmem (tame_int64_field "identifier" (mget TPMS_ML_PARAMETER_SET'identifier x)). constructor. Qed.

Lemma tame_TPMS_MLDSA_PARMS x : s_wf spec_TPMS_MLDSA_PARMS x -> s_dom spec_TPMS_MLDSA_PARMS x -> tame (ifapi_json_TPMS_MLDSA_PARMS_serialize (Some x)).
Proof.
  intros W D. apply tame_object.
  jnext W Wh. jnext D Dh.
  tmem (tame_field "nameAlg" _ (tame_TPMI_ALG_HASH (mget TPMS_MLDSA_PARMS'nameAlg x))).
  jnext W Wh. jnext D Dh.
  tmem (tame_field "parameterSet" _ (tame_TPMS_ML_PARAMETER_SET _ Wh Dh)).
  constructor.
Qed.

Lemma tame_TPMS_MLKEM_PARMS x : s_wf spec_TPMS_MLKEM_PARMS x -> s_dom spec_TPMS_MLKEM_PARMS x -> tame (ifapi_json_TPMS_MLKEM_PARMS_serialize (Some x)).
Proof.
  intros W D. apply tame_object.
  jnext W Wh. jnext D Dh.
  tmem (tame_field "nameAlg" _ (tame_TPMI_ALG_HASH (mget TPMS_MLKEM_PARMS'nameAlg x))).
  jnext W Wh. jnext D Dh.
  tmem (tame_field "parameterSet" _ (tame_TPMS_ML_PARAMETER_SET _ Wh Dh)).
  constructor.
Qed.

Lemma tame_TPMU_SIGNATURE sel x : wf_TPMU_SIGNATURE x -> s_dom (spec_TPMU_SIGNATURE sel) x -> tame (ifapi_json_TPMU_SIGNATURE_serialize (Some x) sel).
Proof.
  intros Wx D. unfold ifapi_json_TPMU_SIGNATURE_serialize, union_serialize.
  ucases sel.
  - utame tame_TPMS_SIGNATURE_RSASSA.
  - utame tame_TPMS_SIGNATURE_RSAPSS.
  - utame tame_TPMS_SIGNATURE_ECDSA.
  - utame tame_TPMS_SIGNATURE_ECDAA.
  - utame tame_TPMS_SIGNATURE_SM2.
  - utame tame_TPMS_SIGNATURE_ECSCHNORR.
  - utame tame_TPMT_HA.
  - utame tame_TPMS_SIGNATURE_MLDSA.
  - apply tame_ret, settled_bad.
Qed.

Lemma tame_TPMT_SIGNATURE x : s_wf spec_TPMT_SIGNATURE x -> s_dom spec_TPMT_SIGNATURE x -> tame (ifapi_json_TPMT_SIGNATURE_serialize (Some x)).
Proof.
  intros W D. apply tame_object.
  jnext W Wh. jnext D Dh.
  tmem (tame_field "sigAlg" _ (tame_TPMI_ALG_SIG_SCHEME (mget TPMT_SIGNATURE'sigAlg x))).
  jnext W Wh. jnext D Dh.
  tmem (tame_on_when is_obj (negb (mget TPMT_SIGNATURE'sigAlg x =? TPM2_ALG_NULL)) _ (tame_field "signature" _ (tame_TPMU_SIGNATURE _ _ Wh Dh))).
  constructor.
Qed.

Lemma tame_TPM2B_ENCRYPTED_SECRET x : s_wf spec_TPM2B_ENCRYPTED_SECRET x -> s_dom spec_TPM2B_ENCRYPTED_SECRET x -> tame (ifapi_json_TPM2B_ENCRYPTED_SECRET_serialize (Some x)).
Proof. intros W _. refine (tame_2b _ _ _ _ W); cap_ok. Qed.

Lemma tame_TPMI_ALG_PUBLIC x : tame (ifapi_json_TPMI_ALG_PUBLIC_serialize x).
Proof. apply tame_checked, tame_TPM2_ALG_ID. Qed.

Lemma tame_TPMU_PUBLIC_ID sel x : wf_TPMU_PUBLIC_ID x -> s_dom (spec_TPMU_PUBLIC_ID sel) x -> tame (ifapi_json_TPMU_PUBLIC_ID_serialize (Some x) sel).
Proof.
  intros Wx D. unfold ifapi_json_TPMU_PUBLIC_ID_serialize, union_serialize.
  ucases sel.
  - utame tame_TPM2B_DIGEST.
  - utame tame_TPM2B_DIGEST.
  - utame tame_TPM2B_PUBLIC_KEY_RSA.
  - utame tame_TPMS_ECC_POINT.
  - utame tame_TPM2B_MLDSA_PUBLIC_KEY.
  - utame tame_TPM2B_MLKEM_PUBLIC_KEY.
  - apply tame_ret, settled_bad.
Qed.

Lemma tame_TPMS_KEYEDHASH_PARMS x : s_wf spec_TPMS_KEYEDHASH_PARMS x -> s_dom spec_TPMS_KEYEDHASH_PARMS x -> tame (ifapi_json_TPMS_KEYEDHASH_PARMS_serialize (Some x)).
Proof.
  intros W D. apply tame_object.
  tmem (tame_field "scheme" _ (tame_TPMT_KEYEDHASH_SCHEME _ W D)).
  constructor.
Qed.

Lemma tame_TPMS_RSA_PARMS x : s_wf spec_TPMS_RSA_PARMS x -> s_dom spec_TPMS_RSA_PARMS x -> tame (ifapi_json_TPMS_RSA_PARMS_serialize (Some x)).
Proof.
  intros W D. apply tame_object.
  jnext W Wh. jnext D Dh.
  tmem (tame_field "symmetric" _ (tame_TPMT_SYM_DEF_OBJECT _ Wh Dh)).
  jnext W Wh. jnext D Dh.
  tmem (tame_field "scheme" _ (tame_TPMT_RSA_SCHEME _ Wh Dh)).
  jnext W Wh. jnext D Dh.
  tmem (tame_field "keyBits" _ (tame_TPMI_RSA_KEY_BITS (mget TPMS_RSA_PARMS'keyBits x))).
  jnext W Wh. jnext D Dh.
  tmem (tame_field "exponent" _ (tame_UINT32 (mget TPMS_RSA_PARMS'exponent x))).
  constructor.
Qed.

Lemma tame_TPMS_ECC_PARMS x : s_wf spec_TPMS_ECC_PARMS x -> s_dom spec_TPMS_ECC_PARMS x -> tame (ifapi_json_TPMS_ECC_PARMS_serialize (Some x)).
Proof.
  intros W D. apply tame_object.
  jnext W Wh. jnext D Dh.
  tmem (tame_field "symmetric" _ (tame_TPMT_SYM_DEF_OBJECT _ Wh Dh)).
  jnext W Wh. jnext D Dh.
  tmem (tame_field "scheme" _ (tame_TPMT_ECC_SCHEME _ Wh Dh)).
  jnext W Wh. jnext D Dh.
  tmem (tame_field "curveID" _ (tame_TPMI_ECC_CURVE (mget TPMS_ECC_PARMS'curveID x))).
  jnext W Wh. jnext D Dh.
  tmem (tame_field "kdf" _ (tame_TPMT_KDF_SCHEME _ Wh Dh)).
  constructor.
Qed.

Lemma tame_TPMU_PUBLIC_PARMS sel x : wf_TPMU_PUBLIC_PARMS x -> s_dom (spec_TPMU_PUBLIC_PARMS sel) x -> tame (ifapi_json_TPMU_PUBLIC_PARMS_serialize (Some x) sel).
Proof.
  intros Wx D. unfold ifapi_json_TPMU_PUBLIC_PARMS_serialize, union_serialize.
  ucases sel.
  - utame tame_TPMS_KEYEDHASH_PARMS.
  - utame tame_TPMS_SYMCIPHER_PARMS.
  - utame tame_TPMS_RSA_PARMS.
  - utame tame_TPMS_ECC_PARMS.
  - utame tame_TPMS_MLDSA_PARMS.
  - utame tame_TPMS_MLKEM_PARMS.
  - apply tame_ret, settled_bad.
Qed.

Lemma tame_TPMT_PUBLIC x : s_wf spec_TPMT_PUBLIC x -> s_dom spec_TPMT_PUBLIC x -> tame (ifapi_json_TPMT_PUBLIC_serialize (Some x)).
Proof.
  intros W D. apply tame_object.
  jnext W Wh. jnext D Dh.
  tmem (tame_field "type" _ (tame_TPMI_ALG_PUBLIC (mget TPMT_PUBLIC'type x))).
  jnext W Wh. jnext D Dh.
  tmem (tame_field "nameAlg" _ (tame_TPMI_ALG_HASH (mget TPMT_PUBLIC'nameAlg x))).
  jnext W Wh. jnext D Dh.
  tmem (tame_field "objectAttributes" _ (tame_TPMA_OBJECT (mget TPMT_PUBLIC'objectAttributes x))).
  jnext W Wh. jnext D Dh.
  tmem (tame_field "authPolicy" _ (tame_TPM2B_DIGEST _ Wh Dh)).
  jnext W Wh. jnext D Dh.
  tmem (tame_field "parameters" _ (tame_TPMU_PUBLIC_PARMS _ _ Wh Dh)).
  jnext W Wh. jnext D Dh.
  tmem (tame_field "unique" _ (tame_TPMU_PUBLIC_ID _ _ Wh Dh)).
  constructor.
Qed.

Lemma tame_TPM2B_PUBLIC x : s_wf spec_TPM2B_PUBLIC x -> s_dom spec_TPM2B_PUBLIC x -> tame (ifapi_json_TPM2B_PUBLIC_serialize (Some x)).
Proof.
  intros W D. apply tame_object_checked.
  tmem (tame_field "size" _ (tame_or_bad_value _ (tame_UINT16 (mget sub_size x)))).
  tmem (tame_field "publicArea" _ (tame_or_bad_value _ (tame_TPMT_PUBLIC _ (proj2 W) D))).
  constructor.
Qed.

Lemma tame_TPM2B_PRIVATE x : s_wf spec_TPM2B_PRIVATE x -> s_dom spec_TPM2B_PRIVATE x -> tame (ifapi_json_TPM2B_PRIVATE_serialize (Some x)).
Proof. intros W _. refine (tame_2b _ _ _ _ W); cap_ok. Qed.

Lemma tame_TPM2_NT x : tame (ifapi_json_TPM2_NT_serialize x).
Proof. apply tame_table. Qed.

Lemma tame_TPMA_NV x : tame (ifapi_json_TPMA_NV_serialize x).
Proof. apply tame_object_checked; repeat apply list.Forall_cons_2; [..|by constructor];
  auto using tame_bits, tame_int64_field, tame_field, tame_TPM2_NT. Qed.

Lemma tame_TPMS_NV_PUBLIC x : s_wf spec_TPMS_NV_PUBLIC x -> s_dom spec_TPMS_NV_PUBLIC x -> tame (ifapi_json_TPMS_NV_PUBLIC_serialize (Some x)).
Proof.
  intros W D. apply tame_object.
  jnext W Wh. jnext D Dh.
  tmem (tame_field "nvIndex" _ (tame_TPMI_RH_NV_INDEX (mget TPMS_NV_PUBLIC'nvIndex x))).
  jnext W Wh. jnext D Dh.
  tmem (tame_field "nameAlg" _ (tame_TPMI_ALG_HASH (mget TPMS_NV_PUBLIC'nameAlg x))).
  jnext W Wh. jnext D Dh.
  tmem (tame_field "attributes" _ (tame_TPMA_NV (mget TPMS_NV_PUBLIC'attributes x))).
  jnext W Wh. jnext D Dh.
  tmem (tame_field "authPolicy" _ (tame_TPM2B_DIGEST _ Wh Dh)).
  jnext W Wh. jnext D Dh.
  tmem (tame_field "dataSize" _ (tame_UINT16 (mget TPMS_NV_PUBLIC'dataSize x))).
  constructor.
Qed.

Lemma tame_TPM2B_NV_PUBLIC x : s_wf spec_TPM2B_NV_PUBLIC x -> s_dom spec_TPM2B_NV_PUBLIC x -> tame (ifapi_json_TPM2B_NV_PUBLIC_serialize (Some x)).
Proof.
  intros W D. apply tame_object_checked.
  tmem (tame_field "size" _ (tame_or_bad_value _ (tame_UINT16 (mget sub_size x)))).
  tmem (tame_field "nvPublic" _ (tame_or_bad_value _ (tame_TPMS_NV_PUBLIC _ (proj2 W) D))).
  constructor.
Qed.

Lemma tame_TPMS_CREATION_DATA x : s_wf spec_TPMS_CREATION_DATA x -> s_dom spec_TPMS_CREATION_DATA x -> tame (ifapi_json_TPMS_CREATION_DATA_serialize (Some x)).
Proof.
  intros W D. apply tame_object.
  jnext W Wh. jnext D Dh.
  tmem (tame_field "pcrSelect" _ (tame_TPML_PCR_SELECTION _ Wh Dh)).
  jnext W Wh. jnext D Dh.
  tmem (tame_field "pcrDigest" _ (tame_TPM2B_DIGEST _ Wh Dh)).
  jnext W Wh. jnext D Dh.
  tmem (tame_field "locality" _ (tame_TPMA_LOCALITY (mget TPMS_CREATION_DATA'locality x))).
  jnext W Wh. jnext D Dh.
  tmem (tame_field "parentNameAlg" _ (tame_TPM2_ALG_ID (mget TPMS_CREATION_DATA'parentNameAlg x))).
  jnext W Wh. jnext D Dh.
  tmem (tame_field "parentName" _ (tame_TPM2B_NAME _ Wh Dh)).
  jnext W Wh. jnext D Dh.
  tmem (tame_field "parentQualifiedName" _ (tame_TPM2B_NAME _ Wh Dh)).
  jnext W Wh. jnext D Dh.
  tmem (tame_field "outsideInfo" _ (tame_TPM2B_DATA _ Wh Dh)).
  constructor.
Qed.

Lemma tame_TPM2B_CREATION_DATA x : s_wf spec_TPM2B_CREATION_DATA x -> s_dom spec_TPM2B_CREATION_DATA x -> tame (ifapi_json_TPM2B_CREATION_DATA_serialize (Some x)).
Proof.
  intros W D. apply tame_object_checked.
  tmem (tame_field "size" _ (tame_or_bad_value _ (tame_UINT16 (mget sub_size x)))).
  tmem (tame_field "creationData" _ (tame_or_bad_value _ (tame_TPMS_CREATION_DATA _ (proj2 W) D))).
  constructor.
Qed.

End Total.
