(* ===== verification/JsonRegistry.v ===== *)
(** * The types FAPI writes and reads as JSON.

    [json_codec ser de dom s]: [ser] and [de] are the serializer and the
    deserializer of a type, [dom] the values that survive, [s] the wire format
    of the type; [json_union] lists the unions. *)

From stdpp Require Import base strings list_numbers.
From S2P Require Import Prelude Common MuSpec MuBase MuBaseOk MuStruct MuStructOk MuTpm2b MuTpm2bOk MuUnion MuPcr TpmTypes MuTypes MuTypesOk SysCodes JsonCodes JsonC JsonBase JsonNum JsonSer JsonDe JsonOk JsonNumOk JsonListOk JsonTypesOk JsonTame.

Inductive json_codec `{JC : JsonC} :
    forall {T : Type}, (T -> jser) -> jde T -> (T -> Prop) -> spec T -> Prop :=
| json_UINT16 : json_codec ifapi_json_UINT16_serialize ifapi_json_UINT16_deserialize dom_UINT16 (spec_int UINT16)
| json_UINT32 : json_codec ifapi_json_UINT32_serialize ifapi_json_UINT32_deserialize dom_UINT32 (spec_int UINT32)
| json_UINT64 : json_codec ifapi_json_UINT64_serialize ifapi_json_UINT64_deserialize dom_UINT64 (spec_int UINT64)
| json_TPM2_HANDLE : json_codec ifapi_json_TPM2_HANDLE_serialize ifapi_json_TPM2_HANDLE_deserialize dom_TPM2_HANDLE (spec_int UINT32)
| json_TPMI_RH_NV_INDEX : json_codec ifapi_json_TPMI_RH_NV_INDEX_serialize ifapi_json_TPMI_RH_NV_INDEX_deserialize dom_TPMI_RH_NV_INDEX (spec_int UINT32)
| json_TPMI_YES_NO : json_codec ifapi_json_TPMI_YES_NO_serialize ifapi_json_TPMI_YES_NO_deserialize dom_TPMI_YES_NO (spec_int UINT8)
| json_TPMA_OBJECT : json_codec ifapi_json_TPMA_OBJECT_serialize ifapi_json_TPMA_OBJECT_deserialize dom_TPMA_OBJECT (spec_int UINT32)
| json_TPMA_ACT : json_codec ifapi_json_TPMA_ACT_serialize ifapi_json_TPMA_ACT_deserialize dom_TPMA_ACT (spec_int UINT32)
| json_TPMA_LOCALITY : json_codec ifapi_json_TPMA_LOCALITY_serialize ifapi_json_TPMA_LOCALITY_deserialize dom_TPMA_LOCALITY (spec_int UINT8)
| json_TPMA_NV : json_codec ifapi_json_TPMA_NV_serialize ifapi_json_TPMA_NV_deserialize dom_TPMA_NV (spec_int UINT32)
| json_TPM2_NT : json_codec ifapi_json_TPM2_NT_serialize ifapi_json_TPM2_NT_deserialize (fun x => In x dom_NT) (spec_int UINT8)
| json_TPM2_ALG_ID : json_codec ifapi_json_TPM2_ALG_ID_serialize ifapi_json_TPM2_ALG_ID_deserialize dom_TPM2_ALG_ID (spec_int UINT16)
| json_TPMI_ALG_HASH : json_codec ifapi_json_TPMI_ALG_HASH_serialize ifapi_json_TPMI_ALG_HASH_deserialize dom_TPMI_ALG_HASH (spec_int UINT16)
| json_TPMS_PCR_SELECTION : json_codec (fun x => ifapi_json_TPMS_PCR_SELECTION_serialize (Some x)) ifapi_json_TPMS_PCR_SELECTION_deserialize dom_TPMS_PCR_SELECTION spec_TPMS_PCR_SELECTION
| json_TPM2_PT_PCR : json_codec ifapi_json_TPM2_PT_PCR_serialize ifapi_json_TPM2_PT_PCR_deserialize dom_TPM2_PT_PCR (spec_int UINT32)
| json_TPMT_HA : json_codec (fun x => ifapi_json_TPMT_HA_serialize (Some x)) ifapi_json_TPMT_HA_deserialize dom_TPMT_HA spec_TPMT_HA
| json_TPMS_TAGGED_POLICY : json_codec (fun x => ifapi_json_TPMS_TAGGED_POLICY_serialize (Some x)) ifapi_json_TPMS_TAGGED_POLICY_deserialize dom_TPMS_TAGGED_POLICY spec_TPMS_TAGGED_POLICY
| json_TPMS_ACT_DATA : json_codec (fun x => ifapi_json_TPMS_ACT_DATA_serialize (Some x)) ifapi_json_TPMS_ACT_DATA_deserialize dom_TPMS_ACT_DATA spec_TPMS_ACT_DATA
| json_TPM2_ECC_CURVE : json_codec ifapi_json_TPM2_ECC_CURVE_serialize ifapi_json_TPM2_ECC_CURVE_deserialize dom_TPM2_ECC_CURVE (spec_int UINT16)
| json_TPM2_CC : json_codec ifapi_json_TPM2_CC_serialize ifapi_json_TPM2_CC_deserialize dom_TPM2_CC (spec_int UINT32)
| json_TPM2_EO : json_codec ifapi_json_TPM2_EO_serialize ifapi_json_TPM2_EO_deserialize dom_TPM2_EO (spec_int UINT16)
| json_TPM2_ST : json_codec ifapi_json_TPM2_ST_serialize ifapi_json_TPM2_ST_deserialize dom_TPM2_ST (spec_int UINT16)
| json_TPMI_RH_HIERARCHY : json_codec ifapi_json_TPMI_RH_HIERARCHY_serialize ifapi_json_TPMI_RH_HIERARCHY_deserialize dom_TPMI_RH_HIERARCHY (spec_int UINT32)
| json_TPMI_ALG_SYM_OBJECT : json_codec ifapi_json_TPMI_ALG_SYM_OBJECT_serialize ifapi_json_TPMI_ALG_SYM_OBJECT_deserialize dom_TPMI_ALG_SYM_OBJECT (spec_int UINT16)
| json_TPMI_ALG_SYM_MODE : json_codec ifapi_json_TPMI_ALG_SYM_MODE_serialize ifapi_json_TPMI_ALG_SYM_MODE_deserialize dom_TPMI_ALG_SYM_MODE (spec_int UINT16)
| json_TPMI_ALG_CIPHER_MODE : json_codec ifapi_json_TPMI_ALG_CIPHER_MODE_serialize ifapi_json_TPMI_ALG_CIPHER_MODE_deserialize dom_TPMI_ALG_CIPHER_MODE (spec_int UINT16)
| json_TPMI_ALG_KDF : json_codec ifapi_json_TPMI_ALG_KDF_serialize ifapi_json_TPMI_ALG_KDF_deserialize dom_TPMI_ALG_KDF (spec_int UINT16)
| json_TPMI_ALG_SIG_SCHEME : json_codec ifapi_json_TPMI_ALG_SIG_SCHEME_serialize ifapi_json_TPMI_ALG_SIG_SCHEME_deserialize dom_TPMI_ALG_SIG_SCHEME (spec_int UINT16)
| json_TPM2B_DIGEST : json_codec (fun x => ifapi_json_TPM2B_DIGEST_serialize (Some x)) ifapi_json_TPM2B_DIGEST_deserialize dom_TPM2B_DIGEST spec_TPM2B_DIGEST
| json_TPM2B_NONCE : json_codec (fun x => ifapi_json_TPM2B_NONCE_serialize (Some x)) ifapi_json_TPM2B_NONCE_deserialize dom_TPM2B_NONCE spec_TPM2B_DIGEST
| json_TPM2B_OPERAND : json_codec (fun x => ifapi_json_TPM2B_OPERAND_serialize (Some x)) ifapi_json_TPM2B_OPERAND_deserialize dom_TPM2B_OPERAND spec_TPM2B_DIGEST
| json_TPM2B_EVENT : json_codec (fun x => ifapi_json_TPM2B_EVENT_serialize (Some x)) ifapi_json_TPM2B_EVENT_deserialize dom_TPM2B_EVENT spec_TPM2B_EVENT
| json_TPM2B_MAX_NV_BUFFER : json_codec (fun x => ifapi_json_TPM2B_MAX_NV_BUFFER_serialize (Some x)) ifapi_json_TPM2B_MAX_NV_BUFFER_deserialize dom_TPM2B_MAX_NV_BUFFER spec_TPM2B_MAX_NV_BUFFER
| json_TPM2B_NAME : json_codec (fun x => ifapi_json_TPM2B_NAME_serialize (Some x)) ifapi_json_TPM2B_NAME_deserialize dom_TPM2B_NAME spec_TPM2B_NAME
| json_TPMT_TK_CREATION : json_codec (fun x => ifapi_json_TPMT_TK_CREATION_serialize (Some x)) ifapi_json_TPMT_TK_CREATION_deserialize dom_TPMT_TK_CREATION spec_TPMT_TK_CREATION
| json_TPML_DIGEST_VALUES : json_codec (fun x => ifapi_json_TPML_DIGEST_VALUES_serialize (Some x)) ifapi_json_TPML_DIGEST_VALUES_deserialize dom_TPML_DIGEST_VALUES spec_TPML_DIGEST_VALUES
| json_TPML_PCR_SELECTION : json_codec (fun x => ifapi_json_TPML_PCR_SELECTION_serialize (Some x)) ifapi_json_TPML_PCR_SELECTION_deserialize dom_TPML_PCR_SELECTION spec_TPML_PCR_SELECTION
| json_TPMS_CLOCK_INFO : json_codec (fun x => ifapi_json_TPMS_CLOCK_INFO_serialize (Some x)) ifapi_json_TPMS_CLOCK_INFO_deserialize dom_TPMS_CLOCK_INFO spec_TPMS_CLOCK_INFO
| json_TPMS_TIME_INFO : json_codec (fun x => ifapi_json_TPMS_TIME_INFO_serialize (Some x)) ifapi_json_TPMS_TIME_INFO_deserialize dom_TPMS_TIME_INFO spec_TPMS_TIME_INFO
| json_TPMS_TIME_ATTEST_INFO : json_codec (fun x => ifapi_json_TPMS_TIME_ATTEST_INFO_serialize (Some x)) ifapi_json_TPMS_TIME_ATTEST_INFO_deserialize dom_TPMS_TIME_ATTEST_INFO spec_TPMS_TIME_ATTEST_INFO
| json_TPMS_CERTIFY_INFO : json_codec (fun x => ifapi_json_TPMS_CERTIFY_INFO_serialize (Some x)) ifapi_json_TPMS_CERTIFY_INFO_deserialize dom_TPMS_CERTIFY_INFO spec_TPMS_CERTIFY_INFO
| json_TPMS_QUOTE_INFO : json_codec (fun x => ifapi_json_TPMS_QUOTE_INFO_serialize (Some x)) ifapi_json_TPMS_QUOTE_INFO_deserialize dom_TPMS_QUOTE_INFO spec_TPMS_QUOTE_INFO
| json_TPMS_COMMAND_AUDIT_INFO : json_codec (fun x => ifapi_json_TPMS_COMMAND_AUDIT_INFO_serialize (Some x)) ifapi_json_TPMS_COMMAND_AUDIT_INFO_deserialize dom_TPMS_COMMAND_AUDIT_INFO spec_TPMS_COMMAND_AUDIT_INFO
| json_TPMS_SESSION_AUDIT_INFO : json_codec (fun x => ifapi_json_TPMS_SESSION_AUDIT_INFO_serialize (Some x)) ifapi_json_TPMS_SESSION_AUDIT_INFO_deserialize dom_TPMS_SESSION_AUDIT_INFO spec_TPMS_SESSION_AUDIT_INFO
| json_TPMS_CREATION_INFO : json_codec (fun x => ifapi_json_TPMS_CREATION_INFO_serialize (Some x)) ifapi_json_TPMS_CREATION_INFO_deserialize dom_TPMS_CREATION_INFO spec_TPMS_CREATION_INFO
| json_TPMS_NV_CERTIFY_INFO : json_codec (fun x => ifapi_json_TPMS_NV_CERTIFY_INFO_serialize (Some x)) ifapi_json_TPMS_NV_CERTIFY_INFO_deserialize dom_TPMS_NV_CERTIFY_INFO spec_TPMS_NV_CERTIFY_INFO
| json_TPMI_ST_ATTEST : json_codec ifapi_json_TPMI_ST_ATTEST_serialize ifapi_json_TPMI_ST_ATTEST_deserialize dom_TPMI_ST_ATTEST (spec_int UINT16)
| json_TPMI_SM4_KEY_BITS : json_codec ifapi_json_TPMI_SM4_KEY_BITS_serialize ifapi_json_TPMI_SM4_KEY_BITS_deserialize dom_TPMI_SM4_KEY_BITS (spec_int UINT16)
| json_TPMI_CAMELLIA_KEY_BITS : json_codec ifapi_json_TPMI_CAMELLIA_KEY_BITS_serialize ifapi_json_TPMI_CAMELLIA_KEY_BITS_deserialize dom_TPMI_CAMELLIA_KEY_BITS (spec_int UINT16)
| json_TPMI_AES_KEY_BITS : json_codec ifapi_json_TPMI_AES_KEY_BITS_serialize ifapi_json_TPMI_AES_KEY_BITS_deserialize dom_TPMI_AES_KEY_BITS (spec_int UINT16)
| json_TPMT_SYM_DEF_OBJECT : json_codec (fun x => ifapi_json_TPMT_SYM_DEF_OBJECT_serialize (Some x)) ifapi_json_TPMT_SYM_DEF_OBJECT_deserialize dom_TPMT_SYM_DEF_OBJECT spec_TPMT_SYM_DEF_OBJECT
| json_TPMS_SYMCIPHER_PARMS : json_codec (fun x => ifapi_json_TPMS_SYMCIPHER_PARMS_serialize (Some x)) ifapi_json_TPMS_SYMCIPHER_PARMS_deserialize dom_TPMS_SYMCIPHER_PARMS spec_TPMS_SYMCIPHER_PARMS
| json_TPMS_SCHEME_HASH : json_codec (fun x => ifapi_json_TPMS_SCHEME_HASH_serialize (Some x)) ifapi_json_TPMS_SCHEME_HASH_deserialize dom_TPMS_SCHEME_HASH spec_TPMS_SCHEME_HASH
| json_TPMS_SCHEME_ECDAA : json_codec (fun x => ifapi_json_TPMS_SCHEME_ECDAA_serialize (Some x)) ifapi_json_TPMS_SCHEME_ECDAA_deserialize dom_TPMS_SCHEME_ECDAA spec_TPMS_SCHEME_ECDAA
| json_TPMI_ALG_KEYEDHASH_SCHEME : json_codec ifapi_json_TPMI_ALG_KEYEDHASH_SCHEME_serialize ifapi_json_TPMI_ALG_KEYEDHASH_SCHEME_deserialize dom_TPMI_ALG_KEYEDHASH_SCHEME (spec_int UINT16)
| json_TPMS_SCHEME_HMAC : json_codec (fun x => ifapi_json_TPMS_SCHEME_HMAC_serialize (Some x)) ifapi_json_TPMS_SCHEME_HMAC_deserialize dom_TPMS_SCHEME_HMAC spec_TPMS_SCHEME_HASH
| json_TPMS_SCHEME_XOR : json_codec (fun x => ifapi_json_TPMS_SCHEME_XOR_serialize (Some x)) ifapi_json_TPMS_SCHEME_XOR_deserialize dom_TPMS_SCHEME_XOR spec_TPMS_SCHEME_XOR
| json_TPMT_KEYEDHASH_SCHEME : json_codec (fun x => ifapi_json_TPMT_KEYEDHASH_SCHEME_serialize (Some x)) ifapi_json_TPMT_KEYEDHASH_SCHEME_deserialize dom_TPMT_KEYEDHASH_SCHEME spec_TPMT_KEYEDHASH_SCHEME
| json_TPMS_SIG_SCHEME_RSASSA : json_codec (fun x => ifapi_json_TPMS_SIG_SCHEME_RSASSA_serialize (Some x)) ifapi_json_TPMS_SIG_SCHEME_RSASSA_deserialize dom_TPMS_SIG_SCHEME_RSASSA spec_TPMS_SCHEME_HASH
| json_TPMS_SIG_SCHEME_RSAPSS : json_codec (fun x => ifapi_json_TPMS_SIG_SCHEME_RSAPSS_serialize (Some x)) ifapi_json_TPMS_SIG_SCHEME_RSAPSS_deserialize dom_TPMS_SIG_SCHEME_RSAPSS spec_TPMS_SCHEME_HASH
| json_TPMS_SIG_SCHEME_ECDSA : json_codec (fun x => ifapi_json_TPMS_SIG_SCHEME_ECDSA_serialize (Some x)) ifapi_json_TPMS_SIG_SCHEME_ECDSA_deserialize dom_TPMS_SIG_SCHEME_ECDSA spec_TPMS_SCHEME_HASH
| json_TPMS_SIG_SCHEME_SM2 : json_codec (fun x => ifapi_json_TPMS_SIG_SCHEME_SM2_serialize (Some x)) ifapi_json_TPMS_SIG_SCHEME_SM2_deserialize dom_TPMS_SIG_SCHEME_SM2 spec_TPMS_SCHEME_HASH
| json_TPMS_SIG_SCHEME_ECSCHNORR : json_codec (fun x => ifapi_json_TPMS_SIG_SCHEME_ECSCHNORR_serialize (Some x)) ifapi_json_TPMS_SIG_SCHEME_ECSCHNORR_deserialize dom_TPMS_SIG_SCHEME_ECSCHNORR spec_TPMS_SCHEME_HASH
| json_TPMS_SIG_SCHEME_ECDAA : json_codec (fun x => ifapi_json_TPMS_SIG_SCHEME_ECDAA_serialize (Some x)) ifapi_json_TPMS_SIG_SCHEME_ECDAA_deserialize dom_TPMS_SIG_SCHEME_ECDAA spec_TPMS_SCHEME_ECDAA
| json_TPMT_SIG_SCHEME : json_codec (fun x => ifapi_json_TPMT_SIG_SCHEME_serialize (Some x)) ifapi_json_TPMT_SIG_SCHEME_deserialize dom_TPMT_SIG_SCHEME spec_TPMT_SIG_SCHEME
| json_TPMS_ENC_SCHEME_OAEP : json_codec (fun x => ifapi_json_TPMS_ENC_SCHEME_OAEP_serialize (Some x)) ifapi_json_TPMS_ENC_SCHEME_OAEP_deserialize dom_TPMS_ENC_SCHEME_OAEP spec_TPMS_SCHEME_HASH
| json_TPMS_KEY_SCHEME_ECDH : json_codec (fun x => ifapi_json_TPMS_KEY_SCHEME_ECDH_serialize (Some x)) ifapi_json_TPMS_KEY_SCHEME_ECDH_deserialize dom_TPMS_KEY_SCHEME_ECDH spec_TPMS_SCHEME_HASH
| json_TPMS_SCHEME_MGF1 : json_codec (fun x => ifapi_json_TPMS_SCHEME_MGF1_serialize (Some x)) ifapi_json_TPMS_SCHEME_MGF1_deserialize dom_TPMS_SCHEME_MGF1 spec_TPMS_SCHEME_HASH
| json_TPMS_SCHEME_KDF1_SP800_56A : json_codec (fun x => ifapi_json_TPMS_SCHEME_KDF1_SP800_56A_serialize (Some x)) ifapi_json_TPMS_SCHEME_KDF1_SP800_56A_deserialize dom_TPMS_SCHEME_KDF1_SP800_56A spec_TPMS_SCHEME_HASH
| json_TPMS_SCHEME_KDF1_SP800_108 : json_codec (fun x => ifapi_json_TPMS_SCHEME_KDF1_SP800_108_serialize (Some x)) ifapi_json_TPMS_SCHEME_KDF1_SP800_108_deserialize dom_TPMS_SCHEME_KDF1_SP800_108 spec_TPMS_SCHEME_HASH
| json_TPMT_KDF_SCHEME : json_codec (fun x => ifapi_json_TPMT_KDF_SCHEME_serialize (Some x)) ifapi_json_TPMT_KDF_SCHEME_deserialize dom_TPMT_KDF_SCHEME spec_TPMT_KDF_SCHEME
| json_TPMI_ALG_RSA_SCHEME : json_codec ifapi_json_TPMI_ALG_RSA_SCHEME_serialize ifapi_json_TPMI_ALG_RSA_SCHEME_deserialize dom_TPMI_ALG_RSA_SCHEME (spec_int UINT16)
| json_TPMT_RSA_SCHEME : json_codec (fun x => ifapi_json_TPMT_RSA_SCHEME_serialize (Some x)) ifapi_json_TPMT_RSA_SCHEME_deserialize dom_TPMT_RSA_SCHEME spec_TPMT_RSA_SCHEME
| json_TPM2B_PUBLIC_KEY_RSA : json_codec (fun x => ifapi_json_TPM2B_PUBLIC_KEY_RSA_serialize (Some x)) ifapi_json_TPM2B_PUBLIC_KEY_RSA_deserialize dom_TPM2B_PUBLIC_KEY_RSA spec_TPM2B_PUBLIC_KEY_RSA
| json_TPMI_RSA_KEY_BITS : json_codec ifapi_json_TPMI_RSA_KEY_BITS_serialize ifapi_json_TPMI_RSA_KEY_BITS_deserialize dom_TPMI_RSA_KEY_BITS (spec_int UINT16)
| json_TPM2B_ECC_PARAMETER : json_codec (fun x => ifapi_json_TPM2B_ECC_PARAMETER_serialize (Some x)) ifapi_json_TPM2B_ECC_PARAMETER_deserialize dom_TPM2B_ECC_PARAMETER spec_TPM2B_ECC_PARAMETER
| json_TPMS_ECC_POINT : json_codec (fun x => ifapi_json_TPMS_ECC_POINT_serialize (Some x)) ifapi_json_TPMS_ECC_POINT_deserialize dom_TPMS_ECC_POINT spec_TPMS_ECC_POINT
| json_TPMI_ALG_ECC_SCHEME : json_codec ifapi_json_TPMI_ALG_ECC_SCHEME_serialize ifapi_json_TPMI_ALG_ECC_SCHEME_deserialize dom_TPMI_ALG_ECC_SCHEME (spec_int UINT16)
| json_TPMI_ECC_CURVE : json_codec ifapi_json_TPMI_ECC_CURVE_serialize ifapi_json_TPMI_ECC_CURVE_deserialize dom_TPMI_ECC_CURVE (spec_int UINT16)
| json_TPMT_ECC_SCHEME : json_codec (fun x => ifapi_json_TPMT_ECC_SCHEME_serialize (Some x)) ifapi_json_TPMT_ECC_SCHEME_deserialize dom_TPMT_ECC_SCHEME spec_TPMT_ECC_SCHEME
| json_TPMS_SIGNATURE_RSA : json_codec (fun x => ifapi_json_TPMS_SIGNATURE_RSA_serialize (Some x)) ifapi_json_TPMS_SIGNATURE_RSA_deserialize dom_TPMS_SIGNATURE_RSA spec_TPMS_SIGNATURE_RSA
| json_TPMS_SIGNATURE_RSASSA : json_codec (fun x => ifapi_json_TPMS_SIGNATURE_RSASSA_serialize (Some x)) ifapi_json_TPMS_SIGNATURE_RSASSA_deserialize dom_TPMS_SIGNATURE_RSASSA spec_TPMS_SIGNATURE_RSA
| json_TPMS_SIGNATURE_RSAPSS : json_codec (fun x => ifapi_json_TPMS_SIGNATURE_RSAPSS_serialize (Some x)) ifapi_json_TPMS_SIGNATURE_RSAPSS_deserialize dom_TPMS_SIGNATURE_RSAPSS spec_TPMS_SIGNATURE_RSA
| json_TPMS_SIGNATURE_ECC : json_codec (fun x => ifapi_json_TPMS_SIGNATURE_ECC_serialize (Some x)) ifapi_json_TPMS_SIGNATURE_ECC_deserialize dom_TPMS_SIGNATURE_ECC spec_TPMS_SIGNATURE_ECC
| json_TPMS_SIGNATURE_ECDSA : json_codec (fun x => ifapi_json_TPMS_SIGNATURE_ECDSA_serialize (Some x)) ifapi_json_TPMS_SIGNATURE_ECDSA_deserialize dom_TPMS_SIGNATURE_ECDSA spec_TPMS_SIGNATURE_ECC
| json_TPMS_SIGNATURE_ECDAA : json_codec (fun x => ifapi_json_TPMS_SIGNATURE_ECDAA_serialize (Some x)) ifapi_json_TPMS_SIGNATURE_ECDAA_deserialize dom_TPMS_SIGNATURE_ECDAA spec_TPMS_SIGNATURE_ECC
| json_TPMS_SIGNATURE_SM2 : json_codec (fun x => ifapi_json_TPMS_SIGNATURE_SM2_serialize (Some x)) ifapi_json_TPMS_SIGNATURE_SM2_deserialize dom_TPMS_SIGNATURE_SM2 spec_TPMS_SIGNATURE_ECC
| json_TPMS_SIGNATURE_ECSCHNORR : json_codec (fun x => ifapi_json_TPMS_SIGNATURE_ECSCHNORR_serialize (Some x)) ifapi_json_TPMS_SIGNATURE_ECSCHNORR_deserialize dom_TPMS_SIGNATURE_ECSCHNORR spec_TPMS_SIGNATURE_ECC
| json_TPM2B_MLDSA_SIGNATURE : json_codec (fun x => ifapi_json_TPM2B_MLDSA_SIGNATURE_serialize (Some x)) ifapi_json_TPM2B_MLDSA_SIGNATURE_deserialize dom_TPM2B_MLDSA_SIGNATURE spec_TPM2B_MLDSA_SIGNATURE
| json_TPMS_SIGNATURE_MLDSA : json_codec (fun x => ifapi_json_TPMS_SIGNATURE_MLDSA_serialize (Some x)) ifapi_json_TPMS_SIGNATURE_MLDSA_deserialize dom_TPMS_SIGNATURE_MLDSA spec_TPMS_SIGNATURE_MLDSA
| json_TPM2B_MLDSA_PUBLIC_KEY : json_codec (fun x => ifapi_json_TPM2B_MLDSA_PUBLIC_KEY_serialize (Some x)) ifapi_json_TPM2B_MLDSA_PUBLIC_KEY_deserialize dom_TPM2B_MLDSA_PUBLIC_KEY spec_TPM2B_MLDSA_PUBLIC_KEY
| json_TPM2B_MLKEM_PUBLIC_KEY : json_codec (fun x => ifapi_json_TPM2B_MLKEM_PUBLIC_KEY_serialize (Some x)) ifapi_json_TPM2B_MLKEM_PUBLIC_KEY_deserialize dom_TPM2B_MLKEM_PUBLIC_KEY spec_TPM2B_MLKEM_PUBLIC_KEY
| json_TPMS_ML_PARAMETER_SET : json_codec (fun x => ifapi_json_TPMS_ML_PARAMETER_SET_serialize (Some x)) ifapi_json_TPMS_ML_PARAMETER_SET_deserialize dom_TPMS_ML_PARAMETER_SET spec_TPMS_ML_PARAMETER_SET
| json_TPMS_MLDSA_PARMS : json_codec (fun x => ifapi_json_TPMS_MLDSA_PARMS_serialize (Some x)) ifapi_json_TPMS_MLDSA_PARMS_deserialize dom_TPMS_MLDSA_PARMS spec_TPMS_MLDSA_PARMS
| json_TPMS_MLKEM_PARMS : json_codec (fun x => ifapi_json_TPMS_MLKEM_PARMS_serialize (Some x)) ifapi_json_TPMS_MLKEM_PARMS_deserialize dom_TPMS_MLKEM_PARMS spec_TPMS_MLKEM_PARMS
| json_TPMT_SIGNATURE : json_codec (fun x => ifapi_json_TPMT_SIGNATURE_serialize (Some x)) ifapi_json_TPMT_SIGNATURE_deserialize dom_TPMT_SIGNATURE spec_TPMT_SIGNATURE
| json_TPM2B_ENCRYPTED_SECRET : json_codec (fun x => ifapi_json_TPM2B_ENCRYPTED_SECRET_serialize (Some x)) ifapi_json_TPM2B_ENCRYPTED_SECRET_deserialize dom_TPM2B_ENCRYPTED_SECRET spec_TPM2B_ENCRYPTED_SECRET
| json_TPMI_ALG_PUBLIC : json_codec ifapi_json_TPMI_ALG_PUBLIC_serialize ifapi_json_TPMI_ALG_PUBLIC_deserialize dom_TPMI_ALG_PUBLIC (spec_int UINT16)
| json_TPMS_KEYEDHASH_PARMS : json_codec (fun x => ifapi_json_TPMS_KEYEDHASH_PARMS_serialize (Some x)) ifapi_json_TPMS_KEYEDHASH_PARMS_deserialize dom_TPMS_KEYEDHASH_PARMS spec_TPMS_KEYEDHASH_PARMS
| json_TPMS_RSA_PARMS : json_codec (fun x => ifapi_json_TPMS_RSA_PARMS_serialize (Some x)) ifapi_json_TPMS_RSA_PARMS_deserialize dom_TPMS_RSA_PARMS spec_TPMS_RSA_PARMS
| json_TPMS_ECC_PARMS : json_codec (fun x => ifapi_json_TPMS_ECC_PARMS_serialize (Some x)) ifapi_json_TPMS_ECC_PARMS_deserialize dom_TPMS_ECC_PARMS spec_TPMS_ECC_PARMS
| json_TPMT_PUBLIC : json_codec (fun x => ifapi_json_TPMT_PUBLIC_serialize (Some x)) ifapi_json_TPMT_PUBLIC_deserialize dom_TPMT_PUBLIC spec_TPMT_PUBLIC
| json_TPM2B_PUBLIC : json_codec (fun x => ifapi_json_TPM2B_PUBLIC_serialize (Some x)) ifapi_json_TPM2B_PUBLIC_deserialize dom_TPM2B_PUBLIC spec_TPM2B_PUBLIC
| json_TPM2B_PRIVATE : json_codec (fun x => ifapi_json_TPM2B_PRIVATE_serialize (Some x)) ifapi_json_TPM2B_PRIVATE_deserialize dom_TPM2B_PRIVATE spec_TPM2B_PRIVATE
| json_TPMS_NV_PUBLIC : json_codec (fun x => ifapi_json_TPMS_NV_PUBLIC_serialize (Some x)) ifapi_json_TPMS_NV_PUBLIC_deserialize dom_TPMS_NV_PUBLIC spec_TPMS_NV_PUBLIC
| json_TPM2B_NV_PUBLIC : json_codec (fun x => ifapi_json_TPM2B_NV_PUBLIC_serialize (Some x)) ifapi_json_TPM2B_NV_PUBLIC_deserialize dom_TPM2B_NV_PUBLIC spec_TPM2B_NV_PUBLIC.

Inductive json_union `{JC : JsonC} : forall {U : Type},
    (option U -> Z -> jser) -> (Z -> jde U) -> (Z -> U -> Prop) -> (U -> Prop) -> (Z -> spec U) -> Prop :=
| json_TPMU_HA : json_union ifapi_json_TPMU_HA_serialize ifapi_json_TPMU_HA_deserialize dom_TPMU_HA wf_TPMU_HA spec_TPMU_HA
| json_TPMU_ATTEST : json_union ifapi_json_TPMU_ATTEST_serialize ifapi_json_TPMU_ATTEST_deserialize dom_TPMU_ATTEST wf_TPMU_ATTEST spec_TPMU_ATTEST
| json_TPMU_SYM_KEY_BITS : json_union ifapi_json_TPMU_SYM_KEY_BITS_serialize ifapi_json_TPMU_SYM_KEY_BITS_deserialize dom_TPMU_SYM_KEY_BITS wf_TPMU_SYM_KEY_BITS spec_TPMU_SYM_KEY_BITS
| json_TPMU_SYM_MODE : json_union ifapi_json_TPMU_SYM_MODE_serialize ifapi_json_TPMU_SYM_MODE_deserialize dom_TPMU_SYM_MODE wf_TPMU_SYM_MODE spec_TPMU_SYM_MODE
| json_TPMU_SCHEME_KEYEDHASH : json_union ifapi_json_TPMU_SCHEME_KEYEDHASH_serialize ifapi_json_TPMU_SCHEME_KEYEDHASH_deserialize dom_TPMU_SCHEME_KEYEDHASH wf_TPMU_SCHEME_KEYEDHASH spec_TPMU_SCHEME_KEYEDHASH
| json_TPMU_SIG_SCHEME : json_union ifapi_json_TPMU_SIG_SCHEME_serialize ifapi_json_TPMU_SIG_SCHEME_deserialize dom_TPMU_SIG_SCHEME wf_TPMU_SIG_SCHEME spec_TPMU_SIG_SCHEME
| json_TPMU_KDF_SCHEME : json_union ifapi_json_TPMU_KDF_SCHEME_serialize ifapi_json_TPMU_KDF_SCHEME_deserialize dom_TPMU_KDF_SCHEME wf_TPMU_KDF_SCHEME spec_TPMU_KDF_SCHEME
| json_TPMU_ASYM_SCHEME : json_union ifapi_json_TPMU_ASYM_SCHEME_serialize ifapi_json_TPMU_ASYM_SCHEME_deserialize dom_TPMU_ASYM_SCHEME wf_TPMU_ASYM_SCHEME spec_TPMU_ASYM_SCHEME
| json_TPMU_SIGNATURE : json_union ifapi_json_TPMU_SIGNATURE_serialize ifapi_json_TPMU_SIGNATURE_deserialize dom_TPMU_SIGNATURE wf_TPMU_SIGNATURE spec_TPMU_SIGNATURE
| json_TPMU_PUBLIC_ID : json_union ifapi_json_TPMU_PUBLIC_ID_serialize ifapi_json_TPMU_PUBLIC_ID_deserialize dom_TPMU_PUBLIC_ID wf_TPMU_PUBLIC_ID spec_TPMU_PUBLIC_ID
| json_TPMU_PUBLIC_PARMS : json_union ifapi_json_TPMU_PUBLIC_PARMS_serialize ifapi_json_TPMU_PUBLIC_PARMS_deserialize dom_TPMU_PUBLIC_PARMS wf_TPMU_PUBLIC_PARMS spec_TPMU_PUBLIC_PARMS.

(** The values with a wire format: the unions in them hold the member that
    their selector names. *)
Definition has_format {T} (s : spec T) (x : T) : Prop := s_wf s x /\ s_dom s x.

(** [json_writer ser ok]: a serializer and the values it is for. *)
Inductive json_writer `{JC : JsonC} : forall {T : Type}, (T -> jser) -> (T -> Prop) -> Prop :=
| jw_TPMS_EMPTY : json_writer ifapi_json_TPMS_EMPTY_serialize (fun _ => True)
| jw_TPMS_PCR_SELECT : json_writer (fun x => ifapi_json_TPMS_PCR_SELECT_serialize (Some x)) (has_format spec_TPMS_PCR_SELECT)
| jw_TPM2_ALG_ID : json_writer ifapi_json_TPM2_ALG_ID_serialize (fun _ => True)
| jw_TPMI_ALG_HASH : json_writer ifapi_json_TPMI_ALG_HASH_serialize (fun _ => True)
| jw_TPMS_PCR_SELECTION : json_writer (fun x => ifapi_json_TPMS_PCR_SELECTION_serialize (Some x)) (has_format spec_TPMS_PCR_SELECTION)
| jw_TPM2_PT_PCR : json_writer ifapi_json_TPM2_PT_PCR_serialize (fun _ => True)
| jw_TPMS_TAGGED_PCR_SELECT : json_writer (fun x => ifapi_json_TPMS_TAGGED_PCR_SELECT_serialize (Some x)) (has_format spec_TPMS_TAGGED_PCR_SELECT)
| jw_TPM2_HANDLE : json_writer ifapi_json_TPM2_HANDLE_serialize (fun _ => True)
| jw_TPMU_HA sel : json_writer (fun u => ifapi_json_TPMU_HA_serialize (Some u) sel) (fun u => wf_TPMU_HA u /\ s_dom (spec_TPMU_HA sel) u)
| jw_TPMT_HA : json_writer (fun x => ifapi_json_TPMT_HA_serialize (Some x)) (has_format spec_TPMT_HA)
| jw_TPMS_TAGGED_POLICY : json_writer (fun x => ifapi_json_TPMS_TAGGED_POLICY_serialize (Some x)) (has_format spec_TPMS_TAGGED_POLICY)
| jw_UINT32 : json_writer ifapi_json_UINT32_serialize (fun _ => True)
| jw_TPMA_ACT : json_writer ifapi_json_TPMA_ACT_serialize (fun _ => True)
| jw_TPMS_ACT_DATA : json_writer (fun x => ifapi_json_TPMS_ACT_DATA_serialize (Some x)) (has_format spec_TPMS_ACT_DATA)
| jw_UINT16 : json_writer ifapi_json_UINT16_serialize (fun _ => True)
| jw_INT32 : json_writer ifapi_json_INT32_serialize (fun _ => True)
| jw_UINT64 : json_writer ifapi_json_UINT64_serialize (fun _ => True)
| jw_TPM2_GENERATED : json_writer ifapi_json_TPM2_GENERATED_serialize (fun _ => True)
| jw_TPM2_ECC_CURVE : json_writer ifapi_json_TPM2_ECC_CURVE_serialize (fun _ => True)
| jw_TPM2_CC : json_writer ifapi_json_TPM2_CC_serialize (fun _ => True)
| jw_TPM2_EO : json_writer ifapi_json_TPM2_EO_serialize (fun _ => True)
| jw_TPM2_ST : json_writer ifapi_json_TPM2_ST_serialize (fun _ => True)
| jw_TPM2_CAP : json_writer ifapi_json_TPM2_CAP_serialize (fun _ => True)
| jw_TPM2_PT : json_writer ifapi_json_TPM2_PT_serialize (fun _ => True)
| jw_TPMA_ALGORITHM : json_writer ifapi_json_TPMA_ALGORITHM_serialize (fun _ => True)
| jw_TPMA_OBJECT : json_writer ifapi_json_TPMA_OBJECT_serialize (fun _ => True)
| jw_TPMA_LOCALITY : json_writer ifapi_json_TPMA_LOCALITY_serialize (fun _ => True)
| jw_TPMA_CC : json_writer ifapi_json_TPMA_CC_serialize (fun _ => True)
| jw_TPMI_YES_NO : json_writer ifapi_json_TPMI_YES_NO_serialize (fun _ => True)
| jw_TPMI_RH_HIERARCHY : json_writer ifapi_json_TPMI_RH_HIERARCHY_serialize (fun _ => True)
| jw_TPMI_RH_NV_INDEX : json_writer ifapi_json_TPMI_RH_NV_INDEX_serialize (fun _ => True)
| jw_TPMI_ALG_SYM_OBJECT : json_writer ifapi_json_TPMI_ALG_SYM_OBJECT_serialize (fun _ => True)
| jw_TPMI_ALG_SYM_MODE : json_writer ifapi_json_TPMI_ALG_SYM_MODE_serialize (fun _ => True)
| jw_TPMI_ALG_CIPHER_MODE : json_writer ifapi_json_TPMI_ALG_CIPHER_MODE_serialize (fun _ => True)
| jw_TPMI_ALG_KDF : json_writer ifapi_json_TPMI_ALG_KDF_serialize (fun _ => True)
| jw_TPMI_ALG_SIG_SCHEME : json_writer ifapi_json_TPMI_ALG_SIG_SCHEME_serialize (fun _ => True)
| jw_TPM2B_DIGEST : json_writer (fun x => ifapi_json_TPM2B_DIGEST_serialize (Some x)) (has_format spec_TPM2B_DIGEST)
| jw_TPM2B_DATA : json_writer (fun x => ifapi_json_TPM2B_DATA_serialize (Some x)) (has_format spec_TPM2B_DATA)
| jw_TPM2B_NONCE : json_writer (fun x => ifapi_json_TPM2B_NONCE_serialize (Some x)) (has_format spec_TPM2B_DIGEST)
| jw_TPM2B_OPERAND : json_writer (fun x => ifapi_json_TPM2B_OPERAND_serialize (Some x)) (has_format spec_TPM2B_DIGEST)
| jw_TPM2B_EVENT : json_writer (fun x => ifapi_json_TPM2B_EVENT_serialize (Some x)) (has_format spec_TPM2B_EVENT)
| jw_TPM2B_MAX_NV_BUFFER : json_writer (fun x => ifapi_json_TPM2B_MAX_NV_BUFFER_serialize (Some x)) (has_format spec_TPM2B_MAX_NV_BUFFER)
| jw_TPM2B_NAME : json_writer (fun x => ifapi_json_TPM2B_NAME_serialize (Some x)) (has_format spec_TPM2B_NAME)
| jw_TPMT_TK_CREATION : json_writer (fun x => ifapi_json_TPMT_TK_CREATION_serialize (Some x)) (has_format spec_TPMT_TK_CREATION)
| jw_TPMS_ALG_PROPERTY : json_writer (fun x => ifapi_json_TPMS_ALG_PROPERTY_serialize (Some x)) (has_format spec_TPMS_ALG_PROPERTY)
| jw_TPMS_TAGGED_PROPERTY : json_writer (fun x => ifapi_json_TPMS_TAGGED_PROPERTY_serialize (Some x)) (has_format spec_TPMS_TAGGED_PROPERTY)
| jw_TPML_CC : json_writer (fun x => ifapi_json_TPML_CC_serialize (Some x)) (has_format spec_TPML_CC)
| jw_TPML_CCA : json_writer (fun x => ifapi_json_TPML_CCA_serialize (Some x)) (has_format spec_TPML_CCA)
| jw_TPML_HANDLE : json_writer (fun x => ifapi_json_TPML_HANDLE_serialize (Some x)) (has_format spec_TPML_HANDLE)
| jw_TPML_DIGEST_VALUES : json_writer (fun x => ifapi_json_TPML_DIGEST_VALUES_serialize (Some x)) (has_format spec_TPML_DIGEST_VALUES)
| jw_TPML_PCR_SELECTION : json_writer (fun x => ifapi_json_TPML_PCR_SELECTION_serialize (Some x)) (has_format spec_TPML_PCR_SELECTION)
| jw_TPML_ALG_PROPERTY : json_writer (fun x => ifapi_json_TPML_ALG_PROPERTY_serialize (Some x)) (has_format spec_TPML_ALG_PROPERTY)
| jw_TPML_TAGGED_TPM_PROPERTY : json_writer (fun x => ifapi_json_TPML_TAGGED_TPM_PROPERTY_serialize (Some x)) (has_format spec_TPML_TAGGED_TPM_PROPERTY)
| jw_TPML_TAGGED_PCR_PROPERTY : json_writer (fun x => ifapi_json_TPML_TAGGED_PCR_PROPERTY_serialize (Some x)) (has_format spec_TPML_TAGGED_PCR_PROPERTY)
| jw_TPML_ECC_CURVE : json_writer (fun x => ifapi_json_TPML_ECC_CURVE_serialize (Some x)) (has_format spec_TPML_ECC_CURVE)
| jw_TPML_TAGGED_POLICY : json_writer (fun x => ifapi_json_TPML_TAGGED_POLICY_serialize (Some x)) (has_format spec_TPML_TAGGED_POLICY)
| jw_TPML_ACT_DATA : json_writer (fun x => ifapi_json_TPML_ACT_DATA_serialize (Some x)) (has_format spec_TPML_ACT_DATA)
| jw_TPMU_CAPABILITIES sel : json_writer (fun u => ifapi_json_TPMU_CAPABILITIES_serialize (Some u) sel) (fun u => wf_TPMU_CAPABILITIES u /\ s_dom (spec_TPMU_CAPABILITIES sel) u)
| jw_TPMS_CAPABILITY_DATA : json_writer (fun x => ifapi_json_TPMS_CAPABILITY_DATA_serialize (Some x)) (has_format spec_TPMS_CAPABILITY_DATA)
| jw_TPMS_CLOCK_INFO : json_writer (fun x => ifapi_json_TPMS_CLOCK_INFO_serialize (Some x)) (has_format spec_TPMS_CLOCK_INFO)
| jw_TPMS_TIME_INFO : json_writer (fun x => ifapi_json_TPMS_TIME_INFO_serialize (Some x)) (has_format spec_TPMS_TIME_INFO)
| jw_TPMS_TIME_ATTEST_INFO : json_writer (fun x => ifapi_json_TPMS_TIME_ATTEST_INFO_serialize (Some x)) (has_format spec_TPMS_TIME_ATTEST_INFO)
| jw_TPMS_CERTIFY_INFO : json_writer (fun x => ifapi_json_TPMS_CERTIFY_INFO_serialize (Some x)) (has_format spec_TPMS_CERTIFY_INFO)
| jw_TPMS_QUOTE_INFO : json_writer (fun x => ifapi_json_TPMS_QUOTE_INFO_serialize (Some x)) (has_format spec_TPMS_QUOTE_INFO)
| jw_TPMS_COMMAND_AUDIT_INFO : json_writer (fun x => ifapi_json_TPMS_COMMAND_AUDIT_INFO_serialize (Some x)) (has_format spec_TPMS_COMMAND_AUDIT_INFO)
| jw_TPMS_SESSION_AUDIT_INFO : json_writer (fun x => ifapi_json_TPMS_SESSION_AUDIT_INFO_serialize (Some x)) (has_format spec_TPMS_SESSION_AUDIT_INFO)
| jw_TPMS_CREATION_INFO : json_writer (fun x => ifapi_json_TPMS_CREATION_INFO_serialize (Some x)) (has_format spec_TPMS_CREATION_INFO)
| jw_TPMS_NV_CERTIFY_INFO : json_writer (fun x => ifapi_json_TPMS_NV_CERTIFY_INFO_serialize (Some x)) (has_format spec_TPMS_NV_CERTIFY_INFO)
| jw_TPMI_ST_ATTEST : json_writer ifapi_json_TPMI_ST_ATTEST_serialize (fun _ => True)
| jw_TPMU_ATTEST sel : json_writer (fun u => ifapi_json_TPMU_ATTEST_serialize (Some u) sel) (fun u => wf_TPMU_ATTEST u /\ s_dom (spec_TPMU_ATTEST sel) u)
| jw_TPMS_ATTEST : json_writer (fun x => ifapi_json_TPMS_ATTEST_serialize (Some x)) (has_format spec_TPMS_ATTEST)
| jw_TPMI_SM4_KEY_BITS : json_writer ifapi_json_TPMI_SM4_KEY_BITS_serialize (fun _ => True)
| jw_TPMI_CAMELLIA_KEY_BITS : json_writer ifapi_json_TPMI_CAMELLIA_KEY_BITS_serialize (fun _ => True)
| jw_TPMI_AES_KEY_BITS : json_writer ifapi_json_TPMI_AES_KEY_BITS_serialize (fun _ => True)
| jw_TPMU_SYM_KEY_BITS sel : json_writer (fun u => ifapi_json_TPMU_SYM_KEY_BITS_serialize (Some u) sel) (fun u => wf_TPMU_SYM_KEY_BITS u /\ s_dom (spec_TPMU_SYM_KEY_BITS sel) u)
| jw_TPMU_SYM_MODE sel : json_writer (fun u => ifapi_json_TPMU_SYM_MODE_serialize (Some u) sel) (fun u => wf_TPMU_SYM_MODE u /\ s_dom (spec_TPMU_SYM_MODE sel) u)
| jw_TPMT_SYM_DEF_OBJECT : json_writer (fun x => ifapi_json_TPMT_SYM_DEF_OBJECT_serialize (Some x)) (has_format spec_TPMT_SYM_DEF_OBJECT)
| jw_TPMS_SYMCIPHER_PARMS : json_writer (fun x => ifapi_json_TPMS_SYMCIPHER_PARMS_serialize (Some x)) (has_format spec_TPMS_SYMCIPHER_PARMS)
| jw_TPMS_SCHEME_HASH : json_writer (fun x => ifapi_json_TPMS_SCHEME_HASH_serialize (Some x)) (has_format spec_TPMS_SCHEME_HASH)
| jw_TPMS_SCHEME_ECDAA : json_writer (fun x => ifapi_json_TPMS_SCHEME_ECDAA_serialize (Some x)) (has_format spec_TPMS_SCHEME_ECDAA)
| jw_TPMI_ALG_KEYEDHASH_SCHEME : json_writer ifapi_json_TPMI_ALG_KEYEDHASH_SCHEME_serialize (fun _ => True)
| jw_TPMS_SCHEME_HMAC : json_writer (fun x => ifapi_json_TPMS_SCHEME_HMAC_serialize (Some x)) (has_format spec_TPMS_SCHEME_HASH)
| jw_TPMS_SCHEME_XOR : json_writer (fun x => ifapi_json_TPMS_SCHEME_XOR_serialize (Some x)) (has_format spec_TPMS_SCHEME_XOR)
| jw_TPMU_SCHEME_KEYEDHASH sel : json_writer (fun u => ifapi_json_TPMU_SCHEME_KEYEDHASH_serialize (Some u) sel) (fun u => wf_TPMU_SCHEME_KEYEDHASH u /\ s_dom (spec_TPMU_SCHEME_KEYEDHASH sel) u)
| jw_TPMT_KEYEDHASH_SCHEME : json_writer (fun x => ifapi_json_TPMT_KEYEDHASH_SCHEME_serialize (Some x)) (has_format spec_TPMT_KEYEDHASH_SCHEME)
| jw_TPMS_SIG_SCHEME_RSASSA : json_writer (fun x => ifapi_json_TPMS_SIG_SCHEME_RSASSA_serialize (Some x)) (has_format spec_TPMS_SCHEME_HASH)
| jw_TPMS_SIG_SCHEME_RSAPSS : json_writer (fun x => ifapi_json_TPMS_SIG_SCHEME_RSAPSS_serialize (Some x)) (has_format spec_TPMS_SCHEME_HASH)
| jw_TPMS_SIG_SCHEME_ECDSA : json_writer (fun x => ifapi_json_TPMS_SIG_SCHEME_ECDSA_serialize (Some x)) (has_format spec_TPMS_SCHEME_HASH)
| jw_TPMS_SIG_SCHEME_SM2 : json_writer (fun x => ifapi_json_TPMS_SIG_SCHEME_SM2_serialize (Some x)) (has_format spec_TPMS_SCHEME_HASH)
| jw_TPMS_SIG_SCHEME_ECSCHNORR : json_writer (fun x => ifapi_json_TPMS_SIG_SCHEME_ECSCHNORR_serialize (Some x)) (has_format spec_TPMS_SCHEME_HASH)
| jw_TPMS_SIG_SCHEME_ECDAA : json_writer (fun x => ifapi_json_TPMS_SIG_SCHEME_ECDAA_serialize (Some x)) (has_format spec_TPMS_SCHEME_ECDAA)
| jw_TPMU_SIG_SCHEME sel : json_writer (fun u => ifapi_json_TPMU_SIG_SCHEME_serialize (Some u) sel) (fun u => wf_TPMU_SIG_SCHEME u /\ s_dom (spec_TPMU_SIG_SCHEME sel) u)
| jw_TPMT_SIG_SCHEME : json_writer (fun x => ifapi_json_TPMT_SIG_SCHEME_serialize (Some x)) (has_format spec_TPMT_SIG_SCHEME)
| jw_TPMS_ENC_SCHEME_OAEP : json_writer (fun x => ifapi_json_TPMS_ENC_SCHEME_OAEP_serialize (Some x)) (has_format spec_TPMS_SCHEME_HASH)
| jw_TPMS_ENC_SCHEME_RSAES : json_writer ifapi_json_TPMS_ENC_SCHEME_RSAES_serialize (fun _ => True)
| jw_TPMS_KEY_SCHEME_ECDH : json_writer (fun x => ifapi_json_TPMS_KEY_SCHEME_ECDH_serialize (Some x)) (has_format spec_TPMS_SCHEME_HASH)
| jw_TPMS_SCHEME_MGF1 : json_writer (fun x => ifapi_json_TPMS_SCHEME_MGF1_serialize (Some x)) (has_format spec_TPMS_SCHEME_HASH)
| jw_TPMS_SCHEME_KDF1_SP800_56A : json_writer (fun x => ifapi_json_TPMS_SCHEME_KDF1_SP800_56A_serialize (Some x)) (has_format spec_TPMS_SCHEME_HASH)
| jw_TPMS_SCHEME_KDF1_SP800_108 : json_writer (fun x => ifapi_json_TPMS_SCHEME_KDF1_SP800_108_serialize (Some x)) (has_format spec_TPMS_SCHEME_HASH)
| jw_TPMU_KDF_SCHEME sel : json_writer (fun u => ifapi_json_TPMU_KDF_SCHEME_serialize (Some u) sel) (fun u => wf_TPMU_KDF_SCHEME u /\ s_dom (spec_TPMU_KDF_SCHEME sel) u)
| jw_TPMT_KDF_SCHEME : json_writer (fun x => ifapi_json_TPMT_KDF_SCHEME_serialize (Some x)) (has_format spec_TPMT_KDF_SCHEME)
| jw_TPMI_ALG_ASYM_SCHEME : json_writer ifapi_json_TPMI_ALG_ASYM_SCHEME_serialize (fun _ => True)
| jw_TPMU_ASYM_SCHEME sel : json_writer (fun u => ifapi_json_TPMU_ASYM_SCHEME_serialize (Some u) sel) (fun u => wf_TPMU_ASYM_SCHEME u /\ s_dom (spec_TPMU_ASYM_SCHEME sel) u)
| jw_TPMI_ALG_RSA_SCHEME : json_writer ifapi_json_TPMI_ALG_RSA_SCHEME_serialize (fun _ => True)
| jw_TPMT_RSA_SCHEME : json_writer (fun x => ifapi_json_TPMT_RSA_SCHEME_serialize (Some x)) (has_format spec_TPMT_RSA_SCHEME)
| jw_TPM2B_PUBLIC_KEY_RSA : json_writer (fun x => ifapi_json_TPM2B_PUBLIC_KEY_RSA_serialize (Some x)) (has_format spec_TPM2B_PUBLIC_KEY_RSA)
| jw_TPMI_RSA_KEY_BITS : json_writer ifapi_json_TPMI_RSA_KEY_BITS_serialize (fun _ => True)
| jw_TPM2B_ECC_PARAMETER : json_writer (fun x => ifapi_json_TPM2B_ECC_PARAMETER_serialize (Some x)) (has_format spec_TPM2B_ECC_PARAMETER)
| jw_TPMS_ECC_POINT : json_writer (fun x => ifapi_json_TPMS_ECC_POINT_serialize (Some x)) (has_format spec_TPMS_ECC_POINT)
| jw_TPMI_ALG_ECC_SCHEME : json_writer ifapi_json_TPMI_ALG_ECC_SCHEME_serialize (fun _ => True)
| jw_TPMI_ECC_CURVE : json_writer ifapi_json_TPMI_ECC_CURVE_serialize (fun _ => True)
| jw_TPMT_ECC_SCHEME : json_writer (fun x => ifapi_json_TPMT_ECC_SCHEME_serialize (Some x)) (has_format spec_TPMT_ECC_SCHEME)
| jw_TPMS_SIGNATURE_RSA : json_writer (fun x => ifapi_json_TPMS_SIGNATURE_RSA_serialize (Some x)) (has_format spec_TPMS_SIGNATURE_RSA)
| jw_TPMS_SIGNATURE_RSASSA : json_writer (fun x => ifapi_json_TPMS_SIGNATURE_RSASSA_serialize (Some x)) (has_format spec_TPMS_SIGNATURE_RSA)
| jw_TPMS_SIGNATURE_RSAPSS : json_writer (fun x => ifapi_json_TPMS_SIGNATURE_RSAPSS_serialize (Some x)) (has_format spec_TPMS_SIGNATURE_RSA)
| jw_TPMS_SIGNATURE_ECC : json_writer (fun x => ifapi_json_TPMS_SIGNATURE_ECC_serialize (Some x)) (has_format spec_TPMS_SIGNATURE_ECC)
| jw_TPMS_SIGNATURE_ECDSA : json_writer (fun x => ifapi_json_TPMS_SIGNATURE_ECDSA_serialize (Some x)) (has_format spec_TPMS_SIGNATURE_ECC)
| jw_TPMS_SIGNATURE_ECDAA : json_writer (fun x => ifapi_json_TPMS_SIGNATURE_ECDAA_serialize (Some x)) (has_format spec_TPMS_SIGNATURE_ECC)
| jw_TPMS_SIGNATURE_SM2 : json_writer (fun x => ifapi_json_TPMS_SIGNATURE_SM2_serialize (Some x)) (has_format spec_TPMS_SIGNATURE_ECC)
| jw_TPMS_SIGNATURE_ECSCHNORR : json_writer (fun x => ifapi_json_TPMS_SIGNATURE_ECSCHNORR_serialize (Some x)) (has_format spec_TPMS_SIGNATURE_ECC)
| jw_TPM2B_MLDSA_SIGNATURE : json_writer (fun x => ifapi_json_TPM2B_MLDSA_SIGNATURE_serialize (Some x)) (has_format spec_TPM2B_MLDSA_SIGNATURE)
| jw_TPMS_SIGNATURE_MLDSA : json_writer (fun x => ifapi_json_TPMS_SIGNATURE_MLDSA_serialize (Some x)) (has_format spec_TPMS_SIGNATURE_MLDSA)
| jw_TPM2B_MLDSA_PUBLIC_KEY : json_writer (fun x => ifapi_json_TPM2B_MLDSA_PUBLIC_KEY_serialize (Some x)) (has_format spec_TPM2B_MLDSA_PUBLIC_KEY)
| jw_TPM2B_MLKEM_PUBLIC_KEY : json_writer (fun x => ifapi_json_TPM2B_MLKEM_PUBLIC_KEY_serialize (Some x)) (has_format spec_TPM2B_MLKEM_PUBLIC_KEY)
| jw_TPMS_ML_PARAMETER_SET : json_writer (fun x => ifapi_json_TPMS_ML_PARAMETER_SET_serialize (Some x)) (has_format spec_TPMS_ML_PARAMETER_SET)
| jw_TPMS_MLDSA_PARMS : json_writer (fun x => ifapi_json_TPMS_MLDSA_PARMS_serialize (Some x)) (has_format spec_TPMS_MLDSA_PARMS)
| jw_TPMS_MLKEM_PARMS : json_writer (fun x => ifapi_json_TPMS_MLKEM_PARMS_serialize (Some x)) (has_format spec_TPMS_MLKEM_PARMS)
| jw_TPMU_SIGNATURE sel : json_writer (fun u => ifapi_json_TPMU_SIGNATURE_serialize (Some u) sel) (fun u => wf_TPMU_SIGNATURE u /\ s_dom (spec_TPMU_SIGNATURE sel) u)
| jw_TPMT_SIGNATURE : json_writer (fun x => ifapi_json_TPMT_SIGNATURE_serialize (Some x)) (has_format spec_TPMT_SIGNATURE)
| jw_TPM2B_ENCRYPTED_SECRET : json_writer (fun x => ifapi_json_TPM2B_ENCRYPTED_SECRET_serialize (Some x)) (has_format spec_TPM2B_ENCRYPTED_SECRET)
| jw_TPMI_ALG_PUBLIC : json_writer ifapi_json_TPMI_ALG_PUBLIC_serialize (fun _ => True)
| jw_TPMU_PUBLIC_ID sel : json_writer (fun u => ifapi_json_TPMU_PUBLIC_ID_serialize (Some u) sel) (fun u => wf_TPMU_PUBLIC_ID u /\ s_dom (spec_TPMU_PUBLIC_ID sel) u)
| jw_TPMS_KEYEDHASH_PARMS : json_writer (fun x => ifapi_json_TPMS_KEYEDHASH_PARMS_serialize (Some x)) (has_format spec_TPMS_KEYEDHASH_PARMS)
| jw_TPMS_RSA_PARMS : json_writer (fun x => ifapi_json_TPMS_RSA_PARMS_serialize (Some x)) (has_format spec_TPMS_RSA_PARMS)
| jw_TPMS_ECC_PARMS : json_writer (fun x => ifapi_json_TPMS_ECC_PARMS_serialize (Some x)) (has_format spec_TPMS_ECC_PARMS)
| jw_TPMU_PUBLIC_PARMS sel : json_writer (fun u => ifapi_json_TPMU_PUBLIC_PARMS_serialize (Some u) sel) (fun u => wf_TPMU_PUBLIC_PARMS u /\ s_dom (spec_TPMU_PUBLIC_PARMS sel) u)
| jw_TPMT_PUBLIC : json_writer (fun x => ifapi_json_TPMT_PUBLIC_serialize (Some x)) (has_format spec_TPMT_PUBLIC)
| jw_TPM2B_PUBLIC : json_writer (fun x => ifapi_json_TPM2B_PUBLIC_serialize (Some x)) (has_format spec_TPM2B_PUBLIC)
| jw_TPM2B_PRIVATE : json_writer (fun x => ifapi_json_TPM2B_PRIVATE_serialize (Some x)) (has_format spec_TPM2B_PRIVATE)
| jw_TPM2_NT : json_writer ifapi_json_TPM2_NT_serialize (fun _ => True)
| jw_TPMA_NV : json_writer ifapi_json_TPMA_NV_serialize (fun _ => True)
| jw_TPMS_NV_PUBLIC : json_writer (fun x => ifapi_json_TPMS_NV_PUBLIC_serialize (Some x)) (has_format spec_TPMS_NV_PUBLIC)
| jw_TPM2B_NV_PUBLIC : json_writer (fun x => ifapi_json_TPM2B_NV_PUBLIC_serialize (Some x)) (has_format spec_TPM2B_NV_PUBLIC)
| jw_TPMS_CREATION_DATA : json_writer (fun x => ifapi_json_TPMS_CREATION_DATA_serialize (Some x)) (has_format spec_TPMS_CREATION_DATA)
| jw_TPM2B_CREATION_DATA : json_writer (fun x => ifapi_json_TPM2B_CREATION_DATA_serialize (Some x)) (has_format spec_TPM2B_CREATION_DATA).

(** The types, the unions with a selector among them. *)
Inductive json_of_type `{JC : JsonC} :
    forall {T : Type}, (T -> jser) -> jde T -> (T -> Prop) -> spec T -> Prop :=
| json_plain {T} ser de dom (s : spec T) : json_codec ser de dom s -> json_of_type ser de dom s
| json_selected {U} ser de dom wf (su : Z -> spec U) sel :
    json_union ser de dom wf su ->
    json_of_type (fun u => ser (Some u) sel) (de sel) (dom sel) (su sel).

Section Registry.
Context `{JC : JsonC} {JL : JsonLaws} {RL : Reliable}.

Lemma json_codec_ok {T} ser de dom (s : spec T) :
  json_codec ser de dom s -> codec ser de dom s /\ SpecOk s.
Proof.
  intros R. destruct R; split; try apply _.
  - exact (UINT16_codec).
  - exact (UINT32_codec).
  - exact (UINT64_codec).
  - exact (TPM2_HANDLE_codec).
  - exact (TPMI_RH_NV_INDEX_codec).
  - exact (TPMI_YES_NO_codec (UINT8)).
  - exact (TPMA_OBJECT_codec).
  - exact (TPMA_ACT_codec).
  - exact (TPMA_LOCALITY_codec).
  - exact (TPMA_NV_codec).
  - exact (TPM2_NT_codec UINT8).
  - exact (TPM2_ALG_ID_codec).
  - exact (TPMI_ALG_HASH_codec).
  - exact (TPMS_PCR_SELECTION_codec).
  - exact (TPM2_PT_PCR_codec).
  - exact (TPMT_HA_codec).
  - exact (TPMS_TAGGED_POLICY_codec).
  - exact (TPMS_ACT_DATA_codec).
  - exact (TPM2_ECC_CURVE_codec).
  - exact (TPM2_CC_codec).
  - exact (TPM2_EO_codec).
  - exact (TPM2_ST_codec).
  - exact (TPMI_RH_HIERARCHY_codec).
  - exact (TPMI_ALG_SYM_OBJECT_codec).
  - exact (TPMI_ALG_SYM_MODE_codec).
  - exact (TPMI_ALG_CIPHER_MODE_codec).
  - exact (TPMI_ALG_KDF_codec).
  - exact (TPMI_ALG_SIG_SCHEME_codec).
  - exact (TPM2B_DIGEST_codec).
  - exact (TPM2B_NONCE_codec).
  - exact (TPM2B_OPERAND_codec).
  - exact (TPM2B_EVENT_codec).
  - exact (TPM2B_MAX_NV_BUFFER_codec).
  - exact (TPM2B_NAME_codec).
  - exact (TPMT_TK_CREATION_codec).
  - exact (TPML_DIGEST_VALUES_codec).
  - exact (TPML_PCR_SELECTION_codec).
  - exact (TPMS_CLOCK_INFO_codec).
  - exact (TPMS_TIME_INFO_codec).
  - exact (TPMS_TIME_ATTEST_INFO_codec).
  - exact (TPMS_CERTIFY_INFO_codec).
  - exact (TPMS_QUOTE_INFO_codec).
  - exact (TPMS_COMMAND_AUDIT_INFO_codec).
  - exact (TPMS_SESSION_AUDIT_INFO_codec).
  - exact (TPMS_CREATION_INFO_codec).
  - exact (TPMS_NV_CERTIFY_INFO_codec).
  - exact (TPMI_ST_ATTEST_codec).
  - exact (TPMI_SM4_KEY_BITS_codec).
  - exact (TPMI_CAMELLIA_KEY_BITS_codec).
  - exact (TPMI_AES_KEY_BITS_codec).
  - exact (TPMT_SYM_DEF_OBJECT_codec).
  - exact (TPMS_SYMCIPHER_PARMS_codec).
  - exact (TPMS_SCHEME_HASH_codec).
  - exact (TPMS_SCHEME_ECDAA_codec).
  - exact (TPMI_ALG_KEYEDHASH_SCHEME_codec).
  - exact (TPMS_SCHEME_HMAC_codec).
  - exact (TPMS_SCHEME_XOR_codec).
  - exact (TPMT_KEYEDHASH_SCHEME_codec).
  - exact (TPMS_SIG_SCHEME_RSASSA_codec).
  - exact (TPMS_SIG_SCHEME_RSAPSS_codec).
  - exact (TPMS_SIG_SCHEME_ECDSA_codec).
  - exact (TPMS_SIG_SCHEME_SM2_codec).
  - exact (TPMS_SIG_SCHEME_ECSCHNORR_codec).
  - exact (TPMS_SIG_SCHEME_ECDAA_codec).
  - exact (TPMT_SIG_SCHEME_codec).
  - exact (TPMS_ENC_SCHEME_OAEP_codec).
  - exact (TPMS_KEY_SCHEME_ECDH_codec).
  - exact (TPMS_SCHEME_MGF1_codec).
  - exact (TPMS_SCHEME_KDF1_SP800_56A_codec).
  - exact (TPMS_SCHEME_KDF1_SP800_108_codec).
  - exact (TPMT_KDF_SCHEME_codec).
  - exact (TPMI_ALG_RSA_SCHEME_codec).
  - exact (TPMT_RSA_SCHEME_codec).
  - exact (TPM2B_PUBLIC_KEY_RSA_codec).
  - exact (TPMI_RSA_KEY_BITS_codec).
  - exact (TPM2B_ECC_PARAMETER_codec).
  - exact (TPMS_ECC_POINT_codec).
  - exact (TPMI_ALG_ECC_SCHEME_codec).
  - exact (TPMI_ECC_CURVE_codec).
  - exact (TPMT_ECC_SCHEME_codec).
  - exact (TPMS_SIGNATURE_RSA_codec).
  - exact (TPMS_SIGNATURE_RSASSA_codec).
  - exact (TPMS_SIGNATURE_RSAPSS_codec).
  - exact (TPMS_SIGNATURE_ECC_codec).
  - exact (TPMS_SIGNATURE_ECDSA_codec).
  - exact (TPMS_SIGNATURE_ECDAA_codec).
  - exact (TPMS_SIGNATURE_SM2_codec).
  - exact (TPMS_SIGNATURE_ECSCHNORR_codec).
  - exact (TPM2B_MLDSA_SIGNATURE_codec).
  - exact (TPMS_SIGNATURE_MLDSA_codec).
  - exact (TPM2B_MLDSA_PUBLIC_KEY_codec).
  - exact (TPM2B_MLKEM_PUBLIC_KEY_codec).
  - exact (TPMS_ML_PARAMETER_SET_codec).
  - exact (TPMS_MLDSA_PARMS_codec).
  - exact (TPMS_MLKEM_PARMS_codec).
  - exact (TPMT_SIGNATURE_codec).
  - exact (TPM2B_ENCRYPTED_SECRET_codec).
  - exact (TPMI_ALG_PUBLIC_codec).
  - exact (TPMS_KEYEDHASH_PARMS_codec).
  - exact (TPMS_RSA_PARMS_codec).
  - exact (TPMS_ECC_PARMS_codec).
  - exact (TPMT_PUBLIC_codec).
  - exact (TPM2B_PUBLIC_codec).
  - exact (TPM2B_PRIVATE_codec).
  - exact (TPMS_NV_PUBLIC_codec).
  - exact (TPM2B_NV_PUBLIC_codec).
Qed.

Lemma json_union_ok {U} ser de dom wf (su : Z -> spec U) :
  json_union ser de dom wf su ->
  ucodec ser de dom wf su /\ (forall z, SpecOk (su z)) /\ UnionWf wf su.
Proof.
  intros R. destruct R; (split; [|split; [intros z; apply _|apply _]]).
  - exact (TPMU_HA_codec).
  - exact (TPMU_ATTEST_codec).
  - exact (TPMU_SYM_KEY_BITS_codec).
  - exact (TPMU_SYM_MODE_codec).
  - exact (TPMU_SCHEME_KEYEDHASH_codec).
  - exact (TPMU_SIG_SCHEME_codec).
  - exact (TPMU_KDF_SCHEME_codec).
  - exact (TPMU_ASYM_SCHEME_codec).
  - exact (TPMU_SIGNATURE_codec).
  - exact (TPMU_PUBLIC_ID_codec).
  - exact (TPMU_PUBLIC_PARMS_codec).
Qed.

Lemma json_of_type_ok {T} ser de dom (s : spec T) :
  json_of_type ser de dom s -> codec ser de dom s /\ SpecOk s.
Proof.
  intros [? ? ? ? ? R|? ? ? ? ? ? sel R]; [by apply json_codec_ok|].
  apply json_union_ok in R as (C&O&W). split; [|apply O].
  intros u Wu D. apply C; [by apply union_wf in Wu|done].
Qed.

Lemma json_writer_tame {T} (ser : T -> jser) ok x : json_writer ser ok -> ok x -> tame (ser x).
Proof.
  intros R. revert x. destruct R.
  - intros x _; apply tame_TPMS_EMPTY.
  - intros x [? ?]; by apply tame_TPMS_PCR_SELECT.
  - intros x _; apply tame_TPM2_ALG_ID.
  - intros x _; apply tame_TPMI_ALG_HASH.
  - intros x [? ?]; by apply tame_TPMS_PCR_SELECTION.
  - intros x _; apply tame_TPM2_PT_PCR.
  - intros x [? ?]; by apply tame_TPMS_TAGGED_PCR_SELECT.
  - intros x _; apply tame_TPM2_HANDLE.
  - intros x [? ?]; by apply tame_TPMU_HA.
  - intros x [? ?]; by apply tame_TPMT_HA.
  - intros x [? ?]; by apply tame_TPMS_TAGGED_POLICY.
  - intros x _; apply tame_UINT32.
  - intros x _; apply tame_TPMA_ACT.
  - intros x [? ?]; by apply tame_TPMS_ACT_DATA.
  - intros x _; apply tame_UINT16.
  - intros x _; apply tame_INT32.
  - intros x _; apply tame_UINT64.
  - intros x _; apply tame_TPM2_GENERATED.
  - intros x _; apply tame_TPM2_ECC_CURVE.
  - intros x _; apply tame_TPM2_CC.
  - intros x _; apply tame_TPM2_EO.
  - intros x _; apply tame_TPM2_ST.
  - intros x _; apply tame_TPM2_CAP.
  - intros x _; apply tame_TPM2_PT.
  - intros x _; apply tame_TPMA_ALGORITHM.
  - intros x _; apply tame_TPMA_OBJECT.
  - intros x _; apply tame_TPMA_LOCALITY.
  - intros x _; apply tame_TPMA_CC.
  - intros x _; apply tame_TPMI_YES_NO.
  - intros x _; apply tame_TPMI_RH_HIERARCHY.
  - intros x _; apply tame_TPMI_RH_NV_INDEX.
  - intros x _; apply tame_TPMI_ALG_SYM_OBJECT.
  - intros x _; apply tame_TPMI_ALG_SYM_MODE.
  - intros x _; apply tame_TPMI_ALG_CIPHER_MODE.
  - intros x _; apply tame_TPMI_ALG_KDF.
  - intros x _; apply tame_TPMI_ALG_SIG_SCHEME.
  - intros x [? ?]; by apply tame_TPM2B_DIGEST.
  - intros x [? ?]; by apply tame_TPM2B_DATA.
  - intros x [? ?]; by apply tame_TPM2B_NONCE.
  - intros x [? ?]; by apply tame_TPM2B_OPERAND.
  - intros x [? ?]; by apply tame_TPM2B_EVENT.
  - intros x [? ?]; by apply tame_TPM2B_MAX_NV_BUFFER.
  - intros x [? ?]; by apply tame_TPM2B_NAME.
  - intros x [? ?]; by apply tame_TPMT_TK_CREATION.
  - intros x [? ?]; by apply tame_TPMS_ALG_PROPERTY.
  - intros x [? ?]; by apply tame_TPMS_TAGGED_PROPERTY.
  - intros x [? ?]; by apply tame_TPML_CC.
  - intros x [? ?]; by apply tame_TPML_CCA.
  - intros x [? ?]; by apply tame_TPML_HANDLE.
  - intros x [? ?]; by apply tame_TPML_DIGEST_VALUES.
  - intros x [? ?]; by apply tame_TPML_PCR_SELECTION.
  - intros x [? ?]; by apply tame_TPML_ALG_PROPERTY.
  - intros x [? ?]; by apply tame_TPML_TAGGED_TPM_PROPERTY.
  - intros x [? ?]; by apply tame_TPML_TAGGED_PCR_PROPERTY.
  - intros x [? ?]; by apply tame_TPML_ECC_CURVE.
  - intros x [? ?]; by apply tame_TPML_TAGGED_POLICY.
  - intros x [? ?]; by apply tame_TPML_ACT_DATA.
  - intros x [? ?]; by apply tame_TPMU_CAPABILITIES.
  - intros x [? ?]; by apply tame_TPMS_CAPABILITY_DATA.
  - intros x [? ?]; by apply tame_TPMS_CLOCK_INFO.
  - intros x [? ?]; by apply tame_TPMS_TIME_INFO.
  - intros x [? ?]; by apply tame_TPMS_TIME_ATTEST_INFO.
  - intros x [? ?]; by apply tame_TPMS_CERTIFY_INFO.
  - intros x [? ?]; by apply tame_TPMS_QUOTE_INFO.
  - intros x [? ?]; by apply tame_TPMS_COMMAND_AUDIT_INFO.
  - intros x [? ?]; by apply tame_TPMS_SESSION_AUDIT_INFO.
  - intros x [? ?]; by apply tame_TPMS_CREATION_INFO.
  - intros x [? ?]; by apply tame_TPMS_NV_CERTIFY_INFO.
  - intros x _; apply tame_TPMI_ST_ATTEST.
  - intros x [? ?]; by apply tame_TPMU_ATTEST.
  - intros x [? ?]; by apply tame_TPMS_ATTEST.
  - intros x _; apply tame_TPMI_SM4_KEY_BITS.
  - intros x _; apply tame_TPMI_CAMELLIA_KEY_BITS.
  - intros x _; apply tame_TPMI_AES_KEY_BITS.
  - intros x [? ?]; by apply tame_TPMU_SYM_KEY_BITS.
  - intros x [? ?]; by apply tame_TPMU_SYM_MODE.
  - intros x [? ?]; by apply tame_TPMT_SYM_DEF_OBJECT.
  - intros x [? ?]; by apply tame_TPMS_SYMCIPHER_PARMS.
  - intros x [? ?]; by apply tame_TPMS_SCHEME_HASH.
  - intros x [? ?]; by apply tame_TPMS_SCHEME_ECDAA.
  - intros x _; apply tame_TPMI_ALG_KEYEDHASH_SCHEME.
  - intros x [? ?]; by apply tame_TPMS_SCHEME_HMAC.
  - intros x [? ?]; by apply tame_TPMS_SCHEME_XOR.
  - intros x [? ?]; by apply tame_TPMU_SCHEME_KEYEDHASH.
  - intros x [? ?]; by apply tame_TPMT_KEYEDHASH_SCHEME.
  - intros x [? ?]; by apply tame_TPMS_SIG_SCHEME_RSASSA.
  - intros x [? ?]; by apply tame_TPMS_SIG_SCHEME_RSAPSS.
  - intros x [? ?]; by apply tame_TPMS_SIG_SCHEME_ECDSA.
  - intros x [? ?]; by apply tame_TPMS_SIG_SCHEME_SM2.
  - intros x [? ?]; by apply tame_TPMS_SIG_SCHEME_ECSCHNORR.
  - intros x [? ?]; by apply tame_TPMS_SIG_SCHEME_ECDAA.
  - intros x [? ?]; by apply tame_TPMU_SIG_SCHEME.
  - intros x [? ?]; by apply tame_TPMT_SIG_SCHEME.
  - intros x [? ?]; by apply tame_TPMS_ENC_SCHEME_OAEP.
  - intros x _; apply tame_TPMS_ENC_SCHEME_RSAES.
  - intros x [? ?]; by apply tame_TPMS_KEY_SCHEME_ECDH.
  - intros x [? ?]; by apply tame_TPMS_SCHEME_MGF1.
  - intros x [? ?]; by apply tame_TPMS_SCHEME_KDF1_SP800_56A.
  - intros x [? ?]; by apply tame_TPMS_SCHEME_KDF1_SP800_108.
  - intros x [? ?]; by apply tame_TPMU_KDF_SCHEME.
  - intros x [? ?]; by apply tame_TPMT_KDF_SCHEME.
  - intros x _; apply tame_TPMI_ALG_ASYM_SCHEME.
  - intros x [? ?]; by apply tame_TPMU_ASYM_SCHEME.
  - intros x _; apply tame_TPMI_ALG_RSA_SCHEME.
  - intros x [? ?]; by apply tame_TPMT_RSA_SCHEME.
  - intros x [? ?]; by apply tame_TPM2B_PUBLIC_KEY_RSA.
  - intros x _; apply tame_TPMI_RSA_KEY_BITS.
  - intros x [? ?]; by apply tame_TPM2B_ECC_PARAMETER.
  - intros x [? ?]; by apply tame_TPMS_ECC_POINT.
  - intros x _; apply tame_TPMI_ALG_ECC_SCHEME.
  - intros x _; apply tame_TPMI_ECC_CURVE.
  - intros x [? ?]; by apply tame_TPMT_ECC_SCHEME.
  - intros x [? ?]; by apply tame_TPMS_SIGNATURE_RSA.
  - intros x [? ?]; by apply tame_TPMS_SIGNATURE_RSASSA.
  - intros x [? ?]; by apply tame_TPMS_SIGNATURE_RSAPSS.
  - intros x [? ?]; by apply tame_TPMS_SIGNATURE_ECC.
  - intros x [? ?]; by apply tame_TPMS_SIGNATURE_ECDSA.
  - intros x [? ?]; by apply tame_TPMS_SIGNATURE_ECDAA.
  - intros x [? ?]; by apply tame_TPMS_SIGNATURE_SM2.
  - intros x [? ?]; by apply tame_TPMS_SIGNATURE_ECSCHNORR.
  - intros x [? ?]; by apply tame_TPM2B_MLDSA_SIGNATURE.
  - intros x [? ?]; by apply tame_TPMS_SIGNATURE_MLDSA.
  - intros x [? ?]; by apply tame_TPM2B_MLDSA_PUBLIC_KEY.
  - intros x [? ?]; by apply tame_TPM2B_MLKEM_PUBLIC_KEY.
  - intros x [? ?]; by apply tame_TPMS_ML_PARAMETER_SET.
  - intros x [? ?]; by apply tame_TPMS_MLDSA_PARMS.
  - intros x [? ?]; by apply tame_TPMS_MLKEM_PARMS.
  - intros x [? ?]; by apply tame_TPMU_SIGNATURE.
  - intros x [? ?]; by apply tame_TPMT_SIGNATURE.
  - intros x [? ?]; by apply tame_TPM2B_ENCRYPTED_SECRET.
  - intros x _; apply tame_TPMI_ALG_PUBLIC.
  - intros x [? ?]; by apply tame_TPMU_PUBLIC_ID.
  - intros x [? ?]; by apply tame_TPMS_KEYEDHASH_PARMS.
  - intros x [? ?]; by apply tame_TPMS_RSA_PARMS.
  - intros x [? ?]; by apply tame_TPMS_ECC_PARMS.
  - intros x [? ?]; by apply tame_TPMU_PUBLIC_PARMS.
  - intros x [? ?]; by apply tame_TPMT_PUBLIC.
  - intros x [? ?]; by apply tame_TPM2B_PUBLIC.
  - intros x [? ?]; by apply tame_TPM2B_PRIVATE.
  - intros x _; apply tame_TPM2_NT.
  - intros x _; apply tame_TPMA_NV.
  - intros x [? ?]; by apply tame_TPMS_NV_PUBLIC.
  - intros x [? ?]; by apply tame_TPM2B_NV_PUBLIC.
  - intros x [? ?]; by apply tame_TPMS_CREATION_DATA.
  - intros x [? ?]; by apply tame_TPM2B_CREATION_DATA.
Qed.

End Registry.

(** ** The enumerations: exactly which values are written.

    [json_enum ser de ty l]: the values of an enumeration of type [ty] are
    [l].  [TPM2_ALG_ID] itself is not among them, since two of its names are
    not read back; its subtypes are. *)

Open Scope list_scope.
Open Scope Z_scope.
Open Scope tss_scope.

Inductive json_enum `{JC : JsonC} : (Z -> jser) -> jde Z -> ctype -> list Z -> Prop :=
| je_TPMI_ALG_HASH : json_enum ifapi_json_TPMI_ALG_HASH_serialize ifapi_json_TPMI_ALG_HASH_deserialize UINT16 [TPM2_ALG_SHA1; TPM2_ALG_SHA256; TPM2_ALG_SHA384; TPM2_ALG_SHA512; TPM2_ALG_SM3_256; TPM2_ALG_NULL]
| je_TPM2_PT_PCR : json_enum ifapi_json_TPM2_PT_PCR_serialize ifapi_json_TPM2_PT_PCR_deserialize UINT32 (map fst tab_ifapi_json_TPM2_PT_PCR_serialize)
| je_TPM2_ECC_CURVE : json_enum ifapi_json_TPM2_ECC_CURVE_serialize ifapi_json_TPM2_ECC_CURVE_deserialize UINT16 (map fst tab_ifapi_json_TPM2_ECC_CURVE_serialize)
| je_TPM2_CC : json_enum ifapi_json_TPM2_CC_serialize ifapi_json_TPM2_CC_deserialize UINT32 (map fst tab_ifapi_json_TPM2_CC_serialize)
| je_TPM2_EO : json_enum ifapi_json_TPM2_EO_serialize ifapi_json_TPM2_EO_deserialize UINT16 (map fst tab_ifapi_json_TPM2_EO_serialize)
| je_TPM2_ST : json_enum ifapi_json_TPM2_ST_serialize ifapi_json_TPM2_ST_deserialize UINT16 (map fst tab_ifapi_json_TPM2_ST_serialize)
| je_TPMI_RH_HIERARCHY : json_enum ifapi_json_TPMI_RH_HIERARCHY_serialize ifapi_json_TPMI_RH_HIERARCHY_deserialize UINT32 (map fst tab_ifapi_json_TPMI_RH_HIERARCHY_serialize)
| je_TPMI_ALG_SYM_OBJECT : json_enum ifapi_json_TPMI_ALG_SYM_OBJECT_serialize ifapi_json_TPMI_ALG_SYM_OBJECT_deserialize UINT16 [TPM2_ALG_AES; TPM2_ALG_CAMELLIA; TPM2_ALG_SM4; TPM2_ALG_NULL]
| je_TPMI_ALG_SYM_MODE : json_enum ifapi_json_TPMI_ALG_SYM_MODE_serialize ifapi_json_TPMI_ALG_SYM_MODE_deserialize UINT16 [TPM2_ALG_CTR; TPM2_ALG_OFB; TPM2_ALG_CBC; TPM2_ALG_CFB; TPM2_ALG_ECB; TPM2_ALG_NULL]
| je_TPMI_ALG_CIPHER_MODE : json_enum ifapi_json_TPMI_ALG_CIPHER_MODE_serialize ifapi_json_TPMI_ALG_CIPHER_MODE_deserialize UINT16 [TPM2_ALG_CTR; TPM2_ALG_OFB; TPM2_ALG_CBC; TPM2_ALG_CFB; TPM2_ALG_ECB; TPM2_ALG_NULL]
| je_TPMI_ALG_KDF : json_enum ifapi_json_TPMI_ALG_KDF_serialize ifapi_json_TPMI_ALG_KDF_deserialize UINT16 [TPM2_ALG_MGF1; TPM2_ALG_KDF1_SP800_56A; TPM2_ALG_KDF1_SP800_108; TPM2_ALG_NULL]
| je_TPMI_ALG_SIG_SCHEME : json_enum ifapi_json_TPMI_ALG_SIG_SCHEME_serialize ifapi_json_TPMI_ALG_SIG_SCHEME_deserialize UINT16 [TPM2_ALG_RSASSA; TPM2_ALG_RSAPSS; TPM2_ALG_ECDSA; TPM2_ALG_ECDAA; TPM2_ALG_SM2; TPM2_ALG_ECSCHNORR; TPM2_ALG_HMAC; TPM2_ALG_NULL]
| je_TPMI_ST_ATTEST : json_enum ifapi_json_TPMI_ST_ATTEST_serialize ifapi_json_TPMI_ST_ATTEST_deserialize UINT16 [TPM2_ST_ATTEST_CERTIFY; TPM2_ST_ATTEST_QUOTE; TPM2_ST_ATTEST_SESSION_AUDIT; TPM2_ST_ATTEST_COMMAND_AUDIT; TPM2_ST_ATTEST_TIME; TPM2_ST_ATTEST_CREATION; TPM2_ST_ATTEST_NV]
| je_TPMI_SM4_KEY_BITS : json_enum ifapi_json_TPMI_SM4_KEY_BITS_serialize ifapi_json_TPMI_SM4_KEY_BITS_deserialize UINT16 [128]
| je_TPMI_CAMELLIA_KEY_BITS : json_enum ifapi_json_TPMI_CAMELLIA_KEY_BITS_serialize ifapi_json_TPMI_CAMELLIA_KEY_BITS_deserialize UINT16 [128; 192; 256]
| je_TPMI_AES_KEY_BITS : json_enum ifapi_json_TPMI_AES_KEY_BITS_serialize ifapi_json_TPMI_AES_KEY_BITS_deserialize UINT16 [128; 192; 256]
| je_TPMI_ALG_KEYEDHASH_SCHEME : json_enum ifapi_json_TPMI_ALG_KEYEDHASH_SCHEME_serialize ifapi_json_TPMI_ALG_KEYEDHASH_SCHEME_deserialize UINT16 [TPM2_ALG_HMAC; TPM2_ALG_XOR; TPM2_ALG_NULL]
| je_TPMI_ALG_RSA_SCHEME : json_enum ifapi_json_TPMI_ALG_RSA_SCHEME_serialize ifapi_json_TPMI_ALG_RSA_SCHEME_deserialize UINT16 [TPM2_ALG_RSAES; TPM2_ALG_OAEP; TPM2_ALG_RSASSA; TPM2_ALG_RSAPSS; TPM2_ALG_NULL]
| je_TPMI_RSA_KEY_BITS : json_enum ifapi_json_TPMI_RSA_KEY_BITS_serialize ifapi_json_TPMI_RSA_KEY_BITS_deserialize UINT16 [1024; 2048; 3072; 4096]
| je_TPMI_ALG_ECC_SCHEME : json_enum ifapi_json_TPMI_ALG_ECC_SCHEME_serialize ifapi_json_TPMI_ALG_ECC_SCHEME_deserialize UINT16 [TPM2_ALG_ECDSA; TPM2_ALG_ECDAA; TPM2_ALG_SM2; TPM2_ALG_ECSCHNORR; TPM2_ALG_ECDH; TPM2_ALG_NULL]
| je_TPMI_ALG_PUBLIC : json_enum ifapi_json_TPMI_ALG_PUBLIC_serialize ifapi_json_TPMI_ALG_PUBLIC_deserialize UINT16 [TPM2_ALG_RSA; TPM2_ALG_KEYEDHASH; TPM2_ALG_ECC; TPM2_ALG_SYMCIPHER; TPM2_ALG_NULL]
| je_TPM2_NT : json_enum ifapi_json_TPM2_NT_serialize ifapi_json_TPM2_NT_deserialize UINT8 dom_NT
| je_TPMI_YES_NO : json_enum ifapi_json_TPMI_YES_NO_serialize ifapi_json_TPMI_YES_NO_deserialize UINT8 [YES; NO].

Lemma not_In_existsb x l : ~ In x l -> existsb (Z.eqb x) l = false.
Proof.
  intros N. apply not_true_is_false. intros X. apply existsb_exists in X as (y&I&->%Z.eqb_eq). done.
Qed.

Lemma name_in_None tab x : ~ In x (map fst tab) -> name_in tab x = None.
Proof.
  induction tab as [|[v name] tab IH]; simpl; [done|]. intros N.
  destruct (v =? x) eqn:E; bool2prop; [tauto|]. apply IH. tauto.
Qed.

Lemma all_in_range n l :
  forallb (fun z => (0 <=? z) && (z <? 2 ^ cbits (CType n false))) l = true ->
  Forall (in_range (CType n false)) l.
Proof.
  intros F. apply List.Forall_forall. intros z I. rewrite forallb_forall in F.
  specialize (F z I). bool2prop. done.
Qed.

Section Enum.
Context `{JC : JsonC} {JL : JsonLaws} {RL : Reliable}.

Definition rejects (ser : Z -> jser) (x : Z) : Prop :=
  forall w, ser x None w = Ret (TSS2_FAPI_RC_BAD_VALUE, (None, w)).

Lemma table_rejects tab x : ~ In x (map fst tab) -> rejects (table_serialize tab) x.
Proof. intros N w. unfold table_serialize. by rewrite name_in_None. Qed.

Lemma check_rejects ser l x :
  ~ In x l -> rejects (fun in_ => jbody [CHECK_IN_LIST in_ l; ser in_]) x.
Proof. intros N w. simpl. unfold jseq at 1, CHECK_IN_LIST. by rewrite not_In_existsb. Qed.

Record enum_ok (ser : Z -> jser) (de : jde Z) (ty : ctype) (l : list Z) : Prop := EnumOk {
  eo_codec : codec ser de (fun x => In x l) (spec_int ty);
  eo_range : Forall (in_range ty) l;
  eo_rejects : forall x, ~ In x l -> rejects ser x
}.

Lemma YES_NO_enum :
  enum_ok ifapi_json_TPMI_YES_NO_serialize ifapi_json_TPMI_YES_NO_deserialize UINT8 [YES; NO].
Proof.
  split.
  - eapply codec_weaken; [apply TPMI_YES_NO_codec|]. intros x [<-|[<-|[]]]; [by left|by right].
  - repeat constructor; done.
  - intros x N w. unfold ifapi_json_TPMI_YES_NO_serialize. simpl in N.
    rewrite (proj2 (Z.eqb_neq x YES)), (proj2 (Z.eqb_neq x NO)) by (intros ->; tauto). done.
Qed.

Ltac enum C R :=
  split; [exact C|apply all_in_range; by vm_compute|
          intros ? N; apply R; exact N].

Lemma json_enum_ok ser de ty l : json_enum ser de ty l -> enum_ok ser de ty l.
Proof.
  intros R. destruct R.
  - enum TPMI_ALG_HASH_codec check_rejects.
  - enum TPM2_PT_PCR_codec table_rejects.
  - enum TPM2_ECC_CURVE_codec table_rejects.
  - enum TPM2_CC_codec table_rejects.
  - enum TPM2_EO_codec table_rejects.
  - enum TPM2_ST_codec table_rejects.
  - enum TPMI_RH_HIERARCHY_codec table_rejects.
  - enum TPMI_ALG_SYM_OBJECT_codec check_rejects.
  - enum TPMI_ALG_SYM_MODE_codec check_rejects.
  - enum TPMI_ALG_CIPHER_MODE_codec check_rejects.
  - enum TPMI_ALG_KDF_codec check_rejects.
  - enum TPMI_ALG_SIG_SCHEME_codec check_rejects.
  - enum TPMI_ST_ATTEST_codec check_rejects.
  - enum TPMI_SM4_KEY_BITS_codec check_rejects.
  - enum TPMI_CAMELLIA_KEY_BITS_codec check_rejects.
  - enum TPMI_AES_KEY_BITS_codec check_rejects.
  - enum TPMI_ALG_KEYEDHASH_SCHEME_codec check_rejects.
  - enum TPMI_ALG_RSA_SCHEME_codec check_rejects.
  - enum TPMI_RSA_KEY_BITS_codec check_rejects.
  - enum TPMI_ALG_ECC_SCHEME_codec check_rejects.
  - enum TPMI_ALG_PUBLIC_codec check_rejects.
  - enum (TPM2_NT_codec UINT8) table_rejects.
  - exact YES_NO_enum.
Qed.

End Enum.
