(* ===== verification/JsonProps.v ===== *)
(** * Properties of the JSON form of the TPM types.

    What is written is read back; the serializers never go wrong; the
    enumerations are written exactly for their values; the conversion of hex
    digits stays inside its array; two types that cannot make the round
    trip. The witnesses run on a JSON library whose values are trees, which
    satisfies [JsonLaws] and never runs out of memory. *)

From stdpp Require Import base strings list_numbers.
From Stdlib Require Import Ascii.
From S2P Require Import Prelude Common MuSpec MuBase MuBaseOk MuStruct MuStructOk MuTpm2b MuTpm2bOk MuUnion MuPcr TpmTypes MuTypes MuTypesOk SysCodes JsonCodes JsonC JsonBase JsonNum JsonSer JsonDe JsonOk JsonNumOk JsonListOk JsonTypesOk JsonTame JsonRegistry.
Open Scope string_scope.
Open Scope list_scope.
Open Scope Z_scope.
Open Scope tss_scope.

(** ** A JSON library: values as a tree *)


Inductive jval :=
| JInt (z : Z)
| JString (s : string)
| JArray (l : list (option jval))
| JObject (l : list (string * option jval)).

Definition quote : string := String (ascii_of_nat 34) EmptyString.

(** JSON text; strings are not escaped. *)
Fixpoint jprint (j : jval) : string :=
  let opt (o : option jval) := match o with Some j => jprint j | None => "null" end in
  match j with
  | JInt z => dec z
  | JString s => (quote ++ s ++ quote)%string
  | JArray l => ("[" ++ String.concat "," (map opt l) ++ "]")%string
  | JObject l =>
      ("{" ++ String.concat "," (map (fun '(k, v) => quote ++ k ++ quote ++ ":" ++ opt v) l)
       ++ "}")%string
  end.

Definition jtype (j : option jval) : json_type :=
  match j with
  | None => json_type_null
  | Some (JInt _) => json_type_int
  | Some (JString _) => json_type_string
  | Some (JArray _) => json_type_array
  | Some (JObject _) => json_type_object
  end.

Fixpoint assoc (k : string) (l : list (string * option jval)) : option (option jval) :=
  match l with
  | [] => None
  | (k', v) :: l => if String.eqb k k' then Some v else assoc k l
  end.

Fixpoint put_assoc (k : string) (v : option jval) (l : list (string * option jval)) :=
  match l with
  | [] => [(k, v)]
  | (k', v') :: l => if String.eqb k k' then (k', v) :: l else (k', v') :: put_assoc k v l
  end.

#[export] Instance jval_c : JsonC := {
  json := jval;
  world := unit;
  json_object_new_object := fun w => (Some (JObject []), w);
  json_object_new_array := fun w => (Some (JArray []), w);
  json_object_new_int := fun z w => (Some (JInt z), w);
  json_object_new_int64 := fun z w => (Some (JInt z), w);
  json_object_new_string := fun s w => (Some (JString s), w);
  json_object_object_add := fun j k v w =>
    match j with
    | JObject l => (0, (JObject (put_assoc k v l), w))
    | _ => (-1, (j, w))
    end;
  json_object_array_add := fun j v w =>
    match j with
    | JArray l => (0, (JArray (l ++ [v])%list, w))
    | _ => (-1, (j, w))
    end;
  json_object_get_type := jtype;
  json_object_get_string := fun j =>
    match j with
    | None => None
    | Some (JString s) => Some s
    | Some j => Some (jprint j)
    end;
  json_object_array_length := fun j => match j with JArray l => Zlen l | _ => 0 end;
  json_object_array_get_idx := fun j i =>
    match j with
    | JArray l => if 0 <=? i then default None (l !! Z.to_nat i) else None
    | _ => None
    end;
  json_object_object_get_ex := fun j k =>
    match j with Some (JObject l) => assoc k l | _ => None end;
  json_object_object_members := fun j => match j with JObject l => l | _ => [] end
}.

Lemma assoc_put k v l k' :
  assoc k' (put_assoc k v l) = if String.eqb k' k then Some v else assoc k' l.
Proof.
  induction l as [|[k1 v1] l IH]; simpl; [done|].
  destruct (String.eqb k k1) eqn:E; simpl.
  - apply String.eqb_eq in E as ->. by destruct (String.eqb k' k1).
  - rewrite IH. destruct (String.eqb k' k1) eqn:E1; [|done].
    apply String.eqb_eq in E1 as ->. by rewrite String.eqb_sym, E.
Qed.

Lemma put_assoc_new k v l : assoc k l = None -> put_assoc k v l = (l ++ [(k, v)])%list.
Proof.
  induction l as [|[k1 v1] l IH]; simpl; [done|].
  destruct (String.eqb k k1); [done|]. intros E. by rewrite IH.
Qed.

#[export] Instance jval_laws : JsonLaws.
Proof.
  split; unfold is_obj, is_arr, member_of; simpl.
  - by intros ??? [= <- <-].
  - by intros ??? [= <- <-].
  - by intros z w j w' _ [= <- <-].
  - by intros z w j w' _ [= <- <-].
  - by intros s w j w' [= <- <-].
  - intros [z|s|l|l] k v w o' w' T E; simpl in *; simplify_eq. split; [done|]. split.
    + intros k'. apply assoc_put.
    + apply put_assoc_new.
  - intros [z|s|l|l] v w a' w' T E; simpl in *; simplify_eq. split; [done|]. split.
    + by rewrite Zlen_app, Zlen_cons, Zlen_nil.
    + intros i. pose proof (Zlen_nonneg l). destruct (i =? Zlen l) eqn:Ei; bool2prop; [rewrite Ei|].
      * rewrite (proj2 (Z.leb_le 0 (Zlen l))) by done.
        unfold Zlen. rewrite Nat2Z.id, lookup_app_r, Nat.sub_diag by lia. done.
      * case_test; [|done]. f_equal. unfold Zlen in *.
        destruct (decide (Z.to_nat i < length l)%nat); [by rewrite lookup_app_l|].
        rewrite lookup_app_r by lia. rewrite (lookup_ge_None_2 l) by lia.
        destruct (Z.to_nat i - length l)%nat eqn:E; [lia|done].
Qed.

#[export] Instance jval_reliable : Reliable.
Proof.
  split; unfold is_obj, is_arr; simpl; eauto.
  - intros [] k v w T; simpl in *; simplify_eq; eauto.
  - intros [] v w T; simpl in *; simplify_eq; eauto.
Qed.

#[local] Arguments strip_prefix : simpl never.

(** ** Hex digits *)

Definition nibble (c : ascii) : Z := default 0 (hex_value c).

(** The bytes that a string of hex digits stands for; a last single digit is
    the upper half of a byte. *)
Fixpoint hex_bytes (s : string) : bytes :=
  match s with
  | EmptyString => []
  | String c1 s1 =>
      match s1 with
      | EmptyString => [16 * nibble c1]
      | String c2 s2 => (16 * nibble c1 + nibble c2) :: hex_bytes s2
      end
  end.

Lemma hex_digit_nibble c : isxdigit c = true -> hex_digit c = nibble c /\ 0 <= nibble c < 16.
Proof.
  unfold isxdigit, nibble, hex_digit, hex_value. intros X%bool_decide_eq_true.
  destruct ((48 <=? code c) && (code c <=? 57)) eqn:E1; bool2prop.
  { simpl. rewrite (proj2 (Z.ltb_lt _ 65)) by lia. lia. }
  destruct ((65 <=? code c) && (code c <=? 70)) eqn:E2; bool2prop.
  { simpl. rewrite (proj2 (Z.ltb_ge _ 65)), (proj2 (Z.ltb_lt _ 97)) by lia. lia. }
  destruct ((97 <=? code c) && (code c <=? 102)) eqn:E3; bool2prop.
  { simpl. rewrite (proj2 (Z.ltb_ge _ 65)), (proj2 (Z.ltb_ge _ 97)) by lia. lia. }
  by destruct X.
Qed.

(** Writing a byte at [j]. *)
Lemma put_byte val j b :
  0 <= j < Zlen val -> exists val', mem_write val j [b] = Some val' /\ Zlen val' = Zlen val /\
    take (Z.to_nat j) val' = take (Z.to_nat j) val /\
    take (Z.to_nat (j + 1)) val' = take (Z.to_nat j) val ++ [b] /\
    drop (Z.to_nat (j + 1)) val' = drop (Z.to_nat (j + 1)) val.
Proof.
  intros [J1 J2]. destruct (mem_write_is_Some val j [b]) as [v E].
  { lia. } { rewrite Zlen_cons, Zlen_nil. lia. }
  exists v. split; [done|]. split; [by eapply mem_write_len|].
  apply mem_write_Some in E as (_&_&->). rewrite Zlen_cons, Zlen_nil.
  replace (j + Z.succ 0) with (j + 1) by lia. unfold Zlen in J2.
  assert (L : length (take (Z.to_nat j) val) = Z.to_nat j) by (rewrite length_take; lia).
  split; [by rewrite take_app_length'|]. split.
  - replace (Z.to_nat (j + 1)) with (length (take (Z.to_nat j) val ++ [b]))
      by (rewrite length_app, L; simpl; lia).
    rewrite app_assoc. by rewrite take_app_length.
  - rewrite app_assoc. rewrite drop_app_length'; [done|]. rewrite length_app, L. simpl. lia.
Qed.

Fixpoint all_digits (s : string) : Prop :=
  match s with EmptyString => True | String c s => isxdigit c = true /\ all_digits s end.

(** The bytes that fit. *)
Definition loop_bytes (vlen j : Z) (s : string) : bytes := take (Z.to_nat (vlen - j)) (hex_bytes s).

Lemma string_pairs (P : string -> Prop) :
  P EmptyString -> (forall c, P (String c EmptyString)) ->
  (forall c1 c2 s, P s -> P (String c1 (String c2 s))) -> forall s, P s.
Proof. intros H0 H1 H2. fix IH 1. intros [|c1 [|c2 s]]; [done..|]. apply H2, IH. Qed.

Lemma loop_bytes_cons vlen j b s s' :
  j < vlen -> hex_bytes s = b :: hex_bytes s' ->
  loop_bytes vlen j s = b :: loop_bytes vlen (j + 1) s'.
Proof.
  intros J E. unfold loop_bytes. rewrite E.
  replace (Z.to_nat (vlen - j)) with (S (Z.to_nat (vlen - (j + 1)))) by lia. done.
Qed.

(** What a run of the loop of [ifapi_hex_to_byte_ary] has done. *)
Record loop_done (s : string) (hexlen vlen j : Z) (val : bytes) (rc : TSS2_RC) (j' : Z)
    (val' : bytes) : Prop := LoopDone {
  ld_rc : settled rc;
  ld_len : Zlen val' = Zlen val;
  ld_ok : bytes_ok val';
  ld_drop : drop (Z.to_nat vlen) val' = drop (Z.to_nat vlen) val;
  ld_digits : all_digits s -> hexlen <= 2 * j + strlen s -> rc = TSS2_RC_SUCCESS;
  ld_j : rc = TSS2_RC_SUCCESS -> j <= j' <= vlen;
  ld_bytes : rc = TSS2_RC_SUCCESS -> s = EmptyString \/ 2 * j + strlen s <= hexlen ->
    take (Z.to_nat j') val' = take (Z.to_nat j) val ++ loop_bytes vlen j s
}.

Lemma loop_stop s hexlen vlen j val :
  0 <= j <= vlen -> bytes_ok val -> vlen <= j \/ hexlen <= 2 * j ->
  loop_done s hexlen vlen j val TSS2_RC_SUCCESS j val.
Proof.
  intros J B E. split; try done; [apply settled_success|lia|].
  intros _ L. unfold loop_bytes. assert (X : take (Z.to_nat (vlen - j)) (hex_bytes s) = []).
  { destruct E as [E|E]; [by replace (Z.to_nat (vlen - j)) with 0%nat by lia|].
    destruct s; [by rewrite firstn_nil|]. destruct L as [?|L]; [done|]. rewrite strlen_cons in L.
    pose proof (strlen_nonneg s). lia. }
  by rewrite X, app_nil_r.
Qed.

Lemma loop_bad s hexlen vlen j val :
  bytes_ok val -> (all_digits s -> hexlen <= 2 * j + strlen s -> False) ->
  loop_done s hexlen vlen j val TSS2_FAPI_RC_BAD_VALUE j val.
Proof.
  intros B N. split; try done; [apply settled_bad|]. intros A L. by destruct (N A L).
Qed.

(** A byte is written and the loop goes on. *)
Lemma loop_next s s' b hexlen vlen j val val1 rc j' val' :
  0 <= j < vlen -> vlen <= Zlen val -> hex_bytes s = b :: hex_bytes s' ->
  (all_digits s -> all_digits s') -> strlen s <= 2 + strlen s' ->
  s' = EmptyString \/ strlen s = 2 + strlen s' ->
  mem_write val j [b] = Some val1 ->
  loop_done s' hexlen vlen (j + 1) val1 rc j' val' -> loop_done s hexlen vlen j val rc j' val'.
Proof.
  intros J V E A L1 L2 W [R L O D G K Y].
  destruct (put_byte val j b) as (v&W'&L'&_&T'&D'); [lia|]. rewrite W in W'. simplify_eq.
  split; [done|lia|done|..].
  - rewrite D. replace (Z.to_nat vlen) with (Z.to_nat (j + 1) + Z.to_nat (vlen - (j + 1)))%nat by lia.
    by rewrite <-!drop_drop, D'.
  - intros A' H. apply G; [auto|lia].
  - intros S. apply K in S. lia.
  - intros S H. rewrite Y, T'; [|done|destruct L2; [by left|destruct H as [->|]; [done|right; lia]]].
    rewrite (loop_bytes_cons vlen j b s s') by (done || lia). by rewrite <-app_assoc.
Qed.

Lemma hex_loop_nil hexlen vlen j val :
  0 <= j <= vlen -> bytes_ok val ->
  exists rc j' val', hex_loop EmptyString hexlen vlen j val = Ret (rc, (j', val')) /\
    loop_done EmptyString hexlen vlen j val rc j' val'.
Proof.
  intros J B. simpl. destruct ((j <? vlen) && (2 * j <? hexlen)) eqn:C; simpl.
  - exists TSS2_FAPI_RC_BAD_VALUE, j, val. split; [done|]. apply loop_bad; [done|].
    bool2prop. intros _ L. unfold strlen in L. simpl in L. lia.
  - exists TSS2_RC_SUCCESS, j, val. split; [done|]. apply loop_stop; [done..|].
    apply andb_false_iff in C as [?|?]; bool2prop; lia.
Qed.

Lemma hex_loop_done hexlen vlen : forall s j val,
  0 <= j <= vlen -> vlen <= Zlen val -> bytes_ok val ->
  exists rc j' val', hex_loop s hexlen vlen j val = Ret (rc, (j', val')) /\
    loop_done s hexlen vlen j val rc j' val'.
Proof.
  assert (N : forall c s j val, isxdigit c = false -> bytes_ok val ->
    (all_digits s -> isxdigit c = true) ->
    exists rc j' val', Ret (TSS2_FAPI_RC_BAD_VALUE, (j, val)) = Ret (rc, (j', val')) /\
    loop_done s hexlen vlen j val rc j' val').
  { intros c s j val X B A. exists TSS2_FAPI_RC_BAD_VALUE, j, val. split; [done|].
    apply loop_bad; [done|]. intros Y%A. congruence. }
  induction s as [|c|c1 c2 s IH] using string_pairs; intros j val J V B;
    [by apply hex_loop_nil|..];
    cbn [hex_loop]; (destruct ((j <? vlen) && (2 * j <? hexlen)) eqn:C; cbn [negb];
     [apply andb_true_iff in C as [C1%Z.ltb_lt C2%Z.ltb_lt]
     |exists TSS2_RC_SUCCESS, j, val; split; [done|]; apply loop_stop; [done..|];
       apply andb_false_iff in C as [?|?]; bool2prop; lia]).
  - destruct (isxdigit c) eqn:X; cbn [negb]; [|apply (N c); [done..|by intros []]].
    apply hex_digit_nibble in X as [-> X].
    replace (nibble c * 16 mod 256) with (16 * nibble c) by (rewrite Z.mod_small; lia).
    destruct (put_byte val j (16 * nibble c)) as (v&W&L&_); [lia|]. rewrite W. cbn [access].
    destruct (hex_loop_nil hexlen vlen (j + 1) v) as (rc&j'&v'&E&D); [lia|..].
    { eapply mem_write_bytes; [done| |exact W]. apply Forall_singleton. unfold is_byte. lia. }
    exists rc, j', v'. split; [exact E|].
    eapply (loop_next _ EmptyString); [lia|done|done|by intros []|unfold strlen; simpl; lia|by left|done|done].
  - destruct (isxdigit c1) eqn:X1; cbn [negb]; [|apply (N c1); [done..|by intros []]].
    destruct (isxdigit c2) eqn:X2; cbn [negb]; [|apply (N c2); [done..|by intros (_&?&_)]].
    apply hex_digit_nibble in X1 as [-> X1]. apply hex_digit_nibble in X2 as [-> X2].
    replace ((nibble c1 * 16 mod 256 + nibble c2) mod 256) with (16 * nibble c1 + nibble c2)
      by (rewrite !Z.mod_small; rewrite ?Z.mod_small; lia).
    destruct (put_byte val j (16 * nibble c1 + nibble c2)) as (v&W&L&_); [lia|].
    rewrite W. cbn [access].
    destruct (IH (j + 1) v) as (rc&j'&v'&E&D); [lia|lia|..].
    { eapply mem_write_bytes; [done| |exact W]. apply Forall_singleton. unfold is_byte. lia. }
    exists rc, j', v'. split; [exact E|]. assert (strlen (String c1 (String c2 s)) = 2 + strlen s).
    { rewrite !strlen_cons. lia. }
    eapply (loop_next _ s); [lia|done|done|by intros (_&_&?)|lia|by right|done|done].
Qed.

(** The rest of the array is cleared. *)
Lemma fill_zeros val j vlen :
  0 <= j <= vlen -> vlen <= Zlen val -> bytes_ok val ->
  exists val', mem_write val j (replicate (Z.to_nat (vlen - j)) 0) = Some val' /\
    Zlen val' = Zlen val /\ bytes_ok val' /\
    drop (Z.to_nat vlen) val' = drop (Z.to_nat vlen) val /\
    take (Z.to_nat vlen) val' = take (Z.to_nat j) val ++ replicate (Z.to_nat (vlen - j)) 0.
Proof.
  intros J V B. assert (Zr : Zlen (replicate (Z.to_nat (vlen - j)) 0) = vlen - j).
  { unfold Zlen. rewrite length_replicate. lia. }
  destruct (mem_write_is_Some val j (replicate (Z.to_nat (vlen - j)) 0)) as (v&E); [lia..|].
  exists v. split; [done|]. split; [by eapply mem_write_len|]. split.
  { eapply mem_write_bytes; [done| |exact E]. apply Forall_replicate. unfold is_byte. lia. }
  apply mem_write_Some in E as (_&_&->). rewrite Zr. replace (j + (vlen - j)) with vlen by lia.
  assert (L : length (take (Z.to_nat j) val ++ replicate (Z.to_nat (vlen - j)) 0) = Z.to_nat vlen).
  { unfold Zlen in *. rewrite length_app, length_take, length_replicate. lia. }
  rewrite app_assoc. by rewrite drop_app_length', take_app_length'.
Qed.

Lemma take_zeros (l : bytes) n m :
  (length (take n l) + m = n)%nat -> take n (l ++ replicate n 0) = take n l ++ replicate m 0.
Proof.
  intros E. destruct (decide (n <= length l)%nat) as [L|L].
  - rewrite length_take_le in E by done. rewrite take_app_le by done.
    replace m with 0%nat by lia. by rewrite app_nil_r.
  - rewrite (take_ge l) in * by lia. rewrite take_app_ge by lia. f_equal.
    rewrite take_replicate. f_equal. lia.
Qed.

(** C35: the conversion of hex digits neither reads past the end of the string
    nor writes outside the array. It succeeds on any hex digits, up to 2 * vlen
    + 1 of them, and fails with TSS2_FAPI_RC_BAD_VALUE on more; on success the
    array holds the bytes the digits stand for, followed by zeros up to [vlen],
    and what is behind [vlen] is never touched. Of 2 * vlen + 1 digits the last
    is dropped, though the comment of the function announces
    TSS2_FAPI_RC_BAD_VALUE for a string that is too long. *)
Theorem hex_to_byte_ary_bounds hex vlen val :
  0 <= vlen <= Zlen val -> vlen <= 2 ^ 31 -> bytes_ok val -> strlen hex < 2 ^ 32 ->
  exists rc val', ifapi_hex_to_byte_ary hex vlen val = Ret (rc, val') /\
    (rc = TSS2_RC_SUCCESS \/ rc = TSS2_FAPI_RC_BAD_VALUE) /\
    Zlen val' = Zlen val /\ bytes_ok val' /\
    drop (Z.to_nat vlen) val' = drop (Z.to_nat vlen) val /\
    (vlen < strlen hex / 2 -> rc = TSS2_FAPI_RC_BAD_VALUE) /\
    (strlen hex / 2 <= vlen -> all_digits hex -> rc = TSS2_RC_SUCCESS) /\
    (rc = TSS2_RC_SUCCESS -> take (Z.to_nat vlen) val' =
       take (Z.to_nat vlen) (hex_bytes hex ++ replicate (Z.to_nat vlen) 0)).
Proof.
  intros V _ B S. pose proof (strlen_nonneg hex). unfold ifapi_hex_to_byte_ary.
  rewrite (Z.mod_small (strlen hex)) by lia.
  destruct (vlen <? strlen hex / 2) eqn:C; bool2prop.
  { exists TSS2_FAPI_RC_BAD_VALUE, val. split_and!; try done; [by right|lia]. }
  destruct (hex_loop_done (strlen hex) vlen hex 0 val) as (rc&j&v&->&[R L O D G K Y]); [lia..|done|].
  destruct (decide (rc = TSS2_RC_SUCCESS)) as [->|N].
  2:{ exists rc, v. rewrite (proj2 (Z.eqb_neq _ _) N). split_and!; try done; [lia|].
      intros _ A. apply G; [done|lia]. }
  specialize (K eq_refl). specialize (Y eq_refl (or_intror (Z.le_refl _))).
  unfold loop_bytes in Y. rewrite Z.sub_0_r in Y. change (Z.to_nat 0) with 0%nat in Y.
  rewrite take_0 in Y. cbn [app] in Y.
  assert (Lj : length (take (Z.to_nat vlen) (hex_bytes hex)) = Z.to_nat j).
  { rewrite <-Y, length_take. unfold Zlen in *. lia. }
  rewrite Z.eqb_refl. cbn [negb]. rewrite (take_zeros _ _ (Z.to_nat (vlen - j))) by lia.
  destruct (j <? vlen) eqn:J; bool2prop.
  - destruct (fill_zeros v j vlen) as (v'&->&L'&O'&D'&T'); [lia..|done|]. cbn [access].
    exists TSS2_RC_SUCCESS, v'. rewrite T', D', Y. split_and!; try done; lia.
  - exists TSS2_RC_SUCCESS, v. replace vlen with j by lia.
    rewrite Z.sub_diag, Y. change (Z.to_nat 0) with 0%nat. cbn [replicate]. rewrite app_nil_r.
    replace j with vlen by lia. split_and!; try done; lia.
Qed.

Lemma hex_to_byte_ary_bounds_witness :
  exists rc val', ifapi_hex_to_byte_ary "0aFf1" 4 [7; 7; 7; 7; 9] = Ret (rc, val') /\
    Zlen val' = 5 /\ rc = TSS2_RC_SUCCESS /\
    take 4 val' = [10; 255; 16; 0] /\ drop 4 val' = [9].
Proof.
  destruct (hex_to_byte_ary_bounds "0aFf1" 4 [7; 7; 7; 7; 9]) as (rc&v&E&_&L&_&D&_&G&Y).
  - split; vm_compute; congruence.
  - lia.
  - repeat (apply List.Forall_cons; [unfold is_byte; lia|]). apply List.Forall_nil.
  - reflexivity.
  - exists rc, v. assert (rc = TSS2_RC_SUCCESS) as R.
    { apply G; [vm_compute; congruence|]. repeat split. }
    specialize (Y R). split; [exact E|]. split; [exact L|]. split; [exact R|].
    split; [exact Y|exact D].
Defined.

(** ** Round trip, totality, enumerations *)

Section Props.
Context `{JC : JsonC} {JL : JsonLaws} {RL : Reliable}.


(** C34: a serializer goes wrong on no value that has the format of its type, as
    long as json-c finds memory ([Reliable]): given a value with the storage of
    its type, whose unions hold the member that their selectors name and whose
    sizes stay within their buffers, it has no undefined behaviour and returns
    success or TSS2_FAPI_RC_BAD_VALUE, whatever the enumeration values,
    selectors, attribute bits and counts in the value. A serializer of a plain
    number or enumeration takes any value. *)
Theorem json_serialize_total {T} (ser : T -> jser) ok x w :
  json_writer ser ok -> ok x ->
  exists rc jso w', ser x None w = Ret (rc, (jso, w')) /\
    (rc = TSS2_RC_SUCCESS \/ rc = TSS2_FAPI_RC_BAD_VALUE).
Proof. intros R H. by apply (json_writer_tame ser ok x R H). Qed.

(** C36: the values of an enumeration are those of its list and no others.
    Each is written and read back as itself; a value outside the list is
    rejected with TSS2_FAPI_RC_BAD_VALUE, and no JSON value is created. *)
Theorem json_enum_exact ser de ty l x w out :
  json_enum ser de ty l -> in_range ty out ->
  (In x l -> exists j w', ser x None w = Ret (TSS2_RC_SUCCESS, (Some j, w')) /\
     de (Some j) (Some out) = Ret (TSS2_RC_SUCCESS, Some x)) /\
  (~ In x l -> ser x None w = Ret (TSS2_FAPI_RC_BAD_VALUE, (None, w))).
Proof.
  intros [C F R]%json_enum_ok Wo. split; [|intros N; by apply R].
  intros I. assert (Wx : s_wf (spec_int ty) x) by (by apply (proj1 (List.Forall_forall _ _) F)).
  destruct (C x Wx I w) as (j&w'&E&V).
  destruct (V out Wo) as (x'&E'&_&X). exists j, w'. split; [exact E|]. simpl in X. by subst x'.
Qed.

(** ** A buffer that is too short *)

Lemma read_past_end bs max val size j :
  bytes_ok bs -> Zlen bs <= Zlen val -> Zlen val < max -> Zlen bs < 2 ^ 16 ->
  json_object_get_type (Some j) = json_type_string ->
  json_object_get_string (Some j) = Some (hex_string bs) ->
  ifapi_json_byte_deserialize (Some j) max val size = Undef.
Proof.
  intros Hb Hl Hm H3 T G. pose proof (Zlen_nonneg bs).
  unfold ifapi_json_byte_deserialize. rewrite T, G, hex_no_0x by done. simpl str_drop.
  unfold ifapi_hex_to_byte_ary. rewrite strlen_hex. rewrite (Z.mod_small (2 * Zlen bs)) by lia.
  replace (2 * Zlen bs / 2) with (Zlen bs) by (rewrite Z.mul_comm, Z.div_mul; lia).
  rewrite (proj2 (Z.ltb_ge max (Zlen bs))) by lia.
  destruct (hex_loop_bytes (2 * Zlen bs) max bs 0 val) as (v1&W&->); [done|lia..|].
  rewrite Z.add_0_l. simpl. rewrite (proj2 (Z.ltb_lt _ _)) by lia.
  destruct (mem_write v1 _ _) as [v2|] eqn:E; [|done]. exfalso.
  apply mem_write_Some in E as (_&E&_). rewrite Zlen_replicate in E.
  rewrite (mem_write_len _ _ _ _ W) in E. lia.
Qed.

(** C37: every TPM2B_DATA that the serializer accepts overflows the buffer when
    it is read back.  The deserializer passes sizeof(TPMT_HA) as the size of
    a buffer of sizeof(TPMU_HA) bytes, and the conversion of the hex digits
    clears the buffer up to that size: two bytes past its end. *)
Theorem TPM2B_DATA_overflow x w :
  s_wf spec_TPM2B_DATA x -> size x <= cap_TPM2B_DATA ->
  exists j w', ifapi_json_TPM2B_DATA_serialize (Some x) None w =
      Ret (TSS2_RC_SUCCESS, (Some j, w')) /\
    forall out, s_wf spec_TPM2B_DATA out ->
      ifapi_json_TPM2B_DATA_deserialize (Some j) (Some out) = Undef.
Proof.
  destruct x as [n b]. intros (Lb&Bb&I&_) D. simpl in Lb, Bb, I, D.
  change cap_TPM2B_DATA with 64 in *.
  destruct (mem_read_is_Some b 0 n) as [bs E]; [lia..|].
  pose proof (mem_read_len _ _ _ _ E) as Ls. pose proof (mem_read_bytes _ _ _ _ Bb E) as Bs.
  destruct (puts_string TSS2_FAPI_RC_MEMORY (hex_string bs) w) as (j&w'&P&T&G).
  exists j, w'. split.
  - unfold ifapi_json_TPM2B_DATA_serialize, tpm2b_serialize, with_in. cbn [size buffer].
    change (lsize lay_TPMU_HA) with 64. rewrite (proj2 (Z.ltb_ge _ _)) by lia.
    cbn [jwhen jbody]. unfold jseq, hex_serialize, jret. cbn. rewrite E. cbn [access]. by rewrite P.
  - intros [n' b'] (Lb'&_). simpl in Lb'. change cap_TPM2B_DATA with 64 in Lb'. unfold ifapi_json_TPM2B_DATA_deserialize, tpm2b_deserialize, with_out.
    change (lsize lay_TPMT_HA) with 66. cbn [buffer]. by rewrite (read_past_end bs) by (done || lia).
Qed.

(** ** The post-quantum types *)

Definition pqc_alg (a : Z) : Prop :=
  a = TPM2_ALG_MLDSA \/ a = TPM2_ALG_MLKEM \/ a = TPM2_ALG_HASH_MLDSA.

Lemma pqc_not_in a l : pqc_alg a -> existsb (fun z => existsb (Z.eqb z) l)
    [TPM2_ALG_MLDSA; TPM2_ALG_MLKEM; TPM2_ALG_HASH_MLDSA] = false -> ~ In a l.
Proof.
  intros H X I. apply not_true_iff_false in X. apply X, existsb_exists. exists a. split.
  - simpl. unfold pqc_alg in H. intuition congruence.
  - apply existsb_exists. exists a. by rewrite Z.eqb_refl.
Qed.

(** A first member that is rejected ends the serializer. *)
Lemma first_rejected name (ser : Z -> jser) x l w :
  rejects ser x -> exists o w',
    jbody (fresh_object :: field name (ser x) :: l) None w = Ret (TSS2_FAPI_RC_BAD_VALUE, (Some o, w')).
Proof.
  intros R. cbn [jbody]. unfold jseq at 1, fresh_object.
  destruct (new_object_ok w) as (o&w'&->). exists o, w'. rewrite Z.eqb_refl.
  unfold jseq at 1, field, with_sub. by rewrite R.
Qed.

Lemma sub_filter_reads de tab j out v :
  SUBTYPE_FILTER de tab j (Some out) = Ret (TSS2_RC_SUCCESS, v) -> exists x, v = Some x /\ In x tab.
Proof.
  unfold SUBTYPE_FILTER. destruct (de j (Some 0)) as [[r [y|]]|]; [|..|done].
  - destruct (Z.eqb_spec r TSS2_RC_SUCCESS); cbn [negb]; [|congruence].
    destruct (existsb (Z.eqb y) tab) eqn:E; [|done]. cbn. intros [= <-].
    apply existsb_exists in E as (z&I&->%Z.eqb_eq). eauto.
  - destruct (r =? TSS2_RC_SUCCESS) eqn:E; bool2prop; cbn [negb]; [done|congruence].
Qed.

Lemma dseq_inv {T} (s1 s2 : dstep T) j out x :
  dseq s1 s2 j out = Ret (TSS2_RC_SUCCESS, x) ->
  exists y, s1 j out = Ret (TSS2_RC_SUCCESS, y) /\ s2 j y = Ret (TSS2_RC_SUCCESS, x).
Proof.
  unfold dseq. destruct (s1 j out) as [[r y]|]; [|done].
  destruct (Z.eqb_spec r TSS2_RC_SUCCESS) as [->|]; [|congruence]. eauto.
Qed.

Lemma dfield_inv {T F} name (m : member T F) (de : jde F) j out x :
  dfield name m de j out = Ret (TSS2_RC_SUCCESS, x) ->
  exists sub v, de sub (Some (mget m out)) = Ret (TSS2_RC_SUCCESS, v) /\
    x = match v with Some v => mset m v out | None => out end.
Proof.
  unfold dfield. destruct (ifapi_get_sub_object j name) as [sub|]; [|done].
  destruct (de (Some sub) (Some (mget m out))) as [[r v]|] eqn:E; [|done]. intros X.
  exists (Some sub), v. destruct v; simplify_eq; auto.
Qed.

(** A step that leaves a member as it is. *)
Lemma dfield_keeps {T F} name (m : member T F) de (sel : member T Z) j out x :
  (forall v, mget sel (mset m v out) = mget sel out) ->
  dfield name m de j out = Ret (TSS2_RC_SUCCESS, x) -> mget sel x = mget sel out.
Proof. intros K (?&[v|]&_&->)%dfield_inv; auto. Qed.

Lemma enum_field_reads {T} name (m : member T Z) de tab j out x :
  (forall v, mget m (mset m v out) = v) ->
  dfield name m (SUBTYPE_FILTER de tab) j out = Ret (TSS2_RC_SUCCESS, x) -> In (mget m x) tab.
Proof.
  intros K (sub&v&E&->)%dfield_inv. apply sub_filter_reads in E as (y&->&I). by rewrite K.
Qed.

Lemma TPMT_PUBLIC_reads j out x :
  ifapi_json_TPMT_PUBLIC_deserialize j (Some out) = Ret (TSS2_RC_SUCCESS, Some x) ->
  In (mget TPMT_PUBLIC'type x)
    [TPM2_ALG_RSA; TPM2_ALG_KEYEDHASH; TPM2_ALG_ECC; TPM2_ALG_SYMCIPHER; TPM2_ALG_NULL].
Proof.
  unfold ifapi_json_TPMT_PUBLIC_deserialize, with_out.
  destruct (dbody _ j out) as [[r y]|] eqn:E; [|done]. intros [= -> ->].
  cbn [dbody] in E. apply dseq_inv in E as (x1&E1&E). apply enum_field_reads in E1; [|done].
  repeat (apply dseq_inv in E as (?&D%(dfield_keeps _ _ _ TPMT_PUBLIC'type)&E); [|done];
          rewrite <-D in E1; clear D).
  apply dseq_inv in E as (x6&D&E). injection E as ->.
  destruct (ifapi_get_sub_object j "unique"); [|by injection D as <-].
  apply (dfield_keeps _ _ _ TPMT_PUBLIC'type) in D; [|done]. by rewrite D.
Qed.

Lemma TPMT_SIGNATURE_reads j out x :
  ifapi_json_TPMT_SIGNATURE_deserialize j (Some out) = Ret (TSS2_RC_SUCCESS, Some x) ->
  In (mget TPMT_SIGNATURE'sigAlg x) [TPM2_ALG_RSASSA; TPM2_ALG_RSAPSS; TPM2_ALG_ECDSA;
    TPM2_ALG_ECDAA; TPM2_ALG_SM2; TPM2_ALG_ECSCHNORR; TPM2_ALG_HMAC; TPM2_ALG_NULL].
Proof.
  unfold ifapi_json_TPMT_SIGNATURE_deserialize, with_out.
  destruct (dbody _ j out) as [[r y]|] eqn:E; [|done]. intros [= -> ->].
  cbn [dbody] in E. apply dseq_inv in E as (x1&E1&E). apply enum_field_reads in E1; [|done].
  apply dseq_inv in E as (x2&D&E). injection E as ->. unfold dunless in D.
  destruct (_ =? _); [by injection D as <-|].
  apply (dfield_keeps _ _ _ TPMT_SIGNATURE'sigAlg) in D; [|done]. by rewrite D.
Qed.

(** C38: the post-quantum keys and signatures have no JSON form.  The unions of
    keys, parameters and signatures have cases for ML-DSA and ML-KEM, but the
    lists of allowed algorithms in front of them do not: the public area of an
    ML-DSA or ML-KEM key and an ML-DSA signature are rejected with
    TSS2_FAPI_RC_BAD_VALUE on writing, and no JSON value is read as one. *)
Theorem json_pqc_rejected :
  (forall x w, pqc_alg (mget TPMT_PUBLIC'type x) -> exists o w',
     ifapi_json_TPMT_PUBLIC_serialize (Some x) None w = Ret (TSS2_FAPI_RC_BAD_VALUE, (Some o, w'))) /\
  (forall x w, pqc_alg (mget TPMT_SIGNATURE'sigAlg x) -> exists o w',
     ifapi_json_TPMT_SIGNATURE_serialize (Some x) None w = Ret (TSS2_FAPI_RC_BAD_VALUE, (Some o, w'))) /\
  (forall j out x, ifapi_json_TPMT_PUBLIC_deserialize j (Some out) = Ret (TSS2_RC_SUCCESS, Some x) ->
     ~ pqc_alg (mget TPMT_PUBLIC'type x)) /\
  (forall j out x, ifapi_json_TPMT_SIGNATURE_deserialize j (Some out) = Ret (TSS2_RC_SUCCESS, Some x) ->
     ~ pqc_alg (mget TPMT_SIGNATURE'sigAlg x)).
Proof.
  split_and!.
  - intros x w P. apply first_rejected, check_rejects, (pqc_not_in _ _ P). reflexivity.
  - intros x w P. apply first_rejected, check_rejects, (pqc_not_in _ _ P). reflexivity.
  - intros j out x E%TPMT_PUBLIC_reads P. revert E. apply (pqc_not_in _ _ P). reflexivity.
  - intros j out x E%TPMT_SIGNATURE_reads P. revert E. apply (pqc_not_in _ _ P). reflexivity.
Qed.

End Props.

(** ** On the JSON library of [JsonVal] *)

Definition keyedhash_public : TPMT_PUBLIC :=
  Mk_TPMT_PUBLIC TPM2_ALG_KEYEDHASH TPM2_ALG_SHA256 TPMA_OBJECT_USERWITHAUTH
    (zero_2b cap_TPM2B_DIGEST)
    (TPMU_PUBLIC_PARMS_of_TPMS_KEYEDHASH_PARMS
      (mset TPMS_KEYEDHASH_PARMS'scheme
        (mset TPMT_KEYEDHASH_SCHEME'scheme TPM2_ALG_NULL zero_TPMT_KEYEDHASH_SCHEME)
        zero_TPMS_KEYEDHASH_PARMS))
    (TPMU_PUBLIC_ID_of_TPM2B_DIGEST (zero_2b cap_TPM2B_DIGEST)).

Lemma in_range_dec n z :
  (0 <=? z) && (z <? 2 ^ cbits (CType n false)) = true -> in_range (CType n false) z.
Proof. intros E. bool2prop. done. Qed.




Lemma json_serialize_total_witness : exists rc jso,
  ifapi_json_TPMT_HA_serialize (Some (mset TPMT_HA'hashAlg 7 zero_TPMT_HA)) None tt =
    Ret (rc, (jso, tt)) /\ (rc = TSS2_RC_SUCCESS \/ rc = TSS2_FAPI_RC_BAD_VALUE).
Proof.
  destruct (json_serialize_total (JC := jval_c)
    (fun x => ifapi_json_TPMT_HA_serialize (Some x)) (has_format spec_TPMT_HA)
    (mset TPMT_HA'hashAlg 7 zero_TPMT_HA) tt) as (rc&jso&[]&E&R).
  - apply jw_TPMT_HA.
  - destruct zero_TPMT_HA_wf as (_&W&_).
    split; [exact (conj (in_range_dec 2 7 eq_refl) (conj W I))|exact (conj I (conj I I))].
  - exists rc, jso. split; [exact E|exact R].
Defined.

Lemma not_in_b x l : existsb (Z.eqb x) l = false -> ~ In x l.
Proof.
  intros E I. apply not_true_iff_false in E. apply E, existsb_exists. exists x. by rewrite Z.eqb_refl.
Qed.

Lemma json_enum_exact_witness :
  (exists j w', ifapi_json_TPM2_ST_serialize TPM2_ST_CREATION None tt =
     Ret (TSS2_RC_SUCCESS, (Some j, w')) /\
   ifapi_json_TPM2_ST_deserialize (Some j) (Some 0) = Ret (TSS2_RC_SUCCESS, Some TPM2_ST_CREATION)) /\
  ifapi_json_TPM2_ST_serialize 1 None tt = Ret (TSS2_FAPI_RC_BAD_VALUE, (None, tt)).
Proof.
  split.
  - apply (json_enum_exact (JC := jval_c) _ _ UINT16 _ TPM2_ST_CREATION tt 0 je_TPM2_ST).
    + exact (in_range_dec 2 0 eq_refl).
    + simpl. tauto.
  - apply (json_enum_exact (JC := jval_c) _ _ UINT16 _ 1 tt 0 je_TPM2_ST).
    + exact (in_range_dec 2 0 eq_refl).
    + apply not_in_b. reflexivity.
Defined.

Lemma TPM2B_DATA_overflow_witness : exists j,
  ifapi_json_TPM2B_DATA_serialize (Some (zero_2b cap_TPM2B_DATA)) None tt =
    Ret (TSS2_RC_SUCCESS, (Some j, tt)) /\
  ifapi_json_TPM2B_DATA_deserialize (Some j) (Some (zero_2b cap_TPM2B_DATA)) = Undef.
Proof.
  destruct (TPM2B_DATA_overflow (JC := jval_c) (zero_2b cap_TPM2B_DATA) tt) as (j&[]&E&R).
  - apply zero_2b_wf. vm_compute. congruence.
  - vm_compute. congruence.
  - exists j. split; [exact E|]. apply R, zero_2b_wf. vm_compute. congruence.
Defined.

Lemma json_pqc_rejected_witness : exists o w',
  ifapi_json_TPMT_PUBLIC_serialize (Some (mset TPMT_PUBLIC'type TPM2_ALG_MLDSA keyedhash_public)) None tt =
    Ret (TSS2_FAPI_RC_BAD_VALUE, (Some o, w')).
Proof.
  apply (proj1 (json_pqc_rejected (JC := jval_c))). by left.
Defined.
