(* ===== verification/Tcti.v ===== *)
(** * The transport layer: what its modules share, the loader, and SPI.

    [src/tss2-tcti/tcti-common.c] (the checks that every module makes before
    it does something, and the header of a message), [src/util/key-value-parse.c]
    (configuration strings) and [src/tss2-tcti/tctildr.c] (the loader, a
    transport that forwards to another one).

    A string is the characters before the terminating NUL; [None] is NULL.
    The parser of configuration strings overwrites separators with NUL; no
    function looks at them again, so the strings that are left are returned
    instead. What finds and opens the library of a transport is a parameter of
    the loader. *)

From stdpp Require Import base strings list_numbers.
From Stdlib Require Import Ascii.
From Equations Require Import Equations.
From S2P Require Import Prelude Common MuSpec MuBase MuBaseOk Sys EsysBase.

Open Scope string_scope.
Open Scope Z_scope.
Open Scope tss_scope.

(** ** Return codes *)

Definition TSS2_BASE_RC_BAD_CONTEXT := 3.
Definition TSS2_BASE_RC_IO_ERROR := 10.
Definition TSS2_TCTI_RC_GENERAL_FAILURE := Z.lor TSS2_TCTI_RC_LAYER TSS2_BASE_RC_GENERAL_FAILURE.
Definition TSS2_TCTI_RC_BAD_CONTEXT := Z.lor TSS2_TCTI_RC_LAYER TSS2_BASE_RC_BAD_CONTEXT.
Definition TSS2_TCTI_RC_BAD_SEQUENCE := Z.lor TSS2_TCTI_RC_LAYER TSS2_BASE_RC_BAD_SEQUENCE.
Definition TSS2_TCTI_RC_TRY_AGAIN := Z.lor TSS2_TCTI_RC_LAYER TSS2_BASE_RC_TRY_AGAIN.
Definition TSS2_TCTI_RC_IO_ERROR := Z.lor TSS2_TCTI_RC_LAYER TSS2_BASE_RC_IO_ERROR.
Definition TSS2_TCTI_RC_BAD_VALUE := Z.lor TSS2_TCTI_RC_LAYER TSS2_BASE_RC_BAD_VALUE.
Definition TSS2_TCTI_RC_MEMORY := Z.lor TSS2_TCTI_RC_LAYER TSS2_BASE_RC_MEMORY.

Definition TCTI_VERSION := 2.
Definition TPM_HEADER_SIZE := 10.

(** ** The context that the modules share (tcti-common.c) *)

Inductive tcti_state_t :=
| TCTI_STATE_FINAL
| TCTI_STATE_TRANSMIT
| TCTI_STATE_RECEIVE.

#[export] Instance tcti_state_eq_dec : EqDecision tcti_state_t.
Proof. solve_decision. Defined.

Record tpm_header_t := Tpm_header { header_tag : Z; header_size : Z; header_code : Z }.

(** Of [v2] the magic number is used. *)
Record TSS2_TCTI_COMMON_CONTEXT := Tcti_common {
  magic : Z;
  state : tcti_state_t;
  header : tpm_header_t;
  locality : Z;
  partial_read_supported : bool;
  partial : bool
}.

Definition set_common_state s c := Tcti_common (magic c) s (header c) (locality c)
  (partial_read_supported c) (partial c).
Definition set_header_size n c := Tcti_common (magic c) (state c)
  (Tpm_header (header_tag (header c)) n (header_code (header c))) (locality c)
  (partial_read_supported c) (partial c).

(** The checks of the magic number and of the state that the functions share. *)
Definition in_state (tcti_common : TSS2_TCTI_COMMON_CONTEXT) (m : Z) (s : tcti_state_t) : TSS2_RC :=
  if negb (magic tcti_common =? m) then TSS2_TCTI_RC_BAD_CONTEXT
  else if negb (bool_decide (state tcti_common = s)) then TSS2_TCTI_RC_BAD_SEQUENCE
  else TSS2_RC_SUCCESS.

Definition tcti_common_cancel_checks (tcti_common : option TSS2_TCTI_COMMON_CONTEXT)
    (m : Z) : TSS2_RC :=
  match tcti_common with
  | None => TSS2_TCTI_RC_BAD_REFERENCE
  | Some c => in_state c m TCTI_STATE_RECEIVE
  end.

Definition tcti_common_transmit_checks (tcti_common : option TSS2_TCTI_COMMON_CONTEXT)
    (command_buffer : option bytes) (m : Z) : TSS2_RC :=
  match command_buffer, tcti_common with
  | Some _, Some c => in_state c m TCTI_STATE_TRANSMIT
  | _, _ => TSS2_TCTI_RC_BAD_REFERENCE
  end.

Definition tcti_common_receive_checks (tcti_common : option TSS2_TCTI_COMMON_CONTEXT)
    (response_size : option Z) (m : Z) : TSS2_RC :=
  match response_size, tcti_common with
  | Some _, Some c => in_state c m TCTI_STATE_RECEIVE
  | _, _ => TSS2_TCTI_RC_BAD_REFERENCE
  end.

Definition tcti_common_set_locality_checks (tcti_common : option TSS2_TCTI_COMMON_CONTEXT)
    (m : Z) : TSS2_RC :=
  match tcti_common with
  | None => TSS2_TCTI_RC_BAD_REFERENCE
  | Some c => in_state c m TCTI_STATE_TRANSMIT
  end.

Definition tcti_make_sticky_not_implemented : TSS2_RC := TSS2_TCTI_RC_NOT_IMPLEMENTED.

Section Header.
Context {H : Host}.

Definition header_unmarshal (buf : option bytes) (h : tpm_header_t) :
    outcome (TSS2_RC * tpm_header_t) :=
  let* (rc, (offset, t)) :=
    Tss2_MU_TPM2_ST_Unmarshal buf TPM_HEADER_SIZE (Some 0) (Some (header_tag h)) in
  let h := Tpm_header (default (header_tag h) t) (header_size h) (header_code h) in
  if negb (rc =? TSS2_RC_SUCCESS) then Ret (rc, h) else
  let* (rc, (offset, n)) :=
    Tss2_MU_UINT32_Unmarshal buf TPM_HEADER_SIZE offset (Some (header_size h)) in
  let h := Tpm_header (header_tag h) (default (header_size h) n) (header_code h) in
  if negb (rc =? TSS2_RC_SUCCESS) then Ret (rc, h) else
  let* (rc, (offset, k)) :=
    Tss2_MU_UINT32_Unmarshal buf TPM_HEADER_SIZE offset (Some (header_code h)) in
  Ret (rc, Tpm_header (header_tag h) (header_size h) (default (header_code h) k)).

Definition header_marshal (h : tpm_header_t) (buf : option bytes) :
    outcome (TSS2_RC * option bytes) :=
  let* (rc, (buf, offset)) :=
    Tss2_MU_TPM2_ST_Marshal (header_tag h) buf TPM_HEADER_SIZE (Some 0) in
  if negb (rc =? TSS2_RC_SUCCESS) then Ret (rc, buf) else
  let* (rc, (buf, offset)) :=
    Tss2_MU_UINT32_Marshal (header_size h) buf TPM_HEADER_SIZE offset in
  if negb (rc =? TSS2_RC_SUCCESS) then Ret (rc, buf) else
  let* (rc, (buf, offset)) :=
    Tss2_MU_UINT32_Marshal (header_code h) buf TPM_HEADER_SIZE offset in
  Ret (rc, buf).

End Header.

(** ** Keys and values (key-value-parse.c) *)

(** [strtok_r(s, d, &state)] and [strtok_r(NULL, d, &state)] with [s] the rest
    of the string: the token and what is left behind its delimiter. *)
Fixpoint skip_delim (d : ascii) (s : string) : string :=
  match s with
  | EmptyString => EmptyString
  | String c s' => if Ascii.eqb c d then skip_delim d s' else s
  end.

Fixpoint split_delim (d : ascii) (s : string) : string * string :=
  match s with
  | EmptyString => (EmptyString, EmptyString)
  | String c s' =>
      if Ascii.eqb c d then (EmptyString, s')
      else let '(tok, rest) := split_delim d s' in (String c tok, rest)
  end.

Definition strtok_r (d : ascii) (s : string) : option (string * string) :=
  match skip_delim d s with
  | EmptyString => None
  | s => Some (split_delim d s)
  end.

Record key_value_t := Key_value { kv_key : option string; kv_value : option string }.
Definition KEY_VALUE_INIT := Key_value None None.

Definition parse_key_value (key_value_str : option string) (key_value : option key_value_t) :
    bool * option key_value_t :=
  match key_value_str, key_value with
  | Some s, Some kv =>
      match strtok_r "="%char s with
      | None => (false, Some kv)
      | Some (tok, state) =>
          let kv := Key_value (Some tok) (kv_value kv) in
          match strtok_r "="%char state with
          | None => (false, Some kv)
          | Some (tok, _) => (true, Some (Key_value (kv_key kv) (Some tok)))
          end
      end
  | _, _ => (false, key_value)
  end.

Lemma skip_delim_length d s : (String.length (skip_delim d s) <= String.length s)%nat.
Proof. induction s as [|c s IH]; simpl; [done|]. destruct (Ascii.eqb c d); simpl; lia. Qed.

Lemma split_delim_length d s :
  (String.length (split_delim d s).2 <= String.length s)%nat.
Proof.
  induction s as [|c s IH]; simpl; [done|]. destruct (Ascii.eqb c d); simpl; [lia|].
  destruct (split_delim d s). simpl in *. lia.
Qed.

Lemma strtok_r_length d s tok rest :
  strtok_r d s = Some (tok, rest) -> (String.length rest < String.length s)%nat.
Proof.
  unfold strtok_r. pose proof (skip_delim_length d s) as L.
  assert (F : forall c s', skip_delim d s = String c s' -> Ascii.eqb c d = false).
  { clear L. induction s as [|c s IH]; simpl; [done|]. destruct (Ascii.eqb c d) eqn:E; [done|].
    by intros ?? [= <- <-]. }
  destruct (skip_delim d s) as [|c s'] eqn:E; [done|]. specialize (F _ _ eq_refl).
  simpl. rewrite F. pose proof (split_delim_length d s') as L'.
  destruct (split_delim d s') as [t r]. intros [= <- <-]. simpl in *. lia.
Qed.

(** A value with the equation that says what it is. *)
Definition inspect {A} (a : A) : {b | a = b} := exist _ a eq_refl.

Section KeyValue.
Context {D : Type}.

(** The loop of [parse_key_value_string] on the rest of the string. *)
Equations? kv_loop (callback : key_value_t -> D -> TSS2_RC * D) (s : string) (key_value : key_value_t)
    (user_data : D) : TSS2_RC * D by wf (String.length s) lt :=
  kv_loop callback s key_value user_data with inspect (strtok_r ","%char s) := {
  | exist _ None _ => (TSS2_RC_SUCCESS, user_data)
  | exist _ (Some (tok, s')) _ =>
      match parse_key_value (Some tok) (Some key_value) with
      | (true, Some key_value) =>
          let '(rc, user_data) := callback key_value user_data in
          if rc =? TSS2_RC_SUCCESS then kv_loop callback s' key_value user_data
          else (rc, user_data)
      | (_, _) => (TSS2_TCTI_RC_BAD_VALUE, user_data)
      end }.
Proof. by eapply strtok_r_length. Qed.

Definition parse_key_value_string (kv_str : option string)
    (callback : option (key_value_t -> D -> TSS2_RC * D)) (user_data : option D) :
    TSS2_RC * option D :=
  match kv_str, callback, user_data with
  | Some s, Some callback, Some d =>
      let '(rc, d) := kv_loop callback s KEY_VALUE_INIT d in (rc, Some d)
  | _, _, _ => (TSS2_TCTI_RC_BAD_VALUE, user_data)
  end.

End KeyValue.

(** ** The loader (tctildr.c) *)

(** [limits.h] of Linux *)
Definition PATH_MAX := 4096.

Definition str_len (s : string) : Z := Z.of_nat (String.length s).

(** [strchr(s, ':')]: what is before and behind it. *)
Fixpoint split_colon (s : string) : option (string * string) :=
  match s with
  | EmptyString => None
  | String c s' =>
      if Ascii.eqb c ":" then Some (EmptyString, s')
      else match split_colon s' with
           | Some (name, conf) => Some (String c name, conf)
           | None => None
           end
  end.

(** [name] and [conf] are the strings in the two buffers, [None] for NULL. *)
Definition tctildr_conf_parse (name_conf : option string) (name conf : option string) :
    TSS2_RC * (option string * option string) :=
  match name_conf with
  | None => (TSS2_TCTI_RC_BAD_REFERENCE, (name, conf))
  | Some s =>
      if PATH_MAX - 1 <? str_len s then (TSS2_TCTI_RC_BAD_VALUE, (name, conf))
      else if str_len s =? 0 then (TSS2_RC_SUCCESS, (name, conf))
      else
        match split_colon s, name with
        | None, Some _ => (TSS2_RC_SUCCESS, (Some s, conf))
        | None, None => (TSS2_RC_SUCCESS, (name, conf))
        | Some (n, c), _ =>
            let name := match name with
              | Some _ => if String.eqb n EmptyString then name else Some n
              | None => None
              end in
            let conf := match conf with
              | Some _ => if String.eqb c EmptyString then conf else Some c
              | None => None
              end in
            (TSS2_RC_SUCCESS, (name, conf))
        end
  end.

(** Empty strings become NULL. *)
Definition nonempty (s : option string) : option string :=
  match s with
  | Some s => if String.eqb s EmptyString then None else Some s
  | None => None
  end.

(** [calloc] says for which sizes there is memory. *)
Definition tctildr_conf_parse_alloc (calloc : Z -> bool) (name_conf : option string) :
    TSS2_RC * (option string * option string) :=
  match name_conf with
  | None => (TSS2_RC_SUCCESS, (None, None))
  | Some s =>
      if PATH_MAX - 1 <? str_len s then (TSS2_TCTI_RC_BAD_VALUE, (None, None))
      else if negb (calloc (str_len s + 1)) then (TSS2_TCTI_RC_MEMORY, (None, None))
      else
        let '(rc, (name, conf)) :=
          tctildr_conf_parse name_conf (Some EmptyString) (Some EmptyString) in
        if negb (rc =? TSS2_RC_SUCCESS) then (rc, (None, None))
        else (TSS2_RC_SUCCESS, (nonempty name, nonempty conf))
  end.

Section Loader.
Context {S : Type}.

(** The context of the loader: its magic number and the transport behind it. *)
Record TSS2_TCTILDR_CONTEXT := Tctildr {
  ldr_magic : Z;
  ldr_tcti : option (TSS2_TCTI_CONTEXT S)
}.

Definition TCTILDR_MAGIC := 0xbc44a31ca74b4aaf.

Definition tctildr_context_cast (ctx : TSS2_TCTILDR_CONTEXT) : option TSS2_TCTILDR_CONTEXT :=
  if ldr_magic ctx =? TCTILDR_MAGIC then Some ctx else None.

Definition tctildr_transmit (ctx : TSS2_TCTILDR_CONTEXT) (command_size : Z) (command : bytes) :
    TSS2_RC * TSS2_TCTILDR_CONTEXT :=
  match tctildr_context_cast ctx with
  | None => (TSS2_TCTI_RC_BAD_REFERENCE, ctx)
  | Some ldr_ctx =>
      let '(rc, t) := Tss2_Tcti_Transmit (ldr_tcti ldr_ctx) command_size command in
      (rc, Tctildr (ldr_magic ldr_ctx) t)
  end.

Definition tctildr_receive (ctx : TSS2_TCTILDR_CONTEXT) (response_size : Z) (response : bool)
    (timeout : Z) : TSS2_RC * (Z * (bytes * TSS2_TCTILDR_CONTEXT)) :=
  match tctildr_context_cast ctx with
  | None => (TSS2_TCTI_RC_BAD_REFERENCE, (response_size, ([], ctx)))
  | Some ldr_ctx =>
      let '(rc, (n, (w, t))) :=
        Tss2_Tcti_Receive (ldr_tcti ldr_ctx) response_size response timeout in
      (rc, (n, (w, Tctildr (ldr_magic ldr_ctx) t)))
  end.

(** The loader as a transport. *)
Definition tctildr_tcti (ctx : TSS2_TCTILDR_CONTEXT) : TSS2_TCTI_CONTEXT TSS2_TCTILDR_CONTEXT :=
  Tcti TCTI_VERSION (Some tctildr_transmit) (Some tctildr_receive) ctx.

(** [get_tcti] is [tctildr_get_tcti], which finds and initialises the transport. *)
Definition tctildr_init_context_data
    (get_tcti : option string -> option string -> TSS2_RC * option (TSS2_TCTI_CONTEXT S))
    (ctx : option TSS2_TCTILDR_CONTEXT) (name conf : option string) :
    TSS2_RC * option TSS2_TCTILDR_CONTEXT :=
  match ctx with
  | None => (TSS2_TCTI_RC_BAD_VALUE, None)
  | Some _ =>
      let '(rc, child) := get_tcti name conf in
      if negb (rc =? TSS2_RC_SUCCESS) then (rc, ctx)
      else (TSS2_RC_SUCCESS, Some (Tctildr TCTILDR_MAGIC child))
  end.

(** The result is [*tctiContext], where [tctiContext] is not NULL; a context
    that was not set up has version 0, and [Tss2_Tcti_Finalize] ignores it. *)
Definition Tss2_TctiLdr_Initialize_Ex (calloc : Z -> bool) (sizeof_ctx : Z)
    (get_tcti : option string -> option string -> TSS2_RC * option (TSS2_TCTI_CONTEXT S))
    (name conf : option string) : TSS2_RC * option TSS2_TCTILDR_CONTEXT :=
  if negb (calloc sizeof_ctx) then (TSS2_TCTI_RC_MEMORY, None)
  else
    let '(rc, ctx) := tctildr_init_context_data get_tcti (Some (Tctildr 0 None))
      (nonempty name) (nonempty conf) in
    (rc, if rc =? TSS2_RC_SUCCESS then ctx else None).

Definition Tss2_TctiLdr_Initialize (calloc : Z -> bool) (sizeof_ctx : Z)
    (get_tcti : option string -> option string -> TSS2_RC * option (TSS2_TCTI_CONTEXT S))
    (nameConf : option string) : TSS2_RC * option TSS2_TCTILDR_CONTEXT :=
  let '(rc, (name, conf)) := tctildr_conf_parse_alloc calloc nameConf in
  if negb (rc =? TSS2_RC_SUCCESS) then (rc, None)
  else Tss2_TctiLdr_Initialize_Ex calloc sizeof_ctx get_tcti name conf.

End Loader.
Arguments TSS2_TCTILDR_CONTEXT : clear implicits.

(** ** The transport to a TPM on an SPI bus

    [src/tss2-tcti/tcti-spi-helper.c] speaks the TIS protocol of the TPM - a
    register file with a status register and a FIFO - over the functions of a
    platform, [TSS2_TCTI_SPI_HELPER_PLATFORM], that an application supplies:
    the record [PLATFORM], over a state [U] of its own ([user_data]).

    The state of a call is the context of the transport, the buffer that the
    caller gave for the response and its size. The loops that wait for the TPM
    have no bound in the code; they take [fuel] here, and a loop that has not
    ended with it has no result. *)

Open Scope list_scope.
Open Scope Z_scope.
Open Scope tss_scope.
Open Scope esys_scope.

(** [spi_transfer] is given the bytes at [data_out] ([None] for NULL), whether
    [data_in] is not NULL, and the count; it returns what it stores at
    [data_in]. [timeout_expired] returns what it stores at [result]. *)
Record PLATFORM {U : Type} := Platform {
  sleep_ms : option (U -> Z -> TSS2_RC * U);
  start_timeout : option (U -> Z -> TSS2_RC * U);
  timeout_expired : option (U -> TSS2_RC * (option bool * U));
  spi_acquire : option (U -> TSS2_RC * U);
  spi_release : option (U -> TSS2_RC * U);
  spi_transfer : option (U -> option bytes -> bool -> Z -> TSS2_RC * (bytes * U));
  platform_finalize : option (U -> U)
}.
Arguments PLATFORM : clear implicits.

Definition TCTI_SPI_HELPER_MAGIC := 0x4D5C6E8BD4811477.
Definition TCTI_SPI_HELPER_RESP_HEADER_SIZE := 6.
Definition TIMEOUT_B := 2000.

Definition TCTI_SPI_HELPER_TPM_LOCALITY_0 := 0x00D40000.
Definition TCTI_SPI_HELPER_TPM_ACCESS_REG := TCTI_SPI_HELPER_TPM_LOCALITY_0 + 0.
Definition TCTI_SPI_HELPER_TPM_STS_REG := TCTI_SPI_HELPER_TPM_LOCALITY_0 + 0x18.
Definition TCTI_SPI_HELPER_TPM_DATA_FIFO_REG := TCTI_SPI_HELPER_TPM_LOCALITY_0 + 0x24.
Definition TCTI_SPI_HELPER_TPM_DID_VID_REG := TCTI_SPI_HELPER_TPM_LOCALITY_0 + 0xF00.
Definition TCTI_SPI_HELPER_TPM_RID_REG := TCTI_SPI_HELPER_TPM_LOCALITY_0 + 0xF04.

Definition TCTI_SPI_HELPER_TPM_ACCESS_VALID := Z.shiftl 1 7.
Definition TCTI_SPI_HELPER_TPM_ACCESS_ACTIVE_LOCALITY := Z.shiftl 1 5.
Definition TCTI_SPI_HELPER_TPM_ACCESS_REQUEST_USE := Z.shiftl 1 1.

Definition TCTI_SPI_HELPER_TPM_STS_BURST_COUNT_SHIFT := 8.
Definition TCTI_SPI_HELPER_TPM_STS_BURST_COUNT_MASK :=
  Z.shiftl 0xFFFF TCTI_SPI_HELPER_TPM_STS_BURST_COUNT_SHIFT.
Definition TCTI_SPI_HELPER_TPM_STS_VALID := Z.shiftl 1 7.
Definition TCTI_SPI_HELPER_TPM_STS_COMMAND_READY := Z.shiftl 1 6.
Definition TCTI_SPI_HELPER_TPM_STS_GO := Z.shiftl 1 5.
Definition TCTI_SPI_HELPER_TPM_STS_DATA_AVAIL := Z.shiftl 1 4.

Inductive REGISTER_ACCESS_TYPE := REGISTER_WRITE | REGISTER_READ.

(** [LE_TO_HOST_32] of src/util/tss2_endian.h. *)
Definition LE_TO_HOST_32 {H : Host} (v : Z) : Z := if words_bigendian then endian_conv_32 v else v.

(** The header of a transfer: [bytes - 1] is a [size_t], cut to a byte. *)
Definition spi_header (access : REGISTER_ACCESS_TYPE) (cnt addr : Z) : bytes :=
  [Z.lor (match access with REGISTER_READ => 0x80 | REGISTER_WRITE => 0 end) (wrap64 (cnt - 1)) mod 256;
   Z.land (Z.shiftr addr 16) 0xff; Z.land (Z.shiftr addr 8) 0xff; Z.land (Z.shiftr addr 0) 0xff].

Section Spi.
Context {H : Host} {U : Type} (platform : PLATFORM U) (fuel : nat).

(** The context, and the objects of the caller of [receive]. *)
Record spi_state := Spi {
  common : TSS2_TCTI_COMMON_CONTEXT;
  user_data : U;
  resp_header : bytes;
  response_size : option Z;
  response_buffer : option bytes
}.

Definition set_common c s := Spi c (user_data s) (resp_header s) (response_size s) (response_buffer s).
Definition set_user_data u s := Spi (common s) u (resp_header s) (response_size s) (response_buffer s).
Definition set_resp_header h s := Spi (common s) (user_data s) h (response_size s) (response_buffer s).
Definition set_response_size n s :=
  Spi (common s) (user_data s) (resp_header s) (Some n) (response_buffer s).
Definition set_response_buffer b s :=
  Spi (common s) (user_data s) (resp_header s) (response_size s) (Some b).

Abbreviation spi := (M spi_state).

(** A function of the platform; a NULL pointer is called without a check. *)
Definition platform_call {A B} (f : option A) (call : A -> U -> B * U) : spi B := fun s =>
  match f with
  | None => Undef
  | Some f => let '(b, u) := call f (user_data s) in Ret (set_user_data u s, inr b)
  end.

Definition spi_tpm_helper_delay_ms (milliseconds : Z) : spi TSS2_RC :=
  platform_call (sleep_ms platform) (fun f u => f u milliseconds).
Definition spi_tpm_helper_start_timeout (milliseconds : Z) : spi TSS2_RC :=
  platform_call (start_timeout platform) (fun f u => f u milliseconds).
Definition spi_tpm_helper_timeout_expired : spi (TSS2_RC * option bool) :=
  platform_call (timeout_expired platform)
    (fun f u => let '(rc, (result, u)) := f u in ((rc, result), u)).
Definition spi_tpm_helper_spi_acquire : spi TSS2_RC :=
  match spi_acquire platform with
  | None => ret TSS2_RC_SUCCESS
  | f => platform_call f (fun f u => f u)
  end.
Definition spi_tpm_helper_spi_release : spi TSS2_RC :=
  match spi_release platform with
  | None => ret TSS2_RC_SUCCESS
  | f => platform_call f (fun f u => f u)
  end.

(** The code and the bytes at [data_in], which held [data_in0]. *)
Definition spi_tpm_helper_spi_transfer (data_out data_in0 : option bytes) (cnt : Z) :
    spi (TSS2_RC * bytes) :=
  let! (rc, w) := platform_call (spi_transfer platform) (fun f u =>
    let '(rc, (w, u)) := f u data_out (bool_decide (is_Some data_in0)) cnt in ((rc, w), u)) in
  match data_in0 with
  | None => ret (rc, [])
  | Some b => let! b := lift (access (mem_write b 0 w)) in ret (rc, b)
  end.

Definition spi_tpm_helper_platform_finalize : spi unit :=
  match platform_finalize platform with
  | None => ret tt
  | Some f => modify (fun s => set_user_data (f (user_data s)) s)
  end.

Definition spi_tpm_helper_read_be32 (s : bytes) : spi Z :=
  let! b := lift (access (mem_read s 0 4)) in ret (be_value b).

(** The bytes that the TPM inserts while it is in the wait state. *)
Fixpoint wait_state (retries : nat) (byte : Z) : spi unit :=
  match retries with
  | O => fail TSS2_TCTI_RC_IO_ERROR
  | S retries =>
      let! (rc, b) := spi_tpm_helper_spi_transfer (Some [0]) (Some [byte]) 1 in
      if negb (rc =? TSS2_RC_SUCCESS) then fail TSS2_TCTI_RC_IO_ERROR else
      let byte := default 0 (head b) in
      if negb (Z.land byte 1 =? 0) then ret tt else
      let! rc := spi_tpm_helper_delay_ms 1 in
      return_if_error rc ;!
      wait_state retries byte
  end.

(** [header_response] is not initialised; its last byte is read. *)
Definition spi_tpm_helper_start_transaction (acc : REGISTER_ACCESS_TYPE) (bytes addr : Z) :
    spi unit :=
  let header := spi_header acc bytes addr in
  let! rc := spi_tpm_helper_spi_acquire in
  if negb (rc =? TSS2_RC_SUCCESS) then fail TSS2_TCTI_RC_IO_ERROR else
  let! (rc, header_response) := spi_tpm_helper_spi_transfer (Some header) (Some [0; 0; 0; 0]) 4 in
  if negb (rc =? TSS2_RC_SUCCESS) then fail TSS2_TCTI_RC_IO_ERROR else
  let! byte := lift (access (header_response !! 3%nat)) in
  if negb (Z.land byte 1 =? 0) then ret tt else wait_state 256 byte.

Definition spi_tpm_helper_end_transaction : spi TSS2_RC := spi_tpm_helper_spi_release.

Definition spi_tpm_helper_no_waitstate_preprocess (acc : REGISTER_ACCESS_TYPE) (addr : Z)
    (buffer1 : bytes) (cnt : Z) : bytes :=
  spi_header acc cnt addr ++
  match acc with REGISTER_WRITE => buffer1 | REGISTER_READ => replicate (Z.to_nat cnt) 0 end.

Definition has_waitstate : bool :=
  match spi_acquire platform, spi_release platform with Some _, Some _ => true | _, _ => false end.

(** [buffer] holds [cnt] bytes; the code and what it holds afterwards. *)
Definition spi_tpm_helper_read_reg (reg_number : Z) (buffer : bytes) (cnt : Z) :
    spi (TSS2_RC * bytes) :=
  if 64 <? cnt then ret (TSS2_TCTI_RC_BAD_VALUE, buffer)
  else if has_waitstate then
    let! started := code (spi_tpm_helper_start_transaction REGISTER_READ cnt reg_number) in
    match started with
    | inl _ =>
        let! _ := spi_tpm_helper_end_transaction in ret (TSS2_TCTI_RC_IO_ERROR, buffer)
    | inr _ =>
        let! (rc, buffer) := spi_tpm_helper_spi_transfer None (Some buffer) cnt in
        if negb (rc =? TSS2_RC_SUCCESS) then
          let! _ := spi_tpm_helper_end_transaction in ret (TSS2_TCTI_RC_IO_ERROR, buffer)
        else
        let! rc := spi_tpm_helper_end_transaction in
        if negb (rc =? TSS2_RC_SUCCESS) then ret (TSS2_TCTI_RC_IO_ERROR, buffer)
        else ret (TSS2_RC_SUCCESS, buffer)
    end
  else
    let buffer2 := spi_tpm_helper_no_waitstate_preprocess REGISTER_READ reg_number buffer cnt in
    let! (rc, buffer2) := spi_tpm_helper_spi_transfer (Some buffer2) (Some buffer2) (cnt + 4) in
    if negb (rc =? TSS2_RC_SUCCESS) then
      let! _ := spi_tpm_helper_end_transaction in ret (TSS2_TCTI_RC_IO_ERROR, buffer)
    else
    let! w := lift (access (mem_read buffer2 4 cnt)) in
    let! buffer := lift (access (mem_write buffer 0 w)) in
    ret (TSS2_RC_SUCCESS, buffer).

Definition spi_tpm_helper_write_reg (reg_number : Z) (buffer : bytes) (cnt : Z) : spi TSS2_RC :=
  if 64 <? cnt then ret TSS2_TCTI_RC_BAD_VALUE
  else if has_waitstate then
    let! started := code (spi_tpm_helper_start_transaction REGISTER_WRITE cnt reg_number) in
    match started with
    | inl _ => let! _ := spi_tpm_helper_end_transaction in ret TSS2_TCTI_RC_IO_ERROR
    | inr _ =>
        let! (rc, _) := spi_tpm_helper_spi_transfer (Some buffer) None cnt in
        if negb (rc =? TSS2_RC_SUCCESS) then
          let! _ := spi_tpm_helper_end_transaction in ret TSS2_TCTI_RC_IO_ERROR
        else
        let! rc := spi_tpm_helper_end_transaction in
        if negb (rc =? TSS2_RC_SUCCESS) then ret TSS2_TCTI_RC_IO_ERROR else ret TSS2_RC_SUCCESS
    end
  else
    let buffer2 := spi_tpm_helper_no_waitstate_preprocess REGISTER_WRITE reg_number buffer cnt in
    let! (rc, _) := spi_tpm_helper_spi_transfer (Some buffer2) None (cnt + 4) in
    if negb (rc =? TSS2_RC_SUCCESS) then
      let! _ := spi_tpm_helper_end_transaction in ret TSS2_TCTI_RC_IO_ERROR
    else ret TSS2_RC_SUCCESS.

(** ** Registers *)

(** A failed read leaves the 0 that the variable starts with, or whatever
    part the platform has stored. *)
Definition spi_tpm_helper_read_sts_reg : spi Z :=
  let! (_, status) := spi_tpm_helper_read_reg TCTI_SPI_HELPER_TPM_STS_REG [0; 0; 0; 0] 4 in
  ret (LE_TO_HOST_32 (host_value status)).

(** The number is written in the byte order of the host. *)
Definition spi_tpm_helper_write_sts_reg (status : Z) : spi unit :=
  let! _ := spi_tpm_helper_write_reg TCTI_SPI_HELPER_TPM_STS_REG (host_image 4 status) 4 in
  ret tt.

Definition burst_count_of (status : Z) : Z :=
  Z.shiftr (Z.land status TCTI_SPI_HELPER_TPM_STS_BURST_COUNT_MASK)
    TCTI_SPI_HELPER_TPM_STS_BURST_COUNT_SHIFT.

Definition spi_tpm_helper_get_burst_count : spi Z :=
  let! status := spi_tpm_helper_read_sts_reg in ret (burst_count_of status).

Definition spi_tpm_helper_read_access_reg : spi Z :=
  let! (_, acc) := spi_tpm_helper_read_reg TCTI_SPI_HELPER_TPM_ACCESS_REG [0] 1 in
  ret (default 0 (head acc)).

Definition spi_tpm_helper_write_access_reg (access_bit : Z) : spi unit :=
  if negb (Z.land access_bit (access_bit - 1) =? 0) then ret tt
  else
    let! _ := spi_tpm_helper_write_reg TCTI_SPI_HELPER_TPM_ACCESS_REG [access_bit] 1 in ret tt.

Definition spi_tpm_helper_claim_locality : spi unit :=
  let! acc := spi_tpm_helper_read_access_reg in
  if negb (Z.land acc TCTI_SPI_HELPER_TPM_ACCESS_ACTIVE_LOCALITY =? 0) then ret tt else
  spi_tpm_helper_write_access_reg TCTI_SPI_HELPER_TPM_ACCESS_REQUEST_USE ;!
  let! acc := spi_tpm_helper_read_access_reg in
  if negb (Z.land acc (Z.lor TCTI_SPI_HELPER_TPM_ACCESS_VALID
                             TCTI_SPI_HELPER_TPM_ACCESS_ACTIVE_LOCALITY) =? 0)
  then ret tt else fail TSS2_TCTI_RC_IO_ERROR.

(** ** Waiting and the FIFO *)

(** The loop of [spi_tpm_helper_wait_for_status]. *)
Fixpoint wait_status_loop (n : nat) (status_mask status_expected : Z) (blocking : bool)
    (is_timeout_expired : bool) : spi unit :=
  match n with
  | O => undef
  | S n =>
      let! status := spi_tpm_helper_read_sts_reg in
      if Z.land status status_mask =? status_expected then ret tt else
      let! rc := spi_tpm_helper_delay_ms 8 in
      return_if_error rc ;!
      let! (rc, result) := spi_tpm_helper_timeout_expired in
      return_if_error rc ;!
      let is_timeout_expired := default is_timeout_expired result in
      if blocking || negb is_timeout_expired
      then wait_status_loop n status_mask status_expected blocking is_timeout_expired
      else fail TSS2_TCTI_RC_TRY_AGAIN
  end.

Definition spi_tpm_helper_wait_for_status (status_mask status_expected timeout : Z) : spi unit :=
  let blocking := timeout =? TSS2_TCTI_TIMEOUT_BLOCK in
  (if blocking then ret tt
   else let! rc := spi_tpm_helper_start_timeout timeout in return_if_error rc) ;!
  wait_status_loop fuel status_mask status_expected blocking false.

(** [do burst_count = ..; while (!burst_count);] *)
Fixpoint wait_burst (n : nat) : spi Z :=
  match n with
  | O => undef
  | S n =>
      let! burst_count := spi_tpm_helper_get_burst_count in
      if burst_count =? 0 then wait_burst n else ret burst_count
  end.

(** The direction and the transfer buffer: the bytes of a command, or the
    response buffer of the caller from an offset on. *)
Inductive fifo_transfer_buffer :=
| FIFO_TRANSMIT (command : bytes)
| FIFO_RECEIVE (offset : Z).

(** [response_buffer + off], for [n] bytes. *)
Definition load_response (off n : Z) : spi bytes := fun s =>
  lift (access (b ← response_buffer s; mem_read b off n)) s.
Definition store_response (off : Z) (w : bytes) : spi unit := fun s =>
  match (b ← response_buffer s; mem_write b off w) with
  | Some b => Ret (set_response_buffer b s, inr tt)
  | None => Undef
  end.

(** One transfer; its code is not looked at. *)
Definition fifo_transaction (transfer_buffer : fifo_transfer_buffer)
    (handled_so_far transaction_size : Z) : spi unit :=
  match transfer_buffer with
  | FIFO_RECEIVE off =>
      let! b := load_response (off + handled_so_far) transaction_size in
      let! (_, b) := spi_tpm_helper_read_reg TCTI_SPI_HELPER_TPM_DATA_FIFO_REG b transaction_size in
      store_response (off + handled_so_far) b
  | FIFO_TRANSMIT command =>
      let! b := lift (access (mem_read command handled_so_far transaction_size)) in
      let! _ := spi_tpm_helper_write_reg TCTI_SPI_HELPER_TPM_DATA_FIFO_REG b transaction_size in
      ret tt
  end.

Fixpoint fifo_loop (n : nat) (transfer_buffer : fifo_transfer_buffer)
    (transfer_size handled_so_far : Z) : spi unit :=
  match n with
  | O => undef
  | S n =>
      let! burst_count := wait_burst fuel in
      let transaction_size := wrap64 (transfer_size - handled_so_far) in
      let transaction_size := Z.min transaction_size burst_count in
      let transaction_size := Z.min transaction_size 64 in
      fifo_transaction transfer_buffer handled_so_far transaction_size ;!
      let handled_so_far := wrap64 (handled_so_far + transaction_size) in
      if handled_so_far =? transfer_size then ret tt
      else fifo_loop n transfer_buffer transfer_size handled_so_far
  end.

Definition spi_tpm_helper_fifo_transfer (transfer_buffer : fifo_transfer_buffer)
    (transfer_size : Z) : spi unit :=
  fifo_loop fuel transfer_buffer transfer_size 0.

(** ** The functions of the transport *)

(** The context is NULL or has another magic number. *)
Definition tcti_spi_helper_context_cast {A} (k : spi A) : spi A := fun s =>
  if magic (common s) =? TCTI_SPI_HELPER_MAGIC then k s else Ret (s, inl TSS2_TCTI_RC_BAD_CONTEXT).

Definition STS_VALID_DATA : Z :=
  Z.lor TCTI_SPI_HELPER_TPM_STS_VALID TCTI_SPI_HELPER_TPM_STS_DATA_AVAIL.

(** The header of the response, read once. *)
Definition receive_header (timeout : Z) : spi unit :=
  let! s := get in
  if negb (header_size (header (common s)) =? 0) then ret tt else
  spi_tpm_helper_wait_for_status STS_VALID_DATA STS_VALID_DATA timeout ;!
  let! (rc, h) := spi_tpm_helper_read_reg TCTI_SPI_HELPER_TPM_DATA_FIFO_REG (resp_header s)
    TCTI_SPI_HELPER_RESP_HEADER_SIZE in
  modify (set_resp_header h) ;!
  if negb (rc =? TSS2_RC_SUCCESS) then fail TSS2_TCTI_RC_IO_ERROR else
  let! n := spi_tpm_helper_read_be32 (drop 2 h) in
  modify (fun s => set_common (set_header_size n (common s)) s).

(** The rest of it, into the buffer of the caller; [bytes_to_go] is computed
    with the 32 bits of the size in the header. *)
Definition receive_body (n : Z) : spi unit :=
  let! s := get in
  store_response 0 (resp_header s) ;!
  let bytes_to_go := wrap 32 (n - 1 - TCTI_SPI_HELPER_RESP_HEADER_SIZE) in
  spi_tpm_helper_fifo_transfer (FIFO_RECEIVE TCTI_SPI_HELPER_RESP_HEADER_SIZE) bytes_to_go ;!
  let! status := spi_tpm_helper_read_sts_reg in
  if negb (Z.land status STS_VALID_DATA =? STS_VALID_DATA) then fail TSS2_TCTI_RC_IO_ERROR else
  let! b := load_response (n - 1) 1 in
  let! (rc, b) := spi_tpm_helper_read_reg TCTI_SPI_HELPER_TPM_DATA_FIFO_REG b 1 in
  store_response (n - 1) b ;!
  if negb (rc =? TSS2_RC_SUCCESS) then fail TSS2_TCTI_RC_IO_ERROR else
  let! status := spi_tpm_helper_read_sts_reg in
  if negb (Z.land status STS_VALID_DATA =? TCTI_SPI_HELPER_TPM_STS_VALID)
  then fail TSS2_TCTI_RC_IO_ERROR else
  spi_tpm_helper_write_sts_reg TCTI_SPI_HELPER_TPM_STS_COMMAND_READY ;!
  modify (fun s => set_common (set_common_state TCTI_STATE_TRANSMIT (set_header_size 0 (common s))) s).

Definition tcti_spi_helper_receive (timeout : Z) : spi unit :=
  tcti_spi_helper_context_cast (
  let! s := get in
  return_if_error
    (tcti_common_receive_checks (Some (common s)) (response_size s) TCTI_SPI_HELPER_MAGIC) ;!
  receive_header timeout ;!
  let! s := get in
  let n := header_size (header (common s)) in
  match response_buffer s with
  | None => modify (set_response_size n)
  | Some _ =>
      if default 0 (response_size s) <? n then fail TSS2_TCTI_RC_INSUFFICIENT_BUFFER else
      modify (set_response_size n) ;!
      receive_body n
  end).

Definition tcti_spi_helper_finalize : spi unit := fun s =>
  if negb (magic (common s) =? TCTI_SPI_HELPER_MAGIC) then Ret (s, inr tt)
  else (modify (fun s => set_common (set_common_state TCTI_STATE_FINAL (common s)) s) ;!
        spi_tpm_helper_platform_finalize) s.

(** [header] is a variable of the stack; what it holds is overwritten. *)
Definition tcti_spi_helper_transmit (size : Z) (cmd_buf : option bytes) : spi unit :=
  tcti_spi_helper_context_cast (
  let! s := get in
  return_if_error
    (tcti_common_transmit_checks (Some (common s)) cmd_buf TCTI_SPI_HELPER_MAGIC) ;!
  let! (rc, h) := lift (header_unmarshal cmd_buf (Tpm_header 0 0 0)) in
  return_if_error rc ;!
  if negb (header_size h =? size) then fail TSS2_TCTI_RC_BAD_VALUE else
  spi_tpm_helper_write_sts_reg TCTI_SPI_HELPER_TPM_STS_COMMAND_READY ;!
  spi_tpm_helper_wait_for_status TCTI_SPI_HELPER_TPM_STS_COMMAND_READY
    TCTI_SPI_HELPER_TPM_STS_COMMAND_READY TIMEOUT_B ;!
  spi_tpm_helper_fifo_transfer (FIFO_TRANSMIT (default [] cmd_buf)) size ;!
  spi_tpm_helper_write_sts_reg TCTI_SPI_HELPER_TPM_STS_GO ;!
  modify (fun s => set_common (set_common_state TCTI_STATE_RECEIVE (common s)) s)).

Definition tcti_spi_helper_cancel : spi unit := fail TSS2_TCTI_RC_NOT_IMPLEMENTED.
Definition tcti_spi_helper_get_poll_handles : spi unit := fail TSS2_TCTI_RC_NOT_IMPLEMENTED.
Definition tcti_spi_helper_set_locality (l : Z) : spi unit := fail TSS2_TCTI_RC_NOT_IMPLEMENTED.

(** ** Initialization *)

Definition check_platform_conf : TSS2_RC :=
  match sleep_ms platform, spi_transfer platform, start_timeout platform, timeout_expired platform with
  | Some _, Some _, Some _, Some _ =>
      match spi_acquire platform, spi_release platform with
      | Some _, Some _ | None, None => TSS2_RC_SUCCESS
      | _, _ => TSS2_TCTI_RC_BAD_VALUE
      end
  | _, _, _, _ => TSS2_TCTI_RC_BAD_VALUE
  end.

(** [retries] reads of the identification register; the last value read. *)
Fixpoint probe (retries : nat) (did_vid : bytes) : spi bytes :=
  match retries with
  | O => ret did_vid
  | S retries =>
      let! (_, did_vid) := spi_tpm_helper_read_reg TCTI_SPI_HELPER_TPM_DID_VID_REG did_vid 4 in
      if negb (host_value did_vid =? 0) then ret did_vid else
      let! rc := spi_tpm_helper_delay_ms 10 in
      return_if_error rc ;!
      probe retries did_vid
  end.

Definition init_tpm : spi unit :=
  let! did_vid := probe 100 [0; 0; 0; 0] in
  if host_value did_vid =? 0 then fail TSS2_TCTI_RC_IO_ERROR else
  let! claimed := code spi_tpm_helper_claim_locality in
  match claimed with
  | inl _ => fail TSS2_TCTI_RC_IO_ERROR
  | inr _ =>
      let ready := spi_tpm_helper_wait_for_status TCTI_SPI_HELPER_TPM_STS_COMMAND_READY
        TCTI_SPI_HELPER_TPM_STS_COMMAND_READY TIMEOUT_B in
      let! waited := code ready in
      match waited with
      | inr _ => ret tt
      | inl rc =>
          if rc =? TSS2_TCTI_RC_TRY_AGAIN
          then spi_tpm_helper_write_sts_reg TCTI_SPI_HELPER_TPM_STS_COMMAND_READY ;! ready
          else fail rc
      end ;!
      let! _ := spi_tpm_helper_read_reg TCTI_SPI_HELPER_TPM_RID_REG [0] 1 in ret tt
  end.

(** [platform] with the user data [u] is what [platform_conf] points to;
    [sizeof_ctx] is the size of the context. *)
Definition Tss2_Tcti_Spi_Helper_Init (sizeof_ctx : Z) (tcti_context : option spi_state)
    (size : option Z) (platform_conf : option U) :
    outcome (TSS2_RC * (option spi_state * option Z)) :=
  match size, tcti_context, platform_conf with
  | None, _, _ => Ret (TSS2_TCTI_RC_BAD_VALUE, (tcti_context, size))
  | Some _, None, _ => Ret (TSS2_RC_SUCCESS, (None, Some sizeof_ctx))
  | Some _, Some _, None => Ret (TSS2_TCTI_RC_BAD_VALUE, (tcti_context, size))
  | Some n, Some s, Some u =>
      if n <? sizeof_ctx then Ret (TSS2_TCTI_RC_INSUFFICIENT_BUFFER, (tcti_context, size)) else
      let c := Tcti_common TCTI_SPI_HELPER_MAGIC TCTI_STATE_TRANSMIT (Tpm_header 0 0 0) 0
        (partial_read_supported (common s)) (partial (common s)) in
      let s := set_common c s in
      let rc := check_platform_conf in
      if negb (rc =? TSS2_RC_SUCCESS) then Ret (rc, (Some s, size)) else
      match init_tpm (set_user_data u s) with
      | Ret (s, inr _) => Ret (TSS2_RC_SUCCESS, (Some s, size))
      | Ret (s, inl rc) => Ret (rc, (Some s, size))
      | Undef => Undef
      end
  end.

End Spi.
Arguments spi_state : clear implicits.
Arguments Spi {U}.
