(* ===== verification/TctiProps.v ===== *)
(** * Properties of the transport layer.

    Configuration strings are taken apart as they were put together; the
    loader is transparent; the transport over SPI delivers a command to a TPM
    and its response to the caller. *)

From stdpp Require Import base strings list_numbers.
From Stdlib Require Import Ascii.
From Equations Require Import Equations.
From S2P Require Import Prelude Common MuSpec MuBase MuBaseOk MuStruct Sys SysOk SysExec EsysBase EsysLogic Tcti.

Open Scope string_scope.
Open Scope list_scope.
Open Scope tss_scope.
Open Scope esys_scope.
Open Scope Z_scope.

(** ** Keys and values *)

(** A character other than the two delimiters. *)
Definition plain (c : ascii) : Prop := Ascii.eqb c "=" = false /\ Ascii.eqb c "," = false.

Fixpoint all_chars (P : ascii -> Prop) (s : string) : Prop :=
  match s with EmptyString => True | String c s => P c /\ all_chars P s end.

(** A key or a value: not empty, without delimiters. *)
Definition word (s : string) : Prop := s <> EmptyString /\ all_chars plain s.

(** [key=value,key=value,...] *)
Definition print_pair (kv : string * string) : string := kv.1 +:+ "=" +:+ kv.2.
Definition print_pairs (l : list (string * string)) : string := String.concat "," (map print_pair l).

(** The callback is given the pairs one after the other, up to the first one
    that it refuses. *)
Fixpoint feed {D} (callback : key_value_t -> D -> TSS2_RC * D) (l : list (string * string))
    (d : D) : TSS2_RC * D :=
  match l with
  | [] => (TSS2_RC_SUCCESS, d)
  | kv :: l =>
      let '(rc, d) := callback (Key_value (Some kv.1) (Some kv.2)) d in
      if rc =? TSS2_RC_SUCCESS then feed callback l d else (rc, d)
  end.

Lemma skip_delim_word d c s : Ascii.eqb c d = false -> skip_delim d (String c s) = String c s.
Proof. intros E. simpl. by rewrite E. Qed.

Lemma split_delim_app d s t :
  all_chars (fun c => Ascii.eqb c d = false) s -> split_delim d (s +:+ String d t) = (s, t).
Proof.
  induction s as [|c s IH]; simpl; [by rewrite Ascii.eqb_refl|]. intros [-> A]. by rewrite IH.
Qed.

Lemma split_delim_all d s :
  all_chars (fun c => Ascii.eqb c d = false) s -> split_delim d s = (s, EmptyString).
Proof. induction s as [|c s IH]; simpl; [done|]. intros [-> A]. by rewrite IH. Qed.

Lemma strtok_r_app d s t :
  s <> EmptyString -> all_chars (fun c => Ascii.eqb c d = false) s ->
  strtok_r d (s +:+ String d t) = Some (s, t).
Proof.
  intros N A. destruct s as [|c s]; [done|]. unfold strtok_r.
  change (String c s +:+ String d t) with (String c (s +:+ String d t)).
  rewrite skip_delim_word by apply A. change (String c (s +:+ String d t)) with (String c s +:+ String d t).
  by rewrite split_delim_app.
Qed.

Lemma strtok_r_all d s :
  s <> EmptyString -> all_chars (fun c => Ascii.eqb c d = false) s ->
  strtok_r d s = Some (s, EmptyString).
Proof.
  intros N A. destruct s as [|c s]; [done|]. unfold strtok_r.
  rewrite skip_delim_word by apply A. by rewrite split_delim_all.
Qed.

Lemma all_chars_mono (P Q : ascii -> Prop) s : (forall c, P c -> Q c) -> all_chars P s -> all_chars Q s.
Proof. intros I. induction s; simpl; naive_solver. Qed.

Lemma all_chars_app P s t : all_chars P (s +:+ t) <-> all_chars P s /\ all_chars P t.
Proof. induction s; simpl; naive_solver. Qed.

Lemma parse_print_pair kv old :
  word kv.1 -> word kv.2 ->
  parse_key_value (Some (print_pair kv)) (Some old) = (true, Some (Key_value (Some kv.1) (Some kv.2))).
Proof.
  intros [N1 A1] [N2 A2]. unfold parse_key_value, print_pair.
  change (kv.1 +:+ "=" +:+ kv.2) with (kv.1 +:+ String "=" kv.2).
  rewrite strtok_r_app; [|done|by eapply all_chars_mono; [|exact A1]; intros ? []].
  rewrite strtok_r_all; [done..|]. eapply all_chars_mono; [|exact A2]. by intros ? [].
Qed.

Lemma print_pair_token kv :
  word kv.1 -> word kv.2 ->
  print_pair kv <> EmptyString /\ all_chars (fun c => Ascii.eqb c "," = false) (print_pair kv).
Proof.
  intros [N1 A1] [N2 A2]. unfold print_pair. split; [by destruct kv.1|].
  apply all_chars_app. split; [by eapply all_chars_mono; [|exact A1]; intros ? []|].
  split; [done|]. eapply all_chars_mono; [|exact A2]. by intros ? [].
Qed.

(** One round of the loop. *)
Lemma kv_loop_step {D} (callback : key_value_t -> D -> TSS2_RC * D) s tok s' old kv d :
  strtok_r "," s = Some (tok, s') ->
  parse_key_value (Some tok) (Some old) = (true, Some kv) ->
  kv_loop callback s old d =
    (let '(rc, d) := callback kv d in
     if rc =? TSS2_RC_SUCCESS then kv_loop callback s' kv d else (rc, d)).
Proof.
  intros E P. rewrite kv_loop_equation_1. destruct (inspect _) as [o Eo].
  assert (o = Some (tok, s')) as -> by congruence. rewrite kv_loop_clause_1_equation_1. by rewrite P.
Qed.

Lemma kv_loop_end {D} (callback : key_value_t -> D -> TSS2_RC * D) old d :
  kv_loop callback EmptyString old d = (TSS2_RC_SUCCESS, d).
Proof. by rewrite kv_loop_equation_1. Qed.

Lemma kv_loop_print {D} (callback : key_value_t -> D -> TSS2_RC * D) l old d :
  Forall (fun kv => word kv.1 /\ word kv.2) l ->
  kv_loop callback (print_pairs l) old d = feed callback l d.
Proof.
  intros W. revert old d. induction W as [|kv l [K V] W IH]; intros old d; [apply kv_loop_end|].
  destruct (print_pair_token kv K V) as [N A]. unfold print_pairs. cbn [map feed].
  destruct l as [|kv' l].
  - cbn [map String.concat]. rewrite (kv_loop_step _ _ _ _ _ _ _ (strtok_r_all _ _ N A) (parse_print_pair _ _ K V)).
    cbn [feed]. destruct (callback _ d) as [rc d']. by rewrite kv_loop_end.
  - change (String.concat "," (print_pair kv :: map print_pair (kv' :: l)))
      with (print_pair kv +:+ String "," (print_pairs (kv' :: l))).
    rewrite (kv_loop_step _ _ _ _ _ _ _ (strtok_r_app _ _ _ N A) (parse_print_pair _ _ K V)).
    destruct (callback _ d) as [rc d']. by rewrite IH.
Qed.

(** parsing a configuration string gives back what it was put together
    from: the callback is given every key with its value, in order, and the
    first code other than success it returns ends the loop and is the
    result. *)
Theorem kv_roundtrip {D} (callback : key_value_t -> D -> TSS2_RC * D) l d :
  Forall (fun kv => word kv.1 /\ word kv.2) l ->
  parse_key_value_string (Some (print_pairs l)) (Some callback) (Some d) =
    (let '(rc, d) := feed callback l d in (rc, Some d)).
Proof. intros W. cbn. by rewrite kv_loop_print. Qed.

Lemma kv_roundtrip_witness :
  parse_key_value_string (Some "host=localhost,port=2321")
    (Some (fun kv d => (TSS2_RC_SUCCESS, d ++ [kv_key kv; kv_value kv]))) (Some []) =
  (TSS2_RC_SUCCESS, Some [Some "host"; Some "localhost"; Some "port"; Some "2321"]).
Proof.
  apply (kv_roundtrip (fun kv d => (TSS2_RC_SUCCESS, d ++ [kv_key kv; kv_value kv]))
    [("host", "localhost"); ("port", "2321")] []).
  repeat constructor; discriminate.
Defined.

(** ** The loader *)

Lemma split_colon_app name conf :
  all_chars (fun c => Ascii.eqb c ":" = false) name ->
  split_colon (name +:+ String ":" conf) = Some (name, conf).
Proof.
  induction name as [|c name IH]; [done|]. intros [E A].
  change (String c name +:+ String ":" conf) with (String c (name +:+ String ":" conf)).
  cbn [split_colon]. by rewrite E, IH.
Qed.

Lemma append_length s t : String.length (s +:+ t) = (String.length s + String.length t)%nat.
Proof.
  induction s as [|c s IH]; [done|]. change (String c s +:+ t) with (String c (s +:+ t)).
  cbn [String.length]. by rewrite IH.
Qed.

Lemma split_colon_none s :
  all_chars (fun c => Ascii.eqb c ":" = false) s -> split_colon s = None.
Proof. induction s as [|c s IH]; [done|]. intros [E A]. cbn [split_colon]. by rewrite E, IH. Qed.

(** The loader as a transport behaves as the transport it has loaded. *)
Definition loaded {S} (t : TSS2_TCTI_CONTEXT S) : TSS2_TCTI_CONTEXT (TSS2_TCTILDR_CONTEXT S) :=
  tctildr_tcti (Tctildr TCTILDR_MAGIC (Some t)).

Section Loaded.
Context {S : Type} (t : TSS2_TCTI_CONTEXT S).

Lemma loaded_transmit n cmd :
  1 <= tcti_version t ->
  Tss2_Tcti_Transmit (Some (loaded t)) n cmd =
    (let '(rc, t') := Tss2_Tcti_Transmit (Some t) n cmd in (rc, option_map loaded t')).
Proof.
  intros V. cbn. rewrite (proj2 (Z.ltb_ge _ _)) by done.
  destruct (tcti_transmit t) as [f|] eqn:E; [|done]. by destruct (f (tcti_state t) n cmd).
Qed.

Lemma loaded_receive n r tmo :
  1 <= tcti_version t ->
  Tss2_Tcti_Receive (Some (loaded t)) n r tmo =
    (let '(rc, (n', (w, t'))) := Tss2_Tcti_Receive (Some t) n r tmo in
     (rc, (n', (w, option_map loaded t')))).
Proof.
  intros V. cbn. rewrite (proj2 (Z.ltb_ge _ _)) by done.
  destruct (tcti_receive t) as [f|] eqn:E; [|done]. by destruct (f (tcti_state t) n r tmo) as [? [? [? ?]]].
Qed.

End Loaded.

(** The loader is transparent. A string "name:conf" makes it load the
    transport [name] with the configuration [conf], and nothing else is handed
    to the code that looks for libraries; the context of the loader then
    answers every call as the transport behind it does, and stays the context
    of that transport. *)
Theorem tctildr_transparent {S} calloc size (get_tcti : option string -> option string ->
    TSS2_RC * option (TSS2_TCTI_CONTEXT S)) name conf t :
  name <> EmptyString -> all_chars (fun c => Ascii.eqb c ":" = false) name -> conf <> EmptyString ->
  str_len name + 1 + str_len conf < PATH_MAX -> (forall n, calloc n = true) ->
  get_tcti (Some name) (Some conf) = (TSS2_RC_SUCCESS, Some t) -> 1 <= tcti_version t ->
  exists ctx,
    Tss2_TctiLdr_Initialize calloc size get_tcti (Some (name +:+ ":" +:+ conf)) =
      (TSS2_RC_SUCCESS, Some ctx) /\
    tctildr_tcti ctx = loaded t /\
    (forall n cmd, Tss2_Tcti_Transmit (Some (loaded t)) n cmd =
       (let '(rc, t') := Tss2_Tcti_Transmit (Some t) n cmd in (rc, option_map loaded t'))) /\
    (forall n r tmo, Tss2_Tcti_Receive (Some (loaded t)) n r tmo =
       (let '(rc, (n', (w, t'))) := Tss2_Tcti_Receive (Some t) n r tmo in
        (rc, (n', (w, option_map loaded t'))))).
Proof.
  intros N A C L M G V. exists (Tctildr TCTILDR_MAGIC (Some t)). split; [|split; [done|]].
  - change (name +:+ ":" +:+ conf) with (name +:+ String ":" conf).
    assert (Lc : str_len (name +:+ String ":" conf) = str_len name + 1 + str_len conf).
    { unfold str_len. rewrite append_length. cbn [String.length]. lia. }
    assert (0 <= str_len name /\ 0 <= str_len conf) by (unfold str_len; lia).
    unfold Tss2_TctiLdr_Initialize, tctildr_conf_parse_alloc, tctildr_conf_parse.
    rewrite Lc, M, split_colon_app by done.
    rewrite (proj2 (Z.ltb_ge _ _)), (proj2 (Z.eqb_neq _ 0)) by lia.
    cbn [negb]. rewrite (proj2 (String.eqb_neq name _)), (proj2 (String.eqb_neq conf _)) by done.
    cbn [negb Z.eqb]. unfold nonempty, Tss2_TctiLdr_Initialize_Ex.
    rewrite (proj2 (String.eqb_neq name _)), (proj2 (String.eqb_neq conf _)), M by done. cbn.
    rewrite (proj2 (String.eqb_neq name _)), (proj2 (String.eqb_neq conf _)) by done.
    by rewrite G.
  - split; intros; [by apply loaded_transmit|by apply loaded_receive].
Qed.

Definition null_transport : TSS2_TCTI_CONTEXT unit := Tcti TCTI_VERSION None None tt.

Lemma tctildr_transparent_witness : exists ctx,
  Tss2_TctiLdr_Initialize (fun _ => true) 100 (fun _ _ => (TSS2_RC_SUCCESS, Some null_transport))
    (Some "device:/dev/tpm0") = (TSS2_RC_SUCCESS, Some ctx) /\
  tctildr_tcti ctx = loaded null_transport.
Proof.
  destruct (tctildr_transparent (fun _ => true) 100 (fun _ _ => (TSS2_RC_SUCCESS, Some null_transport))
    "device" "/dev/tpm0" null_transport) as (ctx & E & L & _).
  - discriminate.
  - repeat split.
  - discriminate.
  - reflexivity.
  - reflexivity.
  - reflexivity.
  - vm_compute. discriminate.
  - exists ctx. split; [exact E|exact L].
Defined.

(** ** A register file behind a platform *)

#[local] Existing Instance little_endian_host.

Section RegisterFile.
Context {U : Type} (p : PLATFORM U).

(** The TPM leaves the wait state after fewer than [n] polls. *)
Inductive waits (tr : U -> option bytes -> bool -> Z -> TSS2_RC * (bytes * U))
    (sl : U -> Z -> TSS2_RC * U) : nat -> U -> U -> Prop :=
| waits_done n u b u' :
    tr u (Some [0]) true 1 = (TSS2_RC_SUCCESS, ([b], u')) -> Z.land b 1 <> 0 ->
    waits tr sl (S n) u u'
| waits_more n u b u1 u2 u' :
    tr u (Some [0]) true 1 = (TSS2_RC_SUCCESS, ([b], u1)) -> Z.land b 1 = 0 ->
    sl u1 1 = (TSS2_RC_SUCCESS, u2) -> waits tr sl n u2 u' -> waits tr sl (S n) u u'.

(** The bus is reserved, the header is sent, and the TPM is ready. *)
Definition started tr sl (acq : U -> TSS2_RC * U) acc cnt reg (u u1 : U) : Prop :=
  exists u0 b0 b1 b2 b3 u', acq u = (TSS2_RC_SUCCESS, u0) /\
    tr u0 (Some (spi_header acc cnt reg)) true 4 = (TSS2_RC_SUCCESS, ([b0; b1; b2; b3], u')) /\
    ((Z.land b3 1 <> 0 /\ u1 = u') \/ (Z.land b3 1 = 0 /\ waits tr sl 256 u' u1)).

(** What the TCG specification says of the SPI protocol: [rd] and [wr] read
    and write a register of the TPM behind the platform. *)
Class RegisterFile (rd : U -> Z -> Z -> bytes * U) (wr : U -> Z -> bytes -> U) : Prop := {
  rf_length : forall u reg n, 1 <= n <= 64 -> Zlen (rd u reg n).1 = n;
  rf_functions : exists tr sl, spi_transfer p = Some tr /\ sleep_ms p = Some sl /\
    match spi_acquire p, spi_release p with
    | Some acq, Some rel =>
        forall u reg n, 1 <= n <= 64 ->
          (exists u1 u2, started tr sl acq REGISTER_READ n reg u u1 /\
             tr u1 None true n = (TSS2_RC_SUCCESS, ((rd u reg n).1, u2)) /\
             rel u2 = (TSS2_RC_SUCCESS, (rd u reg n).2)) /\
          (forall w, Zlen w = n -> exists u1 u2, started tr sl acq REGISTER_WRITE n reg u u1 /\
             tr u1 (Some w) false n = (TSS2_RC_SUCCESS, ([], u2)) /\
             rel u2 = (TSS2_RC_SUCCESS, wr u reg w))
    | _, _ =>
        forall u reg n, 1 <= n <= 64 ->
          (exists h, Zlen h = 4 /\
             tr u (Some (spi_header REGISTER_READ n reg ++ replicate (Z.to_nat n) 0)) true (n + 4) =
             (TSS2_RC_SUCCESS, (h ++ (rd u reg n).1, (rd u reg n).2))) /\
          (forall w, Zlen w = n ->
             tr u (Some (spi_header REGISTER_WRITE n reg ++ w)) false (n + 4) =
             (TSS2_RC_SUCCESS, ([], wr u reg w)))
    end
}.

Context (rd : U -> Z -> Z -> bytes * U) (wr : U -> Z -> bytes -> U) {RF : RegisterFile rd wr}.

Lemma mem_write_whole (b w : bytes) : Zlen w = Zlen b -> mem_write b 0 w = Some w.
Proof.
  intros L. apply mem_write_Some. rewrite L. split; [lia|]. split; [lia|].
  change (Z.to_nat 0) with 0%nat. rewrite take_0, Z.add_0_l. cbn [app].
  rewrite drop_ge, app_nil_r; [done|]. unfold Zlen. lia.
Qed.

Lemma transfer_in tr out b cnt c u h n rb w u' :
  spi_transfer p = Some tr -> tr u out true cnt = (TSS2_RC_SUCCESS, (w, u')) -> Zlen w = Zlen b ->
  spi_tpm_helper_spi_transfer p out (Some b) cnt (Spi c u h n rb) =
  Ret (Spi c u' h n rb, inr (TSS2_RC_SUCCESS, w)).
Proof.
  intros T E L. unfold spi_tpm_helper_spi_transfer, bind, platform_call. rewrite T.
  cbn [user_data]. rewrite bool_decide_true by eauto. rewrite E. unfold lift.
  by rewrite mem_write_whole.
Qed.

Lemma transfer_out tr out cnt c u h n rb w u' :
  spi_transfer p = Some tr -> tr u out false cnt = (TSS2_RC_SUCCESS, (w, u')) ->
  spi_tpm_helper_spi_transfer p out None cnt (Spi c u h n rb) =
  Ret (Spi c u' h n rb, inr (TSS2_RC_SUCCESS, [])).
Proof.
  intros T E. unfold spi_tpm_helper_spi_transfer, bind, platform_call. rewrite T.
  cbn [user_data]. rewrite bool_decide_false by (by intros []). by rewrite E.
Qed.

Lemma step_ok {St A B} (m : M St A) (k : A -> M St B) s s' a r :
  m s = Ret (s', inr a) -> k a s' = r -> bind m k s = r.
Proof. intros E <-. unfold bind. by rewrite E. Qed.

Lemma step_fail {St A B} (m : M St A) (k : A -> M St B) s s' rc :
  m s = Ret (s', inl rc) -> bind m k s = Ret (s', inl rc).
Proof. intros E. unfold bind. by rewrite E. Qed.

Lemma delay_ok sl u u' n c h k rb :
  sleep_ms p = Some sl -> sl u n = (TSS2_RC_SUCCESS, u') ->
  spi_tpm_helper_delay_ms p n (Spi c u h k rb) = Ret (Spi c u' h k rb, inr TSS2_RC_SUCCESS).
Proof.
  intros S E. unfold spi_tpm_helper_delay_ms, platform_call. rewrite S. cbn [user_data]. by rewrite E.
Qed.

Lemma wait_state_ok tr sl n u u' byte c h k rb :
  spi_transfer p = Some tr -> sleep_ms p = Some sl -> waits tr sl n u u' ->
  wait_state p n byte (Spi c u h k rb) = Ret (Spi c u' h k rb, inr tt).
Proof.
  intros T S W. revert byte. induction W as [n u b u' E B|n u b u1 u2 u' E B E2 W IH]; intros byte;
    cbn [wait_state];
    (eapply step_ok; [by apply (transfer_in tr _ _ _ _ _ _ _ _ [b] _ T E)|]);
    cbv beta iota; rewrite Z.eqb_refl; cbv beta iota zeta delta [negb]; change (default 0 (head [b])) with b.
  - by rewrite (proj2 (Z.eqb_neq _ _) B).
  - rewrite B, Z.eqb_refl. eapply step_ok; [by apply (delay_ok sl)|].
    cbv beta. eapply step_ok; [done|]. apply IH.
Qed.

Lemma start_ok tr sl acq acc cnt reg u u1 c h k rb :
  spi_transfer p = Some tr -> sleep_ms p = Some sl -> spi_acquire p = Some acq ->
  started tr sl acq acc cnt reg u u1 ->
  spi_tpm_helper_start_transaction p acc cnt reg (Spi c u h k rb) = Ret (Spi c u1 h k rb, inr tt).
Proof.
  intros T S A (u0&b0&b1&b2&b3&u'&E1&E2&W).
  unfold spi_tpm_helper_start_transaction, spi_tpm_helper_spi_acquire. rewrite A.
  unfold bind at 1, platform_call. cbn [user_data]. rewrite E1, Z.eqb_refl. cbn [negb].
  unfold bind at 1. unfold set_user_data. cbn [common user_data resp_header response_size response_buffer].
  rewrite (transfer_in tr _ _ _ _ _ _ _ _ _ _ T E2) by done.
  rewrite Z.eqb_refl. cbn [negb]. unfold bind, lift. cbn [lookup list_lookup access].
  destruct W as [[B ->]|[B W]].
  - rewrite (proj2 (Z.eqb_neq _ _) B). done.
  - rewrite B, Z.eqb_refl. cbn [negb]. by apply (wait_state_ok tr sl).
Qed.

Lemma release_ok rel u u' c h k rb :
  spi_release p = Some rel -> rel u = (TSS2_RC_SUCCESS, u') ->
  spi_tpm_helper_end_transaction p (Spi c u h k rb) = Ret (Spi c u' h k rb, inr TSS2_RC_SUCCESS).
Proof.
  intros R E. unfold spi_tpm_helper_end_transaction, spi_tpm_helper_spi_release. rewrite R.
  unfold platform_call. cbn [user_data]. by rewrite E.
Qed.

(** Reading a register in a single transfer. *)
Lemma read_reg_single tr reg b n c u h k rb hd w u' :
  has_waitstate p = false -> spi_transfer p = Some tr -> 1 <= n <= 64 -> Zlen b = n -> Zlen w = n ->
  Zlen hd = 4 ->
  tr u (Some (spi_header REGISTER_READ n reg ++ replicate (Z.to_nat n) 0)) true (n + 4) =
    (TSS2_RC_SUCCESS, (hd ++ w, u')) ->
  spi_tpm_helper_read_reg p reg b n (Spi c u h k rb) =
  Ret (Spi c u' h k rb, inr (TSS2_RC_SUCCESS, w)).
Proof.
  intros Hw T N L Lw Lh E. unfold spi_tpm_helper_read_reg.
  rewrite Hw, (proj2 (Z.ltb_ge 64 n)) by lia. unfold bind at 1, spi_tpm_helper_no_waitstate_preprocess.
  rewrite (transfer_in tr _ _ _ _ _ _ _ _ _ _ T E)
    by (rewrite !Zlen_app, Zlen_replicate, Lh, Lw; unfold spi_header; rewrite !Zlen_cons, Zlen_nil; lia).
  rewrite Z.eqb_refl. cbn [negb].
  assert (X : mem_read (hd ++ w) 4 n = Some w).
  { apply mem_read_Some. rewrite Zlen_app, Lh, Lw. split_and!; [lia..|].
    rewrite drop_app_length' by (unfold Zlen in Lh; lia). rewrite take_ge; [done|]. unfold Zlen in Lw. lia. }
  unfold bind, lift. rewrite X. cbn [access]. by rewrite mem_write_whole by congruence.
Qed.

(** Reading a register. *)
Lemma read_reg_ok reg b n c u h k rb :
  1 <= n <= 64 -> Zlen b = n ->
  spi_tpm_helper_read_reg p reg b n (Spi c u h k rb) =
  Ret (Spi c (rd u reg n).2 h k rb, inr (TSS2_RC_SUCCESS, (rd u reg n).1)).
Proof.
  intros N L. destruct rf_functions as (tr&sl&T&S&F). pose proof (rf_length u reg n N) as Lr.
  destruct (spi_acquire p) as [acq|] eqn:A; [destruct (spi_release p) as [rel|] eqn:R|].
  - destruct (F u reg n N) as [(u1&u2&W&E&E') _].
    unfold spi_tpm_helper_read_reg, has_waitstate. rewrite A, R, (proj2 (Z.ltb_ge 64 n)) by lia.
    unfold bind at 1, code. rewrite (start_ok tr sl acq _ _ _ _ _ _ _ _ _ T S A W).
    unfold bind at 1. rewrite (transfer_in tr _ _ _ _ _ _ _ _ _ _ T E) by congruence.
    rewrite Z.eqb_refl. cbn [negb]. unfold bind. by rewrite (release_ok rel _ _ _ _ _ _ R E').
  - destruct (F u reg n N) as [(hd&Lh&E) _].
    eapply read_reg_single; [by unfold has_waitstate; rewrite A, R|done..].
  - destruct (F u reg n N) as [(hd&Lh&E) _].
    eapply read_reg_single; [by unfold has_waitstate; rewrite A|done..].
Qed.

(** Writing one. *)
Lemma write_reg_ok reg w n c u h k rb :
  1 <= n <= 64 -> Zlen w = n ->
  spi_tpm_helper_write_reg p reg w n (Spi c u h k rb) =
  Ret (Spi c (wr u reg w) h k rb, inr TSS2_RC_SUCCESS).
Proof.
  intros N L. destruct rf_functions as (tr&sl&T&S&F).
  unfold spi_tpm_helper_write_reg, has_waitstate. rewrite (proj2 (Z.ltb_ge 64 n)) by lia.
  destruct (spi_acquire p) as [acq|] eqn:A; [destruct (spi_release p) as [rel|] eqn:R|].
  - destruct (F u reg n N) as [_ G]. destruct (G w L) as (u1&u2&W&E&E').
    unfold bind at 1, code. rewrite (start_ok tr sl acq _ _ _ _ _ _ _ _ _ T S A W).
    unfold bind at 1. rewrite (transfer_out tr _ _ _ _ _ _ _ _ _ T E).
    rewrite Z.eqb_refl. cbn [negb]. unfold bind. by rewrite (release_ok rel _ _ _ _ _ _ R E').
  - destruct (F u reg n N) as [_ G]. unfold bind at 1, spi_tpm_helper_no_waitstate_preprocess.
    by rewrite (transfer_out tr _ _ _ _ _ _ _ _ _ T (G w L)).
  - destruct (F u reg n N) as [_ G]. unfold bind at 1, spi_tpm_helper_no_waitstate_preprocess.
    by rewrite (transfer_out tr _ _ _ _ _ _ _ _ _ T (G w L)).
Qed.


(** ** The TPM behind the registers *)

(** What the TPM is doing: nothing; taking a command, of which it has some
    bytes; executing it, with the response to come; offering what is left of
    the response. *)
Inductive tis_phase :=
| Idle
| Ready (cmd : bytes)
| Executing (rsp : bytes)
| Done (rest : bytes).

Definition rests (ph : tis_phase) : Prop := ph = Idle \/ ph = Ready [].

Abbreviation STS := TCTI_SPI_HELPER_TPM_STS_REG.
Abbreviation FIFO := TCTI_SPI_HELPER_TPM_DATA_FIFO_REG.

(** The status register as the next read shows it. *)
Definition sts (u : U) : Z := host_value (rd u STS 4).1.
Definition poll (u : U) : U := (rd u STS 4).2.
Definition burst (u : U) : Z := burst_count_of (sts u).
Definition shows (u : U) (bits : Z) : Prop := Z.land (sts u) bits = bits.

Definition command_ok (c : bytes) : Prop :=
  bytes_ok c /\ 10 <= Zlen c < 2 ^ 32 /\ mem_read c 2 4 = Some (be_bytes 4 (Zlen c)).

Context (phase : U -> tis_phase) (lag : U -> nat) (bound : nat) (answer : bytes -> bytes -> Prop).

(** Time passes. *)
Definition steady (u u' : U) : Prop := phase u' = phase u /\ (lag u' <= lag u)%nat.

(** The timer of the platform has said, once, that the time is over. *)
Definition may_expire : Prop := exists f u u',
  timeout_expired p = Some f /\ f u = (TSS2_RC_SUCCESS, (Some true, u')).

(** What the TCG PC Client specification says of the status register and of
    the FIFO. A TPM that is not done with something may say so in [lag] polls
    of the status register, at most [bound]. It takes as many bytes as the
    burst count allows, offers as many, and the first and the last bytes of a
    response at any time. The answer to a command is a response with its
    length in its header. The platform sleeps, starts its timer and asks it
    whether the time is over; the timer says what it likes. *)
Class TisDevice : Prop := {
  td_bound : forall u, (lag u <= bound)%nat;
  td_lag : forall u, lag u <> 0%nat -> (lag (poll u) < lag u)%nat;
  td_poll : forall u, phase (poll u) =
    match phase u with
    | Executing r => if Z.land (sts u) STS_VALID_DATA =? STS_VALID_DATA then Done r else Executing r
    | ph => ph
    end;
  td_burst : forall u, phase u <> Idle -> lag u = 0%nat -> burst u <> 0;
  td_ready : forall u, phase u = Ready [] -> lag u = 0%nat ->
    shows u TCTI_SPI_HELPER_TPM_STS_COMMAND_READY;
  td_executing : forall u r, phase u = Executing r -> lag u = 0%nat -> shows u STS_VALID_DATA;
  td_done : forall u r, phase u = Done r ->
    Z.land (sts u) STS_VALID_DATA =
    match r with [] => TCTI_SPI_HELPER_TPM_STS_VALID | _ => STS_VALID_DATA end;
  td_command : forall u, rests (phase u) ->
    phase (wr u STS (host_image 4 TCTI_SPI_HELPER_TPM_STS_COMMAND_READY)) = Ready [];
  td_finish : forall u, phase u = Done [] ->
    rests (phase (wr u STS (host_image 4 TCTI_SPI_HELPER_TPM_STS_COMMAND_READY)));
  td_go : forall u c, phase u = Ready c -> command_ok c ->
    exists r, phase (wr u STS (host_image 4 TCTI_SPI_HELPER_TPM_STS_GO)) = Executing r /\ answer c r;
  td_write : forall u c w, phase u = Ready c -> 1 <= Zlen w <= 64 -> Zlen w <= burst u ->
    phase (wr (poll u) FIFO w) = Ready (c ++ w);
  td_read : forall u r n, phase (poll u) = Done r -> 1 <= n <= 64 -> n <= Zlen r ->
    n <= burst u \/ n <= 6 ->
    (rd (poll u) FIFO n).1 = take (Z.to_nat n) r /\
    phase (rd (poll u) FIFO n).2 = Done (drop (Z.to_nat n) r);
  td_sleep : exists f, sleep_ms p = Some f /\
    forall u n, exists u', f u n = (TSS2_RC_SUCCESS, u') /\ steady u u';
  td_start : exists f, start_timeout p = Some f /\
    forall u n, exists u', f u n = (TSS2_RC_SUCCESS, u') /\ steady u u';
  td_timer : exists f, timeout_expired p = Some f /\
    forall u, exists b u', f u = (TSS2_RC_SUCCESS, (Some b, u')) /\ steady u u';
  td_answer : forall c r, answer c r -> command_ok r
}.

Context {TD : TisDevice} (fuel : nat).

Lemma read_sts_ok c u h k rb :
  spi_tpm_helper_read_sts_reg p (Spi c u h k rb) = Ret (Spi c (poll u) h k rb, inr (sts u)).
Proof. unfold spi_tpm_helper_read_sts_reg. eapply step_ok; [by apply read_reg_ok|]. done. Qed.

Lemma write_sts_ok v c u h k rb :
  spi_tpm_helper_write_sts_reg p v (Spi c u h k rb) =
  Ret (Spi c (wr u STS (host_image 4 v)) h k rb, inr tt).
Proof. unfold spi_tpm_helper_write_sts_reg. eapply step_ok; [by apply write_reg_ok|]. done. Qed.

(** A wait gives up, which it does only with a timeout, on a timer that has
    expired. *)
Definition gives_up (blocking : bool) (rc : TSS2_RC) : Prop :=
  rc = TSS2_TCTI_RC_TRY_AGAIN /\ blocking = false /\ may_expire.

(** How a wait for [mask] in the phase [ph] ends. *)
Definition wait_ends (blocking : bool) ph mask (s : spi_state U)
    (r : outcome (spi_state U * (TSS2_RC + unit))) : Prop :=
  exists u x, r = Ret (Spi (common s) u (resp_header s) (response_size s) (response_buffer s), x) /\
    match x with
    | inr _ => exists u0, u = poll u0 /\ phase u0 = ph /\ shows u0 mask
    | inl rc => gives_up blocking rc /\ phase u = ph
    end.

(** Waiting for bits that the TPM shows at the latest when it lags no more. *)
Lemma wait_status_ok ph mask blocking :
  (forall u, phase u = ph -> lag u = 0%nat -> shows u mask) ->
  (forall u, phase u = ph -> ~ shows u mask -> phase (poll u) = ph) ->
  forall n u b s, phase u = ph -> (lag u < n)%nat -> user_data s = u ->
  wait_ends blocking ph mask s (wait_status_loop p n mask mask blocking b s).
Proof.
  intros L P. induction n as [|n IH]; intros u b [c u_ h k rb] E Hn Eu; [lia|].
  cbn [user_data] in Eu. subst u_. cbn [wait_status_loop].
  destruct (decide (Z.land (sts u) mask = mask)) as [B|B].
  - exists (poll u), (inr tt). split; [|by exists u]. eapply step_ok; [apply read_sts_ok|]. cbv beta.
    by rewrite B, Z.eqb_refl.
  - destruct td_sleep as (sl&Es&Hs). destruct td_timer as (tm&Et&Ht).
    destruct (Hs (poll u) 8) as (u1&E1&[P1 L1]). destruct (Ht u1) as (e&u2&E2&[P2 L2]).
    assert (N : lag u <> 0%nat) by (intros Z0; by apply B, L). pose proof (td_lag u N).
    assert (E3 : phase u2 = ph) by (by rewrite P2, P1, P).
    assert (T : forall r, (if blocking || negb e then wait_status_loop p n mask mask blocking e
        else fail TSS2_TCTI_RC_TRY_AGAIN) (Spi c u2 h k rb) = r ->
      wait_status_loop p (S n) mask mask blocking b (Spi c u h k rb) = r).
    { intros r <-. cbn [wait_status_loop]. eapply step_ok; [apply read_sts_ok|]. cbv beta.
      rewrite (proj2 (Z.eqb_neq _ _) B). eapply step_ok; [by apply (delay_ok sl)|]. cbv beta.
      eapply step_ok; [done|]. cbv beta.
      eapply step_ok; [unfold spi_tpm_helper_timeout_expired, platform_call; rewrite Et;
        cbn [user_data]; by rewrite E2|].
      cbv beta iota. by eapply step_ok. }
    destruct (blocking || negb e) eqn:K.
    + destruct (IH u2 e (Spi c u2 h k rb) E3) as (u'&x&X&Q); [lia|done|].
      exists u', x. split; [by apply T|done].
    + apply orb_false_iff in K as [-> K%negb_false_iff]. subst e.
      exists u2, (inl TSS2_TCTI_RC_TRY_AGAIN). split; [by apply T|]. split; [|done].
      split_and!; [done..|]. by exists tm, u1, u2.
Qed.

Lemma wait_for_status_ok ph mask timeout s :
  (forall u, phase u = ph -> lag u = 0%nat -> shows u mask) ->
  (forall u, phase u = ph -> ~ shows u mask -> phase (poll u) = ph) ->
  phase (user_data s) = ph -> (bound < fuel)%nat ->
  wait_ends (timeout =? TSS2_TCTI_TIMEOUT_BLOCK) ph mask s
    (spi_tpm_helper_wait_for_status p fuel mask mask timeout s).
Proof.
  destruct s as [c u h k rb]. cbn [user_data]. intros L P E F. unfold spi_tpm_helper_wait_for_status.
  destruct (timeout =? TSS2_TCTI_TIMEOUT_BLOCK).
  - pose proof (td_bound u).
    destruct (wait_status_ok ph mask true L P fuel u false (Spi c u h k rb) E) as (u0&x&X&Q); [lia|done|].
    exists u0, x. split; [|done]. by eapply step_ok.
  - destruct td_start as (st&Es&Hs). destruct (Hs u timeout) as (u1&E1&[P1 L1]). pose proof (td_bound u).
    destruct (wait_status_ok ph mask false L P fuel u1 false (Spi c u1 h k rb)) as (u0&x&X&Q);
      [by rewrite P1|lia|done|].
    exists u0, x. split; [|done]. eapply step_ok; [|exact X].
    eapply step_ok; [unfold spi_tpm_helper_start_timeout, platform_call; rewrite Es;
      cbn [user_data]; by rewrite E1|]. done.
Qed.

(** Waiting for a burst count. *)
Definition taking (ph : tis_phase) : Prop :=
  match ph with Ready _ | Done _ => True | _ => False end.

Lemma taking_poll u : taking (phase u) -> phase (poll u) = phase u.
Proof. intros T. rewrite td_poll. by destruct (phase u). Qed.

Lemma burst_nonneg u : 0 <= burst u.
Proof. unfold burst, burst_count_of. apply Z.shiftr_nonneg, Z.land_nonneg. by right. Qed.

Lemma wait_burst_ok n u c h k rb :
  taking (phase u) -> (lag u < n)%nat ->
  exists u0, wait_burst p n (Spi c u h k rb) = Ret (Spi c (poll u0) h k rb, inr (burst u0)) /\
    phase u0 = phase u /\ 0 < burst u0.
Proof.
  revert u. induction n as [|n IH]; intros u T L; [lia|]. cbn [wait_burst].
  assert (X : spi_tpm_helper_get_burst_count p (Spi c u h k rb) =
    Ret (Spi c (poll u) h k rb, inr (burst u))).
  { unfold spi_tpm_helper_get_burst_count. eapply step_ok; [apply read_sts_ok|]. done. }
  destruct (decide (burst u = 0)) as [B|B].
  - assert (N : lag u <> 0%nat).
    { intros Z0. apply (td_burst u); [|done..]. by intros Ei; rewrite Ei in T. }
    pose proof (td_lag u N). pose proof (taking_poll u T) as P.
    destruct (IH (poll u)) as (u0&E&P0&Q); [by rewrite P|lia|]. exists u0.
    split; [|split; [congruence|done]]. eapply step_ok; [exact X|]. cbv beta.
    by rewrite B, Z.eqb_refl.
  - pose proof (burst_nonneg u). exists u. split; [|split; [done|lia]].
    eapply step_ok; [exact X|]. cbv beta. by rewrite (proj2 (Z.eqb_neq _ _) B).
Qed.

(** ** The FIFO *)

(** One round of the loop: [n] bytes, at least one. *)
Lemma fifo_size size handled b :
  0 <= handled < size -> size < size_max -> 0 < b ->
  let n := Z.min (Z.min (wrap64 (size - handled)) b) 64 in
  1 <= n <= 64 /\ n <= b /\ n <= size - handled /\ wrap64 (handled + n) = handled + n.
Proof.
  intros Hh Hs Hb. cbv zeta. rewrite !(wrap64_small (size - handled)) by lia.
  split_and!; try lia. rewrite wrap64_small; lia.
Qed.

Lemma fifo_transmit_ok cmd n u handled c h k rb :
  phase u = Ready (take (Z.to_nat handled) cmd) -> 0 <= handled < Zlen cmd -> Zlen cmd < size_max ->
  Zlen cmd - handled <= Z.of_nat n -> (bound < fuel)%nat ->
  exists u', fifo_loop p fuel n (FIFO_TRANSMIT cmd) (Zlen cmd) handled (Spi c u h k rb) =
      Ret (Spi c u' h k rb, inr tt) /\ phase u' = Ready cmd.
Proof.
  intros P Hh Hs Hn F. revert u handled P Hh Hn. induction n as [|n IH]; intros u handled P Hh Hn; [lia|].
  cbn [fifo_loop]. pose proof (td_bound u).
  destruct (wait_burst_ok fuel u c h k rb) as (u0&X&P0&B); [by rewrite P|lia|].
  destruct (fifo_size (Zlen cmd) handled (burst u0) Hh Hs B) as (N1&N2&N3&W). cbv zeta in W.
  set (m := Z.min (Z.min (wrap64 (Zlen cmd - handled)) (burst u0)) 64) in *.
  destruct (mem_read_is_Some cmd handled m) as [w R]; [lia..|].
  pose proof (mem_read_len _ _ _ _ R) as Lw. apply mem_read_Some in R as E. destruct E as (_&_&_&Ew).
  set (u1 := wr (poll u0) FIFO w).
  assert (P1 : phase u1 = Ready (take (Z.to_nat (handled + m)) cmd)).
  { unfold u1. rewrite (td_write u0 (take (Z.to_nat handled) cmd)) by (congruence || lia).
    f_equal. rewrite Ew, Z2Nat.inj_add by lia. apply take_take_drop. }
  assert (T : forall r, (if handled + m =? Zlen cmd then ret tt else
      fifo_loop p fuel n (FIFO_TRANSMIT cmd) (Zlen cmd) (handled + m)) (Spi c u1 h k rb) = r ->
    fifo_loop p fuel (S n) (FIFO_TRANSMIT cmd) (Zlen cmd) handled (Spi c u h k rb) = r).
  { intros r <-. cbn [fifo_loop]. eapply step_ok; [exact X|]. cbv beta zeta. fold m.
    eapply step_ok.
    - unfold fifo_transaction. eapply step_ok; [unfold lift; by rewrite R|].
      eapply step_ok; [by apply write_reg_ok|]. done.
    - cbv beta. by rewrite W. }
  destruct (handled + m =? Zlen cmd) eqn:Q.
  - apply Z.eqb_eq in Q. exists u1. split; [by apply T|]. rewrite P1, Q. f_equal.
    apply take_ge. unfold Zlen. lia.
  - apply Z.eqb_neq in Q. destruct (IH u1 (handled + m)) as (u'&E&P'); [done|lia..|].
    exists u'. split; [by apply T|done].
Qed.

Lemma fifo_receive_ok off size n u handled rest b c h k :
  phase u = Done rest -> 0 <= handled < size -> size < size_max -> size - handled <= Zlen rest ->
  0 <= off -> off + size <= Zlen b -> size - handled <= Z.of_nat n -> (bound < fuel)%nat ->
  exists u' b', fifo_loop p fuel n (FIFO_RECEIVE off) size handled (Spi c u h k (Some b)) =
      Ret (Spi c u' h k (Some b'), inr tt) /\
    mem_write b (off + handled) (take (Z.to_nat (size - handled)) rest) = Some b' /\
    phase u' = Done (drop (Z.to_nat (size - handled)) rest).
Proof.
  intros P Hh Hs Hr Ho Hb Hn F. revert u handled rest b P Hh Hr Hb Hn.
  induction n as [|n IH]; intros u handled rest b P Hh Hr Hb Hn; [lia|].
  pose proof (td_bound u).
  destruct (wait_burst_ok fuel u c h k (Some b)) as (u0&X&P0&B); [by rewrite P|lia|].
  destruct (fifo_size size handled (burst u0) Hh Hs B) as (N1&N2&N3&W). cbv zeta in W.
  set (m := Z.min (Z.min (wrap64 (size - handled)) (burst u0)) 64) in *.
  assert (Pp : phase (poll u0) = Done rest) by (rewrite taking_poll, P0, P; [done|by rewrite P0, P]).
  destruct (td_read u0 rest m Pp N1) as [R1 R2]; [lia|by left|].
  set (u1 := (rd (poll u0) FIFO m).2) in *.
  destruct (mem_read_is_Some b (off + handled) m) as [w0 R]; [lia..|].
  pose proof (mem_read_len _ _ _ _ R) as Lw0.
  assert (Lw : Zlen (take (Z.to_nat m) rest) = m) by (unfold Zlen in *; rewrite length_take; lia).
  destruct (mem_write_is_Some b (off + handled) (take (Z.to_nat m) rest)) as [b1 Wb]; [lia..|].
  pose proof (mem_write_len _ _ _ _ Wb) as Lb.
  assert (T : forall r, (if handled + m =? size then ret tt else
      fifo_loop p fuel n (FIFO_RECEIVE off) size (handled + m)) (Spi c u1 h k (Some b1)) = r ->
    fifo_loop p fuel (S n) (FIFO_RECEIVE off) size handled (Spi c u h k (Some b)) = r).
  { intros r <-. cbn [fifo_loop]. eapply step_ok; [exact X|]. cbv beta zeta. fold m.
    eapply step_ok.
    - unfold fifo_transaction. eapply step_ok; [unfold load_response, lift; cbn; by rewrite R|].
      eapply step_ok; [apply read_reg_ok; [done|exact Lw0]|]. cbv beta iota. rewrite R1.
      unfold store_response. cbn. by rewrite Wb.
    - cbv beta. by rewrite W. }
  destruct (handled + m =? size) eqn:Q.
  - apply Z.eqb_eq in Q. exists u1, b1. replace (size - handled) with m by lia.
    split; [by apply T|]. done.
  - apply Z.eqb_neq in Q. destruct (IH u1 (handled + m) (drop (Z.to_nat m) rest) b1) as (u'&b'&E&Wr&P').
    { done. } { lia. } { unfold Zlen in *. rewrite length_drop. lia. } { lia. } { lia. }
    exists u', b'. split; [by apply T|]. replace (size - handled) with (m + (size - (handled + m))) by lia.
    rewrite Z2Nat.inj_add by lia. rewrite drop_drop in P'. split; [|done].
    rewrite <-take_take_drop. eapply mem_write_app; [exact Wb|]. rewrite Lw. by rewrite <-Z.add_assoc.
Qed.

(** ** A command and its response *)

Ltac fits := first [ctype | unfold csizeof; simpl; lia | unfold in_range; simpl; lia].

Lemma header_ok cmd h0 :
  command_ok cmd -> in_range UINT16 (header_tag h0) -> in_range UINT32 (header_size h0) ->
  in_range UINT32 (header_code h0) ->
  exists h, header_unmarshal (Some cmd) h0 = Ret (TSS2_RC_SUCCESS, h) /\ header_size h = Zlen cmd.
Proof.
  intros (B&L&R) I1 I2 I3. unfold TPM_HEADER_SIZE.
  destruct (load_be_16 cmd 0) as (t&R0&It); [done|lia..|].
  destruct (load_be_32 cmd 6) as (k&R6&Ik); [done|lia..|].
  exists (Tpm_header t (Zlen cmd) k). split; [|done].
  unfold header_unmarshal, Tss2_MU_TPM2_ST_Unmarshal, Tss2_MU_UINT32_Unmarshal, TPM_HEADER_SIZE.
  rewrite (unmarshal_at UINT16 _ _ _ _ t); try done; try fits.
  rewrite Z.eqb_refl. cbn [negb default from_option id header_tag header_size header_code].
  rewrite (unmarshal_at UINT32 _ _ _ _ (Zlen cmd)); try done; try fits; [|change (0 <= Zlen cmd < 2 ^ 32); lia].
  rewrite Z.eqb_refl. cbn [negb default from_option id header_tag header_size header_code].
  by rewrite (unmarshal_at UINT32 _ _ _ _ k); try done; try fits.
Qed.

(** The context is ready to take a command, and the TPM to be given one. *)
Definition idle (s : spi_state U) : Prop :=
  magic (common s) = TCTI_SPI_HELPER_MAGIC /\ state (common s) = TCTI_STATE_TRANSMIT /\
  header_size (header (common s)) = 0 /\ Zlen (resp_header s) = 6 /\ rests (phase (user_data s)).

(** A command has been sent, to which [r] is the response; its header has been
    read or not. *)
Definition waiting (r : bytes) (s : spi_state U) : Prop :=
  magic (common s) = TCTI_SPI_HELPER_MAGIC /\ state (common s) = TCTI_STATE_RECEIVE /\
  Zlen (resp_header s) = 6 /\
  ((header_size (header (common s)) = 0 /\ phase (user_data s) = Executing r) \/
   (header_size (header (common s)) = Zlen r /\ resp_header s = take 6 r /\
    phase (user_data s) = Done (drop 6 r))).

Lemma in_state_ok c m x : magic c = m -> state c = x -> in_state c m x = TSS2_RC_SUCCESS.
Proof.
  intros <- <-. unfold in_state. rewrite Z.eqb_refl. cbn [negb]. by rewrite bool_decide_true.
Qed.

(** Transmit hands the command over, or gives up and is idle again. *)
Lemma transmit_ok s cmd :
  idle s -> command_ok cmd -> (bound < fuel)%nat -> Zlen cmd <= Z.of_nat fuel ->
  exists s' x, tcti_spi_helper_transmit p fuel (Zlen cmd) (Some cmd) s = Ret (s', x) /\
    match x with
    | inr _ => exists r, answer cmd r /\ waiting r s'
    | inl rc => gives_up false rc /\ idle s'
    end.
Proof.
  destruct s as [c u h k rb]. intros (M&S&Hz&Lh&Rs) C F Fn. cbn [common user_data resp_header] in *.
  destruct (header_ok cmd (Tpm_header 0 0 0) C) as (hd&Eh&Es); [done..|].
  pose proof C as (_&Lc&_).
  set (u1 := wr u STS (host_image 4 TCTI_SPI_HELPER_TPM_STS_COMMAND_READY)).
  assert (P1 : phase u1 = Ready []) by by apply td_command.
  assert (T : forall r, (spi_tpm_helper_wait_for_status p fuel TCTI_SPI_HELPER_TPM_STS_COMMAND_READY
      TCTI_SPI_HELPER_TPM_STS_COMMAND_READY TIMEOUT_B ;!
    spi_tpm_helper_fifo_transfer p fuel (FIFO_TRANSMIT cmd) (Zlen cmd) ;!
    spi_tpm_helper_write_sts_reg p TCTI_SPI_HELPER_TPM_STS_GO ;!
    modify (fun s => set_common (set_common_state TCTI_STATE_RECEIVE (common s)) s))
      (Spi c u1 h k rb) = r ->
    tcti_spi_helper_transmit p fuel (Zlen cmd) (Some cmd) (Spi c u h k rb) = r).
  { intros r <-. unfold tcti_spi_helper_transmit, tcti_spi_helper_context_cast. cbn [common].
    rewrite M, Z.eqb_refl.
    eapply step_ok; [done|]. cbv beta. cbn [common]. unfold tcti_common_transmit_checks.
    rewrite (in_state_ok c) by done. eapply step_ok; [done|]. cbv beta.
    eapply step_ok; [unfold lift; by rewrite Eh|]. cbv beta iota.
    eapply step_ok; [done|]. cbv beta. rewrite Es, Z.eqb_refl. cbn [negb].
    eapply step_ok; [apply write_sts_ok|]. done. }
  destruct (wait_for_status_ok (Ready []) TCTI_SPI_HELPER_TPM_STS_COMMAND_READY TIMEOUT_B
    (Spi c u1 h k rb)) as (u2&x&E2&Q); [apply td_ready|by intros v Pv _; rewrite td_poll, Pv|done|done|].
  destruct x as [rc|[]].
  - destruct Q as [G P2]. eexists _, _. split; [apply T; eapply step_fail; exact E2|].
    split; [exact G|]. repeat split; try done. by right.
  - destruct Q as (v&->&P2&_).
    destruct (fifo_transmit_ok cmd fuel (poll v) 0 c h k rb) as (u3&E3&P3);
      [by rewrite td_poll, P2|lia|unfold size_max; lia|lia|done|].
    destruct (td_go u3 cmd P3 C) as (r&P4&A).
    eexists (Spi (set_common_state TCTI_STATE_RECEIVE c) _ h k rb), (inr tt). split.
    + apply T. eapply step_ok; [exact E2|]. cbv beta. eapply step_ok; [exact E3|]. cbv beta.
      eapply step_ok; [apply write_sts_ok|]. done.
    + exists r. split; [done|]. repeat split; try done. left. by split.
Qed.

Lemma response_prefix r : command_ok r -> exists x, take 6 r = x /\ Zlen x = 6 /\
  mem_read (drop 2 x) 0 4 = Some (be_bytes 4 (Zlen r)).
Proof.
  intros (B&L&R). eexists. split; [done|].
  assert (Zlen (take 6 r) = 6) by (unfold Zlen in *; rewrite length_take; lia).
  split; [done|]. apply mem_read_Some in R as (_&_&_&E). apply mem_read_Some.
  split_and!; [lia..| |].
  - unfold Zlen in *. rewrite length_drop. lia.
  - rewrite E. rewrite drop_0. rewrite skipn_firstn_comm.
    change (Z.to_nat 4) with 4%nat. change (Z.to_nat 2) with 2%nat. change (6 - 2)%nat with 4%nat.
    by rewrite take_take.
Qed.

(** The header of the response [r] is awaited in vain: the call gives up, and
    may be repeated. *)
Definition tries_again (r : bytes) (tmo : Z) (s : spi_state U)
    (res : outcome (spi_state U * (TSS2_RC + unit))) : Prop :=
  exists s' rc, res = Ret (s', inl rc) /\ gives_up (tmo =? TSS2_TCTI_TIMEOUT_BLOCK) rc /\
    header_size (header (common s)) = 0 /\
    response_size s' = response_size s /\ response_buffer s' = response_buffer s /\ waiting r s'.

(** The header is read, if it was not before. *)
Lemma receive_header_ok r s tmo :
  waiting r s -> command_ok r -> (bound < fuel)%nat ->
  tries_again r tmo s (receive_header p fuel tmo s) \/
  exists c u, receive_header p fuel tmo s =
      Ret (Spi c u (take 6 r) (response_size s) (response_buffer s), inr tt) /\
    magic c = TCTI_SPI_HELPER_MAGIC /\ state c = TCTI_STATE_RECEIVE /\
    header_size (header c) = Zlen r /\ phase u = Done (drop 6 r).
Proof.
  destruct s as [c u h k rb]. intros (M&S&Lh&W) C F. cbn [common user_data resp_header] in *.
  destruct (response_prefix r C) as (x&Ex&Lx&Rx). pose proof C as (B&L&R). rewrite Ex.
  unfold receive_header. destruct W as [[Z0 P]|(Hn&Eh&P)].
  - destruct (wait_for_status_ok (Executing r) STS_VALID_DATA tmo (Spi c u h k rb)) as (u1&y&E1&Q).
    { intros v. apply td_executing. }
    { intros v Pv Nv. rewrite td_poll, Pv. by rewrite (proj2 (Z.eqb_neq _ _) Nv). }
    { done. } { done. }
    destruct y as [rc|[]].
    + left. destruct Q as [G P1]. exists (Spi c u1 h k rb), rc. split.
      * eapply step_ok; [done|]. cbv beta. cbn [common header_size header].
        rewrite Z0, Z.eqb_refl. cbn [negb]. eapply step_fail. exact E1.
      * split_and!; [exact G|done..|]. repeat split; try done. by left.
    + right. destruct Q as (v&->&P1&S1).
      assert (P2 : phase (poll v) = Done r) by (rewrite td_poll, P1, (proj2 (Z.eqb_eq _ _) S1); done).
      destruct (td_read v r 6 P2) as [R1 R2]; [lia..|by right|].
      change (Z.to_nat 6) with 6%nat in *. rewrite Ex in R1.
      do 2 eexists. split.
      * eapply step_ok; [done|]. cbv beta. cbn [common header_size header resp_header].
        rewrite Z0, Z.eqb_refl. cbn [negb]. eapply step_ok; [exact E1|]. cbv beta.
        eapply step_ok; [by apply read_reg_ok|]. cbv beta iota.
        change TCTI_SPI_HELPER_RESP_HEADER_SIZE with 6. rewrite R1.
        eapply step_ok; [done|]. cbv beta. rewrite Z.eqb_refl. cbn [negb].
        eapply step_ok; [unfold spi_tpm_helper_read_be32; eapply step_ok; [unfold lift; by rewrite Rx|done]|].
        cbv beta. rewrite be_value_be_bytes by (unfold Zlen in *; cbn; lia). done.
      * split_and!; [..|exact R2]; done.
  - right. exists c, u. split_and!; [|done..]. eapply step_ok; [done|]. cbv beta. cbn [common].
    rewrite Hn, (proj2 (Z.eqb_neq (Zlen r) 0)) by lia. cbn [negb]. by rewrite Eh, Ex.
Qed.

(** The calls of [receive], up to the header. *)
Lemma receive_starts r s tmo n0 :
  waiting r s -> command_ok r -> (bound < fuel)%nat -> response_size s = Some n0 ->
  tries_again r tmo s (tcti_spi_helper_receive p fuel tmo s) \/
  exists c u, magic c = TCTI_SPI_HELPER_MAGIC /\ state c = TCTI_STATE_RECEIVE /\
    header_size (header c) = Zlen r /\ phase u = Done (drop 6 r) /\
    tcti_spi_helper_receive p fuel tmo s =
    (match response_buffer s with
     | None => modify (set_response_size (Zlen r))
     | Some _ =>
         if n0 <? Zlen r then fail TSS2_TCTI_RC_INSUFFICIENT_BUFFER else
         modify (set_response_size (Zlen r)) ;! receive_body p fuel (Zlen r)
     end) (Spi c u (take 6 r) (Some n0) (response_buffer s)).
Proof.
  intros W C F E. pose proof W as (M0&S0&_&_).
  unfold tcti_spi_helper_receive, tcti_spi_helper_context_cast. rewrite M0, Z.eqb_refl.
  destruct (receive_header_ok r s tmo W C F) as [(s'&rc&X&Q)|(c&u&X&M&S&Hn&P)].
  - left. exists s', rc. split; [|done].
    eapply step_ok; [done|]. cbv beta. rewrite E. unfold tcti_common_receive_checks.
    rewrite (in_state_ok (common s)) by done. eapply step_ok; [done|]. cbv beta.
    by eapply step_fail.
  - right. exists c, u. split_and!; [done..|].
    eapply step_ok; [done|]. cbv beta. rewrite E. unfold tcti_common_receive_checks.
    rewrite (in_state_ok (common s)) by done. eapply step_ok; [done|]. cbv beta.
    eapply step_ok; [exact X|]. cbv beta. eapply step_ok; [done|]. cbv beta.
    cbn [common response_buffer response_size]. by rewrite Hn, E.
Qed.

Lemma waiting_known r c u n rb :
  command_ok r -> magic c = TCTI_SPI_HELPER_MAGIC -> state c = TCTI_STATE_RECEIVE ->
  header_size (header c) = Zlen r -> phase u = Done (drop 6 r) ->
  waiting r (Spi c u (take 6 r) n rb).
Proof.
  intros C M S Hn P. destruct (response_prefix r C) as (x&<-&Lx&_). repeat split; try done. by right.
Qed.

Lemma receive_query r s tmo n0 :
  waiting r s -> command_ok r -> (bound < fuel)%nat -> response_size s = Some n0 ->
  response_buffer s = None ->
  tries_again r tmo s (tcti_spi_helper_receive p fuel tmo s) \/
  exists s', tcti_spi_helper_receive p fuel tmo s = Ret (s', inr tt) /\
    response_size s' = Some (Zlen r) /\ response_buffer s' = None /\ waiting r s'.
Proof.
  intros W C F E1 E2. destruct (receive_starts r s tmo n0 W C F E1) as [|(c&u&M&S&Hn&P&X)]; [by left|right].
  rewrite E2 in X. eexists. split; [exact X|]. split; [done|]. split; [done|]. by apply waiting_known.
Qed.

Lemma receive_small r s tmo n0 b :
  waiting r s -> command_ok r -> (bound < fuel)%nat -> response_size s = Some n0 ->
  response_buffer s = Some b -> n0 < Zlen r ->
  tries_again r tmo s (tcti_spi_helper_receive p fuel tmo s) \/
  exists s', tcti_spi_helper_receive p fuel tmo s = Ret (s', inl TSS2_TCTI_RC_INSUFFICIENT_BUFFER) /\
    response_size s' = Some n0 /\ response_buffer s' = Some b /\ waiting r s'.
Proof.
  intros W C F E1 E2 L.
  destruct (receive_starts r s tmo n0 W C F E1) as [|(c&u&M&S&Hn&P&X)]; [by left|right].
  rewrite E2, (proj2 (Z.ltb_lt _ _) L) in X. eexists. split; [exact X|]. split; [done|].
  split; [done|]. by apply waiting_known.
Qed.

(** The last byte, and the end of the conversation. *)
Lemma receive_last r c u h n0 b :
  command_ok r -> phase u = Done (drop (Z.to_nat (Zlen r - 1)) r) -> Zlen r <= Zlen b ->
  exists u' b', 
    (let! status := spi_tpm_helper_read_sts_reg p in
     if negb (Z.land status STS_VALID_DATA =? STS_VALID_DATA) then fail TSS2_TCTI_RC_IO_ERROR else
     let! b := load_response (Zlen r - 1) 1 in
     let! (rc, b) := spi_tpm_helper_read_reg p TCTI_SPI_HELPER_TPM_DATA_FIFO_REG b 1 in
     store_response (Zlen r - 1) b ;!
     if negb (rc =? TSS2_RC_SUCCESS) then fail TSS2_TCTI_RC_IO_ERROR else
     let! status := spi_tpm_helper_read_sts_reg p in
     if negb (Z.land status STS_VALID_DATA =? TCTI_SPI_HELPER_TPM_STS_VALID)
     then fail TSS2_TCTI_RC_IO_ERROR else
     spi_tpm_helper_write_sts_reg p TCTI_SPI_HELPER_TPM_STS_COMMAND_READY ;!
     modify (fun s => set_common (set_common_state TCTI_STATE_TRANSMIT (set_header_size 0 (common s))) s))
    (Spi c u h n0 (Some b)) =
    Ret (Spi (set_common_state TCTI_STATE_TRANSMIT (set_header_size 0 c)) u' h n0 (Some b'), inr tt) /\
    mem_write b (Zlen r - 1) (drop (Z.to_nat (Zlen r - 1)) r) = Some b' /\ rests (phase u').
Proof.
  intros (B&L&_) P Lb. set (x := drop (Z.to_nat (Zlen r - 1)) r) in *.
  assert (Lx : Zlen x = 1) by (unfold x; unfold Zlen in *; rewrite length_drop; lia).
  assert (Pp : phase (poll u) = Done x) by (rewrite taking_poll by (by rewrite P); done).
  destruct (td_read u x 1 Pp) as [R1 R2]; [lia..|right; lia|].
  set (u1 := (rd (poll u) FIFO 1).2) in *. change (Z.to_nat 1) with 1%nat in *.
  rewrite take_ge in R1 by (unfold Zlen in Lx; lia). rewrite drop_ge in R2 by (unfold Zlen in Lx; lia).
  destruct (mem_read_is_Some b (Zlen r - 1) 1) as [w0 R]; [lia..|].
  destruct (mem_write_is_Some b (Zlen r - 1) x) as [b' Wb]; [lia..|].
  eexists _, b'. split; [|split; [exact Wb|]].
  - eapply step_ok; [apply read_sts_ok|]. cbv beta. rewrite (td_done u _ P).
    destruct x as [|x0 x1]; [done|]. rewrite Z.eqb_refl. cbn [negb].
    eapply step_ok; [unfold load_response, lift; cbn; by rewrite R|]. cbv beta.
    eapply step_ok; [apply read_reg_ok; [done|by eapply mem_read_len]|]. cbv beta iota.
    fold u1. rewrite R1. eapply step_ok; [unfold store_response; cbn; by rewrite Wb|].
    cbv beta. rewrite Z.eqb_refl. unfold set_response_buffer.
    cbn [common user_data resp_header response_size]. cbn [negb]. eapply step_ok; [apply read_sts_ok|]. cbv beta.
    rewrite (td_done u1 [] R2), Z.eqb_refl. cbn [negb].
    eapply step_ok; [apply write_sts_ok|]. done.
  - apply td_finish. by rewrite taking_poll, R2 by (by rewrite R2).
Qed.

Lemma receive_whole r s tmo n0 b :
  waiting r s -> command_ok r -> (bound < fuel)%nat -> Zlen r <= Z.of_nat fuel ->
  response_size s = Some n0 -> response_buffer s = Some b -> Zlen r <= n0 -> Zlen r <= Zlen b ->
  tries_again r tmo s (tcti_spi_helper_receive p fuel tmo s) \/
  exists s' b', tcti_spi_helper_receive p fuel tmo s = Ret (s', inr tt) /\
    response_size s' = Some (Zlen r) /\ response_buffer s' = Some b' /\
    mem_write b 0 r = Some b' /\ idle s'.
Proof.
  intros W C F Fr E1 E2 L Lb.
  destruct (receive_starts r s tmo n0 W C F E1) as [|(c&u&M&S&Hn&P&X)]; [by left|right].
  rewrite E2, (proj2 (Z.ltb_ge _ _) L) in X. destruct (response_prefix r C) as (x&Ex&Lx&_).
  pose proof C as (B&Lr&_). rewrite Ex in X.
  destruct (mem_write_is_Some b 0 x) as [b1 W1]; [lia..|]. pose proof (mem_write_len _ _ _ _ W1) as L1.
  assert (Eg : wrap 32 (Zlen r - 1 - TCTI_SPI_HELPER_RESP_HEADER_SIZE) = Zlen r - 7)
    by (unfold TCTI_SPI_HELPER_RESP_HEADER_SIZE; rewrite wrap_small; lia).
  destruct (fifo_receive_ok 6 (Zlen r - 7) fuel u 0 (drop 6 r) b1 c x (Some (Zlen r)))
    as (u2&b2&E2'&W2&P2); [done|lia|unfold size_max; lia| |lia|lia|lia|done|].
  { unfold Zlen in *. rewrite length_drop. lia. }
  pose proof (mem_write_len _ _ _ _ W2) as L2. rewrite Z.sub_0_r, drop_drop in P2.
  replace (6 + Z.to_nat (Zlen r - 7))%nat with (Z.to_nat (Zlen r - 1)) in P2 by lia.
  destruct (receive_last r c u2 x (Some (Zlen r)) b2 C P2) as (u3&b3&E3&W3&R3); [lia|].
  eexists _, b3. split; [|split_and!].
  - rewrite X. eapply step_ok; [done|]. cbv beta. unfold receive_body.
    eapply step_ok; [done|]. cbv beta. eapply step_ok; [unfold store_response; cbn; by rewrite W1|].
    cbv beta zeta. rewrite Eg. eapply step_ok; [exact E2'|]. exact E3.
  - done.
  - done.
  - rewrite <-(take_drop 6 r), Ex.
    rewrite <-(take_drop (Z.to_nat (Zlen r - 7 - 0)) (drop 6 r)), drop_drop.
    replace (6 + Z.to_nat (Zlen r - 7 - 0))%nat with (Z.to_nat (Zlen r - 1)) by lia.
    eapply mem_write_app; [exact W1|]. eapply mem_write_app; [rewrite Lx; exact W2|].
    rewrite Lx. replace (0 + 6 + _) with (Zlen r - 1); [exact W3|].
    unfold Zlen in *. rewrite length_take, length_drop. lia.
  - done.
Qed.

(** C28: on a little-endian host, over a register file with a TPM that keeps to
    the TIS protocol and a timer that may or may not expire, an idle transport
    given a well-formed command ends. It has handed the TPM exactly the bytes
    of the command and waits for its response; or it returns
    TSS2_TCTI_RC_TRY_AGAIN, only where a timer has expired, and is idle again.
    Then a call of receive without a buffer reports the size of the response,
    a call with a buffer that is too small says so, both as often as the caller
    likes, and a call with a buffer that is large enough ends with exactly the
    response in it and the transport idle again; but a call with a finite
    timeout that has not yet seen the header may, where the timer has expired,
    return TSS2_TCTI_RC_TRY_AGAIN instead, and may be repeated. *)
Theorem spi_delivers s cmd :
  idle s -> command_ok cmd -> (bound < fuel)%nat -> Zlen cmd <= Z.of_nat fuel ->
  exists s' x, tcti_spi_helper_transmit p fuel (Zlen cmd) (Some cmd) s = Ret (s', x) /\
    match x with
    | inl rc => rc = TSS2_TCTI_RC_TRY_AGAIN /\ may_expire /\ idle s'
    | inr _ => exists r, answer cmd r /\ waiting r s' /\
    forall s tmo n0, waiting r s -> response_size s = Some n0 -> Zlen r <= Z.of_nat fuel ->
      match response_buffer s with
      | None =>
          tries_again r tmo s (tcti_spi_helper_receive p fuel tmo s) \/
          exists s', tcti_spi_helper_receive p fuel tmo s = Ret (s', inr tt) /\
            response_size s' = Some (Zlen r) /\ response_buffer s' = None /\ waiting r s'
      | Some b =>
          n0 <= Zlen b ->
          tries_again r tmo s (tcti_spi_helper_receive p fuel tmo s) \/
          if n0 <? Zlen r then
            exists s', tcti_spi_helper_receive p fuel tmo s =
                Ret (s', inl TSS2_TCTI_RC_INSUFFICIENT_BUFFER) /\
              response_size s' = Some n0 /\ response_buffer s' = Some b /\ waiting r s'
          else
            exists s' b', tcti_spi_helper_receive p fuel tmo s = Ret (s', inr tt) /\
              response_size s' = Some (Zlen r) /\ response_buffer s' = Some b' /\
              mem_write b 0 r = Some b' /\ idle s'
      end
    end.
Proof.
  intros Id C F Fc. destruct (transmit_ok s cmd Id C F Fc) as (s'&x&E&Q).
  exists s', x. split; [done|]. destruct x as [rc|[]]; [by destruct Q as [(->&_&Me) I]|].
  destruct Q as (r&A&W). exists r. split_and!; [done..|]. intros s1 tmo n0 W1 E1 Fr.
  pose proof (td_answer _ _ A) as Cr.
  destruct (response_buffer s1) as [b|] eqn:Eb; [intros Lb|by eapply receive_query].
  destruct (n0 <? Zlen r) eqn:L; bool2prop; [by eapply receive_small|].
  eapply receive_whole; try done. lia.
Qed.

(** ** The interface of the System API *)

(** The transport as the System API sees it: the objects of the caller of
    [receive] are set up for the call, and what is stored is taken out of the
    buffer. *)
Definition spi_transmit (s : spi_state U) (n : Z) (cmd : bytes) : TSS2_RC * spi_state U :=
  match tcti_spi_helper_transmit p fuel n (Some cmd) s with
  | Ret (s, inr _) => (TSS2_RC_SUCCESS, s)
  | Ret (s, inl rc) => (rc, s)
  | Undef => (TSS2_TCTI_RC_GENERAL_FAILURE, s)
  end.

Definition spi_receive (s : spi_state U) (n : Z) (response : bool) (timeout : Z) :
    TSS2_RC * (Z * (bytes * spi_state U)) :=
  let buffer := if response then Some (replicate (Z.to_nat n) 0) else None in
  match tcti_spi_helper_receive p fuel timeout
          (Spi (common s) (user_data s) (resp_header s) (Some n) buffer) with
  | Ret (s, x) =>
      let n' := default 0 (response_size s) in
      (match x with inr _ => TSS2_RC_SUCCESS | inl rc => rc end,
       (n', (take (Z.to_nat n') (default [] (response_buffer s)), s)))
  | Undef => (TSS2_TCTI_RC_GENERAL_FAILURE, (n, ([], s)))
  end.

Definition spi_tcti (s : spi_state U) : TSS2_TCTI_CONTEXT (spi_state U) :=
  Tcti TCTI_VERSION (Some spi_transmit) (Some spi_receive) s.

(** A call that blocks does not give up. *)
Lemma blocks_not_again r s res : ~ tries_again r TSS2_TCTI_TIMEOUT_BLOCK s res.
Proof. intros (?&?&_&(_&E&_)&_). rewrite Z.eqb_refl in E. discriminate. Qed.

(** C29: on a little-endian host, over a register file with a TPM that keeps to
    the TIS protocol, the transport over SPI is what the System API and its
    theorems expect of a transport: it takes a command, and answers the two
    calls of [Tss2_Sys_ExecuteFinish], which block, with the size of the TPM's
    response and with the response itself; after that it is idle, ready for
    the next command. Where a timer has expired it may instead refuse the
    command with TSS2_TCTI_RC_TRY_AGAIN and be idle again. *)
Theorem spi_answers s cmd :
  idle s -> command_ok cmd -> (bound < fuel)%nat -> Zlen cmd <= Z.of_nat fuel ->
  (forall r, answer cmd r -> Zlen r <= Z.of_nat fuel) ->
  exists s', idle s' /\
    ((may_expire /\ spi_transmit s (Zlen cmd) cmd = (TSS2_TCTI_RC_TRY_AGAIN, s')) \/
     exists r, answer cmd r /\
       forall c : blob (spi_state U), tctiContext c = Some (spi_tcti s) ->
         answers c (Zlen cmd) cmd r (spi_tcti s) spi_transmit s').
Proof.
  intros Id C F Fc Fr. destruct (transmit_ok s cmd Id C F Fc) as (s1&x&E&Q).
  destruct x as [rc|[]].
  { destruct Q as [(->&_&Me) I]. exists s1. split; [done|]. left. unfold spi_transmit. by rewrite E. }
  destruct Q as (r&A&W).
  pose proof (td_answer _ _ A) as Cr. pose proof (Fr r A). pose proof Cr as (_&Lr&_).
  destruct (receive_query r (Spi (common s1) (user_data s1) (resp_header s1) (Some 0) None)
    TSS2_TCTI_TIMEOUT_BLOCK 0) as [[]%blocks_not_again|(s2&E2&N2&B2&W2)]; [exact W|done..|].
  set (z := replicate (Z.to_nat (Zlen r)) 0).
  assert (Lz : Zlen z = Zlen r) by (unfold z; rewrite Zlen_replicate; lia).
  destruct (receive_whole r (Spi (common s2) (user_data s2) (resp_header s2) (Some (Zlen r)) (Some z))
    TSS2_TCTI_TIMEOUT_BLOCK (Zlen r) z) as [[]%blocks_not_again|(s3&b'&E3&N3&B3&Wb&I3)];
    [exact W2|done..|lia|lia|].
  exists s3. split; [done|]. right. exists r. split; [done|]. intros c Ec. split; [done|by vm_compute|done|].
  exists spi_receive, s1, s2, (Zlen r). split; [done|]. cbn [tcti_state spi_tcti].
  unfold spi_transmit, spi_receive. rewrite E, E2, N2, B2. split; [done|].
  cbn [default from_option id]. split; [by destruct (Z.to_nat (Zlen r))|]. fold z.
  rewrite E3, N3, B3. cbn [default from_option id].
  rewrite mem_write_whole in Wb by done. some_inv.
  rewrite take_ge by (unfold Zlen; lia). done.
Qed.

End RegisterFile.

(** ** A TPM in a nutshell *)

(** It answers every command with the same response, is busy for one poll after
    each access that changes something, and takes or offers eight bytes at a
    time. *)
Record toy := Toy { toy_phase : tis_phase; toy_busy : bool }.

Definition toy_command : bytes := [0x80; 1; 0; 0; 0; 12; 0; 0; 1; 0x7b; 0; 2].
Definition toy_response : bytes := [0x80; 1; 0; 0; 0; 14; 0; 0; 0; 0; 0; 2; 170; 187].

Definition toy_sts (u : toy) : Z :=
  match toy_busy u, toy_phase u with
  | false, Ready [] => 0x8C0
  | false, Executing _ => 0x890
  | _, Done [] => 0x880
  | false, Done _ => 0x890
  | true, Done _ => 0x90
  | false, _ => 0x880
  | true, _ => 0
  end.

Definition toy_poll (u : toy) : toy :=
  Toy (match toy_busy u, toy_phase u with false, Executing r => Done r | _, ph => ph end) false.

Definition toy_read (u : toy) (reg n : Z) : bytes * toy :=
  if (reg =? TCTI_SPI_HELPER_TPM_STS_REG) && (n =? 4) then (le_bytes 4 (toy_sts u), toy_poll u)
  else match toy_phase u with
       | Done r =>
           if (reg =? TCTI_SPI_HELPER_TPM_DATA_FIFO_REG) && (n <=? Zlen r)
           then (take (Z.to_nat n) r, Toy (Done (drop (Z.to_nat n) r)) true)
           else (replicate (Z.to_nat n) 0, u)
       | _ => (replicate (Z.to_nat n) 0, u)
       end.

Definition toy_write (u : toy) (reg : Z) (w : bytes) : toy :=
  if reg =? TCTI_SPI_HELPER_TPM_STS_REG then
    if bool_decide (w = le_bytes 4 TCTI_SPI_HELPER_TPM_STS_COMMAND_READY) then
      match toy_phase u with
      | Idle | Ready [] | Done [] => Toy (Ready []) true
      | _ => Toy Idle false
      end
    else match toy_phase u with Ready _ => Toy (Executing toy_response) true | _ => u end
  else match toy_phase u with Ready c => Toy (Ready (c ++ w)) true | _ => u end.

Definition toy_transfer (u : toy) (out : option bytes) (input : bool) (cnt : Z) :
    TSS2_RC * (bytes * toy) :=
  match out with
  | Some (_ :: a :: b :: c :: w) =>
      let reg := a * 65536 + b * 256 + c in
      if input then let '(r, u) := toy_read u reg (cnt - 4) in (TSS2_RC_SUCCESS, ([0; 0; 0; 1] ++ r, u))
      else (TSS2_RC_SUCCESS, ([], toy_write u reg w))
  | _ => (TSS2_TCTI_RC_IO_ERROR, ([], u))
  end.

(** Its platform has a timer that never expires, or one that always has, as
    the one of test/unit/tcti-spi-helper.c. *)
Definition toy_platform (expired : bool) : PLATFORM toy :=
  Platform toy (Some (fun u _ => (TSS2_RC_SUCCESS, u))) (Some (fun u _ => (TSS2_RC_SUCCESS, u)))
    (Some (fun u => (TSS2_RC_SUCCESS, (Some expired, u)))) None None (Some toy_transfer) None.

(** The address as it is on the bus. *)
Definition on_bus (reg : Z) : Z :=
  match spi_header REGISTER_READ 1 reg with [_; a; b; c] => a * 65536 + b * 256 + c | _ => 0 end.

Definition toy_rd (u : toy) (reg n : Z) : bytes * toy := toy_read u (on_bus reg) n.
Definition toy_wr (u : toy) (reg : Z) (w : bytes) : toy := toy_write u (on_bus reg) w.

#[local] Instance toy_registers e : RegisterFile (toy_platform e) toy_rd toy_wr.
Proof.
  split.
  - intros u reg n N. unfold toy_rd, toy_read.
    assert (Zlen (replicate (Z.to_nat n) 0) = n) by (rewrite Zlen_replicate; lia).
    destruct (_ && (n =? 4)) eqn:E; bool2prop; unpack.
    + subst n. unfold Zlen. cbn [fst]. by rewrite length_le_bytes.
    + destruct (toy_phase u) as [| | |r]; [done..|]. destruct (_ && _) eqn:E'; [|done].
      apply andb_true_iff in E' as [_ L%Z.leb_le]. cbn [fst]. clear E H.
      unfold Zlen in *. rewrite length_take. lia.
  - exists toy_transfer, (fun u _ => (TSS2_RC_SUCCESS, u)). split; [done|]. split; [done|].
    cbn [spi_acquire toy_platform]. intros u reg n N. split.
    + exists [0; 0; 0; 1]. split; [done|]. unfold toy_transfer, spi_header. cbn [app].
      replace (n + 4 - 4) with n by lia. unfold toy_rd, on_bus, spi_header.
      by destruct (toy_read _ _ _).
    + done.
Qed.

Lemma toy_sts_eq u : sts toy_rd u = toy_sts u.
Proof.
  unfold sts, toy_rd, toy_read. change (on_bus TCTI_SPI_HELPER_TPM_STS_REG)
    with TCTI_SPI_HELPER_TPM_STS_REG. rewrite !Z.eqb_refl. cbn [andb fst].
  destruct u as [[|[|x l]|r|[|x l]] []]; by vm_compute.
Qed.

Lemma toy_poll_eq u : poll toy_rd u = toy_poll u.
Proof.
  unfold poll, toy_rd, toy_read. change (on_bus TCTI_SPI_HELPER_TPM_STS_REG)
    with TCTI_SPI_HELPER_TPM_STS_REG. by rewrite !Z.eqb_refl.
Qed.

Definition toy_data (u : toy) (n : Z) : bytes * toy :=
  match toy_phase u with
  | Done r => if n <=? Zlen r then (take (Z.to_nat n) r, Toy (Done (drop (Z.to_nat n) r)) true)
              else (replicate (Z.to_nat n) 0, u)
  | _ => (replicate (Z.to_nat n) 0, u)
  end.

Lemma toy_fifo_read_eq u n : toy_rd u TCTI_SPI_HELPER_TPM_DATA_FIFO_REG n = toy_data u n.
Proof. done. Qed.

Lemma toy_fifo_eq u w : toy_wr u TCTI_SPI_HELPER_TPM_DATA_FIFO_REG w =
  match toy_phase u with Ready c => Toy (Ready (c ++ w)) true | _ => u end.
Proof. done. Qed.

Lemma toy_command_eq u :
  toy_wr u TCTI_SPI_HELPER_TPM_STS_REG (host_image 4 TCTI_SPI_HELPER_TPM_STS_COMMAND_READY) =
  match toy_phase u with Idle | Ready [] | Done [] => Toy (Ready []) true | _ => Toy Idle false end.
Proof. done. Qed.

Lemma toy_go_eq u :
  toy_wr u TCTI_SPI_HELPER_TPM_STS_REG (host_image 4 TCTI_SPI_HELPER_TPM_STS_GO) =
  match toy_phase u with Ready _ => Toy (Executing toy_response) true | _ => u end.
Proof. done. Qed.

#[local] Instance toy_device e : TisDevice (toy_platform e) toy_rd toy_wr toy_phase
  (fun u => if toy_busy u then 1%nat else 0%nat) 1 (fun _ r => r = toy_response).
Proof.
  split.
  - intros u. destruct (toy_busy u); lia.
  - intros u N. rewrite toy_poll_eq. cbn [toy_poll toy_busy]. destruct (toy_busy u); [lia|done].
  - intros u. rewrite toy_sts_eq, toy_poll_eq. by destruct u as [[|[|x l]|r|[|x l]] []].
  - intros u N L. unfold burst. rewrite toy_sts_eq. by destruct u as [[|[|x l]|r|[|x l]] []].
  - intros u E L. unfold shows. rewrite toy_sts_eq. by destruct u as [[|[|x l]|r|[|x l]] []].
  - intros u r E L. unfold shows. rewrite toy_sts_eq. by destruct u as [[|[|x l]|r'|[|x l]] []].
  - intros u r E. rewrite toy_sts_eq.
    destruct u as [[|[|x l]|r'|[|x l]] []]; try discriminate E; injection E as <-; reflexivity.
  - intros u. rewrite toy_command_eq. by intros [E|E]; rewrite E.
  - intros u E. rewrite toy_command_eq, E. by right.
  - intros u c E _. rewrite toy_go_eq, E. by eexists.
  - intros u c w E _ _. rewrite toy_poll_eq, toy_fifo_eq. unfold toy_poll. cbn [toy_phase].
    rewrite E. by destruct (toy_busy u).
  - intros u r n. rewrite toy_poll_eq. intros E N L _. rewrite toy_fifo_read_eq. unfold toy_data.
    by rewrite E, (proj2 (Z.leb_le _ _) L).
  - eexists. split; [done|]. intros u n. exists u. by split.
  - eexists. split; [done|]. intros u n. exists u. by split.
  - eexists. split; [done|]. intros u. exists e, u. by split.
  - intros c r ->. split; [|by vm_compute]. by repeat constructor.
Qed.

(** ** Examples *)

Definition toy_start : spi_state toy :=
  Spi (Tcti_common TCTI_SPI_HELPER_MAGIC TCTI_STATE_TRANSMIT (Tpm_header 0 0 0) 0 false false)
    (Toy Idle false) (replicate 6 0) None None.

Lemma toy_start_idle : idle toy_phase toy_start.
Proof. repeat split. by left. Qed.

Lemma toy_command_ok : command_ok toy_command.
Proof. split; [by repeat constructor|by vm_compute]. Qed.

Lemma patient_timer : ~ may_expire (toy_platform false).
Proof. intros (f&u&u'&[= <-]&[=]). Qed.

Lemma spi_delivers_witness :
  exists s' r, tcti_spi_helper_transmit (toy_platform false) 20 (Zlen toy_command) (Some toy_command)
      toy_start = Ret (s', inr tt) /\ r = toy_response /\ waiting toy_phase r s'.
Proof.
  destruct (spi_delivers (toy_platform false) toy_rd toy_wr toy_phase
    (fun u => if toy_busy u then 1%nat else 0%nat)
    1 (fun _ r => r = toy_response) 20 toy_start toy_command) as (s'&x&E&Q).
  - exact toy_start_idle.
  - exact toy_command_ok.
  - lia.
  - by vm_compute.
  - destruct x as [rc|[]]; [by destruct Q as (_&Me&_); destruct patient_timer|].
    destruct Q as (r&A&W&_). exists s', r. split_and!; [exact E|exact A|exact W].
Defined.

(** With the timer that always has expired the toy is not given the time to
    become ready. *)
Example impatient_platform :
  spi_transmit (toy_platform true) 20 toy_start (Zlen toy_command) toy_command =
  (TSS2_TCTI_RC_TRY_AGAIN,
   Spi (common toy_start) (Toy (Ready []) false) (replicate 6 0) None None).
Proof. by vm_compute. Qed.

Lemma spi_answers_witness :
  exists s' r, r = toy_response /\ idle toy_phase s' /\
    forall c : blob (spi_state toy), tctiContext c = Some (spi_tcti (toy_platform false) 20 toy_start) ->
      answers c (Zlen toy_command) toy_command r (spi_tcti (toy_platform false) 20 toy_start)
        (spi_transmit (toy_platform false) 20) s'.
Proof.
  destruct (spi_answers (toy_platform false) toy_rd toy_wr toy_phase
    (fun u => if toy_busy u then 1%nat else 0%nat)
    1 (fun _ r => r = toy_response) 20 toy_start toy_command) as (s'&I&[[Me _]|(r&A&W)]).
  - exact toy_start_idle.
  - exact toy_command_ok.
  - lia.
  - by vm_compute.
  - intros r ->. by vm_compute.
  - by destruct patient_timer.
  - exists s', r. split_and!; [exact A|exact I|exact W].
Defined.
