(* ===== verification/Policy.v ===== *)
(** * Policy digests of FAPI: [src/tss2-fapi/ifapi_policy_calculate.c].

    A policy is a list of elements, some of which (PolicyOR) have branches with
    policies of their own. The functions of this file compute the digest that
    a TPM session has after the policy was executed, for one hash algorithm;
    the digests are kept in lists, in the policy, in its branches and in its
    elements. The members that the calculation does not look at (paths, keys,
    tickets, descriptions) are left out of the records.

    Hashing is [ifapi_crypto_hash_*] of fapi_crypto.c, as it is compiled for
    OpenSSL 3. OpenSSL and the allocator are the interface [Evp] over a state
    [W]; giving memory back is not modelled, and a digest has at most
    EVP_MAX_MD_SIZE (64) bytes, for which every destination has room. A function
    runs over that state, the list of digests it was given and the element it
    was given, which some of them change. What is hashed between the start and
    the end of a computation is a list of parts ([hash_parts]). Branches and
    lists of a policy that was read are never NULL. *)

From stdpp Require Import base list strings.
From S2P Require Import Prelude Common MuSpec MuBase MuStruct MuTpm2b MuUnion MuPcr TpmTypes MuTypes SysCodes EsysBase EsysCrypto EsysMu EsysTr JsonCodes.

Open Scope tss_scope.
Open Scope esys_scope.
Open Scope Z_scope.

(** ** Types (ifapi_policy_types.h, tss2_policy.h) *)

Record TPMS_PCRVALUE := Pcrvalue { pcr : Z; pcr_hashAlg : Z; pcr_digest : bytes }.

Record TPMS_POLICYSIGNED := Policysigned { signed_policyRef : TPM2B; publicKey : TPM2B }.
Record TPMS_POLICYSECRET := Policysecret { secret_policyRef : TPM2B; objectName : TPM2B }.
Record TPMS_POLICYLOCALITY := Policylocality { pol_locality : Z }.
Record TPMS_POLICYNV := Policynv {
  nv_nvPublic : TPMS_NV_PUBLIC; nv_operandB : TPM2B; nv_offset : Z; nv_operation : Z }.
Record TPMS_POLICYCOUNTERTIMER := Policycountertimer {
  ct_operandB : TPM2B; ct_offset : Z; ct_operation : Z }.
Record TPMS_POLICYCOMMANDCODE := Policycommandcode { pol_code : Z }.
Record TPMS_POLICYCPHASH := Policycphash { pol_cpHash : TPM2B }.
(** [objectNames] has three elements. *)
Record TPMS_POLICYNAMEHASH := Policynamehash {
  nh_count : Z; objectNames : list TPM2B; nameHash : TPM2B }.
Record TPMS_POLICYDUPLICATIONSELECT := Policyduplicationselect {
  newParentName : TPM2B; includeObject : Z }.
Record TPMS_POLICYAUTHORIZE := Policyauthorize { authorize_policyRef : TPM2B; keyName : TPM2B }.
Record TPMS_POLICYNVWRITTEN := Policynvwritten { writtenSet : Z }.
Record TPMS_POLICYTEMPLATE := Policytemplate {
  templateHash : TPM2B; templatePublic : TPM2B_SUB TPMT_PUBLIC }.
Record TPMS_POLICYAUTHORIZENV := Policyauthorizenv { anv_nvPublic : TPMS_NV_PUBLIC }.
Record TPMS_POLICYPCR := Policypcr { pcrs : list TPMS_PCRVALUE }.

Abbreviation TPML_DIGEST_VALUES := (TPML TPMT_HA).

Record TPMT_POLICYELEMENT_of (U : Type) := Policyelement {
  element_policyDigests : TPML_DIGEST_VALUES; element : U }.
Arguments Policyelement {U}.
Arguments element_policyDigests {U}.
Arguments element {U}.

Record TPMS_POLICYBRANCH_of (U : Type) := Policybranch {
  branch_policyDigests : TPML_DIGEST_VALUES; branch_policy : list (TPMT_POLICYELEMENT_of U) }.
Arguments Policybranch {U}.
Arguments branch_policyDigests {U}.
Arguments branch_policy {U}.

(** The member [type] of an element is the constructor; [PolicyOther] stands
    for the types that are no element. *)
Inductive TPMU_POLICYELEMENT :=
| PolicyOr (branches : list (TPMS_POLICYBRANCH_of TPMU_POLICYELEMENT))
| PolicySigned (p : TPMS_POLICYSIGNED)
| PolicySecret (p : TPMS_POLICYSECRET)
| PolicyPCR (p : TPMS_POLICYPCR)
| PolicyLocality (p : TPMS_POLICYLOCALITY)
| PolicyNV (p : TPMS_POLICYNV)
| PolicyCounterTimer (p : TPMS_POLICYCOUNTERTIMER)
| PolicyCommandCode (p : TPMS_POLICYCOMMANDCODE)
| PolicyPhysicalPresence
| PolicyCpHash (p : TPMS_POLICYCPHASH)
| PolicyNameHash (p : TPMS_POLICYNAMEHASH)
| PolicyDuplicationSelect (p : TPMS_POLICYDUPLICATIONSELECT)
| PolicyAuthorize (p : TPMS_POLICYAUTHORIZE)
| PolicyAuthValue
| PolicyPassword
| PolicyNvWritten (p : TPMS_POLICYNVWRITTEN)
| PolicyTemplate (p : TPMS_POLICYTEMPLATE)
| PolicyAuthorizeNv (p : TPMS_POLICYAUTHORIZENV)
| PolicyAction
| PolicyOther.

Abbreviation TPMT_POLICYELEMENT := (TPMT_POLICYELEMENT_of TPMU_POLICYELEMENT).
Abbreviation TPMS_POLICYBRANCH := (TPMS_POLICYBRANCH_of TPMU_POLICYELEMENT).
Abbreviation TPML_POLICYELEMENTS := (list TPMT_POLICYELEMENT).

Record TPMS_POLICY := Policy {
  policy_policyDigests : TPML_DIGEST_VALUES; policy_policy : TPML_POLICYELEMENTS }.

(** ** Hashing (fapi_crypto.c) *)

Definition ifapi_hash_get_digest_size (hashAlgorithm : Z) : Z :=
  if hashAlgorithm =? TPM2_ALG_SHA1 then TPM2_SHA1_DIGEST_SIZE
  else if hashAlgorithm =? TPM2_ALG_SHA256 then TPM2_SHA256_DIGEST_SIZE
  else if hashAlgorithm =? TPM2_ALG_SHA384 then TPM2_SHA384_DIGEST_SIZE
  else if hashAlgorithm =? TPM2_ALG_SHA512 then TPM2_SHA512_DIGEST_SIZE
  else if hashAlgorithm =? TPM2_ALG_SM3_256 then TPM2_SM3_256_DIGEST_SIZE
  else 0.

Definition get_hash_md (hashAlgorithm : Z) : option string :=
  if hashAlgorithm =? TPM2_ALG_SHA1 then Some "SHA1"%string
  else if hashAlgorithm =? TPM2_ALG_SHA256 then Some "SHA256"%string
  else if hashAlgorithm =? TPM2_ALG_SHA384 then Some "SHA384"%string
  else if hashAlgorithm =? TPM2_ALG_SHA512 then Some "SHA512"%string
  else if hashAlgorithm =? TPM2_ALG_SM3_256 then Some "SM3"%string
  else None.

(** What is called: [evp_alloc] for calloc, OSSL_LIB_CTX_new and
    EVP_MD_CTX_create (is there memory?), EVP_MD_fetch, EVP_DigestInit_ex,
    EVP_DigestUpdate and EVP_DigestFinal_ex ([None] for failure). [X] is an
    EVP_MD_CTX. *)
Class Evp (W X : Type) := {
  evp_alloc : W -> bool * W;
  evp_fetch : option string -> W -> bool * W;
  evp_init : option string -> W -> option X * W;
  evp_update : X -> bytes -> W -> option X * W;
  evp_final : X -> W -> option bytes * W
}.

Section Calculate.
Context {H : Host} {W X : Type} {EV : Evp W X}.

(** What a function works on. *)
Record pol_state := Pol {
  world : W;
  current_digest : TPML_DIGEST_VALUES;
  current : TPMU_POLICYELEMENT
}.

Definition set_current_digest d s := Pol (world s) d (current s).
Definition set_current u s := Pol (world s) (current_digest s) u.

Abbreviation pol := (M pol_state).

Definition evp {A} (f : W -> A * W) : pol A := fun s =>
  let '(a, w) := f (world s) in Ret (Pol w (current_digest s) (current s), inr a).

Record IFAPI_CRYPTO_CONTEXT := Crypto_context { osslContext : X; hashSize : Z }.

Definition ifapi_crypto_hash_start (hashAlgorithm : Z) : pol IFAPI_CRYPTO_CONTEXT :=
  let! mycontext := evp evp_alloc in
  if negb mycontext then fail TSS2_FAPI_RC_MEMORY else
  let! libctx := evp evp_alloc in
  if negb libctx then fail TSS2_FAPI_RC_MEMORY else
  let md := get_hash_md hashAlgorithm in
  let! fetched := evp (evp_fetch md) in
  if negb fetched then fail TSS2_FAPI_RC_BAD_VALUE else
  let hashSize := ifapi_hash_get_digest_size hashAlgorithm in
  if hashSize =? 0 then fail TSS2_FAPI_RC_BAD_VALUE else
  let! created := evp evp_alloc in
  if negb created then fail TSS2_FAPI_RC_GENERAL_FAILURE else
  let! x := evp (evp_init md) in
  match x with
  | None => fail TSS2_FAPI_RC_GENERAL_FAILURE
  | Some x => ret (Crypto_context x hashSize)
  end.

Definition ifapi_crypto_hash_update (context : IFAPI_CRYPTO_CONTEXT) (buffer : bytes) :
    pol IFAPI_CRYPTO_CONTEXT :=
  let! x := evp (evp_update (osslContext context) buffer) in
  match x with
  | None => fail TSS2_FAPI_RC_GENERAL_FAILURE
  | Some x => ret (Crypto_context x (hashSize context))
  end.

(** The code, and the bytes that are stored at [digest]. *)
Definition ifapi_crypto_hash_finish (context : IFAPI_CRYPTO_CONTEXT) : pol (TSS2_RC * bytes) :=
  let! d := evp (evp_final (osslContext context)) in
  match d with
  | None => ret (TSS2_FAPI_RC_GENERAL_FAILURE, [])
  | Some d =>
      ret (if negb (Zlen d =? hashSize context) then TSS2_FAPI_RC_GENERAL_FAILURE
           else TSS2_RC_SUCCESS, d)
  end.

(** [HASH_UPDATE] and [HASH_UPDATE_BUFFER], one after the other. *)
Fixpoint hash_updates (context : IFAPI_CRYPTO_CONTEXT) (parts : list (pol bytes)) :
    pol IFAPI_CRYPTO_CONTEXT :=
  match parts with
  | [] => ret context
  | part :: parts =>
      let! b := part in
      let! context := ifapi_crypto_hash_update context b in
      hash_updates context parts
  end.

(** [ifapi_crypto_hash_start], the updates, [ifapi_crypto_hash_finish]. *)
Definition hash_parts (hashAlgorithm : Z) (parts : list (pol bytes)) : pol (TSS2_RC * bytes) :=
  let! context := ifapi_crypto_hash_start hashAlgorithm in
  let! context := hash_updates context parts in
  ifapi_crypto_hash_finish context.

(** Into a buffer that the code reads [n] bytes of. *)
Definition hash_buffer (hashAlgorithm : Z) (parts : list (pol bytes)) (n : Z) : pol bytes :=
  let! (r, w) := hash_parts hashAlgorithm parts in
  return_if_error r ;!
  lift (access (mem_read w 0 n)).

Definition part_cc (cc : Z) : pol bytes := mu_image 4 (Tss2_MU_TPM2_CC_Marshal cc).
Definition part_u16 (v : Z) : pol bytes := mu_image 2 (Tss2_MU_UINT16_Marshal v).
Definition part_byte (v : Z) : pol bytes := mu_image 1 (Tss2_MU_BYTE_Marshal v).

(** ** The digest that is extended *)

(** The search of [get_policy_digest_idx] (ifapi_policy_execute.c). *)
Fixpoint find_digest (l : list TPMT_HA) (n i : nat) (hashAlg : Z) : outcome (option nat) :=
  match n, l with
  | O, _ => Ret None
  | S _, [] => Undef
  | S n, d :: l =>
      if TPMT_HA_hashAlg d =? hashAlg then Ret (Some i) else find_digest l n (S i) hashAlg
  end.

Definition zero_ha (hashAlg : Z) : TPMT_HA := Mk_TPMT_HA hashAlg (TPMT_HA_digest zero_TPMT_HA).

Definition get_policy_digest_idx (hashAlg : Z) : pol nat :=
  let! s := get in
  let ds := current_digest s in
  let! i := lift (find_digest (elems ds) (Z.to_nat (count ds)) 0 hashAlg) in
  match i with
  | Some i => ret i
  | None =>
      if TPM2_NUM_PCR_BANKS <=? count ds then fail TSS2_FAPI_RC_BAD_VALUE else
      let i := Z.to_nat (count ds) in
      modify (set_current_digest (MkTPML (count ds + 1) (<[i := zero_ha hashAlg]> (elems ds)))) ;!
      ret i
  end.

(** [&current_digest->digests[idx].digest], [n] bytes of it. *)
Definition part_digest (idx : nat) (n : Z) : pol bytes := fun s =>
  lift (access (d ← elems (current_digest s) !! idx; mem_read (TPMT_HA_digest d) 0 n)) s.

Definition upd_digest (idx : nat) (f : TPMT_HA -> option TPMT_HA) : pol unit := fun s =>
  let ds := current_digest s in
  match (d ← elems ds !! idx; f d) with
  | Some d => Ret (set_current_digest (MkTPML (count ds) (<[idx := d]> (elems ds))) s, inr tt)
  | None => Undef
  end.

Definition store_digest (idx : nat) (w : bytes) : pol unit :=
  upd_digest idx (fun d =>
    b ← mem_write (TPMT_HA_digest d) 0 w; Some (Mk_TPMT_HA (TPMT_HA_hashAlg d) b)).

(** The hash of the parts becomes the digest. *)
Definition hash_to_digest (hashAlg : Z) (idx : nat) (parts : list (pol bytes)) : pol unit :=
  let! (r, w) := hash_parts hashAlg parts in
  store_digest idx w ;!
  return_if_error r.

(** The first lines of the functions: [hash_size] and [digest_idx]. *)
Definition hash_size_of (hashAlg : Z) : pol Z :=
  let n := ifapi_hash_get_digest_size hashAlg in
  if n =? 0 then fail TSS2_FAPI_RC_BAD_VALUE else ret n.

Definition size_and_idx (hashAlg : Z) : pol (Z * nat) :=
  let! n := hash_size_of hashAlg in
  let! idx := get_policy_digest_idx hashAlg in
  ret (n, idx).

(** ** PCRs *)

(** [pcrSelect[pcrIndex / 8] |= 1 << pcrIndex % 8], and the size. *)
Definition select_pcr (s : TPMS_PCR_SELECTION) (pcrIndex : Z) : outcome TPMS_PCR_SELECTION :=
  let i := Z.to_nat (pcrIndex / 8) in
  match TPMS_PCR_SELECTION_pcrSelect s !! i with
  | None => Undef
  | Some b =>
      Ret (Mk_TPMS_PCR_SELECTION (TPMS_PCR_SELECTION_hash s)
        (Z.max (TPMS_PCR_SELECTION_sizeofSelect s) (pcrIndex / 8 + 1))
        (<[i := Z.lor b (Z.shiftl 1 (pcrIndex mod 8) mod 256)]> (TPMS_PCR_SELECTION_pcrSelect s)))
  end.

(** The entries of [pcr_selection] that are in use; [n] come before them. *)
Fixpoint add_pcr (sel : list TPMS_PCR_SELECTION) (n : Z) (hashAlg pcrIndex : Z) :
    outcome (TSS2_RC * list TPMS_PCR_SELECTION) :=
  match sel with
  | [] =>
      if TPM2_NUM_PCR_BANKS <? n + 1 then Ret (TSS2_FAPI_RC_BAD_VALUE, []) else
      let* s := select_pcr (Mk_TPMS_PCR_SELECTION hashAlg 3
        (replicate (Z.to_nat TPM2_PCR_SELECT_MAX) 0)) pcrIndex in
      Ret (TSS2_RC_SUCCESS, [s])
  | s :: sel =>
      if hashAlg =? TPMS_PCR_SELECTION_hash s then
        let* s := select_pcr s pcrIndex in Ret (TSS2_RC_SUCCESS, s :: sel)
      else
        let* (r, sel) := add_pcr sel (n + 1) hashAlg pcrIndex in Ret (r, s :: sel)
  end.

Fixpoint select_pcrs (l : list TPMS_PCRVALUE) (sel : list TPMS_PCR_SELECTION) (max_pcr : Z) :
    outcome (TSS2_RC * (list TPMS_PCR_SELECTION * Z)) :=
  match l with
  | [] => Ret (TSS2_RC_SUCCESS, (sel, max_pcr))
  | p :: l =>
      let* (r, sel) := add_pcr sel 0 (pcr_hashAlg p) (pcr p) in
      if negb (r =? TSS2_RC_SUCCESS) then Ret (r, (sel, max_pcr)) else
      select_pcrs l sel (Z.max max_pcr (wrap 32 (pcr p + 1)))
  end.

(** The values of the list that belong to a PCR. *)
Definition pcr_values (l : list TPMS_PCRVALUE) (n : Z) (i : nat) : list (pol bytes) :=
  map (fun p => lift (access (mem_read (pcr_digest p) 0 n)))
    (filter (fun p => pcr p = Z.of_nat i) l).

Definition pcr_selected (s : TPMS_PCR_SELECTION) (i : nat) : outcome bool :=
  match TPMS_PCR_SELECTION_pcrSelect s !! (i / 8)%nat with
  | None => Undef
  | Some b => Ret (negb (Z.land b (Z.shiftl 1 (Z.of_nat i mod 8) mod 256) =? 0))
  end.

Fixpoint hash_bank (context : IFAPI_CRYPTO_CONTEXT) (l : list TPMS_PCRVALUE) (n : Z)
    (s : TPMS_PCR_SELECTION) (idxs : list nat) : pol IFAPI_CRYPTO_CONTEXT :=
  match idxs with
  | [] => ret context
  | i :: idxs =>
      let! selected := lift (pcr_selected s i) in
      let! context := (if selected : bool then hash_updates context (pcr_values l n i) else ret context) in
      hash_bank context l n s idxs
  end.

Fixpoint hash_banks (context : IFAPI_CRYPTO_CONTEXT) (l : list TPMS_PCRVALUE) (max_pcr : Z)
    (sel : list TPMS_PCR_SELECTION) : pol IFAPI_CRYPTO_CONTEXT :=
  match sel with
  | [] => ret context
  | s :: sel =>
      let! n := hash_size_of (TPMS_PCR_SELECTION_hash s) in
      let! context := hash_bank context l n s (seq 0 (Z.to_nat max_pcr)) in
      hash_banks context l max_pcr sel
  end.

Definition pcr_selection_of (sel : list TPMS_PCR_SELECTION) : TPML TPMS_PCR_SELECTION :=
  MkTPML (Zlen sel) (sel ++ replicate (Z.to_nat TPM2_NUM_PCR_BANKS - length sel) zero_TPMS_PCR_SELECTION).

(** [ifapi_compute_policy_digest] (ifapi_helpers.c): the selection and the
    bytes at [pcr_digest->buffer]. *)
Definition ifapi_compute_policy_digest (l : list TPMS_PCRVALUE) (hash_alg : Z) :
    pol (TPML TPMS_PCR_SELECTION * bytes) :=
  let! (r, (sel, max_pcr)) := lift (select_pcrs l [] 0) in
  return_if_error r ;!
  let! context := ifapi_crypto_hash_start hash_alg in
  let! _ := hash_size_of hash_alg in
  let! context := hash_banks context l max_pcr sel in
  let! (r, w) := ifapi_crypto_hash_finish context in
  return_if_error r ;!
  ret (pcr_selection_of sel, w).

Definition part_selection (sel : TPML TPMS_PCR_SELECTION) : pol bytes :=
  mu_image (lsize lay_TPML_PCR_SELECTION) (Tss2_MU_TPML_PCR_SELECTION_Marshal (Some sel)).

Definition ifapi_compute_policy_pcr (policy : TPMS_POLICYPCR) (hashAlg : Z) : pol unit :=
  let! (n, idx) := size_and_idx hashAlg in
  let! (sel, digest) := ifapi_compute_policy_digest (pcrs policy) hashAlg in
  hash_to_digest hashAlg idx [
    part_digest idx n; part_cc TPM2_CC_PolicyPCR; part_selection sel;
    lift (access (mem_read digest 0 n))].

(** ** Names and references *)

Definition calculate_policy_key_param (command_code : Z) (name policyRef : option TPM2B) (n : Z)
    (hashAlg : Z) (idx : nat) : pol unit :=
  hash_to_digest hashAlg idx ([part_digest idx n; part_cc command_code] ++
    match name with
    | Some nm => if 0 <? size nm then [read2b nm] else []
    | None => []
    end) ;!
  match policyRef with
  | Some ref => hash_to_digest hashAlg idx [part_digest idx n; read2b ref]
  | None => ret tt
  end.

Definition ifapi_calculate_policy_signed (policy : TPMS_POLICYSIGNED) (hashAlg : Z) : pol unit :=
  let! (n, idx) := size_and_idx hashAlg in
  calculate_policy_key_param TPM2_CC_PolicySigned (Some (publicKey policy))
    (Some (signed_policyRef policy)) n hashAlg idx.

(** [ifapi_nv_get_name] (ifapi_helpers.c): the bytes of the name. *)
Definition ifapi_nv_get_name (publicInfo : TPMS_NV_PUBLIC) : pol bytes :=
  let alg := TPMS_NV_PUBLIC_nameAlg publicInfo in
  if alg =? TPM2_ALG_NULL then ret []
  else
    let! (r, w) := hash_parts alg [
      mu_image (lsize lay_TPMS_NV_PUBLIC) (Tss2_MU_TPMS_NV_PUBLIC_Marshal (Some publicInfo))] in
    return_if_error r ;!
    let! a := mu_image 2 (Tss2_MU_TPMI_ALG_HASH_Marshal alg) in
    ret (a ++ w).

Definition set_written (p : TPMS_NV_PUBLIC) : TPMS_NV_PUBLIC :=
  Mk_TPMS_NV_PUBLIC (TPMS_NV_PUBLIC_nvIndex p) (TPMS_NV_PUBLIC_nameAlg p)
    (Z.lor (TPMS_NV_PUBLIC_attributes p) TPMA_NV_WRITTEN) (TPMS_NV_PUBLIC_authPolicy p)
    (TPMS_NV_PUBLIC_dataSize p).

(** A name that was just computed. *)
Definition name_2b (nm : bytes) : TPM2B := MkTPM2B (Zlen nm) nm.

Definition ifapi_calculate_policy_authorize_nv (policy : TPMS_POLICYAUTHORIZENV) (hashAlg : Z) :
    pol unit :=
  let policy := Policyauthorizenv (set_written (anv_nvPublic policy)) in
  modify (set_current (PolicyAuthorizeNv policy)) ;!
  let! nv_name := ifapi_nv_get_name (anv_nvPublic policy) in
  let! (n, idx) := size_and_idx hashAlg in
  calculate_policy_key_param TPM2_CC_PolicyAuthorizeNV (Some (name_2b nv_name)) None n hashAlg idx.

Definition ifapi_calculate_policy_duplicate (policy : TPMS_POLICYDUPLICATIONSELECT) (hashAlg : Z) :
    pol unit :=
  let! (n, idx) := size_and_idx hashAlg in
  hash_to_digest hashAlg idx [
    part_digest idx n; part_cc TPM2_CC_PolicyDuplicationSelect; read2b (newParentName policy);
    part_byte (includeObject policy)].

Definition ifapi_calculate_policy_authorize (policy : TPMS_POLICYAUTHORIZE) (hashAlg : Z) : pol unit :=
  let! (n, idx) := size_and_idx hashAlg in
  calculate_policy_key_param TPM2_CC_PolicyAuthorize (Some (keyName policy))
    (Some (authorize_policyRef policy)) n hashAlg idx.

Definition ifapi_calculate_policy_secret (policy : TPMS_POLICYSECRET) (hashAlg : Z) : pol unit :=
  let! (n, idx) := size_and_idx hashAlg in
  calculate_policy_key_param TPM2_CC_PolicySecret (Some (objectName policy))
    (Some (secret_policyRef policy)) n hashAlg idx.

(** ** Comparisons *)

Definition ifapi_calculate_policy_counter_timer (policy : TPMS_POLICYCOUNTERTIMER) (hashAlg : Z) :
    pol unit :=
  let! (n, idx) := size_and_idx hashAlg in
  let! counter_timer_hash := hash_buffer hashAlg [
    read2b (ct_operandB policy); part_u16 (ct_offset policy); part_u16 (ct_operation policy)] n in
  hash_to_digest hashAlg idx [
    part_digest idx n; part_cc TPM2_CC_PolicyCounterTimer; ret counter_timer_hash].

(** Here the sizes are those that [ifapi_crypto_hash_finish] reports. *)
Definition ifapi_calculate_policy_nv (policy : TPMS_POLICYNV) (hashAlg : Z) : pol unit :=
  let policy := Policynv (set_written (nv_nvPublic policy)) (nv_operandB policy) (nv_offset policy)
    (nv_operation policy) in
  modify (set_current (PolicyNV policy)) ;!
  let! nv_name := ifapi_nv_get_name (nv_nvPublic policy) in
  let! idx := get_policy_digest_idx hashAlg in
  let n := ifapi_hash_get_digest_size hashAlg in
  let! nv_hash := hash_buffer hashAlg [
    read2b (nv_operandB policy); part_u16 (nv_offset policy); part_u16 (nv_operation policy)] n in
  hash_to_digest hashAlg idx [
    part_digest idx n; part_cc TPM2_CC_PolicyNV; ret nv_hash; ret nv_name].

(** ** Command codes and hashes *)

Definition ifapi_calculate_simple_policy (command_code1 command_code2 : Z) (hashAlg : Z) : pol unit :=
  let! (n, idx) := size_and_idx hashAlg in
  hash_to_digest hashAlg idx ([part_digest idx n] ++
    (if command_code1 =? 0 then [] else [part_cc command_code1]) ++
    (if command_code2 =? 0 then [] else [part_cc command_code2])).

Definition ifapi_calculate_policy_physical_presence (hashAlg : Z) : pol unit :=
  ifapi_calculate_simple_policy TPM2_CC_PolicyPhysicalPresence 0 hashAlg.
Definition ifapi_calculate_policy_auth_value (hashAlg : Z) : pol unit :=
  ifapi_calculate_simple_policy TPM2_CC_PolicyAuthValue 0 hashAlg.
Definition ifapi_calculate_policy_password (hashAlg : Z) : pol unit :=
  ifapi_calculate_simple_policy TPM2_CC_PolicyAuthValue 0 hashAlg.
Definition ifapi_calculate_policy_command_code (policy : TPMS_POLICYCOMMANDCODE) (hashAlg : Z) :
    pol unit :=
  ifapi_calculate_simple_policy TPM2_CC_PolicyCommandCode (pol_code policy) hashAlg.

Definition ifapi_calculate_policy_digest_hash (digest : TPM2B) (hashAlg command_code : Z) : pol unit :=
  let! (n, idx) := size_and_idx hashAlg in
  hash_to_digest hashAlg idx [part_digest idx n; part_cc command_code; read2b digest].

(** The loop runs from 0 to [count], and takes one name more than there are. *)
Definition ifapi_calculate_policy_name_hash (policy : TPMS_POLICYNAMEHASH) (hashAlg : Z) : pol unit :=
  let! _ := hash_size_of hashAlg in
  let! (r, w) := hash_parts hashAlg
    (map (fun i => let! nm := lift (access (objectNames policy !! i)) in read2b nm)
       (seq 0 (Z.to_nat (nh_count policy) + 1))) in
  let! b := lift (access (mem_write (buffer (nameHash policy)) 0 w)) in
  let stored n := Policynamehash (nh_count policy) (objectNames policy) (MkTPM2B n b) in
  modify (set_current (PolicyNameHash (stored (size (nameHash policy))))) ;!
  return_if_error r ;!
  let policy := stored (ifapi_hash_get_digest_size hashAlg) in
  modify (set_current (PolicyNameHash policy)) ;!
  ifapi_calculate_policy_digest_hash (nameHash policy) hashAlg TPM2_CC_PolicyNameHash.

Definition ifapi_calculate_policy_cp_hash (policy : TPMS_POLICYCPHASH) (hashAlg : Z) : pol unit :=
  ifapi_calculate_policy_digest_hash (pol_cpHash policy) hashAlg TPM2_CC_PolicyCpHash.

Definition ifapi_calculate_policy_locality (policy : TPMS_POLICYLOCALITY) (hashAlg : Z) : pol unit :=
  let! (n, idx) := size_and_idx hashAlg in
  hash_to_digest hashAlg idx [
    part_digest idx n; part_cc TPM2_CC_PolicyLocality; part_byte (pol_locality policy)].

Definition ifapi_calculate_policy_nv_written (policy : TPMS_POLICYNVWRITTEN) (hashAlg : Z) : pol unit :=
  let! (n, idx) := size_and_idx hashAlg in
  hash_to_digest hashAlg idx [
    part_digest idx n; part_cc TPM2_CC_PolicyNvWritten; part_byte (writtenSet policy)].

Definition ifapi_calculate_policy_template (policy : TPMS_POLICYTEMPLATE) (hashAlg : Z) : pol unit :=
  let! (n, idx) := size_and_idx hashAlg in
  let! used_template_hash :=
    (if size (templateHash policy) =? 0 then
       let! image := mu_image (lsize lay_TPMT_PUBLIC)
         (Tss2_MU_TPMT_PUBLIC_Marshal (Some (smember (templatePublic policy)))) in
       hash_buffer hashAlg [ret image] n
     else read2b (templateHash policy)) in
  hash_to_digest hashAlg idx [
    part_digest idx n; part_cc TPM2_CC_PolicyTemplate; ret used_template_hash].

(** ** Lists and branches *)

Definition copy_policy_digest (dest src : TPML_DIGEST_VALUES) (idx : nat) (n : Z) :
    outcome TPML_DIGEST_VALUES :=
  match elems dest !! idx, elems src !! idx with
  | Some d, Some s =>
      let* w := access (mem_read (TPMT_HA_digest s) 0 n) in
      let* b := access (mem_write (TPMT_HA_digest d) 0 w) in
      Ret (MkTPML (count src) (<[idx := Mk_TPMT_HA (TPMT_HA_hashAlg s) b]> (elems dest)))
  | _, _ => Undef
  end.

(** The part of [ifapi_calculate_policy_or] behind the first loop. The call of
    memset starts at the entry of the list, which is two bytes before the
    digest. *)
Definition ifapi_calculate_policy_or (branches : list TPMS_POLICYBRANCH) (hash_alg n : Z)
    (idx : nat) : pol unit :=
  upd_digest idx (fun d =>
    b ← mem_write (TPMT_HA_digest d) 0 (replicate (Z.to_nat (n - 2)) 0); Some (Mk_TPMT_HA 0 b)) ;!
  let! context := ifapi_crypto_hash_start hash_alg in
  let! context := hash_updates context ([part_digest idx n; part_cc TPM2_CC_PolicyOR] ++
    map (fun br =>
      modify (fun s => set_current_digest
        (MkTPML (count (branch_policyDigests br)) (elems (current_digest s))) s) ;!
      lift (access (d ← elems (branch_policyDigests br) !! idx; mem_read (TPMT_HA_digest d) 0 n)))
    branches) in
  upd_digest idx (fun d => Some (Mk_TPMT_HA hash_alg (TPMT_HA_digest d))) ;!
  let! (r, w) := ifapi_crypto_hash_finish context in
  store_digest idx w ;!
  return_if_error r.

(** The [switch] of [ifapi_calculate_policy], but for PolicyOR. *)
Definition calculate_element (u : TPMU_POLICYELEMENT) (hash_alg : Z) : pol unit :=
  match u with
  | PolicyPCR p => ifapi_compute_policy_pcr p hash_alg
  | PolicySigned p => ifapi_calculate_policy_signed p hash_alg
  | PolicyDuplicationSelect p => ifapi_calculate_policy_duplicate p hash_alg
  | PolicyAuthorizeNv p => ifapi_calculate_policy_authorize_nv p hash_alg
  | PolicyAuthorize p => ifapi_calculate_policy_authorize p hash_alg
  | PolicySecret p => ifapi_calculate_policy_secret p hash_alg
  | PolicyNV p => ifapi_calculate_policy_nv p hash_alg
  | PolicyNvWritten p => ifapi_calculate_policy_nv_written p hash_alg
  | PolicyCounterTimer p => ifapi_calculate_policy_counter_timer p hash_alg
  | PolicyPhysicalPresence => ifapi_calculate_policy_physical_presence hash_alg
  | PolicyAuthValue => ifapi_calculate_policy_auth_value hash_alg
  | PolicyPassword => ifapi_calculate_policy_password hash_alg
  | PolicyCommandCode p => ifapi_calculate_policy_command_code p hash_alg
  | PolicyNameHash p => ifapi_calculate_policy_name_hash p hash_alg
  | PolicyCpHash p => ifapi_calculate_policy_cp_hash p hash_alg
  | PolicyLocality p => ifapi_calculate_policy_locality p hash_alg
  | PolicyAction => ret tt
  | PolicyTemplate p => ifapi_calculate_policy_template p hash_alg
  | PolicyOr _ | PolicyOther => fail TSS2_FAPI_RC_BAD_VALUE
  end.

Section Lists.
Context (hash_alg hash_size : Z) (digest_idx : nat).

(** An element with its list of digests. *)
Definition run_element (m : pol unit) (u : TPMU_POLICYELEMENT) (ds : TPML_DIGEST_VALUES) (w : W) :
    outcome (TSS2_RC * (TPMT_POLICYELEMENT * W)) :=
  let* (s, x) := m (Pol w ds u) in
  Ret (match x with inr _ => TSS2_RC_SUCCESS | inl r => r end,
       (Policyelement (current_digest s) (current s), world s)).

Section Loops.
Context (calculate : TPMU_POLICYELEMENT -> TPML_DIGEST_VALUES -> W ->
  outcome (TSS2_RC * (TPMT_POLICYELEMENT * W))).

(** The loop of [ifapi_calculate_policy]. *)
Fixpoint calculate_elements (policy : TPML_POLICYELEMENTS) (policyDigests : TPML_DIGEST_VALUES) (w : W) :
    outcome (TSS2_RC * (TPML_POLICYELEMENTS * (TPML_DIGEST_VALUES * W))) :=
  match policy with
  | [] => Ret (TSS2_RC_SUCCESS, ([], (policyDigests, w)))
  | Policyelement ds u :: policy =>
      let* ds := copy_policy_digest ds policyDigests digest_idx hash_size in
      let* (r, (e, w)) := calculate u ds w in
      if negb (r =? TSS2_RC_SUCCESS) then Ret (r, (e :: policy, (policyDigests, w))) else
      let* policyDigests :=
        copy_policy_digest policyDigests (element_policyDigests e) digest_idx hash_size in
      let* (r, (policy, x)) := calculate_elements policy policyDigests w in
      Ret (r, (e :: policy, x))
  end.

(** The first loop of [ifapi_calculate_policy_or]. *)
Fixpoint calculate_branches (branches : list TPMS_POLICYBRANCH) (current_digest : TPML_DIGEST_VALUES)
    (w : W) : outcome (TSS2_RC * (list TPMS_POLICYBRANCH * W)) :=
  match branches with
  | [] => Ret (TSS2_RC_SUCCESS, ([], w))
  | Policybranch ds policy :: branches =>
      let* ds := copy_policy_digest ds current_digest digest_idx hash_size in
      let* (r, (policy, (ds, w))) := calculate_elements policy ds w in
      let br := Policybranch ds policy in
      if negb (r =? TSS2_RC_SUCCESS) then Ret (r, (br :: branches, w)) else
      let* (r, (branches, w)) := calculate_branches branches current_digest w in
      Ret (r, (br :: branches, w))
  end.

End Loops.

Fixpoint calculate (u : TPMU_POLICYELEMENT) (ds : TPML_DIGEST_VALUES) (w : W) {struct u} :
    outcome (TSS2_RC * (TPMT_POLICYELEMENT * W)) :=
  match u with
  | PolicyOr branches =>
      let* (r, (branches, w)) := calculate_branches calculate branches ds w in
      if negb (r =? TSS2_RC_SUCCESS) then Ret (r, (Policyelement ds (PolicyOr branches), w)) else
      run_element (ifapi_calculate_policy_or branches hash_alg hash_size digest_idx)
        (PolicyOr branches) ds w
  | u => run_element (calculate_element u hash_alg) u ds w
  end.

Definition ifapi_calculate_policy := calculate_elements calculate.

End Lists.

(** The end of [ifapi_calculate_tree_ex] (ifapi_policy.c), once the policy was
    read and instantiated: [hash_size], [digest_idx] and the policy. *)
Fixpoint last_digest (l : list TPMT_HA) (n i : nat) (hash_alg : Z) (found : option nat) :
    outcome (option nat) :=
  match n, l with
  | O, _ => Ret found
  | S _, [] => Undef
  | S n, d :: l =>
      last_digest l n (S i) hash_alg (if TPMT_HA_hashAlg d =? hash_alg then Some i else found)
  end.

Definition calculate_tree (policy : TPMS_POLICY) (hash_alg : Z) (w : W) :
    outcome (TSS2_RC * (option (Z * nat) * (TPMS_POLICY * W))) :=
  let n := ifapi_hash_get_digest_size hash_alg in
  if n =? 0 then Ret (TSS2_FAPI_RC_BAD_VALUE, (None, (policy, w))) else
  let ds := policy_policyDigests policy in
  let* found := last_digest (elems ds) (Z.to_nat (count ds)) 0 hash_alg None in
  match found with
  | Some i => Ret (TSS2_RC_SUCCESS, (Some (n, i), (policy, w)))
  | None =>
      if TPM2_NUM_PCR_BANKS <=? count ds then Ret (TSS2_FAPI_RC_BAD_VALUE, (None, (policy, w))) else
      let i := Z.to_nat (count ds) in
      let ds := MkTPML (count ds + 1) (<[i := zero_ha hash_alg]> (elems ds)) in
      let* (r, (l, (ds, w))) := ifapi_calculate_policy hash_alg n i (policy_policy policy) ds w in
      Ret (r, (Some (n, i), (Policy ds l, w)))
  end.

End Calculate.
