(* ===== verification/PolicyOk.v ===== *)
(** * Policy digests of FAPI: the parts of the calculation.

    The contract of OpenSSL ([EvpLaws]), a logic for computations that may
    fail only as OpenSSL does ([runs]), and what hashing, the marshaled parts
    and the functions for single elements compute, in the terms of TPM 2.0
    Part 3, chapter "Enhanced Authorization Commands" (module [Tpm]). *)

From stdpp Require Import base list strings.
From S2P Require Import Prelude Common MuSpec MuBase MuBaseOk MuStruct MuTpm2b MuUnion MuPcr TpmTypes MuTypes MuTypesOk SysCodes EsysBase EsysCrypto EsysMu EsysLogic EsysCryptoOk JsonCodes Policy.

Open Scope tss_scope.
Open Scope esys_scope.
Open Scope Z_scope.

(** ** The contract of OpenSSL *)

(** [md_digest md m] is the digest of [m]; the context [x] was started with
    [md] and has been given [m] when [md_absorbs x md m]; [md_fails] says that
    the library or the allocator may fail. *)
Record evp_model (X : Type) : Type := EvpModel {
  md_digest : string -> bytes -> bytes;
  md_absorbs : X -> string -> bytes -> Prop;
  md_fails : Prop
}.
Arguments EvpModel {X}.
Arguments md_digest {X}.
Arguments md_absorbs {X}.
Arguments md_fails {X}.

Class EvpLaws {W X} (EV : Evp W X) (D : evp_model X) : Prop := {
  law_alloc w w' : evp_alloc w = (false, w') -> md_fails D;
  law_fetch alg md w w' : get_hash_md alg = Some md ->
    evp_fetch (Some md) w = (false, w') -> md_fails D;
  law_init alg md w x w' : get_hash_md alg = Some md -> evp_init (Some md) w = (x, w') ->
    match x with Some x => md_absorbs D x md [] | None => md_fails D end;
  law_update md m x b w x' w' : md_absorbs D x md m -> evp_update x b w = (x', w') ->
    match x' with Some x' => md_absorbs D x' md (m ++ b) | None => md_fails D end;
  law_final md m x w d w' : md_absorbs D x md m -> evp_final x w = (d, w') ->
    match d with Some d => d = md_digest D md m | None => md_fails D end;
  law_size alg md m : get_hash_md alg = Some md ->
    Zlen (md_digest D md m) = ifapi_hash_get_digest_size alg
}.

(** The sizes of the digests *)
Lemma digest_size_bound alg :
  ifapi_hash_get_digest_size alg <> 0 -> 20 <= ifapi_hash_get_digest_size alg <= 64.
Proof. unfold ifapi_hash_get_digest_size. repeat case_match; intros; vm_compute in *; done. Qed.

Lemma digest_size_md alg :
  ifapi_hash_get_digest_size alg <> 0 -> exists md, get_hash_md alg = Some md.
Proof. unfold ifapi_hash_get_digest_size, get_hash_md. repeat case_match; eauto. done. Qed.

(** ** Computations that fail only as [E] allows *)

Definition runs {St A} (E : TSS2_RC -> Prop) (m : M St A) (s : St) (Q : St -> A -> Prop) : Prop :=
  match m s with
  | Ret (s', inr a) => Q s' a
  | Ret (_, inl r) => E r
  | Undef => False
  end.

Section Runs.
Context {St : Type} (E : TSS2_RC -> Prop).
Implicit Types (s : St).

Lemma runs_mono {A} (m : M St A) s (P Q : St -> A -> Prop) :
  runs E m s P -> (forall s' a, P s' a -> Q s' a) -> runs E m s Q.
Proof. unfold runs. destruct (m s) as [[s' [r|a]]|]; auto. Qed.

Lemma runs_bind {A B} (m : M St A) (k : A -> M St B) s Q :
  runs E m s (fun s' a => runs E (k a) s' Q) -> runs E (bind m k) s Q.
Proof. unfold runs, bind. destruct (m s) as [[s' [r|a]]|]; auto. Qed.

Lemma runs_eq {A} (m : M St A) s s' a Q : m s = Ret (s', inr a) -> Q s' a -> runs E m s Q.
Proof. unfold runs. by intros ->. Qed.

Lemma runs_ret {A} (a : A) s (Q : St -> A -> Prop) : Q s a -> runs E (ret a) s Q.
Proof. done. Qed.

Lemma runs_modify f s (Q : St -> unit -> Prop) : Q (f s) tt -> runs E (modify f) s Q.
Proof. done. Qed.

Lemma runs_fail {A} r s (Q : St -> A -> Prop) : E r -> runs E (fail r) s Q.
Proof. done. Qed.

Lemma runs_return_if_error r s (Q : St -> unit -> Prop) :
  (r = TSS2_RC_SUCCESS -> Q s tt) -> (r <> TSS2_RC_SUCCESS -> E r) ->
  runs E (return_if_error r) s Q.
Proof. unfold runs, return_if_error. destruct (Z.eqb_spec r TSS2_RC_SUCCESS); cbn; auto. Qed.
End Runs.

(** ** The policy commands of TPM 2.0 Part 3 *)

(** The image of an object *)
Definition image {T} (sp : spec T) (x : T) : bytes := default [] (s_wire sp x).

Module Tpm.
Section Tpm.
Context (hash : Z -> bytes -> bytes) (alg : Z).

(** The digest of a session that was just started *)
Definition zero_digest : bytes := replicate (Z.to_nat (ifapi_hash_get_digest_size alg)) 0.

(** H(policyDigest || commandCode || arguments) *)
Definition extend (d : bytes) (cc : Z) (args : list bytes) : bytes :=
  hash alg (d ++ be_bytes 4 cc ++ concat args).

(** [PolicyUpdate] of Part 3, 23.2.3: the name, then the reference *)
Definition PolicyUpdate (d : bytes) (cc : Z) (name ref : bytes) : bytes :=
  hash alg (extend d cc [name] ++ ref).

(** The Name of an NV index (Part 1, 16) *)
Definition nv_name (p : TPMS_NV_PUBLIC) : bytes :=
  if TPMS_NV_PUBLIC_nameAlg p =? TPM2_ALG_NULL then []
  else be_bytes 2 (TPMS_NV_PUBLIC_nameAlg p) ++
       hash (TPMS_NV_PUBLIC_nameAlg p) (image spec_TPMS_NV_PUBLIC p).

(** What is compared: H(operandB || offset || operation) *)
Definition comparison (operandB : TPM2B) (offset operation : Z) : bytes :=
  hash alg (contents operandB ++ be_bytes 2 offset ++ be_bytes 2 operation).

(** The banks of a list of PCR values, the bitmap of a bank, and the values of
    the PCRs that it selects, from the lowest on *)
Definition banks (l : list TPMS_PCRVALUE) : list Z :=
  fold_left (fun bs p => if decide (pcr_hashAlg p ∈ bs) then bs else bs ++ [pcr_hashAlg p]) l [].

Definition in_bank (bank : Z) (l : list TPMS_PCRVALUE) : list TPMS_PCRVALUE :=
  filter (fun p => pcr_hashAlg p = bank) l.

Definition bitmap (bank : Z) (l : list TPMS_PCRVALUE) : bytes :=
  map (fun k => fold_left (fun b p => if pcr p / 8 =? k then Z.lor b (2 ^ (pcr p mod 8)) else b)
         (in_bank bank l) 0) [0; 1; 2; 3].

Definition bitmap_size (bank : Z) (l : list TPMS_PCRVALUE) : Z :=
  fold_left (fun n p => Z.max n (pcr p / 8 + 1)) (in_bank bank l) 3.

Definition selection (l : list TPMS_PCRVALUE) : bytes :=
  be_bytes 4 (Zlen (banks l)) ++ concat (map (fun bank =>
    be_bytes 2 bank ++ be_bytes 1 (bitmap_size bank l) ++
    take (Z.to_nat (bitmap_size bank l)) (bitmap bank l)) (banks l)).

Definition pcr_value (bank : Z) (l : list TPMS_PCRVALUE) (i : nat) : bytes :=
  match in_bank bank (filter (fun p => pcr p = Z.of_nat i) l) with
  | p :: _ => take (Z.to_nat (ifapi_hash_get_digest_size bank)) (pcr_digest p)
  | [] => []
  end.

Definition values (l : list TPMS_PCRVALUE) : bytes :=
  concat (map (fun bank => concat (map (pcr_value bank l) (seq 0 32))) (banks l)).

(** The names of a PolicyNameHash *)
Definition names (p : TPMS_POLICYNAMEHASH) : bytes :=
  concat (map contents (take (Z.to_nat (nh_count p)) (objectNames p))).

Definition template_hash (p : TPMS_POLICYTEMPLATE) : bytes :=
  if size (templateHash p) =? 0
  then hash alg (image spec_TPMT_PUBLIC (smember (templatePublic p)))
  else contents (templateHash p).

(** The digest after a command other than PolicyOR *)
Definition command (d : bytes) (u : TPMU_POLICYELEMENT) : bytes :=
  match u with
  | PolicySigned p =>
      PolicyUpdate d TPM2_CC_PolicySigned (contents (publicKey p)) (contents (signed_policyRef p))
  | PolicySecret p =>
      PolicyUpdate d TPM2_CC_PolicySecret (contents (objectName p)) (contents (secret_policyRef p))
  | PolicyPCR p => extend d TPM2_CC_PolicyPCR [selection (pcrs p); hash alg (values (pcrs p))]
  | PolicyLocality p => extend d TPM2_CC_PolicyLocality [be_bytes 1 (pol_locality p)]
  | PolicyNV p =>
      extend d TPM2_CC_PolicyNV [comparison (nv_operandB p) (nv_offset p) (nv_operation p);
        nv_name (set_written (nv_nvPublic p))]
  | PolicyCounterTimer p =>
      extend d TPM2_CC_PolicyCounterTimer [comparison (ct_operandB p) (ct_offset p) (ct_operation p)]
  | PolicyCommandCode p => extend d TPM2_CC_PolicyCommandCode [be_bytes 4 (pol_code p)]
  | PolicyPhysicalPresence => extend d TPM2_CC_PolicyPhysicalPresence []
  | PolicyCpHash p => extend d TPM2_CC_PolicyCpHash [contents (pol_cpHash p)]
  | PolicyNameHash p => extend d TPM2_CC_PolicyNameHash [hash alg (names p)]
  | PolicyDuplicationSelect p =>
      extend d TPM2_CC_PolicyDuplicationSelect [contents (newParentName p); be_bytes 1 (includeObject p)]
  | PolicyAuthorize p =>
      PolicyUpdate zero_digest TPM2_CC_PolicyAuthorize (contents (keyName p))
        (contents (authorize_policyRef p))
  | PolicyAuthValue | PolicyPassword => extend d TPM2_CC_PolicyAuthValue []
  | PolicyNvWritten p => extend d TPM2_CC_PolicyNvWritten [be_bytes 1 (writtenSet p)]
  | PolicyTemplate p => extend d TPM2_CC_PolicyTemplate [template_hash p]
  | PolicyAuthorizeNv p =>
      extend zero_digest TPM2_CC_PolicyAuthorizeNV [nv_name (set_written (anv_nvPublic p))]
  | PolicyAction | PolicyOr _ | PolicyOther => d
  end.

(** A list of commands, one after the other *)
Definition run (element_digest : bytes -> TPMU_POLICYELEMENT -> bytes) (l : TPML_POLICYELEMENTS)
    (d : bytes) : bytes :=
  fold_left (fun d e => element_digest d (element e)) l d.

(** PolicyOR resets the digest and takes those of all branches. *)
Fixpoint element_digest (d : bytes) (u : TPMU_POLICYELEMENT) : bytes :=
  match u with
  | PolicyOr branches =>
      extend zero_digest TPM2_CC_PolicyOR
        (map (fun br => run element_digest (branch_policy br) d) branches)
  | u => command d u
  end.

Definition policy_digest (l : TPML_POLICYELEMENTS) : bytes := run element_digest l zero_digest.

End Tpm.
End Tpm.

(** ** Hashing *)

Section Hash.
Context {H : Host} {W X : Type} {EV : Evp W X} (D : evp_model X) {L : EvpLaws EV D}.
Abbreviation pol := (M (pol_state (W:=W))).
Implicit Types (u : TPMU_POLICYELEMENT) (ds : TPML_DIGEST_VALUES) (w : W).

(** The digest of [m] for an algorithm of the TPM *)
Definition tpm_hash (alg : Z) (m : bytes) : bytes :=
  match get_hash_md alg with Some md => md_digest D md m | None => [] end.

(** The codes of the functions of fapi_crypto.c when OpenSSL fails *)
Definition crypto_rc (r : TSS2_RC) : Prop :=
  md_fails D /\ r ∈ [TSS2_FAPI_RC_MEMORY; TSS2_FAPI_RC_BAD_VALUE; TSS2_FAPI_RC_GENERAL_FAILURE].
Abbreviation runs := (runs crypto_rc).

Lemma crypto_rc_nonzero r : crypto_rc r -> r <> TSS2_RC_SUCCESS.
Proof. intros [_ I] ->. by vm_compute in I; repeat (apply elem_of_cons in I as [?|I]); try apply elem_of_nil in I. Qed.

Lemma crypto_rc_intro r :
  md_fails D -> r ∈ [TSS2_FAPI_RC_MEMORY; TSS2_FAPI_RC_BAD_VALUE; TSS2_FAPI_RC_GENERAL_FAILURE] ->
  crypto_rc r.
Proof. done. Qed.
Ltac failing := apply crypto_rc_intro; [|repeat (first [by left | right])].

(** The part [p] gives the bytes [b], whatever the world. *)
Definition yields ds u (p : pol bytes) (b : bytes) : Prop :=
  forall w, p (Pol w ds u) = Ret (Pol w ds u, inr b).

Lemma runs_evp {A} (f : W -> A * W) w ds u (Q : pol_state -> A -> Prop) :
  (forall a w', f w = (a, w') -> Q (Pol w' ds u) a) -> runs (evp f) (Pol w ds u) Q.
Proof. unfold runs, evp. cbn. destruct (f w) as [a w']. auto. Qed.

Lemma hash_start_runs alg w ds u :
  ifapi_hash_get_digest_size alg <> 0 ->
  runs (ifapi_crypto_hash_start alg) (Pol w ds u) (fun s c =>
    exists w' md, s = Pol w' ds u /\ get_hash_md alg = Some md /\
      md_absorbs D (osslContext c) md [] /\ hashSize c = ifapi_hash_get_digest_size alg).
Proof.
  intros Hn. destruct (digest_size_md alg Hn) as [md Hmd]. unfold ifapi_crypto_hash_start.
  rewrite Hmd, (proj2 (Z.eqb_neq _ _) Hn).
  apply runs_bind, runs_evp. intros [] w1 E1; cbn [negb]; [|apply runs_fail; failing; by eapply law_alloc].
  apply runs_bind, runs_evp. intros [] w2 E2; cbn [negb]; [|apply runs_fail; failing; by eapply law_alloc].
  apply runs_bind, runs_evp. intros [] w3 E3; cbn [negb]; [|apply runs_fail; failing; by eapply law_fetch].
  apply runs_bind, runs_evp. intros [] w4 E4; cbn [negb]; [|apply runs_fail; failing; by eapply law_alloc].
  apply runs_bind, runs_evp. intros x w5 E5. apply (law_init alg) in E5; [|done].
  destruct x as [x|]; [|apply runs_fail; by failing]. apply runs_ret. by exists w5, md.
Qed.

Lemma hash_update_runs c b w ds u md m :
  md_absorbs D (osslContext c) md m ->
  runs (ifapi_crypto_hash_update c b) (Pol w ds u) (fun s c' =>
    exists w', s = Pol w' ds u /\ md_absorbs D (osslContext c') md (m ++ b) /\
      hashSize c' = hashSize c).
Proof.
  intros A. unfold ifapi_crypto_hash_update. apply runs_bind, runs_evp. intros x w' E.
  apply (law_update md m) in E; [|done].
  destruct x as [x|]; [|apply runs_fail; by failing]. apply runs_ret. by exists w'.
Qed.

Lemma hash_updates_runs parts bs c w ds u md m :
  md_absorbs D (osslContext c) md m -> Forall2 (yields ds u) parts bs ->
  runs (hash_updates c parts) (Pol w ds u) (fun s c' =>
    exists w', s = Pol w' ds u /\ md_absorbs D (osslContext c') md (m ++ concat bs) /\
      hashSize c' = hashSize c).
Proof.
  intros A F. revert c w m A. induction F as [|p b parts bs Hp _ IH]; intros c w m A; cbn [hash_updates].
  - apply runs_ret. exists w. cbn [concat]. by rewrite app_nil_r.
  - apply runs_bind, (runs_eq _ _ _ _ _ _ (Hp w)), runs_bind.
    eapply runs_mono; [by apply hash_update_runs|]. intros s c' (w' & -> & A' & <-).
    eapply runs_mono; [by apply IH|]. intros s c'' (w'' & -> & A'' & ->).
    exists w''. cbn [concat]. by rewrite app_assoc.
Qed.

(** The code of [ifapi_crypto_hash_finish], and the digest when it is success *)
Definition finished_with (alg : Z) (m : bytes) (x : TSS2_RC * bytes) : Prop :=
  x = (TSS2_RC_SUCCESS, tpm_hash alg m) \/ (crypto_rc x.1 /\ x.2 = []).

Lemma hash_finish_runs alg md c w ds u m :
  get_hash_md alg = Some md -> md_absorbs D (osslContext c) md m ->
  hashSize c = ifapi_hash_get_digest_size alg ->
  runs (ifapi_crypto_hash_finish c) (Pol w ds u) (fun s x =>
    exists w', s = Pol w' ds u /\ finished_with alg m x).
Proof.
  intros Hmd A Hs. unfold ifapi_crypto_hash_finish. apply runs_bind, runs_evp. intros d w' E.
  apply (law_final md m) in E; [|done]. destruct d as [d|].
  - apply runs_ret. exists w'. split; [done|]. left. subst d.
    rewrite (law_size alg md m Hmd), Hs, Z.eqb_refl. cbn [negb]. unfold tpm_hash. by rewrite Hmd.
  - apply runs_ret. exists w'. split; [done|]. right. split; [|done]. by failing.
Qed.

Lemma hash_parts_runs alg parts bs w ds u :
  ifapi_hash_get_digest_size alg <> 0 -> Forall2 (yields ds u) parts bs ->
  runs (hash_parts alg parts) (Pol w ds u) (fun s x =>
    exists w', s = Pol w' ds u /\ finished_with alg (concat bs) x).
Proof.
  intros Hn F. unfold hash_parts.
  apply runs_bind. eapply runs_mono; [by apply hash_start_runs|].
  intros s c (w1 & md & -> & Hmd & A & Hs).
  apply runs_bind. eapply runs_mono; [by apply hash_updates_runs|].
  intros s c' (w2 & -> & A' & Hs'). rewrite app_nil_l in A'.
  eapply hash_finish_runs; [done|done|by rewrite Hs'].
Qed.

Lemma Zlen_tpm_hash alg m :
  ifapi_hash_get_digest_size alg <> 0 -> Zlen (tpm_hash alg m) = ifapi_hash_get_digest_size alg.
Proof.
  intros Hn. unfold tpm_hash. destruct (digest_size_md alg Hn) as [md E]. rewrite E.
  by apply law_size.
Qed.

Lemma hash_buffer_runs alg parts bs n w ds u :
  ifapi_hash_get_digest_size alg <> 0 -> n = ifapi_hash_get_digest_size alg ->
  Forall2 (yields ds u) parts bs ->
  runs (hash_buffer alg parts n) (Pol w ds u) (fun s b =>
    exists w', s = Pol w' ds u /\ b = tpm_hash alg (concat bs)).
Proof.
  intros Hn -> F. unfold hash_buffer. apply runs_bind.
  eapply runs_mono; [by apply hash_parts_runs|]. intros s x (w1 & -> & [->|[Hc Hb]]).
  - rewrite <-(Zlen_tpm_hash alg (concat bs) Hn).
    apply runs_bind, runs_return_if_error; [intros _|done].
    unfold runs, lift. rewrite mem_read_all. by exists w1.
  - destruct x as [r b]. cbn in *. apply runs_bind, runs_return_if_error; [|done].
    intros ->. by apply crypto_rc_nonzero in Hc.
Qed.


(** ** Parts *)

Lemma yields_ret ds u b : yields ds u (ret b) b.
Proof. done. Qed.

Lemma yields_cc ds u cc : yields ds u (part_cc cc) (be_bytes 4 cc).
Proof.
  intros w. unfold part_cc. rewrite (mu_int_run UINT32 cc) by (ctype || done || by left).
  do 3 f_equal. exact (be_bytes_wrap 4 cc).
Qed.
Lemma yields_u16 ds u v : yields ds u (part_u16 v) (be_bytes 2 v).
Proof.
  intros w. unfold part_u16. rewrite (mu_int_run UINT16 v) by (ctype || done || by left).
  do 3 f_equal. exact (be_bytes_wrap 2 v).
Qed.
Lemma yields_byte ds u v : yields ds u (part_byte v) (be_bytes 1 v).
Proof.
  intros w. unfold part_byte. rewrite (mu_int_run BYTE v) by (ctype || done || by left).
  do 3 f_equal. exact (be_bytes_wrap 1 v).
Qed.

(** A sized buffer whose size is that of some contents *)
Definition sized (b : TPM2B) : Prop := 0 <= size b <= Zlen (buffer b).

Lemma yields_2b ds u b : sized b -> yields ds u (read2b b) (contents b).
Proof. intros S w. by apply read2b_goes. Qed.

(** The first [n] bytes of a buffer *)
Lemma mem_read_take b n : 0 <= n <= Zlen b -> mem_read b 0 n = Some (take (Z.to_nat n) b).
Proof. intros. apply mem_read_Some. rewrite drop_0. split_and!; done || lia. Qed.

Lemma yields_read ds u b n :
  0 <= n <= Zlen b -> yields ds u (lift (access (mem_read b 0 n))) (take (Z.to_nat n) b).
Proof. intros Hn w. unfold lift. by rewrite mem_read_take. Qed.

(** Whatever has an image fits in a buffer of its [sizeof]. *)
Lemma yields_image {T} (m : T -> mstep) (sp : spec T) `{!SpecOk sp} ds u x n (w : bytes) :
  marshal_ok m sp -> s_wf sp x -> s_wire sp x = Some w -> s_max sp <= n ->
  yields ds u (mu_image n (m x)) w.
Proof.
  intros O Wf Ew Hn w0. pose proof (so_max x w Wf Ew) as Hmax. pose proof (Zlen_nonneg w).
  destruct (O x Wf (so_dom _ _ Wf Ew)) as [Hb _]. unfold mu_image.
  destruct (Hb (replicate (Z.to_nat n) 0) n 0) as (rc & b & o & -> & P); [lia| |].
  { rewrite Zlen_replicate. lia. }
  destruct P as [(v & Ev & _ & -> & -> & Hw)|(_ & _ & _ & [E|(v & Ev & NF & _)])]; [|congruence|].
  - replace v with w in * by congruence. rewrite Z.eqb_refl, Z.add_0_l. do 3 f_equal.
    destruct Hw as [[-> ->]|Hw]; [done|]. apply mem_write_Some in Hw as (_ & _ & ->).
    rewrite take_0. cbn [app]. unfold Zlen. by rewrite Nat2Z.id, take_app_length.
  - destruct NF. right. replace v with w in * by congruence. lia.
Qed.

(** An object with an image *)
Definition has_image {T} (sp : spec T) (x : T) : Prop := s_wf sp x /\ is_Some (s_wire sp x).

Lemma yields_has_image {T} (m : T -> mstep) (sp : spec T) `{!SpecOk sp} ds u x n :
  marshal_ok m sp -> has_image sp x -> s_max sp <= n ->
  yields ds u (mu_image n (m x)) (image sp x).
Proof.
  intros O [Wf [w Ew]] Hn. unfold image. rewrite Ew. by eapply (yields_image m sp).
Qed.

Lemma yields_nv_public ds u p :
  has_image spec_TPMS_NV_PUBLIC p ->
  yields ds u (mu_image (lsize lay_TPMS_NV_PUBLIC) (Tss2_MU_TPMS_NV_PUBLIC_Marshal (Some p)))
    (image spec_TPMS_NV_PUBLIC p).
Proof.
  intros Hi. apply (yields_has_image (ADDR Tss2_MU_TPMS_NV_PUBLIC_Marshal) spec_TPMS_NV_PUBLIC);
    [apply co_marshal with (1:=Tss2_MU_TPMS_NV_PUBLIC_ok)|done|by vm_compute].
Qed.

Lemma yields_public ds u p :
  has_image spec_TPMT_PUBLIC p ->
  yields ds u (mu_image (lsize lay_TPMT_PUBLIC) (Tss2_MU_TPMT_PUBLIC_Marshal (Some p)))
    (image spec_TPMT_PUBLIC p).
Proof.
  intros Hi. apply (yields_has_image (ADDR Tss2_MU_TPMT_PUBLIC_Marshal) spec_TPMT_PUBLIC);
    [apply co_marshal with (1:=Tss2_MU_TPMT_PUBLIC_ok)|done|by vm_compute].
Qed.

Lemma yields_selection ds u l :
  has_image spec_TPML_PCR_SELECTION l ->
  yields ds u (part_selection l) (image spec_TPML_PCR_SELECTION l).
Proof.
  intros Hi. apply (yields_has_image (ADDR Tss2_MU_TPML_PCR_SELECTION_Marshal) spec_TPML_PCR_SELECTION);
    [apply co_marshal with (1:=Tss2_MU_TPML_PCR_SELECTION_ok)|done|by vm_compute].
Qed.

(** ** PCRs *)

(** The PCRs of a policy: each of them once, with a value in some bank *)
Definition pcr_ok (p : TPMS_PCRVALUE) : Prop :=
  0 <= pcr p < TPM2_MAX_PCRS /\ ifapi_hash_get_digest_size (pcr_hashAlg p) <> 0 /\
  Zlen (pcr_digest p) = sizeof_TPMU_HA.
Definition pcrs_ok (l : list TPMS_PCRVALUE) : Prop := NoDup (map pcr l) /\ Forall pcr_ok l.

(** The entry of a bank in the selection for the PCRs [l] *)
Definition entry (l : list TPMS_PCRVALUE) (bank : Z) : TPMS_PCR_SELECTION :=
  Mk_TPMS_PCR_SELECTION bank (Tpm.bitmap_size bank l) (Tpm.bitmap bank l).

Lemma banks_app l p :
  Tpm.banks (l ++ [p]) =
    if decide (pcr_hashAlg p ∈ Tpm.banks l) then Tpm.banks l else Tpm.banks l ++ [pcr_hashAlg p].
Proof. unfold Tpm.banks. by rewrite fold_left_app. Qed.

Lemma in_bank_app bank l p :
  Tpm.in_bank bank (l ++ [p]) =
    Tpm.in_bank bank l ++ (if decide (pcr_hashAlg p = bank) then [p] else []).
Proof. unfold Tpm.in_bank. rewrite list.filter_app. cbn. by destruct (decide _). Qed.

Lemma elem_of_banks bank l : bank ∈ Tpm.banks l <-> exists p, p ∈ l /\ pcr_hashAlg p = bank.
Proof.
  induction l as [|p l IH] using rev_ind.
  - split; [by intros ?%elem_of_nil|by intros (? & ?%elem_of_nil & _)].
  - rewrite banks_app. case_decide as D'.
    + rewrite IH. split.
      * intros (q & ? & ?). exists q. by rewrite elem_of_app; auto.
      * intros (q & [?| ->%list_elem_of_singleton]%elem_of_app & <-); [by exists q|by apply IH].
    + rewrite elem_of_app, IH. split.
      * intros [(q & ? & ?)| ->%list_elem_of_singleton]; [exists q|exists p]; rewrite elem_of_app;
          (split; [|done]); [by left|right; by apply list_elem_of_singleton].
      * intros (q & [?| ->%list_elem_of_singleton]%elem_of_app & <-); [left; by exists q|right].
        by apply list_elem_of_singleton.
Qed.

Lemma NoDup_banks l : NoDup (Tpm.banks l).
Proof.
  induction l as [|p l IH] using rev_ind; [apply base.NoDup_nil_2|]. rewrite banks_app.
  case_decide as D'; [done|]. apply list.NoDup_app. split; [done|]. split; [|apply list.NoDup_singleton].
  by intros x Hx ->%list_elem_of_singleton.
Qed.

Lemma banks_bound l : Forall pcr_ok l -> Zlen (Tpm.banks l) <= 5.
Proof.
  intros F. set (algs := [TPM2_ALG_SHA1; TPM2_ALG_SHA256; TPM2_ALG_SHA384; TPM2_ALG_SHA512; TPM2_ALG_SM3_256]).
  assert (Tpm.banks l ⊆+ algs) as S%submseteq_length.
  { apply NoDup_submseteq; [apply NoDup_banks|]. intros b (p & Hp & <-)%elem_of_banks.
    rewrite list.Forall_forall in F. destruct (F p Hp) as (_ & Hn & _).
    unfold ifapi_hash_get_digest_size in Hn.
    repeat (case_match; [bool2prop; unfold algs; rewrite !elem_of_cons; tauto|]). done. }
  cbn in S. unfold Zlen. lia.
Qed.

Lemma in_bank_nil bank l : bank ∉ Tpm.banks l -> Tpm.in_bank bank l = [].
Proof.
  intros N. apply elem_of_nil_inv. intros p [E Hp]%list_elem_of_filter. apply N, elem_of_banks.
  by exists p.
Qed.

Lemma entry_other l p bank : pcr_hashAlg p <> bank -> entry (l ++ [p]) bank = entry l bank.
Proof.
  intros N. unfold entry, Tpm.bitmap_size, Tpm.bitmap. rewrite in_bank_app, decide_False by done.
  by rewrite app_nil_r.
Qed.

(** Selecting a PCR in the entry of its bank *)
Lemma select_pcr_entry l p :
  pcr_ok p -> select_pcr (entry l (pcr_hashAlg p)) (pcr p) = Ret (entry (l ++ [p]) (pcr_hashAlg p)).
Proof.
  intros ([P0 P1] & _). change TPM2_MAX_PCRS with 32 in P1.
  pose proof (Z.mod_pos_bound (pcr p) 8 ltac:(lia)) as Hm.
  assert (0 <= pcr p / 8 < 4) as Hd.
  { split; [by apply Z.div_pos|apply Z.div_lt_upper_bound; lia]. }
  assert (Z.shiftl 1 (pcr p mod 8) mod 256 = 2 ^ (pcr p mod 8)) as Es.
  { rewrite Z.shiftl_mul_pow2, Z.mul_1_l by lia. apply Z.mod_small. split; [lia|].
    apply (Z.pow_lt_mono_r 2 _ 8); lia. }
  unfold select_pcr, entry, Tpm.bitmap_size, Tpm.bitmap.
  rewrite in_bank_app, decide_True, fold_left_app by done. rewrite Es.
  cbn [TPMS_PCR_SELECTION_pcrSelect TPMS_PCR_SELECTION_sizeofSelect TPMS_PCR_SELECTION_hash fold_left map].
  rewrite !fold_left_app. cbn [fold_left].
  destruct (decide (pcr p / 8 = 0)) as [->|]; [done|].
  destruct (decide (pcr p / 8 = 1)) as [->|]; [done|].
  destruct (decide (pcr p / 8 = 2)) as [->|]; [done|].
  destruct (decide (pcr p / 8 = 3)) as [->|]; [done|]. lia.
Qed.

Lemma add_pcr_known l p bs k :
  pcr_ok p -> NoDup bs -> pcr_hashAlg p ∈ bs ->
  add_pcr (map (entry l) bs) k (pcr_hashAlg p) (pcr p) =
    Ret (TSS2_RC_SUCCESS, map (entry (l ++ [p])) bs).
Proof.
  intros Hp. revert k. induction bs as [|b bs IH]; intros k ND I; [by apply elem_of_nil in I|].
  apply list.NoDup_cons in ND as [Nb ND]. cbn [map add_pcr].
  change (TPMS_PCR_SELECTION_hash (entry l b)) with b. destruct (Z.eqb_spec (pcr_hashAlg p) b) as [<-|N].
  - rewrite select_pcr_entry by done. do 3 f_equal. apply list_fmap_ext. intros j x Ex.
    symmetry. apply entry_other. intros E. apply Nb. rewrite E. by apply list_elem_of_lookup_2 in Ex.
  - apply elem_of_cons in I as [?|I]; [done|]. rewrite IH by done. cbn [map].
    by rewrite (entry_other l p b) by done.
Qed.

Lemma add_pcr_unknown l p bs k :
  pcr_ok p -> pcr_hashAlg p ∉ bs -> pcr_hashAlg p ∉ Tpm.banks l -> k + Zlen bs + 1 <= TPM2_NUM_PCR_BANKS ->
  add_pcr (map (entry l) bs) k (pcr_hashAlg p) (pcr p) =
    Ret (TSS2_RC_SUCCESS, map (entry (l ++ [p])) (bs ++ [pcr_hashAlg p])).
Proof.
  intros Hp. revert k. induction bs as [|b bs IH]; intros k I Nl Hk; cbn [map add_pcr app].
  - rewrite (proj2 (Z.ltb_ge _ _)) by (rewrite Zlen_nil in Hk; lia).
    pose proof (select_pcr_entry l p Hp) as E. unfold entry at 1 in E.
    unfold Tpm.bitmap_size, Tpm.bitmap in E. rewrite in_bank_nil in E by done.
    change (replicate _ 0) with [0; 0; 0; 0]. cbn [map fold_left] in E. by rewrite E.
  - change (TPMS_PCR_SELECTION_hash (entry l b)) with b. rewrite elem_of_cons in I.
    rewrite (proj2 (Z.eqb_neq _ _)) by tauto.
    rewrite Zlen_cons in Hk. rewrite IH by (tauto || lia). cbn [map app].
    by rewrite (entry_other l p b) by tauto.
Qed.

Lemma add_pcr_ok l p :
  Forall pcr_ok l -> pcr_ok p ->
  add_pcr (map (entry l) (Tpm.banks l)) 0 (pcr_hashAlg p) (pcr p) =
    Ret (TSS2_RC_SUCCESS, map (entry (l ++ [p])) (Tpm.banks (l ++ [p]))).
Proof.
  intros F Hp. rewrite banks_app. case_decide as I.
  - apply add_pcr_known; [done|apply NoDup_banks|done].
  - apply add_pcr_unknown; [done..|]. pose proof (banks_bound l F). change TPM2_NUM_PCR_BANKS with 16. lia.
Qed.

Lemma select_pcrs_ok l pre m :
  Forall pcr_ok (pre ++ l) -> 0 <= m <= TPM2_MAX_PCRS -> Forall (fun p => pcr p < m) pre ->
  exists m', select_pcrs l (map (entry pre) (Tpm.banks pre)) m =
    Ret (TSS2_RC_SUCCESS, (map (entry (pre ++ l)) (Tpm.banks (pre ++ l)), m')) /\
    0 <= m' <= TPM2_MAX_PCRS /\ Forall (fun p => pcr p < m') (pre ++ l).
Proof.
  revert pre m. induction l as [|p l IH]; intros pre m F Hm Hp; cbn [select_pcrs].
  - rewrite app_nil_r in *. by exists m.
  - pose proof F as [Fp Fl]%Forall_app. apply list.Forall_cons in Fl as [P Fl].
    rewrite add_pcr_ok by done. rewrite Z.eqb_refl. cbn [negb]. replace (pre ++ p :: l) with ((pre ++ [p]) ++ l) in * by by rewrite <-app_assoc.
    pose proof P as ([P0 P1] & _). change TPM2_MAX_PCRS with 32 in *.
    replace (wrap 32 (pcr p + 1)) with (pcr p + 1) by (unfold wrap; rewrite Z.mod_small; lia).
    apply IH; [done|lia|]. apply Forall_app. split; [|constructor; [lia|constructor]].
    eapply List.Forall_impl; [|exact Hp]. cbn. lia.
Qed.

(** *** The image of the selection *)

Lemma lor_byte a b : is_byte a -> is_byte b -> is_byte (Z.lor a b).
Proof.
  unfold is_byte. intros Ha Hb.
  replace (Z.lor a b) with (Z.lor a b mod 2 ^ 8); [apply Z.mod_pos_bound; lia|].
  rewrite <-!Z.land_ones, Z.land_lor_distr_l, !Z.land_ones by lia. by rewrite !Z.mod_small by lia.
Qed.

Lemma fold_left_ind {A B} (P : A -> Prop) (f : A -> B -> A) l a :
  P a -> (forall a b, b ∈ l -> P a -> P (f a b)) -> P (fold_left f l a).
Proof.
  revert a. induction l as [|b l IH]; intros a Ha Hf; [done|]. cbn [fold_left].
  apply IH; [apply Hf; [by left|done]|]. intros ???. apply Hf. by right.
Qed.

Lemma elem_of_in_bank bank l p : p ∈ Tpm.in_bank bank l <-> pcr_hashAlg p = bank /\ p ∈ l.
Proof. unfold Tpm.in_bank. by rewrite list_elem_of_filter. Qed.

Lemma bitmap_ok bank l : bytes_ok (Tpm.bitmap bank l).
Proof.
  unfold Tpm.bitmap. apply list.Forall_fmap, list.Forall_forall. intros k _. cbn.
  apply fold_left_ind; [done|]. intros b p _ Hb. case_match; [|done]. apply lor_byte; [done|].
  pose proof (Z.mod_pos_bound (pcr p) 8 ltac:(lia)). split; [lia|].
  apply (Z.pow_lt_mono_r 2 _ 8); lia.
Qed.

Lemma bitmap_size_bound bank l : Forall pcr_ok l -> 3 <= Tpm.bitmap_size bank l <= 4.
Proof.
  intros F. unfold Tpm.bitmap_size. apply fold_left_ind; [lia|].
  intros m p [_ Hp]%elem_of_in_bank Hm. rewrite list.Forall_forall in F.
  destruct (F p Hp) as ([P0 P1] & _). change TPM2_MAX_PCRS with 32 in P1.
  assert (pcr p / 8 < 4) by (apply Z.div_lt_upper_bound; lia). lia.
Qed.

Lemma bank_bound bank l : Forall pcr_ok l -> bank ∈ Tpm.banks l -> 0 <= bank < 2 ^ 16.
Proof.
  intros F (p & Hp & <-)%elem_of_banks. rewrite list.Forall_forall in F.
  destruct (F p Hp) as (_ & Hn & _). unfold ifapi_hash_get_digest_size in Hn.
  repeat (case_match; [bool2prop; match goal with E : pcr_hashAlg p = _ |- _ => rewrite E end; by vm_compute|]).
  done.
Qed.

Lemma entry_wf l bank : Forall pcr_ok l -> bank ∈ Tpm.banks l -> s_wf spec_TPMS_PCR_SELECTION (entry l bank).
Proof.
  intros F I. pose proof (bitmap_size_bound bank l F). pose proof (bank_bound bank l F I).
  split; [|split; [|done]].
  - change (0 <= bank < 2 ^ 16). done.
  - split; [|split; [done|apply bitmap_ok]].
    change (0 <= Tpm.bitmap_size bank l < 2 ^ 8). lia.
Qed.

Definition entry_bytes (l : list TPMS_PCRVALUE) (bank : Z) : bytes :=
  be_bytes 2 bank ++ be_bytes 1 (Tpm.bitmap_size bank l) ++
  take (Z.to_nat (Tpm.bitmap_size bank l)) (Tpm.bitmap bank l).

Lemma entry_wire l bank :
  Forall pcr_ok l -> s_wire spec_TPMS_PCR_SELECTION (entry l bank) = Some (entry_bytes l bank).
Proof.
  intros F. pose proof (bitmap_size_bound bank l F).
  change (s_wire spec_TPMS_PCR_SELECTION (entry l bank)) with
    (wire_app (Some (be_bytes 2 (wrap 16 bank)))
      (wire_app (if Tpm.bitmap_size bank l <=? TPM2_PCR_SELECT_MAX
         then Some (be_bytes 1 (Tpm.bitmap_size bank l) ++
                    take (Z.to_nat (Tpm.bitmap_size bank l)) (Tpm.bitmap bank l)) else None) (Some []))).
  rewrite (proj2 (Z.leb_le _ _)) by (change TPM2_PCR_SELECT_MAX with 4; lia).
  cbn [wire_app]. rewrite app_nil_r. unfold entry_bytes. do 2 f_equal. exact (be_bytes_wrap 2 bank).
Qed.

Lemma wires_entries l bs :
  Forall pcr_ok l -> wires spec_TPMS_PCR_SELECTION (map (entry l) bs) = Some (concat (map (entry_bytes l) bs)).
Proof.
  intros F. induction bs as [|b bs IH]; [done|]. cbn [map wires concat].
  by rewrite IH, entry_wire by done.
Qed.

Lemma selection_image l :
  Forall pcr_ok l ->
  has_image spec_TPML_PCR_SELECTION (pcr_selection_of (map (entry l) (Tpm.banks l))) /\
  image spec_TPML_PCR_SELECTION (pcr_selection_of (map (entry l) (Tpm.banks l))) = Tpm.selection l.
Proof.
  intros F. pose proof (banks_bound l F) as Hb. set (sel := map (entry l) (Tpm.banks l)).
  assert (Zlen sel = Zlen (Tpm.banks l)) as Hs by (unfold sel, Zlen; by rewrite length_map).
  assert (s_wire spec_TPML_PCR_SELECTION (pcr_selection_of sel) = Some (Tpm.selection l)) as Ew.
  { change (s_wire spec_TPML_PCR_SELECTION (pcr_selection_of sel)) with
      (if Zlen sel <=? TPM2_NUM_PCR_BANKS
       then wire_app (Some (be_bytes 4 (Zlen sel))) (wires spec_TPMS_PCR_SELECTION (active (pcr_selection_of sel)))
       else None).
    rewrite (proj2 (Z.leb_le _ _)) by (change TPM2_NUM_PCR_BANKS with 16; lia).
    unfold active, pcr_selection_of. cbn [count elems]. unfold Zlen at 2. rewrite Nat2Z.id, take_app_length.
    unfold sel. rewrite wires_entries by done. cbn [wire_app]. fold sel. by rewrite Hs. }
  unfold has_image, image. rewrite Ew. split; [|done]. split; [|by eexists].
  pose proof (Zlen_nonneg sel) as H0. split; [|split].
  - change (0 <= Zlen sel < 2 ^ 32). lia.
  - cbn [elems pcr_selection_of]. rewrite Zlen_app, Zlen_replicate. unfold Zlen in *.
    change cap_TPML_PCR_SELECTION with 16. change (Z.to_nat TPM2_NUM_PCR_BANKS) with 16%nat. lia.
  - cbn [elems pcr_selection_of]. apply Forall_app. split; [|apply Forall_replicate, zero_TPMS_PCR_SELECTION_wf].
    apply list.Forall_fmap, list.Forall_forall. intros b Hi. by apply entry_wf.
Qed.

(** *** The values that are hashed *)

(** A list without repetitions has one PCR of each number. *)
Lemma one_pcr l p : NoDup (map pcr l) -> p ∈ l -> filter (fun q => pcr q = pcr p) l = [p].
Proof.
  induction l as [|q l IH]; intros ND I; [by apply elem_of_nil in I|]. cbn [map] in ND.
  apply list.NoDup_cons in ND as [Nq ND]. rewrite filter_cons.
  apply elem_of_cons in I as [->|I].
  - rewrite decide_True by done. f_equal. apply elem_of_nil_inv. intros x [E Hx]%list_elem_of_filter.
    apply Nq. rewrite <-E. by apply list_elem_of_fmap_2.
  - rewrite decide_False; [by apply IH|]. intros E. apply Nq. rewrite E. by apply list_elem_of_fmap_2.
Qed.

Lemma pcr_values_yield ds u l bank j :
  pcrs_ok l -> bank ∈ Tpm.banks l -> Tpm.in_bank bank (filter (fun q => pcr q = Z.of_nat j) l) <> [] ->
  exists bs, Forall2 (yields ds u) (pcr_values l (ifapi_hash_get_digest_size bank) j) bs /\
    concat bs = Tpm.pcr_value bank l j.
Proof.
  intros [ND F] I N.
  destruct (Tpm.in_bank bank (filter (fun q => pcr q = Z.of_nat j) l)) as [|p r] eqn:E; [done|].
  assert (p ∈ Tpm.in_bank bank (filter (fun q => pcr q = Z.of_nat j) l)) as (Ep & Hp)%elem_of_in_bank
    by (rewrite E; left).
  apply list_elem_of_filter in Hp as [Ej Hp].
  assert (filter (fun q => pcr q = Z.of_nat j) l = [p]) as Ef by (rewrite <-Ej; by apply one_pcr).
  rewrite list.Forall_forall in F. destruct (F p Hp) as (_ & Hn & Hd).
  exists [take (Z.to_nat (ifapi_hash_get_digest_size bank)) (pcr_digest p)]. split.
  - unfold pcr_values. rewrite Ef. cbn [map]. constructor; [|constructor]. apply yields_read.
    rewrite Hd, <-Ep. change sizeof_TPMU_HA with 64. pose proof (digest_size_bound _ Hn). lia.
  - unfold Tpm.pcr_value. rewrite E. cbn [concat]. by rewrite app_nil_r.
Qed.

Lemma land_pow2_bit b m : 0 <= m -> (Z.land b (2 ^ m) =? 0) = negb (Z.testbit b m).
Proof.
  intros Hm. destruct (Z.testbit b m) eqn:T; cbn [negb].
  - apply Z.eqb_neq. intros E. apply (f_equal (fun x => Z.testbit x m)) in E.
    by rewrite Z.land_spec, T, Z.pow2_bits_true, Z.bits_0 in E by done.
  - apply Z.eqb_eq, Z.bits_inj_0. intros k. rewrite Z.land_spec.
    destruct (decide (k = m)) as [->|N]; [by rewrite T|].
    by rewrite Z.pow2_bits_false, andb_false_r by done.
Qed.

Lemma fold_bits (l : list TPMS_PCRVALUE) k m b :
  0 <= m ->
  Z.testbit (fold_left (fun b p => if pcr p / 8 =? k then Z.lor b (2 ^ (pcr p mod 8)) else b) l b) m = true <->
  Z.testbit b m = true \/ exists p, p ∈ l /\ pcr p / 8 = k /\ pcr p mod 8 = m.
Proof.
  intros Hm. revert b. induction l as [|p l IH]; intros b; cbn [fold_left].
  - split; [by left|]. by intros [?|(p & ?%elem_of_nil & _)].
  - rewrite IH. pose proof (Z.mod_pos_bound (pcr p) 8 ltac:(lia)).
    assert (Z.testbit (if pcr p / 8 =? k then Z.lor b (2 ^ (pcr p mod 8)) else b) m = true <->
      Z.testbit b m = true \/ (pcr p / 8 = k /\ pcr p mod 8 = m)) as ->.
    { destruct (Z.eqb_spec (pcr p / 8) k) as [Ek|Nk]; [|tauto].
      rewrite Z.lor_spec, orb_true_iff. destruct (decide (pcr p mod 8 = m)) as [Em|Nm].
      - rewrite Em, Z.pow2_bits_true by done. tauto.
      - rewrite Z.pow2_bits_false by done. intuition done. }
    setoid_rewrite elem_of_cons. split.
    + intros [[?|[? ?]]|(q & ? & ?)]; [by left|right; exists p; auto|right; exists q; auto].
    + intros [?|(q & [->|?] & ?)]; [auto|auto|right; by exists q].
Qed.

(** The bit of a PCR says whether its bank has a value for it. *)
Lemma pcr_selected_entry l bank j :
  Forall pcr_ok l -> (j < 32)%nat ->
  pcr_selected (entry l bank) j =
    Ret (bool_decide (Tpm.in_bank bank (filter (fun q => pcr q = Z.of_nat j) l) <> [])).
Proof.
  intros F Hj. unfold pcr_selected, entry. cbn [TPMS_PCR_SELECTION_pcrSelect].
  set (byte k := fold_left (fun b p => if pcr p / 8 =? k then Z.lor b (2 ^ (pcr p mod 8)) else b)
    (Tpm.in_bank bank l) 0).
  assert (Tpm.bitmap bank l !! (j / 8)%nat = Some (byte (Z.of_nat j / 8))) as ->.
  { unfold Tpm.bitmap. change 8 with (Z.of_nat 8). rewrite <-Nat2Z.inj_div.
    assert (j / 8 < 4)%nat as Hd by (apply Nat.Div0.div_lt_upper_bound; lia).
    destruct (j / 8)%nat as [|[|[|[|?]]]]; [done..|lia]. }
  pose proof (Z.mod_pos_bound (Z.of_nat j) 8 ltac:(lia)) as Hm.
  rewrite Z.shiftl_mul_pow2, Z.mul_1_l by lia.
  rewrite (Z.mod_small (2 ^ _)) by (split; [lia|apply (Z.pow_lt_mono_r 2 _ 8); lia]).
  rewrite land_pow2_bit, negb_involutive by lia. f_equal. apply eq_true_iff_eq.
  unfold byte. rewrite fold_bits, Z.bits_0, bool_decide_eq_true by lia. split.
  - intros [?|(p & (Ep & Hp)%elem_of_in_bank & Ed & Em)]; [done|]. intros E.
    apply (not_elem_of_nil p). rewrite <-E. apply elem_of_in_bank. split; [done|].
    apply list_elem_of_filter. split; [|done].
    rewrite (Z.div_mod (pcr p) 8), (Z.div_mod (Z.of_nat j) 8) by lia. congruence.
  - intros N. right.
    destruct (Tpm.in_bank bank (filter (fun q => pcr q = Z.of_nat j) l)) as [|p r] eqn:E; [done|].
    assert (p ∈ Tpm.in_bank bank (filter (fun q => pcr q = Z.of_nat j) l)) as (Ep & Hp)%elem_of_in_bank
      by (rewrite E; left).
    apply list_elem_of_filter in Hp as [Ej Hp]. exists p. rewrite elem_of_in_bank, Ej. done.
Qed.

Lemma hash_bank_runs l bank js c md m w ds u :
  pcrs_ok l -> bank ∈ Tpm.banks l -> Forall (fun j => j < 32)%nat js ->
  md_absorbs D (osslContext c) md m ->
  runs (hash_bank c l (ifapi_hash_get_digest_size bank) (entry l bank) js) (Pol w ds u) (fun s c' =>
    exists w', s = Pol w' ds u /\ hashSize c' = hashSize c /\
      md_absorbs D (osslContext c') md (m ++ concat (map (Tpm.pcr_value bank l) js))).
Proof.
  intros Hl I. revert c m w. induction js as [|j js IH]; intros c m w F A; cbn [hash_bank].
  - apply runs_ret. exists w. cbn. by rewrite app_nil_r.
  - apply list.Forall_cons in F as [Hj F]. destruct Hl as [ND Fl].
    apply runs_bind. eapply runs_eq.
    { unfold lift. by rewrite (pcr_selected_entry l bank j Fl Hj). }
    cbn [map concat]. rewrite app_assoc. apply runs_bind.
    case_bool_decide as N.
    + destruct (pcr_values_yield ds u l bank j) as (bs & Hy & Ec); [done..|].
      eapply runs_mono; [by apply (hash_updates_runs _ bs c w ds u md m)|].
      intros s c' (w' & -> & A' & Es). rewrite Ec in A'. eapply runs_mono; [by apply IH|].
      intros s c'' (w'' & -> & Es' & A''). exists w''. split; [done|]. split; [congruence|done].
    + apply runs_ret. assert (Tpm.pcr_value bank l j = []) as ->.
      { unfold Tpm.pcr_value. destruct (Tpm.in_bank _ _) as [|p r] eqn:E; [done|]. done. }
      rewrite app_nil_r. by apply IH.
Qed.

(** No value beyond the largest PCR *)
Lemma pcr_values_max l bank mx :
  0 <= mx <= TPM2_MAX_PCRS -> Forall (fun p => pcr p < mx) l ->
  concat (map (Tpm.pcr_value bank l) (seq 0 (Z.to_nat mx))) =
  concat (map (Tpm.pcr_value bank l) (seq 0 32)).
Proof.
  intros Hm F. change TPM2_MAX_PCRS with 32 in Hm.
  replace 32%nat with (Z.to_nat mx + (32 - Z.to_nat mx))%nat by lia.
  rewrite seq_app, map_app, concat_app. symmetry. etransitivity; [|apply app_nil_r]. f_equal.
  assert (Forall (fun j => Tpm.pcr_value bank l j = []) (seq (0 + Z.to_nat mx) (32 - Z.to_nat mx))) as Hf.
  { apply list.Forall_forall. intros j Hj%elem_of_seq. unfold Tpm.pcr_value.
    assert (filter (fun p => pcr p = Z.of_nat j) l = []) as ->; [|done].
    apply elem_of_nil_inv. intros p [Ep Hp]%list_elem_of_filter.
    rewrite list.Forall_forall in F. specialize (F p Hp). lia. }
  revert Hf. generalize (seq (0 + Z.to_nat mx) (32 - Z.to_nat mx)) as js.
  induction 1 as [|j js Ej _ IH]; [done|]. cbn [map concat]. by rewrite Ej.
Qed.

Lemma hash_banks_runs l mx bs c md m w ds u :
  pcrs_ok l -> 0 <= mx <= TPM2_MAX_PCRS -> Forall (fun p => pcr p < mx) l ->
  Forall (fun b => b ∈ Tpm.banks l) bs -> md_absorbs D (osslContext c) md m ->
  runs (hash_banks c l mx (map (entry l) bs)) (Pol w ds u) (fun s c' =>
    exists w', s = Pol w' ds u /\ hashSize c' = hashSize c /\
      md_absorbs D (osslContext c') md
        (m ++ concat (map (fun b => concat (map (Tpm.pcr_value b l) (seq 0 32))) bs))).
Proof.
  intros Hl Hm Fm. revert c m w. induction bs as [|b bs IH]; intros c m w F A; cbn [map hash_banks].
  - apply runs_ret. exists w. cbn. by rewrite app_nil_r.
  - apply list.Forall_cons in F as [I F]. change (TPMS_PCR_SELECTION_hash (entry l b)) with b.
    assert (ifapi_hash_get_digest_size b <> 0) as Hn.
    { apply elem_of_banks in I as (p & Hp & <-). destruct Hl as [_ Fl].
      rewrite list.Forall_forall in Fl. by destruct (Fl p Hp) as (_ & ? & _). }
    unfold hash_size_of. rewrite (proj2 (Z.eqb_neq _ _) Hn).
    apply runs_bind, runs_ret, runs_bind.
    eapply runs_mono.
    { apply (hash_bank_runs l b _ c md m w ds u Hl I); [|done]. apply list.Forall_forall.
      intros j Hj%elem_of_seq. change TPM2_MAX_PCRS with 32 in Hm. lia. }
    intros s c' (w' & -> & Es & A'). rewrite pcr_values_max in A' by done.
    eapply runs_mono; [by apply IH|]. intros s c'' (w'' & -> & Es' & A''). exists w''.
    split; [done|]. split; [congruence|]. cbn [map concat]. by rewrite app_assoc.
Qed.

(** [ifapi_compute_policy_digest] computes the selection and the digest that a
    TPM computes from its PCRs. *)
Lemma compute_policy_digest_runs alg l w ds u :
  ifapi_hash_get_digest_size alg <> 0 -> pcrs_ok l ->
  runs (ifapi_compute_policy_digest l alg) (Pol w ds u) (fun s x =>
    exists w', s = Pol w' ds u /\
      x = (pcr_selection_of (map (entry l) (Tpm.banks l)), tpm_hash alg (Tpm.values l))).
Proof.
  intros Hn Hl. pose proof Hl as [_ Fl]. unfold ifapi_compute_policy_digest.
  destruct (select_pcrs_ok l [] 0 Fl) as (mx & E & Hm & Fm); [done|constructor|].
  change (map (entry []) (Tpm.banks [])) with (@nil TPMS_PCR_SELECTION) in E. cbn [app] in E, Fm.
  apply runs_bind. eapply runs_eq; [unfold lift; by rewrite E|]. cbn beta iota.
  apply runs_bind, runs_return_if_error; [intros _|done].
  apply runs_bind. eapply runs_mono; [by apply hash_start_runs|].
  intros s c (w1 & md & -> & Hmd & A & Hs). unfold hash_size_of.
  rewrite (proj2 (Z.eqb_neq _ _) Hn). apply runs_bind, runs_ret, runs_bind.
  eapply runs_mono; [apply (hash_banks_runs l mx (Tpm.banks l) c md [] w1 ds u); [done..| |done]|].
  { by apply list.Forall_forall. }
  intros s c' (w2 & -> & Hs' & A'). apply runs_bind.
  eapply runs_mono; [eapply (hash_finish_runs alg md); [done|exact A'|congruence]|].
  intros s [r b] (w3 & -> & Fw). apply runs_bind, runs_return_if_error.
  - intros ->. destruct Fw as [[= ->]|[Hc _]]; [|by apply crypto_rc_nonzero in Hc].
    apply runs_ret. by exists w3.
  - destruct Fw as [[= -> _]|[Hc _]]; done.
Qed.

End Hash.
