(* ===== verification/PolicyProps.v ===== *)
(** * Policy digests of FAPI: the digests are those of a TPM.

    Digest lists hold the digest of an element at one index ([at_idx]). Every
    function on a single element turns it into what the TPM command of the
    element computes ([command_runs]), and [ifapi_calculate_policy] runs them
    through lists, branches and nested branches. *)

From stdpp Require Import base list strings.
From S2P Require Import Prelude Common MuSpec MuBase MuBaseOk MuStruct MuTpm2b MuUnion MuPcr TpmTypes MuTypes MuTypesOk SysCodes EsysBase EsysCrypto EsysMu EsysLogic EsysCryptoOk JsonCodes Policy PolicyOk.

Open Scope tss_scope.
Open Scope esys_scope.
Open Scope Z_scope.

(** ** Induction on elements, through branches and lists *)


Section Calculate.
Context {H : Host} {W X : Type} {EV : Evp W X} (D : evp_model X) {L : EvpLaws EV D}.
Implicit Types (u : TPMU_POLICYELEMENT) (ds : TPML_DIGEST_VALUES) (w : W).
Abbreviation runs := (runs (crypto_rc D)).
Abbreviation tpm_hash := (tpm_hash D).
Abbreviation yields := (yields (W:=W)).

(** ** The list with the digest *)

Section Digest.
Context (alg : Z) (i : nat) (Halg : ifapi_hash_get_digest_size alg <> 0).
Abbreviation n := (ifapi_hash_get_digest_size alg).

(** The storage of a list, with no digest for [alg] before entry [i] *)
Definition slot (l : list TPMT_HA) : Prop :=
  Zlen l = TPM2_NUM_PCR_BANKS /\ Forall (fun h => Zlen (TPMT_HA_digest h) = sizeof_TPMU_HA) l /\
  forall j h, (j < i)%nat -> l !! j = Some h -> TPMT_HA_hashAlg h <> alg.

(** Entry [i], the last one in use, is the digest [d] for [alg]. *)
Definition at_idx ds (d : bytes) : Prop :=
  count ds = Z.of_nat i + 1 /\ slot (elems ds) /\
  exists h, elems ds !! i = Some h /\ TPMT_HA_hashAlg h = alg /\
    take (Z.to_nat n) (TPMT_HA_digest h) = d.

Lemma n_bound : 20 <= n <= 64.
Proof. by apply digest_size_bound. Qed.

Lemma slot_insert l h :
  slot l -> Zlen (TPMT_HA_digest h) = sizeof_TPMU_HA -> slot (<[i := h]> l).
Proof.
  intros (Hl & Hb & Ho) Hh. split_and!.
  - unfold Zlen in *. by rewrite length_insert.
  - by apply Forall_insert.
  - intros j h' Hj. rewrite list_lookup_insert_ne by lia. by apply Ho.
Qed.

Lemma slot_digest l j h : slot l -> l !! j = Some h -> Zlen (TPMT_HA_digest h) = 64.
Proof. intros (_ & Hb & _) E. by apply (Forall_lookup_1 _ _ _ _ Hb) in E. Qed.




Lemma yields_digest ds d u : at_idx ds d -> yields ds u (part_digest i n) d.
Proof.
  intros (_ & Sl & h & Hi & _ & <-) w. unfold part_digest, lift. cbn. rewrite Hi. cbn.
  rewrite mem_read_take; [done|]. rewrite (slot_digest _ _ _ Sl Hi). pose proof n_bound. lia.
Qed.

(** What [hash_to_digest] leaves of the list when it succeeds *)
Lemma store_digest_at ds d b w u :
  at_idx ds d -> Zlen b = n -> exists ds',
  store_digest i b (Pol w ds u) = Ret (Pol w ds' u, inr tt) /\ at_idx ds' b.
Proof.
  intros (Hc & Sl & h & Hi & Ha & _) Hb. pose proof n_bound. pose proof (slot_digest _ _ _ Sl Hi).
  destruct (mem_write_is_Some (TPMT_HA_digest h) 0 b) as [b' Hw]; [lia..|].
  unfold store_digest, upd_digest. cbn. rewrite Hi. cbn. rewrite Hw. cbn. eexists. split; [done|].
  split; [done|]. cbn [elems]. split.
  - apply slot_insert; [done|]. apply mem_write_len in Hw. cbn [TPMT_HA_digest]. by rewrite Hw.
  - eexists. split; [apply list_lookup_insert_eq; by eapply lookup_lt_Some|]. split; [done|].
    cbn [TPMT_HA_digest]. apply mem_write_Some in Hw as (_ & _ & ->). rewrite take_0. cbn [app].
    rewrite <-Hb. unfold Zlen. by rewrite Nat2Z.id, take_app_length.
Qed.

Lemma store_nothing ds d w u :
  at_idx ds d -> exists ds', store_digest i [] (Pol w ds u) = Ret (Pol w ds' u, inr tt).
Proof.
  intros (_ & Sl & h & Hi & _). pose proof (slot_digest _ _ _ Sl Hi).
  destruct (mem_write_is_Some (TPMT_HA_digest h) 0 []) as [b' Hw]; [lia|change (0 + Zlen (A:=Z) []) with 0; lia|].
  unfold store_digest, upd_digest. cbn. rewrite Hi. cbn. rewrite Hw. by eexists.
Qed.

(** The element is done: the list has the digest [d]. *)
Definition digest_is (d : bytes) (s : pol_state (W:=W)) (_ : unit) : Prop :=
  exists w ds u, s = Pol w ds u /\ at_idx ds d.


Create HintDb yields.
#[local] Hint Resolve yields_ret yields_cc yields_u16 yields_byte yields_2b yields_digest
  yields_nv_public yields_public : yields.

(** The parts of a list yield the bytes of another list. *)
Ltac parts := repeat (apply Forall2_cons_2 || apply Forall2_nil_2); eauto with yields.

Abbreviation extend := (Tpm.extend tpm_hash alg).

(** *** Names and references *)








(** *** Comparisons, names and templates *)






(** ** The commands *)

Abbreviation zero_digest := (Tpm.zero_digest alg).
Abbreviation command := (Tpm.command tpm_hash alg).












(** ** PolicyOR *)

(** The digest that [ifapi_calculate_policy_or] starts from: its [memset]
    leaves the last two bytes as they were. *)
Definition or_reset (d : bytes) : bytes :=
  replicate (Z.to_nat (n - 2)) 0 ++ drop (Z.to_nat (n - 2)) d.


(** The branches have these digests. *)
Definition branches_at (branches : list TPMS_POLICYBRANCH) (bs : list bytes) : Prop :=
  Forall2 (fun br b => at_idx (branch_policyDigests br) b) branches bs.

Lemma yields_branches c l u branches bs :
  c = Z.of_nat i + 1 -> branches_at branches bs ->
  Forall2 (yields (MkTPML c l) u)
    (map (fun br =>
      modify (fun s => set_current_digest
        (MkTPML (count (branch_policyDigests br)) (elems (current_digest s))) s) ;!
      lift (access (h ← elems (branch_policyDigests br) !! i; mem_read (TPMT_HA_digest h) 0 n)))
    branches) bs.
Proof.
  intros Hc F. induction F as [|br b branches bs A _ IH]; cbn [map]; constructor; [|done].
  intros w. unfold bind, modify, set_current_digest, lift. cbn [current_digest world current elems].
  pose proof A as (-> & Sl & h & Hi & _ & <-). rewrite Hi, <-Hc.
  change (Some h ≫= ?f) with (f h). cbn beta. pose proof n_bound. pose proof (slot_digest _ _ _ Sl Hi).
  change (mbind ?f (Some h)) with (f h). cbn beta. by rewrite mem_read_take by lia.
Qed.

Lemma or_runs ds d u w branches bs :
  at_idx ds d -> branches_at branches bs ->
  runs (ifapi_calculate_policy_or branches alg n i) (Pol w ds u)
    (digest_is (tpm_hash alg (or_reset d ++ be_bytes 4 TPM2_CC_PolicyOR ++ concat bs))).
Proof.
  intros A F. pose proof n_bound as Hn. pose proof A as (Hc & Sl & h & Hi & Ha & Hd).
  pose proof (slot_digest _ _ _ Sl Hi) as Hh. unfold ifapi_calculate_policy_or.
  destruct (mem_write_is_Some (TPMT_HA_digest h) 0 (replicate (Z.to_nat (n - 2)) 0)) as [b Hw].
  { lia. }
  { rewrite Zlen_replicate. lia. }
  apply runs_bind. eapply runs_eq; [unfold upd_digest; cbn; rewrite Hi; cbn; by rewrite Hw|].
  unfold set_current_digest. cbn [world current].
  set (l1 := <[i := Mk_TPMT_HA 0 b]> (elems ds)).
  assert (i < length (elems ds))%nat as Li by by eapply lookup_lt_Some.
  assert (l1 !! i = Some (Mk_TPMT_HA 0 b)) as Hi1 by by apply list_lookup_insert_eq.
  assert (Zlen b = 64) as Hb by (apply mem_write_len in Hw; lia).
  assert (take (Z.to_nat n) b = or_reset d) as Er.
  { apply mem_write_Some in Hw as (_ & _ & ->). rewrite Zlen_replicate, take_0 by lia. cbn [app].
    unfold or_reset. rewrite <-Hd, take_app_ge by (rewrite length_replicate; lia).
    rewrite length_replicate. f_equal. rewrite skipn_firstn_comm. do 2 f_equal; lia. }
  apply runs_bind. eapply runs_mono; [by apply hash_start_runs|].
  intros s c (w1 & md & -> & Hmd & Ab & Hs).
  apply runs_bind. eapply runs_mono.
  { apply (hash_updates_runs D _ ([or_reset d; be_bytes 4 TPM2_CC_PolicyOR] ++ bs) c w1 _ u md [] Ab).
    apply Forall2_app; [|by apply yields_branches].
    apply Forall2_cons_2; [|parts]. intros w0. unfold part_digest, lift. cbn [current_digest elems].
    rewrite Hi1. change (mbind ?f (Some ?x)) with (f x). cbn beta. cbn [TPMT_HA_digest].
    by rewrite mem_read_take, Er by lia. }
  intros s c' (w2 & -> & Ab' & Hs'). apply runs_bind.
  eapply runs_eq; [unfold upd_digest; cbn [current_digest elems]; by rewrite Hi1|].
  unfold set_current_digest. cbn [world current count].
  set (ds2 := MkTPML _ _).
  assert (at_idx ds2 (or_reset d)) as A2.
  { split; [done|]. unfold ds2, l1. cbn [elems]. split.
    - apply slot_insert; [|done]. by apply slot_insert.
    - eexists. split; [apply list_lookup_insert_eq; by rewrite length_insert|]. done. }
  apply runs_bind. eapply runs_mono; [apply (hash_finish_runs D alg md _ w2 ds2 u _ Hmd Ab'); congruence|].
  intros s [r v] (w3 & -> & Fw).
  destruct Fw as [[= -> ->]|[Hx [= ->]]].
  - destruct (store_digest_at ds2 _ (tpm_hash alg (concat ([or_reset d; be_bytes 4 TPM2_CC_PolicyOR] ++ bs)))
      w3 u A2) as (ds3 & E3 & A3); [by apply Zlen_tpm_hash|].
    apply runs_bind. eapply runs_eq; [exact E3|]. apply runs_return_if_error; [intros _|done].
    by exists w3, ds3, u.
  - destruct (store_nothing ds2 _ w3 u A2) as (ds3 & E3).
    apply runs_bind. eapply runs_eq; [exact E3|]. apply runs_return_if_error; [|done].
    intros ->. by apply crypto_rc_nonzero in Hx.
Qed.

(** ** Lists and branches *)

Abbreviation element_digest := (Tpm.element_digest tpm_hash alg).
Abbreviation calculate := (calculate alg n i).

















(** ** Policies *)





End Digest.
End Calculate.

(** ** The digest of a policy *)


(** ** What the code does where it differs from a TPM *)

Section Differences.
Context {H : Host} {W X : Type} {EV : Evp W X} (D : evp_model X) {L : EvpLaws EV D}.

(** C31: [ifapi_calculate_policy_or] for any digest of the session so far: the
    hash does not start with the digest of zero bytes that a TPM resets the
    session to, but with one that keeps the last two bytes of the old digest,
    since the call of memset starts two bytes too early. *)
Theorem policy_or_keeps_two_bytes alg i ds d branches bs u w s :
  ifapi_hash_get_digest_size alg <> 0 ->
  at_idx alg i ds d -> branches_at alg i branches bs ->
  ifapi_calculate_policy_or branches alg (ifapi_hash_get_digest_size alg) i (Pol w ds u) = Ret (s, inr tt) ->
  at_idx alg i (current_digest s)
    (tpm_hash D alg
      ((replicate (Z.to_nat (ifapi_hash_get_digest_size alg - 2)) 0 ++
        drop (Z.to_nat (ifapi_hash_get_digest_size alg - 2)) d) ++
       be_bytes 4 TPM2_CC_PolicyOR ++ concat bs)).
Proof.
  intros Hn A B E. pose proof (or_runs D alg i Hn ds d u w branches bs A B) as R.
  unfold runs in R. rewrite E in R. by destruct R as (w' & ds' & u' & -> & A').
Qed.

(** A computation that ends in undefined behaviour, unless the library fails *)
Definition stuck {A} (o : outcome (pol_state (W:=W) * (TSS2_RC + A))) : Prop :=
  match o with Undef => True | Ret (_, inl r) => crypto_rc D r | Ret (_, inr _) => False end.

Lemma stuck_bind {A B} (m : M _ A) (k : A -> M _ B) s : stuck (m s) -> stuck (bind m k s).
Proof. unfold stuck, bind. by destruct (m s) as [[s' [r|a]]|]. Qed.

Lemma stuck_after {A B} (m : M _ A) (k : A -> M _ B) s Q :
  runs (crypto_rc D) m s Q -> (forall s' a, Q s' a -> stuck (k a s')) -> stuck (bind m k s).
Proof. unfold runs, stuck, bind. destruct (m s) as [[s' [r|a]]|]; naive_solver. Qed.

Lemma stuck_ends {A} (o : outcome (pol_state (W:=W) * (TSS2_RC + A))) :
  stuck o -> o = Undef \/ exists s r, o = Ret (s, inl r) /\ crypto_rc D r.
Proof. unfold stuck. destruct o as [[s [r|a]]|]; eauto. done. Qed.

(** Updates up to a part that has no meaning *)
Lemma hash_updates_stuck parts bs p rest c w ds u md m :
  md_absorbs D (osslContext c) md m -> Forall2 (yields ds u) parts bs ->
  (forall w, p (Pol w ds u) = Undef) -> stuck (hash_updates c (parts ++ p :: rest) (Pol w ds u)).
Proof.
  intros A F S. revert c w m A.
  induction F as [|q b parts bs Hq _ IH]; intros c w m A; cbn [app hash_updates].
  - apply stuck_bind. by rewrite S.
  - eapply stuck_after; [eapply (runs_eq _ _ _ _ _ (fun s' a => s' = Pol w ds u /\ a = b) (Hq w)); done|].
    intros ? ? [-> ->]. eapply stuck_after; [by apply hash_update_runs|].
    intros s' c' (w' & -> & A' & _). by eapply IH.
Qed.

(** C32: PolicyNameHash with three names, as many as a command has handles, all
    of them well-formed: the loop of [ifapi_calculate_policy_name_hash] takes
    one name more than there are and reads the name behind the array, which
    has no meaning in C. Nothing comes before that read but the hashing of the
    three names, so that with a library that does not fail the behaviour is
    undefined; otherwise one of the three codes of a failure is returned. *)
Theorem policy_name_hash_overruns alg p ds u w :
  ifapi_hash_get_digest_size alg <> 0 ->
  nh_count p = 3 -> Zlen (objectNames p) = 3 -> Forall sized (objectNames p) ->
  ifapi_calculate_policy_name_hash p alg (Pol w ds u) = Undef \/
  exists s r, ifapi_calculate_policy_name_hash p alg (Pol w ds u) = Ret (s, inl r) /\
    md_fails D /\ r ∈ [TSS2_FAPI_RC_MEMORY; TSS2_FAPI_RC_BAD_VALUE; TSS2_FAPI_RC_GENERAL_FAILURE].
Proof.
  intros Hn Hc Hl Hs. unfold ifapi_calculate_policy_name_hash, hash_size_of.
  rewrite (proj2 (Z.eqb_neq _ _) Hn), Hc. change (Z.to_nat 3 + 1)%nat with 4%nat.
  destruct (objectNames p) as [|n0 [|n1 [|n2 [|? ?]]]]; try (by cbn in Hl; unfold Zlen in Hl; cbn in Hl; lia).
  inv Hs as [|? ? S0 Hs']. inv Hs' as [|? ? S1 Hs'']. inv Hs'' as [|? ? S2 _].
  apply stuck_ends. cbn [seq map]. unfold bind at 1, ret at 1. apply stuck_bind.
  eapply stuck_after; [by apply hash_start_runs|].
  intros s c (w1 & md & -> & _ & A & _). apply stuck_bind.
  eapply (hash_updates_stuck [_; _; _] [contents n0; contents n1; contents n2]); [done| |done].
  repeat apply Forall2_cons_2; [by apply yields_2b..|by apply Forall2_nil_2].
Qed.
End Differences.

(** ** A concrete library *)

(** Contexts are the name of the hash and the bytes so far. The digest is no
    cryptographic hash, but depends on every byte. *)
Module Toy.
Definition size_of (md : string) : Z :=
  if bool_decide (md = "SHA1"%string) then TPM2_SHA1_DIGEST_SIZE
  else if bool_decide (md = "SHA384"%string) then TPM2_SHA384_DIGEST_SIZE
  else if bool_decide (md = "SHA512"%string) then TPM2_SHA512_DIGEST_SIZE
  else TPM2_SHA256_DIGEST_SIZE.

Definition toy_hash (md : string) (m : bytes) : bytes :=
  map (fun k => fold_left (fun a b => (31 * a + b + Z.of_nat k) mod 251) m 7)
    (seq 1 (Z.to_nat (size_of md))).

(** The library of a system where the allocator may fail: the state says how
    many allocations succeed. *)
#[export] Instance evp : Evp nat (string * bytes) := {
  evp_alloc w := match w with O => (false, O) | S w => (true, w) end;
  evp_fetch md w := (bool_decide (is_Some md), w);
  evp_init md w := (match md with Some md => Some (md, []) | None => None end, w);
  evp_update x b w := (Some (x.1, x.2 ++ b), w);
  evp_final x w := (Some (toy_hash x.1 x.2), w)
}.

Definition model : evp_model (string * bytes) :=
  EvpModel toy_hash (fun x md m => x = (md, m)) True.

Lemma Zlen_toy_hash md m : Zlen (toy_hash md m) = size_of md.
Proof.
  unfold toy_hash, Zlen. rewrite length_map, length_seq. apply Z2Nat.id.
  unfold size_of. by repeat case_bool_decide.
Qed.

#[export] Instance laws : EvpLaws evp model.
Proof.
  split; cbn.
  - done.
  - intros alg md w w' _ [= ?].
  - intros alg md w x w' _ [= <- <-]. done.
  - intros md m x b w x' w' -> [= <- <-]. done.
  - intros md m x w d w' -> [= <- <-]. done.
  - intros alg md m E. rewrite Zlen_toy_hash. unfold get_hash_md in E.
    unfold ifapi_hash_get_digest_size.
    repeat (case_match; [by injection E as <-|]). done.
Qed.

(** A library that never fails *)
Definition reliable_evp : Evp nat (string * bytes) := {|
  evp_alloc w := (true, w);
  evp_fetch md w := (bool_decide (is_Some md), w);
  evp_init md w := (match md with Some md => Some (md, []) | None => None end, w);
  evp_update x b w := (Some (x.1, x.2 ++ b), w);
  evp_final x w := (Some (toy_hash x.1 x.2), w)
|}.
Definition reliable_model : evp_model (string * bytes) :=
  EvpModel toy_hash (fun x md m => x = (md, m)) False.

Lemma reliable_laws : EvpLaws reliable_evp reliable_model.
Proof.
  split; cbn.
  - intros w w' [=].
  - intros alg md w w' _ [=].
  - intros alg md w x w' _ [= <- <-]. done.
  - intros md m x b w x' w' -> [= <- <-]. done.
  - intros md m x w d w' -> [= <- <-]. done.
  - apply (law_size (D := model)).
Qed.

Definition zero_list : TPML_DIGEST_VALUES :=
  MkTPML 0 (replicate (Z.to_nat TPM2_NUM_PCR_BANKS) zero_TPMT_HA).
Definition el (u : TPMU_POLICYELEMENT) : TPMT_POLICYELEMENT := Policyelement zero_list u.
Definition br (l : TPML_POLICYELEMENTS) : TPMS_POLICYBRANCH := Policybranch zero_list l.
Definition name (b : Z) : TPM2B := MkTPM2B 3 (replicate 68 b).
Definition pcr_of (alg k b : Z) : TPMS_PCRVALUE := Pcrvalue k alg (replicate 64 b).


Lemma zero_slot j : j = O -> slot TPM2_ALG_SHA256 j (elems zero_list).
Proof.
  intros ->. split; [done|]. split; [by apply Forall_replicate|]. intros k h Hk. lia.
Qed.




(** What is read back from the result of a calculation *)
Definition result_digest (p : TPMS_POLICY) : option bytes :=
  h ← elems (policy_policyDigests p) !! O; Some (take 32 (TPMT_HA_digest h)).

Definition calculated (l : TPML_POLICYELEMENTS) : option bytes :=
  match calculate_tree (H:=little_endian_host) (EV:=evp) (Policy zero_list l) TPM2_ALG_SHA256 100%nat with
  | Ret (r, (_, (p, _))) => if r =? TSS2_RC_SUCCESS then result_digest p else None
  | Undef => None
  end.
Definition of_tpm (l : TPML_POLICYELEMENTS) : bytes :=
  Tpm.policy_digest (tpm_hash model) TPM2_ALG_SHA256 l.
End Toy.


(** The digest after PolicyPassword does not end with two zero bytes, so that
    PolicyOR does not give the digest of a TPM. *)
Definition or_second : TPML_POLICYELEMENTS :=
  [Toy.el PolicyPassword; Toy.el (PolicyOr [Toy.br [Toy.el PolicyPhysicalPresence]; Toy.br [Toy.el PolicyAuthValue]])].
Example policy_or_second_differs : exists d, Toy.calculated or_second = Some d /\ d <> Toy.of_tpm or_second.
Proof. eexists. split; [by vm_compute|by vm_compute]. Qed.

(** PolicyAuthorize does not reset the digest, as a TPM does. *)
Definition authorize_second : TPML_POLICYELEMENTS :=
  [Toy.el PolicyPassword; Toy.el (PolicyAuthorize (Policyauthorize (Toy.name 0) (Toy.name 4)))].
Example policy_authorize_second_differs : exists d,
  Toy.calculated authorize_second = Some d /\ d <> Toy.of_tpm authorize_second.
Proof. eexists. split; [by vm_compute|by vm_compute]. Qed.

(** A PCR that two banks select: the values of both are hashed for each bank. *)
Definition pcr_twice : TPML_POLICYELEMENTS :=
  [Toy.el (PolicyPCR (Policypcr [Toy.pcr_of TPM2_ALG_SHA1 7 1; Toy.pcr_of TPM2_ALG_SHA256 7 2]))].
Example policy_pcr_two_banks_differs : exists d,
  Toy.calculated pcr_twice = Some d /\ d <> Toy.of_tpm pcr_twice.
Proof. eexists. split; [by vm_compute|by vm_compute]. Qed.

(** After PolicyPassword the hash of PolicyOR starts with 30 bytes of zero and
    two bytes of the digest. *)
Definition password_digest : bytes := Toy.of_tpm [Toy.el PolicyPassword].
Definition password_list : TPML_DIGEST_VALUES :=
  MkTPML 1 (<[O := Mk_TPMT_HA TPM2_ALG_SHA256 (password_digest ++ replicate 32 0)]> (elems Toy.zero_list)).

Lemma password_at : at_idx TPM2_ALG_SHA256 0 password_list password_digest.
Proof.
  split; [done|]. split.
  - apply slot_insert; [by apply Toy.zero_slot|by vm_compute].
  - eexists. split; [done|]. split; [done|by vm_compute].
Qed.

Lemma policy_or_keeps_two_bytes_witness : exists s,
  ifapi_calculate_policy_or (H:=little_endian_host) (EV:=Toy.evp) [Policybranch password_list []] TPM2_ALG_SHA256 32 0
    (Pol 100%nat password_list (PolicyOr [])) = Ret (s, inr tt) /\
  at_idx TPM2_ALG_SHA256 0 (current_digest s)
    (tpm_hash Toy.model TPM2_ALG_SHA256
      ((replicate 30 0 ++ drop 30 password_digest) ++
       be_bytes 4 TPM2_CC_PolicyOR ++ concat [password_digest])).
Proof.
  destruct (ifapi_calculate_policy_or (H:=little_endian_host) (EV:=Toy.evp) [Policybranch password_list []] TPM2_ALG_SHA256 32 0
    (Pol 100%nat password_list (PolicyOr []))) as [[s [r|[]]]|] eqn:E;
    [vm_compute in E; discriminate E| |vm_compute in E; discriminate E].
  exists s. split; [done|].
  apply (policy_or_keeps_two_bytes (H:=little_endian_host) (L:=Toy.laws) Toy.model TPM2_ALG_SHA256 0 password_list
    password_digest [Policybranch password_list []] [password_digest] (PolicyOr []) 100%nat s);
    [done|exact password_at| |exact E].
  constructor; [exact password_at|constructor].
Defined.

Lemma policy_name_hash_overruns_witness :
  ifapi_calculate_policy_name_hash (H:=little_endian_host) (EV:=Toy.reliable_evp)
    (Policynamehash 3 [Toy.name 6; Toy.name 7; Toy.name 8] (MkTPM2B 0 (replicate 64 0)))
    TPM2_ALG_SHA256 (Pol 100%nat password_list PolicyOther) = Undef.
Proof.
  destruct (policy_name_hash_overruns (H:=little_endian_host) (L:=Toy.reliable_laws) Toy.reliable_model
    TPM2_ALG_SHA256 (Policynamehash 3 [Toy.name 6; Toy.name 7; Toy.name 8] (MkTPM2B 0 (replicate 64 0)))
    password_list PolicyOther 100%nat) as [E|(s & r & _ & [] & _)]; [done|done|done| |exact E].
  repeat constructor; by vm_compute.
Defined.
